(* ===== verification/_CoqProject ===== *)
-Q . S2P
Prelude.v
Cpu.v
Interrupt.v
Exception.v
Window.v
Tlb.v
Mmu.v
OpHelper.v
Dbg.v
IntMatrix.v
Clock.v
MxPic.v
Isa.v
IsaLookup.v
IsaCodec.v
Esp32s3Isa.v
TbFlags.v
Control.v
Arith.v
SoftFloat.v
Slots.v
Lanes.v
Tie.v
TieArith.v
TieShift.v
TieFft.v
FpStatus.v
LoadStore.v
TieMem.v
TieTable.v
TieFrame.v
TieInv.v
SpecialReg.v
SrTable.v
Decode.v
Privilege.v
Fpu.v
CoreInsn.v
FpInsn.v
OpTable.v
LibIsa.v
Execution.v
IsaPattern.v
IsaAsm.v
IsaModule.v
IsaDisas.v
S3Fields.v
S3Classes.v
S3Opcodes.v
S3Units.v
S3Decoders.v
S3Module.v
S3Disas.v
S3Exec.v
S3Alu.v
S3Branch.v
E32Isa.v
E32Fields.v
E32Classes.v
E32Opcodes.v
E32Decoders.v
E32Module.v
E32Exec.v
Gdb.v
Soc.v
Semi.v
Overlay.v
CoreIsaEsp.v
CoreIsaDiamond.v
CoreIsaTest.v
Cores.v
WideArith.v
BitOps.v
Job.v
JobTxns.v
