(* ===== verification/Prelude.v ===== *)
(** * Verification of the Xtensa processor emulation of the ESP32-S3 emulator

    The repository emulates the ESP32-S3, a two-core Xtensa LX7 system.  Its C
    code is the reference emulator under [src/tools/qemu-ref] (the Xtensa
    target of QEMU with the ESP32 and ESP32-S3 boards) and the soft-float
    library of the ROM stub, [src/tools/softfloat.c].  This development models
    the code that decides what a guest program observes, from the bytes of an
    instruction to the state of the chip, with the tables of the two ESP cores.

    ** How the parts interact

    A peripheral raises an input of the interrupt matrix (or of the MX
    distributor); the matrix drives the external lines of each core's
    interrupt controller, which keeps INTSET and computes the pending level;
    the CPU loop delivers the pending interrupt by entering its vector.  The
    translator fetches bytes, decodes them with the ISA library and the tables
    of the core, finds the entry of the opcode, sorts the slots of a bundle and
    emits the checks and the code of the instruction, specialised on the packed
    state of the block.  That code runs on the machine: registers and windows,
    memory through address translation, the floating-point and vector units,
    and the helpers for exceptions, timers, debug registers and TLBs.  The
    debugger, semihosting and the reset of the chip change the same state from
    the outside.

    ** Files

    Shared:
    - [Prelude]: machine integers, bit fields, arrays, the state monad with
      [cpu_loop_exit] and failed assertions, bit-level lemmas, tactics and hint
      databases.
    - [Cpu] ([cpu.h]): [CPUXtensaState], [XtensaConfig], option tests, interrupt
      level and ring.  Special registers are a function from their number; the
      effects on the emulator core (timers, TLB flushes, interrupt requests)
      are events appended to [trace].

    The processor:
    - [Interrupt] ([hw/xtensa/pic_cpu.c]): the recomputed level is the highest
      one that may interrupt, and the history of a line decides its bit.
    - [Exception] ([exc_helper.c]): raising and delivering exceptions and
      interrupts, WAITI, INTSET and INTCLEAR.
    - [Window] ([win_helper.c]): the abstract component is one flat file of
      [nareg] registers; rotation refines it, and overflow, underflow, ENTRY,
      RETW and MOVSP are described on it.
    - [Tlb], [Mmu] ([mmu_helper.c], [helper.c]): in every state the operations
      reach ([tlb_reachable]), a granted translation respects the attributes
      and the ring and, unless a way was resized with entries in it, keeps the
      page offset; the debug translation agrees
      with the one that refills the TLB, a failed one becomes the right
      exception.
    - [OpHelper] ([op_helper.c]): CCOUNT, CCOMPARE, ATOMCTL, MEMCTL.
    - [Dbg] ([dbg_helper.c]): breakpoints and watchpoints mirror the debug
      registers.

    The translator ([translate.c]); a [translate_*] definition is the
    computation the emitted code performs:
    - [TbFlags]: packing of the block state, unpacking into the disassembly
      context, and the guards emitted from it.
    - [Control]: jumps, calls, returns, loops and returns from exceptions.  Its
      theorems compose components: interrupt then RFI, exception then RFE,
      overflow then RFWO, underflow then RFWU, CALL-ENTRY-RETW, the passes of a
      loop.
    - [Arith], [CoreInsn], [LoadStore], [SpecialReg], [FpInsn]: the values and
      effects of the instructions; [LoadStore] has the machine (CPU, memory,
      monitor, floating-point and vector registers).
    - [SrTable], [OpTable]: the opcode tables as data; facts of whole tables
      (XSR exchanges, WSR then RSR, privilege flags).
    - [Slots]: the resources of the slots of a bundle and their topological
      sort; running the sorted slots one after the other is what the
      simultaneous bundle does; the sort ends inside its arrays, and is a
      permutation of the slots when their dependencies have no cycle.
    - [Decode], [Privilege]: [disas_xtensa_insn]; operands outside the window
      raise an overflow first, and a user program cannot reach a privileged
      register.
    - [LibIsa], [Execution] ([helper.c], [cpu.c]): binding the opcodes of a core
      to the tables; translation blocks, their execution, and reset.

    The vector unit of the ESP32-S3 ([translate_tie_esp32s3.c]):
    - [Lanes], [Tie], [TieArith], [TieShift], [TieFft]: the helpers on 128-bit
      registers and accumulators; [TieMem]: the instructions; [TieTable]: their
      opcode table and the operands the ISA module declares.
    - [TieFrame], [TieInv]: every instruction writes only what is declared,
      keeps the widths of the state, and leaves the address registers alone
      when it raises an exception (the accumulators it does not: a
      multiply-accumulate with a load has accumulated when the load faults).

    Floating point: [FpStatus] ([softfloat-types.h], [softfloat-helpers.h]),
    [Fpu] ([fpu_helper.c]); [SoftFloat] ([tools/softfloat.c]) is the library of
    the guest; [WideArith] ([host-utils.h], [softfloat-macros.h]) the multi-word
    arithmetic and the scaling of clocks; [BitOps] ([bitops.h]) bitmaps as sets,
    rotations, fields and shuffles of bits.

    Instruction sets:
    - [Isa], [IsaLookup], [IsaCodec] ([xtensa-isa.c]): queries with their error
      states, lookups, byte and operand codecs.
    - [IsaPattern], [IsaAsm], [IsaModule], [IsaDisas]: the shapes of the
      functions of an ISA module as data, the protocol of an assembler, the
      checks on a module ([core_check]) under which everything assembled is
      decoded back, by the library and by the translator.
    - [Esp32s3Isa], [S3Fields], [S3Classes], [S3Opcodes], [S3Units],
      [S3Decoders], [S3Module], [S3Disas], [S3Exec] and [E32Isa], [E32Fields],
      [E32Classes], [E32Opcodes], [E32Decoders], [E32Module], [E32Exec]: the
      tables and functions of the two modules
      ([core-*/xtensa-modules.inc.c]), and their instances of the theory.
    - [S3Alu], [S3Branch]: instructions from their bytes to their effect,
      through decoding, binding, translation and execution.
    - [Overlay] ([overlay_tool.h]), [CoreIsaEsp], [CoreIsaDiamond], [CoreIsaTest]
      ([core-*/core-isa.h]), [Cores]: the configuration of each core expanded
      from the macros of its header; all are well formed.

    The chip and its surroundings:
    - [IntMatrix] ([esp32s3_intc.c], [esp32_intc.c]), [Clock]
      ([esp32s3_clk.c]): routing of the sources and the cross-core interrupts,
      through a class [IrqSink] of which the board's wiring is the instance.
    - [MxPic] ([mx_pic.c]): the cached words and output lines are a function of
      the registers after every step.
    - [Soc] ([esp32.c], [esp32s3.c]): reset requests, reset, stalls, clocks; the
      cold reset of a device of another source is an argument, with the class
      [DeviceResets] of what it may do to the CPUs.
    - [Gdb] ([gdbstub.c]): what the debugger writes it reads back, and what the
      registers without access read as.
    - [Semi] ([xtensa-semi.c]): the SIMCALL services; the console is a queue and
      a write sends the bytes of the guest.
    - [Job], [JobTxns] ([job.c]): life cycle and transactions of the jobs of the
      emulator; what each member of a transaction decides, and when all of them
      end alike.

    ** Conventions, parameters and bounds

    A [w]-bit C integer is a [Z]; wrap-around is explicit ([u32], [u64],
    [lsl32], ...).  A helper is a function on its state with three outcomes: it
    returns, it leaves through [cpu_loop_exit], or an assertion fails.
    Arguments stand for code outside the repository: the lookup of an access by
    the emulator core ([softmmu]) and guest memory, the virtual clock, the
    acceptance of a watchpoint, the code generator's operations outside their
    specified range ([TcgOps]), the softfloat library ([Softfloat]), the host
    behind semihosting, peripherals and drivers, and the event loop that waits
    for a job.  Their laws are hypotheses or classes with concrete instances.

    Loops are recursive on a bound that covers every run: interrupt levels, TLB
    ways, MPU segments, 32 lines of the distributor, [length + 1] probes of the
    binary search (the range halves), the exponent or 64 for the normalisations
    of soft float, the count of a hardware loop, the nodes and edges of the
    slot graph ([tsort_terminates]), the length of a transfer of semihosting
    (a page step moves at least one byte), 16 nested macros of a configuration
    header, two corrections of the division estimate, and the members of a
    transaction.  Theorems of the processor hold for any configuration of the
    classes [WfNareg], [WfInterrupts], [WfTlb], which [Cores] shows of every
    core; witnesses use [esp32s3_config].

    ** Not modelled

    The ISA modules of the ten cores other than the ESP32 and the ESP32-S3 (the
    same generated shapes), the registration of types and properties in QEMU's
    object model, monitor and log output, the creation of board devices and
    loading of images, the block layer and command-line tools with their
    headers, which the tree keeps from QEMU but the emulation does not use, and
    the Rust, Go, Python and browser parts. *)

From stdpp Require Export base tactics list numbers option strings sorting pretty.
From Stdlib Require Export ZArith Lia Bool.

#[global] Open Scope Z_scope.

#[global] Arguments Z.testbit : simpl never.
#[global] Arguments Z.land : simpl never.
#[global] Arguments Z.lor : simpl never.
#[global] Arguments Z.lxor : simpl never.
#[global] Arguments Z.shiftr : simpl never.
#[global] Arguments Z.shiftl : simpl never.
#[global] Arguments Z.pow : simpl never.
#[global] Arguments Z.modulo : simpl never.
#[global] Arguments Z.div : simpl never.

(** ** Machine integers

    A [w]-bit unsigned C integer is a [Z]; the wrap-around of an operation
    that can leave the range is written out with [u32] / [u64]. *)

Declare Scope mach_scope.
Delimit Scope mach_scope with mach.

Definition u8 (x : Z) : Z := x mod 2 ^ 8.
Definition u32 (x : Z) : Z := x mod 2 ^ 32.
Definition u64 (x : Z) : Z := x mod 2 ^ 64.

(** The value of [(int32_t)x]. *)
Definition s32 (x : Z) : Z :=
  let y := u32 x in if y <? 2 ^ 31 then y else y - 2 ^ 32.

Notation "x '&&&' y" := (Z.land x y) (at level 40, left associativity) : mach_scope.
Notation "x '|||' y" := (Z.lor x y) (at level 50, left associativity) : mach_scope.
Notation "x '^^^' y" := (Z.lxor x y) (at level 45, left associativity) : mach_scope.
Notation "x '>>>' n" := (Z.shiftr x n) (at level 37, left associativity) : mach_scope.
#[global] Open Scope mach_scope.

(** [x << n] and [~x] on [uint32_t] and [uint64_t]. *)
Definition lsl32 (x n : Z) : Z := u32 (Z.shiftl x n).
Definition lsl64 (x n : Z) : Z := u64 (Z.shiftl x n).
Definition not32 (x : Z) : Z := u32 (Z.lnot x).
Definition not64 (x : Z) : Z := u64 (Z.lnot x).

(** The C truth value of an integer, and of a comparison used as an integer. *)
Definition truthy (x : Z) : bool := negb (x =? 0).
Definition b2z (b : bool) : Z := if b then 1 else 0.

Definition in32 (x : Z) : Prop := 0 <= x < 2 ^ 32.
Definition in64 (x : Z) : Prop := 0 <= x < 2 ^ 64.

(** ** Bit fields ([include/qemu/bitops.h], [include/qemu/host-utils.h]) *)

Definition extract32 (value start length : Z) : Z :=
  (value >>> start) &&& (0xffffffff >>> (32 - length)).

Definition deposit32 (value start length fieldval : Z) : Z :=
  let mask := lsl32 (0xffffffff >>> (32 - length)) start in
  (value &&& not32 mask) ||| (lsl32 fieldval start &&& mask).

Fixpoint pos_ctz (p : positive) : Z :=
  match p with
  | xO q => 1 + pos_ctz q
  | _ => 0
  end.

Definition ctz32 (v : Z) : Z :=
  match v with
  | Zpos p => pos_ctz p
  | _ => 32
  end.

Definition clz32 (v : Z) : Z := if v =? 0 then 32 else 31 - Z.log2 v.
Definition clo32 (v : Z) : Z := clz32 (not32 v).

(** ** Arrays

    A C array whose index the code keeps in range by construction is a list
    read with [nthZ] and written with [setZ]; a register file addressed by
    enumerators is a total function updated with [fupd]. *)

Definition nthZ (l : list Z) (i : Z) : Z := l !!! Z.to_nat i.
Definition setZ {A} (l : list A) (i : Z) (v : A) : list A := <[Z.to_nat i := v]> l.

Definition fupd {A} (f : Z -> A) (k : Z) (v : A) : Z -> A :=
  fun i => if i =? k then v else f i.

Definition fupd2 {A} (f : Z -> Z -> A) (k l : Z) (v : A) : Z -> Z -> A :=
  fun i j => if (i =? k) && (j =? l) then v else f i j.

(** [memcpy(dst + d, src + s, n * sizeof(elem))] *)
Definition memcpy {A} (dst : list A) (d : Z) (src : list A) (s n : Z) : list A :=
  list_inserts (Z.to_nat d) (take (Z.to_nat n) (drop (Z.to_nat s) src)) dst.

(** ** Effects

    A helper runs on a state and either returns, leaves through
    [cpu_loop_exit] (a [longjmp], the state is kept), or stops on a failed
    [assert]. *)

Inductive outcome (S A : Type) : Type :=
| Done (a : A) (s : S)
| LoopExit (s : S)
| AssertFail.
Arguments Done {S A} a s.
Arguments LoopExit {S A} s.
Arguments AssertFail {S A}.

Definition M (S A : Type) : Type := S -> outcome S A.

Definition ret {S A} (a : A) : M S A := fun s => Done a s.
Definition bind {S A B} (m : M S A) (k : A -> M S B) : M S B :=
  fun s =>
    match m s with
    | Done a s' => k a s'
    | LoopExit s' => LoopExit s'
    | AssertFail => AssertFail
    end.
Definition get {S} : M S S := fun s => Done s s.
Definition gets {S A} (f : S -> A) : M S A := fun s => Done (f s) s.
Definition modify {S} (f : S -> S) : M S unit := fun s => Done tt (f s).
Definition massert {S} (b : bool) : M S unit :=
  fun s => if b then Done tt s else AssertFail.
Definition loop_exit {S A} : M S A := fun s => LoopExit s.

Declare Scope cmd_scope.
Delimit Scope cmd_scope with cmd.
Notation "x <- m ;; k" := (bind m (fun x => k))
  (at level 100, m at next level, right associativity) : cmd_scope.
Notation "m ;; k" := (bind m (fun _ => k))
  (at level 100, k at level 200, right associativity) : cmd_scope.
#[global] Open Scope cmd_scope.

Definition when {S} (b : bool) (m : M S unit) : M S unit :=
  if b then m else ret tt.

(** [for (i = lo; i < lo + n; ++i) body(i)] *)
Definition for_range {S} (lo n : Z) (body : Z -> M S unit) : M S unit :=
  foldr (fun i k => body i ;; k) (ret tt) (seqZ lo n).

(** The state a computation ends in, whether it returned or left the loop. *)
Definition final {S A} (o : outcome S A) : option S :=
  match o with
  | Done _ s | LoopExit s => Some s
  | AssertFail => None
  end.

(** ** Bit-level reasoning *)

Create Rewrite HintDb bits.

Lemma mod_pow2_testbit (w x i : Z) :
  0 <= w -> 0 <= i -> Z.testbit (x mod 2 ^ w) i = (i <? w) && Z.testbit x i.
Proof.
  intros Hw Hi. destruct (Z.ltb_spec i w); simpl.
  - by rewrite Z.mod_pow2_bits_low by lia.
  - by rewrite Z.mod_pow2_bits_high by lia.
Qed.

Lemma u32_testbit (x i : Z) :
  0 <= i -> Z.testbit (u32 x) i = (i <? 32) && Z.testbit x i.
Proof. intros. unfold u32. by rewrite mod_pow2_testbit by lia. Qed.

Lemma u64_testbit (x i : Z) :
  0 <= i -> Z.testbit (u64 x) i = (i <? 64) && Z.testbit x i.
Proof. intros. unfold u64. by rewrite mod_pow2_testbit by lia. Qed.

Lemma u8_testbit (x i : Z) :
  0 <= i -> Z.testbit (u8 x) i = (i <? 8) && Z.testbit x i.
Proof. intros. unfold u8. by rewrite mod_pow2_testbit by lia. Qed.

Lemma lsl32_testbit (x n i : Z) :
  0 <= i -> Z.testbit (lsl32 x n) i = (i <? 32) && Z.testbit x (i - n).
Proof. intros. unfold lsl32. rewrite u32_testbit by done. by rewrite Z.shiftl_spec. Qed.

Lemma lsl64_testbit (x n i : Z) :
  0 <= i -> Z.testbit (lsl64 x n) i = (i <? 64) && Z.testbit x (i - n).
Proof. intros. unfold lsl64. rewrite u64_testbit by done. by rewrite Z.shiftl_spec. Qed.

Lemma not32_testbit (x i : Z) :
  0 <= i -> Z.testbit (not32 x) i = (i <? 32) && negb (Z.testbit x i).
Proof. intros. unfold not32. rewrite u32_testbit by done. by rewrite Z.lnot_spec. Qed.

Lemma ones_testbit (n i : Z) :
  0 <= n -> 0 <= i -> Z.testbit (2 ^ n - 1) i = (i <? n).
Proof.
  intros. replace (2 ^ n - 1) with (Z.ones n) by (rewrite Z.ones_equiv; lia).
  destruct (Z.ltb_spec i n); [by apply Z.ones_spec_low|by apply Z.ones_spec_high].
Qed.

Lemma pow2_testbit (n i : Z) : 0 <= n -> Z.testbit (2 ^ n) i = (i =? n).
Proof. intros. rewrite Z.pow2_bits_eqb by done. apply Z.eqb_sym. Qed.

Lemma one_testbit (i : Z) : Z.testbit 1 i = (i =? 0).
Proof. change 1 with (2 ^ 0). by rewrite pow2_testbit. Qed.

#[export] Hint Rewrite Z.land_spec Z.lor_spec Z.lxor_spec Z.ldiff_spec
  Z.testbit_0_l one_testbit : bits.
#[export] Hint Rewrite Z.shiftr_spec Z.shiftl_spec Z.lnot_spec u8_testbit u32_testbit
  u64_testbit lsl32_testbit lsl64_testbit not32_testbit ones_testbit pow2_testbit
  using lia : bits.

(** Prove an equation between integers bit by bit. *)
Ltac zbits :=
  apply Z.bits_inj'; let i := fresh "i" in let Hi := fresh "Hi" in
  intros i Hi; autorewrite with bits.

(** Case-split the boolean comparisons of a bit goal and use [lia]. *)
Ltac cmp_split :=
  repeat match goal with
  | |- context [Z.ltb ?a ?b] => destruct (Z.ltb_spec a b)
  | |- context [Z.leb ?a ?b] => destruct (Z.leb_spec a b)
  | |- context [Z.eqb ?a ?b] => destruct (Z.eqb_spec a b)
  end.

Ltac bool_simpl :=
  simpl; rewrite ?andb_false_r, ?andb_true_r, ?orb_false_r, ?orb_true_r; simpl.

Lemma testbit_above (n x i : Z) :
  0 <= x < 2 ^ n -> n <= i -> Z.testbit x i = false.
Proof.
  intros Hx Hi. destruct (Z.leb_spec 0 n).
  - rewrite <- (Z.mod_small x (2 ^ n)) by lia. apply Z.mod_pow2_bits_high; lia.
  - rewrite Z.pow_neg_r in Hx; lia.
Qed.

Lemma in32_testbit (x i : Z) : in32 x -> 32 <= i -> Z.testbit x i = false.
Proof. intros; eapply testbit_above; eauto. Qed.

Lemma bounded_by_testbit (w x : Z) :
  0 <= w -> 0 <= x -> (forall i, w <= i -> Z.testbit x i = false) -> x < 2 ^ w.
Proof.
  intros Hw Hx Hb. destruct (decide (x = 0)) as [->|]; [apply Z.pow_pos_nonneg; lia|].
  apply Z.log2_lt_pow2; [lia|]. apply Z.nle_gt. intros Hle.
  specialize (Hb _ Hle). rewrite Z.bit_log2 in Hb; [done|lia].
Qed.

Lemma u32_bounds (x : Z) : 0 <= u32 x < 2 ^ 32.
Proof. apply Z.mod_pos_bound. lia. Qed.
Lemma u64_bounds (x : Z) : 0 <= u64 x < 2 ^ 64.
Proof. apply Z.mod_pos_bound. lia. Qed.
Lemma u32_small (x : Z) : in32 x -> u32 x = x.
Proof. apply Z.mod_small. Qed.
Lemma u64_small (x : Z) : in64 x -> u64 x = x.
Proof. apply Z.mod_small. Qed.
Lemma u32_in32 (x : Z) : in32 (u32 x).
Proof. apply u32_bounds. Qed.

Lemma u32_add_r (x y : Z) : u32 (x + u32 y) = u32 (x + y).
Proof. unfold u32. apply Zplus_mod_idemp_r. Qed.
Lemma u32_add_l (x y : Z) : u32 (u32 x + y) = u32 (x + y).
Proof. unfold u32. apply Zplus_mod_idemp_l. Qed.
Lemma u32_sub_r (x y : Z) : u32 (x - u32 y) = u32 (x - y).
Proof. unfold u32. apply Zminus_mod_idemp_r. Qed.
Lemma u32_sub_l (x y : Z) : u32 (u32 x - y) = u32 (x - y).
Proof. unfold u32. apply Zminus_mod_idemp_l. Qed.
Lemma u32_u64 (x : Z) : u32 (u64 x) = u32 x.
Proof.
  unfold u32, u64. replace (2 ^ 64) with (2 ^ 32 * 2 ^ 32) by done.
  rewrite Z.rem_mul_r by lia. rewrite Z.mul_comm, Z.mod_add by lia. by rewrite Z.mod_mod by lia.
Qed.

Lemma land_nonneg_r (x m : Z) : 0 <= m -> 0 <= x &&& m.
Proof. intros. apply Z.land_nonneg. by right. Qed.

Lemma land_range (w x m : Z) : 0 <= m < 2 ^ w -> 0 <= x &&& m < 2 ^ w.
Proof.
  intros Hm. assert (0 <= w).
  { destruct (Z.leb_spec 0 w); [done|]. rewrite Z.pow_neg_r in Hm; lia. }
  split; [apply land_nonneg_r; lia|]. apply bounded_by_testbit; [lia|apply land_nonneg_r; lia|].
  intros i Hi. rewrite Z.land_spec, (testbit_above w m) by lia. apply andb_false_r.
Qed.

Lemma lor_range (w x y : Z) :
  0 <= x < 2 ^ w -> 0 <= y < 2 ^ w -> 0 <= x ||| y < 2 ^ w.
Proof.
  intros Hx Hy. assert (0 <= w).
  { destruct (Z.leb_spec 0 w); [done|]. rewrite Z.pow_neg_r in Hx; lia. }
  split; [apply Z.lor_nonneg; lia|]. apply bounded_by_testbit; [lia|apply Z.lor_nonneg; lia|].
  intros i Hi. by rewrite Z.lor_spec, (testbit_above w x), (testbit_above w y) by lia.
Qed.

Lemma lxor_range (w x y : Z) :
  0 <= x < 2 ^ w -> 0 <= y < 2 ^ w -> 0 <= x ^^^ y < 2 ^ w.
Proof.
  intros Hx Hy. assert (0 <= w).
  { destruct (Z.leb_spec 0 w); [done|]. rewrite Z.pow_neg_r in Hx; lia. }
  assert (0 <= x ^^^ y) by (apply Z.lxor_nonneg; lia).
  split; [done|]. apply bounded_by_testbit; [lia|done|].
  intros i Hi. by rewrite Z.lxor_spec, (testbit_above w x), (testbit_above w y) by lia.
Qed.

Lemma shiftr_range (w x n : Z) : 0 <= n -> 0 <= x < 2 ^ w -> 0 <= x >>> n < 2 ^ w.
Proof.
  intros Hn Hx. rewrite Z.shiftr_div_pow2 by done.
  assert (0 < 2 ^ n) by (apply Z.pow_pos_nonneg; lia).
  split; [apply Z.div_pos; lia|]. apply Z.le_lt_trans with x; [|lia].
  apply Z.div_le_upper_bound; nia.
Qed.

Lemma land_ones_mod (x n : Z) : 0 <= n -> x &&& (2 ^ n - 1) = x mod 2 ^ n.
Proof.
  intros. rewrite <- Z.land_ones by done. f_equal. rewrite Z.ones_equiv; lia.
Qed.

(** Masks [~(2^k - 1)] at 32 bits. *)
Lemma not32_pow (k : Z) : 0 <= k <= 32 -> not32 (2 ^ 32 - 2 ^ k) = 2 ^ k - 1.
Proof.
  intros Hk. unfold not32, u32, Z.lnot.
  assert (0 < 2 ^ k) by (apply Z.pow_pos_nonneg; lia).
  assert (2 ^ k <= 2 ^ 32) by (apply Z.pow_le_mono_r; lia).
  replace (Z.pred (- (2 ^ 32 - 2 ^ k))) with (2 ^ k - 1 + -1 * 2 ^ 32) by lia.
  rewrite Z.mod_add by lia. rewrite Z.mod_small; lia.
Qed.

Lemma high_mask_testbit (k i : Z) :
  0 <= k <= 32 -> 0 <= i -> Z.testbit (2 ^ 32 - 2 ^ k) i = (k <=? i) && (i <? 32).
Proof.
  intros Hk Hi. assert (H1 : 0 < 2 ^ k) by (apply Z.pow_pos_nonneg; lia).
  assert (H2 : 2 ^ k <= 2 ^ 32) by (apply Z.pow_le_mono_r; lia).
  pose proof (not32_testbit (2 ^ 32 - 2 ^ k) i Hi) as Hn.
  rewrite not32_pow, ones_testbit in Hn by lia.
  destruct (Z.ltb_spec i 32); simpl in Hn.
  - rewrite andb_true_r. destruct (Z.testbit _ i), (Z.ltb_spec i k), (Z.leb_spec k i);
      simpl in *; try done; lia.
  - rewrite andb_false_r. apply (testbit_above 32); lia.
Qed.

Lemma land_high_mask (x k : Z) :
  0 <= k <= 32 -> in32 x -> x &&& (2 ^ 32 - 2 ^ k) = x - x mod 2 ^ k.
Proof.
  intros Hk Hx.
  assert (E : x - x mod 2 ^ k = Z.ldiff x (2 ^ k - 1)).
  { rewrite <- land_ones_mod by lia. symmetry. rewrite <- (Z.lor_ldiff_and x (2 ^ k - 1)) at 2.
    rewrite <- Z.lxor_lor, <- Z.add_nocarry_lxor.
    - lia.
    - zbits. by destruct (Z.testbit x i), (i <? k).
    - zbits. by destruct (Z.testbit x i), (i <? k). }
  rewrite E. zbits. rewrite high_mask_testbit by lia.
  destruct (Z.ltb_spec i k), (Z.leb_spec k i), (Z.ltb_spec i 32); try lia; simpl;
    rewrite ?andb_true_r, ?andb_false_r; try done.
  symmetry. by apply in32_testbit.
Qed.

Lemma in32_land (x m : Z) : in32 m -> in32 (x &&& m).
Proof. intros; by apply (land_range 32). Qed.
Lemma in32_land_l (x m : Z) : in32 x -> in32 (x &&& m).
Proof. intros; rewrite Z.land_comm; by apply (land_range 32). Qed.
Lemma in32_lor (x y : Z) : in32 x -> in32 y -> in32 (x ||| y).
Proof. intros; by apply (lor_range 32). Qed.
Lemma in32_lxor (x y : Z) : in32 x -> in32 y -> in32 (x ^^^ y).
Proof. intros; by apply (lxor_range 32). Qed.
Lemma in32_shiftr (x n : Z) : 0 <= n -> in32 x -> in32 (x >>> n).
Proof. intros; by apply (shiftr_range 32). Qed.

Create HintDb mach discriminated.
#[export] Hint Resolve u32_in32 in32_land in32_land_l in32_lor in32_lxor in32_shiftr : mach.
#[export] Hint Unfold lsl32 not32 : mach.

Lemma in32_lsl32 (x n : Z) : in32 (lsl32 x n).
Proof. apply u32_in32. Qed.
Lemma in32_not32 (x : Z) : in32 (not32 x).
Proof. apply u32_in32. Qed.
#[export] Hint Resolve in32_lsl32 in32_not32 : mach.
#[export] Hint Extern 1 (in32 (Zpos _)) => (unfold in32; lia) : mach.
#[export] Hint Extern 1 (in32 Z0) => (unfold in32; lia) : mach.

Lemma truthy_true (x : Z) : truthy x = true <-> x <> 0.
Proof. unfold truthy. rewrite negb_true_iff, Z.eqb_neq. done. Qed.
Lemma truthy_false (x : Z) : truthy x = false <-> x = 0.
Proof. unfold truthy. rewrite negb_false_iff, Z.eqb_eq. done. Qed.

Lemma land_pow2 (x n : Z) :
  0 <= n -> x &&& 2 ^ n = if Z.testbit x n then 2 ^ n else 0.
Proof.
  intros. zbits. destruct (Z.testbit x n) eqn:E; autorewrite with bits.
  - destruct (Z.eqb_spec i n) as [->|]; [by rewrite E|]. apply andb_false_r.
  - destruct (Z.eqb_spec i n) as [->|]; [by rewrite E|]. apply andb_false_r.
Qed.

(** [x & (1 << n)] tests bit [n]. *)
Lemma truthy_land_pow2 (x n : Z) : 0 <= n -> truthy (x &&& 2 ^ n) = Z.testbit x n.
Proof.
  intros. rewrite land_pow2 by done. destruct (Z.testbit x n); [|done].
  apply truthy_true. apply Z.pow_nonzero; lia.
Qed.

Lemma lsl32_1 (n : Z) : 0 <= n < 32 -> lsl32 1 n = 2 ^ n.
Proof.
  intros. unfold lsl32. rewrite Z.shiftl_1_l. apply u32_small.
  split; [apply Z.pow_nonneg; lia|apply Z.pow_lt_mono_r; lia].
Qed.

Lemma truthy_land_bit (x n : Z) :
  0 <= n < 32 -> truthy (x &&& lsl32 1 n) = Z.testbit x n.
Proof. intros. rewrite lsl32_1 by lia. by apply truthy_land_pow2; lia. Qed.

Lemma land_zero_iff (x y : Z) :
  x &&& y = 0 <-> forall i, 0 <= i -> Z.testbit x i && Z.testbit y i = false.
Proof.
  split.
  - intros E i Hi. by rewrite <- Z.land_spec, E, Z.testbit_0_l.
  - intros E. zbits. by apply E.
Qed.

Lemma land_nonzero_testbit (x y : Z) :
  x &&& y <> 0 -> 0 <= x -> exists i, 0 <= i /\ Z.testbit x i = true /\ Z.testbit y i = true.
Proof.
  intros E Hx. assert (Hn : 0 <= x &&& y) by (apply Z.land_nonneg; by left).
  exists (Z.log2 (x &&& y)). split; [apply Z.log2_nonneg|].
  apply andb_true_iff. rewrite <- Z.land_spec. apply Z.bit_log2. lia.
Qed.

(** ** Trailing zeros *)

Lemma pos_ctz_nonneg (p : positive) : 0 <= pos_ctz p.
Proof. induction p; simpl; lia. Qed.

Lemma pos_ctz_spec (p : positive) :
  Z.testbit (Zpos p) (pos_ctz p) = true /\
  forall i, i < pos_ctz p -> Z.testbit (Zpos p) i = false.
Proof.
  induction p as [p IH|p IH|]; simpl pos_ctz.
  - split; [done|]. intros i Hi. by apply Z.testbit_neg_r.
  - pose proof (pos_ctz_nonneg p). destruct IH as [IH1 IH2].
    rewrite (Pos2Z.inj_xO p). split.
    + rewrite Z.add_comm, Z.add_1_r, Z.testbit_even_succ by lia. done.
    + intros i Hi. destruct (Z.eqb_spec i 0) as [->|]; [by rewrite Z.testbit_even_0|].
      destruct (Z.ltb_spec i 0); [by apply Z.testbit_neg_r|].
      replace i with (Z.succ (i - 1)) by lia. rewrite Z.testbit_even_succ by lia.
      apply IH2. lia.
  - split; [done|]. intros i Hi. by apply Z.testbit_neg_r.
Qed.

Lemma ctz32_spec (v : Z) :
  0 < v < 2 ^ 32 ->
  0 <= ctz32 v < 32 /\ Z.testbit v (ctz32 v) = true /\
  forall i, i < ctz32 v -> Z.testbit v i = false.
Proof.
  intros Hv. destruct v as [|p|p]; try lia. simpl ctz32.
  destruct (pos_ctz_spec p) as [H1 H2]. pose proof (pos_ctz_nonneg p).
  split; [|done]. split; [done|]. apply Z.nle_gt. intros Hle.
  rewrite (in32_testbit (Zpos p)) in H1; [done|unfold in32; lia|done].
Qed.

(** [ctz32] is the least set bit. *)
Lemma ctz32_unique (v n : Z) :
  0 < v < 2 ^ 32 -> 0 <= n -> Z.testbit v n = true ->
  (forall i, 0 <= i < n -> Z.testbit v i = false) -> ctz32 v = n.
Proof.
  intros Hv Hn Ht Hl. destruct (ctz32_spec v Hv) as (Hb & Hc & Hlow).
  destruct (Z.lt_trichotomy (ctz32 v) n) as [H|[H|H]]; [|done|].
  - rewrite Hl in Hc; [done|lia].
  - rewrite Hlow in Ht; [done|lia].
Qed.

(** ** Arrays *)

Lemma fupd_eq {A} (f : Z -> A) k v : fupd f k v k = v.
Proof. unfold fupd. by rewrite Z.eqb_refl. Qed.
Lemma fupd_ne {A} (f : Z -> A) k v i : i <> k -> fupd f k v i = f i.
Proof. intros. unfold fupd. destruct (Z.eqb_spec i k); [lia|done]. Qed.

Lemma fupd2_eq {A} (f : Z -> Z -> A) k l v : fupd2 f k l v k l = v.
Proof. unfold fupd2. by rewrite !Z.eqb_refl. Qed.
Lemma fupd2_ne {A} (f : Z -> Z -> A) k l v i j :
  i <> k \/ j <> l -> fupd2 f k l v i j = f i j.
Proof.
  intros. unfold fupd2. destruct (Z.eqb_spec i k), (Z.eqb_spec j l); simpl; try done; lia.
Qed.

Lemma nthZ_setZ_eq (l : list Z) i v :
  0 <= i < Z.of_nat (length l) -> nthZ (setZ l i v) i = v.
Proof. intros. unfold nthZ, setZ. apply list_lookup_total_insert_eq. lia. Qed.
Lemma nthZ_setZ_ne (l : list Z) i j v :
  0 <= i -> 0 <= j -> i <> j -> nthZ (setZ l i v) j = nthZ l j.
Proof. intros. unfold nthZ, setZ. apply list_lookup_total_insert_ne. lia. Qed.
Lemma length_setZ {A} (l : list A) i v : length (setZ l i v) = length l.
Proof. apply length_insert. Qed.

Create Rewrite HintDb arr.
#[export] Hint Rewrite @fupd_eq @fupd2_eq @length_setZ : arr.
#[export] Hint Rewrite @fupd_ne using lia : arr.

Lemma length_memcpy {A} (dst src : list A) d s n :
  length (memcpy dst d src s n) = length dst.
Proof. apply length_inserts. Qed.

Lemma nthZ_memcpy (dst src : list Z) d s n i :
  0 <= d -> 0 <= s -> 0 <= n -> 0 <= i < Z.of_nat (length dst) ->
  d + n <= Z.of_nat (length dst) -> s + n <= Z.of_nat (length src) ->
  nthZ (memcpy dst d src s n) i =
    if (d <=? i) && (i <? d + n) then nthZ src (i - d + s) else nthZ dst i.
Proof.
  intros. unfold nthZ, memcpy. rewrite !list_lookup_total_alt.
  assert (Hl : length (take (Z.to_nat n) (drop (Z.to_nat s) src)) = Z.to_nat n).
  { rewrite length_take, length_drop. lia. }
  destruct (Z.leb_spec d i), (Z.ltb_spec i (d + n)); simpl.
  - rewrite list_lookup_inserts by lia.
    rewrite lookup_take_lt, lookup_drop by lia. f_equal. f_equal. lia.
  - rewrite list_lookup_inserts_ge; [done|lia].
  - rewrite list_lookup_inserts_lt; [done|lia].
  - rewrite list_lookup_inserts_lt; [done|lia].
Qed.

Lemma nthZ_list_eq (l1 l2 : list Z) :
  length l1 = length l2 ->
  (forall j, 0 <= j < Z.of_nat (length l1) -> nthZ l1 j = nthZ l2 j) -> l1 = l2.
Proof.
  intros Hl Hn. apply list_eq_same_length with (length l1); [done..|].
  intros i x y Hi Hx Hy. specialize (Hn (Z.of_nat i) ltac:(lia)). unfold nthZ in Hn.
  rewrite Nat2Z.id in Hn. rewrite (list_lookup_total_correct _ _ _ Hx) in Hn.
  by rewrite (list_lookup_total_correct _ _ _ Hy) in Hn.
Qed.

(** ** Loops *)

Lemma for_range_empty {S} lo n (body : Z -> M S unit) s :
  n <= 0 -> for_range lo n body s = Done tt s.
Proof. intros. unfold for_range. by rewrite seqZ_nil by lia. Qed.

Lemma for_range_step {S} lo n (body : Z -> M S unit) s :
  0 < n ->
  for_range lo n body s = bind (body lo) (fun _ => for_range (lo + 1) (n - 1) body) s.
Proof.
  intros. unfold for_range. rewrite seqZ_cons by lia. simpl.
  rewrite <- Z.add_1_r, <- Z.sub_1_r. done.
Qed.

(** Invariant rule for a counted loop whose body always returns. *)
Lemma for_range_inv {S} (I : Z -> S -> Prop) lo n (body : Z -> M S unit) s :
  0 <= n -> I lo s ->
  (forall i s, lo <= i < lo + n -> I i s ->
     exists s', body i s = Done tt s' /\ I (i + 1) s') ->
  exists s', for_range lo n body s = Done tt s' /\ I (lo + n) s'.
Proof.
  intros Hn. revert lo s. replace n with (Z.of_nat (Z.to_nat n)) by lia.
  generalize (Z.to_nat n) as k. induction k as [|k IH]; intros lo s HI Hstep.
  - exists s. rewrite for_range_empty by lia. rewrite Z.add_0_r. done.
  - destruct (Hstep lo s) as (s1 & E1 & HI1); [lia|done|].
    destruct (IH (lo + 1) s1 HI1) as (s2 & E2 & HI2).
    { intros i s' Hi. apply Hstep. lia. }
    exists s2. rewrite for_range_step by lia. unfold bind. rewrite E1.
    replace (Z.of_nat (Datatypes.S k) - 1) with (Z.of_nat k) by lia.
    split; [done|]. by replace (lo + Z.of_nat (Datatypes.S k)) with (lo + 1 + Z.of_nat k) by lia.
Qed.

(** ** General tactics *)

(** Turn boolean facts into the propositions they decide. *)
Ltac bprop :=
  repeat match goal with
  | H : _ && _ = true |- _ => apply andb_true_iff in H as [? ?]
  | H : _ || _ = false |- _ => apply orb_false_iff in H as [? ?]
  | H : negb _ = true |- _ => apply negb_true_iff in H
  | H : negb _ = false |- _ => apply negb_false_iff in H
  | H : Z.eqb _ _ = true |- _ => apply Z.eqb_eq in H
  | H : Z.eqb _ _ = false |- _ => apply Z.eqb_neq in H
  | H : Z.ltb _ _ = true |- _ => apply Z.ltb_lt in H
  | H : Z.ltb _ _ = false |- _ => apply Z.ltb_ge in H
  | H : Z.leb _ _ = true |- _ => apply Z.leb_le in H
  | H : Z.leb _ _ = false |- _ => apply Z.leb_gt in H
  | H : truthy _ = true |- _ => apply truthy_true in H
  | H : truthy _ = false |- _ => apply truthy_false in H
  end.

(** Case-split every conditional of the goal, keeping what it decided. *)
Ltac if_split :=
  repeat match goal with
  | |- context [if ?b then _ else _] =>
      lazymatch type of b with bool => destruct b eqn:? end
  end; bprop.
