(* ===== verification/Cpu.v ===== *)
(** * CPU state and configuration ([target/xtensa/cpu.h])

    The enumerators, the core configuration, the architectural state that the
    helpers share, and the inline accessors of the header.  The configuration
    of the ESP32-S3 core is the instance built by [overlay_tool.h] from
    [core-esp32s3/core-isa.h]. *)

From S2P Require Import Prelude.

(** ** Core options: [enum { XTENSA_OPTION_... }] *)

Inductive xtensa_option :=
| OPTION_CODE_DENSITY | OPTION_LOOP | OPTION_EXTENDED_L32R | OPTION_16_BIT_IMUL
| OPTION_32_BIT_IMUL | OPTION_32_BIT_IMUL_HIGH | OPTION_32_BIT_IDIV | OPTION_MAC16
| OPTION_MISC_OP_NSA | OPTION_MISC_OP_MINMAX | OPTION_MISC_OP_SEXT | OPTION_MISC_OP_CLAMPS
| OPTION_COPROCESSOR | OPTION_BOOLEAN | OPTION_FP_COPROCESSOR | OPTION_DFP_COPROCESSOR
| OPTION_DFPU_SINGLE_ONLY | OPTION_MP_SYNCHRO | OPTION_CONDITIONAL_STORE | OPTION_ATOMCTL
| OPTION_DEPBITS | OPTION_EXCEPTION | OPTION_RELOCATABLE_VECTOR
| OPTION_UNALIGNED_EXCEPTION | OPTION_INTERRUPT | OPTION_HIGH_PRIORITY_INTERRUPT
| OPTION_TIMER_INTERRUPT | OPTION_ICACHE | OPTION_ICACHE_TEST | OPTION_ICACHE_INDEX_LOCK
| OPTION_DCACHE | OPTION_DCACHE_TEST | OPTION_DCACHE_INDEX_LOCK | OPTION_IRAM | OPTION_IROM
| OPTION_DRAM | OPTION_DROM | OPTION_XLMI | OPTION_HW_ALIGNMENT | OPTION_MEMORY_ECC_PARITY
| OPTION_REGION_PROTECTION | OPTION_REGION_TRANSLATION | OPTION_MPU | OPTION_MMU
| OPTION_CACHEATTR | OPTION_WINDOWED_REGISTER | OPTION_PROCESSOR_INTERFACE
| OPTION_MISC_SR | OPTION_THREAD_POINTER | OPTION_PROCESSOR_ID | OPTION_DEBUG
| OPTION_TRACE_PORT | OPTION_EXTERN_REGS.

Definition option_number (o : xtensa_option) : Z :=
  match o with
  | OPTION_CODE_DENSITY => 0 | OPTION_LOOP => 1 | OPTION_EXTENDED_L32R => 2
  | OPTION_16_BIT_IMUL => 3 | OPTION_32_BIT_IMUL => 4 | OPTION_32_BIT_IMUL_HIGH => 5
  | OPTION_32_BIT_IDIV => 6 | OPTION_MAC16 => 7 | OPTION_MISC_OP_NSA => 8
  | OPTION_MISC_OP_MINMAX => 9 | OPTION_MISC_OP_SEXT => 10 | OPTION_MISC_OP_CLAMPS => 11
  | OPTION_COPROCESSOR => 12 | OPTION_BOOLEAN => 13 | OPTION_FP_COPROCESSOR => 14
  | OPTION_DFP_COPROCESSOR => 15 | OPTION_DFPU_SINGLE_ONLY => 16 | OPTION_MP_SYNCHRO => 17
  | OPTION_CONDITIONAL_STORE => 18 | OPTION_ATOMCTL => 19 | OPTION_DEPBITS => 20
  | OPTION_EXCEPTION => 21 | OPTION_RELOCATABLE_VECTOR => 22
  | OPTION_UNALIGNED_EXCEPTION => 23 | OPTION_INTERRUPT => 24
  | OPTION_HIGH_PRIORITY_INTERRUPT => 25 | OPTION_TIMER_INTERRUPT => 26
  | OPTION_ICACHE => 27 | OPTION_ICACHE_TEST => 28 | OPTION_ICACHE_INDEX_LOCK => 29
  | OPTION_DCACHE => 30 | OPTION_DCACHE_TEST => 31 | OPTION_DCACHE_INDEX_LOCK => 32
  | OPTION_IRAM => 33 | OPTION_IROM => 34 | OPTION_DRAM => 35 | OPTION_DROM => 36
  | OPTION_XLMI => 37 | OPTION_HW_ALIGNMENT => 38 | OPTION_MEMORY_ECC_PARITY => 39
  | OPTION_REGION_PROTECTION => 40 | OPTION_REGION_TRANSLATION => 41 | OPTION_MPU => 42
  | OPTION_MMU => 43 | OPTION_CACHEATTR => 44 | OPTION_WINDOWED_REGISTER => 45
  | OPTION_PROCESSOR_INTERFACE => 46 | OPTION_MISC_SR => 47 | OPTION_THREAD_POINTER => 48
  | OPTION_PROCESSOR_ID => 49 | OPTION_DEBUG => 50 | OPTION_TRACE_PORT => 51
  | OPTION_EXTERN_REGS => 52
  end.

(** ** Special register numbers *)

Abbreviation LBEG := 0 (only parsing).
Abbreviation LEND := 1 (only parsing).
Abbreviation LITBASE := 5 (only parsing).
Abbreviation WINDOW_BASE := 72 (only parsing).
Abbreviation WINDOW_START := 73 (only parsing).
Abbreviation PTEVADDR := 83 (only parsing).
Abbreviation RASID := 90 (only parsing).
Abbreviation MPUENB := 90 (only parsing).
Abbreviation ITLBCFG := 91 (only parsing).
Abbreviation DTLBCFG := 92 (only parsing).
Abbreviation MPUCFG := 92 (only parsing).
Abbreviation IBREAKENABLE := 96 (only parsing).
Abbreviation MEMCTL := 97 (only parsing).
Abbreviation CACHEATTR := 98 (only parsing).
Abbreviation CACHEADRDIS := 98 (only parsing).
Abbreviation ATOMCTL := 99 (only parsing).
Abbreviation IBREAKA := 128 (only parsing).
Abbreviation DBREAKA := 144 (only parsing).
Abbreviation DBREAKC := 160 (only parsing).
Abbreviation CONFIGID0 := 176 (only parsing).
Abbreviation EPC1 := 177 (only parsing).
Abbreviation DEPC := 192 (only parsing).
Abbreviation EPS2 := 194 (only parsing).
Abbreviation CONFIGID1 := 208 (only parsing).
Abbreviation CPENABLE := 224 (only parsing).
Abbreviation INTSET := 226 (only parsing).
Abbreviation INTENABLE := 228 (only parsing).
Abbreviation PS := 230 (only parsing).
Abbreviation VECBASE := 231 (only parsing).
Abbreviation EXCCAUSE := 232 (only parsing).
Abbreviation DEBUGCAUSE := 233 (only parsing).
Abbreviation CCOUNT := 234 (only parsing).
Abbreviation ICOUNT := 236 (only parsing).
Abbreviation ICOUNTLEVEL := 237 (only parsing).
Abbreviation EXCVADDR := 238 (only parsing).
Abbreviation CCOMPARE := 240 (only parsing).

Abbreviation PS_INTLEVEL := 0xf (only parsing).
Abbreviation PS_INTLEVEL_SHIFT := 0 (only parsing).
Abbreviation PS_EXCM := 0x10 (only parsing).
Abbreviation PS_UM := 0x20 (only parsing).
Abbreviation PS_RING := 0xc0 (only parsing).
Abbreviation PS_RING_SHIFT := 6 (only parsing).
Abbreviation PS_OWB := 0xf00 (only parsing).
Abbreviation PS_OWB_SHIFT := 8 (only parsing).
Abbreviation PS_CALLINC := 0x30000 (only parsing).
Abbreviation PS_CALLINC_SHIFT := 16 (only parsing).
Abbreviation PS_CALLINC_LEN := 2 (only parsing).
Abbreviation PS_WOE := 0x40000 (only parsing).

(** ** Exception vectors and causes *)

Abbreviation EXC_RESET0 := 0 (only parsing).
Abbreviation EXC_WINDOW_OVERFLOW4 := 3 (only parsing).
Abbreviation EXC_WINDOW_UNDERFLOW4 := 4 (only parsing).
Abbreviation EXC_WINDOW_OVERFLOW8 := 5 (only parsing).
Abbreviation EXC_WINDOW_UNDERFLOW8 := 6 (only parsing).
Abbreviation EXC_WINDOW_OVERFLOW12 := 7 (only parsing).
Abbreviation EXC_WINDOW_UNDERFLOW12 := 8 (only parsing).
Abbreviation EXC_IRQ := 9 (only parsing).
Abbreviation EXC_KERNEL := 10 (only parsing).
Abbreviation EXC_USER := 11 (only parsing).
Abbreviation EXC_DOUBLE := 12 (only parsing).
Abbreviation EXC_DEBUG := 13 (only parsing).
Abbreviation EXCP_HLT := 0x10001 (only parsing).
Abbreviation EXCP_YIELD := 0x10004 (only parsing).
Abbreviation CPU_INTERRUPT_HARD := 0x2 (only parsing).
Abbreviation CPU_INTERRUPT_HALT := 0x20 (only parsing).

Abbreviation ILLEGAL_INSTRUCTION_CAUSE := 0 (only parsing).
Abbreviation LOAD_STORE_ERROR_CAUSE := 3 (only parsing).
Abbreviation LEVEL1_INTERRUPT_CAUSE := 4 (only parsing).
Abbreviation ALLOCA_CAUSE := 5 (only parsing).
Abbreviation LOAD_STORE_ALIGNMENT_CAUSE := 9 (only parsing).
Abbreviation EXCLUSIVE_ERROR_CAUSE := 11 (only parsing).
Abbreviation INSTR_PIF_ADDR_ERROR_CAUSE := 14 (only parsing).
Abbreviation LOAD_STORE_PIF_ADDR_ERROR_CAUSE := 15 (only parsing).
Abbreviation INST_TLB_MISS_CAUSE := 16 (only parsing).
Abbreviation INST_TLB_MULTI_HIT_CAUSE := 17 (only parsing).
Abbreviation INST_FETCH_PRIVILEGE_CAUSE := 18 (only parsing).
Abbreviation INST_FETCH_PROHIBITED_CAUSE := 20 (only parsing).
Abbreviation LOAD_STORE_TLB_MISS_CAUSE := 24 (only parsing).
Abbreviation LOAD_STORE_TLB_MULTI_HIT_CAUSE := 25 (only parsing).
Abbreviation LOAD_STORE_PRIVILEGE_CAUSE := 26 (only parsing).
Abbreviation LOAD_PROHIBITED_CAUSE := 28 (only parsing).
Abbreviation STORE_PROHIBITED_CAUSE := 29 (only parsing).

Inductive interrupt_type :=
| INTTYPE_LEVEL | INTTYPE_EDGE | INTTYPE_NMI | INTTYPE_SOFTWARE | INTTYPE_TIMER
| INTTYPE_DEBUG | INTTYPE_WRITE_ERR | INTTYPE_PROFILING | INTTYPE_IDMA_DONE
| INTTYPE_IDMA_ERR | INTTYPE_GS_ERR.

#[export] Instance interrupt_type_eq_dec : EqDecision interrupt_type.
Proof. solve_decision. Defined.

(** ** Structures *)

Record xtensa_tlb_entry := mkTlbEntry {
  te_vaddr : Z;
  te_paddr : Z;
  te_asid : Z;
  te_attr : Z;
  te_variable : bool;
}.

Record xtensa_tlb := mkTlb {
  nways : Z;
  way_size : list Z;
  varway56 : bool;
  nrefillentries : Z;
}.

Record xtensa_mpu_entry := mkMpuEntry {
  me_vaddr : Z;
  me_attr : Z;
}.

#[export] Instance xtensa_mpu_entry_inhabited : Inhabited xtensa_mpu_entry :=
  populate (mkMpuEntry 0 0).

(** An object created by [cpu_watchpoint_insert]. *)
Record watchpoint := mkWatchpoint {
  wp_vaddr : Z;
  wp_len : Z;
  wp_flags : Z;
}.

(** The configuration fields the modelled code reads. *)
Record XtensaConfig := mkConfig {
  options : Z;
  nareg : Z;
  excm_level : Z;
  ndepc : Z;
  max_insn_size : Z;
  vecbase : Z;
  exception_vector : list Z;
  ninterrupt : Z;
  nlevel : Z;
  nmi_level : Z;
  interrupt_vector : list Z;
  level_mask : list Z;
  inttype_mask : interrupt_type -> Z;
  interrupt : list (Z * interrupt_type);
  nccompare : Z;
  timerint : list Z;
  nextint : Z;
  extint : list Z;
  debug_level : Z;
  nibreak : Z;
  ndbreak : Z;
  icache_ways : Z;
  dcache_ways : Z;
  memctl_mask : Z;
  configid : Z * Z;
  cfg_itlb : xtensa_tlb;
  cfg_dtlb : xtensa_tlb;
  mpu_align : Z;
  n_mpu_fg_segments : Z;
  n_mpu_bg_segments : Z;
  mpu_bg : list xtensa_mpu_entry;
  dcache_line_bytes : Z;
  hw_version : Z;
  use_first_nan : bool;
}.

(** Calls the helpers make into the emulator core, whose code is not part of
    the target: they are recorded, in order, and nothing is assumed of them. *)
Inductive event :=
| EvCpuInterrupt (mask : Z)
| EvCpuResetInterrupt (mask : Z)
| EvCpuKick
| EvTlbFlush
| EvTlbFlushPage (vaddr : Z)
| EvTlbSetPage (vaddr paddr prot mmu_idx size : Z)
| EvTimerMod (timer deadline : Z)
| EvBreakpointInsert (pc : Z)
| EvBreakpointRemove (pc : option Z)
| EvWatchpointInsert (wp : watchpoint)
| EvWatchpointRemove (wp : watchpoint).

Record CPUXtensaState := mkCPUXtensaState {
  regs : list Z;  (** uint32_t regs[16]: the visible window *)
  pc : Z;
  sregs : Z -> Z;  (** uint32_t sregs[256] *)
  phys_regs : list Z;  (** uint32_t phys_regs[MAX_NAREG] *)
  windowbase_next : Z;
  exclusive_addr : Z;
  itlb : Z -> Z -> xtensa_tlb_entry;
  dtlb : Z -> Z -> xtensa_tlb_entry;
  mpu_fg : Z -> xtensa_mpu_entry;
  autorefill_idx : Z;
  runstall : bool;
  pending_irq_level : Z;  (** level of last raised IRQ *)
  time_base : Z;
  ccount_time : Z;
  ccount_base : Z;
  yield_needed : Z;
  static_vectors : Z;
  cpu_watchpoint : Z -> option watchpoint;
  cpu_breakpoint : Z -> option Z;
  exception_index : Z;  (** CPUState: exception_index *)
  halted : bool;  (** CPUState: halted *)
  trace : list event;  (** calls into the emulator core, latest first *)
}.

Definition set_regs (v : list Z) (e : CPUXtensaState) : CPUXtensaState :=
  mkCPUXtensaState v (pc e) (sregs e) (phys_regs e) (windowbase_next e) (exclusive_addr e)
     (itlb e) (dtlb e) (mpu_fg e) (autorefill_idx e) (runstall e) (pending_irq_level e)
     (time_base e) (ccount_time e) (ccount_base e) (yield_needed e) (static_vectors e) (cpu_watchpoint e)
     (cpu_breakpoint e) (exception_index e) (halted e) (trace e).
Definition set_pc (v : Z) (e : CPUXtensaState) : CPUXtensaState :=
  mkCPUXtensaState (regs e) v (sregs e) (phys_regs e) (windowbase_next e) (exclusive_addr e)
     (itlb e) (dtlb e) (mpu_fg e) (autorefill_idx e) (runstall e) (pending_irq_level e)
     (time_base e) (ccount_time e) (ccount_base e) (yield_needed e) (static_vectors e) (cpu_watchpoint e)
     (cpu_breakpoint e) (exception_index e) (halted e) (trace e).
Definition set_sregs (v : Z -> Z) (e : CPUXtensaState) : CPUXtensaState :=
  mkCPUXtensaState (regs e) (pc e) v (phys_regs e) (windowbase_next e) (exclusive_addr e)
     (itlb e) (dtlb e) (mpu_fg e) (autorefill_idx e) (runstall e) (pending_irq_level e)
     (time_base e) (ccount_time e) (ccount_base e) (yield_needed e) (static_vectors e) (cpu_watchpoint e)
     (cpu_breakpoint e) (exception_index e) (halted e) (trace e).
Definition set_phys_regs (v : list Z) (e : CPUXtensaState) : CPUXtensaState :=
  mkCPUXtensaState (regs e) (pc e) (sregs e) v (windowbase_next e) (exclusive_addr e)
     (itlb e) (dtlb e) (mpu_fg e) (autorefill_idx e) (runstall e) (pending_irq_level e)
     (time_base e) (ccount_time e) (ccount_base e) (yield_needed e) (static_vectors e) (cpu_watchpoint e)
     (cpu_breakpoint e) (exception_index e) (halted e) (trace e).
Definition set_windowbase_next (v : Z) (e : CPUXtensaState) : CPUXtensaState :=
  mkCPUXtensaState (regs e) (pc e) (sregs e) (phys_regs e) v (exclusive_addr e)
     (itlb e) (dtlb e) (mpu_fg e) (autorefill_idx e) (runstall e) (pending_irq_level e)
     (time_base e) (ccount_time e) (ccount_base e) (yield_needed e) (static_vectors e) (cpu_watchpoint e)
     (cpu_breakpoint e) (exception_index e) (halted e) (trace e).
Definition set_exclusive_addr (v : Z) (e : CPUXtensaState) : CPUXtensaState :=
  mkCPUXtensaState (regs e) (pc e) (sregs e) (phys_regs e) (windowbase_next e) v
     (itlb e) (dtlb e) (mpu_fg e) (autorefill_idx e) (runstall e) (pending_irq_level e)
     (time_base e) (ccount_time e) (ccount_base e) (yield_needed e) (static_vectors e) (cpu_watchpoint e)
     (cpu_breakpoint e) (exception_index e) (halted e) (trace e).
Definition set_itlb (v : Z -> Z -> xtensa_tlb_entry) (e : CPUXtensaState) : CPUXtensaState :=
  mkCPUXtensaState (regs e) (pc e) (sregs e) (phys_regs e) (windowbase_next e) (exclusive_addr e)
     v (dtlb e) (mpu_fg e) (autorefill_idx e) (runstall e) (pending_irq_level e)
     (time_base e) (ccount_time e) (ccount_base e) (yield_needed e) (static_vectors e) (cpu_watchpoint e)
     (cpu_breakpoint e) (exception_index e) (halted e) (trace e).
Definition set_dtlb (v : Z -> Z -> xtensa_tlb_entry) (e : CPUXtensaState) : CPUXtensaState :=
  mkCPUXtensaState (regs e) (pc e) (sregs e) (phys_regs e) (windowbase_next e) (exclusive_addr e)
     (itlb e) v (mpu_fg e) (autorefill_idx e) (runstall e) (pending_irq_level e)
     (time_base e) (ccount_time e) (ccount_base e) (yield_needed e) (static_vectors e) (cpu_watchpoint e)
     (cpu_breakpoint e) (exception_index e) (halted e) (trace e).
Definition set_mpu_fg (v : Z -> xtensa_mpu_entry) (e : CPUXtensaState) : CPUXtensaState :=
  mkCPUXtensaState (regs e) (pc e) (sregs e) (phys_regs e) (windowbase_next e) (exclusive_addr e)
     (itlb e) (dtlb e) v (autorefill_idx e) (runstall e) (pending_irq_level e)
     (time_base e) (ccount_time e) (ccount_base e) (yield_needed e) (static_vectors e) (cpu_watchpoint e)
     (cpu_breakpoint e) (exception_index e) (halted e) (trace e).
Definition set_autorefill_idx (v : Z) (e : CPUXtensaState) : CPUXtensaState :=
  mkCPUXtensaState (regs e) (pc e) (sregs e) (phys_regs e) (windowbase_next e) (exclusive_addr e)
     (itlb e) (dtlb e) (mpu_fg e) v (runstall e) (pending_irq_level e)
     (time_base e) (ccount_time e) (ccount_base e) (yield_needed e) (static_vectors e) (cpu_watchpoint e)
     (cpu_breakpoint e) (exception_index e) (halted e) (trace e).
Definition set_runstall (v : bool) (e : CPUXtensaState) : CPUXtensaState :=
  mkCPUXtensaState (regs e) (pc e) (sregs e) (phys_regs e) (windowbase_next e) (exclusive_addr e)
     (itlb e) (dtlb e) (mpu_fg e) (autorefill_idx e) v (pending_irq_level e)
     (time_base e) (ccount_time e) (ccount_base e) (yield_needed e) (static_vectors e) (cpu_watchpoint e)
     (cpu_breakpoint e) (exception_index e) (halted e) (trace e).
Definition set_pending_irq_level (v : Z) (e : CPUXtensaState) : CPUXtensaState :=
  mkCPUXtensaState (regs e) (pc e) (sregs e) (phys_regs e) (windowbase_next e) (exclusive_addr e)
     (itlb e) (dtlb e) (mpu_fg e) (autorefill_idx e) (runstall e) v
     (time_base e) (ccount_time e) (ccount_base e) (yield_needed e) (static_vectors e) (cpu_watchpoint e)
     (cpu_breakpoint e) (exception_index e) (halted e) (trace e).
Definition set_time_base (v : Z) (e : CPUXtensaState) : CPUXtensaState :=
  mkCPUXtensaState (regs e) (pc e) (sregs e) (phys_regs e) (windowbase_next e) (exclusive_addr e)
     (itlb e) (dtlb e) (mpu_fg e) (autorefill_idx e) (runstall e) (pending_irq_level e)
     v (ccount_time e) (ccount_base e) (yield_needed e) (static_vectors e) (cpu_watchpoint e)
     (cpu_breakpoint e) (exception_index e) (halted e) (trace e).
Definition set_ccount_time (v : Z) (e : CPUXtensaState) : CPUXtensaState :=
  mkCPUXtensaState (regs e) (pc e) (sregs e) (phys_regs e) (windowbase_next e) (exclusive_addr e)
     (itlb e) (dtlb e) (mpu_fg e) (autorefill_idx e) (runstall e) (pending_irq_level e)
     (time_base e) v (ccount_base e) (yield_needed e) (static_vectors e) (cpu_watchpoint e)
     (cpu_breakpoint e) (exception_index e) (halted e) (trace e).
Definition set_ccount_base (v : Z) (e : CPUXtensaState) : CPUXtensaState :=
  mkCPUXtensaState (regs e) (pc e) (sregs e) (phys_regs e) (windowbase_next e) (exclusive_addr e)
     (itlb e) (dtlb e) (mpu_fg e) (autorefill_idx e) (runstall e) (pending_irq_level e)
     (time_base e) (ccount_time e) v (yield_needed e) (static_vectors e) (cpu_watchpoint e)
     (cpu_breakpoint e) (exception_index e) (halted e) (trace e).
Definition set_yield_needed (v : Z) (e : CPUXtensaState) : CPUXtensaState :=
  mkCPUXtensaState (regs e) (pc e) (sregs e) (phys_regs e) (windowbase_next e) (exclusive_addr e)
     (itlb e) (dtlb e) (mpu_fg e) (autorefill_idx e) (runstall e) (pending_irq_level e)
     (time_base e) (ccount_time e) (ccount_base e) v (static_vectors e) (cpu_watchpoint e)
     (cpu_breakpoint e) (exception_index e) (halted e) (trace e).
Definition set_static_vectors (v : Z) (e : CPUXtensaState) : CPUXtensaState :=
  mkCPUXtensaState (regs e) (pc e) (sregs e) (phys_regs e) (windowbase_next e) (exclusive_addr e)
     (itlb e) (dtlb e) (mpu_fg e) (autorefill_idx e) (runstall e) (pending_irq_level e)
     (time_base e) (ccount_time e) (ccount_base e) (yield_needed e) v (cpu_watchpoint e)
     (cpu_breakpoint e) (exception_index e) (halted e) (trace e).
Definition set_cpu_watchpoint (v : Z -> option watchpoint) (e : CPUXtensaState) : CPUXtensaState :=
  mkCPUXtensaState (regs e) (pc e) (sregs e) (phys_regs e) (windowbase_next e) (exclusive_addr e)
     (itlb e) (dtlb e) (mpu_fg e) (autorefill_idx e) (runstall e) (pending_irq_level e)
     (time_base e) (ccount_time e) (ccount_base e) (yield_needed e) (static_vectors e) v
     (cpu_breakpoint e) (exception_index e) (halted e) (trace e).
Definition set_cpu_breakpoint (v : Z -> option Z) (e : CPUXtensaState) : CPUXtensaState :=
  mkCPUXtensaState (regs e) (pc e) (sregs e) (phys_regs e) (windowbase_next e) (exclusive_addr e)
     (itlb e) (dtlb e) (mpu_fg e) (autorefill_idx e) (runstall e) (pending_irq_level e)
     (time_base e) (ccount_time e) (ccount_base e) (yield_needed e) (static_vectors e) (cpu_watchpoint e)
     v (exception_index e) (halted e) (trace e).
Definition set_exception_index (v : Z) (e : CPUXtensaState) : CPUXtensaState :=
  mkCPUXtensaState (regs e) (pc e) (sregs e) (phys_regs e) (windowbase_next e) (exclusive_addr e)
     (itlb e) (dtlb e) (mpu_fg e) (autorefill_idx e) (runstall e) (pending_irq_level e)
     (time_base e) (ccount_time e) (ccount_base e) (yield_needed e) (static_vectors e) (cpu_watchpoint e)
     (cpu_breakpoint e) v (halted e) (trace e).
Definition set_halted (v : bool) (e : CPUXtensaState) : CPUXtensaState :=
  mkCPUXtensaState (regs e) (pc e) (sregs e) (phys_regs e) (windowbase_next e) (exclusive_addr e)
     (itlb e) (dtlb e) (mpu_fg e) (autorefill_idx e) (runstall e) (pending_irq_level e)
     (time_base e) (ccount_time e) (ccount_base e) (yield_needed e) (static_vectors e) (cpu_watchpoint e)
     (cpu_breakpoint e) (exception_index e) v (trace e).
Definition set_trace (v : list event) (e : CPUXtensaState) : CPUXtensaState :=
  mkCPUXtensaState (regs e) (pc e) (sregs e) (phys_regs e) (windowbase_next e) (exclusive_addr e)
     (itlb e) (dtlb e) (mpu_fg e) (autorefill_idx e) (runstall e) (pending_irq_level e)
     (time_base e) (ccount_time e) (ccount_base e) (yield_needed e) (static_vectors e) (cpu_watchpoint e)
     (cpu_breakpoint e) (exception_index e) (halted e) v.

(** [env->sregs[r] = v] *)
Definition set_sr (r v : Z) (e : CPUXtensaState) : CPUXtensaState :=
  set_sregs (fupd (sregs e) r v) e.
Definition sr (e : CPUXtensaState) (r : Z) : Z := sregs e r.
#[global] Arguments sr : simpl never.
Definition emit (ev : event) (e : CPUXtensaState) : CPUXtensaState :=
  set_trace (ev :: trace e) e.

Abbreviation cpuM := (M CPUXtensaState).

(** ** Inline accessors *)

Section accessors.
Context (config : XtensaConfig).

Definition xtensa_option_bit (o : xtensa_option) : Z := 2 ^ option_number o.

Definition xtensa_option_bits_enabled (opt : Z) : bool :=
  truthy (options config &&& opt).

Definition xtensa_option_enabled (o : xtensa_option) : bool :=
  xtensa_option_bits_enabled (xtensa_option_bit o).

Definition xtensa_get_cintlevel (env : CPUXtensaState) : Z :=
  let level := (sr env PS &&& PS_INTLEVEL) >>> PS_INTLEVEL_SHIFT in
  if truthy (sr env PS &&& PS_EXCM) && (excm_level config >? level)
  then excm_level config else level.

Definition xtensa_get_ring (env : CPUXtensaState) : Z :=
  if xtensa_option_bits_enabled
       (xtensa_option_bit OPTION_MMU ||| xtensa_option_bit OPTION_MPU)
  then (sr env PS &&& PS_RING) >>> PS_RING_SHIFT
  else 0.

Definition xtensa_get_cring (env : CPUXtensaState) : Z :=
  if xtensa_option_bits_enabled
       (xtensa_option_bit OPTION_MMU ||| xtensa_option_bit OPTION_MPU)
     && (sr env PS &&& PS_EXCM =? 0)
  then (sr env PS &&& PS_RING) >>> PS_RING_SHIFT
  else 0.

Definition xtensa_replicate_windowstart (env : CPUXtensaState) : Z :=
  sr env WINDOW_START ||| lsl32 (sr env WINDOW_START) (nareg config / 4).

End accessors.

(** ** The ESP32-S3 core *)

Definition option_mask (l : list xtensa_option) : Z :=
  foldr (fun o m => xtensa_option_bit o ||| m) 0 l.

Definition esp32s3_options : Z := option_mask
  [ OPTION_CODE_DENSITY; OPTION_LOOP; OPTION_16_BIT_IMUL; OPTION_32_BIT_IMUL;
    OPTION_32_BIT_IMUL_HIGH; OPTION_32_BIT_IDIV; OPTION_MAC16; OPTION_MISC_OP_NSA;
    OPTION_MISC_OP_MINMAX; OPTION_MISC_OP_SEXT; OPTION_MISC_OP_CLAMPS;
    OPTION_COPROCESSOR; OPTION_BOOLEAN; OPTION_FP_COPROCESSOR; OPTION_DFP_COPROCESSOR;
    OPTION_DFPU_SINGLE_ONLY; OPTION_MP_SYNCHRO; OPTION_CONDITIONAL_STORE; OPTION_ATOMCTL;
    OPTION_EXCEPTION; OPTION_RELOCATABLE_VECTOR; OPTION_INTERRUPT;
    OPTION_HIGH_PRIORITY_INTERRUPT; OPTION_TIMER_INTERRUPT; OPTION_HW_ALIGNMENT;
    OPTION_REGION_PROTECTION; OPTION_WINDOWED_REGISTER; OPTION_MISC_SR;
    OPTION_THREAD_POINTER; OPTION_PROCESSOR_ID; OPTION_DEBUG; OPTION_EXTERN_REGS ].

Definition esp32s3_tlb : xtensa_tlb := mkTlb 1 [8; 0; 0; 0; 0; 0; 0; 0; 0; 0] false 0.

Definition esp32s3_interrupts : list (Z * interrupt_type) :=
  [ (1, INTTYPE_LEVEL); (1, INTTYPE_LEVEL); (1, INTTYPE_LEVEL); (1, INTTYPE_LEVEL);
    (1, INTTYPE_LEVEL); (1, INTTYPE_LEVEL); (1, INTTYPE_TIMER); (1, INTTYPE_SOFTWARE);
    (1, INTTYPE_LEVEL); (1, INTTYPE_LEVEL); (1, INTTYPE_EDGE); (3, INTTYPE_PROFILING);
    (1, INTTYPE_LEVEL); (1, INTTYPE_LEVEL); (7, INTTYPE_NMI); (3, INTTYPE_TIMER);
    (5, INTTYPE_TIMER); (1, INTTYPE_LEVEL); (1, INTTYPE_LEVEL); (2, INTTYPE_LEVEL);
    (2, INTTYPE_LEVEL); (2, INTTYPE_LEVEL); (3, INTTYPE_EDGE); (3, INTTYPE_LEVEL);
    (4, INTTYPE_LEVEL); (4, INTTYPE_LEVEL); (5, INTTYPE_LEVEL); (3, INTTYPE_LEVEL);
    (4, INTTYPE_EDGE); (3, INTTYPE_SOFTWARE); (4, INTTYPE_EDGE); (5, INTTYPE_LEVEL) ].

Definition esp32s3_inttype_mask (t : interrupt_type) : Z :=
  match t with
  | INTTYPE_EDGE => 0x50400400
  | INTTYPE_NMI => 0x00004000
  | INTTYPE_SOFTWARE => 0x20000080
  | _ => 0
  end.

Definition esp32s3_config : XtensaConfig := {|
  options := esp32s3_options;
  nareg := 64;
  excm_level := 3;
  ndepc := 1;
  max_insn_size := 4;
  vecbase := 0x40000000;
  exception_vector :=
    [ 0x50000000; 0x40000400; 0; 0x40000000; 0x40000040; 0x40000080; 0x400000C0;
      0x40000100; 0x40000140; 0; 0x40000300; 0x40000340; 0x400003C0; 0x40000280 ];
  ninterrupt := 32;
  nlevel := 7;
  nmi_level := 7;
  interrupt_vector :=
    [ 0; 0; 0x40000180; 0x400001C0; 0x40000200; 0x40000240; 0x40000280; 0x400002C0 ];
  level_mask :=
    [ 0; 0x000637FF; 0x00380000; 0x28C08800; 0x53000000; 0x84010000; 0; 0x00004000 ];
  inttype_mask := esp32s3_inttype_mask;
  interrupt := esp32s3_interrupts;
  nccompare := 3;
  timerint := [6; 15; 16];
  nextint := 26;
  extint := [ 0; 1; 2; 3; 4; 5; 8; 9; 10; 12; 13; 14; 17; 18; 19; 20; 21; 22; 23; 24;
              25; 26; 27; 28; 30; 31; 0; 0; 0; 0; 0; 0 ];
  debug_level := 6;
  nibreak := 2;
  ndbreak := 2;
  icache_ways := 1;
  dcache_ways := 1;
  memctl_mask := 7;
  configid := (0xC2F0FFFE, 0x23090F1F);
  cfg_itlb := esp32s3_tlb;
  cfg_dtlb := esp32s3_tlb;
  mpu_align := 0;
  n_mpu_fg_segments := 0;
  n_mpu_bg_segments := 0;
  mpu_bg := [];
  dcache_line_bytes := 16;
  hw_version := 270012;
  use_first_nan := false;
|}.

(** ** Facts shared by the components *)

(** Read a special register back after a chain of updates. *)
Ltac sr_simpl :=
  unfold set_sr, sr in *; simpl in *;
  repeat first [ rewrite fupd_eq | rewrite fupd_ne by lia ].

Lemma sr_set_sr_eq env r v : sr (set_sr r v env) r = v.
Proof. unfold sr, set_sr. simpl. apply fupd_eq. Qed.
Lemma sr_set_sr_ne env r r' v : r' <> r -> sr (set_sr r v env) r' = sr env r'.
Proof. intros. unfold sr, set_sr. simpl. by apply fupd_ne. Qed.

(** The two ways the code tests an option agree with the bit of [options]. *)
Lemma option_enabled_testbit config o :
  xtensa_option_enabled config o = Z.testbit (options config) (option_number o).
Proof.
  unfold xtensa_option_enabled, xtensa_option_bits_enabled, xtensa_option_bit.
  apply truthy_land_pow2. by destruct o.
Qed.

(** The current interrupt level is the larger of PS.INTLEVEL and, in exception
    mode, EXCM_LEVEL. *)
Lemma cintlevel_spec config env :
  xtensa_get_cintlevel config env =
    if Z.testbit (sr env PS) 4
    then Z.max (excm_level config) (sr env PS &&& PS_INTLEVEL)
    else sr env PS &&& PS_INTLEVEL.
Proof.
  unfold xtensa_get_cintlevel. rewrite Z.shiftr_0_r.
  change 0x10 with (2 ^ 4). rewrite truthy_land_pow2 by lia.
  destruct (Z.testbit (sr env PS) 4); simpl; [|done].
  rewrite Z.gtb_ltb. destruct (Z.ltb_spec (sr env PS &&& 15) (excm_level config)); lia.
Qed.

Lemma cintlevel_bounds config env :
  0 <= excm_level config < 16 -> 0 <= xtensa_get_cintlevel config env < 16.
Proof.
  intros. rewrite cintlevel_spec. pose proof (land_range 4 (sr env PS) PS_INTLEVEL ltac:(lia)).
  destruct (Z.testbit _ 4); lia.
Qed.

(** The zero-filled state the object allocator hands to the instance
    initialiser; examples start from it. *)
Definition zero_env : CPUXtensaState := {|
  regs := replicate 16 0;
  pc := 0;
  sregs := fun _ => 0;
  phys_regs := replicate 64 0;
  windowbase_next := 0;
  exclusive_addr := 0;
  itlb := fun _ _ => mkTlbEntry 0 0 0 0 false;
  dtlb := fun _ _ => mkTlbEntry 0 0 0 0 false;
  mpu_fg := fun _ => mkMpuEntry 0 0;
  autorefill_idx := 0;
  runstall := false;
  pending_irq_level := 0;
  time_base := 0;
  ccount_time := 0;
  ccount_base := 0;
  yield_needed := 0;
  static_vectors := 0;
  cpu_watchpoint := fun _ => None;
  cpu_breakpoint := fun _ => None;
  exception_index := 0;
  halted := false;
  trace := [];
|}.
