(* ===== verification/Interrupt.v ===== *)
(** * CPU interrupt lines ([hw/xtensa/pic_cpu.c])

    [check_interrupts] recomputes the pending level from INTSET, INTENABLE and
    the current interrupt level; [xtensa_set_irq] is the handler behind every
    interrupt input of the core, including the CCOMPARE timers and the
    external inputs that the interrupt matrix drives. *)

From S2P Require Import Prelude Cpu.

Section interrupt.
Context (config : XtensaConfig).

Definition level_sources (level : Z) : Z := nthZ (level_mask config) level.

Definition int_set_enabled (env : CPUXtensaState) : Z :=
  sr env INTSET &&& (sr env INTENABLE ||| inttype_mask config INTTYPE_NMI).

(** [minlevel] after the NMI adjustment. *)
Definition irq_minlevel (env : CPUXtensaState) : Z :=
  let minlevel := xtensa_get_cintlevel config env in
  if minlevel >=? nmi_level config then nmi_level config - 1 else minlevel.

(** The loop [for (level = nlevel; level > minlevel; --level)]. *)
Fixpoint check_levels (n : nat) (level enabled : Z) : option Z :=
  match n with
  | O => None
  | S n' =>
      if truthy (level_sources level &&& enabled)
      then Some level
      else check_levels n' (level - 1) enabled
  end.

Definition check_interrupts (env : CPUXtensaState) : CPUXtensaState :=
  match check_levels (Z.to_nat (nlevel config - irq_minlevel env)) (nlevel config)
          (int_set_enabled env) with
  | Some level =>
      emit (EvCpuInterrupt CPU_INTERRUPT_HARD) (set_pending_irq_level level env)
  | None =>
      emit (EvCpuResetInterrupt CPU_INTERRUPT_HARD) (set_pending_irq_level 0 env)
  end.

Definition inttype_of (irq : Z) : interrupt_type :=
  snd (default (0, INTTYPE_LEVEL) (interrupt config !! Z.to_nat irq)).

Definition xtensa_set_irq (irq active : Z) (env : CPUXtensaState) : CPUXtensaState :=
  if irq >=? ninterrupt config then env
  else
    let irq_bit := lsl32 1 irq in
    let env :=
      if truthy active then set_sr INTSET (sr env INTSET ||| irq_bit) env
      else if decide (inttype_of irq = INTTYPE_LEVEL)
      then set_sr INTSET (sr env INTSET &&& not32 irq_bit) env
      else env in
    check_interrupts env.

(** CCOMPARE timer [i] expired. *)
Definition xtensa_ccompare_cb (i : Z) (env : CPUXtensaState) : CPUXtensaState :=
  xtensa_set_irq (nthZ (timerint config) i) 1 env.

(** The input [env->ext_irq_inputs[i]] set up by [xtensa_irq_init]. *)
Definition ext_irq_input (i active : Z) (env : CPUXtensaState) : CPUXtensaState :=
  xtensa_set_irq (nthZ (extint config) i) active env.

(** [xtensa_runstall] and the handler of the run-stall line. *)
Definition xtensa_runstall (runstall : bool) (env : CPUXtensaState) : CPUXtensaState :=
  let env := set_halted runstall (set_runstall runstall env) in
  if runstall then emit (EvCpuInterrupt CPU_INTERRUPT_HALT) env
  else emit EvCpuKick env.

Definition xtensa_set_runstall (irq active : Z) (env : CPUXtensaState) : CPUXtensaState :=
  xtensa_runstall (truthy active) env.

(** The state part of [xtensa_irq_init]: the time base of CCOUNT. *)
Definition xtensa_irq_init (now : Z) (env : CPUXtensaState) : CPUXtensaState :=
  if xtensa_option_enabled config OPTION_TIMER_INTERRUPT
  then set_ccount_base (sr env CCOUNT) (set_time_base now env)
  else env.

(** ** Specification of the pending level *)

(** [L] is the level the core must present: the highest one above the current
    level with an enabled source, or 0. *)
Definition highest_pending (env : CPUXtensaState) (L : Z) : Prop :=
  let enabled l := level_sources l &&& int_set_enabled env <> 0 in
  (L = 0 /\ forall l, irq_minlevel env < l <= nlevel config -> ~ enabled l) \/
  (irq_minlevel env < L <= nlevel config /\ enabled L /\
   forall l, L < l <= nlevel config -> ~ enabled l).

Lemma check_levels_spec n level enabled :
  match check_levels n level enabled with
  | Some L =>
      level - Z.of_nat n < L <= level /\ level_sources L &&& enabled <> 0 /\
      forall l, L < l <= level -> level_sources l &&& enabled = 0
  | None => forall l, level - Z.of_nat n < l <= level -> level_sources l &&& enabled = 0
  end.
Proof.
  revert level. induction n as [|n IH]; intros level; simpl; [intros; lia|].
  destruct (truthy _) eqn:E; bprop.
  - split; [lia|]. split; [done|]. intros; lia.
  - specialize (IH (level - 1)). destruct (check_levels _ _ _) as [L|].
    + destruct IH as (? & ? & IH). split; [lia|]. split; [done|]. intros l Hl.
      destruct (decide (l = level)) as [->|]; [done|]. apply IH; lia.
    + intros l Hl. destruct (decide (l = level)) as [->|]; [done|]. apply IH; lia.
Qed.

Lemma check_interrupts_pending env :
  highest_pending env (pending_irq_level (check_interrupts env)).
Proof.
  unfold check_interrupts, highest_pending.
  pose proof (check_levels_spec (Z.to_nat (nlevel config - irq_minlevel env))
                (nlevel config) (int_set_enabled env)) as H.
  destruct (check_levels _ _ _) as [L|]; simpl.
  - right. destruct H as (? & ? & H). split; [lia|]. split; [done|].
    intros l Hl Hn. by apply Hn, H.
  - left. split; [done|]. intros l Hl Hn. apply Hn, H. lia.
Qed.

Lemma highest_pending_unique env L L' :
  highest_pending env L -> highest_pending env L' -> L = L'.
Proof.
  intros [[-> H]|(? & ? & H)] [[-> H']|(? & ? & H')]; auto.
  - exfalso. eapply H; eauto.
  - exfalso. eapply H'; eauto.
  - destruct (Z.lt_trichotomy L L') as [?|[?|?]]; [|done|].
    + exfalso. apply (H L'); [lia|done].
    + exfalso. apply (H' L); [lia|done].
Qed.

(** The fields a pending-level recomputation leaves alone. *)
Lemma check_interrupts_frame env :
  let env' := check_interrupts env in
  sregs env' = sregs env /\ pc env' = pc env /\ regs env' = regs env /\
  phys_regs env' = phys_regs env /\ exception_index env' = exception_index env /\
  halted env' = halted env.
Proof. unfold check_interrupts. by destruct (check_levels _ _ _). Qed.

Lemma check_interrupts_mmu env :
  let env' := check_interrupts env in
  itlb env' = itlb env /\ dtlb env' = dtlb env /\ exclusive_addr env' = exclusive_addr env.
Proof. unfold check_interrupts. by destruct (check_levels _ _ _). Qed.

Lemma check_interrupts_sr env r : sr (check_interrupts env) r = sr env r.
Proof. unfold sr. by destruct (check_interrupts_frame env) as [-> _]. Qed.

Lemma highest_pending_ext env env' L :
  sr env' INTSET = sr env INTSET -> sr env' INTENABLE = sr env INTENABLE ->
  sr env' PS = sr env PS -> highest_pending env L -> highest_pending env' L.
Proof.
  intros E1 E2 E3. unfold highest_pending, int_set_enabled, irq_minlevel, xtensa_get_cintlevel.
  by rewrite E1, E2, E3.
Qed.

(** Recomputing after a recomputation changes nothing. *)
Lemma highest_pending_after env L :
  highest_pending env L -> highest_pending (check_interrupts env) L.
Proof. apply highest_pending_ext; apply check_interrupts_sr. Qed.

(** ** Line semantics *)

(** The value of line [irq] after a history of [set_irq] calls, latest last:
    a level line follows its last value, any other line latches. *)
Definition line_step (irq : Z) (v : bool) (c : Z * Z) : bool :=
  if c.1 =? irq then
    if truthy c.2 then true
    else if decide (inttype_of irq = INTTYPE_LEVEL) then false else v
  else v.

Definition set_irqs (calls : list (Z * Z)) (env : CPUXtensaState) : CPUXtensaState :=
  foldl (fun e c => xtensa_set_irq c.1 c.2 e) env calls.

Lemma set_irq_line irq i active env :
  0 <= irq < ninterrupt config -> 0 <= i < ninterrupt config ->
  ninterrupt config <= 32 ->
  Z.testbit (sr (xtensa_set_irq i active env) INTSET) irq =
    line_step irq (Z.testbit (sr env INTSET) irq) (i, active).
Proof.
  intros Hirq Hi Hn. unfold xtensa_set_irq, line_step.
  rewrite Z.geb_leb. destruct (Z.leb_spec (ninterrupt config) i); [lia|].
  rewrite check_interrupts_sr, lsl32_1 by lia. simpl.
  destruct (truthy active); [|case_decide as D].
  - rewrite sr_set_sr_eq. autorewrite with bits.
    rewrite Z.eqb_sym. destruct (i =? irq); by rewrite ?orb_true_r, ?orb_false_r.
  - rewrite sr_set_sr_eq. autorewrite with bits.
    rewrite Z.eqb_sym. destruct (Z.ltb_spec irq 32); [|lia].
    destruct (Z.eqb_spec i irq) as [->|]; simpl.
    + by rewrite decide_True, andb_false_r.
    + by rewrite andb_true_r.
  - destruct (Z.eqb_spec i irq) as [->|]; [by rewrite decide_False|done].
Qed.

End interrupt.

(** ** Claims *)

(** C18: After [check_interrupts] the pending level is the highest level above
    the current interrupt level (an NMI is never masked) that has an enabled
    source, or 0 when there is none; with a level floor that is not negative
    the hard interrupt request of the CPU is raised exactly when the pending
    level is not 0, and withdrawn otherwise. *)
Theorem check_interrupts_highest (config : XtensaConfig) (env : CPUXtensaState) :
  let env' := check_interrupts config env in
  let L := pending_irq_level env' in
  highest_pending config env L /\
  (0 <= irq_minlevel config env ->
   trace env' = (if L =? 0 then EvCpuResetInterrupt CPU_INTERRUPT_HARD
                 else EvCpuInterrupt CPU_INTERRUPT_HARD) :: trace env).
Proof.
  intros env' L. split; [apply check_interrupts_pending|]. intros H0.
  unfold L, env', check_interrupts.
  pose proof (check_levels_spec config (Z.to_nat (nlevel config - irq_minlevel config env))
                (nlevel config) (int_set_enabled config env)) as H.
  destruct (check_levels _ _ _ _) as [l|]; simpl; [|done].
  destruct (Z.eqb_spec l 0); [lia|done].
Qed.

(** The history of an interrupt line decides its INTSET bit: a
    level-triggered line has the value of the last call, every other line
    latches the first activation until it is cleared by software; a line never
    changes the bit of another line. *)
Theorem set_irqs_history (config : XtensaConfig) (calls : list (Z * Z))
    (env : CPUXtensaState) (irq : Z) :
  ninterrupt config <= 32 -> 0 <= irq < ninterrupt config ->
  Forall (fun c => 0 <= c.1 < ninterrupt config) calls ->
  Z.testbit (sr (set_irqs config calls env) INTSET) irq =
    foldl (line_step config irq) (Z.testbit (sr env INTSET) irq) calls.
Proof.
  intros Hn Hirq Hc. revert env. induction Hc as [|[i a] calls Hi Hc IH]; intros env; [done|].
  unfold set_irqs in *. simpl. rewrite IH. f_equal. by apply set_irq_line.
Qed.

Definition irq_env : CPUXtensaState :=
  set_sr INTENABLE 0x00480400 (set_sr INTSET 0x00480400 zero_env).

Lemma check_interrupts_highest_witness :
  0 <= irq_minlevel esp32s3_config irq_env /\
  pending_irq_level (check_interrupts esp32s3_config irq_env) = 3 /\
  trace (check_interrupts esp32s3_config irq_env) =
    [EvCpuInterrupt CPU_INTERRUPT_HARD].
Proof.
  assert (H : 0 <= irq_minlevel esp32s3_config irq_env) by (vm_compute; discriminate).
  split; [exact H|]. split; [reflexivity|].
  exact (proj2 (check_interrupts_highest esp32s3_config irq_env) H).
Defined.

(** Line 10 is edge-triggered and stays set; line 3 is level-triggered. *)
Lemma set_irqs_history_witness :
  let env := set_irqs esp32s3_config [(10, 1); (3, 1); (10, 0); (3, 0)] zero_env in
  Z.testbit (sr env INTSET) 10 = true /\ Z.testbit (sr env INTSET) 3 = false.
Proof.
  intros env. split; [|reflexivity].
  etrans; [apply (set_irqs_history esp32s3_config)|reflexivity].
  - vm_compute; discriminate.
  - by vm_compute.
  - repeat constructor; vm_compute; discriminate.
Defined.
