(* ===== verification/Exception.v ===== *)
(** * Exceptions and interrupt delivery ([target/xtensa/exc_helper.c])

    [HELPER(exception)] leaves the CPU loop with an exception index;
    [xtensa_cpu_do_interrupt] is what the loop then calls to enter the vector.
    [xtensa_cpu_exec_interrupt] delivers a pending interrupt. *)

From S2P Require Import Prelude Cpu Interrupt.

Section exception.
Context (config : XtensaConfig).

Definition helper_exception {A} (excp : Z) : cpuM A :=
  modify (set_exception_index excp) ;;
  when (excp =? EXCP_YIELD) (modify (set_yield_needed 0)) ;;
  loop_exit.

Definition helper_exception_cause {A} (pc cause : Z) : cpuM A :=
  modify (set_pc pc) ;;
  env <- get ;;
  vector <-
    (if truthy (sr env PS &&& PS_EXCM) then
       modify (set_sr (if truthy (ndepc config) then DEPC else EPC1) pc) ;;
       ret EXC_DOUBLE
     else
       modify (set_sr EPC1 pc) ;;
       ret (if truthy (sr env PS &&& PS_UM) then EXC_USER else EXC_KERNEL)) ;;
  modify (set_sr EXCCAUSE cause) ;;
  modify (fun env => set_sr PS (sr env PS ||| PS_EXCM) env) ;;
  helper_exception vector.

Definition helper_exception_cause_vaddr {A} (pc cause vaddr : Z) : cpuM A :=
  modify (set_sr EXCVADDR vaddr) ;;
  helper_exception_cause pc cause.

Definition helper_debug_exception {A} (pc cause : Z) : cpuM A :=
  let level := debug_level config in
  modify (set_pc pc) ;;
  modify (set_sr DEBUGCAUSE cause) ;;
  modify (set_sr (EPC1 + level - 1) pc) ;;
  modify (fun env => set_sr (EPS2 + level - 2) (sr env PS) env) ;;
  modify (fun env =>
    set_sr PS ((sr env PS &&& not32 PS_INTLEVEL) ||| PS_EXCM
               ||| lsl32 level PS_INTLEVEL_SHIFT) env) ;;
  helper_exception EXC_DEBUG.

Definition debug_exception_env (cause : Z) : cpuM unit :=
  env <- get ;;
  when (xtensa_get_cintlevel config env <? debug_level config)
    (helper_debug_exception (pc env) cause).

Definition helper_waiti (pc intlevel : Z) : cpuM unit :=
  modify (set_pc pc) ;;
  modify (fun env =>
    set_sr PS ((sr env PS &&& not32 PS_INTLEVEL) ||| lsl32 intlevel PS_INTLEVEL_SHIFT) env) ;;
  modify (check_interrupts config) ;;
  env <- get ;;
  if truthy (pending_irq_level env) then loop_exit
  else modify (set_halted true) ;; helper_exception EXCP_HLT.

Definition helper_check_interrupts (env : CPUXtensaState) : CPUXtensaState :=
  check_interrupts config env.

Definition helper_intset (v : Z) (env : CPUXtensaState) : CPUXtensaState :=
  set_sr INTSET (sr env INTSET ||| (v &&& inttype_mask config INTTYPE_SOFTWARE)) env.

Definition intclear (v : Z) (env : CPUXtensaState) : CPUXtensaState :=
  set_sr INTSET (sr env INTSET &&& not32 v) env.

Definition helper_intclear (v : Z) (env : CPUXtensaState) : CPUXtensaState :=
  intclear (v &&& (inttype_mask config INTTYPE_SOFTWARE
                   ||| inttype_mask config INTTYPE_EDGE)) env.

Definition relocated_vector (env : CPUXtensaState) (vector : Z) : Z :=
  if xtensa_option_enabled config OPTION_RELOCATABLE_VECTOR
  then u32 (vector - vecbase config + sr env VECBASE)
  else vector.

(** The test that guards [handle_interrupt]. *)
Definition irq_deliverable (env : CPUXtensaState) (level : Z) : bool :=
  ((xtensa_get_cintlevel config env <? level) && (level <=? nlevel config)
   && truthy (level_sources config level &&& sr env INTSET &&& sr env INTENABLE))
  || (level =? nmi_level config).

Definition handle_interrupt_high (level : Z) : cpuM unit :=
  massert (level <? Z.of_nat (length (interrupt_vector config))) ;;
  modify (fun env => set_sr (EPC1 + level - 1) (pc env) env) ;;
  modify (fun env => set_sr (EPS2 + level - 2) (sr env PS) env) ;;
  modify (fun env =>
    set_sr PS ((sr env PS &&& not32 PS_INTLEVEL) ||| level ||| PS_EXCM) env) ;;
  modify (fun env =>
    set_pc (relocated_vector env (nthZ (interrupt_vector config) level)) env) ;;
  when (level =? nmi_level config) (modify (intclear (inttype_mask config INTTYPE_NMI))).

Definition handle_interrupt_level1 : cpuM unit :=
  modify (set_sr EXCCAUSE LEVEL1_INTERRUPT_CAUSE) ;;
  env <- get ;;
  (if truthy (sr env PS &&& PS_EXCM) then
     modify (set_sr (if truthy (ndepc config) then DEPC else EPC1) (pc env)) ;;
     modify (set_exception_index EXC_DOUBLE)
   else
     modify (set_sr EPC1 (pc env)) ;;
     modify (set_exception_index
               (if truthy (sr env PS &&& PS_UM) then EXC_USER else EXC_KERNEL))) ;;
  modify (fun env => set_sr PS (sr env PS ||| PS_EXCM) env).

Definition handle_interrupt : cpuM unit :=
  env <- get ;;
  let level := pending_irq_level env in
  when (irq_deliverable env level)
    (if level >? 1 then handle_interrupt_high level else handle_interrupt_level1).

(** The cases of the switch of [xtensa_cpu_do_interrupt] that jump. *)
Definition is_vector_exception (idx : Z) : bool :=
  ((EXC_WINDOW_OVERFLOW4 <=? idx) && (idx <=? EXC_WINDOW_UNDERFLOW12))
  || ((EXC_KERNEL <=? idx) && (idx <=? EXC_DEBUG)).

Definition enter_vector (env : CPUXtensaState) : CPUXtensaState :=
  let idx := exception_index env in
  if is_vector_exception idx then
    let vector := nthZ (exception_vector config) idx in
    if truthy vector then set_pc (relocated_vector env vector) env else env
  else env.

Definition xtensa_cpu_do_interrupt : cpuM unit :=
  env <- get ;;
  when (exception_index env =? EXC_IRQ) handle_interrupt ;;
  modify enter_vector ;;
  modify (check_interrupts config).

Definition xtensa_cpu_exec_interrupt (interrupt_request : Z) : cpuM bool :=
  if truthy (interrupt_request &&& CPU_INTERRUPT_HARD) then
    modify (set_exception_index EXC_IRQ) ;;
    xtensa_cpu_do_interrupt ;;
    ret true
  else ret false.

End exception.

(** What the CPU loop does when a helper leaves through [cpu_loop_exit] with an
    exception index: it hands the state to [xtensa_cpu_do_interrupt]. *)
Definition take_exception {A} (config : XtensaConfig) (m : cpuM A) : cpuM unit :=
  fun env =>
    match m env with
    | LoopExit env' => xtensa_cpu_do_interrupt config env'
    | Done _ env' => Done tt env'
    | AssertFail => AssertFail
    end.

(** ** Configurations the overlay headers produce *)

Class WfInterrupts (config : XtensaConfig) : Prop := {
  wf_excm_level : 1 <= excm_level config < 16;
  wf_nlevel : 0 <= nlevel config < Z.of_nat (length (interrupt_vector config));
  wf_vectors : Z.of_nat (length (interrupt_vector config)) <= 8;
  wf_nmi_top : nlevel config <= nmi_level config;
  wf_nmi_level : 1 < nmi_level config;
  wf_nmi_mask : forall l, 0 <= l < nmi_level config -> l <= nlevel config ->
    level_sources config l &&& inttype_mask config INTTYPE_NMI = 0;
}.

#[export] Instance esp32s3_wf_interrupts : WfInterrupts esp32s3_config.
Proof.
  split; try (vm_compute; intuition discriminate).
  intros l Hl _. change (nmi_level _) with 7 in Hl.
  assert (l = 0 \/ l = 1 \/ l = 2 \/ l = 3 \/ l = 4 \/ l = 5 \/ l = 6) as Hc by lia.
  by destruct Hc as [->|[->|[->|[->|[->|[->| ->]]]]]].
Qed.

(** ** PS updates *)

Lemma ps_level_intlevel ps L :
  0 <= L < 16 -> ((ps &&& not32 PS_INTLEVEL) ||| L ||| PS_EXCM) &&& PS_INTLEVEL = L.
Proof.
  intros. change 15 with (2 ^ 4 - 1). change 16 with (2 ^ 4) in *. zbits.
  cmp_split; try lia; bool_simpl; try done; by rewrite (testbit_above 4 L) by lia.
Qed.

Lemma ps_excm_bit ps : Z.testbit (ps ||| PS_EXCM) 4 = true.
Proof. rewrite Z.lor_spec. apply orb_true_r. Qed.

Lemma ps_level_excm_bit ps L :
  Z.testbit ((ps &&& not32 PS_INTLEVEL) ||| L ||| PS_EXCM) 4 = true.
Proof. apply ps_excm_bit. Qed.

Lemma truthy_excm ps : truthy (ps &&& PS_EXCM) = Z.testbit ps 4.
Proof. change PS_EXCM with (2 ^ 4). by rewrite truthy_land_pow2 by lia. Qed.

Lemma excm_level_floor config env :
  Z.testbit (sr env PS) 4 = true -> excm_level config <= xtensa_get_cintlevel config env.
Proof. intros E. rewrite cintlevel_spec, E. lia. Qed.

Lemma intlevel_floor config env :
  sr env PS &&& PS_INTLEVEL <= xtensa_get_cintlevel config env.
Proof. rewrite cintlevel_spec. destruct (Z.testbit _ 4); lia. Qed.

(** ** Delivery *)

Section delivery.
Context (config : XtensaConfig) `{!WfInterrupts config}.

(** When the level floor has risen to [L] and the sources did not change, no
    interrupt is left pending. *)
Lemma no_pending_above env env' L :
  highest_pending config env L -> L <> 0 -> L < nmi_level config ->
  int_set_enabled config env' = int_set_enabled config env ->
  L <= xtensa_get_cintlevel config env' ->
  pending_irq_level (check_interrupts config env') = 0.
Proof.
  intros HL H0 Hn He Hc.
  destruct HL as [[? _]|(Hr & _ & Hup)]; [done|].
  destruct (check_interrupts_pending config env') as [[-> _]|(Hr' & Hen & _)]; [done|].
  exfalso. apply (Hup (pending_irq_level (check_interrupts config env'))).
  - split; [|lia]. assert (irq_minlevel config env' >= L); [|lia].
    unfold irq_minlevel. rewrite Z.geb_leb. destruct (Z.leb_spec (nmi_level config)
      (xtensa_get_cintlevel config env')); lia.
  - by rewrite <- He.
Qed.

Lemma highest_minlevel env L :
  highest_pending config env L -> L <> 0 -> L < nmi_level config ->
  xtensa_get_cintlevel config env < L <= nlevel config.
Proof.
  intros [[? _]|(Hr & _ & _)]; [done|]. intros _ Hn.
  unfold irq_minlevel in Hr. rewrite Z.geb_leb in Hr.
  destruct (Z.leb_spec (nmi_level config) (xtensa_get_cintlevel config env)); lia.
Qed.

Lemma cintlevel_nonneg env : 0 <= xtensa_get_cintlevel config env.
Proof. apply cintlevel_bounds. pose proof wf_excm_level. lia. Qed.

(** A maskable pending level passes the guard of [handle_interrupt]. *)
Lemma highest_deliverable env L :
  highest_pending config env L -> L <> 0 -> L < nmi_level config ->
  irq_deliverable config env L = true.
Proof.
  intros HL H0 Hn. pose proof (highest_minlevel env L HL H0 Hn) as [? ?].
  pose proof (cintlevel_nonneg env).
  destruct HL as [[? _]|(_ & He & _)]; [done|].
  unfold irq_deliverable. apply orb_true_iff. left.
  rewrite (proj2 (Z.ltb_lt _ _)) by done. rewrite (proj2 (Z.leb_le _ _)) by done. simpl.
  apply truthy_true. intros E. apply He. unfold int_set_enabled.
  rewrite Z.land_lor_distr_r, Z.land_lor_distr_r.
  replace (level_sources config L &&& (sr env INTSET &&& inttype_mask config INTTYPE_NMI))
    with (sr env INTSET &&& (level_sources config L &&& inttype_mask config INTTYPE_NMI)).
  - rewrite wf_nmi_mask by lia. rewrite Z.land_0_r, Z.lor_0_r, Z.land_assoc. exact E.
  - zbits. by destruct (Z.testbit (sr env 226) i), (Z.testbit (level_sources config L) i).
Qed.

(** A level-1 interrupt is only taken outside exception mode. *)
Lemma level1_not_excm env :
  highest_pending config env 1 -> Z.testbit (sr env PS) 4 = false.
Proof.
  intros HL. pose proof wf_nmi_level. pose proof wf_excm_level.
  pose proof (highest_minlevel env 1 HL ltac:(lia) ltac:(lia)) as [Hc _].
  destruct (Z.testbit (sr env PS) 4) eqn:E; [|done].
  apply excm_level_floor with (config := config) in E. lia.
Qed.

End delivery.

(** The state [handle_interrupt] reaches for a maskable level above 1. *)
Definition high_entry (config : XtensaConfig) (L : Z) (env : CPUXtensaState) : CPUXtensaState :=
  set_pc (relocated_vector config env (nthZ (interrupt_vector config) L))
    (set_sr PS ((sr env PS &&& not32 PS_INTLEVEL) ||| L ||| PS_EXCM)
       (set_sr (EPS2 + L - 2) (sr env PS) (set_sr (EPC1 + L - 1) (pc env) env))).

(** The state a level-1 interrupt or a general exception reaches before the
    vector is entered; [r] is the register that keeps the return address. *)
Definition general_entry (r vector cause : Z) (env : CPUXtensaState) : CPUXtensaState :=
  set_exception_index vector
    (set_sr PS (sr env PS ||| PS_EXCM) (set_sr EXCCAUSE cause (set_sr r (pc env) env))).

Definition user_or_kernel (env : CPUXtensaState) : Z :=
  if truthy (sr env PS &&& PS_UM) then EXC_USER else EXC_KERNEL.

Lemma general_idx (excm : bool) env :
  let idx := if excm then EXC_DOUBLE else user_or_kernel env in
  is_vector_exception idx = true /\ (idx =? EXC_IRQ) = false.
Proof. unfold user_or_kernel. by destruct excm, (truthy (sr env PS &&& PS_UM)). Qed.

Section delivery_steps.
Context (config : XtensaConfig) `{!WfInterrupts config}.

Lemma handle_interrupt_high_eq env L :
  1 < L < nmi_level config -> L <= nlevel config ->
  handle_interrupt_high config L env = Done tt (high_entry config L env).
Proof.
  intros HL Hn. pose proof wf_nlevel. pose proof wf_vectors.
  unfold handle_interrupt_high, massert, bind.
  rewrite (proj2 (Z.ltb_lt _ _)) by lia. unfold modify, high_entry. simpl.
  rewrite (proj2 (Z.eqb_neq _ _)) by lia. unfold when, ret, relocated_vector.
  sr_simpl. done.
Qed.

Lemma handle_interrupt_level1_eq env :
  Z.testbit (sr env PS) 4 = false ->
  handle_interrupt_level1 config env =
    Done tt (set_sr PS (sr env PS ||| PS_EXCM) (set_exception_index (user_or_kernel env)
      (set_sr EPC1 (pc env) (set_sr EXCCAUSE LEVEL1_INTERRUPT_CAUSE env)))).
Proof.
  intros E. unfold handle_interrupt_level1, bind, modify, get. simpl.
  rewrite sr_set_sr_ne, truthy_excm, E by lia. by sr_simpl.
Qed.

Lemma exec_interrupt_high env L :
  highest_pending config env L -> pending_irq_level env = L -> 1 < L < nmi_level config ->
  xtensa_cpu_exec_interrupt config CPU_INTERRUPT_HARD env =
    Done true (check_interrupts config (high_entry config L (set_exception_index EXC_IRQ env))).
Proof.
  intros HL Hp HLr. pose proof (highest_minlevel config env L HL ltac:(lia) ltac:(lia)).
  pose proof (highest_deliverable config env L HL ltac:(lia) ltac:(lia)) as Hd.
  unfold xtensa_cpu_exec_interrupt, xtensa_cpu_do_interrupt, bind. simpl.
  unfold handle_interrupt, bind, get. simpl. rewrite Hp.
  change (irq_deliverable config (set_exception_index 9 env) L)
    with (irq_deliverable config env L).
  rewrite Hd. simpl. rewrite Z.gtb_ltb, (proj2 (Z.ltb_lt _ _)) by lia.
  rewrite handle_interrupt_high_eq by lia. reflexivity.
Qed.

Lemma exec_interrupt_level1 env :
  highest_pending config env 1 -> pending_irq_level env = 1 ->
  xtensa_cpu_exec_interrupt config CPU_INTERRUPT_HARD env =
    Done true (check_interrupts config (enter_vector config
      (set_sr PS (sr env PS ||| PS_EXCM) (set_exception_index (user_or_kernel env)
        (set_sr EPC1 (pc env) (set_sr EXCCAUSE LEVEL1_INTERRUPT_CAUSE
          (set_exception_index EXC_IRQ env))))))).
Proof.
  intros HL Hp. pose proof wf_nmi_level.
  pose proof (highest_deliverable config env 1 HL ltac:(lia) ltac:(lia)) as Hd.
  pose proof (level1_not_excm config env HL) as E.
  unfold xtensa_cpu_exec_interrupt, xtensa_cpu_do_interrupt, bind. simpl.
  unfold handle_interrupt, bind, get. simpl. rewrite Hp.
  change (irq_deliverable config (set_exception_index 9 env) 1)
    with (irq_deliverable config env 1).
  rewrite Hd. simpl. by rewrite handle_interrupt_level1_eq.
Qed.

Lemma exception_cause_eq {A} epc cause env :
  helper_exception_cause (A := A) config epc cause env =
    LoopExit (general_entry
      (if Z.testbit (sr env PS) 4 && truthy (ndepc config) then DEPC else EPC1)
      (if Z.testbit (sr env PS) 4 then EXC_DOUBLE else user_or_kernel env)
      cause (set_pc epc env)).
Proof.
  unfold helper_exception_cause, helper_exception, general_entry, user_or_kernel,
    bind, modify, get. simpl.
  change (sr (set_pc epc env) PS) with (sr env PS). rewrite truthy_excm.
  destruct (Z.testbit (sr env PS) 4); simpl.
  - destruct (truthy (ndepc config)); by sr_simpl.
  - by destruct (truthy (sr env PS &&& 32)); sr_simpl.
Qed.

Lemma enter_vector_sr env r : sr (enter_vector config env) r = sr env r.
Proof. unfold enter_vector. by if_split. Qed.

End delivery_steps.

Ltac deliver_simpl :=
  rewrite ?check_interrupts_sr, ?enter_vector_sr; sr_simpl; try reflexivity.

(** ** Claims *)

(** Delivering a pending maskable interrupt of level [L > 1] succeeds: the
    return address and PS go to EPC[L] and EPS[L], control goes to the
    relocated level-[L] vector in exception mode at level [L], and afterwards
    no interrupt is pending: the handler is not re-entered by its own level
    nor preempted by a lower one. *)
Theorem irq_high_delivery (config : XtensaConfig) `{!WfInterrupts config}
    (env : CPUXtensaState) (L : Z) :
  highest_pending config env L -> pending_irq_level env = L -> 1 < L < nmi_level config ->
  exists env',
    xtensa_cpu_exec_interrupt config CPU_INTERRUPT_HARD env = Done true env' /\
    pc env' = relocated_vector config env (nthZ (interrupt_vector config) L) /\
    sr env' (EPC1 + L - 1) = pc env /\
    sr env' (EPS2 + L - 2) = sr env PS /\
    sr env' PS = (sr env PS &&& not32 PS_INTLEVEL) ||| L ||| PS_EXCM /\
    regs env' = regs env /\
    pending_irq_level env' = 0.
Proof.
  intros HL Hp HLr. pose proof (highest_minlevel config env L HL ltac:(lia) ltac:(lia)).
  pose proof wf_nlevel. pose proof wf_vectors.
  eexists. split; [exact (exec_interrupt_high config env L HL Hp HLr)|].
  set (env1 := high_entry config L (set_exception_index EXC_IRQ env)).
  destruct (check_interrupts_frame config env1) as (_ & -> & -> & _).
  rewrite !check_interrupts_sr. unfold env1, high_entry.
  do 4 (split; [by sr_simpl|]). split; [done|].
  eapply (no_pending_above config env); [exact HL|lia|lia| |].
  - unfold int_set_enabled. by sr_simpl.
  - etrans; [|apply intlevel_floor]. sr_simpl. by rewrite ps_level_intlevel by lia.
Qed.

Definition irq5_env : CPUXtensaState :=
  set_pending_irq_level 5 (set_pc 0x40081234
    (set_sr VECBASE 0x40080000 (set_sr INTENABLE 0x84000000
      (set_sr INTSET 0x80000000 (set_sr PS 0x60021 zero_env))))).

Lemma irq5_pending : highest_pending esp32s3_config irq5_env 5.
Proof. exact (check_interrupts_pending esp32s3_config irq5_env). Qed.

Lemma irq_high_delivery_witness :
  exists env',
    xtensa_cpu_exec_interrupt esp32s3_config CPU_INTERRUPT_HARD irq5_env = Done true env' /\
    pc env' = 0x40080240 /\ sr env' 181 = 0x40081234 /\ pending_irq_level env' = 0.
Proof.
  destruct (irq_high_delivery esp32s3_config irq5_env 5 irq5_pending eq_refl
              ltac:(by vm_compute)) as (env' & ? & Hpc & He & _ & _ & _ & Hp).
  exists env'. split; [done|]. split; [exact Hpc|]. by split.
Defined.

(** A pending level-1 interrupt is only ever taken outside exception mode:
    it becomes a user or kernel exception (never a double one) with the
    level-1 cause, EPC1 holds the return address, control goes to the vector,
    and PS.EXCM then masks every interrupt that was pending. *)
Theorem irq_level1_delivery (config : XtensaConfig) `{!WfInterrupts config}
    (env : CPUXtensaState) :
  highest_pending config env 1 -> pending_irq_level env = 1 ->
  let vector := nthZ (exception_vector config) (user_or_kernel env) in
  vector <> 0 ->
  exists env',
    xtensa_cpu_exec_interrupt config CPU_INTERRUPT_HARD env = Done true env' /\
    sr env PS &&& PS_EXCM = 0 /\
    pc env' = relocated_vector config env vector /\
    sr env' EPC1 = pc env /\
    sr env' EXCCAUSE = LEVEL1_INTERRUPT_CAUSE /\
    sr env' PS = sr env PS ||| PS_EXCM /\
    pending_irq_level env' = 0.
Proof.
  intros HL Hp vector Hv. pose proof wf_nmi_level. pose proof wf_excm_level.
  eexists. split; [exact (exec_interrupt_level1 config env HL Hp)|].
  split. { apply truthy_false. rewrite truthy_excm. by apply (level1_not_excm config). }
  match goal with |- context [enter_vector config ?e] => set (env1 := e) end.
  assert (Hvec : exception_index env1 = user_or_kernel env) by done.
  assert (Hisv : is_vector_exception (user_or_kernel env) = true)
    by (unfold user_or_kernel; by destruct (truthy _)).
  assert (Hent : enter_vector config env1 = set_pc (relocated_vector config env vector) env1).
  { unfold enter_vector. rewrite Hvec, Hisv. fold vector.
    rewrite (proj2 (truthy_true vector)) by done. done. }
  destruct (check_interrupts_frame config (enter_vector config env1)) as (_ & -> & _).
  rewrite !check_interrupts_sr, Hent. unfold env1.
  split; [done|]. do 3 (split; [by sr_simpl|]).
  eapply (no_pending_above config env); [exact HL|lia|lia| |].
  - unfold int_set_enabled. by sr_simpl.
  - etrans; [|apply excm_level_floor]; [lia|]. sr_simpl. apply ps_excm_bit.
Qed.

Definition irq1_env : CPUXtensaState :=
  set_pending_irq_level 1 (set_pc 0x40081234
    (set_sr VECBASE 0x40080000 (set_sr INTENABLE 0x1
      (set_sr INTSET 0x3 (set_sr PS 0x60020 zero_env))))).

Lemma irq1_pending : highest_pending esp32s3_config irq1_env 1.
Proof. exact (check_interrupts_pending esp32s3_config irq1_env). Qed.

Lemma irq_level1_delivery_witness :
  exists env',
    xtensa_cpu_exec_interrupt esp32s3_config CPU_INTERRUPT_HARD irq1_env = Done true env' /\
    pc env' = 0x40080340 /\ pending_irq_level env' = 0.
Proof.
  destruct (irq_level1_delivery esp32s3_config irq1_env irq1_pending eq_refl
              ltac:(by vm_compute)) as (env' & ? & _ & Hpc & _ & _ & _ & Hp).
  exists env'. by split; [|split].
Defined.

(** [env'] is [env] after general exception [cause] at [epc]: the cause is in
    EXCCAUSE, PS gains exactly PS.EXCM, the return address goes to EPC1 and control
    to the user or kernel vector outside exception mode; in exception mode control
    goes to the double-exception vector and the address to DEPC where the core has
    one, to EPC1 otherwise.  No other register changes. *)
Record raised (config : XtensaConfig) (epc cause : Z) (env env' : CPUXtensaState) : Prop := {
  raised_index : exception_index env' = if Z.testbit (sr env PS) 4 then EXC_DOUBLE else user_or_kernel env;
  raised_pc : let vector := nthZ (exception_vector config) (exception_index env') in
    pc env' = if vector =? 0 then epc else relocated_vector config env vector;
  raised_save : let save := if Z.testbit (sr env PS) 4 && truthy (ndepc config) then DEPC else EPC1 in
    sr env' save = epc /\
    forall r, r <> save -> r <> EXCCAUSE -> r <> PS -> sr env' r = sr env r;
  raised_cause : sr env' EXCCAUSE = cause;
  raised_ps : sr env' PS = sr env PS ||| PS_EXCM;
  raised_regs : regs env' = regs env /\ phys_regs env' = phys_regs env;
  raised_tlb : itlb env' = itlb env /\ dtlb env' = dtlb env;
  raised_run : halted env' = halted env /\ exclusive_addr env' = exclusive_addr env
}.

(** Raising a general exception always reaches the CPU loop and the vector. *)
Theorem exception_delivery (config : XtensaConfig) (env : CPUXtensaState) (epc cause : Z) :
  exists env', take_exception config (helper_exception_cause (A := unit) config epc cause) env = Done tt env' /\
    raised config epc cause env env'.
Proof.
  unfold take_exception. rewrite exception_cause_eq.
  set (excm := Z.testbit (sr env PS) 4). set (idx := if excm then EXC_DOUBLE else user_or_kernel env).
  set (save := if excm && truthy (ndepc config) then DEPC else EPC1).
  set (env1 := general_entry save idx cause (set_pc epc env)).
  set (vector := nthZ (exception_vector config) idx).
  destruct (general_idx excm env) as [Hisv Hirq]. fold idx in Hisv, Hirq.
  assert (Hent : enter_vector config env1 = set_pc
            (if vector =? 0 then epc else relocated_vector config env vector) env1).
  { unfold enter_vector. change (exception_index env1) with idx. rewrite Hisv. fold vector.
    unfold truthy. destruct (vector =? 0); [done|]. simpl. f_equal.
    unfold relocated_vector, env1, general_entry.
    assert (VECBASE <> save) by (unfold save; destruct (_ && _); lia). by sr_simpl. }
  exists (check_interrupts config (enter_vector config env1)). split.
  { unfold xtensa_cpu_do_interrupt, bind, get. change (exception_index env1) with idx.
    by rewrite Hirq. }
  pose proof (check_interrupts_mmu config (enter_vector config env1)) as (Hit & Hdt & Hex).
  destruct (check_interrupts_frame config (enter_vector config env1)) as (_ & Hpc & Hr & Hph & Hidx & Hh).
  rewrite Hent in Hit, Hdt, Hex, Hpc, Hr, Hph, Hidx, Hh.
  assert (save = DEPC \/ save = EPC1) as Hs by (unfold save; destruct (_ && _); lia).
  split; rewrite ?check_interrupts_sr, Hent; [done|by rewrite Hpc, Hidx| | | |done..]; fold excm; fold save;
    unfold env1, general_entry; clear -Hs; [|by sr_simpl..].
  split; [|intros r H1 H2 H3]; rewrite check_interrupts_sr; by sr_simpl.
Qed.

(** Software reaches only the interrupt bits it may: INTSET writes set
    exactly the software bits of the operand, INTCLEAR writes clear exactly
    its software and edge bits, and every other bit keeps its value. *)
Theorem intset_intclear_bits (config : XtensaConfig) (env : CPUXtensaState) (v i : Z) :
  0 <= i < 32 ->
  let sw := Z.testbit (inttype_mask config INTTYPE_SOFTWARE) i in
  let edge := Z.testbit (inttype_mask config INTTYPE_EDGE) i in
  let bit env := Z.testbit (sr env INTSET) i in
  bit (helper_intset config v env) = bit env || (Z.testbit v i && sw) /\
  bit (helper_intclear config v env) = bit env && negb (Z.testbit v i && (sw || edge)).
Proof.
  intros Hi sw edge bit. unfold bit, helper_intset, helper_intclear, intclear.
  rewrite !sr_set_sr_eq. autorewrite with bits. split; [done|].
  destruct (Z.ltb_spec i 32); [done|lia].
Qed.

Lemma intset_intclear_bits_witness :
  Z.testbit (sr (helper_intset esp32s3_config 0xffffffff zero_env) INTSET) 7 = true.
Proof.
  rewrite (proj1 (intset_intclear_bits esp32s3_config zero_env 0xffffffff 7 ltac:(lia))).
  reflexivity.
Defined.

(** WAITI sets PS.INTLEVEL and never returns to the instruction stream
    normally: either an interrupt is pending at the new level and the loop is
    left at once with the CPU running, or none is and the CPU is halted with
    EXCP_HLT. *)
Theorem waiti_halts_iff_idle (config : XtensaConfig) (env : CPUXtensaState) (next level : Z) :
  0 <= level < 16 ->
  exists env',
    helper_waiti config next level env = LoopExit env' /\
    pc env' = next /\
    sr env' PS &&& PS_INTLEVEL = level /\
    highest_pending config env' (pending_irq_level env') /\
    (if pending_irq_level env' =? 0
     then halted env' = true /\ exception_index env' = EXCP_HLT
     else halted env' = halted env /\ exception_index env' = exception_index env).
Proof.
  intros Hl. unfold helper_waiti, bind, modify, get.
  set (env1 := set_sr PS _ _). pose proof (check_interrupts_pending config env1) as Hp.
  destruct (check_interrupts_frame config env1) as (Hs & Hpc & _ & _ & Hx & Hh).
  assert (Hlev : sr env1 PS &&& PS_INTLEVEL = level).
  { unfold env1. sr_simpl. unfold lsl32. rewrite Z.shiftl_0_r, u32_small by (unfold in32; lia).
    change 15 with (2 ^ 4 - 1). zbits. cmp_split; try lia; bool_simpl; try done;
    by rewrite (testbit_above 4 level) by lia. }
  apply highest_pending_after in Hp.
  destruct (truthy (pending_irq_level (check_interrupts config env1))) eqn:E.
  - exists (check_interrupts config env1). rewrite Hpc, Hh, Hx, check_interrupts_sr.
    unfold truthy in E. destruct (_ =? 0); [done|]. done.
  - eexists. split; [reflexivity|]. simpl. unfold truthy in E.
    destruct (_ =? 0); [|done]. split; [done|].
    split; [|split; [|done]]; [unfold sr; simpl; by rewrite Hs|].
    eapply highest_pending_ext; [..|exact Hp]; done.
Qed.

Lemma waiti_halts_iff_idle_witness :
  exists env', helper_waiti esp32s3_config 0x40001000 2 irq1_env = LoopExit env' /\
    halted env' = true /\ exception_index env' = EXCP_HLT.
Proof.
  destruct (waiti_halts_iff_idle esp32s3_config irq1_env 0x40001000 2 ltac:(lia))
    as (env' & He & _ & _ & _ & Hc).
  exists env'. split; [done|]. vm_compute in He. injection He as <-. exact Hc.
Defined.
