(* ===== verification/Window.v ===== *)
(** * Register windows ([target/xtensa/win_helper.c])

    The visible registers live in [regs]; the rest of the register file lives
    in [phys_regs], whose copy of the visible window is stale.  The component
    promises one flat file of [nareg] registers, [ar_file], of which the
    window is a moving view. *)

From S2P Require Import Prelude Cpu Interrupt Exception.

Section window.
Context (config : XtensaConfig).

Definition copy_window_from_phys (window phys n : Z) : cpuM unit :=
  massert (phys <? nareg config) ;;
  if u32 (phys + n) <=? nareg config then
    modify (fun env => set_regs (memcpy (regs env) window (phys_regs env) phys n) env)
  else
    let n1 := nareg config - phys in
    modify (fun env => set_regs (memcpy (regs env) window (phys_regs env) phys n1) env) ;;
    modify (fun env => set_regs (memcpy (regs env) (window + n1) (phys_regs env) 0 (n - n1)) env).

Definition copy_phys_from_window (phys window n : Z) : cpuM unit :=
  massert (phys <? nareg config) ;;
  if u32 (phys + n) <=? nareg config then
    modify (fun env => set_phys_regs (memcpy (phys_regs env) phys (regs env) window n) env)
  else
    let n1 := nareg config - phys in
    modify (fun env => set_phys_regs (memcpy (phys_regs env) phys (regs env) window n1) env) ;;
    modify (fun env =>
      set_phys_regs (memcpy (phys_regs env) 0 (regs env) (window + n1) (n - n1)) env).

Definition windowbase_bound (a : Z) : Z := a &&& (nareg config / 4 - 1).

Definition windowstart_bit (a : Z) : Z := lsl32 1 (windowbase_bound a).

Definition xtensa_sync_window_from_phys : cpuM unit :=
  env <- get ;;
  copy_window_from_phys 0 (u32 (sr env WINDOW_BASE * 4)) 16.

Definition xtensa_sync_phys_from_window : cpuM unit :=
  env <- get ;;
  copy_phys_from_window (u32 (sr env WINDOW_BASE * 4)) 0 16.

Definition xtensa_rotate_window_abs (position : Z) : cpuM unit :=
  xtensa_sync_phys_from_window ;;
  modify (set_sr WINDOW_BASE (windowbase_bound position)) ;;
  xtensa_sync_window_from_phys.

Definition xtensa_rotate_window (delta : Z) : cpuM unit :=
  env <- get ;;
  xtensa_rotate_window_abs (u32 (sr env WINDOW_BASE + delta)).

Definition helper_sync_windowbase : cpuM unit :=
  env <- get ;;
  xtensa_rotate_window_abs (windowbase_next env).

Definition helper_entry (pc s imm : Z) : cpuM unit :=
  env <- get ;;
  let callinc := (sr env PS &&& PS_CALLINC) >>> PS_CALLINC_SHIFT in
  modify (set_regs (setZ (regs env) (Z.shiftl callinc 2 ||| (s &&& 3))
                      (u32 (nthZ (regs env) s - imm)))) ;;
  modify (set_windowbase_next (u32 (sr env WINDOW_BASE + callinc))) ;;
  modify (fun env =>
    set_sr WINDOW_START (sr env WINDOW_START ||| windowstart_bit (windowbase_next env)) env).

(** Save the window base in PS.OWB and enter exception mode at [pc]. *)
Definition enter_window_exception (windowbase pc : Z) : cpuM unit :=
  modify (fun env =>
    set_sr PS ((sr env PS &&& not32 PS_OWB) ||| lsl32 windowbase PS_OWB_SHIFT ||| PS_EXCM) env) ;;
  modify (fun env => set_sr EPC1 pc (set_pc pc env)).

Definition helper_window_check (pc w : Z) : cpuM unit :=
  env <- get ;;
  let windowbase := windowbase_bound (sr env WINDOW_BASE) in
  let windowstart :=
    xtensa_replicate_windowstart config env >>> (sr env WINDOW_BASE + 1) in
  let n := ctz32 windowstart + 1 in
  massert (n <=? w) ;;
  xtensa_rotate_window n ;;
  enter_window_exception windowbase pc ;;
  let gap := ctz32 (windowstart >>> n) in
  if gap =? 0 then helper_exception EXC_WINDOW_OVERFLOW4
  else if gap =? 1 then helper_exception EXC_WINDOW_OVERFLOW8
  else helper_exception EXC_WINDOW_OVERFLOW12.

Definition call_size (a0 : Z) : Z := (a0 >>> 30) &&& 0x3.

Definition helper_test_ill_retw (pc : Z) : cpuM unit :=
  env <- get ;;
  let n := call_size (nthZ (regs env) 0) in
  let windowbase := windowbase_bound (sr env WINDOW_BASE) in
  let windowstart := sr env WINDOW_START in
  let m :=
    if truthy (windowstart &&& windowstart_bit (u32 (windowbase - 1))) then 1
    else if truthy (windowstart &&& windowstart_bit (u32 (windowbase - 2))) then 2
    else if truthy (windowstart &&& windowstart_bit (u32 (windowbase - 3))) then 3
    else 0 in
  when ((n =? 0) || (negb (m =? 0) && negb (m =? n)))
    (helper_exception_cause config pc ILLEGAL_INSTRUCTION_CAUSE).

Definition helper_test_underflow_retw (pc : Z) : cpuM unit :=
  env <- get ;;
  let n := call_size (nthZ (regs env) 0) in
  when (negb (truthy (sr env WINDOW_START
                      &&& windowstart_bit (u32 (sr env WINDOW_BASE - n)))))
    (let windowbase := windowbase_bound (sr env WINDOW_BASE) in
     xtensa_rotate_window (u32 (- n)) ;;
     enter_window_exception windowbase pc ;;
     if n =? 1 then helper_exception EXC_WINDOW_UNDERFLOW4
     else if n =? 2 then helper_exception EXC_WINDOW_UNDERFLOW8
     else if n =? 3 then helper_exception EXC_WINDOW_UNDERFLOW12
     else ret tt).

Definition helper_retw (a0 : Z) : cpuM unit :=
  let n := call_size a0 in
  xtensa_rotate_window (u32 (- n)).

Definition xtensa_restore_owb : cpuM unit :=
  env <- get ;;
  xtensa_rotate_window_abs ((sr env PS &&& PS_OWB) >>> PS_OWB_SHIFT).

Definition helper_restore_owb : cpuM unit := xtensa_restore_owb.

Definition helper_movsp (pc : Z) : cpuM unit :=
  env <- get ;;
  when ((sr env WINDOW_START &&&
         (windowstart_bit (u32 (sr env WINDOW_BASE - 3))
          ||| windowstart_bit (u32 (sr env WINDOW_BASE - 2))
          ||| windowstart_bit (u32 (sr env WINDOW_BASE - 1)))) =? 0)
    (helper_exception_cause config pc ALLOCA_CAUSE).

(** ** The flat register file *)

(** Position of register [i] of the file in the visible window. *)
Definition window_offset (env : CPUXtensaState) (i : Z) : Z :=
  (i - 4 * sr env WINDOW_BASE) mod nareg config.

Definition ar_file (env : CPUXtensaState) (i : Z) : Z :=
  if window_offset env i <? 16
  then nthZ (regs env) (window_offset env i)
  else nthZ (phys_regs env) i.

(** Index in the file of the visible register [a<j>]. *)
Definition ar_index (env : CPUXtensaState) (j : Z) : Z :=
  (4 * sr env WINDOW_BASE + j) mod nareg config.

(** The invariant of the component. *)
Record wf_window (env : CPUXtensaState) : Prop := {
  wf_regs : length (regs env) = 16%nat;
  wf_phys : length (phys_regs env) = 64%nat;
  wf_wb : 0 <= sr env WINDOW_BASE < nareg config / 4;
}.

End window.

(** Register files the overlay headers produce: a power of two that fits
    [phys_regs]. *)
Class WfNareg (config : XtensaConfig) : Prop := {
  nareg_pow2 : exists k, 4 <= k <= 6 /\ nareg config = 2 ^ k;
}.

#[export] Instance esp32s3_wf_nareg : WfNareg esp32s3_config.
Proof. split. exists 6. by split. Qed.

(** Linear arithmetic with division and remainder. *)
Ltac zmod := Z.div_mod_to_equations; lia.

(** Arithmetic that depends on the size of the register file. *)
Ltac nareg_arith Hn :=
  destruct Hn as [Hn|[Hn|Hn]]; rewrite Hn in *;
  change (16 / 4) with 4 in *; change (32 / 4) with 8 in *; change (64 / 4) with 16 in *;
  zmod.

Section window_lemmas.
Context (config : XtensaConfig) `{!WfNareg config}.

Lemma nareg_cases : nareg config = 16 \/ nareg config = 32 \/ nareg config = 64.
Proof.
  destruct nareg_pow2 as (k & Hk & ->).
  assert (k = 4 \/ k = 5 \/ k = 6) as [->|[->| ->]] by lia; auto.
Qed.

Lemma windowbase_bound_mod a :
  windowbase_bound config a = a mod (nareg config / 4).
Proof.
  unfold windowbase_bound.
  destruct nareg_cases as [->|[->| ->]].
  - exact (land_ones_mod a 2 ltac:(lia)).
  - exact (land_ones_mod a 3 ltac:(lia)).
  - exact (land_ones_mod a 4 ltac:(lia)).
Qed.

Lemma windowbase_bound_small a :
  0 <= a < nareg config / 4 -> windowbase_bound config a = a.
Proof. intros. rewrite windowbase_bound_mod. by apply Z.mod_small. Qed.

(** Wrap-around at 32 bits is invisible modulo the number of windows. *)
Lemma windowbase_bound_u32 a :
  windowbase_bound config (u32 a) = windowbase_bound config a.
Proof.
  rewrite !windowbase_bound_mod. unfold u32. change (2 ^ 32) with 4294967296.
  pose proof nareg_cases as Hn; nareg_arith Hn.
Qed.

Lemma windowbase_bound_range a : 0 <= windowbase_bound config a < nareg config / 4.
Proof.
  rewrite windowbase_bound_mod. apply Z.mod_pos_bound.
  pose proof nareg_cases as Hn. nareg_arith Hn.
Qed.

Lemma copy_phys_spec env p :
  length (regs env) = 16%nat -> length (phys_regs env) = 64%nat -> 0 <= p < nareg config ->
  exists ph,
    copy_phys_from_window config p 0 16 env = Done tt (set_phys_regs ph env) /\
    length ph = 64%nat /\
    forall i, 0 <= i < nareg config ->
      nthZ ph i = if (i - p) mod nareg config <? 16
                  then nthZ (regs env) ((i - p) mod nareg config)
                  else nthZ (phys_regs env) i.
Proof.
  intros Hr Hp Hpb. pose proof nareg_cases as Hn.
  unfold copy_phys_from_window, massert, bind, modify.
  rewrite (proj2 (Z.ltb_lt p (nareg config))) by lia.
  rewrite u32_small by (unfold in32; lia).
  destruct (Z.leb_spec (p + 16) (nareg config)).
  - eexists. split; [reflexivity|]. rewrite length_memcpy. split; [done|].
    intros i Hi. rewrite nthZ_memcpy by lia.
    destruct (Z.leb_spec p i), (Z.ltb_spec i (p + 16)), (Z.ltb_spec ((i - p) mod nareg config) 16);
      simpl; try done; try (f_equal; nareg_arith Hn).
    all: exfalso; nareg_arith Hn.
  - eexists. split; [reflexivity|]. simpl. rewrite !length_memcpy. split; [done|].
    intros i Hi. rewrite nthZ_memcpy by (rewrite ?length_memcpy; lia).
    rewrite nthZ_memcpy by lia.
    destruct (Z.leb_spec 0 i), (Z.ltb_spec i (0 + (16 - (nareg config - p)))),
      (Z.leb_spec p i), (Z.ltb_spec i (p + (nareg config - p))),
      (Z.ltb_spec ((i - p) mod nareg config) 16);
      simpl; try done; try (f_equal; nareg_arith Hn).
    all: exfalso; nareg_arith Hn.
Qed.

Lemma copy_window_spec env p :
  length (regs env) = 16%nat -> length (phys_regs env) = 64%nat -> 0 <= p < nareg config ->
  exists r,
    copy_window_from_phys config 0 p 16 env = Done tt (set_regs r env) /\
    length r = 16%nat /\
    forall j, 0 <= j < 16 -> nthZ r j = nthZ (phys_regs env) ((p + j) mod nareg config).
Proof.
  intros Hr Hp Hpb. pose proof nareg_cases as Hn.
  unfold copy_window_from_phys, massert, bind, modify.
  rewrite (proj2 (Z.ltb_lt p (nareg config))) by lia.
  rewrite u32_small by (unfold in32; lia).
  destruct (Z.leb_spec (p + 16) (nareg config)).
  - eexists. split; [reflexivity|]. rewrite length_memcpy. split; [done|].
    intros i Hi. rewrite nthZ_memcpy by lia.
    destruct (Z.leb_spec 0 i), (Z.ltb_spec i (0 + 16)); simpl; try lia.
    f_equal. nareg_arith Hn.
  - eexists. split; [reflexivity|]. simpl. rewrite !length_memcpy. split; [done|].
    intros i Hi. rewrite nthZ_memcpy by (rewrite ?length_memcpy; lia).
    rewrite nthZ_memcpy by lia.
    destruct (Z.leb_spec (0 + (nareg config - p)) i),
      (Z.ltb_spec i (0 + (nareg config - p) + (16 - (nareg config - p)))),
      (Z.leb_spec 0 i), (Z.ltb_spec i (0 + (nareg config - p)));
      simpl; try done; try lia; f_equal; nareg_arith Hn.
Qed.

(** What a rotation does: only the window base, the visible registers and
    the backing store change, the invariant holds again, the flat file is the
    same and the window shows it from the new base. *)
Lemma rotate_window_abs_spec env position :
  wf_window config env ->
  exists r ph,
    let env' := set_regs r (set_sr WINDOW_BASE (windowbase_bound config position)
                              (set_phys_regs ph env)) in
    xtensa_rotate_window_abs config position env = Done tt env' /\
    wf_window config env' /\
    (forall i, 0 <= i < nareg config -> ar_file config env' i = ar_file config env i) /\
    (forall j, 0 <= j < 16 -> nthZ r j = ar_file config env (ar_index config env' j)).
Proof.
  intros [Hr Hp Hw]. pose proof nareg_cases as Hn.
  pose proof (windowbase_bound_range position) as Hb.
  set (wb := sr env WINDOW_BASE) in *. set (wb' := windowbase_bound config position) in *.
  assert (H4 : 0 <= wb * 4 < nareg config /\ 0 <= wb' * 4 < nareg config).
  { nareg_arith Hn. }
  destruct (copy_phys_spec env (wb * 4) Hr Hp ltac:(lia)) as (ph & E1 & Hl & Hph).
  set (env1 := set_sr WINDOW_BASE wb' (set_phys_regs ph env)).
  destruct (copy_window_spec env1 (wb' * 4) Hr Hl ltac:(lia)) as (r & E2 & Hlr & Hrs).
  simpl in Hrs. exists r, ph.
  assert (Hfile : forall i, 0 <= i < nareg config -> nthZ ph i = ar_file config env i).
  { intros i Hi. rewrite Hph by done. unfold ar_file, window_offset. fold wb.
    by rewrite (Z.mul_comm wb 4). }
  split; [|split; [|split]].
  - unfold xtensa_rotate_window_abs, xtensa_sync_phys_from_window,
      xtensa_sync_window_from_phys, bind, get, modify. fold wb.
    rewrite u32_small by (unfold in32; lia). rewrite E1. fold wb' env1.
    replace (sr env1 WINDOW_BASE) with wb' by (unfold env1; by sr_simpl).
    rewrite u32_small by (unfold in32; lia). exact E2.
  - split; [done..|]. by sr_simpl.
  - intros i Hi. unfold ar_file at 1, window_offset.
    change (sr (set_regs r _) WINDOW_BASE) with (sr env1 WINDOW_BASE).
    replace (sr env1 WINDOW_BASE) with wb' by (unfold env1; by sr_simpl). simpl.
    destruct (Z.ltb_spec ((i - 4 * wb') mod nareg config) 16) as [Hlt|Hge].
    + rewrite Hrs by (split; [apply Z.mod_pos_bound; lia|done]).
      rewrite <- Hfile by done. f_equal.
      nareg_arith Hn.
    + by apply Hfile.
  - intros j Hj. rewrite Hrs by done. unfold ar_index.
    change (sr (set_regs r _) WINDOW_BASE) with (sr env1 WINDOW_BASE).
    replace (sr env1 WINDOW_BASE) with wb' by (unfold env1; by sr_simpl).
    rewrite (Z.mul_comm 4 wb'). apply Hfile. apply Z.mod_pos_bound; lia.
Qed.

(** The visible registers are the window's slice of the file. *)
Lemma ar_file_window env j :
  wf_window config env -> 0 <= j < 16 ->
  ar_file config env (ar_index config env j) = nthZ (regs env) j.
Proof.
  intros [_ _ Hw] Hj. pose proof nareg_cases as Hn. unfold ar_file, window_offset, ar_index.
  assert (((4 * sr env WINDOW_BASE + j) mod nareg config - 4 * sr env WINDOW_BASE)
            mod nareg config = j) as ->.
  { nareg_arith Hn. }
  destruct (Z.ltb_spec j 16); [done|lia].
Qed.

End window_lemmas.

Section window_ops.
Context (config : XtensaConfig) `{!WfNareg config}.

Lemma nareg_div4 : 4 <= nareg config / 4 <= 16.
Proof. pose proof (nareg_cases config) as Hn. nareg_arith Hn. Qed.

Lemma windowstart_test ws a :
  truthy (ws &&& windowstart_bit config a) = Z.testbit ws (windowbase_bound config a).
Proof.
  pose proof (windowbase_bound_range config a). pose proof nareg_div4.
  unfold windowstart_bit. apply truthy_land_bit. lia.
Qed.

Lemma windowstart_bit_spec a i :
  0 <= i -> Z.testbit (windowstart_bit config a) i = (i =? windowbase_bound config a).
Proof.
  intros. pose proof (windowbase_bound_range config a). pose proof nareg_div4.
  unfold windowstart_bit. rewrite lsl32_1 by lia. apply pow2_testbit. lia.
Qed.

Lemma bound_bound_sub a n :
  windowbase_bound config (windowbase_bound config a - n) = windowbase_bound config (a - n).
Proof. rewrite !windowbase_bound_mod by done. apply Zminus_mod_idemp_l. Qed.

Lemma bound_add_sub a n :
  windowbase_bound config (windowbase_bound config (a + n) - n) = windowbase_bound config a.
Proof.
  rewrite bound_bound_sub. f_equal. lia.
Qed.

(** Rotation by a delta, in terms of the flat file. *)
Lemma rotate_window_spec env delta :
  wf_window config env ->
  exists r ph,
    let env' := set_regs r (set_sr WINDOW_BASE
                  (windowbase_bound config (sr env WINDOW_BASE + delta)) (set_phys_regs ph env)) in
    xtensa_rotate_window config delta env = Done tt env' /\
    wf_window config env' /\
    (forall i, 0 <= i < nareg config -> ar_file config env' i = ar_file config env i) /\
    (forall j, 0 <= j < 16 -> nthZ r j = ar_file config env (ar_index config env' j)).
Proof.
  intros Hwf. destruct (rotate_window_abs_spec config env (u32 (sr env WINDOW_BASE + delta)) Hwf)
    as (r & ph & H). rewrite windowbase_bound_u32 in H by done. by exists r, ph.
Qed.

(** The invariant, the window base and the file determine the visible
    registers. *)
Lemma regs_determined env env' :
  wf_window config env -> wf_window config env' ->
  sr env' WINDOW_BASE = sr env WINDOW_BASE ->
  (forall i, 0 <= i < nareg config -> ar_file config env' i = ar_file config env i) ->
  regs env' = regs env.
Proof.
  intros Hwf Hwf' Hb Hf. pose proof (wf_regs _ _ Hwf). pose proof (wf_regs _ _ Hwf').
  pose proof (nareg_cases config) as Hn.
  apply nthZ_list_eq; [congruence|]. intros j Hj.
  rewrite <- (ar_file_window config env'), <- (ar_file_window config env) by (done || lia).
  rewrite Hf by (apply Z.mod_pos_bound; lia). unfold ar_index. by rewrite Hb.
Qed.

Lemma wf_window_ext env env' :
  wf_window config env -> length (regs env') = length (regs env) ->
  length (phys_regs env') = length (phys_regs env) ->
  sr env' WINDOW_BASE = sr env WINDOW_BASE -> wf_window config env'.
Proof. intros [] ???. split; congruence. Qed.

Lemma ar_file_ext env env' i :
  regs env' = regs env -> phys_regs env' = phys_regs env ->
  sr env' WINDOW_BASE = sr env WINDOW_BASE -> ar_file config env' i = ar_file config env i.
Proof. intros E1 E2 E3. unfold ar_file, window_offset. by rewrite E1, E2, E3. Qed.

(** PS after a window exception. *)
Definition window_exc_ps (ps wb : Z) : Z :=
  (ps &&& not32 PS_OWB) ||| lsl32 wb PS_OWB_SHIFT ||| PS_EXCM.

Lemma window_exc_ps_owb ps wb :
  0 <= wb < 16 -> (window_exc_ps ps wb &&& PS_OWB) >>> PS_OWB_SHIFT = wb.
Proof.
  intros H. unfold window_exc_ps. change 0xf00 with (Z.shiftl (2 ^ 4 - 1) 8).
  change 16 with (2 ^ 4) in *. zbits.
  destruct (Z.ltb_spec i 4); cmp_split; try lia; bool_simpl;
    replace (i + 8 - 8) with i by lia; try done; by rewrite ?(testbit_above 4 wb) by lia.
Qed.

Lemma enter_window_exception_eq env wb epc :
  enter_window_exception wb epc env =
    Done tt (set_sr EPC1 epc (set_pc epc (set_sr PS (window_exc_ps (sr env PS) wb) env))).
Proof. reflexivity. Qed.

Lemma helper_exception_eq {A} excp env :
  excp <> EXCP_YIELD -> helper_exception (A := A) excp env = LoopExit (set_exception_index excp env).
Proof.
  intros. unfold helper_exception, bind, modify. rewrite (proj2 (Z.eqb_neq _ _)) by done. done.
Qed.

(** A window exception: rotate by [delta], then leave for vector [excp]. *)
Lemma rotate_and_raise env delta wb epc excp :
  wf_window config env -> excp <> EXCP_YIELD ->
  exists env',
    (xtensa_rotate_window config delta ;; enter_window_exception wb epc ;;
     helper_exception (A := unit) excp) env = LoopExit env' /\
    wf_window config env' /\
    sr env' WINDOW_BASE = windowbase_bound config (sr env WINDOW_BASE + delta) /\
    sr env' PS = window_exc_ps (sr env PS) wb /\
    sr env' EPC1 = epc /\ pc env' = epc /\ exception_index env' = excp /\
    sr env' WINDOW_START = sr env WINDOW_START /\
    (forall i, 0 <= i < nareg config -> ar_file config env' i = ar_file config env i) /\
    (forall j, 0 <= j < 16 ->
       nthZ (regs env') j = ar_file config env (ar_index config env' j)).
Proof.
  intros Hwf Hx. destruct (rotate_window_spec env delta Hwf) as (r & ph & E & Hwf' & Hf & Hv).
  unfold bind at 1. rewrite E. unfold bind. rewrite enter_window_exception_eq.
  rewrite helper_exception_eq by done. eexists. split; [reflexivity|].
  split. { eapply wf_window_ext; [exact Hwf'|done..]. }
  do 6 (split; [by sr_simpl|]). split.
  - intros i Hi. rewrite <- Hf by done. by apply ar_file_ext.
  - exact Hv.
Qed.

End window_ops.

(** ** Occupied frames *)

Section frames.
Context (config : XtensaConfig) `{!WfNareg config}.

(** The frame [k] windows above the current one is live. *)
Definition frame_started (env : CPUXtensaState) (k : Z) : bool :=
  Z.testbit (sr env WINDOW_START) (windowbase_bound config (sr env WINDOW_BASE + k)).

Definition wf_windowstart (env : CPUXtensaState) : Prop :=
  0 <= sr env WINDOW_START < 2 ^ (nareg config / 4).

Lemma replicate_windowstart_bit env k :
  wf_windowstart env -> 0 <= k < 2 * (nareg config / 4) ->
  Z.testbit (xtensa_replicate_windowstart config env) k =
    Z.testbit (sr env WINDOW_START) (windowbase_bound config k).
Proof.
  intros Hws Hk. pose proof (nareg_div4 config).
  rewrite windowbase_bound_mod by done. unfold xtensa_replicate_windowstart.
  autorewrite with bits. destruct (Z.ltb_spec k 32); [simpl|lia].
  destruct (Z.ltb_spec k (nareg config / 4)).
  - rewrite (Z.mod_small k) by lia. rewrite (Z.testbit_neg_r _ (k - _)) by lia. apply orb_false_r.
  - rewrite (testbit_above _ _ k Hws) by done.
    replace (k mod (nareg config / 4)) with (k - nareg config / 4); [done|].
    rewrite <- (Z.mod_small (k - nareg config / 4) (nareg config / 4)) by lia.
    rewrite Zminus_mod, Z_mod_same_full, Z.sub_0_r, Z.mod_mod by lia. done.
Qed.

Definition shifted_windowstart (env : CPUXtensaState) : Z :=
  xtensa_replicate_windowstart config env >>> (sr env WINDOW_BASE + 1).

Lemma shifted_windowstart_bit env k :
  wf_window config env -> wf_windowstart env -> 1 <= k <= nareg config / 4 ->
  Z.testbit (shifted_windowstart env) (k - 1) = frame_started env k.
Proof.
  intros [_ _ Hwb] Hws Hk. unfold shifted_windowstart, frame_started.
  rewrite Z.shiftr_spec by lia. rewrite replicate_windowstart_bit by (done || lia).
  do 2 f_equal. lia.
Qed.

Lemma shifted_windowstart_in32 env : wf_window config env -> wf_windowstart env ->
  in32 (shifted_windowstart env).
Proof.
  intros [_ _ Hwb] Hws. apply in32_shiftr; [lia|]. apply in32_lor; [|apply in32_lsl32].
  unfold wf_windowstart in Hws. pose proof (nareg_div4 config).
  assert (2 ^ (nareg config / 4) <= 2 ^ 32) by (apply Z.pow_le_mono_r; lia).
  unfold in32. lia.
Qed.

(** [n] is the distance to the first live frame above the frame at distance
    [from]. *)
Definition first_started (env : CPUXtensaState) (from n : Z) : Prop :=
  1 <= n /\ from + n <= nareg config / 4 /\ frame_started env (from + n) = true /\
  forall k, 1 <= k < n -> frame_started env (from + k) = false.

Lemma ctz_first_started env from n :
  wf_window config env -> wf_windowstart env -> 0 <= from -> first_started env from n ->
  ctz32 (shifted_windowstart env >>> from) = n - 1.
Proof.
  intros Hwf Hws Hf (Hn & Hle & Hs & Hno).
  assert (Hb : forall k, 1 <= k <= n ->
     Z.testbit (shifted_windowstart env >>> from) (k - 1) = frame_started env (from + k)).
  { intros k Hk. rewrite Z.shiftr_spec by lia. rewrite <- shifted_windowstart_bit by (done || lia).
    f_equal. lia. }
  pose proof (shifted_windowstart_in32 env Hwf Hws) as H32.
  apply (in32_shiftr _ from) in H32; [|lia]. destruct H32 as [H0 H32].
  apply ctz32_unique; [|lia| |].
  - split; [|done]. destruct (Z.eqb_spec (shifted_windowstart env >>> from) 0) as [E|]; [|lia].
    specialize (Hb n ltac:(lia)). rewrite E, Hs, Z.testbit_0_l in Hb. done.
  - rewrite Hb, Hs by lia. done.
  - intros i Hi. replace i with (i + 1 - 1) by lia. rewrite Hb by lia. apply Hno. lia.
Qed.

(** The overflow vector for a frame whose successor is [m] windows away. *)
Definition overflow_vector (m : Z) : Z :=
  if m =? 1 then EXC_WINDOW_OVERFLOW4
  else if m =? 2 then EXC_WINDOW_OVERFLOW8 else EXC_WINDOW_OVERFLOW12.

Lemma window_check_eq env epc w n m :
  wf_window config env -> wf_windowstart env ->
  first_started env 0 n -> n <= w -> first_started env n m ->
  helper_window_check config epc w env =
    (xtensa_rotate_window config n ;; enter_window_exception (sr env WINDOW_BASE) epc ;;
     helper_exception (A := unit) (overflow_vector m)) env.
Proof.
  intros Hwf Hws Hn Hw Hm. unfold helper_window_check. unfold bind at 1. unfold get.
  change (xtensa_replicate_windowstart config env >>> (sr env WINDOW_BASE + 1))
    with (shifted_windowstart env).
  pose proof (ctz_first_started env 0 n Hwf Hws ltac:(lia) Hn) as E1.
  rewrite Z.shiftr_0_r in E1. rewrite E1. replace (n - 1 + 1) with n by lia.
  rewrite (ctz_first_started env n m Hwf Hws) by (done || (destruct Hn; lia)).
  rewrite windowbase_bound_small by (done || apply Hwf).
  unfold bind at 1, massert. rewrite (proj2 (Z.leb_le _ _)) by done.
  unfold overflow_vector. replace (m - 1 =? 0) with (m =? 1) by (cmp_split; lia || done).
  replace (m - 1 =? 1) with (m =? 2) by (cmp_split; lia || done).
  by destruct (m =? 1), (m =? 2).
Qed.

End frames.

(** ** ENTRY and RETW *)

Section entry_retw.
Context (config : XtensaConfig) `{!WfNareg config}.

(** The state ENTRY leaves before the window base is synchronised. *)
Definition entry_state (s imm c : Z) (env : CPUXtensaState) : CPUXtensaState :=
  let next := u32 (sr env WINDOW_BASE + c) in
  set_sr WINDOW_START (sr env WINDOW_START ||| windowstart_bit config next)
    (set_windowbase_next next
       (set_regs (setZ (regs env) (4 * c + s) (u32 (nthZ (regs env) s - imm))) env)).

Lemma helper_entry_eq env epc s imm c :
  0 <= s < 4 -> 0 <= c <= 3 -> sr env PS &&& PS_CALLINC = Z.shiftl c PS_CALLINC_SHIFT ->
  helper_entry config epc s imm env = Done tt (entry_state s imm c env).
Proof.
  intros Hs Hc Hps. unfold helper_entry, bind, get, modify.
  rewrite Hps, Z.shiftr_shiftl_l, Z.sub_diag, Z.shiftl_0_r by lia.
  assert (Z.shiftl c 2 ||| (s &&& 3) = 4 * c + s) as ->; [|done].
  assert (c = 0 \/ c = 1 \/ c = 2 \/ c = 3) as Hc3 by lia.
  assert (s = 0 \/ s = 1 \/ s = 2 \/ s = 3) as Hs4 by lia.
  by destruct Hc3 as [->|[->|[->| ->]]], Hs4 as [->|[->|[->| ->]]].
Qed.

Lemma entry_started env s imm c :
  0 <= c <= 3 ->
  Z.testbit (sr (entry_state s imm c env) WINDOW_START)
    (windowbase_bound config (sr env WINDOW_BASE + c)) = true.
Proof.
  intros Hc. unfold entry_state. sr_simpl.
  pose proof (windowbase_bound_range config (sregs env 72 + c)).
  rewrite Z.lor_spec, windowstart_bit_spec, windowbase_bound_u32, Z.eqb_refl by (done || lia).
  apply orb_true_r.
Qed.

Lemma entry_sync_spec env epc s imm c :
  wf_window config env -> 0 <= s < 4 -> 0 <= c <= 3 ->
  sr env PS &&& PS_CALLINC = Z.shiftl c PS_CALLINC_SHIFT ->
  exists env1,
    (helper_entry config epc s imm ;; helper_sync_windowbase config) env = Done tt env1 /\
    wf_window config env1 /\
    sr env1 WINDOW_BASE = windowbase_bound config (sr env WINDOW_BASE + c) /\
    sr env1 WINDOW_START = sr (entry_state s imm c env) WINDOW_START /\
    (forall j, 0 <= j < 16 - 4 * c ->
       nthZ (regs env1) j = if j =? s then u32 (nthZ (regs env) s - imm)
                            else nthZ (regs env) (4 * c + j)) /\
    (forall j, 0 <= j < 4 * c ->
       ar_file config env1 (ar_index config env j) = nthZ (regs env) j).
Proof.
  intros Hwf Hs Hc Hps. pose proof (nareg_cases config) as Hn.
  unfold bind. rewrite (helper_entry_eq env epc s imm c) by done.
  set (enve := entry_state s imm c env).
  assert (Hwe : sr enve WINDOW_BASE = sr env WINDOW_BASE) by (unfold enve, entry_state; by sr_simpl).
  assert (Hwfe : wf_window config enve).
  { apply (wf_window_ext config env); [done| |done|done]. apply length_setZ. }
  destruct (rotate_window_abs_spec config enve (windowbase_next enve) Hwfe)
    as (r & ph & E & Hwf1 & Hf1 & Hv1).
  eexists. split; [exact E|]. split; [exact Hwf1|].
  assert (Hb1 : windowbase_bound config (windowbase_next enve)
                = windowbase_bound config (sr env WINDOW_BASE + c))
    by (by apply windowbase_bound_u32).
  rewrite Hb1 in *. split; [by sr_simpl|]. split; [by sr_simpl|].
  pose proof (wf_regs _ _ Hwf) as Hl. pose proof (wf_wb _ _ Hwf). split.
  - intros j Hj. simpl. rewrite Hv1 by lia.
    assert (ar_index config (set_regs r (set_sr WINDOW_BASE
              (windowbase_bound config (sr env WINDOW_BASE + c)) (set_phys_regs ph enve))) j
            = ar_index config enve (4 * c + j)) as ->.
    { unfold ar_index. rewrite Hwe. sr_simpl. rewrite windowbase_bound_mod by done. nareg_arith Hn. }
    rewrite (ar_file_window config enve) by (done || lia).
    change (regs enve) with (setZ (regs env) (4 * c + s) (u32 (nthZ (regs env) s - imm))).
    destruct (Z.eqb_spec j s) as [->|]; [by rewrite nthZ_setZ_eq by (rewrite Hl; lia)|].
    by rewrite nthZ_setZ_ne by lia.
  - intros j Hj. rewrite Hf1 by (apply Z.mod_pos_bound; lia).
    rewrite <- (nthZ_setZ_ne (regs env) (4 * c + s) j (u32 (nthZ (regs env) s - imm))) by lia.
    change (setZ _ _ _) with (regs enve). rewrite <- (ar_file_window config enve) by (done || lia).
    unfold ar_index. by rewrite Hwe.
Qed.

(** A register outside the visible window does not depend on [regs]. *)
Lemma ar_file_hidden env1 env2 i :
  window_offset config env1 i >= 16 -> sr env2 WINDOW_BASE = sr env1 WINDOW_BASE ->
  phys_regs env2 = phys_regs env1 -> ar_file config env2 i = ar_file config env1 i.
Proof.
  intros Ho Hb Hp. unfold ar_file, window_offset in *. rewrite Hb, Hp.
  destruct (Z.ltb_spec ((i - 4 * sr env1 WINDOW_BASE) mod nareg config) 16); [lia|done].
Qed.

(** The caller's registers below the callee's window are hidden. *)
Lemma caller_hidden env env1 c j :
  32 <= nareg config -> wf_window config env -> 1 <= c <= 3 -> 0 <= j < 4 * c ->
  sr env1 WINDOW_BASE = windowbase_bound config (sr env WINDOW_BASE + c) ->
  window_offset config env1 (ar_index config env j) >= 16.
Proof.
  intros Hna [_ _ Hwb] Hc Hj Hb. pose proof (nareg_cases config) as Hn.
  unfold window_offset, ar_index. rewrite Hb, windowbase_bound_mod by done. nareg_arith Hn.
Qed.

Lemma retw_spec env a0 :
  wf_window config env ->
  exists env',
    helper_retw config a0 env = Done tt env' /\ wf_window config env' /\
    sr env' WINDOW_BASE = windowbase_bound config (sr env WINDOW_BASE - call_size a0) /\
    (forall r, r <> WINDOW_BASE -> sr env' r = sr env r) /\
    forall i, 0 <= i < nareg config -> ar_file config env' i = ar_file config env i.
Proof.
  intros Hwf. destruct (rotate_window_spec config env (u32 (- call_size a0)) Hwf)
    as (r & ph & E & Hwf' & Hf & _).
  eexists. split; [exact E|]. split; [done|].
  split; [|split; [intros q Hq; by apply fupd_ne|done]]. sr_simpl.
  rewrite <- windowbase_bound_u32 by done.
  replace (u32 (sregs env 72 + u32 (- call_size a0))) with (u32 (sregs env 72 - call_size a0)).
  - by apply windowbase_bound_u32.
  - unfold u32. by rewrite Zplus_mod_idemp_r.
Qed.

(** RETW out of a frame that ENTRY opened: the caller's base and registers
    are back, whatever the callee wrote to its own window. *)
Lemma retw_caller env env1 env2 a0 c :
  32 <= nareg config -> wf_window config env -> wf_window config env1 -> 1 <= c <= 3 ->
  sr env1 WINDOW_BASE = windowbase_bound config (sr env WINDOW_BASE + c) ->
  (forall j, 0 <= j < 4 * c -> ar_file config env1 (ar_index config env j) = nthZ (regs env) j) ->
  sr env2 WINDOW_BASE = sr env1 WINDOW_BASE -> phys_regs env2 = phys_regs env1 ->
  length (regs env2) = 16%nat -> call_size a0 = c ->
  exists env3,
    helper_retw config a0 env2 = Done tt env3 /\ wf_window config env3 /\
    sr env3 WINDOW_BASE = sr env WINDOW_BASE /\
    (forall r, r <> WINDOW_BASE -> sr env3 r = sr env2 r) /\
    forall j, 0 <= j < 4 * c -> nthZ (regs env3) j = nthZ (regs env) j.
Proof.
  intros Hna Hwf Hwf1 Hc Hb1 Hf Hb2 Hp2 Hl2 Ha0.
  assert (Hwf2 : wf_window config env2).
  { apply (wf_window_ext config env1); [done| |congruence|done]. by rewrite Hl2, (wf_regs _ _ Hwf1). }
  destruct (retw_spec env2 a0 Hwf2) as (env3 & E3 & Hwf3 & Hb3 & Hs3 & Hf3).
  assert (Hb : sr env3 WINDOW_BASE = sr env WINDOW_BASE).
  { rewrite Hb3, Ha0, Hb2, Hb1, bound_add_sub by done.
    apply windowbase_bound_small; [done|apply Hwf]. }
  exists env3. do 4 (split; [done|]). intros j Hj.
  rewrite <- (ar_file_window config env3) by (done || lia).
  replace (ar_index config env3 j) with (ar_index config env j) by (unfold ar_index; by rewrite Hb).
  pose proof (nareg_cases config). rewrite Hf3 by (apply Z.mod_pos_bound; lia).
  rewrite (ar_file_hidden env1) by (done || by eapply caller_hidden). by apply Hf.
Qed.

(** The test of RETW, by the liveness of the caller's frame. *)
Lemma test_underflow_eq env epc :
  wf_window config env ->
  let n := call_size (nthZ (regs env) 0) in
  1 <= n ->
  helper_test_underflow_retw config epc env =
    (if frame_started config env (- n) then Done tt env
     else (xtensa_rotate_window config (u32 (- n)) ;;
           enter_window_exception (sr env WINDOW_BASE) epc ;;
           helper_exception (EXC_WINDOW_UNDERFLOW4 + 2 * (n - 1))) env).
Proof.
  intros Hwf n Hn. unfold helper_test_underflow_retw. unfold bind at 1, get. fold n.
  rewrite windowstart_test, windowbase_bound_u32 by done. unfold frame_started.
  rewrite Z.add_opp_r, (windowbase_bound_small config (sr env WINDOW_BASE))
    by (done || apply Hwf).
  destruct (Z.testbit _ _); [done|].
  assert (Hn3 : 0 <= n < 2 ^ 2) by (apply (land_range 2); lia).
  clearbody n. assert (n = 1 \/ n = 2 \/ n = 3) as [->|[->| ->]] by lia; done.
Qed.

End entry_retw.

(** ** Claims *)

(** C1: Rotating the window never fails on a well-formed state, keeps the
    invariant, and is invisible in the flat register file: every one of the
    [nareg] registers keeps its value, the window base moves by [delta] modulo
    the number of windows, and visible register [a<j>] is then register
    [4 * base + j] of the file. *)
Theorem rotate_window_view (config : XtensaConfig) `{!WfNareg config}
    (env : CPUXtensaState) (delta : Z) :
  wf_window config env ->
  exists env',
    xtensa_rotate_window config delta env = Done tt env' /\
    wf_window config env' /\
    sr env' WINDOW_BASE = (sr env WINDOW_BASE + delta) mod (nareg config / 4) /\
    (forall i, 0 <= i < nareg config -> ar_file config env' i = ar_file config env i) /\
    (forall j, 0 <= j < 16 ->
       nthZ (regs env') j = ar_file config env ((4 * sr env' WINDOW_BASE + j) mod nareg config)).
Proof.
  intros Hwf. destruct (rotate_window_spec config env delta Hwf) as (r & ph & E & Hwf' & Hf & Hv).
  eexists. split; [exact E|]. split; [done|].
  split. { sr_simpl. by apply windowbase_bound_mod. }
  split; [done|]. exact Hv.
Qed.

Definition window_env : CPUXtensaState :=
  set_regs (seqZ 100 16) (set_phys_regs (seqZ 0 64) (set_sr WINDOW_START 0x8009
    (set_sr WINDOW_BASE 15 zero_env))).

Lemma window_env_wf : wf_window esp32s3_config window_env.
Proof. by split; vm_compute. Qed.

Lemma rotate_window_view_witness :
  exists env', xtensa_rotate_window esp32s3_config 3 window_env = Done tt env' /\
    sr env' WINDOW_BASE = 2 /\ regs env' = [112; 113; 114; 115; 12; 13; 14; 15; 16; 17; 18; 19;
      20; 21; 22; 23].
Proof.
  destruct (rotate_window_view esp32s3_config window_env 3 window_env_wf)
    as (env' & E & _ & Hb & _).
  exists env'. split; [done|]. split; [exact Hb|].
  vm_compute in E. injection E as <-. reflexivity.
Defined.


(** A register access beyond the live window raises the right overflow
    exception: the window moves up to the first live frame (at distance [n],
    within the checked distance [w]), PS.OWB remembers the base the access was
    made from, EPC1 the instruction, and the vector spills 4, 8 or 12
    registers according to the distance from that frame to its successor; the
    register file is untouched. *)
Theorem window_check_overflow (config : XtensaConfig) `{!WfNareg config}
    (env : CPUXtensaState) (epc w n m : Z) :
  wf_window config env -> wf_windowstart config env ->
  first_started config env 0 n -> n <= w -> first_started config env n m ->
  exists env',
    helper_window_check config epc w env = LoopExit env' /\
    wf_window config env' /\
    exception_index env' = (if m =? 1 then EXC_WINDOW_OVERFLOW4
                            else if m =? 2 then EXC_WINDOW_OVERFLOW8
                            else EXC_WINDOW_OVERFLOW12) /\
    sr env' WINDOW_BASE = (sr env WINDOW_BASE + n) mod (nareg config / 4) /\
    (sr env' PS &&& PS_OWB) >>> PS_OWB_SHIFT = sr env WINDOW_BASE /\
    Z.testbit (sr env' PS) 4 = true /\
    sr env' EPC1 = epc /\ pc env' = epc /\
    sr env' WINDOW_START = sr env WINDOW_START /\
    (forall i, 0 <= i < nareg config -> ar_file config env' i = ar_file config env i).
Proof.
  intros Hwf Hws Hn Hw Hm. rewrite (window_check_eq config env epc w n m) by done.
  destruct (rotate_and_raise config env n (sr env WINDOW_BASE) epc (overflow_vector m) Hwf)
    as (env' & E & Hwf' & Hb & Hps & Hepc & Hpc & Hx & Hs & Hf & _).
  { unfold overflow_vector. if_split; lia. }
  pose proof (wf_wb _ _ Hwf). pose proof (nareg_div4 config).
  exists env'. split; [exact E|]. split; [done|]. split; [exact Hx|].
  split; [by rewrite Hb, windowbase_bound_mod|].
  rewrite Hps, window_exc_ps_owb by lia. split; [done|].
  split; [apply ps_excm_bit|]. done.
Qed.

Lemma window_check_overflow_witness :
  exists env', helper_window_check esp32s3_config 0x40080010 2 window_env = LoopExit env' /\
    exception_index env' = EXC_WINDOW_OVERFLOW12 /\ sr env' WINDOW_BASE = 0.
Proof.
  destruct (window_check_overflow esp32s3_config window_env 0x40080010 2 1 3)
    as (env' & E & _ & Hx & Hb & _); [apply window_env_wf|by vm_compute| |lia| |].
  - split; [lia|]. split; [by vm_compute|]. split; [by vm_compute|]. intros; lia.
  - split; [lia|]. split; [by vm_compute|]. split; [by vm_compute|].
    intros k Hk. assert (k = 1 \/ k = 2) as [->| ->] by lia; by vm_compute.
  - exists env'. split; [done|]. split; [exact Hx|exact Hb].
Defined.

(** RETW finds its caller's frame spilled exactly when that frame is not
    marked live; then the window moves down to the frame to be refilled, the
    vector matches the call size, PS.OWB and EPC1 allow the handler to return
    to the instruction, and the register file is untouched.  When the frame is
    live the test changes nothing. *)
Theorem retw_underflow (config : XtensaConfig) `{!WfNareg config}
    (env : CPUXtensaState) (epc : Z) :
  wf_window config env ->
  let n := call_size (nthZ (regs env) 0) in
  1 <= n ->
  if frame_started config env (- n) then
    helper_test_underflow_retw config epc env = Done tt env
  else
    exists env',
      helper_test_underflow_retw config epc env = LoopExit env' /\
      wf_window config env' /\
      exception_index env' = EXC_WINDOW_UNDERFLOW4 + 2 * (n - 1) /\
      sr env' WINDOW_BASE = (sr env WINDOW_BASE - n) mod (nareg config / 4) /\
      (sr env' PS &&& PS_OWB) >>> PS_OWB_SHIFT = sr env WINDOW_BASE /\
      sr env' EPC1 = epc /\ pc env' = epc /\
      (forall i, 0 <= i < nareg config -> ar_file config env' i = ar_file config env i).
Proof.
  intros Hwf n Hn. rewrite test_underflow_eq by done. fold n.
  destruct (frame_started config env (- n)); [done|].
  assert (Hn3 : 0 <= n < 2 ^ 2) by (apply (land_range 2); lia).
  pose proof (wf_wb _ _ Hwf). pose proof (nareg_div4 config).
  destruct (rotate_and_raise config env (u32 (- n)) (sr env WINDOW_BASE) epc
              (EXC_WINDOW_UNDERFLOW4 + 2 * (n - 1)) Hwf)
    as (env' & E & Hwf' & Hb & Hps & Hepc & Hpc & Hx & _ & Hf & _); [lia|].
  exists env'. split; [exact E|]. split; [done|]. split; [done|]. split.
  - rewrite Hb, windowbase_bound_mod by done. pose proof (nareg_cases config) as Hc.
    clearbody n. unfold u32. change (2 ^ 32) with 4294967296. nareg_arith Hc.
  - rewrite Hps, window_exc_ps_owb by lia. done.
Qed.

Definition spilled_env : CPUXtensaState :=
  set_regs (0x80001234 :: seqZ 101 15) window_env.

Lemma retw_underflow_witness :
  exists env', helper_test_underflow_retw esp32s3_config 0x40080020 spilled_env = LoopExit env' /\
    exception_index env' = EXC_WINDOW_UNDERFLOW8 /\ sr env' WINDOW_BASE = 13.
Proof.
  destruct (retw_underflow esp32s3_config spilled_env 0x40080020
              ltac:(by split; vm_compute) ltac:(by vm_compute)) as (env' & E & _ & Hx & Hb & _).
  exists env'. split; [done|]. split; [exact Hx|exact Hb].
Defined.

(** The two guards of the window discipline are exact: RETW is illegal
    iff the call size is 0 or the nearest live frame among the three below the
    current one is not at that distance, and MOVSP raises an alloca exception
    iff none of those three frames is live; otherwise both leave the state
    alone. *)
Theorem window_guards_exact (config : XtensaConfig) `{!WfNareg config}
    (env : CPUXtensaState) (epc : Z) :
  wf_window config env ->
  let n := call_size (nthZ (regs env) 0) in
  let live k := frame_started config env (- k) in
  let nearest := if live 1 then 1 else if live 2 then 2 else if live 3 then 3 else 0 in
  helper_test_ill_retw config epc env =
    (if (n =? 0) || (negb (nearest =? 0) && negb (nearest =? n))
     then helper_exception_cause config epc ILLEGAL_INSTRUCTION_CAUSE env
     else Done tt env) /\
  helper_movsp config epc env =
    (if live 1 || live 2 || live 3 then Done tt env
     else helper_exception_cause config epc ALLOCA_CAUSE env).
Proof.
  intros Hwf n live nearest.
  assert (Hlive : forall k, truthy (sr env WINDOW_START &&&
            windowstart_bit config (u32 (sr env WINDOW_BASE - k))) = live k).
  { intros k. unfold live, frame_started.
    by rewrite windowstart_test, windowbase_bound_u32, Z.add_opp_r by done. }
  split.
  - unfold helper_test_ill_retw, bind at 1, get. fold n.
    rewrite windowbase_bound_small by (done || apply Hwf). rewrite !Hlive. fold nearest.
    by destruct (_ || _).
  - unfold helper_movsp, bind at 1, get.
    assert (Ht : forall a b, truthy (a ||| b) = truthy a || truthy b).
    { intros a b. unfold truthy. apply eq_true_iff_eq.
      rewrite negb_true_iff, orb_true_iff, !negb_true_iff, !Z.eqb_neq, Z.lor_eq_0_iff. lia. }
    rewrite !Z.land_lor_distr_r.
    match goal with |- context [when (?x =? 0)] =>
      replace (x =? 0) with (negb (truthy x)) by (unfold truthy; by rewrite negb_involutive) end.
    rewrite !Ht, !Hlive. by destruct (live 1), (live 2), (live 3).
Qed.

Lemma window_guards_exact_witness :
  helper_movsp esp32s3_config 0x40080020 spilled_env =
    helper_exception_cause esp32s3_config 0x40080020 ALLOCA_CAUSE spilled_env.
Proof.
  exact (proj2 (window_guards_exact esp32s3_config spilled_env 0x40080020
                  ltac:(by split; vm_compute))).
Defined.
