(* ===== verification/Tlb.v ===== *)
(** * The TLBs ([target/xtensa/mmu_helper.c], TLB half)

    Addressing of the ways, reading and writing entries, lookup, and reset.
    The two TLBs are told apart by the flag [d] ([dtlb] in the code). *)

From S2P Require Import Prelude Cpu Exception.

Abbreviation REGION_PAGE_MASK := 0xe0000000 (only parsing).

Section tlb.
Context (config : XtensaConfig).

Definition helper_wsr_rasid (v : Z) (env : CPUXtensaState) : CPUXtensaState :=
  let v := (v &&& 0xffffff00) ||| 0x1 in
  if negb (v =? sr env RASID) then emit EvTlbFlush (set_sr RASID v env) else env.

Definition get_page_size (env : CPUXtensaState) (d : bool) (way : Z) : Z :=
  let tlbcfg := sr env (if d then DTLBCFG else ITLBCFG) in
  if way =? 4 then (tlbcfg >>> 16) &&& 0x3
  else if way =? 5 then (tlbcfg >>> 20) &&& 0x1
  else if way =? 6 then (tlbcfg >>> 24) &&& 0x1
  else 0.

Definition tlb_config (d : bool) : xtensa_tlb :=
  if d then cfg_dtlb config else cfg_itlb config.

Definition xtensa_tlb_get_addr_mask (env : CPUXtensaState) (d : bool) (way : Z) : Z :=
  if xtensa_option_enabled config OPTION_MMU then
    let v56 := varway56 (tlb_config d) in
    if way =? 4 then lsl32 0xfff00000 (get_page_size env d way * 2)
    else if way =? 5 then
      if v56 then lsl32 0xf8000000 (get_page_size env d way) else 0xf8000000
    else if way =? 6 then
      if v56 then lsl32 0xf0000000 (1 - get_page_size env d way) else 0xf0000000
    else 0xfffff000
  else REGION_PAGE_MASK.

Definition get_vpn_mask (env : CPUXtensaState) (d : bool) (way : Z) : Z :=
  if way <? 4 then
    if nrefillentries (tlb_config d) =? 32 then 0xffff8000 else 0xffffc000
  else if way =? 4 then lsl32 (xtensa_tlb_get_addr_mask env d way) 2
  else if way <=? 6 then
    let mask := xtensa_tlb_get_addr_mask env d way in
    if varway56 (tlb_config d) then lsl32 mask (if way =? 5 then 2 else 3)
    else lsl32 mask 1
  else 0xfffff000.

(** The entry index of [v] in way [wi]. *)
Definition tlb_entry_index (env : CPUXtensaState) (v : Z) (d : bool) (wi : Z) : Z :=
  if wi <? 4 then
    (v >>> 12) &&& (if nrefillentries (tlb_config d) =? 32 then 0x7 else 0x3)
  else if wi =? 4 then
    (v >>> (20 + get_page_size env d wi * 2)) &&& 0x3
  else if wi =? 5 then
    if varway56 (tlb_config d) then (v >>> (27 + get_page_size env d wi)) &&& 0x3
    else (v >>> 27) &&& 0x1
  else if wi =? 6 then
    if varway56 (tlb_config d) then (v >>> (29 - get_page_size env d wi)) &&& 0x7
    else (v >>> 28) &&& 0x1
  else 0.

(** Returns [(vpn, ei)]. *)
Definition split_tlb_entry_spec_way (env : CPUXtensaState) (v : Z) (d : bool) (wi : Z) : Z * Z :=
  let wi := if d then wi else wi &&& 7 in
  (v &&& xtensa_tlb_get_addr_mask env d wi, tlb_entry_index env v d wi).

(** Returns [(vpn, wi, ei)], or nothing when the way does not exist. *)
Definition split_tlb_entry_spec (env : CPUXtensaState) (v : Z) (d : bool) : option (Z * Z * Z) :=
  if xtensa_option_enabled config OPTION_MMU then
    let wi := v &&& (if d then 0xf else 0x7) in
    if wi <? nways (tlb_config d) then
      let '(vpn, ei) := split_tlb_entry_spec_way env v d wi in Some (vpn, wi, ei)
    else None
  else Some (v &&& REGION_PAGE_MASK, 0, (v >>> 29) &&& 0x7).

(** The storage behind an entry pointer. *)
Definition tlb_entry (env : CPUXtensaState) (d : bool) (wi ei : Z) : xtensa_tlb_entry :=
  (if d then dtlb env else itlb env) wi ei.
Definition store_tlb_entry (d : bool) (wi ei : Z) (e : xtensa_tlb_entry)
    (env : CPUXtensaState) : CPUXtensaState :=
  if d then set_dtlb (fupd2 (dtlb env) wi ei e) env
  else set_itlb (fupd2 (itlb env) wi ei e) env.

Definition xtensa_tlb_get_entry (d : bool) (wi ei : Z) : cpuM xtensa_tlb_entry :=
  let tlb := tlb_config d in
  massert ((wi <? nways tlb) && (ei <? nthZ (way_size tlb) wi)) ;;
  gets (fun env => tlb_entry env d wi ei).

(** Returns the entry with its position [(wi, ei)]. *)
Definition get_tlb_entry (v : Z) (d : bool) : cpuM (option (xtensa_tlb_entry * Z * Z)) :=
  env <- get ;;
  match split_tlb_entry_spec env v d with
  | Some (_, wi, ei) => e <- xtensa_tlb_get_entry d wi ei ;; ret (Some (e, wi, ei))
  | None => ret None
  end.

Definition xtensa_tlb_set_entry_mmu (env : CPUXtensaState) (e : xtensa_tlb_entry) (d : bool)
    (wi ei vpn pte : Z) : xtensa_tlb_entry :=
  {| te_vaddr := vpn;
     te_paddr := pte &&& xtensa_tlb_get_addr_mask env d wi;
     te_asid := (sr env RASID >>> ((pte >>> 1) &&& 0x18)) &&& 0xff;
     te_attr := pte &&& 0xf;
     te_variable := te_variable e |}.

Definition xtensa_tlb_set_entry (d : bool) (wi ei vpn pte : Z) : cpuM unit :=
  e <- xtensa_tlb_get_entry d wi ei ;;
  if xtensa_option_enabled config OPTION_MMU then
    when (te_variable e)
      (when (truthy (te_asid e)) (modify (emit (EvTlbFlushPage (te_vaddr e)))) ;;
       env <- get ;;
       let e' := xtensa_tlb_set_entry_mmu env e d wi ei vpn pte in
       modify (store_tlb_entry d wi ei e') ;;
       modify (emit (EvTlbFlushPage (te_vaddr e'))))
  else
    modify (emit (EvTlbFlushPage (te_vaddr e))) ;;
    let paddr := if xtensa_option_enabled config OPTION_REGION_TRANSLATION
                 then pte &&& REGION_PAGE_MASK else te_paddr e in
    modify (store_tlb_entry d wi ei
              (mkTlbEntry (te_vaddr e) paddr (te_asid e) (pte &&& 0xf) (te_variable e))).

(** ** Reset *)

Definition reset_tlb_mmu_all_ways (tlb : xtensa_tlb) (entry : Z -> Z -> xtensa_tlb_entry)
  : Z -> Z -> xtensa_tlb_entry :=
  fun wi ei =>
    if (0 <=? wi) && (wi <? nways tlb) && (0 <=? ei) && (ei <? nthZ (way_size tlb) wi) then
      let e := entry wi ei in mkTlbEntry (te_vaddr e) (te_paddr e) 0 (te_attr e) true
    else entry wi ei.

Definition way5_fixed : list xtensa_tlb_entry :=
  [ mkTlbEntry 0xd0000000 0 1 7 false; mkTlbEntry 0xd8000000 0 1 3 false ].
Definition way6_fixed : list xtensa_tlb_entry :=
  [ mkTlbEntry 0xe0000000 0xf0000000 1 7 false; mkTlbEntry 0xf0000000 0xf0000000 1 3 false ].

Definition reset_tlb_mmu_ways56 (tlb : xtensa_tlb) (entry : Z -> Z -> xtensa_tlb_entry)
  : Z -> Z -> xtensa_tlb_entry :=
  fun wi ei =>
    if negb (varway56 tlb) then
      if (wi =? 5) && (0 <=? ei) then default (entry wi ei) (way5_fixed !! Z.to_nat ei)
      else if (wi =? 6) && (0 <=? ei) then default (entry wi ei) (way6_fixed !! Z.to_nat ei)
      else entry wi ei
    else if (wi =? 6) && (0 <=? ei) && (ei <? 8) then
      mkTlbEntry (lsl32 ei 29) (lsl32 ei 29) 1 3 (te_variable (entry wi ei))
    else entry wi ei.

Definition reset_tlb_region_way0 (entry : Z -> Z -> xtensa_tlb_entry)
  : Z -> Z -> xtensa_tlb_entry :=
  fun wi ei =>
    if (wi =? 0) && (0 <=? ei) && (ei <? 8) then
      mkTlbEntry (lsl32 ei 29) (lsl32 ei 29) 1 2 true
    else entry wi ei.

Definition mpu_bg_entry (i : Z) : xtensa_mpu_entry := mpu_bg config !!! Z.to_nat i.

Definition reset_mmu : cpuM unit :=
  if xtensa_option_enabled config OPTION_MMU then
    modify (fun env => set_autorefill_idx 0
              (set_sr DTLBCFG 0 (set_sr ITLBCFG 0 (set_sr RASID 0x04030201 env)))) ;;
    modify (fun env => set_itlb (reset_tlb_mmu_all_ways (cfg_itlb config) (itlb env)) env) ;;
    modify (fun env => set_dtlb (reset_tlb_mmu_all_ways (cfg_dtlb config) (dtlb env)) env) ;;
    modify (fun env => set_itlb (reset_tlb_mmu_ways56 (cfg_itlb config) (itlb env)) env) ;;
    modify (fun env => set_dtlb (reset_tlb_mmu_ways56 (cfg_dtlb config) (dtlb env)) env)
  else if xtensa_option_enabled config OPTION_MPU then
    modify (fun env => set_sr CACHEADRDIS 0
              (set_sr MPUCFG (n_mpu_fg_segments config) (set_sr MPUENB 0 env))) ;;
    massert ((0 <? n_mpu_bg_segments config) && (me_vaddr (mpu_bg_entry 0) =? 0)) ;;
    for_range 1 (n_mpu_bg_segments config - 1) (fun i =>
      massert (me_vaddr (mpu_bg_entry (i - 1)) <=? me_vaddr (mpu_bg_entry i)))
  else
    modify (set_sr CACHEATTR 0x22222222) ;;
    modify (fun env => set_itlb (reset_tlb_region_way0 (itlb env)) env) ;;
    modify (fun env => set_dtlb (reset_tlb_region_way0 (dtlb env)) env).

(** ** Lookup *)

Definition get_ring (env : CPUXtensaState) (asid : Z) : Z :=
  let is_ring i := ((sr env RASID >>> (i * 8)) &&& 0xff) =? asid in
  if is_ring 0 then 0 else if is_ring 1 then 1
  else if is_ring 2 then 2 else if is_ring 3 then 3 else 0xff.

Definition tlb_multi_hit (d : bool) : Z :=
  if d then LOAD_STORE_TLB_MULTI_HIT_CAUSE else INST_TLB_MULTI_HIT_CAUSE.
Definition tlb_miss (d : bool) : Z :=
  if d then LOAD_STORE_TLB_MISS_CAUSE else INST_TLB_MISS_CAUSE.

(** The ring a way grants [addr], when its entry matches. *)
Definition way_hit (env : CPUXtensaState) (addr : Z) (d : bool) (wi : Z) : option (Z * Z * Z) :=
  let '(vpn, ei) := split_tlb_entry_spec_way env addr d wi in
  let e := tlb_entry env d wi ei in
  if (te_vaddr e =? vpn) && truthy (te_asid e) then
    let ring := get_ring env (te_asid e) in
    if ring <? 4 then Some (wi, ei, ring) else None
  else None.

(** The loop over the ways; [hit] is the hit counted so far. *)
Fixpoint tlb_lookup_ways (env : CPUXtensaState) (addr : Z) (d : bool) (n : nat) (wi : Z)
    (hit : option (Z * Z * Z)) : Z + Z * Z * Z :=
  match n with
  | O => match hit with Some h => inr h | None => inl (tlb_miss d) end
  | S n' =>
      match way_hit env addr d wi with
      | Some h =>
          match hit with
          | Some _ => inl (tlb_multi_hit d)
          | None => tlb_lookup_ways env addr d n' (wi + 1) (Some h)
          end
      | None => tlb_lookup_ways env addr d n' (wi + 1) hit
      end
  end.

(** [inl cause], or [inr (wi, ei, ring)] when the code returns 0. *)
Definition xtensa_tlb_lookup (env : CPUXtensaState) (addr : Z) (d : bool) : Z + Z * Z * Z :=
  tlb_lookup_ways env addr d (Z.to_nat (nways (tlb_config d))) 0 None.

(** ** TLB instructions *)

Definition helper_rtlb0 (v : Z) (d : bool) : cpuM Z :=
  if xtensa_option_enabled config OPTION_MMU then
    env <- get ;;
    e <- get_tlb_entry v d ;;
    match e with
    | Some (e, wi, _) => ret ((te_vaddr e &&& get_vpn_mask env d wi) ||| te_asid e)
    | None => ret 0
    end
  else ret (v &&& REGION_PAGE_MASK).

Definition helper_rtlb1 (v : Z) (d : bool) : cpuM Z :=
  e <- get_tlb_entry v d ;;
  match e with
  | Some (e, _, _) => ret (te_paddr e ||| te_attr e)
  | None => ret 0
  end.

Definition helper_itlb (v : Z) (d : bool) : cpuM unit :=
  when (xtensa_option_enabled config OPTION_MMU)
    (e <- get_tlb_entry v d ;;
     match e with
     | Some (e, wi, ei) =>
         when (te_variable e && truthy (te_asid e))
           (modify (emit (EvTlbFlushPage (te_vaddr e))) ;;
            modify (store_tlb_entry d wi ei
                      (mkTlbEntry (te_vaddr e) (te_paddr e) 0 (te_attr e) (te_variable e))))
     | None => ret tt
     end).

Definition helper_ptlb (v : Z) (d : bool) : cpuM Z :=
  if xtensa_option_enabled config OPTION_MMU then
    env <- get ;;
    match xtensa_tlb_lookup env v d with
    | inr (wi, _, ring) =>
        if xtensa_get_ring config env <=? ring
        then ret ((v &&& 0xfffff000) ||| wi ||| (if d then 0x10 else 0x8))
        else ret 0
    | inl cause =>
        if (cause =? INST_TLB_MULTI_HIT_CAUSE) || (cause =? LOAD_STORE_TLB_MULTI_HIT_CAUSE)
        then helper_exception_cause_vaddr config (pc env) cause v
        else ret 0
    end
  else ret ((v &&& REGION_PAGE_MASK) ||| 0x1).

Definition helper_wtlb (p v : Z) (d : bool) : cpuM unit :=
  env <- get ;;
  match split_tlb_entry_spec env v d with
  | Some (vpn, wi, ei) => xtensa_tlb_set_entry d wi ei vpn p
  | None => ret tt
  end.

End tlb.

(** ** TLB geometry *)

(** [TLB_TEMPLATE] of a core with the MMU option. *)
Definition tlb_template (ways refill_way_size : Z) (way56 : bool) : xtensa_tlb := {|
  nways := ways;
  way_size := [ refill_way_size; refill_way_size; refill_way_size; refill_way_size;
                4; if way56 then 4 else 2; if way56 then 8 else 2; 1; 1; 1 ];
  varway56 := way56;
  nrefillentries := refill_way_size * 4;
|}.

Class WfTlb (config : XtensaConfig) : Prop := {
  wf_mmu_tlb : xtensa_option_enabled config OPTION_MMU = true -> forall d,
    exists refill way56, (refill = 4 \/ refill = 8) /\
      tlb_config config d = tlb_template (if d then 10 else 7) refill way56;
  wf_region_tlb : xtensa_option_enabled config OPTION_MMU = false -> forall d,
    nways (tlb_config config d) = 1 /\ nthZ (way_size (tlb_config config d)) 0 = 8;
}.

#[export] Instance esp32s3_wf_tlb : WfTlb esp32s3_config.
Proof. split; [done|]. intros _ []; by split. Qed.

(** A core with the full MMU, for examples: the template of a Linux-capable
    configuration with 4-entry refill ways and fixed ways 5 and 6. *)
Definition mmu_config : XtensaConfig :=
  let c := esp32s3_config in
  {| options := xtensa_option_bit OPTION_MMU ||| xtensa_option_bit OPTION_EXCEPTION;
     nareg := nareg c; excm_level := excm_level c; ndepc := ndepc c;
     max_insn_size := max_insn_size c; vecbase := vecbase c;
     exception_vector := exception_vector c; ninterrupt := ninterrupt c; nlevel := nlevel c;
     nmi_level := nmi_level c; interrupt_vector := interrupt_vector c;
     level_mask := level_mask c; inttype_mask := inttype_mask c; interrupt := interrupt c;
     nccompare := nccompare c; timerint := timerint c; nextint := nextint c;
     extint := extint c; debug_level := debug_level c; nibreak := nibreak c;
     ndbreak := ndbreak c; icache_ways := icache_ways c; dcache_ways := dcache_ways c;
     memctl_mask := memctl_mask c; configid := configid c;
     cfg_itlb := tlb_template 7 4 false; cfg_dtlb := tlb_template 10 4 false;
     mpu_align := 0; n_mpu_fg_segments := 0; n_mpu_bg_segments := 0; mpu_bg := [];
     dcache_line_bytes := 16; hw_version := 270012; use_first_nan := false |}.

#[export] Instance mmu_wf_tlb : WfTlb mmu_config.
Proof.
  split; [|done]. intros _ []; exists 4, false; split; auto.
Qed.

Section geometry.
Context (config : XtensaConfig) `{!WfTlb config}.

Lemma get_page_size_range env d way :
  0 <= get_page_size env d way <= 3 /\ (way <> 4 -> get_page_size env d way <= 1).
Proof.
  unfold get_page_size.
  pose proof (land_range 2 (sr env (if d then DTLBCFG else ITLBCFG) >>> 16) 3 ltac:(lia)).
  pose proof (land_range 1 (sr env (if d then DTLBCFG else ITLBCFG) >>> 20) 1 ltac:(lia)).
  pose proof (land_range 1 (sr env (if d then DTLBCFG else ITLBCFG) >>> 24) 1 ltac:(lia)).
  cmp_split; lia.
Qed.

(** Every index the code computes is inside its way. *)
Lemma tlb_entry_index_bounds env v d wi :
  xtensa_option_enabled config OPTION_MMU = true ->
  0 <= wi < nways (tlb_config config d) ->
  0 <= tlb_entry_index config env v d wi < nthZ (way_size (tlb_config config d)) wi.
Proof.
  intros Hm Hw. destruct (wf_mmu_tlb Hm d) as (refill & v56 & Hr & Ht).
  unfold tlb_entry_index. rewrite Ht in *. simpl in *.
  assert (Hw' : 0 <= wi < 10) by (destruct d; lia). clear Hw.
  assert (wi = 0 \/ wi = 1 \/ wi = 2 \/ wi = 3 \/ wi = 4 \/ wi = 5 \/ wi = 6 \/ wi = 7 \/
          wi = 8 \/ wi = 9) as Hc by lia.
  repeat destruct Hc as [->|Hc]; try subst wi; simpl;
    try (destruct Hr as [-> | ->]; simpl;
         [apply (land_range 2)|apply (land_range 3)]; lia);
    try (apply (land_range 2); lia); try done;
    destruct v56; simpl; try (apply (land_range 2); lia); try (apply (land_range 3); lia);
    try (apply (land_range 1); lia).
Qed.

Lemma split_spec_valid env v d vpn wi ei :
  split_tlb_entry_spec config env v d = Some (vpn, wi, ei) ->
  0 <= wi < nways (tlb_config config d) /\
  0 <= ei < nthZ (way_size (tlb_config config d)) wi.
Proof.
  unfold split_tlb_entry_spec. destruct (xtensa_option_enabled config OPTION_MMU) eqn:Hm.
  - destruct (Z.ltb_spec (v &&& (if d then 15 else 7)) (nways (tlb_config config d))) as [Hw|];
      [|done]. unfold split_tlb_entry_spec_way. intros [= <- <- <-].
    assert (Hw0 : 0 <= v &&& (if d then 15 else 7)) by (apply land_nonneg_r; destruct d; lia).
    assert (Hi : (if d then v &&& (if d then 15 else 7) else (v &&& (if d then 15 else 7)) &&& 7)
                 = v &&& (if d then 15 else 7)).
    { destruct d; [done|]. by rewrite <- Z.land_assoc, Z.land_diag. }
    rewrite Hi. split; [lia|]. apply tlb_entry_index_bounds; [done|lia].
  - intros [= <- <- <-]. destruct (wf_region_tlb Hm d) as [-> ->].
    split; [lia|]. apply (land_range 3). lia.
Qed.

Lemma get_entry_ok env d wi ei :
  0 <= wi < nways (tlb_config config d) -> 0 <= ei < nthZ (way_size (tlb_config config d)) wi ->
  xtensa_tlb_get_entry config d wi ei env = Done (tlb_entry env d wi ei) env.
Proof.
  intros [_ Hw] [_ He]. unfold xtensa_tlb_get_entry, bind, massert.
  rewrite (proj2 (Z.ltb_lt _ _) Hw), (proj2 (Z.ltb_lt _ _) He). done.
Qed.

Lemma get_tlb_entry_eq env v d :
  get_tlb_entry config v d env =
    Done (match split_tlb_entry_spec config env v d with
          | Some (_, wi, ei) => Some (tlb_entry env d wi ei, wi, ei)
          | None => None
          end) env.
Proof.
  unfold get_tlb_entry, bind, get.
  destruct (split_tlb_entry_spec config env v d) as [[[vpn wi] ei]|] eqn:E; [|done].
  destruct (split_spec_valid _ _ _ _ _ _ E). by rewrite get_entry_ok.
Qed.

(** In a TLB address the entry written is the one lookup would consult. *)
Lemma split_spec_way env v (d : bool) wi :
  xtensa_option_enabled config OPTION_MMU = true ->
  v &&& (if d then 15 else 7) = wi -> wi < nways (tlb_config config d) ->
  split_tlb_entry_spec config env v d =
    Some (v &&& xtensa_tlb_get_addr_mask config env d wi, wi, tlb_entry_index config env v d wi).
Proof.
  intros Hm Hw Hlt. unfold split_tlb_entry_spec, split_tlb_entry_spec_way. rewrite Hm, Hw.
  rewrite (proj2 (Z.ltb_lt _ _) Hlt). do 3 f_equal; destruct d; try done; f_equal;
    rewrite <- Hw; by rewrite <- Z.land_assoc, Z.land_diag.
Qed.

End geometry.

(** ** Lookup and update lemmas *)

Definition tlb_hits (config : XtensaConfig) (env : CPUXtensaState) (addr : Z) (d : bool)
  : list (Z * Z * Z) :=
  omap (way_hit config env addr d) (seqZ 0 (nways (tlb_config config d))).

Definition lookup_result (d : bool) (hits : list (Z * Z * Z)) : Z + Z * Z * Z :=
  match hits with
  | [] => inl (tlb_miss d)
  | [h] => inr h
  | _ => inl (tlb_multi_hit d)
  end.

Lemma tlb_lookup_ways_spec config env addr d n wi hit :
  tlb_lookup_ways config env addr d n wi hit =
    lookup_result d (option_list hit ++ omap (way_hit config env addr d) (seqZ wi (Z.of_nat n))).
Proof.
  revert wi hit. induction n as [|n IH]; intros wi hit.
  - simpl. rewrite app_nil_r. by destruct hit.
  - rewrite seqZ_cons by lia. replace (Z.pred (Z.of_nat (S n))) with (Z.of_nat n) by lia.
    simpl. rewrite <- Z.add_1_r.
    destruct (way_hit config env addr d wi) as [h|].
    + destruct hit as [h'|]; [done|]. rewrite IH. done.
    + rewrite IH. done.
Qed.

Lemma tlb_entry_store_eq env d wi ei e : tlb_entry (store_tlb_entry d wi ei e env) d wi ei = e.
Proof. unfold tlb_entry, store_tlb_entry. destruct d; simpl; apply fupd2_eq. Qed.

Lemma tlb_entry_store_ne env d wi ei e d' wi' ei' :
  (d', wi', ei') <> (d, wi, ei) ->
  tlb_entry (store_tlb_entry d wi ei e env) d' wi' ei' = tlb_entry env d' wi' ei'.
Proof.
  intros Hne. unfold tlb_entry, store_tlb_entry. destruct d, d'; simpl; try done;
    apply fupd2_ne; destruct (decide (wi' = wi)), (decide (ei' = ei)); naive_solver.
Qed.

Lemma sr_store_tlb_entry env d wi ei e r : sr (store_tlb_entry d wi ei e env) r = sr env r.
Proof. by destruct d. Qed.

Lemma tlb_entry_emit ev env d wi ei : tlb_entry (emit ev env) d wi ei = tlb_entry env d wi ei.
Proof. by destruct d. Qed.

(** The addressing functions read only the special registers. *)
Lemma page_size_ext env env' d way :
  sregs env' = sregs env -> get_page_size env' d way = get_page_size env d way.
Proof. intros E. unfold get_page_size, sr. by rewrite E. Qed.

Lemma addr_mask_ext config env env' d way :
  sregs env' = sregs env ->
  xtensa_tlb_get_addr_mask config env' d way = xtensa_tlb_get_addr_mask config env d way.
Proof. intros E. unfold xtensa_tlb_get_addr_mask. by rewrite !(page_size_ext env env'). Qed.

Lemma entry_index_ext config env env' v d way :
  sregs env' = sregs env ->
  tlb_entry_index config env' v d way = tlb_entry_index config env v d way.
Proof. intros E. unfold tlb_entry_index. by rewrite !(page_size_ext env env'). Qed.

Lemma split_way_ext config env env' v d way :
  sregs env' = sregs env ->
  split_tlb_entry_spec_way config env' v d way = split_tlb_entry_spec_way config env v d way.
Proof.
  intros E. unfold split_tlb_entry_spec_way.
  by rewrite (addr_mask_ext config env env'), (entry_index_ext config env env').
Qed.

Lemma split_ext config env env' v d :
  sregs env' = sregs env ->
  split_tlb_entry_spec config env' v d = split_tlb_entry_spec config env v d.
Proof. intros E. unfold split_tlb_entry_spec. by rewrite (split_way_ext config env env'). Qed.

Section update.
Context (config : XtensaConfig) `{!WfTlb config}.

(** The entry a write to a variable MMU entry leaves. *)
Definition mmu_entry (env : CPUXtensaState) (d : bool) (wi vpn pte : Z) (var : bool)
  : xtensa_tlb_entry :=
  mkTlbEntry vpn (pte &&& xtensa_tlb_get_addr_mask config env d wi)
    ((sr env RASID >>> ((pte >>> 1) &&& 0x18)) &&& 0xff) (pte &&& 0xf) var.

Lemma set_entry_mmu_eq env d wi ei vpn pte :
  xtensa_option_enabled config OPTION_MMU = true ->
  0 <= wi < nways (tlb_config config d) -> 0 <= ei < nthZ (way_size (tlb_config config d)) wi ->
  let e := tlb_entry env d wi ei in
  xtensa_tlb_set_entry config d wi ei vpn pte env =
    Done tt
      (if te_variable e then
         emit (EvTlbFlushPage vpn)
           (store_tlb_entry d wi ei (mmu_entry env d wi vpn pte true)
              (if truthy (te_asid e) then emit (EvTlbFlushPage (te_vaddr e)) env else env))
       else env).
Proof.
  intros Hm Hw He e. unfold xtensa_tlb_set_entry, bind at 1. rewrite get_entry_ok by done.
  rewrite Hm. fold e. destruct (te_variable e) eqn:Hv; [|done]. simpl.
  unfold bind, get, modify, xtensa_tlb_set_entry_mmu, mmu_entry.
  destruct (truthy (te_asid e)); simpl; rewrite Hv; [|done].
  by rewrite (addr_mask_ext config env (emit (EvTlbFlushPage (te_vaddr e)) env)).
Qed.

End update.

(** ** Claims *)

(** TLB lookup counts hits over all ways: no way matching the address with
    a live ASID of some ring is a miss, exactly one gives its way, entry and
    ring, two or more are a multi-hit. *)
Theorem tlb_lookup_counts_hits (config : XtensaConfig) (env : CPUXtensaState)
    (addr : Z) (d : bool) :
  0 <= nways (tlb_config config d) ->
  xtensa_tlb_lookup config env addr d =
    match tlb_hits config env addr d with
    | [] => inl (if d then LOAD_STORE_TLB_MISS_CAUSE else INST_TLB_MISS_CAUSE)
    | [h] => inr h
    | _ => inl (if d then LOAD_STORE_TLB_MULTI_HIT_CAUSE else INST_TLB_MULTI_HIT_CAUSE)
    end.
Proof.
  intros Hn. unfold xtensa_tlb_lookup. rewrite tlb_lookup_ways_spec, Z2Nat.id by done. reflexivity.
Qed.

Definition mmu_reset_env : CPUXtensaState :=
  default zero_env (final (reset_mmu mmu_config zero_env)).

(** After reset, a kernel address hits the fixed way 5. *)
Lemma tlb_lookup_counts_hits_witness :
  xtensa_tlb_lookup mmu_config mmu_reset_env 0xd0001000 true = inr (5, 0, 0).
Proof.
  rewrite (tlb_lookup_counts_hits mmu_config mmu_reset_env 0xd0001000 true ltac:(vm_compute; discriminate)).
  vm_compute. reflexivity.
Defined.

(** WITLB/WDTLB on a core with the MMU never trips the entry assertion and
    changes exactly the addressed entry, only when it is variable; the old page
    (when it was live) and the new page are flushed.  Reading the entry back
    returns the physical page with the attribute, and the virtual page with
    the ASID that RASID assigns to the ring of the written PTE. *)
Theorem wtlb_rtlb_roundtrip (config : XtensaConfig) `{!WfTlb config}
    (env : CPUXtensaState) (p v wi : Z) (d : bool) :
  xtensa_option_enabled config OPTION_MMU = true ->
  v &&& (if d then 15 else 7) = wi -> wi < nways (tlb_config config d) ->
  let ei := tlb_entry_index config env v d wi in
  let mask := xtensa_tlb_get_addr_mask config env d wi in
  let old := tlb_entry env d wi ei in
  let asid := (sr env RASID >>> ((p >>> 1) &&& 0x18)) &&& 0xff in
  exists env',
    helper_wtlb config p v d env = Done tt env' /\
    sregs env' = sregs env /\
    (forall d' wi' ei', (d', wi', ei') <> (d, wi, ei) ->
       tlb_entry env' d' wi' ei' = tlb_entry env d' wi' ei') /\
    if te_variable old then
      trace env' = EvTlbFlushPage (v &&& mask) ::
        (if truthy (te_asid old) then [EvTlbFlushPage (te_vaddr old)] else []) ++ trace env /\
      helper_rtlb1 config v d env' = Done ((p &&& mask) ||| (p &&& 0xf)) env' /\
      helper_rtlb0 config v d env' =
        Done (((v &&& mask) &&& get_vpn_mask config env d wi) ||| asid) env'
    else env' = env.
Proof.
  intros Hm Hw Hlt ei mask old asid.
  pose proof (split_spec_way config env v d wi Hm Hw Hlt) as Hs. fold ei mask in Hs.
  destruct (split_spec_valid config env v d _ _ _ Hs) as [Hwi Hei].
  unfold helper_wtlb, bind at 1, get. rewrite Hs.
  rewrite set_entry_mmu_eq by done. fold old. eexists. split; [reflexivity|].
  destruct (te_variable old); [|done].
  set (env' := emit _ _).
  assert (Hsr : sregs env' = sregs env).
  { unfold env', store_tlb_entry. destruct (truthy (te_asid old)), d; done. }
  assert (He : tlb_entry env' d wi ei = mmu_entry config env d wi (v &&& mask) p true).
  { unfold env'. by rewrite tlb_entry_emit, tlb_entry_store_eq. }
  assert (Hsp : split_tlb_entry_spec config env' v d = Some (v &&& mask, wi, ei)).
  { by rewrite (split_ext config env env'). }
  split; [done|]. split.
  { intros d' wi' ei' Hne. unfold env'. rewrite tlb_entry_emit, tlb_entry_store_ne by done.
    destruct (truthy (te_asid old)); [apply tlb_entry_emit|done]. }
  split. { unfold env', store_tlb_entry. destruct (truthy (te_asid old)), d; done. }
  unfold helper_rtlb1, helper_rtlb0. rewrite Hm.
  unfold bind, get. rewrite get_tlb_entry_eq by done. rewrite Hsp, He. split; [done|].
  unfold get_vpn_mask. by rewrite !(addr_mask_ext config env env').
Qed.

Lemma wtlb_rtlb_roundtrip_witness :
  exists env',
    helper_wtlb mmu_config 0x12345017 0x40000002 true mmu_reset_env = Done tt env' /\
    helper_rtlb1 mmu_config 0x40000002 true env' = Done 0x12345007 env'.
Proof.
  destruct (wtlb_rtlb_roundtrip mmu_config mmu_reset_env 0x12345017 0x40000002 2 true
              eq_refl eq_refl eq_refl) as (env' & E & _ & _ & _ & Hr & _).
  exists env'. split; [exact E|]. exact Hr.
Defined.

(** IITLB/IDTLB removes the addressed mapping: afterwards the way it names
    does not hit for any address that selects the same entry, and no other
    entry changes; fixed entries stay. *)
Theorem itlb_invalidates (config : XtensaConfig) `{!WfTlb config}
    (env : CPUXtensaState) (v wi : Z) (d : bool) :
  xtensa_option_enabled config OPTION_MMU = true ->
  v &&& (if d then 15 else 7) = wi -> wi < nways (tlb_config config d) ->
  let ei := tlb_entry_index config env v d wi in
  exists env',
    helper_itlb config v d env = Done tt env' /\
    (forall d' wi' ei', (d', wi', ei') <> (d, wi, ei) ->
       tlb_entry env' d' wi' ei' = tlb_entry env d' wi' ei') /\
    if te_variable (tlb_entry env d wi ei) then
      forall addr, tlb_entry_index config env addr d wi = ei ->
        way_hit config env' addr d wi = None
    else tlb_entry env' d wi ei = tlb_entry env d wi ei.
Proof.
  intros Hm Hw Hlt ei.
  pose proof (split_spec_way config env v d wi Hm Hw Hlt) as Hs. fold ei in Hs.
  unfold helper_itlb. rewrite Hm. unfold when at 1, bind at 1. rewrite get_tlb_entry_eq, Hs by done.
  set (e := tlb_entry env d wi ei).
  assert (Hwi : (if d then wi else wi &&& 7) = wi).
  { destruct d; [done|]. rewrite <- Hw. by rewrite <- Z.land_assoc, Z.land_diag. }
  destruct (te_variable e) eqn:Hv; simpl; [|by exists env].
  destruct (truthy (te_asid e)) eqn:Ha; simpl; unfold bind, modify.
  - eexists. split; [reflexivity|]. split.
    { intros d' wi' ei' Hne. rewrite tlb_entry_store_ne by done. apply tlb_entry_emit. }
    intros addr Hi. unfold way_hit, split_tlb_entry_spec_way. rewrite Hwi.
    rewrite entry_index_ext with (env := env) by (by destruct d).
    rewrite Hi, tlb_entry_store_eq. simpl. by rewrite andb_false_r.
  - exists env. split; [done|]. split; [done|].
    intros addr Hi. unfold way_hit, split_tlb_entry_spec_way. rewrite Hwi, Hi. fold e.
    rewrite Ha. by rewrite andb_false_r.
Qed.

Lemma itlb_invalidates_witness :
  exists env', helper_itlb mmu_config 0x40000002 true mmu_reset_env = Done tt env' /\
    way_hit mmu_config env' 0x40000002 true 2 = None.
Proof.
  destruct (itlb_invalidates mmu_config mmu_reset_env 0x40000002 2 true eq_refl eq_refl eq_refl)
    as (env' & E & _ & Hn).
  exists env'. split; [exact E|]. apply Hn. reflexivity.
Defined.
