(* ===== verification/Mmu.v ===== *)
(** * Address translation ([target/xtensa/mmu_helper.c], translation half, and
      the memory callbacks of [target/xtensa/helper.c])

    Attribute decoding, the three translation schemes (MMU, region
    protection, MPU), the page-table walk, and [xtensa_cpu_tlb_fill].  The
    read of a page-table entry from memory is the parameter [ldl]. *)

From S2P Require Import Prelude Cpu Exception Tlb.

Abbreviation PAGE_READ := 1 (only parsing).
Abbreviation PAGE_WRITE := 2 (only parsing).
Abbreviation PAGE_EXEC := 4 (only parsing).
Abbreviation PAGE_CACHE_BYPASS := 0x100 (only parsing).
Abbreviation PAGE_CACHE_WT := 0x200 (only parsing).
Abbreviation PAGE_CACHE_WB := 0x400 (only parsing).
Abbreviation PAGE_CACHE_ISOLATE := 0x600 (only parsing).
Abbreviation TARGET_PAGE_SIZE := 0x1000 (only parsing).

(** A successful translation. *)
Record translation := mkTrans { tr_paddr : Z; tr_page_size : Z; tr_access : Z }.

(** [is_write]: 0 is a load, 1 a store, 2 an instruction fetch. *)
Definition is_access_granted (access is_write : Z) : bool :=
  if is_write =? 0 then truthy (access &&& PAGE_READ)
  else if is_write =? 1 then truthy (access &&& PAGE_WRITE)
  else if is_write =? 2 then truthy (access &&& PAGE_EXEC)
  else false.

Definition prohibited_cause (d : bool) (is_write : Z) : Z :=
  if d then (if truthy is_write then STORE_PROHIBITED_CAUSE else LOAD_PROHIBITED_CAUSE)
  else INST_FETCH_PROHIBITED_CAUSE.

(** ** Attributes *)

Definition mmu_attr_to_access (attr : Z) : Z :=
  if attr <? 12 then
    PAGE_READ
    ||| (if truthy (attr &&& 0x1) then PAGE_EXEC else 0)
    ||| (if truthy (attr &&& 0x2) then PAGE_WRITE else 0)
    ||| (let c := attr &&& 0xc in
         if c =? 0 then PAGE_CACHE_BYPASS
         else if c =? 4 then PAGE_CACHE_WB
         else if c =? 8 then PAGE_CACHE_WT else 0)
  else if attr =? 13 then PAGE_READ ||| PAGE_WRITE ||| PAGE_CACHE_ISOLATE
  else 0.

Definition PAGE_RW := 3.
Definition PAGE_RWX := 7.

Definition region_attr_to_access (attr : Z) : Z :=
  nthZ [ PAGE_RW ||| PAGE_CACHE_WT;
         PAGE_RWX ||| PAGE_CACHE_WT;
         PAGE_RWX ||| PAGE_CACHE_BYPASS;
         PAGE_EXEC ||| PAGE_CACHE_WB;
         PAGE_RWX ||| PAGE_CACHE_WB;
         PAGE_RWX ||| PAGE_CACHE_WB;
         0; 0; 0; 0; 0; 0; 0; 0;
         PAGE_RW ||| PAGE_CACHE_ISOLATE; 0 ] (attr &&& 0xf).

Definition cacheattr_attr_to_access (attr : Z) : Z :=
  nthZ [ PAGE_RW ||| PAGE_CACHE_WT;
         PAGE_RWX ||| PAGE_CACHE_WT;
         PAGE_RWX ||| PAGE_CACHE_BYPASS;
         PAGE_EXEC ||| PAGE_CACHE_WB;
         PAGE_RWX ||| PAGE_CACHE_WB;
         0; 0; 0; 0; 0; 0; 0; 0; 0;
         PAGE_RW ||| PAGE_CACHE_ISOLATE; 0 ] (attr &&& 0xf).

(** ** MPU attributes *)

Definition attr_pattern_match (attr : Z) (pattern : list (Z * Z)) : bool :=
  existsb (fun p => (attr &&& p.1) =? p.2) pattern.

Abbreviation MPU_TYPE_CPU_C := 0x0100 (only parsing).
Abbreviation MPU_TYPE_CPU_W := 0x0200 (only parsing).
Abbreviation MPU_TYPE_CPU_R := 0x0400 (only parsing).
Abbreviation MPU_TYPE_CPU_CACHE := 0x0800 (only parsing).

Definition flag (b : bool) (f : Z) : Z := if b then f else 0.

Definition mpu_attr_to_cpu_cache (attr : Z) : Z :=
  let cpu_c := [ (0x18f, 0x089); (0x188, 0x080); (0x180, 0x180) ] in
  if attr_pattern_match attr cpu_c then
    MPU_TYPE_CPU_CACHE
    ||| flag (truthy (attr &&& 0x10)) MPU_TYPE_CPU_C
    ||| flag (truthy (attr &&& 0x20)) MPU_TYPE_CPU_W
    ||| flag (truthy (attr &&& 0x40)) MPU_TYPE_CPU_R
  else 0.

Definition mpu_attr_to_type (attr : Z) : Z :=
  let device_type := [ (0x1f6, 0x000); (0x1f6, 0x006) ] in
  let sys_nc_type := [ (0x1fe, 0x018); (0x1fe, 0x01e); (0x18f, 0x089) ] in
  let sys_c_type := [ (0x1f8, 0x010); (0x188, 0x080); (0x1f0, 0x030); (0x180, 0x180) ] in
  let b := [ (0x1f7, 0x001); (0x1f7, 0x007); (0x1ff, 0x019); (0x1ff, 0x01f) ] in
  let attr := (attr &&& 0x001ff000) >>> 12 in
  (if attr_pattern_match attr device_type
   then 0x0001 ||| flag (truthy (attr &&& 0x80)) 0x2000 else 0)
  ||| flag (attr_pattern_match attr sys_nc_type) 0x0002
  ||| (if attr_pattern_match attr sys_c_type then
         0x0003 ||| flag (truthy (attr &&& 0x1)) 0x0010
         ||| flag (truthy (attr &&& 0x2)) 0x0020 ||| flag (truthy (attr &&& 0x4)) 0x0040
       else 0)
  ||| flag (attr_pattern_match attr b) 0x1000
  ||| mpu_attr_to_cpu_cache attr.

Definition mpu_access_table (ring0 : bool) : list Z :=
  if ring0 then [ 0; 0; 0; 0; 1; 5; 3; 7; 2; 3; 3; 7; 1; 5; 3; 7 ]
  else [ 0; 0; 0; 0; 0; 0; 0; 0; 2; 7; 1; 5; 1; 5; 3; 7 ].

Definition mpu_attr_to_access (attr ring : Z) : Z :=
  let type := mpu_attr_to_cpu_cache attr in
  let rv := nthZ (mpu_access_table (ring =? 0)) ((attr &&& 0x00000f00) >>> 8) in
  if truthy (type &&& MPU_TYPE_CPU_CACHE) then
    rv ||| (if truthy (type &&& MPU_TYPE_CPU_C) then PAGE_CACHE_WB else PAGE_CACHE_WT)
  else rv ||| PAGE_CACHE_BYPASS.

(** ** MPU segments *)

(** The loop of [xtensa_mpu_lookup] from index [i]: hits so far and the
    segment of the first one. *)
Fixpoint mpu_lookup_from (entry : Z -> xtensa_mpu_entry) (n vaddr : Z) (fuel : nat) (i : Z)
    (found : option Z) : Z * option Z :=
  match fuel with
  | O => (match found with Some _ => 1 | None => 0 end, found)
  | S fuel' =>
      if (me_vaddr (entry i) <=? vaddr) &&
         ((i =? n - 1) || (vaddr <? me_vaddr (entry (i + 1))))
      then match found with
           | Some s => (2, Some s)
           | None => mpu_lookup_from entry n vaddr fuel' (i + 1) (Some i)
           end
      else mpu_lookup_from entry n vaddr fuel' (i + 1) found
  end.

Definition xtensa_mpu_lookup (entry : Z -> xtensa_mpu_entry) (n vaddr : Z) : Z * option Z :=
  mpu_lookup_from entry n vaddr (Z.to_nat n) 0 None.

Section mmu.
Context (config : XtensaConfig).

(** The word at a physical address; [None] when the bus transaction fails
    ([address_space_ldl]). *)
Context (ldl : Z -> option Z).

Definition helper_wsr_mpuenb (v : Z) (env : CPUXtensaState) : CPUXtensaState :=
  let v := v &&& u32 (lsl32 2 (n_mpu_fg_segments config - 1) - 1) in
  if negb (v =? sr env MPUENB) then emit EvTlbFlush (set_sr MPUENB v env) else env.

Abbreviation SEGMENT_MASK := 0x1f (only parsing).

Definition helper_wptlb (p v : Z) (env : CPUXtensaState) : CPUXtensaState :=
  let segment := p &&& SEGMENT_MASK in
  if segment <? n_mpu_fg_segments config then
    let entry := mkMpuEntry (v &&& u32 (- mpu_align config)) (p &&& 0x001fff00) in
    emit EvTlbFlush
      (set_sr MPUENB (deposit32 (sr env MPUENB) segment 1 v)
         (set_mpu_fg (fupd (mpu_fg env) segment entry) env))
  else env.

Definition helper_rptlb0 (s : Z) (env : CPUXtensaState) : Z :=
  let segment := s &&& SEGMENT_MASK in
  if segment <? n_mpu_fg_segments config
  then me_vaddr (mpu_fg env segment) ||| extract32 (sr env MPUENB) segment 1
  else 0.

Definition helper_rptlb1 (s : Z) (env : CPUXtensaState) : Z :=
  let segment := s &&& SEGMENT_MASK in
  if segment <? n_mpu_fg_segments config then me_attr (mpu_fg env segment) else 0.

Definition fg_lookup (env : CPUXtensaState) (v : Z) : Z * option Z :=
  xtensa_mpu_lookup (mpu_fg env) (n_mpu_fg_segments config) v.
Definition bg_lookup (v : Z) : Z * option Z :=
  xtensa_mpu_lookup (mpu_bg_entry config) (n_mpu_bg_segments config) v.

Definition fg_enabled (env : CPUXtensaState) (segment : Z) : bool :=
  truthy (sr env MPUENB &&& lsl32 1 segment).

(** An uninitialised segment number is read when no background segment
    matches; the reset assertions exclude it. *)
Definition bg_attr (v : Z) : cpuM Z :=
  match snd (bg_lookup v) with
  | Some s => ret (me_attr (mpu_bg_entry config s))
  | None => massert false ;; ret 0
  end.

Definition helper_pptlb (v : Z) : cpuM Z :=
  env <- get ;;
  match fg_lookup env v with
  | (nhits, Some segment) =>
      if 1 <? nhits then
        helper_exception_cause_vaddr config (pc env) LOAD_STORE_TLB_MULTI_HIT_CAUSE v
      else if (nhits =? 1) && fg_enabled env segment then
        ret (me_attr (mpu_fg env segment) ||| segment ||| 0x80000000)
      else attr <- bg_attr v ;; ret (attr ||| 0x40000000)
  | (_, None) => attr <- bg_attr v ;; ret (attr ||| 0x40000000)
  end.

Definition get_physical_addr_mpu (vaddr is_write mmu_idx : Z) : cpuM (Z + translation) :=
  env <- get ;;
  let check attr :=
    let access := mpu_attr_to_access attr mmu_idx in
    if negb (is_access_granted access is_write)
    then ret (inl (prohibited_cause (is_write <? 2) is_write))
    else ret (inr (mkTrans vaddr (mpu_align config) access)) in
  match fg_lookup env vaddr with
  | (nhits, Some segment) =>
      if 1 <? nhits then ret (inl (tlb_multi_hit (is_write <? 2)))
      else if (nhits =? 1) && fg_enabled env segment then check (me_attr (mpu_fg env segment))
      else attr <- bg_attr vaddr ;; check attr
  | (_, None) => attr <- bg_attr vaddr ;; check attr
  end.

(** ** Region protection *)

Definition get_physical_addr_region (vaddr is_write mmu_idx : Z) : cpuM (Z + translation) :=
  let d := negb (is_write =? 2) in
  let ei := (vaddr >>> 29) &&& 0x7 in
  entry <- xtensa_tlb_get_entry config d 0 ei ;;
  let access := region_attr_to_access (te_attr entry) in
  if negb (is_access_granted access is_write)
  then ret (inl (prohibited_cause d is_write))
  else ret (inr (mkTrans (te_paddr entry ||| (vaddr &&& not32 REGION_PAGE_MASK))
                   (u32 (not32 REGION_PAGE_MASK + 1)) access)).

(** ** MMU *)

(** The checks on the entry the translation uses. *)
Definition mmu_finish (vaddr is_write mmu_idx ring wi : Z) (d : bool) (entry : xtensa_tlb_entry)
    (env : CPUXtensaState) : Z + translation :=
  if ring <? mmu_idx
  then inl (if d then LOAD_STORE_PRIVILEGE_CAUSE else INST_FETCH_PRIVILEGE_CAUSE)
  else
    let access := mmu_attr_to_access (te_attr entry)
                  &&& not32 (if d then PAGE_EXEC else PAGE_READ ||| PAGE_WRITE) in
    if negb (is_access_granted access is_write)
    then inl (prohibited_cause d is_write)
    else
      let mask := xtensa_tlb_get_addr_mask config env d wi in
      inr (mkTrans (te_paddr entry ||| (vaddr &&& not32 mask)) (u32 (not32 mask + 1)) access).

Definition refill (update_tlb : bool) (vaddr is_write mmu_idx pte : Z) (d : bool)
  : cpuM (Z + translation) :=
  env <- get ;;
  let ring := (pte >>> 4) &&& 0x3 in
  let '(vpn, ei) := split_tlb_entry_spec_way config env vaddr d 0 in
  if update_tlb then
    modify (fun env => set_autorefill_idx (u32 (autorefill_idx env + 1)) env) ;;
    env <- get ;;
    let wi := autorefill_idx env &&& 0x3 in
    xtensa_tlb_set_entry config d wi ei vpn pte ;;
    modify (set_sr EXCVADDR vaddr) ;;
    entry <- xtensa_tlb_get_entry config d wi ei ;;
    gets (mmu_finish vaddr is_write mmu_idx ring wi d entry)
  else
    let tmp_entry := xtensa_tlb_set_entry_mmu config env (mkTlbEntry 0 0 0 0 false) d 0 ei vpn pte in
    gets (mmu_finish vaddr is_write mmu_idx ring 0 d tmp_entry).

(** [get_physical_addr_mmu]; [pte_of] is the page-table walk of [get_pte],
    consulted only when [may_lookup_pt] is set. *)
Definition get_physical_addr_mmu_with (pte_of : Z -> cpuM (option Z)) (update_tlb : bool)
    (vaddr is_write mmu_idx : Z) (may_lookup_pt : bool) : cpuM (Z + translation) :=
  env <- get ;;
  let d := negb (is_write =? 2) in
  match xtensa_tlb_lookup config env vaddr d with
  | inr (wi, ei, ring) =>
      entry <- xtensa_tlb_get_entry config d wi ei ;;
      gets (mmu_finish vaddr is_write mmu_idx ring wi d entry)
  | inl cause =>
      if ((cause =? INST_TLB_MISS_CAUSE) || (cause =? LOAD_STORE_TLB_MISS_CAUSE)) && may_lookup_pt
      then
        pte <- pte_of vaddr ;;
        match pte with
        | Some pte => refill update_tlb vaddr is_write mmu_idx pte d
        | None => ret (inl cause)
        end
      else ret (inl cause)
  end.

Definition get_pte (vaddr : Z) : cpuM (option Z) :=
  env <- get ;;
  let pt_vaddr := (sr env PTEVADDR ||| (vaddr >>> 10)) &&& 0xfffffffc in
  r <- get_physical_addr_mmu_with (fun _ => ret None) false pt_vaddr 0 0 false ;;
  match r with
  | inr t => ret (ldl (tr_paddr t))
  | inl _ => ret None
  end.

Definition get_physical_addr_mmu : bool -> Z -> Z -> Z -> bool -> cpuM (Z + translation) :=
  get_physical_addr_mmu_with get_pte.

Definition xtensa_get_physical_addr (update_tlb : bool) (vaddr is_write mmu_idx : Z)
  : cpuM (Z + translation) :=
  if xtensa_option_enabled config OPTION_MMU then
    get_physical_addr_mmu update_tlb vaddr is_write mmu_idx true
  else if xtensa_option_bits_enabled config
            (xtensa_option_bit OPTION_REGION_PROTECTION
             ||| xtensa_option_bit OPTION_REGION_TRANSLATION) then
    get_physical_addr_region vaddr is_write mmu_idx
  else if xtensa_option_enabled config OPTION_MPU then
    get_physical_addr_mpu vaddr is_write mmu_idx
  else
    gets (fun env => inr (mkTrans vaddr TARGET_PAGE_SIZE
      (cacheattr_attr_to_access (sr env CACHEATTR >>> ((vaddr &&& 0xe0000000) >>> 27))))).

Definition xtensa_cpu_get_phys_page_debug (addr : Z) : cpuM Z :=
  r0 <- xtensa_get_physical_addr false addr 0 0 ;;
  match r0 with
  | inr t => ret (tr_paddr t)
  | inl _ =>
      r2 <- xtensa_get_physical_addr false addr 2 0 ;;
      match r2 with
      | inr t => ret (tr_paddr t)
      | inl _ => ret (2 ^ 64 - 1)
      end
  end.

(** ** Memory callbacks ([helper.c]) *)

(** [cpu_restore_state] ends in [xtensa_restore_state_to_opc], which sets the
    program counter to the one recorded for the faulting instruction. *)
Definition cpu_restore_state (insn_pc : Z) : cpuM unit := modify (set_pc insn_pc).

Definition xtensa_cpu_do_unaligned_access {A} (addr insn_pc : Z) : cpuM A :=
  massert (xtensa_option_enabled config OPTION_UNALIGNED_EXCEPTION) ;;
  cpu_restore_state insn_pc ;;
  env <- get ;;
  helper_exception_cause_vaddr config (pc env) LOAD_STORE_ALIGNMENT_CAUSE addr.

Definition xtensa_cpu_tlb_fill (address access_type mmu_idx : Z) (probe : bool) (insn_pc : Z)
  : cpuM bool :=
  r <- xtensa_get_physical_addr true address access_type mmu_idx ;;
  match r with
  | inr t =>
      modify (emit (EvTlbSetPage (address &&& not32 0xfff) (tr_paddr t &&& not32 0xfff)
                      (tr_access t) mmu_idx (tr_page_size t))) ;;
      ret true
  | inl cause =>
      if probe then ret false
      else
        cpu_restore_state insn_pc ;;
        env <- get ;;
        helper_exception_cause_vaddr config (pc env) cause address
  end.

Definition xtensa_cpu_do_transaction_failed {A} (addr access_type insn_pc : Z) : cpuM A :=
  cpu_restore_state insn_pc ;;
  env <- get ;;
  helper_exception_cause_vaddr config (pc env)
    (if access_type =? 2 then INSTR_PIF_ADDR_ERROR_CAUSE else LOAD_STORE_PIF_ADDR_ERROR_CAUSE)
    addr.

End mmu.

(** ** Lookup results *)

Section lookup_facts.
Context (config : XtensaConfig) `{!WfTlb config}.

Lemma way_number d wi :
  xtensa_option_enabled config OPTION_MMU = true -> 0 <= wi < nways (tlb_config config d) ->
  (if d then wi else wi &&& 7) = wi.
Proof.
  intros Hm Hw. destruct d; [done|].
  destruct (wf_mmu_tlb Hm false) as (r & v56 & _ & Ht). rewrite Ht in Hw. simpl in Hw.
  change 7 with (2 ^ 3 - 1). rewrite land_ones_mod by lia. apply Z.mod_small. lia.
Qed.

Lemma get_ring_range env asid :
  0 <= get_ring env asid /\ (get_ring env asid < 4 \/ get_ring env asid = 0xff).
Proof. unfold get_ring. if_split; lia. Qed.

Lemma way_hit_inv env addr d wi wi' ei ring :
  xtensa_option_enabled config OPTION_MMU = true -> 0 <= wi < nways (tlb_config config d) ->
  way_hit config env addr d wi = Some (wi', ei, ring) ->
  wi' = wi /\ ei = tlb_entry_index config env addr d wi /\ 0 <= ring < 4 /\
  te_vaddr (tlb_entry env d wi ei) = addr &&& xtensa_tlb_get_addr_mask config env d wi /\
  te_asid (tlb_entry env d wi ei) <> 0 /\
  ring = get_ring env (te_asid (tlb_entry env d wi ei)).
Proof.
  intros Hm Hw. unfold way_hit, split_tlb_entry_spec_way. rewrite (way_number d wi Hm Hw).
  destruct (_ && _) eqn:E; [|done]. bprop.
  destruct (Z.ltb_spec (get_ring env (te_asid (tlb_entry env d wi
    (tlb_entry_index config env addr d wi)))) 4); [|done].
  intros [= <- <- <-].
  pose proof (get_ring_range env (te_asid (tlb_entry env d wi
    (tlb_entry_index config env addr d wi)))).
  repeat (split; [done || lia|]). done.
Qed.

Lemma nways_nonneg d :
  xtensa_option_enabled config OPTION_MMU = true -> 0 <= nways (tlb_config config d).
Proof.
  intros Hm. destruct (wf_mmu_tlb Hm d) as (r & v & _ & ->). by destruct d.
Qed.

(** A successful lookup names a valid entry that matches the address. *)
Lemma tlb_lookup_inv env addr d wi ei ring :
  xtensa_option_enabled config OPTION_MMU = true ->
  xtensa_tlb_lookup config env addr d = inr (wi, ei, ring) ->
  0 <= wi < nways (tlb_config config d) /\
  0 <= ei < nthZ (way_size (tlb_config config d)) wi /\ 0 <= ring < 4 /\
  ei = tlb_entry_index config env addr d wi /\
  te_vaddr (tlb_entry env d wi ei) = addr &&& xtensa_tlb_get_addr_mask config env d wi.
Proof.
  intros Hm. unfold xtensa_tlb_lookup. rewrite tlb_lookup_ways_spec.
  rewrite Z2Nat.id by by apply nways_nonneg. simpl. fold (tlb_hits config env addr d).
  unfold lookup_result. destruct (tlb_hits config env addr d) as [|h [|h' l]] eqn:El; [done| |done].
  intros [= ->]. assert (Hin : (wi, ei, ring) ∈ tlb_hits config env addr d) by (rewrite El; by left).
  unfold tlb_hits in Hin. rewrite list_elem_of_omap in Hin. destruct Hin as (w & Hw & Hh).
  rewrite elem_of_seqZ in Hw.
  destruct (way_hit_inv env addr d w wi ei ring Hm ltac:(lia) Hh) as (-> & -> & Hr & Hv & _).
  split; [lia|]. split; [|done]. apply tlb_entry_index_bounds; [done|done|lia].
Qed.

Lemma tlb_lookup_cause env addr d cause :
  xtensa_tlb_lookup config env addr d = inl cause ->
  cause = tlb_miss d \/ cause = tlb_multi_hit d.
Proof.
  unfold xtensa_tlb_lookup. rewrite tlb_lookup_ways_spec. unfold lookup_result.
  destruct (_ ++ _) as [|h [|h' l]]; intros [= <-]; auto.
Qed.

(** Ways 0 to 3 have the same geometry. *)
Lemma refill_way_geometry env v d wi :
  0 <= wi < 4 ->
  tlb_entry_index config env v d wi = tlb_entry_index config env v d 0 /\
  xtensa_tlb_get_addr_mask config env d wi = xtensa_tlb_get_addr_mask config env d 0.
Proof.
  intros Hw. assert (wi = 0 \/ wi = 1 \/ wi = 2 \/ wi = 3) as Hc by lia.
  destruct Hc as [->|[->|[->| ->]]]; done.
Qed.

End lookup_facts.

(** ** The MMU path *)

Section mmu_path.
Context (config : XtensaConfig) `{!WfTlb config}.
Hypothesis Hmmu : xtensa_option_enabled config OPTION_MMU = true.

Lemma low_way_mask env d wi :
  0 <= wi < 4 -> xtensa_tlb_get_addr_mask config env d wi = 0xfffff000.
Proof.
  intros Hw. unfold xtensa_tlb_get_addr_mask. rewrite Hmmu.
  assert (wi = 0 \/ wi = 1 \/ wi = 2 \/ wi = 3) as Hc by lia.
  destruct Hc as [->|[->|[->| ->]]]; done.
Qed.

Lemma low_way_index_ext env env' v d wi :
  0 <= wi < 4 -> tlb_entry_index config env' v d wi = tlb_entry_index config env v d 0.
Proof.
  intros Hw. assert (wi = 0 \/ wi = 1 \/ wi = 2 \/ wi = 3) as Hc by lia.
  destruct Hc as [->|[->|[->| ->]]]; done.
Qed.

Lemma low_way_valid env v d wi :
  0 <= wi < 4 ->
  0 <= wi < nways (tlb_config config d) /\
  0 <= tlb_entry_index config env v d 0 < nthZ (way_size (tlb_config config d)) wi.
Proof.
  intros Hw. assert (Hn : 0 <= wi < nways (tlb_config config d)).
  { destruct (wf_mmu_tlb Hmmu d) as (r & v56 & _ & ->). destruct d; simpl; lia. }
  split; [done|]. rewrite <- (low_way_index_ext env env v d wi) by done.
  by apply tlb_entry_index_bounds.
Qed.

(** What the walk yields, with or without writing the TLB. *)
Definition refill_entry (env : CPUXtensaState) (vaddr pte : Z) (d : bool) (var : bool) :=
  mkTlbEntry (vaddr &&& 0xfffff000) (pte &&& 0xfffff000)
    ((sr env RASID >>> ((pte >>> 1) &&& 0x18)) &&& 0xff) (pte &&& 0xf) var.

Lemma split_way0 env v d :
  split_tlb_entry_spec_way config env v d 0 =
    (v &&& 0xfffff000, tlb_entry_index config env v d 0).
Proof.
  unfold split_tlb_entry_spec_way. rewrite (way_number config d 0 Hmmu).
  - by rewrite low_way_mask by lia.
  - apply (low_way_valid env v d 0). lia.
Qed.

Lemma mmu_finish_low vaddr is_write mmu_idx ring wi d e e' env env' :
  0 <= wi < 4 -> te_attr e' = te_attr e -> te_paddr e' = te_paddr e ->
  mmu_finish config vaddr is_write mmu_idx ring wi d e' env' =
  mmu_finish config vaddr is_write mmu_idx ring 0 d e env.
Proof.
  intros Hw Ha Hp. unfold mmu_finish. rewrite !low_way_mask by lia. by rewrite Ha, Hp.
Qed.

Lemma refill_dry env vaddr is_write mmu_idx pte d :
  refill config false vaddr is_write mmu_idx pte d env =
    Done (mmu_finish config vaddr is_write mmu_idx ((pte >>> 4) &&& 3) 0 d
            (refill_entry env vaddr pte d false) env) env.
Proof.
  unfold refill, bind, get, gets. rewrite split_way0.
  unfold xtensa_tlb_set_entry_mmu, refill_entry. by rewrite low_way_mask by lia.
Qed.

(** The way the next refill replaces. *)
Definition next_way (env : CPUXtensaState) : Z := u32 (autorefill_idx env + 1) &&& 3.

Lemma next_way_range env : 0 <= next_way env < 4.
Proof. apply (land_range 2). lia. Qed.

Definition refill_state (env : CPUXtensaState) (vaddr pte : Z) (d : bool) : CPUXtensaState :=
  let wi := next_way env in
  let ei := tlb_entry_index config env vaddr d 0 in
  let old := tlb_entry env d wi ei in
  let env1 := set_autorefill_idx (u32 (autorefill_idx env + 1)) env in
  set_sr EXCVADDR vaddr
    (emit (EvTlbFlushPage (vaddr &&& 0xfffff000))
       (store_tlb_entry d wi ei (refill_entry env vaddr pte d true)
          (if truthy (te_asid old) then emit (EvTlbFlushPage (te_vaddr old)) env1 else env1))).

Lemma refill_update env vaddr is_write mmu_idx pte d :
  te_variable (tlb_entry env d (next_way env) (tlb_entry_index config env vaddr d 0)) = true ->
  refill config true vaddr is_write mmu_idx pte d env =
    Done (mmu_finish config vaddr is_write mmu_idx ((pte >>> 4) &&& 3) 0 d
            (refill_entry env vaddr pte d false) env) (refill_state env vaddr pte d).
Proof.
  intros Hv. pose proof (next_way_range env) as Hw.
  destruct (low_way_valid env vaddr d (next_way env) Hw) as [Hwi Hei].
  unfold refill, bind at 1, get. rewrite split_way0.
  unfold bind at 1 2, modify, get. cbv zeta.
  set (env1 := set_autorefill_idx _ env).
  change (autorefill_idx env1 &&& 3) with (next_way env).
  unfold bind at 1. rewrite (set_entry_mmu_eq config) by done.
  change (tlb_entry env1 d) with (tlb_entry env d). rewrite Hv.
  assert (Hent : mmu_entry config env1 d (next_way env) (vaddr &&& 0xfffff000) pte true
                 = refill_entry env vaddr pte d true).
  { unfold mmu_entry, refill_entry. by rewrite low_way_mask. }
  rewrite Hent. unfold bind at 1. fold (refill_state env vaddr pte d).
  unfold bind. rewrite (get_entry_ok config) by done. unfold gets. f_equal.
  apply mmu_finish_low; [done| |];
    change (tlb_entry (set_sr EXCVADDR vaddr ?e)) with (tlb_entry e);
    rewrite ?tlb_entry_emit; by rewrite tlb_entry_store_eq.
Qed.

(** The page-table walk reads; it does not write. *)
Definition reads_only {A} (m : cpuM A) : Prop := forall env, exists a, m env = Done a env.

Lemma mmu_with_hit pte_of upd vaddr is_write mmu_idx may env wi ei ring :
  let d := negb (is_write =? 2) in
  xtensa_tlb_lookup config env vaddr d = inr (wi, ei, ring) ->
  get_physical_addr_mmu_with config pte_of upd vaddr is_write mmu_idx may env =
    Done (mmu_finish config vaddr is_write mmu_idx ring wi d (tlb_entry env d wi ei) env) env.
Proof.
  intros d Hl. unfold get_physical_addr_mmu_with, bind at 1, get. fold d. rewrite Hl.
  destruct (tlb_lookup_inv config env vaddr d wi ei ring Hmmu Hl) as (Hw & He & _).
  unfold bind. by rewrite (get_entry_ok config).
Qed.

Lemma mmu_with_miss pte_of upd vaddr is_write mmu_idx may env cause :
  let d := negb (is_write =? 2) in
  xtensa_tlb_lookup config env vaddr d = inl cause ->
  get_physical_addr_mmu_with config pte_of upd vaddr is_write mmu_idx may env =
    (if (cause =? tlb_miss d) && may then
       pte <- pte_of vaddr ;;
       match pte with
       | Some pte => refill config upd vaddr is_write mmu_idx pte d
       | None => ret (inl cause)
       end
     else ret (inl cause)) env.
Proof.
  intros d Hl. unfold get_physical_addr_mmu_with. unfold bind at 1, get. fold d. rewrite Hl.
  destruct (tlb_lookup_cause config env vaddr d cause Hl) as [-> | ->]; by destruct d.
Qed.

Lemma mmu_with_reads_only pte_of vaddr is_write mmu_idx may :
  (forall v, reads_only (pte_of v)) ->
  reads_only (get_physical_addr_mmu_with config pte_of false vaddr is_write mmu_idx may).
Proof.
  intros Hp env. set (d := negb (is_write =? 2)).
  destruct (xtensa_tlb_lookup config env vaddr d) as [cause|[[wi ei] ring]] eqn:El.
  - rewrite mmu_with_miss with (cause := cause) by exact El. fold d.
    destruct (_ && may); [|by eexists].
    unfold bind. destruct (Hp vaddr env) as [[pte|] ->]; [|by eexists].
    rewrite refill_dry. by eexists.
  - erewrite mmu_with_hit by exact El. by eexists.
Qed.

Lemma get_pte_reads_only ldl v : reads_only (get_pte config ldl v).
Proof.
  intros env. unfold get_pte, bind, get.
  destruct (mmu_with_reads_only (fun _ => ret None)
    ((sr env PTEVADDR ||| (v >>> 10)) &&& 0xfffffffc) 0 0 false) with (env := env) as [r ->].
  { intros ??. by eexists. }
  destruct r; by eexists.
Qed.

Definition refill_ways_variable (env : CPUXtensaState) : Prop :=
  forall d wi ei, 0 <= wi < 4 -> 0 <= ei < nthZ (way_size (tlb_config config d)) wi ->
    te_variable (tlb_entry env d wi ei) = true.

(** With and without permission to write the TLB the translation is the same;
    the only change it can make is a refill. *)
Lemma mmu_update_agrees ldl vaddr is_write mmu_idx env :
  refill_ways_variable env ->
  let d := negb (is_write =? 2) in
  exists r env',
    get_physical_addr_mmu config ldl true vaddr is_write mmu_idx true env = Done r env' /\
    get_physical_addr_mmu config ldl false vaddr is_write mmu_idx true env = Done r env /\
    (env' = env \/
     xtensa_tlb_lookup config env vaddr d = inl (tlb_miss d) /\
     exists pte, get_pte config ldl vaddr env = Done (Some pte) env /\
       env' = refill_state env vaddr pte d).
Proof.
  intros Hvar d. unfold get_physical_addr_mmu.
  destruct (xtensa_tlb_lookup config env vaddr d) as [cause|[[wi ei] ring]] eqn:El.
  - rewrite !mmu_with_miss with (cause := cause) by exact El. fold d. rewrite !andb_true_r.
    destruct (Z.eqb_spec cause (tlb_miss d)) as [->|]; [|eexists _, env; split; [done|]; by auto].
    unfold bind. destruct (get_pte_reads_only ldl vaddr env) as [[pte|] Hp]; rewrite Hp;
      [|eexists _, env; split; [done|]; by auto].
    rewrite refill_dry, refill_update
      by (apply Hvar; [apply next_way_range|by apply low_way_valid, next_way_range]).
    eexists _, _. split; [done|]. split; [done|]. right. split; [done|]. by exists pte.
  - erewrite !mmu_with_hit by exact El. eexists _, env. split; [done|]. by auto.
Qed.

End mmu_path.

(** ** Page geometry of a translation *)

Section sound.
Context (config : XtensaConfig) `{!WfTlb config}.
Hypothesis Hmmu : xtensa_option_enabled config OPTION_MMU = true.

(** Every way maps naturally aligned pages of a power-of-two size. *)
Lemma addr_mask_form env d wi :
  exists k, 12 <= k <= 29 /\ xtensa_tlb_get_addr_mask config env d wi = 2 ^ 32 - 2 ^ k.
Proof.
  pose proof (get_page_size_range env d wi) as [Hp Hp1].
  unfold xtensa_tlb_get_addr_mask. rewrite Hmmu.
  set (ps := get_page_size env d wi) in *. clearbody ps. cbv zeta.
  destruct (Z.eqb_spec wi 4) as [->|].
  { assert (ps = 0 \/ ps = 1 \/ ps = 2 \/ ps = 3) as [->|[->|[->| ->]]] by lia;
    [exists 20|exists 22|exists 24|exists 26]; by split. }
  specialize (Hp1 ltac:(done)). assert (ps = 0 \/ ps = 1) as Hps by lia.
  destruct (Z.eqb_spec wi 5) as [->|].
  { destruct (varway56 _), Hps as [-> | ->];
    [exists 27|exists 28|exists 27|exists 27]; by split. }
  destruct (Z.eqb_spec wi 6) as [->|].
  { destruct (varway56 _), Hps as [-> | ->];
    [exists 29|exists 28|exists 28|exists 28]; by split. }
  exists 12. by split.
Qed.

Lemma land_pow2_sub1 j k : 0 <= j <= k -> (2 ^ k - 1) &&& (2 ^ j - 1) = 2 ^ j - 1.
Proof.
  intros H. rewrite land_ones_mod by lia. replace k with (k - j + j) by lia. rewrite Z.pow_add_r by lia.
  replace (2 ^ (k - j) * 2 ^ j - 1) with (2 ^ j - 1 + (2 ^ (k - j) - 1) * 2 ^ j) by ring.
  assert (0 < 2 ^ j) by (apply Z.pow_pos_nonneg; lia). rewrite Z.mod_add by lia. apply Z.mod_small. lia.
Qed.

Lemma page_offset_kept j k p v :
  0 <= j <= k -> p &&& (2 ^ j - 1) = 0 -> (p ||| (v &&& (2 ^ k - 1))) mod 2 ^ j = v mod 2 ^ j.
Proof.
  intros Hk Hp. rewrite <- !land_ones_mod by lia.
  by rewrite Z.land_lor_distr_l, Hp, Z.lor_0_l, <- Z.land_assoc, land_pow2_sub1.
Qed.

(** The physical page of an entry is aligned to the size its way maps; to the smallest page
    when the size of the way was changed after the entry was written. *)
Definition entry_aligned (resized : bool) (env : CPUXtensaState) (d : bool) (wi : Z) (e : xtensa_tlb_entry) : Prop :=
  te_paddr e &&& (if resized then 0xfff else not32 (xtensa_tlb_get_addr_mask config env d wi)) = 0.

Lemma entry_aligned_resized b env d wi e : entry_aligned b env d wi e -> entry_aligned true env d wi e.
Proof.
  unfold entry_aligned. destruct b; [done|]. destruct (addr_mask_form env d wi) as (k & Hk & ->).
  rewrite not32_pow by lia. change 0xfff with (2 ^ 12 - 1). intros H.
  by rewrite <- (land_pow2_sub1 12 k), Z.land_assoc, H by lia.
Qed.

(** What a granted translation guarantees. *)
Record granted (resized : bool) (vaddr is_write : Z) (t : translation) : Prop := {
  granted_access : is_access_granted (tr_access t) is_write = true;
  granted_split : if is_write =? 2 then tr_access t &&& 3 = 0 else tr_access t &&& 4 = 0;
  granted_offset : exists k, 12 <= k <= 29 /\ tr_page_size t = 2 ^ k /\
    let j := if resized then 12 else k in tr_paddr t mod 2 ^ j = vaddr mod 2 ^ j;
}.

Lemma mmu_finish_sound b vaddr is_write mmu_idx ring wi e env t :
  let d := negb (is_write =? 2) in
  entry_aligned b env d wi e ->
  mmu_finish config vaddr is_write mmu_idx ring wi d e env = inr t ->
  granted b vaddr is_write t /\ mmu_idx <= ring.
Proof.
  intros d Hal. unfold mmu_finish. destruct (Z.ltb_spec ring mmu_idx); [done|].
  destruct (is_access_granted _ is_write) eqn:Hg; [|done]. simpl. intros [= <-].
  destruct (addr_mask_form env d wi) as (k & Hk & Hmask).
  unfold entry_aligned in Hal. rewrite Hmask, not32_pow in * by lia.
  split; [|done]. split; simpl.
  - done.
  - unfold d. destruct (is_write =? 2); simpl; rewrite <- Z.land_assoc; apply Z.land_0_r.
  - exists k. split; [done|]. split.
    + assert (2 ^ k <= 2 ^ 29) by (apply Z.pow_le_mono_r; lia).
      assert (0 < 2 ^ k) by (apply Z.pow_pos_nonneg; lia).
      rewrite Z.sub_add. apply u32_small. unfold in32. lia.
    + apply page_offset_kept; [by destruct b; lia|by destruct b].
Qed.

Lemma refill_entry_aligned b env vaddr pte d wi v :
  0 <= wi < 4 -> entry_aligned b env d wi (refill_entry env vaddr pte d v).
Proof.
  intros Hw. unfold entry_aligned. rewrite low_way_mask by (done || lia). simpl.
  rewrite <- Z.land_assoc. destruct b; apply Z.land_0_r.
Qed.

End sound.

(** Exactly one way hits. *)
Lemma omap_singleton {A} (f : Z -> option A) (n w : Z) (a : A) :
  0 <= w < n -> f w = Some a -> (forall w', 0 <= w' < n -> w' <> w -> f w' = None) ->
  omap f (seqZ 0 n) = [a].
Proof.
  intros Hw Hf Hnone.
  assert (Hnil : forall m k, (forall w', m <= w' < m + k -> f w' = None) -> omap f (seqZ m k) = []).
  { intros m k Hn. destruct (omap f (seqZ m k)) as [|x l] eqn:E; [done|].
    assert (Hx : x ∈ omap f (seqZ m k)) by (rewrite E; left).
    rewrite list_elem_of_omap in Hx. destruct Hx as (w' & Hin & Hw').
    rewrite elem_of_seqZ in Hin. rewrite Hn in Hw'; [done|lia]. }
  replace n with (w + (1 + (n - w - 1))) by lia.
  rewrite seqZ_app by lia. rewrite omap_app, (Hnil 0 w) by (intros; apply Hnone; lia).
  rewrite seqZ_cons by lia. simpl. rewrite Z.add_0_l, Hf.
  rewrite Hnil; [done|]. intros w' Hw'. apply Hnone; lia.
Qed.

Section refill_hits.
Context (config : XtensaConfig) `{!WfTlb config}.
Hypothesis Hmmu : xtensa_option_enabled config OPTION_MMU = true.

Lemma refill_state_sr env vaddr pte d r :
  r <> EXCVADDR -> sr (refill_state config env vaddr pte d) r = sr env r.
Proof.
  intros Hr. unfold refill_state. rewrite sr_set_sr_ne by done.
  destruct (truthy _), d; done.
Qed.

Lemma refill_state_geometry env vaddr pte d addr wi :
  split_tlb_entry_spec_way config (refill_state config env vaddr pte d) addr d wi =
  split_tlb_entry_spec_way config env addr d wi.
Proof.
  unfold split_tlb_entry_spec_way, xtensa_tlb_get_addr_mask, tlb_entry_index, get_page_size.
  destruct d; by rewrite !refill_state_sr by lia.
Qed.

Lemma refill_state_entry env vaddr pte d wi ei :
  tlb_entry (refill_state config env vaddr pte d) d wi ei =
    if (wi =? next_way env) && (ei =? tlb_entry_index config env vaddr d 0)
    then refill_entry env vaddr pte d true else tlb_entry env d wi ei.
Proof.
  unfold refill_state. change (tlb_entry (set_sr ?r ?v ?e)) with (tlb_entry e).
  rewrite tlb_entry_emit. destruct (_ && _) eqn:E.
  - bprop. subst. by rewrite tlb_entry_store_eq.
  - rewrite tlb_entry_store_ne.
    + destruct (truthy _); by rewrite ?tlb_entry_emit.
    + intros [= -> ->]. rewrite !Z.eqb_refl in E. done.
Qed.

Lemma get_ring_ext env env' asid :
  sr env' RASID = sr env RASID -> get_ring env' asid = get_ring env asid.
Proof. intros E. unfold get_ring. by rewrite E. Qed.

(** The ASID a PTE receives belongs to some ring. *)
Lemma pte_asid_ring env pte :
  get_ring env ((sr env RASID >>> ((pte >>> 1) &&& 0x18)) &&& 0xff) < 4.
Proof.
  assert (Hs : exists i, 0 <= i < 4 /\ (pte >>> 1) &&& 0x18 = i * 8).
  { exists ((pte >>> 4) &&& 3). split; [apply (land_range 2); lia|].
    change 0x18 with (Z.shiftl (2 ^ 2 - 1) 3). change 3 with (2 ^ 2 - 1) at 2.
    change 8 with (2 ^ 3). rewrite <- Z.shiftl_mul_pow2 by lia. zbits.
    destruct (Z.ltb_spec i 3).
    - rewrite !(Z.testbit_neg_r _ (i - 3)) by lia. apply andb_false_r.
    - autorewrite with bits. do 2 f_equal. lia. }
  destruct Hs as (i & Hi & ->). unfold get_ring.
  assert (i = 0 \/ i = 1 \/ i = 2 \/ i = 3) as Hc by lia.
  destruct Hc as [->|[->|[->| ->]]]; rewrite Z.eqb_refl; if_split; lia.
Qed.

End refill_hits.

(** ** The life of a TLB *)

Section reachable.
Context (config : XtensaConfig) `{!WfTlb config}.
Hypothesis Hmmu : xtensa_option_enabled config OPTION_MMU = true.

Abbreviation TLBCFG d := (if d : bool then DTLBCFG else ITLBCFG).

(** The ways of variable page size hold no valid entry. *)
Definition large_ways_empty (env : CPUXtensaState) (d : bool) : Prop :=
  forall wi ei, 4 <= wi <= 6 -> 0 <= ei < nthZ (way_size (tlb_config config d)) wi -> te_asid (tlb_entry env d wi ei) = 0.

(** The states between a reset and a translation: resets, the TLB instructions,
    translations, writes to the page-size registers ITLBCFG and DTLBCFG, and anything
    that touches neither the TLBs nor these registers.  The index tells whether a page
    size was changed while a way it governs held valid entries. *)
Inductive tlb_reachable : bool -> CPUXtensaState -> Prop :=
| reach_reset env env' : reset_mmu config env = Done tt env' -> tlb_reachable false env'
| reach_wtlb b env env' p v d :
    tlb_reachable b env -> helper_wtlb config p v d env = Done tt env' -> tlb_reachable b env'
| reach_itlb b env env' v d :
    tlb_reachable b env -> helper_itlb config v d env = Done tt env' -> tlb_reachable b env'
| reach_translate b env env' ldl upd vaddr is_write mmu_idx r :
    tlb_reachable b env ->
    xtensa_get_physical_addr config ldl upd vaddr is_write mmu_idx env = Done r env' -> tlb_reachable b env'
| reach_resize_empty b env d v :
    tlb_reachable b env -> large_ways_empty env d -> tlb_reachable b (set_sr (TLBCFG d) v env)
| reach_resize b env d v : tlb_reachable b env -> tlb_reachable true (set_sr (TLBCFG d) v env)
| reach_other b env env' :
    tlb_reachable b env -> itlb env' = itlb env -> dtlb env' = dtlb env ->
    sr env' ITLBCFG = sr env ITLBCFG -> sr env' DTLBCFG = sr env DTLBCFG -> tlb_reachable b env'.

(** The entries of the TLBs: refill ways can be written, valid entries are aligned. *)
Definition entry_ok (b : bool) (env : CPUXtensaState) (d : bool) (wi : Z) (e : xtensa_tlb_entry) : Prop :=
  (wi < 4 -> te_variable e = true) /\ (te_asid e <> 0 -> entry_aligned config b env d wi e).
Definition tlb_inv (b : bool) (env : CPUXtensaState) : Prop :=
  forall d wi ei, 0 <= wi < nways (tlb_config config d) -> 0 <= ei < nthZ (way_size (tlb_config config d)) wi ->
    entry_ok b env d wi (tlb_entry env d wi ei).

Lemma addr_mask_cfg env env' d wi :
  (4 <= wi <= 6 -> sr env' (TLBCFG d) = sr env (TLBCFG d)) ->
  xtensa_tlb_get_addr_mask config env' d wi = xtensa_tlb_get_addr_mask config env d wi.
Proof.
  intros E. unfold xtensa_tlb_get_addr_mask, get_page_size.
  destruct (Z.eqb_spec wi 4); [by rewrite E by lia|]. destruct (Z.eqb_spec wi 5); [by rewrite E by lia|].
  destruct (Z.eqb_spec wi 6); [by rewrite E by lia|done].
Qed.

Lemma entry_ok_ext b env env' d wi e :
  (4 <= wi <= 6 -> te_asid e <> 0 -> b = false -> sr env' (TLBCFG d) = sr env (TLBCFG d)) ->
  entry_ok b env d wi e -> entry_ok b env' d wi e.
Proof.
  intros E [Hv Ha]. split; [done|]. intros H. specialize (Ha H). unfold entry_aligned in *. destruct b; [done|].
  by rewrite (addr_mask_cfg env env') by auto.
Qed.

Lemma tlb_inv_other b env env' :
  tlb_inv b env -> itlb env' = itlb env -> dtlb env' = dtlb env ->
  sr env' ITLBCFG = sr env ITLBCFG -> sr env' DTLBCFG = sr env DTLBCFG -> tlb_inv b env'.
Proof.
  intros Hi E1 E2 E3 E4 d wi ei Hw He. apply (entry_ok_ext b env); [by destruct d|].
  replace (tlb_entry env' d wi ei) with (tlb_entry env d wi ei); [by apply Hi|].
  unfold tlb_entry. by rewrite E1, E2.
Qed.

Lemma tlb_inv_store b env d wi ei e :
  tlb_inv b env -> entry_ok b env d wi e -> tlb_inv b (store_tlb_entry d wi ei e env).
Proof.
  intros Hi He d' wi' ei' Hw' He'. apply (entry_ok_ext b env); [intros; by rewrite sr_store_tlb_entry|].
  destruct (decide ((d', wi', ei') = (d, wi, ei))) as [[= -> -> ->]|Hne].
  - by rewrite tlb_entry_store_eq.
  - rewrite tlb_entry_store_ne by done. by apply Hi.
Qed.

Lemma tlb_inv_emit b env ev : tlb_inv b env -> tlb_inv b (emit ev env).
Proof. intros Hi. by apply (tlb_inv_other b env). Qed.

Lemma mmu_entry_ok b env d wi vpn pte : entry_ok b env d wi (mmu_entry config env d wi vpn pte true).
Proof.
  split; [done|]. intros _.
  assert (H : entry_aligned config false env d wi (mmu_entry config env d wi vpn pte true)).
  { unfold entry_aligned, mmu_entry. cbn [te_paddr]. destruct (addr_mask_form config Hmmu env d wi) as (k & Hk & ->).
    rewrite not32_pow by lia. rewrite <- Z.land_assoc, land_ones_mod by lia.
    replace (2 ^ 32 - 2 ^ k) with ((2 ^ (32 - k) - 1) * 2 ^ k)
      by (rewrite Z.mul_sub_distr_r, <- Z.pow_add_r by lia; replace (32 - k + k) with 32 by lia; lia).
    rewrite Z.mod_mul by lia. apply Z.land_0_r. }
  destruct b; [by apply (entry_aligned_resized config Hmmu) in H|done].
Qed.

Lemma wtlb_inv b env env' p v d : tlb_inv b env -> helper_wtlb config p v d env = Done tt env' -> tlb_inv b env'.
Proof.
  intros Hi. unfold helper_wtlb, bind, get.
  destruct (split_tlb_entry_spec config env v d) as [[[vpn wi] ei]|] eqn:E; [|by intros [= <-]].
  destruct (split_spec_valid config _ _ _ _ _ _ E) as [Hw He].
  rewrite (set_entry_mmu_eq config) by done. intros [= <-]. destruct (te_variable _); [|done].
  apply tlb_inv_emit, tlb_inv_store; [destruct (truthy _); [by apply tlb_inv_emit|done]|].
  apply (entry_ok_ext b env); [intros; by destruct (truthy _)|apply mmu_entry_ok].
Qed.

Lemma itlb_inv b env env' v d : tlb_inv b env -> helper_itlb config v d env = Done tt env' -> tlb_inv b env'.
Proof.
  intros Hi. unfold helper_itlb. rewrite Hmmu. unfold when at 1, bind at 1. rewrite (get_tlb_entry_eq config) by done.
  destruct (split_tlb_entry_spec config env v d) as [[[vpn wi] ei]|] eqn:E; [|by intros [= <-]].
  destruct (split_spec_valid config _ _ _ _ _ _ E) as [Hw He]. unfold when.
  destruct (_ && _); [|by intros [= <-]]. unfold bind, modify. intros [= <-].
  apply tlb_inv_store; [by apply tlb_inv_emit|]. split; [|done]. by apply (Hi d wi ei Hw He).
Qed.

Lemma tlb_inv_variable b env : tlb_inv b env -> refill_ways_variable config env.
Proof.
  intros Hi d wi ei Hw He. apply (Hi d wi ei); [|done|lia].
  destruct (wf_mmu_tlb Hmmu d) as (r & v & _ & ->). destruct d; simpl; lia.
Qed.

Lemma refill_inv b env vaddr pte d : tlb_inv b env -> tlb_inv b (refill_state config env vaddr pte d).
Proof.
  intros Hi. unfold refill_state. set (env1 := set_autorefill_idx _ env).
  set (env2 := if truthy _ then emit _ env1 else env1).
  assert (H2 : tlb_inv b env2) by (unfold env2; destruct (truthy _); by apply (tlb_inv_other b env)).
  apply (tlb_inv_other b (store_tlb_entry d (next_way env) (tlb_entry_index config env vaddr d 0)
    (refill_entry env vaddr pte d true) env2)); [|by destruct d..].
  apply tlb_inv_store; [done|]. apply (entry_ok_ext b env); [intros; unfold env2; by destruct (truthy _)|].
  split; [done|]. intros _. apply refill_entry_aligned; [done|apply next_way_range].
Qed.

Lemma translate_inv b env env' ldl upd vaddr is_write mmu_idx r :
  tlb_inv b env -> xtensa_get_physical_addr config ldl upd vaddr is_write mmu_idx env = Done r env' -> tlb_inv b env'.
Proof.
  intros Hi. unfold xtensa_get_physical_addr. rewrite Hmmu.
  destruct (mmu_update_agrees config Hmmu ldl vaddr is_write mmu_idx env (tlb_inv_variable b env Hi))
    as (r' & env1 & Ht & Hf & Hc).
  destruct upd; [rewrite Ht|rewrite Hf]; intros [= _ <-]; [|done].
  destruct Hc as [-> |(_ & pte & _ & ->)]; [done|by apply refill_inv].
Qed.

(** The fixed entries of ways 5 and 6 after a reset. *)
Lemma fixed_entry_ok env d wi ei (old : Z -> Z -> xtensa_tlb_entry) :
  sr env (TLBCFG d) = 0 -> 0 <= wi < nways (tlb_config config d) ->
  0 <= ei < nthZ (way_size (tlb_config config d)) wi ->
  entry_ok false env d wi (reset_tlb_mmu_ways56 (tlb_config config d) (reset_tlb_mmu_all_ways (tlb_config config d) old) wi ei).
Proof.
  intros Hcfg Hw He. set (all := reset_tlb_mmu_all_ways _ _).
  assert (Hall : all wi ei = mkTlbEntry (te_vaddr (old wi ei)) (te_paddr (old wi ei)) 0 (te_attr (old wi ei)) true).
  { unfold all, reset_tlb_mmu_all_ways. rewrite !(proj2 (Z.leb_le _ _)), !(proj2 (Z.ltb_lt _ _)) by lia. done. }
  assert (Hold : entry_ok false env d wi (all wi ei)) by (rewrite Hall; by split).
  assert (Hm : forall e, te_paddr e &&& not32 (xtensa_tlb_get_addr_mask config env d wi) = 0 -> 4 <= wi ->
    entry_ok false env d wi e) by (intros e H H4; split; [lia|done]).
  unfold reset_tlb_mmu_ways56. destruct (wf_mmu_tlb Hmmu d) as (r & v56 & _ & Ht).
  unfold xtensa_tlb_get_addr_mask, get_page_size in Hm. rewrite Hmmu, Hcfg, Ht in Hm. rewrite Ht in He |- *. cbn [varway56 tlb_template] in *.
  destruct v56; cbn [negb].
  - destruct (Z.eqb_spec wi 6) as [->|]; [|exact Hold]. cbn [andb].
    destruct ((0 <=? ei) && (ei <? 8)) eqn:E; [|done]. bprop. apply Hm; [|lia]. cbn [te_paddr].
    assert (ei = 0 \/ ei = 1 \/ ei = 2 \/ ei = 3 \/ ei = 4 \/ ei = 5 \/ ei = 6 \/ ei = 7) as Hc by lia.
    by repeat destruct Hc as [->|Hc]; [..|subst ei].
  - rewrite (proj2 (Z.leb_le 0 ei)), !andb_true_r by lia. destruct (Z.eqb_spec wi 5) as [->|].
    { assert (ei = 0 \/ ei = 1) as [-> | ->] by (assert (ei < 2) by apply He; lia); (apply Hm; [done|lia]). }
    destruct (Z.eqb_spec wi 6) as [->|]; [|done].
    assert (ei = 0 \/ ei = 1) as [-> | ->] by (assert (ei < 2) by apply He; lia); (apply Hm; [done|lia]).
Qed.

Lemma reset_inv env env' : reset_mmu config env = Done tt env' -> tlb_inv false env'.
Proof.
  unfold reset_mmu. rewrite Hmmu. unfold bind, modify. intros [= <-] d wi ei Hw He.
  destruct d; [refine (fixed_entry_ok _ true wi ei (dtlb env) _ Hw He)|refine (fixed_entry_ok _ false wi ei (itlb env) _ Hw He)];
    reflexivity.
Qed.

Lemma reachable_inv b env : tlb_reachable b env -> tlb_inv b env.
Proof.
  induction 1 as [env env' H|b env env' p v d _ IH H|b env env' v d _ IH H|b env env' ldl upd vaddr w i r _ IH H
    |b env d v _ IH H|b env d v _ IH|b env env' _ IH].
  - by eapply reset_inv.
  - by eapply wtlb_inv.
  - by eapply itlb_inv.
  - by eapply translate_inv.
  - intros d' wi ei Hw He. apply (entry_ok_ext b env); [|by apply IH].
    intros H46 Hlive _. destruct (decide (d' = d)) as [->|]; [destruct Hlive; exact (H wi ei H46 He)|].
    by destruct d, d'; rewrite ?sr_set_sr_ne by lia.
  - intros d' wi ei Hw He. destruct (IH d' wi ei Hw He) as [Hv Ha].
    replace (tlb_entry (set_sr _ v env) d' wi ei) with (tlb_entry env d' wi ei) by (by destruct d').
    split; [done|]. intros Hl. exact (entry_aligned_resized config Hmmu b env d' wi _ (Ha Hl)).
  - by eapply tlb_inv_other.
Qed.

(** A lookup that hits finds a valid entry. *)
Lemma tlb_lookup_live env addr d wi ei ring :
  xtensa_tlb_lookup config env addr d = inr (wi, ei, ring) -> te_asid (tlb_entry env d wi ei) <> 0.
Proof.
  unfold xtensa_tlb_lookup. rewrite tlb_lookup_ways_spec.
  rewrite Z2Nat.id by by apply nways_nonneg. simpl. fold (tlb_hits config env addr d).
  unfold lookup_result. destruct (tlb_hits config env addr d) as [|h [|h' l]] eqn:El; [done| |done].
  intros [= ->]. assert (Hin : (wi, ei, ring) ∈ tlb_hits config env addr d) by (rewrite El; by left).
  unfold tlb_hits in Hin. rewrite list_elem_of_omap in Hin. destruct Hin as (w & Hw & Hh).
  rewrite elem_of_seqZ in Hw.
  by destruct (way_hit_inv config env addr d w wi ei ring Hmmu ltac:(lia) Hh) as (-> & -> & _ & _ & Hl & _).
Qed.
End reachable.

(** ** MPU segments *)

Definition mpu_matches (entry : Z -> xtensa_mpu_entry) (n vaddr i : Z) : bool :=
  (me_vaddr (entry i) <=? vaddr) && ((i =? n - 1) || (vaddr <? me_vaddr (entry (i + 1)))).

Lemma mpu_lookup_none entry n v fuel i found :
  (forall j, i <= j < i + Z.of_nat fuel -> mpu_matches entry n v j = false) ->
  mpu_lookup_from entry n v fuel i found = (match found with Some _ => 1 | None => 0 end, found).
Proof.
  revert i. induction fuel as [|fuel IH]; intros i Hm; [done|]. simpl.
  pose proof (Hm i ltac:(lia)) as Hi. unfold mpu_matches in Hi. rewrite Hi.
  apply IH. intros j Hj. apply Hm. lia.
Qed.

Lemma mpu_lookup_one entry n v fuel i s :
  i <= s < i + Z.of_nat fuel ->
  (forall j, i <= j < i + Z.of_nat fuel -> mpu_matches entry n v j = (j =? s)) ->
  mpu_lookup_from entry n v fuel i None = (1, Some s).
Proof.
  revert i. induction fuel as [|fuel IH]; intros i Hs Hm; [lia|]. simpl.
  pose proof (Hm i ltac:(lia)) as Hi. unfold mpu_matches in Hi. rewrite Hi.
  destruct (Z.eqb_spec i s) as [->|].
  - rewrite mpu_lookup_none; [done|]. intros j Hj. rewrite Hm by lia.
    by apply Z.eqb_neq; lia.
  - apply IH; [lia|]. intros j Hj. apply Hm. lia.
Qed.

(** A table sorted by address that starts at 0. *)
Definition mpu_sorted (entry : Z -> xtensa_mpu_entry) (n : Z) : Prop :=
  0 < n /\ me_vaddr (entry 0) = 0 /\
  forall i, 1 <= i < n -> me_vaddr (entry (i - 1)) <= me_vaddr (entry i).

Lemma mpu_sorted_le entry n i j :
  mpu_sorted entry n -> 0 <= i <= j -> j < n -> me_vaddr (entry i) <= me_vaddr (entry j).
Proof.
  intros (_ & _ & Hs) Hij Hj.
  assert (Hk : forall k : nat, i + Z.of_nat k < n ->
            me_vaddr (entry i) <= me_vaddr (entry (i + Z.of_nat k))).
  { induction k as [|k IH]; intros Hk; [by rewrite Z.add_0_r|].
    etrans; [apply IH; lia|]. specialize (Hs (i + Z.of_nat (S k)) ltac:(lia)).
    by replace (i + Z.of_nat (S k) - 1) with (i + Z.of_nat k) in Hs by lia. }
  specialize (Hk (Z.to_nat (j - i)) ltac:(lia)). by rewrite Z2Nat.id, Zplus_minus in Hk by lia.
Qed.

Lemma mpu_last_below entry v (n : nat) :
  me_vaddr (entry 0) <= v -> (0 < n)%nat ->
  exists s, 0 <= s < Z.of_nat n /\ me_vaddr (entry s) <= v /\
    forall j, s < j < Z.of_nat n -> v < me_vaddr (entry j).
Proof.
  intros H0. induction n as [|n IH]; [lia|]. intros _.
  destruct (decide (n = 0%nat)) as [->|]; [exists 0; repeat split; (done || lia)|].
  destruct (Z.leb_spec (me_vaddr (entry (Z.of_nat n))) v).
  - exists (Z.of_nat n). split; [lia|]. split; [done|]. intros; lia.
  - destruct IH as (s & Hs & Hv & Hu); [lia|]. exists s. split; [lia|]. split; [done|].
    intros j Hj. destruct (decide (j = Z.of_nat n)) as [->|]; [done|]. apply Hu. lia.
Qed.

Lemma mpu_lookup_sorted entry n v :
  mpu_sorted entry n -> 0 <= v ->
  exists s, xtensa_mpu_lookup entry n v = (1, Some s) /\ 0 <= s < n /\
    me_vaddr (entry s) <= v /\ forall j, s < j < n -> v < me_vaddr (entry j).
Proof.
  intros Hsort Hv. pose proof Hsort as (Hn & H0 & _).
  destruct (mpu_last_below entry v (Z.to_nat n)) as (s & Hs & Hle & Hgt); [lia|lia|].
  exists s. rewrite Z2Nat.id in Hs, Hgt by lia. split; [|done].
  unfold xtensa_mpu_lookup. apply mpu_lookup_one; [lia|]. intros j Hj. unfold mpu_matches.
  destruct (Z.eqb_spec j s) as [->|Hne].
  - rewrite (proj2 (Z.leb_le _ _)) by done. destruct (Z.eqb_spec s (n - 1)); [done|]. simpl.
    apply Z.ltb_lt, Hgt. lia.
  - destruct (Z.ltb_spec j s).
    + pose proof (mpu_sorted_le entry n (j + 1) s Hsort ltac:(lia) ltac:(lia)).
      destruct (Z.eqb_spec j (n - 1)); [lia|]. simpl.
      rewrite (proj2 (Z.ltb_ge _ _)) by lia. apply andb_false_r.
    + rewrite (proj2 (Z.leb_gt _ _)); [done|]. apply Hgt. lia.
Qed.

Lemma for_range_massert {S} lo n (b : Z -> bool) (s s' : S) :
  0 <= n -> for_range lo n (fun i => massert (b i)) s = Done tt s' ->
  s' = s /\ forall i, lo <= i < lo + n -> b i = true.
Proof.
  intros Hn. revert lo. replace n with (Z.of_nat (Z.to_nat n)) by lia.
  induction (Z.to_nat n) as [|k IH]; intros lo.
  - rewrite for_range_empty by lia. intros [= <-]. split; [done|]. intros; lia.
  - rewrite for_range_step by lia. unfold bind, massert at 1.
    destruct (b lo) eqn:Hb; [|done].
    replace (Z.of_nat (Datatypes.S k) - 1) with (Z.of_nat k) by lia. intros H.
    destruct (IH _ H) as [-> Hi]. split; [done|]. intros i Hr.
    destruct (decide (i = lo)) as [->|]; [done|]. apply Hi. lia.
Qed.

Lemma extract_deposit_bit x s v :
  0 <= s < 32 -> extract32 (deposit32 x s 1 v) s 1 = v &&& 1.
Proof.
  intros Hs. unfold extract32, deposit32. change (32 - 1) with 31.
  change (0xffffffff >>> 31) with 1. rewrite lsl32_1 by lia. zbits.
  destruct (Z.eqb_spec i 0) as [->|]; [|by rewrite !andb_false_r].
  rewrite Z.add_0_l, Z.eqb_refl, Z.sub_diag. destruct (Z.ltb_spec s 32); [|lia].
  by rewrite andb_false_r, orb_false_l, !andb_true_r.
Qed.

(** ** Claims *)


(** One 4 KB data page mapped in way 7, every entry writable. *)
Definition mapped_env : CPUXtensaState :=
  set_dtlb (fun wi _ => if wi =? 7 then mkTlbEntry 0x40001000 0x2000 1 3 true
                        else mkTlbEntry 0 0 0 0 true)
    (set_itlb (fun _ _ => mkTlbEntry 0 0 0 0 true) (set_sr RASID 0x04030201 zero_env)).

Lemma mapped_env_variable : refill_ways_variable mmu_config mapped_env.
Proof. intros [] wi ei _ _; simpl; [|done]. by destruct (wi =? 7). Qed.

(** The 4 KB page at 0x40001000 written to way 7 of the data TLB after a reset. *)
Definition written_env : CPUXtensaState :=
  match (bind (reset_mmu mmu_config) (fun _ => helper_wtlb mmu_config 0x2003 0x40001007 true)) zero_env with
  | Done _ env => env | _ => zero_env end.


(** C37: Translating always terminates with an answer on a core with the MMU,
    and permission to update the TLB does not change the answer: the debug
    translation leaves the whole state alone, the updating one differs from it
    only after a miss whose page walk succeeded, and then only by the refill
    of the next autorefill way. *)
Theorem autorefill_transparent (config : XtensaConfig) `{!WfTlb config} (ldl : Z -> option Z)
    (env : CPUXtensaState) (vaddr is_write mmu_idx : Z) :
  xtensa_option_enabled config OPTION_MMU = true -> refill_ways_variable config env ->
  let d := negb (is_write =? 2) in
  exists r env',
    xtensa_get_physical_addr config ldl true vaddr is_write mmu_idx env = Done r env' /\
    xtensa_get_physical_addr config ldl false vaddr is_write mmu_idx env = Done r env /\
    (env' = env \/
     xtensa_tlb_lookup config env vaddr d = inl (tlb_miss d) /\
     exists pte, get_pte config ldl vaddr env = Done (Some pte) env /\
       env' = refill_state config env vaddr pte d).
Proof.
  intros Hm Hvar. unfold xtensa_get_physical_addr. rewrite Hm.
  exact (mmu_update_agrees config Hm ldl vaddr is_write mmu_idx env Hvar).
Qed.

(** The page table page is mapped by way 7; its entry maps 0x1000. *)
Definition walk_env : CPUXtensaState := set_sr PTEVADDR 0x40000000 mapped_env.

Lemma autorefill_transparent_witness :
  exists env',
    xtensa_get_physical_addr mmu_config (fun a => if a =? 0x2004 then Some 0x55000003 else None)
      true 0x00401234 0 0 walk_env
      = Done (inr (mkTrans 0x55000234 0x1000 0x103)) env' /\
    xtensa_get_physical_addr mmu_config (fun a => if a =? 0x2004 then Some 0x55000003 else None)
      false 0x00401234 0 0 walk_env
      = Done (inr (mkTrans 0x55000234 0x1000 0x103)) walk_env.
Proof.
  destruct (autorefill_transparent mmu_config
    (fun a => if a =? 0x2004 then Some 0x55000003 else None) walk_env 0x00401234 0 0
    eq_refl mapped_env_variable) as (r & env' & E1 & E2 & _).
  exists env'. assert (Hr : r = inr (mkTrans 0x55000234 0x1000 0x103)).
  { assert (E3 := E2). vm_compute in E3. injection E3 as <-. reflexivity. }
  rewrite E1, E2, Hr. by split.
Defined.

(** A refill is effective: after a miss, when the page walk has written its
    entry (and RASID has no zero ASID), looking up the same address hits
    exactly the refilled way. *)
Theorem autorefill_then_hits (config : XtensaConfig) `{!WfTlb config}
    (env : CPUXtensaState) (vaddr pte : Z) (d : bool) :
  xtensa_option_enabled config OPTION_MMU = true ->
  xtensa_tlb_lookup config env vaddr d = inl (tlb_miss d) ->
  (sr env RASID >>> ((pte >>> 1) &&& 0x18)) &&& 0xff <> 0 ->
  exists ring, ring < 4 /\
    xtensa_tlb_lookup config (refill_state config env vaddr pte d) vaddr d =
      inr (next_way env, tlb_entry_index config env vaddr d 0, ring).
Proof.
  intros Hm Hmiss Hasid. pose proof (next_way_range env) as Hw.
  destruct (low_way_valid config Hm env vaddr d _ Hw) as [Hwn _].
  set (asid := (sr env RASID >>> ((pte >>> 1) &&& 0x18)) &&& 0xff) in *.
  set (env' := refill_state config env vaddr pte d).
  assert (Hring : forall a, get_ring env' a = get_ring env a)
    by (intros; apply get_ring_ext, refill_state_sr; lia).
  exists (get_ring env asid). split; [apply pte_asid_ring|].
  unfold xtensa_tlb_lookup in *. rewrite tlb_lookup_ways_spec in *.
  rewrite Z2Nat.id in * by by apply (nways_nonneg config). simpl in *.
  assert (Hno : omap (way_hit config env vaddr d) (seqZ 0 (nways (tlb_config config d))) = []).
  { destruct (omap _ _) as [|h [|]]; [done|done|]. simpl in Hmiss. by destruct d. }
  erewrite omap_singleton; [reflexivity|exact Hwn| |].
  - unfold way_hit. unfold env' at 1. rewrite refill_state_geometry.
    unfold split_tlb_entry_spec_way. rewrite (way_number config) by done.
    rewrite (low_way_index_ext config env env) by done.
    unfold env'. rewrite !refill_state_entry, !Z.eqb_refl. fold env'. simpl.
    rewrite low_way_mask by done. rewrite Z.eqb_refl. fold asid.
    rewrite (proj2 (truthy_true asid)) by done. simpl. rewrite Hring.
    by rewrite (proj2 (Z.ltb_lt _ _)) by apply pte_asid_ring.
  - intros w Hr Hne. destruct (way_hit config env' vaddr d w) as [h|] eqn:E; [|done].
    exfalso. assert (Hin : h ∈ omap (way_hit config env vaddr d) (seqZ 0 (nways (tlb_config config d)))).
    { rewrite list_elem_of_omap. exists w. split; [rewrite elem_of_seqZ; lia|].
      rewrite <- E. unfold way_hit. unfold env' at 1. rewrite refill_state_geometry.
      destruct (split_tlb_entry_spec_way config env vaddr d w) as [vpn ei].
      unfold env'. rewrite !refill_state_entry. fold env'.
      rewrite (proj2 (Z.eqb_neq w (next_way env))) by done. simpl. by rewrite Hring. }
    rewrite Hno in Hin. by apply elem_of_nil in Hin.
Qed.

Lemma autorefill_then_hits_witness :
  exists ring, ring < 4 /\
    xtensa_tlb_lookup mmu_config (refill_state mmu_config walk_env 0x00401234 0x55000003 true)
      0x00401234 true = inr (1, 1, ring).
Proof.
  exact (autorefill_then_hits mmu_config walk_env 0x00401234 0x55000003 true eq_refl eq_refl
           ltac:(vm_compute; discriminate)).
Defined.

Lemma region_split v :
  in32 v -> lsl32 ((v >>> 29) &&& 7) 29 ||| (v &&& not32 REGION_PAGE_MASK) = v.
Proof.
  intros Hv. change (not32 REGION_PAGE_MASK) with (2 ^ 29 - 1). change 7 with (2 ^ 3 - 1). zbits.
  destruct (Z.ltb_spec i 29).
  - rewrite (Z.testbit_neg_r _ (i - 29)) by lia. destruct (i <? 32); by rewrite ?andb_true_r.
  - autorewrite with bits. rewrite andb_false_r, orb_false_r.
    destruct (Z.ltb_spec i 32); simpl; [|by rewrite (in32_testbit v)].
    destruct (Z.ltb_spec (i - 29) 3); [|lia]. rewrite andb_true_r. f_equal. lia.
Qed.

(** After reset a core with region protection (the ESP32-S3 among them)
    translates every address to itself, for loads, stores and fetches at any
    privilege, as one readable, writable and executable uncached region. *)
Theorem region_reset_identity (config : XtensaConfig) `{!WfTlb config} (ldl : Z -> option Z)
    (env : CPUXtensaState) (upd : bool) (vaddr is_write mmu_idx : Z) :
  xtensa_option_enabled config OPTION_MMU = false ->
  xtensa_option_enabled config OPTION_MPU = false ->
  xtensa_option_bits_enabled config
    (xtensa_option_bit OPTION_REGION_PROTECTION
     ||| xtensa_option_bit OPTION_REGION_TRANSLATION) = true ->
  in32 vaddr -> 0 <= is_write <= 2 ->
  exists env1,
    reset_mmu config env = Done tt env1 /\
    xtensa_get_physical_addr config ldl upd vaddr is_write mmu_idx env1 =
      Done (inr (mkTrans vaddr 0x20000000 (PAGE_RWX ||| PAGE_CACHE_BYPASS))) env1.
Proof.
  intros Hm Hp Hreg Hv Hw. unfold reset_mmu. rewrite Hm, Hp. eexists. split; [reflexivity|].
  set (env1 := set_dtlb _ _). unfold xtensa_get_physical_addr, get_physical_addr_region.
  rewrite Hm, Hreg. set (d := negb (is_write =? 2)). set (ei := (vaddr >>> 29) &&& 7).
  assert (Hei : 0 <= ei < 8) by (apply (land_range 3); lia).
  destruct (wf_region_tlb Hm d) as [Hn Hs].
  unfold bind. rewrite (get_entry_ok config) by (rewrite ?Hn, ?Hs; lia).
  assert (He : tlb_entry env1 d 0 ei = mkTlbEntry (lsl32 ei 29) (lsl32 ei 29) 1 2 true).
  { transitivity (reset_tlb_region_way0 (if d then dtlb env else itlb env) 0 ei); [by destruct d|].
    unfold reset_tlb_region_way0. rewrite (proj2 (Z.leb_le _ _)) by lia.
    by rewrite (proj2 (Z.ltb_lt _ _)) by lia. }
  rewrite He. simpl.
  assert (is_write = 0 \/ is_write = 1 \/ is_write = 2) as Hc by lia.
  assert (is_access_granted (region_attr_to_access 2) is_write = true) as ->
    by (by destruct Hc as [->|[->| ->]]).
  simpl. unfold ret, ei. rewrite region_split by done. reflexivity.
Qed.

Lemma region_reset_identity_witness :
  exists env1, reset_mmu esp32s3_config zero_env = Done tt env1 /\
    xtensa_get_physical_addr esp32s3_config (fun _ => None) true 0x3fc88000 1 0 env1 =
      Done (inr (mkTrans 0x3fc88000 0x20000000 0x107)) env1.
Proof.
  exact (region_reset_identity esp32s3_config (fun _ => None) zero_env true 0x3fc88000 1 0
           eq_refl eq_refl eq_refl ltac:(unfold in32; lia) ltac:(lia)).
Defined.

(** The assertions that reset makes on the background map of a core with
    an MPU are what later lookups need: once reset has passed, every address
    matches exactly one background segment, the last one that starts at or
    below it, so a background attribute is always defined. *)
Theorem mpu_background_total (config : XtensaConfig) (env env1 : CPUXtensaState) (vaddr : Z) :
  xtensa_option_enabled config OPTION_MMU = false ->
  xtensa_option_enabled config OPTION_MPU = true ->
  reset_mmu config env = Done tt env1 -> 0 <= vaddr ->
  exists s,
    bg_lookup config vaddr = (1, Some s) /\ 0 <= s < n_mpu_bg_segments config /\
    me_vaddr (mpu_bg_entry config s) <= vaddr /\
    (forall j, s < j < n_mpu_bg_segments config -> vaddr < me_vaddr (mpu_bg_entry config j)) /\
    bg_attr config vaddr env1 = Done (me_attr (mpu_bg_entry config s)) env1.
Proof.
  intros Hm Hp Hr Hv. unfold reset_mmu in Hr. rewrite Hm, Hp in Hr.
  unfold bind, modify, massert at 1 in Hr. destruct (_ && _) eqn:E; [|done]. bprop.
  apply for_range_massert in Hr as [_ Hs]; [|lia].
  assert (Hsort : mpu_sorted (mpu_bg_entry config) (n_mpu_bg_segments config)).
  { split; [done|]. split; [done|]. intros i Hi. specialize (Hs i ltac:(lia)). by bprop. }
  destruct (mpu_lookup_sorted _ _ vaddr Hsort Hv) as (s & El & Hr' & Hle & Hgt).
  exists s. split; [done|]. split; [done|]. split; [done|]. split; [done|].
  unfold bg_attr, bg_lookup. rewrite El. done.
Qed.

(** A core with an MPU and a three-segment background map. *)
Definition mpu_config : XtensaConfig :=
  let c := esp32s3_config in
  {| options := xtensa_option_bit OPTION_MPU ||| xtensa_option_bit OPTION_EXCEPTION;
     nareg := nareg c; excm_level := excm_level c; ndepc := ndepc c;
     max_insn_size := max_insn_size c; vecbase := vecbase c;
     exception_vector := exception_vector c; ninterrupt := ninterrupt c; nlevel := nlevel c;
     nmi_level := nmi_level c; interrupt_vector := interrupt_vector c;
     level_mask := level_mask c; inttype_mask := inttype_mask c; interrupt := interrupt c;
     nccompare := nccompare c; timerint := timerint c; nextint := nextint c;
     extint := extint c; debug_level := debug_level c; nibreak := nibreak c;
     ndbreak := ndbreak c; icache_ways := icache_ways c; dcache_ways := dcache_ways c;
     memctl_mask := memctl_mask c; configid := configid c;
     cfg_itlb := cfg_itlb c; cfg_dtlb := cfg_dtlb c;
     mpu_align := 0x1000; n_mpu_fg_segments := 16; n_mpu_bg_segments := 3;
     mpu_bg := [ mkMpuEntry 0 0x6700; mkMpuEntry 0x40000000 0x6500; mkMpuEntry 0x80000000 0x6600 ];
     dcache_line_bytes := 16; hw_version := 270012; use_first_nan := false |}.

Lemma mpu_background_total_witness :
  exists s, bg_lookup mpu_config 0x7fffffff = (1, Some s) /\ s = 1.
Proof.
  destruct (mpu_background_total mpu_config zero_env
    (default zero_env (final (reset_mmu mpu_config zero_env))) 0x7fffffff eq_refl eq_refl eq_refl
    ltac:(lia)) as (s & E & _).
  exists s. split; [exact E|]. vm_compute in E. congruence.
Defined.

(** An MPU segment written with WPTLB is read back by RPTLB0 and RPTLB1: the
    aligned start address with the enable bit, and the attribute bits; other
    segments keep their contents and the emulator TLB is flushed. *)
Theorem wptlb_rptlb_roundtrip (config : XtensaConfig) (env : CPUXtensaState) (p v : Z) :
  let seg := p &&& 0x1f in
  seg < n_mpu_fg_segments config ->
  let env' := helper_wptlb config p v env in
  helper_rptlb0 config seg env' = (v &&& u32 (- mpu_align config)) ||| (v &&& 1) /\
  helper_rptlb1 config seg env' = p &&& 0x001fff00 /\
  (forall s, s <> seg -> mpu_fg env' s = mpu_fg env s) /\
  trace env' = EvTlbFlush :: trace env.
Proof.
  intros seg Hlt env'.
  assert (Hs : 0 <= seg < 2 ^ 5) by (apply (land_range 5); lia).
  assert (Hseg : seg &&& 0x1f = seg) by (unfold seg; by rewrite <- Z.land_assoc, Z.land_diag).
  unfold env', helper_rptlb0, helper_rptlb1, helper_wptlb. fold seg. rewrite Hseg.
  rewrite (proj2 (Z.ltb_lt _ _)) by done. simpl. rewrite !fupd_eq. simpl.
  split; [|split; [done|split; [|done]]].
  - change (sr (emit ?ev ?e)) with (sr e). rewrite sr_set_sr_eq.
    by rewrite extract_deposit_bit by lia.
  - intros s Hne. by rewrite fupd_ne.
Qed.

Lemma wptlb_rptlb_roundtrip_witness :
  helper_rptlb0 mpu_config 3 (helper_wptlb mpu_config 0x6703 0x20001 zero_env) = 0x20001.
Proof.
  exact (proj1 (wptlb_rptlb_roundtrip mpu_config zero_env 0x6703 0x20001 ltac:(by vm_compute))).
Defined.

(** Filling the emulator TLB has two outcomes on a core with the MMU: the
    page is entered with the permissions of a granted translation, or the
    guest gets an exception whose cause, address and return address are
    recorded; a probe never raises. *)
Theorem tlb_fill_outcome (config : XtensaConfig) `{!WfTlb config} (ldl : Z -> option Z)
    (env : CPUXtensaState) (address access_type mmu_idx insn_pc : Z) (probe : bool) :
  xtensa_option_enabled config OPTION_MMU = true -> refill_ways_variable config env ->
  exists r env1,
    xtensa_get_physical_addr config ldl true address access_type mmu_idx env = Done r env1 /\
    match r with
    | inr t =>
        xtensa_cpu_tlb_fill config ldl address access_type mmu_idx probe insn_pc env =
          Done true (emit (EvTlbSetPage (address &&& not32 0xfff) (tr_paddr t &&& not32 0xfff)
                             (tr_access t) mmu_idx (tr_page_size t)) env1)
    | inl cause =>
        if probe then
          xtensa_cpu_tlb_fill config ldl address access_type mmu_idx probe insn_pc env
            = Done false env1
        else exists env',
          xtensa_cpu_tlb_fill config ldl address access_type mmu_idx probe insn_pc env
            = LoopExit env' /\
          sr env' EXCCAUSE = cause /\ sr env' EXCVADDR = address /\ pc env' = insn_pc /\
          Z.testbit (sr env' PS) 4 = true
    end.
Proof.
  intros Hm Hvar.
  destruct (mmu_update_agrees config Hm ldl address access_type mmu_idx env Hvar)
    as (r & env1 & E & _ & _).
  exists r, env1.
  assert (E' : xtensa_get_physical_addr config ldl true address access_type mmu_idx env = Done r env1)
    by (unfold xtensa_get_physical_addr; by rewrite Hm).
  split; [done|]. unfold xtensa_cpu_tlb_fill, bind. rewrite E'.
  destruct r as [cause|t]; [|done]. destruct probe; [done|].
  unfold cpu_restore_state, get, helper_exception_cause_vaddr, bind, modify.
  rewrite exception_cause_eq. eexists. split; [reflexivity|]. unfold general_entry.
  split; [by sr_simpl|]. split; [|split; [done|]].
  - change (sr (set_exception_index ?x ?e)) with (sr e). rewrite !sr_set_sr_ne by lia.
    rewrite sr_set_sr_ne by (destruct (_ && _); lia). by sr_simpl.
  - change (sr (set_exception_index ?x ?e)) with (sr e). rewrite sr_set_sr_eq.
    apply ps_excm_bit.
Qed.

Lemma tlb_fill_outcome_witness :
  exists r env1,
    xtensa_get_physical_addr mmu_config (fun _ => None) true 0x7000 1 0 mapped_env = Done r env1 /\
    r = inl LOAD_STORE_TLB_MISS_CAUSE.
Proof.
  destruct (tlb_fill_outcome mmu_config (fun _ => None) mapped_env 0x7000 1 0 0x40001000 false
              eq_refl mapped_env_variable) as (r & env1 & E & _).
  exists r, env1. split; [exact E|]. vm_compute in E. congruence.
Defined.

(** The memory type of an MPU entry written by the guest never reaches the
    cache attribute of an access: [mpu_attr_to_access] tests the unshifted
    attribute, whose low byte WPTLB clears, so every such access is uncached,
    although [mpu_attr_to_type] decodes the same entry as cacheable. *)
Theorem mpu_written_attr_uncached (p ring : Z) :
  mpu_attr_to_cpu_cache (p &&& 0x001fff00) = 0 /\
  mpu_attr_to_access (0x180700 &&& 0x001fff00) ring &&& 0x700 = PAGE_CACHE_BYPASS /\
  mpu_attr_to_type (0x180700 &&& 0x001fff00) &&& MPU_TYPE_CPU_CACHE = MPU_TYPE_CPU_CACHE.
Proof.
  split; [|split; [|done]].
  - assert (H7 : Z.testbit (p &&& 0x001fff00) 7 = false).
    { rewrite Z.land_spec. apply andb_false_r. }
    assert (Hne : forall m v, Z.testbit v 7 = true -> (((p &&& 0x001fff00) &&& m) =? v) = false).
    { intros m v Hv. apply Z.eqb_neq. intros E. rewrite <- E, Z.land_spec, H7 in Hv. done. }
    unfold mpu_attr_to_cpu_cache, attr_pattern_match, existsb. simpl.
    by rewrite !Hne.
  - unfold mpu_attr_to_access. by destruct (ring =? 0).
Qed.
