(* ===== verification/OpHelper.v ===== *)
(** * Timers and memory-control helpers ([target/xtensa/op_helper.c] and the
      clock arithmetic of [include/hw/clock.h])

    CCOUNT is derived from the virtual clock; a write to CCOMPARE arms a timer.
    The clock reading [qemu_clock_get_ns] is an argument of the helpers, the
    period of the CPU clock (in units of 2^-32 ns) a section variable. *)

From S2P Require Import Prelude Cpu Exception Mmu.

Abbreviation INT64_MAX := 0x7fffffffffffffff (only parsing).
Abbreviation PAGE_CACHE_MASK := 0x700 (only parsing).

Section clock.
Context (period : Z).

(** [mulu64] yields the two halves of the 128-bit product. *)
Definition clock_ticks_to_ns (ticks : Z) : Z :=
  let ns_low := u64 (period * ticks) in
  let ns_high := u64 ((period * ticks) >>> 64) in
  if truthy (ns_high &&& Z.shiftl (2 ^ 33 - 1) 31) then INT64_MAX
  else (ns_low >>> 32) ||| lsl64 ns_high 32.

(** [divu128] leaves the low half of the quotient. *)
Definition clock_ns_to_ticks (ns : Z) : Z :=
  let lo := lsl64 ns 32 in
  let hi := ns >>> 32 in
  if period =? 0 then 0 else u64 ((hi * 2 ^ 64 + lo) / period).

End clock.

Section op_helper.
Context (config : XtensaConfig) (period : Z) (ldl : Z -> option Z).

Definition helper_update_ccount (now : Z) (env : CPUXtensaState) : CPUXtensaState :=
  let env := set_ccount_time now env in
  set_sr CCOUNT
    (u32 (ccount_base env + u32 (clock_ns_to_ticks period (u64 (now - time_base env))))) env.

Definition helper_update_ccompare (now i : Z) (env : CPUXtensaState) : CPUXtensaState :=
  let env := set_sr INTSET
    (sr env INTSET &&& not32 (lsl32 1 (nthZ (timerint config) i))) env in
  let env := helper_update_ccount now env in
  let dcc := u32 (sr env (CCOMPARE + i) - sr env CCOUNT - 1) + 1 in
  set_yield_needed 1
    (emit (EvTimerMod i (u64 (ccount_time env + clock_ticks_to_ns period dcc))) env).

(** [now] is the reading before the write, [now_of i] the one when timer [i] is
    re-armed. *)
Definition helper_wsr_ccount (now : Z) (now_of : Z -> Z) (v : Z) (env : CPUXtensaState)
  : CPUXtensaState :=
  let env := helper_update_ccount now env in
  let env := set_ccount_base (u32 (ccount_base env + (v - sr env CCOUNT))) env in
  foldl (fun env i => helper_update_ccompare (now_of i) i env) env (seqZ 0 (nccompare config)).

(** The test of the ATOMCTL field that governs a cache type: [None] when the
    operation may proceed. *)
Definition atomctl_check (atomctl access error : Z) : option Z :=
  let access := if xtensa_option_enabled config OPTION_DCACHE then access
                else PAGE_CACHE_BYPASS in
  let denied field := if (field &&& 0x3) =? 0 then Some error else None in
  let c := access &&& PAGE_CACHE_MASK in
  if c =? PAGE_CACHE_WB then denied ((atomctl >>> 2) >>> 2)
  else if c =? PAGE_CACHE_WT then denied (atomctl >>> 2)
  else if c =? PAGE_CACHE_BYPASS then denied atomctl
  else if c =? PAGE_CACHE_ISOLATE then Some LOAD_STORE_ERROR_CAUSE
  else None.

Definition raise_if (pc vaddr : Z) (cause : option Z) : cpuM unit :=
  match cause with
  | Some c => helper_exception_cause_vaddr config pc c vaddr
  | None => ret tt
  end.

Definition helper_check_atomctl (pc vaddr : Z) : cpuM unit :=
  env <- get ;;
  let atomctl := sr env ATOMCTL in
  r <- xtensa_get_physical_addr config ldl true vaddr 1 (xtensa_get_cring config env) ;;
  match r with
  | inl rc => helper_exception_cause_vaddr config pc rc vaddr
  | inr t =>
      if negb ((tr_access t &&& (PAGE_READ ||| PAGE_WRITE)) =? (PAGE_READ ||| PAGE_WRITE))
      then helper_exception_cause_vaddr config pc STORE_PROHIBITED_CAUSE vaddr
      else raise_if pc vaddr (atomctl_check atomctl (tr_access t) LOAD_STORE_ERROR_CAUSE)
  end.

Definition helper_check_exclusive (pc vaddr is_write : Z) : cpuM unit :=
  env <- get ;;
  let atomctl := sr env ATOMCTL in
  r <- xtensa_get_physical_addr config ldl true vaddr is_write (xtensa_get_cring config env) ;;
  match r with
  | inl rc => helper_exception_cause_vaddr config pc rc vaddr
  | inr t => raise_if pc vaddr (atomctl_check atomctl (tr_access t) EXCLUSIVE_ERROR_CAUSE)
  end.

(** Each [deposit32] of the source is a statement whose result is discarded. *)
Definition helper_wsr_memctl (v : Z) (env : CPUXtensaState) : CPUXtensaState :=
  let clamp ways shift v :=
    if ways <? extract32 v shift 5 then let _ := deposit32 v shift 5 ways in v else v in
  let v := if xtensa_option_enabled config OPTION_ICACHE
           then clamp (icache_ways config) 18 v else v in
  let v := if xtensa_option_enabled config OPTION_DCACHE
           then clamp (dcache_ways config) 13 (clamp (dcache_ways config) 8 v) else v in
  set_sr MEMCTL (v &&& memctl_mask config) env.

End op_helper.

(** ** Clock arithmetic *)

Lemma ticks_to_ns_spec period ticks :
  in64 period -> in64 ticks ->
  clock_ticks_to_ns period ticks = Z.min INT64_MAX (period * ticks / 2 ^ 32).
Proof.
  intros Hp Ht. unfold clock_ticks_to_ns. set (prod := period * ticks).
  assert (Hprod : 0 <= prod < 2 ^ 128) by (unfold in64, prod in *; nia).
  rewrite Z.shiftr_div_pow2 by lia.
  assert (Hh : 0 <= prod / 2 ^ 64 < 2 ^ 64).
  { split; [apply Z.div_pos; lia|]. apply Z.div_lt_upper_bound; lia. }
  rewrite (u64_small (prod / 2 ^ 64)) by done. set (hi := prod / 2 ^ 64) in *.
  assert (Hdm : prod = 2 ^ 64 * hi + prod mod 2 ^ 64) by (apply Z.div_mod; lia).
  pose proof (Z.mod_pos_bound prod (2 ^ 64) ltac:(lia)).
  assert (Hbig : truthy (hi &&& Z.shiftl (2 ^ 33 - 1) 31) = (2 ^ 31 <=? hi)).
  { assert (Hs : hi &&& Z.shiftl (2 ^ 33 - 1) 31 = Z.shiftl (hi >>> 31) 31).
    { zbits. destruct (Z.ltb_spec i 31).
      - rewrite !(Z.testbit_neg_r _ (i - 31)) by lia. apply andb_false_r.
      - autorewrite with bits. replace (i - 31 + 31) with i by lia.
        destruct (Z.ltb_spec (i - 31) 33); [apply andb_true_r|].
        by rewrite (testbit_above 64 hi) by lia. }
    rewrite Hs, Z.shiftl_mul_pow2, Z.shiftr_div_pow2 by lia. unfold truthy.
    destruct (Z.leb_spec (2 ^ 31) hi).
    - assert (1 <= hi / 2 ^ 31) by (apply Z.div_le_lower_bound; lia).
      rewrite (proj2 (Z.eqb_neq _ _)); [done|]. lia.
    - rewrite Z.div_small by lia. done. }
  rewrite Hbig. destruct (Z.leb_spec (2 ^ 31) hi).
  - rewrite Z.min_l; [done|]. apply Z.div_le_lower_bound; lia.
  - assert (Heq : (u64 prod >>> 32) ||| lsl64 hi 32 = prod >>> 32).
    { zbits. unfold hi. rewrite <- Z.shiftr_div_pow2 by lia.
      destruct (Z.ltb_spec i 32).
      - rewrite (Z.testbit_neg_r _ (i - 32)) by lia. rewrite andb_false_r, orb_false_r.
        destruct (Z.ltb_spec (i + 32) 64); [done|lia].
      - destruct (Z.ltb_spec (i + 32) 64); [lia|]. simpl. autorewrite with bits.
        replace (i - 32 + 64) with (i + 32) by lia. destruct (Z.ltb_spec i 64); [done|].
        simpl. rewrite (testbit_above 95 prod) by lia. done. }
    rewrite Heq, Z.shiftr_div_pow2 by lia. symmetry. apply Z.min_r.
    enough (prod / 2 ^ 32 < 2 ^ 63) by lia. apply Z.div_lt_upper_bound; lia.
Qed.

Lemma ns_to_ticks_spec period ns :
  0 < period -> in64 ns -> clock_ns_to_ticks period ns = u64 (ns * 2 ^ 32 / period).
Proof.
  intros Hp Hns. unfold clock_ns_to_ticks. rewrite (proj2 (Z.eqb_neq _ _)) by lia.
  do 2 f_equal. unfold lsl64, u64. rewrite Z.shiftr_div_pow2, Z.shiftl_mul_pow2 by lia.
  replace (2 ^ 64) with (2 ^ 32 * 2 ^ 32) by done. rewrite Z.mul_mod_distr_r by lia.
  pose proof (Z.div_mod ns (2 ^ 32) ltac:(lia)). nia.
Qed.

(** ** Claims *)

Section ccount.
Context (config : XtensaConfig) (period : Z).

(** Ticks of the CPU clock since the time base. *)
Definition elapsed (env : CPUXtensaState) (now : Z) : Z :=
  clock_ns_to_ticks period (u64 (now - time_base env)).

Lemma update_ccount_sr now env :
  sr (helper_update_ccount period now env) CCOUNT = u32 (ccount_base env + elapsed env now).
Proof. unfold helper_update_ccount, elapsed. sr_simpl. apply u32_add_r. Qed.

Lemma update_ccompare_base now i env :
  ccount_base (helper_update_ccompare config period now i env) = ccount_base env /\
  time_base (helper_update_ccompare config period now i env) = time_base env.
Proof. done. Qed.

Lemma update_ccompare_ccount now i env :
  sr (helper_update_ccompare config period now i env) CCOUNT =
    u32 (ccount_base env + elapsed env now).
Proof.
  unfold helper_update_ccompare. set (e := set_sr INTSET _ env).
  etrans; [exact (update_ccount_sr now e)|]. done.
Qed.

Lemma update_ccompare_trace now i env :
  0 <= i < 3 ->
  let env' := helper_update_ccompare config period now i env in
  trace env' = EvTimerMod i (u64 (now + clock_ticks_to_ns period
                 (u32 (sr env (CCOMPARE + i) - sr env' CCOUNT - 1) + 1))) :: trace env.
Proof.
  intros Hi env'. unfold env'. rewrite update_ccompare_ccount.
  unfold helper_update_ccompare. set (e := set_sr INTSET _ env). cbv zeta.
  rewrite (update_ccount_sr now e). cbn [trace set_yield_needed emit set_trace].
  do 5 f_equal. unfold helper_update_ccount. rewrite sr_set_sr_ne by lia.
  change (sr (set_ccount_time now e)) with (sr e). unfold e. by rewrite sr_set_sr_ne by lia.
Qed.

Lemma update_ccompares_base now_of l env :
  let env' := foldl (fun env i => helper_update_ccompare config period (now_of i) i env) env l in
  ccount_base env' = ccount_base env /\ time_base env' = time_base env.
Proof.
  revert env. induction l as [|i l IH]; intros env; [done|]. simpl.
  destruct (IH (helper_update_ccompare config period (now_of i) i env)) as [-> ->]. done.
Qed.

End ccount.

(** A value written to CCOUNT is the value read back: whatever time later
    the register is sampled, it shows the written value plus exactly the ticks
    of the CPU clock counted in between, modulo 2^32; re-arming the CCOMPARE
    timers does not disturb it. *)
Theorem wsr_ccount_read_back (config : XtensaConfig) (period : Z) (env : CPUXtensaState)
    (now : Z) (now_of : Z -> Z) (v later : Z) :
  sr (helper_update_ccount period later (helper_wsr_ccount config period now now_of v env)) CCOUNT
    = u32 (v + (elapsed period env later - elapsed period env now)).
Proof.
  rewrite update_ccount_sr. unfold helper_wsr_ccount.
  match goal with |- context [foldl ?f ?e ?l] => set (env1 := e) end.
  destruct (update_ccompares_base config period now_of (seqZ 0 (nccompare config)) env1) as [Hb Ht].
  unfold elapsed at 1. rewrite Hb, Ht. unfold env1. simpl.
  change (sr (set_ccount_base ?x ?e)) with (sr e). rewrite update_ccount_sr.
  change (clock_ns_to_ticks period (u64 (later - time_base env))) with (elapsed period env later).
  rewrite u32_add_l, <- (u32_add_l (ccount_base env + _)).
  replace (ccount_base env + (v - u32 (ccount_base env + elapsed period env now)))
    with (ccount_base env + v - u32 (ccount_base env + elapsed period env now)) by lia.
  rewrite u32_sub_r, u32_add_l. f_equal. lia.
Qed.

(** How far the tick counter has moved when a timer armed for [dcc] ticks
    expires. *)
Lemma ticks_at_deadline p a dcc :
  2 ^ 32 <= p -> 0 <= dcc ->
  let t := p * dcc / 2 ^ 32 * 2 ^ 32 in
  (a + t) / p = a / p + dcc \/ (a + t) / p = a / p + dcc - 1.
Proof.
  intros Hp Hd t.
  pose proof (Z.div_mod (p * dcc) (2 ^ 32) ltac:(lia)).
  pose proof (Z.mod_pos_bound (p * dcc) (2 ^ 32) ltac:(lia)).
  assert (Ht : p * dcc - 2 ^ 32 < t <= p * dcc) by (unfold t; lia). clearbody t.
  pose proof (Z.div_mod a p ltac:(lia)). pose proof (Z.mod_pos_bound a p ltac:(lia)).
  assert (a / p + dcc - 1 <= (a + t) / p) by (apply Z.div_le_lower_bound; nia).
  assert ((a + t) / p < a / p + dcc + 1) by (apply Z.div_lt_upper_bound; nia).
  lia.
Qed.

(** Arming CCOMPARE [i] acknowledges its interrupt and programs the timer
    to the tick at which CCOUNT reaches the compare value, between 1 and 2^32
    ticks ahead: with a clock of at most 1 GHz, CCOUNT sampled at the deadline
    is the compare value, or one less because deadlines are rounded down to
    whole nanoseconds. *)
Theorem ccompare_deadline (config : XtensaConfig) (period : Z) (env : CPUXtensaState) (now i : Z) :
  2 ^ 32 <= period -> in64 period -> 0 <= i < 3 ->
  0 <= nthZ (timerint config) i < 32 ->
  in64 now -> 0 <= time_base env <= now ->
  let env' := helper_update_ccompare config period now i env in
  let dcc := u32 (sr env (CCOMPARE + i) - sr env' CCOUNT - 1) + 1 in
  let deadline := now + period * dcc / 2 ^ 32 in
  period * dcc / 2 ^ 32 <= INT64_MAX -> deadline < 2 ^ 64 ->
  trace env' = EvTimerMod i deadline :: trace env /\
  Z.testbit (sr env' INTSET) (nthZ (timerint config) i) = false /\
  1 <= dcc <= 2 ^ 32 /\
  let ccount := sr (helper_update_ccount period deadline env') CCOUNT in
  ccount = u32 (sr env (CCOMPARE + i)) \/ ccount = u32 (sr env (CCOMPARE + i) - 1).
Proof.
  intros Hp Hp64 Hi Hirq Hnow Htb env' dcc deadline Hsat Hdl.
  pose proof (u32_bounds (sr env (CCOMPARE + i) - sr env' CCOUNT - 1)) as Hd.
  assert (Hdcc : 1 <= dcc <= 2 ^ 32) by (unfold dcc; lia).
  assert (Hpos : 0 <= period * dcc / 2 ^ 32) by (apply Z.div_pos; nia).
  unfold in64 in *. split; [|split; [|split; [done|]]].
  - unfold env'. rewrite update_ccompare_trace by lia. fold env' dcc.
    rewrite ticks_to_ns_spec, Z.min_r by (done || unfold in64; lia).
    rewrite u64_small; [done|]. unfold in64, deadline in *. lia.
  - unfold env', helper_update_ccompare, helper_update_ccount. sr_simpl.
    rewrite Z.land_spec, not32_testbit, lsl32_1, pow2_testbit, Z.eqb_refl by lia.
    by rewrite andb_false_r, andb_false_r.
  - rewrite update_ccount_sr.
    destruct (update_ccompare_base config period now i env) as [Hb Ht].
    unfold elapsed. fold env' in Hb, Ht. rewrite Hb, Ht.
    rewrite u64_small, ns_to_ticks_spec by (unfold in64, deadline in *; lia).
    replace ((deadline - time_base env) * 2 ^ 32)
      with ((now - time_base env) * 2 ^ 32 + period * dcc / 2 ^ 32 * 2 ^ 32)
      by (unfold deadline; lia).
    assert (Hcc : sr env' CCOUNT =
              u32 (ccount_base env + (now - time_base env) * 2 ^ 32 / period)).
    { unfold env'. rewrite update_ccompare_ccount. unfold elapsed.
      rewrite u64_small, ns_to_ticks_spec by (unfold in64; lia).
      by rewrite <- u32_add_r, u32_u64, u32_add_r. }
    assert (Hsum : u32 (sr env' CCOUNT + dcc) = u32 (sr env (CCOMPARE + i))).
    { unfold dcc. rewrite Z.add_assoc, Z.add_comm, Z.add_assoc, u32_add_r. f_equal. lia. }
    rewrite <- u32_add_r, u32_u64, u32_add_r.
    set (a := (now - time_base env) * 2 ^ 32) in *.
    destruct (ticks_at_deadline period a dcc) as [-> | ->]; [lia|lia|left|right].
    + rewrite <- Hsum, Hcc, u32_add_l. f_equal. lia.
    + assert (u32 (sr env' CCOUNT + (dcc - 1)) = u32 (sr env (CCOMPARE + i) - 1)) as <-.
      { by rewrite Z.add_sub_assoc, <- u32_sub_l, Hsum, u32_sub_l. }
      rewrite Hcc, u32_add_l. f_equal. lia.
Qed.

Definition ccompare_env : CPUXtensaState :=
  set_sr CCOMPARE 1000 (set_sr INTSET 0x40 (set_ccount_base 0xfffffff0 zero_env)).

(** 240 MHz: a period of 4.1666 ns. *)
Lemma ccompare_deadline_witness :
  trace (helper_update_ccompare esp32s3_config 17895697066 0 0 ccompare_env) =
    [EvTimerMod 0 4233].
Proof.
  destruct (ccompare_deadline esp32s3_config 17895697066 ccompare_env 0 0) as [E _];
    first [rewrite E; reflexivity | vm_compute; intuition congruence].
Defined.

(** MEMCTL keeps way counts that exceed the caches: the clamps have no effect. *)
Theorem memctl_not_clamped (config : XtensaConfig) (v : Z) (env : CPUXtensaState) :
  sr (helper_wsr_memctl config v env) MEMCTL = v &&& memctl_mask config.
Proof.
  unfold helper_wsr_memctl. rewrite sr_set_sr_eq. f_equal. by if_split.
Qed.

(** Converting ticks to nanoseconds computes the exact product rounded
    down, saturating at INT64_MAX instead of overflowing 64 bits; converting
    back gives the same number of ticks or one less, for any clock of at most
    1 GHz. *)
Theorem clock_conversion (period ticks : Z) :
  2 ^ 32 <= period -> in64 period -> in64 ticks ->
  clock_ticks_to_ns period ticks = Z.min INT64_MAX (period * ticks / 2 ^ 32) /\
  (period * ticks / 2 ^ 32 <= INT64_MAX ->
   let back := clock_ns_to_ticks period (clock_ticks_to_ns period ticks) in
   back = u64 ticks \/ back = u64 (ticks - 1)).
Proof.
  intros Hp Hp64 Ht. rewrite ticks_to_ns_spec by done. split; [done|]. intros Hs.
  assert (0 <= period * ticks / 2 ^ 32) by (apply Z.div_pos; unfold in64 in *; nia).
  rewrite Z.min_r, ns_to_ticks_spec by (done || unfold in64 in *; lia).
  destruct (ticks_at_deadline period 0 ticks Hp) as [E|E]; [by apply Ht|..];
    rewrite Z.div_0_l, !Z.add_0_l in E by lia; rewrite E; [left|right]; done.
Qed.

Lemma clock_conversion_witness : clock_ticks_to_ns 17895697066 240000000 = 999999999.
Proof.
  rewrite (proj1 (clock_conversion 17895697066 240000000 ltac:(lia) ltac:(unfold in64; lia)
                    ltac:(unfold in64; lia))).
  reflexivity.
Defined.
