(* ===== verification/Dbg.v ===== *)
(** * Hardware breakpoints ([target/xtensa/dbg_helper.c] and the breakpoint
      handler of [target/xtensa/helper.c])

    IBREAKENABLE and IBREAKA drive instruction breakpoints, DBREAKA and DBREAKC
    data watchpoints.  Inserting a watchpoint can fail in the emulator core:
    [insert_ok] says which requests it accepts. *)

From S2P Require Import Prelude Cpu Exception.

Abbreviation DBREAKC_SB := 0x80000000 (only parsing).
Abbreviation DBREAKC_LB := 0x40000000 (only parsing).
Abbreviation DBREAKC_SB_LB := 0xc0000000 (only parsing).
Abbreviation DBREAKC_MASK := 0x3f (only parsing).
Abbreviation BP_MEM_READ := 0x1 (only parsing).
Abbreviation BP_MEM_WRITE := 0x2 (only parsing).
Abbreviation BP_STOP_BEFORE_ACCESS := 0x4 (only parsing).
Abbreviation BP_CPU := 0x20 (only parsing).
Abbreviation BP_WATCHPOINT_HIT := 0xc0 (only parsing).
Abbreviation DEBUGCAUSE_IC := 0x1 (only parsing).
Abbreviation DEBUGCAUSE_IB := 0x2 (only parsing).
Abbreviation DEBUGCAUSE_DB := 0x4 (only parsing).

Section dbg.
Context (config : XtensaConfig) (insert_ok : watchpoint -> bool).

(** One iteration of the loop of [wsr_ibreakenable]. *)
Definition ibreak_step (v change : Z) (env : CPUXtensaState) (i : Z) : CPUXtensaState :=
  if truthy (change &&& lsl32 1 i) then
    if truthy (v &&& lsl32 1 i) then
      let a := sr env (IBREAKA + i) in
      set_cpu_breakpoint (fupd (cpu_breakpoint env) i (Some a))
        (emit (EvBreakpointInsert a) env)
    else
      set_cpu_breakpoint (fupd (cpu_breakpoint env) i None)
        (emit (EvBreakpointRemove (cpu_breakpoint env i)) env)
  else env.

Definition helper_wsr_ibreakenable (v : Z) (env : CPUXtensaState) : CPUXtensaState :=
  let change := v ^^^ sr env IBREAKENABLE in
  let env := foldl (ibreak_step v change) env (seqZ 0 (nibreak config)) in
  set_sr IBREAKENABLE (v &&& (lsl32 1 (nibreak config) - 1)) env.

Definition helper_wsr_ibreaka (i v : Z) (env : CPUXtensaState) : CPUXtensaState :=
  let env :=
    if truthy (sr env IBREAKENABLE &&& lsl32 1 i) && negb (sr env (IBREAKA + i) =? v) then
      let env := emit (EvBreakpointRemove (cpu_breakpoint env i)) env in
      set_cpu_breakpoint (fupd (cpu_breakpoint env) i (Some v)) (emit (EvBreakpointInsert v) env)
    else env in
  set_sr (IBREAKA + i) v env.

Definition xtensa_debug_check_breakpoint (env : CPUXtensaState) : bool :=
  if debug_level config <=? xtensa_get_cintlevel config env then false
  else existsb (fun i => truthy (sr env IBREAKENABLE &&& lsl32 1 i)
                         && (sr env (IBREAKA + i) =? pc env))
         (seqZ 0 (nibreak config)).

(** The address mask a DBREAKC value selects, made contiguous. *)
Definition dbreak_mask (dbreakc : Z) : Z :=
  let mask := dbreakc ||| not32 DBREAKC_MASK in
  if truthy (u32 (not32 mask + 1) &&& not32 mask)
  then lsl32 0xffffffff (32 - clo32 mask) else mask.

Definition dbreak_flags (dbreakc : Z) : Z :=
  BP_CPU ||| BP_STOP_BEFORE_ACCESS
  ||| (if truthy (dbreakc &&& DBREAKC_SB) then BP_MEM_WRITE else 0)
  ||| (if truthy (dbreakc &&& DBREAKC_LB) then BP_MEM_READ else 0).

(** The watchpoint [set_dbreak] asks for. *)
Definition dbreak_watchpoint (dbreaka dbreakc : Z) : watchpoint :=
  let mask := dbreak_mask dbreakc in
  mkWatchpoint (dbreaka &&& mask) (u32 (not32 mask + 1)) (dbreak_flags dbreakc).

Definition set_dbreak (i dbreaka dbreakc : Z) (env : CPUXtensaState) : CPUXtensaState :=
  let env := match cpu_watchpoint env i with
             | Some w => emit (EvWatchpointRemove w) env
             | None => env
             end in
  let w := dbreak_watchpoint dbreaka dbreakc in
  if insert_ok w then
    set_cpu_watchpoint (fupd (cpu_watchpoint env) i (Some w)) (emit (EvWatchpointInsert w) env)
  else set_cpu_watchpoint (fupd (cpu_watchpoint env) i None) env.

Definition helper_wsr_dbreaka (i v : Z) (env : CPUXtensaState) : CPUXtensaState :=
  let dbreakc := sr env (DBREAKC + i) in
  let env :=
    if truthy (dbreakc &&& DBREAKC_SB_LB) && negb (sr env (DBREAKA + i) =? v)
    then set_dbreak i v dbreakc env else env in
  set_sr (DBREAKA + i) v env.

Definition helper_wsr_dbreakc (i v : Z) (env : CPUXtensaState) : CPUXtensaState :=
  let env :=
    if truthy ((sr env (DBREAKC + i) ^^^ v) &&& (DBREAKC_SB_LB ||| DBREAKC_MASK)) then
      if truthy (v &&& DBREAKC_SB_LB) then set_dbreak i (sr env (DBREAKA + i)) v env
      else match cpu_watchpoint env i with
           | Some w => set_cpu_watchpoint (fupd (cpu_watchpoint env) i None)
                         (emit (EvWatchpointRemove w) env)
           | None => env
           end
    else env in
  set_sr (DBREAKC + i) v env.

(** ** The breakpoint handler *)

Definition check_hw_breakpoints (env : CPUXtensaState) : Z :=
  match List.find (fun i => match cpu_watchpoint env i with
                            | Some w => truthy (wp_flags w &&& BP_WATCHPOINT_HIT)
                            | None => false
                            end) (seqZ 0 (ndbreak config)) with
  | Some i => DEBUGCAUSE_DB ||| lsl32 i 8
  | None => 0
  end.

(** [hit] is the flags word of [cs->watchpoint_hit], [gdb] and [cpu] say
    whether a breakpoint of that kind is set at the current address. *)
Definition xtensa_breakpoint_handler (hit : option Z) (gdb cpu : bool) : cpuM unit :=
  env <- get ;;
  match hit with
  | Some flags =>
      when (truthy (flags &&& BP_CPU))
        (let cause := check_hw_breakpoints env in
         when (truthy cause) (debug_exception_env config cause) ;;
         loop_exit)
  | None =>
      if gdb || negb cpu then ret tt
      else
        debug_exception_env config
          (if (sr env ICOUNT =? 0xffffffff)
              && (xtensa_get_cintlevel config env <? sr env ICOUNTLEVEL)
           then DEBUGCAUSE_IC else DEBUGCAUSE_IB) ;;
        loop_exit
  end.

End dbg.

(** ** Invariants *)

(** The breakpoints installed in the emulator core are those the registers
    describe. *)
Definition ibreak_inv (config : XtensaConfig) (env : CPUXtensaState) : Prop :=
  forall i, 0 <= i < nibreak config ->
    cpu_breakpoint env i =
      if Z.testbit (sr env IBREAKENABLE) i then Some (sr env (IBREAKA + i)) else None.

Definition dbreak_inv (config : XtensaConfig) (insert_ok : watchpoint -> bool)
    (env : CPUXtensaState) : Prop :=
  forall i, 0 <= i < ndbreak config ->
    let c := sr env (DBREAKC + i) in
    let w := dbreak_watchpoint (sr env (DBREAKA + i)) c in
    cpu_watchpoint env i =
      if truthy (c &&& DBREAKC_SB_LB) && insert_ok w then Some w else None.

Lemma ibreak_step_sr v change env i : sregs (ibreak_step v change env i) = sregs env.
Proof. unfold ibreak_step. by if_split. Qed.

Lemma ibreak_step_other v change env i j :
  j <> i -> cpu_breakpoint (ibreak_step v change env i) j = cpu_breakpoint env j.
Proof. intros. unfold ibreak_step. if_split; simpl; by rewrite ?fupd_ne. Qed.

Lemma ibreak_step_here v change env i :
  0 <= i < 32 ->
  cpu_breakpoint (ibreak_step v change env i) i =
    if Z.testbit change i then
      if Z.testbit v i then Some (sr env (IBREAKA + i)) else None
    else cpu_breakpoint env i.
Proof.
  intros Hi. unfold ibreak_step. rewrite !truthy_land_bit by done.
  destruct (Z.testbit change i), (Z.testbit v i); simpl; by rewrite ?fupd_eq.
Qed.

Lemma ibreak_loop v change env (n : nat) lo i :
  0 <= lo -> lo + Z.of_nat n <= 32 ->
  let env' := foldl (ibreak_step v change) env (seqZ lo (Z.of_nat n)) in
  sregs env' = sregs env /\
  cpu_breakpoint env' i =
    if (lo <=? i) && (i <? lo + Z.of_nat n) && Z.testbit change i then
      if Z.testbit v i then Some (sr env (IBREAKA + i)) else None
    else cpu_breakpoint env i.
Proof.
  revert lo env. induction n as [|n IH]; intros lo env Hlo Hn.
  - rewrite seqZ_nil by lia. split; [done|].
    destruct (Z.leb_spec lo i), (Z.ltb_spec i (lo + Z.of_nat 0)); try lia; done.
  - rewrite seqZ_cons by lia. replace (Z.pred (Z.of_nat (S n))) with (Z.of_nat n) by lia.
    simpl. destruct (IH (Z.succ lo) (ibreak_step v change env lo) ltac:(lia) ltac:(lia)) as [-> ->].
    split; [apply ibreak_step_sr|]. unfold sr. rewrite ibreak_step_sr.
    destruct (decide (i = lo)) as [->|Hne].
    + rewrite ibreak_step_here by lia.
      rewrite (proj2 (Z.leb_gt (Z.succ lo) lo)) by lia. simpl.
      rewrite (proj2 (Z.leb_le lo lo)), (proj2 (Z.ltb_lt lo _)) by lia. simpl. done.
    + rewrite ibreak_step_other by done.
      replace (Z.succ lo <=? i) with (lo <=? i) by (cmp_split; done || lia).
      replace (Z.succ lo + Z.of_nat n) with (lo + Z.of_nat (S n)) by lia. done.
Qed.

(** ** Data breakpoint masks *)

(** The leading ones of the 6-bit mask field decide the size of the region. *)
Definition dbreak_region_bits (m : Z) : Z :=
  if Z.testbit m 5 then
    if Z.testbit m 4 then
      if Z.testbit m 3 then
        if Z.testbit m 2 then
          if Z.testbit m 1 then (if Z.testbit m 0 then 0 else 1) else 2
        else 3
      else 4
    else 5
  else 6.

Lemma dbreak_mask_low dbreakc :
  in32 dbreakc -> dbreak_mask dbreakc = dbreak_mask (dbreakc &&& DBREAKC_MASK).
Proof.
  intros Hc. unfold dbreak_mask.
  assert (E : dbreakc ||| not32 DBREAKC_MASK = (dbreakc &&& DBREAKC_MASK) ||| not32 DBREAKC_MASK).
  { change 0x3f with (2 ^ 6 - 1). zbits. destruct (Z.ltb_spec i 6); simpl.
    - by rewrite andb_true_r.
    - rewrite andb_false_r. destruct (Z.ltb_spec i 32); [by rewrite orb_true_r|].
      by rewrite (in32_testbit dbreakc). }
  by rewrite E.
Qed.

Lemma dbreak_mask_form dbreakc :
  in32 dbreakc ->
  dbreak_mask dbreakc = 2 ^ 32 - 2 ^ dbreak_region_bits (dbreakc &&& DBREAKC_MASK).
Proof.
  intros Hc. rewrite dbreak_mask_low by done.
  pose proof (land_range 6 dbreakc DBREAKC_MASK ltac:(lia)) as Hm.
  set (m := dbreakc &&& DBREAKC_MASK) in *. clearbody m. clear Hc dbreakc.
  assert (Hall : forallb (fun m => dbreak_mask m =? 2 ^ 32 - 2 ^ dbreak_region_bits m) (seqZ 0 64)
                 = true) by (by vm_compute).
  rewrite forallb_forall in Hall. specialize (Hall m).
  apply Z.eqb_eq, Hall. apply list_elem_of_In, elem_of_seqZ. lia.
Qed.

Lemma lxor_land_zero a b m :
  (a ^^^ b) &&& m = 0 -> forall i, 0 <= i -> Z.testbit m i = true -> Z.testbit a i = Z.testbit b i.
Proof.
  intros E i Hi Hm. pose proof (proj1 (land_zero_iff _ _) E i Hi) as H.
  rewrite Z.lxor_spec, Hm, andb_true_r in H. by apply xorb_eq.
Qed.

Lemma land_eq_on a b m :
  (forall i, 0 <= i -> Z.testbit m i = true -> Z.testbit a i = Z.testbit b i) ->
  a &&& m = b &&& m.
Proof.
  intros H. zbits. destruct (Z.testbit m i) eqn:E; [by rewrite H|by rewrite !andb_false_r].
Qed.

(** Only the mask and the enable bits of DBREAKC matter. *)
Lemma dbreak_watchpoint_eq a c c' :
  in32 c -> in32 c' -> (c ^^^ c') &&& (DBREAKC_SB_LB ||| DBREAKC_MASK) = 0 ->
  dbreak_watchpoint a c = dbreak_watchpoint a c' /\
  c &&& DBREAKC_SB_LB = c' &&& DBREAKC_SB_LB.
Proof.
  intros Hc Hc' E. pose proof (lxor_land_zero _ _ _ E) as Hb.
  assert (Hsub : forall m, m &&& (DBREAKC_SB_LB ||| DBREAKC_MASK) = m -> c &&& m = c' &&& m).
  { intros m Hm. apply land_eq_on. intros i Hi Hi'. apply Hb; [done|].
    rewrite <- Hm, Z.land_spec in Hi'. by apply andb_true_iff in Hi' as [_ ?]. }
  split; [|by apply Hsub]. unfold dbreak_watchpoint, dbreak_flags.
  rewrite !(dbreak_mask_low c), !(dbreak_mask_low c') by done. by rewrite !Hsub.
Qed.

Lemma set_dbreak_spec insert_ok i a c env :
  sregs (set_dbreak insert_ok i a c env) = sregs env /\
  forall j, cpu_watchpoint (set_dbreak insert_ok i a c env) j =
    if j =? i then (if insert_ok (dbreak_watchpoint a c) then Some (dbreak_watchpoint a c) else None)
    else cpu_watchpoint env j.
Proof.
  unfold set_dbreak. destruct (cpu_watchpoint env i), (insert_ok _); (split; [done|]);
    intros j; simpl; unfold fupd; by destruct (j =? i).
Qed.

(** What a write to DBREAKA or DBREAKC does to the watchpoints. *)
Lemma wsr_dbreaka_effect insert_ok i v env j :
  let c := sr env (DBREAKC + i) in
  let w := dbreak_watchpoint v c in
  cpu_watchpoint (helper_wsr_dbreaka insert_ok i v env) j =
    if (j =? i) && truthy (c &&& DBREAKC_SB_LB) && negb (sr env (DBREAKA + i) =? v)
    then (if insert_ok w then Some w else None) else cpu_watchpoint env j.
Proof.
  intros c w. unfold helper_wsr_dbreaka. fold c. simpl.
  destruct (truthy (c &&& DBREAKC_SB_LB)), (sr env (DBREAKA + i) =? v); simpl;
    rewrite ?andb_false_r, ?andb_true_r; try done.
  by rewrite (proj2 (set_dbreak_spec insert_ok i v c env)).
Qed.

Lemma wsr_dbreakc_effect insert_ok i v env j :
  let w := dbreak_watchpoint (sr env (DBREAKA + i)) v in
  cpu_watchpoint (helper_wsr_dbreakc insert_ok i v env) j =
    if (j =? i) && truthy ((sr env (DBREAKC + i) ^^^ v) &&& (DBREAKC_SB_LB ||| DBREAKC_MASK))
    then (if truthy (v &&& DBREAKC_SB_LB) && insert_ok w then Some w else None)
    else cpu_watchpoint env j.
Proof.
  intros w. unfold helper_wsr_dbreakc. simpl.
  destruct (truthy ((_ ^^^ _) &&& _)); rewrite ?andb_true_r, ?andb_false_r; [|done].
  destruct (truthy (v &&& DBREAKC_SB_LB)).
  - by rewrite (proj2 (set_dbreak_spec insert_ok i (sr env (DBREAKA + i)) v env)).
  - destruct (cpu_watchpoint env i) eqn:E; simpl; unfold fupd;
      destruct (Z.eqb_spec j i) as [->|]; done.
Qed.

Lemma wsr_dbreak_sr insert_ok i v env r :
  sr (helper_wsr_dbreaka insert_ok i v env) r = (if r =? DBREAKA + i then v else sr env r) /\
  sr (helper_wsr_dbreakc insert_ok i v env) r = (if r =? DBREAKC + i then v else sr env r).
Proof.
  unfold helper_wsr_dbreaka, helper_wsr_dbreakc, sr, set_sr. simpl. unfold fupd.
  rewrite <- (proj1 (set_dbreak_spec insert_ok i v (sregs env (DBREAKC + i)) env)).
  split.
  - destruct (r =? DBREAKA + i); [done|]. if_split; try done.
    all: by rewrite !(proj1 (set_dbreak_spec _ _ _ _ _)).
  - destruct (r =? DBREAKC + i); [done|]. rewrite (proj1 (set_dbreak_spec _ _ _ _ _)).
    if_split; try done; [by rewrite (proj1 (set_dbreak_spec _ _ _ _ _))|].
    by destruct (cpu_watchpoint env i).
Qed.

(** ** Claims *)

(** The instruction breakpoints of the emulator core always mirror
    IBREAKENABLE and IBREAKA: writing either register keeps the
    correspondence, whatever bits the guest writes. *)
Theorem ibreak_inv_preserved (config : XtensaConfig) (env : CPUXtensaState) (i v : Z) :
  0 <= nibreak config <= 31 -> ibreak_inv config env -> 0 <= i < nibreak config ->
  ibreak_inv config (helper_wsr_ibreakenable config v env) /\
  ibreak_inv config (helper_wsr_ibreaka i v env).
Proof.
  intros Hn Hinv Hi. split.
  - intros j Hj. unfold helper_wsr_ibreakenable.
    set (change := v ^^^ sr env IBREAKENABLE).
    destruct (ibreak_loop v change env (Z.to_nat (nibreak config)) 0 j) as [Hs Hb]; [lia|lia|].
    rewrite Z2Nat.id in Hs, Hb by lia. simpl. rewrite Hb, sr_set_sr_eq, sr_set_sr_ne by lia.
    unfold sr at 2. rewrite Hs. fold (sr env (IBREAKA + j)).
    rewrite Z.add_0_l, (proj2 (Z.leb_le 0 j)), (proj2 (Z.ltb_lt j _)) by lia. simpl.
    rewrite lsl32_1, Z.land_spec, ones_testbit by lia.
    rewrite (proj2 (Z.ltb_lt j _)), andb_true_r by lia.
    unfold change. rewrite Z.lxor_spec, Hinv by done.
    by destruct (Z.testbit v j), (Z.testbit (sr env IBREAKENABLE) j).
  - intros j Hj. unfold helper_wsr_ibreaka. rewrite truthy_land_bit by lia.
    destruct (Z.testbit (sr env IBREAKENABLE) i && negb (sr env (IBREAKA + i) =? v)) eqn:E.
    + bprop. rewrite sr_set_sr_ne by lia. simpl. unfold fupd.
      change (sr (set_cpu_breakpoint ?b ?e) IBREAKENABLE) with (sr env IBREAKENABLE).
      destruct (Z.eqb_spec j i) as [->|Hne].
      * by rewrite sr_set_sr_eq, H.
      * rewrite sr_set_sr_ne by lia. by apply Hinv.
    + rewrite sr_set_sr_ne by lia. simpl. rewrite Hinv by done.
      destruct (Z.eqb_spec j i) as [->|Hne]; [|by rewrite sr_set_sr_ne by lia].
      rewrite sr_set_sr_eq. destruct (Z.testbit (sr env IBREAKENABLE) i); [|done].
      simpl in E. bprop. by rewrite E.
Qed.

Lemma ibreak_inv_preserved_witness :
  let env := helper_wsr_ibreakenable esp32s3_config 0xff (set_sr IBREAKA 0x40001000 zero_env) in
  cpu_breakpoint env 0 = Some 0x40001000 /\ sr env IBREAKENABLE = 3.
Proof.
  intros env. split; [|reflexivity].
  assert (H0 : ibreak_inv esp32s3_config (set_sr IBREAKA 0x40001000 zero_env))
    by (intros i _; rewrite sr_set_sr_ne by lia; apply eq_sym, (f_equal (fun b : bool =>
          if b then _ else None) (Z.testbit_0_l i))).
  exact (proj1 (ibreak_inv_preserved esp32s3_config _ 0 0xff ltac:(by vm_compute) H0
                    ltac:(by vm_compute)) 0 ltac:(by vm_compute)).
Defined.

(** The data watchpoints of the emulator core always mirror DBREAKA and
    DBREAKC: after either register is written, watchpoint [i] covers the
    region and the access kinds the pair describes, or is absent when the
    pair is disabled or the core refused it. *)
Theorem dbreak_inv_preserved (config : XtensaConfig) (insert_ok : watchpoint -> bool)
    (env : CPUXtensaState) (i v : Z) :
  0 <= ndbreak config <= 16 -> dbreak_inv config insert_ok env -> 0 <= i < ndbreak config ->
  (forall j, in32 (sr env (DBREAKC + j))) -> in32 v ->
  dbreak_inv config insert_ok (helper_wsr_dbreaka insert_ok i v env) /\
  dbreak_inv config insert_ok (helper_wsr_dbreakc insert_ok i v env).
Proof.
  intros Hn Hinv Hi H32 Hv. split; intros j Hj; cbv zeta.
  - rewrite wsr_dbreaka_effect, !(proj1 (wsr_dbreak_sr _ _ _ _ _)).
    rewrite (proj2 (Z.eqb_neq (DBREAKC + j) (DBREAKA + i))) by lia.
    replace (DBREAKA + j =? DBREAKA + i) with (j =? i) by (cmp_split; done || lia).
    destruct (Z.eqb_spec j i) as [->|]; simpl; [|by apply Hinv].
    destruct (truthy (sr env (DBREAKC + i) &&& DBREAKC_SB_LB)) eqn:Ec; simpl.
    + destruct (Z.eqb_spec (sr env (DBREAKA + i)) v) as [<-|]; [|done].
      rewrite (Hinv i Hi). cbv zeta. by rewrite Ec.
    + rewrite (Hinv i Hi). cbv zeta. by rewrite Ec.
  - rewrite wsr_dbreakc_effect, !(proj2 (wsr_dbreak_sr _ _ _ _ _)).
    rewrite (proj2 (Z.eqb_neq (DBREAKA + j) (DBREAKC + i))) by lia.
    replace (DBREAKC + j =? DBREAKC + i) with (j =? i) by (cmp_split; done || lia).
    destruct (Z.eqb_spec j i) as [->|]; simpl; [|by apply Hinv].
    destruct (truthy ((_ ^^^ _) &&& _)) eqn:E; [done|]. bprop. rewrite (Hinv i Hi).
    destruct (dbreak_watchpoint_eq (sr env (DBREAKA + i)) _ v (H32 i) Hv E) as [-> ->]. done.
Qed.

Lemma dbreak_inv_preserved_witness :
  let env := helper_wsr_dbreakc (fun _ => true) 0 0xc000003c
               (set_sr DBREAKA 0x3ffc1236 zero_env) in
  cpu_watchpoint env 0 = Some (mkWatchpoint 0x3ffc1234 4 0x27).
Proof.
  assert (Hz : forall e r, r <> DBREAKA -> e = set_sr DBREAKA 0x3ffc1236 zero_env -> sr e r = 0)
    by (intros e r Hr ->; by rewrite sr_set_sr_ne by lia).
  exact (proj2 (dbreak_inv_preserved esp32s3_config (fun _ => true)
    (set_sr DBREAKA 0x3ffc1236 zero_env) 0 0xc000003c ltac:(by vm_compute)
    ltac:(intros i Hi; change (ndbreak esp32s3_config) with 2 in Hi; cbv zeta;
          rewrite (Hz _ (DBREAKC + i)) by (done || lia); reflexivity)
    ltac:(by vm_compute)
    ltac:(intros j; unfold in32; destruct (Z.eqb_spec (DBREAKC + j) DBREAKA) as [->|];
          [vm_compute; intuition congruence|rewrite (Hz _ (DBREAKC + j)) by done; lia])
    ltac:(unfold in32; lia)) 0 ltac:(by vm_compute)).
Defined.

(** A data watchpoint covers a naturally aligned block of 1 to 64 bytes that
    contains the DBREAKA address; its size is given by the leading ones of the
    mask field, also when the guest writes a mask with holes, and it is
    triggered by stores and loads as the two enable bits say. *)
Theorem dbreak_region (dbreaka dbreakc : Z) :
  in32 dbreaka -> in32 dbreakc ->
  let w := dbreak_watchpoint dbreaka dbreakc in
  let k := dbreak_region_bits (dbreakc &&& DBREAKC_MASK) in
  0 <= k <= 6 /\ wp_len w = 2 ^ k /\ wp_vaddr w = 2 ^ k * (dbreaka / 2 ^ k) /\
  wp_vaddr w <= dbreaka < wp_vaddr w + wp_len w /\
  (truthy (wp_flags w &&& BP_MEM_WRITE) = Z.testbit dbreakc 31) /\
  (truthy (wp_flags w &&& BP_MEM_READ) = Z.testbit dbreakc 30).
Proof.
  intros Ha Hc w k. assert (Hk : 0 <= k <= 6) by (unfold k, dbreak_region_bits; if_split; lia).
  assert (Hp : 0 < 2 ^ k <= 2 ^ 6)
    by (split; [apply Z.pow_pos_nonneg; lia|apply Z.pow_le_mono_r; lia]).
  pose proof (dbreak_mask_form dbreakc Hc) as Hm. fold k in Hm.
  assert (Hlen : wp_len w = 2 ^ k).
  { unfold w, dbreak_watchpoint. simpl. rewrite Hm, not32_pow by lia.
    rewrite Z.sub_add. apply u32_small. unfold in32. lia. }
  assert (Hva : wp_vaddr w = 2 ^ k * (dbreaka / 2 ^ k)).
  { unfold w, dbreak_watchpoint. simpl. rewrite Hm, land_high_mask by (done || lia).
    pose proof (Z.div_mod dbreaka (2 ^ k) ltac:(lia)). lia. }
  split; [done|]. split; [done|]. split; [done|]. rewrite Hlen, Hva. split.
  - pose proof (Z.div_mod dbreaka (2 ^ k) ltac:(lia)).
    pose proof (Z.mod_pos_bound dbreaka (2 ^ k) ltac:(lia)). lia.
  - unfold w, dbreak_watchpoint, dbreak_flags. simpl.
    change DBREAKC_SB with (2 ^ 31). change DBREAKC_LB with (2 ^ 30).
    rewrite !truthy_land_pow2 by lia.
    by destruct (Z.testbit dbreakc 31), (Z.testbit dbreakc 30).
Qed.

Lemma dbreak_region_witness :
  wp_len (dbreak_watchpoint 0x3ffc1236 0xc000003a) = 8 /\
  wp_vaddr (dbreak_watchpoint 0x3ffc1236 0xc000003a) = 0x3ffc1230.
Proof.
  destruct (dbreak_region 0x3ffc1236 0xc000003a ltac:(unfold in32; lia) ltac:(unfold in32; lia))
    as (_ & Hl & Hv & _).
  split; [rewrite Hl|rewrite Hv]; reflexivity.
Defined.
