(* ===== verification/IntMatrix.v ===== *)
(** * Interrupt matrix ([hw/xtensa/esp32s3_intc.c], [hw/xtensa/esp32_intc.c])

    The matrix routes each peripheral source to one interrupt line of each CPU.
    The two chips share the code and differ in the number of inputs; the
    section is parametrised by it and instantiated for both.  The outputs are
    the external inputs of [pic_cpu.c] ([Interrupt.ext_irq_input]). *)

From S2P Require Import Prelude Cpu Interrupt.

(** What a device that drives interrupt lines needs of what it is wired to. *)
Class IrqSink (S : Type) := qemu_set_irq : Z -> Z -> S -> S.

Abbreviation INTMATRIX_UNINT_VALUE := 6 (only parsing).
Abbreviation CPU_COUNT := 2 (only parsing).

Record IntMatrixState := mkIntMatrix {
  irq_map : Z -> Z -> Z;  (** uint8_t irq_map[CPU_COUNT][INPUTS] *)
  cpus : Z -> option CPUXtensaState;  (** [None] where [outputs] is NULL *)
}.

Definition set_irq_map (m : Z -> Z -> Z) (s : IntMatrixState) : IntMatrixState :=
  mkIntMatrix m (cpus s).
Definition set_cpus (c : Z -> option CPUXtensaState) (s : IntMatrixState) : IntMatrixState :=
  mkIntMatrix (irq_map s) c.

Section intmatrix.
Context (config : XtensaConfig) (inputs : Z).

(** The external input of the CPU wired to line [out_index]. *)
Definition ext_index (out_index : Z) : option Z :=
  List.find (fun int_index => nthZ (extint config) int_index =? out_index)
    (seqZ 0 (nextint config)).

Definition intmatrix_irq_handler_cpu (n level : Z) (s : IntMatrixState) (i : Z) : IntMatrixState :=
  match cpus s i with
  | None => s
  | Some env =>
      let out_index := irq_map s i n in
      match ext_index out_index with
      | Some int_index =>
          set_cpus (fupd (cpus s) i (Some (ext_irq_input config int_index level env))) s
      | None => s
      end
  end.

Definition intmatrix_irq_handler (n level : Z) (s : IntMatrixState) : IntMatrixState :=
  foldl (intmatrix_irq_handler_cpu n level) s (seqZ 0 CPU_COUNT).

(** The position [(cpu, source)] of the entry at [addr]. *)
Definition get_map_entry (addr : Z) : option (Z * Z) :=
  let source_index := addr / 4 in
  if source_index >? inputs * CPU_COUNT then None
  else Some (source_index / inputs, source_index mod inputs).

Definition intmatrix_read (addr : Z) (s : IntMatrixState) : Z :=
  match get_map_entry addr with
  | Some (c, n) => irq_map s c n
  | None => 0
  end.

Definition intmatrix_write (addr value : Z) (s : IntMatrixState) : IntMatrixState :=
  match get_map_entry addr with
  | Some (c, n) => set_irq_map (fupd2 (irq_map s) c n (value &&& 0x1f)) s
  | None => s
  end.

Definition lower_outputs (env : CPUXtensaState) : CPUXtensaState :=
  foldl (fun e int_index => ext_irq_input config int_index 0 e) env (seqZ 0 (nextint config)).

Definition intmatrix_reset_hold (s : IntMatrixState) : IntMatrixState :=
  let s := set_irq_map (fun _ _ => INTMATRIX_UNINT_VALUE) s in
  set_cpus (fun i => if (0 <=? i) && (i <? CPU_COUNT) then lower_outputs <$> cpus s i
                     else cpus s i) s.

End intmatrix.

Abbreviation ESP32S3_INT_MATRIX_INPUTS := 512 (only parsing).
Abbreviation ESP32_INT_MATRIX_INPUTS := 69 (only parsing).

Definition esp32s3_intmatrix_irq_handler := intmatrix_irq_handler esp32s3_config.
Definition esp32s3_intmatrix_read := intmatrix_read ESP32S3_INT_MATRIX_INPUTS.
Definition esp32s3_intmatrix_write := intmatrix_write ESP32S3_INT_MATRIX_INPUTS.
Definition esp32s3_intmatrix_reset_hold := intmatrix_reset_hold esp32s3_config.

(** The ESP32 matrix is the same code over 69 inputs; its CPU configuration is
    a parameter here. *)
Definition esp32_intmatrix_irq_handler := intmatrix_irq_handler.
Definition esp32_intmatrix_read := intmatrix_read ESP32_INT_MATRIX_INPUTS.
Definition esp32_intmatrix_write := intmatrix_write ESP32_INT_MATRIX_INPUTS.
Definition esp32_intmatrix_reset_hold := intmatrix_reset_hold.

(** The matrix inputs form an interrupt sink for the peripherals. *)
#[export] Instance intmatrix_sink : IrqSink IntMatrixState := esp32s3_intmatrix_irq_handler.

(** ** Lemmas *)

Section routing.
Context (config : XtensaConfig) (inputs : Z).

(** The line selected for source [n] on CPU [i], applied to that CPU. *)
Definition route (n level : Z) (s : IntMatrixState) (i : Z) : option CPUXtensaState :=
  (fun env => match ext_index config (irq_map s i n) with
              | Some _ => xtensa_set_irq config (irq_map s i n) level env
              | None => env
              end) <$> cpus s i.

Lemma ext_index_line out j :
  ext_index config out = Some j -> 0 <= j < nextint config /\ nthZ (extint config) j = out.
Proof.
  intros E. apply find_some in E as [Hin Hj].
  apply list_elem_of_In, elem_of_seqZ in Hin. bprop. split; [lia|done].
Qed.

Lemma handler_cpu_route n level s i :
  irq_map (intmatrix_irq_handler_cpu config n level s i) = irq_map s /\
  forall j, cpus (intmatrix_irq_handler_cpu config n level s i) j =
    if j =? i then route n level s i else cpus s j.
Proof.
  unfold intmatrix_irq_handler_cpu, route. destruct (cpus s i) as [env|] eqn:Ec; simpl.
  - destruct (ext_index config (irq_map s i n)) as [k|] eqn:Ek; simpl.
    + apply ext_index_line in Ek as [_ Ek]. split; [done|]. intros j. unfold fupd, ext_irq_input.
      rewrite Ek. done.
    + split; [done|]. intros j. by destruct (Z.eqb_spec j i) as [->|].
  - split; [done|]. intros j. by destruct (Z.eqb_spec j i) as [->|].
Qed.

Lemma irq_handler_route n level s i :
  0 <= i < CPU_COUNT ->
  irq_map (intmatrix_irq_handler config n level s) = irq_map s /\
  cpus (intmatrix_irq_handler config n level s) i = route n level s i.
Proof.
  intros Hi. unfold intmatrix_irq_handler. change (seqZ 0 CPU_COUNT) with [0; 1]. simpl.
  set (s1 := intmatrix_irq_handler_cpu config n level s 0).
  destruct (handler_cpu_route n level s 0) as [M0 C0].
  destruct (handler_cpu_route n level s1 1) as [M1 C1]. fold s1 in M0, C0.
  split; [congruence|]. rewrite C1.
  assert (i = 0 \/ i = 1) as [->| ->] by lia; simpl.
  - by rewrite C0.
  - unfold route. rewrite M0, C0. done.
Qed.

Lemma get_map_entry_region addr :
  0 < inputs -> 0 <= addr < inputs * CPU_COUNT * 4 ->
  exists c n, get_map_entry inputs addr = Some (c, n) /\ 0 <= c < CPU_COUNT /\ 0 <= n < inputs /\
    addr / 4 = c * inputs + n.
Proof.
  intros Hi Ha. unfold get_map_entry. rewrite Z.gtb_ltb.
  assert (0 <= addr / 4 < inputs * 2).
  { split; [apply Z.div_pos; lia|]. apply Z.div_lt_upper_bound; lia. }
  rewrite (proj2 (Z.ltb_ge _ _)) by lia. eexists _, _. split; [done|].
  split; [|split; [by apply Z.mod_pos_bound|]].
  - split; [apply Z.div_pos; lia|]. apply Z.div_lt_upper_bound; lia.
  - pose proof (Z.div_mod (addr / 4) inputs ltac:(lia)). lia.
Qed.

End routing.

(** ** Claims *)

(** An edge on matrix input [n] reaches every connected CPU exactly on the
    line its map entry selects, when that line is one of the CPU's external
    inputs; a CPU whose entry selects an internal line, or that is not
    connected, sees nothing, and the map is not changed. *)
Theorem intmatrix_routes (config : XtensaConfig) (s : IntMatrixState) (n level i : Z) :
  0 <= i < CPU_COUNT ->
  let s' := intmatrix_irq_handler config n level s in
  let line := irq_map s i n in
  irq_map s' = irq_map s /\
  cpus s' i =
    match cpus s i with
    | None => None
    | Some env =>
        Some (if List.existsb (fun j => nthZ (extint config) j =? line) (seqZ 0 (nextint config))
              then xtensa_set_irq config line level env else env)
    end.
Proof.
  intros Hi s' line. destruct (irq_handler_route config n level s i Hi) as [Hm Hc].
  split; [exact Hm|]. unfold s'. rewrite Hc. unfold route. fold line.
  destruct (cpus s i) as [env|]; [|done]. simpl. f_equal.
  unfold ext_index. destruct (List.find _ _) as [j|] eqn:E.
  - apply find_some in E as [Hin Hj]. rewrite (proj2 (existsb_exists _ _)); [done|]. by exists j.
  - destruct (existsb _ _) eqn:Ex; [|done].
    apply existsb_exists in Ex as (j & Hin & Hj). by rewrite (find_none _ _ E j Hin) in Hj.
Qed.

Definition matrix_env : IntMatrixState :=
  mkIntMatrix (fun _ _ => 6) (fun i => if i <? 2 then Some zero_env else None).

Lemma intmatrix_routes_witness :
  (fun env => sr env INTSET) <$>
    cpus (esp32s3_intmatrix_irq_handler 27 1 (esp32s3_intmatrix_write (27 * 4) 13 matrix_env)) 0
    = Some 0x2000.
Proof.
  unfold esp32s3_intmatrix_irq_handler.
  rewrite (proj2 (intmatrix_routes esp32s3_config (esp32s3_intmatrix_write (27 * 4) 13 matrix_env)
                    27 1 0 ltac:(lia))).
  reflexivity.
Defined.

(** A map register written through the bus is read back as its low five
    bits, every other register of the matrix keeps its value, and for every
    address of the device's region the entry lies inside the table. *)
Theorem intmatrix_write_read (inputs : Z) (s : IntMatrixState) (addr addr' value : Z) :
  0 < inputs -> 0 <= addr < inputs * CPU_COUNT * 4 -> 0 <= addr' < inputs * CPU_COUNT * 4 ->
  let s' := intmatrix_write inputs addr value s in
  intmatrix_read inputs addr' s' =
    (if addr' / 4 =? addr / 4 then value mod 32 else intmatrix_read inputs addr' s) /\
  exists c n, get_map_entry inputs addr = Some (c, n) /\ 0 <= c < CPU_COUNT /\ 0 <= n < inputs.
Proof.
  intros Hi Ha Ha' s'.
  destruct (get_map_entry_region inputs addr Hi Ha) as (c & n & E & Hc & Hn & Hq).
  destruct (get_map_entry_region inputs addr' Hi Ha') as (c' & n' & E' & Hc' & Hn' & Hq').
  split; [|by exists c, n]. unfold s', intmatrix_read, intmatrix_write. rewrite E, E'. simpl.
  destruct (Z.eqb_spec (addr' / 4) (addr / 4)) as [Heq|Hne].
  - assert (c' = c /\ n' = n) as [-> ->].
    { rewrite Hq, Hq' in Heq. assert (c = 0 \/ c = 1) as [->| ->] by lia;
      assert (c' = 0 \/ c' = 1) as [->| ->] by lia; lia. }
    rewrite fupd2_eq. exact (land_ones_mod value 5 ltac:(lia)).
  - apply fupd2_ne. destruct (decide (c' = c)) as [->|]; [right|by left]. intros ->.
    by rewrite Hq, Hq' in Hne.
Qed.

Lemma intmatrix_write_read_witness :
  esp32s3_intmatrix_read 0x83c (esp32s3_intmatrix_write 0x83c 0xabcd matrix_env) = 13.
Proof.
  unfold esp32s3_intmatrix_read, esp32s3_intmatrix_write.
  rewrite (proj1 (intmatrix_write_read 512 matrix_env 0x83c 0x83c 0xabcd ltac:(lia) ltac:(lia)
                    ltac:(lia))).
  reflexivity.
Defined.

(** After reset no source of the ESP32-S3 matrix reaches a CPU: every entry
    selects line 6, which is internal, so any input leaves both CPUs
    unchanged. *)
Theorem intmatrix_reset_isolates (s : IntMatrixState) (n level i : Z) :
  0 <= i < CPU_COUNT ->
  let s0 := esp32s3_intmatrix_reset_hold s in
  cpus (esp32s3_intmatrix_irq_handler n level s0) i = cpus s0 i.
Proof.
  intros Hi s0. unfold esp32s3_intmatrix_irq_handler.
  destruct (irq_handler_route esp32s3_config n level s0 i Hi) as [_ ->].
  unfold route. change (irq_map s0 i n) with 6.
  replace (ext_index esp32s3_config 6) with (@None Z) by reflexivity.
  by destruct (cpus s0 i).
Qed.

Lemma intmatrix_reset_isolates_witness :
  cpus (esp32s3_intmatrix_irq_handler 79 1 (esp32s3_intmatrix_reset_hold matrix_env)) 1 =
  cpus (esp32s3_intmatrix_reset_hold matrix_env) 1.
Proof. exact (intmatrix_reset_isolates matrix_env 79 1 1 ltac:(lia)). Defined.

(** The bound of [get_map_entry] is one entry too wide: the address just past
    the table is accepted and denotes a CPU that does not exist.  The size of
    the memory region keeps the guest from using it. *)
Theorem map_entry_bound_off_by_one :
  get_map_entry ESP32S3_INT_MATRIX_INPUTS (ESP32S3_INT_MATRIX_INPUTS * CPU_COUNT * 4) = Some (2, 0).
Proof. reflexivity. Qed.
