(* ===== verification/Clock.v ===== *)
(** * System clock and cross-core interrupts ([hw/xtensa/esp32s3_clk.c])

    Register file of the SYSTEM block as far as the device implements it, and
    the four lines CPU_INTR_FROM_CPU_n with which one core interrupts the
    other.  The device is generic in what its lines are wired to ([IrqSink]);
    the board ([hw/xtensa/esp32s3.c], [esp32s3_machine_init]) wires line [i] to
    input [ETS_FROM_CPU_INTR0_SOURCE + i] of the interrupt matrix. *)

From S2P Require Import Prelude Cpu Interrupt IntMatrix.

Abbreviation A_CORE_1_CONTROL_1 := 0x004 (only parsing).
Abbreviation A_CPU_PER_CONF := 0x010 (only parsing).
Abbreviation A_CPU_INTR_FROM_CPU_0 := 0x030 (only parsing).
Abbreviation A_CPU_INTR_FROM_CPU_3 := 0x03c (only parsing).
Abbreviation A_EXT_DEV_ENC_DEC := 0x04c (only parsing).
Abbreviation A_SYSCLK_CONF := 0x060 (only parsing).
Abbreviation CPU_INTR_COUNT := 4 (only parsing).

Record ESP32S3ClockState := mkClock {
  cpuperconf : Z;
  sysclk : Z;
  levels : Z;  (** level of each cross-core line *)
  app_cpu_addr : Z;
  sys_ext_dev_enc_dec_ctrl : Z;
}.

Definition set_levels (v : Z) (s : ESP32S3ClockState) : ESP32S3ClockState :=
  mkClock (cpuperconf s) (sysclk s) v (app_cpu_addr s) (sys_ext_dev_enc_dec_ctrl s).
Definition set_app_cpu_addr (v : Z) (s : ESP32S3ClockState) : ESP32S3ClockState :=
  mkClock (cpuperconf s) (sysclk s) (levels s) v (sys_ext_dev_enc_dec_ctrl s).
Definition set_ext_dev (v : Z) (s : ESP32S3ClockState) : ESP32S3ClockState :=
  mkClock (cpuperconf s) (sysclk s) (levels s) (app_cpu_addr s) v.

(** The switch label [CPU_INTR_FROM_CPU_0 .. 3]. *)
Definition cpu_intr_index (addr : Z) : option Z :=
  if (addr =? 0x30) || (addr =? 0x34) || (addr =? 0x38) || (addr =? 0x3c)
  then Some ((addr - A_CPU_INTR_FROM_CPU_0) / 4) else None.

Definition esp32s3_read_cpu_intr (s : ESP32S3ClockState) (index : Z) : Z :=
  (levels s >>> index) &&& 1.

Definition esp32s3_clock_read (addr : Z) (s : ESP32S3ClockState) : Z :=
  if addr =? A_CORE_1_CONTROL_1 then app_cpu_addr s
  else if addr =? A_CPU_PER_CONF then cpuperconf s
  else if addr =? A_SYSCLK_CONF then sysclk s
  else match cpu_intr_index addr with
       | Some index => esp32s3_read_cpu_intr s index
       | None => if addr =? A_EXT_DEV_ENC_DEC then sys_ext_dev_enc_dec_ctrl s else 0
       end.

Definition esp32s3_clock_get_ext_dev_enc_dec_ctrl (s : ESP32S3ClockState) : Z :=
  sys_ext_dev_enc_dec_ctrl s.

Section clock_device.
Context {S : Type} `{!IrqSink S}.

(** Device state and the state of what its lines drive. *)
Definition esp32s3_write_cpu_intr (index value : Z) (st : ESP32S3ClockState * S)
  : ESP32S3ClockState * S :=
  let '(s, sink) := st in
  let field := extract32 value 0 1 in
  if truthy field
  then (set_levels (levels s ||| lsl32 1 index) s, qemu_set_irq index 1 sink)
  else (set_levels (levels s &&& not32 (lsl32 1 index)) s, qemu_set_irq index 0 sink).

Definition esp32s3_clock_write (addr value : Z) (st : ESP32S3ClockState * S)
  : ESP32S3ClockState * S :=
  if addr =? A_CORE_1_CONTROL_1 then (set_app_cpu_addr (u32 value) st.1, st.2)
  else match cpu_intr_index addr with
       | Some index => esp32s3_write_cpu_intr index (u32 value) st
       | None => if addr =? A_EXT_DEV_ENC_DEC then (set_ext_dev (u32 value) st.1, st.2) else st
       end.

Definition esp32s3_clock_reset_hold (st : ESP32S3ClockState * S) : ESP32S3ClockState * S :=
  let '(s, sink) := st in
  (mkClock (Z.shiftl 0 0 ||| Z.shiftl 0 2)
     (Z.shiftl 1 0 ||| Z.shiftl 1 10 ||| Z.shiftl 40 12 ||| Z.shiftl 1 19)
     0 (app_cpu_addr s) (sys_ext_dev_enc_dec_ctrl s),
   foldl (fun k i => qemu_set_irq i 0 k) sink (seqZ 0 CPU_INTR_COUNT)).

End clock_device.

(** ** Lemmas *)

Lemma cpu_intr_index_spec i :
  0 <= i < 4 -> cpu_intr_index (A_CPU_INTR_FROM_CPU_0 + 4 * i) = Some i.
Proof. intros. assert (i = 0 \/ i = 1 \/ i = 2 \/ i = 3) as [->|[->|[->| ->]]] by lia; done. Qed.

Lemma cpu_intr_index_inv addr i :
  cpu_intr_index addr = Some i -> 0 <= i < 4 /\ addr = A_CPU_INTR_FROM_CPU_0 + 4 * i.
Proof.
  unfold cpu_intr_index. destruct (_ || _) eqn:E; [|done]. intros [= <-].
  rewrite !orb_true_iff, !Z.eqb_eq in E.
  by destruct E as [[[->| ->]| ->]| ->].
Qed.

Lemma intr_field value : truthy (extract32 (u32 value) 0 1) = Z.odd value.
Proof.
  unfold extract32. rewrite Z.shiftr_0_r. change (0xffffffff >>> (32 - 1)) with (2 ^ 0).
  rewrite truthy_land_pow2, u32_testbit by lia. simpl. apply Z.bit0_odd.
Qed.

Lemma read_cpu_intr_bit s i :
  0 <= i -> esp32s3_read_cpu_intr s i = b2z (Z.testbit (levels s) i).
Proof.
  intros Hi. unfold esp32s3_read_cpu_intr.
  rewrite (land_ones_mod _ 1 ltac:(lia) : _ &&& 1 = _).
  change (2 ^ 1) with 2. rewrite <- Z.bit0_mod, Z.shiftr_spec, Z.add_0_l by lia.
  by destruct (Z.testbit (levels s) i).
Qed.

(** A write to a cross-core register, in terms of the line it drives. *)
Lemma write_cpu_intr_spec {S} `{!IrqSink S} i value (s : ESP32S3ClockState) (sink : S) :
  0 <= i < 4 ->
  exists s',
    esp32s3_clock_write (A_CPU_INTR_FROM_CPU_0 + 4 * i) value (s, sink) =
      (s', qemu_set_irq i (b2z (Z.odd value)) sink) /\
    (forall j, 0 <= j < 4 ->
       Z.testbit (levels s') j = if j =? i then Z.odd value else Z.testbit (levels s) j).
Proof.
  intros Hi. unfold esp32s3_clock_write. rewrite (proj2 (Z.eqb_neq _ _)) by lia.
  rewrite cpu_intr_index_spec by done. unfold esp32s3_write_cpu_intr. rewrite intr_field.
  destruct (Z.odd value); (eexists; split; [reflexivity|]); intros j Hj; simpl;
    rewrite lsl32_1 by lia; autorewrite with bits.
  - destruct (j =? i); by rewrite ?orb_true_r, ?orb_false_r.
  - rewrite (proj2 (Z.ltb_lt j 32)) by lia.
    destruct (j =? i); simpl; by rewrite ?andb_false_r, ?andb_true_r.
Qed.

(** ** Board wiring *)

Abbreviation ETS_FROM_CPU_INTR0_SOURCE := 79 (only parsing).

(** Line [i] of the clock device drives this matrix input. *)
Definition ipi_wiring : IrqSink IntMatrixState :=
  fun i level s => esp32s3_intmatrix_irq_handler (ETS_FROM_CPU_INTR0_SOURCE + i) level s.

(** ** Claims *)

(** The four cross-core interrupt registers are independent level registers:
    what is read back is bit 0 of what was last written, the other three keep
    their value, the corresponding line (and no other) is driven to that
    level, and no other register of the block changes. *)
Theorem cross_core_register (S : Type) `{!IrqSink S} (s : ESP32S3ClockState) (sink : S)
    (i value : Z) :
  0 <= i < 4 ->
  exists s',
    esp32s3_clock_write (A_CPU_INTR_FROM_CPU_0 + 4 * i) value (s, sink) =
      (s', qemu_set_irq i (value mod 2) sink) /\
    (forall j, 0 <= j < 4 ->
       esp32s3_clock_read (A_CPU_INTR_FROM_CPU_0 + 4 * j) s' =
         if j =? i then value mod 2 else esp32s3_clock_read (A_CPU_INTR_FROM_CPU_0 + 4 * j) s) /\
    (forall addr, cpu_intr_index addr = None ->
       esp32s3_clock_read addr s' = esp32s3_clock_read addr s).
Proof.
  intros Hi. destruct (write_cpu_intr_spec i value s sink Hi) as (s' & E & Hb).
  assert (Hmod : b2z (Z.odd value) = value mod 2).
  { rewrite <- Z.bit0_odd, <- Z.bit0_mod. by destruct (Z.testbit value 0). }
  exists s'. rewrite <- Hmod. split; [exact E|]. split.
  - intros j Hj. unfold esp32s3_clock_read. rewrite !(proj2 (Z.eqb_neq _ _)) by lia.
    rewrite cpu_intr_index_spec, !read_cpu_intr_bit, Hb by lia. by destruct (j =? i).
  - intros addr Ha. unfold esp32s3_clock_write in E.
    rewrite (proj2 (Z.eqb_neq _ _)), cpu_intr_index_spec in E by lia.
    unfold esp32s3_write_cpu_intr in E.
    assert (Hf : app_cpu_addr s' = app_cpu_addr s /\ cpuperconf s' = cpuperconf s /\
                 sysclk s' = sysclk s /\ sys_ext_dev_enc_dec_ctrl s' = sys_ext_dev_enc_dec_ctrl s)
      by (destruct (truthy _); injection E as <- _; done).
    unfold esp32s3_clock_read. rewrite Ha. by destruct Hf as (-> & -> & -> & ->).
Qed.

Definition clock0 : ESP32S3ClockState := mkClock 0 0 0 0 0.

Lemma cross_core_register_witness :
  exists s',
    esp32s3_clock_write (S := IntMatrixState) 0x38 1 (clock0, matrix_env) =
      (s', qemu_set_irq 2 1 matrix_env) /\
    esp32s3_clock_read 0x38 s' = 1 /\ esp32s3_clock_read 0x34 s' = 0.
Proof.
  destruct (cross_core_register IntMatrixState clock0 matrix_env 2 1 ltac:(lia))
    as (s' & E & Hr & _).
  exists s'. split; [exact E|]. split; [exact (Hr 2 ltac:(lia))|exact (Hr 1 ltac:(lia))].
Defined.

(** A cross-core interrupt arrives: with the board's wiring, when the matrix
    entry of core [c] for source FROM_CPU_INTR[i] selects a level-triggered
    external line, writing [value] to the register makes that bit of the
    core's INTSET equal to bit 0 of the value, and the core's pending level is
    the one its interrupt controller must present. *)
Theorem cross_core_interrupt_arrives (s : ESP32S3ClockState) (m : IntMatrixState)
    (i value c line j : Z) (env : CPUXtensaState) :
  0 <= i < 4 -> 0 <= c < CPU_COUNT ->
  cpus m c = Some env ->
  irq_map m c (ETS_FROM_CPU_INTR0_SOURCE + i) = line ->
  ext_index esp32s3_config line = Some j ->
  inttype_of esp32s3_config line = INTTYPE_LEVEL ->
  exists s' m' env',
    esp32s3_clock_write (IrqSink0 := ipi_wiring) (A_CPU_INTR_FROM_CPU_0 + 4 * i) value (s, m)
      = (s', m') /\
    cpus m' c = Some env' /\
    Z.testbit (sr env' INTSET) line = Z.odd value /\
    highest_pending esp32s3_config env' (pending_irq_level env').
Proof.
  intros Hi Hc Hcpu Hmap Hext Hlev.
  destruct (write_cpu_intr_spec (IrqSink0 := ipi_wiring) i value s m Hi) as (s' & E & _).
  set (level := b2z (Z.odd value)) in *.
  destruct (irq_handler_route esp32s3_config (ETS_FROM_CPU_INTR0_SOURCE + i) level m c Hc)
    as [_ Hroute].
  assert (Hline : 0 <= line < 32).
  { destruct (ext_index_line esp32s3_config line j Hext) as [Hj <-].
    change (nextint esp32s3_config) with 26 in Hj. clear -Hj.
    assert (Hall : forallb (fun j => (0 <=? nthZ (extint esp32s3_config) j) &&
                                     (nthZ (extint esp32s3_config) j <? 32)) (seqZ 0 26) = true)
      by (by vm_compute).
    rewrite forallb_forall in Hall.
    assert (Hin : In j (seqZ 0 26)) by (apply list_elem_of_In, elem_of_seqZ; lia).
    specialize (Hall j Hin). cbv beta in Hall. bprop. lia. }
  exists s', (qemu_set_irq (IrqSink := ipi_wiring) i level m),
    (xtensa_set_irq esp32s3_config line level env).
  split; [exact E|]. split; [|split].
  - etrans; [exact Hroute|]. unfold route. by rewrite Hcpu, Hmap, Hext.
  - rewrite set_irq_line by (change (ninterrupt esp32s3_config) with 32; lia).
    unfold line_step. simpl. rewrite Z.eqb_refl. unfold level.
    destruct (Z.odd value); simpl; [done|]. by rewrite decide_True.
  - unfold xtensa_set_irq. change (ninterrupt esp32s3_config) with 32.
    rewrite Z.geb_leb, (proj2 (Z.leb_gt _ _)) by lia.
    apply highest_pending_after, check_interrupts_pending.
Qed.

(** Core 1 routes FROM_CPU_INTR0 to its line 5. *)
Definition ipi_matrix : IntMatrixState :=
  esp32s3_intmatrix_write ((512 + 79) * 4) 5 matrix_env.

Lemma cross_core_interrupt_arrives_witness :
  exists s' m' env',
    esp32s3_clock_write (IrqSink0 := ipi_wiring) 0x30 1 (clock0, ipi_matrix) = (s', m') /\
    cpus m' 1 = Some env' /\ Z.testbit (sr env' INTSET) 5 = true.
Proof.
  destruct (cross_core_interrupt_arrives clock0 ipi_matrix 0 1 1 5 5 zero_env ltac:(lia) ltac:(lia)
              eq_refl eq_refl eq_refl eq_refl) as (s' & m' & env' & E & Hc & Hb & _).
  exists s', m', env'. split; [exact E|]. by split.
Defined.
