(* ===== verification/MxPic.v ===== *)
(** * MX interrupt distributor ([hw/xtensa/mx_pic.c])

    The multi-core interrupt controller of the Xtensa MX boards: external
    interrupts are gated by MIENG/MIASG and routed by MIROUT, inter-processor
    interrupts are grouped by MIPIPART, and every CPU has cached copies of its
    routing column and of the lines last driven.  The record keeps the level of
    each output line, which [qemu_set_irq] drives. *)

From S2P Require Import Prelude.

Abbreviation MX_MAX_CPU := 32 (only parsing).
Abbreviation MX_MAX_IRQ := 32 (only parsing).
Abbreviation MIROUT := 0x0 (only parsing).
Abbreviation MIPICAUSE := 0x100 (only parsing).
Abbreviation MIPISET := 0x140 (only parsing).
Abbreviation MIENG := 0x180 (only parsing).
Abbreviation MIENGSET := 0x184 (only parsing).
Abbreviation MIASG := 0x188 (only parsing).
Abbreviation MIASGSET := 0x18c (only parsing).
Abbreviation MIPIPART := 0x190 (only parsing).
Abbreviation SYSCFGID := 0x1a0 (only parsing).
Abbreviation MPSCORE := 0x200 (only parsing).
Abbreviation CCON := 0x220 (only parsing).

Record XtensaMxPic := mkMxPic {
  n_cpu : Z;
  n_irq : Z;
  ext_irq_state : Z;
  mieng : Z;
  miasg : Z;
  mirout : Z -> Z;
  mipipart : Z;
  mx_runstall : Z;
  mipicause : Z -> Z;  (** cpu[i].mipicause *)
  mirout_cache : Z -> Z;  (** cpu[i].mirout_cache *)
  irq_state_cache : Z -> Z;  (** cpu[i].irq_state_cache *)
  ccon : Z -> Z;  (** cpu[i].ccon *)
  out_irq : Z -> Z -> bool;  (** level of output line irq[j] of CPU i *)
  out_runstall : Z -> bool;  (** level of the run-stall line of CPU i *)
}.

Definition set_n_cpu (v : Z) (mx : XtensaMxPic) : XtensaMxPic :=
  mkMxPic v (n_irq mx) (ext_irq_state mx) (mieng mx) (miasg mx) (mirout mx) (mipipart mx)
     (mx_runstall mx) (mipicause mx) (mirout_cache mx) (irq_state_cache mx) (ccon mx)
     (out_irq mx) (out_runstall mx).
Definition set_n_irq (v : Z) (mx : XtensaMxPic) : XtensaMxPic :=
  mkMxPic (n_cpu mx) v (ext_irq_state mx) (mieng mx) (miasg mx) (mirout mx) (mipipart mx)
     (mx_runstall mx) (mipicause mx) (mirout_cache mx) (irq_state_cache mx) (ccon mx)
     (out_irq mx) (out_runstall mx).
Definition set_ext_irq_state (v : Z) (mx : XtensaMxPic) : XtensaMxPic :=
  mkMxPic (n_cpu mx) (n_irq mx) v (mieng mx) (miasg mx) (mirout mx) (mipipart mx)
     (mx_runstall mx) (mipicause mx) (mirout_cache mx) (irq_state_cache mx) (ccon mx)
     (out_irq mx) (out_runstall mx).
Definition set_mieng (v : Z) (mx : XtensaMxPic) : XtensaMxPic :=
  mkMxPic (n_cpu mx) (n_irq mx) (ext_irq_state mx) v (miasg mx) (mirout mx) (mipipart mx)
     (mx_runstall mx) (mipicause mx) (mirout_cache mx) (irq_state_cache mx) (ccon mx)
     (out_irq mx) (out_runstall mx).
Definition set_miasg (v : Z) (mx : XtensaMxPic) : XtensaMxPic :=
  mkMxPic (n_cpu mx) (n_irq mx) (ext_irq_state mx) (mieng mx) v (mirout mx) (mipipart mx)
     (mx_runstall mx) (mipicause mx) (mirout_cache mx) (irq_state_cache mx) (ccon mx)
     (out_irq mx) (out_runstall mx).
Definition set_mirout (v : Z -> Z) (mx : XtensaMxPic) : XtensaMxPic :=
  mkMxPic (n_cpu mx) (n_irq mx) (ext_irq_state mx) (mieng mx) (miasg mx) v (mipipart mx)
     (mx_runstall mx) (mipicause mx) (mirout_cache mx) (irq_state_cache mx) (ccon mx)
     (out_irq mx) (out_runstall mx).
Definition set_mipipart (v : Z) (mx : XtensaMxPic) : XtensaMxPic :=
  mkMxPic (n_cpu mx) (n_irq mx) (ext_irq_state mx) (mieng mx) (miasg mx) (mirout mx) v
     (mx_runstall mx) (mipicause mx) (mirout_cache mx) (irq_state_cache mx) (ccon mx)
     (out_irq mx) (out_runstall mx).
Definition set_mx_runstall (v : Z) (mx : XtensaMxPic) : XtensaMxPic :=
  mkMxPic (n_cpu mx) (n_irq mx) (ext_irq_state mx) (mieng mx) (miasg mx) (mirout mx)
     (mipipart mx) v (mipicause mx) (mirout_cache mx) (irq_state_cache mx) (ccon mx)
     (out_irq mx) (out_runstall mx).
Definition set_mipicause (v : Z -> Z) (mx : XtensaMxPic) : XtensaMxPic :=
  mkMxPic (n_cpu mx) (n_irq mx) (ext_irq_state mx) (mieng mx) (miasg mx) (mirout mx)
     (mipipart mx) (mx_runstall mx) v (mirout_cache mx) (irq_state_cache mx) (ccon mx)
     (out_irq mx) (out_runstall mx).
Definition set_mirout_cache (v : Z -> Z) (mx : XtensaMxPic) : XtensaMxPic :=
  mkMxPic (n_cpu mx) (n_irq mx) (ext_irq_state mx) (mieng mx) (miasg mx) (mirout mx)
     (mipipart mx) (mx_runstall mx) (mipicause mx) v (irq_state_cache mx) (ccon mx)
     (out_irq mx) (out_runstall mx).
Definition set_irq_state_cache (v : Z -> Z) (mx : XtensaMxPic) : XtensaMxPic :=
  mkMxPic (n_cpu mx) (n_irq mx) (ext_irq_state mx) (mieng mx) (miasg mx) (mirout mx)
     (mipipart mx) (mx_runstall mx) (mipicause mx) (mirout_cache mx) v (ccon mx) (out_irq mx)
     (out_runstall mx).
Definition set_ccon (v : Z -> Z) (mx : XtensaMxPic) : XtensaMxPic :=
  mkMxPic (n_cpu mx) (n_irq mx) (ext_irq_state mx) (mieng mx) (miasg mx) (mirout mx)
     (mipipart mx) (mx_runstall mx) (mipicause mx) (mirout_cache mx) (irq_state_cache mx) v
     (out_irq mx) (out_runstall mx).
Definition set_out_irq (v : Z -> Z -> bool) (mx : XtensaMxPic) : XtensaMxPic :=
  mkMxPic (n_cpu mx) (n_irq mx) (ext_irq_state mx) (mieng mx) (miasg mx) (mirout mx)
     (mipipart mx) (mx_runstall mx) (mipicause mx) (mirout_cache mx) (irq_state_cache mx)
     (ccon mx) v (out_runstall mx).
Definition set_out_runstall (v : Z -> bool) (mx : XtensaMxPic) : XtensaMxPic :=
  mkMxPic (n_cpu mx) (n_irq mx) (ext_irq_state mx) (mieng mx) (miasg mx) (mirout mx)
     (mipipart mx) (mx_runstall mx) (mipicause mx) (mirout_cache mx) (irq_state_cache mx)
     (ccon mx) (out_irq mx) v.

(** ** Operations *)

Definition xtensa_mx_pic_ext_reg_read (self offset : Z) (mx : XtensaMxPic) : Z :=
  if offset <? MIROUT + MX_MAX_IRQ then mirout mx (offset - MIROUT)
  else if (MIPICAUSE <=? offset) && (offset <? MIPICAUSE + MX_MAX_CPU)
  then mipicause mx (offset - MIPICAUSE)
  else if offset =? MIENG then mieng mx
  else if offset =? MIASG then miasg mx
  else if offset =? MIPIPART then mipipart mx
  else if offset =? SYSCFGID then lsl32 (n_cpu mx - 1) 18 ||| self
  else if offset =? MPSCORE then mx_runstall mx
  else if offset =? CCON then ccon mx self
  else 0.

Definition xtensa_mx_pic_get_ipi_for_cpu (mx : XtensaMxPic) (cpu : Z) : Z :=
  let cause := mipicause mx cpu in
  let part := mipipart mx in
  (lsl32 (cause &&& 1) (part &&& 3)
   ||| lsl32 (b2z (negb ((cause &&& 0x000e) =? 0))) ((part >>> 2) &&& 3)
   ||| lsl32 (b2z (negb ((cause &&& 0x00f0) =? 0))) ((part >>> 4) &&& 3)
   ||| lsl32 (b2z (negb ((cause &&& 0xff00) =? 0))) ((part >>> 6) &&& 3)) &&& 0x7.

Definition xtensa_mx_pic_get_ext_irq_for_cpu (mx : XtensaMxPic) (cpu : Z) : Z :=
  lsl32 (((ext_irq_state mx &&& mieng mx) ||| miasg mx) &&& mirout_cache mx cpu) 2
  ||| xtensa_mx_pic_get_ipi_for_cpu mx cpu.

(** The loop [for (i = 0; changed_irq; ++i)], on the lines of one CPU. *)
Fixpoint drive_changed (fuel : nat) (i changed irq : Z) (lines : Z -> bool) : Z -> bool :=
  if changed =? 0 then lines
  else match fuel with
       | O => lines
       | S fuel' =>
           let mask := lsl32 1 i in
           if truthy (changed &&& mask)
           then drive_changed fuel' (i + 1) (changed ^^^ mask) irq
                  (fupd lines i (truthy (irq &&& mask)))
           else drive_changed fuel' (i + 1) changed irq lines
       end.

Definition xtensa_mx_pic_update_cpu (cpu : Z) (mx : XtensaMxPic) : XtensaMxPic :=
  let irq := xtensa_mx_pic_get_ext_irq_for_cpu mx cpu in
  let changed_irq := irq_state_cache mx cpu ^^^ irq in
  let mx := set_irq_state_cache (fupd (irq_state_cache mx) cpu irq) mx in
  set_out_irq (fupd (out_irq mx) cpu (drive_changed 32 0 changed_irq irq (out_irq mx cpu))) mx.

Definition for_cpus (mx : XtensaMxPic) (body : Z -> XtensaMxPic -> XtensaMxPic) : XtensaMxPic :=
  foldl (fun m c => body c m) mx (seqZ 0 (n_cpu mx)).

Definition xtensa_mx_pic_update_all (mx : XtensaMxPic) : XtensaMxPic :=
  for_cpus mx xtensa_mx_pic_update_cpu.

Definition write_mirout (irq v : Z) (mx : XtensaMxPic) : XtensaMxPic :=
  let mx := set_mirout (fupd (mirout mx) irq v) mx in
  for_cpus mx (fun cpu mx =>
    let mask := lsl32 1 irq in
    if negb (Bool.eqb (negb (truthy (mirout_cache mx cpu &&& mask)))
                      (negb (truthy (v &&& lsl32 1 cpu))))
    then xtensa_mx_pic_update_cpu cpu
           (set_mirout_cache (fupd (mirout_cache mx) cpu (mirout_cache mx cpu ^^^ mask)) mx)
    else mx).

Definition write_mipiset (bit v : Z) (mx : XtensaMxPic) : XtensaMxPic :=
  for_cpus mx (fun cpu mx =>
    if truthy (v &&& lsl32 1 cpu)
    then xtensa_mx_pic_update_cpu cpu
           (set_mipicause (fupd (mipicause mx) cpu (mipicause mx cpu ||| lsl32 1 bit)) mx)
    else mx).

Definition drive_runstall (change v : Z) (mx : XtensaMxPic) : XtensaMxPic :=
  for_cpus mx (fun cpu mx =>
    if truthy (change &&& lsl32 1 cpu)
    then set_out_runstall (fupd (out_runstall mx) cpu (truthy (v &&& lsl32 1 cpu))) mx
    else mx).

(** The switch of the last branch: the changed bits and the new state. *)
Definition write_global (self offset v : Z) (mx : XtensaMxPic) : Z * XtensaMxPic :=
  if offset =? MIENG then (mieng mx &&& v, set_mieng (mieng mx &&& not32 v) mx)
  else if offset =? MIENGSET then (not32 (mieng mx) &&& v, set_mieng (mieng mx ||| v) mx)
  else if offset =? MIASG then (miasg mx &&& v, set_miasg (miasg mx &&& not32 v) mx)
  else if offset =? MIASGSET then (not32 (miasg mx) &&& v, set_miasg (miasg mx ||| v) mx)
  else if offset =? MIPIPART then (mipipart mx ^^^ v, set_mipipart v mx)
  else if offset =? MPSCORE then
    let change := mx_runstall mx ^^^ v in
    (change, drive_runstall change v (set_mx_runstall v mx))
  else if offset =? CCON then (0, set_ccon (fupd (ccon mx) self (v &&& 0x1)) mx)
  else (0, mx).

Definition xtensa_mx_pic_ext_reg_write (self offset v : Z) (mx : XtensaMxPic) : XtensaMxPic :=
  if offset <? MIROUT + n_irq mx then write_mirout (offset - MIROUT) v mx
  else if (MIPICAUSE <=? offset) && (offset <? MIPICAUSE + n_cpu mx) then
    let cpu := offset - MIPICAUSE in
    xtensa_mx_pic_update_cpu cpu
      (set_mipicause (fupd (mipicause mx) cpu (mipicause mx cpu &&& not32 v)) mx)
  else if (MIPISET <=? offset) && (offset <? MIPISET + 16) then
    write_mipiset (offset - MIPISET) v mx
  else
    let '(change, mx) := write_global self offset v mx in
    if truthy change then xtensa_mx_pic_update_all mx else mx.

Definition xtensa_mx_pic_set_irq (irq active : Z) (mx : XtensaMxPic) : XtensaMxPic :=
  if irq <? n_irq mx then
    let old_irq_state := ext_irq_state mx in
    let mx := set_ext_irq_state
                (if truthy active then ext_irq_state mx ||| lsl32 1 irq
                 else ext_irq_state mx &&& not32 (lsl32 1 irq)) mx in
    if negb (old_irq_state =? ext_irq_state mx) then xtensa_mx_pic_update_all mx else mx
  else mx.

Definition xtensa_mx_pic_register_cpu (mx : XtensaMxPic) : XtensaMxPic :=
  set_n_cpu (n_cpu mx + 1) mx.

(** [calloc] and the number of inputs. *)
Definition xtensa_mx_pic_init (irqs : Z) : XtensaMxPic :=
  mkMxPic 0 (irqs + 1) 0 0 0 (fun _ => 0) 0 0 (fun _ => 0) (fun _ => 0) (fun _ => 0) (fun _ => 0)
    (fun _ _ => false) (fun _ => false).

Definition xtensa_mx_pic_reset (mx : XtensaMxPic) : XtensaMxPic :=
  let eng := if n_irq mx <? 32 then lsl32 1 (n_irq mx) - 1 else 0xffffffff in
  let each (f g : Z -> Z) i := if (0 <=? i) && (i <? n_cpu mx) then f i else g i in
  mkMxPic (n_cpu mx) (n_irq mx) 0 eng 0
    (fun i => if (0 <=? i) && (i <? n_irq mx) then 0 else mirout mx i) 0
    (u32 (lsl32 1 (n_cpu mx) - 2))
    (each (fun _ => 0) (mipicause mx))
    (each (fun i => if truthy i then 0 else eng) (mirout_cache mx))
    (each (fun _ => 0) (irq_state_cache mx))
    (each (fun _ => 0) (ccon mx))
    (out_irq mx)
    (fun i => if (0 <=? i) && (i <? n_cpu mx) then 0 <? i else out_runstall mx i).

(** ** Invariant *)

Abbreviation comb := xtensa_mx_pic_get_ext_irq_for_cpu (only parsing).

(** The lines of a CPU show the cached word. *)
Definition lines_ok (mx : XtensaMxPic) (cpu : Z) : Prop :=
  in32 (irq_state_cache mx cpu) /\
  forall j, 0 <= j < 32 -> out_irq mx cpu j = Z.testbit (irq_state_cache mx cpu) j.

(** Every CPU's lines show the combinational function of the registers. *)
Definition mx_inv (mx : XtensaMxPic) : Prop :=
  forall cpu, 0 <= cpu < n_cpu mx ->
    lines_ok mx cpu /\ irq_state_cache mx cpu = comb mx cpu.

Lemma comb_in32 mx cpu : in32 (comb mx cpu).
Proof.
  unfold xtensa_mx_pic_get_ext_irq_for_cpu, xtensa_mx_pic_get_ipi_for_cpu.
  apply in32_lor; [apply in32_lsl32|]. apply in32_land. unfold in32. lia.
Qed.

Lemma drive_changed_spec fuel i changed irq lines j :
  0 <= i -> i + Z.of_nat fuel <= 32 -> 0 <= changed ->
  (forall k, 0 <= k < i \/ i + Z.of_nat fuel <= k -> Z.testbit changed k = false) -> 0 <= j ->
  drive_changed fuel i changed irq lines j =
    if Z.testbit changed j then Z.testbit irq j else lines j.
Proof.
  revert i changed lines. induction fuel as [|fuel IH]; intros i changed lines Hi Hf Hc Hz Hj.
  - simpl. assert (changed = 0) as ->; [|by rewrite Z.testbit_0_l].
    apply Z.bits_inj'. intros k Hk. rewrite Z.testbit_0_l. apply Hz. lia.
  - simpl. destruct (Z.eqb_spec changed 0) as [->|Hne]; [by rewrite Z.testbit_0_l|].
    rewrite !truthy_land_bit by lia. destruct (Z.testbit changed i) eqn:Eb.
    + rewrite IH.
      * rewrite Z.lxor_spec, lsl32_1, pow2_testbit by lia. unfold fupd.
        destruct (Z.eqb_spec j i) as [->|]; [by rewrite Eb|]. by rewrite xorb_false_r.
      * lia.
      * lia.
      * apply Z.lxor_nonneg. pose proof (in32_lsl32 1 i). unfold in32 in *. lia.
      * intros k Hk. rewrite Z.lxor_spec, lsl32_1, pow2_testbit by lia.
        destruct (Z.eqb_spec k i) as [->|]; [by rewrite Eb|]. rewrite xorb_false_r. apply Hz. lia.
      * done.
    + apply IH; try done; [lia|lia|]. intros k Hk.
      destruct (decide (k = i)) as [->|]; [done|]. apply Hz. lia.
Qed.

#[global] Arguments drive_changed : simpl never.

(** The fields [update_cpu] leaves alone. *)
Definition same_regs (mx mx' : XtensaMxPic) : Prop :=
  n_cpu mx' = n_cpu mx /\ n_irq mx' = n_irq mx /\ ext_irq_state mx' = ext_irq_state mx /\
  mieng mx' = mieng mx /\ miasg mx' = miasg mx /\ mirout mx' = mirout mx /\
  mipipart mx' = mipipart mx /\ mx_runstall mx' = mx_runstall mx /\
  mipicause mx' = mipicause mx /\ mirout_cache mx' = mirout_cache mx /\ ccon mx' = ccon mx.

Lemma comb_same_regs mx mx' cpu : same_regs mx mx' -> comb mx' cpu = comb mx cpu.
Proof.
  intros (_ & _ & E1 & E2 & E3 & _ & E4 & _ & E5 & E6 & _).
  unfold xtensa_mx_pic_get_ext_irq_for_cpu, xtensa_mx_pic_get_ipi_for_cpu.
  by rewrite E1, E2, E3, E4, E5, E6.
Qed.

Lemma update_cpu_spec cpu mx :
  lines_ok mx cpu ->
  let mx' := xtensa_mx_pic_update_cpu cpu mx in
  same_regs mx mx' /\ lines_ok mx' cpu /\ irq_state_cache mx' cpu = comb mx cpu /\
  forall c, c <> cpu -> irq_state_cache mx' c = irq_state_cache mx c /\ out_irq mx' c = out_irq mx c.
Proof.
  intros [Hc Hl] mx'. split; [done|]. unfold mx', xtensa_mx_pic_update_cpu. simpl.
  pose proof (comb_in32 mx cpu) as Hcomb. split; [|split].
  - unfold lines_ok. simpl. rewrite !fupd_eq. split; [done|]. intros j Hj.
    pose proof (in32_lxor _ _ Hc Hcomb) as Hx.
    rewrite drive_changed_spec; [|lia|lia|apply Hx| |lia].
    + rewrite Z.lxor_spec, Hl by done.
      by destruct (Z.testbit (irq_state_cache mx cpu) j), (Z.testbit (comb mx cpu) j).
    + intros k Hk. apply in32_testbit; [done|lia].
  - apply fupd_eq.
  - intros c Hne. by rewrite !fupd_ne.
Qed.

(** Updating a CPU whose registers changed restores the invariant. *)
Lemma update_restores cpu mx mx1 :
  mx_inv mx -> 0 <= cpu < n_cpu mx ->
  n_cpu mx1 = n_cpu mx -> irq_state_cache mx1 = irq_state_cache mx -> out_irq mx1 = out_irq mx ->
  (forall c, c <> cpu -> comb mx1 c = comb mx c) ->
  mx_inv (xtensa_mx_pic_update_cpu cpu mx1).
Proof.
  intros Hinv Hcpu Hn Hcache Hout Hcomb.
  assert (Hlo : forall c, 0 <= c < n_cpu mx -> lines_ok mx1 c).
  { intros c Hc. destruct (Hinv c Hc) as [[H1 H2] _]. unfold lines_ok. by rewrite Hcache, Hout. }
  destruct (update_cpu_spec cpu mx1 (Hlo cpu Hcpu)) as (Hs & Hok & Hc & Hoth).
  assert (Hn' : n_cpu (xtensa_mx_pic_update_cpu cpu mx1) = n_cpu mx) by done.
  intros c Hr. rewrite Hn' in Hr. rewrite (comb_same_regs mx1) by done.
  destruct (decide (c = cpu)) as [->|Hne]; [done|].
  destruct (Hoth c Hne) as [E1 E2]. split.
  - unfold lines_ok. rewrite E1, E2. by apply Hlo.
  - rewrite E1, Hcache, Hcomb by done. by apply Hinv.
Qed.

Lemma for_cpus_inv (I : Z -> XtensaMxPic -> Prop) mx body :
  0 <= n_cpu mx -> I 0 mx ->
  (forall c m, 0 <= c < n_cpu mx -> I c m -> I (c + 1) (body c m)) ->
  I (n_cpu mx) (for_cpus mx body).
Proof.
  intros Hn H0 Hs. unfold for_cpus.
  assert (Hg : forall (k : nat) lo m, 0 <= lo -> lo + Z.of_nat k = n_cpu mx -> I lo m ->
            I (n_cpu mx) (foldl (fun m c => body c m) m (seqZ lo (Z.of_nat k)))).
  { induction k as [|k IH]; intros lo m Hlo Hk Hm.
    - rewrite seqZ_nil by lia. simpl. by replace (n_cpu mx) with lo by lia.
    - rewrite seqZ_cons by lia. simpl. rewrite <- Z.add_1_r.
      replace (Z.pred (Z.of_nat (S k))) with (Z.of_nat k) by lia.
      apply IH; [lia|lia|]. apply Hs; [lia|done]. }
  specialize (Hg (Z.to_nat (n_cpu mx)) 0 mx). rewrite Z2Nat.id in Hg by done.
  apply Hg; [lia|lia|done].
Qed.

(** [update_all] establishes the invariant from consistent lines. *)
Lemma update_all_inv mx :
  0 <= n_cpu mx -> (forall c, 0 <= c < n_cpu mx -> lines_ok mx c) ->
  mx_inv (xtensa_mx_pic_update_all mx) /\ same_regs mx (xtensa_mx_pic_update_all mx).
Proof.
  intros Hn Hl. unfold xtensa_mx_pic_update_all.
  pose proof (for_cpus_inv (fun k m => same_regs mx m /\
    forall c, 0 <= c < n_cpu mx -> lines_ok m c /\ (c < k -> irq_state_cache m c = comb mx c))
    mx xtensa_mx_pic_update_cpu Hn) as Hinv. cbv beta in Hinv.
  destruct Hinv as [Hs Hc].
  - split; [by repeat split|]. intros c Hc. split; [by apply Hl|]. lia.
  - intros c m Hc [Hs Hi]. destruct (Hi c Hc) as [Hok _].
    destruct (update_cpu_spec c m Hok) as (Hs' & Hok' & Hcache & Hoth).
    split. { unfold same_regs in *. intuition congruence. }
    intros c' Hc'. destruct (decide (c' = c)) as [->|Hne].
    + split; [done|]. intros _. rewrite Hcache. by apply comb_same_regs.
    + destruct (Hoth c' Hne) as [E1 E2]. destruct (Hi c' Hc') as [Hok'' Hcc].
      unfold lines_ok. rewrite E1, E2. split; [done|]. intros. apply Hcc. lia.
  - split; [|done]. intros c Hr. destruct Hs as [Hn' Hrest]. rewrite Hn' in Hr.
    destruct (Hc c Hr) as [Hok Hcache]. split; [done|]. rewrite Hcache by lia.
    symmetry. apply comb_same_regs. by split.
Qed.

Section ops.
Context (mx : XtensaMxPic).
Hypothesis Hn : 0 <= n_cpu mx <= MX_MAX_CPU.
Hypothesis Hinv : mx_inv mx.

Lemma inv_lines c : 0 <= c < n_cpu mx -> lines_ok mx c.
Proof. intros Hc. by apply Hinv. Qed.

Lemma mirout_toggle_comb (m : XtensaMxPic) cpu x c :
  c <> cpu ->
  comb (set_mirout_cache (fupd (mirout_cache m) cpu x) m) c = comb m c.
Proof.
  intros Hne. unfold xtensa_mx_pic_get_ext_irq_for_cpu. simpl. by rewrite fupd_ne.
Qed.

Lemma mipicause_comb (m : XtensaMxPic) cpu x c :
  c <> cpu -> comb (set_mipicause (fupd (mipicause m) cpu x) m) c = comb m c.
Proof.
  intros Hne. unfold xtensa_mx_pic_get_ext_irq_for_cpu, xtensa_mx_pic_get_ipi_for_cpu. simpl.
  by rewrite fupd_ne.
Qed.

(** Writing MIROUT keeps the invariant and makes column [irq] of the routing
    caches agree with the written word. *)
Lemma write_mirout_spec irq v :
  0 <= irq < 32 ->
  let mx' := write_mirout irq v mx in
  mx_inv mx' /\ n_cpu mx' = n_cpu mx /\ mirout mx' = fupd (mirout mx) irq v /\
  (forall c i, 0 <= c < n_cpu mx -> 0 <= i ->
     Z.testbit (mirout_cache mx' c) i =
       if i =? irq then Z.testbit v c else Z.testbit (mirout_cache mx c) i).
Proof.
  intros Hirq mx'.
  pose proof (for_cpus_inv (fun k m => mx_inv m /\ n_cpu m = n_cpu mx /\
      mirout m = fupd (mirout mx) irq v /\
      (forall c i, 0 <= c < n_cpu mx -> 0 <= i ->
         Z.testbit (mirout_cache m c) i =
           if (i =? irq) && (c <? k) then Z.testbit v c else Z.testbit (mirout_cache mx c) i))
    (set_mirout (fupd (mirout mx) irq v) mx)) as Hloop.
  cbv beta in Hloop. unfold mx', write_mirout. cbv zeta.
  match goal with |- context [for_cpus _ ?b] => set (body := b); specialize (Hloop body) end.
  change (n_cpu (set_mirout (fupd (mirout mx) irq v) mx)) with (n_cpu mx) in Hloop.
  destruct Hloop as (H1 & H2 & H3 & H4).
  - lia.
  - split; [exact Hinv|]. split; [done|]. split; [done|]. intros c i Hc Hi.
    rewrite (proj2 (Z.ltb_ge c 0)) by lia. by rewrite andb_false_r.
  - intros c m Hc (Im & Nm & Mm & Bm). unfold body.
    rewrite !truthy_land_bit by lia.
    set (diff := negb (Bool.eqb _ _)).
    assert (Hbit : Z.testbit (mirout_cache m c) irq = Z.testbit (mirout_cache mx c) irq).
    { rewrite Bm by lia. rewrite Z.eqb_refl, (proj2 (Z.ltb_ge c c)) by lia. done. }
    assert (Hd : diff = xorb (Z.testbit (mirout_cache m c) irq) (Z.testbit v c))
      by (unfold diff; by destruct (Z.testbit (mirout_cache m c) irq), (Z.testbit v c)).
    assert (Hother : forall c' i, 0 <= c' < n_cpu mx -> 0 <= i -> c' <> c ->
        Z.testbit (mirout_cache m c') i =
          if (i =? irq) && (c' <? c + 1) then Z.testbit v c' else Z.testbit (mirout_cache mx c') i).
    { intros c' i Hc' Hi Hne. rewrite Bm by done.
      by replace (c' <? c + 1) with (c' <? c) by (cmp_split; done || lia). }
    destruct diff eqn:Ed.
    + split; [|split; [done|split; [done|]]].
      * apply (update_restores c m); try done; [lia|]. intros c' Hne. by apply mirout_toggle_comb.
      * intros c' i Hc' Hi. change (mirout_cache (xtensa_mx_pic_update_cpu c ?x)) with (mirout_cache x).
        simpl. unfold fupd. destruct (Z.eqb_spec c' c) as [->|Hne]; [|by apply Hother].
        rewrite Z.lxor_spec, lsl32_1, pow2_testbit, (proj2 (Z.ltb_lt c (c + 1))) by lia.
        destruct (Z.eqb_spec i irq) as [->|]; simpl.
        -- by destruct (Z.testbit (mirout_cache m c) irq), (Z.testbit v c).
        -- rewrite xorb_false_r, Bm by lia. by rewrite (proj2 (Z.eqb_neq i irq)).
    + split; [done|split; [done|split; [done|]]]. intros c' i Hc' Hi.
      destruct (decide (c' = c)) as [->|Hne]; [|by apply Hother].
      rewrite (proj2 (Z.ltb_lt c (c + 1))) by lia.
      destruct (Z.eqb_spec i irq) as [->|]; simpl.
      * by destruct (Z.testbit (mirout_cache m c) irq), (Z.testbit v c).
      * rewrite Bm by lia. by rewrite (proj2 (Z.eqb_neq i irq)).
  - split; [done|]. split; [done|]. split; [done|]. intros c i Hc Hi. rewrite H4 by done.
    by rewrite (proj2 (Z.ltb_lt _ _)), andb_true_r by lia.
Qed.

Lemma write_mipiset_inv bit v : mx_inv (write_mipiset bit v mx).
Proof.
  pose proof (for_cpus_inv (fun _ m => mx_inv m /\ n_cpu m = n_cpu mx) mx) as Hloop.
  unfold write_mipiset. match goal with |- context [for_cpus _ ?b] => specialize (Hloop b) end.
  cbv beta in Hloop. apply Hloop; [lia|done|]. intros c m Hc [Im Nm].
  destruct (truthy _); [|done]. split; [|done].
  apply (update_restores c m); try done; [lia|]. intros c' Hne. by apply mipicause_comb.
Qed.

Lemma write_mipicause_inv cpu v :
  0 <= cpu < n_cpu mx ->
  mx_inv (xtensa_mx_pic_update_cpu cpu
    (set_mipicause (fupd (mipicause mx) cpu (mipicause mx cpu &&& not32 v)) mx)).
Proof.
  intros Hc. apply (update_restores cpu mx); try done. intros c Hne. by apply mipicause_comb.
Qed.

(** A global register write that leaves the gating word and MIPIPART alone, or
    is followed by an update of all CPUs. *)
Lemma global_write_inv (mx' : XtensaMxPic) change :
  n_cpu mx' = n_cpu mx -> irq_state_cache mx' = irq_state_cache mx -> out_irq mx' = out_irq mx ->
  (change = 0 -> forall c, comb mx' c = comb mx c) ->
  mx_inv (if truthy change then xtensa_mx_pic_update_all mx' else mx').
Proof.
  intros Hnc Hc Ho Hcomb. destruct (truthy change) eqn:E; bprop.
  - apply update_all_inv; [lia|]. intros c Hr. rewrite Hnc in Hr.
    destruct (inv_lines c Hr). unfold lines_ok. by rewrite Hc, Ho.
  - intros c Hr. rewrite Hnc in Hr. destruct (Hinv c Hr) as [[H1 H2] H3].
    unfold lines_ok. rewrite Hc, Ho, Hcomb by done. done.
Qed.

End ops.

Lemma drive_runstall_frame change v mx :
  0 <= n_cpu mx ->
  let mx' := drive_runstall change v mx in
  same_regs mx mx' /\ irq_state_cache mx' = irq_state_cache mx /\ out_irq mx' = out_irq mx.
Proof.
  intros Hn mx'. unfold mx', drive_runstall.
  match goal with |- context [for_cpus _ ?b] =>
    apply (for_cpus_inv (fun _ m => same_regs mx m /\ irq_state_cache m = irq_state_cache mx /\
             out_irq m = out_irq mx) mx b Hn) end.
  - by repeat split.
  - intros c m Hc H. destruct (truthy _); [|done]. unfold same_regs in *. by destruct_and!.
Qed.

(** ** Reachable states *)

Inductive mx_op :=
| MxWrite (self offset v : Z)
| MxSetIrq (irq active : Z).

Definition mx_step (mx : XtensaMxPic) (op : mx_op) : XtensaMxPic :=
  match op with
  | MxWrite self offset v => xtensa_mx_pic_ext_reg_write self offset v mx
  | MxSetIrq irq active => xtensa_mx_pic_set_irq irq active mx
  end.

(** Bus accesses are 32 bits wide; interrupt inputs exist. *)
Definition mx_op_ok (op : mx_op) : Prop :=
  match op with
  | MxWrite _ offset v => 0 <= offset /\ in32 v
  | MxSetIrq irq _ => 0 <= irq
  end.

Record mx_wf (mx : XtensaMxPic) : Prop := {
  wf_n_cpu : 0 <= n_cpu mx <= MX_MAX_CPU;
  wf_n_irq : 0 <= n_irq mx <= MX_MAX_IRQ;
  wf_ext : in32 (ext_irq_state mx);
  wf_mieng : in32 (mieng mx);
  wf_miasg : in32 (miasg mx);
  wf_inv : mx_inv mx;
}.

Lemma andnot_id a v : in32 a -> a &&& v = 0 -> a &&& not32 v = a.
Proof.
  intros Ha E. zbits. pose proof (proj1 (land_zero_iff _ _) E i Hi) as Hz.
  destruct (Z.ltb_spec i 32); simpl.
  - destruct (Z.testbit a i), (Z.testbit v i); done.
  - by rewrite (in32_testbit a i).
Qed.

Lemma ornot_id a v : in32 v -> not32 a &&& v = 0 -> a ||| v = a.
Proof.
  intros Hv E. zbits. pose proof (proj1 (land_zero_iff _ _) E i Hi) as Hz.
  rewrite not32_testbit in Hz by done. destruct (Z.ltb_spec i 32).
  - destruct (Z.testbit a i), (Z.testbit v i); done.
  - rewrite (in32_testbit v i) by done. apply orb_false_r.
Qed.

(** The fields no interrupt update touches. *)
Definition same_gates (mx mx' : XtensaMxPic) : Prop :=
  n_cpu mx' = n_cpu mx /\ n_irq mx' = n_irq mx /\ ext_irq_state mx' = ext_irq_state mx /\
  mieng mx' = mieng mx /\ miasg mx' = miasg mx.

#[global] Instance same_gates_preorder : PreOrder same_gates.
Proof.
  split; [by intros mx|]. intros a b c (E1 & E2 & E3 & E4 & E5) (F1 & F2 & F3 & F4 & F5).
  unfold same_gates. rewrite F1, F2, F3, F4, F5. done.
Qed.

Lemma for_cpus_gates mx body :
  (forall c m, same_gates m (body c m)) -> same_gates mx (for_cpus mx body).
Proof.
  intros Hb. unfold for_cpus. generalize (seqZ 0 (n_cpu mx)). intros l. revert mx.
  induction l as [|c l IH]; intros mx; simpl; [reflexivity|]. etransitivity; [apply Hb|apply IH].
Qed.

Lemma write_mirout_gates irq v mx : same_gates mx (write_mirout irq v mx).
Proof.
  unfold write_mirout. etransitivity; [|apply for_cpus_gates]; [done|].
  intros c m. by destruct (negb _).
Qed.

Lemma write_mipiset_gates bit v mx : same_gates mx (write_mipiset bit v mx).
Proof. apply for_cpus_gates. intros c m. by destruct (truthy _). Qed.

Lemma update_all_gates mx : same_gates mx (xtensa_mx_pic_update_all mx).
Proof. by apply for_cpus_gates. Qed.

Lemma drive_runstall_gates change v mx : same_gates mx (drive_runstall change v mx).
Proof. apply for_cpus_gates. intros c m. by destruct (truthy _). Qed.

Lemma wf_gates mx mx' : mx_wf mx -> same_gates mx mx' -> mx_inv mx' -> mx_wf mx'.
Proof. intros [] (E1 & E2 & E3 & E4 & E5) Hi. split; congruence || done. Qed.

(** The registers and lines after the last switch, whichever case it takes. *)
Record global_ok (mx mx' : XtensaMxPic) (change : Z) : Prop := {
  gl_n_cpu : n_cpu mx' = n_cpu mx;
  gl_n_irq : n_irq mx' = n_irq mx;
  gl_ext : in32 (ext_irq_state mx');
  gl_mieng : in32 (mieng mx');
  gl_miasg : in32 (miasg mx');
  gl_cache : irq_state_cache mx' = irq_state_cache mx;
  gl_out : out_irq mx' = out_irq mx;
  gl_comb : change = 0 -> forall c, comb mx' c = comb mx c;
}.

Lemma comb_gates mx mx' c :
  ext_irq_state mx' = ext_irq_state mx -> mieng mx' = mieng mx -> miasg mx' = miasg mx ->
  mipipart mx' = mipipart mx -> mipicause mx' = mipicause mx -> mirout_cache mx' = mirout_cache mx ->
  comb mx' c = comb mx c.
Proof.
  intros E1 E2 E3 E4 E5 E6.
  unfold xtensa_mx_pic_get_ext_irq_for_cpu, xtensa_mx_pic_get_ipi_for_cpu.
  by rewrite E1, E2, E3, E4, E5, E6.
Qed.

Lemma write_global_spec self offset v mx :
  mx_wf mx -> in32 v ->
  global_ok mx (write_global self offset v mx).2 (write_global self offset v mx).1.
Proof.
  intros [Hnc Hni He Hg Ha Hi] Hv. unfold write_global.
  destruct (offset =? MIENG).
  { split; simpl; eauto with mach. intros E c. apply comb_gates; try done. by apply andnot_id. }
  destruct (offset =? MIENGSET).
  { split; simpl; eauto with mach. intros E c. apply comb_gates; try done. by apply ornot_id. }
  destruct (offset =? MIASG).
  { split; simpl; eauto with mach. intros E c. apply comb_gates; try done. by apply andnot_id. }
  destruct (offset =? MIASGSET).
  { split; simpl; eauto with mach. intros E c. apply comb_gates; try done. by apply ornot_id. }
  destruct (offset =? MIPIPART).
  { split; simpl; eauto with mach. intros E c. apply comb_gates; try done. by apply Z.lxor_eq in E. }
  destruct (offset =? MPSCORE); [|destruct (offset =? CCON); by split].
  simpl. destruct (drive_runstall_frame (mx_runstall mx ^^^ v) v (set_mx_runstall v mx))
    as (Hs & Hc & Ho); [simpl; lia|].
  pose proof (fun c => comb_same_regs _ _ c Hs) as Hcs.
  destruct Hs as (E1 & E2 & E3 & E4 & E5 & _). 
  split; rewrite ?E1, ?E2, ?E3, ?E4, ?E5; done.
Qed.

Lemma global_ok_wf mx mx' change :
  mx_wf mx -> global_ok mx mx' change ->
  mx_wf (if truthy change then xtensa_mx_pic_update_all mx' else mx').
Proof.
  intros [Hnc Hni He Hg Ha Hi] G. pose proof G as [E1 E2 ? ? ? E6 E7 Hcomb].
  pose proof (global_write_inv mx Hnc Hi mx' change E1 E6 E7 Hcomb) as Hinv.
  assert (Hgate : same_gates mx' (if truthy change then xtensa_mx_pic_update_all mx' else mx')).
  { destruct (truthy change); [apply update_all_gates|reflexivity]. }
  destruct Hgate as (F1 & F2 & F3 & F4 & F5). split; try done; congruence.
Qed.

Lemma set_irq_global irq active mx :
  mx_wf mx -> 0 <= irq ->
  let e := if truthy active then ext_irq_state mx ||| lsl32 1 irq
           else ext_irq_state mx &&& not32 (lsl32 1 irq) in
  global_ok mx (set_ext_irq_state e mx) (b2z (negb (ext_irq_state mx =? e))).
Proof.
  intros [Hnc Hni He Hg Ha Hi] Hirq e. split; try done.
  - simpl. unfold e. destruct (truthy active); eauto with mach.
  - intros E c. apply comb_gates; try done. simpl.
    destruct (Z.eqb_spec (ext_irq_state mx) e); done.
Qed.

(** The state the reset leaves is well formed when the lines were low. *)
Lemma reset_wf mx :
  0 <= n_cpu mx <= MX_MAX_CPU -> 0 <= n_irq mx <= MX_MAX_IRQ ->
  (forall c j, out_irq mx c j = false) -> mx_wf (xtensa_mx_pic_reset mx).
Proof.
  intros Hnc Hni Hlow. split; try done; simpl; try (unfold in32; lia).
  - destruct (Z.ltb_spec (n_irq mx) 32); [|unfold in32; lia].
    rewrite lsl32_1 by lia. pose proof (Z.pow_lt_mono_r 2 (n_irq mx) 32).
    pose proof (Z.pow_pos_nonneg 2 (n_irq mx)). unfold in32. lia.
  - intros c Hc. simpl in Hc. unfold lines_ok. simpl.
    rewrite (proj2 (Z.leb_le 0 c)), (proj2 (Z.ltb_lt c (n_cpu mx))) by lia. simpl.
    split; [split; [unfold in32; lia|]|].
    + intros j Hj. by rewrite Hlow, Z.testbit_0_l.
    + unfold xtensa_mx_pic_get_ext_irq_for_cpu, xtensa_mx_pic_get_ipi_for_cpu. simpl.
      rewrite (proj2 (Z.leb_le 0 c)), (proj2 (Z.ltb_lt c (n_cpu mx))) by lia. done.
Qed.

(** ** Claims *)

(** C34: From any well-formed state every register write and every change of an
    external input leaves the distributor consistent: each CPU's cached word
    is the combinational function of the registers (routing, gating and
    grouping), and each of its 32 output lines shows the bit of that word. *)
Theorem mx_step_consistent (mx : XtensaMxPic) (op : mx_op) :
  mx_wf mx -> mx_op_ok op -> mx_wf (mx_step mx op).
Proof.
  intros Hwf Hop. pose proof Hwf as [Hnc Hni He Hg Ha Hi]. destruct op as [self offset v|irq active].
  - destruct Hop as [Hoff Hv]. simpl. unfold xtensa_mx_pic_ext_reg_write.
    destruct (Z.ltb_spec offset (MIROUT + n_irq mx)).
    { apply (wf_gates mx); [done|apply write_mirout_gates|]. apply write_mirout_spec; [lia|done|lia]. }
    destruct ((MIPICAUSE <=? offset) && (offset <? MIPICAUSE + n_cpu mx)) eqn:E1; bprop.
    { apply (wf_gates mx); [done|done|]. apply write_mipicause_inv; [done|lia]. }
    destruct ((MIPISET <=? offset) && (offset <? MIPISET + 16)); bprop.
    { apply (wf_gates mx); [done|apply write_mipiset_gates|by apply write_mipiset_inv]. }
    pose proof (write_global_spec self offset v mx Hwf Hv) as G.
    destruct (write_global self offset v mx) as [change mx']. by apply (global_ok_wf mx).
  - simpl. unfold xtensa_mx_pic_set_irq. destruct (irq <? n_irq mx); [|done].
    pose proof (global_ok_wf mx _ _ Hwf (set_irq_global irq active mx Hwf Hop)) as W.
    cbv zeta in *. simpl. destruct (negb _); exact W.
Qed.

(** After MIROUT of interrupt [irq] is written with [v], line [irq + 2] of
    CPU [c] is high exactly when the interrupt is active and enabled (or
    software-asserted) and bit [c] of [v] selects that CPU, and the register
    reads back. *)
Theorem mx_mirout_routing (mx : XtensaMxPic) (self irq v c : Z) :
  mx_wf mx -> in32 v -> 1 <= irq < n_irq mx -> irq < 30 -> 0 <= c < n_cpu mx ->
  let mx' := xtensa_mx_pic_ext_reg_write self irq v mx in
  out_irq mx' c (irq + 2) =
    (Z.testbit (ext_irq_state mx) irq && Z.testbit (mieng mx) irq || Z.testbit (miasg mx) irq)
      && Z.testbit v c
  /\ xtensa_mx_pic_ext_reg_read self irq mx' = v.
Proof.
  intros [Hnc Hni He Hg Ha Hi] Hv Hirq H30 Hc mx'.
  assert (Hw : mx' = write_mirout irq v mx).
  { unfold mx', xtensa_mx_pic_ext_reg_write.
    rewrite (proj2 (Z.ltb_lt _ _)) by lia. by rewrite Z.sub_0_r. }
  clearbody mx'. subst mx'.
  destruct (write_mirout_spec mx Hnc Hi irq v) as (Hinv & Hn & Hm & Hb); [lia|].
  destruct (write_mirout_gates irq v mx) as (_ & _ & Ge & Gg & Ga).
  split.
  - destruct (Hinv c) as [[_ Hl] Hcomb]; [lia|]. rewrite Hl, Hcomb by lia.
    unfold xtensa_mx_pic_get_ext_irq_for_cpu, xtensa_mx_pic_get_ipi_for_cpu.
    rewrite Z.lor_spec, lsl32_testbit, (Z.land_spec _ 0x7), (Z.bits_above_log2 0x7) by (simpl; lia).
    replace (irq + 2 - 2) with irq by lia.
    rewrite andb_false_r, orb_false_r.
    rewrite Z.land_spec, Z.lor_spec, Z.land_spec, Ge, Gg, Ga, Hb by lia.
    rewrite Z.eqb_refl. cmp_split; try lia. done.
  - unfold xtensa_mx_pic_ext_reg_read. rewrite (proj2 (Z.ltb_lt _ _)) by lia.
    rewrite Hm, Z.sub_0_r. apply fupd_eq.
Qed.

(** Reset leaves the cached words consistent when every output line was
    low, and every CPU but the first is held in run-stall. *)
Theorem mx_reset_consistent (mx : XtensaMxPic) :
  0 <= n_cpu mx <= MX_MAX_CPU -> 0 <= n_irq mx <= MX_MAX_IRQ ->
  (forall c j, out_irq mx c j = false) ->
  let mx' := xtensa_mx_pic_reset mx in
  mx_wf mx' /\ (forall c, 0 <= c < n_cpu mx -> out_runstall mx' c = (0 <? c)).
Proof.
  intros Hnc Hni Hlow mx'. split; [by apply reset_wf|].
  intros c Hc. simpl. by rewrite (proj2 (Z.leb_le 0 c)), (proj2 (Z.ltb_lt c (n_cpu mx))) by lia.
Qed.

(** ** Witnesses *)

(** A two-core distributor with eight external inputs, after reset. *)
Definition mx_example : XtensaMxPic :=
  xtensa_mx_pic_reset
    (xtensa_mx_pic_register_cpu (xtensa_mx_pic_register_cpu (xtensa_mx_pic_init 8))).

Lemma mx_reset_consistent_witness : mx_wf mx_example /\ out_runstall mx_example 1 = true.
Proof.
  destruct (mx_reset_consistent
    (xtensa_mx_pic_register_cpu (xtensa_mx_pic_register_cpu (xtensa_mx_pic_init 8))))
    as [H1 H2]; [simpl; lia|simpl; lia|done|].
  split; [exact H1|]. apply (H2 1). simpl. lia.
Defined.

Lemma mx_example_wf : mx_wf mx_example.
Proof. apply reset_wf; [simpl; lia|simpl; lia|done]. Qed.

Lemma mx_step_consistent_witness :
  mx_wf (mx_step (mx_step mx_example (MxSetIrq 3 1)) (MxWrite 0 3 2)) /\
  out_irq (mx_step (mx_step mx_example (MxSetIrq 3 1)) (MxWrite 0 3 2)) 1 5 = true.
Proof.
  split; [|vm_compute; reflexivity].
  apply mx_step_consistent; [apply mx_step_consistent; [apply mx_example_wf|simpl; lia]|].
  simpl. unfold in32. lia.
Defined.

Lemma mx_mirout_routing_witness :
  out_irq (xtensa_mx_pic_ext_reg_write 0 3 2 mx_example) 1 5 = false.
Proof.
  destruct (mx_mirout_routing mx_example 0 3 2 1 mx_example_wf) as [H _];
    [unfold in32; lia|simpl; lia|lia|simpl; lia|]. exact H.
Defined.
