(* ===== verification/Isa.v ===== *)
(** * ISA library: data and queries ([target/xtensa/xtensa-isa.c])

    The tables of an Xtensa ISA module, the error state of the library
    ([xtisa_errno], [xtisa_error_msg]) and every query of the C interface.  An
    array and its count ([num_formats], [formats]) are one list, whose length
    is the count; a function pointer is a Rocq function, an optional one an
    [option]; an instruction buffer is its list of 32-bit words.  A query
    returns its value and the new error state; the [CHECK_*] macros, which
    return early, take the rest of the function as an argument. *)

From Stdlib Require Import Ascii.
From S2P Require Import Prelude.

#[local] Open Scope mach_scope.

(** ** Data of [xtensa-isa.h] and [xtensa-isa-internal.h] *)

Inductive xtensa_isa_status :=
| xtensa_isa_ok
| xtensa_isa_bad_format
| xtensa_isa_bad_slot
| xtensa_isa_bad_opcode
| xtensa_isa_bad_operand
| xtensa_isa_bad_field
| xtensa_isa_bad_iclass
| xtensa_isa_bad_regfile
| xtensa_isa_bad_sysreg
| xtensa_isa_bad_state
| xtensa_isa_bad_interface
| xtensa_isa_bad_funcUnit
| xtensa_isa_wrong_slot
| xtensa_isa_no_field
| xtensa_isa_out_of_memory
| xtensa_isa_buffer_overflow
| xtensa_isa_internal_error
| xtensa_isa_bad_value.

#[global] Instance xtensa_isa_status_eq_dec : EqDecision xtensa_isa_status.
Proof. solve_decision. Defined.

Abbreviation XTENSA_UNDEFINED := (-1) (only parsing).

Abbreviation insnbuf := (list Z) (only parsing).

Abbreviation XTENSA_OPERAND_IS_REGISTER := 0x1 (only parsing).
Abbreviation XTENSA_OPERAND_IS_PCRELATIVE := 0x2 (only parsing).
Abbreviation XTENSA_OPERAND_IS_INVISIBLE := 0x4 (only parsing).
Abbreviation XTENSA_OPERAND_IS_UNKNOWN := 0x8 (only parsing).
Abbreviation XTENSA_OPCODE_IS_BRANCH := 0x1 (only parsing).
Abbreviation XTENSA_OPCODE_IS_JUMP := 0x2 (only parsing).
Abbreviation XTENSA_OPCODE_IS_LOOP := 0x4 (only parsing).
Abbreviation XTENSA_OPCODE_IS_CALL := 0x8 (only parsing).
Abbreviation XTENSA_STATE_IS_EXPORTED := 0x1 (only parsing).
Abbreviation XTENSA_STATE_IS_SHARED_OR := 0x2 (only parsing).
Abbreviation XTENSA_INTERFACE_HAS_SIDE_EFFECT := 0x1 (only parsing).

Record xtensa_format_internal := mkFormat {
  fmt_name : string;
  fmt_length : Z;
  fmt_encode_fn : insnbuf -> insnbuf;
  fmt_slot_id : list Z;
}.

Record xtensa_slot_internal := mkSlot {
  slot_name : string;
  slot_format : string;
  slot_position : Z;
  slot_get_fn : insnbuf -> insnbuf -> insnbuf;  (** insn, slotbuf: the new slotbuf *)
  slot_set_fn : insnbuf -> insnbuf -> insnbuf;  (** insn, slotbuf: the new insn *)
  get_field_fns : list (option (insnbuf -> Z));
  set_field_fns : list (option (insnbuf -> Z -> insnbuf));
  opcode_decode_fn : insnbuf -> Z;
  nop_name : string;
}.

(** An immediate or relocation function returns its status and the new
    [*valp]. *)
Record xtensa_operand_internal := mkOperand {
  opnd_name : string;
  field_id : Z;
  opnd_regfile : Z;
  num_regs : Z;
  opnd_flags : Z;
  opnd_encode : option (Z -> Z * Z);
  opnd_decode : option (Z -> Z * Z);
  opnd_do_reloc : option (Z -> Z -> Z * Z);
  opnd_undo_reloc : option (Z -> Z -> Z * Z);
}.

(** [arg_u] is the union of an operand id and a state. *)
Record xtensa_arg_internal := mkArg { arg_u : Z; arg_inout : Ascii.ascii }.

Record xtensa_iclass_internal := mkIclass {
  icl_operands : list xtensa_arg_internal;
  icl_stateOperands : list xtensa_arg_internal;
  icl_interfaceOperands : list Z;
}.

Record xtensa_funcUnit_use := mkUse { use_unit : Z; use_stage : Z }.

Record xtensa_opcode_internal := mkOpcode {
  opc_name : string;
  iclass_id : Z;
  opc_flags : Z;
  encode_fns : list (option (insnbuf -> insnbuf));
  funcUnit_uses : list xtensa_funcUnit_use;
}.

Record xtensa_regfile_internal := mkRegfile {
  rf_name : string;
  rf_shortname : string;
  rf_parent : Z;
  rf_num_bits : Z;
  rf_num_entries : Z;
}.

Record xtensa_interface_internal := mkInterface {
  intf_name : string;
  intf_num_bits : Z;
  intf_flags : Z;
  intf_class_id : Z;
  intf_inout : Ascii.ascii;
}.

Record xtensa_funcUnit_internal := mkFuncUnit { fu_name : string; fu_num_copies : Z }.

Record xtensa_state_internal := mkState { st_name : string; st_num_bits : Z; st_flags : Z }.

Record xtensa_sysreg_internal := mkSysreg { sreg_name : string; sreg_number : Z; sreg_is_user : Z }.

(** The union of the entity numbers is one number. *)
Record xtensa_lookup_entry := mkEntry { le_key : string; le_u : Z }.

(** A lookup table is [None] while its pointer is null. *)
Record xtensa_isa_internal := mkIsa {
  is_big_endian : bool;
  insn_size : Z;
  insnbuf_size : Z;
  formats : list xtensa_format_internal;
  format_decode_fn : insnbuf -> Z;
  length_decode_fn : list Z -> Z;
  slots : list xtensa_slot_internal;
  num_fields : Z;
  operands : list xtensa_operand_internal;
  iclasses : list xtensa_iclass_internal;
  opcodes : list xtensa_opcode_internal;
  opname_lookup_table : option (list xtensa_lookup_entry);
  regfiles : list xtensa_regfile_internal;
  states : list xtensa_state_internal;
  state_lookup_table : option (list xtensa_lookup_entry);
  sysregs : list xtensa_sysreg_internal;
  sysreg_lookup_table : option (list xtensa_lookup_entry);
  max_sysreg_num : list Z;
  sysreg_table : list (option (list Z));
  interfaces : list xtensa_interface_internal;
  interface_lookup_table : option (list xtensa_lookup_entry);
  funcUnits : list xtensa_funcUnit_internal;
  funcUnit_lookup_table : option (list xtensa_lookup_entry);
  num_stages : Z;
}.

#[global] Instance format_inhabited : Inhabited xtensa_format_internal :=
  populate (mkFormat EmptyString 0 id []).
#[global] Instance slot_inhabited : Inhabited xtensa_slot_internal :=
  populate (mkSlot EmptyString EmptyString 0 (fun _ b => b) (fun a _ => a) [] [] (fun _ => 0)
              EmptyString).
#[global] Instance operand_inhabited : Inhabited xtensa_operand_internal :=
  populate (mkOperand EmptyString 0 0 0 0 None None None None).
#[global] Instance arg_inhabited : Inhabited xtensa_arg_internal := populate (mkArg 0 Ascii.zero).
#[global] Instance iclass_inhabited : Inhabited xtensa_iclass_internal :=
  populate (mkIclass [] [] []).
#[global] Instance opcode_inhabited : Inhabited xtensa_opcode_internal :=
  populate (mkOpcode EmptyString 0 0 [] []).
#[global] Instance regfile_inhabited : Inhabited xtensa_regfile_internal :=
  populate (mkRegfile EmptyString EmptyString 0 0 0).
#[global] Instance interface_inhabited : Inhabited xtensa_interface_internal :=
  populate (mkInterface EmptyString 0 0 0 Ascii.zero).
#[global] Instance funcUnit_inhabited : Inhabited xtensa_funcUnit_internal :=
  populate (mkFuncUnit EmptyString 0).
#[global] Instance state_inhabited : Inhabited xtensa_state_internal :=
  populate (mkState EmptyString 0 0).
#[global] Instance sysreg_inhabited : Inhabited xtensa_sysreg_internal :=
  populate (mkSysreg EmptyString 0 0).
#[global] Instance use_inhabited : Inhabited xtensa_funcUnit_use := populate (mkUse 0 0).

(** [a[i]] for an index the library has checked or takes from its tables. *)
Definition index {A} `{Inhabited A} (l : list A) (i : Z) : A := l !!! Z.to_nat i.
Definition count {A} (l : list A) : Z := Z.of_nat (length l).

(** ** The error state *)

(** [tmpbuf] is the static scratch buffer of [xtensa_operand_encode]. *)
Record IsaState := mkIsaState {
  isa : xtensa_isa_internal;
  xtisa_errno : xtensa_isa_status;
  xtisa_error_msg : string;
  tmpbuf : option insnbuf;
}.

Definition set_isa (i : xtensa_isa_internal) (s : IsaState) : IsaState :=
  mkIsaState i (xtisa_errno s) (xtisa_error_msg s) (tmpbuf s).
Definition set_error (e : xtensa_isa_status) (msg : string) (s : IsaState) : IsaState :=
  mkIsaState (isa s) e msg (tmpbuf s).
Definition set_tmpbuf (b : option insnbuf) (s : IsaState) : IsaState :=
  mkIsaState (isa s) (xtisa_errno s) (xtisa_error_msg s) b.

Definition isaM (A : Type) : Type := IsaState -> A * IsaState.

Definition done {A} (a : A) : isaM A := fun s => (a, s).
Definition ibind {A B} (m : isaM A) (k : A -> isaM B) : isaM B :=
  fun s => let '(a, s') := m s in k a s'.
Definition intisa : isaM xtensa_isa_internal := fun s => (isa s, s).
Definition fail {A} (e : xtensa_isa_status) (msg : string) (errval : A) : isaM A :=
  fun s => (errval, set_error e msg s).

Declare Scope isa_scope.
Delimit Scope isa_scope with isa.
Notation "'let*' x ':=' m 'in' k" := (ibind m (fun x => k))
  (at level 10, x binder, m at level 100, k at level 200) : isa_scope.
#[local] Open Scope isa_scope.

(** ** Messages *)

Definition quoted (s : string) : string :=
  let q := String (Ascii.ascii_of_nat 34) EmptyString in q +:+ s +:+ q.

(** [%d] *)
Definition dec (n : Z) : string := pretty n.

Definition hex_digit (d : Z) : Ascii.ascii :=
  Ascii.ascii_of_N (Z.to_N (if d <? 10 then 48 + d else 87 + d)).
(** [0x%08x] *)
Definition hex08 (v : Z) : string :=
  "0x" +:+ String.string_of_list_ascii
             (map (fun k => hex_digit ((v >>> (4 * k)) &&& 0xf)) [7; 6; 5; 4; 3; 2; 1; 0]).

(** ** The checks *)

Definition CHECK {A} (bad : xtensa_isa_internal -> bool) (e : xtensa_isa_status)
    (msg : xtensa_isa_internal -> string) (errval : A) (k : isaM A) : isaM A :=
  let* i := intisa in if bad i then fail e (msg i) errval else k.

Definition out_of_range (n size : Z) : bool := (n <? 0) || (size <=? n).

Definition CHECK_FORMAT {A} (fmt : Z) (errval : A) : isaM A -> isaM A :=
  CHECK (fun i => out_of_range fmt (count (formats i))) xtensa_isa_bad_format
    (fun _ => "invalid format specifier") errval.
Definition CHECK_SLOT {A} (fmt slot : Z) (errval : A) : isaM A -> isaM A :=
  CHECK (fun i => out_of_range slot (count (fmt_slot_id (index (formats i) fmt))))
    xtensa_isa_bad_slot (fun _ => "invalid slot specifier") errval.
Definition CHECK_OPCODE {A} (opc : Z) (errval : A) : isaM A -> isaM A :=
  CHECK (fun i => out_of_range opc (count (opcodes i))) xtensa_isa_bad_opcode
    (fun _ => "invalid opcode specifier") errval.

(** The class of an opcode, and its name. *)
Definition opc_iclass (i : xtensa_isa_internal) (opc : Z) : xtensa_iclass_internal :=
  index (iclasses i) (iclass_id (index (opcodes i) opc)).
Definition opc_mnemonic (i : xtensa_isa_internal) (opc : Z) : string :=
  quoted (opc_name (index (opcodes i) opc)).

Definition CHECK_OPERAND {A} (opc opnd : Z) (errval : A) : isaM A -> isaM A :=
  CHECK (fun i => out_of_range opnd (count (icl_operands (opc_iclass i opc))))
    xtensa_isa_bad_operand
    (fun i => "invalid operand number (" +:+ dec opnd +:+ "); opcode " +:+ opc_mnemonic i opc
              +:+ " has " +:+ dec (count (icl_operands (opc_iclass i opc))) +:+ " operands") errval.
Definition CHECK_STATE_OPERAND {A} (opc stOp : Z) (errval : A) : isaM A -> isaM A :=
  CHECK (fun i => out_of_range stOp (count (icl_stateOperands (opc_iclass i opc))))
    xtensa_isa_bad_operand
    (fun i => "invalid state operand number (" +:+ dec stOp +:+ "); opcode " +:+ opc_mnemonic i opc
              +:+ " has " +:+ dec (count (icl_stateOperands (opc_iclass i opc)))
              +:+ " state operands") errval.
Definition CHECK_INTERFACE_OPERAND {A} (opc ifOp : Z) (errval : A) : isaM A -> isaM A :=
  CHECK (fun i => out_of_range ifOp (count (icl_interfaceOperands (opc_iclass i opc))))
    xtensa_isa_bad_operand
    (fun i => "invalid interface operand number (" +:+ dec ifOp +:+ "); opcode "
              +:+ opc_mnemonic i opc +:+ " has "
              +:+ dec (count (icl_interfaceOperands (opc_iclass i opc)))
              +:+ " interface operands") errval.
Definition CHECK_REGFILE {A} (rf : Z) (errval : A) : isaM A -> isaM A :=
  CHECK (fun i => out_of_range rf (count (regfiles i))) xtensa_isa_bad_regfile
    (fun _ => "invalid regfile specifier") errval.
Definition CHECK_STATE {A} (st : Z) (errval : A) : isaM A -> isaM A :=
  CHECK (fun i => out_of_range st (count (states i))) xtensa_isa_bad_state
    (fun _ => "invalid state specifier") errval.
Definition CHECK_SYSREG {A} (sysreg : Z) (errval : A) : isaM A -> isaM A :=
  CHECK (fun i => out_of_range sysreg (count (sysregs i))) xtensa_isa_bad_sysreg
    (fun _ => "invalid sysreg specifier") errval.
Definition CHECK_INTERFACE {A} (intf : Z) (errval : A) : isaM A -> isaM A :=
  CHECK (fun i => out_of_range intf (count (interfaces i))) xtensa_isa_bad_interface
    (fun _ => "invalid interface specifier") errval.
Definition CHECK_FUNCUNIT {A} (fun_ : Z) (errval : A) : isaM A -> isaM A :=
  CHECK (fun i => out_of_range fun_ (count (funcUnits i))) xtensa_isa_bad_funcUnit
    (fun _ => "invalid functional unit specifier") errval.

(** ** Standard library functions the code calls *)

(** [tolower] in the C locale. *)
Definition tolower (c : Ascii.ascii) : Z :=
  let n := Z.of_N (Ascii.N_of_ascii c) in
  if (65 <=? n) && (n <=? 90) then n + 32 else n.

Fixpoint lower_bytes (s : string) : list Z :=
  match s with
  | EmptyString => []
  | String c s' => tolower c :: lower_bytes s'
  end.

Fixpoint lex_compare (l1 l2 : list Z) : Z :=
  match l1, l2 with
  | [], [] => 0
  | [], _ :: _ => -1
  | _ :: _, [] => 1
  | x :: l1', y :: l2' => if x <? y then -1 else if y <? x then 1 else lex_compare l1' l2'
  end.

(** The sign of [strcasecmp]; only the sign is specified. *)
Definition strcasecmp (s1 s2 : string) : Z := lex_compare (lower_bytes s1) (lower_bytes s2).

Definition xtensa_isa_name_compare (e1 e2 : xtensa_lookup_entry) : Z :=
  strcasecmp (le_key e1) (le_key e2).

Definition name_le (e1 e2 : xtensa_lookup_entry) : Prop := xtensa_isa_name_compare e1 e2 <= 0.
#[global] Instance name_le_dec : RelDecision name_le.
Proof. intros e1 e2. unfold name_le. apply _. Defined.

(** [qsort]: the table in the order of the comparison. *)
Definition qsort_by_name (t : list xtensa_lookup_entry) : list xtensa_lookup_entry :=
  merge_sort name_le t.

(** [bsearch] over [t[lo .. hi)]. *)
Fixpoint bsearch_range (fuel : nat) (key : xtensa_lookup_entry) (t : list xtensa_lookup_entry)
    (lo hi : nat) : option xtensa_lookup_entry :=
  match fuel with
  | O => None
  | S fuel' =>
      if (hi <=? lo)%nat then None
      else
        let mid := ((lo + hi) / 2)%nat in
        match t !! mid with
        | None => None
        | Some e =>
            let c := xtensa_isa_name_compare key e in
            if c <? 0 then bsearch_range fuel' key t lo mid
            else if 0 <? c then bsearch_range fuel' key t (S mid) hi
            else Some e
        end
  end.
Definition bsearch (key : xtensa_lookup_entry) (t : list xtensa_lookup_entry)
  : option xtensa_lookup_entry :=
  bsearch_range (S (length t)) key t 0 (length t).

(** ** Errors, buffers and module set-up *)

Definition xtensa_isa_errno : isaM xtensa_isa_status := fun s => (xtisa_errno s, s).
Definition xtensa_isa_error_msg : isaM string := fun s => (xtisa_error_msg s, s).

Definition xtensa_insnbuf_size : isaM Z := let* i := intisa in done (insnbuf_size i).
Definition xtensa_isa_maxlength : isaM Z := let* i := intisa in done (insn_size i).
Definition xtensa_isa_length_from_chars (cp : list Z) : isaM Z :=
  let* i := intisa in done (length_decode_fn i cp).

Section alloc.
(** The block [malloc] returns for a number of bytes: its initial words, or
    [None]. *)
Context (malloc : Z -> option insnbuf).

Definition xtensa_insnbuf_alloc : isaM (option insnbuf) :=
  let* n := xtensa_insnbuf_size in
  match malloc (n * 4) with
  | None => fail xtensa_isa_out_of_memory "out of memory" None
  | Some b => done (Some b)
  end.

Definition names_table (names : list string) : list xtensa_lookup_entry :=
  qsort_by_name (imap (fun n name => mkEntry name (Z.of_nat n)) names).

(** [CHECK_ALLOC_FOR_INIT] around one step of [xtensa_isa_init]. *)
Definition CHECK_ALLOC_FOR_INIT (bytes : Z) (step : xtensa_isa_internal -> xtensa_isa_internal)
    (k : isaM bool) : isaM bool :=
  match malloc bytes with
  | None => fail xtensa_isa_out_of_memory "out of memory" false
  | Some _ => fun s => k (set_isa (step (isa s)) s)
  end.

Definition set_opname_table t (i : xtensa_isa_internal) : xtensa_isa_internal :=
  mkIsa (is_big_endian i) (insn_size i) (insnbuf_size i) (formats i) (format_decode_fn i)
    (length_decode_fn i) (slots i) (num_fields i) (operands i) (iclasses i) (opcodes i) t
    (regfiles i) (states i) (state_lookup_table i) (sysregs i) (sysreg_lookup_table i)
    (max_sysreg_num i) (sysreg_table i) (interfaces i) (interface_lookup_table i) (funcUnits i)
    (funcUnit_lookup_table i) (num_stages i).
Definition set_state_table t (i : xtensa_isa_internal) : xtensa_isa_internal :=
  mkIsa (is_big_endian i) (insn_size i) (insnbuf_size i) (formats i) (format_decode_fn i)
    (length_decode_fn i) (slots i) (num_fields i) (operands i) (iclasses i) (opcodes i)
    (opname_lookup_table i) (regfiles i) (states i) t (sysregs i) (sysreg_lookup_table i)
    (max_sysreg_num i) (sysreg_table i) (interfaces i) (interface_lookup_table i) (funcUnits i)
    (funcUnit_lookup_table i) (num_stages i).
Definition set_sysreg_tables t tt_ (i : xtensa_isa_internal) : xtensa_isa_internal :=
  mkIsa (is_big_endian i) (insn_size i) (insnbuf_size i) (formats i) (format_decode_fn i)
    (length_decode_fn i) (slots i) (num_fields i) (operands i) (iclasses i) (opcodes i)
    (opname_lookup_table i) (regfiles i) (states i) (state_lookup_table i) (sysregs i) t
    (max_sysreg_num i) tt_ (interfaces i) (interface_lookup_table i) (funcUnits i)
    (funcUnit_lookup_table i) (num_stages i).
Definition set_interface_table t (i : xtensa_isa_internal) : xtensa_isa_internal :=
  mkIsa (is_big_endian i) (insn_size i) (insnbuf_size i) (formats i) (format_decode_fn i)
    (length_decode_fn i) (slots i) (num_fields i) (operands i) (iclasses i) (opcodes i)
    (opname_lookup_table i) (regfiles i) (states i) (state_lookup_table i) (sysregs i)
    (sysreg_lookup_table i) (max_sysreg_num i) (sysreg_table i) (interfaces i) t (funcUnits i)
    (funcUnit_lookup_table i) (num_stages i).
Definition set_funcUnit_table t (i : xtensa_isa_internal) : xtensa_isa_internal :=
  mkIsa (is_big_endian i) (insn_size i) (insnbuf_size i) (formats i) (format_decode_fn i)
    (length_decode_fn i) (slots i) (num_fields i) (operands i) (iclasses i) (opcodes i)
    (opname_lookup_table i) (regfiles i) (states i) (state_lookup_table i) (sysregs i)
    (sysreg_lookup_table i) (max_sysreg_num i) (sysreg_table i) (interfaces i)
    (interface_lookup_table i) (funcUnits i) t (num_stages i).
Definition set_sizes (size stages : Z) (i : xtensa_isa_internal) : xtensa_isa_internal :=
  mkIsa (is_big_endian i) (insn_size i) size (formats i) (format_decode_fn i)
    (length_decode_fn i) (slots i) (num_fields i) (operands i) (iclasses i) (opcodes i)
    (opname_lookup_table i) (regfiles i) (states i) (state_lookup_table i) (sysregs i)
    (sysreg_lookup_table i) (max_sysreg_num i) (sysreg_table i) (interfaces i)
    (interface_lookup_table i) (funcUnits i) (funcUnit_lookup_table i) stages.

(** The number table of one kind before any register is entered. *)
Definition empty_sysreg_table (i : xtensa_isa_internal) (is_user : Z) : list Z :=
  replicate (Z.to_nat (index (max_sysreg_num i) is_user + 1)) XTENSA_UNDEFINED.

Definition set_sysreg_number_table (is_user : Z) (i : xtensa_isa_internal) : xtensa_isa_internal :=
  set_sysreg_tables (sysreg_lookup_table i)
    (setZ (sysreg_table i) is_user (Some (empty_sysreg_table i is_user))) i.

(** [sysreg_table[is_user][number] = n] for every numbered register. *)
Definition enter_sysreg (tables : list (option (list Z))) (nr : nat * xtensa_sysreg_internal)
  : list (option (list Z)) :=
  let '(n, sreg) := nr in
  if 0 <=? sreg_number sreg then
    setZ tables (sreg_is_user sreg)
      ((fun t => setZ t (sreg_number sreg) (Z.of_nat n))
         <$> mjoin (tables !! Z.to_nat (sreg_is_user sreg)))
  else tables.

Definition fill_sysreg_tables (i : xtensa_isa_internal) : xtensa_isa_internal :=
  set_sysreg_tables (sysreg_lookup_table i)
    (foldl enter_sysreg (sysreg_table i) (imap pair (sysregs i))) i.

(** Returns whether the module is set up (the code returns it or [NULL]). *)
Definition xtensa_isa_init : isaM bool :=
  let* i := intisa in
  CHECK_ALLOC_FOR_INIT (count (opcodes i) * 16)
    (fun i => set_opname_table (Some (names_table (opc_name <$> opcodes i))) i)
 (CHECK_ALLOC_FOR_INIT (count (states i) * 16)
    (fun i => set_state_table (Some (names_table (st_name <$> states i))) i)
 (CHECK_ALLOC_FOR_INIT (count (sysregs i) * 16)
    (fun i => set_sysreg_tables (Some (names_table (sreg_name <$> sysregs i))) (sysreg_table i) i)
 (CHECK_ALLOC_FOR_INIT ((index (max_sysreg_num i) 0 + 1) * 4) (set_sysreg_number_table 0)
 (CHECK_ALLOC_FOR_INIT ((index (max_sysreg_num i) 1 + 1) * 4) 
    (fun i => fill_sysreg_tables (set_sysreg_number_table 1 i))
 (CHECK_ALLOC_FOR_INIT (count (interfaces i) * 16)
    (fun i => set_interface_table (Some (names_table (intf_name <$> interfaces i))) i)
 (CHECK_ALLOC_FOR_INIT (count (funcUnits i) * 16)
    (fun i => let i := set_funcUnit_table (Some (names_table (fu_name <$> funcUnits i))) i in
              set_sizes ((insn_size i + 4 - 1) / 4) XTENSA_UNDEFINED i)
 (done true))))))).

Definition xtensa_isa_free : isaM unit := fun s =>
  let i := isa s in
  (tt, set_isa (set_funcUnit_table None (set_interface_table None
         (set_sysreg_tables None (replicate 2 None) (set_state_table None
            (set_opname_table None i))))) s).

End alloc.

(** ** Counts *)

Definition xtensa_isa_num_formats : isaM Z := let* i := intisa in done (count (formats i)).
Definition xtensa_isa_num_opcodes : isaM Z := let* i := intisa in done (count (opcodes i)).
Definition xtensa_isa_num_regfiles : isaM Z := let* i := intisa in done (count (regfiles i)).
Definition xtensa_isa_num_states : isaM Z := let* i := intisa in done (count (states i)).
Definition xtensa_isa_num_sysregs : isaM Z := let* i := intisa in done (count (sysregs i)).
Definition xtensa_isa_num_interfaces : isaM Z := let* i := intisa in done (count (interfaces i)).
Definition xtensa_isa_num_funcUnits : isaM Z := let* i := intisa in done (count (funcUnits i)).

(** ** Lookup by name *)

(** [!name || !*name] *)
Definition null_or_empty (name : option string) : bool :=
  match name with None | Some EmptyString => true | Some _ => false end.

(** The body the five [bsearch] lookups share: the table of the entity, its
    error code and the two words of the messages. *)
Definition lookup_by_name (table : xtensa_isa_internal -> option (list xtensa_lookup_entry))
    (size : xtensa_isa_internal -> Z) (e : xtensa_isa_status) (what : string)
    (name : option string) : isaM Z :=
  if null_or_empty name then fail e ("invalid " +:+ what +:+ " name") XTENSA_UNDEFINED
  else
    let key := default EmptyString name in
    let* i := intisa in
    let result := if size i =? 0 then None else bsearch (mkEntry key 0) (default [] (table i)) in
    match result with
    | None => fail e (what +:+ " " +:+ quoted key +:+ " not recognized") XTENSA_UNDEFINED
    | Some r => done (le_u r)
    end.

Definition xtensa_opcode_lookup : option string -> isaM Z :=
  lookup_by_name opname_lookup_table (fun i => count (opcodes i)) xtensa_isa_bad_opcode "opcode".
Definition xtensa_state_lookup : option string -> isaM Z :=
  lookup_by_name state_lookup_table (fun i => count (states i)) xtensa_isa_bad_state "state".
Definition xtensa_sysreg_lookup_name : option string -> isaM Z :=
  lookup_by_name sysreg_lookup_table (fun i => count (sysregs i)) xtensa_isa_bad_sysreg "sysreg".
Definition xtensa_interface_lookup : option string -> isaM Z :=
  lookup_by_name interface_lookup_table (fun i => count (interfaces i)) xtensa_isa_bad_interface
    "interface".
Definition xtensa_funcUnit_lookup : option string -> isaM Z :=
  lookup_by_name funcUnit_lookup_table (fun i => count (funcUnits i)) xtensa_isa_bad_funcUnit
    "functional unit".

(** The first index from [n] on whose element satisfies [p]. *)
Fixpoint find_index {A} (p : Z -> A -> bool) (n : Z) (l : list A) : option Z :=
  match l with
  | [] => None
  | x :: l' => if p n x then Some n else find_index p (n + 1) l'
  end.

(** A linear search with its error. *)
Definition linear_lookup {A} (p : string -> Z -> A -> bool) (l : xtensa_isa_internal -> list A)
    (e : xtensa_isa_status) (bad_name unknown : string) (name : option string) : isaM Z :=
  if null_or_empty name then fail e bad_name XTENSA_UNDEFINED
  else
    let key := default EmptyString name in
    let* i := intisa in
    match find_index (p key) 0 (l i) with
    | Some n => done n
    | None => fail e (unknown +:+ quoted key +:+ " not recognized") XTENSA_UNDEFINED
    end.

Definition xtensa_format_lookup : option string -> isaM Z :=
  linear_lookup (fun name _ f => strcasecmp name (fmt_name f) =? 0) formats xtensa_isa_bad_format
    "invalid format name" "format ".
Definition xtensa_regfile_lookup : option string -> isaM Z :=
  linear_lookup (fun name _ r => String.eqb (rf_name r) name) regfiles xtensa_isa_bad_regfile
    "invalid regfile name" "regfile ".
Definition xtensa_regfile_lookup_shortname : option string -> isaM Z :=
  linear_lookup (fun name n r => (rf_parent r =? n) && String.eqb (rf_shortname r) name) regfiles
    xtensa_isa_bad_regfile "invalid regfile shortname" "regfile shortname ".

Definition xtensa_sysreg_lookup (num is_user : Z) : isaM Z :=
  let is_user := if negb (is_user =? 0) then 1 else is_user in
  let* i := intisa in
  let table := default [] (mjoin (sysreg_table i !! Z.to_nat is_user)) in
  if (num <? 0) || (index (max_sysreg_num i) is_user <? num) || (nthZ table num =? XTENSA_UNDEFINED)
  then fail xtensa_isa_bad_sysreg "sysreg not recognized" XTENSA_UNDEFINED
  else done (nthZ table num).

(** ** Formats *)

Definition with_isa {A} (f : xtensa_isa_internal -> A) : isaM A := let* i := intisa in done (f i).

Definition xtensa_format_name (fmt : Z) : isaM (option string) :=
  CHECK_FORMAT fmt None (with_isa (fun i => Some (fmt_name (index (formats i) fmt)))).

Definition xtensa_format_decode (insn : insnbuf) : isaM Z :=
  let* i := intisa in
  let fmt := format_decode_fn i insn in
  if negb (fmt =? XTENSA_UNDEFINED) then done fmt
  else fail xtensa_isa_bad_format "cannot decode instruction format" XTENSA_UNDEFINED.

(** Returns the status and the new buffer. *)
Definition xtensa_format_encode (fmt : Z) (insn : insnbuf) : isaM (Z * insnbuf) :=
  CHECK_FORMAT fmt (-1, insn) (with_isa (fun i => (0, fmt_encode_fn (index (formats i) fmt) insn))).

Definition xtensa_format_length (fmt : Z) : isaM Z :=
  CHECK_FORMAT fmt XTENSA_UNDEFINED (with_isa (fun i => fmt_length (index (formats i) fmt))).

Definition xtensa_format_num_slots (fmt : Z) : isaM Z :=
  CHECK_FORMAT fmt XTENSA_UNDEFINED
    (with_isa (fun i => count (fmt_slot_id (index (formats i) fmt)))).

Definition slot_number (i : xtensa_isa_internal) (fmt slot : Z) : Z :=
  index (fmt_slot_id (index (formats i) fmt)) slot.

Definition xtensa_format_slot_nop_opcode (fmt slot : Z) : isaM Z :=
  CHECK_FORMAT fmt XTENSA_UNDEFINED (CHECK_SLOT fmt slot XTENSA_UNDEFINED (
    let* i := intisa in
    xtensa_opcode_lookup (Some (nop_name (index (slots i) (slot_number i fmt slot)))))).

Definition xtensa_format_get_slot (fmt slot : Z) (insn slotbuf : insnbuf) : isaM (Z * insnbuf) :=
  CHECK_FORMAT fmt (-1, slotbuf) (CHECK_SLOT fmt slot (-1, slotbuf) (
    with_isa (fun i => (0, slot_get_fn (index (slots i) (slot_number i fmt slot)) insn slotbuf)))).

Definition xtensa_format_set_slot (fmt slot : Z) (insn slotbuf : insnbuf) : isaM (Z * insnbuf) :=
  CHECK_FORMAT fmt (-1, insn) (CHECK_SLOT fmt slot (-1, insn) (
    with_isa (fun i => (0, slot_set_fn (index (slots i) (slot_number i fmt slot)) insn slotbuf)))).

(** ** Opcodes *)

Definition xtensa_opcode_decode (fmt slot : Z) (slotbuf : insnbuf) : isaM Z :=
  CHECK_FORMAT fmt XTENSA_UNDEFINED (CHECK_SLOT fmt slot XTENSA_UNDEFINED (
    let* i := intisa in
    let opc := opcode_decode_fn (index (slots i) (slot_number i fmt slot)) slotbuf in
    if negb (opc =? XTENSA_UNDEFINED) then done opc
    else fail xtensa_isa_bad_opcode "cannot decode opcode" XTENSA_UNDEFINED)).

Definition xtensa_opcode_encode (fmt slot : Z) (slotbuf : insnbuf) (opc : Z) : isaM (Z * insnbuf) :=
  CHECK_FORMAT fmt (-1, slotbuf) (CHECK_SLOT fmt slot (-1, slotbuf) (
  CHECK_OPCODE opc (-1, slotbuf) (
    let* i := intisa in
    match index (encode_fns (index (opcodes i) opc)) (slot_number i fmt slot) with
    | None => fail xtensa_isa_wrong_slot
                ("opcode " +:+ opc_mnemonic i opc +:+ " is not allowed in slot " +:+ dec slot
                 +:+ " of format " +:+ quoted (fmt_name (index (formats i) fmt))) (-1, slotbuf)
    | Some encode_fn => done (0, encode_fn slotbuf)
    end))).

Definition xtensa_opcode_name (opc : Z) : isaM (option string) :=
  CHECK_OPCODE opc None (with_isa (fun i => Some (opc_name (index (opcodes i) opc)))).

Definition opcode_flag (flag opc : Z) : isaM Z :=
  CHECK_OPCODE opc XTENSA_UNDEFINED
    (with_isa (fun i => b2z (negb ((opc_flags (index (opcodes i) opc) &&& flag) =? 0)))).
Definition xtensa_opcode_is_branch : Z -> isaM Z := opcode_flag XTENSA_OPCODE_IS_BRANCH.
Definition xtensa_opcode_is_jump : Z -> isaM Z := opcode_flag XTENSA_OPCODE_IS_JUMP.
Definition xtensa_opcode_is_loop : Z -> isaM Z := opcode_flag XTENSA_OPCODE_IS_LOOP.
Definition xtensa_opcode_is_call : Z -> isaM Z := opcode_flag XTENSA_OPCODE_IS_CALL.

Definition xtensa_opcode_num_operands (opc : Z) : isaM Z :=
  CHECK_OPCODE opc XTENSA_UNDEFINED (with_isa (fun i => count (icl_operands (opc_iclass i opc)))).
Definition xtensa_opcode_num_stateOperands (opc : Z) : isaM Z :=
  CHECK_OPCODE opc XTENSA_UNDEFINED
    (with_isa (fun i => count (icl_stateOperands (opc_iclass i opc)))).
Definition xtensa_opcode_num_interfaceOperands (opc : Z) : isaM Z :=
  CHECK_OPCODE opc XTENSA_UNDEFINED
    (with_isa (fun i => count (icl_interfaceOperands (opc_iclass i opc)))).
Definition xtensa_opcode_num_funcUnit_uses (opc : Z) : isaM Z :=
  CHECK_OPCODE opc XTENSA_UNDEFINED
    (with_isa (fun i => count (funcUnit_uses (index (opcodes i) opc)))).

Definition xtensa_opcode_funcUnit_use (opc u : Z) : isaM (option xtensa_funcUnit_use) :=
  CHECK_OPCODE opc None (
    let* i := intisa in
    let uses := funcUnit_uses (index (opcodes i) opc) in
    if out_of_range u (count uses) then
      fail xtensa_isa_bad_funcUnit
        ("invalid functional unit use number (" +:+ dec u +:+ "); opcode " +:+ opc_mnemonic i opc
         +:+ " has " +:+ dec (count uses)) None
    else done (Some (index uses u))).

(** The loops of [xtensa_isa_num_pipe_stages] over the uses of every opcode. *)
Definition max_use_stage (i : xtensa_isa_internal) : Z :=
  foldl (fun m o => foldl (fun m u => if m <? use_stage u then use_stage u else m) m
                      (funcUnit_uses o)) (-1) (opcodes i).

(** The first call stores [max_stage + 1] and returns [num_states]. *)
Definition xtensa_isa_num_pipe_stages : isaM Z := fun s =>
  let i := isa s in
  if negb (num_stages i =? XTENSA_UNDEFINED) then (num_stages i, s)
  else (count (states i), set_isa (set_sizes (insnbuf_size i) (max_use_stage i + 1) i) s).

(** ** Operands *)

Definition get_operand (opc opnd : Z) : isaM (option xtensa_operand_internal) :=
  CHECK_OPCODE opc None (CHECK_OPERAND opc opnd None (
    with_isa (fun i => Some (index (operands i)
                               (arg_u (index (icl_operands (opc_iclass i opc)) opnd)))))).

(** [intop = get_operand(..); if (!intop) return errval;] *)
Definition with_operand {A} (opc opnd : Z) (errval : A) (k : xtensa_operand_internal -> isaM A)
  : isaM A :=
  let* intop := get_operand opc opnd in
  match intop with None => done errval | Some o => k o end.

Definition xtensa_operand_name (opc opnd : Z) : isaM (option string) :=
  with_operand opc opnd None (fun intop => done (Some (opnd_name intop))).

Definition xtensa_operand_is_visible (opc opnd : Z) : isaM Z :=
  CHECK_OPCODE opc XTENSA_UNDEFINED (CHECK_OPERAND opc opnd XTENSA_UNDEFINED (
    let* i := intisa in
    let arg := index (icl_operands (opc_iclass i opc)) opnd in
    if Ascii.eqb (arg_inout arg) "s"%char then done 0
    else done (b2z ((opnd_flags (index (operands i) (arg_u arg)) &&& XTENSA_OPERAND_IS_INVISIBLE)
                    =? 0)))).

Definition xtensa_operand_inout (opc opnd : Z) : isaM Ascii.ascii :=
  CHECK_OPCODE opc Ascii.zero (CHECK_OPERAND opc opnd Ascii.zero (
    let* i := intisa in
    let inout := arg_inout (index (icl_operands (opc_iclass i opc)) opnd) in
    done (if Ascii.eqb inout "s"%char then "o"%char else if Ascii.eqb inout "t"%char then "i"%char
          else inout))).

Definition no_such_field (i : xtensa_isa_internal) (intop : xtensa_operand_internal) (fmt slot : Z)
  : string :=
  "operand " +:+ quoted (opnd_name intop) +:+ " does not exist in slot " +:+ dec slot
  +:+ " of format " +:+ quoted (fmt_name (index (formats i) fmt)).

(** Returns the status and the value, when [*valp] is written. *)
Definition xtensa_operand_get_field (opc opnd fmt slot : Z) (slotbuf : insnbuf)
  : isaM (Z * option Z) :=
  with_operand opc opnd (-1, None) (fun intop =>
    CHECK_FORMAT fmt (-1, None) (CHECK_SLOT fmt slot (-1, None) (
      if field_id intop =? XTENSA_UNDEFINED
      then fail xtensa_isa_no_field "implicit operand has no field" (-1, None)
      else
        let* i := intisa in
        match index (get_field_fns (index (slots i) (slot_number i fmt slot))) (field_id intop) with
        | None => fail xtensa_isa_wrong_slot (no_such_field i intop fmt slot) (-1, None)
        | Some get_fn => done (0, Some (get_fn slotbuf))
        end))).

(** Returns the status and the new slot buffer. *)
Definition xtensa_operand_set_field (opc opnd fmt slot : Z) (slotbuf : insnbuf) (val : Z)
  : isaM (Z * insnbuf) :=
  with_operand opc opnd (-1, slotbuf) (fun intop =>
    CHECK_FORMAT fmt (-1, slotbuf) (CHECK_SLOT fmt slot (-1, slotbuf) (
      if field_id intop =? XTENSA_UNDEFINED
      then fail xtensa_isa_no_field "implicit operand has no field" (-1, slotbuf)
      else
        let* i := intisa in
        match index (set_field_fns (index (slots i) (slot_number i fmt slot))) (field_id intop) with
        | None => fail xtensa_isa_wrong_slot (no_such_field i intop fmt slot) (-1, slotbuf)
        | Some set_fn => done (0, set_fn slotbuf val)
        end))).

(** The accessors of a field in the first slot that has both. *)
Fixpoint find_field_fns (l : list xtensa_slot_internal) (field : Z)
  : option ((insnbuf -> Z) * (insnbuf -> Z -> insnbuf)) :=
  match l with
  | [] => None
  | slot :: l' =>
      match index (get_field_fns slot) field, index (set_field_fns slot) field with
      | Some get_fn, Some set_fn => Some (get_fn, set_fn)
      | _, _ => find_field_fns l' field
      end
  end.

(** The branch of an operand without an encoding function. *)
Definition encode_default (malloc : Z -> option insnbuf) (intop : xtensa_operand_internal) (val : Z)
  : isaM (Z * Z) := fun s =>
  let '(buf, s) :=
    match tmpbuf s with
    | Some b => (Some b, s)
    | None => let '(b, s) := xtensa_insnbuf_alloc malloc s in (b, set_tmpbuf b s)
    end in
  match buf with
  | None => fail xtensa_isa_out_of_memory "out of memory" (-1, val) s
  | Some buf =>
      if field_id intop =? XTENSA_UNDEFINED
      then fail xtensa_isa_internal_error "operand has no field" (-1, val) s
      else match find_field_fns (slots (isa s)) (field_id intop) with
           | Some (get_fn, set_fn) =>
               let buf := set_fn buf val in
               ((b2z (negb (get_fn buf =? val)), val), set_tmpbuf (Some buf) s)
           | None => fail xtensa_isa_no_field "field does not exist in any slot" (-1, val) s
           end
  end.

(** [f && f(&v) != 0]; a missing function pointer is not called by the code. *)
Definition call_immed (f : option (Z -> Z * Z)) (v : Z) : Z * Z :=
  match f with Some f => f v | None => (0, v) end.

(** Returns the status and the new [*valp]. *)
Definition xtensa_operand_encode (malloc : Z -> option insnbuf) (opc opnd val : Z) : isaM (Z * Z) :=
  with_operand opc opnd (-1, val) (fun intop =>
    match opnd_encode intop with
    | None => encode_default malloc intop val
    | Some encode =>
        let '(r, v) := encode val in
        let '(r', test_val) := call_immed (opnd_decode intop) v in
        if truthy r || truthy r' || negb (test_val =? val)
        then fail xtensa_isa_bad_value ("cannot encode operand value " +:+ hex08 v) (-1, v)
        else done (0, v)
    end).

Definition xtensa_operand_decode (opc opnd val : Z) : isaM (Z * Z) :=
  with_operand opc opnd (-1, val) (fun intop =>
    match opnd_decode intop with
    | None => done (0, val)
    | Some decode =>
        let '(r, v) := decode val in
        if truthy r
        then fail xtensa_isa_bad_value ("cannot decode operand value " +:+ hex08 v) (-1, v)
        else done (0, v)
    end).

Definition operand_flag (flag opc opnd : Z) : isaM Z :=
  with_operand opc opnd XTENSA_UNDEFINED (fun intop =>
    done (b2z (negb ((opnd_flags intop &&& flag) =? 0)))).
Definition xtensa_operand_is_register : Z -> Z -> isaM Z := operand_flag XTENSA_OPERAND_IS_REGISTER.
Definition xtensa_operand_is_PCrelative : Z -> Z -> isaM Z :=
  operand_flag XTENSA_OPERAND_IS_PCRELATIVE.
Definition xtensa_operand_is_known_reg (opc opnd : Z) : isaM Z :=
  with_operand opc opnd XTENSA_UNDEFINED (fun intop =>
    done (b2z ((opnd_flags intop &&& XTENSA_OPERAND_IS_UNKNOWN) =? 0))).
Definition xtensa_operand_regfile (opc opnd : Z) : isaM Z :=
  with_operand opc opnd XTENSA_UNDEFINED (fun intop => done (opnd_regfile intop)).
Definition xtensa_operand_num_regs (opc opnd : Z) : isaM Z :=
  with_operand opc opnd XTENSA_UNDEFINED (fun intop => done (num_regs intop)).

(** The shared body of the two relocation functions. *)
Definition operand_reloc (sel : xtensa_operand_internal -> option (Z -> Z -> Z * Z)) (name : string)
    (opc opnd val pc : Z) : isaM (Z * Z) :=
  with_operand opc opnd (-1, val) (fun intop =>
    if (opnd_flags intop &&& XTENSA_OPERAND_IS_PCRELATIVE) =? 0 then done (0, val)
    else match sel intop with
         | None => fail xtensa_isa_internal_error
                     ("operand missing " +:+ name +:+ " function") (-1, val)
         | Some reloc =>
             let '(r, v) := reloc val pc in
             if truthy r
             then fail xtensa_isa_bad_value
                    (name +:+ " failed for value " +:+ hex08 v +:+ " at PC " +:+ hex08 pc) (-1, v)
             else done (0, v)
         end).
Definition xtensa_operand_do_reloc : Z -> Z -> Z -> Z -> isaM (Z * Z) :=
  operand_reloc opnd_do_reloc "do_reloc".
Definition xtensa_operand_undo_reloc : Z -> Z -> Z -> Z -> isaM (Z * Z) :=
  operand_reloc opnd_undo_reloc "undo_reloc".

(** ** State and interface operands *)

Definition xtensa_stateOperand_state (opc stOp : Z) : isaM Z :=
  CHECK_OPCODE opc XTENSA_UNDEFINED (CHECK_STATE_OPERAND opc stOp XTENSA_UNDEFINED (
    with_isa (fun i => arg_u (index (icl_stateOperands (opc_iclass i opc)) stOp)))).
Definition xtensa_stateOperand_inout (opc stOp : Z) : isaM Ascii.ascii :=
  CHECK_OPCODE opc Ascii.zero (CHECK_STATE_OPERAND opc stOp Ascii.zero (
    with_isa (fun i => arg_inout (index (icl_stateOperands (opc_iclass i opc)) stOp)))).
Definition xtensa_interfaceOperand_interface (opc ifOp : Z) : isaM Z :=
  CHECK_OPCODE opc XTENSA_UNDEFINED (CHECK_INTERFACE_OPERAND opc ifOp XTENSA_UNDEFINED (
    with_isa (fun i => index (icl_interfaceOperands (opc_iclass i opc)) ifOp))).

(** ** Register files, states, system registers, interfaces, functional units *)

Definition xtensa_regfile_name (rf : Z) : isaM (option string) :=
  CHECK_REGFILE rf None (with_isa (fun i => Some (rf_name (index (regfiles i) rf)))).
Definition xtensa_regfile_shortname (rf : Z) : isaM (option string) :=
  CHECK_REGFILE rf None (with_isa (fun i => Some (rf_shortname (index (regfiles i) rf)))).
Definition xtensa_regfile_view_parent (rf : Z) : isaM Z :=
  CHECK_REGFILE rf XTENSA_UNDEFINED (with_isa (fun i => rf_parent (index (regfiles i) rf))).
Definition xtensa_regfile_num_bits (rf : Z) : isaM Z :=
  CHECK_REGFILE rf XTENSA_UNDEFINED (with_isa (fun i => rf_num_bits (index (regfiles i) rf))).
Definition xtensa_regfile_num_entries (rf : Z) : isaM Z :=
  CHECK_REGFILE rf XTENSA_UNDEFINED (with_isa (fun i => rf_num_entries (index (regfiles i) rf))).

Definition xtensa_state_name (st : Z) : isaM (option string) :=
  CHECK_STATE st None (with_isa (fun i => Some (st_name (index (states i) st)))).
Definition xtensa_state_num_bits (st : Z) : isaM Z :=
  CHECK_STATE st XTENSA_UNDEFINED (with_isa (fun i => st_num_bits (index (states i) st))).
Definition state_flag (flag st : Z) : isaM Z :=
  CHECK_STATE st XTENSA_UNDEFINED
    (with_isa (fun i => b2z (negb ((st_flags (index (states i) st) &&& flag) =? 0)))).
Definition xtensa_state_is_exported : Z -> isaM Z := state_flag XTENSA_STATE_IS_EXPORTED.
Definition xtensa_state_is_shared_or : Z -> isaM Z := state_flag XTENSA_STATE_IS_SHARED_OR.

Definition xtensa_sysreg_name (sysreg : Z) : isaM (option string) :=
  CHECK_SYSREG sysreg None (with_isa (fun i => Some (sreg_name (index (sysregs i) sysreg)))).
Definition xtensa_sysreg_number (sysreg : Z) : isaM Z :=
  CHECK_SYSREG sysreg XTENSA_UNDEFINED (with_isa (fun i => sreg_number (index (sysregs i) sysreg))).
Definition xtensa_sysreg_is_user (sysreg : Z) : isaM Z :=
  CHECK_SYSREG sysreg XTENSA_UNDEFINED
    (with_isa (fun i => b2z (truthy (sreg_is_user (index (sysregs i) sysreg))))).

Definition xtensa_interface_name (intf : Z) : isaM (option string) :=
  CHECK_INTERFACE intf None (with_isa (fun i => Some (intf_name (index (interfaces i) intf)))).
Definition xtensa_interface_num_bits (intf : Z) : isaM Z :=
  CHECK_INTERFACE intf XTENSA_UNDEFINED
    (with_isa (fun i => intf_num_bits (index (interfaces i) intf))).
Definition xtensa_interface_inout (intf : Z) : isaM Ascii.ascii :=
  CHECK_INTERFACE intf Ascii.zero (with_isa (fun i => intf_inout (index (interfaces i) intf))).
Definition xtensa_interface_has_side_effect (intf : Z) : isaM Z :=
  CHECK_INTERFACE intf XTENSA_UNDEFINED
    (with_isa (fun i => b2z (negb ((intf_flags (index (interfaces i) intf)
                                    &&& XTENSA_INTERFACE_HAS_SIDE_EFFECT) =? 0)))).
Definition xtensa_interface_class_id (intf : Z) : isaM Z :=
  CHECK_INTERFACE intf XTENSA_UNDEFINED
    (with_isa (fun i => intf_class_id (index (interfaces i) intf))).

Definition xtensa_funcUnit_name (fun_ : Z) : isaM (option string) :=
  CHECK_FUNCUNIT fun_ None (with_isa (fun i => Some (fu_name (index (funcUnits i) fun_)))).
Definition xtensa_funcUnit_num_copies (fun_ : Z) : isaM Z :=
  CHECK_FUNCUNIT fun_ XTENSA_UNDEFINED (with_isa (fun i => fu_num_copies (index (funcUnits i) fun_))).

(** ** Instruction bytes *)

Definition byte_to_word_index (byte_index : Z) : Z := byte_index / 4.
Definition byte_to_bit_index (byte_index : Z) : Z := (byte_index &&& 0x3) * 8.

(** The buffer bytes an instruction of [n] bytes occupies, in the order of the
    byte stream: [for (i = start; i != fence_post; i += increment)]. *)
Definition byte_indices (i : xtensa_isa_internal) (n : Z) : list Z :=
  let '(start, increment) := if is_big_endian i then (insn_size i - 1, -1) else (0, 1) in
  (fun k => start + k * increment) <$> seqZ 0 n.

Definition insn_byte (insn : insnbuf) (b : Z) : Z :=
  (nthZ insn (byte_to_word_index b) >>> byte_to_bit_index b) &&& 0xff.

(** Returns the number of bytes and the bytes written. *)
Definition xtensa_insnbuf_to_chars (insn : insnbuf) (num_chars : Z) : isaM (Z * list Z) :=
  let* insn_size := xtensa_isa_maxlength in
  let num_chars := if num_chars =? 0 then insn_size else num_chars in
  let* fmt := xtensa_format_decode insn in
  if fmt =? XTENSA_UNDEFINED then done (XTENSA_UNDEFINED, [])
  else
    let* byte_count := xtensa_format_length fmt in
    if byte_count =? XTENSA_UNDEFINED then done (XTENSA_UNDEFINED, [])
    else if num_chars <? byte_count
    then fail xtensa_isa_buffer_overflow "output buffer too small for instruction"
           (XTENSA_UNDEFINED, [])
    else
      let* i := intisa in
      done (byte_count, insn_byte insn <$> byte_indices i byte_count).

(** [insn[word_inx] |= ( *cp & 0xff) << bit_inx] *)
Definition or_byte (insn : insnbuf) (bc : Z * Z) : insnbuf :=
  let '(b, c) := bc in
  let w := byte_to_word_index b in
  setZ insn w (nthZ insn w ||| lsl32 (c &&& 0xff) (byte_to_bit_index b)).

Definition xtensa_insnbuf_from_chars (cp : list Z) (num_chars : Z) : isaM insnbuf :=
  let* i := intisa in
  let max_size := insn_size i in
  let n := length_decode_fn i cp in
  let n := if n =? XTENSA_UNDEFINED then max_size else n in
  let num_chars := if (num_chars =? 0) || (n <? num_chars) then n else num_chars in
  let insn := replicate (Z.to_nat (insnbuf_size i)) 0 in
  done (foldl or_byte insn (zip (byte_indices i num_chars) cp)).
