(* ===== verification/IsaLookup.v ===== *)
(** * ISA library: lookups

    The sorted name tables [xtensa_isa_init] builds and the searches over
    them: the comparison is a total preorder, [bsearch] finds an entry exactly
    when one is there, and the lookups by name and by number return an entity
    with that name or number, or the documented error. *)

From Stdlib Require Import Ascii.
From S2P Require Import Prelude Isa.

(** ** The comparison *)

Lemma lex_compare_range l1 l2 : lex_compare l1 l2 = -1 \/ lex_compare l1 l2 = 0 \/ lex_compare l1 l2 = 1.
Proof.
  revert l2. induction l1 as [|x l1 IH]; intros [|y l2]; simpl; auto.
  destruct (x <? y); auto. destruct (y <? x); auto.
Qed.

Lemma lex_compare_opp l1 l2 : lex_compare l2 l1 = - lex_compare l1 l2.
Proof.
  revert l2. induction l1 as [|x l1 IH]; intros [|y l2]; simpl; try done.
  destruct (Z.ltb_spec x y), (Z.ltb_spec y x); try lia; done.
Qed.

Lemma lex_compare_eq l1 l2 : lex_compare l1 l2 = 0 <-> l1 = l2.
Proof.
  revert l2. induction l1 as [|x l1 IH]; intros [|y l2]; simpl; try done.
  destruct (Z.ltb_spec x y), (Z.ltb_spec y x); try lia.
  - split; [done|]. intros [= -> ->]. lia.
  - split; [done|]. intros [= -> ->]. lia.
  - rewrite IH. assert (x = y) as -> by lia. split; [by intros ->|by intros [= ->]].
Qed.

Lemma lex_compare_trans l1 l2 l3 :
  lex_compare l1 l2 <= 0 -> lex_compare l2 l3 <= 0 -> lex_compare l1 l3 <= 0.
Proof.
  revert l2 l3. induction l1 as [|x l1 IH]; intros [|y l2] [|z l3]; simpl; try lia.
  destruct (Z.ltb_spec x y), (Z.ltb_spec y x), (Z.ltb_spec y z), (Z.ltb_spec z y),
    (Z.ltb_spec x z), (Z.ltb_spec z x); try lia; eauto.
Qed.

#[global] Instance name_le_trans : Transitive name_le.
Proof. intros e1 e2 e3. apply lex_compare_trans. Qed.
#[global] Instance name_le_total : Total name_le.
Proof.
  intros e1 e2. unfold name_le, xtensa_isa_name_compare, strcasecmp.
  rewrite (lex_compare_opp (lower_bytes (le_key e1))). lia.
Qed.

Lemma name_compare_opp e1 e2 : xtensa_isa_name_compare e2 e1 = - xtensa_isa_name_compare e1 e2.
Proof. apply lex_compare_opp. Qed.

(** An entry equal to the key stays equal across entries that compare equal. *)
Lemma name_lt_trans e1 e2 e3 :
  xtensa_isa_name_compare e1 e2 < 0 -> name_le e2 e3 -> xtensa_isa_name_compare e1 e3 < 0.
Proof.
  intros H1 H2. assert (H3 : name_le e1 e3) by (etransitivity; [|exact H2]; unfold name_le; lia).
  unfold name_le in *. destruct (Z.eq_dec (xtensa_isa_name_compare e1 e3) 0) as [E|]; [|lia].
  exfalso. assert (name_le e3 e1) by (unfold name_le; rewrite name_compare_opp; lia).
  assert (name_le e2 e1) by (by etransitivity). unfold name_le in *.
  pose proof (name_compare_opp e1 e2). lia.
Qed.

(** ** Binary search *)

#[local] Arguments Nat.div : simpl never.

Section bsearch.
Context (key : xtensa_lookup_entry) (t : list xtensa_lookup_entry).
Hypothesis Hsorted : StronglySorted name_le t.

Lemma sorted_lookup i j ei ej :
  (i < j)%nat -> t !! i = Some ei -> t !! j = Some ej -> name_le ei ej.
Proof.
  revert i j. induction Hsorted as [|e t' Hs IH Hall]; intros i j Hij Hi Hj; [done|].
  destruct j as [|j]; [lia|]. simpl in Hj. destruct i as [|i].
  - simpl in Hi. injection Hi as ->. rewrite Forall_lookup in Hall. eauto.
  - simpl in Hi. eapply IH; [done| |exact Hi|exact Hj]. lia.
Qed.

Lemma bsearch_range_spec fuel lo hi :
  (hi - lo < fuel)%nat -> (hi <= length t)%nat ->
  (forall k e, (k < lo)%nat -> t !! k = Some e -> xtensa_isa_name_compare key e <> 0) ->
  (forall k e, (hi <= k)%nat -> t !! k = Some e -> xtensa_isa_name_compare key e <> 0) ->
  match bsearch_range fuel key t lo hi with
  | Some e => e ∈ t /\ xtensa_isa_name_compare key e = 0
  | None => forall e, e ∈ t -> xtensa_isa_name_compare key e <> 0
  end.
Proof.
  revert lo hi. induction fuel as [|fuel IH]; intros lo hi Hf Hlen Hlo Hhi; [lia|]. simpl.
  destruct (Nat.leb_spec hi lo).
  { intros e He. apply list_elem_of_lookup in He as [k Hk].
    destruct (decide (k < lo)%nat); [by eapply Hlo|]. eapply Hhi; [|done]. lia. }
  set (mid := ((lo + hi) / 2)%nat).
  assert (Hmid : (lo <= mid < hi)%nat)
    by (unfold mid; split; [apply Nat.div_le_lower_bound|apply Nat.Div0.div_lt_upper_bound]; lia).
  clearbody mid. destruct (lookup_lt_is_Some_2 t mid ltac:(lia)) as [em Hem]. rewrite Hem.
  destruct (Z.ltb_spec (xtensa_isa_name_compare key em) 0).
  { apply IH; [lia|lia|done|]. intros k e Hk He.
    destruct (decide (k = mid)) as [->|]; [by simplify_eq; lia|].
    assert (Hlt : xtensa_isa_name_compare key e < 0)
      by (apply (name_lt_trans _ em); [done|eapply sorted_lookup; [|done..]; lia]). lia. }
  destruct (Z.ltb_spec 0 (xtensa_isa_name_compare key em)).
  { apply IH; [lia|lia| |done]. intros k e Hk He E.
    destruct (decide (k = mid)) as [->|]; [by simplify_eq; lia|].
    assert (Hle : name_le e em) by (eapply sorted_lookup; [|done..]; lia).
    assert (Hlt : name_le key em)
      by (etransitivity; [|exact Hle]; unfold name_le; lia). unfold name_le in Hlt. lia. }
  split; [by eapply list_elem_of_lookup_2|lia].
Qed.

Lemma bsearch_spec :
  match bsearch key t with
  | Some e => e ∈ t /\ xtensa_isa_name_compare key e = 0
  | None => forall e, e ∈ t -> xtensa_isa_name_compare key e <> 0
  end.
Proof.
  apply bsearch_range_spec; [lia|lia|lia|]. intros k e Hk He.
  apply lookup_lt_Some in He. lia.
Qed.

End bsearch.

(** The entries of the table of a list of names. *)
Lemma names_table_elem names e :
  e ∈ names_table names <->
  exists n name, names !! n = Some name /\ e = mkEntry name (Z.of_nat n).
Proof.
  unfold names_table, qsort_by_name. rewrite merge_sort_Permutation, list_elem_of_lookup. split.
  - intros [n Hn]. rewrite list_lookup_imap in Hn.
    destruct (names !! n) as [name|] eqn:E; [|done]. injection Hn as <-. eauto.
  - intros (n & name & Hn & ->). exists n. by rewrite list_lookup_imap, Hn.
Qed.

(** What a lookup by name returns in state [st], for the list [names]: the
    number of a name equal to [name] up to case, or the error. *)
Definition lookup_spec (names : list string) (e : xtensa_isa_status) (what : string)
    (lookup : option string -> isaM Z) (st : IsaState) : Prop :=
  forall name,
    (null_or_empty name = true /\
     lookup name st = (XTENSA_UNDEFINED, set_error e ("invalid " +:+ what +:+ " name") st)) \/
    (exists key, name = Some key /\ key <> EmptyString /\
     ((exists n found, names !! n = Some found /\ strcasecmp key found = 0 /\
         lookup name st = (Z.of_nat n, st)) \/
      ((forall found, found ∈ names -> strcasecmp key found <> 0) /\
       lookup name st = (XTENSA_UNDEFINED,
         set_error e (what +:+ " " +:+ quoted key +:+ " not recognized") st)))).

Lemma lookup_by_name_spec {A} (names : list string) (l : xtensa_isa_internal -> list A)
    (name_of : A -> string) table e what st :
  table (isa st) = Some (names_table names) -> names = name_of <$> l (isa st) ->
  lookup_spec names e what (lookup_by_name table (fun i => count (l i)) e what) st.
Proof.
  intros Ht Hn name. unfold lookup_by_name. destruct (null_or_empty name) eqn:E; [by left|].
  right. destruct name as [[|c key]|]; [done| |done]. exists (String c key).
  split; [done|]. split; [done|]. simpl. unfold ibind, intisa. rewrite Ht. simpl.
  assert (Hsearch := bsearch_spec (mkEntry (String c key) 0) (names_table names)
                       (StronglySorted_merge_sort name_le _)).
  assert (Hres : (if count (l (isa st)) =? 0 then None
                  else bsearch (mkEntry (String c key) 0) (names_table names))
                 = bsearch (mkEntry (String c key) 0) (names_table names)).
  { destruct (Z.eqb_spec (count (l (isa st))) 0) as [E0|]; [|done].
    assert (names = []) as ->; [|done]. rewrite Hn. unfold count in E0.
    destruct (l (isa st)); [done|]. simpl in E0. lia. }
  rewrite Hres. destruct (bsearch _ _) as [r|].
  - left. destruct Hsearch as [Hin Hc]. apply names_table_elem in Hin as (n & found & Hn' & ->).
    exists n, found. done.
  - right. split; [|done]. intros found Hin E0. apply list_elem_of_lookup in Hin as [n Hn'].
    apply (Hsearch (mkEntry found (Z.of_nat n))); [|done]. apply names_table_elem. eauto.
Qed.

(** ** Set-up *)

(** A module whose tables [xtensa_isa_init] filled. *)
Record isa_ready (i0 i : xtensa_isa_internal) : Prop := {
  rd_opcodes : opcodes i = opcodes i0;
  rd_opname : opname_lookup_table i = Some (names_table (opc_name <$> opcodes i0));
  rd_states : states i = states i0;
  rd_state : state_lookup_table i = Some (names_table (st_name <$> states i0));
  rd_sysregs : sysregs i = sysregs i0;
  rd_sysreg : sysreg_lookup_table i = Some (names_table (sreg_name <$> sysregs i0));
  rd_interfaces : interfaces i = interfaces i0;
  rd_interface : interface_lookup_table i = Some (names_table (intf_name <$> interfaces i0));
  rd_funcUnits : funcUnits i = funcUnits i0;
  rd_funcUnit : funcUnit_lookup_table i = Some (names_table (fu_name <$> funcUnits i0));
  rd_max : max_sysreg_num i = max_sysreg_num i0;
  rd_numbers : sysreg_table i =
    foldl enter_sysreg
      (setZ (setZ (sysreg_table i0) 0 (Some (empty_sysreg_table i0 0))) 1
         (Some (empty_sysreg_table i0 1))) (imap pair (sysregs i0));
  rd_buf : insnbuf_size i = (insn_size i0 + 3) / 4;
  rd_insn_size : insn_size i = insn_size i0;
  rd_endian : is_big_endian i = is_big_endian i0;
  rd_formats : formats i = formats i0;
  rd_format_decode : format_decode_fn i = format_decode_fn i0;
  rd_length_decode : length_decode_fn i = length_decode_fn i0;
  rd_slots : slots i = slots i0;
  rd_operands : operands i = operands i0;
  rd_iclasses : iclasses i = iclasses i0;
  rd_stages : num_stages i = XTENSA_UNDEFINED;
}.

Lemma isa_init_ready malloc st st' :
  xtensa_isa_init malloc st = (true, st') ->
  isa_ready (isa st) (isa st') /\ xtisa_errno st' = xtisa_errno st.
Proof.
  unfold xtensa_isa_init, ibind, intisa, CHECK_ALLOC_FOR_INIT, fail, done.
  repeat (destruct (malloc _); [|done]). intros [= <-]. split; [|done].
  split; try reflexivity. simpl. f_equal. lia.
Qed.

(** ** Register numbers *)

Definition sysreg_matches (num is_user : Z) (sreg : xtensa_sysreg_internal) : Prop :=
  sreg_number sreg = num /\ sreg_is_user sreg = is_user.
#[global] Instance sysreg_matches_dec num is_user sreg : Decision (sysreg_matches num is_user sreg).
Proof. unfold sysreg_matches. apply _. Defined.

(** What the number tables of a module must hold: two kinds, and every number
    within the bound of its kind. *)
Class WfSysregs (i : xtensa_isa_internal) : Prop := {
  wf_two_tables : length (sysreg_table i) = 2%nat;
  wf_max_num : forall u, 0 <= u < 2 -> -1 <= index (max_sysreg_num i) u;
  wf_sysreg : forall sreg, sreg ∈ sysregs i ->
    0 <= sreg_is_user sreg < 2 /\ sreg_number sreg <= index (max_sysreg_num i) (sreg_is_user sreg);
}.

(** The index of the last register of a list that matches. *)
Definition last_match (num u : Z) (l : list (nat * xtensa_sysreg_internal)) (acc : Z) : Z :=
  foldl (fun acc nr => if decide (sysreg_matches num u (snd nr)) then Z.of_nat (fst nr) else acc)
    acc l.

(** The number tables as they are read. *)
Definition table_at (tables : list (option (list Z))) (u num : Z) : Z :=
  nthZ (default [] (mjoin (tables !! Z.to_nat u))) num.

Section numbers.
Context (i0 : xtensa_isa_internal) `{!WfSysregs i0}.

(** Both tables exist and have the size of their kind. *)
Definition tables_ok (tables : list (option (list Z))) : Prop :=
  length tables = 2%nat /\
  forall u, 0 <= u < 2 -> exists t, tables !! Z.to_nat u = Some (Some t) /\
    Z.of_nat (length t) = index (max_sysreg_num i0) u + 1.

Lemma enter_sysreg_spec tables n sreg :
  tables_ok tables -> sreg ∈ sysregs i0 ->
  tables_ok (enter_sysreg tables (n, sreg)) /\
  forall u num, 0 <= u < 2 -> 0 <= num ->
    table_at (enter_sysreg tables (n, sreg)) u num =
      if decide (sysreg_matches num u sreg) then Z.of_nat n else table_at tables u num.
Proof.
  intros [Hlen Hok] Hin. destruct (wf_sysreg sreg Hin) as [Hu Hnum]. unfold enter_sysreg.
  destruct (Z.leb_spec 0 (sreg_number sreg)); [|by split; [done|]; intros; rewrite decide_False by (unfold sysreg_matches; lia)].
  destruct (Hok _ Hu) as (t & Ht & Hlt). unfold setZ at 1 3. rewrite Ht. simpl. split.
  - split; [by rewrite length_insert|]. intros u Hu'.
    destruct (decide (u = sreg_is_user sreg)) as [->|].
    + rewrite list_lookup_insert_eq by lia. eexists. split; [done|].
      unfold setZ. by rewrite length_insert.
    + rewrite list_lookup_insert_ne by lia. by apply Hok.
  - intros u num Hu' Hn. unfold table_at.
    destruct (decide (u = sreg_is_user sreg)) as [->|].
    + rewrite list_lookup_insert_eq, Ht by lia. simpl. unfold nthZ, setZ.
      destruct (decide (num = sreg_number sreg)) as [->|].
      * rewrite decide_True by done. by rewrite list_lookup_total_insert_eq by lia.
      * rewrite decide_False by (by intros [? ?]).
        by rewrite list_lookup_total_insert_ne by lia.
    + rewrite list_lookup_insert_ne by lia.
      by rewrite decide_False by (by intros [? ?]).
Qed.

Lemma enter_all_spec l tables :
  tables_ok tables -> (forall nr, nr ∈ l -> snd nr ∈ sysregs i0) ->
  tables_ok (foldl enter_sysreg tables l) /\
  forall u num, 0 <= u < 2 -> 0 <= num ->
    table_at (foldl enter_sysreg tables l) u num = last_match num u l (table_at tables u num).
Proof.
  revert tables. induction l as [|[n sreg] l IH]; intros tables Hok Hin; [done|]. simpl.
  destruct (enter_sysreg_spec tables n sreg Hok) as [Hok' Hat]; [apply (Hin (n, sreg)); by left|].
  destruct (IH (enter_sysreg tables (n, sreg)) Hok') as [Hok'' Hat'].
  { intros nr Hnr. apply Hin. by right. }
  split; [done|]. intros u num Hu Hn. rewrite Hat', Hat by done. done.
Qed.

End numbers.

(** The register a number table holds is the last one entered. *)
Lemma last_match_spec num u (l : list xtensa_sysreg_internal) acc :
  (exists n sreg, l !! n = Some sreg /\ sysreg_matches num u sreg /\
     (forall n' sreg', (n < n')%nat -> l !! n' = Some sreg' -> ~ sysreg_matches num u sreg') /\
     last_match num u (imap pair l) acc = Z.of_nat n) \/
  ((forall sreg, sreg ∈ l -> ~ sysreg_matches num u sreg) /\
   last_match num u (imap pair l) acc = acc).
Proof.
  induction l as [|sreg l IH] using rev_ind; [right; split; [|done]; intros ? Hin; inversion Hin|].
  unfold last_match in *. rewrite imap_app, foldl_app. simpl. rewrite Nat.add_0_r.
  destruct (decide (sysreg_matches num u sreg)) as [Hm|Hm].
  - left. exists (length l), sreg. rewrite list_lookup_middle by done. split; [done|].
    split; [done|]. split; [|done]. intros n' sreg' Hn' Hl. apply lookup_lt_Some in Hl.
    rewrite length_app in Hl. simpl in Hl. lia.
  - destruct IH as [(n & sr & Hl & Hsm & Hlast & E)|[Hno E]]; rewrite E.
    + left. exists n, sr. split; [by apply lookup_app_l_Some|]. split; [done|]. split; [|done].
      intros n' sreg' Hn' Hl'. apply lookup_app_Some in Hl' as [Hl'|[Hle Hl']]; [by eapply Hlast|].
      apply list_lookup_singleton_Some in Hl' as [_ <-]. done.
    + right. split; [|done]. intros sr. rewrite elem_of_app, list_elem_of_singleton.
      intros [Hin| ->]; [by apply Hno|done].
Qed.

Lemma empty_tables_ok i0 `{!WfSysregs i0} :
  let tables := setZ (setZ (sysreg_table i0) 0 (Some (empty_sysreg_table i0 0))) 1
                  (Some (empty_sysreg_table i0 1)) in
  tables_ok i0 tables /\
  forall u num, 0 <= u < 2 -> 0 <= num <= index (max_sysreg_num i0) u ->
    table_at tables u num = XTENSA_UNDEFINED.
Proof.
  pose proof wf_two_tables as H2. destruct (sysreg_table i0) as [|a [|b [|]]] eqn:E; try done.
  assert (Hu : forall u, 0 <= u < 2 -> u = 0 \/ u = 1) by lia. split.
  - split; [done|]. intros u Hr. pose proof (wf_max_num u Hr) as Hm.
    destruct (Hu u Hr) as [-> | ->]; (eexists; split; [reflexivity|]);
      unfold empty_sysreg_table; rewrite length_replicate; lia.
  - intros u num Hr Hn. unfold table_at.
    destruct (Hu u Hr) as [-> | ->]; simpl; unfold nthZ, empty_sysreg_table;
      rewrite list_lookup_total_alt, lookup_replicate_2 by lia; done.
Qed.

(** ** Claims *)

(** After [xtensa_isa_init] succeeds, each of the five lookups by name
    returns a number whose entity has that name up to case when there is one,
    and otherwise [XTENSA_UNDEFINED] with the error code and message of its
    kind; a null or empty name is rejected. *)
Theorem isa_lookup_correct (malloc : Z -> option insnbuf) (st st' : IsaState) :
  xtensa_isa_init malloc st = (true, st') ->
  lookup_spec (opc_name <$> opcodes (isa st)) xtensa_isa_bad_opcode "opcode"
    xtensa_opcode_lookup st' /\
  lookup_spec (st_name <$> states (isa st)) xtensa_isa_bad_state "state" xtensa_state_lookup st' /\
  lookup_spec (sreg_name <$> sysregs (isa st)) xtensa_isa_bad_sysreg "sysreg"
    xtensa_sysreg_lookup_name st' /\
  lookup_spec (intf_name <$> interfaces (isa st)) xtensa_isa_bad_interface "interface"
    xtensa_interface_lookup st' /\
  lookup_spec (fu_name <$> funcUnits (isa st)) xtensa_isa_bad_funcUnit "functional unit"
    xtensa_funcUnit_lookup st'.
Proof.
  intros Hi. apply isa_init_ready in Hi as [[] _].
  split; [|split; [|split; [|split]]]; (eapply lookup_by_name_spec; [eassumption|]);
    by f_equal.
Qed.

(** After [xtensa_isa_init], [xtensa_sysreg_lookup] returns the last
    system register entered under that number and kind, and
    [XTENSA_UNDEFINED] with [xtensa_isa_bad_sysreg] when there is none. *)
Theorem sysreg_lookup_correct (malloc : Z -> option insnbuf) (st st' : IsaState) (num is_user : Z) :
  WfSysregs (isa st) -> xtensa_isa_init malloc st = (true, st') ->
  let kind := if is_user =? 0 then 0 else 1 in
  (exists n sreg, sysregs (isa st) !! n = Some sreg /\ 0 <= num /\ sysreg_matches num kind sreg /\
     (forall n' sreg', (n < n')%nat -> sysregs (isa st) !! n' = Some sreg' ->
        ~ sysreg_matches num kind sreg') /\
     xtensa_sysreg_lookup num is_user st' = (Z.of_nat n, st')) \/
  ((num < 0 \/ forall sreg, sreg ∈ sysregs (isa st) -> ~ sysreg_matches num kind sreg) /\
   xtensa_sysreg_lookup num is_user st' =
     (XTENSA_UNDEFINED, set_error xtensa_isa_bad_sysreg "sysreg not recognized" st')).
Proof.
  intros Hwf Hi kind. apply isa_init_ready in Hi as [[] _].
  unfold xtensa_sysreg_lookup, ibind, intisa. rewrite rd_max0, rd_numbers0.
  assert (Hk : (if negb (is_user =? 0) then 1 else is_user) = kind)
    by (unfold kind; destruct (Z.eqb_spec is_user 0); done).
  rewrite Hk. assert (Hkr : 0 <= kind < 2) by (unfold kind; destruct (is_user =? 0); lia).
  clearbody kind. destruct (Z.ltb_spec num 0); [right; split; [by left|done]|].
  destruct (Z.ltb_spec (index (max_sysreg_num (isa st)) kind) num).
  { right. split; [|done]. right. intros sreg Hin [H1 H2].
    destruct (wf_sysreg sreg Hin) as [_ Hb]. rewrite H1, H2 in Hb. lia. }
  destruct (empty_tables_ok (isa st)) as [Hok Hempty].
  destruct (enter_all_spec (isa st) (imap pair (sysregs (isa st))) _ Hok) as [_ Hat].
  { intros nr Hnr. apply elem_of_lookup_imap_1 in Hnr as (n & sreg & -> & Hl).
    by eapply list_elem_of_lookup_2. }
  simpl. fold (table_at (foldl enter_sysreg
    (setZ (setZ (sysreg_table (isa st)) 0 (Some (empty_sysreg_table (isa st) 0))) 1
       (Some (empty_sysreg_table (isa st) 1))) (imap pair (sysregs (isa st)))) kind num).
  rewrite Hat, Hempty by lia.
  destruct (last_match_spec num kind (sysregs (isa st)) XTENSA_UNDEFINED)
    as [(n & sreg & Hl & Hm & Hlast & E)|[Hno E]]; rewrite E.
  - left. exists n, sreg. rewrite (proj2 (Z.eqb_neq _ _)) by lia. done.
  - right. by split; [right|].
Qed.

(** Entity numbers and names round-trip: after [xtensa_isa_init], looking
    up the name of any opcode returns that opcode, when the mnemonics are not
    empty and differ by more than case. *)
Theorem opcode_name_roundtrip (malloc : Z -> option insnbuf) (st st' : IsaState) (opc : Z) :
  xtensa_isa_init malloc st = (true, st') -> 0 <= opc < count (opcodes (isa st)) ->
  Forall (fun o => opc_name o <> EmptyString) (opcodes (isa st)) ->
  NoDup ((fun o => lower_bytes (opc_name o)) <$> opcodes (isa st)) ->
  exists name, xtensa_opcode_name opc st' = (Some name, st') /\
               xtensa_opcode_lookup (Some name) st' = (opc, st').
Proof.
  intros Hi Ho Hne Hnd. apply isa_init_ready in Hi as [[] _]. unfold count in Ho.
  destruct (lookup_lt_is_Some_2 (opcodes (isa st)) (Z.to_nat opc) ltac:(lia)) as [o Hl].
  exists (opc_name o). rewrite Forall_lookup in Hne. specialize (Hne _ _ Hl).
  assert (Hn : opc_name <$> opcodes (isa st) = opc_name <$> opcodes (isa st')) by by rewrite rd_opcodes0.
  split.
  - unfold xtensa_opcode_name, CHECK_OPCODE, CHECK, with_isa, ibind, intisa, out_of_range, count.
    rewrite rd_opcodes0, (proj2 (Z.ltb_ge _ _)), (proj2 (Z.leb_gt _ _)) by lia. simpl.
    unfold index. by rewrite rd_opcodes0, (list_lookup_total_correct _ _ _ Hl).
  - destruct (lookup_by_name_spec _ opcodes opc_name opname_lookup_table xtensa_isa_bad_opcode
      "opcode" st' rd_opname0 Hn (Some (opc_name o)))
      as [[Hnull _]|(key & [= <-] & _ & [(n & found & Hf & Hc & Hr)|[Hno _]])].
    + destruct (opc_name o); done.
    + unfold xtensa_opcode_lookup. rewrite Hr. f_equal.
      apply list_lookup_fmap_Some in Hf as (o' & -> & Hf).
      apply lex_compare_eq in Hc. enough (n = Z.to_nat opc) by lia.
      apply (NoDup_lookup _ _ _ (lower_bytes (opc_name o)) Hnd);
        rewrite list_lookup_fmap; [by rewrite Hf, Hc|by rewrite Hl].
    + exfalso. apply (Hno (opc_name o)); [|by apply lex_compare_eq].
      apply list_elem_of_fmap. exists o. split; [done|]. by eapply list_elem_of_lookup_2.
Qed.

(** ** Witnesses *)

(** A module with three opcodes, two special registers and one user register. *)
Definition sample_isa : xtensa_isa_internal :=
  mkIsa false 3 0 [] (fun _ => 0) (fun _ => 3) [] 0 [] []
    [mkOpcode "l32i" 0 0 [] []; mkOpcode "ADD" 0 0 [] [mkUse 0 4]; mkOpcode "retw.n" 0 2 [] []]
    None [] [mkState "PSRING" 2 0] None
    [mkSysreg "SAR" 3 0; mkSysreg "THREADPTR" 231 1; mkSysreg "MMID" (-1) 0; mkSysreg "PS" 230 0]
    None [255; 255] [None; None] [] None [] None 0.
Definition sample_state : IsaState := mkIsaState sample_isa xtensa_isa_ok EmptyString None.
Definition grant (n : Z) : option insnbuf := Some [].
Definition sample_ready : IsaState := (xtensa_isa_init grant sample_state).2.

Lemma isa_lookup_correct_witness :
  xtensa_isa_init grant sample_state = (true, sample_ready) /\
  xtensa_opcode_lookup (Some "add"%string) sample_ready = (1, sample_ready) /\
  lookup_spec ["l32i"; "ADD"; "retw.n"]%string xtensa_isa_bad_opcode "opcode"
    xtensa_opcode_lookup sample_ready.
Proof.
  split; [vm_compute; reflexivity|]. split; [vm_compute; reflexivity|].
  apply (isa_lookup_correct grant sample_state sample_ready). vm_compute. reflexivity.
Defined.

Lemma sample_wf_sysregs : WfSysregs sample_isa.
Proof.
  split; [done| |].
  - intros u Hu. assert (Hc : u = 0 \/ u = 1) by lia. by destruct Hc as [-> | ->].
  - intros sreg Hin. simpl in Hin. rewrite !elem_of_cons in Hin.
    destruct Hin as [->|[->|[->|[->|Hin]]]]; [vm_compute; intuition congruence..|].
    by apply not_elem_of_nil in Hin.
Qed.

Lemma sysreg_lookup_correct_witness :
  xtensa_sysreg_lookup 231 1 sample_ready = (1, sample_ready) /\
  (exists n sreg, sysregs sample_isa !! n = Some sreg /\ sysreg_matches 231 1 sreg).
Proof.
  split; [vm_compute; reflexivity|].
  destruct (sysreg_lookup_correct grant sample_state sample_ready 231 1 sample_wf_sysregs)
    as [(n & sreg & H1 & _ & H2 & _)|[[H|H] _]].
  - vm_compute. reflexivity.
  - by exists n, sreg.
  - lia.
  - exists 1%nat, (mkSysreg "THREADPTR" 231 1). by split.
Defined.

Lemma opcode_name_roundtrip_witness :
  exists name, xtensa_opcode_name 2 sample_ready = (Some name, sample_ready) /\
               xtensa_opcode_lookup (Some name) sample_ready = (2, sample_ready).
Proof.
  apply (opcode_name_roundtrip grant sample_state sample_ready 2).
  - vm_compute. reflexivity.
  - vm_compute. split; congruence.
  - repeat constructor; discriminate.
  - apply (bool_decide_unpack _). vm_compute. exact I.
Defined.

(** The first call of [xtensa_isa_num_pipe_stages] stores the number of stages
    but returns the number of states; later calls return the stored number. *)
Lemma pipe_stages_first_call (st : IsaState) :
  num_stages (isa st) = XTENSA_UNDEFINED ->
  let '(first, st1) := xtensa_isa_num_pipe_stages st in
  first = count (states (isa st)) /\
  xtensa_isa_num_pipe_stages st1 = (max_use_stage (isa st) + 1, st1).
Proof.
  assert (Huses : forall (us : list xtensa_funcUnit_use) m, -1 <= m ->
    -1 <= foldl (fun m u => if m <? use_stage u then use_stage u else m) m us).
  { induction us as [|u us IH]; intros m Hm; [done|]. simpl. apply IH.
    destruct (Z.ltb_spec m (use_stage u)); lia. }
  assert (Hmax : -1 <= max_use_stage (isa st)).
  { unfold max_use_stage. assert (Hge : -1 <= -1) by lia. revert Hge. generalize (-1) at 2 4.
    induction (opcodes (isa st)) as [|o l IH]; intros m Hm; [done|]. simpl. apply IH. by apply Huses. }
  intros Hs. unfold xtensa_isa_num_pipe_stages at 1. rewrite Hs. simpl. split; [done|].
  unfold xtensa_isa_num_pipe_stages. simpl. rewrite (proj2 (Z.eqb_neq _ _)) by lia. done.
Qed.
