(* ===== verification/IsaCodec.v ===== *)
(** * ISA library: instruction bytes and operands

    The conversions between instruction buffers and byte streams are inverse
    to each other for either endianness, and encoding an operand is undone by
    decoding it.  What the library relies on in a module's own decoders is the
    class [WfDecoders]. *)

From Stdlib Require Import Ascii.
From S2P Require Import Prelude Isa.

#[local] Open Scope mach_scope.

(** ** Bytes of a buffer *)

Lemma insn_byte_testbit insn b m :
  0 <= m -> 0 <= b ->
  Z.testbit (insn_byte insn b) m = (m <? 8) && Z.testbit (nthZ insn (b / 4)) (m + 8 * (b mod 4)).
Proof.
  intros Hm Hb. unfold insn_byte, byte_to_word_index, byte_to_bit_index.
  change 0xff with (2 ^ 8 - 1). change 0x3 with (2 ^ 2 - 1).
  rewrite !land_ones_mod by lia. destruct (Z.ltb_spec m 8).
  - rewrite Z.mod_pow2_bits_low, Z.shiftr_spec by lia. by rewrite (Z.mul_comm _ 8).
  - by rewrite Z.mod_pow2_bits_high by lia.
Qed.

Definition wf_buf (insn : insnbuf) : Prop := Forall in32 insn.

Lemma wf_buf_nth insn k : wf_buf insn -> in32 (nthZ insn k).
Proof.
  intros H. unfold nthZ. destruct (insn !! Z.to_nat k) as [w|] eqn:E.
  - rewrite (list_lookup_total_correct _ _ _ E). by eapply Forall_lookup in H.
  - rewrite list_lookup_total_alt, E. unfold in32. simpl. lia.
Qed.

(** The bytes determine a buffer. *)
Lemma buf_ext insn insn' :
  wf_buf insn -> wf_buf insn' -> length insn = length insn' ->
  (forall b, 0 <= b < 4 * Z.of_nat (length insn) -> insn_byte insn b = insn_byte insn' b) ->
  insn = insn'.
Proof.
  intros H H' Hl Hb. apply list_eq_same_length with (length insn); [done|done|].
  intros k w w' Hk Ew Ew'.
  assert (Hw : w = nthZ insn (Z.of_nat k))
    by (unfold nthZ; by rewrite Nat2Z.id, (list_lookup_total_correct _ _ _ Ew)).
  assert (Hw' : w' = nthZ insn' (Z.of_nat k))
    by (unfold nthZ; by rewrite Nat2Z.id, (list_lookup_total_correct _ _ _ Ew')).
  subst w w'. apply Z.bits_inj'. intros m Hm.
  destruct (Z.ltb_spec m 32).
  2: { rewrite !in32_testbit; try done; by apply wf_buf_nth. }
  pose proof (Z.div_mod m 8). pose proof (Z.mod_pos_bound m 8).
  assert (0 <= m / 8 < 4) by (split; [apply Z.div_pos|apply Z.div_lt_upper_bound]; lia).
  set (b := 4 * Z.of_nat k + m / 8). assert (Hbr : 0 <= b < 4 * Z.of_nat (length insn)) by lia.
  specialize (Hb b Hbr). apply (f_equal (fun x => Z.testbit x (m mod 8))) in Hb.
  rewrite !insn_byte_testbit in Hb by lia.
  assert (Hq : b / 4 = Z.of_nat k) by (unfold b; rewrite Z.add_comm, Z.mul_comm, Z.div_add, Z.div_small; lia).
  assert (Hr : b mod 4 = m / 8) by (unfold b; rewrite Z.add_comm, Z.mul_comm, Z_mod_plus_full; apply Z.mod_small; lia).
  rewrite Hq, Hr, (proj2 (Z.ltb_lt (m mod 8) 8)) in Hb by lia. simpl in Hb.
  by replace m with (m mod 8 + 8 * (m / 8)) by lia.
Qed.

Lemma or_byte_spec insn b c :
  wf_buf insn -> 0 <= b < 4 * Z.of_nat (length insn) -> 0 <= c < 256 ->
  let insn' := or_byte insn (b, c) in
  wf_buf insn' /\ length insn' = length insn /\
  forall j, 0 <= j ->
    insn_byte insn' j = if j =? b then insn_byte insn b ||| c else insn_byte insn j.
Proof.
  intros Hw Hb Hc insn'.
  assert (Hq : 0 <= b / 4 < Z.of_nat (length insn))
    by (split; [apply Z.div_pos|apply Z.div_lt_upper_bound]; lia).
  pose proof (Z.mod_pos_bound b 4).
  assert (Hc8 : forall k, 8 <= k -> Z.testbit c k = false)
    by (intros k Hk; apply (testbit_above 8); lia).
  unfold insn', or_byte, byte_to_word_index, byte_to_bit_index, setZ.
  change 0x3 with (2 ^ 2 - 1). change 0xff with (2 ^ 8 - 1). rewrite !land_ones_mod by lia.
  rewrite (Z.mod_small c) by lia. split; [|split].
  - apply Forall_insert; [done|]. apply in32_lor; [by apply wf_buf_nth|apply in32_lsl32].
  - apply length_insert.
  - intros j Hj. pose proof (Z.mod_pos_bound j 4). pose proof (Z.div_mod j 4). pose proof (Z.div_mod b 4).
    assert (Hnth : nthZ (<[Z.to_nat (b / 4) := nthZ insn (b / 4) ||| lsl32 c (b mod 2 ^ 2 * 8)]> insn)
              (j / 4) = if j / 4 =? b / 4 then nthZ insn (b / 4) ||| lsl32 c (b mod 2 ^ 2 * 8)
                        else nthZ insn (j / 4)).
    { unfold nthZ. destruct (Z.eqb_spec (j / 4) (b / 4)) as [->|].
      - by rewrite list_lookup_total_insert_eq by lia.
      - rewrite list_lookup_total_insert_ne; [done|].
        assert (0 <= j / 4) by (apply Z.div_pos; lia). lia. }
    apply Z.bits_inj'. intros m Hm. destruct (Z.eqb_spec j b) as [->|Hne].
    + rewrite Z.lor_spec, !insn_byte_testbit, Hnth, Z.eqb_refl, Z.lor_spec, lsl32_testbit by lia.
      change (2 ^ 2) with 4. replace (m + 8 * (b mod 4) - b mod 4 * 8) with m by lia.
      destruct (Z.ltb_spec m 8); simpl; [|by rewrite Hc8].
      by rewrite (proj2 (Z.ltb_lt _ 32)) by lia.
    + rewrite !insn_byte_testbit, Hnth by lia.
      destruct (Z.eqb_spec (j / 4) (b / 4)) as [E|]; [|done].
      rewrite Z.lor_spec, lsl32_testbit, E by lia. change (2 ^ 2) with 4.
      destruct (Z.ltb_spec m 8); [|done]. simpl.
      assert (Hz : Z.testbit c (m + 8 * (j mod 4) - b mod 4 * 8) = false).
      { destruct (Z.ltb_spec (m + 8 * (j mod 4) - b mod 4 * 8) 0); [by apply Z.testbit_neg_r|].
        apply Hc8. lia. }
      by rewrite Hz, andb_false_r, orb_false_r.
Qed.

#[local] Arguments or_byte : simpl never.

(** The buffer after a run of bytes was or'ed into zeroed positions. *)
Lemma or_bytes_spec (l : list (Z * Z)) insn :
  wf_buf insn -> NoDup l.*1 ->
  (forall b c, (b, c) ∈ l -> 0 <= b < 4 * Z.of_nat (length insn) /\ 0 <= c < 256 /\
                             insn_byte insn b = 0) ->
  let insn' := foldl or_byte insn l in
  wf_buf insn' /\ length insn' = length insn /\
  (forall b c, (b, c) ∈ l -> insn_byte insn' b = c) /\
  (forall j, 0 <= j -> j ∉ l.*1 -> insn_byte insn' j = insn_byte insn j).
Proof.
  revert insn. induction l as [|[b c] l IH]; intros insn Hw Hnd Hl; simpl.
  { split; [done|]. split; [done|]. split; [|done]. intros b c Hin. by apply not_elem_of_nil in Hin. }
  apply NoDup_cons in Hnd as [Hnb Hnd]. simpl in Hnb.
  destruct (Hl b c) as (Hb & Hc & Hz); [by left|].
  destruct (or_byte_spec insn b c Hw Hb Hc) as (Hw' & Hlen & Hbyte).
  destruct (IH (or_byte insn (b, c)) Hw' Hnd) as (Hw2 & Hlen2 & Hin2 & Hout2).
  { intros b' c' Hin. destruct (Hl b' c') as (Hb' & Hc' & Hz'); [by right|].
    rewrite Hlen, Hbyte by lia. split; [done|]. split; [done|].
    rewrite (proj2 (Z.eqb_neq b' b)); [done|]. intros ->. apply Hnb. apply list_elem_of_fmap.
    by exists (b, c'). }
  split; [done|]. split; [congruence|]. split.
  - intros b' c' Hin. apply elem_of_cons in Hin as [[= -> ->]|Hin]; [|by apply Hin2].
    rewrite Hout2, Hbyte, Z.eqb_refl, Hz by (done || lia). done.
  - intros j Hj Hnj. apply not_elem_of_cons in Hnj as [Hne Hnj]. simpl in Hne.
    rewrite Hout2, Hbyte by done. by rewrite (proj2 (Z.eqb_neq j b)).
Qed.

Lemma zero_buf_byte n b : 0 <= b < 4 * Z.of_nat n -> insn_byte (replicate n 0) b = 0.
Proof.
  intros Hb. unfold insn_byte, nthZ, byte_to_word_index.
  assert (0 <= b / 4 < Z.of_nat n) by (split; [apply Z.div_pos|apply Z.div_lt_upper_bound]; lia).
  rewrite (list_lookup_total_correct _ _ 0), Z.shiftr_0_l; [done|]. apply lookup_replicate_2. lia.
Qed.

Lemma zero_buf_wf n : wf_buf (replicate n 0).
Proof. apply Forall_replicate. unfold in32. lia. Qed.

(** ** Positions *)

(** The sizes of an initialised module. *)
Class WfSizes (i : xtensa_isa_internal) : Prop := {
  wf_insn_size : 0 < insn_size i;
  wf_buf_size : insnbuf_size i = (insn_size i + 3) / 4;
}.

Section positions.
Context (i : xtensa_isa_internal) `{!WfSizes i} (n : Z).
Hypothesis Hn : 0 <= n <= insn_size i.

(** The position of byte [k] of the stream. *)
Definition byte_pos (k : Z) : Z := if is_big_endian i then insn_size i - 1 - k else k.

Lemma byte_indices_alt : byte_indices i n = byte_pos <$> seqZ 0 n.
Proof.
  unfold byte_indices, byte_pos. destruct (is_big_endian i); apply list_fmap_ext; intros; lia.
Qed.

Lemma byte_indices_length : length (byte_indices i n) = Z.to_nat n.
Proof. rewrite byte_indices_alt, length_fmap. apply length_seqZ. Qed.

Lemma byte_indices_nodup : NoDup (byte_indices i n).
Proof.
  rewrite byte_indices_alt. apply NoDup_fmap_2; [|apply NoDup_seqZ].
  intros x y. unfold byte_pos. destruct (is_big_endian i); lia.
Qed.

Lemma byte_indices_elem b : b ∈ byte_indices i n -> 0 <= b < insn_size i.
Proof.
  rewrite byte_indices_alt. intros Hin. apply list_elem_of_fmap in Hin as (k & -> & Hk).
  apply elem_of_seqZ in Hk. unfold byte_pos. destruct (is_big_endian i); lia.
Qed.

Lemma buf_holds b :
  0 <= b < insn_size i -> 0 <= b < 4 * Z.of_nat (length (replicate (Z.to_nat (insnbuf_size i)) 0)).
Proof.
  intros Hb. rewrite length_replicate, wf_buf_size.
  pose proof wf_insn_size. pose proof (Z.div_mod (insn_size i + 3) 4).
  pose proof (Z.mod_pos_bound (insn_size i + 3) 4). lia.
Qed.

(** Reading [n] bytes of [cp] into a buffer. *)
Lemma load_bytes_spec cp :
  Forall (fun c => 0 <= c < 256) cp -> n <= Z.of_nat (length cp) ->
  let insn := foldl or_byte (replicate (Z.to_nat (insnbuf_size i)) 0) (zip (byte_indices i n) cp) in
  wf_buf insn /\ Z.of_nat (length insn) = insnbuf_size i /\
  insn_byte insn <$> byte_indices i n = take (Z.to_nat n) cp /\
  (forall j, 0 <= j < 4 * insnbuf_size i -> j ∉ byte_indices i n -> insn_byte insn j = 0).
Proof.
  intros Hcp Hlen.
  assert (Hs : 0 <= insnbuf_size i)
    by (rewrite wf_buf_size; pose proof wf_insn_size; apply Z.div_pos; lia).
  assert (Hfst : (zip (byte_indices i n) cp).*1 = byte_indices i n)
    by (apply fst_zip; rewrite byte_indices_length; lia).
  destruct (or_bytes_spec (zip (byte_indices i n) cp) (replicate (Z.to_nat (insnbuf_size i)) 0))
    as (Hw & Hl & Hin & Hout).
  - apply zero_buf_wf.
  - rewrite Hfst. apply byte_indices_nodup.
  - intros b c Hbc. split; [|split].
    + apply buf_holds, byte_indices_elem. by apply elem_of_zip_l in Hbc.
    + apply elem_of_zip_r in Hbc. by eapply Forall_forall in Hcp.
    + apply zero_buf_byte. apply elem_of_zip_l, byte_indices_elem, buf_holds in Hbc.
      by rewrite length_replicate in Hbc.
  - rewrite Hfst in Hout. split; [done|]. split.
    { by rewrite Hl, length_replicate, Z2Nat.id. }
    split; [|intros j Hj Hnj; rewrite Hout by (done || lia); apply zero_buf_byte; lia].
    apply list_eq. intros k. rewrite list_lookup_fmap.
    destruct (decide (k < Z.to_nat n)%nat) as [Hk|Hk].
    + destruct (lookup_lt_is_Some_2 (byte_indices i n) k) as [b Eb];
        [by rewrite byte_indices_length|].
      destruct (lookup_lt_is_Some_2 cp k) as [c Ec]; [lia|].
      rewrite Eb, lookup_take_lt, Ec by done. simpl. f_equal. apply Hin.
      apply (list_elem_of_lookup_2 _ k). apply lookup_zip_with_Some. by exists b, c.
    + rewrite lookup_ge_None_2, lookup_take_ge by (rewrite ?byte_indices_length; lia). done.
Qed.

End positions.

(** ** What the library relies on in the decoders of a module *)

(** The buffer [xtensa_insnbuf_from_chars] makes of [n] bytes. *)
Definition load_chars (i : xtensa_isa_internal) (n : Z) (cp : list Z) : insnbuf :=
  foldl or_byte (replicate (Z.to_nat (insnbuf_size i)) 0) (zip (byte_indices i n) cp).

Definition decoded_length (i : xtensa_isa_internal) (insn : insnbuf) : Z :=
  fmt_length (index (formats i) (format_decode_fn i insn)).

(** A decoded format exists and fits the buffer, and the length found from the
    bytes of an instruction is the length of its format. *)
Class WfDecoders (i : xtensa_isa_internal) : Prop := {
  wf_format : forall insn, format_decode_fn i insn <> XTENSA_UNDEFINED ->
    0 <= format_decode_fn i insn < count (formats i) /\ 0 < decoded_length i insn <= insn_size i;
  wf_length_of_insn : forall insn, wf_buf insn -> Z.of_nat (length insn) = insnbuf_size i ->
    format_decode_fn i insn <> XTENSA_UNDEFINED ->
    length_decode_fn i (insn_byte insn <$> byte_indices i (decoded_length i insn))
      = decoded_length i insn;
  wf_format_of_chars : forall cp, Forall (fun c => 0 <= c < 256) cp ->
    length_decode_fn i cp <> XTENSA_UNDEFINED -> length_decode_fn i cp <= Z.of_nat (length cp) ->
    let insn := load_chars i (length_decode_fn i cp) cp in
    format_decode_fn i insn <> XTENSA_UNDEFINED /\ decoded_length i insn = length_decode_fn i cp;
}.

Section codec.
Context (st : IsaState) `{!WfSizes (isa st)} `{!WfDecoders (isa st)}.

(** [xtensa_insnbuf_to_chars] on an instruction with a format. *)
Lemma to_chars_spec insn num_chars :
  format_decode_fn (isa st) insn <> XTENSA_UNDEFINED ->
  xtensa_insnbuf_to_chars insn num_chars st =
    let n := decoded_length (isa st) insn in
    if (num_chars =? 0) || (n <=? num_chars)
    then ((n, insn_byte insn <$> byte_indices (isa st) n), st)
    else ((XTENSA_UNDEFINED, []),
          set_error xtensa_isa_buffer_overflow "output buffer too small for instruction" st).
Proof.
  intros Hf. destruct (wf_format insn Hf) as [Hr Hl]. cbv zeta.
  unfold xtensa_insnbuf_to_chars, xtensa_isa_maxlength, xtensa_format_decode, xtensa_format_length,
    CHECK_FORMAT, CHECK, with_isa, ibind, intisa, done, fail.
  rewrite (proj2 (Z.eqb_neq _ _) Hf). simpl. rewrite (proj2 (Z.eqb_neq _ _) Hf).
  unfold out_of_range.
  rewrite (proj2 (Z.ltb_ge (format_decode_fn (isa st) insn) 0)),
    (proj2 (Z.leb_gt (count (formats (isa st))) (format_decode_fn (isa st) insn))) by lia. simpl.
  fold (decoded_length (isa st) insn).
  rewrite (proj2 (Z.eqb_neq (decoded_length (isa st) insn) (-1))) by lia.
  destruct (Z.eqb_spec num_chars 0); simpl.
  - by rewrite (proj2 (Z.ltb_ge _ _)) by lia.
  - destruct (Z.leb_spec (decoded_length (isa st) insn) num_chars).
    + by rewrite (proj2 (Z.ltb_ge _ _)).
    + by rewrite (proj2 (Z.ltb_lt _ _)).
Qed.

Lemma from_chars_spec cp :
  length_decode_fn (isa st) cp <> XTENSA_UNDEFINED ->
  xtensa_insnbuf_from_chars cp 0 st = (load_chars (isa st) (length_decode_fn (isa st) cp) cp, st).
Proof.
  intros Hl. unfold xtensa_insnbuf_from_chars, ibind, intisa, done.
  by rewrite (proj2 (Z.eqb_neq _ _) Hl).
Qed.

End codec.

(** [get_operand] leaves the error state alone when it finds the operand. *)
Lemma get_operand_found st st1 opc opnd o :
  get_operand opc opnd st = (Some o, st1) ->
  st1 = st /\ forall st2, isa st2 = isa st -> get_operand opc opnd st2 = (Some o, st2).
Proof.
  unfold get_operand, CHECK_OPCODE, CHECK_OPERAND, CHECK, with_isa, ibind, intisa, done, fail.
  destruct (out_of_range opc _) eqn:E1; [done|]. destruct (out_of_range opnd _) eqn:E2; [done|].
  intros [= <- <-]. split; [done|]. intros st2 E. rewrite E, E1. simpl. rewrite E, E2. simpl.
  by rewrite E.
Qed.

(** A default operand accepts a value that survives the field. *)
Lemma encode_default_accepts malloc o val v st st' :
  encode_default malloc o val st = ((0, v), st') ->
  v = val /\ isa st' = isa st /\
  exists get_fn set_fn buf, find_field_fns (slots (isa st)) (field_id o) = Some (get_fn, set_fn) /\
    get_fn (set_fn buf val) = val.
Proof.
  assert (Hrest : forall buf s, isa s = isa st ->
    (if field_id o =? XTENSA_UNDEFINED
     then fail xtensa_isa_internal_error "operand has no field" (-1, val) s
     else match find_field_fns (slots (isa s)) (field_id o) with
          | Some (get_fn, set_fn) =>
              let buf := set_fn buf val in
              ((b2z (negb (get_fn buf =? val)), val), set_tmpbuf (Some buf) s)
          | None => fail xtensa_isa_no_field "field does not exist in any slot" (-1, val) s
          end) = ((0, v), st') ->
    v = val /\ isa st' = isa st /\
    exists get_fn set_fn buf, find_field_fns (slots (isa st)) (field_id o) = Some (get_fn, set_fn) /\
      get_fn (set_fn buf val) = val).
  { intros buf s Hs. destruct (field_id o =? XTENSA_UNDEFINED); [done|]. rewrite Hs.
    destruct (find_field_fns _ _) as [[g f]|]; [|done]. intros [= Eb <- <-].
    split; [done|]. split; [done|]. exists g, f, buf. split; [done|].
    destruct (Z.eqb_spec (g (f buf val)) val); done. }
  unfold encode_default. destruct (tmpbuf st) as [b|]; [by apply Hrest|].
  unfold xtensa_insnbuf_alloc, xtensa_insnbuf_size, ibind, intisa, done.
  destruct (malloc _) as [b|]; [by apply Hrest|done].
Qed.

(** ** Claims *)

(** Bytes to buffer and back, for either endianness: reading an
    instruction of [n] bytes from a stream and writing it out again produces
    the same [n] bytes and the error state is untouched; a buffer too small
    for it writes nothing and reports [xtensa_isa_buffer_overflow]. *)
Theorem insn_bytes_roundtrip (st : IsaState) (cp : list Z) (num_chars : Z) :
  WfSizes (isa st) -> WfDecoders (isa st) -> Forall (fun c => 0 <= c < 256) cp ->
  let n := length_decode_fn (isa st) cp in
  n <> XTENSA_UNDEFINED -> n <= Z.of_nat (length cp) ->
  exists insn, xtensa_insnbuf_from_chars cp 0 st = (insn, st) /\
    xtensa_insnbuf_to_chars insn num_chars st =
      if (num_chars =? 0) || (n <=? num_chars) then ((n, take (Z.to_nat n) cp), st)
      else ((XTENSA_UNDEFINED, []),
            set_error xtensa_isa_buffer_overflow "output buffer too small for instruction" st).
Proof.
  intros Hs Hd Hcp n Hn Hlen. exists (load_chars (isa st) n cp).
  destruct (wf_format_of_chars cp Hcp Hn Hlen) as [Hf Hl].
  destruct (wf_format _ Hf) as [_ Hb]. rewrite Hl in Hb. fold n in Hl, Hb.
  split; [by apply from_chars_spec|]. rewrite (to_chars_spec st) by done. cbv zeta. fold n in Hl.
  rewrite Hl. destruct (load_bytes_spec (isa st) n ltac:(lia) cp Hcp Hlen) as (_ & _ & Hbytes & _).
  unfold load_chars. by rewrite Hbytes.
Qed.

(** Buffer to bytes and back: writing out an instruction and reading the
    bytes yields a buffer with the same bytes in the instruction's positions
    and zero elsewhere, so a buffer that holds nothing else is restored. *)
Theorem insn_buffer_roundtrip (st : IsaState) (insn : insnbuf) :
  WfSizes (isa st) -> WfDecoders (isa st) ->
  wf_buf insn -> Z.of_nat (length insn) = insnbuf_size (isa st) ->
  format_decode_fn (isa st) insn <> XTENSA_UNDEFINED ->
  let n := decoded_length (isa st) insn in
  exists cp insn', xtensa_insnbuf_to_chars insn 0 st = ((n, cp), st) /\
    xtensa_insnbuf_from_chars cp 0 st = (insn', st) /\
    (forall b, 0 <= b < 4 * insnbuf_size (isa st) ->
       insn_byte insn' b = if decide (b ∈ byte_indices (isa st) n) then insn_byte insn b else 0) /\
    ((forall b, 0 <= b < 4 * insnbuf_size (isa st) -> b ∉ byte_indices (isa st) n ->
        insn_byte insn b = 0) -> insn' = insn).
Proof.
  intros Hs Hd Hw Hlen Hf n. set (cp := insn_byte insn <$> byte_indices (isa st) n).
  pose proof (wf_length_of_insn insn Hw Hlen Hf) as Hdec. fold n in Hdec. fold cp in Hdec.
  destruct (wf_format insn Hf) as [_ Hb]. fold n in Hb.
  exists cp, (load_chars (isa st) n cp).
  split; [by rewrite (to_chars_spec st)|]. split.
  { rewrite (from_chars_spec st); rewrite Hdec; [done|]. lia. }
  destruct (load_bytes_spec (isa st) n ltac:(lia) cp) as (Hw' & Hl' & Hin & Hout).
  { apply Forall_fmap, Forall_forall. intros b _. simpl. unfold insn_byte.
    change 0xff with (2 ^ 8 - 1). rewrite land_ones_mod by lia. by apply Z.mod_pos_bound. }
  { unfold cp. rewrite length_fmap, byte_indices_length by lia. lia. }
  fold (load_chars (isa st) n cp) in *.
  assert (Hbytes : forall b, 0 <= b < 4 * insnbuf_size (isa st) ->
    insn_byte (load_chars (isa st) n cp) b =
      if decide (b ∈ byte_indices (isa st) n) then insn_byte insn b else 0).
  { intros b Hbr. case_decide as Hd'; [|by apply Hout].
    apply list_elem_of_lookup in Hd' as [k Hk].
    apply (f_equal (fun l => l !! k)) in Hin. rewrite list_lookup_fmap, Hk in Hin.
    rewrite lookup_take_lt in Hin.
    - unfold cp in Hin. rewrite list_lookup_fmap, Hk in Hin. by injection Hin.
    - apply lookup_lt_Some in Hk. by rewrite byte_indices_length in Hk by lia. }
  split; [done|]. intros Hz. apply buf_ext; [done|done|lia|]. intros b Hbr. rewrite Hl' in Hbr.
  rewrite Hbytes by done. case_decide; [done|]. symmetry. by apply Hz.
Qed.

(** A value that [xtensa_operand_encode] accepts is recovered by
    [xtensa_operand_decode] from the encoded value, and decoding raises no
    error; for an operand without an encoding function the value is its own
    encoding and fits the field. *)
Theorem operand_encode_decode (malloc : Z -> option insnbuf) (st st' : IsaState)
    (opc opnd val v : Z) :
  (forall o, (get_operand opc opnd st).1 = Some o -> opnd_encode o = None -> opnd_decode o = None) ->
  xtensa_operand_encode malloc opc opnd val st = ((0, v), st') ->
  xtensa_operand_decode opc opnd v st' = ((0, val), st') /\
  (forall o, (get_operand opc opnd st).1 = Some o -> opnd_encode o = None ->
     v = val /\ exists get_fn set_fn buf, find_field_fns (slots (isa st)) (field_id o) = Some (get_fn, set_fn)
       /\ get_fn (set_fn buf val) = val).
Proof.
  intros Hpair Henc. unfold xtensa_operand_encode, with_operand, ibind in Henc.
  destruct (get_operand opc opnd st) as [[o|] st1] eqn:Eo; [|done].
  destruct (get_operand_found st st1 opc opnd o Eo) as [-> Hsame].
  simpl in Hpair. specialize (Hpair o eq_refl). simpl.
  destruct (opnd_encode o) as [enc|] eqn:Ee.
  - destruct (enc val) as [r w]. destruct (call_immed (opnd_decode o) w) as [r' t] eqn:Ed.
    destruct (truthy r || truthy r' || negb (t =? val)) eqn:Eb; [done|]. injection Henc as <- <-.
    apply orb_false_iff in Eb as [Eb Et]. apply orb_false_iff in Eb as [_ Er'].
    apply negb_false_iff, Z.eqb_eq in Et as ->. split; [|intros o' [= <-]; congruence].
    unfold xtensa_operand_decode, with_operand, ibind. rewrite Eo.
    destruct (opnd_decode o) as [dec_|]; simpl in Ed; [|by injection Ed as <- ->].
    by rewrite Ed, Er'.
  - destruct (encode_default_accepts malloc o val v st st' Henc) as (-> & Hisa & Hfns).
    split; [|intros o' [= <-] _; done].
    unfold xtensa_operand_decode, with_operand, ibind. rewrite (Hsame st' Hisa), Hpair by done. done.
Qed.

(** *** Decoders of the first byte

    The decoders of a little-endian module of one word whose format and length are
    found from the first byte of an instruction. *)

Record byte_decoders (size : Z) (fmts : list xtensa_format_internal) (decoder : insnbuf -> Z) (table : list Z)
    (i : xtensa_isa_internal) : Prop := {
  bd_endian : is_big_endian i = false;
  bd_insn_size : insn_size i = size;
  bd_buf_size : insnbuf_size i = 1;
  bd_formats : formats i = fmts;
  bd_format_decode : format_decode_fn i = decoder;
  bd_length_decode : length_decode_fn i = fun insn => nthZ table (nthZ insn 0);
}.

(** Formats and lengths agree on a first byte. *)
Definition byte_agrees (size : Z) (fmts : list xtensa_format_internal) (decoder : insnbuf -> Z) (table : list Z) (b : Z) : bool :=
  let f := decoder [b] in let n := fmt_length (index fmts f) in
  if f =? XTENSA_UNDEFINED then nthZ table b =? XTENSA_UNDEFINED
  else (0 <=? f) && (f <? count fmts) && (2 <=? n) && (n <=? size) && (nthZ table b =? n).

Section first_byte.
Context (size : Z) (fmts : list xtensa_format_internal) (decoder : insnbuf -> Z) (table : list Z).
Hypothesis Hsize : 0 < size <= 4.
Hypothesis Hagree : forallb (byte_agrees size fmts decoder table) (seqZ 0 256) = true.
Hypothesis Hbyte : forall w ws, decoder (w :: ws) = decoder [w &&& 0xff].
Hypothesis Hnil : decoder [] = decoder [1].
Context (i : xtensa_isa_internal) (Hi : byte_decoders size fmts decoder table i).

Lemma first_byte_range w : 0 <= w &&& 0xff < 256.
Proof. change 0xff with (2 ^ 8 - 1). rewrite land_ones_mod by lia. by apply Z.mod_pos_bound. Qed.

Lemma byte_wf_sizes : WfSizes i.
Proof.
  clear Hagree.
  destruct Hi as [_ H1 H2 _ _ _]. split; [lia|]. rewrite H1, H2.
  assert (Hc : size = 1 \/ size = 2 \/ size = 3 \/ size = 4) by lia. by destruct Hc as [->|[->|[->| ->]]].
Qed.

Lemma byte_cases b : 0 <= b < 256 ->
  (decoder [b] = XTENSA_UNDEFINED /\ nthZ table b = XTENSA_UNDEFINED) \/
  (decoder [b] <> XTENSA_UNDEFINED /\ 0 <= decoder [b] < count fmts /\
   nthZ table b = fmt_length (index fmts (decoder [b])) /\ 2 <= nthZ table b <= size).
Proof.
  intros Hb. pose proof Hagree as H. rewrite forallb_forall in H. specialize (H b).
  rewrite <- list_elem_of_In, elem_of_seqZ in H. specialize (H ltac:(lia)). unfold byte_agrees in H.
  destruct (Z.eqb_spec (decoder [b]) XTENSA_UNDEFINED); lia.
Qed.

Lemma byte_decoded_length w ws : decoded_length i (w :: ws) = fmt_length (index fmts (decoder [w &&& 0xff])).
Proof. unfold decoded_length. destruct Hi as [_ _ _ -> -> _]. by rewrite Hbyte. Qed.

Lemma byte_wf_format insn : format_decode_fn i insn <> XTENSA_UNDEFINED ->
  0 <= format_decode_fn i insn < count (formats i) /\ 2 <= decoded_length i insn <= insn_size i.
Proof.
  unfold decoded_length. destruct Hi as [_ -> _ -> -> _].
  assert (Hb : exists b, 0 <= b < 256 /\ decoder insn = decoder [b]).
  { destruct insn as [|w ws]; [by exists 1|]. exists (w &&& 0xff). split; [apply first_byte_range|apply Hbyte]. }
  destruct Hb as (b & Hb & ->). destruct (byte_cases b Hb) as [[? _]|(? & ? & ? & ?)]; [done|]. lia.
Qed.

Lemma byte_wf_decoders : WfDecoders i.
Proof.
  pose proof byte_wf_sizes as Hwf. pose proof (bd_endian _ _ _ _ _ Hi) as He.
  pose proof (bd_buf_size _ _ _ _ _ Hi) as Hb. pose proof (bd_insn_size _ _ _ _ _ Hi) as Hs. split.
  - intros insn Hn. destruct (byte_wf_format insn Hn). lia.
  - intros insn Hw Hlen Hn. destruct (byte_wf_format insn Hn) as [_ Hl].
    rewrite (bd_format_decode _ _ _ _ _ Hi) in Hn. rewrite (bd_length_decode _ _ _ _ _ Hi).
    destruct insn as [|w ws]; [simpl in Hlen; lia|]. rewrite Hbyte in Hn. rewrite byte_decoded_length in Hl |- *.
    destruct (byte_cases _ (first_byte_range w)) as [[? _]|(_ & _ & Hd & _)]; [done|].
    rewrite byte_indices_alt. unfold byte_pos. rewrite He, seqZ_cons by lia. rewrite <- Hd. f_equal.
  - intros cp Hcp Hn Hlen. cbv zeta. rewrite (bd_length_decode _ _ _ _ _ Hi) in *.
    set (n := nthZ table (nthZ cp 0)) in *.
    destruct cp as [|c cp].
    { assert (E : n = nthZ table 1) by reflexivity. clearbody n. subst n. destruct (byte_cases 1 ltac:(lia)) as [[_ ?]|(_ & _ & _ & ?)]; simpl in Hlen; lia. }
    assert (Hc : 0 <= c < 256) by (by inversion Hcp). assert (Hnc : n = nthZ table c) by done.
    destruct (byte_cases c Hc) as [[_ ?]|(Hu & _ & Hd & Hr)]; [congruence|]. rewrite <- Hnc in Hd, Hr. clearbody n.
    destruct (load_bytes_spec i n ltac:(lia) (c :: cp) Hcp Hlen) as (Hw & Hbl & Hbytes & _).
    fold (load_chars i n (c :: cp)) in Hw, Hbl, Hbytes.
    destruct (load_chars i n (c :: cp)) as [|w ws]; [simpl in Hbl; lia|].
    assert (Hcw : w &&& 0xff = c).
    { rewrite byte_indices_alt in Hbytes. unfold byte_pos in Hbytes. rewrite He in Hbytes.
      rewrite seqZ_cons in Hbytes by lia. replace (Z.to_nat n) with (S (Z.to_nat (n - 1))) in Hbytes by lia.
      simpl in Hbytes. injection Hbytes as Hb0 _. exact Hb0. }
    rewrite byte_decoded_length, (bd_format_decode _ _ _ _ _ Hi), Hbyte, Hcw. done.
Qed.
End first_byte.
