(* ===== verification/Esp32s3Isa.v ===== *)
(** * The ESP32-S3 instruction set module ([core-esp32s3/xtensa-modules.inc.c])

    The instruction formats, the two decoders and the operand functions of the
    module the ESP32-S3 core gives to the ISA library.  The decoders satisfy
    what the library relies on ([WfDecoders]), every immediate operand's
    encoding inverts its decoding on every field value, and the PC-relative
    conversions are inverse to each other. *)

From Stdlib Require Import Ascii.
From S2P Require Import Prelude Isa IsaLookup IsaCodec.

#[local] Open Scope mach_scope.

(** [((int) x << n) >> n] *)
Definition sx (n x : Z) : Z := s32 (lsl32 x n) >>> n.

(** ** Operand functions *)

Definition CONST_TBL_ai4c_0 : list Z :=
  [0xffffffff; 1; 2; 3; 4; 5; 6; 7; 8; 9; 0xa; 0xb; 0xc; 0xd; 0xe; 0xf; 0].

Definition CONST_TBL_b4c_0 : list Z :=
  [0xffffffff; 1; 2; 3; 4; 5; 6; 7; 8; 0xa; 0xc; 0x10; 0x20; 0x40; 0x80; 0x100; 0].

Definition CONST_TBL_b4cu_0 : list Z :=
  [0x8000; 0x10000; 2; 3; 4; 5; 6; 7; 8; 0xa; 0xc; 0x10; 0x20; 0x40; 0x80; 0x100; 0].

Definition OperandSem_opnd_sem_MR_0_decode (v : Z) : Z * Z := (0, u32 (v + 2)).

Definition OperandSem_opnd_sem_MR_0_encode (v : Z) : Z * Z :=
  (b2z (negb ((v &&& not32 0x3) =? 0) || ((v &&& 0x2) =? 0)), v &&& 1).

Definition OperandSem_opnd_sem_soffsetx4_decode (v : Z) : Z * Z :=
  let x := v &&& 0x3ffff in (0, u32 (0x4 + (Z.shiftl (sx 14 x) 2))).

Definition OperandSem_opnd_sem_soffsetx4_encode (v : Z) : Z * Z :=
  (0, ((u32 (v - 0x4)) >>> 2) &&& 0x3ffff).

Definition OperandSem_opnd_sem_uimm12x8_decode (v : Z) : Z * Z :=
  let x := v &&& 0xfff in (0, lsl32 x 3).

Definition OperandSem_opnd_sem_uimm12x8_encode (v : Z) : Z * Z := (0, (v >>> 3) &&& 0xfff).

Definition OperandSem_opnd_sem_simm4_decode (v : Z) : Z * Z :=
  let x := v &&& 0xf in (0, u32 (sx 28 x)).

Definition OperandSem_opnd_sem_simm4_encode (v : Z) : Z * Z := (0, v &&& 0xf).

Definition OperandSem_opnd_sem_AR_decode (v : Z) : Z * Z := (0, v).

Definition OperandSem_opnd_sem_AR_encode (v : Z) : Z * Z := (b2z (64 <=? v), v).

Definition OperandSem_opnd_sem_AR_0_decode (v : Z) : Z * Z := (0, v).

Definition OperandSem_opnd_sem_AR_0_encode (v : Z) : Z * Z := (b2z (64 <=? v), v).

Definition OperandSem_opnd_sem_AR_1_decode (v : Z) : Z * Z := (0, v).

Definition OperandSem_opnd_sem_AR_1_encode (v : Z) : Z * Z := (b2z (64 <=? v), v).

Definition OperandSem_opnd_sem_AR_2_decode (v : Z) : Z * Z := (0, v).

Definition OperandSem_opnd_sem_AR_2_encode (v : Z) : Z * Z := (b2z (64 <=? v), v).

Definition OperandSem_opnd_sem_AR_3_decode (v : Z) : Z * Z := (0, v).

Definition OperandSem_opnd_sem_AR_3_encode (v : Z) : Z * Z := (b2z (64 <=? v), v).

Definition OperandSem_opnd_sem_AR_4_decode (v : Z) : Z * Z := (0, v).

Definition OperandSem_opnd_sem_AR_4_encode (v : Z) : Z * Z := (b2z (64 <=? v), v).

Definition OperandSem_opnd_sem_immrx4_decode (v : Z) : Z * Z :=
  let x := v &&& 0xf in (0, lsl32 ((lsl32 0xfffffff 4) ||| x) 2).

Definition OperandSem_opnd_sem_immrx4_encode (v : Z) : Z * Z := (0, (v >>> 2) &&& 0xf).

Definition OperandSem_opnd_sem_lsi4x4_decode (v : Z) : Z * Z :=
  let x := v &&& 0xf in (0, lsl32 x 2).

Definition OperandSem_opnd_sem_lsi4x4_encode (v : Z) : Z * Z := (0, (v >>> 2) &&& 0xf).

Definition OperandSem_opnd_sem_simm7_decode (v : Z) : Z * Z :=
  let x := v &&& 0x7f in
  (0, (lsl32 ((u32 (- (((x >>> 6) &&& 1) &&& ((x >>> 5) &&& 1)))) &&& 0x1ffffff) 7) ||| x).

Definition OperandSem_opnd_sem_simm7_encode (v : Z) : Z * Z := (0, v &&& 0x7f).

Definition OperandSem_opnd_sem_uimm6_decode (v : Z) : Z * Z :=
  let x := v &&& 0x3f in (0, u32 (0x4 + x)).

Definition OperandSem_opnd_sem_uimm6_encode (v : Z) : Z * Z := (0, (u32 (v - 0x4)) &&& 0x3f).

Definition OperandSem_opnd_sem_ai4const_decode (v : Z) : Z * Z :=
  let x := v &&& 0xf in (0, nthZ CONST_TBL_ai4c_0 (x &&& 0xf)).

Definition OperandSem_opnd_sem_ai4const_encode (v : Z) : Z * Z :=
  (0, if v =? 0xffffffff then 0
      else if v =? 0x1 then 0x1
      else if v =? 0x2 then 0x2
      else if v =? 0x3 then 0x3
      else if v =? 0x4 then 0x4
      else if v =? 0x5 then 0x5
      else if v =? 0x6 then 0x6
      else if v =? 0x7 then 0x7
      else if v =? 0x8 then 0x8
      else if v =? 0x9 then 0x9
      else if v =? 0xa then 0xa
      else if v =? 0xb then 0xb
      else if v =? 0xc then 0xc
      else if v =? 0xd then 0xd
      else if v =? 0xe then 0xe
      else 0xf).

Definition OperandSem_opnd_sem_b4const_decode (v : Z) : Z * Z :=
  let x := v &&& 0xf in (0, nthZ CONST_TBL_b4c_0 (x &&& 0xf)).

Definition OperandSem_opnd_sem_b4const_encode (v : Z) : Z * Z :=
  (0, if v =? 0xffffffff then 0
      else if v =? 0x1 then 0x1
      else if v =? 0x2 then 0x2
      else if v =? 0x3 then 0x3
      else if v =? 0x4 then 0x4
      else if v =? 0x5 then 0x5
      else if v =? 0x6 then 0x6
      else if v =? 0x7 then 0x7
      else if v =? 0x8 then 0x8
      else if v =? 0xa then 0x9
      else if v =? 0xc then 0xa
      else if v =? 0x10 then 0xb
      else if v =? 0x20 then 0xc
      else if v =? 0x40 then 0xd
      else if v =? 0x80 then 0xe
      else 0xf).

Definition OperandSem_opnd_sem_b4constu_decode (v : Z) : Z * Z :=
  let x := v &&& 0xf in (0, nthZ CONST_TBL_b4cu_0 (x &&& 0xf)).

Definition OperandSem_opnd_sem_b4constu_encode (v : Z) : Z * Z :=
  (0, if v =? 0x8000 then 0
      else if v =? 0x10000 then 0x1
      else if v =? 0x2 then 0x2
      else if v =? 0x3 then 0x3
      else if v =? 0x4 then 0x4
      else if v =? 0x5 then 0x5
      else if v =? 0x6 then 0x6
      else if v =? 0x7 then 0x7
      else if v =? 0x8 then 0x8
      else if v =? 0xa then 0x9
      else if v =? 0xc then 0xa
      else if v =? 0x10 then 0xb
      else if v =? 0x20 then 0xc
      else if v =? 0x40 then 0xd
      else if v =? 0x80 then 0xe
      else 0xf).

Definition OperandSem_opnd_sem_uimm8_decode (v : Z) : Z * Z :=
  let x := v &&& 0xff in (0, x).

Definition OperandSem_opnd_sem_uimm8_encode (v : Z) : Z * Z := (0, v &&& 0xff).

Definition OperandSem_opnd_sem_uimm8x2_decode (v : Z) : Z * Z :=
  let x := v &&& 0xff in (0, lsl32 x 1).

Definition OperandSem_opnd_sem_uimm8x2_encode (v : Z) : Z * Z := (0, (v >>> 1) &&& 0xff).

Definition OperandSem_opnd_sem_uimm8x4_decode (v : Z) : Z * Z :=
  let x := v &&& 0xff in (0, lsl32 x 2).

Definition OperandSem_opnd_sem_uimm8x4_encode (v : Z) : Z * Z := (0, (v >>> 2) &&& 0xff).

Definition OperandSem_opnd_sem_uimm4x16_decode (v : Z) : Z * Z :=
  let x := v &&& 0xf in (0, lsl32 x 4).

Definition OperandSem_opnd_sem_uimm4x16_encode (v : Z) : Z * Z := (0, (v >>> 4) &&& 0xf).

Definition OperandSem_opnd_sem_uimmrx4_decode (v : Z) : Z * Z :=
  let x := v &&& 0xf in (0, lsl32 x 2).

Definition OperandSem_opnd_sem_uimmrx4_encode (v : Z) : Z * Z := (0, (v >>> 2) &&& 0xf).

Definition OperandSem_opnd_sem_simm8_decode (v : Z) : Z * Z :=
  let x := v &&& 0xff in (0, u32 (sx 24 x)).

Definition OperandSem_opnd_sem_simm8_encode (v : Z) : Z * Z := (0, v &&& 0xff).

Definition OperandSem_opnd_sem_simm8x256_decode (v : Z) : Z * Z :=
  let x := v &&& 0xff in (0, u32 (Z.shiftl (sx 24 x) 8)).

Definition OperandSem_opnd_sem_simm8x256_encode (v : Z) : Z * Z := (0, (v >>> 8) &&& 0xff).

Definition OperandSem_opnd_sem_simm12b_decode (v : Z) : Z * Z :=
  let x := v &&& 0xfff in (0, u32 (sx 20 x)).

Definition OperandSem_opnd_sem_simm12b_encode (v : Z) : Z * Z := (0, v &&& 0xfff).

Definition OperandSem_opnd_sem_msalp32_decode (v : Z) : Z * Z :=
  let x := v &&& 0x1f in (0, u32 (0x20 - x)).

Definition OperandSem_opnd_sem_msalp32_encode (v : Z) : Z * Z := (0, (u32 (0x20 - v)) &&& 0x1f).

Definition OperandSem_opnd_sem_op2p1_decode (v : Z) : Z * Z :=
  let x := v &&& 0xf in (0, u32 (x + 0x1)).

Definition OperandSem_opnd_sem_op2p1_encode (v : Z) : Z * Z := (0, (u32 (v - 0x1)) &&& 0xf).

Definition OperandSem_opnd_sem_label8_decode (v : Z) : Z * Z :=
  let x := v &&& 0xff in (0, u32 (0x4 + (sx 24 x))).

Definition OperandSem_opnd_sem_label8_encode (v : Z) : Z * Z := (0, (u32 (v - 0x4)) &&& 0xff).

Definition OperandSem_opnd_sem_ulabel8_decode (v : Z) : Z * Z :=
  let x := v &&& 0xff in (0, u32 (0x4 + x)).

Definition OperandSem_opnd_sem_ulabel8_encode (v : Z) : Z * Z := (0, (u32 (v - 0x4)) &&& 0xff).

Definition OperandSem_opnd_sem_label12_decode (v : Z) : Z * Z :=
  let x := v &&& 0xfff in (0, u32 (0x4 + (sx 20 x))).

Definition OperandSem_opnd_sem_label12_encode (v : Z) : Z * Z := (0, (u32 (v - 0x4)) &&& 0xfff).

Definition OperandSem_opnd_sem_soffset_decode (v : Z) : Z * Z :=
  let x := v &&& 0x3ffff in (0, u32 (0x4 + (sx 14 x))).

Definition OperandSem_opnd_sem_soffset_encode (v : Z) : Z * Z := (0, (u32 (v - 0x4)) &&& 0x3ffff).

Definition OperandSem_opnd_sem_uimm16x4_decode (v : Z) : Z * Z :=
  let x := v &&& 0xffff in (0, lsl32 ((lsl32 0xffff 16) ||| x) 2).

Definition OperandSem_opnd_sem_uimm16x4_encode (v : Z) : Z * Z := (0, (v >>> 2) &&& 0xffff).

Definition OperandSem_opnd_sem_bbi_decode (v : Z) : Z * Z :=
  let x := v &&& 0x1f in (0, x).

Definition OperandSem_opnd_sem_bbi_encode (v : Z) : Z * Z := (0, v &&& 0x1f).

Definition OperandSem_opnd_sem_s_decode (v : Z) : Z * Z :=
  let x := v &&& 0xf in (0, x).

Definition OperandSem_opnd_sem_s_encode (v : Z) : Z * Z := (0, v &&& 0xf).

Definition OperandSem_opnd_sem_MR_decode (v : Z) : Z * Z := (0, v).

Definition OperandSem_opnd_sem_MR_encode (v : Z) : Z * Z := (b2z (4 <=? v), v).

Definition OperandSem_opnd_sem_MR_1_decode (v : Z) : Z * Z := (0, v).

Definition OperandSem_opnd_sem_MR_1_encode (v : Z) : Z * Z := (b2z (4 <=? v), v).

Definition OperandSem_opnd_sem_MR_2_decode (v : Z) : Z * Z := (0, v).

Definition OperandSem_opnd_sem_MR_2_encode (v : Z) : Z * Z := (b2z (4 <=? v), v).

Definition OperandSem_opnd_sem_MR_3_decode (v : Z) : Z * Z := (0, v).

Definition OperandSem_opnd_sem_MR_3_encode (v : Z) : Z * Z := (b2z (4 <=? v), v).

Definition OperandSem_opnd_sem_MR_4_decode (v : Z) : Z * Z := (0, v).

Definition OperandSem_opnd_sem_MR_4_encode (v : Z) : Z * Z := (b2z (4 <=? v), v).

Definition OperandSem_opnd_sem_MR_5_decode (v : Z) : Z * Z := (0, v).

Definition OperandSem_opnd_sem_MR_5_encode (v : Z) : Z * Z := (b2z (4 <=? v), v).

Definition OperandSem_opnd_sem_immt_decode (v : Z) : Z * Z :=
  let x := v &&& 0xf in (0, x).

Definition OperandSem_opnd_sem_immt_encode (v : Z) : Z * Z := (0, v &&& 0xf).

Definition OperandSem_opnd_sem_BR_decode (v : Z) : Z * Z := (0, v).

Definition OperandSem_opnd_sem_BR_encode (v : Z) : Z * Z := (b2z (16 <=? v), v).

Definition OperandSem_opnd_sem_BR2_decode (v : Z) : Z * Z := (0, lsl32 v 1).

Definition OperandSem_opnd_sem_BR2_encode (v : Z) : Z * Z :=
  (b2z ((16 <=? v) || negb ((v &&& 1) =? 0)), v >>> 1).

Definition OperandSem_opnd_sem_BR4_decode (v : Z) : Z * Z := (0, lsl32 v 2).

Definition OperandSem_opnd_sem_BR4_encode (v : Z) : Z * Z :=
  (b2z ((16 <=? v) || negb ((v &&& 3) =? 0)), v >>> 2).

Definition OperandSem_opnd_sem_BR8_decode (v : Z) : Z * Z := (0, lsl32 v 3).

Definition OperandSem_opnd_sem_BR8_encode (v : Z) : Z * Z :=
  (b2z ((16 <=? v) || negb ((v &&& 7) =? 0)), v >>> 3).

Definition OperandSem_opnd_sem_BR16_decode (v : Z) : Z * Z := (0, lsl32 v 4).

Definition OperandSem_opnd_sem_BR16_encode (v : Z) : Z * Z :=
  (b2z ((16 <=? v) || negb ((v &&& 15) =? 0)), v >>> 4).

Definition OperandSem_opnd_sem_tp7_decode (v : Z) : Z * Z :=
  let x := v &&& 0xf in (0, u32 (x + 0x7)).

Definition OperandSem_opnd_sem_tp7_encode (v : Z) : Z * Z := (0, (u32 (v - 0x7)) &&& 0xf).

Definition OperandSem_opnd_sem_xt_wbr15_label_decode (v : Z) : Z * Z :=
  let x := v &&& 0x7fff in (0, u32 (0x4 + (sx 17 x))).

Definition OperandSem_opnd_sem_xt_wbr15_label_encode (v : Z) : Z * Z :=
  (0, (u32 (v - 0x4)) &&& 0x7fff).

Definition OperandSem_opnd_sem_xt_wbr18_label_decode (v : Z) : Z * Z :=
  let x := v &&& 0x3ffff in (0, u32 (0x4 + (sx 14 x))).

Definition OperandSem_opnd_sem_xt_wbr18_label_encode (v : Z) : Z * Z :=
  (0, (u32 (v - 0x4)) &&& 0x3ffff).

Definition OperandSem_opnd_sem_FR_decode (v : Z) : Z * Z := (0, v).

Definition OperandSem_opnd_sem_FR_encode (v : Z) : Z * Z := (b2z (16 <=? v), v).

Definition OperandSem_opnd_sem_imm_t_decode (v : Z) : Z * Z :=
  let x := v &&& 0xf in (0, x).

Definition OperandSem_opnd_sem_imm_t_encode (v : Z) : Z * Z := (0, v &&& 0xf).

Definition OperandSem_opnd_sem_imm8x4_decode (v : Z) : Z * Z :=
  let x := v &&& 0xff in (0, lsl32 x 2).

Definition OperandSem_opnd_sem_imm8x4_encode (v : Z) : Z * Z := (0, (v >>> 2) &&& 0xff).

Definition OperandSem_opnd_sem_imm8x8_decode (v : Z) : Z * Z :=
  let x := v &&& 0xff in (0, lsl32 x 3).

Definition OperandSem_opnd_sem_imm8x8_encode (v : Z) : Z * Z := (0, (v >>> 3) &&& 0xff).

Definition OperandSem_opnd_sem_QR_decode (v : Z) : Z * Z := (0, v).

Definition OperandSem_opnd_sem_QR_encode (v : Z) : Z * Z := (b2z (8 <=? v), v).

Definition OperandSem_opnd_sem_opnd_semantic_LD_ST_imm16f_decode (v : Z) : Z * Z :=
  let x := v &&& 0xf in (0, u32 (Z.shiftl (sx 28 x) 4)).

Definition OperandSem_opnd_sem_opnd_semantic_LD_ST_imm16f_encode (v : Z) : Z * Z :=
  (0, (v >>> 4) &&& 0xf).

Definition OperandSem_opnd_sem_opnd_EE_SET_BIT_GPIO_OUT_mask_decode (v : Z) : Z * Z :=
  let x := v &&& 0xff in (0, x).

Definition OperandSem_opnd_sem_opnd_EE_SET_BIT_GPIO_OUT_mask_encode (v : Z) : Z * Z :=
  (0, v &&& 0xff).

Definition OperandSem_opnd_sem_opnd_semantic_LD_ST_imm2_decode (v : Z) : Z * Z :=
  let x := v &&& 0x7f in (0, lsl32 x 1).

Definition OperandSem_opnd_sem_opnd_semantic_LD_ST_imm2_encode (v : Z) : Z * Z :=
  (0, (v >>> 1) &&& 0x7f).

Definition OperandSem_opnd_sem_opnd_semantic_LD_ST_imm1_decode (v : Z) : Z * Z :=
  let x := v &&& 0x7f in (0, x).

Definition OperandSem_opnd_sem_opnd_semantic_LD_ST_imm1_encode (v : Z) : Z * Z := (0, v &&& 0x7f).

Definition OperandSem_opnd_sem_opnd_semantic_LD_ST_imm8_decode (v : Z) : Z * Z :=
  let x := v &&& 0xff in (0, u32 (Z.shiftl (sx 24 x) 3)).

Definition OperandSem_opnd_sem_opnd_semantic_LD_ST_imm8_encode (v : Z) : Z * Z :=
  (0, (v >>> 3) &&& 0xff).

Definition OperandSem_opnd_sem_opnd_semantic_LD_ST_imm16_decode (v : Z) : Z * Z :=
  let x := v &&& 0xff in (0, u32 (Z.shiftl (sx 24 x) 4)).

Definition OperandSem_opnd_sem_opnd_semantic_LD_ST_imm16_encode (v : Z) : Z * Z :=
  (0, (v >>> 4) &&& 0xff).

Definition OperandSem_opnd_sem_opnd_semantic_LD_ST_imm4_decode (v : Z) : Z * Z :=
  let x := v &&& 0xff in (0, u32 (Z.shiftl (sx 24 x) 2)).

Definition OperandSem_opnd_sem_opnd_semantic_LD_ST_imm4_encode (v : Z) : Z * Z :=
  (0, (v >>> 2) &&& 0xff).

Definition OperandSem_opnd_sem_opnd_semantic_LD_ST_sel8_decode (v : Z) : Z * Z :=
  let x := v &&& 0x7 in (0, x).

Definition OperandSem_opnd_sem_opnd_semantic_LD_ST_sel8_encode (v : Z) : Z * Z := (0, v &&& 0x7).

Definition OperandSem_opnd_sem_opnd_semantic_LD_ST_sel4_decode (v : Z) : Z * Z :=
  let x := v &&& 0x3 in (0, x).

Definition OperandSem_opnd_sem_opnd_semantic_LD_ST_sel4_encode (v : Z) : Z * Z := (0, v &&& 0x3).

Definition OperandSem_opnd_sem_opnd_semantic_CAL_DOUBLE_Q_imm16_decode (v : Z) : Z * Z :=
  let x := v &&& 0x3f in (0, u32 (Z.shiftl (sx 26 x) 4)).

Definition OperandSem_opnd_sem_opnd_semantic_CAL_DOUBLE_Q_imm16_encode (v : Z) : Z * Z :=
  (0, (v >>> 4) &&& 0x3f).

Definition OperandSem_opnd_sem_opnd_semantic_CAL_DOUBLE_Q_sel16_decode (v : Z) : Z * Z :=
  let x := v &&& 0xf in (0, x).

Definition OperandSem_opnd_sem_opnd_semantic_CAL_DOUBLE_Q_sel16_encode (v : Z) : Z * Z :=
  (0, v &&& 0xf).

Definition OperandSem_opnd_sem_opnd_semantic_SRCMB_QACC_sel2_decode (v : Z) : Z * Z :=
  let x := v &&& 0x1 in (0, x).

Definition OperandSem_opnd_sem_opnd_semantic_SRCMB_QACC_sel2_encode (v : Z) : Z * Z :=
  (0, ((v >>> 0) &&& 1) &&& 0x1).

Definition Operand_soffsetx4_ator (v pc : Z) : Z * Z := (0, u32 (v - (pc &&& not32 0x3))).

Definition Operand_soffsetx4_rtoa (v pc : Z) : Z * Z := (0, u32 (v + (pc &&& not32 0x3))).

Definition Operand_uimm6_ator (v pc : Z) : Z * Z := (0, u32 (v - pc)).

Definition Operand_uimm6_rtoa (v pc : Z) : Z * Z := (0, u32 (v + pc)).

Definition Operand_label8_ator (v pc : Z) : Z * Z := (0, u32 (v - pc)).

Definition Operand_label8_rtoa (v pc : Z) : Z * Z := (0, u32 (v + pc)).

Definition Operand_ulabel8_ator (v pc : Z) : Z * Z := (0, u32 (v - pc)).

Definition Operand_ulabel8_rtoa (v pc : Z) : Z * Z := (0, u32 (v + pc)).

Definition Operand_label12_ator (v pc : Z) : Z * Z := (0, u32 (v - pc)).

Definition Operand_label12_rtoa (v pc : Z) : Z * Z := (0, u32 (v + pc)).

Definition Operand_soffset_ator (v pc : Z) : Z * Z := (0, u32 (v - pc)).

Definition Operand_soffset_rtoa (v pc : Z) : Z * Z := (0, u32 (v + pc)).

Definition Operand_uimm16x4_ator (v pc : Z) : Z * Z := (0, u32 (v - (u32 (pc + 3) &&& not32 0x3))).

Definition Operand_uimm16x4_rtoa (v pc : Z) : Z * Z := (0, u32 (v + (u32 (pc + 3) &&& not32 0x3))).

Definition Operand_xt_wbr15_label_ator (v pc : Z) : Z * Z := (0, u32 (v - pc)).

Definition Operand_xt_wbr15_label_rtoa (v pc : Z) : Z * Z := (0, u32 (v + pc)).

Definition Operand_xt_wbr18_label_ator (v pc : Z) : Z * Z := (0, u32 (v - pc)).

Definition Operand_xt_wbr18_label_rtoa (v pc : Z) : Z * Z := (0, u32 (v + pc)).

(** ** Formats *)

Definition Format_x24_encode (insn : insnbuf) : insnbuf := setZ insn 0 0.
Definition Format_x16a_encode (insn : insnbuf) : insnbuf := setZ insn 0 0x8.
Definition Format_x16b_encode (insn : insnbuf) : insnbuf := setZ insn 0 0xc.
Definition Format_format_32_encode (insn : insnbuf) : insnbuf := setZ insn 0 0xe.

Definition esp32s3_formats : list xtensa_format_internal :=
  [mkFormat "x24" 3 Format_x24_encode [0]; mkFormat "x16a" 2 Format_x16a_encode [1];
   mkFormat "x16b" 2 Format_x16b_encode [2]; mkFormat "format_32" 4 Format_format_32_encode [3]].

Definition format_decoder (insn : insnbuf) : Z :=
  if (nthZ insn 0 &&& 0x8) =? 0 then 0
  else if (nthZ insn 0 &&& 0xc) =? 0x8 then 1
  else if (nthZ insn 0 &&& 0xe) =? 0xc then 2
  else if (nthZ insn 0 &&& 0xe) =? 0xe then 3
  else -1.

Definition length_table : list Z :=
  [3; 3; 3; 3; 3; 3; 3; 3; 2; 2; 2; 2; 2; 2; 4; 4; 3; 3; 3; 3; 3; 3; 3; 3; 2; 2; 2; 2; 2; 2; 4; 4;
   3; 3; 3; 3; 3; 3; 3; 3; 2; 2; 2; 2; 2; 2; 4; 4; 3; 3; 3; 3; 3; 3; 3; 3; 2; 2; 2; 2; 2; 2; 4; 4;
   3; 3; 3; 3; 3; 3; 3; 3; 2; 2; 2; 2; 2; 2; 4; 4; 3; 3; 3; 3; 3; 3; 3; 3; 2; 2; 2; 2; 2; 2; 4; 4;
   3; 3; 3; 3; 3; 3; 3; 3; 2; 2; 2; 2; 2; 2; 4; 4; 3; 3; 3; 3; 3; 3; 3; 3; 2; 2; 2; 2; 2; 2; 4; 4;
   3; 3; 3; 3; 3; 3; 3; 3; 2; 2; 2; 2; 2; 2; 4; 4; 3; 3; 3; 3; 3; 3; 3; 3; 2; 2; 2; 2; 2; 2; 4; 4;
   3; 3; 3; 3; 3; 3; 3; 3; 2; 2; 2; 2; 2; 2; 4; 4; 3; 3; 3; 3; 3; 3; 3; 3; 2; 2; 2; 2; 2; 2; 4; 4;
   3; 3; 3; 3; 3; 3; 3; 3; 2; 2; 2; 2; 2; 2; 4; 4; 3; 3; 3; 3; 3; 3; 3; 3; 2; 2; 2; 2; 2; 2; 4; 4;
   3; 3; 3; 3; 3; 3; 3; 3; 2; 2; 2; 2; 2; 2; 4; 4; 3; 3; 3; 3; 3; 3; 3; 3; 2; 2; 2; 2; 2; 2; 4; 4].

Definition length_decoder (insn : list Z) : Z := nthZ length_table (nthZ insn 0).

(** ** Immediate operands *)

Record immed := mkImmed { im_width : Z; im_decode : Z -> Z * Z; im_encode : Z -> Z * Z }.

(** Operands whose field has at most eight bits. *)
Definition short_immediates : list immed :=
  [mkImmed 4 OperandSem_opnd_sem_simm4_decode
     OperandSem_opnd_sem_simm4_encode;
   mkImmed 4 OperandSem_opnd_sem_immrx4_decode
     OperandSem_opnd_sem_immrx4_encode;
   mkImmed 4 OperandSem_opnd_sem_lsi4x4_decode
     OperandSem_opnd_sem_lsi4x4_encode;
   mkImmed 7 OperandSem_opnd_sem_simm7_decode
     OperandSem_opnd_sem_simm7_encode;
   mkImmed 6 OperandSem_opnd_sem_uimm6_decode
     OperandSem_opnd_sem_uimm6_encode;
   mkImmed 4 OperandSem_opnd_sem_ai4const_decode
     OperandSem_opnd_sem_ai4const_encode;
   mkImmed 4 OperandSem_opnd_sem_b4const_decode
     OperandSem_opnd_sem_b4const_encode;
   mkImmed 4 OperandSem_opnd_sem_b4constu_decode
     OperandSem_opnd_sem_b4constu_encode;
   mkImmed 8 OperandSem_opnd_sem_uimm8_decode
     OperandSem_opnd_sem_uimm8_encode;
   mkImmed 8 OperandSem_opnd_sem_uimm8x2_decode
     OperandSem_opnd_sem_uimm8x2_encode;
   mkImmed 8 OperandSem_opnd_sem_uimm8x4_decode
     OperandSem_opnd_sem_uimm8x4_encode;
   mkImmed 4 OperandSem_opnd_sem_uimm4x16_decode
     OperandSem_opnd_sem_uimm4x16_encode;
   mkImmed 4 OperandSem_opnd_sem_uimmrx4_decode
     OperandSem_opnd_sem_uimmrx4_encode;
   mkImmed 8 OperandSem_opnd_sem_simm8_decode
     OperandSem_opnd_sem_simm8_encode;
   mkImmed 8 OperandSem_opnd_sem_simm8x256_decode
     OperandSem_opnd_sem_simm8x256_encode;
   mkImmed 5 OperandSem_opnd_sem_msalp32_decode
     OperandSem_opnd_sem_msalp32_encode;
   mkImmed 4 OperandSem_opnd_sem_op2p1_decode
     OperandSem_opnd_sem_op2p1_encode;
   mkImmed 8 OperandSem_opnd_sem_label8_decode
     OperandSem_opnd_sem_label8_encode;
   mkImmed 8 OperandSem_opnd_sem_ulabel8_decode
     OperandSem_opnd_sem_ulabel8_encode;
   mkImmed 5 OperandSem_opnd_sem_bbi_decode
     OperandSem_opnd_sem_bbi_encode;
   mkImmed 4 OperandSem_opnd_sem_s_decode
     OperandSem_opnd_sem_s_encode;
   mkImmed 4 OperandSem_opnd_sem_immt_decode
     OperandSem_opnd_sem_immt_encode;
   mkImmed 4 OperandSem_opnd_sem_tp7_decode
     OperandSem_opnd_sem_tp7_encode;
   mkImmed 4 OperandSem_opnd_sem_imm_t_decode
     OperandSem_opnd_sem_imm_t_encode;
   mkImmed 8 OperandSem_opnd_sem_imm8x4_decode
     OperandSem_opnd_sem_imm8x4_encode;
   mkImmed 8 OperandSem_opnd_sem_imm8x8_decode
     OperandSem_opnd_sem_imm8x8_encode;
   mkImmed 4 OperandSem_opnd_sem_opnd_semantic_LD_ST_imm16f_decode
     OperandSem_opnd_sem_opnd_semantic_LD_ST_imm16f_encode;
   mkImmed 8 OperandSem_opnd_sem_opnd_EE_SET_BIT_GPIO_OUT_mask_decode
     OperandSem_opnd_sem_opnd_EE_SET_BIT_GPIO_OUT_mask_encode;
   mkImmed 7 OperandSem_opnd_sem_opnd_semantic_LD_ST_imm2_decode
     OperandSem_opnd_sem_opnd_semantic_LD_ST_imm2_encode;
   mkImmed 7 OperandSem_opnd_sem_opnd_semantic_LD_ST_imm1_decode
     OperandSem_opnd_sem_opnd_semantic_LD_ST_imm1_encode;
   mkImmed 8 OperandSem_opnd_sem_opnd_semantic_LD_ST_imm8_decode
     OperandSem_opnd_sem_opnd_semantic_LD_ST_imm8_encode;
   mkImmed 8 OperandSem_opnd_sem_opnd_semantic_LD_ST_imm16_decode
     OperandSem_opnd_sem_opnd_semantic_LD_ST_imm16_encode;
   mkImmed 8 OperandSem_opnd_sem_opnd_semantic_LD_ST_imm4_decode
     OperandSem_opnd_sem_opnd_semantic_LD_ST_imm4_encode;
   mkImmed 3 OperandSem_opnd_sem_opnd_semantic_LD_ST_sel8_decode
     OperandSem_opnd_sem_opnd_semantic_LD_ST_sel8_encode;
   mkImmed 2 OperandSem_opnd_sem_opnd_semantic_LD_ST_sel4_decode
     OperandSem_opnd_sem_opnd_semantic_LD_ST_sel4_encode;
   mkImmed 6 OperandSem_opnd_sem_opnd_semantic_CAL_DOUBLE_Q_imm16_decode
     OperandSem_opnd_sem_opnd_semantic_CAL_DOUBLE_Q_imm16_encode;
   mkImmed 4 OperandSem_opnd_sem_opnd_semantic_CAL_DOUBLE_Q_sel16_decode
     OperandSem_opnd_sem_opnd_semantic_CAL_DOUBLE_Q_sel16_encode;
   mkImmed 1 OperandSem_opnd_sem_opnd_semantic_SRCMB_QACC_sel2_decode
     OperandSem_opnd_sem_opnd_semantic_SRCMB_QACC_sel2_encode].

Definition long_immediates : list immed :=
  [mkImmed 18 OperandSem_opnd_sem_soffsetx4_decode
     OperandSem_opnd_sem_soffsetx4_encode;
   mkImmed 12 OperandSem_opnd_sem_uimm12x8_decode
     OperandSem_opnd_sem_uimm12x8_encode;
   mkImmed 12 OperandSem_opnd_sem_simm12b_decode
     OperandSem_opnd_sem_simm12b_encode;
   mkImmed 12 OperandSem_opnd_sem_label12_decode
     OperandSem_opnd_sem_label12_encode;
   mkImmed 18 OperandSem_opnd_sem_soffset_decode
     OperandSem_opnd_sem_soffset_encode;
   mkImmed 16 OperandSem_opnd_sem_uimm16x4_decode
     OperandSem_opnd_sem_uimm16x4_encode;
   mkImmed 15 OperandSem_opnd_sem_xt_wbr15_label_decode
     OperandSem_opnd_sem_xt_wbr15_label_encode;
   mkImmed 18 OperandSem_opnd_sem_xt_wbr18_label_decode
     OperandSem_opnd_sem_xt_wbr18_label_encode].

Definition immediates : list immed := short_immediates ++ long_immediates.

(** The PC-relative operands: absolute to relative and back. *)
Definition relocations : list ((Z -> Z -> Z * Z) * (Z -> Z -> Z * Z)) :=
  [(Operand_soffsetx4_ator, Operand_soffsetx4_rtoa);
   (Operand_uimm6_ator, Operand_uimm6_rtoa);
   (Operand_label8_ator, Operand_label8_rtoa);
   (Operand_ulabel8_ator, Operand_ulabel8_rtoa);
   (Operand_label12_ator, Operand_label12_rtoa);
   (Operand_soffset_ator, Operand_soffset_rtoa);
   (Operand_uimm16x4_ator, Operand_uimm16x4_rtoa);
   (Operand_xt_wbr15_label_ator, Operand_xt_wbr15_label_rtoa);
   (Operand_xt_wbr18_label_ator, Operand_xt_wbr18_label_rtoa)].

(** ** Immediate operands: proofs *)

Definition immed_ok (m : immed) (x : Z) : Prop :=
  exists v, im_decode m x = (0, v) /\ in32 v /\ im_encode m v = (0, x).

(** The check on one field value, as a computation. *)
Definition immed_check (m : immed) (x : Z) : bool :=
  let '(r, v) := im_decode m x in
  let '(r', x') := im_encode m v in
  (r =? 0) && (0 <=? v) && (v <? 2 ^ 32) && (r' =? 0) && (x' =? x).

Lemma immed_check_ok m x : immed_check m x = true -> immed_ok m x.
Proof.
  unfold immed_check, immed_ok. destruct (im_decode m x) as [r v] eqn:E1.
  destruct (im_encode m v) as [r' x'] eqn:E2. intros H.
  rewrite !andb_true_iff in H. destruct H as ((((Hr & H0) & H1) & Hr') & Hx).
  apply Z.eqb_eq in Hr as ->, Hr' as ->, Hx as ->.
  exists v. split; [done|]. split; [unfold in32; lia|done].
Qed.

Lemma short_immediates_ok m x :
  m ∈ short_immediates -> 0 <= x < 2 ^ im_width m -> immed_ok m x.
Proof.
  assert (Hall : forallb (fun m => forallb (immed_check m) (seqZ 0 (2 ^ im_width m)))
                   short_immediates = true) by (vm_compute; reflexivity).
  intros Hm Hx. rewrite forallb_forall in Hall. apply list_elem_of_In in Hm.
  specialize (Hall m Hm). rewrite forallb_forall in Hall. apply immed_check_ok, Hall.
  apply list_elem_of_In, elem_of_seqZ. lia.
Qed.

(** Sign extension of a [w]-bit field is the field modulo [2 ^ w]. *)
Lemma sx_mod w x : 0 < w <= 32 -> 0 <= x < 2 ^ w -> sx (32 - w) x mod 2 ^ w = x.
Proof.
  intros Hw Hx. unfold sx.
  assert (Hp : 2 ^ 32 = 2 ^ w * 2 ^ (32 - w)) by (rewrite <- Z.pow_add_r by lia; f_equal; lia).
  assert (Hpos : 0 < 2 ^ (32 - w)) by (apply Z.pow_pos_nonneg; lia).
  assert (Hl : lsl32 x (32 - w) = x * 2 ^ (32 - w)).
  { unfold lsl32. rewrite Z.shiftl_mul_pow2 by lia. apply Z.mod_small. nia. }
  rewrite Hl, Z.shiftr_div_pow2 by lia. unfold s32.
  assert (Hu : u32 (x * 2 ^ (32 - w)) = x * 2 ^ (32 - w)) by (apply Z.mod_small; nia).
  rewrite Hu.
  destruct (_ <? 2 ^ 31).
  - rewrite Z.div_mul by lia. by apply Z.mod_small.
  - rewrite Hp. replace (x * 2 ^ (32 - w) - 2 ^ w * 2 ^ (32 - w)) with ((x - 2 ^ w) * 2 ^ (32 - w)) by ring.
    rewrite Z.div_mul by lia.
    replace (x - 2 ^ w) with (x + (-1) * 2 ^ w) by ring. rewrite Z_mod_plus_full. by apply Z.mod_small.
Qed.

(** Extracting the field of an offset scaled by [2 ^ k]. *)
Lemma field_of_sum w k c s :
  0 <= k -> 0 <= w -> w + k <= 32 ->
  ((u32 (u32 (c + s * 2 ^ k) - c)) >>> k) &&& (2 ^ w - 1) = s mod 2 ^ w.
Proof.
  intros Hk Hw Hwk. rewrite land_ones_mod, Z.shiftr_div_pow2 by lia. unfold u32.
  rewrite Zminus_mod_idemp_l. replace (c + s * 2 ^ k - c) with (s * 2 ^ k) by ring.
  replace 32 with ((32 - k) + k) by lia. rewrite Z.pow_add_r by lia.
  assert (0 < 2 ^ k) by (apply Z.pow_pos_nonneg; lia).
  rewrite Z.mul_mod_distr_r, Z.div_mul by (try apply Z.pow_nonzero; lia).
  replace (32 - k) with (w + (32 - k - w)) by lia. rewrite Z.pow_add_r by lia.
  rewrite Z.rem_mul_r by (try apply Z.pow_pos_nonneg; try apply Z.pow_nonzero; lia).
  rewrite (Z.mul_comm (2 ^ w)), Z_mod_plus_full. apply Z.mod_mod. by apply Z.pow_nonzero.
Qed.

(** Unscaled and scaled sign-extended fields, and zero-extended ones. *)
Lemma signed_field_ok w c x :
  0 < w <= 32 -> 0 <= x < 2 ^ w ->
  (u32 (u32 (c + sx (32 - w) (x &&& (2 ^ w - 1))) - c)) &&& (2 ^ w - 1) = x.
Proof.
  intros Hw Hx. rewrite (land_ones_mod x), Z.mod_small by lia.
  pose proof (field_of_sum w 0 c (sx (32 - w) x)) as H.
  rewrite Z.mul_1_r, Z.shiftr_0_r in H. rewrite H by lia. by apply sx_mod.
Qed.

Lemma scaled_field_ok w k c x :
  0 < w <= 32 -> 0 <= k -> w + k <= 32 -> 0 <= x < 2 ^ w ->
  ((u32 (u32 (c + Z.shiftl (sx (32 - w) (x &&& (2 ^ w - 1))) k) - c)) >>> k) &&& (2 ^ w - 1) = x.
Proof.
  intros Hw Hk Hwk Hx. rewrite (land_ones_mod x), Z.mod_small, Z.shiftl_mul_pow2 by lia.
  rewrite field_of_sum by lia. by apply sx_mod.
Qed.

Lemma unscaled_field_ok w x :
  0 < w <= 32 -> 0 <= x < 2 ^ w ->
  u32 (sx (32 - w) (x &&& (2 ^ w - 1))) &&& (2 ^ w - 1) = x.
Proof.
  intros Hw Hx. pose proof (signed_field_ok w 0 x Hw Hx) as H.
  rewrite Z.add_0_l, Z.sub_0_r in H. unfold u32 in *. by rewrite Zmod_mod in H.
Qed.

Lemma shifted_field_ok w k x h :
  0 < w -> 0 <= k -> w + k <= 32 -> 0 <= x < 2 ^ w -> 0 <= h ->
  (lsl32 (lsl32 h w ||| (x &&& (2 ^ w - 1))) k >>> k) &&& (2 ^ w - 1) = x.
Proof.
  intros Hw Hk Hwk Hx Hh. rewrite !land_ones_mod by lia. rewrite (Z.mod_small x) by lia.
  apply Z.bits_inj'. intros i Hi. destruct (Z.ltb_spec i w).
  - rewrite Z.mod_pow2_bits_low, Z.shiftr_spec, lsl32_testbit, Z.lor_spec, lsl32_testbit by lia.
    replace (i + k - k) with i by lia. rewrite (Z.testbit_neg_r h) by lia.
    by rewrite andb_false_r, (proj2 (Z.ltb_lt (i + k) 32)) by lia.
  - rewrite Z.mod_pow2_bits_high by lia. symmetry. by apply (testbit_above w).
Qed.

Lemma long_immediates_ok m x :
  m ∈ long_immediates -> 0 <= x < 2 ^ im_width m -> immed_ok m x.
Proof.
  intros Hm. unfold long_immediates in Hm. rewrite !elem_of_cons in Hm.
  destruct Hm as [->|[->|[->|[->|[->|[->|[->|[->|Hm]]]]]]]];
    [..|by apply not_elem_of_nil in Hm]; simpl; intros Hx; unfold immed_ok; simpl;
    (eexists; split; [reflexivity|]; split; [eauto with mach|]; refine (f_equal (pair 0) _)).
  - apply (scaled_field_ok 18 2 4 x); lia.
  - pose proof (shifted_field_ok 12 3 x 0) as H. rewrite <- H at 2 by lia.
    by rewrite Z.lor_0_l.
  - apply (unscaled_field_ok 12 x); lia.
  - apply (signed_field_ok 12 4 x); lia.
  - apply (signed_field_ok 18 4 x); lia.
  - apply (shifted_field_ok 16 2 x 0xffff); lia.
  - apply (signed_field_ok 15 4 x); lia.
  - apply (signed_field_ok 18 4 x); lia.
Qed.

(** ** The decoders *)

(** The top-level structure; the tables the two decoders do not read are
    arguments. *)
Definition xtensa_modules (slots_ : list xtensa_slot_internal)
    (operands_ : list xtensa_operand_internal) (iclasses_ : list xtensa_iclass_internal)
    (opcodes_ : list xtensa_opcode_internal) (regfiles_ : list xtensa_regfile_internal)
    (states_ : list xtensa_state_internal) (sysregs_ : list xtensa_sysreg_internal)
    (max_special max_user : Z) (interfaces_ : list xtensa_interface_internal)
    (funcUnits_ : list xtensa_funcUnit_internal) : xtensa_isa_internal :=
  mkIsa false 4 0 esp32s3_formats format_decoder length_decoder slots_ 263 operands_ iclasses_
    opcodes_ None regfiles_ states_ None sysregs_ None [max_special; max_user] [None; None]
    interfaces_ None funcUnits_ None 0.

(** Both decoders look at the first byte only. *)
Lemma format_decoder_byte w ws :
  format_decoder (w :: ws) = format_decoder [w &&& 0xff].
Proof.
  unfold format_decoder, nthZ. simpl.
  assert (H : forall m, (w &&& 0xff) &&& m = w &&& (0xff &&& m)) by (intros; by rewrite Z.land_assoc).
  by rewrite !H.
Qed.

(** The formats and decoders of an initialised module of this core. *)
Abbreviation s3_decoders := (byte_decoders 4 esp32s3_formats format_decoder length_table).

(** The table agrees with the formats on every first byte. *)
Lemma s3_bytes_agree : forallb (byte_agrees 4 esp32s3_formats format_decoder length_table) (seqZ 0 256) = true.
Proof. vm_compute. reflexivity. Qed.

Lemma s3_wf_sizes i : s3_decoders i -> WfSizes i.
Proof. by apply byte_wf_sizes. Qed.
Lemma s3_wf_decoders i : s3_decoders i -> WfDecoders i.
Proof. by apply byte_wf_decoders; [|exact s3_bytes_agree|exact format_decoder_byte|]. Qed.

(** ** Claims *)

(** For every immediate operand of the ESP32-S3 core and every value of
    its field, the decoded operand is a 32-bit value that encodes back to that
    field value; and for every PC-relative operand the conversions between
    absolute and relative are inverse to each other at any [pc]. *)
Theorem esp32s3_operands_roundtrip :
  (forall m x, m ∈ immediates -> 0 <= x < 2 ^ im_width m ->
     exists v, im_decode m x = (0, v) /\ in32 v /\ im_encode m v = (0, x)) /\
  (forall ator rtoa v pc, (ator, rtoa) ∈ relocations -> in32 v ->
     rtoa (ator v pc).2 pc = (0, v) /\ ator (rtoa v pc).2 pc = (0, v)).
Proof.
  split.
  - intros m x Hm Hx. unfold immediates in Hm. apply elem_of_app in Hm as [Hm|Hm].
    + by apply short_immediates_ok.
    + by apply long_immediates_ok.
  - intros ator rtoa v pc Hin Hv.
    assert (Hinv : forall d, u32 (u32 (v - d) + d) = v /\ u32 (u32 (v + d) - d) = v).
    { intros d. unfold u32. rewrite Zplus_mod_idemp_l, Zminus_mod_idemp_l.
      split; [replace (v - d + d) with v by ring|replace (v + d - d) with v by ring];
        by apply Z.mod_small. }
    unfold relocations in Hin. rewrite !elem_of_cons in Hin.
    repeat (destruct Hin as [[= -> ->]|Hin];
      [split; refine (f_equal (pair 0) _); apply Hinv|]).
    by apply not_elem_of_nil in Hin.
Qed.

(** The ESP32-S3 module satisfies what the ISA library relies on: once
    [xtensa_isa_init] has set it up, its formats fit the buffer and the length
    found from an instruction's bytes is the length of its format. *)
Theorem esp32s3_decoders_wf (malloc : Z -> option insnbuf) (st st' : IsaState)
    slots_ operands_ iclasses_ opcodes_ regfiles_ states_ sysregs_ max_special max_user
    interfaces_ funcUnits_ :
  isa st = xtensa_modules slots_ operands_ iclasses_ opcodes_ regfiles_ states_ sysregs_
             max_special max_user interfaces_ funcUnits_ ->
  xtensa_isa_init malloc st = (true, st') ->
  WfSizes (isa st') /\ WfDecoders (isa st').
Proof.
  intros Hm Hi. apply isa_init_ready in Hi as [[] _]. rewrite Hm in *.
  assert (Hs3 : s3_decoders (isa st')) by (by split).
  split; [by apply s3_wf_sizes|by apply s3_wf_decoders].
Qed.

(** ** Witnesses *)

Definition s3_sample : xtensa_isa_internal :=
  xtensa_modules [] [mkOperand "soffsetx4" 0 (-1) 0 2 (Some OperandSem_opnd_sem_soffsetx4_encode)
                       (Some OperandSem_opnd_sem_soffsetx4_decode) (Some Operand_soffsetx4_ator)
                       (Some Operand_soffsetx4_rtoa)]
    [mkIclass [mkArg 0 "i"] [] []] [mkOpcode "call8" 0 8 [] []] [] [] [] 255 255 [] [].
Definition s3_state : IsaState := mkIsaState s3_sample xtensa_isa_ok EmptyString None.
Definition s3_ready : IsaState := (xtensa_isa_init grant s3_state).2.

Lemma s3_init : xtensa_isa_init grant s3_state = (true, s3_ready).
Proof.
  unfold s3_ready. rewrite (surjective_pairing (xtensa_isa_init grant s3_state)). f_equal.
Qed.

Lemma esp32s3_decoders_wf_witness : WfSizes (isa s3_ready) /\ WfDecoders (isa s3_ready).
Proof.
  exact (esp32s3_decoders_wf grant s3_state s3_ready [] _ _ _ [] [] [] 255 255 [] [] eq_refl s3_init).
Defined.

Lemma esp32s3_operands_roundtrip_witness :
  OperandSem_opnd_sem_b4constu_decode 1 = (0, 0x10000) /\
  exists v, OperandSem_opnd_sem_b4constu_decode 1 = (0, v) /\ in32 v /\
            OperandSem_opnd_sem_b4constu_encode v = (0, 1).
Proof.
  split; [reflexivity|].
  apply (proj1 esp32s3_operands_roundtrip
           (mkImmed 4 OperandSem_opnd_sem_b4constu_decode OperandSem_opnd_sem_b4constu_encode) 1).
  - unfold immediates, short_immediates. apply elem_of_app. left. rewrite !elem_of_cons. tauto.
  - simpl. lia.
Defined.

Lemma s3_ready_decoders : s3_decoders (isa s3_ready).
Proof. split; reflexivity. Qed.

(** The bytes of [retw.n] (little-endian [0xf01d]) followed by other code. *)
Lemma insn_bytes_roundtrip_witness :
  exists insn, xtensa_insnbuf_from_chars [0x1d; 0xf0; 0x36; 0x41] 0 s3_ready = (insn, s3_ready) /\
    xtensa_insnbuf_to_chars insn 0 s3_ready = ((2, [0x1d; 0xf0]), s3_ready).
Proof.
  destruct (insn_bytes_roundtrip s3_ready [0x1d; 0xf0; 0x36; 0x41] 0
    (s3_wf_sizes _ s3_ready_decoders) (s3_wf_decoders _ s3_ready_decoders)) as (insn & H1 & H2).
  - repeat constructor; lia.
  - vm_compute. congruence.
  - vm_compute. congruence.
  - exists insn. split; [exact H1|exact H2].
Defined.

Lemma insn_buffer_roundtrip_witness :
  exists cp insn', xtensa_insnbuf_to_chars [0x364100] 0 s3_ready = ((3, cp), s3_ready) /\
    xtensa_insnbuf_from_chars cp 0 s3_ready = (insn', s3_ready).
Proof.
  destruct (insn_buffer_roundtrip s3_ready [0x364100]
    (s3_wf_sizes _ s3_ready_decoders) (s3_wf_decoders _ s3_ready_decoders))
    as (cp & insn' & H1 & H2 & _).
  - repeat constructor; unfold in32; lia.
  - reflexivity.
  - vm_compute. congruence.
  - exists cp, insn'. split; [exact H1|exact H2].
Defined.

Lemma operand_encode_decode_witness :
  xtensa_operand_encode grant 0 0 0x104 s3_ready = ((0, 0x40), s3_ready) /\
  xtensa_operand_decode 0 0 0x40 s3_ready = ((0, 0x104), s3_ready).
Proof.
  split; [reflexivity|].
  apply (operand_encode_decode grant s3_ready s3_ready 0 0 0x104 0x40).
  - intros o Ho. simpl in Ho. injection Ho as <-. discriminate.
  - reflexivity.
Defined.
