(* ===== verification/TbFlags.v ===== *)
(** * Translation-block state ([target/xtensa/cpu.h], [target/xtensa/translate.c])

    The processor state a translation block is specialised on is packed into
    a flags word and [cs_base] by [cpu_get_tb_cpu_state] and unpacked into the
    disassembly context by [xtensa_tr_init_disas_context].  The two agree, and
    the register-window check the translator emits from the unpacked window
    field raises an overflow exactly when the frame is occupied. *)

From S2P Require Import Prelude Cpu Exception Window.

#[local] Open Scope mach_scope.

Abbreviation TARGET_PAGE_BITS := 12 (only parsing).
Abbreviation PRIVILEGED_CAUSE := 8 (only parsing).
Abbreviation COPROCESSOR0_DISABLED := 32 (only parsing).
Abbreviation TBFLAG_EXCM := 0x4 (only parsing).
Abbreviation TBFLAG_LITBASE := 0x8 (only parsing).
Abbreviation TBFLAG_DEBUG := 0x10 (only parsing).
Abbreviation TBFLAG_ICOUNT := 0x20 (only parsing).
Abbreviation TBFLAG_CPENABLE_SHIFT := 6 (only parsing).
Abbreviation TBFLAG_WINDOW_SHIFT := 15 (only parsing).
Abbreviation TBFLAG_YIELD := 0x20000 (only parsing).
Abbreviation TBFLAG_CWOE := 0x40000 (only parsing).
Abbreviation TBFLAG_CALLINC_SHIFT := 19 (only parsing).

(** [pc & TARGET_PAGE_MASK] *)
Definition page_of (pc : Z) : Z := pc &&& (2 ^ 32 - 2 ^ TARGET_PAGE_BITS).

(** ** Packing *)

Section tb.
Context (config : XtensaConfig).

Definition excm_set (env : CPUXtensaState) : bool := truthy (sr env PS &&& PS_EXCM).
Definition tb_loop (env : CPUXtensaState) : Z :=
  if excm_set env then 0
  else if xtensa_option_enabled config OPTION_LOOP then
    let lend_dist := u32 (sr env LEND - page_of (pc env)) in
    if lend_dist <? 2 ^ TARGET_PAGE_BITS + max_insn_size config then
      let lbeg_off := u32 (sr env LEND - sr env LBEG) in
      if lbeg_off <? 256 then lend_dist ||| lsl32 lbeg_off 16 else lend_dist
    else 0
  else 0.
Definition tb_litbase (env : CPUXtensaState) : bool :=
  xtensa_option_enabled config OPTION_EXTENDED_L32R && truthy (sr env LITBASE &&& 1).
Definition tb_debug (env : CPUXtensaState) : bool :=
  xtensa_option_enabled config OPTION_DEBUG
  && (xtensa_get_cintlevel config env <? debug_level config).
Definition tb_icount (env : CPUXtensaState) : bool :=
  xtensa_option_enabled config OPTION_DEBUG
  && (xtensa_get_cintlevel config env <? sr env ICOUNTLEVEL).
Definition tb_cpenable (env : CPUXtensaState) : Z :=
  if xtensa_option_enabled config OPTION_COPROCESSOR then sr env CPENABLE else 0.
Definition tb_cwoe (env : CPUXtensaState) : bool :=
  xtensa_option_enabled config OPTION_WINDOWED_REGISTER
  && ((sr env PS &&& (PS_WOE ||| PS_EXCM)) =? PS_WOE).
Definition tb_window (env : CPUXtensaState) : Z :=
  if tb_cwoe env
  then ctz32 ((xtensa_replicate_windowstart config env >>> (sr env WINDOW_BASE + 1)) ||| 0x8)
  else 3.
Definition tb_callinc (env : CPUXtensaState) : Z :=
  if tb_cwoe env then extract32 (sr env PS) PS_CALLINC_SHIFT PS_CALLINC_LEN else 0.

(** Returns [(pc, cs_base, flags)]. *)
Definition cpu_get_tb_cpu_state (env : CPUXtensaState) : Z * Z * Z :=
  let flag b f := if b : bool then f else 0 in
  (pc env, tb_loop env,
   xtensa_get_ring config env
   ||| flag (excm_set env) TBFLAG_EXCM
   ||| flag (tb_litbase env) TBFLAG_LITBASE
   ||| flag (tb_debug env) TBFLAG_DEBUG
   ||| flag (tb_icount env) TBFLAG_ICOUNT
   ||| lsl32 (tb_cpenable env) TBFLAG_CPENABLE_SHIFT
   ||| lsl32 (tb_window env) TBFLAG_WINDOW_SHIFT
   ||| flag (tb_cwoe env) TBFLAG_CWOE
   ||| lsl32 (tb_callinc env) TBFLAG_CALLINC_SHIFT
   ||| flag (truthy (yield_needed env)) TBFLAG_YIELD).

(** ** Unpacking *)

(** The fields of [DisasContext] the block state sets; [dc_pc_next],
    [dc_op_flags] and [dc_next_icount] change from instruction to
    instruction. *)
Record DisasContext := mkDC {
  dc_pc : Z;
  dc_pc_next : Z;
  dc_ring : Z;
  dc_cring : Z;
  dc_lbeg_off : Z;
  dc_lend : Z;
  dc_debug : bool;
  dc_icount : bool;
  dc_cpenable : Z;
  dc_window : Z;
  dc_cwoe : bool;
  dc_callinc : Z;
  dc_op_flags : Z;
  dc_next_icount : Z;
}.

Definition xtensa_tr_init_disas_context (pc_first cs_base tb_flags : Z) : DisasContext :=
  let ring := tb_flags &&& 0x3 in
  {| dc_pc := pc_first;
     dc_pc_next := pc_first;
     dc_ring := ring;
     dc_cring := if truthy (tb_flags &&& TBFLAG_EXCM) then 0 else ring;
     dc_lbeg_off := (cs_base &&& 0x00ff0000) >>> 16;
     dc_lend := u32 ((cs_base &&& 0x0000ffff) + page_of pc_first);
     dc_debug := truthy (tb_flags &&& TBFLAG_DEBUG);
     dc_icount := truthy (tb_flags &&& TBFLAG_ICOUNT);
     dc_cpenable := (tb_flags &&& 0x3fc0) >>> TBFLAG_CPENABLE_SHIFT;
     dc_window := (tb_flags &&& 0x18000) >>> TBFLAG_WINDOW_SHIFT;
     dc_cwoe := truthy (tb_flags &&& TBFLAG_CWOE);
     dc_callinc := (tb_flags &&& 0x180000) >>> TBFLAG_CALLINC_SHIFT;
     dc_op_flags := 0;
     dc_next_icount := 0 |}.

(** The context of a block that starts in state [env]. *)
Definition tb_context (env : CPUXtensaState) : DisasContext :=
  let '(pc_first, cs_base, flags) := cpu_get_tb_cpu_state env in
  xtensa_tr_init_disas_context pc_first cs_base flags.

(** ** The emitted checks *)

Definition gen_exception_cause {A} (dc : DisasContext) (cause : Z) : cpuM A :=
  helper_exception_cause config (dc_pc dc) cause.

(** The code after a failed check is not reached. *)
Definition gen_check_privilege (dc : DisasContext) : cpuM unit :=
  if dc_cring dc =? 0 then ret tt else gen_exception_cause dc PRIVILEGED_CAUSE.

Definition gen_check_cpenable (dc : DisasContext) (cp_mask : Z) : cpuM unit :=
  let cp_mask := cp_mask &&& not32 (dc_cpenable dc) in
  if xtensa_option_enabled config OPTION_COPROCESSOR && truthy cp_mask
  then gen_exception_cause dc (COPROCESSOR0_DISABLED + ctz32 cp_mask) else ret tt.

Definition gen_window_check (dc : DisasContext) (mask : Z) : cpuM unit :=
  let r := 31 - clz32 mask in
  if dc_window dc <? r / 4 then helper_window_check config (dc_pc dc) (r / 4) else ret tt.

End tb.

(** ** Fields of the flags word *)

Lemma flag_testbit (b : bool) k i :
  0 <= k -> Z.testbit (if b then 2 ^ k else 0) i = b && (i =? k).
Proof. intros Hk. destruct b; [by apply pow2_testbit|apply Z.testbit_0_l]. Qed.

(** [w] bits of [x] from bit [s] on. *)
Lemma field_testbit x s w i :
  0 <= s -> 0 <= w -> 0 <= i ->
  Z.testbit ((x &&& Z.shiftl (2 ^ w - 1) s) >>> s) i = (i <? w) && Z.testbit x (i + s).
Proof.
  intros Hs Hw Hi. autorewrite with bits.
  replace (i + s - s) with i by lia. apply andb_comm.
Qed.

(** A field whose bits are those of [v] is [v]. *)
Lemma field_eq x s w v :
  0 <= s -> 0 <= w -> 0 <= v < 2 ^ w ->
  (forall i, 0 <= i < w -> Z.testbit x (i + s) = Z.testbit v i) ->
  (x &&& Z.shiftl (2 ^ w - 1) s) >>> s = v.
Proof.
  intros Hs Hw Hv Hb. apply Z.bits_inj'. intros i Hi. rewrite field_testbit by done.
  destruct (Z.ltb_spec i w); [by rewrite Hb by lia|]. symmetry. by apply (testbit_above w).
Qed.

(** Decide the comparisons and the out-of-range bits of a field goal. *)
Ltac field_bits :=
  repeat match goal with
  | |- context [?a =? ?b] =>
      first [rewrite (proj2 (Z.eqb_neq a b)) by lia | rewrite (proj2 (Z.eqb_eq a b)) by lia]
  | |- context [?a <? ?b] =>
      first [rewrite (proj2 (Z.ltb_lt a b)) by lia | rewrite (proj2 (Z.ltb_ge a b)) by lia]
  | |- context [Z.testbit ?v ?i] =>
      match goal with
      | H : 0 <= v < 2 ^ _ |- _ =>
          first [rewrite (testbit_above _ v i H) by lia | rewrite (Z.testbit_neg_r v i) by lia]
      end
  end; rewrite ?andb_true_r, ?andb_false_r, ?orb_false_r; simpl.

Section fields.
Context (config : XtensaConfig) `{!WfNareg config} (env : CPUXtensaState).
Hypothesis Hwin : wf_window config env.
Hypothesis Hstart : wf_windowstart config env.
Hypothesis Hcp : 0 <= sr env CPENABLE < 2 ^ 8.

Lemma window_field_range : 0 <= tb_window config env < 2 ^ 2.
Proof.
  unfold tb_window. destruct (tb_cwoe config env); [|lia].
  pose proof (shifted_windowstart_in32 config env Hwin Hstart) as H32.
  unfold shifted_windowstart in H32. set (x := xtensa_replicate_windowstart config env >>> _) in *.
  assert (Hbit : Z.testbit (x ||| 0x8) 3 = true).
  { rewrite Z.lor_spec. change 0x8 with (2 ^ 3). rewrite pow2_testbit by lia. apply orb_true_r. }
  assert (Hx : in32 (x ||| 0x8)) by (apply in32_lor; [done|unfold in32; lia]).
  assert (Hpos : 0 < x ||| 0x8 < 2 ^ 32).
  { split; [|apply Hx]. destruct (Z.eqb_spec (x ||| 0x8) 0) as [E|]; [|unfold in32 in Hx; lia].
    by rewrite E, Z.testbit_0_l in Hbit. }
  destruct (ctz32_spec _ Hpos) as (Hr & _ & Hlow).
  destruct (Z.ltb_spec 3 (ctz32 (x ||| 0x8))) as [Hlt|]; [|lia].
  by rewrite Hlow in Hbit.
Qed.

Lemma ring_field_range : 0 <= xtensa_get_ring config env < 2 ^ 2.
Proof.
  unfold xtensa_get_ring. destruct (xtensa_option_bits_enabled _ _); [|lia].
  change PS_RING with (Z.shiftl (2 ^ 2 - 1) 6). split.
  - apply Z.shiftr_nonneg, Z.land_nonneg. by right.
  - apply bounded_by_testbit; [lia|apply Z.shiftr_nonneg, Z.land_nonneg; by right|].
    intros i Hi. rewrite field_testbit by lia. by rewrite (proj2 (Z.ltb_ge i 2)).
Qed.

Lemma callinc_field_range : 0 <= tb_callinc config env < 2 ^ 2.
Proof.
  unfold tb_callinc. destruct (tb_cwoe config env); [|lia].
  unfold extract32. change (0xffffffff >>> (32 - PS_CALLINC_LEN)) with 3. apply land_range. lia.
Qed.

Lemma cpenable_field_range : 0 <= tb_cpenable config env < 2 ^ 8.
Proof. unfold tb_cpenable. destruct (xtensa_option_enabled _ _); lia. Qed.

Abbreviation flags := (cpu_get_tb_cpu_state config env).2 (only parsing).

Lemma tb_flags_testbit i :
  0 <= i ->
  Z.testbit flags i =
    Z.testbit (xtensa_get_ring config env) i || excm_set env && (i =? 2)
    || tb_litbase config env && (i =? 3) || tb_debug config env && (i =? 4)
    || tb_icount config env && (i =? 5)
    || (i <? 32) && Z.testbit (tb_cpenable config env) (i - 6)
    || (i <? 32) && Z.testbit (tb_window config env) (i - 15)
    || tb_cwoe config env && (i =? 18)
    || (i <? 32) && Z.testbit (tb_callinc config env) (i - 19)
    || truthy (yield_needed env) && (i =? 17).
Proof.
  intros Hi. unfold cpu_get_tb_cpu_state. simpl.
  change 0x4 with (2 ^ 2). change 0x8 with (2 ^ 3). change 0x10 with (2 ^ 4).
  change 0x20 with (2 ^ 5). change 0x20000 with (2 ^ 17). change 0x40000 with (2 ^ 18).
  rewrite !Z.lor_spec, !flag_testbit, !lsl32_testbit by lia. done.
Qed.

(** A one-bit flag of the word. *)
Lemma tb_flag_bit k : 0 <= k -> truthy (flags &&& 2 ^ k) = Z.testbit flags k.
Proof. intros Hk. rewrite truthy_land_pow2 by done. done. Qed.

Lemma tb_flag_fields :
  let dc := tb_context config env in
  dc_ring dc = xtensa_get_ring config env /\
  dc_cring dc = xtensa_get_cring config env /\
  dc_debug dc = tb_debug config env /\ dc_icount dc = tb_icount config env /\
  dc_cpenable dc = tb_cpenable config env /\ dc_window dc = tb_window config env /\
  dc_cwoe dc = tb_cwoe config env /\ dc_callinc dc = tb_callinc config env.
Proof.
  pose proof window_field_range as Hw. pose proof ring_field_range as Hr.
  pose proof callinc_field_range as Hc. pose proof cpenable_field_range as Hp.
  pose proof tb_flags_testbit as Hb.
  assert (Hring : flags &&& 0x3 = xtensa_get_ring config env).
  { rewrite <- (Z.shiftr_0_r (_ &&& _)). apply (field_eq _ 0 2); [lia|lia|done|].
    intros i Hi. rewrite Hb by lia. field_bits. by rewrite Z.add_0_r. }
  assert (Hexcm : truthy (flags &&& TBFLAG_EXCM) = excm_set env).
  { etransitivity; [apply (tb_flag_bit 2); lia|]. rewrite Hb by lia. field_bits. done. }
  change (tb_context config env) with
    (xtensa_tr_init_disas_context (pc env) (tb_loop config env) flags).
  cbv zeta. unfold xtensa_tr_init_disas_context. cbn [dc_ring dc_cring dc_debug dc_icount
    dc_cpenable dc_window dc_cwoe dc_callinc].
  rewrite Hring, Hexcm. split; [done|]. split.
  { unfold xtensa_get_cring, xtensa_get_ring, excm_set, truthy.
    destruct (xtensa_option_bits_enabled _ _), (sr env PS &&& PS_EXCM =? 0); done. }
  split; [etransitivity; [apply (tb_flag_bit 4); lia|]; rewrite Hb by lia; field_bits; done|].
  split; [etransitivity; [apply (tb_flag_bit 5); lia|]; rewrite Hb by lia; field_bits; done|].
  split; [apply (field_eq _ 6 8); [lia|lia|done|]|split; [apply (field_eq _ 15 2); [lia|lia|done|]|
    split; [|apply (field_eq _ 19 2); [lia|lia|done|]]]].
  - intros i Hi. rewrite Hb by lia. field_bits. f_equal. lia.
  - intros i Hi. rewrite Hb by lia. field_bits. f_equal. lia.
  - etransitivity; [apply (tb_flag_bit 18); lia|]. rewrite Hb by lia. field_bits. done.
  - intros i Hi. rewrite Hb by lia. field_bits. f_equal. lia.
Qed.

End fields.

(** The packed depth is the distance to the first occupied frame, at most 3. *)
Lemma window_depth config `{!WfNareg config} env n :
  wf_window config env -> wf_windowstart config env -> first_started config env 0 n ->
  ctz32 ((xtensa_replicate_windowstart config env >>> (sr env WINDOW_BASE + 1)) ||| 0x8)
    = Z.min (n - 1) 3.
Proof.
  intros Hwf Hws (Hn & Hle & Hs & Hno). rewrite Z.add_0_l in Hs.
  fold (shifted_windowstart config env).
  assert (Hb : forall k, 1 <= k <= n ->
     Z.testbit (shifted_windowstart config env) (k - 1) = frame_started config env k)
    by (intros k Hk; apply shifted_windowstart_bit; done || lia).
  pose proof (shifted_windowstart_in32 config env Hwf Hws) as H32.
  assert (H3 : forall i, Z.testbit 0x8 i = (i =? 3)) by (intros i; by apply (pow2_testbit 3)).
  assert (Htop : Z.testbit (shifted_windowstart config env ||| 0x8) (Z.min (n - 1) 3) = true).
  { rewrite Z.lor_spec, H3. destruct (Z.leb_spec (n - 1) 3).
    - rewrite Z.min_l, Hb by lia. by rewrite Hs.
    - rewrite Z.min_r by lia. apply orb_true_r. }
  apply ctz32_unique.
  - assert (Hx : in32 (shifted_windowstart config env ||| 0x8))
      by (apply in32_lor; [done|unfold in32; lia]).
    split; [|apply Hx].
    destruct (Z.eqb_spec (shifted_windowstart config env ||| 0x8) 0) as [E|]; [|unfold in32 in Hx; lia].
    by rewrite E, Z.testbit_0_l in Htop.
  - lia.
  - done.
  - intros i Hi. rewrite Z.lor_spec, H3, (proj2 (Z.eqb_neq i 3)), orb_false_r by lia.
    replace i with (i + 1 - 1) by lia. rewrite Hb by lia. apply (Hno (i + 1)). lia.
Qed.

(** ** The loop fields *)

(** The end of the hardware loop can be the end of an instruction of the page
    the block starts in. *)
Definition loop_in_page (config : XtensaConfig) (env : CPUXtensaState) : bool :=
  negb (excm_set env) && xtensa_option_enabled config OPTION_LOOP
  && (u32 (sr env LEND - page_of (pc env)) <? 2 ^ TARGET_PAGE_BITS + max_insn_size config).

Lemma tb_loop_fields config env :
  in32 (sr env LEND) -> in32 (pc env) -> 2 ^ TARGET_PAGE_BITS + max_insn_size config <= 2 ^ 16 ->
  let dc := tb_context config env in
  let off := u32 (sr env LEND - sr env LBEG) in
  dc_lend dc = (if loop_in_page config env then sr env LEND else page_of (pc env)) /\
  dc_lbeg_off dc = (if loop_in_page config env && (off <? 256) then off else 0).
Proof.
  intros Hl Hp Hm dc off.
  assert (Hend : dc_lend dc = u32 ((tb_loop config env &&& (2 ^ 16 - 1)) + page_of (pc env))) by done.
  assert (Hoff : dc_lbeg_off dc = (tb_loop config env &&& Z.shiftl (2 ^ 8 - 1) 16) >>> 16) by done.
  clearbody dc. rewrite Hend, Hoff. clear Hend Hoff.
  assert (Hpage : in32 (page_of (pc env))) by (apply in32_land; unfold in32; lia).
  set (dist := u32 (sr env LEND - page_of (pc env))) in *.
  assert (Hback : u32 (dist + page_of (pc env)) = sr env LEND).
  { unfold dist. rewrite u32_add_l. replace (_ - _ + _) with (sr env LEND) by ring.
    by apply u32_small. }
  unfold loop_in_page, tb_loop. fold dist. fold off. destruct (excm_set env); simpl.
  { rewrite !Z.land_0_l, Z.shiftr_0_l. split; [by apply u32_small|done]. }
  destruct (xtensa_option_enabled config OPTION_LOOP); simpl.
  2: { rewrite !Z.land_0_l, Z.shiftr_0_l. split; [by apply u32_small|done]. }
  destruct (Z.ltb_spec dist (2 ^ 12 + max_insn_size config)); simpl.
  2: { rewrite !Z.land_0_l, Z.shiftr_0_l. split; [by apply u32_small|done]. }
  assert (Hd : 0 <= dist < 2 ^ 16) by (pose proof (u32_bounds (sr env LEND - page_of (pc env))); lia).
  destruct (Z.ltb_spec off 256).
  - assert (Ho : 0 <= off < 2 ^ 8) by (pose proof (u32_bounds (sr env LEND - sr env LBEG)); lia).
    split.
    + rewrite land_ones_mod by lia.
      assert ((dist ||| lsl32 off 16) mod 2 ^ 16 = dist) as ->; [|done].
      apply Z.bits_inj'. intros i Hi. rewrite mod_pow2_testbit by lia. destruct (Z.ltb_spec i 16).
      * rewrite Z.lor_spec, lsl32_testbit, (Z.testbit_neg_r off) by lia. simpl.
        by rewrite andb_false_r, orb_false_r.
      * symmetry. by apply (testbit_above 16).
    + apply field_eq; [lia|lia|done|]. intros i Hi.
      rewrite Z.lor_spec, lsl32_testbit, (testbit_above 16 dist) by lia.
      replace (i + 16 - 16) with i by lia. by rewrite (proj2 (Z.ltb_lt _ _)) by lia.
  - split.
    + rewrite land_ones_mod, Z.mod_small by lia. done.
    + apply Z.bits_inj'. intros i Hi. rewrite field_testbit by lia.
      rewrite (testbit_above 16 dist) by lia. by rewrite andb_false_r, Z.testbit_0_l.
Qed.

(** ** Claims *)

(** C21: Unpacking inverts packing: the context of a block that starts in a
    state holds that state's ring (0 in exception mode for the current ring),
    debug and instruction-count enables, coprocessor enables, window-overflow
    enable, call increment and free window depth, and the loop end and loop
    length whenever the hardware loop can end in the block's page. *)
Theorem tb_state_roundtrip (config : XtensaConfig) `{!WfNareg config} (env : CPUXtensaState) :
  wf_window config env -> wf_windowstart config env -> 0 <= sr env CPENABLE < 2 ^ 8 ->
  in32 (sr env LEND) -> in32 (pc env) -> 2 ^ TARGET_PAGE_BITS + max_insn_size config <= 2 ^ 16 ->
  let dc := tb_context config env in
  let off := u32 (sr env LEND - sr env LBEG) in
  (dc_ring dc = xtensa_get_ring config env /\ dc_cring dc = xtensa_get_cring config env /\
   dc_debug dc = tb_debug config env /\ dc_icount dc = tb_icount config env /\
   dc_cpenable dc = tb_cpenable config env /\ dc_window dc = tb_window config env /\
   dc_cwoe dc = tb_cwoe config env /\ dc_callinc dc = tb_callinc config env) /\
  dc_lend dc = (if loop_in_page config env then sr env LEND else page_of (pc env)) /\
  dc_lbeg_off dc = (if loop_in_page config env && (off <? 256) then off else 0).
Proof.
  intros Hw Hs Hc Hl Hp Hm dc off. split; [by apply tb_flag_fields|by apply tb_loop_fields].
Qed.

(** The greatest register of a mask. *)
Lemma clz_mask_top r : 0 <= r < 32 -> 31 - clz32 (lsl32 1 r) = r.
Proof.
  intros Hr. rewrite lsl32_1 by lia. unfold clz32.
  rewrite (proj2 (Z.eqb_neq _ _)) by (apply Z.pow_nonzero; lia). rewrite Z.log2_pow2; lia.
Qed.

(** C32: In a windowed state outside exception mode, the check the translator
    emits for an instruction that uses register [a<r>] does nothing when no
    frame up to that register's is occupied, and otherwise raises the window
    overflow of the first occupied frame; the assertion of the helper never
    fails. *)
Theorem window_check_exact (config : XtensaConfig) `{!WfNareg config} (env : CPUXtensaState)
    (r n m : Z) :
  wf_window config env -> wf_windowstart config env -> 0 <= sr env CPENABLE < 2 ^ 8 ->
  tb_cwoe config env = true -> 0 <= r < 16 ->
  first_started config env 0 n -> first_started config env n m ->
  let check := gen_window_check config (tb_context config env) (lsl32 1 r) env in
  if n <=? r / 4 then
    exists env', check = LoopExit env' /\ exception_index env' = overflow_vector m /\
      sr env' WINDOW_BASE = (sr env WINDOW_BASE + n) mod (nareg config / 4) /\
      sr env' EPC1 = pc env /\ Z.testbit (sr env' PS) 4 = true
  else check = Done tt env.
Proof.
  intros Hw Hs Hc Hcwoe Hr Hn Hm check.
  destruct (tb_flag_fields config env Hw Hs Hc) as (_ & _ & _ & _ & _ & Hwin & _).
  assert (Hpc : dc_pc (tb_context config env) = pc env) by done.
  assert (Hq : 0 <= r / 4 <= 3) by (split; [apply Z.div_pos|apply Z.lt_succ_r, Z.div_lt_upper_bound]; lia).
  unfold check, gen_window_check. rewrite clz_mask_top, Hwin, Hpc by lia. clear check.
  assert (Hdepth : tb_window config env = Z.min (n - 1) 3).
  { unfold tb_window. rewrite Hcwoe. by apply window_depth. }
  rewrite Hdepth. destruct (Z.leb_spec n (r / 4)).
  - rewrite (proj2 (Z.ltb_lt _ _)) by lia.
    rewrite (window_check_eq config env (pc env) (r / 4) n m) by done.
    destruct (rotate_and_raise config env n (sr env WINDOW_BASE) (pc env) (overflow_vector m) Hw)
      as (env' & E & _ & Hb & Hps & Hepc & _ & Hx & _).
    { unfold overflow_vector. if_split; lia. }
    exists env'. split; [exact E|]. split; [exact Hx|].
    split; [by rewrite Hb, windowbase_bound_mod|]. rewrite Hps. split; [done|apply ps_excm_bit].
  - by rewrite (proj2 (Z.ltb_ge _ _)) by lia.
Qed.

(** ** Witnesses *)

(** A state with the next occupied frame two windows up, in a loop. *)
Definition tb_env : CPUXtensaState :=
  set_pc 0x40080010 (set_sr PS (PS_WOE ||| 0x10000) (set_sr WINDOW_BASE 3 (set_sr WINDOW_START 0x29
    (set_sr LBEG 0x40080020 (set_sr LEND 0x40080030 window_env))))).

Lemma tb_env_wf : wf_window esp32s3_config tb_env.
Proof. split; try reflexivity. vm_compute. split; congruence. Qed.

Lemma tb_state_roundtrip_witness :
  let dc := tb_context esp32s3_config tb_env in
  dc_cwoe dc = true /\ dc_window dc = 1 /\ dc_callinc dc = 1 /\ dc_lend dc = 0x40080030 /\
  dc_lbeg_off dc = 0x10.
Proof.
  destruct (tb_state_roundtrip esp32s3_config tb_env tb_env_wf)
    as ((_ & _ & _ & _ & _ & Hw & Hc & Hi) & Hl & Ho).
  - vm_compute. split; congruence.
  - vm_compute. split; congruence.
  - vm_compute. split; congruence.
  - vm_compute. split; congruence.
  - vm_compute. congruence.
  - cbv zeta. rewrite Hc, Hw, Hi, Hl, Ho. vm_compute. done.
Defined.

Lemma window_check_exact_witness :
  exists env', gen_window_check esp32s3_config (tb_context esp32s3_config tb_env) (lsl32 1 9) tb_env
    = LoopExit env' /\ exception_index env' = EXC_WINDOW_OVERFLOW12.
Proof.
  destruct (window_check_exact esp32s3_config tb_env 9 2 11 tb_env_wf) as (env' & H1 & H2 & _).
  - vm_compute. split; congruence.
  - vm_compute. split; congruence.
  - reflexivity.
  - lia.
  - split; [lia|]. split; [vm_compute; congruence|]. split; [reflexivity|].
    intros k Hk. assert (k = 1) as -> by lia. reflexivity.
  - split; [lia|]. split; [vm_compute; congruence|]. split; [reflexivity|].
    intros k Hk. assert (Hc : k = 1 \/ k = 2 \/ k = 3 \/ k = 4 \/ k = 5 \/ k = 6 \/ k = 7 \/ k = 8
      \/ k = 9 \/ k = 10) by lia.
    repeat destruct Hc as [->|Hc]; try reflexivity. by subst.
  - exists env'. split; [exact H1|exact H2].
Defined.
