(* ===== verification/Control.v ===== *)
(** * Control transfer ([target/xtensa/translate.c])

    The effect of the code the translator emits for calls, returns, loops and
    the returns from exceptions and interrupts.  A [translate_*] function is
    the computation its emitted operations perform; the fields of the
    disassembly context are the constants they embed.  Chaining of blocks
    ([goto_tb]) has no effect on the processor state. *)

From S2P Require Import Prelude Cpu Interrupt Exception Window TbFlags.

#[local] Open Scope mach_scope.

Abbreviation LCOUNT := 2 (only parsing).
Abbreviation OP_CHECK_INTERRUPTS := 0x200 (only parsing).
Abbreviation OP_EXIT_TB_M1 := 0x400 (only parsing).
Abbreviation OP_EXIT_TB_0 := 0x800 (only parsing).
Abbreviation OP_SYNC_REGISTER_WINDOW := 0x1000 (only parsing).
Abbreviation OP_POSTPROCESS := 0x1e00 (only parsing).

Section translate.
Context (config : XtensaConfig).

(** ** Jumps *)

Definition gen_postprocess (dc : DisasContext) : cpuM unit :=
  when (truthy (dc_op_flags dc &&& OP_CHECK_INTERRUPTS)) (modify (helper_check_interrupts config)) ;;
  when (truthy (dc_op_flags dc &&& OP_SYNC_REGISTER_WINDOW)) (helper_sync_windowbase config).

Definition gen_jump (dc : DisasContext) (dest : Z) : cpuM unit :=
  modify (set_pc dest) ;;
  when (dc_icount dc) (modify (set_sr ICOUNT (dc_next_icount dc))) ;;
  when (truthy (dc_op_flags dc &&& OP_POSTPROCESS)) (gen_postprocess dc).

Definition gen_jumpi := gen_jump.

Definition gen_callw_slot (dc : DisasContext) (callinc dest : Z) : cpuM unit :=
  modify (fun env => set_sr PS (deposit32 (sr env PS) PS_CALLINC_SHIFT PS_CALLINC_LEN callinc) env) ;;
  modify (fun env => set_regs (setZ (regs env) (Z.shiftl callinc 2)
                       (lsl32 callinc 30 ||| (dc_pc_next dc &&& 0x3fffffff))) env) ;;
  gen_jump dc dest.

(** Returns whether loop-back code was emitted, after running it. *)
Definition gen_check_loop_end (dc : DisasContext) : cpuM bool :=
  if dc_pc_next dc =? dc_lend dc then
    env <- get ;;
    (if sr env LCOUNT =? 0 then gen_jumpi dc (dc_pc_next dc)
     else
       modify (set_sr LCOUNT (u32 (sr env LCOUNT - 1))) ;;
       if truthy (dc_lbeg_off dc) then gen_jumpi dc (u32 (dc_pc_next dc - dc_lbeg_off dc))
       else gen_jump dc (sr env LBEG)) ;;
    ret true
  else ret false.

Definition gen_jumpi_check_loop_end (dc : DisasContext) : cpuM unit :=
  looped <- gen_check_loop_end dc ;;
  if looped : bool then ret tt else gen_jumpi dc (dc_pc_next dc).

(** [taken] is the outcome of the comparison. *)
Definition gen_brcond (dc : DisasContext) (taken : bool) (addr : Z) : cpuM unit :=
  if taken then gen_jumpi dc addr else gen_jumpi_check_loop_end dc.

Definition clear_op_flags (dc : DisasContext) : DisasContext :=
  {| dc_pc := dc_pc dc; dc_pc_next := dc_pc_next dc; dc_ring := dc_ring dc;
     dc_cring := dc_cring dc; dc_lbeg_off := dc_lbeg_off dc; dc_lend := dc_lend dc;
     dc_debug := dc_debug dc; dc_icount := dc_icount dc; dc_cpenable := dc_cpenable dc;
     dc_window := dc_window dc; dc_cwoe := dc_cwoe dc; dc_callinc := dc_callinc dc;
     dc_op_flags := 0; dc_next_icount := dc_next_icount dc |}.

(** The end of an instruction that is not itself a jump; [true] when the block
    is left. *)
Definition finish_insn (dc : DisasContext) : cpuM bool :=
  gen_postprocess dc ;;
  if truthy (dc_op_flags dc &&& OP_EXIT_TB_M1) then
    gen_jumpi_check_loop_end (clear_op_flags dc) ;; ret true
  else if truthy (dc_op_flags dc &&& OP_EXIT_TB_0) then
    gen_jumpi_check_loop_end (clear_op_flags dc) ;; ret true
  else gen_check_loop_end (clear_op_flags dc).

(** ** Calls and returns *)

Definition set_reg (r v : Z) (env : CPUXtensaState) : CPUXtensaState :=
  set_regs (setZ (regs env) r v) env.

Definition translate_call0 (dc : DisasContext) (dest : Z) : cpuM unit :=
  modify (set_reg 0 (dc_pc_next dc)) ;; gen_jumpi dc dest.

Definition translate_callw (dc : DisasContext) (n dest : Z) : cpuM unit := gen_callw_slot dc n dest.

Definition translate_callx0 (dc : DisasContext) (s : Z) : cpuM unit :=
  env <- get ;;
  modify (set_reg 0 (dc_pc_next dc)) ;; gen_jump dc (nthZ (regs env) s).

Definition translate_callxw (dc : DisasContext) (n s : Z) : cpuM unit :=
  env <- get ;; gen_callw_slot dc n (nthZ (regs env) s).

Definition translate_ret (dc : DisasContext) : cpuM unit :=
  env <- get ;; gen_jump dc (nthZ (regs env) 0).

Definition test_exceptions_entry (dc : DisasContext) (s : Z) : bool := (3 <? s) || negb (dc_cwoe dc).
Definition test_overflow_entry (dc : DisasContext) : Z := lsl32 1 (dc_callinc dc * 4).
Definition translate_entry (dc : DisasContext) (s imm : Z) : cpuM unit :=
  helper_entry config (dc_pc dc) s imm.

Definition translate_retw (dc : DisasContext) : cpuM unit :=
  modify (fun env => set_sr WINDOW_START
            (sr env WINDOW_START &&& not32 (lsl32 1 (sr env WINDOW_BASE))) env) ;;
  env <- get ;;
  let tmp := deposit32 (dc_pc dc) 0 30 (nthZ (regs env) 0) in
  helper_retw config (nthZ (regs env) 0) ;;
  gen_jump dc tmp.

(** ** Returns from exceptions *)

Definition translate_rfde (dc : DisasContext) : cpuM unit :=
  env <- get ;; gen_jump dc (sr env (if truthy (ndepc config) then DEPC else EPC1)).

Definition translate_rfe (dc : DisasContext) : cpuM unit :=
  modify (fun env => set_sr PS (sr env PS &&& not32 PS_EXCM) env) ;;
  env <- get ;; gen_jump dc (sr env EPC1).

Definition translate_rfi (dc : DisasContext) (level : Z) : cpuM unit :=
  modify (fun env => set_sr PS (sr env (EPS2 + level - 2)) env) ;;
  env <- get ;; gen_jump dc (sr env (EPC1 + level - 1)).

(** [overflow] is [par[0]]: RFWO clears the frame's bit, RFWU sets it. *)
Definition translate_rfw (dc : DisasContext) (overflow : bool) : cpuM unit :=
  modify (fun env => set_sr PS (sr env PS &&& not32 PS_EXCM) env) ;;
  modify (fun env =>
    let tmp := lsl32 1 (sr env WINDOW_BASE) in
    set_sr WINDOW_START (if overflow then sr env WINDOW_START &&& not32 tmp
                         else sr env WINDOW_START ||| tmp) env) ;;
  helper_restore_owb config ;;
  env <- get ;; gen_jump dc (sr env EPC1).

(** ** Windows, interrupt level and loops *)

Definition translate_rotw (imm : Z) : cpuM unit :=
  modify (fun env => set_windowbase_next (u32 (sr env WINDOW_BASE + imm)) env).

Definition translate_rsil (t level : Z) : cpuM unit :=
  modify (fun env => set_reg t (sr env PS) env) ;;
  modify (fun env => set_sr PS ((sr env PS &&& not32 PS_INTLEVEL) ||| level) env).

Definition translate_waiti (dc : DisasContext) (level : Z) : cpuM unit :=
  helper_waiti config (dc_pc_next dc) level.

(** The conditions of LOOP, LOOPNEZ and LOOPGTZ. *)
Inductive loop_cond := LoopAlways | LoopNez | LoopGtz.
(** The branch on [par[0]]: whether the body is entered. *)
Definition loop_enters (c : loop_cond) (count : Z) : bool :=
  match c with
  | LoopAlways => true
  | LoopNez => negb (count =? 0)
  | LoopGtz => 0 <? s32 count
  end.

Definition translate_loop (dc : DisasContext) (c : loop_cond) (s lend : Z) : cpuM unit :=
  env <- get ;;
  let count := nthZ (regs env) s in
  modify (set_sr LCOUNT (u32 (count - 1))) ;;
  modify (set_sr LBEG (dc_pc_next dc)) ;;
  modify (set_sr LEND lend) ;;
  if loop_enters c count then gen_jumpi dc (dc_pc_next dc) else gen_jumpi dc lend.

End translate.

(** ** Frames of the jumps *)

Section jumps.
Context (config : XtensaConfig).

(** The instruction of [dc] does not move the window when it is left. *)
Definition no_sync (dc : DisasContext) : Prop :=
  truthy (dc_op_flags dc &&& OP_SYNC_REGISTER_WINDOW) = false.

(** [env'] is [env] after a jump to [dest]. *)
Record jumped (dest : Z) (env env' : CPUXtensaState) : Prop := {
  j_pc : pc env' = dest;
  j_sr : forall r, r <> ICOUNT -> sr env' r = sr env r;
  j_regs : regs env' = regs env;
  j_phys : phys_regs env' = phys_regs env;
}.

Lemma gen_postprocess_spec dc env :
  no_sync dc ->
  exists env', gen_postprocess config dc env = Done tt env' /\ jumped (pc env) env env' /\
    (truthy (dc_op_flags dc &&& OP_CHECK_INTERRUPTS) = true ->
     highest_pending config env' (pending_irq_level env')).
Proof.
  intros Hs. unfold gen_postprocess. rewrite Hs. unfold when, bind, modify, ret.
  destruct (truthy (dc_op_flags dc &&& OP_CHECK_INTERRUPTS)).
  - eexists. split; [reflexivity|]. unfold helper_check_interrupts.
    destruct (check_interrupts_frame config env) as (_ & Hp & Hr & Hph & _).
    split; [split; [done| |done|done]|].
    + intros r _. apply check_interrupts_sr.
    + intros _. apply highest_pending_after, check_interrupts_pending.
  - eexists. split; [reflexivity|]. done.
Qed.

Lemma gen_jump_spec dc dest env :
  no_sync dc ->
  exists env', gen_jump config dc dest env = Done tt env' /\ jumped dest env env' /\
    (truthy (dc_op_flags dc &&& OP_CHECK_INTERRUPTS) = true ->
     highest_pending config env' (pending_irq_level env')).
Proof.
  intros Hs. unfold gen_jump.
  set (env1 := if dc_icount dc then set_sr ICOUNT (dc_next_icount dc) (set_pc dest env)
               else set_pc dest env).
  assert (H1 : jumped dest env env1).
  { unfold env1. destruct (dc_icount dc); split; try done. intros r Hr. by sr_simpl. }
  assert (E : forall k : cpuM unit, (modify (set_pc dest) ;;
      when (dc_icount dc) (modify (set_sr ICOUNT (dc_next_icount dc))) ;; k) env = k env1).
  { intros k. unfold bind, modify, when, env1. by destruct (dc_icount dc). }
  rewrite E. clearbody env1. clear E.
  destruct (gen_postprocess_spec dc env1 Hs) as (env' & E & H2 & Hp).
  destruct (truthy (dc_op_flags dc &&& OP_POSTPROCESS)) eqn:Hpost; simpl.
  - exists env'. split; [done|]. split; [|done]. destruct H1, H2.
    split; [congruence| |congruence|congruence]. intros r Hr. by rewrite j_sr1, j_sr0.
  - exists env1. split; [done|]. split; [done|]. intros Hc.
    exfalso. apply truthy_false in Hpost. apply truthy_true in Hc. apply Hc.
    replace OP_CHECK_INTERRUPTS with (OP_POSTPROCESS &&& OP_CHECK_INTERRUPTS) by done.
    by rewrite Z.land_assoc, Hpost, Z.land_0_l.
Qed.

End jumps.

(** The flags RFE, RFI, RFWO and RFWU are declared with. *)
Definition return_flags (dc : DisasContext) : Prop := dc_op_flags dc = 0x2 ||| OP_CHECK_INTERRUPTS.

Lemma return_flags_jump config dc dest env :
  return_flags dc ->
  exists env', gen_jump config dc dest env = Done tt env' /\ jumped dest env env' /\
    highest_pending config env' (pending_irq_level env').
Proof.
  intros Hf. assert (no_sync dc) by (unfold no_sync; by rewrite Hf).
  destruct (gen_jump_spec config dc dest env) as (env' & E & Hj & Hp); [done|].
  exists env'. split; [done|]. split; [done|]. apply Hp. by rewrite Hf.
Qed.

(** A return that loads PS and jumps. *)
Lemma ps_return config dc v dest env :
  return_flags dc ->
  exists env',
    gen_jump config dc dest (set_sr PS v env) = Done tt env' /\
    pc env' = dest /\ sr env' PS = v /\ regs env' = regs env /\
    (forall r, r <> PS -> r <> ICOUNT -> sr env' r = sr env r) /\
    highest_pending config env' (pending_irq_level env').
Proof.
  intros Hdc. destruct (return_flags_jump config dc dest (set_sr PS v env) Hdc)
    as (env' & E & [Jpc Jsr Jregs _] & Hp).
  exists env'. split; [done|]. split; [done|]. split; [by rewrite Jsr, sr_set_sr_eq by lia|].
  split; [done|]. split; [|done]. intros r Hr1 Hr2. by rewrite Jsr, sr_set_sr_ne by done.
Qed.

Lemma excm_cleared ps :
  in32 ps -> Z.testbit ps 4 = false -> (ps ||| PS_EXCM) &&& not32 PS_EXCM = ps.
Proof.
  intros H32 H4. change PS_EXCM with (2 ^ 4). zbits.
  destruct (Z.ltb_spec i 32); bool_simpl.
  - destruct (Z.eqb_spec i 4) as [->|]; bool_simpl; [done|done].
  - symmetry. by apply in32_testbit.
Qed.

(** ** Claims *)

(** [env] where the interrupt controller was asked again: the pending level and the calls
    into the emulator core. *)
Definition rechecked (env env' : CPUXtensaState) : CPUXtensaState :=
  set_trace (trace env') (set_pending_irq_level (pending_irq_level env') env).
(** [env] with the instruction count of the block. *)
Definition counted (dc : DisasContext) (env : CPUXtensaState) : CPUXtensaState :=
  if dc_icount dc then set_sr ICOUNT (dc_next_icount dc) env else env.

Lemma check_interrupts_rechecked config env :
  check_interrupts config env = rechecked env (check_interrupts config env).
Proof. unfold check_interrupts. by destruct (check_levels _ _ _ _). Qed.

Lemma return_jump_eq config dc dest env :
  return_flags dc -> gen_jump config dc dest env = Done tt (check_interrupts config (counted dc (set_pc dest env))).
Proof.
  intros Hf. unfold gen_jump, gen_postprocess, bind, modify, when, counted. rewrite Hf.
  by destruct (dc_icount dc).
Qed.

(** C19: An interrupt of level L, 1 < L < NMI level, followed by RFI L resumes the
    interrupted program.  Taking the interrupt changes EPC[L], EPS[L] and PS among
    the special registers, and no address register.  Whatever the handler does, if
    it keeps EPC[L] and EPS[L], RFI succeeds and the program counter and PS are
    those of the moment the interrupt was taken; the pending level is recomputed for
    the restored PS; and every other field of the CPU state is as the handler left
    it, but for ICOUNT when instructions are counted. *)
Theorem interrupt_rfi_roundtrip (config : XtensaConfig) `{!WfInterrupts config}
    (env : CPUXtensaState) (L : Z) :
  highest_pending config env L -> pending_irq_level env = L -> 1 < L < nmi_level config ->
  exists env1,
    xtensa_cpu_exec_interrupt config CPU_INTERRUPT_HARD env = Done true env1 /\
    regs env1 = regs env /\ phys_regs env1 = phys_regs env /\
    (forall r, r <> PS -> r <> EPC1 + L - 1 -> r <> EPS2 + L - 2 -> sr env1 r = sr env r) /\
    forall env2 dc,
      sr env2 (EPC1 + L - 1) = sr env1 (EPC1 + L - 1) ->
      sr env2 (EPS2 + L - 2) = sr env1 (EPS2 + L - 2) -> return_flags dc ->
      exists env3,
        translate_rfi config dc L env2 = Done tt env3 /\
        pc env3 = pc env /\ sr env3 PS = sr env PS /\
        env3 = rechecked (counted dc (set_pc (pc env) (set_sr PS (sr env PS) env2))) env3 /\
        highest_pending config env3 (pending_irq_level env3).
Proof.
  intros HL Hp HLr. pose proof (highest_minlevel config env L HL ltac:(lia) ltac:(lia)).
  pose proof wf_nlevel. pose proof wf_vectors. eexists. split; [exact (exec_interrupt_high config env L HL Hp HLr)|].
  destruct (check_interrupts_frame config (high_entry config L (set_exception_index EXC_IRQ env))) as (_ & _ & -> & -> & _).
  split; [done|]. split; [done|]. split.
  { intros r ???. rewrite check_interrupts_sr. unfold high_entry. by sr_simpl. }
  intros env2 dc. rewrite !check_interrupts_sr. unfold high_entry.
  assert (EPC1 + L - 1 <> EPS2 + L - 2) by lia.
  intros Hepc Heps Hdc. unfold translate_rfi, bind, modify, get.
  rewrite (sr_set_sr_ne _ PS (EPC1 + L - 1)) by lia. rewrite Hepc, Heps.
  destruct (ps_return config dc (sr env PS) (pc env) env2 Hdc) as (env3 & E & Hpc & Hps & _ & _ & Hhp).
  exists env3. split; [rewrite <- E; sr_simpl; done|]. split; [done|]. split; [done|]. split; [|done].
  rewrite return_jump_eq in E by done. injection E as <-. apply check_interrupts_rechecked.
Qed.

(** A general exception outside exception mode followed by RFE returns to
    the instruction that raised it: whatever the handler does, if it keeps
    EPC1 and leaves PS as it found it, the program counter is the faulting
    address and PS its old value, so the instruction is executed again in the
    same mode. *)
Theorem exception_rfe_roundtrip (config : XtensaConfig) (env : CPUXtensaState) (epc cause : Z) :
  Z.testbit (sr env PS) 4 = false -> in32 (sr env PS) ->
  exists env1,
    take_exception config (helper_exception_cause (A := unit) config epc cause) env
      = Done tt env1 /\
    forall env2 dc,
      sr env2 EPC1 = sr env1 EPC1 -> sr env2 PS = sr env1 PS -> return_flags dc ->
      exists env3,
        translate_rfe config dc env2 = Done tt env3 /\
        pc env3 = epc /\ sr env3 PS = sr env PS /\ regs env3 = regs env2 /\
        (forall r, r <> PS -> r <> ICOUNT -> sr env3 r = sr env2 r) /\
        highest_pending config env3 (pending_irq_level env3).
Proof.
  intros Hexcm H32. unfold take_exception. rewrite exception_cause_eq, Hexcm.
  set (env1 := general_entry _ _ _ _).
  assert (Hx : (exception_index env1 =? EXC_IRQ) = false).
  { change (exception_index env1) with (user_or_kernel env). unfold user_or_kernel.
    by destruct (truthy (sr env PS &&& PS_UM)). }
  unfold xtensa_cpu_do_interrupt, bind, get. rewrite Hx. eexists. split; [reflexivity|].
  intros env2 dc. rewrite !check_interrupts_sr, !enter_vector_sr. intros Hepc Hps Hdc.
  assert (He : sr env1 EPC1 = epc) by (unfold env1, general_entry; by sr_simpl).
  assert (Hs : sr env1 PS = sr env PS ||| PS_EXCM) by (unfold env1, general_entry; by sr_simpl).
  unfold translate_rfe, bind, modify, get. rewrite sr_set_sr_ne by lia.
  rewrite Hepc, He, Hps, Hs, excm_cleared by done. by apply ps_return.
Qed.

(** ** Window exceptions and their returns *)

Section rfw.
Context (config : XtensaConfig) `{!WfNareg config}.

Lemma jumped_wf_window dest env env' : jumped dest env env' -> wf_window config env -> wf_window config env'.
Proof.
  intros [_ Hs Hr Hp] Hwf. apply (wf_window_ext config env); [done|congruence|congruence|].
  apply Hs. lia.
Qed.

Lemma jumped_ar_file dest env env' i : jumped dest env env' -> ar_file config env' i = ar_file config env i.
Proof. intros [_ Hs Hr Hp]. apply ar_file_ext; [done..|]. apply Hs. lia. Qed.

(** WINDOW_START after RFWO or RFWU. *)
Definition rfw_start (overflow : bool) (env : CPUXtensaState) : Z :=
  let tmp := lsl32 1 (sr env WINDOW_BASE) in
  if overflow then sr env WINDOW_START &&& not32 tmp else sr env WINDOW_START ||| tmp.

Lemma excm_keeps_owb ps : (ps &&& not32 PS_EXCM) &&& PS_OWB = ps &&& PS_OWB.
Proof. rewrite <- Z.land_assoc. by change (not32 PS_EXCM &&& PS_OWB) with PS_OWB. Qed.

Lemma rfw_spec dc overflow env :
  wf_window config env -> return_flags dc ->
  exists env',
    translate_rfw config dc overflow env = Done tt env' /\ wf_window config env' /\
    pc env' = sr env EPC1 /\
    sr env' WINDOW_BASE = windowbase_bound config ((sr env PS &&& PS_OWB) >>> PS_OWB_SHIFT) /\
    sr env' WINDOW_START = rfw_start overflow env /\
    sr env' PS = sr env PS &&& not32 PS_EXCM /\
    (forall i, 0 <= i < nareg config -> ar_file config env' i = ar_file config env i).
Proof.
  intros Hwf Hdc. unfold translate_rfw, bind, modify.
  set (env1 := set_sr PS (sr env PS &&& not32 PS_EXCM) env).
  set (env2 := set_sr WINDOW_START _ env1).
  assert (Hst : sr env2 WINDOW_START = rfw_start overflow env).
  { unfold env2. rewrite sr_set_sr_eq. unfold env1. by rewrite !sr_set_sr_ne by lia. }
  assert (Hps : sr env2 PS = sr env PS &&& not32 PS_EXCM).
  { unfold env2, env1. by rewrite sr_set_sr_ne, sr_set_sr_eq by lia. }
  assert (Hepc : sr env2 EPC1 = sr env EPC1) by (unfold env2, env1; by rewrite !sr_set_sr_ne by lia).
  assert (Hb : sr env2 WINDOW_BASE = sr env WINDOW_BASE)
    by (unfold env2, env1; by rewrite !sr_set_sr_ne by lia).
  assert (Hrp : regs env2 = regs env /\ phys_regs env2 = phys_regs env) by done.
  clearbody env2. clear env1. destruct Hrp as [Hr Hph].
  assert (Hwf2 : wf_window config env2) by (apply (wf_window_ext config env); congruence).
  unfold helper_restore_owb, xtensa_restore_owb, bind, get. rewrite Hps, excm_keeps_owb.
  destruct (rotate_window_abs_spec config env2 ((sr env PS &&& PS_OWB) >>> PS_OWB_SHIFT) Hwf2)
    as (r & ph & E & Hwf3 & Hf & _).
  rewrite E. set (env3 := set_regs r _) in *.
  assert (Hsr : forall q, q <> WINDOW_BASE -> sr env3 q = sr env2 q)
    by (intros q Hq; by apply fupd_ne).
  assert (Hb3 : sr env3 WINDOW_BASE = windowbase_bound config ((sr env PS &&& PS_OWB) >>> PS_OWB_SHIFT))
    by apply fupd_eq.
  clearbody env3. clear E.
  destruct (return_flags_jump config dc (sr env3 EPC1) env3 Hdc) as (env' & E & Hj & _).
  exists env'. split; [done|]. split; [by eapply jumped_wf_window|].
  pose proof (j_pc _ _ _ Hj) as Jpc. pose proof (j_sr _ _ _ Hj) as Jsr.
  split; [by rewrite Jpc, Hsr by lia|]. split; [by rewrite Jsr by lia|].
  split; [by rewrite Jsr, Hsr by lia|]. split; [by rewrite Jsr, Hsr by lia|].
  intros i Hi. rewrite (jumped_ar_file (sr env3 EPC1) env3), Hf by done. by apply ar_file_ext.
Qed.

(** Live frames after the frame at distance [n] is cleared or set. *)
Lemma rfw_frames overflow env env1 env' n k :
  wf_window config env -> wf_windowstart config env ->
  sr env1 WINDOW_BASE = windowbase_bound config (sr env WINDOW_BASE + n) ->
  sr env1 WINDOW_START = sr env WINDOW_START ->
  sr env' WINDOW_BASE = sr env WINDOW_BASE -> sr env' WINDOW_START = rfw_start overflow env1 ->
  let same := windowbase_bound config (sr env WINDOW_BASE + k)
              =? windowbase_bound config (sr env WINDOW_BASE + n) in
  frame_started config env' k =
    (if overflow then frame_started config env k && negb same else frame_started config env k || same).
Proof.
  intros Hwf Hws Hb1 Hs1 Hb Hs same. unfold frame_started. rewrite Hs, Hb. unfold rfw_start.
  pose proof (windowbase_bound_range config (sr env WINDOW_BASE + k)).
  pose proof (windowbase_bound_range config (sr env WINDOW_BASE + n)).
  pose proof (nareg_div4 config).
  rewrite Hb1, Hs1. rewrite lsl32_1 by lia. unfold same.
  destruct overflow.
  - rewrite Z.land_spec, not32_testbit, pow2_testbit by lia.
    by rewrite (proj2 (Z.ltb_lt _ 32)) by lia.
  - by rewrite Z.lor_spec, pow2_testbit by lia.
Qed.

End rfw.

(** The handler returned with the control registers it was entered with; it
    may have changed any register. *)
Record handler_ready (config : XtensaConfig) (env1 env2 : CPUXtensaState) : Prop := {
  hr_wf : wf_window config env2;
  hr_base : sr env2 WINDOW_BASE = sr env1 WINDOW_BASE;
  hr_start : sr env2 WINDOW_START = sr env1 WINDOW_START;
  hr_ps : sr env2 PS = sr env1 PS;
  hr_epc : sr env2 EPC1 = sr env1 EPC1;
}.

Section window_returns.
Context (config : XtensaConfig) `{!WfNareg config}.

(** A window exception that rotates by [delta] and the RFWO or RFWU that ends
    its handler. *)
Lemma window_exception_return overflow env env1 epc delta :
  wf_window config env -> wf_windowstart config env ->
  sr env1 WINDOW_BASE = windowbase_bound config (sr env WINDOW_BASE + delta) ->
  sr env1 PS = window_exc_ps (sr env PS) (sr env WINDOW_BASE) ->
  sr env1 EPC1 = epc -> sr env1 WINDOW_START = sr env WINDOW_START ->
  (forall i, 0 <= i < nareg config -> ar_file config env1 i = ar_file config env i) ->
  forall env2 dc, handler_ready config env1 env2 -> return_flags dc ->
  exists env3,
    translate_rfw config dc overflow env2 = Done tt env3 /\ wf_window config env3 /\
    pc env3 = epc /\ sr env3 WINDOW_BASE = sr env WINDOW_BASE /\
    Z.testbit (sr env3 PS) 4 = false /\
    (forall k, frame_started config env3 k =
       let same := windowbase_bound config (sr env WINDOW_BASE + k)
                   =? windowbase_bound config (sr env WINDOW_BASE + delta) in
       if overflow then frame_started config env k && negb same
       else frame_started config env k || same) /\
    (forall j, 0 <= j < 16 ->
       ar_file config env2 (ar_index config env j) = ar_file config env1 (ar_index config env j) ->
       nthZ (regs env3) j = nthZ (regs env) j).
Proof.
  intros Hwf Hws Hb1 Hps1 Hepc1 Hs1 Hf1 env2 dc [Hwf2 Hb2 Hs2 Hps2 Hepc2] Hdc.
  pose proof (wf_wb _ _ Hwf) as Hwb. pose proof (nareg_div4 config). pose proof (nareg_cases config).
  destruct (rfw_spec config dc overflow env2 Hwf2 Hdc)
    as (env3 & E & Hwf3 & Hpc & Hb3 & Hs3 & Hps3 & Hf3).
  rewrite Hps2, Hps1, window_exc_ps_owb, windowbase_bound_small in Hb3 by (done || lia).
  exists env3. split; [done|]. split; [done|]. split; [congruence|]. split; [done|].
  split. { rewrite Hps3. rewrite Z.land_spec. by change (Z.testbit (not32 PS_EXCM) 4) with false;
             rewrite andb_false_r. }
  split.
  - intros k. apply (rfw_frames config overflow env env2 env3 delta); [done|done|congruence..].
  - intros j Hj Heq. rewrite <- (ar_file_window config env3) by done.
    replace (ar_index config env3 j) with (ar_index config env j) by (unfold ar_index; by rewrite Hb3).
    assert (0 <= ar_index config env j < nareg config) by (apply Z.mod_pos_bound; lia).
    rewrite Hf3, Heq, Hf1 by done. by apply ar_file_window.
Qed.

End window_returns.

(** C20: A window overflow and the RFWO that ends its handler resume the
    instruction that overflowed, in the window it was executed in, outside
    exception mode, with every visible register the handler did not write
    unchanged; the spilled frame, and no other, is no longer live, so the
    retried instruction finds the next occupied frame further away. *)
Theorem window_overflow_rfwo (config : XtensaConfig) `{!WfNareg config}
    (env : CPUXtensaState) (epc w n m : Z) :
  wf_window config env -> wf_windowstart config env ->
  first_started config env 0 n -> n <= w -> first_started config env n m ->
  exists env1,
    helper_window_check config epc w env = LoopExit env1 /\
    forall env2 dc, handler_ready config env1 env2 -> return_flags dc ->
    exists env3,
      translate_rfw config dc true env2 = Done tt env3 /\ wf_window config env3 /\
      pc env3 = epc /\ sr env3 WINDOW_BASE = sr env WINDOW_BASE /\
      Z.testbit (sr env3 PS) 4 = false /\
      (forall k, 1 <= k <= n -> frame_started config env3 k = false) /\
      (forall k, n < k < n + nareg config / 4 ->
         frame_started config env3 k = frame_started config env k) /\
      (forall j, 0 <= j < 16 ->
         ar_file config env2 (ar_index config env j) = ar_file config env1 (ar_index config env j) ->
         nthZ (regs env3) j = nthZ (regs env) j).
Proof.
  intros Hwf Hws Hn Hw Hm. rewrite (window_check_eq config env epc w n m) by done.
  destruct (rotate_and_raise config env n (sr env WINDOW_BASE) epc (overflow_vector m) Hwf)
    as (env1 & E & _ & Hb & Hps & Hepc & _ & _ & Hs & Hf & _).
  { unfold overflow_vector. if_split; lia. }
  exists env1. split; [exact E|]. intros env2 dc Hh Hdc.
  destruct (window_exception_return config true env env1 epc n Hwf Hws Hb Hps Hepc Hs Hf env2 dc Hh Hdc)
    as (env3 & E3 & Hwf3 & Hpc & Hb3 & Hx & Hfr & Hr).
  exists env3. do 5 (split; [done|]). destruct Hn as (Hn1 & Hn2 & _ & Hno).
  rewrite !Z.add_0_l in *. pose proof (nareg_div4 config).
  split; [|split; [|done]]; intros k Hk; rewrite Hfr; cbv zeta.
  - destruct (Z.eq_dec k n) as [->|]; [rewrite Z.eqb_refl; apply andb_false_r|].
    specialize (Hno k ltac:(lia)). rewrite Z.add_0_l in Hno. by rewrite Hno.
  - rewrite (proj2 (Z.eqb_neq _ _)), andb_true_r; [done|].
    rewrite !windowbase_bound_mod by done. pose proof (nareg_cases config) as Hc. nareg_arith Hc.
Qed.

(** A window underflow and the RFWU that ends its handler resume the RETW
    that underflowed in its own window, the refilled frame is live, and
    provided the handler kept a0 the retried RETW passes its test. *)
Theorem window_underflow_rfwu (config : XtensaConfig) `{!WfNareg config}
    (env : CPUXtensaState) (epc : Z) :
  wf_window config env -> wf_windowstart config env ->
  let n := call_size (nthZ (regs env) 0) in
  1 <= n -> frame_started config env (- n) = false ->
  exists env1,
    helper_test_underflow_retw config epc env = LoopExit env1 /\
    forall env2 dc, handler_ready config env1 env2 -> return_flags dc ->
    exists env3,
      translate_rfw config dc false env2 = Done tt env3 /\
      pc env3 = epc /\ sr env3 WINDOW_BASE = sr env WINDOW_BASE /\
      Z.testbit (sr env3 PS) 4 = false /\
      (forall k, frame_started config env k = true -> frame_started config env3 k = true) /\
      (ar_file config env2 (ar_index config env 0) = ar_file config env1 (ar_index config env 0) ->
       helper_test_underflow_retw config epc env3 = Done tt env3).
Proof.
  intros Hwf Hws n Hn Hns. rewrite test_underflow_eq by done. fold n. rewrite Hns.
  assert (Hn3 : 0 <= n < 2 ^ 2) by (apply (land_range 2); lia).
  destruct (rotate_and_raise config env (u32 (- n)) (sr env WINDOW_BASE) epc
              (EXC_WINDOW_UNDERFLOW4 + 2 * (n - 1)) Hwf)
    as (env1 & E & _ & Hb & Hps & Hepc & _ & _ & Hs & Hf & _); [lia|].
  exists env1. split; [exact E|]. intros env2 dc Hh Hdc.
  destruct (window_exception_return config false env env1 epc (u32 (- n)) Hwf Hws Hb Hps Hepc Hs Hf
              env2 dc Hh Hdc) as (env3 & E3 & Hwf3 & Hpc & Hb3 & Hx & Hfr & Hr).
  exists env3. do 4 (split; [done|]). split; [intros k Hk; by rewrite Hfr, Hk|].
  intros Ha0. assert (nthZ (regs env3) 0 = nthZ (regs env) 0) as Ea by (apply Hr; [lia|done]).
  rewrite test_underflow_eq by (done || by rewrite Ea). rewrite Ea. fold n. rewrite Hfr. cbv zeta.
  rewrite <- (windowbase_bound_u32 config (_ + u32 _)), u32_add_r, windowbase_bound_u32 by done.
  by rewrite Z.eqb_refl, orb_true_r.
Qed.

(** ** Windowed calls *)

Section calls.
Context (config : XtensaConfig).

(** The end of an instruction: the loop registers apart, only the program
    counter moves. *)
Lemma gen_check_loop_end_frame dc env :
  no_sync dc ->
  exists b env', gen_check_loop_end config dc env = Done b env' /\
    regs env' = regs env /\ phys_regs env' = phys_regs env /\
    forall r, r <> ICOUNT -> r <> LCOUNT -> sr env' r = sr env r.
Proof.
  intros Hs. unfold gen_check_loop_end. destruct (_ =? _); [|by exists false, env].
  exists true. unfold bind at 1, get. unfold bind at 1.
  destruct (sr env LCOUNT =? 0).
  - destruct (gen_jump_spec config dc (dc_pc_next dc) env Hs) as (env' & E & [_ Hsr Hr Hp] & _).
    exists env'. unfold gen_jumpi. rewrite E. split; [done|]. split; [done|]. split; [done|]. auto.
  - unfold bind at 1, modify. set (env1 := set_sr LCOUNT _ env).
    assert (H1 : forall r, r <> LCOUNT -> sr env1 r = sr env r) by (intros; by apply sr_set_sr_ne).
    set (dest := if truthy (dc_lbeg_off dc) then u32 (dc_pc_next dc - dc_lbeg_off dc) else sr env LBEG).
    destruct (gen_jump_spec config dc dest env1 Hs) as (env' & E & [_ Hsr Hr Hp] & _).
    exists env'. split; [unfold gen_jumpi, dest in *; destruct (truthy _); by rewrite E|].
    split; [done|]. split; [done|]. intros r Hr1 Hr2. by rewrite Hsr, H1.
Qed.

Lemma gen_jumpi_check_loop_end_frame dc env :
  no_sync dc ->
  exists env', gen_jumpi_check_loop_end config dc env = Done tt env' /\
    regs env' = regs env /\ phys_regs env' = phys_regs env /\
    forall r, r <> ICOUNT -> r <> LCOUNT -> sr env' r = sr env r.
Proof.
  intros Hs. unfold gen_jumpi_check_loop_end, bind.
  destruct (gen_check_loop_end_frame dc env Hs) as (b & env1 & -> & Hr & Hp & Hsr).
  destruct b; [by exists env1|].
  destruct (gen_jump_spec config dc (dc_pc_next dc) env1 Hs) as (env' & E & [_ Hsr' Hr' Hp'] & _).
  exists env'. split; [exact E|]. split; [congruence|]. split; [congruence|].
  intros r H1 H2. by rewrite Hsr', Hsr.
Qed.

(** The link register of a windowed call. *)
Definition link (c next : Z) : Z := lsl32 c 30 ||| (next &&& 0x3fffffff).

Lemma link_call_size c next : 0 <= c <= 3 -> call_size (link c next) = c.
Proof.
  intros Hc. unfold call_size, link. change 0x3 with (2 ^ 2 - 1).
  change 0x3fffffff with (2 ^ 30 - 1). zbits. cmp_split; try lia; bool_simpl;
  replace (i + 30 - 30) with i by lia; try done; try (by rewrite (testbit_above 2 c) by lia).
Qed.

Lemma link_target c next at_pc :
  0 <= c <= 3 -> in32 next -> in32 at_pc -> at_pc >>> 30 = next >>> 30 ->
  deposit32 at_pc 0 30 (link c next) = next.
Proof.
  intros Hc Hn Ha He. unfold deposit32, link.
  change (lsl32 (0xffffffff >>> (32 - 30)) 0) with (2 ^ 30 - 1). change 0x3fffffff with (2 ^ 30 - 1).
  zbits. destruct (Z.ltb_spec i 32).
  - destruct (Z.ltb_spec i 30); bool_simpl.
    + rewrite Z.sub_0_r, (Z.testbit_neg_r c) by lia. bool_simpl.
      by rewrite (proj2 (Z.ltb_lt i 30)), andb_true_r by lia.
    + replace i with (i - 30 + 30) by lia. rewrite <- !Z.shiftr_spec by lia. by rewrite He.
  - bool_simpl. symmetry. by apply in32_testbit.
Qed.

Lemma callinc_deposit ps c :
  0 <= c <= 3 -> deposit32 ps PS_CALLINC_SHIFT PS_CALLINC_LEN c &&& PS_CALLINC
    = Z.shiftl c PS_CALLINC_SHIFT.
Proof.
  intros Hc. unfold deposit32.
  change (lsl32 (0xffffffff >>> (32 - 2)) 16) with (Z.shiftl (2 ^ 2 - 1) 16).
  change PS_CALLINC with (Z.shiftl (2 ^ 2 - 1) 16). zbits.
  destruct (Z.ltb_spec i 16).
  { by rewrite !(Z.testbit_neg_r _ (i - 16)), !andb_false_r by lia. }
  rewrite ones_testbit by lia. cmp_split; try lia; bool_simpl; try done.
  all: by rewrite ?(testbit_above 2 c) by lia.
Qed.

Lemma callw_spec dc c dest env :
  no_sync dc ->
  exists env', translate_callw config dc c dest env = Done tt env' /\ pc env' = dest /\
    sr env' PS = deposit32 (sr env PS) PS_CALLINC_SHIFT PS_CALLINC_LEN c /\
    (forall r, r <> PS -> r <> ICOUNT -> sr env' r = sr env r) /\
    regs env' = setZ (regs env) (4 * c) (link c (dc_pc_next dc)) /\ phys_regs env' = phys_regs env.
Proof.
  intros Hs. unfold translate_callw, gen_callw_slot, bind, modify.
  match goal with |- context [gen_jump _ _ _ ?e] => set (env1 := e) end.
  destruct (gen_jump_spec config dc dest env1 Hs) as (env' & E & [Jpc Jsr Jr Jp] & _).
  exists env'. split; [exact E|]. split; [done|].
  split. { rewrite Jsr by lia. apply fupd_eq. }
  split. { intros r H1 H2. rewrite Jsr by done. by apply fupd_ne. }
  split; [|done]. rewrite Jr. simpl. by rewrite Z.shiftl_mul_pow2, Z.mul_comm by lia.
Qed.

End calls.

(** The flags ENTRY and RETW are declared with. *)
Definition entry_flags (dc : DisasContext) : Prop :=
  dc_op_flags dc = OP_EXIT_TB_M1 ||| OP_SYNC_REGISTER_WINDOW.
Definition retw_flags (dc : DisasContext) : Prop := dc_op_flags dc = 0x8020.

Section entry_insn.
Context (config : XtensaConfig) `{!WfNareg config}.

(** ENTRY with the end of its instruction. *)
Lemma entry_insn_spec dc s imm c env :
  wf_window config env -> 0 <= s < 4 -> 0 <= c <= 3 -> entry_flags dc ->
  sr env PS &&& PS_CALLINC = Z.shiftl c PS_CALLINC_SHIFT ->
  exists env',
    (translate_entry config dc s imm ;; finish_insn config dc) env = Done true env' /\
    wf_window config env' /\
    sr env' WINDOW_BASE = windowbase_bound config (sr env WINDOW_BASE + c) /\
    frame_started config env' 0 = true /\
    (forall j, 0 <= j < 16 - 4 * c ->
       nthZ (regs env') j = if j =? s then u32 (nthZ (regs env) s - imm)
                            else nthZ (regs env) (4 * c + j)) /\
    (forall j, 0 <= j < 4 * c ->
       ar_file config env' (ar_index config env j) = nthZ (regs env) j).
Proof.
  intros Hwf Hs Hc Hdc Hps.
  destruct (entry_sync_spec config env (dc_pc dc) s imm c Hwf Hs Hc Hps)
    as (env1 & E & Hwf1 & Hb1 & Hst & Hr & Hf).
  destruct (gen_jumpi_check_loop_end_frame config (clear_op_flags dc) env1 eq_refl)
    as (env' & E' & Hr' & Hp' & Hsr').
  exists env'. split.
  { unfold bind in E. unfold translate_entry, finish_insn, gen_postprocess, when, bind.
    destruct (helper_entry config (dc_pc dc) s imm env); [|done|done].
    rewrite Hdc. simpl. rewrite E, E'. done. }
  assert (Hb' : sr env' WINDOW_BASE = sr env1 WINDOW_BASE) by (apply Hsr'; lia).
  split; [apply (wf_window_ext config env1); [done|congruence..]|]. split; [congruence|].
  split; [|split].
  - unfold frame_started. rewrite Hb', Hsr', Z.add_0_r, (windowbase_bound_small config) by (done || lia || apply Hwf1).
    rewrite Hst, Hb1. by apply entry_started.
  - rewrite Hr'. exact Hr.
  - intros j Hj. rewrite <- Hf by done. by apply ar_file_ext.
Qed.

(** RETW, its tests passed. *)
Lemma retw_insn_spec dc env env1 env2 c next :
  32 <= nareg config -> wf_window config env -> wf_window config env1 -> 1 <= c <= 3 ->
  sr env1 WINDOW_BASE = windowbase_bound config (sr env WINDOW_BASE + c) ->
  (forall j, 0 <= j < 4 * c -> ar_file config env1 (ar_index config env j) = nthZ (regs env) j) ->
  sr env2 WINDOW_BASE = sr env1 WINDOW_BASE -> phys_regs env2 = phys_regs env1 ->
  length (regs env2) = 16%nat -> nthZ (regs env2) 0 = link c next -> retw_flags dc ->
  exists env3,
    translate_retw config dc env2 = Done tt env3 /\
    pc env3 = deposit32 (dc_pc dc) 0 30 (link c next) /\
    sr env3 WINDOW_BASE = sr env WINDOW_BASE /\
    frame_started config env3 c = false /\
    forall j, 0 <= j < 4 * c -> nthZ (regs env3) j = nthZ (regs env) j.
Proof.
  intros Hna Hwf Hwf1 Hc Hb1 Hf Hb2 Hp2 Hl2 Ha0 Hdc. unfold translate_retw, bind, modify, get.
  set (env2' := set_sr WINDOW_START _ env2).
  assert (Hst : sr env2' WINDOW_START = sr env2 WINDOW_START &&& not32 (lsl32 1 (sr env2 WINDOW_BASE)))
    by apply fupd_eq.
  assert (Hb2' : sr env2' WINDOW_BASE = sr env1 WINDOW_BASE).
  { rewrite <- Hb2. by apply sr_set_sr_ne. }
  change (regs env2') with (regs env2). rewrite Ha0.
  destruct (retw_caller config env env1 env2' (link c next) c Hna Hwf Hwf1 Hc Hb1 Hf Hb2' Hp2 Hl2)
    as (env3 & -> & _ & Hb3 & Hsr3 & Hr3); [by apply link_call_size; lia|].
  destruct (gen_jump_spec config dc (deposit32 (dc_pc dc) 0 30 (link c next)) env3)
    as (env4 & -> & [Jpc Jsr Jr _] & _); [unfold no_sync; by rewrite Hdc|].
  exists env4. split; [done|]. split; [done|]. split; [by rewrite Jsr by lia|].
  split; [|by rewrite Jr].
  unfold frame_started. rewrite !Jsr, Hb3, Hsr3, Hst, Hb2, Hb1 by lia.
  pose proof (windowbase_bound_range config (sr env WINDOW_BASE + c)). pose proof (nareg_div4 config).
  rewrite Z.land_spec, not32_testbit, lsl32_1, pow2_testbit, Z.eqb_refl by lia.
  by rewrite !andb_false_r.
Qed.

End entry_insn.

(** C2: A windowed call returns to its caller, on a core with at least 32 address
    registers and a RETW that passes its tests.  CALL4, CALL8 or CALL12 jumps
    to the callee, ENTRY moves the window and opens the callee's frame, with
    the stack pointer lowered by the frame size; after any change the callee
    makes to its window, a0 apart, RETW goes back to the instruction after the
    call (in the 1GB region of the RETW), the window base and the registers
    [a0 .. a<4c-1>] are the caller's, and the callee's frame is closed. *)
Theorem windowed_call_returns (config : XtensaConfig) `{!WfNareg config} (env : CPUXtensaState)
    (c s imm dest : Z) (dcc dce dcr : DisasContext) :
  32 <= nareg config -> wf_window config env -> 1 <= c <= 3 -> 1 <= s < 4 ->
  dc_op_flags dcc = 0 -> entry_flags dce -> retw_flags dcr ->
  in32 (dc_pc_next dcc) -> in32 (dc_pc dcr) -> dc_pc dcr >>> 30 = dc_pc_next dcc >>> 30 ->
  exists env1 env2,
    translate_callw config dcc c dest env = Done tt env1 /\ pc env1 = dest /\
    (translate_entry config dce s imm ;; finish_insn config dce) env1 = Done true env2 /\
    nthZ (regs env2) s = u32 (nthZ (regs env) s - imm) /\
    frame_started config env2 0 = true /\
    forall env3,
      sr env3 WINDOW_BASE = sr env2 WINDOW_BASE -> phys_regs env3 = phys_regs env2 ->
      length (regs env3) = 16%nat -> nthZ (regs env3) 0 = nthZ (regs env2) 0 ->
      exists env4,
        translate_retw config dcr env3 = Done tt env4 /\
        pc env4 = dc_pc_next dcc /\ sr env4 WINDOW_BASE = sr env WINDOW_BASE /\
        frame_started config env4 c = false /\
        forall j, 0 <= j < 4 * c -> nthZ (regs env4) j = nthZ (regs env) j.
Proof.
  intros Hna Hwf Hc Hs Hfc Hfe Hfr Hn32 Hp32 Htop. pose proof (wf_regs _ _ Hwf) as Hl.
  destruct (callw_spec config dcc c dest env) as (env1 & E1 & Hpc1 & Hps1 & Hsr1 & Hr1 & Hp1);
    [unfold no_sync; by rewrite Hfc|].
  assert (Hb1 : sr env1 WINDOW_BASE = sr env WINDOW_BASE) by (apply Hsr1; lia).
  assert (Hwf1 : wf_window config env1).
  { apply (wf_window_ext config env); [done| |congruence|done]. rewrite Hr1. apply length_setZ. }
  destruct (entry_insn_spec config dce s imm c env1 Hwf1) as (env2 & E2 & Hwf2 & Hb2 & Hst & Hr2 & Hf2);
    [lia|lia|done|rewrite Hps1; apply callinc_deposit; lia|].
  assert (Hlow : forall j, 0 <= j < 4 * c -> nthZ (regs env1) j = nthZ (regs env) j)
    by (intros j Hj; by rewrite Hr1, nthZ_setZ_ne by lia).
  exists env1, env2. do 3 (split; [done|]).
  split; [by rewrite Hr2, Z.eqb_refl, Hlow by lia|]. split; [done|].
  intros env3 Hb3 Hp3 Hl3 Ha0. rewrite <- (link_target c (dc_pc_next dcc) (dc_pc dcr)) by (done || lia).
  rewrite <- Hb1.
  destruct (retw_insn_spec config dcr env1 env2 env3 c (dc_pc_next dcc)) as (env4 & E4 & Hpc & Hb & Hfr' & Hr);
    [done..| |done|].
  { rewrite Ha0, Hr2, (proj2 (Z.eqb_neq 0 s)), Z.add_0_r, Hr1 by lia. apply nthZ_setZ_eq. rewrite Hl. lia. }
  exists env4. do 4 (split; [done|]). intros j Hj. by rewrite Hr, Hlow.
Qed.

(** ** Hardware loops *)

(** How often a loop of a condition and a count runs its body. *)
Definition loop_iterations (c : loop_cond) (count : Z) : Z :=
  match c with
  | LoopAlways => if count =? 0 then 2 ^ 32 else count
  | LoopNez => count
  | LoopGtz => if 0 <? s32 count then count else 0
  end.

Section loops.
Context (config : XtensaConfig) (dc : DisasContext) (body : cpuM unit).

(** The body and the end of its last instruction, [n] times. *)
Fixpoint loop_passes (n : nat) : cpuM unit :=
  match n with
  | O => ret tt
  | S n => loop_passes n ;; body ;; gen_jumpi_check_loop_end config dc
  end.

Context (lbeg : Z).
Hypothesis Hsync : no_sync dc.
Hypothesis Hlend : dc_lend dc = dc_pc_next dc.
Hypothesis Hoff : truthy (dc_lbeg_off dc) = true -> u32 (dc_pc_next dc - dc_lbeg_off dc) = lbeg.
Hypothesis Hbody : forall env, exists env', body env = Done tt env' /\
  sr env' LCOUNT = sr env LCOUNT /\ sr env' LBEG = sr env LBEG.

Lemma loop_back env :
  sr env LBEG = lbeg -> in32 (sr env LCOUNT) ->
  exists env', gen_jumpi_check_loop_end config dc env = Done tt env' /\
    sr env' LBEG = lbeg /\
    if sr env LCOUNT =? 0 then pc env' = dc_pc_next dc /\ sr env' LCOUNT = 0
    else pc env' = lbeg /\ sr env' LCOUNT = sr env LCOUNT - 1.
Proof.
  intros Hb H32. unfold gen_jumpi_check_loop_end, gen_check_loop_end, gen_jumpi.
  rewrite Hlend, Z.eqb_refl. unfold bind, get, modify, ret.
  destruct (Z.eqb_spec (sr env LCOUNT) 0) as [H0|H0].
  - destruct (gen_jump_spec config dc (dc_pc_next dc) env Hsync) as (env' & -> & [Jpc Jsr _ _] & _).
    exists env'. rewrite !Jsr by lia. done.
  - set (env1 := set_sr LCOUNT _ env).
    assert (Hdest : (if truthy (dc_lbeg_off dc) then u32 (dc_pc_next dc - dc_lbeg_off dc)
                     else sr env LBEG) = lbeg) by (destruct (truthy (dc_lbeg_off dc)); auto).
    destruct (gen_jump_spec config dc lbeg env1 Hsync) as (env' & E & [Jpc Jsr _ _] & _).
    exists env'. split.
    { destruct (truthy (dc_lbeg_off dc)); rewrite Hdest, E; done. }
    rewrite !Jsr by lia. split; [by etransitivity; [apply sr_set_sr_ne; lia|]|].
    split; [done|]. etransitivity; [apply sr_set_sr_eq|]. apply u32_small. unfold in32 in *. lia.
Qed.

Lemma loop_passes_spec env N n :
  sr env LBEG = lbeg -> sr env LCOUNT = N - 1 -> 1 <= N <= 2 ^ 32 -> 1 <= Z.of_nat n <= N ->
  exists env', loop_passes n env = Done tt env' /\ sr env' LBEG = lbeg /\
    if Z.of_nat n =? N then pc env' = dc_pc_next dc /\ sr env' LCOUNT = 0
    else pc env' = lbeg /\ sr env' LCOUNT = N - 1 - Z.of_nat n.
Proof.
  intros Hb Hc HN. induction n as [|n IH]; [lia|]. intros Hn. cbn [loop_passes].
  assert (exists env1, loop_passes n env = Done tt env1 /\ sr env1 LBEG = lbeg /\
            sr env1 LCOUNT = N - 1 - Z.of_nat n) as (env1 & E1 & Hb1 & Hc1).
  { destruct n; [exists env; split; [done|]; split; [done|]; lia|].
    destruct IH as (env1 & E1 & Hb1 & Hrest); [lia|]. exists env1. split; [done|]. split; [done|].
    rewrite (proj2 (Z.eqb_neq _ _)) in Hrest by lia. apply Hrest. }
  unfold bind. rewrite E1. destruct (Hbody env1) as (env2 & -> & Hc2 & Hb2).
  destruct (loop_back env2) as (env3 & -> & Hb3 & Hrest); [congruence|unfold in32; lia|].
  exists env3. split; [done|]. split; [done|]. rewrite Hc2, Hc1 in Hrest.
  destruct (Z.eqb_spec (N - 1 - Z.of_nat n) 0), (Z.eqb_spec (Z.of_nat (S n)) N);
    destruct Hrest as [-> ->]; split; lia || done.
Qed.

End loops.

(** C33: A zero-overhead loop runs its body exactly as often as its count says:
    LOOP count times (2^32 times for a count of 0), LOOPNEZ count times,
    LOOPGTZ count times when the count is positive as a signed number.  The
    loop is skipped when that number is 0; otherwise, for a body that leaves
    LCOUNT and LBEG alone, every pass but the last ends at the start of the
    body and the last falls through to the instruction after the loop with
    LCOUNT 0. *)
Theorem loop_runs_count_times (config : XtensaConfig) (env : CPUXtensaState) (cond : loop_cond)
    (s : Z) (dcl dc : DisasContext) (body : cpuM unit) :
  in32 (nthZ (regs env) s) -> no_sync dcl -> no_sync dc -> dc_lend dc = dc_pc_next dc ->
  (truthy (dc_lbeg_off dc) = true -> u32 (dc_pc_next dc - dc_lbeg_off dc) = dc_pc_next dcl) ->
  (forall e, exists e', body e = Done tt e' /\
     sr e' LCOUNT = sr e LCOUNT /\ sr e' LBEG = sr e LBEG) ->
  let N := loop_iterations cond (nthZ (regs env) s) in
  exists env1,
    translate_loop config dcl cond s (dc_pc_next dc) env = Done tt env1 /\
    pc env1 = (if N =? 0 then dc_pc_next dc else dc_pc_next dcl) /\
    forall n, 1 <= Z.of_nat n <= N ->
      exists env2, loop_passes config dc body n env1 = Done tt env2 /\
        pc env2 = (if Z.of_nat n =? N then dc_pc_next dc else dc_pc_next dcl) /\
        sr env2 LCOUNT = (if Z.of_nat n =? N then 0 else N - 1 - Z.of_nat n).
Proof.
  intros H32 Hsl Hs Hl Hoff Hbody N. unfold translate_loop, bind, get, modify, gen_jumpi.
  set (count := nthZ (regs env) s) in *.
  match goal with |- context [(if loop_enters _ _ then _ else _) ?e] => set (env0 := e) end.
  assert (HN : loop_enters cond count = negb (N =? 0) /\ 0 <= N <= 2 ^ 32 /\
               (N <> 0 -> u32 (count - 1) = N - 1)).
  { unfold in32 in H32. unfold N, loop_enters, loop_iterations. destruct cond.
    - destruct (Z.eqb_spec count 0) as [->|]; [done|].
      rewrite (proj2 (Z.eqb_neq _ _)) by done. split; [done|]. split; [lia|].
      intros _. apply u32_small. unfold in32; lia.
    - split; [done|]. split; [lia|]. intros Hn. apply u32_small. unfold in32; lia.
    - destruct (Z.ltb_spec 0 (s32 count)) as [Hp|]; [|done].
      assert (count <> 0) by (intros E; rewrite E in Hp; by vm_compute in Hp).
      rewrite (proj2 (Z.eqb_neq _ _)) by done. split; [done|]. split; [lia|].
      intros _. apply u32_small. unfold in32; lia. }
  destruct HN as (-> & HN & Hcount).
  set (dest := if N =? 0 then dc_pc_next dc else dc_pc_next dcl).
  destruct (gen_jump_spec config dcl dest env0 Hsl) as (env1 & E & [Jpc Jsr _ _] & _).
  exists env1. split; [unfold dest in E; by destruct (N =? 0)|]. split; [done|].
  intros n Hn. specialize (Hcount ltac:(lia)).
  destruct (loop_passes_spec config dc body (dc_pc_next dcl) Hs Hl Hoff Hbody env1 N n)
    as (env2 & E2 & _ & Hrest); [| |lia|lia|].
  - rewrite Jsr by lia. unfold env0. by sr_simpl.
  - rewrite Jsr, <- Hcount by lia. unfold env0. by sr_simpl.
  - exists env2. split; [done|]. by destruct (Z.of_nat n =? N).
Qed.

(** ** Witnesses *)

(** The context of an instruction at [at_pc] with the given flags, [off] bytes
    into a loop that ends at [lend]. *)
Definition insn_context (at_pc next flags lend off : Z) : DisasContext :=
  {| dc_pc := at_pc; dc_pc_next := next; dc_ring := 0; dc_cring := 0; dc_lbeg_off := off;
     dc_lend := lend; dc_debug := false; dc_icount := false; dc_cpenable := 0; dc_window := 3;
     dc_cwoe := true; dc_callinc := 0; dc_op_flags := flags; dc_next_icount := 0 |}.

Definition return_context : DisasContext := insn_context 0x40080300 0x40080303 0x202 0 0.

Lemma interrupt_rfi_roundtrip_witness :
  exists env1 env3,
    xtensa_cpu_exec_interrupt esp32s3_config CPU_INTERRUPT_HARD irq5_env = Done true env1 /\
    translate_rfi esp32s3_config return_context 5 (set_regs (replicate 16 7) env1) = Done tt env3 /\
    pc env3 = 0x40081234 /\ sr env3 PS = 0x60021.
Proof.
  destruct (interrupt_rfi_roundtrip esp32s3_config irq5_env 5 irq5_pending eq_refl
              ltac:(by vm_compute)) as (env1 & E1 & _ & _ & _ & Hret).
  destruct (Hret (set_regs (replicate 16 7) env1) return_context eq_refl eq_refl eq_refl)
    as (env3 & E3 & Hpc & Hps & _).
  exists env1, env3. split; [done|]. split; [done|]. split; [exact Hpc|exact Hps].
Defined.

Lemma exception_rfe_roundtrip_witness :
  exists env1 env3,
    take_exception esp32s3_config
      (helper_exception_cause (A := unit) esp32s3_config 0x40081000 ALLOCA_CAUSE) irq1_env
      = Done tt env1 /\
    translate_rfe esp32s3_config return_context (set_regs (replicate 16 7) env1) = Done tt env3 /\
    pc env3 = 0x40081000 /\ sr env3 PS = 0x60020.
Proof.
  destruct (exception_rfe_roundtrip esp32s3_config irq1_env 0x40081000 ALLOCA_CAUSE eq_refl
              ltac:(by vm_compute)) as (env1 & E1 & Hret).
  destruct (Hret (set_regs (replicate 16 7) env1) return_context eq_refl eq_refl eq_refl)
    as (env3 & E3 & Hpc & Hps & _).
  exists env1, env3. split; [done|]. split; [done|]. split; [exact Hpc|exact Hps].
Defined.

Lemma handler_ready_refl config env : wf_window config env -> handler_ready config env env.
Proof. by split. Qed.

Lemma window_overflow_rfwo_witness :
  exists env1 env3,
    helper_window_check esp32s3_config 0x40080010 2 window_env = LoopExit env1 /\
    translate_rfw esp32s3_config return_context true env1 = Done tt env3 /\
    pc env3 = 0x40080010 /\ sr env3 WINDOW_BASE = 15 /\
    frame_started esp32s3_config env3 1 = false /\ nthZ (regs env3) 5 = 105.
Proof.
  destruct (window_overflow_rfwo esp32s3_config window_env 0x40080010 2 1 3) as (env1 & E1 & Hret);
    [apply window_env_wf|by vm_compute| |lia| |].
  - split; [lia|]. split; [by vm_compute|]. split; [by vm_compute|]. intros; lia.
  - split; [lia|]. split; [by vm_compute|]. split; [by vm_compute|].
    intros k Hk. assert (k = 1 \/ k = 2) as [->| ->] by lia; by vm_compute.
  - destruct (Hret env1 return_context) as (env3 & E3 & _ & Hpc & Hb & _ & Hf & _ & Hr); [|done|].
    + apply handler_ready_refl. vm_compute in E1. injection E1 as <-. by split; vm_compute.
    + exists env1, env3. split; [done|]. split; [done|]. split; [done|]. split; [exact Hb|].
      split; [apply Hf; lia|]. by apply (Hr 5).
Defined.

Lemma window_underflow_rfwu_witness :
  exists env1 env3,
    helper_test_underflow_retw esp32s3_config 0x40080020 spilled_env = LoopExit env1 /\
    translate_rfw esp32s3_config return_context false env1 = Done tt env3 /\
    pc env3 = 0x40080020 /\
    helper_test_underflow_retw esp32s3_config 0x40080020 env3 = Done tt env3.
Proof.
  destruct (window_underflow_rfwu esp32s3_config spilled_env 0x40080020) as (env1 & E1 & Hret);
    [by split; vm_compute|by vm_compute|by vm_compute|reflexivity|].
  destruct (Hret env1 return_context) as (env3 & E3 & Hpc & _ & _ & _ & Ht); [|done|].
  - apply handler_ready_refl. vm_compute in E1. injection E1 as <-. by split; vm_compute.
  - exists env1, env3. split; [done|]. split; [done|]. split; [done|]. by apply Ht.
Defined.

Lemma windowed_call_returns_witness :
  exists env1 env2 env4,
    translate_callw esp32s3_config (insn_context 0x40080000 0x40080003 0 0 0) 2 0x40090000 window_env
      = Done tt env1 /\
    (let dc := insn_context 0x40090000 0x40090003 0x1400 0 0 in
     (translate_entry esp32s3_config dc 1 32 ;; finish_insn esp32s3_config dc) env1) = Done true env2 /\
    translate_retw esp32s3_config (insn_context 0x40090010 0x40090012 0x8020 0 0) env2 = Done tt env4 /\
    nthZ (regs env2) 1 = 69 /\ pc env4 = 0x40080003 /\ nthZ (regs env4) 7 = 107.
Proof.
  destruct (windowed_call_returns esp32s3_config window_env 2 1 32 0x40090000
    (insn_context 0x40080000 0x40080003 0 0 0) (insn_context 0x40090000 0x40090003 0x1400 0 0)
    (insn_context 0x40090010 0x40090012 0x8020 0 0)) as (env1 & env2 & E1 & _ & E2 & Hsp & _ & Hret);
    [by vm_compute|apply window_env_wf|lia|lia|done|done|done|by vm_compute|by vm_compute|done|].
  destruct (Hret env2) as (env4 & E4 & Hpc & _ & _ & Hr); [done|done| |done|].
  - clear -E1 E2. vm_compute in E1. injection E1 as <-. vm_compute in E2. injection E2 as <-. reflexivity.
  - exists env1, env2, env4. do 3 (split; [done|]). split; [exact Hsp|]. split; [exact Hpc|].
    apply (Hr 7). lia.
Defined.

(** A loop whose body adds 4 to a2, three times. *)
Lemma loop_runs_count_times_witness :
  let body := modify (fun env => set_reg 2 (u32 (nthZ (regs env) 2 + 4)) env) in
  let env := set_regs (set_reg 3 3 window_env).(regs) window_env in
  exists env1 env2,
    translate_loop esp32s3_config (insn_context 0x40080000 0x40080003 0 0 0) LoopNez 3 0x40080010 env
      = Done tt env1 /\
    loop_passes esp32s3_config (insn_context 0x4008000d 0x40080010 0 0x40080010 0xd) body 3 env1
      = Done tt env2 /\
    pc env1 = 0x40080003 /\ pc env2 = 0x40080010 /\ sr env2 LCOUNT = 0.
Proof.
  intros body env.
  destruct (loop_runs_count_times esp32s3_config env LoopNez 3
    (insn_context 0x40080000 0x40080003 0 0 0) (insn_context 0x4008000d 0x40080010 0 0x40080010 0xd)
    body) as (env1 & E1 & Hpc1 & Hn); [by vm_compute|done|done|done|done| |].
  - intros e. eexists. split; [reflexivity|]. done.
  - destruct (Hn 3%nat) as (env2 & E2 & Hpc & Hc); [by vm_compute|].
    exists env1, env2. split; [exact E1|]. split; [exact E2|]. split; [exact Hpc1|].
    split; [exact Hpc|exact Hc].
Defined.
