(* ===== verification/Arith.v ===== *)
(** * Arithmetic and shift instructions ([target/xtensa/translate.c])

    The value each translator computes from its operands; a [translate_*]
    definition takes the values of [arg[i].in], the immediates and [par], and
    returns the value of [arg[0].out].  The operations of the code generator
    whose result the generator leaves unspecified outside a range (shifts by a
    register, division) are the class [TcgOps], with the documented cases as
    laws; constant operands are always in range. *)

From S2P Require Import Prelude Cpu.

#[local] Open Scope mach_scope.

Abbreviation SAR := 3 (only parsing).
Abbreviation ACCLO := 16 (only parsing).
Abbreviation ACCHI := 17 (only parsing).

(** Sign extension of the low [n] bits. *)
Definition sext (n x : Z) : Z :=
  let y := x mod 2 ^ n in if y <? 2 ^ (n - 1) then y else y - 2 ^ n.

Class TcgOps := {
  tcg_shl : Z -> Z -> Z;
  tcg_shr : Z -> Z -> Z;
  tcg_sar : Z -> Z -> Z;
  tcg_div : Z -> Z -> Z;
  tcg_rem : Z -> Z -> Z;
  tcg_divu : Z -> Z -> Z;
  tcg_remu : Z -> Z -> Z;
  tcg_shl_def : forall x n, in32 x -> 0 <= n < 32 -> tcg_shl x n = lsl32 x n;
  tcg_shr_def : forall x n, in32 x -> 0 <= n < 32 -> tcg_shr x n = x >>> n;
  tcg_sar_def : forall x n, in32 x -> 0 <= n < 32 -> tcg_sar x n = u32 (s32 x >>> n);
  tcg_div_def : forall a b, in32 a -> in32 b -> b <> 0 -> (a, b) <> (0x80000000, 0xffffffff) ->
    tcg_div a b = u32 (Z.quot (s32 a) (s32 b));
  tcg_rem_def : forall a b, in32 a -> in32 b -> b <> 0 -> (a, b) <> (0x80000000, 0xffffffff) ->
    tcg_rem a b = u32 (Z.rem (s32 a) (s32 b));
  tcg_divu_def : forall a b, in32 a -> in32 b -> b <> 0 -> tcg_divu a b = a / b;
  tcg_remu_def : forall a b, in32 a -> in32 b -> b <> 0 -> tcg_remu a b = a mod b;
}.

(** ** Value-to-value instructions *)

Definition translate_abs (x : Z) : Z := u32 (Z.abs (s32 x)).
Definition translate_add (x y : Z) : Z := u32 (x + y).
Definition translate_addi (x imm : Z) : Z := u32 (x + imm).
Definition translate_addx (par x y : Z) : Z := u32 (lsl32 x par + y).
Definition translate_sub (x y : Z) : Z := u32 (x - y).
Definition translate_subx (par x y : Z) : Z := u32 (lsl32 x par - y).
Definition translate_neg (x : Z) : Z := u32 (- x).
Definition translate_and (x y : Z) : Z := x &&& y.
Definition translate_or (x y : Z) : Z := x ||| y.
Definition translate_xor (x y : Z) : Z := x ^^^ y.
Definition translate_smin (x y : Z) : Z := if s32 x <? s32 y then x else y.
Definition translate_umin (x y : Z) : Z := if x <? y then x else y.
Definition translate_smax (x y : Z) : Z := if s32 x <? s32 y then y else x.
Definition translate_umax (x y : Z) : Z := if x <? y then y else x.

Definition translate_clamps (x imm : Z) : Z :=
  let tmp1 := u32 (Z.shiftl (-1) imm) in
  let tmp2 := u32 (Z.shiftl 1 imm - 1) in
  translate_smin (translate_smax tmp1 x) tmp2.

Definition translate_const16 (old imm : Z) : Z := deposit32 imm 16 16 old.
Definition translate_depbits (src dst shift len : Z) : Z := deposit32 dst shift len src.
Definition translate_extui (x shift len : Z) : Z := (x >>> shift) &&& (Z.shiftl 1 len - 1).
Definition translate_sext (x imm : Z) : Z := u32 (sext (imm + 1) x).
Definition translate_slli (x imm : Z) : Z := lsl32 x (imm &&& 0x1f).
Definition translate_srli (x imm : Z) : Z := x >>> imm.
Definition translate_srai (x imm : Z) : Z := u32 (s32 x >>> imm).

Definition translate_mul16 (par : bool) (x y : Z) : Z :=
  if par then u32 (sext 16 x * sext 16 y) else u32 (x mod 2 ^ 16 * (y mod 2 ^ 16)).
Definition translate_mull (x y : Z) : Z := u32 (x * y).
Definition translate_mulh (par : bool) (x y : Z) : Z :=
  if par then u32 ((s32 x * s32 y) >>> 32) else (x * y) >>> 32.

Definition translate_nsau (x : Z) : Z := clz32 x.
(** Leading copies of the sign bit, without the sign bit itself. *)
Definition translate_nsa (x : Z) : Z :=
  clz32 (if Z.testbit x 31 then not32 x else x) - 1.

Definition translate_movcond (taken : bool) (x old : Z) : Z := if taken then x else old.
Definition translate_salt (lt : bool) : Z := b2z lt.

(** ** Boolean registers; [br] is the BR register, [d], [s], [t] bit numbers *)

Definition translate_all (par0 : bool) (shift br d s : Z) : Z :=
  let mask := lsl32 (Z.shiftl 1 shift - 1) s in
  let tmp := br &&& mask in
  let tmp := if par0 then u32 (tmp + Z.shiftl 1 s) else u32 (tmp + mask) in
  deposit32 br d 1 (tmp >>> (s + shift)).

Inductive boolean_op := BOOLEAN_AND | BOOLEAN_ANDC | BOOLEAN_OR | BOOLEAN_ORC | BOOLEAN_XOR.
Definition boolean_word (op : boolean_op) (x y : Z) : Z :=
  match op with
  | BOOLEAN_AND => x &&& y
  | BOOLEAN_ANDC => x &&& not32 y
  | BOOLEAN_OR => x ||| y
  | BOOLEAN_ORC => x ||| not32 y
  | BOOLEAN_XOR => x ^^^ y
  end.
Definition translate_boolean (op : boolean_op) (br d s t : Z) : Z :=
  deposit32 br d 1 (boolean_word op (br >>> s) (br >>> t)).

(** ** Division *)

Section division.
Context `{!TcgOps}.

Definition translate_quos (par0 : bool) (x y : Z) : Z :=
  if (x =? 0x80000000) && (y =? 0xffffffff) then if par0 then 0x80000000 else 0
  else if par0 then tcg_div x y else tcg_rem x y.
Definition translate_quou (x y : Z) : Z := tcg_divu x y.
Definition translate_remu (x y : Z) : Z := tcg_remu x y.

End division.

(** ** Multiply-accumulate *)

Inductive mac16_op := MAC16_UMUL | MAC16_MUL | MAC16_MULA | MAC16_MULS.

Definition gen_mac16_m (v : Z) (hi is_unsigned : bool) : Z :=
  if hi then if is_unsigned then v >>> 16 else u32 (s32 v >>> 16)
  else if is_unsigned then v mod 2 ^ 16 else u32 (sext 16 v).

Definition is_umul (op : mac16_op) : bool := match op with MAC16_UMUL => true | _ => false end.

(** [(ACCLO, ACCHI)] after the multiplication, from their old values. *)
Definition mac16_acc (op : mac16_op) (hx xh : bool) (x y acclo acchi : Z) : Z * Z :=
  let m1 := gen_mac16_m x hx (is_umul op) in
  let m2 := gen_mac16_m y xh (is_umul op) in
  let lo := u32 (m1 * m2) in
  let hi := u32 (s32 lo >>> 31) in
  let acc := acclo + 2 ^ 32 * acchi in
  let arg := lo + 2 ^ 32 * hi in
  match op with
  | MAC16_UMUL => (lo, 0)
  | MAC16_MUL => (lo, hi)
  | MAC16_MULA =>
      let r := u64 (acc + arg) in (u32 r, u32 (sext 8 (r >>> 32)))
  | MAC16_MULS =>
      let r := u64 (acc - arg) in (u32 r, u32 (sext 8 (r >>> 32)))
  end.

(** ** Shifts by SAR *)

(** What the translator knows of SAR while it translates a block, and the
    value of the temporary that holds [32 - SAR]. *)
Record sar_tracker := mkTracker {
  sar_5bit : bool;
  sar_m32_5bit : bool;
  sar_m32 : Z;
}.

Definition sar_state : Type := sar_tracker * CPUXtensaState.

Definition init_sar_tracker : sar_tracker := mkTracker false false 0.

Definition gen_right_shift_sar (sa : Z) (st : sar_state) : sar_state :=
  (mkTracker true false (sar_m32 st.1), set_sr SAR (sa &&& 0x1f) st.2).

Definition gen_left_shift_sar (sa : Z) (st : sar_state) : sar_state :=
  let m := sa &&& 0x1f in
  (mkTracker false true m, set_sr SAR (u32 (32 - m)) st.2).

Definition translate_ssa8b (x : Z) : sar_state -> sar_state := gen_left_shift_sar (lsl32 x 3).
Definition translate_ssa8l (x : Z) : sar_state -> sar_state := gen_right_shift_sar (lsl32 x 3).
Definition translate_ssai (imm : Z) : sar_state -> sar_state := gen_right_shift_sar imm.
Definition translate_ssl (x : Z) : sar_state -> sar_state := gen_left_shift_sar x.
Definition translate_ssr (x : Z) : sar_state -> sar_state := gen_right_shift_sar x.
Definition translate_wsr_sar (x : Z) (st : sar_state) : sar_state :=
  (mkTracker false false (sar_m32 st.1), set_sr SAR (x &&& 0x3f) st.2).

Section shifts.
Context `{!TcgOps}.

Definition translate_sll (st : sar_state) (x : Z) : Z :=
  if sar_m32_5bit st.1 then tcg_shl x (sar_m32 st.1)
  else
    let s := u32 (32 - sr st.2 SAR) &&& 0x3f in
    u32 (lsl64 x s).

Definition translate_sra (st : sar_state) (x : Z) : Z :=
  if sar_m32_5bit st.1 then tcg_sar x (sr st.2 SAR)
  else u32 (s32 x >>> sr st.2 SAR).

Definition translate_src (st : sar_state) (hi lo : Z) : Z :=
  u32 ((lo ||| lsl64 hi 32) >>> sr st.2 SAR).

Definition translate_srl (st : sar_state) (x : Z) : Z :=
  if sar_m32_5bit st.1 then tcg_shr x (sr st.2 SAR)
  else u32 (x >>> sr st.2 SAR).

End shifts.

(** The instructions that write SAR, in a block. *)
Inductive sar_insn :=
| SSA8B (x : Z) | SSA8L (x : Z) | SSAI (imm : Z) | SSL (x : Z) | SSR (x : Z) | WSR_SAR (x : Z).

Definition sar_step (st : sar_state) (i : sar_insn) : sar_state :=
  match i with
  | SSA8B x => translate_ssa8b x st
  | SSA8L x => translate_ssa8l x st
  | SSAI imm => translate_ssai imm st
  | SSL x => translate_ssl x st
  | SSR x => translate_ssr x st
  | WSR_SAR x => translate_wsr_sar x st
  end.

(** ** Hosts *)

(** A host that masks shift counts to five bits and traps nothing. *)
#[export] Program Instance masking_host : TcgOps := {|
  tcg_shl x n := lsl32 x (n mod 32);
  tcg_shr x n := x >>> (n mod 32);
  tcg_sar x n := u32 (s32 x >>> (n mod 32));
  tcg_div a b := u32 (Z.quot (s32 a) (s32 b));
  tcg_rem a b := u32 (Z.rem (s32 a) (s32 b));
  tcg_divu a b := a / b;
  tcg_remu a b := a mod b;
|}.
Solve Obligations with (intros; cbn beta; by rewrite ?Z.mod_small by lia).

(** ** Shifts *)

Definition sar_inv (st : sar_state) : Prop :=
  0 <= sr st.2 SAR < 64 /\
  (sar_m32_5bit st.1 = true -> 0 <= sar_m32 st.1 < 32 /\ sr st.2 SAR = 32 - sar_m32 st.1).

Lemma land_0x1f x : 0 <= x &&& 0x1f < 32.
Proof. apply (land_range 5). lia. Qed.

Lemma left_sar x : u32 (32 - (x &&& 0x1f)) = 32 - (x &&& 0x1f).
Proof. apply u32_small. pose proof (land_0x1f x). unfold in32. lia. Qed.

Lemma sar_step_inv st i : sar_inv st -> sar_inv (sar_step st i).
Proof.
  assert (Hr : forall sa st', sar_inv (gen_right_shift_sar sa st')).
  { intros sa st'. pose proof (land_0x1f sa). split; cbn [fst snd gen_right_shift_sar]; [|done].
    rewrite sr_set_sr_eq. lia. }
  assert (Hl : forall sa st', sar_inv (gen_left_shift_sar sa st')).
  { intros sa st'. pose proof (land_0x1f sa). unfold gen_left_shift_sar.
    split; cbn [fst snd sar_m32 sar_m32_5bit]; rewrite sr_set_sr_eq, left_sar; [lia|done]. }
  intros _. destruct i; cbn [sar_step]; try apply Hr; try apply Hl.
  assert (0 <= x &&& 0x3f < 64) by (apply (land_range 6); lia).
  split; cbn [fst snd translate_wsr_sar]; [by rewrite sr_set_sr_eq|done].
Qed.

Lemma sar_steps_inv l st : sar_inv st -> sar_inv (foldl sar_step st l).
Proof. revert st. induction l as [|i l IH]; intros st Hst; [done|]. apply IH. by apply sar_step_inv. Qed.

Lemma sar_init_inv env : 0 <= sr env SAR < 64 -> sar_inv (init_sar_tracker, env).
Proof. intros H. by split. Qed.

(** The shift count of SLL for a value of SAR. *)
Definition sll_count (sar : Z) : Z := (32 - sar) mod 64.

Section shift_lemmas.
Context `{!TcgOps}.

Lemma u32_lsl64 x n : u32 (lsl64 x n) = lsl32 x n.
Proof. unfold lsl64, lsl32. apply u32_u64. Qed.

Lemma u32_sub_low a b : u32 (a - b) &&& 0x3f = (a - b) mod 64.
Proof.
  change 0x3f with (2 ^ 6 - 1). rewrite land_ones_mod by lia. unfold u32. change 64 with (2 ^ 6).
  apply Z.mod_mod_divide. by exists (2 ^ 26).
Qed.

Lemma translate_sll_spec st x :
  sar_inv st -> in32 x -> translate_sll st x = lsl32 x (sll_count (sr st.2 SAR)).
Proof.
  intros [Hs Ht] Hx. unfold translate_sll, sll_count. destruct (sar_m32_5bit st.1).
  - destruct (Ht eq_refl) as [Hm ->]. rewrite tcg_shl_def by done. f_equal.
    rewrite Z.mod_small; lia.
  - by rewrite u32_sub_low, u32_lsl64.
Qed.

Lemma translate_srl_spec st x :
  sar_inv st -> in32 x -> sar_m32_5bit st.1 = false \/ sr st.2 SAR < 32 ->
  translate_srl st x = x >>> sr st.2 SAR.
Proof.
  intros [Hs Ht] Hx Hc. unfold translate_srl. destruct (sar_m32_5bit st.1).
  - destruct Hc as [|Hc]; [done|]. by rewrite tcg_shr_def by (done || lia).
  - apply u32_small. apply in32_shiftr; [lia|done].
Qed.

Lemma translate_sra_spec st x :
  sar_inv st -> in32 x -> sar_m32_5bit st.1 = false \/ sr st.2 SAR < 32 ->
  translate_sra st x = u32 (s32 x >>> sr st.2 SAR).
Proof.
  intros [Hs Ht] Hx Hc. unfold translate_sra. destruct (sar_m32_5bit st.1); [|done].
  destruct Hc as [|Hc]; [done|]. by rewrite tcg_sar_def by (done || lia).
Qed.

Lemma translate_src_spec st hi lo :
  in32 hi -> in32 lo -> translate_src st hi lo = u32 ((hi * 2 ^ 32 + lo) >>> sr st.2 SAR).
Proof.
  intros Hh Hl. unfold translate_src. do 2 f_equal.
  assert (lsl64 hi 32 = hi * 2 ^ 32) as ->.
  { unfold lsl64. rewrite Z.shiftl_mul_pow2 by lia. apply u64_small. unfold in32, in64 in *. lia. }
  rewrite Z.lor_comm, <- Z.shiftl_mul_pow2 by lia.
  rewrite <- Z.lxor_lor, <- Z.add_nocarry_lxor; [done|..].
  all: zbits; destruct (Z.ltb_spec i 32);
    [by rewrite (Z.testbit_neg_r hi) by lia|by rewrite (in32_testbit lo), andb_false_r by done].
Qed.

End shift_lemmas.

(** ** Boolean registers *)

Lemma deposit1_testbit v d f i :
  0 <= d < 32 -> 0 <= i < 32 ->
  Z.testbit (deposit32 v d 1 f) i = if i =? d then Z.testbit f 0 else Z.testbit v i.
Proof.
  intros Hd Hi. unfold deposit32. change (0xffffffff >>> (32 - 1)) with 1.
  rewrite Z.lor_spec, !Z.land_spec, not32_testbit, !lsl32_testbit by lia.
  rewrite (proj2 (Z.ltb_lt i 32)), !one_testbit by lia. cbn [andb].
  destruct (Z.eqb_spec i d) as [->|].
  - rewrite Z.sub_diag. cbn [Z.eqb negb]. by rewrite andb_false_r, andb_true_r.
  - rewrite (proj2 (Z.eqb_neq (i - d) 0)) by lia. cbn [negb].
    by rewrite andb_true_r, andb_false_r, orb_false_r.
Qed.

(** The field of [shift] bits of [br] from bit [s]. *)
Lemma all_mask_field br s shift :
  0 <= s -> 0 <= shift -> s + shift <= 16 ->
  br &&& lsl32 (Z.shiftl 1 shift - 1) s = Z.shiftl ((br >>> s) mod 2 ^ shift) s.
Proof.
  intros Hs Hsh Hb. rewrite Z.shiftl_1_l. zbits.
  destruct (Z.leb_spec s i).
  - rewrite mod_pow2_testbit by lia. rewrite Z.shiftr_spec by lia. replace (i - s + s) with i by lia.
    rewrite ones_testbit by lia. cmp_split; try lia; bool_simpl; done.
  - by rewrite !(Z.testbit_neg_r _ (i - s)), !andb_false_r by lia.
Qed.

Lemma carry_bit f s shift c :
  0 <= s -> 0 <= shift -> s + shift <= 16 -> 0 <= f < 2 ^ shift -> 0 <= c <= 2 ^ shift - 1 ->
  Z.testbit (u32 (Z.shiftl f s + Z.shiftl c s) >>> (s + shift)) 0 = (2 ^ shift <=? f + c).
Proof.
  intros Hs Hsh Hb Hf Hc. rewrite !Z.shiftl_mul_pow2, <- Z.mul_add_distr_r by lia.
  assert (0 < 2 ^ s) by (apply Z.pow_pos_nonneg; lia).
  assert (0 < 2 ^ shift) by (apply Z.pow_pos_nonneg; lia).
  assert (2 ^ shift * 2 ^ s <= 2 ^ 16)
    by (rewrite <- Z.pow_add_r by lia; apply Z.pow_le_mono_r; lia).
  rewrite u32_small by (unfold in32; nia).
  rewrite <- (Z.shiftr_shiftr _ s shift), (Z.shiftr_div_pow2 _ s), Z.div_mul by lia.
  rewrite Z.shiftr_div_pow2, Z.bit0_odd by lia.
  destruct (Z.leb_spec (2 ^ shift) (f + c)).
  - replace ((f + c) / 2 ^ shift) with 1; [done|].
    apply Z.div_unique with (f + c - 2 ^ shift); lia.
  - by rewrite Z.div_small by lia.
Qed.

(** Whether the [n] bits of [br] from [s] are all set, or any is. *)
Definition bits_all (br s n : Z) : bool := forallb (fun k => Z.testbit br (s + k)) (seqZ 0 n).
Definition bits_any (br s n : Z) : bool := existsb (fun k => Z.testbit br (s + k)) (seqZ 0 n).

Lemma field_testbit_low br s n k : 0 <= s -> 0 <= k < n -> Z.testbit ((br >>> s) mod 2 ^ n) k = Z.testbit br (s + k).
Proof.
  intros Hs Hk. rewrite mod_pow2_testbit, Z.shiftr_spec by lia.
  rewrite (proj2 (Z.ltb_lt _ _)) by lia. cbn [andb]. f_equal. lia.
Qed.

Lemma bits_all_spec br s n :
  0 <= s -> 0 <= n -> bits_all br s n = (2 ^ n <=? (br >>> s) mod 2 ^ n + 1).
Proof.
  intros Hs Hn. set (f := (br >>> s) mod 2 ^ n).
  assert (Hf : 0 <= f < 2 ^ n) by (apply Z.mod_pos_bound, Z.pow_pos_nonneg; lia).
  apply eq_true_iff_eq. unfold bits_all. rewrite Z.leb_le, forallb_forall. split.
  - intros H. assert (f = 2 ^ n - 1); [|lia]. apply Z.bits_inj'. intros i Hi.
    rewrite ones_testbit by lia. destruct (Z.ltb_spec i n).
    + unfold f. rewrite field_testbit_low by lia. apply H. apply list_elem_of_In, elem_of_seqZ. lia.
    + by apply (testbit_above n).
  - intros H k Hk%list_elem_of_In%elem_of_seqZ. rewrite <- (field_testbit_low br s n k) by lia.
    fold f. replace f with (2 ^ n - 1) by lia. rewrite ones_testbit by lia. by apply Z.ltb_lt; lia.
Qed.

Lemma bits_any_spec br s n :
  0 <= s -> 0 <= n -> bits_any br s n = (2 ^ n <=? (br >>> s) mod 2 ^ n + (2 ^ n - 1)).
Proof.
  intros Hs Hn. set (f := (br >>> s) mod 2 ^ n).
  assert (Hf : 0 <= f < 2 ^ n) by (apply Z.mod_pos_bound, Z.pow_pos_nonneg; lia).
  apply eq_true_iff_eq. unfold bits_any. rewrite Z.leb_le, existsb_exists. split.
  - intros (k & Hk%list_elem_of_In%elem_of_seqZ & Hb). rewrite <- (field_testbit_low br s n k) in Hb by lia.
    fold f in Hb. destruct (Z.eq_dec f 0) as [E|]; [|lia]. by rewrite E, Z.testbit_0_l in Hb.
  - intros H. assert (Hl : Z.log2 f < n) by (apply Z.log2_lt_pow2; lia).
    pose proof (Z.log2_nonneg f). exists (Z.log2 f).
    split; [apply list_elem_of_In, elem_of_seqZ; lia|].
    rewrite <- (field_testbit_low br s n) by lia. apply Z.bit_log2. lia.
Qed.

(** ** Sign extension *)

Lemma s32_sext x : s32 x = sext 32 x.
Proof. reflexivity. Qed.

Lemma sext_range n x : 1 <= n -> - 2 ^ (n - 1) <= sext n x < 2 ^ (n - 1).
Proof.
  intros Hn. unfold sext.
  assert (E : 2 ^ n = 2 * 2 ^ (n - 1)) by (rewrite <- Z.pow_succ_r by lia; f_equal; lia).
  assert (0 < 2 ^ (n - 1)) by (apply Z.pow_pos_nonneg; lia).
  pose proof (Z.mod_pos_bound x (2 ^ n) ltac:(lia)).
  destruct (Z.ltb_spec (x mod 2 ^ n) (2 ^ (n - 1))); lia.
Qed.

(** Sign extension is the representative of a residue class. *)
Lemma sext_unique n x v :
  1 <= n -> - 2 ^ (n - 1) <= v < 2 ^ (n - 1) -> v mod 2 ^ n = x mod 2 ^ n -> sext n x = v.
Proof.
  intros Hn Hv Heq. unfold sext. rewrite <- Heq.
  assert (E : 2 ^ n = 2 * 2 ^ (n - 1)) by (rewrite <- Z.pow_succ_r by lia; f_equal; lia).
  destruct (Z.leb_spec 0 v).
  - rewrite Z.mod_small by lia. by rewrite (proj2 (Z.ltb_lt _ _)) by lia.
  - assert (v mod 2 ^ n = v + 2 ^ n) as ->.
    { rewrite <- (Z.mod_add v 1) by lia. rewrite Z.mod_small; lia. }
    rewrite (proj2 (Z.ltb_ge _ _)) by lia. lia.
Qed.

Lemma sext_mod n x : 1 <= n -> sext n x mod 2 ^ n = x mod 2 ^ n.
Proof.
  intros Hn. unfold sext. assert (0 < 2 ^ n) by (apply Z.pow_pos_nonneg; lia).
  destruct (x mod 2 ^ n <? 2 ^ (n - 1)); [by apply Z.mod_mod; lia|].
  rewrite <- (Z.mod_add _ 1) by lia. rewrite Z.mul_1_l, Z.sub_add. apply Z.mod_mod. lia.
Qed.

Lemma sext_congr n x y : x mod 2 ^ n = y mod 2 ^ n -> sext n x = sext n y.
Proof. intros E. unfold sext. by rewrite E. Qed.

Lemma s32_small v : - 2 ^ 31 <= v < 2 ^ 31 -> s32 (u32 v) = v.
Proof.
  intros Hv. rewrite s32_sext. apply sext_unique; [lia|done|]. unfold u32. by rewrite Z.mod_mod by lia.
Qed.

Lemma s32_mod x : s32 x mod 2 ^ 32 = x mod 2 ^ 32.
Proof. rewrite s32_sext. by apply sext_mod. Qed.

(** A 40-bit number from its low word and high byte. *)
Lemma sext40_split r : u32 r + 2 ^ 32 * sext 8 (r >>> 32) = sext 40 r.
Proof.
  symmetry. apply sext_unique; [lia| |].
  - pose proof (u32_bounds r). pose proof (sext_range 8 (r >>> 32) ltac:(lia)) as Hs.
    change (2 ^ (8 - 1)) with 128 in Hs. change (2 ^ (40 - 1)) with (128 * 2 ^ 32). lia.
  - rewrite Z.shiftr_div_pow2 by lia.
    pose proof (sext_mod 8 (r / 2 ^ 32) ltac:(lia)) as Hm.
    rewrite (Z.div_mod r (2 ^ 32)) at 3 by lia. unfold u32.
    change (2 ^ 40) with (2 ^ 32 * 2 ^ 8).
    rewrite Z.add_comm. pose proof (Z.mod_pos_bound r (2 ^ 32) ltac:(lia)).
    rewrite <- Zplus_mod_idemp_l, Z.mul_mod_distr_l, Hm by lia.
    rewrite <- Z.mul_mod_distr_l, Zplus_mod_idemp_l by lia. done.
Qed.

(** ** Multiply-accumulate *)

(** The accumulator as a number, and its stored form. *)
Definition acc_value (lo hi : Z) : Z := lo + 2 ^ 32 * s32 hi.
Definition acc_ok (lo hi : Z) : Prop := in32 lo /\ in32 hi /\ -2 ^ 7 <= s32 hi < 2 ^ 7.

(** The factor an operand half contributes. *)
Definition mac_factor (op : mac16_op) (v : Z) (hi : bool) : Z :=
  let h := if hi then v >>> 16 else v in
  if is_umul op then h mod 2 ^ 16 else sext 16 h.

Lemma mac_factor_spec op v hi :
  in32 v -> gen_mac16_m v hi (is_umul op) = u32 (mac_factor op v hi).
Proof.
  intros Hv. unfold gen_mac16_m, mac_factor. destruct (is_umul op), hi; [| |f_equal|done].
  - assert (0 <= v >>> 16 < 2 ^ 16).
    { rewrite Z.shiftr_div_pow2 by lia. unfold in32 in Hv.
      split; [apply Z.div_pos; lia|apply Z.div_lt_upper_bound; lia]. }
    rewrite (Z.mod_small (v >>> 16)) by lia. rewrite u32_small; [done|]. unfold in32; lia.
  - pose proof (Z.mod_pos_bound v (2 ^ 16) ltac:(lia)). rewrite u32_small; [done|]. unfold in32; lia.
  - symmetry. apply sext_unique; [lia| |].
    + pose proof (sext_range 32 v ltac:(lia)) as Hr. rewrite <- s32_sext in Hr.
      rewrite Z.shiftr_div_pow2 by lia. change (2 ^ (32 - 1)) with (2 ^ 15 * 2 ^ 16) in Hr.
      change (2 ^ (16 - 1)) with (2 ^ 15).
      split; [apply Z.div_le_lower_bound; lia|apply Z.div_lt_upper_bound; lia].
    + rewrite !Z.shiftr_div_pow2 by lia.
      assert (Hq : forall w, (w / 2 ^ 16) mod 2 ^ 16 = (w mod 2 ^ 32) / 2 ^ 16).
      { intros w. change (2 ^ 32) with (2 ^ 16 * 2 ^ 16). rewrite Z.rem_mul_r by lia.
        rewrite (Z.mul_comm (2 ^ 16) (_ mod _)), Z.div_add by lia.
        rewrite (Z.div_small (w mod 2 ^ 16)) by (apply Z.mod_pos_bound; lia). done. }
      by rewrite !Hq, s32_mod.
Qed.

Lemma mac_product_bound op x y hx xh :
  is_umul op = false -> - 2 ^ 30 <= mac_factor op x hx * mac_factor op y xh <= 2 ^ 30.
Proof.
  intros Hu. unfold mac_factor. rewrite Hu.
  pose proof (sext_range 16 (if hx then x >>> 16 else x) ltac:(lia)) as H1.
  pose proof (sext_range 16 (if xh then y >>> 16 else y) ltac:(lia)) as H2.
  change (2 ^ (16 - 1)) with (2 ^ 15) in *. nia.
Qed.

Lemma u32_mul a b : u32 (u32 a * u32 b) = u32 (a * b).
Proof. unfold u32. by rewrite Zmult_mod_idemp_l, Zmult_mod_idemp_r. Qed.

(** The two words of a sign-extended 32-bit product. *)
Lemma product_words p :
  - 2 ^ 30 <= p <= 2 ^ 30 ->
  s32 (u32 (s32 (u32 p) >>> 31)) = (if p <? 0 then -1 else 0) /\
  u32 p + 2 ^ 32 * u32 (s32 (u32 p) >>> 31) = u64 p.
Proof.
  intros Hp. rewrite (s32_small p) by lia. rewrite Z.shiftr_div_pow2 by lia.
  destruct (Z.ltb_spec p 0).
  - assert (p / 2 ^ 31 = -1) as -> by (symmetry; apply Z.div_unique with (p + 2 ^ 31); lia).
    split; [done|].
    assert (u32 p = p + 2 ^ 32) as -> by (unfold u32; rewrite <- (Z.mod_add p 1), Z.mod_small by lia; lia).
    assert (u64 p = p + 2 ^ 64) as -> by (unfold u64; rewrite <- (Z.mod_add p 1), Z.mod_small by lia; lia).
    change (u32 (-1)) with (2 ^ 32 - 1). lia.
  - rewrite Z.div_small by lia. split; [done|]. change (u32 0) with 0.
    rewrite u32_small, u64_small by (unfold in32, in64; lia). lia.
Qed.

Lemma acc_wrapped r v :
  r mod 2 ^ 64 = v mod 2 ^ 64 ->
  acc_ok (u32 (u64 r)) (u32 (sext 8 (u64 r >>> 32))) /\
  acc_value (u32 (u64 r)) (u32 (sext 8 (u64 r >>> 32))) = sext 40 v.
Proof.
  intros E. pose proof (sext_range 8 (u64 r >>> 32) ltac:(lia)) as Hs.
  change (2 ^ (8 - 1)) with (2 ^ 7) in Hs.
  unfold acc_ok, acc_value. rewrite s32_small by lia. split.
  - split; [apply u32_in32|]. split; [apply u32_in32|done].
  - rewrite sext40_split. apply sext_congr. unfold u64. rewrite E.
    rewrite Z.mod_mod_divide by (by exists (2 ^ 24)). done.
Qed.

Lemma acc_value_u64 lo hi : (lo + 2 ^ 32 * hi) mod 2 ^ 64 = acc_value lo hi mod 2 ^ 64.
Proof.
  unfold acc_value. change (2 ^ 64) with (2 ^ 32 * 2 ^ 32).
  rewrite <- (Zplus_mod_idemp_r (2 ^ 32 * hi)), <- (Zplus_mod_idemp_r (2 ^ 32 * s32 hi)).
  rewrite !Z.mul_mod_distr_l by lia. by rewrite s32_mod.
Qed.

(** ** Other instructions *)

(** CLAMPS limits a signed number to [imm + 1] bits. *)
Lemma clamps_spec x imm :
  0 <= imm < 31 ->
  s32 (translate_clamps x imm) = Z.max (- 2 ^ imm) (Z.min (s32 x) (2 ^ imm - 1)).
Proof.
  intros Hi. unfold translate_clamps, translate_smin, translate_smax.
  rewrite !Z.shiftl_mul_pow2 by lia.
  assert (0 < 2 ^ imm) by (apply Z.pow_pos_nonneg; lia).
  assert (2 ^ imm <= 2 ^ 30) by (apply Z.pow_le_mono_r; lia).
  rewrite (s32_small (-1 * 2 ^ imm)), (s32_small (1 * 2 ^ imm - 1)) by lia.
  destruct (Z.ltb_spec (-1 * 2 ^ imm) (s32 x)).
  - destruct (Z.ltb_spec (s32 x) (1 * 2 ^ imm - 1)); [lia|]. rewrite s32_small; lia.
  - rewrite s32_small by lia.
    destruct (Z.ltb_spec (-1 * 2 ^ imm) (1 * 2 ^ imm - 1)); rewrite s32_small; lia.
Qed.

(** MULL and MULUH, MULSH together give the 64-bit product. *)
Lemma mulh_mull_product x y :
  in32 x -> in32 y ->
  translate_mull x y + 2 ^ 32 * translate_mulh false x y = x * y /\
  translate_mull x y + 2 ^ 32 * s32 (translate_mulh true x y) = s32 x * s32 y.
Proof.
  intros Hx Hy. unfold translate_mull, translate_mulh. rewrite !Z.shiftr_div_pow2 by lia. split.
  - unfold u32. pose proof (Z.div_mod (x * y) (2 ^ 32) ltac:(lia)). lia.
  - pose proof (sext_range 32 x ltac:(lia)) as H1. pose proof (sext_range 32 y ltac:(lia)) as H2.
    rewrite <- !s32_sext in *. change (2 ^ (32 - 1)) with (2 ^ 31) in *.
    assert (- 2 ^ 62 <= s32 x * s32 y <= 2 ^ 62) by nia.
    rewrite s32_small.
    + assert (u32 (x * y) = (s32 x * s32 y) mod 2 ^ 32) as ->.
      { unfold u32. rewrite (Z.mul_mod (s32 x)), !s32_mod, <- Z.mul_mod by lia. done. }
      pose proof (Z.div_mod (s32 x * s32 y) (2 ^ 32) ltac:(lia)). lia.
    + split; [apply Z.div_le_lower_bound; lia|apply Z.div_lt_upper_bound; lia].
Qed.

(** Shifting left by NSAU normalises a nonzero number. *)
Lemma nsau_normalises x :
  in32 x -> x <> 0 -> 2 ^ 31 <= translate_slli x (translate_nsau x) < 2 ^ 32.
Proof.
  intros Hx H0. unfold translate_slli, translate_nsau, clz32. unfold in32 in Hx.
  rewrite (proj2 (Z.eqb_neq x 0)) by done.
  pose proof (Z.log2_spec x ltac:(lia)) as Hl. pose proof (Z.log2_nonneg x).
  assert (Z.log2 x < 32) by (apply Z.log2_lt_pow2; lia).
  assert ((31 - Z.log2 x) &&& 0x1f = 31 - Z.log2 x) as ->.
  { change 0x1f with (2 ^ 5 - 1). rewrite land_ones_mod by lia. apply Z.mod_small. lia. }
  unfold lsl32. rewrite Z.shiftl_mul_pow2 by lia.
  assert (Hp : 2 ^ 31 = 2 ^ Z.log2 x * 2 ^ (31 - Z.log2 x)) by (rewrite <- Z.pow_add_r by lia; f_equal; lia).
  assert (0 < 2 ^ (31 - Z.log2 x)) by (apply Z.pow_pos_nonneg; lia).
  rewrite Z.pow_succ_r in Hl by lia. change (2 ^ 32) with (2 * 2 ^ 31).
  assert (2 ^ 31 <= x * 2 ^ (31 - Z.log2 x) < 2 * 2 ^ 31) by nia.
  rewrite u32_small; [done|]. unfold in32. lia.
Qed.

(** ** Claims *)

(** C36: Tracking SAR is sound: after any sequence of the instructions that
    write SAR in a block, SLL and SRC compute the shift by the value SAR then
    has, whether or not the translator uses its shortcut; so do SRL and SRA
    unless SAR is exactly 32 and was set by a left-shift setup. *)
Theorem sar_tracking_sound `{!TcgOps} (env : CPUXtensaState) (l : list sar_insn) (x y : Z) :
  0 <= sr env SAR < 64 -> in32 x -> in32 y ->
  let st := foldl sar_step (init_sar_tracker, env) l in
  let sar := sr st.2 SAR in
  0 <= sar < 64 /\
  translate_sll st x = lsl32 x ((32 - sar) mod 64) /\
  translate_src st x y = u32 ((x * 2 ^ 32 + y) >>> sar) /\
  (sar_m32_5bit st.1 = false \/ sar <> 32 ->
   translate_srl st x = x >>> sar /\ translate_sra st x = u32 (s32 x >>> sar)).
Proof.
  intros Hs Hx Hy st sar. assert (Hst : sar_inv st) by (apply sar_steps_inv, sar_init_inv; done).
  split; [apply Hst|]. split; [by apply translate_sll_spec|]. split; [by apply translate_src_spec|].
  intros Hc. assert (Hc' : sar_m32_5bit st.1 = false \/ sar < 32).
  { destruct (sar_m32_5bit st.1) eqn:E; [|by left]. right. destruct Hst as [_ Ht].
    specialize (Ht E). fold sar in Ht. destruct Hc as [|Hc]; [done|]. lia. }
  split; [by apply translate_srl_spec|by apply translate_sra_spec].
Qed.

(** The documented shift idioms: SSL and SLL shift left, SSR and SRL or
    SRA shift right, by the low five bits of the amount; SSAI and SRC extract
    32 bits of a register pair; SSA8L and SRC extract the word at a byte
    address from the two little-endian words around it, and SSA8B and SRC
    from the two big-endian ones. *)
Theorem shift_idioms `{!TcgOps} (st : sar_state) (x y s : Z) :
  in32 x -> in32 y -> in32 s ->
  translate_sll (translate_ssl s st) x = lsl32 x (s mod 32) /\
  translate_srl (translate_ssr s st) x = x >>> (s mod 32) /\
  translate_sra (translate_ssr s st) x = u32 (s32 x >>> (s mod 32)) /\
  translate_src (translate_ssai s st) x y = u32 ((x * 2 ^ 32 + y) >>> (s mod 32)) /\
  translate_src (translate_ssa8l s st) x y = u32 ((x * 2 ^ 32 + y) >>> (8 * (s mod 4))) /\
  translate_src (translate_ssa8b s st) x y = u32 ((x * 2 ^ 32 + y) >>> (32 - 8 * (s mod 4))).
Proof.
  intros Hx Hy Hs.
  assert (H5 : forall v, v &&& 0x1f = v mod 32) by (intros v; apply (land_ones_mod v 5); lia).
  assert (H8 : lsl32 s 3 mod 32 = 8 * (s mod 4)).
  { unfold lsl32, u32. rewrite Z.shiftl_mul_pow2 by lia. change 32 with (8 * 4) at 2.
    rewrite Z.mod_mod_divide by (by exists (2 ^ 27)). rewrite Z.mul_comm. by apply Z.mul_mod_distr_l. }
  pose proof (Z.mod_pos_bound s 32 ltac:(lia)). pose proof (Z.mod_pos_bound s 4 ltac:(lia)).
  rewrite !translate_src_spec by done.
  unfold translate_ssl, translate_ssr, translate_ssai, translate_ssa8l, translate_ssa8b,
    gen_left_shift_sar, gen_right_shift_sar, translate_sll, translate_srl, translate_sra.
  cbn [fst snd sar_m32_5bit sar_m32]. rewrite !sr_set_sr_eq, !H5, !H8.
  rewrite tcg_shl_def by (done || lia). split; [done|].
  split; [apply u32_small, in32_shiftr; [lia|done]|].
  do 3 (split; [done|]). do 2 f_equal. apply u32_small. unfold in32. lia.
Qed.

(** After SSL by a multiple of 32 the shortcut of SRL shifts by 32, which the
    code generator leaves unspecified: on a host that masks the count the
    operand comes back unshifted, where the general path gives 0. *)
Lemma srl_after_ssl_unspecified (st : sar_state) x :
  in32 x ->
  translate_srl (H := masking_host) (translate_ssl 0 st) x = x /\ x >>> 32 = 0.
Proof.
  intros Hx. unfold translate_srl, translate_ssl, gen_left_shift_sar. cbn [fst snd sar_m32_5bit].
  rewrite sr_set_sr_eq. split; [apply Z.shiftr_0_r|].
  rewrite Z.shiftr_div_pow2 by lia. by apply Z.div_small.
Qed.

(** Division is exact and never reaches a case the code generator leaves
    unspecified: for every nonzero divisor QUOS and REMS are the truncated
    signed quotient and remainder (the overflowing [-2^31 / -1] included, with
    quotient [-2^31]), QUOU and REMU the unsigned ones, and quotient and
    remainder recompose the dividend. *)
Theorem division_exact `{!TcgOps} (x y : Z) :
  in32 x -> in32 y -> y <> 0 ->
  translate_quos true x y = u32 (Z.quot (s32 x) (s32 y)) /\
  translate_quos false x y = u32 (Z.rem (s32 x) (s32 y)) /\
  u32 (translate_quos true x y * y + translate_quos false x y) = x /\
  translate_quou x y * y + translate_remu x y = x /\ 0 <= translate_remu x y < y.
Proof.
  intros Hx Hy H0.
  assert (Hq : translate_quos true x y = u32 (Z.quot (s32 x) (s32 y)) /\
               translate_quos false x y = u32 (Z.rem (s32 x) (s32 y))).
  { unfold translate_quos. destruct ((x =? 0x80000000) && (y =? 0xffffffff)) eqn:E.
    - apply andb_true_iff in E as [->%Z.eqb_eq ->%Z.eqb_eq]. done.
    - assert ((x, y) <> (0x80000000, 0xffffffff)) by (intros [= -> ->]; done).
      by rewrite tcg_div_def, tcg_rem_def. }
  destruct Hq as [Hq Hr]. split; [done|]. split; [done|]. split.
  - rewrite Hq, Hr. unfold u32. rewrite Zplus_mod_idemp_r, <- Zplus_mod_idemp_l, Zmult_mod_idemp_l.
    rewrite <- (Zmult_mod_idemp_r y), <- (s32_mod y), Zmult_mod_idemp_r, Zplus_mod_idemp_l.
    rewrite Z.mul_comm, <- Z.quot_rem', s32_mod. by apply Z.mod_small.
  - unfold translate_quou, translate_remu. rewrite tcg_divu_def, tcg_remu_def by done.
    unfold in32 in *. pose proof (Z.div_mod x y ltac:(lia)). pose proof (Z.mod_pos_bound x y ltac:(lia)). lia.
Qed.

(** The multiply-accumulate unit computes on a 40-bit signed accumulator:
    UMUL and MUL load the exact product of the selected halves, MULA and MULS
    add or subtract it modulo [2^40], and ACCHI always holds a sign-extended
    byte. *)
Theorem mac16_accumulates (op : mac16_op) (hx xh : bool) (x y lo hi : Z) :
  in32 x -> in32 y -> acc_ok lo hi ->
  let p := mac_factor op x hx * mac_factor op y xh in
  let acc := mac16_acc op hx xh x y lo hi in
  acc_ok acc.1 acc.2 /\
  acc_value acc.1 acc.2 =
    match op with
    | MAC16_UMUL | MAC16_MUL => p
    | MAC16_MULA => sext 40 (acc_value lo hi + p)
    | MAC16_MULS => sext 40 (acc_value lo hi - p)
    end.
Proof.
  intros Hx Hy Hacc p acc. unfold acc, mac16_acc. rewrite !mac_factor_spec by done.
  rewrite u32_mul. fold p.
  destruct (is_umul op) eqn:Hu.
  - destruct op; [|done..]. cbn [fst snd].
    assert (0 <= p < 2 ^ 32).
    { unfold p, mac_factor. cbn [is_umul].
      pose proof (Z.mod_pos_bound (if hx then x >>> 16 else x) (2 ^ 16) ltac:(lia)).
      pose proof (Z.mod_pos_bound (if xh then y >>> 16 else y) (2 ^ 16) ltac:(lia)). nia. }
    rewrite u32_small by done. unfold acc_ok, acc_value. change (s32 0) with 0.
    split; [|lia]. split; [done|]. unfold in32. lia.
  - pose proof (mac_product_bound op x y hx xh Hu) as Hp. fold p in Hp.
    destruct (product_words p Hp) as [Hhi Hw].
    pose proof (acc_value_u64 lo hi) as Hv. unfold u64 in Hw.
    destruct op; [done| | |]; cbn [fst snd].
    + unfold acc_ok, acc_value. rewrite Hhi. split.
      * split; [apply u32_in32|]. split; [apply u32_in32|]. destruct (p <? 0); lia.
      * destruct (Z.ltb_spec p 0).
        -- unfold u32. rewrite <- (Z.mod_add p 1), Z.mod_small; lia.
        -- rewrite u32_small; [lia|]. unfold in32. lia.
    + apply acc_wrapped. rewrite Hw, Zplus_mod_idemp_r, <- Zplus_mod_idemp_l, Hv. apply Zplus_mod_idemp_l.
    + apply acc_wrapped. rewrite Hw, Zminus_mod_idemp_r, <- Zminus_mod_idemp_l, Hv. apply Zminus_mod_idemp_l.
Qed.

(** ALL4, ALL8, ANY4 and ANY8 write one Boolean register: the destination
    bit is the conjunction or disjunction of the [n] source bits, computed by
    a carry, and every other bit keeps its value. *)
Theorem all_any_bits (par0 : bool) (n br d s i : Z) :
  0 <= s -> 1 <= n -> s + n <= 16 -> 0 <= d < 32 -> 0 <= i < 32 ->
  Z.testbit (translate_all par0 n br d s) i =
    if i =? d then (if par0 then bits_all br s n else bits_any br s n) else Z.testbit br i.
Proof.
  intros Hs Hn Hb Hd Hi. unfold translate_all. rewrite deposit1_testbit by done.
  destruct (i =? d); [|done]. rewrite all_mask_field by lia.
  assert (0 < 2 ^ n) by (apply Z.pow_pos_nonneg; lia).
  assert (2 <= 2 ^ n) by (apply (Z.pow_le_mono_r 2 1); lia).
  assert (Hf : 0 <= (br >>> s) mod 2 ^ n < 2 ^ n) by (apply Z.mod_pos_bound; lia).
  destruct par0.
  - rewrite carry_bit by (done || lia). symmetry. apply bits_all_spec; lia.
  - assert (lsl32 (Z.shiftl 1 n - 1) s = Z.shiftl (2 ^ n - 1) s) as ->.
    { unfold lsl32. rewrite Z.shiftl_1_l. apply u32_small. unfold in32.
      rewrite Z.shiftl_mul_pow2 by lia. assert (0 < 2 ^ s) by (apply Z.pow_pos_nonneg; lia).
      assert (2 ^ n * 2 ^ s <= 2 ^ 16) by (rewrite <- Z.pow_add_r by lia; apply Z.pow_le_mono_r; lia).
      nia. }
    rewrite carry_bit by (done || lia). symmetry. apply bits_any_spec; lia.
Qed.

(** ** Witnesses *)

Lemma sar_tracking_sound_witness :
  translate_sll (foldl sar_step (init_sar_tracker, zero_env) [SSR 3; SSL 4]) 0xff = 0xff0.
Proof.
  destruct (sar_tracking_sound zero_env [SSR 3; SSL 4] 0xff 0) as (_ & H & _);
    [by vm_compute|unfold in32; lia|unfold in32; lia|].
  etransitivity; [exact H|]. reflexivity.
Defined.

Lemma shift_idioms_witness :
  translate_src (translate_ssa8l 0x3fc80001 (init_sar_tracker, zero_env)) 0x88776655 0x44332211
    = 0x55443322.
Proof.
  destruct (shift_idioms (init_sar_tracker, zero_env) 0x88776655 0x44332211 0x3fc80001)
    as (_ & _ & _ & _ & H & _); [unfold in32; lia..|].
  etransitivity; [exact H|]. reflexivity.
Defined.

Lemma division_exact_witness : translate_quos true 0xfffffff9 2 = 0xfffffffd.
Proof.
  destruct (division_exact 0xfffffff9 2) as (H & _); [unfold in32; lia|unfold in32; lia|lia|].
  etransitivity; [exact H|]. reflexivity.
Defined.

Lemma mac16_accumulates_witness :
  let acc := mac16_acc MAC16_MULS true false 0xfffd0000 5 7 0 in acc_value acc.1 acc.2 = 22.
Proof.
  destruct (mac16_accumulates MAC16_MULS true false 0xfffd0000 5 7 0) as (_ & H).
  - unfold in32; lia.
  - unfold in32; lia.
  - split; [unfold in32; lia|]. split; [unfold in32; lia|]. vm_compute. intuition congruence.
  - etransitivity; [exact H|]. reflexivity.
Defined.

Lemma all_any_bits_witness : Z.testbit (translate_all true 4 0xf0 0 4) 0 = true.
Proof.
  rewrite (all_any_bits true 4 0xf0 0 4 0) by lia. reflexivity.
Defined.
