(* ===== verification/SoftFloat.v ===== *)
(** * Double-precision soft float ([tools/softfloat.c])

    The routines the ROM stub provides for [double] arithmetic, on the bit
    patterns of the operands.  Loops take a bound on their iterations as fuel:
    the exponent for the left normalisation, 8 for the right one (a [u64] is
    below [2^64]), 64 for the normalisation of an integer. *)

From S2P Require Import Prelude.

#[local] Open Scope mach_scope.

Abbreviation DF_EXP := 0x7FF0000000000000 (only parsing).
Abbreviation DF_MANT := 0x000FFFFFFFFFFFFF (only parsing).
Abbreviation DF_NAN := 0x7FF8000000000000 (only parsing).

(** ** 64-bit operations on 32-bit halves *)

Definition shl64 (x n : Z) : Z :=
  let lo := u32 x in
  let hi := u32 (x >>> 32) in
  if 64 <=? n then 0
  else if n =? 0 then x
  else if n <? 32 then
    lsl64 (lsl32 hi n ||| (lo >>> (32 - n))) 32 ||| lsl32 lo n
  else lsl64 (lsl32 lo (n - 32)) 32.

Definition shr64 (x n : Z) : Z :=
  let lo := u32 x in
  let hi := u32 (x >>> 32) in
  if 64 <=? n then 0
  else if n =? 0 then x
  else if n <? 32 then
    lsl64 (hi >>> n) 32 ||| ((lo >>> n) ||| lsl32 hi (32 - n))
  else hi >>> (n - 32).

Definition mul64 (a b : Z) : Z :=
  let al := u32 a in
  let ah := u32 (a >>> 32) in
  let bl := u32 b in
  let bh := u32 (b >>> 32) in
  let r := u64 (al * bl) in
  let r := u64 (r + lsl64 (u64 (al * bh)) 32) in
  u64 (r + lsl64 (u64 (ah * bl)) 32).

(** ** Fields *)

Definition df_exp (x : Z) : Z := (x >>> 52) &&& 0x7FF.
Definition df_mant (x : Z) : Z := x &&& DF_MANT.
Definition df_sign (x : Z) : bool := truthy (x >>> 63).
Definition is_nan (x : Z) : bool := ((x &&& DF_EXP) =? DF_EXP) && truthy (x &&& DF_MANT).
Definition is_inf_nan (x : Z) : bool := (x &&& DF_EXP) =? DF_EXP.
Definition is_zero (x : Z) : bool := (x &&& (DF_EXP ||| DF_MANT)) =? 0.

Definition unpack (x : Z) : Z * bool * Z :=
  let e := df_exp x in
  let m := df_mant x in
  if e =? 0 then (1, df_sign x, lsl64 m 3)
  else (e, df_sign x, lsl64 (m ||| 0x10000000000000) 3).

Fixpoint norm_up (fuel : nat) (m e : Z) : Z * Z :=
  match fuel with
  | O => (m, e)
  | S fuel => if (1 <? e) && (m <? 2 ^ 55) then norm_up fuel (lsl64 m 1) (e - 1) else (m, e)
  end.

Fixpoint norm_down (fuel : nat) (m e : Z) : Z * Z :=
  match fuel with
  | O => (m, e)
  | S fuel => if 2 ^ 56 <=? m then norm_down fuel (m >>> 1) (e + 1) else (m, e)
  end.

Definition signed (s : bool) (bits : Z) : Z := lsl64 (b2z s) 63 ||| bits.

(** The rounding increment at bit 3. *)
Definition round_up (m : Z) : bool :=
  (4 <? m &&& 7) || (((m &&& 7) =? 4) && truthy (m &&& 8)).

Definition pack (m e : Z) (sign : bool) : Z :=
  let '(m, e) := norm_up (Z.to_nat e) m e in
  let '(m, e) := norm_down 8 m e in
  if e <=? 0 then 0
  else if 0x7FF <=? e then signed sign DF_EXP
  else
    let m := if round_up m then u64 (m + 8) else m in
    let m := m >>> 3 in
    let '(m, e) := if truthy (m &&& 2 ^ 53) then (m >>> 1, e + 1) else (m, e) in
    if 0x7FF <=? e then signed sign DF_EXP
    else signed sign (lsl64 e 52 ||| (m &&& DF_MANT)).

(** ** Arithmetic *)

Definition addsub (a b : Z) (sub : bool) : Z :=
  let ra := (df_exp a =? 0x7FF) || truthy (df_mant a) in
  let rb := (df_exp b =? 0x7FF) || truthy (df_mant b) in
  if ra || rb then
    if is_nan a then DF_NAN
    else if is_nan b then DF_NAN
    else
      let sa := df_sign a in
      let sb := xorb (df_sign b) sub in
      if is_inf_nan a && is_inf_nan b && xorb sa sb then DF_NAN
      else if is_inf_nan a then signed sa DF_EXP
      else signed sb DF_EXP
  else if is_zero a then signed (xorb (df_sign b) sub) (b &&& (DF_EXP ||| DF_MANT))
  else if is_zero b then a
  else
    let '(ea, sa, ma) := unpack a in
    let '(eb, sb, mb) := unpack b in
    let '(ma, mb, e) :=
      if ea <? eb then (shr64 ma (eb - ea), mb, eb) else (ma, shr64 mb (ea - eb), ea) in
    if Bool.eqb sa sb then
      let m := u64 (ma + mb) in
      let '(m, e) := if truthy (m &&& 2 ^ 56) then (m >>> 1, e + 1) else (m, e) in
      pack m e sa
    else
      let '(m, s) := if mb <=? ma then (u64 (ma - mb), sa) else (u64 (mb - ma), sb) in
      if m =? 0 then 0 else pack m e s.

Definition adddf3 (a b : Z) : Z := addsub a b false.
Definition subdf3 (a b : Z) : Z := addsub a b true.

(** The first test of multiplication and division: [a >> 52] keeps the sign. *)
Definition special_operand (a : Z) : bool := ((a >>> 52) =? 0x7FF) || truthy (df_mant a).

Definition muldf3 (a b : Z) : Z :=
  let s := xorb (df_sign a) (df_sign b) in
  if special_operand a || special_operand b then
    if is_nan a then DF_NAN
    else if is_nan b then DF_NAN
    else if is_inf_nan a && is_zero b then DF_NAN
    else if is_inf_nan b && is_zero a then DF_NAN
    else signed s DF_EXP
  else if is_zero a || is_zero b then 0
  else
    let '(ea, _, ma) := unpack a in
    let '(eb, _, mb) := unpack b in
    let r := mul64 ma mb in
    let m := r >>> 56 in
    let m := if truthy (r &&& 0xFFFFFFFFFFFFFF) then m ||| 1 else m in
    let e := ea + eb - 1023 in
    let '(m, e) := if truthy (m &&& 2 ^ 56) then (m >>> 1, e + 1) else (m, e) in
    pack m e s.

(** One step of the restoring division on [(m, ma, q)]. *)
Definition div_step (mb : Z) (st : Z * Z * Z) : Z * Z * Z :=
  let '(m, ma, q) := st in
  let m := lsl64 m 1 ||| ((ma >>> 55) &&& 1) in
  let ma := lsl64 ma 1 in
  let q := lsl64 q 1 in
  if mb <=? m then (m - mb, ma, q ||| 1) else (m, ma, q).

Definition divdf3 (a b : Z) : Z :=
  let s := xorb (df_sign a) (df_sign b) in
  if special_operand a || special_operand b then
    if is_nan a then DF_NAN
    else if is_nan b then DF_NAN
    else if is_inf_nan a && is_inf_nan b then DF_NAN
    else if is_inf_nan a then signed s DF_EXP
    else 0
  else if is_zero b then if is_zero a then DF_NAN else signed s DF_EXP
  else if is_zero a then 0
  else
    let '(ea, _, ma) := unpack a in
    let '(eb, _, mb) := unpack b in
    let '(_, _, q) := Nat.iter 56 (div_step mb) (0, ma, 0) in
    if q =? 0 then 0 else pack q (ea - eb + 1023) s.

(** ** Conversions *)

Fixpoint sf_norm (fuel : nat) (m n : Z) : Z * Z :=
  match fuel with
  | O => (m, n)
  | S fuel => if (m &&& 0x800000) =? 0 then sf_norm fuel (lsl32 m 1) (n + 1) else (m, n)
  end.

Definition extendsfdf2 (f : Z) : Z :=
  let s := truthy (f >>> 31) in
  let e := (f >>> 23) &&& 0xFF in
  let m := f &&& 0x7FFFFF in
  if e =? 0xFF then if truthy m then DF_NAN else signed s DF_EXP
  else if (e =? 0) && (m =? 0) then lsl64 (b2z s) 63
  else if e =? 0 then
    let '(m, n) := sf_norm 24 m 0 in
    signed s (lsl64 (1 + 896 - n) 52 ||| lsl64 m 29)
  else signed s (lsl64 (e + 896) 52 ||| lsl64 m 29).

Definition fixdfsi (a : Z) : Z :=
  let e := df_exp a in
  let s := df_sign a in
  if e =? 0x7FF then if s then s32 0x80000000 else 0x7FFFFFFF
  else if (e =? 0) && (df_mant a =? 0) then 0
  else
    let m := df_mant a ||| 0x10000000000000 in
    if e <? 1023 then 0
    else if 32 <=? e - 1023 then if s then s32 0x80000000 else 0x7FFFFFFF
    else
      let r := s32 (shr64 m (1078 - e)) in
      if s then s32 (- r) else r.

Fixpoint int_norm (fuel : nat) (m k : Z) : Z * Z :=
  match fuel with
  | O => (m, k)
  | S fuel => if m <? 2 ^ 55 then int_norm fuel (lsl64 m 1) (k + 1) else (m, k)
  end.

Definition floatunsidf (u : Z) : Z :=
  if u =? 0 then 0
  else let '(m, k) := int_norm 64 u 0 in pack m (1023 + 55 - k) false.

Definition floatsidf (i : Z) : Z :=
  let '(u, s) := if i <? 0 then (u32 (0 - u32 i), true) else (u32 i, false) in
  if u =? 0 then 0
  else let '(m, k) := int_norm 64 u 0 in pack m (1023 + 55 - k) s.

(** ** Comparisons *)

Definition cmp (a b : Z) : Z :=
  if is_nan a then 2
  else if is_nan b then 2
  else
    let ea := df_exp a in
    let eb := df_exp b in
    let ma := df_mant a in
    let mb := df_mant b in
    if (ea =? 0) && (ma =? 0) && (eb =? 0) && (mb =? 0) then 0
    else
      let sa := df_sign a in
      let sb := df_sign b in
      if xorb sa sb then if sa then -1 else 1
      else if negb (ea =? eb) then if xorb (ea <? eb) sa then -1 else 1
      else if negb (ma =? mb) then if xorb (ma <? mb) sa then -1 else 1
      else 0.

Definition eqdf2 (a b : Z) : Z := if cmp a b =? 0 then 0 else 1.
Definition nedf2 (a b : Z) : Z := if negb (cmp a b =? 0) then 0 else 1.
Definition gtdf2 (a b : Z) : Z := if 0 <? cmp a b then 1 else 0.
Definition ledf2 (a b : Z) : Z := if cmp a b <=? 0 then 0 else 1.
Definition ltdf2 (a b : Z) : Z := if cmp a b <? 0 then -1 else 0.
Definition unorddf2 (a b : Z) : Z := if cmp a b =? 2 then 1 else 0.

Definition bswapsi2 (x : Z) : Z :=
  lsl32 (x &&& 0xFF) 24 ||| lsl32 (x &&& 0xFF00) 8
  ||| ((x >>> 8) &&& 0xFF00) ||| ((x >>> 24) &&& 0xFF).

(** ** The value of a double *)

(** The value times [2^1074], an integer for every finite double; the
    infinities take the place of the first magnitude out of range. *)
Definition magnitude (e m : Z) : Z := (if e =? 0 then m else m + 2 ^ 52) * 2 ^ (Z.max e 1 - 1).
Definition df_value (x : Z) : Z :=
  let v := magnitude (df_exp x) (df_mant x) in if df_sign x then - v else v.

Lemma df_mant_mod x : df_mant x = x mod 2 ^ 52.
Proof. apply (land_ones_mod x 52). lia. Qed.

Lemma df_mant_range x : 0 <= df_mant x < 2 ^ 52.
Proof. rewrite df_mant_mod. apply Z.mod_pos_bound. lia. Qed.

Lemma df_exp_range x : 0 <= df_exp x < 2 ^ 11.
Proof. unfold df_exp. apply (land_range 11). lia. Qed.

Lemma magnitude_nonneg e m : 0 <= m -> 0 <= magnitude e m.
Proof.
  intros. unfold magnitude. apply Z.mul_nonneg_nonneg; [destruct (e =? 0); lia|].
  apply Z.pow_nonneg. lia.
Qed.

Lemma magnitude_zero e m : 0 <= e -> 0 <= m -> magnitude e m = 0 <-> e = 0 /\ m = 0.
Proof.
  intros He Hm. unfold magnitude.
  assert (0 < 2 ^ (Z.max e 1 - 1)) by (apply Z.pow_pos_nonneg; lia).
  rewrite Z.mul_eq_0. set (p := 2 ^ _) in *. clearbody p. destruct (Z.eqb_spec e 0); lia.
Qed.

(** The order of the fields is the order of the values. *)
Lemma magnitude_lt e1 m1 e2 m2 :
  0 <= e1 -> 0 <= m1 < 2 ^ 52 -> 0 <= m2 < 2 ^ 52 ->
  e1 < e2 \/ e1 = e2 /\ m1 < m2 -> magnitude e1 m1 < magnitude e2 m2.
Proof.
  intros He H1 H2 [Hlt|[-> Hlt]].
  - unfold magnitude. rewrite (proj2 (Z.eqb_neq e2 0)) by lia. rewrite (Z.max_l e2 1) by lia.
    assert (Hp : 1 <= 2 ^ (e2 - 1)) by (apply (Z.pow_le_mono_r 2 0); lia).
    destruct (Z.eqb_spec e1 0) as [->|].
    + change (2 ^ (Z.max 0 1 - 1)) with 1. set (p := 2 ^ (e2 - 1)) in *. clearbody p. nia.
    + rewrite Z.max_l by lia.
      replace (e2 - 1) with (e1 + (e2 - e1 - 1)) by lia. rewrite Z.pow_add_r by lia.
      replace (2 ^ e1) with (2 * 2 ^ (e1 - 1)) by (rewrite <- Z.pow_succ_r by lia; f_equal; lia).
      clear Hp. assert (0 < 2 ^ (e1 - 1)) by (apply Z.pow_pos_nonneg; lia).
      assert (1 <= 2 ^ (e2 - e1 - 1)) by (apply (Z.pow_le_mono_r 2 0); lia).
      set (p := 2 ^ (e1 - 1)) in *. set (q := 2 ^ (e2 - e1 - 1)) in *. clearbody p q.
      apply Z.lt_le_trans with (2 ^ 53 * p); [nia|].
      apply Z.le_trans with (2 ^ 52 * (2 * p * q)); [nia|].
      apply Z.mul_le_mono_nonneg_r; nia.
  - unfold magnitude. apply Z.mul_lt_mono_pos_r; [apply Z.pow_pos_nonneg; lia|].
    destruct (e2 =? 0); lia.
Qed.

Definition of_compare (c : comparison) : Z := match c with Lt => -1 | Eq => 0 | Gt => 1 end.

Lemma cmp_nan a b : is_nan a = true \/ is_nan b = true -> cmp a b = 2.
Proof. unfold cmp. intros [-> | ->]; [done|]. by destruct (is_nan a). Qed.

Lemma magnitude_compare e1 m1 e2 m2 :
  0 <= e1 -> 0 <= e2 -> 0 <= m1 < 2 ^ 52 -> 0 <= m2 < 2 ^ 52 ->
  (magnitude e1 m1 ?= magnitude e2 m2) = match e1 ?= e2 with Eq => m1 ?= m2 | c => c end.
Proof.
  intros He1 He2 H1 H2.
  destruct (Z.compare_spec e1 e2) as [->|Hlt|Hgt]; [destruct (Z.compare_spec m1 m2) as [->|Hlt|Hgt]|..].
  - apply Z.compare_refl.
  - apply Z.compare_lt_iff, magnitude_lt; auto.
  - apply Z.compare_gt_iff, magnitude_lt; auto.
  - apply Z.compare_lt_iff, magnitude_lt; auto.
  - apply Z.compare_gt_iff, magnitude_lt; auto.
Qed.

Lemma compare_opposite A B : 0 <= A -> 0 <= B -> A <> 0 \/ B <> 0 ->
  (- A ?= B) = Lt /\ (A ?= - B) = Gt.
Proof. intros. split; [apply Z.compare_lt_iff|apply Z.compare_gt_iff]; lia. Qed.

(** The lexicographic test of the fields, as the code writes it. *)
Lemma fields_test (e1 m1 e2 m2 : Z) (s : bool) :
  (if negb (e1 =? e2) then if xorb (e1 <? e2) s then -1 else 1
   else if negb (m1 =? m2) then if xorb (m1 <? m2) s then -1 else 1 else 0) =
  of_compare (let c := match e1 ?= e2 with Eq => m1 ?= m2 | c => c end in
              if s then CompOpp c else c).
Proof.
  unfold Z.ltb. rewrite !Z.eqb_compare.
  by destruct (e1 ?= e2), (m1 ?= m2), s.
Qed.

Lemma cmp_value a b :
  is_nan a = false -> is_nan b = false -> cmp a b = of_compare (df_value a ?= df_value b).
Proof.
  intros Ha Hb. unfold cmp, df_value. rewrite Ha, Hb. clear Ha Hb.
  pose proof (df_mant_range a) as Hma. pose proof (df_mant_range b) as Hmb.
  pose proof (proj1 (df_exp_range a)) as Hea. pose proof (proj1 (df_exp_range b)) as Heb.
  rewrite fields_test. generalize dependent (df_exp a). generalize dependent (df_exp b).
  generalize dependent (df_mant a). generalize dependent (df_mant b).
  intros mb Hmb ma Hma eb Heb ea Hea.
  rewrite <- magnitude_compare by done.
  pose proof (magnitude_nonneg ea ma (proj1 Hma)) as HA.
  pose proof (magnitude_nonneg eb mb (proj1 Hmb)) as HB.
  pose proof (magnitude_zero ea ma Hea (proj1 Hma)) as ZA.
  pose proof (magnitude_zero eb mb Heb (proj1 Hmb)) as ZB.
  generalize dependent (magnitude ea ma). generalize dependent (magnitude eb mb).
  intros B HB ZB A HA ZA. clear Hma Hmb Hea Heb.
  destruct ((ea =? 0) && (ma =? 0) && (eb =? 0) && (mb =? 0)) eqn:E.
  { rewrite !andb_true_iff, !Z.eqb_eq in E. assert (A = 0) as -> by tauto. assert (B = 0) as -> by tauto.
    by destruct (df_sign a), (df_sign b). }
  assert (Hnz : A <> 0 \/ B <> 0).
  { destruct (Z.eq_dec A 0) as [HA0|]; [|by left]. right. intros HB0.
    apply ZA in HA0 as [-> ->]. apply ZB in HB0 as [-> ->]. done. }
  destruct (compare_opposite A B HA HB Hnz) as [Hlt Hgt].
  destruct (df_sign a), (df_sign b); cbn [xorb].
  - by rewrite Z.compare_opp, (Z.compare_antisym A B).
  - by rewrite Hlt.
  - by rewrite Hgt.
  - done.
Qed.

(** ** Packing *)

Lemma b2z_testbit (s : bool) i : 0 <= i -> Z.testbit (b2z s) i = s && (i =? 0).
Proof. intros. destruct s; [apply one_testbit|apply Z.testbit_0_l]. Qed.

(** The fields of an assembled double. *)
Lemma fields_spec (s : bool) e f :
  0 <= e < 2 ^ 11 -> 0 <= f < 2 ^ 52 ->
  let x := signed s (lsl64 e 52 ||| f) in
  df_exp x = e /\ df_mant x = f /\ df_sign x = s.
Proof.
  intros He Hf x.
  assert (Hx : forall i, 0 <= i -> Z.testbit x i =
    (i <? 64) && (s && (i =? 63)) || ((i <? 64) && Z.testbit e (i - 52) || Z.testbit f i)).
  { intros i Hi. unfold x, signed. rewrite !Z.lor_spec, !lsl64_testbit by done.
    destruct (Z.ltb_spec i 63).
    - rewrite (Z.testbit_neg_r (b2z s)) by lia. by rewrite (proj2 (Z.eqb_neq i 63)), !andb_false_r by lia.
    - rewrite b2z_testbit by lia. by replace (i - 63 =? 0) with (i =? 63) by (cmp_split; lia || done). }
  clearbody x. split; [|split].
  - apply Z.bits_inj'. intros i Hi. unfold df_exp. change 0x7FF with (2 ^ 11 - 1).
    rewrite Z.land_spec, Z.shiftr_spec, ones_testbit by lia. destruct (Z.ltb_spec i 11).
    + rewrite Hx, (testbit_above 52 f) by lia. replace (i + 52 - 52) with i by lia.
      cmp_split; try lia. by rewrite !andb_false_r, orb_false_r, andb_true_r.
    + rewrite andb_false_r. symmetry. by apply (testbit_above 11).
  - apply Z.bits_inj'. intros i Hi. rewrite df_mant_mod, mod_pow2_testbit by lia.
    destruct (Z.ltb_spec i 52).
    + rewrite Hx, (Z.testbit_neg_r e) by lia. cmp_split; try lia. by rewrite !andb_false_r.
    + symmetry. by apply (testbit_above 52).
  - unfold df_sign. assert (Hs : x >>> 63 = b2z s).
    { apply Z.bits_inj'. intros i Hi. rewrite Z.shiftr_spec, Hx, b2z_testbit by lia.
      rewrite (testbit_above 52 f), (testbit_above 11 e) by lia.
      cmp_split; try lia; bool_simpl; by rewrite ?andb_false_r, ?andb_true_r. }
    rewrite Hs. by destruct s.
Qed.

Lemma assembled_value (s : bool) e f :
  1 <= e < 2 ^ 11 -> 0 <= f < 2 ^ 52 ->
  df_value (signed s (lsl64 e 52 ||| f)) = (if s then -1 else 1) * ((f + 2 ^ 52) * 2 ^ (e - 1)).
Proof.
  intros He Hf. destruct (fields_spec s e f ltac:(lia) Hf) as (Hx & Hm & Hs).
  unfold df_value. rewrite Hx, Hm, Hs. unfold magnitude.
  rewrite (proj2 (Z.eqb_neq e 0)), Z.max_l by lia. destruct s; ring.
Qed.

Lemma norm_up_spec fuel m e L :
  0 <= L <= Z.of_nat fuel -> 2 ^ 55 <= m * 2 ^ L < 2 ^ 56 -> 1 <= e - L ->
  norm_up fuel m e = (m * 2 ^ L, e - L).
Proof.
  revert m e L. induction fuel as [|fuel IH]; intros m e L HL Hm He.
  - replace L with 0 by lia. simpl. by rewrite Z.mul_1_r, Z.sub_0_r.
  - cbn [norm_up]. destruct (Z.eq_dec L 0) as [->|].
    + rewrite Z.pow_0_r, Z.mul_1_r in *. rewrite (proj2 (Z.ltb_ge m (2 ^ 55))) by lia.
      by rewrite andb_false_r, Z.sub_0_r.
    + assert (E : 2 ^ L = 2 * 2 ^ (L - 1)) by (rewrite <- Z.pow_succ_r by lia; f_equal; lia).
      assert (0 < 2 ^ (L - 1)) by (apply Z.pow_pos_nonneg; lia).
      assert (Hlt : 0 < m < 2 ^ 55).
      { rewrite E in Hm. split; [nia|]. change (2 ^ 56) with (2 * 2 ^ 55) in Hm. nia. }
      rewrite (proj2 (Z.ltb_lt 1 e)), (proj2 (Z.ltb_lt m _)) by lia. cbn [andb].
      assert (lsl64 m 1 = 2 * m) as ->.
      { unfold lsl64. rewrite Z.shiftl_mul_pow2, u64_small by (lia || (unfold in64; lia)). lia. }
      rewrite (IH (2 * m) (e - 1) (L - 1)); [|lia| |lia].
      * f_equal; [rewrite E; ring|lia].
      * replace (2 * m * 2 ^ (L - 1)) with (m * 2 ^ L) by (rewrite E; ring). done.
Qed.

(** Rounding to nearest even at bit 3. *)
Definition rounded (m : Z) : Z := (if round_up m then m + 8 else m) / 8.

Lemma rounded_nearest m :
  Z.abs (8 * rounded m - m) <= 4 /\ (Z.abs (8 * rounded m - m) = 4 -> Z.even (rounded m) = true).
Proof.
  unfold rounded, round_up. change (m &&& 7) with (m &&& (2 ^ 3 - 1)).
  change (m &&& 8) with (m &&& 2 ^ 3). rewrite land_ones_mod, truthy_land_pow2 by lia.
  change (2 ^ 3) with 8. rewrite Z.testbit_odd, Z.shiftr_div_pow2 by lia. change (2 ^ 3) with 8.
  rewrite <- Z.negb_even.
  pose proof (Z.div_mod m 8 ltac:(lia)) as Hd. pose proof (Z.mod_pos_bound m 8 ltac:(lia)) as Hr.
  assert (Hup : (m + 8) / 8 = m / 8 + 1) by (replace (m + 8) with (m + 1 * 8) by lia; rewrite Z.div_add; lia).
  destruct (Z.ltb_spec 4 (m mod 8)), (Z.eqb_spec (m mod 8) 4); cbn [orb andb negb]; try lia.
  destruct (Z.even (m / 8)) eqn:Ev; cbn [negb]; [split; [lia|done]|].
  rewrite Hup, Z.even_add, Ev. split; [lia|done].
Qed.

Lemma rounded_range m : 2 ^ 55 <= m < 2 ^ 56 -> 2 ^ 52 <= rounded m <= 2 ^ 53.
Proof.
  intros Hm. destruct (rounded_nearest m) as [H _].
  change (2 ^ 55) with (8 * 2 ^ 52) in Hm. change (2 ^ 56) with (8 * 2 ^ 53) in Hm. lia.
Qed.

Lemma pack_normal m e (s : bool) :
  2 ^ 55 <= m < 2 ^ 56 -> 1 <= e <= 0x7FD ->
  (let m' := if round_up m then u64 (m + 8) else m in
   let m' := m' >>> 3 in
   let '(m', e') := if truthy (m' &&& 2 ^ 53) then (m' >>> 1, e + 1) else (m', e) in
   if 0x7FF <=? e' then signed s DF_EXP else signed s (lsl64 e' 52 ||| (m' &&& DF_MANT)))
  = signed s (if rounded m =? 2 ^ 53 then lsl64 (e + 1) 52 ||| 0
              else lsl64 e 52 ||| (rounded m - 2 ^ 52)).
Proof.
  intros Hm He. cbv zeta.
  assert ((if round_up m then u64 (m + 8) else m) >>> 3 = rounded m) as ->.
  { unfold rounded. rewrite u64_small by (unfold in64; lia). rewrite Z.shiftr_div_pow2 by lia. done. }
  pose proof (rounded_range m Hm) as Hr. set (r := rounded m) in *. clearbody r.
  rewrite truthy_land_pow2 by lia. change DF_MANT with (2 ^ 52 - 1).
  destruct (Z.eqb_spec r (2 ^ 53)) as [->|Hne].
  - rewrite pow2_testbit by lia. cbn [Z.eqb Pos.eqb]. rewrite (proj2 (Z.leb_gt _ _)) by lia. done.
  - rewrite (testbit_above 53 r) by lia. rewrite (proj2 (Z.leb_gt _ _)), land_ones_mod by lia.
    do 2 f_equal. replace (r mod 2 ^ 52) with ((r - 2 ^ 52) mod 2 ^ 52).
    + apply Z.mod_small. lia.
    + rewrite <- (Z.mod_add (r - 2 ^ 52) 1) by lia. f_equal. lia.
Qed.

(** The end of [pack], on a normalised mantissa. *)
Definition pack_tail (s : bool) (m e : Z) : Z :=
  if e <=? 0 then 0
  else if 0x7FF <=? e then signed s DF_EXP
  else
    let m := if round_up m then u64 (m + 8) else m in
    let m := m >>> 3 in
    let '(m, e) := if truthy (m &&& 2 ^ 53) then (m >>> 1, e + 1) else (m, e) in
    if 0x7FF <=? e then signed s DF_EXP else signed s (lsl64 e 52 ||| (m &&& DF_MANT)).

Lemma pack_normalised_value M E (s : bool) :
  2 ^ 55 <= M < 2 ^ 56 -> 1 <= E <= 0x7FD ->
  df_value (pack_tail s M E) = (if s then -1 else 1) * (rounded M * 2 ^ (E - 1)).
Proof.
  intros Hm He. unfold pack_tail. rewrite (proj2 (Z.leb_gt E 0)), (proj2 (Z.leb_gt 0x7FF E)) by lia.
  etransitivity; [apply f_equal, (pack_normal M E s); done|].
  pose proof (rounded_range M Hm). destruct (Z.eqb_spec (rounded M) (2 ^ 53)) as [Er|].
  - rewrite assembled_value by lia. rewrite Er. replace (E + 1 - 1) with (1 + (E - 1)) by lia.
    rewrite Z.pow_add_r by lia. change (2 ^ 53) with (2 ^ 52 * 2 ^ 1). ring.
  - rewrite assembled_value by lia. f_equal. f_equal. lia.
Qed.

Lemma norm_down_spec fuel m e k :
  0 <= k <= Z.of_nat fuel -> 2 ^ (55 + k) <= m < 2 ^ (56 + k) -> norm_down fuel m e = (m >>> k, e + k).
Proof.
  revert m e k. induction fuel as [|fuel IH]; intros m e k Hk Hm.
  - replace k with 0 by lia. cbn. by rewrite Z.shiftr_0_r, Z.add_0_r.
  - cbn [norm_down]. destruct (Z.eq_dec k 0) as [->|].
    + rewrite (proj2 (Z.leb_gt _ _)) by lia. by rewrite Z.shiftr_0_r, Z.add_0_r.
    + assert (2 ^ 56 <= 2 ^ (55 + k)) by (apply Z.pow_le_mono_r; lia).
      rewrite (proj2 (Z.leb_le _ _)) by lia. rewrite (IH _ _ (k - 1)).
      * rewrite Z.shiftr_shiftr by lia. f_equal; [f_equal|]; lia.
      * lia.
      * rewrite Z.shiftr_div_pow2 by lia. change (2 ^ 1) with 2.
        replace (2 ^ (55 + k)) with (2 * 2 ^ (55 + (k - 1))) in Hm by (rewrite <- Z.pow_succ_r by lia; f_equal; lia).
        replace (2 ^ (56 + k)) with (2 * 2 ^ (56 + (k - 1))) in Hm by (rewrite <- Z.pow_succ_r by lia; f_equal; lia).
        split; [apply Z.div_le_lower_bound|apply Z.div_lt_upper_bound]; lia.
Qed.

Lemma normalised_range m : 0 < m < 2 ^ 64 -> 2 ^ 55 <= Z.shiftl m (55 - Z.log2 m) < 2 ^ 56.
Proof.
  intros Hm. pose proof (Z.log2_nonneg m).
  assert (Hl : Z.log2 (Z.shiftl m (55 - Z.log2 m)) = 55).
  { destruct (Z.leb_spec 0 (55 - Z.log2 m)); [rewrite Z.log2_shiftl by lia; lia|].
    rewrite <- (Z.opp_involutive (55 - Z.log2 m)), Z.shiftl_opp_r, Z.log2_shiftr by lia. lia. }
  destruct (Z.log2_spec (Z.shiftl m (55 - Z.log2 m))) as [H1 H2].
  { destruct (Z.le_gt_cases (Z.shiftl m (55 - Z.log2 m)) 0) as [Hneg|]; [|done]. by rewrite (Z.log2_nonpos _ Hneg) in Hl. }
  rewrite Hl in H1, H2. lia.
Qed.

(** The two loops shift the leading bit to bit 55. *)
Lemma pack_normalises m e (s : bool) :
  0 < m < 2 ^ 64 -> let N := 55 - Z.log2 m in 1 <= e - N -> pack m e s = pack_tail s (Z.shiftl m N) (e - N).
Proof.
  intros Hm N He. pose proof (normalised_range m Hm) as HM. fold N in HM. unfold pack, pack_tail.
  pose proof (Z.log2_spec m ltac:(lia)) as Hlog.
  assert (Hl : Z.log2 m < 64) by (apply Z.log2_lt_pow2; lia).
  destruct (Z.leb_spec 0 N) as [HN|HN].
  - rewrite Z.shiftl_mul_pow2 in * by lia. rewrite (norm_up_spec _ _ _ N) by (done || lia).
    rewrite (norm_down_spec 8 _ _ 0) by (cbn; lia). by rewrite Z.shiftr_0_r, Z.add_0_r.
  - assert (2 ^ 55 <= m) by (etransitivity; [|apply Hlog]; apply Z.pow_le_mono_r; lia).
    assert (norm_up (Z.to_nat e) m e = (m, e)) as ->.
    { destruct (Z.to_nat e); [done|]. cbn [norm_up]. by rewrite (proj2 (Z.ltb_ge m _)), andb_false_r by lia. }
    rewrite (norm_down_spec 8 m e (- N)).
    + rewrite Z.shiftr_opp_r. by replace (e + - N) with (e - N) by lia.
    + lia.
    + unfold N. replace (55 + - (55 - Z.log2 m)) with (Z.log2 m) by lia.
      by replace (56 + - (55 - Z.log2 m)) with (Z.succ (Z.log2 m)) by lia.
Qed.

(** What packing computes of a mantissa below [2^56]. *)
Lemma pack_value m e (s : bool) L :
  0 <= L -> 2 ^ 55 <= m * 2 ^ L < 2 ^ 56 -> 1 <= e - L <= 0x7FD ->
  df_value (pack m e s) = (if s then -1 else 1) * (rounded (m * 2 ^ L) * 2 ^ (e - L - 1)).
Proof.
  intros HL Hm He. rewrite <- (pack_normalised_value _ _ s Hm He). unfold pack, pack_tail.
  rewrite (norm_up_spec _ _ _ L) by (done || lia).
  rewrite (norm_down_spec 8 _ _ 0) by (cbn; lia). by rewrite Z.shiftr_0_r, Z.add_0_r.
Qed.

Lemma int_norm_spec fuel u k L :
  0 < u -> 0 <= L <= Z.of_nat fuel -> 2 ^ 55 <= u * 2 ^ L < 2 ^ 56 ->
  int_norm fuel u k = (u * 2 ^ L, k + L).
Proof.
  revert u k L. induction fuel as [|fuel IH]; intros u k L Hu HL Hm.
  - replace L with 0 by lia. simpl. by rewrite Z.mul_1_r, Z.add_0_r.
  - cbn [int_norm]. destruct (Z.eq_dec L 0) as [->|].
    + rewrite Z.pow_0_r, Z.mul_1_r in *. rewrite (proj2 (Z.ltb_ge u (2 ^ 55))) by lia. by rewrite Z.add_0_r.
    + assert (E : 2 ^ L = 2 * 2 ^ (L - 1)) by (rewrite <- Z.pow_succ_r by lia; f_equal; lia).
      assert (0 < 2 ^ (L - 1)) by (apply Z.pow_pos_nonneg; lia).
      assert (Hlt : u < 2 ^ 55) by (rewrite E in Hm; change (2 ^ 56) with (2 * 2 ^ 55) in Hm; nia).
      rewrite (proj2 (Z.ltb_lt u _)) by lia.
      assert (lsl64 u 1 = 2 * u) as ->.
      { unfold lsl64. rewrite Z.shiftl_mul_pow2, u64_small by (lia || (unfold in64; lia)). lia. }
      rewrite (IH (2 * u) (k + 1) (L - 1)); [|lia|lia|].
      * f_equal; [rewrite E; ring|lia].
      * by replace (2 * u * 2 ^ (L - 1)) with (u * 2 ^ L) by (rewrite E; ring).
Qed.

(** The normalising shift of an integer below [2^32]. *)
Lemma int_shift u : 0 < u < 2 ^ 32 ->
  let L := 55 - Z.log2 u in 24 <= L <= 55 /\ 2 ^ 55 <= u * 2 ^ L < 2 ^ 56.
Proof.
  intros Hu L. pose proof (Z.log2_spec u ltac:(lia)) as [Hlo Hhi].
  assert (Z.log2 u < 32) by (apply Z.log2_lt_pow2; lia). pose proof (Z.log2_nonneg u).
  split; [lia|]. unfold L.
  replace (2 ^ 55) with (2 ^ Z.log2 u * 2 ^ (55 - Z.log2 u)) by (rewrite <- Z.pow_add_r by lia; f_equal; lia).
  replace (2 ^ 56) with (2 ^ Z.succ (Z.log2 u) * 2 ^ (55 - Z.log2 u))
    by (rewrite <- Z.pow_add_r by lia; f_equal; lia).
  assert (0 < 2 ^ (55 - Z.log2 u)) by (apply Z.pow_pos_nonneg; lia).
  split; [apply Z.mul_le_mono_nonneg_r; lia|apply Z.mul_lt_mono_pos_r; lia].
Qed.

Lemma rounded_exact q : rounded (8 * q) = q.
Proof. destruct (rounded_nearest (8 * q)) as [H _]. lia. Qed.

Lemma float_value u (s : bool) :
  0 < u < 2 ^ 32 ->
  df_value (let '(m, k) := int_norm 64 u 0 in pack m (1023 + 55 - k) s)
    = (if s then -1 else 1) * (u * 2 ^ 1074).
Proof.
  intros Hu. destruct (int_shift u Hu) as [HL Hm]. set (L := 55 - Z.log2 u) in *. clearbody L.
  rewrite (int_norm_spec 64 u 0 L) by (done || lia). rewrite Z.add_0_l.
  rewrite (pack_value _ _ s 0); [|lia|by rewrite Z.pow_0_r, Z.mul_1_r|lia].
  rewrite Z.pow_0_r, Z.mul_1_r, Z.sub_0_r.
  replace (u * 2 ^ L) with (8 * (u * 2 ^ (L - 3)))
    by (change 8 with (2 ^ 3); rewrite (Z.mul_comm u), Z.mul_assoc, <- Z.pow_add_r by lia;
        rewrite Z.mul_comm; do 2 f_equal; lia).
  rewrite rounded_exact. f_equal. rewrite <- Z.mul_assoc, <- Z.pow_add_r by lia. do 2 f_equal. lia.
Qed.

Lemma u32_bit x j : Z.testbit (u32 x) j = (j <? 32) && Z.testbit x j.
Proof.
  destruct (Z.leb_spec 0 j); [by apply u32_testbit|].
  rewrite !Z.testbit_neg_r by lia. by rewrite andb_false_r.
Qed.

Lemma hi_bit x j : 0 <= j -> Z.testbit (u32 (x >>> 32)) j = (j <? 32) && Z.testbit x (j + 32).
Proof. intros. by rewrite u32_bit, Z.shiftr_spec. Qed.

Lemma byte_mask_bit k j :
  0 <= k -> Z.testbit (Z.shiftl (2 ^ 8 - 1) k) j = (k <=? j) && (j <? k + 8).
Proof.
  intros Hk. destruct (Z.leb_spec 0 j).
  - rewrite Z.shiftl_spec by done. destruct (Z.leb_spec k j).
    + rewrite ones_testbit by lia. cmp_split; try lia; done.
    + by rewrite Z.testbit_neg_r by lia.
  - rewrite Z.testbit_neg_r by done. by cmp_split; try lia.
Qed.

Lemma bswapsi2_bit x i :
  0 <= i < 32 ->
  Z.testbit (bswapsi2 x) i =
    Z.testbit x (if i <? 8 then i + 24 else if i <? 16 then i + 8
                 else if i <? 24 then i - 8 else i - 24).
Proof.
  intros Hi. unfold bswapsi2.
  change 0xFF00 with (Z.shiftl (2 ^ 8 - 1) 8). change 0xFF with (Z.shiftl (2 ^ 8 - 1) 0).
  rewrite !Z.lor_spec, !lsl32_testbit, !Z.land_spec, !Z.shiftr_spec, !byte_mask_bit by lia.
  rewrite (proj2 (Z.ltb_lt i 32)), !andb_true_l by lia.
  destruct (Z.ltb_spec i 8);
    [|destruct (Z.ltb_spec i 16); [|destruct (Z.ltb_spec i 24)]];
    cmp_split; try lia; bool_simpl; reflexivity.
Qed.

(** Swapping the bytes twice restores the word. *)
Lemma bswapsi2_involutive x : in32 x -> bswapsi2 (bswapsi2 x) = x.
Proof.
  intros Hx. assert (H32 : forall y, in32 (bswapsi2 y)).
  { intros y. unfold bswapsi2. auto 7 with mach. }
  apply Z.bits_inj'. intros i Hi. destruct (Z.ltb_spec i 32).
  - rewrite !bswapsi2_bit by (cmp_split; lia). f_equal. cmp_split; lia.
  - by rewrite !in32_testbit.
Qed.

(** ** Claims *)

(** The operations on 32-bit halves are the 64-bit ones: the shifts agree
    with the shifts of [u64] for every shift count, and the multiplication
    with the product modulo [2^64]. *)
Theorem halves_exact (x y n : Z) :
  in64 x -> in64 y -> 0 <= n ->
  shl64 x n = lsl64 x n /\ shr64 x n = x >>> n /\ mul64 x y = u64 (x * y).
Proof.
  intros Hx Hy Hn.
  assert (Hhi : forall i, 64 <= i -> Z.testbit x i = false) by (intros; by apply (testbit_above 64)).
  split; [|split].
  - unfold shl64. destruct (Z.leb_spec 64 n).
    { symmetry. zbits. destruct (Z.ltb_spec i 64); [|done]. by rewrite Z.testbit_neg_r by lia. }
    destruct (Z.eqb_spec n 0) as [->|].
    { unfold lsl64. by rewrite Z.shiftl_0_r, u64_small. }
    apply Z.bits_inj'. intros i Hi. rewrite (lsl64_testbit x) by done.
    destruct (Z.ltb_spec n 32).
    + rewrite Z.lor_spec, lsl64_testbit, lsl32_testbit, (u32_bit x) by done.
      destruct (Z.ltb_spec i 32).
      * rewrite (Z.testbit_neg_r _ (i - 32)) by lia. cmp_split; try lia. bool_simpl. done.
      * rewrite Z.lor_spec, lsl32_testbit, Z.shiftr_spec, (u32_bit x) by lia. bool_simpl.
        destruct (Z.ltb_spec i 64); [|by rewrite andb_false_l]. bool_simpl.
        destruct (Z.leb_spec 0 (i - 32 - n)).
        -- rewrite hi_bit by lia. cmp_split; try lia; bool_simpl. f_equal; lia.
        -- rewrite (Z.testbit_neg_r _ (i - 32 - n)) by lia. cmp_split; try lia; bool_simpl. f_equal; lia.
    + rewrite lsl64_testbit by done. destruct (Z.leb_spec 32 i).
      * rewrite lsl32_testbit, (u32_bit x) by lia.
        replace (i - 32 - (n - 32)) with (i - n) by lia. cmp_split; try lia; bool_simpl; try done.
      * by rewrite !Z.testbit_neg_r by lia.
  - unfold shr64. destruct (Z.leb_spec 64 n).
    { symmetry. zbits. apply Hhi. lia. }
    destruct (Z.eqb_spec n 0) as [->|]; [by rewrite Z.shiftr_0_r|].
    apply Z.bits_inj'. intros i Hi. rewrite (Z.shiftr_spec x) by done.
    destruct (Z.ltb_spec n 32).
    + rewrite !Z.lor_spec, lsl64_testbit, lsl32_testbit, (Z.shiftr_spec (u32 x)), (u32_bit x) by lia.
      destruct (Z.leb_spec 32 i).
      * rewrite Z.shiftr_spec, hi_bit by lia. replace (i - 32 + n + 32) with (i + n) by lia.
        cmp_split; try lia; bool_simpl; try done; symmetry; apply Hhi; lia.
      * rewrite (Z.testbit_neg_r _ (i - 32)) by lia. destruct (Z.leb_spec 0 (i - (32 - n))).
        -- rewrite hi_bit by lia. replace (i - (32 - n) + 32) with (i + n) by lia.
           cmp_split; try lia; bool_simpl. done.
        -- rewrite (Z.testbit_neg_r _ (i - (32 - n))) by lia. cmp_split; try lia; bool_simpl. done.
    + rewrite Z.shiftr_spec, hi_bit by lia. replace (i + (n - 32) + 32) with (i + n) by lia.
      destruct (Z.ltb_spec (i + (n - 32)) 32); [done|]. symmetry. apply Hhi. lia.
  - unfold mul64, lsl64, u64. rewrite !Z.shiftl_mul_pow2 by lia.
    set (xl := u32 x). set (xh := u32 (x >>> 32)). set (yl := u32 y). set (yh := u32 (y >>> 32)).
    assert (Hsplit : forall z, in64 z -> z = u32 z + 2 ^ 32 * u32 (z >>> 32)).
    { intros z Hz. rewrite (u32_small (z >>> 32)).
      - rewrite Z.shiftr_div_pow2 by lia. unfold u32. pose proof (Z.div_mod z (2 ^ 32)). lia.
      - rewrite Z.shiftr_div_pow2 by lia. unfold in32, in64 in *.
        split; [apply Z.div_pos; lia|apply Z.div_lt_upper_bound; lia]. }
    pose proof (Hsplit x Hx) as Ex. pose proof (Hsplit y Hy) as Ey. fold xl xh in Ex. fold yl yh in Ey.
    clearbody xl xh yl yh. subst x y.
    rewrite !Zmult_mod_idemp_l, !Zplus_mod_idemp_r, !Zplus_mod_idemp_l.
    replace ((xl + 2 ^ 32 * xh) * (yl + 2 ^ 32 * yh))
      with (xl * yl + xl * yh * 2 ^ 32 + xh * yl * 2 ^ 32 + (xh * yh) * 2 ^ 64) by ring.
    rewrite Z.mod_add, <- !Z.add_assoc, Zplus_mod_idemp_l by lia. done.
Qed.

(** C35: Packing a 64-bit extended mantissa [m > 0] at exponent [e], for every [m]: it is
    first normalised to [M] in [2^55, 2^56) by the shift [N] that brings its leading
    bit to bit 55, to the left below [2^55] and to the right from [2^56] on, where
    the bits shifted out are dropped ([M] is the floor of [m * 2^N]). With the
    normalised exponent [e - N] between 1 and 0x7FD, [M] is rounded to nearest, ties
    to even, at the eighth-bit precision: the result is the double whose mantissa is
    the [r] with [8 r] nearest to [M], even when two are equally near, at that
    exponent. With a normalised exponent of 0x7FF or more, the result is the infinity of the
    sign. *)
Theorem pack_nearest_even (m e : Z) (s : bool) :
  0 < m < 2 ^ 64 ->
  let N := 55 - Z.log2 m in let M := Z.shiftl m N in
  2 ^ 55 <= M < 2 ^ 56 /\
  (1 <= e - N <= 0x7FD ->
   exists r, 2 ^ 52 <= r <= 2 ^ 53 /\
     df_value (pack m e s) = (if s then -1 else 1) * (r * 2 ^ (e - N - 1)) /\
     Z.abs (8 * r - M) <= 4 /\ (Z.abs (8 * r - M) = 4 -> Z.even r = true)) /\
  (0x7FF <= e - N -> pack m e s = signed s DF_EXP).
Proof.
  intros Hm N M. pose proof (normalised_range m Hm) as HM. split; [done|]. split; intros He.
  - exists (rounded M). split; [by apply rounded_range|]. split; [|apply rounded_nearest].
    rewrite pack_normalises by (done || (fold N; lia)). by apply pack_normalised_value.
  - rewrite pack_normalises by (done || (fold N; lia)). cbn.
    fold N. unfold pack_tail. rewrite (proj2 (Z.leb_gt (e - N) 0)), (proj2 (Z.leb_le 0x7FF (e - N))) by lia. done.
Qed.

(** Conversions from integers are exact: [__floatsidf] of every 32-bit
    signed integer and [__floatunsidf] of every unsigned one is the double
    with that value. *)
Theorem float_conversions_exact (i u : Z) :
  - 2 ^ 31 <= i < 2 ^ 31 -> in32 u ->
  df_value (floatsidf i) = i * 2 ^ 1074 /\ df_value (floatunsidf u) = u * 2 ^ 1074.
Proof.
  intros Hi Hu. split.
  - unfold floatsidf. destruct (Z.ltb_spec i 0).
    + assert (u32 (0 - u32 i) = - i) as ->.
      { rewrite u32_sub_r. apply u32_small. unfold in32. lia. }
      rewrite (proj2 (Z.eqb_neq _ _)), float_value by lia. ring.
    + rewrite u32_small by (unfold in32; lia). destruct (Z.eqb_spec i 0) as [->|]; [done|].
      rewrite float_value by lia. ring.
  - unfold floatunsidf. destruct (Z.eqb_spec u 0) as [->|]; [done|].
    unfold in32 in Hu. rewrite float_value by lia. ring.
Qed.

(** The comparisons implement the order of the values: [__eqdf2] is 0,
    [__ltdf2] negative and [__ledf2] at most 0 exactly when neither operand is
    a NaN and the values compare so (with equal zeros of either sign and
    infinities beyond every finite value), [__unorddf2] is 0 exactly when
    neither is a NaN, and on such operands [__gtdf2] is positive exactly when
    the first is greater. *)
Theorem comparisons_correct (a b : Z) :
  let ordered := negb (is_nan a || is_nan b) = true in
  (eqdf2 a b = 0 <-> ordered /\ df_value a = df_value b) /\
  (ltdf2 a b < 0 <-> ordered /\ df_value a < df_value b) /\
  (ledf2 a b <= 0 <-> ordered /\ df_value a <= df_value b) /\
  (unorddf2 a b = 0 <-> ordered) /\
  (ordered -> (0 < gtdf2 a b <-> df_value b < df_value a)).
Proof.
  intros ordered. unfold ordered, eqdf2, ltdf2, ledf2, unorddf2, gtdf2.
  destruct (is_nan a) eqn:Ha; [rewrite cmp_nan by auto; simpl; intuition congruence || lia|].
  destruct (is_nan b) eqn:Hb; [rewrite cmp_nan by auto; simpl; intuition congruence || lia|].
  rewrite cmp_value by done.
  destruct (Z.compare_spec (df_value a) (df_value b)); simpl; intuition congruence || lia.
Qed.

(** ** Deviations *)

(** [__nedf2] is 0 on different operands and 1 on equal ones, the opposite of
    what a caller of it tests. *)
Lemma nedf2_inverted a b : nedf2 a b = 1 - eqdf2 a b.
Proof. unfold nedf2, eqdf2. by destruct (cmp a b =? 0). Qed.

(** [__gtdf2] reports a NaN as greater than anything. *)
Lemma gtdf2_nan a b : is_nan a = true -> gtdf2 a b = 1.
Proof. intros. unfold gtdf2. by rewrite cmp_nan by auto. Qed.

(** Any finite sum with a fraction bit set is returned as an infinity. *)
Lemma adddf3_fraction_infinite a b :
  is_inf_nan a = false -> is_inf_nan b = false ->
  df_mant a <> 0 \/ df_mant b <> 0 -> adddf3 a b = signed (df_sign b) DF_EXP.
Proof.
  intros Ha Hb Hm. unfold adddf3, addsub, is_nan.
  unfold is_inf_nan in *. rewrite Ha, Hb.
  replace ((df_exp a =? 0x7FF) || truthy (df_mant a) || ((df_exp b =? 0x7FF) || truthy (df_mant b)))
    with true.
  - cbn [andb]. cbv zeta. by rewrite xorb_false_r.
  - symmetry. rewrite !orb_true_iff, !truthy_true. tauto.
Qed.

(** Subtracting adds, because unpacking restores the sign of the operand; the
    product keeps only 64 of its 112 bits; a quotient comes out [2^55] times
    too small. *)
Lemma arithmetic_deviations :
  subdf3 (floatsidf 4) (floatsidf 2) = floatsidf 6 /\
  df_value (muldf3 (floatsidf 1) (floatsidf 1)) = 2 ^ 52 /\
  2 ^ 55 * df_value (divdf3 (floatsidf 4) (floatsidf 2)) = df_value (floatsidf 2).
Proof. vm_compute. done. Qed.

(** [__fixdfsi] truncates an eighth of its operand. *)
Lemma fixdfsi_eighth : fixdfsi (floatsidf 8) = 1 /\ fixdfsi (floatsidf (-1000)) = -125.
Proof. split; vm_compute; reflexivity. Qed.

(** A single-precision denormal can convert to twice its value. *)
Lemma extendsfdf2_denormal : df_value (extendsfdf2 0x400000) = 2 * (0x400000 * 2 ^ (1074 - 149)).
Proof. vm_compute. reflexivity. Qed.

(** ** Witnesses *)

Lemma halves_exact_witness : shl64 0x123456789abcdef0 36 = 0xabcdef0000000000.
Proof.
  rewrite (proj1 (halves_exact 0x123456789abcdef0 0 36 ltac:(unfold in64; lia) ltac:(unfold in64; lia)
    ltac:(lia))).
  reflexivity.
Defined.

(** A tie, and a mantissa of 57 bits whose dropped bit was above the tie. *)
Lemma pack_nearest_even_witness :
  (exists r, df_value (pack (2 ^ 55 + 12) 1023 true) = -1 * (r * 2 ^ 1022) /\ Z.even r = true) /\
  (exists r, df_value (pack (2 ^ 56 + 9) 1023 false) = 1 * (r * 2 ^ 1023) /\ 8 * r = 2 ^ 55) /\
  pack 1 3000 true = signed true DF_EXP.
Proof.
  split; [|split].
  - destruct (pack_nearest_even (2 ^ 55 + 12) 1023 true ltac:(lia)) as (_ & H & _).
    change (55 - Z.log2 (2 ^ 55 + 12)) with 0 in H. destruct H as (r & Hr & Hv & Hn & Ht); [lia|].
    rewrite Z.shiftl_0_r in *. exists r. split; [exact Hv|]. apply Ht.
    assert (Hc : 8 * r = 2 ^ 55 + 8 \/ 8 * r = 2 ^ 55 + 16) by lia. destruct Hc as [->| ->]; reflexivity.
  - destruct (pack_nearest_even (2 ^ 56 + 9) 1023 false ltac:(lia)) as (_ & H & _).
    change (55 - Z.log2 (2 ^ 56 + 9)) with (-1) in H. change (Z.shiftl (2 ^ 56 + 9) (-1)) with (2 ^ 55 + 4) in H.
    destruct H as (r & Hr & Hv & Hn & Ht); [lia|]. exists r. split; [exact Hv|].
    destruct (Z.eq_dec (8 * r) (2 ^ 55)); [done|].
    assert (Hr2 : r = 2 ^ 52 + 1) by lia. subst r. specialize (Ht ltac:(lia)). discriminate Ht.
  - apply (pack_nearest_even 1 3000 true); [lia|]. vm_compute. discriminate.
Defined.

Lemma float_conversions_exact_witness : df_value (floatsidf (-3)) = -3 * 2 ^ 1074.
Proof. exact (proj1 (float_conversions_exact (-3) 0 ltac:(lia) ltac:(unfold in32; lia))). Defined.

Lemma comparisons_correct_witness :
  0 < gtdf2 (floatsidf 3) (floatsidf 2) <-> df_value (floatsidf 2) < df_value (floatsidf 3).
Proof.
  destruct (comparisons_correct (floatsidf 3) (floatsidf 2)) as (_ & _ & _ & _ & H).
  apply H. reflexivity.
Defined.
