(* ===== verification/Slots.v ===== *)
(** * Ordering the slots of a bundle ([target/xtensa/translate.c])

    A FLIX instruction holds several operations that read their inputs before
    any of them writes its outputs.  The translator emits them one after the
    other, so it computes for every slot the resources it reads and writes
    ([opcode_add_resource]), decides which slot would destroy the inputs of
    which ([op_depends_on]) and sorts the slots topologically ([tsort]),
    breaking cycles with copies of register operands ([break_dependency]).

    A [struct slot_prop] keeps the resource lists and flags; a pointer into
    the argument array of a slot is the pair of the slot and operand number.
    The edge counters are [unsigned]; the array [in] has [MAX_INSN_SLOTS]
    elements and writing past it is the outcome [TsOverrun].  The theorems:
    the merge scan finds a common resource exactly when there is one, the
    sort always terminates, it succeeds with a topological order whenever the
    dependencies have no cycle, and running the slots in an order found
    without copies computes what the parallel bundle computes. *)

From Stdlib Require Import Ascii.
From S2P Require Import Prelude.

Definition MAX_INSN_SLOTS : Z := 32.
Definition MAX_OPCODE_ARGS : Z := 16.
Abbreviation XTENSA_OP_CONTROL_FLOW := 0x10000 (only parsing).
Abbreviation XTENSA_OP_STORE := 0x20000 (only parsing).
Abbreviation XTENSA_OP_LOAD := 0x40000 (only parsing).
Abbreviation XTENSA_OP_LOAD_STORE := 0x60000 (only parsing).

(** ** Resources *)

Record opcode_arg_info := mkInfo { resource : Z; info_index : Z }.

Record opcode_arg_copy := mkCopy { copy_resource : Z; copy_slot : Z; copy_index : Z }.

Record slot_prop := mkSlotProp {
  sp_in : list opcode_arg_info;
  sp_out : list opcode_arg_info;
  sp_flags : Z
}.

Abbreviation RES_REGFILE := 0 (only parsing).
Abbreviation RES_STATE := 1 (only parsing).
Abbreviation RES_MAX := 2 (only parsing).

Definition encode_resource (r g n : Z) : option Z :=
  if (r <? RES_MAX) && (g <? 256) && (n <? 65536)
  then Some (lsl32 r 24 ||| lsl32 g 16 ||| n) else None.

Definition get_resource_type (res : Z) : Z := res >>> 24.

(** [None]: the assertion on the array bound or on the direction fails. *)
Definition opcode_add_resource (op : slot_prop) (res : Z) (direction : ascii)
    (index : Z) : option slot_prop :=
  let room l := Z.of_nat (length l) <? MAX_OPCODE_ARGS in
  let add_in op := mkSlotProp (sp_in op ++ [mkInfo res index]) (sp_out op) (sp_flags op) in
  let add_out op := mkSlotProp (sp_in op) (sp_out op ++ [mkInfo res index]) (sp_flags op) in
  if Ascii.eqb direction "m"%char
  then if room (sp_in op) && room (sp_out op) then Some (add_out (add_in op)) else None
  else if Ascii.eqb direction "i"%char then if room (sp_in op) then Some (add_in op) else None
  else if Ascii.eqb direction "o"%char then if room (sp_out op) then Some (add_out op) else None
  else None.

Definition resource_compare (a b : opcode_arg_info) : Z :=
  if resource a <? resource b then -1 else if resource b <? resource a then 1 else 0.

Definition info_le (a b : opcode_arg_info) : Prop := resource_compare a b <= 0.

#[export] Instance info_le_dec : RelDecision info_le.
Proof. intros a b. unfold info_le. apply _. Defined.

(** [qsort(..., resource_compare)] *)
Definition sort_resources (l : list opcode_arg_info) : list opcode_arg_info :=
  merge_sort info_le l.

(** ** Dependencies *)

(** The loop of [op_depends_on]: a merge of two sorted lists. *)
Fixpoint common_resource (outs : list opcode_arg_info) : list opcode_arg_info -> bool :=
  fix go ins :=
    match outs, ins with
    | o :: outs', i :: ins' =>
        if resource o <? resource i then common_resource outs' ins
        else if resource i <? resource o then go ins'
        else true
    | _, _ => false
    end.

Definition op_depends_on (a b : slot_prop) : bool :=
  if truthy (sp_flags a &&& XTENSA_OP_CONTROL_FLOW) then true
  else if (sp_flags a &&& XTENSA_OP_LOAD_STORE) <? (sp_flags b &&& XTENSA_OP_LOAD_STORE)
  then true
  else common_resource (sp_out a) (sp_in b).

(** The loop of [break_dependency]; [None] is [return false]. *)
Fixpoint break_scan (b : Z) (outs : list opcode_arg_info) :
    list opcode_arg_info -> option (list opcode_arg_copy) :=
  fix go ins :=
    match outs, ins with
    | o :: outs', i :: ins' =>
        if resource o <? resource i then break_scan b outs' ins
        else if resource i <? resource o then go ins'
        else if negb (get_resource_type (resource o) =? RES_REGFILE) || (info_index i <? 0)
        then None
        else
          match go ins' with
          | None => None
          | Some l => Some (mkCopy (resource i) b (info_index i) :: l)
          end
    | _, _ => Some []
    end.

(** [bidx] is the number of the slot [b], so that [b->arg + index] is
    [(bidx, index)]. *)
Definition break_dependency (a b : slot_prop) (bidx : Z) (copy : list opcode_arg_copy)
    : bool * list opcode_arg_copy :=
  if truthy (sp_flags a &&& XTENSA_OP_CONTROL_FLOW) then (false, copy)
  else if (sp_flags a &&& XTENSA_OP_LOAD_STORE) <? (sp_flags b &&& XTENSA_OP_LOAD_STORE)
  then (false, copy)
  else
    match break_scan bidx (sp_out a) (sp_in b) with
    | None => (false, copy)
    | Some [] => (false, copy)
    | Some l => (true, copy ++ l)
    end.

(** ** Topological sort *)

Record tsstate := mkTs {
  n_in_edge : Z -> Z;
  out_edge : Z -> list Z;
  ts_in : list Z;
  in_idx : nat;
  n_edge : Z;
  node_idx : Z;
  ts_copy : list opcode_arg_copy
}.

(** [sorted[n_out]] is written from [in[in_idx]] and both counters advance
    together. *)
Definition ts_sorted (st : tsstate) : list Z := take (in_idx st) (ts_in st).

Inductive tsresult :=
| TsDone (b : bool) (st : tsstate)
| TsOverrun
| TsFuel.

Section Tsort.
Context (slot : Z -> slot_prop) (n : Z).

Definition add_edge (i : Z) (st : tsstate) (j : Z) : tsstate :=
  if negb (i =? j) && op_depends_on (slot j) (slot i)
  then mkTs (fupd (n_in_edge st) j (u32 (n_in_edge st j + 1)))
         (fupd (out_edge st) i (out_edge st i ++ [j]))
         (ts_in st) (in_idx st) (u32 (n_edge st + 1)) (node_idx st) (ts_copy st)
  else st.

Definition ts_empty : tsstate := mkTs (fun _ => 0) (fun _ => []) [] 0 0 0 [].

Definition build_edges : tsstate :=
  foldl (fun st i => foldl (add_edge i) st (seqZ 0 n)) ts_empty (seqZ 0 n).

Definition start_nodes (st : tsstate) : tsstate :=
  mkTs (n_in_edge st) (out_edge st) (filter (fun i => n_in_edge st i = 0) (seqZ 0 n))
    (in_idx st) (n_edge st) (node_idx st) (ts_copy st).

(** One edge [i -> k] of a node that has been output. *)
Definition visit_edge (st : tsstate) (k : Z) : tsstate :=
  let c := u32 (n_in_edge st k - 1) in
  mkTs (fupd (n_in_edge st) k c) (out_edge st)
    (if c =? 0 then ts_in st ++ [k] else ts_in st)
    (in_idx st) (u32 (n_edge st - 1)) (node_idx st) (ts_copy st).

Definition output_node (st : tsstate) (i : Z) : tsstate :=
  foldl visit_edge
    (mkTs (n_in_edge st) (out_edge st) (ts_in st) (Datatypes.S (in_idx st)) (n_edge st)
       (node_idx st) (ts_copy st))
    (out_edge st i).

(** The loop at the label [again]. *)
Fixpoint drain (fuel : nat) (st : tsstate) : tsresult :=
  match fuel with
  | O => TsFuel
  | Datatypes.S f =>
      if MAX_INSN_SLOTS <? Z.of_nat (length (ts_in st)) then TsOverrun
      else
        match ts_in st !! in_idx st with
        | None => TsDone true st
        | Some i => drain f (output_node st i)
        end
  end.

(** The inner loop of the cycle breaker on node [c]; [j] counts the edges
    already tried.  [true] is [goto again]. *)
Fixpoint try_edges (c : Z) (j : nat) (ks : list Z) (st : tsstate) : bool * tsstate :=
  match ks with
  | [] => (false, st)
  | k :: ks' =>
      let '(ok, copy) := break_dependency (slot k) (slot c) c (ts_copy st) in
      if ok then
        let cnt := u32 (n_in_edge st k - 1) in
        if cnt =? 0 then
          let out := out_edge st c in
          let moved := <[j := List.last out 0]> out in
          (true, mkTs (fupd (n_in_edge st) k cnt)
                   (fupd (out_edge st) c (take (length out - 1) moved))
                   (ts_in st ++ [k]) (in_idx st) (u32 (n_edge st - 1)) c copy)
        else
          try_edges c (Datatypes.S j) ks'
            (mkTs (fupd (n_in_edge st) k cnt) (out_edge st) (ts_in st) (in_idx st)
               (n_edge st) (node_idx st) copy)
      else try_edges c (Datatypes.S j) ks' st
  end.

Fixpoint break_nodes (cs : list Z) (st : tsstate) : bool * tsstate :=
  match cs with
  | [] => (false, st)
  | c :: cs' =>
      if truthy (n_in_edge st c) then
        match try_edges c 0 (out_edge st c) st with
        | (true, st') => (true, st')
        | (false, st') => break_nodes cs' st'
        end
      else break_nodes cs' st
  end.

Definition drain_fuel : nat := 34.

Fixpoint again (fuel : nat) (st : tsstate) : tsresult :=
  match fuel with
  | O => TsFuel
  | Datatypes.S f =>
      match drain drain_fuel st with
      | TsDone _ st1 =>
          if n_edge st1 =? 0 then TsDone true st1
          else
            match break_nodes (seqZ (node_idx st1) (n - node_idx st1)) st1 with
            | (true, st2) => again f st2
            | (false, st2) => TsDone false st2
            end
      | r => r
      end
  end.

Definition tsort : tsresult :=
  again (Datatypes.S (Z.to_nat n * Z.to_nat n)) (start_nodes build_edges).
End Tsort.

(** ** The merge scan *)

Lemma resource_le a b : info_le a b <-> resource a <= resource b.
Proof.
  unfold info_le, resource_compare.
  destruct (Z.ltb_spec (resource a) (resource b)), (Z.ltb_spec (resource b) (resource a)); lia.
Qed.

#[export] Instance info_le_trans : Transitive info_le.
Proof. intros a b c. rewrite !resource_le. lia. Qed.

#[export] Instance info_le_total : Total info_le.
Proof. intros a b. rewrite !resource_le. lia. Qed.

Definition by_resource (l : list opcode_arg_info) : Prop := StronglySorted info_le l.

Lemma sort_resources_sorted l : by_resource (sort_resources l).
Proof. apply (StronglySorted_merge_sort info_le). Qed.

Lemma sort_resources_perm l : sort_resources l ≡ₚ l.
Proof. apply merge_sort_Permutation. Qed.

Definition shares (outs ins : list opcode_arg_info) : Prop :=
  exists o i, o ∈ outs /\ i ∈ ins /\ resource o = resource i.

Lemma shares_nil_l ins : ~ shares [] ins.
Proof. intros (o & i & H & _). by apply elem_of_nil in H. Qed.
Lemma shares_nil_r outs : ~ shares outs [].
Proof. intros (o & i & _ & H & _). by apply elem_of_nil in H. Qed.

(** Neither head can match once the smaller one is dropped. *)
Lemma shares_skip_out o outs i ins :
  by_resource (i :: ins) -> resource o < resource i ->
  shares (o :: outs) (i :: ins) <-> shares outs (i :: ins).
Proof.
  intros [_ Hi]%StronglySorted_inv Hlt. split.
  - intros (o' & i' & Ho & Hi' & E). exists o', i'. split_and!; try done.
    apply elem_of_cons in Ho as [->|]; [exfalso|done].
    apply elem_of_cons in Hi' as [->|Hin]; [lia|].
    rewrite Forall_forall in Hi. apply Hi, resource_le in Hin. lia.
  - intros (o' & i' & Ho & Hi' & E). exists o', i'. split_and!; try done. by right.
Qed.

Lemma shares_sym a b : shares a b <-> shares b a.
Proof. split; intros (o & i & ? & ? & ?); exists i, o; split_and!; done. Qed.

Lemma common_resource_spec outs ins :
  by_resource outs -> by_resource ins ->
  common_resource outs ins = true <-> shares outs ins.
Proof.
  revert ins. induction outs as [|o outs IHo]; intros ins Ho Hi.
  { destruct ins; cbn; split; try done; intros H; by destruct (shares_nil_l _ H). }
  induction ins as [|i ins IHi].
  { cbn. split; [done|]. intros H; by destruct (shares_nil_r _ H). }
  cbn -[Z.ltb]. destruct (Z.ltb_spec (resource o) (resource i)).
  - rewrite shares_skip_out by done. apply IHo; [|done]. by apply StronglySorted_inv in Ho as [? _].
  - destruct (Z.ltb_spec (resource i) (resource o)).
    + rewrite shares_sym, shares_skip_out, shares_sym by done.
      apply IHi. by apply StronglySorted_inv in Hi as [? _].
    + split; [intros _|done]. exists o, i. split_and!; [by left|by left|lia].
Qed.

Definition slot_sorted (p : slot_prop) : Prop := by_resource (sp_in p) /\ by_resource (sp_out p).

(** [op_depends_on] decides, on the sorted resource lists the decoder
    builds, whether slot [a] must be emitted after slot [b]: [a] is a control
    transfer, or ranks below [b] as a memory access, or writes a resource
    that [b] reads. *)
Lemma op_depends_on_iff a b :
  slot_sorted a -> slot_sorted b ->
  op_depends_on a b = true <->
    sp_flags a &&& XTENSA_OP_CONTROL_FLOW <> 0 \/
    (sp_flags a &&& XTENSA_OP_LOAD_STORE) < (sp_flags b &&& XTENSA_OP_LOAD_STORE) \/
    shares (sp_out a) (sp_in b).
Proof.
  intros [_ Ha] [Hb _]. unfold op_depends_on.
  rewrite <- (common_resource_spec _ _ Ha Hb), <- truthy_true, <- Z.ltb_lt.
  destruct (truthy (sp_flags a &&& 65536)); [naive_solver|].
  destruct (_ <? _); naive_solver.
Qed.


(** ** Sums over the slots *)

Lemma filter_ext_in (P Q : Z -> Prop) `{!forall x, Decision (P x), !forall x, Decision (Q x)}
    (l : list Z) :
  (forall i, i ∈ l -> P i <-> Q i) -> filter P l = filter Q l.
Proof.
  intros Hpq. induction l as [|i l IH]; [done|]. rewrite !filter_cons.
  rewrite IH by (intros; apply Hpq; by right). rewrite (decide_ext (P i) (Q i)); [done|].
  apply Hpq. by left.
Qed.

Lemma sum_list_with_ext (f g : Z -> nat) (l : list Z) :
  (forall i, i ∈ l -> f i = g i) -> sum_list_with f l = sum_list_with g l.
Proof.
  intros H. induction l as [|i l IH]; [done|]. cbn. rewrite H by (by left).
  rewrite IH; [done|]. intros. apply H. by right.
Qed.

(** Changing one term of a sum. *)
Lemma sum_list_with_change (f g : Z -> nat) (c : Z) (l : list Z) :
  NoDup l -> c ∈ l -> (forall i, i <> c -> g i = f i) ->
  (sum_list_with f l + g c = sum_list_with g l + f c)%nat.
Proof.
  intros Hnd Hin Hne. induction l as [|i l IH]; [by apply elem_of_nil in Hin|].
  apply NoDup_cons in Hnd as [Hi Hnd]. cbn. apply elem_of_cons in Hin as [->|Hin].
  - rewrite (sum_list_with_ext f g l); [lia|]. intros j Hj. symmetry. apply Hne. by intros ->.
  - rewrite (Hne i) by (by intros ->). specialize (IH Hnd Hin). lia.
Qed.

Lemma sum_list_with_le (f : Z -> nat) (m : nat) (l : list Z) :
  (forall i, f i <= m)%nat -> (sum_list_with f l <= length l * m)%nat.
Proof.
  intros H. induction l as [|i l IH]; cbn; [lia|]. specialize (H i). lia.
Qed.

Lemma sum_list_with_zero (f : Z -> nat) (l : list Z) :
  sum_list_with f l = 0%nat <-> forall i, i ∈ l -> f i = 0%nat.
Proof.
  induction l as [|i l IH]; cbn.
  - split; [intros _ i Hi; by apply elem_of_nil in Hi|done].
  - split.
    + intros H j Hj. apply elem_of_cons in Hj as [->|Hj]; [lia|]. apply IH; [lia|done].
    + intros H. rewrite (H i) by (by left). apply IH. intros j Hj. apply H. by right.
Qed.

(** ** Termination *)

Section Termination.
Context (slot : Z -> slot_prop) (n : Z).

Lemma visit_edges_frame ks st :
  let st' := foldl visit_edge st ks in
  out_edge st' = out_edge st /\ in_idx st' = in_idx st /\ node_idx st' = node_idx st /\
  ts_copy st' = ts_copy st.
Proof.
  revert st. induction ks as [|k ks IH]; intros st; [done|]. cbn [foldl].
  destruct (IH (visit_edge st k)) as (-> & -> & -> & ->). done.
Qed.

Lemma output_node_frame st i :
  out_edge (output_node st i) = out_edge st /\
  in_idx (output_node st i) = Datatypes.S (in_idx st) /\
  node_idx (output_node st i) = node_idx st /\ ts_copy (output_node st i) = ts_copy st.
Proof. exact (visit_edges_frame (out_edge st i) (mkTs _ _ _ (Datatypes.S (in_idx st)) _ _ _)). Qed.

Lemma drain_returns f st : (33 <= in_idx st + f)%nat -> drain (Datatypes.S f) st <> TsFuel.
Proof.
  revert st. induction f as [|f IH]; intros st Hf.
  - cbn [drain]. unfold MAX_INSN_SLOTS. destruct (Z.ltb_spec 32 (Z.of_nat (length (ts_in st)))); [done|].
    rewrite lookup_ge_None_2 by lia. done.
  - cbn [drain]. destruct (_ <? _); [done|]. destruct (ts_in st !! in_idx st); [|done].
    apply IH. destruct (output_node_frame st z) as (_ & -> & _). lia.
Qed.

Lemma drain_frame f st b st' :
  drain f st = TsDone b st' ->
  out_edge st' = out_edge st /\ node_idx st' = node_idx st /\ ts_copy st' = ts_copy st.
Proof.
  revert st. induction f as [|f IH]; intros st; cbn [drain]; [done|].
  destruct (_ <? _); [done|]. destruct (ts_in st !! in_idx st); [|intros [= _ <-]; done].
  intros H. apply IH in H as (-> & -> & ->).
  destruct (output_node_frame st z) as (-> & _ & -> & ->). done.
Qed.

(** The edges left in the graph. *)
Definition total_out (st : tsstate) : nat :=
  sum_list_with (fun i => length (out_edge st i)) (seqZ 0 n).

(** A broken edge leaves the graph. *)
Lemma try_edges_decr c j ks st st' :
  try_edges slot c j ks st = (true, st') -> c ∈ seqZ 0 n -> out_edge st c <> [] ->
  total_out st = Datatypes.S (total_out st').
Proof.
  intros H Hc. revert j st H. induction ks as [|k ks IH]; intros j st; cbn [try_edges]; [done|].
  destruct (break_dependency _ _ _ _) as [[] copy]; [|by apply IH].
  destruct (_ =? 0); [|intros H Ho; by apply (IH _ _ H)].
  intros [= <-] Ho. unfold total_out; cbn [out_edge]. set (new := take _ _).
  assert (Hn : length (out_edge st c) = Datatypes.S (length new)).
  { subst new. rewrite length_take, length_insert. destruct (out_edge st c); [done|]. cbn. lia. }
  clearbody new.
  pose proof (sum_list_with_change (fun i => length (out_edge st i))
    (fun i => length (fupd (out_edge st) c new i)) c (seqZ 0 n) (NoDup_seqZ 0 n) Hc
    ltac:(intros i Hi; cbv beta; by rewrite fupd_ne)) as Hs.
  cbn beta in Hs. rewrite fupd_eq in Hs. lia.
Qed.

Lemma try_edges_frame c j ks st st' :
  try_edges slot c j ks st = (false, st') -> out_edge st' = out_edge st.
Proof.
  revert j st. induction ks as [|k ks IH]; intros j st; cbn [try_edges]; [by intros [= <-]|].
  destruct (break_dependency _ _ _ _) as [[] copy]; [|by apply IH].
  destruct (_ =? 0); [done|]. intros H. by apply IH in H.
Qed.

Lemma try_edges_true_nonempty c j ks st st' :
  try_edges slot c j ks st = (true, st') -> ks <> [].
Proof. by destruct ks. Qed.

Lemma try_edges_idx c j ks st st' :
  try_edges slot c j ks st = (true, st') -> node_idx st' = c.
Proof.
  revert j st. induction ks as [|k ks IH]; intros j st; cbn [try_edges]; [done|].
  destruct (break_dependency _ _ _ _) as [[] copy]; [|by apply IH].
  destruct (_ =? 0); [by intros [= <-]|]. intros H. by apply IH in H.
Qed.

Lemma break_nodes_idx cs st st' :
  break_nodes slot cs st = (true, st') -> node_idx st' ∈ cs.
Proof.
  revert st. induction cs as [|c cs IH]; intros st; cbn [break_nodes]; [done|].
  destruct (truthy _); [|intros H; right; by eapply IH].
  destruct (try_edges slot c 0 (out_edge st c) st) as [[] st1] eqn:E.
  - intros [= <-]. rewrite (try_edges_idx _ _ _ _ _ E). by left.
  - intros H. right. by eapply IH.
Qed.

Lemma break_nodes_decr cs st st' :
  break_nodes slot cs st = (true, st') -> (forall c, c ∈ cs -> c ∈ seqZ 0 n) ->
  total_out st = Datatypes.S (total_out st').
Proof.
  revert st. induction cs as [|c cs IH]; intros st; cbn [break_nodes]; [done|]. intros H Hin.
  assert (Hin' : forall c, c ∈ cs -> c ∈ seqZ 0 n) by (intros; apply Hin; by right).
  destruct (truthy (n_in_edge st c)); [|by apply IH].
  destruct (try_edges slot c 0 (out_edge st c) st) as [[] st1] eqn:E.
  - injection H as <-. eapply try_edges_decr; [done| |by eapply try_edges_true_nonempty].
    apply Hin. by left.
  - apply IH in H; [|done]. rewrite <- H. unfold total_out.
    by rewrite (try_edges_frame _ _ _ _ _ E).
Qed.
End Termination.

(** ** The dependency graph *)

Section Graph.
Context (slot : Z -> slot_prop) (n : Z).

(** [i -> j]: slot [j] must follow slot [i]. *)
Definition dep (i j : Z) : bool := negb (i =? j) && op_depends_on (slot j) (slot i).

Definition succs (i : Z) : list Z := filter (fun j => dep i j = true) (seqZ 0 n).

Lemma add_edges_spec i l st :
  NoDup l ->
  let st' := foldl (add_edge slot i) st l in
  (forall k, out_edge st' k = if k =? i then out_edge st i ++ filter (fun j => dep i j = true) l
                              else out_edge st k) /\
  (forall j, u32 (n_in_edge st' j) =
     u32 (n_in_edge st j + b2z (bool_decide (j ∈ l) && dep i j))) /\
  u32 (n_edge st') = u32 (n_edge st + Z.of_nat (length (filter (fun j => dep i j = true) l))) /\
  ts_in st' = ts_in st /\ in_idx st' = in_idx st /\ node_idx st' = node_idx st /\
  ts_copy st' = ts_copy st.
Proof.
  revert st. induction l as [|j l IH]; intros st Hnd; cbn [foldl].
  - split_and!; try done.
    + intros k. destruct (Z.eqb_spec k i) as [->|]; [|done]. by rewrite app_nil_r.
    + intros j. cbn. by rewrite Z.add_0_r.
    + cbn. by rewrite Z.add_0_r.
  - apply NoDup_cons in Hnd as [Hj Hnd].
    destruct (IH (add_edge slot i st j) Hnd) as (Ho & Hi & He & -> & -> & -> & ->). clear IH.
    split_and!; try (unfold add_edge; destruct (negb _ && _); done).
    + intros k. rewrite Ho. unfold add_edge. fold (dep i j). rewrite filter_cons.
      destruct (dep i j) eqn:Ed; cbn -[Z.eqb]; [|done].
      rewrite fupd_eq. destruct (Z.eqb_spec k i) as [->|]; [by rewrite <- app_assoc|].
      by rewrite fupd_ne.
    + intros k. rewrite Hi. unfold add_edge. fold (dep i j).
      rewrite (bool_decide_ext (k ∈ j :: l) (k = j \/ k ∈ l)) by (by rewrite elem_of_cons).
      destruct (dep i j) eqn:Ed; cbn [n_in_edge].
      * destruct (decide (k = j)) as [->|Hk].
        -- rewrite fupd_eq, Ed, (bool_decide_false (j ∈ l)), (bool_decide_true (j = j \/ _)) by tauto.
           cbn. rewrite Z.add_0_r. apply u32_small, u32_in32.
        -- rewrite fupd_ne by done. repeat f_equal. apply bool_decide_ext. tauto.
      * destruct (decide (k = j)) as [->|Hk]; [by rewrite Ed, !andb_false_r|].
        repeat f_equal. apply bool_decide_ext. tauto.
    + rewrite He. unfold add_edge. fold (dep i j). rewrite filter_cons.
      destruct (dep i j) eqn:Ed; cbn [n_edge decide]; [|done].
      destruct (decide (true = true)); [|done]. cbn [length].
      rewrite u32_add_l. f_equal. lia.
Qed.

Lemma build_loop_spec sl st :
  NoDup sl ->
  let st' := foldl (fun st i => foldl (add_edge slot i) st (seqZ 0 n)) st sl in
  (forall k, out_edge st' k = if bool_decide (k ∈ sl) then out_edge st k ++ succs k
                              else out_edge st k) /\
  (forall j, j ∈ seqZ 0 n -> u32 (n_in_edge st' j) =
     u32 (n_in_edge st j + Z.of_nat (sum_list_with (fun i => Nat.b2n (dep i j)) sl))) /\
  u32 (n_edge st') =
    u32 (n_edge st + Z.of_nat (sum_list_with (fun i => length (succs i)) sl)) /\
  ts_in st' = ts_in st /\ in_idx st' = in_idx st /\ node_idx st' = node_idx st /\
  ts_copy st' = ts_copy st.
Proof.
  revert st. induction sl as [|i sl IH]; intros st Hnd; cbn [foldl].
  { split_and!; try done; intros; cbn; by rewrite ?Z.add_0_r. }
  apply NoDup_cons in Hnd as [Hi Hnd].
  destruct (add_edges_spec i (seqZ 0 n) st (NoDup_seqZ 0 n)) as (Ao & An & Ae & A1 & A2 & A3 & A4).
  set (st1 := foldl (add_edge slot i) st (seqZ 0 n)) in *.
  destruct (IH st1 Hnd) as (Ho & Hn & He & -> & -> & -> & ->). clear IH.
  split_and!; try done.
  - intros k. rewrite Ho, Ao. destruct (Z.eqb_spec k i) as [->|Hk].
    + rewrite (bool_decide_false (i ∈ sl)), bool_decide_true by (done || by left). done.
    + rewrite (bool_decide_ext (k ∈ i :: sl) (k ∈ sl)); [done|].
      rewrite elem_of_cons. tauto.
  - intros j Hj. rewrite Hn by done. rewrite <- (u32_add_l (n_in_edge st1 j)), An, u32_add_l.
    rewrite bool_decide_true by done. cbn [sum_list_with andb]. f_equal.
    destruct (dep i j); cbn; lia.
  - rewrite He, <- (u32_add_l (n_edge st1)), Ae, u32_add_l. fold (succs i). cbn. f_equal. lia.
Qed.

Definition counters32 (st : tsstate) : Prop :=
  (forall j, in32 (n_in_edge st j)) /\ in32 (n_edge st).

Lemma foldl_inv {A B} (I : A -> Prop) (f : A -> B -> A) (a : A) (l : list B) :
  (forall a b, I a -> I (f a b)) -> I a -> I (foldl f a l).
Proof. intros Hf. revert a. induction l as [|b l IH]; intros a Ha; [done|]. apply IH, Hf, Ha. Qed.

Lemma build_counters32 : counters32 (build_edges slot n).
Proof.
  unfold build_edges. apply foldl_inv; [|split; [intros j|]; unfold in32; cbn; lia].
  intros st i Hst. apply foldl_inv; [|done]. intros st' j [H1 H2]. unfold add_edge.
  destruct (negb _ && _); [|done]. split; [|apply u32_in32]. intros k. cbn. unfold fupd.
  destruct (k =? j); [apply u32_in32|apply H1].
Qed.
End Graph.

(** ** Kahn's algorithm *)

Section Kahn.
Context (slot : Z -> slot_prop) (n : Z) (Hn : 0 <= n <= 32).

Abbreviation dep := (dep slot).
Abbreviation succs := (succs slot n).
Abbreviation range := (seqZ 0 n).

(** The predecessors of [j], and all edges, that do not start in [P]. *)
Definition pending (P : list Z) (j : Z) : nat :=
  sum_list_with (fun i => if bool_decide (i ∈ P) then 0%nat else Nat.b2n (dep i j)) range.
Definition edges_left (P : list Z) : nat :=
  sum_list_with (fun i => if bool_decide (i ∈ P) then 0%nat else length (succs i)) range.

Lemma range_length : length range = Z.to_nat n.
Proof. apply length_seqZ. Qed.

Lemma succs_length i : (length (succs i) <= Z.to_nat n)%nat.
Proof. rewrite <- range_length. apply length_filter. Qed.

Lemma pending_le P j : (pending P j <= Z.to_nat n)%nat.
Proof.
  unfold pending. rewrite <- range_length, <- (Nat.mul_1_r (length range)).
  apply sum_list_with_le. intros i. destruct (bool_decide _), (dep i j); cbn; lia.
Qed.

Lemma edges_left_le P : (edges_left P <= Z.to_nat n * Z.to_nat n)%nat.
Proof.
  unfold edges_left. rewrite <- range_length at 1.
  apply sum_list_with_le. intros i. pose proof (succs_length i). destruct (bool_decide _); lia.
Qed.

(** Outputting a node takes its edges away. *)
Lemma pending_output P i j :
  i ∈ range -> i ∉ P -> pending P j = (pending (P ++ [i]) j + Nat.b2n (dep i j))%nat.
Proof.
  intros Hi HP.
  pose proof (sum_list_with_change
    (fun i => if bool_decide (i ∈ P) then 0%nat else Nat.b2n (dep i j))
    (fun i' => if bool_decide (i' ∈ P ++ [i]) then 0%nat else Nat.b2n (dep i' j))
    i range (NoDup_seqZ 0 n) Hi) as H.
  cbv beta in H. rewrite (bool_decide_false (i ∈ P)), (bool_decide_true (i ∈ P ++ [i])) in H
    by (done || (apply elem_of_app; right; by left)).
  unfold pending. rewrite <- H; [lia|]. intros k Hk.
  rewrite (bool_decide_ext (k ∈ P ++ [i]) (k ∈ P)); [done|].
  rewrite elem_of_app, list_elem_of_singleton. tauto.
Qed.

Lemma edges_output P i :
  i ∈ range -> i ∉ P -> edges_left P = (edges_left (P ++ [i]) + length (succs i))%nat.
Proof.
  intros Hi HP.
  pose proof (sum_list_with_change
    (fun i => if bool_decide (i ∈ P) then 0%nat else length (succs i))
    (fun i' => if bool_decide (i' ∈ P ++ [i]) then 0%nat else length (succs i'))
    i range (NoDup_seqZ 0 n) Hi) as H.
  cbv beta in H. rewrite (bool_decide_false (i ∈ P)), (bool_decide_true (i ∈ P ++ [i])) in H
    by (done || (apply elem_of_app; right; by left)).
  unfold edges_left. rewrite <- H; [lia|]. intros k Hk.
  rewrite (bool_decide_ext (k ∈ P ++ [i]) (k ∈ P)); [done|].
  rewrite elem_of_app, list_elem_of_singleton. tauto.
Qed.

Lemma pending_zero P j :
  pending P j = 0%nat <-> forall i, i ∈ range -> dep i j = true -> i ∈ P.
Proof.
  unfold pending. rewrite sum_list_with_zero. split; intros H i Hi.
  - intros Hd. specialize (H i Hi). rewrite Hd in H. by case_bool_decide.
  - specialize (H i Hi). case_bool_decide; [done|]. destruct (dep i j); [tauto|done].
Qed.

(** What the loop at [again] maintains. *)
Record kahn (st : tsstate) : Prop := {
  k_nodup : NoDup (ts_in st);
  k_range : forall j, j ∈ ts_in st -> j ∈ range;
  k_idx : (in_idx st <= length (ts_in st))%nat;
  k_out : forall i, i ∈ range -> out_edge st i = succs i;
  k_count : forall j, j ∈ range -> n_in_edge st j = Z.of_nat (pending (ts_sorted st) j);
  k_zero : forall j, j ∈ range -> j ∈ ts_in st <-> n_in_edge st j = 0;
  k_edges : n_edge st = Z.of_nat (edges_left (ts_sorted st));
  k_order : forall k j, ts_in st !! k = Some j ->
    forall i, i ∈ range -> dep i j = true -> i ∈ take k (ts_in st)
}.

Lemma kahn_start : kahn (start_nodes n (build_edges slot n)).
Proof.
  destruct (build_loop_spec slot n range ts_empty (NoDup_seqZ 0 n))
    as (Ho & Hc & He & _ & H2 & _ & _). fold (build_edges slot n) in *.
  assert (Hcnt : forall j, j ∈ range ->
    n_in_edge (build_edges slot n) j = Z.of_nat (pending [] j)).
  { intros j Hj. destruct (build_counters32 slot n) as [Hb _].
    rewrite <- (u32_small _ (Hb j)), Hc by done. cbn [n_in_edge ts_empty]. rewrite Z.add_0_l.
    change (sum_list_with _ range) with (pending [] j). apply u32_small.
    pose proof (pending_le [] j). unfold in32. lia. }
  assert (Hedge : n_edge (build_edges slot n) = Z.of_nat (edges_left [])).
  { destruct (build_counters32 slot n) as [_ Hb]. rewrite <- (u32_small _ Hb), He.
    cbn [n_edge ts_empty]. rewrite Z.add_0_l.
    change (sum_list_with _ range) with (edges_left []). apply u32_small.
    pose proof (edges_left_le []). assert (Z.to_nat n <= 32)%nat by lia. unfold in32. nia. }
  assert (Hin : forall j, j ∈ filter (fun i => n_in_edge (build_edges slot n) i = 0) range <->
    j ∈ range /\ n_in_edge (build_edges slot n) j = 0) by (intros; rewrite list_elem_of_filter; tauto).
  unfold start_nodes. split; unfold ts_sorted; cbn [ts_in in_idx n_in_edge out_edge n_edge];
    rewrite ?H2; try done.
  - apply NoDup_filter, NoDup_seqZ.
  - intros j Hj. by apply Hin in Hj as [? _].
  - cbn. lia.
  - intros i Hi. rewrite Ho, bool_decide_true by done. done.
  - intros j Hj. rewrite Hin. tauto.
  - intros k j Hk i Hi Hd. exfalso. apply list_elem_of_lookup_2, Hin in Hk as [Hj Hk].
    rewrite Hcnt in Hk by done. apply (Nat2Z.inj _ 0) in Hk.
    pose proof (proj1 (pending_zero [] j) Hk i Hi Hd) as Hm. by apply elem_of_nil in Hm.
Qed.

(** The edges of an output node, all at once. *)
Lemma visit_edges_spec ks st :
  NoDup ks ->
  let st' := foldl visit_edge st ks in
  (forall j, n_in_edge st' j =
     if bool_decide (j ∈ ks) then u32 (n_in_edge st j - 1) else n_in_edge st j) /\
  ts_in st' = ts_in st ++ filter (fun k => u32 (n_in_edge st k - 1) = 0) ks /\
  (in32 (n_edge st) -> n_edge st' = u32 (n_edge st - Z.of_nat (length ks))).
Proof.
  revert st. induction ks as [|k ks IH]; intros st Hnd; cbn [foldl].
  { cbn. rewrite app_nil_r, Z.sub_0_r. split_and!; try done. intros. by rewrite u32_small. }
  apply NoDup_cons in Hnd as [Hk Hnd].
  destruct (IH (visit_edge st k) Hnd) as (Hc & Hi & He). clear IH.
  assert (Hne : forall j, j ∈ ks -> n_in_edge (visit_edge st k) j = n_in_edge st j).
  { intros j Hj. cbn. apply fupd_ne. by intros ->. }
  split_and!.
  - intros j. rewrite Hc. destruct (decide (j = k)) as [->|Hj].
    + rewrite (bool_decide_false (k ∈ ks)), bool_decide_true by (done || by left).
      cbn. by rewrite fupd_eq.
    + rewrite (bool_decide_ext (j ∈ k :: ks) (j ∈ ks)) by (rewrite elem_of_cons; tauto).
      cbn. by rewrite !fupd_ne.
  - rewrite Hi. rewrite filter_cons.
    rewrite (filter_ext_in _ (fun k => u32 (n_in_edge st k - 1) = 0) ks)
      by (intros j Hj; by rewrite Hne).
    cbn [visit_edge ts_in]. destruct (Z.eqb_spec (u32 (n_in_edge st k - 1)) 0).
    + rewrite decide_True by done. by rewrite <- app_assoc.
    + by rewrite decide_False.
  - intros _. rewrite He by apply u32_in32. cbn [visit_edge n_edge length].
    rewrite u32_sub_l. f_equal. lia.
Qed.

Lemma elem_of_succs i j : j ∈ succs i <-> j ∈ range /\ dep i j = true.
Proof. unfold Slots.succs. rewrite list_elem_of_filter. tauto. Qed.

Lemma kahn_length st : kahn st -> (length (ts_in st) <= Z.to_nat n)%nat.
Proof.
  intros Hst. rewrite <- range_length. apply submseteq_length, NoDup_submseteq; [apply Hst|].
  intros j. apply Hst.
Qed.

(** One step of the loop: the node [i] is output. *)
Section Output.
Context (st : tsstate) (i : Z) (Hst : kahn st) (Hi : ts_in st !! in_idx st = Some i).

Abbreviation st' := (output_node st i).

Lemma output_in_range : i ∈ range.
Proof. eapply (k_range st Hst), list_elem_of_lookup_2, Hi. Qed.

Lemma output_fresh : i ∉ ts_sorted st.
Proof.
  intros Hm. unfold ts_sorted in Hm. apply list_elem_of_lookup in Hm as [k Hk].
  apply lookup_take_Some in Hk as [Hk Hkl].
  pose proof (NoDup_lookup _ _ _ _ (k_nodup st Hst) Hi Hk). lia.
Qed.

Lemma edges_in32 : in32 (n_edge st).
Proof.
  rewrite (k_edges st Hst). pose proof (edges_left_le (ts_sorted st)).
  assert (Z.to_nat n <= 32)%nat by lia. unfold in32. nia.
Qed.

(** The counter of a successor, before and after. *)
Lemma output_succ j :
  j ∈ succs i -> 1 <= n_in_edge st j /\ u32 (n_in_edge st j - 1) = n_in_edge st j - 1.
Proof.
  intros [Hj Hd]%elem_of_succs. rewrite (k_count st Hst j Hj).
  pose proof (pending_le (ts_sorted st) j).
  pose proof (pending_output (ts_sorted st) i j output_in_range output_fresh) as Hp.
  rewrite Hd in Hp. cbn in Hp. split; [lia|]. apply u32_small. unfold in32. lia.
Qed.

Lemma output_effect :
  (forall j, n_in_edge st' j =
     if bool_decide (j ∈ succs i) then n_in_edge st j - 1 else n_in_edge st j) /\
  ts_in st' = ts_in st ++ filter (fun k => u32 (n_in_edge st k - 1) = 0) (succs i) /\
  n_edge st' = u32 (n_edge st - Z.of_nat (length (succs i))) /\
  out_edge st' = out_edge st /\ in_idx st' = Datatypes.S (in_idx st).
Proof.
  destruct (output_node_frame st i) as (Fo & Fi & _).
  unfold output_node in *. rewrite (k_out st Hst i output_in_range) in *.
  set (st0 := mkTs _ _ _ _ _ _ _) in *.
  destruct (visit_edges_spec (succs i) st0) as (Hc & Hq & He);
    [apply NoDup_filter, NoDup_seqZ|].
  split_and!; try done; [|apply He, edges_in32].
  intros j. rewrite Hc. case_bool_decide; [|done]. by apply output_succ.
Qed.

Lemma output_new j :
  j ∈ filter (fun k => u32 (n_in_edge st k - 1) = 0) (succs i) <->
  j ∈ succs i /\ n_in_edge st j = 1.
Proof.
  rewrite list_elem_of_filter.
  split; intros [H1 H2]; [pose proof (output_succ j H2)|pose proof (output_succ j H1)];
    (split; [done || lia|done || lia]).
Qed.

Lemma output_sorted : ts_sorted st' = ts_sorted st ++ [i].
Proof.
  destruct output_effect as (_ & Hq & _ & _ & Fi). unfold ts_sorted.
  pose proof (lookup_lt_Some _ _ _ Hi).
  rewrite Fi, Hq, take_app_le by lia. by rewrite (take_S_r _ _ _ Hi).
Qed.

Lemma output_count j :
  j ∈ range -> n_in_edge st' j = Z.of_nat (pending (ts_sorted st') j).
Proof.
  intros Hj. destruct output_effect as (Hc & _). rewrite output_sorted, Hc.
  pose proof (pending_output (ts_sorted st) i j output_in_range output_fresh) as Hp.
  rewrite (k_count st Hst j Hj). case_bool_decide as Hs.
  - apply elem_of_succs in Hs as [_ Hs]. rewrite Hs in Hp. cbn in Hp. lia.
  - destruct (dep i j) eqn:Hd; [|cbn in Hp; lia]. destruct Hs. by apply elem_of_succs.
Qed.

Lemma output_order k j :
  ts_in st' !! k = Some j -> forall p, p ∈ range -> dep p j = true -> p ∈ take k (ts_in st').
Proof.
  destruct output_effect as (Hc & Hq & _ & _ & Fi). pose proof (lookup_lt_Some _ _ _ Hi).
  intros Hk p Hp Hd. rewrite Hq in Hk. apply lookup_app_Some in Hk as [Hk|[Hle Hk]].
  - rewrite Hq, take_app_le by (apply lookup_lt_Some in Hk; lia). by eapply k_order.
  - apply list_elem_of_lookup_2, output_new in Hk as [Hs H1].
    assert (Hz : n_in_edge st' j = 0) by (rewrite Hc, bool_decide_true by done; lia).
    apply elem_of_succs in Hs as [Hj _]. rewrite output_count in Hz by done.
    apply (Nat2Z.inj _ 0) in Hz. pose proof (proj1 (pending_zero _ j) Hz p Hp Hd) as Hm.
    unfold ts_sorted in Hm. rewrite Fi in Hm.
    apply list_elem_of_lookup in Hm as [m Hm]. apply lookup_take_Some in Hm as [Hm Hml].
    apply list_elem_of_lookup. exists m. apply lookup_take_Some. split; [done|lia].
Qed.

Lemma kahn_output : kahn st'.
Proof.
  destruct output_effect as (Hc & Hq & He & Fo & Fi). pose proof (lookup_lt_Some _ _ _ Hi).
  split.
  - rewrite Hq. apply NoDup_app. split_and!; [apply Hst| |apply NoDup_filter, NoDup_filter, NoDup_seqZ].
    intros j Hj [Hs H1]%output_new.
    pose proof (proj1 (k_zero st Hst j (k_range st Hst j Hj)) Hj). lia.
  - intros j. rewrite Hq, elem_of_app, output_new, elem_of_succs.
    intros [Hj|[[? _] _]]; [by apply Hst|done].
  - rewrite Fi, Hq, length_app. lia.
  - intros k Hk. rewrite Fo. by apply Hst.
  - apply output_count.
  - intros j Hj. rewrite Hq, elem_of_app, output_new, (k_zero st Hst j Hj), Hc.
    case_bool_decide as Hs; [|tauto]. pose proof (output_succ j Hs).
    split; [intros [?|[_ ?]]; lia|]. intros. right. split; [done|lia].
  - pose proof (edges_left_le (ts_sorted st ++ [i])). assert (Z.to_nat n <= 32)%nat by lia.
    rewrite output_sorted, He, (k_edges st Hst).
    rewrite (edges_output _ i output_in_range output_fresh).
    rewrite u32_small; [lia|]. unfold in32. nia.
  - apply output_order.
Qed.
End Output.

Lemma kahn_drain f st :
  kahn st -> (33 <= in_idx st + f)%nat ->
  exists st', drain (Datatypes.S f) st = TsDone true st' /\ kahn st' /\
    in_idx st' = length (ts_in st') /\ ts_copy st' = ts_copy st.
Proof.
  revert st. induction f as [|f IH]; intros st Hst Hf;
    pose proof (kahn_length st Hst) as Hl; pose proof (k_idx st Hst) as Hx; cbn [drain];
    unfold MAX_INSN_SLOTS; destruct (Z.ltb_spec 32 (Z.of_nat (length (ts_in st)))); try lia.
  destruct (ts_in st !! in_idx st) as [i|] eqn:Hi.
  - destruct (output_node_frame st i) as (_ & Fi & _ & Fc).
    destruct (IH (output_node st i)) as (st' & Hd & Hk & He & Hc);
      [by apply kahn_output|rewrite Fi; lia|].
    exists st'. rewrite Hc, Fc. done.
  - exists st. split_and!; try done. apply lookup_ge_None_1 in Hi. lia.
Qed.

Lemma first_pass :
  exists st, drain drain_fuel (start_nodes n (build_edges slot n)) = TsDone true st /\ kahn st /\
    in_idx st = length (ts_in st) /\ ts_copy st = [].
Proof.
  destruct (kahn_drain 33 _ kahn_start) as (st & Hd & Hk & Hi & Hc); [cbn; lia|].
  exists st. split_and!; try done. rewrite Hc. cbn.
  destruct (build_loop_spec slot n range ts_empty (NoDup_seqZ 0 n)) as (_ & _ & _ & _ & _ & _ & Hcp).
  exact Hcp.
Qed.

(** A complete order in which every slot follows the slots it must follow. *)
Definition slot_order (order : list Z) : Prop :=
  order ≡ₚ range /\
  forall k j, order !! k = Some j -> forall i, i ∈ range -> dep i j = true -> i ∈ take k order.

(** All edges are gone exactly when every slot has been output. *)
Lemma kahn_complete st :
  kahn st -> in_idx st = length (ts_in st) -> n_edge st = 0 -> slot_order (ts_sorted st).
Proof.
  intros Hst Hi He. assert (E : ts_sorted st = ts_in st).
  { unfold ts_sorted. by rewrite Hi, firstn_all. }
  rewrite (k_edges st Hst) in He. apply (Nat2Z.inj _ 0) in He.
  assert (Hall : forall j, j ∈ range -> j ∈ ts_in st).
  { intros j Hj. apply (k_zero st Hst j Hj). rewrite (k_count st Hst j Hj).
    apply (inj_eq _ 0), pending_zero. intros i Hir Hd. apply dec_stable. intros Hni.
    unfold edges_left in He. rewrite sum_list_with_zero in He. specialize (He i Hir).
    rewrite bool_decide_false in He by done. apply nil_length_inv in He.
    assert (Hs : j ∈ succs i) by (by apply elem_of_succs). rewrite He in Hs.
    by apply elem_of_nil in Hs. }
  rewrite E. split; [|by apply k_order].
  apply NoDup_Permutation; [apply Hst|apply NoDup_seqZ|].
  intros j. split; [apply Hst|apply Hall].
Qed.

(** Without a cycle no edge survives the first pass. *)
Lemma kahn_acyclic st (rank : Z -> nat) :
  kahn st -> in_idx st = length (ts_in st) ->
  (forall i j, i ∈ range -> j ∈ range -> dep i j = true -> (rank i < rank j)%nat) ->
  n_edge st = 0.
Proof.
  intros Hst Hi Hr. assert (E : ts_sorted st = ts_in st).
  { unfold ts_sorted. by rewrite Hi, firstn_all. }
  assert (Hall : forall m j, rank j = m -> j ∈ range -> j ∈ ts_in st).
  { induction m as [m IH] using lt_wf_ind. intros j Hm Hj. apply (k_zero st Hst j Hj).
    rewrite (k_count st Hst j Hj). apply (inj_eq _ 0), pending_zero. intros i Hir Hd.
    rewrite E. eapply IH; [|done|done]. rewrite <- Hm. by apply Hr. }
  rewrite (k_edges st Hst). apply (inj_eq _ 0). apply sum_list_with_zero. intros i Hir.
  rewrite E, bool_decide_true; [done|]. by eapply Hall.
Qed.

(** A broken dependency leaves a copy behind. *)
Lemma try_edges_copy c j ks st b st' :
  try_edges slot c j ks st = (b, st') ->
  (length (ts_copy st) <= length (ts_copy st'))%nat /\ (b = true -> ts_copy st' <> []).
Proof.
  revert j st. induction ks as [|k ks IH]; intros j st; cbn [try_edges]; [by intros [= <- <-]|].
  unfold break_dependency. destruct (truthy _); [apply IH|]. destruct (_ <? _); [apply IH|].
  destruct (break_scan _ _ _) as [[|cp cps]|]; [apply IH| |apply IH].
  destruct (_ =? 0).
  - intros [= <- <-]. cbn [ts_copy]. rewrite length_app. split; [lia|]. intros _ Hn'.
    by destruct (ts_copy st).
  - intros H. apply IH in H as [H1 H2]. cbn [ts_copy] in H1. rewrite length_app in H1.
    split; [lia|done].
Qed.

Lemma break_nodes_copy cs st b st' :
  break_nodes slot cs st = (b, st') ->
  (length (ts_copy st) <= length (ts_copy st'))%nat /\ (b = true -> ts_copy st' <> []).
Proof.
  revert st. induction cs as [|c cs IH]; intros st; cbn [break_nodes]; [by intros [= <- <-]|].
  destruct (truthy _); [|apply IH].
  destruct (try_edges slot c 0 (out_edge st c) st) as [[] st1] eqn:E; apply try_edges_copy in E as [E1 E2].
  - intros [= <- <-]. split; [done|by intros _; apply E2].
  - intros H. apply IH in H as [H1 H2]. split; [lia|done].
Qed.

Lemma again_copy fuel st b st' :
  again slot n fuel st = TsDone b st' -> (length (ts_copy st) <= length (ts_copy st'))%nat.
Proof.
  revert st. induction fuel as [|fuel IH]; intros st; cbn [again]; [done|].
  destruct (drain drain_fuel st) as [bd st1| |] eqn:Ed; try done.
  apply drain_frame in Ed as (_ & _ & Ec).
  destruct (n_edge st1 =? 0); [intros [= _ <-]; rewrite Ec; lia|].
  destruct (break_nodes _ _ st1) as [[] st2] eqn:Eb; apply break_nodes_copy in Eb as [E1 _].
  - intros H. apply IH in H. rewrite <- Ec. lia.
  - intros [= _ <-]. rewrite <- Ec. lia.
Qed.

Lemma again_fuel fuel st :
  0 <= node_idx st -> (total_out n st < fuel)%nat -> again slot n fuel st <> TsFuel.
Proof.
  revert st. induction fuel as [|fuel IH]; intros st Hx Hf; cbn [again]; [lia|].
  destruct (drain drain_fuel st) as [bd st1| |] eqn:Ed; try done.
  2: { by apply drain_returns in Ed; [|lia]. }
  apply drain_frame in Ed as (Eo & Ex & _). destruct (n_edge st1 =? 0); [done|].
  destruct (break_nodes _ _ st1) as [[] st2] eqn:Eb; [|done].
  assert (Hcs : forall c, c ∈ seqZ (node_idx st1) (n - node_idx st1) -> c ∈ range).
  { intros c. rewrite !elem_of_seqZ. lia. }
  apply IH; [pose proof (break_nodes_idx _ _ _ _ Eb) as Hc; apply Hcs, elem_of_seqZ in Hc; lia|].
  pose proof (break_nodes_decr slot n _ _ _ Eb Hcs). unfold total_out in *. rewrite Eo in *. lia.
Qed.
End Kahn.

(** ** The work list *)

Section Safety.
Context (slot : Z -> slot_prop) (n : Z) (Hn : 0 <= n <= 32).
Abbreviation range := (seqZ 0 n).

(** After at most [D] decrements of counters: the work list holds slots of the bundle,
    each at most once; a slot outside it still has a positive counter, and the counter of
    one inside was decremented at most [D] times after it reached zero. *)
Record safe (D : Z) (st : tsstate) : Prop := {
  s_steps : 0 <= D;
  s_nodup : NoDup (ts_in st);
  s_range : forall j, j ∈ ts_in st -> j ∈ range;
  s_out : forall i j, j ∈ out_edge st i -> j ∈ range;
  s_length : forall i, (length (out_edge st i) <= 32)%nat;
  s_open : forall j, j ∈ range -> j ∉ ts_in st -> 0 < n_in_edge st j < 2 ^ 32;
  s_done : forall j, j ∈ ts_in st -> exists k, 0 <= k <= D /\ n_in_edge st j = u32 (- k)
}.

Lemma safe_mono D D' st : D <= D' -> safe D st -> safe D' st.
Proof.
  intros HD [? ? ? ? ? ? Hd]. split; try done; [lia|]. intros j Hj. destruct (Hd j Hj) as (k & Hk & E). exists k. split; [lia|done].
Qed.

(** Decrementing a counter, and appending the slot when it reaches zero. *)
Lemma safe_decrement D st k c out idx e ni cp :
  safe D st -> D + 1 < 2 ^ 32 -> k ∈ range -> c = u32 (n_in_edge st k - 1) ->
  (forall i j, j ∈ out i -> j ∈ range) -> (forall i, (length (out i) <= 32)%nat) ->
  safe (D + 1) (mkTs (fupd (n_in_edge st) k c) out (if c =? 0 then ts_in st ++ [k] else ts_in st) idx e ni cp).
Proof.
  intros Hst HD Hk -> Ho Hol. destruct (decide (k ∈ ts_in st)) as [Hin|Hout].
  - destruct (s_done D st Hst k Hin) as (m & Hm & E).
    assert (Hc : u32 (n_in_edge st k - 1) = u32 (- (m + 1))) by (rewrite E, u32_sub_l; f_equal; lia).
    assert (H0 : (u32 (n_in_edge st k - 1) =? 0) = false).
    { rewrite Hc. apply Z.eqb_neq. unfold u32. rewrite Z_mod_nz_opp_full; rewrite (Z.mod_small (m + 1)); lia. }
    rewrite H0. apply (safe_mono D (D + 1)) in Hst as [? ? ? ? ? Hopen Hdone]; [|lia]. split; cbn; try done.
    + intros j Hj Hnj. rewrite fupd_ne by (intros ->; done). by apply Hopen.
    + intros j Hj. destruct (decide (j = k)) as [->|]; [rewrite fupd_eq; exists (m + 1); split; [lia|done]|].
      rewrite fupd_ne by done. by apply Hdone.
  - pose proof (s_open D st Hst k Hk Hout) as Hpos.
    rewrite u32_small by (unfold in32; lia). apply (safe_mono D (D + 1)) in Hst as [? Hnd Hr ? ? Hopen Hdone]; [|lia].
    destruct (Z.eqb_spec (n_in_edge st k - 1) 0) as [E|E]; (split; cbn; try done).
    + apply NoDup_app. split; [done|]. split; [|apply NoDup_singleton]. intros j Hj ->%list_elem_of_singleton. done.
    + intros j [Hj| ->%list_elem_of_singleton]%elem_of_app; [by apply Hr|done].
    + intros j Hj Hnj. rewrite elem_of_app, list_elem_of_singleton in Hnj. rewrite fupd_ne by tauto. apply Hopen; tauto.
    + intros j [Hj| ->%list_elem_of_singleton]%elem_of_app.
      * rewrite fupd_ne by (intros ->; done). by apply Hdone.
      * rewrite fupd_eq, E. exists 0. split; [lia|done].
    + intros j Hj Hnj. destruct (decide (j = k)) as [->|]; [rewrite fupd_eq; lia|]. rewrite fupd_ne by done. by apply Hopen.
    + intros j Hj. rewrite fupd_ne by (intros ->; done). by apply Hdone.
Qed.

Lemma safe_length D st : safe D st -> Z.of_nat (length (ts_in st)) <= 32.
Proof.
  intros Hst. assert (H : (length (ts_in st) <= length range)%nat).
  { apply submseteq_length, NoDup_submseteq; [apply Hst|]. apply Hst. }
  rewrite length_seqZ in H. lia.
Qed.

Lemma safe_visit D ks st :
  safe D st -> D + Z.of_nat (length ks) < 2 ^ 32 -> (forall k, k ∈ ks -> k ∈ range) ->
  safe (D + Z.of_nat (length ks)) (foldl visit_edge st ks).
Proof.
  revert D st. induction ks as [|k ks IH]; intros D st Hst HD Hks; [by rewrite Z.add_0_r|].
  cbn [foldl length] in *. replace (D + Z.of_nat (Datatypes.S (length ks))) with (D + 1 + Z.of_nat (length ks)) in * by lia.
  apply IH; [|done|intros; apply Hks; by right]. unfold visit_edge.
  apply safe_decrement; [done|lia|apply Hks; by left|done|apply Hst|apply Hst].
Qed.

Lemma safe_drain f D st :
  safe D st -> D + 32 * Z.of_nat f < 2 ^ 32 ->
  match drain f st with
  | TsDone _ st' => safe (D + 32 * Z.of_nat f) st' | TsOverrun => False | TsFuel => True end.
Proof.
  revert D st. induction f as [|f IH]; intros D st Hst HD; cbn [drain]; [done|].
  pose proof (safe_length D st Hst) as Hl. unfold MAX_INSN_SLOTS. rewrite (proj2 (Z.ltb_ge _ _)) by done.
  destruct (ts_in st !! in_idx st) as [i|]; [|eapply safe_mono; [|done]; lia].
  pose proof (s_length D st Hst i) as Hi.
  assert (H : safe (D + 32) (output_node st i)).
  { eapply (safe_mono (D + Z.of_nat (length (out_edge st i)))); [lia|]. unfold output_node.
    apply safe_visit; [|lia|apply Hst]. by destruct Hst. }
  specialize (IH (D + 32) (output_node st i) H ltac:(lia)).
  destruct (drain f (output_node st i)); [|done|done]. eapply safe_mono; [|done]. lia.
Qed.

Lemma safe_try c j ks D st :
  safe D st -> D + Z.of_nat (length ks) < 2 ^ 32 -> (forall k, k ∈ ks -> k ∈ range) ->
  safe (D + Z.of_nat (length ks)) (try_edges slot c j ks st).2.
Proof.
  revert j D st. induction ks as [|k ks IH]; intros j D st Hst HD Hks; [by rewrite Z.add_0_r|].
  cbn [try_edges length] in *. replace (D + Z.of_nat (Datatypes.S (length ks))) with (D + 1 + Z.of_nat (length ks)) in * by lia.
  assert (Hks' : forall k', k' ∈ ks -> k' ∈ range) by (intros; apply Hks; by right).
  destruct (break_dependency _ _ _ _) as [[] copy].
  2: { apply IH; [eapply safe_mono; [|done]; lia|done|done]. }
  set (c0 := u32 (n_in_edge st k - 1)). pose proof (fun out => safe_decrement D st k c0 out) as Hdec.
  destruct (c0 =? 0) eqn:E.
  - cbn [snd]. eapply (safe_mono (D + 1)); [lia|].
    apply Hdec; [done|lia|apply Hks; by left|done|..].
    + intros i j'. unfold fupd. destruct (i =? c); [|apply Hst]. intros [j'' Hj'']%list_elem_of_lookup.
      apply lookup_take_Some in Hj'' as [Hj'' _]. apply list_lookup_insert_Some in Hj'' as [(_ & <- & Hlt)|[_ Hj'']].
      * apply (s_out D st Hst c). destruct (out_edge st c) as [|x l] eqn:El using rev_ind; [cbn in Hlt; lia|].
        rewrite List.last_last. apply elem_of_app. right. by left.
      * apply (s_out D st Hst c). by eapply list_elem_of_lookup_2.
    + intros i. unfold fupd. destruct (i =? c); [|apply Hst].
      rewrite length_take, length_insert. pose proof (s_length D st Hst c). lia.
  - apply IH; [|done|done]. apply Hdec; [done|lia|apply Hks; by left|done|apply Hst|apply Hst].
Qed.

Lemma safe_break cs D st :
  safe D st -> D + 32 * Z.of_nat (length cs) < 2 ^ 32 -> safe (D + 32 * Z.of_nat (length cs)) (break_nodes slot cs st).2.
Proof.
  revert D st. induction cs as [|c cs IH]; intros D st Hst HD; [by rewrite Z.add_0_r|].
  cbn [break_nodes length] in *.
  replace (D + 32 * Z.of_nat (Datatypes.S (length cs))) with (D + 32 + 32 * Z.of_nat (length cs)) in * by lia.
  destruct (truthy _); [|apply IH; [eapply safe_mono; [|done]; lia|done]].
  pose proof (s_length D st Hst c) as Hl.
  pose proof (safe_try c 0 (out_edge st c) D st Hst ltac:(lia) (s_out D st Hst c)) as Ht.
  destruct (try_edges slot c 0 (out_edge st c) st) as [[] st1]; cbn [snd] in *.
  - eapply safe_mono; [|done]. lia.
  - apply IH; [eapply safe_mono; [|done]; lia|done].
Qed.

(** A round decrements at most 34 * 32 counters while it drains the list and 32 * 32 while it
    looks for an edge to break. *)
Lemma safe_again fuel D st :
  safe D st -> 0 <= node_idx st -> D + 2112 * Z.of_nat fuel < 2 ^ 32 ->
  match again slot n fuel st with
  | TsDone _ st' => safe (D + 2112 * Z.of_nat fuel) st' | TsOverrun => False | TsFuel => True end.
Proof.
  revert D st. induction fuel as [|f IH]; intros D st Hst Hx HD; cbn [again]; [done|].
  pose proof (safe_drain drain_fuel D st Hst) as Hd. unfold drain_fuel in Hd.
  specialize (Hd ltac:(lia)).
  destruct (drain 34 st) as [bd st1| |] eqn:Ed; [|done|unfold drain_fuel; by rewrite Ed].
  unfold drain_fuel. rewrite Ed. apply drain_frame in Ed as (_ & Ex & _).
  destruct (n_edge st1 =? 0); [eapply safe_mono; [|done]; lia|].
  set (cs := seqZ (node_idx st1) (n - node_idx st1)).
  assert (Hcs : Z.of_nat (length cs) <= 32) by (unfold cs; rewrite length_seqZ; lia).
  pose proof (safe_break cs _ st1 Hd ltac:(lia)) as Hb.
  destruct (break_nodes slot cs st1) as [[] st2] eqn:Eb; cbn [snd] in Hb.
  - assert (H2 : safe (D + 2112) st2) by (eapply safe_mono; [|done]; lia).
    assert (Hx2 : 0 <= node_idx st2).
    { pose proof (break_nodes_idx _ _ _ _ Eb) as Hc. apply elem_of_seqZ in Hc. lia. }
    specialize (IH (D + 2112) st2 H2 Hx2 ltac:(lia)).
    destruct (again slot n f st2); [|done|done]. eapply safe_mono; [|done]. lia.
  - eapply safe_mono; [|done]. lia.
Qed.

Lemma safe_start : safe 0 (start_nodes n (build_edges slot n)).
Proof.
  pose proof (kahn_start slot n Hn) as Hk. destruct (build_counters32 slot n) as [Hc _].
  assert (Ho : forall i, out_edge (build_edges slot n) i = if bool_decide (i ∈ range) then succs slot n i else []).
  { intros i. destruct (build_loop_spec slot n range ts_empty (NoDup_seqZ 0 n)) as (Ho & _). unfold build_edges. by rewrite Ho. }
  split; [done|apply Hk|apply Hk| | | |].
  - intros i j. cbn [start_nodes out_edge]. rewrite Ho. case_bool_decide; [|by intros []%not_elem_of_nil].
    rewrite elem_of_succs by done. tauto.
  - intros i. cbn [start_nodes out_edge]. rewrite Ho. case_bool_decide; [|cbn; lia]. pose proof (succs_length slot n i). lia.
  - intros j Hj Hnj. rewrite (k_zero _ _ _ Hk j Hj) in Hnj. pose proof (Hc j) as H. unfold in32 in H. cbn in *. lia.
  - intros j Hj. exists 0. split; [lia|]. apply (k_zero _ _ _ Hk j); [by apply Hk|done].
Qed.
End Safety.



(** C24: If no slot depends on itself through other slots, the bundle is
    ordered in one pass: [tsort] succeeds, outputs every slot exactly once,
    each after all slots it must follow, and makes no register copies. *)
Theorem tsort_acyclic (slot : Z -> slot_prop) (n : Z) (rank : Z -> nat) :
  0 <= n <= MAX_INSN_SLOTS ->
  (forall i j, i ∈ seqZ 0 n -> j ∈ seqZ 0 n -> dep slot i j = true -> (rank i < rank j)%nat) ->
  exists st, tsort slot n = TsDone true st /\ slot_order slot n (ts_sorted st) /\ ts_copy st = [].
Proof.
  intros Hn Hr. destruct (first_pass slot n Hn) as (st & Hd & Hk & Hi & Hc).
  pose proof (kahn_acyclic slot n Hn st rank Hk Hi Hr) as He.
  exists st. split_and!; [|by apply kahn_complete|done].
  unfold tsort. cbn [again]. rewrite Hd, He. done.
Qed.

(** A successful order without copies is a dependency order. *)
Lemma tsort_no_copy (slot : Z -> slot_prop) (n : Z) st :
  0 <= n <= MAX_INSN_SLOTS -> tsort slot n = TsDone true st -> ts_copy st = [] ->
  slot_order slot n (ts_sorted st).
Proof.
  intros Hn H Hc. destruct (first_pass slot n Hn) as (st1 & Hd & Hk & Hi & _).
  unfold tsort in H. cbn [again] in H. rewrite Hd in H.
  destruct (Z.eqb_spec (n_edge st1) 0) as [He|_].
  - injection H as <-. by apply kahn_complete.
  - destruct (break_nodes _ _ st1) as [[] st2] eqn:Eb; [|done].
    apply break_nodes_copy in Eb as [_ Eb]. apply again_copy in H. rewrite Hc in H.
    destruct (ts_copy st2); [by destruct Eb|cbn in H; lia].
Qed.

(** ** Sequential execution of a bundle

    [exec i rho r] is what slot [i], run on the register values [rho], writes
    to resource [r]; it may depend only on the resources the slot reads and
    touch only those it writes.  In the architecture all slots read [rho]. *)

Section Bundle.
Context (slot : Z -> slot_prop) (n : Z) (exec : Z -> (Z -> Z) -> Z -> option Z).

Definition reads (i r : Z) : Prop := exists a, a ∈ sp_in (slot i) /\ resource a = r.
Definition writes (i r : Z) : Prop := exists a, a ∈ sp_out (slot i) /\ resource a = r.

Definition exec_local : Prop :=
  (forall i rho rho', (forall r, reads i r -> rho r = rho' r) ->
     forall r, exec i rho r = exec i rho' r) /\
  (forall i rho r v, exec i rho r = Some v -> writes i r).

Definition single_writer : Prop :=
  forall i j r, i ∈ seqZ 0 n -> j ∈ seqZ 0 n -> writes i r -> writes j r -> i = j.

(** The architecture: every slot computes from the old values. *)
Definition parallel_result (rho rho' : Z -> Z) : Prop :=
  forall r,
    (forall i v, i ∈ seqZ 0 n -> exec i rho r = Some v -> rho' r = v) /\
    ((forall i, i ∈ seqZ 0 n -> exec i rho r = None) -> rho' r = rho r).

(** The emitted code: one slot after the other. *)
Definition run_slot (rho : Z -> Z) (i : Z) : Z -> Z :=
  fun r => default (rho r) (exec i rho r).
Definition run_slots (order : list Z) (rho : Z -> Z) : Z -> Z := foldl run_slot rho order.

Context (Hloc : exec_local) (Hone : single_writer).
Context (Hsorted : forall i, i ∈ seqZ 0 n -> slot_sorted (slot i)).

(** In a dependency order no earlier slot writes what a later one reads. *)
Lemma order_keeps_inputs order l1 i l2 k r :
  slot_order slot n order -> order = l1 ++ i :: l2 -> k ∈ l1 -> reads i r -> ~ writes k r.
Proof.
  intros [Hp Ho] E Hk (ai & Hai & Ei) (ak & Hak & Ek).
  assert (Hnd : NoDup order) by (rewrite Hp; apply NoDup_seqZ).
  assert (Hir : i ∈ seqZ 0 n) by (rewrite <- Hp, E; apply elem_of_app; right; by left).
  assert (Hkr : k ∈ seqZ 0 n) by (rewrite <- Hp, E; apply elem_of_app; by left).
  rewrite E in Hnd. apply NoDup_app in Hnd as (_ & Hdisj & _).
  assert (Hne : i <> k) by (intros ->; apply (Hdisj k Hk); by left).
  assert (Hd : dep slot i k = true).
  { unfold dep. rewrite (proj2 (Z.eqb_neq i k) Hne). cbn.
    apply op_depends_on_iff; [by apply Hsorted..|]. right; right. exists ak, ai.
    split_and!; [done..|lia]. }
  apply list_elem_of_lookup in Hk as [p Hp'].
  assert (Hop : order !! p = Some k) by (rewrite E; by apply lookup_app_l_Some).
  specialize (Ho p k Hop i Hir Hd). rewrite E, take_app_le in Ho
    by (apply lookup_lt_Some in Hp'; lia).
  apply (Hdisj i); [|by left]. apply list_elem_of_lookup in Ho as [m Hm].
  apply lookup_take_Some in Hm as [Hm _]. by eapply list_elem_of_lookup_2.
Qed.

Lemma run_slots_prefix order rho l1 l2 :
  slot_order slot n order -> order = l1 ++ l2 ->
  forall r,
    (forall i v, i ∈ l1 -> exec i rho r = Some v -> run_slots l1 rho r = v) /\
    ((forall i, i ∈ l1 -> exec i rho r = None) -> run_slots l1 rho r = rho r).
Proof.
  intros Hord. revert l2. induction l1 as [|i l1 IH] using rev_ind; intros l2 E r.
  { split; [intros i v Hi; by apply elem_of_nil in Hi|done]. }
  rewrite <- app_assoc in E. cbn in E. specialize (IH _ E).
  assert (Hx : forall r, exec i (run_slots l1 rho) r = exec i rho r).
  { intros r'. apply Hloc. intros r0 Hr0. apply IH. intros k Hk.
    destruct (exec k rho r0) eqn:Ex; [|done]. exfalso.
    eapply (order_keeps_inputs order l1 i l2 k r0); try done. by eapply Hloc. }
  assert (Hin : forall k, k ∈ l1 ++ [i] -> k ∈ seqZ 0 n).
  { intros k Hk. destruct Hord as [<- _]. rewrite E. rewrite elem_of_app, elem_of_cons.
    rewrite elem_of_app, list_elem_of_singleton in Hk. tauto. }
  assert (Hi : i ∈ l1 ++ [i]) by (apply elem_of_app; right; by left).
  unfold run_slots in *. rewrite foldl_snoc. unfold run_slot at 1 3. rewrite Hx.
  destruct (IH r) as [IH1 IH2]. split.
  - intros k v Hk Hv. destruct (exec i rho r) as [w|] eqn:Ew; cbn.
    + assert (k = i) as ->; [|congruence]. apply (Hone k i r); auto; by eapply Hloc.
    + apply elem_of_app in Hk as [Hk|Hk]; [by eapply IH1|].
      apply list_elem_of_singleton in Hk as ->. congruence.
  - intros Hnone. rewrite (Hnone i Hi). cbn. apply IH2. intros k Hk. apply Hnone.
    apply elem_of_app. by left.
Qed.
End Bundle.

(** C4: Emitting the slots one after the other in an order [tsort] found
    without copies computes what the bundle means: every slot sees the register
    values from before the bundle, although earlier slots have already written
    their results.  The slots may compute anything that depends only on the
    resources they declare as inputs, and no two write the same resource. *)
Theorem bundle_sequential (slot : Z -> slot_prop) (n : Z)
    (exec : Z -> (Z -> Z) -> Z -> option Z) (rho : Z -> Z) (st : tsstate) :
  0 <= n <= MAX_INSN_SLOTS -> exec_local slot exec -> single_writer slot n ->
  (forall i, i ∈ seqZ 0 n -> slot_sorted (slot i)) ->
  tsort slot n = TsDone true st -> ts_copy st = [] ->
  parallel_result n exec rho (run_slots exec (ts_sorted st) rho).
Proof.
  intros Hn Hloc Hone Hs Ht Hc. pose proof (tsort_no_copy slot n st Hn Ht Hc) as Hord.
  intros r. destruct (run_slots_prefix slot n exec Hloc Hone Hs (ts_sorted st) rho (ts_sorted st) []
    Hord ltac:(by rewrite app_nil_r) r) as [H1 H2]. destruct Hord as [Hp _].
  split; [intros i v Hi; apply H1; by rewrite Hp|].
  intros Hnone. apply H2. intros i Hi. apply Hnone. by rewrite <- Hp.
Qed.

(** Slot 0 overwrites register 2, which slot 1 reads: slot 1 goes first. *)
Definition two_slots (i : Z) : slot_prop :=
  if i =? 0 then mkSlotProp [mkInfo 1 0] [mkInfo 2 1] 0
  else mkSlotProp [mkInfo 2 0] [mkInfo 3 1] 0.
Definition two_exec (i : Z) (rho : Z -> Z) (r : Z) : option Z :=
  if i =? 0 then if r =? 2 then Some (rho 1 + 1) else None
  else if r =? 3 then Some (2 * rho 2) else None.
Definition two_rho (r : Z) : Z := 10 * r.

Lemma two_slots_sorted i : slot_sorted (two_slots i).
Proof.
  unfold two_slots. destruct (i =? 0); split; repeat constructor.
Qed.

Lemma two_exec_local : exec_local two_slots two_exec.
Proof.
  split.
  - intros i rho rho' H r. unfold two_exec. specialize (H (if i =? 0 then 1 else 2)).
    unfold reads, two_slots in H. destruct (i =? 0); rewrite H; try done;
      eexists; (split; [by left|done]).
  - intros i rho r v. unfold two_exec, writes, two_slots.
    destruct (i =? 0); destruct (_ =? _) eqn:E; try done; apply Z.eqb_eq in E as ->;
      intros _; eexists; (split; [by left|done]).
Qed.

Lemma two_single_writer : single_writer two_slots 2.
Proof.
  intros i j r Hi Hj (a & Ha & Ea) (b & Hb & Eb). apply elem_of_seqZ in Hi, Hj.
  unfold two_slots in *. destruct (Z.eqb_spec i 0), (Z.eqb_spec j 0); try lia;
    cbn in Ha, Hb; apply list_elem_of_singleton in Ha as ->, Hb as ->; cbn in *; lia.
Qed.

Definition two_order : tsstate :=
  match tsort two_slots 2 with TsDone _ st => st | _ => ts_empty end.

Lemma bundle_sequential_witness :
  ts_sorted two_order = [1; 0] /\
  parallel_result 2 two_exec two_rho (run_slots two_exec (ts_sorted two_order) two_rho).
Proof.
  split; [reflexivity|]. apply (bundle_sequential two_slots).
  - unfold MAX_INSN_SLOTS. lia.
  - apply two_exec_local.
  - apply two_single_writer.
  - intros. apply two_slots_sorted.
  - unfold two_order. destruct (tsort two_slots 2) as [[] st| |] eqn:E;
      [done|vm_compute in E; discriminate..].
  - reflexivity.
Defined.

Lemma tsort_acyclic_witness :
  exists st, tsort two_slots 2 = TsDone true st /\ slot_order two_slots 2 (ts_sorted st) /\
    ts_copy st = [].
Proof.
  apply (tsort_acyclic two_slots 2 (fun i => if i =? 0 then 1%nat else 0%nat)).
  - unfold MAX_INSN_SLOTS. lia.
  - intros i j Hi Hj. apply elem_of_seqZ in Hi, Hj. unfold dep, two_slots.
    destruct (Z.eqb_spec i 0), (Z.eqb_spec j 0), (Z.eqb_spec i j); try lia; try done;
      try (intros H; vm_compute in H; discriminate); intros; lia.
Defined.

(** *** A cycle broken in the wrong place

    While it looks for an edge whose removal frees a node, [tsort] decrements
    the counter of every target it can break, but only the last edge is
    removed.  A later search decrements for the same edge again and releases
    the target before one of its other predecessors.  Slots 0 and 1, and 1 and
    3, destroy each other's inputs; slot 2 destroys an input of slot 0. *)
Definition crossed_slots (i : Z) : slot_prop :=
  if i =? 0 then mkSlotProp [mkInfo 10 0; mkInfo 12 1] [mkInfo 13 2] 0
  else if i =? 1 then mkSlotProp [mkInfo 13 0; mkInfo 14 1] [mkInfo 10 2; mkInfo 11 3] 0
  else if i =? 2 then mkSlotProp [] [mkInfo 12 0] 0
  else mkSlotProp [mkInfo 11 0] [mkInfo 14 1] 0.

(** [tsort] reports success, slot 1 is emitted before slot 3, whose input it
    overwrites, and all copies are operands of slot 0. *)
Lemma tsort_clobbers_input :
  exists st, tsort crossed_slots 4 = TsDone true st /\ ts_sorted st = [2; 1; 0; 3] /\
    Forall (fun c => copy_slot c = 0) (ts_copy st) /\
    writes crossed_slots 1 11 /\ reads crossed_slots 3 11.
Proof.
  destruct (tsort crossed_slots 4) as [b st| |] eqn:E; [|vm_compute in E; discriminate..].
  exists st. assert (Eb : match tsort crossed_slots 4 with
    | TsDone b st => b = true /\ ts_sorted st = [2; 1; 0; 3] /\
        Forall (fun c => copy_slot c = 0) (ts_copy st)
    | _ => False end) by (vm_compute; split_and!; [done|done|repeat constructor]).
  rewrite E in Eb. destruct Eb as (-> & ? & ?). split_and!; try done.
  - exists (mkInfo 11 3). split; [right; by left|done].
  - exists (mkInfo 11 0). split; [by left|done].
Qed.

(** *** A bundle that loses slots

    The counter of a slot that was released too early falls below zero when its other
    predecessors are output, so a later search takes the edges of that slot, which has
    been output, for pending ones and counts one of them down again.  The total then
    reaches zero early.  Slot [i] reads and slot [j] writes the resource of each pair
    [(i, j)]: the pairs of [copyable] are registers, the others state. *)
Definition copyable : list (Z * Z) := [(3, 6); (4, 6); (6, 2); (6, 4)].
Definition fixed : list (Z * Z) := [(0, 1); (1, 0); (4, 2); (4, 5); (5, 4); (6, 3)].
Definition lossy_slots (i : Z) : slot_prop :=
  let res p := p.1 * 10 + p.2 in
  let info f := (fun p => mkInfo (res p) 0) <$> filter (fun p => f p = i) copyable in
  let state f := (fun p => mkInfo (0x1000000 + res p) (-1)) <$> filter (fun p => f p = i) fixed in
  mkSlotProp (info fst ++ state fst) (info snd ++ state snd) 0.

(** [tsort] reports success, but slots 0 and 1, whose mutual dependency cannot be
    broken, are not in the order. *)
Lemma tsort_loses_slots :
  exists st, tsort lossy_slots 7 = TsDone true st /\ ts_sorted st = [6; 3; 2; 4; 5] /\
    dep lossy_slots 0 1 = true /\ dep lossy_slots 1 0 = true.
Proof.
  assert (E : match tsort lossy_slots 7 with
    | TsDone b st => b = true /\ ts_sorted st = [6; 3; 2; 4; 5] | _ => False end) by (vm_compute; by split).
  destruct (tsort lossy_slots 7) as [b st| |]; [|done|done]. destruct E as [-> E].
  exists st. split_and!; [done|done|by vm_compute|by vm_compute].
Qed.
