(* ===== verification/Lanes.v ===== *)
(** * Lanes of wide registers

    The vector unit keeps its registers in unions of arrays of 8, 16, 32 and
    64-bit integers.  A register is one number; element [i] of the array of
    [w]-bit elements is its [i]-th group of [w] bits (the emulator's unions and
    byte pointers assume a little-endian host).  [lane] and [slane] read an
    element as an unsigned and a signed integer, [set_lane] writes one. *)

From S2P Require Import Prelude Cpu Arith.

Definition lane (w i q : Z) : Z := (q >>> (w * i)) mod 2 ^ w.
Definition slane (w i q : Z) : Z := sext w (lane w i q).
Definition set_lane (w i v q : Z) : Z :=
  Z.ldiff q (Z.shiftl (Z.ones w) (w * i)) ||| Z.shiftl (v mod 2 ^ w) (w * i).

(** ** Bits *)

Lemma lane_testbit w i q k :
  0 <= w -> 0 <= i -> 0 <= k ->
  Z.testbit (lane w i q) k = (k <? w) && Z.testbit q (w * i + k).
Proof.
  intros. unfold lane. rewrite mod_pow2_testbit, Z.shiftr_spec by lia. f_equal. f_equal. lia.
Qed.

Lemma set_lane_testbit w i v q k :
  0 <= w -> 0 <= i -> 0 <= k ->
  Z.testbit (set_lane w i v q) k =
    if (w * i <=? k) && (k <? w * i + w) then Z.testbit v (k - w * i) else Z.testbit q k.
Proof.
  intros. unfold set_lane. rewrite Z.lor_spec, Z.ldiff_spec, !Z.shiftl_spec by lia.
  destruct (Z.leb_spec (w * i) k); cbn [andb].
  - rewrite mod_pow2_testbit, Z.testbit_ones_nonneg by lia.
    destruct (Z.ltb_spec k (w * i + w)), (Z.ltb_spec (k - w * i) w); try lia; cbn;
      by rewrite ?andb_false_r, ?andb_true_r, ?orb_false_r.
  - rewrite !(Z.testbit_neg_r _ (k - w * i)) by lia. by rewrite andb_true_r, orb_false_r.
Qed.

#[export] Hint Rewrite lane_testbit set_lane_testbit using lia : bits.

Lemma lane_set_lane_eq w i v q :
  0 <= w -> 0 <= i -> lane w i (set_lane w i v q) = v mod 2 ^ w.
Proof.
  intros. zbits. rewrite mod_pow2_testbit, ?set_lane_testbit by nia.
  destruct (Z.ltb_spec i0 w); cbn [andb]; [|done].
  destruct (Z.leb_spec (w * i) (w * i + i0)), (Z.ltb_spec (w * i + i0) (w * i + w)); try lia.
  cbn. f_equal. lia.
Qed.

Lemma lane_set_lane_ne w i j v q :
  0 <= w -> 0 <= i -> 0 <= j -> i <> j -> lane w j (set_lane w i v q) = lane w j q.
Proof.
  intros. zbits. rewrite ?set_lane_testbit by nia. destruct (Z.ltb_spec i0 w); cbn [andb]; [|done].
  destruct (Z.leb_spec (w * i) (w * j + i0)), (Z.ltb_spec (w * j + i0) (w * i + w)); cbn; try done.
  exfalso. nia.
Qed.

Lemma lane_range w i q : 0 <= w -> 0 <= lane w i q < 2 ^ w.
Proof. intros. unfold lane. apply Z.mod_pos_bound. apply Z.pow_pos_nonneg; lia. Qed.

Lemma lane_mod w i q : 0 <= w -> lane w i q mod 2 ^ w = lane w i q.
Proof. intros. apply Z.mod_small, lane_range; lia. Qed.

Lemma slane_range w i q : 1 <= w -> - 2 ^ (w - 1) <= slane w i q < 2 ^ (w - 1).
Proof. intros. by apply sext_range. Qed.

Lemma slane_set_lane_eq w i v q :
  1 <= w -> 0 <= i -> slane w i (set_lane w i v q) = sext w v.
Proof.
  intros. unfold slane. rewrite lane_set_lane_eq by lia. apply sext_congr. apply Z.mod_mod.
  pose proof (Z.pow_pos_nonneg 2 w). lia.
Qed.

Lemma slane_set_lane_ne w i j v q :
  0 <= w -> 0 <= i -> 0 <= j -> i <> j -> slane w j (set_lane w i v q) = slane w j q.
Proof. intros. unfold slane. by rewrite lane_set_lane_ne. Qed.

Lemma slane_mod w i q : 1 <= w -> slane w i q mod 2 ^ w = lane w i q.
Proof. intros. unfold slane. rewrite sext_mod by lia. apply lane_mod. lia. Qed.

Lemma sext_small w v : 1 <= w -> - 2 ^ (w - 1) <= v < 2 ^ (w - 1) -> sext w v = v.
Proof. intros. by apply sext_unique. Qed.

Lemma lane_full w q : 0 <= w -> 0 <= q < 2 ^ w -> lane w 0 q = q.
Proof. intros. unfold lane. rewrite Z.mul_0_r, Z.shiftr_0_r. by apply Z.mod_small. Qed.

(** A write keeps a register within its width. *)
Lemma set_lane_range n w i v q :
  0 <= w -> 0 <= i -> w * i + w <= n -> 0 <= q < 2 ^ n -> 0 <= set_lane w i v q < 2 ^ n.
Proof.
  intros Hw Hi Hn Hq. assert (0 <= n) by nia. assert (0 < 2 ^ w) by (apply Z.pow_pos_nonneg; lia).
  assert (0 <= set_lane w i v q).
  { unfold set_lane. apply Z.lor_nonneg. split; [apply Z.ldiff_nonneg; lia|].
    apply Z.shiftl_nonneg. apply Z.mod_pos_bound. lia. }
  split; [done|]. apply bounded_by_testbit; [done|done|].
  intros k Hk. rewrite set_lane_testbit by lia.
  rewrite (proj2 (Z.ltb_ge k (w * i + w))) by lia. rewrite andb_false_r. by apply (testbit_above n).
Qed.

(** A register is determined by its lanes. *)
Lemma lane_ext n w q q' :
  0 < w -> 0 <= q < 2 ^ (w * n) -> 0 <= q' < 2 ^ (w * n) ->
  (forall i, 0 <= i < n -> lane w i q = lane w i q') -> q = q'.
Proof.
  intros Hw Hq Hq' H. apply Z.bits_inj'. intros k Hk. destruct (Z.ltb_spec k (w * n)) as [Hlt|Hge].
  - pose proof (Z.div_mod k w ltac:(lia)) as E. pose proof (Z.mod_pos_bound k w Hw).
    assert (0 <= k / w < n) by nia. specialize (H (k / w) ltac:(done)).
    apply (f_equal (fun x => Z.testbit x (k mod w))) in H.
    rewrite !lane_testbit, <- E in H by lia. destruct (Z.ltb_spec (k mod w) w); [done|lia].
  - by rewrite !(testbit_above (w * n)).
Qed.

(** Lanes of the bitwise operations. *)
Lemma lane_land w i p q : 0 <= w -> 0 <= i -> lane w i (p &&& q) = lane w i p &&& lane w i q.
Proof. intros. zbits. by destruct (_ <? _). Qed.
Lemma lane_lor w i p q : 0 <= w -> 0 <= i -> lane w i (p ||| q) = lane w i p ||| lane w i q.
Proof. intros. zbits. by destruct (_ <? _). Qed.
Lemma lane_lxor w i p q : 0 <= w -> 0 <= i -> lane w i (p ^^^ q) = lane w i p ^^^ lane w i q.
Proof. intros. zbits. by destruct (_ <? _). Qed.

(** A lane of a lane, and of a register shifted by whole lanes. *)
Lemma lane_lane w m i j q :
  0 <= w -> 0 <= i -> 0 <= j < m -> lane w j (lane (w * m) i q) = lane w (i * m + j) q.
Proof.
  intros. apply Z.bits_inj'. intros k Hk. rewrite !lane_testbit by nia.
  destruct (Z.ltb_spec k w); cbn [andb]; [|done].
  destruct (Z.ltb_spec (w * j + k) (w * m)); [|nia]. cbn. f_equal. lia.
Qed.

Lemma lane_shiftr w i s q :
  0 <= w -> 0 <= i -> 0 <= s -> lane w i (q >>> (w * s)) = lane w (i + s) q.
Proof. intros. zbits. destruct (_ <? _); cbn; [f_equal; lia|done]. Qed.

(** Sign extension by shifting left and arithmetically right. *)
Lemma sext_shift w k x :
  0 < w -> 0 <= k -> sext (w + k) (Z.shiftl x k) >>> k = sext w x.
Proof.
  intros Hw Hk. symmetry. apply sext_unique; [lia| |].
  - pose proof (sext_range (w + k) (Z.shiftl x k) ltac:(lia)) as Hr.
    assert (0 < 2 ^ k) by (apply Z.pow_pos_nonneg; lia).
    replace (w + k - 1) with (w - 1 + k) in Hr by lia. rewrite Z.pow_add_r in Hr by lia.
    rewrite Z.shiftr_div_pow2 by lia. split; [apply Z.div_le_lower_bound; lia|].
    apply Z.div_lt_upper_bound; lia.
  - zbits. rewrite !mod_pow2_testbit, Z.shiftr_spec by lia.
    destruct (Z.ltb_spec i w); cbn [andb]; [|done].
    transitivity (Z.testbit (sext (w + k) (Z.shiftl x k) mod 2 ^ (w + k)) (i + k)).
    { rewrite mod_pow2_testbit by lia. destruct (Z.ltb_spec (i + k) (w + k)); [done|lia]. }
    rewrite sext_mod, mod_pow2_testbit, Z.shiftl_spec by lia.
    destruct (Z.ltb_spec (i + k) (w + k)); [cbn; f_equal; lia|lia].
Qed.

(** ** Loops over the lanes of one register *)

(** [for (i = 0; i < n; i++) q.lane[i] = f(i)] *)
Definition fold_lanes (w n : Z) (f : Z -> Z) (q : Z) : Z :=
  foldl (fun q i => set_lane w i (f i) q) q (seqZ 0 n).

(** [for (j = 0; j < m; j++) q.lane[b * m + j] = v.lane[j]] *)
Definition write_lanes (w m b v q : Z) : Z :=
  foldl (fun q j => set_lane w (b * m + j) (lane w j v) q) q (seqZ 0 m).

Lemma seqZ_snoc (n : nat) : seqZ 0 (Z.of_nat (S n)) = seqZ 0 (Z.of_nat n) ++ [Z.of_nat n].
Proof.
  replace (Z.of_nat (S n)) with (Z.of_nat n + 1) by lia. rewrite seqZ_app by lia.
  by rewrite (seqZ_cons _ 1), (seqZ_nil _ (Z.pred 1)) by lia.
Qed.

(** Induction over a counted loop. *)
Lemma foldl_seqZ_ind {A} (I : Z -> A -> Prop) (f : A -> Z -> A) (a : A) (n : Z) :
  0 <= n -> I 0 a -> (forall i a, 0 <= i < n -> I i a -> I (i + 1) (f a i)) ->
  I n (foldl f a (seqZ 0 n)).
Proof.
  intros Hn H0 Hs. rewrite <- (Z2Nat.id n) by done.
  assert (Hle : (Z.to_nat n <= Z.to_nat n)%nat) by lia. revert Hle.
  generalize (Z.to_nat n) at 1 3 4 as k. induction k as [|k IH]; intros Hle; [done|].
  rewrite seqZ_snoc, foldl_snoc. replace (Z.of_nat (S k)) with (Z.of_nat k + 1) by lia.
  apply Hs; [lia|]. apply IH. lia.
Qed.

Lemma fold_lanes_lane w n f q j :
  0 <= w -> 0 <= n -> 0 <= j ->
  lane w j (fold_lanes w n f q) = if j <? n then f j mod 2 ^ w else lane w j q.
Proof.
  intros Hw Hn Hj.
  apply (foldl_seqZ_ind (fun n q' => lane w j q' = if j <? n then f j mod 2 ^ w else lane w j q));
    [done|by rewrite (proj2 (Z.ltb_ge j 0)) by lia|].
  intros i q' Hi IH. destruct (Z.eq_dec i j) as [->|Hne].
  - rewrite lane_set_lane_eq by lia. by rewrite (proj2 (Z.ltb_lt j (j + 1))) by lia.
  - rewrite lane_set_lane_ne, IH by lia.
    destruct (Z.ltb_spec j i), (Z.ltb_spec j (i + 1)); try done; lia.
Qed.

Lemma fold_lanes_range N w n f q :
  0 <= w -> 0 <= n -> w * n <= N -> 0 <= q < 2 ^ N -> 0 <= fold_lanes w n f q < 2 ^ N.
Proof.
  intros Hw Hn HN Hq. apply (foldl_seqZ_ind (fun _ q => 0 <= q < 2 ^ N)); [done|done|].
  intros i q' Hi IH. apply set_lane_range; [done|lia|nia|done].
Qed.

Lemma write_lanes_set w m b v q :
  0 <= w -> 0 < m -> 0 <= b -> write_lanes w m b v q = set_lane (w * m) b v q.
Proof.
  intros Hw Hm Hb. apply Z.bits_inj'. intros k Hk. rewrite set_lane_testbit by nia.
  apply (foldl_seqZ_ind (fun n q' => Z.testbit q' k =
    if (w * m * b <=? k) && (k <? w * m * b + w * n) then Z.testbit v (k - w * m * b)
    else Z.testbit q k)); [lia| |].
  - destruct (Z.leb_spec (w * m * b) k), (Z.ltb_spec k (w * m * b + w * 0)); try done; lia.
  - intros i q' Hi IH. rewrite set_lane_testbit, IH by nia.
    destruct (Z.leb_spec (w * (b * m + i)) k), (Z.ltb_spec k (w * (b * m + i) + w)),
      (Z.leb_spec (w * m * b) k), (Z.ltb_spec k (w * m * b + w * i)),
      (Z.ltb_spec k (w * m * b + w * (i + 1))); cbn; try done; try (exfalso; nia).
    rewrite lane_testbit by lia. rewrite (proj2 (Z.ltb_lt _ w)) by nia. cbn. f_equal. lia.
Qed.

(** Writing every lane forgets the old contents. *)
Lemma fold_lanes_ext w n f g q q' :
  0 < w -> 0 <= n -> 0 <= q < 2 ^ (w * n) -> 0 <= q' < 2 ^ (w * n) ->
  (forall i, 0 <= i < n -> f i mod 2 ^ w = g i mod 2 ^ w) ->
  fold_lanes w n f q = fold_lanes w n g q'.
Proof.
  intros Hw Hn Hq Hq' H.
  apply (lane_ext n w); [done|apply fold_lanes_range; lia|apply fold_lanes_range; lia|].
  intros i Hi. rewrite !fold_lanes_lane by lia. rewrite (proj2 (Z.ltb_lt i n)) by lia. by apply H.
Qed.

Lemma set_lane_mod w i v q : set_lane w i (v mod 2 ^ w) q = set_lane w i v q.
Proof.
  unfold set_lane. f_equal. f_equal. destruct (Z.leb_spec 0 w).
  - apply Z.mod_mod. pose proof (Z.pow_pos_nonneg 2 w). lia.
  - rewrite !Z.pow_neg_r, !Z.mod_0_r by lia. done.
Qed.

(** The low bits of a sign extension are the low bits. *)
Lemma sext_mod_low m w x : 0 <= m <= w -> 1 <= w -> sext w x mod 2 ^ m = x mod 2 ^ m.
Proof.
  intros Hm Hw. zbits. rewrite !mod_pow2_testbit by lia.
  destruct (Z.ltb_spec i m); cbn [andb]; [|done].
  transitivity (Z.testbit (sext w x mod 2 ^ w) i).
  - rewrite mod_pow2_testbit by lia. by rewrite (proj2 (Z.ltb_lt i w)) by lia.
  - rewrite sext_mod, mod_pow2_testbit by lia. by rewrite (proj2 (Z.ltb_lt i w)) by lia.
Qed.

Lemma s32_mod_low m x : 0 <= m <= 32 -> s32 x mod 2 ^ m = x mod 2 ^ m.
Proof. intros. rewrite s32_sext. apply sext_mod_low; lia. Qed.

Lemma lane_mod_low w N i v :
  0 <= w -> 0 <= i -> w * i + w <= N -> lane w i (v mod 2 ^ N) = lane w i v.
Proof.
  intros. apply Z.bits_inj'. intros k Hk. rewrite !lane_testbit by lia.
  destruct (Z.ltb_spec k w); cbn [andb]; [|done]. rewrite mod_pow2_testbit by nia.
  by rewrite (proj2 (Z.ltb_lt (w * i + k) N)) by lia.
Qed.

Lemma mod_mod_pow2 x m n : 0 <= m <= n -> (x mod 2 ^ n) mod 2 ^ m = x mod 2 ^ m.
Proof.
  intros. apply Z.bits_inj'. intros k Hk. rewrite !mod_pow2_testbit by lia.
  destruct (Z.ltb_spec k m), (Z.ltb_spec k n); try done; lia.
Qed.
