(* ===== verification/Tie.v ===== *)
(** * The ESP32-S3 vector unit: registers and data movement
    ([cpu_esp32s3.h], [translate_tie_esp32s3.c])

    [CPUXtensaEsp32s3State] holds eight 128-bit registers Q, two 160-bit
    accumulators ACCQ (eight 20-bit or four 40-bit sums each), the unaligned
    access buffer UA_STATE, the 40-bit accumulator ACCX (an [int64_t]) and byte
    registers; the field [temp], which no code reads or writes, is left out.  A helper is a function on this state; it reads and writes Q
    lane by lane in the order of the C loops, so that a destination that is
    also a source behaves as in the code.  This file has the accumulator
    formats, the user registers, moves, broadcasts, zip and unzip. *)

From S2P Require Import Prelude Cpu Arith Lanes.

#[local] Open Scope mach_scope.

Record CPUXtensaEsp32s3State := mkTie {
  Q : Z -> Z;
  ACCQ : Z -> Z;
  UA_STATE : Z;
  ACCX : Z;
  SAR_BYTE : Z;
  fft_width : Z;
  gpio_out : Z;
  temp_asm : Z -> Z
}.

Abbreviation tie := CPUXtensaEsp32s3State (only parsing).

Definition set_Q (r v : Z) (t : tie) : tie :=
  mkTie (fupd (Q t) r v) (ACCQ t) (UA_STATE t) (ACCX t) (SAR_BYTE t) (fft_width t) (gpio_out t)
    (temp_asm t).
Definition set_ACCQ (r v : Z) (t : tie) : tie :=
  mkTie (Q t) (fupd (ACCQ t) r v) (UA_STATE t) (ACCX t) (SAR_BYTE t) (fft_width t) (gpio_out t)
    (temp_asm t).
Definition set_UA_STATE (v : Z) (t : tie) : tie :=
  mkTie (Q t) (ACCQ t) v (ACCX t) (SAR_BYTE t) (fft_width t) (gpio_out t) (temp_asm t).
Definition set_ACCX (v : Z) (t : tie) : tie :=
  mkTie (Q t) (ACCQ t) (UA_STATE t) v (SAR_BYTE t) (fft_width t) (gpio_out t) (temp_asm t).
Definition set_SAR_BYTE (v : Z) (t : tie) : tie :=
  mkTie (Q t) (ACCQ t) (UA_STATE t) (ACCX t) v (fft_width t) (gpio_out t) (temp_asm t).
Definition set_fft_width (v : Z) (t : tie) : tie :=
  mkTie (Q t) (ACCQ t) (UA_STATE t) (ACCX t) (SAR_BYTE t) v (gpio_out t) (temp_asm t).
Definition set_gpio_out (v : Z) (t : tie) : tie :=
  mkTie (Q t) (ACCQ t) (UA_STATE t) (ACCX t) (SAR_BYTE t) (fft_width t) v (temp_asm t).
Definition set_temp_asm (i v : Z) (t : tie) : tie :=
  mkTie (Q t) (ACCQ t) (UA_STATE t) (ACCX t) (SAR_BYTE t) (fft_width t) (gpio_out t)
    (fupd (temp_asm t) i v).

(** The value of [(int64_t)x]. *)
Definition s64 (x : Z) : Z := sext 64 x.

(** [tie->Q[r].lane[i] = v] *)
Definition set_Q_lane (w r i v : Z) (t : tie) : tie := set_Q r (set_lane w i v (Q t r)) t.

(** [for (i = 0; i < n; i++) tie->Q[r].lane[i] = f(i)], reading the current
    state in every iteration. *)
Definition upd_lanes (w n r : Z) (f : Z -> tie -> Z) (t : tie) : tie :=
  foldl (fun t i => set_Q_lane w r i (f i t) t) t (seqZ 0 n).

(** Enumerations of [translate_tie_esp32s3.c] used by the helpers. *)
Abbreviation vldbc_8 := 0 (only parsing).
Abbreviation vldbc_16 := 1 (only parsing).
Abbreviation vldbc_32 := 2 (only parsing).
Abbreviation ldqa_u8 := 0 (only parsing).
Abbreviation ldqa_s8 := 1 (only parsing).
Abbreviation ldqa_u16 := 2 (only parsing).
Abbreviation ldqa_s16 := 3 (only parsing).
Abbreviation ldqa_u32 := 4 (only parsing).
Abbreviation ldqa_s32 := 5 (only parsing).
Abbreviation wrur_accx_0 := 0 (only parsing).
Abbreviation wrur_accx_1 := 1 (only parsing).
Abbreviation wrur_qacc_h_0 := 2 (only parsing).
Abbreviation wrur_qacc_h_4 := 6 (only parsing).
Abbreviation wrur_qacc_l_0 := 7 (only parsing).
Abbreviation wrur_qacc_l_4 := 11 (only parsing).
Abbreviation wrur_gpio_out := 12 (only parsing).
Abbreviation wrur_sar_byte := 13 (only parsing).
Abbreviation wrur_fft_bit_width := 14 (only parsing).
Abbreviation wrur_ua_state_0 := 15 (only parsing).
Abbreviation wrur_ua_state_3 := 18 (only parsing).
Abbreviation ee_zero_qacc := 0 (only parsing).
Abbreviation ee_zero_accx := 1 (only parsing).
Abbreviation ee_zero_qx := 2 (only parsing).

(** ** Accumulator formats

    [QACC_reg] is a pair of unions; the fields are the unsigned views. *)

Record QACC_reg := mkQACC { u20 : Z -> Z; u40 : Z -> Z }.

Definition s20 (q : QACC_reg) (k : Z) : Z := s32 (u20 q k).
Definition s40 (q : QACC_reg) (k : Z) : Z := s64 (u40 q k).

Definition load_qacc (src : Z) : QACC_reg :=
  mkQACC
    (fun k =>
       let i := k / 2 in
       let b m := lane 8 (m + i * 5) src in
       if k mod 2 =? 0
       then u32 (s32 (lsl32 (lsl32 (b 2) 16 ||| lsl32 (b 1) 8 ||| b 0) 12) >>> 12)
       else u32 (s32 (lsl32 (lsl32 (b 4) 12 ||| lsl32 (b 3) 4 ||| (b 2 >>> 4)) 12) >>> 12))
    (fun i =>
       let b m := lane 8 (m + i * 5) src in
       u64 (s64 (lsl64 (lsl64 (b 4) 32 ||| lsl64 (b 3) 24 ||| lsl64 (b 2) 16
                          ||| lsl64 (b 1) 8 ||| b 0) 24) >>> 24)).

Definition save_qacc20 (src : QACC_reg) (dest : Z) : Z :=
  foldl (fun d i =>
    let e := u20 src (0 + i * 2) in
    let o := u20 src (1 + i * 2) in
    let d := set_lane 8 (0 + i * 5) (e &&& 0xff) d in
    let d := set_lane 8 (1 + i * 5) ((e >>> 8) &&& 0xff) d in
    let d := set_lane 8 (2 + i * 5) (((e >>> 16) &&& 0xf) ||| (lsl32 o 4 &&& 0xf0)) d in
    let d := set_lane 8 (3 + i * 5) ((o >>> 4) &&& 0xff) d in
    set_lane 8 (4 + i * 5) ((o >>> 12) &&& 0xff) d) dest (seqZ 0 4).

Definition save_qacc40 (src : QACC_reg) (dest : Z) : Z :=
  foldl (fun d i =>
    foldl (fun d m => set_lane 8 (i * 5 + m) (lane 8 m (u40 src i)) d) d (seqZ 0 5))
    dest (seqZ 0 4).

(** ** Loads of registers from data *)

Definition vld_64_s3 (vec data low_high : Z) (t : tie) : tie :=
  set_Q_lane 64 vec low_high data t.

Definition ldqa_64_s3 (data_type data low_high : Z) (t : tie) : tie :=
  let old := ACCQ t low_high in
  if data_type =? ldqa_u8 then
    set_ACCQ low_high (save_qacc20 (mkQACC (fun i => lane 8 i data) (fun _ => 0)) old) t
  else if data_type =? ldqa_s8 then
    set_ACCQ low_high (save_qacc20 (mkQACC (fun i => Prelude.u32 (slane 8 i data)) (fun _ => 0)) old) t
  else if data_type =? ldqa_u16 then
    set_ACCQ low_high (save_qacc40 (mkQACC (fun _ => 0) (fun i => lane 16 i data)) old) t
  else if data_type =? ldqa_s16 then
    set_ACCQ low_high (save_qacc40 (mkQACC (fun _ => 0) (fun i => u64 (slane 16 i data))) old) t
  else t.

Definition set_sar_byte_s3 (sar : Z) (t : tie) : tie := set_SAR_BYTE (u8 sar) t.

Definition vldhbc_16_s3 (vec data : Z) (t : tie) : tie :=
  foldl (fun t i =>
    let t := set_Q_lane 16 vec (i * 2 + 0) (lane 16 i data) t in
    set_Q_lane 16 vec (i * 2 + 1) (lane 16 i data) t) t (seqZ 0 4).

Definition vldbc_s3 (vec data bc_bits : Z) (t : tie) : tie :=
  if bc_bits =? vldbc_8 then upd_lanes 8 16 vec (fun _ _ => data &&& 0xff) t
  else if bc_bits =? vldbc_16 then upd_lanes 16 8 vec (fun _ _ => data &&& 0xffff) t
  else if bc_bits =? vldbc_32 then upd_lanes 32 4 vec (fun _ _ => data) t
  else t.

Definition vst_64_s3 (vec low_high : Z) (t : tie) : Z := lane 64 low_high (Q t vec).

(** ** User registers *)

Definition zero_s3 (data index : Z) (t : tie) : tie :=
  if data =? ee_zero_qacc then
    foldl (fun t i =>
      set_ACCQ 1 (set_lane 8 i 0 (ACCQ t 1)) (set_ACCQ 0 (set_lane 8 i 0 (ACCQ t 0)) t))
      t (seqZ 0 20)
  else if data =? ee_zero_accx then set_ACCX 0 t
  else if data =? ee_zero_qx then set_Q_lane 64 index 1 0 (set_Q_lane 64 index 0 0 t)
  else t.

(** [tie->ACCQ[r].u8[i + 4 * index] = data_ptr[i]] *)
Definition wr_accq_word (r index data : Z) (t : tie) : tie :=
  foldl (fun t i => set_ACCQ r (set_lane 8 (i + 4 * index) (lane 8 i data) (ACCQ t r)) t)
    t (seqZ 0 4).

Definition rd_accq_word (r index : Z) (t : tie) : Z :=
  fold_lanes 8 4 (fun i => lane 8 (i + 4 * index) (ACCQ t r)) 0.

Definition wur_s3 (data wrur_reg : Z) (t : tie) : tie :=
  let accx v := set_ACCX (s64 v &&& 0x000000ffffffffff) t in
  if wrur_reg =? wrur_accx_0 then accx (set_lane 32 0 data (u64 (ACCX t)))
  else if wrur_reg =? wrur_accx_1 then accx (set_lane 32 1 data (u64 (ACCX t)))
  else if (wrur_qacc_l_0 <=? wrur_reg) && (wrur_reg <=? wrur_qacc_l_4) then
    wr_accq_word 0 (wrur_reg - wrur_qacc_l_0) data t
  else if (wrur_qacc_h_0 <=? wrur_reg) && (wrur_reg <=? wrur_qacc_h_4) then
    wr_accq_word 1 (wrur_reg - wrur_qacc_h_0) data t
  else if wrur_reg =? wrur_gpio_out then set_gpio_out (u8 data) t
  else if wrur_reg =? wrur_sar_byte then set_SAR_BYTE (u8 data) t
  else if wrur_reg =? wrur_fft_bit_width then set_fft_width (u8 data) t
  else if (wrur_ua_state_0 <=? wrur_reg) && (wrur_reg <=? wrur_ua_state_3) then
    set_UA_STATE (set_lane 32 (wrur_reg - wrur_ua_state_0) data (UA_STATE t)) t
  else t.

Definition rur_s3 (wrur_reg : Z) (t : tie) : Z :=
  if wrur_reg =? wrur_accx_0 then lane 32 0 (u64 (ACCX t))
  else if wrur_reg =? wrur_accx_1 then lane 32 1 (u64 (ACCX t))
  else if (wrur_qacc_l_0 <=? wrur_reg) && (wrur_reg <=? wrur_qacc_l_4) then
    rd_accq_word 0 (wrur_reg - wrur_qacc_l_0) t
  else if (wrur_qacc_h_0 <=? wrur_reg) && (wrur_reg <=? wrur_qacc_h_4) then
    rd_accq_word 1 (wrur_reg - wrur_qacc_h_0) t
  else if wrur_reg =? wrur_gpio_out then gpio_out t
  else if wrur_reg =? wrur_sar_byte then SAR_BYTE t
  else if wrur_reg =? wrur_fft_bit_width then fft_width t
  else if (wrur_ua_state_0 <=? wrur_reg) && (wrur_reg <=? wrur_ua_state_3) then
    lane 32 (wrur_reg - wrur_ua_state_0) (UA_STATE t)
  else 0.

(** ** Moves *)

Definition mv_qr_s3 (qv qx : Z) (t : tie) : tie :=
  upd_lanes 8 16 qv (fun i t => lane 8 i (Q t qx)) t.

Definition fft_vst_64_s3 (qv sar2 low_high : Z) (t : tie) : Z :=
  let w k := lane 32 k (Q t qv) >>> sar2 in
  if low_high =? 0 then set_lane 32 1 (w 2) (set_lane 32 0 (w 3) 0)
  else set_lane 32 1 (w 0) (set_lane 32 0 (w 1) 0).

Definition mov_qacc_s3 (data_type qr_index : Z) (t : tie) : tie :=
  let q := Q t qr_index in
  let save20 f t :=
    set_ACCQ 1 (save_qacc20 (mkQACC (fun i => f (i + 8)) (fun _ => 0)) (ACCQ t 1))
      (set_ACCQ 0 (save_qacc20 (mkQACC f (fun _ => 0)) (ACCQ t 0)) t) in
  let save40 f t :=
    set_ACCQ 1 (save_qacc40 (mkQACC (fun _ => 0) (fun i => f (i + 4))) (ACCQ t 1))
      (set_ACCQ 0 (save_qacc40 (mkQACC (fun _ => 0) f) (ACCQ t 0)) t) in
  if data_type =? ldqa_u8 then save20 (fun i => lane 8 i q) t
  else if data_type =? ldqa_s8 then save20 (fun i => Prelude.u32 (slane 8 i q)) t
  else if data_type =? ldqa_u16 then save40 (fun i => lane 16 i q) t
  else if data_type =? ldqa_s16 then save40 (fun i => u64 (slane 16 i q)) t
  else t.

Definition movi_q_s3 (qr_index sel data : Z) (t : tie) : tie := set_Q_lane 32 qr_index sel data t.
Definition movi_a_s3 (qr_index sel : Z) (t : tie) : Z := lane 32 sel (Q t qr_index).

(** [q_copy] holds the two registers; both are then rewritten in one loop. *)
Definition zip_lanes (w h qs0 qs1 : Z) (t : tie) : tie :=
  let c0 := Q t qs0 in
  let c1 := Q t qs1 in
  foldl (fun t i =>
    let t := set_Q_lane w qs0 (i * 2 + 0) (lane w i c0) t in
    let t := set_Q_lane w qs0 (i * 2 + 1) (lane w i c1) t in
    let t := set_Q_lane w qs1 (i * 2 + 0) (lane w (i + h) c0) t in
    set_Q_lane w qs1 (i * 2 + 1) (lane w (i + h) c1) t) t (seqZ 0 h).

Definition unzip_lanes (w h qs0 qs1 : Z) (t : tie) : tie :=
  let c0 := Q t qs0 in
  let c1 := Q t qs1 in
  foldl (fun t i =>
    let t := set_Q_lane w qs0 i (lane w (i * 2 + 0) c0) t in
    let t := set_Q_lane w qs0 (i + h) (lane w (i * 2 + 0) c1) t in
    let t := set_Q_lane w qs1 i (lane w (i * 2 + 1) c0) t in
    set_Q_lane w qs1 (i + h) (lane w (i * 2 + 1) c1) t) t (seqZ 0 h).

Definition vzip_s3 (qs0 qs1 width : Z) (t : tie) : tie :=
  if width =? vldbc_8 then zip_lanes 8 8 qs0 qs1 t
  else if width =? vldbc_16 then zip_lanes 16 4 qs0 qs1 t
  else if width =? vldbc_32 then zip_lanes 32 2 qs0 qs1 t
  else t.

Definition vunzip_s3 (qs0 qs1 width : Z) (t : tie) : tie :=
  if width =? vldbc_8 then unzip_lanes 8 8 qs0 qs1 t
  else if width =? vldbc_16 then unzip_lanes 16 4 qs0 qs1 t
  else if width =? vldbc_32 then unzip_lanes 32 2 qs0 qs1 t
  else t.

(** ** The accumulator formats are 20 and 40-bit lanes *)

Lemma shift_out_20 x : s32 (lsl32 x 12) >>> 12 = sext 20 x.
Proof.
  rewrite s32_sext, <- (sext_shift 20 12 x) by lia. f_equal. apply sext_congr.
  unfold lsl32, Prelude.u32. by rewrite Z.mod_mod by lia.
Qed.

Lemma shift_out_40 x : s64 (lsl64 x 24) >>> 24 = sext 40 x.
Proof.
  unfold s64. rewrite <- (sext_shift 40 24 x) by lia. f_equal. apply sext_congr.
  unfold lsl64, u64. by rewrite Z.mod_mod by lia.
Qed.

Lemma s64_small v : - 2 ^ 63 <= v < 2 ^ 63 -> s64 (u64 v) = v.
Proof.
  intros Hv. unfold s64. apply sext_unique; [lia|done|]. unfold u64. by rewrite Z.mod_mod by lia.
Qed.

(** Close a goal about one bit: decide all comparisons, then compare positions. *)
Ltac bit_cases :=
  repeat (match goal with
  | |- context [Z.ltb ?a ?b] => destruct (Z.ltb_spec a b); try lia
  | |- context [Z.leb ?a ?b] => destruct (Z.leb_spec a b); try lia
  end); cbn [andb orb negb]; rewrite ?andb_true_r, ?andb_false_r, ?orb_false_r, ?orb_true_r;
  cbn [andb orb negb]; try done; try (f_equal; lia).

Lemma bytes_even i src :
  0 <= i ->
  (lsl32 (lane 8 (2 + i * 5) src) 16 ||| lsl32 (lane 8 (1 + i * 5) src) 8 ||| lane 8 (0 + i * 5) src)
    mod 2 ^ 20 = lane 20 (i * 2) src.
Proof.
  intros Hi. zbits. rewrite !mod_pow2_testbit by lia. autorewrite with bits.
  destruct (Z.ltb_spec i0 20); cbn [andb]; [|done].
  destruct (Z.ltb_spec i0 8); [|destruct (Z.ltb_spec i0 16)].
  - rewrite !(Z.testbit_neg_r _ (i0 - _)) by lia. autorewrite with bits. bit_cases.
  - rewrite (Z.testbit_neg_r _ (i0 - 16)) by lia. rewrite !lane_testbit by lia. bit_cases.
  - rewrite !lane_testbit by lia. bit_cases.
Qed.

Lemma bytes_odd i src :
  0 <= i ->
  (lsl32 (lane 8 (4 + i * 5) src) 12 ||| lsl32 (lane 8 (3 + i * 5) src) 4
     ||| (lane 8 (2 + i * 5) src >>> 4)) mod 2 ^ 20 = lane 20 (1 + i * 2) src.
Proof.
  intros Hi. zbits. rewrite !mod_pow2_testbit by lia. autorewrite with bits.
  destruct (Z.ltb_spec i0 20); cbn [andb]; [|done].
  destruct (Z.ltb_spec i0 4); [|destruct (Z.ltb_spec i0 12)].
  - rewrite !(Z.testbit_neg_r _ (i0 - _)) by lia. rewrite !lane_testbit by lia. bit_cases.
  - rewrite (Z.testbit_neg_r _ (i0 - 12)) by lia. rewrite !lane_testbit by lia. bit_cases.
  - rewrite !lane_testbit by lia. bit_cases.
Qed.

Lemma bytes_40 i src :
  0 <= i ->
  (lsl64 (lane 8 (4 + i * 5) src) 32 ||| lsl64 (lane 8 (3 + i * 5) src) 24
     ||| lsl64 (lane 8 (2 + i * 5) src) 16 ||| lsl64 (lane 8 (1 + i * 5) src) 8
     ||| lane 8 (0 + i * 5) src) mod 2 ^ 40 = lane 40 i src.
Proof.
  intros Hi. zbits. rewrite !mod_pow2_testbit by lia. autorewrite with bits.
  destruct (Z.ltb_spec i0 40); cbn [andb]; [|done].
  assert (Hc : 0 <= i0 < 8 \/ 8 <= i0 < 16 \/ 16 <= i0 < 24 \/ 24 <= i0 < 32 \/ 32 <= i0 < 40) by lia.
  destruct Hc as [Hc|[Hc|[Hc|[Hc|Hc]]]];
    repeat match goal with
    | |- context [Z.testbit _ (i0 - ?c)] => rewrite (Z.testbit_neg_r _ (i0 - c)) by lia
    end; rewrite ?lane_testbit by lia; bit_cases.
Qed.

Lemma sext20_s32 x : s32 (Prelude.u32 (sext 20 x)) = sext 20 x.
Proof. apply s32_small. pose proof (sext_range 20 x). lia. Qed.

Lemma sext40_s64 x : s64 (u64 (sext 40 x)) = sext 40 x.
Proof. apply s64_small. pose proof (sext_range 40 x). lia. Qed.

Lemma load_s20 src k : 0 <= k -> s20 (load_qacc src) k = slane 20 k src.
Proof.
  intros Hk. unfold s20, load_qacc, slane. cbn [u20].
  pose proof (Z.div_mod k 2 ltac:(lia)). pose proof (Z.mod_pos_bound k 2 ltac:(lia)).
  destruct (Z.eqb_spec (k mod 2) 0) as [E|E]; rewrite shift_out_20, sext20_s32; apply sext_congr.
  - rewrite bytes_even by lia. replace (k / 2 * 2) with k by lia. by rewrite lane_mod by lia.
  - rewrite bytes_odd by lia. replace (1 + k / 2 * 2) with k by lia. by rewrite lane_mod by lia.
Qed.

Lemma load_s40 src i : 0 <= i -> s40 (load_qacc src) i = slane 40 i src.
Proof.
  intros Hi. unfold s40, load_qacc, slane. cbn [u40]. rewrite shift_out_40, sext40_s64.
  apply sext_congr. rewrite bytes_40 by lia. by rewrite lane_mod by lia.
Qed.

(** The five bytes written for a pair of 20-bit values. *)
Definition pair40 (e o : Z) : Z := set_lane 20 1 o (set_lane 20 0 e 0).

Lemma lanes_eq_bytes e o :
  lane 8 0 (pair40 e o) = (e &&& 0xff) mod 2 ^ 8 /\
  lane 8 1 (pair40 e o) = ((e >>> 8) &&& 0xff) mod 2 ^ 8 /\
  lane 8 2 (pair40 e o) = (((e >>> 16) &&& 0xf) ||| (lsl32 o 4 &&& 0xf0)) mod 2 ^ 8 /\
  lane 8 3 (pair40 e o) = ((o >>> 4) &&& 0xff) mod 2 ^ 8 /\
  lane 8 4 (pair40 e o) = ((o >>> 12) &&& 0xff) mod 2 ^ 8.
Proof.
  change 0xff with (2 ^ 8 - 1). change 0xf with (2 ^ 4 - 1).
  replace 0xf0 with (Z.shiftl (2 ^ 4 - 1) 4) by done. unfold pair40.
  split_and!; zbits; rewrite !mod_pow2_testbit by lia; autorewrite with bits;
    (destruct (Z.ltb_spec i 8); cbn [andb]; [|done]).
  1,2,4,5: bit_cases.
  destruct (Z.ltb_spec i 4); rewrite ?(Z.testbit_neg_r _ (i - 4)) by lia;
    autorewrite with bits; bit_cases.
Qed.

Lemma save20_step i e o d :
  0 <= i ->
  (let d := set_lane 8 (0 + i * 5) (e &&& 0xff) d in
   let d := set_lane 8 (1 + i * 5) ((e >>> 8) &&& 0xff) d in
   let d := set_lane 8 (2 + i * 5) (((e >>> 16) &&& 0xf) ||| (lsl32 o 4 &&& 0xf0)) d in
   let d := set_lane 8 (3 + i * 5) ((o >>> 4) &&& 0xff) d in
   set_lane 8 (4 + i * 5) ((o >>> 12) &&& 0xff) d) = set_lane 40 i (pair40 e o) d.
Proof.
  intros Hi. change 40 with (8 * 5). rewrite <- write_lanes_set by lia.
  destruct (lanes_eq_bytes e o) as (E0 & E1 & E2 & E3 & E4).
  unfold write_lanes. change (seqZ 0 5) with [0; 1; 2; 3; 4]. cbn [foldl].
  rewrite E0, E1, E2, E3, E4. rewrite !set_lane_mod.
  by rewrite !(Z.add_comm (i * 5)).
Qed.

Lemma foldl_ext_in {A B} (f g : A -> B -> A) a l :
  (forall a b, b ∈ l -> f a b = g a b) -> foldl f a l = foldl g a l.
Proof.
  revert a. induction l as [|b l IH]; intros a H; [done|]. cbn. rewrite H by (by left).
  apply IH. intros. apply H. by right.
Qed.

Lemma save_qacc20_lanes q d :
  save_qacc20 q d = fold_lanes 40 4 (fun i => pair40 (u20 q (0 + i * 2)) (u20 q (1 + i * 2))) d.
Proof.
  apply foldl_ext_in. intros d' i Hi. apply elem_of_seqZ in Hi.
  exact (save20_step i _ _ d' ltac:(lia)).
Qed.

Lemma save_qacc40_lanes q d : save_qacc40 q d = fold_lanes 40 4 (u40 q) d.
Proof.
  apply foldl_ext_in. intros d' i Hi. apply elem_of_seqZ in Hi.
  change 40 with (8 * 5). rewrite <- write_lanes_set by lia. done.
Qed.

Lemma save20_lane q d k :
  0 <= k < 8 -> lane 20 k (save_qacc20 q d) = u20 q k mod 2 ^ 20.
Proof.
  intros Hk. rewrite save_qacc20_lanes.
  pose proof (Z.div_mod k 2 ltac:(lia)) as E. pose proof (Z.mod_pos_bound k 2 ltac:(lia)).
  replace (lane 20 k (fold_lanes 40 4 (fun i => pair40 (u20 q (0 + i * 2)) (u20 q (1 + i * 2))) d))
    with (lane 20 (k mod 2) (lane (20 * 2) (k / 2)
            (fold_lanes 40 4 (fun i => pair40 (u20 q (0 + i * 2)) (u20 q (1 + i * 2))) d))).
  2: { rewrite lane_lane by lia. f_equal. lia. }
  change (20 * 2) with 40. rewrite fold_lanes_lane by lia.
  rewrite (proj2 (Z.ltb_lt (k / 2) 4)), lane_mod_low by lia. unfold pair40.
  assert (Hc : k mod 2 = 0 \/ k mod 2 = 1) by lia. destruct Hc as [Hc|Hc]; rewrite Hc.
  - rewrite lane_set_lane_ne, lane_set_lane_eq by lia. do 2 f_equal. lia.
  - rewrite lane_set_lane_eq by lia. do 2 f_equal. lia.
Qed.

Lemma save40_lane q d i : 0 <= i < 4 -> lane 40 i (save_qacc40 q d) = u40 q i mod 2 ^ 40.
Proof.
  intros Hi. rewrite save_qacc40_lanes, fold_lanes_lane by lia.
  by rewrite (proj2 (Z.ltb_lt i 4)) by lia.
Qed.

Definition in160 (a : Z) : Prop := 0 <= a < 2 ^ 160.
Definition in128 (q : Z) : Prop := 0 <= q < 2 ^ 128.

Lemma save_qacc20_range q d : in160 d -> in160 (save_qacc20 q d).
Proof. intros Hd. rewrite save_qacc20_lanes. by apply fold_lanes_range. Qed.

Lemma save_qacc40_range q d : in160 d -> in160 (save_qacc40 q d).
Proof. intros Hd. rewrite save_qacc40_lanes. by apply fold_lanes_range. Qed.

(** The two views of an accumulator are lossless.  Saving eight 20-bit sums
    and loading them again gives each sum back, sign-extended from 20 bits, and
    saving four 40-bit sums gives each back sign-extended from 40 bits;
    conversely saving what was loaded restores all 160 bits of the register. *)
Theorem qacc_roundtrip (q : QACC_reg) (d : Z) :
  in160 d ->
  (forall k, 0 <= k < 8 -> s20 (load_qacc (save_qacc20 q d)) k = sext 20 (u20 q k)) /\
  (forall i, 0 <= i < 4 -> s40 (load_qacc (save_qacc40 q d)) i = sext 40 (u40 q i)) /\
  save_qacc20 (load_qacc d) d = d /\ save_qacc40 (load_qacc d) d = d.
Proof.
  intros Hd. split_and!.
  - intros k Hk. rewrite load_s20 by lia. unfold slane. rewrite save20_lane by lia.
    apply sext_congr. by rewrite Z.mod_mod.
  - intros i Hi. rewrite load_s40 by lia. unfold slane. rewrite save40_lane by lia.
    apply sext_congr. by rewrite Z.mod_mod.
  - apply (lane_ext 8 20); [lia|by apply save_qacc20_range|done|]. intros k Hk.
    rewrite save20_lane by lia. rewrite <- (slane_mod 20 k d) by lia. rewrite <- load_s20 by lia.
    unfold s20. symmetry. apply s32_mod_low. lia.
  - apply (lane_ext 4 40); [lia|by apply save_qacc40_range|done|]. intros i Hi.
    rewrite save40_lane by lia. rewrite <- (slane_mod 40 i d) by lia. rewrite <- load_s40 by lia.
    unfold s40, s64. symmetry. apply sext_mod_low; lia.
Qed.

Lemma qacc_roundtrip_witness :
  s20 (load_qacc (save_qacc20 (mkQACC (fun k => 0xffffffff - k) (fun _ => 0)) 0)) 3 = -4 /\
  save_qacc40 (load_qacc (2 ^ 159 + 5)) (2 ^ 159 + 5) = 2 ^ 159 + 5.
Proof.
  split.
  - rewrite (proj1 (qacc_roundtrip (mkQACC (fun k => 0xffffffff - k) (fun _ => 0)) 0
      ltac:(unfold in160; lia)) 3 ltac:(lia)). reflexivity.
  - apply (qacc_roundtrip (mkQACC (fun _ => 0) (fun _ => 0)) (2 ^ 159 + 5)). unfold in160. lia.
Defined.

(** ** Widths of the registers *)

Definition ins16 (v : Z) : Prop := - 2 ^ 15 <= v < 2 ^ 15.

Record tie_wf (t : tie) : Prop := {
  wf_Q : forall r, in128 (Q t r);
  wf_ACCQ : forall r, in160 (ACCQ t r);
  wf_UA_STATE : in128 (UA_STATE t);
  wf_ACCX : - 2 ^ 63 <= ACCX t < 2 ^ 63;
  wf_SAR_BYTE : 0 <= SAR_BYTE t < 2 ^ 8;
  wf_fft_width : 0 <= fft_width t < 2 ^ 8;
  wf_gpio_out : 0 <= gpio_out t < 2 ^ 8;
  wf_temp_asm : forall i, ins16 (temp_asm t i)
}.

Lemma fupd_all {A} (P : A -> Prop) (f : Z -> A) k v :
  (forall i, P (f i)) -> P v -> forall i, P (fupd f k v i).
Proof. intros Hf Hv i. unfold fupd. by destruct (i =? k). Qed.

Lemma wf_set_Q r v t : tie_wf t -> in128 v -> tie_wf (set_Q r v t).
Proof. intros [] Hv. split; try done. by apply fupd_all. Qed.
Lemma wf_set_ACCQ r v t : tie_wf t -> in160 v -> tie_wf (set_ACCQ r v t).
Proof. intros [] Hv. split; try done. by apply fupd_all. Qed.
Lemma wf_set_UA_STATE v t : tie_wf t -> in128 v -> tie_wf (set_UA_STATE v t).
Proof. by intros []. Qed.
Lemma wf_set_ACCX v t : tie_wf t -> - 2 ^ 63 <= v < 2 ^ 63 -> tie_wf (set_ACCX v t).
Proof. by intros []. Qed.
Lemma u8_range x : 0 <= u8 x < 2 ^ 8.
Proof. apply Z.mod_pos_bound. lia. Qed.
Lemma wf_set_SAR_BYTE v t : tie_wf t -> tie_wf (set_SAR_BYTE (u8 v) t).
Proof. intros []. pose proof (u8_range v). by split. Qed.
Lemma wf_set_fft_width v t : tie_wf t -> tie_wf (set_fft_width (u8 v) t).
Proof. intros []. pose proof (u8_range v). by split. Qed.
Lemma wf_set_gpio_out v t : tie_wf t -> tie_wf (set_gpio_out (u8 v) t).
Proof. intros []. pose proof (u8_range v). by split. Qed.
Lemma wf_set_temp_asm i v t : tie_wf t -> tie_wf (set_temp_asm i (sext 16 v) t).
Proof. intros []. split; try done. apply fupd_all; [done|]. by apply (sext_range 16). Qed.

Lemma wf_set_Q_lane w r i v t :
  tie_wf t -> 0 <= w -> 0 <= i -> w * i + w <= 128 -> tie_wf (set_Q_lane w r i v t).
Proof. intros Ht ???. apply wf_set_Q; [done|]. apply set_lane_range; try lia. apply Ht. Qed.

Lemma wf_upd_lanes w n r f t :
  tie_wf t -> 0 <= w -> 0 <= n -> w * n <= 128 -> tie_wf (upd_lanes w n r f t).
Proof.
  intros Ht Hw Hn Hwn. apply (foldl_seqZ_ind (fun _ t => tie_wf t)); [done|done|].
  intros i t' Hi Ht'. apply wf_set_Q_lane; [done|done|lia|nia].
Qed.

(** A counted loop whose body keeps the widths keeps them. *)
Lemma wf_loop (f : tie -> Z -> tie) n t :
  0 <= n -> (forall i t, 0 <= i < n -> tie_wf t -> tie_wf (f t i)) -> tie_wf t ->
  tie_wf (foldl f t (seqZ 0 n)).
Proof.
  intros Hn Hf Ht. apply (foldl_seqZ_ind (fun _ t => tie_wf t)); [done|done|]. auto.
Qed.

Lemma land40_range v : - 2 ^ 63 <= s64 v &&& 0x000000ffffffffff < 2 ^ 63.
Proof. pose proof (land_range 40 (s64 v) 0xffffffffff ltac:(lia)). lia. Qed.

Create HintDb tie_wf discriminated.
#[export] Hint Resolve wf_set_Q wf_set_ACCQ wf_set_UA_STATE wf_set_ACCX wf_set_SAR_BYTE
  wf_set_fft_width wf_set_gpio_out wf_set_temp_asm wf_set_Q_lane wf_upd_lanes
  wf_Q wf_ACCQ wf_UA_STATE save_qacc20_range save_qacc40_range land40_range : tie_wf.
#[export] Hint Extern 3 (_ <= _) => lia : tie_wf.
#[export] Hint Extern 3 (_ /\ _) => lia : tie_wf.

(** Prove that a helper keeps the widths: split its branches and loops. *)
Ltac tie_wf_tac :=
  intros; cbv zeta; unfold in128, in160 in *;
  repeat match goal with
  | |- tie_wf (if ?b then _ else _) => destruct b eqn:?
  | |- tie_wf (foldl _ _ (seqZ 0 _)) => apply wf_loop; [lia|intros; cbv zeta|]
  end; bprop; auto 12 with tie_wf.

(** ** User registers *)

Lemma wr_accq_word_lane r index data t :
  0 <= index ->
  Q (wr_accq_word r index data t) = Q t /\ UA_STATE (wr_accq_word r index data t) = UA_STATE t /\
  ACCX (wr_accq_word r index data t) = ACCX t /\
  SAR_BYTE (wr_accq_word r index data t) = SAR_BYTE t /\
  fft_width (wr_accq_word r index data t) = fft_width t /\
  gpio_out (wr_accq_word r index data t) = gpio_out t /\
  temp_asm (wr_accq_word r index data t) = temp_asm t /\
  forall r', ACCQ (wr_accq_word r index data t) r' =
    if r' =? r then set_lane 32 index data (ACCQ t r) else ACCQ t r'.
Proof.
  intros Hi. unfold wr_accq_word. change (seqZ 0 4) with [0; 1; 2; 3]. cbn [foldl].
  split_and!; try done. intros r'. cbn [set_ACCQ ACCQ]. rewrite !fupd_eq.
  change 32 with (8 * 4). rewrite <- write_lanes_set by lia. unfold write_lanes.
  change (seqZ 0 4) with [0; 1; 2; 3]. cbn [foldl].
  destruct (Z.eqb_spec r' r) as [->|Hr].
  - rewrite fupd_eq. rewrite !(Z.add_comm _ (4 * index)), !(Z.mul_comm 4 index). done.
  - by rewrite !fupd_ne.
Qed.

Lemma rd_accq_word_lane r index t :
  0 <= index -> rd_accq_word r index t = lane 32 index (ACCQ t r).
Proof.
  intros Hi. unfold rd_accq_word. change 32 with (8 * 4).
  assert (Hr : forall x, 0 <= lane (8 * 4) index x < 2 ^ (8 * 4)) by (intros; apply lane_range; lia).
  apply (lane_ext 4 8); [lia|apply (fold_lanes_range 32); lia|apply Hr|].
  intros i Hi'. rewrite fold_lanes_lane by lia. rewrite (proj2 (Z.ltb_lt i 4)) by lia.
  rewrite lane_lane, lane_mod by lia. f_equal. lia.
Qed.

(** The bits a user register keeps. *)
Definition wrur_mask (r : Z) : Z :=
  if (r =? wrur_accx_1) || ((wrur_gpio_out <=? r) && (r <=? wrur_fft_bit_width)) then 0xff
  else 0xffffffff.

(** The classes of user registers. *)
Lemma wrur_cases r :
  0 <= r <= 18 ->
  r = 0 \/ r = 1 \/ 2 <= r <= 6 \/ 7 <= r <= 11 \/ r = 12 \/ r = 13 \/ r = 14 \/ 15 <= r <= 18.
Proof. lia. Qed.

Definition accx_mask (v : Z) : Z := s64 v &&& 0xffffffffff.

Lemma accx_mask_lane0 v : lane 32 0 (u64 (accx_mask v)) = lane 32 0 v.
Proof.
  unfold accx_mask. change 0xffffffffff with (2 ^ 40 - 1). rewrite land_ones_mod by lia.
  unfold u64. rewrite !lane_mod_low by lia. unfold s64, lane. rewrite !Z.mul_0_r, !Z.shiftr_0_r.
  by rewrite sext_mod_low by lia.
Qed.

Lemma accx_mask_lane1 v : lane 32 1 (u64 (accx_mask v)) = lane 32 1 v &&& 0xff.
Proof.
  unfold accx_mask. change 0xffffffffff with (2 ^ 40 - 1). change 0xff with (2 ^ 8 - 1).
  zbits. destruct (Z.ltb_spec i 32); cbn [andb]; [|done].
  rewrite (proj2 (Z.ltb_lt (32 * 1 + i) 64)) by lia. cbn [andb].
  destruct (Z.ltb_spec (32 * 1 + i) 40), (Z.ltb_spec i 8); try lia;
    rewrite ?andb_false_r, ?andb_true_r; try done.
  transitivity (Z.testbit (s64 v mod 2 ^ 64) (32 * 1 + i)).
  - rewrite mod_pow2_testbit by lia. by rewrite (proj2 (Z.ltb_lt (32 * 1 + i) 64)) by lia.
  - unfold s64. rewrite sext_mod, mod_pow2_testbit by lia.
    by rewrite (proj2 (Z.ltb_lt (32 * 1 + i) 64)) by lia.
Qed.

Lemma rur_class r t :
  (r = 0 -> rur_s3 r t = lane 32 0 (u64 (ACCX t))) /\
  (r = 1 -> rur_s3 r t = lane 32 1 (u64 (ACCX t))) /\
  (2 <= r <= 6 -> rur_s3 r t = lane 32 (r - 2) (ACCQ t 1)) /\
  (7 <= r <= 11 -> rur_s3 r t = lane 32 (r - 7) (ACCQ t 0)) /\
  (r = 12 -> rur_s3 r t = gpio_out t) /\ (r = 13 -> rur_s3 r t = SAR_BYTE t) /\
  (r = 14 -> rur_s3 r t = fft_width t) /\
  (15 <= r <= 18 -> rur_s3 r t = lane 32 (r - 15) (UA_STATE t)).
Proof.
  unfold rur_s3. split_and!; intros; if_split; try lia; try done; by apply rd_accq_word_lane; lia.
Qed.

Lemma wur_class d r t :
  (r = 0 -> wur_s3 d r t = set_ACCX (accx_mask (set_lane 32 0 d (u64 (ACCX t)))) t) /\
  (r = 1 -> wur_s3 d r t = set_ACCX (accx_mask (set_lane 32 1 d (u64 (ACCX t)))) t) /\
  (2 <= r <= 6 -> wur_s3 d r t = wr_accq_word 1 (r - 2) d t) /\
  (7 <= r <= 11 -> wur_s3 d r t = wr_accq_word 0 (r - 7) d t) /\
  (r = 12 -> wur_s3 d r t = set_gpio_out (u8 d) t) /\
  (r = 13 -> wur_s3 d r t = set_SAR_BYTE (u8 d) t) /\
  (r = 14 -> wur_s3 d r t = set_fft_width (u8 d) t) /\
  (15 <= r <= 18 -> wur_s3 d r t = set_UA_STATE (set_lane 32 (r - 15) d (UA_STATE t)) t).
Proof.
  unfold wur_s3. split_and!; intros; if_split; try lia; done.
Qed.

(** Writing one accumulator word cuts the whole accumulator to 40 bits. *)
Definition rur_after_wur (d r r' v : Z) : Z :=
  if r' =? r then d &&& wrur_mask r
  else if (r =? wrur_accx_0) && (r' =? wrur_accx_1) then v &&& 0xff
  else v.

(** Decide the register comparisons of a goal. *)
Ltac reg_cases :=
  repeat match goal with
  | |- context [Z.eqb ?a ?b] => destruct (Z.eqb_spec a b); try lia
  | |- context [Z.leb ?a ?b] => destruct (Z.leb_spec a b); try lia
  end; cbn [andb orb].

(** Read register [r'] in two states, one goal per class of registers. *)
Ltac rur_both r' t' t Hr' :=
  let S0 := fresh in let S1 := fresh in let S2 := fresh in let S3 := fresh in
  let S4 := fresh in let S5 := fresh in let S6 := fresh in let S7 := fresh in
  let R0 := fresh in let R1 := fresh in let R2 := fresh in let R3 := fresh in
  let R4 := fresh in let R5 := fresh in let R6 := fresh in let R7 := fresh in
  let E := fresh "E" in
  destruct (rur_class r' t') as (S0 & S1 & S2 & S3 & S4 & S5 & S6 & S7);
  destruct (rur_class r' t) as (R0 & R1 & R2 & R3 & R4 & R5 & R6 & R7);
  destruct (wrur_cases r' Hr') as [E|[E|[E|[E|[E|[E|[E|E]]]]]]];
  [rewrite (S0 E), (R0 E)|rewrite (S1 E), (R1 E)|rewrite (S2 E), (R2 E)|rewrite (S3 E), (R3 E)
  |rewrite (S4 E), (R4 E)|rewrite (S5 E), (R5 E)|rewrite (S6 E), (R6 E)|rewrite (S7 E), (R7 E)];
  clear S0 S1 S2 S3 S4 S5 S6 S7 R0 R1 R2 R3 R4 R5 R6 R7.

Section RurWur.
Context (d r r' : Z) (t : tie) (Hr' : 0 <= r' <= 18) (Hd : in32 d).

Lemma wur_mask32 : d &&& 0xffffffff = d mod 2 ^ 32.
Proof. exact (land_ones_mod d 32 ltac:(lia)). Qed.
Lemma wur_mask8 : d &&& 0xff = u8 d.
Proof. exact (land_ones_mod d 8 ltac:(lia)). Qed.
Lemma wur_mask32_8 : (d mod 2 ^ 32) &&& 0xff = d &&& 0xff.
Proof. by rewrite Z.mod_small by exact Hd. Qed.

Lemma rur_wur_accx :
  r = 0 \/ r = 1 -> rur_s3 r' (wur_s3 d r t) = rur_after_wur d r r' (rur_s3 r' t).
Proof.
  destruct (wur_class d r t) as (W0 & W1 & _). intros [E|E]; [rewrite (W0 E)|rewrite (W1 E)];
    clear W0 W1; match goal with |- rur_s3 _ ?u = _ => rur_both r' u t Hr' end;
    unfold rur_after_wur, wrur_mask; subst r; reg_cases; subst;
    cbn [set_ACCX ACCX ACCQ gpio_out SAR_BYTE fft_width UA_STATE]; try done;
    rewrite ?accx_mask_lane0, ?accx_mask_lane1, ?lane_set_lane_eq by lia;
    rewrite ?lane_set_lane_ne, ?wur_mask32, ?wur_mask32_8 by lia; done.
Qed.

Lemma rur_wur_accq :
  2 <= r <= 11 -> rur_s3 r' (wur_s3 d r t) = rur_after_wur d r r' (rur_s3 r' t).
Proof.
  intros Hr. destruct (wur_class d r t) as (_ & _ & W2 & W3 & _).
  assert (E : 2 <= r <= 6 \/ 7 <= r <= 11) by lia.
  destruct E as [E|E]; [rewrite (W2 E)|rewrite (W3 E)]; clear W2 W3;
    match goal with |- rur_s3 _ (wr_accq_word ?a ?i _ _) = _ =>
      destruct (wr_accq_word_lane a i d t ltac:(lia)) as (_ & F1 & F2 & F3 & F4 & F5 & _ & A) end;
    match goal with |- rur_s3 _ ?u = _ => rur_both r' u t Hr' end;
    rewrite ?F1, ?F2, ?F3, ?F4, ?F5, ?A; unfold rur_after_wur, wrur_mask; reg_cases; subst; try done.
  1,3: rewrite lane_set_lane_eq, wur_mask32 by lia; done.
  all: by rewrite lane_set_lane_ne by lia.
Qed.

Lemma rur_wur_byte :
  12 <= r <= 14 -> rur_s3 r' (wur_s3 d r t) = rur_after_wur d r r' (rur_s3 r' t).
Proof.
  intros Hr. destruct (wur_class d r t) as (_ & _ & _ & _ & W4 & W5 & W6 & _).
  assert (E : r = 12 \/ r = 13 \/ r = 14) by lia.
  destruct E as [E|[E|E]]; [rewrite (W4 E)|rewrite (W5 E)|rewrite (W6 E)]; clear W4 W5 W6;
    match goal with |- rur_s3 _ ?u = _ => rur_both r' u t Hr' end;
    unfold rur_after_wur, wrur_mask; reg_cases; subst; try done; by rewrite wur_mask8.
Qed.

Lemma rur_wur_ua :
  15 <= r <= 18 -> rur_s3 r' (wur_s3 d r t) = rur_after_wur d r r' (rur_s3 r' t).
Proof.
  intros E. destruct (wur_class d r t) as (_ & _ & _ & _ & _ & _ & _ & W7).
  rewrite (W7 E). clear W7. match goal with |- rur_s3 _ ?u = _ => rur_both r' u t Hr' end;
    unfold rur_after_wur, wrur_mask; reg_cases; subst; try done; cbn [set_UA_STATE UA_STATE].
  - by rewrite lane_set_lane_eq, wur_mask32 by lia.
  - by rewrite lane_set_lane_ne by lia.
Qed.
End RurWur.

(** A user register keeps what WUR writes into it and no other user
    register changes, except that writing a half of ACCX clears everything
    above bit 39 of the whole accumulator; ACCX_1, the GPIO output, SAR_BYTE
    and the FFT width keep eight bits. *)
Theorem rur_wur (d r r' : Z) (t : tie) :
  0 <= r <= 18 -> 0 <= r' <= 18 -> in32 d ->
  rur_s3 r' (wur_s3 d r t) = rur_after_wur d r r' (rur_s3 r' t).
Proof.
  intros Hr Hr' Hd.
  assert (Hc : (r = 0 \/ r = 1) \/ 2 <= r <= 11 \/ 12 <= r <= 14 \/ 15 <= r <= 18) by lia.
  destruct Hc as [H|[H|[H|H]]]; auto using rur_wur_accx, rur_wur_accq, rur_wur_byte, rur_wur_ua.
Qed.

Definition tie_zero : tie := mkTie (fun _ => 0) (fun _ => 0) 0 0 0 0 0 (fun _ => 0).

Lemma rur_wur_witness :
  rur_s3 9 (wur_s3 0xdeadbeef 9 tie_zero) = 0xdeadbeef /\
  rur_s3 1 (wur_s3 7 0 (set_ACCX (-1) tie_zero)) = 0xff.
Proof.
  split; rewrite rur_wur by (unfold in32; lia); reflexivity.
Defined.

(** Reading a negative accumulator back and writing it again makes it a large
    positive number. *)
Lemma accx_save_restore_negative :
  let t := set_ACCX (-5) tie_zero in
  let lo := rur_s3 0 t in
  let hi := rur_s3 1 t in
  ACCX (wur_s3 hi 1 (wur_s3 lo 0 t)) = 2 ^ 40 - 5.
Proof. vm_compute. reflexivity. Qed.

(** ** Loops over one destination register *)

(** Everything but the Q registers. *)
Definition rest (t : tie) :=
  (ACCQ t, UA_STATE t, ACCX t, SAR_BYTE t, fft_width t, gpio_out t, temp_asm t).

Lemma Q_set_Q_lane w r i v t r' :
  Q (set_Q_lane w r i v t) r' = if r' =? r then set_lane w i v (Q t r) else Q t r'.
Proof. reflexivity. Qed.

Lemma Q_set_Q_lane_eq w r i v t : Q (set_Q_lane w r i v t) r = set_lane w i v (Q t r).
Proof. apply fupd_eq. Qed.
Lemma Q_set_Q_lane_other w r i v t r' : r' <> r -> Q (set_Q_lane w r i v t) r' = Q t r'.
Proof. apply fupd_ne. Qed.
Lemma rest_set_Q_lane w r i v t : rest (set_Q_lane w r i v t) = rest t.
Proof. reflexivity. Qed.

(** A write to lane [i] of any register leaves lane [j] of every register. *)
Lemma lane_set_Q_lane_ne w r i j v t r' :
  0 <= w -> 0 <= i -> 0 <= j -> i <> j ->
  lane w j (Q (set_Q_lane w r i v t) r') = lane w j (Q t r').
Proof.
  intros. rewrite Q_set_Q_lane. destruct (Z.eqb_spec r' r) as [->|]; [|done].
  by apply lane_set_lane_ne.
Qed.

Lemma slane_set_Q_lane_ne w r i j v t r' :
  0 <= w -> 0 <= i -> 0 <= j -> i <> j ->
  slane w j (Q (set_Q_lane w r i v t) r') = slane w j (Q t r').
Proof. intros. unfold slane. by rewrite lane_set_Q_lane_ne. Qed.

(** [f] computes lane [j] from lane [j] of the registers only. *)
Definition lane_local (w n r : Z) (f : Z -> tie -> Z) : Prop :=
  forall i j v t, 0 <= i < n -> 0 <= j < n -> i <> j -> f j (set_Q_lane w r i v t) = f j t.

Lemma upd_lanes_spec w n r f t :
  0 <= w -> 0 <= n -> lane_local w n r f ->
  (forall j, 0 <= j < n -> lane w j (Q (upd_lanes w n r f t) r) = f j t mod 2 ^ w) /\
  (forall r', r' <> r -> Q (upd_lanes w n r f t) r' = Q t r') /\
  rest (upd_lanes w n r f t) = rest t.
Proof.
  intros Hw Hn Hf.
  cut ((forall j, 0 <= j < n -> lane w j (Q (upd_lanes w n r f t) r) = f j t mod 2 ^ w) /\
       (forall j, n <= j < n -> f j (upd_lanes w n r f t) = f j t) /\
       (forall r', r' <> r -> Q (upd_lanes w n r f t) r' = Q t r') /\
       rest (upd_lanes w n r f t) = rest t); [tauto|].
  apply (foldl_seqZ_ind (fun m t' =>
    (forall j, 0 <= j < m -> lane w j (Q t' r) = f j t mod 2 ^ w) /\
    (forall j, m <= j < n -> f j t' = f j t) /\
    (forall r', r' <> r -> Q t' r' = Q t r') /\ rest t' = rest t)); [done|split_and!; try done; lia|].
  intros i t' Hi (IH1 & IH2 & IH3 & IH4). split_and!.
  - intros j Hj. destruct (Z.eq_dec i j) as [->|Hij].
    + rewrite Q_set_Q_lane_eq, lane_set_lane_eq, IH2 by lia. done.
    + rewrite lane_set_Q_lane_ne by lia. apply IH1. lia.
  - intros j Hj. rewrite Hf by lia. apply IH2. lia.
  - intros r' Hr'. rewrite Q_set_Q_lane_other by done. by apply IH3.
  - by rewrite rest_set_Q_lane.
Qed.

Lemma upd_lanes_local_lane w n r r' g :
  0 <= w -> lane_local w n r (fun i t => g (lane w i (Q t r'))).
Proof. intros Hw i j v t Hi Hj Hij. by rewrite lane_set_Q_lane_ne by lia. Qed.

(** Discharge [lane_local] for functions of lanes and unchanged registers. *)
Ltac lane_local_tac :=
  let i := fresh in let j := fresh in let v := fresh in let t := fresh in
  intros i j v t ? ? ?; cbn beta;
  repeat first [rewrite slane_set_Q_lane_ne by lia | rewrite lane_set_Q_lane_ne by lia]; reflexivity.

(** ** Zip and unzip *)

Section Zip.
Context (w h qs0 qs1 : Z) (t : tie).
Context (Hw : 0 < w) (Hh : 0 <= h) (Hne : qs0 <> qs1).

Abbreviation c0 := (Q t qs0).
Abbreviation c1 := (Q t qs1).

Lemma zip_spec j :
  0 <= j < 2 * h ->
  lane w j (Q (zip_lanes w h qs0 qs1 t) qs0) =
    (if j mod 2 =? 0 then lane w (j / 2) c0 else lane w (j / 2) c1) /\
  lane w j (Q (zip_lanes w h qs0 qs1 t) qs1) =
    (if j mod 2 =? 0 then lane w (j / 2 + h) c0 else lane w (j / 2 + h) c1).
Proof.
  intros Hj. cut (forall j, 0 <= j < 2 * h ->
    lane w j (Q (zip_lanes w h qs0 qs1 t) qs0) =
      (if j mod 2 =? 0 then lane w (j / 2) c0 else lane w (j / 2) c1) /\
    lane w j (Q (zip_lanes w h qs0 qs1 t) qs1) =
      (if j mod 2 =? 0 then lane w (j / 2 + h) c0 else lane w (j / 2 + h) c1)); [auto|clear j Hj].
  apply (foldl_seqZ_ind (fun m t' => forall j, 0 <= j < 2 * m ->
    lane w j (Q t' qs0) = (if j mod 2 =? 0 then lane w (j / 2) c0 else lane w (j / 2) c1) /\
    lane w j (Q t' qs1) = (if j mod 2 =? 0 then lane w (j / 2 + h) c0 else lane w (j / 2 + h) c1)));
    [done|lia|].
  intros i t' Hi IH j Hj. cbv zeta.
  repeat first [rewrite Q_set_Q_lane_eq | rewrite Q_set_Q_lane_other by auto].
  pose proof (Z.div_mod j 2 ltac:(lia)). pose proof (Z.mod_pos_bound j 2 ltac:(lia)).
  assert (Hc : j < 2 * i \/ j = i * 2 + 0 \/ j = i * 2 + 1) by lia.
  destruct Hc as [Hc|[-> | ->]].
  - rewrite !lane_set_lane_ne by lia. apply IH. lia.
  - rewrite !(lane_set_lane_ne _ (i * 2 + 1)), !lane_set_lane_eq, !lane_mod by lia.
    rewrite (proj2 (Z.eqb_eq ((i * 2 + 0) mod 2) 0)) by lia.
    replace ((i * 2 + 0) / 2) with i by lia. done.
  - rewrite !lane_set_lane_eq, !lane_mod by lia.
    rewrite (proj2 (Z.eqb_neq ((i * 2 + 1) mod 2) 0)) by lia.
    replace ((i * 2 + 1) / 2) with i by lia. done.
Qed.

Lemma unzip_spec j :
  0 <= j < h ->
  let t' := unzip_lanes w h qs0 qs1 t in
  lane w j (Q t' qs0) = lane w (j * 2 + 0) c0 /\ lane w (j + h) (Q t' qs0) = lane w (j * 2 + 0) c1 /\
  lane w j (Q t' qs1) = lane w (j * 2 + 1) c0 /\ lane w (j + h) (Q t' qs1) = lane w (j * 2 + 1) c1.
Proof.
  revert j. cbv zeta.
  apply (foldl_seqZ_ind (fun m t' => forall j, 0 <= j < m ->
    lane w j (Q t' qs0) = lane w (j * 2 + 0) c0 /\ lane w (j + h) (Q t' qs0) = lane w (j * 2 + 0) c1 /\
    lane w j (Q t' qs1) = lane w (j * 2 + 1) c0 /\ lane w (j + h) (Q t' qs1) = lane w (j * 2 + 1) c1));
    [done|lia|].
  intros i t' Hi IH j Hj. cbv zeta.
  repeat first [rewrite Q_set_Q_lane_eq | rewrite Q_set_Q_lane_other by auto].
  destruct (Z.eq_dec j i) as [->|Hji].
  - rewrite !(lane_set_lane_ne w (i + h) i), !lane_set_lane_eq, !lane_mod by lia. done.
  - rewrite !lane_set_lane_ne by lia. apply IH. lia.
Qed.

Lemma zip_others r : r <> qs0 -> r <> qs1 -> Q (zip_lanes w h qs0 qs1 t) r = Q t r.
Proof.
  intros H0 H1. apply (foldl_seqZ_ind (fun _ t' => Q t' r = Q t r)); [done|done|].
  intros i t' _ IH. cbv zeta. by rewrite !Q_set_Q_lane_other.
Qed.

Lemma unzip_others r : r <> qs0 -> r <> qs1 -> Q (unzip_lanes w h qs0 qs1 t) r = Q t r.
Proof.
  intros H0 H1. apply (foldl_seqZ_ind (fun _ t' => Q t' r = Q t r)); [done|done|].
  intros i t' _ IH. cbv zeta. by rewrite !Q_set_Q_lane_other.
Qed.
End Zip.

Lemma zip_wf w h qs0 qs1 t :
  0 < w -> 0 <= h -> w * (2 * h) = 128 -> tie_wf t -> tie_wf (zip_lanes w h qs0 qs1 t).
Proof.
  intros Hw Hh E Ht. apply wf_loop; [done| |done]. intros i t' Hi Ht'. cbv zeta.
  repeat (apply wf_set_Q_lane; [|nia..]). done.
Qed.

Lemma unzip_wf w h qs0 qs1 t :
  0 < w -> 0 <= h -> w * (2 * h) = 128 -> tie_wf t -> tie_wf (unzip_lanes w h qs0 qs1 t).
Proof.
  intros Hw Hh E Ht. apply wf_loop; [done| |done]. intros i t' Hi Ht'. cbv zeta.
  repeat (apply wf_set_Q_lane; [|nia..]). done.
Qed.
#[export] Hint Resolve zip_wf unzip_wf : tie_wf.

Lemma unzip_zip w h qs0 qs1 t r :
  0 < w -> 0 <= h -> w * (2 * h) = 128 -> qs0 <> qs1 -> tie_wf t ->
  Q (unzip_lanes w h qs0 qs1 (zip_lanes w h qs0 qs1 t)) r = Q t r.
Proof.
  intros Hw Hh E Hne Ht.
  pose proof (zip_wf w h qs0 qs1 t Hw Hh E Ht) as Hz.
  pose proof (unzip_wf w h qs0 qs1 _ Hw Hh E Hz) as Hu.
  assert (Hev : forall j, 0 <= j < h -> (j * 2 + 0) mod 2 = 0 /\ (j * 2 + 0) / 2 = j /\
    (j * 2 + 1) mod 2 = 1 /\ (j * 2 + 1) / 2 = j) 
    by (intros; rewrite !(Z.add_comm (j * 2)), !Z.mod_add, !Z.div_add by lia; done).
  assert (Hlow : forall j, 0 <= j < 2 * h -> j < h \/ exists k, 0 <= k < h /\ j = k + h).
  { intros j Hj. destruct (Z.ltb_spec j h); [by left|]. right. exists (j - h). lia. }
  destruct (Z.eq_dec r qs0) as [->|H0]; [|destruct (Z.eq_dec r qs1) as [->|H1]].
  3: { rewrite unzip_others, zip_others by done. done. }
  all: apply (lane_ext (2 * h) w); [done|rewrite E; apply Hu|rewrite E; apply Ht|]; intros j Hj;
    destruct (Hlow j Hj) as [Hjh|(k & Hk & ->)].
  - destruct (unzip_spec w h qs0 qs1 (zip_lanes w h qs0 qs1 t) Hw Hh Hne j ltac:(lia)) as (-> & _).
    destruct (zip_spec w h qs0 qs1 t Hw Hh Hne (j * 2 + 0) ltac:(lia)) as [-> _].
    destruct (Hev j ltac:(lia)) as (-> & -> & _). done.
  - destruct (unzip_spec w h qs0 qs1 (zip_lanes w h qs0 qs1 t) Hw Hh Hne k ltac:(lia)) as (_ & -> & _).
    destruct (zip_spec w h qs0 qs1 t Hw Hh Hne (k * 2 + 0) ltac:(lia)) as [_ ->].
    destruct (Hev k ltac:(lia)) as (-> & -> & _). done.
  - destruct (unzip_spec w h qs0 qs1 (zip_lanes w h qs0 qs1 t) Hw Hh Hne j ltac:(lia)) as (_ & _ & -> & _).
    destruct (zip_spec w h qs0 qs1 t Hw Hh Hne (j * 2 + 1) ltac:(lia)) as [-> _].
    destruct (Hev j ltac:(lia)) as (_ & _ & -> & ->). done.
  - destruct (unzip_spec w h qs0 qs1 (zip_lanes w h qs0 qs1 t) Hw Hh Hne k ltac:(lia)) as (_ & _ & _ & ->).
    destruct (zip_spec w h qs0 qs1 t Hw Hh Hne (k * 2 + 1) ltac:(lia)) as [_ ->].
    destruct (Hev k ltac:(lia)) as (_ & _ & -> & ->). done.
Qed.

(** EE.VUNZIP undoes EE.VZIP for every element width: interleaving two
    different registers and taking the even and odd elements apart again leaves
    all Q registers as they were. *)
Theorem vunzip_vzip (qs0 qs1 width r : Z) (t : tie) :
  qs0 <> qs1 -> tie_wf t ->
  Q (vunzip_s3 qs0 qs1 width (vzip_s3 qs0 qs1 width t)) r = Q t r.
Proof.
  intros Hne Ht. unfold vunzip_s3, vzip_s3.
  destruct (width =? 0); [|destruct (width =? 1); [|destruct (width =? 2); [|done]]];
    by apply unzip_zip.
Qed.

Lemma tie_zero_wf : tie_wf tie_zero.
Proof. split; intros; unfold in128, in160, ins16; cbn; lia. Qed.

Lemma vunzip_vzip_witness :
  Q (vunzip_s3 1 2 0 (vzip_s3 1 2 0 (set_Q 2 0x0123456789abcdef (set_Q 1 77 tie_zero)))) 2 =
    0x0123456789abcdef.
Proof.
  rewrite vunzip_vzip; [reflexivity|lia|].
  apply wf_set_Q; [apply wf_set_Q; [apply tie_zero_wf|]|]; unfold in128; lia.
Defined.
