(* ===== verification/TieArith.v ===== *)
(** * The ESP32-S3 vector unit: arithmetic ([translate_tie_esp32s3.c])

    Saturating addition and subtraction, multiplication, multiply-accumulate
    into ACCX and QACC, activation functions, minimum, maximum, comparison,
    bitwise operations and shifts.  Sums and products that cannot overflow the
    C type they are computed in are written as exact integers, the others with
    their wrap-around; a shift count is below the width of the shifted type
    (larger counts are undefined in C).  The byte shifts index arrays with
    guest-controlled counts: they return [None] where the C code would access
    an array out of bounds. *)

From S2P Require Import Prelude Cpu Arith Lanes Tie.

#[local] Open Scope mach_scope.

Abbreviation tie := CPUXtensaEsp32s3State (only parsing).

Abbreviation vmul_s8 := 1 (only parsing).
Abbreviation vmul_u8 := 2 (only parsing).
Abbreviation vmul_s16 := 3 (only parsing).
Abbreviation vmul_u16 := 4 (only parsing).
Abbreviation vmul_s32 := 8 (only parsing).
Abbreviation vmul_qup := 9 (only parsing).
Abbreviation ee_vcmp_eq := 0 (only parsing).
Abbreviation ee_vcmp_lt := 1 (only parsing).
Abbreviation ee_vcmp_gt := 2 (only parsing).
Abbreviation bw_logic_or := 0 (only parsing).
Abbreviation bw_logic_and := 1 (only parsing).
Abbreviation bw_logic_xor := 2 (only parsing).
Abbreviation bw_logic_not := 3 (only parsing).
Abbreviation bw_shift_left := 4 (only parsing).
Abbreviation bw_shift_right := 5 (only parsing).

(** [if (x > hi) x = hi; if (x < lo) x = lo;] *)
Definition sat (lo hi x : Z) : Z :=
  let x := if hi <? x then hi else x in
  if x <? lo then lo else x.

(** [if (x > hi) x = hi;] *)
Definition usat (hi x : Z) : Z := if hi <? x then hi else x.

(** ** Saturating addition and subtraction *)

Definition vadds_s3 (qz qx qy op_type : Z) (t : tie) : tie :=
  let sadd w hi i t := sat (- hi) hi (slane w i (Q t qx) + slane w i (Q t qy)) in
  let uadd w hi i t := usat hi (lane w i (Q t qx) + lane w i (Q t qy)) in
  if op_type =? ldqa_s8 then upd_lanes 8 16 qz (sadd 8 0x7f) t
  else if op_type =? ldqa_s16 then upd_lanes 16 8 qz (sadd 16 0x7fff) t
  else if op_type =? ldqa_s32 then upd_lanes 32 4 qz (sadd 32 0x7fffffff) t
  else if op_type =? ldqa_u8 then upd_lanes 8 16 qz (uadd 8 0xff) t
  else if op_type =? ldqa_u16 then upd_lanes 16 8 qz (uadd 16 0xffff) t
  else if op_type =? ldqa_u32 then upd_lanes 32 4 qz (uadd 32 0xffffffff) t
  else t.

(** The unsigned differences are computed in [uint16_t], [uint32_t] and
    [uint64_t]. *)
Definition vsubs_s3 (qz qx qy op_type : Z) (t : tie) : tie :=
  let ssub w hi i t := sat (- hi) hi (slane w i (Q t qx) - slane w i (Q t qy)) in
  let usub w hi i t := usat hi ((lane w i (Q t qx) - lane w i (Q t qy)) mod 2 ^ (2 * w)) in
  if op_type =? ldqa_s8 then upd_lanes 8 16 qz (ssub 8 0x7f) t
  else if op_type =? ldqa_s16 then upd_lanes 16 8 qz (ssub 16 0x7fff) t
  else if op_type =? ldqa_s32 then upd_lanes 32 4 qz (ssub 32 0x7fffffff) t
  else if op_type =? ldqa_u8 then upd_lanes 8 16 qz (usub 8 0xff) t
  else if op_type =? ldqa_u16 then upd_lanes 16 8 qz (usub 16 0xffff) t
  else if op_type =? ldqa_u32 then upd_lanes 32 4 qz (usub 32 0xffffffff) t
  else t.

(** ** Multiplication *)

Definition vmul_s3 (qz qx qy sar op_type : Z) (t : tie) : tie :=
  let smul w i t := (slane w i (Q t qx) * slane w i (Q t qy)) >>> sar in
  let umul w i t := (lane w i (Q t qx) * lane w i (Q t qy)) >>> sar in
  if op_type =? vmul_s8 then upd_lanes 8 16 qz (smul 8) t
  else if op_type =? vmul_u8 then upd_lanes 8 16 qz (umul 8) t
  else if op_type =? vmul_s16 then upd_lanes 16 8 qz (smul 16) t
  else if op_type =? vmul_u16 then upd_lanes 16 8 qz (umul 16) t
  else t.

(** Two complex products at lanes [b .. b + 3]; [conj] selects the conjugate.
    The registers are read again after each lane has been written. *)
Definition cmul_pairs (qz qx qy sar b : Z) (conj : bool) (t : tie) : tie :=
  let x k t := slane 16 (b + k) (Q t qx) in
  let y k t := slane 16 (b + k) (Q t qy) in
  let re k t := if conj then x k t * y k t + x (k + 1) t * y (k + 1) t
                else x k t * y k t - x (k + 1) t * y (k + 1) t in
  let im k t := if conj then x k t * y (k + 1) t - x (k + 1) t * y k t
                else x k t * y (k + 1) t + x (k + 1) t * y k t in
  let wr k v t := set_Q_lane 16 qz (b + k) (s32 v >>> sar) t in
  let t := wr 0 (re 0 t) t in
  let t := wr 1 (im 0 t) t in
  let t := wr 2 (re 2 t) t in
  wr 3 (im 2 t) t.

Definition cmul_s3 (qz qx qy sar op_type : Z) (t : tie) : tie :=
  if op_type =? 0 then cmul_pairs qz qx qy sar 0 false t
  else if op_type =? 1 then cmul_pairs qz qx qy sar 4 false t
  else if op_type =? 2 then cmul_pairs qz qx qy sar 0 true t
  else if op_type =? 3 then cmul_pairs qz qx qy sar 4 true t
  else t.

(** ** Multiply-accumulate *)

(** [for (i = 0; i < n; i++) tie->ACCX += f(i)] on an [int64_t]. *)
Definition accx_sum (n : Z) (f : Z -> Z) (accx : Z) : Z :=
  foldl (fun a i => s64 (a + f i)) accx (seqZ 0 n).

Definition vmulas_accx_s3 (qx qy op_type : Z) (t : tie) : tie :=
  let sprod w i := slane w i (Q t qx) * slane w i (Q t qy) in
  let uprod w i := lane w i (Q t qx) * lane w i (Q t qy) in
  if op_type =? vmul_s8 then
    set_ACCX (sat (-0x7fffffffff) 0x7fffffffff (accx_sum 16 (sprod 8) (ACCX t))) t
  else if op_type =? vmul_u8 then
    set_ACCX (sat 0 0xffffffffff (accx_sum 16 (uprod 8) (ACCX t))) t
  else if op_type =? vmul_s16 then
    set_ACCX (sat (-0x7fffffffff) 0x7fffffffff (accx_sum 8 (sprod 16) (ACCX t))) t
  else if op_type =? vmul_u16 then
    set_ACCX (sat 0 0xffffffffff (accx_sum 8 (uprod 16) (ACCX t))) t
  else t.

(** The four saturating updates of an accumulator element. *)
Definition mac20 (a p : Z) : Z := Prelude.u32 (sat (-0x7ffff) 0x7ffff (s32 (s32 a + p))).
Definition macu20 (a p : Z) : Z :=
  let x := Prelude.u32 (a + p) in if 0xfffff <? x then Prelude.u32 (-0xfffff) else x.
Definition mac40 (a p : Z) : Z := u64 (sat (-0x7fffffffff) 0x7fffffffff (s64 (s64 a + p))).
Definition macu40 (a p : Z) : Z := usat 0xffffffffff (u64 (a + p)).

(** Both halves of QACC, updated from 20-bit or 40-bit elements. *)
Definition qacc_update20 (step : Z -> Z -> Z) (p : Z -> Z) (t : tie) : tie :=
  let l := load_qacc (ACCQ t 0) in
  let h := load_qacc (ACCQ t 1) in
  let l' := mkQACC (fun i => step (u20 l i) (p i)) (u40 l) in
  let h' := mkQACC (fun i => step (u20 h i) (p (i + 8))) (u40 h) in
  let t := set_ACCQ 0 (save_qacc20 l' (ACCQ t 0)) t in
  set_ACCQ 1 (save_qacc20 h' (ACCQ t 1)) t.

Definition qacc_update40 (step : Z -> Z -> Z) (p : Z -> Z) (t : tie) : tie :=
  let l := load_qacc (ACCQ t 0) in
  let h := load_qacc (ACCQ t 1) in
  let l' := mkQACC (u20 l) (fun i => step (u40 l i) (p i)) in
  let h' := mkQACC (u20 h) (fun i => step (u40 h i) (p (i + 4))) in
  let t := set_ACCQ 0 (save_qacc40 l' (ACCQ t 0)) t in
  set_ACCQ 1 (save_qacc40 h' (ACCQ t 1)) t.

Definition vmulas_qacc_s3 (qx qy op_type : Z) (t : tie) : tie :=
  let sprod w i := slane w i (Q t qx) * slane w i (Q t qy) in
  let uprod w i := lane w i (Q t qx) * lane w i (Q t qy) in
  if op_type =? vmul_s8 then qacc_update20 mac20 (sprod 8) t
  else if op_type =? vmul_u8 then qacc_update20 macu20 (uprod 8) t
  else if op_type =? vmul_s16 then qacc_update40 mac40 (sprod 16) t
  else if op_type =? vmul_u16 then qacc_update40 macu40 (uprod 16) t
  else t.

(** The product of two 16-bit lanes is an [int32_t]. *)
Definition vsmulas_s3 (qx qy op_type sel : Z) (t : tie) : tie :=
  if op_type =? vmul_s8 then
    qacc_update20 mac20 (fun i => slane 8 i (Q t qx) * slane 8 sel (Q t qy)) t
  else if op_type =? vmul_s16 then
    qacc_update40 mac40 (fun i => slane 16 i (Q t qx) * slane 16 sel (Q t qy)) t
  else t.

(** What [srcmb_qacc] stores for a shifted element: the element, then 0x7f or
    0x80 over it. *)
Definition narrow (hi lo x : Z) : Z :=
  let r := if hi <? x then hi else x in
  if x <? - hi then lo else r.

Definition srcmb_qacc_s3 (qu a0 op_type sel : Z) (t : tie) : tie :=
  let l := load_qacc (ACCQ t 0) in
  let h := load_qacc (ACCQ t 1) in
  if op_type =? vmul_s8 then
    let sl i := s20 l i >>> a0 in
    let sh i := s20 h i >>> a0 in
    let t := foldl (fun t i =>
      set_Q_lane 8 qu (i + 8) (narrow 0x7f 0x80 (sh i))
        (set_Q_lane 8 qu i (narrow 0x7f 0x80 (sl i)) t)) t (seqZ 0 8) in
    let t := set_ACCQ 0 (save_qacc20 (mkQACC (fun i => Prelude.u32 (sl i)) (u40 l)) (ACCQ t 0)) t in
    set_ACCQ 1 (save_qacc20 (mkQACC (fun i => Prelude.u32 (sh i)) (u40 h)) (ACCQ t 1)) t
  else if op_type =? vmul_s16 then
    let sl i := s40 l i >>> a0 in
    let sh i := s40 h i >>> a0 in
    let t := foldl (fun t i =>
      set_Q_lane 16 qu (i + 4) (narrow 0x7fff 0x8000 (sh i))
        (set_Q_lane 16 qu i (narrow 0x7fff 0x8000 (sl i)) t)) t (seqZ 0 4) in
    let t := set_ACCQ 0 (save_qacc40 (mkQACC (u20 l) (fun i => u64 (sl i))) (ACCQ t 0)) t in
    set_ACCQ 1 (save_qacc40 (mkQACC (u20 h) (fun i => u64 (sh i))) (ACCQ t 1)) t
  else t.

(** ** Activation, minimum, maximum, comparison *)

Definition vrelu_s3 (qs ax ay op_type : Z) (t : tie) : tie :=
  if op_type =? vmul_s8 then
    upd_lanes 8 16 qs (fun i t => let x := slane 8 i (Q t qs) in
      if x <=? 0 then (x * sext 16 ax) >>> ay else x) t
  else if op_type =? vmul_s16 then
    upd_lanes 16 8 qs (fun i t => let x := slane 16 i (Q t qs) in
      if x <=? 0 then s32 (x * s32 ax) >>> ay else x) t
  else t.

Definition vprelu_s3 (qz qx qy ay op_type : Z) (t : tie) : tie :=
  let prelu w i t := let x := slane w i (Q t qx) in
    if x <=? 0 then (x * slane w i (Q t qy)) >>> ay else x in
  if op_type =? vmul_s8 then upd_lanes 8 16 qz (prelu 8) t
  else if op_type =? vmul_s16 then upd_lanes 16 8 qz (prelu 16) t
  else t.

Definition by_width (qz op_type : Z) (f : Z -> Z -> tie -> Z) (t : tie) : tie :=
  if op_type =? vmul_s8 then upd_lanes 8 16 qz (f 8) t
  else if op_type =? vmul_s16 then upd_lanes 16 8 qz (f 16) t
  else if op_type =? vmul_s32 then upd_lanes 32 4 qz (f 32) t
  else t.

Definition vmax_s3 (qz qx qy op_type : Z) (t : tie) : tie :=
  by_width qz op_type (fun w i t =>
    if slane w i (Q t qy) <=? slane w i (Q t qx) then slane w i (Q t qx) else slane w i (Q t qy)) t.

Definition vmin_s3 (qz qx qy op_type : Z) (t : tie) : tie :=
  by_width qz op_type (fun w i t =>
    if slane w i (Q t qx) <=? slane w i (Q t qy) then slane w i (Q t qx) else slane w i (Q t qy)) t.

Definition vcmp_s3 (qz qx qy op_type op_sel : Z) (t : tie) : tie :=
  let cmp (rel : Z -> Z -> bool) w i t :=
    if rel (slane w i (Q t qx)) (slane w i (Q t qy)) then 2 ^ w - 1 else 0 in
  if op_sel =? ee_vcmp_eq then by_width qz op_type (cmp Z.eqb) t
  else if op_sel =? ee_vcmp_lt then by_width qz op_type (cmp Z.ltb) t
  else if op_sel =? ee_vcmp_gt then by_width qz op_type (cmp Z.gtb) t
  else t.

Definition bw_logic_s3 (qz qx qy op_type : Z) (t : tie) : tie :=
  let x i t := lane 8 i (Q t qx) in
  let y i t := lane 8 i (Q t qy) in
  if op_type =? bw_logic_or then upd_lanes 8 16 qz (fun i t => x i t ||| y i t) t
  else if op_type =? bw_logic_and then upd_lanes 8 16 qz (fun i t => x i t &&& y i t) t
  else if op_type =? bw_logic_xor then upd_lanes 8 16 qz (fun i t => x i t ^^^ y i t) t
  else if op_type =? bw_logic_not then upd_lanes 8 16 qz (fun i t => Z.lnot (x i t)) t
  else t.

Definition vsx32_s3 (qa qs sar op_type : Z) (t : tie) : tie :=
  if op_type =? bw_shift_right then
    upd_lanes 32 4 qa (fun i t => slane 32 i (Q t qs) >>> sar) t
  else if op_type =? bw_shift_left then
    upd_lanes 32 4 qa (fun i t => Z.shiftl (slane 32 i (Q t qs)) sar) t
  else t.

(** ** Lane-wise results *)

(** Element types of the additions: selector, width, signedness. *)
Inductive elem_type : Z -> Z -> Z -> bool -> Prop :=
| elem_u8 : elem_type ldqa_u8 8 16 false
| elem_s8 : elem_type ldqa_s8 8 16 true
| elem_u16 : elem_type ldqa_u16 16 8 false
| elem_s16 : elem_type ldqa_s16 16 8 true
| elem_u32 : elem_type ldqa_u32 32 4 false
| elem_s32 : elem_type ldqa_s32 32 4 true.

Lemma sat_clamp lo hi x : lo <= hi -> sat lo hi x = Z.max lo (Z.min hi x).
Proof. intros. unfold sat. destruct (Z.ltb_spec hi x), (Z.ltb_spec hi lo), (Z.ltb_spec x lo); lia. Qed.

Lemma sat_range lo hi x : lo <= hi -> lo <= sat lo hi x <= hi.
Proof. intros. rewrite sat_clamp; lia. Qed.

Lemma usat_min hi x : usat hi x = Z.min hi x.
Proof. unfold usat. destruct (Z.ltb_spec hi x); lia. Qed.

(** Read back a signed lane of a completed loop. *)
Lemma upd_lanes_slane w n r f t j :
  1 <= w -> 0 <= n -> lane_local w n r f -> 0 <= j < n ->
  slane w j (Q (upd_lanes w n r f t) r) = sext w (f j t).
Proof.
  intros Hw Hn Hf Hj. destruct (upd_lanes_spec w n r f t ltac:(lia) Hn Hf) as (H & _).
  unfold slane. rewrite H by done. apply sext_congr. apply Z.mod_mod.
  pose proof (Z.pow_pos_nonneg 2 w). lia.
Qed.

Lemma upd_lanes_lane w n r f t j :
  0 <= w -> 0 <= n -> lane_local w n r f -> 0 <= j < n ->
  lane w j (Q (upd_lanes w n r f t) r) = f j t mod 2 ^ w.
Proof. intros Hw Hn Hf Hj. by apply upd_lanes_spec. Qed.

Lemma upd_lanes_others w n r f t r' :
  0 <= w -> 0 <= n -> lane_local w n r f -> r' <> r -> Q (upd_lanes w n r f t) r' = Q t r'.
Proof. intros Hw Hn Hf. by apply upd_lanes_spec. Qed.

(** EE.VADDS adds element by element with saturation, also when the
    destination is one of the sources: a signed element is the sum limited to
    [-(2^(w-1) - 1) .. 2^(w-1) - 1], an unsigned one the sum limited to
    [2^w - 1]; the other registers keep their values. *)
Theorem vadds_saturates (qz qx qy op w n : Z) (sg : bool) (t : tie) :
  elem_type op w n sg ->
  (forall i, 0 <= i < n ->
     if sg then
       slane w i (Q (vadds_s3 qz qx qy op t) qz) =
         Z.max (- (2 ^ (w - 1) - 1)) (Z.min (2 ^ (w - 1) - 1) (slane w i (Q t qx) + slane w i (Q t qy)))
     else
       lane w i (Q (vadds_s3 qz qx qy op t) qz) =
         Z.min (2 ^ w - 1) (lane w i (Q t qx) + lane w i (Q t qy))) /\
  (forall r, r <> qz -> Q (vadds_s3 qz qx qy op t) r = Q t r).
Proof.
  intros []; unfold vadds_s3; cbn [Z.eqb Pos.eqb]; (split; [intros i Hi; cbn [negb]|intros r Hr]).
  all: try (apply upd_lanes_others; [lia|lia|lane_local_tac|done]).
  all: try (rewrite upd_lanes_slane by (lia || lane_local_tac);
    rewrite sat_clamp by lia; apply sext_small; lia).
  all: rewrite upd_lanes_lane by (lia || lane_local_tac); rewrite usat_min;
    match goal with |- context [lane ?w ?i ?x + lane _ _ ?y] =>
      pose proof (lane_range w i x); pose proof (lane_range w i y) end;
    apply Z.mod_small; lia.
Qed.

Lemma vadds_saturates_witness :
  elem_type ldqa_s8 8 16 true /\
  slane 8 0 (Q (vadds_s3 1 1 2 ldqa_s8 (set_Q 2 100 (set_Q 1 100 tie_zero))) 1) = 127.
Proof.
  split; [constructor|].
  rewrite (proj1 (vadds_saturates 1 1 2 ldqa_s8 8 16 true
    (set_Q 2 100 (set_Q 1 100 tie_zero)) elem_s8) 0 ltac:(lia)). reflexivity.
Defined.

(** Adding zero to the least 8-bit element changes it. *)
Lemma vadds_zero_not_identity :
  slane 8 0 (Q (vadds_s3 0 1 2 ldqa_s8 (set_Q 1 0x80 tie_zero)) 1) = -128 /\
  slane 8 0 (Q (vadds_s3 0 1 2 ldqa_s8 (set_Q 1 0x80 tie_zero)) 0) = -127.
Proof. split; reflexivity. Qed.

(** An unsigned difference below zero saturates to the maximum. *)
Lemma vsubs_unsigned_underflow :
  lane 8 0 (Q (vsubs_s3 0 1 2 ldqa_u8 (set_Q 2 2 (set_Q 1 1 tie_zero))) 0) = 0xff.
Proof. reflexivity. Qed.

(** ** Accumulation *)

Definition sumZ (n : Z) (f : Z -> Z) : Z := foldl (fun a i => a + f i) 0 (seqZ 0 n).

(** Adding at most [n] terms of magnitude [m] does not leave 64 bits. *)
Lemma accx_sum_exact n m f a :
  0 <= n -> (forall i, 0 <= i < n -> - m <= f i <= m) ->
  - 2 ^ 63 + n * m <= a -> a + n * m < 2 ^ 63 -> 0 <= m ->
  accx_sum n f a = a + sumZ n f /\ - (n * m) <= sumZ n f <= n * m.
Proof.
  intros Hn Hf Hlo Hhi Hm. unfold accx_sum, sumZ.
  assert (G : forall k : nat, Z.of_nat k <= n ->
    foldl (fun a i => s64 (a + f i)) a (seqZ 0 (Z.of_nat k)) =
      a + foldl (fun a i => a + f i) 0 (seqZ 0 (Z.of_nat k)) /\
    - (Z.of_nat k * m) <= foldl (fun a i => a + f i) 0 (seqZ 0 (Z.of_nat k)) <= Z.of_nat k * m).
  { induction k as [|k IH]; intros Hk; [rewrite (seqZ_nil 0 (Z.of_nat 0)) by lia; cbn [foldl]; lia|].
    destruct IH as [IH1 IH2]; [lia|]. rewrite seqZ_snoc, !foldl_snoc, IH1.
    specialize (Hf (Z.of_nat k) ltac:(lia)). split; [|nia].
    unfold s64. rewrite sext_small; [lia|lia|]. change (64 - 1) with 63. nia. }
  specialize (G (Z.to_nat n) ltac:(lia)). by rewrite Z2Nat.id in G.
Qed.

Lemma sprod_bound w i x y :
  1 <= w -> - (2 ^ (w - 1) * 2 ^ (w - 1)) <= slane w i x * slane w i y <= 2 ^ (w - 1) * 2 ^ (w - 1).
Proof.
  intros Hw. pose proof (slane_range w i x Hw). pose proof (slane_range w i y Hw). nia.
Qed.

Lemma uprod_bound w i x y :
  0 <= w -> - (2 ^ w * 2 ^ w) <= lane w i x * lane w i y <= 2 ^ w * 2 ^ w.
Proof.
  intros Hw. pose proof (lane_range w i x Hw). pose proof (lane_range w i y Hw). nia.
Qed.

(** The accumulator holds at most 40 bits. *)
Definition accx_bounded (t : tie) : Prop := - 0x7fffffffff <= ACCX t <= 0xffffffffff.

(** EE.VMULAS.*.ACCX adds the dot product of two registers to ACCX without
    intermediate overflow and saturates once at the end: to
    [-(2^39 - 1) .. 2^39 - 1] for signed elements and to [0 .. 2^40 - 1] for
    unsigned ones; the accumulator never leaves 40 bits. *)
Theorem vmulas_accx_dot (qx qy : Z) (t : tie) :
  accx_bounded t ->
  ACCX (vmulas_accx_s3 qx qy vmul_s8 t) =
    Z.max (-(2 ^ 39 - 1)) (Z.min (2 ^ 39 - 1)
      (ACCX t + sumZ 16 (fun i => slane 8 i (Q t qx) * slane 8 i (Q t qy)))) /\
  ACCX (vmulas_accx_s3 qx qy vmul_s16 t) =
    Z.max (-(2 ^ 39 - 1)) (Z.min (2 ^ 39 - 1)
      (ACCX t + sumZ 8 (fun i => slane 16 i (Q t qx) * slane 16 i (Q t qy)))) /\
  ACCX (vmulas_accx_s3 qx qy vmul_u8 t) =
    Z.max 0 (Z.min (2 ^ 40 - 1) (ACCX t + sumZ 16 (fun i => lane 8 i (Q t qx) * lane 8 i (Q t qy)))) /\
  ACCX (vmulas_accx_s3 qx qy vmul_u16 t) =
    Z.max 0 (Z.min (2 ^ 40 - 1) (ACCX t + sumZ 8 (fun i => lane 16 i (Q t qx) * lane 16 i (Q t qy)))) /\
  forall op, accx_bounded (vmulas_accx_s3 qx qy op t).
Proof.
  intros Hb. unfold accx_bounded in *.
  split_and!; unfold vmulas_accx_s3; cbn [Z.eqb Pos.eqb set_ACCX ACCX]; rewrite ?sat_clamp by lia.
  1: edestruct (accx_sum_exact 16 (2 ^ 7 * 2 ^ 7)) as [-> _].
  7: edestruct (accx_sum_exact 8 (2 ^ 15 * 2 ^ 15)) as [-> _].
  13: edestruct (accx_sum_exact 16 (2 ^ 8 * 2 ^ 8)) as [-> _].
  19: edestruct (accx_sum_exact 8 (2 ^ 16 * 2 ^ 16)) as [-> _].
  all: try lia; try (intros; apply (sprod_bound 8); lia); try (intros; apply (sprod_bound 16); lia);
    try (intros; apply uprod_bound; lia).
  intros op. if_split; cbn [set_ACCX ACCX]; try lia;
    match goal with |- context [sat ?a ?b ?x] => pose proof (sat_range a b x ltac:(lia)); lia end.
Qed.

Lemma vmulas_accx_dot_witness :
  accx_bounded (set_ACCX 5 (set_Q 2 3 (set_Q 1 0xff tie_zero))) /\
  ACCX (vmulas_accx_s3 1 2 vmul_s8 (set_ACCX 5 (set_Q 2 3 (set_Q 1 0xff tie_zero)))) = 2.
Proof.
  assert (H : accx_bounded (set_ACCX 5 (set_Q 2 3 (set_Q 1 0xff tie_zero)))).
  { unfold accx_bounded. cbn. lia. }
  split; [done|]. rewrite (proj1 (vmulas_accx_dot 1 2 _ H)). reflexivity.
Defined.

(** *** QACC *)

Lemma mac20_exact a p :
  - 2 ^ 29 <= p <= 2 ^ 29 -> - 2 ^ 29 <= s32 a <= 2 ^ 29 ->
  sext 20 (mac20 a p) = Z.max (-0x7ffff) (Z.min 0x7ffff (s32 a + p)).
Proof.
  intros Hp Ha. unfold mac20. rewrite (s32_sext (_ + _)), (sext_small 32) by lia.
  rewrite sat_clamp by lia.
  rewrite <- (sext_small 20 (Z.max _ _)) at 2 by lia. apply sext_congr. unfold Prelude.u32.
  by rewrite mod_mod_pow2 by lia.
Qed.

Lemma s64_id v : - 2 ^ 63 <= v < 2 ^ 63 -> s64 v = v.
Proof. intros. by apply sext_small. Qed.

Lemma mac40_exact a p :
  - 2 ^ 60 <= p <= 2 ^ 60 -> - 2 ^ 60 <= s64 a <= 2 ^ 60 ->
  sext 40 (mac40 a p) = Z.max (-0x7fffffffff) (Z.min 0x7fffffffff (s64 a + p)).
Proof.
  intros Hp Ha. unfold mac40. rewrite (s64_id (_ + _)) by lia.
  rewrite sat_clamp by lia.
  rewrite <- (sext_small 40 (Z.max _ _)) at 2 by lia. apply sext_congr. unfold u64.
  by rewrite mod_mod_pow2 by lia.
Qed.

Section QaccUpdate.
Context (step : Z -> Z -> Z) (p : Z -> Z) (t : tie) (Ht : tie_wf t).

Lemma qacc_update20_elem (h k : Z) :
  0 <= h <= 1 -> 0 <= k < 8 ->
  slane 20 k (ACCQ (qacc_update20 step p t) h) =
    sext 20 (step (u20 (load_qacc (ACCQ t h)) k) (p (k + 8 * h))).
Proof.
  intros Hh Hk. unfold qacc_update20. cbn [set_ACCQ ACCQ].
  assert (Hc : h = 0 \/ h = 1) by lia. destruct Hc as [-> | ->].
  - rewrite fupd_ne, fupd_eq by lia. unfold slane. rewrite save20_lane by done. cbn [u20].
    rewrite Z.mul_0_r, Z.add_0_r. apply sext_congr. by rewrite Z.mod_mod.
  - rewrite fupd_eq, fupd_ne by lia. unfold slane. rewrite save20_lane by done. cbn [u20].
    rewrite Z.mul_1_r. apply sext_congr. by rewrite Z.mod_mod.
Qed.

Lemma qacc_update40_elem (h k : Z) :
  0 <= h <= 1 -> 0 <= k < 4 ->
  slane 40 k (ACCQ (qacc_update40 step p t) h) =
    sext 40 (step (u40 (load_qacc (ACCQ t h)) k) (p (k + 4 * h))).
Proof.
  intros Hh Hk. unfold qacc_update40. cbn [set_ACCQ ACCQ].
  assert (Hc : h = 0 \/ h = 1) by lia. destruct Hc as [-> | ->].
  - rewrite fupd_ne, fupd_eq by lia. unfold slane. rewrite save40_lane by done. cbn [u40].
    rewrite Z.mul_0_r, Z.add_0_r. apply sext_congr. by rewrite Z.mod_mod.
  - rewrite fupd_eq, fupd_ne by lia. unfold slane. rewrite save40_lane by done. cbn [u40].
    rewrite Z.mul_1_r. apply sext_congr. by rewrite Z.mod_mod.
Qed.
End QaccUpdate.

Lemma vmulas_qacc_s8_elem qx qy t h k :
  0 <= h <= 1 -> 0 <= k < 8 ->
  slane 20 k (ACCQ (vmulas_qacc_s3 qx qy vmul_s8 t) h) =
    sext 20 (mac20 (u20 (load_qacc (ACCQ t h)) k)
      (slane 8 (k + 8 * h) (Q t qx) * slane 8 (k + 8 * h) (Q t qy))).
Proof.
  exact (qacc_update20_elem mac20 (fun i => slane 8 i (Q t qx) * slane 8 i (Q t qy)) t h k).
Qed.

Lemma vmulas_qacc_s16_elem qx qy t h k :
  0 <= h <= 1 -> 0 <= k < 4 ->
  slane 40 k (ACCQ (vmulas_qacc_s3 qx qy vmul_s16 t) h) =
    sext 40 (mac40 (u40 (load_qacc (ACCQ t h)) k)
      (slane 16 (k + 4 * h) (Q t qx) * slane 16 (k + 4 * h) (Q t qy))).
Proof.
  exact (qacc_update40_elem mac40 (fun i => slane 16 i (Q t qx) * slane 16 i (Q t qy)) t h k).
Qed.

Lemma load_s20_u src k : 0 <= k -> s32 (u20 (load_qacc src) k) = slane 20 k src.
Proof. intros H. rewrite <- (load_s20 src k H). unfold s20. reflexivity. Qed.
Lemma load_s40_u src k : 0 <= k -> s64 (u40 (load_qacc src) k) = slane 40 k src.
Proof. intros H. rewrite <- (load_s40 src k H). unfold s40. reflexivity. Qed.

Lemma mac20_lane a k i x y :
  0 <= k ->
  sext 20 (mac20 (u20 (load_qacc a) k) (slane 8 i x * slane 8 i y)) =
    Z.max (-(2 ^ 19 - 1)) (Z.min (2 ^ 19 - 1) (slane 20 k a + slane 8 i x * slane 8 i y)).
Proof.
  intros Hk. pose proof (sprod_bound 8 i x y ltac:(lia)).
  pose proof (slane_range 20 k a ltac:(lia)) as Hr. rewrite <- load_s20_u in Hr |- * by lia.
  rewrite mac20_exact by lia. by replace (2 ^ 19 - 1) with 0x7ffff by lia.
Qed.

Lemma mac40_lane a k i x y :
  0 <= k ->
  sext 40 (mac40 (u40 (load_qacc a) k) (slane 16 i x * slane 16 i y)) =
    Z.max (-(2 ^ 39 - 1)) (Z.min (2 ^ 39 - 1) (slane 40 k a + slane 16 i x * slane 16 i y)).
Proof.
  intros Hk. pose proof (sprod_bound 16 i x y ltac:(lia)).
  pose proof (slane_range 40 k a ltac:(lia)) as Hr. rewrite <- load_s40_u in Hr |- * by lia.
  rewrite mac40_exact by lia. by replace (2 ^ 39 - 1) with 0x7fffffffff by lia.
Qed.

(** C27: EE.VMULAS.S8.QACC and EE.VMULAS.S16.QACC accumulate exactly: each of
    the sixteen 20-bit (eight 40-bit) sums becomes the old sum plus the product
    of its two elements, limited to 20 (40) bits without the most negative
    value; element [k] of the upper half belongs to lane [k + 8] ([k + 4]). *)
Theorem vmulas_qacc_exact (qx qy : Z) (t : tie) :
  (forall h k, 0 <= h <= 1 -> 0 <= k < 8 ->
     slane 20 k (ACCQ (vmulas_qacc_s3 qx qy vmul_s8 t) h) =
       Z.max (-(2 ^ 19 - 1)) (Z.min (2 ^ 19 - 1)
         (slane 20 k (ACCQ t h) + slane 8 (k + 8 * h) (Q t qx) * slane 8 (k + 8 * h) (Q t qy)))) /\
  (forall h k, 0 <= h <= 1 -> 0 <= k < 4 ->
     slane 40 k (ACCQ (vmulas_qacc_s3 qx qy vmul_s16 t) h) =
       Z.max (-(2 ^ 39 - 1)) (Z.min (2 ^ 39 - 1)
         (slane 40 k (ACCQ t h) + slane 16 (k + 4 * h) (Q t qx) * slane 16 (k + 4 * h) (Q t qy)))).
Proof.
  split; intros h k Hh Hk.
  - rewrite vmulas_qacc_s8_elem by done. apply mac20_lane; lia.
  - rewrite vmulas_qacc_s16_elem by done. apply mac40_lane; lia.
Qed.

(** The unsigned 8-bit accumulation does not saturate: a sum with bit 19 set is
    read back negative, and adding to it leaves 1. *)
Lemma vmulas_qacc_u8_overflow :
  lane 20 0 (ACCQ (vmulas_qacc_s3 1 2 vmul_u8 (set_ACCQ 0 0x80000 tie_zero)) 0) = 1.
Proof. vm_compute. reflexivity. Qed.

(** A complex product into one of its own sources uses the new real part. *)
Lemma cmul_alias :
  let t := set_Q 2 (2 + 3 * 2 ^ 16) (set_Q 1 (4 + 5 * 2 ^ 16) tie_zero) in
  slane 16 1 (Q (cmul_s3 0 1 2 0 0 t) 0) = 22 /\ slane 16 1 (Q (cmul_s3 1 1 2 0 0 t) 1) = -11.
Proof. split; vm_compute; reflexivity. Qed.

(** ** Whole-register operations *)

Lemma lnot128 q : in128 q -> Z.lnot q mod 2 ^ 128 = 2 ^ 128 - 1 - q.
Proof.
  intros Hq. unfold in128 in Hq. unfold Z.lnot.
  replace (Z.pred (- q)) with (2 ^ 128 - 1 - q + -1 * 2 ^ 128) by lia.
  rewrite Z.mod_add by lia. apply Z.mod_small. lia.
Qed.

(** A byte loop that computes a lane-wise operation computes it on the whole
    register. *)
Lemma upd_bytes_register r f t v :
  tie_wf t -> in128 v -> lane_local 8 16 r f ->
  (forall i, 0 <= i < 16 -> f i t mod 2 ^ 8 = lane 8 i v) ->
  Q (upd_lanes 8 16 r f t) r = v.
Proof.
  intros Ht Hv Hf E. apply (lane_ext 16 8); [lia|apply wf_upd_lanes; [done|lia..]|done|].
  intros i Hi. rewrite upd_lanes_lane by (done || lia). by apply E.
Qed.

(** The byte loops of the bitwise instructions compute the operation on the
    128-bit register, also in place. *)
Theorem bw_logic_register (qz qx qy : Z) (t : tie) :
  tie_wf t ->
  Q (bw_logic_s3 qz qx qy bw_logic_or t) qz = Q t qx ||| Q t qy /\
  Q (bw_logic_s3 qz qx qy bw_logic_and t) qz = Q t qx &&& Q t qy /\
  Q (bw_logic_s3 qz qx qy bw_logic_xor t) qz = Q t qx ^^^ Q t qy /\
  Q (bw_logic_s3 qz qx qy bw_logic_not t) qz = 2 ^ 128 - 1 - Q t qx.
Proof.
  intros Ht. pose proof (wf_Q t Ht qx) as Hx. pose proof (wf_Q t Ht qy) as Hy.
  split_and!; unfold bw_logic_s3; cbn [Z.eqb Pos.eqb];
    (apply upd_bytes_register; [done| |lane_local_tac|intros i Hi]).
  - by apply (lor_range 128).
  - rewrite lane_lor by lia. apply Z.mod_small. apply (lor_range 8); apply lane_range; lia.
  - by apply (land_range 128).
  - rewrite lane_land by lia. apply Z.mod_small. apply (land_range 8); apply lane_range; lia.
  - by apply (lxor_range 128).
  - rewrite lane_lxor by lia. apply Z.mod_small. apply (lxor_range 8); apply lane_range; lia.
  - unfold in128 in *. lia.
  - rewrite <- lnot128, lane_mod_low by (done || lia). zbits.
    rewrite mod_pow2_testbit, Z.lnot_spec, lane_testbit by lia.
    by destruct (Z.ltb_spec i0 8).
Qed.

(** The maximum and minimum of two signed elements, in place or not. *)
Theorem vmax_vmin_lanes (qz qx qy op w n i : Z) (t : tie) :
  op = vmul_s8 /\ w = 8 /\ n = 16 \/ op = vmul_s16 /\ w = 16 /\ n = 8 \/
    op = vmul_s32 /\ w = 32 /\ n = 4 ->
  0 <= i < n ->
  slane w i (Q (vmax_s3 qz qx qy op t) qz) = Z.max (slane w i (Q t qx)) (slane w i (Q t qy)) /\
  slane w i (Q (vmin_s3 qz qx qy op t) qz) = Z.min (slane w i (Q t qx)) (slane w i (Q t qy)).
Proof.
  intros Hop Hi. destruct Hop as [(-> & -> & ->)|[(-> & -> & ->)|(-> & -> & ->)]];
    unfold vmax_s3, vmin_s3, by_width; cbn [Z.eqb Pos.eqb];
    rewrite !upd_lanes_slane by (lia || lane_local_tac);
    match goal with |- context [Z.max (slane ?w ?i ?x) (slane _ _ ?y)] =>
      pose proof (slane_range w i x ltac:(lia)); pose proof (slane_range w i y ltac:(lia));
      destruct (Z.leb_spec (slane w i y) (slane w i x)), (Z.leb_spec (slane w i x) (slane w i y));
      split; rewrite sext_small by lia; lia end.
Qed.
