(* ===== verification/TieShift.v ===== *)
(** * The ESP32-S3 vector unit: byte shifts ([translate_tie_esp32s3.c])

    The instructions for unaligned data shift the concatenation of two
    registers by a number of bytes taken from SAR_BYTE, an immediate or an
    address register.  The C code moves bytes between arrays of 16 and 32
    elements; [None] is an access outside them. *)

From S2P Require Import Prelude Cpu Arith Lanes Tie TieArith.

#[local] Open Scope mach_scope.

Abbreviation tie := CPUXtensaEsp32s3State (only parsing).

(** [tie->Q[r].u8[i]] and [temp_arr[i]] *)
Definition rd_u8 (q i : Z) : option Z :=
  if (0 <=? i) && (i <? 16) then Some (lane 8 i q) else None.
Definition wr_u8 (r i v : Z) (t : tie) : option tie :=
  if (0 <=? i) && (i <? 16) then Some (set_Q_lane 8 r i v t) else None.
Definition rd_temp (arr i : Z) : option Z :=
  if (0 <=? i) && (i <? 32) then Some (lane 8 i arr) else None.

(** [for (i = lo; i < hi; i++) body(i)] *)
Definition ofor {A} (lo hi : Z) (body : Z -> A -> option A) (a : A) : option A :=
  foldl (fun o i => match o with Some a => body i a | None => None end) (Some a)
    (seqZ lo (hi - lo)).

(** The 32-byte array with [q0] in its lower half, and 16 bytes from two
    64-bit words. *)
Definition concat_q (q0 q1 : Z) : Z := q0 ||| Z.shiftl q1 128.
Definition concat_q_64 (lo hi : Z) : Z := lo ||| Z.shiftl hi 64.

Definition vmulas_qup_s3 (qs0 qs1 : Z) (t : tie) : option tie :=
  let shift := SAR_BYTE t in
  match ofor 0 (16 - shift) (fun i t =>
          match rd_u8 (Q t qs0) (i + shift) with Some v => wr_u8 qs0 i v t | None => None end) t with
  | None => None
  | Some t =>
      ofor (16 - shift) 16 (fun i t =>
        match rd_u8 (Q t qs1) (i - (16 - shift)) with
        | Some v => wr_u8 qs0 i v t
        | None => None
        end) t
  end.

Definition sxci_2q_s3 (qs0 qs1 sar op_type : Z) (t : tie) : option tie :=
  let shift := s32 (sar + 1) in
  let temp_arr := concat_q (Q t qs0) (Q t qs1) in
  let copy r k i t := match rd_temp temp_arr k with Some v => wr_u8 r i v t | None => None end in
  if op_type =? bw_shift_left then
    match ofor 0 shift (fun i => wr_u8 qs0 i 0) t with
    | None => None
    | Some t =>
        match ofor shift 16 (fun i => copy qs0 (i - shift) i) t with
        | None => None
        | Some t => ofor 0 16 (fun i => copy qs1 (16 - shift + i) i) t
        end
    end
  else if op_type =? bw_shift_right then
    match ofor 0 16 (fun i => copy qs0 (i + shift) i) t with
    | None => None
    | Some t =>
        match ofor 0 (16 - shift) (fun i => copy qs1 (i + shift + 16) i) t with
        | None => None
        | Some t => ofor (16 - shift) 16 (fun i => wr_u8 qs1 i 0) t
        end
    end
  else Some t.

(** [memcpy(&result, &temp_arr[from], 8)] *)
Definition read_temp_64 (arr from : Z) : option Z :=
  ofor 0 8 (fun i v => match rd_temp arr (from + i) with
                       | Some b => Some (set_lane 8 i b v) | None => None end) 0.

Definition srcq_64_rd_s3 (qs0 qs1 low_high : Z) (t : tie) : option Z :=
  let shift := SAR_BYTE t in
  let temp_arr := concat_q (Q t qs0) (Q t qs1) in
  if low_high =? 0 then read_temp_64 temp_arr shift
  else if low_high =? 1 then read_temp_64 temp_arr (shift + 8)
  else Some (lane 64 low_high (Q t qs0)).

Definition src_q_s3 (qa qs0 qs1 op_type : Z) (t : tie) : option tie :=
  let sar := SAR_BYTE t in
  let wr_tmp i v tmp := if (0 <=? i) && (i <? 16) then Some (set_lane 8 i v tmp) else None in
  match ofor 0 (16 - sar) (fun i tmp =>
          match rd_u8 (Q t qs0) (i + sar) with Some v => wr_tmp i v tmp | None => None end) 0 with
  | None => None
  | Some tmp =>
      match ofor 0 sar (fun i tmp =>
              match rd_u8 (Q t qs1) i with Some v => wr_tmp (16 - sar + i) v tmp | None => None end) tmp with
      | None => None
      | Some tmp =>
          let t := set_Q_lane 64 qa 1 (lane 64 1 tmp) (set_Q_lane 64 qa 0 (lane 64 0 tmp) t) in
          Some (if op_type =? vmul_qup then upd_lanes 8 16 qs0 (fun i t => lane 8 i (Q t qs1)) t else t)
      end
  end.

Definition fft_ams_s16_ld_incp_uaup (qu data_low data_high : Z) (t : tie) : option tie :=
  let data := concat_q_64 data_low data_high in
  let in_data := concat_q (UA_STATE t) data in
  let shift := SAR_BYTE t in
  match ofor 0 16 (fun i t =>
          match rd_temp in_data (i + shift) with Some v => wr_u8 qu i v t | None => None end) t with
  | None => None
  | Some t => Some (set_UA_STATE data t)
  end.

(** ** Checked loops *)

Lemma ofor_ind {A} (I : Z -> A -> Prop) lo hi (body : Z -> A -> option A) a :
  lo <= hi -> I lo a ->
  (forall i a, lo <= i < hi -> I i a -> exists a', body i a = Some a' /\ I (i + 1) a') ->
  exists a', ofor lo hi body a = Some a' /\ I hi a'.
Proof.
  intros Hle. remember (Z.to_nat (hi - lo)) as k eqn:Ek. revert lo a Hle Ek.
  induction k as [|k IH]; intros lo a Hle Ek H0 Hs.
  - assert (lo = hi) as -> by lia. exists a. unfold ofor. rewrite seqZ_nil by lia. done.
  - destruct (Hs lo a ltac:(lia) H0) as (a1 & E1 & H1).
    destruct (IH (lo + 1) a1) as (a' & E & H); [lia|lia|done| |].
    { intros i b Hi. apply Hs. lia. }
    exists a'. split; [|done]. unfold ofor in *. rewrite seqZ_cons by lia. cbn [foldl]. rewrite E1.
    rewrite <- E. f_equal. f_equal; lia.
Qed.

Lemma ofor_none {A} lo hi (body : Z -> A -> option A) a k :
  lo <= k < hi -> (forall a, body k a = None) -> ofor lo hi body a = None.
Proof.
  intros Hk Hn. unfold ofor.
  assert (Hin : k ∈ seqZ lo (hi - lo)) by (apply elem_of_seqZ; lia).
  apply list_elem_of_split in Hin as (l1 & l2 & ->). rewrite foldl_app. cbn [foldl].
  match goal with |- foldl ?f (match ?o with _ => _ end) _ = _ => assert (match o with
    Some a => body k a | None => None end = None) as -> by (by destruct o) end.
  induction l2 as [|x l2 IH]; [done|]. apply IH.
Qed.

Lemma ofor_empty {A} lo hi (body : Z -> A -> option A) a : hi <= lo -> ofor lo hi body a = Some a.
Proof. intros. unfold ofor. by rewrite seqZ_nil by lia. Qed.

Lemma rd_u8_in q i : 0 <= i < 16 -> rd_u8 q i = Some (lane 8 i q).
Proof. intros. unfold rd_u8. by rewrite (proj2 (Z.leb_le 0 i)), (proj2 (Z.ltb_lt i 16)) by lia. Qed.
Lemma wr_u8_in r i v t : 0 <= i < 16 -> wr_u8 r i v t = Some (set_Q_lane 8 r i v t).
Proof. intros. unfold wr_u8. by rewrite (proj2 (Z.leb_le 0 i)), (proj2 (Z.ltb_lt i 16)) by lia. Qed.
Lemma rd_temp_in q i : 0 <= i < 32 -> rd_temp q i = Some (lane 8 i q).
Proof. intros. unfold rd_temp. by rewrite (proj2 (Z.leb_le 0 i)), (proj2 (Z.ltb_lt i 32)) by lia. Qed.
Lemma wr_u8_out r i v t : i < 0 \/ 16 <= i -> wr_u8 r i v t = None.
Proof. intros. unfold wr_u8. destruct (Z.leb_spec 0 i), (Z.ltb_spec i 16); try done; lia. Qed.
Lemma rd_temp_out q i : i < 0 \/ 32 <= i -> rd_temp q i = None.
Proof. intros. unfold rd_temp. destruct (Z.leb_spec 0 i), (Z.ltb_spec i 32); try done; lia. Qed.

(** ** The concatenation of two registers *)

Lemma concat_q_lane q0 q1 i :
  in128 q0 -> 0 <= i < 32 ->
  lane 8 i (concat_q q0 q1) = if i <? 16 then lane 8 i q0 else lane 8 (i - 16) q1.
Proof.
  intros H0 Hi. unfold concat_q. zbits. destruct (Z.ltb_spec i0 8); cbn [andb].
  - destruct (Z.ltb_spec i 16); rewrite lane_testbit, (proj2 (Z.ltb_lt i0 8)) by lia; cbn [andb].
    + rewrite (Z.testbit_neg_r q1) by lia. apply orb_false_r.
    + rewrite (testbit_above 128) by (done || lia). cbn. f_equal. lia.
  - by destruct (Z.ltb_spec i 16); rewrite lane_testbit, (proj2 (Z.ltb_ge i0 8)) by lia.
Qed.

Lemma concat_q_range q0 q1 : in128 q0 -> in128 q1 -> 0 <= concat_q q0 q1 < 2 ^ 256.
Proof.
  intros H0 H1. unfold concat_q, in128 in *. apply lor_range; [lia|].
  rewrite Z.shiftl_mul_pow2 by lia. replace (2 ^ 256) with (2 ^ 128 * 2 ^ 128) by lia. nia.
Qed.

(** Sixteen bytes of the concatenation from byte [s] on. *)
Definition funnel (q0 q1 s : Z) : Z := lane 128 0 (concat_q q0 q1 >>> (8 * s)).

Lemma funnel_range q0 q1 s : in128 (funnel q0 q1 s).
Proof. apply lane_range. lia. Qed.

Lemma funnel_lane q0 q1 s i :
  in128 q0 -> 0 <= s <= 16 -> 0 <= i < 16 ->
  lane 8 i (funnel q0 q1 s) = if i + s <? 16 then lane 8 (i + s) q0 else lane 8 (i + s - 16) q1.
Proof.
  intros H0 Hs Hi. unfold funnel. change 128 with (8 * 16). rewrite lane_lane by lia.
  rewrite Z.mul_0_l, Z.add_0_l, lane_shiftr by lia. apply concat_q_lane; [done|lia].
Qed.

(** A register whose bytes are those of the concatenation. *)
Lemma funnel_unique q0 q1 s v :
  in128 q0 -> 0 <= s <= 16 -> in128 v ->
  (forall j, 0 <= j < 16 - s -> lane 8 j v = lane 8 (j + s) q0) ->
  (forall j, 0 <= j < s -> lane 8 (16 - s + j) v = lane 8 j q1) -> v = funnel q0 q1 s.
Proof.
  intros H0 Hs Hv Hlo Hhi. apply (lane_ext 16 8); [lia|done|apply funnel_range|].
  intros i Hi. rewrite funnel_lane by (done || lia). destruct (Z.ltb_spec (i + s) 16).
  - apply Hlo. lia.
  - replace i with (16 - s + (i - (16 - s))) at 1 by lia. rewrite Hhi by lia. f_equal. lia.
Qed.

Lemma set_byte_range i v q : 0 <= i < 16 -> in128 q -> in128 (set_lane 8 i v q).
Proof. intros. apply set_lane_range; unfold in128 in *; lia. Qed.

Lemma set_both_halves q tmp :
  in128 q -> in128 tmp ->
  set_lane 64 1 (lane 64 1 tmp) (set_lane 64 0 (lane 64 0 tmp) q) = tmp.
Proof.
  intros Hq Ht. apply (lane_ext 2 64); [lia| |done|].
  - apply set_lane_range; [lia..|]. apply set_lane_range; [lia..|done].
  - intros i Hi. assert (Hc : i = 0 \/ i = 1) by lia. destruct Hc as [-> | ->].
    + by rewrite lane_set_lane_ne, lane_set_lane_eq, lane_mod by lia.
    + by rewrite lane_set_lane_eq, lane_mod by lia.
Qed.

(** The value [src_q] builds in its temporary. *)
Lemma src_q_value qa qs0 qs1 op t :
  tie_wf t -> SAR_BYTE t <= 16 ->
  let v := funnel (Q t qs0) (Q t qs1) (SAR_BYTE t) in
  exists t1, Q t1 qa = v /\ (forall r, r <> qa -> Q t1 r = Q t r) /\ rest t1 = rest t /\ tie_wf t1 /\
  src_q_s3 qa qs0 qs1 op t =
    Some (if op =? vmul_qup then upd_lanes 8 16 qs0 (fun i t => lane 8 i (Q t qs1)) t1 else t1).
Proof.
  intros Ht Hs v. pose proof (wf_SAR_BYTE t Ht) as Hs0. unfold src_q_s3. set (sar := SAR_BYTE t) in *.
  edestruct (ofor_ind (fun i tmp => in128 tmp /\
    forall j, 0 <= j < i -> lane 8 j tmp = lane 8 (j + sar) (Q t qs0)) 0 (16 - sar))
    as (tmp1 & -> & Hr1 & Hl1); [lia|split; [unfold in128; lia|lia]| |].
  { intros i tmp Hi [Hr Hl]. rewrite rd_u8_in by lia.
    rewrite (proj2 (Z.leb_le 0 i)), (proj2 (Z.ltb_lt i 16)) by lia. cbn [andb].
    eexists. split; [done|]. split; [by apply set_byte_range; [lia|]|].
    intros j Hj. destruct (Z.eq_dec j i) as [->|Hji]; [by rewrite lane_set_lane_eq, lane_mod by lia|].
    rewrite lane_set_lane_ne by lia. apply Hl. lia. }
  edestruct (ofor_ind (fun i tmp => in128 tmp /\
    (forall j, 0 <= j < 16 - sar -> lane 8 j tmp = lane 8 (j + sar) (Q t qs0)) /\
    forall j, 0 <= j < i -> lane 8 (16 - sar + j) tmp = lane 8 j (Q t qs1)) 0 sar)
    as (tmp2 & -> & Hr2 & Hl2 & Hh2); [lia|split_and!; [done|done|lia]| |].
  { intros i tmp Hi (Hr & Hl & Hh). rewrite rd_u8_in by lia.
    rewrite (proj2 (Z.leb_le 0 (16 - sar + i))), (proj2 (Z.ltb_lt (16 - sar + i) 16)) by lia.
    cbn [andb]. eexists. split; [done|]. split_and!; [by apply set_byte_range; [lia|]| |].
    - intros j Hj. rewrite lane_set_lane_ne by lia. by apply Hl.
    - intros j Hj. destruct (Z.eq_dec j i) as [->|Hji]; [by rewrite lane_set_lane_eq, lane_mod by lia|].
      rewrite lane_set_lane_ne by lia. apply Hh. lia. }
  assert (E : tmp2 = v) by (apply funnel_unique; try done; try apply Ht; lia). rewrite E.
  eexists. split_and!; [| | | |reflexivity].
  - rewrite !Q_set_Q_lane_eq. apply set_both_halves; [apply Ht|apply funnel_range].
  - intros r Hr. by rewrite !Q_set_Q_lane_other.
  - done.
  - apply wf_set_Q_lane; [apply wf_set_Q_lane; [done|lia..]|lia..].
Qed.

(** ** Shifting a register pair *)

(** Keep a frame while one register is written byte by byte. *)
Definition bytes_done (r lo hi : Z) (f : Z -> Z) (t0 t : tie) : Prop :=
  tie_wf t /\ (forall r', r' <> r -> Q t r' = Q t0 r') /\ rest t = rest t0 /\
  (forall j, 0 <= j < lo -> lane 8 j (Q t r) = lane 8 j (Q t0 r)) /\
  (forall j, lo <= j < hi -> lane 8 j (Q t r) = f j).

(** A loop that writes bytes [lo .. hi - 1] of a register. *)
Lemma write_bytes r lo hi (f : Z -> Z) (body : Z -> tie -> option tie) t :
  tie_wf t -> 0 <= lo <= hi -> hi <= 16 ->
  (forall i t', lo <= i < hi -> body i t' = Some (set_Q_lane 8 r i (f i) t')) ->
  (forall i, lo <= i < hi -> 0 <= f i < 2 ^ 8) ->
  exists t', ofor lo hi body t = Some t' /\ bytes_done r lo hi f t t'.
Proof.
  intros Ht Hlo Hhi Hb Hf.
  apply (ofor_ind (fun i t' => bytes_done r lo i f t t')); [lia| |].
  { split_and!; try done. lia. }
  intros i t' Hi (H1 & H2 & H3 & H4 & H5). rewrite Hb by lia. eexists. split; [done|].
  split_and!.
  - apply wf_set_Q_lane; [done|lia..].
  - intros r' Hr. rewrite Q_set_Q_lane_other by done. by apply H2.
  - by rewrite rest_set_Q_lane.
  - intros j Hj. rewrite lane_set_Q_lane_ne by lia. by apply H4.
  - intros j Hj. destruct (Z.eq_dec j i) as [->|Hji].
    + rewrite Q_set_Q_lane_eq, lane_set_lane_eq by lia. apply Z.mod_small, Hf. lia.
    + rewrite lane_set_Q_lane_ne by lia. apply H5. lia.
Qed.

Section Sxci.
Context (qs0 qs1 sar : Z) (t : tie) (Ht : tie_wf t) (Hne : qs0 <> qs1).
Context (s : Z) (Hs : s32 (sar + 1) = s) (Hsar : 0 <= s <= 16).

Abbreviation V := (concat_q (Q t qs0) (Q t qs1)).

Lemma copy_in r k i t' : 0 <= k < 32 -> 0 <= i < 16 ->
  match rd_temp V k with Some v => wr_u8 r i v t' | None => None end =
    Some (set_Q_lane 8 r i (lane 8 k V) t').
Proof. intros. rewrite rd_temp_in by done. by rewrite wr_u8_in. Qed.

Lemma pair_ext t' W :
  tie_wf t' -> 0 <= W < 2 ^ 256 ->
  (forall j, 0 <= j < 16 -> lane 8 j (Q t' qs0) = lane 8 j W) ->
  (forall j, 0 <= j < 16 -> lane 8 j (Q t' qs1) = lane 8 (j + 16) W) ->
  concat_q (Q t' qs0) (Q t' qs1) = W.
Proof.
  intros Hw HW H0 H1. apply (lane_ext 32 8); [lia| |done|].
  - apply concat_q_range; apply Hw.
  - intros i Hi. rewrite concat_q_lane by (apply Hw || lia).
    destruct (Z.ltb_spec i 16); [apply H0; lia|]. rewrite H1 by lia. f_equal. lia.
Qed.

Lemma sxci_left :
  exists t', sxci_2q_s3 qs0 qs1 sar bw_shift_left t = Some t' /\
    concat_q (Q t' qs0) (Q t' qs1) = Z.shiftl V (8 * s) mod 2 ^ 256 /\
    (forall r, r <> qs0 -> r <> qs1 -> Q t' r = Q t r) /\ rest t' = rest t.
Proof.
  unfold sxci_2q_s3. rewrite Hs. cbn [Z.eqb Pos.eqb].
  destruct (write_bytes qs0 0 s (fun _ => 0) (fun i => wr_u8 qs0 i 0) t) as
    (t1 & -> & W1 & F1 & R1 & _ & D1); [done|lia|lia|intros; by apply wr_u8_in; lia|lia|].
  destruct (write_bytes qs0 s 16 (fun i => lane 8 (i - s) V)
    (fun i t' => match rd_temp V (i - s) with Some v => wr_u8 qs0 i v t' | None => None end) t1)
    as (t2 & -> & W2 & F2 & R2 & K2 & D2);
    [done|lia|lia|intros; apply copy_in; lia|intros; apply lane_range; lia|].
  destruct (write_bytes qs1 0 16 (fun i => lane 8 (16 - s + i) V)
    (fun i t' => match rd_temp V (16 - s + i) with Some v => wr_u8 qs1 i v t' | None => None end) t2)
    as (t3 & -> & W3 & F3 & R3 & _ & D3);
    [done|lia|lia|intros; apply copy_in; lia|intros; apply lane_range; lia|].
  assert (Hsh : forall j, 0 <= j < 32 -> lane 8 j (Z.shiftl V (8 * s) mod 2 ^ 256) =
    if j <? s then 0 else lane 8 (j - s) V).
  { intros j Hj. rewrite lane_mod_low by lia. zbits. destruct (Z.ltb_spec j s).
    - destruct (Z.ltb_spec i 8); [|by rewrite Z.testbit_0_l].
      by rewrite (Z.testbit_neg_r V), Z.testbit_0_l by lia.
    - rewrite lane_testbit by lia. do 2 f_equal. lia. }
  exists t3. split_and!; [done| | |by rewrite R3, R2, R1].
  - apply pair_ext; [done|apply Z.mod_pos_bound; lia| |].
    + intros j Hj. rewrite F3, Hsh by (auto || lia). destruct (Z.ltb_spec j s).
      * rewrite K2, D1 by lia. done.
      * apply D2. lia.
    + intros j Hj. rewrite D3, Hsh, (proj2 (Z.ltb_ge (j + 16) s)) by lia. f_equal. lia.
  - intros r H0 H1. by rewrite F3, F2, F1.
Qed.

Lemma sxci_right :
  exists t', sxci_2q_s3 qs0 qs1 sar bw_shift_right t = Some t' /\
    concat_q (Q t' qs0) (Q t' qs1) = V >>> (8 * s) /\
    (forall r, r <> qs0 -> r <> qs1 -> Q t' r = Q t r) /\ rest t' = rest t.
Proof.
  unfold sxci_2q_s3. rewrite Hs. cbn [Z.eqb Pos.eqb].
  destruct (write_bytes qs0 0 16 (fun i => lane 8 (i + s) V)
    (fun i t' => match rd_temp V (i + s) with Some v => wr_u8 qs0 i v t' | None => None end) t)
    as (t1 & -> & W1 & F1 & R1 & _ & D1);
    [done|lia|lia|intros; apply copy_in; lia|intros; apply lane_range; lia|].
  destruct (write_bytes qs1 0 (16 - s) (fun i => lane 8 (i + s + 16) V)
    (fun i t' => match rd_temp V (i + s + 16) with Some v => wr_u8 qs1 i v t' | None => None end) t1)
    as (t2 & -> & W2 & F2 & R2 & _ & D2);
    [done|lia|lia|intros; apply copy_in; lia|intros; apply lane_range; lia|].
  destruct (write_bytes qs1 (16 - s) 16 (fun _ => 0) (fun i => wr_u8 qs1 i 0) t2) as
    (t3 & -> & W3 & F3 & R3 & K3 & D3); [done|lia|lia|intros; by apply wr_u8_in; lia|lia|].
  pose proof (concat_q_range (Q t qs0) (Q t qs1) (wf_Q t Ht _) (wf_Q t Ht _)) as HV.
  assert (Hz : forall j, 32 <= j -> lane 8 j V = 0).
  { intros j Hj. zbits. rewrite (testbit_above 256) by lia. apply andb_false_r. }
  exists t3. split_and!; [done| | |by rewrite R3, R2, R1].
  - apply pair_ext; [done|by apply shiftr_range; [lia|]| |].
    + intros j Hj. rewrite F3, F2, D1, lane_shiftr by (auto || lia). done.
    + intros j Hj. rewrite lane_shiftr by lia. destruct (Z.ltb_spec j (16 - s)).
      * rewrite K3, D2 by lia. f_equal. lia.
      * rewrite D3, Hz by lia. done.
  - intros r H0 H1. by rewrite F3, F2, F1.
Qed.
End Sxci.

(** EE.SLCI.2Q and EE.SRCI.2Q shift the 256-bit concatenation of two
    different registers by [sar + 1] bytes to the left and to the right; bytes
    shifted out are lost, zero bytes come in, and nothing else changes. *)
Theorem sxci_shifts_pair (qs0 qs1 sar : Z) (t : tie) :
  tie_wf t -> qs0 <> qs1 -> 0 <= sar < 16 ->
  (exists t', sxci_2q_s3 qs0 qs1 sar bw_shift_left t = Some t' /\
     concat_q (Q t' qs0) (Q t' qs1) =
       Z.shiftl (concat_q (Q t qs0) (Q t qs1)) (8 * (sar + 1)) mod 2 ^ 256 /\
     (forall r, r <> qs0 -> r <> qs1 -> Q t' r = Q t r) /\ rest t' = rest t) /\
  (exists t', sxci_2q_s3 qs0 qs1 sar bw_shift_right t = Some t' /\
     concat_q (Q t' qs0) (Q t' qs1) = concat_q (Q t qs0) (Q t qs1) >>> (8 * (sar + 1)) /\
     (forall r, r <> qs0 -> r <> qs1 -> Q t' r = Q t r) /\ rest t' = rest t).
Proof.
  intros Ht Hne Hs. assert (E : s32 (sar + 1) = sar + 1) by (rewrite s32_sext; apply sext_small; lia).
  split; [apply sxci_left|apply sxci_right]; done || lia.
Qed.

Lemma sxci_shifts_pair_witness :
  exists t', sxci_2q_s3 0 1 2 bw_shift_right (set_Q 1 0x030201 tie_zero) = Some t' /\
    concat_q (Q t' 0) (Q t' 1) = 0x030201 * 2 ^ 104.
Proof.
  destruct (sxci_shifts_pair 0 1 2 (set_Q 1 0x030201 tie_zero)) as [_ (t' & E & V & _)].
  - apply wf_set_Q; [apply tie_zero_wf|unfold in128; lia].
  - lia.
  - lia.
  - exists t'. split; [done|]. rewrite V. reflexivity.
Defined.

(** ** Three implementations of the unaligned access *)

Lemma qup_value qs0 qs1 t :
  tie_wf t -> SAR_BYTE t <= 16 -> qs0 <> qs1 ->
  exists t', vmulas_qup_s3 qs0 qs1 t = Some t' /\
    Q t' qs0 = funnel (Q t qs0) (Q t qs1) (SAR_BYTE t) /\
    (forall r, r <> qs0 -> Q t' r = Q t r) /\ rest t' = rest t.
Proof.
  intros Ht Hs Hne. pose proof (wf_SAR_BYTE t Ht) as Hs0. unfold vmulas_qup_s3.
  set (sh := SAR_BYTE t) in *.
  edestruct (ofor_ind (fun i t' => tie_wf t' /\ (forall r, r <> qs0 -> Q t' r = Q t r) /\
    rest t' = rest t /\ (forall j, 0 <= j < i -> lane 8 j (Q t' qs0) = lane 8 (j + sh) (Q t qs0)) /\
    (forall j, i <= j < 16 -> lane 8 j (Q t' qs0) = lane 8 j (Q t qs0))) 0 (16 - sh))
    as (t1 & -> & W1 & F1 & R1 & L1 & _); [lia|split_and!; done || lia| |].
  { intros i t' Hi (W & F & R & L & K). rewrite rd_u8_in, wr_u8_in by lia.
    eexists. split; [done|]. rewrite rest_set_Q_lane. split_and!; [| |done| |].
    - apply wf_set_Q_lane; [done|lia..].
    - intros r Hr. rewrite Q_set_Q_lane_other by done. by apply F.
    - intros j Hj. destruct (Z.eq_dec j i) as [->|].
      + rewrite Q_set_Q_lane_eq, lane_set_lane_eq, lane_mod by lia. apply K. lia.
      + rewrite lane_set_Q_lane_ne by lia. apply L. lia.
    - intros j Hj. rewrite lane_set_Q_lane_ne by lia. apply K. lia. }
  edestruct (ofor_ind (fun i t' => bytes_done qs0 (16 - sh) i
    (fun i => lane 8 (i - (16 - sh)) (Q t qs1)) t1 t') (16 - sh) 16)
    as (t3 & -> & W3 & F3 & R3 & L3 & K3); [lia|split_and!; done || lia| |].
  { intros i t' Hi (W & F & R & L & K). rewrite F, F1 by done.
    rewrite rd_u8_in, wr_u8_in by lia. eexists. split; [done|].
    split_and!; [| |by rewrite rest_set_Q_lane| |].
    - apply wf_set_Q_lane; [done|lia..].
    - intros r Hr. rewrite Q_set_Q_lane_other by done. by apply F.
    - intros j Hj. rewrite lane_set_Q_lane_ne by lia. by apply L.
    - intros j Hj. destruct (Z.eq_dec j i) as [->|].
      + by rewrite Q_set_Q_lane_eq, lane_set_lane_eq, lane_mod by lia.
      + rewrite lane_set_Q_lane_ne by lia. apply K. lia. }
  exists t3. split_and!; [done| | |by rewrite R3].
  - apply funnel_unique; [apply Ht|lia|apply W3| |].
    + intros j Hj. rewrite L3 by lia. by apply L1.
    + intros j Hj. rewrite K3 by lia. f_equal. lia.
  - intros r Hr. by rewrite F3, F1.
Qed.

(** Eight bytes of the array are a 64-bit lane of the shifted array. *)
Lemma read_temp_64_in arr from :
  0 <= from -> from + 8 <= 32 -> read_temp_64 arr from = Some (lane 64 0 (arr >>> (8 * from))).
Proof.
  intros H0 H1. unfold read_temp_64.
  edestruct (ofor_ind (fun i v => 0 <= v < 2 ^ 64 /\
    forall j, 0 <= j < i -> lane 8 j v = lane 8 (from + j) arr) 0 8)
    as (v & -> & Hr & Hl); [lia|split; lia| |].
  { intros i v Hi [Hr Hl]. rewrite rd_temp_in by lia. eexists. split; [done|].
    split; [apply set_lane_range; lia|]. intros j Hj. destruct (Z.eq_dec j i) as [->|].
    - by rewrite lane_set_lane_eq, lane_mod by lia.
    - rewrite lane_set_lane_ne by lia. apply Hl. lia. }
  f_equal. change 64 with (8 * 8). apply (lane_ext 8 8); [lia|done|apply lane_range; lia|].
  intros j Hj. rewrite lane_lane, lane_shiftr, Hl by lia. f_equal. lia.
Qed.

(** The three ways to extract 16 bytes at an unaligned position agree.  For
    SAR_BYTE up to 16, EE.SRC.Q, the register update of the QUP forms and the
    two halves stored by EE.SRCQ.128.ST.INCP all give bytes SAR_BYTE to
    SAR_BYTE + 15 of the concatenation of the two registers. *)
Theorem unaligned_extract_agree (qa qs0 qs1 : Z) (t : tie) :
  tie_wf t -> SAR_BYTE t <= 16 -> qs0 <> qs1 ->
  let v := funnel (Q t qs0) (Q t qs1) (SAR_BYTE t) in
  (exists t', src_q_s3 qa qs0 qs1 0 t = Some t' /\ Q t' qa = v /\
     (forall r, r <> qa -> Q t' r = Q t r) /\ rest t' = rest t) /\
  (exists t', vmulas_qup_s3 qs0 qs1 t = Some t' /\ Q t' qs0 = v /\
     (forall r, r <> qs0 -> Q t' r = Q t r) /\ rest t' = rest t) /\
  srcq_64_rd_s3 qs0 qs1 0 t = Some (lane 64 0 v) /\
  srcq_64_rd_s3 qs0 qs1 1 t = Some (lane 64 1 v).
Proof.
  intros Ht Hs Hne v. pose proof (wf_SAR_BYTE t Ht) as Hs0. split_and!.
  - destruct (src_q_value qa qs0 qs1 0 t Ht Hs) as (t1 & H1 & H2 & H3 & _ & H4).
    exists t1. done.
  - by apply qup_value.
  - unfold srcq_64_rd_s3. cbn [Z.eqb]. rewrite read_temp_64_in by lia. subst v. unfold funnel.
    change 128 with (64 * 2). by rewrite lane_lane by lia.
  - unfold srcq_64_rd_s3. cbn [Z.eqb]. rewrite read_temp_64_in by lia. subst v. unfold funnel.
    change 128 with (64 * 2). rewrite lane_lane by lia. f_equal.
    rewrite Z.mul_add_distr_l, <- Z.shiftr_shiftr by lia. change (8 * 8) with (64 * 1).
    rewrite lane_shiftr by lia. done.
Qed.

Lemma unaligned_extract_agree_witness :
  srcq_64_rd_s3 0 1 0 (set_SAR_BYTE 15 (set_Q 1 0x1122 (set_Q 0 (0x33 * 2 ^ 120) tie_zero))) =
    Some 0x112233.
Proof.
  pose proof (unaligned_extract_agree 2 0 1
    (set_SAR_BYTE 15 (set_Q 1 0x1122 (set_Q 0 (0x33 * 2 ^ 120) tie_zero)))) as H.
  destruct H as (_ & _ & E & _).
  - apply (wf_set_SAR_BYTE 15). repeat apply wf_set_Q; [apply tie_zero_wf|unfold in128; lia..].
  - cbn. lia.
  - lia.
  - rewrite E. reflexivity.
Defined.

(** ** Accesses outside the arrays *)

Lemma src_q_out qa qs0 qs1 op t : 16 < SAR_BYTE t -> src_q_s3 qa qs0 qs1 op t = None.
Proof.
  intros Hs. unfold src_q_s3. rewrite ofor_empty by lia. erewrite (ofor_none 0 (SAR_BYTE t) _ 0 0).
  - done.
  - lia.
  - intros tmp. rewrite rd_u8_in by lia. by rewrite (proj2 (Z.leb_gt 0 (16 - SAR_BYTE t + 0))) by lia.
Qed.

Lemma qup_out qs0 qs1 t : 16 < SAR_BYTE t -> vmulas_qup_s3 qs0 qs1 t = None.
Proof.
  intros Hs. unfold vmulas_qup_s3. rewrite ofor_empty by lia.
  apply (ofor_none _ _ _ _ (16 - SAR_BYTE t)); [lia|]. intros t'.
  rewrite rd_u8_in by lia. apply wr_u8_out. lia.
Qed.

Lemma sxci_out qs0 qs1 sar op t :
  op = bw_shift_left \/ op = bw_shift_right -> s32 (sar + 1) < 0 \/ 16 < s32 (sar + 1) ->
  sxci_2q_s3 qs0 qs1 sar op t = None.
Proof.
  intros Hop Hs. unfold sxci_2q_s3. set (sh := s32 (sar + 1)) in *. clearbody sh.
  destruct Hop as [-> | ->]; cbn [Z.eqb Pos.eqb].
  - destruct (Z.ltb_spec sh 0).
    + rewrite ofor_empty by lia. rewrite (ofor_none sh 16 _ _ sh); [done|lia|].
      intros t'. rewrite rd_temp_in by lia. apply wr_u8_out. lia.
    + rewrite (ofor_none 0 sh _ _ 16); [done|lia|]. intros t'. apply wr_u8_out. lia.
  - destruct (Z.ltb_spec sh 0).
    + rewrite (ofor_none 0 16 _ _ 0); [done|lia|]. intros t'. by rewrite rd_temp_out by lia.
    + rewrite (ofor_none 0 16 _ _ 15); [done|lia|]. intros t'. by rewrite rd_temp_out by lia.
Qed.

(** The byte shifts stay inside their arrays exactly for counts up to 16.
    With SAR_BYTE above 16, which WUR.SAR_BYTE can set, EE.SRC.Q and the QUP
    forms write outside the register array, and EE.SLCXXP.2Q / EE.SRCXXP.2Q do
    so for every address register whose value plus one is not between 0 and 16
    as a signed number. *)
Theorem byte_shift_bounds (qa qs0 qs1 sar op : Z) (t : tie) :
  tie_wf t -> qs0 <> qs1 -> op = bw_shift_left \/ op = bw_shift_right ->
  (src_q_s3 qa qs0 qs1 0 t = None <-> 16 < SAR_BYTE t) /\
  (vmulas_qup_s3 qs0 qs1 t = None <-> 16 < SAR_BYTE t) /\
  (sxci_2q_s3 qs0 qs1 sar op t = None <-> ~ 0 <= s32 (sar + 1) <= 16).
Proof.
  intros Ht Hne Hop. split_and!.
  - split; [|apply src_q_out]. intros E. destruct (Z.ltb_spec 16 (SAR_BYTE t)) as [|Hs]; [done|].
    destruct (src_q_value qa qs0 qs1 0 t Ht Hs) as (t1 & _ & _ & _ & _ & E'). congruence.
  - split; [|apply qup_out]. intros E. destruct (Z.ltb_spec 16 (SAR_BYTE t)) as [|Hs]; [done|].
    destruct (qup_value qs0 qs1 t Ht Hs Hne) as (t1 & E' & _). congruence.
  - split; [|intros; apply sxci_out; [done|lia]]. intros E Hs.
    destruct Hop as [-> | ->].
    + destruct (sxci_left qs0 qs1 sar t Ht Hne _ eq_refl Hs) as (t1 & E' & _). congruence.
    + destruct (sxci_right qs0 qs1 sar t Ht Hne _ eq_refl Hs) as (t1 & E' & _). congruence.
Qed.

Lemma byte_shift_bounds_witness :
  vmulas_qup_s3 0 1 (set_SAR_BYTE 200 tie_zero) = None /\
  sxci_2q_s3 0 1 0x40000000 bw_shift_left (set_SAR_BYTE 200 tie_zero) = None.
Proof.
  destruct (byte_shift_bounds 0 0 1 0x40000000 bw_shift_left (set_SAR_BYTE 200 tie_zero))
    as (_ & H1 & H2).
  - apply (wf_set_SAR_BYTE 200), tie_zero_wf.
  - lia.
  - by left.
  - split; [apply H1; cbn; lia|]. apply H2. vm_compute. intros [_ H]. by destruct H.
Defined.
