(* ===== verification/TieFft.v ===== *)
(** * The ESP32-S3 vector unit: butterflies, bit reversal and the remaining
    helpers ([translate_tie_esp32s3.c])

    The FFT helpers work on pairs of 16-bit lanes (real, imaginary); a helper
    that returns the 64-bit word to be stored builds it lane by lane.  Also
    here are the GPIO output, the accumulator transfers and the indexed
    accesses. *)

From S2P Require Import Prelude Cpu Arith Lanes Tie TieArith TieShift.

#[local] Open Scope mach_scope.

Abbreviation tie := CPUXtensaEsp32s3State (only parsing).

Abbreviation gpio_mask := 0 (only parsing).
Abbreviation gpio_set := 1 (only parsing).
Abbreviation gpio_clr := 2 (only parsing).
Abbreviation gpio_in := 3 (only parsing).

(** [int16_t p[4]] at the address of [result], one assignment per lane. *)
Definition pack4 (a b c d : Z) : Z :=
  set_lane 16 3 d (set_lane 16 2 c (set_lane 16 1 b (set_lane 16 0 a 0))).

(** ** Radix-2 butterflies *)

Definition r2bf_st_low_s3 (qa0 qx qy sar4 : Z) (t : tie) : Z * tie :=
  let t := upd_lanes 16 8 qa0 (fun i t => slane 16 i (Q t qx) - slane 16 i (Q t qy)) t in
  let r i := (slane 16 i (Q t qx) + slane 16 i (Q t qy)) >>> sar4 in
  (pack4 (r 0) (r 1) (r 2) (r 3), t).

Definition r2bf_st_high_s3 (qa0 qx qy sar4 : Z) (t : tie) : Z :=
  let r i := (slane 16 (i + 4) (Q t qx) + slane 16 (i + 4) (Q t qy)) >>> sar4 in
  pack4 (r 0) (r 1) (r 2) (r 3).

(** [op_a] and [op_b] are filled from both sources before anything is written. *)
Definition r2bf_s3 (qa0 qa1 qx qy sel2 : Z) (t : tie) : tie :=
  let x k := slane 16 k (Q t qx) in
  let y k := slane 16 k (Q t qy) in
  let op_a k :=
    if sel2 =? 0 then if k <? 4 then x k else y (k - 4)
    else if sel2 =? 1 then nthZ [x 0; x 1; x 4; x 5; y 0; y 1; y 4; y 5] k
    else 0 in
  let op_b k :=
    if sel2 =? 0 then if k <? 4 then x (k + 4) else y k
    else if sel2 =? 1 then nthZ [x 2; x 3; x 6; x 7; y 2; y 3; y 6; y 7] k
    else 0 in
  let half q o t := upd_lanes 16 8 q (fun i _ =>
    if i <? 4 then op_a (o + i) + op_b (o + i) else op_a (o + (i - 4)) - op_b (o + (i - 4))) t in
  half qa1 4 (half qa0 0 t).

(** ** Complex multiplication with a twiddle factor *)

(** The products at the pair [b], [b + 1]; [conj] multiplies with the
    conjugate. *)
Definition cmul_re (b : Z) (conj : bool) (qx qy : Z) (t : tie) : Z :=
  let x k := slane 16 k (Q t qx) in let y k := slane 16 k (Q t qy) in
  if conj then x b * y b + x (b + 1) * y (b + 1) else x b * y b - x (b + 1) * y (b + 1).
Definition cmul_im (b : Z) (conj : bool) (qx qy : Z) (t : tie) : Z :=
  let x k := slane 16 k (Q t qx) in let y k := slane 16 k (Q t qy) in
  if conj then x (b + 1) * y b - x b * y (b + 1) else x (b + 1) * y b + x b * y (b + 1).

(** The selector is even for the conjugate and names the pair [sel8 / 2].  The
    imaginary part reads the registers after the real part was written. *)
Definition fft_cmul_ld_s3 (qz qx qy sel8 sar : Z) (t : tie) : tie :=
  if (0 <=? sel8) && (sel8 <=? 5) then
    let b := 2 * (sel8 / 2) in
    let conj := sel8 mod 2 =? 0 in
    let t := set_Q_lane 16 qz b (cmul_re b conj qx qy t >>> sar) t in
    set_Q_lane 16 qz (b + 1) (cmul_im b conj qx qy t >>> sar) t
  else t.

Definition fft_cmul_st_low_s3 (qx qy qv sel8 upd4 sar4 sar : Z) (t : tie) : Z :=
  let v k := slane 16 k (Q t qv) in
  let x k := slane 16 k (Q t qx) >>> sar4 in
  if upd4 =? 0 then pack4 (v 0) (v 1) (v 2) (v 3)
  else if upd4 =? 1 then pack4 (x 0) (x 1) (x 2) (x 3)
  else if upd4 =? 2 then pack4 (x 0) (x 1) (v 4) (v 5)
  else 0.

Definition fft_cmul_st_high_s3 (qx qy qv sel8 upd4 sar4 sar : Z) (t : tie) : Z :=
  let b := 2 * (sel8 / 2) in
  let conj := sel8 mod 2 =? 0 in
  let sel := (0 <=? sel8) && (sel8 <=? 7) in
  let temp0 := if sel then cmul_re b conj qx qy t >>> sar else 0 in
  let temp1 := if sel then cmul_im b conj qx qy t >>> sar else 0 in
  let v k := slane 16 k (Q t qv) in
  let x k := slane 16 k (Q t qx) >>> sar4 in
  if (upd4 =? 0) || (upd4 =? 1) then pack4 (v 4) (v 5) temp0 temp1
  else if upd4 =? 2 then pack4 (x 2) (x 3) temp0 temp1
  else 0.

(** ** Bit reversal *)

Definition reverse (x order : Z) : Z :=
  foldl (fun result i =>
    if truthy (x &&& Z.shiftl 1 i)
    then (result ||| Z.shiftl 1 (order - i - 1)) mod 2 ^ 16 else result) 0 (seqZ 0 order).

(** [rev] is an [int16_t] compared with a [uint16_t]. *)
Definition bitrev_s3 (qa as_ : Z) (t : tie) : tie :=
  foldl (fun t i =>
    let t := set_Q_lane 16 qa i (as_ + i) t in
    let rev := sext 16 (reverse ((as_ + i) mod 2 ^ 16) (fft_width t)) in
    if lane 16 i (Q t qa) <? rev then set_Q_lane 16 qa i rev t else t) t (seqZ 0 8).

(** ** Real-FFT post-processing (add, multiply, subtract) *)

(** The 16-bit results of one pair [b], [b + 1]. *)
Record ams := mkAms { ams0 : Z; ams1 : Z; ams2 : Z; ams3 : Z }.

(** A product of a 17-bit sum or difference with a lane, in [int32_t]. *)
Definition ams_mul (x y : Z) : Z := s32 (x * y).

Definition ams_pair (b qx qy qm sel2 sar : Z) (t : tie) : ams :=
  let x k := slane 16 k (Q t qx) in
  let y k := slane 16 k (Q t qy) in
  let m k := slane 16 k (Q t qm) in
  let dif := x b - y b in
  let sum := x (b + 1) + y (b + 1) in
  let temp2 :=
    if sel2 =? 0 then ams_mul dif (m b) - ams_mul sum (m (b + 1))
    else if sel2 =? 1 then ams_mul sum (m (b + 1)) + ams_mul dif (m b) else 0 in
  let temp3 :=
    if sel2 =? 0 then ams_mul dif (m (b + 1)) + ams_mul sum (m b)
    else if sel2 =? 1 then ams_mul sum (m b) - ams_mul dif (m (b + 1)) else 0 in
  mkAms (sext 16 (x b + y b)) (sext 16 (x (b + 1) - y (b + 1)))
    (sext 16 (temp2 >>> sar)) (sext 16 (temp3 >>> sar)).

(** Four lanes are written after all reads. *)
Definition ams_write (b qz qz1 : Z) (a : ams) (t : tie) : tie :=
  let t := set_Q_lane 16 qz b (ams0 a + ams2 a) t in
  let t := set_Q_lane 16 qz (b + 1) (ams1 a + ams3 a) t in
  let t := set_Q_lane 16 qz1 b (ams0 a - ams2 a) t in
  set_Q_lane 16 qz1 (b + 1) (ams3 a - ams1 a) t.

Definition fft_ams_s16 (qz qz1 qx qy qm sel2 sar : Z) (t : tie) : tie :=
  ams_write 2 qz qz1 (ams_pair 2 qx qy qm sel2 sar t) t.
Definition fft_ams_s16_uqup (qz qz1 qx qy qm sel2 sar : Z) (t : tie) : tie :=
  ams_write 0 qz qz1 (ams_pair 0 qx qy qm sel2 sar t) t.
Definition fft_ams_s16_decp (qz qz1 qx qy qm sel2 sar : Z) (t : tie) : tie :=
  ams_write 4 qz qz1 (ams_pair 4 qx qy qm sel2 sar t) t.

Definition fft_ams_st_0_s16_low (qv qz1 as0 qx qy qm sar : Z) (t : tie) : Z :=
  pack4 (slane 16 0 as0 >>> 1) (slane 16 1 as0 >>> 1)
    (slane 16 0 (Q t qv) >>> 1) (slane 16 1 (Q t qv) >>> 1).
Definition fft_ams_st_1_s16_low (qv qz1 as0 qx qy qm sar : Z) (t : tie) : Z :=
  pack4 (slane 16 0 as0) (slane 16 1 as0) (slane 16 0 (Q t qv)) (slane 16 1 (Q t qv)).

(** The result word is taken before lanes 6 and 7 of [qz1] are written. *)
Definition ams_st_high (half : Z) (qv qz1 qx qy qm sel2 sar : Z) (t : tie) : Z * tie :=
  let v k := slane 16 k (Q t qv) >>> half in
  let result := pack4 (v 2) (v 3) (v 4) (v 5) in
  let a := ams_pair 6 qx qy qm sel2 sar t in
  let t := set_Q_lane 16 qz1 6 (ams0 a - ams2 a) t in
  let t := set_Q_lane 16 qz1 7 (ams3 a - ams1 a) t in
  (result, set_temp_asm 0 (sext 16 (ams0 a + ams2 a)) (set_temp_asm 1 (sext 16 (ams1 a + ams3 a)) t)).

Definition fft_ams_st_0_s16_high (qv qz1 as0 qx qy qm sar : Z) (t : tie) : Z * tie :=
  ams_st_high 1 qv qz1 qx qy qm 0 sar t.
Definition fft_ams_st_1_s16_high (qv qz1 as0 qx qy qm sar : Z) (t : tie) : Z * tie :=
  ams_st_high 0 qv qz1 qx qy qm 1 sar t.

Definition fft_ams_st_s16_at (t : tie) : Z :=
  set_lane 16 1 (temp_asm t 1) (set_lane 16 0 (temp_asm t 0) 0).

Definition fft_ams_s16_exchange_q (qu : Z) (t : tie) : tie :=
  let temp := slane 32 0 (Q t qu) in
  let t := set_Q_lane 32 qu 0 (slane 32 3 (Q t qu)) t in
  let t := set_Q_lane 32 qu 3 temp t in
  let temp := slane 32 1 (Q t qu) in
  let t := set_Q_lane 32 qu 1 (slane 32 2 (Q t qu)) t in
  set_Q_lane 32 qu 2 temp t.

(** ** GPIO output, accumulators, indexed accesses *)

Definition wr_mask_gpio_out_s3 (as_ ax op_type : Z) (t : tie) : Z * tie :=
  if op_type =? gpio_mask then
    (0, set_gpio_out (u8 ((gpio_out t &&& not32 ax) ||| (as_ &&& ax))) t)
  else if op_type =? gpio_set then (0, set_gpio_out (u8 (gpio_out t ||| as_)) t)
  else if op_type =? gpio_clr then (0, set_gpio_out (u8 (gpio_out t &&& not32 as_)) t)
  else if op_type =? gpio_in then (gpio_out t, t)
  else (0, t).

Definition ld_accx_s3 (data : Z) (t : tie) : tie := set_ACCX (data &&& 0x000000ffffffffff) t.

Definition srs_accx_s3 (shift : Z) (t : tie) : Z * tie :=
  let v := ACCX t >>> shift in (Prelude.u32 v, set_ACCX v t).

(** [qacc = op_type == wrur_qacc_l_0 ? &ACCQ[0] : &ACCQ[1]] *)
Definition qacc_sel (op_type : Z) : Z := if op_type =? wrur_qacc_l_0 then 0 else 1.

Definition ld_qacc_x_h_32_ip_s3 (data op_type : Z) (t : tie) : tie :=
  let r := qacc_sel op_type in
  let wr i t := set_ACCQ r (set_lane 8 (16 + i) (lane 8 i data) (ACCQ t r)) t in
  wr 3 (wr 2 (wr 1 (wr 0 t))).

Definition ld_qacc_x_l_128_ip_s3 (op_type index data : Z) (t : tie) : tie :=
  let r := qacc_sel op_type in
  foldl (fun t i => set_ACCQ r (set_lane 8 (i + index * 8) (lane 8 i data) (ACCQ t r)) t) t (seqZ 0 8).

Definition st_qacc_x_h_32_ip_s3 (op_type : Z) (t : tie) : Z :=
  let q := ACCQ t (qacc_sel op_type) in
  set_lane 8 3 (lane 8 19 q) (set_lane 8 2 (lane 8 18 q)
    (set_lane 8 1 (lane 8 17 q) (set_lane 8 0 (lane 8 16 q) 0))).

Definition st_qacc_x_l_128_ip_s3 (op_type index : Z) (t : tie) : Z :=
  fold_lanes 8 8 (fun i => lane 8 (i + index * 8) (ACCQ t (qacc_sel op_type))) 0.

Definition st_accx_s3 (t : tie) : Z := u64 (ACCX t) &&& 0x000000ffffffffff.

Definition ld_ua_state_s3 (data low_high : Z) (t : tie) : tie :=
  set_UA_STATE (set_lane 64 low_high data (UA_STATE t)) t.
Definition st_ua_state_s3 (low_high : Z) (t : tie) : Z := lane 64 low_high (UA_STATE t).

Definition ldxq_32_s3 (qu sel4 data : Z) (t : tie) : tie := set_Q_lane 32 qu sel4 data t.
Definition stxq_32_s3 (qv sel4 : Z) (t : tie) : Z := lane 32 sel4 (Q t qv).
Definition ldstxq_addr_s3 (qs sel8 : Z) (t : tie) : Z :=
  Prelude.u32 (slane 16 sel8 (Q t qs) * 4 - 4).

(** ** Bit reversal is an involution *)

Lemma reverse_testbit x order k :
  0 <= order <= 16 -> 0 <= k ->
  Z.testbit (reverse x order) k = (k <? order) && Z.testbit x (order - 1 - k).
Proof.
  intros Ho Hk. transitivity ((order - order <=? k) && (k <? order) && Z.testbit x (order - 1 - k)).
  2: { rewrite (proj2 (Z.leb_le (order - order) k)) by lia. done. }
  revert k Hk. unfold reverse.
  apply (foldl_seqZ_ind (fun m r => forall k, 0 <= k ->
    Z.testbit r k = (order - m <=? k) && (k <? order) && Z.testbit x (order - 1 - k))); [lia| |].
  { intros k Hk. rewrite Z.testbit_0_l. destruct (Z.leb_spec (order - 0) k), (Z.ltb_spec k order);
      try done; lia. }
  intros i r Hi IH k Hk. rewrite Z.shiftl_1_l, truthy_land_pow2 by lia.
  destruct (Z.testbit x i) eqn:E.
  - rewrite mod_pow2_testbit, Z.lor_spec, IH, Z.shiftl_1_l, pow2_testbit by lia.
    destruct (Z.eqb_spec k (order - i - 1)) as [->|Hne].
    + rewrite (proj2 (Z.ltb_lt (order - i - 1) 16)), (proj2 (Z.leb_le (order - (i + 1)) (order - i - 1))),
        (proj2 (Z.ltb_lt (order - i - 1) order)) by lia. cbn.
      replace (order - 1 - (order - i - 1)) with i by lia. by rewrite orb_true_r.
    + rewrite orb_false_r. destruct (Z.ltb_spec k 16), (Z.leb_spec (order - i) k),
        (Z.leb_spec (order - (i + 1)) k), (Z.ltb_spec k order); try done; lia.
  - rewrite IH by lia. destruct (Z.leb_spec (order - i) k), (Z.leb_spec (order - (i + 1)) k);
      try done; try lia. assert (k = order - i - 1) as -> by lia.
    replace (order - 1 - (order - i - 1)) with i by lia. rewrite E. by rewrite !andb_false_r.
Qed.

Lemma reverse_range x order : 0 <= order <= 16 -> 0 <= reverse x order < 2 ^ order.
Proof.
  intros Ho. assert (Hn : 0 <= reverse x order).
  { unfold reverse. apply (foldl_seqZ_ind (fun _ r => 0 <= r)); [lia|lia|].
    intros i r _ Hr. destruct (truthy _); [|done]. apply Z.mod_pos_bound. lia. }
  split; [done|]. apply bounded_by_testbit; [lia|done|]. intros i Hi.
  rewrite reverse_testbit by lia. by rewrite (proj2 (Z.ltb_ge i order)) by lia.
Qed.

(** C0: [reverse] mirrors the low [order] bits of an index, and mirroring twice
    gives the index back: the permutation of the FFT is its own inverse. *)
Theorem reverse_involutive (x order : Z) :
  0 <= order <= 16 -> 0 <= x < 2 ^ order ->
  reverse (reverse x order) order = x /\
  forall k, 0 <= k < order -> Z.testbit (reverse x order) k = Z.testbit x (order - 1 - k).
Proof.
  intros Ho Hx. split.
  - apply Z.bits_inj'. intros k Hk. rewrite reverse_testbit by lia.
    destruct (Z.ltb_spec k order); cbn [andb].
    + rewrite reverse_testbit by lia. rewrite (proj2 (Z.ltb_lt (order - 1 - k) order)) by lia.
      cbn. f_equal. lia.
    + symmetry. apply (testbit_above order); lia.
  - intros k Hk. rewrite reverse_testbit by lia. by rewrite (proj2 (Z.ltb_lt k order)) by lia.
Qed.

Lemma reverse_involutive_witness : reverse 22 7 = 52 /\ reverse (reverse 22 7) 7 = 22.
Proof. split; [reflexivity|]. apply (reverse_involutive 22 7); lia. Defined.

(** EE.BITREV keeps the larger of an index and its mirror image. *)
Theorem bitrev_max (qa as_ i : Z) (t : tie) :
  0 <= fft_width t <= 15 -> 0 <= i < 8 -> 0 <= as_ -> as_ + 7 < 2 ^ 16 ->
  lane 16 i (Q (bitrev_s3 qa as_ t) qa) = Z.max (as_ + i) (reverse (as_ + i) (fft_width t)).
Proof.
  intros Hw Hi Ha Hb.
  cut (fft_width (bitrev_s3 qa as_ t) = fft_width t /\
    forall j, 0 <= j < 8 -> lane 16 j (Q (bitrev_s3 qa as_ t) qa) =
      Z.max (as_ + j) (reverse (as_ + j) (fft_width t))); [intros [_ H]; by apply H|].
  apply (foldl_seqZ_ind (fun m t' => fft_width t' = fft_width t /\
    forall j, 0 <= j < m -> lane 16 j (Q t' qa) =
      Z.max (as_ + j) (reverse (as_ + j) (fft_width t)))); [lia|split; [done|lia]|].
  intros m t' Hm [IHw IH]. cbv zeta.
  rewrite Q_set_Q_lane_eq, lane_set_lane_eq by lia.
  change (fft_width (set_Q_lane 16 qa m (as_ + m) t')) with (fft_width t'). rewrite IHw.
  rewrite !(Z.mod_small (as_ + m) (2 ^ 16)) by lia.
  pose proof (reverse_range (as_ + m) (fft_width t) ltac:(lia)) as Hr.
  assert (2 ^ fft_width t <= 2 ^ 15) by (apply Z.pow_le_mono_r; lia).
  rewrite sext_small by lia.
  destruct (Z.ltb_spec (as_ + m) (reverse (as_ + m) (fft_width t))).
  - split; [done|]. intros j Hj. destruct (Z.eq_dec j m) as [->|].
    + rewrite Q_set_Q_lane_eq, lane_set_lane_eq, Z.mod_small by lia. lia.
    + rewrite !lane_set_Q_lane_ne by lia. apply IH. lia.
  - split; [done|]. intros j Hj. destruct (Z.eq_dec j m) as [->|].
    + rewrite Q_set_Q_lane_eq, lane_set_lane_eq, Z.mod_small by lia. lia.
    + rewrite !lane_set_Q_lane_ne by lia. apply IH. lia.
Qed.

(** With a width of 16 the mirror image is compared as a negative number. *)
Lemma bitrev_16_ignores_high :
  lane 16 1 (Q (bitrev_s3 0 0 (set_fft_width 16 tie_zero)) 0) = 1 /\ reverse 1 16 = 0x8000.
Proof. split; vm_compute; reflexivity. Qed.
