(* ===== verification/FpStatus.v ===== *)
(** * Floating-point status and formats ([include/fpu/softfloat-types.h],
    [softfloat-helpers.h] and the inline functions of [softfloat.h])

    The status word every softfloat operation reads and updates, and the
    operations of the header that work on bit patterns alone.  The arithmetic of
    the softfloat library itself is not in the tree: it is the record
    [Softfloat] the helpers of [Fpu] take as an argument. *)

From S2P Require Import Prelude.

#[local] Open Scope mach_scope.

(** ** Enumerations *)

Abbreviation float_round_nearest_even := 0 (only parsing).
Abbreviation float_round_down := 1 (only parsing).
Abbreviation float_round_up := 2 (only parsing).
Abbreviation float_round_to_zero := 3 (only parsing).

Abbreviation float_flag_invalid := 0x01 (only parsing).
Abbreviation float_flag_divbyzero := 0x02 (only parsing).
Abbreviation float_flag_overflow := 0x04 (only parsing).
Abbreviation float_flag_underflow := 0x08 (only parsing).
Abbreviation float_flag_inexact := 0x10 (only parsing).

Inductive Float2NaNPropRule :=
| float_2nan_prop_none | float_2nan_prop_s_ab | float_2nan_prop_s_ba
| float_2nan_prop_ab | float_2nan_prop_ba | float_2nan_prop_x87.

(** -1, 0, 1 and 2 in the source: [le] and [lt] compare the numbers. *)
Inductive FloatRelation :=
| float_relation_less | float_relation_equal | float_relation_greater | float_relation_unordered.

(** ** The status *)

(** [floatx80_rounding_precision] is of no use to this target and left out. *)
Record float_status := mkFloatStatus {
  float_exception_flags : Z;
  float_rounding_mode : Z;
  float_2nan_prop_rule : Float2NaNPropRule;
  tininess_before_rounding : bool;
  flush_to_zero : bool;
  flush_inputs_to_zero : bool;
  default_nan_mode : bool;
  snan_bit_is_one : bool;
  st_use_first_nan : bool;
  no_signaling_nans : bool;
  rebias_overflow : bool;
  rebias_underflow : bool
}.

(** A zeroed structure. *)
Definition init_fp_status : float_status :=
  mkFloatStatus 0 float_round_nearest_even float_2nan_prop_none
    false false false false false false false false false.

Definition set_float_rounding_mode (v : Z) (s : float_status) : float_status :=
  mkFloatStatus (float_exception_flags s) v (float_2nan_prop_rule s)
    (tininess_before_rounding s) (flush_to_zero s) (flush_inputs_to_zero s) (default_nan_mode s)
    (snan_bit_is_one s) (st_use_first_nan s) (no_signaling_nans s) (rebias_overflow s) (rebias_underflow s).
(** The flags are kept in a [uint16_t]. *)
Definition set_float_exception_flags (v : Z) (s : float_status) : float_status :=
  mkFloatStatus (v mod 2 ^ 16) (float_rounding_mode s) (float_2nan_prop_rule s)
    (tininess_before_rounding s) (flush_to_zero s) (flush_inputs_to_zero s) (default_nan_mode s)
    (snan_bit_is_one s) (st_use_first_nan s) (no_signaling_nans s) (rebias_overflow s) (rebias_underflow s).
Definition set_float_2nan_prop_rule (r : Float2NaNPropRule) (s : float_status) : float_status :=
  mkFloatStatus (float_exception_flags s) (float_rounding_mode s) r
    (tininess_before_rounding s) (flush_to_zero s) (flush_inputs_to_zero s) (default_nan_mode s)
    (snan_bit_is_one s) (st_use_first_nan s) (no_signaling_nans s) (rebias_overflow s) (rebias_underflow s).
Definition set_use_first_nan (v : bool) (s : float_status) : float_status :=
  mkFloatStatus (float_exception_flags s) (float_rounding_mode s) (float_2nan_prop_rule s)
    (tininess_before_rounding s) (flush_to_zero s) (flush_inputs_to_zero s) (default_nan_mode s)
    (snan_bit_is_one s) v (no_signaling_nans s) (rebias_overflow s) (rebias_underflow s).
Definition set_no_signaling_nans (v : bool) (s : float_status) : float_status :=
  mkFloatStatus (float_exception_flags s) (float_rounding_mode s) (float_2nan_prop_rule s)
    (tininess_before_rounding s) (flush_to_zero s) (flush_inputs_to_zero s) (default_nan_mode s)
    (snan_bit_is_one s) (st_use_first_nan s) v (rebias_overflow s) (rebias_underflow s).

(** ** Bit patterns *)

Definition float32_abs (a : Z) : Z := a &&& 0x7fffffff.
Definition float32_chs (a : Z) : Z := a ^^^ 0x80000000.
Definition float32_is_neg (a : Z) : bool := truthy (a >>> 31).
Definition float32_is_any_nan (a : Z) : bool := 0x7f800000 <? a &&& not32 (Z.shiftl 1 31).
Definition float64_abs (a : Z) : Z := a &&& 0x7fffffffffffffff.
Definition float64_chs (a : Z) : Z := a ^^^ 0x8000000000000000.
Definition float64_is_neg (a : Z) : bool := truthy (a >>> 63).
Definition float64_is_any_nan (a : Z) : bool := 0x7ff0000000000000 <? a &&& not64 (Z.shiftl 1 63).

(** ** The softfloat library *)

Abbreviation float_muladd_negate_product := 2 (only parsing).

(** The functions of [fpu/softfloat.c] the helpers call, on the bit patterns of
    one format: each takes the status and returns the result with the status. *)
Record FloatFormat := mkFloatFormat {
  float_add : Z -> Z -> float_status -> Z * float_status;
  float_sub : Z -> Z -> float_status -> Z * float_status;
  float_mul : Z -> Z -> float_status -> Z * float_status;
  float_div : Z -> Z -> float_status -> Z * float_status;
  float_muladd : Z -> Z -> Z -> Z -> float_status -> Z * float_status;
  float_sqrt : Z -> float_status -> Z * float_status;
  float_scalbn : Z -> Z -> float_status -> Z * float_status;
  float_to_int32 : Z -> float_status -> Z * float_status;
  float_to_uint32 : Z -> float_status -> Z * float_status;
  int32_to_float : Z -> float_status -> Z * float_status;
  uint32_to_float : Z -> float_status -> Z * float_status;
  float_compare : Z -> Z -> float_status -> FloatRelation * float_status;
  float_compare_quiet : Z -> Z -> float_status -> FloatRelation * float_status
}.

Record Softfloat := mkSoftfloat {
  float32 : FloatFormat;
  float64 : FloatFormat;
  float32_to_float64 : Z -> float_status -> Z * float_status;
  float64_to_float32 : Z -> float_status -> Z * float_status
}.

Definition on_relation (f : FloatRelation -> bool) (r : FloatRelation * float_status) : bool * float_status :=
  (f r.1, r.2).

(** [float32_le] and the like, on either format. *)
Definition float_le (F : FloatFormat) (a b : Z) (s : float_status) : bool * float_status :=
  on_relation (fun r => match r with float_relation_less | float_relation_equal => true | _ => false end)
    (float_compare F a b s).
Definition float_lt (F : FloatFormat) (a b : Z) (s : float_status) : bool * float_status :=
  on_relation (fun r => match r with float_relation_less => true | _ => false end) (float_compare F a b s).
Definition float_eq_quiet (F : FloatFormat) (a b : Z) (s : float_status) : bool * float_status :=
  on_relation (fun r => match r with float_relation_equal => true | _ => false end) (float_compare_quiet F a b s).
Definition float_unordered_quiet (F : FloatFormat) (a b : Z) (s : float_status) : bool * float_status :=
  on_relation (fun r => match r with float_relation_unordered => true | _ => false end) (float_compare_quiet F a b s).
