(* ===== verification/LoadStore.v ===== *)
(** * Memory instructions ([target/xtensa/translate.c], [include/exec/memop.h])

    The machine a load or store runs on: the CPU state, guest memory, the value
    remembered by the exclusive monitor, the floating-point registers (whose
    words the vector extension also loads and stores) and the vector unit.  A [translate_*]
    function is the computation its emitted operations perform.

    The emulator core's lookup of an access ([softmmu]) is a parameter: given
    the virtual address, size, kind (0 load, 1 store), translation regime and
    instruction address it raises the guest exception or returns the physical
    address of every byte.  Memory holds bytes; a target word is little-endian. *)

From S2P Require Import Prelude Cpu Exception Tlb Mmu OpHelper TbFlags Control Arith Lanes Tie FpStatus.

#[local] Open Scope mach_scope.

Abbreviation MO_8 := 0 (only parsing).
Abbreviation MO_16 := 1 (only parsing).
Abbreviation MO_32 := 2 (only parsing).
Abbreviation MO_64 := 3 (only parsing).
Abbreviation MO_SIZE := 7 (only parsing).
Abbreviation MO_SIGN := 8 (only parsing).
Abbreviation MO_TE := 0 (only parsing).
Abbreviation MO_TEUL := 2 (only parsing).
Abbreviation MO_ASHIFT := 5 (only parsing).
Abbreviation MO_AMASK := 0xe0 (only parsing).
Abbreviation MO_UNALN := 0 (only parsing).
Abbreviation MO_ALIGN := 0xe0 (only parsing).
Abbreviation SCOMPARE1 := 12 (only parsing).

Definition memop_size (op : Z) : Z := Z.shiftl 1 (op &&& MO_SIZE).

Definition memop_alignment_bits (memop : Z) : Z :=
  let a := memop &&& MO_AMASK in
  if a =? MO_UNALN then 0
  else if a =? MO_ALIGN then memop &&& MO_SIZE
  else a >>> MO_ASHIFT.

(** ** The machine *)

(** Besides the CPU state and memory, what the emitted code and the translator keep
    elsewhere: the temporaries [dc->sar_m32] (with what the translator knows of SAR)
    and [dc->next_icount], the registers of [fregs] and [uregs], and [fp_status]. *)
Record machine := mkMachine {
  m_env : CPUXtensaState;
  m_mem : Z -> Z;
  m_exclusive_val : Z;
  m_fr : Z -> Z;  (** fregs[i].f32[FP_F32_LOW] *)
  m_tie : CPUXtensaEsp32s3State;
  m_sar : sar_tracker;
  m_next_icount : Z;
  m_uregs : Z -> Z;
  m_fr_high : Z -> Z;  (** fregs[i].f32[FP_F32_HIGH] *)
  m_fp_status : float_status
}.

Abbreviation machM := (M machine).

Definition with_env (e : CPUXtensaState) (m : machine) : machine :=
  mkMachine e (m_mem m) (m_exclusive_val m) (m_fr m) (m_tie m) (m_sar m) (m_next_icount m) (m_uregs m) (m_fr_high m) (m_fp_status m).
Definition with_mem (mem : Z -> Z) (m : machine) : machine :=
  mkMachine (m_env m) mem (m_exclusive_val m) (m_fr m) (m_tie m) (m_sar m) (m_next_icount m) (m_uregs m) (m_fr_high m) (m_fp_status m).
Definition with_exclusive_val (v : Z) (m : machine) : machine :=
  mkMachine (m_env m) (m_mem m) v (m_fr m) (m_tie m) (m_sar m) (m_next_icount m) (m_uregs m) (m_fr_high m) (m_fp_status m).
Definition with_tie (t : CPUXtensaEsp32s3State) (m : machine) : machine :=
  mkMachine (m_env m) (m_mem m) (m_exclusive_val m) (m_fr m) t (m_sar m) (m_next_icount m) (m_uregs m) (m_fr_high m) (m_fp_status m).
Definition with_fr (f : Z -> Z) (m : machine) : machine :=
  mkMachine (m_env m) (m_mem m) (m_exclusive_val m) f (m_tie m) (m_sar m) (m_next_icount m) (m_uregs m) (m_fr_high m) (m_fp_status m).
Definition with_sar (tr : sar_tracker) (m : machine) : machine :=
  mkMachine (m_env m) (m_mem m) (m_exclusive_val m) (m_fr m) (m_tie m) tr (m_next_icount m) (m_uregs m) (m_fr_high m) (m_fp_status m).
Definition with_next_icount (v : Z) (m : machine) : machine :=
  mkMachine (m_env m) (m_mem m) (m_exclusive_val m) (m_fr m) (m_tie m) (m_sar m) v (m_uregs m) (m_fr_high m) (m_fp_status m).
Definition with_uregs (u : Z -> Z) (m : machine) : machine :=
  mkMachine (m_env m) (m_mem m) (m_exclusive_val m) (m_fr m) (m_tie m) (m_sar m) (m_next_icount m) u (m_fr_high m) (m_fp_status m).
Definition with_fr_high (h : Z -> Z) (m : machine) : machine :=
  mkMachine (m_env m) (m_mem m) (m_exclusive_val m) (m_fr m) (m_tie m) (m_sar m) (m_next_icount m) (m_uregs m) h (m_fp_status m).
Definition with_fp_status (s : float_status) (m : machine) : machine :=
  mkMachine (m_env m) (m_mem m) (m_exclusive_val m) (m_fr m) (m_tie m) (m_sar m) (m_next_icount m) (m_uregs m) (m_fr_high m) s.

(** A machine between blocks. *)
Definition machine_of (env : CPUXtensaState) (mem : Z -> Z) (tie : CPUXtensaEsp32s3State) : machine :=
  mkMachine env mem 0 (fun _ => 0) tie init_sar_tracker 0 (fun _ => 0) (fun _ => 0) init_fp_status.

(** A helper that only sees the CPU state. *)
Definition on_env {A} (c : cpuM A) : machM A :=
  fun m =>
    match c (m_env m) with
    | Done a e => Done a (with_env e m)
    | LoopExit e => LoopExit (with_env e m)
    | AssertFail => AssertFail
    end.

Definition mod_env (f : CPUXtensaState -> CPUXtensaState) : machM unit :=
  modify (fun m => with_env (f (m_env m)) m).

(** [arg[i].in] and [arg[i].out] of an address register are the same global. *)
Definition arg_in (r : Z) : machM Z := gets (fun m => nthZ (regs (m_env m)) r).
Definition arg_out (r v : Z) : machM unit := mod_env (set_reg r v).

(** ** Bytes of memory *)

Definition mem_read (mem : Z -> Z) (at_ : Z -> Z) (n : Z) : Z :=
  fold_lanes 8 n (fun k => mem (at_ k)) 0.

Definition mem_write (mem : Z -> Z) (at_ : Z -> Z) (n v : Z) : Z -> Z :=
  foldl (fun mem k => fupd mem (at_ k) (lane 8 k v)) mem (seqZ 0 n).

(** [tcg_gen_deposit_i32] and [tcg_gen_extract_i32] on ATOMCTL. *)
Definition atomctl_result (env : CPUXtensaState) : Z := extract32 (sr env ATOMCTL) 8 1.
Definition set_atomctl_result (v : Z) (env : CPUXtensaState) : CPUXtensaState :=
  set_sr ATOMCTL (deposit32 (sr env ATOMCTL) 8 1 v) env.

Section load_store.
Context (config : XtensaConfig) (ldl : Z -> option Z).
Context (softmmu : Z -> Z -> Z -> Z -> Z -> cpuM (Z -> Z)).

(** ** Guest accesses *)

Definition qemu_access (dc : DisasContext) (mop addr is_write mmu_idx : Z) : machM (Z -> Z) :=
  if truthy (addr &&& (2 ^ memop_alignment_bits mop - 1))
  then on_env (xtensa_cpu_do_unaligned_access config addr (dc_pc dc))
  else on_env (softmmu addr (memop_size mop) is_write mmu_idx (dc_pc dc)).

Definition qemu_ld (dc : DisasContext) (mop addr mmu_idx : Z) : machM Z :=
  at_ <- qemu_access dc mop addr 0 mmu_idx ;;
  gets (fun m =>
    let v := mem_read (m_mem m) at_ (memop_size mop) in
    if truthy (mop &&& MO_SIGN) then u32 (sext (8 * memop_size mop) v) else v).

Definition qemu_st (dc : DisasContext) (mop v addr mmu_idx : Z) : machM unit :=
  at_ <- qemu_access dc mop addr 1 mmu_idx ;;
  modify (fun m => with_mem (mem_write (m_mem m) at_ (memop_size mop) v) m).

(** Returns the old value; stores [newv] when it equals [cmpv]. *)
Definition atomic_cmpxchg (dc : DisasContext) (mop addr cmpv newv mmu_idx : Z) : machM Z :=
  at_ <- qemu_access dc mop addr 1 mmu_idx ;;
  m <- get ;;
  let old := mem_read (m_mem m) at_ (memop_size mop) in
  (if old =? cmpv then modify (with_mem (mem_write (m_mem m) at_ (memop_size mop) newv)) else ret tt) ;;
  ret old.

(** ** Translators *)

(** The memory operation to use and the address the emitted code leaves. *)
Definition gen_load_store_alignment (mop addr : Z) : Z * Z :=
  if (mop &&& MO_SIZE) =? MO_8 then (mop, addr)
  else
    let mop :=
      if ((mop &&& MO_AMASK) =? MO_UNALN) && negb (xtensa_option_enabled config OPTION_HW_ALIGNMENT)
      then mop ||| MO_ALIGN else mop in
    (mop, if negb (xtensa_option_enabled config OPTION_UNALIGNED_EXCEPTION)
          then addr &&& lsl32 (2 ^ 32 - 1) (memop_alignment_bits mop) else addr).

Definition gen_check_exclusive (dc : DisasContext) (addr is_write : Z) : cpuM unit :=
  if negb (xtensa_option_enabled config OPTION_MPU)
  then helper_check_exclusive config ldl (dc_pc dc) addr is_write else ret tt.

Definition gen_check_atomctl (dc : DisasContext) (addr : Z) : cpuM unit :=
  helper_check_atomctl config ldl (dc_pc dc) addr.

Definition translate_l32e (dc : DisasContext) (t s imm : Z) : machM unit :=
  x <- arg_in s ;;
  let '(mop, addr) := gen_load_store_alignment MO_TEUL (u32 (x + imm)) in
  v <- qemu_ld dc mop addr (dc_ring dc) ;; arg_out t v.

Definition translate_s32e (dc : DisasContext) (t s imm : Z) : machM unit :=
  x <- arg_in s ;;
  let '(mop, addr) := gen_load_store_alignment MO_TEUL (u32 (x + imm)) in
  v <- arg_in t ;; qemu_st dc mop v addr (dc_ring dc).

(** [par] is the memory operation and whether to store; the ordering argument
    selects a barrier, which has no effect on one processor. *)
Definition translate_ldst (dc : DisasContext) (par0 : Z) (store : bool) (t s imm : Z) : machM unit :=
  x <- arg_in s ;;
  let '(mop, addr) := gen_load_store_alignment par0 (u32 (x + imm)) in
  if store then v <- arg_in t ;; qemu_st dc mop v addr (dc_cring dc)
  else v <- qemu_ld dc mop addr (dc_cring dc) ;; arg_out t v.

Definition translate_lct (t : Z) : machM unit := arg_out t 0.

Definition translate_l32r (dc : DisasContext) (tb_flags t imm raw_imm : Z) : machM unit :=
  m <- get ;;
  let addr := if truthy (tb_flags &&& TBFLAG_LITBASE)
              then u32 (sr (m_env m) LITBASE + raw_imm - 1) else imm in
  v <- qemu_ld dc MO_TEUL addr (dc_cring dc) ;; arg_out t v.

Definition translate_l32ex (dc : DisasContext) (t s : Z) : machM unit :=
  x <- arg_in s ;;
  let '(mop, addr) := gen_load_store_alignment (MO_TEUL ||| MO_ALIGN) x in
  on_env (gen_check_exclusive dc addr 0) ;;
  v <- qemu_ld dc mop addr (dc_cring dc) ;;
  arg_out t v ;;
  mod_env (set_exclusive_addr addr) ;;
  modify (with_exclusive_val v).

Definition translate_s32ex (dc : DisasContext) (t s : Z) : machM unit :=
  x <- arg_in s ;;
  let '(mop, addr) := gen_load_store_alignment (MO_TEUL ||| MO_ALIGN) x in
  m <- get ;;
  res <-
    (if negb (addr =? exclusive_addr (m_env m)) then ret 0
     else
       on_env (gen_check_exclusive dc addr 1) ;;
       v <- arg_in t ;;
       prev <- atomic_cmpxchg dc mop (exclusive_addr (m_env m)) (m_exclusive_val m) v (dc_cring dc) ;;
       modify (with_exclusive_val (if prev =? m_exclusive_val m then prev else m_exclusive_val m)) ;;
       mod_env (set_exclusive_addr (2 ^ 32 - 1)) ;;
       ret (b2z (prev =? m_exclusive_val m))) ;;
  m <- get ;;
  arg_out t (atomctl_result (m_env m)) ;;
  mod_env (set_atomctl_result res).

Definition translate_getex (t : Z) : machM unit :=
  m <- get ;;
  let tmp := atomctl_result (m_env m) in
  v <- arg_in t ;;
  mod_env (set_atomctl_result v) ;;
  arg_out t tmp.

Definition translate_s32c1i (dc : DisasContext) (t s imm : Z) : machM unit :=
  tmp <- arg_in t ;;
  x <- arg_in s ;;
  let '(mop, addr) := gen_load_store_alignment (MO_TEUL ||| MO_ALIGN) (u32 (x + imm)) in
  on_env (gen_check_atomctl dc addr) ;;
  m <- get ;;
  old <- atomic_cmpxchg dc mop addr (sr (m_env m) SCOMPARE1) tmp (dc_cring dc) ;;
  arg_out t old.

End load_store.

(** ** Memory *)

Definition distinct (n : Z) (at_ : Z -> Z) : Prop :=
  forall j k, 0 <= j < n -> 0 <= k < n -> at_ j = at_ k -> j = k.

Lemma mem_write_at mem at_ n v k :
  0 <= n -> distinct n at_ -> 0 <= k < n -> mem_write mem at_ n v (at_ k) = lane 8 k v.
Proof.
  intros Hn Hd. unfold mem_write.
  apply (foldl_seqZ_ind (fun i mem' => 0 <= k < i -> mem' (at_ k) = lane 8 k v));
    [lia|intros ?; lia|].
  intros i mem' Hi IH Hk. destruct (decide (k = i)) as [->|Hne]; [by rewrite fupd_eq|].
  rewrite fupd_ne; [apply IH; lia|]. intros E. apply Hd in E; lia.
Qed.

Lemma mem_write_other mem at_ n v p :
  0 <= n -> (forall k, 0 <= k < n -> at_ k <> p) -> mem_write mem at_ n v p = mem p.
Proof.
  intros Hn Hp. unfold mem_write.
  apply (foldl_seqZ_ind (fun _ mem' => mem' p = mem p)); [lia|done|].
  intros i mem' Hi IH. rewrite fupd_ne; [done|]. intros E. by apply (Hp i Hi).
Qed.

Lemma mem_read_write mem at_ n v :
  0 <= n -> distinct n at_ -> mem_read (mem_write mem at_ n v) at_ n = v mod 2 ^ (8 * n).
Proof.
  intros Hn Hd. unfold mem_read.
  assert (Hp : 0 < 2 ^ (8 * n)) by (apply Z.pow_pos_nonneg; lia).
  apply (lane_ext n 8); [lia|apply fold_lanes_range; lia|by apply Z.mod_pos_bound|].
  intros k Hk. rewrite fold_lanes_lane by lia. rewrite (proj2 (Z.ltb_lt k n)) by lia.
  rewrite mem_write_at by done. rewrite lane_mod by lia. symmetry. apply lane_mod_low; lia.
Qed.

(** Evaluate a goal about the access sizes, signed or not. *)
Ltac mop_cases s sg :=
  assert (s = 0 \/ s = 1 \/ s = 2 \/ s = 3) as [->|[->|[->| ->]]] by lia;
  assert (sg = 0 \/ sg = MO_SIGN) as [->| ->] by lia; done.

(** The memory operation of a load or store of [2 ^ s] bytes. *)
Record mop_facts (s sg : Z) (align : Z) (bits : Z) : Prop := {
  mf_size : memop_size (s ||| sg ||| align) = 2 ^ s;
  mf_bits : memop_alignment_bits (s ||| sg ||| align) = bits;
  mf_sign : truthy ((s ||| sg ||| align) &&& MO_SIGN) = (sg =? MO_SIGN)
}.

Lemma mop_unaligned s sg : 0 <= s <= 3 -> sg = 0 \/ sg = MO_SIGN -> mop_facts s sg 0 0.
Proof. intros Hs Hg. split; mop_cases s sg. Qed.
Lemma mop_aligned s sg : 0 <= s <= 3 -> sg = 0 \/ sg = MO_SIGN -> mop_facts s sg MO_ALIGN s.
Proof. intros Hs Hg. split; mop_cases s sg. Qed.

Lemma low_bits_clear x k : 0 <= k -> truthy ((x - x mod 2 ^ k) &&& (2 ^ k - 1)) = false.
Proof.
  intros Hk. apply truthy_false. rewrite land_ones_mod by done.
  assert (2 ^ k <> 0) by (apply Z.pow_nonzero; lia).
  rewrite Zminus_mod_idemp_r. by rewrite Z.sub_diag.
Qed.

Lemma low_mask s : 0 <= s <= 3 -> lsl32 (2 ^ 32 - 1) s = 2 ^ 32 - 2 ^ s.
Proof. intros Hs. assert (s = 0 \/ s = 1 \/ s = 2 \/ s = 3) as [->|[->|[->| ->]]] by lia; done. Qed.

(** What the emulator core promises of its lookup: the bytes of an access lie
    at different places, and looking them up, also when that raises an exception,
    leaves the registers alone. *)
Class SoftmmuLaws (softmmu : Z -> Z -> Z -> Z -> Z -> cpuM (Z -> Z)) : Prop := {
  softmmu_distinct a n w idx pc env at_ env' :
    softmmu a n w idx pc env = Done at_ env' -> distinct n at_;
  softmmu_regs a n w idx pc env env' :
    final (softmmu a n w idx pc env) = Some env' -> regs env' = regs env
}.

Section accesses.
Context (config : XtensaConfig) (ldl : Z -> option Z).
Context (softmmu : Z -> Z -> Z -> Z -> Z -> cpuM (Z -> Z)).

(** ** Alignment *)

(** What the architecture prescribes for an access of [2 ^ s] bytes at [a]:
    hardware alignment takes any address, the unaligned exception option traps,
    and a core with neither ignores the low bits of the address. *)
Definition data_access (dc : DisasContext) (a s w idx : Z) : cpuM (Z -> Z) :=
  if (s =? 0) || xtensa_option_enabled config OPTION_HW_ALIGNMENT
  then softmmu a (2 ^ s) w idx (dc_pc dc)
  else if xtensa_option_enabled config OPTION_UNALIGNED_EXCEPTION then
    if a mod 2 ^ s =? 0 then softmmu a (2 ^ s) w idx (dc_pc dc)
    else xtensa_cpu_do_unaligned_access config a (dc_pc dc)
  else softmmu (a - a mod 2 ^ s) (2 ^ s) w idx (dc_pc dc).

Lemma alignment_policy dc s sg a w idx :
  0 <= s <= 3 -> sg = 0 \/ sg = MO_SIGN -> in32 a ->
  exists mop a', gen_load_store_alignment config (s ||| sg) a = (mop, a') /\
    qemu_access config softmmu dc mop a' w idx = on_env (data_access dc a s w idx) /\
    memop_size mop = 2 ^ s /\ truthy (mop &&& MO_SIGN) = (sg =? MO_SIGN).
Proof.
  intros Hs Hg Ha.
  pose proof (mop_unaligned s sg Hs Hg) as [Es Eb Eg]. rewrite Z.lor_0_r in Es, Eb, Eg.
  pose proof (mop_aligned s sg Hs Hg) as [Es' Eb' Eg'].
  unfold gen_load_store_alignment, data_access.
  replace ((s ||| sg) &&& 7) with s by mop_cases s sg.
  replace ((s ||| sg) &&& 224) with 0 by mop_cases s sg.
  destruct (Z.eqb_spec s 0) as [->|Hne]; cbn [orb andb].
  - eexists _, _. split; [done|]. unfold qemu_access. rewrite Eb, Es.
    change (2 ^ 0 - 1) with 0. by rewrite Z.land_0_r.
  - destruct (xtensa_option_enabled config OPTION_HW_ALIGNMENT),
      (xtensa_option_enabled config OPTION_UNALIGNED_EXCEPTION); cbn [negb andb Z.eqb];
      (eexists _, _; split; [done|]); unfold qemu_access; rewrite ?Eb, ?Eb', ?Es, ?Es'; (split; [|done]).
    + change (2 ^ 0 - 1) with 0. by rewrite Z.land_0_r.
    + change (2 ^ 0 - 1) with 0. rewrite Z.land_0_r. cbn [truthy].
      rewrite low_mask, land_high_mask, Z.mod_1_r, Z.sub_0_r by (done || lia). done.
    + rewrite land_ones_mod by lia. unfold truthy. by destruct (a mod 2 ^ s =? 0).
    + rewrite low_mask, land_high_mask, low_bits_clear by (done || lia). done.
Qed.

(** ** Loads and stores *)

Lemma ldst_access dc s sg store t r imm m :
  0 <= s <= 3 -> sg = 0 \/ sg = MO_SIGN ->
  translate_ldst config softmmu dc (s ||| sg) store t r imm m =
  (at_ <- on_env (data_access dc (u32 (nthZ (regs (m_env m)) r + imm)) s (b2z store) (dc_cring dc)) ;;
   if store then
     modify (fun m' => with_mem (mem_write (m_mem m') at_ (2 ^ s) (nthZ (regs (m_env m)) t)) m')
   else
     m' <- get ;;
     let v := mem_read (m_mem m') at_ (2 ^ s) in
     arg_out t (if sg =? MO_SIGN then u32 (sext (8 * 2 ^ s) v) else v)) m.
Proof.
  intros Hs Hg. set (a := u32 (nthZ (regs (m_env m)) r + imm)).
  destruct (alignment_policy dc s sg a (b2z store) (dc_cring dc) Hs Hg (u32_in32 _))
    as (mop & a' & E1 & E2 & E3 & E4).
  unfold translate_ldst, bind at 1, arg_in, gets. fold a. rewrite E1.
  destruct store; unfold qemu_st, qemu_ld; cbn [b2z] in *.
  - cbv beta iota. rewrite <- E2. unfold bind, modify. rewrite E3. done.
  - cbv beta iota. rewrite <- E2. unfold bind, get, gets. rewrite E3, E4. by destruct (qemu_access _ _ _ _ _ _ _ _).
Qed.

(** The state in which the handler of a trapped access starts. *)
Definition access_trap (cause a insn_pc : Z) (env : CPUXtensaState) : CPUXtensaState :=
  general_entry
    (if Z.testbit (sr env PS) 4 && truthy (ndepc config) then DEPC else EPC1)
    (if Z.testbit (sr env PS) 4 then EXC_DOUBLE else user_or_kernel env)
    cause (set_pc insn_pc (set_sr EXCVADDR a (set_pc insn_pc env))).

Lemma unaligned_traps {A} a insn_pc env :
  xtensa_option_enabled config OPTION_UNALIGNED_EXCEPTION = true ->
  xtensa_cpu_do_unaligned_access (A := A) config a insn_pc env =
    LoopExit (access_trap LOAD_STORE_ALIGNMENT_CAUSE a insn_pc env).
Proof.
  intros Hopt. unfold xtensa_cpu_do_unaligned_access, helper_exception_cause_vaddr, cpu_restore_state.
  unfold bind, massert, modify, get. rewrite Hopt. rewrite exception_cause_eq.
  unfold access_trap, user_or_kernel. rewrite sr_set_sr_ne by done. done.
Qed.

Context {Hlaws : SoftmmuLaws softmmu}.

Lemma access_laws dc a s w idx env at_ env' :
  data_access dc a s w idx env = Done at_ env' -> distinct (2 ^ s) at_ /\ regs env' = regs env.
Proof.
  unfold data_access. intros H.
  assert (Hex : exists a', softmmu a' (2 ^ s) w idx (dc_pc dc) env = Done at_ env').
  { destruct ((s =? 0) || _); [by eexists|].
    destruct (xtensa_option_enabled config OPTION_UNALIGNED_EXCEPTION) eqn:Hopt; [|by eexists].
    destruct (a mod 2 ^ s =? 0); [by eexists|]. by rewrite unaligned_traps in H. }
  destruct Hex as [a' H']. split; [by eapply softmmu_distinct|].
  eapply softmmu_regs. by erewrite H'.
Qed.
End accesses.

(** C6: What a store wrote, a load of the same size from the same address reads
    back: S8I, S16I or S32I followed by the matching load leaves in the target
    register the low bytes of the stored register, zero or sign extended, and
    every byte outside the access keeps its contents. *)
Theorem store_load_roundtrip (config : XtensaConfig) softmmu {Hlaws : SoftmmuLaws softmmu}
    dc s sg t u r imm (m : machine) at_ env1 env2 :
  0 <= s <= 2 -> sg = 0 \/ sg = MO_SIGN ->
  length (regs (m_env m)) = 16%nat -> 0 <= u < 16 ->
  let a := u32 (nthZ (regs (m_env m)) r + imm) in
  data_access config softmmu dc a s 1 (dc_cring dc) (m_env m) = Done at_ env1 ->
  data_access config softmmu dc a s 0 (dc_cring dc) env1 = Done at_ env2 ->
  exists m',
    (translate_ldst config softmmu dc s true t r imm ;;
     translate_ldst config softmmu dc (s ||| sg) false u r imm) m = Done tt m' /\
    (let v := nthZ (regs (m_env m)) t in
     nthZ (regs (m_env m')) u =
       if sg =? MO_SIGN then u32 (sext (8 * 2 ^ s) v) else v mod 2 ^ (8 * 2 ^ s)) /\
    (forall p, (forall k, 0 <= k < 2 ^ s -> at_ k <> p) -> m_mem m' p = m_mem m p).
Proof.
  intros Hs Hg Hlen Hu a Hst Hld.
  destruct (access_laws config softmmu _ _ _ _ _ _ _ _ Hst) as [Hd Hr].
  destruct (access_laws config softmmu _ _ _ _ _ _ _ _ Hld) as [_ Hr2].
  assert (Hn : 0 <= 2 ^ s) by (apply Z.pow_nonneg; lia).
  pose proof (ldst_access config softmmu dc s 0 true t r imm m ltac:(lia) ltac:(lia)) as E1.
  rewrite Z.lor_0_r in E1. fold a in E1. unfold on_env in E1. unfold bind in E1 at 1.
  cbn [b2z] in E1. rewrite Hst in E1. unfold bind at 1. rewrite E1. unfold modify.
  rewrite ldst_access by lia. unfold bind at 1, on_env. cbn [m_env with_mem with_env b2z].
  rewrite Hr. fold a. rewrite Hld. eexists. split; [reflexivity|]. split.
  - cbn [m_env with_mem with_env m_mem regs set_reg set_regs].
    rewrite mem_read_write by done. rewrite nthZ_setZ_eq by (rewrite Hr2, Hr, Hlen; lia).
    destruct (sg =? 8); [|done]. f_equal. apply sext_congr. rewrite Z.mod_mod; [done|].
    apply Z.pow_nonzero; lia.
  - intros p Hp. cbn. by rewrite mem_write_other.
Qed.

(** A lookup for examples: physical addresses are virtual addresses. *)
Definition flat_softmmu (a n w idx insn_pc : Z) : cpuM (Z -> Z) := ret (fun k => a + k).
#[export] Instance flat_laws : SoftmmuLaws flat_softmmu.
Proof.
  split; unfold flat_softmmu, ret; intros; simplify_eq/=; [|done]. intros j k _ _ E. lia.
Qed.

Definition example_machine : machine :=
  machine_of (set_regs (setZ (setZ (replicate 16 0) 3 0x1234ff80) 4 0x3fc88000) zero_env)
    (fun _ => 0xaa) tie_zero.

Lemma store_load_roundtrip_witness :
  exists m',
    (translate_ldst esp32s3_config flat_softmmu (tb_context esp32s3_config zero_env) MO_16 true 3 4 6 ;;
     translate_ldst esp32s3_config flat_softmmu (tb_context esp32s3_config zero_env) (MO_16 ||| MO_SIGN) false 5 4 6)
      example_machine = Done tt m' /\
    nthZ (regs (m_env m')) 5 = 0xffffff80 /\ m_mem m' 0x3fc88008 = 0xaa.
Proof.
  destruct (store_load_roundtrip esp32s3_config flat_softmmu (tb_context esp32s3_config zero_env)
    1 8 3 5 4 6 example_machine (fun k => 0x3fc88006 + k) (m_env example_machine) (m_env example_machine))
    as (m' & E & Hu & Hm); [lia|lia|done|lia|done|done|].
  exists m'. split; [exact E|]. split; [rewrite Hu; by vm_compute|].
  rewrite Hm; [done|]. intros k Hk. lia.
Defined.

(** C23: On a core with the unaligned exception option and no hardware alignment
    a load or store at a misaligned address raises LoadStoreAlignment: EXCCAUSE
    and EXCVADDR name the fault, the program counter is the instruction's, and
    neither memory nor a register has changed. *)
Theorem misaligned_access_traps (config : XtensaConfig) softmmu dc s sg store t r imm (m : machine) :
  1 <= s <= 2 -> sg = 0 \/ sg = MO_SIGN ->
  xtensa_option_enabled config OPTION_UNALIGNED_EXCEPTION = true ->
  xtensa_option_enabled config OPTION_HW_ALIGNMENT = false ->
  let a := u32 (nthZ (regs (m_env m)) r + imm) in
  a mod 2 ^ s <> 0 ->
  exists m',
    translate_ldst config softmmu dc (s ||| sg) store t r imm m = LoopExit m' /\
    sr (m_env m') EXCCAUSE = LOAD_STORE_ALIGNMENT_CAUSE /\ sr (m_env m') EXCVADDR = a /\
    pc (m_env m') = dc_pc dc /\
    regs (m_env m') = regs (m_env m) /\ m_mem m' = m_mem m /\ m_tie m' = m_tie m.
Proof.
  intros Hs Hg Hun Hhw a Ha. rewrite ldst_access by lia. fold a. unfold data_access.
  rewrite (proj2 (Z.eqb_neq s 0)), Hhw, Hun, (proj2 (Z.eqb_neq (a mod 2 ^ s) 0)) by (done || lia).
  cbn [orb]. unfold bind at 1, on_env. rewrite unaligned_traps by done.
  eexists. split; [reflexivity|]. cbn [m_env with_env m_mem m_tie].
  unfold access_trap, general_entry.
  destruct (Z.testbit (sr (m_env m) PS) 4 && truthy (ndepc config)); repeat split; by sr_simpl.
Qed.

(** A core that traps misaligned accesses, for examples. *)
Definition trap_config : XtensaConfig :=
  let c := esp32s3_config in
  {| options := option_mask [OPTION_EXCEPTION; OPTION_UNALIGNED_EXCEPTION];
     nareg := nareg c; excm_level := excm_level c; ndepc := ndepc c;
     max_insn_size := max_insn_size c; vecbase := vecbase c;
     exception_vector := exception_vector c; ninterrupt := ninterrupt c; nlevel := nlevel c;
     nmi_level := nmi_level c; interrupt_vector := interrupt_vector c;
     level_mask := level_mask c; inttype_mask := inttype_mask c; interrupt := interrupt c;
     nccompare := nccompare c; timerint := timerint c; nextint := nextint c;
     extint := extint c; debug_level := debug_level c; nibreak := nibreak c;
     ndbreak := ndbreak c; icache_ways := icache_ways c; dcache_ways := dcache_ways c;
     memctl_mask := memctl_mask c; configid := configid c;
     cfg_itlb := cfg_itlb c; cfg_dtlb := cfg_dtlb c;
     mpu_align := 0; n_mpu_fg_segments := 0; n_mpu_bg_segments := 0; mpu_bg := [];
     dcache_line_bytes := 16; hw_version := 270012; use_first_nan := false |}.

Lemma misaligned_access_traps_witness :
  exists m',
    translate_ldst trap_config flat_softmmu (tb_context trap_config zero_env) MO_32 true 3 4 6
      example_machine = LoopExit m' /\
    sr (m_env m') EXCVADDR = 0x3fc88006 /\ m_mem m' 0x3fc88006 = 0xaa.
Proof.
  destruct (misaligned_access_traps trap_config flat_softmmu (tb_context trap_config zero_env)
    2 0 true 3 4 6 example_machine) as (m' & E & _ & Ha & _ & _ & Hm & _);
    [lia|lia|by vm_compute|by vm_compute|by vm_compute|].
  exists m'. split; [exact E|]. split; [rewrite Ha; by vm_compute|by rewrite Hm].
Defined.

(** ** Atomic operations *)

Section atomic.
Context (config : XtensaConfig) (ldl : Z -> option Z).
Context (softmmu : Z -> Z -> Z -> Z -> Z -> cpuM (Z -> Z)).

(** The address an aligned 32-bit access uses. *)
Definition word_address (x : Z) : Z :=
  if xtensa_option_enabled config OPTION_UNALIGNED_EXCEPTION then x else x - x mod 4.

Lemma word_alignment x :
  in32 x -> gen_load_store_alignment config (MO_TEUL ||| MO_ALIGN) x = (0xe2, word_address x).
Proof.
  intros Hx. unfold gen_load_store_alignment, word_address. change ((2 ||| 224) &&& 224 =? 0) with false.
  cbn [andb negb]. destruct (xtensa_option_enabled config OPTION_UNALIGNED_EXCEPTION); [done|].
  cbn [negb]. change ((2 ||| 224) &&& 7 =? 0) with false. cbv iota.
  change (lsl32 (2 ^ 32 - 1) (memop_alignment_bits (2 ||| 224))) with (2 ^ 32 - 2 ^ 2).
  by rewrite land_high_mask by (done || lia).
Qed.

(** A word access that is found: aligned, and mapped by the lookup. *)
Definition word_mapped (dc : DisasContext) (a w : Z) (env : CPUXtensaState) (at_ : Z -> Z)
    (env' : CPUXtensaState) : Prop :=
  a mod 4 = 0 /\ softmmu a 4 w (dc_cring dc) (dc_pc dc) env = Done at_ env'.

Lemma word_access dc a w m at_ env' :
  word_mapped dc a w (m_env m) at_ env' ->
  qemu_access config softmmu dc 0xe2 a w (dc_cring dc) m = Done at_ (with_env env' m).
Proof.
  intros [Ha Hm]. unfold qemu_access. change (memop_alignment_bits 226) with 2.
  change (memop_size 226) with 4. rewrite land_ones_mod by lia. change (2 ^ 2) with 4. rewrite Ha.
  cbn [truthy Z.eqb negb]. unfold on_env. by rewrite Hm.
Qed.

Lemma cmpxchg_eq dc a cmpv newv m at_ env' :
  word_mapped dc a 1 (m_env m) at_ env' ->
  atomic_cmpxchg config softmmu dc 0xe2 a cmpv newv (dc_cring dc) m =
    let old := mem_read (m_mem m) at_ 4 in
    Done old (mkMachine env' (if old =? cmpv then mem_write (m_mem m) at_ 4 newv else m_mem m)
                (m_exclusive_val m) (m_fr m) (m_tie m) (m_sar m) (m_next_icount m) (m_uregs m) (m_fr_high m) (m_fp_status m)).
Proof.
  intros H. unfold atomic_cmpxchg, bind. rewrite (word_access _ _ _ _ _ _ H).
  change (memop_size 226) with 4. cbn. by destruct (mem_read (m_mem m) at_ 4 =? cmpv).
Qed.
End atomic.

(** C25: S32C1I is a compare-and-swap: when the checks of ATOMCTL pass and the
    word is mapped, the register receives the old word and memory receives the
    register exactly when the old word equals SCOMPARE1; otherwise memory is
    unchanged. *)
Theorem s32c1i_compare_and_swap (config : XtensaConfig) ldl softmmu {Hlaws : SoftmmuLaws softmmu}
    dc t s imm (m : machine) at_ env1 env2 :
  let x := u32 (nthZ (regs (m_env m)) s + imm) in
  let a := word_address config x in
  let new := nthZ (regs (m_env m)) t in
  helper_check_atomctl config ldl (dc_pc dc) a (m_env m) = Done tt env1 ->
  word_mapped softmmu dc a 1 env1 at_ env2 ->
  length (regs env2) = 16%nat -> 0 <= t < 16 ->
  exists m',
    translate_s32c1i config ldl softmmu dc t s imm m = Done tt m' /\
    let old := mem_read (m_mem m) at_ 4 in
    nthZ (regs (m_env m')) t = old /\
    (old = sr env1 SCOMPARE1 -> mem_read (m_mem m') at_ 4 = u32 new) /\
    (old <> sr env1 SCOMPARE1 -> m_mem m' = m_mem m) /\
    (forall p, (forall k, 0 <= k < 4 -> at_ k <> p) -> m_mem m' p = m_mem m p).
Proof.
  intros x a new Hchk Hmap Hlen Ht. destruct Hmap as [Hal Hmap].
  pose proof (softmmu_distinct _ _ _ _ _ _ _ _ Hmap) as Hd.
  unfold translate_s32c1i, arg_in, gets. unfold bind at 1 2. fold x new.
  rewrite word_alignment by apply u32_in32. fold a.
  unfold gen_check_atomctl. unfold bind at 1. unfold on_env at 1. rewrite Hchk.
  unfold bind at 1, get. unfold bind at 1. cbn [m_env with_env].
  rewrite (cmpxchg_eq config softmmu dc a _ new (with_env env1 m) at_ env2) by done.
  cbn [m_mem with_env m_exclusive_val m_tie]. eexists. split; [reflexivity|]. cbn.
  rewrite nthZ_setZ_eq by lia. split; [done|].
  destruct (Z.eqb_spec (mem_read (m_mem m) at_ 4) (sr env1 SCOMPARE1)) as [E|E].
  - split; [intros _; by rewrite mem_read_write by done|]. split; [done|].
    intros p Hp. by rewrite mem_write_other.
  - done.
Qed.

Definition atomic_machine : machine :=
  machine_of
    (set_regs (setZ (setZ (replicate 16 0) 3 77) 4 0x3fc88000)
      (set_dtlb (fun _ _ => mkTlbEntry 0x20000000 0x20000000 0 1 true)
        (set_sr ATOMCTL 0x15 (set_sr SCOMPARE1 0xaaaaaaaa zero_env))))
    (fun _ => 0xaa) tie_zero.

Lemma s32c1i_compare_and_swap_witness :
  exists m',
    translate_s32c1i esp32s3_config (fun _ => None) flat_softmmu
      (tb_context esp32s3_config zero_env) 3 4 8 atomic_machine = Done tt m' /\
    nthZ (regs (m_env m')) 3 = 0xaaaaaaaa /\
    mem_read (m_mem m') (fun k => 0x3fc88008 + k) 4 = 77.
Proof.
  destruct (s32c1i_compare_and_swap esp32s3_config (fun _ => None) flat_softmmu
    (tb_context esp32s3_config zero_env) 3 4 8 atomic_machine (fun k => 0x3fc88008 + k)
    (m_env atomic_machine) (m_env atomic_machine)) as (m' & E & Hold & Hnew & _);
    [by vm_compute|by split|done|lia|].
  exists m'. split; [exact E|]. split; [rewrite Hold; by vm_compute|]. by rewrite Hnew by by vm_compute.
Defined.

(** No address an S32EX can store through equals the idle value of the monitor. *)
Definition no_reservation (m : machine) : Prop := exclusive_addr (m_env m) = 2 ^ 32 - 1.

Lemma unaligned_never_done {A} config a insn_pc env (x : A) env' :
  xtensa_cpu_do_unaligned_access config a insn_pc env <> Done x env'.
Proof.
  unfold xtensa_cpu_do_unaligned_access, helper_exception_cause_vaddr, cpu_restore_state.
  unfold bind, massert, modify, get.
  destruct (xtensa_option_enabled config OPTION_UNALIGNED_EXCEPTION); [|done].
  by rewrite exception_cause_eq.
Qed.

(** A word access that completes was mapped. *)
Lemma word_access_inv config softmmu dc a w m at_ m' :
  qemu_access config softmmu dc 0xe2 a w (dc_cring dc) m = Done at_ m' ->
  exists env', word_mapped softmmu dc a w (m_env m) at_ env' /\ m' = with_env env' m.
Proof.
  unfold qemu_access, word_mapped. change (memop_alignment_bits 226) with 2.
  change (memop_size 226) with 4. rewrite land_ones_mod by lia. change (2 ^ 2) with 4.
  unfold on_env. destruct (truthy (a mod 4)) eqn:Ha.
  - intros H. destruct (xtensa_cpu_do_unaligned_access _ _ _ _) eqn:E; simplify_eq.
    by apply unaligned_never_done in E.
  - apply truthy_false in Ha. destruct (softmmu _ _ _ _ _ _) eqn:E; intros H; simplify_eq. by eexists.
Qed.

Lemma cmpxchg_inv config softmmu dc a cmpv newv m old m' :
  atomic_cmpxchg config softmmu dc 0xe2 a cmpv newv (dc_cring dc) m = Done old m' ->
  exists at_ env', word_mapped softmmu dc a 1 (m_env m) at_ env' /\
    old = mem_read (m_mem m) at_ 4 /\
    m' = mkMachine env' (if old =? cmpv then mem_write (m_mem m) at_ 4 newv else m_mem m)
           (m_exclusive_val m) (m_fr m) (m_tie m) (m_sar m) (m_next_icount m) (m_uregs m) (m_fr_high m) (m_fp_status m).
Proof.
  intros H. unfold atomic_cmpxchg, bind at 1 in H.
  destruct (qemu_access _ _ _ _ _ _ _ _) as [at_ m0| |] eqn:E; [|done|done].
  apply word_access_inv in E as (env' & Hm & ->). exists at_, env'. split; [done|].
  change (memop_size 226) with 4 in H. unfold bind, get in H. cbn [m_mem with_env] in H.
  destruct (mem_read (m_mem m) at_ 4 =? cmpv) eqn:Ec; unfold modify, ret in H;
    injection H as <- <-; by rewrite Ec.
Qed.

Lemma atomctl_result_set b env : atomctl_result (set_atomctl_result (b2z b) env) = b2z b.
Proof.
  unfold atomctl_result, set_atomctl_result. rewrite sr_set_sr_eq.
  rewrite extract_deposit_bit by lia. by destruct b.
Qed.

(** An S32EX away from the reservation stores nothing and reports failure. *)
Lemma s32ex_miss config ldl softmmu dc t s m :
  in32 (nthZ (regs (m_env m)) s) ->
  word_address config (nthZ (regs (m_env m)) s) <> exclusive_addr (m_env m) ->
  exists env', translate_s32ex config ldl softmmu dc t s m = Done tt (with_env env' m) /\
    atomctl_result env' = 0.
Proof.
  intros Hx Hne. unfold translate_s32ex, arg_in, gets. unfold bind at 1.
  rewrite word_alignment by done. unfold bind at 1, get.
  rewrite (proj2 (Z.eqb_neq _ _) Hne). cbn [negb]. eexists. split; [reflexivity|].
  apply (atomctl_result_set false).
Qed.

(** *** The attribute check leaves the address registers alone *)

Definition regs_kept {A} (c : cpuM A) : Prop := forall env a env', c env = Done a env' -> regs env' = regs env.

Section regs_kept.
Context {A B : Type}.
Lemma kept_bind (c : cpuM A) (k : A -> cpuM B) : regs_kept c -> (forall a, regs_kept (k a)) -> regs_kept (bind c k).
Proof.
  intros Hc Hk env b env'. unfold bind. destruct (c env) as [a env1| |] eqn:E; [|done|done].
  intros H. rewrite (Hk _ _ _ _ H). by eapply Hc.
Qed.
Lemma kept_ret (a : A) : regs_kept (ret a).
Proof. by intros env b env' [= _ <-]. Qed.
Lemma kept_gets (f : CPUXtensaState -> A) : regs_kept (gets f).
Proof. by intros env b env' [= _ <-]. Qed.
Lemma kept_massert b : regs_kept (massert b).
Proof. intros env a env'. unfold massert. destruct b; [by intros [= _ <-]|done]. Qed.
Lemma kept_modify f : (forall env, regs (f env) = regs env) -> regs_kept (modify f).
Proof. intros Hf env b env' [= _ <-]. apply Hf. Qed.
Lemma kept_raises config epc cause vaddr : regs_kept (A := A) (helper_exception_cause_vaddr config epc cause vaddr).
Proof. intros env a env'. unfold helper_exception_cause_vaddr, bind, modify. by rewrite exception_cause_eq. Qed.
End regs_kept.
Lemma kept_get : regs_kept get.
Proof. by intros env a env' [= _ <-]. Qed.
Lemma store_tlb_regs d wi ei e env : regs (store_tlb_entry d wi ei e env) = regs env.
Proof. by destruct d. Qed.

Create HintDb regs_kept discriminated.
#[local] Hint Resolve kept_ret kept_gets kept_massert kept_get kept_raises : regs_kept.
Ltac kept_tac :=
  repeat first [progress auto with regs_kept | apply kept_bind; [|intros] | apply kept_modify; intros; try done; apply store_tlb_regs
    | match goal with
      | |- regs_kept (when ?b _) => unfold when; destruct b
      | |- regs_kept (let '(_, _) := ?x in _) => destruct x
      | |- regs_kept (match ?x with _ => _ end) => destruct x
      end].

Lemma kept_entry config d wi ei : regs_kept (xtensa_tlb_get_entry config d wi ei).
Proof. unfold xtensa_tlb_get_entry. kept_tac. Qed.
#[local] Hint Resolve kept_entry : regs_kept.
Lemma kept_set_entry config d wi ei vpn pte : regs_kept (xtensa_tlb_set_entry config d wi ei vpn pte).
Proof. unfold xtensa_tlb_set_entry. kept_tac. Qed.
#[local] Hint Resolve kept_set_entry : regs_kept.
Lemma kept_refill config upd vaddr is_write mmu_idx pte d : regs_kept (refill config upd vaddr is_write mmu_idx pte d).
Proof. unfold refill. kept_tac. Qed.
#[local] Hint Resolve kept_refill : regs_kept.
Lemma kept_mmu config pte_of upd vaddr is_write mmu_idx may :
  (forall v, regs_kept (pte_of v)) -> regs_kept (get_physical_addr_mmu_with config pte_of upd vaddr is_write mmu_idx may).
Proof. intros Hp. unfold get_physical_addr_mmu_with. kept_tac. Qed.
Lemma kept_translation config ldl upd vaddr is_write mmu_idx :
  regs_kept (xtensa_get_physical_addr config ldl upd vaddr is_write mmu_idx).
Proof.
  unfold xtensa_get_physical_addr, get_physical_addr_mmu. destruct (xtensa_option_enabled config OPTION_MMU).
  - apply kept_mmu. intros v. unfold get_pte. apply kept_bind; [apply kept_get|]. intros env.
    apply kept_bind; [apply kept_mmu; intros; apply kept_ret|]. intros r. kept_tac.
  - unfold get_physical_addr_region, get_physical_addr_mpu, bg_attr. kept_tac.
Qed.
Lemma kept_check_exclusive config ldl dc addr is_write : regs_kept (gen_check_exclusive config ldl dc addr is_write).
Proof.
  unfold gen_check_exclusive, helper_check_exclusive, raise_if. destruct (negb _); [|apply kept_ret].
  apply kept_bind; [apply kept_get|]. intros env. apply kept_bind; [apply kept_translation|]. intros r. kept_tac.
Qed.

(** The word an exclusive access finds: the attributes of its page are checked, then the
    address is looked up. *)
Definition exclusive_word config ldl softmmu (dc : DisasContext) (addr w : Z) (env : CPUXtensaState) (at_ : Z -> Z) : Prop :=
  exists env1 env2, gen_check_exclusive config ldl dc addr w env = Done tt env1 /\ word_mapped softmmu dc addr w env1 at_ env2.

(** An L32EX that completes reserves the word it read. *)
Lemma l32ex_reserves config ldl softmmu dc t s m m1 :
  in32 (nthZ (regs (m_env m)) s) -> translate_l32ex config ldl softmmu dc t s m = Done tt m1 ->
  let addr := word_address config (nthZ (regs (m_env m)) s) in
  exclusive_addr (m_env m1) = addr /\
  exists at_, exclusive_word config ldl softmmu dc addr 0 (m_env m) at_ /\ m_exclusive_val m1 = mem_read (m_mem m) at_ 4.
Proof.
  intros Hx. unfold translate_l32ex, arg_in, gets. unfold bind at 1. rewrite word_alignment by done.
  unfold bind at 1, on_env at 1. destruct (gen_check_exclusive _ _ _ _ _ _) as [[] env1|?|] eqn:Hc; [|done|done].
  unfold bind at 1, qemu_ld. unfold bind at 1.
  destruct (qemu_access _ _ _ _ _ _ _ _) as [at_ m0| |] eqn:E; [|done|done].
  apply word_access_inv in E as (env2 & Hm & ->). cbn [m_env with_env] in Hm. intros H. cbn in H. injection H as <-.
  split; [done|]. exists at_. split; [by exists env1, env2|done].
Qed.

(** An S32EX at the reservation, when it completes, has compared and swapped. *)
Lemma s32ex_hit config ldl softmmu dc t s m m1 :
  in32 (nthZ (regs (m_env m)) s) ->
  word_address config (nthZ (regs (m_env m)) s) = exclusive_addr (m_env m) ->
  translate_s32ex config ldl softmmu dc t s m = Done tt m1 ->
  exists at_ env1 env2,
    gen_check_exclusive config ldl dc (exclusive_addr (m_env m)) 1 (m_env m) = Done tt env1 /\
    word_mapped softmmu dc (exclusive_addr (m_env m)) 1 env1 at_ env2 /\
    let hit := mem_read (m_mem m) at_ 4 =? m_exclusive_val m in
    m_mem m1 = (if hit then mem_write (m_mem m) at_ 4 (nthZ (regs (m_env m)) t) else m_mem m) /\
    atomctl_result (m_env m1) = b2z hit /\ no_reservation m1.
Proof.
  intros Hx He. unfold translate_s32ex, arg_in, gets. unfold bind at 1.
  rewrite word_alignment by done. rewrite He. unfold bind at 1, get.
  rewrite Z.eqb_refl. cbn [negb]. unfold bind at 1 2. unfold on_env at 1.
  destruct (gen_check_exclusive _ _ _ _ _ _) as [[] env1|?|] eqn:Hc; [|done|done].
  unfold bind at 1. cbn [m_env with_env]. unfold bind at 1.
  destruct (atomic_cmpxchg _ _ _ _ _ _ _ _ _) as [old m'|?|] eqn:E; [|done|done].
  apply cmpxchg_inv in E as (at_ & env2 & Hmap & -> & ->). cbn [m_env with_env m_mem] in *.
  intros H. cbn in H. unfold mod_env, modify in H. injection H as <-. exists at_, env1, env2. split; [done|]. split; [done|].
  split; [cbn; by rewrite (kept_check_exclusive _ _ _ _ _ _ _ _ Hc)|]. split; [apply atomctl_result_set|reflexivity].
Qed.

(** The address of an S32EX that stores is never the idle value of the monitor. *)
Lemma s32ex_no_reservation config ldl softmmu dc t s m m1 :
  in32 (nthZ (regs (m_env m)) s) -> no_reservation m ->
  translate_s32ex config ldl softmmu dc t s m = Done tt m1 ->
  m_mem m1 = m_mem m /\ atomctl_result (m_env m1) = 0.
Proof.
  intros Hx Hres Hrun.
  destruct (decide (word_address config (nthZ (regs (m_env m)) s) = exclusive_addr (m_env m))) as [E|E].
  - destruct (s32ex_hit _ _ _ _ _ _ _ _ Hx E Hrun) as (at_ & env1 & env2 & _ & [Ha _] & _).
    rewrite Hres in Ha. by vm_compute in Ha.
  - destruct (s32ex_miss config ldl softmmu dc t s m Hx E) as (env' & E' & Hr).
    rewrite E' in Hrun. by simplify_eq.
Qed.

(** C26: The exclusive accesses.  L32EX reserves the word it reads: the reservation is its
    address and the value found there.  An S32EX that completes either reports
    success or failure.  On success its address is the reserved one, the word at that
    address held the reserved value, exactly that word now holds the register of the
    store, and the reservation is used up: as long as no other L32EX runs, every
    later S32EX that completes leaves memory unchanged and reports failure.  On
    failure memory is unchanged. *)
Theorem exclusive_store_once (config : XtensaConfig) ldl softmmu :
  (forall dc t s m m1, in32 (nthZ (regs (m_env m)) s) -> translate_l32ex config ldl softmmu dc t s m = Done tt m1 ->
    let addr := word_address config (nthZ (regs (m_env m)) s) in
    exclusive_addr (m_env m1) = addr /\
    exists at_, exclusive_word config ldl softmmu dc addr 0 (m_env m) at_ /\ m_exclusive_val m1 = mem_read (m_mem m) at_ 4) /\
  (forall dc t s m m1, in32 (nthZ (regs (m_env m)) s) -> translate_s32ex config ldl softmmu dc t s m = Done tt m1 ->
    let addr := exclusive_addr (m_env m) in
    (atomctl_result (m_env m1) = 1 /\
     word_address config (nthZ (regs (m_env m)) s) = addr /\
     (exists at_, exclusive_word config ldl softmmu dc addr 1 (m_env m) at_ /\
        mem_read (m_mem m) at_ 4 = m_exclusive_val m /\
        m_mem m1 = mem_write (m_mem m) at_ 4 (nthZ (regs (m_env m)) t)) /\
     (forall dc' t' s' m2 m3,
        exclusive_addr (m_env m2) = exclusive_addr (m_env m1) ->
        in32 (nthZ (regs (m_env m2)) s') ->
        translate_s32ex config ldl softmmu dc' t' s' m2 = Done tt m3 ->
        m_mem m3 = m_mem m2 /\ atomctl_result (m_env m3) = 0)) \/
    (atomctl_result (m_env m1) = 0 /\ m_mem m1 = m_mem m)).
Proof.
  split; [intros dc t s m m1; apply l32ex_reserves|]. intros dc t s m m1 Hx Hrun addr.
  destruct (decide (word_address config (nthZ (regs (m_env m)) s) = exclusive_addr (m_env m))) as [E|E].
  - destruct (s32ex_hit _ _ _ _ _ _ _ _ Hx E Hrun) as (at_ & env1 & env2 & Hc & Hw & Hm & Hr & Hres).
    destruct (Z.eqb_spec (mem_read (m_mem m) at_ 4) (m_exclusive_val m)) as [Ev|]; [left|by right].
    split; [done|]. split; [done|]. split; [exists at_; split; [by exists env1, env2|done]|].
    intros dc' t' s' m2 m3 He2 Hx2 Hrun2.
    eapply s32ex_no_reservation; [done| |done]. unfold no_reservation in *. by rewrite He2.
  - right. destruct (s32ex_miss config ldl softmmu dc t s m Hx E) as (env' & E' & Hr).
    rewrite E' in Hrun. by simplify_eq.
Qed.

(** The state a run ends in, for examples. *)
Definition state_of {S} (d : S) (o : outcome S unit) : S := match o with Done _ m => m | _ => d end.
Definition completes {S} (o : outcome S unit) : bool := match o with Done _ _ => true | _ => false end.

Lemma completes_done {S} (d : S) o : completes o = true -> o = Done tt (state_of d o).
Proof. by destruct o as [[]| |]. Qed.

(** L32EX at 0x3fc88000, then S32EX of register 3 there, twice. *)
Definition exclusive_l32ex : outcome machine unit :=
  translate_l32ex esp32s3_config (fun _ => None) flat_softmmu (tb_context esp32s3_config zero_env)
    5 4 atomic_machine.
Abbreviation exclusive_s32ex := (translate_s32ex esp32s3_config (fun _ => None) flat_softmmu
  (tb_context esp32s3_config zero_env) 3 4) (only parsing).

Definition reserved_machine : machine := state_of atomic_machine exclusive_l32ex.
Definition stored_machine : machine := state_of atomic_machine (exclusive_s32ex reserved_machine).
Definition again_machine : machine := state_of atomic_machine (exclusive_s32ex stored_machine).

Lemma stored_run : exclusive_s32ex reserved_machine = Done tt stored_machine.
Proof. apply (completes_done atomic_machine (exclusive_s32ex reserved_machine)). by vm_compute. Qed.
Lemma again_run : exclusive_s32ex stored_machine = Done tt again_machine.
Proof. apply (completes_done atomic_machine (exclusive_s32ex stored_machine)). by vm_compute. Qed.

Lemma exclusive_store_once_witness :
  nthZ (regs (m_env reserved_machine)) 5 = 0xaaaaaaaa /\
  mem_read (m_mem stored_machine) (fun k => 0x3fc88000 + k) 4 = 77 /\
  m_mem again_machine = m_mem stored_machine.
Proof.
  split; [by vm_compute|]. split; [by vm_compute|].
  assert (H0 : in32 (nthZ (regs (m_env reserved_machine)) 4)) by by vm_compute.
  assert (H1 : in32 (nthZ (regs (m_env stored_machine)) 4)) by by vm_compute.
  assert (Hok : atomctl_result (m_env stored_machine) = 1) by by vm_compute.
  destruct (proj2 (exclusive_store_once esp32s3_config (fun _ => None) flat_softmmu)
    (tb_context esp32s3_config zero_env) 3 4 reserved_machine stored_machine H0 stored_run) as [(_ & _ & _ & Hagain)|[Hno _]];
    [|by rewrite Hok in Hno].
  exact (proj1 (Hagain (tb_context esp32s3_config zero_env) 3 4 stored_machine again_machine eq_refl H1 again_run)).
Defined.
