(* ===== verification/TieMem.v ===== *)
(** * The ESP32-S3 vector unit: instructions ([translate_tie_esp32s3.c])

    Each [translate_*] function of the vector extension as the computation its
    emitted operations perform on the machine: address arithmetic on the AR
    registers, aligned accesses to memory, and the helpers of [Tie], [TieArith],
    [TieShift] and [TieFft] on the vector state.  [arg] is the list of operand
    values of the instruction (register numbers and immediates), [par] the
    constants of its table entry. *)

From S2P Require Import Prelude Cpu Exception TbFlags Control Arith Lanes Tie TieArith.
From S2P Require Import TieShift TieFft LoadStore.

#[local] Open Scope mach_scope.

Abbreviation addr_nop := 0 (only parsing).
Abbreviation addr_inc16 := 1 (only parsing).
Abbreviation addr_dec16 := 2 (only parsing).
Abbreviation addr_ip := 3 (only parsing).
Abbreviation addr_xp := 4 (only parsing).
Abbreviation addr_ldbc_inc1 := 5 (only parsing).
Abbreviation ee_load_op := 0 (only parsing).
Abbreviation ee_store_op := 1 (only parsing).
Abbreviation ee_add_op := 0 (only parsing).
Abbreviation ee_sub_op := 1 (only parsing).
Abbreviation ee_movi_a := 0 (only parsing).
Abbreviation ee_movi_q := 1 (only parsing).
Abbreviation vmul_qup := 9 (only parsing).
Abbreviation ILLEGAL_INSTRUCTION_CAUSE := 0 (only parsing).

Definition on_tie (f : tie -> tie) : machM unit := modify (fun m => with_tie (f (m_tie m)) m).
Definition ask_tie (f : tie -> Z) : machM Z := gets (fun m => f (m_tie m)).
(** A helper that returns a value and changes the state. *)
Definition run_tie (f : tie -> Z * tie) : machM Z :=
  fun m => let '(v, t) := f (m_tie m) in Done v (with_tie t m).
(** A helper that leaves the arrays it indexes has no defined result. *)
Definition try_tie (f : tie -> option tie) : machM unit :=
  fun m => match f (m_tie m) with Some t => Done tt (with_tie t m) | None => AssertFail end.
Definition try_ask (f : tie -> option Z) : machM Z :=
  fun m => match f (m_tie m) with Some v => Done v m | None => AssertFail end.

Section translators.
Context (config : XtensaConfig) (softmmu : Z -> Z -> Z -> Z -> Z -> cpuM (Z -> Z)).
Context (dc : DisasContext) (tr : sar_tracker).

(** ** Accesses *)

Definition tie_ld (size addr : Z) : machM Z :=
  let '(mop, addr) := gen_load_store_alignment config (size ||| MO_TE) addr in
  qemu_ld config softmmu dc mop addr (dc_cring dc).
Definition tie_st (size data addr : Z) : machM unit :=
  let '(mop, addr) := gen_load_store_alignment config (size ||| MO_TE) addr in
  qemu_st config softmmu dc mop data addr (dc_cring dc).

Definition align8 (x : Z) : Z := x &&& 0xfffffff8.
Definition align16 (x : Z) : Z := x &&& 0xfffffff0.
(** Half [i] of the 16 bytes at [x]. *)
Definition half (x i : Z) : Z := Prelude.u32 (align16 x + i * 8).

Definition unknown_extension : machM unit :=
  on_env (gen_exception_cause config dc ILLEGAL_INSTRUCTION_CAUSE).

Definition add_imm (r imm : Z) : machM unit := x <- arg_in r ;; arg_out r (Prelude.u32 (x + imm)).
Definition add_reg (r s : Z) : machM unit :=
  x <- arg_in r ;; y <- arg_in s ;; arg_out r (Prelude.u32 (x + y)).

(** The update of the address register [r], by the operand [k]. *)
Definition ip_xp (mode r k : Z) : machM unit :=
  if mode =? addr_ip then add_imm r k
  else if mode =? addr_xp then add_reg r k
  else unknown_extension.

Section insn.
Context (arg par : list Z).
Abbreviation A k := (nthZ arg k) (only parsing).
Abbreviation P k := (nthZ par k) (only parsing).

(** The SAR operand the instructions take: [dc->sar_m32] when a left shift
    amount is known, else the register. *)
Definition tie_sar : machM Z :=
  if sar_m32_5bit tr then ret (sar_m32 tr) else gets (fun m => sr (m_env m) SAR).

(** ** User registers *)

Definition translate_zero : machM unit :=
  if (P 0 =? ee_zero_qacc) || (P 0 =? ee_zero_accx) then on_tie (zero_s3 (P 0) 0)
  else on_tie (zero_s3 (P 0) (A 0)).

Definition translate_wur : machM unit := v <- arg_in (A 0) ;; on_tie (wur_s3 v (P 0)).
Definition translate_rur : machM unit := v <- ask_tie (rur_s3 (P 0)) ;; arg_out (A 0) v.

(** ** Loads and stores of Q registers *)

Definition translate_vld_64_s3 : machM unit :=
  x <- arg_in (A 1) ;;
  data <- tie_ld MO_64 (align8 x) ;;
  on_tie (vld_64_s3 (A 0) data (P 1)) ;;
  ip_xp (P 0) (A 1) (A 2).

Definition translate_vldhbc_s3 : machM unit :=
  for_range 0 2 (fun i =>
    x <- arg_in (A 2) ;;
    data <- tie_ld MO_64 (half x i) ;;
    on_tie (vldhbc_16_s3 (A i) data)) ;;
  add_imm (A 2) 16.

Definition translate_vldbc_s3 : machM unit :=
  x <- arg_in (A 1) ;;
  data <- (if P 1 =? vldbc_8 then tie_ld MO_8 (x &&& 0xffffffff)
           else if P 1 =? vldbc_16 then tie_ld MO_16 (x &&& 0xfffffffe)
           else if P 1 =? vldbc_32 then tie_ld MO_32 (x &&& 0xfffffffc)
           else unknown_extension ;; ret 0) ;;
  on_tie (vldbc_s3 (A 0) data (P 1)) ;;
  if P 0 =? addr_ip then add_imm (A 1) (A 2)
  else if P 0 =? addr_xp then add_reg (A 1) (A 2)
  else if P 0 =? addr_ldbc_inc1 then
    when (P 1 =? vldbc_8) (add_imm (A 1) 1) ;;
    when (P 1 =? vldbc_16) (add_imm (A 1) 2)
  else if negb (P 0 =? addr_nop) then unknown_extension
  else ret tt.

Definition translate_vst_64_s3 : machM unit :=
  x <- arg_in (A 1) ;;
  data <- ask_tie (vst_64_s3 (A 0) (P 1)) ;;
  tie_st MO_64 data (align8 x) ;;
  ip_xp (P 0) (A 1) (A 2).

Definition store_qreg_to_memory : machM unit :=
  for_range 0 2 (fun i =>
    x <- arg_in (A 1) ;;
    data <- ask_tie (vst_64_s3 (A 0) i) ;;
    tie_st MO_64 data (half x i)).

Definition load_qreg_from_memory : machM unit :=
  for_range 0 2 (fun i =>
    x <- arg_in (A 1) ;;
    data <- tie_ld MO_64 (half x i) ;;
    on_tie (vld_64_s3 (A 0) data i)).

Definition translate_vld_128_s3 : machM unit :=
  for_range 0 2 (fun i =>
    x <- arg_in (A 1) ;;
    data <- tie_ld MO_64 (half x i) ;;
    on_tie (vld_64_s3 (A 0) data i)) ;;
  ip_xp (P 0) (A 1) (A 2).

Definition translate_ld_qr_s3 : machM unit :=
  for_range 0 2 (fun i =>
    x <- arg_in (A 1) ;;
    data <- tie_ld MO_64 (Prelude.u32 (align16 x + A 2 + i * 8)) ;;
    on_tie (vld_64_s3 (A 0) data i)).

Definition translate_ld_usar_128_s3 : machM unit :=
  for_range 0 2 (fun i =>
    x <- arg_in (A 1) ;;
    data <- tie_ld MO_64 (half x i) ;;
    on_tie (vld_64_s3 (A 0) data i)) ;;
  x <- arg_in (A 1) ;;
  on_tie (set_sar_byte_s3 (x &&& 0xf)) ;;
  ip_xp (P 0) (A 1) (A 2).

Definition translate_ldqa_128_s3 : machM unit :=
  for_range 0 2 (fun i =>
    x <- arg_in (A 0) ;;
    data <- tie_ld MO_64 (half x i) ;;
    on_tie (ldqa_64_s3 (P 1) data i)) ;;
  ip_xp (P 0) (A 0) (A 1).

Definition translate_vst_128_s3 : machM unit :=
  for_range 0 2 (fun i =>
    x <- arg_in (A 1) ;;
    data <- ask_tie (vst_64_s3 (A 0) i) ;;
    tie_st MO_64 data (half x i)) ;;
  ip_xp (P 0) (A 1) (A 2).

Definition translate_st_qr_s3 : machM unit :=
  for_range 0 2 (fun i =>
    x <- arg_in (A 1) ;;
    data <- ask_tie (vst_64_s3 (A 0) i) ;;
    tie_st MO_64 data (Prelude.u32 (align16 x + A 2 + i * 8))).

Definition translate_mv_qr_s3 : machM unit := on_tie (mv_qr_s3 (A 0) (A 1)).

Definition translate_fft_vst_decp_s3 : machM unit :=
  x <- arg_in (A 1) ;;
  data_low <- ask_tie (fft_vst_64_s3 (A 0) (A 2) 0) ;;
  data_high <- ask_tie (fft_vst_64_s3 (A 0) (A 2) 1) ;;
  tie_st MO_64 data_low (align16 x) ;;
  tie_st MO_64 data_high (Prelude.u32 (align16 x + 8)) ;;
  add_imm (A 1) (-16).

(** ** Loads and stores of floating-point registers *)

Definition fr_in (r : Z) : machM Z := gets (fun m => m_fr m r).
Definition fr_out (r v : Z) : machM unit := modify (fun m => with_fr (fupd (m_fr m) r v) m).

Definition ldf_words (n : Z) (align : Z -> Z) (s : Z) : machM unit :=
  for_range 0 n (fun i =>
    x <- arg_in s ;;
    v <- tie_ld MO_32 (Prelude.u32 (align x + i * 4)) ;; fr_out (A (n - 1 - i)) v).
Definition stf_words (n : Z) (align : Z -> Z) (s : Z) : machM unit :=
  for_range 0 n (fun i =>
    x <- arg_in s ;;
    v <- fr_in (A (n - 1 - i)) ;; tie_st MO_32 v (Prelude.u32 (align x + i * 4))).

Definition translate_ldf_128_ip : machM unit := ldf_words 4 align16 (A 4) ;; add_imm (A 4) (A 5).
Definition translate_stf_128_ip : machM unit := stf_words 4 align16 (A 4) ;; add_imm (A 4) (A 5).
Definition translate_ldf_64_ip : machM unit := ldf_words 2 align8 (A 2) ;; add_imm (A 2) (A 3).
Definition translate_stf_64_ip : machM unit := stf_words 2 align8 (A 2) ;; add_imm (A 2) (A 3).
Definition translate_ldf_128_xp : machM unit := ldf_words 4 align16 (A 4) ;; add_reg (A 4) (A 5).
Definition translate_stf_128_xp : machM unit := stf_words 4 align16 (A 4) ;; add_reg (A 4) (A 5).
Definition translate_ldf_64_xp : machM unit := ldf_words 2 align8 (A 2) ;; add_reg (A 2) (A 3).
Definition translate_stf_64_xp : machM unit := stf_words 2 align8 (A 2) ;; add_reg (A 2) (A 3).

(** ** Moves *)

Definition translate_mov_qacc_s3 : machM unit := on_tie (mov_qacc_s3 (P 0) (A 0)).

Definition translate_movi_s3 : machM unit :=
  if P 0 =? ee_movi_a then v <- ask_tie (movi_a_s3 (A 0) (A 2)) ;; arg_out (A 1) v
  else if P 0 =? ee_movi_q then v <- arg_in (A 1) ;; on_tie (movi_q_s3 (A 0) (A 2) v)
  else ret tt.

Definition translate_zip_s3 : machM unit :=
  if P 0 =? 0 then on_tie (vzip_s3 (A 0) (A 1) (P 1)) else on_tie (vunzip_s3 (A 0) (A 1) (P 1)).

(** ** Arithmetic *)

(** The store before and the load after an operation on vectors. *)
Definition with_transfer (mode ldst : Z) (op : Z -> machM unit) : machM unit :=
  when ((mode =? addr_inc16) && (ldst =? ee_store_op)) store_qreg_to_memory ;;
  op (if mode =? addr_inc16 then 2 else 0) ;;
  when (mode =? addr_inc16)
    (when (ldst =? ee_load_op) load_qreg_from_memory ;; add_imm (A 1) 16).

Definition translate_vadds_s3 : machM unit :=
  with_transfer (P 1) (P 2) (fun k =>
    if P 3 =? ee_add_op then on_tie (vadds_s3 (A k) (A (k + 1)) (A (k + 2)) (P 0))
    else if P 3 =? ee_sub_op then on_tie (vsubs_s3 (A k) (A (k + 1)) (A (k + 2)) (P 0))
    else ret tt).

Definition translate_vmul_s3 : machM unit :=
  with_transfer (P 1) (P 2) (fun k =>
    sar <- tie_sar ;; on_tie (vmul_s3 (A k) (A (k + 1)) (A (k + 2)) sar (P 0))).

Definition translate_cmul_s3 : machM unit :=
  when ((P 0 =? addr_inc16) && (P 1 =? ee_store_op)) store_qreg_to_memory ;;
  let k := if P 0 =? addr_nop then 0 else 2 in
  sar <- tie_sar ;;
  on_tie (cmul_s3 (A k) (A (k + 1)) (A (k + 2)) sar (A (k + 3))) ;;
  when ((P 0 =? addr_inc16) && (P 1 =? ee_load_op)) load_qreg_from_memory ;;
  when (P 0 =? addr_inc16) (add_imm (A 1) 16).

Definition translate_vmulas_accx_s3 : machM unit :=
  let k := if P 1 =? addr_nop then 0 else 3 in
  on_tie (vmulas_accx_s3 (A k) (A (k + 1)) (P 0)) ;;
  when (negb (P 1 =? addr_nop)) load_qreg_from_memory ;;
  when (P 1 =? addr_ip) (add_imm (A 1) (A 2)) ;;
  when (P 1 =? addr_xp) (add_reg (A 1) (A 2)) ;;
  when (P 2 =? vmul_qup) (try_tie (vmulas_qup_s3 (A (k + 2)) (A (k + 3)))).

Definition translate_srcmb_qacc_s3 : machM unit :=
  a0 <- arg_in (A 1) ;; on_tie (srcmb_qacc_s3 (A 0) a0 (P 0) (A 2)).

Definition translate_vsmulas_qacc_s3 : machM unit :=
  let k := if P 1 =? addr_inc16 then 2 else 0 in
  on_tie (vsmulas_s3 (A k) (A (k + 1)) (P 0) (A (k + 2))) ;;
  when (P 1 =? addr_inc16) (load_qreg_from_memory ;; add_imm (A 1) 16).

Definition translate_vrelu_s3 : machM unit :=
  ax <- arg_in (A 1) ;; ay <- arg_in (A 2) ;; on_tie (vrelu_s3 (A 0) ax ay (P 0)).
Definition translate_vprelu_s3 : machM unit :=
  ay <- arg_in (A 3) ;; on_tie (vprelu_s3 (A 0) (A 1) (A 2) ay (P 0)).

Definition translate_vmax_s3 : machM unit :=
  with_transfer (P 1) (P 2) (fun k => on_tie (vmax_s3 (A k) (A (k + 1)) (A (k + 2)) (P 0))).
Definition translate_vmin_s3 : machM unit :=
  with_transfer (P 1) (P 2) (fun k => on_tie (vmin_s3 (A k) (A (k + 1)) (A (k + 2)) (P 0))).

Definition translate_vcmp_s3 : machM unit := on_tie (vcmp_s3 (A 0) (A 1) (A 2) (P 0) (P 1)).
Definition translate_bw_logic_s3 : machM unit :=
  let y_index := if P 0 =? bw_logic_not then 1 else 2 in
  on_tie (bw_logic_s3 (A 0) (A 1) (A y_index) (P 0)).

(** ** Shifts *)

Definition translate_sxci_2q_s3 : machM unit := try_tie (sxci_2q_s3 (A 1) (A 0) (A 2) (P 0)).
Definition translate_sxcxxp_2q_s3 : machM unit :=
  sar <- arg_in (A 2) ;; try_tie (sxci_2q_s3 (A 1) (A 0) sar (P 0)) ;; add_reg (A 2) (A 3).

Definition translate_srcq_128_st_s3 : machM unit :=
  for_range 0 2 (fun i =>
    x <- arg_in (A 2) ;;
    data <- try_ask (srcq_64_rd_s3 (A 0) (A 1) i) ;;
    tie_st MO_64 data (half x i)) ;;
  add_imm (A 2) 16.

Definition translate_vsx32_s3 : machM unit :=
  sar <- tie_sar ;; on_tie (vsx32_s3 (A 0) (A 1) sar (P 0)).

Definition translate_src_q_s3 : machM unit :=
  if P 0 =? addr_nop then try_tie (src_q_s3 (A 0) (A 1) (A 2) (P 1))
  else
    try_tie (vmulas_qup_s3 (A 3) (A 4)) ;;
    when (P 0 =? addr_ip) (load_qreg_from_memory ;; add_imm (A 1) (A 2)) ;;
    when (P 0 =? addr_xp) (load_qreg_from_memory ;; add_reg (A 1) (A 2)).

(** ** Fast Fourier transform *)

Definition translate_r2bf_st_s3 : machM unit :=
  x <- arg_in (A 3) ;;
  data_low <- run_tie (r2bf_st_low_s3 (A 0) (A 1) (A 2) (A 4)) ;;
  tie_st MO_64 data_low (half x 0) ;;
  data_high <- ask_tie (r2bf_st_high_s3 (A 0) (A 1) (A 2) (A 4)) ;;
  tie_st MO_64 data_high (half x 1) ;;
  add_imm (A 3) 16.

Definition translate_r2bf_s3 : machM unit := on_tie (r2bf_s3 (A 0) (A 1) (A 2) (A 3) (A 4)).

Definition translate_fft_cmul_ld_s3 : machM unit :=
  sar <- tie_sar ;;
  on_tie (fft_cmul_ld_s3 (A 3) (A 4) (A 5) (A 6) sar) ;;
  load_qreg_from_memory ;;
  add_reg (A 1) (A 2).

Definition translate_fft_cmul_st_s3 : machM unit :=
  x <- arg_in (A 3) ;;
  sar <- tie_sar ;;
  data_low <- ask_tie (fft_cmul_st_low_s3 (A 0) (A 1) (A 2) (A 5) (A 6) (A 7) sar) ;;
  tie_st MO_64 data_low (half x 0) ;;
  data_high <- ask_tie (fft_cmul_st_high_s3 (A 0) (A 1) (A 2) (A 5) (A 6) (A 7) sar) ;;
  tie_st MO_64 data_high (half x 1) ;;
  add_reg (A 3) (A 4).

Definition translate_bitrev_s3 : machM unit :=
  x <- arg_in (A 1) ;; on_tie (bitrev_s3 (A 0) x) ;; add_imm (A 1) 8.

Definition translate_fft_ams_s16_ld_incp : machM unit :=
  sar <- tie_sar ;;
  on_tie (fft_ams_s16 (A 2) (A 3) (A 4) (A 5) (A 6) (A 7) sar) ;;
  load_qreg_from_memory ;;
  add_imm (A 1) 16.

Definition translate_fft_ams_s16_st_incp : machM unit :=
  as0 <- arg_in (A 2) ;;
  sar <- tie_sar ;;
  data_low <- ask_tie ((if A 7 =? 0 then fft_ams_st_0_s16_low else fft_ams_st_1_s16_low)
                         (A 0) (A 1) as0 (A 4) (A 5) (A 6) sar) ;;
  data_high <- run_tie ((if A 7 =? 0 then fft_ams_st_0_s16_high else fft_ams_st_1_s16_high)
                          (A 0) (A 1) as0 (A 4) (A 5) (A 6) sar) ;;
  x <- arg_in (A 3) ;;
  tie_st MO_64 data_low (half x 0) ;;
  tie_st MO_64 data_high (half x 1) ;;
  data_as <- ask_tie fft_ams_st_s16_at ;;
  arg_out (A 2) data_as ;;
  add_imm (A 3) 16.

Definition translate_fft_ams_s16_ld_incp_uaup : machM unit :=
  sar <- tie_sar ;;
  on_tie (fft_ams_s16_uqup (A 2) (A 3) (A 4) (A 5) (A 6) (A 7) sar) ;;
  x <- arg_in (A 1) ;;
  data_low <- tie_ld MO_64 (align16 x) ;;
  data_high <- tie_ld MO_64 (Prelude.u32 (align16 x + 8)) ;;
  try_tie (fft_ams_s16_ld_incp_uaup (A 0) data_low data_high) ;;
  add_imm (A 1) 16.

Definition translate_fft_ams_s16_ld_decp : machM unit :=
  sar <- tie_sar ;;
  on_tie (fft_ams_s16_decp (A 2) (A 3) (A 4) (A 5) (A 6) (A 7) sar) ;;
  load_qreg_from_memory ;;
  on_tie (fft_ams_s16_exchange_q (A 0)) ;;
  add_imm (A 1) (-16).

(** ** GPIO, accumulators and UA_STATE *)

Definition translate_wr_mask_gpio_out_s3 : machM unit :=
  if P 0 =? gpio_mask then
    x <- arg_in (A 0) ;; y <- arg_in (A 1) ;;
    run_tie (wr_mask_gpio_out_s3 x y (P 0)) ;; ret tt
  else if (P 0 =? gpio_set) || (P 0 =? gpio_clr) then
    run_tie (wr_mask_gpio_out_s3 (A 0) (P 0) (P 0)) ;; ret tt
  else data <- run_tie (wr_mask_gpio_out_s3 (P 0) (P 0) (P 0)) ;; arg_out (A 0) data.

Definition translate_ld_accx_ip_s3 : machM unit :=
  x <- arg_in (A 0) ;;
  data <- tie_ld MO_64 (align8 x) ;;
  on_tie (ld_accx_s3 data) ;; add_imm (A 0) (A 1).
Definition translate_st_accx_ip_s3 : machM unit :=
  x <- arg_in (A 0) ;;
  data <- ask_tie st_accx_s3 ;;
  tie_st MO_64 data (align8 x) ;; add_imm (A 0) (A 1).
Definition translate_srs_accx_s3 : machM unit :=
  x <- arg_in (A 1) ;;
  v <- run_tie (srs_accx_s3 (x &&& 0x3f)) ;; arg_out (A 0) v.

Definition translate_ld_qacc_x_h_32_ip_s3 : machM unit :=
  x <- arg_in (A 0) ;;
  data <- tie_ld MO_32 (x &&& 0xfffffffc) ;;
  on_tie (ld_qacc_x_h_32_ip_s3 data (P 0)) ;; add_imm (A 0) (A 1).
Definition translate_st_qacc_x_h_32_ip_s3 : machM unit :=
  x <- arg_in (A 0) ;;
  data <- ask_tie (st_qacc_x_h_32_ip_s3 (P 0)) ;;
  tie_st MO_32 data (x &&& 0xfffffffc) ;; add_imm (A 0) (A 1).
Definition translate_st_qacc_x_l_128_ip_s3 : machM unit :=
  for_range 0 2 (fun i =>
    x <- arg_in (A 0) ;;
    data <- ask_tie (st_qacc_x_l_128_ip_s3 (P 0) i) ;; tie_st MO_64 data (half x i)) ;;
  add_imm (A 0) (A 1).
Definition translate_ld_qacc_x_l_128_ip_s3 : machM unit :=
  for_range 0 2 (fun i =>
    x <- arg_in (A 0) ;;
    data <- tie_ld MO_64 (half x i) ;; on_tie (ld_qacc_x_l_128_ip_s3 (P 0) i data)) ;;
  add_imm (A 0) (A 1).

Definition translate_ld_ua_state_ip_s3 : machM unit :=
  for_range 0 2 (fun i =>
    x <- arg_in (A 0) ;;
    data <- tie_ld MO_64 (half x i) ;; on_tie (ld_ua_state_s3 data i)) ;;
  add_imm (A 0) (A 1).
Definition translate_st_ua_state_ip_s3 : machM unit :=
  for_range 0 2 (fun i =>
    x <- arg_in (A 0) ;;
    data <- ask_tie (st_ua_state_s3 i) ;; tie_st MO_64 data (half x i)) ;;
  add_imm (A 0) (A 1).

Definition translate_ldxq_32_s3 : machM unit :=
  offset <- ask_tie (ldstxq_addr_s3 (A 1) (A 4)) ;;
  x <- arg_in (A 2) ;;
  data <- tie_ld MO_32 (Prelude.u32 (x + offset) &&& 0xfffffffc) ;;
  on_tie (ldxq_32_s3 (A 0) (A 3) data).
Definition translate_stxq_32_s3 : machM unit :=
  data <- ask_tie (stxq_32_s3 (A 0) (A 3)) ;;
  offset <- ask_tie (ldstxq_addr_s3 (A 1) (A 4)) ;;
  x <- arg_in (A 2) ;;
  tie_st MO_32 data (Prelude.u32 (x + offset) &&& 0xfffffffc).

End insn.

(** EE.VMULAS.*.QACC.LDBC calls the broadcast with constants of its own. *)
Definition translate_vmulas_qacc_s3 (arg par : list Z) : machM unit :=
  let A k := nthZ arg k in
  let P k := nthZ par k in
  let k := if P 1 =? addr_nop then 0 else if P 1 =? addr_ldbc_inc1 then 2 else 3 in
  on_tie (vmulas_qacc_s3 (A k) (A (k + 1)) (P 0)) ;;
  when (P 1 =? addr_ldbc_inc1)
    (when ((P 0 =? vmul_s8) || (P 0 =? vmul_u8)) (translate_vldbc_s3 arg [addr_ldbc_inc1; vldbc_8]) ;;
     when ((P 0 =? vmul_s16) || (P 0 =? vmul_u16)) (translate_vldbc_s3 arg [addr_ldbc_inc1; vldbc_16])) ;;
  when (P 1 =? addr_ip) (load_qreg_from_memory arg ;; add_imm (A 1) (A 2)) ;;
  when (P 1 =? addr_xp) (load_qreg_from_memory arg ;; add_reg (A 1) (A 2)) ;;
  when (P 2 =? vmul_qup) (try_tie (vmulas_qup_s3 (A (k + 2)) (A (k + 3)))).

End translators.
