(* ===== verification/TieTable.v ===== *)
(** * Opcode tables of the ESP32-S3 vector extension
      ([translate_tie_esp32s3.c], [core-esp32s3/xtensa-modules.inc.c])

    [tie_ops] gives each instruction of the extension its translator, constants
    and flags.  The core's ISA module declares, for the same instructions, the
    operands (register file or immediate, and direction) and the processor
    states they use: [operands], the instruction classes and the opcodes of the
    extension, in the order of the source. *)

From Stdlib Require Import String.
From S2P Require Import Prelude Cpu Exception TbFlags Arith Lanes Tie TieArith TieShift.
From S2P Require Import TieFft LoadStore TieMem.

#[local] Open Scope mach_scope.
#[local] Open Scope string_scope.

Abbreviation vmul_nop := 0 (only parsing).
Abbreviation wrur_qacc_h_1 := 3 (only parsing).
Abbreviation wrur_qacc_h_2 := 4 (only parsing).
Abbreviation wrur_qacc_h_3 := 5 (only parsing).
Abbreviation wrur_qacc_l_1 := 8 (only parsing).
Abbreviation wrur_qacc_l_2 := 9 (only parsing).
Abbreviation wrur_qacc_l_3 := 10 (only parsing).
Abbreviation wrur_ua_state_1 := 16 (only parsing).
Abbreviation wrur_ua_state_2 := 17 (only parsing).
Abbreviation XTENSA_OP_STORE := 0x20000 (only parsing).
Abbreviation XTENSA_OP_LOAD := 0x40000 (only parsing).

(** The translators, as the values of the [translate] field. *)
Inductive tie_fn :=
| T_vld_64_s3 | T_vld_128_s3 | T_ld_usar_128_s3
| T_ldqa_128_s3 | T_vldbc_s3 | T_vldhbc_s3
| T_vst_64_s3 | T_vst_128_s3 | T_ldf_128_ip
| T_stf_128_ip | T_ldf_64_ip | T_stf_64_ip
| T_ldf_128_xp | T_stf_128_xp | T_ldf_64_xp
| T_stf_64_xp | T_zero | T_wur
| T_rur | T_mov_qacc_s3 | T_movi_s3
| T_zip_s3 | T_vadds_s3 | T_vmul_s3
| T_cmul_s3 | T_vmulas_accx_s3 | T_vmulas_qacc_s3
| T_vsmulas_qacc_s3 | T_srcmb_qacc_s3 | T_vrelu_s3
| T_vprelu_s3 | T_vmax_s3 | T_vmin_s3
| T_vcmp_s3 | T_bw_logic_s3 | T_src_q_s3
| T_sxci_2q_s3 | T_sxcxxp_2q_s3 | T_srcq_128_st_s3
| T_vsx32_s3 | T_r2bf_st_s3 | T_r2bf_s3
| T_fft_cmul_ld_s3 | T_fft_cmul_st_s3 | T_bitrev_s3
| T_fft_ams_s16_ld_incp | T_fft_ams_s16_st_incp | T_fft_ams_s16_ld_incp_uaup
| T_fft_ams_s16_ld_decp | T_fft_vst_decp_s3 | T_wr_mask_gpio_out_s3
| T_ld_qr_s3 | T_st_qr_s3 | T_mv_qr_s3
| T_ld_accx_ip_s3 | T_srs_accx_s3 | T_ld_qacc_x_h_32_ip_s3
| T_ld_qacc_x_l_128_ip_s3 | T_st_qacc_x_h_32_ip_s3 | T_st_qacc_x_l_128_ip_s3
| T_st_accx_ip_s3 | T_ld_ua_state_ip_s3 | T_st_ua_state_ip_s3
| T_ldxq_32_s3 | T_stxq_32_s3.

Definition run_fn (config : XtensaConfig) (softmmu : Z -> Z -> Z -> Z -> Z -> cpuM (Z -> Z))
    (dc : DisasContext) (tr : sar_tracker) (fn : tie_fn) (arg par : list Z) : machM unit :=
  match fn with
  | T_vld_64_s3 => translate_vld_64_s3 config softmmu dc arg par
  | T_vld_128_s3 => translate_vld_128_s3 config softmmu dc arg par
  | T_ld_usar_128_s3 => translate_ld_usar_128_s3 config softmmu dc arg par
  | T_ldqa_128_s3 => translate_ldqa_128_s3 config softmmu dc arg par
  | T_vldbc_s3 => translate_vldbc_s3 config softmmu dc arg par
  | T_vldhbc_s3 => translate_vldhbc_s3 config softmmu dc arg
  | T_vst_64_s3 => translate_vst_64_s3 config softmmu dc arg par
  | T_vst_128_s3 => translate_vst_128_s3 config softmmu dc arg par
  | T_ldf_128_ip => translate_ldf_128_ip config softmmu dc arg
  | T_stf_128_ip => translate_stf_128_ip config softmmu dc arg
  | T_ldf_64_ip => translate_ldf_64_ip config softmmu dc arg
  | T_stf_64_ip => translate_stf_64_ip config softmmu dc arg
  | T_ldf_128_xp => translate_ldf_128_xp config softmmu dc arg
  | T_stf_128_xp => translate_stf_128_xp config softmmu dc arg
  | T_ldf_64_xp => translate_ldf_64_xp config softmmu dc arg
  | T_stf_64_xp => translate_stf_64_xp config softmmu dc arg
  | T_zero => translate_zero arg par
  | T_wur => translate_wur arg par
  | T_rur => translate_rur arg par
  | T_mov_qacc_s3 => translate_mov_qacc_s3 arg par
  | T_movi_s3 => translate_movi_s3 arg par
  | T_zip_s3 => translate_zip_s3 arg par
  | T_vadds_s3 => translate_vadds_s3 config softmmu dc arg par
  | T_vmul_s3 => translate_vmul_s3 config softmmu dc tr arg par
  | T_cmul_s3 => translate_cmul_s3 config softmmu dc tr arg par
  | T_vmulas_accx_s3 => translate_vmulas_accx_s3 config softmmu dc arg par
  | T_vmulas_qacc_s3 => translate_vmulas_qacc_s3 config softmmu dc arg par
  | T_vsmulas_qacc_s3 => translate_vsmulas_qacc_s3 config softmmu dc arg par
  | T_srcmb_qacc_s3 => translate_srcmb_qacc_s3 arg par
  | T_vrelu_s3 => translate_vrelu_s3 arg par
  | T_vprelu_s3 => translate_vprelu_s3 arg par
  | T_vmax_s3 => translate_vmax_s3 config softmmu dc arg par
  | T_vmin_s3 => translate_vmin_s3 config softmmu dc arg par
  | T_vcmp_s3 => translate_vcmp_s3 arg par
  | T_bw_logic_s3 => translate_bw_logic_s3 arg par
  | T_src_q_s3 => translate_src_q_s3 config softmmu dc arg par
  | T_sxci_2q_s3 => translate_sxci_2q_s3 arg par
  | T_sxcxxp_2q_s3 => translate_sxcxxp_2q_s3 arg par
  | T_srcq_128_st_s3 => translate_srcq_128_st_s3 config softmmu dc arg
  | T_vsx32_s3 => translate_vsx32_s3 tr arg par
  | T_r2bf_st_s3 => translate_r2bf_st_s3 config softmmu dc arg
  | T_r2bf_s3 => translate_r2bf_s3 arg
  | T_fft_cmul_ld_s3 => translate_fft_cmul_ld_s3 config softmmu dc tr arg
  | T_fft_cmul_st_s3 => translate_fft_cmul_st_s3 config softmmu dc tr arg
  | T_bitrev_s3 => translate_bitrev_s3 arg
  | T_fft_ams_s16_ld_incp => translate_fft_ams_s16_ld_incp config softmmu dc tr arg
  | T_fft_ams_s16_st_incp => translate_fft_ams_s16_st_incp config softmmu dc tr arg
  | T_fft_ams_s16_ld_incp_uaup => translate_fft_ams_s16_ld_incp_uaup config softmmu dc tr arg
  | T_fft_ams_s16_ld_decp => translate_fft_ams_s16_ld_decp config softmmu dc tr arg
  | T_fft_vst_decp_s3 => translate_fft_vst_decp_s3 config softmmu dc arg
  | T_wr_mask_gpio_out_s3 => translate_wr_mask_gpio_out_s3 arg par
  | T_ld_qr_s3 => translate_ld_qr_s3 config softmmu dc arg
  | T_st_qr_s3 => translate_st_qr_s3 config softmmu dc arg
  | T_mv_qr_s3 => translate_mv_qr_s3 arg
  | T_ld_accx_ip_s3 => translate_ld_accx_ip_s3 config softmmu dc arg
  | T_srs_accx_s3 => translate_srs_accx_s3 arg
  | T_ld_qacc_x_h_32_ip_s3 => translate_ld_qacc_x_h_32_ip_s3 config softmmu dc arg par
  | T_ld_qacc_x_l_128_ip_s3 => translate_ld_qacc_x_l_128_ip_s3 config softmmu dc arg par
  | T_st_qacc_x_h_32_ip_s3 => translate_st_qacc_x_h_32_ip_s3 config softmmu dc arg par
  | T_st_qacc_x_l_128_ip_s3 => translate_st_qacc_x_l_128_ip_s3 config softmmu dc arg par
  | T_st_accx_ip_s3 => translate_st_accx_ip_s3 config softmmu dc arg
  | T_ld_ua_state_ip_s3 => translate_ld_ua_state_ip_s3 config softmmu dc arg
  | T_st_ua_state_ip_s3 => translate_st_ua_state_ip_s3 config softmmu dc arg
  | T_ldxq_32_s3 => translate_ldxq_32_s3 config softmmu dc arg
  | T_stxq_32_s3 => translate_stxq_32_s3 config softmmu dc arg
  end.

Record XtensaOpcodeOps := mkOps {
  o_name : string; o_translate : tie_fn; o_par : list Z; o_op_flags : Z; o_coprocessor : Z }.

Definition tie_ops_1 : list XtensaOpcodeOps := [
  mkOps "ee.vld.l.64.ip" T_vld_64_s3 [addr_ip; 0] XTENSA_OP_LOAD 0x0;
  mkOps "ee.vld.h.64.ip" T_vld_64_s3 [addr_ip; 1] XTENSA_OP_LOAD 0x0;
  mkOps "ee.vld.l.64.xp" T_vld_64_s3 [addr_xp; 0] XTENSA_OP_LOAD 0x0;
  mkOps "ee.vld.h.64.xp" T_vld_64_s3 [addr_xp; 1] XTENSA_OP_LOAD 0x0;
  mkOps "ee.vld.128.ip" T_vld_128_s3 [addr_ip] XTENSA_OP_LOAD 0x0;
  mkOps "ee.vld.128.xp" T_vld_128_s3 [addr_xp] XTENSA_OP_LOAD 0x0;
  mkOps "ee.ld.128.usar.ip" T_ld_usar_128_s3 [addr_ip] XTENSA_OP_LOAD 0x0;
  mkOps "ee.ld.128.usar.xp" T_ld_usar_128_s3 [addr_xp] XTENSA_OP_LOAD 0x0;
  mkOps "ee.ldqa.u8.128.ip" T_ldqa_128_s3 [addr_ip; ldqa_u8] XTENSA_OP_LOAD 0x0;
  mkOps "ee.ldqa.u16.128.ip" T_ldqa_128_s3 [addr_ip; ldqa_u16] XTENSA_OP_LOAD 0x0;
  mkOps "ee.ldqa.s8.128.ip" T_ldqa_128_s3 [addr_ip; ldqa_s8] XTENSA_OP_LOAD 0x0;
  mkOps "ee.ldqa.s16.128.ip" T_ldqa_128_s3 [addr_ip; ldqa_s16] XTENSA_OP_LOAD 0x0;
  mkOps "ee.ldqa.u8.128.xp" T_ldqa_128_s3 [addr_xp; ldqa_u8] XTENSA_OP_LOAD 0x0;
  mkOps "ee.ldqa.u16.128.xp" T_ldqa_128_s3 [addr_xp; ldqa_u16] XTENSA_OP_LOAD 0x0;
  mkOps "ee.ldqa.s8.128.xp" T_ldqa_128_s3 [addr_xp; ldqa_s8] XTENSA_OP_LOAD 0x0;
  mkOps "ee.ldqa.s16.128.xp" T_ldqa_128_s3 [addr_xp; ldqa_s16] XTENSA_OP_LOAD 0x0;
  mkOps "ee.vldbc.8" T_vldbc_s3 [addr_nop; vldbc_8] XTENSA_OP_LOAD 0x0;
  mkOps "ee.vldbc.16" T_vldbc_s3 [addr_nop; vldbc_16] XTENSA_OP_LOAD 0x0;
  mkOps "ee.vldbc.32" T_vldbc_s3 [addr_nop; vldbc_32] XTENSA_OP_LOAD 0x0;
  mkOps "ee.vldbc.8.ip" T_vldbc_s3 [addr_ip; vldbc_8] XTENSA_OP_LOAD 0x0].

Definition tie_ops_2 : list XtensaOpcodeOps := [
  mkOps "ee.vldbc.8.xp" T_vldbc_s3 [addr_xp; vldbc_8] XTENSA_OP_LOAD 0x0;
  mkOps "ee.vldbc.16.ip" T_vldbc_s3 [addr_ip; vldbc_16] XTENSA_OP_LOAD 0x0;
  mkOps "ee.vldbc.16.xp" T_vldbc_s3 [addr_xp; vldbc_16] XTENSA_OP_LOAD 0x0;
  mkOps "ee.vldbc.32.ip" T_vldbc_s3 [addr_ip; vldbc_32] XTENSA_OP_LOAD 0x0;
  mkOps "ee.vldbc.32.xp" T_vldbc_s3 [addr_xp; vldbc_32] XTENSA_OP_LOAD 0x0;
  mkOps "ee.vldhbc.16.incp" T_vldhbc_s3 [] XTENSA_OP_LOAD 0x0;
  mkOps "ee.vst.l.64.ip" T_vst_64_s3 [addr_ip; 0] XTENSA_OP_LOAD 0x0;
  mkOps "ee.vst.h.64.ip" T_vst_64_s3 [addr_ip; 1] XTENSA_OP_LOAD 0x0;
  mkOps "ee.vst.l.64.xp" T_vst_64_s3 [addr_xp; 0] XTENSA_OP_LOAD 0x0;
  mkOps "ee.vst.h.64.xp" T_vst_64_s3 [addr_xp; 1] XTENSA_OP_LOAD 0x0;
  mkOps "ee.vst.128.ip" T_vst_128_s3 [addr_ip] XTENSA_OP_LOAD 0x0;
  mkOps "ee.vst.128.xp" T_vst_128_s3 [addr_xp] XTENSA_OP_LOAD 0x0;
  mkOps "ee.ldf.128.ip" T_ldf_128_ip [addr_ip] XTENSA_OP_LOAD 0x0;
  mkOps "ee.stf.128.ip" T_stf_128_ip [addr_ip] XTENSA_OP_STORE 0x0;
  mkOps "ee.ldf.64.ip" T_ldf_64_ip [addr_ip] XTENSA_OP_LOAD 0x0;
  mkOps "ee.stf.64.ip" T_stf_64_ip [addr_ip] XTENSA_OP_STORE 0x0;
  mkOps "ee.ldf.128.xp" T_ldf_128_xp [addr_xp] XTENSA_OP_LOAD 0x0;
  mkOps "ee.stf.128.xp" T_stf_128_xp [addr_xp] XTENSA_OP_STORE 0x0;
  mkOps "ee.ldf.64.xp" T_ldf_64_xp [addr_xp] XTENSA_OP_LOAD 0x0;
  mkOps "ee.stf.64.xp" T_stf_64_xp [addr_xp] XTENSA_OP_STORE 0x0;
  mkOps "ee.zero.qacc" T_zero [ee_zero_qacc] XTENSA_OP_LOAD 0x0].

Definition tie_ops_3 : list XtensaOpcodeOps := [
  mkOps "ee.zero.accx" T_zero [ee_zero_accx] XTENSA_OP_LOAD 0x0;
  mkOps "ee.zero.q" T_zero [ee_zero_qx] XTENSA_OP_LOAD 0x0;
  mkOps "wur.accx_0" T_wur [wrur_accx_0] XTENSA_OP_LOAD 0x0;
  mkOps "wur.accx_1" T_wur [wrur_accx_1] XTENSA_OP_LOAD 0x0;
  mkOps "wur.qacc_l_0" T_wur [wrur_qacc_l_0] XTENSA_OP_LOAD 0x0;
  mkOps "wur.qacc_l_1" T_wur [wrur_qacc_l_1] XTENSA_OP_LOAD 0x0;
  mkOps "wur.qacc_l_2" T_wur [wrur_qacc_l_2] XTENSA_OP_LOAD 0x0;
  mkOps "wur.qacc_l_3" T_wur [wrur_qacc_l_3] XTENSA_OP_LOAD 0x0;
  mkOps "wur.qacc_l_4" T_wur [wrur_qacc_l_4] XTENSA_OP_LOAD 0x0;
  mkOps "wur.qacc_h_0" T_wur [wrur_qacc_h_0] XTENSA_OP_LOAD 0x0;
  mkOps "wur.qacc_h_1" T_wur [wrur_qacc_h_1] XTENSA_OP_LOAD 0x0;
  mkOps "wur.qacc_h_2" T_wur [wrur_qacc_h_2] XTENSA_OP_LOAD 0x0;
  mkOps "wur.qacc_h_3" T_wur [wrur_qacc_h_3] XTENSA_OP_LOAD 0x0;
  mkOps "wur.qacc_h_4" T_wur [wrur_qacc_h_4] XTENSA_OP_LOAD 0x0;
  mkOps "wur.gpio_out" T_wur [wrur_gpio_out] XTENSA_OP_LOAD 0x0;
  mkOps "wur.sar_byte" T_wur [wrur_sar_byte] XTENSA_OP_LOAD 0x0;
  mkOps "wur.fft_bit_width" T_wur [wrur_fft_bit_width] XTENSA_OP_LOAD 0x0;
  mkOps "wur.ua_state_0" T_wur [wrur_ua_state_0] XTENSA_OP_LOAD 0x0;
  mkOps "wur.ua_state_1" T_wur [wrur_ua_state_1] XTENSA_OP_LOAD 0x0;
  mkOps "wur.ua_state_2" T_wur [wrur_ua_state_2] XTENSA_OP_LOAD 0x0;
  mkOps "wur.ua_state_3" T_wur [wrur_ua_state_3] XTENSA_OP_LOAD 0x0].

Definition tie_ops_4 : list XtensaOpcodeOps := [
  mkOps "rur.accx_0" T_rur [wrur_accx_0] XTENSA_OP_LOAD 0x0;
  mkOps "rur.accx_1" T_rur [wrur_accx_1] XTENSA_OP_LOAD 0x0;
  mkOps "rur.qacc_l_0" T_rur [wrur_qacc_l_0] XTENSA_OP_LOAD 0x0;
  mkOps "rur.qacc_l_1" T_rur [wrur_qacc_l_1] XTENSA_OP_LOAD 0x0;
  mkOps "rur.qacc_l_2" T_rur [wrur_qacc_l_2] XTENSA_OP_LOAD 0x0;
  mkOps "rur.qacc_l_3" T_rur [wrur_qacc_l_3] XTENSA_OP_LOAD 0x0;
  mkOps "rur.qacc_l_4" T_rur [wrur_qacc_l_4] XTENSA_OP_LOAD 0x0;
  mkOps "rur.qacc_h_0" T_rur [wrur_qacc_h_0] XTENSA_OP_LOAD 0x0;
  mkOps "rur.qacc_h_1" T_rur [wrur_qacc_h_1] XTENSA_OP_LOAD 0x0;
  mkOps "rur.qacc_h_2" T_rur [wrur_qacc_h_2] XTENSA_OP_LOAD 0x0;
  mkOps "rur.qacc_h_3" T_rur [wrur_qacc_h_3] XTENSA_OP_LOAD 0x0;
  mkOps "rur.qacc_h_4" T_rur [wrur_qacc_h_4] XTENSA_OP_LOAD 0x0;
  mkOps "rur.gpio_out" T_rur [wrur_gpio_out] XTENSA_OP_LOAD 0x0;
  mkOps "rur.sar_byte" T_rur [wrur_sar_byte] XTENSA_OP_LOAD 0x0;
  mkOps "rur.fft_bit_width" T_rur [wrur_fft_bit_width] XTENSA_OP_LOAD 0x0;
  mkOps "rur.ua_state_0" T_rur [wrur_ua_state_0] XTENSA_OP_LOAD 0x0;
  mkOps "rur.ua_state_1" T_rur [wrur_ua_state_1] XTENSA_OP_LOAD 0x0;
  mkOps "rur.ua_state_2" T_rur [wrur_ua_state_2] XTENSA_OP_LOAD 0x0;
  mkOps "rur.ua_state_3" T_rur [wrur_ua_state_3] XTENSA_OP_LOAD 0x0;
  mkOps "ee.mov.u8.qacc" T_mov_qacc_s3 [ldqa_u8] XTENSA_OP_LOAD 0x0;
  mkOps "ee.mov.s8.qacc" T_mov_qacc_s3 [ldqa_s8] XTENSA_OP_LOAD 0x0].

Definition tie_ops_5 : list XtensaOpcodeOps := [
  mkOps "ee.mov.u16.qacc" T_mov_qacc_s3 [ldqa_u16] XTENSA_OP_LOAD 0x0;
  mkOps "ee.mov.s16.qacc" T_mov_qacc_s3 [ldqa_s16] XTENSA_OP_LOAD 0x0;
  mkOps "ee.movi.32.a" T_movi_s3 [ee_movi_a] XTENSA_OP_LOAD 0x0;
  mkOps "ee.movi.32.q" T_movi_s3 [ee_movi_q] XTENSA_OP_LOAD 0x0;
  mkOps "ee.vzip.8" T_zip_s3 [0; vldbc_8] XTENSA_OP_LOAD 0x0;
  mkOps "ee.vzip.16" T_zip_s3 [0; vldbc_16] XTENSA_OP_LOAD 0x0;
  mkOps "ee.vzip.32" T_zip_s3 [0; vldbc_32] XTENSA_OP_LOAD 0x0;
  mkOps "ee.vunzip.8" T_zip_s3 [1; vldbc_8] XTENSA_OP_LOAD 0x0;
  mkOps "ee.vunzip.16" T_zip_s3 [1; vldbc_16] XTENSA_OP_LOAD 0x0;
  mkOps "ee.vunzip.32" T_zip_s3 [1; vldbc_32] XTENSA_OP_LOAD 0x0;
  mkOps "ee.vadds.s8" T_vadds_s3 [ldqa_s8; addr_nop; ee_load_op; ee_add_op] XTENSA_OP_LOAD 0x0;
  mkOps "ee.vadds.s16" T_vadds_s3 [ldqa_s16; addr_nop; ee_load_op; ee_add_op] XTENSA_OP_LOAD 0x0;
  mkOps "ee.vadds.s32" T_vadds_s3 [ldqa_s32; addr_nop; ee_load_op; ee_add_op] XTENSA_OP_LOAD 0x0;
  mkOps "ee.vadds.s8.ld.incp" T_vadds_s3 [ldqa_s8; addr_inc16; ee_load_op; ee_add_op] XTENSA_OP_LOAD 0x0;
  mkOps "ee.vadds.s16.ld.incp" T_vadds_s3 [ldqa_s16; addr_inc16; ee_load_op; ee_add_op] XTENSA_OP_LOAD 0x0;
  mkOps "ee.vadds.s32.ld.incp" T_vadds_s3 [ldqa_s32; addr_inc16; ee_load_op; ee_add_op] XTENSA_OP_LOAD 0x0;
  mkOps "ee.vadds.s8.st.incp" T_vadds_s3 [ldqa_s8; addr_inc16; ee_store_op; ee_add_op] XTENSA_OP_LOAD 0x0;
  mkOps "ee.vadds.s16.st.incp" T_vadds_s3 [ldqa_s16; addr_inc16; ee_store_op; ee_add_op] XTENSA_OP_LOAD 0x0;
  mkOps "ee.vadds.s32.st.incp" T_vadds_s3 [ldqa_s32; addr_inc16; ee_store_op; ee_add_op] XTENSA_OP_LOAD 0x0;
  mkOps "ee.vsubs.s8" T_vadds_s3 [ldqa_s8; addr_nop; ee_load_op; ee_sub_op] XTENSA_OP_LOAD 0x0].

Definition tie_ops_6 : list XtensaOpcodeOps := [
  mkOps "ee.vsubs.s16" T_vadds_s3 [ldqa_s16; addr_nop; ee_load_op; ee_sub_op] XTENSA_OP_LOAD 0x0;
  mkOps "ee.vsubs.s32" T_vadds_s3 [ldqa_s32; addr_nop; ee_load_op; ee_sub_op] XTENSA_OP_LOAD 0x0;
  mkOps "ee.vsubs.s8.ld.incp" T_vadds_s3 [ldqa_s8; addr_inc16; ee_load_op; ee_sub_op] XTENSA_OP_LOAD 0x0;
  mkOps "ee.vsubs.s16.ld.incp" T_vadds_s3 [ldqa_s16; addr_inc16; ee_load_op; ee_sub_op] XTENSA_OP_LOAD 0x0;
  mkOps "ee.vsubs.s32.ld.incp" T_vadds_s3 [ldqa_s32; addr_inc16; ee_load_op; ee_sub_op] XTENSA_OP_LOAD 0x0;
  mkOps "ee.vsubs.s8.st.incp" T_vadds_s3 [ldqa_s8; addr_inc16; ee_store_op; ee_sub_op] XTENSA_OP_LOAD 0x0;
  mkOps "ee.vsubs.s16.st.incp" T_vadds_s3 [ldqa_s16; addr_inc16; ee_store_op; ee_sub_op] XTENSA_OP_LOAD 0x0;
  mkOps "ee.vsubs.s32.st.incp" T_vadds_s3 [ldqa_s32; addr_inc16; ee_store_op; ee_sub_op] XTENSA_OP_LOAD 0x0;
  mkOps "ee.vmul.s8" T_vmul_s3 [vmul_s8; addr_nop; ee_load_op] XTENSA_OP_LOAD 0x0;
  mkOps "ee.vmul.s16" T_vmul_s3 [vmul_s16; addr_nop; ee_load_op] XTENSA_OP_LOAD 0x0;
  mkOps "ee.vmul.u8" T_vmul_s3 [vmul_u8; addr_nop; ee_load_op] XTENSA_OP_LOAD 0x0;
  mkOps "ee.vmul.u16" T_vmul_s3 [vmul_u16; addr_nop; ee_load_op] XTENSA_OP_LOAD 0x0;
  mkOps "ee.vmul.s8.ld.incp" T_vmul_s3 [vmul_s8; addr_inc16; ee_load_op] XTENSA_OP_LOAD 0x0;
  mkOps "ee.vmul.s16.ld.incp" T_vmul_s3 [vmul_s16; addr_inc16; ee_load_op] XTENSA_OP_LOAD 0x0;
  mkOps "ee.vmul.u8.ld.incp" T_vmul_s3 [vmul_u8; addr_inc16; ee_load_op] XTENSA_OP_LOAD 0x0;
  mkOps "ee.vmul.u16.ld.incp" T_vmul_s3 [vmul_u16; addr_inc16; ee_load_op] XTENSA_OP_LOAD 0x0;
  mkOps "ee.vmul.s8.st.incp" T_vmul_s3 [vmul_s8; addr_inc16; ee_store_op] XTENSA_OP_LOAD 0x0;
  mkOps "ee.vmul.s16.st.incp" T_vmul_s3 [vmul_s16; addr_inc16; ee_store_op] XTENSA_OP_LOAD 0x0;
  mkOps "ee.vmul.u8.st.incp" T_vmul_s3 [vmul_u8; addr_inc16; ee_store_op] XTENSA_OP_LOAD 0x0;
  mkOps "ee.vmul.u16.st.incp" T_vmul_s3 [vmul_u16; addr_inc16; ee_store_op] XTENSA_OP_LOAD 0x0].

Definition tie_ops_7 : list XtensaOpcodeOps := [
  mkOps "ee.cmul.s16" T_cmul_s3 [addr_nop; ee_load_op] XTENSA_OP_LOAD 0x0;
  mkOps "ee.cmul.s16.ld.incp" T_cmul_s3 [addr_inc16; ee_load_op] XTENSA_OP_LOAD 0x0;
  mkOps "ee.cmul.s16.st.incp" T_cmul_s3 [addr_inc16; ee_store_op] XTENSA_OP_LOAD 0x0;
  mkOps "ee.vmulas.s8.accx" T_vmulas_accx_s3 [vmul_s8; addr_nop; vmul_nop] XTENSA_OP_LOAD 0x0;
  mkOps "ee.vmulas.u8.accx" T_vmulas_accx_s3 [vmul_u8; addr_nop; vmul_nop] XTENSA_OP_LOAD 0x0;
  mkOps "ee.vmulas.s16.accx" T_vmulas_accx_s3 [vmul_s16; addr_nop; vmul_nop] XTENSA_OP_LOAD 0x0;
  mkOps "ee.vmulas.u16.accx" T_vmulas_accx_s3 [vmul_u16; addr_nop; vmul_nop] XTENSA_OP_LOAD 0x0;
  mkOps "ee.vmulas.s8.accx.ld.ip" T_vmulas_accx_s3 [vmul_s8; addr_ip; vmul_nop] XTENSA_OP_LOAD 0x0;
  mkOps "ee.vmulas.u8.accx.ld.ip" T_vmulas_accx_s3 [vmul_u8; addr_ip; vmul_nop] XTENSA_OP_LOAD 0x0;
  mkOps "ee.vmulas.s16.accx.ld.ip" T_vmulas_accx_s3 [vmul_s16; addr_ip; vmul_nop] XTENSA_OP_LOAD 0x0;
  mkOps "ee.vmulas.u16.accx.ld.ip" T_vmulas_accx_s3 [vmul_u16; addr_ip; vmul_nop] XTENSA_OP_LOAD 0x0;
  mkOps "ee.vmulas.s8.accx.ld.xp" T_vmulas_accx_s3 [vmul_s8; addr_xp; vmul_nop] XTENSA_OP_LOAD 0x0;
  mkOps "ee.vmulas.u8.accx.ld.xp" T_vmulas_accx_s3 [vmul_u8; addr_xp; vmul_nop] XTENSA_OP_LOAD 0x0;
  mkOps "ee.vmulas.s16.accx.ld.xp" T_vmulas_accx_s3 [vmul_s16; addr_xp; vmul_nop] XTENSA_OP_LOAD 0x0;
  mkOps "ee.vmulas.u16.accx.ld.xp" T_vmulas_accx_s3 [vmul_u16; addr_xp; vmul_nop] XTENSA_OP_LOAD 0x0;
  mkOps "ee.vmulas.s8.accx.ld.ip.qup" T_vmulas_accx_s3 [vmul_s8; addr_ip; vmul_qup] XTENSA_OP_LOAD 0x0;
  mkOps "ee.vmulas.u8.accx.ld.ip.qup" T_vmulas_accx_s3 [vmul_u8; addr_ip; vmul_qup] XTENSA_OP_LOAD 0x0;
  mkOps "ee.vmulas.s16.accx.ld.ip.qup" T_vmulas_accx_s3 [vmul_s16; addr_ip; vmul_qup] XTENSA_OP_LOAD 0x0;
  mkOps "ee.vmulas.u16.accx.ld.ip.qup" T_vmulas_accx_s3 [vmul_u16; addr_ip; vmul_qup] XTENSA_OP_LOAD 0x0;
  mkOps "ee.vmulas.s8.accx.ld.xp.qup" T_vmulas_accx_s3 [vmul_s8; addr_xp; vmul_qup] XTENSA_OP_LOAD 0x0].

Definition tie_ops_8 : list XtensaOpcodeOps := [
  mkOps "ee.vmulas.u8.accx.ld.xp.qup" T_vmulas_accx_s3 [vmul_u8; addr_xp; vmul_qup] XTENSA_OP_LOAD 0x0;
  mkOps "ee.vmulas.s16.accx.ld.xp.qup" T_vmulas_accx_s3 [vmul_s16; addr_xp; vmul_qup] XTENSA_OP_LOAD 0x0;
  mkOps "ee.vmulas.u16.accx.ld.xp.qup" T_vmulas_accx_s3 [vmul_u16; addr_xp; vmul_qup] XTENSA_OP_LOAD 0x0;
  mkOps "ee.vmulas.s8.qacc" T_vmulas_qacc_s3 [vmul_s8; addr_nop; vmul_nop] XTENSA_OP_LOAD 0x0;
  mkOps "ee.vmulas.s16.qacc" T_vmulas_qacc_s3 [vmul_s16; addr_nop; vmul_nop] XTENSA_OP_LOAD 0x0;
  mkOps "ee.vmulas.u8.qacc" T_vmulas_qacc_s3 [vmul_u8; addr_nop; vmul_nop] XTENSA_OP_LOAD 0x0;
  mkOps "ee.vmulas.u16.qacc" T_vmulas_qacc_s3 [vmul_u16; addr_nop; vmul_nop] XTENSA_OP_LOAD 0x0;
  mkOps "ee.vmulas.s8.qacc.ld.ip" T_vmulas_qacc_s3 [vmul_s8; addr_ip; vmul_nop] XTENSA_OP_LOAD 0x0;
  mkOps "ee.vmulas.u8.qacc.ld.ip" T_vmulas_qacc_s3 [vmul_u8; addr_ip; vmul_nop] XTENSA_OP_LOAD 0x0;
  mkOps "ee.vmulas.s16.qacc.ld.ip" T_vmulas_qacc_s3 [vmul_s16; addr_ip; vmul_nop] XTENSA_OP_LOAD 0x0;
  mkOps "ee.vmulas.u16.qacc.ld.ip" T_vmulas_qacc_s3 [vmul_u16; addr_ip; vmul_nop] XTENSA_OP_LOAD 0x0;
  mkOps "ee.vmulas.s8.qacc.ld.xp" T_vmulas_qacc_s3 [vmul_s8; addr_xp; vmul_nop] XTENSA_OP_LOAD 0x0;
  mkOps "ee.vmulas.u8.qacc.ld.xp" T_vmulas_qacc_s3 [vmul_u8; addr_xp; vmul_nop] XTENSA_OP_LOAD 0x0;
  mkOps "ee.vmulas.s16.qacc.ld.xp" T_vmulas_qacc_s3 [vmul_s16; addr_xp; vmul_nop] XTENSA_OP_LOAD 0x0;
  mkOps "ee.vmulas.u16.qacc.ld.xp" T_vmulas_qacc_s3 [vmul_u16; addr_xp; vmul_nop] XTENSA_OP_LOAD 0x0;
  mkOps "ee.vmulas.s8.qacc.ldbc.incp" T_vmulas_qacc_s3 [vmul_s8; addr_ldbc_inc1; vmul_nop] XTENSA_OP_LOAD 0x0;
  mkOps "ee.vmulas.u8.qacc.ldbc.incp" T_vmulas_qacc_s3 [vmul_u8; addr_ldbc_inc1; vmul_nop] XTENSA_OP_LOAD 0x0;
  mkOps "ee.vmulas.s16.qacc.ldbc.incp" T_vmulas_qacc_s3 [vmul_s16; addr_ldbc_inc1; vmul_nop] XTENSA_OP_LOAD 0x0;
  mkOps "ee.vmulas.u16.qacc.ldbc.incp" T_vmulas_qacc_s3 [vmul_u16; addr_ldbc_inc1; vmul_nop] XTENSA_OP_LOAD 0x0;
  mkOps "ee.vmulas.s8.qacc.ldbc.incp.qup" T_vmulas_qacc_s3 [vmul_s8; addr_ldbc_inc1; vmul_qup] XTENSA_OP_LOAD 0x0].

Definition tie_ops_9 : list XtensaOpcodeOps := [
  mkOps "ee.vmulas.u8.qacc.ldbc.incp.qup" T_vmulas_qacc_s3 [vmul_u8; addr_ldbc_inc1; vmul_qup] XTENSA_OP_LOAD 0x0;
  mkOps "ee.vmulas.s16.qacc.ldbc.incp.qup" T_vmulas_qacc_s3 [vmul_s16; addr_ldbc_inc1; vmul_qup] XTENSA_OP_LOAD 0x0;
  mkOps "ee.vmulas.u16.qacc.ldbc.incp.qup" T_vmulas_qacc_s3 [vmul_u16; addr_ldbc_inc1; vmul_qup] XTENSA_OP_LOAD 0x0;
  mkOps "ee.vmulas.s8.qacc.ld.ip.qup" T_vmulas_qacc_s3 [vmul_s8; addr_ip; vmul_qup] XTENSA_OP_LOAD 0x0;
  mkOps "ee.vmulas.u8.qacc.ld.ip.qup" T_vmulas_qacc_s3 [vmul_u8; addr_ip; vmul_qup] XTENSA_OP_LOAD 0x0;
  mkOps "ee.vmulas.s16.qacc.ld.ip.qup" T_vmulas_qacc_s3 [vmul_s16; addr_ip; vmul_qup] XTENSA_OP_LOAD 0x0;
  mkOps "ee.vmulas.u16.qacc.ld.ip.qup" T_vmulas_qacc_s3 [vmul_u16; addr_ip; vmul_qup] XTENSA_OP_LOAD 0x0;
  mkOps "ee.vmulas.s8.qacc.ld.xp.qup" T_vmulas_qacc_s3 [vmul_s8; addr_xp; vmul_qup] XTENSA_OP_LOAD 0x0;
  mkOps "ee.vmulas.u8.qacc.ld.xp.qup" T_vmulas_qacc_s3 [vmul_u8; addr_xp; vmul_qup] XTENSA_OP_LOAD 0x0;
  mkOps "ee.vmulas.s16.qacc.ld.xp.qup" T_vmulas_qacc_s3 [vmul_s16; addr_xp; vmul_qup] XTENSA_OP_LOAD 0x0;
  mkOps "ee.vmulas.u16.qacc.ld.xp.qup" T_vmulas_qacc_s3 [vmul_u16; addr_xp; vmul_qup] XTENSA_OP_LOAD 0x0;
  mkOps "ee.vsmulas.s8.qacc" T_vsmulas_qacc_s3 [vmul_s8; addr_nop] XTENSA_OP_LOAD 0x0;
  mkOps "ee.vsmulas.s16.qacc" T_vsmulas_qacc_s3 [vmul_s16; addr_nop] XTENSA_OP_LOAD 0x0;
  mkOps "ee.vsmulas.s8.qacc.ld.incp" T_vsmulas_qacc_s3 [vmul_s8; addr_inc16] XTENSA_OP_LOAD 0x0;
  mkOps "ee.vsmulas.s16.qacc.ld.incp" T_vsmulas_qacc_s3 [vmul_s16; addr_inc16] XTENSA_OP_LOAD 0x0;
  mkOps "ee.srcmb.s8.qacc" T_srcmb_qacc_s3 [vmul_s8] XTENSA_OP_LOAD 0x0;
  mkOps "ee.srcmb.s16.qacc" T_srcmb_qacc_s3 [vmul_s16] XTENSA_OP_LOAD 0x0;
  mkOps "ee.vrelu.s8" T_vrelu_s3 [vmul_s8] XTENSA_OP_LOAD 0x0;
  mkOps "ee.vrelu.s16" T_vrelu_s3 [vmul_s16] XTENSA_OP_LOAD 0x0;
  mkOps "ee.vprelu.s8" T_vprelu_s3 [vmul_s8] XTENSA_OP_LOAD 0x0].

Definition tie_ops_10 : list XtensaOpcodeOps := [
  mkOps "ee.vprelu.s16" T_vprelu_s3 [vmul_s16] XTENSA_OP_LOAD 0x0;
  mkOps "ee.vmax.s8" T_vmax_s3 [vmul_s8; addr_nop; ee_load_op] XTENSA_OP_LOAD 0x0;
  mkOps "ee.vmax.s16" T_vmax_s3 [vmul_s16; addr_nop; ee_load_op] XTENSA_OP_LOAD 0x0;
  mkOps "ee.vmax.s32" T_vmax_s3 [vmul_s32; addr_nop; ee_load_op] XTENSA_OP_LOAD 0x0;
  mkOps "ee.vmax.s8.ld.incp" T_vmax_s3 [vmul_s8; addr_inc16; ee_load_op] XTENSA_OP_LOAD 0x0;
  mkOps "ee.vmax.s16.ld.incp" T_vmax_s3 [vmul_s16; addr_inc16; ee_load_op] XTENSA_OP_LOAD 0x0;
  mkOps "ee.vmax.s32.ld.incp" T_vmax_s3 [vmul_s32; addr_inc16; ee_load_op] XTENSA_OP_LOAD 0x0;
  mkOps "ee.vmax.s8.st.incp" T_vmax_s3 [vmul_s8; addr_inc16; ee_store_op] XTENSA_OP_LOAD 0x0;
  mkOps "ee.vmax.s16.st.incp" T_vmax_s3 [vmul_s16; addr_inc16; ee_store_op] XTENSA_OP_LOAD 0x0;
  mkOps "ee.vmax.s32.st.incp" T_vmax_s3 [vmul_s32; addr_inc16; ee_store_op] XTENSA_OP_LOAD 0x0;
  mkOps "ee.vmin.s8" T_vmin_s3 [vmul_s8; addr_nop; ee_load_op] XTENSA_OP_LOAD 0x0;
  mkOps "ee.vmin.s16" T_vmin_s3 [vmul_s16; addr_nop; ee_load_op] XTENSA_OP_LOAD 0x0;
  mkOps "ee.vmin.s32" T_vmin_s3 [vmul_s32; addr_nop; ee_load_op] XTENSA_OP_LOAD 0x0;
  mkOps "ee.vmin.s8.ld.incp" T_vmin_s3 [vmul_s8; addr_inc16; ee_load_op] XTENSA_OP_LOAD 0x0;
  mkOps "ee.vmin.s16.ld.incp" T_vmin_s3 [vmul_s16; addr_inc16; ee_load_op] XTENSA_OP_LOAD 0x0;
  mkOps "ee.vmin.s32.ld.incp" T_vmin_s3 [vmul_s32; addr_inc16; ee_load_op] XTENSA_OP_LOAD 0x0;
  mkOps "ee.vmin.s8.st.incp" T_vmin_s3 [vmul_s8; addr_inc16; ee_store_op] XTENSA_OP_LOAD 0x0;
  mkOps "ee.vmin.s16.st.incp" T_vmin_s3 [vmul_s16; addr_inc16; ee_store_op] XTENSA_OP_LOAD 0x0;
  mkOps "ee.vmin.s32.st.incp" T_vmin_s3 [vmul_s32; addr_inc16; ee_store_op] XTENSA_OP_LOAD 0x0;
  mkOps "ee.vcmp.eq.s8" T_vcmp_s3 [vmul_s8; ee_vcmp_eq] XTENSA_OP_LOAD 0x0].

Definition tie_ops_11 : list XtensaOpcodeOps := [
  mkOps "ee.vcmp.eq.s16" T_vcmp_s3 [vmul_s16; ee_vcmp_eq] XTENSA_OP_LOAD 0x0;
  mkOps "ee.vcmp.eq.s32" T_vcmp_s3 [vmul_s32; ee_vcmp_eq] XTENSA_OP_LOAD 0x0;
  mkOps "ee.vcmp.lt.s8" T_vcmp_s3 [vmul_s8; ee_vcmp_lt] XTENSA_OP_LOAD 0x0;
  mkOps "ee.vcmp.lt.s16" T_vcmp_s3 [vmul_s16; ee_vcmp_lt] XTENSA_OP_LOAD 0x0;
  mkOps "ee.vcmp.lt.s32" T_vcmp_s3 [vmul_s32; ee_vcmp_lt] XTENSA_OP_LOAD 0x0;
  mkOps "ee.vcmp.gt.s8" T_vcmp_s3 [vmul_s8; ee_vcmp_gt] XTENSA_OP_LOAD 0x0;
  mkOps "ee.vcmp.gt.s16" T_vcmp_s3 [vmul_s16; ee_vcmp_gt] XTENSA_OP_LOAD 0x0;
  mkOps "ee.vcmp.gt.s32" T_vcmp_s3 [vmul_s32; ee_vcmp_gt] XTENSA_OP_LOAD 0x0;
  mkOps "ee.orq" T_bw_logic_s3 [bw_logic_or] XTENSA_OP_LOAD 0x0;
  mkOps "ee.xorq" T_bw_logic_s3 [bw_logic_xor] XTENSA_OP_LOAD 0x0;
  mkOps "ee.andq" T_bw_logic_s3 [bw_logic_and] XTENSA_OP_LOAD 0x0;
  mkOps "ee.notq" T_bw_logic_s3 [bw_logic_not] XTENSA_OP_LOAD 0x0;
  mkOps "ee.src.q" T_src_q_s3 [addr_nop; vmul_nop] XTENSA_OP_LOAD 0x0;
  mkOps "ee.src.q.qup" T_src_q_s3 [addr_nop; vmul_qup] XTENSA_OP_LOAD 0x0;
  mkOps "ee.src.q.ld.xp" T_src_q_s3 [addr_xp; vmul_nop] XTENSA_OP_LOAD 0x0;
  mkOps "ee.src.q.ld.ip" T_src_q_s3 [addr_ip; vmul_nop] XTENSA_OP_LOAD 0x0;
  mkOps "ee.slci.2q" T_sxci_2q_s3 [bw_shift_left] XTENSA_OP_LOAD 0x0;
  mkOps "ee.srci.2q" T_sxci_2q_s3 [bw_shift_right] XTENSA_OP_LOAD 0x0;
  mkOps "ee.slcxxp.2q" T_sxcxxp_2q_s3 [bw_shift_left] XTENSA_OP_LOAD 0x0].

Definition tie_ops_12 : list XtensaOpcodeOps := [
  mkOps "ee.srcxxp.2q" T_sxcxxp_2q_s3 [bw_shift_right] XTENSA_OP_LOAD 0x0;
  mkOps "ee.srcq.128.st.incp" T_srcq_128_st_s3 [] XTENSA_OP_LOAD 0x0;
  mkOps "ee.vsr.32" T_vsx32_s3 [bw_shift_right] XTENSA_OP_LOAD 0x0;
  mkOps "ee.vsl.32" T_vsx32_s3 [bw_shift_left] XTENSA_OP_LOAD 0x0;
  mkOps "ee.fft.r2bf.s16.st.incp" T_r2bf_st_s3 [] XTENSA_OP_LOAD 0x0;
  mkOps "ee.fft.r2bf.s16" T_r2bf_s3 [] XTENSA_OP_LOAD 0x0;
  mkOps "ee.fft.cmul.s16.ld.xp" T_fft_cmul_ld_s3 [] XTENSA_OP_LOAD 0x0;
  mkOps "ee.fft.cmul.s16.st.xp" T_fft_cmul_st_s3 [] XTENSA_OP_LOAD 0x0;
  mkOps "ee.bitrev" T_bitrev_s3 [] XTENSA_OP_LOAD 0x0;
  mkOps "ee.fft.ams.s16.ld.incp" T_fft_ams_s16_ld_incp [] XTENSA_OP_LOAD 0x0;
  mkOps "ee.fft.ams.s16.st.incp" T_fft_ams_s16_st_incp [] XTENSA_OP_LOAD 0x0;
  mkOps "ee.fft.ams.s16.ld.incp.uaup" T_fft_ams_s16_ld_incp_uaup [] XTENSA_OP_LOAD 0x0;
  mkOps "ee.fft.ams.s16.ld.r32.decp" T_fft_ams_s16_ld_decp [] XTENSA_OP_LOAD 0x0;
  mkOps "ee.fft.vst.r32.decp" T_fft_vst_decp_s3 [addr_ip] XTENSA_OP_LOAD 0x0;
  mkOps "ee.wr_mask_gpio_out" T_wr_mask_gpio_out_s3 [gpio_mask] XTENSA_OP_LOAD 0x0;
  mkOps "ee.set_bit_gpio_out" T_wr_mask_gpio_out_s3 [gpio_set] XTENSA_OP_LOAD 0x0;
  mkOps "ee.clr_bit_gpio_out" T_wr_mask_gpio_out_s3 [gpio_clr] XTENSA_OP_LOAD 0x0;
  mkOps "ee.get_gpio_in" T_wr_mask_gpio_out_s3 [gpio_in] XTENSA_OP_LOAD 0x0].

Definition tie_ops_13 : list XtensaOpcodeOps := [
  mkOps "ld.qr" T_ld_qr_s3 [addr_ip] XTENSA_OP_LOAD 0x0;
  mkOps "st.qr" T_st_qr_s3 [addr_ip] XTENSA_OP_LOAD 0x0;
  mkOps "mv.qr" T_mv_qr_s3 [] XTENSA_OP_LOAD 0x0;
  mkOps "ee.ld.accx.ip" T_ld_accx_ip_s3 [] XTENSA_OP_LOAD 0x0;
  mkOps "ee.srs.accx" T_srs_accx_s3 [] XTENSA_OP_LOAD 0x0;
  mkOps "ee.ld.qacc_h.h.32.ip" T_ld_qacc_x_h_32_ip_s3 [wrur_qacc_h_0] XTENSA_OP_LOAD 0x0;
  mkOps "ee.ld.qacc_l.h.32.ip" T_ld_qacc_x_h_32_ip_s3 [wrur_qacc_l_0] XTENSA_OP_LOAD 0x0;
  mkOps "ee.ld.qacc_h.l.128.ip" T_ld_qacc_x_l_128_ip_s3 [wrur_qacc_h_0] XTENSA_OP_LOAD 0x0;
  mkOps "ee.ld.qacc_l.l.128.ip" T_ld_qacc_x_l_128_ip_s3 [wrur_qacc_l_0] XTENSA_OP_LOAD 0x0;
  mkOps "ee.st.qacc_h.h.32.ip" T_st_qacc_x_h_32_ip_s3 [wrur_qacc_h_0] XTENSA_OP_STORE 0x0;
  mkOps "ee.st.qacc_l.h.32.ip" T_st_qacc_x_h_32_ip_s3 [wrur_qacc_l_0] XTENSA_OP_STORE 0x0;
  mkOps "ee.st.qacc_h.l.128.ip" T_st_qacc_x_l_128_ip_s3 [wrur_qacc_h_0] XTENSA_OP_STORE 0x0;
  mkOps "ee.st.qacc_l.l.128.ip" T_st_qacc_x_l_128_ip_s3 [wrur_qacc_l_0] XTENSA_OP_STORE 0x0;
  mkOps "ee.st.accx.ip" T_st_accx_ip_s3 [] XTENSA_OP_STORE 0x0;
  mkOps "ee.ld.ua_state.ip" T_ld_ua_state_ip_s3 [] XTENSA_OP_LOAD 0x0;
  mkOps "ee.st.ua_state.ip" T_st_ua_state_ip_s3 [] XTENSA_OP_STORE 0x0;
  mkOps "ee.ldxq.32" T_ldxq_32_s3 [] XTENSA_OP_LOAD 0x0;
  mkOps "ee.stxq.32" T_stxq_32_s3 [] XTENSA_OP_STORE 0x0].

Definition tie_ops : list XtensaOpcodeOps :=
  tie_ops_1 ++ tie_ops_2 ++ tie_ops_3 ++ tie_ops_4 ++ tie_ops_5 ++ tie_ops_6 ++ tie_ops_7 ++ tie_ops_8 ++ tie_ops_9 ++ tie_ops_10 ++ tie_ops_11 ++ tie_ops_12 ++ tie_ops_13.

(** ** The ISA module *)

Inductive regfile := REGFILE_AR | REGFILE_FR | REGFILE_QR.

Inductive tie_state :=
| STATE_CPENABLE | STATE_SAR_BYTE | STATE_QACC_L | STATE_QACC_H | STATE_ACCX
| STATE_GPIO_OUT | STATE_FFT_BIT_WIDTH | STATE_UA_STATE | STATE_SAR.

(** Operands by name, with their register file; [None] is an immediate.  The fields
    and encodings of operands are those of [Isa] and [Esp32s3Isa]; all of these
    are visible. *)
Definition tie_operands_1 : list (string * option regfile) := [
  ("arr", Some REGFILE_AR);
  ("art", Some REGFILE_AR)].

Definition tie_operands_2 : list (string * option regfile) := [
  ("opnd_st_QR_b", Some REGFILE_AR);
  ("opnd_st_QR_a", Some REGFILE_QR);
  ("opnd_ld_QR_b", Some REGFILE_AR);
  ("opnd_ld_QR_a", Some REGFILE_QR);
  ("opnd_imm_QR", None);
  ("opnd_mv_QR_b", Some REGFILE_QR);
  ("opnd_mv_QR_a", Some REGFILE_QR);
  ("opnd_EE_WR_MASK_GPIO_OUT_mask", Some REGFILE_AR);
  ("opnd_EE_WR_MASK_GPIO_OUT_value", Some REGFILE_AR);
  ("opnd_EE_SET_BIT_GPIO_OUT_mask", None);
  ("opnd_EE_CLR_BIT_GPIO_OUT_clear", None);
  ("opnd_EE_GET_GPIO_IN_au", Some REGFILE_AR);
  ("opnd_semantic_LD_ST_imm2", None);
  ("opnd_semantic_LD_ST_imm1", None);
  ("opnd_semantic_LD_ST_qu1", Some REGFILE_QR);
  ("opnd_semantic_LD_ST_imm16f", None);
  ("opnd_semantic_LD_ST_as", Some REGFILE_AR);
  ("opnd_semantic_LD_ST_fu0", Some REGFILE_FR);
  ("opnd_semantic_LD_ST_fu1", Some REGFILE_FR);
  ("opnd_semantic_LD_ST_fu2", Some REGFILE_FR);
  ("opnd_semantic_LD_ST_fu3", Some REGFILE_FR);
  ("opnd_semantic_LD_ST_ad", Some REGFILE_AR);
  ("opnd_semantic_LD_ST_imm8", None);
  ("opnd_semantic_LD_ST_imm16", None);
  ("opnd_semantic_LD_ST_imm4", None);
  ("opnd_semantic_LD_ST_sel8", None);
  ("opnd_semantic_LD_ST_sel4", None);
  ("opnd_semantic_LD_ST_qs", Some REGFILE_QR);
  ("opnd_semantic_LD_ST_qu", Some REGFILE_QR);
  ("opnd_semantic_LD_ST_fv0", Some REGFILE_FR);
  ("opnd_semantic_LD_ST_fv1", Some REGFILE_FR);
  ("opnd_semantic_LD_ST_fv2", Some REGFILE_FR);
  ("opnd_semantic_LD_ST_fv3", Some REGFILE_FR);
  ("opnd_semantic_LD_ST_qv", Some REGFILE_QR);
  ("opnd_EE_MOVI_32_A_sel4", None);
  ("opnd_EE_MOVI_32_A_au", Some REGFILE_AR);
  ("opnd_EE_MOVI_32_A_qs", Some REGFILE_QR)].

Definition tie_operands_3 : list (string * option regfile) := [
  ("opnd_EE_MOVI_32_Q_sel4", None);
  ("opnd_EE_MOVI_32_Q_as", Some REGFILE_AR);
  ("opnd_EE_MOVI_32_Q_qu", Some REGFILE_QR);
  ("opnd_EE_VZIP_16_qs1", Some REGFILE_QR);
  ("opnd_EE_VZIP_16_qs0", Some REGFILE_QR);
  ("opnd_EE_VZIP_32_qs1", Some REGFILE_QR);
  ("opnd_EE_VZIP_32_qs0", Some REGFILE_QR);
  ("opnd_EE_VZIP_8_qs1", Some REGFILE_QR);
  ("opnd_EE_VZIP_8_qs0", Some REGFILE_QR);
  ("opnd_EE_VUNZIP_16_qs1", Some REGFILE_QR);
  ("opnd_EE_VUNZIP_16_qs0", Some REGFILE_QR);
  ("opnd_EE_VUNZIP_32_qs1", Some REGFILE_QR);
  ("opnd_EE_VUNZIP_32_qs0", Some REGFILE_QR);
  ("opnd_EE_VUNZIP_8_qs1", Some REGFILE_QR);
  ("opnd_EE_VUNZIP_8_qs0", Some REGFILE_QR);
  ("opnd_EE_ZERO_Q_qa", Some REGFILE_QR);
  ("opnd_EE_MOV_S16_QACC_qs", Some REGFILE_QR);
  ("opnd_EE_MOV_S8_QACC_qs", Some REGFILE_QR);
  ("opnd_EE_MOV_U16_QACC_qs", Some REGFILE_QR);
  ("opnd_EE_MOV_U8_QACC_qs", Some REGFILE_QR);
  ("opnd_semantic_CAL_DOUBLE_Q_qa", Some REGFILE_QR);
  ("opnd_semantic_CAL_DOUBLE_Q_as", Some REGFILE_AR);
  ("opnd_semantic_CAL_DOUBLE_Q_qu", Some REGFILE_QR);
  ("opnd_semantic_CAL_DOUBLE_Q_qv", Some REGFILE_QR);
  ("opnd_semantic_CAL_DOUBLE_Q_sel4", None);
  ("opnd_semantic_CAL_DOUBLE_Q_qy", Some REGFILE_QR);
  ("opnd_semantic_CAL_DOUBLE_Q_qx", Some REGFILE_QR);
  ("opnd_semantic_CAL_DOUBLE_Q_qz", Some REGFILE_QR);
  ("opnd_semantic_CAL_DOUBLE_Q_qs1", Some REGFILE_QR);
  ("opnd_semantic_CAL_DOUBLE_Q_qs0", Some REGFILE_QR);
  ("opnd_semantic_CAL_DOUBLE_Q_imm16", None);
  ("opnd_semantic_CAL_DOUBLE_Q_ad", Some REGFILE_AR);
  ("opnd_semantic_CAL_DOUBLE_Q_sel8", None);
  ("opnd_semantic_CAL_DOUBLE_Q_sel16", None);
  ("opnd_semantic_SRCMB_QACC_sel2", None);
  ("opnd_semantic_SRCMB_QACC_as", Some REGFILE_AR);
  ("opnd_semantic_SRCMB_QACC_qu", Some REGFILE_QR)].

Definition tie_operands_4 : list (string * option regfile) := [
  ("opnd_EE_SRS_ACCX_sel2", None);
  ("opnd_EE_SRS_ACCX_as", Some REGFILE_AR);
  ("opnd_EE_SRS_ACCX_au", Some REGFILE_AR);
  ("opnd_semantic_CAL_DOUBLE_Q_ax", Some REGFILE_AR);
  ("opnd_semantic_CAL_DOUBLE_Q_qs", Some REGFILE_QR);
  ("opnd_semantic_CAL_DOUBLE_Q_ay", Some REGFILE_AR);
  ("opnd_semantic_VLOGIC_qy", Some REGFILE_QR);
  ("opnd_semantic_VLOGIC_qx", Some REGFILE_QR);
  ("opnd_semantic_VLOGIC_qa", Some REGFILE_QR);
  ("opnd_semantic_SHFQ_sar16", None);
  ("opnd_semantic_SHFQ_qs0", Some REGFILE_QR);
  ("opnd_semantic_SHFQ_qs1", Some REGFILE_QR);
  ("opnd_semantic_SHFQ_ad", Some REGFILE_AR);
  ("opnd_semantic_SHFQ_as", Some REGFILE_AR);
  ("opnd_semantic_SHFQ_imm16", None);
  ("opnd_semantic_SHFQ_qu", Some REGFILE_QR);
  ("opnd_semantic_SHFQ_qa", Some REGFILE_QR);
  ("opnd_semantic_SHFQ_qs", Some REGFILE_QR);
  ("opnd_semantic_FFT_RxBF_sar4", None);
  ("opnd_semantic_FFT_RxBF_as", Some REGFILE_AR);
  ("opnd_semantic_FFT_RxBF_sel2", None);
  ("opnd_semantic_FFT_RxBF_qy", Some REGFILE_QR);
  ("opnd_semantic_FFT_RxBF_qx", Some REGFILE_QR);
  ("opnd_semantic_FFT_RxBF_qa1", Some REGFILE_QR);
  ("opnd_semantic_FFT_RxBF_qa0", Some REGFILE_QR);
  ("opnd_EE_FFT_CMUL_S16_LD_XP_sel8", None);
  ("opnd_EE_FFT_CMUL_S16_LD_XP_qy", Some REGFILE_QR);
  ("opnd_EE_FFT_CMUL_S16_LD_XP_qx", Some REGFILE_QR);
  ("opnd_EE_FFT_CMUL_S16_LD_XP_qz", Some REGFILE_QR);
  ("opnd_EE_FFT_CMUL_S16_LD_XP_ad", Some REGFILE_AR);
  ("opnd_EE_FFT_CMUL_S16_LD_XP_as", Some REGFILE_AR);
  ("opnd_EE_FFT_CMUL_S16_LD_XP_qu", Some REGFILE_QR);
  ("opnd_EE_FFT_CMUL_S16_ST_XP_sar4", None);
  ("opnd_EE_FFT_CMUL_S16_ST_XP_upd4", None);
  ("opnd_EE_FFT_CMUL_S16_ST_XP_sel8", None);
  ("opnd_EE_FFT_CMUL_S16_ST_XP_ad", Some REGFILE_AR);
  ("opnd_EE_FFT_CMUL_S16_ST_XP_as", Some REGFILE_AR)].

Definition tie_operands_5 : list (string * option regfile) := [
  ("opnd_EE_FFT_CMUL_S16_ST_XP_qv", Some REGFILE_QR);
  ("opnd_EE_FFT_CMUL_S16_ST_XP_qy", Some REGFILE_QR);
  ("opnd_EE_FFT_CMUL_S16_ST_XP_qx", Some REGFILE_QR);
  ("opnd_EE_BITREV_ax", Some REGFILE_AR);
  ("opnd_EE_BITREV_qa", Some REGFILE_QR);
  ("opnd_EE_FFT_AMS_S16_LD_INCP_sel2", None);
  ("opnd_EE_FFT_AMS_S16_LD_INCP_qm", Some REGFILE_QR);
  ("opnd_EE_FFT_AMS_S16_LD_INCP_qy", Some REGFILE_QR);
  ("opnd_EE_FFT_AMS_S16_LD_INCP_qx", Some REGFILE_QR);
  ("opnd_EE_FFT_AMS_S16_LD_INCP_qz1", Some REGFILE_QR);
  ("opnd_EE_FFT_AMS_S16_LD_INCP_qz", Some REGFILE_QR);
  ("opnd_EE_FFT_AMS_S16_LD_INCP_as", Some REGFILE_AR);
  ("opnd_EE_FFT_AMS_S16_LD_INCP_qu", Some REGFILE_QR);
  ("opnd_EE_FFT_AMS_S16_LD_INCP_UAUP_sel2", None);
  ("opnd_EE_FFT_AMS_S16_LD_INCP_UAUP_qm", Some REGFILE_QR);
  ("opnd_EE_FFT_AMS_S16_LD_INCP_UAUP_qy", Some REGFILE_QR);
  ("opnd_EE_FFT_AMS_S16_LD_INCP_UAUP_qx", Some REGFILE_QR);
  ("opnd_EE_FFT_AMS_S16_LD_INCP_UAUP_qz1", Some REGFILE_QR);
  ("opnd_EE_FFT_AMS_S16_LD_INCP_UAUP_qz", Some REGFILE_QR);
  ("opnd_EE_FFT_AMS_S16_LD_INCP_UAUP_as", Some REGFILE_AR);
  ("opnd_EE_FFT_AMS_S16_LD_INCP_UAUP_qu", Some REGFILE_QR);
  ("opnd_EE_FFT_AMS_S16_LD_R32_DECP_sel2", None);
  ("opnd_EE_FFT_AMS_S16_LD_R32_DECP_qm", Some REGFILE_QR);
  ("opnd_EE_FFT_AMS_S16_LD_R32_DECP_qy", Some REGFILE_QR);
  ("opnd_EE_FFT_AMS_S16_LD_R32_DECP_qx", Some REGFILE_QR);
  ("opnd_EE_FFT_AMS_S16_LD_R32_DECP_qz1", Some REGFILE_QR);
  ("opnd_EE_FFT_AMS_S16_LD_R32_DECP_qz", Some REGFILE_QR);
  ("opnd_EE_FFT_AMS_S16_LD_R32_DECP_as", Some REGFILE_AR);
  ("opnd_EE_FFT_AMS_S16_LD_R32_DECP_qu", Some REGFILE_QR);
  ("opnd_EE_FFT_AMS_S16_ST_INCP_sel2", None);
  ("opnd_EE_FFT_AMS_S16_ST_INCP_qm", Some REGFILE_QR);
  ("opnd_EE_FFT_AMS_S16_ST_INCP_qy", Some REGFILE_QR);
  ("opnd_EE_FFT_AMS_S16_ST_INCP_qx", Some REGFILE_QR);
  ("opnd_EE_FFT_AMS_S16_ST_INCP_as", Some REGFILE_AR);
  ("opnd_EE_FFT_AMS_S16_ST_INCP_as0", Some REGFILE_AR);
  ("opnd_EE_FFT_AMS_S16_ST_INCP_qz1", Some REGFILE_QR);
  ("opnd_EE_FFT_AMS_S16_ST_INCP_qv", Some REGFILE_QR)].

Definition tie_operands_6 : list (string * option regfile) := [
  ("opnd_EE_FFT_VST_R32_DECP_sar2", None);
  ("opnd_EE_FFT_VST_R32_DECP_as", Some REGFILE_AR);
  ("opnd_EE_FFT_VST_R32_DECP_qv", Some REGFILE_QR)].

Definition tie_operands : list (string * option regfile) :=
  tie_operands_1 ++ tie_operands_2 ++ tie_operands_3 ++ tie_operands_4 ++ tie_operands_5 ++ tie_operands_6.

Inductive inout := In | Out | Mod.

Record iclass := mkIclass { ic_name : string; ic_args : list (string * inout);
  ic_stateArgs : list (tie_state * inout) }.

Definition tie_iclasses_1 : list iclass := [
  mkIclass "st_QR"
    [("opnd_st_QR_a", In); ("opnd_st_QR_b", In); ("opnd_imm_QR", In)]
    [(STATE_CPENABLE, In)];
  mkIclass "ld_QR"
    [("opnd_ld_QR_a", Out); ("opnd_ld_QR_b", In); ("opnd_imm_QR", In)]
    [(STATE_CPENABLE, In)];
  mkIclass "mv_QR"
    [("opnd_mv_QR_a", Out); ("opnd_mv_QR_b", In)]
    [(STATE_CPENABLE, In)];
  mkIclass "EE_WR_MASK_GPIO_OUT"
    [("opnd_EE_WR_MASK_GPIO_OUT_value", In); ("opnd_EE_WR_MASK_GPIO_OUT_mask", In)]
    [(STATE_GPIO_OUT, Mod)];
  mkIclass "EE_SET_BIT_GPIO_OUT"
    [("opnd_EE_SET_BIT_GPIO_OUT_mask", In)]
    [(STATE_GPIO_OUT, Mod)];
  mkIclass "EE_CLR_BIT_GPIO_OUT"
    [("opnd_EE_CLR_BIT_GPIO_OUT_clear", In)]
    [(STATE_GPIO_OUT, Mod)];
  mkIclass "EE_GET_GPIO_IN"
    [("opnd_EE_GET_GPIO_IN_au", Out)]
    [];
  mkIclass "EE_VLD_128_IP"
    [("opnd_semantic_LD_ST_qu", Out); ("opnd_semantic_LD_ST_as", Mod); ("opnd_semantic_LD_ST_imm16", In)]
    [(STATE_CPENABLE, In)];
  mkIclass "EE_VLD_128_XP"
    [("opnd_semantic_LD_ST_qu", Out); ("opnd_semantic_LD_ST_as", Mod); ("opnd_semantic_LD_ST_ad", In)]
    [(STATE_CPENABLE, In)];
  mkIclass "EE_VLD_H_64_IP"
    [("opnd_semantic_LD_ST_qu", Mod); ("opnd_semantic_LD_ST_as", Mod); ("opnd_semantic_LD_ST_imm8", In)]
    [(STATE_CPENABLE, In)];
  mkIclass "EE_VLD_H_64_XP"
    [("opnd_semantic_LD_ST_qu", Mod); ("opnd_semantic_LD_ST_as", Mod); ("opnd_semantic_LD_ST_ad", In)]
    [(STATE_CPENABLE, In)];
  mkIclass "EE_VLD_L_64_IP"
    [("opnd_semantic_LD_ST_qu", Mod); ("opnd_semantic_LD_ST_as", Mod); ("opnd_semantic_LD_ST_imm8", In)]
    [(STATE_CPENABLE, In)];
  mkIclass "EE_VLD_L_64_XP"
    [("opnd_semantic_LD_ST_qu", Mod); ("opnd_semantic_LD_ST_as", Mod); ("opnd_semantic_LD_ST_ad", In)]
    [(STATE_CPENABLE, In)];
  mkIclass "EE_VLDBC_16_IP"
    [("opnd_semantic_LD_ST_qu", Out); ("opnd_semantic_LD_ST_as", Mod); ("opnd_semantic_LD_ST_imm2", In)]
    [(STATE_CPENABLE, In)];
  mkIclass "EE_VLDBC_16"
    [("opnd_semantic_LD_ST_qu", Out); ("opnd_semantic_LD_ST_as", In)]
    [(STATE_CPENABLE, In)];
  mkIclass "EE_VLDBC_16_XP"
    [("opnd_semantic_LD_ST_qu", Out); ("opnd_semantic_LD_ST_as", Mod); ("opnd_semantic_LD_ST_ad", In)]
    [(STATE_CPENABLE, In)]].

Definition tie_iclasses_2 : list iclass := [
  mkIclass "EE_VLDBC_32_IP"
    [("opnd_semantic_LD_ST_qu", Out); ("opnd_semantic_LD_ST_as", Mod); ("opnd_semantic_LD_ST_imm4", In)]
    [(STATE_CPENABLE, In)];
  mkIclass "EE_VLDBC_32"
    [("opnd_semantic_LD_ST_qu", Out); ("opnd_semantic_LD_ST_as", In)]
    [(STATE_CPENABLE, In)];
  mkIclass "EE_VLDBC_32_XP"
    [("opnd_semantic_LD_ST_qu", Out); ("opnd_semantic_LD_ST_as", Mod); ("opnd_semantic_LD_ST_ad", In)]
    [(STATE_CPENABLE, In)];
  mkIclass "EE_VLDBC_8_IP"
    [("opnd_semantic_LD_ST_qu", Out); ("opnd_semantic_LD_ST_as", Mod); ("opnd_semantic_LD_ST_imm1", In)]
    [(STATE_CPENABLE, In)];
  mkIclass "EE_VLDBC_8"
    [("opnd_semantic_LD_ST_qu", Out); ("opnd_semantic_LD_ST_as", In)]
    [(STATE_CPENABLE, In)];
  mkIclass "EE_VLDBC_8_XP"
    [("opnd_semantic_LD_ST_qu", Out); ("opnd_semantic_LD_ST_as", Mod); ("opnd_semantic_LD_ST_ad", In)]
    [(STATE_CPENABLE, In)];
  mkIclass "EE_VLDHBC_16_INCP"
    [("opnd_semantic_LD_ST_qu", Out); ("opnd_semantic_LD_ST_qu1", Out); ("opnd_semantic_LD_ST_as", Mod)]
    [(STATE_CPENABLE, In)];
  mkIclass "EE_LDF_128_IP"
    [("opnd_semantic_LD_ST_fu3", Out); ("opnd_semantic_LD_ST_fu2", Out); ("opnd_semantic_LD_ST_fu1", Out); ("opnd_semantic_LD_ST_fu0", Out); ("opnd_semantic_LD_ST_as", Mod); ("opnd_semantic_LD_ST_imm16f", In)]
    [(STATE_CPENABLE, In)];
  mkIclass "EE_LDF_128_XP"
    [("opnd_semantic_LD_ST_fu3", Out); ("opnd_semantic_LD_ST_fu2", Out); ("opnd_semantic_LD_ST_fu1", Out); ("opnd_semantic_LD_ST_fu0", Out); ("opnd_semantic_LD_ST_as", Mod); ("opnd_semantic_LD_ST_ad", In)]
    [(STATE_CPENABLE, In)];
  mkIclass "EE_LDF_64_IP"
    [("opnd_semantic_LD_ST_fu1", Out); ("opnd_semantic_LD_ST_fu0", Out); ("opnd_semantic_LD_ST_as", Mod); ("opnd_semantic_LD_ST_imm8", In)]
    [(STATE_CPENABLE, In)];
  mkIclass "EE_LDF_64_XP"
    [("opnd_semantic_LD_ST_fu1", Out); ("opnd_semantic_LD_ST_fu0", Out); ("opnd_semantic_LD_ST_as", Mod); ("opnd_semantic_LD_ST_ad", In)]
    [(STATE_CPENABLE, In)];
  mkIclass "EE_LD_128_USAR_IP"
    [("opnd_semantic_LD_ST_qu", Out); ("opnd_semantic_LD_ST_as", Mod); ("opnd_semantic_LD_ST_imm16", In)]
    [(STATE_SAR_BYTE, Out); (STATE_CPENABLE, In)];
  mkIclass "EE_LD_128_USAR_XP"
    [("opnd_semantic_LD_ST_qu", Out); ("opnd_semantic_LD_ST_as", Mod); ("opnd_semantic_LD_ST_ad", In)]
    [(STATE_SAR_BYTE, Out); (STATE_CPENABLE, In)];
  mkIclass "EE_LDQA_S16_128_IP"
    [("opnd_semantic_LD_ST_as", Mod); ("opnd_semantic_LD_ST_imm16", In)]
    [(STATE_QACC_L, Out); (STATE_QACC_H, Out); (STATE_CPENABLE, In)]].

Definition tie_iclasses_3 : list iclass := [
  mkIclass "EE_LDQA_S16_128_XP"
    [("opnd_semantic_LD_ST_as", Mod); ("opnd_semantic_LD_ST_ad", In)]
    [(STATE_QACC_L, Out); (STATE_QACC_H, Out); (STATE_CPENABLE, In)];
  mkIclass "EE_LDQA_S8_128_IP"
    [("opnd_semantic_LD_ST_as", Mod); ("opnd_semantic_LD_ST_imm16", In)]
    [(STATE_QACC_L, Out); (STATE_QACC_H, Out); (STATE_CPENABLE, In)];
  mkIclass "EE_LDQA_S8_128_XP"
    [("opnd_semantic_LD_ST_as", Mod); ("opnd_semantic_LD_ST_ad", In)]
    [(STATE_QACC_L, Out); (STATE_QACC_H, Out); (STATE_CPENABLE, In)];
  mkIclass "EE_LDQA_U16_128_IP"
    [("opnd_semantic_LD_ST_as", Mod); ("opnd_semantic_LD_ST_imm16", In)]
    [(STATE_QACC_L, Out); (STATE_QACC_H, Out); (STATE_CPENABLE, In)];
  mkIclass "EE_LDQA_U16_128_XP"
    [("opnd_semantic_LD_ST_as", Mod); ("opnd_semantic_LD_ST_ad", In)]
    [(STATE_QACC_L, Out); (STATE_QACC_H, Out); (STATE_CPENABLE, In)];
  mkIclass "EE_LDQA_U8_128_IP"
    [("opnd_semantic_LD_ST_as", Mod); ("opnd_semantic_LD_ST_imm16", In)]
    [(STATE_QACC_L, Out); (STATE_QACC_H, Out); (STATE_CPENABLE, In)];
  mkIclass "EE_LDQA_U8_128_XP"
    [("opnd_semantic_LD_ST_as", Mod); ("opnd_semantic_LD_ST_ad", In)]
    [(STATE_QACC_L, Out); (STATE_QACC_H, Out); (STATE_CPENABLE, In)];
  mkIclass "EE_LD_QACC_H_H_32_IP"
    [("opnd_semantic_LD_ST_as", Mod); ("opnd_semantic_LD_ST_imm4", In)]
    [(STATE_QACC_H, Mod); (STATE_CPENABLE, In)];
  mkIclass "EE_LD_QACC_H_L_128_IP"
    [("opnd_semantic_LD_ST_as", Mod); ("opnd_semantic_LD_ST_imm16", In)]
    [(STATE_QACC_H, Mod); (STATE_CPENABLE, In)];
  mkIclass "EE_LD_QACC_L_H_32_IP"
    [("opnd_semantic_LD_ST_as", Mod); ("opnd_semantic_LD_ST_imm4", In)]
    [(STATE_QACC_L, Mod); (STATE_CPENABLE, In)];
  mkIclass "EE_LD_QACC_L_L_128_IP"
    [("opnd_semantic_LD_ST_as", Mod); ("opnd_semantic_LD_ST_imm16", In)]
    [(STATE_QACC_L, Mod); (STATE_CPENABLE, In)];
  mkIclass "EE_LD_ACCX_IP"
    [("opnd_semantic_LD_ST_as", Mod); ("opnd_semantic_LD_ST_imm8", In)]
    [(STATE_ACCX, Out); (STATE_CPENABLE, In)];
  mkIclass "EE_LDXQ_32"
    [("opnd_semantic_LD_ST_qu", Mod); ("opnd_semantic_LD_ST_qs", In); ("opnd_semantic_LD_ST_as", In); ("opnd_semantic_LD_ST_sel4", In); ("opnd_semantic_LD_ST_sel8", In)]
    [(STATE_CPENABLE, In)];
  mkIclass "EE_LD_UA_STATE_IP"
    [("opnd_semantic_LD_ST_as", Mod); ("opnd_semantic_LD_ST_imm16", In)]
    [(STATE_UA_STATE, Out); (STATE_CPENABLE, In)]].

Definition tie_iclasses_4 : list iclass := [
  mkIclass "EE_ST_UA_STATE_IP"
    [("opnd_semantic_LD_ST_as", Mod); ("opnd_semantic_LD_ST_imm16", In)]
    [(STATE_UA_STATE, In); (STATE_CPENABLE, In)];
  mkIclass "EE_VST_128_IP"
    [("opnd_semantic_LD_ST_qv", In); ("opnd_semantic_LD_ST_as", Mod); ("opnd_semantic_LD_ST_imm16", In)]
    [(STATE_CPENABLE, In)];
  mkIclass "EE_VST_128_XP"
    [("opnd_semantic_LD_ST_qv", In); ("opnd_semantic_LD_ST_as", Mod); ("opnd_semantic_LD_ST_ad", In)]
    [(STATE_CPENABLE, In)];
  mkIclass "EE_VST_H_64_IP"
    [("opnd_semantic_LD_ST_qv", In); ("opnd_semantic_LD_ST_as", Mod); ("opnd_semantic_LD_ST_imm8", In)]
    [(STATE_CPENABLE, In)];
  mkIclass "EE_VST_H_64_XP"
    [("opnd_semantic_LD_ST_qv", In); ("opnd_semantic_LD_ST_as", Mod); ("opnd_semantic_LD_ST_ad", In)]
    [(STATE_CPENABLE, In)];
  mkIclass "EE_VST_L_64_IP"
    [("opnd_semantic_LD_ST_qv", In); ("opnd_semantic_LD_ST_as", Mod); ("opnd_semantic_LD_ST_imm8", In)]
    [(STATE_CPENABLE, In)];
  mkIclass "EE_VST_L_64_XP"
    [("opnd_semantic_LD_ST_qv", In); ("opnd_semantic_LD_ST_as", Mod); ("opnd_semantic_LD_ST_ad", In)]
    [(STATE_CPENABLE, In)];
  mkIclass "EE_STF_128_IP"
    [("opnd_semantic_LD_ST_fv3", In); ("opnd_semantic_LD_ST_fv2", In); ("opnd_semantic_LD_ST_fv1", In); ("opnd_semantic_LD_ST_fv0", In); ("opnd_semantic_LD_ST_as", Mod); ("opnd_semantic_LD_ST_imm16f", In)]
    [(STATE_CPENABLE, In)];
  mkIclass "EE_STF_128_XP"
    [("opnd_semantic_LD_ST_fv3", In); ("opnd_semantic_LD_ST_fv2", In); ("opnd_semantic_LD_ST_fv1", In); ("opnd_semantic_LD_ST_fv0", In); ("opnd_semantic_LD_ST_as", Mod); ("opnd_semantic_LD_ST_ad", In)]
    [(STATE_CPENABLE, In)];
  mkIclass "EE_STF_64_IP"
    [("opnd_semantic_LD_ST_fv1", In); ("opnd_semantic_LD_ST_fv0", In); ("opnd_semantic_LD_ST_as", Mod); ("opnd_semantic_LD_ST_imm8", In)]
    [(STATE_CPENABLE, In)];
  mkIclass "EE_STF_64_XP"
    [("opnd_semantic_LD_ST_fv1", In); ("opnd_semantic_LD_ST_fv0", In); ("opnd_semantic_LD_ST_as", Mod); ("opnd_semantic_LD_ST_ad", In)]
    [(STATE_CPENABLE, In)];
  mkIclass "EE_ST_QACC_H_H_32_IP"
    [("opnd_semantic_LD_ST_as", Mod); ("opnd_semantic_LD_ST_imm4", In)]
    [(STATE_QACC_H, In); (STATE_CPENABLE, In)];
  mkIclass "EE_ST_QACC_H_L_128_IP"
    [("opnd_semantic_LD_ST_as", Mod); ("opnd_semantic_LD_ST_imm16", In)]
    [(STATE_QACC_H, In); (STATE_CPENABLE, In)];
  mkIclass "EE_ST_QACC_L_H_32_IP"
    [("opnd_semantic_LD_ST_as", Mod); ("opnd_semantic_LD_ST_imm4", In)]
    [(STATE_QACC_L, In); (STATE_CPENABLE, In)]].

Definition tie_iclasses_5 : list iclass := [
  mkIclass "EE_ST_QACC_L_L_128_IP"
    [("opnd_semantic_LD_ST_as", Mod); ("opnd_semantic_LD_ST_imm16", In)]
    [(STATE_QACC_L, In); (STATE_CPENABLE, In)];
  mkIclass "EE_ST_ACCX_IP"
    [("opnd_semantic_LD_ST_as", Mod); ("opnd_semantic_LD_ST_imm8", In)]
    [(STATE_ACCX, In); (STATE_CPENABLE, In)];
  mkIclass "EE_STXQ_32"
    [("opnd_semantic_LD_ST_qv", In); ("opnd_semantic_LD_ST_qs", In); ("opnd_semantic_LD_ST_as", In); ("opnd_semantic_LD_ST_sel4", In); ("opnd_semantic_LD_ST_sel8", In)]
    [(STATE_CPENABLE, In)];
  mkIclass "EE_MOVI_32_A"
    [("opnd_EE_MOVI_32_A_qs", In); ("opnd_EE_MOVI_32_A_au", Out); ("opnd_EE_MOVI_32_A_sel4", In)]
    [(STATE_CPENABLE, In)];
  mkIclass "EE_MOVI_32_Q"
    [("opnd_EE_MOVI_32_Q_qu", Mod); ("opnd_EE_MOVI_32_Q_as", In); ("opnd_EE_MOVI_32_Q_sel4", In)]
    [(STATE_CPENABLE, In)];
  mkIclass "EE_VZIP_16"
    [("opnd_EE_VZIP_16_qs0", Mod); ("opnd_EE_VZIP_16_qs1", Mod)]
    [(STATE_CPENABLE, In)];
  mkIclass "EE_VZIP_32"
    [("opnd_EE_VZIP_32_qs0", Mod); ("opnd_EE_VZIP_32_qs1", Mod)]
    [(STATE_CPENABLE, In)];
  mkIclass "EE_VZIP_8"
    [("opnd_EE_VZIP_8_qs0", Mod); ("opnd_EE_VZIP_8_qs1", Mod)]
    [(STATE_CPENABLE, In)];
  mkIclass "EE_VUNZIP_16"
    [("opnd_EE_VUNZIP_16_qs0", Mod); ("opnd_EE_VUNZIP_16_qs1", Mod)]
    [(STATE_CPENABLE, In)];
  mkIclass "EE_VUNZIP_32"
    [("opnd_EE_VUNZIP_32_qs0", Mod); ("opnd_EE_VUNZIP_32_qs1", Mod)]
    [(STATE_CPENABLE, In)];
  mkIclass "EE_VUNZIP_8"
    [("opnd_EE_VUNZIP_8_qs0", Mod); ("opnd_EE_VUNZIP_8_qs1", Mod)]
    [(STATE_CPENABLE, In)];
  mkIclass "EE_ZERO_ACCX"
    []
    [(STATE_ACCX, Out); (STATE_CPENABLE, In)];
  mkIclass "EE_ZERO_QACC"
    []
    [(STATE_QACC_L, Out); (STATE_QACC_H, Out); (STATE_CPENABLE, In)];
  mkIclass "EE_ZERO_Q"
    [("opnd_EE_ZERO_Q_qa", Out)]
    [(STATE_CPENABLE, In)];
  mkIclass "EE_MOV_S16_QACC"
    [("opnd_EE_MOV_S16_QACC_qs", In)]
    [(STATE_QACC_L, Out); (STATE_QACC_H, Out); (STATE_CPENABLE, In)];
  mkIclass "EE_MOV_S8_QACC"
    [("opnd_EE_MOV_S8_QACC_qs", In)]
    [(STATE_QACC_L, Out); (STATE_QACC_H, Out); (STATE_CPENABLE, In)]].

Definition tie_iclasses_6 : list iclass := [
  mkIclass "EE_MOV_U16_QACC"
    [("opnd_EE_MOV_U16_QACC_qs", In)]
    [(STATE_QACC_L, Out); (STATE_QACC_H, Out); (STATE_CPENABLE, In)];
  mkIclass "EE_MOV_U8_QACC"
    [("opnd_EE_MOV_U8_QACC_qs", In)]
    [(STATE_QACC_L, Out); (STATE_QACC_H, Out); (STATE_CPENABLE, In)];
  mkIclass "EE_VADDS_S16_LD_INCP"
    [("opnd_semantic_CAL_DOUBLE_Q_qu", Out); ("opnd_semantic_CAL_DOUBLE_Q_as", Mod); ("opnd_semantic_CAL_DOUBLE_Q_qa", Out); ("opnd_semantic_CAL_DOUBLE_Q_qx", In); ("opnd_semantic_CAL_DOUBLE_Q_qy", In)]
    [(STATE_CPENABLE, In)];
  mkIclass "EE_VADDS_S16_ST_INCP"
    [("opnd_semantic_CAL_DOUBLE_Q_qv", In); ("opnd_semantic_CAL_DOUBLE_Q_as", Mod); ("opnd_semantic_CAL_DOUBLE_Q_qa", Out); ("opnd_semantic_CAL_DOUBLE_Q_qx", In); ("opnd_semantic_CAL_DOUBLE_Q_qy", In)]
    [(STATE_CPENABLE, In)];
  mkIclass "EE_VADDS_S16"
    [("opnd_semantic_CAL_DOUBLE_Q_qa", Out); ("opnd_semantic_CAL_DOUBLE_Q_qx", In); ("opnd_semantic_CAL_DOUBLE_Q_qy", In)]
    [(STATE_CPENABLE, In)];
  mkIclass "EE_VADDS_S32_LD_INCP"
    [("opnd_semantic_CAL_DOUBLE_Q_qu", Out); ("opnd_semantic_CAL_DOUBLE_Q_as", Mod); ("opnd_semantic_CAL_DOUBLE_Q_qa", Out); ("opnd_semantic_CAL_DOUBLE_Q_qx", In); ("opnd_semantic_CAL_DOUBLE_Q_qy", In)]
    [(STATE_CPENABLE, In)];
  mkIclass "EE_VADDS_S32_ST_INCP"
    [("opnd_semantic_CAL_DOUBLE_Q_qv", In); ("opnd_semantic_CAL_DOUBLE_Q_as", Mod); ("opnd_semantic_CAL_DOUBLE_Q_qa", Out); ("opnd_semantic_CAL_DOUBLE_Q_qx", In); ("opnd_semantic_CAL_DOUBLE_Q_qy", In)]
    [(STATE_CPENABLE, In)];
  mkIclass "EE_VADDS_S32"
    [("opnd_semantic_CAL_DOUBLE_Q_qa", Out); ("opnd_semantic_CAL_DOUBLE_Q_qx", In); ("opnd_semantic_CAL_DOUBLE_Q_qy", In)]
    [(STATE_CPENABLE, In)];
  mkIclass "EE_VADDS_S8_LD_INCP"
    [("opnd_semantic_CAL_DOUBLE_Q_qu", Out); ("opnd_semantic_CAL_DOUBLE_Q_as", Mod); ("opnd_semantic_CAL_DOUBLE_Q_qa", Out); ("opnd_semantic_CAL_DOUBLE_Q_qx", In); ("opnd_semantic_CAL_DOUBLE_Q_qy", In)]
    [(STATE_CPENABLE, In)];
  mkIclass "EE_VADDS_S8_ST_INCP"
    [("opnd_semantic_CAL_DOUBLE_Q_qv", In); ("opnd_semantic_CAL_DOUBLE_Q_as", Mod); ("opnd_semantic_CAL_DOUBLE_Q_qa", Out); ("opnd_semantic_CAL_DOUBLE_Q_qx", In); ("opnd_semantic_CAL_DOUBLE_Q_qy", In)]
    [(STATE_CPENABLE, In)];
  mkIclass "EE_VADDS_S8"
    [("opnd_semantic_CAL_DOUBLE_Q_qa", Out); ("opnd_semantic_CAL_DOUBLE_Q_qx", In); ("opnd_semantic_CAL_DOUBLE_Q_qy", In)]
    [(STATE_CPENABLE, In)];
  mkIclass "EE_VSUBS_S16_LD_INCP"
    [("opnd_semantic_CAL_DOUBLE_Q_qu", Out); ("opnd_semantic_CAL_DOUBLE_Q_as", Mod); ("opnd_semantic_CAL_DOUBLE_Q_qa", Out); ("opnd_semantic_CAL_DOUBLE_Q_qx", In); ("opnd_semantic_CAL_DOUBLE_Q_qy", In)]
    [(STATE_CPENABLE, In)];
  mkIclass "EE_VSUBS_S16_ST_INCP"
    [("opnd_semantic_CAL_DOUBLE_Q_qv", In); ("opnd_semantic_CAL_DOUBLE_Q_as", Mod); ("opnd_semantic_CAL_DOUBLE_Q_qa", Out); ("opnd_semantic_CAL_DOUBLE_Q_qx", In); ("opnd_semantic_CAL_DOUBLE_Q_qy", In)]
    [(STATE_CPENABLE, In)]].

Definition tie_iclasses_7 : list iclass := [
  mkIclass "EE_VSUBS_S16"
    [("opnd_semantic_CAL_DOUBLE_Q_qa", Out); ("opnd_semantic_CAL_DOUBLE_Q_qx", In); ("opnd_semantic_CAL_DOUBLE_Q_qy", In)]
    [(STATE_CPENABLE, In)];
  mkIclass "EE_VSUBS_S32_LD_INCP"
    [("opnd_semantic_CAL_DOUBLE_Q_qu", Out); ("opnd_semantic_CAL_DOUBLE_Q_as", Mod); ("opnd_semantic_CAL_DOUBLE_Q_qa", Out); ("opnd_semantic_CAL_DOUBLE_Q_qx", In); ("opnd_semantic_CAL_DOUBLE_Q_qy", In)]
    [(STATE_CPENABLE, In)];
  mkIclass "EE_VSUBS_S32_ST_INCP"
    [("opnd_semantic_CAL_DOUBLE_Q_qv", In); ("opnd_semantic_CAL_DOUBLE_Q_as", Mod); ("opnd_semantic_CAL_DOUBLE_Q_qa", Out); ("opnd_semantic_CAL_DOUBLE_Q_qx", In); ("opnd_semantic_CAL_DOUBLE_Q_qy", In)]
    [(STATE_CPENABLE, In)];
  mkIclass "EE_VSUBS_S32"
    [("opnd_semantic_CAL_DOUBLE_Q_qa", Out); ("opnd_semantic_CAL_DOUBLE_Q_qx", In); ("opnd_semantic_CAL_DOUBLE_Q_qy", In)]
    [(STATE_CPENABLE, In)];
  mkIclass "EE_VSUBS_S8_LD_INCP"
    [("opnd_semantic_CAL_DOUBLE_Q_qu", Out); ("opnd_semantic_CAL_DOUBLE_Q_as", Mod); ("opnd_semantic_CAL_DOUBLE_Q_qa", Out); ("opnd_semantic_CAL_DOUBLE_Q_qx", In); ("opnd_semantic_CAL_DOUBLE_Q_qy", In)]
    [(STATE_CPENABLE, In)];
  mkIclass "EE_VSUBS_S8_ST_INCP"
    [("opnd_semantic_CAL_DOUBLE_Q_qv", In); ("opnd_semantic_CAL_DOUBLE_Q_as", Mod); ("opnd_semantic_CAL_DOUBLE_Q_qa", Out); ("opnd_semantic_CAL_DOUBLE_Q_qx", In); ("opnd_semantic_CAL_DOUBLE_Q_qy", In)]
    [(STATE_CPENABLE, In)];
  mkIclass "EE_VSUBS_S8"
    [("opnd_semantic_CAL_DOUBLE_Q_qa", Out); ("opnd_semantic_CAL_DOUBLE_Q_qx", In); ("opnd_semantic_CAL_DOUBLE_Q_qy", In)]
    [(STATE_CPENABLE, In)];
  mkIclass "EE_VMUL_S16_LD_INCP"
    [("opnd_semantic_CAL_DOUBLE_Q_qu", Out); ("opnd_semantic_CAL_DOUBLE_Q_as", Mod); ("opnd_semantic_CAL_DOUBLE_Q_qz", Out); ("opnd_semantic_CAL_DOUBLE_Q_qx", In); ("opnd_semantic_CAL_DOUBLE_Q_qy", In)]
    [(STATE_SAR, In); (STATE_CPENABLE, In)];
  mkIclass "EE_VMUL_S16_ST_INCP"
    [("opnd_semantic_CAL_DOUBLE_Q_qv", In); ("opnd_semantic_CAL_DOUBLE_Q_as", Mod); ("opnd_semantic_CAL_DOUBLE_Q_qz", Out); ("opnd_semantic_CAL_DOUBLE_Q_qx", In); ("opnd_semantic_CAL_DOUBLE_Q_qy", In)]
    [(STATE_SAR, In); (STATE_CPENABLE, In)];
  mkIclass "EE_VMUL_S16"
    [("opnd_semantic_CAL_DOUBLE_Q_qz", Out); ("opnd_semantic_CAL_DOUBLE_Q_qx", In); ("opnd_semantic_CAL_DOUBLE_Q_qy", In)]
    [(STATE_SAR, In); (STATE_CPENABLE, In)];
  mkIclass "EE_VMUL_S8_LD_INCP"
    [("opnd_semantic_CAL_DOUBLE_Q_qu", Out); ("opnd_semantic_CAL_DOUBLE_Q_as", Mod); ("opnd_semantic_CAL_DOUBLE_Q_qz", Out); ("opnd_semantic_CAL_DOUBLE_Q_qx", In); ("opnd_semantic_CAL_DOUBLE_Q_qy", In)]
    [(STATE_SAR, In); (STATE_CPENABLE, In)];
  mkIclass "EE_VMUL_S8_ST_INCP"
    [("opnd_semantic_CAL_DOUBLE_Q_qv", In); ("opnd_semantic_CAL_DOUBLE_Q_as", Mod); ("opnd_semantic_CAL_DOUBLE_Q_qz", Out); ("opnd_semantic_CAL_DOUBLE_Q_qx", In); ("opnd_semantic_CAL_DOUBLE_Q_qy", In)]
    [(STATE_SAR, In); (STATE_CPENABLE, In)]].

Definition tie_iclasses_8 : list iclass := [
  mkIclass "EE_VMUL_S8"
    [("opnd_semantic_CAL_DOUBLE_Q_qz", Out); ("opnd_semantic_CAL_DOUBLE_Q_qx", In); ("opnd_semantic_CAL_DOUBLE_Q_qy", In)]
    [(STATE_SAR, In); (STATE_CPENABLE, In)];
  mkIclass "EE_VMUL_U16_LD_INCP"
    [("opnd_semantic_CAL_DOUBLE_Q_qu", Out); ("opnd_semantic_CAL_DOUBLE_Q_as", Mod); ("opnd_semantic_CAL_DOUBLE_Q_qz", Out); ("opnd_semantic_CAL_DOUBLE_Q_qx", In); ("opnd_semantic_CAL_DOUBLE_Q_qy", In)]
    [(STATE_SAR, In); (STATE_CPENABLE, In)];
  mkIclass "EE_VMUL_U16_ST_INCP"
    [("opnd_semantic_CAL_DOUBLE_Q_qv", In); ("opnd_semantic_CAL_DOUBLE_Q_as", Mod); ("opnd_semantic_CAL_DOUBLE_Q_qz", Out); ("opnd_semantic_CAL_DOUBLE_Q_qx", In); ("opnd_semantic_CAL_DOUBLE_Q_qy", In)]
    [(STATE_SAR, In); (STATE_CPENABLE, In)];
  mkIclass "EE_VMUL_U16"
    [("opnd_semantic_CAL_DOUBLE_Q_qz", Out); ("opnd_semantic_CAL_DOUBLE_Q_qx", In); ("opnd_semantic_CAL_DOUBLE_Q_qy", In)]
    [(STATE_SAR, In); (STATE_CPENABLE, In)];
  mkIclass "EE_VMUL_U8_LD_INCP"
    [("opnd_semantic_CAL_DOUBLE_Q_qu", Out); ("opnd_semantic_CAL_DOUBLE_Q_as", Mod); ("opnd_semantic_CAL_DOUBLE_Q_qz", Out); ("opnd_semantic_CAL_DOUBLE_Q_qx", In); ("opnd_semantic_CAL_DOUBLE_Q_qy", In)]
    [(STATE_SAR, In); (STATE_CPENABLE, In)];
  mkIclass "EE_VMUL_U8_ST_INCP"
    [("opnd_semantic_CAL_DOUBLE_Q_qv", In); ("opnd_semantic_CAL_DOUBLE_Q_as", Mod); ("opnd_semantic_CAL_DOUBLE_Q_qz", Out); ("opnd_semantic_CAL_DOUBLE_Q_qx", In); ("opnd_semantic_CAL_DOUBLE_Q_qy", In)]
    [(STATE_SAR, In); (STATE_CPENABLE, In)];
  mkIclass "EE_VMUL_U8"
    [("opnd_semantic_CAL_DOUBLE_Q_qz", Out); ("opnd_semantic_CAL_DOUBLE_Q_qx", In); ("opnd_semantic_CAL_DOUBLE_Q_qy", In)]
    [(STATE_SAR, In); (STATE_CPENABLE, In)];
  mkIclass "EE_CMUL_S16_LD_INCP"
    [("opnd_semantic_CAL_DOUBLE_Q_qu", Out); ("opnd_semantic_CAL_DOUBLE_Q_as", Mod); ("opnd_semantic_CAL_DOUBLE_Q_qz", Mod); ("opnd_semantic_CAL_DOUBLE_Q_qx", In); ("opnd_semantic_CAL_DOUBLE_Q_qy", In); ("opnd_semantic_CAL_DOUBLE_Q_sel4", In)]
    [(STATE_SAR, In); (STATE_CPENABLE, In)];
  mkIclass "EE_CMUL_S16_ST_INCP"
    [("opnd_semantic_CAL_DOUBLE_Q_qv", In); ("opnd_semantic_CAL_DOUBLE_Q_as", Mod); ("opnd_semantic_CAL_DOUBLE_Q_qz", Mod); ("opnd_semantic_CAL_DOUBLE_Q_qx", In); ("opnd_semantic_CAL_DOUBLE_Q_qy", In); ("opnd_semantic_CAL_DOUBLE_Q_sel4", In)]
    [(STATE_SAR, In); (STATE_CPENABLE, In)];
  mkIclass "EE_CMUL_S16"
    [("opnd_semantic_CAL_DOUBLE_Q_qz", Mod); ("opnd_semantic_CAL_DOUBLE_Q_qx", In); ("opnd_semantic_CAL_DOUBLE_Q_qy", In); ("opnd_semantic_CAL_DOUBLE_Q_sel4", In)]
    [(STATE_SAR, In); (STATE_CPENABLE, In)];
  mkIclass "EE_VMULAS_S16_ACCX_LD_IP_QUP"
    [("opnd_semantic_CAL_DOUBLE_Q_qu", Out); ("opnd_semantic_CAL_DOUBLE_Q_as", Mod); ("opnd_semantic_CAL_DOUBLE_Q_imm16", In); ("opnd_semantic_CAL_DOUBLE_Q_qx", In); ("opnd_semantic_CAL_DOUBLE_Q_qy", In); ("opnd_semantic_CAL_DOUBLE_Q_qs0", Mod); ("opnd_semantic_CAL_DOUBLE_Q_qs1", In)]
    [(STATE_SAR_BYTE, In); (STATE_ACCX, Mod); (STATE_CPENABLE, In)]].

Definition tie_iclasses_9 : list iclass := [
  mkIclass "EE_VMULAS_S16_ACCX_LD_IP"
    [("opnd_semantic_CAL_DOUBLE_Q_qu", Out); ("opnd_semantic_CAL_DOUBLE_Q_as", Mod); ("opnd_semantic_CAL_DOUBLE_Q_imm16", In); ("opnd_semantic_CAL_DOUBLE_Q_qx", In); ("opnd_semantic_CAL_DOUBLE_Q_qy", In)]
    [(STATE_ACCX, Mod); (STATE_CPENABLE, In)];
  mkIclass "EE_VMULAS_S16_ACCX_LD_XP_QUP"
    [("opnd_semantic_CAL_DOUBLE_Q_qu", Out); ("opnd_semantic_CAL_DOUBLE_Q_as", Mod); ("opnd_semantic_CAL_DOUBLE_Q_ad", In); ("opnd_semantic_CAL_DOUBLE_Q_qx", In); ("opnd_semantic_CAL_DOUBLE_Q_qy", In); ("opnd_semantic_CAL_DOUBLE_Q_qs0", Mod); ("opnd_semantic_CAL_DOUBLE_Q_qs1", In)]
    [(STATE_SAR_BYTE, In); (STATE_ACCX, Mod); (STATE_CPENABLE, In)];
  mkIclass "EE_VMULAS_S16_ACCX_LD_XP"
    [("opnd_semantic_CAL_DOUBLE_Q_qu", Out); ("opnd_semantic_CAL_DOUBLE_Q_as", Mod); ("opnd_semantic_CAL_DOUBLE_Q_ad", In); ("opnd_semantic_CAL_DOUBLE_Q_qx", In); ("opnd_semantic_CAL_DOUBLE_Q_qy", In)]
    [(STATE_ACCX, Mod); (STATE_CPENABLE, In)];
  mkIclass "EE_VMULAS_S16_ACCX"
    [("opnd_semantic_CAL_DOUBLE_Q_qx", In); ("opnd_semantic_CAL_DOUBLE_Q_qy", In)]
    [(STATE_ACCX, Mod); (STATE_CPENABLE, In)];
  mkIclass "EE_VMULAS_S8_ACCX_LD_IP_QUP"
    [("opnd_semantic_CAL_DOUBLE_Q_qu", Out); ("opnd_semantic_CAL_DOUBLE_Q_as", Mod); ("opnd_semantic_CAL_DOUBLE_Q_imm16", In); ("opnd_semantic_CAL_DOUBLE_Q_qx", In); ("opnd_semantic_CAL_DOUBLE_Q_qy", In); ("opnd_semantic_CAL_DOUBLE_Q_qs0", Mod); ("opnd_semantic_CAL_DOUBLE_Q_qs1", In)]
    [(STATE_SAR_BYTE, In); (STATE_ACCX, Mod); (STATE_CPENABLE, In)];
  mkIclass "EE_VMULAS_S8_ACCX_LD_IP"
    [("opnd_semantic_CAL_DOUBLE_Q_qu", Out); ("opnd_semantic_CAL_DOUBLE_Q_as", Mod); ("opnd_semantic_CAL_DOUBLE_Q_imm16", In); ("opnd_semantic_CAL_DOUBLE_Q_qx", In); ("opnd_semantic_CAL_DOUBLE_Q_qy", In)]
    [(STATE_ACCX, Mod); (STATE_CPENABLE, In)];
  mkIclass "EE_VMULAS_S8_ACCX_LD_XP_QUP"
    [("opnd_semantic_CAL_DOUBLE_Q_qu", Out); ("opnd_semantic_CAL_DOUBLE_Q_as", Mod); ("opnd_semantic_CAL_DOUBLE_Q_ad", In); ("opnd_semantic_CAL_DOUBLE_Q_qx", In); ("opnd_semantic_CAL_DOUBLE_Q_qy", In); ("opnd_semantic_CAL_DOUBLE_Q_qs0", Mod); ("opnd_semantic_CAL_DOUBLE_Q_qs1", In)]
    [(STATE_SAR_BYTE, In); (STATE_ACCX, Mod); (STATE_CPENABLE, In)];
  mkIclass "EE_VMULAS_S8_ACCX_LD_XP"
    [("opnd_semantic_CAL_DOUBLE_Q_qu", Out); ("opnd_semantic_CAL_DOUBLE_Q_as", Mod); ("opnd_semantic_CAL_DOUBLE_Q_ad", In); ("opnd_semantic_CAL_DOUBLE_Q_qx", In); ("opnd_semantic_CAL_DOUBLE_Q_qy", In)]
    [(STATE_ACCX, Mod); (STATE_CPENABLE, In)];
  mkIclass "EE_VMULAS_S8_ACCX"
    [("opnd_semantic_CAL_DOUBLE_Q_qx", In); ("opnd_semantic_CAL_DOUBLE_Q_qy", In)]
    [(STATE_ACCX, Mod); (STATE_CPENABLE, In)];
  mkIclass "EE_VMULAS_U16_ACCX_LD_IP_QUP"
    [("opnd_semantic_CAL_DOUBLE_Q_qu", Out); ("opnd_semantic_CAL_DOUBLE_Q_as", Mod); ("opnd_semantic_CAL_DOUBLE_Q_imm16", In); ("opnd_semantic_CAL_DOUBLE_Q_qx", In); ("opnd_semantic_CAL_DOUBLE_Q_qy", In); ("opnd_semantic_CAL_DOUBLE_Q_qs0", Mod); ("opnd_semantic_CAL_DOUBLE_Q_qs1", In)]
    [(STATE_SAR_BYTE, In); (STATE_ACCX, Mod); (STATE_CPENABLE, In)];
  mkIclass "EE_VMULAS_U16_ACCX_LD_IP"
    [("opnd_semantic_CAL_DOUBLE_Q_qu", Out); ("opnd_semantic_CAL_DOUBLE_Q_as", Mod); ("opnd_semantic_CAL_DOUBLE_Q_imm16", In); ("opnd_semantic_CAL_DOUBLE_Q_qx", In); ("opnd_semantic_CAL_DOUBLE_Q_qy", In)]
    [(STATE_ACCX, Mod); (STATE_CPENABLE, In)]].

Definition tie_iclasses_10 : list iclass := [
  mkIclass "EE_VMULAS_U16_ACCX_LD_XP_QUP"
    [("opnd_semantic_CAL_DOUBLE_Q_qu", Out); ("opnd_semantic_CAL_DOUBLE_Q_as", Mod); ("opnd_semantic_CAL_DOUBLE_Q_ad", In); ("opnd_semantic_CAL_DOUBLE_Q_qx", In); ("opnd_semantic_CAL_DOUBLE_Q_qy", In); ("opnd_semantic_CAL_DOUBLE_Q_qs0", Mod); ("opnd_semantic_CAL_DOUBLE_Q_qs1", In)]
    [(STATE_SAR_BYTE, In); (STATE_ACCX, Mod); (STATE_CPENABLE, In)];
  mkIclass "EE_VMULAS_U16_ACCX_LD_XP"
    [("opnd_semantic_CAL_DOUBLE_Q_qu", Out); ("opnd_semantic_CAL_DOUBLE_Q_as", Mod); ("opnd_semantic_CAL_DOUBLE_Q_ad", In); ("opnd_semantic_CAL_DOUBLE_Q_qx", In); ("opnd_semantic_CAL_DOUBLE_Q_qy", In)]
    [(STATE_ACCX, Mod); (STATE_CPENABLE, In)];
  mkIclass "EE_VMULAS_U16_ACCX"
    [("opnd_semantic_CAL_DOUBLE_Q_qx", In); ("opnd_semantic_CAL_DOUBLE_Q_qy", In)]
    [(STATE_ACCX, Mod); (STATE_CPENABLE, In)];
  mkIclass "EE_VMULAS_U8_ACCX_LD_IP_QUP"
    [("opnd_semantic_CAL_DOUBLE_Q_qu", Out); ("opnd_semantic_CAL_DOUBLE_Q_as", Mod); ("opnd_semantic_CAL_DOUBLE_Q_imm16", In); ("opnd_semantic_CAL_DOUBLE_Q_qx", In); ("opnd_semantic_CAL_DOUBLE_Q_qy", In); ("opnd_semantic_CAL_DOUBLE_Q_qs0", Mod); ("opnd_semantic_CAL_DOUBLE_Q_qs1", In)]
    [(STATE_SAR_BYTE, In); (STATE_ACCX, Mod); (STATE_CPENABLE, In)];
  mkIclass "EE_VMULAS_U8_ACCX_LD_IP"
    [("opnd_semantic_CAL_DOUBLE_Q_qu", Out); ("opnd_semantic_CAL_DOUBLE_Q_as", Mod); ("opnd_semantic_CAL_DOUBLE_Q_imm16", In); ("opnd_semantic_CAL_DOUBLE_Q_qx", In); ("opnd_semantic_CAL_DOUBLE_Q_qy", In)]
    [(STATE_ACCX, Mod); (STATE_CPENABLE, In)];
  mkIclass "EE_VMULAS_U8_ACCX_LD_XP_QUP"
    [("opnd_semantic_CAL_DOUBLE_Q_qu", Out); ("opnd_semantic_CAL_DOUBLE_Q_as", Mod); ("opnd_semantic_CAL_DOUBLE_Q_ad", In); ("opnd_semantic_CAL_DOUBLE_Q_qx", In); ("opnd_semantic_CAL_DOUBLE_Q_qy", In); ("opnd_semantic_CAL_DOUBLE_Q_qs0", Mod); ("opnd_semantic_CAL_DOUBLE_Q_qs1", In)]
    [(STATE_SAR_BYTE, In); (STATE_ACCX, Mod); (STATE_CPENABLE, In)];
  mkIclass "EE_VMULAS_U8_ACCX_LD_XP"
    [("opnd_semantic_CAL_DOUBLE_Q_qu", Out); ("opnd_semantic_CAL_DOUBLE_Q_as", Mod); ("opnd_semantic_CAL_DOUBLE_Q_ad", In); ("opnd_semantic_CAL_DOUBLE_Q_qx", In); ("opnd_semantic_CAL_DOUBLE_Q_qy", In)]
    [(STATE_ACCX, Mod); (STATE_CPENABLE, In)];
  mkIclass "EE_VMULAS_U8_ACCX"
    [("opnd_semantic_CAL_DOUBLE_Q_qx", In); ("opnd_semantic_CAL_DOUBLE_Q_qy", In)]
    [(STATE_ACCX, Mod); (STATE_CPENABLE, In)];
  mkIclass "EE_VMULAS_S16_QACC_LDBC_INCP_QUP"
    [("opnd_semantic_CAL_DOUBLE_Q_qu", Out); ("opnd_semantic_CAL_DOUBLE_Q_as", Mod); ("opnd_semantic_CAL_DOUBLE_Q_qx", In); ("opnd_semantic_CAL_DOUBLE_Q_qy", In); ("opnd_semantic_CAL_DOUBLE_Q_qs0", Mod); ("opnd_semantic_CAL_DOUBLE_Q_qs1", In)]
    [(STATE_SAR_BYTE, In); (STATE_QACC_H, Mod); (STATE_QACC_L, Mod); (STATE_CPENABLE, In)];
  mkIclass "EE_VMULAS_S16_QACC_LDBC_INCP"
    [("opnd_semantic_CAL_DOUBLE_Q_qu", Out); ("opnd_semantic_CAL_DOUBLE_Q_as", Mod); ("opnd_semantic_CAL_DOUBLE_Q_qx", In); ("opnd_semantic_CAL_DOUBLE_Q_qy", In)]
    [(STATE_QACC_H, Mod); (STATE_QACC_L, Mod); (STATE_CPENABLE, In)]].

Definition tie_iclasses_11 : list iclass := [
  mkIclass "EE_VMULAS_S16_QACC_LD_IP_QUP"
    [("opnd_semantic_CAL_DOUBLE_Q_qu", Out); ("opnd_semantic_CAL_DOUBLE_Q_as", Mod); ("opnd_semantic_CAL_DOUBLE_Q_imm16", In); ("opnd_semantic_CAL_DOUBLE_Q_qx", In); ("opnd_semantic_CAL_DOUBLE_Q_qy", In); ("opnd_semantic_CAL_DOUBLE_Q_qs0", Mod); ("opnd_semantic_CAL_DOUBLE_Q_qs1", In)]
    [(STATE_SAR_BYTE, In); (STATE_QACC_H, Mod); (STATE_QACC_L, Mod); (STATE_CPENABLE, In)];
  mkIclass "EE_VMULAS_S16_QACC_LD_IP"
    [("opnd_semantic_CAL_DOUBLE_Q_qu", Out); ("opnd_semantic_CAL_DOUBLE_Q_as", Mod); ("opnd_semantic_CAL_DOUBLE_Q_imm16", In); ("opnd_semantic_CAL_DOUBLE_Q_qx", In); ("opnd_semantic_CAL_DOUBLE_Q_qy", In)]
    [(STATE_QACC_H, Mod); (STATE_QACC_L, Mod); (STATE_CPENABLE, In)];
  mkIclass "EE_VMULAS_S16_QACC_LD_XP_QUP"
    [("opnd_semantic_CAL_DOUBLE_Q_qu", Out); ("opnd_semantic_CAL_DOUBLE_Q_as", Mod); ("opnd_semantic_CAL_DOUBLE_Q_ad", In); ("opnd_semantic_CAL_DOUBLE_Q_qx", In); ("opnd_semantic_CAL_DOUBLE_Q_qy", In); ("opnd_semantic_CAL_DOUBLE_Q_qs0", Mod); ("opnd_semantic_CAL_DOUBLE_Q_qs1", In)]
    [(STATE_SAR_BYTE, In); (STATE_QACC_H, Mod); (STATE_QACC_L, Mod); (STATE_CPENABLE, In)];
  mkIclass "EE_VMULAS_S16_QACC_LD_XP"
    [("opnd_semantic_CAL_DOUBLE_Q_qu", Out); ("opnd_semantic_CAL_DOUBLE_Q_as", Mod); ("opnd_semantic_CAL_DOUBLE_Q_ad", In); ("opnd_semantic_CAL_DOUBLE_Q_qx", In); ("opnd_semantic_CAL_DOUBLE_Q_qy", In)]
    [(STATE_QACC_H, Mod); (STATE_QACC_L, Mod); (STATE_CPENABLE, In)];
  mkIclass "EE_VMULAS_S16_QACC"
    [("opnd_semantic_CAL_DOUBLE_Q_qx", In); ("opnd_semantic_CAL_DOUBLE_Q_qy", In)]
    [(STATE_QACC_H, Mod); (STATE_QACC_L, Mod); (STATE_CPENABLE, In)];
  mkIclass "EE_VMULAS_S8_QACC_LDBC_INCP_QUP"
    [("opnd_semantic_CAL_DOUBLE_Q_qu", Out); ("opnd_semantic_CAL_DOUBLE_Q_as", Mod); ("opnd_semantic_CAL_DOUBLE_Q_qx", In); ("opnd_semantic_CAL_DOUBLE_Q_qy", In); ("opnd_semantic_CAL_DOUBLE_Q_qs0", Mod); ("opnd_semantic_CAL_DOUBLE_Q_qs1", In)]
    [(STATE_SAR_BYTE, In); (STATE_QACC_H, Mod); (STATE_QACC_L, Mod); (STATE_CPENABLE, In)];
  mkIclass "EE_VMULAS_S8_QACC_LDBC_INCP"
    [("opnd_semantic_CAL_DOUBLE_Q_qu", Out); ("opnd_semantic_CAL_DOUBLE_Q_as", Mod); ("opnd_semantic_CAL_DOUBLE_Q_qx", In); ("opnd_semantic_CAL_DOUBLE_Q_qy", In)]
    [(STATE_QACC_H, Mod); (STATE_QACC_L, Mod); (STATE_CPENABLE, In)];
  mkIclass "EE_VMULAS_S8_QACC_LD_IP_QUP"
    [("opnd_semantic_CAL_DOUBLE_Q_qu", Out); ("opnd_semantic_CAL_DOUBLE_Q_as", Mod); ("opnd_semantic_CAL_DOUBLE_Q_imm16", In); ("opnd_semantic_CAL_DOUBLE_Q_qx", In); ("opnd_semantic_CAL_DOUBLE_Q_qy", In); ("opnd_semantic_CAL_DOUBLE_Q_qs0", Mod); ("opnd_semantic_CAL_DOUBLE_Q_qs1", In)]
    [(STATE_SAR_BYTE, In); (STATE_QACC_H, Mod); (STATE_QACC_L, Mod); (STATE_CPENABLE, In)];
  mkIclass "EE_VMULAS_S8_QACC_LD_IP"
    [("opnd_semantic_CAL_DOUBLE_Q_qu", Out); ("opnd_semantic_CAL_DOUBLE_Q_as", Mod); ("opnd_semantic_CAL_DOUBLE_Q_imm16", In); ("opnd_semantic_CAL_DOUBLE_Q_qx", In); ("opnd_semantic_CAL_DOUBLE_Q_qy", In)]
    [(STATE_QACC_H, Mod); (STATE_QACC_L, Mod); (STATE_CPENABLE, In)];
  mkIclass "EE_VMULAS_S8_QACC_LD_XP_QUP"
    [("opnd_semantic_CAL_DOUBLE_Q_qu", Out); ("opnd_semantic_CAL_DOUBLE_Q_as", Mod); ("opnd_semantic_CAL_DOUBLE_Q_ad", In); ("opnd_semantic_CAL_DOUBLE_Q_qx", In); ("opnd_semantic_CAL_DOUBLE_Q_qy", In); ("opnd_semantic_CAL_DOUBLE_Q_qs0", Mod); ("opnd_semantic_CAL_DOUBLE_Q_qs1", In)]
    [(STATE_SAR_BYTE, In); (STATE_QACC_H, Mod); (STATE_QACC_L, Mod); (STATE_CPENABLE, In)]].

Definition tie_iclasses_12 : list iclass := [
  mkIclass "EE_VMULAS_S8_QACC_LD_XP"
    [("opnd_semantic_CAL_DOUBLE_Q_qu", Out); ("opnd_semantic_CAL_DOUBLE_Q_as", Mod); ("opnd_semantic_CAL_DOUBLE_Q_ad", In); ("opnd_semantic_CAL_DOUBLE_Q_qx", In); ("opnd_semantic_CAL_DOUBLE_Q_qy", In)]
    [(STATE_QACC_H, Mod); (STATE_QACC_L, Mod); (STATE_CPENABLE, In)];
  mkIclass "EE_VMULAS_S8_QACC"
    [("opnd_semantic_CAL_DOUBLE_Q_qx", In); ("opnd_semantic_CAL_DOUBLE_Q_qy", In)]
    [(STATE_QACC_L, Mod); (STATE_QACC_H, Mod); (STATE_CPENABLE, In)];
  mkIclass "EE_VMULAS_U16_QACC_LDBC_INCP_QUP"
    [("opnd_semantic_CAL_DOUBLE_Q_qu", Out); ("opnd_semantic_CAL_DOUBLE_Q_as", Mod); ("opnd_semantic_CAL_DOUBLE_Q_qx", In); ("opnd_semantic_CAL_DOUBLE_Q_qy", In); ("opnd_semantic_CAL_DOUBLE_Q_qs0", Mod); ("opnd_semantic_CAL_DOUBLE_Q_qs1", In)]
    [(STATE_SAR_BYTE, In); (STATE_QACC_H, Mod); (STATE_QACC_L, Mod); (STATE_CPENABLE, In)];
  mkIclass "EE_VMULAS_U16_QACC_LDBC_INCP"
    [("opnd_semantic_CAL_DOUBLE_Q_qu", Out); ("opnd_semantic_CAL_DOUBLE_Q_as", Mod); ("opnd_semantic_CAL_DOUBLE_Q_qx", In); ("opnd_semantic_CAL_DOUBLE_Q_qy", In)]
    [(STATE_QACC_L, Mod); (STATE_QACC_H, Mod); (STATE_CPENABLE, In)];
  mkIclass "EE_VMULAS_U16_QACC_LD_IP_QUP"
    [("opnd_semantic_CAL_DOUBLE_Q_qu", Out); ("opnd_semantic_CAL_DOUBLE_Q_as", Mod); ("opnd_semantic_CAL_DOUBLE_Q_imm16", In); ("opnd_semantic_CAL_DOUBLE_Q_qx", In); ("opnd_semantic_CAL_DOUBLE_Q_qy", In); ("opnd_semantic_CAL_DOUBLE_Q_qs0", Mod); ("opnd_semantic_CAL_DOUBLE_Q_qs1", In)]
    [(STATE_SAR_BYTE, In); (STATE_QACC_H, Mod); (STATE_QACC_L, Mod); (STATE_CPENABLE, In)];
  mkIclass "EE_VMULAS_U16_QACC_LD_IP"
    [("opnd_semantic_CAL_DOUBLE_Q_qu", Out); ("opnd_semantic_CAL_DOUBLE_Q_as", Mod); ("opnd_semantic_CAL_DOUBLE_Q_imm16", In); ("opnd_semantic_CAL_DOUBLE_Q_qx", In); ("opnd_semantic_CAL_DOUBLE_Q_qy", In)]
    [(STATE_QACC_L, Mod); (STATE_QACC_H, Mod); (STATE_CPENABLE, In)];
  mkIclass "EE_VMULAS_U16_QACC_LD_XP_QUP"
    [("opnd_semantic_CAL_DOUBLE_Q_qu", Out); ("opnd_semantic_CAL_DOUBLE_Q_as", Mod); ("opnd_semantic_CAL_DOUBLE_Q_ad", In); ("opnd_semantic_CAL_DOUBLE_Q_qx", In); ("opnd_semantic_CAL_DOUBLE_Q_qy", In); ("opnd_semantic_CAL_DOUBLE_Q_qs0", Mod); ("opnd_semantic_CAL_DOUBLE_Q_qs1", In)]
    [(STATE_SAR_BYTE, In); (STATE_QACC_H, Mod); (STATE_QACC_L, Mod); (STATE_CPENABLE, In)];
  mkIclass "EE_VMULAS_U16_QACC_LD_XP"
    [("opnd_semantic_CAL_DOUBLE_Q_qu", Out); ("opnd_semantic_CAL_DOUBLE_Q_as", Mod); ("opnd_semantic_CAL_DOUBLE_Q_ad", In); ("opnd_semantic_CAL_DOUBLE_Q_qx", In); ("opnd_semantic_CAL_DOUBLE_Q_qy", In)]
    [(STATE_QACC_L, Mod); (STATE_QACC_H, Mod); (STATE_CPENABLE, In)];
  mkIclass "EE_VMULAS_U16_QACC"
    [("opnd_semantic_CAL_DOUBLE_Q_qx", In); ("opnd_semantic_CAL_DOUBLE_Q_qy", In)]
    [(STATE_QACC_L, Mod); (STATE_QACC_H, Mod); (STATE_CPENABLE, In)];
  mkIclass "EE_VMULAS_U8_QACC_LDBC_INCP_QUP"
    [("opnd_semantic_CAL_DOUBLE_Q_qu", Out); ("opnd_semantic_CAL_DOUBLE_Q_as", Mod); ("opnd_semantic_CAL_DOUBLE_Q_qx", In); ("opnd_semantic_CAL_DOUBLE_Q_qy", In); ("opnd_semantic_CAL_DOUBLE_Q_qs0", Mod); ("opnd_semantic_CAL_DOUBLE_Q_qs1", In)]
    [(STATE_SAR_BYTE, In); (STATE_QACC_H, Mod); (STATE_QACC_L, Mod); (STATE_CPENABLE, In)]].

Definition tie_iclasses_13 : list iclass := [
  mkIclass "EE_VMULAS_U8_QACC_LDBC_INCP"
    [("opnd_semantic_CAL_DOUBLE_Q_qu", Out); ("opnd_semantic_CAL_DOUBLE_Q_as", Mod); ("opnd_semantic_CAL_DOUBLE_Q_qx", In); ("opnd_semantic_CAL_DOUBLE_Q_qy", In)]
    [(STATE_QACC_L, Mod); (STATE_QACC_H, Mod); (STATE_CPENABLE, In)];
  mkIclass "EE_VMULAS_U8_QACC_LD_IP_QUP"
    [("opnd_semantic_CAL_DOUBLE_Q_qu", Out); ("opnd_semantic_CAL_DOUBLE_Q_as", Mod); ("opnd_semantic_CAL_DOUBLE_Q_imm16", In); ("opnd_semantic_CAL_DOUBLE_Q_qx", In); ("opnd_semantic_CAL_DOUBLE_Q_qy", In); ("opnd_semantic_CAL_DOUBLE_Q_qs0", Mod); ("opnd_semantic_CAL_DOUBLE_Q_qs1", In)]
    [(STATE_SAR_BYTE, In); (STATE_QACC_H, Mod); (STATE_QACC_L, Mod); (STATE_CPENABLE, In)];
  mkIclass "EE_VMULAS_U8_QACC_LD_IP"
    [("opnd_semantic_CAL_DOUBLE_Q_qu", Out); ("opnd_semantic_CAL_DOUBLE_Q_as", Mod); ("opnd_semantic_CAL_DOUBLE_Q_imm16", In); ("opnd_semantic_CAL_DOUBLE_Q_qx", In); ("opnd_semantic_CAL_DOUBLE_Q_qy", In)]
    [(STATE_QACC_L, Mod); (STATE_QACC_H, Mod); (STATE_CPENABLE, In)];
  mkIclass "EE_VMULAS_U8_QACC_LD_XP_QUP"
    [("opnd_semantic_CAL_DOUBLE_Q_qu", Out); ("opnd_semantic_CAL_DOUBLE_Q_as", Mod); ("opnd_semantic_CAL_DOUBLE_Q_ad", In); ("opnd_semantic_CAL_DOUBLE_Q_qx", In); ("opnd_semantic_CAL_DOUBLE_Q_qy", In); ("opnd_semantic_CAL_DOUBLE_Q_qs0", Mod); ("opnd_semantic_CAL_DOUBLE_Q_qs1", In)]
    [(STATE_SAR_BYTE, In); (STATE_QACC_H, Mod); (STATE_QACC_L, Mod); (STATE_CPENABLE, In)];
  mkIclass "EE_VMULAS_U8_QACC_LD_XP"
    [("opnd_semantic_CAL_DOUBLE_Q_qu", Out); ("opnd_semantic_CAL_DOUBLE_Q_as", Mod); ("opnd_semantic_CAL_DOUBLE_Q_ad", In); ("opnd_semantic_CAL_DOUBLE_Q_qx", In); ("opnd_semantic_CAL_DOUBLE_Q_qy", In)]
    [(STATE_QACC_L, Mod); (STATE_QACC_H, Mod); (STATE_CPENABLE, In)];
  mkIclass "EE_VMULAS_U8_QACC"
    [("opnd_semantic_CAL_DOUBLE_Q_qx", In); ("opnd_semantic_CAL_DOUBLE_Q_qy", In)]
    [(STATE_QACC_L, Mod); (STATE_QACC_H, Mod); (STATE_CPENABLE, In)];
  mkIclass "EE_VSMULAS_S16_QACC_LD_INCP"
    [("opnd_semantic_CAL_DOUBLE_Q_qu", Out); ("opnd_semantic_CAL_DOUBLE_Q_as", Mod); ("opnd_semantic_CAL_DOUBLE_Q_qx", In); ("opnd_semantic_CAL_DOUBLE_Q_qy", In); ("opnd_semantic_CAL_DOUBLE_Q_sel8", In)]
    [(STATE_QACC_H, Mod); (STATE_QACC_L, Mod); (STATE_CPENABLE, In)];
  mkIclass "EE_VSMULAS_S16_QACC"
    [("opnd_semantic_CAL_DOUBLE_Q_qx", In); ("opnd_semantic_CAL_DOUBLE_Q_qy", In); ("opnd_semantic_CAL_DOUBLE_Q_sel8", In)]
    [(STATE_QACC_H, Mod); (STATE_QACC_L, Mod); (STATE_CPENABLE, In)];
  mkIclass "EE_VSMULAS_S8_QACC_LD_INCP"
    [("opnd_semantic_CAL_DOUBLE_Q_qu", Out); ("opnd_semantic_CAL_DOUBLE_Q_as", Mod); ("opnd_semantic_CAL_DOUBLE_Q_qx", In); ("opnd_semantic_CAL_DOUBLE_Q_qy", In); ("opnd_semantic_CAL_DOUBLE_Q_sel16", In)]
    [(STATE_QACC_H, Mod); (STATE_QACC_L, Mod); (STATE_CPENABLE, In)];
  mkIclass "EE_VSMULAS_S8_QACC"
    [("opnd_semantic_CAL_DOUBLE_Q_qx", In); ("opnd_semantic_CAL_DOUBLE_Q_qy", In); ("opnd_semantic_CAL_DOUBLE_Q_sel16", In)]
    [(STATE_QACC_L, Mod); (STATE_QACC_H, Mod); (STATE_CPENABLE, In)];
  mkIclass "EE_SRCMB_S16_QACC"
    [("opnd_semantic_SRCMB_QACC_qu", Out); ("opnd_semantic_SRCMB_QACC_as", In); ("opnd_semantic_SRCMB_QACC_sel2", In)]
    [(STATE_QACC_H, Mod); (STATE_QACC_L, Mod); (STATE_CPENABLE, In)]].

Definition tie_iclasses_14 : list iclass := [
  mkIclass "EE_SRCMB_S8_QACC"
    [("opnd_semantic_SRCMB_QACC_qu", Out); ("opnd_semantic_SRCMB_QACC_as", In); ("opnd_semantic_SRCMB_QACC_sel2", In)]
    [(STATE_QACC_H, Mod); (STATE_QACC_L, Mod); (STATE_CPENABLE, In)];
  mkIclass "EE_SRS_ACCX"
    [("opnd_EE_SRS_ACCX_au", Out); ("opnd_EE_SRS_ACCX_as", In); ("opnd_EE_SRS_ACCX_sel2", In)]
    [(STATE_ACCX, Mod); (STATE_CPENABLE, In)];
  mkIclass "EE_VRELU_S16"
    [("opnd_semantic_CAL_DOUBLE_Q_qs", Mod); ("opnd_semantic_CAL_DOUBLE_Q_ax", In); ("opnd_semantic_CAL_DOUBLE_Q_ay", In)]
    [(STATE_CPENABLE, In)];
  mkIclass "EE_VRELU_S8"
    [("opnd_semantic_CAL_DOUBLE_Q_qs", Mod); ("opnd_semantic_CAL_DOUBLE_Q_ax", In); ("opnd_semantic_CAL_DOUBLE_Q_ay", In)]
    [(STATE_CPENABLE, In)];
  mkIclass "EE_VPRELU_S16"
    [("opnd_semantic_CAL_DOUBLE_Q_qz", Out); ("opnd_semantic_CAL_DOUBLE_Q_qx", In); ("opnd_semantic_CAL_DOUBLE_Q_qy", In); ("opnd_semantic_CAL_DOUBLE_Q_ay", In)]
    [(STATE_CPENABLE, In)];
  mkIclass "EE_VPRELU_S8"
    [("opnd_semantic_CAL_DOUBLE_Q_qz", Out); ("opnd_semantic_CAL_DOUBLE_Q_qx", In); ("opnd_semantic_CAL_DOUBLE_Q_qy", In); ("opnd_semantic_CAL_DOUBLE_Q_ay", In)]
    [(STATE_CPENABLE, In)];
  mkIclass "EE_VMAX_S16_LD_INCP"
    [("opnd_semantic_CAL_DOUBLE_Q_qu", Out); ("opnd_semantic_CAL_DOUBLE_Q_as", Mod); ("opnd_semantic_CAL_DOUBLE_Q_qa", Out); ("opnd_semantic_CAL_DOUBLE_Q_qx", In); ("opnd_semantic_CAL_DOUBLE_Q_qy", In)]
    [(STATE_CPENABLE, In)];
  mkIclass "EE_VMAX_S16_ST_INCP"
    [("opnd_semantic_CAL_DOUBLE_Q_qv", In); ("opnd_semantic_CAL_DOUBLE_Q_as", Mod); ("opnd_semantic_CAL_DOUBLE_Q_qa", Out); ("opnd_semantic_CAL_DOUBLE_Q_qx", In); ("opnd_semantic_CAL_DOUBLE_Q_qy", In)]
    [(STATE_CPENABLE, In)];
  mkIclass "EE_VMAX_S16"
    [("opnd_semantic_CAL_DOUBLE_Q_qa", Out); ("opnd_semantic_CAL_DOUBLE_Q_qx", In); ("opnd_semantic_CAL_DOUBLE_Q_qy", In)]
    [(STATE_CPENABLE, In)];
  mkIclass "EE_VMAX_S32_LD_INCP"
    [("opnd_semantic_CAL_DOUBLE_Q_qu", Out); ("opnd_semantic_CAL_DOUBLE_Q_as", Mod); ("opnd_semantic_CAL_DOUBLE_Q_qa", Out); ("opnd_semantic_CAL_DOUBLE_Q_qx", In); ("opnd_semantic_CAL_DOUBLE_Q_qy", In)]
    [(STATE_CPENABLE, In)];
  mkIclass "EE_VMAX_S32_ST_INCP"
    [("opnd_semantic_CAL_DOUBLE_Q_qv", In); ("opnd_semantic_CAL_DOUBLE_Q_as", Mod); ("opnd_semantic_CAL_DOUBLE_Q_qa", Out); ("opnd_semantic_CAL_DOUBLE_Q_qx", In); ("opnd_semantic_CAL_DOUBLE_Q_qy", In)]
    [(STATE_CPENABLE, In)];
  mkIclass "EE_VMAX_S32"
    [("opnd_semantic_CAL_DOUBLE_Q_qa", Out); ("opnd_semantic_CAL_DOUBLE_Q_qx", In); ("opnd_semantic_CAL_DOUBLE_Q_qy", In)]
    [(STATE_CPENABLE, In)];
  mkIclass "EE_VMAX_S8_LD_INCP"
    [("opnd_semantic_CAL_DOUBLE_Q_qu", Out); ("opnd_semantic_CAL_DOUBLE_Q_as", Mod); ("opnd_semantic_CAL_DOUBLE_Q_qa", Out); ("opnd_semantic_CAL_DOUBLE_Q_qx", In); ("opnd_semantic_CAL_DOUBLE_Q_qy", In)]
    [(STATE_CPENABLE, In)]].

Definition tie_iclasses_15 : list iclass := [
  mkIclass "EE_VMAX_S8_ST_INCP"
    [("opnd_semantic_CAL_DOUBLE_Q_qv", In); ("opnd_semantic_CAL_DOUBLE_Q_as", Mod); ("opnd_semantic_CAL_DOUBLE_Q_qa", Out); ("opnd_semantic_CAL_DOUBLE_Q_qx", In); ("opnd_semantic_CAL_DOUBLE_Q_qy", In)]
    [(STATE_CPENABLE, In)];
  mkIclass "EE_VMAX_S8"
    [("opnd_semantic_CAL_DOUBLE_Q_qa", Out); ("opnd_semantic_CAL_DOUBLE_Q_qx", In); ("opnd_semantic_CAL_DOUBLE_Q_qy", In)]
    [(STATE_CPENABLE, In)];
  mkIclass "EE_VMIN_S16_LD_INCP"
    [("opnd_semantic_CAL_DOUBLE_Q_qu", Out); ("opnd_semantic_CAL_DOUBLE_Q_as", Mod); ("opnd_semantic_CAL_DOUBLE_Q_qa", Out); ("opnd_semantic_CAL_DOUBLE_Q_qx", In); ("opnd_semantic_CAL_DOUBLE_Q_qy", In)]
    [(STATE_CPENABLE, In)];
  mkIclass "EE_VMIN_S16_ST_INCP"
    [("opnd_semantic_CAL_DOUBLE_Q_qv", In); ("opnd_semantic_CAL_DOUBLE_Q_as", Mod); ("opnd_semantic_CAL_DOUBLE_Q_qa", Out); ("opnd_semantic_CAL_DOUBLE_Q_qx", In); ("opnd_semantic_CAL_DOUBLE_Q_qy", In)]
    [(STATE_CPENABLE, In)];
  mkIclass "EE_VMIN_S16"
    [("opnd_semantic_CAL_DOUBLE_Q_qa", Out); ("opnd_semantic_CAL_DOUBLE_Q_qx", In); ("opnd_semantic_CAL_DOUBLE_Q_qy", In)]
    [(STATE_CPENABLE, In)];
  mkIclass "EE_VMIN_S32_LD_INCP"
    [("opnd_semantic_CAL_DOUBLE_Q_qu", Out); ("opnd_semantic_CAL_DOUBLE_Q_as", Mod); ("opnd_semantic_CAL_DOUBLE_Q_qa", Out); ("opnd_semantic_CAL_DOUBLE_Q_qx", In); ("opnd_semantic_CAL_DOUBLE_Q_qy", In)]
    [(STATE_CPENABLE, In)];
  mkIclass "EE_VMIN_S32_ST_INCP"
    [("opnd_semantic_CAL_DOUBLE_Q_qv", In); ("opnd_semantic_CAL_DOUBLE_Q_as", Mod); ("opnd_semantic_CAL_DOUBLE_Q_qa", Out); ("opnd_semantic_CAL_DOUBLE_Q_qx", In); ("opnd_semantic_CAL_DOUBLE_Q_qy", In)]
    [(STATE_CPENABLE, In)];
  mkIclass "EE_VMIN_S32"
    [("opnd_semantic_CAL_DOUBLE_Q_qa", Out); ("opnd_semantic_CAL_DOUBLE_Q_qx", In); ("opnd_semantic_CAL_DOUBLE_Q_qy", In)]
    [(STATE_CPENABLE, In)];
  mkIclass "EE_VMIN_S8_LD_INCP"
    [("opnd_semantic_CAL_DOUBLE_Q_qu", Out); ("opnd_semantic_CAL_DOUBLE_Q_as", Mod); ("opnd_semantic_CAL_DOUBLE_Q_qa", Out); ("opnd_semantic_CAL_DOUBLE_Q_qx", In); ("opnd_semantic_CAL_DOUBLE_Q_qy", In)]
    [(STATE_CPENABLE, In)];
  mkIclass "EE_VMIN_S8_ST_INCP"
    [("opnd_semantic_CAL_DOUBLE_Q_qv", In); ("opnd_semantic_CAL_DOUBLE_Q_as", Mod); ("opnd_semantic_CAL_DOUBLE_Q_qa", Out); ("opnd_semantic_CAL_DOUBLE_Q_qx", In); ("opnd_semantic_CAL_DOUBLE_Q_qy", In)]
    [(STATE_CPENABLE, In)];
  mkIclass "EE_VMIN_S8"
    [("opnd_semantic_CAL_DOUBLE_Q_qa", Out); ("opnd_semantic_CAL_DOUBLE_Q_qx", In); ("opnd_semantic_CAL_DOUBLE_Q_qy", In)]
    [(STATE_CPENABLE, In)];
  mkIclass "EE_VCMP_EQ_S16"
    [("opnd_semantic_CAL_DOUBLE_Q_qa", Out); ("opnd_semantic_CAL_DOUBLE_Q_qx", In); ("opnd_semantic_CAL_DOUBLE_Q_qy", In)]
    [(STATE_CPENABLE, In)];
  mkIclass "EE_VCMP_EQ_S32"
    [("opnd_semantic_CAL_DOUBLE_Q_qa", Out); ("opnd_semantic_CAL_DOUBLE_Q_qx", In); ("opnd_semantic_CAL_DOUBLE_Q_qy", In)]
    [(STATE_CPENABLE, In)]].

Definition tie_iclasses_16 : list iclass := [
  mkIclass "EE_VCMP_EQ_S8"
    [("opnd_semantic_CAL_DOUBLE_Q_qa", Out); ("opnd_semantic_CAL_DOUBLE_Q_qx", In); ("opnd_semantic_CAL_DOUBLE_Q_qy", In)]
    [(STATE_CPENABLE, In)];
  mkIclass "EE_VCMP_GT_S16"
    [("opnd_semantic_CAL_DOUBLE_Q_qa", Out); ("opnd_semantic_CAL_DOUBLE_Q_qx", In); ("opnd_semantic_CAL_DOUBLE_Q_qy", In)]
    [(STATE_CPENABLE, In)];
  mkIclass "EE_VCMP_GT_S32"
    [("opnd_semantic_CAL_DOUBLE_Q_qa", Out); ("opnd_semantic_CAL_DOUBLE_Q_qx", In); ("opnd_semantic_CAL_DOUBLE_Q_qy", In)]
    [(STATE_CPENABLE, In)];
  mkIclass "EE_VCMP_GT_S8"
    [("opnd_semantic_CAL_DOUBLE_Q_qa", Out); ("opnd_semantic_CAL_DOUBLE_Q_qx", In); ("opnd_semantic_CAL_DOUBLE_Q_qy", In)]
    [(STATE_CPENABLE, In)];
  mkIclass "EE_VCMP_LT_S16"
    [("opnd_semantic_CAL_DOUBLE_Q_qa", Out); ("opnd_semantic_CAL_DOUBLE_Q_qx", In); ("opnd_semantic_CAL_DOUBLE_Q_qy", In)]
    [(STATE_CPENABLE, In)];
  mkIclass "EE_VCMP_LT_S32"
    [("opnd_semantic_CAL_DOUBLE_Q_qa", Out); ("opnd_semantic_CAL_DOUBLE_Q_qx", In); ("opnd_semantic_CAL_DOUBLE_Q_qy", In)]
    [(STATE_CPENABLE, In)];
  mkIclass "EE_VCMP_LT_S8"
    [("opnd_semantic_CAL_DOUBLE_Q_qa", Out); ("opnd_semantic_CAL_DOUBLE_Q_qx", In); ("opnd_semantic_CAL_DOUBLE_Q_qy", In)]
    [(STATE_CPENABLE, In)];
  mkIclass "EE_ANDQ"
    [("opnd_semantic_VLOGIC_qa", Out); ("opnd_semantic_VLOGIC_qx", In); ("opnd_semantic_VLOGIC_qy", In)]
    [(STATE_CPENABLE, In)];
  mkIclass "EE_NOTQ"
    [("opnd_semantic_VLOGIC_qa", Out); ("opnd_semantic_VLOGIC_qx", In)]
    [(STATE_CPENABLE, In)];
  mkIclass "EE_ORQ"
    [("opnd_semantic_VLOGIC_qa", Out); ("opnd_semantic_VLOGIC_qx", In); ("opnd_semantic_VLOGIC_qy", In)]
    [(STATE_CPENABLE, In)];
  mkIclass "EE_XORQ"
    [("opnd_semantic_VLOGIC_qa", Out); ("opnd_semantic_VLOGIC_qx", In); ("opnd_semantic_VLOGIC_qy", In)]
    [(STATE_CPENABLE, In)];
  mkIclass "EE_SLCI_2Q"
    [("opnd_semantic_SHFQ_qs1", Mod); ("opnd_semantic_SHFQ_qs0", Mod); ("opnd_semantic_SHFQ_sar16", In)]
    [(STATE_CPENABLE, In)];
  mkIclass "EE_SLCXXP_2Q"
    [("opnd_semantic_SHFQ_qs1", Mod); ("opnd_semantic_SHFQ_qs0", Mod); ("opnd_semantic_SHFQ_as", Mod); ("opnd_semantic_SHFQ_ad", In)]
    [(STATE_CPENABLE, In)];
  mkIclass "EE_SRCI_2Q"
    [("opnd_semantic_SHFQ_qs1", Mod); ("opnd_semantic_SHFQ_qs0", Mod); ("opnd_semantic_SHFQ_sar16", In)]
    [(STATE_CPENABLE, In)];
  mkIclass "EE_SRCQ_128_ST_INCP"
    [("opnd_semantic_SHFQ_qs0", In); ("opnd_semantic_SHFQ_qs1", In); ("opnd_semantic_SHFQ_as", Mod)]
    [(STATE_SAR_BYTE, In); (STATE_CPENABLE, In)]].

Definition tie_iclasses_17 : list iclass := [
  mkIclass "EE_SRC_Q_LD_IP"
    [("opnd_semantic_SHFQ_qu", Out); ("opnd_semantic_SHFQ_as", Mod); ("opnd_semantic_SHFQ_imm16", In); ("opnd_semantic_SHFQ_qs0", Mod); ("opnd_semantic_SHFQ_qs1", In)]
    [(STATE_SAR_BYTE, In); (STATE_CPENABLE, In)];
  mkIclass "EE_SRC_Q_LD_XP"
    [("opnd_semantic_SHFQ_qu", Out); ("opnd_semantic_SHFQ_as", Mod); ("opnd_semantic_SHFQ_ad", In); ("opnd_semantic_SHFQ_qs0", Mod); ("opnd_semantic_SHFQ_qs1", In)]
    [(STATE_SAR_BYTE, In); (STATE_CPENABLE, In)];
  mkIclass "EE_SRC_Q_QUP"
    [("opnd_semantic_SHFQ_qa", Out); ("opnd_semantic_SHFQ_qs0", Mod); ("opnd_semantic_SHFQ_qs1", In)]
    [(STATE_SAR_BYTE, In); (STATE_CPENABLE, In)];
  mkIclass "EE_SRC_Q"
    [("opnd_semantic_SHFQ_qa", Out); ("opnd_semantic_SHFQ_qs0", In); ("opnd_semantic_SHFQ_qs1", In)]
    [(STATE_SAR_BYTE, In); (STATE_CPENABLE, In)];
  mkIclass "EE_SRCXXP_2Q"
    [("opnd_semantic_SHFQ_qs1", Mod); ("opnd_semantic_SHFQ_qs0", Mod); ("opnd_semantic_SHFQ_as", Mod); ("opnd_semantic_SHFQ_ad", In)]
    [(STATE_CPENABLE, In)];
  mkIclass "EE_VSL_32"
    [("opnd_semantic_SHFQ_qa", Out); ("opnd_semantic_SHFQ_qs", In)]
    [(STATE_SAR, In); (STATE_CPENABLE, In)];
  mkIclass "EE_VSR_32"
    [("opnd_semantic_SHFQ_qa", Out); ("opnd_semantic_SHFQ_qs", In)]
    [(STATE_SAR, In); (STATE_CPENABLE, In)];
  mkIclass "EE_FFT_R2BF_S16_ST_INCP"
    [("opnd_semantic_FFT_RxBF_qa0", Out); ("opnd_semantic_FFT_RxBF_qx", In); ("opnd_semantic_FFT_RxBF_qy", In); ("opnd_semantic_FFT_RxBF_as", Mod); ("opnd_semantic_FFT_RxBF_sar4", In)]
    [(STATE_CPENABLE, In)];
  mkIclass "EE_FFT_R2BF_S16"
    [("opnd_semantic_FFT_RxBF_qa0", Out); ("opnd_semantic_FFT_RxBF_qa1", Out); ("opnd_semantic_FFT_RxBF_qx", In); ("opnd_semantic_FFT_RxBF_qy", In); ("opnd_semantic_FFT_RxBF_sel2", In)]
    [(STATE_CPENABLE, In)];
  mkIclass "EE_FFT_CMUL_S16_LD_XP"
    [("opnd_EE_FFT_CMUL_S16_LD_XP_qu", Out); ("opnd_EE_FFT_CMUL_S16_LD_XP_as", Mod); ("opnd_EE_FFT_CMUL_S16_LD_XP_ad", In); ("opnd_EE_FFT_CMUL_S16_LD_XP_qz", Mod); ("opnd_EE_FFT_CMUL_S16_LD_XP_qx", In); ("opnd_EE_FFT_CMUL_S16_LD_XP_qy", In); ("opnd_EE_FFT_CMUL_S16_LD_XP_sel8", In)]
    [(STATE_SAR, In); (STATE_CPENABLE, In)];
  mkIclass "EE_FFT_CMUL_S16_ST_XP"
    [("opnd_EE_FFT_CMUL_S16_ST_XP_qx", In); ("opnd_EE_FFT_CMUL_S16_ST_XP_qy", In); ("opnd_EE_FFT_CMUL_S16_ST_XP_qv", In); ("opnd_EE_FFT_CMUL_S16_ST_XP_as", Mod); ("opnd_EE_FFT_CMUL_S16_ST_XP_ad", In); ("opnd_EE_FFT_CMUL_S16_ST_XP_sel8", In); ("opnd_EE_FFT_CMUL_S16_ST_XP_upd4", In); ("opnd_EE_FFT_CMUL_S16_ST_XP_sar4", In)]
    [(STATE_SAR, In); (STATE_CPENABLE, In)];
  mkIclass "EE_BITREV"
    [("opnd_EE_BITREV_qa", Out); ("opnd_EE_BITREV_ax", Mod)]
    [(STATE_FFT_BIT_WIDTH, In); (STATE_CPENABLE, In)]].

Definition tie_iclasses_18 : list iclass := [
  mkIclass "EE_FFT_AMS_S16_LD_INCP"
    [("opnd_EE_FFT_AMS_S16_LD_INCP_qu", Out); ("opnd_EE_FFT_AMS_S16_LD_INCP_as", Mod); ("opnd_EE_FFT_AMS_S16_LD_INCP_qz", Mod); ("opnd_EE_FFT_AMS_S16_LD_INCP_qz1", Mod); ("opnd_EE_FFT_AMS_S16_LD_INCP_qx", In); ("opnd_EE_FFT_AMS_S16_LD_INCP_qy", In); ("opnd_EE_FFT_AMS_S16_LD_INCP_qm", In); ("opnd_EE_FFT_AMS_S16_LD_INCP_sel2", In)]
    [(STATE_SAR, In); (STATE_CPENABLE, In)];
  mkIclass "EE_FFT_AMS_S16_LD_INCP_UAUP"
    [("opnd_EE_FFT_AMS_S16_LD_INCP_UAUP_qu", Out); ("opnd_EE_FFT_AMS_S16_LD_INCP_UAUP_as", Mod); ("opnd_EE_FFT_AMS_S16_LD_INCP_UAUP_qz", Mod); ("opnd_EE_FFT_AMS_S16_LD_INCP_UAUP_qz1", Mod); ("opnd_EE_FFT_AMS_S16_LD_INCP_UAUP_qx", In); ("opnd_EE_FFT_AMS_S16_LD_INCP_UAUP_qy", In); ("opnd_EE_FFT_AMS_S16_LD_INCP_UAUP_qm", In); ("opnd_EE_FFT_AMS_S16_LD_INCP_UAUP_sel2", In)]
    [(STATE_SAR, In); (STATE_SAR_BYTE, In); (STATE_UA_STATE, Mod); (STATE_CPENABLE, In)];
  mkIclass "EE_FFT_AMS_S16_LD_R32_DECP"
    [("opnd_EE_FFT_AMS_S16_LD_R32_DECP_qu", Out); ("opnd_EE_FFT_AMS_S16_LD_R32_DECP_as", Mod); ("opnd_EE_FFT_AMS_S16_LD_R32_DECP_qz", Mod); ("opnd_EE_FFT_AMS_S16_LD_R32_DECP_qz1", Mod); ("opnd_EE_FFT_AMS_S16_LD_R32_DECP_qx", In); ("opnd_EE_FFT_AMS_S16_LD_R32_DECP_qy", In); ("opnd_EE_FFT_AMS_S16_LD_R32_DECP_qm", In); ("opnd_EE_FFT_AMS_S16_LD_R32_DECP_sel2", In)]
    [(STATE_SAR, In); (STATE_CPENABLE, In)];
  mkIclass "EE_FFT_AMS_S16_ST_INCP"
    [("opnd_EE_FFT_AMS_S16_ST_INCP_qv", In); ("opnd_EE_FFT_AMS_S16_ST_INCP_qz1", Mod); ("opnd_EE_FFT_AMS_S16_ST_INCP_as0", Mod); ("opnd_EE_FFT_AMS_S16_ST_INCP_as", Mod); ("opnd_EE_FFT_AMS_S16_ST_INCP_qx", In); ("opnd_EE_FFT_AMS_S16_ST_INCP_qy", In); ("opnd_EE_FFT_AMS_S16_ST_INCP_qm", In); ("opnd_EE_FFT_AMS_S16_ST_INCP_sel2", In)]
    [(STATE_SAR, In); (STATE_CPENABLE, In)];
  mkIclass "EE_FFT_VST_R32_DECP"
    [("opnd_EE_FFT_VST_R32_DECP_qv", In); ("opnd_EE_FFT_VST_R32_DECP_as", Mod); ("opnd_EE_FFT_VST_R32_DECP_sar2", In)]
    [(STATE_CPENABLE, In)];
  mkIclass "rur_accx_0"
    [("arr", Out)]
    [(STATE_ACCX, In); (STATE_CPENABLE, In)];
  mkIclass "wur_accx_0"
    [("art", In)]
    [(STATE_ACCX, Mod); (STATE_CPENABLE, In)];
  mkIclass "rur_accx_1"
    [("arr", Out)]
    [(STATE_ACCX, In); (STATE_CPENABLE, In)];
  mkIclass "wur_accx_1"
    [("art", In)]
    [(STATE_ACCX, Mod); (STATE_CPENABLE, In)];
  mkIclass "rur_qacc_h_0"
    [("arr", Out)]
    [(STATE_QACC_H, In); (STATE_CPENABLE, In)];
  mkIclass "wur_qacc_h_0"
    [("art", In)]
    [(STATE_QACC_H, Mod); (STATE_CPENABLE, In)];
  mkIclass "rur_qacc_h_1"
    [("arr", Out)]
    [(STATE_QACC_H, In); (STATE_CPENABLE, In)];
  mkIclass "wur_qacc_h_1"
    [("art", In)]
    [(STATE_QACC_H, Mod); (STATE_CPENABLE, In)]].

Definition tie_iclasses_19 : list iclass := [
  mkIclass "rur_qacc_h_2"
    [("arr", Out)]
    [(STATE_QACC_H, In); (STATE_CPENABLE, In)];
  mkIclass "wur_qacc_h_2"
    [("art", In)]
    [(STATE_QACC_H, Mod); (STATE_CPENABLE, In)];
  mkIclass "rur_qacc_h_3"
    [("arr", Out)]
    [(STATE_QACC_H, In); (STATE_CPENABLE, In)];
  mkIclass "wur_qacc_h_3"
    [("art", In)]
    [(STATE_QACC_H, Mod); (STATE_CPENABLE, In)];
  mkIclass "rur_qacc_h_4"
    [("arr", Out)]
    [(STATE_QACC_H, In); (STATE_CPENABLE, In)];
  mkIclass "wur_qacc_h_4"
    [("art", In)]
    [(STATE_QACC_H, Mod); (STATE_CPENABLE, In)];
  mkIclass "rur_qacc_l_0"
    [("arr", Out)]
    [(STATE_QACC_L, In); (STATE_CPENABLE, In)];
  mkIclass "wur_qacc_l_0"
    [("art", In)]
    [(STATE_QACC_L, Mod); (STATE_CPENABLE, In)];
  mkIclass "rur_qacc_l_1"
    [("arr", Out)]
    [(STATE_QACC_L, In); (STATE_CPENABLE, In)];
  mkIclass "wur_qacc_l_1"
    [("art", In)]
    [(STATE_QACC_L, Mod); (STATE_CPENABLE, In)];
  mkIclass "rur_qacc_l_2"
    [("arr", Out)]
    [(STATE_QACC_L, In); (STATE_CPENABLE, In)];
  mkIclass "wur_qacc_l_2"
    [("art", In)]
    [(STATE_QACC_L, Mod); (STATE_CPENABLE, In)];
  mkIclass "rur_qacc_l_3"
    [("arr", Out)]
    [(STATE_QACC_L, In); (STATE_CPENABLE, In)];
  mkIclass "wur_qacc_l_3"
    [("art", In)]
    [(STATE_QACC_L, Mod); (STATE_CPENABLE, In)];
  mkIclass "rur_qacc_l_4"
    [("arr", Out)]
    [(STATE_QACC_L, In); (STATE_CPENABLE, In)];
  mkIclass "wur_qacc_l_4"
    [("art", In)]
    [(STATE_QACC_L, Mod); (STATE_CPENABLE, In)]].

Definition tie_iclasses_20 : list iclass := [
  mkIclass "rur_gpio_out"
    [("arr", Out)]
    [(STATE_GPIO_OUT, In)];
  mkIclass "wur_gpio_out"
    [("art", In)]
    [(STATE_GPIO_OUT, Out)];
  mkIclass "rur_sar_byte"
    [("arr", Out)]
    [(STATE_SAR_BYTE, In); (STATE_CPENABLE, In)];
  mkIclass "wur_sar_byte"
    [("art", In)]
    [(STATE_SAR_BYTE, Out); (STATE_CPENABLE, In)];
  mkIclass "rur_fft_bit_width"
    [("arr", Out)]
    [(STATE_FFT_BIT_WIDTH, In); (STATE_CPENABLE, In)];
  mkIclass "wur_fft_bit_width"
    [("art", In)]
    [(STATE_FFT_BIT_WIDTH, Out); (STATE_CPENABLE, In)];
  mkIclass "rur_ua_state_0"
    [("arr", Out)]
    [(STATE_UA_STATE, In); (STATE_CPENABLE, In)];
  mkIclass "wur_ua_state_0"
    [("art", In)]
    [(STATE_UA_STATE, Mod); (STATE_CPENABLE, In)];
  mkIclass "rur_ua_state_1"
    [("arr", Out)]
    [(STATE_UA_STATE, In); (STATE_CPENABLE, In)];
  mkIclass "wur_ua_state_1"
    [("art", In)]
    [(STATE_UA_STATE, Mod); (STATE_CPENABLE, In)];
  mkIclass "rur_ua_state_2"
    [("arr", Out)]
    [(STATE_UA_STATE, In); (STATE_CPENABLE, In)];
  mkIclass "wur_ua_state_2"
    [("art", In)]
    [(STATE_UA_STATE, Mod); (STATE_CPENABLE, In)];
  mkIclass "rur_ua_state_3"
    [("arr", Out)]
    [(STATE_UA_STATE, In); (STATE_CPENABLE, In)];
  mkIclass "wur_ua_state_3"
    [("art", In)]
    [(STATE_UA_STATE, Mod); (STATE_CPENABLE, In)]].

Definition tie_iclasses : list iclass :=
  tie_iclasses_1 ++ tie_iclasses_2 ++ tie_iclasses_3 ++ tie_iclasses_4 ++ tie_iclasses_5 ++ tie_iclasses_6 ++ tie_iclasses_7 ++ tie_iclasses_8 ++ tie_iclasses_9 ++ tie_iclasses_10 ++ tie_iclasses_11 ++ tie_iclasses_12 ++ tie_iclasses_13 ++ tie_iclasses_14 ++ tie_iclasses_15 ++ tie_iclasses_16 ++ tie_iclasses_17 ++ tie_iclasses_18 ++ tie_iclasses_19 ++ tie_iclasses_20.

(** Name and instruction class of the opcodes. *)
Definition tie_opcodes_1 : list (string * string) := [
  ("st.qr", "st_QR");
  ("ld.qr", "ld_QR");
  ("mv.qr", "mv_QR");
  ("ee.wr_mask_gpio_out", "EE_WR_MASK_GPIO_OUT");
  ("ee.set_bit_gpio_out", "EE_SET_BIT_GPIO_OUT");
  ("ee.clr_bit_gpio_out", "EE_CLR_BIT_GPIO_OUT");
  ("ee.get_gpio_in", "EE_GET_GPIO_IN");
  ("ee.vld.128.ip", "EE_VLD_128_IP");
  ("ee.vld.128.xp", "EE_VLD_128_XP");
  ("ee.vld.h.64.ip", "EE_VLD_H_64_IP");
  ("ee.vld.h.64.xp", "EE_VLD_H_64_XP");
  ("ee.vld.l.64.ip", "EE_VLD_L_64_IP");
  ("ee.vld.l.64.xp", "EE_VLD_L_64_XP");
  ("ee.vldbc.16.ip", "EE_VLDBC_16_IP");
  ("ee.vldbc.16", "EE_VLDBC_16");
  ("ee.vldbc.16.xp", "EE_VLDBC_16_XP");
  ("ee.vldbc.32.ip", "EE_VLDBC_32_IP");
  ("ee.vldbc.32", "EE_VLDBC_32");
  ("ee.vldbc.32.xp", "EE_VLDBC_32_XP");
  ("ee.vldbc.8.ip", "EE_VLDBC_8_IP");
  ("ee.vldbc.8", "EE_VLDBC_8");
  ("ee.vldbc.8.xp", "EE_VLDBC_8_XP");
  ("ee.vldhbc.16.incp", "EE_VLDHBC_16_INCP");
  ("ee.ldf.128.ip", "EE_LDF_128_IP");
  ("ee.ldf.128.xp", "EE_LDF_128_XP");
  ("ee.ldf.64.ip", "EE_LDF_64_IP");
  ("ee.ldf.64.xp", "EE_LDF_64_XP");
  ("ee.ld.128.usar.ip", "EE_LD_128_USAR_IP");
  ("ee.ld.128.usar.xp", "EE_LD_128_USAR_XP");
  ("ee.ldqa.s16.128.ip", "EE_LDQA_S16_128_IP");
  ("ee.ldqa.s16.128.xp", "EE_LDQA_S16_128_XP");
  ("ee.ldqa.s8.128.ip", "EE_LDQA_S8_128_IP");
  ("ee.ldqa.s8.128.xp", "EE_LDQA_S8_128_XP");
  ("ee.ldqa.u16.128.ip", "EE_LDQA_U16_128_IP");
  ("ee.ldqa.u16.128.xp", "EE_LDQA_U16_128_XP");
  ("ee.ldqa.u8.128.ip", "EE_LDQA_U8_128_IP");
  ("ee.ldqa.u8.128.xp", "EE_LDQA_U8_128_XP");
  ("ee.ld.qacc_h.h.32.ip", "EE_LD_QACC_H_H_32_IP");
  ("ee.ld.qacc_h.l.128.ip", "EE_LD_QACC_H_L_128_IP");
  ("ee.ld.qacc_l.h.32.ip", "EE_LD_QACC_L_H_32_IP");
  ("ee.ld.qacc_l.l.128.ip", "EE_LD_QACC_L_L_128_IP");
  ("ee.ld.accx.ip", "EE_LD_ACCX_IP");
  ("ee.ldxq.32", "EE_LDXQ_32");
  ("ee.ld.ua_state.ip", "EE_LD_UA_STATE_IP");
  ("ee.st.ua_state.ip", "EE_ST_UA_STATE_IP");
  ("ee.vst.128.ip", "EE_VST_128_IP");
  ("ee.vst.128.xp", "EE_VST_128_XP");
  ("ee.vst.h.64.ip", "EE_VST_H_64_IP");
  ("ee.vst.h.64.xp", "EE_VST_H_64_XP");
  ("ee.vst.l.64.ip", "EE_VST_L_64_IP")].

Definition tie_opcodes_2 : list (string * string) := [
  ("ee.vst.l.64.xp", "EE_VST_L_64_XP");
  ("ee.stf.128.ip", "EE_STF_128_IP");
  ("ee.stf.128.xp", "EE_STF_128_XP");
  ("ee.stf.64.ip", "EE_STF_64_IP");
  ("ee.stf.64.xp", "EE_STF_64_XP");
  ("ee.st.qacc_h.h.32.ip", "EE_ST_QACC_H_H_32_IP");
  ("ee.st.qacc_h.l.128.ip", "EE_ST_QACC_H_L_128_IP");
  ("ee.st.qacc_l.h.32.ip", "EE_ST_QACC_L_H_32_IP");
  ("ee.st.qacc_l.l.128.ip", "EE_ST_QACC_L_L_128_IP");
  ("ee.st.accx.ip", "EE_ST_ACCX_IP");
  ("ee.stxq.32", "EE_STXQ_32");
  ("ee.movi.32.a", "EE_MOVI_32_A");
  ("ee.movi.32.q", "EE_MOVI_32_Q");
  ("ee.vzip.16", "EE_VZIP_16");
  ("ee.vzip.32", "EE_VZIP_32");
  ("ee.vzip.8", "EE_VZIP_8");
  ("ee.vunzip.16", "EE_VUNZIP_16");
  ("ee.vunzip.32", "EE_VUNZIP_32");
  ("ee.vunzip.8", "EE_VUNZIP_8");
  ("ee.zero.accx", "EE_ZERO_ACCX");
  ("ee.zero.qacc", "EE_ZERO_QACC");
  ("ee.zero.q", "EE_ZERO_Q");
  ("ee.mov.s16.qacc", "EE_MOV_S16_QACC");
  ("ee.mov.s8.qacc", "EE_MOV_S8_QACC");
  ("ee.mov.u16.qacc", "EE_MOV_U16_QACC");
  ("ee.mov.u8.qacc", "EE_MOV_U8_QACC");
  ("ee.vadds.s16.ld.incp", "EE_VADDS_S16_LD_INCP");
  ("ee.vadds.s16.st.incp", "EE_VADDS_S16_ST_INCP");
  ("ee.vadds.s16", "EE_VADDS_S16");
  ("ee.vadds.s32.ld.incp", "EE_VADDS_S32_LD_INCP");
  ("ee.vadds.s32.st.incp", "EE_VADDS_S32_ST_INCP");
  ("ee.vadds.s32", "EE_VADDS_S32");
  ("ee.vadds.s8.ld.incp", "EE_VADDS_S8_LD_INCP");
  ("ee.vadds.s8.st.incp", "EE_VADDS_S8_ST_INCP");
  ("ee.vadds.s8", "EE_VADDS_S8");
  ("ee.vsubs.s16.ld.incp", "EE_VSUBS_S16_LD_INCP");
  ("ee.vsubs.s16.st.incp", "EE_VSUBS_S16_ST_INCP");
  ("ee.vsubs.s16", "EE_VSUBS_S16");
  ("ee.vsubs.s32.ld.incp", "EE_VSUBS_S32_LD_INCP");
  ("ee.vsubs.s32.st.incp", "EE_VSUBS_S32_ST_INCP");
  ("ee.vsubs.s32", "EE_VSUBS_S32");
  ("ee.vsubs.s8.ld.incp", "EE_VSUBS_S8_LD_INCP");
  ("ee.vsubs.s8.st.incp", "EE_VSUBS_S8_ST_INCP");
  ("ee.vsubs.s8", "EE_VSUBS_S8");
  ("ee.vmul.s16.ld.incp", "EE_VMUL_S16_LD_INCP");
  ("ee.vmul.s16.st.incp", "EE_VMUL_S16_ST_INCP");
  ("ee.vmul.s16", "EE_VMUL_S16");
  ("ee.vmul.s8.ld.incp", "EE_VMUL_S8_LD_INCP");
  ("ee.vmul.s8.st.incp", "EE_VMUL_S8_ST_INCP");
  ("ee.vmul.s8", "EE_VMUL_S8")].

Definition tie_opcodes_3 : list (string * string) := [
  ("ee.vmul.u16.ld.incp", "EE_VMUL_U16_LD_INCP");
  ("ee.vmul.u16.st.incp", "EE_VMUL_U16_ST_INCP");
  ("ee.vmul.u16", "EE_VMUL_U16");
  ("ee.vmul.u8.ld.incp", "EE_VMUL_U8_LD_INCP");
  ("ee.vmul.u8.st.incp", "EE_VMUL_U8_ST_INCP");
  ("ee.vmul.u8", "EE_VMUL_U8");
  ("ee.cmul.s16.ld.incp", "EE_CMUL_S16_LD_INCP");
  ("ee.cmul.s16.st.incp", "EE_CMUL_S16_ST_INCP");
  ("ee.cmul.s16", "EE_CMUL_S16");
  ("ee.vmulas.s16.accx.ld.ip.qup", "EE_VMULAS_S16_ACCX_LD_IP_QUP");
  ("ee.vmulas.s16.accx.ld.ip", "EE_VMULAS_S16_ACCX_LD_IP");
  ("ee.vmulas.s16.accx.ld.xp.qup", "EE_VMULAS_S16_ACCX_LD_XP_QUP");
  ("ee.vmulas.s16.accx.ld.xp", "EE_VMULAS_S16_ACCX_LD_XP");
  ("ee.vmulas.s16.accx", "EE_VMULAS_S16_ACCX");
  ("ee.vmulas.s8.accx.ld.ip.qup", "EE_VMULAS_S8_ACCX_LD_IP_QUP");
  ("ee.vmulas.s8.accx.ld.ip", "EE_VMULAS_S8_ACCX_LD_IP");
  ("ee.vmulas.s8.accx.ld.xp.qup", "EE_VMULAS_S8_ACCX_LD_XP_QUP");
  ("ee.vmulas.s8.accx.ld.xp", "EE_VMULAS_S8_ACCX_LD_XP");
  ("ee.vmulas.s8.accx", "EE_VMULAS_S8_ACCX");
  ("ee.vmulas.u16.accx.ld.ip.qup", "EE_VMULAS_U16_ACCX_LD_IP_QUP");
  ("ee.vmulas.u16.accx.ld.ip", "EE_VMULAS_U16_ACCX_LD_IP");
  ("ee.vmulas.u16.accx.ld.xp.qup", "EE_VMULAS_U16_ACCX_LD_XP_QUP");
  ("ee.vmulas.u16.accx.ld.xp", "EE_VMULAS_U16_ACCX_LD_XP");
  ("ee.vmulas.u16.accx", "EE_VMULAS_U16_ACCX");
  ("ee.vmulas.u8.accx.ld.ip.qup", "EE_VMULAS_U8_ACCX_LD_IP_QUP");
  ("ee.vmulas.u8.accx.ld.ip", "EE_VMULAS_U8_ACCX_LD_IP");
  ("ee.vmulas.u8.accx.ld.xp.qup", "EE_VMULAS_U8_ACCX_LD_XP_QUP");
  ("ee.vmulas.u8.accx.ld.xp", "EE_VMULAS_U8_ACCX_LD_XP");
  ("ee.vmulas.u8.accx", "EE_VMULAS_U8_ACCX");
  ("ee.vmulas.s16.qacc.ldbc.incp.qup", "EE_VMULAS_S16_QACC_LDBC_INCP_QUP");
  ("ee.vmulas.s16.qacc.ldbc.incp", "EE_VMULAS_S16_QACC_LDBC_INCP");
  ("ee.vmulas.s16.qacc.ld.ip.qup", "EE_VMULAS_S16_QACC_LD_IP_QUP");
  ("ee.vmulas.s16.qacc.ld.ip", "EE_VMULAS_S16_QACC_LD_IP");
  ("ee.vmulas.s16.qacc.ld.xp.qup", "EE_VMULAS_S16_QACC_LD_XP_QUP");
  ("ee.vmulas.s16.qacc.ld.xp", "EE_VMULAS_S16_QACC_LD_XP");
  ("ee.vmulas.s16.qacc", "EE_VMULAS_S16_QACC");
  ("ee.vmulas.s8.qacc.ldbc.incp.qup", "EE_VMULAS_S8_QACC_LDBC_INCP_QUP");
  ("ee.vmulas.s8.qacc.ldbc.incp", "EE_VMULAS_S8_QACC_LDBC_INCP");
  ("ee.vmulas.s8.qacc.ld.ip.qup", "EE_VMULAS_S8_QACC_LD_IP_QUP");
  ("ee.vmulas.s8.qacc.ld.ip", "EE_VMULAS_S8_QACC_LD_IP");
  ("ee.vmulas.s8.qacc.ld.xp.qup", "EE_VMULAS_S8_QACC_LD_XP_QUP");
  ("ee.vmulas.s8.qacc.ld.xp", "EE_VMULAS_S8_QACC_LD_XP");
  ("ee.vmulas.s8.qacc", "EE_VMULAS_S8_QACC");
  ("ee.vmulas.u16.qacc.ldbc.incp.qup", "EE_VMULAS_U16_QACC_LDBC_INCP_QUP");
  ("ee.vmulas.u16.qacc.ldbc.incp", "EE_VMULAS_U16_QACC_LDBC_INCP");
  ("ee.vmulas.u16.qacc.ld.ip.qup", "EE_VMULAS_U16_QACC_LD_IP_QUP");
  ("ee.vmulas.u16.qacc.ld.ip", "EE_VMULAS_U16_QACC_LD_IP");
  ("ee.vmulas.u16.qacc.ld.xp.qup", "EE_VMULAS_U16_QACC_LD_XP_QUP");
  ("ee.vmulas.u16.qacc.ld.xp", "EE_VMULAS_U16_QACC_LD_XP");
  ("ee.vmulas.u16.qacc", "EE_VMULAS_U16_QACC")].

Definition tie_opcodes_4 : list (string * string) := [
  ("ee.vmulas.u8.qacc.ldbc.incp.qup", "EE_VMULAS_U8_QACC_LDBC_INCP_QUP");
  ("ee.vmulas.u8.qacc.ldbc.incp", "EE_VMULAS_U8_QACC_LDBC_INCP");
  ("ee.vmulas.u8.qacc.ld.ip.qup", "EE_VMULAS_U8_QACC_LD_IP_QUP");
  ("ee.vmulas.u8.qacc.ld.ip", "EE_VMULAS_U8_QACC_LD_IP");
  ("ee.vmulas.u8.qacc.ld.xp.qup", "EE_VMULAS_U8_QACC_LD_XP_QUP");
  ("ee.vmulas.u8.qacc.ld.xp", "EE_VMULAS_U8_QACC_LD_XP");
  ("ee.vmulas.u8.qacc", "EE_VMULAS_U8_QACC");
  ("ee.vsmulas.s16.qacc.ld.incp", "EE_VSMULAS_S16_QACC_LD_INCP");
  ("ee.vsmulas.s16.qacc", "EE_VSMULAS_S16_QACC");
  ("ee.vsmulas.s8.qacc.ld.incp", "EE_VSMULAS_S8_QACC_LD_INCP");
  ("ee.vsmulas.s8.qacc", "EE_VSMULAS_S8_QACC");
  ("ee.srcmb.s16.qacc", "EE_SRCMB_S16_QACC");
  ("ee.srcmb.s8.qacc", "EE_SRCMB_S8_QACC");
  ("ee.srs.accx", "EE_SRS_ACCX");
  ("ee.vrelu.s16", "EE_VRELU_S16");
  ("ee.vrelu.s8", "EE_VRELU_S8");
  ("ee.vprelu.s16", "EE_VPRELU_S16");
  ("ee.vprelu.s8", "EE_VPRELU_S8");
  ("ee.vmax.s16.ld.incp", "EE_VMAX_S16_LD_INCP");
  ("ee.vmax.s16.st.incp", "EE_VMAX_S16_ST_INCP");
  ("ee.vmax.s16", "EE_VMAX_S16");
  ("ee.vmax.s32.ld.incp", "EE_VMAX_S32_LD_INCP");
  ("ee.vmax.s32.st.incp", "EE_VMAX_S32_ST_INCP");
  ("ee.vmax.s32", "EE_VMAX_S32");
  ("ee.vmax.s8.ld.incp", "EE_VMAX_S8_LD_INCP");
  ("ee.vmax.s8.st.incp", "EE_VMAX_S8_ST_INCP");
  ("ee.vmax.s8", "EE_VMAX_S8");
  ("ee.vmin.s16.ld.incp", "EE_VMIN_S16_LD_INCP");
  ("ee.vmin.s16.st.incp", "EE_VMIN_S16_ST_INCP");
  ("ee.vmin.s16", "EE_VMIN_S16");
  ("ee.vmin.s32.ld.incp", "EE_VMIN_S32_LD_INCP");
  ("ee.vmin.s32.st.incp", "EE_VMIN_S32_ST_INCP");
  ("ee.vmin.s32", "EE_VMIN_S32");
  ("ee.vmin.s8.ld.incp", "EE_VMIN_S8_LD_INCP");
  ("ee.vmin.s8.st.incp", "EE_VMIN_S8_ST_INCP");
  ("ee.vmin.s8", "EE_VMIN_S8");
  ("ee.vcmp.eq.s16", "EE_VCMP_EQ_S16");
  ("ee.vcmp.eq.s32", "EE_VCMP_EQ_S32");
  ("ee.vcmp.eq.s8", "EE_VCMP_EQ_S8");
  ("ee.vcmp.gt.s16", "EE_VCMP_GT_S16");
  ("ee.vcmp.gt.s32", "EE_VCMP_GT_S32");
  ("ee.vcmp.gt.s8", "EE_VCMP_GT_S8");
  ("ee.vcmp.lt.s16", "EE_VCMP_LT_S16");
  ("ee.vcmp.lt.s32", "EE_VCMP_LT_S32");
  ("ee.vcmp.lt.s8", "EE_VCMP_LT_S8");
  ("ee.andq", "EE_ANDQ");
  ("ee.notq", "EE_NOTQ");
  ("ee.orq", "EE_ORQ");
  ("ee.xorq", "EE_XORQ");
  ("ee.slci.2q", "EE_SLCI_2Q")].

Definition tie_opcodes_5 : list (string * string) := [
  ("ee.slcxxp.2q", "EE_SLCXXP_2Q");
  ("ee.srci.2q", "EE_SRCI_2Q");
  ("ee.srcq.128.st.incp", "EE_SRCQ_128_ST_INCP");
  ("ee.src.q.ld.ip", "EE_SRC_Q_LD_IP");
  ("ee.src.q.ld.xp", "EE_SRC_Q_LD_XP");
  ("ee.src.q.qup", "EE_SRC_Q_QUP");
  ("ee.src.q", "EE_SRC_Q");
  ("ee.srcxxp.2q", "EE_SRCXXP_2Q");
  ("ee.vsl.32", "EE_VSL_32");
  ("ee.vsr.32", "EE_VSR_32");
  ("ee.fft.r2bf.s16.st.incp", "EE_FFT_R2BF_S16_ST_INCP");
  ("ee.fft.r2bf.s16", "EE_FFT_R2BF_S16");
  ("ee.fft.cmul.s16.ld.xp", "EE_FFT_CMUL_S16_LD_XP");
  ("ee.fft.cmul.s16.st.xp", "EE_FFT_CMUL_S16_ST_XP");
  ("ee.bitrev", "EE_BITREV");
  ("ee.fft.ams.s16.ld.incp", "EE_FFT_AMS_S16_LD_INCP");
  ("ee.fft.ams.s16.ld.incp.uaup", "EE_FFT_AMS_S16_LD_INCP_UAUP");
  ("ee.fft.ams.s16.ld.r32.decp", "EE_FFT_AMS_S16_LD_R32_DECP");
  ("ee.fft.ams.s16.st.incp", "EE_FFT_AMS_S16_ST_INCP");
  ("ee.fft.vst.r32.decp", "EE_FFT_VST_R32_DECP");
  ("rur.accx_0", "rur_accx_0");
  ("wur.accx_0", "wur_accx_0");
  ("rur.accx_1", "rur_accx_1");
  ("wur.accx_1", "wur_accx_1");
  ("rur.qacc_h_0", "rur_qacc_h_0");
  ("wur.qacc_h_0", "wur_qacc_h_0");
  ("rur.qacc_h_1", "rur_qacc_h_1");
  ("wur.qacc_h_1", "wur_qacc_h_1");
  ("rur.qacc_h_2", "rur_qacc_h_2");
  ("wur.qacc_h_2", "wur_qacc_h_2");
  ("rur.qacc_h_3", "rur_qacc_h_3");
  ("wur.qacc_h_3", "wur_qacc_h_3");
  ("rur.qacc_h_4", "rur_qacc_h_4");
  ("wur.qacc_h_4", "wur_qacc_h_4");
  ("rur.qacc_l_0", "rur_qacc_l_0");
  ("wur.qacc_l_0", "wur_qacc_l_0");
  ("rur.qacc_l_1", "rur_qacc_l_1");
  ("wur.qacc_l_1", "wur_qacc_l_1");
  ("rur.qacc_l_2", "rur_qacc_l_2");
  ("wur.qacc_l_2", "wur_qacc_l_2");
  ("rur.qacc_l_3", "rur_qacc_l_3");
  ("wur.qacc_l_3", "wur_qacc_l_3");
  ("rur.qacc_l_4", "rur_qacc_l_4");
  ("wur.qacc_l_4", "wur_qacc_l_4");
  ("rur.gpio_out", "rur_gpio_out");
  ("wur.gpio_out", "wur_gpio_out");
  ("rur.sar_byte", "rur_sar_byte");
  ("wur.sar_byte", "wur_sar_byte");
  ("rur.fft_bit_width", "rur_fft_bit_width");
  ("wur.fft_bit_width", "wur_fft_bit_width")].

Definition tie_opcodes_6 : list (string * string) := [
  ("rur.ua_state_0", "rur_ua_state_0");
  ("wur.ua_state_0", "wur_ua_state_0");
  ("rur.ua_state_1", "rur_ua_state_1");
  ("wur.ua_state_1", "wur_ua_state_1");
  ("rur.ua_state_2", "rur_ua_state_2");
  ("wur.ua_state_2", "wur_ua_state_2");
  ("rur.ua_state_3", "rur_ua_state_3");
  ("wur.ua_state_3", "wur_ua_state_3")].

Definition tie_opcodes : list (string * string) :=
  tie_opcodes_1 ++ tie_opcodes_2 ++ tie_opcodes_3 ++ tie_opcodes_4 ++ tie_opcodes_5 ++ tie_opcodes_6.
