(* ===== verification/TieFrame.v ===== *)
(** * What a vector instruction may change

    The footprint of every translator of [TieMem]: the address, vector and
    floating-point registers and the processor states it may write.  The
    footprints are compared with the operands and states the ISA module
    declares as outputs ([TieTable]), and the widths of the vector state are
    shown to be an invariant of all instructions. *)

From Stdlib Require Import String.
From S2P Require Import Prelude Cpu Exception TbFlags Control Arith Lanes Tie TieArith.
From S2P Require Import TieShift TieFft Mmu LoadStore TieMem TieTable.

#[local] Open Scope mach_scope.

Abbreviation tie := CPUXtensaEsp32s3State (only parsing).

#[export] Instance tie_state_eq_dec : EqDecision tie_state.
Proof. solve_decision. Defined.

(** Register numbers and states that may be written. *)
Record effect := mkEff {
  e_ar : list Z;
  e_q : list Z;
  e_fr : list Z;
  e_st : list tie_state
}.

(** ** The vector state *)

Record tie_framed (E : effect) (t t' : tie) : Prop := {
  tf_Q r : r ∉ e_q E -> Q t' r = Q t r;
  tf_QACC_L : STATE_QACC_L ∉ e_st E -> ACCQ t' 0 = ACCQ t 0;
  tf_QACC_H : STATE_QACC_H ∉ e_st E -> ACCQ t' 1 = ACCQ t 1;
  tf_UA_STATE : STATE_UA_STATE ∉ e_st E -> UA_STATE t' = UA_STATE t;
  tf_ACCX : STATE_ACCX ∉ e_st E -> ACCX t' = ACCX t;
  tf_SAR_BYTE : STATE_SAR_BYTE ∉ e_st E -> SAR_BYTE t' = SAR_BYTE t;
  tf_FFT_BIT_WIDTH : STATE_FFT_BIT_WIDTH ∉ e_st E -> fft_width t' = fft_width t;
  tf_GPIO_OUT : STATE_GPIO_OUT ∉ e_st E -> gpio_out t' = gpio_out t
}.

Section helpers.
Context (E : effect) (t0 : tie).
Abbreviation F := (tie_framed E t0) (only parsing).

Lemma tf_refl : tie_framed E t0 t0.
Proof. by split. Qed.

Lemma tf_set_Q r v t : r ∈ e_q E -> F t -> F (set_Q r v t).
Proof.
  intros Hr []. split; try done. intros r' Hr'. cbn [set_Q Q]. rewrite fupd_ne; [auto|].
  by intros ->.
Qed.
Lemma tf_set_Q_lane w r i v t : r ∈ e_q E -> F t -> F (set_Q_lane w r i v t).
Proof. apply tf_set_Q. Qed.
Lemma tf_set_ACCQ_l v t : STATE_QACC_L ∈ e_st E -> F t -> F (set_ACCQ 0 v t).
Proof. intros Hl []. split; try done. Qed.
Lemma tf_set_ACCQ_h v t : STATE_QACC_H ∈ e_st E -> F t -> F (set_ACCQ 1 v t).
Proof. intros Hl []. split; try done. Qed.
Lemma tf_set_UA_STATE v t : STATE_UA_STATE ∈ e_st E -> F t -> F (set_UA_STATE v t).
Proof. intros Hl []. by split. Qed.
Lemma tf_set_ACCX v t : STATE_ACCX ∈ e_st E -> F t -> F (set_ACCX v t).
Proof. intros Hl []. by split. Qed.
Lemma tf_set_SAR_BYTE v t : STATE_SAR_BYTE ∈ e_st E -> F t -> F (set_SAR_BYTE v t).
Proof. intros Hl []. by split. Qed.
Lemma tf_set_fft_width v t : STATE_FFT_BIT_WIDTH ∈ e_st E -> F t -> F (set_fft_width v t).
Proof. intros Hl []. by split. Qed.
Lemma tf_set_gpio_out v t : STATE_GPIO_OUT ∈ e_st E -> F t -> F (set_gpio_out v t).
Proof. intros Hl []. by split. Qed.
Lemma tf_set_temp_asm i v t : F t -> F (set_temp_asm i v t).
Proof. intros []. by split. Qed.

Lemma tf_loop {A} (body : tie -> A -> tie) l t :
  (forall t a, F t -> F (body t a)) -> F t -> F (foldl body t l).
Proof. intros Hb. revert t. induction l as [|a l IH]; intros t Ht; [done|]. cbn. auto. Qed.

Lemma tf_upd_lanes w n r f t : r ∈ e_q E -> F t -> F (upd_lanes w n r f t).
Proof. intros Hr Ht. apply tf_loop; [|done]. intros. by apply tf_set_Q_lane. Qed.

Lemma tf_ofor lo hi (body : Z -> tie -> option tie) t t' :
  (forall i t t', F t -> body i t = Some t' -> F t') -> F t -> ofor lo hi body t = Some t' -> F t'.
Proof.
  intros Hb. unfold ofor. generalize (seqZ lo (hi - lo)) as l. intros l. revert t.
  induction l as [|i l IH]; intros t Ht; cbn; [by intros [= <-]|].
  destruct (body i t) eqn:Hi; [by eauto|]. clear. induction l; cbn; [done|done].
Qed.

Lemma tf_wr_u8 r i v t t' : r ∈ e_q E -> F t -> wr_u8 r i v t = Some t' -> F t'.
Proof. intros Hr Ht. unfold wr_u8. destruct (_ && _); [|done]. intros [= <-]. by apply tf_set_Q_lane. Qed.
End helpers.

Create HintDb tf discriminated.
#[export] Hint Resolve tf_refl tf_set_Q_lane tf_set_Q tf_set_ACCQ_l tf_set_ACCQ_h tf_set_UA_STATE
  tf_set_ACCX tf_set_SAR_BYTE tf_set_fft_width tf_set_gpio_out tf_set_temp_asm tf_upd_lanes : tf.
#[export] Hint Extern 2 (tie_framed _ _ (foldl _ _ _)) =>
  apply tf_loop; [intros; cbv beta zeta|] : tf.

(** Split the branches and loops of a helper. *)
Ltac tf_tac :=
  intros; cbv zeta;
  repeat match goal with
  | |- tie_framed _ _ (if ?b then _ else _) => destruct b eqn:?
  | |- tie_framed _ _ (snd ?e) => match e with context [if ?b then _ else _] => destruct b eqn:? end
  | |- tie_framed _ _ (snd (_, _)) => cbn [snd]
  | |- tie_framed _ _ (set_ACCQ (if ?b then _ else _) _ _) => destruct b eqn:?
  | |- tie_framed _ _ (foldl _ _ _) => apply tf_loop; [intros; cbv beta zeta|]
  end; auto 10 with tf.

(** ** The machine *)

Record framed (E : effect) (m m' : machine) : Prop := {
  fr_ar j : j ∉ (Z.to_nat <$> e_ar E) -> regs (m_env m') !!! j = regs (m_env m) !!! j;
  fr_fr r : r ∉ e_fr E -> m_fr m' r = m_fr m r;
  fr_tie : tie_framed E (m_tie m) (m_tie m')
}.

(** Every state a computation returns or raises an exception in is related to
    the one it started in. *)
Definition keeps {A} (R : machine -> machine -> Prop) (c : machM A) : Prop :=
  forall m m', final (c m) = Some m' -> R m m'.

#[export] Instance framed_preorder E : PreOrder (framed E).
Proof.
  split.
  - intros m. split; [done|done|apply tf_refl].
  - intros m1 m2 m3 [A1 B1 [Q1 L1 H1 U1 X1 S1 W1 G1]] [A2 B2 [Q2 L2 H2 U2 X2 S2 W2 G2]]. split.
    + intros j Hj. rewrite A2, A1; done.
    + intros r Hr. rewrite B2, B1; done.
    + split; intros; first [by rewrite Q2, Q1|by rewrite L2, L1|by rewrite H2, H1|by rewrite U2, U1
        |by rewrite X2, X1|by rewrite S2, S1|by rewrite W2, W1|by rewrite G2, G1].
Qed.

Section rules.
Context (R : machine -> machine -> Prop) `{!PreOrder R}.

Lemma keeps_ret {A} (a : A) : keeps R (ret a).
Proof. by intros m m' [= <-]. Qed.

Lemma keeps_bind {A B} (c : machM A) (k : A -> machM B) :
  keeps R c -> (forall a, keeps R (k a)) -> keeps R (bind c k).
Proof.
  intros Hc Hk m m'. unfold bind. destruct (c m) as [a m1|m1|] eqn:Ec; [| |done].
  - intros Hf. transitivity m1; [apply Hc; by rewrite Ec|by eapply Hk].
  - intros [= <-]. apply Hc. by rewrite Ec.
Qed.

Lemma keeps_gets {A} (f : machine -> A) : keeps R (gets f).
Proof. by intros m m' [= <-]. Qed.
Lemma keeps_try_ask f : keeps R (try_ask f).
Proof. intros m m'. unfold try_ask. destruct (f (m_tie m)); [|done]. by intros [= <-]. Qed.

Lemma keeps_when b c : (b = true -> keeps R c) -> keeps R (when b c).
Proof. destruct b; [auto|]. intros _. apply keeps_ret. Qed.

Lemma keeps_on_env {A} (c : cpuM A) :
  (forall m e, final (c (m_env m)) = Some e -> R m (with_env e m)) -> keeps R (on_env c).
Proof.
  intros Hc m m'. unfold on_env. specialize (Hc m).
  destruct (c (m_env m)); intros [= <-]; by apply Hc.
Qed.
End rules.

(** ** Footprints *)

Abbreviation within E := (keeps (framed E)) (only parsing).

Lemma within_arg_out E r v : r ∈ e_ar E -> within E (arg_out r v).
Proof.
  intros Hr m m' [= <-]. split; [|done|apply tf_refl]. intros j Hj. cbn.
  apply list_lookup_total_insert_ne. intros <-. apply Hj. by apply list_elem_of_fmap_2.
Qed.

Lemma within_fr_out E r v : r ∈ e_fr E -> within E (fr_out r v).
Proof.
  intros Hr m m' [= <-]. split; [done| |apply tf_refl]. intros r' Hr'. cbn. apply fupd_ne.
  by intros ->.
Qed.

Lemma within_on_tie E f : (forall t, tie_framed E t (f t)) -> within E (on_tie f).
Proof. intros Hf m m' [= <-]. by split. Qed.
Lemma within_run_tie E f : (forall t, tie_framed E t (f t).2) -> within E (run_tie f).
Proof.
  intros Hf m m'. unfold run_tie. specialize (Hf (m_tie m)). destruct (f (m_tie m)). intros [= <-]. by split.
Qed.
Lemma within_try_tie E f :
  (forall t t', f t = Some t' -> tie_framed E t t') -> within E (try_tie f).
Proof.
  intros Hf m m'. unfold try_tie. destruct (f (m_tie m)) eqn:H; [|done]. intros [= <-]. split; try done.
  by apply Hf.
Qed.

Lemma exception_keeps_regs {A} config epc cause env env' :
  final (helper_exception_cause (A := A) config epc cause env) = Some env' -> regs env' = regs env.
Proof. rewrite exception_cause_eq. by intros [= <-]. Qed.

Lemma unaligned_keeps_regs {A} config a insn_pc env env' :
  final (xtensa_cpu_do_unaligned_access (A := A) config a insn_pc env) = Some env' ->
  regs env' = regs env.
Proof.
  unfold xtensa_cpu_do_unaligned_access, helper_exception_cause_vaddr, cpu_restore_state.
  unfold bind, massert, modify, get. destruct (xtensa_option_enabled _ _); [|done].
  intros H. by apply exception_keeps_regs in H.
Qed.

(** ** Accesses *)

(** A relation that does not see memory, nor the CPU state beyond its registers. *)
Class MemStable (R : machine -> machine -> Prop) : Prop := {
  ms_preorder :: PreOrder R;
  ms_env m e : regs e = regs (m_env m) -> R m (with_env e m);
  ms_mem m mem : R m (with_mem mem m)
}.

#[export] Instance framed_stable E : MemStable (framed E).
Proof.
  split; [apply _|..]; intros; (split; [|done|apply tf_refl]); intros; cbn; by rewrite ?H.
Qed.

Section accesses.
Context (R : machine -> machine -> Prop) `{!MemStable R}.
Context (config : XtensaConfig) (softmmu : Z -> Z -> Z -> Z -> Z -> cpuM (Z -> Z)).
Context `{!SoftmmuLaws softmmu} (dc : DisasContext).

Lemma keeps_access mop a w idx : keeps R (qemu_access config softmmu dc mop a w idx).
Proof.
  unfold qemu_access. destruct (truthy _); apply keeps_on_env; intros m e He; apply ms_env.
  - by eapply unaligned_keeps_regs.
  - by eapply softmmu_regs.
Qed.

Lemma keeps_ld size a : keeps R (tie_ld config softmmu dc size a).
Proof.
  unfold tie_ld. destruct (gen_load_store_alignment _ _ _) as [mop a'].
  apply keeps_bind; [apply _|apply keeps_access|]. intros at_. apply keeps_gets, _.
Qed.

Lemma keeps_st size v a : keeps R (tie_st config softmmu dc size v a).
Proof.
  unfold tie_st. destruct (gen_load_store_alignment _ _ _) as [mop a'].
  apply keeps_bind; [apply _|apply keeps_access|]. intros at_ m m' [= <-]. apply ms_mem.
Qed.

Lemma keeps_unknown : keeps R (unknown_extension config dc).
Proof.
  apply keeps_on_env. intros m e He. apply ms_env. by eapply exception_keeps_regs.
Qed.
End accesses.

(** Decompose a translator; what is left are its effects on registers. *)
Ltac keeps_step :=
  match goal with
  | |- keeps _ (bind _ _) => apply keeps_bind; [apply _| |intros]
  | |- keeps _ (when ?b _) => unfold when
  | |- keeps _ (if ?b then _ else _) => destruct b eqn:?
  | |- keeps _ (for_range 0 ?n _) =>
      unfold for_range; let l := eval vm_compute in (seqZ 0 n) in change (seqZ 0 n) with l;
      cbn [foldr]
  | |- keeps _ (ret _) => apply keeps_ret, _
  | |- keeps _ (gets _) => apply keeps_gets, _
  | |- keeps _ (arg_in _) => apply keeps_gets, _
  | |- keeps _ (fr_in _) => apply keeps_gets, _
  | |- keeps _ (ask_tie _) => apply keeps_gets, _
  | |- keeps _ (tie_sar _) => unfold tie_sar
  | |- keeps _ (try_ask _) => apply keeps_try_ask, _
  | |- keeps _ (tie_ld _ _ _ _ _) => apply keeps_ld; apply _
  | |- keeps _ (tie_st _ _ _ _ _ _) => apply keeps_st; apply _
  | |- keeps _ (unknown_extension _ _) => apply keeps_unknown, _
  end.

(** ** The footprint of each translator, by operand position *)

Definition transfer_effect (mode ldst k : Z) : effect :=
  mkEff (if mode =? addr_inc16 then [1] else [])
    (k :: if (mode =? addr_inc16) && (ldst =? ee_load_op) then [0] else []) [] [].

Definition wur_states (reg : Z) : list tie_state :=
  if (reg =? wrur_accx_0) || (reg =? wrur_accx_1) then [STATE_ACCX]
  else if (wrur_qacc_l_0 <=? reg) && (reg <=? wrur_qacc_l_4) then [STATE_QACC_L]
  else if (wrur_qacc_h_0 <=? reg) && (reg <=? wrur_qacc_h_4) then [STATE_QACC_H]
  else if reg =? wrur_gpio_out then [STATE_GPIO_OUT]
  else if reg =? wrur_sar_byte then [STATE_SAR_BYTE]
  else if reg =? wrur_fft_bit_width then [STATE_FFT_BIT_WIDTH]
  else [STATE_UA_STATE].

Definition QACC : list tie_state := [STATE_QACC_L; STATE_QACC_H].
Definition qacc_state (op_type : Z) : list tie_state :=
  if op_type =? wrur_qacc_l_0 then [STATE_QACC_L] else [STATE_QACC_H].

Definition fn_effect (fn : tie_fn) (par : list Z) : effect :=
  let P k := nthZ par k in
  let upd k := if (P 1 =? addr_ip) || (P 1 =? addr_xp) then [k] else [] in
  match fn with
  | T_vld_64_s3 | T_vld_128_s3 => mkEff [1] [0] [] []
  | T_ld_usar_128_s3 => mkEff [1] [0] [] [STATE_SAR_BYTE]
  | T_ldqa_128_s3 => mkEff [0] [] [] QACC
  | T_vldbc_s3 => mkEff (if P 0 =? addr_nop then [] else [1]) [0] [] []
  | T_vldhbc_s3 => mkEff [2] [0; 1] [] []
  | T_vst_64_s3 | T_vst_128_s3 | T_fft_vst_decp_s3 => mkEff [1] [] [] []
  | T_ldf_128_ip | T_ldf_128_xp => mkEff [4] [] [0; 1; 2; 3] []
  | T_stf_128_ip | T_stf_128_xp => mkEff [4] [] [] []
  | T_ldf_64_ip | T_ldf_64_xp => mkEff [2] [] [0; 1] []
  | T_stf_64_ip | T_stf_64_xp => mkEff [2] [] [] []
  | T_zero => if P 0 =? ee_zero_qacc then mkEff [] [] [] QACC
              else if P 0 =? ee_zero_accx then mkEff [] [] [] [STATE_ACCX]
              else mkEff [] [0] [] []
  | T_wur => mkEff [] [] [] (wur_states (P 0))
  | T_rur => mkEff [0] [] [] []
  | T_mov_qacc_s3 => mkEff [] [] [] QACC
  | T_movi_s3 => if P 0 =? ee_movi_a then mkEff [1] [] [] [] else mkEff [] [0] [] []
  | T_zip_s3 | T_sxci_2q_s3 | T_r2bf_s3 => mkEff [] [0; 1] [] []
  | T_vadds_s3 | T_vmul_s3 | T_vmax_s3 | T_vmin_s3 =>
      transfer_effect (P 1) (P 2) (if P 1 =? addr_inc16 then 2 else 0)
  | T_cmul_s3 => transfer_effect (P 0) (P 1) (if P 0 =? addr_nop then 0 else 2)
  | T_vmulas_accx_s3 =>
      mkEff (upd 1)
        ((if P 1 =? addr_nop then [] else [0]) ++
         (if P 2 =? vmul_qup then [(if P 1 =? addr_nop then 0 else 3) + 2] else [])) [] [STATE_ACCX]
  | T_vmulas_qacc_s3 =>
      mkEff (upd 1 ++ if P 1 =? addr_ldbc_inc1 then [1] else [])
        ((if P 1 =? addr_nop then [] else [0]) ++
         (if P 2 =? vmul_qup
          then [(if P 1 =? addr_nop then 0 else if P 1 =? addr_ldbc_inc1 then 2 else 3) + 2] else []))
        [] QACC
  | T_vsmulas_qacc_s3 =>
      if P 1 =? addr_inc16 then mkEff [1] [0] [] QACC else mkEff [] [] [] QACC
  | T_srcmb_qacc_s3 => mkEff [] [0] [] QACC
  | T_vrelu_s3 | T_vprelu_s3 | T_vcmp_s3 | T_bw_logic_s3 | T_vsx32_s3 | T_ld_qr_s3 | T_mv_qr_s3
  | T_ldxq_32_s3 => mkEff [] [0] [] []
  | T_src_q_s3 =>
      if P 0 =? addr_nop then mkEff [] (0 :: if P 1 =? vmul_qup then [1] else []) [] []
      else mkEff [1] [0; 3] [] []
  | T_sxcxxp_2q_s3 => mkEff [2] [0; 1] [] []
  | T_srcq_128_st_s3 => mkEff [2] [] [] []
  | T_r2bf_st_s3 => mkEff [3] [0] [] []
  | T_fft_cmul_ld_s3 => mkEff [1] [3; 0] [] []
  | T_fft_cmul_st_s3 => mkEff [3] [] [] []
  | T_bitrev_s3 => mkEff [1] [0] [] []
  | T_fft_ams_s16_ld_incp | T_fft_ams_s16_ld_decp => mkEff [1] [2; 3; 0] [] []
  | T_fft_ams_s16_st_incp => mkEff [2; 3] [1] [] []
  | T_fft_ams_s16_ld_incp_uaup => mkEff [1] [2; 3; 0] [] [STATE_UA_STATE]
  | T_wr_mask_gpio_out_s3 =>
      if (P 0 =? gpio_mask) || ((P 0 =? gpio_set) || (P 0 =? gpio_clr))
      then mkEff [] [] [] [STATE_GPIO_OUT] else mkEff [0] [] [] []
  | T_st_qr_s3 | T_stxq_32_s3 => mkEff [] [] [] []
  | T_ld_accx_ip_s3 | T_srs_accx_s3 => mkEff [0] [] [] [STATE_ACCX]
  | T_ld_qacc_x_h_32_ip_s3 | T_ld_qacc_x_l_128_ip_s3 => mkEff [0] [] [] (qacc_state (P 0))
  | T_st_qacc_x_h_32_ip_s3 | T_st_qacc_x_l_128_ip_s3 | T_st_accx_ip_s3 | T_st_ua_state_ip_s3 =>
      mkEff [0] [] [] []
  | T_ld_ua_state_ip_s3 => mkEff [0] [] [] [STATE_UA_STATE]
  end.

(** The registers an instruction with operands [arg] may write. *)
Definition resolve (arg : list Z) (E : effect) : effect :=
  mkEff (nthZ arg <$> e_ar E) (nthZ arg <$> e_q E) (nthZ arg <$> e_fr E) (e_st E).

Create HintDb tie_helpers.
#[export] Hint Unfold vadds_s3 vsubs_s3 vmul_s3 cmul_s3 cmul_pairs vmulas_accx_s3 vmulas_qacc_s3
  vsmulas_s3 srcmb_qacc_s3 vrelu_s3 vprelu_s3 by_width vmax_s3 vmin_s3 vcmp_s3 bw_logic_s3 vsx32_s3
  vld_64_s3 ldqa_64_s3 set_sar_byte_s3 vldhbc_16_s3 vldbc_s3 wr_accq_word wur_s3 mv_qr_s3
  mov_qacc_s3 movi_q_s3 zip_lanes unzip_lanes vzip_s3 vunzip_s3 r2bf_st_low_s3 r2bf_s3
  fft_cmul_ld_s3 bitrev_s3 ams_write fft_ams_s16 fft_ams_s16_uqup fft_ams_s16_decp ams_st_high
  fft_ams_st_0_s16_high fft_ams_st_1_s16_high fft_ams_s16_exchange_q wr_mask_gpio_out_s3
  ld_accx_s3 srs_accx_s3 ld_qacc_x_h_32_ip_s3 ld_qacc_x_l_128_ip_s3 ld_ua_state_s3 ldxq_32_s3
  qacc_sel zero_s3 qacc_update20 qacc_update40 : tie_helpers.

(** Membership in a footprint whose conditions are decided. *)
Ltac in_effect :=
  unfold transfer_effect, wur_states, qacc_state, QACC;
  repeat match goal with |- context [if ?b then _ else _] => destruct b eqn:? end;
  cbn; first [solve [repeat constructor]|exfalso; bprop; lia].
#[export] Hint Extern 1 (_ ∈ _) => in_effect : tf.

Lemma tf_vmulas_qup E qs0 qs1 t t' :
  qs0 ∈ e_q E -> vmulas_qup_s3 qs0 qs1 t = Some t' -> tie_framed E t t'.
Proof.
  intros Hq. unfold vmulas_qup_s3. destruct (ofor 0 _ _ t) as [t1|] eqn:E1; [|done].
  intros E2. apply (tf_ofor E t) in E2; [done| |].
  - intros i t2 t3 H2. destruct (rd_u8 _ _); [|done]. by apply tf_wr_u8.
  - apply (tf_ofor E t) in E1; [done| |apply tf_refl].
    intros i t2 t3 H2. destruct (rd_u8 _ _); [|done]. by apply tf_wr_u8.
Qed.

Lemma tf_sxci E qs0 qs1 sar op t t' :
  qs0 ∈ e_q E -> qs1 ∈ e_q E -> sxci_2q_s3 qs0 qs1 sar op t = Some t' -> tie_framed E t t'.
Proof.
  intros H0 H1. unfold sxci_2q_s3. cbv zeta.
  assert (Hc : forall r arr k i t2 t3, r ∈ e_q E -> tie_framed E t t2 ->
    match rd_temp arr k with Some v => wr_u8 r i v t2 | None => None end = Some t3 ->
    tie_framed E t t3).
  { intros r arr k i t2 t3 Hr H2. destruct (rd_temp arr k); [|done]. by apply tf_wr_u8. }
  assert (Hf : forall lo hi body t2 t3,
    (forall i t4 t5, tie_framed E t t4 -> body i t4 = Some t5 -> tie_framed E t t5) ->
    ofor lo hi body t2 = Some t3 -> tie_framed E t t2 -> tie_framed E t t3).
  { intros lo hi body t2 t3 Hb Ho H2. by eapply tf_ofor. }
  destruct (op =? 4); [|destruct (op =? 5); [|intros [= <-]; apply tf_refl]];
    (destruct (ofor _ _ _ t) as [t1|] eqn:E1; [|done]);
    (destruct (ofor _ _ _ t1) as [t2|] eqn:E2; [|done]); intros E3.
  - eapply Hf; [|exact E3|eapply Hf; [|exact E2|eapply Hf; [|exact E1|apply tf_refl]]];
      intros i t4 t5 H4 H5; cbv beta in H5;
      [exact (Hc _ _ _ _ _ _ H1 H4 H5)|exact (Hc _ _ _ _ _ _ H0 H4 H5)|exact (tf_wr_u8 _ _ _ _ _ _ _ H0 H4 H5)].
  - eapply Hf; [|exact E3|eapply Hf; [|exact E2|eapply Hf; [|exact E1|apply tf_refl]]];
      intros i t4 t5 H4 H5; cbv beta in H5;
      [exact (tf_wr_u8 _ _ _ _ _ _ _ H1 H4 H5)|exact (Hc _ _ _ _ _ _ H1 H4 H5)|exact (Hc _ _ _ _ _ _ H0 H4 H5)].
Qed.

Lemma tf_src_q E qa qs0 qs1 op t t' :
  qa ∈ e_q E -> (op = vmul_qup -> qs0 ∈ e_q E) -> src_q_s3 qa qs0 qs1 op t = Some t' ->
  tie_framed E t t'.
Proof.
  intros Ha H0. unfold src_q_s3. destruct (ofor 0 _ _ 0); [|done]. destruct (ofor 0 _ _ z); [|done].
  intros [= <-]. destruct (Z.eqb_spec op 9) as [Eop|]; [specialize (H0 Eop)|]; tf_tac.
Qed.

Lemma tf_uaup E qu lo hi t t' :
  qu ∈ e_q E -> STATE_UA_STATE ∈ e_st E -> fft_ams_s16_ld_incp_uaup qu lo hi t = Some t' ->
  tie_framed E t t'.
Proof.
  intros Hq Hs. unfold fft_ams_s16_ld_incp_uaup. destruct (ofor 0 16 _ t) as [t1|] eqn:E1; [|done].
  intros [= <-]. apply tf_set_UA_STATE; [done|]. apply (tf_ofor E t) in E1; [done| |apply tf_refl].
  intros i t2 t3 H2. destruct (rd_temp _ _); [|done]. by apply tf_wr_u8.
Qed.

Create HintDb tie_translators.
#[export] Hint Unfold translate_vld_64_s3 translate_vld_128_s3 translate_ld_usar_128_s3
  translate_ldqa_128_s3 translate_vldbc_s3 translate_vldhbc_s3 translate_vst_64_s3
  translate_vst_128_s3 ldf_words stf_words translate_ldf_128_ip translate_stf_128_ip
  translate_ldf_64_ip translate_stf_64_ip translate_ldf_128_xp translate_stf_128_xp
  translate_ldf_64_xp translate_stf_64_xp translate_zero translate_wur translate_rur
  translate_mov_qacc_s3 translate_movi_s3 translate_zip_s3 with_transfer translate_vadds_s3
  translate_vmul_s3 translate_cmul_s3 translate_vmulas_accx_s3 translate_vmulas_qacc_s3
  translate_vsmulas_qacc_s3 translate_srcmb_qacc_s3 translate_vrelu_s3 translate_vprelu_s3
  translate_vmax_s3 translate_vmin_s3 translate_vcmp_s3 translate_bw_logic_s3 translate_src_q_s3
  translate_sxci_2q_s3 translate_sxcxxp_2q_s3 translate_srcq_128_st_s3 translate_vsx32_s3
  translate_r2bf_st_s3 translate_r2bf_s3 translate_fft_cmul_ld_s3 translate_fft_cmul_st_s3
  translate_bitrev_s3 translate_fft_ams_s16_ld_incp translate_fft_ams_s16_st_incp
  translate_fft_ams_s16_ld_incp_uaup translate_fft_ams_s16_ld_decp translate_fft_vst_decp_s3
  translate_wr_mask_gpio_out_s3 translate_ld_qr_s3 translate_st_qr_s3 translate_mv_qr_s3
  translate_ld_accx_ip_s3 translate_srs_accx_s3 translate_ld_qacc_x_h_32_ip_s3
  translate_ld_qacc_x_l_128_ip_s3 translate_st_qacc_x_h_32_ip_s3 translate_st_qacc_x_l_128_ip_s3
  translate_st_accx_ip_s3 translate_ld_ua_state_ip_s3 translate_st_ua_state_ip_s3
  translate_ldxq_32_s3 translate_stxq_32_s3 store_qreg_to_memory load_qreg_from_memory
  ip_xp add_imm add_reg : tie_translators.

(** The leaves of a footprint proof. *)
Ltac within_leaf :=
  match goal with
  | |- keeps _ (arg_out _ _) => apply within_arg_out; in_effect
  | |- keeps _ (fr_out _ _) => apply within_fr_out; in_effect
  | |- keeps _ (on_tie _) => apply within_on_tie; intros; autounfold with tie_helpers; tf_tac
  | |- keeps _ (run_tie _) => apply within_run_tie; intros; autounfold with tie_helpers; tf_tac
  | |- keeps _ (try_tie _) =>
      apply within_try_tie; intros ? ?;
      first [apply tf_vmulas_qup|apply tf_sxci|apply tf_src_q|apply tf_uaup]; intros; in_effect
  end.

Section footprint.
Context (config : XtensaConfig) (softmmu : Z -> Z -> Z -> Z -> Z -> cpuM (Z -> Z)).
Context `{!SoftmmuLaws softmmu} (dc : DisasContext) (tr : sar_tracker).

Lemma fn_within fn arg par :
  within (resolve arg (fn_effect fn par)) (run_fn config softmmu dc tr fn arg par).
Proof.
  destruct fn; unfold run_fn; autounfold with tie_translators; cbn [fn_effect];
    unfold wur_states, qacc_state;
    repeat keeps_step; within_leaf.
Qed.
End footprint.

(** ** What the ISA module declares *)

Definition lookup_by {A} (key : A -> string) (n : string) (l : list A) : option A :=
  find (fun a => String.eqb (key a) n) l.

Definition is_out (d : inout) : bool := match d with In => false | _ => true end.

(** The class of an opcode of the extension. *)
Definition iclass_of (name : string) : option iclass :=
  match lookup_by fst name tie_opcodes with
  | Some (_, ic) => lookup_by ic_name ic tie_iclasses
  | None => None
  end.

(** The register file of each operand, with its direction. *)
Definition operand_files (ic : iclass) : list (option (option regfile) * inout) :=
  (fun '(n, d) => (snd <$> lookup_by fst n tie_operands, d)) <$> ic_args ic.

#[export] Instance regfile_eq_dec : EqDecision regfile.
Proof. solve_decision. Defined.

(** Positions of the operands in [f] that are outputs. *)
Definition outputs (f : regfile) (ic : iclass) : list Z :=
  omap (fun '(k, (o, d)) => if is_out d && bool_decide (o = Some (Some f)) then Some k else None)
    (zip (seqZ 0 (Z.of_nat (length (ic_args ic)))) (operand_files ic)).

Definition declared (ic : iclass) : effect :=
  mkEff (outputs REGFILE_AR ic) (outputs REGFILE_QR ic) (outputs REGFILE_FR ic)
    (omap (fun '(s, d) => if is_out d then Some s else None) (ic_stateArgs ic)).

Definition sublist_b {A} `{EqDecision A} (l l' : list A) : bool := forallb (fun a => bool_decide (a ∈ l')) l.
Definition effect_le (E E' : effect) : bool :=
  sublist_b (e_ar E) (e_ar E') && sublist_b (e_q E) (e_q E') && sublist_b (e_fr E) (e_fr E') &&
  sublist_b (e_st E) (e_st E').

Definition entry_declared (o : XtensaOpcodeOps) : bool :=
  match iclass_of (o_name o) with
  | Some ic => effect_le (fn_effect (o_translate o) (o_par o)) (declared ic)
  | None => false
  end.

Lemma all_entries_declared : forallb entry_declared tie_ops = true.
Proof. vm_compute. reflexivity. Qed.

Lemma sublist_b_spec {A} `{EqDecision A} (l l' : list A) a : sublist_b l l' = true -> a ∈ l -> a ∈ l'.
Proof.
  intros H Ha. unfold sublist_b in H. rewrite forallb_forall in H.
  apply list_elem_of_In in Ha. apply H in Ha. by apply bool_decide_eq_true in Ha.
Qed.

Lemma framed_weaken arg E E' m m' :
  effect_le E E' = true -> framed (resolve arg E) m m' -> framed (resolve arg E') m m'.
Proof.
  unfold effect_le. intros Hle. apply andb_true_iff in Hle as [Hle Hst].
  apply andb_true_iff in Hle as [Hle Hfr]. apply andb_true_iff in Hle as [Har Hq].
  assert (Hmap : forall l l', sublist_b l l' = true -> forall x, x ∈ nthZ arg <$> l -> x ∈ nthZ arg <$> l').
  { intros l l' H x Hx. apply list_elem_of_fmap in Hx as (k & -> & Hk).
    apply list_elem_of_fmap_2. by eapply sublist_b_spec. }
  intros [A B [Q1 L1 H1 U1 X1 S1 W1 G1]]. cbn in *. split.
  - intros j Hj. apply A. intros Hx. apply Hj. apply list_elem_of_fmap in Hx as (k & -> & Hk).
    apply list_elem_of_fmap_2. by eapply Hmap.
  - intros r Hr. apply B. intros Hx. apply Hr. by eapply Hmap.
  - assert (Hs : forall x, x ∉ e_st E' -> x ∉ e_st E) by (intros x Hx Hx'; by eapply Hx, sublist_b_spec).
    split; cbn; auto. intros r Hr. apply Q1. intros Hx. apply Hr. by eapply Hmap.
Qed.


(** EE.VLD.128.IP of q3 through a4. *)
Definition vld_entry : XtensaOpcodeOps := mkOps "ee.vld.128.ip" T_vld_128_s3 [addr_ip] XTENSA_OP_LOAD 0.
Definition vld_run : outcome machine unit :=
  run_fn esp32s3_config flat_softmmu (tb_context esp32s3_config zero_env) init_sar_tracker
    (o_translate vld_entry) [3; 4; 16] (o_par vld_entry) example_machine.
Definition vld_machine : machine := state_of example_machine vld_run.

