(* ===== verification/TieInv.v ===== *)
(** * Invariants of the vector instructions

    Two relations every instruction of the extension respects, proved over the
    whole table with the rules of [TieFrame]: the fields of the vector state
    keep the widths of their C types, and an instruction that raises an
    exception has not yet written an address register. *)

From S2P Require Import Prelude Cpu Exception TbFlags Control Arith Lanes Tie TieArith.
From S2P Require Import TieShift TieFft Mmu LoadStore TieMem TieTable TieFrame.

#[local] Open Scope mach_scope.

(** ** Widths *)

Definition keeps_wf (m m' : machine) : Prop := tie_wf (m_tie m) -> tie_wf (m_tie m').

#[export] Instance keeps_wf_stable : MemStable keeps_wf.
Proof. split; [split|..]; unfold keeps_wf; [by intros ?|by intros ?; auto|done|done]. Qed.

Lemma wf_on_tie f : (forall t, tie_wf t -> tie_wf (f t)) -> keeps keeps_wf (on_tie f).
Proof. intros Hf m m' [= <-] Ht. by apply Hf. Qed.
Lemma wf_run_tie f : (forall t, tie_wf t -> tie_wf (f t).2) -> keeps keeps_wf (run_tie f).
Proof.
  intros Hf m m'. unfold run_tie. specialize (Hf (m_tie m)). destruct (f (m_tie m)). by intros [= <-].
Qed.
Lemma wf_try_tie f :
  (forall t t', f t = Some t' -> tie_wf t -> tie_wf t') -> keeps keeps_wf (try_tie f).
Proof.
  intros Hf m m'. unfold try_tie. destruct (f (m_tie m)) eqn:H; [|done]. intros [= <-] Ht. by eapply Hf.
Qed.
Lemma wf_arg_out r v : keeps keeps_wf (arg_out r v).
Proof. by intros m m' [= <-] Ht. Qed.
Lemma wf_fr_out r v : keeps keeps_wf (fr_out r v).
Proof. by intros m m' [= <-] Ht. Qed.

(** *** Helpers *)

Lemma s64_range v : - 2 ^ 63 <= s64 v < 2 ^ 63.
Proof. exact (sext_range 64 v ltac:(lia)). Qed.

Lemma accx_sum_range n f a :
  0 <= n -> - 2 ^ 63 <= a < 2 ^ 63 -> - 2 ^ 63 <= accx_sum n f a < 2 ^ 63.
Proof.
  intros Hn Ha. apply (foldl_seqZ_ind (fun _ a => - 2 ^ 63 <= a < 2 ^ 63)); [done|done|].
  intros. apply s64_range.
Qed.

Lemma mask40_range v : - 2 ^ 63 <= v &&& 0x000000ffffffffff < 2 ^ 63.
Proof. pose proof (land_range 40 v 0xffffffffff ltac:(lia)). lia. Qed.

Lemma accx_shift_range v s : 0 <= s -> - 2 ^ 63 <= v < 2 ^ 63 -> - 2 ^ 63 <= v >>> s < 2 ^ 63.
Proof.
  intros Hs Hv. rewrite Z.shiftr_div_pow2 by done. assert (0 < 2 ^ s) by (apply Z.pow_pos_nonneg; lia).
  pose proof (Z.div_mod v (2 ^ s) ltac:(lia)). pose proof (Z.mod_pos_bound v (2 ^ s) ltac:(lia)). nia.
Qed.

Lemma sat_between lo hi x :
  - 2 ^ 63 <= lo -> hi < 2 ^ 63 -> - 2 ^ 63 <= x < 2 ^ 63 -> lo <= hi -> - 2 ^ 63 <= sat lo hi x < 2 ^ 63.
Proof. unfold sat. intros. destruct (Z.ltb_spec hi x), (Z.ltb_spec hi lo), (Z.ltb_spec x lo); lia. Qed.

Lemma wf_set_ACCQ_lane w r i v r' t t' :
  tie_wf t -> tie_wf t' -> 0 <= w -> 0 <= i -> w * i + w <= 160 ->
  tie_wf (set_ACCQ r (set_lane w i v (ACCQ t' r')) t).
Proof. intros Ht Ht' Hw Hi Hn. apply wf_set_ACCQ; [done|]. apply set_lane_range; try done. apply Ht'. Qed.
Lemma wf_set_UA_lane w i v t :
  tie_wf t -> 0 <= w -> 0 <= i -> w * i + w <= 128 -> tie_wf (set_UA_STATE (set_lane w i v (UA_STATE t)) t).
Proof. intros Ht Hw Hi Hn. apply wf_set_UA_STATE; [done|]. apply set_lane_range; try done. apply Ht. Qed.

(** Follow a helper from its last assignment to the first. *)
Ltac wf_go :=
  intros; cbv zeta;
  repeat match goal with
  | H : tie_wf ?t |- tie_wf ?t => exact H
  | |- tie_wf (if ?b then _ else _) => destruct b eqn:?; bprop
  | |- tie_wf (snd (_, _)) => cbn [snd]
  | |- tie_wf (snd ?e) => match e with context [if ?b then _ else _] => destruct b eqn:? end
  | |- tie_wf (foldl _ _ (seqZ 0 _)) => apply wf_loop; [lia|intros; cbv beta zeta|]
  | |- tie_wf (set_Q_lane _ _ _ _ _) => apply wf_set_Q_lane; [|lia|lia|lia]
  | |- tie_wf (upd_lanes _ _ _ _ _) => apply wf_upd_lanes; [|lia|lia|lia]
  | |- tie_wf (set_ACCQ _ (set_lane _ _ _ _) _) => apply wf_set_ACCQ_lane; [| |lia|lia|lia]
  | |- tie_wf (set_ACCQ _ (save_qacc20 _ _) _) => apply wf_set_ACCQ; [|apply save_qacc20_range, wf_ACCQ]
  | |- tie_wf (set_ACCQ _ (save_qacc40 _ _) _) => apply wf_set_ACCQ; [|apply save_qacc40_range, wf_ACCQ]
  | |- tie_wf (set_UA_STATE (set_lane _ _ _ _) _) => apply wf_set_UA_lane; [|lia|lia|lia]
  | |- tie_wf (set_ACCX (_ &&& _) _) => apply wf_set_ACCX; [|apply mask40_range]
  | |- tie_wf (set_ACCX 0 _) => apply wf_set_ACCX; [|lia]
  | |- tie_wf (set_ACCX (sat _ _ (accx_sum _ _ _)) _) =>
      apply wf_set_ACCX; [|apply sat_between; [lia|lia|apply accx_sum_range; [lia|apply wf_ACCX]|lia]]
  | |- tie_wf (set_ACCX (_ >>> (_ &&& _)) _) =>
      apply wf_set_ACCX; [|apply accx_shift_range; [by apply land_nonneg_r|apply wf_ACCX]]
  | |- tie_wf (set_SAR_BYTE _ _) => apply wf_set_SAR_BYTE
  | |- tie_wf (set_fft_width _ _) => apply wf_set_fft_width
  | |- tie_wf (set_gpio_out _ _) => apply wf_set_gpio_out
  | |- tie_wf (set_temp_asm _ _ _) => apply wf_set_temp_asm
  end.

Lemma wf_fft_cmul_ld qz qx qy sel8 sar t : tie_wf t -> tie_wf (fft_cmul_ld_s3 qz qx qy sel8 sar t).
Proof.
  intros Ht. unfold fft_cmul_ld_s3. destruct (_ && _) eqn:Hs; [|done]. bprop.
  pose proof (Z.div_mod sel8 2 ltac:(lia)). pose proof (Z.mod_pos_bound sel8 2 ltac:(lia)). wf_go.
Qed.

Lemma wf_ofor lo hi (body : Z -> CPUXtensaEsp32s3State -> option CPUXtensaEsp32s3State) t t' :
  (forall i t t', tie_wf t -> body i t = Some t' -> tie_wf t') -> ofor lo hi body t = Some t' ->
  tie_wf t -> tie_wf t'.
Proof.
  intros Hb. unfold ofor. generalize (seqZ lo (hi - lo)) as l. intros l. revert t.
  induction l as [|i l IH]; intros t; cbn; [by intros [= <-]|].
  destruct (body i t) eqn:Hi; [by eauto|]. clear. induction l; cbn; done.
Qed.

Lemma wf_wr_u8 r i v t t' : tie_wf t -> wr_u8 r i v t = Some t' -> tie_wf t'.
Proof.
  unfold wr_u8. intros Ht. destruct (_ && _) eqn:Hb; [|done]. intros [= <-]. bprop.
  apply wf_set_Q_lane; [done|lia|lia|lia].
Qed.

Lemma wf_vmulas_qup qs0 qs1 t t' : vmulas_qup_s3 qs0 qs1 t = Some t' -> tie_wf t -> tie_wf t'.
Proof.
  unfold vmulas_qup_s3. destruct (ofor 0 _ _ t) as [t1|] eqn:E1; [|done]. intros E2 Ht.
  eapply wf_ofor; [|exact E2|eapply wf_ofor; [|exact E1|done]]; intros i t2 t3 H2; cbv beta;
    (destruct (rd_u8 _ _); [|done]); by apply wf_wr_u8.
Qed.

Lemma wf_sxci qs0 qs1 sar op t t' : sxci_2q_s3 qs0 qs1 sar op t = Some t' -> tie_wf t -> tie_wf t'.
Proof.
  unfold sxci_2q_s3. cbv zeta. intros H Ht. revert H.
  destruct (op =? 4); [|destruct (op =? 5); [|by intros [= <-]]];
    (destruct (ofor _ _ _ t) as [t1|] eqn:E1; [|done]);
    (destruct (ofor _ _ _ t1) as [t2|] eqn:E2; [|done]); intros E3;
    (eapply wf_ofor; [|exact E3|eapply wf_ofor; [|exact E2|eapply wf_ofor; [|exact E1|done]]]);
    intros i t4 t5 H4; cbv beta;
    try (match goal with |- context [rd_temp ?a ?b] => destruct (rd_temp a b); [|done] end);
    by apply wf_wr_u8.
Qed.

Lemma wf_src_q qa qs0 qs1 op t t' : src_q_s3 qa qs0 qs1 op t = Some t' -> tie_wf t -> tie_wf t'.
Proof.
  unfold src_q_s3. destruct (ofor 0 _ _ 0); [|done]. destruct (ofor 0 _ _ z); [|done].
  intros [= <-] Ht. wf_go.
Qed.

Lemma wf_uaup qu lo hi t t' :
  in64 lo -> in64 hi -> fft_ams_s16_ld_incp_uaup qu lo hi t = Some t' -> tie_wf t -> tie_wf t'.
Proof.
  intros Hlo Hhi. unfold fft_ams_s16_ld_incp_uaup. destruct (ofor 0 16 _ t) as [t1|] eqn:E1; [|done].
  intros [= <-] Ht. apply wf_set_UA_STATE.
  - eapply wf_ofor; [|exact E1|done]. intros i t2 t3 H2. cbv beta. destruct (rd_temp _ _); [|done].
    by apply wf_wr_u8.
  - apply lor_range; [unfold in64 in *; lia|]. rewrite Z.shiftl_mul_pow2 by lia. unfold in64 in *. nia.
Qed.

(** *** Values read from memory *)

Section loads.
Context (config : XtensaConfig) (softmmu : Z -> Z -> Z -> Z -> Z -> cpuM (Z -> Z)).
Context `{!SoftmmuLaws softmmu} (dc : DisasContext).

Lemma tie_ld_in64 a m v m' : tie_ld config softmmu dc MO_64 a m = Done v m' -> in64 v.
Proof.
  unfold tie_ld. destruct (gen_load_store_alignment config (3 ||| 0) a) as [mop a'] eqn:Eg.
  assert (Hm : memop_size mop = 8 /\ truthy (mop &&& MO_SIGN) = false).
  { unfold gen_load_store_alignment in Eg. change ((3 ||| 0) &&& 7 =? 0) with false in Eg.
    cbv iota zeta in Eg. injection Eg as <- _. change ((3 ||| 0) &&& 224 =? 0) with true. cbn [andb].
    by destruct (negb _). }
  destruct Hm as [Hs Hg]. unfold qemu_ld, bind.
  destruct (qemu_access _ _ _ _ _ _ _ m) as [at_ m1| |]; [|done|done].
  intros [= <- <-]. rewrite Hs, Hg. unfold mem_read. apply (fold_lanes_range 64); lia.
Qed.

Lemma keeps_ld64 {B} R `{!MemStable R} a (k : Z -> machM B) :
  (forall v, in64 v -> keeps R (k v)) -> keeps R (bind (tie_ld config softmmu dc MO_64 a) k).
Proof.
  intros Hk m m'. unfold bind. pose proof (keeps_ld R config softmmu dc MO_64 a m) as Hl.
  destruct (tie_ld _ _ _ _ _ m) as [v m1|m1|] eqn:E; [| |done].
  - intros Hf. transitivity m1; [by apply Hl|]. eapply Hk; [by eapply tie_ld_in64|done].
  - intros [= <-]. by apply Hl.
Qed.
End loads.

(** *** The invariant *)

(** Selectors of 32-bit elements of a register are two-bit fields, and the half
    of a register is 0 or 1. *)
Definition selectors_ok (fn : tie_fn) (arg par : list Z) : Prop :=
  match fn with
  | T_vld_64_s3 => 0 <= nthZ par 1 <= 1
  | T_movi_s3 => 0 <= nthZ arg 2 < 4
  | T_ldxq_32_s3 => 0 <= nthZ arg 3 < 4
  | _ => True
  end.

(** The leaves of the proof that an instruction keeps the widths. *)
Ltac wf_leaf :=
  match goal with
  | |- keeps _ (arg_out _ _) => apply wf_arg_out
  | |- keeps _ (fr_out _ _) => apply wf_fr_out
  | |- keeps _ (on_tie (fft_cmul_ld_s3 _ _ _ _ _)) => apply wf_on_tie; intros; by apply wf_fft_cmul_ld
  | |- keeps _ (on_tie _) => apply wf_on_tie; intros; autounfold with tie_helpers; wf_go
  | |- keeps _ (run_tie _) => apply wf_run_tie; intros; autounfold with tie_helpers; wf_go
  | |- keeps _ (try_tie _) =>
      apply wf_try_tie; intros ? ?; first [apply wf_vmulas_qup|apply wf_sxci|apply wf_src_q|by apply wf_uaup]
  end.

Section invariant.
Context (config : XtensaConfig) (softmmu : Z -> Z -> Z -> Z -> Z -> cpuM (Z -> Z)).
Context `{!SoftmmuLaws softmmu} (dc : DisasContext) (tr : sar_tracker).

Lemma fn_keeps_wf fn arg par :
  selectors_ok fn arg par -> keeps keeps_wf (run_fn config softmmu dc tr fn arg par).
Proof.
  destruct fn; unfold run_fn, selectors_ok; intros Hsel; autounfold with tie_translators;
    repeat first [lazymatch goal with
                  | |- keeps _ (bind (tie_ld _ _ _ 3 _) _) => apply keeps_ld64; [apply _|apply _|intros]
                  end|keeps_step]; wf_leaf.
Qed.
End invariant.

(** Operands that select a 32-bit element come from two-bit fields. *)
Definition element_operands_ok (fn : tie_fn) (arg : list Z) : Prop :=
  match fn with
  | T_movi_s3 => 0 <= nthZ arg 2 < 4
  | T_ldxq_32_s3 => 0 <= nthZ arg 3 < 4
  | _ => True
  end.

Lemma vld_64_halves : forallb (fun o => match o_translate o with
    | T_vld_64_s3 => (0 <=? nthZ (o_par o) 1) && (nthZ (o_par o) 1 <=? 1) | _ => true end) tie_ops = true.
Proof. by vm_compute. Qed.

(** The widths [tie_wf] that the lane theorems assume of a state hold after every
    instruction of the table, also one left by an exception. *)
Lemma tie_keeps_widths (config : XtensaConfig) softmmu {Hlaws : SoftmmuLaws softmmu}
    dc tr (o : XtensaOpcodeOps) (arg : list Z) (m m' : machine) :
  o ∈ tie_ops -> element_operands_ok (o_translate o) arg -> tie_wf (m_tie m) ->
  final (run_fn config softmmu dc tr (o_translate o) arg (o_par o) m) = Some m' ->
  tie_wf (m_tie m').
Proof.
  intros Ho Hel Ht Hrun. pose proof vld_64_halves as Hall. rewrite forallb_forall in Hall.
  apply list_elem_of_In, Hall in Ho.
  eapply (fn_keeps_wf config softmmu dc tr (o_translate o) arg (o_par o)); [|done|done].
  unfold selectors_ok, element_operands_ok in *. destruct (o_translate o); try done. bprop. lia.
Qed.

(** ** Exceptions *)

(** No address register has changed. *)
Definition same_ar (m m' : machine) : Prop := regs (m_env m') = regs (m_env m).

#[export] Instance same_ar_stable : MemStable same_ar.
Proof. split; [split|..]; unfold same_ar; [by intros ?|intros ? ? ? ? ?; congruence|done|done]. Qed.

Definition faults_early {A} (c : machM A) : Prop := forall m m', c m = LoopExit m' -> same_ar m m'.
Definition quiet {A} (c : machM A) : Prop := forall m m', c m <> LoopExit m'.

Section fault_rules.
Context {A B : Type}.

Lemma fault_keeps (c : machM A) : keeps same_ar c -> faults_early c.
Proof. intros Hc m m' E. apply Hc. by rewrite E. Qed.
Lemma fault_quiet (c : machM A) : quiet c -> faults_early c.
Proof. intros Hc m m' E. by apply Hc in E. Qed.
Lemma fault_before (c : machM A) (k : A -> machM B) :
  keeps same_ar c -> (forall a, faults_early (k a)) -> faults_early (bind c k).
Proof.
  intros Hc Hk m m'. unfold bind. destruct (c m) as [a m1|m1|] eqn:Ec; [| |done].
  - intros E. unfold same_ar. rewrite (Hk a m1 m' E). apply Hc. by rewrite Ec.
  - intros [= <-]. apply Hc. by rewrite Ec.
Qed.
Lemma fault_after (c : machM A) (k : A -> machM B) :
  faults_early c -> (forall a, quiet (k a)) -> faults_early (bind c k).
Proof.
  intros Hc Hk m m'. unfold bind. destruct (c m) as [a m1|m1|] eqn:Ec; [| |done].
  - intros E. by apply Hk in E.
  - intros [= <-]. by apply Hc.
Qed.
Lemma quiet_bind (c : machM A) (k : A -> machM B) :
  quiet c -> (forall a, quiet (k a)) -> quiet (bind c k).
Proof.
  intros Hc Hk m m'. unfold bind. destruct (c m) eqn:Ec; [by apply Hk|by apply Hc in Ec|done].
Qed.
End fault_rules.

Lemma quiet_try_tie f : quiet (try_tie f).
Proof. intros m m'. unfold try_tie. by destruct (f (m_tie m)). Qed.

Lemma same_on_tie f : keeps same_ar (on_tie f).
Proof. by intros m m' [= <-]. Qed.
Lemma same_run_tie f : keeps same_ar (run_tie f).
Proof. intros m m'. unfold run_tie. destruct (f (m_tie m)). by intros [= <-]. Qed.
Lemma same_try_tie f : keeps same_ar (try_tie f).
Proof. intros m m'. unfold try_tie. destruct (f (m_tie m)); [|done]. by intros [= <-]. Qed.
Lemma same_fr_out r v : keeps same_ar (fr_out r v).
Proof. by intros m m' [= <-]. Qed.

Create HintDb same discriminated.
#[export] Hint Resolve same_on_tie same_run_tie same_try_tie same_fr_out : same.

Ltac quiet_tac :=
  repeat match goal with
  | |- quiet (bind _ _) => apply quiet_bind; [|intros]
  | |- quiet (try_tie _) => apply quiet_try_tie
  | |- quiet (if ?b then _ else _) => destruct b eqn:?
  | |- quiet _ => intros ? ?; discriminate
  end.

(** Everything before the update of the address register keeps the registers,
    everything after it raises nothing. *)
Ltac fault_tac :=
  repeat match goal with
  | |- faults_early (bind _ _) =>
      first [apply fault_before; [solve [repeat keeps_step; auto with same]|intros]
            |apply fault_after; [|intros; solve [quiet_tac]]]
  | |- faults_early (if ?b then _ else _) => destruct b eqn:?
  | |- faults_early _ => first [apply fault_keeps; solve [repeat keeps_step; auto with same]
                              |apply fault_quiet; solve [quiet_tac]]
  end.

(** The modes of an instruction exclude each other. *)
Ltac split_modes :=
  repeat match goal with
  | |- context [nthZ ?p ?k =? ?n] => destruct (Z.eqb_spec (nthZ p k) n); try lia; try discriminate
  | H : nthZ (_ :: _) _ = _ |- _ => clear H
  | H : nthZ (_ :: _) _ <> _ |- _ => first [by case H|clear H]
  end; cbn [orb negb].

Section faults.
Context (config : XtensaConfig) (softmmu : Z -> Z -> Z -> Z -> Z -> cpuM (Z -> Z)).
Context `{!SoftmmuLaws softmmu} (dc : DisasContext) (tr : sar_tracker).

Lemma fn_faults_early fn arg par : faults_early (run_fn config softmmu dc tr fn arg par).
Proof.
  destruct fn; unfold run_fn; autounfold with tie_translators; unfold when, tie_sar; try (by fault_tac);
    split_modes; fault_tac.
Qed.
End faults.

(** C7: An instruction of the vector extension that is left by an exception, of
    whichever of its accesses, has written no address register: the addresses it
    steps are updated only after every access has succeeded, so the exception
    handler sees those the program gave.  Vector registers, accumulators and memory
    may already have changed (a multiply-accumulate with a load accumulates before
    it loads), so this is not enough to repeat the instruction. *)
Theorem tie_fault_keeps_addresses (config : XtensaConfig) softmmu {Hlaws : SoftmmuLaws softmmu}
    dc tr (o : XtensaOpcodeOps) (arg : list Z) (m m' : machine) :
  o ∈ tie_ops ->
  run_fn config softmmu dc tr (o_translate o) arg (o_par o) m = LoopExit m' ->
  same_ar m m'.
Proof. intros _. apply fn_faults_early. apply _. Qed.

(** A lookup for examples that refuses the upper half of a page. *)
Definition guarded_softmmu (a n w idx insn_pc : Z) : cpuM (Z -> Z) :=
  if a <? 0x3fc88808 then ret (fun k => a + k)
  else helper_exception_cause_vaddr esp32s3_config insn_pc LOAD_PROHIBITED_CAUSE a.
#[export] Instance guarded_laws : SoftmmuLaws guarded_softmmu.
Proof.
  split; unfold guarded_softmmu; intros a n w idx epc env; destruct (a <? _); intros *.
  - intros [= <- <-] j k _ _ E. lia.
  - unfold helper_exception_cause_vaddr, bind, modify. by rewrite exception_cause_eq.
  - by intros [= <-].
  - unfold helper_exception_cause_vaddr, bind, modify. intros H. by apply exception_keeps_regs in H.
Qed.

(** EE.VMULAS.S16.ACCX.LD.IP q0, a4, 16, q1, q2 whose second half is refused. *)
Definition accx_ld_entry : XtensaOpcodeOps :=
  mkOps "ee.vmulas.s16.accx.ld.ip" T_vmulas_accx_s3 [vmul_s16; addr_ip; vmul_nop] XTENSA_OP_LOAD 0.
Definition accx_ld_start : machine :=
  machine_of (set_regs (setZ (replicate 16 0) 4 0x3fc88800) zero_env) (fun _ => 0xaa)
    (set_Q 1 3 (set_Q 2 5 tie_zero)).
Definition accx_ld (m : machine) : outcome machine unit :=
  run_fn esp32s3_config guarded_softmmu (tb_context esp32s3_config zero_env) init_sar_tracker
    (o_translate accx_ld_entry) [0; 4; 16; 1; 2] (o_par accx_ld_entry) m.

(** The machine an exception leaves, for examples. *)
Definition left_of (d : machine) (o : outcome machine unit) : machine :=
  match o with LoopExit m => m | _ => d end.
Definition leaves (o : outcome machine unit) : bool := match o with LoopExit _ => true | _ => false end.
Lemma leaves_exit d o : leaves o = true -> o = LoopExit (left_of d o).
Proof. by destruct o. Qed.

Definition accx_faulted : machine := left_of accx_ld_start (accx_ld accx_ld_start).
Lemma accx_faults : accx_ld accx_ld_start = LoopExit accx_faulted.
Proof. apply (leaves_exit accx_ld_start (accx_ld accx_ld_start)). by vm_compute. Qed.

Lemma accx_ld_listed : accx_ld_entry ∈ tie_ops.
Proof. apply list_elem_of_In. repeat (first [by left|right]). Qed.

Lemma tie_fault_keeps_addresses_witness :
  nthZ (regs (m_env accx_faulted)) 4 = 0x3fc88800 /\ sr (m_env accx_faulted) EXCVADDR = 0x3fc88808.
Proof.
  split; [|by vm_compute].
  rewrite (tie_fault_keeps_addresses esp32s3_config guarded_softmmu (tb_context esp32s3_config zero_env)
    init_sar_tracker accx_ld_entry [0; 4; 16; 1; 2] accx_ld_start accx_faulted accx_ld_listed accx_faults).
  by vm_compute.
Defined.

(** The vector state is not restored: the accumulation precedes the load, so the
    repeated instruction adds the products twice. *)
Lemma accx_accumulates_on_fault :
  ACCX (m_tie accx_ld_start) = 0 /\ ACCX (m_tie accx_faulted) = 15 /\
  ACCX (m_tie (left_of accx_faulted (accx_ld accx_faulted))) = 30.
Proof. by vm_compute. Qed.

(** ** The shift amount *)

(** After SSL 4 the shift amount register holds 28 and the tracker keeps the 4
    of the left shift; EE.VSR.32 shifts by the 4. *)
Lemma vsr_uses_left_amount :
  let st := translate_ssl 4 (init_sar_tracker, zero_env) in
  let m := machine_of st.2 (fun _ => 0) (set_Q 1 0x10000000 tie_zero) in
  sr st.2 SAR = 28 /\
  Q (m_tie (state_of m (run_fn esp32s3_config flat_softmmu (tb_context esp32s3_config zero_env) st.1
    T_vsx32_s3 [2; 1] [bw_shift_right] m))) 2 = 0x10000000 >>> 4 /\
  Q (m_tie (state_of m (run_fn esp32s3_config flat_softmmu (tb_context esp32s3_config zero_env) init_sar_tracker
    T_vsx32_s3 [2; 1] [bw_shift_right] m))) 2 = 0x10000000 >>> 28.
Proof. by vm_compute. Qed.

(** ** Coprocessor enable *)

(** No entry of the table names a coprocessor, although all but the
    GPIO instructions are described as reading CPENABLE: using the extension while it is disabled raises
    no exception. *)
Definition reads_cpenable (o : XtensaOpcodeOps) : bool :=
  match iclass_of (o_name o) with
  | Some ic => existsb (fun s => match s with (STATE_CPENABLE, In) => true | _ => false end) (ic_stateArgs ic)
  | None => false
  end.
Lemma tie_never_disabled :
  forallb (fun o => o_coprocessor o =? 0) tie_ops = true /\
  o_name <$> filter (fun o => reads_cpenable o = false) tie_ops =
    ["wur.gpio_out"; "rur.gpio_out"; "ee.wr_mask_gpio_out"; "ee.set_bit_gpio_out"; "ee.clr_bit_gpio_out";
     "ee.get_gpio_in"]%string.
Proof. by vm_compute. Qed.
