(* ===== verification/SpecialReg.v ===== *)
(** * Special registers ([target/xtensa/translate.c])

    The translators of RSR, WSR and XSR and the tests that make a special
    register illegal on a core.  A translator is the computation its emitted
    operations perform on the processor state, the translator's view of SAR and
    the temporary [dc->next_icount].  Arguments: [sr_name] says which registers
    some core of the emulator names, [now], [wnow] and [now_of] are the readings
    of the virtual clock when a register is read, written, and when the timers
    are set again, and [insert_ok] is the answer of the emulator core to a
    request for a watchpoint. *)

From S2P Require Import Prelude Cpu Exception Window Tlb Mmu OpHelper Dbg TbFlags Control Arith.

#[local] Open Scope mach_scope.

Abbreviation BR := 4 (only parsing).
Abbreviation SCOMPARE1 := 12 (only parsing).
Abbreviation MR := 32 (only parsing).
Abbreviation PREFCTL := 40 (only parsing).
Abbreviation MMID := 89 (only parsing).
Abbreviation ERACCESS := 95 (only parsing).
Abbreviation DDR := 104 (only parsing).
Abbreviation MEPC := 106 (only parsing).
Abbreviation MEPS := 107 (only parsing).
Abbreviation MESAVE := 108 (only parsing).
Abbreviation MESR := 109 (only parsing).
Abbreviation MECR := 110 (only parsing).
Abbreviation MEVADDR := 111 (only parsing).
Abbreviation EXCSAVE1 := 209 (only parsing).
Abbreviation INTCLEAR := 227 (only parsing).
Abbreviation PRID := 235 (only parsing).
Abbreviation MISC := 244 (only parsing).

Abbreviation MAX_NDBREAK := 2 (only parsing).
Abbreviation MAX_NLEVEL := 6 (only parsing).

Abbreviation XTENSA_OP_ILL := 0x1 (only parsing).
Abbreviation XTENSA_OP_PRIVILEGED := 0x2 (only parsing).

(** ** Tests *)

Section tests.
Context (config : XtensaConfig).

Definition test_exceptions_sr (par : list Z) : Z :=
  if xtensa_option_bits_enabled config (Z.shiftl 1 (nthZ par 1)) then 0 else XTENSA_OP_ILL.

Definition test_exceptions_ccompare (par : list Z) : Z :=
  let n := u32 (nthZ par 0 - CCOMPARE) in
  if nccompare config <=? n then XTENSA_OP_ILL else test_exceptions_sr par.

Definition test_exceptions_dbreak (par : list Z) : Z :=
  let p := nthZ par 0 in
  let n := MAX_NDBREAK in
  let n := if (DBREAKA <=? p) && (p <? DBREAKA + MAX_NDBREAK) then p - DBREAKA else n in
  let n := if (DBREAKC <=? p) && (p <? DBREAKC + MAX_NDBREAK) then p - DBREAKC else n in
  if ndbreak config <=? n then XTENSA_OP_ILL else test_exceptions_sr par.

Definition test_exceptions_ibreak (par : list Z) : Z :=
  let n := u32 (nthZ par 0 - IBREAKA) in
  if nibreak config <=? n then XTENSA_OP_ILL else test_exceptions_sr par.

Definition test_exceptions_hpi (par : list Z) : Z :=
  let p := nthZ par 0 in
  let n := MAX_NLEVEL + 1 in
  let n := if (EXCSAVE1 <=? p) && (p <? EXCSAVE1 + MAX_NLEVEL) then p - EXCSAVE1 + 1 else n in
  let n := if (EPC1 <=? p) && (p <? EPC1 + MAX_NLEVEL) then p - EPC1 + 1 else n in
  let n := if (EPS2 <=? p) && (p <? EPS2 + MAX_NLEVEL - 1) then p - EPS2 + 2 else n in
  if nlevel config <? n then XTENSA_OP_ILL else test_exceptions_sr par.
End tests.

(** ** State *)

Record sr_state := mkSrState { s_env : CPUXtensaState; s_sar : sar_tracker; s_next_icount : Z }.

Definition srM (A : Type) : Type := M sr_state A.

Definition with_cpu (f : CPUXtensaState -> CPUXtensaState) (s : sr_state) : sr_state :=
  mkSrState (f (s_env s)) (s_sar s) (s_next_icount s).
Definition cpu (f : CPUXtensaState -> CPUXtensaState) : srM unit := modify (with_cpu f).

Section translate.
Context (config : XtensaConfig) (period : Z) (insert_ok : watchpoint -> bool) (sr_name : Z -> bool).
Context (now wnow : Z) (now_of : Z -> Z) (dc : DisasContext).

(** [t] is the address register of the operand. *)
Section insn.
Context (t : Z) (par : list Z).
Abbreviation P k := (nthZ par k) (only parsing).

Definition in_reg : srM Z := gets (fun s => nthZ (regs (s_env s)) t).
Definition out_reg (v : Z) : srM unit := cpu (set_reg t v).
Definition cpu_SR (r : Z) : srM Z := gets (fun s => sr (s_env s) r).

(** *** Reading *)

Definition translate_rsr : srM unit :=
  if sr_name (P 0) then v <- cpu_SR (P 0) ;; out_reg v else out_reg 0.

Definition translate_rsr_ccount : srM unit :=
  cpu (helper_update_ccount period now) ;; v <- cpu_SR (P 0) ;; out_reg v.

Definition translate_rsr_ptevaddr : srM unit :=
  v <- cpu_SR EXCVADDR ;; p <- cpu_SR PTEVADDR ;; out_reg (((v >>> 10) ||| p) &&& 0xfffffffc).

(** *** Writing *)

Definition translate_wsr : srM unit :=
  if sr_name (P 0) then v <- in_reg ;; cpu (set_sr (P 0) v) else ret tt.

Definition translate_wsr_mask : srM unit :=
  if sr_name (P 0) then v <- in_reg ;; cpu (set_sr (P 0) (v &&& P 2)) else ret tt.

Definition translate_wsr_acchi : srM unit := v <- in_reg ;; cpu (set_sr (P 0) (u32 (sext 8 v))).

Definition translate_wsr_ccompare : srM unit :=
  let id := u32 (P 0 - CCOMPARE) in
  massert (id <? nccompare config) ;;
  v <- in_reg ;; cpu (set_sr (P 0) v) ;; cpu (helper_update_ccompare config period wnow id).

Definition translate_wsr_ccount : srM unit :=
  v <- in_reg ;; cpu (helper_wsr_ccount config period wnow now_of v).

Definition translate_wsr_dbreaka : srM unit :=
  let id := u32 (P 0 - DBREAKA) in
  massert (id <? ndbreak config) ;; v <- in_reg ;; cpu (helper_wsr_dbreaka insert_ok id v).

Definition translate_wsr_dbreakc : srM unit :=
  let id := u32 (P 0 - DBREAKC) in
  massert (id <? ndbreak config) ;; v <- in_reg ;; cpu (helper_wsr_dbreakc insert_ok id v).

Definition translate_wsr_ibreaka : srM unit :=
  let id := u32 (P 0 - IBREAKA) in
  massert (id <? nibreak config) ;; v <- in_reg ;; cpu (helper_wsr_ibreaka id v).

Definition translate_wsr_ibreakenable : srM unit :=
  v <- in_reg ;; cpu (helper_wsr_ibreakenable config v).

Definition translate_wsr_icount : srM unit :=
  v <- in_reg ;;
  if dc_icount dc then modify (fun s => mkSrState (s_env s) (s_sar s) v) else cpu (set_sr (P 0) v).

Definition translate_wsr_intclear : srM unit := v <- in_reg ;; cpu (helper_intclear config v).
Definition translate_wsr_intset : srM unit := v <- in_reg ;; cpu (helper_intset config v).
Definition translate_wsr_memctl : srM unit := v <- in_reg ;; cpu (helper_wsr_memctl config v).
Definition translate_wsr_mpuenb : srM unit := v <- in_reg ;; cpu (helper_wsr_mpuenb config v).

Definition wsr_ps_mask : Z :=
  let mask := PS_WOE ||| PS_CALLINC ||| PS_OWB ||| PS_UM ||| PS_EXCM ||| PS_INTLEVEL in
  if xtensa_option_enabled config OPTION_MMU || xtensa_option_enabled config OPTION_MPU
  then mask ||| PS_RING else mask.
Definition translate_wsr_ps : srM unit := v <- in_reg ;; cpu (set_sr (P 0) (v &&& wsr_ps_mask)).

Definition translate_wsr_rasid : srM unit := v <- in_reg ;; cpu (helper_wsr_rasid v).

Definition wsr_sar : srM unit :=
  v <- in_reg ;;
  modify (fun s => let '(tr, env) := Arith.translate_wsr_sar v (s_sar s, s_env s) in
                   mkSrState env tr (s_next_icount s)).

Definition translate_wsr_windowbase : srM unit := v <- in_reg ;; cpu (set_windowbase_next v).

Definition translate_wsr_windowstart : srM unit :=
  v <- in_reg ;; cpu (set_sr (P 0) (v &&& u32 (Z.shiftl 1 (nareg config / 4) - 1))).

(** *** Exchanging *)

Definition translate_xsr : srM unit :=
  if sr_name (P 0) then tmp <- in_reg ;; v <- cpu_SR (P 0) ;; out_reg v ;; cpu (set_sr (P 0) tmp)
  else out_reg 0.

Definition translate_xsr_mask : srM unit :=
  if sr_name (P 0) then
    tmp <- in_reg ;; v <- cpu_SR (P 0) ;; out_reg v ;; cpu (set_sr (P 0) (tmp &&& P 2))
  else out_reg 0.

Definition translate_xsr_ccount : srM unit :=
  cpu (helper_update_ccount period now) ;;
  tmp <- cpu_SR (P 0) ;;
  v <- in_reg ;; cpu (helper_wsr_ccount config period wnow now_of v) ;; out_reg tmp.

(** The macro of the same name: the exchange made of a write. *)
Definition gen_translate_xsr (wsr : srM unit) : srM unit :=
  tmp <- (if sr_name (P 0) then cpu_SR (P 0) else ret 0) ;; wsr ;; out_reg tmp.
End insn.
End translate.
