(* ===== verification/SrTable.v ===== *)
(** * The special-register instructions ([core_ops] of [target/xtensa/translate.c])

    The entries of the opcode table for RSR, WSR and XSR in the order of the
    source, what an entry does, and the facts that hold of the whole table. *)

From Stdlib Require Import Ascii.
From S2P Require Import Prelude Cpu Exception Window Tlb Mmu OpHelper Dbg TbFlags Control Arith.
From S2P Require Import SpecialReg.

#[local] Open Scope mach_scope.
#[local] Open Scope string_scope.
#[local] Open Scope Z_scope.

Abbreviation XTENSA_OP_CHECK_INTERRUPTS := 0x200 (only parsing).
Abbreviation XTENSA_OP_EXIT_TB_M1 := 0x400 (only parsing).
Abbreviation XTENSA_OP_EXIT_TB_0 := 0x800 (only parsing).
Abbreviation XTENSA_OP_SYNC_REGISTER_WINDOW := 0x1000 (only parsing).

(** The [.translate] and [.test_exceptions] functions of the entries. *)
Inductive sr_fn :=
| S_rsr | S_rsr_ccount | S_rsr_ptevaddr | S_wsr | S_wsr_acchi | S_wsr_ccompare
| S_wsr_ccount | S_wsr_dbreaka | S_wsr_dbreakc | S_wsr_ibreaka | S_wsr_ibreakenable
| S_wsr_icount | S_wsr_intclear | S_wsr_intset | S_wsr_mask | S_wsr_memctl | S_wsr_mpuenb
| S_wsr_ps | S_wsr_rasid | S_wsr_sar | S_wsr_windowbase | S_wsr_windowstart | S_xsr
| S_xsr_acchi | S_xsr_ccompare | S_xsr_ccount | S_xsr_dbreaka | S_xsr_dbreakc
| S_xsr_ibreaka | S_xsr_ibreakenable | S_xsr_icount | S_xsr_mask | S_xsr_memctl
| S_xsr_mpuenb | S_xsr_ps | S_xsr_rasid | S_xsr_sar | S_xsr_windowbase
| S_xsr_windowstart.

Inductive sr_test := E_sr | E_ccompare | E_dbreak | E_ibreak | E_hpi.

Record sr_op := mkSrOp { sr_opname : string; sr_translate : option sr_fn;
  sr_test_exceptions : option sr_test; sr_par : list Z; sr_op_flags : Z }.

Definition sr_ops_1 : list sr_op := [
  mkSrOp "rsr.176" (Some S_rsr) None [176] (XTENSA_OP_PRIVILEGED);
  mkSrOp "rsr.208" (Some S_rsr) None [208] (XTENSA_OP_PRIVILEGED);
  mkSrOp "rsr.acchi" (Some S_rsr) (Some E_sr) [ACCHI; option_number OPTION_MAC16] (0);
  mkSrOp "rsr.acclo" (Some S_rsr) (Some E_sr) [ACCLO; option_number OPTION_MAC16] (0);
  mkSrOp "rsr.atomctl" (Some S_rsr) (Some E_sr) [ATOMCTL; option_number OPTION_ATOMCTL] (XTENSA_OP_PRIVILEGED);
  mkSrOp "rsr.br" (Some S_rsr) (Some E_sr) [BR; option_number OPTION_BOOLEAN] (0);
  mkSrOp "rsr.cacheadrdis" (Some S_rsr) (Some E_sr) [CACHEADRDIS; option_number OPTION_MPU] (XTENSA_OP_PRIVILEGED);
  mkSrOp "rsr.cacheattr" (Some S_rsr) (Some E_sr) [CACHEATTR; option_number OPTION_CACHEATTR] (XTENSA_OP_PRIVILEGED);
  mkSrOp "rsr.ccompare0" (Some S_rsr) (Some E_ccompare) [CCOMPARE; option_number OPTION_TIMER_INTERRUPT] (XTENSA_OP_PRIVILEGED);
  mkSrOp "rsr.ccompare1" (Some S_rsr) (Some E_ccompare) [CCOMPARE + 1; option_number OPTION_TIMER_INTERRUPT] (XTENSA_OP_PRIVILEGED);
  mkSrOp "rsr.ccompare2" (Some S_rsr) (Some E_ccompare) [CCOMPARE + 2; option_number OPTION_TIMER_INTERRUPT] (XTENSA_OP_PRIVILEGED);
  mkSrOp "rsr.ccount" (Some S_rsr_ccount) (Some E_sr) [CCOUNT; option_number OPTION_TIMER_INTERRUPT] (XTENSA_OP_PRIVILEGED ||| XTENSA_OP_EXIT_TB_0);
  mkSrOp "rsr.configid0" (Some S_rsr) None [CONFIGID0] (XTENSA_OP_PRIVILEGED);
  mkSrOp "rsr.configid1" (Some S_rsr) None [CONFIGID1] (XTENSA_OP_PRIVILEGED);
  mkSrOp "rsr.cpenable" (Some S_rsr) (Some E_sr) [CPENABLE; option_number OPTION_COPROCESSOR] (XTENSA_OP_PRIVILEGED);
  mkSrOp "rsr.dbreaka0" (Some S_rsr) (Some E_dbreak) [DBREAKA; option_number OPTION_DEBUG] (XTENSA_OP_PRIVILEGED);
  mkSrOp "rsr.dbreaka1" (Some S_rsr) (Some E_dbreak) [DBREAKA + 1; option_number OPTION_DEBUG] (XTENSA_OP_PRIVILEGED);
  mkSrOp "rsr.dbreakc0" (Some S_rsr) (Some E_dbreak) [DBREAKC; option_number OPTION_DEBUG] (XTENSA_OP_PRIVILEGED)].

Definition sr_ops_2 : list sr_op := [
  mkSrOp "rsr.dbreakc1" (Some S_rsr) (Some E_dbreak) [DBREAKC + 1; option_number OPTION_DEBUG] (XTENSA_OP_PRIVILEGED);
  mkSrOp "rsr.ddr" (Some S_rsr) (Some E_sr) [DDR; option_number OPTION_DEBUG] (XTENSA_OP_PRIVILEGED);
  mkSrOp "rsr.debugcause" (Some S_rsr) (Some E_sr) [DEBUGCAUSE; option_number OPTION_DEBUG] (XTENSA_OP_PRIVILEGED);
  mkSrOp "rsr.depc" (Some S_rsr) (Some E_sr) [DEPC; option_number OPTION_EXCEPTION] (XTENSA_OP_PRIVILEGED);
  mkSrOp "rsr.dtlbcfg" (Some S_rsr) (Some E_sr) [DTLBCFG; option_number OPTION_MMU] (XTENSA_OP_PRIVILEGED);
  mkSrOp "rsr.epc1" (Some S_rsr) (Some E_sr) [EPC1; option_number OPTION_EXCEPTION] (XTENSA_OP_PRIVILEGED);
  mkSrOp "rsr.epc2" (Some S_rsr) (Some E_hpi) [EPC1 + 1; option_number OPTION_HIGH_PRIORITY_INTERRUPT] (XTENSA_OP_PRIVILEGED);
  mkSrOp "rsr.epc3" (Some S_rsr) (Some E_hpi) [EPC1 + 2; option_number OPTION_HIGH_PRIORITY_INTERRUPT] (XTENSA_OP_PRIVILEGED);
  mkSrOp "rsr.epc4" (Some S_rsr) (Some E_hpi) [EPC1 + 3; option_number OPTION_HIGH_PRIORITY_INTERRUPT] (XTENSA_OP_PRIVILEGED);
  mkSrOp "rsr.epc5" (Some S_rsr) (Some E_hpi) [EPC1 + 4; option_number OPTION_HIGH_PRIORITY_INTERRUPT] (XTENSA_OP_PRIVILEGED);
  mkSrOp "rsr.epc6" (Some S_rsr) (Some E_hpi) [EPC1 + 5; option_number OPTION_HIGH_PRIORITY_INTERRUPT] (XTENSA_OP_PRIVILEGED);
  mkSrOp "rsr.epc7" (Some S_rsr) (Some E_hpi) [EPC1 + 6; option_number OPTION_HIGH_PRIORITY_INTERRUPT] (XTENSA_OP_PRIVILEGED);
  mkSrOp "rsr.eps2" (Some S_rsr) (Some E_hpi) [EPS2; option_number OPTION_HIGH_PRIORITY_INTERRUPT] (XTENSA_OP_PRIVILEGED);
  mkSrOp "rsr.eps3" (Some S_rsr) (Some E_hpi) [EPS2 + 1; option_number OPTION_HIGH_PRIORITY_INTERRUPT] (XTENSA_OP_PRIVILEGED);
  mkSrOp "rsr.eps4" (Some S_rsr) (Some E_hpi) [EPS2 + 2; option_number OPTION_HIGH_PRIORITY_INTERRUPT] (XTENSA_OP_PRIVILEGED);
  mkSrOp "rsr.eps5" (Some S_rsr) (Some E_hpi) [EPS2 + 3; option_number OPTION_HIGH_PRIORITY_INTERRUPT] (XTENSA_OP_PRIVILEGED)].

Definition sr_ops_3 : list sr_op := [
  mkSrOp "rsr.eps6" (Some S_rsr) (Some E_hpi) [EPS2 + 4; option_number OPTION_HIGH_PRIORITY_INTERRUPT] (XTENSA_OP_PRIVILEGED);
  mkSrOp "rsr.eps7" (Some S_rsr) (Some E_hpi) [EPS2 + 5; option_number OPTION_HIGH_PRIORITY_INTERRUPT] (XTENSA_OP_PRIVILEGED);
  mkSrOp "rsr.eraccess" (Some S_rsr) None [ERACCESS] (XTENSA_OP_PRIVILEGED);
  mkSrOp "rsr.exccause" (Some S_rsr) (Some E_sr) [EXCCAUSE; option_number OPTION_EXCEPTION] (XTENSA_OP_PRIVILEGED);
  mkSrOp "rsr.excsave1" (Some S_rsr) (Some E_sr) [EXCSAVE1; option_number OPTION_EXCEPTION] (XTENSA_OP_PRIVILEGED);
  mkSrOp "rsr.excsave2" (Some S_rsr) (Some E_hpi) [EXCSAVE1 + 1; option_number OPTION_HIGH_PRIORITY_INTERRUPT] (XTENSA_OP_PRIVILEGED);
  mkSrOp "rsr.excsave3" (Some S_rsr) (Some E_hpi) [EXCSAVE1 + 2; option_number OPTION_HIGH_PRIORITY_INTERRUPT] (XTENSA_OP_PRIVILEGED);
  mkSrOp "rsr.excsave4" (Some S_rsr) (Some E_hpi) [EXCSAVE1 + 3; option_number OPTION_HIGH_PRIORITY_INTERRUPT] (XTENSA_OP_PRIVILEGED);
  mkSrOp "rsr.excsave5" (Some S_rsr) (Some E_hpi) [EXCSAVE1 + 4; option_number OPTION_HIGH_PRIORITY_INTERRUPT] (XTENSA_OP_PRIVILEGED);
  mkSrOp "rsr.excsave6" (Some S_rsr) (Some E_hpi) [EXCSAVE1 + 5; option_number OPTION_HIGH_PRIORITY_INTERRUPT] (XTENSA_OP_PRIVILEGED);
  mkSrOp "rsr.excsave7" (Some S_rsr) (Some E_hpi) [EXCSAVE1 + 6; option_number OPTION_HIGH_PRIORITY_INTERRUPT] (XTENSA_OP_PRIVILEGED);
  mkSrOp "rsr.excvaddr" (Some S_rsr) (Some E_sr) [EXCVADDR; option_number OPTION_EXCEPTION] (XTENSA_OP_PRIVILEGED);
  mkSrOp "rsr.ibreaka0" (Some S_rsr) (Some E_ibreak) [IBREAKA; option_number OPTION_DEBUG] (XTENSA_OP_PRIVILEGED);
  mkSrOp "rsr.ibreaka1" (Some S_rsr) (Some E_ibreak) [IBREAKA + 1; option_number OPTION_DEBUG] (XTENSA_OP_PRIVILEGED);
  mkSrOp "rsr.ibreakenable" (Some S_rsr) (Some E_sr) [IBREAKENABLE; option_number OPTION_DEBUG] (XTENSA_OP_PRIVILEGED);
  mkSrOp "rsr.icount" (Some S_rsr) (Some E_sr) [ICOUNT; option_number OPTION_DEBUG] (XTENSA_OP_PRIVILEGED)].

Definition sr_ops_4 : list sr_op := [
  mkSrOp "rsr.icountlevel" (Some S_rsr) (Some E_sr) [ICOUNTLEVEL; option_number OPTION_DEBUG] (XTENSA_OP_PRIVILEGED);
  mkSrOp "rsr.intclear" (Some S_rsr) (Some E_sr) [INTCLEAR; option_number OPTION_INTERRUPT] (XTENSA_OP_PRIVILEGED);
  mkSrOp "rsr.intenable" (Some S_rsr) (Some E_sr) [INTENABLE; option_number OPTION_INTERRUPT] (XTENSA_OP_PRIVILEGED);
  mkSrOp "rsr.interrupt" (Some S_rsr_ccount) (Some E_sr) [INTSET; option_number OPTION_INTERRUPT] (XTENSA_OP_PRIVILEGED ||| XTENSA_OP_EXIT_TB_0);
  mkSrOp "rsr.intset" (Some S_rsr_ccount) (Some E_sr) [INTSET; option_number OPTION_INTERRUPT] (XTENSA_OP_PRIVILEGED ||| XTENSA_OP_EXIT_TB_0);
  mkSrOp "rsr.itlbcfg" (Some S_rsr) (Some E_sr) [ITLBCFG; option_number OPTION_MMU] (XTENSA_OP_PRIVILEGED);
  mkSrOp "rsr.lbeg" (Some S_rsr) (Some E_sr) [LBEG; option_number OPTION_LOOP] (0);
  mkSrOp "rsr.lcount" (Some S_rsr) (Some E_sr) [LCOUNT; option_number OPTION_LOOP] (0);
  mkSrOp "rsr.lend" (Some S_rsr) (Some E_sr) [LEND; option_number OPTION_LOOP] (0);
  mkSrOp "rsr.litbase" (Some S_rsr) (Some E_sr) [LITBASE; option_number OPTION_EXTENDED_L32R] (0);
  mkSrOp "rsr.m0" (Some S_rsr) (Some E_sr) [MR; option_number OPTION_MAC16] (0);
  mkSrOp "rsr.m1" (Some S_rsr) (Some E_sr) [MR + 1; option_number OPTION_MAC16] (0);
  mkSrOp "rsr.m2" (Some S_rsr) (Some E_sr) [MR + 2; option_number OPTION_MAC16] (0);
  mkSrOp "rsr.m3" (Some S_rsr) (Some E_sr) [MR + 3; option_number OPTION_MAC16] (0);
  mkSrOp "rsr.memctl" (Some S_rsr) None [MEMCTL] (XTENSA_OP_PRIVILEGED);
  mkSrOp "rsr.mecr" (Some S_rsr) (Some E_sr) [MECR; option_number OPTION_MEMORY_ECC_PARITY] (XTENSA_OP_PRIVILEGED);
  mkSrOp "rsr.mepc" (Some S_rsr) (Some E_sr) [MEPC; option_number OPTION_MEMORY_ECC_PARITY] (XTENSA_OP_PRIVILEGED)].

Definition sr_ops_5 : list sr_op := [
  mkSrOp "rsr.meps" (Some S_rsr) (Some E_sr) [MEPS; option_number OPTION_MEMORY_ECC_PARITY] (XTENSA_OP_PRIVILEGED);
  mkSrOp "rsr.mesave" (Some S_rsr) (Some E_sr) [MESAVE; option_number OPTION_MEMORY_ECC_PARITY] (XTENSA_OP_PRIVILEGED);
  mkSrOp "rsr.mesr" (Some S_rsr) (Some E_sr) [MESR; option_number OPTION_MEMORY_ECC_PARITY] (XTENSA_OP_PRIVILEGED);
  mkSrOp "rsr.mevaddr" (Some S_rsr) (Some E_sr) [MESR; option_number OPTION_MEMORY_ECC_PARITY] (XTENSA_OP_PRIVILEGED);
  mkSrOp "rsr.misc0" (Some S_rsr) (Some E_sr) [MISC; option_number OPTION_MISC_SR] (XTENSA_OP_PRIVILEGED);
  mkSrOp "rsr.misc1" (Some S_rsr) (Some E_sr) [MISC + 1; option_number OPTION_MISC_SR] (XTENSA_OP_PRIVILEGED);
  mkSrOp "rsr.misc2" (Some S_rsr) (Some E_sr) [MISC + 2; option_number OPTION_MISC_SR] (XTENSA_OP_PRIVILEGED);
  mkSrOp "rsr.misc3" (Some S_rsr) (Some E_sr) [MISC + 3; option_number OPTION_MISC_SR] (XTENSA_OP_PRIVILEGED);
  mkSrOp "rsr.mpucfg" (Some S_rsr) (Some E_sr) [MPUCFG; option_number OPTION_MPU] (XTENSA_OP_PRIVILEGED);
  mkSrOp "rsr.mpuenb" (Some S_rsr) (Some E_sr) [MPUENB; option_number OPTION_MPU] (XTENSA_OP_PRIVILEGED);
  mkSrOp "rsr.prefctl" (Some S_rsr) None [PREFCTL] (0);
  mkSrOp "rsr.prid" (Some S_rsr) (Some E_sr) [PRID; option_number OPTION_PROCESSOR_ID] (XTENSA_OP_PRIVILEGED);
  mkSrOp "rsr.ps" (Some S_rsr) (Some E_sr) [PS; option_number OPTION_EXCEPTION] (XTENSA_OP_PRIVILEGED);
  mkSrOp "rsr.ptevaddr" (Some S_rsr_ptevaddr) (Some E_sr) [PTEVADDR; option_number OPTION_MMU] (XTENSA_OP_PRIVILEGED);
  mkSrOp "rsr.rasid" (Some S_rsr) (Some E_sr) [RASID; option_number OPTION_MMU] (XTENSA_OP_PRIVILEGED);
  mkSrOp "rsr.sar" (Some S_rsr) None [SAR] (0);
  mkSrOp "rsr.scompare1" (Some S_rsr) (Some E_sr) [SCOMPARE1; option_number OPTION_CONDITIONAL_STORE] (0)].

Definition sr_ops_6 : list sr_op := [
  mkSrOp "rsr.vecbase" (Some S_rsr) (Some E_sr) [VECBASE; option_number OPTION_RELOCATABLE_VECTOR] (XTENSA_OP_PRIVILEGED);
  mkSrOp "rsr.windowbase" (Some S_rsr) (Some E_sr) [WINDOW_BASE; option_number OPTION_WINDOWED_REGISTER] (XTENSA_OP_PRIVILEGED);
  mkSrOp "rsr.windowstart" (Some S_rsr) (Some E_sr) [WINDOW_START; option_number OPTION_WINDOWED_REGISTER] (XTENSA_OP_PRIVILEGED)].

Definition sr_ops_7 : list sr_op := [
  mkSrOp "wsr.176" None None [] (XTENSA_OP_ILL);
  mkSrOp "wsr.208" None None [] (XTENSA_OP_ILL);
  mkSrOp "wsr.acchi" (Some S_wsr_acchi) (Some E_sr) [ACCHI; option_number OPTION_MAC16] (0);
  mkSrOp "wsr.acclo" (Some S_wsr) (Some E_sr) [ACCLO; option_number OPTION_MAC16] (0);
  mkSrOp "wsr.atomctl" (Some S_wsr_mask) (Some E_sr) [ATOMCTL; option_number OPTION_ATOMCTL; 0x3f] (XTENSA_OP_PRIVILEGED);
  mkSrOp "wsr.br" (Some S_wsr_mask) (Some E_sr) [BR; option_number OPTION_BOOLEAN; 0xffff] (0);
  mkSrOp "wsr.cacheadrdis" (Some S_wsr_mask) (Some E_sr) [CACHEADRDIS; option_number OPTION_MPU; 0xff] (XTENSA_OP_PRIVILEGED);
  mkSrOp "wsr.cacheattr" (Some S_wsr) (Some E_sr) [CACHEATTR; option_number OPTION_CACHEATTR] (XTENSA_OP_PRIVILEGED);
  mkSrOp "wsr.ccompare0" (Some S_wsr_ccompare) (Some E_ccompare) [CCOMPARE; option_number OPTION_TIMER_INTERRUPT] (XTENSA_OP_PRIVILEGED ||| XTENSA_OP_EXIT_TB_0);
  mkSrOp "wsr.ccompare1" (Some S_wsr_ccompare) (Some E_ccompare) [CCOMPARE + 1; option_number OPTION_TIMER_INTERRUPT] (XTENSA_OP_PRIVILEGED ||| XTENSA_OP_EXIT_TB_0);
  mkSrOp "wsr.ccompare2" (Some S_wsr_ccompare) (Some E_ccompare) [CCOMPARE + 2; option_number OPTION_TIMER_INTERRUPT] (XTENSA_OP_PRIVILEGED ||| XTENSA_OP_EXIT_TB_0);
  mkSrOp "wsr.ccount" (Some S_wsr_ccount) (Some E_sr) [CCOUNT; option_number OPTION_TIMER_INTERRUPT] (XTENSA_OP_PRIVILEGED ||| XTENSA_OP_EXIT_TB_0);
  mkSrOp "wsr.configid0" None None [] (XTENSA_OP_ILL);
  mkSrOp "wsr.configid1" None None [] (XTENSA_OP_ILL);
  mkSrOp "wsr.cpenable" (Some S_wsr_mask) (Some E_sr) [CPENABLE; option_number OPTION_COPROCESSOR; 0xff] (XTENSA_OP_PRIVILEGED ||| XTENSA_OP_EXIT_TB_M1);
  mkSrOp "wsr.dbreaka0" (Some S_wsr_dbreaka) (Some E_dbreak) [DBREAKA; option_number OPTION_DEBUG] (XTENSA_OP_PRIVILEGED);
  mkSrOp "wsr.dbreaka1" (Some S_wsr_dbreaka) (Some E_dbreak) [DBREAKA + 1; option_number OPTION_DEBUG] (XTENSA_OP_PRIVILEGED);
  mkSrOp "wsr.dbreakc0" (Some S_wsr_dbreakc) (Some E_dbreak) [DBREAKC; option_number OPTION_DEBUG] (XTENSA_OP_PRIVILEGED);
  mkSrOp "wsr.dbreakc1" (Some S_wsr_dbreakc) (Some E_dbreak) [DBREAKC + 1; option_number OPTION_DEBUG] (XTENSA_OP_PRIVILEGED)].

Definition sr_ops_8 : list sr_op := [
  mkSrOp "wsr.ddr" (Some S_wsr) (Some E_sr) [DDR; option_number OPTION_DEBUG] (XTENSA_OP_PRIVILEGED);
  mkSrOp "wsr.debugcause" None None [] (XTENSA_OP_ILL);
  mkSrOp "wsr.depc" (Some S_wsr) (Some E_sr) [DEPC; option_number OPTION_EXCEPTION] (XTENSA_OP_PRIVILEGED);
  mkSrOp "wsr.dtlbcfg" (Some S_wsr_mask) (Some E_sr) [DTLBCFG; option_number OPTION_MMU; 0x01130000] (XTENSA_OP_PRIVILEGED);
  mkSrOp "wsr.epc1" (Some S_wsr) (Some E_sr) [EPC1; option_number OPTION_EXCEPTION] (XTENSA_OP_PRIVILEGED);
  mkSrOp "wsr.epc2" (Some S_wsr) (Some E_hpi) [EPC1 + 1; option_number OPTION_HIGH_PRIORITY_INTERRUPT] (XTENSA_OP_PRIVILEGED);
  mkSrOp "wsr.epc3" (Some S_wsr) (Some E_hpi) [EPC1 + 2; option_number OPTION_HIGH_PRIORITY_INTERRUPT] (XTENSA_OP_PRIVILEGED);
  mkSrOp "wsr.epc4" (Some S_wsr) (Some E_hpi) [EPC1 + 3; option_number OPTION_HIGH_PRIORITY_INTERRUPT] (XTENSA_OP_PRIVILEGED);
  mkSrOp "wsr.epc5" (Some S_wsr) (Some E_hpi) [EPC1 + 4; option_number OPTION_HIGH_PRIORITY_INTERRUPT] (XTENSA_OP_PRIVILEGED);
  mkSrOp "wsr.epc6" (Some S_wsr) (Some E_hpi) [EPC1 + 5; option_number OPTION_HIGH_PRIORITY_INTERRUPT] (XTENSA_OP_PRIVILEGED);
  mkSrOp "wsr.epc7" (Some S_wsr) (Some E_hpi) [EPC1 + 6; option_number OPTION_HIGH_PRIORITY_INTERRUPT] (XTENSA_OP_PRIVILEGED);
  mkSrOp "wsr.eps2" (Some S_wsr) (Some E_hpi) [EPS2; option_number OPTION_HIGH_PRIORITY_INTERRUPT] (XTENSA_OP_PRIVILEGED);
  mkSrOp "wsr.eps3" (Some S_wsr) (Some E_hpi) [EPS2 + 1; option_number OPTION_HIGH_PRIORITY_INTERRUPT] (XTENSA_OP_PRIVILEGED);
  mkSrOp "wsr.eps4" (Some S_wsr) (Some E_hpi) [EPS2 + 2; option_number OPTION_HIGH_PRIORITY_INTERRUPT] (XTENSA_OP_PRIVILEGED);
  mkSrOp "wsr.eps5" (Some S_wsr) (Some E_hpi) [EPS2 + 3; option_number OPTION_HIGH_PRIORITY_INTERRUPT] (XTENSA_OP_PRIVILEGED);
  mkSrOp "wsr.eps6" (Some S_wsr) (Some E_hpi) [EPS2 + 4; option_number OPTION_HIGH_PRIORITY_INTERRUPT] (XTENSA_OP_PRIVILEGED);
  mkSrOp "wsr.eps7" (Some S_wsr) (Some E_hpi) [EPS2 + 5; option_number OPTION_HIGH_PRIORITY_INTERRUPT] (XTENSA_OP_PRIVILEGED)].

Definition sr_ops_9 : list sr_op := [
  mkSrOp "wsr.eraccess" (Some S_wsr_mask) None [ERACCESS; 0; 0xffff] (XTENSA_OP_PRIVILEGED);
  mkSrOp "wsr.exccause" (Some S_wsr) (Some E_sr) [EXCCAUSE; option_number OPTION_EXCEPTION] (XTENSA_OP_PRIVILEGED);
  mkSrOp "wsr.excsave1" (Some S_wsr) (Some E_sr) [EXCSAVE1; option_number OPTION_EXCEPTION] (XTENSA_OP_PRIVILEGED);
  mkSrOp "wsr.excsave2" (Some S_wsr) (Some E_hpi) [EXCSAVE1 + 1; option_number OPTION_HIGH_PRIORITY_INTERRUPT] (XTENSA_OP_PRIVILEGED);
  mkSrOp "wsr.excsave3" (Some S_wsr) (Some E_hpi) [EXCSAVE1 + 2; option_number OPTION_HIGH_PRIORITY_INTERRUPT] (XTENSA_OP_PRIVILEGED);
  mkSrOp "wsr.excsave4" (Some S_wsr) (Some E_hpi) [EXCSAVE1 + 3; option_number OPTION_HIGH_PRIORITY_INTERRUPT] (XTENSA_OP_PRIVILEGED);
  mkSrOp "wsr.excsave5" (Some S_wsr) (Some E_hpi) [EXCSAVE1 + 4; option_number OPTION_HIGH_PRIORITY_INTERRUPT] (XTENSA_OP_PRIVILEGED);
  mkSrOp "wsr.excsave6" (Some S_wsr) (Some E_hpi) [EXCSAVE1 + 5; option_number OPTION_HIGH_PRIORITY_INTERRUPT] (XTENSA_OP_PRIVILEGED);
  mkSrOp "wsr.excsave7" (Some S_wsr) (Some E_hpi) [EXCSAVE1 + 6; option_number OPTION_HIGH_PRIORITY_INTERRUPT] (XTENSA_OP_PRIVILEGED);
  mkSrOp "wsr.excvaddr" (Some S_wsr) (Some E_sr) [EXCVADDR; option_number OPTION_EXCEPTION] (XTENSA_OP_PRIVILEGED);
  mkSrOp "wsr.ibreaka0" (Some S_wsr_ibreaka) (Some E_ibreak) [IBREAKA; option_number OPTION_DEBUG] (XTENSA_OP_PRIVILEGED ||| XTENSA_OP_EXIT_TB_0);
  mkSrOp "wsr.ibreaka1" (Some S_wsr_ibreaka) (Some E_ibreak) [IBREAKA + 1; option_number OPTION_DEBUG] (XTENSA_OP_PRIVILEGED ||| XTENSA_OP_EXIT_TB_0);
  mkSrOp "wsr.ibreakenable" (Some S_wsr_ibreakenable) (Some E_sr) [IBREAKENABLE; option_number OPTION_DEBUG] (XTENSA_OP_PRIVILEGED ||| XTENSA_OP_EXIT_TB_0);
  mkSrOp "wsr.icount" (Some S_wsr_icount) (Some E_sr) [ICOUNT; option_number OPTION_DEBUG] (XTENSA_OP_PRIVILEGED);
  mkSrOp "wsr.icountlevel" (Some S_wsr_mask) (Some E_sr) [ICOUNTLEVEL; option_number OPTION_DEBUG; 0xf] (XTENSA_OP_PRIVILEGED ||| XTENSA_OP_EXIT_TB_M1);
  mkSrOp "wsr.intclear" (Some S_wsr_intclear) (Some E_sr) [INTCLEAR; option_number OPTION_INTERRUPT] (XTENSA_OP_PRIVILEGED ||| XTENSA_OP_EXIT_TB_0 ||| XTENSA_OP_CHECK_INTERRUPTS)].

Definition sr_ops_10 : list sr_op := [
  mkSrOp "wsr.intenable" (Some S_wsr) (Some E_sr) [INTENABLE; option_number OPTION_INTERRUPT] (XTENSA_OP_PRIVILEGED ||| XTENSA_OP_EXIT_TB_0 ||| XTENSA_OP_CHECK_INTERRUPTS);
  mkSrOp "wsr.interrupt" (Some S_wsr) (Some E_sr) [INTSET; option_number OPTION_INTERRUPT] (XTENSA_OP_PRIVILEGED ||| XTENSA_OP_EXIT_TB_0 ||| XTENSA_OP_CHECK_INTERRUPTS);
  mkSrOp "wsr.intset" (Some S_wsr_intset) (Some E_sr) [INTSET; option_number OPTION_INTERRUPT] (XTENSA_OP_PRIVILEGED ||| XTENSA_OP_EXIT_TB_0 ||| XTENSA_OP_CHECK_INTERRUPTS);
  mkSrOp "wsr.itlbcfg" (Some S_wsr_mask) (Some E_sr) [ITLBCFG; option_number OPTION_MMU; 0x01130000] (XTENSA_OP_PRIVILEGED);
  mkSrOp "wsr.lbeg" (Some S_wsr) (Some E_sr) [LBEG; option_number OPTION_LOOP] (XTENSA_OP_EXIT_TB_M1);
  mkSrOp "wsr.lcount" (Some S_wsr) (Some E_sr) [LCOUNT; option_number OPTION_LOOP] (0);
  mkSrOp "wsr.lend" (Some S_wsr) (Some E_sr) [LEND; option_number OPTION_LOOP] (XTENSA_OP_EXIT_TB_M1);
  mkSrOp "wsr.litbase" (Some S_wsr_mask) (Some E_sr) [LITBASE; option_number OPTION_EXTENDED_L32R; 0xfffff001] (XTENSA_OP_EXIT_TB_M1);
  mkSrOp "wsr.m0" (Some S_wsr) (Some E_sr) [MR; option_number OPTION_MAC16] (0);
  mkSrOp "wsr.m1" (Some S_wsr) (Some E_sr) [MR + 1; option_number OPTION_MAC16] (0);
  mkSrOp "wsr.m2" (Some S_wsr) (Some E_sr) [MR + 2; option_number OPTION_MAC16] (0);
  mkSrOp "wsr.m3" (Some S_wsr) (Some E_sr) [MR + 3; option_number OPTION_MAC16] (0);
  mkSrOp "wsr.memctl" (Some S_wsr_memctl) None [MEMCTL] (XTENSA_OP_PRIVILEGED);
  mkSrOp "wsr.mecr" (Some S_wsr) (Some E_sr) [MECR; option_number OPTION_MEMORY_ECC_PARITY] (XTENSA_OP_PRIVILEGED);
  mkSrOp "wsr.mepc" (Some S_wsr) (Some E_sr) [MEPC; option_number OPTION_MEMORY_ECC_PARITY] (XTENSA_OP_PRIVILEGED);
  mkSrOp "wsr.meps" (Some S_wsr) (Some E_sr) [MEPS; option_number OPTION_MEMORY_ECC_PARITY] (XTENSA_OP_PRIVILEGED)].

Definition sr_ops_11 : list sr_op := [
  mkSrOp "wsr.mesave" (Some S_wsr) (Some E_sr) [MESAVE; option_number OPTION_MEMORY_ECC_PARITY] (XTENSA_OP_PRIVILEGED);
  mkSrOp "wsr.mesr" (Some S_wsr) (Some E_sr) [MESR; option_number OPTION_MEMORY_ECC_PARITY] (XTENSA_OP_PRIVILEGED);
  mkSrOp "wsr.mevaddr" (Some S_wsr) (Some E_sr) [MESR; option_number OPTION_MEMORY_ECC_PARITY] (XTENSA_OP_PRIVILEGED);
  mkSrOp "wsr.misc0" (Some S_wsr) (Some E_sr) [MISC; option_number OPTION_MISC_SR] (XTENSA_OP_PRIVILEGED);
  mkSrOp "wsr.misc1" (Some S_wsr) (Some E_sr) [MISC + 1; option_number OPTION_MISC_SR] (XTENSA_OP_PRIVILEGED);
  mkSrOp "wsr.misc2" (Some S_wsr) (Some E_sr) [MISC + 2; option_number OPTION_MISC_SR] (XTENSA_OP_PRIVILEGED);
  mkSrOp "wsr.misc3" (Some S_wsr) (Some E_sr) [MISC + 3; option_number OPTION_MISC_SR] (XTENSA_OP_PRIVILEGED);
  mkSrOp "wsr.mmid" (Some S_wsr) (Some E_sr) [MMID; option_number OPTION_TRACE_PORT] (XTENSA_OP_PRIVILEGED);
  mkSrOp "wsr.mpuenb" (Some S_wsr_mpuenb) (Some E_sr) [MPUENB; option_number OPTION_MPU] (XTENSA_OP_PRIVILEGED ||| XTENSA_OP_EXIT_TB_M1);
  mkSrOp "wsr.prefctl" (Some S_wsr) None [PREFCTL] (0);
  mkSrOp "wsr.prid" None None [] (XTENSA_OP_ILL);
  mkSrOp "wsr.ps" (Some S_wsr_ps) (Some E_sr) [PS; option_number OPTION_EXCEPTION] (XTENSA_OP_PRIVILEGED ||| XTENSA_OP_EXIT_TB_M1 ||| XTENSA_OP_CHECK_INTERRUPTS);
  mkSrOp "wsr.ptevaddr" (Some S_wsr_mask) (Some E_sr) [PTEVADDR; option_number OPTION_MMU; 0xffc00000] (XTENSA_OP_PRIVILEGED);
  mkSrOp "wsr.rasid" (Some S_wsr_rasid) (Some E_sr) [RASID; option_number OPTION_MMU] (XTENSA_OP_PRIVILEGED ||| XTENSA_OP_EXIT_TB_M1);
  mkSrOp "wsr.sar" (Some S_wsr_sar) None [SAR] (0);
  mkSrOp "wsr.scompare1" (Some S_wsr) (Some E_sr) [SCOMPARE1; option_number OPTION_CONDITIONAL_STORE] (0);
  mkSrOp "wsr.vecbase" (Some S_wsr) (Some E_sr) [VECBASE; option_number OPTION_RELOCATABLE_VECTOR] (XTENSA_OP_PRIVILEGED)].

Definition sr_ops_12 : list sr_op := [
  mkSrOp "wsr.windowbase" (Some S_wsr_windowbase) (Some E_sr) [WINDOW_BASE; option_number OPTION_WINDOWED_REGISTER] (XTENSA_OP_PRIVILEGED ||| XTENSA_OP_EXIT_TB_M1 ||| XTENSA_OP_SYNC_REGISTER_WINDOW);
  mkSrOp "wsr.windowstart" (Some S_wsr_windowstart) (Some E_sr) [WINDOW_START; option_number OPTION_WINDOWED_REGISTER] (XTENSA_OP_PRIVILEGED ||| XTENSA_OP_EXIT_TB_M1)].

Definition sr_ops_13 : list sr_op := [
  mkSrOp "xsr.176" None None [] (XTENSA_OP_ILL);
  mkSrOp "xsr.208" None None [] (XTENSA_OP_ILL);
  mkSrOp "xsr.acchi" (Some S_xsr_acchi) (Some E_sr) [ACCHI; option_number OPTION_MAC16] (0);
  mkSrOp "xsr.acclo" (Some S_xsr) (Some E_sr) [ACCLO; option_number OPTION_MAC16] (0);
  mkSrOp "xsr.atomctl" (Some S_xsr_mask) (Some E_sr) [ATOMCTL; option_number OPTION_ATOMCTL; 0x3f] (XTENSA_OP_PRIVILEGED);
  mkSrOp "xsr.br" (Some S_xsr_mask) (Some E_sr) [BR; option_number OPTION_BOOLEAN; 0xffff] (0);
  mkSrOp "xsr.cacheadrdis" (Some S_xsr_mask) (Some E_sr) [CACHEADRDIS; option_number OPTION_MPU; 0xff] (XTENSA_OP_PRIVILEGED);
  mkSrOp "xsr.cacheattr" (Some S_xsr) (Some E_sr) [CACHEATTR; option_number OPTION_CACHEATTR] (XTENSA_OP_PRIVILEGED);
  mkSrOp "xsr.ccompare0" (Some S_xsr_ccompare) (Some E_ccompare) [CCOMPARE; option_number OPTION_TIMER_INTERRUPT] (XTENSA_OP_PRIVILEGED ||| XTENSA_OP_EXIT_TB_0);
  mkSrOp "xsr.ccompare1" (Some S_xsr_ccompare) (Some E_ccompare) [CCOMPARE + 1; option_number OPTION_TIMER_INTERRUPT] (XTENSA_OP_PRIVILEGED ||| XTENSA_OP_EXIT_TB_0);
  mkSrOp "xsr.ccompare2" (Some S_xsr_ccompare) (Some E_ccompare) [CCOMPARE + 2; option_number OPTION_TIMER_INTERRUPT] (XTENSA_OP_PRIVILEGED ||| XTENSA_OP_EXIT_TB_0);
  mkSrOp "xsr.ccount" (Some S_xsr_ccount) (Some E_sr) [CCOUNT; option_number OPTION_TIMER_INTERRUPT] (XTENSA_OP_PRIVILEGED ||| XTENSA_OP_EXIT_TB_0);
  mkSrOp "xsr.configid0" None None [] (XTENSA_OP_ILL);
  mkSrOp "xsr.configid1" None None [] (XTENSA_OP_ILL);
  mkSrOp "xsr.cpenable" (Some S_xsr_mask) (Some E_sr) [CPENABLE; option_number OPTION_COPROCESSOR; 0xff] (XTENSA_OP_PRIVILEGED ||| XTENSA_OP_EXIT_TB_M1);
  mkSrOp "xsr.dbreaka0" (Some S_xsr_dbreaka) (Some E_dbreak) [DBREAKA; option_number OPTION_DEBUG] (XTENSA_OP_PRIVILEGED);
  mkSrOp "xsr.dbreaka1" (Some S_xsr_dbreaka) (Some E_dbreak) [DBREAKA + 1; option_number OPTION_DEBUG] (XTENSA_OP_PRIVILEGED);
  mkSrOp "xsr.dbreakc0" (Some S_xsr_dbreakc) (Some E_dbreak) [DBREAKC; option_number OPTION_DEBUG] (XTENSA_OP_PRIVILEGED);
  mkSrOp "xsr.dbreakc1" (Some S_xsr_dbreakc) (Some E_dbreak) [DBREAKC + 1; option_number OPTION_DEBUG] (XTENSA_OP_PRIVILEGED)].

Definition sr_ops_14 : list sr_op := [
  mkSrOp "xsr.ddr" (Some S_xsr) (Some E_sr) [DDR; option_number OPTION_DEBUG] (XTENSA_OP_PRIVILEGED);
  mkSrOp "xsr.debugcause" None None [] (XTENSA_OP_ILL);
  mkSrOp "xsr.depc" (Some S_xsr) (Some E_sr) [DEPC; option_number OPTION_EXCEPTION] (XTENSA_OP_PRIVILEGED);
  mkSrOp "xsr.dtlbcfg" (Some S_xsr_mask) (Some E_sr) [DTLBCFG; option_number OPTION_MMU; 0x01130000] (XTENSA_OP_PRIVILEGED);
  mkSrOp "xsr.epc1" (Some S_xsr) (Some E_sr) [EPC1; option_number OPTION_EXCEPTION] (XTENSA_OP_PRIVILEGED);
  mkSrOp "xsr.epc2" (Some S_xsr) (Some E_hpi) [EPC1 + 1; option_number OPTION_HIGH_PRIORITY_INTERRUPT] (XTENSA_OP_PRIVILEGED);
  mkSrOp "xsr.epc3" (Some S_xsr) (Some E_hpi) [EPC1 + 2; option_number OPTION_HIGH_PRIORITY_INTERRUPT] (XTENSA_OP_PRIVILEGED);
  mkSrOp "xsr.epc4" (Some S_xsr) (Some E_hpi) [EPC1 + 3; option_number OPTION_HIGH_PRIORITY_INTERRUPT] (XTENSA_OP_PRIVILEGED);
  mkSrOp "xsr.epc5" (Some S_xsr) (Some E_hpi) [EPC1 + 4; option_number OPTION_HIGH_PRIORITY_INTERRUPT] (XTENSA_OP_PRIVILEGED);
  mkSrOp "xsr.epc6" (Some S_xsr) (Some E_hpi) [EPC1 + 5; option_number OPTION_HIGH_PRIORITY_INTERRUPT] (XTENSA_OP_PRIVILEGED);
  mkSrOp "xsr.epc7" (Some S_xsr) (Some E_hpi) [EPC1 + 6; option_number OPTION_HIGH_PRIORITY_INTERRUPT] (XTENSA_OP_PRIVILEGED);
  mkSrOp "xsr.eps2" (Some S_xsr) (Some E_hpi) [EPS2; option_number OPTION_HIGH_PRIORITY_INTERRUPT] (XTENSA_OP_PRIVILEGED);
  mkSrOp "xsr.eps3" (Some S_xsr) (Some E_hpi) [EPS2 + 1; option_number OPTION_HIGH_PRIORITY_INTERRUPT] (XTENSA_OP_PRIVILEGED);
  mkSrOp "xsr.eps4" (Some S_xsr) (Some E_hpi) [EPS2 + 2; option_number OPTION_HIGH_PRIORITY_INTERRUPT] (XTENSA_OP_PRIVILEGED);
  mkSrOp "xsr.eps5" (Some S_xsr) (Some E_hpi) [EPS2 + 3; option_number OPTION_HIGH_PRIORITY_INTERRUPT] (XTENSA_OP_PRIVILEGED);
  mkSrOp "xsr.eps6" (Some S_xsr) (Some E_hpi) [EPS2 + 4; option_number OPTION_HIGH_PRIORITY_INTERRUPT] (XTENSA_OP_PRIVILEGED);
  mkSrOp "xsr.eps7" (Some S_xsr) (Some E_hpi) [EPS2 + 5; option_number OPTION_HIGH_PRIORITY_INTERRUPT] (XTENSA_OP_PRIVILEGED)].

Definition sr_ops_15 : list sr_op := [
  mkSrOp "xsr.eraccess" (Some S_xsr_mask) None [ERACCESS; 0; 0xffff] (XTENSA_OP_PRIVILEGED);
  mkSrOp "xsr.exccause" (Some S_xsr) (Some E_sr) [EXCCAUSE; option_number OPTION_EXCEPTION] (XTENSA_OP_PRIVILEGED);
  mkSrOp "xsr.excsave1" (Some S_xsr) (Some E_sr) [EXCSAVE1; option_number OPTION_EXCEPTION] (XTENSA_OP_PRIVILEGED);
  mkSrOp "xsr.excsave2" (Some S_xsr) (Some E_hpi) [EXCSAVE1 + 1; option_number OPTION_HIGH_PRIORITY_INTERRUPT] (XTENSA_OP_PRIVILEGED);
  mkSrOp "xsr.excsave3" (Some S_xsr) (Some E_hpi) [EXCSAVE1 + 2; option_number OPTION_HIGH_PRIORITY_INTERRUPT] (XTENSA_OP_PRIVILEGED);
  mkSrOp "xsr.excsave4" (Some S_xsr) (Some E_hpi) [EXCSAVE1 + 3; option_number OPTION_HIGH_PRIORITY_INTERRUPT] (XTENSA_OP_PRIVILEGED);
  mkSrOp "xsr.excsave5" (Some S_xsr) (Some E_hpi) [EXCSAVE1 + 4; option_number OPTION_HIGH_PRIORITY_INTERRUPT] (XTENSA_OP_PRIVILEGED);
  mkSrOp "xsr.excsave6" (Some S_xsr) (Some E_hpi) [EXCSAVE1 + 5; option_number OPTION_HIGH_PRIORITY_INTERRUPT] (XTENSA_OP_PRIVILEGED);
  mkSrOp "xsr.excsave7" (Some S_xsr) (Some E_hpi) [EXCSAVE1 + 6; option_number OPTION_HIGH_PRIORITY_INTERRUPT] (XTENSA_OP_PRIVILEGED);
  mkSrOp "xsr.excvaddr" (Some S_xsr) (Some E_sr) [EXCVADDR; option_number OPTION_EXCEPTION] (XTENSA_OP_PRIVILEGED);
  mkSrOp "xsr.ibreaka0" (Some S_xsr_ibreaka) (Some E_ibreak) [IBREAKA; option_number OPTION_DEBUG] (XTENSA_OP_PRIVILEGED ||| XTENSA_OP_EXIT_TB_0);
  mkSrOp "xsr.ibreaka1" (Some S_xsr_ibreaka) (Some E_ibreak) [IBREAKA + 1; option_number OPTION_DEBUG] (XTENSA_OP_PRIVILEGED ||| XTENSA_OP_EXIT_TB_0);
  mkSrOp "xsr.ibreakenable" (Some S_xsr_ibreakenable) (Some E_sr) [IBREAKENABLE; option_number OPTION_DEBUG] (XTENSA_OP_PRIVILEGED ||| XTENSA_OP_EXIT_TB_0);
  mkSrOp "xsr.icount" (Some S_xsr_icount) (Some E_sr) [ICOUNT; option_number OPTION_DEBUG] (XTENSA_OP_PRIVILEGED);
  mkSrOp "xsr.icountlevel" (Some S_xsr_mask) (Some E_sr) [ICOUNTLEVEL; option_number OPTION_DEBUG; 0xf] (XTENSA_OP_PRIVILEGED ||| XTENSA_OP_EXIT_TB_M1);
  mkSrOp "xsr.intclear" None None [] (XTENSA_OP_ILL)].

Definition sr_ops_16 : list sr_op := [
  mkSrOp "xsr.intenable" (Some S_xsr) (Some E_sr) [INTENABLE; option_number OPTION_INTERRUPT] (XTENSA_OP_PRIVILEGED ||| XTENSA_OP_EXIT_TB_0 ||| XTENSA_OP_CHECK_INTERRUPTS);
  mkSrOp "xsr.interrupt" None None [] (XTENSA_OP_ILL);
  mkSrOp "xsr.intset" None None [] (XTENSA_OP_ILL);
  mkSrOp "xsr.itlbcfg" (Some S_xsr_mask) (Some E_sr) [ITLBCFG; option_number OPTION_MMU; 0x01130000] (XTENSA_OP_PRIVILEGED);
  mkSrOp "xsr.lbeg" (Some S_xsr) (Some E_sr) [LBEG; option_number OPTION_LOOP] (XTENSA_OP_EXIT_TB_M1);
  mkSrOp "xsr.lcount" (Some S_xsr) (Some E_sr) [LCOUNT; option_number OPTION_LOOP] (0);
  mkSrOp "xsr.lend" (Some S_xsr) (Some E_sr) [LEND; option_number OPTION_LOOP] (XTENSA_OP_EXIT_TB_M1);
  mkSrOp "xsr.litbase" (Some S_xsr_mask) (Some E_sr) [LITBASE; option_number OPTION_EXTENDED_L32R; 0xfffff001] (XTENSA_OP_EXIT_TB_M1);
  mkSrOp "xsr.m0" (Some S_xsr) (Some E_sr) [MR; option_number OPTION_MAC16] (0);
  mkSrOp "xsr.m1" (Some S_xsr) (Some E_sr) [MR + 1; option_number OPTION_MAC16] (0);
  mkSrOp "xsr.m2" (Some S_xsr) (Some E_sr) [MR + 2; option_number OPTION_MAC16] (0);
  mkSrOp "xsr.m3" (Some S_xsr) (Some E_sr) [MR + 3; option_number OPTION_MAC16] (0);
  mkSrOp "xsr.memctl" (Some S_xsr_memctl) None [MEMCTL] (XTENSA_OP_PRIVILEGED);
  mkSrOp "xsr.mecr" (Some S_xsr) (Some E_sr) [MECR; option_number OPTION_MEMORY_ECC_PARITY] (XTENSA_OP_PRIVILEGED);
  mkSrOp "xsr.mepc" (Some S_xsr) (Some E_sr) [MEPC; option_number OPTION_MEMORY_ECC_PARITY] (XTENSA_OP_PRIVILEGED);
  mkSrOp "xsr.meps" (Some S_xsr) (Some E_sr) [MEPS; option_number OPTION_MEMORY_ECC_PARITY] (XTENSA_OP_PRIVILEGED);
  mkSrOp "xsr.mesave" (Some S_xsr) (Some E_sr) [MESAVE; option_number OPTION_MEMORY_ECC_PARITY] (XTENSA_OP_PRIVILEGED);
  mkSrOp "xsr.mesr" (Some S_xsr) (Some E_sr) [MESR; option_number OPTION_MEMORY_ECC_PARITY] (XTENSA_OP_PRIVILEGED)].

Definition sr_ops_17 : list sr_op := [
  mkSrOp "xsr.mevaddr" (Some S_xsr) (Some E_sr) [MESR; option_number OPTION_MEMORY_ECC_PARITY] (XTENSA_OP_PRIVILEGED);
  mkSrOp "xsr.misc0" (Some S_xsr) (Some E_sr) [MISC; option_number OPTION_MISC_SR] (XTENSA_OP_PRIVILEGED);
  mkSrOp "xsr.misc1" (Some S_xsr) (Some E_sr) [MISC + 1; option_number OPTION_MISC_SR] (XTENSA_OP_PRIVILEGED);
  mkSrOp "xsr.misc2" (Some S_xsr) (Some E_sr) [MISC + 2; option_number OPTION_MISC_SR] (XTENSA_OP_PRIVILEGED);
  mkSrOp "xsr.misc3" (Some S_xsr) (Some E_sr) [MISC + 3; option_number OPTION_MISC_SR] (XTENSA_OP_PRIVILEGED);
  mkSrOp "xsr.mpuenb" (Some S_xsr_mpuenb) (Some E_sr) [MPUENB; option_number OPTION_MPU] (XTENSA_OP_PRIVILEGED ||| XTENSA_OP_EXIT_TB_M1);
  mkSrOp "xsr.prefctl" (Some S_xsr) None [PREFCTL] (0);
  mkSrOp "xsr.prid" None None [] (XTENSA_OP_ILL);
  mkSrOp "xsr.ps" (Some S_xsr_ps) (Some E_sr) [PS; option_number OPTION_EXCEPTION] (XTENSA_OP_PRIVILEGED ||| XTENSA_OP_EXIT_TB_M1 ||| XTENSA_OP_CHECK_INTERRUPTS);
  mkSrOp "xsr.ptevaddr" (Some S_xsr_mask) (Some E_sr) [PTEVADDR; option_number OPTION_MMU; 0xffc00000] (XTENSA_OP_PRIVILEGED);
  mkSrOp "xsr.rasid" (Some S_xsr_rasid) (Some E_sr) [RASID; option_number OPTION_MMU] (XTENSA_OP_PRIVILEGED ||| XTENSA_OP_EXIT_TB_M1);
  mkSrOp "xsr.sar" (Some S_xsr_sar) None [SAR] (0);
  mkSrOp "xsr.scompare1" (Some S_xsr) (Some E_sr) [SCOMPARE1; option_number OPTION_CONDITIONAL_STORE] (0);
  mkSrOp "xsr.vecbase" (Some S_xsr) (Some E_sr) [VECBASE; option_number OPTION_RELOCATABLE_VECTOR] (XTENSA_OP_PRIVILEGED);
  mkSrOp "xsr.windowbase" (Some S_xsr_windowbase) (Some E_sr) [WINDOW_BASE; option_number OPTION_WINDOWED_REGISTER] (XTENSA_OP_PRIVILEGED ||| XTENSA_OP_EXIT_TB_M1 ||| XTENSA_OP_SYNC_REGISTER_WINDOW);
  mkSrOp "xsr.windowstart" (Some S_xsr_windowstart) (Some E_sr) [WINDOW_START; option_number OPTION_WINDOWED_REGISTER] (XTENSA_OP_PRIVILEGED ||| XTENSA_OP_EXIT_TB_M1)].

Definition sr_ops : list sr_op :=
  sr_ops_1 ++ sr_ops_2 ++ sr_ops_3 ++ sr_ops_4 ++ sr_ops_5 ++ sr_ops_6 ++ sr_ops_7 ++ sr_ops_8 ++ sr_ops_9 ++ sr_ops_10 ++ sr_ops_11 ++ sr_ops_12 ++ sr_ops_13 ++ sr_ops_14 ++ sr_ops_15 ++ sr_ops_16 ++ sr_ops_17.

(** ** Running an entry *)

Definition run_sr_test (config : XtensaConfig) (e : sr_test) : list Z -> Z :=
  match e with
  | E_sr => test_exceptions_sr config
  | E_ccompare => test_exceptions_ccompare config
  | E_dbreak => test_exceptions_dbreak config
  | E_ibreak => test_exceptions_ibreak config
  | E_hpi => test_exceptions_hpi config
  end.

(** The flags of an entry on a core: [op_flags] of [disas_xtensa_insn]. *)
Definition sr_flags (config : XtensaConfig) (o : sr_op) : Z :=
  match sr_test_exceptions o with
  | Some e => sr_op_flags o ||| run_sr_test config e (sr_par o)
  | None => sr_op_flags o
  end.

Section run.
Context (config : XtensaConfig) (period : Z) (insert_ok : watchpoint -> bool) (sr_name : Z -> bool).
Context (now wnow : Z) (now_of : Z -> Z) (dc : DisasContext).

Definition run_sr (fn : sr_fn) (t : Z) (par : list Z) : srM unit :=
  let xsr := gen_translate_xsr sr_name t par in
  match fn with
  | S_rsr => translate_rsr sr_name t par
  | S_rsr_ccount => translate_rsr_ccount period now t par
  | S_rsr_ptevaddr => translate_rsr_ptevaddr t
  | S_wsr => translate_wsr sr_name t par
  | S_wsr_mask => translate_wsr_mask sr_name t par
  | S_wsr_acchi => translate_wsr_acchi t par
  | S_wsr_ccompare => translate_wsr_ccompare config period wnow t par
  | S_wsr_ccount => translate_wsr_ccount config period wnow now_of t
  | S_wsr_dbreaka => translate_wsr_dbreaka config insert_ok t par
  | S_wsr_dbreakc => translate_wsr_dbreakc config insert_ok t par
  | S_wsr_ibreaka => translate_wsr_ibreaka config t par
  | S_wsr_ibreakenable => translate_wsr_ibreakenable config t
  | S_wsr_icount => translate_wsr_icount dc t par
  | S_wsr_intclear => translate_wsr_intclear config t
  | S_wsr_intset => translate_wsr_intset config t
  | S_wsr_memctl => translate_wsr_memctl config t
  | S_wsr_mpuenb => translate_wsr_mpuenb config t
  | S_wsr_ps => translate_wsr_ps config t par
  | S_wsr_rasid => translate_wsr_rasid t
  | S_wsr_sar => wsr_sar t
  | S_wsr_windowbase => translate_wsr_windowbase t
  | S_wsr_windowstart => translate_wsr_windowstart config t par
  | S_xsr => translate_xsr sr_name t par
  | S_xsr_mask => translate_xsr_mask sr_name t par
  | S_xsr_ccount => translate_xsr_ccount config period now wnow now_of t par
  | S_xsr_acchi => xsr (translate_wsr_acchi t par)
  | S_xsr_ccompare => xsr (translate_wsr_ccompare config period wnow t par)
  | S_xsr_dbreaka => xsr (translate_wsr_dbreaka config insert_ok t par)
  | S_xsr_dbreakc => xsr (translate_wsr_dbreakc config insert_ok t par)
  | S_xsr_ibreaka => xsr (translate_wsr_ibreaka config t par)
  | S_xsr_ibreakenable => xsr (translate_wsr_ibreakenable config t)
  | S_xsr_icount => xsr (translate_wsr_icount dc t par)
  | S_xsr_memctl => xsr (translate_wsr_memctl config t)
  | S_xsr_mpuenb => xsr (translate_wsr_mpuenb config t)
  | S_xsr_ps => xsr (translate_wsr_ps config t par)
  | S_xsr_rasid => xsr (translate_wsr_rasid t)
  | S_xsr_sar => xsr (wsr_sar t)
  | S_xsr_windowbase => xsr (translate_wsr_windowbase t)
  | S_xsr_windowstart => xsr (translate_wsr_windowstart config t par)
  end.
End run.

(** ** Names *)

(** The entry a name stands for, and the register name shared by RSR, WSR and
    XSR. *)
Definition sr_find (name : string) : option sr_op :=
  List.find (fun o => String.eqb (sr_opname o) name) sr_ops.

Definition legal (config : XtensaConfig) (o : sr_op) : bool := negb (Z.testbit (sr_flags config o) 0).

#[export] Instance sr_fn_eq_dec : EqDecision sr_fn.
Proof. solve_decision. Defined.
#[export] Instance sr_test_eq_dec : EqDecision sr_test.
Proof. solve_decision. Defined.

(** Facts that are checked on every entry of the table. *)
Definition sr_entry_ok (o : sr_op) : bool :=
  let p := nthZ (sr_par o) 0 in
  let within b n e := (b <=? p) && (p <? b + n) && bool_decide (sr_test_exceptions o = Some e) in
  match sr_translate o with
  | None => Z.testbit (sr_op_flags o) 0
  | Some (S_wsr_ccompare | S_xsr_ccompare) => within CCOMPARE 3 E_ccompare
  | Some (S_wsr_dbreaka | S_xsr_dbreaka) => within DBREAKA 2 E_dbreak
  | Some (S_wsr_dbreakc | S_xsr_dbreakc) => within DBREAKC 2 E_dbreak
  | Some (S_wsr_ibreaka | S_xsr_ibreaka) => within IBREAKA 2 E_ibreak
  | Some S_wsr_ibreakenable => p =? IBREAKENABLE
  | Some S_wsr_intclear => p =? INTCLEAR
  | Some S_wsr_memctl => p =? MEMCTL
  | Some S_wsr_mpuenb => p =? MPUENB
  | Some S_wsr_rasid => p =? RASID
  | Some S_wsr_sar => p =? SAR
  | Some _ => true
  end &&
  (0 <=? p) && (p <? 256) &&
  (Z.testbit (sr_op_flags o) 0 || Bool.eqb (Z.testbit (sr_op_flags o) 1) (64 <=? p)).

(** What reads and what writes the register an XSR function exchanges. *)
Definition exchange_parts (fn : sr_fn) : option (sr_fn * sr_fn) :=
  match fn with
  | S_xsr => Some (S_rsr, S_wsr)
  | S_xsr_mask => Some (S_rsr, S_wsr_mask)
  | S_xsr_ccount => Some (S_rsr_ccount, S_wsr_ccount)
  | S_xsr_acchi => Some (S_rsr, S_wsr_acchi)
  | S_xsr_ccompare => Some (S_rsr, S_wsr_ccompare)
  | S_xsr_dbreaka => Some (S_rsr, S_wsr_dbreaka)
  | S_xsr_dbreakc => Some (S_rsr, S_wsr_dbreakc)
  | S_xsr_ibreaka => Some (S_rsr, S_wsr_ibreaka)
  | S_xsr_ibreakenable => Some (S_rsr, S_wsr_ibreakenable)
  | S_xsr_icount => Some (S_rsr, S_wsr_icount)
  | S_xsr_memctl => Some (S_rsr, S_wsr_memctl)
  | S_xsr_mpuenb => Some (S_rsr, S_wsr_mpuenb)
  | S_xsr_ps => Some (S_rsr, S_wsr_ps)
  | S_xsr_rasid => Some (S_rsr, S_wsr_rasid)
  | S_xsr_sar => Some (S_rsr, S_wsr_sar)
  | S_xsr_windowbase => Some (S_rsr, S_wsr_windowbase)
  | S_xsr_windowstart => Some (S_rsr, S_wsr_windowstart)
  | _ => None
  end.

(** The entries of one register fit together: XSR is made of the functions of
    RSR and WSR and the three name the same register, with the same mask.
    RSR.PTEVADDR reads more than the register. *)
Definition sr_triple_ok (n : string) : bool :=
  match sr_find ("xsr." +:+ n), sr_find ("rsr." +:+ n), sr_find ("wsr." +:+ n) with
  | Some x, Some r, Some w =>
      match sr_translate x, sr_translate r, sr_translate w with
      | Some fx, Some fr, Some fw =>
          bool_decide (exchange_parts fx = Some (fr, fw)) &&
          bool_decide (sr_par x = sr_par w) && (nthZ (sr_par x) 0 =? nthZ (sr_par r) 0) &&
          (sr_op_flags x =? sr_op_flags w)
      | None, Some _, _ => true
      | _, _, _ => String.eqb n "ptevaddr"
      end
  | None, _, _ => true
  | _, _, _ => false
  end || String.eqb n "ptevaddr".

Definition sr_suffix (o : sr_op) : string := String.substring 4 (String.length (sr_opname o)) (sr_opname o).

(** What a WSR does with the word [v]: the register holds a value made of it; the word
    becomes the window base or the instruction count at the end of the instruction; or
    the bits of a mask made of it leave INTERRUPT. *)
Inductive wsr_effect := Holds (v : Z) | NextWindow (v : Z) | NextIcount (v : Z) | Clears (mask : Z).

Definition readback (config : XtensaConfig) (dc : DisasContext) (fn : sr_fn) (par : list Z) (v : Z) : option wsr_effect :=
  match fn with
  | S_wsr | S_wsr_ccompare | S_wsr_dbreaka | S_wsr_dbreakc | S_wsr_ibreaka => Some (Holds v)
  | S_wsr_mask => Some (Holds (v &&& nthZ par 2))
  | S_wsr_acchi => Some (Holds (u32 (sext 8 v)))
  | S_wsr_ibreakenable => Some (Holds (v &&& (lsl32 1 (nibreak config) - 1)))
  | S_wsr_icount => Some (if dc_icount dc then NextIcount v else Holds v)
  | S_wsr_intclear => Some (Clears (v &&& (inttype_mask config INTTYPE_SOFTWARE ||| inttype_mask config INTTYPE_EDGE)))
  | S_wsr_memctl => Some (Holds (v &&& memctl_mask config))
  | S_wsr_mpuenb => Some (Holds (v &&& u32 (lsl32 2 (n_mpu_fg_segments config - 1) - 1)))
  | S_wsr_ps => Some (Holds (v &&& wsr_ps_mask config))
  | S_wsr_rasid => Some (Holds ((v &&& 0xffffff00) ||| 1))
  | S_wsr_sar => Some (Holds (v &&& 0x3f))
  | S_wsr_windowbase => Some (NextWindow v)
  | S_wsr_windowstart => Some (Holds (v &&& u32 (Z.shiftl 1 (nareg config / 4) - 1)))
  | _ => None
  end.

(** The writes of the registers that the plain RSR reads. *)
Definition plain_write (fn : sr_fn) : bool :=
  match fn with
  | S_wsr | S_wsr_ccompare | S_wsr_dbreaka | S_wsr_dbreakc | S_wsr_ibreaka | S_wsr_mask | S_wsr_acchi
  | S_wsr_ibreakenable | S_wsr_icount | S_wsr_intclear | S_wsr_memctl | S_wsr_mpuenb | S_wsr_ps | S_wsr_rasid
  | S_wsr_sar | S_wsr_windowbase | S_wsr_windowstart => true
  | _ => false
  end.

Lemma plain_write_effect config dc fn par v : plain_write fn = true -> exists eff, readback config dc fn par v = Some eff.
Proof. destruct fn; try done; intros _; by eexists. Qed.

(** RSR and WSR of one name are of one register, and a plain RSR has a plain WSR. *)
Definition sr_pair_ok (n : string) : bool :=
  match sr_find ("rsr." +:+ n), sr_find ("wsr." +:+ n) with
  | Some r, Some w =>
      match sr_translate w with
      | Some fw => (nthZ (sr_par r) 0 =? nthZ (sr_par w) 0) &&
                   implb (bool_decide (sr_translate r = Some S_rsr)) (plain_write fw)
      | None => true
      end
  | _, _ => true
  end.

Lemma sr_table_ok :
  forallb sr_entry_ok sr_ops = true /\
  forallb (fun o => sr_triple_ok (sr_suffix o) && sr_pair_ok (sr_suffix o)) sr_ops = true.
Proof. by vm_compute. Qed.

Lemma sr_find_elem name o : sr_find name = Some o -> o ∈ sr_ops /\ sr_opname o = name.
Proof.
  intros H. apply List.find_some in H as [Hin He]. split; [by apply list_elem_of_In|].
  by apply String.eqb_eq in He.
Qed.

Lemma sr_entry_facts o : o ∈ sr_ops -> sr_entry_ok o = true.
Proof.
  destruct sr_table_ok as [H _]. rewrite forallb_forall in H. intros Ho. by apply H, list_elem_of_In.
Qed.

Lemma substring_whole n m : (String.length n <= m)%nat -> String.substring 0 m n = n.
Proof.
  revert m. induction n as [|a n IH]; intros [|m] Hm; simpl in *; [done|done|lia|].
  f_equal. apply IH. lia.
Qed.

Lemma sr_suffix_eq o n a b c d : sr_opname o = String a (String b (String c (String d n))) -> sr_suffix o = n.
Proof.
  intros H. unfold sr_suffix. rewrite H.
  change (String.substring 0 (4 + String.length n) n = n). apply substring_whole. lia.
Qed.

Lemma sr_name_facts n a b c d o :
  sr_find (String a (String b (String c (String d n)))) = Some o ->
  sr_triple_ok n = true /\ sr_pair_ok n = true.
Proof.
  intros H. apply sr_find_elem in H as [Hin He]. destruct sr_table_ok as [_ Hall].
  rewrite forallb_forall in Hall. apply list_elem_of_In, Hall in Hin.
  rewrite (sr_suffix_eq o n a b c d He) in Hin. by apply andb_true_iff in Hin.
Qed.

(** ** XSR *)

Section exchange.
Context (config : XtensaConfig) (period : Z) (insert_ok : watchpoint -> bool) (sr_name : Z -> bool).
Context (now wnow : Z) (now_of : Z -> Z) (dc : DisasContext).
Abbreviation run := (run_sr config period insert_ok sr_name now wnow now_of dc) (only parsing).

(** Read into the register, then write its old value, then put the read value
    back. *)
Definition read_write (rd wr : srM unit) (t : Z) : srM unit :=
  old <- in_reg t ;; rd ;; v <- in_reg t ;; out_reg t old ;; wr ;; out_reg t v.

Lemma setZ_restore (l : list Z) t v : 0 <= t < Z.of_nat (length l) -> setZ (setZ l t v) t (nthZ l t) = l.
Proof.
  intros Ht. unfold setZ, nthZ. rewrite list_insert_insert_eq. apply list_insert_id.
  rewrite list_lookup_lookup_total_lt by lia. done.
Qed.

Lemma out_restore t v s :
  0 <= t < Z.of_nat (length (regs (s_env s))) ->
  with_cpu (set_reg t (nthZ (regs (s_env s)) t)) (with_cpu (set_reg t v) s) = s.
Proof.
  intros Ht. destruct s as [env tr ic]. unfold with_cpu, set_reg. cbn in *.
  f_equal. destruct env. unfold set_regs. cbn in *. f_equal. by apply setZ_restore.
Qed.

Lemma read_write_eq (rd wr : srM unit) t s v s1 :
  0 <= t < Z.of_nat (length (regs (s_env s))) ->
  regs (s_env s1) = regs (s_env s) ->
  rd s = Done tt (with_cpu (set_reg t v) s1) ->
  read_write rd wr t s = (wr ;; out_reg t v) s1.
Proof.
  intros Ht Hr Hrd. unfold read_write, in_reg, gets. unfold bind at 1 2. rewrite Hrd.
  unfold bind at 1 2. unfold out_reg at 1, cpu, modify.
  replace (nthZ (regs (s_env (with_cpu (set_reg t v) s1))) t) with v
    by (symmetry; apply nthZ_setZ_eq; by rewrite Hr).
  rewrite <- Hr. by rewrite out_restore by by rewrite Hr.
Qed.

Lemma read_write_rsr wr t par s :
  0 <= t < Z.of_nat (length (regs (s_env s))) -> sr_name (nthZ par 0) = true ->
  read_write (translate_rsr sr_name t par) wr t s = (wr ;; out_reg t (sr (s_env s) (nthZ par 0))) s.
Proof. intros Ht H. apply read_write_eq; [done|done|]. unfold translate_rsr. by rewrite H. Qed.

Lemma read_write_ccount wr t par s :
  0 <= t < Z.of_nat (length (regs (s_env s))) ->
  let s1 := with_cpu (helper_update_ccount period now) s in
  read_write (translate_rsr_ccount period now t par) wr t s =
    (wr ;; out_reg t (sr (s_env s1) (nthZ par 0))) s1.
Proof. intros Ht s1. by apply read_write_eq. Qed.

Lemma run_exchange fx fr fw t px pr s :
  exchange_parts fx = Some (fr, fw) -> nthZ px 0 = nthZ pr 0 -> sr_name (nthZ px 0) = true ->
  0 <= t < Z.of_nat (length (regs (s_env s))) ->
  run fx t px s = read_write (run fr t pr) (run fw t px) t s.
Proof.
  intros He Hp Hn Ht.
  destruct fx; simplify_eq/=;
    first [rewrite read_write_rsr by (done || by rewrite <- Hp)|rewrite read_write_ccount by done];
    rewrite <- Hp;
    unfold gen_translate_xsr, translate_xsr, translate_xsr_mask, translate_wsr, translate_wsr_mask;
    rewrite ?Hn; done.
Qed.
End exchange.

(** C16: XSR exchanges: for every special register with the three instructions,
    XSR t does what reading the register with RSR, writing t to it with WSR and
    moving the value read to t do, with the same masks, side effects and
    assertions.  (RSR.PTEVADDR, which reads a combination of two registers, is
    the one exception.) *)
Theorem xsr_exchanges (config : XtensaConfig) period insert_ok sr_name now wnow now_of dc
    (n : string) (x r w : sr_op) (fx fr fw : sr_fn) (t : Z) (s : sr_state) :
  let run := run_sr config period insert_ok sr_name now wnow now_of dc in
  sr_find ("xsr." +:+ n) = Some x -> sr_find ("rsr." +:+ n) = Some r ->
  sr_find ("wsr." +:+ n) = Some w -> n <> "ptevaddr" ->
  sr_translate x = Some fx -> sr_translate r = Some fr -> sr_translate w = Some fw ->
  sr_name (nthZ (sr_par x) 0) = true ->
  0 <= t < Z.of_nat (length (regs (s_env s))) ->
  run fx t (sr_par x) s = read_write (run fr t (sr_par r)) (run fw t (sr_par w)) t s.
Proof.
  intros run Hx Hr Hw Hn Ex Er Ew Hname Ht. destruct (sr_name_facts n _ _ _ _ x Hx) as [H _].
  unfold sr_triple_ok in H. rewrite Hx, Hr, Hw, Ex, Er, Ew in H.
  apply String.eqb_neq in Hn. rewrite Hn, orb_false_r in H. bprop.
  match goal with H : bool_decide (sr_par x = _) = true |- _ => apply bool_decide_eq_true in H; rewrite <- H end.
  match goal with H : bool_decide _ = true |- _ => apply bool_decide_eq_true in H end.
  by apply run_exchange.
Qed.

(** ** WSR, then RSR *)

(** The registers a write may change besides its own. *)
Definition side_effects (fn : sr_fn) : list Z :=
  match fn with S_wsr_ccompare => [INTSET; CCOUNT] | S_wsr_intclear => [INTSET] | _ => [] end.

(** What a plain RSR of a register reads after the effect, from its old value. *)
Definition value_after (eff : wsr_effect) (old : Z) : Z := match eff with Holds v => v | _ => old end.

(** What else the effect leaves. *)
Definition pending (eff : wsr_effect) (s s' : sr_state) : Prop :=
  match eff with
  | Holds _ => True
  | NextWindow v => windowbase_next (s_env s') = v
  | NextIcount v => s_next_icount s' = v
  | Clears mask => sr (s_env s') INTSET = sr (s_env s) INTSET &&& not32 mask
  end.

(** The state after a write: [r] holds [v], the registers outside [r] and [l]
    are unchanged, and so are the address registers. *)
Definition written (r v : Z) (l : list Z) (s s' : sr_state) : Prop :=
  regs (s_env s') = regs (s_env s) /\ sr (s_env s') r = v /\
  forall q, q <> r -> q ∉ l -> sr (s_env s') q = sr (s_env s) q.

Section readback.
Context (config : XtensaConfig) (period : Z) (insert_ok : watchpoint -> bool) (sr_name : Z -> bool).
Context (now wnow : Z) (now_of : Z -> Z) (dc : DisasContext).
Abbreviation run := (run_sr config period insert_ok sr_name now wnow now_of dc) (only parsing).

(** A register that is legal on the core is within the bounds the translators
    assert. *)
Lemma legal_test o e :
  legal config o = true -> sr_test_exceptions o = Some e -> Z.testbit (run_sr_test config e (sr_par o)) 0 = false.
Proof.
  unfold legal, sr_flags. intros H E. rewrite E in H. apply negb_true_iff in H.
  rewrite Z.lor_spec in H. by apply orb_false_iff in H as [_ ?].
Qed.

Lemma sub_u32 p b n : 0 <= b -> b <= p < b + n -> b + n < 2 ^ 32 -> u32 (p - b) = p - b.
Proof. intros. apply u32_small. unfold in32. lia. Qed.

Lemma legal_bounds o :
  legal config o = true ->
  let p := nthZ (sr_par o) 0 in
  (sr_test_exceptions o = Some E_ccompare -> CCOMPARE <= p < CCOMPARE + 3 -> p - CCOMPARE < nccompare config) /\
  (sr_test_exceptions o = Some E_ibreak -> IBREAKA <= p < IBREAKA + 2 -> p - IBREAKA < nibreak config) /\
  (sr_test_exceptions o = Some E_dbreak -> DBREAKA <= p < DBREAKA + 2 -> p - DBREAKA < ndbreak config) /\
  (sr_test_exceptions o = Some E_dbreak -> DBREAKC <= p < DBREAKC + 2 -> p - DBREAKC < ndbreak config).
Proof.
  intros Hl p. split_and!; intros He Hp; pose proof (legal_test _ _ Hl He) as H;
    cbn [run_sr_test] in H;
    unfold test_exceptions_ccompare, test_exceptions_dbreak, test_exceptions_ibreak in H; fold p in H;
    rewrite ?(sub_u32 p CCOMPARE 3), ?(sub_u32 p IBREAKA 2) in H by lia;
    destruct (Z.leb_spec DBREAKA p), (Z.ltb_spec p (DBREAKA + MAX_NDBREAK)),
      (Z.leb_spec DBREAKC p), (Z.ltb_spec p (DBREAKC + MAX_NDBREAK)); cbn [andb] in H; try lia;
    revert H; cmp_split; simpl; intros; lia || done.
Qed.

(** The helpers write their register and nothing else the program sees. *)
Definition writes (r v : Z) (l : list Z) (f : CPUXtensaState -> CPUXtensaState) (env : CPUXtensaState) : Prop :=
  regs (f env) = regs env /\ sr (f env) r = v /\
  forall q, q <> r -> q ∉ l -> sr (f env) q = sr env q.

Lemma writes_set r v env : writes r v [] (set_sr r v) env.
Proof. split; [done|]. split; [apply sr_set_sr_eq|]. intros q Hq _. by apply sr_set_sr_ne. Qed.

Lemma writes_same f g r v l env : writes r v l g env -> f env = g env -> writes r v l f env.
Proof. intros H E. unfold writes. by rewrite E. Qed.

Lemma set_dbreak_regs i a c env : regs (set_dbreak insert_ok i a c env) = regs env.
Proof. unfold set_dbreak. by repeat case_match. Qed.

Lemma writes_dbreaka i v env : writes (DBREAKA + i) v [] (helper_wsr_dbreaka insert_ok i v) env.
Proof.
  split; [|split].
  - unfold helper_wsr_dbreaka. cbn. case_match; [apply set_dbreak_regs|done].
  - rewrite (proj1 (wsr_dbreak_sr insert_ok i v env _)). by rewrite Z.eqb_refl.
  - intros q Hq _. rewrite (proj1 (wsr_dbreak_sr insert_ok i v env q)). by apply Z.eqb_neq in Hq as ->.
Qed.

Lemma writes_dbreakc i v env : writes (DBREAKC + i) v [] (helper_wsr_dbreakc insert_ok i v) env.
Proof.
  split; [|split].
  - unfold helper_wsr_dbreakc. cbn. repeat case_match; try done. apply set_dbreak_regs.
  - rewrite (proj2 (wsr_dbreak_sr insert_ok i v env _)). by rewrite Z.eqb_refl.
  - intros q Hq _. rewrite (proj2 (wsr_dbreak_sr insert_ok i v env q)). by apply Z.eqb_neq in Hq as ->.
Qed.

Lemma writes_after r v g env : regs (g env) = regs env -> sregs (g env) = sregs env ->
  writes r v [] (fun env => set_sr r v (g env)) env.
Proof.
  intros Hr Hs. unfold writes, sr, set_sr. cbn. split; [done|]. split; [apply fupd_eq|].
  intros q Hq _. by rewrite fupd_ne, Hs.
Qed.

Lemma writes_ibreaka i v env : writes (IBREAKA + i) v [] (helper_wsr_ibreaka i v) env.
Proof.
  apply (writes_after _ _ (fun env => if truthy (sr env IBREAKENABLE &&& lsl32 1 i)
    && negb (sr env (IBREAKA + i) =? v) then _ else env)); by case_match.
Qed.

Lemma ibreak_steps_same v c l env :
  regs (foldl (ibreak_step v c) env l) = regs env /\ sregs (foldl (ibreak_step v c) env l) = sregs env.
Proof.
  revert env. induction l as [|i l IH]; intros env; [done|]. cbn. destruct (IH (ibreak_step v c env i)) as [-> ->].
  unfold ibreak_step. by repeat case_match.
Qed.

Lemma writes_ibreakenable v env :
  writes IBREAKENABLE (v &&& (lsl32 1 (nibreak config) - 1)) [] (helper_wsr_ibreakenable config v) env.
Proof. apply (writes_after _ _ (fun env => foldl _ env _)); apply ibreak_steps_same. Qed.

Lemma writes_memctl v env : writes MEMCTL (v &&& memctl_mask config) [] (helper_wsr_memctl config v) env.
Proof.
  eapply writes_same; [apply writes_set|]. unfold helper_wsr_memctl. by repeat case_match.
Qed.

Lemma writes_mpuenb v env :
  writes MPUENB (v &&& u32 (lsl32 2 (n_mpu_fg_segments config - 1) - 1)) [] (helper_wsr_mpuenb config v) env.
Proof.
  unfold writes, helper_wsr_mpuenb. cbv zeta. destruct (Z.eqb_spec (v &&& u32 (lsl32 2 (n_mpu_fg_segments config - 1) - 1)) (sr env MPUENB)) as [->|_];
    [done|]. exact (writes_set _ _ env).
Qed.

Lemma writes_rasid v env : writes RASID ((v &&& 0xffffff00) ||| 1) [] (helper_wsr_rasid v) env.
Proof.
  unfold writes, helper_wsr_rasid. cbv zeta. destruct (Z.eqb_spec ((v &&& 0xffffff00) ||| 0x1) (sr env RASID)) as [->|_];
    [done|]. exact (writes_set _ _ env).
Qed.

Lemma writes_ccompare i v env :
  0 <= i < 3 ->
  writes (CCOMPARE + i) v [INTSET; CCOUNT]
    (fun env => helper_update_ccompare config period wnow i (set_sr (CCOMPARE + i) v env)) env.
Proof.
  intros Hi. unfold writes, helper_update_ccompare, helper_update_ccount.
  split; [done|]. cbn. unfold sr, set_sr. cbn. split; [by rewrite !fupd_ne, fupd_eq by lia|].
  intros q Hq Hl. rewrite !not_elem_of_cons in Hl. destruct Hl as (? & ? & _). by rewrite !fupd_ne by lia.
Qed.

(** The writes of a numbered register: the assertion holds. *)
Lemma numbered_write (wr : Z -> Z -> srM unit) (f : Z -> Z -> CPUXtensaState -> CPUXtensaState) p b n t l s v :
  0 <= b -> b <= p < b + 3 -> b < 256 -> p - b < n ->
  (forall i v, 0 <= i < 3 -> p = b + i -> wr i v s = Done tt (with_cpu (f i v) s)) ->
  (forall i v env, 0 <= i < 3 -> writes (b + i) v l (f i v) env) ->
  v = nthZ (regs (s_env s)) t ->
  exists s', (massert (u32 (p - b) <? n) ;; v <- in_reg t ;; wr (u32 (p - b)) v) s = Done tt s' /\
    written p v l s s'.
Proof.
  intros Hb Hp Hb' Hlt Hrun Hw ->. rewrite (sub_u32 p b 3) by lia.
  unfold bind at 1, massert. rewrite (proj2 (Z.ltb_lt (p - b) n)) by lia. unfold bind, in_reg, gets.
  rewrite Hrun by lia. eexists. split; [reflexivity|]. replace p with (b + (p - b)) at 1 by lia. apply Hw. lia.
Qed.

Lemma run_write o fw t v eff s :
  o ∈ sr_ops -> legal config o = true -> sr_translate o = Some fw ->
  sr_name (nthZ (sr_par o) 0) = true ->
  v = nthZ (regs (s_env s)) t -> readback config dc fw (sr_par o) v = Some eff ->
  exists s', run fw t (sr_par o) s = Done tt s' /\
    written (nthZ (sr_par o) 0) (value_after eff (sr (s_env s) (nthZ (sr_par o) 0))) (side_effects fw) s s' /\
    pending eff s s'.
Proof.
  intros Ho Hl Hf Hn Hv Hr. pose proof (sr_entry_facts o Ho) as Hok. unfold sr_entry_ok in Hok.
  rewrite Hf in Hok. destruct (legal_bounds o Hl) as (B1 & B2 & B3 & B4). cbv zeta in *.
  assert (Hheld : forall v' c l, eff = Holds v' ->
    (exists s', c = Done tt s' /\ written (nthZ (sr_par o) 0) v' l s s') ->
    exists s', c = Done tt s' /\
      written (nthZ (sr_par o) 0) (value_after eff (sr (s_env s) (nthZ (sr_par o) 0))) l s s' /\ pending eff s s').
  { intros v' c l -> (s' & E & W). by exists s'. }
  unfold run_sr. destruct fw; try discriminate Hr; cbn [readback side_effects] in *;
    repeat match goal with
    | H : bool_decide _ = true |- _ => apply bool_decide_eq_true in H
    | H : _ && _ = true |- _ => apply andb_true_iff in H as [? ?]
    | H : (_ =? _) = true |- _ => apply Z.eqb_eq in H
    | H : (_ <=? _) = true |- _ => apply Z.leb_le in H
    | H : (_ <? _) = true |- _ => apply Z.ltb_lt in H
    end;
    try (injection Hr as <-; subst v; apply (Hheld _ _ _ eq_refl);
      unfold translate_wsr, translate_wsr_mask; rewrite ?Hn;
      try match goal with H : nthZ (sr_par o) 0 = _ |- _ => rewrite H end;
      eexists; split; [reflexivity|];
      first [apply writes_set|apply writes_ibreakenable|apply writes_memctl|apply writes_mpuenb|apply writes_rasid]).
  - injection Hr as <-. apply (Hheld _ _ _ eq_refl). eapply (numbered_write (fun i v => cpu (set_sr (nthZ (sr_par o) 0) v) ;;
      cpu (helper_update_ccompare config period wnow i))); [lia|lia|lia|auto with lia| |apply writes_ccompare|done].
    intros i x _ ->. done.
  - injection Hr as <-. apply (Hheld _ _ _ eq_refl). eapply (numbered_write (fun i v => cpu (helper_wsr_dbreaka insert_ok i v)));
      [lia|lia|lia|auto with lia|done|intros; apply writes_dbreaka|done].
  - injection Hr as <-. apply (Hheld _ _ _ eq_refl). eapply (numbered_write (fun i v => cpu (helper_wsr_dbreakc insert_ok i v)));
      [lia|lia|lia|auto with lia|done|intros; apply writes_dbreakc|done].
  - injection Hr as <-. apply (Hheld _ _ _ eq_refl). eapply (numbered_write (fun i v => cpu (helper_wsr_ibreaka i v)));
      [lia|lia|lia|auto with lia|done|intros; apply writes_ibreaka|done].
  - unfold translate_wsr_icount. destruct (dc_icount dc); injection Hr as <-; subst v.
    + eexists. split; [reflexivity|]. by split.
    + apply (Hheld _ _ _ eq_refl). eexists. split; [reflexivity|apply writes_set].
  - injection Hr as <-. subst v. eexists. split; [reflexivity|]. split; [|apply sr_set_sr_eq].
    split; [done|]. match goal with H : nthZ (sr_par o) 0 = _ |- _ => rewrite H end.
    unfold helper_intclear, intclear. split; [by apply sr_set_sr_ne|]. intros q _ Hq.
    apply sr_set_sr_ne. by rewrite list_elem_of_singleton in Hq.
  - injection Hr as <-. subst v. eexists. split; [reflexivity|]. by split.
Qed.
End readback.

(** C17: What is written can be read back: for every special register that is legal on
    the core and read by the plain RSR, WSR t never fails an assertion, and a
    following RSR u returns the value of t restricted to the bits the register has,
    with these exceptions.  RASID has its lowest bit set and ACCHI is sign-extended
    from eight bits; WINDOWBASE, and ICOUNT while instructions are counted, keep
    their old value until the end of the instruction, and the word written is what
    they then take; INTCLEAR keeps its value, and the software and edge interrupts
    of the word leave INTERRUPT.  No other special register changes, except
    INTERRUPT and CCOUNT when a timer is set, and no address register but u. *)
Theorem wsr_rsr_roundtrip (config : XtensaConfig) period insert_ok sr_name now wnow now_of dc
    (n : string) (r w : sr_op) (fw : sr_fn) (t u : Z) (s : sr_state) :
  let run := run_sr config period insert_ok sr_name now wnow now_of dc in
  let p := nthZ (sr_par w) 0 in
  sr_find ("rsr." +:+ n) = Some r -> sr_find ("wsr." +:+ n) = Some w ->
  sr_translate r = Some S_rsr -> sr_translate w = Some fw ->
  legal config w = true -> sr_name p = true ->
  exists eff s',
    readback config dc fw (sr_par w) (nthZ (regs (s_env s)) t) = Some eff /\
    (run fw t (sr_par w) ;; run S_rsr u (sr_par r)) s = Done tt s' /\
    regs (s_env s') = setZ (regs (s_env s)) u (value_after eff (sr (s_env s) p)) /\
    pending eff s s' /\
    forall q, q <> p -> q ∉ side_effects fw -> sr (s_env s') q = sr (s_env s) q.
Proof.
  intros run p Hr Hw Er Ew Hl Hn. unfold p in *.
  assert (Hp : nthZ (sr_par r) 0 = nthZ (sr_par w) 0 /\ plain_write fw = true).
  { destruct (sr_name_facts n _ _ _ _ w Hw) as [_ H]. unfold sr_pair_ok in H. rewrite Hr, Hw, Ew, Er in H.
    rewrite bool_decide_eq_true_2 in H by done. apply andb_true_iff in H as [H1 H2]. by apply Z.eqb_eq in H1. }
  destruct Hp as [Hp Hpw]. apply sr_find_elem in Hw as [Hw _].
  destruct (plain_write_effect config dc fw (sr_par w) (nthZ (regs (s_env s)) t) Hpw) as [eff Hv].
  destruct (run_write config period insert_ok sr_name now wnow now_of dc w fw t _ eff s Hw Hl Ew Hn eq_refl Hv)
    as (s1 & E & (Hregs & Hsr & Hfr) & Hpend).
  exists eff, (with_cpu (set_reg u (value_after eff (sr (s_env s) (nthZ (sr_par w) 0)))) s1). split_and!.
  - done.
  - unfold bind, run. rewrite E. cbn [run_sr]. unfold translate_rsr. rewrite Hp, Hn.
    unfold bind, cpu_SR, gets. by rewrite Hsr.
  - unfold with_cpu, set_reg, set_regs. cbn. by rewrite Hregs.
  - by destruct eff.
  - exact Hfr.
Qed.

(** ** Privilege *)

(** Registers numbered 64 and above are the privileged ones. *)
Lemma sr_privileged o :
  o ∈ sr_ops -> Z.testbit (sr_op_flags o) 0 = false ->
  Z.testbit (sr_op_flags o) 1 = (64 <=? nthZ (sr_par o) 0).
Proof.
  intros Ho Hi. pose proof (sr_entry_facts o Ho) as H. unfold sr_entry_ok in H. bprop.
  rewrite Hi in *. by apply Bool.eqb_prop.
Qed.

(** ** Examples *)

Definition sr_example : sr_state :=
  mkSrState (set_sr PS 0x1f (set_regs (setZ (setZ (replicate 16 0) 2 0xfff51234) 5 0x3fc88001) zero_env))
    init_sar_tracker 0.
Abbreviation example_run := (run_sr esp32s3_config 12 (fun _ => true) (fun _ => true) 0 0 (fun _ => 0)
  (tb_context esp32s3_config zero_env)) (only parsing).

Definition xsr_ps : sr_op := mkSrOp "xsr.ps" (Some S_xsr_ps) (Some E_sr) [PS; option_number OPTION_EXCEPTION]
  (XTENSA_OP_PRIVILEGED ||| XTENSA_OP_EXIT_TB_M1 ||| XTENSA_OP_CHECK_INTERRUPTS).
Definition rsr_ps : sr_op := mkSrOp "rsr.ps" (Some S_rsr) (Some E_sr) [PS; option_number OPTION_EXCEPTION]
  XTENSA_OP_PRIVILEGED.
Definition wsr_ps : sr_op := mkSrOp "wsr.ps" (Some S_wsr_ps) (Some E_sr) [PS; option_number OPTION_EXCEPTION]
  (XTENSA_OP_PRIVILEGED ||| XTENSA_OP_EXIT_TB_M1 ||| XTENSA_OP_CHECK_INTERRUPTS).

Lemma xsr_exchanges_witness :
  match example_run S_xsr_ps 2 (sr_par xsr_ps) sr_example with
  | Done _ s => nthZ (regs (s_env s)) 2 = 0x1f /\ sr (s_env s) PS = 0x50234
  | _ => False
  end.
Proof.
  rewrite (xsr_exchanges esp32s3_config 12 (fun _ => true) (fun _ => true) 0 0 (fun _ => 0)
    (tb_context esp32s3_config zero_env) "ps" xsr_ps rsr_ps wsr_ps S_xsr_ps S_rsr S_wsr_ps 2 sr_example);
    try by vm_compute.
Defined.

Lemma wsr_rsr_roundtrip_witness :
  exists s', (example_run S_wsr_ps 2 (sr_par wsr_ps) ;; example_run S_rsr 3 (sr_par rsr_ps)) sr_example = Done tt s' /\
    nthZ (regs (s_env s')) 3 = 0x50234 /\ sr (s_env s') EXCCAUSE = 0.
Proof.
  destruct (wsr_rsr_roundtrip esp32s3_config 12 (fun _ => true) (fun _ => true) 0 0 (fun _ => 0)
    (tb_context esp32s3_config zero_env) "ps" rsr_ps wsr_ps S_wsr_ps 2 3 sr_example)
    as (eff & s' & Heff & E & Hu & _ & Hq); try by vm_compute.
  exists s'. split; [exact E|]. injection Heff as <-. split; [by rewrite Hu|].
  rewrite Hq; [done|done|]. by apply not_elem_of_nil.
Defined.

(** The entries of MEVADDR name MESR instead. *)
Lemma mevaddr_is_mesr :
  (fun o => nthZ (sr_par o) 0) <$> sr_find "rsr.mevaddr" = Some MESR /\
  (fun o => nthZ (sr_par o) 0) <$> sr_find "wsr.mevaddr" = Some MESR /\
  (fun o => nthZ (sr_par o) 0) <$> sr_find "xsr.mevaddr" = Some MESR.
Proof. by vm_compute. Qed.

(** XSR.PTEVADDR returns the register alone; RSR.PTEVADDR the address of the
    page table entry of the faulting address. *)
Lemma ptevaddr_reads_differ :
  let env := set_sr EXCVADDR 0x40001000 (set_sr PTEVADDR 0x3f000000 (s_env sr_example)) in
  let s := mkSrState env init_sar_tracker 0 in
  match example_run S_rsr_ptevaddr 2 [PTEVADDR] s, example_run S_xsr_mask 2 [PTEVADDR; 0; 0xffc00000] s with
  | Done _ a, Done _ b => nthZ (regs (s_env a)) 2 = 0x3f100004 /\ nthZ (regs (s_env b)) 2 = 0x3f000000
  | _, _ => False
  end.
Proof. by vm_compute. Qed.
