(* ===== verification/Decode.v ===== *)
(** * Decoding an instruction ([disas_xtensa_insn] of [target/xtensa/translate.c])

    From the bytes of an instruction to the code emitted for it: length and
    format, the opcode and operands of each slot, the tests of each opcode, the
    order of the slots, the checks that precede the body, the body, and the end
    of the instruction.  The result is the computation the emitted code performs
    on the machine; a check that fires leaves it through the exception.
    Arguments: the opcode table of the core ([opcode_ops]), its register files
    ([a_regfile], [regfile], and [read_reg] for the value of a register), and
    the bytes of memory ([ldub]).  [slotbuf0] is what the slot buffer holds before
    it is filled.  Logging is left out. *)

From Stdlib Require Import Ascii.
From S2P Require Import Prelude Cpu Interrupt Exception Window Mmu TbFlags Control Arith Lanes Tie.
From S2P Require Import Isa Slots LoadStore.

#[local] Open Scope mach_scope.
#[local] Open Scope isa_scope.

Abbreviation SYSCALL_CAUSE := 1 (only parsing).
Abbreviation INTEGER_DIVIDE_BY_ZERO_CAUSE := 6 (only parsing).

Abbreviation XTENSA_OP_ILL := 0x1 (only parsing).
Abbreviation XTENSA_OP_PRIVILEGED := 0x2 (only parsing).
Abbreviation XTENSA_OP_SYSCALL := 0x4 (only parsing).
Abbreviation XTENSA_OP_DEBUG_BREAK := 0x8 (only parsing).
Abbreviation XTENSA_OP_UNDERFLOW := 0x20 (only parsing).
Abbreviation XTENSA_OP_ALLOCA := 0x40 (only parsing).
Abbreviation XTENSA_OP_DIVIDE_BY_ZERO := 0x100 (only parsing).

(** ** Operands and opcodes *)

(** [a_reg] is the register file and number [in] and [out] stand for; [a_copy]
    the value of the temporary that replaces [in]. *)
Record OpcodeArg := mkOpcodeArg {
  a_imm : Z; a_raw_imm : Z; a_reg : option (Z * Z); a_copy : option Z; a_num_bits : Z
}.

(** A translator returns whether it ends the block ([is_jmp]) and the code it
    emits; a test returns its flags and the code it emits. *)
Record XtensaOps := mkXtensaOps {
  ops_translate : DisasContext -> list OpcodeArg -> list Z -> bool * machM unit;
  ops_test_exceptions : option (DisasContext -> list OpcodeArg -> list Z -> Z * machM unit);
  ops_test_overflow : option (DisasContext -> list OpcodeArg -> list Z -> Z);
  ops_par : list Z;
  ops_flags : Z;
  ops_coprocessor : Z
}.

Record slot_code := mkSlotCode { sc_ops : XtensaOps; sc_args : list OpcodeArg; sc_prop : slot_prop }.

(** The variables [op_flags], [debug_cause], [windowed_register], [coprocessor]
    and [slot_prop] of the loop over the slots, and the code the tests emitted. *)
Record decoded := mkDecoded {
  d_flags : Z; d_debug_cause : Z; d_windowed : Z; d_coprocessor : Z;
  d_slots : list slot_code; d_tests : machM unit
}.

Definition no_slots : decoded := mkDecoded 0 0 0 0 [] (ret tt).

(** Left fold of a library computation over the numbers below [n]. *)
Fixpoint fold_isa {A} (f : Z -> A -> isaM A) (l : list Z) (a : A) : isaM A :=
  match l with
  | [] => done a
  | i :: l' => let* a' := f i a in fold_isa f l' a'
  end.

Section disas.
Context (config : XtensaConfig).
Context (opcode_ops : Z -> option XtensaOps) (a_regfile : Z) (regfile : Z -> bool).
Context (read_reg : Z -> Z -> machine -> Z) (ldub : Z -> Z) (slotbuf0 : list Z).

(** *** Operands *)

(** [xtensa_operand_get_field] and [xtensa_operand_decode]. *)
Definition operand_value (opc opnd fmt slot : Z) (slotbuf : list Z) : isaM Z :=
  let* f := xtensa_operand_get_field opc opnd fmt slot slotbuf in
  let* d := xtensa_operand_decode opc opnd (default 0 f.2) in
  done d.2.

(** The bit of an address register in [windowed_register]. *)
Definition windowed_bit (opc opnd fmt slot : Z) (slotbuf : list Z) (is_ar : bool) (windowed : Z) : isaM Z :=
  if is_ar then let* v := operand_value opc opnd fmt slot slotbuf in done (windowed ||| lsl32 1 v)
  else done windowed.

Definition operand_regfile (opc opnd is_reg : Z) : isaM Z :=
  if truthy is_reg then xtensa_operand_regfile opc opnd else done XTENSA_UNDEFINED.

Definition operand_imm (dc : DisasContext) (opc opnd v : Z) : isaM Z :=
  let* pcrel := xtensa_operand_is_PCrelative opc opnd in
  if truthy pcrel then let* r := xtensa_operand_undo_reloc opc opnd v (dc_pc dc) in done r.2 else done v.

Definition operand_bits (register_file : bool) (rf : Z) : isaM Z :=
  if register_file then xtensa_regfile_num_bits rf else done 32.

Definition decode_operand (dc : DisasContext) (opc fmt slot : Z) (slotbuf : list Z) (opnd : Z)
    (acc : Z * list OpcodeArg) : isaM (Z * list OpcodeArg) :=
  let* is_reg := xtensa_operand_is_register opc opnd in
  let* rf := operand_regfile opc opnd is_reg in
  let register_file := truthy is_reg && regfile rf in
  let* windowed := windowed_bit opc opnd fmt slot slotbuf (truthy is_reg && (rf =? a_regfile)) acc.1 in
  let* visible := xtensa_operand_is_visible opc opnd in
  if truthy visible then
    let* v := operand_value opc opnd fmt slot slotbuf in
    let* imm := operand_imm dc opc opnd v in
    let* bits := operand_bits register_file rf in
    done (windowed,
      acc.2 ++ [mkOpcodeArg imm v (if register_file then Some (rf, imm) else None) None bits])
  else done (windowed, acc.2).

(** *** Resources of a slot, for an instruction of several slots *)

(** [None]: an assertion of [encode_resource] or [opcode_add_resource] fails. *)
Definition add_resource (op : option slot_prop) (r g n : Z) (direction : Ascii.ascii) (index : Z)
  : option slot_prop :=
  match op, encode_resource r g n with
  | Some op, Some res => opcode_add_resource op res direction index
  | _, _ => None
  end.

(** One register operand; [acc] holds the slot and [vopnd]. *)
Definition register_resource (opc fmt slot : Z) (slotbuf : list Z) (opnd : Z)
    (acc : option slot_prop * Z) : isaM (option slot_prop * Z) :=
  let '(op, vopnd) := acc in
  let* visible := xtensa_operand_is_visible opc opnd in
  let* is_reg := xtensa_operand_is_register opc opnd in
  let* op :=
    (if truthy is_reg then
       let* rf := xtensa_operand_regfile opc opnd in
       let* v := operand_value opc opnd fmt slot slotbuf in
       let* dir := xtensa_operand_inout opc opnd in
       done (add_resource op RES_REGFILE rf v dir (if truthy visible then vopnd else -1))
     else done op) in
  done (op, if truthy visible then vopnd + 1 else vopnd).

Definition state_resource (opc opnd : Z) (op : option slot_prop) : isaM (option slot_prop) :=
  let* state := xtensa_stateOperand_state opc opnd in
  let* dir := xtensa_stateOperand_inout opc opnd in
  done (add_resource op RES_STATE 0 state dir (-1)).

Definition slot_resources (ops : XtensaOps) (opc fmt slot : Z) (slotbuf : list Z) : isaM (option slot_prop) :=
  let* opnds := xtensa_opcode_num_operands opc in
  let* acc := fold_isa (register_resource opc fmt slot slotbuf) (seqZ 0 opnds)
                (Some (mkSlotProp [] [] (ops_flags ops &&& XTENSA_OP_LOAD_STORE)), 0) in
  let* opnds := xtensa_opcode_num_stateOperands opc in
  let* op := fold_isa (state_resource opc) (seqZ 0 opnds) acc.1 in
  let* branch := xtensa_opcode_is_branch opc in
  let* jump := xtensa_opcode_is_jump opc in
  let* loop := xtensa_opcode_is_loop opc in
  let* call := xtensa_opcode_is_call opc in
  let flow := truthy branch || truthy jump || truthy loop || truthy call in
  done ((fun op => mkSlotProp (sort_resources (sp_in op)) (sort_resources (sp_out op))
                     (if flow then sp_flags op ||| XTENSA_OP_CONTROL_FLOW else sp_flags op)) <$> op).

(** *** A slot *)

Inductive slot_result :=
| SlotIllegal (tests : machM unit)  (** [gen_exception_cause(dc, ILLEGAL_INSTRUCTION_CAUSE); return] *)
| SlotAssert
| SlotDone (d : decoded).

Definition decode_slot (dc : DisasContext) (fmt slots : Z) (insn : list Z) (slot : Z) (acc : slot_result)
  : isaM slot_result :=
  match acc with
  | SlotIllegal _ | SlotAssert => done acc
  | SlotDone d =>
      let* sb := xtensa_format_get_slot fmt slot insn slotbuf0 in
      let slotbuf := sb.2 in
      let* opc := xtensa_opcode_decode fmt slot slotbuf in
      if opc =? XTENSA_UNDEFINED then done (SlotIllegal (d_tests d))
      else
        let* opnds := xtensa_opcode_num_operands opc in
        let* wa := fold_isa (decode_operand dc opc fmt slot slotbuf) (seqZ 0 opnds) (d_windowed d, []) in
        let '(windowed, args) := wa in
        match opcode_ops opc with
        | None => done (SlotIllegal (d_tests d))
        | Some ops =>
            let '(tflags, tcode) := match ops_test_exceptions ops with
                                    | Some t => t dc args (ops_par ops)
                                    | None => (0, ret tt)
                                    end in
            let op_flags := d_flags d ||| ops_flags ops ||| tflags in
            let tests := d_tests d ;; tcode in
            if truthy (op_flags &&& XTENSA_OP_ILL) then done (SlotIllegal tests)
            else
              let debug_cause := if truthy (op_flags &&& XTENSA_OP_DEBUG_BREAK)
                                 then d_debug_cause d ||| nthZ (ops_par ops) 0 else d_debug_cause d in
              let windowed := match ops_test_overflow ops with
                              | Some t => windowed ||| u32 (t dc args (ops_par ops))
                              | None => windowed
                              end in
              let* prop := (if 1 <? slots then slot_resources ops opc fmt slot slotbuf
                            else done (Some (mkSlotProp [] [] 0))) in
              done (match prop with
                    | None => SlotAssert
                    | Some prop =>
                        SlotDone (mkDecoded op_flags debug_cause windowed
                          (d_coprocessor d ||| ops_coprocessor ops)
                          (d_slots d ++ [mkSlotCode ops args prop]) tests)
                    end)
        end
  end.

(** *** Checks before the body *)

Definition insn_checks (dc : DisasContext) (d : decoded) : cpuM unit :=
  when (truthy (d_flags d &&& XTENSA_OP_PRIVILEGED)) (gen_check_privilege config dc) ;;
  if truthy (d_flags d &&& XTENSA_OP_SYSCALL) then gen_exception_cause config dc SYSCALL_CAUSE
  else
    when (truthy (d_flags d &&& XTENSA_OP_DEBUG_BREAK) && dc_debug dc)
      (helper_debug_exception config (dc_pc dc) (d_debug_cause d)) ;;
    when (truthy (d_windowed d)) (gen_window_check config dc (d_windowed d)) ;;
    when (truthy (d_flags d &&& XTENSA_OP_UNDERFLOW)) (helper_test_underflow_retw config (dc_pc dc)) ;;
    when (truthy (d_flags d &&& XTENSA_OP_ALLOCA)) (helper_movsp config (dc_pc dc)) ;;
    when (truthy (d_coprocessor d)) (gen_check_cpenable config dc (d_coprocessor d)).

(** *** The body *)

(** [arg.in] *)
Definition arg_value (a : OpcodeArg) : machM Z :=
  match a_copy a, a_reg a with
  | Some v, _ => ret v
  | None, Some (rf, n) => gets (read_reg rf n)
  | None, None => ret (a_imm a)
  end.

Definition dummy_arg : OpcodeArg := mkOpcodeArg 0 0 None None 32.

Definition gen_zero_check (dc : DisasContext) (args : list OpcodeArg) : machM unit :=
  v <- arg_value (nth 2 args dummy_arg) ;;
  when (v =? 0) (on_env (gen_exception_cause config dc INTEGER_DIVIDE_BY_ZERO_CAUSE)).

(** Argument [c] reads a copy made before any slot runs.  The source makes one
    copy for all arguments with the same resource, with the same value. *)
Definition copy_arg (slots : list slot_code) (c : opcode_arg_copy) : machM (list slot_code) :=
  match slots !! Z.to_nat (copy_slot c) with
  | Some sc =>
      let k := Z.to_nat (copy_index c) in
      let a := nth k (sc_args sc) dummy_arg in
      massert (a_num_bits a <=? 64) ;;
      v <- arg_value a ;;
      let a' := mkOpcodeArg (a_imm a) (a_raw_imm a) (a_reg a) (Some v) (a_num_bits a) in
      ret (<[Z.to_nat (copy_slot c) := mkSlotCode (sc_ops sc) (<[k := a']> (sc_args sc)) (sc_prop sc)]> slots)
  | None => massert false ;; ret slots
  end.

Fixpoint copy_args (slots : list slot_code) (l : list opcode_arg_copy) : machM (list slot_code) :=
  match l with
  | [] => ret slots
  | c :: l' => slots' <- copy_arg slots c ;; copy_args slots' l'
  end.

Definition with_op_flags (dc : DisasContext) (pc_next flags : Z) : DisasContext :=
  {| dc_pc := dc_pc dc; dc_pc_next := pc_next; dc_ring := dc_ring dc;
     dc_cring := dc_cring dc; dc_lbeg_off := dc_lbeg_off dc; dc_lend := dc_lend dc;
     dc_debug := dc_debug dc; dc_icount := dc_icount dc; dc_cpenable := dc_cpenable dc;
     dc_window := dc_window dc; dc_cwoe := dc_cwoe dc; dc_callinc := dc_callinc dc;
     dc_op_flags := flags; dc_next_icount := dc_next_icount dc |}.

(** Code that reads [dc->next_icount] finds what the block left there. *)
Definition at_icount {A} (dc : DisasContext) (c : DisasContext -> cpuM A) : machM A :=
  icount <- gets m_next_icount ;;
  on_env (c {| dc_pc := dc_pc dc; dc_pc_next := dc_pc_next dc; dc_ring := dc_ring dc;
     dc_cring := dc_cring dc; dc_lbeg_off := dc_lbeg_off dc; dc_lend := dc_lend dc;
     dc_debug := dc_debug dc; dc_icount := dc_icount dc; dc_cpenable := dc_cpenable dc;
     dc_window := dc_window dc; dc_cwoe := dc_cwoe dc; dc_callinc := dc_callinc dc;
     dc_op_flags := dc_op_flags dc; dc_next_icount := icount |}).

(** The slots in the order [order]; returns whether one of them ends the block. *)
Fixpoint run_slots (dc : DisasContext) (slots : list slot_code) (order : list Z) : machM bool :=
  match order with
  | [] => ret false
  | k :: order' =>
      match slots !! Z.to_nat k with
      | Some sc =>
          let '(leaves, code) := ops_translate (sc_ops sc) dc (sc_args sc) (ops_par (sc_ops sc)) in
          code ;; rest <- run_slots dc slots order' ;; ret (leaves || rest)
      | None => massert false ;; ret false
      end
  end.

Definition insn_body (dc : DisasContext) (pc_next : Z) (d : decoded) (order : list Z)
    (copies : list opcode_arg_copy) : machM bool :=
  let dc1 := with_op_flags dc pc_next (d_flags d) in
  slots <- copy_args (d_slots d) copies ;;
  when (truthy (d_flags d &&& XTENSA_OP_DIVIDE_BY_ZERO))
    (foldr (fun sc k =>
       when (truthy (ops_flags (sc_ops sc) &&& XTENSA_OP_DIVIDE_BY_ZERO)) (gen_zero_check dc (sc_args sc)) ;; k)
      (ret tt) slots) ;;
  leaves <- run_slots dc1 slots order ;;
  if leaves : bool then ret true else at_icount dc1 (finish_insn config).

(** *** The instruction *)

Definition illegal_insn (dc : DisasContext) : machM bool :=
  on_env (gen_exception_cause config dc ILLEGAL_INSTRUCTION_CAUSE).

Definition assert_fails : machM bool := massert false ;; ret true.

(** The order of the slots and the copies: [Some None] for circular dependencies, [None] where
    the code is undefined (when the sort left elements of [ordered] unset, too). *)
Definition order_slots (slots : list slot_code) : option (option (list Z * list opcode_arg_copy)) :=
  let n := Z.of_nat (length slots) in
  if 1 <? n then
    match tsort (fun k => nth (Z.to_nat k) (sc_prop <$> slots) (mkSlotProp [] [] 0)) n with
    | TsDone true st =>
        if Z.of_nat (length (ts_sorted st)) =? n then Some (Some (ts_sorted st, ts_copy st)) else None
    | TsDone false _ => Some None
    | TsOverrun | TsFuel => None
    end
  else Some (Some ([0], [])).

Definition emit_insn (dc : DisasContext) (pc_next : Z) (r : slot_result) : machM bool :=
  match r with
  | SlotAssert => assert_fails
  | SlotIllegal tests => tests ;; illegal_insn dc
  | SlotDone d =>
      d_tests d ;;
      match order_slots (d_slots d) with
      | None => assert_fails
      | Some None => illegal_insn dc
      | Some (Some (order, copies)) =>
          on_env (insn_checks dc d) ;; insn_body dc pc_next d order copies
      end
  end.

(** Returns [dc->base.pc_next], what the slots decode to, and the emitted code,
    which tells whether it left the block. *)
Definition disas_xtensa_insn (dc : DisasContext) : isaM (Z * slot_result * machM bool) :=
  let b0 := ldub (dc_pc dc) in
  let* len := xtensa_isa_length_from_chars [b0] in
  if len =? XTENSA_UNDEFINED then
    done (u32 (dc_pc dc + 1), SlotIllegal (ret tt), illegal_insn dc)
  else
    let pc_next := u32 (dc_pc dc + len) in
    let b := (fun i => ldub (u32 (dc_pc dc + i))) <$> seqZ 0 len in
    let* insn := xtensa_insnbuf_from_chars b len in
    let* fmt := xtensa_format_decode insn in
    if fmt =? XTENSA_UNDEFINED then done (pc_next, SlotIllegal (ret tt), illegal_insn dc)
    else
      let* slots := xtensa_format_num_slots fmt in
      let* r := fold_isa (decode_slot dc fmt slots insn) (seqZ 0 slots) (SlotDone no_slots) in
      done (pc_next, r, emit_insn dc pc_next r).
End disas.

(** ** The library's queries *)

(** A query whose answer depends on the tables only, which it leaves alone. *)
Definition stable {A} (m : isaM A) : Prop :=
  forall s s', isa s' = isa s -> (m s').1 = (m s).1 /\ isa (m s').2 = isa s.

Lemma stable_done {A} (a : A) : stable (done a).
Proof. by intros s s' H. Qed.
Lemma stable_fail {A} e msg (a : A) : stable (fail e msg a).
Proof. by intros s s' H. Qed.
Lemma stable_bind {A B} (m : isaM A) (k : A -> isaM B) : stable m -> (forall a, stable (k a)) -> stable (ibind m k).
Proof.
  intros Hm Hk s s' H. unfold ibind. destruct (Hm s s' H) as [E1 E2]. destruct (Hm s s eq_refl) as [_ E3].
  destruct (m s) as [a s1], (m s') as [a' s1']. cbn in *. subst a'.
  destruct (Hk a s1 s1') as [E4 E5]; [congruence|]. split; congruence.
Qed.
Lemma stable_intisa {B} (k : xtensa_isa_internal -> isaM B) : (forall i, stable (k i)) -> stable (ibind intisa k).
Proof. intros Hk s s' H. unfold ibind, intisa. rewrite H. by apply Hk. Qed.

Create HintDb stable discriminated.
#[export] Hint Resolve stable_done stable_fail : stable.
Ltac stable_tac :=
  repeat match goal with
  | |- stable (ibind intisa _) => apply stable_intisa; intros
  | |- stable (ibind _ _) => apply stable_bind; [|intros]
  | |- stable (if ?b then _ else _) => destruct b
  | |- stable (match ?x with _ => _ end) => destruct x
  end; auto with stable.

Lemma stable_with_operand {A} opc opnd (e : A) k : (forall o, stable (k o)) -> stable (with_operand opc opnd e k).
Proof.
  intros Hk. unfold with_operand, get_operand, CHECK_OPCODE, CHECK_OPERAND, CHECK, with_isa. stable_tac.
Qed.
#[export] Hint Resolve stable_with_operand : stable.

Lemma stable_operand_value opc opnd fmt slot sb : stable (operand_value opc opnd fmt slot sb).
Proof.
  unfold operand_value, xtensa_operand_get_field, xtensa_operand_decode.
  apply stable_bind; [|intros; apply stable_bind; [|intros; apply stable_done]];
    apply stable_with_operand; intros; unfold CHECK_FORMAT, CHECK_SLOT, CHECK; stable_tac.
Qed.
Lemma stable_is_register opc opnd : stable (xtensa_operand_is_register opc opnd).
Proof. apply stable_with_operand. auto with stable. Qed.
Lemma stable_regfile opc opnd : stable (xtensa_operand_regfile opc opnd).
Proof. apply stable_with_operand. auto with stable. Qed.
Lemma stable_is_visible opc opnd : stable (xtensa_operand_is_visible opc opnd).
Proof. unfold xtensa_operand_is_visible, CHECK_OPCODE, CHECK_OPERAND, CHECK. stable_tac. Qed.

(** ** Window *)

(** Every address register among the arguments has its bit in the mask. *)
Definition covered (a_regfile : Z) (acc : Z * list OpcodeArg) : Prop :=
  0 <= acc.1 /\
  forall a v, a ∈ acc.2 -> a_reg a = Some (a_regfile, v) -> a_imm a = a_raw_imm a -> 0 <= v < 32 ->
    Z.testbit acc.1 v = true.

Lemma covered_lor a_regfile w m args : 0 <= m -> covered a_regfile (w, args) -> covered a_regfile (w ||| m, args).
Proof.
  intros Hm [Hw Hc]. split; [by apply Z.lor_nonneg|]. intros a v Ha Hr Hi Hv. cbn in *.
  rewrite Z.lor_spec. by rewrite (Hc a v Ha Hr Hi Hv).
Qed.

Lemma covered_snoc a_regfile w args a :
  covered a_regfile (w, args) ->
  (forall v, a_reg a = Some (a_regfile, v) -> a_imm a = a_raw_imm a -> 0 <= v < 32 -> Z.testbit w v = true) ->
  covered a_regfile (w, args ++ [a]).
Proof.
  intros [Hw Hc] Ha. split; [done|]. intros b v Hb. apply elem_of_app in Hb as [Hb|Hb]; [by apply Hc|].
  apply list_elem_of_singleton in Hb as ->. apply Ha.
Qed.

Section covers.
Context (a_regfile : Z) (regfile : Z -> bool).

(** What the two queries of the register file and the window bit return. *)
Lemma operand_regfile_isa opc opnd is_reg s : isa (operand_regfile opc opnd is_reg s).2 = isa s.
Proof. unfold operand_regfile. destruct (truthy is_reg); [|done]. by apply stable_regfile. Qed.

Lemma windowed_bit_spec opc opnd fmt slot sb b w s s' :
  isa s' = isa s ->
  let v := (operand_value opc opnd fmt slot sb s).1 in
  (windowed_bit opc opnd fmt slot sb b w s').1 = (if b then w ||| lsl32 1 v else w) /\
  isa (windowed_bit opc opnd fmt slot sb b w s').2 = isa s.
Proof.
  intros H v. unfold windowed_bit. destruct b; [|done]. unfold ibind, v.
  destruct (stable_operand_value opc opnd fmt slot sb s s' H) as [<- E2].
  by destruct (operand_value opc opnd fmt slot sb s').
Qed.

Lemma decode_operand_covers dc opc fmt slot sb opnd acc s :
  covered a_regfile acc -> covered a_regfile (decode_operand a_regfile regfile dc opc fmt slot sb opnd acc s).1.
Proof.
  destruct acc as [w args]. intros Hc. unfold decode_operand, ibind. cbn [fst snd].
  pose proof (stable_is_register opc opnd s s eq_refl) as [_ I1].
  destruct (xtensa_operand_is_register opc opnd s) as [is_reg s1].
  pose proof (operand_regfile_isa opc opnd is_reg s1) as I2.
  destruct (operand_regfile opc opnd is_reg s1) as [rf s2]. cbn [snd] in *.
  destruct (windowed_bit_spec opc opnd fmt slot sb (truthy is_reg && (rf =? a_regfile)) w s s2
    ltac:(congruence)) as [Ew I3].
  destruct (windowed_bit opc opnd fmt slot sb _ w s2) as [w' s3]. cbn [fst snd] in Ew, I3.
  set (v := (operand_value opc opnd fmt slot sb s).1) in *.
  assert (Hc' : covered a_regfile (w', args)).
  { rewrite Ew. case_match; [|done]. apply covered_lor; [apply u32_in32|done]. }
  pose proof (stable_is_visible opc opnd s3 s3 eq_refl) as [_ I4].
  destruct (xtensa_operand_is_visible opc opnd s3) as [visible s4]. cbn [snd] in I4.
  destruct (truthy visible); [|exact Hc'].
  destruct (stable_operand_value opc opnd fmt slot sb s s4) as [E5 _]; [congruence|].
  destruct (operand_value opc opnd fmt slot sb s4) as [v5 s5]. cbn [fst] in E5. fold v in E5. subst v5.
  destruct (operand_imm dc opc opnd v s5) as [imm s6], (operand_bits _ rf s6) as [bits s7].
  cbn [fst done]. apply covered_snoc; [exact Hc'|]. cbn [a_reg a_imm a_raw_imm].
  intros x Hx Hi Hr. destruct (truthy is_reg); [|done]. destruct (regfile rf); [|done].
  injection Hx as -> <-. subst imm. rewrite Ew, Z.eqb_refl. cbn [andb].
  rewrite Z.lor_spec, lsl32_testbit by lia. replace (v - v) with 0 by lia.
  rewrite (proj2 (Z.ltb_lt v 32)) by lia. by rewrite orb_true_r.
Qed.

Lemma fold_isa_inv {A} (P : A -> Prop) (f : Z -> A -> isaM A) l a s :
  (forall i a s, P a -> P (f i a s).1) -> P a -> P (fold_isa f l a s).1.
Proof.
  intros Hf. revert a s. induction l as [|i l IH]; intros a s Ha; [done|]. cbn. unfold ibind.
  pose proof (Hf i a s Ha) as H. destruct (f i a s) as [a' s']. by apply IH.
Qed.

Definition slots_covered (r : slot_result) : Prop :=
  match r with
  | SlotDone d => 0 <= d_windowed d /\ forall sc, sc ∈ d_slots d -> covered a_regfile (d_windowed d, sc_args sc)
  | _ => True
  end.

Context (opcode_ops : Z -> option XtensaOps) (slotbuf0 : list Z).

Lemma covered_grow w w' args :
  0 <= w' -> (forall i, Z.testbit w i = true -> Z.testbit w' i = true) ->
  covered a_regfile (w, args) -> covered a_regfile (w', args).
Proof. intros Hw Hi [_ Hc]. split; [done|]. intros a v Ha Hr He Hv. by apply Hi, (Hc a v). Qed.

(** The mask only grows while a slot is decoded. *)
Lemma decode_operand_grows dc opc fmt slot sb opnd acc s i :
  Z.testbit acc.1 i = true ->
  Z.testbit (decode_operand a_regfile regfile dc opc fmt slot sb opnd acc s).1.1 i = true.
Proof.
  intros Hi. unfold decode_operand, ibind.
  destruct (xtensa_operand_is_register opc opnd s) as [is_reg s1].
  destruct (operand_regfile opc opnd is_reg s1) as [rf s2].
  destruct (windowed_bit_spec opc opnd fmt slot sb (truthy is_reg && (rf =? a_regfile)) acc.1 s2 s2 eq_refl) as [Ew _].
  destruct (windowed_bit opc opnd fmt slot sb _ acc.1 s2) as [w' s3]. cbn [fst] in Ew.
  assert (Hw : Z.testbit w' i = true).
  { rewrite Ew. case_match; [|done]. by rewrite Z.lor_spec, Hi. }
  destruct (xtensa_operand_is_visible opc opnd s3) as [visible s4]. destruct (truthy visible); [|exact Hw].
  destruct (operand_value opc opnd fmt slot sb s4) as [v s5].
  by destruct (operand_imm dc opc opnd v s5) as [imm s6], (operand_bits _ rf s6) as [bits s7].
Qed.

Lemma decode_slot_covers dc fmt slots insn slot r s :
  slots_covered r ->
  slots_covered (decode_slot opcode_ops a_regfile regfile slotbuf0 dc fmt slots insn slot r s).1.
Proof.
  destruct r as [t| |d]; [done|done|]. intros [Hw Hc]. unfold decode_slot, ibind.
  destruct (xtensa_format_get_slot fmt slot insn slotbuf0 s) as [sb s1].
  destruct (xtensa_opcode_decode fmt slot sb.2 s1) as [opc s2]. destruct (opc =? -1); [done|].
  destruct (xtensa_opcode_num_operands opc s2) as [opnds s3].
  set (f := decode_operand a_regfile regfile dc opc fmt slot sb.2).
  pose proof (fold_isa_inv (covered a_regfile) f (seqZ 0 opnds) (d_windowed d, []) s3
    (fun i a s => decode_operand_covers dc opc fmt slot sb.2 i a s)) as H1.
  pose proof (fun i => fold_isa_inv (fun acc => Z.testbit (d_windowed d) i = true -> Z.testbit acc.1 i = true)
    f (seqZ 0 opnds) (d_windowed d, []) s3) as H2.
  destruct (fold_isa f (seqZ 0 opnds) (d_windowed d, []) s3) as [[w args] s4]. cbn [fst] in *.
  destruct (opcode_ops opc) as [ops|]; [|done].
  destruct (match ops_test_exceptions ops with Some t => _ | None => _ end) as [tflags tcode].
  destruct (truthy _); [done|]. match goal with |- context [(if 1 <? slots then ?a else ?b) s4] =>
    destruct ((if 1 <? slots then a else b) s4) as [prop s5] end.
  destruct prop as [prop|]; [|done]. cbn [fst done slots_covered d_windowed d_slots].
  assert (Hcov : covered a_regfile (w, args)).
  { apply H1. split; [done|]. intros a v Ha. by apply not_elem_of_nil in Ha. }
  assert (Hgrow : forall i, Z.testbit (d_windowed d) i = true -> Z.testbit w i = true).
  { intros i. apply H2; [|done]. intros k a s' Ha Hi. apply decode_operand_grows, Ha, Hi. }
  set (w2 := match ops_test_overflow ops with Some t => _ | None => w end).
  assert (Hw2 : 0 <= w2 /\ forall i, Z.testbit w i = true -> Z.testbit w2 i = true).
  { unfold w2. destruct Hcov as [Hw0 _]. destruct (ops_test_overflow ops); [|done]. split.
    - apply Z.lor_nonneg. split; [exact Hw0|apply u32_in32].
    - intros i Hi. by rewrite Z.lor_spec, Hi. }
  destruct Hw2 as [Hn Hg]. split; [done|]. intros sc Hsc. apply elem_of_app in Hsc as [Hsc|Hsc].
  - apply (covered_grow (d_windowed d)); [done|auto|by apply Hc].
  - apply list_elem_of_singleton in Hsc as ->. by apply (covered_grow w).
Qed.
End covers.

(** ** The checks *)

Lemma bind_done {S A B} (c : M S A) (k : A -> M S B) s b s' :
  bind c k s = Done b s' -> exists a s1, c s = Done a s1 /\ k a s1 = Done b s'.
Proof. unfold bind. destruct (c s) as [a s1|s1|]; [|done|done]. by eexists _, _. Qed.

Lemma window_check_never_done config epc w env u env' : helper_window_check config epc w env <> Done u env'.
Proof.
  unfold helper_window_check. intros H.
  do 4 (apply bind_done in H as (? & ? & _ & H)).
  by destruct (_ =? 0); [|destruct (_ =? 1)].
Qed.

Lemma mask_top m v : 0 <= m -> 0 <= v -> Z.testbit m v = true -> v <= 31 - clz32 m.
Proof.
  intros Hm Hv Hb. unfold clz32. destruct (Z.eqb_spec m 0) as [-> |Hne]; [by rewrite Z.testbit_0_l in Hb|].
  destruct (Z.leb_spec v (Z.log2 m)); [lia|]. by rewrite Z.bits_above_log2 in Hb by lia.
Qed.

Lemma checks_window config dc d env env' v :
  insn_checks config dc d env = Done tt env' -> 0 <= d_windowed d -> 0 <= v ->
  Z.testbit (d_windowed d) v = true -> v / 4 <= dc_window dc.
Proof.
  intros H Hw Hv Hb. unfold insn_checks in H.
  apply bind_done in H as (? & e1 & _ & H). destruct (truthy (_ &&& 4)).
  { unfold gen_exception_cause in H. by rewrite exception_cause_eq in H. }
  apply bind_done in H as (? & e2 & _ & H). apply bind_done in H as (? & e3 & H & _).
  pose proof (mask_top _ _ Hw Hv Hb) as Hv'.
  assert (Ht : truthy (d_windowed d) = true).
  { apply truthy_true. intros E. by rewrite E, Z.testbit_0_l in Hb. }
  unfold when in H. rewrite Ht in H. unfold gen_window_check in H.
  destruct (Z.ltb_spec (dc_window dc) ((31 - clz32 (d_windowed d)) / 4)) as [Hlt|Hge].
  - by apply window_check_never_done in H.
  - etrans; [|exact Hge]. by apply Z.div_le_mono.
Qed.

(** What holds of the slots before the first and is kept by each holds of the
    decoded instruction. *)
Lemma disas_slots (P : slot_result -> Prop) config opcode_ops a_regfile regfile read_reg ldub slotbuf0
    dc st st' pc_next d code :
  disas_xtensa_insn config opcode_ops a_regfile regfile read_reg ldub slotbuf0 dc st
    = ((pc_next, SlotDone d, code), st') ->
  P (SlotDone no_slots) ->
  (forall fmt slots insn i r s, P r ->
     P (decode_slot opcode_ops a_regfile regfile slotbuf0 dc fmt slots insn i r s).1) ->
  P (SlotDone d) /\ code = emit_insn config read_reg dc pc_next (SlotDone d).
Proof.
  intros Hd H0 HP. unfold disas_xtensa_insn, ibind in Hd.
  destruct (xtensa_isa_length_from_chars _ st) as [len s1]. destruct (len =? -1); [done|].
  destruct (xtensa_insnbuf_from_chars _ len s1) as [insn s2].
  destruct (xtensa_format_decode insn s2) as [fmt s3]. destruct (fmt =? -1); [done|].
  destruct (xtensa_format_num_slots fmt s3) as [slots s4].
  pose proof (fold_isa_inv P _ (seqZ 0 slots) (SlotDone no_slots) s4 (HP fmt slots insn) H0) as H.
  destruct (fold_isa _ _ _ s4) as [r s5]. by injection Hd as <- -> <- _.
Qed.

(** C15: When the checks of an instruction pass, its operands lie in the current
    window: every address register among the operands of every slot is one of
    the four of the current frame or of a following frame that the block was
    translated for as free. *)
Theorem operands_in_window config opcode_ops a_regfile regfile read_reg ldub slotbuf0
    (dc : DisasContext) (st st' : IsaState) pc_next d code env env' sc a v :
  disas_xtensa_insn config opcode_ops a_regfile regfile read_reg ldub slotbuf0 dc st
    = ((pc_next, SlotDone d, code), st') ->
  insn_checks config dc d env = Done tt env' ->
  sc ∈ d_slots d -> a ∈ sc_args sc ->
  a_reg a = Some (a_regfile, v) -> a_imm a = a_raw_imm a -> 0 <= v < 32 ->
  v / 4 <= dc_window dc.
Proof.
  intros Hd Hc Hsc Ha Hr Hi Hv.
  destruct (disas_slots (slots_covered a_regfile) _ _ _ _ _ _ _ _ _ _ _ _ _ Hd) as [[Hn Hcov] _].
  { split; [done|]. intros ? E. by apply not_elem_of_nil in E. }
  { intros. by apply decode_slot_covers. }
  apply (checks_window config dc d env env'); [done|done|lia|].
  by apply (Hcov sc Hsc) with (a := a).
Qed.

(** ** Privilege *)

Definition flags_included (r : slot_result) : Prop :=
  match r with
  | SlotDone d => forall sc i, sc ∈ d_slots d -> Z.testbit (ops_flags (sc_ops sc)) i = true ->
      Z.testbit (d_flags d) i = true
  | _ => True
  end.

Lemma decode_slot_flags opcode_ops a_regfile regfile slotbuf0 dc fmt slots insn slot r s :
  flags_included r ->
  flags_included (decode_slot opcode_ops a_regfile regfile slotbuf0 dc fmt slots insn slot r s).1.
Proof.
  destruct r as [t| |d]; [done|done|]. intros Hf. unfold decode_slot, ibind.
  destruct (xtensa_format_get_slot fmt slot insn slotbuf0 s) as [sb s1].
  destruct (xtensa_opcode_decode fmt slot sb.2 s1) as [opc s2]. destruct (opc =? -1); [done|].
  destruct (xtensa_opcode_num_operands opc s2) as [opnds s3].
  destruct (fold_isa _ (seqZ 0 opnds) _ s3) as [[w args] s4].
  destruct (opcode_ops opc) as [ops|]; [|done].
  destruct (match ops_test_exceptions ops with Some t => _ | None => _ end) as [tflags tcode].
  destruct (truthy _); [done|]. match goal with |- context [(if 1 <? slots then ?a else ?b) s4] =>
    destruct ((if 1 <? slots then a else b) s4) as [prop s5] end.
  destruct prop as [prop|]; [|done]. intros sc i Hsc Hi. cbn [d_flags d_slots fst done] in *.
  rewrite !Z.lor_spec. apply elem_of_app in Hsc as [Hsc|Hsc]; [by rewrite (Hf sc i Hsc Hi)|].
  apply list_elem_of_singleton in Hsc as ->. cbn in Hi. rewrite Hi. by rewrite orb_true_r.
Qed.

(** Where a privileged instruction of a user program goes. *)
Definition privileged_trap (config : XtensaConfig) (dc : DisasContext) (m : machine) : machine :=
  with_env (general_entry
    (if Z.testbit (sr (m_env m) PS) 4 && truthy (ndepc config) then DEPC else EPC1)
    (if Z.testbit (sr (m_env m) PS) 4 then EXC_DOUBLE else user_or_kernel (m_env m))
    PRIVILEGED_CAUSE (set_pc (dc_pc dc) (m_env m))) m.

Lemma privileged_insn_traps config opcode_ops a_regfile regfile read_reg ldub slotbuf0
    (dc : DisasContext) (st st' : IsaState) pc_next d code sc oc m :
  disas_xtensa_insn config opcode_ops a_regfile regfile read_reg ldub slotbuf0 dc st
    = ((pc_next, SlotDone d, code), st') ->
  sc ∈ d_slots d -> Z.testbit (ops_flags (sc_ops sc)) 1 = true ->
  order_slots (d_slots d) = Some (Some oc) -> d_tests d m = Done tt m -> dc_cring dc <> 0 ->
  code m = LoopExit (privileged_trap config dc m).
Proof.
  intros Hd Hsc Hp Ho Ht Hr.
  destruct (disas_slots flags_included _ _ _ _ _ _ _ _ _ _ _ _ _ Hd) as [Hinc ->].
  { intros ? ? E. by apply not_elem_of_nil in E. }
  { intros. by apply decode_slot_flags. }
  assert (Hf : Z.testbit (d_flags d) 1 = true) by (by apply (Hinc sc)).
  unfold emit_insn. unfold bind at 1. rewrite Ht, Ho. destruct oc as [order copies].
  unfold bind at 1, on_env, insn_checks. unfold bind at 1.
  replace (truthy (d_flags d &&& 2)) with true.
  2:{ symmetry. apply truthy_true. intros E. apply (f_equal (fun z => Z.testbit z 1)) in E.
      rewrite Z.land_spec, Hf in E. done. }
  unfold when at 1, gen_check_privilege. rewrite (proj2 (Z.eqb_neq _ _) Hr).
  unfold gen_exception_cause. by rewrite exception_cause_eq.
Qed.

(** ** Example: MOV.N a9, a2 *)

(** A core with one 16-bit format, one slot and one opcode with two address
    registers, in bits 4 to 7 and 8 to 11. *)
Definition mov_isa : xtensa_isa_internal :=
  let field k := Some (fun b : list Z => (nthZ b 0 >>> k) &&& 0xf) in
  let reg n f := mkOperand n f 0 1 XTENSA_OPERAND_IS_REGISTER None None None None in
  mkIsa false 2 1 [mkFormat "x16a" 2 id [0]] (fun _ => 0) (fun _ => 2)
    [mkSlot "Inst16a" "x16a" 0 (fun insn _ => insn) (fun _ s => s) [field 4; field 8] [] (fun _ => 0) "nop"]
    2 [reg "t" 0; reg "s" 1] [mkIclass [mkArg 0 "o"%char; mkArg 1 "i"%char] [] []]
    [mkOpcode "mov.n" 0 0 [] []] None [mkRegfile "AR" "a" 0 32 64] [] None [] None [0; 0] [None; None]
    [] None [] None 0.
Definition mov_state : IsaState := mkIsaState mov_isa xtensa_isa_ok EmptyString None.

Definition read_ar (rf n : Z) (m : machine) : Z := nthZ (regs (m_env m)) n.
Definition mov_ops : XtensaOps :=
  mkXtensaOps (fun _ args _ => (false, v <- arg_value read_ar (nth 1 args dummy_arg) ;;
      arg_out (a_imm (nth 0 args dummy_arg)) v)) None None [] 0 0.
Definition mov_bytes (a : Z) : Z := if a =? 0 then 0x9d else 0x02.

Definition mov_dc : DisasContext :=
  {| dc_pc := 0; dc_pc_next := 0; dc_ring := 0; dc_cring := 0; dc_lbeg_off := 0; dc_lend := 0x1000;
     dc_debug := false; dc_icount := false; dc_cpenable := 0; dc_window := 3; dc_cwoe := true;
     dc_callinc := 0; dc_op_flags := 0; dc_next_icount := 0 |}.
Abbreviation mov_insn := (disas_xtensa_insn esp32s3_config (fun _ => Some mov_ops) 0 (fun _ => true) read_ar
  mov_bytes [] mov_dc mov_state) (only parsing).

(** The instruction moves a2 to a9. *)
Lemma mov_runs :
  match mov_insn.1.2 (machine_of (set_regs (setZ (replicate 16 0) 2 77) zero_env) (fun _ => 0) tie_zero)
  with Done _ m => nthZ (regs (m_env m)) 9 = 77 | _ => False end.
Proof. by vm_compute. Qed.

Definition mov_args : list OpcodeArg := [mkOpcodeArg 9 9 (Some (0, 9)) None 32; mkOpcodeArg 2 2 (Some (0, 2)) None 32].
Definition mov_decoded : decoded :=
  mkDecoded 0 0 0x204 0 [mkSlotCode mov_ops mov_args (mkSlotProp [] [] 0)] (ret tt ;; ret tt).

Lemma operands_in_window_witness : 9 / 4 <= dc_window mov_dc.
Proof.
  apply (operands_in_window esp32s3_config (fun _ => Some mov_ops) 0 (fun _ => true) read_ar mov_bytes []
    mov_dc mov_state mov_insn.2 2 mov_decoded (emit_insn esp32s3_config read_ar mov_dc 2 (SlotDone mov_decoded))
    zero_env zero_env (mkSlotCode mov_ops mov_args (mkSlotProp [] [] 0))
    (mkOpcodeArg 9 9 (Some (0, 9)) None 32) 9);
    [by vm_compute|by vm_compute|by left|by left|done|done|lia].
Defined.
