(* ===== verification/Privilege.v ===== *)
(** * Special registers of a user program

    The decoder ([Decode]) applied to the table of the special-register
    instructions ([SrTable]) in the context of a translation block ([TbFlags]):
    a program outside ring 0 cannot read or write a register numbered 64 or
    above. *)

From S2P Require Import Prelude Cpu Interrupt Exception Window Tlb Mmu OpHelper Dbg TbFlags Control Arith Lanes.
From S2P Require Import Tie Isa Slots LoadStore Decode SpecialReg SrTable.

#[local] Open Scope mach_scope.

(** The opcode of an entry; [body] is the code of its translator. *)
Definition sr_entry_ops (config : XtensaConfig) (o : sr_op)
    (body : DisasContext -> list OpcodeArg -> list Z -> bool * machM unit) : XtensaOps :=
  mkXtensaOps body
    ((fun e _ _ par => (run_sr_test config e par, ret tt)) <$> sr_test_exceptions o) None
    (sr_par o) (sr_op_flags o) 0.

(** C14: A program outside ring 0 cannot touch the privileged special registers:
    an instruction that reads, writes or exchanges a register numbered 64 or
    above, in a block translated for the current state, changes no address
    register, no memory and no special register but the ones of the exception;
    it raises the privileged-instruction exception at its own address. *)
Theorem special_registers_protected (config : XtensaConfig) `{!WfNareg config} opcode_ops a_regfile regfile
    read_reg ldub slotbuf0 (st st' : IsaState) pc_next d code sc oc (o : sr_op) body (m : machine) :
  let env := m_env m in
  let dc := tb_context config env in
  wf_window config env -> wf_windowstart config env -> 0 <= sr env CPENABLE < 2 ^ 8 ->
  xtensa_get_cring config env <> 0 ->
  o ∈ sr_ops -> legal config o = true -> 64 <= nthZ (sr_par o) 0 ->
  disas_xtensa_insn config opcode_ops a_regfile regfile read_reg ldub slotbuf0 dc st
    = ((pc_next, SlotDone d, code), st') ->
  sc ∈ d_slots d -> sc_ops sc = sr_entry_ops config o body ->
  order_slots (d_slots d) = Some (Some oc) -> d_tests d m = Done tt m ->
  exists m', code m = LoopExit m' /\
    m_mem m' = m_mem m /\ regs (m_env m') = regs env /\ m_tie m' = m_tie m /\
    sr (m_env m') EXCCAUSE = PRIVILEGED_CAUSE /\ sr (m_env m') EPC1 = pc env /\
    (forall r, r <> EPC1 -> r <> EXCCAUSE -> r <> PS -> sr (m_env m') r = sr env r).
Proof.
  intros env dc Hw Hs Hc Hring Ho Hl Hp Hd Hsc Hops Hord Ht.
  assert (Hcr : dc_cring dc <> 0).
  { unfold dc. by rewrite (proj1 (proj2 (tb_flag_fields config env Hw Hs Hc))). }
  assert (Hexcm : Z.testbit (sr env PS) 4 = false).
  { unfold xtensa_get_cring in Hring. destruct (xtensa_option_bits_enabled _ _ && _) eqn:E; [|done]. bprop.
    rewrite <- truthy_excm. unfold truthy. by apply negb_false_iff, Z.eqb_eq. }
  assert (Hpriv : Z.testbit (ops_flags (sc_ops sc)) 1 = true).
  { rewrite Hops. cbn. rewrite (sr_privileged o Ho); [by apply Z.leb_le|].
    unfold legal, sr_flags in Hl. apply negb_true_iff in Hl.
    destruct (sr_test_exceptions o); [|done]. rewrite Z.lor_spec in Hl. by apply orb_false_iff in Hl as [? _]. }
  exists (privileged_trap config dc m).
  split; [exact (privileged_insn_traps _ _ _ _ _ _ _ _ _ _ _ _ _ _ _ _ Hd Hsc Hpriv Hord Ht Hcr)|].
  unfold privileged_trap. fold env. rewrite Hexcm. cbn [andb]. unfold general_entry.
  split_and!; [done|done|done|by sr_simpl|by sr_simpl|]. intros r ???. by sr_simpl.
Qed.

(** ** Example: RSR.PS a9 in ring 1 of a core with an MMU *)

#[export] Instance mmu_wf_nareg : WfNareg mmu_config.
Proof. split. exists 6. by split. Qed.

Definition rsr_code : XtensaOps := sr_entry_ops mmu_config rsr_ps (fun _ _ _ => (false, ret tt)).
Definition user_env : CPUXtensaState := set_pc 0 (set_sr PS 0x40 tb_env).
Definition user_machine : machine := machine_of user_env (fun _ => 0) tie_zero.
Definition rsr_decoded : decoded :=
  mkDecoded XTENSA_OP_PRIVILEGED 0 0x204 0 [mkSlotCode rsr_code mov_args (mkSlotProp [] [] 0)]
    (ret tt ;; ret tt).

Lemma special_registers_protected_witness :
  exists m', emit_insn mmu_config read_ar (tb_context mmu_config user_env) 2 (SlotDone rsr_decoded) user_machine
      = LoopExit m' /\
    sr (m_env m') EXCCAUSE = PRIVILEGED_CAUSE /\ regs (m_env m') = regs user_env.
Proof.
  destruct (special_registers_protected mmu_config (fun _ => Some rsr_code) 0 (fun _ => true) read_ar mov_bytes []
    mov_state mov_state 2 rsr_decoded
    (emit_insn mmu_config read_ar (tb_context mmu_config user_env) 2 (SlotDone rsr_decoded))
    (mkSlotCode rsr_code mov_args (mkSlotProp [] [] 0)) ([0], []) rsr_ps (fun _ _ _ => (false, ret tt)) user_machine)
    as (m' & E & _ & Hr & _ & Hc & _); [..|by exists m'].
  - split; try reflexivity. vm_compute. split; congruence.
  - vm_compute. split; congruence.
  - vm_compute. split; congruence.
  - by vm_compute.
  - apply list_elem_of_In. repeat (first [by left|right]).
  - by vm_compute.
  - by vm_compute.
  - reflexivity.
  - by left.
  - done.
  - done.
  - done.
Defined.
