(* ===== verification/Fpu.v ===== *)
(** * Floating-point helpers ([target/xtensa/fpu_helper.c])

    FCR and FSR, and the helpers of the floating-point instructions in terms of
    the softfloat library [S], an argument.  [use_first_nan] of the configuration
    chooses the operand whose NaN a single-precision operation returns. *)

From S2P Require Import Prelude Cpu Lanes Tie FpStatus LoadStore.

#[local] Open Scope mach_scope.

Abbreviation FCR := 232 (only parsing).
Abbreviation FSR := 233 (only parsing).

Abbreviation XTENSA_FP_I := 0x1 (only parsing).
Abbreviation XTENSA_FP_U := 0x2 (only parsing).
Abbreviation XTENSA_FP_O := 0x4 (only parsing).
Abbreviation XTENSA_FP_Z := 0x8 (only parsing).
Abbreviation XTENSA_FP_V := 0x10 (only parsing).
Abbreviation XTENSA_FSR_FLAGS_SHIFT := 7 (only parsing).

(** Flag of the FSR, flag of softfloat. *)
Definition xtensa_fp_flag_map : list (Z * Z) := [
  (XTENSA_FP_I, float_flag_inexact); (XTENSA_FP_U, float_flag_underflow);
  (XTENSA_FP_O, float_flag_overflow); (XTENSA_FP_Z, float_flag_divbyzero);
  (XTENSA_FP_V, float_flag_invalid)].

(** An operation on [env->fp_status]. *)
Definition fp {A} (f : float_status -> A * float_status) : machM A :=
  fun m => let r := f (m_fp_status m) in Done r.1 (with_fp_status r.2 m).
Definition fp_set (f : float_status -> float_status) : machM unit := fp (fun s => (tt, f s)).

Definition set_ur (r v : Z) : machM unit := modify (fun m => with_uregs (fupd (m_uregs m) r v) m).

(** ** NaN selection, FCR and FSR *)

Definition xtensa_use_first_nan (use_first : bool) (s : float_status) : float_status :=
  set_float_2nan_prop_rule (if use_first then float_2nan_prop_ab else float_2nan_prop_ba)
    (set_use_first_nan use_first s).

Definition fcr_rounding_mode (v : Z) : Z :=
  nthZ [float_round_nearest_even; float_round_to_zero; float_round_up; float_round_down] (v &&& 3).

Definition helper_wur_fpu2k_fcr (v : Z) : machM unit :=
  set_ur FCR (v &&& 0xfffff07f) ;; fp_set (set_float_rounding_mode (fcr_rounding_mode v)).

Definition helper_wur_fpu_fcr (v : Z) : machM unit :=
  set_ur FCR (v &&& 0x0000007f) ;; fp_set (set_float_rounding_mode (fcr_rounding_mode v)).

(** The loops over [xtensa_fp_flag_map]. *)
Definition softfloat_flags (flags : Z) : Z :=
  foldl (fun fef p => if truthy (flags &&& p.1) then fef ||| p.2 else fef) 0 xtensa_fp_flag_map.
Definition xtensa_flags (fef : Z) : Z :=
  foldl (fun flags p => if truthy (fef &&& p.2) then flags ||| p.1 else flags) 0 xtensa_fp_flag_map.

Definition helper_wur_fpu_fsr (v : Z) : machM unit :=
  set_ur FSR (v &&& 0x00000f80) ;;
  fp_set (set_float_exception_flags (softfloat_flags (v >>> XTENSA_FSR_FLAGS_SHIFT))).

Definition helper_rur_fpu_fsr : machM Z :=
  fef <- gets (fun m => float_exception_flags (m_fp_status m)) ;;
  let fsr := lsl32 (xtensa_flags fef) XTENSA_FSR_FLAGS_SHIFT in
  set_ur FSR fsr ;; ret fsr.

(** ** Arithmetic *)

Section helpers.
Context (config : XtensaConfig) (S : Softfloat).

Definition helper_abs_d (v : Z) : Z := float64_abs v.
Definition helper_abs_s (v : Z) : Z := float32_abs v.
Definition helper_neg_d (v : Z) : Z := float64_chs v.
Definition helper_neg_s (v : Z) : Z := float32_chs v.

Definition helper_fpu2k_add_s (a b : Z) : machM Z := fp (float_add (float32 S) a b).
Definition helper_fpu2k_sub_s (a b : Z) : machM Z := fp (float_sub (float32 S) a b).
Definition helper_fpu2k_mul_s (a b : Z) : machM Z := fp (float_mul (float32 S) a b).
Definition helper_fpu2k_madd_s (a b c : Z) : machM Z := fp (float_muladd (float32 S) b c a 0).
Definition helper_fpu2k_msub_s (a b c : Z) : machM Z :=
  fp (float_muladd (float32 S) b c a float_muladd_negate_product).

(** The double-precision sum, difference, product, quotient and root propagate
    the first NaN; the other operations the one of the configuration. *)
Definition first_nan : machM unit := fp_set (xtensa_use_first_nan true).
Definition config_nan : machM unit := fp_set (xtensa_use_first_nan (use_first_nan config)).

Definition helper_add_d (a b : Z) : machM Z := first_nan ;; fp (float_add (float64 S) a b).
Definition helper_add_s (a b : Z) : machM Z := config_nan ;; fp (float_add (float32 S) a b).
Definition helper_sub_d (a b : Z) : machM Z := first_nan ;; fp (float_sub (float64 S) a b).
Definition helper_sub_s (a b : Z) : machM Z := config_nan ;; fp (float_sub (float32 S) a b).
Definition helper_mul_d (a b : Z) : machM Z := first_nan ;; fp (float_mul (float64 S) a b).
Definition helper_mul_s (a b : Z) : machM Z := config_nan ;; fp (float_mul (float32 S) a b).
Definition helper_madd_d (a b c : Z) : machM Z := config_nan ;; fp (float_muladd (float64 S) b c a 0).
Definition helper_madd_s (a b c : Z) : machM Z := config_nan ;; fp (float_muladd (float32 S) b c a 0).
Definition helper_msub_d (a b c : Z) : machM Z :=
  config_nan ;; fp (float_muladd (float64 S) b c a float_muladd_negate_product).
Definition helper_msub_s (a b c : Z) : machM Z :=
  config_nan ;; fp (float_muladd (float32 S) b c a float_muladd_negate_product).
Definition helper_mkdadj_d (a b : Z) : machM Z := first_nan ;; fp (float_div (float64 S) b a).
Definition helper_mkdadj_s (a b : Z) : machM Z := config_nan ;; fp (float_div (float32 S) b a).
Definition helper_mksadj_d (v : Z) : machM Z := first_nan ;; fp (float_sqrt (float64 S) v).
Definition helper_mksadj_s (v : Z) : machM Z := config_nan ;; fp (float_sqrt (float32 S) v).

(** ** Conversions *)

(** An operation on a copy of the status, of which only the flags are kept. *)
Definition fp_copy {A} (f : float_status -> A * float_status) : machM A :=
  fp (fun s => let r := f s in (r.1, set_float_exception_flags (float_exception_flags r.2) s)).

Definition ftoi (F : FloatFormat) (v rounding_mode scale : Z) : machM Z :=
  fp_copy (fun s =>
    let r := float_scalbn F v (s32 scale) (set_float_rounding_mode rounding_mode s) in
    float_to_int32 F r.1 r.2).
Definition helper_ftoi_d := ftoi (float64 S).
Definition helper_ftoi_s := ftoi (float32 S).

Definition helper_ftoui_d (v rounding_mode scale : Z) : machM Z :=
  fp_copy (fun s =>
    let r := float_scalbn (float64 S) v (s32 scale) (set_float_rounding_mode rounding_mode s) in
    if float64_is_neg v && negb (float64_is_any_nan v)
    then float_to_int32 (float64 S) r.1 (set_float_exception_flags float_flag_invalid r.2)
    else float_to_uint32 (float64 S) r.1 r.2).

Definition helper_ftoui_s (v rounding_mode scale : Z) : machM Z :=
  fp_copy (fun s =>
    let r := float_scalbn (float32 S) v (s32 scale) (set_float_rounding_mode rounding_mode s) in
    if float32_is_neg v && negb (float32_is_any_nan v)
    then
      let i := float_to_int32 (float32 S) r.1 r.2 in
      (i.1, if truthy i.1 then set_float_exception_flags float_flag_invalid i.2 else i.2)
    else float_to_uint32 (float32 S) r.1 r.2).

(** The conversion from an integer, scaled. *)
Definition scaled (F : FloatFormat) (of_int : Z -> float_status -> Z * float_status) (v scale : Z) : machM Z :=
  fp (fun s => let r := of_int v s in float_scalbn F r.1 (s32 scale) r.2).
(** [int32_to_float64] takes the operand as an [int32_t]. *)
Definition helper_itof_d (v scale : Z) : machM Z :=
  scaled (float64 S) (fun x => int32_to_float (float64 S) (s32 x)) v scale.
Definition helper_itof_s (v scale : Z) : machM Z :=
  scaled (float32 S) (fun x => int32_to_float (float32 S) (s32 x)) v scale.
Definition helper_uitof_d (v scale : Z) : machM Z := scaled (float64 S) (uint32_to_float (float64 S)) v scale.
Definition helper_uitof_s (v scale : Z) : machM Z := scaled (float32 S) (uint32_to_float (float32 S)) v scale.

Definition helper_cvtd_s (v : Z) : machM Z := fp (float32_to_float64 S v).
Definition helper_cvts_d (v : Z) : machM Z := fp (float64_to_float32 S v).

End helpers.

(** ** Comparisons *)

Inductive compare_op := COMPARE_UN | COMPARE_OEQ | COMPARE_UEQ | COMPARE_OLT | COMPARE_ULT | COMPARE_OLE | COMPARE_ULE.

(** [helper_un_s], [helper_oeq_s], ... and their double-precision versions. *)
Definition helper_un (F : FloatFormat) (a b : Z) : machM bool := fp (float_unordered_quiet F a b).
Definition helper_oeq (F : FloatFormat) (a b : Z) : machM bool := fp (float_eq_quiet F a b).
Definition helper_ueq (F : FloatFormat) (a b : Z) : machM bool :=
  fp (fun s => on_relation (fun v => match v with
    float_relation_equal | float_relation_unordered => true | _ => false end) (float_compare_quiet F a b s)).
Definition helper_olt (F : FloatFormat) (a b : Z) : machM bool := fp (float_lt F a b).
Definition helper_ult (F : FloatFormat) (a b : Z) : machM bool :=
  fp (fun s => on_relation (fun v => match v with
    float_relation_less | float_relation_unordered => true | _ => false end) (float_compare_quiet F a b s)).
Definition helper_ole (F : FloatFormat) (a b : Z) : machM bool := fp (float_le F a b).
Definition helper_ule (F : FloatFormat) (a b : Z) : machM bool :=
  fp (fun s => on_relation (fun v => match v with float_relation_greater => false | _ => true end)
    (float_compare_quiet F a b s)).

Definition compare_helper (op : compare_op) : FloatFormat -> Z -> Z -> machM bool :=
  match op with
  | COMPARE_UN => helper_un | COMPARE_OEQ => helper_oeq | COMPARE_UEQ => helper_ueq
  | COMPARE_OLT => helper_olt | COMPARE_ULT => helper_ult | COMPARE_OLE => helper_ole
  | COMPARE_ULE => helper_ule
  end.

(** ** Flags *)

(** The two directions of the flag table are inverse on the five flags. *)
Lemma flags_roundtrip v : xtensa_flags (softfloat_flags v) = v &&& 0x1f.
Proof.
  assert (H : forallb (fun x => xtensa_flags (softfloat_flags x) =? x) (seqZ 0 32) = true) by by vm_compute.
  rewrite forallb_forall in H. setoid_rewrite <- list_elem_of_In in H. setoid_rewrite elem_of_seqZ in H.
  replace (softfloat_flags v) with (softfloat_flags (v &&& 0x1f)).
  - change 0x1f with (Z.ones 5). rewrite Z.land_ones by lia.
    specialize (H (v mod 2 ^ 5)). pose proof (Z.mod_pos_bound v (2 ^ 5)). lia.
  - unfold softfloat_flags, xtensa_fp_flag_map; cbn [foldl fst snd].
    by rewrite <- !Z.land_assoc.
Qed.

Lemma softfloat_flags_bound v : 0 <= softfloat_flags v < 2 ^ 16.
Proof. unfold softfloat_flags, xtensa_fp_flag_map. cbn [foldl fst snd]. repeat case_match; split; by vm_compute. Qed.

Lemma fsr_field v : lsl32 ((v >>> 7) &&& 0x1f) 7 = v &&& 0xf80.
Proof.
  unfold lsl32, u32. rewrite Z.shiftl_land, <- Z.ldiff_ones_r by lia.
  change (Z.shiftl 0x1f 7) with 0xf80. rewrite Z.mod_small.
  - apply Z.bits_inj'. intros i Hi. rewrite !Z.land_spec, Z.ldiff_spec.
    destruct (decide (i < 7)); [|by rewrite Z.ones_spec_high, andb_true_r by lia].
    replace (Z.testbit 0xf80 i) with false; [by rewrite !andb_false_r|].
    symmetry. change 0xf80 with (Z.shiftl 0x1f 7). apply Z.shiftl_spec_low. lia.
  - by apply (land_range 32).
Qed.

(** After WUR.FSR, RUR.FSR reads the five exception flags that were written,
    and so does the register. *)
Theorem fsr_write_read v m :
  exists m1 m2,
    helper_wur_fpu_fsr v m = Done tt m1 /\ helper_rur_fpu_fsr m1 = Done (v &&& 0xf80) m2 /\
    m_uregs m1 FSR = v &&& 0xf80 /\ m_uregs m2 = fupd (m_uregs m1) FSR (v &&& 0xf80) /\
    m_fp_status m2 = set_float_exception_flags (softfloat_flags (v >>> 7)) (m_fp_status m).
Proof.
  eexists _, _. split; [reflexivity|]. unfold helper_rur_fpu_fsr, bind, gets, ret, set_ur, modify.
  cbn -[softfloat_flags xtensa_flags Z.modulo Z.pow lsl32 Z.land fupd].
  rewrite (Z.mod_small _ (2 ^ 16)) by apply softfloat_flags_bound.
  rewrite flags_roundtrip, fsr_field. repeat split.
Qed.

(** ** Comparisons partition the pairs of operands *)

(** What the comparisons rely on: signalling and quiet comparison agree on the
    relation, which does not depend on the status, and exchanging the operands
    exchanges less and greater. *)
Definition swap_relation (r : FloatRelation) : FloatRelation :=
  match r with
  | float_relation_less => float_relation_greater | float_relation_greater => float_relation_less
  | r => r
  end.
Class CompareLaws (F : FloatFormat) : Prop := {
  compare_signalling : forall a b s s', (float_compare F a b s).1 = (float_compare_quiet F a b s').1;
  compare_swap : forall a b s s', (float_compare_quiet F b a s).1 = swap_relation (float_compare_quiet F a b s').1
}.

Definition compares (op : compare_op) (F : FloatFormat) (a b : Z) (m : machine) : bool :=
  match compare_helper op F a b m with Done r _ => r | _ => false end.

(** Of UN, OEQ and the two orders of OLT exactly one holds, and the other
    comparisons are their disjunctions. *)
Theorem compare_partition (F : FloatFormat) `{!CompareLaws F} (a b : Z) (m m' : machine) :
  let un := compares COMPARE_UN F a b m in
  let oeq := compares COMPARE_OEQ F a b m in
  let olt := compares COMPARE_OLT F a b m in
  let ogt := compares COMPARE_OLT F b a m' in
  b2z un + b2z oeq + b2z olt + b2z ogt = 1 /\
  compares COMPARE_UEQ F a b m = un || oeq /\
  compares COMPARE_ULT F a b m = un || olt /\
  compares COMPARE_OLE F a b m = oeq || olt /\
  compares COMPARE_ULE F a b m = un || oeq || olt.
Proof.
  unfold compares, compare_helper, helper_un, helper_oeq, helper_olt, helper_ueq, helper_ult, helper_ole, helper_ule,
    float_unordered_quiet, float_eq_quiet, float_lt, float_le, on_relation, fp; cbn [fst snd].
  rewrite !(compare_signalling _ _ _ (m_fp_status m)), (compare_swap a b _ (m_fp_status m)).
  by destruct (float_compare_quiet F a b (m_fp_status m)).1.
Qed.

(** Single-precision comparison on bit patterns: NaNs are unordered, the zeros
    equal, and the other values ordered as sign and magnitude. *)
Definition f32_key (a : Z) : Z := if float32_is_neg a then - float32_abs a else float32_abs a.
Definition f32_compare (a b : Z) (s : float_status) : FloatRelation * float_status :=
  (if float32_is_any_nan a || float32_is_any_nan b then float_relation_unordered
   else match f32_key a ?= f32_key b with
        | Lt => float_relation_less | Eq => float_relation_equal | Gt => float_relation_greater end, s).
Definition f32_example : FloatFormat :=
  let zero2 (_ _ : Z) s := (0, s) in let zero1 (_ : Z) s := (0, s) in
  mkFloatFormat zero2 zero2 zero2 zero2 (fun _ _ => zero2) zero1 zero2 zero1 zero1 zero1 zero1 f32_compare f32_compare.

#[export] Instance f32_compare_laws : CompareLaws f32_example.
Proof.
  split; intros a b s s'; cbn; [done|]. rewrite orb_comm, Z.compare_antisym.
  by destruct (_ || _), (f32_key a ?= f32_key b).
Qed.

Lemma compare_partition_witness :
  let m := machine_of zero_env (fun _ => 0) tie_zero in
  compares COMPARE_ULT f32_example 0x3f800000 0x40000000 m =
    compares COMPARE_UN f32_example 0x3f800000 0x40000000 m || compares COMPARE_OLT f32_example 0x3f800000 0x40000000 m.
Proof. intros m. by destruct (compare_partition f32_example 0x3f800000 0x40000000 m m) as (_ & _ & H & _). Defined.
