(* ===== verification/CoreInsn.v ===== *)
(** * Core instructions ([target/xtensa/translate.c])

    The register files operands name, TCG conditions, and the translators of the
    core instructions the other files do not have: branches, jumps, moves, cache
    and TLB instructions, multiply-accumulate with its load, user and external
    registers.  [in_ k] and [out_ k] are [arg[k].in] and [arg[k].out]; a
    translator returns whether it ends the block, and the code it emits.

    [Environment] collects what the emitted code calls outside this target: the
    memory system, the external-register address space, semihosting, the clock,
    and the softfloat library. *)

From S2P Require Import Prelude Cpu Exception Window Tlb Mmu OpHelper Dbg TbFlags Control Arith Slots Lanes Tie.
From S2P Require Import FpStatus LoadStore SpecialReg Decode Fpu.

#[local] Open Scope mach_scope.

Abbreviation EXPSTATE := 230 (only parsing).
Abbreviation MMU_INST_FETCH := 2 (only parsing).

Record Environment := mkEnvironment {
  e_ldl : Z -> option Z;
  e_softmmu : Z -> Z -> Z -> Z -> Z -> cpuM (Z -> Z);
  e_er_ldl : Z -> cpuM Z;
  e_er_stl : Z -> Z -> cpuM unit;
  e_semihosting_enabled : bool -> bool;
  e_simcall : machM unit;
  e_insert_ok : watchpoint -> bool;
  e_period : Z;
  e_now : Z;
  e_wnow : Z;
  e_now_of : Z -> Z;
  e_softfloat : Softfloat
}.

(** ** Register files *)

Inductive tcg_regs := cpu_R | cpu_MR | cpu_FR | cpu_FRD | cpu_BR | cpu_BR4 | cpu_BR8.

(** Keyed by the name, the number of entries and their width. *)
Definition xtensa_regfile_table : list (string * Z * Z * tcg_regs) := [
  ("AR", 16, 32, cpu_R); ("AR", 32, 32, cpu_R); ("AR", 64, 32, cpu_R);
  ("MR", 4, 32, cpu_MR); ("FR", 16, 32, cpu_FR); ("FR", 16, 64, cpu_FRD);
  ("BR", 16, 1, cpu_BR); ("BR4", 4, 4, cpu_BR4); ("BR8", 2, 8, cpu_BR8)]%string.

Definition xtensa_get_regfile_by_name (name : string) (entries bits : Z) : option tcg_regs :=
  snd <$> List.find (fun r => let '(n, e, b) := r.1 in String.eqb n name && (e =? entries) && (b =? bits))
            xtensa_regfile_table.

(** What [xtensa_translate_init] binds the registers to: every Boolean register
    is the whole of BR, and an address register a register of the window. *)
Definition read_tcg (r : tcg_regs) (n : Z) (m : machine) : Z :=
  match r with
  | cpu_R => nthZ (regs (m_env m)) n
  | cpu_MR => sr (m_env m) (MR + n)
  | cpu_FR => m_fr m n
  | cpu_FRD => m_fr m n ||| Z.shiftl (m_fr_high m n) 32
  | cpu_BR | cpu_BR4 | cpu_BR8 => sr (m_env m) BR
  end.

Definition write_tcg (r : tcg_regs) (n v : Z) (m : machine) : machine :=
  match r with
  | cpu_R => with_env (set_reg n v (m_env m)) m
  | cpu_MR => with_env (set_sr (MR + n) v (m_env m)) m
  | cpu_FR => with_fr (fupd (m_fr m) n v) m
  | cpu_FRD => with_fr_high (fupd (m_fr_high m) n (v >>> 32)) (with_fr (fupd (m_fr m) n (u32 v)) m)
  | cpu_BR | cpu_BR4 | cpu_BR8 => with_env (set_sr BR v (m_env m)) m
  end.

(** ** Conditions ([include/tcg/tcg-cond.h]) *)

Abbreviation TCG_COND_NEVER := 0 (only parsing).
Abbreviation TCG_COND_ALWAYS := 1 (only parsing).
Abbreviation TCG_COND_EQ := 8 (only parsing).
Abbreviation TCG_COND_NE := 9 (only parsing).
Abbreviation TCG_COND_LT := 2 (only parsing).
Abbreviation TCG_COND_GE := 3 (only parsing).
Abbreviation TCG_COND_GT := 6 (only parsing).
Abbreviation TCG_COND_LE := 7 (only parsing).
Abbreviation TCG_COND_LTU := 10 (only parsing).
Abbreviation TCG_COND_GEU := 11 (only parsing).
Abbreviation TCG_COND_GTU := 14 (only parsing).
Abbreviation TCG_COND_LEU := 15 (only parsing).

(** On 32-bit operands; the "test" conditions do not occur here. *)
Definition tcg_cond (c x y : Z) : bool :=
  match c with
  | TCG_COND_ALWAYS => true
  | TCG_COND_EQ => x =? y | TCG_COND_NE => negb (x =? y)
  | TCG_COND_LT => s32 x <? s32 y | TCG_COND_GE => s32 y <=? s32 x
  | TCG_COND_GT => s32 y <? s32 x | TCG_COND_LE => s32 x <=? s32 y
  | TCG_COND_LTU => x <? y | TCG_COND_GEU => y <=? x
  | TCG_COND_GTU => y <? x | TCG_COND_LEU => x <=? y
  | _ => false
  end.

Definition tcg_invert_cond (c : Z) : Z := c ^^^ 1.

(** ** Translators *)

Definition translator : Type := DisasContext -> list OpcodeArg -> list Z -> bool * machM unit.

Section core.
Context (config : XtensaConfig) (E : Environment) (regfiles : Z -> option tcg_regs).

Definition read_reg (rf n : Z) (m : machine) : Z :=
  match regfiles rf with Some r => read_tcg r n m | None => 0 end.

Section insn.
Context (dc : DisasContext) (arg : list OpcodeArg) (par : list Z).
Abbreviation softmmu := (e_softmmu E) (only parsing).

Definition arg_ (k : nat) : OpcodeArg := nth k arg dummy_arg.
Definition imm_ (k : nat) : Z := a_imm (arg_ k).
Definition par_ (k : Z) : Z := nthZ par k.
Definition in_ (k : nat) : machM Z := arg_value read_reg (arg_ k).
(** An operand without a register file has no [out]. *)
Definition out_ (k : nat) (v : Z) : machM unit :=
  match a_reg (arg_ k) with
  | Some (rf, n) =>
      match regfiles rf with Some r => modify (write_tcg r n v) | None => massert false end
  | None => massert false
  end.

Definition stay (code : machM unit) : bool * machM unit := (false, code).
Definition leave (code : machM unit) : bool * machM unit := (true, code).

(** *** Branches and jumps *)

Definition brcond (cond x y addr : Z) : machM unit :=
  at_icount dc (fun dc => gen_brcond config dc (tcg_cond cond x y) addr).
Abbreviation gen_brcondi := brcond.

Definition translate_ball := leave (x <- in_ 0 ;; y <- in_ 1 ;; brcond (par_ 0) (x &&& y) y (imm_ 2)).
Definition translate_bany := leave (x <- in_ 0 ;; y <- in_ 1 ;; gen_brcondi (par_ 0) (x &&& y) 0 (imm_ 2)).
Definition translate_b := leave (x <- in_ 0 ;; y <- in_ 1 ;; brcond (par_ 0) x y (imm_ 2)).
Definition translate_bb :=
  leave (x <- in_ 0 ;; y <- in_ 1 ;; gen_brcondi (par_ 0) (x &&& lsl32 1 (y &&& 0x1f)) 0 (imm_ 2)).
Definition translate_bbi := leave (x <- in_ 0 ;; gen_brcondi (par_ 0) (x &&& lsl32 1 (imm_ 1)) 0 (imm_ 2)).
Definition translate_bi := leave (x <- in_ 0 ;; gen_brcondi (par_ 0) x (imm_ 1) (imm_ 2)).
Definition translate_bz := leave (x <- in_ 0 ;; gen_brcondi (par_ 0) x 0 (imm_ 1)).
Definition translate_bp := leave (x <- in_ 0 ;; gen_brcondi (par_ 0) (x &&& lsl32 1 (imm_ 0)) 0 (imm_ 1)).
Definition translate_j := leave (at_icount dc (fun dc => gen_jumpi config dc (imm_ 0))).
Definition translate_jx := leave (x <- in_ 0 ;; at_icount dc (fun dc => gen_jump config dc x)).

(** *** Moves *)

Definition translate_nop := stay (ret tt).
Definition translate_mov := stay (x <- in_ 1 ;; out_ 0 x).
Definition translate_movi := stay (out_ 0 (imm_ 1)).
Definition translate_movsp := stay (x <- in_ 1 ;; out_ 0 x).
Definition translate_movp :=
  stay (b <- in_ 2 ;; x <- in_ 1 ;; old <- in_ 0 ;;
        out_ 0 (if tcg_cond (par_ 0) (b &&& lsl32 1 (imm_ 2)) 0 then x else old)).

(** *** User and external registers *)

Definition get_ur (r : Z) : machM Z := gets (fun m => m_uregs m r).
Definition rur := stay (v <- get_ur (par_ 0) ;; out_ 0 v).
Definition wur := stay (v <- in_ 0 ;; set_ur (par_ 0) v).
Definition translate_xur_f64 := stay (ret tt).
Definition translate_clrb_expstate :=
  stay (v <- get_ur EXPSTATE ;; set_ur EXPSTATE (v &&& not32 (lsl32 1 (imm_ 0)))).
Definition translate_setb_expstate := stay (v <- get_ur EXPSTATE ;; set_ur EXPSTATE (v ||| lsl32 1 (imm_ 0))).
Definition translate_wrmsk_expstate := stay (x <- in_ 0 ;; y <- in_ 1 ;; set_ur EXPSTATE (x &&& y)).
Definition translate_read_impwire := stay (out_ 0 0).
Definition helper_rer (addr : Z) : machM Z := on_env (e_er_ldl E addr).
Definition helper_wer (data addr : Z) : machM unit := on_env (e_er_stl E addr data).
Definition translate_rer := stay (x <- in_ 1 ;; v <- helper_rer x ;; out_ 0 v).
Definition translate_wer := stay (data <- in_ 0 ;; addr <- in_ 1 ;; helper_wer data addr).

(** *** Caches, barriers, exclusive monitor *)

Definition translate_dcache :=
  stay (x <- in_ 0 ;; qemu_ld config softmmu dc MO_8 (u32 (x + imm_ 1)) (dc_cring dc) ;; ret tt).
Definition translate_diwbuip := stay (x <- in_ 0 ;; out_ 0 (u32 (x + dcache_line_bytes config))).
(** [cpu_mmu_index] is the ring of the running code. *)
Definition translate_icache :=
  stay (mod_env (set_pc (dc_pc dc)) ;; x <- in_ 0 ;;
        ring <- gets (fun m => xtensa_get_cring config (m_env m)) ;;
        on_env (softmmu (u32 (x + imm_ 1)) 1 MMU_INST_FETCH ring (dc_pc dc)) ;; ret tt).
Definition translate_memw := stay (ret tt).
Definition translate_clrex := stay (mod_env (set_exclusive_addr (2 ^ 32 - 1))).

(** *** TLB and MPU *)

Definition dtlb_ : bool := truthy (par_ 0).
Definition translate_itlb := stay (x <- in_ 0 ;; on_env (helper_itlb config x dtlb_)).
Definition translate_ptlb :=
  stay (mod_env (set_pc (dc_pc dc)) ;; x <- in_ 1 ;; v <- on_env (helper_ptlb config x dtlb_) ;; out_ 0 v).
Definition translate_pptlb :=
  stay (mod_env (set_pc (dc_pc dc)) ;; x <- in_ 1 ;; v <- on_env (helper_pptlb config x) ;; out_ 0 v).
Definition translate_rtlb :=
  stay (x <- in_ 1 ;;
        v <- on_env ((if par_ 1 =? 0 then helper_rtlb0 else helper_rtlb1) config x dtlb_) ;; out_ 0 v).
Definition translate_rptlb0 := stay (x <- in_ 1 ;; v <- gets (fun m => helper_rptlb0 config x (m_env m)) ;; out_ 0 v).
Definition translate_rptlb1 := stay (x <- in_ 1 ;; v <- gets (fun m => helper_rptlb1 config x (m_env m)) ;; out_ 0 v).
Definition translate_wtlb := stay (p <- in_ 0 ;; v <- in_ 1 ;; on_env (helper_wtlb config p v dtlb_)).
Definition translate_wptlb := stay (p <- in_ 0 ;; v <- in_ 1 ;; mod_env (helper_wptlb config p v)).

(** *** Multiply-accumulate *)

Definition mac16_op_of (op : Z) : option mac16_op :=
  match op with 0 => Some MAC16_UMUL | 1 => Some MAC16_MUL | 2 => Some MAC16_MULA | 3 => Some MAC16_MULS | _ => None end.

Definition translate_mac16 :=
  let half := par_ 1 in
  let ld_offset := par_ 2 in
  let off := if truthy ld_offset then 2%nat else 0%nat in
  stay (
    ld <- (if truthy ld_offset then
             x <- in_ 1 ;;
             let '(mop, vaddr) := gen_load_store_alignment config MO_TEUL (u32 (x + ld_offset)) in
             mem32 <- qemu_ld config softmmu dc mop vaddr (dc_cring dc) ;; ret (vaddr, mem32)
           else ret (0, 0)) ;;
    (match mac16_op_of (par_ 0) with
     | Some op =>
         x <- in_ off ;; y <- in_ (off + 1) ;;
         mod_env (fun env =>
           let acc := mac16_acc op (truthy (half &&& 1)) (truthy (half &&& 2)) x y (sr env ACCLO) (sr env ACCHI) in
           set_sr ACCHI acc.2 (set_sr ACCLO acc.1 env))
     | None => ret tt
     end) ;;
    when (truthy ld_offset) (out_ 1 ld.1 ;; mod_env (set_sr (MR + imm_ 0) ld.2))).

(** *** Semihosting and tests *)

Definition test_exceptions_simcall : Z :=
  b2z ((hw_version config <=? 250002) && negb (e_semihosting_enabled E (negb (dc_cring dc =? 0)))).
Definition translate_simcall :=
  stay (when (e_semihosting_enabled E (negb (dc_cring dc =? 0))) (e_simcall E)).

(** The flags, and the code of the test. *)
Definition test_exceptions_retw : Z * machM unit :=
  if dc_cwoe dc then (0, on_env (helper_test_ill_retw config (dc_pc dc))) else (XTENSA_OP_ILL, ret tt).

End insn.
End core.

(** ** Conditions *)

Definition cond_known (c : Z) : bool := existsb (Z.eqb c) [0; 1; 8; 9; 2; 3; 6; 7; 10; 11; 14; 15].

Lemma tcg_invert_cond_spec c x y : cond_known c = true -> tcg_cond (tcg_invert_cond c) x y = negb (tcg_cond c x y).
Proof.
  unfold cond_known. rewrite existsb_exists. intros (c' & Hin & ->%Z.eqb_eq). revert Hin. cbn [In].
  intros H. repeat (destruct H as [<-|H]); [..|done];
    match goal with |- context [tcg_invert_cond ?c] =>
      let v := eval vm_compute in (tcg_invert_cond c) in change (tcg_invert_cond c) with v end; cbn;
    rewrite ?negb_involutive, ?Z.leb_antisym, ?negb_involutive; try done.
Qed.
