(* ===== verification/FpInsn.v ===== *)
(** * Floating-point instructions ([target/xtensa/translate.c])

    The translators of the FPU2000 and of the double-precision FPU.  A single
    precision operand in a 64-bit register is its low word; a result is zero
    extended ([get_f32_*], [put_f32_*]). *)

From S2P Require Import Prelude Cpu TbFlags Control Arith Lanes Tie FpStatus LoadStore SpecialReg Decode Fpu CoreInsn.

#[local] Open Scope mach_scope.

Abbreviation MO_TEUQ := 3 (only parsing).

Section fpu.
Context (config : XtensaConfig) (E : Environment) (regfiles : Z -> option tcg_regs).
Context (dc : DisasContext) (args : list OpcodeArg) (pars : list Z).
Abbreviation softmmu := (e_softmmu E) (only parsing).
Abbreviation S := (e_softfloat E) (only parsing).
Abbreviation arg k := (arg_ args k) (only parsing).
Abbreviation imm k := (imm_ args k) (only parsing).
Abbreviation par k := (par_ pars k) (only parsing).
Abbreviation inp k := (in_ regfiles args k) (only parsing).
Abbreviation out k := (out_ regfiles args k) (only parsing).

(** ** Single precision in wide registers *)

(** The test shared by [get_f32_o1_i3] and [put_f32_o1_i3]. *)
Definition is_f64 (o0 i0 : option nat) : bool :=
  let wide (k : option nat) := match k with Some k => a_num_bits (arg k) =? 64 | None => false end in
  wide i0 || wide o0.
(** [arg32[k].in] of [get_f32_*] and [arg32[k].out] with [put_f32_*]. *)
Definition f32_in (wide : bool) (k : nat) : machM Z := x <- inp k ;; ret (if wide then u32 x else x).
Definition f32_out (wide : bool) (k : nat) (v : Z) : machM unit := out k (if wide then u32 v else v).

(** An operation of [arg[0].out] on [arg[1].in] and [arg[2].in]. *)
Definition f32_op1 (f : Z -> machM Z) : machM unit :=
  let w := is_f64 (Some 0%nat) (Some 1%nat) in x <- f32_in w 1 ;; v <- f x ;; f32_out w 0 v.
Definition f32_op2 (f : Z -> Z -> machM Z) : machM unit :=
  let w := is_f64 (Some 0%nat) (Some 1%nat) in
  x <- f32_in w 1 ;; y <- f32_in w 2 ;; v <- f x y ;; f32_out w 0 v.
(** The multiply-add instructions, which also read [arg[0].in]. *)
Definition f32_op3 (f : Z -> Z -> Z -> machM Z) : machM unit :=
  let w := is_f64 (Some 0%nat) (Some 0%nat) in
  a <- f32_in w 0 ;; b <- f32_in w 1 ;; c <- f32_in w 2 ;; v <- f a b c ;; f32_out w 0 v.
Definition op1 (f : Z -> machM Z) : machM unit := x <- inp 1 ;; v <- f x ;; out 0 v.
Definition op2 (f : Z -> Z -> machM Z) : machM unit := x <- inp 1 ;; y <- inp 2 ;; v <- f x y ;; out 0 v.
Definition op3 (f : Z -> Z -> Z -> machM Z) : machM unit :=
  a <- inp 0 ;; b <- inp 1 ;; c <- inp 2 ;; v <- f a b c ;; out 0 v.

(** ** Arithmetic *)

Definition translate_abs_d := stay (op1 (fun x => ret (helper_abs_d x))).
Definition translate_abs_s := stay (f32_op1 (fun x => ret (helper_abs_s x))).
Definition translate_neg_d := stay (op1 (fun x => ret (helper_neg_d x))).
Definition translate_neg_s := stay (f32_op1 (fun x => ret (helper_neg_s x))).

Definition translate_fpu2k_add_s := stay (op2 (helper_fpu2k_add_s S)).
Definition translate_fpu2k_sub_s := stay (op2 (helper_fpu2k_sub_s S)).
Definition translate_fpu2k_mul_s := stay (op2 (helper_fpu2k_mul_s S)).
Definition translate_fpu2k_madd_s := stay (op3 (helper_fpu2k_madd_s S)).
Definition translate_fpu2k_msub_s := stay (op3 (helper_fpu2k_msub_s S)).

Definition single_only : bool := xtensa_option_enabled config OPTION_DFPU_SINGLE_ONLY.
Definition translate_add_d := stay (op2 (helper_add_d S)).
Definition translate_add_s := if single_only then translate_fpu2k_add_s else stay (f32_op2 (helper_add_s config S)).
Definition translate_sub_d := stay (op2 (helper_sub_d S)).
Definition translate_sub_s := if single_only then translate_fpu2k_sub_s else stay (f32_op2 (helper_sub_s config S)).
Definition translate_mul_d := stay (op2 (helper_mul_d S)).
Definition translate_mul_s := if single_only then translate_fpu2k_mul_s else stay (f32_op2 (helper_mul_s config S)).
Definition translate_madd_d := stay (op3 (helper_madd_d config S)).
Definition translate_madd_s := if single_only then translate_fpu2k_madd_s else stay (f32_op3 (helper_madd_s config S)).
Definition translate_msub_d := stay (op3 (helper_msub_d config S)).
Definition translate_msub_s := if single_only then translate_fpu2k_msub_s else stay (f32_op3 (helper_msub_s config S)).

Definition translate_mkdadj_d := stay (a <- inp 0 ;; b <- inp 1 ;; v <- helper_mkdadj_d S a b ;; out 0 v).
Definition translate_mkdadj_s :=
  let w := is_f64 (Some 0%nat) (Some 0%nat) in
  stay (a <- f32_in w 0 ;; b <- f32_in w 1 ;; v <- helper_mkdadj_s config S a b ;; f32_out w 0 v).
Definition translate_mksadj_d := stay (op1 (helper_mksadj_d S)).
Definition translate_mksadj_s := stay (f32_op1 (helper_mksadj_s config S)).

(** ** Comparisons *)

Definition compare_op_of (k : Z) : compare_op :=
  match k with
  | 0 => COMPARE_UN | 1 => COMPARE_OEQ | 2 => COMPARE_UEQ | 3 => COMPARE_OLT
  | 4 => COMPARE_ULT | 5 => COMPARE_OLE | _ => COMPARE_ULE
  end.
(** The Boolean register with the result in its bit. *)
Definition set_bit (br : Z) (res : bool) : Z :=
  if res then br ||| lsl32 1 (imm 0) else br &&& not32 (lsl32 1 (imm 0)).
Definition translate_compare_d :=
  stay (br <- inp 0 ;; x <- inp 1 ;; y <- inp 2 ;;
        res <- compare_helper (compare_op_of (par 0)) (float64 S) x y ;; out 0 (set_bit br res)).
Definition translate_compare_s :=
  let w := is_f64 None (Some 1%nat) in
  stay (br <- inp 0 ;; x <- f32_in w 1 ;; y <- f32_in w 2 ;;
        res <- compare_helper (compare_op_of (par 0)) (float32 S) x y ;; out 0 (set_bit br res)).

(** ** Constants and conversions *)

Definition translate_const_d :=
  stay (out 0 (nthZ [0x0000000000000000; 0x3ff0000000000000; 0x4000000000000000; 0x3fe0000000000000] (imm 1 mod 4))).
Definition translate_const_s :=
  stay (out 0 (nthZ [0x00000000; 0x3f800000; 0x40000000; 0x3f000000] (imm 1 mod 4))).
Definition translate_float_d :=
  let scale := u32 (- imm 2) in
  stay (x <- inp 1 ;; v <- (if truthy (par 0) then helper_uitof_d S else helper_itof_d S) x scale ;; out 0 v).
Definition translate_float_s :=
  let scale := u32 (- imm 2) in
  let w := is_f64 (Some 0%nat) None in
  stay (x <- inp 1 ;; v <- (if truthy (par 0) then helper_uitof_s S else helper_itof_s S) x scale ;; f32_out w 0 v).
Definition translate_ftoi_d :=
  stay (x <- inp 1 ;; v <- (if truthy (par 1) then helper_ftoui_d S else helper_ftoi_d S) x (par 0) (imm 2) ;; out 0 v).
Definition translate_ftoi_s :=
  let w := is_f64 None (Some 1%nat) in
  stay (x <- f32_in w 1 ;;
        v <- (if truthy (par 1) then helper_ftoui_s S else helper_ftoi_s S) x (par 0) (imm 2) ;; out 0 v).
Definition translate_cvtd_s := stay (x <- inp 1 ;; v <- helper_cvtd_s S (u32 x) ;; out 0 v).
Definition translate_cvts_d := stay (x <- inp 1 ;; v <- helper_cvts_d S x ;; out 0 v).

(** ** Moves *)

Definition translate_mov_d := stay (x <- inp 1 ;; out 0 x).
Definition translate_mov_s := stay (x <- inp 1 ;; out 0 x).
(** The wide version compares the sign-extended word, with the same outcome for
    the signed conditions and for equality. *)
Definition tcg_cond64 (c x y : Z) : bool :=
  match c with
  | TCG_COND_ALWAYS => true
  | TCG_COND_EQ => x =? y | TCG_COND_NE => negb (x =? y)
  | TCG_COND_LT => x <? y | TCG_COND_GE => y <=? x
  | TCG_COND_GT => y <? x | TCG_COND_LE => x <=? y
  | _ => false
  end.
Definition translate_movcond_d :=
  stay (t <- inp 2 ;; x <- inp 1 ;; old <- inp 0 ;; out 0 (if tcg_cond64 (par 0) (s32 t) 0 then x else old)).
Definition translate_movcond_s :=
  if a_num_bits (arg 0) =? 32 then
    stay (t <- inp 2 ;; x <- inp 1 ;; old <- inp 0 ;; out 0 (if tcg_cond (par 0) t 0 then x else old))
  else translate_movcond_d.
Definition translate_movp_d :=
  stay (b <- inp 2 ;; x <- inp 1 ;; old <- inp 0 ;;
        out 0 (if tcg_cond64 (par 0) (b &&& lsl32 1 (imm 2)) 0 then x else old)).
Definition translate_movp_s :=
  if a_num_bits (arg 0) =? 32 then
    stay (b <- inp 2 ;; x <- inp 1 ;; old <- inp 0 ;;
          out 0 (if tcg_cond (par 0) (b &&& lsl32 1 (imm 2)) 0 then x else old))
  else translate_movp_d.
Definition translate_rfr_d := stay (x <- inp 1 ;; out 0 (x >>> 32)).
Definition translate_rfr_s := stay (x <- inp 1 ;; out 0 (if a_num_bits (arg 1) =? 32 then x else u32 x)).
Definition translate_wfr_d := stay (hi <- inp 1 ;; lo <- inp 2 ;; out 0 (lo ||| lsl64 hi 32)).
Definition translate_wfr_s := stay (x <- inp 1 ;; out 0 (if a_num_bits (arg 0) =? 32 then x else u64 (s32 x))).

(** ** Loads and stores *)

(** Of the FPU2000: [par[0]] stores, [par[1]] updates the base. *)
Definition ldst_2k (addr : Z) : machM unit :=
  let '(mop, addr) := gen_load_store_alignment config MO_TEUL addr in
  (if truthy (par 0) then v <- inp 0 ;; qemu_st config softmmu dc mop v addr (dc_cring dc)
   else v <- qemu_ld config softmmu dc mop addr (dc_cring dc) ;; out 0 v) ;;
  when (truthy (par 1)) (out 1 addr).
Definition translate_ldsti := stay (x <- inp 1 ;; ldst_2k (u32 (x + imm 2))).
Definition translate_ldstx := stay (x <- inp 1 ;; y <- inp 2 ;; ldst_2k (u32 (x + y))).

(** The others: [par[1]] adds the offset before the access, [par[2]] updates the
    base.  Without [par[1]] the address is [arg[1].in] itself, which
    [gen_load_store_alignment] masks in place. *)
Definition ldst_fp (wide : bool) (offset : machM Z) : machM unit :=
  base <- inp 1 ;; o <- offset ;;
  let '(mop, addr) := gen_load_store_alignment config (if wide then MO_TEUQ else MO_TEUL)
                        (if truthy (par 1) then u32 (base + o) else base) in
  (if truthy (par 1) then ret tt else when (negb (addr =? base)) (out 1 addr)) ;;
  (if truthy (par 0) then
     v <- (if wide then inp 0 else f32_in (is_f64 None (Some 0%nat)) 0) ;;
     qemu_st config softmmu dc mop v addr (dc_cring dc)
   else
     v <- qemu_ld config softmmu dc mop addr (dc_cring dc) ;;
     if wide then out 0 v else f32_out (is_f64 (Some 0%nat) None) 0 v) ;;
  when (truthy (par 2))
    (if truthy (par 1) then out 1 addr else base <- inp 1 ;; o <- offset ;; out 1 (u32 (base + o))).
Definition translate_ldsti_d := stay (ldst_fp true (ret (imm 2))).
Definition translate_ldsti_s := stay (ldst_fp false (ret (imm 2))).
Definition translate_ldstx_d := stay (ldst_fp true (inp 2)).
Definition translate_ldstx_s := stay (ldst_fp false (inp 2)).

(** ** Control registers *)

Definition translate_wur_fpu2k_fcr := stay (v <- inp 0 ;; helper_wur_fpu2k_fcr v).
Definition translate_wur_fpu2k_fsr := stay (v <- inp 0 ;; set_ur (par 0) (v &&& 0xffffff80)).
Definition translate_wur_fpu_fcr := stay (v <- inp 0 ;; helper_wur_fpu_fcr v).
Definition translate_rur_fpu_fsr := stay (v <- helper_rur_fpu_fsr ;; out 0 v).
Definition translate_wur_fpu_fsr := stay (v <- inp 0 ;; helper_wur_fpu_fsr v).

End fpu.
