(* ===== verification/OpTable.v ===== *)
(** * The opcode tables ([core_ops], [fpu2000_ops] and [fpu_ops] of
    [target/xtensa/translate.c])

    The entries of the tables as data: names, translator, tests, parameters,
    flags and coprocessor.  The special-register entries of [core_ops] are
    [sr_ops] of [SrTable]; [core_insns] are the others.  [run_core] gives a
    translator's code.  The translators that [Control] and [LoadStore] state on
    register numbers read the registers directly: an instruction of one slot has
    no copied operands. *)

From S2P Require Import Prelude Cpu Exception Window Mmu Dbg TbFlags Control Arith Slots Lanes Tie FpStatus LoadStore SpecialReg Decode.
From S2P Require Import Fpu CoreInsn FpInsn.

#[local] Open Scope mach_scope.

Abbreviation THREADPTR := 231 (only parsing).
Abbreviation DEBUGCAUSE_BI := 0x8 (only parsing).
Abbreviation DEBUGCAUSE_BN := 0x10 (only parsing).

Abbreviation BOOLEAN_AND := 0 (only parsing).
Abbreviation BOOLEAN_ANDC := 1 (only parsing).
Abbreviation BOOLEAN_OR := 2 (only parsing).
Abbreviation BOOLEAN_ORC := 3 (only parsing).
Abbreviation BOOLEAN_XOR := 4 (only parsing).
Abbreviation MAC16_LL := 0 (only parsing).
Abbreviation MAC16_HL := 1 (only parsing).
Abbreviation MAC16_LH := 2 (only parsing).
Abbreviation MAC16_HH := 3 (only parsing).
Abbreviation COMPARE_UN := 0 (only parsing).
Abbreviation COMPARE_OEQ := 1 (only parsing).
Abbreviation COMPARE_UEQ := 2 (only parsing).
Abbreviation COMPARE_OLT := 3 (only parsing).
Abbreviation COMPARE_ULT := 4 (only parsing).
Abbreviation COMPARE_OLE := 5 (only parsing).
Abbreviation COMPARE_ULE := 6 (only parsing).

Abbreviation XTENSA_OP_CHECK_INTERRUPTS := 0x200 (only parsing).
Abbreviation XTENSA_OP_EXIT_TB_M1 := 0x400 (only parsing).
Abbreviation XTENSA_OP_EXIT_TB_0 := 0x800 (only parsing).
Abbreviation XTENSA_OP_SYNC_REGISTER_WINDOW := 0x1000 (only parsing).
Abbreviation XTENSA_OP_NAME_ARRAY := 0x8000 (only parsing).
Abbreviation XTENSA_OP_STORE := 0x20000 (only parsing).
Abbreviation XTENSA_OP_LOAD := 0x40000 (only parsing).

(** ** Entries *)

Inductive core_fn :=
| C_abs | C_add | C_addi | C_addx | C_all | C_and
| C_boolean | C_ball | C_bany | C_bb | C_bbi | C_b
| C_bi | C_bz | C_bp | C_nop | C_call0 | C_callw
| C_callx0 | C_callxw | C_clamps | C_clrb_expstate | C_clrex | C_const16
| C_depbits | C_dcache | C_diwbuip | C_entry | C_extui | C_memw
| C_getex | C_itlb | C_icache | C_j | C_jx | C_ldst
| C_l32e | C_l32ex | C_l32r | C_lct | C_mac16 | C_loop
| C_smax | C_umax | C_smin | C_umin | C_mov | C_movcond
| C_movp | C_movi | C_movsp | C_mul16 | C_mull | C_mulh
| C_neg | C_nsa | C_nsau | C_or | C_ptlb | C_pptlb
| C_quos | C_quou | C_rtlb | C_read_impwire | C_remu | C_rer
| C_ret | C_retw | C_rfde | C_rfe | C_rfi | C_rfw
| C_rptlb0 | C_rptlb1 | C_rotw | C_rsil | C_rur | C_s32c1i
| C_s32e | C_s32ex | C_salt | C_setb_expstate | C_sext | C_simcall
| C_sll | C_slli | C_sra | C_srai | C_src | C_srl
| C_srli | C_ssa8b | C_ssa8l | C_ssai | C_ssl | C_ssr
| C_sub | C_subx | C_waiti | C_wtlb | C_wer | C_wptlb
| C_wrmsk_expstate | C_wur | C_xur_f64 | C_xor | C_abs_s | C_fpu2k_add_s
| C_ftoi_s | C_float_s | C_ldsti | C_ldstx | C_fpu2k_madd_s | C_mov_s
| C_movcond_s | C_movp_s | C_fpu2k_msub_s | C_fpu2k_mul_s | C_neg_s | C_compare_s
| C_rfr_s | C_fpu2k_sub_s | C_wfr_s | C_wur_fpu2k_fcr | C_wur_fpu2k_fsr | C_abs_d
| C_add_d | C_add_s | C_ftoi_d | C_const_d | C_const_s | C_cvtd_s
| C_cvts_d | C_float_d | C_ldsti_d | C_ldstx_d | C_ldsti_s | C_ldstx_s
| C_madd_d | C_madd_s | C_mkdadj_d | C_mkdadj_s | C_mksadj_d | C_mksadj_s
| C_mov_d | C_movcond_d | C_movp_d | C_msub_d | C_msub_s | C_mul_d
| C_mul_s | C_neg_d | C_compare_d | C_rfr_d | C_rur_fpu_fsr | C_sub_d
| C_sub_s | C_wfr_d | C_wur_fpu_fcr | C_wur_fpu_fsr.

Inductive core_test := X_entry | X_retw | X_simcall.

Record op_entry := mkOp {
  op_names : list string;
  op_translate : option core_fn;
  op_test_exceptions : option core_test;
  op_test_overflow : bool;  (** [test_overflow_entry], the only one *)
  op_par : list Z;
  op_flags : Z;
  op_coprocessor : Z
}.

Definition core_insns_1 : list op_entry := [
  mkOp ["abs"]%string (Some C_abs) None false [] (0) 0;
  mkOp ["add"; "add.n"]%string (Some C_add) None false [] (XTENSA_OP_NAME_ARRAY) 0;
  mkOp ["addi"; "addi.n"]%string (Some C_addi) None false [] (XTENSA_OP_NAME_ARRAY) 0;
  mkOp ["addmi"]%string (Some C_addi) None false [] (0) 0;
  mkOp ["addx2"]%string (Some C_addx) None false [1] (0) 0;
  mkOp ["addx4"]%string (Some C_addx) None false [2] (0) 0;
  mkOp ["addx8"]%string (Some C_addx) None false [3] (0) 0;
  mkOp ["all4"]%string (Some C_all) None false [1; 4] (0) 0;
  mkOp ["all8"]%string (Some C_all) None false [1; 8] (0) 0;
  mkOp ["and"]%string (Some C_and) None false [] (0) 0;
  mkOp ["andb"]%string (Some C_boolean) None false [BOOLEAN_AND] (0) 0;
  mkOp ["andbc"]%string (Some C_boolean) None false [BOOLEAN_ANDC] (0) 0;
  mkOp ["any4"]%string (Some C_all) None false [0; 4] (0) 0;
  mkOp ["any8"]%string (Some C_all) None false [0; 8] (0) 0;
  mkOp ["ball"; "ball.w15"; "ball.w18"]%string (Some C_ball) None false [TCG_COND_EQ] (XTENSA_OP_NAME_ARRAY) 0;
  mkOp ["bany"; "bany.w15"; "bany.w18"]%string (Some C_bany) None false [TCG_COND_NE] (XTENSA_OP_NAME_ARRAY) 0;
  mkOp ["bbc"; "bbc.w15"; "bbc.w18"]%string (Some C_bb) None false [TCG_COND_EQ] (XTENSA_OP_NAME_ARRAY) 0;
  mkOp ["bbci"; "bbci.w15"; "bbci.w18"]%string (Some C_bbi) None false [TCG_COND_EQ] (XTENSA_OP_NAME_ARRAY) 0;
  mkOp ["bbs"; "bbs.w15"; "bbs.w18"]%string (Some C_bb) None false [TCG_COND_NE] (XTENSA_OP_NAME_ARRAY) 0;
  mkOp ["bbsi"; "bbsi.w15"; "bbsi.w18"]%string (Some C_bbi) None false [TCG_COND_NE] (XTENSA_OP_NAME_ARRAY) 0;
  mkOp ["beq"; "beq.w15"; "beq.w18"]%string (Some C_b) None false [TCG_COND_EQ] (XTENSA_OP_NAME_ARRAY) 0;
  mkOp ["beqi"; "beqi.w15"; "beqi.w18"]%string (Some C_bi) None false [TCG_COND_EQ] (XTENSA_OP_NAME_ARRAY) 0;
  mkOp ["beqz"; "beqz.n"; "beqz.w15"; "beqz.w18"]%string (Some C_bz) None false [TCG_COND_EQ] (XTENSA_OP_NAME_ARRAY) 0;
  mkOp ["bf"]%string (Some C_bp) None false [TCG_COND_EQ] (0) 0;
  mkOp ["bge"; "bge.w15"; "bge.w18"]%string (Some C_b) None false [TCG_COND_GE] (XTENSA_OP_NAME_ARRAY) 0;
  mkOp ["bgei"; "bgei.w15"; "bgei.w18"]%string (Some C_bi) None false [TCG_COND_GE] (XTENSA_OP_NAME_ARRAY) 0;
  mkOp ["bgeu"; "bgeu.w15"; "bgeu.w18"]%string (Some C_b) None false [TCG_COND_GEU] (XTENSA_OP_NAME_ARRAY) 0].

Definition core_insns_2 : list op_entry := [
  mkOp ["bgeui"; "bgeui.w15"; "bgeui.w18"]%string (Some C_bi) None false [TCG_COND_GEU] (XTENSA_OP_NAME_ARRAY) 0;
  mkOp ["bgez"; "bgez.w15"; "bgez.w18"]%string (Some C_bz) None false [TCG_COND_GE] (XTENSA_OP_NAME_ARRAY) 0;
  mkOp ["blt"; "blt.w15"; "blt.w18"]%string (Some C_b) None false [TCG_COND_LT] (XTENSA_OP_NAME_ARRAY) 0;
  mkOp ["blti"; "blti.w15"; "blti.w18"]%string (Some C_bi) None false [TCG_COND_LT] (XTENSA_OP_NAME_ARRAY) 0;
  mkOp ["bltu"; "bltu.w15"; "bltu.w18"]%string (Some C_b) None false [TCG_COND_LTU] (XTENSA_OP_NAME_ARRAY) 0;
  mkOp ["bltui"; "bltui.w15"; "bltui.w18"]%string (Some C_bi) None false [TCG_COND_LTU] (XTENSA_OP_NAME_ARRAY) 0;
  mkOp ["bltz"; "bltz.w15"; "bltz.w18"]%string (Some C_bz) None false [TCG_COND_LT] (XTENSA_OP_NAME_ARRAY) 0;
  mkOp ["bnall"; "bnall.w15"; "bnall.w18"]%string (Some C_ball) None false [TCG_COND_NE] (XTENSA_OP_NAME_ARRAY) 0;
  mkOp ["bne"; "bne.w15"; "bne.w18"]%string (Some C_b) None false [TCG_COND_NE] (XTENSA_OP_NAME_ARRAY) 0;
  mkOp ["bnei"; "bnei.w15"; "bnei.w18"]%string (Some C_bi) None false [TCG_COND_NE] (XTENSA_OP_NAME_ARRAY) 0;
  mkOp ["bnez"; "bnez.n"; "bnez.w15"; "bnez.w18"]%string (Some C_bz) None false [TCG_COND_NE] (XTENSA_OP_NAME_ARRAY) 0;
  mkOp ["bnone"; "bnone.w15"; "bnone.w18"]%string (Some C_bany) None false [TCG_COND_EQ] (XTENSA_OP_NAME_ARRAY) 0;
  mkOp ["break"]%string (Some C_nop) None false [DEBUGCAUSE_BI] (XTENSA_OP_DEBUG_BREAK) 0;
  mkOp ["break.n"]%string (Some C_nop) None false [DEBUGCAUSE_BN] (XTENSA_OP_DEBUG_BREAK) 0;
  mkOp ["bt"]%string (Some C_bp) None false [TCG_COND_NE] (0) 0;
  mkOp ["call0"]%string (Some C_call0) None false [] (0) 0;
  mkOp ["call12"]%string (Some C_callw) None false [3] (0) 0;
  mkOp ["call4"]%string (Some C_callw) None false [1] (0) 0;
  mkOp ["call8"]%string (Some C_callw) None false [2] (0) 0;
  mkOp ["callx0"]%string (Some C_callx0) None false [] (0) 0;
  mkOp ["callx12"]%string (Some C_callxw) None false [3] (0) 0;
  mkOp ["callx4"]%string (Some C_callxw) None false [1] (0) 0;
  mkOp ["callx8"]%string (Some C_callxw) None false [2] (0) 0;
  mkOp ["clamps"]%string (Some C_clamps) None false [] (0) 0;
  mkOp ["clrb_expstate"]%string (Some C_clrb_expstate) None false [] (0) 0;
  mkOp ["clrex"]%string (Some C_clrex) None false [] (0) 0;
  mkOp ["const16"]%string (Some C_const16) None false [] (0) 0;
  mkOp ["depbits"]%string (Some C_depbits) None false [] (0) 0;
  mkOp ["dhi"]%string (Some C_dcache) None false [] (XTENSA_OP_PRIVILEGED) 0].

Definition core_insns_3 : list op_entry := [
  mkOp ["dhi.b"]%string (Some C_nop) None false [] (0) 0;
  mkOp ["dhu"]%string (Some C_dcache) None false [] (XTENSA_OP_PRIVILEGED) 0;
  mkOp ["dhwb"]%string (Some C_dcache) None false [] (0) 0;
  mkOp ["dhwb.b"]%string (Some C_nop) None false [] (0) 0;
  mkOp ["dhwbi"]%string (Some C_dcache) None false [] (0) 0;
  mkOp ["dhwbi.b"]%string (Some C_nop) None false [] (0) 0;
  mkOp ["dii"]%string (Some C_nop) None false [] (XTENSA_OP_PRIVILEGED) 0;
  mkOp ["diu"]%string (Some C_nop) None false [] (XTENSA_OP_PRIVILEGED) 0;
  mkOp ["diwb"]%string (Some C_nop) None false [] (XTENSA_OP_PRIVILEGED) 0;
  mkOp ["diwbi"]%string (Some C_nop) None false [] (XTENSA_OP_PRIVILEGED) 0;
  mkOp ["diwbui.p"]%string (Some C_diwbuip) None false [] (XTENSA_OP_PRIVILEGED) 0;
  mkOp ["dpfl"]%string (Some C_dcache) None false [] (XTENSA_OP_PRIVILEGED) 0;
  mkOp ["dpfm.b"]%string (Some C_nop) None false [] (0) 0;
  mkOp ["dpfm.bf"]%string (Some C_nop) None false [] (0) 0;
  mkOp ["dpfr"]%string (Some C_nop) None false [] (0) 0;
  mkOp ["dpfr.b"]%string (Some C_nop) None false [] (0) 0;
  mkOp ["dpfr.bf"]%string (Some C_nop) None false [] (0) 0;
  mkOp ["dpfro"]%string (Some C_nop) None false [] (0) 0;
  mkOp ["dpfw"]%string (Some C_nop) None false [] (0) 0;
  mkOp ["dpfw.b"]%string (Some C_nop) None false [] (0) 0;
  mkOp ["dpfw.bf"]%string (Some C_nop) None false [] (0) 0;
  mkOp ["dpfwo"]%string (Some C_nop) None false [] (0) 0;
  mkOp ["dsync"]%string (Some C_nop) None false [] (0) 0;
  mkOp ["entry"]%string (Some C_entry) (Some X_entry) true [] (XTENSA_OP_EXIT_TB_M1 ||| XTENSA_OP_SYNC_REGISTER_WINDOW) 0;
  mkOp ["esync"]%string (Some C_nop) None false [] (0) 0;
  mkOp ["excw"]%string (Some C_nop) None false [] (0) 0;
  mkOp ["extui"]%string (Some C_extui) None false [] (0) 0;
  mkOp ["extw"]%string (Some C_memw) None false [] (0) 0;
  mkOp ["getex"]%string (Some C_getex) None false [] (0) 0;
  mkOp ["hwwdtlba"]%string None None false [] (XTENSA_OP_ILL) 0;
  mkOp ["hwwitlba"]%string None None false [] (XTENSA_OP_ILL) 0;
  mkOp ["idtlb"]%string (Some C_itlb) None false [1] (XTENSA_OP_PRIVILEGED ||| XTENSA_OP_EXIT_TB_M1) 0;
  mkOp ["ihi"]%string (Some C_icache) None false [] (0) 0;
  mkOp ["ihu"]%string (Some C_icache) None false [] (XTENSA_OP_PRIVILEGED) 0;
  mkOp ["iii"]%string (Some C_nop) None false [] (XTENSA_OP_PRIVILEGED) 0;
  mkOp ["iitlb"]%string (Some C_itlb) None false [0] (XTENSA_OP_PRIVILEGED ||| XTENSA_OP_EXIT_TB_M1) 0;
  mkOp ["iiu"]%string (Some C_nop) None false [] (XTENSA_OP_PRIVILEGED) 0;
  mkOp ["ill"; "ill.n"]%string None None false [] (XTENSA_OP_ILL ||| XTENSA_OP_NAME_ARRAY) 0;
  mkOp ["ipf"]%string (Some C_nop) None false [] (0) 0;
  mkOp ["ipfl"]%string (Some C_icache) None false [] (XTENSA_OP_PRIVILEGED) 0;
  mkOp ["isync"]%string (Some C_nop) None false [] (0) 0;
  mkOp ["j"]%string (Some C_j) None false [] (0) 0].

Definition core_insns_4 : list op_entry := [
  mkOp ["jx"]%string (Some C_jx) None false [] (0) 0;
  mkOp ["l16si"]%string (Some C_ldst) None false [MO_SIGN ||| MO_16; 0; 0] (XTENSA_OP_LOAD) 0;
  mkOp ["l16ui"]%string (Some C_ldst) None false [MO_16; 0; 0] (XTENSA_OP_LOAD) 0;
  mkOp ["l32ai"]%string (Some C_ldst) None false [MO_TEUL ||| MO_ALIGN; 1; 0] (XTENSA_OP_LOAD) 0;
  mkOp ["l32e"]%string (Some C_l32e) None false [] (XTENSA_OP_PRIVILEGED ||| XTENSA_OP_LOAD) 0;
  mkOp ["l32ex"]%string (Some C_l32ex) None false [] (XTENSA_OP_LOAD) 0;
  mkOp ["l32i"; "l32i.n"]%string (Some C_ldst) None false [MO_TEUL; 0; 0] (XTENSA_OP_NAME_ARRAY ||| XTENSA_OP_LOAD) 0;
  mkOp ["l32r"]%string (Some C_l32r) None false [] (XTENSA_OP_LOAD) 0;
  mkOp ["l8ui"]%string (Some C_ldst) None false [MO_8; 0; 0] (XTENSA_OP_LOAD) 0;
  mkOp ["ldct"]%string (Some C_lct) None false [] (XTENSA_OP_PRIVILEGED) 0;
  mkOp ["ldcw"]%string (Some C_nop) None false [] (XTENSA_OP_PRIVILEGED) 0;
  mkOp ["lddec"]%string (Some C_mac16) None false [4; 0; 2 ^ 32 - 4] (XTENSA_OP_LOAD) 0;
  mkOp ["ldinc"]%string (Some C_mac16) None false [4; 0; 4] (XTENSA_OP_LOAD) 0;
  mkOp ["ldpte"]%string None None false [] (XTENSA_OP_ILL) 0;
  mkOp ["lict"]%string (Some C_lct) None false [] (XTENSA_OP_PRIVILEGED) 0;
  mkOp ["licw"]%string (Some C_nop) None false [] (XTENSA_OP_PRIVILEGED) 0;
  mkOp ["loop"; "loop.w15"]%string (Some C_loop) None false [TCG_COND_NEVER] (XTENSA_OP_NAME_ARRAY) 0;
  mkOp ["loopgtz"; "loopgtz.w15"]%string (Some C_loop) None false [TCG_COND_GT] (XTENSA_OP_NAME_ARRAY) 0;
  mkOp ["loopnez"; "loopnez.w15"]%string (Some C_loop) None false [TCG_COND_NE] (XTENSA_OP_NAME_ARRAY) 0;
  mkOp ["max"]%string (Some C_smax) None false [] (0) 0;
  mkOp ["maxu"]%string (Some C_umax) None false [] (0) 0;
  mkOp ["memw"]%string (Some C_memw) None false [] (0) 0;
  mkOp ["min"]%string (Some C_smin) None false [] (0) 0;
  mkOp ["minu"]%string (Some C_umin) None false [] (0) 0;
  mkOp ["mov"; "mov.n"]%string (Some C_mov) None false [] (XTENSA_OP_NAME_ARRAY) 0;
  mkOp ["moveqz"]%string (Some C_movcond) None false [TCG_COND_EQ] (0) 0;
  mkOp ["movf"]%string (Some C_movp) None false [TCG_COND_EQ] (0) 0;
  mkOp ["movgez"]%string (Some C_movcond) None false [TCG_COND_GE] (0) 0;
  mkOp ["movi"]%string (Some C_movi) None false [] (0) 0;
  mkOp ["movi.n"]%string (Some C_movi) None false [] (0) 0;
  mkOp ["movltz"]%string (Some C_movcond) None false [TCG_COND_LT] (0) 0;
  mkOp ["movnez"]%string (Some C_movcond) None false [TCG_COND_NE] (0) 0;
  mkOp ["movsp"]%string (Some C_movsp) None false [] (XTENSA_OP_ALLOCA) 0;
  mkOp ["movt"]%string (Some C_movp) None false [TCG_COND_NE] (0) 0].

Definition core_insns_5 : list op_entry := [
  mkOp ["mul.aa.hh"]%string (Some C_mac16) None false [1; MAC16_HH; 0] (0) 0;
  mkOp ["mul.aa.hl"]%string (Some C_mac16) None false [1; MAC16_HL; 0] (0) 0;
  mkOp ["mul.aa.lh"]%string (Some C_mac16) None false [1; MAC16_LH; 0] (0) 0;
  mkOp ["mul.aa.ll"]%string (Some C_mac16) None false [1; MAC16_LL; 0] (0) 0;
  mkOp ["mul.ad.hh"]%string (Some C_mac16) None false [1; MAC16_HH; 0] (0) 0;
  mkOp ["mul.ad.hl"]%string (Some C_mac16) None false [1; MAC16_HL; 0] (0) 0;
  mkOp ["mul.ad.lh"]%string (Some C_mac16) None false [1; MAC16_LH; 0] (0) 0;
  mkOp ["mul.ad.ll"]%string (Some C_mac16) None false [1; MAC16_LL; 0] (0) 0;
  mkOp ["mul.da.hh"]%string (Some C_mac16) None false [1; MAC16_HH; 0] (0) 0;
  mkOp ["mul.da.hl"]%string (Some C_mac16) None false [1; MAC16_HL; 0] (0) 0;
  mkOp ["mul.da.lh"]%string (Some C_mac16) None false [1; MAC16_LH; 0] (0) 0;
  mkOp ["mul.da.ll"]%string (Some C_mac16) None false [1; MAC16_LL; 0] (0) 0;
  mkOp ["mul.dd.hh"]%string (Some C_mac16) None false [1; MAC16_HH; 0] (0) 0;
  mkOp ["mul.dd.hl"]%string (Some C_mac16) None false [1; MAC16_HL; 0] (0) 0;
  mkOp ["mul.dd.lh"]%string (Some C_mac16) None false [1; MAC16_LH; 0] (0) 0;
  mkOp ["mul.dd.ll"]%string (Some C_mac16) None false [1; MAC16_LL; 0] (0) 0;
  mkOp ["mul16s"]%string (Some C_mul16) None false [1] (0) 0;
  mkOp ["mul16u"]%string (Some C_mul16) None false [0] (0) 0;
  mkOp ["mula.aa.hh"]%string (Some C_mac16) None false [2; MAC16_HH; 0] (0) 0;
  mkOp ["mula.aa.hl"]%string (Some C_mac16) None false [2; MAC16_HL; 0] (0) 0;
  mkOp ["mula.aa.lh"]%string (Some C_mac16) None false [2; MAC16_LH; 0] (0) 0;
  mkOp ["mula.aa.ll"]%string (Some C_mac16) None false [2; MAC16_LL; 0] (0) 0;
  mkOp ["mula.ad.hh"]%string (Some C_mac16) None false [2; MAC16_HH; 0] (0) 0;
  mkOp ["mula.ad.hl"]%string (Some C_mac16) None false [2; MAC16_HL; 0] (0) 0;
  mkOp ["mula.ad.lh"]%string (Some C_mac16) None false [2; MAC16_LH; 0] (0) 0;
  mkOp ["mula.ad.ll"]%string (Some C_mac16) None false [2; MAC16_LL; 0] (0) 0;
  mkOp ["mula.da.hh"]%string (Some C_mac16) None false [2; MAC16_HH; 0] (0) 0;
  mkOp ["mula.da.hh.lddec"]%string (Some C_mac16) None false [2; MAC16_HH; 2 ^ 32 - 4] (0) 0;
  mkOp ["mula.da.hh.ldinc"]%string (Some C_mac16) None false [2; MAC16_HH; 4] (0) 0;
  mkOp ["mula.da.hl"]%string (Some C_mac16) None false [2; MAC16_HL; 0] (0) 0;
  mkOp ["mula.da.hl.lddec"]%string (Some C_mac16) None false [2; MAC16_HL; 2 ^ 32 - 4] (0) 0;
  mkOp ["mula.da.hl.ldinc"]%string (Some C_mac16) None false [2; MAC16_HL; 4] (0) 0;
  mkOp ["mula.da.lh"]%string (Some C_mac16) None false [2; MAC16_LH; 0] (0) 0;
  mkOp ["mula.da.lh.lddec"]%string (Some C_mac16) None false [2; MAC16_LH; 2 ^ 32 - 4] (0) 0;
  mkOp ["mula.da.lh.ldinc"]%string (Some C_mac16) None false [2; MAC16_LH; 4] (0) 0;
  mkOp ["mula.da.ll"]%string (Some C_mac16) None false [2; MAC16_LL; 0] (0) 0;
  mkOp ["mula.da.ll.lddec"]%string (Some C_mac16) None false [2; MAC16_LL; 2 ^ 32 - 4] (0) 0].

Definition core_insns_6 : list op_entry := [
  mkOp ["mula.da.ll.ldinc"]%string (Some C_mac16) None false [2; MAC16_LL; 4] (0) 0;
  mkOp ["mula.dd.hh"]%string (Some C_mac16) None false [2; MAC16_HH; 0] (0) 0;
  mkOp ["mula.dd.hh.lddec"]%string (Some C_mac16) None false [2; MAC16_HH; 2 ^ 32 - 4] (0) 0;
  mkOp ["mula.dd.hh.ldinc"]%string (Some C_mac16) None false [2; MAC16_HH; 4] (0) 0;
  mkOp ["mula.dd.hl"]%string (Some C_mac16) None false [2; MAC16_HL; 0] (0) 0;
  mkOp ["mula.dd.hl.lddec"]%string (Some C_mac16) None false [2; MAC16_HL; 2 ^ 32 - 4] (0) 0;
  mkOp ["mula.dd.hl.ldinc"]%string (Some C_mac16) None false [2; MAC16_HL; 4] (0) 0;
  mkOp ["mula.dd.lh"]%string (Some C_mac16) None false [2; MAC16_LH; 0] (0) 0;
  mkOp ["mula.dd.lh.lddec"]%string (Some C_mac16) None false [2; MAC16_LH; 2 ^ 32 - 4] (0) 0;
  mkOp ["mula.dd.lh.ldinc"]%string (Some C_mac16) None false [2; MAC16_LH; 4] (0) 0;
  mkOp ["mula.dd.ll"]%string (Some C_mac16) None false [2; MAC16_LL; 0] (0) 0;
  mkOp ["mula.dd.ll.lddec"]%string (Some C_mac16) None false [2; MAC16_LL; 2 ^ 32 - 4] (0) 0;
  mkOp ["mula.dd.ll.ldinc"]%string (Some C_mac16) None false [2; MAC16_LL; 4] (0) 0;
  mkOp ["mull"]%string (Some C_mull) None false [] (0) 0;
  mkOp ["muls.aa.hh"]%string (Some C_mac16) None false [3; MAC16_HH; 0] (0) 0;
  mkOp ["muls.aa.hl"]%string (Some C_mac16) None false [3; MAC16_HL; 0] (0) 0;
  mkOp ["muls.aa.lh"]%string (Some C_mac16) None false [3; MAC16_LH; 0] (0) 0;
  mkOp ["muls.aa.ll"]%string (Some C_mac16) None false [3; MAC16_LL; 0] (0) 0;
  mkOp ["muls.ad.hh"]%string (Some C_mac16) None false [3; MAC16_HH; 0] (0) 0;
  mkOp ["muls.ad.hl"]%string (Some C_mac16) None false [3; MAC16_HL; 0] (0) 0;
  mkOp ["muls.ad.lh"]%string (Some C_mac16) None false [3; MAC16_LH; 0] (0) 0;
  mkOp ["muls.ad.ll"]%string (Some C_mac16) None false [3; MAC16_LL; 0] (0) 0;
  mkOp ["muls.da.hh"]%string (Some C_mac16) None false [3; MAC16_HH; 0] (0) 0;
  mkOp ["muls.da.hl"]%string (Some C_mac16) None false [3; MAC16_HL; 0] (0) 0;
  mkOp ["muls.da.lh"]%string (Some C_mac16) None false [3; MAC16_LH; 0] (0) 0;
  mkOp ["muls.da.ll"]%string (Some C_mac16) None false [3; MAC16_LL; 0] (0) 0;
  mkOp ["muls.dd.hh"]%string (Some C_mac16) None false [3; MAC16_HH; 0] (0) 0;
  mkOp ["muls.dd.hl"]%string (Some C_mac16) None false [3; MAC16_HL; 0] (0) 0;
  mkOp ["muls.dd.lh"]%string (Some C_mac16) None false [3; MAC16_LH; 0] (0) 0;
  mkOp ["muls.dd.ll"]%string (Some C_mac16) None false [3; MAC16_LL; 0] (0) 0;
  mkOp ["mulsh"]%string (Some C_mulh) None false [1] (0) 0;
  mkOp ["muluh"]%string (Some C_mulh) None false [0] (0) 0;
  mkOp ["neg"]%string (Some C_neg) None false [] (0) 0;
  mkOp ["nop"; "nop.n"]%string (Some C_nop) None false [] (XTENSA_OP_NAME_ARRAY) 0;
  mkOp ["nsa"]%string (Some C_nsa) None false [] (0) 0;
  mkOp ["nsau"]%string (Some C_nsau) None false [] (0) 0;
  mkOp ["or"]%string (Some C_or) None false [] (0) 0].

Definition core_insns_7 : list op_entry := [
  mkOp ["orb"]%string (Some C_boolean) None false [BOOLEAN_OR] (0) 0;
  mkOp ["orbc"]%string (Some C_boolean) None false [BOOLEAN_ORC] (0) 0;
  mkOp ["pdtlb"]%string (Some C_ptlb) None false [1] (XTENSA_OP_PRIVILEGED) 0;
  mkOp ["pfend.a"]%string (Some C_nop) None false [] (0) 0;
  mkOp ["pfend.o"]%string (Some C_nop) None false [] (0) 0;
  mkOp ["pfnxt.f"]%string (Some C_nop) None false [] (0) 0;
  mkOp ["pfwait.a"]%string (Some C_nop) None false [] (0) 0;
  mkOp ["pfwait.r"]%string (Some C_nop) None false [] (0) 0;
  mkOp ["pitlb"]%string (Some C_ptlb) None false [0] (XTENSA_OP_PRIVILEGED) 0;
  mkOp ["pptlb"]%string (Some C_pptlb) None false [] (XTENSA_OP_PRIVILEGED) 0;
  mkOp ["quos"]%string (Some C_quos) None false [1] (XTENSA_OP_DIVIDE_BY_ZERO) 0;
  mkOp ["quou"]%string (Some C_quou) None false [] (XTENSA_OP_DIVIDE_BY_ZERO) 0;
  mkOp ["rdtlb0"]%string (Some C_rtlb) None false [1; 0] (XTENSA_OP_PRIVILEGED) 0;
  mkOp ["rdtlb1"]%string (Some C_rtlb) None false [1; 1] (XTENSA_OP_PRIVILEGED) 0;
  mkOp ["read_impwire"]%string (Some C_read_impwire) None false [] (0) 0;
  mkOp ["rems"]%string (Some C_quos) None false [0] (XTENSA_OP_DIVIDE_BY_ZERO) 0;
  mkOp ["remu"]%string (Some C_remu) None false [] (XTENSA_OP_DIVIDE_BY_ZERO) 0;
  mkOp ["rer"]%string (Some C_rer) None false [] (XTENSA_OP_PRIVILEGED) 0;
  mkOp ["ret"; "ret.n"]%string (Some C_ret) None false [] (XTENSA_OP_NAME_ARRAY) 0;
  mkOp ["retw"; "retw.n"]%string (Some C_retw) (Some X_retw) false [] (XTENSA_OP_UNDERFLOW ||| XTENSA_OP_NAME_ARRAY) 0;
  mkOp ["rfdd"]%string None None false [] (XTENSA_OP_ILL) 0;
  mkOp ["rfde"]%string (Some C_rfde) None false [] (XTENSA_OP_PRIVILEGED) 0;
  mkOp ["rfdo"]%string None None false [] (XTENSA_OP_ILL) 0;
  mkOp ["rfe"]%string (Some C_rfe) None false [] (XTENSA_OP_PRIVILEGED ||| XTENSA_OP_CHECK_INTERRUPTS) 0;
  mkOp ["rfi"]%string (Some C_rfi) None false [] (XTENSA_OP_PRIVILEGED ||| XTENSA_OP_CHECK_INTERRUPTS) 0;
  mkOp ["rfwo"]%string (Some C_rfw) None false [1] (XTENSA_OP_PRIVILEGED ||| XTENSA_OP_CHECK_INTERRUPTS) 0;
  mkOp ["rfwu"]%string (Some C_rfw) None false [0] (XTENSA_OP_PRIVILEGED ||| XTENSA_OP_CHECK_INTERRUPTS) 0;
  mkOp ["ritlb0"]%string (Some C_rtlb) None false [0; 0] (XTENSA_OP_PRIVILEGED) 0;
  mkOp ["ritlb1"]%string (Some C_rtlb) None false [0; 1] (XTENSA_OP_PRIVILEGED) 0;
  mkOp ["rptlb0"]%string (Some C_rptlb0) None false [] (XTENSA_OP_PRIVILEGED) 0;
  mkOp ["rptlb1"]%string (Some C_rptlb1) None false [] (XTENSA_OP_PRIVILEGED) 0;
  mkOp ["rotw"]%string (Some C_rotw) None false [] (XTENSA_OP_PRIVILEGED ||| XTENSA_OP_EXIT_TB_M1 ||| XTENSA_OP_SYNC_REGISTER_WINDOW) 0;
  mkOp ["rsil"]%string (Some C_rsil) None false [] (XTENSA_OP_PRIVILEGED ||| XTENSA_OP_EXIT_TB_0 ||| XTENSA_OP_CHECK_INTERRUPTS) 0].

Definition core_insns_8 : list op_entry := [
  mkOp ["rsync"]%string (Some C_nop) None false [] (0) 0;
  mkOp ["rur.expstate"]%string (Some C_rur) None false [EXPSTATE] (0) 0;
  mkOp ["rur.threadptr"]%string (Some C_rur) None false [THREADPTR] (0) 0;
  mkOp ["s16i"]%string (Some C_ldst) None false [MO_16; 0; 1] (XTENSA_OP_STORE) 0;
  mkOp ["s32c1i"]%string (Some C_s32c1i) None false [] (XTENSA_OP_LOAD ||| XTENSA_OP_STORE) 0;
  mkOp ["s32e"]%string (Some C_s32e) None false [] (XTENSA_OP_PRIVILEGED ||| XTENSA_OP_STORE) 0;
  mkOp ["s32ex"]%string (Some C_s32ex) None false [] (XTENSA_OP_LOAD ||| XTENSA_OP_STORE) 0;
  mkOp ["s32i"; "s32i.n"; "s32nb"]%string (Some C_ldst) None false [MO_TEUL; 0; 1] (XTENSA_OP_NAME_ARRAY ||| XTENSA_OP_STORE) 0;
  mkOp ["s32ri"]%string (Some C_ldst) None false [MO_TEUL ||| MO_ALIGN; 1; 1] (XTENSA_OP_STORE) 0;
  mkOp ["s8i"]%string (Some C_ldst) None false [MO_8; 0; 1] (XTENSA_OP_STORE) 0;
  mkOp ["salt"]%string (Some C_salt) None false [TCG_COND_LT] (0) 0;
  mkOp ["saltu"]%string (Some C_salt) None false [TCG_COND_LTU] (0) 0;
  mkOp ["sdct"]%string (Some C_nop) None false [] (XTENSA_OP_PRIVILEGED) 0;
  mkOp ["sdcw"]%string (Some C_nop) None false [] (XTENSA_OP_PRIVILEGED) 0;
  mkOp ["setb_expstate"]%string (Some C_setb_expstate) None false [] (0) 0;
  mkOp ["sext"]%string (Some C_sext) None false [] (0) 0;
  mkOp ["sict"]%string (Some C_nop) None false [] (XTENSA_OP_PRIVILEGED) 0;
  mkOp ["sicw"]%string (Some C_nop) None false [] (XTENSA_OP_PRIVILEGED) 0;
  mkOp ["simcall"]%string (Some C_simcall) (Some X_simcall) false [] (XTENSA_OP_PRIVILEGED) 0;
  mkOp ["sll"]%string (Some C_sll) None false [] (0) 0;
  mkOp ["slli"]%string (Some C_slli) None false [] (0) 0;
  mkOp ["sra"]%string (Some C_sra) None false [] (0) 0;
  mkOp ["srai"]%string (Some C_srai) None false [] (0) 0;
  mkOp ["src"]%string (Some C_src) None false [] (0) 0;
  mkOp ["srl"]%string (Some C_srl) None false [] (0) 0;
  mkOp ["srli"]%string (Some C_srli) None false [] (0) 0;
  mkOp ["ssa8b"]%string (Some C_ssa8b) None false [] (0) 0;
  mkOp ["ssa8l"]%string (Some C_ssa8l) None false [] (0) 0;
  mkOp ["ssai"]%string (Some C_ssai) None false [] (0) 0;
  mkOp ["ssl"]%string (Some C_ssl) None false [] (0) 0;
  mkOp ["ssr"]%string (Some C_ssr) None false [] (0) 0;
  mkOp ["sub"]%string (Some C_sub) None false [] (0) 0;
  mkOp ["subx2"]%string (Some C_subx) None false [1] (0) 0;
  mkOp ["subx4"]%string (Some C_subx) None false [2] (0) 0;
  mkOp ["subx8"]%string (Some C_subx) None false [3] (0) 0;
  mkOp ["syscall"]%string None None false [] (XTENSA_OP_SYSCALL) 0;
  mkOp ["umul.aa.hh"]%string (Some C_mac16) None false [0; MAC16_HH; 0] (0) 0;
  mkOp ["umul.aa.hl"]%string (Some C_mac16) None false [0; MAC16_HL; 0] (0) 0;
  mkOp ["umul.aa.lh"]%string (Some C_mac16) None false [0; MAC16_LH; 0] (0) 0].

Definition core_insns_9 : list op_entry := [
  mkOp ["umul.aa.ll"]%string (Some C_mac16) None false [0; MAC16_LL; 0] (0) 0;
  mkOp ["waiti"]%string (Some C_waiti) None false [] (XTENSA_OP_PRIVILEGED ||| XTENSA_OP_EXIT_TB_0) 0;
  mkOp ["wdtlb"]%string (Some C_wtlb) None false [1] (XTENSA_OP_PRIVILEGED ||| XTENSA_OP_EXIT_TB_M1) 0;
  mkOp ["wer"]%string (Some C_wer) None false [] (XTENSA_OP_PRIVILEGED) 0;
  mkOp ["witlb"]%string (Some C_wtlb) None false [0] (XTENSA_OP_PRIVILEGED ||| XTENSA_OP_EXIT_TB_M1) 0;
  mkOp ["wptlb"]%string (Some C_wptlb) None false [] (XTENSA_OP_PRIVILEGED ||| XTENSA_OP_EXIT_TB_M1) 0;
  mkOp ["wrmsk_expstate"]%string (Some C_wrmsk_expstate) None false [] (0) 0].

Definition core_insns_10 : list op_entry := [
  mkOp ["wur.expstate"]%string (Some C_wur) None false [EXPSTATE] (0) 0;
  mkOp ["wur.f64r_lo"]%string (Some C_xur_f64) None false [] (0) 0;
  mkOp ["wur.f64r_hi"]%string (Some C_xur_f64) None false [] (0) 0;
  mkOp ["wur.f64s"]%string (Some C_xur_f64) None false [] (0) 0;
  mkOp ["rur.f64r_lo"]%string (Some C_xur_f64) None false [] (0) 0;
  mkOp ["rur.f64r_hi"]%string (Some C_xur_f64) None false [] (0) 0;
  mkOp ["rur.f64s"]%string (Some C_xur_f64) None false [] (0) 0;
  mkOp ["wur.threadptr"]%string (Some C_wur) None false [THREADPTR] (0) 0;
  mkOp ["xor"]%string (Some C_xor) None false [] (0) 0;
  mkOp ["xorb"]%string (Some C_boolean) None false [BOOLEAN_XOR] (0) 0].

Definition core_insns : list op_entry :=
  core_insns_1 ++ core_insns_2 ++ core_insns_3 ++ core_insns_4 ++ core_insns_5 ++ core_insns_6 ++ core_insns_7 ++ core_insns_8 ++ core_insns_9 ++ core_insns_10.

Definition fpu2000_ops_1 : list op_entry := [
  mkOp ["abs.s"]%string (Some C_abs_s) None false [] (0) 0x1;
  mkOp ["add.s"]%string (Some C_fpu2k_add_s) None false [] (0) 0x1;
  mkOp ["ceil.s"]%string (Some C_ftoi_s) None false [float_round_up; 0] (0) 0x1;
  mkOp ["float.s"]%string (Some C_float_s) None false [0] (0) 0x1;
  mkOp ["floor.s"]%string (Some C_ftoi_s) None false [float_round_down; 0] (0) 0x1;
  mkOp ["lsi"]%string (Some C_ldsti) None false [0; 0] (XTENSA_OP_LOAD) 0x1;
  mkOp ["lsiu"]%string (Some C_ldsti) None false [0; 1] (XTENSA_OP_LOAD) 0x1;
  mkOp ["lsx"]%string (Some C_ldstx) None false [0; 0] (XTENSA_OP_LOAD) 0x1;
  mkOp ["lsxu"]%string (Some C_ldstx) None false [0; 1] (XTENSA_OP_LOAD) 0x1;
  mkOp ["madd.s"]%string (Some C_fpu2k_madd_s) None false [] (0) 0x1;
  mkOp ["mov.s"]%string (Some C_mov_s) None false [] (0) 0x1;
  mkOp ["moveqz.s"]%string (Some C_movcond_s) None false [TCG_COND_EQ] (0) 0x1;
  mkOp ["movf.s"]%string (Some C_movp_s) None false [TCG_COND_EQ] (0) 0x1;
  mkOp ["movgez.s"]%string (Some C_movcond_s) None false [TCG_COND_GE] (0) 0x1;
  mkOp ["movltz.s"]%string (Some C_movcond_s) None false [TCG_COND_LT] (0) 0x1;
  mkOp ["movnez.s"]%string (Some C_movcond_s) None false [TCG_COND_NE] (0) 0x1;
  mkOp ["movt.s"]%string (Some C_movp_s) None false [TCG_COND_NE] (0) 0x1;
  mkOp ["msub.s"]%string (Some C_fpu2k_msub_s) None false [] (0) 0x1;
  mkOp ["mul.s"]%string (Some C_fpu2k_mul_s) None false [] (0) 0x1;
  mkOp ["neg.s"]%string (Some C_neg_s) None false [] (0) 0x1;
  mkOp ["oeq.s"]%string (Some C_compare_s) None false [COMPARE_OEQ] (0) 0x1;
  mkOp ["ole.s"]%string (Some C_compare_s) None false [COMPARE_OLE] (0) 0x1;
  mkOp ["olt.s"]%string (Some C_compare_s) None false [COMPARE_OLT] (0) 0x1;
  mkOp ["rfr"]%string (Some C_rfr_s) None false [] (0) 0x1;
  mkOp ["round.s"]%string (Some C_ftoi_s) None false [float_round_nearest_even; 0] (0) 0x1;
  mkOp ["rur.fcr"]%string (Some C_rur) None false [FCR] (0) 0x1;
  mkOp ["rur.fsr"]%string (Some C_rur) None false [FSR] (0) 0x1;
  mkOp ["ssi"]%string (Some C_ldsti) None false [1; 0] (XTENSA_OP_STORE) 0x1;
  mkOp ["ssiu"]%string (Some C_ldsti) None false [1; 1] (XTENSA_OP_STORE) 0x1].

Definition fpu2000_ops_2 : list op_entry := [
  mkOp ["ssx"]%string (Some C_ldstx) None false [1; 0] (XTENSA_OP_STORE) 0x1;
  mkOp ["ssxu"]%string (Some C_ldstx) None false [1; 1] (XTENSA_OP_STORE) 0x1;
  mkOp ["sub.s"]%string (Some C_fpu2k_sub_s) None false [] (0) 0x1;
  mkOp ["trunc.s"]%string (Some C_ftoi_s) None false [float_round_to_zero; 0] (0) 0x1;
  mkOp ["ueq.s"]%string (Some C_compare_s) None false [COMPARE_UEQ] (0) 0x1;
  mkOp ["ufloat.s"]%string (Some C_float_s) None false [1] (0) 0x1;
  mkOp ["ule.s"]%string (Some C_compare_s) None false [COMPARE_ULE] (0) 0x1;
  mkOp ["ult.s"]%string (Some C_compare_s) None false [COMPARE_ULT] (0) 0x1;
  mkOp ["un.s"]%string (Some C_compare_s) None false [COMPARE_UN] (0) 0x1;
  mkOp ["utrunc.s"]%string (Some C_ftoi_s) None false [float_round_to_zero; 1] (0) 0x1;
  mkOp ["wfr"]%string (Some C_wfr_s) None false [] (0) 0x1;
  mkOp ["wur.fcr"]%string (Some C_wur_fpu2k_fcr) None false [FCR] (0) 0x1;
  mkOp ["wur.fsr"]%string (Some C_wur_fpu2k_fsr) None false [FSR] (0) 0x1].

Definition fpu2000_ops : list op_entry :=
  fpu2000_ops_1 ++ fpu2000_ops_2.

Definition fpu_ops_1 : list op_entry := [
  mkOp ["abs.d"]%string (Some C_abs_d) None false [] (0) 0x1;
  mkOp ["abs.s"]%string (Some C_abs_s) None false [] (0) 0x1;
  mkOp ["add.d"]%string (Some C_add_d) None false [] (0) 0x1;
  mkOp ["add.s"]%string (Some C_add_s) None false [] (0) 0x1;
  mkOp ["addexp.d"]%string (Some C_nop) None false [] (0) 0x1;
  mkOp ["addexp.s"]%string (Some C_nop) None false [] (0) 0x1;
  mkOp ["addexpm.d"]%string (Some C_mov_s) None false [] (0) 0x1;
  mkOp ["addexpm.s"]%string (Some C_mov_s) None false [] (0) 0x1;
  mkOp ["ceil.d"]%string (Some C_ftoi_d) None false [float_round_up; 0] (0) 0x1;
  mkOp ["ceil.s"]%string (Some C_ftoi_s) None false [float_round_up; 0] (0) 0x1;
  mkOp ["const.d"]%string (Some C_const_d) None false [] (0) 0x1;
  mkOp ["const.s"]%string (Some C_const_s) None false [] (0) 0x1;
  mkOp ["cvtd.s"]%string (Some C_cvtd_s) None false [] (0) 0x1;
  mkOp ["cvts.d"]%string (Some C_cvts_d) None false [] (0) 0x1;
  mkOp ["div0.d"]%string (Some C_nop) None false [] (0) 0x1;
  mkOp ["div0.s"]%string (Some C_nop) None false [] (0) 0x1;
  mkOp ["divn.d"]%string (Some C_nop) None false [] (0) 0x1;
  mkOp ["divn.s"]%string (Some C_nop) None false [] (0) 0x1;
  mkOp ["float.d"]%string (Some C_float_d) None false [0] (0) 0x1;
  mkOp ["float.s"]%string (Some C_float_s) None false [0] (0) 0x1;
  mkOp ["floor.d"]%string (Some C_ftoi_d) None false [float_round_down; 0] (0) 0x1;
  mkOp ["floor.s"]%string (Some C_ftoi_s) None false [float_round_down; 0] (0) 0x1;
  mkOp ["ldi"]%string (Some C_ldsti_d) None false [0; 1; 0] (XTENSA_OP_LOAD) 0x1;
  mkOp ["ldip"]%string (Some C_ldsti_d) None false [0; 0; 1] (XTENSA_OP_LOAD) 0x1;
  mkOp ["ldiu"]%string (Some C_ldsti_d) None false [0; 1; 1] (XTENSA_OP_LOAD) 0x1;
  mkOp ["ldx"]%string (Some C_ldstx_d) None false [0; 1; 0] (XTENSA_OP_LOAD) 0x1;
  mkOp ["ldxp"]%string (Some C_ldstx_d) None false [0; 0; 1] (XTENSA_OP_LOAD) 0x1;
  mkOp ["ldxu"]%string (Some C_ldstx_d) None false [0; 1; 1] (XTENSA_OP_LOAD) 0x1;
  mkOp ["lsi"]%string (Some C_ldsti_s) None false [0; 1; 0] (XTENSA_OP_LOAD) 0x1;
  mkOp ["lsip"]%string (Some C_ldsti_s) None false [0; 0; 1] (XTENSA_OP_LOAD) 0x1;
  mkOp ["lsiu"]%string (Some C_ldsti_s) None false [0; 1; 1] (XTENSA_OP_LOAD) 0x1].

Definition fpu_ops_2 : list op_entry := [
  mkOp ["lsx"]%string (Some C_ldstx_s) None false [0; 1; 0] (XTENSA_OP_LOAD) 0x1;
  mkOp ["lsxp"]%string (Some C_ldstx_s) None false [0; 0; 1] (XTENSA_OP_LOAD) 0x1;
  mkOp ["lsxu"]%string (Some C_ldstx_s) None false [0; 1; 1] (XTENSA_OP_LOAD) 0x1;
  mkOp ["madd.d"]%string (Some C_madd_d) None false [] (0) 0x1;
  mkOp ["madd.s"]%string (Some C_madd_s) None false [] (0) 0x1;
  mkOp ["maddn.d"]%string (Some C_nop) None false [] (0) 0x1;
  mkOp ["maddn.s"]%string (Some C_nop) None false [] (0) 0x1;
  mkOp ["mkdadj.d"]%string (Some C_mkdadj_d) None false [] (0) 0x1;
  mkOp ["mkdadj.s"]%string (Some C_mkdadj_s) None false [] (0) 0x1;
  mkOp ["mksadj.d"]%string (Some C_mksadj_d) None false [] (0) 0x1;
  mkOp ["mksadj.s"]%string (Some C_mksadj_s) None false [] (0) 0x1;
  mkOp ["mov.d"]%string (Some C_mov_d) None false [] (0) 0x1;
  mkOp ["mov.s"]%string (Some C_mov_s) None false [] (0) 0x1;
  mkOp ["moveqz.d"]%string (Some C_movcond_d) None false [TCG_COND_EQ] (0) 0x1;
  mkOp ["moveqz.s"]%string (Some C_movcond_s) None false [TCG_COND_EQ] (0) 0x1;
  mkOp ["movf.d"]%string (Some C_movp_d) None false [TCG_COND_EQ] (0) 0x1;
  mkOp ["movf.s"]%string (Some C_movp_s) None false [TCG_COND_EQ] (0) 0x1;
  mkOp ["movgez.d"]%string (Some C_movcond_d) None false [TCG_COND_GE] (0) 0x1;
  mkOp ["movgez.s"]%string (Some C_movcond_s) None false [TCG_COND_GE] (0) 0x1;
  mkOp ["movltz.d"]%string (Some C_movcond_d) None false [TCG_COND_LT] (0) 0x1;
  mkOp ["movltz.s"]%string (Some C_movcond_s) None false [TCG_COND_LT] (0) 0x1;
  mkOp ["movnez.d"]%string (Some C_movcond_d) None false [TCG_COND_NE] (0) 0x1;
  mkOp ["movnez.s"]%string (Some C_movcond_s) None false [TCG_COND_NE] (0) 0x1;
  mkOp ["movt.d"]%string (Some C_movp_d) None false [TCG_COND_NE] (0) 0x1;
  mkOp ["movt.s"]%string (Some C_movp_s) None false [TCG_COND_NE] (0) 0x1;
  mkOp ["msub.d"]%string (Some C_msub_d) None false [] (0) 0x1;
  mkOp ["msub.s"]%string (Some C_msub_s) None false [] (0) 0x1;
  mkOp ["mul.d"]%string (Some C_mul_d) None false [] (0) 0x1;
  mkOp ["mul.s"]%string (Some C_mul_s) None false [] (0) 0x1;
  mkOp ["neg.d"]%string (Some C_neg_d) None false [] (0) 0x1;
  mkOp ["neg.s"]%string (Some C_neg_s) None false [] (0) 0x1;
  mkOp ["nexp01.d"]%string (Some C_nop) None false [] (0) 0x1].

Definition fpu_ops_3 : list op_entry := [
  mkOp ["nexp01.s"]%string (Some C_nop) None false [] (0) 0x1;
  mkOp ["oeq.d"]%string (Some C_compare_d) None false [COMPARE_OEQ] (0) 0x1;
  mkOp ["oeq.s"]%string (Some C_compare_s) None false [COMPARE_OEQ] (0) 0x1;
  mkOp ["ole.d"]%string (Some C_compare_d) None false [COMPARE_OLE] (0) 0x1;
  mkOp ["ole.s"]%string (Some C_compare_s) None false [COMPARE_OLE] (0) 0x1;
  mkOp ["olt.d"]%string (Some C_compare_d) None false [COMPARE_OLT] (0) 0x1;
  mkOp ["olt.s"]%string (Some C_compare_s) None false [COMPARE_OLT] (0) 0x1;
  mkOp ["rfr"]%string (Some C_rfr_s) None false [] (0) 0x1;
  mkOp ["rfrd"]%string (Some C_rfr_d) None false [] (0) 0x1;
  mkOp ["round.d"]%string (Some C_ftoi_d) None false [float_round_nearest_even; 0] (0) 0x1;
  mkOp ["round.s"]%string (Some C_ftoi_s) None false [float_round_nearest_even; 0] (0) 0x1;
  mkOp ["rur.fcr"]%string (Some C_rur) None false [FCR] (0) 0x1;
  mkOp ["rur.fsr"]%string (Some C_rur_fpu_fsr) None false [] (0) 0x1;
  mkOp ["sdi"]%string (Some C_ldsti_d) None false [1; 1; 0] (XTENSA_OP_STORE) 0x1;
  mkOp ["sdip"]%string (Some C_ldsti_d) None false [1; 0; 1] (XTENSA_OP_STORE) 0x1;
  mkOp ["sdiu"]%string (Some C_ldsti_d) None false [1; 1; 1] (XTENSA_OP_STORE) 0x1;
  mkOp ["sdx"]%string (Some C_ldstx_d) None false [1; 1; 0] (XTENSA_OP_STORE) 0x1;
  mkOp ["sdxp"]%string (Some C_ldstx_d) None false [1; 0; 1] (XTENSA_OP_STORE) 0x1;
  mkOp ["sdxu"]%string (Some C_ldstx_d) None false [1; 1; 1] (XTENSA_OP_STORE) 0x1;
  mkOp ["sqrt0.d"]%string (Some C_nop) None false [] (0) 0x1;
  mkOp ["sqrt0.s"]%string (Some C_nop) None false [] (0) 0x1;
  mkOp ["ssi"]%string (Some C_ldsti_s) None false [1; 1; 0] (XTENSA_OP_STORE) 0x1;
  mkOp ["ssip"]%string (Some C_ldsti_s) None false [1; 0; 1] (XTENSA_OP_STORE) 0x1;
  mkOp ["ssiu"]%string (Some C_ldsti_s) None false [1; 1; 1] (XTENSA_OP_STORE) 0x1;
  mkOp ["ssx"]%string (Some C_ldstx_s) None false [1; 1; 0] (XTENSA_OP_STORE) 0x1;
  mkOp ["ssxp"]%string (Some C_ldstx_s) None false [1; 0; 1] (XTENSA_OP_STORE) 0x1;
  mkOp ["ssxu"]%string (Some C_ldstx_s) None false [1; 1; 1] (XTENSA_OP_STORE) 0x1;
  mkOp ["sub.d"]%string (Some C_sub_d) None false [] (0) 0x1].

Definition fpu_ops_4 : list op_entry := [
  mkOp ["sub.s"]%string (Some C_sub_s) None false [] (0) 0x1;
  mkOp ["trunc.d"]%string (Some C_ftoi_d) None false [float_round_to_zero; 0] (0) 0x1;
  mkOp ["trunc.s"]%string (Some C_ftoi_s) None false [float_round_to_zero; 0] (0) 0x1;
  mkOp ["ueq.d"]%string (Some C_compare_d) None false [COMPARE_UEQ] (0) 0x1;
  mkOp ["ueq.s"]%string (Some C_compare_s) None false [COMPARE_UEQ] (0) 0x1;
  mkOp ["ufloat.d"]%string (Some C_float_d) None false [1] (0) 0x1;
  mkOp ["ufloat.s"]%string (Some C_float_s) None false [1] (0) 0x1;
  mkOp ["ule.d"]%string (Some C_compare_d) None false [COMPARE_ULE] (0) 0x1;
  mkOp ["ule.s"]%string (Some C_compare_s) None false [COMPARE_ULE] (0) 0x1;
  mkOp ["ult.d"]%string (Some C_compare_d) None false [COMPARE_ULT] (0) 0x1;
  mkOp ["ult.s"]%string (Some C_compare_s) None false [COMPARE_ULT] (0) 0x1;
  mkOp ["un.d"]%string (Some C_compare_d) None false [COMPARE_UN] (0) 0x1;
  mkOp ["un.s"]%string (Some C_compare_s) None false [COMPARE_UN] (0) 0x1;
  mkOp ["utrunc.d"]%string (Some C_ftoi_d) None false [float_round_to_zero; 1] (0) 0x1;
  mkOp ["utrunc.s"]%string (Some C_ftoi_s) None false [float_round_to_zero; 1] (0) 0x1;
  mkOp ["wfr"]%string (Some C_wfr_s) None false [] (0) 0x1;
  mkOp ["wfrd"]%string (Some C_wfr_d) None false [] (0) 0x1;
  mkOp ["wur.fcr"]%string (Some C_wur_fpu_fcr) None false [FCR] (0) 0x1;
  mkOp ["wur.fsr"]%string (Some C_wur_fpu_fsr) None false [] (0) 0x1].

Definition fpu_ops : list op_entry :=
  fpu_ops_1 ++ fpu_ops_2 ++ fpu_ops_3 ++ fpu_ops_4.

(** ** Running an entry *)

Definition boolean_op_of (k : Z) : boolean_op :=
  match k with
  | BOOLEAN_AND => Arith.BOOLEAN_AND | BOOLEAN_ANDC => Arith.BOOLEAN_ANDC | BOOLEAN_OR => Arith.BOOLEAN_OR
  | BOOLEAN_ORC => Arith.BOOLEAN_ORC | _ => Arith.BOOLEAN_XOR
  end.
Definition loop_cond_of (cond : Z) : loop_cond :=
  match cond with TCG_COND_NE => LoopNez | TCG_COND_GT => LoopGtz | _ => LoopAlways end.

Section run.
Context `{!TcgOps} (config : XtensaConfig) (E : Environment) (regfiles : Z -> option tcg_regs) (tb_flags : Z).

(** The state of the shift instructions. *)
Definition sar : machM sar_state := gets (fun m => (m_sar m, m_env m)).
Definition on_sar (f : sar_state -> sar_state) : machM unit :=
  modify (fun m => let st := f (m_sar m, m_env m) in with_sar st.1 (with_env st.2 m)).

Definition run_core (fn : core_fn) : translator := fun dc arg par =>
  let I k := imm_ arg (Z.to_nat k) in
  let P k := par_ par k in
  let inp k := in_ regfiles arg (Z.to_nat k) in
  let out k := out_ regfiles arg (Z.to_nat k) in
  let softmmu := e_softmmu E in
  let jump c := at_icount dc c in
  let un f := stay (x <- inp 1 ;; out 0 (f x)) in
  let bin f := stay (x <- inp 1 ;; y <- inp 2 ;; out 0 (f x y)) in
  match fn with
  | C_abs => un translate_abs
  | C_add => bin translate_add
  | C_addi => un (fun x => translate_addi x (I 2))
  | C_addx => bin (translate_addx (P 0))
  | C_all => stay (br <- inp 1 ;; out 0 (translate_all (truthy (P 0)) (P 1) br (I 0) (I 1)))
  | C_and => bin translate_and
  | C_boolean => stay (br <- inp 1 ;; out 0 (translate_boolean (boolean_op_of (P 0)) br (I 0) (I 1) (I 2)))
  | C_ball => translate_ball config regfiles dc arg par
  | C_bany => translate_bany config regfiles dc arg par
  | C_bb => translate_bb config regfiles dc arg par
  | C_bbi => translate_bbi config regfiles dc arg par
  | C_b => translate_b config regfiles dc arg par
  | C_bi => translate_bi config regfiles dc arg par
  | C_bz => translate_bz config regfiles dc arg par
  | C_bp => translate_bp config regfiles dc arg par
  | C_nop => translate_nop 
  | C_call0 => leave (jump (fun dc => translate_call0 config dc (I 0)))
  | C_callw => leave (jump (fun dc => translate_callw config dc (P 0) (I 0)))
  | C_callx0 => leave (jump (fun dc => translate_callx0 config dc (I 0)))
  | C_callxw => leave (jump (fun dc => translate_callxw config dc (P 0) (I 0)))
  | C_clamps => un (fun x => translate_clamps x (I 2))
  | C_clrb_expstate => translate_clrb_expstate arg
  | C_clrex => translate_clrex 
  | C_const16 => stay (old <- inp 0 ;; out 0 (translate_const16 old (I 1)))
  | C_depbits => stay (src <- inp 0 ;; dst <- inp 1 ;; out 1 (translate_depbits src dst (I 2) (I 3)))
  | C_dcache => translate_dcache config E regfiles dc arg
  | C_diwbuip => translate_diwbuip config regfiles arg
  | C_entry => stay (on_env (translate_entry config dc (I 0) (I 1)))
  | C_extui => un (fun x => translate_extui x (I 2) (I 3))
  | C_memw => translate_memw 
  | C_getex => stay (translate_getex (I 0))
  | C_itlb => translate_itlb config regfiles arg par
  | C_icache => translate_icache config E regfiles dc arg
  | C_j => translate_j config dc arg
  | C_jx => translate_jx config regfiles dc arg
  | C_ldst => stay (translate_ldst config softmmu dc (P 0) (truthy (P 2)) (I 0) (I 1) (I 2))
  | C_l32e => stay (translate_l32e config softmmu dc (I 0) (I 1) (I 2))
  | C_l32ex => stay (translate_l32ex config (e_ldl E) softmmu dc (I 0) (I 1))
  | C_l32r => stay (translate_l32r config softmmu dc tb_flags (I 0) (I 1) (a_raw_imm (arg_ arg 1)))
  | C_lct => stay (translate_lct (I 0))
  | C_mac16 => translate_mac16 config E regfiles dc arg par
  | C_loop => leave (jump (fun dc => translate_loop config dc (loop_cond_of (P 0)) (I 0) (I 1)))
  | C_smax => bin translate_smax
  | C_umax => bin translate_umax
  | C_smin => bin translate_smin
  | C_umin => bin translate_umin
  | C_mov => translate_mov regfiles arg
  | C_movcond => stay (t <- inp 2 ;; x <- inp 1 ;; old <- inp 0 ;; out 0 (translate_movcond (tcg_cond (P 0) t 0) x old))
  | C_movp => translate_movp regfiles arg par
  | C_movi => translate_movi regfiles arg
  | C_movsp => translate_movsp regfiles arg
  | C_mul16 => bin (translate_mul16 (truthy (P 0)))
  | C_mull => bin translate_mull
  | C_mulh => bin (translate_mulh (truthy (P 0)))
  | C_neg => un translate_neg
  | C_nsa => un translate_nsa
  | C_nsau => un translate_nsau
  | C_or => bin translate_or
  | C_ptlb => translate_ptlb config regfiles dc arg par
  | C_pptlb => translate_pptlb config regfiles dc arg
  | C_quos => bin (translate_quos (truthy (P 0)))
  | C_quou => bin translate_quou
  | C_rtlb => translate_rtlb config regfiles arg par
  | C_read_impwire => translate_read_impwire regfiles arg
  | C_remu => bin translate_remu
  | C_rer => translate_rer E regfiles arg
  | C_ret => leave (jump (translate_ret config))
  | C_retw => leave (jump (translate_retw config))
  | C_rfde => leave (jump (translate_rfde config))
  | C_rfe => leave (jump (translate_rfe config))
  | C_rfi => leave (jump (fun dc => translate_rfi config dc (I 0)))
  | C_rfw => leave (jump (fun dc => translate_rfw config dc (truthy (P 0))))
  | C_rptlb0 => translate_rptlb0 config regfiles arg
  | C_rptlb1 => translate_rptlb1 config regfiles arg
  | C_rotw => stay (on_env (translate_rotw (I 0)))
  | C_rsil => stay (on_env (translate_rsil (I 0) (I 1)))
  | C_rur => rur regfiles arg par
  | C_s32c1i => stay (translate_s32c1i config (e_ldl E) softmmu dc (I 0) (I 1) (I 2))
  | C_s32e => stay (translate_s32e config softmmu dc (I 0) (I 1) (I 2))
  | C_s32ex => stay (translate_s32ex config (e_ldl E) softmmu dc (I 0) (I 1))
  | C_salt => bin (fun x y => translate_salt (tcg_cond (P 0) x y))
  | C_setb_expstate => translate_setb_expstate arg
  | C_sext => un (fun x => translate_sext x (I 2))
  | C_simcall => translate_simcall E dc
  | C_sll => stay (st <- sar ;; x <- inp 1 ;; out 0 (translate_sll st x))
  | C_slli => un (fun x => translate_slli x (I 2))
  | C_sra => stay (st <- sar ;; x <- inp 1 ;; out 0 (translate_sra st x))
  | C_srai => un (fun x => translate_srai x (I 2))
  | C_src => stay (st <- sar ;; hi <- inp 1 ;; lo <- inp 2 ;; out 0 (translate_src st hi lo))
  | C_srl => stay (st <- sar ;; x <- inp 1 ;; out 0 (translate_srl st x))
  | C_srli => un (fun x => translate_srli x (I 2))
  | C_ssa8b => stay (x <- inp 0 ;; on_sar (translate_ssa8b x))
  | C_ssa8l => stay (x <- inp 0 ;; on_sar (translate_ssa8l x))
  | C_ssai => stay (on_sar (translate_ssai (I 0)))
  | C_ssl => stay (x <- inp 0 ;; on_sar (translate_ssl x))
  | C_ssr => stay (x <- inp 0 ;; on_sar (translate_ssr x))
  | C_sub => bin translate_sub
  | C_subx => bin (translate_subx (P 0))
  | C_waiti => stay (on_env (translate_waiti config dc (I 0)))
  | C_wtlb => translate_wtlb config regfiles arg par
  | C_wer => translate_wer E regfiles arg
  | C_wptlb => translate_wptlb config regfiles arg
  | C_wrmsk_expstate => translate_wrmsk_expstate regfiles arg
  | C_wur => wur regfiles arg par
  | C_xur_f64 => translate_xur_f64 
  | C_xor => bin translate_xor
  | C_abs_s => translate_abs_s regfiles arg
  | C_fpu2k_add_s => translate_fpu2k_add_s E regfiles arg
  | C_ftoi_s => translate_ftoi_s E regfiles arg par
  | C_float_s => translate_float_s E regfiles arg par
  | C_ldsti => translate_ldsti config E regfiles dc arg par
  | C_ldstx => translate_ldstx config E regfiles dc arg par
  | C_fpu2k_madd_s => translate_fpu2k_madd_s E regfiles arg
  | C_mov_s => translate_mov_s regfiles arg
  | C_movcond_s => translate_movcond_s regfiles arg par
  | C_movp_s => translate_movp_s regfiles arg par
  | C_fpu2k_msub_s => translate_fpu2k_msub_s E regfiles arg
  | C_fpu2k_mul_s => translate_fpu2k_mul_s E regfiles arg
  | C_neg_s => translate_neg_s regfiles arg
  | C_compare_s => translate_compare_s E regfiles arg par
  | C_rfr_s => translate_rfr_s regfiles arg
  | C_fpu2k_sub_s => translate_fpu2k_sub_s E regfiles arg
  | C_wfr_s => translate_wfr_s regfiles arg
  | C_wur_fpu2k_fcr => translate_wur_fpu2k_fcr regfiles arg
  | C_wur_fpu2k_fsr => translate_wur_fpu2k_fsr regfiles arg par
  | C_abs_d => translate_abs_d regfiles arg
  | C_add_d => translate_add_d E regfiles arg
  | C_add_s => translate_add_s config E regfiles arg
  | C_ftoi_d => translate_ftoi_d E regfiles arg par
  | C_const_d => translate_const_d regfiles arg
  | C_const_s => translate_const_s regfiles arg
  | C_cvtd_s => translate_cvtd_s E regfiles arg
  | C_cvts_d => translate_cvts_d E regfiles arg
  | C_float_d => translate_float_d E regfiles arg par
  | C_ldsti_d => translate_ldsti_d config E regfiles dc arg par
  | C_ldstx_d => translate_ldstx_d config E regfiles dc arg par
  | C_ldsti_s => translate_ldsti_s config E regfiles dc arg par
  | C_ldstx_s => translate_ldstx_s config E regfiles dc arg par
  | C_madd_d => translate_madd_d config E regfiles arg
  | C_madd_s => translate_madd_s config E regfiles arg
  | C_mkdadj_d => translate_mkdadj_d E regfiles arg
  | C_mkdadj_s => translate_mkdadj_s config E regfiles arg
  | C_mksadj_d => translate_mksadj_d E regfiles arg
  | C_mksadj_s => translate_mksadj_s config E regfiles arg
  | C_mov_d => translate_mov_d regfiles arg
  | C_movcond_d => translate_movcond_d regfiles arg par
  | C_movp_d => translate_movp_d regfiles arg par
  | C_msub_d => translate_msub_d config E regfiles arg
  | C_msub_s => translate_msub_s config E regfiles arg
  | C_mul_d => translate_mul_d E regfiles arg
  | C_mul_s => translate_mul_s config E regfiles arg
  | C_neg_d => translate_neg_d regfiles arg
  | C_compare_d => translate_compare_d E regfiles arg par
  | C_rfr_d => translate_rfr_d regfiles arg
  | C_rur_fpu_fsr => translate_rur_fpu_fsr regfiles arg
  | C_sub_d => translate_sub_d E regfiles arg
  | C_sub_s => translate_sub_s config E regfiles arg
  | C_wfr_d => translate_wfr_d regfiles arg
  | C_wur_fpu_fcr => translate_wur_fpu_fcr regfiles arg
  | C_wur_fpu_fsr => translate_wur_fpu_fsr regfiles arg
  end.

Definition run_test (t : core_test) (dc : DisasContext) (arg : list OpcodeArg) : Z * machM unit :=
  match t with
  | X_entry => (b2z (test_exceptions_entry dc (imm_ arg 0)), ret tt)
  | X_retw => test_exceptions_retw config dc
  | X_simcall => (test_exceptions_simcall config E dc, ret tt)
  end.

(** An entry as the decoder sees it.  A missing translator is called only if the
    flags let the instruction reach its body. *)
Definition entry_ops (o : op_entry) : XtensaOps := {|
  ops_translate :=
    match op_translate o with Some fn => run_core fn | None => fun _ _ _ => (false, massert false) end;
  ops_test_exceptions := (fun t dc arg _ => run_test t dc arg) <$> op_test_exceptions o;
  ops_test_overflow := if op_test_overflow o then Some (fun dc _ _ => test_overflow_entry dc) else None;
  ops_par := op_par o;
  ops_flags := op_flags o;
  ops_coprocessor := op_coprocessor o |}.
End run.
