(* ===== verification/LibIsa.v ===== *)
(** * Binding a core to the translator ([target/xtensa/helper.c] and the register
    names of [translate.c])

    [init_libisa] initialises the instruction library of a core and finds the
    entry of every opcode in the core's opcode tables, the registers of every
    register file, and the names of the special and user registers; an assertion
    that fails gives [None].  [bind_ops] turns an entry into what the decoder
    runs.  Debug output is left out. *)

From stdpp Require Import gmap strings.
From S2P Require Import Prelude Cpu TbFlags Control Arith Slots Lanes Tie FpStatus LoadStore TieTable SpecialReg SrTable Isa Decode.
From S2P Require Import Fpu CoreInsn FpInsn OpTable.

#[local] Open Scope mach_scope.
#[local] Open Scope isa_scope.

Abbreviation MAX_INSN_LENGTH := 64 (only parsing).
Abbreviation MAX_INSNBUF_LENGTH := 16 (only parsing).
Abbreviation MAX_INSN_SLOTS := 32 (only parsing).
Abbreviation MAX_OPCODE_ARGS := 16 (only parsing).

(** ** Opcode tables *)

Inductive table_entry := InsnEntry (o : op_entry) | SrEntry (o : sr_op) | TieEntry (o : XtensaOpcodeOps).

Definition entry_names (e : table_entry) : list string :=
  match e with InsnEntry o => op_names o | SrEntry o => [sr_opname o] | TieEntry o => [o_name o] end.

Definition xtensa_core_opcodes : list table_entry := (InsnEntry <$> core_insns) ++ (SrEntry <$> sr_ops).
Definition xtensa_fpu2000_opcodes : list table_entry := InsnEntry <$> fpu2000_ops.
Definition xtensa_fpu_opcodes : list table_entry := InsnEntry <$> fpu_ops.
Definition xtensa_tie_opcodes : list table_entry := TieEntry <$> tie_ops.

(** A later definition of a name replaces an earlier one. *)
Definition hash_opcode_translators (t : list table_entry) : gmap string table_entry :=
  foldl (fun h e => foldl (fun h name => <[name := e]> h) h (entry_names e)) ∅ t.

(** The loop over [config->opcode_translators]: the first table with the name. *)
Fixpoint find_ops (tables : list (gmap string table_entry)) (name : string) : option table_entry :=
  match tables with
  | [] => None
  | t :: tables' => match t !! name with Some e => Some e | None => find_ops tables' name end
  end.

(** ** Register names *)

(** The update of [sr_name[i]] or [ur_name[i]]. *)
Definition add_name (old : option string) (name : string) : string :=
  match old with
  | Some p => match String.index 0 name p with Some _ => p | None => (p ++ "/" ++ name)%string end
  | None => name
  end.

(** The tables are static and collect the names of every core. *)
Record reg_names := mkRegNames { sr_name : Z -> option string; ur_name : Z -> option string }.
Definition no_names : reg_names := mkRegNames (fun _ => None) (fun _ => None).

Definition collect_name (i : Z) (t : reg_names) : isaM reg_names :=
  let* n := xtensa_sysreg_number i in
  if (0 <=? n) && (n <? 256) then
    let* name := xtensa_sysreg_name i in
    let* user := xtensa_sysreg_is_user i in
    let name := default EmptyString name in
    done (if truthy user then mkRegNames (sr_name t) (fupd (ur_name t) n (Some (add_name (ur_name t n) name)))
          else mkRegNames (fupd (sr_name t) n (Some (add_name (sr_name t n) name))) (ur_name t))
  else done t.

Definition xtensa_collect_sr_names (t : reg_names) : isaM reg_names :=
  let* n := xtensa_isa_num_sysregs in fold_isa collect_name (seqZ 0 n) t.

(** ** Initialisation *)

Record libisa := mkLibIsa {
  li_opcode_ops : list (option table_entry);
  li_a_regfile : Z;
  li_regfile : list (option tcg_regs);
  li_names : reg_names
}.

(** An assertion on a query: the rest runs if it holds. *)
Definition iassert {A} (b : bool) (k : isaM (option A)) : isaM (option A) := if b then k else done None.

Definition bounded_slots (fmt : Z) (ok : bool) : isaM bool :=
  let* n := xtensa_format_num_slots fmt in done (ok && (n <=? MAX_INSN_SLOTS)).

Definition find_entry (tables : list (gmap string table_entry)) (opc : Z)
    (acc : option (list (option table_entry))) : isaM (option (list (option table_entry))) :=
  match acc with
  | None => done None
  | Some l =>
      let* name := xtensa_opcode_name opc in
      let* n := xtensa_opcode_num_operands opc in
      iassert (n <=? MAX_OPCODE_ARGS) (done (Some (l ++ [find_ops tables (default EmptyString name)])))
  end.

Definition find_regfile (rf : Z) (acc : list (option tcg_regs)) : isaM (list (option tcg_regs)) :=
  let* name := xtensa_regfile_name rf in
  let* entries := xtensa_regfile_num_entries rf in
  let* bits := xtensa_regfile_num_bits rf in
  done (acc ++ [xtensa_get_regfile_by_name (default EmptyString name) entries bits]).

Definition init_libisa (malloc : Z -> option insnbuf) (translators : list (list table_entry)) (names : reg_names)
    : isaM (option libisa) :=
  let tables := hash_opcode_translators <$> translators in
  let* ready := xtensa_isa_init malloc in
  iassert ready (
  let* len := xtensa_isa_maxlength in
  iassert (len <=? MAX_INSN_LENGTH) (
  let* size := xtensa_insnbuf_size in
  iassert (size <=? MAX_INSNBUF_LENGTH) (
  let* opcodes := xtensa_isa_num_opcodes in
  let* formats := xtensa_isa_num_formats in
  let* regfiles := xtensa_isa_num_regfiles in
  let* slots_ok := fold_isa bounded_slots (seqZ 0 formats) true in
  iassert slots_ok (
  let* ops := fold_isa (find_entry tables) (seqZ 0 opcodes) (Some []) in
  match ops with
  | None => done None
  | Some ops =>
      let* a_regfile := xtensa_regfile_lookup (Some "AR"%string) in
      let* files := fold_isa find_regfile (seqZ 0 regfiles) [] in
      let* names := xtensa_collect_sr_names names in
      done (Some (mkLibIsa ops a_regfile files names))
  end)))).

(** ** Running the entries *)

Section bind.
Context `{!TcgOps} (config : XtensaConfig) (E : Environment) (li : libisa) (tb_flags : Z).

Definition li_regfiles (rf : Z) : option tcg_regs := mjoin (li_regfile li !! Z.to_nat rf).

(** The special-register code sees the part of the machine [sr_state] has. *)
Definition on_sr (c : srM unit) : machM unit := fun m =>
  let back (s : sr_state) := with_next_icount (s_next_icount s) (with_sar (s_sar s) (with_env (s_env s) m)) in
  match c (mkSrState (m_env m) (m_sar m) (m_next_icount m)) with
  | Done _ s => Done tt (back s)
  | LoopExit s => LoopExit (back s)
  | AssertFail => AssertFail
  end.

Definition named (r : Z) : bool := match sr_name (li_names li) r with Some _ => true | None => false end.

Definition sr_ops_of (o : sr_op) : XtensaOps := {|
  ops_translate := fun dc arg par =>
    match sr_translate o with
    | Some fn =>
        stay (on_sr (run_sr config (e_period E) (e_insert_ok E) named (e_now E) (e_wnow E) (e_now_of E) dc fn
                       (imm_ arg 0) par))
    | None => stay (massert false)
    end;
  ops_test_exceptions := (fun t _ _ par => (run_sr_test config t par, ret tt)) <$> sr_test_exceptions o;
  ops_test_overflow := None;
  ops_par := sr_par o; ops_flags := sr_op_flags o; ops_coprocessor := 0 |}.

Definition tie_ops_of (o : XtensaOpcodeOps) : XtensaOps := {|
  ops_translate := fun dc arg par =>
    stay (fun m => run_fn config (e_softmmu E) dc (m_sar m) (o_translate o) (a_imm <$> arg) par m);
  ops_test_exceptions := None; ops_test_overflow := None;
  ops_par := o_par o; ops_flags := o_op_flags o; ops_coprocessor := o_coprocessor o |}.

Definition bind_ops (e : table_entry) : XtensaOps :=
  match e with
  | InsnEntry o => entry_ops config E li_regfiles tb_flags o
  | SrEntry o => sr_ops_of o
  | TieEntry o => tie_ops_of o
  end.

Definition opcode_ops (opc : Z) : option XtensaOps := bind_ops <$> mjoin (li_opcode_ops li !! Z.to_nat opc).

Definition has_regfile (rf : Z) : bool := match li_regfiles rf with Some _ => true | None => false end.

(** [disas_xtensa_insn] with the structures of the core. *)
Definition disas_core (ldub : Z -> Z) (slotbuf0 : list Z) (dc : DisasContext) : isaM (Z * slot_result * machM bool) :=
  disas_xtensa_insn config opcode_ops (li_a_regfile li) has_regfile (read_reg li_regfiles) ldub slotbuf0 dc.
End bind.

(** ** Facts *)

Definition table_names (t : list table_entry) : list string := t ≫= entry_names.

Lemma hash_other (t : list table_entry) n h :
  n ∉ table_names t ->
  foldl (fun h e => foldl (fun h name => <[name := e]> h) h (entry_names e)) h t !! n = (h : gmap string table_entry) !! n.
Proof.
  revert h. induction t as [|e t IH]; intros h Hn; [done|]. cbn in Hn |- *.
  apply not_elem_of_app in Hn as [Hn Ht]. rewrite IH by done. clear IH Ht.
  revert h Hn. induction (entry_names e) as [|a l IH]; intros h Hn; [done|]. cbn.
  apply not_elem_of_cons in Hn as [Ha Hl]. rewrite IH by done. by apply lookup_insert_ne.
Qed.

(** In a table without repeated names an entry is found by each of its names. *)
Lemma hash_lookup t e n :
  NoDup (table_names t) -> e ∈ t -> n ∈ entry_names e -> hash_opcode_translators t !! n = Some e.
Proof.
  unfold hash_opcode_translators. generalize (∅ : gmap string table_entry) as h.
  induction t as [|e' t IH]; intros h Hd He Hn; [by apply not_elem_of_nil in He|].
  apply NoDup_app in Hd as (_ & Hdis & Hd). cbn. apply elem_of_cons in He as [->|He]; [|by apply IH].
  rewrite hash_other by (by apply Hdis). clear IH Hd Hdis.
  revert h. induction (entry_names e') as [|a l IH]; intros h; [by apply not_elem_of_nil in Hn|]. cbn.
  destruct (decide (n ∈ l)) as [Hl|Hl]; [by apply IH|].
  apply elem_of_cons in Hn as [->|Hn]; [|done]. clear IH.
  assert (H : forall h, a ∉ l -> foldl (fun h name => <[name := e']> h) h l !! a = (h : gmap string table_entry) !! a).
  { clear. induction l as [|b l IH]; intros h Hl; [done|]. apply not_elem_of_cons in Hl as [Hb Hl]. cbn.
    rewrite IH by done. by apply lookup_insert_ne. }
  rewrite H by done. by rewrite lookup_insert_eq.
Qed.

(** What a table gives is one of its entries, under one of its names. *)
Lemma hash_sound t n e : hash_opcode_translators t !! n = Some e -> e ∈ t /\ n ∈ entry_names e.
Proof.
  unfold hash_opcode_translators.
  assert (H : forall h, foldl (fun h e => foldl (fun h name => <[name := e]> h) h (entry_names e)) h t !! n = Some e ->
    (h : gmap string table_entry) !! n = Some e \/ (e ∈ t /\ n ∈ entry_names e)).
  2:{ intros [H'|H']%H; [by rewrite lookup_empty in H'|done]. }
  induction t as [|e' t IH]; intros h; cbn; [by left|]. intros [H|[H1 H2]]%IH; [|right; split; [by right|done]].
  assert (Hl : forall h l, foldl (fun h name => <[name := e']> h) h l !! n = Some e ->
    (h : gmap string table_entry) !! n = Some e \/ (e = e' /\ n ∈ l)).
  { clear. intros h l. revert h. induction l as [|a l IH]; intros h; cbn; [by left|].
    intros [H|[-> H]]%IH; [|by right; split; [done|right]].
    apply lookup_insert_Some in H as [[-> ->]|[_ H]]; [right; split; [done|by left]|by left]. }
  apply Hl in H as [H|[-> H]]; [by left|right; split; [by left|done]].
Qed.

Lemma find_ops_sound ts n e :
  find_ops (hash_opcode_translators <$> ts) n = Some e -> e ∈ mjoin ts /\ n ∈ entry_names e.
Proof.
  induction ts as [|t ts IH]; [done|]. cbn.
  destruct (hash_opcode_translators t !! n) as [e'|] eqn:H.
  - intros [= ->]. apply hash_sound in H as [H1 H2]. split; [apply elem_of_app; by left|done].
  - intros [H1 H2]%IH. split; [apply elem_of_app; by right|done].
Qed.

Lemma find_ops_complete ts n e :
  NoDup (table_names (mjoin ts)) -> e ∈ mjoin ts -> n ∈ entry_names e ->
  find_ops (hash_opcode_translators <$> ts) n = Some e.
Proof.
  induction ts as [|t ts IH]; cbn; [intros _ H; by apply not_elem_of_nil in H|].
  unfold table_names. rewrite bind_app. intros (Hd1 & Hdis & Hd2)%NoDup_app [He|He]%elem_of_app Hn.
  - by rewrite (hash_lookup t e n).
  - destruct (hash_opcode_translators t !! n) as [e'|] eqn:H; [|by apply IH].
    apply hash_sound in H as [H1 H2]. exfalso. apply (Hdis n).
    + apply list_elem_of_bind. by exists e'.
    + apply list_elem_of_bind. by exists e.
Qed.

(** Every opcode is bound to the one entry with its name, or is in [missing]. *)
Lemma opcodes_bound ts (missing : list string) (ops : list xtensa_opcode_internal) (bound : list (option table_entry)) :
  NoDup (table_names (mjoin ts)) ->
  bound = (fun o => find_ops (hash_opcode_translators <$> ts) (opc_name o)) <$> ops ->
  forallb (fun o => match find_ops (hash_opcode_translators <$> ts) (opc_name o) with
                    | Some _ => bool_decide (opc_name o ∉ missing)
                    | None => bool_decide (opc_name o ∈ missing) end) ops = true ->
  forall opc, 0 <= opc < count ops ->
    match mjoin (bound !! Z.to_nat opc) with
    | Some e => opc_name (index ops opc) ∉ missing /\
                forall e', (e' ∈ mjoin ts /\ opc_name (index ops opc) ∈ entry_names e') <-> e' = e
    | None => opc_name (index ops opc) ∈ missing /\
              forall e', e' ∈ mjoin ts -> opc_name (index ops opc) ∉ entry_names e'
    end.
Proof.
  intros Hnd -> Hmiss opc Hopc. rewrite list_lookup_fmap.
  assert (Hl : ops !! Z.to_nat opc = Some (index ops opc)).
  { unfold index. apply list_lookup_lookup_total_lt. unfold count in Hopc. lia. }
  rewrite Hl. cbn [fmap option_fmap option_map mjoin option_join]. set (o := index ops opc) in *.
  rewrite forallb_forall in Hmiss. specialize (Hmiss o).
  rewrite <- list_elem_of_In in Hmiss. specialize (Hmiss (list_elem_of_lookup_2 _ _ _ Hl)).
  destruct (find_ops _ (opc_name o)) as [e|] eqn:He; (split; [by eapply bool_decide_eq_true_1|]).
  - intros e'. split.
    + intros [H1 H2]. pose proof (find_ops_complete _ _ _ Hnd H1 H2) as H. congruence.
    + intros ->. by apply find_ops_sound.
  - intros e' H1 H2. by rewrite (find_ops_complete _ _ _ Hnd H1 H2) in He.
Qed.
