(* ===== verification/Execution.v ===== *)
(** * Translation blocks and execution ([target/xtensa/translate.c], [cpu.c])

    [translate_insn] is [xtensa_tr_translate_insn]: the instruction counter around
    the code of one instruction.  A block is the code of up to [n] instructions
    that the translator emits for the state it starts in, with the end of the
    block ([xtensa_tr_tb_stop]); [run_block] runs it and takes the exception it
    raises.  [xtensa_cpu_reset_hold]
    is the reset of the CPU object (the reset of its parent class is left out).

    The generic translation loop and the execution loop of the emulator are not
    in the tree; a block here has one context, as [DisasContext] is set up once,
    and ends where the target's code ends it or after [n] instructions.  [fetch]
    reads a byte of code through the memory system. *)

From S2P Require Import Prelude Cpu Interrupt Exception Window Tlb Mmu Dbg TbFlags Control Arith Slots Lanes Tie FpStatus LoadStore Isa Decode.
From S2P Require Import Fpu CoreInsn FpInsn OpTable SrTable LibIsa.

#[local] Open Scope mach_scope.
#[local] Open Scope isa_scope.

Abbreviation TARGET_PAGE_SIZE := 0x1000 (only parsing).
Abbreviation EXC_RESET0 := 0 (only parsing).
Abbreviation MEMCTL_IL0EN := 0x1 (only parsing).

Section exec.
Context `{!TcgOps} (config : XtensaConfig) (E : Environment) (li : libisa).
Context (use_icount : bool) (st : IsaState).

(** ** One instruction *)

(** ICOUNT before the instruction: the next value, or the debug exception when it
    would wrap. *)
Definition count_insn (dc : DisasContext) : machM unit :=
  when (dc_icount dc)
    (icount <- gets (fun m => sr (m_env m) ICOUNT) ;;
     let next := u32 (icount + 1) in
     if next =? 0 then
       modify (with_next_icount icount) ;;
       when (dc_debug dc) (on_env (helper_debug_exception config (dc_pc dc) DEBUGCAUSE_IC))
     else modify (with_next_icount next)).

Definition save_icount (dc : DisasContext) : machM unit :=
  when (dc_icount dc) (modify (fun m => with_env (set_sr ICOUNT (m_next_icount m) (m_env m)) m)).

(** Returns [pc_next] and the code, which tells whether it left the block. *)
Definition translate_insn (ldub : Z -> Z) (tb_flags : Z) (dc : DisasContext) : Z * machM bool :=
  if use_icount && truthy (tb_flags &&& TBFLAG_YIELD)
  then (u32 (dc_pc dc + 1), on_env (helper_exception EXCP_YIELD))
  else
    let r := (disas_core config E li tb_flags ldub [0] dc st).1 in
    (r.1.1, count_insn dc ;; left <- r.2 ;; when (negb left) (save_icount dc) ;; ret left).

(** ** Blocks *)

Definition at_pc (dc : DisasContext) (next : Z) : DisasContext :=
  {| dc_pc := next; dc_pc_next := next; dc_ring := dc_ring dc;
     dc_cring := dc_cring dc; dc_lbeg_off := dc_lbeg_off dc; dc_lend := dc_lend dc;
     dc_debug := dc_debug dc; dc_icount := dc_icount dc; dc_cpenable := dc_cpenable dc;
     dc_window := dc_window dc; dc_cwoe := dc_cwoe dc; dc_callinc := dc_callinc dc;
     dc_op_flags := 0; dc_next_icount := dc_next_icount dc |}.

(** Whether the next instruction crosses the page the block started in. *)
Definition page_end (ldub : Z -> Z) (pc_first next : Z) : bool :=
  let offset := u32 (next - page_of pc_first) in
  let len := (xtensa_isa_length_from_chars [ldub next] st).1 in
  (TARGET_PAGE_SIZE <=? offset) || (TARGET_PAGE_SIZE <? u32 (offset + u32 len)).

Definition xtensa_tr_tb_stop (dc : DisasContext) : machM unit :=
  at_icount dc (fun dc => gen_jumpi config dc (dc_pc dc)).

Fixpoint tb_code (ldub : Z -> Z) (tb_flags pc_first : Z) (n : nat) (dc : DisasContext) : machM unit :=
  match n with
  | O => xtensa_tr_tb_stop dc
  | S n' =>
      let '(next, code) := translate_insn ldub tb_flags dc in
      left <- code ;;
      if left : bool then ret tt
      else
        let dc' := at_pc dc next in
        if page_end ldub pc_first next then xtensa_tr_tb_stop dc' else tb_code ldub tb_flags pc_first n' dc'
  end.

Definition gen_intermediate_code (fetch : machine -> Z -> Z) (n : nat) : machM unit := fun m =>
  let '(pc_first, cs_base, flags) := cpu_get_tb_cpu_state config (m_env m) in
  tb_code (fetch m) flags pc_first n (xtensa_tr_init_disas_context pc_first cs_base flags)
    (with_sar init_sar_tracker m).

(** An exception goes to its vector. *)
Definition run_block (fetch : machine -> Z -> Z) (n : nat) : machM unit := fun m =>
  match gen_intermediate_code fetch n m with
  | LoopExit m' => on_env (xtensa_cpu_do_interrupt config) m'
  | r => r
  end.

(** [k] blocks of one instruction. *)
Fixpoint run_insns (fetch : machine -> Z -> Z) (k : nat) : machM unit :=
  match k with O => ret tt | S k' => run_block fetch 1 ;; run_insns fetch k' end.

(** ** Reset *)

Definition reset_regs (env : CPUXtensaState) : CPUXtensaState :=
  let enabled o := xtensa_option_enabled config o in
  let env := set_pc (nthZ (exception_vector config) (EXC_RESET0 + static_vectors env)) env in
  let env := set_sr LITBASE (sr env LITBASE &&& not32 1) env in
  let env := set_sr PS (if enabled OPTION_INTERRUPT then 0x1f else 0x10) env in
  let env := set_pending_irq_level 0 env in
  let env := set_sr VECBASE (vecbase config) env in
  let env := set_sr IBREAKENABLE 0 env in
  let env := set_sr MEMCTL (MEMCTL_IL0EN &&& memctl_mask config) env in
  let env := set_sr ATOMCTL (if enabled OPTION_ATOMCTL then 0x28 else 0x15) env in
  let env := set_sr CONFIGID0 (configid config).1 env in
  let env := set_sr CONFIGID1 (configid config).2 env in
  set_exclusive_addr (2 ^ 32 - 1) env.

Definition xtensa_cpu_reset_hold : machM unit :=
  let dfpu := xtensa_option_enabled config OPTION_DFP_COPROCESSOR in
  mod_env reset_regs ;;
  on_env (reset_mmu config) ;;
  mod_env (fun env => set_halted (runstall env) env) ;;
  fp_set (set_no_signaling_nans (negb dfpu)) ;;
  fp_set (xtensa_use_first_nan (negb dfpu)).

End exec.

(** ** Instructions without checks *)

(** Flags with which an instruction has no check but that of a zero divisor, and no work at its end. *)
Definition plain_flags (f : Z) : bool := f &&& 0x1eff =? 0.

Lemma plain_bit f mask : plain_flags f = true -> mask &&& 0x1eff = mask -> truthy (f &&& mask) = false.
Proof.
  intros Hf%Z.eqb_eq Hm. apply truthy_false. rewrite <- Hm, (Z.land_comm mask), Z.land_assoc, Hf. apply Z.land_0_l.
Qed.

Section plain.
Context (config : XtensaConfig) (rr : Z -> Z -> machine -> Z).

Lemma finish_plain dc env : plain_flags (dc_op_flags dc) = true -> dc_pc_next dc <> dc_lend dc ->
  finish_insn config dc env = Done false env.
Proof.
  intros Hf Hl. unfold finish_insn, gen_postprocess, bind, when.
  rewrite !(plain_bit _ _ Hf) by (by vm_compute). cbn.
  unfold gen_check_loop_end. cbn. by rewrite (proj2 (Z.eqb_neq _ _) Hl).
Qed.

(** The window check of a mask whose registers are in the window. *)
Definition in_window (dc : DisasContext) (mask : Z) : Prop :=
  forall r, 0 <= r -> Z.testbit mask r = true -> r / 4 <= dc_window dc.

Lemma window_passes dc mask env : in32 mask -> in_window dc mask ->
  when (truthy mask) (gen_window_check config dc mask) env = Done tt env.
Proof.
  intros Hm Hw. unfold when. destruct (truthy mask) eqn:Ht; [|done]. unfold gen_window_check.
  apply truthy_true in Ht. unfold clz32. rewrite (proj2 (Z.eqb_neq _ _) Ht).
  replace (31 - (31 - Z.log2 mask)) with (Z.log2 mask) by lia.
  rewrite (proj2 (Z.ltb_ge _ _)); [done|]. apply Hw; [apply Z.log2_nonneg|].
  apply Z.bit_log2. unfold in32 in Hm. lia.
Qed.

(** The check of a zero divisor that precedes an instruction. *)
Definition zero_guard (dc : DisasContext) (flags : Z) (args : list OpcodeArg) : machM unit :=
  when (truthy (flags &&& XTENSA_OP_DIVIDE_BY_ZERO)) (gen_zero_check config rr dc args).

(** One slot whose entry has no tests and no checks but the window check and that of a zero
    divisor. *)
Lemma emit_plain (ops : XtensaOps) dc next (d : decoded) args prop m :
  plain_flags (ops_flags ops) = true -> ops_coprocessor ops = 0 ->
  d = mkDecoded (ops_flags ops) 0 (d_windowed d) 0 [mkSlotCode ops args prop] (ret tt ;; ret tt) ->
  in32 (d_windowed d) -> in_window dc (d_windowed d) ->
  emit_insn config rr dc next (SlotDone d) m =
    (let dc1 := with_op_flags dc next (ops_flags ops) in
     let t := ops_translate ops dc1 args (ops_par ops) in
     zero_guard dc (ops_flags ops) args ;; t.2 ;; if t.1 then ret true else at_icount dc1 (finish_insn config)) m.
Proof.
  intros Hf Hc Hd Hm Hw. unfold emit_insn. rewrite Hd. cbn [d_tests d_slots].
  change (order_slots [mkSlotCode ops args prop]) with (Some (Some ([0], [] : list opcode_arg_copy))).
  unfold bind at 1 2, ret at 1 2. unfold bind at 1, on_env at 1, insn_checks.
  cbn [d_flags d_windowed d_coprocessor d_debug_cause].
  rewrite !(plain_bit _ _ Hf) by (by vm_compute).
  change (truthy 0) with false. cbn [andb when]. unfold bind at 1 2 3 4 5 6, ret at 1 2 3 4 5.
  rewrite window_passes by done. cbn. unfold insn_body. cbn [copy_args d_slots d_flags foldr sc_ops sc_args].
  replace (with_env (m_env m) m) with m by (by destruct m).
  unfold bind at 1, ret at 1. fold (zero_guard dc (ops_flags ops) args).
  assert (Hz : forall m0, when (truthy (ops_flags ops &&& XTENSA_OP_DIVIDE_BY_ZERO))
      (zero_guard dc (ops_flags ops) args ;; ret tt) m0 = zero_guard dc (ops_flags ops) args m0).
  { intros m0. unfold zero_guard, when, bind. destruct (truthy _) eqn:Ht; [|done]. rewrite ?Ht. by destruct (gen_zero_check _ _ _ _ m0) as [[] ?| |]. }
  unfold bind at 1. rewrite Hz. unfold bind. destruct (zero_guard dc (ops_flags ops) args m) as [_ m1| |]; [|done..].
  cbn [run_slots]. change ([mkSlotCode ops args prop] !! Z.to_nat 0) with (Some (mkSlotCode ops args prop)).
  cbn [sc_ops sc_args].
  destruct (ops_translate ops _ args (ops_par ops)) as [leaves code]. cbn [fst snd].
  destruct (code m1) as [u m'| |]; [|done|done]. cbn. by destruct leaves.
Qed.
End plain.

(** A block of one instruction that falls through. *)
Lemma exec_one `{!TcgOps} config E li st fetch m next r code m1 :
  let dc := tb_context config (m_env m) in
  let flags := (cpu_get_tb_cpu_state config (m_env m)).2 in
  dc_icount dc = false ->
  (disas_core config E li flags (fetch m) [0] dc st).1 = (next, r, code) ->
  code (with_sar init_sar_tracker m) = Done false m1 ->
  run_block config E li false st fetch 1 m = Done tt (with_env (set_pc next (m_env m1)) m1).
Proof.
  intros dc flags Hi Hd Hc. subst dc flags. unfold run_block, gen_intermediate_code. unfold tb_context in *.
  destruct (cpu_get_tb_cpu_state config (m_env m)) as [[pc_first cs_base] flags]. cbn [snd] in Hd.
  set (dc := xtensa_tr_init_disas_context pc_first cs_base flags) in *.
  assert (Hs : forall dc1 m1, dc_icount dc1 = false -> dc_op_flags dc1 = 0 ->
    xtensa_tr_tb_stop config dc1 m1 = Done tt (with_env (set_pc (dc_pc dc1) (m_env m1)) m1)).
  { clear. intros dc1 m1 Hi Ho. unfold xtensa_tr_tb_stop, at_icount, gen_jumpi, gen_jump, bind, gets, on_env, when.
    cbn. by rewrite Hi, Ho. }
  cbn [tb_code]. unfold translate_insn, count_insn, save_icount. rewrite Hi. cbn [andb]. rewrite Hd. cbn [fst snd].
  unfold bind, when, ret. rewrite Hc. cbn [negb]. destruct (page_end _ _ _ _); by rewrite Hs.
Qed.

(** A block of one instruction that leaves it. *)
Lemma exec_one_leaves `{!TcgOps} config E li st fetch m next r code m1 :
  let dc := tb_context config (m_env m) in
  let flags := (cpu_get_tb_cpu_state config (m_env m)).2 in
  dc_icount dc = false ->
  (disas_core config E li flags (fetch m) [0] dc st).1 = (next, r, code) ->
  code (with_sar init_sar_tracker m) = Done true m1 ->
  run_block config E li false st fetch 1 m = Done tt m1.
Proof.
  intros dc flags Hi Hd Hc. subst dc flags. unfold run_block, gen_intermediate_code. unfold tb_context in *.
  destruct (cpu_get_tb_cpu_state config (m_env m)) as [[pc_first cs_base] flags]. cbn [snd] in Hd.
  set (dc := xtensa_tr_init_disas_context pc_first cs_base flags) in *.
  cbn [tb_code]. unfold translate_insn, count_insn, save_icount. rewrite Hi. cbn [andb]. rewrite Hd. cbn [fst snd].
  unfold bind, when, ret. by rewrite Hc.
Qed.

(** [m'] is [m] after general exception [cause] of the instruction at its program counter:
    memory, the register files and the coprocessors are those of [m]. *)
Definition machine_raised (config : XtensaConfig) (cause : Z) (m m' : machine) : Prop :=
  exists env', raised config (pc (m_env m)) cause (m_env m) env' /\ m' = with_env env' (with_sar init_sar_tracker m).

(** A block of one instruction that raises an exception. *)
Lemma exec_one_raises `{!TcgOps} config E li st fetch m next r code cause :
  let dc := tb_context config (m_env m) in
  let flags := (cpu_get_tb_cpu_state config (m_env m)).2 in
  let m0 := with_sar init_sar_tracker m in
  dc_icount dc = false ->
  (disas_core config E li flags (fetch m) [0] dc st).1 = (next, r, code) ->
  code m0 = on_env (gen_exception_cause config dc cause) m0 ->
  exists m', run_block config E li false st fetch 1 m = Done tt m' /\ machine_raised config cause m m'.
Proof.
  intros dc flags m0 Hi Hd Hc.
  destruct (exception_delivery config (m_env m) (pc (m_env m)) cause) as (env' & He & Hr).
  exists (with_env env' m0). split; [|by exists env'].
  subst dc flags. unfold run_block, gen_intermediate_code. unfold tb_context in *.
  unfold cpu_get_tb_cpu_state in *. cbn [snd] in Hd.
  set (dc := xtensa_tr_init_disas_context _ _ _) in *.
  cbn [tb_code]. unfold translate_insn, count_insn, save_icount. rewrite Hi. cbn [andb]. rewrite Hd. cbn [fst snd].
  unfold bind, when, ret. fold m0. rewrite Hc. unfold take_exception in He. unfold on_env at 1, gen_exception_cause.
  change (dc_pc dc) with (pc (m_env m)). change (m_env m0) with (m_env m). rewrite exception_cause_eq in He |- *.
  cbv beta iota. unfold on_env. cbn [m_env with_env]. by rewrite He.
Qed.

(** ** The methods of the CPU object ([cpu.c]) *)

Definition xtensa_cpu_set_pc (value : Z) (env : CPUXtensaState) : CPUXtensaState := set_pc (u32 value) env.
Definition xtensa_cpu_get_pc (env : CPUXtensaState) : Z := pc env.
Definition xtensa_restore_state_to_opc (data : list Z) (env : CPUXtensaState) : CPUXtensaState :=
  set_pc (u32 (nthZ data 0)) env.
Definition xtensa_cpu_has_work (env : CPUXtensaState) : bool := negb (runstall env) && truthy (pending_irq_level env).
Definition xtensa_cpu_mmu_index (config : XtensaConfig) (env : CPUXtensaState) (ifetch : bool) : Z :=
  xtensa_get_cring config env.

(** A halted CPU resumes exactly when it is not stalled and an enabled source interrupts above
    the current level. *)
Lemma has_work_exact (config : XtensaConfig) (env : CPUXtensaState) :
  0 <= irq_minlevel config env ->
  xtensa_cpu_has_work (check_interrupts config env) = true <->
  runstall env = false /\
  exists l, irq_minlevel config env < l <= nlevel config /\ level_sources config l &&& int_set_enabled config env <> 0.
Proof.
  intros H0. pose proof (check_interrupts_pending config env) as Hp.
  assert (Hr : runstall (check_interrupts config env) = runstall env).
  { unfold check_interrupts. by destruct (check_levels _ _ _ _). }
  unfold xtensa_cpu_has_work. rewrite andb_true_iff, negb_true_iff, truthy_true, Hr.
  set (L := pending_irq_level _) in *. destruct Hp as [(-> & Hn) | (Hl & He & _)].
  - split; [by intros [_ []] | intros (_ & l & Hl & He); by destruct (Hn l Hl)].
  - split; [intros [Hs _]; eauto | intros [Hs _]; split; [done | lia]].
Qed.
