(* ===== verification/IsaPattern.v ===== *)
(** * Fields and opcode decoders of an ISA module

    The ISA module of a core is a file of small C functions of three shapes:
    the accessors of a bit field, the template of an opcode, and the decision
    tree of a slot decoder.  Here these shapes are data with their semantics:
    [gchunk] and [schunk] are one statement of a field accessor, [rule] one
    statement of a decoder.  The theory decides questions about them: whether the
    two accessors of a field fit, and which opcode a decoder returns for every word
    that agrees with a template outside the fields of its operands.
    All fields of the cores considered lie in the first word of the buffer. *)

From S2P Require Import Prelude Isa.

#[local] Open Scope mach_scope.

(** ** Field accessors *)

(** [tie_t = (tie_t << w) | ((insn[0] << l) >> r);] *)
Record gchunk := Gc { g_w : Z; g_l : Z; g_r : Z }.

(** [tie_t = (val << l) >> r; insn[0] = (insn[0] & ~mask) | (tie_t << p);] *)
Record schunk := Sc { s_l : Z; s_r : Z; s_mask : Z; s_p : Z }.

Record field := mkField { f_get : list gchunk; f_set : list schunk }.

Definition get_step (w t : Z) (c : gchunk) : Z := lsl32 t (g_w c) ||| (lsl32 w (g_l c) >>> g_r c).
Definition get_word (f : field) (w : Z) : Z := foldl (get_step w) 0 (f_get f).
Definition field_get (f : field) (insn : insnbuf) : Z := get_word f (nthZ insn 0).

Definition set_step (val w : Z) (c : schunk) : Z :=
  (w &&& not32 (s_mask c)) ||| lsl32 (lsl32 val (s_l c) >>> s_r c) (s_p c).
Definition set_word (f : field) (w val : Z) : Z := foldl (set_step val) w (f_set f).
Definition field_set (f : field) (insn : insnbuf) (val : Z) : insnbuf :=
  foldl (fun insn c => setZ insn 0 (set_step val (nthZ insn 0) c)) insn (f_set f).

(** ** Slot decoders *)

(** A conjunct of a condition: the field has one of the values. *)
Abbreviation condition := (field * list Z)%type (only parsing).

(** [return opc;] and [if (c) { body }]. *)
Inductive rule :=
| Return (opc : Z)
| If (c : list condition) (body : list rule).

Definition holds (insn : insnbuf) (c : condition) : bool := existsb (Z.eqb (field_get c.1 insn)) c.2.

(** [None]: control reaches the statement after the rule. *)
Fixpoint exec (insn : insnbuf) (r : rule) : option Z :=
  match r with
  | Return opc => Some opc
  | If c body =>
      if forallb (holds insn) c
      then foldr (fun r k => match exec insn r with Some opc => Some opc | None => k end) None body
      else None
  end.

(** The body of a decoder; its last statement is [return XTENSA_UNDEFINED]. *)
Definition exec_block (insn : insnbuf) (body : list rule) : option Z := exec insn (If [] body).
Definition decode_with (body : list rule) (insn : insnbuf) : Z :=
  default XTENSA_UNDEFINED (exec_block insn body).

(** ** Bits of a field *)

(** The bits of the word a field consists of, lowest first. *)
Definition field_bits (f : field) : list Z :=
  foldl (fun acc c => seqZ (32 - g_l c - g_w c) (g_w c) ++ acc) [] (f_get f).
Definition field_width (f : field) : Z := Z.of_nat (length (field_bits f)).

(** The bit of the value that goes to bit [j] of the word. *)
Definition source_bit (f : field) (j : Z) : option Z :=
  foldl (fun acc c => if (s_p c <=? j) && (j <? s_p c + (32 - s_r c))
                      then Some (j - s_p c + (s_r c - s_l c)) else acc) None (f_set f).

Definition gchunk_ok (c : gchunk) : bool :=
  (0 <=? g_l c) && (0 <=? g_w c) && (g_l c + g_w c <=? 32) && (g_r c =? 32 - g_w c).
Definition schunk_ok (c : schunk) : bool :=
  (0 <=? s_l c) && (s_l c <=? s_r c) && (s_r c <=? 32) && (0 <=? s_p c) && (s_p c + (32 - s_r c) <=? 32)
  && (s_mask c =? Z.shiftl (2 ^ (32 - s_r c) - 1) (s_p c)).

(** The two accessors are well formed and move the same bits. *)
Definition field_ok (f : field) : bool :=
  forallb gchunk_ok (f_get f) && (field_width f <=? 32) && forallb schunk_ok (f_set f)
  && bool_decide (NoDup (field_bits f))
  && forallb (fun j => match source_bit f j with
                       | Some k => (0 <=? k) && bool_decide (field_bits f !! Z.to_nat k = Some j)
                       | None => bool_decide (j ∉ field_bits f)
                       end) (seqZ 0 32).

(** Where the bits of a field are, and where they are for a value. *)
Definition field_mask (f : field) : Z := set_word f 0 (2 ^ 32 - 1).
Definition field_value (f : field) (v : Z) : Z := set_word f 0 v.

Section bits.
Context (w : Z).

Definition picked (l : list Z) (k : Z) : bool :=
  match l !! Z.to_nat k with Some p => Z.testbit w p | None => false end.

Lemma picked_app l1 l2 k :
  0 <= k -> picked (l1 ++ l2) k =
    if k <? Z.of_nat (length l1) then picked l1 k else picked l2 (k - Z.of_nat (length l1)).
Proof.
  intros Hk. unfold picked. destruct (Z.ltb_spec k (Z.of_nat (length l1))).
  - by rewrite lookup_app_l by lia.
  - rewrite lookup_app_r by lia. by replace (Z.to_nat (k - Z.of_nat (length l1))) with (Z.to_nat k - length l1)%nat by lia.
Qed.

Lemma picked_seqZ m n k : 0 <= k < n -> picked (seqZ m n) k = Z.testbit w (m + k).
Proof. intros Hk. unfold picked. rewrite lookup_seqZ_lt by lia. f_equal. lia. Qed.

Lemma get_step_bits c t acc k :
  gchunk_ok c = true -> 0 <= k ->
  (forall i, 0 <= i -> Z.testbit t i = picked acc i) ->
  Z.of_nat (length acc) + g_w c <= 32 ->
  Z.testbit (get_step w t c) k = picked (seqZ (32 - g_l c - g_w c) (g_w c) ++ acc) k.
Proof.
  unfold gchunk_ok. intros Hc Hk Ht Hlen.
  assert (Hr : g_r c = 32 - g_w c) by lia.
  rewrite picked_app, length_seqZ, Z2Nat.id by lia. unfold get_step.
  rewrite Z.lor_spec, Z.shiftr_spec, !lsl32_testbit by lia. destruct (Z.ltb_spec k (g_w c)) as [Hlt|Hge].
  - rewrite picked_seqZ, (Z.testbit_neg_r _ (k - g_w c)), andb_false_r by lia. simpl.
    rewrite (proj2 (Z.ltb_lt _ 32)) by lia. simpl. f_equal. lia.
  - rewrite Ht by lia. rewrite (proj2 (Z.ltb_ge (k + g_r c) 32)) by lia. rewrite orb_false_r.
    destruct (Z.ltb_spec k 32); [done|]. simpl. unfold picked.
    by rewrite lookup_ge_None_2 by lia.
Qed.
End bits.

Abbreviation add_bits := (fun acc c => seqZ (32 - g_l c - g_w c) (g_w c) ++ acc) (only parsing).

Lemma add_bits_length l (acc : list Z) : (length acc <= length (foldl add_bits acc l))%nat.
Proof. revert acc. induction l as [|c l IH]; intros acc; simpl; [done|]. etrans; [|apply IH]. rewrite length_app. lia. Qed.

Lemma get_fold_bits w l t acc :
  forallb gchunk_ok l = true -> Z.of_nat (length (foldl add_bits acc l)) <= 32 ->
  (forall i, 0 <= i -> Z.testbit t i = picked w acc i) ->
  forall k, 0 <= k -> Z.testbit (foldl (get_step w) t l) k = picked w (foldl add_bits acc l) k.
Proof.
  revert t acc. induction l as [|c l IH]; intros t acc Hg Hw Ht; simpl in *; [done|].
  apply andb_prop in Hg as [Hc Hg]. apply IH; [done|done|]. intros i Hi. apply get_step_bits; [done..|].
  pose proof (add_bits_length l (seqZ (32 - g_l c - g_w c) (g_w c) ++ acc)) as Hle.
  rewrite length_app, length_seqZ in Hle. unfold gchunk_ok in Hc. lia.
Qed.

Lemma get_word_bits f w k :
  field_ok f = true -> 0 <= k -> Z.testbit (get_word f w) k = picked w (field_bits f) k.
Proof.
  unfold field_ok, field_width. intros Hf Hk.
  apply andb_prop in Hf as [[[[Hg Hw]%andb_prop _]%andb_prop _]%andb_prop _].
  apply get_fold_bits; [done|by apply Z.leb_le|intros; unfold picked; by rewrite Z.testbit_0_l|done].
Qed.

Lemma set_step_bits val w c j :
  schunk_ok c = true -> 0 <= j < 32 ->
  Z.testbit (set_step val w c) j =
    if (s_p c <=? j) && (j <? s_p c + (32 - s_r c)) then Z.testbit val (j - s_p c + (s_r c - s_l c))
    else Z.testbit w j.
Proof.
  unfold schunk_ok. intros Hc Hj. unfold set_step.
  assert (Hm : s_mask c = Z.shiftl (2 ^ (32 - s_r c) - 1) (s_p c)) by lia.
  rewrite Z.lor_spec, Z.land_spec, not32_testbit, !lsl32_testbit, Hm, Z.shiftl_spec by lia.
  rewrite (proj2 (Z.ltb_lt j 32)) by lia. simpl.
  destruct (Z.leb_spec (s_p c) j) as [Hp|Hp]; simpl.
  - rewrite ones_testbit, Z.shiftr_spec, lsl32_testbit by lia.
    destruct (Z.ltb_spec j (s_p c + (32 - s_r c))).
    + rewrite (proj2 (Z.ltb_lt (j - s_p c) _)), (proj2 (Z.ltb_lt (j - s_p c + s_r c) 32)) by lia.
      rewrite andb_false_r. simpl. f_equal. lia.
    + rewrite (proj2 (Z.ltb_ge (j - s_p c) _)), (proj2 (Z.ltb_ge (j - s_p c + s_r c) 32)) by lia. simpl.
      by rewrite andb_true_r, orb_false_r.
  - rewrite !(Z.testbit_neg_r _ (j - s_p c)) by lia. simpl. by rewrite andb_true_r, orb_false_r.
Qed.

Lemma set_word_bits f w v j :
  field_ok f = true -> 0 <= j < 32 ->
  Z.testbit (set_word f w v) j =
    match source_bit f j with Some k => Z.testbit v k | None => Z.testbit w j end.
Proof.
  unfold field_ok, set_word, source_bit. intros Hf Hj.
  apply andb_prop in Hf as [[[_ Hs]%andb_prop _]%andb_prop _]. clear - Hs Hj.
  assert (Hfold : forall l w b acc, forallb schunk_ok l = true ->
    Z.testbit w j = match acc with Some k => Z.testbit v k | None => b end ->
    Z.testbit (foldl (set_step v) w l) j =
      match foldl (fun acc c => if (s_p c <=? j) && (j <? s_p c + (32 - s_r c))
                                then Some (j - s_p c + (s_r c - s_l c)) else acc) acc l with
      | Some k => Z.testbit v k | None => b end).
  { clear - Hj. induction l as [|c l IH]; intros w b acc Hs Hw; simpl in *; [done|].
    apply andb_prop in Hs as [Hc Hs]. apply IH; [done|]. rewrite set_step_bits by done.
    by destruct (_ && _). }
  by apply Hfold.
Qed.

(** ** Reading and writing a field *)

Section fields.
Context (f : field) (Hf : field_ok f = true).

Lemma source_bit_spec j : 0 <= j < 32 ->
  match source_bit f j with
  | Some k => 0 <= k < field_width f /\ field_bits f !! Z.to_nat k = Some j
  | None => j ∉ field_bits f
  end.
Proof.
  intros Hj. unfold field_ok in Hf. apply andb_prop in Hf as [_ H].
  rewrite forallb_forall in H. specialize (H j). rewrite <- list_elem_of_In, elem_of_seqZ in H.
  specialize (H ltac:(lia)). destruct (source_bit f j) as [k|].
  - apply andb_prop in H as [Hk H%bool_decide_eq_true]. split; [|done].
    apply lookup_lt_Some in H. unfold field_width. lia.
  - by apply bool_decide_eq_true in H.
Qed.

Lemma source_bit_at k j : 0 <= j < 32 -> 0 <= k -> field_bits f !! Z.to_nat k = Some j -> source_bit f j = Some k.
Proof.
  intros Hj Hk Hl. pose proof (source_bit_spec j Hj) as H. destruct (source_bit f j) as [k'|].
  - destruct H as [Hk' H]. f_equal. apply Z2Nat.inj; [lia|lia|].
    unfold field_ok in Hf. apply andb_prop in Hf as [[_ Hd%bool_decide_eq_true]%andb_prop _].
    by eapply NoDup_lookup.
  - by apply list_elem_of_lookup_2 in Hl.
Qed.

Lemma field_bits_range j : j ∈ field_bits f -> 0 <= j < 32.
Proof.
  unfold field_ok in Hf. apply andb_prop in Hf as [[[[Hg _]%andb_prop _]%andb_prop _]%andb_prop _].
  unfold field_bits. assert (Hr : forall l acc, forallb gchunk_ok l = true -> (forall i, i ∈ acc -> 0 <= i < 32) ->
    j ∈ foldl add_bits acc l -> 0 <= j < 32).
  { induction l as [|c l IH]; intros acc Hok Hacc; simpl in *; [apply Hacc|]. apply andb_prop in Hok as [Hc Hok].
    apply IH; [done|]. intros i [Hi|Hi]%elem_of_app; [|by apply Hacc].
    apply elem_of_seqZ in Hi. unfold gchunk_ok in Hc. lia. }
  apply Hr; [done|]. intros i Hi. by apply elem_of_nil in Hi.
Qed.

Lemma set_word_in32 w v : in32 w -> in32 (set_word f w v).
Proof.
  unfold set_word. generalize (f_set f) as l. intros l. revert w.
  induction l as [|c l IH]; intros w Hw; simpl; [done|]. apply IH. unfold set_step. auto with mach.
Qed.

(** Reading back what was written gives its low bits. *)
Lemma get_set w v : get_word f (set_word f w v) = v mod 2 ^ field_width f.
Proof.
  apply Z.bits_inj'. intros k Hk. rewrite get_word_bits, mod_pow2_testbit by (done || unfold field_width; lia).
  unfold picked. destruct (field_bits f !! Z.to_nat k) as [j|] eqn:E.
  - assert (Hj : 0 <= j < 32) by (eapply field_bits_range, list_elem_of_lookup_2, E).
    rewrite set_word_bits, (source_bit_at k) by done.
    apply lookup_lt_Some in E. by rewrite (proj2 (Z.ltb_lt _ _)) by (unfold field_width; lia).
  - apply lookup_ge_None_1 in E. by rewrite (proj2 (Z.ltb_ge _ _)) by (unfold field_width; lia).
Qed.

Lemma field_mask_bits j : 0 <= j < 32 ->
  Z.testbit (field_mask f) j = match source_bit f j with Some _ => true | None => false end.
Proof.
  intros Hj. unfold field_mask. rewrite set_word_bits by done. pose proof (source_bit_spec j Hj) as H.
  destruct (source_bit f j) as [k|]; [|by rewrite Z.testbit_0_l].
  rewrite ones_testbit by lia. destruct H as [Hk _]. apply Z.ltb_lt.
  unfold field_ok in Hf. apply andb_prop in Hf as [[[[_ Hw%Z.leb_le]%andb_prop _]%andb_prop _]%andb_prop _]. lia.
Qed.

Lemma field_mask_in32 : in32 (field_mask f).
Proof. apply set_word_in32. auto with mach. Qed.

(** Writing leaves the rest of the word. *)
Lemma set_outside w v : in32 w -> set_word f w v &&& not32 (field_mask f) = w &&& not32 (field_mask f).
Proof.
  intros Hw. apply Z.bits_inj'. intros j Hj. rewrite !Z.land_spec, not32_testbit by done.
  destruct (Z.ltb_spec j 32); [|by rewrite !andb_false_r]. rewrite field_mask_bits, set_word_bits by (done || lia).
  destruct (source_bit f j); [by rewrite !andb_false_r|done].
Qed.

(** The value of the field, as a masked comparison. *)
Lemma get_eqb w v : in32 w -> 0 <= v < 2 ^ field_width f ->
  (get_word f w =? v) = (w &&& field_mask f =? field_value f v).
Proof.
  intros Hw Hv. apply eq_true_iff_eq. rewrite !Z.eqb_eq. split.
  - intros <-. apply Z.bits_inj'. intros j Hj. unfold field_value. destruct (Z.ltb_spec j 32) as [Hl|Hl].
    + rewrite Z.land_spec, field_mask_bits, set_word_bits by (done || lia).
      pose proof (source_bit_spec j (conj Hj Hl)) as H. destruct (source_bit f j) as [k|].
      * destruct H as [Hk H]. rewrite get_word_bits by (done || lia). unfold picked. by rewrite H, andb_true_r.
      * by rewrite andb_false_r, Z.testbit_0_l.
    + rewrite Z.land_spec, (in32_testbit w), (in32_testbit (set_word _ _ _)) by (done || apply set_word_in32; auto with mach). done.
  - intros H. apply Z.bits_inj'. intros k Hk. rewrite get_word_bits by done. unfold picked.
    destruct (field_bits f !! Z.to_nat k) as [j|] eqn:E.
    + assert (Hj : 0 <= j < 32) by (eapply field_bits_range, list_elem_of_lookup_2, E).
      pose proof (source_bit_at k j Hj Hk E) as Hs.
      apply (f_equal (fun x => Z.testbit x j)) in H. unfold field_value in H.
      rewrite Z.land_spec, field_mask_bits, set_word_bits, Hs, andb_true_r in H by done. done.
    + symmetry. apply (testbit_above (field_width f)); [done|]. apply lookup_ge_None_1 in E. unfold field_width. lia.
Qed.

Lemma get_word_range w : 0 <= get_word f w < 2 ^ field_width f.
Proof.
  assert (E : get_word f w = get_word f w mod 2 ^ field_width f).
  { apply Z.bits_inj'. intros k Hk. rewrite mod_pow2_testbit, get_word_bits by (done || unfold field_width; lia).
    destruct (Z.ltb_spec k (field_width f)); [done|]. unfold picked, field_width in *.
    by rewrite lookup_ge_None_2 by lia. }
  rewrite E. apply Z.mod_pos_bound. apply Z.pow_pos_nonneg; unfold field_width; lia.
Qed.
End fields.

(** Disjoint fields do not see each other. *)
Lemma get_set_disjoint f g w v :
  field_ok f = true -> field_ok g = true -> in32 w -> field_mask f &&& field_mask g = 0 ->
  get_word g (set_word f w v) = get_word g w.
Proof.
  intros Hf Hg Hw Hd. apply Z.eqb_eq. rewrite get_eqb by (auto using set_word_in32, get_word_range).
  assert (E : set_word f w v &&& field_mask g = w &&& field_mask g).
  { apply Z.bits_inj'. intros j Hj. rewrite !Z.land_spec. destruct (Z.ltb_spec j 32) as [Hl|Hl].
    - apply (f_equal (fun x => Z.testbit x j)) in Hd. rewrite Z.land_spec, Z.testbit_0_l, field_mask_bits in Hd by (done || lia).
      rewrite set_word_bits by (done || lia). destruct (source_bit f j); [|done]. simpl in Hd. by rewrite Hd, !andb_false_r.
    - by rewrite (in32_testbit (field_mask g)), !andb_false_r by (done || by apply field_mask_in32). }
  rewrite E, <- get_eqb by (auto using get_word_range). apply Z.eqb_refl.
Qed.

(** The buffer is its first word. *)
Lemma field_set_word f w ws v : field_set f (w :: ws) v = set_word f w v :: ws.
Proof. unfold field_set, set_word. revert w. induction (f_set f) as [|c l IH]; intros w; simpl; [done|]. apply IH. Qed.

(** ** Decoders as masked comparisons *)

(** The paths of a decision tree, in the order they are tried. *)
Fixpoint paths (r : rule) : list (list condition * Z) :=
  match r with
  | Return opc => [([], opc)]
  | If c body => map (fun p => (c ++ p.1, p.2)) (flat_map paths body)
  end.

Fixpoint first_path (insn : insnbuf) (l : list (list condition * Z)) : option Z :=
  match l with
  | [] => None
  | (c, opc) :: l' => if forallb (holds insn) c then Some opc else first_path insn l'
  end.

Section rule_ind.
Context (P : rule -> Prop) (HR : forall opc, P (Return opc)).
Context (HI : forall c body, Forall P body -> P (If c body)).

Fixpoint rule_nested_ind (r : rule) : P r :=
  match r with
  | Return opc => HR opc
  | If c body => HI c body ((fix go l : Forall P l :=
      match l with [] => Forall_nil_2 P | r' :: l' => Forall_cons_2 P r' l' (rule_nested_ind r') (go l') end) body)
  end.
End rule_ind.

Lemma first_path_app insn l1 l2 :
  first_path insn (l1 ++ l2) = match first_path insn l1 with Some opc => Some opc | None => first_path insn l2 end.
Proof. induction l1 as [|[c opc] l1 IH]; simpl; [done|]. by destruct (forallb _ c). Qed.

Lemma first_path_guard insn c l :
  first_path insn (map (fun p => (c ++ p.1, p.2)) l) = if forallb (holds insn) c then first_path insn l else None.
Proof.
  induction l as [|[c' opc] l IH]; simpl; [by destruct (forallb _ c)|]. rewrite forallb_app, IH.
  by destruct (forallb _ c).
Qed.

Lemma exec_paths insn r : exec insn r = first_path insn (paths r).
Proof.
  induction r as [opc|c body IH] using rule_nested_ind; [done|]. cbn [exec paths]. rewrite first_path_guard.
  destruct (forallb _ c); [|done]. induction IH as [|r l Hr _ IHl]; simpl; [done|]. by rewrite first_path_app, Hr, IHl.
Qed.

(** A conjunct: the mask of the field, its values under the mask, and, when it has
    several values, all the values of the field. *)
Record mcond := mkMcond { mc_mask : Z; mc_vals : list Z; mc_all : list Z }.

Definition compile_cond (c : condition) : mcond :=
  mkMcond (field_mask c.1) (field_value c.1 <$> c.2)
    (match c.2 with [_] => [] | _ => field_value c.1 <$> seqZ 0 (2 ^ field_width c.1) end).
Definition compile_path (p : list condition * Z) : list mcond * Z := (compile_cond <$> p.1, p.2).
Definition compile (body : list rule) : list (list mcond * Z) := compile_path <$> paths (If [] body).

Definition cond_ok (c : condition) : bool :=
  field_ok c.1 && forallb (fun v => (0 <=? v) && (v <? 2 ^ field_width c.1)) c.2.
Definition rules_ok (body : list rule) : bool := forallb (fun p => forallb cond_ok p.1) (paths (If [] body)).

(** *** Words known in part *)

(** The words that have the bits [e] under the mask [K]. *)
Section known.
Context (K e : Z).

Definition ruled_out (m fv : Z) : bool := negb (e &&& m =? fv &&& K).
Definition never (c : mcond) : bool := forallb (ruled_out (mc_mask c)) (mc_vals c).
Definition always (c : mcond) : bool :=
  existsb (fun fv => (mc_mask c &&& K =? mc_mask c) && (e &&& mc_mask c =? fv)) (mc_vals c)
  || match mc_all c with
     | [] => false
     | l => forallb (fun fv => ruled_out (mc_mask c) fv || existsb (Z.eqb fv) (mc_vals c)) l
     end.

(** [None]: the outcome depends on the unknown bits. *)
Fixpoint known_path (l : list (list mcond * Z)) : option (option Z) :=
  match l with
  | [] => Some None
  | (c, opc) :: l' =>
      if existsb never c then known_path l' else if forallb always c then Some (Some opc) else None
  end.

Context (w : Z) (Hw : in32 w) (HK : w &&& K = e).

Lemma ruled_out_sound m fv : ruled_out m fv = true -> w &&& m <> fv.
Proof.
  unfold ruled_out. rewrite negb_true_iff, Z.eqb_neq. intros H <-. apply H. rewrite <- HK.
  by rewrite <- !Z.land_assoc, (Z.land_comm m).
Qed.

Lemma holds_masked c : cond_ok c = true ->
  holds [w] c = existsb (Z.eqb (w &&& field_mask c.1)) (mc_vals (compile_cond c)).
Proof.
  intros Hc. unfold cond_ok in Hc. apply andb_prop in Hc as [Hf Hv]. destruct c as [f vs]. simpl in *.
  unfold holds, field_get. simpl. induction vs as [|v vs IH]; simpl in *; [done|].
  apply andb_prop in Hv as [Hv Hvs]. rewrite get_eqb by (done || lia). by rewrite IH.
Qed.

Lemma never_sound c : cond_ok c = true -> never (compile_cond c) = true -> holds [w] c = false.
Proof.
  intros Hc Hn. rewrite holds_masked by done. unfold never in Hn. apply not_true_iff_false.
  intros (fv & Hin & He%Z.eqb_eq)%existsb_exists. rewrite forallb_forall in Hn. by eapply ruled_out_sound; [apply Hn|].
Qed.

Lemma always_sound c : cond_ok c = true -> always (compile_cond c) = true -> holds [w] c = true.
Proof.
  intros Hc Ha. rewrite holds_masked by done. apply existsb_exists. unfold always in Ha.
  apply orb_prop in Ha as [(fv & Hin & [Hm%Z.eqb_eq He%Z.eqb_eq]%andb_prop)%existsb_exists|Ha].
  - exists fv. split; [done|]. apply Z.eqb_eq. simpl in *.
    by rewrite <- He, <- HK, <- Z.land_assoc, (Z.land_comm K), Hm.
  - assert (Hall : mc_all (compile_cond c) = field_value c.1 <$> seqZ 0 (2 ^ field_width c.1)).
    { destruct c as [f [|v [|v' vs]]]; simpl in *; done. }
    rewrite Hall in Ha. set (fv := field_value c.1 (get_word c.1 w)).
    unfold cond_ok in Hc. apply andb_prop in Hc as [Hf _].
    assert (Hfv : w &&& field_mask c.1 = fv).
    { apply Z.eqb_eq. unfold fv. rewrite <- get_eqb by (auto using get_word_range). apply Z.eqb_refl. }
    destruct (field_value c.1 <$> _) as [|x l] eqn:El in Ha; [done|]. rewrite <- El in Ha.
    rewrite forallb_forall in Ha. specialize (Ha fv).
    rewrite <- list_elem_of_In in Ha. apply orb_prop in Ha as [Ha|(y & Hy & E)%existsb_exists].
    + by apply ruled_out_sound in Ha.
    + exists y. split; [done|]. by rewrite Hfv.
    + apply list_elem_of_fmap_2. apply elem_of_seqZ. pose proof (get_word_range c.1 Hf w). lia.
Qed.

Lemma known_path_sound l r :
  forallb (fun p => forallb cond_ok p.1) l = true -> known_path (compile_path <$> l) = Some r -> first_path [w] l = r.
Proof.
  induction l as [|[c opc] l IH]; intros Hok H; simpl in *; [congruence|]. apply andb_prop in Hok as [Hc Hok].
  rewrite forallb_forall in Hc. destruct (existsb never _) eqn:En.
  - apply existsb_exists in En as (m & Hm & En). rewrite <- list_elem_of_In in Hm.
    apply list_elem_of_fmap in Hm as (d & -> & Hd). apply list_elem_of_In in Hd.
    assert (Hh : forallb (holds [w]) c = false).
    { apply not_true_iff_false. rewrite forallb_forall. intros Hh. specialize (Hh d Hd).
      by rewrite never_sound in Hh by auto. }
    rewrite Hh. by apply IH.
  - destruct (forallb always _) eqn:Ea; [|done]. injection H as <-. rewrite forallb_forall in Ea.
    assert (Hh : forallb (holds [w]) c = true).
    { apply forallb_forall. intros d Hd. apply always_sound; [by apply Hc|]. apply Ea.
      apply list_elem_of_In, list_elem_of_fmap_2, list_elem_of_In, Hd. }
    by rewrite Hh.
Qed.

(** What a decoder returns for every such word. *)
Lemma known_decode body opc :
  rules_ok body = true -> known_path (compile body) = Some (Some opc) -> decode_with body [w] = opc.
Proof.
  intros Hok H. unfold decode_with, exec_block. rewrite exec_paths. by rewrite (known_path_sound _ _ Hok H).
Qed.
End known.

(** ** Entries of the field tables *)

Inductive getter := Get (f : field) | Implicit (v : Z).
Inductive setter := Set_ (f : field) | Implicit_set.

Definition run_getter (g : getter) (insn : insnbuf) : Z :=
  match g with Get f => field_get f insn | Implicit v => v end.
Definition run_setter (s : setter) (insn : insnbuf) (val : Z) : insnbuf :=
  match s with Set_ f => field_set f insn val | Implicit_set => insn end.
