(* ===== verification/IsaAsm.v ===== *)
(** * Assembling and disassembling with the ISA library

    The tables of a core as data ([core]), the protocol by which a client of
    [xtensa-isa.c] assembles an instruction (format, opcode, operand fields, slot,
    bytes) and disassembles it again, and the theory of when the second inverts the
    first.  [core_check] decides it for every opcode of a core at once, for all
    values of the operands: the decoder of the slot must return the opcode for every
    word that agrees with its template outside the fields of its operands, and these
    fields must not overlap. *)

From S2P Require Import Prelude Isa IsaCodec IsaPattern.

#[local] Open Scope mach_scope.
#[local] Open Scope isa_scope.

(** ** Tables of a core *)

Record core_slot := mkCoreSlot {
  cs_name : string;
  cs_format : string;
  cs_position : Z;
  cs_get : insnbuf -> insnbuf -> insnbuf;
  cs_set : insnbuf -> insnbuf -> insnbuf;
  cs_getters : list (option getter);
  cs_setters : list (option setter);
  cs_rules : list rule;
  cs_nop : string;
}.

(** [co_words]: the word the template of each slot stores, if the slot has the opcode. *)
Record core_opcode := mkCoreOpcode {
  co_name : string; co_iclass : Z; co_flags : Z; co_words : list (option Z);
  co_uses : list xtensa_funcUnit_use;
}.

Record core := mkCore {
  c_slots : list core_slot;
  c_opcodes : list core_opcode;
  c_iclasses : list xtensa_iclass_internal;
  c_operands : list xtensa_operand_internal;
}.

Definition slot_of (s : core_slot) : xtensa_slot_internal :=
  mkSlot (cs_name s) (cs_format s) (cs_position s) (cs_get s) (cs_set s)
    (option_map run_getter <$> cs_getters s) (option_map run_setter <$> cs_setters s) (decode_with (cs_rules s)) (cs_nop s).

(** [slotbuf[0] = w] *)
Definition encode_word (w : Z) (slotbuf : insnbuf) : insnbuf := setZ slotbuf 0 w.
Definition opcode_of (o : core_opcode) : xtensa_opcode_internal :=
  mkOpcode (co_name o) (co_iclass o) (co_flags o) (option_map encode_word <$> co_words o) (co_uses o).

(** The module holds the tables of the core. *)
Record has_core (c : core) (i : xtensa_isa_internal) : Prop := {
  hc_slots : slots i = slot_of <$> c_slots c;
  hc_opcodes : opcodes i = opcode_of <$> c_opcodes c;
  hc_iclasses : iclasses i = c_iclasses c;
  hc_operands : operands i = c_operands c;
}.

(** ** The protocol *)

(** Stores [vals f] into the field [f] of every operand of a list. *)
Definition operand_field (opc opnd : Z) : isaM Z :=
  with_operand opc opnd XTENSA_UNDEFINED (fun o => done (field_id o)).

Fixpoint set_operands (fmt slot opc : Z) (vals : Z -> Z) (opnds : list Z) (slotbuf : insnbuf) : isaM insnbuf :=
  match opnds with
  | [] => done slotbuf
  | k :: opnds' =>
      let* f := operand_field opc k in
      let* r := xtensa_operand_set_field opc k fmt slot slotbuf (vals f) in
      set_operands fmt slot opc vals opnds' r.2
  end.

Fixpoint get_operands (fmt slot opc : Z) (opnds : list Z) (slotbuf : insnbuf) : isaM (list (option Z)) :=
  match opnds with
  | [] => done []
  | k :: opnds' =>
      let* r := xtensa_operand_get_field opc k fmt slot slotbuf in
      let* l := get_operands fmt slot opc opnds' slotbuf in
      done (r.2 :: l)
  end.

Definition assemble (fmt opc : Z) (vals : Z -> Z) : isaM (list Z) :=
  let* insn := xtensa_format_encode fmt [0] in
  let* sb := xtensa_opcode_encode fmt 0 [0] opc in
  let* n := xtensa_opcode_num_operands opc in
  let* slotbuf := set_operands fmt 0 opc vals (seqZ 0 n) sb.2 in
  let* insn := xtensa_format_set_slot fmt 0 insn.2 slotbuf in
  let* r := xtensa_insnbuf_to_chars insn.2 0 in
  done r.2.

(** Format, opcode and the fields of the operands. *)
Definition disassemble (bytes : list Z) : isaM (Z * Z * list (option Z)) :=
  let* insn := xtensa_insnbuf_from_chars bytes 0 in
  let* fmt := xtensa_format_decode insn in
  let* sb := xtensa_format_get_slot fmt 0 insn [0] in
  let* opc := xtensa_opcode_decode fmt 0 sb.2 in
  let* n := xtensa_opcode_num_operands opc in
  let* vals := get_operands fmt 0 opc (seqZ 0 n) sb.2 in
  done (fmt, opc, vals).

(** ** The check *)

#[global] Instance gchunk_eq_dec : EqDecision gchunk.
Proof. solve_decision. Defined.
#[global] Instance schunk_eq_dec : EqDecision schunk.
Proof. solve_decision. Defined.
#[global] Instance field_eq_dec : EqDecision field.
Proof. solve_decision. Defined.
#[global] Instance core_slot_inhabited : Inhabited core_slot :=
  populate (mkCoreSlot EmptyString EmptyString 0 (fun _ b => b) (fun a _ => a) [] [] [] EmptyString).
#[global] Instance core_opcode_inhabited : Inhabited core_opcode := populate (mkCoreOpcode EmptyString 0 0 [] []).

(** Both accessors of a field number belong to the same field. *)
Definition accessors_ok (g : option getter) (s : option setter) : bool :=
  match g, s with
  | None, None => true
  | Some (Implicit _), Some Implicit_set => true
  | Some (Get f), Some (Set_ f') => bool_decide (f = f') && field_ok f
  | _, _ => false
  end.
Definition slot_ok (s : core_slot) : bool :=
  rules_ok (cs_rules s) && bool_decide (length (cs_getters s) = length (cs_setters s))
  && forallb (fun p => accessors_ok p.1 p.2) (zip (cs_getters s) (cs_setters s)).

Section check.
Context (c : core).

Definition setter_at (s : core_slot) (f : Z) : option setter := index (cs_setters s) f.
Definition getter_at (s : core_slot) (f : Z) : option getter := index (cs_getters s) f.
Definition opcode_fields (o : core_opcode) : list Z :=
  (fun a => field_id (index (c_operands c) (arg_u a))) <$> icl_operands (index (c_iclasses c) (co_iclass o)).

Definition setter_mask (s : core_slot) (f : Z) : Z :=
  match setter_at s f with Some (Set_ fld) => field_mask fld | _ => 0 end.
Definition operand_mask (s : core_slot) (o : core_opcode) : Z :=
  foldr (fun f m => setter_mask s f ||| m) 0 (opcode_fields o).

(** The fields exist and lie apart. *)
Definition fields_ok (s : core_slot) (l : list Z) : bool :=
  forallb (fun f => negb (f =? XTENSA_UNDEFINED) && match setter_at s f with Some _ => true | None => false end
                    && forallb (fun g => (f =? g) || (setter_mask s f &&& setter_mask s g =? 0)) l) l.

(** The template [w] of opcode [opc] in a slot whose decoder compiles to [dec] and
    whose bits are [smask]; [fixed] is the test on the known bits of the instruction. *)
Definition template_ok (s : core_slot) (smask : Z) (dec : list (list mcond * Z)) (fixed : Z -> Z -> bool)
    (opc : Z) (o : core_opcode) (w : Z) : bool :=
  let K := not32 (operand_mask s o) in
  let e := w &&& K in
  bool_decide (known_path K e dec = Some (Some opc)) && fields_ok s (opcode_fields o)
  && (0 <=? w) && (w <? 2 ^ 32) && (e &&& not32 smask =? 0) && (operand_mask s o &&& not32 smask =? 0)
  && fixed K e.

Definition opcodes_ok (sid : nat) (smask : Z) (dec : list (list mcond * Z)) (fixed : Z -> Z -> bool) : bool :=
  forallb (fun p => match co_words p.2 !!! sid with
                    | Some w => template_ok (c_slots c !!! sid) smask dec fixed p.1 p.2 w
                    | None => true
                    end) (zip (seqZ 0 (count (c_opcodes c))) (c_opcodes c)).
End check.

(** ** Soundness of the check *)

Lemma index_option_map {A B} (f : A -> B) (l : list (option A)) k :
  index (option_map f <$> l) k = option_map f (index l k).
Proof. unfold index. rewrite !list_lookup_total_alt, list_lookup_fmap. by destruct (l !! _). Qed.

Lemma index_fmap {A B} `{Inhabited A, Inhabited B} (f : A -> B) (l : list A) k :
  0 <= k < count l -> index (f <$> l) k = f (index l k).
Proof.
  intros Hk. unfold index, count in *. destruct (lookup_lt_is_Some_2 l (Z.to_nat k)) as [x Hx]; [lia|].
  rewrite !list_lookup_total_alt, list_lookup_fmap. by rewrite Hx.
Qed.

Lemma in_range n size : 0 <= n < size -> out_of_range n size = false.
Proof. unfold out_of_range. lia. Qed.

Lemma slot_accessors s f : slot_ok s = true -> accessors_ok (getter_at s f) (setter_at s f) = true.
Proof.
  unfold slot_ok. intros [[_ Hl%bool_decide_eq_true]%andb_prop H]%andb_prop. rewrite forallb_forall in H.
  unfold getter_at, setter_at, index. rewrite !list_lookup_total_alt.
  destruct (cs_getters s !! Z.to_nat f) as [g|] eqn:Eg.
  - destruct (lookup_lt_is_Some_2 (cs_setters s) (Z.to_nat f)) as [x Ex]; [rewrite <- Hl; by eapply lookup_lt_Some|].
    rewrite Ex. apply (H (g, x)). apply list_elem_of_In. apply (list_elem_of_lookup_2 _ (Z.to_nat f)).
    apply lookup_zip_with_Some. eauto.
  - apply lookup_ge_None_1 in Eg. by rewrite lookup_ge_None_2 by lia.
Qed.

(** What an operand field holds after assembly. *)
Definition field_result (s : core_slot) (vals : Z -> Z) (f : Z) : option Z :=
  match getter_at s f with
  | Some (Get fld) => Some (vals f mod 2 ^ field_width fld)
  | Some (Implicit v) => Some v
  | None => None
  end.

Lemma bool_decide_ext_if {A} (P Q : Prop) `{Decision P, Decision Q} (a b : A) :
  (P <-> Q) -> (if bool_decide P then a else b) = (if bool_decide Q then a else b).
Proof. intros H1. by rewrite (bool_decide_ext P Q H1). Qed.

Lemma operand_mask_covers c s o f :
  f ∈ opcode_fields c o -> setter_mask s f &&& not32 (operand_mask c s o) = 0.
Proof.
  unfold operand_mask. intros Hf. apply Z.bits_inj'. intros j Hj. rewrite Z.land_spec, not32_testbit, Z.testbit_0_l by done.
  destruct (j <? 32); [|by rewrite andb_false_r]. induction (opcode_fields c o) as [|g l IH]; [by apply not_elem_of_nil in Hf|].
  simpl. rewrite Z.lor_spec. apply elem_of_cons in Hf as [->|Hf].
  - by destruct (Z.testbit (setter_mask s g) j).
  - specialize (IH Hf). simpl in IH. destruct (Z.testbit (setter_mask s f) j); [|done]. simpl in *.
    by destruct (Z.testbit (foldr _ _ _) j); [rewrite orb_true_r|].
Qed.

Lemma outside_operands fd x v m :
  field_ok fd = true -> in32 x -> field_mask fd &&& not32 m = 0 -> set_word fd x v &&& not32 m = x &&& not32 m.
Proof.
  intros Hok Hx Hm. pose proof (set_outside fd Hok x v Hx) as H.
  assert (E : forall z, z &&& not32 m = (z &&& not32 (field_mask fd)) &&& not32 m).
  { intros z. apply Z.bits_inj'. intros j Hj. rewrite !Z.land_spec, !not32_testbit by done.
    apply (f_equal (fun y => Z.testbit y j)) in Hm. rewrite Z.land_spec, not32_testbit, Z.testbit_0_l in Hm by done.
    by destruct (Z.testbit z j), (j <? 32), (Z.testbit (field_mask fd) j), (Z.testbit m j). }
  by rewrite (E (set_word fd x v)), H, <- E.
Qed.

Lemma opcodes_ok_template c sid smask dec fixed opc w :
  opcodes_ok c sid smask dec fixed = true -> 0 <= opc < count (c_opcodes c) ->
  co_words (index (c_opcodes c) opc) !!! sid = Some w ->
  template_ok c (c_slots c !!! sid) smask dec fixed opc (index (c_opcodes c) opc) w = true.
Proof.
  unfold opcodes_ok. rewrite forallb_forall. intros H Hopc Hw.
  assert (Hin : In (opc, index (c_opcodes c) opc) (zip (seqZ 0 (count (c_opcodes c))) (c_opcodes c))).
  { apply list_elem_of_In, (list_elem_of_lookup_2 _ (Z.to_nat opc)). apply lookup_zip_with_Some.
    exists opc, (index (c_opcodes c) opc). split; [done|]. split; [rewrite lookup_seqZ_lt by lia; f_equal; lia|].
    unfold index, count in *. apply list_lookup_lookup_total_lt. lia. }
  specialize (H _ Hin). cbn [fst snd] in H. by rewrite Hw in H.
Qed.

Section template.
Context (c : core) (st : IsaState) (Hc : has_core c (isa st)).
Context (fmt : Z) (sid : nat).
Hypothesis Hfmt : 0 <= fmt < count (formats (isa st)).
Hypothesis Hsid : fmt_slot_id (index (formats (isa st)) fmt) = [Z.of_nat sid].
Hypothesis Hslot : (sid < length (c_slots c))%nat.
Abbreviation s := (c_slots c !!! sid).
Hypothesis Hs : slot_ok s = true.

Context (opc : Z) (o : core_opcode).
Hypothesis Hopc : 0 <= opc < count (c_opcodes c).
Hypothesis Ho : index (c_opcodes c) opc = o.
Abbreviation fields := (opcode_fields c o).
Hypothesis Hfields : fields_ok s fields = true.
Abbreviation K := (not32 (operand_mask c s o)).

Lemma slot_lookup : index (slots (isa st)) (slot_number (isa st) fmt 0) = slot_of s.
Proof.
  unfold slot_number. rewrite Hsid. change (index [Z.of_nat sid] 0) with (Z.of_nat sid).
  rewrite (hc_slots _ _ Hc), index_fmap by (unfold count; lia). unfold index. by rewrite Nat2Z.id.
Qed.

Lemma opcode_lookup : index (opcodes (isa st)) opc = opcode_of o.
Proof. by rewrite (hc_opcodes _ _ Hc), index_fmap, Ho by done. Qed.

Lemma opcode_in_range : out_of_range opc (count (opcodes (isa st))) = false.
Proof. apply in_range. rewrite (hc_opcodes _ _ Hc). unfold count in *. by rewrite length_fmap. Qed.

Lemma format_in_range : out_of_range fmt (count (formats (isa st))) = false.
Proof. by apply in_range. Qed.

Lemma slot_in_range : out_of_range 0 (count (fmt_slot_id (index (formats (isa st)) fmt))) = false.
Proof. by rewrite Hsid. Qed.

Lemma opc_iclass_lookup : opc_iclass (isa st) opc = index (c_iclasses c) (co_iclass o).
Proof. unfold opc_iclass. by rewrite opcode_lookup, (hc_iclasses _ _ Hc). Qed.

Lemma num_operands : xtensa_opcode_num_operands opc st = (count fields, st).
Proof.
  unfold xtensa_opcode_num_operands, CHECK_OPCODE, CHECK, with_isa, ibind, intisa, done.
  rewrite opcode_in_range, opc_iclass_lookup. unfold opcode_fields, count. by rewrite length_fmap.
Qed.

Lemma get_operand_run k : 0 <= k < count fields ->
  get_operand opc k st = (Some (index (c_operands c) (arg_u (index (icl_operands (index (c_iclasses c) (co_iclass o))) k))), st).
Proof.
  intros Hk. unfold opcode_fields, count in Hk. rewrite length_fmap in Hk.
  unfold get_operand, CHECK_OPCODE, CHECK_OPERAND, CHECK, with_isa, ibind, intisa, done.
  rewrite opcode_in_range, opc_iclass_lookup, in_range by (unfold count; lia).
  rewrite opc_iclass_lookup. simpl. by rewrite (hc_operands _ _ Hc).
Qed.

Lemma operand_lookup k : 0 <= k < count fields ->
  exists opnd, get_operand opc k st = (Some opnd, st) /\ field_id opnd = index fields k.
Proof.
  intros Hk. eexists. split; [by apply get_operand_run|].
  unfold opcode_fields, count in *. rewrite length_fmap in Hk. by rewrite index_fmap by (unfold count; lia).
Qed.

Lemma fields_elem k : 0 <= k < count fields -> index fields k ∈ fields.
Proof.
  intros Hk. unfold index, count in *. rewrite list_lookup_total_alt.
  destruct (lookup_lt_is_Some_2 fields (Z.to_nat k)) as [x Hx]; [lia|]. rewrite Hx. by eapply list_elem_of_lookup_2.
Qed.

Lemma field_facts f : f ∈ fields ->
  f <> XTENSA_UNDEFINED /\ (exists x, setter_at s f = Some x) /\
  forall g, g ∈ fields -> f <> g -> setter_mask s f &&& setter_mask s g = 0.
Proof.
  intros Hf. unfold fields_ok in Hfields. rewrite forallb_forall in Hfields.
  apply list_elem_of_In in Hf. specialize (Hfields f Hf).
  apply andb_prop in Hfields as [[H1 H2]%andb_prop H3]. split; [lia|]. split.
  - destruct (setter_at s f); [eauto|done].
  - intros g Hg Hne. rewrite forallb_forall in H3. apply list_elem_of_In in Hg. specialize (H3 g Hg). lia.
Qed.

Lemma set_field_run k x v : 0 <= k < count fields ->
  exists m, setter_at s (index fields k) = Some m /\
    xtensa_operand_set_field opc k fmt 0 x v st = ((0, run_setter m x v), st).
Proof.
  intros Hk. destruct (operand_lookup k Hk) as (opnd & Hg & Hid).
  destruct (field_facts _ (fields_elem k Hk)) as (Hu & [m Hm] & _). exists m. split; [done|].
  unfold xtensa_operand_set_field, with_operand, ibind. rewrite Hg, Hid.
  unfold CHECK_FORMAT, CHECK_SLOT, CHECK, ibind, intisa, done.
  rewrite format_in_range. cbn beta iota. rewrite slot_in_range, (proj2 (Z.eqb_neq _ _) Hu). cbn beta iota.
  rewrite slot_lookup. cbn [set_field_fns slot_of]. rewrite index_option_map. unfold setter_at in Hm. by rewrite Hm.
Qed.

Lemma get_field_run k x : 0 <= k < count fields ->
  exists g, getter_at s (index fields k) = Some g /\
    xtensa_operand_get_field opc k fmt 0 x st = ((0, Some (run_getter g x)), st).
Proof.
  intros Hk. destruct (operand_lookup k Hk) as (opnd & Hg & Hid).
  destruct (field_facts _ (fields_elem k Hk)) as (Hu & [m Hm] & _).
  pose proof (slot_accessors s (index fields k) Hs) as Ha. rewrite Hm in Ha.
  destruct (getter_at s (index fields k)) as [g|] eqn:Eg; [|done]. exists g. split; [done|].
  unfold xtensa_operand_get_field, with_operand, ibind. rewrite Hg, Hid.
  unfold CHECK_FORMAT, CHECK_SLOT, CHECK, ibind, intisa, done.
  rewrite format_in_range. cbn beta iota. rewrite slot_in_range, (proj2 (Z.eqb_neq _ _) Hu). cbn beta iota.
  rewrite slot_lookup. cbn [get_field_fns slot_of]. rewrite index_option_map. unfold getter_at in Eg. by rewrite Eg.
Qed.

(** Storing the operands changes nothing but their fields. *)
Lemma set_operands_spec vals ks x :
  Forall (fun k => 0 <= k < count fields) ks -> in32 x ->
  exists y, set_operands fmt 0 opc vals ks [x] st = ([y], st) /\ in32 y /\ y &&& K = x &&& K /\
    forall g fld, g ∈ fields -> setter_at s g = Some (Set_ fld) ->
      get_word fld y = if bool_decide (g ∈ index fields <$> ks) then vals g mod 2 ^ field_width fld
                       else get_word fld x.
Proof.
  intros Hks. revert x. induction Hks as [|k ks Hk Hks IH]; intros x Hx.
  { exists x. split; [done|]. split; [done|]. split; [done|]. intros g fld _ _.
    by rewrite bool_decide_eq_false_2 by apply not_elem_of_nil. }
  set (f := index fields k). destruct (field_facts _ (fields_elem k Hk)) as (_ & _ & Hdis).
  destruct (set_field_run k [x] (vals f) Hk) as (m & Hm & Hrun).
  assert (Hstep : exists x1, run_setter m [x] (vals f) = [x1] /\ in32 x1 /\ x1 &&& K = x &&& K /\
    forall g fld, g ∈ fields -> setter_at s g = Some (Set_ fld) ->
      get_word fld x1 = if bool_decide (g = f) then vals g mod 2 ^ field_width fld else get_word fld x).
  { pose proof (slot_accessors s f Hs) as Ha. fold f in Hm. rewrite Hm in Ha. destruct m as [fd|]; simpl.
    - destruct (getter_at s f) as [[fd'|]|]; try done. apply andb_prop in Ha as [->%bool_decide_eq_true Hok].
      exists (set_word fd x (vals f)). rewrite field_set_word. split; [done|]. split; [by apply set_word_in32|]. split.
      + apply outside_operands; [done|done|]. assert (Hmask : setter_mask s f = field_mask fd) by (unfold setter_mask; by rewrite Hm).
        rewrite <- Hmask. apply operand_mask_covers. by apply fields_elem.
      + intros g fld Hg Hgs. case_bool_decide as Hgf.
        * subst g. rewrite Hm in Hgs. injection Hgs as <-. by apply get_set.
        * pose proof (slot_accessors s g Hs) as Hag. rewrite Hgs in Hag.
          destruct (getter_at s g) as [[fd2|]|]; try done. apply andb_prop in Hag as [Heq%bool_decide_eq_true Hok2].
          subst fd2. apply get_set_disjoint; try done. specialize (Hdis g Hg ltac:(done)).
          unfold setter_mask in Hdis. fold f in Hdis. by rewrite Hm, Hgs in Hdis.
    - exists x. split; [done|]. split; [done|]. split; [done|]. intros g fld Hg Hgs. case_bool_decide; [|done].
      subst g. congruence. }
  destruct Hstep as (x1 & Hx1 & Hin1 & HK1 & Hg1). destruct (IH x1 Hin1) as (y & Hy & Hiny & HKy & Hgy).
  exists y. split.
  { simpl. unfold operand_field, with_operand, ibind. destruct (operand_lookup k Hk) as (opnd & Hgo & Hid).
    rewrite Hgo, Hid. unfold done. fold f. rewrite Hrun. simpl. by rewrite Hx1. }
  split; [done|]. split; [congruence|]. intros g fld Hg Hgs. rewrite (Hgy g fld Hg Hgs), (Hg1 g fld Hg Hgs).
  rewrite fmap_cons. fold f. destruct (decide (g ∈ index fields <$> ks)) as [Hin|Hin].
  - rewrite !bool_decide_eq_true_2; [done|by apply elem_of_cons; right|done].
  - rewrite (bool_decide_eq_false_2 (g ∈ index fields <$> ks)) by done. apply bool_decide_ext_if.
    rewrite elem_of_cons. tauto.
Qed.

Lemma get_operands_spec vals x ks :
  Forall (fun k => 0 <= k < count fields) ks ->
  (forall g fld, g ∈ fields -> setter_at s g = Some (Set_ fld) -> get_word fld x = vals g mod 2 ^ field_width fld) ->
  get_operands fmt 0 opc ks [x] st = ((fun k => field_result s vals (index fields k)) <$> ks, st).
Proof.
  intros Hks Hv. induction Hks as [|k ks Hk Hks IH]; [done|]. simpl. unfold ibind.
  destruct (get_field_run k [x] Hk) as (g & Hg & ->). rewrite IH. unfold done. simpl. f_equal. f_equal.
  unfold field_result. rewrite Hg. destruct g as [fd|v]; [|done]. simpl. unfold field_get. f_equal.
  pose proof (slot_accessors s (index fields k) Hs) as Ha. rewrite Hg in Ha.
  destruct (setter_at s (index fields k)) as [[fd'|]|] eqn:Es; try done.
  apply andb_prop in Ha as [->%bool_decide_eq_true _]. apply Hv; [by apply fields_elem|done].
Qed.

Lemma all_operands : Forall (fun k => 0 <= k < count fields) (seqZ 0 (count fields)).
Proof. apply Forall_forall. intros k Hk%elem_of_seqZ. lia. Qed.

Lemma index_all : index fields <$> seqZ 0 (count fields) = fields.
Proof.
  apply list_eq. intros k. rewrite list_lookup_fmap. unfold count. destruct (decide (k < length fields)%nat) as [Hk|Hk].
  - rewrite lookup_seqZ_lt with (n := Z.of_nat (length fields)) by lia. simpl. unfold index.
    rewrite Z.add_0_l, Nat2Z.id. destruct (lookup_lt_is_Some_2 fields k Hk) as [x Hx]. rewrite Hx.
    by rewrite list_lookup_total_alt, Hx.
  - rewrite (lookup_ge_None_2 fields) by lia. rewrite lookup_ge_None_2 by (rewrite length_seqZ; lia). done.
Qed.

(** *** The instruction *)

Context (smask : Z) (fixed : Z -> Z -> bool) (w : Z).
Hypothesis Hw : co_words o !!! sid = Some w.
Hypothesis Ht : template_ok c s smask (compile (cs_rules s)) fixed opc o w = true.

(** Slot and format fit: the known bits determine the format, the slot is recovered
    from the instruction, and the instruction fits the length of the format. *)
Hypothesis Hform : forall x, in32 x -> x &&& not32 smask = 0 -> (exists K' e, fixed K' e = true /\ x &&& K' = e) ->
  exists z, cs_set s (fmt_encode_fn (index (formats (isa st)) fmt) [0]) [x] = [z] /\
    0 <= z < 2 ^ (8 * fmt_length (index (formats (isa st)) fmt)) /\
    format_decode_fn (isa st) [z] = fmt /\ forall y, cs_get s [z] [y] = [x].

Hypothesis Hsizes : WfSizes (isa st).
Hypothesis Hdecoders : WfDecoders (isa st).
Hypothesis Hword : insnbuf_size (isa st) = 1.
Hypothesis Hlittle : is_big_endian (isa st) = false.

Lemma format_encode_run x : xtensa_format_encode fmt x st = ((0, fmt_encode_fn (index (formats (isa st)) fmt) x), st).
Proof. unfold xtensa_format_encode, CHECK_FORMAT, CHECK, with_isa, ibind, intisa, done. by rewrite format_in_range. Qed.

Lemma opcode_encode_run x : xtensa_opcode_encode fmt 0 [x] opc st = ((0, [w]), st).
Proof.
  unfold xtensa_opcode_encode, CHECK_FORMAT, CHECK_SLOT, CHECK_OPCODE, CHECK, ibind, intisa, done.
  rewrite format_in_range. cbn beta iota. rewrite slot_in_range. cbn beta iota. rewrite opcode_in_range. cbn beta iota.
  rewrite opcode_lookup. unfold slot_number. rewrite Hsid. change (index [Z.of_nat sid] 0) with (Z.of_nat sid).
  cbn [encode_fns opcode_of]. rewrite index_option_map. unfold index. by rewrite Nat2Z.id, Hw.
Qed.

Lemma set_slot_run insn x : xtensa_format_set_slot fmt 0 insn x st = ((0, cs_set s insn x), st).
Proof.
  unfold xtensa_format_set_slot, CHECK_FORMAT, CHECK_SLOT, CHECK, with_isa, ibind, intisa, done.
  rewrite format_in_range. cbn beta iota. rewrite slot_in_range. cbn beta iota. by rewrite slot_lookup.
Qed.

Lemma get_slot_run insn x : xtensa_format_get_slot fmt 0 insn x st = ((0, cs_get s insn x), st).
Proof.
  unfold xtensa_format_get_slot, CHECK_FORMAT, CHECK_SLOT, CHECK, with_isa, ibind, intisa, done.
  rewrite format_in_range. cbn beta iota. rewrite slot_in_range. cbn beta iota. by rewrite slot_lookup.
Qed.

Lemma template_facts :
  known_path K (w &&& K) (compile (cs_rules s)) = Some (Some opc) /\ in32 w /\
  w &&& K &&& not32 smask = 0 /\ operand_mask c s o &&& not32 smask = 0 /\ fixed K (w &&& K) = true.
Proof.
  unfold template_ok in Ht. cbv zeta in Ht.
  apply andb_prop in Ht as [[[[[[H1%bool_decide_eq_true _]%andb_prop H2]%andb_prop H3]%andb_prop H4]%andb_prop H5]%andb_prop H6].
  unfold in32. repeat split; (done || lia).
Qed.

(** A word with the known bits of the template. *)
Lemma opcode_decode_run x : in32 x -> x &&& K = w &&& K -> opc <> XTENSA_UNDEFINED ->
  xtensa_opcode_decode fmt 0 [x] st = (opc, st).
Proof.
  intros Hx HK Hu. destruct template_facts as (Hd & _).
  unfold xtensa_opcode_decode, CHECK_FORMAT, CHECK_SLOT, CHECK, ibind, intisa, done.
  rewrite format_in_range. cbn beta iota. rewrite slot_in_range. cbn beta iota. rewrite slot_lookup.
  cbn [opcode_decode_fn slot_of]. unfold slot_ok in Hs. apply andb_prop in Hs as [[Hr _]%andb_prop _].
  rewrite (known_decode K (w &&& K) x Hx HK _ opc Hr Hd). by rewrite (proj2 (Z.eqb_neq _ _) Hu).
Qed.

Lemma within_slot x : in32 x -> x &&& K = w &&& K -> x &&& not32 smask = 0.
Proof.
  intros Hx HK. destruct template_facts as (_ & _ & H1 & H2 & _). apply Z.bits_inj'. intros j Hj.
  apply (f_equal (fun y => Z.testbit y j)) in HK, H1, H2. rewrite Z.testbit_0_l.
  rewrite !Z.land_spec, ?not32_testbit, ?Z.testbit_0_l in * by done.
  destruct (Z.ltb_spec j 32); [|by rewrite andb_false_r]. simpl in *.
  by destruct (Z.testbit x j), (Z.testbit w j), (Z.testbit smask j), (Z.testbit (operand_mask c s o) j).
Qed.

Lemma high_bytes_zero z n b : 0 <= z < 2 ^ (8 * n) -> 0 <= n -> n <= b < 4 -> insn_byte [z] b = 0.
Proof.
  intros Hz Hn Hb. apply Z.bits_inj'. intros m Hm. rewrite insn_byte_testbit, Z.testbit_0_l by lia.
  destruct (m <? 8); [|done]. simpl. rewrite (Z.div_small b 4), Z.mod_small by lia.
  change (nthZ [z] 0) with z. apply (testbit_above (8 * n)); lia.
Qed.

Lemma chars_roundtrip z :
  0 <= z < 2 ^ (8 * fmt_length (index (formats (isa st)) fmt)) -> format_decode_fn (isa st) [z] = fmt ->
  exists bytes, xtensa_insnbuf_to_chars [z] 0 st = ((fmt_length (index (formats (isa st)) fmt), bytes), st) /\
    xtensa_insnbuf_from_chars bytes 0 st = ([z], st) /\
    xtensa_isa_length_from_chars bytes st = (fmt_length (index (formats (isa st)) fmt), st).
Proof.
  intros Hz Hf. assert (Hn : format_decode_fn (isa st) [z] <> XTENSA_UNDEFINED) by lia.
  destruct (wf_format [z] Hn) as [_ Hlen].
  assert (Hdl : decoded_length (isa st) [z] = fmt_length (index (formats (isa st)) fmt)) by (unfold decoded_length; by rewrite Hf).
  assert (H4 : insn_size (isa st) <= 4).
  { pose proof (wf_buf_size (i := isa st)) as Hb. rewrite Hword in Hb.
    pose proof (Z.div_mod (insn_size (isa st) + 3) 4 ltac:(lia)). pose proof (Z.mod_pos_bound (insn_size (isa st) + 3) 4). lia. }
  assert (Hz32 : in32 z).
  { unfold in32. split; [lia|]. apply Z.lt_le_trans with (2 ^ (8 * fmt_length (index (formats (isa st)) fmt))); [lia|].
    apply Z.pow_le_mono_r; lia. }
  assert (Hwf : wf_buf [z]) by (by constructor).
  pose proof (wf_length_of_insn [z] Hwf ltac:(rewrite Hword; done) Hn) as Hld.
  destruct (insn_buffer_roundtrip st [z] Hsizes Hdecoders Hwf ltac:(rewrite Hword; done) Hn)
    as (cp & insn' & H1 & H2 & _ & H3).
  assert (Hcp : cp = insn_byte [z] <$> byte_indices (isa st) (decoded_length (isa st) [z])).
  { rewrite (to_chars_spec st) in H1 by done. simpl in H1. by injection H1 as <-. }
  rewrite Hdl in *. exists cp. split; [done|]. split.
  - rewrite H2. f_equal. apply H3. intros b Hb Hnot. rewrite Hword in Hb. apply (high_bytes_zero _ (fmt_length (index (formats (isa st)) fmt))); [done|lia|].
    destruct (Z.ltb_spec b (fmt_length (index (formats (isa st)) fmt))); [|lia]. exfalso. apply Hnot.
    rewrite byte_indices_alt. unfold byte_pos. rewrite Hlittle. apply list_elem_of_fmap. exists b. split; [done|].
    apply elem_of_seqZ. lia.
  - unfold xtensa_isa_length_from_chars, ibind, intisa, done. by rewrite Hcp, Hld.
Qed.

(** What was assembled: bytes that load as [z], which holds the slot word [x] with the
    template's bits and the operands' fields. *)
Lemma assembled vals :
  exists bytes z x, assemble fmt opc vals st = (bytes, st) /\
    xtensa_insnbuf_from_chars bytes 0 st = ([z], st) /\
    xtensa_isa_length_from_chars bytes st = (Z.of_nat (length bytes), st) /\
    Z.of_nat (length bytes) = fmt_length (index (formats (isa st)) fmt) /\
    format_decode_fn (isa st) [z] = fmt /\ (forall y, cs_get s [z] [y] = [x]) /\ in32 x /\
    x &&& K = w &&& K /\
    forall g fld, g ∈ fields -> setter_at s g = Some (Set_ fld) -> get_word fld x = vals g mod 2 ^ field_width fld.
Proof.
  destruct template_facts as (_ & Hw32 & _ & _ & Hfix).
  destruct (set_operands_spec vals (seqZ 0 (count fields)) w all_operands Hw32) as (x & Hset & Hx & HK & Hget).
  destruct (Hform x Hx (within_slot x Hx HK) (ex_intro _ K (ex_intro _ _ (conj Hfix HK)))) as (z & Hz & Hzr & Hzf & Hzg).
  destruct (chars_roundtrip z Hzr Hzf) as (bytes & Hto & Hfrom & Hlen). exists bytes, z, x.
  assert (Hbl : Z.of_nat (length bytes) = fmt_length (index (formats (isa st)) fmt)).
  { assert (Hn : format_decode_fn (isa st) [z] <> XTENSA_UNDEFINED) by lia. rewrite (to_chars_spec st) in Hto by done.
    simpl in Hto. injection Hto as Hl Hb. rewrite <- Hb, length_fmap.
    destruct (wf_format [z] Hn) as [_ Hd]. rewrite byte_indices_length; lia. }
  split; [|split; [done|split; [by rewrite Hbl|repeat split; try done; try apply Hx]]].
  - unfold assemble, ibind. rewrite format_encode_run, opcode_encode_run, num_operands. cbn [snd].
    rewrite Hset, set_slot_run. cbn [snd]. rewrite Hz, Hto. done.
  - intros g fld Hg Hgs. rewrite (Hget g fld Hg Hgs), index_all. by rewrite bool_decide_eq_true_2.
Qed.

(** Disassembling what was assembled. *)
Lemma asm_roundtrip vals :
  exists bytes, assemble fmt opc vals st = (bytes, st) /\
    xtensa_isa_length_from_chars bytes st = (Z.of_nat (length bytes), st) /\
    disassemble bytes st = ((fmt, opc, field_result s vals <$> fields), st).
Proof.
  destruct (assembled vals) as (bytes & z & x & Ha & Hfrom & Hlen & _ & Hzf & Hzg & Hx & HK & Hget).
  exists bytes. split; [done|]. split; [done|]. assert (Hu : opc <> XTENSA_UNDEFINED) by lia.
  unfold disassemble, ibind. rewrite Hfrom. unfold xtensa_format_decode, ibind, intisa, done. rewrite Hzf.
  rewrite (proj2 (Z.eqb_neq fmt XTENSA_UNDEFINED)) by lia. cbn [negb]. rewrite get_slot_run. cbn [snd].
  rewrite Hzg, (opcode_decode_run x Hx HK Hu), num_operands, (get_operands_spec vals x);
    [|apply all_operands|done].
  rewrite <- index_all at 2. by rewrite <- list_fmap_compose.
Qed.
End template.
