(* ===== verification/IsaModule.v ===== *)
(** * Complete ISA modules

    What the module of a core must satisfy for the ISA library to disassemble
    whatever it assembles, as a class of checks on its tables, and the round trip
    for any module that passes them. *)

From stdpp Require Import strings.
From S2P Require Import Prelude Isa IsaLookup IsaCodec IsaPattern IsaAsm.

#[local] Open Scope mach_scope.

(** ** Opcode tables *)

(** An entry of [opcodes]: name, class, flags, the name of its table of templates,
    and the number and name of its uses of functional units. *)
Record opcode_entry := mkOpcodeEntry {
  oe_name : string; oe_iclass : Z; oe_flags : Z; oe_encode : string; oe_num_uses : Z; oe_uses : option string
}.

(** The array of the given name. *)
Definition array {A} (t : list (string * list A)) (k : string) : list A :=
  default [] (snd <$> List.find (fun e => String.eqb e.1 k) t).

(** The template words of the entries, by slot. *)
Definition entry_words (encode : list (string * Z)) (encode_fns : list (string * list (option string)))
    (entries : list opcode_entry) : list (list (option Z)) :=
  (fun e => (fun fn => match fn with
                       | Some k => snd <$> List.find (fun e => String.eqb e.1 k) encode
                       | None => None
                       end) <$> array encode_fns (oe_encode e)) <$> entries.

Definition core_opcodes (uses : list (string * list xtensa_funcUnit_use)) (entries : list opcode_entry)
    (words : list (list (option Z))) : list core_opcode :=
  (fun p => mkCoreOpcode (oe_name p.1) (oe_iclass p.1) (oe_flags p.1) p.2
              (match oe_uses p.1 with
               | Some k => take (Z.to_nat (oe_num_uses p.1)) (array uses k)
               | None => []
               end)) <$> zip entries words.

(** ** Slots of 24 and 16 bits

    The modules of the ESP32 and of the ESP32-S3 have the same functions. *)

Definition Slot_x24_Format_inst_0_get (insn slotbuf : insnbuf) : insnbuf :=
  setZ slotbuf 0 (nthZ insn 0 &&& 0xffffff).
Definition Slot_x24_Format_inst_0_set (insn slotbuf : insnbuf) : insnbuf :=
  setZ insn 0 ((nthZ insn 0 &&& not32 0xffffff) ||| (nthZ slotbuf 0 &&& 0xffffff)).
Definition Slot_x16a_Format_inst16a_0_get (insn slotbuf : insnbuf) : insnbuf :=
  setZ slotbuf 0 (nthZ insn 0 &&& 0xffff).
Definition Slot_x16a_Format_inst16a_0_set (insn slotbuf : insnbuf) : insnbuf :=
  setZ insn 0 ((nthZ insn 0 &&& not32 0xffff) ||| (nthZ slotbuf 0 &&& 0xffff)).
Definition Slot_x16b_Format_inst16b_0_get (insn slotbuf : insnbuf) : insnbuf :=
  setZ slotbuf 0 (nthZ insn 0 &&& 0xffff).
Definition Slot_x16b_Format_inst16b_0_set (insn slotbuf : insnbuf) : insnbuf :=
  setZ insn 0 ((nthZ insn 0 &&& not32 0xffff) ||| (nthZ slotbuf 0 &&& 0xffff)).

Lemma within_mask n x : 0 <= n -> in32 x -> x &&& not32 (2 ^ n - 1) = 0 -> x &&& (2 ^ n - 1) = x /\ 0 <= x < 2 ^ n.
Proof.
  intros Hn Hx Hz. assert (E : x &&& (2 ^ n - 1) = x).
  { apply Z.bits_inj'. intros j Hj. apply (f_equal (fun y => Z.testbit y j)) in Hz.
    rewrite Z.land_spec, not32_testbit, Z.testbit_0_l, ones_testbit in * by lia.
    destruct (Z.ltb_spec j n); [by rewrite andb_true_r|]. destruct (Z.ltb_spec j 32); simpl in Hz.
    - by rewrite andb_true_r in Hz; rewrite Hz.
    - by rewrite (in32_testbit x). }
  split; [done|]. rewrite land_ones_mod in E by done. rewrite <- E. apply Z.mod_pos_bound. lia.
Qed.

Lemma short_slot n fmt x (s : core_slot) (encode : insnbuf -> insnbuf) (len : Z) (decoder : insnbuf -> Z) :
  0 <= n -> in32 x -> x &&& not32 (2 ^ n - 1) = 0 -> decoder [x] = fmt -> 8 * len = n ->
  cs_set s (encode [0]) [x] = [x &&& (2 ^ n - 1)] -> (forall y, cs_get s [x] [y] = [x &&& (2 ^ n - 1)]) ->
  exists z, cs_set s (encode [0]) [x] = [z] /\ 0 <= z < 2 ^ (8 * len) /\ decoder [z] = fmt /\
    forall y, cs_get s [z] [y] = [x].
Proof.
  intros Hn Hx Hm Hd Hl Hset Hget. destruct (within_mask n x Hn Hx Hm) as [E Hr]. exists x.
  rewrite Hl, Hset, E. split; [done|]. split; [done|]. split; [done|]. intros y. by rewrite Hget, E.
Qed.

(** ** Modules *)

(** The tables of a module, with the bits of each slot and a test that the known
    bits of an instruction fix its format. *)
Record module_tables := mkTables {
  mt_core : core;
  mt_size : Z;
  mt_formats : list xtensa_format_internal;
  mt_decoder : insnbuf -> Z;
  mt_lengths : list Z;
  mt_mask : Z -> Z;
  mt_fixed : Z -> Z -> Z -> bool
}.

Abbreviation mt_slot k fmt := (c_slots (mt_core k) !!! Z.to_nat fmt) (only parsing).

(** What is checked of the tables. *)
Class ModuleChecks (k : module_tables) : Prop := {
  mc_size : 0 < mt_size k <= 4;
  mc_bytes : forallb (byte_agrees (mt_size k) (mt_formats k) (mt_decoder k) (mt_lengths k)) (seqZ 0 256) = true;
  mc_byte : forall w ws, mt_decoder k (w :: ws) = mt_decoder k [w &&& 0xff];
  mc_nil : mt_decoder k [] = mt_decoder k [1];
  mc_count : length (c_slots (mt_core k)) = length (mt_formats k);
  mc_slot_ids : forallb (fun fmt => bool_decide (fmt_slot_id (index (mt_formats k) fmt) = [fmt]))
    (seqZ 0 (count (mt_formats k))) = true;
  mc_slots : forallb slot_ok (c_slots (mt_core k)) = true;
  mc_opcodes fmt : 0 <= fmt < count (mt_formats k) ->
    opcodes_ok (mt_core k) (Z.to_nat fmt) (mt_mask k fmt) (compile (cs_rules (mt_slot k fmt))) (mt_fixed k fmt) = true;
  mc_form fmt x : 0 <= fmt < count (mt_formats k) -> in32 x -> x &&& not32 (mt_mask k fmt) = 0 ->
    (exists K e, mt_fixed k fmt K e = true /\ x &&& K = e) ->
    exists z, cs_set (mt_slot k fmt) (fmt_encode_fn (index (mt_formats k) fmt) [0]) [x] = [z] /\
      0 <= z < 2 ^ (8 * fmt_length (index (mt_formats k) fmt)) /\
      mt_decoder k [z] = fmt /\ forall y, cs_get (mt_slot k fmt) [z] [y] = [x]
}.

(** An initialised module with these tables. *)
Record module_of (k : module_tables) (i : xtensa_isa_internal) : Prop := {
  mo_decoders : byte_decoders (mt_size k) (mt_formats k) (mt_decoder k) (mt_lengths k) i;
  mo_core : has_core (mt_core k) i
}.

(** What the library accepts is in the tables. *)
Lemma encode_accepts c st fmt opc x : has_core c (isa st) -> (xtensa_opcode_encode fmt 0 x opc st).1.1 = 0 ->
  0 <= fmt < count (formats (isa st)) /\ 0 <= opc < count (c_opcodes c) /\
  exists w, index (co_words (index (c_opcodes c) opc)) (slot_number (isa st) fmt 0) = Some w.
Proof.
  intros Hc. unfold xtensa_opcode_encode, CHECK_FORMAT, CHECK_SLOT, CHECK_OPCODE, CHECK, ibind, intisa, done, fail.
  destruct (out_of_range fmt _) eqn:E1; [done|]. destruct (out_of_range 0 _) eqn:E2; [done|].
  destruct (out_of_range opc _) eqn:E3; [done|]. rewrite (hc_opcodes _ _ Hc) in E3 |- *.
  assert (Ho : 0 <= opc < count (c_opcodes c)) by (unfold out_of_range, count in *; rewrite length_fmap in E3; lia).
  rewrite index_fmap by done. cbn [encode_fns opcode_of]. rewrite index_option_map.
  destruct (index (co_words _) _) as [w|]; [|done]. intros _.
  split; [unfold out_of_range in E1; lia|]. eauto.
Qed.

Section module.
Context (k : module_tables) `{Hk : !ModuleChecks k}.
Context (st : IsaState) (Hm : module_of k (isa st)).
Context (fmt : Z) (Hf : 0 <= fmt < count (mt_formats k)).

Lemma mod_sizes : WfSizes (isa st).
Proof. exact (byte_wf_sizes _ _ _ _ mc_size _ (mo_decoders _ _ Hm)). Qed.
Lemma mod_decoders : WfDecoders (isa st).
Proof. exact (byte_wf_decoders _ _ _ _ mc_size mc_bytes mc_byte mc_nil _ (mo_decoders _ _ Hm)). Qed.
Lemma mod_formats : formats (isa st) = mt_formats k.
Proof. exact (bd_formats _ _ _ _ _ (mo_decoders _ _ Hm)). Qed.
Lemma mod_fmt_range : 0 <= fmt < count (formats (isa st)).
Proof. by rewrite mod_formats. Qed.
Lemma mod_slot_range : (Z.to_nat fmt < length (c_slots (mt_core k)))%nat.
Proof. rewrite mc_count. unfold count in Hf. lia. Qed.

Lemma mod_slot_id : fmt_slot_id (index (formats (isa st)) fmt) = [Z.of_nat (Z.to_nat fmt)].
Proof.
  rewrite mod_formats, Z2Nat.id by lia. pose proof mc_slot_ids as H. rewrite forallb_forall in H.
  eapply bool_decide_eq_true_1, (H fmt), list_elem_of_In, elem_of_seqZ. lia.
Qed.

Lemma mod_slot_ok : slot_ok (mt_slot k fmt) = true.
Proof.
  pose proof mc_slots as H. rewrite forallb_forall in H. apply H, list_elem_of_In, list_elem_of_lookup_total_2.
  apply mod_slot_range.
Qed.

Lemma mod_form x : in32 x -> x &&& not32 (mt_mask k fmt) = 0 ->
  (exists K e, mt_fixed k fmt K e = true /\ x &&& K = e) ->
  exists z, cs_set (mt_slot k fmt) (fmt_encode_fn (index (formats (isa st)) fmt) [0]) [x] = [z] /\
    0 <= z < 2 ^ (8 * fmt_length (index (formats (isa st)) fmt)) /\
    format_decode_fn (isa st) [z] = fmt /\ forall y, cs_get (mt_slot k fmt) [z] [y] = [x].
Proof. rewrite mod_formats, (bd_format_decode _ _ _ _ _ (mo_decoders _ _ Hm)). by apply mc_form. Qed.
End module.

(** The template of what the library accepts. *)
Lemma mod_accepts k `{!ModuleChecks k} st fmt opc :
  module_of k (isa st) -> (xtensa_opcode_encode fmt 0 [0] opc st).1.1 = 0 ->
  let s := mt_slot k fmt in let o := index (c_opcodes (mt_core k)) opc in
  0 <= fmt < count (mt_formats k) /\ 0 <= opc < count (c_opcodes (mt_core k)) /\
  fields_ok s (opcode_fields (mt_core k) o) = true /\
  exists w, co_words o !!! Z.to_nat fmt = Some w /\
    template_ok (mt_core k) s (mt_mask k fmt) (compile (cs_rules s)) (mt_fixed k fmt) opc o w = true.
Proof.
  intros Hm He s o. destruct (encode_accepts _ st fmt opc [0] (mo_core _ _ Hm) He) as (Hf & Hopc & w & Hw).
  rewrite (mod_formats k st Hm) in Hf.
  assert (Hw' : co_words o !!! Z.to_nat fmt = Some w).
  { unfold slot_number in Hw. rewrite (mod_slot_id k st Hm fmt Hf), Z2Nat.id in Hw by lia. exact Hw. }
  pose proof (opcodes_ok_template _ _ _ _ _ opc w (mc_opcodes fmt Hf) Hopc Hw') as Ht.
  split; [done|]. split; [done|]. split; [|by exists w].
  unfold template_ok in Ht. cbv zeta in Ht.
  by apply andb_prop in Ht as [[[[[[_ H]%andb_prop _]%andb_prop _]%andb_prop _]%andb_prop _]%andb_prop _].
Qed.

(** Whatever the module can encode it decodes back. *)
Lemma module_roundtrip k `{!ModuleChecks k} st fmt opc vals :
  module_of k (isa st) -> (xtensa_opcode_encode fmt 0 [0] opc st).1.1 = 0 ->
  exists bytes, assemble fmt opc vals st = (bytes, st) /\
    xtensa_isa_length_from_chars bytes st = (Z.of_nat (length bytes), st) /\
    disassemble bytes st =
      ((fmt, opc, field_result (mt_slot k fmt) vals
                    <$> opcode_fields (mt_core k) (index (c_opcodes (mt_core k)) opc)), st).
Proof.
  intros Hm He. destruct (mod_accepts k st fmt opc Hm He) as (Hf & Hopc & Hfo & w & Hw & Ht).
  exact (asm_roundtrip (mt_core k) st (mo_core _ _ Hm) fmt (Z.to_nat fmt) (mod_fmt_range k st Hm fmt Hf)
    (mod_slot_id k st Hm fmt Hf) (mod_slot_range k fmt Hf) (mod_slot_ok k fmt Hf) opc _ Hopc eq_refl Hfo
    (mt_mask k fmt) (mt_fixed k fmt) w Hw Ht (mod_form k st Hm fmt Hf) (mod_sizes k st Hm) (mod_decoders k st Hm)
    (bd_buf_size _ _ _ _ _ (mo_decoders _ _ Hm)) (bd_endian _ _ _ _ _ (mo_decoders _ _ Hm)) vals).
Qed.
