(* ===== verification/IsaDisas.v ===== *)
(** * Decoding assembled instructions

    The decoder of the translator ([disas_xtensa_insn]) on a checked ISA module:
    the bytes the library assembles for an opcode and values of its operand fields
    decode to the entry of that opcode, with the operands these fields decode to. *)

From S2P Require Import Prelude Cpu TbFlags Control Arith Lanes Tie Isa IsaLookup IsaCodec IsaPattern IsaAsm IsaModule.
From S2P Require Import Slots LoadStore Decode.

#[local] Open Scope mach_scope.
#[local] Open Scope isa_scope.

(** ** Stability of the queries of the decoder *)

Lemma stable_is_PCrelative opc opnd : stable (xtensa_operand_is_PCrelative opc opnd).
Proof. apply stable_with_operand. auto with stable. Qed.
Lemma stable_undo_reloc opc opnd v pc : stable (xtensa_operand_undo_reloc opc opnd v pc).
Proof. apply stable_with_operand. intros o. stable_tac. Qed.
Lemma stable_num_bits rf : stable (xtensa_regfile_num_bits rf).
Proof. unfold xtensa_regfile_num_bits, CHECK_REGFILE, CHECK, with_isa. stable_tac. Qed.
#[local] Hint Resolve stable_is_register stable_regfile stable_is_visible stable_operand_value
  stable_is_PCrelative stable_undo_reloc stable_num_bits : stable.

Lemma stable_operand_regfile opc opnd r : stable (operand_regfile opc opnd r).
Proof. unfold operand_regfile. stable_tac. Qed.
Lemma stable_windowed_bit opc opnd fmt slot sb b w : stable (windowed_bit opc opnd fmt slot sb b w).
Proof. unfold windowed_bit. stable_tac. Qed.
Lemma stable_operand_imm dc opc opnd v : stable (operand_imm dc opc opnd v).
Proof. unfold operand_imm. stable_tac. Qed.
Lemma stable_operand_bits b rf : stable (operand_bits b rf).
Proof. unfold operand_bits. stable_tac. Qed.

(** ** Values of operands *)

(** The value of operand [k] of an opcode of a core whose field holds [v]. *)
Definition operand_of (c : core) (o : core_opcode) (k : Z) : xtensa_operand_internal :=
  index (c_operands c) (arg_u (index (icl_operands (index (c_iclasses c) (co_iclass o))) k)).
Definition decoded_value (c : core) (o : core_opcode) (k v : Z) : Z :=
  match opnd_decode (operand_of c o k) with None => v | Some decode => (decode v).2 end.

(** The values of the operands that appear in the assembly syntax. *)
Definition visible_values (c : core) (s : core_slot) (o : core_opcode) (vals : Z -> Z) (visible : Z -> bool) : list Z :=
  (fun k => decoded_value c o k (default 0 (field_result s vals (index (opcode_fields c o) k))))
  <$> filter visible (seqZ 0 (count (opcode_fields c o))).

(** The operand the decoder makes of value [v] of operand [k], and what it adds to
    the windowed registers and the operands. *)
Definition operand_arg (regfile : Z -> bool) (dc : DisasContext) (opc : Z) (st : IsaState) (k v : Z) : OpcodeArg :=
  let is_reg := (xtensa_operand_is_register opc k st).1 in
  let rf := (operand_regfile opc k is_reg st).1 in
  let file := truthy is_reg && regfile rf in
  let imm := (operand_imm dc opc k v st).1 in
  mkOpcodeArg imm v (if file then Some (rf, imm) else None) None (operand_bits file rf st).1.

Definition add_operand (a_regfile : Z) (regfile : Z -> bool) (dc : DisasContext) (opc : Z) (st : IsaState)
    (acc : Z * list OpcodeArg) (k v : Z) : Z * list OpcodeArg :=
  let is_reg := (xtensa_operand_is_register opc k st).1 in
  let rf := (operand_regfile opc k is_reg st).1 in
  (if truthy is_reg && (rf =? a_regfile) then acc.1 ||| lsl32 1 v else acc.1,
   if truthy (xtensa_operand_is_visible opc k st).1 then acc.2 ++ [operand_arg regfile dc opc st k v] else acc.2).

(** The windowed registers and operands of an opcode with the operand fields [vals]. *)
Definition operands_of (c : core) (s : core_slot) (o : core_opcode) (vals : Z -> Z)
    (a_regfile : Z) (regfile : Z -> bool) (dc : DisasContext) (opc : Z) (st : IsaState) : Z * list OpcodeArg :=
  let fields := opcode_fields c o in
  foldl (fun acc k => add_operand a_regfile regfile dc opc st acc k
                        (decoded_value c o k (default 0 (field_result s vals (index fields k)))))
    (0, []) (seqZ 0 (count fields)).

Lemma raw_operands c s o vals a_regfile regfile dc opc st :
  a_raw_imm <$> (operands_of c s o vals a_regfile regfile dc opc st).2 =
    visible_values c s o vals (fun k => truthy (xtensa_operand_is_visible opc k st).1).
Proof.
  unfold operands_of, visible_values. generalize (seqZ 0 (count (opcode_fields c o))). intros ks.
  change (filter _ ks) with ([] ++ filter (fun k => truthy (xtensa_operand_is_visible opc k st).1) ks).
  assert (H : forall acc, a_raw_imm <$> (foldl (fun acc k => add_operand a_regfile regfile dc opc st acc k
      (decoded_value c o k (default 0 (field_result s vals (index (opcode_fields c o) k))))) acc ks).2 =
    (a_raw_imm <$> acc.2) ++ ((fun k => decoded_value c o k (default 0 (field_result s vals (index (opcode_fields c o) k))))
      <$> filter (fun k => truthy (xtensa_operand_is_visible opc k st).1) ks)).
  { induction ks as [|k ks IH]; intros acc; cbn [foldl]; [by rewrite app_nil_r|].
    rewrite IH, filter_cons. unfold add_operand; cbn [fst snd].
    destruct (truthy (xtensa_operand_is_visible opc k st).1); [|done]. rewrite fmap_app, <- app_assoc. done. }
  by rewrite H.
Qed.

(** The result of the only slot of an instruction. *)
Definition one_slot (ops : XtensaOps) (dc : DisasContext) (wa : Z * list OpcodeArg) : slot_result :=
  let t := match ops_test_exceptions ops with Some t => t dc wa.2 (ops_par ops) | None => (0, ret tt) end in
  let flags := ops_flags ops ||| t.1 in
  let tests := ret tt ;; t.2 in
  if truthy (flags &&& XTENSA_OP_ILL) then SlotIllegal tests
  else SlotDone (mkDecoded flags (if truthy (flags &&& XTENSA_OP_DEBUG_BREAK) then 0 ||| nthZ (ops_par ops) 0 else 0)
    (match ops_test_overflow ops with Some t => wa.1 ||| u32 (t dc wa.2 (ops_par ops)) | None => wa.1 end)
    (0 ||| ops_coprocessor ops) [mkSlotCode ops wa.2 (mkSlotProp [] [] 0)] tests).

Section operands.
Context (c : core) (st : IsaState) (Hc : has_core c (isa st)).
Context (fmt : Z) (sid : nat).
Hypothesis Hfmt : 0 <= fmt < count (formats (isa st)).
Hypothesis Hsid : fmt_slot_id (index (formats (isa st)) fmt) = [Z.of_nat sid].
Hypothesis Hslot : (sid < length (c_slots c))%nat.
Abbreviation s := (c_slots c !!! sid).
Hypothesis Hs : slot_ok s = true.
Context (opc : Z) (o : core_opcode).
Hypothesis Hopc : 0 <= opc < count (c_opcodes c).
Hypothesis Ho : index (c_opcodes c) opc = o.
Abbreviation fields := (opcode_fields c o).
Hypothesis Hfields : fields_ok s fields = true.
Context (vals : Z -> Z) (x : Z).
Hypothesis Hx : forall g fld, g ∈ fields -> setter_at s g = Some (Set_ fld) ->
  get_word fld x = vals g mod 2 ^ field_width fld.

Lemma operand_value_run k s' : isa s' = isa st -> 0 <= k < count fields ->
  (operand_value opc k fmt 0 [x] s').1 = decoded_value c o k (default 0 (field_result s vals (index fields k))).
Proof.
  intros Hi Hk. destruct (stable_operand_value opc k fmt 0 [x] st s' Hi) as [-> _].
  assert (Hres : (xtensa_operand_get_field opc k fmt 0 [x] st).1.2 = field_result s vals (index fields k)
                 /\ (xtensa_operand_get_field opc k fmt 0 [x] st).2 = st).
  { pose proof (get_operands_spec c st Hc fmt sid Hfmt Hsid Hslot Hs opc o Hopc Ho Hfields vals x [k]) as H.
    cbn [get_operands] in H. unfold ibind in H.
    destruct (xtensa_operand_get_field opc k fmt 0 [x] st) as [r s1]. unfold done in H.
    specialize (H (proj2 (Forall_singleton _ _) Hk) Hx). cbn in H.
    injection H as E1 E2. by split. }
  unfold operand_value, ibind. destruct (xtensa_operand_get_field opc k fmt 0 [x] st) as [r s1].
  cbn [fst snd] in Hres. destruct Hres as [-> ->].
  pose proof (get_operand_run c st Hc sid Hslot opc o Hopc Ho k Hk) as Hg.
  unfold xtensa_operand_decode, with_operand, ibind. rewrite Hg. unfold decoded_value, operand_of.
  destruct (opnd_decode _) as [d|]; [|done]. destruct (d _) as [r' v]. by destruct (truthy r').
Qed.

Context (a_regfile : Z) (regfile : Z -> bool) (dc : DisasContext).
Abbreviation value k := (decoded_value c o k (default 0 (field_result s vals (index fields k)))) (only parsing).

Lemma decode_operand_run k acc s' : isa s' = isa st -> 0 <= k < count fields ->
  let r := decode_operand a_regfile regfile dc opc fmt 0 [x] k acc s' in
  r.1 = add_operand a_regfile regfile dc opc st acc k (value k) /\ isa r.2 = isa st.
Proof.
  intros Hi Hk r. unfold r, decode_operand, ibind, add_operand, operand_arg. clear r.
  destruct (stable_is_register opc k st s' Hi) as [E1 I1].
  destruct (xtensa_operand_is_register opc k s') as [is_reg s1]. cbn [fst snd] in E1, I1. rewrite <- E1.
  destruct (stable_operand_regfile opc k is_reg st s1 I1) as [E2 I2].
  destruct (operand_regfile opc k is_reg s1) as [rf s2]. cbn [fst snd] in E2, I2. rewrite <- E2.
  pose proof (operand_value_run k s2 I2 Hk) as E3.
  destruct (stable_windowed_bit opc k fmt 0 [x] (truthy is_reg && (rf =? a_regfile)) acc.1 st s2 I2) as [_ I3].
  assert (E3' : (windowed_bit opc k fmt 0 [x] (truthy is_reg && (rf =? a_regfile)) acc.1 s2).1 =
    if truthy is_reg && (rf =? a_regfile) then acc.1 ||| lsl32 1 (value k) else acc.1).
  { unfold windowed_bit, ibind, done. destruct (truthy is_reg && _); [|done].
    destruct (operand_value opc k fmt 0 [x] s2) as [v2 s2']. by rewrite <- E3. }
  destruct (windowed_bit opc k fmt 0 [x] _ acc.1 s2) as [w' s3]. cbn [fst snd] in E3', I3. subst w'.
  destruct (stable_is_visible opc k st s3 I3) as [E4 I4].
  destruct (xtensa_operand_is_visible opc k s3) as [visible s4]. cbn [fst snd] in E4, I4. rewrite <- E4.
  destruct (truthy visible); [|done].
  pose proof (operand_value_run k s4 I4 Hk) as E5. destruct (stable_operand_value opc k fmt 0 [x] st s4 I4) as [_ I5].
  destruct (operand_value opc k fmt 0 [x] s4) as [v s5]. cbn [fst snd] in E5, I5. subst v.
  destruct (stable_operand_imm dc opc k (value k) st s5 I5) as [E6 I6].
  destruct (operand_imm dc opc k (value k) s5) as [imm s6]. cbn [fst snd] in E6, I6. rewrite <- E6.
  destruct (stable_operand_bits (truthy is_reg && regfile rf) rf st s6 I6) as [E7 I7].
  destruct (operand_bits _ rf s6) as [bits s7]. cbn [fst snd] in E7, I7. rewrite <- E7. done.
Qed.

Lemma decode_operands_run ks acc s' : isa s' = isa st -> Forall (fun k => 0 <= k < count fields) ks ->
  let r := fold_isa (decode_operand a_regfile regfile dc opc fmt 0 [x]) ks acc s' in
  r.1 = foldl (fun acc k => add_operand a_regfile regfile dc opc st acc k (value k)) acc ks /\ isa r.2 = isa st.
Proof.
  intros Hi Hks. revert acc s' Hi. induction Hks as [|k ks Hk Hks IH]; intros acc s' Hi; [done|].
  destruct (decode_operand_run k acc s' Hi Hk) as [E1 I1]. cbn [fold_isa foldl]. unfold ibind.
  destruct (decode_operand a_regfile regfile dc opc fmt 0 [x] k acc s') as [acc1 s1]. cbn [fst snd] in E1, I1.
  subst acc1. by apply IH.
Qed.
End operands.

(** ** The instruction in memory *)

Lemma from_chars_exact (st : IsaState) cp n :
  length_decode_fn (isa st) cp = n -> 0 < n -> xtensa_insnbuf_from_chars cp n st = xtensa_insnbuf_from_chars cp 0 st.
Proof.
  intros Hl Hn. unfold xtensa_insnbuf_from_chars, ibind, intisa, done. rewrite Hl.
  rewrite (proj2 (Z.eqb_neq n XTENSA_UNDEFINED)), (proj2 (Z.eqb_neq n 0)), Z.ltb_irrefl by lia. done.
Qed.

Lemma nthZ_all (l : list Z) : nthZ l <$> seqZ 0 (Z.of_nat (length l)) = l.
Proof.
  apply list_eq. intros k. rewrite list_lookup_fmap. destruct (decide (k < length l)%nat) as [Hk|Hk].
  - rewrite lookup_seqZ_lt with (n := Z.of_nat (length l)) by lia. cbn. unfold nthZ.
    rewrite Z.add_0_l, Nat2Z.id. by rewrite list_lookup_lookup_total_lt.
  - rewrite !lookup_ge_None_2; [done|lia|rewrite length_seqZ; lia].
Qed.

(** The bytes at an address. *)
Definition holds_bytes (ldub : Z -> Z) (pc : Z) (bytes : list Z) : Prop :=
  forall i, 0 <= i < Z.of_nat (length bytes) -> ldub (u32 (pc + i)) = nthZ bytes i.

Lemma holds_bytes_read ldub pc bytes :
  holds_bytes ldub pc bytes -> (fun i => ldub (u32 (pc + i))) <$> seqZ 0 (Z.of_nat (length bytes)) = bytes.
Proof.
  intros H. rewrite <- (nthZ_all bytes) at 2. apply list_fmap_ext. intros k i Hk.
  apply H. apply list_elem_of_lookup_2, elem_of_seqZ in Hk. lia.
Qed.

(** Decoding bytes that load as the one-slot instruction [insn] of format [fmt]. *)
Lemma disas_one_slot config opcode_ops a_regfile regfile read_reg ldub slotbuf0 dc (st : IsaState) bytes insn fmt :
  in32 (dc_pc dc) -> holds_bytes ldub (dc_pc dc) bytes -> 0 < Z.of_nat (length bytes) ->
  length_decode_fn (isa st) bytes = Z.of_nat (length bytes) ->
  length_decode_fn (isa st) [nthZ bytes 0] = Z.of_nat (length bytes) ->
  xtensa_insnbuf_from_chars bytes 0 st = (insn, st) ->
  format_decode_fn (isa st) insn = fmt -> 0 <= fmt -> xtensa_format_num_slots fmt st = (1, st) ->
  let next := u32 (dc_pc dc + Z.of_nat (length bytes)) in
  let '(r, s') := decode_slot opcode_ops a_regfile regfile slotbuf0 dc fmt 1 insn 0 (SlotDone no_slots) st in
  disas_xtensa_insn config opcode_ops a_regfile regfile read_reg ldub slotbuf0 dc st =
    ((next, r, emit_insn config read_reg dc next r), s').
Proof.
  intros Hpc Hmem Hpos Hldec Hb0 Hfrom Hzf Hfmt Hns. destruct (decode_slot _ _ _ _ _ _ _ _ _ _ st) as [R s'] eqn:ER.
  assert (Hfirst : nthZ bytes 0 = ldub (dc_pc dc)).
  { rewrite <- (Hmem 0) by lia. by rewrite Z.add_0_r, u32_small. }
  rewrite Hfirst in Hb0.
  unfold disas_xtensa_insn, ibind. unfold xtensa_isa_length_from_chars, ibind, intisa, done at 1.
  rewrite Hb0, (proj2 (Z.eqb_neq (Z.of_nat (length bytes)) XTENSA_UNDEFINED)) by lia.
  rewrite (holds_bytes_read _ _ _ Hmem), (from_chars_exact st bytes _ Hldec Hpos), Hfrom.
  unfold xtensa_format_decode, ibind, intisa. rewrite Hzf, (proj2 (Z.eqb_neq fmt XTENSA_UNDEFINED)) by lia.
  cbn [negb]. unfold done at 1. rewrite (proj2 (Z.eqb_neq fmt XTENSA_UNDEFINED)) by lia.
  rewrite Hns. change (seqZ 0 1) with [0]. cbn [fold_isa]. unfold ibind at 1. by rewrite ER.
Qed.

(** The decoder on assembled bytes, completely. *)
Lemma module_disas (k : module_tables) `{!ModuleChecks k} config opcode_ops a_regfile regfile read_reg ldub
    (st : IsaState) (fmt opc : Z) (vals : Z -> Z) (dc : DisasContext) (y : Z) :
  module_of k (isa st) ->
  (xtensa_opcode_encode fmt 0 [0] opc st).1.1 = 0 ->
  in32 (dc_pc dc) -> holds_bytes ldub (dc_pc dc) (assemble fmt opc vals st).1 ->
  let next := u32 (dc_pc dc + Z.of_nat (length (assemble fmt opc vals st).1)) in
  let wa := operands_of (mt_core k) (mt_slot k fmt) (index (c_opcodes (mt_core k)) opc) vals
              a_regfile regfile dc opc st in
  let r := match opcode_ops opc with None => SlotIllegal (ret tt) | Some ops => one_slot ops dc wa end in
  (disas_xtensa_insn config opcode_ops a_regfile regfile read_reg ldub [y] dc st).1 =
    (next, r, emit_insn config read_reg dc next r).
Proof.
  intros Hm He Hpc. destruct (mod_accepts k st fmt opc Hm He) as (Hf & Hopc & Hfo & w & Hw & Ht).
  pose proof (mo_decoders _ _ Hm) as Hd. pose proof (mo_core _ _ Hm) as Hcore.
  pose proof (mod_fmt_range k st Hm fmt Hf) as Hfr. pose proof (mod_slot_id k st Hm fmt Hf) as Hsid.
  pose proof (mod_slot_range k fmt Hf) as Hsr. pose proof (mod_slot_ok k fmt Hf) as Hso.
  destruct (assembled (mt_core k) st Hcore fmt (Z.to_nat fmt) Hfr Hsid Hsr Hso opc _ Hopc eq_refl Hfo
    (mt_mask k fmt) (mt_fixed k fmt) w Hw Ht (mod_form k st Hm fmt Hf) (mod_sizes k st Hm) (mod_decoders k st Hm)
    (bd_buf_size _ _ _ _ _ Hd) (bd_endian _ _ _ _ _ Hd) vals)
    as (bytes & z & x & Ha & Hfrom & Hlen & Hbl & Hzf & Hzg & Hx & HK & Hget).
  rewrite Ha. cbn [fst]. intros Hmem.
  assert (Hpos : 2 <= Z.of_nat (length bytes)).
  { rewrite Hbl, <- Hzf. apply (byte_wf_format _ _ _ _ mc_size mc_bytes mc_byte mc_nil _ Hd). rewrite Hzf. lia. }
  assert (Hldec : length_decode_fn (isa st) bytes = Z.of_nat (length bytes)) by (by injection Hlen).
  assert (Hns : xtensa_format_num_slots fmt st = (1, st)).
  { unfold xtensa_format_num_slots, CHECK_FORMAT, CHECK, with_isa, ibind, intisa, done.
    by rewrite (format_in_range st fmt Hfr), Hsid. }
  pose proof (disas_one_slot config opcode_ops a_regfile regfile read_reg ldub [y] dc st bytes [z] fmt Hpc Hmem
    ltac:(lia) Hldec ltac:(rewrite <- Hldec, (bd_length_decode _ _ _ _ _ Hd); done) Hfrom Hzf (proj1 Hf) Hns) as Hdis.
  destruct (decode_slot opcode_ops a_regfile regfile [y] dc fmt 1 [z] 0 (SlotDone no_slots) st) as [R s'] eqn:ER.
  rewrite Hdis. cbn [fst snd]. set (wa := operands_of _ _ _ _ _ _ _ _ _). assert (Hr : R = match opcode_ops opc with None => SlotIllegal (ret tt) | Some ops => one_slot ops dc wa end);
    [|by rewrite Hr]. clear Hdis. unfold decode_slot, ibind in ER.
  rewrite (get_slot_run _ _ Hcore _ _ Hfr Hsid Hsr) in ER. cbn [snd] in ER. rewrite Hzg in ER.
  rewrite (opcode_decode_run _ _ Hcore _ _ Hfr Hsid Hsr Hso _ _ _ _ _ Ht x Hx HK) in ER by lia.
  rewrite (proj2 (Z.eqb_neq opc XTENSA_UNDEFINED)) in ER by lia.
  rewrite (num_operands _ _ Hcore opc _ Hopc eq_refl) in ER.
  destruct (decode_operands_run (mt_core k) st Hcore fmt (Z.to_nat fmt) Hfr Hsid Hsr Hso opc _ Hopc eq_refl Hfo
    vals x Hget a_regfile regfile dc (seqZ 0 (count (opcode_fields (mt_core k) (index (c_opcodes (mt_core k)) opc))))
    (d_windowed no_slots, []) st eq_refl) as [Eargs _]; [apply Forall_forall; intros j Hj%elem_of_seqZ; lia|].
  destruct (fold_isa (decode_operand a_regfile regfile dc opc fmt 0 [x]) _ _ st) as [wa' s4].
  cbn [fst] in Eargs. change wa' with (fst (wa', s4)) in Eargs. assert (Hwa : wa' = wa) by exact Eargs. clear Eargs.
  subst wa'. destruct wa as [windowed args]. destruct (opcode_ops opc) as [ops|]; [|by injection ER as <- _].
  unfold one_slot. cbn [fst snd d_flags no_slots] in ER |- *.
  destruct (match ops_test_exceptions ops with Some t => _ | None => _ end) as [tflags tcode].
  cbn [fst snd]. rewrite Z.lor_0_l in ER.
  destruct (truthy _); [by injection ER as <- _|]. by injection ER as <- _.
Qed.

(** What the tests of an opcode add to its flags. *)
Definition tested_flags (ops : XtensaOps) (dc : DisasContext) (args : list OpcodeArg) : Z :=
  ops_flags ops ||| match ops_test_exceptions ops with Some t => (t dc args (ops_par ops)).1 | None => 0 end.
