(* ===== verification/S3Fields.v ===== *)
(** * ESP32-S3 ISA module: fields ([target/xtensa/core-esp32s3/xtensa-modules.inc.c])

    The accessors of the fields of each slot, statement by statement, and the
    tables by field number. *)

From S2P Require Import Prelude Isa IsaPattern.

(** ** [xtensa_field_id] *)

Abbreviation FIELD_t := 0 (only parsing).
Abbreviation FIELD_bbi4 := 1 (only parsing).
Abbreviation FIELD_bbi := 2 (only parsing).
Abbreviation FIELD_imm12 := 3 (only parsing).
Abbreviation FIELD_imm8 := 4 (only parsing).
Abbreviation FIELD_s := 5 (only parsing).
Abbreviation FIELD_imm12b := 6 (only parsing).
Abbreviation FIELD_imm16 := 7 (only parsing).
Abbreviation FIELD_m := 8 (only parsing).
Abbreviation FIELD_n := 9 (only parsing).
Abbreviation FIELD_offset := 10 (only parsing).
Abbreviation FIELD_op0 := 11 (only parsing).
Abbreviation FIELD_op1 := 12 (only parsing).
Abbreviation FIELD_op2 := 13 (only parsing).
Abbreviation FIELD_r := 14 (only parsing).
Abbreviation FIELD_sa4 := 15 (only parsing).
Abbreviation FIELD_sae4 := 16 (only parsing).
Abbreviation FIELD_sae := 17 (only parsing).
Abbreviation FIELD_sal := 18 (only parsing).
Abbreviation FIELD_sargt := 19 (only parsing).
Abbreviation FIELD_sas4 := 20 (only parsing).
Abbreviation FIELD_sas := 21 (only parsing).
Abbreviation FIELD_sr := 22 (only parsing).
Abbreviation FIELD_st := 23 (only parsing).
Abbreviation FIELD_thi3 := 24 (only parsing).
Abbreviation FIELD_imm4 := 25 (only parsing).
Abbreviation FIELD_mn := 26 (only parsing).
Abbreviation FIELD_i := 27 (only parsing).
Abbreviation FIELD_imm6lo := 28 (only parsing).
Abbreviation FIELD_imm6hi := 29 (only parsing).
Abbreviation FIELD_imm7lo := 30 (only parsing).
Abbreviation FIELD_imm7hi := 31 (only parsing).
Abbreviation FIELD_z := 32 (only parsing).
Abbreviation FIELD_imm6 := 33 (only parsing).
Abbreviation FIELD_imm7 := 34 (only parsing).
Abbreviation FIELD_r3 := 35 (only parsing).
Abbreviation FIELD_rbit2 := 36 (only parsing).
Abbreviation FIELD_rhi := 37 (only parsing).
Abbreviation FIELD_t3 := 38 (only parsing).
Abbreviation FIELD_tbit2 := 39 (only parsing).
Abbreviation FIELD_tlo := 40 (only parsing).
Abbreviation FIELD_w := 41 (only parsing).
Abbreviation FIELD_y := 42 (only parsing).
Abbreviation FIELD_x := 43 (only parsing).
Abbreviation FIELD_t2 := 44 (only parsing).
Abbreviation FIELD_s2 := 45 (only parsing).
Abbreviation FIELD_r2 := 46 (only parsing).
Abbreviation FIELD_t4 := 47 (only parsing).
Abbreviation FIELD_s4 := 48 (only parsing).
Abbreviation FIELD_r4 := 49 (only parsing).
Abbreviation FIELD_t8 := 50 (only parsing).
Abbreviation FIELD_s8 := 51 (only parsing).
Abbreviation FIELD_r8 := 52 (only parsing).
Abbreviation FIELD_xt_wbr15_imm := 53 (only parsing).
Abbreviation FIELD_xt_wbr18_imm := 54 (only parsing).
Abbreviation FIELD_fld_slot_format_32_0_3_0 := 55 (only parsing).
Abbreviation FIELD_fld_slot_format_32_0_28_4 := 56 (only parsing).
Abbreviation FIELD_fld_st_QR_b := 57 (only parsing).
Abbreviation FIELD_fld_st_QR_a := 58 (only parsing).
Abbreviation FIELD_fld_ld_QR_b := 59 (only parsing).
Abbreviation FIELD_fld_ld_QR_a := 60 (only parsing).
Abbreviation FIELD_fld_QR := 61 (only parsing).
Abbreviation FIELD_fld_Inst_4_0 := 62 (only parsing).
Abbreviation FIELD_fld_Inst_9_6 := 63 (only parsing).
Abbreviation FIELD_fld_mv_QR_b := 64 (only parsing).
Abbreviation FIELD_fld_mv_QR_a := 65 (only parsing).
Abbreviation FIELD_fld_EE_WR_MASK_GPIO_OUT_mask := 66 (only parsing).
Abbreviation FIELD_fld_EE_WR_MASK_GPIO_OUT_value := 67 (only parsing).
Abbreviation FIELD_fld_EE_SET_BIT_GPIO_OUT_mask := 68 (only parsing).
Abbreviation FIELD_fld_EE_CLR_BIT_GPIO_OUT_clear := 69 (only parsing).
Abbreviation FIELD_fld_Inst_23_8 := 70 (only parsing).
Abbreviation FIELD_fld_EE_GET_GPIO_IN_au := 71 (only parsing).
Abbreviation FIELD_fld_Inst_23_22 := 72 (only parsing).
Abbreviation FIELD_fld_semantic_LD_ST_imm2 := 73 (only parsing).
Abbreviation FIELD_fld_Inst_14_8 := 74 (only parsing).
Abbreviation FIELD_fld_semantic_LD_ST_imm1 := 75 (only parsing).
Abbreviation FIELD_fld_Inst_11_8 := 76 (only parsing).
Abbreviation FIELD_fld_semantic_LD_ST_qu1 := 77 (only parsing).
Abbreviation FIELD_fld_semantic_LD_ST_imm16f := 78 (only parsing).
Abbreviation FIELD_fld_semantic_LD_ST_as := 79 (only parsing).
Abbreviation FIELD_fld_semantic_LD_ST_fu0 := 80 (only parsing).
Abbreviation FIELD_fld_semantic_LD_ST_fu1 := 81 (only parsing).
Abbreviation FIELD_fld_semantic_LD_ST_fu2 := 82 (only parsing).
Abbreviation FIELD_fld_semantic_LD_ST_fu3 := 83 (only parsing).
Abbreviation FIELD_fld_slot_format_32_0_28_24 := 84 (only parsing).
Abbreviation FIELD_fld_semantic_LD_ST_ad := 85 (only parsing).
Abbreviation FIELD_fld_semantic_LD_ST_imm8 := 86 (only parsing).
Abbreviation FIELD_fld_slot_format_32_0_7_5 := 87 (only parsing).
Abbreviation FIELD_fld_Inst_3_0 := 88 (only parsing).
Abbreviation FIELD_fld_Inst_19_16 := 89 (only parsing).
Abbreviation FIELD_fld_Inst_23_23 := 90 (only parsing).
Abbreviation FIELD_fld_Inst_14_12 := 91 (only parsing).
Abbreviation FIELD_fld_Inst_21_15 := 92 (only parsing).
Abbreviation FIELD_fld_semantic_LD_ST_imm16 := 93 (only parsing).
Abbreviation FIELD_fld_Inst_23_12 := 94 (only parsing).
Abbreviation FIELD_fld_semantic_LD_ST_imm4 := 95 (only parsing).
Abbreviation FIELD_fld_semantic_LD_ST_sel8 := 96 (only parsing).
Abbreviation FIELD_fld_semantic_LD_ST_sel4 := 97 (only parsing).
Abbreviation FIELD_fld_semantic_LD_ST_qs := 98 (only parsing).
Abbreviation FIELD_fld_semantic_LD_ST_qu := 99 (only parsing).
Abbreviation FIELD_fld_slot_format_32_0_28_22 := 100 (only parsing).
Abbreviation FIELD_fld_semantic_LD_ST_fv0 := 101 (only parsing).
Abbreviation FIELD_fld_semantic_LD_ST_fv1 := 102 (only parsing).
Abbreviation FIELD_fld_semantic_LD_ST_fv2 := 103 (only parsing).
Abbreviation FIELD_fld_semantic_LD_ST_fv3 := 104 (only parsing).
Abbreviation FIELD_fld_semantic_LD_ST_qv := 105 (only parsing).
Abbreviation FIELD_fld_EE_MOVI_32_A_sel4 := 106 (only parsing).
Abbreviation FIELD_fld_EE_MOVI_32_A_au := 107 (only parsing).
Abbreviation FIELD_fld_EE_MOVI_32_A_qs := 108 (only parsing).
Abbreviation FIELD_fld_EE_MOVI_32_Q_sel4 := 109 (only parsing).
Abbreviation FIELD_fld_EE_MOVI_32_Q_as := 110 (only parsing).
Abbreviation FIELD_fld_EE_MOVI_32_Q_qu := 111 (only parsing).
Abbreviation FIELD_fld_EE_VZIP_16_qs1 := 112 (only parsing).
Abbreviation FIELD_fld_EE_VZIP_16_qs0 := 113 (only parsing).
Abbreviation FIELD_fld_EE_VZIP_32_qs1 := 114 (only parsing).
Abbreviation FIELD_fld_EE_VZIP_32_qs0 := 115 (only parsing).
Abbreviation FIELD_fld_EE_VZIP_8_qs1 := 116 (only parsing).
Abbreviation FIELD_fld_EE_VZIP_8_qs0 := 117 (only parsing).
Abbreviation FIELD_fld_Inst_11_0 := 118 (only parsing).
Abbreviation FIELD_fld_EE_VUNZIP_16_qs1 := 119 (only parsing).
Abbreviation FIELD_fld_EE_VUNZIP_16_qs0 := 120 (only parsing).
Abbreviation FIELD_fld_EE_VUNZIP_32_qs1 := 121 (only parsing).
Abbreviation FIELD_fld_EE_VUNZIP_32_qs0 := 122 (only parsing).
Abbreviation FIELD_fld_EE_VUNZIP_8_qs1 := 123 (only parsing).
Abbreviation FIELD_fld_EE_VUNZIP_8_qs0 := 124 (only parsing).
Abbreviation FIELD_fld_Inst_23_0 := 125 (only parsing).
Abbreviation FIELD_fld_EE_ZERO_Q_qa := 126 (only parsing).
Abbreviation FIELD_fld_Inst_14_0 := 127 (only parsing).
Abbreviation FIELD_fld_EE_MOV_S16_QACC_qs := 128 (only parsing).
Abbreviation FIELD_fld_EE_MOV_S8_QACC_qs := 129 (only parsing).
Abbreviation FIELD_fld_EE_MOV_U16_QACC_qs := 130 (only parsing).
Abbreviation FIELD_fld_EE_MOV_U8_QACC_qs := 131 (only parsing).
Abbreviation FIELD_fld_slot_format_32_0_10_4 := 132 (only parsing).
Abbreviation FIELD_fld_Inst_7_0 := 133 (only parsing).
Abbreviation FIELD_fld_semantic_CAL_DOUBLE_Q_qa := 134 (only parsing).
Abbreviation FIELD_fld_semantic_CAL_DOUBLE_Q_as := 135 (only parsing).
Abbreviation FIELD_fld_semantic_CAL_DOUBLE_Q_qu := 136 (only parsing).
Abbreviation FIELD_fld_slot_format_32_0_10_6 := 137 (only parsing).
Abbreviation FIELD_fld_semantic_CAL_DOUBLE_Q_qv := 138 (only parsing).
Abbreviation FIELD_fld_slot_format_32_0_28_20 := 139 (only parsing).
Abbreviation FIELD_fld_Inst_7_6 := 140 (only parsing).
Abbreviation FIELD_fld_semantic_CAL_DOUBLE_Q_sel4 := 141 (only parsing).
Abbreviation FIELD_fld_semantic_CAL_DOUBLE_Q_qy := 142 (only parsing).
Abbreviation FIELD_fld_semantic_CAL_DOUBLE_Q_qx := 143 (only parsing).
Abbreviation FIELD_fld_semantic_CAL_DOUBLE_Q_qz := 144 (only parsing).
Abbreviation FIELD_fld_semantic_CAL_DOUBLE_Q_qs1 := 145 (only parsing).
Abbreviation FIELD_fld_semantic_CAL_DOUBLE_Q_qs0 := 146 (only parsing).
Abbreviation FIELD_fld_slot_format_32_0_28_25 := 147 (only parsing).
Abbreviation FIELD_fld_semantic_CAL_DOUBLE_Q_imm16 := 148 (only parsing).
Abbreviation FIELD_fld_slot_format_32_0_10_8 := 149 (only parsing).
Abbreviation FIELD_fld_slot_format_32_0_19_17 := 150 (only parsing).
Abbreviation FIELD_fld_slot_format_32_0_28_23 := 151 (only parsing).
Abbreviation FIELD_fld_semantic_CAL_DOUBLE_Q_ad := 152 (only parsing).
Abbreviation FIELD_fld_slot_format_32_0_7_4 := 153 (only parsing).
Abbreviation FIELD_fld_Inst_23_21 := 154 (only parsing).
Abbreviation FIELD_fld_semantic_CAL_DOUBLE_Q_sel8 := 155 (only parsing).
Abbreviation FIELD_fld_slot_format_32_0_10_9 := 156 (only parsing).
Abbreviation FIELD_fld_Inst_7_5 := 157 (only parsing).
Abbreviation FIELD_fld_semantic_CAL_DOUBLE_Q_sel16 := 158 (only parsing).
Abbreviation FIELD_fld_Inst_14_11 := 159 (only parsing).
Abbreviation FIELD_fld_semantic_SRCMB_QACC_sel2 := 160 (only parsing).
Abbreviation FIELD_fld_semantic_SRCMB_QACC_as := 161 (only parsing).
Abbreviation FIELD_fld_semantic_SRCMB_QACC_qu := 162 (only parsing).
Abbreviation FIELD_fld_Inst_13_12 := 163 (only parsing).
Abbreviation FIELD_fld_Inst_23_15 := 164 (only parsing).
Abbreviation FIELD_fld_EE_SRS_ACCX_sel2 := 165 (only parsing).
Abbreviation FIELD_fld_EE_SRS_ACCX_as := 166 (only parsing).
Abbreviation FIELD_fld_EE_SRS_ACCX_au := 167 (only parsing).
Abbreviation FIELD_fld_semantic_CAL_DOUBLE_Q_ax := 168 (only parsing).
Abbreviation FIELD_fld_semantic_CAL_DOUBLE_Q_qs := 169 (only parsing).
Abbreviation FIELD_fld_Inst_13_13 := 170 (only parsing).
Abbreviation FIELD_fld_semantic_CAL_DOUBLE_Q_ay := 171 (only parsing).
Abbreviation FIELD_fld_Inst_9_8 := 172 (only parsing).
Abbreviation FIELD_fld_semantic_VLOGIC_qy := 173 (only parsing).
Abbreviation FIELD_fld_semantic_VLOGIC_qx := 174 (only parsing).
Abbreviation FIELD_fld_semantic_VLOGIC_qa := 175 (only parsing).
Abbreviation FIELD_fld_Inst_5_5 := 176 (only parsing).
Abbreviation FIELD_fld_semantic_SHFQ_sar16 := 177 (only parsing).
Abbreviation FIELD_fld_semantic_SHFQ_qs0 := 178 (only parsing).
Abbreviation FIELD_fld_semantic_SHFQ_qs1 := 179 (only parsing).
Abbreviation FIELD_fld_semantic_SHFQ_ad := 180 (only parsing).
Abbreviation FIELD_fld_semantic_SHFQ_as := 181 (only parsing).
Abbreviation FIELD_fld_semantic_SHFQ_imm16 := 182 (only parsing).
Abbreviation FIELD_fld_semantic_SHFQ_qu := 183 (only parsing).
Abbreviation FIELD_fld_slot_format_32_0_7_6 := 184 (only parsing).
Abbreviation FIELD_fld_slot_format_32_0_13_11 := 185 (only parsing).
Abbreviation FIELD_fld_Inst_11_7 := 186 (only parsing).
Abbreviation FIELD_fld_semantic_SHFQ_qa := 187 (only parsing).
Abbreviation FIELD_fld_Inst_14_7 := 188 (only parsing).
Abbreviation FIELD_fld_semantic_SHFQ_qs := 189 (only parsing).
Abbreviation FIELD_fld_semantic_FFT_RxBF_sar4 := 190 (only parsing).
Abbreviation FIELD_fld_semantic_FFT_RxBF_as := 191 (only parsing).
Abbreviation FIELD_fld_slot_format_32_0_13_13 := 192 (only parsing).
Abbreviation FIELD_fld_Inst_9_9 := 193 (only parsing).
Abbreviation FIELD_fld_semantic_FFT_RxBF_sel2 := 194 (only parsing).
Abbreviation FIELD_fld_semantic_FFT_RxBF_qy := 195 (only parsing).
Abbreviation FIELD_fld_semantic_FFT_RxBF_qx := 196 (only parsing).
Abbreviation FIELD_fld_semantic_FFT_RxBF_qa1 := 197 (only parsing).
Abbreviation FIELD_fld_semantic_FFT_RxBF_qa0 := 198 (only parsing).
Abbreviation FIELD_fld_EE_FFT_CMUL_S16_LD_XP_sel8 := 199 (only parsing).
Abbreviation FIELD_fld_EE_FFT_CMUL_S16_LD_XP_qy := 200 (only parsing).
Abbreviation FIELD_fld_EE_FFT_CMUL_S16_LD_XP_qx := 201 (only parsing).
Abbreviation FIELD_fld_EE_FFT_CMUL_S16_LD_XP_qz := 202 (only parsing).
Abbreviation FIELD_fld_EE_FFT_CMUL_S16_LD_XP_ad := 203 (only parsing).
Abbreviation FIELD_fld_EE_FFT_CMUL_S16_LD_XP_as := 204 (only parsing).
Abbreviation FIELD_fld_EE_FFT_CMUL_S16_LD_XP_qu := 205 (only parsing).
Abbreviation FIELD_fld_EE_FFT_CMUL_S16_ST_XP_sar4 := 206 (only parsing).
Abbreviation FIELD_fld_EE_FFT_CMUL_S16_ST_XP_upd4 := 207 (only parsing).
Abbreviation FIELD_fld_EE_FFT_CMUL_S16_ST_XP_sel8 := 208 (only parsing).
Abbreviation FIELD_fld_EE_FFT_CMUL_S16_ST_XP_ad := 209 (only parsing).
Abbreviation FIELD_fld_EE_FFT_CMUL_S16_ST_XP_as := 210 (only parsing).
Abbreviation FIELD_fld_EE_FFT_CMUL_S16_ST_XP_qv := 211 (only parsing).
Abbreviation FIELD_fld_EE_FFT_CMUL_S16_ST_XP_qy := 212 (only parsing).
Abbreviation FIELD_fld_EE_FFT_CMUL_S16_ST_XP_qx := 213 (only parsing).
Abbreviation FIELD_fld_EE_BITREV_ax := 214 (only parsing).
Abbreviation FIELD_fld_EE_BITREV_qa := 215 (only parsing).
Abbreviation FIELD_fld_EE_FFT_AMS_S16_LD_INCP_sel2 := 216 (only parsing).
Abbreviation FIELD_fld_EE_FFT_AMS_S16_LD_INCP_qm := 217 (only parsing).
Abbreviation FIELD_fld_EE_FFT_AMS_S16_LD_INCP_qy := 218 (only parsing).
Abbreviation FIELD_fld_EE_FFT_AMS_S16_LD_INCP_qx := 219 (only parsing).
Abbreviation FIELD_fld_EE_FFT_AMS_S16_LD_INCP_qz1 := 220 (only parsing).
Abbreviation FIELD_fld_EE_FFT_AMS_S16_LD_INCP_qz := 221 (only parsing).
Abbreviation FIELD_fld_EE_FFT_AMS_S16_LD_INCP_as := 222 (only parsing).
Abbreviation FIELD_fld_EE_FFT_AMS_S16_LD_INCP_qu := 223 (only parsing).
Abbreviation FIELD_fld_EE_FFT_AMS_S16_LD_INCP_UAUP_sel2 := 224 (only parsing).
Abbreviation FIELD_fld_EE_FFT_AMS_S16_LD_INCP_UAUP_qm := 225 (only parsing).
Abbreviation FIELD_fld_EE_FFT_AMS_S16_LD_INCP_UAUP_qy := 226 (only parsing).
Abbreviation FIELD_fld_EE_FFT_AMS_S16_LD_INCP_UAUP_qx := 227 (only parsing).
Abbreviation FIELD_fld_EE_FFT_AMS_S16_LD_INCP_UAUP_qz1 := 228 (only parsing).
Abbreviation FIELD_fld_EE_FFT_AMS_S16_LD_INCP_UAUP_qz := 229 (only parsing).
Abbreviation FIELD_fld_EE_FFT_AMS_S16_LD_INCP_UAUP_as := 230 (only parsing).
Abbreviation FIELD_fld_EE_FFT_AMS_S16_LD_INCP_UAUP_qu := 231 (only parsing).
Abbreviation FIELD_fld_EE_FFT_AMS_S16_LD_R32_DECP_sel2 := 232 (only parsing).
Abbreviation FIELD_fld_EE_FFT_AMS_S16_LD_R32_DECP_qm := 233 (only parsing).
Abbreviation FIELD_fld_EE_FFT_AMS_S16_LD_R32_DECP_qy := 234 (only parsing).
Abbreviation FIELD_fld_EE_FFT_AMS_S16_LD_R32_DECP_qx := 235 (only parsing).
Abbreviation FIELD_fld_EE_FFT_AMS_S16_LD_R32_DECP_qz1 := 236 (only parsing).
Abbreviation FIELD_fld_EE_FFT_AMS_S16_LD_R32_DECP_qz := 237 (only parsing).
Abbreviation FIELD_fld_EE_FFT_AMS_S16_LD_R32_DECP_as := 238 (only parsing).
Abbreviation FIELD_fld_EE_FFT_AMS_S16_LD_R32_DECP_qu := 239 (only parsing).
Abbreviation FIELD_fld_EE_FFT_AMS_S16_ST_INCP_sel2 := 240 (only parsing).
Abbreviation FIELD_fld_EE_FFT_AMS_S16_ST_INCP_qm := 241 (only parsing).
Abbreviation FIELD_fld_EE_FFT_AMS_S16_ST_INCP_qy := 242 (only parsing).
Abbreviation FIELD_fld_EE_FFT_AMS_S16_ST_INCP_qx := 243 (only parsing).
Abbreviation FIELD_fld_EE_FFT_AMS_S16_ST_INCP_as := 244 (only parsing).
Abbreviation FIELD_fld_EE_FFT_AMS_S16_ST_INCP_as0 := 245 (only parsing).
Abbreviation FIELD_fld_EE_FFT_AMS_S16_ST_INCP_qz1 := 246 (only parsing).
Abbreviation FIELD_fld_EE_FFT_AMS_S16_ST_INCP_qv := 247 (only parsing).
Abbreviation FIELD_fld_EE_FFT_VST_R32_DECP_sar2 := 248 (only parsing).
Abbreviation FIELD_fld_EE_FFT_VST_R32_DECP_as := 249 (only parsing).
Abbreviation FIELD_fld_EE_FFT_VST_R32_DECP_qv := 250 (only parsing).
Abbreviation FIELD__ar0 := 251 (only parsing).
Abbreviation FIELD__ar4 := 252 (only parsing).
Abbreviation FIELD__ar8 := 253 (only parsing).
Abbreviation FIELD__ar12 := 254 (only parsing).
Abbreviation FIELD__mr0 := 255 (only parsing).
Abbreviation FIELD__mr1 := 256 (only parsing).
Abbreviation FIELD__mr2 := 257 (only parsing).
Abbreviation FIELD__mr3 := 258 (only parsing).
Abbreviation FIELD__bt16 := 259 (only parsing).
Abbreviation FIELD__bs16 := 260 (only parsing).
Abbreviation FIELD__br16 := 261 (only parsing).
Abbreviation FIELD__brall := 262 (only parsing).

(** ** Accessors *)

Definition Field_r_Slot_inst : field :=
  mkField [Gc 4 16 28]
    [Sc 28 28 0xf000 12].
Definition Field_op0_Slot_inst : field :=
  mkField [Gc 4 28 28]
    [Sc 28 28 0xf 0].
Definition Field_op2_Slot_inst : field :=
  mkField [Gc 4 8 28]
    [Sc 28 28 0xf00000 20].
Definition Field_op1_Slot_inst : field :=
  mkField [Gc 4 12 28]
    [Sc 28 28 0xf0000 16].
Definition Field_t_Slot_inst : field :=
  mkField [Gc 4 24 28]
    [Sc 28 28 0xf0 4].
Definition Field_s_Slot_inst : field :=
  mkField [Gc 4 20 28]
    [Sc 28 28 0xf00 8].
Definition Field_n_Slot_inst : field :=
  mkField [Gc 2 26 30]
    [Sc 30 30 0x30 4].
Definition Field_m_Slot_inst : field :=
  mkField [Gc 2 24 30]
    [Sc 30 30 0xc0 6].
Definition Field_sr_Slot_inst : field :=
  mkField [Gc 4 16 28; Gc 4 20 28]
    [Sc 28 28 0xf00 8; Sc 24 28 0xf000 12].
Definition Field_st_Slot_inst : field :=
  mkField [Gc 4 20 28; Gc 4 24 28]
    [Sc 28 28 0xf0 4; Sc 24 28 0xf00 8].
Definition Field_thi3_Slot_inst : field :=
  mkField [Gc 3 24 29]
    [Sc 29 29 0xe0 5].
Definition Field_t3_Slot_inst : field :=
  mkField [Gc 1 24 31]
    [Sc 31 31 0x80 7].
Definition Field_tlo_Slot_inst : field :=
  mkField [Gc 2 26 30]
    [Sc 30 30 0x30 4].
Definition Field_w_Slot_inst : field :=
  mkField [Gc 2 18 30]
    [Sc 30 30 0x3000 12].
Definition Field_r3_Slot_inst : field :=
  mkField [Gc 1 16 31]
    [Sc 31 31 0x8000 15].
Definition Field_rhi_Slot_inst : field :=
  mkField [Gc 2 16 30]
    [Sc 30 30 0xc000 14].
Definition Field_fld_inst_23_22_Slot_inst : field :=
  mkField [Gc 2 8 30]
    [Sc 30 30 0xc00000 22].
Definition Field_fld_inst_19_16_Slot_inst : field :=
  mkField [Gc 4 12 28]
    [Sc 28 28 0xf0000 16].
Definition Field_fld_inst_14_12_Slot_inst : field :=
  mkField [Gc 3 17 29]
    [Sc 29 29 0x7000 12].
Definition Field_fld_inst_3_0_Slot_inst : field :=
  mkField [Gc 4 28 28]
    [Sc 28 28 0xf 0].
Definition Field_fld_inst_9_6_Slot_inst : field :=
  mkField [Gc 4 22 28]
    [Sc 28 28 0x3c0 6].
Definition Field_fld_inst_4_0_Slot_inst : field :=
  mkField [Gc 5 27 27]
    [Sc 27 27 0x1f 0].
Definition Field_fld_inst_23_12_Slot_inst : field :=
  mkField [Gc 12 8 20]
    [Sc 20 20 0xfff000 12].
Definition Field_fld_inst_23_8_Slot_inst : field :=
  mkField [Gc 16 8 16]
    [Sc 16 16 0xffff00 8].
Definition Field_fld_inst_23_23_Slot_inst : field :=
  mkField [Gc 1 8 31]
    [Sc 31 31 0x800000 23].
Definition Field_fld_inst_14_8_Slot_inst : field :=
  mkField [Gc 7 17 25]
    [Sc 25 25 0x7f00 8].
Definition Field_fld_inst_11_8_Slot_inst : field :=
  mkField [Gc 4 20 28]
    [Sc 28 28 0xf00 8].
Definition Field_fld_inst_21_15_Slot_inst : field :=
  mkField [Gc 7 10 25]
    [Sc 25 25 0x3f8000 15].
Definition Field_fld_inst_9_8_Slot_inst : field :=
  mkField [Gc 2 22 30]
    [Sc 30 30 0x300 8].
Definition Field_fld_inst_11_0_Slot_inst : field :=
  mkField [Gc 12 20 20]
    [Sc 20 20 0xfff 0].
Definition Field_fld_inst_23_0_Slot_inst : field :=
  mkField [Gc 24 8 8]
    [Sc 8 8 0xffffff 0].
Definition Field_fld_inst_14_0_Slot_inst : field :=
  mkField [Gc 15 17 17]
    [Sc 17 17 0x7fff 0].
Definition Field_fld_inst_13_13_Slot_inst : field :=
  mkField [Gc 1 18 31]
    [Sc 31 31 0x2000 13].
Definition Field_fld_inst_7_0_Slot_inst : field :=
  mkField [Gc 8 24 24]
    [Sc 24 24 0xff 0].
Definition Field_fld_inst_7_6_Slot_inst : field :=
  mkField [Gc 2 24 30]
    [Sc 30 30 0xc0 6].
Definition Field_fld_inst_23_15_Slot_inst : field :=
  mkField [Gc 9 8 23]
    [Sc 23 23 0xff8000 15].
Definition Field_fld_inst_23_21_Slot_inst : field :=
  mkField [Gc 3 8 29]
    [Sc 29 29 0xe00000 21].
Definition Field_fld_inst_7_5_Slot_inst : field :=
  mkField [Gc 3 24 29]
    [Sc 29 29 0xe0 5].
Definition Field_fld_inst_14_11_Slot_inst : field :=
  mkField [Gc 4 17 28]
    [Sc 28 28 0x7800 11].
Definition Field_fld_inst_13_12_Slot_inst : field :=
  mkField [Gc 2 18 30]
    [Sc 30 30 0x3000 12].
Definition Field_fld_inst_5_5_Slot_inst : field :=
  mkField [Gc 1 26 31]
    [Sc 31 31 0x20 5].
Definition Field_fld_inst_11_7_Slot_inst : field :=
  mkField [Gc 5 20 27]
    [Sc 27 27 0xf80 7].
Definition Field_fld_inst_14_7_Slot_inst : field :=
  mkField [Gc 8 17 24]
    [Sc 24 24 0x7f80 7].
Definition Field_fld_inst_9_9_Slot_inst : field :=
  mkField [Gc 1 22 31]
    [Sc 31 31 0x200 9].
Definition Field_op0_Slot_inst16a : field :=
  mkField [Gc 4 28 28]
    [Sc 28 28 0xf 0].
Definition Field_t_Slot_inst16b : field :=
  mkField [Gc 4 24 28]
    [Sc 28 28 0xf0 4].
Definition Field_r_Slot_inst16b : field :=
  mkField [Gc 4 16 28]
    [Sc 28 28 0xf000 12].
Definition Field_op0_Slot_inst16b : field :=
  mkField [Gc 4 28 28]
    [Sc 28 28 0xf 0].
Definition Field_z_Slot_inst16b : field :=
  mkField [Gc 1 25 31]
    [Sc 31 31 0x40 6].
Definition Field_i_Slot_inst16b : field :=
  mkField [Gc 1 24 31]
    [Sc 31 31 0x80 7].
Definition Field_s_Slot_inst16b : field :=
  mkField [Gc 4 20 28]
    [Sc 28 28 0xf00 8].
Definition Field_fld_slot_format_32_0_28_4_Slot_slot_format_32_0 : field :=
  mkField [Gc 25 3 7]
    [Sc 7 7 0x1ffffff0 4].
Definition Field_fld_slot_format_32_0_3_0_Slot_slot_format_32_0 : field :=
  mkField [Gc 4 28 28]
    [Sc 28 28 0xf 0].
Definition Field_fld_slot_format_32_0_28_24_Slot_slot_format_32_0 : field :=
  mkField [Gc 5 3 27]
    [Sc 27 27 0x1f000000 24].
Definition Field_fld_slot_format_32_0_28_23_Slot_slot_format_32_0 : field :=
  mkField [Gc 6 3 26]
    [Sc 26 26 0x1f800000 23].
Definition Field_fld_slot_format_32_0_7_5_Slot_slot_format_32_0 : field :=
  mkField [Gc 3 24 29]
    [Sc 29 29 0xe0 5].
Definition Field_fld_slot_format_32_0_28_22_Slot_slot_format_32_0 : field :=
  mkField [Gc 7 3 25]
    [Sc 25 25 0x1fc00000 22].
Definition Field_fld_slot_format_32_0_10_4_Slot_slot_format_32_0 : field :=
  mkField [Gc 7 21 25]
    [Sc 25 25 0x7f0 4].
Definition Field_fld_slot_format_32_0_19_17_Slot_slot_format_32_0 : field :=
  mkField [Gc 3 12 29]
    [Sc 29 29 0xe0000 17].
Definition Field_fld_slot_format_32_0_7_4_Slot_slot_format_32_0 : field :=
  mkField [Gc 4 24 28]
    [Sc 28 28 0xf0 4].
Definition Field_fld_slot_format_32_0_28_20_Slot_slot_format_32_0 : field :=
  mkField [Gc 9 3 23]
    [Sc 23 23 0x1ff00000 20].
Definition Field_fld_slot_format_32_0_10_6_Slot_slot_format_32_0 : field :=
  mkField [Gc 5 21 27]
    [Sc 27 27 0x7c0 6].
Definition Field_fld_slot_format_32_0_7_6_Slot_slot_format_32_0 : field :=
  mkField [Gc 2 24 30]
    [Sc 30 30 0xc0 6].
Definition Field_fld_slot_format_32_0_28_25_Slot_slot_format_32_0 : field :=
  mkField [Gc 4 3 28]
    [Sc 28 28 0x1e000000 25].
Definition Field_fld_slot_format_32_0_10_8_Slot_slot_format_32_0 : field :=
  mkField [Gc 3 21 29]
    [Sc 29 29 0x700 8].
Definition Field_fld_slot_format_32_0_10_9_Slot_slot_format_32_0 : field :=
  mkField [Gc 2 21 30]
    [Sc 30 30 0x600 9].
Definition Field_fld_slot_format_32_0_13_11_Slot_slot_format_32_0 : field :=
  mkField [Gc 3 18 29]
    [Sc 29 29 0x3800 11].
Definition Field_fld_slot_format_32_0_13_13_Slot_slot_format_32_0 : field :=
  mkField [Gc 1 18 31]
    [Sc 31 31 0x2000 13].
Definition Field_t_Slot_inst16a : field :=
  mkField [Gc 4 24 28]
    [Sc 28 28 0xf0 4].
Definition Field_bbi4_Slot_inst : field :=
  mkField [Gc 1 19 31]
    [Sc 31 31 0x1000 12].
Definition Field_bbi_Slot_inst : field :=
  mkField [Gc 1 19 31; Gc 4 24 28]
    [Sc 28 28 0xf0 4; Sc 27 31 0x1000 12].
Definition Field_imm12_Slot_inst : field :=
  mkField [Gc 12 8 20]
    [Sc 20 20 0xfff000 12].
Definition Field_imm8_Slot_inst : field :=
  mkField [Gc 8 8 24]
    [Sc 24 24 0xff0000 16].
Definition Field_s_Slot_inst16a : field :=
  mkField [Gc 4 20 28]
    [Sc 28 28 0xf00 8].
Definition Field_imm12b_Slot_inst : field :=
  mkField [Gc 4 20 28; Gc 8 8 24]
    [Sc 24 24 0xff0000 16; Sc 20 28 0xf00 8].
Definition Field_imm16_Slot_inst : field :=
  mkField [Gc 16 8 16]
    [Sc 16 16 0xffff00 8].
Definition Field_offset_Slot_inst : field :=
  mkField [Gc 18 8 14]
    [Sc 14 14 0xffffc0 6].
Definition Field_r_Slot_inst16a : field :=
  mkField [Gc 4 16 28]
    [Sc 28 28 0xf000 12].
Definition Field_sa4_Slot_inst : field :=
  mkField [Gc 1 11 31]
    [Sc 31 31 0x100000 20].
Definition Field_sae4_Slot_inst : field :=
  mkField [Gc 1 15 31]
    [Sc 31 31 0x10000 16].
Definition Field_sae_Slot_inst : field :=
  mkField [Gc 1 15 31; Gc 4 20 28]
    [Sc 28 28 0xf00 8; Sc 27 31 0x10000 16].
Definition Field_sal_Slot_inst : field :=
  mkField [Gc 1 11 31; Gc 4 24 28]
    [Sc 28 28 0xf0 4; Sc 27 31 0x100000 20].
Definition Field_sargt_Slot_inst : field :=
  mkField [Gc 1 11 31; Gc 4 20 28]
    [Sc 28 28 0xf00 8; Sc 27 31 0x100000 20].
Definition Field_sas4_Slot_inst : field :=
  mkField [Gc 1 27 31]
    [Sc 31 31 0x10 4].
Definition Field_sas_Slot_inst : field :=
  mkField [Gc 1 27 31; Gc 4 20 28]
    [Sc 28 28 0xf00 8; Sc 27 31 0x10 4].
Definition Field_sr_Slot_inst16a : field :=
  mkField [Gc 4 16 28; Gc 4 20 28]
    [Sc 28 28 0xf00 8; Sc 24 28 0xf000 12].
Definition Field_sr_Slot_inst16b : field :=
  mkField [Gc 4 16 28; Gc 4 20 28]
    [Sc 28 28 0xf00 8; Sc 24 28 0xf000 12].
Definition Field_st_Slot_inst16a : field :=
  mkField [Gc 4 20 28; Gc 4 24 28]
    [Sc 28 28 0xf0 4; Sc 24 28 0xf00 8].
Definition Field_st_Slot_inst16b : field :=
  mkField [Gc 4 20 28; Gc 4 24 28]
    [Sc 28 28 0xf0 4; Sc 24 28 0xf00 8].
Definition Field_imm4_Slot_inst : field :=
  mkField [Gc 4 16 28]
    [Sc 28 28 0xf000 12].
Definition Field_imm4_Slot_inst16a : field :=
  mkField [Gc 4 16 28]
    [Sc 28 28 0xf000 12].
Definition Field_imm4_Slot_inst16b : field :=
  mkField [Gc 4 16 28]
    [Sc 28 28 0xf000 12].
Definition Field_mn_Slot_inst : field :=
  mkField [Gc 2 24 30; Gc 2 26 30]
    [Sc 30 30 0x30 4; Sc 28 30 0xc0 6].
Definition Field_i_Slot_inst16a : field :=
  mkField [Gc 1 24 31]
    [Sc 31 31 0x80 7].
Definition Field_imm6lo_Slot_inst16a : field :=
  mkField [Gc 4 16 28]
    [Sc 28 28 0xf000 12].
Definition Field_imm6lo_Slot_inst16b : field :=
  mkField [Gc 4 16 28]
    [Sc 28 28 0xf000 12].
Definition Field_imm6hi_Slot_inst16a : field :=
  mkField [Gc 2 26 30]
    [Sc 30 30 0x30 4].
Definition Field_imm6hi_Slot_inst16b : field :=
  mkField [Gc 2 26 30]
    [Sc 30 30 0x30 4].
Definition Field_imm7lo_Slot_inst16a : field :=
  mkField [Gc 4 16 28]
    [Sc 28 28 0xf000 12].
Definition Field_imm7lo_Slot_inst16b : field :=
  mkField [Gc 4 16 28]
    [Sc 28 28 0xf000 12].
Definition Field_imm7hi_Slot_inst16a : field :=
  mkField [Gc 3 25 29]
    [Sc 29 29 0x70 4].
Definition Field_imm7hi_Slot_inst16b : field :=
  mkField [Gc 3 25 29]
    [Sc 29 29 0x70 4].
Definition Field_z_Slot_inst16a : field :=
  mkField [Gc 1 25 31]
    [Sc 31 31 0x40 6].
Definition Field_imm6_Slot_inst16a : field :=
  mkField [Gc 2 26 30; Gc 4 16 28]
    [Sc 28 28 0xf000 12; Sc 26 30 0x30 4].
Definition Field_imm6_Slot_inst16b : field :=
  mkField [Gc 2 26 30; Gc 4 16 28]
    [Sc 28 28 0xf000 12; Sc 26 30 0x30 4].
Definition Field_imm7_Slot_inst16a : field :=
  mkField [Gc 3 25 29; Gc 4 16 28]
    [Sc 28 28 0xf000 12; Sc 25 29 0x70 4].
Definition Field_imm7_Slot_inst16b : field :=
  mkField [Gc 3 25 29; Gc 4 16 28]
    [Sc 28 28 0xf000 12; Sc 25 29 0x70 4].
Definition Field_rbit2_Slot_inst : field :=
  mkField [Gc 1 17 31]
    [Sc 31 31 0x4000 14].
Definition Field_tbit2_Slot_inst : field :=
  mkField [Gc 1 25 31]
    [Sc 31 31 0x40 6].
Definition Field_y_Slot_inst : field :=
  mkField [Gc 1 25 31]
    [Sc 31 31 0x40 6].
Definition Field_x_Slot_inst : field :=
  mkField [Gc 1 17 31]
    [Sc 31 31 0x4000 14].
Definition Field_t2_Slot_inst : field :=
  mkField [Gc 3 24 29]
    [Sc 29 29 0xe0 5].
Definition Field_t2_Slot_inst16a : field :=
  mkField [Gc 3 24 29]
    [Sc 29 29 0xe0 5].
Definition Field_t2_Slot_inst16b : field :=
  mkField [Gc 3 24 29]
    [Sc 29 29 0xe0 5].
Definition Field_s2_Slot_inst : field :=
  mkField [Gc 3 20 29]
    [Sc 29 29 0xe00 9].
Definition Field_s2_Slot_inst16a : field :=
  mkField [Gc 3 20 29]
    [Sc 29 29 0xe00 9].
Definition Field_s2_Slot_inst16b : field :=
  mkField [Gc 3 20 29]
    [Sc 29 29 0xe00 9].
Definition Field_r2_Slot_inst : field :=
  mkField [Gc 3 16 29]
    [Sc 29 29 0xe000 13].
Definition Field_r2_Slot_inst16a : field :=
  mkField [Gc 3 16 29]
    [Sc 29 29 0xe000 13].
Definition Field_r2_Slot_inst16b : field :=
  mkField [Gc 3 16 29]
    [Sc 29 29 0xe000 13].
Definition Field_t4_Slot_inst : field :=
  mkField [Gc 2 24 30]
    [Sc 30 30 0xc0 6].
Definition Field_t4_Slot_inst16a : field :=
  mkField [Gc 2 24 30]
    [Sc 30 30 0xc0 6].
Definition Field_t4_Slot_inst16b : field :=
  mkField [Gc 2 24 30]
    [Sc 30 30 0xc0 6].
Definition Field_s4_Slot_inst : field :=
  mkField [Gc 2 20 30]
    [Sc 30 30 0xc00 10].
Definition Field_s4_Slot_inst16a : field :=
  mkField [Gc 2 20 30]
    [Sc 30 30 0xc00 10].
Definition Field_s4_Slot_inst16b : field :=
  mkField [Gc 2 20 30]
    [Sc 30 30 0xc00 10].
Definition Field_r4_Slot_inst : field :=
  mkField [Gc 2 16 30]
    [Sc 30 30 0xc000 14].
Definition Field_r4_Slot_inst16a : field :=
  mkField [Gc 2 16 30]
    [Sc 30 30 0xc000 14].
Definition Field_r4_Slot_inst16b : field :=
  mkField [Gc 2 16 30]
    [Sc 30 30 0xc000 14].
Definition Field_t8_Slot_inst : field :=
  mkField [Gc 1 24 31]
    [Sc 31 31 0x80 7].
Definition Field_t8_Slot_inst16a : field :=
  mkField [Gc 1 24 31]
    [Sc 31 31 0x80 7].
Definition Field_t8_Slot_inst16b : field :=
  mkField [Gc 1 24 31]
    [Sc 31 31 0x80 7].
Definition Field_s8_Slot_inst : field :=
  mkField [Gc 1 20 31]
    [Sc 31 31 0x800 11].
Definition Field_s8_Slot_inst16a : field :=
  mkField [Gc 1 20 31]
    [Sc 31 31 0x800 11].
Definition Field_s8_Slot_inst16b : field :=
  mkField [Gc 1 20 31]
    [Sc 31 31 0x800 11].
Definition Field_r8_Slot_inst : field :=
  mkField [Gc 1 16 31]
    [Sc 31 31 0x8000 15].
Definition Field_r8_Slot_inst16a : field :=
  mkField [Gc 1 16 31]
    [Sc 31 31 0x8000 15].
Definition Field_r8_Slot_inst16b : field :=
  mkField [Gc 1 16 31]
    [Sc 31 31 0x8000 15].
Definition Field_xt_wbr15_imm_Slot_inst : field :=
  mkField [Gc 15 8 17]
    [Sc 17 17 0xfffe00 9].
Definition Field_xt_wbr18_imm_Slot_inst : field :=
  mkField [Gc 18 8 14]
    [Sc 14 14 0xffffc0 6].
Definition Field_fld_st_qr_b_Slot_inst : field :=
  mkField [Gc 4 24 28]
    [Sc 28 28 0xf0 4].
Definition Field_fld_st_qr_a_Slot_inst : field :=
  mkField [Gc 2 10 30; Gc 1 16 31]
    [Sc 31 31 0x8000 15; Sc 29 30 0x300000 20].
Definition Field_fld_ld_qr_b_Slot_inst : field :=
  mkField [Gc 4 24 28]
    [Sc 28 28 0xf0 4].
Definition Field_fld_ld_qr_a_Slot_inst : field :=
  mkField [Gc 2 10 30; Gc 1 16 31]
    [Sc 31 31 0x8000 15; Sc 29 30 0x300000 20].
Definition Field_fld_qr_Slot_inst : field :=
  mkField [Gc 4 20 28]
    [Sc 28 28 0xf00 8].
Definition Field_fld_mv_qr_b_Slot_inst : field :=
  mkField [Gc 2 20 30; Gc 1 26 31]
    [Sc 31 31 0x20 5; Sc 29 30 0xc00 10].
Definition Field_fld_mv_qr_a_Slot_inst : field :=
  mkField [Gc 2 10 30; Gc 1 16 31]
    [Sc 31 31 0x8000 15; Sc 29 30 0x300000 20].
Definition Field_fld_ee_wr_mask_gpio_out_mask_Slot_inst : field :=
  mkField [Gc 4 20 28]
    [Sc 28 28 0xf00 8].
Definition Field_fld_ee_wr_mask_gpio_out_value_Slot_inst : field :=
  mkField [Gc 4 24 28]
    [Sc 28 28 0xf0 4].
Definition Field_fld_ee_set_bit_gpio_out_mask_Slot_inst : field :=
  mkField [Gc 8 20 24]
    [Sc 24 24 0xff0 4].
Definition Field_fld_ee_clr_bit_gpio_out_clear_Slot_inst : field :=
  mkField [Gc 8 20 24]
    [Sc 24 24 0xff0 4].
Definition Field_fld_ee_get_gpio_in_au_Slot_inst : field :=
  mkField [Gc 4 24 28]
    [Sc 28 28 0xf0 4].
Definition Field_fld_semantic_ld_st_imm2_Slot_inst : field :=
  mkField [Gc 7 17 25]
    [Sc 25 25 0x7f00 8].
Definition Field_fld_semantic_ld_st_imm1_Slot_inst : field :=
  mkField [Gc 7 17 25]
    [Sc 25 25 0x7f00 8].
Definition Field_fld_semantic_ld_st_qu1_Slot_inst : field :=
  mkField [Gc 3 17 29]
    [Sc 29 29 0x7000 12].
Definition Field_fld_semantic_ld_st_imm16f_Slot_slot_format_32_0 : field :=
  mkField [Gc 4 24 28]
    [Sc 28 28 0xf0 4].
Definition Field_fld_semantic_ld_st_as_Slot_inst : field :=
  mkField [Gc 4 24 28]
    [Sc 28 28 0xf0 4].
Definition Field_fld_semantic_ld_st_as_Slot_slot_format_32_0 : field :=
  mkField [Gc 4 28 28]
    [Sc 28 28 0xf 0].
Definition Field_fld_semantic_ld_st_fu0_Slot_inst : field :=
  mkField [Gc 4 8 28]
    [Sc 28 28 0xf00000 20].
Definition Field_fld_semantic_ld_st_fu0_Slot_slot_format_32_0 : field :=
  mkField [Gc 4 20 28]
    [Sc 28 28 0xf00 8].
Definition Field_fld_semantic_ld_st_fu1_Slot_inst : field :=
  mkField [Gc 4 16 28]
    [Sc 28 28 0xf000 12].
Definition Field_fld_semantic_ld_st_fu1_Slot_slot_format_32_0 : field :=
  mkField [Gc 4 16 28]
    [Sc 28 28 0xf000 12].
Definition Field_fld_semantic_ld_st_fu2_Slot_slot_format_32_0 : field :=
  mkField [Gc 4 12 28]
    [Sc 28 28 0xf0000 16].
Definition Field_fld_semantic_ld_st_fu3_Slot_slot_format_32_0 : field :=
  mkField [Gc 4 8 28]
    [Sc 28 28 0xf00000 20].
Definition Field_fld_semantic_ld_st_ad_Slot_inst : field :=
  mkField [Gc 4 20 28]
    [Sc 28 28 0xf00 8].
Definition Field_fld_semantic_ld_st_ad_Slot_slot_format_32_0 : field :=
  mkField [Gc 4 24 28]
    [Sc 28 28 0xf0 4].
Definition Field_fld_semantic_ld_st_imm8_Slot_inst : field :=
  mkField [Gc 1 9 31; Gc 7 17 25]
    [Sc 25 25 0x7f00 8; Sc 24 31 0x400000 22].
Definition Field_fld_semantic_ld_st_imm8_Slot_slot_format_32_0 : field :=
  mkField [Gc 7 9 25; Gc 1 27 31]
    [Sc 31 31 0x10 4; Sc 24 25 0x7f0000 16].
Definition Field_fld_semantic_ld_st_imm16_Slot_inst : field :=
  mkField [Gc 1 9 31; Gc 7 17 25]
    [Sc 25 25 0x7f00 8; Sc 24 31 0x400000 22].
Definition Field_fld_semantic_ld_st_imm4_Slot_inst : field :=
  mkField [Gc 1 9 31; Gc 7 17 25]
    [Sc 25 25 0x7f00 8; Sc 24 31 0x400000 22].
Definition Field_fld_semantic_ld_st_sel8_Slot_slot_format_32_0 : field :=
  mkField [Gc 3 18 29]
    [Sc 29 29 0x3800 11].
Definition Field_fld_semantic_ld_st_sel4_Slot_slot_format_32_0 : field :=
  mkField [Gc 2 10 30]
    [Sc 30 30 0x300000 20].
Definition Field_fld_semantic_ld_st_qs_Slot_slot_format_32_0 : field :=
  mkField [Gc 3 15 29]
    [Sc 29 29 0x1c000 14].
Definition Field_fld_semantic_ld_st_qu_Slot_inst : field :=
  mkField [Gc 2 10 30; Gc 1 16 31]
    [Sc 31 31 0x8000 15; Sc 29 30 0x300000 20].
Definition Field_fld_semantic_ld_st_qu_Slot_slot_format_32_0 : field :=
  mkField [Gc 3 12 29]
    [Sc 29 29 0xe0000 17].
Definition Field_fld_semantic_ld_st_fv0_Slot_inst : field :=
  mkField [Gc 4 8 28]
    [Sc 28 28 0xf00000 20].
Definition Field_fld_semantic_ld_st_fv0_Slot_slot_format_32_0 : field :=
  mkField [Gc 4 20 28]
    [Sc 28 28 0xf00 8].
Definition Field_fld_semantic_ld_st_fv1_Slot_inst : field :=
  mkField [Gc 4 16 28]
    [Sc 28 28 0xf000 12].
Definition Field_fld_semantic_ld_st_fv1_Slot_slot_format_32_0 : field :=
  mkField [Gc 4 16 28]
    [Sc 28 28 0xf000 12].
Definition Field_fld_semantic_ld_st_fv2_Slot_slot_format_32_0 : field :=
  mkField [Gc 4 12 28]
    [Sc 28 28 0xf0000 16].
Definition Field_fld_semantic_ld_st_fv3_Slot_slot_format_32_0 : field :=
  mkField [Gc 4 8 28]
    [Sc 28 28 0xf00000 20].
Definition Field_fld_semantic_ld_st_qv_Slot_inst : field :=
  mkField [Gc 2 10 30; Gc 1 16 31]
    [Sc 31 31 0x8000 15; Sc 29 30 0x300000 20].
Definition Field_fld_semantic_ld_st_qv_Slot_slot_format_32_0 : field :=
  mkField [Gc 3 21 29]
    [Sc 29 29 0x700 8].
Definition Field_fld_ee_movi_32_a_sel4_Slot_inst : field :=
  mkField [Gc 2 20 30]
    [Sc 30 30 0xc00 10].
Definition Field_fld_ee_movi_32_a_au_Slot_inst : field :=
  mkField [Gc 4 24 28]
    [Sc 28 28 0xf0 4].
Definition Field_fld_ee_movi_32_a_qs_Slot_inst : field :=
  mkField [Gc 2 10 30; Gc 1 16 31]
    [Sc 31 31 0x8000 15; Sc 29 30 0x300000 20].
Definition Field_fld_ee_movi_32_q_sel4_Slot_inst : field :=
  mkField [Gc 2 20 30]
    [Sc 30 30 0xc00 10].
Definition Field_fld_ee_movi_32_q_as_Slot_inst : field :=
  mkField [Gc 4 24 28]
    [Sc 28 28 0xf0 4].
Definition Field_fld_ee_movi_32_q_qu_Slot_inst : field :=
  mkField [Gc 2 10 30; Gc 1 16 31]
    [Sc 31 31 0x8000 15; Sc 29 30 0x300000 20].
Definition Field_fld_ee_vzip_16_qs1_Slot_inst : field :=
  mkField [Gc 2 10 30; Gc 1 16 31]
    [Sc 31 31 0x8000 15; Sc 29 30 0x300000 20].
Definition Field_fld_ee_vzip_16_qs0_Slot_inst : field :=
  mkField [Gc 3 17 29]
    [Sc 29 29 0x7000 12].
Definition Field_fld_ee_vzip_32_qs1_Slot_inst : field :=
  mkField [Gc 2 10 30; Gc 1 16 31]
    [Sc 31 31 0x8000 15; Sc 29 30 0x300000 20].
Definition Field_fld_ee_vzip_32_qs0_Slot_inst : field :=
  mkField [Gc 3 17 29]
    [Sc 29 29 0x7000 12].
Definition Field_fld_ee_vzip_8_qs1_Slot_inst : field :=
  mkField [Gc 2 10 30; Gc 1 16 31]
    [Sc 31 31 0x8000 15; Sc 29 30 0x300000 20].
Definition Field_fld_ee_vzip_8_qs0_Slot_inst : field :=
  mkField [Gc 3 17 29]
    [Sc 29 29 0x7000 12].
Definition Field_fld_ee_vunzip_16_qs1_Slot_inst : field :=
  mkField [Gc 2 10 30; Gc 1 16 31]
    [Sc 31 31 0x8000 15; Sc 29 30 0x300000 20].
Definition Field_fld_ee_vunzip_16_qs0_Slot_inst : field :=
  mkField [Gc 3 17 29]
    [Sc 29 29 0x7000 12].
Definition Field_fld_ee_vunzip_32_qs1_Slot_inst : field :=
  mkField [Gc 2 10 30; Gc 1 16 31]
    [Sc 31 31 0x8000 15; Sc 29 30 0x300000 20].
Definition Field_fld_ee_vunzip_32_qs0_Slot_inst : field :=
  mkField [Gc 3 17 29]
    [Sc 29 29 0x7000 12].
Definition Field_fld_ee_vunzip_8_qs1_Slot_inst : field :=
  mkField [Gc 2 10 30; Gc 1 16 31]
    [Sc 31 31 0x8000 15; Sc 29 30 0x300000 20].
Definition Field_fld_ee_vunzip_8_qs0_Slot_inst : field :=
  mkField [Gc 3 17 29]
    [Sc 29 29 0x7000 12].
Definition Field_fld_ee_zero_q_qa_Slot_inst : field :=
  mkField [Gc 2 10 30; Gc 1 16 31]
    [Sc 31 31 0x8000 15; Sc 29 30 0x300000 20].
Definition Field_fld_ee_mov_s16_qacc_qs_Slot_inst : field :=
  mkField [Gc 2 10 30; Gc 1 16 31]
    [Sc 31 31 0x8000 15; Sc 29 30 0x300000 20].
Definition Field_fld_ee_mov_s8_qacc_qs_Slot_inst : field :=
  mkField [Gc 2 10 30; Gc 1 16 31]
    [Sc 31 31 0x8000 15; Sc 29 30 0x300000 20].
Definition Field_fld_ee_mov_u16_qacc_qs_Slot_inst : field :=
  mkField [Gc 2 10 30; Gc 1 16 31]
    [Sc 31 31 0x8000 15; Sc 29 30 0x300000 20].
Definition Field_fld_ee_mov_u8_qacc_qs_Slot_inst : field :=
  mkField [Gc 2 10 30; Gc 1 16 31]
    [Sc 31 31 0x8000 15; Sc 29 30 0x300000 20].
Definition Field_fld_semantic_cal_double_q_qa_Slot_inst : field :=
  mkField [Gc 2 10 30; Gc 1 16 31]
    [Sc 31 31 0x8000 15; Sc 29 30 0x300000 20].
Definition Field_fld_semantic_cal_double_q_qa_Slot_slot_format_32_0 : field :=
  mkField [Gc 3 12 29]
    [Sc 29 29 0xe0000 17].
Definition Field_fld_semantic_cal_double_q_as_Slot_inst : field :=
  mkField [Gc 4 24 28]
    [Sc 28 28 0xf0 4].
Definition Field_fld_semantic_cal_double_q_as_Slot_slot_format_32_0 : field :=
  mkField [Gc 4 28 28]
    [Sc 28 28 0xf 0].
Definition Field_fld_semantic_cal_double_q_qu_Slot_inst : field :=
  mkField [Gc 1 11 31; Gc 1 16 31; Gc 1 18 31]
    [Sc 31 31 0x2000 13; Sc 30 31 0x8000 15; Sc 29 31 0x100000 20].
Definition Field_fld_semantic_cal_double_q_qu_Slot_slot_format_32_0 : field :=
  mkField [Gc 3 9 29]
    [Sc 29 29 0x700000 20].
Definition Field_fld_semantic_cal_double_q_qv_Slot_slot_format_32_0 : field :=
  mkField [Gc 3 21 29]
    [Sc 29 29 0x700 8].
Definition Field_fld_semantic_cal_double_q_sel4_Slot_inst : field :=
  mkField [Gc 2 26 30]
    [Sc 30 30 0x30 4].
Definition Field_fld_semantic_cal_double_q_sel4_Slot_slot_format_32_0 : field :=
  mkField [Gc 2 26 30]
    [Sc 30 30 0x30 4].
Definition Field_fld_semantic_cal_double_q_qy_Slot_inst : field :=
  mkField [Gc 1 17 31; Gc 2 19 30]
    [Sc 30 30 0x1800 11; Sc 29 31 0x4000 14].
Definition Field_fld_semantic_cal_double_q_qy_Slot_slot_format_32_0 : field :=
  mkField [Gc 3 18 29]
    [Sc 29 29 0x3800 11].
Definition Field_fld_semantic_cal_double_q_qx_Slot_inst : field :=
  mkField [Gc 3 21 29]
    [Sc 29 29 0x700 8].
Definition Field_fld_semantic_cal_double_q_qx_Slot_slot_format_32_0 : field :=
  mkField [Gc 3 15 29]
    [Sc 29 29 0x1c000 14].
Definition Field_fld_semantic_cal_double_q_qz_Slot_inst : field :=
  mkField [Gc 2 10 30; Gc 1 16 31]
    [Sc 31 31 0x8000 15; Sc 29 30 0x300000 20].
Definition Field_fld_semantic_cal_double_q_qz_Slot_slot_format_32_0 : field :=
  mkField [Gc 3 12 29]
    [Sc 29 29 0xe0000 17].
Definition Field_fld_semantic_cal_double_q_qs1_Slot_slot_format_32_0 : field :=
  mkField [Gc 3 12 29]
    [Sc 29 29 0xe0000 17].
Definition Field_fld_semantic_cal_double_q_qs0_Slot_slot_format_32_0 : field :=
  mkField [Gc 3 21 29]
    [Sc 29 29 0x700 8].
Definition Field_fld_semantic_cal_double_q_imm16_Slot_slot_format_32_0 : field :=
  mkField [Gc 2 7 30; Gc 4 24 28]
    [Sc 28 28 0xf0 4; Sc 26 30 0x1800000 23].
Definition Field_fld_semantic_cal_double_q_ad_Slot_slot_format_32_0 : field :=
  mkField [Gc 4 24 28]
    [Sc 28 28 0xf0 4].
Definition Field_fld_semantic_cal_double_q_sel8_Slot_inst : field :=
  mkField [Gc 2 10 30; Gc 1 16 31]
    [Sc 31 31 0x8000 15; Sc 29 30 0x300000 20].
Definition Field_fld_semantic_cal_double_q_sel8_Slot_slot_format_32_0 : field :=
  mkField [Gc 3 12 29]
    [Sc 29 29 0xe0000 17].
Definition Field_fld_semantic_cal_double_q_sel16_Slot_inst : field :=
  mkField [Gc 2 10 30; Gc 1 16 31; Gc 1 27 31]
    [Sc 31 31 0x10 4; Sc 30 31 0x8000 15; Sc 28 30 0x300000 20].
Definition Field_fld_semantic_cal_double_q_sel16_Slot_slot_format_32_0 : field :=
  mkField [Gc 3 12 29; Gc 1 23 31]
    [Sc 31 31 0x100 8; Sc 28 29 0xe0000 17].
Definition Field_fld_semantic_srcmb_qacc_sel2_Slot_inst : field :=
  mkField [Gc 1 21 31]
    [Sc 31 31 0x400 10].
Definition Field_fld_semantic_srcmb_qacc_as_Slot_inst : field :=
  mkField [Gc 4 24 28]
    [Sc 28 28 0xf0 4].
Definition Field_fld_semantic_srcmb_qacc_qu_Slot_inst : field :=
  mkField [Gc 2 10 30; Gc 1 16 31]
    [Sc 31 31 0x8000 15; Sc 29 30 0x300000 20].
Definition Field_fld_ee_srs_accx_sel2_Slot_inst : field :=
  mkField [Gc 1 17 31]
    [Sc 31 31 0x4000 14].
Definition Field_fld_ee_srs_accx_as_Slot_inst : field :=
  mkField [Gc 4 24 28]
    [Sc 28 28 0xf0 4].
Definition Field_fld_ee_srs_accx_au_Slot_inst : field :=
  mkField [Gc 4 20 28]
    [Sc 28 28 0xf00 8].
Definition Field_fld_semantic_cal_double_q_ax_Slot_inst : field :=
  mkField [Gc 4 20 28]
    [Sc 28 28 0xf00 8].
Definition Field_fld_semantic_cal_double_q_qs_Slot_inst : field :=
  mkField [Gc 2 10 30; Gc 1 16 31]
    [Sc 31 31 0x8000 15; Sc 29 30 0x300000 20].
Definition Field_fld_semantic_cal_double_q_ay_Slot_inst : field :=
  mkField [Gc 4 24 28]
    [Sc 28 28 0xf0 4].
Definition Field_fld_semantic_vlogic_qy_Slot_inst : field :=
  mkField [Gc 2 20 30; Gc 1 26 31]
    [Sc 31 31 0x20 5; Sc 29 30 0xc00 10].
Definition Field_fld_semantic_vlogic_qx_Slot_inst : field :=
  mkField [Gc 2 24 30; Gc 1 27 31]
    [Sc 31 31 0x10 4; Sc 29 30 0xc0 6].
Definition Field_fld_semantic_vlogic_qa_Slot_inst : field :=
  mkField [Gc 2 10 30; Gc 1 16 31]
    [Sc 31 31 0x8000 15; Sc 29 30 0x300000 20].
Definition Field_fld_semantic_shfq_sar16_Slot_inst : field :=
  mkField [Gc 4 24 28]
    [Sc 28 28 0xf0 4].
Definition Field_fld_semantic_shfq_qs0_Slot_inst : field :=
  mkField [Gc 3 17 29]
    [Sc 29 29 0x7000 12].
Definition Field_fld_semantic_shfq_qs0_Slot_slot_format_32_0 : field :=
  mkField [Gc 3 15 29]
    [Sc 29 29 0x1c000 14].
Definition Field_fld_semantic_shfq_qs1_Slot_inst : field :=
  mkField [Gc 2 10 30; Gc 1 16 31]
    [Sc 31 31 0x8000 15; Sc 29 30 0x300000 20].
Definition Field_fld_semantic_shfq_qs1_Slot_slot_format_32_0 : field :=
  mkField [Gc 3 21 29]
    [Sc 29 29 0x700 8].
Definition Field_fld_semantic_shfq_ad_Slot_inst : field :=
  mkField [Gc 4 20 28]
    [Sc 28 28 0xf00 8].
Definition Field_fld_semantic_shfq_ad_Slot_slot_format_32_0 : field :=
  mkField [Gc 4 24 28]
    [Sc 28 28 0xf0 4].
Definition Field_fld_semantic_shfq_as_Slot_inst : field :=
  mkField [Gc 4 24 28]
    [Sc 28 28 0xf0 4].
Definition Field_fld_semantic_shfq_as_Slot_slot_format_32_0 : field :=
  mkField [Gc 4 28 28]
    [Sc 28 28 0xf 0].
Definition Field_fld_semantic_shfq_imm16_Slot_slot_format_32_0 : field :=
  mkField [Gc 3 9 29; Gc 3 18 29; Gc 2 26 30]
    [Sc 30 30 0x30 4; Sc 27 29 0x3800 11; Sc 24 29 0x700000 20].
Definition Field_fld_semantic_shfq_qu_Slot_slot_format_32_0 : field :=
  mkField [Gc 3 12 29]
    [Sc 29 29 0xe0000 17].
Definition Field_fld_semantic_shfq_qa_Slot_inst : field :=
  mkField [Gc 3 25 29]
    [Sc 29 29 0x70 4].
Definition Field_fld_semantic_shfq_qs_Slot_inst : field :=
  mkField [Gc 2 10 30; Gc 1 16 31]
    [Sc 31 31 0x8000 15; Sc 29 30 0x300000 20].
Definition Field_fld_semantic_fft_rxbf_sar4_Slot_slot_format_32_0 : field :=
  mkField [Gc 2 19 30]
    [Sc 30 30 0x1800 11].
Definition Field_fld_semantic_fft_rxbf_as_Slot_slot_format_32_0 : field :=
  mkField [Gc 4 28 28]
    [Sc 28 28 0xf 0].
Definition Field_fld_semantic_fft_rxbf_sel2_Slot_inst : field :=
  mkField [Gc 1 23 31]
    [Sc 31 31 0x100 8].
Definition Field_fld_semantic_fft_rxbf_qy_Slot_inst : field :=
  mkField [Gc 2 20 30; Gc 1 26 31]
    [Sc 31 31 0x20 5; Sc 29 30 0xc00 10].
Definition Field_fld_semantic_fft_rxbf_qy_Slot_slot_format_32_0 : field :=
  mkField [Gc 3 21 29]
    [Sc 29 29 0x700 8].
Definition Field_fld_semantic_fft_rxbf_qx_Slot_inst : field :=
  mkField [Gc 2 24 30; Gc 1 27 31]
    [Sc 31 31 0x10 4; Sc 29 30 0xc0 6].
Definition Field_fld_semantic_fft_rxbf_qx_Slot_slot_format_32_0 : field :=
  mkField [Gc 3 15 29]
    [Sc 29 29 0x1c000 14].
Definition Field_fld_semantic_fft_rxbf_qa1_Slot_inst : field :=
  mkField [Gc 3 17 29]
    [Sc 29 29 0x7000 12].
Definition Field_fld_semantic_fft_rxbf_qa0_Slot_inst : field :=
  mkField [Gc 2 10 30; Gc 1 16 31]
    [Sc 31 31 0x8000 15; Sc 29 30 0x300000 20].
Definition Field_fld_semantic_fft_rxbf_qa0_Slot_slot_format_32_0 : field :=
  mkField [Gc 3 12 29]
    [Sc 29 29 0xe0000 17].
Definition Field_fld_ee_fft_cmul_s16_ld_xp_sel8_Slot_slot_format_32_0 : field :=
  mkField [Gc 3 9 29]
    [Sc 29 29 0x700000 20].
Definition Field_fld_ee_fft_cmul_s16_ld_xp_qy_Slot_slot_format_32_0 : field :=
  mkField [Gc 3 21 29]
    [Sc 29 29 0x700 8].
Definition Field_fld_ee_fft_cmul_s16_ld_xp_qx_Slot_slot_format_32_0 : field :=
  mkField [Gc 3 15 29]
    [Sc 29 29 0x1c000 14].
Definition Field_fld_ee_fft_cmul_s16_ld_xp_qz_Slot_slot_format_32_0 : field :=
  mkField [Gc 3 12 29]
    [Sc 29 29 0xe0000 17].
Definition Field_fld_ee_fft_cmul_s16_ld_xp_ad_Slot_slot_format_32_0 : field :=
  mkField [Gc 4 24 28]
    [Sc 28 28 0xf0 4].
Definition Field_fld_ee_fft_cmul_s16_ld_xp_as_Slot_slot_format_32_0 : field :=
  mkField [Gc 4 28 28]
    [Sc 28 28 0xf 0].
Definition Field_fld_ee_fft_cmul_s16_ld_xp_qu_Slot_slot_format_32_0 : field :=
  mkField [Gc 3 18 29]
    [Sc 29 29 0x3800 11].
Definition Field_fld_ee_fft_cmul_s16_st_xp_sar4_Slot_slot_format_32_0 : field :=
  mkField [Gc 2 8 30]
    [Sc 30 30 0xc00000 22].
Definition Field_fld_ee_fft_cmul_s16_st_xp_upd4_Slot_slot_format_32_0 : field :=
  mkField [Gc 2 10 30]
    [Sc 30 30 0x300000 20].
Definition Field_fld_ee_fft_cmul_s16_st_xp_sel8_Slot_slot_format_32_0 : field :=
  mkField [Gc 3 18 29]
    [Sc 29 29 0x3800 11].
Definition Field_fld_ee_fft_cmul_s16_st_xp_ad_Slot_slot_format_32_0 : field :=
  mkField [Gc 4 24 28]
    [Sc 28 28 0xf0 4].
Definition Field_fld_ee_fft_cmul_s16_st_xp_as_Slot_slot_format_32_0 : field :=
  mkField [Gc 4 28 28]
    [Sc 28 28 0xf 0].
Definition Field_fld_ee_fft_cmul_s16_st_xp_qv_Slot_slot_format_32_0 : field :=
  mkField [Gc 3 12 29]
    [Sc 29 29 0xe0000 17].
Definition Field_fld_ee_fft_cmul_s16_st_xp_qy_Slot_slot_format_32_0 : field :=
  mkField [Gc 3 21 29]
    [Sc 29 29 0x700 8].
Definition Field_fld_ee_fft_cmul_s16_st_xp_qx_Slot_slot_format_32_0 : field :=
  mkField [Gc 3 15 29]
    [Sc 29 29 0x1c000 14].
Definition Field_fld_ee_bitrev_ax_Slot_inst : field :=
  mkField [Gc 4 24 28]
    [Sc 28 28 0xf0 4].
Definition Field_fld_ee_bitrev_qa_Slot_inst : field :=
  mkField [Gc 2 10 30; Gc 1 16 31]
    [Sc 31 31 0x8000 15; Sc 29 30 0x300000 20].
Definition Field_fld_ee_fft_ams_s16_ld_incp_sel2_Slot_slot_format_32_0 : field :=
  mkField [Gc 1 9 31]
    [Sc 31 31 0x400000 22].
Definition Field_fld_ee_fft_ams_s16_ld_incp_qm_Slot_slot_format_32_0 : field :=
  mkField [Gc 3 12 29]
    [Sc 29 29 0xe0000 17].
Definition Field_fld_ee_fft_ams_s16_ld_incp_qy_Slot_slot_format_32_0 : field :=
  mkField [Gc 3 21 29]
    [Sc 29 29 0x700 8].
Definition Field_fld_ee_fft_ams_s16_ld_incp_qx_Slot_slot_format_32_0 : field :=
  mkField [Gc 3 15 29]
    [Sc 29 29 0x1c000 14].
Definition Field_fld_ee_fft_ams_s16_ld_incp_qz1_Slot_slot_format_32_0 : field :=
  mkField [Gc 2 10 30; Gc 1 24 31]
    [Sc 31 31 0x80 7; Sc 29 30 0x300000 20].
Definition Field_fld_ee_fft_ams_s16_ld_incp_qz_Slot_slot_format_32_0 : field :=
  mkField [Gc 3 18 29]
    [Sc 29 29 0x3800 11].
Definition Field_fld_ee_fft_ams_s16_ld_incp_as_Slot_slot_format_32_0 : field :=
  mkField [Gc 4 28 28]
    [Sc 28 28 0xf 0].
Definition Field_fld_ee_fft_ams_s16_ld_incp_qu_Slot_slot_format_32_0 : field :=
  mkField [Gc 3 25 29]
    [Sc 29 29 0x70 4].
Definition Field_fld_ee_fft_ams_s16_ld_incp_uaup_sel2_Slot_slot_format_32_0 : field :=
  mkField [Gc 1 9 31]
    [Sc 31 31 0x400000 22].
Definition Field_fld_ee_fft_ams_s16_ld_incp_uaup_qm_Slot_slot_format_32_0 : field :=
  mkField [Gc 3 12 29]
    [Sc 29 29 0xe0000 17].
Definition Field_fld_ee_fft_ams_s16_ld_incp_uaup_qy_Slot_slot_format_32_0 : field :=
  mkField [Gc 3 21 29]
    [Sc 29 29 0x700 8].
Definition Field_fld_ee_fft_ams_s16_ld_incp_uaup_qx_Slot_slot_format_32_0 : field :=
  mkField [Gc 3 15 29]
    [Sc 29 29 0x1c000 14].
Definition Field_fld_ee_fft_ams_s16_ld_incp_uaup_qz1_Slot_slot_format_32_0 : field :=
  mkField [Gc 2 10 30; Gc 1 24 31]
    [Sc 31 31 0x80 7; Sc 29 30 0x300000 20].
Definition Field_fld_ee_fft_ams_s16_ld_incp_uaup_qz_Slot_slot_format_32_0 : field :=
  mkField [Gc 3 18 29]
    [Sc 29 29 0x3800 11].
Definition Field_fld_ee_fft_ams_s16_ld_incp_uaup_as_Slot_slot_format_32_0 : field :=
  mkField [Gc 4 28 28]
    [Sc 28 28 0xf 0].
Definition Field_fld_ee_fft_ams_s16_ld_incp_uaup_qu_Slot_slot_format_32_0 : field :=
  mkField [Gc 3 25 29]
    [Sc 29 29 0x70 4].
Definition Field_fld_ee_fft_ams_s16_ld_r32_decp_sel2_Slot_slot_format_32_0 : field :=
  mkField [Gc 1 9 31]
    [Sc 31 31 0x400000 22].
Definition Field_fld_ee_fft_ams_s16_ld_r32_decp_qm_Slot_slot_format_32_0 : field :=
  mkField [Gc 3 12 29]
    [Sc 29 29 0xe0000 17].
Definition Field_fld_ee_fft_ams_s16_ld_r32_decp_qy_Slot_slot_format_32_0 : field :=
  mkField [Gc 3 21 29]
    [Sc 29 29 0x700 8].
Definition Field_fld_ee_fft_ams_s16_ld_r32_decp_qx_Slot_slot_format_32_0 : field :=
  mkField [Gc 3 15 29]
    [Sc 29 29 0x1c000 14].
Definition Field_fld_ee_fft_ams_s16_ld_r32_decp_qz1_Slot_slot_format_32_0 : field :=
  mkField [Gc 2 10 30; Gc 1 24 31]
    [Sc 31 31 0x80 7; Sc 29 30 0x300000 20].
Definition Field_fld_ee_fft_ams_s16_ld_r32_decp_qz_Slot_slot_format_32_0 : field :=
  mkField [Gc 3 18 29]
    [Sc 29 29 0x3800 11].
Definition Field_fld_ee_fft_ams_s16_ld_r32_decp_as_Slot_slot_format_32_0 : field :=
  mkField [Gc 4 28 28]
    [Sc 28 28 0xf 0].
Definition Field_fld_ee_fft_ams_s16_ld_r32_decp_qu_Slot_slot_format_32_0 : field :=
  mkField [Gc 3 25 29]
    [Sc 29 29 0x70 4].
Definition Field_fld_ee_fft_ams_s16_st_incp_sel2_Slot_slot_format_32_0 : field :=
  mkField [Gc 1 8 31]
    [Sc 31 31 0x800000 23].
Definition Field_fld_ee_fft_ams_s16_st_incp_qm_Slot_slot_format_32_0 : field :=
  mkField [Gc 3 18 29]
    [Sc 29 29 0x3800 11].
Definition Field_fld_ee_fft_ams_s16_st_incp_qy_Slot_slot_format_32_0 : field :=
  mkField [Gc 3 15 29]
    [Sc 29 29 0x1c000 14].
Definition Field_fld_ee_fft_ams_s16_st_incp_qx_Slot_slot_format_32_0 : field :=
  mkField [Gc 3 12 29]
    [Sc 29 29 0xe0000 17].
Definition Field_fld_ee_fft_ams_s16_st_incp_as_Slot_slot_format_32_0 : field :=
  mkField [Gc 4 24 28]
    [Sc 28 28 0xf0 4].
Definition Field_fld_ee_fft_ams_s16_st_incp_as0_Slot_slot_format_32_0 : field :=
  mkField [Gc 4 28 28]
    [Sc 28 28 0xf 0].
Definition Field_fld_ee_fft_ams_s16_st_incp_qz1_Slot_slot_format_32_0 : field :=
  mkField [Gc 3 9 29]
    [Sc 29 29 0x700000 20].
Definition Field_fld_ee_fft_ams_s16_st_incp_qv_Slot_slot_format_32_0 : field :=
  mkField [Gc 3 21 29]
    [Sc 29 29 0x700 8].
Definition Field_fld_ee_fft_vst_r32_decp_sar2_Slot_inst : field :=
  mkField [Gc 1 21 31]
    [Sc 31 31 0x400 10].
Definition Field_fld_ee_fft_vst_r32_decp_as_Slot_inst : field :=
  mkField [Gc 4 24 28]
    [Sc 28 28 0xf0 4].
Definition Field_fld_ee_fft_vst_r32_decp_qv_Slot_inst : field :=
  mkField [Gc 2 10 30; Gc 1 16 31]
    [Sc 31 31 0x8000 15; Sc 29 30 0x300000 20].

(** ** Implicit fields *)

Definition Implicit_Field_ar0_get : getter := Implicit 0.
Definition Implicit_Field_ar4_get : getter := Implicit 4.
Definition Implicit_Field_ar8_get : getter := Implicit 8.
Definition Implicit_Field_ar12_get : getter := Implicit 12.
Definition Implicit_Field_mr0_get : getter := Implicit 0.
Definition Implicit_Field_mr1_get : getter := Implicit 1.
Definition Implicit_Field_mr2_get : getter := Implicit 2.
Definition Implicit_Field_mr3_get : getter := Implicit 3.
Definition Implicit_Field_bt16_get : getter := Implicit 0.
Definition Implicit_Field_bs16_get : getter := Implicit 0.
Definition Implicit_Field_br16_get : getter := Implicit 0.
Definition Implicit_Field_brall_get : getter := Implicit 0.

(** ** Tables by field number *)

Definition Slot_inst_get_field_fns_1 : list (option getter) := [Some (Get Field_t_Slot_inst);
   Some (Get Field_bbi4_Slot_inst); Some (Get Field_bbi_Slot_inst); Some (Get Field_imm12_Slot_inst);
   Some (Get Field_imm8_Slot_inst); Some (Get Field_s_Slot_inst); Some (Get Field_imm12b_Slot_inst);
   Some (Get Field_imm16_Slot_inst); Some (Get Field_m_Slot_inst); Some (Get Field_n_Slot_inst);
   Some (Get Field_offset_Slot_inst); Some (Get Field_op0_Slot_inst); Some (Get Field_op1_Slot_inst);
   Some (Get Field_op2_Slot_inst); Some (Get Field_r_Slot_inst); Some (Get Field_sa4_Slot_inst);
   Some (Get Field_sae4_Slot_inst); Some (Get Field_sae_Slot_inst); Some (Get Field_sal_Slot_inst);
   Some (Get Field_sargt_Slot_inst); Some (Get Field_sas4_Slot_inst); Some (Get Field_sas_Slot_inst);
   Some (Get Field_sr_Slot_inst); Some (Get Field_st_Slot_inst); Some (Get Field_thi3_Slot_inst);
   Some (Get Field_imm4_Slot_inst); Some (Get Field_mn_Slot_inst); None; None; None; None; None; None;
   None; None; Some (Get Field_r3_Slot_inst); Some (Get Field_rbit2_Slot_inst);
   Some (Get Field_rhi_Slot_inst); Some (Get Field_t3_Slot_inst); Some (Get Field_tbit2_Slot_inst);
   Some (Get Field_tlo_Slot_inst); Some (Get Field_w_Slot_inst); Some (Get Field_y_Slot_inst);
   Some (Get Field_x_Slot_inst); Some (Get Field_t2_Slot_inst); Some (Get Field_s2_Slot_inst);
   Some (Get Field_r2_Slot_inst); Some (Get Field_t4_Slot_inst); Some (Get Field_s4_Slot_inst);
   Some (Get Field_r4_Slot_inst); Some (Get Field_t8_Slot_inst); Some (Get Field_s8_Slot_inst);
   Some (Get Field_r8_Slot_inst); Some (Get Field_xt_wbr15_imm_Slot_inst);
   Some (Get Field_xt_wbr18_imm_Slot_inst); None; None; Some (Get Field_fld_st_qr_b_Slot_inst);
   Some (Get Field_fld_st_qr_a_Slot_inst); Some (Get Field_fld_ld_qr_b_Slot_inst);
   Some (Get Field_fld_ld_qr_a_Slot_inst); Some (Get Field_fld_qr_Slot_inst);
   Some (Get Field_fld_inst_4_0_Slot_inst); Some (Get Field_fld_inst_9_6_Slot_inst);
   Some (Get Field_fld_mv_qr_b_Slot_inst); Some (Get Field_fld_mv_qr_a_Slot_inst);
   Some (Get Field_fld_ee_wr_mask_gpio_out_mask_Slot_inst);
   Some (Get Field_fld_ee_wr_mask_gpio_out_value_Slot_inst);
   Some (Get Field_fld_ee_set_bit_gpio_out_mask_Slot_inst);
   Some (Get Field_fld_ee_clr_bit_gpio_out_clear_Slot_inst); Some (Get Field_fld_inst_23_8_Slot_inst);
   Some (Get Field_fld_ee_get_gpio_in_au_Slot_inst); Some (Get Field_fld_inst_23_22_Slot_inst);
   Some (Get Field_fld_semantic_ld_st_imm2_Slot_inst); Some (Get Field_fld_inst_14_8_Slot_inst);
   Some (Get Field_fld_semantic_ld_st_imm1_Slot_inst); Some (Get Field_fld_inst_11_8_Slot_inst);
   Some (Get Field_fld_semantic_ld_st_qu1_Slot_inst); None;
   Some (Get Field_fld_semantic_ld_st_as_Slot_inst); Some (Get Field_fld_semantic_ld_st_fu0_Slot_inst);
   Some (Get Field_fld_semantic_ld_st_fu1_Slot_inst); None; None; None;
   Some (Get Field_fld_semantic_ld_st_ad_Slot_inst); Some (Get Field_fld_semantic_ld_st_imm8_Slot_inst);
   None; Some (Get Field_fld_inst_3_0_Slot_inst); Some (Get Field_fld_inst_19_16_Slot_inst);
   Some (Get Field_fld_inst_23_23_Slot_inst); Some (Get Field_fld_inst_14_12_Slot_inst);
   Some (Get Field_fld_inst_21_15_Slot_inst); Some (Get Field_fld_semantic_ld_st_imm16_Slot_inst);
   Some (Get Field_fld_inst_23_12_Slot_inst); Some (Get Field_fld_semantic_ld_st_imm4_Slot_inst); None;
   None; None; Some (Get Field_fld_semantic_ld_st_qu_Slot_inst); None;
   Some (Get Field_fld_semantic_ld_st_fv0_Slot_inst); Some (Get Field_fld_semantic_ld_st_fv1_Slot_inst);
   None; None; Some (Get Field_fld_semantic_ld_st_qv_Slot_inst);
   Some (Get Field_fld_ee_movi_32_a_sel4_Slot_inst); Some (Get Field_fld_ee_movi_32_a_au_Slot_inst);
   Some (Get Field_fld_ee_movi_32_a_qs_Slot_inst); Some (Get Field_fld_ee_movi_32_q_sel4_Slot_inst);
   Some (Get Field_fld_ee_movi_32_q_as_Slot_inst); Some (Get Field_fld_ee_movi_32_q_qu_Slot_inst);
   Some (Get Field_fld_ee_vzip_16_qs1_Slot_inst); Some (Get Field_fld_ee_vzip_16_qs0_Slot_inst);
   Some (Get Field_fld_ee_vzip_32_qs1_Slot_inst); Some (Get Field_fld_ee_vzip_32_qs0_Slot_inst);
   Some (Get Field_fld_ee_vzip_8_qs1_Slot_inst); Some (Get Field_fld_ee_vzip_8_qs0_Slot_inst);
   Some (Get Field_fld_inst_11_0_Slot_inst); Some (Get Field_fld_ee_vunzip_16_qs1_Slot_inst);
   Some (Get Field_fld_ee_vunzip_16_qs0_Slot_inst); Some (Get Field_fld_ee_vunzip_32_qs1_Slot_inst);
   Some (Get Field_fld_ee_vunzip_32_qs0_Slot_inst); Some (Get Field_fld_ee_vunzip_8_qs1_Slot_inst);
   Some (Get Field_fld_ee_vunzip_8_qs0_Slot_inst); Some (Get Field_fld_inst_23_0_Slot_inst);
   Some (Get Field_fld_ee_zero_q_qa_Slot_inst); Some (Get Field_fld_inst_14_0_Slot_inst);
   Some (Get Field_fld_ee_mov_s16_qacc_qs_Slot_inst); Some (Get Field_fld_ee_mov_s8_qacc_qs_Slot_inst)].
Definition Slot_inst_get_field_fns_2 : list (option getter) := [
   Some (Get Field_fld_ee_mov_u16_qacc_qs_Slot_inst); Some (Get Field_fld_ee_mov_u8_qacc_qs_Slot_inst);
   None; Some (Get Field_fld_inst_7_0_Slot_inst); Some (Get Field_fld_semantic_cal_double_q_qa_Slot_inst);
   Some (Get Field_fld_semantic_cal_double_q_as_Slot_inst);
   Some (Get Field_fld_semantic_cal_double_q_qu_Slot_inst); None; None; None;
   Some (Get Field_fld_inst_7_6_Slot_inst); Some (Get Field_fld_semantic_cal_double_q_sel4_Slot_inst);
   Some (Get Field_fld_semantic_cal_double_q_qy_Slot_inst);
   Some (Get Field_fld_semantic_cal_double_q_qx_Slot_inst);
   Some (Get Field_fld_semantic_cal_double_q_qz_Slot_inst); None; None; None; None; None; None; None; None;
   None; Some (Get Field_fld_inst_23_21_Slot_inst);
   Some (Get Field_fld_semantic_cal_double_q_sel8_Slot_inst); None;
   Some (Get Field_fld_inst_7_5_Slot_inst); Some (Get Field_fld_semantic_cal_double_q_sel16_Slot_inst);
   Some (Get Field_fld_inst_14_11_Slot_inst); Some (Get Field_fld_semantic_srcmb_qacc_sel2_Slot_inst);
   Some (Get Field_fld_semantic_srcmb_qacc_as_Slot_inst);
   Some (Get Field_fld_semantic_srcmb_qacc_qu_Slot_inst); Some (Get Field_fld_inst_13_12_Slot_inst);
   Some (Get Field_fld_inst_23_15_Slot_inst); Some (Get Field_fld_ee_srs_accx_sel2_Slot_inst);
   Some (Get Field_fld_ee_srs_accx_as_Slot_inst); Some (Get Field_fld_ee_srs_accx_au_Slot_inst);
   Some (Get Field_fld_semantic_cal_double_q_ax_Slot_inst);
   Some (Get Field_fld_semantic_cal_double_q_qs_Slot_inst); Some (Get Field_fld_inst_13_13_Slot_inst);
   Some (Get Field_fld_semantic_cal_double_q_ay_Slot_inst); Some (Get Field_fld_inst_9_8_Slot_inst);
   Some (Get Field_fld_semantic_vlogic_qy_Slot_inst); Some (Get Field_fld_semantic_vlogic_qx_Slot_inst);
   Some (Get Field_fld_semantic_vlogic_qa_Slot_inst); Some (Get Field_fld_inst_5_5_Slot_inst);
   Some (Get Field_fld_semantic_shfq_sar16_Slot_inst); Some (Get Field_fld_semantic_shfq_qs0_Slot_inst);
   Some (Get Field_fld_semantic_shfq_qs1_Slot_inst); Some (Get Field_fld_semantic_shfq_ad_Slot_inst);
   Some (Get Field_fld_semantic_shfq_as_Slot_inst); None; None; None; None;
   Some (Get Field_fld_inst_11_7_Slot_inst); Some (Get Field_fld_semantic_shfq_qa_Slot_inst);
   Some (Get Field_fld_inst_14_7_Slot_inst); Some (Get Field_fld_semantic_shfq_qs_Slot_inst); None; None;
   None; Some (Get Field_fld_inst_9_9_Slot_inst); Some (Get Field_fld_semantic_fft_rxbf_sel2_Slot_inst);
   Some (Get Field_fld_semantic_fft_rxbf_qy_Slot_inst);
   Some (Get Field_fld_semantic_fft_rxbf_qx_Slot_inst);
   Some (Get Field_fld_semantic_fft_rxbf_qa1_Slot_inst);
   Some (Get Field_fld_semantic_fft_rxbf_qa0_Slot_inst); None; None; None; None; None; None; None; None;
   None; None; None; None; None; None; None; Some (Get Field_fld_ee_bitrev_ax_Slot_inst);
   Some (Get Field_fld_ee_bitrev_qa_Slot_inst); None; None; None; None; None; None; None; None; None; None;
   None; None; None; None; None; None; None; None; None; None; None; None; None; None; None; None; None;
   None; None; None; None; None; Some (Get Field_fld_ee_fft_vst_r32_decp_sar2_Slot_inst);
   Some (Get Field_fld_ee_fft_vst_r32_decp_as_Slot_inst);
   Some (Get Field_fld_ee_fft_vst_r32_decp_qv_Slot_inst); Some Implicit_Field_ar0_get;
   Some Implicit_Field_ar4_get; Some Implicit_Field_ar8_get; Some Implicit_Field_ar12_get;
   Some Implicit_Field_mr0_get; Some Implicit_Field_mr1_get; Some Implicit_Field_mr2_get;
   Some Implicit_Field_mr3_get; Some Implicit_Field_bt16_get].
Definition Slot_inst_get_field_fns_3 : list (option getter) := [Some Implicit_Field_bs16_get;
   Some Implicit_Field_br16_get; Some Implicit_Field_brall_get].
Definition Slot_inst_get_field_fns : list (option getter) := Slot_inst_get_field_fns_1 ++ Slot_inst_get_field_fns_2 ++ Slot_inst_get_field_fns_3.

Definition Slot_inst_set_field_fns_1 : list (option setter) := [Some (Set_ Field_t_Slot_inst);
   Some (Set_ Field_bbi4_Slot_inst); Some (Set_ Field_bbi_Slot_inst); Some (Set_ Field_imm12_Slot_inst);
   Some (Set_ Field_imm8_Slot_inst); Some (Set_ Field_s_Slot_inst); Some (Set_ Field_imm12b_Slot_inst);
   Some (Set_ Field_imm16_Slot_inst); Some (Set_ Field_m_Slot_inst); Some (Set_ Field_n_Slot_inst);
   Some (Set_ Field_offset_Slot_inst); Some (Set_ Field_op0_Slot_inst); Some (Set_ Field_op1_Slot_inst);
   Some (Set_ Field_op2_Slot_inst); Some (Set_ Field_r_Slot_inst); Some (Set_ Field_sa4_Slot_inst);
   Some (Set_ Field_sae4_Slot_inst); Some (Set_ Field_sae_Slot_inst); Some (Set_ Field_sal_Slot_inst);
   Some (Set_ Field_sargt_Slot_inst); Some (Set_ Field_sas4_Slot_inst); Some (Set_ Field_sas_Slot_inst);
   Some (Set_ Field_sr_Slot_inst); Some (Set_ Field_st_Slot_inst); Some (Set_ Field_thi3_Slot_inst);
   Some (Set_ Field_imm4_Slot_inst); Some (Set_ Field_mn_Slot_inst); None; None; None; None; None; None;
   None; None; Some (Set_ Field_r3_Slot_inst); Some (Set_ Field_rbit2_Slot_inst);
   Some (Set_ Field_rhi_Slot_inst); Some (Set_ Field_t3_Slot_inst); Some (Set_ Field_tbit2_Slot_inst);
   Some (Set_ Field_tlo_Slot_inst); Some (Set_ Field_w_Slot_inst); Some (Set_ Field_y_Slot_inst);
   Some (Set_ Field_x_Slot_inst); Some (Set_ Field_t2_Slot_inst); Some (Set_ Field_s2_Slot_inst);
   Some (Set_ Field_r2_Slot_inst); Some (Set_ Field_t4_Slot_inst); Some (Set_ Field_s4_Slot_inst);
   Some (Set_ Field_r4_Slot_inst); Some (Set_ Field_t8_Slot_inst); Some (Set_ Field_s8_Slot_inst);
   Some (Set_ Field_r8_Slot_inst); Some (Set_ Field_xt_wbr15_imm_Slot_inst);
   Some (Set_ Field_xt_wbr18_imm_Slot_inst); None; None; Some (Set_ Field_fld_st_qr_b_Slot_inst);
   Some (Set_ Field_fld_st_qr_a_Slot_inst); Some (Set_ Field_fld_ld_qr_b_Slot_inst);
   Some (Set_ Field_fld_ld_qr_a_Slot_inst); Some (Set_ Field_fld_qr_Slot_inst);
   Some (Set_ Field_fld_inst_4_0_Slot_inst); Some (Set_ Field_fld_inst_9_6_Slot_inst);
   Some (Set_ Field_fld_mv_qr_b_Slot_inst); Some (Set_ Field_fld_mv_qr_a_Slot_inst);
   Some (Set_ Field_fld_ee_wr_mask_gpio_out_mask_Slot_inst);
   Some (Set_ Field_fld_ee_wr_mask_gpio_out_value_Slot_inst);
   Some (Set_ Field_fld_ee_set_bit_gpio_out_mask_Slot_inst);
   Some (Set_ Field_fld_ee_clr_bit_gpio_out_clear_Slot_inst); Some (Set_ Field_fld_inst_23_8_Slot_inst);
   Some (Set_ Field_fld_ee_get_gpio_in_au_Slot_inst); Some (Set_ Field_fld_inst_23_22_Slot_inst);
   Some (Set_ Field_fld_semantic_ld_st_imm2_Slot_inst); Some (Set_ Field_fld_inst_14_8_Slot_inst);
   Some (Set_ Field_fld_semantic_ld_st_imm1_Slot_inst); Some (Set_ Field_fld_inst_11_8_Slot_inst);
   Some (Set_ Field_fld_semantic_ld_st_qu1_Slot_inst); None;
   Some (Set_ Field_fld_semantic_ld_st_as_Slot_inst); Some (Set_ Field_fld_semantic_ld_st_fu0_Slot_inst);
   Some (Set_ Field_fld_semantic_ld_st_fu1_Slot_inst); None; None; None;
   Some (Set_ Field_fld_semantic_ld_st_ad_Slot_inst); Some (Set_ Field_fld_semantic_ld_st_imm8_Slot_inst);
   None; Some (Set_ Field_fld_inst_3_0_Slot_inst); Some (Set_ Field_fld_inst_19_16_Slot_inst);
   Some (Set_ Field_fld_inst_23_23_Slot_inst); Some (Set_ Field_fld_inst_14_12_Slot_inst);
   Some (Set_ Field_fld_inst_21_15_Slot_inst); Some (Set_ Field_fld_semantic_ld_st_imm16_Slot_inst);
   Some (Set_ Field_fld_inst_23_12_Slot_inst); Some (Set_ Field_fld_semantic_ld_st_imm4_Slot_inst); None;
   None; None; Some (Set_ Field_fld_semantic_ld_st_qu_Slot_inst); None;
   Some (Set_ Field_fld_semantic_ld_st_fv0_Slot_inst); Some (Set_ Field_fld_semantic_ld_st_fv1_Slot_inst);
   None; None; Some (Set_ Field_fld_semantic_ld_st_qv_Slot_inst);
   Some (Set_ Field_fld_ee_movi_32_a_sel4_Slot_inst); Some (Set_ Field_fld_ee_movi_32_a_au_Slot_inst);
   Some (Set_ Field_fld_ee_movi_32_a_qs_Slot_inst); Some (Set_ Field_fld_ee_movi_32_q_sel4_Slot_inst);
   Some (Set_ Field_fld_ee_movi_32_q_as_Slot_inst); Some (Set_ Field_fld_ee_movi_32_q_qu_Slot_inst);
   Some (Set_ Field_fld_ee_vzip_16_qs1_Slot_inst); Some (Set_ Field_fld_ee_vzip_16_qs0_Slot_inst);
   Some (Set_ Field_fld_ee_vzip_32_qs1_Slot_inst); Some (Set_ Field_fld_ee_vzip_32_qs0_Slot_inst);
   Some (Set_ Field_fld_ee_vzip_8_qs1_Slot_inst); Some (Set_ Field_fld_ee_vzip_8_qs0_Slot_inst);
   Some (Set_ Field_fld_inst_11_0_Slot_inst); Some (Set_ Field_fld_ee_vunzip_16_qs1_Slot_inst);
   Some (Set_ Field_fld_ee_vunzip_16_qs0_Slot_inst); Some (Set_ Field_fld_ee_vunzip_32_qs1_Slot_inst);
   Some (Set_ Field_fld_ee_vunzip_32_qs0_Slot_inst); Some (Set_ Field_fld_ee_vunzip_8_qs1_Slot_inst);
   Some (Set_ Field_fld_ee_vunzip_8_qs0_Slot_inst); Some (Set_ Field_fld_inst_23_0_Slot_inst);
   Some (Set_ Field_fld_ee_zero_q_qa_Slot_inst); Some (Set_ Field_fld_inst_14_0_Slot_inst);
   Some (Set_ Field_fld_ee_mov_s16_qacc_qs_Slot_inst); Some (Set_ Field_fld_ee_mov_s8_qacc_qs_Slot_inst)].
Definition Slot_inst_set_field_fns_2 : list (option setter) := [
   Some (Set_ Field_fld_ee_mov_u16_qacc_qs_Slot_inst); Some (Set_ Field_fld_ee_mov_u8_qacc_qs_Slot_inst);
   None; Some (Set_ Field_fld_inst_7_0_Slot_inst);
   Some (Set_ Field_fld_semantic_cal_double_q_qa_Slot_inst);
   Some (Set_ Field_fld_semantic_cal_double_q_as_Slot_inst);
   Some (Set_ Field_fld_semantic_cal_double_q_qu_Slot_inst); None; None; None;
   Some (Set_ Field_fld_inst_7_6_Slot_inst); Some (Set_ Field_fld_semantic_cal_double_q_sel4_Slot_inst);
   Some (Set_ Field_fld_semantic_cal_double_q_qy_Slot_inst);
   Some (Set_ Field_fld_semantic_cal_double_q_qx_Slot_inst);
   Some (Set_ Field_fld_semantic_cal_double_q_qz_Slot_inst); None; None; None; None; None; None; None;
   None; None; Some (Set_ Field_fld_inst_23_21_Slot_inst);
   Some (Set_ Field_fld_semantic_cal_double_q_sel8_Slot_inst); None;
   Some (Set_ Field_fld_inst_7_5_Slot_inst); Some (Set_ Field_fld_semantic_cal_double_q_sel16_Slot_inst);
   Some (Set_ Field_fld_inst_14_11_Slot_inst); Some (Set_ Field_fld_semantic_srcmb_qacc_sel2_Slot_inst);
   Some (Set_ Field_fld_semantic_srcmb_qacc_as_Slot_inst);
   Some (Set_ Field_fld_semantic_srcmb_qacc_qu_Slot_inst); Some (Set_ Field_fld_inst_13_12_Slot_inst);
   Some (Set_ Field_fld_inst_23_15_Slot_inst); Some (Set_ Field_fld_ee_srs_accx_sel2_Slot_inst);
   Some (Set_ Field_fld_ee_srs_accx_as_Slot_inst); Some (Set_ Field_fld_ee_srs_accx_au_Slot_inst);
   Some (Set_ Field_fld_semantic_cal_double_q_ax_Slot_inst);
   Some (Set_ Field_fld_semantic_cal_double_q_qs_Slot_inst); Some (Set_ Field_fld_inst_13_13_Slot_inst);
   Some (Set_ Field_fld_semantic_cal_double_q_ay_Slot_inst); Some (Set_ Field_fld_inst_9_8_Slot_inst);
   Some (Set_ Field_fld_semantic_vlogic_qy_Slot_inst); Some (Set_ Field_fld_semantic_vlogic_qx_Slot_inst);
   Some (Set_ Field_fld_semantic_vlogic_qa_Slot_inst); Some (Set_ Field_fld_inst_5_5_Slot_inst);
   Some (Set_ Field_fld_semantic_shfq_sar16_Slot_inst); Some (Set_ Field_fld_semantic_shfq_qs0_Slot_inst);
   Some (Set_ Field_fld_semantic_shfq_qs1_Slot_inst); Some (Set_ Field_fld_semantic_shfq_ad_Slot_inst);
   Some (Set_ Field_fld_semantic_shfq_as_Slot_inst); None; None; None; None;
   Some (Set_ Field_fld_inst_11_7_Slot_inst); Some (Set_ Field_fld_semantic_shfq_qa_Slot_inst);
   Some (Set_ Field_fld_inst_14_7_Slot_inst); Some (Set_ Field_fld_semantic_shfq_qs_Slot_inst); None; None;
   None; Some (Set_ Field_fld_inst_9_9_Slot_inst); Some (Set_ Field_fld_semantic_fft_rxbf_sel2_Slot_inst);
   Some (Set_ Field_fld_semantic_fft_rxbf_qy_Slot_inst);
   Some (Set_ Field_fld_semantic_fft_rxbf_qx_Slot_inst);
   Some (Set_ Field_fld_semantic_fft_rxbf_qa1_Slot_inst);
   Some (Set_ Field_fld_semantic_fft_rxbf_qa0_Slot_inst); None; None; None; None; None; None; None; None;
   None; None; None; None; None; None; None; Some (Set_ Field_fld_ee_bitrev_ax_Slot_inst);
   Some (Set_ Field_fld_ee_bitrev_qa_Slot_inst); None; None; None; None; None; None; None; None; None;
   None; None; None; None; None; None; None; None; None; None; None; None; None; None; None; None; None;
   None; None; None; None; None; None; Some (Set_ Field_fld_ee_fft_vst_r32_decp_sar2_Slot_inst);
   Some (Set_ Field_fld_ee_fft_vst_r32_decp_as_Slot_inst);
   Some (Set_ Field_fld_ee_fft_vst_r32_decp_qv_Slot_inst); Some Implicit_set; Some Implicit_set;
   Some Implicit_set; Some Implicit_set; Some Implicit_set; Some Implicit_set; Some Implicit_set;
   Some Implicit_set; Some Implicit_set].
Definition Slot_inst_set_field_fns_3 : list (option setter) := [Some Implicit_set; Some Implicit_set;
   Some Implicit_set].
Definition Slot_inst_set_field_fns : list (option setter) := Slot_inst_set_field_fns_1 ++ Slot_inst_set_field_fns_2 ++ Slot_inst_set_field_fns_3.

Definition Slot_inst16a_get_field_fns_1 : list (option getter) := [Some (Get Field_t_Slot_inst16a); None;
   None; None; None; Some (Get Field_s_Slot_inst16a); None; None; None; None; None;
   Some (Get Field_op0_Slot_inst16a); None; None; Some (Get Field_r_Slot_inst16a); None; None; None; None;
   None; None; None; Some (Get Field_sr_Slot_inst16a); Some (Get Field_st_Slot_inst16a); None;
   Some (Get Field_imm4_Slot_inst16a); None; Some (Get Field_i_Slot_inst16a);
   Some (Get Field_imm6lo_Slot_inst16a); Some (Get Field_imm6hi_Slot_inst16a);
   Some (Get Field_imm7lo_Slot_inst16a); Some (Get Field_imm7hi_Slot_inst16a);
   Some (Get Field_z_Slot_inst16a); Some (Get Field_imm6_Slot_inst16a); Some (Get Field_imm7_Slot_inst16a);
   None; None; None; None; None; None; None; None; None; Some (Get Field_t2_Slot_inst16a);
   Some (Get Field_s2_Slot_inst16a); Some (Get Field_r2_Slot_inst16a); Some (Get Field_t4_Slot_inst16a);
   Some (Get Field_s4_Slot_inst16a); Some (Get Field_r4_Slot_inst16a); Some (Get Field_t8_Slot_inst16a);
   Some (Get Field_s8_Slot_inst16a); Some (Get Field_r8_Slot_inst16a); None; None; None; None; None; None;
   None; None; None; None; None; None; None; None; None; None; None; None; None; None; None; None; None;
   None; None; None; None; None; None; None; None; None; None; None; None; None; None; None; None; None;
   None; None; None; None; None; None; None; None; None; None; None; None; None; None; None; None; None;
   None; None; None; None; None; None; None; None; None; None; None; None; None; None; None; None; None;
   None; None; None].
Definition Slot_inst16a_get_field_fns_2 : list (option getter) := [None; None; None; None; None; None;
   None; None; None; None; None; None; None; None; None; None; None; None; None; None; None; None; None;
   None; None; None; None; None; None; None; None; None; None; None; None; None; None; None; None; None;
   None; None; None; None; None; None; None; None; None; None; None; None; None; None; None; None; None;
   None; None; None; None; None; None; None; None; None; None; None; None; None; None; None; None; None;
   None; None; None; None; None; None; None; None; None; None; None; None; None; None; None; None; None;
   None; None; None; None; None; None; None; None; None; None; None; None; None; None; None; None; None;
   None; None; None; None; None; None; None; None; None; None; None; None; None;
   Some Implicit_Field_ar0_get; Some Implicit_Field_ar4_get; Some Implicit_Field_ar8_get;
   Some Implicit_Field_ar12_get; Some Implicit_Field_mr0_get; Some Implicit_Field_mr1_get;
   Some Implicit_Field_mr2_get; Some Implicit_Field_mr3_get; Some Implicit_Field_bt16_get].
Definition Slot_inst16a_get_field_fns_3 : list (option getter) := [Some Implicit_Field_bs16_get;
   Some Implicit_Field_br16_get; Some Implicit_Field_brall_get].
Definition Slot_inst16a_get_field_fns : list (option getter) := Slot_inst16a_get_field_fns_1 ++ Slot_inst16a_get_field_fns_2 ++ Slot_inst16a_get_field_fns_3.

Definition Slot_inst16a_set_field_fns_1 : list (option setter) := [Some (Set_ Field_t_Slot_inst16a); None;
   None; None; None; Some (Set_ Field_s_Slot_inst16a); None; None; None; None; None;
   Some (Set_ Field_op0_Slot_inst16a); None; None; Some (Set_ Field_r_Slot_inst16a); None; None; None;
   None; None; None; None; Some (Set_ Field_sr_Slot_inst16a); Some (Set_ Field_st_Slot_inst16a); None;
   Some (Set_ Field_imm4_Slot_inst16a); None; Some (Set_ Field_i_Slot_inst16a);
   Some (Set_ Field_imm6lo_Slot_inst16a); Some (Set_ Field_imm6hi_Slot_inst16a);
   Some (Set_ Field_imm7lo_Slot_inst16a); Some (Set_ Field_imm7hi_Slot_inst16a);
   Some (Set_ Field_z_Slot_inst16a); Some (Set_ Field_imm6_Slot_inst16a);
   Some (Set_ Field_imm7_Slot_inst16a); None; None; None; None; None; None; None; None; None;
   Some (Set_ Field_t2_Slot_inst16a); Some (Set_ Field_s2_Slot_inst16a); Some (Set_ Field_r2_Slot_inst16a);
   Some (Set_ Field_t4_Slot_inst16a); Some (Set_ Field_s4_Slot_inst16a); Some (Set_ Field_r4_Slot_inst16a);
   Some (Set_ Field_t8_Slot_inst16a); Some (Set_ Field_s8_Slot_inst16a); Some (Set_ Field_r8_Slot_inst16a);
   None; None; None; None; None; None; None; None; None; None; None; None; None; None; None; None; None;
   None; None; None; None; None; None; None; None; None; None; None; None; None; None; None; None; None;
   None; None; None; None; None; None; None; None; None; None; None; None; None; None; None; None; None;
   None; None; None; None; None; None; None; None; None; None; None; None; None; None; None; None; None;
   None; None; None; None; None; None; None; None; None].
Definition Slot_inst16a_set_field_fns_2 : list (option setter) := [None; None; None; None; None; None;
   None; None; None; None; None; None; None; None; None; None; None; None; None; None; None; None; None;
   None; None; None; None; None; None; None; None; None; None; None; None; None; None; None; None; None;
   None; None; None; None; None; None; None; None; None; None; None; None; None; None; None; None; None;
   None; None; None; None; None; None; None; None; None; None; None; None; None; None; None; None; None;
   None; None; None; None; None; None; None; None; None; None; None; None; None; None; None; None; None;
   None; None; None; None; None; None; None; None; None; None; None; None; None; None; None; None; None;
   None; None; None; None; None; None; None; None; None; None; None; None; None; Some Implicit_set;
   Some Implicit_set; Some Implicit_set; Some Implicit_set; Some Implicit_set; Some Implicit_set;
   Some Implicit_set; Some Implicit_set; Some Implicit_set].
Definition Slot_inst16a_set_field_fns_3 : list (option setter) := [Some Implicit_set; Some Implicit_set;
   Some Implicit_set].
Definition Slot_inst16a_set_field_fns : list (option setter) := Slot_inst16a_set_field_fns_1 ++ Slot_inst16a_set_field_fns_2 ++ Slot_inst16a_set_field_fns_3.

Definition Slot_inst16b_get_field_fns_1 : list (option getter) := [Some (Get Field_t_Slot_inst16b); None;
   None; None; None; Some (Get Field_s_Slot_inst16b); None; None; None; None; None;
   Some (Get Field_op0_Slot_inst16b); None; None; Some (Get Field_r_Slot_inst16b); None; None; None; None;
   None; None; None; Some (Get Field_sr_Slot_inst16b); Some (Get Field_st_Slot_inst16b); None;
   Some (Get Field_imm4_Slot_inst16b); None; Some (Get Field_i_Slot_inst16b);
   Some (Get Field_imm6lo_Slot_inst16b); Some (Get Field_imm6hi_Slot_inst16b);
   Some (Get Field_imm7lo_Slot_inst16b); Some (Get Field_imm7hi_Slot_inst16b);
   Some (Get Field_z_Slot_inst16b); Some (Get Field_imm6_Slot_inst16b); Some (Get Field_imm7_Slot_inst16b);
   None; None; None; None; None; None; None; None; None; Some (Get Field_t2_Slot_inst16b);
   Some (Get Field_s2_Slot_inst16b); Some (Get Field_r2_Slot_inst16b); Some (Get Field_t4_Slot_inst16b);
   Some (Get Field_s4_Slot_inst16b); Some (Get Field_r4_Slot_inst16b); Some (Get Field_t8_Slot_inst16b);
   Some (Get Field_s8_Slot_inst16b); Some (Get Field_r8_Slot_inst16b); None; None; None; None; None; None;
   None; None; None; None; None; None; None; None; None; None; None; None; None; None; None; None; None;
   None; None; None; None; None; None; None; None; None; None; None; None; None; None; None; None; None;
   None; None; None; None; None; None; None; None; None; None; None; None; None; None; None; None; None;
   None; None; None; None; None; None; None; None; None; None; None; None; None; None; None; None; None;
   None; None; None].
Definition Slot_inst16b_get_field_fns_2 : list (option getter) := [None; None; None; None; None; None;
   None; None; None; None; None; None; None; None; None; None; None; None; None; None; None; None; None;
   None; None; None; None; None; None; None; None; None; None; None; None; None; None; None; None; None;
   None; None; None; None; None; None; None; None; None; None; None; None; None; None; None; None; None;
   None; None; None; None; None; None; None; None; None; None; None; None; None; None; None; None; None;
   None; None; None; None; None; None; None; None; None; None; None; None; None; None; None; None; None;
   None; None; None; None; None; None; None; None; None; None; None; None; None; None; None; None; None;
   None; None; None; None; None; None; None; None; None; None; None; None; None;
   Some Implicit_Field_ar0_get; Some Implicit_Field_ar4_get; Some Implicit_Field_ar8_get;
   Some Implicit_Field_ar12_get; Some Implicit_Field_mr0_get; Some Implicit_Field_mr1_get;
   Some Implicit_Field_mr2_get; Some Implicit_Field_mr3_get; Some Implicit_Field_bt16_get].
Definition Slot_inst16b_get_field_fns_3 : list (option getter) := [Some Implicit_Field_bs16_get;
   Some Implicit_Field_br16_get; Some Implicit_Field_brall_get].
Definition Slot_inst16b_get_field_fns : list (option getter) := Slot_inst16b_get_field_fns_1 ++ Slot_inst16b_get_field_fns_2 ++ Slot_inst16b_get_field_fns_3.

Definition Slot_inst16b_set_field_fns_1 : list (option setter) := [Some (Set_ Field_t_Slot_inst16b); None;
   None; None; None; Some (Set_ Field_s_Slot_inst16b); None; None; None; None; None;
   Some (Set_ Field_op0_Slot_inst16b); None; None; Some (Set_ Field_r_Slot_inst16b); None; None; None;
   None; None; None; None; Some (Set_ Field_sr_Slot_inst16b); Some (Set_ Field_st_Slot_inst16b); None;
   Some (Set_ Field_imm4_Slot_inst16b); None; Some (Set_ Field_i_Slot_inst16b);
   Some (Set_ Field_imm6lo_Slot_inst16b); Some (Set_ Field_imm6hi_Slot_inst16b);
   Some (Set_ Field_imm7lo_Slot_inst16b); Some (Set_ Field_imm7hi_Slot_inst16b);
   Some (Set_ Field_z_Slot_inst16b); Some (Set_ Field_imm6_Slot_inst16b);
   Some (Set_ Field_imm7_Slot_inst16b); None; None; None; None; None; None; None; None; None;
   Some (Set_ Field_t2_Slot_inst16b); Some (Set_ Field_s2_Slot_inst16b); Some (Set_ Field_r2_Slot_inst16b);
   Some (Set_ Field_t4_Slot_inst16b); Some (Set_ Field_s4_Slot_inst16b); Some (Set_ Field_r4_Slot_inst16b);
   Some (Set_ Field_t8_Slot_inst16b); Some (Set_ Field_s8_Slot_inst16b); Some (Set_ Field_r8_Slot_inst16b);
   None; None; None; None; None; None; None; None; None; None; None; None; None; None; None; None; None;
   None; None; None; None; None; None; None; None; None; None; None; None; None; None; None; None; None;
   None; None; None; None; None; None; None; None; None; None; None; None; None; None; None; None; None;
   None; None; None; None; None; None; None; None; None; None; None; None; None; None; None; None; None;
   None; None; None; None; None; None; None; None; None].
Definition Slot_inst16b_set_field_fns_2 : list (option setter) := [None; None; None; None; None; None;
   None; None; None; None; None; None; None; None; None; None; None; None; None; None; None; None; None;
   None; None; None; None; None; None; None; None; None; None; None; None; None; None; None; None; None;
   None; None; None; None; None; None; None; None; None; None; None; None; None; None; None; None; None;
   None; None; None; None; None; None; None; None; None; None; None; None; None; None; None; None; None;
   None; None; None; None; None; None; None; None; None; None; None; None; None; None; None; None; None;
   None; None; None; None; None; None; None; None; None; None; None; None; None; None; None; None; None;
   None; None; None; None; None; None; None; None; None; None; None; None; None; Some Implicit_set;
   Some Implicit_set; Some Implicit_set; Some Implicit_set; Some Implicit_set; Some Implicit_set;
   Some Implicit_set; Some Implicit_set; Some Implicit_set].
Definition Slot_inst16b_set_field_fns_3 : list (option setter) := [Some Implicit_set; Some Implicit_set;
   Some Implicit_set].
Definition Slot_inst16b_set_field_fns : list (option setter) := Slot_inst16b_set_field_fns_1 ++ Slot_inst16b_set_field_fns_2 ++ Slot_inst16b_set_field_fns_3.

Definition Slot_slot_format_32_0_get_field_fns_1 : list (option getter) := [None; None; None; None; None;
   None; None; None; None; None; None; None; None; None; None; None; None; None; None; None; None; None;
   None; None; None; None; None; None; None; None; None; None; None; None; None; None; None; None; None;
   None; None; None; None; None; None; None; None; None; None; None; None; None; None; None; None;
   Some (Get Field_fld_slot_format_32_0_3_0_Slot_slot_format_32_0);
   Some (Get Field_fld_slot_format_32_0_28_4_Slot_slot_format_32_0); None; None; None; None; None; None;
   None; None; None; None; None; None; None; None; None; None; None; None; None; None; None;
   Some (Get Field_fld_semantic_ld_st_imm16f_Slot_slot_format_32_0);
   Some (Get Field_fld_semantic_ld_st_as_Slot_slot_format_32_0);
   Some (Get Field_fld_semantic_ld_st_fu0_Slot_slot_format_32_0);
   Some (Get Field_fld_semantic_ld_st_fu1_Slot_slot_format_32_0);
   Some (Get Field_fld_semantic_ld_st_fu2_Slot_slot_format_32_0);
   Some (Get Field_fld_semantic_ld_st_fu3_Slot_slot_format_32_0);
   Some (Get Field_fld_slot_format_32_0_28_24_Slot_slot_format_32_0);
   Some (Get Field_fld_semantic_ld_st_ad_Slot_slot_format_32_0);
   Some (Get Field_fld_semantic_ld_st_imm8_Slot_slot_format_32_0);
   Some (Get Field_fld_slot_format_32_0_7_5_Slot_slot_format_32_0); None; None; None; None; None; None;
   None; None; Some (Get Field_fld_semantic_ld_st_sel8_Slot_slot_format_32_0);
   Some (Get Field_fld_semantic_ld_st_sel4_Slot_slot_format_32_0);
   Some (Get Field_fld_semantic_ld_st_qs_Slot_slot_format_32_0);
   Some (Get Field_fld_semantic_ld_st_qu_Slot_slot_format_32_0);
   Some (Get Field_fld_slot_format_32_0_28_22_Slot_slot_format_32_0);
   Some (Get Field_fld_semantic_ld_st_fv0_Slot_slot_format_32_0);
   Some (Get Field_fld_semantic_ld_st_fv1_Slot_slot_format_32_0);
   Some (Get Field_fld_semantic_ld_st_fv2_Slot_slot_format_32_0);
   Some (Get Field_fld_semantic_ld_st_fv3_Slot_slot_format_32_0);
   Some (Get Field_fld_semantic_ld_st_qv_Slot_slot_format_32_0); None; None; None; None; None; None; None;
   None; None; None; None; None; None; None; None; None; None; None; None; None; None; None; None; None].
Definition Slot_slot_format_32_0_get_field_fns_2 : list (option getter) := [None; None;
   Some (Get Field_fld_slot_format_32_0_10_4_Slot_slot_format_32_0); None;
   Some (Get Field_fld_semantic_cal_double_q_qa_Slot_slot_format_32_0);
   Some (Get Field_fld_semantic_cal_double_q_as_Slot_slot_format_32_0);
   Some (Get Field_fld_semantic_cal_double_q_qu_Slot_slot_format_32_0);
   Some (Get Field_fld_slot_format_32_0_10_6_Slot_slot_format_32_0);
   Some (Get Field_fld_semantic_cal_double_q_qv_Slot_slot_format_32_0);
   Some (Get Field_fld_slot_format_32_0_28_20_Slot_slot_format_32_0); None;
   Some (Get Field_fld_semantic_cal_double_q_sel4_Slot_slot_format_32_0);
   Some (Get Field_fld_semantic_cal_double_q_qy_Slot_slot_format_32_0);
   Some (Get Field_fld_semantic_cal_double_q_qx_Slot_slot_format_32_0);
   Some (Get Field_fld_semantic_cal_double_q_qz_Slot_slot_format_32_0);
   Some (Get Field_fld_semantic_cal_double_q_qs1_Slot_slot_format_32_0);
   Some (Get Field_fld_semantic_cal_double_q_qs0_Slot_slot_format_32_0);
   Some (Get Field_fld_slot_format_32_0_28_25_Slot_slot_format_32_0);
   Some (Get Field_fld_semantic_cal_double_q_imm16_Slot_slot_format_32_0);
   Some (Get Field_fld_slot_format_32_0_10_8_Slot_slot_format_32_0);
   Some (Get Field_fld_slot_format_32_0_19_17_Slot_slot_format_32_0);
   Some (Get Field_fld_slot_format_32_0_28_23_Slot_slot_format_32_0);
   Some (Get Field_fld_semantic_cal_double_q_ad_Slot_slot_format_32_0);
   Some (Get Field_fld_slot_format_32_0_7_4_Slot_slot_format_32_0); None;
   Some (Get Field_fld_semantic_cal_double_q_sel8_Slot_slot_format_32_0);
   Some (Get Field_fld_slot_format_32_0_10_9_Slot_slot_format_32_0); None;
   Some (Get Field_fld_semantic_cal_double_q_sel16_Slot_slot_format_32_0); None; None; None; None; None;
   None; None; None; None; None; None; None; None; None; None; None; None; None; None;
   Some (Get Field_fld_semantic_shfq_qs0_Slot_slot_format_32_0);
   Some (Get Field_fld_semantic_shfq_qs1_Slot_slot_format_32_0);
   Some (Get Field_fld_semantic_shfq_ad_Slot_slot_format_32_0);
   Some (Get Field_fld_semantic_shfq_as_Slot_slot_format_32_0);
   Some (Get Field_fld_semantic_shfq_imm16_Slot_slot_format_32_0);
   Some (Get Field_fld_semantic_shfq_qu_Slot_slot_format_32_0);
   Some (Get Field_fld_slot_format_32_0_7_6_Slot_slot_format_32_0);
   Some (Get Field_fld_slot_format_32_0_13_11_Slot_slot_format_32_0); None; None; None; None;
   Some (Get Field_fld_semantic_fft_rxbf_sar4_Slot_slot_format_32_0);
   Some (Get Field_fld_semantic_fft_rxbf_as_Slot_slot_format_32_0);
   Some (Get Field_fld_slot_format_32_0_13_13_Slot_slot_format_32_0); None; None;
   Some (Get Field_fld_semantic_fft_rxbf_qy_Slot_slot_format_32_0);
   Some (Get Field_fld_semantic_fft_rxbf_qx_Slot_slot_format_32_0); None;
   Some (Get Field_fld_semantic_fft_rxbf_qa0_Slot_slot_format_32_0);
   Some (Get Field_fld_ee_fft_cmul_s16_ld_xp_sel8_Slot_slot_format_32_0);
   Some (Get Field_fld_ee_fft_cmul_s16_ld_xp_qy_Slot_slot_format_32_0);
   Some (Get Field_fld_ee_fft_cmul_s16_ld_xp_qx_Slot_slot_format_32_0);
   Some (Get Field_fld_ee_fft_cmul_s16_ld_xp_qz_Slot_slot_format_32_0);
   Some (Get Field_fld_ee_fft_cmul_s16_ld_xp_ad_Slot_slot_format_32_0);
   Some (Get Field_fld_ee_fft_cmul_s16_ld_xp_as_Slot_slot_format_32_0);
   Some (Get Field_fld_ee_fft_cmul_s16_ld_xp_qu_Slot_slot_format_32_0);
   Some (Get Field_fld_ee_fft_cmul_s16_st_xp_sar4_Slot_slot_format_32_0);
   Some (Get Field_fld_ee_fft_cmul_s16_st_xp_upd4_Slot_slot_format_32_0);
   Some (Get Field_fld_ee_fft_cmul_s16_st_xp_sel8_Slot_slot_format_32_0);
   Some (Get Field_fld_ee_fft_cmul_s16_st_xp_ad_Slot_slot_format_32_0);
   Some (Get Field_fld_ee_fft_cmul_s16_st_xp_as_Slot_slot_format_32_0);
   Some (Get Field_fld_ee_fft_cmul_s16_st_xp_qv_Slot_slot_format_32_0);
   Some (Get Field_fld_ee_fft_cmul_s16_st_xp_qy_Slot_slot_format_32_0);
   Some (Get Field_fld_ee_fft_cmul_s16_st_xp_qx_Slot_slot_format_32_0); None; None;
   Some (Get Field_fld_ee_fft_ams_s16_ld_incp_sel2_Slot_slot_format_32_0);
   Some (Get Field_fld_ee_fft_ams_s16_ld_incp_qm_Slot_slot_format_32_0);
   Some (Get Field_fld_ee_fft_ams_s16_ld_incp_qy_Slot_slot_format_32_0);
   Some (Get Field_fld_ee_fft_ams_s16_ld_incp_qx_Slot_slot_format_32_0);
   Some (Get Field_fld_ee_fft_ams_s16_ld_incp_qz1_Slot_slot_format_32_0);
   Some (Get Field_fld_ee_fft_ams_s16_ld_incp_qz_Slot_slot_format_32_0);
   Some (Get Field_fld_ee_fft_ams_s16_ld_incp_as_Slot_slot_format_32_0);
   Some (Get Field_fld_ee_fft_ams_s16_ld_incp_qu_Slot_slot_format_32_0);
   Some (Get Field_fld_ee_fft_ams_s16_ld_incp_uaup_sel2_Slot_slot_format_32_0);
   Some (Get Field_fld_ee_fft_ams_s16_ld_incp_uaup_qm_Slot_slot_format_32_0);
   Some (Get Field_fld_ee_fft_ams_s16_ld_incp_uaup_qy_Slot_slot_format_32_0);
   Some (Get Field_fld_ee_fft_ams_s16_ld_incp_uaup_qx_Slot_slot_format_32_0);
   Some (Get Field_fld_ee_fft_ams_s16_ld_incp_uaup_qz1_Slot_slot_format_32_0);
   Some (Get Field_fld_ee_fft_ams_s16_ld_incp_uaup_qz_Slot_slot_format_32_0);
   Some (Get Field_fld_ee_fft_ams_s16_ld_incp_uaup_as_Slot_slot_format_32_0);
   Some (Get Field_fld_ee_fft_ams_s16_ld_incp_uaup_qu_Slot_slot_format_32_0);
   Some (Get Field_fld_ee_fft_ams_s16_ld_r32_decp_sel2_Slot_slot_format_32_0);
   Some (Get Field_fld_ee_fft_ams_s16_ld_r32_decp_qm_Slot_slot_format_32_0);
   Some (Get Field_fld_ee_fft_ams_s16_ld_r32_decp_qy_Slot_slot_format_32_0);
   Some (Get Field_fld_ee_fft_ams_s16_ld_r32_decp_qx_Slot_slot_format_32_0);
   Some (Get Field_fld_ee_fft_ams_s16_ld_r32_decp_qz1_Slot_slot_format_32_0);
   Some (Get Field_fld_ee_fft_ams_s16_ld_r32_decp_qz_Slot_slot_format_32_0);
   Some (Get Field_fld_ee_fft_ams_s16_ld_r32_decp_as_Slot_slot_format_32_0);
   Some (Get Field_fld_ee_fft_ams_s16_ld_r32_decp_qu_Slot_slot_format_32_0);
   Some (Get Field_fld_ee_fft_ams_s16_st_incp_sel2_Slot_slot_format_32_0);
   Some (Get Field_fld_ee_fft_ams_s16_st_incp_qm_Slot_slot_format_32_0);
   Some (Get Field_fld_ee_fft_ams_s16_st_incp_qy_Slot_slot_format_32_0);
   Some (Get Field_fld_ee_fft_ams_s16_st_incp_qx_Slot_slot_format_32_0);
   Some (Get Field_fld_ee_fft_ams_s16_st_incp_as_Slot_slot_format_32_0);
   Some (Get Field_fld_ee_fft_ams_s16_st_incp_as0_Slot_slot_format_32_0);
   Some (Get Field_fld_ee_fft_ams_s16_st_incp_qz1_Slot_slot_format_32_0);
   Some (Get Field_fld_ee_fft_ams_s16_st_incp_qv_Slot_slot_format_32_0); None; None; None;
   Some Implicit_Field_ar0_get; Some Implicit_Field_ar4_get; Some Implicit_Field_ar8_get;
   Some Implicit_Field_ar12_get; Some Implicit_Field_mr0_get; Some Implicit_Field_mr1_get;
   Some Implicit_Field_mr2_get; Some Implicit_Field_mr3_get; Some Implicit_Field_bt16_get].
Definition Slot_slot_format_32_0_get_field_fns_3 : list (option getter) := [Some Implicit_Field_bs16_get;
   Some Implicit_Field_br16_get; Some Implicit_Field_brall_get].
Definition Slot_slot_format_32_0_get_field_fns : list (option getter) := Slot_slot_format_32_0_get_field_fns_1 ++ Slot_slot_format_32_0_get_field_fns_2 ++ Slot_slot_format_32_0_get_field_fns_3.

Definition Slot_slot_format_32_0_set_field_fns_1 : list (option setter) := [None; None; None; None; None;
   None; None; None; None; None; None; None; None; None; None; None; None; None; None; None; None; None;
   None; None; None; None; None; None; None; None; None; None; None; None; None; None; None; None; None;
   None; None; None; None; None; None; None; None; None; None; None; None; None; None; None; None;
   Some (Set_ Field_fld_slot_format_32_0_3_0_Slot_slot_format_32_0);
   Some (Set_ Field_fld_slot_format_32_0_28_4_Slot_slot_format_32_0); None; None; None; None; None; None;
   None; None; None; None; None; None; None; None; None; None; None; None; None; None; None;
   Some (Set_ Field_fld_semantic_ld_st_imm16f_Slot_slot_format_32_0);
   Some (Set_ Field_fld_semantic_ld_st_as_Slot_slot_format_32_0);
   Some (Set_ Field_fld_semantic_ld_st_fu0_Slot_slot_format_32_0);
   Some (Set_ Field_fld_semantic_ld_st_fu1_Slot_slot_format_32_0);
   Some (Set_ Field_fld_semantic_ld_st_fu2_Slot_slot_format_32_0);
   Some (Set_ Field_fld_semantic_ld_st_fu3_Slot_slot_format_32_0);
   Some (Set_ Field_fld_slot_format_32_0_28_24_Slot_slot_format_32_0);
   Some (Set_ Field_fld_semantic_ld_st_ad_Slot_slot_format_32_0);
   Some (Set_ Field_fld_semantic_ld_st_imm8_Slot_slot_format_32_0);
   Some (Set_ Field_fld_slot_format_32_0_7_5_Slot_slot_format_32_0); None; None; None; None; None; None;
   None; None; Some (Set_ Field_fld_semantic_ld_st_sel8_Slot_slot_format_32_0);
   Some (Set_ Field_fld_semantic_ld_st_sel4_Slot_slot_format_32_0);
   Some (Set_ Field_fld_semantic_ld_st_qs_Slot_slot_format_32_0);
   Some (Set_ Field_fld_semantic_ld_st_qu_Slot_slot_format_32_0);
   Some (Set_ Field_fld_slot_format_32_0_28_22_Slot_slot_format_32_0);
   Some (Set_ Field_fld_semantic_ld_st_fv0_Slot_slot_format_32_0);
   Some (Set_ Field_fld_semantic_ld_st_fv1_Slot_slot_format_32_0);
   Some (Set_ Field_fld_semantic_ld_st_fv2_Slot_slot_format_32_0);
   Some (Set_ Field_fld_semantic_ld_st_fv3_Slot_slot_format_32_0);
   Some (Set_ Field_fld_semantic_ld_st_qv_Slot_slot_format_32_0); None; None; None; None; None; None; None;
   None; None; None; None; None; None; None; None; None; None; None; None; None; None; None; None; None].
Definition Slot_slot_format_32_0_set_field_fns_2 : list (option setter) := [None; None;
   Some (Set_ Field_fld_slot_format_32_0_10_4_Slot_slot_format_32_0); None;
   Some (Set_ Field_fld_semantic_cal_double_q_qa_Slot_slot_format_32_0);
   Some (Set_ Field_fld_semantic_cal_double_q_as_Slot_slot_format_32_0);
   Some (Set_ Field_fld_semantic_cal_double_q_qu_Slot_slot_format_32_0);
   Some (Set_ Field_fld_slot_format_32_0_10_6_Slot_slot_format_32_0);
   Some (Set_ Field_fld_semantic_cal_double_q_qv_Slot_slot_format_32_0);
   Some (Set_ Field_fld_slot_format_32_0_28_20_Slot_slot_format_32_0); None;
   Some (Set_ Field_fld_semantic_cal_double_q_sel4_Slot_slot_format_32_0);
   Some (Set_ Field_fld_semantic_cal_double_q_qy_Slot_slot_format_32_0);
   Some (Set_ Field_fld_semantic_cal_double_q_qx_Slot_slot_format_32_0);
   Some (Set_ Field_fld_semantic_cal_double_q_qz_Slot_slot_format_32_0);
   Some (Set_ Field_fld_semantic_cal_double_q_qs1_Slot_slot_format_32_0);
   Some (Set_ Field_fld_semantic_cal_double_q_qs0_Slot_slot_format_32_0);
   Some (Set_ Field_fld_slot_format_32_0_28_25_Slot_slot_format_32_0);
   Some (Set_ Field_fld_semantic_cal_double_q_imm16_Slot_slot_format_32_0);
   Some (Set_ Field_fld_slot_format_32_0_10_8_Slot_slot_format_32_0);
   Some (Set_ Field_fld_slot_format_32_0_19_17_Slot_slot_format_32_0);
   Some (Set_ Field_fld_slot_format_32_0_28_23_Slot_slot_format_32_0);
   Some (Set_ Field_fld_semantic_cal_double_q_ad_Slot_slot_format_32_0);
   Some (Set_ Field_fld_slot_format_32_0_7_4_Slot_slot_format_32_0); None;
   Some (Set_ Field_fld_semantic_cal_double_q_sel8_Slot_slot_format_32_0);
   Some (Set_ Field_fld_slot_format_32_0_10_9_Slot_slot_format_32_0); None;
   Some (Set_ Field_fld_semantic_cal_double_q_sel16_Slot_slot_format_32_0); None; None; None; None; None;
   None; None; None; None; None; None; None; None; None; None; None; None; None; None;
   Some (Set_ Field_fld_semantic_shfq_qs0_Slot_slot_format_32_0);
   Some (Set_ Field_fld_semantic_shfq_qs1_Slot_slot_format_32_0);
   Some (Set_ Field_fld_semantic_shfq_ad_Slot_slot_format_32_0);
   Some (Set_ Field_fld_semantic_shfq_as_Slot_slot_format_32_0);
   Some (Set_ Field_fld_semantic_shfq_imm16_Slot_slot_format_32_0);
   Some (Set_ Field_fld_semantic_shfq_qu_Slot_slot_format_32_0);
   Some (Set_ Field_fld_slot_format_32_0_7_6_Slot_slot_format_32_0);
   Some (Set_ Field_fld_slot_format_32_0_13_11_Slot_slot_format_32_0); None; None; None; None;
   Some (Set_ Field_fld_semantic_fft_rxbf_sar4_Slot_slot_format_32_0);
   Some (Set_ Field_fld_semantic_fft_rxbf_as_Slot_slot_format_32_0);
   Some (Set_ Field_fld_slot_format_32_0_13_13_Slot_slot_format_32_0); None; None;
   Some (Set_ Field_fld_semantic_fft_rxbf_qy_Slot_slot_format_32_0);
   Some (Set_ Field_fld_semantic_fft_rxbf_qx_Slot_slot_format_32_0); None;
   Some (Set_ Field_fld_semantic_fft_rxbf_qa0_Slot_slot_format_32_0);
   Some (Set_ Field_fld_ee_fft_cmul_s16_ld_xp_sel8_Slot_slot_format_32_0);
   Some (Set_ Field_fld_ee_fft_cmul_s16_ld_xp_qy_Slot_slot_format_32_0);
   Some (Set_ Field_fld_ee_fft_cmul_s16_ld_xp_qx_Slot_slot_format_32_0);
   Some (Set_ Field_fld_ee_fft_cmul_s16_ld_xp_qz_Slot_slot_format_32_0);
   Some (Set_ Field_fld_ee_fft_cmul_s16_ld_xp_ad_Slot_slot_format_32_0);
   Some (Set_ Field_fld_ee_fft_cmul_s16_ld_xp_as_Slot_slot_format_32_0);
   Some (Set_ Field_fld_ee_fft_cmul_s16_ld_xp_qu_Slot_slot_format_32_0);
   Some (Set_ Field_fld_ee_fft_cmul_s16_st_xp_sar4_Slot_slot_format_32_0);
   Some (Set_ Field_fld_ee_fft_cmul_s16_st_xp_upd4_Slot_slot_format_32_0);
   Some (Set_ Field_fld_ee_fft_cmul_s16_st_xp_sel8_Slot_slot_format_32_0);
   Some (Set_ Field_fld_ee_fft_cmul_s16_st_xp_ad_Slot_slot_format_32_0);
   Some (Set_ Field_fld_ee_fft_cmul_s16_st_xp_as_Slot_slot_format_32_0);
   Some (Set_ Field_fld_ee_fft_cmul_s16_st_xp_qv_Slot_slot_format_32_0);
   Some (Set_ Field_fld_ee_fft_cmul_s16_st_xp_qy_Slot_slot_format_32_0);
   Some (Set_ Field_fld_ee_fft_cmul_s16_st_xp_qx_Slot_slot_format_32_0); None; None;
   Some (Set_ Field_fld_ee_fft_ams_s16_ld_incp_sel2_Slot_slot_format_32_0);
   Some (Set_ Field_fld_ee_fft_ams_s16_ld_incp_qm_Slot_slot_format_32_0);
   Some (Set_ Field_fld_ee_fft_ams_s16_ld_incp_qy_Slot_slot_format_32_0);
   Some (Set_ Field_fld_ee_fft_ams_s16_ld_incp_qx_Slot_slot_format_32_0);
   Some (Set_ Field_fld_ee_fft_ams_s16_ld_incp_qz1_Slot_slot_format_32_0);
   Some (Set_ Field_fld_ee_fft_ams_s16_ld_incp_qz_Slot_slot_format_32_0);
   Some (Set_ Field_fld_ee_fft_ams_s16_ld_incp_as_Slot_slot_format_32_0);
   Some (Set_ Field_fld_ee_fft_ams_s16_ld_incp_qu_Slot_slot_format_32_0);
   Some (Set_ Field_fld_ee_fft_ams_s16_ld_incp_uaup_sel2_Slot_slot_format_32_0);
   Some (Set_ Field_fld_ee_fft_ams_s16_ld_incp_uaup_qm_Slot_slot_format_32_0);
   Some (Set_ Field_fld_ee_fft_ams_s16_ld_incp_uaup_qy_Slot_slot_format_32_0);
   Some (Set_ Field_fld_ee_fft_ams_s16_ld_incp_uaup_qx_Slot_slot_format_32_0);
   Some (Set_ Field_fld_ee_fft_ams_s16_ld_incp_uaup_qz1_Slot_slot_format_32_0);
   Some (Set_ Field_fld_ee_fft_ams_s16_ld_incp_uaup_qz_Slot_slot_format_32_0);
   Some (Set_ Field_fld_ee_fft_ams_s16_ld_incp_uaup_as_Slot_slot_format_32_0);
   Some (Set_ Field_fld_ee_fft_ams_s16_ld_incp_uaup_qu_Slot_slot_format_32_0);
   Some (Set_ Field_fld_ee_fft_ams_s16_ld_r32_decp_sel2_Slot_slot_format_32_0);
   Some (Set_ Field_fld_ee_fft_ams_s16_ld_r32_decp_qm_Slot_slot_format_32_0);
   Some (Set_ Field_fld_ee_fft_ams_s16_ld_r32_decp_qy_Slot_slot_format_32_0);
   Some (Set_ Field_fld_ee_fft_ams_s16_ld_r32_decp_qx_Slot_slot_format_32_0);
   Some (Set_ Field_fld_ee_fft_ams_s16_ld_r32_decp_qz1_Slot_slot_format_32_0);
   Some (Set_ Field_fld_ee_fft_ams_s16_ld_r32_decp_qz_Slot_slot_format_32_0);
   Some (Set_ Field_fld_ee_fft_ams_s16_ld_r32_decp_as_Slot_slot_format_32_0);
   Some (Set_ Field_fld_ee_fft_ams_s16_ld_r32_decp_qu_Slot_slot_format_32_0);
   Some (Set_ Field_fld_ee_fft_ams_s16_st_incp_sel2_Slot_slot_format_32_0);
   Some (Set_ Field_fld_ee_fft_ams_s16_st_incp_qm_Slot_slot_format_32_0);
   Some (Set_ Field_fld_ee_fft_ams_s16_st_incp_qy_Slot_slot_format_32_0);
   Some (Set_ Field_fld_ee_fft_ams_s16_st_incp_qx_Slot_slot_format_32_0);
   Some (Set_ Field_fld_ee_fft_ams_s16_st_incp_as_Slot_slot_format_32_0);
   Some (Set_ Field_fld_ee_fft_ams_s16_st_incp_as0_Slot_slot_format_32_0);
   Some (Set_ Field_fld_ee_fft_ams_s16_st_incp_qz1_Slot_slot_format_32_0);
   Some (Set_ Field_fld_ee_fft_ams_s16_st_incp_qv_Slot_slot_format_32_0); None; None; None;
   Some Implicit_set; Some Implicit_set; Some Implicit_set; Some Implicit_set; Some Implicit_set;
   Some Implicit_set; Some Implicit_set; Some Implicit_set; Some Implicit_set].
Definition Slot_slot_format_32_0_set_field_fns_3 : list (option setter) := [Some Implicit_set;
   Some Implicit_set; Some Implicit_set].
Definition Slot_slot_format_32_0_set_field_fns : list (option setter) := Slot_slot_format_32_0_set_field_fns_1 ++ Slot_slot_format_32_0_set_field_fns_2 ++ Slot_slot_format_32_0_set_field_fns_3.

