(* ===== verification/S3Classes.v ===== *)
(** * ESP32-S3 ISA module: operands and instruction classes ([target/xtensa/core-esp32s3/xtensa-modules.inc.c])

    The tables of operands, of the operands and states of every instruction
    class, and of the classes.  An array the class table refers to is found by its name. *)

From Stdlib Require Import Ascii.
From S2P Require Import Prelude Isa IsaPattern S3Fields Esp32s3Isa.

(** ** [xtensa_state_id] *)

Abbreviation STATE_LCOUNT := 0 (only parsing).
Abbreviation STATE_PC := 1 (only parsing).
Abbreviation STATE_ICOUNT := 2 (only parsing).
Abbreviation STATE_DDR := 3 (only parsing).
Abbreviation STATE_INTERRUPT := 4 (only parsing).
Abbreviation STATE_CCOUNT := 5 (only parsing).
Abbreviation STATE_XTSYNC := 6 (only parsing).
Abbreviation STATE_VECBASE := 7 (only parsing).
Abbreviation STATE_EPC1 := 8 (only parsing).
Abbreviation STATE_EPC2 := 9 (only parsing).
Abbreviation STATE_EPC3 := 10 (only parsing).
Abbreviation STATE_EPC4 := 11 (only parsing).
Abbreviation STATE_EPC5 := 12 (only parsing).
Abbreviation STATE_EPC6 := 13 (only parsing).
Abbreviation STATE_EPC7 := 14 (only parsing).
Abbreviation STATE_EXCSAVE1 := 15 (only parsing).
Abbreviation STATE_EXCSAVE2 := 16 (only parsing).
Abbreviation STATE_EXCSAVE3 := 17 (only parsing).
Abbreviation STATE_EXCSAVE4 := 18 (only parsing).
Abbreviation STATE_EXCSAVE5 := 19 (only parsing).
Abbreviation STATE_EXCSAVE6 := 20 (only parsing).
Abbreviation STATE_EXCSAVE7 := 21 (only parsing).
Abbreviation STATE_EPS2 := 22 (only parsing).
Abbreviation STATE_EPS3 := 23 (only parsing).
Abbreviation STATE_EPS4 := 24 (only parsing).
Abbreviation STATE_EPS5 := 25 (only parsing).
Abbreviation STATE_EPS6 := 26 (only parsing).
Abbreviation STATE_EPS7 := 27 (only parsing).
Abbreviation STATE_EXCCAUSE := 28 (only parsing).
Abbreviation STATE_PSINTLEVEL := 29 (only parsing).
Abbreviation STATE_PSUM := 30 (only parsing).
Abbreviation STATE_PSWOE := 31 (only parsing).
Abbreviation STATE_PSEXCM := 32 (only parsing).
Abbreviation STATE_DEPC := 33 (only parsing).
Abbreviation STATE_EXCVADDR := 34 (only parsing).
Abbreviation STATE_WindowBase := 35 (only parsing).
Abbreviation STATE_WindowStart := 36 (only parsing).
Abbreviation STATE_PSCALLINC := 37 (only parsing).
Abbreviation STATE_PSOWB := 38 (only parsing).
Abbreviation STATE_LBEG := 39 (only parsing).
Abbreviation STATE_LEND := 40 (only parsing).
Abbreviation STATE_MEMCTL := 41 (only parsing).
Abbreviation STATE_SAR := 42 (only parsing).
Abbreviation STATE_THREADPTR := 43 (only parsing).
Abbreviation STATE_MISC0 := 44 (only parsing).
Abbreviation STATE_MISC1 := 45 (only parsing).
Abbreviation STATE_MISC2 := 46 (only parsing).
Abbreviation STATE_MISC3 := 47 (only parsing).
Abbreviation STATE_ACC := 48 (only parsing).
Abbreviation STATE_InOCDMode := 49 (only parsing).
Abbreviation STATE_INTENABLE := 50 (only parsing).
Abbreviation STATE_DBREAKA0 := 51 (only parsing).
Abbreviation STATE_DBREAKC0 := 52 (only parsing).
Abbreviation STATE_DBREAKA1 := 53 (only parsing).
Abbreviation STATE_DBREAKC1 := 54 (only parsing).
Abbreviation STATE_IBREAKA0 := 55 (only parsing).
Abbreviation STATE_IBREAKA1 := 56 (only parsing).
Abbreviation STATE_IBREAKENABLE := 57 (only parsing).
Abbreviation STATE_ICOUNTLEVEL := 58 (only parsing).
Abbreviation STATE_DEBUGCAUSE := 59 (only parsing).
Abbreviation STATE_DBNUM := 60 (only parsing).
Abbreviation STATE_CCOMPARE0 := 61 (only parsing).
Abbreviation STATE_CCOMPARE1 := 62 (only parsing).
Abbreviation STATE_CCOMPARE2 := 63 (only parsing).
Abbreviation STATE_CPENABLE := 64 (only parsing).
Abbreviation STATE_SCOMPARE1 := 65 (only parsing).
Abbreviation STATE_ATOMCTL := 66 (only parsing).
Abbreviation STATE_ERI_RAW_INTERLOCK := 67 (only parsing).
Abbreviation STATE_RoundMode := 68 (only parsing).
Abbreviation STATE_InvalidEnable := 69 (only parsing).
Abbreviation STATE_DivZeroEnable := 70 (only parsing).
Abbreviation STATE_OverflowEnable := 71 (only parsing).
Abbreviation STATE_UnderflowEnable := 72 (only parsing).
Abbreviation STATE_InexactEnable := 73 (only parsing).
Abbreviation STATE_InvalidFlag := 74 (only parsing).
Abbreviation STATE_DivZeroFlag := 75 (only parsing).
Abbreviation STATE_OverflowFlag := 76 (only parsing).
Abbreviation STATE_UnderflowFlag := 77 (only parsing).
Abbreviation STATE_InexactFlag := 78 (only parsing).
Abbreviation STATE_FPreserved20 := 79 (only parsing).
Abbreviation STATE_FPreserved20a := 80 (only parsing).
Abbreviation STATE_FPreserved5 := 81 (only parsing).
Abbreviation STATE_FPreserved7 := 82 (only parsing).
Abbreviation STATE_ACCX := 83 (only parsing).
Abbreviation STATE_QACC_H := 84 (only parsing).
Abbreviation STATE_QACC_L := 85 (only parsing).
Abbreviation STATE_GPIO_OUT := 86 (only parsing).
Abbreviation STATE_SAR_BYTE := 87 (only parsing).
Abbreviation STATE_FFT_BIT_WIDTH := 88 (only parsing).
Abbreviation STATE_UA_STATE := 89 (only parsing).

(** ** [xtensa_operand_id] *)

Abbreviation OPERAND_soffsetx4 := 0 (only parsing).
Abbreviation OPERAND_uimm12x8 := 1 (only parsing).
Abbreviation OPERAND_simm4 := 2 (only parsing).
Abbreviation OPERAND_arr := 3 (only parsing).
Abbreviation OPERAND_ars := 4 (only parsing).
Abbreviation OPERAND__ars_invisible := 5 (only parsing).
Abbreviation OPERAND_art := 6 (only parsing).
Abbreviation OPERAND_ar0 := 7 (only parsing).
Abbreviation OPERAND_ar4 := 8 (only parsing).
Abbreviation OPERAND_ar8 := 9 (only parsing).
Abbreviation OPERAND_ar12 := 10 (only parsing).
Abbreviation OPERAND_ars_entry := 11 (only parsing).
Abbreviation OPERAND_immrx4 := 12 (only parsing).
Abbreviation OPERAND_lsi4x4 := 13 (only parsing).
Abbreviation OPERAND_simm7 := 14 (only parsing).
Abbreviation OPERAND_uimm6 := 15 (only parsing).
Abbreviation OPERAND_ai4const := 16 (only parsing).
Abbreviation OPERAND_b4const := 17 (only parsing).
Abbreviation OPERAND_b4constu := 18 (only parsing).
Abbreviation OPERAND_uimm8 := 19 (only parsing).
Abbreviation OPERAND_uimm8x2 := 20 (only parsing).
Abbreviation OPERAND_uimm8x4 := 21 (only parsing).
Abbreviation OPERAND_uimm4x16 := 22 (only parsing).
Abbreviation OPERAND_uimmrx4 := 23 (only parsing).
Abbreviation OPERAND_simm8 := 24 (only parsing).
Abbreviation OPERAND_simm8x256 := 25 (only parsing).
Abbreviation OPERAND_simm12b := 26 (only parsing).
Abbreviation OPERAND_msalp32 := 27 (only parsing).
Abbreviation OPERAND_op2p1 := 28 (only parsing).
Abbreviation OPERAND_label8 := 29 (only parsing).
Abbreviation OPERAND_ulabel8 := 30 (only parsing).
Abbreviation OPERAND_label12 := 31 (only parsing).
Abbreviation OPERAND_soffset := 32 (only parsing).
Abbreviation OPERAND_uimm16x4 := 33 (only parsing).
Abbreviation OPERAND_bbi := 34 (only parsing).
Abbreviation OPERAND_sae := 35 (only parsing).
Abbreviation OPERAND_sas := 36 (only parsing).
Abbreviation OPERAND_sargt := 37 (only parsing).
Abbreviation OPERAND_s := 38 (only parsing).
Abbreviation OPERAND_mx := 39 (only parsing).
Abbreviation OPERAND_my := 40 (only parsing).
Abbreviation OPERAND_mw := 41 (only parsing).
Abbreviation OPERAND_mr0 := 42 (only parsing).
Abbreviation OPERAND_mr1 := 43 (only parsing).
Abbreviation OPERAND_mr2 := 44 (only parsing).
Abbreviation OPERAND_mr3 := 45 (only parsing).
Abbreviation OPERAND_immt := 46 (only parsing).
Abbreviation OPERAND_imms := 47 (only parsing).
Abbreviation OPERAND_bt := 48 (only parsing).
Abbreviation OPERAND_bs := 49 (only parsing).
Abbreviation OPERAND_br := 50 (only parsing).
Abbreviation OPERAND_bt2 := 51 (only parsing).
Abbreviation OPERAND_bs2 := 52 (only parsing).
Abbreviation OPERAND_br2 := 53 (only parsing).
Abbreviation OPERAND_bt4 := 54 (only parsing).
Abbreviation OPERAND_bs4 := 55 (only parsing).
Abbreviation OPERAND_br4 := 56 (only parsing).
Abbreviation OPERAND_bt8 := 57 (only parsing).
Abbreviation OPERAND_bs8 := 58 (only parsing).
Abbreviation OPERAND_br8 := 59 (only parsing).
Abbreviation OPERAND_bt16 := 60 (only parsing).
Abbreviation OPERAND_bs16 := 61 (only parsing).
Abbreviation OPERAND_br16 := 62 (only parsing).
Abbreviation OPERAND_brall := 63 (only parsing).
Abbreviation OPERAND_tp7 := 64 (only parsing).
Abbreviation OPERAND_xt_wbr15_label := 65 (only parsing).
Abbreviation OPERAND_xt_wbr18_label := 66 (only parsing).
Abbreviation OPERAND_frr := 67 (only parsing).
Abbreviation OPERAND_frs := 68 (only parsing).
Abbreviation OPERAND_frt := 69 (only parsing).
Abbreviation OPERAND_imm_t := 70 (only parsing).
Abbreviation OPERAND_imm_s := 71 (only parsing).
Abbreviation OPERAND_imm8x4 := 72 (only parsing).
Abbreviation OPERAND_imm8x8 := 73 (only parsing).
Abbreviation OPERAND_opnd_st_QR_b := 74 (only parsing).
Abbreviation OPERAND_opnd_st_QR_a := 75 (only parsing).
Abbreviation OPERAND_opnd_ld_QR_b := 76 (only parsing).
Abbreviation OPERAND_opnd_ld_QR_a := 77 (only parsing).
Abbreviation OPERAND_opnd_imm_QR := 78 (only parsing).
Abbreviation OPERAND_opnd_mv_QR_b := 79 (only parsing).
Abbreviation OPERAND_opnd_mv_QR_a := 80 (only parsing).
Abbreviation OPERAND_opnd_EE_WR_MASK_GPIO_OUT_mask := 81 (only parsing).
Abbreviation OPERAND_opnd_EE_WR_MASK_GPIO_OUT_value := 82 (only parsing).
Abbreviation OPERAND_opnd_EE_SET_BIT_GPIO_OUT_mask := 83 (only parsing).
Abbreviation OPERAND_opnd_EE_CLR_BIT_GPIO_OUT_clear := 84 (only parsing).
Abbreviation OPERAND_opnd_EE_GET_GPIO_IN_au := 85 (only parsing).
Abbreviation OPERAND_opnd_semantic_LD_ST_imm2 := 86 (only parsing).
Abbreviation OPERAND_opnd_semantic_LD_ST_imm1 := 87 (only parsing).
Abbreviation OPERAND_opnd_semantic_LD_ST_qu1 := 88 (only parsing).
Abbreviation OPERAND_opnd_semantic_LD_ST_imm16f := 89 (only parsing).
Abbreviation OPERAND_opnd_semantic_LD_ST_as := 90 (only parsing).
Abbreviation OPERAND_opnd_semantic_LD_ST_fu0 := 91 (only parsing).
Abbreviation OPERAND_opnd_semantic_LD_ST_fu1 := 92 (only parsing).
Abbreviation OPERAND_opnd_semantic_LD_ST_fu2 := 93 (only parsing).
Abbreviation OPERAND_opnd_semantic_LD_ST_fu3 := 94 (only parsing).
Abbreviation OPERAND_opnd_semantic_LD_ST_ad := 95 (only parsing).
Abbreviation OPERAND_opnd_semantic_LD_ST_imm8 := 96 (only parsing).
Abbreviation OPERAND_opnd_semantic_LD_ST_imm16 := 97 (only parsing).
Abbreviation OPERAND_opnd_semantic_LD_ST_imm4 := 98 (only parsing).
Abbreviation OPERAND_opnd_semantic_LD_ST_sel8 := 99 (only parsing).
Abbreviation OPERAND_opnd_semantic_LD_ST_sel4 := 100 (only parsing).
Abbreviation OPERAND_opnd_semantic_LD_ST_qs := 101 (only parsing).
Abbreviation OPERAND_opnd_semantic_LD_ST_qu := 102 (only parsing).
Abbreviation OPERAND_opnd_semantic_LD_ST_fv0 := 103 (only parsing).
Abbreviation OPERAND_opnd_semantic_LD_ST_fv1 := 104 (only parsing).
Abbreviation OPERAND_opnd_semantic_LD_ST_fv2 := 105 (only parsing).
Abbreviation OPERAND_opnd_semantic_LD_ST_fv3 := 106 (only parsing).
Abbreviation OPERAND_opnd_semantic_LD_ST_qv := 107 (only parsing).
Abbreviation OPERAND_opnd_EE_MOVI_32_A_sel4 := 108 (only parsing).
Abbreviation OPERAND_opnd_EE_MOVI_32_A_au := 109 (only parsing).
Abbreviation OPERAND_opnd_EE_MOVI_32_A_qs := 110 (only parsing).
Abbreviation OPERAND_opnd_EE_MOVI_32_Q_sel4 := 111 (only parsing).
Abbreviation OPERAND_opnd_EE_MOVI_32_Q_as := 112 (only parsing).
Abbreviation OPERAND_opnd_EE_MOVI_32_Q_qu := 113 (only parsing).
Abbreviation OPERAND_opnd_EE_VZIP_16_qs1 := 114 (only parsing).
Abbreviation OPERAND_opnd_EE_VZIP_16_qs0 := 115 (only parsing).
Abbreviation OPERAND_opnd_EE_VZIP_32_qs1 := 116 (only parsing).
Abbreviation OPERAND_opnd_EE_VZIP_32_qs0 := 117 (only parsing).
Abbreviation OPERAND_opnd_EE_VZIP_8_qs1 := 118 (only parsing).
Abbreviation OPERAND_opnd_EE_VZIP_8_qs0 := 119 (only parsing).
Abbreviation OPERAND_opnd_EE_VUNZIP_16_qs1 := 120 (only parsing).
Abbreviation OPERAND_opnd_EE_VUNZIP_16_qs0 := 121 (only parsing).
Abbreviation OPERAND_opnd_EE_VUNZIP_32_qs1 := 122 (only parsing).
Abbreviation OPERAND_opnd_EE_VUNZIP_32_qs0 := 123 (only parsing).
Abbreviation OPERAND_opnd_EE_VUNZIP_8_qs1 := 124 (only parsing).
Abbreviation OPERAND_opnd_EE_VUNZIP_8_qs0 := 125 (only parsing).
Abbreviation OPERAND_opnd_EE_ZERO_Q_qa := 126 (only parsing).
Abbreviation OPERAND_opnd_EE_MOV_S16_QACC_qs := 127 (only parsing).
Abbreviation OPERAND_opnd_EE_MOV_S8_QACC_qs := 128 (only parsing).
Abbreviation OPERAND_opnd_EE_MOV_U16_QACC_qs := 129 (only parsing).
Abbreviation OPERAND_opnd_EE_MOV_U8_QACC_qs := 130 (only parsing).
Abbreviation OPERAND_opnd_semantic_CAL_DOUBLE_Q_qa := 131 (only parsing).
Abbreviation OPERAND_opnd_semantic_CAL_DOUBLE_Q_as := 132 (only parsing).
Abbreviation OPERAND_opnd_semantic_CAL_DOUBLE_Q_qu := 133 (only parsing).
Abbreviation OPERAND_opnd_semantic_CAL_DOUBLE_Q_qv := 134 (only parsing).
Abbreviation OPERAND_opnd_semantic_CAL_DOUBLE_Q_sel4 := 135 (only parsing).
Abbreviation OPERAND_opnd_semantic_CAL_DOUBLE_Q_qy := 136 (only parsing).
Abbreviation OPERAND_opnd_semantic_CAL_DOUBLE_Q_qx := 137 (only parsing).
Abbreviation OPERAND_opnd_semantic_CAL_DOUBLE_Q_qz := 138 (only parsing).
Abbreviation OPERAND_opnd_semantic_CAL_DOUBLE_Q_qs1 := 139 (only parsing).
Abbreviation OPERAND_opnd_semantic_CAL_DOUBLE_Q_qs0 := 140 (only parsing).
Abbreviation OPERAND_opnd_semantic_CAL_DOUBLE_Q_imm16 := 141 (only parsing).
Abbreviation OPERAND_opnd_semantic_CAL_DOUBLE_Q_ad := 142 (only parsing).
Abbreviation OPERAND_opnd_semantic_CAL_DOUBLE_Q_sel8 := 143 (only parsing).
Abbreviation OPERAND_opnd_semantic_CAL_DOUBLE_Q_sel16 := 144 (only parsing).
Abbreviation OPERAND_opnd_semantic_SRCMB_QACC_sel2 := 145 (only parsing).
Abbreviation OPERAND_opnd_semantic_SRCMB_QACC_as := 146 (only parsing).
Abbreviation OPERAND_opnd_semantic_SRCMB_QACC_qu := 147 (only parsing).
Abbreviation OPERAND_opnd_EE_SRS_ACCX_sel2 := 148 (only parsing).
Abbreviation OPERAND_opnd_EE_SRS_ACCX_as := 149 (only parsing).
Abbreviation OPERAND_opnd_EE_SRS_ACCX_au := 150 (only parsing).
Abbreviation OPERAND_opnd_semantic_CAL_DOUBLE_Q_ax := 151 (only parsing).
Abbreviation OPERAND_opnd_semantic_CAL_DOUBLE_Q_qs := 152 (only parsing).
Abbreviation OPERAND_opnd_semantic_CAL_DOUBLE_Q_ay := 153 (only parsing).
Abbreviation OPERAND_opnd_semantic_VLOGIC_qy := 154 (only parsing).
Abbreviation OPERAND_opnd_semantic_VLOGIC_qx := 155 (only parsing).
Abbreviation OPERAND_opnd_semantic_VLOGIC_qa := 156 (only parsing).
Abbreviation OPERAND_opnd_semantic_SHFQ_sar16 := 157 (only parsing).
Abbreviation OPERAND_opnd_semantic_SHFQ_qs0 := 158 (only parsing).
Abbreviation OPERAND_opnd_semantic_SHFQ_qs1 := 159 (only parsing).
Abbreviation OPERAND_opnd_semantic_SHFQ_ad := 160 (only parsing).
Abbreviation OPERAND_opnd_semantic_SHFQ_as := 161 (only parsing).
Abbreviation OPERAND_opnd_semantic_SHFQ_imm16 := 162 (only parsing).
Abbreviation OPERAND_opnd_semantic_SHFQ_qu := 163 (only parsing).
Abbreviation OPERAND_opnd_semantic_SHFQ_qa := 164 (only parsing).
Abbreviation OPERAND_opnd_semantic_SHFQ_qs := 165 (only parsing).
Abbreviation OPERAND_opnd_semantic_FFT_RxBF_sar4 := 166 (only parsing).
Abbreviation OPERAND_opnd_semantic_FFT_RxBF_as := 167 (only parsing).
Abbreviation OPERAND_opnd_semantic_FFT_RxBF_sel2 := 168 (only parsing).
Abbreviation OPERAND_opnd_semantic_FFT_RxBF_qy := 169 (only parsing).
Abbreviation OPERAND_opnd_semantic_FFT_RxBF_qx := 170 (only parsing).
Abbreviation OPERAND_opnd_semantic_FFT_RxBF_qa1 := 171 (only parsing).
Abbreviation OPERAND_opnd_semantic_FFT_RxBF_qa0 := 172 (only parsing).
Abbreviation OPERAND_opnd_EE_FFT_CMUL_S16_LD_XP_sel8 := 173 (only parsing).
Abbreviation OPERAND_opnd_EE_FFT_CMUL_S16_LD_XP_qy := 174 (only parsing).
Abbreviation OPERAND_opnd_EE_FFT_CMUL_S16_LD_XP_qx := 175 (only parsing).
Abbreviation OPERAND_opnd_EE_FFT_CMUL_S16_LD_XP_qz := 176 (only parsing).
Abbreviation OPERAND_opnd_EE_FFT_CMUL_S16_LD_XP_ad := 177 (only parsing).
Abbreviation OPERAND_opnd_EE_FFT_CMUL_S16_LD_XP_as := 178 (only parsing).
Abbreviation OPERAND_opnd_EE_FFT_CMUL_S16_LD_XP_qu := 179 (only parsing).
Abbreviation OPERAND_opnd_EE_FFT_CMUL_S16_ST_XP_sar4 := 180 (only parsing).
Abbreviation OPERAND_opnd_EE_FFT_CMUL_S16_ST_XP_upd4 := 181 (only parsing).
Abbreviation OPERAND_opnd_EE_FFT_CMUL_S16_ST_XP_sel8 := 182 (only parsing).
Abbreviation OPERAND_opnd_EE_FFT_CMUL_S16_ST_XP_ad := 183 (only parsing).
Abbreviation OPERAND_opnd_EE_FFT_CMUL_S16_ST_XP_as := 184 (only parsing).
Abbreviation OPERAND_opnd_EE_FFT_CMUL_S16_ST_XP_qv := 185 (only parsing).
Abbreviation OPERAND_opnd_EE_FFT_CMUL_S16_ST_XP_qy := 186 (only parsing).
Abbreviation OPERAND_opnd_EE_FFT_CMUL_S16_ST_XP_qx := 187 (only parsing).
Abbreviation OPERAND_opnd_EE_BITREV_ax := 188 (only parsing).
Abbreviation OPERAND_opnd_EE_BITREV_qa := 189 (only parsing).
Abbreviation OPERAND_opnd_EE_FFT_AMS_S16_LD_INCP_sel2 := 190 (only parsing).
Abbreviation OPERAND_opnd_EE_FFT_AMS_S16_LD_INCP_qm := 191 (only parsing).
Abbreviation OPERAND_opnd_EE_FFT_AMS_S16_LD_INCP_qy := 192 (only parsing).
Abbreviation OPERAND_opnd_EE_FFT_AMS_S16_LD_INCP_qx := 193 (only parsing).
Abbreviation OPERAND_opnd_EE_FFT_AMS_S16_LD_INCP_qz1 := 194 (only parsing).
Abbreviation OPERAND_opnd_EE_FFT_AMS_S16_LD_INCP_qz := 195 (only parsing).
Abbreviation OPERAND_opnd_EE_FFT_AMS_S16_LD_INCP_as := 196 (only parsing).
Abbreviation OPERAND_opnd_EE_FFT_AMS_S16_LD_INCP_qu := 197 (only parsing).
Abbreviation OPERAND_opnd_EE_FFT_AMS_S16_LD_INCP_UAUP_sel2 := 198 (only parsing).
Abbreviation OPERAND_opnd_EE_FFT_AMS_S16_LD_INCP_UAUP_qm := 199 (only parsing).
Abbreviation OPERAND_opnd_EE_FFT_AMS_S16_LD_INCP_UAUP_qy := 200 (only parsing).
Abbreviation OPERAND_opnd_EE_FFT_AMS_S16_LD_INCP_UAUP_qx := 201 (only parsing).
Abbreviation OPERAND_opnd_EE_FFT_AMS_S16_LD_INCP_UAUP_qz1 := 202 (only parsing).
Abbreviation OPERAND_opnd_EE_FFT_AMS_S16_LD_INCP_UAUP_qz := 203 (only parsing).
Abbreviation OPERAND_opnd_EE_FFT_AMS_S16_LD_INCP_UAUP_as := 204 (only parsing).
Abbreviation OPERAND_opnd_EE_FFT_AMS_S16_LD_INCP_UAUP_qu := 205 (only parsing).
Abbreviation OPERAND_opnd_EE_FFT_AMS_S16_LD_R32_DECP_sel2 := 206 (only parsing).
Abbreviation OPERAND_opnd_EE_FFT_AMS_S16_LD_R32_DECP_qm := 207 (only parsing).
Abbreviation OPERAND_opnd_EE_FFT_AMS_S16_LD_R32_DECP_qy := 208 (only parsing).
Abbreviation OPERAND_opnd_EE_FFT_AMS_S16_LD_R32_DECP_qx := 209 (only parsing).
Abbreviation OPERAND_opnd_EE_FFT_AMS_S16_LD_R32_DECP_qz1 := 210 (only parsing).
Abbreviation OPERAND_opnd_EE_FFT_AMS_S16_LD_R32_DECP_qz := 211 (only parsing).
Abbreviation OPERAND_opnd_EE_FFT_AMS_S16_LD_R32_DECP_as := 212 (only parsing).
Abbreviation OPERAND_opnd_EE_FFT_AMS_S16_LD_R32_DECP_qu := 213 (only parsing).
Abbreviation OPERAND_opnd_EE_FFT_AMS_S16_ST_INCP_sel2 := 214 (only parsing).
Abbreviation OPERAND_opnd_EE_FFT_AMS_S16_ST_INCP_qm := 215 (only parsing).
Abbreviation OPERAND_opnd_EE_FFT_AMS_S16_ST_INCP_qy := 216 (only parsing).
Abbreviation OPERAND_opnd_EE_FFT_AMS_S16_ST_INCP_qx := 217 (only parsing).
Abbreviation OPERAND_opnd_EE_FFT_AMS_S16_ST_INCP_as := 218 (only parsing).
Abbreviation OPERAND_opnd_EE_FFT_AMS_S16_ST_INCP_as0 := 219 (only parsing).
Abbreviation OPERAND_opnd_EE_FFT_AMS_S16_ST_INCP_qz1 := 220 (only parsing).
Abbreviation OPERAND_opnd_EE_FFT_AMS_S16_ST_INCP_qv := 221 (only parsing).
Abbreviation OPERAND_opnd_EE_FFT_VST_R32_DECP_sar2 := 222 (only parsing).
Abbreviation OPERAND_opnd_EE_FFT_VST_R32_DECP_as := 223 (only parsing).
Abbreviation OPERAND_opnd_EE_FFT_VST_R32_DECP_qv := 224 (only parsing).
Abbreviation OPERAND_t := 225 (only parsing).
Abbreviation OPERAND_bbi4 := 226 (only parsing).
Abbreviation OPERAND_imm12 := 227 (only parsing).
Abbreviation OPERAND_imm8 := 228 (only parsing).
Abbreviation OPERAND_imm12b := 229 (only parsing).
Abbreviation OPERAND_imm16 := 230 (only parsing).
Abbreviation OPERAND_m := 231 (only parsing).
Abbreviation OPERAND_n := 232 (only parsing).
Abbreviation OPERAND_offset := 233 (only parsing).
Abbreviation OPERAND_op0 := 234 (only parsing).
Abbreviation OPERAND_op1 := 235 (only parsing).
Abbreviation OPERAND_op2 := 236 (only parsing).
Abbreviation OPERAND_r := 237 (only parsing).
Abbreviation OPERAND_sa4 := 238 (only parsing).
Abbreviation OPERAND_sae4 := 239 (only parsing).
Abbreviation OPERAND_sal := 240 (only parsing).
Abbreviation OPERAND_sas4 := 241 (only parsing).
Abbreviation OPERAND_sr := 242 (only parsing).
Abbreviation OPERAND_st := 243 (only parsing).
Abbreviation OPERAND_thi3 := 244 (only parsing).
Abbreviation OPERAND_imm4 := 245 (only parsing).
Abbreviation OPERAND_mn := 246 (only parsing).
Abbreviation OPERAND_i := 247 (only parsing).
Abbreviation OPERAND_imm6lo := 248 (only parsing).
Abbreviation OPERAND_imm6hi := 249 (only parsing).
Abbreviation OPERAND_imm7lo := 250 (only parsing).
Abbreviation OPERAND_imm7hi := 251 (only parsing).
Abbreviation OPERAND_z := 252 (only parsing).
Abbreviation OPERAND_imm6 := 253 (only parsing).
Abbreviation OPERAND_imm7 := 254 (only parsing).
Abbreviation OPERAND_r3 := 255 (only parsing).
Abbreviation OPERAND_rbit2 := 256 (only parsing).
Abbreviation OPERAND_rhi := 257 (only parsing).
Abbreviation OPERAND_t3 := 258 (only parsing).
Abbreviation OPERAND_tbit2 := 259 (only parsing).
Abbreviation OPERAND_tlo := 260 (only parsing).
Abbreviation OPERAND_w := 261 (only parsing).
Abbreviation OPERAND_y := 262 (only parsing).
Abbreviation OPERAND_x := 263 (only parsing).
Abbreviation OPERAND_t2 := 264 (only parsing).
Abbreviation OPERAND_s2 := 265 (only parsing).
Abbreviation OPERAND_r2 := 266 (only parsing).
Abbreviation OPERAND_t4 := 267 (only parsing).
Abbreviation OPERAND_s4 := 268 (only parsing).
Abbreviation OPERAND_r4 := 269 (only parsing).
Abbreviation OPERAND_t8 := 270 (only parsing).
Abbreviation OPERAND_s8 := 271 (only parsing).
Abbreviation OPERAND_r8 := 272 (only parsing).
Abbreviation OPERAND_xt_wbr15_imm := 273 (only parsing).
Abbreviation OPERAND_xt_wbr18_imm := 274 (only parsing).
Abbreviation OPERAND_fld_slot_format_32_0_3_0 := 275 (only parsing).
Abbreviation OPERAND_fld_slot_format_32_0_28_4 := 276 (only parsing).
Abbreviation OPERAND_fld_st_QR_b := 277 (only parsing).
Abbreviation OPERAND_fld_st_QR_a := 278 (only parsing).
Abbreviation OPERAND_fld_ld_QR_b := 279 (only parsing).
Abbreviation OPERAND_fld_ld_QR_a := 280 (only parsing).
Abbreviation OPERAND_fld_QR := 281 (only parsing).
Abbreviation OPERAND_fld_Inst_4_0 := 282 (only parsing).
Abbreviation OPERAND_fld_Inst_9_6 := 283 (only parsing).
Abbreviation OPERAND_fld_mv_QR_b := 284 (only parsing).
Abbreviation OPERAND_fld_mv_QR_a := 285 (only parsing).
Abbreviation OPERAND_fld_EE_WR_MASK_GPIO_OUT_mask := 286 (only parsing).
Abbreviation OPERAND_fld_EE_WR_MASK_GPIO_OUT_value := 287 (only parsing).
Abbreviation OPERAND_fld_EE_SET_BIT_GPIO_OUT_mask := 288 (only parsing).
Abbreviation OPERAND_fld_EE_CLR_BIT_GPIO_OUT_clear := 289 (only parsing).
Abbreviation OPERAND_fld_Inst_23_8 := 290 (only parsing).
Abbreviation OPERAND_fld_EE_GET_GPIO_IN_au := 291 (only parsing).
Abbreviation OPERAND_fld_Inst_23_22 := 292 (only parsing).
Abbreviation OPERAND_fld_semantic_LD_ST_imm2 := 293 (only parsing).
Abbreviation OPERAND_fld_Inst_14_8 := 294 (only parsing).
Abbreviation OPERAND_fld_semantic_LD_ST_imm1 := 295 (only parsing).
Abbreviation OPERAND_fld_Inst_11_8 := 296 (only parsing).
Abbreviation OPERAND_fld_semantic_LD_ST_qu1 := 297 (only parsing).
Abbreviation OPERAND_fld_semantic_LD_ST_imm16f := 298 (only parsing).
Abbreviation OPERAND_fld_semantic_LD_ST_as := 299 (only parsing).
Abbreviation OPERAND_fld_semantic_LD_ST_fu0 := 300 (only parsing).
Abbreviation OPERAND_fld_semantic_LD_ST_fu1 := 301 (only parsing).
Abbreviation OPERAND_fld_semantic_LD_ST_fu2 := 302 (only parsing).
Abbreviation OPERAND_fld_semantic_LD_ST_fu3 := 303 (only parsing).
Abbreviation OPERAND_fld_slot_format_32_0_28_24 := 304 (only parsing).
Abbreviation OPERAND_fld_semantic_LD_ST_ad := 305 (only parsing).
Abbreviation OPERAND_fld_semantic_LD_ST_imm8 := 306 (only parsing).
Abbreviation OPERAND_fld_slot_format_32_0_7_5 := 307 (only parsing).
Abbreviation OPERAND_fld_Inst_3_0 := 308 (only parsing).
Abbreviation OPERAND_fld_Inst_19_16 := 309 (only parsing).
Abbreviation OPERAND_fld_Inst_23_23 := 310 (only parsing).
Abbreviation OPERAND_fld_Inst_14_12 := 311 (only parsing).
Abbreviation OPERAND_fld_Inst_21_15 := 312 (only parsing).
Abbreviation OPERAND_fld_semantic_LD_ST_imm16 := 313 (only parsing).
Abbreviation OPERAND_fld_Inst_23_12 := 314 (only parsing).
Abbreviation OPERAND_fld_semantic_LD_ST_imm4 := 315 (only parsing).
Abbreviation OPERAND_fld_semantic_LD_ST_sel8 := 316 (only parsing).
Abbreviation OPERAND_fld_semantic_LD_ST_sel4 := 317 (only parsing).
Abbreviation OPERAND_fld_semantic_LD_ST_qs := 318 (only parsing).
Abbreviation OPERAND_fld_semantic_LD_ST_qu := 319 (only parsing).
Abbreviation OPERAND_fld_slot_format_32_0_28_22 := 320 (only parsing).
Abbreviation OPERAND_fld_semantic_LD_ST_fv0 := 321 (only parsing).
Abbreviation OPERAND_fld_semantic_LD_ST_fv1 := 322 (only parsing).
Abbreviation OPERAND_fld_semantic_LD_ST_fv2 := 323 (only parsing).
Abbreviation OPERAND_fld_semantic_LD_ST_fv3 := 324 (only parsing).
Abbreviation OPERAND_fld_semantic_LD_ST_qv := 325 (only parsing).
Abbreviation OPERAND_fld_EE_MOVI_32_A_sel4 := 326 (only parsing).
Abbreviation OPERAND_fld_EE_MOVI_32_A_au := 327 (only parsing).
Abbreviation OPERAND_fld_EE_MOVI_32_A_qs := 328 (only parsing).
Abbreviation OPERAND_fld_EE_MOVI_32_Q_sel4 := 329 (only parsing).
Abbreviation OPERAND_fld_EE_MOVI_32_Q_as := 330 (only parsing).
Abbreviation OPERAND_fld_EE_MOVI_32_Q_qu := 331 (only parsing).
Abbreviation OPERAND_fld_EE_VZIP_16_qs1 := 332 (only parsing).
Abbreviation OPERAND_fld_EE_VZIP_16_qs0 := 333 (only parsing).
Abbreviation OPERAND_fld_EE_VZIP_32_qs1 := 334 (only parsing).
Abbreviation OPERAND_fld_EE_VZIP_32_qs0 := 335 (only parsing).
Abbreviation OPERAND_fld_EE_VZIP_8_qs1 := 336 (only parsing).
Abbreviation OPERAND_fld_EE_VZIP_8_qs0 := 337 (only parsing).
Abbreviation OPERAND_fld_Inst_11_0 := 338 (only parsing).
Abbreviation OPERAND_fld_EE_VUNZIP_16_qs1 := 339 (only parsing).
Abbreviation OPERAND_fld_EE_VUNZIP_16_qs0 := 340 (only parsing).
Abbreviation OPERAND_fld_EE_VUNZIP_32_qs1 := 341 (only parsing).
Abbreviation OPERAND_fld_EE_VUNZIP_32_qs0 := 342 (only parsing).
Abbreviation OPERAND_fld_EE_VUNZIP_8_qs1 := 343 (only parsing).
Abbreviation OPERAND_fld_EE_VUNZIP_8_qs0 := 344 (only parsing).
Abbreviation OPERAND_fld_Inst_23_0 := 345 (only parsing).
Abbreviation OPERAND_fld_EE_ZERO_Q_qa := 346 (only parsing).
Abbreviation OPERAND_fld_Inst_14_0 := 347 (only parsing).
Abbreviation OPERAND_fld_EE_MOV_S16_QACC_qs := 348 (only parsing).
Abbreviation OPERAND_fld_EE_MOV_S8_QACC_qs := 349 (only parsing).
Abbreviation OPERAND_fld_EE_MOV_U16_QACC_qs := 350 (only parsing).
Abbreviation OPERAND_fld_EE_MOV_U8_QACC_qs := 351 (only parsing).
Abbreviation OPERAND_fld_slot_format_32_0_10_4 := 352 (only parsing).
Abbreviation OPERAND_fld_Inst_7_0 := 353 (only parsing).
Abbreviation OPERAND_fld_semantic_CAL_DOUBLE_Q_qa := 354 (only parsing).
Abbreviation OPERAND_fld_semantic_CAL_DOUBLE_Q_as := 355 (only parsing).
Abbreviation OPERAND_fld_semantic_CAL_DOUBLE_Q_qu := 356 (only parsing).
Abbreviation OPERAND_fld_slot_format_32_0_10_6 := 357 (only parsing).
Abbreviation OPERAND_fld_semantic_CAL_DOUBLE_Q_qv := 358 (only parsing).
Abbreviation OPERAND_fld_slot_format_32_0_28_20 := 359 (only parsing).
Abbreviation OPERAND_fld_Inst_7_6 := 360 (only parsing).
Abbreviation OPERAND_fld_semantic_CAL_DOUBLE_Q_sel4 := 361 (only parsing).
Abbreviation OPERAND_fld_semantic_CAL_DOUBLE_Q_qy := 362 (only parsing).
Abbreviation OPERAND_fld_semantic_CAL_DOUBLE_Q_qx := 363 (only parsing).
Abbreviation OPERAND_fld_semantic_CAL_DOUBLE_Q_qz := 364 (only parsing).
Abbreviation OPERAND_fld_semantic_CAL_DOUBLE_Q_qs1 := 365 (only parsing).
Abbreviation OPERAND_fld_semantic_CAL_DOUBLE_Q_qs0 := 366 (only parsing).
Abbreviation OPERAND_fld_slot_format_32_0_28_25 := 367 (only parsing).
Abbreviation OPERAND_fld_semantic_CAL_DOUBLE_Q_imm16 := 368 (only parsing).
Abbreviation OPERAND_fld_slot_format_32_0_10_8 := 369 (only parsing).
Abbreviation OPERAND_fld_slot_format_32_0_19_17 := 370 (only parsing).
Abbreviation OPERAND_fld_slot_format_32_0_28_23 := 371 (only parsing).
Abbreviation OPERAND_fld_semantic_CAL_DOUBLE_Q_ad := 372 (only parsing).
Abbreviation OPERAND_fld_slot_format_32_0_7_4 := 373 (only parsing).
Abbreviation OPERAND_fld_Inst_23_21 := 374 (only parsing).
Abbreviation OPERAND_fld_semantic_CAL_DOUBLE_Q_sel8 := 375 (only parsing).
Abbreviation OPERAND_fld_slot_format_32_0_10_9 := 376 (only parsing).
Abbreviation OPERAND_fld_Inst_7_5 := 377 (only parsing).
Abbreviation OPERAND_fld_semantic_CAL_DOUBLE_Q_sel16 := 378 (only parsing).
Abbreviation OPERAND_fld_Inst_14_11 := 379 (only parsing).
Abbreviation OPERAND_fld_semantic_SRCMB_QACC_sel2 := 380 (only parsing).
Abbreviation OPERAND_fld_semantic_SRCMB_QACC_as := 381 (only parsing).
Abbreviation OPERAND_fld_semantic_SRCMB_QACC_qu := 382 (only parsing).
Abbreviation OPERAND_fld_Inst_13_12 := 383 (only parsing).
Abbreviation OPERAND_fld_Inst_23_15 := 384 (only parsing).
Abbreviation OPERAND_fld_EE_SRS_ACCX_sel2 := 385 (only parsing).
Abbreviation OPERAND_fld_EE_SRS_ACCX_as := 386 (only parsing).
Abbreviation OPERAND_fld_EE_SRS_ACCX_au := 387 (only parsing).
Abbreviation OPERAND_fld_semantic_CAL_DOUBLE_Q_ax := 388 (only parsing).
Abbreviation OPERAND_fld_semantic_CAL_DOUBLE_Q_qs := 389 (only parsing).
Abbreviation OPERAND_fld_Inst_13_13 := 390 (only parsing).
Abbreviation OPERAND_fld_semantic_CAL_DOUBLE_Q_ay := 391 (only parsing).
Abbreviation OPERAND_fld_Inst_9_8 := 392 (only parsing).
Abbreviation OPERAND_fld_semantic_VLOGIC_qy := 393 (only parsing).
Abbreviation OPERAND_fld_semantic_VLOGIC_qx := 394 (only parsing).
Abbreviation OPERAND_fld_semantic_VLOGIC_qa := 395 (only parsing).
Abbreviation OPERAND_fld_Inst_5_5 := 396 (only parsing).
Abbreviation OPERAND_fld_semantic_SHFQ_sar16 := 397 (only parsing).
Abbreviation OPERAND_fld_semantic_SHFQ_qs0 := 398 (only parsing).
Abbreviation OPERAND_fld_semantic_SHFQ_qs1 := 399 (only parsing).
Abbreviation OPERAND_fld_semantic_SHFQ_ad := 400 (only parsing).
Abbreviation OPERAND_fld_semantic_SHFQ_as := 401 (only parsing).
Abbreviation OPERAND_fld_semantic_SHFQ_imm16 := 402 (only parsing).
Abbreviation OPERAND_fld_semantic_SHFQ_qu := 403 (only parsing).
Abbreviation OPERAND_fld_slot_format_32_0_7_6 := 404 (only parsing).
Abbreviation OPERAND_fld_slot_format_32_0_13_11 := 405 (only parsing).
Abbreviation OPERAND_fld_Inst_11_7 := 406 (only parsing).
Abbreviation OPERAND_fld_semantic_SHFQ_qa := 407 (only parsing).
Abbreviation OPERAND_fld_Inst_14_7 := 408 (only parsing).
Abbreviation OPERAND_fld_semantic_SHFQ_qs := 409 (only parsing).
Abbreviation OPERAND_fld_semantic_FFT_RxBF_sar4 := 410 (only parsing).
Abbreviation OPERAND_fld_semantic_FFT_RxBF_as := 411 (only parsing).
Abbreviation OPERAND_fld_slot_format_32_0_13_13 := 412 (only parsing).
Abbreviation OPERAND_fld_Inst_9_9 := 413 (only parsing).
Abbreviation OPERAND_fld_semantic_FFT_RxBF_sel2 := 414 (only parsing).
Abbreviation OPERAND_fld_semantic_FFT_RxBF_qy := 415 (only parsing).
Abbreviation OPERAND_fld_semantic_FFT_RxBF_qx := 416 (only parsing).
Abbreviation OPERAND_fld_semantic_FFT_RxBF_qa1 := 417 (only parsing).
Abbreviation OPERAND_fld_semantic_FFT_RxBF_qa0 := 418 (only parsing).
Abbreviation OPERAND_fld_EE_FFT_CMUL_S16_LD_XP_sel8 := 419 (only parsing).
Abbreviation OPERAND_fld_EE_FFT_CMUL_S16_LD_XP_qy := 420 (only parsing).
Abbreviation OPERAND_fld_EE_FFT_CMUL_S16_LD_XP_qx := 421 (only parsing).
Abbreviation OPERAND_fld_EE_FFT_CMUL_S16_LD_XP_qz := 422 (only parsing).
Abbreviation OPERAND_fld_EE_FFT_CMUL_S16_LD_XP_ad := 423 (only parsing).
Abbreviation OPERAND_fld_EE_FFT_CMUL_S16_LD_XP_as := 424 (only parsing).
Abbreviation OPERAND_fld_EE_FFT_CMUL_S16_LD_XP_qu := 425 (only parsing).
Abbreviation OPERAND_fld_EE_FFT_CMUL_S16_ST_XP_sar4 := 426 (only parsing).
Abbreviation OPERAND_fld_EE_FFT_CMUL_S16_ST_XP_upd4 := 427 (only parsing).
Abbreviation OPERAND_fld_EE_FFT_CMUL_S16_ST_XP_sel8 := 428 (only parsing).
Abbreviation OPERAND_fld_EE_FFT_CMUL_S16_ST_XP_ad := 429 (only parsing).
Abbreviation OPERAND_fld_EE_FFT_CMUL_S16_ST_XP_as := 430 (only parsing).
Abbreviation OPERAND_fld_EE_FFT_CMUL_S16_ST_XP_qv := 431 (only parsing).
Abbreviation OPERAND_fld_EE_FFT_CMUL_S16_ST_XP_qy := 432 (only parsing).
Abbreviation OPERAND_fld_EE_FFT_CMUL_S16_ST_XP_qx := 433 (only parsing).
Abbreviation OPERAND_fld_EE_BITREV_ax := 434 (only parsing).
Abbreviation OPERAND_fld_EE_BITREV_qa := 435 (only parsing).
Abbreviation OPERAND_fld_EE_FFT_AMS_S16_LD_INCP_sel2 := 436 (only parsing).
Abbreviation OPERAND_fld_EE_FFT_AMS_S16_LD_INCP_qm := 437 (only parsing).
Abbreviation OPERAND_fld_EE_FFT_AMS_S16_LD_INCP_qy := 438 (only parsing).
Abbreviation OPERAND_fld_EE_FFT_AMS_S16_LD_INCP_qx := 439 (only parsing).
Abbreviation OPERAND_fld_EE_FFT_AMS_S16_LD_INCP_qz1 := 440 (only parsing).
Abbreviation OPERAND_fld_EE_FFT_AMS_S16_LD_INCP_qz := 441 (only parsing).
Abbreviation OPERAND_fld_EE_FFT_AMS_S16_LD_INCP_as := 442 (only parsing).
Abbreviation OPERAND_fld_EE_FFT_AMS_S16_LD_INCP_qu := 443 (only parsing).
Abbreviation OPERAND_fld_EE_FFT_AMS_S16_LD_INCP_UAUP_sel2 := 444 (only parsing).
Abbreviation OPERAND_fld_EE_FFT_AMS_S16_LD_INCP_UAUP_qm := 445 (only parsing).
Abbreviation OPERAND_fld_EE_FFT_AMS_S16_LD_INCP_UAUP_qy := 446 (only parsing).
Abbreviation OPERAND_fld_EE_FFT_AMS_S16_LD_INCP_UAUP_qx := 447 (only parsing).
Abbreviation OPERAND_fld_EE_FFT_AMS_S16_LD_INCP_UAUP_qz1 := 448 (only parsing).
Abbreviation OPERAND_fld_EE_FFT_AMS_S16_LD_INCP_UAUP_qz := 449 (only parsing).
Abbreviation OPERAND_fld_EE_FFT_AMS_S16_LD_INCP_UAUP_as := 450 (only parsing).
Abbreviation OPERAND_fld_EE_FFT_AMS_S16_LD_INCP_UAUP_qu := 451 (only parsing).
Abbreviation OPERAND_fld_EE_FFT_AMS_S16_LD_R32_DECP_sel2 := 452 (only parsing).
Abbreviation OPERAND_fld_EE_FFT_AMS_S16_LD_R32_DECP_qm := 453 (only parsing).
Abbreviation OPERAND_fld_EE_FFT_AMS_S16_LD_R32_DECP_qy := 454 (only parsing).
Abbreviation OPERAND_fld_EE_FFT_AMS_S16_LD_R32_DECP_qx := 455 (only parsing).
Abbreviation OPERAND_fld_EE_FFT_AMS_S16_LD_R32_DECP_qz1 := 456 (only parsing).
Abbreviation OPERAND_fld_EE_FFT_AMS_S16_LD_R32_DECP_qz := 457 (only parsing).
Abbreviation OPERAND_fld_EE_FFT_AMS_S16_LD_R32_DECP_as := 458 (only parsing).
Abbreviation OPERAND_fld_EE_FFT_AMS_S16_LD_R32_DECP_qu := 459 (only parsing).
Abbreviation OPERAND_fld_EE_FFT_AMS_S16_ST_INCP_sel2 := 460 (only parsing).
Abbreviation OPERAND_fld_EE_FFT_AMS_S16_ST_INCP_qm := 461 (only parsing).
Abbreviation OPERAND_fld_EE_FFT_AMS_S16_ST_INCP_qy := 462 (only parsing).
Abbreviation OPERAND_fld_EE_FFT_AMS_S16_ST_INCP_qx := 463 (only parsing).
Abbreviation OPERAND_fld_EE_FFT_AMS_S16_ST_INCP_as := 464 (only parsing).
Abbreviation OPERAND_fld_EE_FFT_AMS_S16_ST_INCP_as0 := 465 (only parsing).
Abbreviation OPERAND_fld_EE_FFT_AMS_S16_ST_INCP_qz1 := 466 (only parsing).
Abbreviation OPERAND_fld_EE_FFT_AMS_S16_ST_INCP_qv := 467 (only parsing).
Abbreviation OPERAND_fld_EE_FFT_VST_R32_DECP_sar2 := 468 (only parsing).
Abbreviation OPERAND_fld_EE_FFT_VST_R32_DECP_as := 469 (only parsing).
Abbreviation OPERAND_fld_EE_FFT_VST_R32_DECP_qv := 470 (only parsing).

(** ** [xtensa_regfile_id] *)

Abbreviation REGFILE_AR := 0 (only parsing).
Abbreviation REGFILE_MR := 1 (only parsing).
Abbreviation REGFILE_BR := 2 (only parsing).
Abbreviation REGFILE_FR := 3 (only parsing).
Abbreviation REGFILE_QR := 4 (only parsing).
Abbreviation REGFILE_BR2 := 5 (only parsing).
Abbreviation REGFILE_BR4 := 6 (only parsing).
Abbreviation REGFILE_BR8 := 7 (only parsing).
Abbreviation REGFILE_BR16 := 8 (only parsing).

(** ** [xtensa_interface_id] *)

Abbreviation INTERFACE_ERI_RD_Out := 0 (only parsing).
Abbreviation INTERFACE_ERI_RD_In := 1 (only parsing).
Abbreviation INTERFACE_ERI_RD_Rdy := 2 (only parsing).
Abbreviation INTERFACE_ERI_WR_Out := 3 (only parsing).
Abbreviation INTERFACE_ERI_WR_In := 4 (only parsing).
Abbreviation INTERFACE_GPIO_IN := 5 (only parsing).

(** ** Operands *)

Definition s3_operands_1 : list xtensa_operand_internal := [
  mkOperand "soffsetx4" FIELD_offset (-1) 0 (XTENSA_OPERAND_IS_PCRELATIVE) (Some OperandSem_opnd_sem_soffsetx4_encode) (Some OperandSem_opnd_sem_soffsetx4_decode) (Some Operand_soffsetx4_ator) (Some Operand_soffsetx4_rtoa);
  mkOperand "uimm12x8" FIELD_imm12 (-1) 0 (0) (Some OperandSem_opnd_sem_uimm12x8_encode) (Some OperandSem_opnd_sem_uimm12x8_decode) None None;
  mkOperand "simm4" FIELD_mn (-1) 0 (0) (Some OperandSem_opnd_sem_simm4_encode) (Some OperandSem_opnd_sem_simm4_decode) None None;
  mkOperand "arr" FIELD_r REGFILE_AR 1 (XTENSA_OPERAND_IS_REGISTER) (Some OperandSem_opnd_sem_AR_encode) (Some OperandSem_opnd_sem_AR_decode) None None;
  mkOperand "ars" FIELD_s REGFILE_AR 1 (XTENSA_OPERAND_IS_REGISTER) (Some OperandSem_opnd_sem_AR_encode) (Some OperandSem_opnd_sem_AR_decode) None None;
  mkOperand "*ars_invisible" FIELD_s REGFILE_AR 1 (XTENSA_OPERAND_IS_REGISTER ||| XTENSA_OPERAND_IS_INVISIBLE) (Some OperandSem_opnd_sem_AR_encode) (Some OperandSem_opnd_sem_AR_decode) None None;
  mkOperand "art" FIELD_t REGFILE_AR 1 (XTENSA_OPERAND_IS_REGISTER) (Some OperandSem_opnd_sem_AR_encode) (Some OperandSem_opnd_sem_AR_decode) None None;
  mkOperand "ar0" FIELD__ar0 REGFILE_AR 1 (XTENSA_OPERAND_IS_REGISTER ||| XTENSA_OPERAND_IS_INVISIBLE) (Some OperandSem_opnd_sem_AR_0_encode) (Some OperandSem_opnd_sem_AR_0_decode) None None;
  mkOperand "ar4" FIELD__ar4 REGFILE_AR 1 (XTENSA_OPERAND_IS_REGISTER ||| XTENSA_OPERAND_IS_INVISIBLE) (Some OperandSem_opnd_sem_AR_1_encode) (Some OperandSem_opnd_sem_AR_1_decode) None None;
  mkOperand "ar8" FIELD__ar8 REGFILE_AR 1 (XTENSA_OPERAND_IS_REGISTER ||| XTENSA_OPERAND_IS_INVISIBLE) (Some OperandSem_opnd_sem_AR_2_encode) (Some OperandSem_opnd_sem_AR_2_decode) None None;
  mkOperand "ar12" FIELD__ar12 REGFILE_AR 1 (XTENSA_OPERAND_IS_REGISTER ||| XTENSA_OPERAND_IS_INVISIBLE) (Some OperandSem_opnd_sem_AR_3_encode) (Some OperandSem_opnd_sem_AR_3_decode) None None;
  mkOperand "ars_entry" FIELD_s REGFILE_AR 1 (XTENSA_OPERAND_IS_REGISTER) (Some OperandSem_opnd_sem_AR_4_encode) (Some OperandSem_opnd_sem_AR_4_decode) None None;
  mkOperand "immrx4" FIELD_r (-1) 0 (0) (Some OperandSem_opnd_sem_immrx4_encode) (Some OperandSem_opnd_sem_immrx4_decode) None None;
  mkOperand "lsi4x4" FIELD_r (-1) 0 (0) (Some OperandSem_opnd_sem_lsi4x4_encode) (Some OperandSem_opnd_sem_lsi4x4_decode) None None;
  mkOperand "simm7" FIELD_imm7 (-1) 0 (0) (Some OperandSem_opnd_sem_simm7_encode) (Some OperandSem_opnd_sem_simm7_decode) None None;
  mkOperand "uimm6" FIELD_imm6 (-1) 0 (XTENSA_OPERAND_IS_PCRELATIVE) (Some OperandSem_opnd_sem_uimm6_encode) (Some OperandSem_opnd_sem_uimm6_decode) (Some Operand_uimm6_ator) (Some Operand_uimm6_rtoa);
  mkOperand "ai4const" FIELD_t (-1) 0 (0) (Some OperandSem_opnd_sem_ai4const_encode) (Some OperandSem_opnd_sem_ai4const_decode) None None;
  mkOperand "b4const" FIELD_r (-1) 0 (0) (Some OperandSem_opnd_sem_b4const_encode) (Some OperandSem_opnd_sem_b4const_decode) None None;
  mkOperand "b4constu" FIELD_r (-1) 0 (0) (Some OperandSem_opnd_sem_b4constu_encode) (Some OperandSem_opnd_sem_b4constu_decode) None None;
  mkOperand "uimm8" FIELD_imm8 (-1) 0 (0) (Some OperandSem_opnd_sem_uimm8_encode) (Some OperandSem_opnd_sem_uimm8_decode) None None;
  mkOperand "uimm8x2" FIELD_imm8 (-1) 0 (0) (Some OperandSem_opnd_sem_uimm8x2_encode) (Some OperandSem_opnd_sem_uimm8x2_decode) None None;
  mkOperand "uimm8x4" FIELD_imm8 (-1) 0 (0) (Some OperandSem_opnd_sem_uimm8x4_encode) (Some OperandSem_opnd_sem_uimm8x4_decode) None None;
  mkOperand "uimm4x16" FIELD_op2 (-1) 0 (0) (Some OperandSem_opnd_sem_uimm4x16_encode) (Some OperandSem_opnd_sem_uimm4x16_decode) None None;
  mkOperand "uimmrx4" FIELD_r (-1) 0 (0) (Some OperandSem_opnd_sem_uimmrx4_encode) (Some OperandSem_opnd_sem_uimmrx4_decode) None None;
  mkOperand "simm8" FIELD_imm8 (-1) 0 (0) (Some OperandSem_opnd_sem_simm8_encode) (Some OperandSem_opnd_sem_simm8_decode) None None;
  mkOperand "simm8x256" FIELD_imm8 (-1) 0 (0) (Some OperandSem_opnd_sem_simm8x256_encode) (Some OperandSem_opnd_sem_simm8x256_decode) None None;
  mkOperand "simm12b" FIELD_imm12b (-1) 0 (0) (Some OperandSem_opnd_sem_simm12b_encode) (Some OperandSem_opnd_sem_simm12b_decode) None None;
  mkOperand "msalp32" FIELD_sal (-1) 0 (0) (Some OperandSem_opnd_sem_msalp32_encode) (Some OperandSem_opnd_sem_msalp32_decode) None None;
  mkOperand "op2p1" FIELD_op2 (-1) 0 (0) (Some OperandSem_opnd_sem_op2p1_encode) (Some OperandSem_opnd_sem_op2p1_decode) None None;
  mkOperand "label8" FIELD_imm8 (-1) 0 (XTENSA_OPERAND_IS_PCRELATIVE) (Some OperandSem_opnd_sem_label8_encode) (Some OperandSem_opnd_sem_label8_decode) (Some Operand_label8_ator) (Some Operand_label8_rtoa);
  mkOperand "ulabel8" FIELD_imm8 (-1) 0 (XTENSA_OPERAND_IS_PCRELATIVE) (Some OperandSem_opnd_sem_ulabel8_encode) (Some OperandSem_opnd_sem_ulabel8_decode) (Some Operand_ulabel8_ator) (Some Operand_ulabel8_rtoa);
  mkOperand "label12" FIELD_imm12 (-1) 0 (XTENSA_OPERAND_IS_PCRELATIVE) (Some OperandSem_opnd_sem_label12_encode) (Some OperandSem_opnd_sem_label12_decode) (Some Operand_label12_ator) (Some Operand_label12_rtoa);
  mkOperand "soffset" FIELD_offset (-1) 0 (XTENSA_OPERAND_IS_PCRELATIVE) (Some OperandSem_opnd_sem_soffset_encode) (Some OperandSem_opnd_sem_soffset_decode) (Some Operand_soffset_ator) (Some Operand_soffset_rtoa);
  mkOperand "uimm16x4" FIELD_imm16 (-1) 0 (XTENSA_OPERAND_IS_PCRELATIVE) (Some OperandSem_opnd_sem_uimm16x4_encode) (Some OperandSem_opnd_sem_uimm16x4_decode) (Some Operand_uimm16x4_ator) (Some Operand_uimm16x4_rtoa);
  mkOperand "bbi" FIELD_bbi (-1) 0 (0) (Some OperandSem_opnd_sem_bbi_encode) (Some OperandSem_opnd_sem_bbi_decode) None None;
  mkOperand "sae" FIELD_sae (-1) 0 (0) (Some OperandSem_opnd_sem_bbi_encode) (Some OperandSem_opnd_sem_bbi_decode) None None;
  mkOperand "sas" FIELD_sas (-1) 0 (0) (Some OperandSem_opnd_sem_bbi_encode) (Some OperandSem_opnd_sem_bbi_decode) None None].

Definition s3_operands_2 : list xtensa_operand_internal := [
  mkOperand "sargt" FIELD_sargt (-1) 0 (0) (Some OperandSem_opnd_sem_bbi_encode) (Some OperandSem_opnd_sem_bbi_decode) None None;
  mkOperand "s" FIELD_s (-1) 0 (0) (Some OperandSem_opnd_sem_s_encode) (Some OperandSem_opnd_sem_s_decode) None None;
  mkOperand "mx" FIELD_x REGFILE_MR 1 (XTENSA_OPERAND_IS_REGISTER ||| XTENSA_OPERAND_IS_UNKNOWN) (Some OperandSem_opnd_sem_MR_encode) (Some OperandSem_opnd_sem_MR_decode) None None;
  mkOperand "my" FIELD_y REGFILE_MR 1 (XTENSA_OPERAND_IS_REGISTER ||| XTENSA_OPERAND_IS_UNKNOWN) (Some OperandSem_opnd_sem_MR_0_encode) (Some OperandSem_opnd_sem_MR_0_decode) None None;
  mkOperand "mw" FIELD_w REGFILE_MR 1 (XTENSA_OPERAND_IS_REGISTER) (Some OperandSem_opnd_sem_MR_1_encode) (Some OperandSem_opnd_sem_MR_1_decode) None None;
  mkOperand "mr0" FIELD__mr0 REGFILE_MR 1 (XTENSA_OPERAND_IS_REGISTER ||| XTENSA_OPERAND_IS_INVISIBLE) (Some OperandSem_opnd_sem_MR_2_encode) (Some OperandSem_opnd_sem_MR_2_decode) None None;
  mkOperand "mr1" FIELD__mr1 REGFILE_MR 1 (XTENSA_OPERAND_IS_REGISTER ||| XTENSA_OPERAND_IS_INVISIBLE) (Some OperandSem_opnd_sem_MR_3_encode) (Some OperandSem_opnd_sem_MR_3_decode) None None;
  mkOperand "mr2" FIELD__mr2 REGFILE_MR 1 (XTENSA_OPERAND_IS_REGISTER ||| XTENSA_OPERAND_IS_INVISIBLE) (Some OperandSem_opnd_sem_MR_4_encode) (Some OperandSem_opnd_sem_MR_4_decode) None None;
  mkOperand "mr3" FIELD__mr3 REGFILE_MR 1 (XTENSA_OPERAND_IS_REGISTER ||| XTENSA_OPERAND_IS_INVISIBLE) (Some OperandSem_opnd_sem_MR_5_encode) (Some OperandSem_opnd_sem_MR_5_decode) None None;
  mkOperand "immt" FIELD_t (-1) 0 (0) (Some OperandSem_opnd_sem_immt_encode) (Some OperandSem_opnd_sem_immt_decode) None None;
  mkOperand "imms" FIELD_s (-1) 0 (0) (Some OperandSem_opnd_sem_immt_encode) (Some OperandSem_opnd_sem_immt_decode) None None;
  mkOperand "bt" FIELD_t REGFILE_BR 1 (XTENSA_OPERAND_IS_REGISTER) (Some OperandSem_opnd_sem_BR_encode) (Some OperandSem_opnd_sem_BR_decode) None None;
  mkOperand "bs" FIELD_s REGFILE_BR 1 (XTENSA_OPERAND_IS_REGISTER) (Some OperandSem_opnd_sem_BR_encode) (Some OperandSem_opnd_sem_BR_decode) None None;
  mkOperand "br" FIELD_r REGFILE_BR 1 (XTENSA_OPERAND_IS_REGISTER) (Some OperandSem_opnd_sem_BR_encode) (Some OperandSem_opnd_sem_BR_decode) None None;
  mkOperand "bt2" FIELD_t2 REGFILE_BR 2 (XTENSA_OPERAND_IS_REGISTER) (Some OperandSem_opnd_sem_BR2_encode) (Some OperandSem_opnd_sem_BR2_decode) None None;
  mkOperand "bs2" FIELD_s2 REGFILE_BR 2 (XTENSA_OPERAND_IS_REGISTER) (Some OperandSem_opnd_sem_BR2_encode) (Some OperandSem_opnd_sem_BR2_decode) None None;
  mkOperand "br2" FIELD_r2 REGFILE_BR 2 (XTENSA_OPERAND_IS_REGISTER) (Some OperandSem_opnd_sem_BR2_encode) (Some OperandSem_opnd_sem_BR2_decode) None None;
  mkOperand "bt4" FIELD_t4 REGFILE_BR 4 (XTENSA_OPERAND_IS_REGISTER) (Some OperandSem_opnd_sem_BR4_encode) (Some OperandSem_opnd_sem_BR4_decode) None None;
  mkOperand "bs4" FIELD_s4 REGFILE_BR 4 (XTENSA_OPERAND_IS_REGISTER) (Some OperandSem_opnd_sem_BR4_encode) (Some OperandSem_opnd_sem_BR4_decode) None None;
  mkOperand "br4" FIELD_r4 REGFILE_BR 4 (XTENSA_OPERAND_IS_REGISTER) (Some OperandSem_opnd_sem_BR4_encode) (Some OperandSem_opnd_sem_BR4_decode) None None;
  mkOperand "bt8" FIELD_t8 REGFILE_BR 8 (XTENSA_OPERAND_IS_REGISTER) (Some OperandSem_opnd_sem_BR8_encode) (Some OperandSem_opnd_sem_BR8_decode) None None;
  mkOperand "bs8" FIELD_s8 REGFILE_BR 8 (XTENSA_OPERAND_IS_REGISTER) (Some OperandSem_opnd_sem_BR8_encode) (Some OperandSem_opnd_sem_BR8_decode) None None;
  mkOperand "br8" FIELD_r8 REGFILE_BR 8 (XTENSA_OPERAND_IS_REGISTER) (Some OperandSem_opnd_sem_BR8_encode) (Some OperandSem_opnd_sem_BR8_decode) None None;
  mkOperand "bt16" FIELD__bt16 REGFILE_BR 16 (XTENSA_OPERAND_IS_REGISTER) (Some OperandSem_opnd_sem_BR16_encode) (Some OperandSem_opnd_sem_BR16_decode) None None;
  mkOperand "bs16" FIELD__bs16 REGFILE_BR 16 (XTENSA_OPERAND_IS_REGISTER) (Some OperandSem_opnd_sem_BR16_encode) (Some OperandSem_opnd_sem_BR16_decode) None None;
  mkOperand "br16" FIELD__br16 REGFILE_BR 16 (XTENSA_OPERAND_IS_REGISTER) (Some OperandSem_opnd_sem_BR16_encode) (Some OperandSem_opnd_sem_BR16_decode) None None;
  mkOperand "brall" FIELD__brall REGFILE_BR 16 (XTENSA_OPERAND_IS_REGISTER ||| XTENSA_OPERAND_IS_INVISIBLE) (Some OperandSem_opnd_sem_BR16_encode) (Some OperandSem_opnd_sem_BR16_decode) None None;
  mkOperand "tp7" FIELD_t (-1) 0 (0) (Some OperandSem_opnd_sem_tp7_encode) (Some OperandSem_opnd_sem_tp7_decode) None None;
  mkOperand "xt_wbr15_label" FIELD_xt_wbr15_imm (-1) 0 (XTENSA_OPERAND_IS_PCRELATIVE) (Some OperandSem_opnd_sem_xt_wbr15_label_encode) (Some OperandSem_opnd_sem_xt_wbr15_label_decode) (Some Operand_xt_wbr15_label_ator) (Some Operand_xt_wbr15_label_rtoa);
  mkOperand "xt_wbr18_label" FIELD_xt_wbr18_imm (-1) 0 (XTENSA_OPERAND_IS_PCRELATIVE) (Some OperandSem_opnd_sem_xt_wbr18_label_encode) (Some OperandSem_opnd_sem_xt_wbr18_label_decode) (Some Operand_xt_wbr18_label_ator) (Some Operand_xt_wbr18_label_rtoa);
  mkOperand "frr" FIELD_r REGFILE_FR 1 (XTENSA_OPERAND_IS_REGISTER) (Some OperandSem_opnd_sem_FR_encode) (Some OperandSem_opnd_sem_FR_decode) None None;
  mkOperand "frs" FIELD_s REGFILE_FR 1 (XTENSA_OPERAND_IS_REGISTER) (Some OperandSem_opnd_sem_FR_encode) (Some OperandSem_opnd_sem_FR_decode) None None;
  mkOperand "frt" FIELD_t REGFILE_FR 1 (XTENSA_OPERAND_IS_REGISTER) (Some OperandSem_opnd_sem_FR_encode) (Some OperandSem_opnd_sem_FR_decode) None None;
  mkOperand "imm_t" FIELD_t (-1) 0 (0) (Some OperandSem_opnd_sem_imm_t_encode) (Some OperandSem_opnd_sem_imm_t_decode) None None;
  mkOperand "imm_s" FIELD_s (-1) 0 (0) (Some OperandSem_opnd_sem_imm_t_encode) (Some OperandSem_opnd_sem_imm_t_decode) None None;
  mkOperand "imm8x4" FIELD_imm8 (-1) 0 (0) (Some OperandSem_opnd_sem_imm8x4_encode) (Some OperandSem_opnd_sem_imm8x4_decode) None None;
  mkOperand "imm8x8" FIELD_imm8 (-1) 0 (0) (Some OperandSem_opnd_sem_imm8x8_encode) (Some OperandSem_opnd_sem_imm8x8_decode) None None].

Definition s3_operands_3 : list xtensa_operand_internal := [
  mkOperand "opnd_st.QR_b" FIELD_fld_st_QR_b REGFILE_AR 1 (XTENSA_OPERAND_IS_REGISTER) (Some OperandSem_opnd_sem_AR_encode) (Some OperandSem_opnd_sem_AR_decode) None None;
  mkOperand "opnd_st.QR_a" FIELD_fld_st_QR_a REGFILE_QR 1 (XTENSA_OPERAND_IS_REGISTER) (Some OperandSem_opnd_sem_QR_encode) (Some OperandSem_opnd_sem_QR_decode) None None;
  mkOperand "opnd_ld.QR_b" FIELD_fld_ld_QR_b REGFILE_AR 1 (XTENSA_OPERAND_IS_REGISTER) (Some OperandSem_opnd_sem_AR_encode) (Some OperandSem_opnd_sem_AR_decode) None None;
  mkOperand "opnd_ld.QR_a" FIELD_fld_ld_QR_a REGFILE_QR 1 (XTENSA_OPERAND_IS_REGISTER) (Some OperandSem_opnd_sem_QR_encode) (Some OperandSem_opnd_sem_QR_decode) None None;
  mkOperand "opnd_imm_QR" FIELD_fld_QR (-1) 0 (0) (Some OperandSem_opnd_sem_opnd_semantic_LD_ST_imm16f_encode) (Some OperandSem_opnd_sem_opnd_semantic_LD_ST_imm16f_decode) None None;
  mkOperand "opnd_mv.QR_b" FIELD_fld_mv_QR_b REGFILE_QR 1 (XTENSA_OPERAND_IS_REGISTER) (Some OperandSem_opnd_sem_QR_encode) (Some OperandSem_opnd_sem_QR_decode) None None;
  mkOperand "opnd_mv.QR_a" FIELD_fld_mv_QR_a REGFILE_QR 1 (XTENSA_OPERAND_IS_REGISTER) (Some OperandSem_opnd_sem_QR_encode) (Some OperandSem_opnd_sem_QR_decode) None None;
  mkOperand "opnd_EE.WR_MASK_GPIO_OUT_mask" FIELD_fld_EE_WR_MASK_GPIO_OUT_mask REGFILE_AR 1 (XTENSA_OPERAND_IS_REGISTER) (Some OperandSem_opnd_sem_AR_encode) (Some OperandSem_opnd_sem_AR_decode) None None;
  mkOperand "opnd_EE.WR_MASK_GPIO_OUT_value" FIELD_fld_EE_WR_MASK_GPIO_OUT_value REGFILE_AR 1 (XTENSA_OPERAND_IS_REGISTER) (Some OperandSem_opnd_sem_AR_encode) (Some OperandSem_opnd_sem_AR_decode) None None;
  mkOperand "opnd_EE.SET_BIT_GPIO_OUT_mask" FIELD_fld_EE_SET_BIT_GPIO_OUT_mask (-1) 0 (0) (Some OperandSem_opnd_sem_opnd_EE_SET_BIT_GPIO_OUT_mask_encode) (Some OperandSem_opnd_sem_opnd_EE_SET_BIT_GPIO_OUT_mask_decode) None None;
  mkOperand "opnd_EE.CLR_BIT_GPIO_OUT_clear" FIELD_fld_EE_CLR_BIT_GPIO_OUT_clear (-1) 0 (0) (Some OperandSem_opnd_sem_opnd_EE_SET_BIT_GPIO_OUT_mask_encode) (Some OperandSem_opnd_sem_opnd_EE_SET_BIT_GPIO_OUT_mask_decode) None None;
  mkOperand "opnd_EE.GET_GPIO_IN_au" FIELD_fld_EE_GET_GPIO_IN_au REGFILE_AR 1 (XTENSA_OPERAND_IS_REGISTER) (Some OperandSem_opnd_sem_AR_encode) (Some OperandSem_opnd_sem_AR_decode) None None;
  mkOperand "opnd_semantic.LD_ST_imm2" FIELD_fld_semantic_LD_ST_imm2 (-1) 0 (0) (Some OperandSem_opnd_sem_opnd_semantic_LD_ST_imm2_encode) (Some OperandSem_opnd_sem_opnd_semantic_LD_ST_imm2_decode) None None;
  mkOperand "opnd_semantic.LD_ST_imm1" FIELD_fld_semantic_LD_ST_imm1 (-1) 0 (0) (Some OperandSem_opnd_sem_opnd_semantic_LD_ST_imm1_encode) (Some OperandSem_opnd_sem_opnd_semantic_LD_ST_imm1_decode) None None;
  mkOperand "opnd_semantic.LD_ST_qu1" FIELD_fld_semantic_LD_ST_qu1 REGFILE_QR 1 (XTENSA_OPERAND_IS_REGISTER) (Some OperandSem_opnd_sem_QR_encode) (Some OperandSem_opnd_sem_QR_decode) None None;
  mkOperand "opnd_semantic.LD_ST_imm16f" FIELD_fld_semantic_LD_ST_imm16f (-1) 0 (0) (Some OperandSem_opnd_sem_opnd_semantic_LD_ST_imm16f_encode) (Some OperandSem_opnd_sem_opnd_semantic_LD_ST_imm16f_decode) None None;
  mkOperand "opnd_semantic.LD_ST_as" FIELD_fld_semantic_LD_ST_as REGFILE_AR 1 (XTENSA_OPERAND_IS_REGISTER) (Some OperandSem_opnd_sem_AR_encode) (Some OperandSem_opnd_sem_AR_decode) None None;
  mkOperand "opnd_semantic.LD_ST_fu0" FIELD_fld_semantic_LD_ST_fu0 REGFILE_FR 1 (XTENSA_OPERAND_IS_REGISTER) (Some OperandSem_opnd_sem_FR_encode) (Some OperandSem_opnd_sem_FR_decode) None None;
  mkOperand "opnd_semantic.LD_ST_fu1" FIELD_fld_semantic_LD_ST_fu1 REGFILE_FR 1 (XTENSA_OPERAND_IS_REGISTER) (Some OperandSem_opnd_sem_FR_encode) (Some OperandSem_opnd_sem_FR_decode) None None;
  mkOperand "opnd_semantic.LD_ST_fu2" FIELD_fld_semantic_LD_ST_fu2 REGFILE_FR 1 (XTENSA_OPERAND_IS_REGISTER) (Some OperandSem_opnd_sem_FR_encode) (Some OperandSem_opnd_sem_FR_decode) None None;
  mkOperand "opnd_semantic.LD_ST_fu3" FIELD_fld_semantic_LD_ST_fu3 REGFILE_FR 1 (XTENSA_OPERAND_IS_REGISTER) (Some OperandSem_opnd_sem_FR_encode) (Some OperandSem_opnd_sem_FR_decode) None None;
  mkOperand "opnd_semantic.LD_ST_ad" FIELD_fld_semantic_LD_ST_ad REGFILE_AR 1 (XTENSA_OPERAND_IS_REGISTER) (Some OperandSem_opnd_sem_AR_encode) (Some OperandSem_opnd_sem_AR_decode) None None;
  mkOperand "opnd_semantic.LD_ST_imm8" FIELD_fld_semantic_LD_ST_imm8 (-1) 0 (0) (Some OperandSem_opnd_sem_opnd_semantic_LD_ST_imm8_encode) (Some OperandSem_opnd_sem_opnd_semantic_LD_ST_imm8_decode) None None;
  mkOperand "opnd_semantic.LD_ST_imm16" FIELD_fld_semantic_LD_ST_imm16 (-1) 0 (0) (Some OperandSem_opnd_sem_opnd_semantic_LD_ST_imm16_encode) (Some OperandSem_opnd_sem_opnd_semantic_LD_ST_imm16_decode) None None;
  mkOperand "opnd_semantic.LD_ST_imm4" FIELD_fld_semantic_LD_ST_imm4 (-1) 0 (0) (Some OperandSem_opnd_sem_opnd_semantic_LD_ST_imm4_encode) (Some OperandSem_opnd_sem_opnd_semantic_LD_ST_imm4_decode) None None;
  mkOperand "opnd_semantic.LD_ST_sel8" FIELD_fld_semantic_LD_ST_sel8 (-1) 0 (0) (Some OperandSem_opnd_sem_opnd_semantic_LD_ST_sel8_encode) (Some OperandSem_opnd_sem_opnd_semantic_LD_ST_sel8_decode) None None;
  mkOperand "opnd_semantic.LD_ST_sel4" FIELD_fld_semantic_LD_ST_sel4 (-1) 0 (0) (Some OperandSem_opnd_sem_opnd_semantic_LD_ST_sel4_encode) (Some OperandSem_opnd_sem_opnd_semantic_LD_ST_sel4_decode) None None;
  mkOperand "opnd_semantic.LD_ST_qs" FIELD_fld_semantic_LD_ST_qs REGFILE_QR 1 (XTENSA_OPERAND_IS_REGISTER) (Some OperandSem_opnd_sem_QR_encode) (Some OperandSem_opnd_sem_QR_decode) None None;
  mkOperand "opnd_semantic.LD_ST_qu" FIELD_fld_semantic_LD_ST_qu REGFILE_QR 1 (XTENSA_OPERAND_IS_REGISTER) (Some OperandSem_opnd_sem_QR_encode) (Some OperandSem_opnd_sem_QR_decode) None None;
  mkOperand "opnd_semantic.LD_ST_fv0" FIELD_fld_semantic_LD_ST_fv0 REGFILE_FR 1 (XTENSA_OPERAND_IS_REGISTER) (Some OperandSem_opnd_sem_FR_encode) (Some OperandSem_opnd_sem_FR_decode) None None;
  mkOperand "opnd_semantic.LD_ST_fv1" FIELD_fld_semantic_LD_ST_fv1 REGFILE_FR 1 (XTENSA_OPERAND_IS_REGISTER) (Some OperandSem_opnd_sem_FR_encode) (Some OperandSem_opnd_sem_FR_decode) None None;
  mkOperand "opnd_semantic.LD_ST_fv2" FIELD_fld_semantic_LD_ST_fv2 REGFILE_FR 1 (XTENSA_OPERAND_IS_REGISTER) (Some OperandSem_opnd_sem_FR_encode) (Some OperandSem_opnd_sem_FR_decode) None None;
  mkOperand "opnd_semantic.LD_ST_fv3" FIELD_fld_semantic_LD_ST_fv3 REGFILE_FR 1 (XTENSA_OPERAND_IS_REGISTER) (Some OperandSem_opnd_sem_FR_encode) (Some OperandSem_opnd_sem_FR_decode) None None;
  mkOperand "opnd_semantic.LD_ST_qv" FIELD_fld_semantic_LD_ST_qv REGFILE_QR 1 (XTENSA_OPERAND_IS_REGISTER) (Some OperandSem_opnd_sem_QR_encode) (Some OperandSem_opnd_sem_QR_decode) None None;
  mkOperand "opnd_EE.MOVI.32.A_sel4" FIELD_fld_EE_MOVI_32_A_sel4 (-1) 0 (0) (Some OperandSem_opnd_sem_opnd_semantic_LD_ST_sel4_encode) (Some OperandSem_opnd_sem_opnd_semantic_LD_ST_sel4_decode) None None;
  mkOperand "opnd_EE.MOVI.32.A_au" FIELD_fld_EE_MOVI_32_A_au REGFILE_AR 1 (XTENSA_OPERAND_IS_REGISTER) (Some OperandSem_opnd_sem_AR_encode) (Some OperandSem_opnd_sem_AR_decode) None None;
  mkOperand "opnd_EE.MOVI.32.A_qs" FIELD_fld_EE_MOVI_32_A_qs REGFILE_QR 1 (XTENSA_OPERAND_IS_REGISTER) (Some OperandSem_opnd_sem_QR_encode) (Some OperandSem_opnd_sem_QR_decode) None None].

Definition s3_operands_4 : list xtensa_operand_internal := [
  mkOperand "opnd_EE.MOVI.32.Q_sel4" FIELD_fld_EE_MOVI_32_Q_sel4 (-1) 0 (0) (Some OperandSem_opnd_sem_opnd_semantic_LD_ST_sel4_encode) (Some OperandSem_opnd_sem_opnd_semantic_LD_ST_sel4_decode) None None;
  mkOperand "opnd_EE.MOVI.32.Q_as" FIELD_fld_EE_MOVI_32_Q_as REGFILE_AR 1 (XTENSA_OPERAND_IS_REGISTER) (Some OperandSem_opnd_sem_AR_encode) (Some OperandSem_opnd_sem_AR_decode) None None;
  mkOperand "opnd_EE.MOVI.32.Q_qu" FIELD_fld_EE_MOVI_32_Q_qu REGFILE_QR 1 (XTENSA_OPERAND_IS_REGISTER) (Some OperandSem_opnd_sem_QR_encode) (Some OperandSem_opnd_sem_QR_decode) None None;
  mkOperand "opnd_EE.VZIP.16_qs1" FIELD_fld_EE_VZIP_16_qs1 REGFILE_QR 1 (XTENSA_OPERAND_IS_REGISTER) (Some OperandSem_opnd_sem_QR_encode) (Some OperandSem_opnd_sem_QR_decode) None None;
  mkOperand "opnd_EE.VZIP.16_qs0" FIELD_fld_EE_VZIP_16_qs0 REGFILE_QR 1 (XTENSA_OPERAND_IS_REGISTER) (Some OperandSem_opnd_sem_QR_encode) (Some OperandSem_opnd_sem_QR_decode) None None;
  mkOperand "opnd_EE.VZIP.32_qs1" FIELD_fld_EE_VZIP_32_qs1 REGFILE_QR 1 (XTENSA_OPERAND_IS_REGISTER) (Some OperandSem_opnd_sem_QR_encode) (Some OperandSem_opnd_sem_QR_decode) None None;
  mkOperand "opnd_EE.VZIP.32_qs0" FIELD_fld_EE_VZIP_32_qs0 REGFILE_QR 1 (XTENSA_OPERAND_IS_REGISTER) (Some OperandSem_opnd_sem_QR_encode) (Some OperandSem_opnd_sem_QR_decode) None None;
  mkOperand "opnd_EE.VZIP.8_qs1" FIELD_fld_EE_VZIP_8_qs1 REGFILE_QR 1 (XTENSA_OPERAND_IS_REGISTER) (Some OperandSem_opnd_sem_QR_encode) (Some OperandSem_opnd_sem_QR_decode) None None;
  mkOperand "opnd_EE.VZIP.8_qs0" FIELD_fld_EE_VZIP_8_qs0 REGFILE_QR 1 (XTENSA_OPERAND_IS_REGISTER) (Some OperandSem_opnd_sem_QR_encode) (Some OperandSem_opnd_sem_QR_decode) None None;
  mkOperand "opnd_EE.VUNZIP.16_qs1" FIELD_fld_EE_VUNZIP_16_qs1 REGFILE_QR 1 (XTENSA_OPERAND_IS_REGISTER) (Some OperandSem_opnd_sem_QR_encode) (Some OperandSem_opnd_sem_QR_decode) None None;
  mkOperand "opnd_EE.VUNZIP.16_qs0" FIELD_fld_EE_VUNZIP_16_qs0 REGFILE_QR 1 (XTENSA_OPERAND_IS_REGISTER) (Some OperandSem_opnd_sem_QR_encode) (Some OperandSem_opnd_sem_QR_decode) None None;
  mkOperand "opnd_EE.VUNZIP.32_qs1" FIELD_fld_EE_VUNZIP_32_qs1 REGFILE_QR 1 (XTENSA_OPERAND_IS_REGISTER) (Some OperandSem_opnd_sem_QR_encode) (Some OperandSem_opnd_sem_QR_decode) None None;
  mkOperand "opnd_EE.VUNZIP.32_qs0" FIELD_fld_EE_VUNZIP_32_qs0 REGFILE_QR 1 (XTENSA_OPERAND_IS_REGISTER) (Some OperandSem_opnd_sem_QR_encode) (Some OperandSem_opnd_sem_QR_decode) None None;
  mkOperand "opnd_EE.VUNZIP.8_qs1" FIELD_fld_EE_VUNZIP_8_qs1 REGFILE_QR 1 (XTENSA_OPERAND_IS_REGISTER) (Some OperandSem_opnd_sem_QR_encode) (Some OperandSem_opnd_sem_QR_decode) None None;
  mkOperand "opnd_EE.VUNZIP.8_qs0" FIELD_fld_EE_VUNZIP_8_qs0 REGFILE_QR 1 (XTENSA_OPERAND_IS_REGISTER) (Some OperandSem_opnd_sem_QR_encode) (Some OperandSem_opnd_sem_QR_decode) None None;
  mkOperand "opnd_EE.ZERO.Q_qa" FIELD_fld_EE_ZERO_Q_qa REGFILE_QR 1 (XTENSA_OPERAND_IS_REGISTER) (Some OperandSem_opnd_sem_QR_encode) (Some OperandSem_opnd_sem_QR_decode) None None;
  mkOperand "opnd_EE.MOV.S16.QACC_qs" FIELD_fld_EE_MOV_S16_QACC_qs REGFILE_QR 1 (XTENSA_OPERAND_IS_REGISTER) (Some OperandSem_opnd_sem_QR_encode) (Some OperandSem_opnd_sem_QR_decode) None None;
  mkOperand "opnd_EE.MOV.S8.QACC_qs" FIELD_fld_EE_MOV_S8_QACC_qs REGFILE_QR 1 (XTENSA_OPERAND_IS_REGISTER) (Some OperandSem_opnd_sem_QR_encode) (Some OperandSem_opnd_sem_QR_decode) None None;
  mkOperand "opnd_EE.MOV.U16.QACC_qs" FIELD_fld_EE_MOV_U16_QACC_qs REGFILE_QR 1 (XTENSA_OPERAND_IS_REGISTER) (Some OperandSem_opnd_sem_QR_encode) (Some OperandSem_opnd_sem_QR_decode) None None;
  mkOperand "opnd_EE.MOV.U8.QACC_qs" FIELD_fld_EE_MOV_U8_QACC_qs REGFILE_QR 1 (XTENSA_OPERAND_IS_REGISTER) (Some OperandSem_opnd_sem_QR_encode) (Some OperandSem_opnd_sem_QR_decode) None None;
  mkOperand "opnd_semantic.CAL_DOUBLE_Q_qa" FIELD_fld_semantic_CAL_DOUBLE_Q_qa REGFILE_QR 1 (XTENSA_OPERAND_IS_REGISTER) (Some OperandSem_opnd_sem_QR_encode) (Some OperandSem_opnd_sem_QR_decode) None None;
  mkOperand "opnd_semantic.CAL_DOUBLE_Q_as" FIELD_fld_semantic_CAL_DOUBLE_Q_as REGFILE_AR 1 (XTENSA_OPERAND_IS_REGISTER) (Some OperandSem_opnd_sem_AR_encode) (Some OperandSem_opnd_sem_AR_decode) None None;
  mkOperand "opnd_semantic.CAL_DOUBLE_Q_qu" FIELD_fld_semantic_CAL_DOUBLE_Q_qu REGFILE_QR 1 (XTENSA_OPERAND_IS_REGISTER) (Some OperandSem_opnd_sem_QR_encode) (Some OperandSem_opnd_sem_QR_decode) None None;
  mkOperand "opnd_semantic.CAL_DOUBLE_Q_qv" FIELD_fld_semantic_CAL_DOUBLE_Q_qv REGFILE_QR 1 (XTENSA_OPERAND_IS_REGISTER) (Some OperandSem_opnd_sem_QR_encode) (Some OperandSem_opnd_sem_QR_decode) None None;
  mkOperand "opnd_semantic.CAL_DOUBLE_Q_sel4" FIELD_fld_semantic_CAL_DOUBLE_Q_sel4 (-1) 0 (0) (Some OperandSem_opnd_sem_opnd_semantic_LD_ST_sel4_encode) (Some OperandSem_opnd_sem_opnd_semantic_LD_ST_sel4_decode) None None;
  mkOperand "opnd_semantic.CAL_DOUBLE_Q_qy" FIELD_fld_semantic_CAL_DOUBLE_Q_qy REGFILE_QR 1 (XTENSA_OPERAND_IS_REGISTER) (Some OperandSem_opnd_sem_QR_encode) (Some OperandSem_opnd_sem_QR_decode) None None;
  mkOperand "opnd_semantic.CAL_DOUBLE_Q_qx" FIELD_fld_semantic_CAL_DOUBLE_Q_qx REGFILE_QR 1 (XTENSA_OPERAND_IS_REGISTER) (Some OperandSem_opnd_sem_QR_encode) (Some OperandSem_opnd_sem_QR_decode) None None;
  mkOperand "opnd_semantic.CAL_DOUBLE_Q_qz" FIELD_fld_semantic_CAL_DOUBLE_Q_qz REGFILE_QR 1 (XTENSA_OPERAND_IS_REGISTER) (Some OperandSem_opnd_sem_QR_encode) (Some OperandSem_opnd_sem_QR_decode) None None;
  mkOperand "opnd_semantic.CAL_DOUBLE_Q_qs1" FIELD_fld_semantic_CAL_DOUBLE_Q_qs1 REGFILE_QR 1 (XTENSA_OPERAND_IS_REGISTER) (Some OperandSem_opnd_sem_QR_encode) (Some OperandSem_opnd_sem_QR_decode) None None;
  mkOperand "opnd_semantic.CAL_DOUBLE_Q_qs0" FIELD_fld_semantic_CAL_DOUBLE_Q_qs0 REGFILE_QR 1 (XTENSA_OPERAND_IS_REGISTER) (Some OperandSem_opnd_sem_QR_encode) (Some OperandSem_opnd_sem_QR_decode) None None;
  mkOperand "opnd_semantic.CAL_DOUBLE_Q_imm16" FIELD_fld_semantic_CAL_DOUBLE_Q_imm16 (-1) 0 (0) (Some OperandSem_opnd_sem_opnd_semantic_CAL_DOUBLE_Q_imm16_encode) (Some OperandSem_opnd_sem_opnd_semantic_CAL_DOUBLE_Q_imm16_decode) None None;
  mkOperand "opnd_semantic.CAL_DOUBLE_Q_ad" FIELD_fld_semantic_CAL_DOUBLE_Q_ad REGFILE_AR 1 (XTENSA_OPERAND_IS_REGISTER) (Some OperandSem_opnd_sem_AR_encode) (Some OperandSem_opnd_sem_AR_decode) None None;
  mkOperand "opnd_semantic.CAL_DOUBLE_Q_sel8" FIELD_fld_semantic_CAL_DOUBLE_Q_sel8 (-1) 0 (0) (Some OperandSem_opnd_sem_opnd_semantic_LD_ST_sel8_encode) (Some OperandSem_opnd_sem_opnd_semantic_LD_ST_sel8_decode) None None;
  mkOperand "opnd_semantic.CAL_DOUBLE_Q_sel16" FIELD_fld_semantic_CAL_DOUBLE_Q_sel16 (-1) 0 (0) (Some OperandSem_opnd_sem_opnd_semantic_CAL_DOUBLE_Q_sel16_encode) (Some OperandSem_opnd_sem_opnd_semantic_CAL_DOUBLE_Q_sel16_decode) None None;
  mkOperand "opnd_semantic.SRCMB_QACC_sel2" FIELD_fld_semantic_SRCMB_QACC_sel2 (-1) 0 (0) (Some OperandSem_opnd_sem_opnd_semantic_SRCMB_QACC_sel2_encode) (Some OperandSem_opnd_sem_opnd_semantic_SRCMB_QACC_sel2_decode) None None;
  mkOperand "opnd_semantic.SRCMB_QACC_as" FIELD_fld_semantic_SRCMB_QACC_as REGFILE_AR 1 (XTENSA_OPERAND_IS_REGISTER) (Some OperandSem_opnd_sem_AR_encode) (Some OperandSem_opnd_sem_AR_decode) None None;
  mkOperand "opnd_semantic.SRCMB_QACC_qu" FIELD_fld_semantic_SRCMB_QACC_qu REGFILE_QR 1 (XTENSA_OPERAND_IS_REGISTER) (Some OperandSem_opnd_sem_QR_encode) (Some OperandSem_opnd_sem_QR_decode) None None].

Definition s3_operands_5 : list xtensa_operand_internal := [
  mkOperand "opnd_EE.SRS.ACCX_sel2" FIELD_fld_EE_SRS_ACCX_sel2 (-1) 0 (0) (Some OperandSem_opnd_sem_opnd_semantic_SRCMB_QACC_sel2_encode) (Some OperandSem_opnd_sem_opnd_semantic_SRCMB_QACC_sel2_decode) None None;
  mkOperand "opnd_EE.SRS.ACCX_as" FIELD_fld_EE_SRS_ACCX_as REGFILE_AR 1 (XTENSA_OPERAND_IS_REGISTER) (Some OperandSem_opnd_sem_AR_encode) (Some OperandSem_opnd_sem_AR_decode) None None;
  mkOperand "opnd_EE.SRS.ACCX_au" FIELD_fld_EE_SRS_ACCX_au REGFILE_AR 1 (XTENSA_OPERAND_IS_REGISTER) (Some OperandSem_opnd_sem_AR_encode) (Some OperandSem_opnd_sem_AR_decode) None None;
  mkOperand "opnd_semantic.CAL_DOUBLE_Q_ax" FIELD_fld_semantic_CAL_DOUBLE_Q_ax REGFILE_AR 1 (XTENSA_OPERAND_IS_REGISTER) (Some OperandSem_opnd_sem_AR_encode) (Some OperandSem_opnd_sem_AR_decode) None None;
  mkOperand "opnd_semantic.CAL_DOUBLE_Q_qs" FIELD_fld_semantic_CAL_DOUBLE_Q_qs REGFILE_QR 1 (XTENSA_OPERAND_IS_REGISTER) (Some OperandSem_opnd_sem_QR_encode) (Some OperandSem_opnd_sem_QR_decode) None None;
  mkOperand "opnd_semantic.CAL_DOUBLE_Q_ay" FIELD_fld_semantic_CAL_DOUBLE_Q_ay REGFILE_AR 1 (XTENSA_OPERAND_IS_REGISTER) (Some OperandSem_opnd_sem_AR_encode) (Some OperandSem_opnd_sem_AR_decode) None None;
  mkOperand "opnd_semantic.VLOGIC_qy" FIELD_fld_semantic_VLOGIC_qy REGFILE_QR 1 (XTENSA_OPERAND_IS_REGISTER) (Some OperandSem_opnd_sem_QR_encode) (Some OperandSem_opnd_sem_QR_decode) None None;
  mkOperand "opnd_semantic.VLOGIC_qx" FIELD_fld_semantic_VLOGIC_qx REGFILE_QR 1 (XTENSA_OPERAND_IS_REGISTER) (Some OperandSem_opnd_sem_QR_encode) (Some OperandSem_opnd_sem_QR_decode) None None;
  mkOperand "opnd_semantic.VLOGIC_qa" FIELD_fld_semantic_VLOGIC_qa REGFILE_QR 1 (XTENSA_OPERAND_IS_REGISTER) (Some OperandSem_opnd_sem_QR_encode) (Some OperandSem_opnd_sem_QR_decode) None None;
  mkOperand "opnd_semantic.SHFQ_sar16" FIELD_fld_semantic_SHFQ_sar16 (-1) 0 (0) (Some OperandSem_opnd_sem_opnd_semantic_CAL_DOUBLE_Q_sel16_encode) (Some OperandSem_opnd_sem_opnd_semantic_CAL_DOUBLE_Q_sel16_decode) None None;
  mkOperand "opnd_semantic.SHFQ_qs0" FIELD_fld_semantic_SHFQ_qs0 REGFILE_QR 1 (XTENSA_OPERAND_IS_REGISTER) (Some OperandSem_opnd_sem_QR_encode) (Some OperandSem_opnd_sem_QR_decode) None None;
  mkOperand "opnd_semantic.SHFQ_qs1" FIELD_fld_semantic_SHFQ_qs1 REGFILE_QR 1 (XTENSA_OPERAND_IS_REGISTER) (Some OperandSem_opnd_sem_QR_encode) (Some OperandSem_opnd_sem_QR_decode) None None;
  mkOperand "opnd_semantic.SHFQ_ad" FIELD_fld_semantic_SHFQ_ad REGFILE_AR 1 (XTENSA_OPERAND_IS_REGISTER) (Some OperandSem_opnd_sem_AR_encode) (Some OperandSem_opnd_sem_AR_decode) None None;
  mkOperand "opnd_semantic.SHFQ_as" FIELD_fld_semantic_SHFQ_as REGFILE_AR 1 (XTENSA_OPERAND_IS_REGISTER) (Some OperandSem_opnd_sem_AR_encode) (Some OperandSem_opnd_sem_AR_decode) None None;
  mkOperand "opnd_semantic.SHFQ_imm16" FIELD_fld_semantic_SHFQ_imm16 (-1) 0 (0) (Some OperandSem_opnd_sem_opnd_semantic_LD_ST_imm16_encode) (Some OperandSem_opnd_sem_opnd_semantic_LD_ST_imm16_decode) None None;
  mkOperand "opnd_semantic.SHFQ_qu" FIELD_fld_semantic_SHFQ_qu REGFILE_QR 1 (XTENSA_OPERAND_IS_REGISTER) (Some OperandSem_opnd_sem_QR_encode) (Some OperandSem_opnd_sem_QR_decode) None None;
  mkOperand "opnd_semantic.SHFQ_qa" FIELD_fld_semantic_SHFQ_qa REGFILE_QR 1 (XTENSA_OPERAND_IS_REGISTER) (Some OperandSem_opnd_sem_QR_encode) (Some OperandSem_opnd_sem_QR_decode) None None;
  mkOperand "opnd_semantic.SHFQ_qs" FIELD_fld_semantic_SHFQ_qs REGFILE_QR 1 (XTENSA_OPERAND_IS_REGISTER) (Some OperandSem_opnd_sem_QR_encode) (Some OperandSem_opnd_sem_QR_decode) None None;
  mkOperand "opnd_semantic.FFT_RxBF_sar4" FIELD_fld_semantic_FFT_RxBF_sar4 (-1) 0 (0) (Some OperandSem_opnd_sem_opnd_semantic_LD_ST_sel4_encode) (Some OperandSem_opnd_sem_opnd_semantic_LD_ST_sel4_decode) None None;
  mkOperand "opnd_semantic.FFT_RxBF_as" FIELD_fld_semantic_FFT_RxBF_as REGFILE_AR 1 (XTENSA_OPERAND_IS_REGISTER) (Some OperandSem_opnd_sem_AR_encode) (Some OperandSem_opnd_sem_AR_decode) None None;
  mkOperand "opnd_semantic.FFT_RxBF_sel2" FIELD_fld_semantic_FFT_RxBF_sel2 (-1) 0 (0) (Some OperandSem_opnd_sem_opnd_semantic_SRCMB_QACC_sel2_encode) (Some OperandSem_opnd_sem_opnd_semantic_SRCMB_QACC_sel2_decode) None None;
  mkOperand "opnd_semantic.FFT_RxBF_qy" FIELD_fld_semantic_FFT_RxBF_qy REGFILE_QR 1 (XTENSA_OPERAND_IS_REGISTER) (Some OperandSem_opnd_sem_QR_encode) (Some OperandSem_opnd_sem_QR_decode) None None;
  mkOperand "opnd_semantic.FFT_RxBF_qx" FIELD_fld_semantic_FFT_RxBF_qx REGFILE_QR 1 (XTENSA_OPERAND_IS_REGISTER) (Some OperandSem_opnd_sem_QR_encode) (Some OperandSem_opnd_sem_QR_decode) None None;
  mkOperand "opnd_semantic.FFT_RxBF_qa1" FIELD_fld_semantic_FFT_RxBF_qa1 REGFILE_QR 1 (XTENSA_OPERAND_IS_REGISTER) (Some OperandSem_opnd_sem_QR_encode) (Some OperandSem_opnd_sem_QR_decode) None None;
  mkOperand "opnd_semantic.FFT_RxBF_qa0" FIELD_fld_semantic_FFT_RxBF_qa0 REGFILE_QR 1 (XTENSA_OPERAND_IS_REGISTER) (Some OperandSem_opnd_sem_QR_encode) (Some OperandSem_opnd_sem_QR_decode) None None;
  mkOperand "opnd_EE.FFT.CMUL.S16.LD.XP_sel8" FIELD_fld_EE_FFT_CMUL_S16_LD_XP_sel8 (-1) 0 (0) (Some OperandSem_opnd_sem_opnd_semantic_LD_ST_sel8_encode) (Some OperandSem_opnd_sem_opnd_semantic_LD_ST_sel8_decode) None None;
  mkOperand "opnd_EE.FFT.CMUL.S16.LD.XP_qy" FIELD_fld_EE_FFT_CMUL_S16_LD_XP_qy REGFILE_QR 1 (XTENSA_OPERAND_IS_REGISTER) (Some OperandSem_opnd_sem_QR_encode) (Some OperandSem_opnd_sem_QR_decode) None None;
  mkOperand "opnd_EE.FFT.CMUL.S16.LD.XP_qx" FIELD_fld_EE_FFT_CMUL_S16_LD_XP_qx REGFILE_QR 1 (XTENSA_OPERAND_IS_REGISTER) (Some OperandSem_opnd_sem_QR_encode) (Some OperandSem_opnd_sem_QR_decode) None None;
  mkOperand "opnd_EE.FFT.CMUL.S16.LD.XP_qz" FIELD_fld_EE_FFT_CMUL_S16_LD_XP_qz REGFILE_QR 1 (XTENSA_OPERAND_IS_REGISTER) (Some OperandSem_opnd_sem_QR_encode) (Some OperandSem_opnd_sem_QR_decode) None None;
  mkOperand "opnd_EE.FFT.CMUL.S16.LD.XP_ad" FIELD_fld_EE_FFT_CMUL_S16_LD_XP_ad REGFILE_AR 1 (XTENSA_OPERAND_IS_REGISTER) (Some OperandSem_opnd_sem_AR_encode) (Some OperandSem_opnd_sem_AR_decode) None None;
  mkOperand "opnd_EE.FFT.CMUL.S16.LD.XP_as" FIELD_fld_EE_FFT_CMUL_S16_LD_XP_as REGFILE_AR 1 (XTENSA_OPERAND_IS_REGISTER) (Some OperandSem_opnd_sem_AR_encode) (Some OperandSem_opnd_sem_AR_decode) None None;
  mkOperand "opnd_EE.FFT.CMUL.S16.LD.XP_qu" FIELD_fld_EE_FFT_CMUL_S16_LD_XP_qu REGFILE_QR 1 (XTENSA_OPERAND_IS_REGISTER) (Some OperandSem_opnd_sem_QR_encode) (Some OperandSem_opnd_sem_QR_decode) None None;
  mkOperand "opnd_EE.FFT.CMUL.S16.ST.XP_sar4" FIELD_fld_EE_FFT_CMUL_S16_ST_XP_sar4 (-1) 0 (0) (Some OperandSem_opnd_sem_opnd_semantic_LD_ST_sel4_encode) (Some OperandSem_opnd_sem_opnd_semantic_LD_ST_sel4_decode) None None;
  mkOperand "opnd_EE.FFT.CMUL.S16.ST.XP_upd4" FIELD_fld_EE_FFT_CMUL_S16_ST_XP_upd4 (-1) 0 (0) (Some OperandSem_opnd_sem_opnd_semantic_LD_ST_sel4_encode) (Some OperandSem_opnd_sem_opnd_semantic_LD_ST_sel4_decode) None None;
  mkOperand "opnd_EE.FFT.CMUL.S16.ST.XP_sel8" FIELD_fld_EE_FFT_CMUL_S16_ST_XP_sel8 (-1) 0 (0) (Some OperandSem_opnd_sem_opnd_semantic_LD_ST_sel8_encode) (Some OperandSem_opnd_sem_opnd_semantic_LD_ST_sel8_decode) None None;
  mkOperand "opnd_EE.FFT.CMUL.S16.ST.XP_ad" FIELD_fld_EE_FFT_CMUL_S16_ST_XP_ad REGFILE_AR 1 (XTENSA_OPERAND_IS_REGISTER) (Some OperandSem_opnd_sem_AR_encode) (Some OperandSem_opnd_sem_AR_decode) None None;
  mkOperand "opnd_EE.FFT.CMUL.S16.ST.XP_as" FIELD_fld_EE_FFT_CMUL_S16_ST_XP_as REGFILE_AR 1 (XTENSA_OPERAND_IS_REGISTER) (Some OperandSem_opnd_sem_AR_encode) (Some OperandSem_opnd_sem_AR_decode) None None].

Definition s3_operands_6 : list xtensa_operand_internal := [
  mkOperand "opnd_EE.FFT.CMUL.S16.ST.XP_qv" FIELD_fld_EE_FFT_CMUL_S16_ST_XP_qv REGFILE_QR 1 (XTENSA_OPERAND_IS_REGISTER) (Some OperandSem_opnd_sem_QR_encode) (Some OperandSem_opnd_sem_QR_decode) None None;
  mkOperand "opnd_EE.FFT.CMUL.S16.ST.XP_qy" FIELD_fld_EE_FFT_CMUL_S16_ST_XP_qy REGFILE_QR 1 (XTENSA_OPERAND_IS_REGISTER) (Some OperandSem_opnd_sem_QR_encode) (Some OperandSem_opnd_sem_QR_decode) None None;
  mkOperand "opnd_EE.FFT.CMUL.S16.ST.XP_qx" FIELD_fld_EE_FFT_CMUL_S16_ST_XP_qx REGFILE_QR 1 (XTENSA_OPERAND_IS_REGISTER) (Some OperandSem_opnd_sem_QR_encode) (Some OperandSem_opnd_sem_QR_decode) None None;
  mkOperand "opnd_EE.BITREV_ax" FIELD_fld_EE_BITREV_ax REGFILE_AR 1 (XTENSA_OPERAND_IS_REGISTER) (Some OperandSem_opnd_sem_AR_encode) (Some OperandSem_opnd_sem_AR_decode) None None;
  mkOperand "opnd_EE.BITREV_qa" FIELD_fld_EE_BITREV_qa REGFILE_QR 1 (XTENSA_OPERAND_IS_REGISTER) (Some OperandSem_opnd_sem_QR_encode) (Some OperandSem_opnd_sem_QR_decode) None None;
  mkOperand "opnd_EE.FFT.AMS.S16.LD.INCP_sel2" FIELD_fld_EE_FFT_AMS_S16_LD_INCP_sel2 (-1) 0 (0) (Some OperandSem_opnd_sem_opnd_semantic_SRCMB_QACC_sel2_encode) (Some OperandSem_opnd_sem_opnd_semantic_SRCMB_QACC_sel2_decode) None None;
  mkOperand "opnd_EE.FFT.AMS.S16.LD.INCP_qm" FIELD_fld_EE_FFT_AMS_S16_LD_INCP_qm REGFILE_QR 1 (XTENSA_OPERAND_IS_REGISTER) (Some OperandSem_opnd_sem_QR_encode) (Some OperandSem_opnd_sem_QR_decode) None None;
  mkOperand "opnd_EE.FFT.AMS.S16.LD.INCP_qy" FIELD_fld_EE_FFT_AMS_S16_LD_INCP_qy REGFILE_QR 1 (XTENSA_OPERAND_IS_REGISTER) (Some OperandSem_opnd_sem_QR_encode) (Some OperandSem_opnd_sem_QR_decode) None None;
  mkOperand "opnd_EE.FFT.AMS.S16.LD.INCP_qx" FIELD_fld_EE_FFT_AMS_S16_LD_INCP_qx REGFILE_QR 1 (XTENSA_OPERAND_IS_REGISTER) (Some OperandSem_opnd_sem_QR_encode) (Some OperandSem_opnd_sem_QR_decode) None None;
  mkOperand "opnd_EE.FFT.AMS.S16.LD.INCP_qz1" FIELD_fld_EE_FFT_AMS_S16_LD_INCP_qz1 REGFILE_QR 1 (XTENSA_OPERAND_IS_REGISTER) (Some OperandSem_opnd_sem_QR_encode) (Some OperandSem_opnd_sem_QR_decode) None None;
  mkOperand "opnd_EE.FFT.AMS.S16.LD.INCP_qz" FIELD_fld_EE_FFT_AMS_S16_LD_INCP_qz REGFILE_QR 1 (XTENSA_OPERAND_IS_REGISTER) (Some OperandSem_opnd_sem_QR_encode) (Some OperandSem_opnd_sem_QR_decode) None None;
  mkOperand "opnd_EE.FFT.AMS.S16.LD.INCP_as" FIELD_fld_EE_FFT_AMS_S16_LD_INCP_as REGFILE_AR 1 (XTENSA_OPERAND_IS_REGISTER) (Some OperandSem_opnd_sem_AR_encode) (Some OperandSem_opnd_sem_AR_decode) None None;
  mkOperand "opnd_EE.FFT.AMS.S16.LD.INCP_qu" FIELD_fld_EE_FFT_AMS_S16_LD_INCP_qu REGFILE_QR 1 (XTENSA_OPERAND_IS_REGISTER) (Some OperandSem_opnd_sem_QR_encode) (Some OperandSem_opnd_sem_QR_decode) None None;
  mkOperand "opnd_EE.FFT.AMS.S16.LD.INCP.UAUP_sel2" FIELD_fld_EE_FFT_AMS_S16_LD_INCP_UAUP_sel2 (-1) 0 (0) (Some OperandSem_opnd_sem_opnd_semantic_SRCMB_QACC_sel2_encode) (Some OperandSem_opnd_sem_opnd_semantic_SRCMB_QACC_sel2_decode) None None;
  mkOperand "opnd_EE.FFT.AMS.S16.LD.INCP.UAUP_qm" FIELD_fld_EE_FFT_AMS_S16_LD_INCP_UAUP_qm REGFILE_QR 1 (XTENSA_OPERAND_IS_REGISTER) (Some OperandSem_opnd_sem_QR_encode) (Some OperandSem_opnd_sem_QR_decode) None None;
  mkOperand "opnd_EE.FFT.AMS.S16.LD.INCP.UAUP_qy" FIELD_fld_EE_FFT_AMS_S16_LD_INCP_UAUP_qy REGFILE_QR 1 (XTENSA_OPERAND_IS_REGISTER) (Some OperandSem_opnd_sem_QR_encode) (Some OperandSem_opnd_sem_QR_decode) None None;
  mkOperand "opnd_EE.FFT.AMS.S16.LD.INCP.UAUP_qx" FIELD_fld_EE_FFT_AMS_S16_LD_INCP_UAUP_qx REGFILE_QR 1 (XTENSA_OPERAND_IS_REGISTER) (Some OperandSem_opnd_sem_QR_encode) (Some OperandSem_opnd_sem_QR_decode) None None;
  mkOperand "opnd_EE.FFT.AMS.S16.LD.INCP.UAUP_qz1" FIELD_fld_EE_FFT_AMS_S16_LD_INCP_UAUP_qz1 REGFILE_QR 1 (XTENSA_OPERAND_IS_REGISTER) (Some OperandSem_opnd_sem_QR_encode) (Some OperandSem_opnd_sem_QR_decode) None None;
  mkOperand "opnd_EE.FFT.AMS.S16.LD.INCP.UAUP_qz" FIELD_fld_EE_FFT_AMS_S16_LD_INCP_UAUP_qz REGFILE_QR 1 (XTENSA_OPERAND_IS_REGISTER) (Some OperandSem_opnd_sem_QR_encode) (Some OperandSem_opnd_sem_QR_decode) None None;
  mkOperand "opnd_EE.FFT.AMS.S16.LD.INCP.UAUP_as" FIELD_fld_EE_FFT_AMS_S16_LD_INCP_UAUP_as REGFILE_AR 1 (XTENSA_OPERAND_IS_REGISTER) (Some OperandSem_opnd_sem_AR_encode) (Some OperandSem_opnd_sem_AR_decode) None None;
  mkOperand "opnd_EE.FFT.AMS.S16.LD.INCP.UAUP_qu" FIELD_fld_EE_FFT_AMS_S16_LD_INCP_UAUP_qu REGFILE_QR 1 (XTENSA_OPERAND_IS_REGISTER) (Some OperandSem_opnd_sem_QR_encode) (Some OperandSem_opnd_sem_QR_decode) None None;
  mkOperand "opnd_EE.FFT.AMS.S16.LD.R32.DECP_sel2" FIELD_fld_EE_FFT_AMS_S16_LD_R32_DECP_sel2 (-1) 0 (0) (Some OperandSem_opnd_sem_opnd_semantic_SRCMB_QACC_sel2_encode) (Some OperandSem_opnd_sem_opnd_semantic_SRCMB_QACC_sel2_decode) None None;
  mkOperand "opnd_EE.FFT.AMS.S16.LD.R32.DECP_qm" FIELD_fld_EE_FFT_AMS_S16_LD_R32_DECP_qm REGFILE_QR 1 (XTENSA_OPERAND_IS_REGISTER) (Some OperandSem_opnd_sem_QR_encode) (Some OperandSem_opnd_sem_QR_decode) None None;
  mkOperand "opnd_EE.FFT.AMS.S16.LD.R32.DECP_qy" FIELD_fld_EE_FFT_AMS_S16_LD_R32_DECP_qy REGFILE_QR 1 (XTENSA_OPERAND_IS_REGISTER) (Some OperandSem_opnd_sem_QR_encode) (Some OperandSem_opnd_sem_QR_decode) None None;
  mkOperand "opnd_EE.FFT.AMS.S16.LD.R32.DECP_qx" FIELD_fld_EE_FFT_AMS_S16_LD_R32_DECP_qx REGFILE_QR 1 (XTENSA_OPERAND_IS_REGISTER) (Some OperandSem_opnd_sem_QR_encode) (Some OperandSem_opnd_sem_QR_decode) None None;
  mkOperand "opnd_EE.FFT.AMS.S16.LD.R32.DECP_qz1" FIELD_fld_EE_FFT_AMS_S16_LD_R32_DECP_qz1 REGFILE_QR 1 (XTENSA_OPERAND_IS_REGISTER) (Some OperandSem_opnd_sem_QR_encode) (Some OperandSem_opnd_sem_QR_decode) None None;
  mkOperand "opnd_EE.FFT.AMS.S16.LD.R32.DECP_qz" FIELD_fld_EE_FFT_AMS_S16_LD_R32_DECP_qz REGFILE_QR 1 (XTENSA_OPERAND_IS_REGISTER) (Some OperandSem_opnd_sem_QR_encode) (Some OperandSem_opnd_sem_QR_decode) None None;
  mkOperand "opnd_EE.FFT.AMS.S16.LD.R32.DECP_as" FIELD_fld_EE_FFT_AMS_S16_LD_R32_DECP_as REGFILE_AR 1 (XTENSA_OPERAND_IS_REGISTER) (Some OperandSem_opnd_sem_AR_encode) (Some OperandSem_opnd_sem_AR_decode) None None;
  mkOperand "opnd_EE.FFT.AMS.S16.LD.R32.DECP_qu" FIELD_fld_EE_FFT_AMS_S16_LD_R32_DECP_qu REGFILE_QR 1 (XTENSA_OPERAND_IS_REGISTER) (Some OperandSem_opnd_sem_QR_encode) (Some OperandSem_opnd_sem_QR_decode) None None;
  mkOperand "opnd_EE.FFT.AMS.S16.ST.INCP_sel2" FIELD_fld_EE_FFT_AMS_S16_ST_INCP_sel2 (-1) 0 (0) (Some OperandSem_opnd_sem_opnd_semantic_SRCMB_QACC_sel2_encode) (Some OperandSem_opnd_sem_opnd_semantic_SRCMB_QACC_sel2_decode) None None;
  mkOperand "opnd_EE.FFT.AMS.S16.ST.INCP_qm" FIELD_fld_EE_FFT_AMS_S16_ST_INCP_qm REGFILE_QR 1 (XTENSA_OPERAND_IS_REGISTER) (Some OperandSem_opnd_sem_QR_encode) (Some OperandSem_opnd_sem_QR_decode) None None;
  mkOperand "opnd_EE.FFT.AMS.S16.ST.INCP_qy" FIELD_fld_EE_FFT_AMS_S16_ST_INCP_qy REGFILE_QR 1 (XTENSA_OPERAND_IS_REGISTER) (Some OperandSem_opnd_sem_QR_encode) (Some OperandSem_opnd_sem_QR_decode) None None;
  mkOperand "opnd_EE.FFT.AMS.S16.ST.INCP_qx" FIELD_fld_EE_FFT_AMS_S16_ST_INCP_qx REGFILE_QR 1 (XTENSA_OPERAND_IS_REGISTER) (Some OperandSem_opnd_sem_QR_encode) (Some OperandSem_opnd_sem_QR_decode) None None;
  mkOperand "opnd_EE.FFT.AMS.S16.ST.INCP_as" FIELD_fld_EE_FFT_AMS_S16_ST_INCP_as REGFILE_AR 1 (XTENSA_OPERAND_IS_REGISTER) (Some OperandSem_opnd_sem_AR_encode) (Some OperandSem_opnd_sem_AR_decode) None None;
  mkOperand "opnd_EE.FFT.AMS.S16.ST.INCP_as0" FIELD_fld_EE_FFT_AMS_S16_ST_INCP_as0 REGFILE_AR 1 (XTENSA_OPERAND_IS_REGISTER) (Some OperandSem_opnd_sem_AR_encode) (Some OperandSem_opnd_sem_AR_decode) None None;
  mkOperand "opnd_EE.FFT.AMS.S16.ST.INCP_qz1" FIELD_fld_EE_FFT_AMS_S16_ST_INCP_qz1 REGFILE_QR 1 (XTENSA_OPERAND_IS_REGISTER) (Some OperandSem_opnd_sem_QR_encode) (Some OperandSem_opnd_sem_QR_decode) None None;
  mkOperand "opnd_EE.FFT.AMS.S16.ST.INCP_qv" FIELD_fld_EE_FFT_AMS_S16_ST_INCP_qv REGFILE_QR 1 (XTENSA_OPERAND_IS_REGISTER) (Some OperandSem_opnd_sem_QR_encode) (Some OperandSem_opnd_sem_QR_decode) None None].

Definition s3_operands_7 : list xtensa_operand_internal := [
  mkOperand "opnd_EE.FFT.VST.R32.DECP_sar2" FIELD_fld_EE_FFT_VST_R32_DECP_sar2 (-1) 0 (0) (Some OperandSem_opnd_sem_opnd_semantic_SRCMB_QACC_sel2_encode) (Some OperandSem_opnd_sem_opnd_semantic_SRCMB_QACC_sel2_decode) None None;
  mkOperand "opnd_EE.FFT.VST.R32.DECP_as" FIELD_fld_EE_FFT_VST_R32_DECP_as REGFILE_AR 1 (XTENSA_OPERAND_IS_REGISTER) (Some OperandSem_opnd_sem_AR_encode) (Some OperandSem_opnd_sem_AR_decode) None None;
  mkOperand "opnd_EE.FFT.VST.R32.DECP_qv" FIELD_fld_EE_FFT_VST_R32_DECP_qv REGFILE_QR 1 (XTENSA_OPERAND_IS_REGISTER) (Some OperandSem_opnd_sem_QR_encode) (Some OperandSem_opnd_sem_QR_decode) None None;
  mkOperand "t" FIELD_t (-1) 0 (0) None None None None;
  mkOperand "bbi4" FIELD_bbi4 (-1) 0 (0) None None None None;
  mkOperand "imm12" FIELD_imm12 (-1) 0 (0) None None None None;
  mkOperand "imm8" FIELD_imm8 (-1) 0 (0) None None None None;
  mkOperand "imm12b" FIELD_imm12b (-1) 0 (0) None None None None;
  mkOperand "imm16" FIELD_imm16 (-1) 0 (0) None None None None;
  mkOperand "m" FIELD_m (-1) 0 (0) None None None None;
  mkOperand "n" FIELD_n (-1) 0 (0) None None None None;
  mkOperand "offset" FIELD_offset (-1) 0 (0) None None None None;
  mkOperand "op0" FIELD_op0 (-1) 0 (0) None None None None;
  mkOperand "op1" FIELD_op1 (-1) 0 (0) None None None None;
  mkOperand "op2" FIELD_op2 (-1) 0 (0) None None None None;
  mkOperand "r" FIELD_r (-1) 0 (0) None None None None;
  mkOperand "sa4" FIELD_sa4 (-1) 0 (0) None None None None;
  mkOperand "sae4" FIELD_sae4 (-1) 0 (0) None None None None;
  mkOperand "sal" FIELD_sal (-1) 0 (0) None None None None;
  mkOperand "sas4" FIELD_sas4 (-1) 0 (0) None None None None;
  mkOperand "sr" FIELD_sr (-1) 0 (0) None None None None;
  mkOperand "st" FIELD_st (-1) 0 (0) None None None None;
  mkOperand "thi3" FIELD_thi3 (-1) 0 (0) None None None None;
  mkOperand "imm4" FIELD_imm4 (-1) 0 (0) None None None None;
  mkOperand "mn" FIELD_mn (-1) 0 (0) None None None None;
  mkOperand "i" FIELD_i (-1) 0 (0) None None None None;
  mkOperand "imm6lo" FIELD_imm6lo (-1) 0 (0) None None None None;
  mkOperand "imm6hi" FIELD_imm6hi (-1) 0 (0) None None None None;
  mkOperand "imm7lo" FIELD_imm7lo (-1) 0 (0) None None None None;
  mkOperand "imm7hi" FIELD_imm7hi (-1) 0 (0) None None None None;
  mkOperand "z" FIELD_z (-1) 0 (0) None None None None;
  mkOperand "imm6" FIELD_imm6 (-1) 0 (0) None None None None;
  mkOperand "imm7" FIELD_imm7 (-1) 0 (0) None None None None;
  mkOperand "r3" FIELD_r3 (-1) 0 (0) None None None None;
  mkOperand "rbit2" FIELD_rbit2 (-1) 0 (0) None None None None;
  mkOperand "rhi" FIELD_rhi (-1) 0 (0) None None None None;
  mkOperand "t3" FIELD_t3 (-1) 0 (0) None None None None;
  mkOperand "tbit2" FIELD_tbit2 (-1) 0 (0) None None None None;
  mkOperand "tlo" FIELD_tlo (-1) 0 (0) None None None None;
  mkOperand "w" FIELD_w (-1) 0 (0) None None None None;
  mkOperand "y" FIELD_y (-1) 0 (0) None None None None;
  mkOperand "x" FIELD_x (-1) 0 (0) None None None None;
  mkOperand "t2" FIELD_t2 (-1) 0 (0) None None None None;
  mkOperand "s2" FIELD_s2 (-1) 0 (0) None None None None;
  mkOperand "r2" FIELD_r2 (-1) 0 (0) None None None None;
  mkOperand "t4" FIELD_t4 (-1) 0 (0) None None None None;
  mkOperand "s4" FIELD_s4 (-1) 0 (0) None None None None;
  mkOperand "r4" FIELD_r4 (-1) 0 (0) None None None None;
  mkOperand "t8" FIELD_t8 (-1) 0 (0) None None None None;
  mkOperand "s8" FIELD_s8 (-1) 0 (0) None None None None;
  mkOperand "r8" FIELD_r8 (-1) 0 (0) None None None None;
  mkOperand "xt_wbr15_imm" FIELD_xt_wbr15_imm (-1) 0 (0) None None None None;
  mkOperand "xt_wbr18_imm" FIELD_xt_wbr18_imm (-1) 0 (0) None None None None;
  mkOperand "fld_slot_format_32_0_3_0" FIELD_fld_slot_format_32_0_3_0 (-1) 0 (0) None None None None;
  mkOperand "fld_slot_format_32_0_28_4" FIELD_fld_slot_format_32_0_28_4 (-1) 0 (0) None None None None;
  mkOperand "fld_st.QR_b" FIELD_fld_st_QR_b (-1) 0 (0) None None None None;
  mkOperand "fld_st.QR_a" FIELD_fld_st_QR_a (-1) 0 (0) None None None None;
  mkOperand "fld_ld.QR_b" FIELD_fld_ld_QR_b (-1) 0 (0) None None None None;
  mkOperand "fld_ld.QR_a" FIELD_fld_ld_QR_a (-1) 0 (0) None None None None;
  mkOperand "fld_QR" FIELD_fld_QR (-1) 0 (0) None None None None;
  mkOperand "fld_Inst_4_0" FIELD_fld_Inst_4_0 (-1) 0 (0) None None None None;
  mkOperand "fld_Inst_9_6" FIELD_fld_Inst_9_6 (-1) 0 (0) None None None None;
  mkOperand "fld_mv.QR_b" FIELD_fld_mv_QR_b (-1) 0 (0) None None None None;
  mkOperand "fld_mv.QR_a" FIELD_fld_mv_QR_a (-1) 0 (0) None None None None;
  mkOperand "fld_EE.WR_MASK_GPIO_OUT_mask" FIELD_fld_EE_WR_MASK_GPIO_OUT_mask (-1) 0 (0) None None None None;
  mkOperand "fld_EE.WR_MASK_GPIO_OUT_value" FIELD_fld_EE_WR_MASK_GPIO_OUT_value (-1) 0 (0) None None None None;
  mkOperand "fld_EE.SET_BIT_GPIO_OUT_mask" FIELD_fld_EE_SET_BIT_GPIO_OUT_mask (-1) 0 (0) None None None None;
  mkOperand "fld_EE.CLR_BIT_GPIO_OUT_clear" FIELD_fld_EE_CLR_BIT_GPIO_OUT_clear (-1) 0 (0) None None None None;
  mkOperand "fld_Inst_23_8" FIELD_fld_Inst_23_8 (-1) 0 (0) None None None None;
  mkOperand "fld_EE.GET_GPIO_IN_au" FIELD_fld_EE_GET_GPIO_IN_au (-1) 0 (0) None None None None;
  mkOperand "fld_Inst_23_22" FIELD_fld_Inst_23_22 (-1) 0 (0) None None None None;
  mkOperand "fld_semantic.LD_ST_imm2" FIELD_fld_semantic_LD_ST_imm2 (-1) 0 (0) None None None None;
  mkOperand "fld_Inst_14_8" FIELD_fld_Inst_14_8 (-1) 0 (0) None None None None;
  mkOperand "fld_semantic.LD_ST_imm1" FIELD_fld_semantic_LD_ST_imm1 (-1) 0 (0) None None None None;
  mkOperand "fld_Inst_11_8" FIELD_fld_Inst_11_8 (-1) 0 (0) None None None None;
  mkOperand "fld_semantic.LD_ST_qu1" FIELD_fld_semantic_LD_ST_qu1 (-1) 0 (0) None None None None;
  mkOperand "fld_semantic.LD_ST_imm16f" FIELD_fld_semantic_LD_ST_imm16f (-1) 0 (0) None None None None;
  mkOperand "fld_semantic.LD_ST_as" FIELD_fld_semantic_LD_ST_as (-1) 0 (0) None None None None;
  mkOperand "fld_semantic.LD_ST_fu0" FIELD_fld_semantic_LD_ST_fu0 (-1) 0 (0) None None None None;
  mkOperand "fld_semantic.LD_ST_fu1" FIELD_fld_semantic_LD_ST_fu1 (-1) 0 (0) None None None None;
  mkOperand "fld_semantic.LD_ST_fu2" FIELD_fld_semantic_LD_ST_fu2 (-1) 0 (0) None None None None;
  mkOperand "fld_semantic.LD_ST_fu3" FIELD_fld_semantic_LD_ST_fu3 (-1) 0 (0) None None None None;
  mkOperand "fld_slot_format_32_0_28_24" FIELD_fld_slot_format_32_0_28_24 (-1) 0 (0) None None None None;
  mkOperand "fld_semantic.LD_ST_ad" FIELD_fld_semantic_LD_ST_ad (-1) 0 (0) None None None None;
  mkOperand "fld_semantic.LD_ST_imm8" FIELD_fld_semantic_LD_ST_imm8 (-1) 0 (0) None None None None;
  mkOperand "fld_slot_format_32_0_7_5" FIELD_fld_slot_format_32_0_7_5 (-1) 0 (0) None None None None;
  mkOperand "fld_Inst_3_0" FIELD_fld_Inst_3_0 (-1) 0 (0) None None None None;
  mkOperand "fld_Inst_19_16" FIELD_fld_Inst_19_16 (-1) 0 (0) None None None None;
  mkOperand "fld_Inst_23_23" FIELD_fld_Inst_23_23 (-1) 0 (0) None None None None;
  mkOperand "fld_Inst_14_12" FIELD_fld_Inst_14_12 (-1) 0 (0) None None None None;
  mkOperand "fld_Inst_21_15" FIELD_fld_Inst_21_15 (-1) 0 (0) None None None None;
  mkOperand "fld_semantic.LD_ST_imm16" FIELD_fld_semantic_LD_ST_imm16 (-1) 0 (0) None None None None;
  mkOperand "fld_Inst_23_12" FIELD_fld_Inst_23_12 (-1) 0 (0) None None None None;
  mkOperand "fld_semantic.LD_ST_imm4" FIELD_fld_semantic_LD_ST_imm4 (-1) 0 (0) None None None None;
  mkOperand "fld_semantic.LD_ST_sel8" FIELD_fld_semantic_LD_ST_sel8 (-1) 0 (0) None None None None;
  mkOperand "fld_semantic.LD_ST_sel4" FIELD_fld_semantic_LD_ST_sel4 (-1) 0 (0) None None None None;
  mkOperand "fld_semantic.LD_ST_qs" FIELD_fld_semantic_LD_ST_qs (-1) 0 (0) None None None None;
  mkOperand "fld_semantic.LD_ST_qu" FIELD_fld_semantic_LD_ST_qu (-1) 0 (0) None None None None;
  mkOperand "fld_slot_format_32_0_28_22" FIELD_fld_slot_format_32_0_28_22 (-1) 0 (0) None None None None;
  mkOperand "fld_semantic.LD_ST_fv0" FIELD_fld_semantic_LD_ST_fv0 (-1) 0 (0) None None None None;
  mkOperand "fld_semantic.LD_ST_fv1" FIELD_fld_semantic_LD_ST_fv1 (-1) 0 (0) None None None None;
  mkOperand "fld_semantic.LD_ST_fv2" FIELD_fld_semantic_LD_ST_fv2 (-1) 0 (0) None None None None;
  mkOperand "fld_semantic.LD_ST_fv3" FIELD_fld_semantic_LD_ST_fv3 (-1) 0 (0) None None None None;
  mkOperand "fld_semantic.LD_ST_qv" FIELD_fld_semantic_LD_ST_qv (-1) 0 (0) None None None None;
  mkOperand "fld_EE.MOVI.32.A_sel4" FIELD_fld_EE_MOVI_32_A_sel4 (-1) 0 (0) None None None None;
  mkOperand "fld_EE.MOVI.32.A_au" FIELD_fld_EE_MOVI_32_A_au (-1) 0 (0) None None None None;
  mkOperand "fld_EE.MOVI.32.A_qs" FIELD_fld_EE_MOVI_32_A_qs (-1) 0 (0) None None None None;
  mkOperand "fld_EE.MOVI.32.Q_sel4" FIELD_fld_EE_MOVI_32_Q_sel4 (-1) 0 (0) None None None None;
  mkOperand "fld_EE.MOVI.32.Q_as" FIELD_fld_EE_MOVI_32_Q_as (-1) 0 (0) None None None None;
  mkOperand "fld_EE.MOVI.32.Q_qu" FIELD_fld_EE_MOVI_32_Q_qu (-1) 0 (0) None None None None;
  mkOperand "fld_EE.VZIP.16_qs1" FIELD_fld_EE_VZIP_16_qs1 (-1) 0 (0) None None None None;
  mkOperand "fld_EE.VZIP.16_qs0" FIELD_fld_EE_VZIP_16_qs0 (-1) 0 (0) None None None None;
  mkOperand "fld_EE.VZIP.32_qs1" FIELD_fld_EE_VZIP_32_qs1 (-1) 0 (0) None None None None;
  mkOperand "fld_EE.VZIP.32_qs0" FIELD_fld_EE_VZIP_32_qs0 (-1) 0 (0) None None None None;
  mkOperand "fld_EE.VZIP.8_qs1" FIELD_fld_EE_VZIP_8_qs1 (-1) 0 (0) None None None None;
  mkOperand "fld_EE.VZIP.8_qs0" FIELD_fld_EE_VZIP_8_qs0 (-1) 0 (0) None None None None;
  mkOperand "fld_Inst_11_0" FIELD_fld_Inst_11_0 (-1) 0 (0) None None None None;
  mkOperand "fld_EE.VUNZIP.16_qs1" FIELD_fld_EE_VUNZIP_16_qs1 (-1) 0 (0) None None None None;
  mkOperand "fld_EE.VUNZIP.16_qs0" FIELD_fld_EE_VUNZIP_16_qs0 (-1) 0 (0) None None None None;
  mkOperand "fld_EE.VUNZIP.32_qs1" FIELD_fld_EE_VUNZIP_32_qs1 (-1) 0 (0) None None None None;
  mkOperand "fld_EE.VUNZIP.32_qs0" FIELD_fld_EE_VUNZIP_32_qs0 (-1) 0 (0) None None None None;
  mkOperand "fld_EE.VUNZIP.8_qs1" FIELD_fld_EE_VUNZIP_8_qs1 (-1) 0 (0) None None None None;
  mkOperand "fld_EE.VUNZIP.8_qs0" FIELD_fld_EE_VUNZIP_8_qs0 (-1) 0 (0) None None None None;
  mkOperand "fld_Inst_23_0" FIELD_fld_Inst_23_0 (-1) 0 (0) None None None None;
  mkOperand "fld_EE.ZERO.Q_qa" FIELD_fld_EE_ZERO_Q_qa (-1) 0 (0) None None None None;
  mkOperand "fld_Inst_14_0" FIELD_fld_Inst_14_0 (-1) 0 (0) None None None None;
  mkOperand "fld_EE.MOV.S16.QACC_qs" FIELD_fld_EE_MOV_S16_QACC_qs (-1) 0 (0) None None None None;
  mkOperand "fld_EE.MOV.S8.QACC_qs" FIELD_fld_EE_MOV_S8_QACC_qs (-1) 0 (0) None None None None;
  mkOperand "fld_EE.MOV.U16.QACC_qs" FIELD_fld_EE_MOV_U16_QACC_qs (-1) 0 (0) None None None None;
  mkOperand "fld_EE.MOV.U8.QACC_qs" FIELD_fld_EE_MOV_U8_QACC_qs (-1) 0 (0) None None None None;
  mkOperand "fld_slot_format_32_0_10_4" FIELD_fld_slot_format_32_0_10_4 (-1) 0 (0) None None None None;
  mkOperand "fld_Inst_7_0" FIELD_fld_Inst_7_0 (-1) 0 (0) None None None None;
  mkOperand "fld_semantic.CAL_DOUBLE_Q_qa" FIELD_fld_semantic_CAL_DOUBLE_Q_qa (-1) 0 (0) None None None None;
  mkOperand "fld_semantic.CAL_DOUBLE_Q_as" FIELD_fld_semantic_CAL_DOUBLE_Q_as (-1) 0 (0) None None None None;
  mkOperand "fld_semantic.CAL_DOUBLE_Q_qu" FIELD_fld_semantic_CAL_DOUBLE_Q_qu (-1) 0 (0) None None None None;
  mkOperand "fld_slot_format_32_0_10_6" FIELD_fld_slot_format_32_0_10_6 (-1) 0 (0) None None None None;
  mkOperand "fld_semantic.CAL_DOUBLE_Q_qv" FIELD_fld_semantic_CAL_DOUBLE_Q_qv (-1) 0 (0) None None None None;
  mkOperand "fld_slot_format_32_0_28_20" FIELD_fld_slot_format_32_0_28_20 (-1) 0 (0) None None None None;
  mkOperand "fld_Inst_7_6" FIELD_fld_Inst_7_6 (-1) 0 (0) None None None None;
  mkOperand "fld_semantic.CAL_DOUBLE_Q_sel4" FIELD_fld_semantic_CAL_DOUBLE_Q_sel4 (-1) 0 (0) None None None None;
  mkOperand "fld_semantic.CAL_DOUBLE_Q_qy" FIELD_fld_semantic_CAL_DOUBLE_Q_qy (-1) 0 (0) None None None None].

Definition s3_operands_8 : list xtensa_operand_internal := [
  mkOperand "fld_semantic.CAL_DOUBLE_Q_qx" FIELD_fld_semantic_CAL_DOUBLE_Q_qx (-1) 0 (0) None None None None;
  mkOperand "fld_semantic.CAL_DOUBLE_Q_qz" FIELD_fld_semantic_CAL_DOUBLE_Q_qz (-1) 0 (0) None None None None;
  mkOperand "fld_semantic.CAL_DOUBLE_Q_qs1" FIELD_fld_semantic_CAL_DOUBLE_Q_qs1 (-1) 0 (0) None None None None;
  mkOperand "fld_semantic.CAL_DOUBLE_Q_qs0" FIELD_fld_semantic_CAL_DOUBLE_Q_qs0 (-1) 0 (0) None None None None;
  mkOperand "fld_slot_format_32_0_28_25" FIELD_fld_slot_format_32_0_28_25 (-1) 0 (0) None None None None;
  mkOperand "fld_semantic.CAL_DOUBLE_Q_imm16" FIELD_fld_semantic_CAL_DOUBLE_Q_imm16 (-1) 0 (0) None None None None;
  mkOperand "fld_slot_format_32_0_10_8" FIELD_fld_slot_format_32_0_10_8 (-1) 0 (0) None None None None;
  mkOperand "fld_slot_format_32_0_19_17" FIELD_fld_slot_format_32_0_19_17 (-1) 0 (0) None None None None;
  mkOperand "fld_slot_format_32_0_28_23" FIELD_fld_slot_format_32_0_28_23 (-1) 0 (0) None None None None;
  mkOperand "fld_semantic.CAL_DOUBLE_Q_ad" FIELD_fld_semantic_CAL_DOUBLE_Q_ad (-1) 0 (0) None None None None;
  mkOperand "fld_slot_format_32_0_7_4" FIELD_fld_slot_format_32_0_7_4 (-1) 0 (0) None None None None;
  mkOperand "fld_Inst_23_21" FIELD_fld_Inst_23_21 (-1) 0 (0) None None None None;
  mkOperand "fld_semantic.CAL_DOUBLE_Q_sel8" FIELD_fld_semantic_CAL_DOUBLE_Q_sel8 (-1) 0 (0) None None None None;
  mkOperand "fld_slot_format_32_0_10_9" FIELD_fld_slot_format_32_0_10_9 (-1) 0 (0) None None None None;
  mkOperand "fld_Inst_7_5" FIELD_fld_Inst_7_5 (-1) 0 (0) None None None None;
  mkOperand "fld_semantic.CAL_DOUBLE_Q_sel16" FIELD_fld_semantic_CAL_DOUBLE_Q_sel16 (-1) 0 (0) None None None None;
  mkOperand "fld_Inst_14_11" FIELD_fld_Inst_14_11 (-1) 0 (0) None None None None;
  mkOperand "fld_semantic.SRCMB_QACC_sel2" FIELD_fld_semantic_SRCMB_QACC_sel2 (-1) 0 (0) None None None None;
  mkOperand "fld_semantic.SRCMB_QACC_as" FIELD_fld_semantic_SRCMB_QACC_as (-1) 0 (0) None None None None;
  mkOperand "fld_semantic.SRCMB_QACC_qu" FIELD_fld_semantic_SRCMB_QACC_qu (-1) 0 (0) None None None None;
  mkOperand "fld_Inst_13_12" FIELD_fld_Inst_13_12 (-1) 0 (0) None None None None;
  mkOperand "fld_Inst_23_15" FIELD_fld_Inst_23_15 (-1) 0 (0) None None None None;
  mkOperand "fld_EE.SRS.ACCX_sel2" FIELD_fld_EE_SRS_ACCX_sel2 (-1) 0 (0) None None None None;
  mkOperand "fld_EE.SRS.ACCX_as" FIELD_fld_EE_SRS_ACCX_as (-1) 0 (0) None None None None;
  mkOperand "fld_EE.SRS.ACCX_au" FIELD_fld_EE_SRS_ACCX_au (-1) 0 (0) None None None None;
  mkOperand "fld_semantic.CAL_DOUBLE_Q_ax" FIELD_fld_semantic_CAL_DOUBLE_Q_ax (-1) 0 (0) None None None None;
  mkOperand "fld_semantic.CAL_DOUBLE_Q_qs" FIELD_fld_semantic_CAL_DOUBLE_Q_qs (-1) 0 (0) None None None None;
  mkOperand "fld_Inst_13_13" FIELD_fld_Inst_13_13 (-1) 0 (0) None None None None;
  mkOperand "fld_semantic.CAL_DOUBLE_Q_ay" FIELD_fld_semantic_CAL_DOUBLE_Q_ay (-1) 0 (0) None None None None;
  mkOperand "fld_Inst_9_8" FIELD_fld_Inst_9_8 (-1) 0 (0) None None None None;
  mkOperand "fld_semantic.VLOGIC_qy" FIELD_fld_semantic_VLOGIC_qy (-1) 0 (0) None None None None;
  mkOperand "fld_semantic.VLOGIC_qx" FIELD_fld_semantic_VLOGIC_qx (-1) 0 (0) None None None None;
  mkOperand "fld_semantic.VLOGIC_qa" FIELD_fld_semantic_VLOGIC_qa (-1) 0 (0) None None None None;
  mkOperand "fld_Inst_5_5" FIELD_fld_Inst_5_5 (-1) 0 (0) None None None None;
  mkOperand "fld_semantic.SHFQ_sar16" FIELD_fld_semantic_SHFQ_sar16 (-1) 0 (0) None None None None;
  mkOperand "fld_semantic.SHFQ_qs0" FIELD_fld_semantic_SHFQ_qs0 (-1) 0 (0) None None None None;
  mkOperand "fld_semantic.SHFQ_qs1" FIELD_fld_semantic_SHFQ_qs1 (-1) 0 (0) None None None None;
  mkOperand "fld_semantic.SHFQ_ad" FIELD_fld_semantic_SHFQ_ad (-1) 0 (0) None None None None;
  mkOperand "fld_semantic.SHFQ_as" FIELD_fld_semantic_SHFQ_as (-1) 0 (0) None None None None;
  mkOperand "fld_semantic.SHFQ_imm16" FIELD_fld_semantic_SHFQ_imm16 (-1) 0 (0) None None None None;
  mkOperand "fld_semantic.SHFQ_qu" FIELD_fld_semantic_SHFQ_qu (-1) 0 (0) None None None None;
  mkOperand "fld_slot_format_32_0_7_6" FIELD_fld_slot_format_32_0_7_6 (-1) 0 (0) None None None None;
  mkOperand "fld_slot_format_32_0_13_11" FIELD_fld_slot_format_32_0_13_11 (-1) 0 (0) None None None None;
  mkOperand "fld_Inst_11_7" FIELD_fld_Inst_11_7 (-1) 0 (0) None None None None;
  mkOperand "fld_semantic.SHFQ_qa" FIELD_fld_semantic_SHFQ_qa (-1) 0 (0) None None None None;
  mkOperand "fld_Inst_14_7" FIELD_fld_Inst_14_7 (-1) 0 (0) None None None None;
  mkOperand "fld_semantic.SHFQ_qs" FIELD_fld_semantic_SHFQ_qs (-1) 0 (0) None None None None;
  mkOperand "fld_semantic.FFT_RxBF_sar4" FIELD_fld_semantic_FFT_RxBF_sar4 (-1) 0 (0) None None None None;
  mkOperand "fld_semantic.FFT_RxBF_as" FIELD_fld_semantic_FFT_RxBF_as (-1) 0 (0) None None None None;
  mkOperand "fld_slot_format_32_0_13_13" FIELD_fld_slot_format_32_0_13_13 (-1) 0 (0) None None None None;
  mkOperand "fld_Inst_9_9" FIELD_fld_Inst_9_9 (-1) 0 (0) None None None None;
  mkOperand "fld_semantic.FFT_RxBF_sel2" FIELD_fld_semantic_FFT_RxBF_sel2 (-1) 0 (0) None None None None;
  mkOperand "fld_semantic.FFT_RxBF_qy" FIELD_fld_semantic_FFT_RxBF_qy (-1) 0 (0) None None None None;
  mkOperand "fld_semantic.FFT_RxBF_qx" FIELD_fld_semantic_FFT_RxBF_qx (-1) 0 (0) None None None None;
  mkOperand "fld_semantic.FFT_RxBF_qa1" FIELD_fld_semantic_FFT_RxBF_qa1 (-1) 0 (0) None None None None;
  mkOperand "fld_semantic.FFT_RxBF_qa0" FIELD_fld_semantic_FFT_RxBF_qa0 (-1) 0 (0) None None None None;
  mkOperand "fld_EE.FFT.CMUL.S16.LD.XP_sel8" FIELD_fld_EE_FFT_CMUL_S16_LD_XP_sel8 (-1) 0 (0) None None None None;
  mkOperand "fld_EE.FFT.CMUL.S16.LD.XP_qy" FIELD_fld_EE_FFT_CMUL_S16_LD_XP_qy (-1) 0 (0) None None None None;
  mkOperand "fld_EE.FFT.CMUL.S16.LD.XP_qx" FIELD_fld_EE_FFT_CMUL_S16_LD_XP_qx (-1) 0 (0) None None None None;
  mkOperand "fld_EE.FFT.CMUL.S16.LD.XP_qz" FIELD_fld_EE_FFT_CMUL_S16_LD_XP_qz (-1) 0 (0) None None None None;
  mkOperand "fld_EE.FFT.CMUL.S16.LD.XP_ad" FIELD_fld_EE_FFT_CMUL_S16_LD_XP_ad (-1) 0 (0) None None None None;
  mkOperand "fld_EE.FFT.CMUL.S16.LD.XP_as" FIELD_fld_EE_FFT_CMUL_S16_LD_XP_as (-1) 0 (0) None None None None;
  mkOperand "fld_EE.FFT.CMUL.S16.LD.XP_qu" FIELD_fld_EE_FFT_CMUL_S16_LD_XP_qu (-1) 0 (0) None None None None;
  mkOperand "fld_EE.FFT.CMUL.S16.ST.XP_sar4" FIELD_fld_EE_FFT_CMUL_S16_ST_XP_sar4 (-1) 0 (0) None None None None;
  mkOperand "fld_EE.FFT.CMUL.S16.ST.XP_upd4" FIELD_fld_EE_FFT_CMUL_S16_ST_XP_upd4 (-1) 0 (0) None None None None;
  mkOperand "fld_EE.FFT.CMUL.S16.ST.XP_sel8" FIELD_fld_EE_FFT_CMUL_S16_ST_XP_sel8 (-1) 0 (0) None None None None;
  mkOperand "fld_EE.FFT.CMUL.S16.ST.XP_ad" FIELD_fld_EE_FFT_CMUL_S16_ST_XP_ad (-1) 0 (0) None None None None;
  mkOperand "fld_EE.FFT.CMUL.S16.ST.XP_as" FIELD_fld_EE_FFT_CMUL_S16_ST_XP_as (-1) 0 (0) None None None None;
  mkOperand "fld_EE.FFT.CMUL.S16.ST.XP_qv" FIELD_fld_EE_FFT_CMUL_S16_ST_XP_qv (-1) 0 (0) None None None None;
  mkOperand "fld_EE.FFT.CMUL.S16.ST.XP_qy" FIELD_fld_EE_FFT_CMUL_S16_ST_XP_qy (-1) 0 (0) None None None None;
  mkOperand "fld_EE.FFT.CMUL.S16.ST.XP_qx" FIELD_fld_EE_FFT_CMUL_S16_ST_XP_qx (-1) 0 (0) None None None None;
  mkOperand "fld_EE.BITREV_ax" FIELD_fld_EE_BITREV_ax (-1) 0 (0) None None None None;
  mkOperand "fld_EE.BITREV_qa" FIELD_fld_EE_BITREV_qa (-1) 0 (0) None None None None;
  mkOperand "fld_EE.FFT.AMS.S16.LD.INCP_sel2" FIELD_fld_EE_FFT_AMS_S16_LD_INCP_sel2 (-1) 0 (0) None None None None;
  mkOperand "fld_EE.FFT.AMS.S16.LD.INCP_qm" FIELD_fld_EE_FFT_AMS_S16_LD_INCP_qm (-1) 0 (0) None None None None;
  mkOperand "fld_EE.FFT.AMS.S16.LD.INCP_qy" FIELD_fld_EE_FFT_AMS_S16_LD_INCP_qy (-1) 0 (0) None None None None;
  mkOperand "fld_EE.FFT.AMS.S16.LD.INCP_qx" FIELD_fld_EE_FFT_AMS_S16_LD_INCP_qx (-1) 0 (0) None None None None;
  mkOperand "fld_EE.FFT.AMS.S16.LD.INCP_qz1" FIELD_fld_EE_FFT_AMS_S16_LD_INCP_qz1 (-1) 0 (0) None None None None;
  mkOperand "fld_EE.FFT.AMS.S16.LD.INCP_qz" FIELD_fld_EE_FFT_AMS_S16_LD_INCP_qz (-1) 0 (0) None None None None;
  mkOperand "fld_EE.FFT.AMS.S16.LD.INCP_as" FIELD_fld_EE_FFT_AMS_S16_LD_INCP_as (-1) 0 (0) None None None None;
  mkOperand "fld_EE.FFT.AMS.S16.LD.INCP_qu" FIELD_fld_EE_FFT_AMS_S16_LD_INCP_qu (-1) 0 (0) None None None None;
  mkOperand "fld_EE.FFT.AMS.S16.LD.INCP.UAUP_sel2" FIELD_fld_EE_FFT_AMS_S16_LD_INCP_UAUP_sel2 (-1) 0 (0) None None None None;
  mkOperand "fld_EE.FFT.AMS.S16.LD.INCP.UAUP_qm" FIELD_fld_EE_FFT_AMS_S16_LD_INCP_UAUP_qm (-1) 0 (0) None None None None;
  mkOperand "fld_EE.FFT.AMS.S16.LD.INCP.UAUP_qy" FIELD_fld_EE_FFT_AMS_S16_LD_INCP_UAUP_qy (-1) 0 (0) None None None None;
  mkOperand "fld_EE.FFT.AMS.S16.LD.INCP.UAUP_qx" FIELD_fld_EE_FFT_AMS_S16_LD_INCP_UAUP_qx (-1) 0 (0) None None None None;
  mkOperand "fld_EE.FFT.AMS.S16.LD.INCP.UAUP_qz1" FIELD_fld_EE_FFT_AMS_S16_LD_INCP_UAUP_qz1 (-1) 0 (0) None None None None;
  mkOperand "fld_EE.FFT.AMS.S16.LD.INCP.UAUP_qz" FIELD_fld_EE_FFT_AMS_S16_LD_INCP_UAUP_qz (-1) 0 (0) None None None None;
  mkOperand "fld_EE.FFT.AMS.S16.LD.INCP.UAUP_as" FIELD_fld_EE_FFT_AMS_S16_LD_INCP_UAUP_as (-1) 0 (0) None None None None;
  mkOperand "fld_EE.FFT.AMS.S16.LD.INCP.UAUP_qu" FIELD_fld_EE_FFT_AMS_S16_LD_INCP_UAUP_qu (-1) 0 (0) None None None None;
  mkOperand "fld_EE.FFT.AMS.S16.LD.R32.DECP_sel2" FIELD_fld_EE_FFT_AMS_S16_LD_R32_DECP_sel2 (-1) 0 (0) None None None None;
  mkOperand "fld_EE.FFT.AMS.S16.LD.R32.DECP_qm" FIELD_fld_EE_FFT_AMS_S16_LD_R32_DECP_qm (-1) 0 (0) None None None None;
  mkOperand "fld_EE.FFT.AMS.S16.LD.R32.DECP_qy" FIELD_fld_EE_FFT_AMS_S16_LD_R32_DECP_qy (-1) 0 (0) None None None None;
  mkOperand "fld_EE.FFT.AMS.S16.LD.R32.DECP_qx" FIELD_fld_EE_FFT_AMS_S16_LD_R32_DECP_qx (-1) 0 (0) None None None None;
  mkOperand "fld_EE.FFT.AMS.S16.LD.R32.DECP_qz1" FIELD_fld_EE_FFT_AMS_S16_LD_R32_DECP_qz1 (-1) 0 (0) None None None None;
  mkOperand "fld_EE.FFT.AMS.S16.LD.R32.DECP_qz" FIELD_fld_EE_FFT_AMS_S16_LD_R32_DECP_qz (-1) 0 (0) None None None None;
  mkOperand "fld_EE.FFT.AMS.S16.LD.R32.DECP_as" FIELD_fld_EE_FFT_AMS_S16_LD_R32_DECP_as (-1) 0 (0) None None None None;
  mkOperand "fld_EE.FFT.AMS.S16.LD.R32.DECP_qu" FIELD_fld_EE_FFT_AMS_S16_LD_R32_DECP_qu (-1) 0 (0) None None None None;
  mkOperand "fld_EE.FFT.AMS.S16.ST.INCP_sel2" FIELD_fld_EE_FFT_AMS_S16_ST_INCP_sel2 (-1) 0 (0) None None None None;
  mkOperand "fld_EE.FFT.AMS.S16.ST.INCP_qm" FIELD_fld_EE_FFT_AMS_S16_ST_INCP_qm (-1) 0 (0) None None None None;
  mkOperand "fld_EE.FFT.AMS.S16.ST.INCP_qy" FIELD_fld_EE_FFT_AMS_S16_ST_INCP_qy (-1) 0 (0) None None None None;
  mkOperand "fld_EE.FFT.AMS.S16.ST.INCP_qx" FIELD_fld_EE_FFT_AMS_S16_ST_INCP_qx (-1) 0 (0) None None None None;
  mkOperand "fld_EE.FFT.AMS.S16.ST.INCP_as" FIELD_fld_EE_FFT_AMS_S16_ST_INCP_as (-1) 0 (0) None None None None;
  mkOperand "fld_EE.FFT.AMS.S16.ST.INCP_as0" FIELD_fld_EE_FFT_AMS_S16_ST_INCP_as0 (-1) 0 (0) None None None None;
  mkOperand "fld_EE.FFT.AMS.S16.ST.INCP_qz1" FIELD_fld_EE_FFT_AMS_S16_ST_INCP_qz1 (-1) 0 (0) None None None None;
  mkOperand "fld_EE.FFT.AMS.S16.ST.INCP_qv" FIELD_fld_EE_FFT_AMS_S16_ST_INCP_qv (-1) 0 (0) None None None None;
  mkOperand "fld_EE.FFT.VST.R32.DECP_sar2" FIELD_fld_EE_FFT_VST_R32_DECP_sar2 (-1) 0 (0) None None None None;
  mkOperand "fld_EE.FFT.VST.R32.DECP_as" FIELD_fld_EE_FFT_VST_R32_DECP_as (-1) 0 (0) None None None None;
  mkOperand "fld_EE.FFT.VST.R32.DECP_qv" FIELD_fld_EE_FFT_VST_R32_DECP_qv (-1) 0 (0) None None None None].

Definition s3_operands : list xtensa_operand_internal :=
  s3_operands_1 ++ s3_operands_2 ++ s3_operands_3 ++ s3_operands_4 ++ s3_operands_5 ++ s3_operands_6 ++ s3_operands_7 ++ s3_operands_8.

(** ** Operands and states of the classes *)

Definition s3_args_1 : list (string * list xtensa_arg_internal) := [
  ("Iclass_LSI_args", [mkArg OPERAND_frt "o"; mkArg OPERAND_ars "i"; mkArg OPERAND_imm8x4 "i"]);
  ("Iclass_LSI_stateArgs", [mkArg STATE_CPENABLE "i"]);
  ("Iclass_LSIP_args", [mkArg OPERAND_frt "o"; mkArg OPERAND_ars "m"; mkArg OPERAND_imm8x4 "i"]);
  ("Iclass_LSIP_stateArgs", [mkArg STATE_CPENABLE "i"]);
  ("Iclass_LSX_args", [mkArg OPERAND_frr "o"; mkArg OPERAND_ars "i"; mkArg OPERAND_art "i"]);
  ("Iclass_LSX_stateArgs", [mkArg STATE_CPENABLE "i"]);
  ("Iclass_LSXP_args", [mkArg OPERAND_frr "o"; mkArg OPERAND_ars "m"; mkArg OPERAND_art "i"]);
  ("Iclass_LSXP_stateArgs", [mkArg STATE_CPENABLE "i"]);
  ("Iclass_SSI_args", [mkArg OPERAND_frt "i"; mkArg OPERAND_ars "i"; mkArg OPERAND_imm8x4 "i"]);
  ("Iclass_SSI_stateArgs", [mkArg STATE_CPENABLE "i"]);
  ("Iclass_SSIP_args", [mkArg OPERAND_frt "i"; mkArg OPERAND_ars "m"; mkArg OPERAND_imm8x4 "i"]);
  ("Iclass_SSIP_stateArgs", [mkArg STATE_CPENABLE "i"]);
  ("Iclass_SSX_args", [mkArg OPERAND_frr "i"; mkArg OPERAND_ars "i"; mkArg OPERAND_art "i"]);
  ("Iclass_SSX_stateArgs", [mkArg STATE_CPENABLE "i"]);
  ("Iclass_SSXP_args", [mkArg OPERAND_frr "i"; mkArg OPERAND_ars "m"; mkArg OPERAND_art "i"]);
  ("Iclass_SSXP_stateArgs", [mkArg STATE_CPENABLE "i"]);
  ("Iclass_ABS_S_args", [mkArg OPERAND_frr "o"; mkArg OPERAND_frs "i"]);
  ("Iclass_ABS_S_stateArgs", [mkArg STATE_CPENABLE "i"]);
  ("Iclass_NEG_S_args", [mkArg OPERAND_frr "o"; mkArg OPERAND_frs "i"]);
  ("Iclass_NEG_S_stateArgs", [mkArg STATE_CPENABLE "i"]);
  ("Iclass_MOV_S_args", [mkArg OPERAND_frr "o"; mkArg OPERAND_frs "i"]);
  ("Iclass_MOV_S_stateArgs", [mkArg STATE_CPENABLE "i"]);
  ("Iclass_MOVEQZ_S_args", [mkArg OPERAND_frr "m"; mkArg OPERAND_frs "i"; mkArg OPERAND_art "i"]);
  ("Iclass_MOVEQZ_S_stateArgs", [mkArg STATE_CPENABLE "i"]);
  ("Iclass_MOVNEZ_S_args", [mkArg OPERAND_frr "m"; mkArg OPERAND_frs "i"; mkArg OPERAND_art "i"]);
  ("Iclass_MOVNEZ_S_stateArgs", [mkArg STATE_CPENABLE "i"]);
  ("Iclass_MOVLTZ_S_args", [mkArg OPERAND_frr "m"; mkArg OPERAND_frs "i"; mkArg OPERAND_art "i"]);
  ("Iclass_MOVLTZ_S_stateArgs", [mkArg STATE_CPENABLE "i"]);
  ("Iclass_MOVGEZ_S_args", [mkArg OPERAND_frr "m"; mkArg OPERAND_frs "i"; mkArg OPERAND_art "i"]);
  ("Iclass_MOVGEZ_S_stateArgs", [mkArg STATE_CPENABLE "i"])].

Definition s3_args_2 : list (string * list xtensa_arg_internal) := [
  ("Iclass_MOVF_S_args", [mkArg OPERAND_frr "m"; mkArg OPERAND_frs "i"; mkArg OPERAND_bt "i"]);
  ("Iclass_MOVF_S_stateArgs", [mkArg STATE_CPENABLE "i"]);
  ("Iclass_MOVT_S_args", [mkArg OPERAND_frr "m"; mkArg OPERAND_frs "i"; mkArg OPERAND_bt "i"]);
  ("Iclass_MOVT_S_stateArgs", [mkArg STATE_CPENABLE "i"]);
  ("Iclass_WFR_args", [mkArg OPERAND_frr "o"; mkArg OPERAND_ars "i"]);
  ("Iclass_WFR_stateArgs", [mkArg STATE_CPENABLE "i"]);
  ("Iclass_RFR_args", [mkArg OPERAND_arr "o"; mkArg OPERAND_frs "i"]);
  ("Iclass_RFR_stateArgs", [mkArg STATE_CPENABLE "i"]);
  ("Iclass_ROUND_S_args", [mkArg OPERAND_arr "o"; mkArg OPERAND_frs "i"; mkArg OPERAND_imm_t "i"]);
  ("Iclass_ROUND_S_stateArgs", [mkArg STATE_InvalidFlag "m"; mkArg STATE_InexactFlag "m";
     mkArg STATE_CPENABLE "i"]);
  ("Iclass_CEIL_S_args", [mkArg OPERAND_arr "o"; mkArg OPERAND_frs "i"; mkArg OPERAND_imm_t "i"]);
  ("Iclass_CEIL_S_stateArgs", [mkArg STATE_InvalidFlag "m"; mkArg STATE_InexactFlag "m";
     mkArg STATE_CPENABLE "i"]);
  ("Iclass_FLOOR_S_args", [mkArg OPERAND_arr "o"; mkArg OPERAND_frs "i"; mkArg OPERAND_imm_t "i"]);
  ("Iclass_FLOOR_S_stateArgs", [mkArg STATE_InvalidFlag "m"; mkArg STATE_InexactFlag "m";
     mkArg STATE_CPENABLE "i"]);
  ("Iclass_TRUNC_S_args", [mkArg OPERAND_arr "o"; mkArg OPERAND_frs "i"; mkArg OPERAND_imm_t "i"]);
  ("Iclass_TRUNC_S_stateArgs", [mkArg STATE_InvalidFlag "m"; mkArg STATE_InexactFlag "m";
     mkArg STATE_CPENABLE "i"]);
  ("Iclass_UTRUNC_S_args", [mkArg OPERAND_arr "o"; mkArg OPERAND_frs "i"; mkArg OPERAND_imm_t "i"]);
  ("Iclass_UTRUNC_S_stateArgs", [mkArg STATE_InvalidFlag "m"; mkArg STATE_InexactFlag "m";
     mkArg STATE_CPENABLE "i"]);
  ("Iclass_FLOAT_S_args", [mkArg OPERAND_frr "o"; mkArg OPERAND_ars "i"; mkArg OPERAND_imm_t "i"]);
  ("Iclass_FLOAT_S_stateArgs", [mkArg STATE_InexactFlag "m"; mkArg STATE_RoundMode "i";
     mkArg STATE_CPENABLE "i"]);
  ("Iclass_UFLOAT_S_args", [mkArg OPERAND_frr "o"; mkArg OPERAND_ars "i"; mkArg OPERAND_imm_t "i"]);
  ("Iclass_UFLOAT_S_stateArgs", [mkArg STATE_InexactFlag "m"; mkArg STATE_RoundMode "i";
     mkArg STATE_CPENABLE "i"]);
  ("Iclass_UN_S_args", [mkArg OPERAND_br "o"; mkArg OPERAND_frs "i"; mkArg OPERAND_frt "i"]);
  ("Iclass_UN_S_stateArgs", [mkArg STATE_InvalidFlag "m"; mkArg STATE_CPENABLE "i"]);
  ("Iclass_ULT_S_args", [mkArg OPERAND_br "o"; mkArg OPERAND_frs "i"; mkArg OPERAND_frt "i"]);
  ("Iclass_ULT_S_stateArgs", [mkArg STATE_InvalidFlag "m"; mkArg STATE_CPENABLE "i"]);
  ("Iclass_ULE_S_args", [mkArg OPERAND_br "o"; mkArg OPERAND_frs "i"; mkArg OPERAND_frt "i"])].

Definition s3_args_3 : list (string * list xtensa_arg_internal) := [
  ("Iclass_ULE_S_stateArgs", [mkArg STATE_InvalidFlag "m"; mkArg STATE_CPENABLE "i"]);
  ("Iclass_UEQ_S_args", [mkArg OPERAND_br "o"; mkArg OPERAND_frs "i"; mkArg OPERAND_frt "i"]);
  ("Iclass_UEQ_S_stateArgs", [mkArg STATE_InvalidFlag "m"; mkArg STATE_CPENABLE "i"]);
  ("Iclass_OLT_S_args", [mkArg OPERAND_br "o"; mkArg OPERAND_frs "i"; mkArg OPERAND_frt "i"]);
  ("Iclass_OLT_S_stateArgs", [mkArg STATE_InvalidFlag "m"; mkArg STATE_CPENABLE "i"]);
  ("Iclass_OLE_S_args", [mkArg OPERAND_br "o"; mkArg OPERAND_frs "i"; mkArg OPERAND_frt "i"]);
  ("Iclass_OLE_S_stateArgs", [mkArg STATE_InvalidFlag "m"; mkArg STATE_CPENABLE "i"]);
  ("Iclass_OEQ_S_args", [mkArg OPERAND_br "o"; mkArg OPERAND_frs "i"; mkArg OPERAND_frt "i"]);
  ("Iclass_OEQ_S_stateArgs", [mkArg STATE_InvalidFlag "m"; mkArg STATE_CPENABLE "i"]);
  ("Iclass_ADD_S_args", [mkArg OPERAND_frr "o"; mkArg OPERAND_frs "i"; mkArg OPERAND_frt "i"]);
  ("Iclass_ADD_S_stateArgs", [mkArg STATE_InvalidFlag "m"; mkArg STATE_OverflowFlag "m";
     mkArg STATE_UnderflowFlag "m"; mkArg STATE_InexactFlag "m"; mkArg STATE_RoundMode "i";
     mkArg STATE_CPENABLE "i"]);
  ("Iclass_SUB_S_args", [mkArg OPERAND_frr "o"; mkArg OPERAND_frs "i"; mkArg OPERAND_frt "i"]);
  ("Iclass_SUB_S_stateArgs", [mkArg STATE_InvalidFlag "m"; mkArg STATE_OverflowFlag "m";
     mkArg STATE_UnderflowFlag "m"; mkArg STATE_InexactFlag "m"; mkArg STATE_RoundMode "i";
     mkArg STATE_CPENABLE "i"]);
  ("Iclass_MUL_S_args", [mkArg OPERAND_frr "o"; mkArg OPERAND_frs "i"; mkArg OPERAND_frt "i"]);
  ("Iclass_MUL_S_stateArgs", [mkArg STATE_InvalidFlag "m"; mkArg STATE_OverflowFlag "m";
     mkArg STATE_UnderflowFlag "m"; mkArg STATE_InexactFlag "m"; mkArg STATE_RoundMode "i";
     mkArg STATE_CPENABLE "i"]);
  ("Iclass_MADD_S_args", [mkArg OPERAND_frr "m"; mkArg OPERAND_frs "i"; mkArg OPERAND_frt "i"]);
  ("Iclass_MADD_S_stateArgs", [mkArg STATE_InvalidFlag "m"; mkArg STATE_OverflowFlag "m";
     mkArg STATE_UnderflowFlag "m"; mkArg STATE_InexactFlag "m"; mkArg STATE_RoundMode "i";
     mkArg STATE_CPENABLE "i"]);
  ("Iclass_MSUB_S_args", [mkArg OPERAND_frr "m"; mkArg OPERAND_frs "i"; mkArg OPERAND_frt "i"]);
  ("Iclass_MSUB_S_stateArgs", [mkArg STATE_InvalidFlag "m"; mkArg STATE_OverflowFlag "m";
     mkArg STATE_UnderflowFlag "m"; mkArg STATE_InexactFlag "m"; mkArg STATE_RoundMode "i";
     mkArg STATE_CPENABLE "i"]);
  ("Iclass_SQRT0_S_args", [mkArg OPERAND_frr "o"; mkArg OPERAND_frs "i"]);
  ("Iclass_SQRT0_S_stateArgs", [mkArg STATE_CPENABLE "i"]);
  ("Iclass_DIV0_S_args", [mkArg OPERAND_frr "o"; mkArg OPERAND_frs "i"]);
  ("Iclass_DIV0_S_stateArgs", [mkArg STATE_CPENABLE "i"]);
  ("Iclass_RECIP0_S_args", [mkArg OPERAND_frr "o"; mkArg OPERAND_frs "i"])].

Definition s3_args_4 : list (string * list xtensa_arg_internal) := [
  ("Iclass_RECIP0_S_stateArgs", [mkArg STATE_InvalidFlag "m"; mkArg STATE_DivZeroFlag "m";
     mkArg STATE_CPENABLE "i"]);
  ("Iclass_RSQRT0_S_args", [mkArg OPERAND_frr "o"; mkArg OPERAND_frs "i"]);
  ("Iclass_RSQRT0_S_stateArgs", [mkArg STATE_InvalidFlag "m"; mkArg STATE_DivZeroFlag "m";
     mkArg STATE_CPENABLE "i"]);
  ("Iclass_MADDN_S_args", [mkArg OPERAND_frr "m"; mkArg OPERAND_frs "i"; mkArg OPERAND_frt "i"]);
  ("Iclass_MADDN_S_stateArgs", [mkArg STATE_CPENABLE "i"]);
  ("Iclass_DIVN_S_args", [mkArg OPERAND_frr "m"; mkArg OPERAND_frs "i"; mkArg OPERAND_frt "i"]);
  ("Iclass_DIVN_S_stateArgs", [mkArg STATE_OverflowFlag "m"; mkArg STATE_UnderflowFlag "m";
     mkArg STATE_InexactFlag "m"; mkArg STATE_RoundMode "i"; mkArg STATE_CPENABLE "i"]);
  ("Iclass_CONST_S_args", [mkArg OPERAND_frr "o"; mkArg OPERAND_imm_s "i"]);
  ("Iclass_CONST_S_stateArgs", [mkArg STATE_CPENABLE "i"]);
  ("Iclass_NEXP01_S_args", [mkArg OPERAND_frr "o"; mkArg OPERAND_frs "i"]);
  ("Iclass_NEXP01_S_stateArgs", [mkArg STATE_CPENABLE "i"]);
  ("Iclass_ADDEXP_S_args", [mkArg OPERAND_frr "m"; mkArg OPERAND_frs "i"]);
  ("Iclass_ADDEXP_S_stateArgs", [mkArg STATE_CPENABLE "i"]);
  ("Iclass_ADDEXPM_S_args", [mkArg OPERAND_frr "m"; mkArg OPERAND_frs "i"]);
  ("Iclass_ADDEXPM_S_stateArgs", [mkArg STATE_CPENABLE "i"]);
  ("Iclass_MKDADJ_S_args", [mkArg OPERAND_frr "m"; mkArg OPERAND_frs "i"]);
  ("Iclass_MKDADJ_S_stateArgs", [mkArg STATE_InvalidFlag "m"; mkArg STATE_DivZeroFlag "m";
     mkArg STATE_CPENABLE "i"]);
  ("Iclass_MKSADJ_S_args", [mkArg OPERAND_frr "o"; mkArg OPERAND_frs "i"]);
  ("Iclass_MKSADJ_S_stateArgs", [mkArg STATE_InvalidFlag "m"; mkArg STATE_CPENABLE "i"]);
  ("Iclass_xt_iclass_rfe_stateArgs", [mkArg STATE_PSEXCM "o"; mkArg STATE_EPC1 "i"]);
  ("Iclass_xt_iclass_rfde_stateArgs", [mkArg STATE_DEPC "i"]);
  ("Iclass_xt_iclass_call12_args", [mkArg OPERAND_soffsetx4 "i"; mkArg OPERAND_ar12 "o"]);
  ("Iclass_xt_iclass_call12_stateArgs", [mkArg STATE_PSCALLINC "o"]);
  ("Iclass_xt_iclass_call8_args", [mkArg OPERAND_soffsetx4 "i"; mkArg OPERAND_ar8 "o"]);
  ("Iclass_xt_iclass_call8_stateArgs", [mkArg STATE_PSCALLINC "o"]);
  ("Iclass_xt_iclass_call4_args", [mkArg OPERAND_soffsetx4 "i"; mkArg OPERAND_ar4 "o"]);
  ("Iclass_xt_iclass_call4_stateArgs", [mkArg STATE_PSCALLINC "o"]);
  ("Iclass_xt_iclass_callx12_args", [mkArg OPERAND_ars "i"; mkArg OPERAND_ar12 "o"]);
  ("Iclass_xt_iclass_callx12_stateArgs", [mkArg STATE_PSCALLINC "o"]);
  ("Iclass_xt_iclass_callx8_args", [mkArg OPERAND_ars "i"; mkArg OPERAND_ar8 "o"])].

Definition s3_args_5 : list (string * list xtensa_arg_internal) := [
  ("Iclass_xt_iclass_callx8_stateArgs", [mkArg STATE_PSCALLINC "o"]);
  ("Iclass_xt_iclass_callx4_args", [mkArg OPERAND_ars "i"; mkArg OPERAND_ar4 "o"]);
  ("Iclass_xt_iclass_callx4_stateArgs", [mkArg STATE_PSCALLINC "o"]);
  ("Iclass_xt_iclass_entry_args", [mkArg OPERAND_ars_entry "s"; mkArg OPERAND_ars "i";
     mkArg OPERAND_uimm12x8 "i"]);
  ("Iclass_xt_iclass_entry_stateArgs", [mkArg STATE_PSCALLINC "i"; mkArg STATE_PSEXCM "i";
     mkArg STATE_PSWOE "i"; mkArg STATE_WindowBase "m"; mkArg STATE_WindowStart "m"]);
  ("Iclass_xt_iclass_movsp_args", [mkArg OPERAND_art "o"; mkArg OPERAND_ars "i"]);
  ("Iclass_xt_iclass_movsp_stateArgs", [mkArg STATE_WindowBase "i"; mkArg STATE_WindowStart "i"]);
  ("Iclass_xt_iclass_rotw_args", [mkArg OPERAND_simm4 "i"]);
  ("Iclass_xt_iclass_rotw_stateArgs", [mkArg STATE_WindowBase "m"]);
  ("Iclass_xt_iclass_retw_args", [mkArg OPERAND__ars_invisible "i"]);
  ("Iclass_xt_iclass_retw_stateArgs", [mkArg STATE_WindowBase "m"; mkArg STATE_WindowStart "m";
     mkArg STATE_PSCALLINC "o"; mkArg STATE_PSEXCM "i"; mkArg STATE_PSWOE "i"]);
  ("Iclass_xt_iclass_rfwou_stateArgs", [mkArg STATE_EPC1 "i"; mkArg STATE_PSEXCM "o";
     mkArg STATE_WindowBase "m"; mkArg STATE_WindowStart "m"; mkArg STATE_PSOWB "i"]);
  ("Iclass_xt_iclass_l32e_args", [mkArg OPERAND_art "o"; mkArg OPERAND_ars "i"; mkArg OPERAND_immrx4 "i"]);
  ("Iclass_xt_iclass_s32e_args", [mkArg OPERAND_art "i"; mkArg OPERAND_ars "i"; mkArg OPERAND_immrx4 "i"]);
  ("Iclass_xt_iclass_rsr_windowbase_args", [mkArg OPERAND_art "o"]);
  ("Iclass_xt_iclass_rsr_windowbase_stateArgs", [mkArg STATE_WindowBase "i"]);
  ("Iclass_xt_iclass_wsr_windowbase_args", [mkArg OPERAND_art "i"]);
  ("Iclass_xt_iclass_wsr_windowbase_stateArgs", [mkArg STATE_WindowBase "o"]);
  ("Iclass_xt_iclass_xsr_windowbase_args", [mkArg OPERAND_art "m"]);
  ("Iclass_xt_iclass_xsr_windowbase_stateArgs", [mkArg STATE_WindowBase "m"]);
  ("Iclass_xt_iclass_rsr_windowstart_args", [mkArg OPERAND_art "o"]);
  ("Iclass_xt_iclass_rsr_windowstart_stateArgs", [mkArg STATE_WindowStart "i"]);
  ("Iclass_xt_iclass_wsr_windowstart_args", [mkArg OPERAND_art "i"]);
  ("Iclass_xt_iclass_wsr_windowstart_stateArgs", [mkArg STATE_WindowStart "o"]);
  ("Iclass_xt_iclass_xsr_windowstart_args", [mkArg OPERAND_art "m"]);
  ("Iclass_xt_iclass_xsr_windowstart_stateArgs", [mkArg STATE_WindowStart "m"]);
  ("Iclass_xt_iclass_add_n_args", [mkArg OPERAND_arr "o"; mkArg OPERAND_ars "i"; mkArg OPERAND_art "i"]);
  ("Iclass_xt_iclass_addi_n_args", [mkArg OPERAND_arr "o"; mkArg OPERAND_ars "i";
     mkArg OPERAND_ai4const "i"]);
  ("Iclass_xt_iclass_bz6_args", [mkArg OPERAND_ars "i"; mkArg OPERAND_uimm6 "i"]);
  ("Iclass_xt_iclass_loadi4_args", [mkArg OPERAND_art "o"; mkArg OPERAND_ars "i"; mkArg OPERAND_lsi4x4 "i"])].

Definition s3_args_6 : list (string * list xtensa_arg_internal) := [
  ("Iclass_xt_iclass_mov_n_args", [mkArg OPERAND_art "o"; mkArg OPERAND_ars "i"]);
  ("Iclass_xt_iclass_movi_n_args", [mkArg OPERAND_ars "o"; mkArg OPERAND_simm7 "i"]);
  ("Iclass_xt_iclass_retn_args", [mkArg OPERAND__ars_invisible "i"]);
  ("Iclass_xt_iclass_storei4_args", [mkArg OPERAND_art "i"; mkArg OPERAND_ars "i"; mkArg OPERAND_lsi4x4 "i"]);
  ("Iclass_rur_threadptr_args", [mkArg OPERAND_arr "o"]);
  ("Iclass_rur_threadptr_stateArgs", [mkArg STATE_THREADPTR "i"]);
  ("Iclass_wur_threadptr_args", [mkArg OPERAND_art "i"]);
  ("Iclass_wur_threadptr_stateArgs", [mkArg STATE_THREADPTR "o"]);
  ("Iclass_xt_iclass_addi_args", [mkArg OPERAND_art "o"; mkArg OPERAND_ars "i"; mkArg OPERAND_simm8 "i"]);
  ("Iclass_xt_iclass_addmi_args", [mkArg OPERAND_art "o"; mkArg OPERAND_ars "i";
     mkArg OPERAND_simm8x256 "i"]);
  ("Iclass_xt_iclass_addsub_args", [mkArg OPERAND_arr "o"; mkArg OPERAND_ars "i"; mkArg OPERAND_art "i"]);
  ("Iclass_xt_iclass_bit_args", [mkArg OPERAND_arr "o"; mkArg OPERAND_ars "i"; mkArg OPERAND_art "i"]);
  ("Iclass_xt_iclass_bsi8_args", [mkArg OPERAND_ars "i"; mkArg OPERAND_b4const "i";
     mkArg OPERAND_label8 "i"]);
  ("Iclass_xt_iclass_bsi8b_args", [mkArg OPERAND_ars "i"; mkArg OPERAND_bbi "i"; mkArg OPERAND_label8 "i"]);
  ("Iclass_xt_iclass_bsi8u_args", [mkArg OPERAND_ars "i"; mkArg OPERAND_b4constu "i";
     mkArg OPERAND_label8 "i"]);
  ("Iclass_xt_iclass_bst8_args", [mkArg OPERAND_ars "i"; mkArg OPERAND_art "i"; mkArg OPERAND_label8 "i"]);
  ("Iclass_xt_iclass_bsz12_args", [mkArg OPERAND_ars "i"; mkArg OPERAND_label12 "i"]);
  ("Iclass_xt_iclass_call0_args", [mkArg OPERAND_soffsetx4 "i"; mkArg OPERAND_ar0 "o"]);
  ("Iclass_xt_iclass_callx0_args", [mkArg OPERAND_ars "i"; mkArg OPERAND_ar0 "o"]);
  ("Iclass_xt_iclass_exti_args", [mkArg OPERAND_arr "o"; mkArg OPERAND_art "i"; mkArg OPERAND_sae "i";
     mkArg OPERAND_op2p1 "i"]);
  ("Iclass_xt_iclass_jump_args", [mkArg OPERAND_soffset "i"]);
  ("Iclass_xt_iclass_jumpx_args", [mkArg OPERAND_ars "i"]);
  ("Iclass_xt_iclass_l16ui_args", [mkArg OPERAND_art "o"; mkArg OPERAND_ars "i"; mkArg OPERAND_uimm8x2 "i"]);
  ("Iclass_xt_iclass_l16si_args", [mkArg OPERAND_art "o"; mkArg OPERAND_ars "i"; mkArg OPERAND_uimm8x2 "i"]);
  ("Iclass_xt_iclass_l32i_args", [mkArg OPERAND_art "o"; mkArg OPERAND_ars "i"; mkArg OPERAND_uimm8x4 "i"]);
  ("Iclass_xt_iclass_l32r_args", [mkArg OPERAND_art "o"; mkArg OPERAND_uimm16x4 "i"]);
  ("Iclass_xt_iclass_l8i_args", [mkArg OPERAND_art "o"; mkArg OPERAND_ars "i"; mkArg OPERAND_uimm8 "i"]);
  ("Iclass_xt_iclass_loop_args", [mkArg OPERAND_ars "i"; mkArg OPERAND_ulabel8 "i"])].

Definition s3_args_7 : list (string * list xtensa_arg_internal) := [
  ("Iclass_xt_iclass_loop_stateArgs", [mkArg STATE_LBEG "o"; mkArg STATE_LEND "o"; mkArg STATE_LCOUNT "o"]);
  ("Iclass_xt_iclass_loopz_args", [mkArg OPERAND_ars "i"; mkArg OPERAND_ulabel8 "i"]);
  ("Iclass_xt_iclass_loopz_stateArgs", [mkArg STATE_LBEG "o"; mkArg STATE_LEND "o"; mkArg STATE_LCOUNT "o"]);
  ("Iclass_xt_iclass_movi_args", [mkArg OPERAND_art "o"; mkArg OPERAND_simm12b "i"]);
  ("Iclass_xt_iclass_movz_args", [mkArg OPERAND_arr "m"; mkArg OPERAND_ars "i"; mkArg OPERAND_art "i"]);
  ("Iclass_xt_iclass_neg_args", [mkArg OPERAND_arr "o"; mkArg OPERAND_art "i"]);
  ("Iclass_xt_iclass_return_args", [mkArg OPERAND__ars_invisible "i"]);
  ("Iclass_xt_iclass_s16i_args", [mkArg OPERAND_art "i"; mkArg OPERAND_ars "i"; mkArg OPERAND_uimm8x2 "i"]);
  ("Iclass_xt_iclass_s32i_args", [mkArg OPERAND_art "i"; mkArg OPERAND_ars "i"; mkArg OPERAND_uimm8x4 "i"]);
  ("Iclass_xt_iclass_s32nb_args", [mkArg OPERAND_art "i"; mkArg OPERAND_ars "i"; mkArg OPERAND_uimmrx4 "i"]);
  ("Iclass_xt_iclass_s8i_args", [mkArg OPERAND_art "i"; mkArg OPERAND_ars "i"; mkArg OPERAND_uimm8 "i"]);
  ("Iclass_xt_iclass_sar_args", [mkArg OPERAND_ars "i"]);
  ("Iclass_xt_iclass_sar_stateArgs", [mkArg STATE_SAR "o"]);
  ("Iclass_xt_iclass_sari_args", [mkArg OPERAND_sas "i"]);
  ("Iclass_xt_iclass_sari_stateArgs", [mkArg STATE_SAR "o"]);
  ("Iclass_xt_iclass_shifts_args", [mkArg OPERAND_arr "o"; mkArg OPERAND_ars "i"]);
  ("Iclass_xt_iclass_shifts_stateArgs", [mkArg STATE_SAR "i"]);
  ("Iclass_xt_iclass_shiftst_args", [mkArg OPERAND_arr "o"; mkArg OPERAND_ars "i"; mkArg OPERAND_art "i"]);
  ("Iclass_xt_iclass_shiftst_stateArgs", [mkArg STATE_SAR "i"]);
  ("Iclass_xt_iclass_shiftt_args", [mkArg OPERAND_arr "o"; mkArg OPERAND_art "i"]);
  ("Iclass_xt_iclass_shiftt_stateArgs", [mkArg STATE_SAR "i"]);
  ("Iclass_xt_iclass_slli_args", [mkArg OPERAND_arr "o"; mkArg OPERAND_ars "i"; mkArg OPERAND_msalp32 "i"]);
  ("Iclass_xt_iclass_srai_args", [mkArg OPERAND_arr "o"; mkArg OPERAND_art "i"; mkArg OPERAND_sargt "i"]);
  ("Iclass_xt_iclass_srli_args", [mkArg OPERAND_arr "o"; mkArg OPERAND_art "i"; mkArg OPERAND_s "i"]);
  ("Iclass_xt_iclass_sync_stateArgs", [mkArg STATE_XTSYNC "i"]);
  ("Iclass_xt_iclass_rsil_args", [mkArg OPERAND_art "o"; mkArg OPERAND_s "i"]);
  ("Iclass_xt_iclass_rsil_stateArgs", [mkArg STATE_PSWOE "i"; mkArg STATE_PSCALLINC "i";
     mkArg STATE_PSOWB "i"; mkArg STATE_PSUM "i"; mkArg STATE_PSEXCM "i"; mkArg STATE_PSINTLEVEL "m"]);
  ("Iclass_xt_iclass_rsr_lend_args", [mkArg OPERAND_art "o"]);
  ("Iclass_xt_iclass_rsr_lend_stateArgs", [mkArg STATE_LEND "i"])].

Definition s3_args_8 : list (string * list xtensa_arg_internal) := [
  ("Iclass_xt_iclass_wsr_lend_args", [mkArg OPERAND_art "i"]);
  ("Iclass_xt_iclass_wsr_lend_stateArgs", [mkArg STATE_LEND "o"]);
  ("Iclass_xt_iclass_xsr_lend_args", [mkArg OPERAND_art "m"]);
  ("Iclass_xt_iclass_xsr_lend_stateArgs", [mkArg STATE_LEND "m"]);
  ("Iclass_xt_iclass_rsr_lcount_args", [mkArg OPERAND_art "o"]);
  ("Iclass_xt_iclass_rsr_lcount_stateArgs", [mkArg STATE_LCOUNT "i"]);
  ("Iclass_xt_iclass_wsr_lcount_args", [mkArg OPERAND_art "i"]);
  ("Iclass_xt_iclass_wsr_lcount_stateArgs", [mkArg STATE_XTSYNC "o"; mkArg STATE_LCOUNT "o"]);
  ("Iclass_xt_iclass_xsr_lcount_args", [mkArg OPERAND_art "m"]);
  ("Iclass_xt_iclass_xsr_lcount_stateArgs", [mkArg STATE_XTSYNC "o"; mkArg STATE_LCOUNT "m"]);
  ("Iclass_xt_iclass_rsr_lbeg_args", [mkArg OPERAND_art "o"]);
  ("Iclass_xt_iclass_rsr_lbeg_stateArgs", [mkArg STATE_LBEG "i"]);
  ("Iclass_xt_iclass_wsr_lbeg_args", [mkArg OPERAND_art "i"]);
  ("Iclass_xt_iclass_wsr_lbeg_stateArgs", [mkArg STATE_LBEG "o"]);
  ("Iclass_xt_iclass_xsr_lbeg_args", [mkArg OPERAND_art "m"]);
  ("Iclass_xt_iclass_xsr_lbeg_stateArgs", [mkArg STATE_LBEG "m"]);
  ("Iclass_xt_iclass_rsr_sar_args", [mkArg OPERAND_art "o"]);
  ("Iclass_xt_iclass_rsr_sar_stateArgs", [mkArg STATE_SAR "i"]);
  ("Iclass_xt_iclass_wsr_sar_args", [mkArg OPERAND_art "i"]);
  ("Iclass_xt_iclass_wsr_sar_stateArgs", [mkArg STATE_SAR "o"; mkArg STATE_XTSYNC "o"]);
  ("Iclass_xt_iclass_xsr_sar_args", [mkArg OPERAND_art "m"]);
  ("Iclass_xt_iclass_xsr_sar_stateArgs", [mkArg STATE_SAR "m"]);
  ("Iclass_xt_iclass_rsr_memctl_args", [mkArg OPERAND_art "o"]);
  ("Iclass_xt_iclass_rsr_memctl_stateArgs", [mkArg STATE_MEMCTL "i"]);
  ("Iclass_xt_iclass_wsr_memctl_args", [mkArg OPERAND_art "i"]);
  ("Iclass_xt_iclass_wsr_memctl_stateArgs", [mkArg STATE_MEMCTL "o"]);
  ("Iclass_xt_iclass_xsr_memctl_args", [mkArg OPERAND_art "m"]);
  ("Iclass_xt_iclass_xsr_memctl_stateArgs", [mkArg STATE_MEMCTL "m"]);
  ("Iclass_xt_iclass_rsr_litbase_args", [mkArg OPERAND_art "o"]);
  ("Iclass_xt_iclass_wsr_litbase_args", [mkArg OPERAND_art "i"]);
  ("Iclass_xt_iclass_xsr_litbase_args", [mkArg OPERAND_art "m"]);
  ("Iclass_xt_iclass_rsr_configid0_args", [mkArg OPERAND_art "o"]);
  ("Iclass_xt_iclass_wsr_configid0_args", [mkArg OPERAND_art "i"]);
  ("Iclass_xt_iclass_rsr_configid1_args", [mkArg OPERAND_art "o"]);
  ("Iclass_xt_iclass_rsr_ps_args", [mkArg OPERAND_art "o"])].

Definition s3_args_9 : list (string * list xtensa_arg_internal) := [
  ("Iclass_xt_iclass_rsr_ps_stateArgs", [mkArg STATE_PSWOE "i"; mkArg STATE_PSCALLINC "i";
     mkArg STATE_PSOWB "i"; mkArg STATE_PSUM "i"; mkArg STATE_PSEXCM "i"; mkArg STATE_PSINTLEVEL "i"]);
  ("Iclass_xt_iclass_wsr_ps_args", [mkArg OPERAND_art "i"]);
  ("Iclass_xt_iclass_wsr_ps_stateArgs", [mkArg STATE_PSWOE "o"; mkArg STATE_PSCALLINC "o";
     mkArg STATE_PSOWB "o"; mkArg STATE_PSUM "o"; mkArg STATE_PSEXCM "o"; mkArg STATE_PSINTLEVEL "o"]);
  ("Iclass_xt_iclass_xsr_ps_args", [mkArg OPERAND_art "m"]);
  ("Iclass_xt_iclass_xsr_ps_stateArgs", [mkArg STATE_PSWOE "m"; mkArg STATE_PSCALLINC "m";
     mkArg STATE_PSOWB "m"; mkArg STATE_PSUM "m"; mkArg STATE_PSEXCM "m"; mkArg STATE_PSINTLEVEL "m"]);
  ("Iclass_xt_iclass_rsr_epc1_args", [mkArg OPERAND_art "o"]);
  ("Iclass_xt_iclass_rsr_epc1_stateArgs", [mkArg STATE_EPC1 "i"]);
  ("Iclass_xt_iclass_wsr_epc1_args", [mkArg OPERAND_art "i"]);
  ("Iclass_xt_iclass_wsr_epc1_stateArgs", [mkArg STATE_EPC1 "o"]);
  ("Iclass_xt_iclass_xsr_epc1_args", [mkArg OPERAND_art "m"]);
  ("Iclass_xt_iclass_xsr_epc1_stateArgs", [mkArg STATE_EPC1 "m"]);
  ("Iclass_xt_iclass_rsr_excsave1_args", [mkArg OPERAND_art "o"]);
  ("Iclass_xt_iclass_rsr_excsave1_stateArgs", [mkArg STATE_EXCSAVE1 "i"]);
  ("Iclass_xt_iclass_wsr_excsave1_args", [mkArg OPERAND_art "i"]);
  ("Iclass_xt_iclass_wsr_excsave1_stateArgs", [mkArg STATE_EXCSAVE1 "o"]);
  ("Iclass_xt_iclass_xsr_excsave1_args", [mkArg OPERAND_art "m"]);
  ("Iclass_xt_iclass_xsr_excsave1_stateArgs", [mkArg STATE_EXCSAVE1 "m"]);
  ("Iclass_xt_iclass_rsr_epc2_args", [mkArg OPERAND_art "o"]);
  ("Iclass_xt_iclass_rsr_epc2_stateArgs", [mkArg STATE_EPC2 "i"]);
  ("Iclass_xt_iclass_wsr_epc2_args", [mkArg OPERAND_art "i"]);
  ("Iclass_xt_iclass_wsr_epc2_stateArgs", [mkArg STATE_EPC2 "o"]);
  ("Iclass_xt_iclass_xsr_epc2_args", [mkArg OPERAND_art "m"]);
  ("Iclass_xt_iclass_xsr_epc2_stateArgs", [mkArg STATE_EPC2 "m"]);
  ("Iclass_xt_iclass_rsr_excsave2_args", [mkArg OPERAND_art "o"]);
  ("Iclass_xt_iclass_rsr_excsave2_stateArgs", [mkArg STATE_EXCSAVE2 "i"]);
  ("Iclass_xt_iclass_wsr_excsave2_args", [mkArg OPERAND_art "i"]);
  ("Iclass_xt_iclass_wsr_excsave2_stateArgs", [mkArg STATE_EXCSAVE2 "o"]);
  ("Iclass_xt_iclass_xsr_excsave2_args", [mkArg OPERAND_art "m"]);
  ("Iclass_xt_iclass_xsr_excsave2_stateArgs", [mkArg STATE_EXCSAVE2 "m"]);
  ("Iclass_xt_iclass_rsr_epc3_args", [mkArg OPERAND_art "o"]);
  ("Iclass_xt_iclass_rsr_epc3_stateArgs", [mkArg STATE_EPC3 "i"]);
  ("Iclass_xt_iclass_wsr_epc3_args", [mkArg OPERAND_art "i"]);
  ("Iclass_xt_iclass_wsr_epc3_stateArgs", [mkArg STATE_EPC3 "o"]);
  ("Iclass_xt_iclass_xsr_epc3_args", [mkArg OPERAND_art "m"])].

Definition s3_args_10 : list (string * list xtensa_arg_internal) := [
  ("Iclass_xt_iclass_xsr_epc3_stateArgs", [mkArg STATE_EPC3 "m"]);
  ("Iclass_xt_iclass_rsr_excsave3_args", [mkArg OPERAND_art "o"]);
  ("Iclass_xt_iclass_rsr_excsave3_stateArgs", [mkArg STATE_EXCSAVE3 "i"]);
  ("Iclass_xt_iclass_wsr_excsave3_args", [mkArg OPERAND_art "i"]);
  ("Iclass_xt_iclass_wsr_excsave3_stateArgs", [mkArg STATE_EXCSAVE3 "o"]);
  ("Iclass_xt_iclass_xsr_excsave3_args", [mkArg OPERAND_art "m"]);
  ("Iclass_xt_iclass_xsr_excsave3_stateArgs", [mkArg STATE_EXCSAVE3 "m"]);
  ("Iclass_xt_iclass_rsr_epc4_args", [mkArg OPERAND_art "o"]);
  ("Iclass_xt_iclass_rsr_epc4_stateArgs", [mkArg STATE_EPC4 "i"]);
  ("Iclass_xt_iclass_wsr_epc4_args", [mkArg OPERAND_art "i"]);
  ("Iclass_xt_iclass_wsr_epc4_stateArgs", [mkArg STATE_EPC4 "o"]);
  ("Iclass_xt_iclass_xsr_epc4_args", [mkArg OPERAND_art "m"]);
  ("Iclass_xt_iclass_xsr_epc4_stateArgs", [mkArg STATE_EPC4 "m"]);
  ("Iclass_xt_iclass_rsr_excsave4_args", [mkArg OPERAND_art "o"]);
  ("Iclass_xt_iclass_rsr_excsave4_stateArgs", [mkArg STATE_EXCSAVE4 "i"]);
  ("Iclass_xt_iclass_wsr_excsave4_args", [mkArg OPERAND_art "i"]);
  ("Iclass_xt_iclass_wsr_excsave4_stateArgs", [mkArg STATE_EXCSAVE4 "o"]);
  ("Iclass_xt_iclass_xsr_excsave4_args", [mkArg OPERAND_art "m"]);
  ("Iclass_xt_iclass_xsr_excsave4_stateArgs", [mkArg STATE_EXCSAVE4 "m"]);
  ("Iclass_xt_iclass_rsr_epc5_args", [mkArg OPERAND_art "o"]);
  ("Iclass_xt_iclass_rsr_epc5_stateArgs", [mkArg STATE_EPC5 "i"]);
  ("Iclass_xt_iclass_wsr_epc5_args", [mkArg OPERAND_art "i"]);
  ("Iclass_xt_iclass_wsr_epc5_stateArgs", [mkArg STATE_EPC5 "o"]);
  ("Iclass_xt_iclass_xsr_epc5_args", [mkArg OPERAND_art "m"]);
  ("Iclass_xt_iclass_xsr_epc5_stateArgs", [mkArg STATE_EPC5 "m"]);
  ("Iclass_xt_iclass_rsr_excsave5_args", [mkArg OPERAND_art "o"]);
  ("Iclass_xt_iclass_rsr_excsave5_stateArgs", [mkArg STATE_EXCSAVE5 "i"]);
  ("Iclass_xt_iclass_wsr_excsave5_args", [mkArg OPERAND_art "i"]);
  ("Iclass_xt_iclass_wsr_excsave5_stateArgs", [mkArg STATE_EXCSAVE5 "o"]);
  ("Iclass_xt_iclass_xsr_excsave5_args", [mkArg OPERAND_art "m"]);
  ("Iclass_xt_iclass_xsr_excsave5_stateArgs", [mkArg STATE_EXCSAVE5 "m"]);
  ("Iclass_xt_iclass_rsr_epc6_args", [mkArg OPERAND_art "o"]);
  ("Iclass_xt_iclass_rsr_epc6_stateArgs", [mkArg STATE_EPC6 "i"]);
  ("Iclass_xt_iclass_wsr_epc6_args", [mkArg OPERAND_art "i"]);
  ("Iclass_xt_iclass_wsr_epc6_stateArgs", [mkArg STATE_EPC6 "o"]);
  ("Iclass_xt_iclass_xsr_epc6_args", [mkArg OPERAND_art "m"]);
  ("Iclass_xt_iclass_xsr_epc6_stateArgs", [mkArg STATE_EPC6 "m"])].

Definition s3_args_11 : list (string * list xtensa_arg_internal) := [
  ("Iclass_xt_iclass_rsr_excsave6_args", [mkArg OPERAND_art "o"]);
  ("Iclass_xt_iclass_rsr_excsave6_stateArgs", [mkArg STATE_EXCSAVE6 "i"]);
  ("Iclass_xt_iclass_wsr_excsave6_args", [mkArg OPERAND_art "i"]);
  ("Iclass_xt_iclass_wsr_excsave6_stateArgs", [mkArg STATE_EXCSAVE6 "o"]);
  ("Iclass_xt_iclass_xsr_excsave6_args", [mkArg OPERAND_art "m"]);
  ("Iclass_xt_iclass_xsr_excsave6_stateArgs", [mkArg STATE_EXCSAVE6 "m"]);
  ("Iclass_xt_iclass_rsr_epc7_args", [mkArg OPERAND_art "o"]);
  ("Iclass_xt_iclass_rsr_epc7_stateArgs", [mkArg STATE_EPC7 "i"]);
  ("Iclass_xt_iclass_wsr_epc7_args", [mkArg OPERAND_art "i"]);
  ("Iclass_xt_iclass_wsr_epc7_stateArgs", [mkArg STATE_EPC7 "o"]);
  ("Iclass_xt_iclass_xsr_epc7_args", [mkArg OPERAND_art "m"]);
  ("Iclass_xt_iclass_xsr_epc7_stateArgs", [mkArg STATE_EPC7 "m"]);
  ("Iclass_xt_iclass_rsr_excsave7_args", [mkArg OPERAND_art "o"]);
  ("Iclass_xt_iclass_rsr_excsave7_stateArgs", [mkArg STATE_EXCSAVE7 "i"]);
  ("Iclass_xt_iclass_wsr_excsave7_args", [mkArg OPERAND_art "i"]);
  ("Iclass_xt_iclass_wsr_excsave7_stateArgs", [mkArg STATE_EXCSAVE7 "o"]);
  ("Iclass_xt_iclass_xsr_excsave7_args", [mkArg OPERAND_art "m"]);
  ("Iclass_xt_iclass_xsr_excsave7_stateArgs", [mkArg STATE_EXCSAVE7 "m"]);
  ("Iclass_xt_iclass_rsr_eps2_args", [mkArg OPERAND_art "o"]);
  ("Iclass_xt_iclass_rsr_eps2_stateArgs", [mkArg STATE_EPS2 "i"]);
  ("Iclass_xt_iclass_wsr_eps2_args", [mkArg OPERAND_art "i"]);
  ("Iclass_xt_iclass_wsr_eps2_stateArgs", [mkArg STATE_EPS2 "o"]);
  ("Iclass_xt_iclass_xsr_eps2_args", [mkArg OPERAND_art "m"]);
  ("Iclass_xt_iclass_xsr_eps2_stateArgs", [mkArg STATE_EPS2 "m"]);
  ("Iclass_xt_iclass_rsr_eps3_args", [mkArg OPERAND_art "o"]);
  ("Iclass_xt_iclass_rsr_eps3_stateArgs", [mkArg STATE_EPS3 "i"]);
  ("Iclass_xt_iclass_wsr_eps3_args", [mkArg OPERAND_art "i"]);
  ("Iclass_xt_iclass_wsr_eps3_stateArgs", [mkArg STATE_EPS3 "o"]);
  ("Iclass_xt_iclass_xsr_eps3_args", [mkArg OPERAND_art "m"]);
  ("Iclass_xt_iclass_xsr_eps3_stateArgs", [mkArg STATE_EPS3 "m"]);
  ("Iclass_xt_iclass_rsr_eps4_args", [mkArg OPERAND_art "o"]);
  ("Iclass_xt_iclass_rsr_eps4_stateArgs", [mkArg STATE_EPS4 "i"]);
  ("Iclass_xt_iclass_wsr_eps4_args", [mkArg OPERAND_art "i"]);
  ("Iclass_xt_iclass_wsr_eps4_stateArgs", [mkArg STATE_EPS4 "o"]);
  ("Iclass_xt_iclass_xsr_eps4_args", [mkArg OPERAND_art "m"]);
  ("Iclass_xt_iclass_xsr_eps4_stateArgs", [mkArg STATE_EPS4 "m"]);
  ("Iclass_xt_iclass_rsr_eps5_args", [mkArg OPERAND_art "o"])].

Definition s3_args_12 : list (string * list xtensa_arg_internal) := [
  ("Iclass_xt_iclass_rsr_eps5_stateArgs", [mkArg STATE_EPS5 "i"]);
  ("Iclass_xt_iclass_wsr_eps5_args", [mkArg OPERAND_art "i"]);
  ("Iclass_xt_iclass_wsr_eps5_stateArgs", [mkArg STATE_EPS5 "o"]);
  ("Iclass_xt_iclass_xsr_eps5_args", [mkArg OPERAND_art "m"]);
  ("Iclass_xt_iclass_xsr_eps5_stateArgs", [mkArg STATE_EPS5 "m"]);
  ("Iclass_xt_iclass_rsr_eps6_args", [mkArg OPERAND_art "o"]);
  ("Iclass_xt_iclass_rsr_eps6_stateArgs", [mkArg STATE_EPS6 "i"]);
  ("Iclass_xt_iclass_wsr_eps6_args", [mkArg OPERAND_art "i"]);
  ("Iclass_xt_iclass_wsr_eps6_stateArgs", [mkArg STATE_EPS6 "o"]);
  ("Iclass_xt_iclass_xsr_eps6_args", [mkArg OPERAND_art "m"]);
  ("Iclass_xt_iclass_xsr_eps6_stateArgs", [mkArg STATE_EPS6 "m"]);
  ("Iclass_xt_iclass_rsr_eps7_args", [mkArg OPERAND_art "o"]);
  ("Iclass_xt_iclass_rsr_eps7_stateArgs", [mkArg STATE_EPS7 "i"]);
  ("Iclass_xt_iclass_wsr_eps7_args", [mkArg OPERAND_art "i"]);
  ("Iclass_xt_iclass_wsr_eps7_stateArgs", [mkArg STATE_EPS7 "o"]);
  ("Iclass_xt_iclass_xsr_eps7_args", [mkArg OPERAND_art "m"]);
  ("Iclass_xt_iclass_xsr_eps7_stateArgs", [mkArg STATE_EPS7 "m"]);
  ("Iclass_xt_iclass_rsr_excvaddr_args", [mkArg OPERAND_art "o"]);
  ("Iclass_xt_iclass_rsr_excvaddr_stateArgs", [mkArg STATE_EXCVADDR "i"]);
  ("Iclass_xt_iclass_wsr_excvaddr_args", [mkArg OPERAND_art "i"]);
  ("Iclass_xt_iclass_wsr_excvaddr_stateArgs", [mkArg STATE_EXCVADDR "o"]);
  ("Iclass_xt_iclass_xsr_excvaddr_args", [mkArg OPERAND_art "m"]);
  ("Iclass_xt_iclass_xsr_excvaddr_stateArgs", [mkArg STATE_EXCVADDR "m"]);
  ("Iclass_xt_iclass_rsr_depc_args", [mkArg OPERAND_art "o"]);
  ("Iclass_xt_iclass_rsr_depc_stateArgs", [mkArg STATE_DEPC "i"]);
  ("Iclass_xt_iclass_wsr_depc_args", [mkArg OPERAND_art "i"]);
  ("Iclass_xt_iclass_wsr_depc_stateArgs", [mkArg STATE_DEPC "o"]);
  ("Iclass_xt_iclass_xsr_depc_args", [mkArg OPERAND_art "m"]);
  ("Iclass_xt_iclass_xsr_depc_stateArgs", [mkArg STATE_DEPC "m"]);
  ("Iclass_xt_iclass_rsr_exccause_args", [mkArg OPERAND_art "o"]);
  ("Iclass_xt_iclass_rsr_exccause_stateArgs", [mkArg STATE_EXCCAUSE "i"; mkArg STATE_XTSYNC "i"]);
  ("Iclass_xt_iclass_wsr_exccause_args", [mkArg OPERAND_art "i"]);
  ("Iclass_xt_iclass_wsr_exccause_stateArgs", [mkArg STATE_EXCCAUSE "o"]);
  ("Iclass_xt_iclass_xsr_exccause_args", [mkArg OPERAND_art "m"]);
  ("Iclass_xt_iclass_xsr_exccause_stateArgs", [mkArg STATE_EXCCAUSE "m"]);
  ("Iclass_xt_iclass_rsr_misc0_args", [mkArg OPERAND_art "o"]);
  ("Iclass_xt_iclass_rsr_misc0_stateArgs", [mkArg STATE_MISC0 "i"])].

Definition s3_args_13 : list (string * list xtensa_arg_internal) := [
  ("Iclass_xt_iclass_wsr_misc0_args", [mkArg OPERAND_art "i"]);
  ("Iclass_xt_iclass_wsr_misc0_stateArgs", [mkArg STATE_MISC0 "o"]);
  ("Iclass_xt_iclass_xsr_misc0_args", [mkArg OPERAND_art "m"]);
  ("Iclass_xt_iclass_xsr_misc0_stateArgs", [mkArg STATE_MISC0 "m"]);
  ("Iclass_xt_iclass_rsr_misc1_args", [mkArg OPERAND_art "o"]);
  ("Iclass_xt_iclass_rsr_misc1_stateArgs", [mkArg STATE_MISC1 "i"]);
  ("Iclass_xt_iclass_wsr_misc1_args", [mkArg OPERAND_art "i"]);
  ("Iclass_xt_iclass_wsr_misc1_stateArgs", [mkArg STATE_MISC1 "o"]);
  ("Iclass_xt_iclass_xsr_misc1_args", [mkArg OPERAND_art "m"]);
  ("Iclass_xt_iclass_xsr_misc1_stateArgs", [mkArg STATE_MISC1 "m"]);
  ("Iclass_xt_iclass_rsr_misc2_args", [mkArg OPERAND_art "o"]);
  ("Iclass_xt_iclass_rsr_misc2_stateArgs", [mkArg STATE_MISC2 "i"]);
  ("Iclass_xt_iclass_wsr_misc2_args", [mkArg OPERAND_art "i"]);
  ("Iclass_xt_iclass_wsr_misc2_stateArgs", [mkArg STATE_MISC2 "o"]);
  ("Iclass_xt_iclass_xsr_misc2_args", [mkArg OPERAND_art "m"]);
  ("Iclass_xt_iclass_xsr_misc2_stateArgs", [mkArg STATE_MISC2 "m"]);
  ("Iclass_xt_iclass_rsr_misc3_args", [mkArg OPERAND_art "o"]);
  ("Iclass_xt_iclass_rsr_misc3_stateArgs", [mkArg STATE_MISC3 "i"]);
  ("Iclass_xt_iclass_wsr_misc3_args", [mkArg OPERAND_art "i"]);
  ("Iclass_xt_iclass_wsr_misc3_stateArgs", [mkArg STATE_MISC3 "o"]);
  ("Iclass_xt_iclass_xsr_misc3_args", [mkArg OPERAND_art "m"]);
  ("Iclass_xt_iclass_xsr_misc3_stateArgs", [mkArg STATE_MISC3 "m"]);
  ("Iclass_xt_iclass_rsr_prid_args", [mkArg OPERAND_art "o"]);
  ("Iclass_xt_iclass_rsr_vecbase_args", [mkArg OPERAND_art "o"]);
  ("Iclass_xt_iclass_rsr_vecbase_stateArgs", [mkArg STATE_VECBASE "i"]);
  ("Iclass_xt_iclass_wsr_vecbase_args", [mkArg OPERAND_art "i"]);
  ("Iclass_xt_iclass_wsr_vecbase_stateArgs", [mkArg STATE_VECBASE "o"]);
  ("Iclass_xt_iclass_xsr_vecbase_args", [mkArg OPERAND_art "m"]);
  ("Iclass_xt_iclass_xsr_vecbase_stateArgs", [mkArg STATE_VECBASE "m"]);
  ("Iclass_xt_iclass_salt_args", [mkArg OPERAND_arr "o"; mkArg OPERAND_ars "i"; mkArg OPERAND_art "i"]);
  ("Iclass_xt_mul16_args", [mkArg OPERAND_arr "o"; mkArg OPERAND_ars "i"; mkArg OPERAND_art "i"]);
  ("Iclass_xt_mul32_args", [mkArg OPERAND_arr "o"; mkArg OPERAND_ars "i"; mkArg OPERAND_art "i"]);
  ("Iclass_xt_mul32h_args", [mkArg OPERAND_arr "o"; mkArg OPERAND_ars "i"; mkArg OPERAND_art "i"]);
  ("Iclass_xt_iclass_mac16_aa_args", [mkArg OPERAND_ars "i"; mkArg OPERAND_art "i"]);
  ("Iclass_xt_iclass_mac16_aa_stateArgs", [mkArg STATE_ACC "o"])].

Definition s3_args_14 : list (string * list xtensa_arg_internal) := [
  ("Iclass_xt_iclass_mac16_ad_args", [mkArg OPERAND_ars "i"; mkArg OPERAND_my "i"]);
  ("Iclass_xt_iclass_mac16_ad_stateArgs", [mkArg STATE_ACC "o"]);
  ("Iclass_xt_iclass_mac16_da_args", [mkArg OPERAND_mx "i"; mkArg OPERAND_art "i"]);
  ("Iclass_xt_iclass_mac16_da_stateArgs", [mkArg STATE_ACC "o"]);
  ("Iclass_xt_iclass_mac16_dd_args", [mkArg OPERAND_mx "i"; mkArg OPERAND_my "i"]);
  ("Iclass_xt_iclass_mac16_dd_stateArgs", [mkArg STATE_ACC "o"]);
  ("Iclass_xt_iclass_mac16a_aa_args", [mkArg OPERAND_ars "i"; mkArg OPERAND_art "i"]);
  ("Iclass_xt_iclass_mac16a_aa_stateArgs", [mkArg STATE_ACC "m"]);
  ("Iclass_xt_iclass_mac16a_ad_args", [mkArg OPERAND_ars "i"; mkArg OPERAND_my "i"]);
  ("Iclass_xt_iclass_mac16a_ad_stateArgs", [mkArg STATE_ACC "m"]);
  ("Iclass_xt_iclass_mac16a_da_args", [mkArg OPERAND_mx "i"; mkArg OPERAND_art "i"]);
  ("Iclass_xt_iclass_mac16a_da_stateArgs", [mkArg STATE_ACC "m"]);
  ("Iclass_xt_iclass_mac16a_dd_args", [mkArg OPERAND_mx "i"; mkArg OPERAND_my "i"]);
  ("Iclass_xt_iclass_mac16a_dd_stateArgs", [mkArg STATE_ACC "m"]);
  ("Iclass_xt_iclass_mac16al_da_args", [mkArg OPERAND_mw "o"; mkArg OPERAND_ars "m"; mkArg OPERAND_mx "i";
     mkArg OPERAND_art "i"]);
  ("Iclass_xt_iclass_mac16al_da_stateArgs", [mkArg STATE_ACC "m"]);
  ("Iclass_xt_iclass_mac16al_dd_args", [mkArg OPERAND_mw "o"; mkArg OPERAND_ars "m"; mkArg OPERAND_mx "i";
     mkArg OPERAND_my "i"]);
  ("Iclass_xt_iclass_mac16al_dd_stateArgs", [mkArg STATE_ACC "m"]);
  ("Iclass_xt_iclass_mac16_l_args", [mkArg OPERAND_mw "o"; mkArg OPERAND_ars "m"]);
  ("Iclass_xt_iclass_rsr_m0_args", [mkArg OPERAND_art "o"; mkArg OPERAND_mr0 "i"]);
  ("Iclass_xt_iclass_wsr_m0_args", [mkArg OPERAND_art "i"; mkArg OPERAND_mr0 "o"]);
  ("Iclass_xt_iclass_xsr_m0_args", [mkArg OPERAND_art "m"; mkArg OPERAND_mr0 "m"]);
  ("Iclass_xt_iclass_rsr_m1_args", [mkArg OPERAND_art "o"; mkArg OPERAND_mr1 "i"]);
  ("Iclass_xt_iclass_wsr_m1_args", [mkArg OPERAND_art "i"; mkArg OPERAND_mr1 "o"]);
  ("Iclass_xt_iclass_xsr_m1_args", [mkArg OPERAND_art "m"; mkArg OPERAND_mr1 "m"]);
  ("Iclass_xt_iclass_rsr_m2_args", [mkArg OPERAND_art "o"; mkArg OPERAND_mr2 "i"]);
  ("Iclass_xt_iclass_wsr_m2_args", [mkArg OPERAND_art "i"; mkArg OPERAND_mr2 "o"]);
  ("Iclass_xt_iclass_xsr_m2_args", [mkArg OPERAND_art "m"; mkArg OPERAND_mr2 "m"]);
  ("Iclass_xt_iclass_rsr_m3_args", [mkArg OPERAND_art "o"; mkArg OPERAND_mr3 "i"]);
  ("Iclass_xt_iclass_wsr_m3_args", [mkArg OPERAND_art "i"; mkArg OPERAND_mr3 "o"]);
  ("Iclass_xt_iclass_xsr_m3_args", [mkArg OPERAND_art "m"; mkArg OPERAND_mr3 "m"])].

Definition s3_args_15 : list (string * list xtensa_arg_internal) := [
  ("Iclass_xt_iclass_rsr_acclo_args", [mkArg OPERAND_art "o"]);
  ("Iclass_xt_iclass_rsr_acclo_stateArgs", [mkArg STATE_ACC "i"]);
  ("Iclass_xt_iclass_wsr_acclo_args", [mkArg OPERAND_art "i"]);
  ("Iclass_xt_iclass_wsr_acclo_stateArgs", [mkArg STATE_ACC "m"]);
  ("Iclass_xt_iclass_xsr_acclo_args", [mkArg OPERAND_art "m"]);
  ("Iclass_xt_iclass_xsr_acclo_stateArgs", [mkArg STATE_ACC "m"]);
  ("Iclass_xt_iclass_rsr_acchi_args", [mkArg OPERAND_art "o"]);
  ("Iclass_xt_iclass_rsr_acchi_stateArgs", [mkArg STATE_ACC "i"]);
  ("Iclass_xt_iclass_wsr_acchi_args", [mkArg OPERAND_art "i"]);
  ("Iclass_xt_iclass_wsr_acchi_stateArgs", [mkArg STATE_ACC "m"]);
  ("Iclass_xt_iclass_xsr_acchi_args", [mkArg OPERAND_art "m"]);
  ("Iclass_xt_iclass_xsr_acchi_stateArgs", [mkArg STATE_ACC "m"]);
  ("Iclass_xt_iclass_rfi_args", [mkArg OPERAND_s "i"]);
  ("Iclass_xt_iclass_rfi_stateArgs", [mkArg STATE_PSWOE "o"; mkArg STATE_PSCALLINC "o";
     mkArg STATE_PSOWB "o"; mkArg STATE_PSUM "o"; mkArg STATE_PSEXCM "o"; mkArg STATE_PSINTLEVEL "o";
     mkArg STATE_EPC1 "i"; mkArg STATE_EPC2 "i"; mkArg STATE_EPC3 "i"; mkArg STATE_EPC4 "i";
     mkArg STATE_EPC5 "i"; mkArg STATE_EPC6 "i"; mkArg STATE_EPC7 "i"; mkArg STATE_EPS2 "i";
     mkArg STATE_EPS3 "i"; mkArg STATE_EPS4 "i"; mkArg STATE_EPS5 "i"; mkArg STATE_EPS6 "i";
     mkArg STATE_EPS7 "i"; mkArg STATE_InOCDMode "m"]);
  ("Iclass_xt_iclass_wait_args", [mkArg OPERAND_s "i"]);
  ("Iclass_xt_iclass_wait_stateArgs", [mkArg STATE_PSINTLEVEL "o"]);
  ("Iclass_xt_iclass_rsr_interrupt_args", [mkArg OPERAND_art "o"]);
  ("Iclass_xt_iclass_rsr_interrupt_stateArgs", [mkArg STATE_INTERRUPT "i"]);
  ("Iclass_xt_iclass_wsr_intset_args", [mkArg OPERAND_art "i"]);
  ("Iclass_xt_iclass_wsr_intset_stateArgs", [mkArg STATE_XTSYNC "o"; mkArg STATE_INTERRUPT "m"]);
  ("Iclass_xt_iclass_wsr_intclear_args", [mkArg OPERAND_art "i"]);
  ("Iclass_xt_iclass_wsr_intclear_stateArgs", [mkArg STATE_XTSYNC "o"; mkArg STATE_INTERRUPT "m"]);
  ("Iclass_xt_iclass_rsr_intenable_args", [mkArg OPERAND_art "o"]);
  ("Iclass_xt_iclass_rsr_intenable_stateArgs", [mkArg STATE_INTENABLE "i"]);
  ("Iclass_xt_iclass_wsr_intenable_args", [mkArg OPERAND_art "i"]);
  ("Iclass_xt_iclass_wsr_intenable_stateArgs", [mkArg STATE_INTENABLE "o"]);
  ("Iclass_xt_iclass_xsr_intenable_args", [mkArg OPERAND_art "m"]);
  ("Iclass_xt_iclass_xsr_intenable_stateArgs", [mkArg STATE_INTENABLE "m"]);
  ("Iclass_xt_iclass_break_args", [mkArg OPERAND_imms "i"; mkArg OPERAND_immt "i"]);
  ("Iclass_xt_iclass_break_stateArgs", [mkArg STATE_PSEXCM "i"; mkArg STATE_PSINTLEVEL "i"]);
  ("Iclass_xt_iclass_break_n_args", [mkArg OPERAND_imms "i"])].

Definition s3_args_16 : list (string * list xtensa_arg_internal) := [
  ("Iclass_xt_iclass_break_n_stateArgs", [mkArg STATE_PSEXCM "i"; mkArg STATE_PSINTLEVEL "i"]);
  ("Iclass_xt_iclass_rsr_dbreaka0_args", [mkArg OPERAND_art "o"]);
  ("Iclass_xt_iclass_rsr_dbreaka0_stateArgs", [mkArg STATE_DBREAKA0 "i"]);
  ("Iclass_xt_iclass_wsr_dbreaka0_args", [mkArg OPERAND_art "i"]);
  ("Iclass_xt_iclass_wsr_dbreaka0_stateArgs", [mkArg STATE_DBREAKA0 "o"; mkArg STATE_XTSYNC "o"]);
  ("Iclass_xt_iclass_xsr_dbreaka0_args", [mkArg OPERAND_art "m"]);
  ("Iclass_xt_iclass_xsr_dbreaka0_stateArgs", [mkArg STATE_DBREAKA0 "m"; mkArg STATE_XTSYNC "o"]);
  ("Iclass_xt_iclass_rsr_dbreakc0_args", [mkArg OPERAND_art "o"]);
  ("Iclass_xt_iclass_rsr_dbreakc0_stateArgs", [mkArg STATE_DBREAKC0 "i"]);
  ("Iclass_xt_iclass_wsr_dbreakc0_args", [mkArg OPERAND_art "i"]);
  ("Iclass_xt_iclass_wsr_dbreakc0_stateArgs", [mkArg STATE_DBREAKC0 "o"; mkArg STATE_XTSYNC "o"]);
  ("Iclass_xt_iclass_xsr_dbreakc0_args", [mkArg OPERAND_art "m"]);
  ("Iclass_xt_iclass_xsr_dbreakc0_stateArgs", [mkArg STATE_DBREAKC0 "m"; mkArg STATE_XTSYNC "o"]);
  ("Iclass_xt_iclass_rsr_dbreaka1_args", [mkArg OPERAND_art "o"]);
  ("Iclass_xt_iclass_rsr_dbreaka1_stateArgs", [mkArg STATE_DBREAKA1 "i"]);
  ("Iclass_xt_iclass_wsr_dbreaka1_args", [mkArg OPERAND_art "i"]);
  ("Iclass_xt_iclass_wsr_dbreaka1_stateArgs", [mkArg STATE_DBREAKA1 "o"; mkArg STATE_XTSYNC "o"]);
  ("Iclass_xt_iclass_xsr_dbreaka1_args", [mkArg OPERAND_art "m"]);
  ("Iclass_xt_iclass_xsr_dbreaka1_stateArgs", [mkArg STATE_DBREAKA1 "m"; mkArg STATE_XTSYNC "o"]);
  ("Iclass_xt_iclass_rsr_dbreakc1_args", [mkArg OPERAND_art "o"]);
  ("Iclass_xt_iclass_rsr_dbreakc1_stateArgs", [mkArg STATE_DBREAKC1 "i"]);
  ("Iclass_xt_iclass_wsr_dbreakc1_args", [mkArg OPERAND_art "i"]);
  ("Iclass_xt_iclass_wsr_dbreakc1_stateArgs", [mkArg STATE_DBREAKC1 "o"; mkArg STATE_XTSYNC "o"]);
  ("Iclass_xt_iclass_xsr_dbreakc1_args", [mkArg OPERAND_art "m"]);
  ("Iclass_xt_iclass_xsr_dbreakc1_stateArgs", [mkArg STATE_DBREAKC1 "m"; mkArg STATE_XTSYNC "o"]);
  ("Iclass_xt_iclass_rsr_ibreaka0_args", [mkArg OPERAND_art "o"]);
  ("Iclass_xt_iclass_rsr_ibreaka0_stateArgs", [mkArg STATE_IBREAKA0 "i"]);
  ("Iclass_xt_iclass_wsr_ibreaka0_args", [mkArg OPERAND_art "i"]);
  ("Iclass_xt_iclass_wsr_ibreaka0_stateArgs", [mkArg STATE_IBREAKA0 "o"]);
  ("Iclass_xt_iclass_xsr_ibreaka0_args", [mkArg OPERAND_art "m"]);
  ("Iclass_xt_iclass_xsr_ibreaka0_stateArgs", [mkArg STATE_IBREAKA0 "m"]);
  ("Iclass_xt_iclass_rsr_ibreaka1_args", [mkArg OPERAND_art "o"]);
  ("Iclass_xt_iclass_rsr_ibreaka1_stateArgs", [mkArg STATE_IBREAKA1 "i"]);
  ("Iclass_xt_iclass_wsr_ibreaka1_args", [mkArg OPERAND_art "i"]);
  ("Iclass_xt_iclass_wsr_ibreaka1_stateArgs", [mkArg STATE_IBREAKA1 "o"])].

Definition s3_args_17 : list (string * list xtensa_arg_internal) := [
  ("Iclass_xt_iclass_xsr_ibreaka1_args", [mkArg OPERAND_art "m"]);
  ("Iclass_xt_iclass_xsr_ibreaka1_stateArgs", [mkArg STATE_IBREAKA1 "m"]);
  ("Iclass_xt_iclass_rsr_ibreakenable_args", [mkArg OPERAND_art "o"]);
  ("Iclass_xt_iclass_rsr_ibreakenable_stateArgs", [mkArg STATE_IBREAKENABLE "i"]);
  ("Iclass_xt_iclass_wsr_ibreakenable_args", [mkArg OPERAND_art "i"]);
  ("Iclass_xt_iclass_wsr_ibreakenable_stateArgs", [mkArg STATE_IBREAKENABLE "o"]);
  ("Iclass_xt_iclass_xsr_ibreakenable_args", [mkArg OPERAND_art "m"]);
  ("Iclass_xt_iclass_xsr_ibreakenable_stateArgs", [mkArg STATE_IBREAKENABLE "m"]);
  ("Iclass_xt_iclass_rsr_debugcause_args", [mkArg OPERAND_art "o"]);
  ("Iclass_xt_iclass_rsr_debugcause_stateArgs", [mkArg STATE_DEBUGCAUSE "i"; mkArg STATE_DBNUM "i"]);
  ("Iclass_xt_iclass_wsr_debugcause_args", [mkArg OPERAND_art "i"]);
  ("Iclass_xt_iclass_wsr_debugcause_stateArgs", [mkArg STATE_DEBUGCAUSE "o"; mkArg STATE_DBNUM "o"]);
  ("Iclass_xt_iclass_xsr_debugcause_args", [mkArg OPERAND_art "m"]);
  ("Iclass_xt_iclass_xsr_debugcause_stateArgs", [mkArg STATE_DEBUGCAUSE "m"; mkArg STATE_DBNUM "m"]);
  ("Iclass_xt_iclass_rsr_icount_args", [mkArg OPERAND_art "o"]);
  ("Iclass_xt_iclass_rsr_icount_stateArgs", [mkArg STATE_ICOUNT "i"]);
  ("Iclass_xt_iclass_wsr_icount_args", [mkArg OPERAND_art "i"]);
  ("Iclass_xt_iclass_wsr_icount_stateArgs", [mkArg STATE_XTSYNC "o"; mkArg STATE_ICOUNT "o"]);
  ("Iclass_xt_iclass_xsr_icount_args", [mkArg OPERAND_art "m"]);
  ("Iclass_xt_iclass_xsr_icount_stateArgs", [mkArg STATE_XTSYNC "o"; mkArg STATE_ICOUNT "m"]);
  ("Iclass_xt_iclass_rsr_icountlevel_args", [mkArg OPERAND_art "o"]);
  ("Iclass_xt_iclass_rsr_icountlevel_stateArgs", [mkArg STATE_ICOUNTLEVEL "i"]);
  ("Iclass_xt_iclass_wsr_icountlevel_args", [mkArg OPERAND_art "i"]);
  ("Iclass_xt_iclass_wsr_icountlevel_stateArgs", [mkArg STATE_ICOUNTLEVEL "o"]);
  ("Iclass_xt_iclass_xsr_icountlevel_args", [mkArg OPERAND_art "m"]);
  ("Iclass_xt_iclass_xsr_icountlevel_stateArgs", [mkArg STATE_ICOUNTLEVEL "m"]);
  ("Iclass_xt_iclass_rsr_ddr_args", [mkArg OPERAND_art "o"]);
  ("Iclass_xt_iclass_rsr_ddr_stateArgs", [mkArg STATE_DDR "i"]);
  ("Iclass_xt_iclass_wsr_ddr_args", [mkArg OPERAND_art "i"]);
  ("Iclass_xt_iclass_wsr_ddr_stateArgs", [mkArg STATE_XTSYNC "o"; mkArg STATE_DDR "o"]);
  ("Iclass_xt_iclass_xsr_ddr_args", [mkArg OPERAND_art "m"]);
  ("Iclass_xt_iclass_xsr_ddr_stateArgs", [mkArg STATE_XTSYNC "o"; mkArg STATE_DDR "m"]);
  ("Iclass_xt_iclass_lddr32_p_args", [mkArg OPERAND_ars "m"]);
  ("Iclass_xt_iclass_lddr32_p_stateArgs", [mkArg STATE_XTSYNC "o"; mkArg STATE_InOCDMode "i";
     mkArg STATE_DDR "o"]);
  ("Iclass_xt_iclass_sddr32_p_args", [mkArg OPERAND_ars "m"])].

Definition s3_args_18 : list (string * list xtensa_arg_internal) := [
  ("Iclass_xt_iclass_sddr32_p_stateArgs", [mkArg STATE_InOCDMode "i"; mkArg STATE_DDR "i"]);
  ("Iclass_xt_iclass_rfdo_args", [mkArg OPERAND_imms "i"]);
  ("Iclass_xt_iclass_rfdo_stateArgs", [mkArg STATE_InOCDMode "m"; mkArg STATE_EPC6 "i";
     mkArg STATE_PSWOE "o"; mkArg STATE_PSCALLINC "o"; mkArg STATE_PSOWB "o"; mkArg STATE_PSUM "o";
     mkArg STATE_PSEXCM "o"; mkArg STATE_PSINTLEVEL "o"; mkArg STATE_EPS6 "i"]);
  ("Iclass_xt_iclass_rfdd_stateArgs", [mkArg STATE_InOCDMode "m"]);
  ("Iclass_xt_iclass_wsr_mmid_args", [mkArg OPERAND_art "i"]);
  ("Iclass_xt_iclass_wsr_mmid_stateArgs", [mkArg STATE_XTSYNC "o"]);
  ("Iclass_xt_iclass_bbool1_args", [mkArg OPERAND_br "o"; mkArg OPERAND_bs "i"; mkArg OPERAND_bt "i"]);
  ("Iclass_xt_iclass_bbool4_args", [mkArg OPERAND_bt "o"; mkArg OPERAND_bs4 "i"]);
  ("Iclass_xt_iclass_bbool8_args", [mkArg OPERAND_bt "o"; mkArg OPERAND_bs8 "i"]);
  ("Iclass_xt_iclass_bbranch_args", [mkArg OPERAND_bs "i"; mkArg OPERAND_label8 "i"]);
  ("Iclass_xt_iclass_bmove_args", [mkArg OPERAND_arr "m"; mkArg OPERAND_ars "i"; mkArg OPERAND_bt "i"]);
  ("Iclass_xt_iclass_RSR_BR_args", [mkArg OPERAND_art "o"; mkArg OPERAND_brall "i"]);
  ("Iclass_xt_iclass_WSR_BR_args", [mkArg OPERAND_art "i"; mkArg OPERAND_brall "o"]);
  ("Iclass_xt_iclass_XSR_BR_args", [mkArg OPERAND_art "m"; mkArg OPERAND_brall "m"]);
  ("Iclass_xt_iclass_rsr_ccount_args", [mkArg OPERAND_art "o"]);
  ("Iclass_xt_iclass_rsr_ccount_stateArgs", [mkArg STATE_CCOUNT "i"]);
  ("Iclass_xt_iclass_wsr_ccount_args", [mkArg OPERAND_art "i"]);
  ("Iclass_xt_iclass_wsr_ccount_stateArgs", [mkArg STATE_XTSYNC "o"; mkArg STATE_CCOUNT "o"]);
  ("Iclass_xt_iclass_xsr_ccount_args", [mkArg OPERAND_art "m"]);
  ("Iclass_xt_iclass_xsr_ccount_stateArgs", [mkArg STATE_XTSYNC "o"; mkArg STATE_CCOUNT "m"]);
  ("Iclass_xt_iclass_rsr_ccompare0_args", [mkArg OPERAND_art "o"]);
  ("Iclass_xt_iclass_rsr_ccompare0_stateArgs", [mkArg STATE_CCOMPARE0 "i"]);
  ("Iclass_xt_iclass_wsr_ccompare0_args", [mkArg OPERAND_art "i"]);
  ("Iclass_xt_iclass_wsr_ccompare0_stateArgs", [mkArg STATE_CCOMPARE0 "o"; mkArg STATE_INTERRUPT "m"]);
  ("Iclass_xt_iclass_xsr_ccompare0_args", [mkArg OPERAND_art "m"]);
  ("Iclass_xt_iclass_xsr_ccompare0_stateArgs", [mkArg STATE_CCOMPARE0 "m"; mkArg STATE_INTERRUPT "m"]);
  ("Iclass_xt_iclass_rsr_ccompare1_args", [mkArg OPERAND_art "o"]);
  ("Iclass_xt_iclass_rsr_ccompare1_stateArgs", [mkArg STATE_CCOMPARE1 "i"]);
  ("Iclass_xt_iclass_wsr_ccompare1_args", [mkArg OPERAND_art "i"]);
  ("Iclass_xt_iclass_wsr_ccompare1_stateArgs", [mkArg STATE_CCOMPARE1 "o"; mkArg STATE_INTERRUPT "m"]);
  ("Iclass_xt_iclass_xsr_ccompare1_args", [mkArg OPERAND_art "m"])].

Definition s3_args_19 : list (string * list xtensa_arg_internal) := [
  ("Iclass_xt_iclass_xsr_ccompare1_stateArgs", [mkArg STATE_CCOMPARE1 "m"; mkArg STATE_INTERRUPT "m"]);
  ("Iclass_xt_iclass_rsr_ccompare2_args", [mkArg OPERAND_art "o"]);
  ("Iclass_xt_iclass_rsr_ccompare2_stateArgs", [mkArg STATE_CCOMPARE2 "i"]);
  ("Iclass_xt_iclass_wsr_ccompare2_args", [mkArg OPERAND_art "i"]);
  ("Iclass_xt_iclass_wsr_ccompare2_stateArgs", [mkArg STATE_CCOMPARE2 "o"; mkArg STATE_INTERRUPT "m"]);
  ("Iclass_xt_iclass_xsr_ccompare2_args", [mkArg OPERAND_art "m"]);
  ("Iclass_xt_iclass_xsr_ccompare2_stateArgs", [mkArg STATE_CCOMPARE2 "m"; mkArg STATE_INTERRUPT "m"]);
  ("Iclass_xt_iclass_idtlb_args", [mkArg OPERAND_ars "i"]);
  ("Iclass_xt_iclass_idtlb_stateArgs", [mkArg STATE_XTSYNC "o"]);
  ("Iclass_xt_iclass_rdtlb_args", [mkArg OPERAND_art "o"; mkArg OPERAND_ars "i"]);
  ("Iclass_xt_iclass_wdtlb_args", [mkArg OPERAND_art "i"; mkArg OPERAND_ars "i"]);
  ("Iclass_xt_iclass_wdtlb_stateArgs", [mkArg STATE_XTSYNC "o"]);
  ("Iclass_xt_iclass_iitlb_args", [mkArg OPERAND_ars "i"]);
  ("Iclass_xt_iclass_ritlb_args", [mkArg OPERAND_art "o"; mkArg OPERAND_ars "i"]);
  ("Iclass_xt_iclass_witlb_args", [mkArg OPERAND_art "i"; mkArg OPERAND_ars "i"]);
  ("Iclass_xt_iclass_rsr_cpenable_args", [mkArg OPERAND_art "o"]);
  ("Iclass_xt_iclass_rsr_cpenable_stateArgs", [mkArg STATE_CPENABLE "i"]);
  ("Iclass_xt_iclass_wsr_cpenable_args", [mkArg OPERAND_art "i"]);
  ("Iclass_xt_iclass_wsr_cpenable_stateArgs", [mkArg STATE_CPENABLE "o"]);
  ("Iclass_xt_iclass_xsr_cpenable_args", [mkArg OPERAND_art "m"]);
  ("Iclass_xt_iclass_xsr_cpenable_stateArgs", [mkArg STATE_CPENABLE "m"]);
  ("Iclass_xt_iclass_clamp_args", [mkArg OPERAND_arr "o"; mkArg OPERAND_ars "i"; mkArg OPERAND_tp7 "i"]);
  ("Iclass_xt_iclass_minmax_args", [mkArg OPERAND_arr "o"; mkArg OPERAND_ars "i"; mkArg OPERAND_art "i"]);
  ("Iclass_xt_iclass_nsa_args", [mkArg OPERAND_art "o"; mkArg OPERAND_ars "i"]);
  ("Iclass_xt_iclass_sx_args", [mkArg OPERAND_arr "o"; mkArg OPERAND_ars "i"; mkArg OPERAND_tp7 "i"]);
  ("Iclass_xt_iclass_l32ai_args", [mkArg OPERAND_art "o"; mkArg OPERAND_ars "i"; mkArg OPERAND_uimm8x4 "i"]);
  ("Iclass_xt_iclass_s32ri_args", [mkArg OPERAND_art "i"; mkArg OPERAND_ars "i"; mkArg OPERAND_uimm8x4 "i"]);
  ("Iclass_xt_iclass_s32c1i_args", [mkArg OPERAND_art "m"; mkArg OPERAND_ars "i"; mkArg OPERAND_uimm8x4 "i"]);
  ("Iclass_xt_iclass_s32c1i_stateArgs", [mkArg STATE_SCOMPARE1 "i"; mkArg STATE_XTSYNC "i";
     mkArg STATE_SCOMPARE1 "i"]);
  ("Iclass_xt_iclass_rsr_scompare1_args", [mkArg OPERAND_art "o"]);
  ("Iclass_xt_iclass_rsr_scompare1_stateArgs", [mkArg STATE_SCOMPARE1 "i"]);
  ("Iclass_xt_iclass_wsr_scompare1_args", [mkArg OPERAND_art "i"])].

Definition s3_args_20 : list (string * list xtensa_arg_internal) := [
  ("Iclass_xt_iclass_wsr_scompare1_stateArgs", [mkArg STATE_SCOMPARE1 "o"]);
  ("Iclass_xt_iclass_xsr_scompare1_args", [mkArg OPERAND_art "m"]);
  ("Iclass_xt_iclass_xsr_scompare1_stateArgs", [mkArg STATE_SCOMPARE1 "m"]);
  ("Iclass_xt_iclass_rsr_atomctl_args", [mkArg OPERAND_art "o"]);
  ("Iclass_xt_iclass_rsr_atomctl_stateArgs", [mkArg STATE_ATOMCTL "i"]);
  ("Iclass_xt_iclass_wsr_atomctl_args", [mkArg OPERAND_art "i"]);
  ("Iclass_xt_iclass_wsr_atomctl_stateArgs", [mkArg STATE_ATOMCTL "o"; mkArg STATE_XTSYNC "o"]);
  ("Iclass_xt_iclass_xsr_atomctl_args", [mkArg OPERAND_art "m"]);
  ("Iclass_xt_iclass_xsr_atomctl_stateArgs", [mkArg STATE_ATOMCTL "m"; mkArg STATE_XTSYNC "o"]);
  ("Iclass_xt_iclass_div_args", [mkArg OPERAND_arr "o"; mkArg OPERAND_ars "i"; mkArg OPERAND_art "i"]);
  ("Iclass_xt_iclass_rsr_eraccess_args", [mkArg OPERAND_art "o"]);
  ("Iclass_xt_iclass_wsr_eraccess_args", [mkArg OPERAND_art "i"]);
  ("Iclass_xt_iclass_xsr_eraccess_args", [mkArg OPERAND_art "m"]);
  ("Iclass_xt_iclass_rer_args", [mkArg OPERAND_art "o"; mkArg OPERAND_ars "i"]);
  ("Iclass_xt_iclass_rer_stateArgs", [mkArg STATE_ERI_RAW_INTERLOCK "i"]);
  ("Iclass_xt_iclass_wer_args", [mkArg OPERAND_art "i"; mkArg OPERAND_ars "i"]);
  ("Iclass_xt_iclass_wer_stateArgs", [mkArg STATE_ERI_RAW_INTERLOCK "o"]);
  ("Iclass_rur_fcr_args", [mkArg OPERAND_arr "o"]);
  ("Iclass_rur_fcr_stateArgs", [mkArg STATE_RoundMode "i"; mkArg STATE_InvalidEnable "i";
     mkArg STATE_DivZeroEnable "i"; mkArg STATE_OverflowEnable "i"; mkArg STATE_UnderflowEnable "i";
     mkArg STATE_InexactEnable "i"; mkArg STATE_FPreserved20 "i"; mkArg STATE_FPreserved5 "i";
     mkArg STATE_CPENABLE "i"]);
  ("Iclass_wur_fcr_args", [mkArg OPERAND_art "i"]);
  ("Iclass_wur_fcr_stateArgs", [mkArg STATE_RoundMode "o"; mkArg STATE_InvalidEnable "o";
     mkArg STATE_DivZeroEnable "o"; mkArg STATE_OverflowEnable "o"; mkArg STATE_UnderflowEnable "o";
     mkArg STATE_InexactEnable "o"; mkArg STATE_FPreserved20 "o"; mkArg STATE_FPreserved5 "o";
     mkArg STATE_CPENABLE "i"]);
  ("Iclass_rur_fsr_args", [mkArg OPERAND_arr "o"]);
  ("Iclass_rur_fsr_stateArgs", [mkArg STATE_InvalidFlag "i"; mkArg STATE_DivZeroFlag "i";
     mkArg STATE_OverflowFlag "i"; mkArg STATE_UnderflowFlag "i"; mkArg STATE_InexactFlag "i";
     mkArg STATE_FPreserved20a "i"; mkArg STATE_FPreserved7 "i"; mkArg STATE_CPENABLE "i"]);
  ("Iclass_wur_fsr_args", [mkArg OPERAND_art "i"]);
  ("Iclass_wur_fsr_stateArgs", [mkArg STATE_InvalidFlag "o"; mkArg STATE_DivZeroFlag "o";
     mkArg STATE_OverflowFlag "o"; mkArg STATE_UnderflowFlag "o"; mkArg STATE_InexactFlag "o";
     mkArg STATE_FPreserved20a "o"; mkArg STATE_FPreserved7 "o"; mkArg STATE_CPENABLE "i"])].

Definition s3_args_21 : list (string * list xtensa_arg_internal) := [
  ("Iclass_st_QR_args", [mkArg OPERAND_opnd_st_QR_a "i"; mkArg OPERAND_opnd_st_QR_b "i";
     mkArg OPERAND_opnd_imm_QR "i"]);
  ("Iclass_st_QR_stateArgs", [mkArg STATE_CPENABLE "i"]);
  ("Iclass_ld_QR_args", [mkArg OPERAND_opnd_ld_QR_a "o"; mkArg OPERAND_opnd_ld_QR_b "i";
     mkArg OPERAND_opnd_imm_QR "i"]);
  ("Iclass_ld_QR_stateArgs", [mkArg STATE_CPENABLE "i"]);
  ("Iclass_mv_QR_args", [mkArg OPERAND_opnd_mv_QR_a "o"; mkArg OPERAND_opnd_mv_QR_b "i"]);
  ("Iclass_mv_QR_stateArgs", [mkArg STATE_CPENABLE "i"]);
  ("Iclass_EE_WR_MASK_GPIO_OUT_args", [mkArg OPERAND_opnd_EE_WR_MASK_GPIO_OUT_value "i";
     mkArg OPERAND_opnd_EE_WR_MASK_GPIO_OUT_mask "i"]);
  ("Iclass_EE_WR_MASK_GPIO_OUT_stateArgs", [mkArg STATE_GPIO_OUT "m"]);
  ("Iclass_EE_SET_BIT_GPIO_OUT_args", [mkArg OPERAND_opnd_EE_SET_BIT_GPIO_OUT_mask "i"]);
  ("Iclass_EE_SET_BIT_GPIO_OUT_stateArgs", [mkArg STATE_GPIO_OUT "m"]);
  ("Iclass_EE_CLR_BIT_GPIO_OUT_args", [mkArg OPERAND_opnd_EE_CLR_BIT_GPIO_OUT_clear "i"]);
  ("Iclass_EE_CLR_BIT_GPIO_OUT_stateArgs", [mkArg STATE_GPIO_OUT "m"]);
  ("Iclass_EE_GET_GPIO_IN_args", [mkArg OPERAND_opnd_EE_GET_GPIO_IN_au "o"]);
  ("Iclass_EE_VLD_128_IP_args", [mkArg OPERAND_opnd_semantic_LD_ST_qu "o";
     mkArg OPERAND_opnd_semantic_LD_ST_as "m"; mkArg OPERAND_opnd_semantic_LD_ST_imm16 "i"]);
  ("Iclass_EE_VLD_128_IP_stateArgs", [mkArg STATE_CPENABLE "i"]);
  ("Iclass_EE_VLD_128_XP_args", [mkArg OPERAND_opnd_semantic_LD_ST_qu "o";
     mkArg OPERAND_opnd_semantic_LD_ST_as "m"; mkArg OPERAND_opnd_semantic_LD_ST_ad "i"]);
  ("Iclass_EE_VLD_128_XP_stateArgs", [mkArg STATE_CPENABLE "i"]);
  ("Iclass_EE_VLD_H_64_IP_args", [mkArg OPERAND_opnd_semantic_LD_ST_qu "m";
     mkArg OPERAND_opnd_semantic_LD_ST_as "m"; mkArg OPERAND_opnd_semantic_LD_ST_imm8 "i"]);
  ("Iclass_EE_VLD_H_64_IP_stateArgs", [mkArg STATE_CPENABLE "i"]);
  ("Iclass_EE_VLD_H_64_XP_args", [mkArg OPERAND_opnd_semantic_LD_ST_qu "m";
     mkArg OPERAND_opnd_semantic_LD_ST_as "m"; mkArg OPERAND_opnd_semantic_LD_ST_ad "i"]);
  ("Iclass_EE_VLD_H_64_XP_stateArgs", [mkArg STATE_CPENABLE "i"]);
  ("Iclass_EE_VLD_L_64_IP_args", [mkArg OPERAND_opnd_semantic_LD_ST_qu "m";
     mkArg OPERAND_opnd_semantic_LD_ST_as "m"; mkArg OPERAND_opnd_semantic_LD_ST_imm8 "i"]);
  ("Iclass_EE_VLD_L_64_IP_stateArgs", [mkArg STATE_CPENABLE "i"]);
  ("Iclass_EE_VLD_L_64_XP_args", [mkArg OPERAND_opnd_semantic_LD_ST_qu "m";
     mkArg OPERAND_opnd_semantic_LD_ST_as "m"; mkArg OPERAND_opnd_semantic_LD_ST_ad "i"]);
  ("Iclass_EE_VLD_L_64_XP_stateArgs", [mkArg STATE_CPENABLE "i"]);
  ("Iclass_EE_VLDBC_16_IP_args", [mkArg OPERAND_opnd_semantic_LD_ST_qu "o";
     mkArg OPERAND_opnd_semantic_LD_ST_as "m"; mkArg OPERAND_opnd_semantic_LD_ST_imm2 "i"]);
  ("Iclass_EE_VLDBC_16_IP_stateArgs", [mkArg STATE_CPENABLE "i"]);
  ("Iclass_EE_VLDBC_16_args", [mkArg OPERAND_opnd_semantic_LD_ST_qu "o";
     mkArg OPERAND_opnd_semantic_LD_ST_as "i"]);
  ("Iclass_EE_VLDBC_16_stateArgs", [mkArg STATE_CPENABLE "i"]);
  ("Iclass_EE_VLDBC_16_XP_args", [mkArg OPERAND_opnd_semantic_LD_ST_qu "o";
     mkArg OPERAND_opnd_semantic_LD_ST_as "m"; mkArg OPERAND_opnd_semantic_LD_ST_ad "i"]);
  ("Iclass_EE_VLDBC_16_XP_stateArgs", [mkArg STATE_CPENABLE "i"])].

Definition s3_args_22 : list (string * list xtensa_arg_internal) := [
  ("Iclass_EE_VLDBC_32_IP_args", [mkArg OPERAND_opnd_semantic_LD_ST_qu "o";
     mkArg OPERAND_opnd_semantic_LD_ST_as "m"; mkArg OPERAND_opnd_semantic_LD_ST_imm4 "i"]);
  ("Iclass_EE_VLDBC_32_IP_stateArgs", [mkArg STATE_CPENABLE "i"]);
  ("Iclass_EE_VLDBC_32_args", [mkArg OPERAND_opnd_semantic_LD_ST_qu "o";
     mkArg OPERAND_opnd_semantic_LD_ST_as "i"]);
  ("Iclass_EE_VLDBC_32_stateArgs", [mkArg STATE_CPENABLE "i"]);
  ("Iclass_EE_VLDBC_32_XP_args", [mkArg OPERAND_opnd_semantic_LD_ST_qu "o";
     mkArg OPERAND_opnd_semantic_LD_ST_as "m"; mkArg OPERAND_opnd_semantic_LD_ST_ad "i"]);
  ("Iclass_EE_VLDBC_32_XP_stateArgs", [mkArg STATE_CPENABLE "i"]);
  ("Iclass_EE_VLDBC_8_IP_args", [mkArg OPERAND_opnd_semantic_LD_ST_qu "o";
     mkArg OPERAND_opnd_semantic_LD_ST_as "m"; mkArg OPERAND_opnd_semantic_LD_ST_imm1 "i"]);
  ("Iclass_EE_VLDBC_8_IP_stateArgs", [mkArg STATE_CPENABLE "i"]);
  ("Iclass_EE_VLDBC_8_args", [mkArg OPERAND_opnd_semantic_LD_ST_qu "o";
     mkArg OPERAND_opnd_semantic_LD_ST_as "i"]);
  ("Iclass_EE_VLDBC_8_stateArgs", [mkArg STATE_CPENABLE "i"]);
  ("Iclass_EE_VLDBC_8_XP_args", [mkArg OPERAND_opnd_semantic_LD_ST_qu "o";
     mkArg OPERAND_opnd_semantic_LD_ST_as "m"; mkArg OPERAND_opnd_semantic_LD_ST_ad "i"]);
  ("Iclass_EE_VLDBC_8_XP_stateArgs", [mkArg STATE_CPENABLE "i"]);
  ("Iclass_EE_VLDHBC_16_INCP_args", [mkArg OPERAND_opnd_semantic_LD_ST_qu "o";
     mkArg OPERAND_opnd_semantic_LD_ST_qu1 "o"; mkArg OPERAND_opnd_semantic_LD_ST_as "m"]);
  ("Iclass_EE_VLDHBC_16_INCP_stateArgs", [mkArg STATE_CPENABLE "i"]);
  ("Iclass_EE_LDF_128_IP_args", [mkArg OPERAND_opnd_semantic_LD_ST_fu3 "o";
     mkArg OPERAND_opnd_semantic_LD_ST_fu2 "o"; mkArg OPERAND_opnd_semantic_LD_ST_fu1 "o";
     mkArg OPERAND_opnd_semantic_LD_ST_fu0 "o"; mkArg OPERAND_opnd_semantic_LD_ST_as "m";
     mkArg OPERAND_opnd_semantic_LD_ST_imm16f "i"]);
  ("Iclass_EE_LDF_128_IP_stateArgs", [mkArg STATE_CPENABLE "i"]);
  ("Iclass_EE_LDF_128_XP_args", [mkArg OPERAND_opnd_semantic_LD_ST_fu3 "o";
     mkArg OPERAND_opnd_semantic_LD_ST_fu2 "o"; mkArg OPERAND_opnd_semantic_LD_ST_fu1 "o";
     mkArg OPERAND_opnd_semantic_LD_ST_fu0 "o"; mkArg OPERAND_opnd_semantic_LD_ST_as "m";
     mkArg OPERAND_opnd_semantic_LD_ST_ad "i"]);
  ("Iclass_EE_LDF_128_XP_stateArgs", [mkArg STATE_CPENABLE "i"]);
  ("Iclass_EE_LDF_64_IP_args", [mkArg OPERAND_opnd_semantic_LD_ST_fu1 "o";
     mkArg OPERAND_opnd_semantic_LD_ST_fu0 "o"; mkArg OPERAND_opnd_semantic_LD_ST_as "m";
     mkArg OPERAND_opnd_semantic_LD_ST_imm8 "i"]);
  ("Iclass_EE_LDF_64_IP_stateArgs", [mkArg STATE_CPENABLE "i"]);
  ("Iclass_EE_LDF_64_XP_args", [mkArg OPERAND_opnd_semantic_LD_ST_fu1 "o";
     mkArg OPERAND_opnd_semantic_LD_ST_fu0 "o"; mkArg OPERAND_opnd_semantic_LD_ST_as "m";
     mkArg OPERAND_opnd_semantic_LD_ST_ad "i"]);
  ("Iclass_EE_LDF_64_XP_stateArgs", [mkArg STATE_CPENABLE "i"]);
  ("Iclass_EE_LD_128_USAR_IP_args", [mkArg OPERAND_opnd_semantic_LD_ST_qu "o";
     mkArg OPERAND_opnd_semantic_LD_ST_as "m"; mkArg OPERAND_opnd_semantic_LD_ST_imm16 "i"]);
  ("Iclass_EE_LD_128_USAR_IP_stateArgs", [mkArg STATE_SAR_BYTE "o"; mkArg STATE_CPENABLE "i"]);
  ("Iclass_EE_LD_128_USAR_XP_args", [mkArg OPERAND_opnd_semantic_LD_ST_qu "o";
     mkArg OPERAND_opnd_semantic_LD_ST_as "m"; mkArg OPERAND_opnd_semantic_LD_ST_ad "i"]);
  ("Iclass_EE_LD_128_USAR_XP_stateArgs", [mkArg STATE_SAR_BYTE "o"; mkArg STATE_CPENABLE "i"]);
  ("Iclass_EE_LDQA_S16_128_IP_args", [mkArg OPERAND_opnd_semantic_LD_ST_as "m";
     mkArg OPERAND_opnd_semantic_LD_ST_imm16 "i"]);
  ("Iclass_EE_LDQA_S16_128_IP_stateArgs", [mkArg STATE_QACC_L "o"; mkArg STATE_QACC_H "o";
     mkArg STATE_CPENABLE "i"])].

Definition s3_args_23 : list (string * list xtensa_arg_internal) := [
  ("Iclass_EE_LDQA_S16_128_XP_args", [mkArg OPERAND_opnd_semantic_LD_ST_as "m";
     mkArg OPERAND_opnd_semantic_LD_ST_ad "i"]);
  ("Iclass_EE_LDQA_S16_128_XP_stateArgs", [mkArg STATE_QACC_L "o"; mkArg STATE_QACC_H "o";
     mkArg STATE_CPENABLE "i"]);
  ("Iclass_EE_LDQA_S8_128_IP_args", [mkArg OPERAND_opnd_semantic_LD_ST_as "m";
     mkArg OPERAND_opnd_semantic_LD_ST_imm16 "i"]);
  ("Iclass_EE_LDQA_S8_128_IP_stateArgs", [mkArg STATE_QACC_L "o"; mkArg STATE_QACC_H "o";
     mkArg STATE_CPENABLE "i"]);
  ("Iclass_EE_LDQA_S8_128_XP_args", [mkArg OPERAND_opnd_semantic_LD_ST_as "m";
     mkArg OPERAND_opnd_semantic_LD_ST_ad "i"]);
  ("Iclass_EE_LDQA_S8_128_XP_stateArgs", [mkArg STATE_QACC_L "o"; mkArg STATE_QACC_H "o";
     mkArg STATE_CPENABLE "i"]);
  ("Iclass_EE_LDQA_U16_128_IP_args", [mkArg OPERAND_opnd_semantic_LD_ST_as "m";
     mkArg OPERAND_opnd_semantic_LD_ST_imm16 "i"]);
  ("Iclass_EE_LDQA_U16_128_IP_stateArgs", [mkArg STATE_QACC_L "o"; mkArg STATE_QACC_H "o";
     mkArg STATE_CPENABLE "i"]);
  ("Iclass_EE_LDQA_U16_128_XP_args", [mkArg OPERAND_opnd_semantic_LD_ST_as "m";
     mkArg OPERAND_opnd_semantic_LD_ST_ad "i"]);
  ("Iclass_EE_LDQA_U16_128_XP_stateArgs", [mkArg STATE_QACC_L "o"; mkArg STATE_QACC_H "o";
     mkArg STATE_CPENABLE "i"]);
  ("Iclass_EE_LDQA_U8_128_IP_args", [mkArg OPERAND_opnd_semantic_LD_ST_as "m";
     mkArg OPERAND_opnd_semantic_LD_ST_imm16 "i"]);
  ("Iclass_EE_LDQA_U8_128_IP_stateArgs", [mkArg STATE_QACC_L "o"; mkArg STATE_QACC_H "o";
     mkArg STATE_CPENABLE "i"]);
  ("Iclass_EE_LDQA_U8_128_XP_args", [mkArg OPERAND_opnd_semantic_LD_ST_as "m";
     mkArg OPERAND_opnd_semantic_LD_ST_ad "i"]);
  ("Iclass_EE_LDQA_U8_128_XP_stateArgs", [mkArg STATE_QACC_L "o"; mkArg STATE_QACC_H "o";
     mkArg STATE_CPENABLE "i"]);
  ("Iclass_EE_LD_QACC_H_H_32_IP_args", [mkArg OPERAND_opnd_semantic_LD_ST_as "m";
     mkArg OPERAND_opnd_semantic_LD_ST_imm4 "i"]);
  ("Iclass_EE_LD_QACC_H_H_32_IP_stateArgs", [mkArg STATE_QACC_H "m"; mkArg STATE_CPENABLE "i"]);
  ("Iclass_EE_LD_QACC_H_L_128_IP_args", [mkArg OPERAND_opnd_semantic_LD_ST_as "m";
     mkArg OPERAND_opnd_semantic_LD_ST_imm16 "i"]);
  ("Iclass_EE_LD_QACC_H_L_128_IP_stateArgs", [mkArg STATE_QACC_H "m"; mkArg STATE_CPENABLE "i"]);
  ("Iclass_EE_LD_QACC_L_H_32_IP_args", [mkArg OPERAND_opnd_semantic_LD_ST_as "m";
     mkArg OPERAND_opnd_semantic_LD_ST_imm4 "i"]);
  ("Iclass_EE_LD_QACC_L_H_32_IP_stateArgs", [mkArg STATE_QACC_L "m"; mkArg STATE_CPENABLE "i"]);
  ("Iclass_EE_LD_QACC_L_L_128_IP_args", [mkArg OPERAND_opnd_semantic_LD_ST_as "m";
     mkArg OPERAND_opnd_semantic_LD_ST_imm16 "i"]);
  ("Iclass_EE_LD_QACC_L_L_128_IP_stateArgs", [mkArg STATE_QACC_L "m"; mkArg STATE_CPENABLE "i"]);
  ("Iclass_EE_LD_ACCX_IP_args", [mkArg OPERAND_opnd_semantic_LD_ST_as "m";
     mkArg OPERAND_opnd_semantic_LD_ST_imm8 "i"]);
  ("Iclass_EE_LD_ACCX_IP_stateArgs", [mkArg STATE_ACCX "o"; mkArg STATE_CPENABLE "i"]);
  ("Iclass_EE_LDXQ_32_args", [mkArg OPERAND_opnd_semantic_LD_ST_qu "m";
     mkArg OPERAND_opnd_semantic_LD_ST_qs "i"; mkArg OPERAND_opnd_semantic_LD_ST_as "i";
     mkArg OPERAND_opnd_semantic_LD_ST_sel4 "i"; mkArg OPERAND_opnd_semantic_LD_ST_sel8 "i"]);
  ("Iclass_EE_LDXQ_32_stateArgs", [mkArg STATE_CPENABLE "i"]);
  ("Iclass_EE_LD_UA_STATE_IP_args", [mkArg OPERAND_opnd_semantic_LD_ST_as "m";
     mkArg OPERAND_opnd_semantic_LD_ST_imm16 "i"]);
  ("Iclass_EE_LD_UA_STATE_IP_stateArgs", [mkArg STATE_UA_STATE "o"; mkArg STATE_CPENABLE "i"])].

Definition s3_args_24 : list (string * list xtensa_arg_internal) := [
  ("Iclass_EE_ST_UA_STATE_IP_args", [mkArg OPERAND_opnd_semantic_LD_ST_as "m";
     mkArg OPERAND_opnd_semantic_LD_ST_imm16 "i"]);
  ("Iclass_EE_ST_UA_STATE_IP_stateArgs", [mkArg STATE_UA_STATE "i"; mkArg STATE_CPENABLE "i"]);
  ("Iclass_EE_VST_128_IP_args", [mkArg OPERAND_opnd_semantic_LD_ST_qv "i";
     mkArg OPERAND_opnd_semantic_LD_ST_as "m"; mkArg OPERAND_opnd_semantic_LD_ST_imm16 "i"]);
  ("Iclass_EE_VST_128_IP_stateArgs", [mkArg STATE_CPENABLE "i"]);
  ("Iclass_EE_VST_128_XP_args", [mkArg OPERAND_opnd_semantic_LD_ST_qv "i";
     mkArg OPERAND_opnd_semantic_LD_ST_as "m"; mkArg OPERAND_opnd_semantic_LD_ST_ad "i"]);
  ("Iclass_EE_VST_128_XP_stateArgs", [mkArg STATE_CPENABLE "i"]);
  ("Iclass_EE_VST_H_64_IP_args", [mkArg OPERAND_opnd_semantic_LD_ST_qv "i";
     mkArg OPERAND_opnd_semantic_LD_ST_as "m"; mkArg OPERAND_opnd_semantic_LD_ST_imm8 "i"]);
  ("Iclass_EE_VST_H_64_IP_stateArgs", [mkArg STATE_CPENABLE "i"]);
  ("Iclass_EE_VST_H_64_XP_args", [mkArg OPERAND_opnd_semantic_LD_ST_qv "i";
     mkArg OPERAND_opnd_semantic_LD_ST_as "m"; mkArg OPERAND_opnd_semantic_LD_ST_ad "i"]);
  ("Iclass_EE_VST_H_64_XP_stateArgs", [mkArg STATE_CPENABLE "i"]);
  ("Iclass_EE_VST_L_64_IP_args", [mkArg OPERAND_opnd_semantic_LD_ST_qv "i";
     mkArg OPERAND_opnd_semantic_LD_ST_as "m"; mkArg OPERAND_opnd_semantic_LD_ST_imm8 "i"]);
  ("Iclass_EE_VST_L_64_IP_stateArgs", [mkArg STATE_CPENABLE "i"]);
  ("Iclass_EE_VST_L_64_XP_args", [mkArg OPERAND_opnd_semantic_LD_ST_qv "i";
     mkArg OPERAND_opnd_semantic_LD_ST_as "m"; mkArg OPERAND_opnd_semantic_LD_ST_ad "i"]);
  ("Iclass_EE_VST_L_64_XP_stateArgs", [mkArg STATE_CPENABLE "i"]);
  ("Iclass_EE_STF_128_IP_args", [mkArg OPERAND_opnd_semantic_LD_ST_fv3 "i";
     mkArg OPERAND_opnd_semantic_LD_ST_fv2 "i"; mkArg OPERAND_opnd_semantic_LD_ST_fv1 "i";
     mkArg OPERAND_opnd_semantic_LD_ST_fv0 "i"; mkArg OPERAND_opnd_semantic_LD_ST_as "m";
     mkArg OPERAND_opnd_semantic_LD_ST_imm16f "i"]);
  ("Iclass_EE_STF_128_IP_stateArgs", [mkArg STATE_CPENABLE "i"]);
  ("Iclass_EE_STF_128_XP_args", [mkArg OPERAND_opnd_semantic_LD_ST_fv3 "i";
     mkArg OPERAND_opnd_semantic_LD_ST_fv2 "i"; mkArg OPERAND_opnd_semantic_LD_ST_fv1 "i";
     mkArg OPERAND_opnd_semantic_LD_ST_fv0 "i"; mkArg OPERAND_opnd_semantic_LD_ST_as "m";
     mkArg OPERAND_opnd_semantic_LD_ST_ad "i"]);
  ("Iclass_EE_STF_128_XP_stateArgs", [mkArg STATE_CPENABLE "i"]);
  ("Iclass_EE_STF_64_IP_args", [mkArg OPERAND_opnd_semantic_LD_ST_fv1 "i";
     mkArg OPERAND_opnd_semantic_LD_ST_fv0 "i"; mkArg OPERAND_opnd_semantic_LD_ST_as "m";
     mkArg OPERAND_opnd_semantic_LD_ST_imm8 "i"]);
  ("Iclass_EE_STF_64_IP_stateArgs", [mkArg STATE_CPENABLE "i"]);
  ("Iclass_EE_STF_64_XP_args", [mkArg OPERAND_opnd_semantic_LD_ST_fv1 "i";
     mkArg OPERAND_opnd_semantic_LD_ST_fv0 "i"; mkArg OPERAND_opnd_semantic_LD_ST_as "m";
     mkArg OPERAND_opnd_semantic_LD_ST_ad "i"]);
  ("Iclass_EE_STF_64_XP_stateArgs", [mkArg STATE_CPENABLE "i"]);
  ("Iclass_EE_ST_QACC_H_H_32_IP_args", [mkArg OPERAND_opnd_semantic_LD_ST_as "m";
     mkArg OPERAND_opnd_semantic_LD_ST_imm4 "i"]);
  ("Iclass_EE_ST_QACC_H_H_32_IP_stateArgs", [mkArg STATE_QACC_H "i"; mkArg STATE_CPENABLE "i"]);
  ("Iclass_EE_ST_QACC_H_L_128_IP_args", [mkArg OPERAND_opnd_semantic_LD_ST_as "m";
     mkArg OPERAND_opnd_semantic_LD_ST_imm16 "i"]);
  ("Iclass_EE_ST_QACC_H_L_128_IP_stateArgs", [mkArg STATE_QACC_H "i"; mkArg STATE_CPENABLE "i"]);
  ("Iclass_EE_ST_QACC_L_H_32_IP_args", [mkArg OPERAND_opnd_semantic_LD_ST_as "m";
     mkArg OPERAND_opnd_semantic_LD_ST_imm4 "i"]);
  ("Iclass_EE_ST_QACC_L_H_32_IP_stateArgs", [mkArg STATE_QACC_L "i"; mkArg STATE_CPENABLE "i"])].

Definition s3_args_25 : list (string * list xtensa_arg_internal) := [
  ("Iclass_EE_ST_QACC_L_L_128_IP_args", [mkArg OPERAND_opnd_semantic_LD_ST_as "m";
     mkArg OPERAND_opnd_semantic_LD_ST_imm16 "i"]);
  ("Iclass_EE_ST_QACC_L_L_128_IP_stateArgs", [mkArg STATE_QACC_L "i"; mkArg STATE_CPENABLE "i"]);
  ("Iclass_EE_ST_ACCX_IP_args", [mkArg OPERAND_opnd_semantic_LD_ST_as "m";
     mkArg OPERAND_opnd_semantic_LD_ST_imm8 "i"]);
  ("Iclass_EE_ST_ACCX_IP_stateArgs", [mkArg STATE_ACCX "i"; mkArg STATE_CPENABLE "i"]);
  ("Iclass_EE_STXQ_32_args", [mkArg OPERAND_opnd_semantic_LD_ST_qv "i";
     mkArg OPERAND_opnd_semantic_LD_ST_qs "i"; mkArg OPERAND_opnd_semantic_LD_ST_as "i";
     mkArg OPERAND_opnd_semantic_LD_ST_sel4 "i"; mkArg OPERAND_opnd_semantic_LD_ST_sel8 "i"]);
  ("Iclass_EE_STXQ_32_stateArgs", [mkArg STATE_CPENABLE "i"]);
  ("Iclass_EE_MOVI_32_A_args", [mkArg OPERAND_opnd_EE_MOVI_32_A_qs "i";
     mkArg OPERAND_opnd_EE_MOVI_32_A_au "o"; mkArg OPERAND_opnd_EE_MOVI_32_A_sel4 "i"]);
  ("Iclass_EE_MOVI_32_A_stateArgs", [mkArg STATE_CPENABLE "i"]);
  ("Iclass_EE_MOVI_32_Q_args", [mkArg OPERAND_opnd_EE_MOVI_32_Q_qu "m";
     mkArg OPERAND_opnd_EE_MOVI_32_Q_as "i"; mkArg OPERAND_opnd_EE_MOVI_32_Q_sel4 "i"]);
  ("Iclass_EE_MOVI_32_Q_stateArgs", [mkArg STATE_CPENABLE "i"]);
  ("Iclass_EE_VZIP_16_args", [mkArg OPERAND_opnd_EE_VZIP_16_qs0 "m"; mkArg OPERAND_opnd_EE_VZIP_16_qs1 "m"]);
  ("Iclass_EE_VZIP_16_stateArgs", [mkArg STATE_CPENABLE "i"]);
  ("Iclass_EE_VZIP_32_args", [mkArg OPERAND_opnd_EE_VZIP_32_qs0 "m"; mkArg OPERAND_opnd_EE_VZIP_32_qs1 "m"]);
  ("Iclass_EE_VZIP_32_stateArgs", [mkArg STATE_CPENABLE "i"]);
  ("Iclass_EE_VZIP_8_args", [mkArg OPERAND_opnd_EE_VZIP_8_qs0 "m"; mkArg OPERAND_opnd_EE_VZIP_8_qs1 "m"]);
  ("Iclass_EE_VZIP_8_stateArgs", [mkArg STATE_CPENABLE "i"]);
  ("Iclass_EE_VUNZIP_16_args", [mkArg OPERAND_opnd_EE_VUNZIP_16_qs0 "m";
     mkArg OPERAND_opnd_EE_VUNZIP_16_qs1 "m"]);
  ("Iclass_EE_VUNZIP_16_stateArgs", [mkArg STATE_CPENABLE "i"]);
  ("Iclass_EE_VUNZIP_32_args", [mkArg OPERAND_opnd_EE_VUNZIP_32_qs0 "m";
     mkArg OPERAND_opnd_EE_VUNZIP_32_qs1 "m"]);
  ("Iclass_EE_VUNZIP_32_stateArgs", [mkArg STATE_CPENABLE "i"]);
  ("Iclass_EE_VUNZIP_8_args", [mkArg OPERAND_opnd_EE_VUNZIP_8_qs0 "m";
     mkArg OPERAND_opnd_EE_VUNZIP_8_qs1 "m"]);
  ("Iclass_EE_VUNZIP_8_stateArgs", [mkArg STATE_CPENABLE "i"]);
  ("Iclass_EE_ZERO_ACCX_stateArgs", [mkArg STATE_ACCX "o"; mkArg STATE_CPENABLE "i"]);
  ("Iclass_EE_ZERO_QACC_stateArgs", [mkArg STATE_QACC_L "o"; mkArg STATE_QACC_H "o";
     mkArg STATE_CPENABLE "i"]);
  ("Iclass_EE_ZERO_Q_args", [mkArg OPERAND_opnd_EE_ZERO_Q_qa "o"]);
  ("Iclass_EE_ZERO_Q_stateArgs", [mkArg STATE_CPENABLE "i"]);
  ("Iclass_EE_MOV_S16_QACC_args", [mkArg OPERAND_opnd_EE_MOV_S16_QACC_qs "i"]);
  ("Iclass_EE_MOV_S16_QACC_stateArgs", [mkArg STATE_QACC_L "o"; mkArg STATE_QACC_H "o";
     mkArg STATE_CPENABLE "i"]);
  ("Iclass_EE_MOV_S8_QACC_args", [mkArg OPERAND_opnd_EE_MOV_S8_QACC_qs "i"]);
  ("Iclass_EE_MOV_S8_QACC_stateArgs", [mkArg STATE_QACC_L "o"; mkArg STATE_QACC_H "o";
     mkArg STATE_CPENABLE "i"]);
  ("Iclass_EE_MOV_U16_QACC_args", [mkArg OPERAND_opnd_EE_MOV_U16_QACC_qs "i"])].

Definition s3_args_26 : list (string * list xtensa_arg_internal) := [
  ("Iclass_EE_MOV_U16_QACC_stateArgs", [mkArg STATE_QACC_L "o"; mkArg STATE_QACC_H "o";
     mkArg STATE_CPENABLE "i"]);
  ("Iclass_EE_MOV_U8_QACC_args", [mkArg OPERAND_opnd_EE_MOV_U8_QACC_qs "i"]);
  ("Iclass_EE_MOV_U8_QACC_stateArgs", [mkArg STATE_QACC_L "o"; mkArg STATE_QACC_H "o";
     mkArg STATE_CPENABLE "i"]);
  ("Iclass_EE_VADDS_S16_LD_INCP_args", [mkArg OPERAND_opnd_semantic_CAL_DOUBLE_Q_qu "o";
     mkArg OPERAND_opnd_semantic_CAL_DOUBLE_Q_as "m"; mkArg OPERAND_opnd_semantic_CAL_DOUBLE_Q_qa "o";
     mkArg OPERAND_opnd_semantic_CAL_DOUBLE_Q_qx "i"; mkArg OPERAND_opnd_semantic_CAL_DOUBLE_Q_qy "i"]);
  ("Iclass_EE_VADDS_S16_LD_INCP_stateArgs", [mkArg STATE_CPENABLE "i"]);
  ("Iclass_EE_VADDS_S16_ST_INCP_args", [mkArg OPERAND_opnd_semantic_CAL_DOUBLE_Q_qv "i";
     mkArg OPERAND_opnd_semantic_CAL_DOUBLE_Q_as "m"; mkArg OPERAND_opnd_semantic_CAL_DOUBLE_Q_qa "o";
     mkArg OPERAND_opnd_semantic_CAL_DOUBLE_Q_qx "i"; mkArg OPERAND_opnd_semantic_CAL_DOUBLE_Q_qy "i"]);
  ("Iclass_EE_VADDS_S16_ST_INCP_stateArgs", [mkArg STATE_CPENABLE "i"]);
  ("Iclass_EE_VADDS_S16_args", [mkArg OPERAND_opnd_semantic_CAL_DOUBLE_Q_qa "o";
     mkArg OPERAND_opnd_semantic_CAL_DOUBLE_Q_qx "i"; mkArg OPERAND_opnd_semantic_CAL_DOUBLE_Q_qy "i"]);
  ("Iclass_EE_VADDS_S16_stateArgs", [mkArg STATE_CPENABLE "i"]);
  ("Iclass_EE_VADDS_S32_LD_INCP_args", [mkArg OPERAND_opnd_semantic_CAL_DOUBLE_Q_qu "o";
     mkArg OPERAND_opnd_semantic_CAL_DOUBLE_Q_as "m"; mkArg OPERAND_opnd_semantic_CAL_DOUBLE_Q_qa "o";
     mkArg OPERAND_opnd_semantic_CAL_DOUBLE_Q_qx "i"; mkArg OPERAND_opnd_semantic_CAL_DOUBLE_Q_qy "i"]);
  ("Iclass_EE_VADDS_S32_LD_INCP_stateArgs", [mkArg STATE_CPENABLE "i"]);
  ("Iclass_EE_VADDS_S32_ST_INCP_args", [mkArg OPERAND_opnd_semantic_CAL_DOUBLE_Q_qv "i";
     mkArg OPERAND_opnd_semantic_CAL_DOUBLE_Q_as "m"; mkArg OPERAND_opnd_semantic_CAL_DOUBLE_Q_qa "o";
     mkArg OPERAND_opnd_semantic_CAL_DOUBLE_Q_qx "i"; mkArg OPERAND_opnd_semantic_CAL_DOUBLE_Q_qy "i"]);
  ("Iclass_EE_VADDS_S32_ST_INCP_stateArgs", [mkArg STATE_CPENABLE "i"]);
  ("Iclass_EE_VADDS_S32_args", [mkArg OPERAND_opnd_semantic_CAL_DOUBLE_Q_qa "o";
     mkArg OPERAND_opnd_semantic_CAL_DOUBLE_Q_qx "i"; mkArg OPERAND_opnd_semantic_CAL_DOUBLE_Q_qy "i"]);
  ("Iclass_EE_VADDS_S32_stateArgs", [mkArg STATE_CPENABLE "i"]);
  ("Iclass_EE_VADDS_S8_LD_INCP_args", [mkArg OPERAND_opnd_semantic_CAL_DOUBLE_Q_qu "o";
     mkArg OPERAND_opnd_semantic_CAL_DOUBLE_Q_as "m"; mkArg OPERAND_opnd_semantic_CAL_DOUBLE_Q_qa "o";
     mkArg OPERAND_opnd_semantic_CAL_DOUBLE_Q_qx "i"; mkArg OPERAND_opnd_semantic_CAL_DOUBLE_Q_qy "i"]);
  ("Iclass_EE_VADDS_S8_LD_INCP_stateArgs", [mkArg STATE_CPENABLE "i"]);
  ("Iclass_EE_VADDS_S8_ST_INCP_args", [mkArg OPERAND_opnd_semantic_CAL_DOUBLE_Q_qv "i";
     mkArg OPERAND_opnd_semantic_CAL_DOUBLE_Q_as "m"; mkArg OPERAND_opnd_semantic_CAL_DOUBLE_Q_qa "o";
     mkArg OPERAND_opnd_semantic_CAL_DOUBLE_Q_qx "i"; mkArg OPERAND_opnd_semantic_CAL_DOUBLE_Q_qy "i"]);
  ("Iclass_EE_VADDS_S8_ST_INCP_stateArgs", [mkArg STATE_CPENABLE "i"]);
  ("Iclass_EE_VADDS_S8_args", [mkArg OPERAND_opnd_semantic_CAL_DOUBLE_Q_qa "o";
     mkArg OPERAND_opnd_semantic_CAL_DOUBLE_Q_qx "i"; mkArg OPERAND_opnd_semantic_CAL_DOUBLE_Q_qy "i"]);
  ("Iclass_EE_VADDS_S8_stateArgs", [mkArg STATE_CPENABLE "i"]);
  ("Iclass_EE_VSUBS_S16_LD_INCP_args", [mkArg OPERAND_opnd_semantic_CAL_DOUBLE_Q_qu "o";
     mkArg OPERAND_opnd_semantic_CAL_DOUBLE_Q_as "m"; mkArg OPERAND_opnd_semantic_CAL_DOUBLE_Q_qa "o";
     mkArg OPERAND_opnd_semantic_CAL_DOUBLE_Q_qx "i"; mkArg OPERAND_opnd_semantic_CAL_DOUBLE_Q_qy "i"]);
  ("Iclass_EE_VSUBS_S16_LD_INCP_stateArgs", [mkArg STATE_CPENABLE "i"]);
  ("Iclass_EE_VSUBS_S16_ST_INCP_args", [mkArg OPERAND_opnd_semantic_CAL_DOUBLE_Q_qv "i";
     mkArg OPERAND_opnd_semantic_CAL_DOUBLE_Q_as "m"; mkArg OPERAND_opnd_semantic_CAL_DOUBLE_Q_qa "o";
     mkArg OPERAND_opnd_semantic_CAL_DOUBLE_Q_qx "i"; mkArg OPERAND_opnd_semantic_CAL_DOUBLE_Q_qy "i"]);
  ("Iclass_EE_VSUBS_S16_ST_INCP_stateArgs", [mkArg STATE_CPENABLE "i"]);
  ("Iclass_EE_VSUBS_S16_args", [mkArg OPERAND_opnd_semantic_CAL_DOUBLE_Q_qa "o";
     mkArg OPERAND_opnd_semantic_CAL_DOUBLE_Q_qx "i"; mkArg OPERAND_opnd_semantic_CAL_DOUBLE_Q_qy "i"])].

Definition s3_args_27 : list (string * list xtensa_arg_internal) := [
  ("Iclass_EE_VSUBS_S16_stateArgs", [mkArg STATE_CPENABLE "i"]);
  ("Iclass_EE_VSUBS_S32_LD_INCP_args", [mkArg OPERAND_opnd_semantic_CAL_DOUBLE_Q_qu "o";
     mkArg OPERAND_opnd_semantic_CAL_DOUBLE_Q_as "m"; mkArg OPERAND_opnd_semantic_CAL_DOUBLE_Q_qa "o";
     mkArg OPERAND_opnd_semantic_CAL_DOUBLE_Q_qx "i"; mkArg OPERAND_opnd_semantic_CAL_DOUBLE_Q_qy "i"]);
  ("Iclass_EE_VSUBS_S32_LD_INCP_stateArgs", [mkArg STATE_CPENABLE "i"]);
  ("Iclass_EE_VSUBS_S32_ST_INCP_args", [mkArg OPERAND_opnd_semantic_CAL_DOUBLE_Q_qv "i";
     mkArg OPERAND_opnd_semantic_CAL_DOUBLE_Q_as "m"; mkArg OPERAND_opnd_semantic_CAL_DOUBLE_Q_qa "o";
     mkArg OPERAND_opnd_semantic_CAL_DOUBLE_Q_qx "i"; mkArg OPERAND_opnd_semantic_CAL_DOUBLE_Q_qy "i"]);
  ("Iclass_EE_VSUBS_S32_ST_INCP_stateArgs", [mkArg STATE_CPENABLE "i"]);
  ("Iclass_EE_VSUBS_S32_args", [mkArg OPERAND_opnd_semantic_CAL_DOUBLE_Q_qa "o";
     mkArg OPERAND_opnd_semantic_CAL_DOUBLE_Q_qx "i"; mkArg OPERAND_opnd_semantic_CAL_DOUBLE_Q_qy "i"]);
  ("Iclass_EE_VSUBS_S32_stateArgs", [mkArg STATE_CPENABLE "i"]);
  ("Iclass_EE_VSUBS_S8_LD_INCP_args", [mkArg OPERAND_opnd_semantic_CAL_DOUBLE_Q_qu "o";
     mkArg OPERAND_opnd_semantic_CAL_DOUBLE_Q_as "m"; mkArg OPERAND_opnd_semantic_CAL_DOUBLE_Q_qa "o";
     mkArg OPERAND_opnd_semantic_CAL_DOUBLE_Q_qx "i"; mkArg OPERAND_opnd_semantic_CAL_DOUBLE_Q_qy "i"]);
  ("Iclass_EE_VSUBS_S8_LD_INCP_stateArgs", [mkArg STATE_CPENABLE "i"]);
  ("Iclass_EE_VSUBS_S8_ST_INCP_args", [mkArg OPERAND_opnd_semantic_CAL_DOUBLE_Q_qv "i";
     mkArg OPERAND_opnd_semantic_CAL_DOUBLE_Q_as "m"; mkArg OPERAND_opnd_semantic_CAL_DOUBLE_Q_qa "o";
     mkArg OPERAND_opnd_semantic_CAL_DOUBLE_Q_qx "i"; mkArg OPERAND_opnd_semantic_CAL_DOUBLE_Q_qy "i"]);
  ("Iclass_EE_VSUBS_S8_ST_INCP_stateArgs", [mkArg STATE_CPENABLE "i"]);
  ("Iclass_EE_VSUBS_S8_args", [mkArg OPERAND_opnd_semantic_CAL_DOUBLE_Q_qa "o";
     mkArg OPERAND_opnd_semantic_CAL_DOUBLE_Q_qx "i"; mkArg OPERAND_opnd_semantic_CAL_DOUBLE_Q_qy "i"]);
  ("Iclass_EE_VSUBS_S8_stateArgs", [mkArg STATE_CPENABLE "i"]);
  ("Iclass_EE_VMUL_S16_LD_INCP_args", [mkArg OPERAND_opnd_semantic_CAL_DOUBLE_Q_qu "o";
     mkArg OPERAND_opnd_semantic_CAL_DOUBLE_Q_as "m"; mkArg OPERAND_opnd_semantic_CAL_DOUBLE_Q_qz "o";
     mkArg OPERAND_opnd_semantic_CAL_DOUBLE_Q_qx "i"; mkArg OPERAND_opnd_semantic_CAL_DOUBLE_Q_qy "i"]);
  ("Iclass_EE_VMUL_S16_LD_INCP_stateArgs", [mkArg STATE_SAR "i"; mkArg STATE_CPENABLE "i"]);
  ("Iclass_EE_VMUL_S16_ST_INCP_args", [mkArg OPERAND_opnd_semantic_CAL_DOUBLE_Q_qv "i";
     mkArg OPERAND_opnd_semantic_CAL_DOUBLE_Q_as "m"; mkArg OPERAND_opnd_semantic_CAL_DOUBLE_Q_qz "o";
     mkArg OPERAND_opnd_semantic_CAL_DOUBLE_Q_qx "i"; mkArg OPERAND_opnd_semantic_CAL_DOUBLE_Q_qy "i"]);
  ("Iclass_EE_VMUL_S16_ST_INCP_stateArgs", [mkArg STATE_SAR "i"; mkArg STATE_CPENABLE "i"]);
  ("Iclass_EE_VMUL_S16_args", [mkArg OPERAND_opnd_semantic_CAL_DOUBLE_Q_qz "o";
     mkArg OPERAND_opnd_semantic_CAL_DOUBLE_Q_qx "i"; mkArg OPERAND_opnd_semantic_CAL_DOUBLE_Q_qy "i"]);
  ("Iclass_EE_VMUL_S16_stateArgs", [mkArg STATE_SAR "i"; mkArg STATE_CPENABLE "i"]);
  ("Iclass_EE_VMUL_S8_LD_INCP_args", [mkArg OPERAND_opnd_semantic_CAL_DOUBLE_Q_qu "o";
     mkArg OPERAND_opnd_semantic_CAL_DOUBLE_Q_as "m"; mkArg OPERAND_opnd_semantic_CAL_DOUBLE_Q_qz "o";
     mkArg OPERAND_opnd_semantic_CAL_DOUBLE_Q_qx "i"; mkArg OPERAND_opnd_semantic_CAL_DOUBLE_Q_qy "i"]);
  ("Iclass_EE_VMUL_S8_LD_INCP_stateArgs", [mkArg STATE_SAR "i"; mkArg STATE_CPENABLE "i"]);
  ("Iclass_EE_VMUL_S8_ST_INCP_args", [mkArg OPERAND_opnd_semantic_CAL_DOUBLE_Q_qv "i";
     mkArg OPERAND_opnd_semantic_CAL_DOUBLE_Q_as "m"; mkArg OPERAND_opnd_semantic_CAL_DOUBLE_Q_qz "o";
     mkArg OPERAND_opnd_semantic_CAL_DOUBLE_Q_qx "i"; mkArg OPERAND_opnd_semantic_CAL_DOUBLE_Q_qy "i"]);
  ("Iclass_EE_VMUL_S8_ST_INCP_stateArgs", [mkArg STATE_SAR "i"; mkArg STATE_CPENABLE "i"]);
  ("Iclass_EE_VMUL_S8_args", [mkArg OPERAND_opnd_semantic_CAL_DOUBLE_Q_qz "o";
     mkArg OPERAND_opnd_semantic_CAL_DOUBLE_Q_qx "i"; mkArg OPERAND_opnd_semantic_CAL_DOUBLE_Q_qy "i"]);
  ("Iclass_EE_VMUL_S8_stateArgs", [mkArg STATE_SAR "i"; mkArg STATE_CPENABLE "i"])].

Definition s3_args_28 : list (string * list xtensa_arg_internal) := [
  ("Iclass_EE_VMUL_U16_LD_INCP_args", [mkArg OPERAND_opnd_semantic_CAL_DOUBLE_Q_qu "o";
     mkArg OPERAND_opnd_semantic_CAL_DOUBLE_Q_as "m"; mkArg OPERAND_opnd_semantic_CAL_DOUBLE_Q_qz "o";
     mkArg OPERAND_opnd_semantic_CAL_DOUBLE_Q_qx "i"; mkArg OPERAND_opnd_semantic_CAL_DOUBLE_Q_qy "i"]);
  ("Iclass_EE_VMUL_U16_LD_INCP_stateArgs", [mkArg STATE_SAR "i"; mkArg STATE_CPENABLE "i"]);
  ("Iclass_EE_VMUL_U16_ST_INCP_args", [mkArg OPERAND_opnd_semantic_CAL_DOUBLE_Q_qv "i";
     mkArg OPERAND_opnd_semantic_CAL_DOUBLE_Q_as "m"; mkArg OPERAND_opnd_semantic_CAL_DOUBLE_Q_qz "o";
     mkArg OPERAND_opnd_semantic_CAL_DOUBLE_Q_qx "i"; mkArg OPERAND_opnd_semantic_CAL_DOUBLE_Q_qy "i"]);
  ("Iclass_EE_VMUL_U16_ST_INCP_stateArgs", [mkArg STATE_SAR "i"; mkArg STATE_CPENABLE "i"]);
  ("Iclass_EE_VMUL_U16_args", [mkArg OPERAND_opnd_semantic_CAL_DOUBLE_Q_qz "o";
     mkArg OPERAND_opnd_semantic_CAL_DOUBLE_Q_qx "i"; mkArg OPERAND_opnd_semantic_CAL_DOUBLE_Q_qy "i"]);
  ("Iclass_EE_VMUL_U16_stateArgs", [mkArg STATE_SAR "i"; mkArg STATE_CPENABLE "i"]);
  ("Iclass_EE_VMUL_U8_LD_INCP_args", [mkArg OPERAND_opnd_semantic_CAL_DOUBLE_Q_qu "o";
     mkArg OPERAND_opnd_semantic_CAL_DOUBLE_Q_as "m"; mkArg OPERAND_opnd_semantic_CAL_DOUBLE_Q_qz "o";
     mkArg OPERAND_opnd_semantic_CAL_DOUBLE_Q_qx "i"; mkArg OPERAND_opnd_semantic_CAL_DOUBLE_Q_qy "i"]);
  ("Iclass_EE_VMUL_U8_LD_INCP_stateArgs", [mkArg STATE_SAR "i"; mkArg STATE_CPENABLE "i"]);
  ("Iclass_EE_VMUL_U8_ST_INCP_args", [mkArg OPERAND_opnd_semantic_CAL_DOUBLE_Q_qv "i";
     mkArg OPERAND_opnd_semantic_CAL_DOUBLE_Q_as "m"; mkArg OPERAND_opnd_semantic_CAL_DOUBLE_Q_qz "o";
     mkArg OPERAND_opnd_semantic_CAL_DOUBLE_Q_qx "i"; mkArg OPERAND_opnd_semantic_CAL_DOUBLE_Q_qy "i"]);
  ("Iclass_EE_VMUL_U8_ST_INCP_stateArgs", [mkArg STATE_SAR "i"; mkArg STATE_CPENABLE "i"]);
  ("Iclass_EE_VMUL_U8_args", [mkArg OPERAND_opnd_semantic_CAL_DOUBLE_Q_qz "o";
     mkArg OPERAND_opnd_semantic_CAL_DOUBLE_Q_qx "i"; mkArg OPERAND_opnd_semantic_CAL_DOUBLE_Q_qy "i"]);
  ("Iclass_EE_VMUL_U8_stateArgs", [mkArg STATE_SAR "i"; mkArg STATE_CPENABLE "i"]);
  ("Iclass_EE_CMUL_S16_LD_INCP_args", [mkArg OPERAND_opnd_semantic_CAL_DOUBLE_Q_qu "o";
     mkArg OPERAND_opnd_semantic_CAL_DOUBLE_Q_as "m"; mkArg OPERAND_opnd_semantic_CAL_DOUBLE_Q_qz "m";
     mkArg OPERAND_opnd_semantic_CAL_DOUBLE_Q_qx "i"; mkArg OPERAND_opnd_semantic_CAL_DOUBLE_Q_qy "i";
     mkArg OPERAND_opnd_semantic_CAL_DOUBLE_Q_sel4 "i"]);
  ("Iclass_EE_CMUL_S16_LD_INCP_stateArgs", [mkArg STATE_SAR "i"; mkArg STATE_CPENABLE "i"]);
  ("Iclass_EE_CMUL_S16_ST_INCP_args", [mkArg OPERAND_opnd_semantic_CAL_DOUBLE_Q_qv "i";
     mkArg OPERAND_opnd_semantic_CAL_DOUBLE_Q_as "m"; mkArg OPERAND_opnd_semantic_CAL_DOUBLE_Q_qz "m";
     mkArg OPERAND_opnd_semantic_CAL_DOUBLE_Q_qx "i"; mkArg OPERAND_opnd_semantic_CAL_DOUBLE_Q_qy "i";
     mkArg OPERAND_opnd_semantic_CAL_DOUBLE_Q_sel4 "i"]);
  ("Iclass_EE_CMUL_S16_ST_INCP_stateArgs", [mkArg STATE_SAR "i"; mkArg STATE_CPENABLE "i"]);
  ("Iclass_EE_CMUL_S16_args", [mkArg OPERAND_opnd_semantic_CAL_DOUBLE_Q_qz "m";
     mkArg OPERAND_opnd_semantic_CAL_DOUBLE_Q_qx "i"; mkArg OPERAND_opnd_semantic_CAL_DOUBLE_Q_qy "i";
     mkArg OPERAND_opnd_semantic_CAL_DOUBLE_Q_sel4 "i"]);
  ("Iclass_EE_CMUL_S16_stateArgs", [mkArg STATE_SAR "i"; mkArg STATE_CPENABLE "i"]);
  ("Iclass_EE_VMULAS_S16_ACCX_LD_IP_QUP_args", [mkArg OPERAND_opnd_semantic_CAL_DOUBLE_Q_qu "o";
     mkArg OPERAND_opnd_semantic_CAL_DOUBLE_Q_as "m"; mkArg OPERAND_opnd_semantic_CAL_DOUBLE_Q_imm16 "i";
     mkArg OPERAND_opnd_semantic_CAL_DOUBLE_Q_qx "i"; mkArg OPERAND_opnd_semantic_CAL_DOUBLE_Q_qy "i";
     mkArg OPERAND_opnd_semantic_CAL_DOUBLE_Q_qs0 "m"; mkArg OPERAND_opnd_semantic_CAL_DOUBLE_Q_qs1 "i"]);
  ("Iclass_EE_VMULAS_S16_ACCX_LD_IP_QUP_stateArgs", [mkArg STATE_SAR_BYTE "i"; mkArg STATE_ACCX "m";
     mkArg STATE_CPENABLE "i"]);
  ("Iclass_EE_VMULAS_S16_ACCX_LD_IP_args", [mkArg OPERAND_opnd_semantic_CAL_DOUBLE_Q_qu "o";
     mkArg OPERAND_opnd_semantic_CAL_DOUBLE_Q_as "m"; mkArg OPERAND_opnd_semantic_CAL_DOUBLE_Q_imm16 "i";
     mkArg OPERAND_opnd_semantic_CAL_DOUBLE_Q_qx "i"; mkArg OPERAND_opnd_semantic_CAL_DOUBLE_Q_qy "i"]);
  ("Iclass_EE_VMULAS_S16_ACCX_LD_IP_stateArgs", [mkArg STATE_ACCX "m"; mkArg STATE_CPENABLE "i"])].

Definition s3_args_29 : list (string * list xtensa_arg_internal) := [
  ("Iclass_EE_VMULAS_S16_ACCX_LD_XP_QUP_args", [mkArg OPERAND_opnd_semantic_CAL_DOUBLE_Q_qu "o";
     mkArg OPERAND_opnd_semantic_CAL_DOUBLE_Q_as "m"; mkArg OPERAND_opnd_semantic_CAL_DOUBLE_Q_ad "i";
     mkArg OPERAND_opnd_semantic_CAL_DOUBLE_Q_qx "i"; mkArg OPERAND_opnd_semantic_CAL_DOUBLE_Q_qy "i";
     mkArg OPERAND_opnd_semantic_CAL_DOUBLE_Q_qs0 "m"; mkArg OPERAND_opnd_semantic_CAL_DOUBLE_Q_qs1 "i"]);
  ("Iclass_EE_VMULAS_S16_ACCX_LD_XP_QUP_stateArgs", [mkArg STATE_SAR_BYTE "i"; mkArg STATE_ACCX "m";
     mkArg STATE_CPENABLE "i"]);
  ("Iclass_EE_VMULAS_S16_ACCX_LD_XP_args", [mkArg OPERAND_opnd_semantic_CAL_DOUBLE_Q_qu "o";
     mkArg OPERAND_opnd_semantic_CAL_DOUBLE_Q_as "m"; mkArg OPERAND_opnd_semantic_CAL_DOUBLE_Q_ad "i";
     mkArg OPERAND_opnd_semantic_CAL_DOUBLE_Q_qx "i"; mkArg OPERAND_opnd_semantic_CAL_DOUBLE_Q_qy "i"]);
  ("Iclass_EE_VMULAS_S16_ACCX_LD_XP_stateArgs", [mkArg STATE_ACCX "m"; mkArg STATE_CPENABLE "i"]);
  ("Iclass_EE_VMULAS_S16_ACCX_args", [mkArg OPERAND_opnd_semantic_CAL_DOUBLE_Q_qx "i";
     mkArg OPERAND_opnd_semantic_CAL_DOUBLE_Q_qy "i"]);
  ("Iclass_EE_VMULAS_S16_ACCX_stateArgs", [mkArg STATE_ACCX "m"; mkArg STATE_CPENABLE "i"]);
  ("Iclass_EE_VMULAS_S8_ACCX_LD_IP_QUP_args", [mkArg OPERAND_opnd_semantic_CAL_DOUBLE_Q_qu "o";
     mkArg OPERAND_opnd_semantic_CAL_DOUBLE_Q_as "m"; mkArg OPERAND_opnd_semantic_CAL_DOUBLE_Q_imm16 "i";
     mkArg OPERAND_opnd_semantic_CAL_DOUBLE_Q_qx "i"; mkArg OPERAND_opnd_semantic_CAL_DOUBLE_Q_qy "i";
     mkArg OPERAND_opnd_semantic_CAL_DOUBLE_Q_qs0 "m"; mkArg OPERAND_opnd_semantic_CAL_DOUBLE_Q_qs1 "i"]);
  ("Iclass_EE_VMULAS_S8_ACCX_LD_IP_QUP_stateArgs", [mkArg STATE_SAR_BYTE "i"; mkArg STATE_ACCX "m";
     mkArg STATE_CPENABLE "i"]);
  ("Iclass_EE_VMULAS_S8_ACCX_LD_IP_args", [mkArg OPERAND_opnd_semantic_CAL_DOUBLE_Q_qu "o";
     mkArg OPERAND_opnd_semantic_CAL_DOUBLE_Q_as "m"; mkArg OPERAND_opnd_semantic_CAL_DOUBLE_Q_imm16 "i";
     mkArg OPERAND_opnd_semantic_CAL_DOUBLE_Q_qx "i"; mkArg OPERAND_opnd_semantic_CAL_DOUBLE_Q_qy "i"]);
  ("Iclass_EE_VMULAS_S8_ACCX_LD_IP_stateArgs", [mkArg STATE_ACCX "m"; mkArg STATE_CPENABLE "i"]);
  ("Iclass_EE_VMULAS_S8_ACCX_LD_XP_QUP_args", [mkArg OPERAND_opnd_semantic_CAL_DOUBLE_Q_qu "o";
     mkArg OPERAND_opnd_semantic_CAL_DOUBLE_Q_as "m"; mkArg OPERAND_opnd_semantic_CAL_DOUBLE_Q_ad "i";
     mkArg OPERAND_opnd_semantic_CAL_DOUBLE_Q_qx "i"; mkArg OPERAND_opnd_semantic_CAL_DOUBLE_Q_qy "i";
     mkArg OPERAND_opnd_semantic_CAL_DOUBLE_Q_qs0 "m"; mkArg OPERAND_opnd_semantic_CAL_DOUBLE_Q_qs1 "i"]);
  ("Iclass_EE_VMULAS_S8_ACCX_LD_XP_QUP_stateArgs", [mkArg STATE_SAR_BYTE "i"; mkArg STATE_ACCX "m";
     mkArg STATE_CPENABLE "i"]);
  ("Iclass_EE_VMULAS_S8_ACCX_LD_XP_args", [mkArg OPERAND_opnd_semantic_CAL_DOUBLE_Q_qu "o";
     mkArg OPERAND_opnd_semantic_CAL_DOUBLE_Q_as "m"; mkArg OPERAND_opnd_semantic_CAL_DOUBLE_Q_ad "i";
     mkArg OPERAND_opnd_semantic_CAL_DOUBLE_Q_qx "i"; mkArg OPERAND_opnd_semantic_CAL_DOUBLE_Q_qy "i"]);
  ("Iclass_EE_VMULAS_S8_ACCX_LD_XP_stateArgs", [mkArg STATE_ACCX "m"; mkArg STATE_CPENABLE "i"]);
  ("Iclass_EE_VMULAS_S8_ACCX_args", [mkArg OPERAND_opnd_semantic_CAL_DOUBLE_Q_qx "i";
     mkArg OPERAND_opnd_semantic_CAL_DOUBLE_Q_qy "i"]);
  ("Iclass_EE_VMULAS_S8_ACCX_stateArgs", [mkArg STATE_ACCX "m"; mkArg STATE_CPENABLE "i"]);
  ("Iclass_EE_VMULAS_U16_ACCX_LD_IP_QUP_args", [mkArg OPERAND_opnd_semantic_CAL_DOUBLE_Q_qu "o";
     mkArg OPERAND_opnd_semantic_CAL_DOUBLE_Q_as "m"; mkArg OPERAND_opnd_semantic_CAL_DOUBLE_Q_imm16 "i";
     mkArg OPERAND_opnd_semantic_CAL_DOUBLE_Q_qx "i"; mkArg OPERAND_opnd_semantic_CAL_DOUBLE_Q_qy "i";
     mkArg OPERAND_opnd_semantic_CAL_DOUBLE_Q_qs0 "m"; mkArg OPERAND_opnd_semantic_CAL_DOUBLE_Q_qs1 "i"]);
  ("Iclass_EE_VMULAS_U16_ACCX_LD_IP_QUP_stateArgs", [mkArg STATE_SAR_BYTE "i"; mkArg STATE_ACCX "m";
     mkArg STATE_CPENABLE "i"]);
  ("Iclass_EE_VMULAS_U16_ACCX_LD_IP_args", [mkArg OPERAND_opnd_semantic_CAL_DOUBLE_Q_qu "o";
     mkArg OPERAND_opnd_semantic_CAL_DOUBLE_Q_as "m"; mkArg OPERAND_opnd_semantic_CAL_DOUBLE_Q_imm16 "i";
     mkArg OPERAND_opnd_semantic_CAL_DOUBLE_Q_qx "i"; mkArg OPERAND_opnd_semantic_CAL_DOUBLE_Q_qy "i"]);
  ("Iclass_EE_VMULAS_U16_ACCX_LD_IP_stateArgs", [mkArg STATE_ACCX "m"; mkArg STATE_CPENABLE "i"]);
  ("Iclass_EE_VMULAS_U16_ACCX_LD_XP_QUP_args", [mkArg OPERAND_opnd_semantic_CAL_DOUBLE_Q_qu "o";
     mkArg OPERAND_opnd_semantic_CAL_DOUBLE_Q_as "m"; mkArg OPERAND_opnd_semantic_CAL_DOUBLE_Q_ad "i";
     mkArg OPERAND_opnd_semantic_CAL_DOUBLE_Q_qx "i"; mkArg OPERAND_opnd_semantic_CAL_DOUBLE_Q_qy "i";
     mkArg OPERAND_opnd_semantic_CAL_DOUBLE_Q_qs0 "m"; mkArg OPERAND_opnd_semantic_CAL_DOUBLE_Q_qs1 "i"])].

Definition s3_args_30 : list (string * list xtensa_arg_internal) := [
  ("Iclass_EE_VMULAS_U16_ACCX_LD_XP_QUP_stateArgs", [mkArg STATE_SAR_BYTE "i"; mkArg STATE_ACCX "m";
     mkArg STATE_CPENABLE "i"]);
  ("Iclass_EE_VMULAS_U16_ACCX_LD_XP_args", [mkArg OPERAND_opnd_semantic_CAL_DOUBLE_Q_qu "o";
     mkArg OPERAND_opnd_semantic_CAL_DOUBLE_Q_as "m"; mkArg OPERAND_opnd_semantic_CAL_DOUBLE_Q_ad "i";
     mkArg OPERAND_opnd_semantic_CAL_DOUBLE_Q_qx "i"; mkArg OPERAND_opnd_semantic_CAL_DOUBLE_Q_qy "i"]);
  ("Iclass_EE_VMULAS_U16_ACCX_LD_XP_stateArgs", [mkArg STATE_ACCX "m"; mkArg STATE_CPENABLE "i"]);
  ("Iclass_EE_VMULAS_U16_ACCX_args", [mkArg OPERAND_opnd_semantic_CAL_DOUBLE_Q_qx "i";
     mkArg OPERAND_opnd_semantic_CAL_DOUBLE_Q_qy "i"]);
  ("Iclass_EE_VMULAS_U16_ACCX_stateArgs", [mkArg STATE_ACCX "m"; mkArg STATE_CPENABLE "i"]);
  ("Iclass_EE_VMULAS_U8_ACCX_LD_IP_QUP_args", [mkArg OPERAND_opnd_semantic_CAL_DOUBLE_Q_qu "o";
     mkArg OPERAND_opnd_semantic_CAL_DOUBLE_Q_as "m"; mkArg OPERAND_opnd_semantic_CAL_DOUBLE_Q_imm16 "i";
     mkArg OPERAND_opnd_semantic_CAL_DOUBLE_Q_qx "i"; mkArg OPERAND_opnd_semantic_CAL_DOUBLE_Q_qy "i";
     mkArg OPERAND_opnd_semantic_CAL_DOUBLE_Q_qs0 "m"; mkArg OPERAND_opnd_semantic_CAL_DOUBLE_Q_qs1 "i"]);
  ("Iclass_EE_VMULAS_U8_ACCX_LD_IP_QUP_stateArgs", [mkArg STATE_SAR_BYTE "i"; mkArg STATE_ACCX "m";
     mkArg STATE_CPENABLE "i"]);
  ("Iclass_EE_VMULAS_U8_ACCX_LD_IP_args", [mkArg OPERAND_opnd_semantic_CAL_DOUBLE_Q_qu "o";
     mkArg OPERAND_opnd_semantic_CAL_DOUBLE_Q_as "m"; mkArg OPERAND_opnd_semantic_CAL_DOUBLE_Q_imm16 "i";
     mkArg OPERAND_opnd_semantic_CAL_DOUBLE_Q_qx "i"; mkArg OPERAND_opnd_semantic_CAL_DOUBLE_Q_qy "i"]);
  ("Iclass_EE_VMULAS_U8_ACCX_LD_IP_stateArgs", [mkArg STATE_ACCX "m"; mkArg STATE_CPENABLE "i"]);
  ("Iclass_EE_VMULAS_U8_ACCX_LD_XP_QUP_args", [mkArg OPERAND_opnd_semantic_CAL_DOUBLE_Q_qu "o";
     mkArg OPERAND_opnd_semantic_CAL_DOUBLE_Q_as "m"; mkArg OPERAND_opnd_semantic_CAL_DOUBLE_Q_ad "i";
     mkArg OPERAND_opnd_semantic_CAL_DOUBLE_Q_qx "i"; mkArg OPERAND_opnd_semantic_CAL_DOUBLE_Q_qy "i";
     mkArg OPERAND_opnd_semantic_CAL_DOUBLE_Q_qs0 "m"; mkArg OPERAND_opnd_semantic_CAL_DOUBLE_Q_qs1 "i"]);
  ("Iclass_EE_VMULAS_U8_ACCX_LD_XP_QUP_stateArgs", [mkArg STATE_SAR_BYTE "i"; mkArg STATE_ACCX "m";
     mkArg STATE_CPENABLE "i"]);
  ("Iclass_EE_VMULAS_U8_ACCX_LD_XP_args", [mkArg OPERAND_opnd_semantic_CAL_DOUBLE_Q_qu "o";
     mkArg OPERAND_opnd_semantic_CAL_DOUBLE_Q_as "m"; mkArg OPERAND_opnd_semantic_CAL_DOUBLE_Q_ad "i";
     mkArg OPERAND_opnd_semantic_CAL_DOUBLE_Q_qx "i"; mkArg OPERAND_opnd_semantic_CAL_DOUBLE_Q_qy "i"]);
  ("Iclass_EE_VMULAS_U8_ACCX_LD_XP_stateArgs", [mkArg STATE_ACCX "m"; mkArg STATE_CPENABLE "i"]);
  ("Iclass_EE_VMULAS_U8_ACCX_args", [mkArg OPERAND_opnd_semantic_CAL_DOUBLE_Q_qx "i";
     mkArg OPERAND_opnd_semantic_CAL_DOUBLE_Q_qy "i"]);
  ("Iclass_EE_VMULAS_U8_ACCX_stateArgs", [mkArg STATE_ACCX "m"; mkArg STATE_CPENABLE "i"]);
  ("Iclass_EE_VMULAS_S16_QACC_LDBC_INCP_QUP_args", [mkArg OPERAND_opnd_semantic_CAL_DOUBLE_Q_qu "o";
     mkArg OPERAND_opnd_semantic_CAL_DOUBLE_Q_as "m"; mkArg OPERAND_opnd_semantic_CAL_DOUBLE_Q_qx "i";
     mkArg OPERAND_opnd_semantic_CAL_DOUBLE_Q_qy "i"; mkArg OPERAND_opnd_semantic_CAL_DOUBLE_Q_qs0 "m";
     mkArg OPERAND_opnd_semantic_CAL_DOUBLE_Q_qs1 "i"]);
  ("Iclass_EE_VMULAS_S16_QACC_LDBC_INCP_QUP_stateArgs", [mkArg STATE_SAR_BYTE "i"; mkArg STATE_QACC_H "m";
     mkArg STATE_QACC_L "m"; mkArg STATE_CPENABLE "i"]);
  ("Iclass_EE_VMULAS_S16_QACC_LDBC_INCP_args", [mkArg OPERAND_opnd_semantic_CAL_DOUBLE_Q_qu "o";
     mkArg OPERAND_opnd_semantic_CAL_DOUBLE_Q_as "m"; mkArg OPERAND_opnd_semantic_CAL_DOUBLE_Q_qx "i";
     mkArg OPERAND_opnd_semantic_CAL_DOUBLE_Q_qy "i"]);
  ("Iclass_EE_VMULAS_S16_QACC_LDBC_INCP_stateArgs", [mkArg STATE_QACC_H "m"; mkArg STATE_QACC_L "m";
     mkArg STATE_CPENABLE "i"]);
  ("Iclass_EE_VMULAS_S16_QACC_LD_IP_QUP_args", [mkArg OPERAND_opnd_semantic_CAL_DOUBLE_Q_qu "o";
     mkArg OPERAND_opnd_semantic_CAL_DOUBLE_Q_as "m"; mkArg OPERAND_opnd_semantic_CAL_DOUBLE_Q_imm16 "i";
     mkArg OPERAND_opnd_semantic_CAL_DOUBLE_Q_qx "i"; mkArg OPERAND_opnd_semantic_CAL_DOUBLE_Q_qy "i";
     mkArg OPERAND_opnd_semantic_CAL_DOUBLE_Q_qs0 "m"; mkArg OPERAND_opnd_semantic_CAL_DOUBLE_Q_qs1 "i"]);
  ("Iclass_EE_VMULAS_S16_QACC_LD_IP_QUP_stateArgs", [mkArg STATE_SAR_BYTE "i"; mkArg STATE_QACC_H "m";
     mkArg STATE_QACC_L "m"; mkArg STATE_CPENABLE "i"]);
  ("Iclass_EE_VMULAS_S16_QACC_LD_IP_args", [mkArg OPERAND_opnd_semantic_CAL_DOUBLE_Q_qu "o";
     mkArg OPERAND_opnd_semantic_CAL_DOUBLE_Q_as "m"; mkArg OPERAND_opnd_semantic_CAL_DOUBLE_Q_imm16 "i";
     mkArg OPERAND_opnd_semantic_CAL_DOUBLE_Q_qx "i"; mkArg OPERAND_opnd_semantic_CAL_DOUBLE_Q_qy "i"])].

Definition s3_args_31 : list (string * list xtensa_arg_internal) := [
  ("Iclass_EE_VMULAS_S16_QACC_LD_IP_stateArgs", [mkArg STATE_QACC_H "m"; mkArg STATE_QACC_L "m";
     mkArg STATE_CPENABLE "i"]);
  ("Iclass_EE_VMULAS_S16_QACC_LD_XP_QUP_args", [mkArg OPERAND_opnd_semantic_CAL_DOUBLE_Q_qu "o";
     mkArg OPERAND_opnd_semantic_CAL_DOUBLE_Q_as "m"; mkArg OPERAND_opnd_semantic_CAL_DOUBLE_Q_ad "i";
     mkArg OPERAND_opnd_semantic_CAL_DOUBLE_Q_qx "i"; mkArg OPERAND_opnd_semantic_CAL_DOUBLE_Q_qy "i";
     mkArg OPERAND_opnd_semantic_CAL_DOUBLE_Q_qs0 "m"; mkArg OPERAND_opnd_semantic_CAL_DOUBLE_Q_qs1 "i"]);
  ("Iclass_EE_VMULAS_S16_QACC_LD_XP_QUP_stateArgs", [mkArg STATE_SAR_BYTE "i"; mkArg STATE_QACC_H "m";
     mkArg STATE_QACC_L "m"; mkArg STATE_CPENABLE "i"]);
  ("Iclass_EE_VMULAS_S16_QACC_LD_XP_args", [mkArg OPERAND_opnd_semantic_CAL_DOUBLE_Q_qu "o";
     mkArg OPERAND_opnd_semantic_CAL_DOUBLE_Q_as "m"; mkArg OPERAND_opnd_semantic_CAL_DOUBLE_Q_ad "i";
     mkArg OPERAND_opnd_semantic_CAL_DOUBLE_Q_qx "i"; mkArg OPERAND_opnd_semantic_CAL_DOUBLE_Q_qy "i"]);
  ("Iclass_EE_VMULAS_S16_QACC_LD_XP_stateArgs", [mkArg STATE_QACC_H "m"; mkArg STATE_QACC_L "m";
     mkArg STATE_CPENABLE "i"]);
  ("Iclass_EE_VMULAS_S16_QACC_args", [mkArg OPERAND_opnd_semantic_CAL_DOUBLE_Q_qx "i";
     mkArg OPERAND_opnd_semantic_CAL_DOUBLE_Q_qy "i"]);
  ("Iclass_EE_VMULAS_S16_QACC_stateArgs", [mkArg STATE_QACC_H "m"; mkArg STATE_QACC_L "m";
     mkArg STATE_CPENABLE "i"]);
  ("Iclass_EE_VMULAS_S8_QACC_LDBC_INCP_QUP_args", [mkArg OPERAND_opnd_semantic_CAL_DOUBLE_Q_qu "o";
     mkArg OPERAND_opnd_semantic_CAL_DOUBLE_Q_as "m"; mkArg OPERAND_opnd_semantic_CAL_DOUBLE_Q_qx "i";
     mkArg OPERAND_opnd_semantic_CAL_DOUBLE_Q_qy "i"; mkArg OPERAND_opnd_semantic_CAL_DOUBLE_Q_qs0 "m";
     mkArg OPERAND_opnd_semantic_CAL_DOUBLE_Q_qs1 "i"]);
  ("Iclass_EE_VMULAS_S8_QACC_LDBC_INCP_QUP_stateArgs", [mkArg STATE_SAR_BYTE "i"; mkArg STATE_QACC_H "m";
     mkArg STATE_QACC_L "m"; mkArg STATE_CPENABLE "i"]);
  ("Iclass_EE_VMULAS_S8_QACC_LDBC_INCP_args", [mkArg OPERAND_opnd_semantic_CAL_DOUBLE_Q_qu "o";
     mkArg OPERAND_opnd_semantic_CAL_DOUBLE_Q_as "m"; mkArg OPERAND_opnd_semantic_CAL_DOUBLE_Q_qx "i";
     mkArg OPERAND_opnd_semantic_CAL_DOUBLE_Q_qy "i"]);
  ("Iclass_EE_VMULAS_S8_QACC_LDBC_INCP_stateArgs", [mkArg STATE_QACC_H "m"; mkArg STATE_QACC_L "m";
     mkArg STATE_CPENABLE "i"]);
  ("Iclass_EE_VMULAS_S8_QACC_LD_IP_QUP_args", [mkArg OPERAND_opnd_semantic_CAL_DOUBLE_Q_qu "o";
     mkArg OPERAND_opnd_semantic_CAL_DOUBLE_Q_as "m"; mkArg OPERAND_opnd_semantic_CAL_DOUBLE_Q_imm16 "i";
     mkArg OPERAND_opnd_semantic_CAL_DOUBLE_Q_qx "i"; mkArg OPERAND_opnd_semantic_CAL_DOUBLE_Q_qy "i";
     mkArg OPERAND_opnd_semantic_CAL_DOUBLE_Q_qs0 "m"; mkArg OPERAND_opnd_semantic_CAL_DOUBLE_Q_qs1 "i"]);
  ("Iclass_EE_VMULAS_S8_QACC_LD_IP_QUP_stateArgs", [mkArg STATE_SAR_BYTE "i"; mkArg STATE_QACC_H "m";
     mkArg STATE_QACC_L "m"; mkArg STATE_CPENABLE "i"]);
  ("Iclass_EE_VMULAS_S8_QACC_LD_IP_args", [mkArg OPERAND_opnd_semantic_CAL_DOUBLE_Q_qu "o";
     mkArg OPERAND_opnd_semantic_CAL_DOUBLE_Q_as "m"; mkArg OPERAND_opnd_semantic_CAL_DOUBLE_Q_imm16 "i";
     mkArg OPERAND_opnd_semantic_CAL_DOUBLE_Q_qx "i"; mkArg OPERAND_opnd_semantic_CAL_DOUBLE_Q_qy "i"]);
  ("Iclass_EE_VMULAS_S8_QACC_LD_IP_stateArgs", [mkArg STATE_QACC_H "m"; mkArg STATE_QACC_L "m";
     mkArg STATE_CPENABLE "i"]);
  ("Iclass_EE_VMULAS_S8_QACC_LD_XP_QUP_args", [mkArg OPERAND_opnd_semantic_CAL_DOUBLE_Q_qu "o";
     mkArg OPERAND_opnd_semantic_CAL_DOUBLE_Q_as "m"; mkArg OPERAND_opnd_semantic_CAL_DOUBLE_Q_ad "i";
     mkArg OPERAND_opnd_semantic_CAL_DOUBLE_Q_qx "i"; mkArg OPERAND_opnd_semantic_CAL_DOUBLE_Q_qy "i";
     mkArg OPERAND_opnd_semantic_CAL_DOUBLE_Q_qs0 "m"; mkArg OPERAND_opnd_semantic_CAL_DOUBLE_Q_qs1 "i"]);
  ("Iclass_EE_VMULAS_S8_QACC_LD_XP_QUP_stateArgs", [mkArg STATE_SAR_BYTE "i"; mkArg STATE_QACC_H "m";
     mkArg STATE_QACC_L "m"; mkArg STATE_CPENABLE "i"]);
  ("Iclass_EE_VMULAS_S8_QACC_LD_XP_args", [mkArg OPERAND_opnd_semantic_CAL_DOUBLE_Q_qu "o";
     mkArg OPERAND_opnd_semantic_CAL_DOUBLE_Q_as "m"; mkArg OPERAND_opnd_semantic_CAL_DOUBLE_Q_ad "i";
     mkArg OPERAND_opnd_semantic_CAL_DOUBLE_Q_qx "i"; mkArg OPERAND_opnd_semantic_CAL_DOUBLE_Q_qy "i"]);
  ("Iclass_EE_VMULAS_S8_QACC_LD_XP_stateArgs", [mkArg STATE_QACC_H "m"; mkArg STATE_QACC_L "m";
     mkArg STATE_CPENABLE "i"]);
  ("Iclass_EE_VMULAS_S8_QACC_args", [mkArg OPERAND_opnd_semantic_CAL_DOUBLE_Q_qx "i";
     mkArg OPERAND_opnd_semantic_CAL_DOUBLE_Q_qy "i"]);
  ("Iclass_EE_VMULAS_S8_QACC_stateArgs", [mkArg STATE_QACC_L "m"; mkArg STATE_QACC_H "m";
     mkArg STATE_CPENABLE "i"])].

Definition s3_args_32 : list (string * list xtensa_arg_internal) := [
  ("Iclass_EE_VMULAS_U16_QACC_LDBC_INCP_QUP_args", [mkArg OPERAND_opnd_semantic_CAL_DOUBLE_Q_qu "o";
     mkArg OPERAND_opnd_semantic_CAL_DOUBLE_Q_as "m"; mkArg OPERAND_opnd_semantic_CAL_DOUBLE_Q_qx "i";
     mkArg OPERAND_opnd_semantic_CAL_DOUBLE_Q_qy "i"; mkArg OPERAND_opnd_semantic_CAL_DOUBLE_Q_qs0 "m";
     mkArg OPERAND_opnd_semantic_CAL_DOUBLE_Q_qs1 "i"]);
  ("Iclass_EE_VMULAS_U16_QACC_LDBC_INCP_QUP_stateArgs", [mkArg STATE_SAR_BYTE "i"; mkArg STATE_QACC_H "m";
     mkArg STATE_QACC_L "m"; mkArg STATE_CPENABLE "i"]);
  ("Iclass_EE_VMULAS_U16_QACC_LDBC_INCP_args", [mkArg OPERAND_opnd_semantic_CAL_DOUBLE_Q_qu "o";
     mkArg OPERAND_opnd_semantic_CAL_DOUBLE_Q_as "m"; mkArg OPERAND_opnd_semantic_CAL_DOUBLE_Q_qx "i";
     mkArg OPERAND_opnd_semantic_CAL_DOUBLE_Q_qy "i"]);
  ("Iclass_EE_VMULAS_U16_QACC_LDBC_INCP_stateArgs", [mkArg STATE_QACC_L "m"; mkArg STATE_QACC_H "m";
     mkArg STATE_CPENABLE "i"]);
  ("Iclass_EE_VMULAS_U16_QACC_LD_IP_QUP_args", [mkArg OPERAND_opnd_semantic_CAL_DOUBLE_Q_qu "o";
     mkArg OPERAND_opnd_semantic_CAL_DOUBLE_Q_as "m"; mkArg OPERAND_opnd_semantic_CAL_DOUBLE_Q_imm16 "i";
     mkArg OPERAND_opnd_semantic_CAL_DOUBLE_Q_qx "i"; mkArg OPERAND_opnd_semantic_CAL_DOUBLE_Q_qy "i";
     mkArg OPERAND_opnd_semantic_CAL_DOUBLE_Q_qs0 "m"; mkArg OPERAND_opnd_semantic_CAL_DOUBLE_Q_qs1 "i"]);
  ("Iclass_EE_VMULAS_U16_QACC_LD_IP_QUP_stateArgs", [mkArg STATE_SAR_BYTE "i"; mkArg STATE_QACC_H "m";
     mkArg STATE_QACC_L "m"; mkArg STATE_CPENABLE "i"]);
  ("Iclass_EE_VMULAS_U16_QACC_LD_IP_args", [mkArg OPERAND_opnd_semantic_CAL_DOUBLE_Q_qu "o";
     mkArg OPERAND_opnd_semantic_CAL_DOUBLE_Q_as "m"; mkArg OPERAND_opnd_semantic_CAL_DOUBLE_Q_imm16 "i";
     mkArg OPERAND_opnd_semantic_CAL_DOUBLE_Q_qx "i"; mkArg OPERAND_opnd_semantic_CAL_DOUBLE_Q_qy "i"]);
  ("Iclass_EE_VMULAS_U16_QACC_LD_IP_stateArgs", [mkArg STATE_QACC_L "m"; mkArg STATE_QACC_H "m";
     mkArg STATE_CPENABLE "i"]);
  ("Iclass_EE_VMULAS_U16_QACC_LD_XP_QUP_args", [mkArg OPERAND_opnd_semantic_CAL_DOUBLE_Q_qu "o";
     mkArg OPERAND_opnd_semantic_CAL_DOUBLE_Q_as "m"; mkArg OPERAND_opnd_semantic_CAL_DOUBLE_Q_ad "i";
     mkArg OPERAND_opnd_semantic_CAL_DOUBLE_Q_qx "i"; mkArg OPERAND_opnd_semantic_CAL_DOUBLE_Q_qy "i";
     mkArg OPERAND_opnd_semantic_CAL_DOUBLE_Q_qs0 "m"; mkArg OPERAND_opnd_semantic_CAL_DOUBLE_Q_qs1 "i"]);
  ("Iclass_EE_VMULAS_U16_QACC_LD_XP_QUP_stateArgs", [mkArg STATE_SAR_BYTE "i"; mkArg STATE_QACC_H "m";
     mkArg STATE_QACC_L "m"; mkArg STATE_CPENABLE "i"]);
  ("Iclass_EE_VMULAS_U16_QACC_LD_XP_args", [mkArg OPERAND_opnd_semantic_CAL_DOUBLE_Q_qu "o";
     mkArg OPERAND_opnd_semantic_CAL_DOUBLE_Q_as "m"; mkArg OPERAND_opnd_semantic_CAL_DOUBLE_Q_ad "i";
     mkArg OPERAND_opnd_semantic_CAL_DOUBLE_Q_qx "i"; mkArg OPERAND_opnd_semantic_CAL_DOUBLE_Q_qy "i"]);
  ("Iclass_EE_VMULAS_U16_QACC_LD_XP_stateArgs", [mkArg STATE_QACC_L "m"; mkArg STATE_QACC_H "m";
     mkArg STATE_CPENABLE "i"]);
  ("Iclass_EE_VMULAS_U16_QACC_args", [mkArg OPERAND_opnd_semantic_CAL_DOUBLE_Q_qx "i";
     mkArg OPERAND_opnd_semantic_CAL_DOUBLE_Q_qy "i"]);
  ("Iclass_EE_VMULAS_U16_QACC_stateArgs", [mkArg STATE_QACC_L "m"; mkArg STATE_QACC_H "m";
     mkArg STATE_CPENABLE "i"]);
  ("Iclass_EE_VMULAS_U8_QACC_LDBC_INCP_QUP_args", [mkArg OPERAND_opnd_semantic_CAL_DOUBLE_Q_qu "o";
     mkArg OPERAND_opnd_semantic_CAL_DOUBLE_Q_as "m"; mkArg OPERAND_opnd_semantic_CAL_DOUBLE_Q_qx "i";
     mkArg OPERAND_opnd_semantic_CAL_DOUBLE_Q_qy "i"; mkArg OPERAND_opnd_semantic_CAL_DOUBLE_Q_qs0 "m";
     mkArg OPERAND_opnd_semantic_CAL_DOUBLE_Q_qs1 "i"]);
  ("Iclass_EE_VMULAS_U8_QACC_LDBC_INCP_QUP_stateArgs", [mkArg STATE_SAR_BYTE "i"; mkArg STATE_QACC_H "m";
     mkArg STATE_QACC_L "m"; mkArg STATE_CPENABLE "i"]);
  ("Iclass_EE_VMULAS_U8_QACC_LDBC_INCP_args", [mkArg OPERAND_opnd_semantic_CAL_DOUBLE_Q_qu "o";
     mkArg OPERAND_opnd_semantic_CAL_DOUBLE_Q_as "m"; mkArg OPERAND_opnd_semantic_CAL_DOUBLE_Q_qx "i";
     mkArg OPERAND_opnd_semantic_CAL_DOUBLE_Q_qy "i"]);
  ("Iclass_EE_VMULAS_U8_QACC_LDBC_INCP_stateArgs", [mkArg STATE_QACC_L "m"; mkArg STATE_QACC_H "m";
     mkArg STATE_CPENABLE "i"]);
  ("Iclass_EE_VMULAS_U8_QACC_LD_IP_QUP_args", [mkArg OPERAND_opnd_semantic_CAL_DOUBLE_Q_qu "o";
     mkArg OPERAND_opnd_semantic_CAL_DOUBLE_Q_as "m"; mkArg OPERAND_opnd_semantic_CAL_DOUBLE_Q_imm16 "i";
     mkArg OPERAND_opnd_semantic_CAL_DOUBLE_Q_qx "i"; mkArg OPERAND_opnd_semantic_CAL_DOUBLE_Q_qy "i";
     mkArg OPERAND_opnd_semantic_CAL_DOUBLE_Q_qs0 "m"; mkArg OPERAND_opnd_semantic_CAL_DOUBLE_Q_qs1 "i"]);
  ("Iclass_EE_VMULAS_U8_QACC_LD_IP_QUP_stateArgs", [mkArg STATE_SAR_BYTE "i"; mkArg STATE_QACC_H "m";
     mkArg STATE_QACC_L "m"; mkArg STATE_CPENABLE "i"])].

Definition s3_args_33 : list (string * list xtensa_arg_internal) := [
  ("Iclass_EE_VMULAS_U8_QACC_LD_IP_args", [mkArg OPERAND_opnd_semantic_CAL_DOUBLE_Q_qu "o";
     mkArg OPERAND_opnd_semantic_CAL_DOUBLE_Q_as "m"; mkArg OPERAND_opnd_semantic_CAL_DOUBLE_Q_imm16 "i";
     mkArg OPERAND_opnd_semantic_CAL_DOUBLE_Q_qx "i"; mkArg OPERAND_opnd_semantic_CAL_DOUBLE_Q_qy "i"]);
  ("Iclass_EE_VMULAS_U8_QACC_LD_IP_stateArgs", [mkArg STATE_QACC_L "m"; mkArg STATE_QACC_H "m";
     mkArg STATE_CPENABLE "i"]);
  ("Iclass_EE_VMULAS_U8_QACC_LD_XP_QUP_args", [mkArg OPERAND_opnd_semantic_CAL_DOUBLE_Q_qu "o";
     mkArg OPERAND_opnd_semantic_CAL_DOUBLE_Q_as "m"; mkArg OPERAND_opnd_semantic_CAL_DOUBLE_Q_ad "i";
     mkArg OPERAND_opnd_semantic_CAL_DOUBLE_Q_qx "i"; mkArg OPERAND_opnd_semantic_CAL_DOUBLE_Q_qy "i";
     mkArg OPERAND_opnd_semantic_CAL_DOUBLE_Q_qs0 "m"; mkArg OPERAND_opnd_semantic_CAL_DOUBLE_Q_qs1 "i"]);
  ("Iclass_EE_VMULAS_U8_QACC_LD_XP_QUP_stateArgs", [mkArg STATE_SAR_BYTE "i"; mkArg STATE_QACC_H "m";
     mkArg STATE_QACC_L "m"; mkArg STATE_CPENABLE "i"]);
  ("Iclass_EE_VMULAS_U8_QACC_LD_XP_args", [mkArg OPERAND_opnd_semantic_CAL_DOUBLE_Q_qu "o";
     mkArg OPERAND_opnd_semantic_CAL_DOUBLE_Q_as "m"; mkArg OPERAND_opnd_semantic_CAL_DOUBLE_Q_ad "i";
     mkArg OPERAND_opnd_semantic_CAL_DOUBLE_Q_qx "i"; mkArg OPERAND_opnd_semantic_CAL_DOUBLE_Q_qy "i"]);
  ("Iclass_EE_VMULAS_U8_QACC_LD_XP_stateArgs", [mkArg STATE_QACC_L "m"; mkArg STATE_QACC_H "m";
     mkArg STATE_CPENABLE "i"]);
  ("Iclass_EE_VMULAS_U8_QACC_args", [mkArg OPERAND_opnd_semantic_CAL_DOUBLE_Q_qx "i";
     mkArg OPERAND_opnd_semantic_CAL_DOUBLE_Q_qy "i"]);
  ("Iclass_EE_VMULAS_U8_QACC_stateArgs", [mkArg STATE_QACC_L "m"; mkArg STATE_QACC_H "m";
     mkArg STATE_CPENABLE "i"]);
  ("Iclass_EE_VSMULAS_S16_QACC_LD_INCP_args", [mkArg OPERAND_opnd_semantic_CAL_DOUBLE_Q_qu "o";
     mkArg OPERAND_opnd_semantic_CAL_DOUBLE_Q_as "m"; mkArg OPERAND_opnd_semantic_CAL_DOUBLE_Q_qx "i";
     mkArg OPERAND_opnd_semantic_CAL_DOUBLE_Q_qy "i"; mkArg OPERAND_opnd_semantic_CAL_DOUBLE_Q_sel8 "i"]);
  ("Iclass_EE_VSMULAS_S16_QACC_LD_INCP_stateArgs", [mkArg STATE_QACC_H "m"; mkArg STATE_QACC_L "m";
     mkArg STATE_CPENABLE "i"]);
  ("Iclass_EE_VSMULAS_S16_QACC_args", [mkArg OPERAND_opnd_semantic_CAL_DOUBLE_Q_qx "i";
     mkArg OPERAND_opnd_semantic_CAL_DOUBLE_Q_qy "i"; mkArg OPERAND_opnd_semantic_CAL_DOUBLE_Q_sel8 "i"]);
  ("Iclass_EE_VSMULAS_S16_QACC_stateArgs", [mkArg STATE_QACC_H "m"; mkArg STATE_QACC_L "m";
     mkArg STATE_CPENABLE "i"]);
  ("Iclass_EE_VSMULAS_S8_QACC_LD_INCP_args", [mkArg OPERAND_opnd_semantic_CAL_DOUBLE_Q_qu "o";
     mkArg OPERAND_opnd_semantic_CAL_DOUBLE_Q_as "m"; mkArg OPERAND_opnd_semantic_CAL_DOUBLE_Q_qx "i";
     mkArg OPERAND_opnd_semantic_CAL_DOUBLE_Q_qy "i"; mkArg OPERAND_opnd_semantic_CAL_DOUBLE_Q_sel16 "i"]);
  ("Iclass_EE_VSMULAS_S8_QACC_LD_INCP_stateArgs", [mkArg STATE_QACC_H "m"; mkArg STATE_QACC_L "m";
     mkArg STATE_CPENABLE "i"]);
  ("Iclass_EE_VSMULAS_S8_QACC_args", [mkArg OPERAND_opnd_semantic_CAL_DOUBLE_Q_qx "i";
     mkArg OPERAND_opnd_semantic_CAL_DOUBLE_Q_qy "i"; mkArg OPERAND_opnd_semantic_CAL_DOUBLE_Q_sel16 "i"]);
  ("Iclass_EE_VSMULAS_S8_QACC_stateArgs", [mkArg STATE_QACC_L "m"; mkArg STATE_QACC_H "m";
     mkArg STATE_CPENABLE "i"]);
  ("Iclass_EE_SRCMB_S16_QACC_args", [mkArg OPERAND_opnd_semantic_SRCMB_QACC_qu "o";
     mkArg OPERAND_opnd_semantic_SRCMB_QACC_as "i"; mkArg OPERAND_opnd_semantic_SRCMB_QACC_sel2 "i"]);
  ("Iclass_EE_SRCMB_S16_QACC_stateArgs", [mkArg STATE_QACC_H "m"; mkArg STATE_QACC_L "m";
     mkArg STATE_CPENABLE "i"]);
  ("Iclass_EE_SRCMB_S8_QACC_args", [mkArg OPERAND_opnd_semantic_SRCMB_QACC_qu "o";
     mkArg OPERAND_opnd_semantic_SRCMB_QACC_as "i"; mkArg OPERAND_opnd_semantic_SRCMB_QACC_sel2 "i"]);
  ("Iclass_EE_SRCMB_S8_QACC_stateArgs", [mkArg STATE_QACC_H "m"; mkArg STATE_QACC_L "m";
     mkArg STATE_CPENABLE "i"]);
  ("Iclass_EE_SRS_ACCX_args", [mkArg OPERAND_opnd_EE_SRS_ACCX_au "o";
     mkArg OPERAND_opnd_EE_SRS_ACCX_as "i"; mkArg OPERAND_opnd_EE_SRS_ACCX_sel2 "i"]);
  ("Iclass_EE_SRS_ACCX_stateArgs", [mkArg STATE_ACCX "m"; mkArg STATE_CPENABLE "i"]);
  ("Iclass_EE_VRELU_S16_args", [mkArg OPERAND_opnd_semantic_CAL_DOUBLE_Q_qs "m";
     mkArg OPERAND_opnd_semantic_CAL_DOUBLE_Q_ax "i"; mkArg OPERAND_opnd_semantic_CAL_DOUBLE_Q_ay "i"])].

Definition s3_args_34 : list (string * list xtensa_arg_internal) := [
  ("Iclass_EE_VRELU_S16_stateArgs", [mkArg STATE_CPENABLE "i"]);
  ("Iclass_EE_VRELU_S8_args", [mkArg OPERAND_opnd_semantic_CAL_DOUBLE_Q_qs "m";
     mkArg OPERAND_opnd_semantic_CAL_DOUBLE_Q_ax "i"; mkArg OPERAND_opnd_semantic_CAL_DOUBLE_Q_ay "i"]);
  ("Iclass_EE_VRELU_S8_stateArgs", [mkArg STATE_CPENABLE "i"]);
  ("Iclass_EE_VPRELU_S16_args", [mkArg OPERAND_opnd_semantic_CAL_DOUBLE_Q_qz "o";
     mkArg OPERAND_opnd_semantic_CAL_DOUBLE_Q_qx "i"; mkArg OPERAND_opnd_semantic_CAL_DOUBLE_Q_qy "i";
     mkArg OPERAND_opnd_semantic_CAL_DOUBLE_Q_ay "i"]);
  ("Iclass_EE_VPRELU_S16_stateArgs", [mkArg STATE_CPENABLE "i"]);
  ("Iclass_EE_VPRELU_S8_args", [mkArg OPERAND_opnd_semantic_CAL_DOUBLE_Q_qz "o";
     mkArg OPERAND_opnd_semantic_CAL_DOUBLE_Q_qx "i"; mkArg OPERAND_opnd_semantic_CAL_DOUBLE_Q_qy "i";
     mkArg OPERAND_opnd_semantic_CAL_DOUBLE_Q_ay "i"]);
  ("Iclass_EE_VPRELU_S8_stateArgs", [mkArg STATE_CPENABLE "i"]);
  ("Iclass_EE_VMAX_S16_LD_INCP_args", [mkArg OPERAND_opnd_semantic_CAL_DOUBLE_Q_qu "o";
     mkArg OPERAND_opnd_semantic_CAL_DOUBLE_Q_as "m"; mkArg OPERAND_opnd_semantic_CAL_DOUBLE_Q_qa "o";
     mkArg OPERAND_opnd_semantic_CAL_DOUBLE_Q_qx "i"; mkArg OPERAND_opnd_semantic_CAL_DOUBLE_Q_qy "i"]);
  ("Iclass_EE_VMAX_S16_LD_INCP_stateArgs", [mkArg STATE_CPENABLE "i"]);
  ("Iclass_EE_VMAX_S16_ST_INCP_args", [mkArg OPERAND_opnd_semantic_CAL_DOUBLE_Q_qv "i";
     mkArg OPERAND_opnd_semantic_CAL_DOUBLE_Q_as "m"; mkArg OPERAND_opnd_semantic_CAL_DOUBLE_Q_qa "o";
     mkArg OPERAND_opnd_semantic_CAL_DOUBLE_Q_qx "i"; mkArg OPERAND_opnd_semantic_CAL_DOUBLE_Q_qy "i"]);
  ("Iclass_EE_VMAX_S16_ST_INCP_stateArgs", [mkArg STATE_CPENABLE "i"]);
  ("Iclass_EE_VMAX_S16_args", [mkArg OPERAND_opnd_semantic_CAL_DOUBLE_Q_qa "o";
     mkArg OPERAND_opnd_semantic_CAL_DOUBLE_Q_qx "i"; mkArg OPERAND_opnd_semantic_CAL_DOUBLE_Q_qy "i"]);
  ("Iclass_EE_VMAX_S16_stateArgs", [mkArg STATE_CPENABLE "i"]);
  ("Iclass_EE_VMAX_S32_LD_INCP_args", [mkArg OPERAND_opnd_semantic_CAL_DOUBLE_Q_qu "o";
     mkArg OPERAND_opnd_semantic_CAL_DOUBLE_Q_as "m"; mkArg OPERAND_opnd_semantic_CAL_DOUBLE_Q_qa "o";
     mkArg OPERAND_opnd_semantic_CAL_DOUBLE_Q_qx "i"; mkArg OPERAND_opnd_semantic_CAL_DOUBLE_Q_qy "i"]);
  ("Iclass_EE_VMAX_S32_LD_INCP_stateArgs", [mkArg STATE_CPENABLE "i"]);
  ("Iclass_EE_VMAX_S32_ST_INCP_args", [mkArg OPERAND_opnd_semantic_CAL_DOUBLE_Q_qv "i";
     mkArg OPERAND_opnd_semantic_CAL_DOUBLE_Q_as "m"; mkArg OPERAND_opnd_semantic_CAL_DOUBLE_Q_qa "o";
     mkArg OPERAND_opnd_semantic_CAL_DOUBLE_Q_qx "i"; mkArg OPERAND_opnd_semantic_CAL_DOUBLE_Q_qy "i"]);
  ("Iclass_EE_VMAX_S32_ST_INCP_stateArgs", [mkArg STATE_CPENABLE "i"]);
  ("Iclass_EE_VMAX_S32_args", [mkArg OPERAND_opnd_semantic_CAL_DOUBLE_Q_qa "o";
     mkArg OPERAND_opnd_semantic_CAL_DOUBLE_Q_qx "i"; mkArg OPERAND_opnd_semantic_CAL_DOUBLE_Q_qy "i"]);
  ("Iclass_EE_VMAX_S32_stateArgs", [mkArg STATE_CPENABLE "i"]);
  ("Iclass_EE_VMAX_S8_LD_INCP_args", [mkArg OPERAND_opnd_semantic_CAL_DOUBLE_Q_qu "o";
     mkArg OPERAND_opnd_semantic_CAL_DOUBLE_Q_as "m"; mkArg OPERAND_opnd_semantic_CAL_DOUBLE_Q_qa "o";
     mkArg OPERAND_opnd_semantic_CAL_DOUBLE_Q_qx "i"; mkArg OPERAND_opnd_semantic_CAL_DOUBLE_Q_qy "i"]);
  ("Iclass_EE_VMAX_S8_LD_INCP_stateArgs", [mkArg STATE_CPENABLE "i"]);
  ("Iclass_EE_VMAX_S8_ST_INCP_args", [mkArg OPERAND_opnd_semantic_CAL_DOUBLE_Q_qv "i";
     mkArg OPERAND_opnd_semantic_CAL_DOUBLE_Q_as "m"; mkArg OPERAND_opnd_semantic_CAL_DOUBLE_Q_qa "o";
     mkArg OPERAND_opnd_semantic_CAL_DOUBLE_Q_qx "i"; mkArg OPERAND_opnd_semantic_CAL_DOUBLE_Q_qy "i"]);
  ("Iclass_EE_VMAX_S8_ST_INCP_stateArgs", [mkArg STATE_CPENABLE "i"]);
  ("Iclass_EE_VMAX_S8_args", [mkArg OPERAND_opnd_semantic_CAL_DOUBLE_Q_qa "o";
     mkArg OPERAND_opnd_semantic_CAL_DOUBLE_Q_qx "i"; mkArg OPERAND_opnd_semantic_CAL_DOUBLE_Q_qy "i"]);
  ("Iclass_EE_VMAX_S8_stateArgs", [mkArg STATE_CPENABLE "i"]);
  ("Iclass_EE_VMIN_S16_LD_INCP_args", [mkArg OPERAND_opnd_semantic_CAL_DOUBLE_Q_qu "o";
     mkArg OPERAND_opnd_semantic_CAL_DOUBLE_Q_as "m"; mkArg OPERAND_opnd_semantic_CAL_DOUBLE_Q_qa "o";
     mkArg OPERAND_opnd_semantic_CAL_DOUBLE_Q_qx "i"; mkArg OPERAND_opnd_semantic_CAL_DOUBLE_Q_qy "i"]);
  ("Iclass_EE_VMIN_S16_LD_INCP_stateArgs", [mkArg STATE_CPENABLE "i"])].

Definition s3_args_35 : list (string * list xtensa_arg_internal) := [
  ("Iclass_EE_VMIN_S16_ST_INCP_args", [mkArg OPERAND_opnd_semantic_CAL_DOUBLE_Q_qv "i";
     mkArg OPERAND_opnd_semantic_CAL_DOUBLE_Q_as "m"; mkArg OPERAND_opnd_semantic_CAL_DOUBLE_Q_qa "o";
     mkArg OPERAND_opnd_semantic_CAL_DOUBLE_Q_qx "i"; mkArg OPERAND_opnd_semantic_CAL_DOUBLE_Q_qy "i"]);
  ("Iclass_EE_VMIN_S16_ST_INCP_stateArgs", [mkArg STATE_CPENABLE "i"]);
  ("Iclass_EE_VMIN_S16_args", [mkArg OPERAND_opnd_semantic_CAL_DOUBLE_Q_qa "o";
     mkArg OPERAND_opnd_semantic_CAL_DOUBLE_Q_qx "i"; mkArg OPERAND_opnd_semantic_CAL_DOUBLE_Q_qy "i"]);
  ("Iclass_EE_VMIN_S16_stateArgs", [mkArg STATE_CPENABLE "i"]);
  ("Iclass_EE_VMIN_S32_LD_INCP_args", [mkArg OPERAND_opnd_semantic_CAL_DOUBLE_Q_qu "o";
     mkArg OPERAND_opnd_semantic_CAL_DOUBLE_Q_as "m"; mkArg OPERAND_opnd_semantic_CAL_DOUBLE_Q_qa "o";
     mkArg OPERAND_opnd_semantic_CAL_DOUBLE_Q_qx "i"; mkArg OPERAND_opnd_semantic_CAL_DOUBLE_Q_qy "i"]);
  ("Iclass_EE_VMIN_S32_LD_INCP_stateArgs", [mkArg STATE_CPENABLE "i"]);
  ("Iclass_EE_VMIN_S32_ST_INCP_args", [mkArg OPERAND_opnd_semantic_CAL_DOUBLE_Q_qv "i";
     mkArg OPERAND_opnd_semantic_CAL_DOUBLE_Q_as "m"; mkArg OPERAND_opnd_semantic_CAL_DOUBLE_Q_qa "o";
     mkArg OPERAND_opnd_semantic_CAL_DOUBLE_Q_qx "i"; mkArg OPERAND_opnd_semantic_CAL_DOUBLE_Q_qy "i"]);
  ("Iclass_EE_VMIN_S32_ST_INCP_stateArgs", [mkArg STATE_CPENABLE "i"]);
  ("Iclass_EE_VMIN_S32_args", [mkArg OPERAND_opnd_semantic_CAL_DOUBLE_Q_qa "o";
     mkArg OPERAND_opnd_semantic_CAL_DOUBLE_Q_qx "i"; mkArg OPERAND_opnd_semantic_CAL_DOUBLE_Q_qy "i"]);
  ("Iclass_EE_VMIN_S32_stateArgs", [mkArg STATE_CPENABLE "i"]);
  ("Iclass_EE_VMIN_S8_LD_INCP_args", [mkArg OPERAND_opnd_semantic_CAL_DOUBLE_Q_qu "o";
     mkArg OPERAND_opnd_semantic_CAL_DOUBLE_Q_as "m"; mkArg OPERAND_opnd_semantic_CAL_DOUBLE_Q_qa "o";
     mkArg OPERAND_opnd_semantic_CAL_DOUBLE_Q_qx "i"; mkArg OPERAND_opnd_semantic_CAL_DOUBLE_Q_qy "i"]);
  ("Iclass_EE_VMIN_S8_LD_INCP_stateArgs", [mkArg STATE_CPENABLE "i"]);
  ("Iclass_EE_VMIN_S8_ST_INCP_args", [mkArg OPERAND_opnd_semantic_CAL_DOUBLE_Q_qv "i";
     mkArg OPERAND_opnd_semantic_CAL_DOUBLE_Q_as "m"; mkArg OPERAND_opnd_semantic_CAL_DOUBLE_Q_qa "o";
     mkArg OPERAND_opnd_semantic_CAL_DOUBLE_Q_qx "i"; mkArg OPERAND_opnd_semantic_CAL_DOUBLE_Q_qy "i"]);
  ("Iclass_EE_VMIN_S8_ST_INCP_stateArgs", [mkArg STATE_CPENABLE "i"]);
  ("Iclass_EE_VMIN_S8_args", [mkArg OPERAND_opnd_semantic_CAL_DOUBLE_Q_qa "o";
     mkArg OPERAND_opnd_semantic_CAL_DOUBLE_Q_qx "i"; mkArg OPERAND_opnd_semantic_CAL_DOUBLE_Q_qy "i"]);
  ("Iclass_EE_VMIN_S8_stateArgs", [mkArg STATE_CPENABLE "i"]);
  ("Iclass_EE_VCMP_EQ_S16_args", [mkArg OPERAND_opnd_semantic_CAL_DOUBLE_Q_qa "o";
     mkArg OPERAND_opnd_semantic_CAL_DOUBLE_Q_qx "i"; mkArg OPERAND_opnd_semantic_CAL_DOUBLE_Q_qy "i"]);
  ("Iclass_EE_VCMP_EQ_S16_stateArgs", [mkArg STATE_CPENABLE "i"]);
  ("Iclass_EE_VCMP_EQ_S32_args", [mkArg OPERAND_opnd_semantic_CAL_DOUBLE_Q_qa "o";
     mkArg OPERAND_opnd_semantic_CAL_DOUBLE_Q_qx "i"; mkArg OPERAND_opnd_semantic_CAL_DOUBLE_Q_qy "i"]);
  ("Iclass_EE_VCMP_EQ_S32_stateArgs", [mkArg STATE_CPENABLE "i"]);
  ("Iclass_EE_VCMP_EQ_S8_args", [mkArg OPERAND_opnd_semantic_CAL_DOUBLE_Q_qa "o";
     mkArg OPERAND_opnd_semantic_CAL_DOUBLE_Q_qx "i"; mkArg OPERAND_opnd_semantic_CAL_DOUBLE_Q_qy "i"]);
  ("Iclass_EE_VCMP_EQ_S8_stateArgs", [mkArg STATE_CPENABLE "i"]);
  ("Iclass_EE_VCMP_GT_S16_args", [mkArg OPERAND_opnd_semantic_CAL_DOUBLE_Q_qa "o";
     mkArg OPERAND_opnd_semantic_CAL_DOUBLE_Q_qx "i"; mkArg OPERAND_opnd_semantic_CAL_DOUBLE_Q_qy "i"]);
  ("Iclass_EE_VCMP_GT_S16_stateArgs", [mkArg STATE_CPENABLE "i"]);
  ("Iclass_EE_VCMP_GT_S32_args", [mkArg OPERAND_opnd_semantic_CAL_DOUBLE_Q_qa "o";
     mkArg OPERAND_opnd_semantic_CAL_DOUBLE_Q_qx "i"; mkArg OPERAND_opnd_semantic_CAL_DOUBLE_Q_qy "i"]);
  ("Iclass_EE_VCMP_GT_S32_stateArgs", [mkArg STATE_CPENABLE "i"]);
  ("Iclass_EE_VCMP_GT_S8_args", [mkArg OPERAND_opnd_semantic_CAL_DOUBLE_Q_qa "o";
     mkArg OPERAND_opnd_semantic_CAL_DOUBLE_Q_qx "i"; mkArg OPERAND_opnd_semantic_CAL_DOUBLE_Q_qy "i"]);
  ("Iclass_EE_VCMP_GT_S8_stateArgs", [mkArg STATE_CPENABLE "i"])].

Definition s3_args_36 : list (string * list xtensa_arg_internal) := [
  ("Iclass_EE_VCMP_LT_S16_args", [mkArg OPERAND_opnd_semantic_CAL_DOUBLE_Q_qa "o";
     mkArg OPERAND_opnd_semantic_CAL_DOUBLE_Q_qx "i"; mkArg OPERAND_opnd_semantic_CAL_DOUBLE_Q_qy "i"]);
  ("Iclass_EE_VCMP_LT_S16_stateArgs", [mkArg STATE_CPENABLE "i"]);
  ("Iclass_EE_VCMP_LT_S32_args", [mkArg OPERAND_opnd_semantic_CAL_DOUBLE_Q_qa "o";
     mkArg OPERAND_opnd_semantic_CAL_DOUBLE_Q_qx "i"; mkArg OPERAND_opnd_semantic_CAL_DOUBLE_Q_qy "i"]);
  ("Iclass_EE_VCMP_LT_S32_stateArgs", [mkArg STATE_CPENABLE "i"]);
  ("Iclass_EE_VCMP_LT_S8_args", [mkArg OPERAND_opnd_semantic_CAL_DOUBLE_Q_qa "o";
     mkArg OPERAND_opnd_semantic_CAL_DOUBLE_Q_qx "i"; mkArg OPERAND_opnd_semantic_CAL_DOUBLE_Q_qy "i"]);
  ("Iclass_EE_VCMP_LT_S8_stateArgs", [mkArg STATE_CPENABLE "i"]);
  ("Iclass_EE_ANDQ_args", [mkArg OPERAND_opnd_semantic_VLOGIC_qa "o";
     mkArg OPERAND_opnd_semantic_VLOGIC_qx "i"; mkArg OPERAND_opnd_semantic_VLOGIC_qy "i"]);
  ("Iclass_EE_ANDQ_stateArgs", [mkArg STATE_CPENABLE "i"]);
  ("Iclass_EE_NOTQ_args", [mkArg OPERAND_opnd_semantic_VLOGIC_qa "o";
     mkArg OPERAND_opnd_semantic_VLOGIC_qx "i"]);
  ("Iclass_EE_NOTQ_stateArgs", [mkArg STATE_CPENABLE "i"]);
  ("Iclass_EE_ORQ_args", [mkArg OPERAND_opnd_semantic_VLOGIC_qa "o";
     mkArg OPERAND_opnd_semantic_VLOGIC_qx "i"; mkArg OPERAND_opnd_semantic_VLOGIC_qy "i"]);
  ("Iclass_EE_ORQ_stateArgs", [mkArg STATE_CPENABLE "i"]);
  ("Iclass_EE_XORQ_args", [mkArg OPERAND_opnd_semantic_VLOGIC_qa "o";
     mkArg OPERAND_opnd_semantic_VLOGIC_qx "i"; mkArg OPERAND_opnd_semantic_VLOGIC_qy "i"]);
  ("Iclass_EE_XORQ_stateArgs", [mkArg STATE_CPENABLE "i"]);
  ("Iclass_EE_SLCI_2Q_args", [mkArg OPERAND_opnd_semantic_SHFQ_qs1 "m";
     mkArg OPERAND_opnd_semantic_SHFQ_qs0 "m"; mkArg OPERAND_opnd_semantic_SHFQ_sar16 "i"]);
  ("Iclass_EE_SLCI_2Q_stateArgs", [mkArg STATE_CPENABLE "i"]);
  ("Iclass_EE_SLCXXP_2Q_args", [mkArg OPERAND_opnd_semantic_SHFQ_qs1 "m";
     mkArg OPERAND_opnd_semantic_SHFQ_qs0 "m"; mkArg OPERAND_opnd_semantic_SHFQ_as "m";
     mkArg OPERAND_opnd_semantic_SHFQ_ad "i"]);
  ("Iclass_EE_SLCXXP_2Q_stateArgs", [mkArg STATE_CPENABLE "i"]);
  ("Iclass_EE_SRCI_2Q_args", [mkArg OPERAND_opnd_semantic_SHFQ_qs1 "m";
     mkArg OPERAND_opnd_semantic_SHFQ_qs0 "m"; mkArg OPERAND_opnd_semantic_SHFQ_sar16 "i"]);
  ("Iclass_EE_SRCI_2Q_stateArgs", [mkArg STATE_CPENABLE "i"]);
  ("Iclass_EE_SRCQ_128_ST_INCP_args", [mkArg OPERAND_opnd_semantic_SHFQ_qs0 "i";
     mkArg OPERAND_opnd_semantic_SHFQ_qs1 "i"; mkArg OPERAND_opnd_semantic_SHFQ_as "m"]);
  ("Iclass_EE_SRCQ_128_ST_INCP_stateArgs", [mkArg STATE_SAR_BYTE "i"; mkArg STATE_CPENABLE "i"]);
  ("Iclass_EE_SRC_Q_LD_IP_args", [mkArg OPERAND_opnd_semantic_SHFQ_qu "o";
     mkArg OPERAND_opnd_semantic_SHFQ_as "m"; mkArg OPERAND_opnd_semantic_SHFQ_imm16 "i";
     mkArg OPERAND_opnd_semantic_SHFQ_qs0 "m"; mkArg OPERAND_opnd_semantic_SHFQ_qs1 "i"]);
  ("Iclass_EE_SRC_Q_LD_IP_stateArgs", [mkArg STATE_SAR_BYTE "i"; mkArg STATE_CPENABLE "i"]);
  ("Iclass_EE_SRC_Q_LD_XP_args", [mkArg OPERAND_opnd_semantic_SHFQ_qu "o";
     mkArg OPERAND_opnd_semantic_SHFQ_as "m"; mkArg OPERAND_opnd_semantic_SHFQ_ad "i";
     mkArg OPERAND_opnd_semantic_SHFQ_qs0 "m"; mkArg OPERAND_opnd_semantic_SHFQ_qs1 "i"]);
  ("Iclass_EE_SRC_Q_LD_XP_stateArgs", [mkArg STATE_SAR_BYTE "i"; mkArg STATE_CPENABLE "i"]);
  ("Iclass_EE_SRC_Q_QUP_args", [mkArg OPERAND_opnd_semantic_SHFQ_qa "o";
     mkArg OPERAND_opnd_semantic_SHFQ_qs0 "m"; mkArg OPERAND_opnd_semantic_SHFQ_qs1 "i"]);
  ("Iclass_EE_SRC_Q_QUP_stateArgs", [mkArg STATE_SAR_BYTE "i"; mkArg STATE_CPENABLE "i"])].

Definition s3_args_37 : list (string * list xtensa_arg_internal) := [
  ("Iclass_EE_SRC_Q_args", [mkArg OPERAND_opnd_semantic_SHFQ_qa "o";
     mkArg OPERAND_opnd_semantic_SHFQ_qs0 "i"; mkArg OPERAND_opnd_semantic_SHFQ_qs1 "i"]);
  ("Iclass_EE_SRC_Q_stateArgs", [mkArg STATE_SAR_BYTE "i"; mkArg STATE_CPENABLE "i"]);
  ("Iclass_EE_SRCXXP_2Q_args", [mkArg OPERAND_opnd_semantic_SHFQ_qs1 "m";
     mkArg OPERAND_opnd_semantic_SHFQ_qs0 "m"; mkArg OPERAND_opnd_semantic_SHFQ_as "m";
     mkArg OPERAND_opnd_semantic_SHFQ_ad "i"]);
  ("Iclass_EE_SRCXXP_2Q_stateArgs", [mkArg STATE_CPENABLE "i"]);
  ("Iclass_EE_VSL_32_args", [mkArg OPERAND_opnd_semantic_SHFQ_qa "o";
     mkArg OPERAND_opnd_semantic_SHFQ_qs "i"]);
  ("Iclass_EE_VSL_32_stateArgs", [mkArg STATE_SAR "i"; mkArg STATE_CPENABLE "i"]);
  ("Iclass_EE_VSR_32_args", [mkArg OPERAND_opnd_semantic_SHFQ_qa "o";
     mkArg OPERAND_opnd_semantic_SHFQ_qs "i"]);
  ("Iclass_EE_VSR_32_stateArgs", [mkArg STATE_SAR "i"; mkArg STATE_CPENABLE "i"]);
  ("Iclass_EE_FFT_R2BF_S16_ST_INCP_args", [mkArg OPERAND_opnd_semantic_FFT_RxBF_qa0 "o";
     mkArg OPERAND_opnd_semantic_FFT_RxBF_qx "i"; mkArg OPERAND_opnd_semantic_FFT_RxBF_qy "i";
     mkArg OPERAND_opnd_semantic_FFT_RxBF_as "m"; mkArg OPERAND_opnd_semantic_FFT_RxBF_sar4 "i"]);
  ("Iclass_EE_FFT_R2BF_S16_ST_INCP_stateArgs", [mkArg STATE_CPENABLE "i"]);
  ("Iclass_EE_FFT_R2BF_S16_args", [mkArg OPERAND_opnd_semantic_FFT_RxBF_qa0 "o";
     mkArg OPERAND_opnd_semantic_FFT_RxBF_qa1 "o"; mkArg OPERAND_opnd_semantic_FFT_RxBF_qx "i";
     mkArg OPERAND_opnd_semantic_FFT_RxBF_qy "i"; mkArg OPERAND_opnd_semantic_FFT_RxBF_sel2 "i"]);
  ("Iclass_EE_FFT_R2BF_S16_stateArgs", [mkArg STATE_CPENABLE "i"]);
  ("Iclass_EE_FFT_CMUL_S16_LD_XP_args", [mkArg OPERAND_opnd_EE_FFT_CMUL_S16_LD_XP_qu "o";
     mkArg OPERAND_opnd_EE_FFT_CMUL_S16_LD_XP_as "m"; mkArg OPERAND_opnd_EE_FFT_CMUL_S16_LD_XP_ad "i";
     mkArg OPERAND_opnd_EE_FFT_CMUL_S16_LD_XP_qz "m"; mkArg OPERAND_opnd_EE_FFT_CMUL_S16_LD_XP_qx "i";
     mkArg OPERAND_opnd_EE_FFT_CMUL_S16_LD_XP_qy "i"; mkArg OPERAND_opnd_EE_FFT_CMUL_S16_LD_XP_sel8 "i"]);
  ("Iclass_EE_FFT_CMUL_S16_LD_XP_stateArgs", [mkArg STATE_SAR "i"; mkArg STATE_CPENABLE "i"]);
  ("Iclass_EE_FFT_CMUL_S16_ST_XP_args", [mkArg OPERAND_opnd_EE_FFT_CMUL_S16_ST_XP_qx "i";
     mkArg OPERAND_opnd_EE_FFT_CMUL_S16_ST_XP_qy "i"; mkArg OPERAND_opnd_EE_FFT_CMUL_S16_ST_XP_qv "i";
     mkArg OPERAND_opnd_EE_FFT_CMUL_S16_ST_XP_as "m"; mkArg OPERAND_opnd_EE_FFT_CMUL_S16_ST_XP_ad "i";
     mkArg OPERAND_opnd_EE_FFT_CMUL_S16_ST_XP_sel8 "i"; mkArg OPERAND_opnd_EE_FFT_CMUL_S16_ST_XP_upd4 "i";
     mkArg OPERAND_opnd_EE_FFT_CMUL_S16_ST_XP_sar4 "i"]);
  ("Iclass_EE_FFT_CMUL_S16_ST_XP_stateArgs", [mkArg STATE_SAR "i"; mkArg STATE_CPENABLE "i"]);
  ("Iclass_EE_BITREV_args", [mkArg OPERAND_opnd_EE_BITREV_qa "o"; mkArg OPERAND_opnd_EE_BITREV_ax "m"]);
  ("Iclass_EE_BITREV_stateArgs", [mkArg STATE_FFT_BIT_WIDTH "i"; mkArg STATE_CPENABLE "i"]);
  ("Iclass_EE_FFT_AMS_S16_LD_INCP_args", [mkArg OPERAND_opnd_EE_FFT_AMS_S16_LD_INCP_qu "o";
     mkArg OPERAND_opnd_EE_FFT_AMS_S16_LD_INCP_as "m"; mkArg OPERAND_opnd_EE_FFT_AMS_S16_LD_INCP_qz "m";
     mkArg OPERAND_opnd_EE_FFT_AMS_S16_LD_INCP_qz1 "m"; mkArg OPERAND_opnd_EE_FFT_AMS_S16_LD_INCP_qx "i";
     mkArg OPERAND_opnd_EE_FFT_AMS_S16_LD_INCP_qy "i"; mkArg OPERAND_opnd_EE_FFT_AMS_S16_LD_INCP_qm "i";
     mkArg OPERAND_opnd_EE_FFT_AMS_S16_LD_INCP_sel2 "i"]);
  ("Iclass_EE_FFT_AMS_S16_LD_INCP_stateArgs", [mkArg STATE_SAR "i"; mkArg STATE_CPENABLE "i"]);
  ("Iclass_EE_FFT_AMS_S16_LD_INCP_UAUP_args", [mkArg OPERAND_opnd_EE_FFT_AMS_S16_LD_INCP_UAUP_qu "o";
     mkArg OPERAND_opnd_EE_FFT_AMS_S16_LD_INCP_UAUP_as "m";
     mkArg OPERAND_opnd_EE_FFT_AMS_S16_LD_INCP_UAUP_qz "m";
     mkArg OPERAND_opnd_EE_FFT_AMS_S16_LD_INCP_UAUP_qz1 "m";
     mkArg OPERAND_opnd_EE_FFT_AMS_S16_LD_INCP_UAUP_qx "i";
     mkArg OPERAND_opnd_EE_FFT_AMS_S16_LD_INCP_UAUP_qy "i";
     mkArg OPERAND_opnd_EE_FFT_AMS_S16_LD_INCP_UAUP_qm "i";
     mkArg OPERAND_opnd_EE_FFT_AMS_S16_LD_INCP_UAUP_sel2 "i"]);
  ("Iclass_EE_FFT_AMS_S16_LD_INCP_UAUP_stateArgs", [mkArg STATE_SAR "i"; mkArg STATE_SAR_BYTE "i";
     mkArg STATE_UA_STATE "m"; mkArg STATE_CPENABLE "i"])].

Definition s3_args_38 : list (string * list xtensa_arg_internal) := [
  ("Iclass_EE_FFT_AMS_S16_LD_R32_DECP_args", [mkArg OPERAND_opnd_EE_FFT_AMS_S16_LD_R32_DECP_qu "o";
     mkArg OPERAND_opnd_EE_FFT_AMS_S16_LD_R32_DECP_as "m";
     mkArg OPERAND_opnd_EE_FFT_AMS_S16_LD_R32_DECP_qz "m";
     mkArg OPERAND_opnd_EE_FFT_AMS_S16_LD_R32_DECP_qz1 "m";
     mkArg OPERAND_opnd_EE_FFT_AMS_S16_LD_R32_DECP_qx "i";
     mkArg OPERAND_opnd_EE_FFT_AMS_S16_LD_R32_DECP_qy "i";
     mkArg OPERAND_opnd_EE_FFT_AMS_S16_LD_R32_DECP_qm "i";
     mkArg OPERAND_opnd_EE_FFT_AMS_S16_LD_R32_DECP_sel2 "i"]);
  ("Iclass_EE_FFT_AMS_S16_LD_R32_DECP_stateArgs", [mkArg STATE_SAR "i"; mkArg STATE_CPENABLE "i"]);
  ("Iclass_EE_FFT_AMS_S16_ST_INCP_args", [mkArg OPERAND_opnd_EE_FFT_AMS_S16_ST_INCP_qv "i";
     mkArg OPERAND_opnd_EE_FFT_AMS_S16_ST_INCP_qz1 "m"; mkArg OPERAND_opnd_EE_FFT_AMS_S16_ST_INCP_as0 "m";
     mkArg OPERAND_opnd_EE_FFT_AMS_S16_ST_INCP_as "m"; mkArg OPERAND_opnd_EE_FFT_AMS_S16_ST_INCP_qx "i";
     mkArg OPERAND_opnd_EE_FFT_AMS_S16_ST_INCP_qy "i"; mkArg OPERAND_opnd_EE_FFT_AMS_S16_ST_INCP_qm "i";
     mkArg OPERAND_opnd_EE_FFT_AMS_S16_ST_INCP_sel2 "i"]);
  ("Iclass_EE_FFT_AMS_S16_ST_INCP_stateArgs", [mkArg STATE_SAR "i"; mkArg STATE_CPENABLE "i"]);
  ("Iclass_EE_FFT_VST_R32_DECP_args", [mkArg OPERAND_opnd_EE_FFT_VST_R32_DECP_qv "i";
     mkArg OPERAND_opnd_EE_FFT_VST_R32_DECP_as "m"; mkArg OPERAND_opnd_EE_FFT_VST_R32_DECP_sar2 "i"]);
  ("Iclass_EE_FFT_VST_R32_DECP_stateArgs", [mkArg STATE_CPENABLE "i"]);
  ("Iclass_rur_accx_0_args", [mkArg OPERAND_arr "o"]);
  ("Iclass_rur_accx_0_stateArgs", [mkArg STATE_ACCX "i"; mkArg STATE_CPENABLE "i"]);
  ("Iclass_wur_accx_0_args", [mkArg OPERAND_art "i"]);
  ("Iclass_wur_accx_0_stateArgs", [mkArg STATE_ACCX "m"; mkArg STATE_CPENABLE "i"]);
  ("Iclass_rur_accx_1_args", [mkArg OPERAND_arr "o"]);
  ("Iclass_rur_accx_1_stateArgs", [mkArg STATE_ACCX "i"; mkArg STATE_CPENABLE "i"]);
  ("Iclass_wur_accx_1_args", [mkArg OPERAND_art "i"]);
  ("Iclass_wur_accx_1_stateArgs", [mkArg STATE_ACCX "m"; mkArg STATE_CPENABLE "i"]);
  ("Iclass_rur_qacc_h_0_args", [mkArg OPERAND_arr "o"]);
  ("Iclass_rur_qacc_h_0_stateArgs", [mkArg STATE_QACC_H "i"; mkArg STATE_CPENABLE "i"]);
  ("Iclass_wur_qacc_h_0_args", [mkArg OPERAND_art "i"]);
  ("Iclass_wur_qacc_h_0_stateArgs", [mkArg STATE_QACC_H "m"; mkArg STATE_CPENABLE "i"]);
  ("Iclass_rur_qacc_h_1_args", [mkArg OPERAND_arr "o"]);
  ("Iclass_rur_qacc_h_1_stateArgs", [mkArg STATE_QACC_H "i"; mkArg STATE_CPENABLE "i"]);
  ("Iclass_wur_qacc_h_1_args", [mkArg OPERAND_art "i"]);
  ("Iclass_wur_qacc_h_1_stateArgs", [mkArg STATE_QACC_H "m"; mkArg STATE_CPENABLE "i"]);
  ("Iclass_rur_qacc_h_2_args", [mkArg OPERAND_arr "o"]);
  ("Iclass_rur_qacc_h_2_stateArgs", [mkArg STATE_QACC_H "i"; mkArg STATE_CPENABLE "i"]);
  ("Iclass_wur_qacc_h_2_args", [mkArg OPERAND_art "i"]);
  ("Iclass_wur_qacc_h_2_stateArgs", [mkArg STATE_QACC_H "m"; mkArg STATE_CPENABLE "i"]);
  ("Iclass_rur_qacc_h_3_args", [mkArg OPERAND_arr "o"]);
  ("Iclass_rur_qacc_h_3_stateArgs", [mkArg STATE_QACC_H "i"; mkArg STATE_CPENABLE "i"]);
  ("Iclass_wur_qacc_h_3_args", [mkArg OPERAND_art "i"]);
  ("Iclass_wur_qacc_h_3_stateArgs", [mkArg STATE_QACC_H "m"; mkArg STATE_CPENABLE "i"])].

Definition s3_args_39 : list (string * list xtensa_arg_internal) := [
  ("Iclass_rur_qacc_h_4_args", [mkArg OPERAND_arr "o"]);
  ("Iclass_rur_qacc_h_4_stateArgs", [mkArg STATE_QACC_H "i"; mkArg STATE_CPENABLE "i"]);
  ("Iclass_wur_qacc_h_4_args", [mkArg OPERAND_art "i"]);
  ("Iclass_wur_qacc_h_4_stateArgs", [mkArg STATE_QACC_H "m"; mkArg STATE_CPENABLE "i"]);
  ("Iclass_rur_qacc_l_0_args", [mkArg OPERAND_arr "o"]);
  ("Iclass_rur_qacc_l_0_stateArgs", [mkArg STATE_QACC_L "i"; mkArg STATE_CPENABLE "i"]);
  ("Iclass_wur_qacc_l_0_args", [mkArg OPERAND_art "i"]);
  ("Iclass_wur_qacc_l_0_stateArgs", [mkArg STATE_QACC_L "m"; mkArg STATE_CPENABLE "i"]);
  ("Iclass_rur_qacc_l_1_args", [mkArg OPERAND_arr "o"]);
  ("Iclass_rur_qacc_l_1_stateArgs", [mkArg STATE_QACC_L "i"; mkArg STATE_CPENABLE "i"]);
  ("Iclass_wur_qacc_l_1_args", [mkArg OPERAND_art "i"]);
  ("Iclass_wur_qacc_l_1_stateArgs", [mkArg STATE_QACC_L "m"; mkArg STATE_CPENABLE "i"]);
  ("Iclass_rur_qacc_l_2_args", [mkArg OPERAND_arr "o"]);
  ("Iclass_rur_qacc_l_2_stateArgs", [mkArg STATE_QACC_L "i"; mkArg STATE_CPENABLE "i"]);
  ("Iclass_wur_qacc_l_2_args", [mkArg OPERAND_art "i"]);
  ("Iclass_wur_qacc_l_2_stateArgs", [mkArg STATE_QACC_L "m"; mkArg STATE_CPENABLE "i"]);
  ("Iclass_rur_qacc_l_3_args", [mkArg OPERAND_arr "o"]);
  ("Iclass_rur_qacc_l_3_stateArgs", [mkArg STATE_QACC_L "i"; mkArg STATE_CPENABLE "i"]);
  ("Iclass_wur_qacc_l_3_args", [mkArg OPERAND_art "i"]);
  ("Iclass_wur_qacc_l_3_stateArgs", [mkArg STATE_QACC_L "m"; mkArg STATE_CPENABLE "i"]);
  ("Iclass_rur_qacc_l_4_args", [mkArg OPERAND_arr "o"]);
  ("Iclass_rur_qacc_l_4_stateArgs", [mkArg STATE_QACC_L "i"; mkArg STATE_CPENABLE "i"]);
  ("Iclass_wur_qacc_l_4_args", [mkArg OPERAND_art "i"]);
  ("Iclass_wur_qacc_l_4_stateArgs", [mkArg STATE_QACC_L "m"; mkArg STATE_CPENABLE "i"]);
  ("Iclass_rur_gpio_out_args", [mkArg OPERAND_arr "o"]);
  ("Iclass_rur_gpio_out_stateArgs", [mkArg STATE_GPIO_OUT "i"]);
  ("Iclass_wur_gpio_out_args", [mkArg OPERAND_art "i"]);
  ("Iclass_wur_gpio_out_stateArgs", [mkArg STATE_GPIO_OUT "o"]);
  ("Iclass_rur_sar_byte_args", [mkArg OPERAND_arr "o"]);
  ("Iclass_rur_sar_byte_stateArgs", [mkArg STATE_SAR_BYTE "i"; mkArg STATE_CPENABLE "i"]);
  ("Iclass_wur_sar_byte_args", [mkArg OPERAND_art "i"]);
  ("Iclass_wur_sar_byte_stateArgs", [mkArg STATE_SAR_BYTE "o"; mkArg STATE_CPENABLE "i"]);
  ("Iclass_rur_fft_bit_width_args", [mkArg OPERAND_arr "o"]);
  ("Iclass_rur_fft_bit_width_stateArgs", [mkArg STATE_FFT_BIT_WIDTH "i"; mkArg STATE_CPENABLE "i"])].

Definition s3_args_40 : list (string * list xtensa_arg_internal) := [
  ("Iclass_wur_fft_bit_width_args", [mkArg OPERAND_art "i"]);
  ("Iclass_wur_fft_bit_width_stateArgs", [mkArg STATE_FFT_BIT_WIDTH "o"; mkArg STATE_CPENABLE "i"]);
  ("Iclass_rur_ua_state_0_args", [mkArg OPERAND_arr "o"]);
  ("Iclass_rur_ua_state_0_stateArgs", [mkArg STATE_UA_STATE "i"; mkArg STATE_CPENABLE "i"]);
  ("Iclass_wur_ua_state_0_args", [mkArg OPERAND_art "i"]);
  ("Iclass_wur_ua_state_0_stateArgs", [mkArg STATE_UA_STATE "m"; mkArg STATE_CPENABLE "i"]);
  ("Iclass_rur_ua_state_1_args", [mkArg OPERAND_arr "o"]);
  ("Iclass_rur_ua_state_1_stateArgs", [mkArg STATE_UA_STATE "i"; mkArg STATE_CPENABLE "i"]);
  ("Iclass_wur_ua_state_1_args", [mkArg OPERAND_art "i"]);
  ("Iclass_wur_ua_state_1_stateArgs", [mkArg STATE_UA_STATE "m"; mkArg STATE_CPENABLE "i"]);
  ("Iclass_rur_ua_state_2_args", [mkArg OPERAND_arr "o"]);
  ("Iclass_rur_ua_state_2_stateArgs", [mkArg STATE_UA_STATE "i"; mkArg STATE_CPENABLE "i"]);
  ("Iclass_wur_ua_state_2_args", [mkArg OPERAND_art "i"]);
  ("Iclass_wur_ua_state_2_stateArgs", [mkArg STATE_UA_STATE "m"; mkArg STATE_CPENABLE "i"]);
  ("Iclass_rur_ua_state_3_args", [mkArg OPERAND_arr "o"]);
  ("Iclass_rur_ua_state_3_stateArgs", [mkArg STATE_UA_STATE "i"; mkArg STATE_CPENABLE "i"]);
  ("Iclass_wur_ua_state_3_args", [mkArg OPERAND_art "i"]);
  ("Iclass_wur_ua_state_3_stateArgs", [mkArg STATE_UA_STATE "m"; mkArg STATE_CPENABLE "i"])].

Definition s3_args : list (string * list xtensa_arg_internal) :=
  s3_args_1 ++ s3_args_2 ++ s3_args_3 ++ s3_args_4 ++ s3_args_5 ++ s3_args_6 ++ s3_args_7 ++ s3_args_8 ++
   s3_args_9 ++ s3_args_10 ++ s3_args_11 ++ s3_args_12 ++ s3_args_13 ++ s3_args_14 ++ s3_args_15 ++
   s3_args_16 ++ s3_args_17 ++ s3_args_18 ++ s3_args_19 ++ s3_args_20 ++ s3_args_21 ++ s3_args_22 ++
   s3_args_23 ++ s3_args_24 ++ s3_args_25 ++ s3_args_26 ++ s3_args_27 ++ s3_args_28 ++ s3_args_29 ++
   s3_args_30 ++ s3_args_31 ++ s3_args_32 ++ s3_args_33 ++ s3_args_34 ++ s3_args_35 ++ s3_args_36 ++
   s3_args_37 ++ s3_args_38 ++ s3_args_39 ++ s3_args_40.

Definition s3_interface_args : list (string * list Z) := [("Iclass_xt_iclass_rer_intfArgs", [INTERFACE_ERI_RD_In; INTERFACE_ERI_RD_Out]); ("Iclass_xt_iclass_wer_intfArgs", [INTERFACE_ERI_WR_In; INTERFACE_ERI_WR_Out]); ("Iclass_EE_GET_GPIO_IN_intfArgs", [INTERFACE_GPIO_IN])].

(** ** Classes *)

(** A class, with the arrays by name ([None] for a null pointer). *)
Definition s3_iclass (n : Z) (args : option string) (ns : Z) (states_ : option string) (ni : Z) (intf : option string)
  : xtensa_iclass_internal :=
  let find {A} (t : list (string * list A)) (k : option string) (n : Z) : list A :=
    match k with None => [] | Some k => take (Z.to_nat n) (default [] (snd <$> List.find (fun e => String.eqb e.1 k) t)) end in
  mkIclass (find s3_args args n) (find s3_args states_ ns) (find s3_interface_args intf ni).

Definition s3_iclasses_1 : list xtensa_iclass_internal := [
  s3_iclass 3 (Some "Iclass_LSI_args") 1 (Some "Iclass_LSI_stateArgs") 0 None;
  s3_iclass 3 (Some "Iclass_LSIP_args") 1 (Some "Iclass_LSIP_stateArgs") 0 None;
  s3_iclass 3 (Some "Iclass_LSX_args") 1 (Some "Iclass_LSX_stateArgs") 0 None;
  s3_iclass 3 (Some "Iclass_LSXP_args") 1 (Some "Iclass_LSXP_stateArgs") 0 None;
  s3_iclass 3 (Some "Iclass_SSI_args") 1 (Some "Iclass_SSI_stateArgs") 0 None;
  s3_iclass 3 (Some "Iclass_SSIP_args") 1 (Some "Iclass_SSIP_stateArgs") 0 None;
  s3_iclass 3 (Some "Iclass_SSX_args") 1 (Some "Iclass_SSX_stateArgs") 0 None;
  s3_iclass 3 (Some "Iclass_SSXP_args") 1 (Some "Iclass_SSXP_stateArgs") 0 None;
  s3_iclass 2 (Some "Iclass_ABS_S_args") 1 (Some "Iclass_ABS_S_stateArgs") 0 None;
  s3_iclass 2 (Some "Iclass_NEG_S_args") 1 (Some "Iclass_NEG_S_stateArgs") 0 None;
  s3_iclass 2 (Some "Iclass_MOV_S_args") 1 (Some "Iclass_MOV_S_stateArgs") 0 None;
  s3_iclass 3 (Some "Iclass_MOVEQZ_S_args") 1 (Some "Iclass_MOVEQZ_S_stateArgs") 0 None;
  s3_iclass 3 (Some "Iclass_MOVNEZ_S_args") 1 (Some "Iclass_MOVNEZ_S_stateArgs") 0 None;
  s3_iclass 3 (Some "Iclass_MOVLTZ_S_args") 1 (Some "Iclass_MOVLTZ_S_stateArgs") 0 None;
  s3_iclass 3 (Some "Iclass_MOVGEZ_S_args") 1 (Some "Iclass_MOVGEZ_S_stateArgs") 0 None;
  s3_iclass 3 (Some "Iclass_MOVF_S_args") 1 (Some "Iclass_MOVF_S_stateArgs") 0 None;
  s3_iclass 3 (Some "Iclass_MOVT_S_args") 1 (Some "Iclass_MOVT_S_stateArgs") 0 None;
  s3_iclass 2 (Some "Iclass_WFR_args") 1 (Some "Iclass_WFR_stateArgs") 0 None;
  s3_iclass 2 (Some "Iclass_RFR_args") 1 (Some "Iclass_RFR_stateArgs") 0 None;
  s3_iclass 3 (Some "Iclass_ROUND_S_args") 3 (Some "Iclass_ROUND_S_stateArgs") 0 None;
  s3_iclass 3 (Some "Iclass_CEIL_S_args") 3 (Some "Iclass_CEIL_S_stateArgs") 0 None;
  s3_iclass 3 (Some "Iclass_FLOOR_S_args") 3 (Some "Iclass_FLOOR_S_stateArgs") 0 None;
  s3_iclass 3 (Some "Iclass_TRUNC_S_args") 3 (Some "Iclass_TRUNC_S_stateArgs") 0 None;
  s3_iclass 3 (Some "Iclass_UTRUNC_S_args") 3 (Some "Iclass_UTRUNC_S_stateArgs") 0 None;
  s3_iclass 3 (Some "Iclass_FLOAT_S_args") 3 (Some "Iclass_FLOAT_S_stateArgs") 0 None;
  s3_iclass 3 (Some "Iclass_UFLOAT_S_args") 3 (Some "Iclass_UFLOAT_S_stateArgs") 0 None;
  s3_iclass 3 (Some "Iclass_UN_S_args") 2 (Some "Iclass_UN_S_stateArgs") 0 None;
  s3_iclass 3 (Some "Iclass_ULT_S_args") 2 (Some "Iclass_ULT_S_stateArgs") 0 None;
  s3_iclass 3 (Some "Iclass_ULE_S_args") 2 (Some "Iclass_ULE_S_stateArgs") 0 None;
  s3_iclass 3 (Some "Iclass_UEQ_S_args") 2 (Some "Iclass_UEQ_S_stateArgs") 0 None;
  s3_iclass 3 (Some "Iclass_OLT_S_args") 2 (Some "Iclass_OLT_S_stateArgs") 0 None;
  s3_iclass 3 (Some "Iclass_OLE_S_args") 2 (Some "Iclass_OLE_S_stateArgs") 0 None;
  s3_iclass 3 (Some "Iclass_OEQ_S_args") 2 (Some "Iclass_OEQ_S_stateArgs") 0 None;
  s3_iclass 3 (Some "Iclass_ADD_S_args") 6 (Some "Iclass_ADD_S_stateArgs") 0 None;
  s3_iclass 3 (Some "Iclass_SUB_S_args") 6 (Some "Iclass_SUB_S_stateArgs") 0 None;
  s3_iclass 3 (Some "Iclass_MUL_S_args") 6 (Some "Iclass_MUL_S_stateArgs") 0 None;
  s3_iclass 3 (Some "Iclass_MADD_S_args") 6 (Some "Iclass_MADD_S_stateArgs") 0 None;
  s3_iclass 3 (Some "Iclass_MSUB_S_args") 6 (Some "Iclass_MSUB_S_stateArgs") 0 None;
  s3_iclass 2 (Some "Iclass_SQRT0_S_args") 1 (Some "Iclass_SQRT0_S_stateArgs") 0 None;
  s3_iclass 2 (Some "Iclass_DIV0_S_args") 1 (Some "Iclass_DIV0_S_stateArgs") 0 None;
  s3_iclass 2 (Some "Iclass_RECIP0_S_args") 3 (Some "Iclass_RECIP0_S_stateArgs") 0 None;
  s3_iclass 2 (Some "Iclass_RSQRT0_S_args") 3 (Some "Iclass_RSQRT0_S_stateArgs") 0 None;
  s3_iclass 3 (Some "Iclass_MADDN_S_args") 1 (Some "Iclass_MADDN_S_stateArgs") 0 None;
  s3_iclass 3 (Some "Iclass_DIVN_S_args") 5 (Some "Iclass_DIVN_S_stateArgs") 0 None;
  s3_iclass 2 (Some "Iclass_CONST_S_args") 1 (Some "Iclass_CONST_S_stateArgs") 0 None;
  s3_iclass 2 (Some "Iclass_NEXP01_S_args") 1 (Some "Iclass_NEXP01_S_stateArgs") 0 None;
  s3_iclass 2 (Some "Iclass_ADDEXP_S_args") 1 (Some "Iclass_ADDEXP_S_stateArgs") 0 None;
  s3_iclass 2 (Some "Iclass_ADDEXPM_S_args") 1 (Some "Iclass_ADDEXPM_S_stateArgs") 0 None;
  s3_iclass 2 (Some "Iclass_MKDADJ_S_args") 3 (Some "Iclass_MKDADJ_S_stateArgs") 0 None;
  s3_iclass 2 (Some "Iclass_MKSADJ_S_args") 2 (Some "Iclass_MKSADJ_S_stateArgs") 0 None;
  s3_iclass 0 None 0 None 0 None;
  s3_iclass 0 None 2 (Some "Iclass_xt_iclass_rfe_stateArgs") 0 None;
  s3_iclass 0 None 1 (Some "Iclass_xt_iclass_rfde_stateArgs") 0 None;
  s3_iclass 0 None 0 None 0 None;
  s3_iclass 2 (Some "Iclass_xt_iclass_call12_args") 1 (Some "Iclass_xt_iclass_call12_stateArgs") 0 None;
  s3_iclass 2 (Some "Iclass_xt_iclass_call8_args") 1 (Some "Iclass_xt_iclass_call8_stateArgs") 0 None;
  s3_iclass 2 (Some "Iclass_xt_iclass_call4_args") 1 (Some "Iclass_xt_iclass_call4_stateArgs") 0 None;
  s3_iclass 2 (Some "Iclass_xt_iclass_callx12_args") 1 (Some "Iclass_xt_iclass_callx12_stateArgs") 0 None;
  s3_iclass 2 (Some "Iclass_xt_iclass_callx8_args") 1 (Some "Iclass_xt_iclass_callx8_stateArgs") 0 None;
  s3_iclass 2 (Some "Iclass_xt_iclass_callx4_args") 1 (Some "Iclass_xt_iclass_callx4_stateArgs") 0 None;
  s3_iclass 3 (Some "Iclass_xt_iclass_entry_args") 5 (Some "Iclass_xt_iclass_entry_stateArgs") 0 None;
  s3_iclass 2 (Some "Iclass_xt_iclass_movsp_args") 2 (Some "Iclass_xt_iclass_movsp_stateArgs") 0 None;
  s3_iclass 1 (Some "Iclass_xt_iclass_rotw_args") 1 (Some "Iclass_xt_iclass_rotw_stateArgs") 0 None;
  s3_iclass 1 (Some "Iclass_xt_iclass_retw_args") 5 (Some "Iclass_xt_iclass_retw_stateArgs") 0 None;
  s3_iclass 0 None 5 (Some "Iclass_xt_iclass_rfwou_stateArgs") 0 None;
  s3_iclass 3 (Some "Iclass_xt_iclass_l32e_args") 0 None 0 None;
  s3_iclass 3 (Some "Iclass_xt_iclass_s32e_args") 0 None 0 None;
  s3_iclass 1 (Some "Iclass_xt_iclass_rsr_windowbase_args") 1 (Some "Iclass_xt_iclass_rsr_windowbase_stateArgs") 0 None;
  s3_iclass 1 (Some "Iclass_xt_iclass_wsr_windowbase_args") 1 (Some "Iclass_xt_iclass_wsr_windowbase_stateArgs") 0 None;
  s3_iclass 1 (Some "Iclass_xt_iclass_xsr_windowbase_args") 1 (Some "Iclass_xt_iclass_xsr_windowbase_stateArgs") 0 None;
  s3_iclass 1 (Some "Iclass_xt_iclass_rsr_windowstart_args") 1 (Some "Iclass_xt_iclass_rsr_windowstart_stateArgs") 0 None;
  s3_iclass 1 (Some "Iclass_xt_iclass_wsr_windowstart_args") 1 (Some "Iclass_xt_iclass_wsr_windowstart_stateArgs") 0 None;
  s3_iclass 1 (Some "Iclass_xt_iclass_xsr_windowstart_args") 1 (Some "Iclass_xt_iclass_xsr_windowstart_stateArgs") 0 None;
  s3_iclass 3 (Some "Iclass_xt_iclass_add_n_args") 0 None 0 None;
  s3_iclass 3 (Some "Iclass_xt_iclass_addi_n_args") 0 None 0 None].

Definition s3_iclasses_2 : list xtensa_iclass_internal := [
  s3_iclass 2 (Some "Iclass_xt_iclass_bz6_args") 0 None 0 None;
  s3_iclass 0 None 0 None 0 None;
  s3_iclass 3 (Some "Iclass_xt_iclass_loadi4_args") 0 None 0 None;
  s3_iclass 2 (Some "Iclass_xt_iclass_mov_n_args") 0 None 0 None;
  s3_iclass 2 (Some "Iclass_xt_iclass_movi_n_args") 0 None 0 None;
  s3_iclass 0 None 0 None 0 None;
  s3_iclass 1 (Some "Iclass_xt_iclass_retn_args") 0 None 0 None;
  s3_iclass 3 (Some "Iclass_xt_iclass_storei4_args") 0 None 0 None;
  s3_iclass 1 (Some "Iclass_rur_threadptr_args") 1 (Some "Iclass_rur_threadptr_stateArgs") 0 None;
  s3_iclass 1 (Some "Iclass_wur_threadptr_args") 1 (Some "Iclass_wur_threadptr_stateArgs") 0 None;
  s3_iclass 3 (Some "Iclass_xt_iclass_addi_args") 0 None 0 None;
  s3_iclass 3 (Some "Iclass_xt_iclass_addmi_args") 0 None 0 None;
  s3_iclass 3 (Some "Iclass_xt_iclass_addsub_args") 0 None 0 None;
  s3_iclass 3 (Some "Iclass_xt_iclass_bit_args") 0 None 0 None;
  s3_iclass 3 (Some "Iclass_xt_iclass_bsi8_args") 0 None 0 None;
  s3_iclass 3 (Some "Iclass_xt_iclass_bsi8b_args") 0 None 0 None;
  s3_iclass 3 (Some "Iclass_xt_iclass_bsi8u_args") 0 None 0 None;
  s3_iclass 3 (Some "Iclass_xt_iclass_bst8_args") 0 None 0 None;
  s3_iclass 2 (Some "Iclass_xt_iclass_bsz12_args") 0 None 0 None;
  s3_iclass 2 (Some "Iclass_xt_iclass_call0_args") 0 None 0 None;
  s3_iclass 2 (Some "Iclass_xt_iclass_callx0_args") 0 None 0 None;
  s3_iclass 4 (Some "Iclass_xt_iclass_exti_args") 0 None 0 None;
  s3_iclass 0 None 0 None 0 None;
  s3_iclass 1 (Some "Iclass_xt_iclass_jump_args") 0 None 0 None;
  s3_iclass 1 (Some "Iclass_xt_iclass_jumpx_args") 0 None 0 None;
  s3_iclass 3 (Some "Iclass_xt_iclass_l16ui_args") 0 None 0 None;
  s3_iclass 3 (Some "Iclass_xt_iclass_l16si_args") 0 None 0 None;
  s3_iclass 3 (Some "Iclass_xt_iclass_l32i_args") 0 None 0 None;
  s3_iclass 2 (Some "Iclass_xt_iclass_l32r_args") 0 None 0 None;
  s3_iclass 3 (Some "Iclass_xt_iclass_l8i_args") 0 None 0 None;
  s3_iclass 2 (Some "Iclass_xt_iclass_loop_args") 3 (Some "Iclass_xt_iclass_loop_stateArgs") 0 None;
  s3_iclass 2 (Some "Iclass_xt_iclass_loopz_args") 3 (Some "Iclass_xt_iclass_loopz_stateArgs") 0 None;
  s3_iclass 2 (Some "Iclass_xt_iclass_movi_args") 0 None 0 None;
  s3_iclass 3 (Some "Iclass_xt_iclass_movz_args") 0 None 0 None;
  s3_iclass 2 (Some "Iclass_xt_iclass_neg_args") 0 None 0 None;
  s3_iclass 0 None 0 None 0 None;
  s3_iclass 1 (Some "Iclass_xt_iclass_return_args") 0 None 0 None;
  s3_iclass 0 None 0 None 0 None;
  s3_iclass 3 (Some "Iclass_xt_iclass_s16i_args") 0 None 0 None;
  s3_iclass 3 (Some "Iclass_xt_iclass_s32i_args") 0 None 0 None;
  s3_iclass 3 (Some "Iclass_xt_iclass_s32nb_args") 0 None 0 None;
  s3_iclass 3 (Some "Iclass_xt_iclass_s8i_args") 0 None 0 None;
  s3_iclass 1 (Some "Iclass_xt_iclass_sar_args") 1 (Some "Iclass_xt_iclass_sar_stateArgs") 0 None;
  s3_iclass 1 (Some "Iclass_xt_iclass_sari_args") 1 (Some "Iclass_xt_iclass_sari_stateArgs") 0 None;
  s3_iclass 2 (Some "Iclass_xt_iclass_shifts_args") 1 (Some "Iclass_xt_iclass_shifts_stateArgs") 0 None;
  s3_iclass 3 (Some "Iclass_xt_iclass_shiftst_args") 1 (Some "Iclass_xt_iclass_shiftst_stateArgs") 0 None;
  s3_iclass 2 (Some "Iclass_xt_iclass_shiftt_args") 1 (Some "Iclass_xt_iclass_shiftt_stateArgs") 0 None;
  s3_iclass 3 (Some "Iclass_xt_iclass_slli_args") 0 None 0 None;
  s3_iclass 3 (Some "Iclass_xt_iclass_srai_args") 0 None 0 None;
  s3_iclass 3 (Some "Iclass_xt_iclass_srli_args") 0 None 0 None;
  s3_iclass 0 None 0 None 0 None;
  s3_iclass 0 None 0 None 0 None;
  s3_iclass 0 None 0 None 0 None;
  s3_iclass 0 None 1 (Some "Iclass_xt_iclass_sync_stateArgs") 0 None;
  s3_iclass 2 (Some "Iclass_xt_iclass_rsil_args") 6 (Some "Iclass_xt_iclass_rsil_stateArgs") 0 None;
  s3_iclass 1 (Some "Iclass_xt_iclass_rsr_lend_args") 1 (Some "Iclass_xt_iclass_rsr_lend_stateArgs") 0 None;
  s3_iclass 1 (Some "Iclass_xt_iclass_wsr_lend_args") 1 (Some "Iclass_xt_iclass_wsr_lend_stateArgs") 0 None;
  s3_iclass 1 (Some "Iclass_xt_iclass_xsr_lend_args") 1 (Some "Iclass_xt_iclass_xsr_lend_stateArgs") 0 None;
  s3_iclass 1 (Some "Iclass_xt_iclass_rsr_lcount_args") 1 (Some "Iclass_xt_iclass_rsr_lcount_stateArgs") 0 None;
  s3_iclass 1 (Some "Iclass_xt_iclass_wsr_lcount_args") 2 (Some "Iclass_xt_iclass_wsr_lcount_stateArgs") 0 None;
  s3_iclass 1 (Some "Iclass_xt_iclass_xsr_lcount_args") 2 (Some "Iclass_xt_iclass_xsr_lcount_stateArgs") 0 None;
  s3_iclass 1 (Some "Iclass_xt_iclass_rsr_lbeg_args") 1 (Some "Iclass_xt_iclass_rsr_lbeg_stateArgs") 0 None;
  s3_iclass 1 (Some "Iclass_xt_iclass_wsr_lbeg_args") 1 (Some "Iclass_xt_iclass_wsr_lbeg_stateArgs") 0 None;
  s3_iclass 1 (Some "Iclass_xt_iclass_xsr_lbeg_args") 1 (Some "Iclass_xt_iclass_xsr_lbeg_stateArgs") 0 None;
  s3_iclass 1 (Some "Iclass_xt_iclass_rsr_sar_args") 1 (Some "Iclass_xt_iclass_rsr_sar_stateArgs") 0 None;
  s3_iclass 1 (Some "Iclass_xt_iclass_wsr_sar_args") 2 (Some "Iclass_xt_iclass_wsr_sar_stateArgs") 0 None;
  s3_iclass 1 (Some "Iclass_xt_iclass_xsr_sar_args") 1 (Some "Iclass_xt_iclass_xsr_sar_stateArgs") 0 None;
  s3_iclass 1 (Some "Iclass_xt_iclass_rsr_memctl_args") 1 (Some "Iclass_xt_iclass_rsr_memctl_stateArgs") 0 None;
  s3_iclass 1 (Some "Iclass_xt_iclass_wsr_memctl_args") 1 (Some "Iclass_xt_iclass_wsr_memctl_stateArgs") 0 None;
  s3_iclass 1 (Some "Iclass_xt_iclass_xsr_memctl_args") 1 (Some "Iclass_xt_iclass_xsr_memctl_stateArgs") 0 None;
  s3_iclass 1 (Some "Iclass_xt_iclass_rsr_litbase_args") 0 None 0 None;
  s3_iclass 1 (Some "Iclass_xt_iclass_wsr_litbase_args") 0 None 0 None;
  s3_iclass 1 (Some "Iclass_xt_iclass_xsr_litbase_args") 0 None 0 None;
  s3_iclass 1 (Some "Iclass_xt_iclass_rsr_configid0_args") 0 None 0 None;
  s3_iclass 1 (Some "Iclass_xt_iclass_wsr_configid0_args") 0 None 0 None].

Definition s3_iclasses_3 : list xtensa_iclass_internal := [
  s3_iclass 1 (Some "Iclass_xt_iclass_rsr_configid1_args") 0 None 0 None;
  s3_iclass 1 (Some "Iclass_xt_iclass_rsr_ps_args") 6 (Some "Iclass_xt_iclass_rsr_ps_stateArgs") 0 None;
  s3_iclass 1 (Some "Iclass_xt_iclass_wsr_ps_args") 6 (Some "Iclass_xt_iclass_wsr_ps_stateArgs") 0 None;
  s3_iclass 1 (Some "Iclass_xt_iclass_xsr_ps_args") 6 (Some "Iclass_xt_iclass_xsr_ps_stateArgs") 0 None;
  s3_iclass 1 (Some "Iclass_xt_iclass_rsr_epc1_args") 1 (Some "Iclass_xt_iclass_rsr_epc1_stateArgs") 0 None;
  s3_iclass 1 (Some "Iclass_xt_iclass_wsr_epc1_args") 1 (Some "Iclass_xt_iclass_wsr_epc1_stateArgs") 0 None;
  s3_iclass 1 (Some "Iclass_xt_iclass_xsr_epc1_args") 1 (Some "Iclass_xt_iclass_xsr_epc1_stateArgs") 0 None;
  s3_iclass 1 (Some "Iclass_xt_iclass_rsr_excsave1_args") 1 (Some "Iclass_xt_iclass_rsr_excsave1_stateArgs") 0 None;
  s3_iclass 1 (Some "Iclass_xt_iclass_wsr_excsave1_args") 1 (Some "Iclass_xt_iclass_wsr_excsave1_stateArgs") 0 None;
  s3_iclass 1 (Some "Iclass_xt_iclass_xsr_excsave1_args") 1 (Some "Iclass_xt_iclass_xsr_excsave1_stateArgs") 0 None;
  s3_iclass 1 (Some "Iclass_xt_iclass_rsr_epc2_args") 1 (Some "Iclass_xt_iclass_rsr_epc2_stateArgs") 0 None;
  s3_iclass 1 (Some "Iclass_xt_iclass_wsr_epc2_args") 1 (Some "Iclass_xt_iclass_wsr_epc2_stateArgs") 0 None;
  s3_iclass 1 (Some "Iclass_xt_iclass_xsr_epc2_args") 1 (Some "Iclass_xt_iclass_xsr_epc2_stateArgs") 0 None;
  s3_iclass 1 (Some "Iclass_xt_iclass_rsr_excsave2_args") 1 (Some "Iclass_xt_iclass_rsr_excsave2_stateArgs") 0 None;
  s3_iclass 1 (Some "Iclass_xt_iclass_wsr_excsave2_args") 1 (Some "Iclass_xt_iclass_wsr_excsave2_stateArgs") 0 None;
  s3_iclass 1 (Some "Iclass_xt_iclass_xsr_excsave2_args") 1 (Some "Iclass_xt_iclass_xsr_excsave2_stateArgs") 0 None;
  s3_iclass 1 (Some "Iclass_xt_iclass_rsr_epc3_args") 1 (Some "Iclass_xt_iclass_rsr_epc3_stateArgs") 0 None;
  s3_iclass 1 (Some "Iclass_xt_iclass_wsr_epc3_args") 1 (Some "Iclass_xt_iclass_wsr_epc3_stateArgs") 0 None;
  s3_iclass 1 (Some "Iclass_xt_iclass_xsr_epc3_args") 1 (Some "Iclass_xt_iclass_xsr_epc3_stateArgs") 0 None;
  s3_iclass 1 (Some "Iclass_xt_iclass_rsr_excsave3_args") 1 (Some "Iclass_xt_iclass_rsr_excsave3_stateArgs") 0 None;
  s3_iclass 1 (Some "Iclass_xt_iclass_wsr_excsave3_args") 1 (Some "Iclass_xt_iclass_wsr_excsave3_stateArgs") 0 None;
  s3_iclass 1 (Some "Iclass_xt_iclass_xsr_excsave3_args") 1 (Some "Iclass_xt_iclass_xsr_excsave3_stateArgs") 0 None;
  s3_iclass 1 (Some "Iclass_xt_iclass_rsr_epc4_args") 1 (Some "Iclass_xt_iclass_rsr_epc4_stateArgs") 0 None;
  s3_iclass 1 (Some "Iclass_xt_iclass_wsr_epc4_args") 1 (Some "Iclass_xt_iclass_wsr_epc4_stateArgs") 0 None;
  s3_iclass 1 (Some "Iclass_xt_iclass_xsr_epc4_args") 1 (Some "Iclass_xt_iclass_xsr_epc4_stateArgs") 0 None;
  s3_iclass 1 (Some "Iclass_xt_iclass_rsr_excsave4_args") 1 (Some "Iclass_xt_iclass_rsr_excsave4_stateArgs") 0 None;
  s3_iclass 1 (Some "Iclass_xt_iclass_wsr_excsave4_args") 1 (Some "Iclass_xt_iclass_wsr_excsave4_stateArgs") 0 None;
  s3_iclass 1 (Some "Iclass_xt_iclass_xsr_excsave4_args") 1 (Some "Iclass_xt_iclass_xsr_excsave4_stateArgs") 0 None;
  s3_iclass 1 (Some "Iclass_xt_iclass_rsr_epc5_args") 1 (Some "Iclass_xt_iclass_rsr_epc5_stateArgs") 0 None;
  s3_iclass 1 (Some "Iclass_xt_iclass_wsr_epc5_args") 1 (Some "Iclass_xt_iclass_wsr_epc5_stateArgs") 0 None;
  s3_iclass 1 (Some "Iclass_xt_iclass_xsr_epc5_args") 1 (Some "Iclass_xt_iclass_xsr_epc5_stateArgs") 0 None;
  s3_iclass 1 (Some "Iclass_xt_iclass_rsr_excsave5_args") 1 (Some "Iclass_xt_iclass_rsr_excsave5_stateArgs") 0 None;
  s3_iclass 1 (Some "Iclass_xt_iclass_wsr_excsave5_args") 1 (Some "Iclass_xt_iclass_wsr_excsave5_stateArgs") 0 None;
  s3_iclass 1 (Some "Iclass_xt_iclass_xsr_excsave5_args") 1 (Some "Iclass_xt_iclass_xsr_excsave5_stateArgs") 0 None;
  s3_iclass 1 (Some "Iclass_xt_iclass_rsr_epc6_args") 1 (Some "Iclass_xt_iclass_rsr_epc6_stateArgs") 0 None;
  s3_iclass 1 (Some "Iclass_xt_iclass_wsr_epc6_args") 1 (Some "Iclass_xt_iclass_wsr_epc6_stateArgs") 0 None;
  s3_iclass 1 (Some "Iclass_xt_iclass_xsr_epc6_args") 1 (Some "Iclass_xt_iclass_xsr_epc6_stateArgs") 0 None;
  s3_iclass 1 (Some "Iclass_xt_iclass_rsr_excsave6_args") 1 (Some "Iclass_xt_iclass_rsr_excsave6_stateArgs") 0 None;
  s3_iclass 1 (Some "Iclass_xt_iclass_wsr_excsave6_args") 1 (Some "Iclass_xt_iclass_wsr_excsave6_stateArgs") 0 None;
  s3_iclass 1 (Some "Iclass_xt_iclass_xsr_excsave6_args") 1 (Some "Iclass_xt_iclass_xsr_excsave6_stateArgs") 0 None;
  s3_iclass 1 (Some "Iclass_xt_iclass_rsr_epc7_args") 1 (Some "Iclass_xt_iclass_rsr_epc7_stateArgs") 0 None;
  s3_iclass 1 (Some "Iclass_xt_iclass_wsr_epc7_args") 1 (Some "Iclass_xt_iclass_wsr_epc7_stateArgs") 0 None;
  s3_iclass 1 (Some "Iclass_xt_iclass_xsr_epc7_args") 1 (Some "Iclass_xt_iclass_xsr_epc7_stateArgs") 0 None;
  s3_iclass 1 (Some "Iclass_xt_iclass_rsr_excsave7_args") 1 (Some "Iclass_xt_iclass_rsr_excsave7_stateArgs") 0 None;
  s3_iclass 1 (Some "Iclass_xt_iclass_wsr_excsave7_args") 1 (Some "Iclass_xt_iclass_wsr_excsave7_stateArgs") 0 None;
  s3_iclass 1 (Some "Iclass_xt_iclass_xsr_excsave7_args") 1 (Some "Iclass_xt_iclass_xsr_excsave7_stateArgs") 0 None;
  s3_iclass 1 (Some "Iclass_xt_iclass_rsr_eps2_args") 1 (Some "Iclass_xt_iclass_rsr_eps2_stateArgs") 0 None;
  s3_iclass 1 (Some "Iclass_xt_iclass_wsr_eps2_args") 1 (Some "Iclass_xt_iclass_wsr_eps2_stateArgs") 0 None;
  s3_iclass 1 (Some "Iclass_xt_iclass_xsr_eps2_args") 1 (Some "Iclass_xt_iclass_xsr_eps2_stateArgs") 0 None;
  s3_iclass 1 (Some "Iclass_xt_iclass_rsr_eps3_args") 1 (Some "Iclass_xt_iclass_rsr_eps3_stateArgs") 0 None;
  s3_iclass 1 (Some "Iclass_xt_iclass_wsr_eps3_args") 1 (Some "Iclass_xt_iclass_wsr_eps3_stateArgs") 0 None;
  s3_iclass 1 (Some "Iclass_xt_iclass_xsr_eps3_args") 1 (Some "Iclass_xt_iclass_xsr_eps3_stateArgs") 0 None;
  s3_iclass 1 (Some "Iclass_xt_iclass_rsr_eps4_args") 1 (Some "Iclass_xt_iclass_rsr_eps4_stateArgs") 0 None;
  s3_iclass 1 (Some "Iclass_xt_iclass_wsr_eps4_args") 1 (Some "Iclass_xt_iclass_wsr_eps4_stateArgs") 0 None;
  s3_iclass 1 (Some "Iclass_xt_iclass_xsr_eps4_args") 1 (Some "Iclass_xt_iclass_xsr_eps4_stateArgs") 0 None;
  s3_iclass 1 (Some "Iclass_xt_iclass_rsr_eps5_args") 1 (Some "Iclass_xt_iclass_rsr_eps5_stateArgs") 0 None;
  s3_iclass 1 (Some "Iclass_xt_iclass_wsr_eps5_args") 1 (Some "Iclass_xt_iclass_wsr_eps5_stateArgs") 0 None;
  s3_iclass 1 (Some "Iclass_xt_iclass_xsr_eps5_args") 1 (Some "Iclass_xt_iclass_xsr_eps5_stateArgs") 0 None;
  s3_iclass 1 (Some "Iclass_xt_iclass_rsr_eps6_args") 1 (Some "Iclass_xt_iclass_rsr_eps6_stateArgs") 0 None;
  s3_iclass 1 (Some "Iclass_xt_iclass_wsr_eps6_args") 1 (Some "Iclass_xt_iclass_wsr_eps6_stateArgs") 0 None;
  s3_iclass 1 (Some "Iclass_xt_iclass_xsr_eps6_args") 1 (Some "Iclass_xt_iclass_xsr_eps6_stateArgs") 0 None;
  s3_iclass 1 (Some "Iclass_xt_iclass_rsr_eps7_args") 1 (Some "Iclass_xt_iclass_rsr_eps7_stateArgs") 0 None;
  s3_iclass 1 (Some "Iclass_xt_iclass_wsr_eps7_args") 1 (Some "Iclass_xt_iclass_wsr_eps7_stateArgs") 0 None;
  s3_iclass 1 (Some "Iclass_xt_iclass_xsr_eps7_args") 1 (Some "Iclass_xt_iclass_xsr_eps7_stateArgs") 0 None;
  s3_iclass 1 (Some "Iclass_xt_iclass_rsr_excvaddr_args") 1 (Some "Iclass_xt_iclass_rsr_excvaddr_stateArgs") 0 None;
  s3_iclass 1 (Some "Iclass_xt_iclass_wsr_excvaddr_args") 1 (Some "Iclass_xt_iclass_wsr_excvaddr_stateArgs") 0 None;
  s3_iclass 1 (Some "Iclass_xt_iclass_xsr_excvaddr_args") 1 (Some "Iclass_xt_iclass_xsr_excvaddr_stateArgs") 0 None;
  s3_iclass 1 (Some "Iclass_xt_iclass_rsr_depc_args") 1 (Some "Iclass_xt_iclass_rsr_depc_stateArgs") 0 None;
  s3_iclass 1 (Some "Iclass_xt_iclass_wsr_depc_args") 1 (Some "Iclass_xt_iclass_wsr_depc_stateArgs") 0 None;
  s3_iclass 1 (Some "Iclass_xt_iclass_xsr_depc_args") 1 (Some "Iclass_xt_iclass_xsr_depc_stateArgs") 0 None;
  s3_iclass 1 (Some "Iclass_xt_iclass_rsr_exccause_args") 2 (Some "Iclass_xt_iclass_rsr_exccause_stateArgs") 0 None;
  s3_iclass 1 (Some "Iclass_xt_iclass_wsr_exccause_args") 1 (Some "Iclass_xt_iclass_wsr_exccause_stateArgs") 0 None;
  s3_iclass 1 (Some "Iclass_xt_iclass_xsr_exccause_args") 1 (Some "Iclass_xt_iclass_xsr_exccause_stateArgs") 0 None;
  s3_iclass 1 (Some "Iclass_xt_iclass_rsr_misc0_args") 1 (Some "Iclass_xt_iclass_rsr_misc0_stateArgs") 0 None;
  s3_iclass 1 (Some "Iclass_xt_iclass_wsr_misc0_args") 1 (Some "Iclass_xt_iclass_wsr_misc0_stateArgs") 0 None].

Definition s3_iclasses_4 : list xtensa_iclass_internal := [
  s3_iclass 1 (Some "Iclass_xt_iclass_xsr_misc0_args") 1 (Some "Iclass_xt_iclass_xsr_misc0_stateArgs") 0 None;
  s3_iclass 1 (Some "Iclass_xt_iclass_rsr_misc1_args") 1 (Some "Iclass_xt_iclass_rsr_misc1_stateArgs") 0 None;
  s3_iclass 1 (Some "Iclass_xt_iclass_wsr_misc1_args") 1 (Some "Iclass_xt_iclass_wsr_misc1_stateArgs") 0 None;
  s3_iclass 1 (Some "Iclass_xt_iclass_xsr_misc1_args") 1 (Some "Iclass_xt_iclass_xsr_misc1_stateArgs") 0 None;
  s3_iclass 1 (Some "Iclass_xt_iclass_rsr_misc2_args") 1 (Some "Iclass_xt_iclass_rsr_misc2_stateArgs") 0 None;
  s3_iclass 1 (Some "Iclass_xt_iclass_wsr_misc2_args") 1 (Some "Iclass_xt_iclass_wsr_misc2_stateArgs") 0 None;
  s3_iclass 1 (Some "Iclass_xt_iclass_xsr_misc2_args") 1 (Some "Iclass_xt_iclass_xsr_misc2_stateArgs") 0 None;
  s3_iclass 1 (Some "Iclass_xt_iclass_rsr_misc3_args") 1 (Some "Iclass_xt_iclass_rsr_misc3_stateArgs") 0 None;
  s3_iclass 1 (Some "Iclass_xt_iclass_wsr_misc3_args") 1 (Some "Iclass_xt_iclass_wsr_misc3_stateArgs") 0 None;
  s3_iclass 1 (Some "Iclass_xt_iclass_xsr_misc3_args") 1 (Some "Iclass_xt_iclass_xsr_misc3_stateArgs") 0 None;
  s3_iclass 1 (Some "Iclass_xt_iclass_rsr_prid_args") 0 None 0 None;
  s3_iclass 1 (Some "Iclass_xt_iclass_rsr_vecbase_args") 1 (Some "Iclass_xt_iclass_rsr_vecbase_stateArgs") 0 None;
  s3_iclass 1 (Some "Iclass_xt_iclass_wsr_vecbase_args") 1 (Some "Iclass_xt_iclass_wsr_vecbase_stateArgs") 0 None;
  s3_iclass 1 (Some "Iclass_xt_iclass_xsr_vecbase_args") 1 (Some "Iclass_xt_iclass_xsr_vecbase_stateArgs") 0 None;
  s3_iclass 3 (Some "Iclass_xt_iclass_salt_args") 0 None 0 None;
  s3_iclass 3 (Some "Iclass_xt_mul16_args") 0 None 0 None;
  s3_iclass 3 (Some "Iclass_xt_mul32_args") 0 None 0 None;
  s3_iclass 3 (Some "Iclass_xt_mul32h_args") 0 None 0 None;
  s3_iclass 2 (Some "Iclass_xt_iclass_mac16_aa_args") 1 (Some "Iclass_xt_iclass_mac16_aa_stateArgs") 0 None;
  s3_iclass 2 (Some "Iclass_xt_iclass_mac16_ad_args") 1 (Some "Iclass_xt_iclass_mac16_ad_stateArgs") 0 None;
  s3_iclass 2 (Some "Iclass_xt_iclass_mac16_da_args") 1 (Some "Iclass_xt_iclass_mac16_da_stateArgs") 0 None;
  s3_iclass 2 (Some "Iclass_xt_iclass_mac16_dd_args") 1 (Some "Iclass_xt_iclass_mac16_dd_stateArgs") 0 None;
  s3_iclass 2 (Some "Iclass_xt_iclass_mac16a_aa_args") 1 (Some "Iclass_xt_iclass_mac16a_aa_stateArgs") 0 None;
  s3_iclass 2 (Some "Iclass_xt_iclass_mac16a_ad_args") 1 (Some "Iclass_xt_iclass_mac16a_ad_stateArgs") 0 None;
  s3_iclass 2 (Some "Iclass_xt_iclass_mac16a_da_args") 1 (Some "Iclass_xt_iclass_mac16a_da_stateArgs") 0 None;
  s3_iclass 2 (Some "Iclass_xt_iclass_mac16a_dd_args") 1 (Some "Iclass_xt_iclass_mac16a_dd_stateArgs") 0 None;
  s3_iclass 4 (Some "Iclass_xt_iclass_mac16al_da_args") 1 (Some "Iclass_xt_iclass_mac16al_da_stateArgs") 0 None;
  s3_iclass 4 (Some "Iclass_xt_iclass_mac16al_dd_args") 1 (Some "Iclass_xt_iclass_mac16al_dd_stateArgs") 0 None;
  s3_iclass 2 (Some "Iclass_xt_iclass_mac16_l_args") 0 None 0 None;
  s3_iclass 2 (Some "Iclass_xt_iclass_rsr_m0_args") 0 None 0 None;
  s3_iclass 2 (Some "Iclass_xt_iclass_wsr_m0_args") 0 None 0 None;
  s3_iclass 2 (Some "Iclass_xt_iclass_xsr_m0_args") 0 None 0 None;
  s3_iclass 2 (Some "Iclass_xt_iclass_rsr_m1_args") 0 None 0 None;
  s3_iclass 2 (Some "Iclass_xt_iclass_wsr_m1_args") 0 None 0 None;
  s3_iclass 2 (Some "Iclass_xt_iclass_xsr_m1_args") 0 None 0 None;
  s3_iclass 2 (Some "Iclass_xt_iclass_rsr_m2_args") 0 None 0 None;
  s3_iclass 2 (Some "Iclass_xt_iclass_wsr_m2_args") 0 None 0 None;
  s3_iclass 2 (Some "Iclass_xt_iclass_xsr_m2_args") 0 None 0 None;
  s3_iclass 2 (Some "Iclass_xt_iclass_rsr_m3_args") 0 None 0 None;
  s3_iclass 2 (Some "Iclass_xt_iclass_wsr_m3_args") 0 None 0 None;
  s3_iclass 2 (Some "Iclass_xt_iclass_xsr_m3_args") 0 None 0 None;
  s3_iclass 1 (Some "Iclass_xt_iclass_rsr_acclo_args") 1 (Some "Iclass_xt_iclass_rsr_acclo_stateArgs") 0 None;
  s3_iclass 1 (Some "Iclass_xt_iclass_wsr_acclo_args") 1 (Some "Iclass_xt_iclass_wsr_acclo_stateArgs") 0 None;
  s3_iclass 1 (Some "Iclass_xt_iclass_xsr_acclo_args") 1 (Some "Iclass_xt_iclass_xsr_acclo_stateArgs") 0 None;
  s3_iclass 1 (Some "Iclass_xt_iclass_rsr_acchi_args") 1 (Some "Iclass_xt_iclass_rsr_acchi_stateArgs") 0 None;
  s3_iclass 1 (Some "Iclass_xt_iclass_wsr_acchi_args") 1 (Some "Iclass_xt_iclass_wsr_acchi_stateArgs") 0 None;
  s3_iclass 1 (Some "Iclass_xt_iclass_xsr_acchi_args") 1 (Some "Iclass_xt_iclass_xsr_acchi_stateArgs") 0 None;
  s3_iclass 1 (Some "Iclass_xt_iclass_rfi_args") 20 (Some "Iclass_xt_iclass_rfi_stateArgs") 0 None;
  s3_iclass 1 (Some "Iclass_xt_iclass_wait_args") 1 (Some "Iclass_xt_iclass_wait_stateArgs") 0 None;
  s3_iclass 1 (Some "Iclass_xt_iclass_rsr_interrupt_args") 1 (Some "Iclass_xt_iclass_rsr_interrupt_stateArgs") 0 None;
  s3_iclass 1 (Some "Iclass_xt_iclass_wsr_intset_args") 2 (Some "Iclass_xt_iclass_wsr_intset_stateArgs") 0 None;
  s3_iclass 1 (Some "Iclass_xt_iclass_wsr_intclear_args") 2 (Some "Iclass_xt_iclass_wsr_intclear_stateArgs") 0 None;
  s3_iclass 1 (Some "Iclass_xt_iclass_rsr_intenable_args") 1 (Some "Iclass_xt_iclass_rsr_intenable_stateArgs") 0 None;
  s3_iclass 1 (Some "Iclass_xt_iclass_wsr_intenable_args") 1 (Some "Iclass_xt_iclass_wsr_intenable_stateArgs") 0 None;
  s3_iclass 1 (Some "Iclass_xt_iclass_xsr_intenable_args") 1 (Some "Iclass_xt_iclass_xsr_intenable_stateArgs") 0 None;
  s3_iclass 2 (Some "Iclass_xt_iclass_break_args") 2 (Some "Iclass_xt_iclass_break_stateArgs") 0 None;
  s3_iclass 1 (Some "Iclass_xt_iclass_break_n_args") 2 (Some "Iclass_xt_iclass_break_n_stateArgs") 0 None;
  s3_iclass 1 (Some "Iclass_xt_iclass_rsr_dbreaka0_args") 1 (Some "Iclass_xt_iclass_rsr_dbreaka0_stateArgs") 0 None;
  s3_iclass 1 (Some "Iclass_xt_iclass_wsr_dbreaka0_args") 2 (Some "Iclass_xt_iclass_wsr_dbreaka0_stateArgs") 0 None;
  s3_iclass 1 (Some "Iclass_xt_iclass_xsr_dbreaka0_args") 2 (Some "Iclass_xt_iclass_xsr_dbreaka0_stateArgs") 0 None;
  s3_iclass 1 (Some "Iclass_xt_iclass_rsr_dbreakc0_args") 1 (Some "Iclass_xt_iclass_rsr_dbreakc0_stateArgs") 0 None;
  s3_iclass 1 (Some "Iclass_xt_iclass_wsr_dbreakc0_args") 2 (Some "Iclass_xt_iclass_wsr_dbreakc0_stateArgs") 0 None;
  s3_iclass 1 (Some "Iclass_xt_iclass_xsr_dbreakc0_args") 2 (Some "Iclass_xt_iclass_xsr_dbreakc0_stateArgs") 0 None;
  s3_iclass 1 (Some "Iclass_xt_iclass_rsr_dbreaka1_args") 1 (Some "Iclass_xt_iclass_rsr_dbreaka1_stateArgs") 0 None;
  s3_iclass 1 (Some "Iclass_xt_iclass_wsr_dbreaka1_args") 2 (Some "Iclass_xt_iclass_wsr_dbreaka1_stateArgs") 0 None;
  s3_iclass 1 (Some "Iclass_xt_iclass_xsr_dbreaka1_args") 2 (Some "Iclass_xt_iclass_xsr_dbreaka1_stateArgs") 0 None;
  s3_iclass 1 (Some "Iclass_xt_iclass_rsr_dbreakc1_args") 1 (Some "Iclass_xt_iclass_rsr_dbreakc1_stateArgs") 0 None;
  s3_iclass 1 (Some "Iclass_xt_iclass_wsr_dbreakc1_args") 2 (Some "Iclass_xt_iclass_wsr_dbreakc1_stateArgs") 0 None;
  s3_iclass 1 (Some "Iclass_xt_iclass_xsr_dbreakc1_args") 2 (Some "Iclass_xt_iclass_xsr_dbreakc1_stateArgs") 0 None;
  s3_iclass 1 (Some "Iclass_xt_iclass_rsr_ibreaka0_args") 1 (Some "Iclass_xt_iclass_rsr_ibreaka0_stateArgs") 0 None;
  s3_iclass 1 (Some "Iclass_xt_iclass_wsr_ibreaka0_args") 1 (Some "Iclass_xt_iclass_wsr_ibreaka0_stateArgs") 0 None;
  s3_iclass 1 (Some "Iclass_xt_iclass_xsr_ibreaka0_args") 1 (Some "Iclass_xt_iclass_xsr_ibreaka0_stateArgs") 0 None;
  s3_iclass 1 (Some "Iclass_xt_iclass_rsr_ibreaka1_args") 1 (Some "Iclass_xt_iclass_rsr_ibreaka1_stateArgs") 0 None;
  s3_iclass 1 (Some "Iclass_xt_iclass_wsr_ibreaka1_args") 1 (Some "Iclass_xt_iclass_wsr_ibreaka1_stateArgs") 0 None;
  s3_iclass 1 (Some "Iclass_xt_iclass_xsr_ibreaka1_args") 1 (Some "Iclass_xt_iclass_xsr_ibreaka1_stateArgs") 0 None].

Definition s3_iclasses_5 : list xtensa_iclass_internal := [
  s3_iclass 1 (Some "Iclass_xt_iclass_rsr_ibreakenable_args") 1 (Some "Iclass_xt_iclass_rsr_ibreakenable_stateArgs") 0 None;
  s3_iclass 1 (Some "Iclass_xt_iclass_wsr_ibreakenable_args") 1 (Some "Iclass_xt_iclass_wsr_ibreakenable_stateArgs") 0 None;
  s3_iclass 1 (Some "Iclass_xt_iclass_xsr_ibreakenable_args") 1 (Some "Iclass_xt_iclass_xsr_ibreakenable_stateArgs") 0 None;
  s3_iclass 1 (Some "Iclass_xt_iclass_rsr_debugcause_args") 2 (Some "Iclass_xt_iclass_rsr_debugcause_stateArgs") 0 None;
  s3_iclass 1 (Some "Iclass_xt_iclass_wsr_debugcause_args") 2 (Some "Iclass_xt_iclass_wsr_debugcause_stateArgs") 0 None;
  s3_iclass 1 (Some "Iclass_xt_iclass_xsr_debugcause_args") 2 (Some "Iclass_xt_iclass_xsr_debugcause_stateArgs") 0 None;
  s3_iclass 1 (Some "Iclass_xt_iclass_rsr_icount_args") 1 (Some "Iclass_xt_iclass_rsr_icount_stateArgs") 0 None;
  s3_iclass 1 (Some "Iclass_xt_iclass_wsr_icount_args") 2 (Some "Iclass_xt_iclass_wsr_icount_stateArgs") 0 None;
  s3_iclass 1 (Some "Iclass_xt_iclass_xsr_icount_args") 2 (Some "Iclass_xt_iclass_xsr_icount_stateArgs") 0 None;
  s3_iclass 1 (Some "Iclass_xt_iclass_rsr_icountlevel_args") 1 (Some "Iclass_xt_iclass_rsr_icountlevel_stateArgs") 0 None;
  s3_iclass 1 (Some "Iclass_xt_iclass_wsr_icountlevel_args") 1 (Some "Iclass_xt_iclass_wsr_icountlevel_stateArgs") 0 None;
  s3_iclass 1 (Some "Iclass_xt_iclass_xsr_icountlevel_args") 1 (Some "Iclass_xt_iclass_xsr_icountlevel_stateArgs") 0 None;
  s3_iclass 1 (Some "Iclass_xt_iclass_rsr_ddr_args") 1 (Some "Iclass_xt_iclass_rsr_ddr_stateArgs") 0 None;
  s3_iclass 1 (Some "Iclass_xt_iclass_wsr_ddr_args") 2 (Some "Iclass_xt_iclass_wsr_ddr_stateArgs") 0 None;
  s3_iclass 1 (Some "Iclass_xt_iclass_xsr_ddr_args") 2 (Some "Iclass_xt_iclass_xsr_ddr_stateArgs") 0 None;
  s3_iclass 1 (Some "Iclass_xt_iclass_lddr32_p_args") 3 (Some "Iclass_xt_iclass_lddr32_p_stateArgs") 0 None;
  s3_iclass 1 (Some "Iclass_xt_iclass_sddr32_p_args") 2 (Some "Iclass_xt_iclass_sddr32_p_stateArgs") 0 None;
  s3_iclass 1 (Some "Iclass_xt_iclass_rfdo_args") 9 (Some "Iclass_xt_iclass_rfdo_stateArgs") 0 None;
  s3_iclass 0 None 1 (Some "Iclass_xt_iclass_rfdd_stateArgs") 0 None;
  s3_iclass 1 (Some "Iclass_xt_iclass_wsr_mmid_args") 1 (Some "Iclass_xt_iclass_wsr_mmid_stateArgs") 0 None;
  s3_iclass 3 (Some "Iclass_xt_iclass_bbool1_args") 0 None 0 None;
  s3_iclass 2 (Some "Iclass_xt_iclass_bbool4_args") 0 None 0 None;
  s3_iclass 2 (Some "Iclass_xt_iclass_bbool8_args") 0 None 0 None;
  s3_iclass 2 (Some "Iclass_xt_iclass_bbranch_args") 0 None 0 None;
  s3_iclass 3 (Some "Iclass_xt_iclass_bmove_args") 0 None 0 None;
  s3_iclass 2 (Some "Iclass_xt_iclass_RSR_BR_args") 0 None 0 None;
  s3_iclass 2 (Some "Iclass_xt_iclass_WSR_BR_args") 0 None 0 None;
  s3_iclass 2 (Some "Iclass_xt_iclass_XSR_BR_args") 0 None 0 None;
  s3_iclass 1 (Some "Iclass_xt_iclass_rsr_ccount_args") 1 (Some "Iclass_xt_iclass_rsr_ccount_stateArgs") 0 None;
  s3_iclass 1 (Some "Iclass_xt_iclass_wsr_ccount_args") 2 (Some "Iclass_xt_iclass_wsr_ccount_stateArgs") 0 None;
  s3_iclass 1 (Some "Iclass_xt_iclass_xsr_ccount_args") 2 (Some "Iclass_xt_iclass_xsr_ccount_stateArgs") 0 None;
  s3_iclass 1 (Some "Iclass_xt_iclass_rsr_ccompare0_args") 1 (Some "Iclass_xt_iclass_rsr_ccompare0_stateArgs") 0 None;
  s3_iclass 1 (Some "Iclass_xt_iclass_wsr_ccompare0_args") 2 (Some "Iclass_xt_iclass_wsr_ccompare0_stateArgs") 0 None;
  s3_iclass 1 (Some "Iclass_xt_iclass_xsr_ccompare0_args") 2 (Some "Iclass_xt_iclass_xsr_ccompare0_stateArgs") 0 None;
  s3_iclass 1 (Some "Iclass_xt_iclass_rsr_ccompare1_args") 1 (Some "Iclass_xt_iclass_rsr_ccompare1_stateArgs") 0 None;
  s3_iclass 1 (Some "Iclass_xt_iclass_wsr_ccompare1_args") 2 (Some "Iclass_xt_iclass_wsr_ccompare1_stateArgs") 0 None;
  s3_iclass 1 (Some "Iclass_xt_iclass_xsr_ccompare1_args") 2 (Some "Iclass_xt_iclass_xsr_ccompare1_stateArgs") 0 None;
  s3_iclass 1 (Some "Iclass_xt_iclass_rsr_ccompare2_args") 1 (Some "Iclass_xt_iclass_rsr_ccompare2_stateArgs") 0 None;
  s3_iclass 1 (Some "Iclass_xt_iclass_wsr_ccompare2_args") 2 (Some "Iclass_xt_iclass_wsr_ccompare2_stateArgs") 0 None;
  s3_iclass 1 (Some "Iclass_xt_iclass_xsr_ccompare2_args") 2 (Some "Iclass_xt_iclass_xsr_ccompare2_stateArgs") 0 None;
  s3_iclass 1 (Some "Iclass_xt_iclass_idtlb_args") 1 (Some "Iclass_xt_iclass_idtlb_stateArgs") 0 None;
  s3_iclass 2 (Some "Iclass_xt_iclass_rdtlb_args") 0 None 0 None;
  s3_iclass 2 (Some "Iclass_xt_iclass_wdtlb_args") 1 (Some "Iclass_xt_iclass_wdtlb_stateArgs") 0 None;
  s3_iclass 1 (Some "Iclass_xt_iclass_iitlb_args") 0 None 0 None;
  s3_iclass 2 (Some "Iclass_xt_iclass_ritlb_args") 0 None 0 None;
  s3_iclass 2 (Some "Iclass_xt_iclass_witlb_args") 0 None 0 None;
  s3_iclass 1 (Some "Iclass_xt_iclass_rsr_cpenable_args") 1 (Some "Iclass_xt_iclass_rsr_cpenable_stateArgs") 0 None;
  s3_iclass 1 (Some "Iclass_xt_iclass_wsr_cpenable_args") 1 (Some "Iclass_xt_iclass_wsr_cpenable_stateArgs") 0 None;
  s3_iclass 1 (Some "Iclass_xt_iclass_xsr_cpenable_args") 1 (Some "Iclass_xt_iclass_xsr_cpenable_stateArgs") 0 None;
  s3_iclass 3 (Some "Iclass_xt_iclass_clamp_args") 0 None 0 None;
  s3_iclass 3 (Some "Iclass_xt_iclass_minmax_args") 0 None 0 None;
  s3_iclass 2 (Some "Iclass_xt_iclass_nsa_args") 0 None 0 None;
  s3_iclass 3 (Some "Iclass_xt_iclass_sx_args") 0 None 0 None;
  s3_iclass 3 (Some "Iclass_xt_iclass_l32ai_args") 0 None 0 None;
  s3_iclass 3 (Some "Iclass_xt_iclass_s32ri_args") 0 None 0 None;
  s3_iclass 3 (Some "Iclass_xt_iclass_s32c1i_args") 3 (Some "Iclass_xt_iclass_s32c1i_stateArgs") 0 None;
  s3_iclass 1 (Some "Iclass_xt_iclass_rsr_scompare1_args") 1 (Some "Iclass_xt_iclass_rsr_scompare1_stateArgs") 0 None;
  s3_iclass 1 (Some "Iclass_xt_iclass_wsr_scompare1_args") 1 (Some "Iclass_xt_iclass_wsr_scompare1_stateArgs") 0 None;
  s3_iclass 1 (Some "Iclass_xt_iclass_xsr_scompare1_args") 1 (Some "Iclass_xt_iclass_xsr_scompare1_stateArgs") 0 None;
  s3_iclass 1 (Some "Iclass_xt_iclass_rsr_atomctl_args") 1 (Some "Iclass_xt_iclass_rsr_atomctl_stateArgs") 0 None;
  s3_iclass 1 (Some "Iclass_xt_iclass_wsr_atomctl_args") 2 (Some "Iclass_xt_iclass_wsr_atomctl_stateArgs") 0 None;
  s3_iclass 1 (Some "Iclass_xt_iclass_xsr_atomctl_args") 2 (Some "Iclass_xt_iclass_xsr_atomctl_stateArgs") 0 None;
  s3_iclass 3 (Some "Iclass_xt_iclass_div_args") 0 None 0 None;
  s3_iclass 1 (Some "Iclass_xt_iclass_rsr_eraccess_args") 0 None 0 None;
  s3_iclass 1 (Some "Iclass_xt_iclass_wsr_eraccess_args") 0 None 0 None;
  s3_iclass 1 (Some "Iclass_xt_iclass_xsr_eraccess_args") 0 None 0 None;
  s3_iclass 2 (Some "Iclass_xt_iclass_rer_args") 1 (Some "Iclass_xt_iclass_rer_stateArgs") 2 (Some "Iclass_xt_iclass_rer_intfArgs");
  s3_iclass 2 (Some "Iclass_xt_iclass_wer_args") 1 (Some "Iclass_xt_iclass_wer_stateArgs") 2 (Some "Iclass_xt_iclass_wer_intfArgs");
  s3_iclass 1 (Some "Iclass_rur_fcr_args") 9 (Some "Iclass_rur_fcr_stateArgs") 0 None;
  s3_iclass 1 (Some "Iclass_wur_fcr_args") 9 (Some "Iclass_wur_fcr_stateArgs") 0 None;
  s3_iclass 1 (Some "Iclass_rur_fsr_args") 8 (Some "Iclass_rur_fsr_stateArgs") 0 None;
  s3_iclass 1 (Some "Iclass_wur_fsr_args") 8 (Some "Iclass_wur_fsr_stateArgs") 0 None;
  s3_iclass 3 (Some "Iclass_st_QR_args") 1 (Some "Iclass_st_QR_stateArgs") 0 None;
  s3_iclass 3 (Some "Iclass_ld_QR_args") 1 (Some "Iclass_ld_QR_stateArgs") 0 None;
  s3_iclass 2 (Some "Iclass_mv_QR_args") 1 (Some "Iclass_mv_QR_stateArgs") 0 None].

Definition s3_iclasses_6 : list xtensa_iclass_internal := [
  s3_iclass 2 (Some "Iclass_EE_WR_MASK_GPIO_OUT_args") 1 (Some "Iclass_EE_WR_MASK_GPIO_OUT_stateArgs") 0 None;
  s3_iclass 1 (Some "Iclass_EE_SET_BIT_GPIO_OUT_args") 1 (Some "Iclass_EE_SET_BIT_GPIO_OUT_stateArgs") 0 None;
  s3_iclass 1 (Some "Iclass_EE_CLR_BIT_GPIO_OUT_args") 1 (Some "Iclass_EE_CLR_BIT_GPIO_OUT_stateArgs") 0 None;
  s3_iclass 1 (Some "Iclass_EE_GET_GPIO_IN_args") 0 None 1 (Some "Iclass_EE_GET_GPIO_IN_intfArgs");
  s3_iclass 3 (Some "Iclass_EE_VLD_128_IP_args") 1 (Some "Iclass_EE_VLD_128_IP_stateArgs") 0 None;
  s3_iclass 3 (Some "Iclass_EE_VLD_128_XP_args") 1 (Some "Iclass_EE_VLD_128_XP_stateArgs") 0 None;
  s3_iclass 3 (Some "Iclass_EE_VLD_H_64_IP_args") 1 (Some "Iclass_EE_VLD_H_64_IP_stateArgs") 0 None;
  s3_iclass 3 (Some "Iclass_EE_VLD_H_64_XP_args") 1 (Some "Iclass_EE_VLD_H_64_XP_stateArgs") 0 None;
  s3_iclass 3 (Some "Iclass_EE_VLD_L_64_IP_args") 1 (Some "Iclass_EE_VLD_L_64_IP_stateArgs") 0 None;
  s3_iclass 3 (Some "Iclass_EE_VLD_L_64_XP_args") 1 (Some "Iclass_EE_VLD_L_64_XP_stateArgs") 0 None;
  s3_iclass 3 (Some "Iclass_EE_VLDBC_16_IP_args") 1 (Some "Iclass_EE_VLDBC_16_IP_stateArgs") 0 None;
  s3_iclass 2 (Some "Iclass_EE_VLDBC_16_args") 1 (Some "Iclass_EE_VLDBC_16_stateArgs") 0 None;
  s3_iclass 3 (Some "Iclass_EE_VLDBC_16_XP_args") 1 (Some "Iclass_EE_VLDBC_16_XP_stateArgs") 0 None;
  s3_iclass 3 (Some "Iclass_EE_VLDBC_32_IP_args") 1 (Some "Iclass_EE_VLDBC_32_IP_stateArgs") 0 None;
  s3_iclass 2 (Some "Iclass_EE_VLDBC_32_args") 1 (Some "Iclass_EE_VLDBC_32_stateArgs") 0 None;
  s3_iclass 3 (Some "Iclass_EE_VLDBC_32_XP_args") 1 (Some "Iclass_EE_VLDBC_32_XP_stateArgs") 0 None;
  s3_iclass 3 (Some "Iclass_EE_VLDBC_8_IP_args") 1 (Some "Iclass_EE_VLDBC_8_IP_stateArgs") 0 None;
  s3_iclass 2 (Some "Iclass_EE_VLDBC_8_args") 1 (Some "Iclass_EE_VLDBC_8_stateArgs") 0 None;
  s3_iclass 3 (Some "Iclass_EE_VLDBC_8_XP_args") 1 (Some "Iclass_EE_VLDBC_8_XP_stateArgs") 0 None;
  s3_iclass 3 (Some "Iclass_EE_VLDHBC_16_INCP_args") 1 (Some "Iclass_EE_VLDHBC_16_INCP_stateArgs") 0 None;
  s3_iclass 6 (Some "Iclass_EE_LDF_128_IP_args") 1 (Some "Iclass_EE_LDF_128_IP_stateArgs") 0 None;
  s3_iclass 6 (Some "Iclass_EE_LDF_128_XP_args") 1 (Some "Iclass_EE_LDF_128_XP_stateArgs") 0 None;
  s3_iclass 4 (Some "Iclass_EE_LDF_64_IP_args") 1 (Some "Iclass_EE_LDF_64_IP_stateArgs") 0 None;
  s3_iclass 4 (Some "Iclass_EE_LDF_64_XP_args") 1 (Some "Iclass_EE_LDF_64_XP_stateArgs") 0 None;
  s3_iclass 3 (Some "Iclass_EE_LD_128_USAR_IP_args") 2 (Some "Iclass_EE_LD_128_USAR_IP_stateArgs") 0 None;
  s3_iclass 3 (Some "Iclass_EE_LD_128_USAR_XP_args") 2 (Some "Iclass_EE_LD_128_USAR_XP_stateArgs") 0 None;
  s3_iclass 2 (Some "Iclass_EE_LDQA_S16_128_IP_args") 3 (Some "Iclass_EE_LDQA_S16_128_IP_stateArgs") 0 None;
  s3_iclass 2 (Some "Iclass_EE_LDQA_S16_128_XP_args") 3 (Some "Iclass_EE_LDQA_S16_128_XP_stateArgs") 0 None;
  s3_iclass 2 (Some "Iclass_EE_LDQA_S8_128_IP_args") 3 (Some "Iclass_EE_LDQA_S8_128_IP_stateArgs") 0 None;
  s3_iclass 2 (Some "Iclass_EE_LDQA_S8_128_XP_args") 3 (Some "Iclass_EE_LDQA_S8_128_XP_stateArgs") 0 None;
  s3_iclass 2 (Some "Iclass_EE_LDQA_U16_128_IP_args") 3 (Some "Iclass_EE_LDQA_U16_128_IP_stateArgs") 0 None;
  s3_iclass 2 (Some "Iclass_EE_LDQA_U16_128_XP_args") 3 (Some "Iclass_EE_LDQA_U16_128_XP_stateArgs") 0 None;
  s3_iclass 2 (Some "Iclass_EE_LDQA_U8_128_IP_args") 3 (Some "Iclass_EE_LDQA_U8_128_IP_stateArgs") 0 None;
  s3_iclass 2 (Some "Iclass_EE_LDQA_U8_128_XP_args") 3 (Some "Iclass_EE_LDQA_U8_128_XP_stateArgs") 0 None;
  s3_iclass 2 (Some "Iclass_EE_LD_QACC_H_H_32_IP_args") 2 (Some "Iclass_EE_LD_QACC_H_H_32_IP_stateArgs") 0 None;
  s3_iclass 2 (Some "Iclass_EE_LD_QACC_H_L_128_IP_args") 2 (Some "Iclass_EE_LD_QACC_H_L_128_IP_stateArgs") 0 None;
  s3_iclass 2 (Some "Iclass_EE_LD_QACC_L_H_32_IP_args") 2 (Some "Iclass_EE_LD_QACC_L_H_32_IP_stateArgs") 0 None;
  s3_iclass 2 (Some "Iclass_EE_LD_QACC_L_L_128_IP_args") 2 (Some "Iclass_EE_LD_QACC_L_L_128_IP_stateArgs") 0 None;
  s3_iclass 2 (Some "Iclass_EE_LD_ACCX_IP_args") 2 (Some "Iclass_EE_LD_ACCX_IP_stateArgs") 0 None;
  s3_iclass 5 (Some "Iclass_EE_LDXQ_32_args") 1 (Some "Iclass_EE_LDXQ_32_stateArgs") 0 None;
  s3_iclass 2 (Some "Iclass_EE_LD_UA_STATE_IP_args") 2 (Some "Iclass_EE_LD_UA_STATE_IP_stateArgs") 0 None;
  s3_iclass 2 (Some "Iclass_EE_ST_UA_STATE_IP_args") 2 (Some "Iclass_EE_ST_UA_STATE_IP_stateArgs") 0 None;
  s3_iclass 3 (Some "Iclass_EE_VST_128_IP_args") 1 (Some "Iclass_EE_VST_128_IP_stateArgs") 0 None;
  s3_iclass 3 (Some "Iclass_EE_VST_128_XP_args") 1 (Some "Iclass_EE_VST_128_XP_stateArgs") 0 None;
  s3_iclass 3 (Some "Iclass_EE_VST_H_64_IP_args") 1 (Some "Iclass_EE_VST_H_64_IP_stateArgs") 0 None;
  s3_iclass 3 (Some "Iclass_EE_VST_H_64_XP_args") 1 (Some "Iclass_EE_VST_H_64_XP_stateArgs") 0 None;
  s3_iclass 3 (Some "Iclass_EE_VST_L_64_IP_args") 1 (Some "Iclass_EE_VST_L_64_IP_stateArgs") 0 None;
  s3_iclass 3 (Some "Iclass_EE_VST_L_64_XP_args") 1 (Some "Iclass_EE_VST_L_64_XP_stateArgs") 0 None;
  s3_iclass 6 (Some "Iclass_EE_STF_128_IP_args") 1 (Some "Iclass_EE_STF_128_IP_stateArgs") 0 None;
  s3_iclass 6 (Some "Iclass_EE_STF_128_XP_args") 1 (Some "Iclass_EE_STF_128_XP_stateArgs") 0 None;
  s3_iclass 4 (Some "Iclass_EE_STF_64_IP_args") 1 (Some "Iclass_EE_STF_64_IP_stateArgs") 0 None;
  s3_iclass 4 (Some "Iclass_EE_STF_64_XP_args") 1 (Some "Iclass_EE_STF_64_XP_stateArgs") 0 None;
  s3_iclass 2 (Some "Iclass_EE_ST_QACC_H_H_32_IP_args") 2 (Some "Iclass_EE_ST_QACC_H_H_32_IP_stateArgs") 0 None;
  s3_iclass 2 (Some "Iclass_EE_ST_QACC_H_L_128_IP_args") 2 (Some "Iclass_EE_ST_QACC_H_L_128_IP_stateArgs") 0 None;
  s3_iclass 2 (Some "Iclass_EE_ST_QACC_L_H_32_IP_args") 2 (Some "Iclass_EE_ST_QACC_L_H_32_IP_stateArgs") 0 None;
  s3_iclass 2 (Some "Iclass_EE_ST_QACC_L_L_128_IP_args") 2 (Some "Iclass_EE_ST_QACC_L_L_128_IP_stateArgs") 0 None;
  s3_iclass 2 (Some "Iclass_EE_ST_ACCX_IP_args") 2 (Some "Iclass_EE_ST_ACCX_IP_stateArgs") 0 None;
  s3_iclass 5 (Some "Iclass_EE_STXQ_32_args") 1 (Some "Iclass_EE_STXQ_32_stateArgs") 0 None;
  s3_iclass 3 (Some "Iclass_EE_MOVI_32_A_args") 1 (Some "Iclass_EE_MOVI_32_A_stateArgs") 0 None;
  s3_iclass 3 (Some "Iclass_EE_MOVI_32_Q_args") 1 (Some "Iclass_EE_MOVI_32_Q_stateArgs") 0 None;
  s3_iclass 2 (Some "Iclass_EE_VZIP_16_args") 1 (Some "Iclass_EE_VZIP_16_stateArgs") 0 None;
  s3_iclass 2 (Some "Iclass_EE_VZIP_32_args") 1 (Some "Iclass_EE_VZIP_32_stateArgs") 0 None;
  s3_iclass 2 (Some "Iclass_EE_VZIP_8_args") 1 (Some "Iclass_EE_VZIP_8_stateArgs") 0 None;
  s3_iclass 2 (Some "Iclass_EE_VUNZIP_16_args") 1 (Some "Iclass_EE_VUNZIP_16_stateArgs") 0 None;
  s3_iclass 2 (Some "Iclass_EE_VUNZIP_32_args") 1 (Some "Iclass_EE_VUNZIP_32_stateArgs") 0 None;
  s3_iclass 2 (Some "Iclass_EE_VUNZIP_8_args") 1 (Some "Iclass_EE_VUNZIP_8_stateArgs") 0 None;
  s3_iclass 0 None 2 (Some "Iclass_EE_ZERO_ACCX_stateArgs") 0 None;
  s3_iclass 0 None 3 (Some "Iclass_EE_ZERO_QACC_stateArgs") 0 None;
  s3_iclass 1 (Some "Iclass_EE_ZERO_Q_args") 1 (Some "Iclass_EE_ZERO_Q_stateArgs") 0 None;
  s3_iclass 1 (Some "Iclass_EE_MOV_S16_QACC_args") 3 (Some "Iclass_EE_MOV_S16_QACC_stateArgs") 0 None;
  s3_iclass 1 (Some "Iclass_EE_MOV_S8_QACC_args") 3 (Some "Iclass_EE_MOV_S8_QACC_stateArgs") 0 None;
  s3_iclass 1 (Some "Iclass_EE_MOV_U16_QACC_args") 3 (Some "Iclass_EE_MOV_U16_QACC_stateArgs") 0 None;
  s3_iclass 1 (Some "Iclass_EE_MOV_U8_QACC_args") 3 (Some "Iclass_EE_MOV_U8_QACC_stateArgs") 0 None;
  s3_iclass 5 (Some "Iclass_EE_VADDS_S16_LD_INCP_args") 1 (Some "Iclass_EE_VADDS_S16_LD_INCP_stateArgs") 0 None;
  s3_iclass 5 (Some "Iclass_EE_VADDS_S16_ST_INCP_args") 1 (Some "Iclass_EE_VADDS_S16_ST_INCP_stateArgs") 0 None].

Definition s3_iclasses_7 : list xtensa_iclass_internal := [
  s3_iclass 3 (Some "Iclass_EE_VADDS_S16_args") 1 (Some "Iclass_EE_VADDS_S16_stateArgs") 0 None;
  s3_iclass 5 (Some "Iclass_EE_VADDS_S32_LD_INCP_args") 1 (Some "Iclass_EE_VADDS_S32_LD_INCP_stateArgs") 0 None;
  s3_iclass 5 (Some "Iclass_EE_VADDS_S32_ST_INCP_args") 1 (Some "Iclass_EE_VADDS_S32_ST_INCP_stateArgs") 0 None;
  s3_iclass 3 (Some "Iclass_EE_VADDS_S32_args") 1 (Some "Iclass_EE_VADDS_S32_stateArgs") 0 None;
  s3_iclass 5 (Some "Iclass_EE_VADDS_S8_LD_INCP_args") 1 (Some "Iclass_EE_VADDS_S8_LD_INCP_stateArgs") 0 None;
  s3_iclass 5 (Some "Iclass_EE_VADDS_S8_ST_INCP_args") 1 (Some "Iclass_EE_VADDS_S8_ST_INCP_stateArgs") 0 None;
  s3_iclass 3 (Some "Iclass_EE_VADDS_S8_args") 1 (Some "Iclass_EE_VADDS_S8_stateArgs") 0 None;
  s3_iclass 5 (Some "Iclass_EE_VSUBS_S16_LD_INCP_args") 1 (Some "Iclass_EE_VSUBS_S16_LD_INCP_stateArgs") 0 None;
  s3_iclass 5 (Some "Iclass_EE_VSUBS_S16_ST_INCP_args") 1 (Some "Iclass_EE_VSUBS_S16_ST_INCP_stateArgs") 0 None;
  s3_iclass 3 (Some "Iclass_EE_VSUBS_S16_args") 1 (Some "Iclass_EE_VSUBS_S16_stateArgs") 0 None;
  s3_iclass 5 (Some "Iclass_EE_VSUBS_S32_LD_INCP_args") 1 (Some "Iclass_EE_VSUBS_S32_LD_INCP_stateArgs") 0 None;
  s3_iclass 5 (Some "Iclass_EE_VSUBS_S32_ST_INCP_args") 1 (Some "Iclass_EE_VSUBS_S32_ST_INCP_stateArgs") 0 None;
  s3_iclass 3 (Some "Iclass_EE_VSUBS_S32_args") 1 (Some "Iclass_EE_VSUBS_S32_stateArgs") 0 None;
  s3_iclass 5 (Some "Iclass_EE_VSUBS_S8_LD_INCP_args") 1 (Some "Iclass_EE_VSUBS_S8_LD_INCP_stateArgs") 0 None;
  s3_iclass 5 (Some "Iclass_EE_VSUBS_S8_ST_INCP_args") 1 (Some "Iclass_EE_VSUBS_S8_ST_INCP_stateArgs") 0 None;
  s3_iclass 3 (Some "Iclass_EE_VSUBS_S8_args") 1 (Some "Iclass_EE_VSUBS_S8_stateArgs") 0 None;
  s3_iclass 5 (Some "Iclass_EE_VMUL_S16_LD_INCP_args") 2 (Some "Iclass_EE_VMUL_S16_LD_INCP_stateArgs") 0 None;
  s3_iclass 5 (Some "Iclass_EE_VMUL_S16_ST_INCP_args") 2 (Some "Iclass_EE_VMUL_S16_ST_INCP_stateArgs") 0 None;
  s3_iclass 3 (Some "Iclass_EE_VMUL_S16_args") 2 (Some "Iclass_EE_VMUL_S16_stateArgs") 0 None;
  s3_iclass 5 (Some "Iclass_EE_VMUL_S8_LD_INCP_args") 2 (Some "Iclass_EE_VMUL_S8_LD_INCP_stateArgs") 0 None;
  s3_iclass 5 (Some "Iclass_EE_VMUL_S8_ST_INCP_args") 2 (Some "Iclass_EE_VMUL_S8_ST_INCP_stateArgs") 0 None;
  s3_iclass 3 (Some "Iclass_EE_VMUL_S8_args") 2 (Some "Iclass_EE_VMUL_S8_stateArgs") 0 None;
  s3_iclass 5 (Some "Iclass_EE_VMUL_U16_LD_INCP_args") 2 (Some "Iclass_EE_VMUL_U16_LD_INCP_stateArgs") 0 None;
  s3_iclass 5 (Some "Iclass_EE_VMUL_U16_ST_INCP_args") 2 (Some "Iclass_EE_VMUL_U16_ST_INCP_stateArgs") 0 None;
  s3_iclass 3 (Some "Iclass_EE_VMUL_U16_args") 2 (Some "Iclass_EE_VMUL_U16_stateArgs") 0 None;
  s3_iclass 5 (Some "Iclass_EE_VMUL_U8_LD_INCP_args") 2 (Some "Iclass_EE_VMUL_U8_LD_INCP_stateArgs") 0 None;
  s3_iclass 5 (Some "Iclass_EE_VMUL_U8_ST_INCP_args") 2 (Some "Iclass_EE_VMUL_U8_ST_INCP_stateArgs") 0 None;
  s3_iclass 3 (Some "Iclass_EE_VMUL_U8_args") 2 (Some "Iclass_EE_VMUL_U8_stateArgs") 0 None;
  s3_iclass 6 (Some "Iclass_EE_CMUL_S16_LD_INCP_args") 2 (Some "Iclass_EE_CMUL_S16_LD_INCP_stateArgs") 0 None;
  s3_iclass 6 (Some "Iclass_EE_CMUL_S16_ST_INCP_args") 2 (Some "Iclass_EE_CMUL_S16_ST_INCP_stateArgs") 0 None;
  s3_iclass 4 (Some "Iclass_EE_CMUL_S16_args") 2 (Some "Iclass_EE_CMUL_S16_stateArgs") 0 None;
  s3_iclass 7 (Some "Iclass_EE_VMULAS_S16_ACCX_LD_IP_QUP_args") 3 (Some "Iclass_EE_VMULAS_S16_ACCX_LD_IP_QUP_stateArgs") 0 None;
  s3_iclass 5 (Some "Iclass_EE_VMULAS_S16_ACCX_LD_IP_args") 2 (Some "Iclass_EE_VMULAS_S16_ACCX_LD_IP_stateArgs") 0 None;
  s3_iclass 7 (Some "Iclass_EE_VMULAS_S16_ACCX_LD_XP_QUP_args") 3 (Some "Iclass_EE_VMULAS_S16_ACCX_LD_XP_QUP_stateArgs") 0 None;
  s3_iclass 5 (Some "Iclass_EE_VMULAS_S16_ACCX_LD_XP_args") 2 (Some "Iclass_EE_VMULAS_S16_ACCX_LD_XP_stateArgs") 0 None;
  s3_iclass 2 (Some "Iclass_EE_VMULAS_S16_ACCX_args") 2 (Some "Iclass_EE_VMULAS_S16_ACCX_stateArgs") 0 None;
  s3_iclass 7 (Some "Iclass_EE_VMULAS_S8_ACCX_LD_IP_QUP_args") 3 (Some "Iclass_EE_VMULAS_S8_ACCX_LD_IP_QUP_stateArgs") 0 None;
  s3_iclass 5 (Some "Iclass_EE_VMULAS_S8_ACCX_LD_IP_args") 2 (Some "Iclass_EE_VMULAS_S8_ACCX_LD_IP_stateArgs") 0 None;
  s3_iclass 7 (Some "Iclass_EE_VMULAS_S8_ACCX_LD_XP_QUP_args") 3 (Some "Iclass_EE_VMULAS_S8_ACCX_LD_XP_QUP_stateArgs") 0 None;
  s3_iclass 5 (Some "Iclass_EE_VMULAS_S8_ACCX_LD_XP_args") 2 (Some "Iclass_EE_VMULAS_S8_ACCX_LD_XP_stateArgs") 0 None;
  s3_iclass 2 (Some "Iclass_EE_VMULAS_S8_ACCX_args") 2 (Some "Iclass_EE_VMULAS_S8_ACCX_stateArgs") 0 None;
  s3_iclass 7 (Some "Iclass_EE_VMULAS_U16_ACCX_LD_IP_QUP_args") 3 (Some "Iclass_EE_VMULAS_U16_ACCX_LD_IP_QUP_stateArgs") 0 None;
  s3_iclass 5 (Some "Iclass_EE_VMULAS_U16_ACCX_LD_IP_args") 2 (Some "Iclass_EE_VMULAS_U16_ACCX_LD_IP_stateArgs") 0 None;
  s3_iclass 7 (Some "Iclass_EE_VMULAS_U16_ACCX_LD_XP_QUP_args") 3 (Some "Iclass_EE_VMULAS_U16_ACCX_LD_XP_QUP_stateArgs") 0 None;
  s3_iclass 5 (Some "Iclass_EE_VMULAS_U16_ACCX_LD_XP_args") 2 (Some "Iclass_EE_VMULAS_U16_ACCX_LD_XP_stateArgs") 0 None;
  s3_iclass 2 (Some "Iclass_EE_VMULAS_U16_ACCX_args") 2 (Some "Iclass_EE_VMULAS_U16_ACCX_stateArgs") 0 None;
  s3_iclass 7 (Some "Iclass_EE_VMULAS_U8_ACCX_LD_IP_QUP_args") 3 (Some "Iclass_EE_VMULAS_U8_ACCX_LD_IP_QUP_stateArgs") 0 None;
  s3_iclass 5 (Some "Iclass_EE_VMULAS_U8_ACCX_LD_IP_args") 2 (Some "Iclass_EE_VMULAS_U8_ACCX_LD_IP_stateArgs") 0 None;
  s3_iclass 7 (Some "Iclass_EE_VMULAS_U8_ACCX_LD_XP_QUP_args") 3 (Some "Iclass_EE_VMULAS_U8_ACCX_LD_XP_QUP_stateArgs") 0 None;
  s3_iclass 5 (Some "Iclass_EE_VMULAS_U8_ACCX_LD_XP_args") 2 (Some "Iclass_EE_VMULAS_U8_ACCX_LD_XP_stateArgs") 0 None;
  s3_iclass 2 (Some "Iclass_EE_VMULAS_U8_ACCX_args") 2 (Some "Iclass_EE_VMULAS_U8_ACCX_stateArgs") 0 None;
  s3_iclass 6 (Some "Iclass_EE_VMULAS_S16_QACC_LDBC_INCP_QUP_args") 4 (Some "Iclass_EE_VMULAS_S16_QACC_LDBC_INCP_QUP_stateArgs") 0 None;
  s3_iclass 4 (Some "Iclass_EE_VMULAS_S16_QACC_LDBC_INCP_args") 3 (Some "Iclass_EE_VMULAS_S16_QACC_LDBC_INCP_stateArgs") 0 None;
  s3_iclass 7 (Some "Iclass_EE_VMULAS_S16_QACC_LD_IP_QUP_args") 4 (Some "Iclass_EE_VMULAS_S16_QACC_LD_IP_QUP_stateArgs") 0 None;
  s3_iclass 5 (Some "Iclass_EE_VMULAS_S16_QACC_LD_IP_args") 3 (Some "Iclass_EE_VMULAS_S16_QACC_LD_IP_stateArgs") 0 None;
  s3_iclass 7 (Some "Iclass_EE_VMULAS_S16_QACC_LD_XP_QUP_args") 4 (Some "Iclass_EE_VMULAS_S16_QACC_LD_XP_QUP_stateArgs") 0 None;
  s3_iclass 5 (Some "Iclass_EE_VMULAS_S16_QACC_LD_XP_args") 3 (Some "Iclass_EE_VMULAS_S16_QACC_LD_XP_stateArgs") 0 None;
  s3_iclass 2 (Some "Iclass_EE_VMULAS_S16_QACC_args") 3 (Some "Iclass_EE_VMULAS_S16_QACC_stateArgs") 0 None;
  s3_iclass 6 (Some "Iclass_EE_VMULAS_S8_QACC_LDBC_INCP_QUP_args") 4 (Some "Iclass_EE_VMULAS_S8_QACC_LDBC_INCP_QUP_stateArgs") 0 None;
  s3_iclass 4 (Some "Iclass_EE_VMULAS_S8_QACC_LDBC_INCP_args") 3 (Some "Iclass_EE_VMULAS_S8_QACC_LDBC_INCP_stateArgs") 0 None;
  s3_iclass 7 (Some "Iclass_EE_VMULAS_S8_QACC_LD_IP_QUP_args") 4 (Some "Iclass_EE_VMULAS_S8_QACC_LD_IP_QUP_stateArgs") 0 None;
  s3_iclass 5 (Some "Iclass_EE_VMULAS_S8_QACC_LD_IP_args") 3 (Some "Iclass_EE_VMULAS_S8_QACC_LD_IP_stateArgs") 0 None;
  s3_iclass 7 (Some "Iclass_EE_VMULAS_S8_QACC_LD_XP_QUP_args") 4 (Some "Iclass_EE_VMULAS_S8_QACC_LD_XP_QUP_stateArgs") 0 None;
  s3_iclass 5 (Some "Iclass_EE_VMULAS_S8_QACC_LD_XP_args") 3 (Some "Iclass_EE_VMULAS_S8_QACC_LD_XP_stateArgs") 0 None;
  s3_iclass 2 (Some "Iclass_EE_VMULAS_S8_QACC_args") 3 (Some "Iclass_EE_VMULAS_S8_QACC_stateArgs") 0 None;
  s3_iclass 6 (Some "Iclass_EE_VMULAS_U16_QACC_LDBC_INCP_QUP_args") 4 (Some "Iclass_EE_VMULAS_U16_QACC_LDBC_INCP_QUP_stateArgs") 0 None;
  s3_iclass 4 (Some "Iclass_EE_VMULAS_U16_QACC_LDBC_INCP_args") 3 (Some "Iclass_EE_VMULAS_U16_QACC_LDBC_INCP_stateArgs") 0 None;
  s3_iclass 7 (Some "Iclass_EE_VMULAS_U16_QACC_LD_IP_QUP_args") 4 (Some "Iclass_EE_VMULAS_U16_QACC_LD_IP_QUP_stateArgs") 0 None;
  s3_iclass 5 (Some "Iclass_EE_VMULAS_U16_QACC_LD_IP_args") 3 (Some "Iclass_EE_VMULAS_U16_QACC_LD_IP_stateArgs") 0 None;
  s3_iclass 7 (Some "Iclass_EE_VMULAS_U16_QACC_LD_XP_QUP_args") 4 (Some "Iclass_EE_VMULAS_U16_QACC_LD_XP_QUP_stateArgs") 0 None;
  s3_iclass 5 (Some "Iclass_EE_VMULAS_U16_QACC_LD_XP_args") 3 (Some "Iclass_EE_VMULAS_U16_QACC_LD_XP_stateArgs") 0 None;
  s3_iclass 2 (Some "Iclass_EE_VMULAS_U16_QACC_args") 3 (Some "Iclass_EE_VMULAS_U16_QACC_stateArgs") 0 None;
  s3_iclass 6 (Some "Iclass_EE_VMULAS_U8_QACC_LDBC_INCP_QUP_args") 4 (Some "Iclass_EE_VMULAS_U8_QACC_LDBC_INCP_QUP_stateArgs") 0 None;
  s3_iclass 4 (Some "Iclass_EE_VMULAS_U8_QACC_LDBC_INCP_args") 3 (Some "Iclass_EE_VMULAS_U8_QACC_LDBC_INCP_stateArgs") 0 None;
  s3_iclass 7 (Some "Iclass_EE_VMULAS_U8_QACC_LD_IP_QUP_args") 4 (Some "Iclass_EE_VMULAS_U8_QACC_LD_IP_QUP_stateArgs") 0 None].

Definition s3_iclasses_8 : list xtensa_iclass_internal := [
  s3_iclass 5 (Some "Iclass_EE_VMULAS_U8_QACC_LD_IP_args") 3 (Some "Iclass_EE_VMULAS_U8_QACC_LD_IP_stateArgs") 0 None;
  s3_iclass 7 (Some "Iclass_EE_VMULAS_U8_QACC_LD_XP_QUP_args") 4 (Some "Iclass_EE_VMULAS_U8_QACC_LD_XP_QUP_stateArgs") 0 None;
  s3_iclass 5 (Some "Iclass_EE_VMULAS_U8_QACC_LD_XP_args") 3 (Some "Iclass_EE_VMULAS_U8_QACC_LD_XP_stateArgs") 0 None;
  s3_iclass 2 (Some "Iclass_EE_VMULAS_U8_QACC_args") 3 (Some "Iclass_EE_VMULAS_U8_QACC_stateArgs") 0 None;
  s3_iclass 5 (Some "Iclass_EE_VSMULAS_S16_QACC_LD_INCP_args") 3 (Some "Iclass_EE_VSMULAS_S16_QACC_LD_INCP_stateArgs") 0 None;
  s3_iclass 3 (Some "Iclass_EE_VSMULAS_S16_QACC_args") 3 (Some "Iclass_EE_VSMULAS_S16_QACC_stateArgs") 0 None;
  s3_iclass 5 (Some "Iclass_EE_VSMULAS_S8_QACC_LD_INCP_args") 3 (Some "Iclass_EE_VSMULAS_S8_QACC_LD_INCP_stateArgs") 0 None;
  s3_iclass 3 (Some "Iclass_EE_VSMULAS_S8_QACC_args") 3 (Some "Iclass_EE_VSMULAS_S8_QACC_stateArgs") 0 None;
  s3_iclass 3 (Some "Iclass_EE_SRCMB_S16_QACC_args") 3 (Some "Iclass_EE_SRCMB_S16_QACC_stateArgs") 0 None;
  s3_iclass 3 (Some "Iclass_EE_SRCMB_S8_QACC_args") 3 (Some "Iclass_EE_SRCMB_S8_QACC_stateArgs") 0 None;
  s3_iclass 3 (Some "Iclass_EE_SRS_ACCX_args") 2 (Some "Iclass_EE_SRS_ACCX_stateArgs") 0 None;
  s3_iclass 3 (Some "Iclass_EE_VRELU_S16_args") 1 (Some "Iclass_EE_VRELU_S16_stateArgs") 0 None;
  s3_iclass 3 (Some "Iclass_EE_VRELU_S8_args") 1 (Some "Iclass_EE_VRELU_S8_stateArgs") 0 None;
  s3_iclass 4 (Some "Iclass_EE_VPRELU_S16_args") 1 (Some "Iclass_EE_VPRELU_S16_stateArgs") 0 None;
  s3_iclass 4 (Some "Iclass_EE_VPRELU_S8_args") 1 (Some "Iclass_EE_VPRELU_S8_stateArgs") 0 None;
  s3_iclass 5 (Some "Iclass_EE_VMAX_S16_LD_INCP_args") 1 (Some "Iclass_EE_VMAX_S16_LD_INCP_stateArgs") 0 None;
  s3_iclass 5 (Some "Iclass_EE_VMAX_S16_ST_INCP_args") 1 (Some "Iclass_EE_VMAX_S16_ST_INCP_stateArgs") 0 None;
  s3_iclass 3 (Some "Iclass_EE_VMAX_S16_args") 1 (Some "Iclass_EE_VMAX_S16_stateArgs") 0 None;
  s3_iclass 5 (Some "Iclass_EE_VMAX_S32_LD_INCP_args") 1 (Some "Iclass_EE_VMAX_S32_LD_INCP_stateArgs") 0 None;
  s3_iclass 5 (Some "Iclass_EE_VMAX_S32_ST_INCP_args") 1 (Some "Iclass_EE_VMAX_S32_ST_INCP_stateArgs") 0 None;
  s3_iclass 3 (Some "Iclass_EE_VMAX_S32_args") 1 (Some "Iclass_EE_VMAX_S32_stateArgs") 0 None;
  s3_iclass 5 (Some "Iclass_EE_VMAX_S8_LD_INCP_args") 1 (Some "Iclass_EE_VMAX_S8_LD_INCP_stateArgs") 0 None;
  s3_iclass 5 (Some "Iclass_EE_VMAX_S8_ST_INCP_args") 1 (Some "Iclass_EE_VMAX_S8_ST_INCP_stateArgs") 0 None;
  s3_iclass 3 (Some "Iclass_EE_VMAX_S8_args") 1 (Some "Iclass_EE_VMAX_S8_stateArgs") 0 None;
  s3_iclass 5 (Some "Iclass_EE_VMIN_S16_LD_INCP_args") 1 (Some "Iclass_EE_VMIN_S16_LD_INCP_stateArgs") 0 None;
  s3_iclass 5 (Some "Iclass_EE_VMIN_S16_ST_INCP_args") 1 (Some "Iclass_EE_VMIN_S16_ST_INCP_stateArgs") 0 None;
  s3_iclass 3 (Some "Iclass_EE_VMIN_S16_args") 1 (Some "Iclass_EE_VMIN_S16_stateArgs") 0 None;
  s3_iclass 5 (Some "Iclass_EE_VMIN_S32_LD_INCP_args") 1 (Some "Iclass_EE_VMIN_S32_LD_INCP_stateArgs") 0 None;
  s3_iclass 5 (Some "Iclass_EE_VMIN_S32_ST_INCP_args") 1 (Some "Iclass_EE_VMIN_S32_ST_INCP_stateArgs") 0 None;
  s3_iclass 3 (Some "Iclass_EE_VMIN_S32_args") 1 (Some "Iclass_EE_VMIN_S32_stateArgs") 0 None;
  s3_iclass 5 (Some "Iclass_EE_VMIN_S8_LD_INCP_args") 1 (Some "Iclass_EE_VMIN_S8_LD_INCP_stateArgs") 0 None;
  s3_iclass 5 (Some "Iclass_EE_VMIN_S8_ST_INCP_args") 1 (Some "Iclass_EE_VMIN_S8_ST_INCP_stateArgs") 0 None;
  s3_iclass 3 (Some "Iclass_EE_VMIN_S8_args") 1 (Some "Iclass_EE_VMIN_S8_stateArgs") 0 None;
  s3_iclass 3 (Some "Iclass_EE_VCMP_EQ_S16_args") 1 (Some "Iclass_EE_VCMP_EQ_S16_stateArgs") 0 None;
  s3_iclass 3 (Some "Iclass_EE_VCMP_EQ_S32_args") 1 (Some "Iclass_EE_VCMP_EQ_S32_stateArgs") 0 None;
  s3_iclass 3 (Some "Iclass_EE_VCMP_EQ_S8_args") 1 (Some "Iclass_EE_VCMP_EQ_S8_stateArgs") 0 None;
  s3_iclass 3 (Some "Iclass_EE_VCMP_GT_S16_args") 1 (Some "Iclass_EE_VCMP_GT_S16_stateArgs") 0 None;
  s3_iclass 3 (Some "Iclass_EE_VCMP_GT_S32_args") 1 (Some "Iclass_EE_VCMP_GT_S32_stateArgs") 0 None;
  s3_iclass 3 (Some "Iclass_EE_VCMP_GT_S8_args") 1 (Some "Iclass_EE_VCMP_GT_S8_stateArgs") 0 None;
  s3_iclass 3 (Some "Iclass_EE_VCMP_LT_S16_args") 1 (Some "Iclass_EE_VCMP_LT_S16_stateArgs") 0 None;
  s3_iclass 3 (Some "Iclass_EE_VCMP_LT_S32_args") 1 (Some "Iclass_EE_VCMP_LT_S32_stateArgs") 0 None;
  s3_iclass 3 (Some "Iclass_EE_VCMP_LT_S8_args") 1 (Some "Iclass_EE_VCMP_LT_S8_stateArgs") 0 None;
  s3_iclass 3 (Some "Iclass_EE_ANDQ_args") 1 (Some "Iclass_EE_ANDQ_stateArgs") 0 None;
  s3_iclass 2 (Some "Iclass_EE_NOTQ_args") 1 (Some "Iclass_EE_NOTQ_stateArgs") 0 None;
  s3_iclass 3 (Some "Iclass_EE_ORQ_args") 1 (Some "Iclass_EE_ORQ_stateArgs") 0 None;
  s3_iclass 3 (Some "Iclass_EE_XORQ_args") 1 (Some "Iclass_EE_XORQ_stateArgs") 0 None;
  s3_iclass 3 (Some "Iclass_EE_SLCI_2Q_args") 1 (Some "Iclass_EE_SLCI_2Q_stateArgs") 0 None;
  s3_iclass 4 (Some "Iclass_EE_SLCXXP_2Q_args") 1 (Some "Iclass_EE_SLCXXP_2Q_stateArgs") 0 None;
  s3_iclass 3 (Some "Iclass_EE_SRCI_2Q_args") 1 (Some "Iclass_EE_SRCI_2Q_stateArgs") 0 None;
  s3_iclass 3 (Some "Iclass_EE_SRCQ_128_ST_INCP_args") 2 (Some "Iclass_EE_SRCQ_128_ST_INCP_stateArgs") 0 None;
  s3_iclass 5 (Some "Iclass_EE_SRC_Q_LD_IP_args") 2 (Some "Iclass_EE_SRC_Q_LD_IP_stateArgs") 0 None;
  s3_iclass 5 (Some "Iclass_EE_SRC_Q_LD_XP_args") 2 (Some "Iclass_EE_SRC_Q_LD_XP_stateArgs") 0 None;
  s3_iclass 3 (Some "Iclass_EE_SRC_Q_QUP_args") 2 (Some "Iclass_EE_SRC_Q_QUP_stateArgs") 0 None;
  s3_iclass 3 (Some "Iclass_EE_SRC_Q_args") 2 (Some "Iclass_EE_SRC_Q_stateArgs") 0 None;
  s3_iclass 4 (Some "Iclass_EE_SRCXXP_2Q_args") 1 (Some "Iclass_EE_SRCXXP_2Q_stateArgs") 0 None;
  s3_iclass 2 (Some "Iclass_EE_VSL_32_args") 2 (Some "Iclass_EE_VSL_32_stateArgs") 0 None;
  s3_iclass 2 (Some "Iclass_EE_VSR_32_args") 2 (Some "Iclass_EE_VSR_32_stateArgs") 0 None;
  s3_iclass 5 (Some "Iclass_EE_FFT_R2BF_S16_ST_INCP_args") 1 (Some "Iclass_EE_FFT_R2BF_S16_ST_INCP_stateArgs") 0 None;
  s3_iclass 5 (Some "Iclass_EE_FFT_R2BF_S16_args") 1 (Some "Iclass_EE_FFT_R2BF_S16_stateArgs") 0 None;
  s3_iclass 7 (Some "Iclass_EE_FFT_CMUL_S16_LD_XP_args") 2 (Some "Iclass_EE_FFT_CMUL_S16_LD_XP_stateArgs") 0 None;
  s3_iclass 8 (Some "Iclass_EE_FFT_CMUL_S16_ST_XP_args") 2 (Some "Iclass_EE_FFT_CMUL_S16_ST_XP_stateArgs") 0 None;
  s3_iclass 2 (Some "Iclass_EE_BITREV_args") 2 (Some "Iclass_EE_BITREV_stateArgs") 0 None;
  s3_iclass 8 (Some "Iclass_EE_FFT_AMS_S16_LD_INCP_args") 2 (Some "Iclass_EE_FFT_AMS_S16_LD_INCP_stateArgs") 0 None;
  s3_iclass 8 (Some "Iclass_EE_FFT_AMS_S16_LD_INCP_UAUP_args") 4 (Some "Iclass_EE_FFT_AMS_S16_LD_INCP_UAUP_stateArgs") 0 None;
  s3_iclass 8 (Some "Iclass_EE_FFT_AMS_S16_LD_R32_DECP_args") 2 (Some "Iclass_EE_FFT_AMS_S16_LD_R32_DECP_stateArgs") 0 None;
  s3_iclass 8 (Some "Iclass_EE_FFT_AMS_S16_ST_INCP_args") 2 (Some "Iclass_EE_FFT_AMS_S16_ST_INCP_stateArgs") 0 None;
  s3_iclass 3 (Some "Iclass_EE_FFT_VST_R32_DECP_args") 1 (Some "Iclass_EE_FFT_VST_R32_DECP_stateArgs") 0 None;
  s3_iclass 1 (Some "Iclass_rur_accx_0_args") 2 (Some "Iclass_rur_accx_0_stateArgs") 0 None;
  s3_iclass 1 (Some "Iclass_wur_accx_0_args") 2 (Some "Iclass_wur_accx_0_stateArgs") 0 None;
  s3_iclass 1 (Some "Iclass_rur_accx_1_args") 2 (Some "Iclass_rur_accx_1_stateArgs") 0 None;
  s3_iclass 1 (Some "Iclass_wur_accx_1_args") 2 (Some "Iclass_wur_accx_1_stateArgs") 0 None;
  s3_iclass 1 (Some "Iclass_rur_qacc_h_0_args") 2 (Some "Iclass_rur_qacc_h_0_stateArgs") 0 None;
  s3_iclass 1 (Some "Iclass_wur_qacc_h_0_args") 2 (Some "Iclass_wur_qacc_h_0_stateArgs") 0 None;
  s3_iclass 1 (Some "Iclass_rur_qacc_h_1_args") 2 (Some "Iclass_rur_qacc_h_1_stateArgs") 0 None;
  s3_iclass 1 (Some "Iclass_wur_qacc_h_1_args") 2 (Some "Iclass_wur_qacc_h_1_stateArgs") 0 None].

Definition s3_iclasses_9 : list xtensa_iclass_internal := [
  s3_iclass 1 (Some "Iclass_rur_qacc_h_2_args") 2 (Some "Iclass_rur_qacc_h_2_stateArgs") 0 None;
  s3_iclass 1 (Some "Iclass_wur_qacc_h_2_args") 2 (Some "Iclass_wur_qacc_h_2_stateArgs") 0 None;
  s3_iclass 1 (Some "Iclass_rur_qacc_h_3_args") 2 (Some "Iclass_rur_qacc_h_3_stateArgs") 0 None;
  s3_iclass 1 (Some "Iclass_wur_qacc_h_3_args") 2 (Some "Iclass_wur_qacc_h_3_stateArgs") 0 None;
  s3_iclass 1 (Some "Iclass_rur_qacc_h_4_args") 2 (Some "Iclass_rur_qacc_h_4_stateArgs") 0 None;
  s3_iclass 1 (Some "Iclass_wur_qacc_h_4_args") 2 (Some "Iclass_wur_qacc_h_4_stateArgs") 0 None;
  s3_iclass 1 (Some "Iclass_rur_qacc_l_0_args") 2 (Some "Iclass_rur_qacc_l_0_stateArgs") 0 None;
  s3_iclass 1 (Some "Iclass_wur_qacc_l_0_args") 2 (Some "Iclass_wur_qacc_l_0_stateArgs") 0 None;
  s3_iclass 1 (Some "Iclass_rur_qacc_l_1_args") 2 (Some "Iclass_rur_qacc_l_1_stateArgs") 0 None;
  s3_iclass 1 (Some "Iclass_wur_qacc_l_1_args") 2 (Some "Iclass_wur_qacc_l_1_stateArgs") 0 None;
  s3_iclass 1 (Some "Iclass_rur_qacc_l_2_args") 2 (Some "Iclass_rur_qacc_l_2_stateArgs") 0 None;
  s3_iclass 1 (Some "Iclass_wur_qacc_l_2_args") 2 (Some "Iclass_wur_qacc_l_2_stateArgs") 0 None;
  s3_iclass 1 (Some "Iclass_rur_qacc_l_3_args") 2 (Some "Iclass_rur_qacc_l_3_stateArgs") 0 None;
  s3_iclass 1 (Some "Iclass_wur_qacc_l_3_args") 2 (Some "Iclass_wur_qacc_l_3_stateArgs") 0 None;
  s3_iclass 1 (Some "Iclass_rur_qacc_l_4_args") 2 (Some "Iclass_rur_qacc_l_4_stateArgs") 0 None;
  s3_iclass 1 (Some "Iclass_wur_qacc_l_4_args") 2 (Some "Iclass_wur_qacc_l_4_stateArgs") 0 None;
  s3_iclass 1 (Some "Iclass_rur_gpio_out_args") 1 (Some "Iclass_rur_gpio_out_stateArgs") 0 None;
  s3_iclass 1 (Some "Iclass_wur_gpio_out_args") 1 (Some "Iclass_wur_gpio_out_stateArgs") 0 None;
  s3_iclass 1 (Some "Iclass_rur_sar_byte_args") 2 (Some "Iclass_rur_sar_byte_stateArgs") 0 None;
  s3_iclass 1 (Some "Iclass_wur_sar_byte_args") 2 (Some "Iclass_wur_sar_byte_stateArgs") 0 None;
  s3_iclass 1 (Some "Iclass_rur_fft_bit_width_args") 2 (Some "Iclass_rur_fft_bit_width_stateArgs") 0 None;
  s3_iclass 1 (Some "Iclass_wur_fft_bit_width_args") 2 (Some "Iclass_wur_fft_bit_width_stateArgs") 0 None;
  s3_iclass 1 (Some "Iclass_rur_ua_state_0_args") 2 (Some "Iclass_rur_ua_state_0_stateArgs") 0 None;
  s3_iclass 1 (Some "Iclass_wur_ua_state_0_args") 2 (Some "Iclass_wur_ua_state_0_stateArgs") 0 None;
  s3_iclass 1 (Some "Iclass_rur_ua_state_1_args") 2 (Some "Iclass_rur_ua_state_1_stateArgs") 0 None;
  s3_iclass 1 (Some "Iclass_wur_ua_state_1_args") 2 (Some "Iclass_wur_ua_state_1_stateArgs") 0 None;
  s3_iclass 1 (Some "Iclass_rur_ua_state_2_args") 2 (Some "Iclass_rur_ua_state_2_stateArgs") 0 None;
  s3_iclass 1 (Some "Iclass_wur_ua_state_2_args") 2 (Some "Iclass_wur_ua_state_2_stateArgs") 0 None;
  s3_iclass 1 (Some "Iclass_rur_ua_state_3_args") 2 (Some "Iclass_rur_ua_state_3_stateArgs") 0 None;
  s3_iclass 1 (Some "Iclass_wur_ua_state_3_args") 2 (Some "Iclass_wur_ua_state_3_stateArgs") 0 None].

Definition s3_iclasses : list xtensa_iclass_internal := Eval vm_compute in
  s3_iclasses_1 ++ s3_iclasses_2 ++ s3_iclasses_3 ++ s3_iclasses_4 ++ s3_iclasses_5 ++ s3_iclasses_6 ++ s3_iclasses_7 ++ s3_iclasses_8 ++ s3_iclasses_9.

(** ** Register files, states, special registers, interfaces *)

Definition s3_regfiles : list xtensa_regfile_internal := [mkRegfile "AR" "a" REGFILE_AR 32 64;
   mkRegfile "MR" "m" REGFILE_MR 32 4; mkRegfile "BR" "b" REGFILE_BR 1 16;
   mkRegfile "FR" "f" REGFILE_FR 32 16; mkRegfile "QR" "q" REGFILE_QR 128 8;
   mkRegfile "BR2" "b" REGFILE_BR 2 8; mkRegfile "BR4" "b" REGFILE_BR 4 4;
   mkRegfile "BR8" "b" REGFILE_BR 8 2; mkRegfile "BR16" "b" REGFILE_BR 16 1].

Definition s3_states : list xtensa_state_internal := [mkState "LCOUNT" 32 0; mkState "PC" 32 0;
   mkState "ICOUNT" 32 0; mkState "DDR" 32 0; mkState "INTERRUPT" 32 0; mkState "CCOUNT" 32 0;
   mkState "XTSYNC" 1 0; mkState "VECBASE" 22 0; mkState "EPC1" 32 0; mkState "EPC2" 32 0;
   mkState "EPC3" 32 0; mkState "EPC4" 32 0; mkState "EPC5" 32 0; mkState "EPC6" 32 0; mkState "EPC7" 32 0;
   mkState "EXCSAVE1" 32 0; mkState "EXCSAVE2" 32 0; mkState "EXCSAVE3" 32 0; mkState "EXCSAVE4" 32 0;
   mkState "EXCSAVE5" 32 0; mkState "EXCSAVE6" 32 0; mkState "EXCSAVE7" 32 0; mkState "EPS2" 13 0;
   mkState "EPS3" 13 0; mkState "EPS4" 13 0; mkState "EPS5" 13 0; mkState "EPS6" 13 0; mkState "EPS7" 13 0;
   mkState "EXCCAUSE" 6 0; mkState "PSINTLEVEL" 4 0; mkState "PSUM" 1 0; mkState "PSWOE" 1 0;
   mkState "PSEXCM" 1 0; mkState "DEPC" 32 0; mkState "EXCVADDR" 32 0; mkState "WindowBase" 4 0;
   mkState "WindowStart" 16 0; mkState "PSCALLINC" 2 0; mkState "PSOWB" 4 0; mkState "LBEG" 32 0;
   mkState "LEND" 32 0; mkState "MEMCTL" 1 0; mkState "SAR" 6 0; mkState "THREADPTR" 32 0;
   mkState "MISC0" 32 0; mkState "MISC1" 32 0; mkState "MISC2" 32 0; mkState "MISC3" 32 0;
   mkState "ACC" 40 0; mkState "InOCDMode" 1 0; mkState "INTENABLE" 32 0; mkState "DBREAKA0" 32 0;
   mkState "DBREAKC0" 8 0; mkState "DBREAKA1" 32 0; mkState "DBREAKC1" 8 0; mkState "IBREAKA0" 32 0;
   mkState "IBREAKA1" 32 0; mkState "IBREAKENABLE" 2 0; mkState "ICOUNTLEVEL" 4 0;
   mkState "DEBUGCAUSE" 6 0; mkState "DBNUM" 4 0; mkState "CCOMPARE0" 32 0; mkState "CCOMPARE1" 32 0;
   mkState "CCOMPARE2" 32 0; mkState "CPENABLE" 8 0; mkState "SCOMPARE1" 32 0; mkState "ATOMCTL" 6 0;
   mkState "ERI_RAW_INTERLOCK" 1 0; mkState "RoundMode" 2 0; mkState "InvalidEnable" 1 0;
   mkState "DivZeroEnable" 1 0; mkState "OverflowEnable" 1 0; mkState "UnderflowEnable" 1 0;
   mkState "InexactEnable" 1 0; mkState "InvalidFlag" 1 XTENSA_STATE_IS_SHARED_OR;
   mkState "DivZeroFlag" 1 XTENSA_STATE_IS_SHARED_OR; mkState "OverflowFlag" 1 XTENSA_STATE_IS_SHARED_OR;
   mkState "UnderflowFlag" 1 XTENSA_STATE_IS_SHARED_OR; mkState "InexactFlag" 1 XTENSA_STATE_IS_SHARED_OR;
   mkState "FPreserved20" 20 0; mkState "FPreserved20a" 20 0; mkState "FPreserved5" 5 0;
   mkState "FPreserved7" 7 0; mkState "ACCX" 40 0; mkState "QACC_H" 160 0; mkState "QACC_L" 160 0;
   mkState "GPIO_OUT" 8 XTENSA_STATE_IS_EXPORTED; mkState "SAR_BYTE" 4 0; mkState "FFT_BIT_WIDTH" 4 0;
   mkState "UA_STATE" 128 0].

Definition s3_sysregs : list xtensa_sysreg_internal := [mkSysreg "LBEG" 0 0; mkSysreg "LEND" 1 0;
   mkSysreg "LCOUNT" 2 0; mkSysreg "BR" 4 0; mkSysreg "ACCLO" 16 0; mkSysreg "ACCHI" 17 0;
   mkSysreg "M0" 32 0; mkSysreg "M1" 33 0; mkSysreg "M2" 34 0; mkSysreg "M3" 35 0; mkSysreg "MMID" 89 0;
   mkSysreg "DDR" 104 0; mkSysreg "CONFIGID0" 176 0; mkSysreg "CONFIGID1" 208 0;
   mkSysreg "INTERRUPT" 226 0; mkSysreg "INTCLEAR" 227 0; mkSysreg "CCOUNT" 234 0; mkSysreg "PRID" 235 0;
   mkSysreg "ICOUNT" 236 0; mkSysreg "CCOMPARE0" 240 0; mkSysreg "CCOMPARE1" 241 0;
   mkSysreg "CCOMPARE2" 242 0; mkSysreg "VECBASE" 231 0; mkSysreg "EPC1" 177 0; mkSysreg "EPC2" 178 0;
   mkSysreg "EPC3" 179 0; mkSysreg "EPC4" 180 0; mkSysreg "EPC5" 181 0; mkSysreg "EPC6" 182 0;
   mkSysreg "EPC7" 183 0; mkSysreg "EXCSAVE1" 209 0; mkSysreg "EXCSAVE2" 210 0; mkSysreg "EXCSAVE3" 211 0;
   mkSysreg "EXCSAVE4" 212 0; mkSysreg "EXCSAVE5" 213 0; mkSysreg "EXCSAVE6" 214 0;
   mkSysreg "EXCSAVE7" 215 0; mkSysreg "EPS2" 194 0; mkSysreg "EPS3" 195 0; mkSysreg "EPS4" 196 0;
   mkSysreg "EPS5" 197 0; mkSysreg "EPS6" 198 0; mkSysreg "EPS7" 199 0; mkSysreg "EXCCAUSE" 232 0;
   mkSysreg "DEPC" 192 0; mkSysreg "EXCVADDR" 238 0; mkSysreg "WINDOWBASE" 72 0;
   mkSysreg "WINDOWSTART" 73 0; mkSysreg "MEMCTL" 97 0; mkSysreg "SAR" 3 0; mkSysreg "PS" 230 0;
   mkSysreg "MISC0" 244 0; mkSysreg "MISC1" 245 0; mkSysreg "MISC2" 246 0; mkSysreg "MISC3" 247 0;
   mkSysreg "INTENABLE" 228 0; mkSysreg "DBREAKA0" 144 0; mkSysreg "DBREAKC0" 160 0;
   mkSysreg "DBREAKA1" 145 0; mkSysreg "DBREAKC1" 161 0; mkSysreg "IBREAKA0" 128 0;
   mkSysreg "IBREAKA1" 129 0; mkSysreg "IBREAKENABLE" 96 0; mkSysreg "ICOUNTLEVEL" 237 0;
   mkSysreg "DEBUGCAUSE" 233 0; mkSysreg "CPENABLE" 224 0; mkSysreg "SCOMPARE1" 12 0;
   mkSysreg "ATOMCTL" 99 0; mkSysreg "THREADPTR" 231 1; mkSysreg "FCR" 232 1; mkSysreg "FSR" 233 1;
   mkSysreg "ACCX_0" 0 1; mkSysreg "ACCX_1" 1 1; mkSysreg "QACC_H_0" 2 1; mkSysreg "QACC_H_1" 3 1;
   mkSysreg "QACC_H_2" 4 1; mkSysreg "QACC_H_3" 5 1; mkSysreg "QACC_H_4" 6 1; mkSysreg "QACC_L_0" 7 1;
   mkSysreg "QACC_L_1" 8 1; mkSysreg "QACC_L_2" 9 1; mkSysreg "QACC_L_3" 10 1; mkSysreg "QACC_L_4" 11 1;
   mkSysreg "GPIO_OUT" 12 1; mkSysreg "SAR_BYTE" 13 1; mkSysreg "FFT_BIT_WIDTH" 14 1;
   mkSysreg "UA_STATE_0" 15 1; mkSysreg "UA_STATE_1" 16 1; mkSysreg "UA_STATE_2" 17 1;
   mkSysreg "UA_STATE_3" 18 1].

Definition s3_interfaces : list xtensa_interface_internal := [mkInterface "ERI_RD_Out" 14 0 0 "o";
   mkInterface "ERI_RD_In" 32 0 1 "i"; mkInterface "ERI_RD_Rdy" 1 0 0 "i";
   mkInterface "ERI_WR_Out" 46 0 2 "o"; mkInterface "ERI_WR_In" 1 0 3 "i"; mkInterface "GPIO_IN" 8 0 4 "i"].

