(* ===== verification/S3Units.v ===== *)
(** * ESP32-S3 ISA module: functional units ([target/xtensa/core-esp32s3/xtensa-modules.inc.c])

    The functional units and the cycles in which each opcode uses them. *)

From S2P Require Import Prelude Isa.

(** ** [xtensa_funcUnit_id] *)

Abbreviation FUNCUNIT_func_addsub_s8x2_0 := 0 (only parsing).
Abbreviation FUNCUNIT_func_addsub_s8x2_1 := 1 (only parsing).
Abbreviation FUNCUNIT_func_addsub_s8x2_2 := 2 (only parsing).
Abbreviation FUNCUNIT_func_addsub_s8x2_3 := 3 (only parsing).
Abbreviation FUNCUNIT_func_addsub_s8x2_4 := 4 (only parsing).
Abbreviation FUNCUNIT_func_addsub_s8x2_5 := 5 (only parsing).
Abbreviation FUNCUNIT_func_addsub_s8x2_6 := 6 (only parsing).
Abbreviation FUNCUNIT_func_addsub_s8x2_7 := 7 (only parsing).
Abbreviation FUNCUNIT_func_addsub_s16x2_0 := 8 (only parsing).
Abbreviation FUNCUNIT_func_addsub_s16x2_1 := 9 (only parsing).
Abbreviation FUNCUNIT_func_addsub_s16x2_2 := 10 (only parsing).
Abbreviation FUNCUNIT_func_addsub_s16x2_3 := 11 (only parsing).
Abbreviation FUNCUNIT_func_addsub_s16x2_4 := 12 (only parsing).
Abbreviation FUNCUNIT_func_addsub_s16x2_5 := 13 (only parsing).
Abbreviation FUNCUNIT_func_addsub_s16x2_6 := 14 (only parsing).
Abbreviation FUNCUNIT_func_addsub_s16x2_7 := 15 (only parsing).
Abbreviation FUNCUNIT_func_addsub_s16x2_slot1_0 := 16 (only parsing).
Abbreviation FUNCUNIT_func_addsub_s16x2_slot1_1 := 17 (only parsing).
Abbreviation FUNCUNIT_func_addsub_s16x2_slot1_2 := 18 (only parsing).
Abbreviation FUNCUNIT_func_addsub_s16x2_slot1_3 := 19 (only parsing).
Abbreviation FUNCUNIT_func_addsub_s20x2_slot_end_0 := 20 (only parsing).
Abbreviation FUNCUNIT_func_addsub_s20x2_slot_end_1 := 21 (only parsing).
Abbreviation FUNCUNIT_func_addsub_s20x2_slot_end_2 := 22 (only parsing).
Abbreviation FUNCUNIT_func_addsub_s20x2_slot_end_3 := 23 (only parsing).
Abbreviation FUNCUNIT_func_addsub_s32x2_slot0_0 := 24 (only parsing).
Abbreviation FUNCUNIT_func_addsub_s32x2_slot0_1 := 25 (only parsing).
Abbreviation FUNCUNIT_func_addsub_s32x2_slot0_2 := 26 (only parsing).
Abbreviation FUNCUNIT_func_addsub_s32x2_slot0_3 := 27 (only parsing).
Abbreviation FUNCUNIT_func_addsub_s32x2_slot0_4 := 28 (only parsing).
Abbreviation FUNCUNIT_func_addsub_s32x2_slot0_5 := 29 (only parsing).
Abbreviation FUNCUNIT_func_addsub_s32x2_slot0_6 := 30 (only parsing).
Abbreviation FUNCUNIT_func_addsub_s32x2_slot0_7 := 31 (only parsing).
Abbreviation FUNCUNIT_func_addsub_s32x2_slot1_0 := 32 (only parsing).
Abbreviation FUNCUNIT_func_addsub_s32x2_slot1_1 := 33 (only parsing).
Abbreviation FUNCUNIT_func_addsub_s32x2_slot1_2 := 34 (only parsing).
Abbreviation FUNCUNIT_func_addsub_s32x2_slot1_3 := 35 (only parsing).
Abbreviation FUNCUNIT_func_addsub_s32x2_slot1_extra := 36 (only parsing).
Abbreviation FUNCUNIT_func_addsub_s40x2_0 := 37 (only parsing).
Abbreviation FUNCUNIT_func_addsub_s40x2_1 := 38 (only parsing).
Abbreviation FUNCUNIT_func_addsub_s40x2_2 := 39 (only parsing).
Abbreviation FUNCUNIT_func_addsub_s40x2_3 := 40 (only parsing).
Abbreviation FUNCUNIT_func_addsub_s40x2_4 := 41 (only parsing).
Abbreviation FUNCUNIT_func_addsub_s40x2_5 := 42 (only parsing).
Abbreviation FUNCUNIT_func_addsub_s40x2_6 := 43 (only parsing).
Abbreviation FUNCUNIT_func_addsub_s40x2_7 := 44 (only parsing).
Abbreviation FUNCUNIT_func_addsub_s32x2_spe := 45 (only parsing).
Abbreviation FUNCUNIT_func_mul_s8xs8_0 := 46 (only parsing).
Abbreviation FUNCUNIT_func_mul_s8xs8_1 := 47 (only parsing).
Abbreviation FUNCUNIT_func_mul_s8xs8_2 := 48 (only parsing).
Abbreviation FUNCUNIT_func_mul_s8xs8_3 := 49 (only parsing).
Abbreviation FUNCUNIT_func_mul_s8xs8_4 := 50 (only parsing).
Abbreviation FUNCUNIT_func_mul_s8xs8_5 := 51 (only parsing).
Abbreviation FUNCUNIT_func_mul_s8xs8_6 := 52 (only parsing).
Abbreviation FUNCUNIT_func_mul_s8xs8_7 := 53 (only parsing).
Abbreviation FUNCUNIT_func_mul_s16xs16_0 := 54 (only parsing).
Abbreviation FUNCUNIT_func_mul_s16xs16_1 := 55 (only parsing).
Abbreviation FUNCUNIT_func_mul_s16xs16_2 := 56 (only parsing).
Abbreviation FUNCUNIT_func_mul_s16xs16_3 := 57 (only parsing).
Abbreviation FUNCUNIT_func_mul_s16xs16_4 := 58 (only parsing).
Abbreviation FUNCUNIT_func_mul_s16xs16_5 := 59 (only parsing).
Abbreviation FUNCUNIT_func_mul_s16xs16_6 := 60 (only parsing).
Abbreviation FUNCUNIT_func_mul_s16xs16_7 := 61 (only parsing).
Abbreviation FUNCUNIT_func_shift_s16rs8_0 := 62 (only parsing).
Abbreviation FUNCUNIT_func_shift_s16rs8_1 := 63 (only parsing).
Abbreviation FUNCUNIT_func_shift_s16rs8_2 := 64 (only parsing).
Abbreviation FUNCUNIT_func_shift_s16rs8_3 := 65 (only parsing).
Abbreviation FUNCUNIT_func_shift_s16rs8_4 := 66 (only parsing).
Abbreviation FUNCUNIT_func_shift_s16rs8_5 := 67 (only parsing).
Abbreviation FUNCUNIT_func_shift_s16rs8_6 := 68 (only parsing).
Abbreviation FUNCUNIT_func_shift_s16rs8_7 := 69 (only parsing).
Abbreviation FUNCUNIT_func_shift_s16rs8_8 := 70 (only parsing).
Abbreviation FUNCUNIT_func_shift_s16rs8_9 := 71 (only parsing).
Abbreviation FUNCUNIT_func_shift_s16rs8_10 := 72 (only parsing).
Abbreviation FUNCUNIT_func_shift_s16rs8_11 := 73 (only parsing).
Abbreviation FUNCUNIT_func_shift_s16rs8_12 := 74 (only parsing).
Abbreviation FUNCUNIT_func_shift_s16rs8_13 := 75 (only parsing).
Abbreviation FUNCUNIT_func_shift_s16rs8_14 := 76 (only parsing).
Abbreviation FUNCUNIT_func_shift_s16rs8_15 := 77 (only parsing).
Abbreviation FUNCUNIT_func_shift_s40rs_slot_end_0 := 78 (only parsing).
Abbreviation FUNCUNIT_func_shift_s40rs_slot_end_1 := 79 (only parsing).
Abbreviation FUNCUNIT_func_shift_s40rs_slot_end_2 := 80 (only parsing).
Abbreviation FUNCUNIT_func_shift_s40rs_slot_end_3 := 81 (only parsing).
Abbreviation FUNCUNIT_func_shift_s40rs_slot_end_4 := 82 (only parsing).
Abbreviation FUNCUNIT_func_shift_s40rs_slot_end_5 := 83 (only parsing).
Abbreviation FUNCUNIT_func_shift_s40rs_slot_end_6 := 84 (only parsing).
Abbreviation FUNCUNIT_func_shift_s40rs_slot_end_7 := 85 (only parsing).
Abbreviation FUNCUNIT_func_shift_s32rs16_0 := 86 (only parsing).
Abbreviation FUNCUNIT_func_shift_s32rs16_1 := 87 (only parsing).
Abbreviation FUNCUNIT_func_shift_s32rs16_2 := 88 (only parsing).
Abbreviation FUNCUNIT_func_shift_s32rs16_3 := 89 (only parsing).
Abbreviation FUNCUNIT_func_shift_s32rs16_4 := 90 (only parsing).
Abbreviation FUNCUNIT_func_shift_s32rs16_5 := 91 (only parsing).
Abbreviation FUNCUNIT_func_shift_s32rs16_6 := 92 (only parsing).
Abbreviation FUNCUNIT_func_shift_s32rs16_7 := 93 (only parsing).

Definition s3_funcUnits : list xtensa_funcUnit_internal := [mkFuncUnit "func_addsub_s8x2_0" 1;
   mkFuncUnit "func_addsub_s8x2_1" 1; mkFuncUnit "func_addsub_s8x2_2" 1; mkFuncUnit "func_addsub_s8x2_3" 1;
   mkFuncUnit "func_addsub_s8x2_4" 1; mkFuncUnit "func_addsub_s8x2_5" 1; mkFuncUnit "func_addsub_s8x2_6" 1;
   mkFuncUnit "func_addsub_s8x2_7" 1; mkFuncUnit "func_addsub_s16x2_0" 1;
   mkFuncUnit "func_addsub_s16x2_1" 1; mkFuncUnit "func_addsub_s16x2_2" 1;
   mkFuncUnit "func_addsub_s16x2_3" 1; mkFuncUnit "func_addsub_s16x2_4" 1;
   mkFuncUnit "func_addsub_s16x2_5" 1; mkFuncUnit "func_addsub_s16x2_6" 1;
   mkFuncUnit "func_addsub_s16x2_7" 1; mkFuncUnit "func_addsub_s16x2_slot1_0" 1;
   mkFuncUnit "func_addsub_s16x2_slot1_1" 1; mkFuncUnit "func_addsub_s16x2_slot1_2" 1;
   mkFuncUnit "func_addsub_s16x2_slot1_3" 1; mkFuncUnit "func_addsub_s20x2_slot_end_0" 1;
   mkFuncUnit "func_addsub_s20x2_slot_end_1" 1; mkFuncUnit "func_addsub_s20x2_slot_end_2" 1;
   mkFuncUnit "func_addsub_s20x2_slot_end_3" 1; mkFuncUnit "func_addsub_s32x2_slot0_0" 1;
   mkFuncUnit "func_addsub_s32x2_slot0_1" 1; mkFuncUnit "func_addsub_s32x2_slot0_2" 1;
   mkFuncUnit "func_addsub_s32x2_slot0_3" 1; mkFuncUnit "func_addsub_s32x2_slot0_4" 1;
   mkFuncUnit "func_addsub_s32x2_slot0_5" 1; mkFuncUnit "func_addsub_s32x2_slot0_6" 1;
   mkFuncUnit "func_addsub_s32x2_slot0_7" 1; mkFuncUnit "func_addsub_s32x2_slot1_0" 1;
   mkFuncUnit "func_addsub_s32x2_slot1_1" 1; mkFuncUnit "func_addsub_s32x2_slot1_2" 1;
   mkFuncUnit "func_addsub_s32x2_slot1_3" 1; mkFuncUnit "func_addsub_s32x2_slot1_extra" 1;
   mkFuncUnit "func_addsub_s40x2_0" 1; mkFuncUnit "func_addsub_s40x2_1" 1;
   mkFuncUnit "func_addsub_s40x2_2" 1; mkFuncUnit "func_addsub_s40x2_3" 1;
   mkFuncUnit "func_addsub_s40x2_4" 1; mkFuncUnit "func_addsub_s40x2_5" 1;
   mkFuncUnit "func_addsub_s40x2_6" 1; mkFuncUnit "func_addsub_s40x2_7" 1;
   mkFuncUnit "func_addsub_s32x2_spe" 1; mkFuncUnit "func_mul_s8xs8_0" 1; mkFuncUnit "func_mul_s8xs8_1" 1;
   mkFuncUnit "func_mul_s8xs8_2" 1; mkFuncUnit "func_mul_s8xs8_3" 1; mkFuncUnit "func_mul_s8xs8_4" 1;
   mkFuncUnit "func_mul_s8xs8_5" 1; mkFuncUnit "func_mul_s8xs8_6" 1; mkFuncUnit "func_mul_s8xs8_7" 1;
   mkFuncUnit "func_mul_s16xs16_0" 1; mkFuncUnit "func_mul_s16xs16_1" 1; mkFuncUnit "func_mul_s16xs16_2" 1;
   mkFuncUnit "func_mul_s16xs16_3" 1; mkFuncUnit "func_mul_s16xs16_4" 1; mkFuncUnit "func_mul_s16xs16_5" 1;
   mkFuncUnit "func_mul_s16xs16_6" 1; mkFuncUnit "func_mul_s16xs16_7" 1;
   mkFuncUnit "func_shift_s16rs8_0" 1; mkFuncUnit "func_shift_s16rs8_1" 1;
   mkFuncUnit "func_shift_s16rs8_2" 1; mkFuncUnit "func_shift_s16rs8_3" 1;
   mkFuncUnit "func_shift_s16rs8_4" 1; mkFuncUnit "func_shift_s16rs8_5" 1;
   mkFuncUnit "func_shift_s16rs8_6" 1; mkFuncUnit "func_shift_s16rs8_7" 1;
   mkFuncUnit "func_shift_s16rs8_8" 1; mkFuncUnit "func_shift_s16rs8_9" 1;
   mkFuncUnit "func_shift_s16rs8_10" 1; mkFuncUnit "func_shift_s16rs8_11" 1;
   mkFuncUnit "func_shift_s16rs8_12" 1; mkFuncUnit "func_shift_s16rs8_13" 1;
   mkFuncUnit "func_shift_s16rs8_14" 1; mkFuncUnit "func_shift_s16rs8_15" 1;
   mkFuncUnit "func_shift_s40rs_slot_end_0" 1; mkFuncUnit "func_shift_s40rs_slot_end_1" 1;
   mkFuncUnit "func_shift_s40rs_slot_end_2" 1; mkFuncUnit "func_shift_s40rs_slot_end_3" 1;
   mkFuncUnit "func_shift_s40rs_slot_end_4" 1; mkFuncUnit "func_shift_s40rs_slot_end_5" 1;
   mkFuncUnit "func_shift_s40rs_slot_end_6" 1; mkFuncUnit "func_shift_s40rs_slot_end_7" 1;
   mkFuncUnit "func_shift_s32rs16_0" 1; mkFuncUnit "func_shift_s32rs16_1" 1;
   mkFuncUnit "func_shift_s32rs16_2" 1; mkFuncUnit "func_shift_s32rs16_3" 1;
   mkFuncUnit "func_shift_s32rs16_4" 1; mkFuncUnit "func_shift_s32rs16_5" 1;
   mkFuncUnit "func_shift_s32rs16_6" 1; mkFuncUnit "func_shift_s32rs16_7" 1].

Definition s3_uses_1 : list (string * list xtensa_funcUnit_use) := [
  ("Opcode_ee_vld_128_ip_funcUnit_uses", [mkUse FUNCUNIT_func_addsub_s32x2_slot0_0 1;
     mkUse FUNCUNIT_func_addsub_s32x2_slot0_1 1; mkUse FUNCUNIT_func_addsub_s32x2_slot0_2 1;
     mkUse FUNCUNIT_func_addsub_s32x2_slot0_3 1; mkUse FUNCUNIT_func_addsub_s32x2_slot0_4 1;
     mkUse FUNCUNIT_func_addsub_s32x2_slot0_5 1; mkUse FUNCUNIT_func_addsub_s32x2_slot0_6 1;
     mkUse FUNCUNIT_func_addsub_s32x2_slot0_7 1; mkUse FUNCUNIT_func_addsub_s32x2_slot1_3 1]);
  ("Opcode_ee_vld_128_xp_funcUnit_uses", [mkUse FUNCUNIT_func_addsub_s32x2_slot0_0 1;
     mkUse FUNCUNIT_func_addsub_s32x2_slot0_1 1; mkUse FUNCUNIT_func_addsub_s32x2_slot0_2 1;
     mkUse FUNCUNIT_func_addsub_s32x2_slot0_3 1; mkUse FUNCUNIT_func_addsub_s32x2_slot0_4 1;
     mkUse FUNCUNIT_func_addsub_s32x2_slot0_5 1; mkUse FUNCUNIT_func_addsub_s32x2_slot0_6 1;
     mkUse FUNCUNIT_func_addsub_s32x2_slot0_7 1; mkUse FUNCUNIT_func_addsub_s32x2_slot1_3 1]);
  ("Opcode_ee_vld_h_64_ip_funcUnit_uses", [mkUse FUNCUNIT_func_addsub_s32x2_slot0_0 1;
     mkUse FUNCUNIT_func_addsub_s32x2_slot0_1 1; mkUse FUNCUNIT_func_addsub_s32x2_slot0_2 1;
     mkUse FUNCUNIT_func_addsub_s32x2_slot0_3 1; mkUse FUNCUNIT_func_addsub_s32x2_slot0_4 1;
     mkUse FUNCUNIT_func_addsub_s32x2_slot0_5 1; mkUse FUNCUNIT_func_addsub_s32x2_slot0_6 1;
     mkUse FUNCUNIT_func_addsub_s32x2_slot0_7 1; mkUse FUNCUNIT_func_addsub_s32x2_slot1_3 1]);
  ("Opcode_ee_vld_h_64_xp_funcUnit_uses", [mkUse FUNCUNIT_func_addsub_s32x2_slot0_0 1;
     mkUse FUNCUNIT_func_addsub_s32x2_slot0_1 1; mkUse FUNCUNIT_func_addsub_s32x2_slot0_2 1;
     mkUse FUNCUNIT_func_addsub_s32x2_slot0_3 1; mkUse FUNCUNIT_func_addsub_s32x2_slot0_4 1;
     mkUse FUNCUNIT_func_addsub_s32x2_slot0_5 1; mkUse FUNCUNIT_func_addsub_s32x2_slot0_6 1;
     mkUse FUNCUNIT_func_addsub_s32x2_slot0_7 1; mkUse FUNCUNIT_func_addsub_s32x2_slot1_3 1]);
  ("Opcode_ee_vld_l_64_ip_funcUnit_uses", [mkUse FUNCUNIT_func_addsub_s32x2_slot0_0 1;
     mkUse FUNCUNIT_func_addsub_s32x2_slot0_1 1; mkUse FUNCUNIT_func_addsub_s32x2_slot0_2 1;
     mkUse FUNCUNIT_func_addsub_s32x2_slot0_3 1; mkUse FUNCUNIT_func_addsub_s32x2_slot0_4 1;
     mkUse FUNCUNIT_func_addsub_s32x2_slot0_5 1; mkUse FUNCUNIT_func_addsub_s32x2_slot0_6 1;
     mkUse FUNCUNIT_func_addsub_s32x2_slot0_7 1; mkUse FUNCUNIT_func_addsub_s32x2_slot1_3 1]);
  ("Opcode_ee_vld_l_64_xp_funcUnit_uses", [mkUse FUNCUNIT_func_addsub_s32x2_slot0_0 1;
     mkUse FUNCUNIT_func_addsub_s32x2_slot0_1 1; mkUse FUNCUNIT_func_addsub_s32x2_slot0_2 1;
     mkUse FUNCUNIT_func_addsub_s32x2_slot0_3 1; mkUse FUNCUNIT_func_addsub_s32x2_slot0_4 1;
     mkUse FUNCUNIT_func_addsub_s32x2_slot0_5 1; mkUse FUNCUNIT_func_addsub_s32x2_slot0_6 1;
     mkUse FUNCUNIT_func_addsub_s32x2_slot0_7 1; mkUse FUNCUNIT_func_addsub_s32x2_slot1_3 1]);
  ("Opcode_ee_vldbc_16_ip_funcUnit_uses", [mkUse FUNCUNIT_func_addsub_s32x2_slot0_0 1;
     mkUse FUNCUNIT_func_addsub_s32x2_slot0_1 1; mkUse FUNCUNIT_func_addsub_s32x2_slot0_2 1;
     mkUse FUNCUNIT_func_addsub_s32x2_slot0_3 1; mkUse FUNCUNIT_func_addsub_s32x2_slot0_4 1;
     mkUse FUNCUNIT_func_addsub_s32x2_slot0_5 1; mkUse FUNCUNIT_func_addsub_s32x2_slot0_6 1;
     mkUse FUNCUNIT_func_addsub_s32x2_slot0_7 1; mkUse FUNCUNIT_func_addsub_s32x2_slot1_3 1]);
  ("Opcode_ee_vldbc_16_funcUnit_uses", [mkUse FUNCUNIT_func_addsub_s32x2_slot0_0 1;
     mkUse FUNCUNIT_func_addsub_s32x2_slot0_1 1; mkUse FUNCUNIT_func_addsub_s32x2_slot0_2 1;
     mkUse FUNCUNIT_func_addsub_s32x2_slot0_3 1; mkUse FUNCUNIT_func_addsub_s32x2_slot0_4 1;
     mkUse FUNCUNIT_func_addsub_s32x2_slot0_5 1; mkUse FUNCUNIT_func_addsub_s32x2_slot0_6 1;
     mkUse FUNCUNIT_func_addsub_s32x2_slot0_7 1; mkUse FUNCUNIT_func_addsub_s32x2_slot1_3 1]);
  ("Opcode_ee_vldbc_16_xp_funcUnit_uses", [mkUse FUNCUNIT_func_addsub_s32x2_slot0_0 1;
     mkUse FUNCUNIT_func_addsub_s32x2_slot0_1 1; mkUse FUNCUNIT_func_addsub_s32x2_slot0_2 1;
     mkUse FUNCUNIT_func_addsub_s32x2_slot0_3 1; mkUse FUNCUNIT_func_addsub_s32x2_slot0_4 1;
     mkUse FUNCUNIT_func_addsub_s32x2_slot0_5 1; mkUse FUNCUNIT_func_addsub_s32x2_slot0_6 1;
     mkUse FUNCUNIT_func_addsub_s32x2_slot0_7 1; mkUse FUNCUNIT_func_addsub_s32x2_slot1_3 1]);
  ("Opcode_ee_vldbc_32_ip_funcUnit_uses", [mkUse FUNCUNIT_func_addsub_s32x2_slot0_0 1;
     mkUse FUNCUNIT_func_addsub_s32x2_slot0_1 1; mkUse FUNCUNIT_func_addsub_s32x2_slot0_2 1;
     mkUse FUNCUNIT_func_addsub_s32x2_slot0_3 1; mkUse FUNCUNIT_func_addsub_s32x2_slot0_4 1;
     mkUse FUNCUNIT_func_addsub_s32x2_slot0_5 1; mkUse FUNCUNIT_func_addsub_s32x2_slot0_6 1;
     mkUse FUNCUNIT_func_addsub_s32x2_slot0_7 1; mkUse FUNCUNIT_func_addsub_s32x2_slot1_3 1]);
  ("Opcode_ee_vldbc_32_funcUnit_uses", [mkUse FUNCUNIT_func_addsub_s32x2_slot0_0 1;
     mkUse FUNCUNIT_func_addsub_s32x2_slot0_1 1; mkUse FUNCUNIT_func_addsub_s32x2_slot0_2 1;
     mkUse FUNCUNIT_func_addsub_s32x2_slot0_3 1; mkUse FUNCUNIT_func_addsub_s32x2_slot0_4 1;
     mkUse FUNCUNIT_func_addsub_s32x2_slot0_5 1; mkUse FUNCUNIT_func_addsub_s32x2_slot0_6 1;
     mkUse FUNCUNIT_func_addsub_s32x2_slot0_7 1; mkUse FUNCUNIT_func_addsub_s32x2_slot1_3 1]);
  ("Opcode_ee_vldbc_32_xp_funcUnit_uses", [mkUse FUNCUNIT_func_addsub_s32x2_slot0_0 1;
     mkUse FUNCUNIT_func_addsub_s32x2_slot0_1 1; mkUse FUNCUNIT_func_addsub_s32x2_slot0_2 1;
     mkUse FUNCUNIT_func_addsub_s32x2_slot0_3 1; mkUse FUNCUNIT_func_addsub_s32x2_slot0_4 1;
     mkUse FUNCUNIT_func_addsub_s32x2_slot0_5 1; mkUse FUNCUNIT_func_addsub_s32x2_slot0_6 1;
     mkUse FUNCUNIT_func_addsub_s32x2_slot0_7 1; mkUse FUNCUNIT_func_addsub_s32x2_slot1_3 1])].

Definition s3_uses_2 : list (string * list xtensa_funcUnit_use) := [
  ("Opcode_ee_vldbc_8_ip_funcUnit_uses", [mkUse FUNCUNIT_func_addsub_s32x2_slot0_0 1;
     mkUse FUNCUNIT_func_addsub_s32x2_slot0_1 1; mkUse FUNCUNIT_func_addsub_s32x2_slot0_2 1;
     mkUse FUNCUNIT_func_addsub_s32x2_slot0_3 1; mkUse FUNCUNIT_func_addsub_s32x2_slot0_4 1;
     mkUse FUNCUNIT_func_addsub_s32x2_slot0_5 1; mkUse FUNCUNIT_func_addsub_s32x2_slot0_6 1;
     mkUse FUNCUNIT_func_addsub_s32x2_slot0_7 1; mkUse FUNCUNIT_func_addsub_s32x2_slot1_3 1]);
  ("Opcode_ee_vldbc_8_funcUnit_uses", [mkUse FUNCUNIT_func_addsub_s32x2_slot0_0 1;
     mkUse FUNCUNIT_func_addsub_s32x2_slot0_1 1; mkUse FUNCUNIT_func_addsub_s32x2_slot0_2 1;
     mkUse FUNCUNIT_func_addsub_s32x2_slot0_3 1; mkUse FUNCUNIT_func_addsub_s32x2_slot0_4 1;
     mkUse FUNCUNIT_func_addsub_s32x2_slot0_5 1; mkUse FUNCUNIT_func_addsub_s32x2_slot0_6 1;
     mkUse FUNCUNIT_func_addsub_s32x2_slot0_7 1; mkUse FUNCUNIT_func_addsub_s32x2_slot1_3 1]);
  ("Opcode_ee_vldbc_8_xp_funcUnit_uses", [mkUse FUNCUNIT_func_addsub_s32x2_slot0_0 1;
     mkUse FUNCUNIT_func_addsub_s32x2_slot0_1 1; mkUse FUNCUNIT_func_addsub_s32x2_slot0_2 1;
     mkUse FUNCUNIT_func_addsub_s32x2_slot0_3 1; mkUse FUNCUNIT_func_addsub_s32x2_slot0_4 1;
     mkUse FUNCUNIT_func_addsub_s32x2_slot0_5 1; mkUse FUNCUNIT_func_addsub_s32x2_slot0_6 1;
     mkUse FUNCUNIT_func_addsub_s32x2_slot0_7 1; mkUse FUNCUNIT_func_addsub_s32x2_slot1_3 1]);
  ("Opcode_ee_vldhbc_16_incp_funcUnit_uses", [mkUse FUNCUNIT_func_addsub_s32x2_slot0_0 1;
     mkUse FUNCUNIT_func_addsub_s32x2_slot0_1 1; mkUse FUNCUNIT_func_addsub_s32x2_slot0_2 1;
     mkUse FUNCUNIT_func_addsub_s32x2_slot0_3 1; mkUse FUNCUNIT_func_addsub_s32x2_slot0_4 1;
     mkUse FUNCUNIT_func_addsub_s32x2_slot0_5 1; mkUse FUNCUNIT_func_addsub_s32x2_slot0_6 1;
     mkUse FUNCUNIT_func_addsub_s32x2_slot0_7 1; mkUse FUNCUNIT_func_addsub_s32x2_slot1_3 1]);
  ("Opcode_ee_ldf_128_ip_funcUnit_uses", [mkUse FUNCUNIT_func_addsub_s32x2_slot0_0 1;
     mkUse FUNCUNIT_func_addsub_s32x2_slot0_1 1; mkUse FUNCUNIT_func_addsub_s32x2_slot0_2 1;
     mkUse FUNCUNIT_func_addsub_s32x2_slot0_3 1; mkUse FUNCUNIT_func_addsub_s32x2_slot0_4 1;
     mkUse FUNCUNIT_func_addsub_s32x2_slot0_5 1; mkUse FUNCUNIT_func_addsub_s32x2_slot0_6 1;
     mkUse FUNCUNIT_func_addsub_s32x2_slot0_7 1; mkUse FUNCUNIT_func_addsub_s32x2_slot1_3 1]);
  ("Opcode_ee_ldf_128_xp_funcUnit_uses", [mkUse FUNCUNIT_func_addsub_s32x2_slot0_0 1;
     mkUse FUNCUNIT_func_addsub_s32x2_slot0_1 1; mkUse FUNCUNIT_func_addsub_s32x2_slot0_2 1;
     mkUse FUNCUNIT_func_addsub_s32x2_slot0_3 1; mkUse FUNCUNIT_func_addsub_s32x2_slot0_4 1;
     mkUse FUNCUNIT_func_addsub_s32x2_slot0_5 1; mkUse FUNCUNIT_func_addsub_s32x2_slot0_6 1;
     mkUse FUNCUNIT_func_addsub_s32x2_slot0_7 1; mkUse FUNCUNIT_func_addsub_s32x2_slot1_3 1]);
  ("Opcode_ee_ldf_64_ip_funcUnit_uses", [mkUse FUNCUNIT_func_addsub_s32x2_slot0_0 1;
     mkUse FUNCUNIT_func_addsub_s32x2_slot0_1 1; mkUse FUNCUNIT_func_addsub_s32x2_slot0_2 1;
     mkUse FUNCUNIT_func_addsub_s32x2_slot0_3 1; mkUse FUNCUNIT_func_addsub_s32x2_slot0_4 1;
     mkUse FUNCUNIT_func_addsub_s32x2_slot0_5 1; mkUse FUNCUNIT_func_addsub_s32x2_slot0_6 1;
     mkUse FUNCUNIT_func_addsub_s32x2_slot0_7 1; mkUse FUNCUNIT_func_addsub_s32x2_slot1_3 1]);
  ("Opcode_ee_ldf_64_xp_funcUnit_uses", [mkUse FUNCUNIT_func_addsub_s32x2_slot0_0 1;
     mkUse FUNCUNIT_func_addsub_s32x2_slot0_1 1; mkUse FUNCUNIT_func_addsub_s32x2_slot0_2 1;
     mkUse FUNCUNIT_func_addsub_s32x2_slot0_3 1; mkUse FUNCUNIT_func_addsub_s32x2_slot0_4 1;
     mkUse FUNCUNIT_func_addsub_s32x2_slot0_5 1; mkUse FUNCUNIT_func_addsub_s32x2_slot0_6 1;
     mkUse FUNCUNIT_func_addsub_s32x2_slot0_7 1; mkUse FUNCUNIT_func_addsub_s32x2_slot1_3 1]);
  ("Opcode_ee_ld_128_usar_ip_funcUnit_uses", [mkUse FUNCUNIT_func_addsub_s32x2_slot0_0 1;
     mkUse FUNCUNIT_func_addsub_s32x2_slot0_1 1; mkUse FUNCUNIT_func_addsub_s32x2_slot0_2 1;
     mkUse FUNCUNIT_func_addsub_s32x2_slot0_3 1; mkUse FUNCUNIT_func_addsub_s32x2_slot0_4 1;
     mkUse FUNCUNIT_func_addsub_s32x2_slot0_5 1; mkUse FUNCUNIT_func_addsub_s32x2_slot0_6 1;
     mkUse FUNCUNIT_func_addsub_s32x2_slot0_7 1; mkUse FUNCUNIT_func_addsub_s32x2_slot1_3 1]);
  ("Opcode_ee_ld_128_usar_xp_funcUnit_uses", [mkUse FUNCUNIT_func_addsub_s32x2_slot0_0 1;
     mkUse FUNCUNIT_func_addsub_s32x2_slot0_1 1; mkUse FUNCUNIT_func_addsub_s32x2_slot0_2 1;
     mkUse FUNCUNIT_func_addsub_s32x2_slot0_3 1; mkUse FUNCUNIT_func_addsub_s32x2_slot0_4 1;
     mkUse FUNCUNIT_func_addsub_s32x2_slot0_5 1; mkUse FUNCUNIT_func_addsub_s32x2_slot0_6 1;
     mkUse FUNCUNIT_func_addsub_s32x2_slot0_7 1; mkUse FUNCUNIT_func_addsub_s32x2_slot1_3 1]);
  ("Opcode_ee_ldqa_s16_128_ip_funcUnit_uses", [mkUse FUNCUNIT_func_addsub_s32x2_slot0_0 1;
     mkUse FUNCUNIT_func_addsub_s32x2_slot0_1 1; mkUse FUNCUNIT_func_addsub_s32x2_slot0_2 1;
     mkUse FUNCUNIT_func_addsub_s32x2_slot0_3 1; mkUse FUNCUNIT_func_addsub_s32x2_slot0_4 1;
     mkUse FUNCUNIT_func_addsub_s32x2_slot0_5 1; mkUse FUNCUNIT_func_addsub_s32x2_slot0_6 1;
     mkUse FUNCUNIT_func_addsub_s32x2_slot0_7 1; mkUse FUNCUNIT_func_addsub_s32x2_slot1_3 1]);
  ("Opcode_ee_ldqa_s16_128_xp_funcUnit_uses", [mkUse FUNCUNIT_func_addsub_s32x2_slot0_0 1;
     mkUse FUNCUNIT_func_addsub_s32x2_slot0_1 1; mkUse FUNCUNIT_func_addsub_s32x2_slot0_2 1;
     mkUse FUNCUNIT_func_addsub_s32x2_slot0_3 1; mkUse FUNCUNIT_func_addsub_s32x2_slot0_4 1;
     mkUse FUNCUNIT_func_addsub_s32x2_slot0_5 1; mkUse FUNCUNIT_func_addsub_s32x2_slot0_6 1;
     mkUse FUNCUNIT_func_addsub_s32x2_slot0_7 1; mkUse FUNCUNIT_func_addsub_s32x2_slot1_3 1])].

Definition s3_uses_3 : list (string * list xtensa_funcUnit_use) := [
  ("Opcode_ee_ldqa_s8_128_ip_funcUnit_uses", [mkUse FUNCUNIT_func_addsub_s32x2_slot0_0 1;
     mkUse FUNCUNIT_func_addsub_s32x2_slot0_1 1; mkUse FUNCUNIT_func_addsub_s32x2_slot0_2 1;
     mkUse FUNCUNIT_func_addsub_s32x2_slot0_3 1; mkUse FUNCUNIT_func_addsub_s32x2_slot0_4 1;
     mkUse FUNCUNIT_func_addsub_s32x2_slot0_5 1; mkUse FUNCUNIT_func_addsub_s32x2_slot0_6 1;
     mkUse FUNCUNIT_func_addsub_s32x2_slot0_7 1; mkUse FUNCUNIT_func_addsub_s32x2_slot1_3 1]);
  ("Opcode_ee_ldqa_s8_128_xp_funcUnit_uses", [mkUse FUNCUNIT_func_addsub_s32x2_slot0_0 1;
     mkUse FUNCUNIT_func_addsub_s32x2_slot0_1 1; mkUse FUNCUNIT_func_addsub_s32x2_slot0_2 1;
     mkUse FUNCUNIT_func_addsub_s32x2_slot0_3 1; mkUse FUNCUNIT_func_addsub_s32x2_slot0_4 1;
     mkUse FUNCUNIT_func_addsub_s32x2_slot0_5 1; mkUse FUNCUNIT_func_addsub_s32x2_slot0_6 1;
     mkUse FUNCUNIT_func_addsub_s32x2_slot0_7 1; mkUse FUNCUNIT_func_addsub_s32x2_slot1_3 1]);
  ("Opcode_ee_ldqa_u16_128_ip_funcUnit_uses", [mkUse FUNCUNIT_func_addsub_s32x2_slot0_0 1;
     mkUse FUNCUNIT_func_addsub_s32x2_slot0_1 1; mkUse FUNCUNIT_func_addsub_s32x2_slot0_2 1;
     mkUse FUNCUNIT_func_addsub_s32x2_slot0_3 1; mkUse FUNCUNIT_func_addsub_s32x2_slot0_4 1;
     mkUse FUNCUNIT_func_addsub_s32x2_slot0_5 1; mkUse FUNCUNIT_func_addsub_s32x2_slot0_6 1;
     mkUse FUNCUNIT_func_addsub_s32x2_slot0_7 1; mkUse FUNCUNIT_func_addsub_s32x2_slot1_3 1]);
  ("Opcode_ee_ldqa_u16_128_xp_funcUnit_uses", [mkUse FUNCUNIT_func_addsub_s32x2_slot0_0 1;
     mkUse FUNCUNIT_func_addsub_s32x2_slot0_1 1; mkUse FUNCUNIT_func_addsub_s32x2_slot0_2 1;
     mkUse FUNCUNIT_func_addsub_s32x2_slot0_3 1; mkUse FUNCUNIT_func_addsub_s32x2_slot0_4 1;
     mkUse FUNCUNIT_func_addsub_s32x2_slot0_5 1; mkUse FUNCUNIT_func_addsub_s32x2_slot0_6 1;
     mkUse FUNCUNIT_func_addsub_s32x2_slot0_7 1; mkUse FUNCUNIT_func_addsub_s32x2_slot1_3 1]);
  ("Opcode_ee_ldqa_u8_128_ip_funcUnit_uses", [mkUse FUNCUNIT_func_addsub_s32x2_slot0_0 1;
     mkUse FUNCUNIT_func_addsub_s32x2_slot0_1 1; mkUse FUNCUNIT_func_addsub_s32x2_slot0_2 1;
     mkUse FUNCUNIT_func_addsub_s32x2_slot0_3 1; mkUse FUNCUNIT_func_addsub_s32x2_slot0_4 1;
     mkUse FUNCUNIT_func_addsub_s32x2_slot0_5 1; mkUse FUNCUNIT_func_addsub_s32x2_slot0_6 1;
     mkUse FUNCUNIT_func_addsub_s32x2_slot0_7 1; mkUse FUNCUNIT_func_addsub_s32x2_slot1_3 1]);
  ("Opcode_ee_ldqa_u8_128_xp_funcUnit_uses", [mkUse FUNCUNIT_func_addsub_s32x2_slot0_0 1;
     mkUse FUNCUNIT_func_addsub_s32x2_slot0_1 1; mkUse FUNCUNIT_func_addsub_s32x2_slot0_2 1;
     mkUse FUNCUNIT_func_addsub_s32x2_slot0_3 1; mkUse FUNCUNIT_func_addsub_s32x2_slot0_4 1;
     mkUse FUNCUNIT_func_addsub_s32x2_slot0_5 1; mkUse FUNCUNIT_func_addsub_s32x2_slot0_6 1;
     mkUse FUNCUNIT_func_addsub_s32x2_slot0_7 1; mkUse FUNCUNIT_func_addsub_s32x2_slot1_3 1]);
  ("Opcode_ee_ld_qacc_h_h_32_ip_funcUnit_uses", [mkUse FUNCUNIT_func_addsub_s32x2_slot0_0 1;
     mkUse FUNCUNIT_func_addsub_s32x2_slot0_1 1; mkUse FUNCUNIT_func_addsub_s32x2_slot0_2 1;
     mkUse FUNCUNIT_func_addsub_s32x2_slot0_3 1; mkUse FUNCUNIT_func_addsub_s32x2_slot0_4 1;
     mkUse FUNCUNIT_func_addsub_s32x2_slot0_5 1; mkUse FUNCUNIT_func_addsub_s32x2_slot0_6 1;
     mkUse FUNCUNIT_func_addsub_s32x2_slot0_7 1; mkUse FUNCUNIT_func_addsub_s32x2_slot1_3 1]);
  ("Opcode_ee_ld_qacc_h_l_128_ip_funcUnit_uses", [mkUse FUNCUNIT_func_addsub_s32x2_slot0_0 1;
     mkUse FUNCUNIT_func_addsub_s32x2_slot0_1 1; mkUse FUNCUNIT_func_addsub_s32x2_slot0_2 1;
     mkUse FUNCUNIT_func_addsub_s32x2_slot0_3 1; mkUse FUNCUNIT_func_addsub_s32x2_slot0_4 1;
     mkUse FUNCUNIT_func_addsub_s32x2_slot0_5 1; mkUse FUNCUNIT_func_addsub_s32x2_slot0_6 1;
     mkUse FUNCUNIT_func_addsub_s32x2_slot0_7 1; mkUse FUNCUNIT_func_addsub_s32x2_slot1_3 1]);
  ("Opcode_ee_ld_qacc_l_h_32_ip_funcUnit_uses", [mkUse FUNCUNIT_func_addsub_s32x2_slot0_0 1;
     mkUse FUNCUNIT_func_addsub_s32x2_slot0_1 1; mkUse FUNCUNIT_func_addsub_s32x2_slot0_2 1;
     mkUse FUNCUNIT_func_addsub_s32x2_slot0_3 1; mkUse FUNCUNIT_func_addsub_s32x2_slot0_4 1;
     mkUse FUNCUNIT_func_addsub_s32x2_slot0_5 1; mkUse FUNCUNIT_func_addsub_s32x2_slot0_6 1;
     mkUse FUNCUNIT_func_addsub_s32x2_slot0_7 1; mkUse FUNCUNIT_func_addsub_s32x2_slot1_3 1]);
  ("Opcode_ee_ld_qacc_l_l_128_ip_funcUnit_uses", [mkUse FUNCUNIT_func_addsub_s32x2_slot0_0 1;
     mkUse FUNCUNIT_func_addsub_s32x2_slot0_1 1; mkUse FUNCUNIT_func_addsub_s32x2_slot0_2 1;
     mkUse FUNCUNIT_func_addsub_s32x2_slot0_3 1; mkUse FUNCUNIT_func_addsub_s32x2_slot0_4 1;
     mkUse FUNCUNIT_func_addsub_s32x2_slot0_5 1; mkUse FUNCUNIT_func_addsub_s32x2_slot0_6 1;
     mkUse FUNCUNIT_func_addsub_s32x2_slot0_7 1; mkUse FUNCUNIT_func_addsub_s32x2_slot1_3 1]);
  ("Opcode_ee_ld_accx_ip_funcUnit_uses", [mkUse FUNCUNIT_func_addsub_s32x2_slot0_0 1;
     mkUse FUNCUNIT_func_addsub_s32x2_slot0_1 1; mkUse FUNCUNIT_func_addsub_s32x2_slot0_2 1;
     mkUse FUNCUNIT_func_addsub_s32x2_slot0_3 1; mkUse FUNCUNIT_func_addsub_s32x2_slot0_4 1;
     mkUse FUNCUNIT_func_addsub_s32x2_slot0_5 1; mkUse FUNCUNIT_func_addsub_s32x2_slot0_6 1;
     mkUse FUNCUNIT_func_addsub_s32x2_slot0_7 1; mkUse FUNCUNIT_func_addsub_s32x2_slot1_3 1]);
  ("Opcode_ee_ldxq_32_funcUnit_uses", [mkUse FUNCUNIT_func_addsub_s32x2_slot0_0 1;
     mkUse FUNCUNIT_func_addsub_s32x2_slot0_1 1; mkUse FUNCUNIT_func_addsub_s32x2_slot0_2 1;
     mkUse FUNCUNIT_func_addsub_s32x2_slot0_3 1; mkUse FUNCUNIT_func_addsub_s32x2_slot0_4 1;
     mkUse FUNCUNIT_func_addsub_s32x2_slot0_5 1; mkUse FUNCUNIT_func_addsub_s32x2_slot0_6 1;
     mkUse FUNCUNIT_func_addsub_s32x2_slot0_7 1; mkUse FUNCUNIT_func_addsub_s32x2_slot1_3 1])].

Definition s3_uses_4 : list (string * list xtensa_funcUnit_use) := [
  ("Opcode_ee_ld_ua_state_ip_funcUnit_uses", [mkUse FUNCUNIT_func_addsub_s32x2_slot0_0 1;
     mkUse FUNCUNIT_func_addsub_s32x2_slot0_1 1; mkUse FUNCUNIT_func_addsub_s32x2_slot0_2 1;
     mkUse FUNCUNIT_func_addsub_s32x2_slot0_3 1; mkUse FUNCUNIT_func_addsub_s32x2_slot0_4 1;
     mkUse FUNCUNIT_func_addsub_s32x2_slot0_5 1; mkUse FUNCUNIT_func_addsub_s32x2_slot0_6 1;
     mkUse FUNCUNIT_func_addsub_s32x2_slot0_7 1; mkUse FUNCUNIT_func_addsub_s32x2_slot1_3 1]);
  ("Opcode_ee_st_ua_state_ip_funcUnit_uses", [mkUse FUNCUNIT_func_addsub_s32x2_slot0_0 1;
     mkUse FUNCUNIT_func_addsub_s32x2_slot0_1 1; mkUse FUNCUNIT_func_addsub_s32x2_slot0_2 1;
     mkUse FUNCUNIT_func_addsub_s32x2_slot0_3 1; mkUse FUNCUNIT_func_addsub_s32x2_slot0_4 1;
     mkUse FUNCUNIT_func_addsub_s32x2_slot0_5 1; mkUse FUNCUNIT_func_addsub_s32x2_slot0_6 1;
     mkUse FUNCUNIT_func_addsub_s32x2_slot0_7 1; mkUse FUNCUNIT_func_addsub_s32x2_slot1_3 1]);
  ("Opcode_ee_vst_128_ip_funcUnit_uses", [mkUse FUNCUNIT_func_addsub_s32x2_slot0_0 1;
     mkUse FUNCUNIT_func_addsub_s32x2_slot0_1 1; mkUse FUNCUNIT_func_addsub_s32x2_slot0_2 1;
     mkUse FUNCUNIT_func_addsub_s32x2_slot0_3 1; mkUse FUNCUNIT_func_addsub_s32x2_slot0_4 1;
     mkUse FUNCUNIT_func_addsub_s32x2_slot0_5 1; mkUse FUNCUNIT_func_addsub_s32x2_slot0_6 1;
     mkUse FUNCUNIT_func_addsub_s32x2_slot0_7 1; mkUse FUNCUNIT_func_addsub_s32x2_slot1_3 1]);
  ("Opcode_ee_vst_128_xp_funcUnit_uses", [mkUse FUNCUNIT_func_addsub_s32x2_slot0_0 1;
     mkUse FUNCUNIT_func_addsub_s32x2_slot0_1 1; mkUse FUNCUNIT_func_addsub_s32x2_slot0_2 1;
     mkUse FUNCUNIT_func_addsub_s32x2_slot0_3 1; mkUse FUNCUNIT_func_addsub_s32x2_slot0_4 1;
     mkUse FUNCUNIT_func_addsub_s32x2_slot0_5 1; mkUse FUNCUNIT_func_addsub_s32x2_slot0_6 1;
     mkUse FUNCUNIT_func_addsub_s32x2_slot0_7 1; mkUse FUNCUNIT_func_addsub_s32x2_slot1_3 1]);
  ("Opcode_ee_vst_h_64_ip_funcUnit_uses", [mkUse FUNCUNIT_func_addsub_s32x2_slot0_0 1;
     mkUse FUNCUNIT_func_addsub_s32x2_slot0_1 1; mkUse FUNCUNIT_func_addsub_s32x2_slot0_2 1;
     mkUse FUNCUNIT_func_addsub_s32x2_slot0_3 1; mkUse FUNCUNIT_func_addsub_s32x2_slot0_4 1;
     mkUse FUNCUNIT_func_addsub_s32x2_slot0_5 1; mkUse FUNCUNIT_func_addsub_s32x2_slot0_6 1;
     mkUse FUNCUNIT_func_addsub_s32x2_slot0_7 1; mkUse FUNCUNIT_func_addsub_s32x2_slot1_3 1]);
  ("Opcode_ee_vst_h_64_xp_funcUnit_uses", [mkUse FUNCUNIT_func_addsub_s32x2_slot0_0 1;
     mkUse FUNCUNIT_func_addsub_s32x2_slot0_1 1; mkUse FUNCUNIT_func_addsub_s32x2_slot0_2 1;
     mkUse FUNCUNIT_func_addsub_s32x2_slot0_3 1; mkUse FUNCUNIT_func_addsub_s32x2_slot0_4 1;
     mkUse FUNCUNIT_func_addsub_s32x2_slot0_5 1; mkUse FUNCUNIT_func_addsub_s32x2_slot0_6 1;
     mkUse FUNCUNIT_func_addsub_s32x2_slot0_7 1; mkUse FUNCUNIT_func_addsub_s32x2_slot1_3 1]);
  ("Opcode_ee_vst_l_64_ip_funcUnit_uses", [mkUse FUNCUNIT_func_addsub_s32x2_slot0_0 1;
     mkUse FUNCUNIT_func_addsub_s32x2_slot0_1 1; mkUse FUNCUNIT_func_addsub_s32x2_slot0_2 1;
     mkUse FUNCUNIT_func_addsub_s32x2_slot0_3 1; mkUse FUNCUNIT_func_addsub_s32x2_slot0_4 1;
     mkUse FUNCUNIT_func_addsub_s32x2_slot0_5 1; mkUse FUNCUNIT_func_addsub_s32x2_slot0_6 1;
     mkUse FUNCUNIT_func_addsub_s32x2_slot0_7 1; mkUse FUNCUNIT_func_addsub_s32x2_slot1_3 1]);
  ("Opcode_ee_vst_l_64_xp_funcUnit_uses", [mkUse FUNCUNIT_func_addsub_s32x2_slot0_0 1;
     mkUse FUNCUNIT_func_addsub_s32x2_slot0_1 1; mkUse FUNCUNIT_func_addsub_s32x2_slot0_2 1;
     mkUse FUNCUNIT_func_addsub_s32x2_slot0_3 1; mkUse FUNCUNIT_func_addsub_s32x2_slot0_4 1;
     mkUse FUNCUNIT_func_addsub_s32x2_slot0_5 1; mkUse FUNCUNIT_func_addsub_s32x2_slot0_6 1;
     mkUse FUNCUNIT_func_addsub_s32x2_slot0_7 1; mkUse FUNCUNIT_func_addsub_s32x2_slot1_3 1]);
  ("Opcode_ee_stf_128_ip_funcUnit_uses", [mkUse FUNCUNIT_func_addsub_s32x2_slot0_0 1;
     mkUse FUNCUNIT_func_addsub_s32x2_slot0_1 1; mkUse FUNCUNIT_func_addsub_s32x2_slot0_2 1;
     mkUse FUNCUNIT_func_addsub_s32x2_slot0_3 1; mkUse FUNCUNIT_func_addsub_s32x2_slot0_4 1;
     mkUse FUNCUNIT_func_addsub_s32x2_slot0_5 1; mkUse FUNCUNIT_func_addsub_s32x2_slot0_6 1;
     mkUse FUNCUNIT_func_addsub_s32x2_slot0_7 1; mkUse FUNCUNIT_func_addsub_s32x2_slot1_3 1]);
  ("Opcode_ee_stf_128_xp_funcUnit_uses", [mkUse FUNCUNIT_func_addsub_s32x2_slot0_0 1;
     mkUse FUNCUNIT_func_addsub_s32x2_slot0_1 1; mkUse FUNCUNIT_func_addsub_s32x2_slot0_2 1;
     mkUse FUNCUNIT_func_addsub_s32x2_slot0_3 1; mkUse FUNCUNIT_func_addsub_s32x2_slot0_4 1;
     mkUse FUNCUNIT_func_addsub_s32x2_slot0_5 1; mkUse FUNCUNIT_func_addsub_s32x2_slot0_6 1;
     mkUse FUNCUNIT_func_addsub_s32x2_slot0_7 1; mkUse FUNCUNIT_func_addsub_s32x2_slot1_3 1]);
  ("Opcode_ee_stf_64_ip_funcUnit_uses", [mkUse FUNCUNIT_func_addsub_s32x2_slot0_0 1;
     mkUse FUNCUNIT_func_addsub_s32x2_slot0_1 1; mkUse FUNCUNIT_func_addsub_s32x2_slot0_2 1;
     mkUse FUNCUNIT_func_addsub_s32x2_slot0_3 1; mkUse FUNCUNIT_func_addsub_s32x2_slot0_4 1;
     mkUse FUNCUNIT_func_addsub_s32x2_slot0_5 1; mkUse FUNCUNIT_func_addsub_s32x2_slot0_6 1;
     mkUse FUNCUNIT_func_addsub_s32x2_slot0_7 1; mkUse FUNCUNIT_func_addsub_s32x2_slot1_3 1]);
  ("Opcode_ee_stf_64_xp_funcUnit_uses", [mkUse FUNCUNIT_func_addsub_s32x2_slot0_0 1;
     mkUse FUNCUNIT_func_addsub_s32x2_slot0_1 1; mkUse FUNCUNIT_func_addsub_s32x2_slot0_2 1;
     mkUse FUNCUNIT_func_addsub_s32x2_slot0_3 1; mkUse FUNCUNIT_func_addsub_s32x2_slot0_4 1;
     mkUse FUNCUNIT_func_addsub_s32x2_slot0_5 1; mkUse FUNCUNIT_func_addsub_s32x2_slot0_6 1;
     mkUse FUNCUNIT_func_addsub_s32x2_slot0_7 1; mkUse FUNCUNIT_func_addsub_s32x2_slot1_3 1])].

Definition s3_uses_5 : list (string * list xtensa_funcUnit_use) := [
  ("Opcode_ee_st_qacc_h_h_32_ip_funcUnit_uses", [mkUse FUNCUNIT_func_addsub_s32x2_slot0_0 1;
     mkUse FUNCUNIT_func_addsub_s32x2_slot0_1 1; mkUse FUNCUNIT_func_addsub_s32x2_slot0_2 1;
     mkUse FUNCUNIT_func_addsub_s32x2_slot0_3 1; mkUse FUNCUNIT_func_addsub_s32x2_slot0_4 1;
     mkUse FUNCUNIT_func_addsub_s32x2_slot0_5 1; mkUse FUNCUNIT_func_addsub_s32x2_slot0_6 1;
     mkUse FUNCUNIT_func_addsub_s32x2_slot0_7 1; mkUse FUNCUNIT_func_addsub_s32x2_slot1_3 1]);
  ("Opcode_ee_st_qacc_h_l_128_ip_funcUnit_uses", [mkUse FUNCUNIT_func_addsub_s32x2_slot0_0 1;
     mkUse FUNCUNIT_func_addsub_s32x2_slot0_1 1; mkUse FUNCUNIT_func_addsub_s32x2_slot0_2 1;
     mkUse FUNCUNIT_func_addsub_s32x2_slot0_3 1; mkUse FUNCUNIT_func_addsub_s32x2_slot0_4 1;
     mkUse FUNCUNIT_func_addsub_s32x2_slot0_5 1; mkUse FUNCUNIT_func_addsub_s32x2_slot0_6 1;
     mkUse FUNCUNIT_func_addsub_s32x2_slot0_7 1; mkUse FUNCUNIT_func_addsub_s32x2_slot1_3 1]);
  ("Opcode_ee_st_qacc_l_h_32_ip_funcUnit_uses", [mkUse FUNCUNIT_func_addsub_s32x2_slot0_0 1;
     mkUse FUNCUNIT_func_addsub_s32x2_slot0_1 1; mkUse FUNCUNIT_func_addsub_s32x2_slot0_2 1;
     mkUse FUNCUNIT_func_addsub_s32x2_slot0_3 1; mkUse FUNCUNIT_func_addsub_s32x2_slot0_4 1;
     mkUse FUNCUNIT_func_addsub_s32x2_slot0_5 1; mkUse FUNCUNIT_func_addsub_s32x2_slot0_6 1;
     mkUse FUNCUNIT_func_addsub_s32x2_slot0_7 1; mkUse FUNCUNIT_func_addsub_s32x2_slot1_3 1]);
  ("Opcode_ee_st_qacc_l_l_128_ip_funcUnit_uses", [mkUse FUNCUNIT_func_addsub_s32x2_slot0_0 1;
     mkUse FUNCUNIT_func_addsub_s32x2_slot0_1 1; mkUse FUNCUNIT_func_addsub_s32x2_slot0_2 1;
     mkUse FUNCUNIT_func_addsub_s32x2_slot0_3 1; mkUse FUNCUNIT_func_addsub_s32x2_slot0_4 1;
     mkUse FUNCUNIT_func_addsub_s32x2_slot0_5 1; mkUse FUNCUNIT_func_addsub_s32x2_slot0_6 1;
     mkUse FUNCUNIT_func_addsub_s32x2_slot0_7 1; mkUse FUNCUNIT_func_addsub_s32x2_slot1_3 1]);
  ("Opcode_ee_st_accx_ip_funcUnit_uses", [mkUse FUNCUNIT_func_addsub_s32x2_slot0_0 1;
     mkUse FUNCUNIT_func_addsub_s32x2_slot0_1 1; mkUse FUNCUNIT_func_addsub_s32x2_slot0_2 1;
     mkUse FUNCUNIT_func_addsub_s32x2_slot0_3 1; mkUse FUNCUNIT_func_addsub_s32x2_slot0_4 1;
     mkUse FUNCUNIT_func_addsub_s32x2_slot0_5 1; mkUse FUNCUNIT_func_addsub_s32x2_slot0_6 1;
     mkUse FUNCUNIT_func_addsub_s32x2_slot0_7 1; mkUse FUNCUNIT_func_addsub_s32x2_slot1_3 1]);
  ("Opcode_ee_stxq_32_funcUnit_uses", [mkUse FUNCUNIT_func_addsub_s32x2_slot0_0 1;
     mkUse FUNCUNIT_func_addsub_s32x2_slot0_1 1; mkUse FUNCUNIT_func_addsub_s32x2_slot0_2 1;
     mkUse FUNCUNIT_func_addsub_s32x2_slot0_3 1; mkUse FUNCUNIT_func_addsub_s32x2_slot0_4 1;
     mkUse FUNCUNIT_func_addsub_s32x2_slot0_5 1; mkUse FUNCUNIT_func_addsub_s32x2_slot0_6 1;
     mkUse FUNCUNIT_func_addsub_s32x2_slot0_7 1; mkUse FUNCUNIT_func_addsub_s32x2_slot1_3 1])].

Definition s3_uses_6 : list (string * list xtensa_funcUnit_use) := [
  ("Opcode_ee_vadds_s16_ld_incp_funcUnit_uses", [mkUse FUNCUNIT_func_addsub_s32x2_slot1_3 1;
     mkUse FUNCUNIT_func_addsub_s8x2_0 1; mkUse FUNCUNIT_func_addsub_s8x2_1 1;
     mkUse FUNCUNIT_func_addsub_s8x2_2 1; mkUse FUNCUNIT_func_addsub_s8x2_3 1;
     mkUse FUNCUNIT_func_addsub_s8x2_4 1; mkUse FUNCUNIT_func_addsub_s8x2_5 1;
     mkUse FUNCUNIT_func_addsub_s8x2_6 1; mkUse FUNCUNIT_func_addsub_s8x2_7 1;
     mkUse FUNCUNIT_func_addsub_s16x2_0 1; mkUse FUNCUNIT_func_addsub_s16x2_1 1;
     mkUse FUNCUNIT_func_addsub_s16x2_2 1; mkUse FUNCUNIT_func_addsub_s16x2_3 1;
     mkUse FUNCUNIT_func_addsub_s16x2_4 1; mkUse FUNCUNIT_func_addsub_s16x2_5 1;
     mkUse FUNCUNIT_func_addsub_s16x2_6 1; mkUse FUNCUNIT_func_addsub_s16x2_7 1;
     mkUse FUNCUNIT_func_addsub_s32x2_slot0_0 1; mkUse FUNCUNIT_func_addsub_s32x2_slot0_1 1;
     mkUse FUNCUNIT_func_addsub_s32x2_slot0_2 1; mkUse FUNCUNIT_func_addsub_s32x2_slot0_3 1;
     mkUse FUNCUNIT_func_mul_s8xs8_0 1; mkUse FUNCUNIT_func_mul_s8xs8_1 1;
     mkUse FUNCUNIT_func_mul_s8xs8_2 1; mkUse FUNCUNIT_func_mul_s8xs8_3 1;
     mkUse FUNCUNIT_func_mul_s8xs8_4 1; mkUse FUNCUNIT_func_mul_s8xs8_5 1;
     mkUse FUNCUNIT_func_mul_s8xs8_6 1; mkUse FUNCUNIT_func_mul_s8xs8_7 1;
     mkUse FUNCUNIT_func_mul_s16xs16_0 1; mkUse FUNCUNIT_func_mul_s16xs16_1 1;
     mkUse FUNCUNIT_func_mul_s16xs16_2 1; mkUse FUNCUNIT_func_mul_s16xs16_3 1;
     mkUse FUNCUNIT_func_mul_s16xs16_4 1; mkUse FUNCUNIT_func_mul_s16xs16_5 1;
     mkUse FUNCUNIT_func_mul_s16xs16_6 1; mkUse FUNCUNIT_func_mul_s16xs16_7 1;
     mkUse FUNCUNIT_func_addsub_s32x2_slot1_extra 2; mkUse FUNCUNIT_func_addsub_s32x2_slot1_2 2;
     mkUse FUNCUNIT_func_addsub_s32x2_slot1_1 2; mkUse FUNCUNIT_func_addsub_s32x2_slot1_0 2;
     mkUse FUNCUNIT_func_addsub_s20x2_slot_end_0 2; mkUse FUNCUNIT_func_addsub_s20x2_slot_end_1 2;
     mkUse FUNCUNIT_func_addsub_s20x2_slot_end_2 2; mkUse FUNCUNIT_func_addsub_s20x2_slot_end_3 2;
     mkUse FUNCUNIT_func_addsub_s40x2_7 2; mkUse FUNCUNIT_func_addsub_s40x2_6 2;
     mkUse FUNCUNIT_func_addsub_s40x2_5 2; mkUse FUNCUNIT_func_addsub_s40x2_4 2;
     mkUse FUNCUNIT_func_addsub_s40x2_3 2; mkUse FUNCUNIT_func_addsub_s40x2_2 2;
     mkUse FUNCUNIT_func_addsub_s40x2_1 2; mkUse FUNCUNIT_func_addsub_s40x2_0 2;
     mkUse FUNCUNIT_func_shift_s16rs8_0 1; mkUse FUNCUNIT_func_shift_s16rs8_1 1;
     mkUse FUNCUNIT_func_shift_s16rs8_2 1; mkUse FUNCUNIT_func_shift_s16rs8_3 1;
     mkUse FUNCUNIT_func_shift_s16rs8_4 1; mkUse FUNCUNIT_func_shift_s16rs8_5 1;
     mkUse FUNCUNIT_func_shift_s16rs8_6 1; mkUse FUNCUNIT_func_shift_s16rs8_7 1;
     mkUse FUNCUNIT_func_shift_s16rs8_8 1; mkUse FUNCUNIT_func_shift_s16rs8_9 1;
     mkUse FUNCUNIT_func_shift_s16rs8_10 1; mkUse FUNCUNIT_func_shift_s16rs8_11 1;
     mkUse FUNCUNIT_func_shift_s16rs8_12 1; mkUse FUNCUNIT_func_shift_s16rs8_13 1;
     mkUse FUNCUNIT_func_shift_s16rs8_14 1; mkUse FUNCUNIT_func_shift_s16rs8_15 1;
     mkUse FUNCUNIT_func_shift_s32rs16_0 2; mkUse FUNCUNIT_func_shift_s32rs16_1 2;
     mkUse FUNCUNIT_func_shift_s32rs16_2 2; mkUse FUNCUNIT_func_shift_s32rs16_3 2;
     mkUse FUNCUNIT_func_shift_s32rs16_4 1; mkUse FUNCUNIT_func_shift_s32rs16_5 1;
     mkUse FUNCUNIT_func_shift_s32rs16_6 1; mkUse FUNCUNIT_func_shift_s32rs16_7 1])].

Definition s3_uses_7 : list (string * list xtensa_funcUnit_use) := [
  ("Opcode_ee_vadds_s16_st_incp_funcUnit_uses", [mkUse FUNCUNIT_func_addsub_s32x2_slot1_3 1;
     mkUse FUNCUNIT_func_addsub_s8x2_0 1; mkUse FUNCUNIT_func_addsub_s8x2_1 1;
     mkUse FUNCUNIT_func_addsub_s8x2_2 1; mkUse FUNCUNIT_func_addsub_s8x2_3 1;
     mkUse FUNCUNIT_func_addsub_s8x2_4 1; mkUse FUNCUNIT_func_addsub_s8x2_5 1;
     mkUse FUNCUNIT_func_addsub_s8x2_6 1; mkUse FUNCUNIT_func_addsub_s8x2_7 1;
     mkUse FUNCUNIT_func_addsub_s16x2_0 1; mkUse FUNCUNIT_func_addsub_s16x2_1 1;
     mkUse FUNCUNIT_func_addsub_s16x2_2 1; mkUse FUNCUNIT_func_addsub_s16x2_3 1;
     mkUse FUNCUNIT_func_addsub_s16x2_4 1; mkUse FUNCUNIT_func_addsub_s16x2_5 1;
     mkUse FUNCUNIT_func_addsub_s16x2_6 1; mkUse FUNCUNIT_func_addsub_s16x2_7 1;
     mkUse FUNCUNIT_func_addsub_s32x2_slot0_0 1; mkUse FUNCUNIT_func_addsub_s32x2_slot0_1 1;
     mkUse FUNCUNIT_func_addsub_s32x2_slot0_2 1; mkUse FUNCUNIT_func_addsub_s32x2_slot0_3 1;
     mkUse FUNCUNIT_func_mul_s8xs8_0 1; mkUse FUNCUNIT_func_mul_s8xs8_1 1;
     mkUse FUNCUNIT_func_mul_s8xs8_2 1; mkUse FUNCUNIT_func_mul_s8xs8_3 1;
     mkUse FUNCUNIT_func_mul_s8xs8_4 1; mkUse FUNCUNIT_func_mul_s8xs8_5 1;
     mkUse FUNCUNIT_func_mul_s8xs8_6 1; mkUse FUNCUNIT_func_mul_s8xs8_7 1;
     mkUse FUNCUNIT_func_mul_s16xs16_0 1; mkUse FUNCUNIT_func_mul_s16xs16_1 1;
     mkUse FUNCUNIT_func_mul_s16xs16_2 1; mkUse FUNCUNIT_func_mul_s16xs16_3 1;
     mkUse FUNCUNIT_func_mul_s16xs16_4 1; mkUse FUNCUNIT_func_mul_s16xs16_5 1;
     mkUse FUNCUNIT_func_mul_s16xs16_6 1; mkUse FUNCUNIT_func_mul_s16xs16_7 1;
     mkUse FUNCUNIT_func_addsub_s32x2_slot1_extra 2; mkUse FUNCUNIT_func_addsub_s32x2_slot1_2 2;
     mkUse FUNCUNIT_func_addsub_s32x2_slot1_1 2; mkUse FUNCUNIT_func_addsub_s32x2_slot1_0 2;
     mkUse FUNCUNIT_func_addsub_s20x2_slot_end_0 2; mkUse FUNCUNIT_func_addsub_s20x2_slot_end_1 2;
     mkUse FUNCUNIT_func_addsub_s20x2_slot_end_2 2; mkUse FUNCUNIT_func_addsub_s20x2_slot_end_3 2;
     mkUse FUNCUNIT_func_addsub_s40x2_7 2; mkUse FUNCUNIT_func_addsub_s40x2_6 2;
     mkUse FUNCUNIT_func_addsub_s40x2_5 2; mkUse FUNCUNIT_func_addsub_s40x2_4 2;
     mkUse FUNCUNIT_func_addsub_s40x2_3 2; mkUse FUNCUNIT_func_addsub_s40x2_2 2;
     mkUse FUNCUNIT_func_addsub_s40x2_1 2; mkUse FUNCUNIT_func_addsub_s40x2_0 2;
     mkUse FUNCUNIT_func_shift_s16rs8_0 1; mkUse FUNCUNIT_func_shift_s16rs8_1 1;
     mkUse FUNCUNIT_func_shift_s16rs8_2 1; mkUse FUNCUNIT_func_shift_s16rs8_3 1;
     mkUse FUNCUNIT_func_shift_s16rs8_4 1; mkUse FUNCUNIT_func_shift_s16rs8_5 1;
     mkUse FUNCUNIT_func_shift_s16rs8_6 1; mkUse FUNCUNIT_func_shift_s16rs8_7 1;
     mkUse FUNCUNIT_func_shift_s16rs8_8 1; mkUse FUNCUNIT_func_shift_s16rs8_9 1;
     mkUse FUNCUNIT_func_shift_s16rs8_10 1; mkUse FUNCUNIT_func_shift_s16rs8_11 1;
     mkUse FUNCUNIT_func_shift_s16rs8_12 1; mkUse FUNCUNIT_func_shift_s16rs8_13 1;
     mkUse FUNCUNIT_func_shift_s16rs8_14 1; mkUse FUNCUNIT_func_shift_s16rs8_15 1;
     mkUse FUNCUNIT_func_shift_s32rs16_0 2; mkUse FUNCUNIT_func_shift_s32rs16_1 2;
     mkUse FUNCUNIT_func_shift_s32rs16_2 2; mkUse FUNCUNIT_func_shift_s32rs16_3 2;
     mkUse FUNCUNIT_func_shift_s32rs16_4 1; mkUse FUNCUNIT_func_shift_s32rs16_5 1;
     mkUse FUNCUNIT_func_shift_s32rs16_6 1; mkUse FUNCUNIT_func_shift_s32rs16_7 1])].

Definition s3_uses_8 : list (string * list xtensa_funcUnit_use) := [
  ("Opcode_ee_vadds_s16_funcUnit_uses", [mkUse FUNCUNIT_func_addsub_s32x2_slot1_3 1;
     mkUse FUNCUNIT_func_addsub_s8x2_0 1; mkUse FUNCUNIT_func_addsub_s8x2_1 1;
     mkUse FUNCUNIT_func_addsub_s8x2_2 1; mkUse FUNCUNIT_func_addsub_s8x2_3 1;
     mkUse FUNCUNIT_func_addsub_s8x2_4 1; mkUse FUNCUNIT_func_addsub_s8x2_5 1;
     mkUse FUNCUNIT_func_addsub_s8x2_6 1; mkUse FUNCUNIT_func_addsub_s8x2_7 1;
     mkUse FUNCUNIT_func_addsub_s16x2_0 1; mkUse FUNCUNIT_func_addsub_s16x2_1 1;
     mkUse FUNCUNIT_func_addsub_s16x2_2 1; mkUse FUNCUNIT_func_addsub_s16x2_3 1;
     mkUse FUNCUNIT_func_addsub_s16x2_4 1; mkUse FUNCUNIT_func_addsub_s16x2_5 1;
     mkUse FUNCUNIT_func_addsub_s16x2_6 1; mkUse FUNCUNIT_func_addsub_s16x2_7 1;
     mkUse FUNCUNIT_func_addsub_s32x2_slot0_0 1; mkUse FUNCUNIT_func_addsub_s32x2_slot0_1 1;
     mkUse FUNCUNIT_func_addsub_s32x2_slot0_2 1; mkUse FUNCUNIT_func_addsub_s32x2_slot0_3 1;
     mkUse FUNCUNIT_func_mul_s8xs8_0 1; mkUse FUNCUNIT_func_mul_s8xs8_1 1;
     mkUse FUNCUNIT_func_mul_s8xs8_2 1; mkUse FUNCUNIT_func_mul_s8xs8_3 1;
     mkUse FUNCUNIT_func_mul_s8xs8_4 1; mkUse FUNCUNIT_func_mul_s8xs8_5 1;
     mkUse FUNCUNIT_func_mul_s8xs8_6 1; mkUse FUNCUNIT_func_mul_s8xs8_7 1;
     mkUse FUNCUNIT_func_mul_s16xs16_0 1; mkUse FUNCUNIT_func_mul_s16xs16_1 1;
     mkUse FUNCUNIT_func_mul_s16xs16_2 1; mkUse FUNCUNIT_func_mul_s16xs16_3 1;
     mkUse FUNCUNIT_func_mul_s16xs16_4 1; mkUse FUNCUNIT_func_mul_s16xs16_5 1;
     mkUse FUNCUNIT_func_mul_s16xs16_6 1; mkUse FUNCUNIT_func_mul_s16xs16_7 1;
     mkUse FUNCUNIT_func_addsub_s32x2_slot1_extra 2; mkUse FUNCUNIT_func_addsub_s32x2_slot1_2 2;
     mkUse FUNCUNIT_func_addsub_s32x2_slot1_1 2; mkUse FUNCUNIT_func_addsub_s32x2_slot1_0 2;
     mkUse FUNCUNIT_func_addsub_s20x2_slot_end_0 2; mkUse FUNCUNIT_func_addsub_s20x2_slot_end_1 2;
     mkUse FUNCUNIT_func_addsub_s20x2_slot_end_2 2; mkUse FUNCUNIT_func_addsub_s20x2_slot_end_3 2;
     mkUse FUNCUNIT_func_addsub_s40x2_7 2; mkUse FUNCUNIT_func_addsub_s40x2_6 2;
     mkUse FUNCUNIT_func_addsub_s40x2_5 2; mkUse FUNCUNIT_func_addsub_s40x2_4 2;
     mkUse FUNCUNIT_func_addsub_s40x2_3 2; mkUse FUNCUNIT_func_addsub_s40x2_2 2;
     mkUse FUNCUNIT_func_addsub_s40x2_1 2; mkUse FUNCUNIT_func_addsub_s40x2_0 2;
     mkUse FUNCUNIT_func_shift_s16rs8_0 1; mkUse FUNCUNIT_func_shift_s16rs8_1 1;
     mkUse FUNCUNIT_func_shift_s16rs8_2 1; mkUse FUNCUNIT_func_shift_s16rs8_3 1;
     mkUse FUNCUNIT_func_shift_s16rs8_4 1; mkUse FUNCUNIT_func_shift_s16rs8_5 1;
     mkUse FUNCUNIT_func_shift_s16rs8_6 1; mkUse FUNCUNIT_func_shift_s16rs8_7 1;
     mkUse FUNCUNIT_func_shift_s16rs8_8 1; mkUse FUNCUNIT_func_shift_s16rs8_9 1;
     mkUse FUNCUNIT_func_shift_s16rs8_10 1; mkUse FUNCUNIT_func_shift_s16rs8_11 1;
     mkUse FUNCUNIT_func_shift_s16rs8_12 1; mkUse FUNCUNIT_func_shift_s16rs8_13 1;
     mkUse FUNCUNIT_func_shift_s16rs8_14 1; mkUse FUNCUNIT_func_shift_s16rs8_15 1;
     mkUse FUNCUNIT_func_shift_s32rs16_0 2; mkUse FUNCUNIT_func_shift_s32rs16_1 2;
     mkUse FUNCUNIT_func_shift_s32rs16_2 2; mkUse FUNCUNIT_func_shift_s32rs16_3 2;
     mkUse FUNCUNIT_func_shift_s32rs16_4 1; mkUse FUNCUNIT_func_shift_s32rs16_5 1;
     mkUse FUNCUNIT_func_shift_s32rs16_6 1; mkUse FUNCUNIT_func_shift_s32rs16_7 1])].

Definition s3_uses_9 : list (string * list xtensa_funcUnit_use) := [
  ("Opcode_ee_vadds_s32_ld_incp_funcUnit_uses", [mkUse FUNCUNIT_func_addsub_s32x2_slot1_3 1;
     mkUse FUNCUNIT_func_addsub_s8x2_0 1; mkUse FUNCUNIT_func_addsub_s8x2_1 1;
     mkUse FUNCUNIT_func_addsub_s8x2_2 1; mkUse FUNCUNIT_func_addsub_s8x2_3 1;
     mkUse FUNCUNIT_func_addsub_s8x2_4 1; mkUse FUNCUNIT_func_addsub_s8x2_5 1;
     mkUse FUNCUNIT_func_addsub_s8x2_6 1; mkUse FUNCUNIT_func_addsub_s8x2_7 1;
     mkUse FUNCUNIT_func_addsub_s16x2_0 1; mkUse FUNCUNIT_func_addsub_s16x2_1 1;
     mkUse FUNCUNIT_func_addsub_s16x2_2 1; mkUse FUNCUNIT_func_addsub_s16x2_3 1;
     mkUse FUNCUNIT_func_addsub_s16x2_4 1; mkUse FUNCUNIT_func_addsub_s16x2_5 1;
     mkUse FUNCUNIT_func_addsub_s16x2_6 1; mkUse FUNCUNIT_func_addsub_s16x2_7 1;
     mkUse FUNCUNIT_func_addsub_s32x2_slot0_0 1; mkUse FUNCUNIT_func_addsub_s32x2_slot0_1 1;
     mkUse FUNCUNIT_func_addsub_s32x2_slot0_2 1; mkUse FUNCUNIT_func_addsub_s32x2_slot0_3 1;
     mkUse FUNCUNIT_func_mul_s8xs8_0 1; mkUse FUNCUNIT_func_mul_s8xs8_1 1;
     mkUse FUNCUNIT_func_mul_s8xs8_2 1; mkUse FUNCUNIT_func_mul_s8xs8_3 1;
     mkUse FUNCUNIT_func_mul_s8xs8_4 1; mkUse FUNCUNIT_func_mul_s8xs8_5 1;
     mkUse FUNCUNIT_func_mul_s8xs8_6 1; mkUse FUNCUNIT_func_mul_s8xs8_7 1;
     mkUse FUNCUNIT_func_mul_s16xs16_0 1; mkUse FUNCUNIT_func_mul_s16xs16_1 1;
     mkUse FUNCUNIT_func_mul_s16xs16_2 1; mkUse FUNCUNIT_func_mul_s16xs16_3 1;
     mkUse FUNCUNIT_func_mul_s16xs16_4 1; mkUse FUNCUNIT_func_mul_s16xs16_5 1;
     mkUse FUNCUNIT_func_mul_s16xs16_6 1; mkUse FUNCUNIT_func_mul_s16xs16_7 1;
     mkUse FUNCUNIT_func_addsub_s32x2_slot1_extra 2; mkUse FUNCUNIT_func_addsub_s32x2_slot1_2 2;
     mkUse FUNCUNIT_func_addsub_s32x2_slot1_1 2; mkUse FUNCUNIT_func_addsub_s32x2_slot1_0 2;
     mkUse FUNCUNIT_func_addsub_s20x2_slot_end_0 2; mkUse FUNCUNIT_func_addsub_s20x2_slot_end_1 2;
     mkUse FUNCUNIT_func_addsub_s20x2_slot_end_2 2; mkUse FUNCUNIT_func_addsub_s20x2_slot_end_3 2;
     mkUse FUNCUNIT_func_addsub_s40x2_7 2; mkUse FUNCUNIT_func_addsub_s40x2_6 2;
     mkUse FUNCUNIT_func_addsub_s40x2_5 2; mkUse FUNCUNIT_func_addsub_s40x2_4 2;
     mkUse FUNCUNIT_func_addsub_s40x2_3 2; mkUse FUNCUNIT_func_addsub_s40x2_2 2;
     mkUse FUNCUNIT_func_addsub_s40x2_1 2; mkUse FUNCUNIT_func_addsub_s40x2_0 2;
     mkUse FUNCUNIT_func_shift_s16rs8_0 1; mkUse FUNCUNIT_func_shift_s16rs8_1 1;
     mkUse FUNCUNIT_func_shift_s16rs8_2 1; mkUse FUNCUNIT_func_shift_s16rs8_3 1;
     mkUse FUNCUNIT_func_shift_s16rs8_4 1; mkUse FUNCUNIT_func_shift_s16rs8_5 1;
     mkUse FUNCUNIT_func_shift_s16rs8_6 1; mkUse FUNCUNIT_func_shift_s16rs8_7 1;
     mkUse FUNCUNIT_func_shift_s16rs8_8 1; mkUse FUNCUNIT_func_shift_s16rs8_9 1;
     mkUse FUNCUNIT_func_shift_s16rs8_10 1; mkUse FUNCUNIT_func_shift_s16rs8_11 1;
     mkUse FUNCUNIT_func_shift_s16rs8_12 1; mkUse FUNCUNIT_func_shift_s16rs8_13 1;
     mkUse FUNCUNIT_func_shift_s16rs8_14 1; mkUse FUNCUNIT_func_shift_s16rs8_15 1;
     mkUse FUNCUNIT_func_shift_s32rs16_0 2; mkUse FUNCUNIT_func_shift_s32rs16_1 2;
     mkUse FUNCUNIT_func_shift_s32rs16_2 2; mkUse FUNCUNIT_func_shift_s32rs16_3 2;
     mkUse FUNCUNIT_func_shift_s32rs16_4 1; mkUse FUNCUNIT_func_shift_s32rs16_5 1;
     mkUse FUNCUNIT_func_shift_s32rs16_6 1; mkUse FUNCUNIT_func_shift_s32rs16_7 1])].

Definition s3_uses_10 : list (string * list xtensa_funcUnit_use) := [
  ("Opcode_ee_vadds_s32_st_incp_funcUnit_uses", [mkUse FUNCUNIT_func_addsub_s32x2_slot1_3 1;
     mkUse FUNCUNIT_func_addsub_s8x2_0 1; mkUse FUNCUNIT_func_addsub_s8x2_1 1;
     mkUse FUNCUNIT_func_addsub_s8x2_2 1; mkUse FUNCUNIT_func_addsub_s8x2_3 1;
     mkUse FUNCUNIT_func_addsub_s8x2_4 1; mkUse FUNCUNIT_func_addsub_s8x2_5 1;
     mkUse FUNCUNIT_func_addsub_s8x2_6 1; mkUse FUNCUNIT_func_addsub_s8x2_7 1;
     mkUse FUNCUNIT_func_addsub_s16x2_0 1; mkUse FUNCUNIT_func_addsub_s16x2_1 1;
     mkUse FUNCUNIT_func_addsub_s16x2_2 1; mkUse FUNCUNIT_func_addsub_s16x2_3 1;
     mkUse FUNCUNIT_func_addsub_s16x2_4 1; mkUse FUNCUNIT_func_addsub_s16x2_5 1;
     mkUse FUNCUNIT_func_addsub_s16x2_6 1; mkUse FUNCUNIT_func_addsub_s16x2_7 1;
     mkUse FUNCUNIT_func_addsub_s32x2_slot0_0 1; mkUse FUNCUNIT_func_addsub_s32x2_slot0_1 1;
     mkUse FUNCUNIT_func_addsub_s32x2_slot0_2 1; mkUse FUNCUNIT_func_addsub_s32x2_slot0_3 1;
     mkUse FUNCUNIT_func_mul_s8xs8_0 1; mkUse FUNCUNIT_func_mul_s8xs8_1 1;
     mkUse FUNCUNIT_func_mul_s8xs8_2 1; mkUse FUNCUNIT_func_mul_s8xs8_3 1;
     mkUse FUNCUNIT_func_mul_s8xs8_4 1; mkUse FUNCUNIT_func_mul_s8xs8_5 1;
     mkUse FUNCUNIT_func_mul_s8xs8_6 1; mkUse FUNCUNIT_func_mul_s8xs8_7 1;
     mkUse FUNCUNIT_func_mul_s16xs16_0 1; mkUse FUNCUNIT_func_mul_s16xs16_1 1;
     mkUse FUNCUNIT_func_mul_s16xs16_2 1; mkUse FUNCUNIT_func_mul_s16xs16_3 1;
     mkUse FUNCUNIT_func_mul_s16xs16_4 1; mkUse FUNCUNIT_func_mul_s16xs16_5 1;
     mkUse FUNCUNIT_func_mul_s16xs16_6 1; mkUse FUNCUNIT_func_mul_s16xs16_7 1;
     mkUse FUNCUNIT_func_addsub_s32x2_slot1_extra 2; mkUse FUNCUNIT_func_addsub_s32x2_slot1_2 2;
     mkUse FUNCUNIT_func_addsub_s32x2_slot1_1 2; mkUse FUNCUNIT_func_addsub_s32x2_slot1_0 2;
     mkUse FUNCUNIT_func_addsub_s20x2_slot_end_0 2; mkUse FUNCUNIT_func_addsub_s20x2_slot_end_1 2;
     mkUse FUNCUNIT_func_addsub_s20x2_slot_end_2 2; mkUse FUNCUNIT_func_addsub_s20x2_slot_end_3 2;
     mkUse FUNCUNIT_func_addsub_s40x2_7 2; mkUse FUNCUNIT_func_addsub_s40x2_6 2;
     mkUse FUNCUNIT_func_addsub_s40x2_5 2; mkUse FUNCUNIT_func_addsub_s40x2_4 2;
     mkUse FUNCUNIT_func_addsub_s40x2_3 2; mkUse FUNCUNIT_func_addsub_s40x2_2 2;
     mkUse FUNCUNIT_func_addsub_s40x2_1 2; mkUse FUNCUNIT_func_addsub_s40x2_0 2;
     mkUse FUNCUNIT_func_shift_s16rs8_0 1; mkUse FUNCUNIT_func_shift_s16rs8_1 1;
     mkUse FUNCUNIT_func_shift_s16rs8_2 1; mkUse FUNCUNIT_func_shift_s16rs8_3 1;
     mkUse FUNCUNIT_func_shift_s16rs8_4 1; mkUse FUNCUNIT_func_shift_s16rs8_5 1;
     mkUse FUNCUNIT_func_shift_s16rs8_6 1; mkUse FUNCUNIT_func_shift_s16rs8_7 1;
     mkUse FUNCUNIT_func_shift_s16rs8_8 1; mkUse FUNCUNIT_func_shift_s16rs8_9 1;
     mkUse FUNCUNIT_func_shift_s16rs8_10 1; mkUse FUNCUNIT_func_shift_s16rs8_11 1;
     mkUse FUNCUNIT_func_shift_s16rs8_12 1; mkUse FUNCUNIT_func_shift_s16rs8_13 1;
     mkUse FUNCUNIT_func_shift_s16rs8_14 1; mkUse FUNCUNIT_func_shift_s16rs8_15 1;
     mkUse FUNCUNIT_func_shift_s32rs16_0 2; mkUse FUNCUNIT_func_shift_s32rs16_1 2;
     mkUse FUNCUNIT_func_shift_s32rs16_2 2; mkUse FUNCUNIT_func_shift_s32rs16_3 2;
     mkUse FUNCUNIT_func_shift_s32rs16_4 1; mkUse FUNCUNIT_func_shift_s32rs16_5 1;
     mkUse FUNCUNIT_func_shift_s32rs16_6 1; mkUse FUNCUNIT_func_shift_s32rs16_7 1])].

Definition s3_uses_11 : list (string * list xtensa_funcUnit_use) := [
  ("Opcode_ee_vadds_s32_funcUnit_uses", [mkUse FUNCUNIT_func_addsub_s32x2_slot1_3 1;
     mkUse FUNCUNIT_func_addsub_s8x2_0 1; mkUse FUNCUNIT_func_addsub_s8x2_1 1;
     mkUse FUNCUNIT_func_addsub_s8x2_2 1; mkUse FUNCUNIT_func_addsub_s8x2_3 1;
     mkUse FUNCUNIT_func_addsub_s8x2_4 1; mkUse FUNCUNIT_func_addsub_s8x2_5 1;
     mkUse FUNCUNIT_func_addsub_s8x2_6 1; mkUse FUNCUNIT_func_addsub_s8x2_7 1;
     mkUse FUNCUNIT_func_addsub_s16x2_0 1; mkUse FUNCUNIT_func_addsub_s16x2_1 1;
     mkUse FUNCUNIT_func_addsub_s16x2_2 1; mkUse FUNCUNIT_func_addsub_s16x2_3 1;
     mkUse FUNCUNIT_func_addsub_s16x2_4 1; mkUse FUNCUNIT_func_addsub_s16x2_5 1;
     mkUse FUNCUNIT_func_addsub_s16x2_6 1; mkUse FUNCUNIT_func_addsub_s16x2_7 1;
     mkUse FUNCUNIT_func_addsub_s32x2_slot0_0 1; mkUse FUNCUNIT_func_addsub_s32x2_slot0_1 1;
     mkUse FUNCUNIT_func_addsub_s32x2_slot0_2 1; mkUse FUNCUNIT_func_addsub_s32x2_slot0_3 1;
     mkUse FUNCUNIT_func_mul_s8xs8_0 1; mkUse FUNCUNIT_func_mul_s8xs8_1 1;
     mkUse FUNCUNIT_func_mul_s8xs8_2 1; mkUse FUNCUNIT_func_mul_s8xs8_3 1;
     mkUse FUNCUNIT_func_mul_s8xs8_4 1; mkUse FUNCUNIT_func_mul_s8xs8_5 1;
     mkUse FUNCUNIT_func_mul_s8xs8_6 1; mkUse FUNCUNIT_func_mul_s8xs8_7 1;
     mkUse FUNCUNIT_func_mul_s16xs16_0 1; mkUse FUNCUNIT_func_mul_s16xs16_1 1;
     mkUse FUNCUNIT_func_mul_s16xs16_2 1; mkUse FUNCUNIT_func_mul_s16xs16_3 1;
     mkUse FUNCUNIT_func_mul_s16xs16_4 1; mkUse FUNCUNIT_func_mul_s16xs16_5 1;
     mkUse FUNCUNIT_func_mul_s16xs16_6 1; mkUse FUNCUNIT_func_mul_s16xs16_7 1;
     mkUse FUNCUNIT_func_addsub_s32x2_slot1_extra 2; mkUse FUNCUNIT_func_addsub_s32x2_slot1_2 2;
     mkUse FUNCUNIT_func_addsub_s32x2_slot1_1 2; mkUse FUNCUNIT_func_addsub_s32x2_slot1_0 2;
     mkUse FUNCUNIT_func_addsub_s20x2_slot_end_0 2; mkUse FUNCUNIT_func_addsub_s20x2_slot_end_1 2;
     mkUse FUNCUNIT_func_addsub_s20x2_slot_end_2 2; mkUse FUNCUNIT_func_addsub_s20x2_slot_end_3 2;
     mkUse FUNCUNIT_func_addsub_s40x2_7 2; mkUse FUNCUNIT_func_addsub_s40x2_6 2;
     mkUse FUNCUNIT_func_addsub_s40x2_5 2; mkUse FUNCUNIT_func_addsub_s40x2_4 2;
     mkUse FUNCUNIT_func_addsub_s40x2_3 2; mkUse FUNCUNIT_func_addsub_s40x2_2 2;
     mkUse FUNCUNIT_func_addsub_s40x2_1 2; mkUse FUNCUNIT_func_addsub_s40x2_0 2;
     mkUse FUNCUNIT_func_shift_s16rs8_0 1; mkUse FUNCUNIT_func_shift_s16rs8_1 1;
     mkUse FUNCUNIT_func_shift_s16rs8_2 1; mkUse FUNCUNIT_func_shift_s16rs8_3 1;
     mkUse FUNCUNIT_func_shift_s16rs8_4 1; mkUse FUNCUNIT_func_shift_s16rs8_5 1;
     mkUse FUNCUNIT_func_shift_s16rs8_6 1; mkUse FUNCUNIT_func_shift_s16rs8_7 1;
     mkUse FUNCUNIT_func_shift_s16rs8_8 1; mkUse FUNCUNIT_func_shift_s16rs8_9 1;
     mkUse FUNCUNIT_func_shift_s16rs8_10 1; mkUse FUNCUNIT_func_shift_s16rs8_11 1;
     mkUse FUNCUNIT_func_shift_s16rs8_12 1; mkUse FUNCUNIT_func_shift_s16rs8_13 1;
     mkUse FUNCUNIT_func_shift_s16rs8_14 1; mkUse FUNCUNIT_func_shift_s16rs8_15 1;
     mkUse FUNCUNIT_func_shift_s32rs16_0 2; mkUse FUNCUNIT_func_shift_s32rs16_1 2;
     mkUse FUNCUNIT_func_shift_s32rs16_2 2; mkUse FUNCUNIT_func_shift_s32rs16_3 2;
     mkUse FUNCUNIT_func_shift_s32rs16_4 1; mkUse FUNCUNIT_func_shift_s32rs16_5 1;
     mkUse FUNCUNIT_func_shift_s32rs16_6 1; mkUse FUNCUNIT_func_shift_s32rs16_7 1])].

Definition s3_uses_12 : list (string * list xtensa_funcUnit_use) := [
  ("Opcode_ee_vadds_s8_ld_incp_funcUnit_uses", [mkUse FUNCUNIT_func_addsub_s32x2_slot1_3 1;
     mkUse FUNCUNIT_func_addsub_s8x2_0 1; mkUse FUNCUNIT_func_addsub_s8x2_1 1;
     mkUse FUNCUNIT_func_addsub_s8x2_2 1; mkUse FUNCUNIT_func_addsub_s8x2_3 1;
     mkUse FUNCUNIT_func_addsub_s8x2_4 1; mkUse FUNCUNIT_func_addsub_s8x2_5 1;
     mkUse FUNCUNIT_func_addsub_s8x2_6 1; mkUse FUNCUNIT_func_addsub_s8x2_7 1;
     mkUse FUNCUNIT_func_addsub_s16x2_0 1; mkUse FUNCUNIT_func_addsub_s16x2_1 1;
     mkUse FUNCUNIT_func_addsub_s16x2_2 1; mkUse FUNCUNIT_func_addsub_s16x2_3 1;
     mkUse FUNCUNIT_func_addsub_s16x2_4 1; mkUse FUNCUNIT_func_addsub_s16x2_5 1;
     mkUse FUNCUNIT_func_addsub_s16x2_6 1; mkUse FUNCUNIT_func_addsub_s16x2_7 1;
     mkUse FUNCUNIT_func_addsub_s32x2_slot0_0 1; mkUse FUNCUNIT_func_addsub_s32x2_slot0_1 1;
     mkUse FUNCUNIT_func_addsub_s32x2_slot0_2 1; mkUse FUNCUNIT_func_addsub_s32x2_slot0_3 1;
     mkUse FUNCUNIT_func_mul_s8xs8_0 1; mkUse FUNCUNIT_func_mul_s8xs8_1 1;
     mkUse FUNCUNIT_func_mul_s8xs8_2 1; mkUse FUNCUNIT_func_mul_s8xs8_3 1;
     mkUse FUNCUNIT_func_mul_s8xs8_4 1; mkUse FUNCUNIT_func_mul_s8xs8_5 1;
     mkUse FUNCUNIT_func_mul_s8xs8_6 1; mkUse FUNCUNIT_func_mul_s8xs8_7 1;
     mkUse FUNCUNIT_func_mul_s16xs16_0 1; mkUse FUNCUNIT_func_mul_s16xs16_1 1;
     mkUse FUNCUNIT_func_mul_s16xs16_2 1; mkUse FUNCUNIT_func_mul_s16xs16_3 1;
     mkUse FUNCUNIT_func_mul_s16xs16_4 1; mkUse FUNCUNIT_func_mul_s16xs16_5 1;
     mkUse FUNCUNIT_func_mul_s16xs16_6 1; mkUse FUNCUNIT_func_mul_s16xs16_7 1;
     mkUse FUNCUNIT_func_addsub_s32x2_slot1_extra 2; mkUse FUNCUNIT_func_addsub_s32x2_slot1_2 2;
     mkUse FUNCUNIT_func_addsub_s32x2_slot1_1 2; mkUse FUNCUNIT_func_addsub_s32x2_slot1_0 2;
     mkUse FUNCUNIT_func_addsub_s20x2_slot_end_0 2; mkUse FUNCUNIT_func_addsub_s20x2_slot_end_1 2;
     mkUse FUNCUNIT_func_addsub_s20x2_slot_end_2 2; mkUse FUNCUNIT_func_addsub_s20x2_slot_end_3 2;
     mkUse FUNCUNIT_func_addsub_s40x2_7 2; mkUse FUNCUNIT_func_addsub_s40x2_6 2;
     mkUse FUNCUNIT_func_addsub_s40x2_5 2; mkUse FUNCUNIT_func_addsub_s40x2_4 2;
     mkUse FUNCUNIT_func_addsub_s40x2_3 2; mkUse FUNCUNIT_func_addsub_s40x2_2 2;
     mkUse FUNCUNIT_func_addsub_s40x2_1 2; mkUse FUNCUNIT_func_addsub_s40x2_0 2;
     mkUse FUNCUNIT_func_shift_s16rs8_0 1; mkUse FUNCUNIT_func_shift_s16rs8_1 1;
     mkUse FUNCUNIT_func_shift_s16rs8_2 1; mkUse FUNCUNIT_func_shift_s16rs8_3 1;
     mkUse FUNCUNIT_func_shift_s16rs8_4 1; mkUse FUNCUNIT_func_shift_s16rs8_5 1;
     mkUse FUNCUNIT_func_shift_s16rs8_6 1; mkUse FUNCUNIT_func_shift_s16rs8_7 1;
     mkUse FUNCUNIT_func_shift_s16rs8_8 1; mkUse FUNCUNIT_func_shift_s16rs8_9 1;
     mkUse FUNCUNIT_func_shift_s16rs8_10 1; mkUse FUNCUNIT_func_shift_s16rs8_11 1;
     mkUse FUNCUNIT_func_shift_s16rs8_12 1; mkUse FUNCUNIT_func_shift_s16rs8_13 1;
     mkUse FUNCUNIT_func_shift_s16rs8_14 1; mkUse FUNCUNIT_func_shift_s16rs8_15 1;
     mkUse FUNCUNIT_func_shift_s32rs16_0 2; mkUse FUNCUNIT_func_shift_s32rs16_1 2;
     mkUse FUNCUNIT_func_shift_s32rs16_2 2; mkUse FUNCUNIT_func_shift_s32rs16_3 2;
     mkUse FUNCUNIT_func_shift_s32rs16_4 1; mkUse FUNCUNIT_func_shift_s32rs16_5 1;
     mkUse FUNCUNIT_func_shift_s32rs16_6 1; mkUse FUNCUNIT_func_shift_s32rs16_7 1])].

Definition s3_uses_13 : list (string * list xtensa_funcUnit_use) := [
  ("Opcode_ee_vadds_s8_st_incp_funcUnit_uses", [mkUse FUNCUNIT_func_addsub_s32x2_slot1_3 1;
     mkUse FUNCUNIT_func_addsub_s8x2_0 1; mkUse FUNCUNIT_func_addsub_s8x2_1 1;
     mkUse FUNCUNIT_func_addsub_s8x2_2 1; mkUse FUNCUNIT_func_addsub_s8x2_3 1;
     mkUse FUNCUNIT_func_addsub_s8x2_4 1; mkUse FUNCUNIT_func_addsub_s8x2_5 1;
     mkUse FUNCUNIT_func_addsub_s8x2_6 1; mkUse FUNCUNIT_func_addsub_s8x2_7 1;
     mkUse FUNCUNIT_func_addsub_s16x2_0 1; mkUse FUNCUNIT_func_addsub_s16x2_1 1;
     mkUse FUNCUNIT_func_addsub_s16x2_2 1; mkUse FUNCUNIT_func_addsub_s16x2_3 1;
     mkUse FUNCUNIT_func_addsub_s16x2_4 1; mkUse FUNCUNIT_func_addsub_s16x2_5 1;
     mkUse FUNCUNIT_func_addsub_s16x2_6 1; mkUse FUNCUNIT_func_addsub_s16x2_7 1;
     mkUse FUNCUNIT_func_addsub_s32x2_slot0_0 1; mkUse FUNCUNIT_func_addsub_s32x2_slot0_1 1;
     mkUse FUNCUNIT_func_addsub_s32x2_slot0_2 1; mkUse FUNCUNIT_func_addsub_s32x2_slot0_3 1;
     mkUse FUNCUNIT_func_mul_s8xs8_0 1; mkUse FUNCUNIT_func_mul_s8xs8_1 1;
     mkUse FUNCUNIT_func_mul_s8xs8_2 1; mkUse FUNCUNIT_func_mul_s8xs8_3 1;
     mkUse FUNCUNIT_func_mul_s8xs8_4 1; mkUse FUNCUNIT_func_mul_s8xs8_5 1;
     mkUse FUNCUNIT_func_mul_s8xs8_6 1; mkUse FUNCUNIT_func_mul_s8xs8_7 1;
     mkUse FUNCUNIT_func_mul_s16xs16_0 1; mkUse FUNCUNIT_func_mul_s16xs16_1 1;
     mkUse FUNCUNIT_func_mul_s16xs16_2 1; mkUse FUNCUNIT_func_mul_s16xs16_3 1;
     mkUse FUNCUNIT_func_mul_s16xs16_4 1; mkUse FUNCUNIT_func_mul_s16xs16_5 1;
     mkUse FUNCUNIT_func_mul_s16xs16_6 1; mkUse FUNCUNIT_func_mul_s16xs16_7 1;
     mkUse FUNCUNIT_func_addsub_s32x2_slot1_extra 2; mkUse FUNCUNIT_func_addsub_s32x2_slot1_2 2;
     mkUse FUNCUNIT_func_addsub_s32x2_slot1_1 2; mkUse FUNCUNIT_func_addsub_s32x2_slot1_0 2;
     mkUse FUNCUNIT_func_addsub_s20x2_slot_end_0 2; mkUse FUNCUNIT_func_addsub_s20x2_slot_end_1 2;
     mkUse FUNCUNIT_func_addsub_s20x2_slot_end_2 2; mkUse FUNCUNIT_func_addsub_s20x2_slot_end_3 2;
     mkUse FUNCUNIT_func_addsub_s40x2_7 2; mkUse FUNCUNIT_func_addsub_s40x2_6 2;
     mkUse FUNCUNIT_func_addsub_s40x2_5 2; mkUse FUNCUNIT_func_addsub_s40x2_4 2;
     mkUse FUNCUNIT_func_addsub_s40x2_3 2; mkUse FUNCUNIT_func_addsub_s40x2_2 2;
     mkUse FUNCUNIT_func_addsub_s40x2_1 2; mkUse FUNCUNIT_func_addsub_s40x2_0 2;
     mkUse FUNCUNIT_func_shift_s16rs8_0 1; mkUse FUNCUNIT_func_shift_s16rs8_1 1;
     mkUse FUNCUNIT_func_shift_s16rs8_2 1; mkUse FUNCUNIT_func_shift_s16rs8_3 1;
     mkUse FUNCUNIT_func_shift_s16rs8_4 1; mkUse FUNCUNIT_func_shift_s16rs8_5 1;
     mkUse FUNCUNIT_func_shift_s16rs8_6 1; mkUse FUNCUNIT_func_shift_s16rs8_7 1;
     mkUse FUNCUNIT_func_shift_s16rs8_8 1; mkUse FUNCUNIT_func_shift_s16rs8_9 1;
     mkUse FUNCUNIT_func_shift_s16rs8_10 1; mkUse FUNCUNIT_func_shift_s16rs8_11 1;
     mkUse FUNCUNIT_func_shift_s16rs8_12 1; mkUse FUNCUNIT_func_shift_s16rs8_13 1;
     mkUse FUNCUNIT_func_shift_s16rs8_14 1; mkUse FUNCUNIT_func_shift_s16rs8_15 1;
     mkUse FUNCUNIT_func_shift_s32rs16_0 2; mkUse FUNCUNIT_func_shift_s32rs16_1 2;
     mkUse FUNCUNIT_func_shift_s32rs16_2 2; mkUse FUNCUNIT_func_shift_s32rs16_3 2;
     mkUse FUNCUNIT_func_shift_s32rs16_4 1; mkUse FUNCUNIT_func_shift_s32rs16_5 1;
     mkUse FUNCUNIT_func_shift_s32rs16_6 1; mkUse FUNCUNIT_func_shift_s32rs16_7 1])].

Definition s3_uses_14 : list (string * list xtensa_funcUnit_use) := [
  ("Opcode_ee_vadds_s8_funcUnit_uses", [mkUse FUNCUNIT_func_addsub_s32x2_slot1_3 1;
     mkUse FUNCUNIT_func_addsub_s8x2_0 1; mkUse FUNCUNIT_func_addsub_s8x2_1 1;
     mkUse FUNCUNIT_func_addsub_s8x2_2 1; mkUse FUNCUNIT_func_addsub_s8x2_3 1;
     mkUse FUNCUNIT_func_addsub_s8x2_4 1; mkUse FUNCUNIT_func_addsub_s8x2_5 1;
     mkUse FUNCUNIT_func_addsub_s8x2_6 1; mkUse FUNCUNIT_func_addsub_s8x2_7 1;
     mkUse FUNCUNIT_func_addsub_s16x2_0 1; mkUse FUNCUNIT_func_addsub_s16x2_1 1;
     mkUse FUNCUNIT_func_addsub_s16x2_2 1; mkUse FUNCUNIT_func_addsub_s16x2_3 1;
     mkUse FUNCUNIT_func_addsub_s16x2_4 1; mkUse FUNCUNIT_func_addsub_s16x2_5 1;
     mkUse FUNCUNIT_func_addsub_s16x2_6 1; mkUse FUNCUNIT_func_addsub_s16x2_7 1;
     mkUse FUNCUNIT_func_addsub_s32x2_slot0_0 1; mkUse FUNCUNIT_func_addsub_s32x2_slot0_1 1;
     mkUse FUNCUNIT_func_addsub_s32x2_slot0_2 1; mkUse FUNCUNIT_func_addsub_s32x2_slot0_3 1;
     mkUse FUNCUNIT_func_mul_s8xs8_0 1; mkUse FUNCUNIT_func_mul_s8xs8_1 1;
     mkUse FUNCUNIT_func_mul_s8xs8_2 1; mkUse FUNCUNIT_func_mul_s8xs8_3 1;
     mkUse FUNCUNIT_func_mul_s8xs8_4 1; mkUse FUNCUNIT_func_mul_s8xs8_5 1;
     mkUse FUNCUNIT_func_mul_s8xs8_6 1; mkUse FUNCUNIT_func_mul_s8xs8_7 1;
     mkUse FUNCUNIT_func_mul_s16xs16_0 1; mkUse FUNCUNIT_func_mul_s16xs16_1 1;
     mkUse FUNCUNIT_func_mul_s16xs16_2 1; mkUse FUNCUNIT_func_mul_s16xs16_3 1;
     mkUse FUNCUNIT_func_mul_s16xs16_4 1; mkUse FUNCUNIT_func_mul_s16xs16_5 1;
     mkUse FUNCUNIT_func_mul_s16xs16_6 1; mkUse FUNCUNIT_func_mul_s16xs16_7 1;
     mkUse FUNCUNIT_func_addsub_s32x2_slot1_extra 2; mkUse FUNCUNIT_func_addsub_s32x2_slot1_2 2;
     mkUse FUNCUNIT_func_addsub_s32x2_slot1_1 2; mkUse FUNCUNIT_func_addsub_s32x2_slot1_0 2;
     mkUse FUNCUNIT_func_addsub_s20x2_slot_end_0 2; mkUse FUNCUNIT_func_addsub_s20x2_slot_end_1 2;
     mkUse FUNCUNIT_func_addsub_s20x2_slot_end_2 2; mkUse FUNCUNIT_func_addsub_s20x2_slot_end_3 2;
     mkUse FUNCUNIT_func_addsub_s40x2_7 2; mkUse FUNCUNIT_func_addsub_s40x2_6 2;
     mkUse FUNCUNIT_func_addsub_s40x2_5 2; mkUse FUNCUNIT_func_addsub_s40x2_4 2;
     mkUse FUNCUNIT_func_addsub_s40x2_3 2; mkUse FUNCUNIT_func_addsub_s40x2_2 2;
     mkUse FUNCUNIT_func_addsub_s40x2_1 2; mkUse FUNCUNIT_func_addsub_s40x2_0 2;
     mkUse FUNCUNIT_func_shift_s16rs8_0 1; mkUse FUNCUNIT_func_shift_s16rs8_1 1;
     mkUse FUNCUNIT_func_shift_s16rs8_2 1; mkUse FUNCUNIT_func_shift_s16rs8_3 1;
     mkUse FUNCUNIT_func_shift_s16rs8_4 1; mkUse FUNCUNIT_func_shift_s16rs8_5 1;
     mkUse FUNCUNIT_func_shift_s16rs8_6 1; mkUse FUNCUNIT_func_shift_s16rs8_7 1;
     mkUse FUNCUNIT_func_shift_s16rs8_8 1; mkUse FUNCUNIT_func_shift_s16rs8_9 1;
     mkUse FUNCUNIT_func_shift_s16rs8_10 1; mkUse FUNCUNIT_func_shift_s16rs8_11 1;
     mkUse FUNCUNIT_func_shift_s16rs8_12 1; mkUse FUNCUNIT_func_shift_s16rs8_13 1;
     mkUse FUNCUNIT_func_shift_s16rs8_14 1; mkUse FUNCUNIT_func_shift_s16rs8_15 1;
     mkUse FUNCUNIT_func_shift_s32rs16_0 2; mkUse FUNCUNIT_func_shift_s32rs16_1 2;
     mkUse FUNCUNIT_func_shift_s32rs16_2 2; mkUse FUNCUNIT_func_shift_s32rs16_3 2;
     mkUse FUNCUNIT_func_shift_s32rs16_4 1; mkUse FUNCUNIT_func_shift_s32rs16_5 1;
     mkUse FUNCUNIT_func_shift_s32rs16_6 1; mkUse FUNCUNIT_func_shift_s32rs16_7 1])].

Definition s3_uses_15 : list (string * list xtensa_funcUnit_use) := [
  ("Opcode_ee_vsubs_s16_ld_incp_funcUnit_uses", [mkUse FUNCUNIT_func_addsub_s32x2_slot1_3 1;
     mkUse FUNCUNIT_func_addsub_s8x2_0 1; mkUse FUNCUNIT_func_addsub_s8x2_1 1;
     mkUse FUNCUNIT_func_addsub_s8x2_2 1; mkUse FUNCUNIT_func_addsub_s8x2_3 1;
     mkUse FUNCUNIT_func_addsub_s8x2_4 1; mkUse FUNCUNIT_func_addsub_s8x2_5 1;
     mkUse FUNCUNIT_func_addsub_s8x2_6 1; mkUse FUNCUNIT_func_addsub_s8x2_7 1;
     mkUse FUNCUNIT_func_addsub_s16x2_0 1; mkUse FUNCUNIT_func_addsub_s16x2_1 1;
     mkUse FUNCUNIT_func_addsub_s16x2_2 1; mkUse FUNCUNIT_func_addsub_s16x2_3 1;
     mkUse FUNCUNIT_func_addsub_s16x2_4 1; mkUse FUNCUNIT_func_addsub_s16x2_5 1;
     mkUse FUNCUNIT_func_addsub_s16x2_6 1; mkUse FUNCUNIT_func_addsub_s16x2_7 1;
     mkUse FUNCUNIT_func_addsub_s32x2_slot0_0 1; mkUse FUNCUNIT_func_addsub_s32x2_slot0_1 1;
     mkUse FUNCUNIT_func_addsub_s32x2_slot0_2 1; mkUse FUNCUNIT_func_addsub_s32x2_slot0_3 1;
     mkUse FUNCUNIT_func_mul_s8xs8_0 1; mkUse FUNCUNIT_func_mul_s8xs8_1 1;
     mkUse FUNCUNIT_func_mul_s8xs8_2 1; mkUse FUNCUNIT_func_mul_s8xs8_3 1;
     mkUse FUNCUNIT_func_mul_s8xs8_4 1; mkUse FUNCUNIT_func_mul_s8xs8_5 1;
     mkUse FUNCUNIT_func_mul_s8xs8_6 1; mkUse FUNCUNIT_func_mul_s8xs8_7 1;
     mkUse FUNCUNIT_func_mul_s16xs16_0 1; mkUse FUNCUNIT_func_mul_s16xs16_1 1;
     mkUse FUNCUNIT_func_mul_s16xs16_2 1; mkUse FUNCUNIT_func_mul_s16xs16_3 1;
     mkUse FUNCUNIT_func_mul_s16xs16_4 1; mkUse FUNCUNIT_func_mul_s16xs16_5 1;
     mkUse FUNCUNIT_func_mul_s16xs16_6 1; mkUse FUNCUNIT_func_mul_s16xs16_7 1;
     mkUse FUNCUNIT_func_addsub_s32x2_slot1_extra 2; mkUse FUNCUNIT_func_addsub_s32x2_slot1_2 2;
     mkUse FUNCUNIT_func_addsub_s32x2_slot1_1 2; mkUse FUNCUNIT_func_addsub_s32x2_slot1_0 2;
     mkUse FUNCUNIT_func_addsub_s20x2_slot_end_0 2; mkUse FUNCUNIT_func_addsub_s20x2_slot_end_1 2;
     mkUse FUNCUNIT_func_addsub_s20x2_slot_end_2 2; mkUse FUNCUNIT_func_addsub_s20x2_slot_end_3 2;
     mkUse FUNCUNIT_func_addsub_s40x2_7 2; mkUse FUNCUNIT_func_addsub_s40x2_6 2;
     mkUse FUNCUNIT_func_addsub_s40x2_5 2; mkUse FUNCUNIT_func_addsub_s40x2_4 2;
     mkUse FUNCUNIT_func_addsub_s40x2_3 2; mkUse FUNCUNIT_func_addsub_s40x2_2 2;
     mkUse FUNCUNIT_func_addsub_s40x2_1 2; mkUse FUNCUNIT_func_addsub_s40x2_0 2;
     mkUse FUNCUNIT_func_shift_s16rs8_0 1; mkUse FUNCUNIT_func_shift_s16rs8_1 1;
     mkUse FUNCUNIT_func_shift_s16rs8_2 1; mkUse FUNCUNIT_func_shift_s16rs8_3 1;
     mkUse FUNCUNIT_func_shift_s16rs8_4 1; mkUse FUNCUNIT_func_shift_s16rs8_5 1;
     mkUse FUNCUNIT_func_shift_s16rs8_6 1; mkUse FUNCUNIT_func_shift_s16rs8_7 1;
     mkUse FUNCUNIT_func_shift_s16rs8_8 1; mkUse FUNCUNIT_func_shift_s16rs8_9 1;
     mkUse FUNCUNIT_func_shift_s16rs8_10 1; mkUse FUNCUNIT_func_shift_s16rs8_11 1;
     mkUse FUNCUNIT_func_shift_s16rs8_12 1; mkUse FUNCUNIT_func_shift_s16rs8_13 1;
     mkUse FUNCUNIT_func_shift_s16rs8_14 1; mkUse FUNCUNIT_func_shift_s16rs8_15 1;
     mkUse FUNCUNIT_func_shift_s32rs16_0 2; mkUse FUNCUNIT_func_shift_s32rs16_1 2;
     mkUse FUNCUNIT_func_shift_s32rs16_2 2; mkUse FUNCUNIT_func_shift_s32rs16_3 2;
     mkUse FUNCUNIT_func_shift_s32rs16_4 1; mkUse FUNCUNIT_func_shift_s32rs16_5 1;
     mkUse FUNCUNIT_func_shift_s32rs16_6 1; mkUse FUNCUNIT_func_shift_s32rs16_7 1])].

Definition s3_uses_16 : list (string * list xtensa_funcUnit_use) := [
  ("Opcode_ee_vsubs_s16_st_incp_funcUnit_uses", [mkUse FUNCUNIT_func_addsub_s32x2_slot1_3 1;
     mkUse FUNCUNIT_func_addsub_s8x2_0 1; mkUse FUNCUNIT_func_addsub_s8x2_1 1;
     mkUse FUNCUNIT_func_addsub_s8x2_2 1; mkUse FUNCUNIT_func_addsub_s8x2_3 1;
     mkUse FUNCUNIT_func_addsub_s8x2_4 1; mkUse FUNCUNIT_func_addsub_s8x2_5 1;
     mkUse FUNCUNIT_func_addsub_s8x2_6 1; mkUse FUNCUNIT_func_addsub_s8x2_7 1;
     mkUse FUNCUNIT_func_addsub_s16x2_0 1; mkUse FUNCUNIT_func_addsub_s16x2_1 1;
     mkUse FUNCUNIT_func_addsub_s16x2_2 1; mkUse FUNCUNIT_func_addsub_s16x2_3 1;
     mkUse FUNCUNIT_func_addsub_s16x2_4 1; mkUse FUNCUNIT_func_addsub_s16x2_5 1;
     mkUse FUNCUNIT_func_addsub_s16x2_6 1; mkUse FUNCUNIT_func_addsub_s16x2_7 1;
     mkUse FUNCUNIT_func_addsub_s32x2_slot0_0 1; mkUse FUNCUNIT_func_addsub_s32x2_slot0_1 1;
     mkUse FUNCUNIT_func_addsub_s32x2_slot0_2 1; mkUse FUNCUNIT_func_addsub_s32x2_slot0_3 1;
     mkUse FUNCUNIT_func_mul_s8xs8_0 1; mkUse FUNCUNIT_func_mul_s8xs8_1 1;
     mkUse FUNCUNIT_func_mul_s8xs8_2 1; mkUse FUNCUNIT_func_mul_s8xs8_3 1;
     mkUse FUNCUNIT_func_mul_s8xs8_4 1; mkUse FUNCUNIT_func_mul_s8xs8_5 1;
     mkUse FUNCUNIT_func_mul_s8xs8_6 1; mkUse FUNCUNIT_func_mul_s8xs8_7 1;
     mkUse FUNCUNIT_func_mul_s16xs16_0 1; mkUse FUNCUNIT_func_mul_s16xs16_1 1;
     mkUse FUNCUNIT_func_mul_s16xs16_2 1; mkUse FUNCUNIT_func_mul_s16xs16_3 1;
     mkUse FUNCUNIT_func_mul_s16xs16_4 1; mkUse FUNCUNIT_func_mul_s16xs16_5 1;
     mkUse FUNCUNIT_func_mul_s16xs16_6 1; mkUse FUNCUNIT_func_mul_s16xs16_7 1;
     mkUse FUNCUNIT_func_addsub_s32x2_slot1_extra 2; mkUse FUNCUNIT_func_addsub_s32x2_slot1_2 2;
     mkUse FUNCUNIT_func_addsub_s32x2_slot1_1 2; mkUse FUNCUNIT_func_addsub_s32x2_slot1_0 2;
     mkUse FUNCUNIT_func_addsub_s20x2_slot_end_0 2; mkUse FUNCUNIT_func_addsub_s20x2_slot_end_1 2;
     mkUse FUNCUNIT_func_addsub_s20x2_slot_end_2 2; mkUse FUNCUNIT_func_addsub_s20x2_slot_end_3 2;
     mkUse FUNCUNIT_func_addsub_s40x2_7 2; mkUse FUNCUNIT_func_addsub_s40x2_6 2;
     mkUse FUNCUNIT_func_addsub_s40x2_5 2; mkUse FUNCUNIT_func_addsub_s40x2_4 2;
     mkUse FUNCUNIT_func_addsub_s40x2_3 2; mkUse FUNCUNIT_func_addsub_s40x2_2 2;
     mkUse FUNCUNIT_func_addsub_s40x2_1 2; mkUse FUNCUNIT_func_addsub_s40x2_0 2;
     mkUse FUNCUNIT_func_shift_s16rs8_0 1; mkUse FUNCUNIT_func_shift_s16rs8_1 1;
     mkUse FUNCUNIT_func_shift_s16rs8_2 1; mkUse FUNCUNIT_func_shift_s16rs8_3 1;
     mkUse FUNCUNIT_func_shift_s16rs8_4 1; mkUse FUNCUNIT_func_shift_s16rs8_5 1;
     mkUse FUNCUNIT_func_shift_s16rs8_6 1; mkUse FUNCUNIT_func_shift_s16rs8_7 1;
     mkUse FUNCUNIT_func_shift_s16rs8_8 1; mkUse FUNCUNIT_func_shift_s16rs8_9 1;
     mkUse FUNCUNIT_func_shift_s16rs8_10 1; mkUse FUNCUNIT_func_shift_s16rs8_11 1;
     mkUse FUNCUNIT_func_shift_s16rs8_12 1; mkUse FUNCUNIT_func_shift_s16rs8_13 1;
     mkUse FUNCUNIT_func_shift_s16rs8_14 1; mkUse FUNCUNIT_func_shift_s16rs8_15 1;
     mkUse FUNCUNIT_func_shift_s32rs16_0 2; mkUse FUNCUNIT_func_shift_s32rs16_1 2;
     mkUse FUNCUNIT_func_shift_s32rs16_2 2; mkUse FUNCUNIT_func_shift_s32rs16_3 2;
     mkUse FUNCUNIT_func_shift_s32rs16_4 1; mkUse FUNCUNIT_func_shift_s32rs16_5 1;
     mkUse FUNCUNIT_func_shift_s32rs16_6 1; mkUse FUNCUNIT_func_shift_s32rs16_7 1])].

Definition s3_uses_17 : list (string * list xtensa_funcUnit_use) := [
  ("Opcode_ee_vsubs_s16_funcUnit_uses", [mkUse FUNCUNIT_func_addsub_s32x2_slot1_3 1;
     mkUse FUNCUNIT_func_addsub_s8x2_0 1; mkUse FUNCUNIT_func_addsub_s8x2_1 1;
     mkUse FUNCUNIT_func_addsub_s8x2_2 1; mkUse FUNCUNIT_func_addsub_s8x2_3 1;
     mkUse FUNCUNIT_func_addsub_s8x2_4 1; mkUse FUNCUNIT_func_addsub_s8x2_5 1;
     mkUse FUNCUNIT_func_addsub_s8x2_6 1; mkUse FUNCUNIT_func_addsub_s8x2_7 1;
     mkUse FUNCUNIT_func_addsub_s16x2_0 1; mkUse FUNCUNIT_func_addsub_s16x2_1 1;
     mkUse FUNCUNIT_func_addsub_s16x2_2 1; mkUse FUNCUNIT_func_addsub_s16x2_3 1;
     mkUse FUNCUNIT_func_addsub_s16x2_4 1; mkUse FUNCUNIT_func_addsub_s16x2_5 1;
     mkUse FUNCUNIT_func_addsub_s16x2_6 1; mkUse FUNCUNIT_func_addsub_s16x2_7 1;
     mkUse FUNCUNIT_func_addsub_s32x2_slot0_0 1; mkUse FUNCUNIT_func_addsub_s32x2_slot0_1 1;
     mkUse FUNCUNIT_func_addsub_s32x2_slot0_2 1; mkUse FUNCUNIT_func_addsub_s32x2_slot0_3 1;
     mkUse FUNCUNIT_func_mul_s8xs8_0 1; mkUse FUNCUNIT_func_mul_s8xs8_1 1;
     mkUse FUNCUNIT_func_mul_s8xs8_2 1; mkUse FUNCUNIT_func_mul_s8xs8_3 1;
     mkUse FUNCUNIT_func_mul_s8xs8_4 1; mkUse FUNCUNIT_func_mul_s8xs8_5 1;
     mkUse FUNCUNIT_func_mul_s8xs8_6 1; mkUse FUNCUNIT_func_mul_s8xs8_7 1;
     mkUse FUNCUNIT_func_mul_s16xs16_0 1; mkUse FUNCUNIT_func_mul_s16xs16_1 1;
     mkUse FUNCUNIT_func_mul_s16xs16_2 1; mkUse FUNCUNIT_func_mul_s16xs16_3 1;
     mkUse FUNCUNIT_func_mul_s16xs16_4 1; mkUse FUNCUNIT_func_mul_s16xs16_5 1;
     mkUse FUNCUNIT_func_mul_s16xs16_6 1; mkUse FUNCUNIT_func_mul_s16xs16_7 1;
     mkUse FUNCUNIT_func_addsub_s32x2_slot1_extra 2; mkUse FUNCUNIT_func_addsub_s32x2_slot1_2 2;
     mkUse FUNCUNIT_func_addsub_s32x2_slot1_1 2; mkUse FUNCUNIT_func_addsub_s32x2_slot1_0 2;
     mkUse FUNCUNIT_func_addsub_s20x2_slot_end_0 2; mkUse FUNCUNIT_func_addsub_s20x2_slot_end_1 2;
     mkUse FUNCUNIT_func_addsub_s20x2_slot_end_2 2; mkUse FUNCUNIT_func_addsub_s20x2_slot_end_3 2;
     mkUse FUNCUNIT_func_addsub_s40x2_7 2; mkUse FUNCUNIT_func_addsub_s40x2_6 2;
     mkUse FUNCUNIT_func_addsub_s40x2_5 2; mkUse FUNCUNIT_func_addsub_s40x2_4 2;
     mkUse FUNCUNIT_func_addsub_s40x2_3 2; mkUse FUNCUNIT_func_addsub_s40x2_2 2;
     mkUse FUNCUNIT_func_addsub_s40x2_1 2; mkUse FUNCUNIT_func_addsub_s40x2_0 2;
     mkUse FUNCUNIT_func_shift_s16rs8_0 1; mkUse FUNCUNIT_func_shift_s16rs8_1 1;
     mkUse FUNCUNIT_func_shift_s16rs8_2 1; mkUse FUNCUNIT_func_shift_s16rs8_3 1;
     mkUse FUNCUNIT_func_shift_s16rs8_4 1; mkUse FUNCUNIT_func_shift_s16rs8_5 1;
     mkUse FUNCUNIT_func_shift_s16rs8_6 1; mkUse FUNCUNIT_func_shift_s16rs8_7 1;
     mkUse FUNCUNIT_func_shift_s16rs8_8 1; mkUse FUNCUNIT_func_shift_s16rs8_9 1;
     mkUse FUNCUNIT_func_shift_s16rs8_10 1; mkUse FUNCUNIT_func_shift_s16rs8_11 1;
     mkUse FUNCUNIT_func_shift_s16rs8_12 1; mkUse FUNCUNIT_func_shift_s16rs8_13 1;
     mkUse FUNCUNIT_func_shift_s16rs8_14 1; mkUse FUNCUNIT_func_shift_s16rs8_15 1;
     mkUse FUNCUNIT_func_shift_s32rs16_0 2; mkUse FUNCUNIT_func_shift_s32rs16_1 2;
     mkUse FUNCUNIT_func_shift_s32rs16_2 2; mkUse FUNCUNIT_func_shift_s32rs16_3 2;
     mkUse FUNCUNIT_func_shift_s32rs16_4 1; mkUse FUNCUNIT_func_shift_s32rs16_5 1;
     mkUse FUNCUNIT_func_shift_s32rs16_6 1; mkUse FUNCUNIT_func_shift_s32rs16_7 1])].

Definition s3_uses_18 : list (string * list xtensa_funcUnit_use) := [
  ("Opcode_ee_vsubs_s32_ld_incp_funcUnit_uses", [mkUse FUNCUNIT_func_addsub_s32x2_slot1_3 1;
     mkUse FUNCUNIT_func_addsub_s8x2_0 1; mkUse FUNCUNIT_func_addsub_s8x2_1 1;
     mkUse FUNCUNIT_func_addsub_s8x2_2 1; mkUse FUNCUNIT_func_addsub_s8x2_3 1;
     mkUse FUNCUNIT_func_addsub_s8x2_4 1; mkUse FUNCUNIT_func_addsub_s8x2_5 1;
     mkUse FUNCUNIT_func_addsub_s8x2_6 1; mkUse FUNCUNIT_func_addsub_s8x2_7 1;
     mkUse FUNCUNIT_func_addsub_s16x2_0 1; mkUse FUNCUNIT_func_addsub_s16x2_1 1;
     mkUse FUNCUNIT_func_addsub_s16x2_2 1; mkUse FUNCUNIT_func_addsub_s16x2_3 1;
     mkUse FUNCUNIT_func_addsub_s16x2_4 1; mkUse FUNCUNIT_func_addsub_s16x2_5 1;
     mkUse FUNCUNIT_func_addsub_s16x2_6 1; mkUse FUNCUNIT_func_addsub_s16x2_7 1;
     mkUse FUNCUNIT_func_addsub_s32x2_slot0_0 1; mkUse FUNCUNIT_func_addsub_s32x2_slot0_1 1;
     mkUse FUNCUNIT_func_addsub_s32x2_slot0_2 1; mkUse FUNCUNIT_func_addsub_s32x2_slot0_3 1;
     mkUse FUNCUNIT_func_mul_s8xs8_0 1; mkUse FUNCUNIT_func_mul_s8xs8_1 1;
     mkUse FUNCUNIT_func_mul_s8xs8_2 1; mkUse FUNCUNIT_func_mul_s8xs8_3 1;
     mkUse FUNCUNIT_func_mul_s8xs8_4 1; mkUse FUNCUNIT_func_mul_s8xs8_5 1;
     mkUse FUNCUNIT_func_mul_s8xs8_6 1; mkUse FUNCUNIT_func_mul_s8xs8_7 1;
     mkUse FUNCUNIT_func_mul_s16xs16_0 1; mkUse FUNCUNIT_func_mul_s16xs16_1 1;
     mkUse FUNCUNIT_func_mul_s16xs16_2 1; mkUse FUNCUNIT_func_mul_s16xs16_3 1;
     mkUse FUNCUNIT_func_mul_s16xs16_4 1; mkUse FUNCUNIT_func_mul_s16xs16_5 1;
     mkUse FUNCUNIT_func_mul_s16xs16_6 1; mkUse FUNCUNIT_func_mul_s16xs16_7 1;
     mkUse FUNCUNIT_func_addsub_s32x2_slot1_extra 2; mkUse FUNCUNIT_func_addsub_s32x2_slot1_2 2;
     mkUse FUNCUNIT_func_addsub_s32x2_slot1_1 2; mkUse FUNCUNIT_func_addsub_s32x2_slot1_0 2;
     mkUse FUNCUNIT_func_addsub_s20x2_slot_end_0 2; mkUse FUNCUNIT_func_addsub_s20x2_slot_end_1 2;
     mkUse FUNCUNIT_func_addsub_s20x2_slot_end_2 2; mkUse FUNCUNIT_func_addsub_s20x2_slot_end_3 2;
     mkUse FUNCUNIT_func_addsub_s40x2_7 2; mkUse FUNCUNIT_func_addsub_s40x2_6 2;
     mkUse FUNCUNIT_func_addsub_s40x2_5 2; mkUse FUNCUNIT_func_addsub_s40x2_4 2;
     mkUse FUNCUNIT_func_addsub_s40x2_3 2; mkUse FUNCUNIT_func_addsub_s40x2_2 2;
     mkUse FUNCUNIT_func_addsub_s40x2_1 2; mkUse FUNCUNIT_func_addsub_s40x2_0 2;
     mkUse FUNCUNIT_func_shift_s16rs8_0 1; mkUse FUNCUNIT_func_shift_s16rs8_1 1;
     mkUse FUNCUNIT_func_shift_s16rs8_2 1; mkUse FUNCUNIT_func_shift_s16rs8_3 1;
     mkUse FUNCUNIT_func_shift_s16rs8_4 1; mkUse FUNCUNIT_func_shift_s16rs8_5 1;
     mkUse FUNCUNIT_func_shift_s16rs8_6 1; mkUse FUNCUNIT_func_shift_s16rs8_7 1;
     mkUse FUNCUNIT_func_shift_s16rs8_8 1; mkUse FUNCUNIT_func_shift_s16rs8_9 1;
     mkUse FUNCUNIT_func_shift_s16rs8_10 1; mkUse FUNCUNIT_func_shift_s16rs8_11 1;
     mkUse FUNCUNIT_func_shift_s16rs8_12 1; mkUse FUNCUNIT_func_shift_s16rs8_13 1;
     mkUse FUNCUNIT_func_shift_s16rs8_14 1; mkUse FUNCUNIT_func_shift_s16rs8_15 1;
     mkUse FUNCUNIT_func_shift_s32rs16_0 2; mkUse FUNCUNIT_func_shift_s32rs16_1 2;
     mkUse FUNCUNIT_func_shift_s32rs16_2 2; mkUse FUNCUNIT_func_shift_s32rs16_3 2;
     mkUse FUNCUNIT_func_shift_s32rs16_4 1; mkUse FUNCUNIT_func_shift_s32rs16_5 1;
     mkUse FUNCUNIT_func_shift_s32rs16_6 1; mkUse FUNCUNIT_func_shift_s32rs16_7 1])].

Definition s3_uses_19 : list (string * list xtensa_funcUnit_use) := [
  ("Opcode_ee_vsubs_s32_st_incp_funcUnit_uses", [mkUse FUNCUNIT_func_addsub_s32x2_slot1_3 1;
     mkUse FUNCUNIT_func_addsub_s8x2_0 1; mkUse FUNCUNIT_func_addsub_s8x2_1 1;
     mkUse FUNCUNIT_func_addsub_s8x2_2 1; mkUse FUNCUNIT_func_addsub_s8x2_3 1;
     mkUse FUNCUNIT_func_addsub_s8x2_4 1; mkUse FUNCUNIT_func_addsub_s8x2_5 1;
     mkUse FUNCUNIT_func_addsub_s8x2_6 1; mkUse FUNCUNIT_func_addsub_s8x2_7 1;
     mkUse FUNCUNIT_func_addsub_s16x2_0 1; mkUse FUNCUNIT_func_addsub_s16x2_1 1;
     mkUse FUNCUNIT_func_addsub_s16x2_2 1; mkUse FUNCUNIT_func_addsub_s16x2_3 1;
     mkUse FUNCUNIT_func_addsub_s16x2_4 1; mkUse FUNCUNIT_func_addsub_s16x2_5 1;
     mkUse FUNCUNIT_func_addsub_s16x2_6 1; mkUse FUNCUNIT_func_addsub_s16x2_7 1;
     mkUse FUNCUNIT_func_addsub_s32x2_slot0_0 1; mkUse FUNCUNIT_func_addsub_s32x2_slot0_1 1;
     mkUse FUNCUNIT_func_addsub_s32x2_slot0_2 1; mkUse FUNCUNIT_func_addsub_s32x2_slot0_3 1;
     mkUse FUNCUNIT_func_mul_s8xs8_0 1; mkUse FUNCUNIT_func_mul_s8xs8_1 1;
     mkUse FUNCUNIT_func_mul_s8xs8_2 1; mkUse FUNCUNIT_func_mul_s8xs8_3 1;
     mkUse FUNCUNIT_func_mul_s8xs8_4 1; mkUse FUNCUNIT_func_mul_s8xs8_5 1;
     mkUse FUNCUNIT_func_mul_s8xs8_6 1; mkUse FUNCUNIT_func_mul_s8xs8_7 1;
     mkUse FUNCUNIT_func_mul_s16xs16_0 1; mkUse FUNCUNIT_func_mul_s16xs16_1 1;
     mkUse FUNCUNIT_func_mul_s16xs16_2 1; mkUse FUNCUNIT_func_mul_s16xs16_3 1;
     mkUse FUNCUNIT_func_mul_s16xs16_4 1; mkUse FUNCUNIT_func_mul_s16xs16_5 1;
     mkUse FUNCUNIT_func_mul_s16xs16_6 1; mkUse FUNCUNIT_func_mul_s16xs16_7 1;
     mkUse FUNCUNIT_func_addsub_s32x2_slot1_extra 2; mkUse FUNCUNIT_func_addsub_s32x2_slot1_2 2;
     mkUse FUNCUNIT_func_addsub_s32x2_slot1_1 2; mkUse FUNCUNIT_func_addsub_s32x2_slot1_0 2;
     mkUse FUNCUNIT_func_addsub_s20x2_slot_end_0 2; mkUse FUNCUNIT_func_addsub_s20x2_slot_end_1 2;
     mkUse FUNCUNIT_func_addsub_s20x2_slot_end_2 2; mkUse FUNCUNIT_func_addsub_s20x2_slot_end_3 2;
     mkUse FUNCUNIT_func_addsub_s40x2_7 2; mkUse FUNCUNIT_func_addsub_s40x2_6 2;
     mkUse FUNCUNIT_func_addsub_s40x2_5 2; mkUse FUNCUNIT_func_addsub_s40x2_4 2;
     mkUse FUNCUNIT_func_addsub_s40x2_3 2; mkUse FUNCUNIT_func_addsub_s40x2_2 2;
     mkUse FUNCUNIT_func_addsub_s40x2_1 2; mkUse FUNCUNIT_func_addsub_s40x2_0 2;
     mkUse FUNCUNIT_func_shift_s16rs8_0 1; mkUse FUNCUNIT_func_shift_s16rs8_1 1;
     mkUse FUNCUNIT_func_shift_s16rs8_2 1; mkUse FUNCUNIT_func_shift_s16rs8_3 1;
     mkUse FUNCUNIT_func_shift_s16rs8_4 1; mkUse FUNCUNIT_func_shift_s16rs8_5 1;
     mkUse FUNCUNIT_func_shift_s16rs8_6 1; mkUse FUNCUNIT_func_shift_s16rs8_7 1;
     mkUse FUNCUNIT_func_shift_s16rs8_8 1; mkUse FUNCUNIT_func_shift_s16rs8_9 1;
     mkUse FUNCUNIT_func_shift_s16rs8_10 1; mkUse FUNCUNIT_func_shift_s16rs8_11 1;
     mkUse FUNCUNIT_func_shift_s16rs8_12 1; mkUse FUNCUNIT_func_shift_s16rs8_13 1;
     mkUse FUNCUNIT_func_shift_s16rs8_14 1; mkUse FUNCUNIT_func_shift_s16rs8_15 1;
     mkUse FUNCUNIT_func_shift_s32rs16_0 2; mkUse FUNCUNIT_func_shift_s32rs16_1 2;
     mkUse FUNCUNIT_func_shift_s32rs16_2 2; mkUse FUNCUNIT_func_shift_s32rs16_3 2;
     mkUse FUNCUNIT_func_shift_s32rs16_4 1; mkUse FUNCUNIT_func_shift_s32rs16_5 1;
     mkUse FUNCUNIT_func_shift_s32rs16_6 1; mkUse FUNCUNIT_func_shift_s32rs16_7 1])].

Definition s3_uses_20 : list (string * list xtensa_funcUnit_use) := [
  ("Opcode_ee_vsubs_s32_funcUnit_uses", [mkUse FUNCUNIT_func_addsub_s32x2_slot1_3 1;
     mkUse FUNCUNIT_func_addsub_s8x2_0 1; mkUse FUNCUNIT_func_addsub_s8x2_1 1;
     mkUse FUNCUNIT_func_addsub_s8x2_2 1; mkUse FUNCUNIT_func_addsub_s8x2_3 1;
     mkUse FUNCUNIT_func_addsub_s8x2_4 1; mkUse FUNCUNIT_func_addsub_s8x2_5 1;
     mkUse FUNCUNIT_func_addsub_s8x2_6 1; mkUse FUNCUNIT_func_addsub_s8x2_7 1;
     mkUse FUNCUNIT_func_addsub_s16x2_0 1; mkUse FUNCUNIT_func_addsub_s16x2_1 1;
     mkUse FUNCUNIT_func_addsub_s16x2_2 1; mkUse FUNCUNIT_func_addsub_s16x2_3 1;
     mkUse FUNCUNIT_func_addsub_s16x2_4 1; mkUse FUNCUNIT_func_addsub_s16x2_5 1;
     mkUse FUNCUNIT_func_addsub_s16x2_6 1; mkUse FUNCUNIT_func_addsub_s16x2_7 1;
     mkUse FUNCUNIT_func_addsub_s32x2_slot0_0 1; mkUse FUNCUNIT_func_addsub_s32x2_slot0_1 1;
     mkUse FUNCUNIT_func_addsub_s32x2_slot0_2 1; mkUse FUNCUNIT_func_addsub_s32x2_slot0_3 1;
     mkUse FUNCUNIT_func_mul_s8xs8_0 1; mkUse FUNCUNIT_func_mul_s8xs8_1 1;
     mkUse FUNCUNIT_func_mul_s8xs8_2 1; mkUse FUNCUNIT_func_mul_s8xs8_3 1;
     mkUse FUNCUNIT_func_mul_s8xs8_4 1; mkUse FUNCUNIT_func_mul_s8xs8_5 1;
     mkUse FUNCUNIT_func_mul_s8xs8_6 1; mkUse FUNCUNIT_func_mul_s8xs8_7 1;
     mkUse FUNCUNIT_func_mul_s16xs16_0 1; mkUse FUNCUNIT_func_mul_s16xs16_1 1;
     mkUse FUNCUNIT_func_mul_s16xs16_2 1; mkUse FUNCUNIT_func_mul_s16xs16_3 1;
     mkUse FUNCUNIT_func_mul_s16xs16_4 1; mkUse FUNCUNIT_func_mul_s16xs16_5 1;
     mkUse FUNCUNIT_func_mul_s16xs16_6 1; mkUse FUNCUNIT_func_mul_s16xs16_7 1;
     mkUse FUNCUNIT_func_addsub_s32x2_slot1_extra 2; mkUse FUNCUNIT_func_addsub_s32x2_slot1_2 2;
     mkUse FUNCUNIT_func_addsub_s32x2_slot1_1 2; mkUse FUNCUNIT_func_addsub_s32x2_slot1_0 2;
     mkUse FUNCUNIT_func_addsub_s20x2_slot_end_0 2; mkUse FUNCUNIT_func_addsub_s20x2_slot_end_1 2;
     mkUse FUNCUNIT_func_addsub_s20x2_slot_end_2 2; mkUse FUNCUNIT_func_addsub_s20x2_slot_end_3 2;
     mkUse FUNCUNIT_func_addsub_s40x2_7 2; mkUse FUNCUNIT_func_addsub_s40x2_6 2;
     mkUse FUNCUNIT_func_addsub_s40x2_5 2; mkUse FUNCUNIT_func_addsub_s40x2_4 2;
     mkUse FUNCUNIT_func_addsub_s40x2_3 2; mkUse FUNCUNIT_func_addsub_s40x2_2 2;
     mkUse FUNCUNIT_func_addsub_s40x2_1 2; mkUse FUNCUNIT_func_addsub_s40x2_0 2;
     mkUse FUNCUNIT_func_shift_s16rs8_0 1; mkUse FUNCUNIT_func_shift_s16rs8_1 1;
     mkUse FUNCUNIT_func_shift_s16rs8_2 1; mkUse FUNCUNIT_func_shift_s16rs8_3 1;
     mkUse FUNCUNIT_func_shift_s16rs8_4 1; mkUse FUNCUNIT_func_shift_s16rs8_5 1;
     mkUse FUNCUNIT_func_shift_s16rs8_6 1; mkUse FUNCUNIT_func_shift_s16rs8_7 1;
     mkUse FUNCUNIT_func_shift_s16rs8_8 1; mkUse FUNCUNIT_func_shift_s16rs8_9 1;
     mkUse FUNCUNIT_func_shift_s16rs8_10 1; mkUse FUNCUNIT_func_shift_s16rs8_11 1;
     mkUse FUNCUNIT_func_shift_s16rs8_12 1; mkUse FUNCUNIT_func_shift_s16rs8_13 1;
     mkUse FUNCUNIT_func_shift_s16rs8_14 1; mkUse FUNCUNIT_func_shift_s16rs8_15 1;
     mkUse FUNCUNIT_func_shift_s32rs16_0 2; mkUse FUNCUNIT_func_shift_s32rs16_1 2;
     mkUse FUNCUNIT_func_shift_s32rs16_2 2; mkUse FUNCUNIT_func_shift_s32rs16_3 2;
     mkUse FUNCUNIT_func_shift_s32rs16_4 1; mkUse FUNCUNIT_func_shift_s32rs16_5 1;
     mkUse FUNCUNIT_func_shift_s32rs16_6 1; mkUse FUNCUNIT_func_shift_s32rs16_7 1])].

Definition s3_uses_21 : list (string * list xtensa_funcUnit_use) := [
  ("Opcode_ee_vsubs_s8_ld_incp_funcUnit_uses", [mkUse FUNCUNIT_func_addsub_s32x2_slot1_3 1;
     mkUse FUNCUNIT_func_addsub_s8x2_0 1; mkUse FUNCUNIT_func_addsub_s8x2_1 1;
     mkUse FUNCUNIT_func_addsub_s8x2_2 1; mkUse FUNCUNIT_func_addsub_s8x2_3 1;
     mkUse FUNCUNIT_func_addsub_s8x2_4 1; mkUse FUNCUNIT_func_addsub_s8x2_5 1;
     mkUse FUNCUNIT_func_addsub_s8x2_6 1; mkUse FUNCUNIT_func_addsub_s8x2_7 1;
     mkUse FUNCUNIT_func_addsub_s16x2_0 1; mkUse FUNCUNIT_func_addsub_s16x2_1 1;
     mkUse FUNCUNIT_func_addsub_s16x2_2 1; mkUse FUNCUNIT_func_addsub_s16x2_3 1;
     mkUse FUNCUNIT_func_addsub_s16x2_4 1; mkUse FUNCUNIT_func_addsub_s16x2_5 1;
     mkUse FUNCUNIT_func_addsub_s16x2_6 1; mkUse FUNCUNIT_func_addsub_s16x2_7 1;
     mkUse FUNCUNIT_func_addsub_s32x2_slot0_0 1; mkUse FUNCUNIT_func_addsub_s32x2_slot0_1 1;
     mkUse FUNCUNIT_func_addsub_s32x2_slot0_2 1; mkUse FUNCUNIT_func_addsub_s32x2_slot0_3 1;
     mkUse FUNCUNIT_func_mul_s8xs8_0 1; mkUse FUNCUNIT_func_mul_s8xs8_1 1;
     mkUse FUNCUNIT_func_mul_s8xs8_2 1; mkUse FUNCUNIT_func_mul_s8xs8_3 1;
     mkUse FUNCUNIT_func_mul_s8xs8_4 1; mkUse FUNCUNIT_func_mul_s8xs8_5 1;
     mkUse FUNCUNIT_func_mul_s8xs8_6 1; mkUse FUNCUNIT_func_mul_s8xs8_7 1;
     mkUse FUNCUNIT_func_mul_s16xs16_0 1; mkUse FUNCUNIT_func_mul_s16xs16_1 1;
     mkUse FUNCUNIT_func_mul_s16xs16_2 1; mkUse FUNCUNIT_func_mul_s16xs16_3 1;
     mkUse FUNCUNIT_func_mul_s16xs16_4 1; mkUse FUNCUNIT_func_mul_s16xs16_5 1;
     mkUse FUNCUNIT_func_mul_s16xs16_6 1; mkUse FUNCUNIT_func_mul_s16xs16_7 1;
     mkUse FUNCUNIT_func_addsub_s32x2_slot1_extra 2; mkUse FUNCUNIT_func_addsub_s32x2_slot1_2 2;
     mkUse FUNCUNIT_func_addsub_s32x2_slot1_1 2; mkUse FUNCUNIT_func_addsub_s32x2_slot1_0 2;
     mkUse FUNCUNIT_func_addsub_s20x2_slot_end_0 2; mkUse FUNCUNIT_func_addsub_s20x2_slot_end_1 2;
     mkUse FUNCUNIT_func_addsub_s20x2_slot_end_2 2; mkUse FUNCUNIT_func_addsub_s20x2_slot_end_3 2;
     mkUse FUNCUNIT_func_addsub_s40x2_7 2; mkUse FUNCUNIT_func_addsub_s40x2_6 2;
     mkUse FUNCUNIT_func_addsub_s40x2_5 2; mkUse FUNCUNIT_func_addsub_s40x2_4 2;
     mkUse FUNCUNIT_func_addsub_s40x2_3 2; mkUse FUNCUNIT_func_addsub_s40x2_2 2;
     mkUse FUNCUNIT_func_addsub_s40x2_1 2; mkUse FUNCUNIT_func_addsub_s40x2_0 2;
     mkUse FUNCUNIT_func_shift_s16rs8_0 1; mkUse FUNCUNIT_func_shift_s16rs8_1 1;
     mkUse FUNCUNIT_func_shift_s16rs8_2 1; mkUse FUNCUNIT_func_shift_s16rs8_3 1;
     mkUse FUNCUNIT_func_shift_s16rs8_4 1; mkUse FUNCUNIT_func_shift_s16rs8_5 1;
     mkUse FUNCUNIT_func_shift_s16rs8_6 1; mkUse FUNCUNIT_func_shift_s16rs8_7 1;
     mkUse FUNCUNIT_func_shift_s16rs8_8 1; mkUse FUNCUNIT_func_shift_s16rs8_9 1;
     mkUse FUNCUNIT_func_shift_s16rs8_10 1; mkUse FUNCUNIT_func_shift_s16rs8_11 1;
     mkUse FUNCUNIT_func_shift_s16rs8_12 1; mkUse FUNCUNIT_func_shift_s16rs8_13 1;
     mkUse FUNCUNIT_func_shift_s16rs8_14 1; mkUse FUNCUNIT_func_shift_s16rs8_15 1;
     mkUse FUNCUNIT_func_shift_s32rs16_0 2; mkUse FUNCUNIT_func_shift_s32rs16_1 2;
     mkUse FUNCUNIT_func_shift_s32rs16_2 2; mkUse FUNCUNIT_func_shift_s32rs16_3 2;
     mkUse FUNCUNIT_func_shift_s32rs16_4 1; mkUse FUNCUNIT_func_shift_s32rs16_5 1;
     mkUse FUNCUNIT_func_shift_s32rs16_6 1; mkUse FUNCUNIT_func_shift_s32rs16_7 1])].

Definition s3_uses_22 : list (string * list xtensa_funcUnit_use) := [
  ("Opcode_ee_vsubs_s8_st_incp_funcUnit_uses", [mkUse FUNCUNIT_func_addsub_s32x2_slot1_3 1;
     mkUse FUNCUNIT_func_addsub_s8x2_0 1; mkUse FUNCUNIT_func_addsub_s8x2_1 1;
     mkUse FUNCUNIT_func_addsub_s8x2_2 1; mkUse FUNCUNIT_func_addsub_s8x2_3 1;
     mkUse FUNCUNIT_func_addsub_s8x2_4 1; mkUse FUNCUNIT_func_addsub_s8x2_5 1;
     mkUse FUNCUNIT_func_addsub_s8x2_6 1; mkUse FUNCUNIT_func_addsub_s8x2_7 1;
     mkUse FUNCUNIT_func_addsub_s16x2_0 1; mkUse FUNCUNIT_func_addsub_s16x2_1 1;
     mkUse FUNCUNIT_func_addsub_s16x2_2 1; mkUse FUNCUNIT_func_addsub_s16x2_3 1;
     mkUse FUNCUNIT_func_addsub_s16x2_4 1; mkUse FUNCUNIT_func_addsub_s16x2_5 1;
     mkUse FUNCUNIT_func_addsub_s16x2_6 1; mkUse FUNCUNIT_func_addsub_s16x2_7 1;
     mkUse FUNCUNIT_func_addsub_s32x2_slot0_0 1; mkUse FUNCUNIT_func_addsub_s32x2_slot0_1 1;
     mkUse FUNCUNIT_func_addsub_s32x2_slot0_2 1; mkUse FUNCUNIT_func_addsub_s32x2_slot0_3 1;
     mkUse FUNCUNIT_func_mul_s8xs8_0 1; mkUse FUNCUNIT_func_mul_s8xs8_1 1;
     mkUse FUNCUNIT_func_mul_s8xs8_2 1; mkUse FUNCUNIT_func_mul_s8xs8_3 1;
     mkUse FUNCUNIT_func_mul_s8xs8_4 1; mkUse FUNCUNIT_func_mul_s8xs8_5 1;
     mkUse FUNCUNIT_func_mul_s8xs8_6 1; mkUse FUNCUNIT_func_mul_s8xs8_7 1;
     mkUse FUNCUNIT_func_mul_s16xs16_0 1; mkUse FUNCUNIT_func_mul_s16xs16_1 1;
     mkUse FUNCUNIT_func_mul_s16xs16_2 1; mkUse FUNCUNIT_func_mul_s16xs16_3 1;
     mkUse FUNCUNIT_func_mul_s16xs16_4 1; mkUse FUNCUNIT_func_mul_s16xs16_5 1;
     mkUse FUNCUNIT_func_mul_s16xs16_6 1; mkUse FUNCUNIT_func_mul_s16xs16_7 1;
     mkUse FUNCUNIT_func_addsub_s32x2_slot1_extra 2; mkUse FUNCUNIT_func_addsub_s32x2_slot1_2 2;
     mkUse FUNCUNIT_func_addsub_s32x2_slot1_1 2; mkUse FUNCUNIT_func_addsub_s32x2_slot1_0 2;
     mkUse FUNCUNIT_func_addsub_s20x2_slot_end_0 2; mkUse FUNCUNIT_func_addsub_s20x2_slot_end_1 2;
     mkUse FUNCUNIT_func_addsub_s20x2_slot_end_2 2; mkUse FUNCUNIT_func_addsub_s20x2_slot_end_3 2;
     mkUse FUNCUNIT_func_addsub_s40x2_7 2; mkUse FUNCUNIT_func_addsub_s40x2_6 2;
     mkUse FUNCUNIT_func_addsub_s40x2_5 2; mkUse FUNCUNIT_func_addsub_s40x2_4 2;
     mkUse FUNCUNIT_func_addsub_s40x2_3 2; mkUse FUNCUNIT_func_addsub_s40x2_2 2;
     mkUse FUNCUNIT_func_addsub_s40x2_1 2; mkUse FUNCUNIT_func_addsub_s40x2_0 2;
     mkUse FUNCUNIT_func_shift_s16rs8_0 1; mkUse FUNCUNIT_func_shift_s16rs8_1 1;
     mkUse FUNCUNIT_func_shift_s16rs8_2 1; mkUse FUNCUNIT_func_shift_s16rs8_3 1;
     mkUse FUNCUNIT_func_shift_s16rs8_4 1; mkUse FUNCUNIT_func_shift_s16rs8_5 1;
     mkUse FUNCUNIT_func_shift_s16rs8_6 1; mkUse FUNCUNIT_func_shift_s16rs8_7 1;
     mkUse FUNCUNIT_func_shift_s16rs8_8 1; mkUse FUNCUNIT_func_shift_s16rs8_9 1;
     mkUse FUNCUNIT_func_shift_s16rs8_10 1; mkUse FUNCUNIT_func_shift_s16rs8_11 1;
     mkUse FUNCUNIT_func_shift_s16rs8_12 1; mkUse FUNCUNIT_func_shift_s16rs8_13 1;
     mkUse FUNCUNIT_func_shift_s16rs8_14 1; mkUse FUNCUNIT_func_shift_s16rs8_15 1;
     mkUse FUNCUNIT_func_shift_s32rs16_0 2; mkUse FUNCUNIT_func_shift_s32rs16_1 2;
     mkUse FUNCUNIT_func_shift_s32rs16_2 2; mkUse FUNCUNIT_func_shift_s32rs16_3 2;
     mkUse FUNCUNIT_func_shift_s32rs16_4 1; mkUse FUNCUNIT_func_shift_s32rs16_5 1;
     mkUse FUNCUNIT_func_shift_s32rs16_6 1; mkUse FUNCUNIT_func_shift_s32rs16_7 1])].

Definition s3_uses_23 : list (string * list xtensa_funcUnit_use) := [
  ("Opcode_ee_vsubs_s8_funcUnit_uses", [mkUse FUNCUNIT_func_addsub_s32x2_slot1_3 1;
     mkUse FUNCUNIT_func_addsub_s8x2_0 1; mkUse FUNCUNIT_func_addsub_s8x2_1 1;
     mkUse FUNCUNIT_func_addsub_s8x2_2 1; mkUse FUNCUNIT_func_addsub_s8x2_3 1;
     mkUse FUNCUNIT_func_addsub_s8x2_4 1; mkUse FUNCUNIT_func_addsub_s8x2_5 1;
     mkUse FUNCUNIT_func_addsub_s8x2_6 1; mkUse FUNCUNIT_func_addsub_s8x2_7 1;
     mkUse FUNCUNIT_func_addsub_s16x2_0 1; mkUse FUNCUNIT_func_addsub_s16x2_1 1;
     mkUse FUNCUNIT_func_addsub_s16x2_2 1; mkUse FUNCUNIT_func_addsub_s16x2_3 1;
     mkUse FUNCUNIT_func_addsub_s16x2_4 1; mkUse FUNCUNIT_func_addsub_s16x2_5 1;
     mkUse FUNCUNIT_func_addsub_s16x2_6 1; mkUse FUNCUNIT_func_addsub_s16x2_7 1;
     mkUse FUNCUNIT_func_addsub_s32x2_slot0_0 1; mkUse FUNCUNIT_func_addsub_s32x2_slot0_1 1;
     mkUse FUNCUNIT_func_addsub_s32x2_slot0_2 1; mkUse FUNCUNIT_func_addsub_s32x2_slot0_3 1;
     mkUse FUNCUNIT_func_mul_s8xs8_0 1; mkUse FUNCUNIT_func_mul_s8xs8_1 1;
     mkUse FUNCUNIT_func_mul_s8xs8_2 1; mkUse FUNCUNIT_func_mul_s8xs8_3 1;
     mkUse FUNCUNIT_func_mul_s8xs8_4 1; mkUse FUNCUNIT_func_mul_s8xs8_5 1;
     mkUse FUNCUNIT_func_mul_s8xs8_6 1; mkUse FUNCUNIT_func_mul_s8xs8_7 1;
     mkUse FUNCUNIT_func_mul_s16xs16_0 1; mkUse FUNCUNIT_func_mul_s16xs16_1 1;
     mkUse FUNCUNIT_func_mul_s16xs16_2 1; mkUse FUNCUNIT_func_mul_s16xs16_3 1;
     mkUse FUNCUNIT_func_mul_s16xs16_4 1; mkUse FUNCUNIT_func_mul_s16xs16_5 1;
     mkUse FUNCUNIT_func_mul_s16xs16_6 1; mkUse FUNCUNIT_func_mul_s16xs16_7 1;
     mkUse FUNCUNIT_func_addsub_s32x2_slot1_extra 2; mkUse FUNCUNIT_func_addsub_s32x2_slot1_2 2;
     mkUse FUNCUNIT_func_addsub_s32x2_slot1_1 2; mkUse FUNCUNIT_func_addsub_s32x2_slot1_0 2;
     mkUse FUNCUNIT_func_addsub_s20x2_slot_end_0 2; mkUse FUNCUNIT_func_addsub_s20x2_slot_end_1 2;
     mkUse FUNCUNIT_func_addsub_s20x2_slot_end_2 2; mkUse FUNCUNIT_func_addsub_s20x2_slot_end_3 2;
     mkUse FUNCUNIT_func_addsub_s40x2_7 2; mkUse FUNCUNIT_func_addsub_s40x2_6 2;
     mkUse FUNCUNIT_func_addsub_s40x2_5 2; mkUse FUNCUNIT_func_addsub_s40x2_4 2;
     mkUse FUNCUNIT_func_addsub_s40x2_3 2; mkUse FUNCUNIT_func_addsub_s40x2_2 2;
     mkUse FUNCUNIT_func_addsub_s40x2_1 2; mkUse FUNCUNIT_func_addsub_s40x2_0 2;
     mkUse FUNCUNIT_func_shift_s16rs8_0 1; mkUse FUNCUNIT_func_shift_s16rs8_1 1;
     mkUse FUNCUNIT_func_shift_s16rs8_2 1; mkUse FUNCUNIT_func_shift_s16rs8_3 1;
     mkUse FUNCUNIT_func_shift_s16rs8_4 1; mkUse FUNCUNIT_func_shift_s16rs8_5 1;
     mkUse FUNCUNIT_func_shift_s16rs8_6 1; mkUse FUNCUNIT_func_shift_s16rs8_7 1;
     mkUse FUNCUNIT_func_shift_s16rs8_8 1; mkUse FUNCUNIT_func_shift_s16rs8_9 1;
     mkUse FUNCUNIT_func_shift_s16rs8_10 1; mkUse FUNCUNIT_func_shift_s16rs8_11 1;
     mkUse FUNCUNIT_func_shift_s16rs8_12 1; mkUse FUNCUNIT_func_shift_s16rs8_13 1;
     mkUse FUNCUNIT_func_shift_s16rs8_14 1; mkUse FUNCUNIT_func_shift_s16rs8_15 1;
     mkUse FUNCUNIT_func_shift_s32rs16_0 2; mkUse FUNCUNIT_func_shift_s32rs16_1 2;
     mkUse FUNCUNIT_func_shift_s32rs16_2 2; mkUse FUNCUNIT_func_shift_s32rs16_3 2;
     mkUse FUNCUNIT_func_shift_s32rs16_4 1; mkUse FUNCUNIT_func_shift_s32rs16_5 1;
     mkUse FUNCUNIT_func_shift_s32rs16_6 1; mkUse FUNCUNIT_func_shift_s32rs16_7 1])].

Definition s3_uses_24 : list (string * list xtensa_funcUnit_use) := [
  ("Opcode_ee_vmul_s16_ld_incp_funcUnit_uses", [mkUse FUNCUNIT_func_addsub_s32x2_slot1_3 1;
     mkUse FUNCUNIT_func_addsub_s8x2_0 1; mkUse FUNCUNIT_func_addsub_s8x2_1 1;
     mkUse FUNCUNIT_func_addsub_s8x2_2 1; mkUse FUNCUNIT_func_addsub_s8x2_3 1;
     mkUse FUNCUNIT_func_addsub_s8x2_4 1; mkUse FUNCUNIT_func_addsub_s8x2_5 1;
     mkUse FUNCUNIT_func_addsub_s8x2_6 1; mkUse FUNCUNIT_func_addsub_s8x2_7 1;
     mkUse FUNCUNIT_func_addsub_s16x2_0 1; mkUse FUNCUNIT_func_addsub_s16x2_1 1;
     mkUse FUNCUNIT_func_addsub_s16x2_2 1; mkUse FUNCUNIT_func_addsub_s16x2_3 1;
     mkUse FUNCUNIT_func_addsub_s16x2_4 1; mkUse FUNCUNIT_func_addsub_s16x2_5 1;
     mkUse FUNCUNIT_func_addsub_s16x2_6 1; mkUse FUNCUNIT_func_addsub_s16x2_7 1;
     mkUse FUNCUNIT_func_addsub_s32x2_slot0_0 1; mkUse FUNCUNIT_func_addsub_s32x2_slot0_1 1;
     mkUse FUNCUNIT_func_addsub_s32x2_slot0_2 1; mkUse FUNCUNIT_func_addsub_s32x2_slot0_3 1;
     mkUse FUNCUNIT_func_mul_s8xs8_0 1; mkUse FUNCUNIT_func_mul_s8xs8_1 1;
     mkUse FUNCUNIT_func_mul_s8xs8_2 1; mkUse FUNCUNIT_func_mul_s8xs8_3 1;
     mkUse FUNCUNIT_func_mul_s8xs8_4 1; mkUse FUNCUNIT_func_mul_s8xs8_5 1;
     mkUse FUNCUNIT_func_mul_s8xs8_6 1; mkUse FUNCUNIT_func_mul_s8xs8_7 1;
     mkUse FUNCUNIT_func_mul_s16xs16_0 1; mkUse FUNCUNIT_func_mul_s16xs16_1 1;
     mkUse FUNCUNIT_func_mul_s16xs16_2 1; mkUse FUNCUNIT_func_mul_s16xs16_3 1;
     mkUse FUNCUNIT_func_mul_s16xs16_4 1; mkUse FUNCUNIT_func_mul_s16xs16_5 1;
     mkUse FUNCUNIT_func_mul_s16xs16_6 1; mkUse FUNCUNIT_func_mul_s16xs16_7 1;
     mkUse FUNCUNIT_func_addsub_s32x2_slot1_extra 2; mkUse FUNCUNIT_func_addsub_s32x2_slot1_2 2;
     mkUse FUNCUNIT_func_addsub_s32x2_slot1_1 2; mkUse FUNCUNIT_func_addsub_s32x2_slot1_0 2;
     mkUse FUNCUNIT_func_addsub_s20x2_slot_end_0 2; mkUse FUNCUNIT_func_addsub_s20x2_slot_end_1 2;
     mkUse FUNCUNIT_func_addsub_s20x2_slot_end_2 2; mkUse FUNCUNIT_func_addsub_s20x2_slot_end_3 2;
     mkUse FUNCUNIT_func_addsub_s40x2_7 2; mkUse FUNCUNIT_func_addsub_s40x2_6 2;
     mkUse FUNCUNIT_func_addsub_s40x2_5 2; mkUse FUNCUNIT_func_addsub_s40x2_4 2;
     mkUse FUNCUNIT_func_addsub_s40x2_3 2; mkUse FUNCUNIT_func_addsub_s40x2_2 2;
     mkUse FUNCUNIT_func_addsub_s40x2_1 2; mkUse FUNCUNIT_func_addsub_s40x2_0 2;
     mkUse FUNCUNIT_func_shift_s16rs8_0 1; mkUse FUNCUNIT_func_shift_s16rs8_1 1;
     mkUse FUNCUNIT_func_shift_s16rs8_2 1; mkUse FUNCUNIT_func_shift_s16rs8_3 1;
     mkUse FUNCUNIT_func_shift_s16rs8_4 1; mkUse FUNCUNIT_func_shift_s16rs8_5 1;
     mkUse FUNCUNIT_func_shift_s16rs8_6 1; mkUse FUNCUNIT_func_shift_s16rs8_7 1;
     mkUse FUNCUNIT_func_shift_s16rs8_8 1; mkUse FUNCUNIT_func_shift_s16rs8_9 1;
     mkUse FUNCUNIT_func_shift_s16rs8_10 1; mkUse FUNCUNIT_func_shift_s16rs8_11 1;
     mkUse FUNCUNIT_func_shift_s16rs8_12 1; mkUse FUNCUNIT_func_shift_s16rs8_13 1;
     mkUse FUNCUNIT_func_shift_s16rs8_14 1; mkUse FUNCUNIT_func_shift_s16rs8_15 1;
     mkUse FUNCUNIT_func_shift_s32rs16_0 2; mkUse FUNCUNIT_func_shift_s32rs16_1 2;
     mkUse FUNCUNIT_func_shift_s32rs16_2 2; mkUse FUNCUNIT_func_shift_s32rs16_3 2;
     mkUse FUNCUNIT_func_shift_s32rs16_4 1; mkUse FUNCUNIT_func_shift_s32rs16_5 1;
     mkUse FUNCUNIT_func_shift_s32rs16_6 1; mkUse FUNCUNIT_func_shift_s32rs16_7 1])].

Definition s3_uses_25 : list (string * list xtensa_funcUnit_use) := [
  ("Opcode_ee_vmul_s16_st_incp_funcUnit_uses", [mkUse FUNCUNIT_func_addsub_s32x2_slot1_3 1;
     mkUse FUNCUNIT_func_addsub_s8x2_0 1; mkUse FUNCUNIT_func_addsub_s8x2_1 1;
     mkUse FUNCUNIT_func_addsub_s8x2_2 1; mkUse FUNCUNIT_func_addsub_s8x2_3 1;
     mkUse FUNCUNIT_func_addsub_s8x2_4 1; mkUse FUNCUNIT_func_addsub_s8x2_5 1;
     mkUse FUNCUNIT_func_addsub_s8x2_6 1; mkUse FUNCUNIT_func_addsub_s8x2_7 1;
     mkUse FUNCUNIT_func_addsub_s16x2_0 1; mkUse FUNCUNIT_func_addsub_s16x2_1 1;
     mkUse FUNCUNIT_func_addsub_s16x2_2 1; mkUse FUNCUNIT_func_addsub_s16x2_3 1;
     mkUse FUNCUNIT_func_addsub_s16x2_4 1; mkUse FUNCUNIT_func_addsub_s16x2_5 1;
     mkUse FUNCUNIT_func_addsub_s16x2_6 1; mkUse FUNCUNIT_func_addsub_s16x2_7 1;
     mkUse FUNCUNIT_func_addsub_s32x2_slot0_0 1; mkUse FUNCUNIT_func_addsub_s32x2_slot0_1 1;
     mkUse FUNCUNIT_func_addsub_s32x2_slot0_2 1; mkUse FUNCUNIT_func_addsub_s32x2_slot0_3 1;
     mkUse FUNCUNIT_func_mul_s8xs8_0 1; mkUse FUNCUNIT_func_mul_s8xs8_1 1;
     mkUse FUNCUNIT_func_mul_s8xs8_2 1; mkUse FUNCUNIT_func_mul_s8xs8_3 1;
     mkUse FUNCUNIT_func_mul_s8xs8_4 1; mkUse FUNCUNIT_func_mul_s8xs8_5 1;
     mkUse FUNCUNIT_func_mul_s8xs8_6 1; mkUse FUNCUNIT_func_mul_s8xs8_7 1;
     mkUse FUNCUNIT_func_mul_s16xs16_0 1; mkUse FUNCUNIT_func_mul_s16xs16_1 1;
     mkUse FUNCUNIT_func_mul_s16xs16_2 1; mkUse FUNCUNIT_func_mul_s16xs16_3 1;
     mkUse FUNCUNIT_func_mul_s16xs16_4 1; mkUse FUNCUNIT_func_mul_s16xs16_5 1;
     mkUse FUNCUNIT_func_mul_s16xs16_6 1; mkUse FUNCUNIT_func_mul_s16xs16_7 1;
     mkUse FUNCUNIT_func_addsub_s32x2_slot1_extra 2; mkUse FUNCUNIT_func_addsub_s32x2_slot1_2 2;
     mkUse FUNCUNIT_func_addsub_s32x2_slot1_1 2; mkUse FUNCUNIT_func_addsub_s32x2_slot1_0 2;
     mkUse FUNCUNIT_func_addsub_s20x2_slot_end_0 2; mkUse FUNCUNIT_func_addsub_s20x2_slot_end_1 2;
     mkUse FUNCUNIT_func_addsub_s20x2_slot_end_2 2; mkUse FUNCUNIT_func_addsub_s20x2_slot_end_3 2;
     mkUse FUNCUNIT_func_addsub_s40x2_7 2; mkUse FUNCUNIT_func_addsub_s40x2_6 2;
     mkUse FUNCUNIT_func_addsub_s40x2_5 2; mkUse FUNCUNIT_func_addsub_s40x2_4 2;
     mkUse FUNCUNIT_func_addsub_s40x2_3 2; mkUse FUNCUNIT_func_addsub_s40x2_2 2;
     mkUse FUNCUNIT_func_addsub_s40x2_1 2; mkUse FUNCUNIT_func_addsub_s40x2_0 2;
     mkUse FUNCUNIT_func_shift_s16rs8_0 1; mkUse FUNCUNIT_func_shift_s16rs8_1 1;
     mkUse FUNCUNIT_func_shift_s16rs8_2 1; mkUse FUNCUNIT_func_shift_s16rs8_3 1;
     mkUse FUNCUNIT_func_shift_s16rs8_4 1; mkUse FUNCUNIT_func_shift_s16rs8_5 1;
     mkUse FUNCUNIT_func_shift_s16rs8_6 1; mkUse FUNCUNIT_func_shift_s16rs8_7 1;
     mkUse FUNCUNIT_func_shift_s16rs8_8 1; mkUse FUNCUNIT_func_shift_s16rs8_9 1;
     mkUse FUNCUNIT_func_shift_s16rs8_10 1; mkUse FUNCUNIT_func_shift_s16rs8_11 1;
     mkUse FUNCUNIT_func_shift_s16rs8_12 1; mkUse FUNCUNIT_func_shift_s16rs8_13 1;
     mkUse FUNCUNIT_func_shift_s16rs8_14 1; mkUse FUNCUNIT_func_shift_s16rs8_15 1;
     mkUse FUNCUNIT_func_shift_s32rs16_0 2; mkUse FUNCUNIT_func_shift_s32rs16_1 2;
     mkUse FUNCUNIT_func_shift_s32rs16_2 2; mkUse FUNCUNIT_func_shift_s32rs16_3 2;
     mkUse FUNCUNIT_func_shift_s32rs16_4 1; mkUse FUNCUNIT_func_shift_s32rs16_5 1;
     mkUse FUNCUNIT_func_shift_s32rs16_6 1; mkUse FUNCUNIT_func_shift_s32rs16_7 1])].

Definition s3_uses_26 : list (string * list xtensa_funcUnit_use) := [
  ("Opcode_ee_vmul_s16_funcUnit_uses", [mkUse FUNCUNIT_func_addsub_s32x2_slot1_3 1;
     mkUse FUNCUNIT_func_addsub_s8x2_0 1; mkUse FUNCUNIT_func_addsub_s8x2_1 1;
     mkUse FUNCUNIT_func_addsub_s8x2_2 1; mkUse FUNCUNIT_func_addsub_s8x2_3 1;
     mkUse FUNCUNIT_func_addsub_s8x2_4 1; mkUse FUNCUNIT_func_addsub_s8x2_5 1;
     mkUse FUNCUNIT_func_addsub_s8x2_6 1; mkUse FUNCUNIT_func_addsub_s8x2_7 1;
     mkUse FUNCUNIT_func_addsub_s16x2_0 1; mkUse FUNCUNIT_func_addsub_s16x2_1 1;
     mkUse FUNCUNIT_func_addsub_s16x2_2 1; mkUse FUNCUNIT_func_addsub_s16x2_3 1;
     mkUse FUNCUNIT_func_addsub_s16x2_4 1; mkUse FUNCUNIT_func_addsub_s16x2_5 1;
     mkUse FUNCUNIT_func_addsub_s16x2_6 1; mkUse FUNCUNIT_func_addsub_s16x2_7 1;
     mkUse FUNCUNIT_func_addsub_s32x2_slot0_0 1; mkUse FUNCUNIT_func_addsub_s32x2_slot0_1 1;
     mkUse FUNCUNIT_func_addsub_s32x2_slot0_2 1; mkUse FUNCUNIT_func_addsub_s32x2_slot0_3 1;
     mkUse FUNCUNIT_func_mul_s8xs8_0 1; mkUse FUNCUNIT_func_mul_s8xs8_1 1;
     mkUse FUNCUNIT_func_mul_s8xs8_2 1; mkUse FUNCUNIT_func_mul_s8xs8_3 1;
     mkUse FUNCUNIT_func_mul_s8xs8_4 1; mkUse FUNCUNIT_func_mul_s8xs8_5 1;
     mkUse FUNCUNIT_func_mul_s8xs8_6 1; mkUse FUNCUNIT_func_mul_s8xs8_7 1;
     mkUse FUNCUNIT_func_mul_s16xs16_0 1; mkUse FUNCUNIT_func_mul_s16xs16_1 1;
     mkUse FUNCUNIT_func_mul_s16xs16_2 1; mkUse FUNCUNIT_func_mul_s16xs16_3 1;
     mkUse FUNCUNIT_func_mul_s16xs16_4 1; mkUse FUNCUNIT_func_mul_s16xs16_5 1;
     mkUse FUNCUNIT_func_mul_s16xs16_6 1; mkUse FUNCUNIT_func_mul_s16xs16_7 1;
     mkUse FUNCUNIT_func_addsub_s32x2_slot1_extra 2; mkUse FUNCUNIT_func_addsub_s32x2_slot1_2 2;
     mkUse FUNCUNIT_func_addsub_s32x2_slot1_1 2; mkUse FUNCUNIT_func_addsub_s32x2_slot1_0 2;
     mkUse FUNCUNIT_func_addsub_s20x2_slot_end_0 2; mkUse FUNCUNIT_func_addsub_s20x2_slot_end_1 2;
     mkUse FUNCUNIT_func_addsub_s20x2_slot_end_2 2; mkUse FUNCUNIT_func_addsub_s20x2_slot_end_3 2;
     mkUse FUNCUNIT_func_addsub_s40x2_7 2; mkUse FUNCUNIT_func_addsub_s40x2_6 2;
     mkUse FUNCUNIT_func_addsub_s40x2_5 2; mkUse FUNCUNIT_func_addsub_s40x2_4 2;
     mkUse FUNCUNIT_func_addsub_s40x2_3 2; mkUse FUNCUNIT_func_addsub_s40x2_2 2;
     mkUse FUNCUNIT_func_addsub_s40x2_1 2; mkUse FUNCUNIT_func_addsub_s40x2_0 2;
     mkUse FUNCUNIT_func_shift_s16rs8_0 1; mkUse FUNCUNIT_func_shift_s16rs8_1 1;
     mkUse FUNCUNIT_func_shift_s16rs8_2 1; mkUse FUNCUNIT_func_shift_s16rs8_3 1;
     mkUse FUNCUNIT_func_shift_s16rs8_4 1; mkUse FUNCUNIT_func_shift_s16rs8_5 1;
     mkUse FUNCUNIT_func_shift_s16rs8_6 1; mkUse FUNCUNIT_func_shift_s16rs8_7 1;
     mkUse FUNCUNIT_func_shift_s16rs8_8 1; mkUse FUNCUNIT_func_shift_s16rs8_9 1;
     mkUse FUNCUNIT_func_shift_s16rs8_10 1; mkUse FUNCUNIT_func_shift_s16rs8_11 1;
     mkUse FUNCUNIT_func_shift_s16rs8_12 1; mkUse FUNCUNIT_func_shift_s16rs8_13 1;
     mkUse FUNCUNIT_func_shift_s16rs8_14 1; mkUse FUNCUNIT_func_shift_s16rs8_15 1;
     mkUse FUNCUNIT_func_shift_s32rs16_0 2; mkUse FUNCUNIT_func_shift_s32rs16_1 2;
     mkUse FUNCUNIT_func_shift_s32rs16_2 2; mkUse FUNCUNIT_func_shift_s32rs16_3 2;
     mkUse FUNCUNIT_func_shift_s32rs16_4 1; mkUse FUNCUNIT_func_shift_s32rs16_5 1;
     mkUse FUNCUNIT_func_shift_s32rs16_6 1; mkUse FUNCUNIT_func_shift_s32rs16_7 1])].

Definition s3_uses_27 : list (string * list xtensa_funcUnit_use) := [
  ("Opcode_ee_vmul_s8_ld_incp_funcUnit_uses", [mkUse FUNCUNIT_func_addsub_s32x2_slot1_3 1;
     mkUse FUNCUNIT_func_addsub_s8x2_0 1; mkUse FUNCUNIT_func_addsub_s8x2_1 1;
     mkUse FUNCUNIT_func_addsub_s8x2_2 1; mkUse FUNCUNIT_func_addsub_s8x2_3 1;
     mkUse FUNCUNIT_func_addsub_s8x2_4 1; mkUse FUNCUNIT_func_addsub_s8x2_5 1;
     mkUse FUNCUNIT_func_addsub_s8x2_6 1; mkUse FUNCUNIT_func_addsub_s8x2_7 1;
     mkUse FUNCUNIT_func_addsub_s16x2_0 1; mkUse FUNCUNIT_func_addsub_s16x2_1 1;
     mkUse FUNCUNIT_func_addsub_s16x2_2 1; mkUse FUNCUNIT_func_addsub_s16x2_3 1;
     mkUse FUNCUNIT_func_addsub_s16x2_4 1; mkUse FUNCUNIT_func_addsub_s16x2_5 1;
     mkUse FUNCUNIT_func_addsub_s16x2_6 1; mkUse FUNCUNIT_func_addsub_s16x2_7 1;
     mkUse FUNCUNIT_func_addsub_s32x2_slot0_0 1; mkUse FUNCUNIT_func_addsub_s32x2_slot0_1 1;
     mkUse FUNCUNIT_func_addsub_s32x2_slot0_2 1; mkUse FUNCUNIT_func_addsub_s32x2_slot0_3 1;
     mkUse FUNCUNIT_func_mul_s8xs8_0 1; mkUse FUNCUNIT_func_mul_s8xs8_1 1;
     mkUse FUNCUNIT_func_mul_s8xs8_2 1; mkUse FUNCUNIT_func_mul_s8xs8_3 1;
     mkUse FUNCUNIT_func_mul_s8xs8_4 1; mkUse FUNCUNIT_func_mul_s8xs8_5 1;
     mkUse FUNCUNIT_func_mul_s8xs8_6 1; mkUse FUNCUNIT_func_mul_s8xs8_7 1;
     mkUse FUNCUNIT_func_mul_s16xs16_0 1; mkUse FUNCUNIT_func_mul_s16xs16_1 1;
     mkUse FUNCUNIT_func_mul_s16xs16_2 1; mkUse FUNCUNIT_func_mul_s16xs16_3 1;
     mkUse FUNCUNIT_func_mul_s16xs16_4 1; mkUse FUNCUNIT_func_mul_s16xs16_5 1;
     mkUse FUNCUNIT_func_mul_s16xs16_6 1; mkUse FUNCUNIT_func_mul_s16xs16_7 1;
     mkUse FUNCUNIT_func_addsub_s32x2_slot1_extra 2; mkUse FUNCUNIT_func_addsub_s32x2_slot1_2 2;
     mkUse FUNCUNIT_func_addsub_s32x2_slot1_1 2; mkUse FUNCUNIT_func_addsub_s32x2_slot1_0 2;
     mkUse FUNCUNIT_func_addsub_s20x2_slot_end_0 2; mkUse FUNCUNIT_func_addsub_s20x2_slot_end_1 2;
     mkUse FUNCUNIT_func_addsub_s20x2_slot_end_2 2; mkUse FUNCUNIT_func_addsub_s20x2_slot_end_3 2;
     mkUse FUNCUNIT_func_addsub_s40x2_7 2; mkUse FUNCUNIT_func_addsub_s40x2_6 2;
     mkUse FUNCUNIT_func_addsub_s40x2_5 2; mkUse FUNCUNIT_func_addsub_s40x2_4 2;
     mkUse FUNCUNIT_func_addsub_s40x2_3 2; mkUse FUNCUNIT_func_addsub_s40x2_2 2;
     mkUse FUNCUNIT_func_addsub_s40x2_1 2; mkUse FUNCUNIT_func_addsub_s40x2_0 2;
     mkUse FUNCUNIT_func_shift_s16rs8_0 1; mkUse FUNCUNIT_func_shift_s16rs8_1 1;
     mkUse FUNCUNIT_func_shift_s16rs8_2 1; mkUse FUNCUNIT_func_shift_s16rs8_3 1;
     mkUse FUNCUNIT_func_shift_s16rs8_4 1; mkUse FUNCUNIT_func_shift_s16rs8_5 1;
     mkUse FUNCUNIT_func_shift_s16rs8_6 1; mkUse FUNCUNIT_func_shift_s16rs8_7 1;
     mkUse FUNCUNIT_func_shift_s16rs8_8 1; mkUse FUNCUNIT_func_shift_s16rs8_9 1;
     mkUse FUNCUNIT_func_shift_s16rs8_10 1; mkUse FUNCUNIT_func_shift_s16rs8_11 1;
     mkUse FUNCUNIT_func_shift_s16rs8_12 1; mkUse FUNCUNIT_func_shift_s16rs8_13 1;
     mkUse FUNCUNIT_func_shift_s16rs8_14 1; mkUse FUNCUNIT_func_shift_s16rs8_15 1;
     mkUse FUNCUNIT_func_shift_s32rs16_0 2; mkUse FUNCUNIT_func_shift_s32rs16_1 2;
     mkUse FUNCUNIT_func_shift_s32rs16_2 2; mkUse FUNCUNIT_func_shift_s32rs16_3 2;
     mkUse FUNCUNIT_func_shift_s32rs16_4 1; mkUse FUNCUNIT_func_shift_s32rs16_5 1;
     mkUse FUNCUNIT_func_shift_s32rs16_6 1; mkUse FUNCUNIT_func_shift_s32rs16_7 1])].

Definition s3_uses_28 : list (string * list xtensa_funcUnit_use) := [
  ("Opcode_ee_vmul_s8_st_incp_funcUnit_uses", [mkUse FUNCUNIT_func_addsub_s32x2_slot1_3 1;
     mkUse FUNCUNIT_func_addsub_s8x2_0 1; mkUse FUNCUNIT_func_addsub_s8x2_1 1;
     mkUse FUNCUNIT_func_addsub_s8x2_2 1; mkUse FUNCUNIT_func_addsub_s8x2_3 1;
     mkUse FUNCUNIT_func_addsub_s8x2_4 1; mkUse FUNCUNIT_func_addsub_s8x2_5 1;
     mkUse FUNCUNIT_func_addsub_s8x2_6 1; mkUse FUNCUNIT_func_addsub_s8x2_7 1;
     mkUse FUNCUNIT_func_addsub_s16x2_0 1; mkUse FUNCUNIT_func_addsub_s16x2_1 1;
     mkUse FUNCUNIT_func_addsub_s16x2_2 1; mkUse FUNCUNIT_func_addsub_s16x2_3 1;
     mkUse FUNCUNIT_func_addsub_s16x2_4 1; mkUse FUNCUNIT_func_addsub_s16x2_5 1;
     mkUse FUNCUNIT_func_addsub_s16x2_6 1; mkUse FUNCUNIT_func_addsub_s16x2_7 1;
     mkUse FUNCUNIT_func_addsub_s32x2_slot0_0 1; mkUse FUNCUNIT_func_addsub_s32x2_slot0_1 1;
     mkUse FUNCUNIT_func_addsub_s32x2_slot0_2 1; mkUse FUNCUNIT_func_addsub_s32x2_slot0_3 1;
     mkUse FUNCUNIT_func_mul_s8xs8_0 1; mkUse FUNCUNIT_func_mul_s8xs8_1 1;
     mkUse FUNCUNIT_func_mul_s8xs8_2 1; mkUse FUNCUNIT_func_mul_s8xs8_3 1;
     mkUse FUNCUNIT_func_mul_s8xs8_4 1; mkUse FUNCUNIT_func_mul_s8xs8_5 1;
     mkUse FUNCUNIT_func_mul_s8xs8_6 1; mkUse FUNCUNIT_func_mul_s8xs8_7 1;
     mkUse FUNCUNIT_func_mul_s16xs16_0 1; mkUse FUNCUNIT_func_mul_s16xs16_1 1;
     mkUse FUNCUNIT_func_mul_s16xs16_2 1; mkUse FUNCUNIT_func_mul_s16xs16_3 1;
     mkUse FUNCUNIT_func_mul_s16xs16_4 1; mkUse FUNCUNIT_func_mul_s16xs16_5 1;
     mkUse FUNCUNIT_func_mul_s16xs16_6 1; mkUse FUNCUNIT_func_mul_s16xs16_7 1;
     mkUse FUNCUNIT_func_addsub_s32x2_slot1_extra 2; mkUse FUNCUNIT_func_addsub_s32x2_slot1_2 2;
     mkUse FUNCUNIT_func_addsub_s32x2_slot1_1 2; mkUse FUNCUNIT_func_addsub_s32x2_slot1_0 2;
     mkUse FUNCUNIT_func_addsub_s20x2_slot_end_0 2; mkUse FUNCUNIT_func_addsub_s20x2_slot_end_1 2;
     mkUse FUNCUNIT_func_addsub_s20x2_slot_end_2 2; mkUse FUNCUNIT_func_addsub_s20x2_slot_end_3 2;
     mkUse FUNCUNIT_func_addsub_s40x2_7 2; mkUse FUNCUNIT_func_addsub_s40x2_6 2;
     mkUse FUNCUNIT_func_addsub_s40x2_5 2; mkUse FUNCUNIT_func_addsub_s40x2_4 2;
     mkUse FUNCUNIT_func_addsub_s40x2_3 2; mkUse FUNCUNIT_func_addsub_s40x2_2 2;
     mkUse FUNCUNIT_func_addsub_s40x2_1 2; mkUse FUNCUNIT_func_addsub_s40x2_0 2;
     mkUse FUNCUNIT_func_shift_s16rs8_0 1; mkUse FUNCUNIT_func_shift_s16rs8_1 1;
     mkUse FUNCUNIT_func_shift_s16rs8_2 1; mkUse FUNCUNIT_func_shift_s16rs8_3 1;
     mkUse FUNCUNIT_func_shift_s16rs8_4 1; mkUse FUNCUNIT_func_shift_s16rs8_5 1;
     mkUse FUNCUNIT_func_shift_s16rs8_6 1; mkUse FUNCUNIT_func_shift_s16rs8_7 1;
     mkUse FUNCUNIT_func_shift_s16rs8_8 1; mkUse FUNCUNIT_func_shift_s16rs8_9 1;
     mkUse FUNCUNIT_func_shift_s16rs8_10 1; mkUse FUNCUNIT_func_shift_s16rs8_11 1;
     mkUse FUNCUNIT_func_shift_s16rs8_12 1; mkUse FUNCUNIT_func_shift_s16rs8_13 1;
     mkUse FUNCUNIT_func_shift_s16rs8_14 1; mkUse FUNCUNIT_func_shift_s16rs8_15 1;
     mkUse FUNCUNIT_func_shift_s32rs16_0 2; mkUse FUNCUNIT_func_shift_s32rs16_1 2;
     mkUse FUNCUNIT_func_shift_s32rs16_2 2; mkUse FUNCUNIT_func_shift_s32rs16_3 2;
     mkUse FUNCUNIT_func_shift_s32rs16_4 1; mkUse FUNCUNIT_func_shift_s32rs16_5 1;
     mkUse FUNCUNIT_func_shift_s32rs16_6 1; mkUse FUNCUNIT_func_shift_s32rs16_7 1])].

Definition s3_uses_29 : list (string * list xtensa_funcUnit_use) := [
  ("Opcode_ee_vmul_s8_funcUnit_uses", [mkUse FUNCUNIT_func_addsub_s32x2_slot1_3 1;
     mkUse FUNCUNIT_func_addsub_s8x2_0 1; mkUse FUNCUNIT_func_addsub_s8x2_1 1;
     mkUse FUNCUNIT_func_addsub_s8x2_2 1; mkUse FUNCUNIT_func_addsub_s8x2_3 1;
     mkUse FUNCUNIT_func_addsub_s8x2_4 1; mkUse FUNCUNIT_func_addsub_s8x2_5 1;
     mkUse FUNCUNIT_func_addsub_s8x2_6 1; mkUse FUNCUNIT_func_addsub_s8x2_7 1;
     mkUse FUNCUNIT_func_addsub_s16x2_0 1; mkUse FUNCUNIT_func_addsub_s16x2_1 1;
     mkUse FUNCUNIT_func_addsub_s16x2_2 1; mkUse FUNCUNIT_func_addsub_s16x2_3 1;
     mkUse FUNCUNIT_func_addsub_s16x2_4 1; mkUse FUNCUNIT_func_addsub_s16x2_5 1;
     mkUse FUNCUNIT_func_addsub_s16x2_6 1; mkUse FUNCUNIT_func_addsub_s16x2_7 1;
     mkUse FUNCUNIT_func_addsub_s32x2_slot0_0 1; mkUse FUNCUNIT_func_addsub_s32x2_slot0_1 1;
     mkUse FUNCUNIT_func_addsub_s32x2_slot0_2 1; mkUse FUNCUNIT_func_addsub_s32x2_slot0_3 1;
     mkUse FUNCUNIT_func_mul_s8xs8_0 1; mkUse FUNCUNIT_func_mul_s8xs8_1 1;
     mkUse FUNCUNIT_func_mul_s8xs8_2 1; mkUse FUNCUNIT_func_mul_s8xs8_3 1;
     mkUse FUNCUNIT_func_mul_s8xs8_4 1; mkUse FUNCUNIT_func_mul_s8xs8_5 1;
     mkUse FUNCUNIT_func_mul_s8xs8_6 1; mkUse FUNCUNIT_func_mul_s8xs8_7 1;
     mkUse FUNCUNIT_func_mul_s16xs16_0 1; mkUse FUNCUNIT_func_mul_s16xs16_1 1;
     mkUse FUNCUNIT_func_mul_s16xs16_2 1; mkUse FUNCUNIT_func_mul_s16xs16_3 1;
     mkUse FUNCUNIT_func_mul_s16xs16_4 1; mkUse FUNCUNIT_func_mul_s16xs16_5 1;
     mkUse FUNCUNIT_func_mul_s16xs16_6 1; mkUse FUNCUNIT_func_mul_s16xs16_7 1;
     mkUse FUNCUNIT_func_addsub_s32x2_slot1_extra 2; mkUse FUNCUNIT_func_addsub_s32x2_slot1_2 2;
     mkUse FUNCUNIT_func_addsub_s32x2_slot1_1 2; mkUse FUNCUNIT_func_addsub_s32x2_slot1_0 2;
     mkUse FUNCUNIT_func_addsub_s20x2_slot_end_0 2; mkUse FUNCUNIT_func_addsub_s20x2_slot_end_1 2;
     mkUse FUNCUNIT_func_addsub_s20x2_slot_end_2 2; mkUse FUNCUNIT_func_addsub_s20x2_slot_end_3 2;
     mkUse FUNCUNIT_func_addsub_s40x2_7 2; mkUse FUNCUNIT_func_addsub_s40x2_6 2;
     mkUse FUNCUNIT_func_addsub_s40x2_5 2; mkUse FUNCUNIT_func_addsub_s40x2_4 2;
     mkUse FUNCUNIT_func_addsub_s40x2_3 2; mkUse FUNCUNIT_func_addsub_s40x2_2 2;
     mkUse FUNCUNIT_func_addsub_s40x2_1 2; mkUse FUNCUNIT_func_addsub_s40x2_0 2;
     mkUse FUNCUNIT_func_shift_s16rs8_0 1; mkUse FUNCUNIT_func_shift_s16rs8_1 1;
     mkUse FUNCUNIT_func_shift_s16rs8_2 1; mkUse FUNCUNIT_func_shift_s16rs8_3 1;
     mkUse FUNCUNIT_func_shift_s16rs8_4 1; mkUse FUNCUNIT_func_shift_s16rs8_5 1;
     mkUse FUNCUNIT_func_shift_s16rs8_6 1; mkUse FUNCUNIT_func_shift_s16rs8_7 1;
     mkUse FUNCUNIT_func_shift_s16rs8_8 1; mkUse FUNCUNIT_func_shift_s16rs8_9 1;
     mkUse FUNCUNIT_func_shift_s16rs8_10 1; mkUse FUNCUNIT_func_shift_s16rs8_11 1;
     mkUse FUNCUNIT_func_shift_s16rs8_12 1; mkUse FUNCUNIT_func_shift_s16rs8_13 1;
     mkUse FUNCUNIT_func_shift_s16rs8_14 1; mkUse FUNCUNIT_func_shift_s16rs8_15 1;
     mkUse FUNCUNIT_func_shift_s32rs16_0 2; mkUse FUNCUNIT_func_shift_s32rs16_1 2;
     mkUse FUNCUNIT_func_shift_s32rs16_2 2; mkUse FUNCUNIT_func_shift_s32rs16_3 2;
     mkUse FUNCUNIT_func_shift_s32rs16_4 1; mkUse FUNCUNIT_func_shift_s32rs16_5 1;
     mkUse FUNCUNIT_func_shift_s32rs16_6 1; mkUse FUNCUNIT_func_shift_s32rs16_7 1])].

Definition s3_uses_30 : list (string * list xtensa_funcUnit_use) := [
  ("Opcode_ee_vmul_u16_ld_incp_funcUnit_uses", [mkUse FUNCUNIT_func_addsub_s32x2_slot1_3 1;
     mkUse FUNCUNIT_func_addsub_s8x2_0 1; mkUse FUNCUNIT_func_addsub_s8x2_1 1;
     mkUse FUNCUNIT_func_addsub_s8x2_2 1; mkUse FUNCUNIT_func_addsub_s8x2_3 1;
     mkUse FUNCUNIT_func_addsub_s8x2_4 1; mkUse FUNCUNIT_func_addsub_s8x2_5 1;
     mkUse FUNCUNIT_func_addsub_s8x2_6 1; mkUse FUNCUNIT_func_addsub_s8x2_7 1;
     mkUse FUNCUNIT_func_addsub_s16x2_0 1; mkUse FUNCUNIT_func_addsub_s16x2_1 1;
     mkUse FUNCUNIT_func_addsub_s16x2_2 1; mkUse FUNCUNIT_func_addsub_s16x2_3 1;
     mkUse FUNCUNIT_func_addsub_s16x2_4 1; mkUse FUNCUNIT_func_addsub_s16x2_5 1;
     mkUse FUNCUNIT_func_addsub_s16x2_6 1; mkUse FUNCUNIT_func_addsub_s16x2_7 1;
     mkUse FUNCUNIT_func_addsub_s32x2_slot0_0 1; mkUse FUNCUNIT_func_addsub_s32x2_slot0_1 1;
     mkUse FUNCUNIT_func_addsub_s32x2_slot0_2 1; mkUse FUNCUNIT_func_addsub_s32x2_slot0_3 1;
     mkUse FUNCUNIT_func_mul_s8xs8_0 1; mkUse FUNCUNIT_func_mul_s8xs8_1 1;
     mkUse FUNCUNIT_func_mul_s8xs8_2 1; mkUse FUNCUNIT_func_mul_s8xs8_3 1;
     mkUse FUNCUNIT_func_mul_s8xs8_4 1; mkUse FUNCUNIT_func_mul_s8xs8_5 1;
     mkUse FUNCUNIT_func_mul_s8xs8_6 1; mkUse FUNCUNIT_func_mul_s8xs8_7 1;
     mkUse FUNCUNIT_func_mul_s16xs16_0 1; mkUse FUNCUNIT_func_mul_s16xs16_1 1;
     mkUse FUNCUNIT_func_mul_s16xs16_2 1; mkUse FUNCUNIT_func_mul_s16xs16_3 1;
     mkUse FUNCUNIT_func_mul_s16xs16_4 1; mkUse FUNCUNIT_func_mul_s16xs16_5 1;
     mkUse FUNCUNIT_func_mul_s16xs16_6 1; mkUse FUNCUNIT_func_mul_s16xs16_7 1;
     mkUse FUNCUNIT_func_addsub_s32x2_slot1_extra 2; mkUse FUNCUNIT_func_addsub_s32x2_slot1_2 2;
     mkUse FUNCUNIT_func_addsub_s32x2_slot1_1 2; mkUse FUNCUNIT_func_addsub_s32x2_slot1_0 2;
     mkUse FUNCUNIT_func_addsub_s20x2_slot_end_0 2; mkUse FUNCUNIT_func_addsub_s20x2_slot_end_1 2;
     mkUse FUNCUNIT_func_addsub_s20x2_slot_end_2 2; mkUse FUNCUNIT_func_addsub_s20x2_slot_end_3 2;
     mkUse FUNCUNIT_func_addsub_s40x2_7 2; mkUse FUNCUNIT_func_addsub_s40x2_6 2;
     mkUse FUNCUNIT_func_addsub_s40x2_5 2; mkUse FUNCUNIT_func_addsub_s40x2_4 2;
     mkUse FUNCUNIT_func_addsub_s40x2_3 2; mkUse FUNCUNIT_func_addsub_s40x2_2 2;
     mkUse FUNCUNIT_func_addsub_s40x2_1 2; mkUse FUNCUNIT_func_addsub_s40x2_0 2;
     mkUse FUNCUNIT_func_shift_s16rs8_0 1; mkUse FUNCUNIT_func_shift_s16rs8_1 1;
     mkUse FUNCUNIT_func_shift_s16rs8_2 1; mkUse FUNCUNIT_func_shift_s16rs8_3 1;
     mkUse FUNCUNIT_func_shift_s16rs8_4 1; mkUse FUNCUNIT_func_shift_s16rs8_5 1;
     mkUse FUNCUNIT_func_shift_s16rs8_6 1; mkUse FUNCUNIT_func_shift_s16rs8_7 1;
     mkUse FUNCUNIT_func_shift_s16rs8_8 1; mkUse FUNCUNIT_func_shift_s16rs8_9 1;
     mkUse FUNCUNIT_func_shift_s16rs8_10 1; mkUse FUNCUNIT_func_shift_s16rs8_11 1;
     mkUse FUNCUNIT_func_shift_s16rs8_12 1; mkUse FUNCUNIT_func_shift_s16rs8_13 1;
     mkUse FUNCUNIT_func_shift_s16rs8_14 1; mkUse FUNCUNIT_func_shift_s16rs8_15 1;
     mkUse FUNCUNIT_func_shift_s32rs16_0 2; mkUse FUNCUNIT_func_shift_s32rs16_1 2;
     mkUse FUNCUNIT_func_shift_s32rs16_2 2; mkUse FUNCUNIT_func_shift_s32rs16_3 2;
     mkUse FUNCUNIT_func_shift_s32rs16_4 1; mkUse FUNCUNIT_func_shift_s32rs16_5 1;
     mkUse FUNCUNIT_func_shift_s32rs16_6 1; mkUse FUNCUNIT_func_shift_s32rs16_7 1])].

Definition s3_uses_31 : list (string * list xtensa_funcUnit_use) := [
  ("Opcode_ee_vmul_u16_st_incp_funcUnit_uses", [mkUse FUNCUNIT_func_addsub_s32x2_slot1_3 1;
     mkUse FUNCUNIT_func_addsub_s8x2_0 1; mkUse FUNCUNIT_func_addsub_s8x2_1 1;
     mkUse FUNCUNIT_func_addsub_s8x2_2 1; mkUse FUNCUNIT_func_addsub_s8x2_3 1;
     mkUse FUNCUNIT_func_addsub_s8x2_4 1; mkUse FUNCUNIT_func_addsub_s8x2_5 1;
     mkUse FUNCUNIT_func_addsub_s8x2_6 1; mkUse FUNCUNIT_func_addsub_s8x2_7 1;
     mkUse FUNCUNIT_func_addsub_s16x2_0 1; mkUse FUNCUNIT_func_addsub_s16x2_1 1;
     mkUse FUNCUNIT_func_addsub_s16x2_2 1; mkUse FUNCUNIT_func_addsub_s16x2_3 1;
     mkUse FUNCUNIT_func_addsub_s16x2_4 1; mkUse FUNCUNIT_func_addsub_s16x2_5 1;
     mkUse FUNCUNIT_func_addsub_s16x2_6 1; mkUse FUNCUNIT_func_addsub_s16x2_7 1;
     mkUse FUNCUNIT_func_addsub_s32x2_slot0_0 1; mkUse FUNCUNIT_func_addsub_s32x2_slot0_1 1;
     mkUse FUNCUNIT_func_addsub_s32x2_slot0_2 1; mkUse FUNCUNIT_func_addsub_s32x2_slot0_3 1;
     mkUse FUNCUNIT_func_mul_s8xs8_0 1; mkUse FUNCUNIT_func_mul_s8xs8_1 1;
     mkUse FUNCUNIT_func_mul_s8xs8_2 1; mkUse FUNCUNIT_func_mul_s8xs8_3 1;
     mkUse FUNCUNIT_func_mul_s8xs8_4 1; mkUse FUNCUNIT_func_mul_s8xs8_5 1;
     mkUse FUNCUNIT_func_mul_s8xs8_6 1; mkUse FUNCUNIT_func_mul_s8xs8_7 1;
     mkUse FUNCUNIT_func_mul_s16xs16_0 1; mkUse FUNCUNIT_func_mul_s16xs16_1 1;
     mkUse FUNCUNIT_func_mul_s16xs16_2 1; mkUse FUNCUNIT_func_mul_s16xs16_3 1;
     mkUse FUNCUNIT_func_mul_s16xs16_4 1; mkUse FUNCUNIT_func_mul_s16xs16_5 1;
     mkUse FUNCUNIT_func_mul_s16xs16_6 1; mkUse FUNCUNIT_func_mul_s16xs16_7 1;
     mkUse FUNCUNIT_func_addsub_s32x2_slot1_extra 2; mkUse FUNCUNIT_func_addsub_s32x2_slot1_2 2;
     mkUse FUNCUNIT_func_addsub_s32x2_slot1_1 2; mkUse FUNCUNIT_func_addsub_s32x2_slot1_0 2;
     mkUse FUNCUNIT_func_addsub_s20x2_slot_end_0 2; mkUse FUNCUNIT_func_addsub_s20x2_slot_end_1 2;
     mkUse FUNCUNIT_func_addsub_s20x2_slot_end_2 2; mkUse FUNCUNIT_func_addsub_s20x2_slot_end_3 2;
     mkUse FUNCUNIT_func_addsub_s40x2_7 2; mkUse FUNCUNIT_func_addsub_s40x2_6 2;
     mkUse FUNCUNIT_func_addsub_s40x2_5 2; mkUse FUNCUNIT_func_addsub_s40x2_4 2;
     mkUse FUNCUNIT_func_addsub_s40x2_3 2; mkUse FUNCUNIT_func_addsub_s40x2_2 2;
     mkUse FUNCUNIT_func_addsub_s40x2_1 2; mkUse FUNCUNIT_func_addsub_s40x2_0 2;
     mkUse FUNCUNIT_func_shift_s16rs8_0 1; mkUse FUNCUNIT_func_shift_s16rs8_1 1;
     mkUse FUNCUNIT_func_shift_s16rs8_2 1; mkUse FUNCUNIT_func_shift_s16rs8_3 1;
     mkUse FUNCUNIT_func_shift_s16rs8_4 1; mkUse FUNCUNIT_func_shift_s16rs8_5 1;
     mkUse FUNCUNIT_func_shift_s16rs8_6 1; mkUse FUNCUNIT_func_shift_s16rs8_7 1;
     mkUse FUNCUNIT_func_shift_s16rs8_8 1; mkUse FUNCUNIT_func_shift_s16rs8_9 1;
     mkUse FUNCUNIT_func_shift_s16rs8_10 1; mkUse FUNCUNIT_func_shift_s16rs8_11 1;
     mkUse FUNCUNIT_func_shift_s16rs8_12 1; mkUse FUNCUNIT_func_shift_s16rs8_13 1;
     mkUse FUNCUNIT_func_shift_s16rs8_14 1; mkUse FUNCUNIT_func_shift_s16rs8_15 1;
     mkUse FUNCUNIT_func_shift_s32rs16_0 2; mkUse FUNCUNIT_func_shift_s32rs16_1 2;
     mkUse FUNCUNIT_func_shift_s32rs16_2 2; mkUse FUNCUNIT_func_shift_s32rs16_3 2;
     mkUse FUNCUNIT_func_shift_s32rs16_4 1; mkUse FUNCUNIT_func_shift_s32rs16_5 1;
     mkUse FUNCUNIT_func_shift_s32rs16_6 1; mkUse FUNCUNIT_func_shift_s32rs16_7 1])].

Definition s3_uses_32 : list (string * list xtensa_funcUnit_use) := [
  ("Opcode_ee_vmul_u16_funcUnit_uses", [mkUse FUNCUNIT_func_addsub_s32x2_slot1_3 1;
     mkUse FUNCUNIT_func_addsub_s8x2_0 1; mkUse FUNCUNIT_func_addsub_s8x2_1 1;
     mkUse FUNCUNIT_func_addsub_s8x2_2 1; mkUse FUNCUNIT_func_addsub_s8x2_3 1;
     mkUse FUNCUNIT_func_addsub_s8x2_4 1; mkUse FUNCUNIT_func_addsub_s8x2_5 1;
     mkUse FUNCUNIT_func_addsub_s8x2_6 1; mkUse FUNCUNIT_func_addsub_s8x2_7 1;
     mkUse FUNCUNIT_func_addsub_s16x2_0 1; mkUse FUNCUNIT_func_addsub_s16x2_1 1;
     mkUse FUNCUNIT_func_addsub_s16x2_2 1; mkUse FUNCUNIT_func_addsub_s16x2_3 1;
     mkUse FUNCUNIT_func_addsub_s16x2_4 1; mkUse FUNCUNIT_func_addsub_s16x2_5 1;
     mkUse FUNCUNIT_func_addsub_s16x2_6 1; mkUse FUNCUNIT_func_addsub_s16x2_7 1;
     mkUse FUNCUNIT_func_addsub_s32x2_slot0_0 1; mkUse FUNCUNIT_func_addsub_s32x2_slot0_1 1;
     mkUse FUNCUNIT_func_addsub_s32x2_slot0_2 1; mkUse FUNCUNIT_func_addsub_s32x2_slot0_3 1;
     mkUse FUNCUNIT_func_mul_s8xs8_0 1; mkUse FUNCUNIT_func_mul_s8xs8_1 1;
     mkUse FUNCUNIT_func_mul_s8xs8_2 1; mkUse FUNCUNIT_func_mul_s8xs8_3 1;
     mkUse FUNCUNIT_func_mul_s8xs8_4 1; mkUse FUNCUNIT_func_mul_s8xs8_5 1;
     mkUse FUNCUNIT_func_mul_s8xs8_6 1; mkUse FUNCUNIT_func_mul_s8xs8_7 1;
     mkUse FUNCUNIT_func_mul_s16xs16_0 1; mkUse FUNCUNIT_func_mul_s16xs16_1 1;
     mkUse FUNCUNIT_func_mul_s16xs16_2 1; mkUse FUNCUNIT_func_mul_s16xs16_3 1;
     mkUse FUNCUNIT_func_mul_s16xs16_4 1; mkUse FUNCUNIT_func_mul_s16xs16_5 1;
     mkUse FUNCUNIT_func_mul_s16xs16_6 1; mkUse FUNCUNIT_func_mul_s16xs16_7 1;
     mkUse FUNCUNIT_func_addsub_s32x2_slot1_extra 2; mkUse FUNCUNIT_func_addsub_s32x2_slot1_2 2;
     mkUse FUNCUNIT_func_addsub_s32x2_slot1_1 2; mkUse FUNCUNIT_func_addsub_s32x2_slot1_0 2;
     mkUse FUNCUNIT_func_addsub_s20x2_slot_end_0 2; mkUse FUNCUNIT_func_addsub_s20x2_slot_end_1 2;
     mkUse FUNCUNIT_func_addsub_s20x2_slot_end_2 2; mkUse FUNCUNIT_func_addsub_s20x2_slot_end_3 2;
     mkUse FUNCUNIT_func_addsub_s40x2_7 2; mkUse FUNCUNIT_func_addsub_s40x2_6 2;
     mkUse FUNCUNIT_func_addsub_s40x2_5 2; mkUse FUNCUNIT_func_addsub_s40x2_4 2;
     mkUse FUNCUNIT_func_addsub_s40x2_3 2; mkUse FUNCUNIT_func_addsub_s40x2_2 2;
     mkUse FUNCUNIT_func_addsub_s40x2_1 2; mkUse FUNCUNIT_func_addsub_s40x2_0 2;
     mkUse FUNCUNIT_func_shift_s16rs8_0 1; mkUse FUNCUNIT_func_shift_s16rs8_1 1;
     mkUse FUNCUNIT_func_shift_s16rs8_2 1; mkUse FUNCUNIT_func_shift_s16rs8_3 1;
     mkUse FUNCUNIT_func_shift_s16rs8_4 1; mkUse FUNCUNIT_func_shift_s16rs8_5 1;
     mkUse FUNCUNIT_func_shift_s16rs8_6 1; mkUse FUNCUNIT_func_shift_s16rs8_7 1;
     mkUse FUNCUNIT_func_shift_s16rs8_8 1; mkUse FUNCUNIT_func_shift_s16rs8_9 1;
     mkUse FUNCUNIT_func_shift_s16rs8_10 1; mkUse FUNCUNIT_func_shift_s16rs8_11 1;
     mkUse FUNCUNIT_func_shift_s16rs8_12 1; mkUse FUNCUNIT_func_shift_s16rs8_13 1;
     mkUse FUNCUNIT_func_shift_s16rs8_14 1; mkUse FUNCUNIT_func_shift_s16rs8_15 1;
     mkUse FUNCUNIT_func_shift_s32rs16_0 2; mkUse FUNCUNIT_func_shift_s32rs16_1 2;
     mkUse FUNCUNIT_func_shift_s32rs16_2 2; mkUse FUNCUNIT_func_shift_s32rs16_3 2;
     mkUse FUNCUNIT_func_shift_s32rs16_4 1; mkUse FUNCUNIT_func_shift_s32rs16_5 1;
     mkUse FUNCUNIT_func_shift_s32rs16_6 1; mkUse FUNCUNIT_func_shift_s32rs16_7 1])].

Definition s3_uses_33 : list (string * list xtensa_funcUnit_use) := [
  ("Opcode_ee_vmul_u8_ld_incp_funcUnit_uses", [mkUse FUNCUNIT_func_addsub_s32x2_slot1_3 1;
     mkUse FUNCUNIT_func_addsub_s8x2_0 1; mkUse FUNCUNIT_func_addsub_s8x2_1 1;
     mkUse FUNCUNIT_func_addsub_s8x2_2 1; mkUse FUNCUNIT_func_addsub_s8x2_3 1;
     mkUse FUNCUNIT_func_addsub_s8x2_4 1; mkUse FUNCUNIT_func_addsub_s8x2_5 1;
     mkUse FUNCUNIT_func_addsub_s8x2_6 1; mkUse FUNCUNIT_func_addsub_s8x2_7 1;
     mkUse FUNCUNIT_func_addsub_s16x2_0 1; mkUse FUNCUNIT_func_addsub_s16x2_1 1;
     mkUse FUNCUNIT_func_addsub_s16x2_2 1; mkUse FUNCUNIT_func_addsub_s16x2_3 1;
     mkUse FUNCUNIT_func_addsub_s16x2_4 1; mkUse FUNCUNIT_func_addsub_s16x2_5 1;
     mkUse FUNCUNIT_func_addsub_s16x2_6 1; mkUse FUNCUNIT_func_addsub_s16x2_7 1;
     mkUse FUNCUNIT_func_addsub_s32x2_slot0_0 1; mkUse FUNCUNIT_func_addsub_s32x2_slot0_1 1;
     mkUse FUNCUNIT_func_addsub_s32x2_slot0_2 1; mkUse FUNCUNIT_func_addsub_s32x2_slot0_3 1;
     mkUse FUNCUNIT_func_mul_s8xs8_0 1; mkUse FUNCUNIT_func_mul_s8xs8_1 1;
     mkUse FUNCUNIT_func_mul_s8xs8_2 1; mkUse FUNCUNIT_func_mul_s8xs8_3 1;
     mkUse FUNCUNIT_func_mul_s8xs8_4 1; mkUse FUNCUNIT_func_mul_s8xs8_5 1;
     mkUse FUNCUNIT_func_mul_s8xs8_6 1; mkUse FUNCUNIT_func_mul_s8xs8_7 1;
     mkUse FUNCUNIT_func_mul_s16xs16_0 1; mkUse FUNCUNIT_func_mul_s16xs16_1 1;
     mkUse FUNCUNIT_func_mul_s16xs16_2 1; mkUse FUNCUNIT_func_mul_s16xs16_3 1;
     mkUse FUNCUNIT_func_mul_s16xs16_4 1; mkUse FUNCUNIT_func_mul_s16xs16_5 1;
     mkUse FUNCUNIT_func_mul_s16xs16_6 1; mkUse FUNCUNIT_func_mul_s16xs16_7 1;
     mkUse FUNCUNIT_func_addsub_s32x2_slot1_extra 2; mkUse FUNCUNIT_func_addsub_s32x2_slot1_2 2;
     mkUse FUNCUNIT_func_addsub_s32x2_slot1_1 2; mkUse FUNCUNIT_func_addsub_s32x2_slot1_0 2;
     mkUse FUNCUNIT_func_addsub_s20x2_slot_end_0 2; mkUse FUNCUNIT_func_addsub_s20x2_slot_end_1 2;
     mkUse FUNCUNIT_func_addsub_s20x2_slot_end_2 2; mkUse FUNCUNIT_func_addsub_s20x2_slot_end_3 2;
     mkUse FUNCUNIT_func_addsub_s40x2_7 2; mkUse FUNCUNIT_func_addsub_s40x2_6 2;
     mkUse FUNCUNIT_func_addsub_s40x2_5 2; mkUse FUNCUNIT_func_addsub_s40x2_4 2;
     mkUse FUNCUNIT_func_addsub_s40x2_3 2; mkUse FUNCUNIT_func_addsub_s40x2_2 2;
     mkUse FUNCUNIT_func_addsub_s40x2_1 2; mkUse FUNCUNIT_func_addsub_s40x2_0 2;
     mkUse FUNCUNIT_func_shift_s16rs8_0 1; mkUse FUNCUNIT_func_shift_s16rs8_1 1;
     mkUse FUNCUNIT_func_shift_s16rs8_2 1; mkUse FUNCUNIT_func_shift_s16rs8_3 1;
     mkUse FUNCUNIT_func_shift_s16rs8_4 1; mkUse FUNCUNIT_func_shift_s16rs8_5 1;
     mkUse FUNCUNIT_func_shift_s16rs8_6 1; mkUse FUNCUNIT_func_shift_s16rs8_7 1;
     mkUse FUNCUNIT_func_shift_s16rs8_8 1; mkUse FUNCUNIT_func_shift_s16rs8_9 1;
     mkUse FUNCUNIT_func_shift_s16rs8_10 1; mkUse FUNCUNIT_func_shift_s16rs8_11 1;
     mkUse FUNCUNIT_func_shift_s16rs8_12 1; mkUse FUNCUNIT_func_shift_s16rs8_13 1;
     mkUse FUNCUNIT_func_shift_s16rs8_14 1; mkUse FUNCUNIT_func_shift_s16rs8_15 1;
     mkUse FUNCUNIT_func_shift_s32rs16_0 2; mkUse FUNCUNIT_func_shift_s32rs16_1 2;
     mkUse FUNCUNIT_func_shift_s32rs16_2 2; mkUse FUNCUNIT_func_shift_s32rs16_3 2;
     mkUse FUNCUNIT_func_shift_s32rs16_4 1; mkUse FUNCUNIT_func_shift_s32rs16_5 1;
     mkUse FUNCUNIT_func_shift_s32rs16_6 1; mkUse FUNCUNIT_func_shift_s32rs16_7 1])].

Definition s3_uses_34 : list (string * list xtensa_funcUnit_use) := [
  ("Opcode_ee_vmul_u8_st_incp_funcUnit_uses", [mkUse FUNCUNIT_func_addsub_s32x2_slot1_3 1;
     mkUse FUNCUNIT_func_addsub_s8x2_0 1; mkUse FUNCUNIT_func_addsub_s8x2_1 1;
     mkUse FUNCUNIT_func_addsub_s8x2_2 1; mkUse FUNCUNIT_func_addsub_s8x2_3 1;
     mkUse FUNCUNIT_func_addsub_s8x2_4 1; mkUse FUNCUNIT_func_addsub_s8x2_5 1;
     mkUse FUNCUNIT_func_addsub_s8x2_6 1; mkUse FUNCUNIT_func_addsub_s8x2_7 1;
     mkUse FUNCUNIT_func_addsub_s16x2_0 1; mkUse FUNCUNIT_func_addsub_s16x2_1 1;
     mkUse FUNCUNIT_func_addsub_s16x2_2 1; mkUse FUNCUNIT_func_addsub_s16x2_3 1;
     mkUse FUNCUNIT_func_addsub_s16x2_4 1; mkUse FUNCUNIT_func_addsub_s16x2_5 1;
     mkUse FUNCUNIT_func_addsub_s16x2_6 1; mkUse FUNCUNIT_func_addsub_s16x2_7 1;
     mkUse FUNCUNIT_func_addsub_s32x2_slot0_0 1; mkUse FUNCUNIT_func_addsub_s32x2_slot0_1 1;
     mkUse FUNCUNIT_func_addsub_s32x2_slot0_2 1; mkUse FUNCUNIT_func_addsub_s32x2_slot0_3 1;
     mkUse FUNCUNIT_func_mul_s8xs8_0 1; mkUse FUNCUNIT_func_mul_s8xs8_1 1;
     mkUse FUNCUNIT_func_mul_s8xs8_2 1; mkUse FUNCUNIT_func_mul_s8xs8_3 1;
     mkUse FUNCUNIT_func_mul_s8xs8_4 1; mkUse FUNCUNIT_func_mul_s8xs8_5 1;
     mkUse FUNCUNIT_func_mul_s8xs8_6 1; mkUse FUNCUNIT_func_mul_s8xs8_7 1;
     mkUse FUNCUNIT_func_mul_s16xs16_0 1; mkUse FUNCUNIT_func_mul_s16xs16_1 1;
     mkUse FUNCUNIT_func_mul_s16xs16_2 1; mkUse FUNCUNIT_func_mul_s16xs16_3 1;
     mkUse FUNCUNIT_func_mul_s16xs16_4 1; mkUse FUNCUNIT_func_mul_s16xs16_5 1;
     mkUse FUNCUNIT_func_mul_s16xs16_6 1; mkUse FUNCUNIT_func_mul_s16xs16_7 1;
     mkUse FUNCUNIT_func_addsub_s32x2_slot1_extra 2; mkUse FUNCUNIT_func_addsub_s32x2_slot1_2 2;
     mkUse FUNCUNIT_func_addsub_s32x2_slot1_1 2; mkUse FUNCUNIT_func_addsub_s32x2_slot1_0 2;
     mkUse FUNCUNIT_func_addsub_s20x2_slot_end_0 2; mkUse FUNCUNIT_func_addsub_s20x2_slot_end_1 2;
     mkUse FUNCUNIT_func_addsub_s20x2_slot_end_2 2; mkUse FUNCUNIT_func_addsub_s20x2_slot_end_3 2;
     mkUse FUNCUNIT_func_addsub_s40x2_7 2; mkUse FUNCUNIT_func_addsub_s40x2_6 2;
     mkUse FUNCUNIT_func_addsub_s40x2_5 2; mkUse FUNCUNIT_func_addsub_s40x2_4 2;
     mkUse FUNCUNIT_func_addsub_s40x2_3 2; mkUse FUNCUNIT_func_addsub_s40x2_2 2;
     mkUse FUNCUNIT_func_addsub_s40x2_1 2; mkUse FUNCUNIT_func_addsub_s40x2_0 2;
     mkUse FUNCUNIT_func_shift_s16rs8_0 1; mkUse FUNCUNIT_func_shift_s16rs8_1 1;
     mkUse FUNCUNIT_func_shift_s16rs8_2 1; mkUse FUNCUNIT_func_shift_s16rs8_3 1;
     mkUse FUNCUNIT_func_shift_s16rs8_4 1; mkUse FUNCUNIT_func_shift_s16rs8_5 1;
     mkUse FUNCUNIT_func_shift_s16rs8_6 1; mkUse FUNCUNIT_func_shift_s16rs8_7 1;
     mkUse FUNCUNIT_func_shift_s16rs8_8 1; mkUse FUNCUNIT_func_shift_s16rs8_9 1;
     mkUse FUNCUNIT_func_shift_s16rs8_10 1; mkUse FUNCUNIT_func_shift_s16rs8_11 1;
     mkUse FUNCUNIT_func_shift_s16rs8_12 1; mkUse FUNCUNIT_func_shift_s16rs8_13 1;
     mkUse FUNCUNIT_func_shift_s16rs8_14 1; mkUse FUNCUNIT_func_shift_s16rs8_15 1;
     mkUse FUNCUNIT_func_shift_s32rs16_0 2; mkUse FUNCUNIT_func_shift_s32rs16_1 2;
     mkUse FUNCUNIT_func_shift_s32rs16_2 2; mkUse FUNCUNIT_func_shift_s32rs16_3 2;
     mkUse FUNCUNIT_func_shift_s32rs16_4 1; mkUse FUNCUNIT_func_shift_s32rs16_5 1;
     mkUse FUNCUNIT_func_shift_s32rs16_6 1; mkUse FUNCUNIT_func_shift_s32rs16_7 1])].

Definition s3_uses_35 : list (string * list xtensa_funcUnit_use) := [
  ("Opcode_ee_vmul_u8_funcUnit_uses", [mkUse FUNCUNIT_func_addsub_s32x2_slot1_3 1;
     mkUse FUNCUNIT_func_addsub_s8x2_0 1; mkUse FUNCUNIT_func_addsub_s8x2_1 1;
     mkUse FUNCUNIT_func_addsub_s8x2_2 1; mkUse FUNCUNIT_func_addsub_s8x2_3 1;
     mkUse FUNCUNIT_func_addsub_s8x2_4 1; mkUse FUNCUNIT_func_addsub_s8x2_5 1;
     mkUse FUNCUNIT_func_addsub_s8x2_6 1; mkUse FUNCUNIT_func_addsub_s8x2_7 1;
     mkUse FUNCUNIT_func_addsub_s16x2_0 1; mkUse FUNCUNIT_func_addsub_s16x2_1 1;
     mkUse FUNCUNIT_func_addsub_s16x2_2 1; mkUse FUNCUNIT_func_addsub_s16x2_3 1;
     mkUse FUNCUNIT_func_addsub_s16x2_4 1; mkUse FUNCUNIT_func_addsub_s16x2_5 1;
     mkUse FUNCUNIT_func_addsub_s16x2_6 1; mkUse FUNCUNIT_func_addsub_s16x2_7 1;
     mkUse FUNCUNIT_func_addsub_s32x2_slot0_0 1; mkUse FUNCUNIT_func_addsub_s32x2_slot0_1 1;
     mkUse FUNCUNIT_func_addsub_s32x2_slot0_2 1; mkUse FUNCUNIT_func_addsub_s32x2_slot0_3 1;
     mkUse FUNCUNIT_func_mul_s8xs8_0 1; mkUse FUNCUNIT_func_mul_s8xs8_1 1;
     mkUse FUNCUNIT_func_mul_s8xs8_2 1; mkUse FUNCUNIT_func_mul_s8xs8_3 1;
     mkUse FUNCUNIT_func_mul_s8xs8_4 1; mkUse FUNCUNIT_func_mul_s8xs8_5 1;
     mkUse FUNCUNIT_func_mul_s8xs8_6 1; mkUse FUNCUNIT_func_mul_s8xs8_7 1;
     mkUse FUNCUNIT_func_mul_s16xs16_0 1; mkUse FUNCUNIT_func_mul_s16xs16_1 1;
     mkUse FUNCUNIT_func_mul_s16xs16_2 1; mkUse FUNCUNIT_func_mul_s16xs16_3 1;
     mkUse FUNCUNIT_func_mul_s16xs16_4 1; mkUse FUNCUNIT_func_mul_s16xs16_5 1;
     mkUse FUNCUNIT_func_mul_s16xs16_6 1; mkUse FUNCUNIT_func_mul_s16xs16_7 1;
     mkUse FUNCUNIT_func_addsub_s32x2_slot1_extra 2; mkUse FUNCUNIT_func_addsub_s32x2_slot1_2 2;
     mkUse FUNCUNIT_func_addsub_s32x2_slot1_1 2; mkUse FUNCUNIT_func_addsub_s32x2_slot1_0 2;
     mkUse FUNCUNIT_func_addsub_s20x2_slot_end_0 2; mkUse FUNCUNIT_func_addsub_s20x2_slot_end_1 2;
     mkUse FUNCUNIT_func_addsub_s20x2_slot_end_2 2; mkUse FUNCUNIT_func_addsub_s20x2_slot_end_3 2;
     mkUse FUNCUNIT_func_addsub_s40x2_7 2; mkUse FUNCUNIT_func_addsub_s40x2_6 2;
     mkUse FUNCUNIT_func_addsub_s40x2_5 2; mkUse FUNCUNIT_func_addsub_s40x2_4 2;
     mkUse FUNCUNIT_func_addsub_s40x2_3 2; mkUse FUNCUNIT_func_addsub_s40x2_2 2;
     mkUse FUNCUNIT_func_addsub_s40x2_1 2; mkUse FUNCUNIT_func_addsub_s40x2_0 2;
     mkUse FUNCUNIT_func_shift_s16rs8_0 1; mkUse FUNCUNIT_func_shift_s16rs8_1 1;
     mkUse FUNCUNIT_func_shift_s16rs8_2 1; mkUse FUNCUNIT_func_shift_s16rs8_3 1;
     mkUse FUNCUNIT_func_shift_s16rs8_4 1; mkUse FUNCUNIT_func_shift_s16rs8_5 1;
     mkUse FUNCUNIT_func_shift_s16rs8_6 1; mkUse FUNCUNIT_func_shift_s16rs8_7 1;
     mkUse FUNCUNIT_func_shift_s16rs8_8 1; mkUse FUNCUNIT_func_shift_s16rs8_9 1;
     mkUse FUNCUNIT_func_shift_s16rs8_10 1; mkUse FUNCUNIT_func_shift_s16rs8_11 1;
     mkUse FUNCUNIT_func_shift_s16rs8_12 1; mkUse FUNCUNIT_func_shift_s16rs8_13 1;
     mkUse FUNCUNIT_func_shift_s16rs8_14 1; mkUse FUNCUNIT_func_shift_s16rs8_15 1;
     mkUse FUNCUNIT_func_shift_s32rs16_0 2; mkUse FUNCUNIT_func_shift_s32rs16_1 2;
     mkUse FUNCUNIT_func_shift_s32rs16_2 2; mkUse FUNCUNIT_func_shift_s32rs16_3 2;
     mkUse FUNCUNIT_func_shift_s32rs16_4 1; mkUse FUNCUNIT_func_shift_s32rs16_5 1;
     mkUse FUNCUNIT_func_shift_s32rs16_6 1; mkUse FUNCUNIT_func_shift_s32rs16_7 1])].

Definition s3_uses_36 : list (string * list xtensa_funcUnit_use) := [
  ("Opcode_ee_cmul_s16_ld_incp_funcUnit_uses", [mkUse FUNCUNIT_func_addsub_s32x2_slot1_3 1;
     mkUse FUNCUNIT_func_addsub_s8x2_0 1; mkUse FUNCUNIT_func_addsub_s8x2_1 1;
     mkUse FUNCUNIT_func_addsub_s8x2_2 1; mkUse FUNCUNIT_func_addsub_s8x2_3 1;
     mkUse FUNCUNIT_func_addsub_s8x2_4 1; mkUse FUNCUNIT_func_addsub_s8x2_5 1;
     mkUse FUNCUNIT_func_addsub_s8x2_6 1; mkUse FUNCUNIT_func_addsub_s8x2_7 1;
     mkUse FUNCUNIT_func_addsub_s16x2_0 1; mkUse FUNCUNIT_func_addsub_s16x2_1 1;
     mkUse FUNCUNIT_func_addsub_s16x2_2 1; mkUse FUNCUNIT_func_addsub_s16x2_3 1;
     mkUse FUNCUNIT_func_addsub_s16x2_4 1; mkUse FUNCUNIT_func_addsub_s16x2_5 1;
     mkUse FUNCUNIT_func_addsub_s16x2_6 1; mkUse FUNCUNIT_func_addsub_s16x2_7 1;
     mkUse FUNCUNIT_func_addsub_s32x2_slot0_0 1; mkUse FUNCUNIT_func_addsub_s32x2_slot0_1 1;
     mkUse FUNCUNIT_func_addsub_s32x2_slot0_2 1; mkUse FUNCUNIT_func_addsub_s32x2_slot0_3 1;
     mkUse FUNCUNIT_func_mul_s8xs8_0 1; mkUse FUNCUNIT_func_mul_s8xs8_1 1;
     mkUse FUNCUNIT_func_mul_s8xs8_2 1; mkUse FUNCUNIT_func_mul_s8xs8_3 1;
     mkUse FUNCUNIT_func_mul_s8xs8_4 1; mkUse FUNCUNIT_func_mul_s8xs8_5 1;
     mkUse FUNCUNIT_func_mul_s8xs8_6 1; mkUse FUNCUNIT_func_mul_s8xs8_7 1;
     mkUse FUNCUNIT_func_mul_s16xs16_0 1; mkUse FUNCUNIT_func_mul_s16xs16_1 1;
     mkUse FUNCUNIT_func_mul_s16xs16_2 1; mkUse FUNCUNIT_func_mul_s16xs16_3 1;
     mkUse FUNCUNIT_func_mul_s16xs16_4 1; mkUse FUNCUNIT_func_mul_s16xs16_5 1;
     mkUse FUNCUNIT_func_mul_s16xs16_6 1; mkUse FUNCUNIT_func_mul_s16xs16_7 1;
     mkUse FUNCUNIT_func_addsub_s32x2_slot1_extra 2; mkUse FUNCUNIT_func_addsub_s32x2_slot1_2 2;
     mkUse FUNCUNIT_func_addsub_s32x2_slot1_1 2; mkUse FUNCUNIT_func_addsub_s32x2_slot1_0 2;
     mkUse FUNCUNIT_func_addsub_s20x2_slot_end_0 2; mkUse FUNCUNIT_func_addsub_s20x2_slot_end_1 2;
     mkUse FUNCUNIT_func_addsub_s20x2_slot_end_2 2; mkUse FUNCUNIT_func_addsub_s20x2_slot_end_3 2;
     mkUse FUNCUNIT_func_addsub_s40x2_7 2; mkUse FUNCUNIT_func_addsub_s40x2_6 2;
     mkUse FUNCUNIT_func_addsub_s40x2_5 2; mkUse FUNCUNIT_func_addsub_s40x2_4 2;
     mkUse FUNCUNIT_func_addsub_s40x2_3 2; mkUse FUNCUNIT_func_addsub_s40x2_2 2;
     mkUse FUNCUNIT_func_addsub_s40x2_1 2; mkUse FUNCUNIT_func_addsub_s40x2_0 2;
     mkUse FUNCUNIT_func_shift_s16rs8_0 1; mkUse FUNCUNIT_func_shift_s16rs8_1 1;
     mkUse FUNCUNIT_func_shift_s16rs8_2 1; mkUse FUNCUNIT_func_shift_s16rs8_3 1;
     mkUse FUNCUNIT_func_shift_s16rs8_4 1; mkUse FUNCUNIT_func_shift_s16rs8_5 1;
     mkUse FUNCUNIT_func_shift_s16rs8_6 1; mkUse FUNCUNIT_func_shift_s16rs8_7 1;
     mkUse FUNCUNIT_func_shift_s16rs8_8 1; mkUse FUNCUNIT_func_shift_s16rs8_9 1;
     mkUse FUNCUNIT_func_shift_s16rs8_10 1; mkUse FUNCUNIT_func_shift_s16rs8_11 1;
     mkUse FUNCUNIT_func_shift_s16rs8_12 1; mkUse FUNCUNIT_func_shift_s16rs8_13 1;
     mkUse FUNCUNIT_func_shift_s16rs8_14 1; mkUse FUNCUNIT_func_shift_s16rs8_15 1;
     mkUse FUNCUNIT_func_shift_s32rs16_0 2; mkUse FUNCUNIT_func_shift_s32rs16_1 2;
     mkUse FUNCUNIT_func_shift_s32rs16_2 2; mkUse FUNCUNIT_func_shift_s32rs16_3 2;
     mkUse FUNCUNIT_func_shift_s32rs16_4 1; mkUse FUNCUNIT_func_shift_s32rs16_5 1;
     mkUse FUNCUNIT_func_shift_s32rs16_6 1; mkUse FUNCUNIT_func_shift_s32rs16_7 1])].

Definition s3_uses_37 : list (string * list xtensa_funcUnit_use) := [
  ("Opcode_ee_cmul_s16_st_incp_funcUnit_uses", [mkUse FUNCUNIT_func_addsub_s32x2_slot1_3 1;
     mkUse FUNCUNIT_func_addsub_s8x2_0 1; mkUse FUNCUNIT_func_addsub_s8x2_1 1;
     mkUse FUNCUNIT_func_addsub_s8x2_2 1; mkUse FUNCUNIT_func_addsub_s8x2_3 1;
     mkUse FUNCUNIT_func_addsub_s8x2_4 1; mkUse FUNCUNIT_func_addsub_s8x2_5 1;
     mkUse FUNCUNIT_func_addsub_s8x2_6 1; mkUse FUNCUNIT_func_addsub_s8x2_7 1;
     mkUse FUNCUNIT_func_addsub_s16x2_0 1; mkUse FUNCUNIT_func_addsub_s16x2_1 1;
     mkUse FUNCUNIT_func_addsub_s16x2_2 1; mkUse FUNCUNIT_func_addsub_s16x2_3 1;
     mkUse FUNCUNIT_func_addsub_s16x2_4 1; mkUse FUNCUNIT_func_addsub_s16x2_5 1;
     mkUse FUNCUNIT_func_addsub_s16x2_6 1; mkUse FUNCUNIT_func_addsub_s16x2_7 1;
     mkUse FUNCUNIT_func_addsub_s32x2_slot0_0 1; mkUse FUNCUNIT_func_addsub_s32x2_slot0_1 1;
     mkUse FUNCUNIT_func_addsub_s32x2_slot0_2 1; mkUse FUNCUNIT_func_addsub_s32x2_slot0_3 1;
     mkUse FUNCUNIT_func_mul_s8xs8_0 1; mkUse FUNCUNIT_func_mul_s8xs8_1 1;
     mkUse FUNCUNIT_func_mul_s8xs8_2 1; mkUse FUNCUNIT_func_mul_s8xs8_3 1;
     mkUse FUNCUNIT_func_mul_s8xs8_4 1; mkUse FUNCUNIT_func_mul_s8xs8_5 1;
     mkUse FUNCUNIT_func_mul_s8xs8_6 1; mkUse FUNCUNIT_func_mul_s8xs8_7 1;
     mkUse FUNCUNIT_func_mul_s16xs16_0 1; mkUse FUNCUNIT_func_mul_s16xs16_1 1;
     mkUse FUNCUNIT_func_mul_s16xs16_2 1; mkUse FUNCUNIT_func_mul_s16xs16_3 1;
     mkUse FUNCUNIT_func_mul_s16xs16_4 1; mkUse FUNCUNIT_func_mul_s16xs16_5 1;
     mkUse FUNCUNIT_func_mul_s16xs16_6 1; mkUse FUNCUNIT_func_mul_s16xs16_7 1;
     mkUse FUNCUNIT_func_addsub_s32x2_slot1_extra 2; mkUse FUNCUNIT_func_addsub_s32x2_slot1_2 2;
     mkUse FUNCUNIT_func_addsub_s32x2_slot1_1 2; mkUse FUNCUNIT_func_addsub_s32x2_slot1_0 2;
     mkUse FUNCUNIT_func_addsub_s20x2_slot_end_0 2; mkUse FUNCUNIT_func_addsub_s20x2_slot_end_1 2;
     mkUse FUNCUNIT_func_addsub_s20x2_slot_end_2 2; mkUse FUNCUNIT_func_addsub_s20x2_slot_end_3 2;
     mkUse FUNCUNIT_func_addsub_s40x2_7 2; mkUse FUNCUNIT_func_addsub_s40x2_6 2;
     mkUse FUNCUNIT_func_addsub_s40x2_5 2; mkUse FUNCUNIT_func_addsub_s40x2_4 2;
     mkUse FUNCUNIT_func_addsub_s40x2_3 2; mkUse FUNCUNIT_func_addsub_s40x2_2 2;
     mkUse FUNCUNIT_func_addsub_s40x2_1 2; mkUse FUNCUNIT_func_addsub_s40x2_0 2;
     mkUse FUNCUNIT_func_shift_s16rs8_0 1; mkUse FUNCUNIT_func_shift_s16rs8_1 1;
     mkUse FUNCUNIT_func_shift_s16rs8_2 1; mkUse FUNCUNIT_func_shift_s16rs8_3 1;
     mkUse FUNCUNIT_func_shift_s16rs8_4 1; mkUse FUNCUNIT_func_shift_s16rs8_5 1;
     mkUse FUNCUNIT_func_shift_s16rs8_6 1; mkUse FUNCUNIT_func_shift_s16rs8_7 1;
     mkUse FUNCUNIT_func_shift_s16rs8_8 1; mkUse FUNCUNIT_func_shift_s16rs8_9 1;
     mkUse FUNCUNIT_func_shift_s16rs8_10 1; mkUse FUNCUNIT_func_shift_s16rs8_11 1;
     mkUse FUNCUNIT_func_shift_s16rs8_12 1; mkUse FUNCUNIT_func_shift_s16rs8_13 1;
     mkUse FUNCUNIT_func_shift_s16rs8_14 1; mkUse FUNCUNIT_func_shift_s16rs8_15 1;
     mkUse FUNCUNIT_func_shift_s32rs16_0 2; mkUse FUNCUNIT_func_shift_s32rs16_1 2;
     mkUse FUNCUNIT_func_shift_s32rs16_2 2; mkUse FUNCUNIT_func_shift_s32rs16_3 2;
     mkUse FUNCUNIT_func_shift_s32rs16_4 1; mkUse FUNCUNIT_func_shift_s32rs16_5 1;
     mkUse FUNCUNIT_func_shift_s32rs16_6 1; mkUse FUNCUNIT_func_shift_s32rs16_7 1])].

Definition s3_uses_38 : list (string * list xtensa_funcUnit_use) := [
  ("Opcode_ee_cmul_s16_funcUnit_uses", [mkUse FUNCUNIT_func_addsub_s32x2_slot1_3 1;
     mkUse FUNCUNIT_func_addsub_s8x2_0 1; mkUse FUNCUNIT_func_addsub_s8x2_1 1;
     mkUse FUNCUNIT_func_addsub_s8x2_2 1; mkUse FUNCUNIT_func_addsub_s8x2_3 1;
     mkUse FUNCUNIT_func_addsub_s8x2_4 1; mkUse FUNCUNIT_func_addsub_s8x2_5 1;
     mkUse FUNCUNIT_func_addsub_s8x2_6 1; mkUse FUNCUNIT_func_addsub_s8x2_7 1;
     mkUse FUNCUNIT_func_addsub_s16x2_0 1; mkUse FUNCUNIT_func_addsub_s16x2_1 1;
     mkUse FUNCUNIT_func_addsub_s16x2_2 1; mkUse FUNCUNIT_func_addsub_s16x2_3 1;
     mkUse FUNCUNIT_func_addsub_s16x2_4 1; mkUse FUNCUNIT_func_addsub_s16x2_5 1;
     mkUse FUNCUNIT_func_addsub_s16x2_6 1; mkUse FUNCUNIT_func_addsub_s16x2_7 1;
     mkUse FUNCUNIT_func_addsub_s32x2_slot0_0 1; mkUse FUNCUNIT_func_addsub_s32x2_slot0_1 1;
     mkUse FUNCUNIT_func_addsub_s32x2_slot0_2 1; mkUse FUNCUNIT_func_addsub_s32x2_slot0_3 1;
     mkUse FUNCUNIT_func_mul_s8xs8_0 1; mkUse FUNCUNIT_func_mul_s8xs8_1 1;
     mkUse FUNCUNIT_func_mul_s8xs8_2 1; mkUse FUNCUNIT_func_mul_s8xs8_3 1;
     mkUse FUNCUNIT_func_mul_s8xs8_4 1; mkUse FUNCUNIT_func_mul_s8xs8_5 1;
     mkUse FUNCUNIT_func_mul_s8xs8_6 1; mkUse FUNCUNIT_func_mul_s8xs8_7 1;
     mkUse FUNCUNIT_func_mul_s16xs16_0 1; mkUse FUNCUNIT_func_mul_s16xs16_1 1;
     mkUse FUNCUNIT_func_mul_s16xs16_2 1; mkUse FUNCUNIT_func_mul_s16xs16_3 1;
     mkUse FUNCUNIT_func_mul_s16xs16_4 1; mkUse FUNCUNIT_func_mul_s16xs16_5 1;
     mkUse FUNCUNIT_func_mul_s16xs16_6 1; mkUse FUNCUNIT_func_mul_s16xs16_7 1;
     mkUse FUNCUNIT_func_addsub_s32x2_slot1_extra 2; mkUse FUNCUNIT_func_addsub_s32x2_slot1_2 2;
     mkUse FUNCUNIT_func_addsub_s32x2_slot1_1 2; mkUse FUNCUNIT_func_addsub_s32x2_slot1_0 2;
     mkUse FUNCUNIT_func_addsub_s20x2_slot_end_0 2; mkUse FUNCUNIT_func_addsub_s20x2_slot_end_1 2;
     mkUse FUNCUNIT_func_addsub_s20x2_slot_end_2 2; mkUse FUNCUNIT_func_addsub_s20x2_slot_end_3 2;
     mkUse FUNCUNIT_func_addsub_s40x2_7 2; mkUse FUNCUNIT_func_addsub_s40x2_6 2;
     mkUse FUNCUNIT_func_addsub_s40x2_5 2; mkUse FUNCUNIT_func_addsub_s40x2_4 2;
     mkUse FUNCUNIT_func_addsub_s40x2_3 2; mkUse FUNCUNIT_func_addsub_s40x2_2 2;
     mkUse FUNCUNIT_func_addsub_s40x2_1 2; mkUse FUNCUNIT_func_addsub_s40x2_0 2;
     mkUse FUNCUNIT_func_shift_s16rs8_0 1; mkUse FUNCUNIT_func_shift_s16rs8_1 1;
     mkUse FUNCUNIT_func_shift_s16rs8_2 1; mkUse FUNCUNIT_func_shift_s16rs8_3 1;
     mkUse FUNCUNIT_func_shift_s16rs8_4 1; mkUse FUNCUNIT_func_shift_s16rs8_5 1;
     mkUse FUNCUNIT_func_shift_s16rs8_6 1; mkUse FUNCUNIT_func_shift_s16rs8_7 1;
     mkUse FUNCUNIT_func_shift_s16rs8_8 1; mkUse FUNCUNIT_func_shift_s16rs8_9 1;
     mkUse FUNCUNIT_func_shift_s16rs8_10 1; mkUse FUNCUNIT_func_shift_s16rs8_11 1;
     mkUse FUNCUNIT_func_shift_s16rs8_12 1; mkUse FUNCUNIT_func_shift_s16rs8_13 1;
     mkUse FUNCUNIT_func_shift_s16rs8_14 1; mkUse FUNCUNIT_func_shift_s16rs8_15 1;
     mkUse FUNCUNIT_func_shift_s32rs16_0 2; mkUse FUNCUNIT_func_shift_s32rs16_1 2;
     mkUse FUNCUNIT_func_shift_s32rs16_2 2; mkUse FUNCUNIT_func_shift_s32rs16_3 2;
     mkUse FUNCUNIT_func_shift_s32rs16_4 1; mkUse FUNCUNIT_func_shift_s32rs16_5 1;
     mkUse FUNCUNIT_func_shift_s32rs16_6 1; mkUse FUNCUNIT_func_shift_s32rs16_7 1])].

Definition s3_uses_39 : list (string * list xtensa_funcUnit_use) := [
  ("Opcode_ee_vmulas_s16_accx_ld_ip_qup_funcUnit_uses", [mkUse FUNCUNIT_func_addsub_s32x2_slot1_3 1;
     mkUse FUNCUNIT_func_addsub_s8x2_0 1; mkUse FUNCUNIT_func_addsub_s8x2_1 1;
     mkUse FUNCUNIT_func_addsub_s8x2_2 1; mkUse FUNCUNIT_func_addsub_s8x2_3 1;
     mkUse FUNCUNIT_func_addsub_s8x2_4 1; mkUse FUNCUNIT_func_addsub_s8x2_5 1;
     mkUse FUNCUNIT_func_addsub_s8x2_6 1; mkUse FUNCUNIT_func_addsub_s8x2_7 1;
     mkUse FUNCUNIT_func_addsub_s16x2_0 1; mkUse FUNCUNIT_func_addsub_s16x2_1 1;
     mkUse FUNCUNIT_func_addsub_s16x2_2 1; mkUse FUNCUNIT_func_addsub_s16x2_3 1;
     mkUse FUNCUNIT_func_addsub_s16x2_4 1; mkUse FUNCUNIT_func_addsub_s16x2_5 1;
     mkUse FUNCUNIT_func_addsub_s16x2_6 1; mkUse FUNCUNIT_func_addsub_s16x2_7 1;
     mkUse FUNCUNIT_func_addsub_s32x2_slot0_0 1; mkUse FUNCUNIT_func_addsub_s32x2_slot0_1 1;
     mkUse FUNCUNIT_func_addsub_s32x2_slot0_2 1; mkUse FUNCUNIT_func_addsub_s32x2_slot0_3 1;
     mkUse FUNCUNIT_func_mul_s8xs8_0 1; mkUse FUNCUNIT_func_mul_s8xs8_1 1;
     mkUse FUNCUNIT_func_mul_s8xs8_2 1; mkUse FUNCUNIT_func_mul_s8xs8_3 1;
     mkUse FUNCUNIT_func_mul_s8xs8_4 1; mkUse FUNCUNIT_func_mul_s8xs8_5 1;
     mkUse FUNCUNIT_func_mul_s8xs8_6 1; mkUse FUNCUNIT_func_mul_s8xs8_7 1;
     mkUse FUNCUNIT_func_mul_s16xs16_0 1; mkUse FUNCUNIT_func_mul_s16xs16_1 1;
     mkUse FUNCUNIT_func_mul_s16xs16_2 1; mkUse FUNCUNIT_func_mul_s16xs16_3 1;
     mkUse FUNCUNIT_func_mul_s16xs16_4 1; mkUse FUNCUNIT_func_mul_s16xs16_5 1;
     mkUse FUNCUNIT_func_mul_s16xs16_6 1; mkUse FUNCUNIT_func_mul_s16xs16_7 1;
     mkUse FUNCUNIT_func_addsub_s32x2_slot1_extra 2; mkUse FUNCUNIT_func_addsub_s32x2_slot1_2 2;
     mkUse FUNCUNIT_func_addsub_s32x2_slot1_1 2; mkUse FUNCUNIT_func_addsub_s32x2_slot1_0 2;
     mkUse FUNCUNIT_func_addsub_s20x2_slot_end_0 2; mkUse FUNCUNIT_func_addsub_s20x2_slot_end_1 2;
     mkUse FUNCUNIT_func_addsub_s20x2_slot_end_2 2; mkUse FUNCUNIT_func_addsub_s20x2_slot_end_3 2;
     mkUse FUNCUNIT_func_addsub_s40x2_7 2; mkUse FUNCUNIT_func_addsub_s40x2_6 2;
     mkUse FUNCUNIT_func_addsub_s40x2_5 2; mkUse FUNCUNIT_func_addsub_s40x2_4 2;
     mkUse FUNCUNIT_func_addsub_s40x2_3 2; mkUse FUNCUNIT_func_addsub_s40x2_2 2;
     mkUse FUNCUNIT_func_addsub_s40x2_1 2; mkUse FUNCUNIT_func_addsub_s40x2_0 2;
     mkUse FUNCUNIT_func_shift_s16rs8_0 1; mkUse FUNCUNIT_func_shift_s16rs8_1 1;
     mkUse FUNCUNIT_func_shift_s16rs8_2 1; mkUse FUNCUNIT_func_shift_s16rs8_3 1;
     mkUse FUNCUNIT_func_shift_s16rs8_4 1; mkUse FUNCUNIT_func_shift_s16rs8_5 1;
     mkUse FUNCUNIT_func_shift_s16rs8_6 1; mkUse FUNCUNIT_func_shift_s16rs8_7 1;
     mkUse FUNCUNIT_func_shift_s16rs8_8 1; mkUse FUNCUNIT_func_shift_s16rs8_9 1;
     mkUse FUNCUNIT_func_shift_s16rs8_10 1; mkUse FUNCUNIT_func_shift_s16rs8_11 1;
     mkUse FUNCUNIT_func_shift_s16rs8_12 1; mkUse FUNCUNIT_func_shift_s16rs8_13 1;
     mkUse FUNCUNIT_func_shift_s16rs8_14 1; mkUse FUNCUNIT_func_shift_s16rs8_15 1;
     mkUse FUNCUNIT_func_shift_s32rs16_0 2; mkUse FUNCUNIT_func_shift_s32rs16_1 2;
     mkUse FUNCUNIT_func_shift_s32rs16_2 2; mkUse FUNCUNIT_func_shift_s32rs16_3 2;
     mkUse FUNCUNIT_func_shift_s32rs16_4 1; mkUse FUNCUNIT_func_shift_s32rs16_5 1;
     mkUse FUNCUNIT_func_shift_s32rs16_6 1; mkUse FUNCUNIT_func_shift_s32rs16_7 1])].

Definition s3_uses_40 : list (string * list xtensa_funcUnit_use) := [
  ("Opcode_ee_vmulas_s16_accx_ld_ip_funcUnit_uses", [mkUse FUNCUNIT_func_addsub_s32x2_slot1_3 1;
     mkUse FUNCUNIT_func_addsub_s8x2_0 1; mkUse FUNCUNIT_func_addsub_s8x2_1 1;
     mkUse FUNCUNIT_func_addsub_s8x2_2 1; mkUse FUNCUNIT_func_addsub_s8x2_3 1;
     mkUse FUNCUNIT_func_addsub_s8x2_4 1; mkUse FUNCUNIT_func_addsub_s8x2_5 1;
     mkUse FUNCUNIT_func_addsub_s8x2_6 1; mkUse FUNCUNIT_func_addsub_s8x2_7 1;
     mkUse FUNCUNIT_func_addsub_s16x2_0 1; mkUse FUNCUNIT_func_addsub_s16x2_1 1;
     mkUse FUNCUNIT_func_addsub_s16x2_2 1; mkUse FUNCUNIT_func_addsub_s16x2_3 1;
     mkUse FUNCUNIT_func_addsub_s16x2_4 1; mkUse FUNCUNIT_func_addsub_s16x2_5 1;
     mkUse FUNCUNIT_func_addsub_s16x2_6 1; mkUse FUNCUNIT_func_addsub_s16x2_7 1;
     mkUse FUNCUNIT_func_addsub_s32x2_slot0_0 1; mkUse FUNCUNIT_func_addsub_s32x2_slot0_1 1;
     mkUse FUNCUNIT_func_addsub_s32x2_slot0_2 1; mkUse FUNCUNIT_func_addsub_s32x2_slot0_3 1;
     mkUse FUNCUNIT_func_mul_s8xs8_0 1; mkUse FUNCUNIT_func_mul_s8xs8_1 1;
     mkUse FUNCUNIT_func_mul_s8xs8_2 1; mkUse FUNCUNIT_func_mul_s8xs8_3 1;
     mkUse FUNCUNIT_func_mul_s8xs8_4 1; mkUse FUNCUNIT_func_mul_s8xs8_5 1;
     mkUse FUNCUNIT_func_mul_s8xs8_6 1; mkUse FUNCUNIT_func_mul_s8xs8_7 1;
     mkUse FUNCUNIT_func_mul_s16xs16_0 1; mkUse FUNCUNIT_func_mul_s16xs16_1 1;
     mkUse FUNCUNIT_func_mul_s16xs16_2 1; mkUse FUNCUNIT_func_mul_s16xs16_3 1;
     mkUse FUNCUNIT_func_mul_s16xs16_4 1; mkUse FUNCUNIT_func_mul_s16xs16_5 1;
     mkUse FUNCUNIT_func_mul_s16xs16_6 1; mkUse FUNCUNIT_func_mul_s16xs16_7 1;
     mkUse FUNCUNIT_func_addsub_s32x2_slot1_extra 2; mkUse FUNCUNIT_func_addsub_s32x2_slot1_2 2;
     mkUse FUNCUNIT_func_addsub_s32x2_slot1_1 2; mkUse FUNCUNIT_func_addsub_s32x2_slot1_0 2;
     mkUse FUNCUNIT_func_addsub_s20x2_slot_end_0 2; mkUse FUNCUNIT_func_addsub_s20x2_slot_end_1 2;
     mkUse FUNCUNIT_func_addsub_s20x2_slot_end_2 2; mkUse FUNCUNIT_func_addsub_s20x2_slot_end_3 2;
     mkUse FUNCUNIT_func_addsub_s40x2_7 2; mkUse FUNCUNIT_func_addsub_s40x2_6 2;
     mkUse FUNCUNIT_func_addsub_s40x2_5 2; mkUse FUNCUNIT_func_addsub_s40x2_4 2;
     mkUse FUNCUNIT_func_addsub_s40x2_3 2; mkUse FUNCUNIT_func_addsub_s40x2_2 2;
     mkUse FUNCUNIT_func_addsub_s40x2_1 2; mkUse FUNCUNIT_func_addsub_s40x2_0 2;
     mkUse FUNCUNIT_func_shift_s16rs8_0 1; mkUse FUNCUNIT_func_shift_s16rs8_1 1;
     mkUse FUNCUNIT_func_shift_s16rs8_2 1; mkUse FUNCUNIT_func_shift_s16rs8_3 1;
     mkUse FUNCUNIT_func_shift_s16rs8_4 1; mkUse FUNCUNIT_func_shift_s16rs8_5 1;
     mkUse FUNCUNIT_func_shift_s16rs8_6 1; mkUse FUNCUNIT_func_shift_s16rs8_7 1;
     mkUse FUNCUNIT_func_shift_s16rs8_8 1; mkUse FUNCUNIT_func_shift_s16rs8_9 1;
     mkUse FUNCUNIT_func_shift_s16rs8_10 1; mkUse FUNCUNIT_func_shift_s16rs8_11 1;
     mkUse FUNCUNIT_func_shift_s16rs8_12 1; mkUse FUNCUNIT_func_shift_s16rs8_13 1;
     mkUse FUNCUNIT_func_shift_s16rs8_14 1; mkUse FUNCUNIT_func_shift_s16rs8_15 1;
     mkUse FUNCUNIT_func_shift_s32rs16_0 2; mkUse FUNCUNIT_func_shift_s32rs16_1 2;
     mkUse FUNCUNIT_func_shift_s32rs16_2 2; mkUse FUNCUNIT_func_shift_s32rs16_3 2;
     mkUse FUNCUNIT_func_shift_s32rs16_4 1; mkUse FUNCUNIT_func_shift_s32rs16_5 1;
     mkUse FUNCUNIT_func_shift_s32rs16_6 1; mkUse FUNCUNIT_func_shift_s32rs16_7 1])].

Definition s3_uses_41 : list (string * list xtensa_funcUnit_use) := [
  ("Opcode_ee_vmulas_s16_accx_ld_xp_qup_funcUnit_uses", [mkUse FUNCUNIT_func_addsub_s32x2_slot1_3 1;
     mkUse FUNCUNIT_func_addsub_s8x2_0 1; mkUse FUNCUNIT_func_addsub_s8x2_1 1;
     mkUse FUNCUNIT_func_addsub_s8x2_2 1; mkUse FUNCUNIT_func_addsub_s8x2_3 1;
     mkUse FUNCUNIT_func_addsub_s8x2_4 1; mkUse FUNCUNIT_func_addsub_s8x2_5 1;
     mkUse FUNCUNIT_func_addsub_s8x2_6 1; mkUse FUNCUNIT_func_addsub_s8x2_7 1;
     mkUse FUNCUNIT_func_addsub_s16x2_0 1; mkUse FUNCUNIT_func_addsub_s16x2_1 1;
     mkUse FUNCUNIT_func_addsub_s16x2_2 1; mkUse FUNCUNIT_func_addsub_s16x2_3 1;
     mkUse FUNCUNIT_func_addsub_s16x2_4 1; mkUse FUNCUNIT_func_addsub_s16x2_5 1;
     mkUse FUNCUNIT_func_addsub_s16x2_6 1; mkUse FUNCUNIT_func_addsub_s16x2_7 1;
     mkUse FUNCUNIT_func_addsub_s32x2_slot0_0 1; mkUse FUNCUNIT_func_addsub_s32x2_slot0_1 1;
     mkUse FUNCUNIT_func_addsub_s32x2_slot0_2 1; mkUse FUNCUNIT_func_addsub_s32x2_slot0_3 1;
     mkUse FUNCUNIT_func_mul_s8xs8_0 1; mkUse FUNCUNIT_func_mul_s8xs8_1 1;
     mkUse FUNCUNIT_func_mul_s8xs8_2 1; mkUse FUNCUNIT_func_mul_s8xs8_3 1;
     mkUse FUNCUNIT_func_mul_s8xs8_4 1; mkUse FUNCUNIT_func_mul_s8xs8_5 1;
     mkUse FUNCUNIT_func_mul_s8xs8_6 1; mkUse FUNCUNIT_func_mul_s8xs8_7 1;
     mkUse FUNCUNIT_func_mul_s16xs16_0 1; mkUse FUNCUNIT_func_mul_s16xs16_1 1;
     mkUse FUNCUNIT_func_mul_s16xs16_2 1; mkUse FUNCUNIT_func_mul_s16xs16_3 1;
     mkUse FUNCUNIT_func_mul_s16xs16_4 1; mkUse FUNCUNIT_func_mul_s16xs16_5 1;
     mkUse FUNCUNIT_func_mul_s16xs16_6 1; mkUse FUNCUNIT_func_mul_s16xs16_7 1;
     mkUse FUNCUNIT_func_addsub_s32x2_slot1_extra 2; mkUse FUNCUNIT_func_addsub_s32x2_slot1_2 2;
     mkUse FUNCUNIT_func_addsub_s32x2_slot1_1 2; mkUse FUNCUNIT_func_addsub_s32x2_slot1_0 2;
     mkUse FUNCUNIT_func_addsub_s20x2_slot_end_0 2; mkUse FUNCUNIT_func_addsub_s20x2_slot_end_1 2;
     mkUse FUNCUNIT_func_addsub_s20x2_slot_end_2 2; mkUse FUNCUNIT_func_addsub_s20x2_slot_end_3 2;
     mkUse FUNCUNIT_func_addsub_s40x2_7 2; mkUse FUNCUNIT_func_addsub_s40x2_6 2;
     mkUse FUNCUNIT_func_addsub_s40x2_5 2; mkUse FUNCUNIT_func_addsub_s40x2_4 2;
     mkUse FUNCUNIT_func_addsub_s40x2_3 2; mkUse FUNCUNIT_func_addsub_s40x2_2 2;
     mkUse FUNCUNIT_func_addsub_s40x2_1 2; mkUse FUNCUNIT_func_addsub_s40x2_0 2;
     mkUse FUNCUNIT_func_shift_s16rs8_0 1; mkUse FUNCUNIT_func_shift_s16rs8_1 1;
     mkUse FUNCUNIT_func_shift_s16rs8_2 1; mkUse FUNCUNIT_func_shift_s16rs8_3 1;
     mkUse FUNCUNIT_func_shift_s16rs8_4 1; mkUse FUNCUNIT_func_shift_s16rs8_5 1;
     mkUse FUNCUNIT_func_shift_s16rs8_6 1; mkUse FUNCUNIT_func_shift_s16rs8_7 1;
     mkUse FUNCUNIT_func_shift_s16rs8_8 1; mkUse FUNCUNIT_func_shift_s16rs8_9 1;
     mkUse FUNCUNIT_func_shift_s16rs8_10 1; mkUse FUNCUNIT_func_shift_s16rs8_11 1;
     mkUse FUNCUNIT_func_shift_s16rs8_12 1; mkUse FUNCUNIT_func_shift_s16rs8_13 1;
     mkUse FUNCUNIT_func_shift_s16rs8_14 1; mkUse FUNCUNIT_func_shift_s16rs8_15 1;
     mkUse FUNCUNIT_func_shift_s32rs16_0 2; mkUse FUNCUNIT_func_shift_s32rs16_1 2;
     mkUse FUNCUNIT_func_shift_s32rs16_2 2; mkUse FUNCUNIT_func_shift_s32rs16_3 2;
     mkUse FUNCUNIT_func_shift_s32rs16_4 1; mkUse FUNCUNIT_func_shift_s32rs16_5 1;
     mkUse FUNCUNIT_func_shift_s32rs16_6 1; mkUse FUNCUNIT_func_shift_s32rs16_7 1])].

Definition s3_uses_42 : list (string * list xtensa_funcUnit_use) := [
  ("Opcode_ee_vmulas_s16_accx_ld_xp_funcUnit_uses", [mkUse FUNCUNIT_func_addsub_s32x2_slot1_3 1;
     mkUse FUNCUNIT_func_addsub_s8x2_0 1; mkUse FUNCUNIT_func_addsub_s8x2_1 1;
     mkUse FUNCUNIT_func_addsub_s8x2_2 1; mkUse FUNCUNIT_func_addsub_s8x2_3 1;
     mkUse FUNCUNIT_func_addsub_s8x2_4 1; mkUse FUNCUNIT_func_addsub_s8x2_5 1;
     mkUse FUNCUNIT_func_addsub_s8x2_6 1; mkUse FUNCUNIT_func_addsub_s8x2_7 1;
     mkUse FUNCUNIT_func_addsub_s16x2_0 1; mkUse FUNCUNIT_func_addsub_s16x2_1 1;
     mkUse FUNCUNIT_func_addsub_s16x2_2 1; mkUse FUNCUNIT_func_addsub_s16x2_3 1;
     mkUse FUNCUNIT_func_addsub_s16x2_4 1; mkUse FUNCUNIT_func_addsub_s16x2_5 1;
     mkUse FUNCUNIT_func_addsub_s16x2_6 1; mkUse FUNCUNIT_func_addsub_s16x2_7 1;
     mkUse FUNCUNIT_func_addsub_s32x2_slot0_0 1; mkUse FUNCUNIT_func_addsub_s32x2_slot0_1 1;
     mkUse FUNCUNIT_func_addsub_s32x2_slot0_2 1; mkUse FUNCUNIT_func_addsub_s32x2_slot0_3 1;
     mkUse FUNCUNIT_func_mul_s8xs8_0 1; mkUse FUNCUNIT_func_mul_s8xs8_1 1;
     mkUse FUNCUNIT_func_mul_s8xs8_2 1; mkUse FUNCUNIT_func_mul_s8xs8_3 1;
     mkUse FUNCUNIT_func_mul_s8xs8_4 1; mkUse FUNCUNIT_func_mul_s8xs8_5 1;
     mkUse FUNCUNIT_func_mul_s8xs8_6 1; mkUse FUNCUNIT_func_mul_s8xs8_7 1;
     mkUse FUNCUNIT_func_mul_s16xs16_0 1; mkUse FUNCUNIT_func_mul_s16xs16_1 1;
     mkUse FUNCUNIT_func_mul_s16xs16_2 1; mkUse FUNCUNIT_func_mul_s16xs16_3 1;
     mkUse FUNCUNIT_func_mul_s16xs16_4 1; mkUse FUNCUNIT_func_mul_s16xs16_5 1;
     mkUse FUNCUNIT_func_mul_s16xs16_6 1; mkUse FUNCUNIT_func_mul_s16xs16_7 1;
     mkUse FUNCUNIT_func_addsub_s32x2_slot1_extra 2; mkUse FUNCUNIT_func_addsub_s32x2_slot1_2 2;
     mkUse FUNCUNIT_func_addsub_s32x2_slot1_1 2; mkUse FUNCUNIT_func_addsub_s32x2_slot1_0 2;
     mkUse FUNCUNIT_func_addsub_s20x2_slot_end_0 2; mkUse FUNCUNIT_func_addsub_s20x2_slot_end_1 2;
     mkUse FUNCUNIT_func_addsub_s20x2_slot_end_2 2; mkUse FUNCUNIT_func_addsub_s20x2_slot_end_3 2;
     mkUse FUNCUNIT_func_addsub_s40x2_7 2; mkUse FUNCUNIT_func_addsub_s40x2_6 2;
     mkUse FUNCUNIT_func_addsub_s40x2_5 2; mkUse FUNCUNIT_func_addsub_s40x2_4 2;
     mkUse FUNCUNIT_func_addsub_s40x2_3 2; mkUse FUNCUNIT_func_addsub_s40x2_2 2;
     mkUse FUNCUNIT_func_addsub_s40x2_1 2; mkUse FUNCUNIT_func_addsub_s40x2_0 2;
     mkUse FUNCUNIT_func_shift_s16rs8_0 1; mkUse FUNCUNIT_func_shift_s16rs8_1 1;
     mkUse FUNCUNIT_func_shift_s16rs8_2 1; mkUse FUNCUNIT_func_shift_s16rs8_3 1;
     mkUse FUNCUNIT_func_shift_s16rs8_4 1; mkUse FUNCUNIT_func_shift_s16rs8_5 1;
     mkUse FUNCUNIT_func_shift_s16rs8_6 1; mkUse FUNCUNIT_func_shift_s16rs8_7 1;
     mkUse FUNCUNIT_func_shift_s16rs8_8 1; mkUse FUNCUNIT_func_shift_s16rs8_9 1;
     mkUse FUNCUNIT_func_shift_s16rs8_10 1; mkUse FUNCUNIT_func_shift_s16rs8_11 1;
     mkUse FUNCUNIT_func_shift_s16rs8_12 1; mkUse FUNCUNIT_func_shift_s16rs8_13 1;
     mkUse FUNCUNIT_func_shift_s16rs8_14 1; mkUse FUNCUNIT_func_shift_s16rs8_15 1;
     mkUse FUNCUNIT_func_shift_s32rs16_0 2; mkUse FUNCUNIT_func_shift_s32rs16_1 2;
     mkUse FUNCUNIT_func_shift_s32rs16_2 2; mkUse FUNCUNIT_func_shift_s32rs16_3 2;
     mkUse FUNCUNIT_func_shift_s32rs16_4 1; mkUse FUNCUNIT_func_shift_s32rs16_5 1;
     mkUse FUNCUNIT_func_shift_s32rs16_6 1; mkUse FUNCUNIT_func_shift_s32rs16_7 1])].

Definition s3_uses_43 : list (string * list xtensa_funcUnit_use) := [
  ("Opcode_ee_vmulas_s16_accx_funcUnit_uses", [mkUse FUNCUNIT_func_addsub_s32x2_slot1_3 1;
     mkUse FUNCUNIT_func_addsub_s8x2_0 1; mkUse FUNCUNIT_func_addsub_s8x2_1 1;
     mkUse FUNCUNIT_func_addsub_s8x2_2 1; mkUse FUNCUNIT_func_addsub_s8x2_3 1;
     mkUse FUNCUNIT_func_addsub_s8x2_4 1; mkUse FUNCUNIT_func_addsub_s8x2_5 1;
     mkUse FUNCUNIT_func_addsub_s8x2_6 1; mkUse FUNCUNIT_func_addsub_s8x2_7 1;
     mkUse FUNCUNIT_func_addsub_s16x2_0 1; mkUse FUNCUNIT_func_addsub_s16x2_1 1;
     mkUse FUNCUNIT_func_addsub_s16x2_2 1; mkUse FUNCUNIT_func_addsub_s16x2_3 1;
     mkUse FUNCUNIT_func_addsub_s16x2_4 1; mkUse FUNCUNIT_func_addsub_s16x2_5 1;
     mkUse FUNCUNIT_func_addsub_s16x2_6 1; mkUse FUNCUNIT_func_addsub_s16x2_7 1;
     mkUse FUNCUNIT_func_addsub_s32x2_slot0_0 1; mkUse FUNCUNIT_func_addsub_s32x2_slot0_1 1;
     mkUse FUNCUNIT_func_addsub_s32x2_slot0_2 1; mkUse FUNCUNIT_func_addsub_s32x2_slot0_3 1;
     mkUse FUNCUNIT_func_mul_s8xs8_0 1; mkUse FUNCUNIT_func_mul_s8xs8_1 1;
     mkUse FUNCUNIT_func_mul_s8xs8_2 1; mkUse FUNCUNIT_func_mul_s8xs8_3 1;
     mkUse FUNCUNIT_func_mul_s8xs8_4 1; mkUse FUNCUNIT_func_mul_s8xs8_5 1;
     mkUse FUNCUNIT_func_mul_s8xs8_6 1; mkUse FUNCUNIT_func_mul_s8xs8_7 1;
     mkUse FUNCUNIT_func_mul_s16xs16_0 1; mkUse FUNCUNIT_func_mul_s16xs16_1 1;
     mkUse FUNCUNIT_func_mul_s16xs16_2 1; mkUse FUNCUNIT_func_mul_s16xs16_3 1;
     mkUse FUNCUNIT_func_mul_s16xs16_4 1; mkUse FUNCUNIT_func_mul_s16xs16_5 1;
     mkUse FUNCUNIT_func_mul_s16xs16_6 1; mkUse FUNCUNIT_func_mul_s16xs16_7 1;
     mkUse FUNCUNIT_func_addsub_s32x2_slot1_extra 2; mkUse FUNCUNIT_func_addsub_s32x2_slot1_2 2;
     mkUse FUNCUNIT_func_addsub_s32x2_slot1_1 2; mkUse FUNCUNIT_func_addsub_s32x2_slot1_0 2;
     mkUse FUNCUNIT_func_addsub_s20x2_slot_end_0 2; mkUse FUNCUNIT_func_addsub_s20x2_slot_end_1 2;
     mkUse FUNCUNIT_func_addsub_s20x2_slot_end_2 2; mkUse FUNCUNIT_func_addsub_s20x2_slot_end_3 2;
     mkUse FUNCUNIT_func_addsub_s40x2_7 2; mkUse FUNCUNIT_func_addsub_s40x2_6 2;
     mkUse FUNCUNIT_func_addsub_s40x2_5 2; mkUse FUNCUNIT_func_addsub_s40x2_4 2;
     mkUse FUNCUNIT_func_addsub_s40x2_3 2; mkUse FUNCUNIT_func_addsub_s40x2_2 2;
     mkUse FUNCUNIT_func_addsub_s40x2_1 2; mkUse FUNCUNIT_func_addsub_s40x2_0 2;
     mkUse FUNCUNIT_func_shift_s16rs8_0 1; mkUse FUNCUNIT_func_shift_s16rs8_1 1;
     mkUse FUNCUNIT_func_shift_s16rs8_2 1; mkUse FUNCUNIT_func_shift_s16rs8_3 1;
     mkUse FUNCUNIT_func_shift_s16rs8_4 1; mkUse FUNCUNIT_func_shift_s16rs8_5 1;
     mkUse FUNCUNIT_func_shift_s16rs8_6 1; mkUse FUNCUNIT_func_shift_s16rs8_7 1;
     mkUse FUNCUNIT_func_shift_s16rs8_8 1; mkUse FUNCUNIT_func_shift_s16rs8_9 1;
     mkUse FUNCUNIT_func_shift_s16rs8_10 1; mkUse FUNCUNIT_func_shift_s16rs8_11 1;
     mkUse FUNCUNIT_func_shift_s16rs8_12 1; mkUse FUNCUNIT_func_shift_s16rs8_13 1;
     mkUse FUNCUNIT_func_shift_s16rs8_14 1; mkUse FUNCUNIT_func_shift_s16rs8_15 1;
     mkUse FUNCUNIT_func_shift_s32rs16_0 2; mkUse FUNCUNIT_func_shift_s32rs16_1 2;
     mkUse FUNCUNIT_func_shift_s32rs16_2 2; mkUse FUNCUNIT_func_shift_s32rs16_3 2;
     mkUse FUNCUNIT_func_shift_s32rs16_4 1; mkUse FUNCUNIT_func_shift_s32rs16_5 1;
     mkUse FUNCUNIT_func_shift_s32rs16_6 1; mkUse FUNCUNIT_func_shift_s32rs16_7 1])].

Definition s3_uses_44 : list (string * list xtensa_funcUnit_use) := [
  ("Opcode_ee_vmulas_s8_accx_ld_ip_qup_funcUnit_uses", [mkUse FUNCUNIT_func_addsub_s32x2_slot1_3 1;
     mkUse FUNCUNIT_func_addsub_s8x2_0 1; mkUse FUNCUNIT_func_addsub_s8x2_1 1;
     mkUse FUNCUNIT_func_addsub_s8x2_2 1; mkUse FUNCUNIT_func_addsub_s8x2_3 1;
     mkUse FUNCUNIT_func_addsub_s8x2_4 1; mkUse FUNCUNIT_func_addsub_s8x2_5 1;
     mkUse FUNCUNIT_func_addsub_s8x2_6 1; mkUse FUNCUNIT_func_addsub_s8x2_7 1;
     mkUse FUNCUNIT_func_addsub_s16x2_0 1; mkUse FUNCUNIT_func_addsub_s16x2_1 1;
     mkUse FUNCUNIT_func_addsub_s16x2_2 1; mkUse FUNCUNIT_func_addsub_s16x2_3 1;
     mkUse FUNCUNIT_func_addsub_s16x2_4 1; mkUse FUNCUNIT_func_addsub_s16x2_5 1;
     mkUse FUNCUNIT_func_addsub_s16x2_6 1; mkUse FUNCUNIT_func_addsub_s16x2_7 1;
     mkUse FUNCUNIT_func_addsub_s32x2_slot0_0 1; mkUse FUNCUNIT_func_addsub_s32x2_slot0_1 1;
     mkUse FUNCUNIT_func_addsub_s32x2_slot0_2 1; mkUse FUNCUNIT_func_addsub_s32x2_slot0_3 1;
     mkUse FUNCUNIT_func_mul_s8xs8_0 1; mkUse FUNCUNIT_func_mul_s8xs8_1 1;
     mkUse FUNCUNIT_func_mul_s8xs8_2 1; mkUse FUNCUNIT_func_mul_s8xs8_3 1;
     mkUse FUNCUNIT_func_mul_s8xs8_4 1; mkUse FUNCUNIT_func_mul_s8xs8_5 1;
     mkUse FUNCUNIT_func_mul_s8xs8_6 1; mkUse FUNCUNIT_func_mul_s8xs8_7 1;
     mkUse FUNCUNIT_func_mul_s16xs16_0 1; mkUse FUNCUNIT_func_mul_s16xs16_1 1;
     mkUse FUNCUNIT_func_mul_s16xs16_2 1; mkUse FUNCUNIT_func_mul_s16xs16_3 1;
     mkUse FUNCUNIT_func_mul_s16xs16_4 1; mkUse FUNCUNIT_func_mul_s16xs16_5 1;
     mkUse FUNCUNIT_func_mul_s16xs16_6 1; mkUse FUNCUNIT_func_mul_s16xs16_7 1;
     mkUse FUNCUNIT_func_addsub_s32x2_slot1_extra 2; mkUse FUNCUNIT_func_addsub_s32x2_slot1_2 2;
     mkUse FUNCUNIT_func_addsub_s32x2_slot1_1 2; mkUse FUNCUNIT_func_addsub_s32x2_slot1_0 2;
     mkUse FUNCUNIT_func_addsub_s20x2_slot_end_0 2; mkUse FUNCUNIT_func_addsub_s20x2_slot_end_1 2;
     mkUse FUNCUNIT_func_addsub_s20x2_slot_end_2 2; mkUse FUNCUNIT_func_addsub_s20x2_slot_end_3 2;
     mkUse FUNCUNIT_func_addsub_s40x2_7 2; mkUse FUNCUNIT_func_addsub_s40x2_6 2;
     mkUse FUNCUNIT_func_addsub_s40x2_5 2; mkUse FUNCUNIT_func_addsub_s40x2_4 2;
     mkUse FUNCUNIT_func_addsub_s40x2_3 2; mkUse FUNCUNIT_func_addsub_s40x2_2 2;
     mkUse FUNCUNIT_func_addsub_s40x2_1 2; mkUse FUNCUNIT_func_addsub_s40x2_0 2;
     mkUse FUNCUNIT_func_shift_s16rs8_0 1; mkUse FUNCUNIT_func_shift_s16rs8_1 1;
     mkUse FUNCUNIT_func_shift_s16rs8_2 1; mkUse FUNCUNIT_func_shift_s16rs8_3 1;
     mkUse FUNCUNIT_func_shift_s16rs8_4 1; mkUse FUNCUNIT_func_shift_s16rs8_5 1;
     mkUse FUNCUNIT_func_shift_s16rs8_6 1; mkUse FUNCUNIT_func_shift_s16rs8_7 1;
     mkUse FUNCUNIT_func_shift_s16rs8_8 1; mkUse FUNCUNIT_func_shift_s16rs8_9 1;
     mkUse FUNCUNIT_func_shift_s16rs8_10 1; mkUse FUNCUNIT_func_shift_s16rs8_11 1;
     mkUse FUNCUNIT_func_shift_s16rs8_12 1; mkUse FUNCUNIT_func_shift_s16rs8_13 1;
     mkUse FUNCUNIT_func_shift_s16rs8_14 1; mkUse FUNCUNIT_func_shift_s16rs8_15 1;
     mkUse FUNCUNIT_func_shift_s32rs16_0 2; mkUse FUNCUNIT_func_shift_s32rs16_1 2;
     mkUse FUNCUNIT_func_shift_s32rs16_2 2; mkUse FUNCUNIT_func_shift_s32rs16_3 2;
     mkUse FUNCUNIT_func_shift_s32rs16_4 1; mkUse FUNCUNIT_func_shift_s32rs16_5 1;
     mkUse FUNCUNIT_func_shift_s32rs16_6 1; mkUse FUNCUNIT_func_shift_s32rs16_7 1])].

Definition s3_uses_45 : list (string * list xtensa_funcUnit_use) := [
  ("Opcode_ee_vmulas_s8_accx_ld_ip_funcUnit_uses", [mkUse FUNCUNIT_func_addsub_s32x2_slot1_3 1;
     mkUse FUNCUNIT_func_addsub_s8x2_0 1; mkUse FUNCUNIT_func_addsub_s8x2_1 1;
     mkUse FUNCUNIT_func_addsub_s8x2_2 1; mkUse FUNCUNIT_func_addsub_s8x2_3 1;
     mkUse FUNCUNIT_func_addsub_s8x2_4 1; mkUse FUNCUNIT_func_addsub_s8x2_5 1;
     mkUse FUNCUNIT_func_addsub_s8x2_6 1; mkUse FUNCUNIT_func_addsub_s8x2_7 1;
     mkUse FUNCUNIT_func_addsub_s16x2_0 1; mkUse FUNCUNIT_func_addsub_s16x2_1 1;
     mkUse FUNCUNIT_func_addsub_s16x2_2 1; mkUse FUNCUNIT_func_addsub_s16x2_3 1;
     mkUse FUNCUNIT_func_addsub_s16x2_4 1; mkUse FUNCUNIT_func_addsub_s16x2_5 1;
     mkUse FUNCUNIT_func_addsub_s16x2_6 1; mkUse FUNCUNIT_func_addsub_s16x2_7 1;
     mkUse FUNCUNIT_func_addsub_s32x2_slot0_0 1; mkUse FUNCUNIT_func_addsub_s32x2_slot0_1 1;
     mkUse FUNCUNIT_func_addsub_s32x2_slot0_2 1; mkUse FUNCUNIT_func_addsub_s32x2_slot0_3 1;
     mkUse FUNCUNIT_func_mul_s8xs8_0 1; mkUse FUNCUNIT_func_mul_s8xs8_1 1;
     mkUse FUNCUNIT_func_mul_s8xs8_2 1; mkUse FUNCUNIT_func_mul_s8xs8_3 1;
     mkUse FUNCUNIT_func_mul_s8xs8_4 1; mkUse FUNCUNIT_func_mul_s8xs8_5 1;
     mkUse FUNCUNIT_func_mul_s8xs8_6 1; mkUse FUNCUNIT_func_mul_s8xs8_7 1;
     mkUse FUNCUNIT_func_mul_s16xs16_0 1; mkUse FUNCUNIT_func_mul_s16xs16_1 1;
     mkUse FUNCUNIT_func_mul_s16xs16_2 1; mkUse FUNCUNIT_func_mul_s16xs16_3 1;
     mkUse FUNCUNIT_func_mul_s16xs16_4 1; mkUse FUNCUNIT_func_mul_s16xs16_5 1;
     mkUse FUNCUNIT_func_mul_s16xs16_6 1; mkUse FUNCUNIT_func_mul_s16xs16_7 1;
     mkUse FUNCUNIT_func_addsub_s32x2_slot1_extra 2; mkUse FUNCUNIT_func_addsub_s32x2_slot1_2 2;
     mkUse FUNCUNIT_func_addsub_s32x2_slot1_1 2; mkUse FUNCUNIT_func_addsub_s32x2_slot1_0 2;
     mkUse FUNCUNIT_func_addsub_s20x2_slot_end_0 2; mkUse FUNCUNIT_func_addsub_s20x2_slot_end_1 2;
     mkUse FUNCUNIT_func_addsub_s20x2_slot_end_2 2; mkUse FUNCUNIT_func_addsub_s20x2_slot_end_3 2;
     mkUse FUNCUNIT_func_addsub_s40x2_7 2; mkUse FUNCUNIT_func_addsub_s40x2_6 2;
     mkUse FUNCUNIT_func_addsub_s40x2_5 2; mkUse FUNCUNIT_func_addsub_s40x2_4 2;
     mkUse FUNCUNIT_func_addsub_s40x2_3 2; mkUse FUNCUNIT_func_addsub_s40x2_2 2;
     mkUse FUNCUNIT_func_addsub_s40x2_1 2; mkUse FUNCUNIT_func_addsub_s40x2_0 2;
     mkUse FUNCUNIT_func_shift_s16rs8_0 1; mkUse FUNCUNIT_func_shift_s16rs8_1 1;
     mkUse FUNCUNIT_func_shift_s16rs8_2 1; mkUse FUNCUNIT_func_shift_s16rs8_3 1;
     mkUse FUNCUNIT_func_shift_s16rs8_4 1; mkUse FUNCUNIT_func_shift_s16rs8_5 1;
     mkUse FUNCUNIT_func_shift_s16rs8_6 1; mkUse FUNCUNIT_func_shift_s16rs8_7 1;
     mkUse FUNCUNIT_func_shift_s16rs8_8 1; mkUse FUNCUNIT_func_shift_s16rs8_9 1;
     mkUse FUNCUNIT_func_shift_s16rs8_10 1; mkUse FUNCUNIT_func_shift_s16rs8_11 1;
     mkUse FUNCUNIT_func_shift_s16rs8_12 1; mkUse FUNCUNIT_func_shift_s16rs8_13 1;
     mkUse FUNCUNIT_func_shift_s16rs8_14 1; mkUse FUNCUNIT_func_shift_s16rs8_15 1;
     mkUse FUNCUNIT_func_shift_s32rs16_0 2; mkUse FUNCUNIT_func_shift_s32rs16_1 2;
     mkUse FUNCUNIT_func_shift_s32rs16_2 2; mkUse FUNCUNIT_func_shift_s32rs16_3 2;
     mkUse FUNCUNIT_func_shift_s32rs16_4 1; mkUse FUNCUNIT_func_shift_s32rs16_5 1;
     mkUse FUNCUNIT_func_shift_s32rs16_6 1; mkUse FUNCUNIT_func_shift_s32rs16_7 1])].

Definition s3_uses_46 : list (string * list xtensa_funcUnit_use) := [
  ("Opcode_ee_vmulas_s8_accx_ld_xp_qup_funcUnit_uses", [mkUse FUNCUNIT_func_addsub_s32x2_slot1_3 1;
     mkUse FUNCUNIT_func_addsub_s8x2_0 1; mkUse FUNCUNIT_func_addsub_s8x2_1 1;
     mkUse FUNCUNIT_func_addsub_s8x2_2 1; mkUse FUNCUNIT_func_addsub_s8x2_3 1;
     mkUse FUNCUNIT_func_addsub_s8x2_4 1; mkUse FUNCUNIT_func_addsub_s8x2_5 1;
     mkUse FUNCUNIT_func_addsub_s8x2_6 1; mkUse FUNCUNIT_func_addsub_s8x2_7 1;
     mkUse FUNCUNIT_func_addsub_s16x2_0 1; mkUse FUNCUNIT_func_addsub_s16x2_1 1;
     mkUse FUNCUNIT_func_addsub_s16x2_2 1; mkUse FUNCUNIT_func_addsub_s16x2_3 1;
     mkUse FUNCUNIT_func_addsub_s16x2_4 1; mkUse FUNCUNIT_func_addsub_s16x2_5 1;
     mkUse FUNCUNIT_func_addsub_s16x2_6 1; mkUse FUNCUNIT_func_addsub_s16x2_7 1;
     mkUse FUNCUNIT_func_addsub_s32x2_slot0_0 1; mkUse FUNCUNIT_func_addsub_s32x2_slot0_1 1;
     mkUse FUNCUNIT_func_addsub_s32x2_slot0_2 1; mkUse FUNCUNIT_func_addsub_s32x2_slot0_3 1;
     mkUse FUNCUNIT_func_mul_s8xs8_0 1; mkUse FUNCUNIT_func_mul_s8xs8_1 1;
     mkUse FUNCUNIT_func_mul_s8xs8_2 1; mkUse FUNCUNIT_func_mul_s8xs8_3 1;
     mkUse FUNCUNIT_func_mul_s8xs8_4 1; mkUse FUNCUNIT_func_mul_s8xs8_5 1;
     mkUse FUNCUNIT_func_mul_s8xs8_6 1; mkUse FUNCUNIT_func_mul_s8xs8_7 1;
     mkUse FUNCUNIT_func_mul_s16xs16_0 1; mkUse FUNCUNIT_func_mul_s16xs16_1 1;
     mkUse FUNCUNIT_func_mul_s16xs16_2 1; mkUse FUNCUNIT_func_mul_s16xs16_3 1;
     mkUse FUNCUNIT_func_mul_s16xs16_4 1; mkUse FUNCUNIT_func_mul_s16xs16_5 1;
     mkUse FUNCUNIT_func_mul_s16xs16_6 1; mkUse FUNCUNIT_func_mul_s16xs16_7 1;
     mkUse FUNCUNIT_func_addsub_s32x2_slot1_extra 2; mkUse FUNCUNIT_func_addsub_s32x2_slot1_2 2;
     mkUse FUNCUNIT_func_addsub_s32x2_slot1_1 2; mkUse FUNCUNIT_func_addsub_s32x2_slot1_0 2;
     mkUse FUNCUNIT_func_addsub_s20x2_slot_end_0 2; mkUse FUNCUNIT_func_addsub_s20x2_slot_end_1 2;
     mkUse FUNCUNIT_func_addsub_s20x2_slot_end_2 2; mkUse FUNCUNIT_func_addsub_s20x2_slot_end_3 2;
     mkUse FUNCUNIT_func_addsub_s40x2_7 2; mkUse FUNCUNIT_func_addsub_s40x2_6 2;
     mkUse FUNCUNIT_func_addsub_s40x2_5 2; mkUse FUNCUNIT_func_addsub_s40x2_4 2;
     mkUse FUNCUNIT_func_addsub_s40x2_3 2; mkUse FUNCUNIT_func_addsub_s40x2_2 2;
     mkUse FUNCUNIT_func_addsub_s40x2_1 2; mkUse FUNCUNIT_func_addsub_s40x2_0 2;
     mkUse FUNCUNIT_func_shift_s16rs8_0 1; mkUse FUNCUNIT_func_shift_s16rs8_1 1;
     mkUse FUNCUNIT_func_shift_s16rs8_2 1; mkUse FUNCUNIT_func_shift_s16rs8_3 1;
     mkUse FUNCUNIT_func_shift_s16rs8_4 1; mkUse FUNCUNIT_func_shift_s16rs8_5 1;
     mkUse FUNCUNIT_func_shift_s16rs8_6 1; mkUse FUNCUNIT_func_shift_s16rs8_7 1;
     mkUse FUNCUNIT_func_shift_s16rs8_8 1; mkUse FUNCUNIT_func_shift_s16rs8_9 1;
     mkUse FUNCUNIT_func_shift_s16rs8_10 1; mkUse FUNCUNIT_func_shift_s16rs8_11 1;
     mkUse FUNCUNIT_func_shift_s16rs8_12 1; mkUse FUNCUNIT_func_shift_s16rs8_13 1;
     mkUse FUNCUNIT_func_shift_s16rs8_14 1; mkUse FUNCUNIT_func_shift_s16rs8_15 1;
     mkUse FUNCUNIT_func_shift_s32rs16_0 2; mkUse FUNCUNIT_func_shift_s32rs16_1 2;
     mkUse FUNCUNIT_func_shift_s32rs16_2 2; mkUse FUNCUNIT_func_shift_s32rs16_3 2;
     mkUse FUNCUNIT_func_shift_s32rs16_4 1; mkUse FUNCUNIT_func_shift_s32rs16_5 1;
     mkUse FUNCUNIT_func_shift_s32rs16_6 1; mkUse FUNCUNIT_func_shift_s32rs16_7 1])].

Definition s3_uses_47 : list (string * list xtensa_funcUnit_use) := [
  ("Opcode_ee_vmulas_s8_accx_ld_xp_funcUnit_uses", [mkUse FUNCUNIT_func_addsub_s32x2_slot1_3 1;
     mkUse FUNCUNIT_func_addsub_s8x2_0 1; mkUse FUNCUNIT_func_addsub_s8x2_1 1;
     mkUse FUNCUNIT_func_addsub_s8x2_2 1; mkUse FUNCUNIT_func_addsub_s8x2_3 1;
     mkUse FUNCUNIT_func_addsub_s8x2_4 1; mkUse FUNCUNIT_func_addsub_s8x2_5 1;
     mkUse FUNCUNIT_func_addsub_s8x2_6 1; mkUse FUNCUNIT_func_addsub_s8x2_7 1;
     mkUse FUNCUNIT_func_addsub_s16x2_0 1; mkUse FUNCUNIT_func_addsub_s16x2_1 1;
     mkUse FUNCUNIT_func_addsub_s16x2_2 1; mkUse FUNCUNIT_func_addsub_s16x2_3 1;
     mkUse FUNCUNIT_func_addsub_s16x2_4 1; mkUse FUNCUNIT_func_addsub_s16x2_5 1;
     mkUse FUNCUNIT_func_addsub_s16x2_6 1; mkUse FUNCUNIT_func_addsub_s16x2_7 1;
     mkUse FUNCUNIT_func_addsub_s32x2_slot0_0 1; mkUse FUNCUNIT_func_addsub_s32x2_slot0_1 1;
     mkUse FUNCUNIT_func_addsub_s32x2_slot0_2 1; mkUse FUNCUNIT_func_addsub_s32x2_slot0_3 1;
     mkUse FUNCUNIT_func_mul_s8xs8_0 1; mkUse FUNCUNIT_func_mul_s8xs8_1 1;
     mkUse FUNCUNIT_func_mul_s8xs8_2 1; mkUse FUNCUNIT_func_mul_s8xs8_3 1;
     mkUse FUNCUNIT_func_mul_s8xs8_4 1; mkUse FUNCUNIT_func_mul_s8xs8_5 1;
     mkUse FUNCUNIT_func_mul_s8xs8_6 1; mkUse FUNCUNIT_func_mul_s8xs8_7 1;
     mkUse FUNCUNIT_func_mul_s16xs16_0 1; mkUse FUNCUNIT_func_mul_s16xs16_1 1;
     mkUse FUNCUNIT_func_mul_s16xs16_2 1; mkUse FUNCUNIT_func_mul_s16xs16_3 1;
     mkUse FUNCUNIT_func_mul_s16xs16_4 1; mkUse FUNCUNIT_func_mul_s16xs16_5 1;
     mkUse FUNCUNIT_func_mul_s16xs16_6 1; mkUse FUNCUNIT_func_mul_s16xs16_7 1;
     mkUse FUNCUNIT_func_addsub_s32x2_slot1_extra 2; mkUse FUNCUNIT_func_addsub_s32x2_slot1_2 2;
     mkUse FUNCUNIT_func_addsub_s32x2_slot1_1 2; mkUse FUNCUNIT_func_addsub_s32x2_slot1_0 2;
     mkUse FUNCUNIT_func_addsub_s20x2_slot_end_0 2; mkUse FUNCUNIT_func_addsub_s20x2_slot_end_1 2;
     mkUse FUNCUNIT_func_addsub_s20x2_slot_end_2 2; mkUse FUNCUNIT_func_addsub_s20x2_slot_end_3 2;
     mkUse FUNCUNIT_func_addsub_s40x2_7 2; mkUse FUNCUNIT_func_addsub_s40x2_6 2;
     mkUse FUNCUNIT_func_addsub_s40x2_5 2; mkUse FUNCUNIT_func_addsub_s40x2_4 2;
     mkUse FUNCUNIT_func_addsub_s40x2_3 2; mkUse FUNCUNIT_func_addsub_s40x2_2 2;
     mkUse FUNCUNIT_func_addsub_s40x2_1 2; mkUse FUNCUNIT_func_addsub_s40x2_0 2;
     mkUse FUNCUNIT_func_shift_s16rs8_0 1; mkUse FUNCUNIT_func_shift_s16rs8_1 1;
     mkUse FUNCUNIT_func_shift_s16rs8_2 1; mkUse FUNCUNIT_func_shift_s16rs8_3 1;
     mkUse FUNCUNIT_func_shift_s16rs8_4 1; mkUse FUNCUNIT_func_shift_s16rs8_5 1;
     mkUse FUNCUNIT_func_shift_s16rs8_6 1; mkUse FUNCUNIT_func_shift_s16rs8_7 1;
     mkUse FUNCUNIT_func_shift_s16rs8_8 1; mkUse FUNCUNIT_func_shift_s16rs8_9 1;
     mkUse FUNCUNIT_func_shift_s16rs8_10 1; mkUse FUNCUNIT_func_shift_s16rs8_11 1;
     mkUse FUNCUNIT_func_shift_s16rs8_12 1; mkUse FUNCUNIT_func_shift_s16rs8_13 1;
     mkUse FUNCUNIT_func_shift_s16rs8_14 1; mkUse FUNCUNIT_func_shift_s16rs8_15 1;
     mkUse FUNCUNIT_func_shift_s32rs16_0 2; mkUse FUNCUNIT_func_shift_s32rs16_1 2;
     mkUse FUNCUNIT_func_shift_s32rs16_2 2; mkUse FUNCUNIT_func_shift_s32rs16_3 2;
     mkUse FUNCUNIT_func_shift_s32rs16_4 1; mkUse FUNCUNIT_func_shift_s32rs16_5 1;
     mkUse FUNCUNIT_func_shift_s32rs16_6 1; mkUse FUNCUNIT_func_shift_s32rs16_7 1])].

Definition s3_uses_48 : list (string * list xtensa_funcUnit_use) := [
  ("Opcode_ee_vmulas_s8_accx_funcUnit_uses", [mkUse FUNCUNIT_func_addsub_s32x2_slot1_3 1;
     mkUse FUNCUNIT_func_addsub_s8x2_0 1; mkUse FUNCUNIT_func_addsub_s8x2_1 1;
     mkUse FUNCUNIT_func_addsub_s8x2_2 1; mkUse FUNCUNIT_func_addsub_s8x2_3 1;
     mkUse FUNCUNIT_func_addsub_s8x2_4 1; mkUse FUNCUNIT_func_addsub_s8x2_5 1;
     mkUse FUNCUNIT_func_addsub_s8x2_6 1; mkUse FUNCUNIT_func_addsub_s8x2_7 1;
     mkUse FUNCUNIT_func_addsub_s16x2_0 1; mkUse FUNCUNIT_func_addsub_s16x2_1 1;
     mkUse FUNCUNIT_func_addsub_s16x2_2 1; mkUse FUNCUNIT_func_addsub_s16x2_3 1;
     mkUse FUNCUNIT_func_addsub_s16x2_4 1; mkUse FUNCUNIT_func_addsub_s16x2_5 1;
     mkUse FUNCUNIT_func_addsub_s16x2_6 1; mkUse FUNCUNIT_func_addsub_s16x2_7 1;
     mkUse FUNCUNIT_func_addsub_s32x2_slot0_0 1; mkUse FUNCUNIT_func_addsub_s32x2_slot0_1 1;
     mkUse FUNCUNIT_func_addsub_s32x2_slot0_2 1; mkUse FUNCUNIT_func_addsub_s32x2_slot0_3 1;
     mkUse FUNCUNIT_func_mul_s8xs8_0 1; mkUse FUNCUNIT_func_mul_s8xs8_1 1;
     mkUse FUNCUNIT_func_mul_s8xs8_2 1; mkUse FUNCUNIT_func_mul_s8xs8_3 1;
     mkUse FUNCUNIT_func_mul_s8xs8_4 1; mkUse FUNCUNIT_func_mul_s8xs8_5 1;
     mkUse FUNCUNIT_func_mul_s8xs8_6 1; mkUse FUNCUNIT_func_mul_s8xs8_7 1;
     mkUse FUNCUNIT_func_mul_s16xs16_0 1; mkUse FUNCUNIT_func_mul_s16xs16_1 1;
     mkUse FUNCUNIT_func_mul_s16xs16_2 1; mkUse FUNCUNIT_func_mul_s16xs16_3 1;
     mkUse FUNCUNIT_func_mul_s16xs16_4 1; mkUse FUNCUNIT_func_mul_s16xs16_5 1;
     mkUse FUNCUNIT_func_mul_s16xs16_6 1; mkUse FUNCUNIT_func_mul_s16xs16_7 1;
     mkUse FUNCUNIT_func_addsub_s32x2_slot1_extra 2; mkUse FUNCUNIT_func_addsub_s32x2_slot1_2 2;
     mkUse FUNCUNIT_func_addsub_s32x2_slot1_1 2; mkUse FUNCUNIT_func_addsub_s32x2_slot1_0 2;
     mkUse FUNCUNIT_func_addsub_s20x2_slot_end_0 2; mkUse FUNCUNIT_func_addsub_s20x2_slot_end_1 2;
     mkUse FUNCUNIT_func_addsub_s20x2_slot_end_2 2; mkUse FUNCUNIT_func_addsub_s20x2_slot_end_3 2;
     mkUse FUNCUNIT_func_addsub_s40x2_7 2; mkUse FUNCUNIT_func_addsub_s40x2_6 2;
     mkUse FUNCUNIT_func_addsub_s40x2_5 2; mkUse FUNCUNIT_func_addsub_s40x2_4 2;
     mkUse FUNCUNIT_func_addsub_s40x2_3 2; mkUse FUNCUNIT_func_addsub_s40x2_2 2;
     mkUse FUNCUNIT_func_addsub_s40x2_1 2; mkUse FUNCUNIT_func_addsub_s40x2_0 2;
     mkUse FUNCUNIT_func_shift_s16rs8_0 1; mkUse FUNCUNIT_func_shift_s16rs8_1 1;
     mkUse FUNCUNIT_func_shift_s16rs8_2 1; mkUse FUNCUNIT_func_shift_s16rs8_3 1;
     mkUse FUNCUNIT_func_shift_s16rs8_4 1; mkUse FUNCUNIT_func_shift_s16rs8_5 1;
     mkUse FUNCUNIT_func_shift_s16rs8_6 1; mkUse FUNCUNIT_func_shift_s16rs8_7 1;
     mkUse FUNCUNIT_func_shift_s16rs8_8 1; mkUse FUNCUNIT_func_shift_s16rs8_9 1;
     mkUse FUNCUNIT_func_shift_s16rs8_10 1; mkUse FUNCUNIT_func_shift_s16rs8_11 1;
     mkUse FUNCUNIT_func_shift_s16rs8_12 1; mkUse FUNCUNIT_func_shift_s16rs8_13 1;
     mkUse FUNCUNIT_func_shift_s16rs8_14 1; mkUse FUNCUNIT_func_shift_s16rs8_15 1;
     mkUse FUNCUNIT_func_shift_s32rs16_0 2; mkUse FUNCUNIT_func_shift_s32rs16_1 2;
     mkUse FUNCUNIT_func_shift_s32rs16_2 2; mkUse FUNCUNIT_func_shift_s32rs16_3 2;
     mkUse FUNCUNIT_func_shift_s32rs16_4 1; mkUse FUNCUNIT_func_shift_s32rs16_5 1;
     mkUse FUNCUNIT_func_shift_s32rs16_6 1; mkUse FUNCUNIT_func_shift_s32rs16_7 1])].

Definition s3_uses_49 : list (string * list xtensa_funcUnit_use) := [
  ("Opcode_ee_vmulas_u16_accx_ld_ip_qup_funcUnit_uses", [mkUse FUNCUNIT_func_addsub_s32x2_slot1_3 1;
     mkUse FUNCUNIT_func_addsub_s8x2_0 1; mkUse FUNCUNIT_func_addsub_s8x2_1 1;
     mkUse FUNCUNIT_func_addsub_s8x2_2 1; mkUse FUNCUNIT_func_addsub_s8x2_3 1;
     mkUse FUNCUNIT_func_addsub_s8x2_4 1; mkUse FUNCUNIT_func_addsub_s8x2_5 1;
     mkUse FUNCUNIT_func_addsub_s8x2_6 1; mkUse FUNCUNIT_func_addsub_s8x2_7 1;
     mkUse FUNCUNIT_func_addsub_s16x2_0 1; mkUse FUNCUNIT_func_addsub_s16x2_1 1;
     mkUse FUNCUNIT_func_addsub_s16x2_2 1; mkUse FUNCUNIT_func_addsub_s16x2_3 1;
     mkUse FUNCUNIT_func_addsub_s16x2_4 1; mkUse FUNCUNIT_func_addsub_s16x2_5 1;
     mkUse FUNCUNIT_func_addsub_s16x2_6 1; mkUse FUNCUNIT_func_addsub_s16x2_7 1;
     mkUse FUNCUNIT_func_addsub_s32x2_slot0_0 1; mkUse FUNCUNIT_func_addsub_s32x2_slot0_1 1;
     mkUse FUNCUNIT_func_addsub_s32x2_slot0_2 1; mkUse FUNCUNIT_func_addsub_s32x2_slot0_3 1;
     mkUse FUNCUNIT_func_mul_s8xs8_0 1; mkUse FUNCUNIT_func_mul_s8xs8_1 1;
     mkUse FUNCUNIT_func_mul_s8xs8_2 1; mkUse FUNCUNIT_func_mul_s8xs8_3 1;
     mkUse FUNCUNIT_func_mul_s8xs8_4 1; mkUse FUNCUNIT_func_mul_s8xs8_5 1;
     mkUse FUNCUNIT_func_mul_s8xs8_6 1; mkUse FUNCUNIT_func_mul_s8xs8_7 1;
     mkUse FUNCUNIT_func_mul_s16xs16_0 1; mkUse FUNCUNIT_func_mul_s16xs16_1 1;
     mkUse FUNCUNIT_func_mul_s16xs16_2 1; mkUse FUNCUNIT_func_mul_s16xs16_3 1;
     mkUse FUNCUNIT_func_mul_s16xs16_4 1; mkUse FUNCUNIT_func_mul_s16xs16_5 1;
     mkUse FUNCUNIT_func_mul_s16xs16_6 1; mkUse FUNCUNIT_func_mul_s16xs16_7 1;
     mkUse FUNCUNIT_func_addsub_s32x2_slot1_extra 2; mkUse FUNCUNIT_func_addsub_s32x2_slot1_2 2;
     mkUse FUNCUNIT_func_addsub_s32x2_slot1_1 2; mkUse FUNCUNIT_func_addsub_s32x2_slot1_0 2;
     mkUse FUNCUNIT_func_addsub_s20x2_slot_end_0 2; mkUse FUNCUNIT_func_addsub_s20x2_slot_end_1 2;
     mkUse FUNCUNIT_func_addsub_s20x2_slot_end_2 2; mkUse FUNCUNIT_func_addsub_s20x2_slot_end_3 2;
     mkUse FUNCUNIT_func_addsub_s40x2_7 2; mkUse FUNCUNIT_func_addsub_s40x2_6 2;
     mkUse FUNCUNIT_func_addsub_s40x2_5 2; mkUse FUNCUNIT_func_addsub_s40x2_4 2;
     mkUse FUNCUNIT_func_addsub_s40x2_3 2; mkUse FUNCUNIT_func_addsub_s40x2_2 2;
     mkUse FUNCUNIT_func_addsub_s40x2_1 2; mkUse FUNCUNIT_func_addsub_s40x2_0 2;
     mkUse FUNCUNIT_func_shift_s16rs8_0 1; mkUse FUNCUNIT_func_shift_s16rs8_1 1;
     mkUse FUNCUNIT_func_shift_s16rs8_2 1; mkUse FUNCUNIT_func_shift_s16rs8_3 1;
     mkUse FUNCUNIT_func_shift_s16rs8_4 1; mkUse FUNCUNIT_func_shift_s16rs8_5 1;
     mkUse FUNCUNIT_func_shift_s16rs8_6 1; mkUse FUNCUNIT_func_shift_s16rs8_7 1;
     mkUse FUNCUNIT_func_shift_s16rs8_8 1; mkUse FUNCUNIT_func_shift_s16rs8_9 1;
     mkUse FUNCUNIT_func_shift_s16rs8_10 1; mkUse FUNCUNIT_func_shift_s16rs8_11 1;
     mkUse FUNCUNIT_func_shift_s16rs8_12 1; mkUse FUNCUNIT_func_shift_s16rs8_13 1;
     mkUse FUNCUNIT_func_shift_s16rs8_14 1; mkUse FUNCUNIT_func_shift_s16rs8_15 1;
     mkUse FUNCUNIT_func_shift_s32rs16_0 2; mkUse FUNCUNIT_func_shift_s32rs16_1 2;
     mkUse FUNCUNIT_func_shift_s32rs16_2 2; mkUse FUNCUNIT_func_shift_s32rs16_3 2;
     mkUse FUNCUNIT_func_shift_s32rs16_4 1; mkUse FUNCUNIT_func_shift_s32rs16_5 1;
     mkUse FUNCUNIT_func_shift_s32rs16_6 1; mkUse FUNCUNIT_func_shift_s32rs16_7 1])].

Definition s3_uses_50 : list (string * list xtensa_funcUnit_use) := [
  ("Opcode_ee_vmulas_u16_accx_ld_ip_funcUnit_uses", [mkUse FUNCUNIT_func_addsub_s32x2_slot1_3 1;
     mkUse FUNCUNIT_func_addsub_s8x2_0 1; mkUse FUNCUNIT_func_addsub_s8x2_1 1;
     mkUse FUNCUNIT_func_addsub_s8x2_2 1; mkUse FUNCUNIT_func_addsub_s8x2_3 1;
     mkUse FUNCUNIT_func_addsub_s8x2_4 1; mkUse FUNCUNIT_func_addsub_s8x2_5 1;
     mkUse FUNCUNIT_func_addsub_s8x2_6 1; mkUse FUNCUNIT_func_addsub_s8x2_7 1;
     mkUse FUNCUNIT_func_addsub_s16x2_0 1; mkUse FUNCUNIT_func_addsub_s16x2_1 1;
     mkUse FUNCUNIT_func_addsub_s16x2_2 1; mkUse FUNCUNIT_func_addsub_s16x2_3 1;
     mkUse FUNCUNIT_func_addsub_s16x2_4 1; mkUse FUNCUNIT_func_addsub_s16x2_5 1;
     mkUse FUNCUNIT_func_addsub_s16x2_6 1; mkUse FUNCUNIT_func_addsub_s16x2_7 1;
     mkUse FUNCUNIT_func_addsub_s32x2_slot0_0 1; mkUse FUNCUNIT_func_addsub_s32x2_slot0_1 1;
     mkUse FUNCUNIT_func_addsub_s32x2_slot0_2 1; mkUse FUNCUNIT_func_addsub_s32x2_slot0_3 1;
     mkUse FUNCUNIT_func_mul_s8xs8_0 1; mkUse FUNCUNIT_func_mul_s8xs8_1 1;
     mkUse FUNCUNIT_func_mul_s8xs8_2 1; mkUse FUNCUNIT_func_mul_s8xs8_3 1;
     mkUse FUNCUNIT_func_mul_s8xs8_4 1; mkUse FUNCUNIT_func_mul_s8xs8_5 1;
     mkUse FUNCUNIT_func_mul_s8xs8_6 1; mkUse FUNCUNIT_func_mul_s8xs8_7 1;
     mkUse FUNCUNIT_func_mul_s16xs16_0 1; mkUse FUNCUNIT_func_mul_s16xs16_1 1;
     mkUse FUNCUNIT_func_mul_s16xs16_2 1; mkUse FUNCUNIT_func_mul_s16xs16_3 1;
     mkUse FUNCUNIT_func_mul_s16xs16_4 1; mkUse FUNCUNIT_func_mul_s16xs16_5 1;
     mkUse FUNCUNIT_func_mul_s16xs16_6 1; mkUse FUNCUNIT_func_mul_s16xs16_7 1;
     mkUse FUNCUNIT_func_addsub_s32x2_slot1_extra 2; mkUse FUNCUNIT_func_addsub_s32x2_slot1_2 2;
     mkUse FUNCUNIT_func_addsub_s32x2_slot1_1 2; mkUse FUNCUNIT_func_addsub_s32x2_slot1_0 2;
     mkUse FUNCUNIT_func_addsub_s20x2_slot_end_0 2; mkUse FUNCUNIT_func_addsub_s20x2_slot_end_1 2;
     mkUse FUNCUNIT_func_addsub_s20x2_slot_end_2 2; mkUse FUNCUNIT_func_addsub_s20x2_slot_end_3 2;
     mkUse FUNCUNIT_func_addsub_s40x2_7 2; mkUse FUNCUNIT_func_addsub_s40x2_6 2;
     mkUse FUNCUNIT_func_addsub_s40x2_5 2; mkUse FUNCUNIT_func_addsub_s40x2_4 2;
     mkUse FUNCUNIT_func_addsub_s40x2_3 2; mkUse FUNCUNIT_func_addsub_s40x2_2 2;
     mkUse FUNCUNIT_func_addsub_s40x2_1 2; mkUse FUNCUNIT_func_addsub_s40x2_0 2;
     mkUse FUNCUNIT_func_shift_s16rs8_0 1; mkUse FUNCUNIT_func_shift_s16rs8_1 1;
     mkUse FUNCUNIT_func_shift_s16rs8_2 1; mkUse FUNCUNIT_func_shift_s16rs8_3 1;
     mkUse FUNCUNIT_func_shift_s16rs8_4 1; mkUse FUNCUNIT_func_shift_s16rs8_5 1;
     mkUse FUNCUNIT_func_shift_s16rs8_6 1; mkUse FUNCUNIT_func_shift_s16rs8_7 1;
     mkUse FUNCUNIT_func_shift_s16rs8_8 1; mkUse FUNCUNIT_func_shift_s16rs8_9 1;
     mkUse FUNCUNIT_func_shift_s16rs8_10 1; mkUse FUNCUNIT_func_shift_s16rs8_11 1;
     mkUse FUNCUNIT_func_shift_s16rs8_12 1; mkUse FUNCUNIT_func_shift_s16rs8_13 1;
     mkUse FUNCUNIT_func_shift_s16rs8_14 1; mkUse FUNCUNIT_func_shift_s16rs8_15 1;
     mkUse FUNCUNIT_func_shift_s32rs16_0 2; mkUse FUNCUNIT_func_shift_s32rs16_1 2;
     mkUse FUNCUNIT_func_shift_s32rs16_2 2; mkUse FUNCUNIT_func_shift_s32rs16_3 2;
     mkUse FUNCUNIT_func_shift_s32rs16_4 1; mkUse FUNCUNIT_func_shift_s32rs16_5 1;
     mkUse FUNCUNIT_func_shift_s32rs16_6 1; mkUse FUNCUNIT_func_shift_s32rs16_7 1])].

Definition s3_uses_51 : list (string * list xtensa_funcUnit_use) := [
  ("Opcode_ee_vmulas_u16_accx_ld_xp_qup_funcUnit_uses", [mkUse FUNCUNIT_func_addsub_s32x2_slot1_3 1;
     mkUse FUNCUNIT_func_addsub_s8x2_0 1; mkUse FUNCUNIT_func_addsub_s8x2_1 1;
     mkUse FUNCUNIT_func_addsub_s8x2_2 1; mkUse FUNCUNIT_func_addsub_s8x2_3 1;
     mkUse FUNCUNIT_func_addsub_s8x2_4 1; mkUse FUNCUNIT_func_addsub_s8x2_5 1;
     mkUse FUNCUNIT_func_addsub_s8x2_6 1; mkUse FUNCUNIT_func_addsub_s8x2_7 1;
     mkUse FUNCUNIT_func_addsub_s16x2_0 1; mkUse FUNCUNIT_func_addsub_s16x2_1 1;
     mkUse FUNCUNIT_func_addsub_s16x2_2 1; mkUse FUNCUNIT_func_addsub_s16x2_3 1;
     mkUse FUNCUNIT_func_addsub_s16x2_4 1; mkUse FUNCUNIT_func_addsub_s16x2_5 1;
     mkUse FUNCUNIT_func_addsub_s16x2_6 1; mkUse FUNCUNIT_func_addsub_s16x2_7 1;
     mkUse FUNCUNIT_func_addsub_s32x2_slot0_0 1; mkUse FUNCUNIT_func_addsub_s32x2_slot0_1 1;
     mkUse FUNCUNIT_func_addsub_s32x2_slot0_2 1; mkUse FUNCUNIT_func_addsub_s32x2_slot0_3 1;
     mkUse FUNCUNIT_func_mul_s8xs8_0 1; mkUse FUNCUNIT_func_mul_s8xs8_1 1;
     mkUse FUNCUNIT_func_mul_s8xs8_2 1; mkUse FUNCUNIT_func_mul_s8xs8_3 1;
     mkUse FUNCUNIT_func_mul_s8xs8_4 1; mkUse FUNCUNIT_func_mul_s8xs8_5 1;
     mkUse FUNCUNIT_func_mul_s8xs8_6 1; mkUse FUNCUNIT_func_mul_s8xs8_7 1;
     mkUse FUNCUNIT_func_mul_s16xs16_0 1; mkUse FUNCUNIT_func_mul_s16xs16_1 1;
     mkUse FUNCUNIT_func_mul_s16xs16_2 1; mkUse FUNCUNIT_func_mul_s16xs16_3 1;
     mkUse FUNCUNIT_func_mul_s16xs16_4 1; mkUse FUNCUNIT_func_mul_s16xs16_5 1;
     mkUse FUNCUNIT_func_mul_s16xs16_6 1; mkUse FUNCUNIT_func_mul_s16xs16_7 1;
     mkUse FUNCUNIT_func_addsub_s32x2_slot1_extra 2; mkUse FUNCUNIT_func_addsub_s32x2_slot1_2 2;
     mkUse FUNCUNIT_func_addsub_s32x2_slot1_1 2; mkUse FUNCUNIT_func_addsub_s32x2_slot1_0 2;
     mkUse FUNCUNIT_func_addsub_s20x2_slot_end_0 2; mkUse FUNCUNIT_func_addsub_s20x2_slot_end_1 2;
     mkUse FUNCUNIT_func_addsub_s20x2_slot_end_2 2; mkUse FUNCUNIT_func_addsub_s20x2_slot_end_3 2;
     mkUse FUNCUNIT_func_addsub_s40x2_7 2; mkUse FUNCUNIT_func_addsub_s40x2_6 2;
     mkUse FUNCUNIT_func_addsub_s40x2_5 2; mkUse FUNCUNIT_func_addsub_s40x2_4 2;
     mkUse FUNCUNIT_func_addsub_s40x2_3 2; mkUse FUNCUNIT_func_addsub_s40x2_2 2;
     mkUse FUNCUNIT_func_addsub_s40x2_1 2; mkUse FUNCUNIT_func_addsub_s40x2_0 2;
     mkUse FUNCUNIT_func_shift_s16rs8_0 1; mkUse FUNCUNIT_func_shift_s16rs8_1 1;
     mkUse FUNCUNIT_func_shift_s16rs8_2 1; mkUse FUNCUNIT_func_shift_s16rs8_3 1;
     mkUse FUNCUNIT_func_shift_s16rs8_4 1; mkUse FUNCUNIT_func_shift_s16rs8_5 1;
     mkUse FUNCUNIT_func_shift_s16rs8_6 1; mkUse FUNCUNIT_func_shift_s16rs8_7 1;
     mkUse FUNCUNIT_func_shift_s16rs8_8 1; mkUse FUNCUNIT_func_shift_s16rs8_9 1;
     mkUse FUNCUNIT_func_shift_s16rs8_10 1; mkUse FUNCUNIT_func_shift_s16rs8_11 1;
     mkUse FUNCUNIT_func_shift_s16rs8_12 1; mkUse FUNCUNIT_func_shift_s16rs8_13 1;
     mkUse FUNCUNIT_func_shift_s16rs8_14 1; mkUse FUNCUNIT_func_shift_s16rs8_15 1;
     mkUse FUNCUNIT_func_shift_s32rs16_0 2; mkUse FUNCUNIT_func_shift_s32rs16_1 2;
     mkUse FUNCUNIT_func_shift_s32rs16_2 2; mkUse FUNCUNIT_func_shift_s32rs16_3 2;
     mkUse FUNCUNIT_func_shift_s32rs16_4 1; mkUse FUNCUNIT_func_shift_s32rs16_5 1;
     mkUse FUNCUNIT_func_shift_s32rs16_6 1; mkUse FUNCUNIT_func_shift_s32rs16_7 1])].

Definition s3_uses_52 : list (string * list xtensa_funcUnit_use) := [
  ("Opcode_ee_vmulas_u16_accx_ld_xp_funcUnit_uses", [mkUse FUNCUNIT_func_addsub_s32x2_slot1_3 1;
     mkUse FUNCUNIT_func_addsub_s8x2_0 1; mkUse FUNCUNIT_func_addsub_s8x2_1 1;
     mkUse FUNCUNIT_func_addsub_s8x2_2 1; mkUse FUNCUNIT_func_addsub_s8x2_3 1;
     mkUse FUNCUNIT_func_addsub_s8x2_4 1; mkUse FUNCUNIT_func_addsub_s8x2_5 1;
     mkUse FUNCUNIT_func_addsub_s8x2_6 1; mkUse FUNCUNIT_func_addsub_s8x2_7 1;
     mkUse FUNCUNIT_func_addsub_s16x2_0 1; mkUse FUNCUNIT_func_addsub_s16x2_1 1;
     mkUse FUNCUNIT_func_addsub_s16x2_2 1; mkUse FUNCUNIT_func_addsub_s16x2_3 1;
     mkUse FUNCUNIT_func_addsub_s16x2_4 1; mkUse FUNCUNIT_func_addsub_s16x2_5 1;
     mkUse FUNCUNIT_func_addsub_s16x2_6 1; mkUse FUNCUNIT_func_addsub_s16x2_7 1;
     mkUse FUNCUNIT_func_addsub_s32x2_slot0_0 1; mkUse FUNCUNIT_func_addsub_s32x2_slot0_1 1;
     mkUse FUNCUNIT_func_addsub_s32x2_slot0_2 1; mkUse FUNCUNIT_func_addsub_s32x2_slot0_3 1;
     mkUse FUNCUNIT_func_mul_s8xs8_0 1; mkUse FUNCUNIT_func_mul_s8xs8_1 1;
     mkUse FUNCUNIT_func_mul_s8xs8_2 1; mkUse FUNCUNIT_func_mul_s8xs8_3 1;
     mkUse FUNCUNIT_func_mul_s8xs8_4 1; mkUse FUNCUNIT_func_mul_s8xs8_5 1;
     mkUse FUNCUNIT_func_mul_s8xs8_6 1; mkUse FUNCUNIT_func_mul_s8xs8_7 1;
     mkUse FUNCUNIT_func_mul_s16xs16_0 1; mkUse FUNCUNIT_func_mul_s16xs16_1 1;
     mkUse FUNCUNIT_func_mul_s16xs16_2 1; mkUse FUNCUNIT_func_mul_s16xs16_3 1;
     mkUse FUNCUNIT_func_mul_s16xs16_4 1; mkUse FUNCUNIT_func_mul_s16xs16_5 1;
     mkUse FUNCUNIT_func_mul_s16xs16_6 1; mkUse FUNCUNIT_func_mul_s16xs16_7 1;
     mkUse FUNCUNIT_func_addsub_s32x2_slot1_extra 2; mkUse FUNCUNIT_func_addsub_s32x2_slot1_2 2;
     mkUse FUNCUNIT_func_addsub_s32x2_slot1_1 2; mkUse FUNCUNIT_func_addsub_s32x2_slot1_0 2;
     mkUse FUNCUNIT_func_addsub_s20x2_slot_end_0 2; mkUse FUNCUNIT_func_addsub_s20x2_slot_end_1 2;
     mkUse FUNCUNIT_func_addsub_s20x2_slot_end_2 2; mkUse FUNCUNIT_func_addsub_s20x2_slot_end_3 2;
     mkUse FUNCUNIT_func_addsub_s40x2_7 2; mkUse FUNCUNIT_func_addsub_s40x2_6 2;
     mkUse FUNCUNIT_func_addsub_s40x2_5 2; mkUse FUNCUNIT_func_addsub_s40x2_4 2;
     mkUse FUNCUNIT_func_addsub_s40x2_3 2; mkUse FUNCUNIT_func_addsub_s40x2_2 2;
     mkUse FUNCUNIT_func_addsub_s40x2_1 2; mkUse FUNCUNIT_func_addsub_s40x2_0 2;
     mkUse FUNCUNIT_func_shift_s16rs8_0 1; mkUse FUNCUNIT_func_shift_s16rs8_1 1;
     mkUse FUNCUNIT_func_shift_s16rs8_2 1; mkUse FUNCUNIT_func_shift_s16rs8_3 1;
     mkUse FUNCUNIT_func_shift_s16rs8_4 1; mkUse FUNCUNIT_func_shift_s16rs8_5 1;
     mkUse FUNCUNIT_func_shift_s16rs8_6 1; mkUse FUNCUNIT_func_shift_s16rs8_7 1;
     mkUse FUNCUNIT_func_shift_s16rs8_8 1; mkUse FUNCUNIT_func_shift_s16rs8_9 1;
     mkUse FUNCUNIT_func_shift_s16rs8_10 1; mkUse FUNCUNIT_func_shift_s16rs8_11 1;
     mkUse FUNCUNIT_func_shift_s16rs8_12 1; mkUse FUNCUNIT_func_shift_s16rs8_13 1;
     mkUse FUNCUNIT_func_shift_s16rs8_14 1; mkUse FUNCUNIT_func_shift_s16rs8_15 1;
     mkUse FUNCUNIT_func_shift_s32rs16_0 2; mkUse FUNCUNIT_func_shift_s32rs16_1 2;
     mkUse FUNCUNIT_func_shift_s32rs16_2 2; mkUse FUNCUNIT_func_shift_s32rs16_3 2;
     mkUse FUNCUNIT_func_shift_s32rs16_4 1; mkUse FUNCUNIT_func_shift_s32rs16_5 1;
     mkUse FUNCUNIT_func_shift_s32rs16_6 1; mkUse FUNCUNIT_func_shift_s32rs16_7 1])].

Definition s3_uses_53 : list (string * list xtensa_funcUnit_use) := [
  ("Opcode_ee_vmulas_u16_accx_funcUnit_uses", [mkUse FUNCUNIT_func_addsub_s32x2_slot1_3 1;
     mkUse FUNCUNIT_func_addsub_s8x2_0 1; mkUse FUNCUNIT_func_addsub_s8x2_1 1;
     mkUse FUNCUNIT_func_addsub_s8x2_2 1; mkUse FUNCUNIT_func_addsub_s8x2_3 1;
     mkUse FUNCUNIT_func_addsub_s8x2_4 1; mkUse FUNCUNIT_func_addsub_s8x2_5 1;
     mkUse FUNCUNIT_func_addsub_s8x2_6 1; mkUse FUNCUNIT_func_addsub_s8x2_7 1;
     mkUse FUNCUNIT_func_addsub_s16x2_0 1; mkUse FUNCUNIT_func_addsub_s16x2_1 1;
     mkUse FUNCUNIT_func_addsub_s16x2_2 1; mkUse FUNCUNIT_func_addsub_s16x2_3 1;
     mkUse FUNCUNIT_func_addsub_s16x2_4 1; mkUse FUNCUNIT_func_addsub_s16x2_5 1;
     mkUse FUNCUNIT_func_addsub_s16x2_6 1; mkUse FUNCUNIT_func_addsub_s16x2_7 1;
     mkUse FUNCUNIT_func_addsub_s32x2_slot0_0 1; mkUse FUNCUNIT_func_addsub_s32x2_slot0_1 1;
     mkUse FUNCUNIT_func_addsub_s32x2_slot0_2 1; mkUse FUNCUNIT_func_addsub_s32x2_slot0_3 1;
     mkUse FUNCUNIT_func_mul_s8xs8_0 1; mkUse FUNCUNIT_func_mul_s8xs8_1 1;
     mkUse FUNCUNIT_func_mul_s8xs8_2 1; mkUse FUNCUNIT_func_mul_s8xs8_3 1;
     mkUse FUNCUNIT_func_mul_s8xs8_4 1; mkUse FUNCUNIT_func_mul_s8xs8_5 1;
     mkUse FUNCUNIT_func_mul_s8xs8_6 1; mkUse FUNCUNIT_func_mul_s8xs8_7 1;
     mkUse FUNCUNIT_func_mul_s16xs16_0 1; mkUse FUNCUNIT_func_mul_s16xs16_1 1;
     mkUse FUNCUNIT_func_mul_s16xs16_2 1; mkUse FUNCUNIT_func_mul_s16xs16_3 1;
     mkUse FUNCUNIT_func_mul_s16xs16_4 1; mkUse FUNCUNIT_func_mul_s16xs16_5 1;
     mkUse FUNCUNIT_func_mul_s16xs16_6 1; mkUse FUNCUNIT_func_mul_s16xs16_7 1;
     mkUse FUNCUNIT_func_addsub_s32x2_slot1_extra 2; mkUse FUNCUNIT_func_addsub_s32x2_slot1_2 2;
     mkUse FUNCUNIT_func_addsub_s32x2_slot1_1 2; mkUse FUNCUNIT_func_addsub_s32x2_slot1_0 2;
     mkUse FUNCUNIT_func_addsub_s20x2_slot_end_0 2; mkUse FUNCUNIT_func_addsub_s20x2_slot_end_1 2;
     mkUse FUNCUNIT_func_addsub_s20x2_slot_end_2 2; mkUse FUNCUNIT_func_addsub_s20x2_slot_end_3 2;
     mkUse FUNCUNIT_func_addsub_s40x2_7 2; mkUse FUNCUNIT_func_addsub_s40x2_6 2;
     mkUse FUNCUNIT_func_addsub_s40x2_5 2; mkUse FUNCUNIT_func_addsub_s40x2_4 2;
     mkUse FUNCUNIT_func_addsub_s40x2_3 2; mkUse FUNCUNIT_func_addsub_s40x2_2 2;
     mkUse FUNCUNIT_func_addsub_s40x2_1 2; mkUse FUNCUNIT_func_addsub_s40x2_0 2;
     mkUse FUNCUNIT_func_shift_s16rs8_0 1; mkUse FUNCUNIT_func_shift_s16rs8_1 1;
     mkUse FUNCUNIT_func_shift_s16rs8_2 1; mkUse FUNCUNIT_func_shift_s16rs8_3 1;
     mkUse FUNCUNIT_func_shift_s16rs8_4 1; mkUse FUNCUNIT_func_shift_s16rs8_5 1;
     mkUse FUNCUNIT_func_shift_s16rs8_6 1; mkUse FUNCUNIT_func_shift_s16rs8_7 1;
     mkUse FUNCUNIT_func_shift_s16rs8_8 1; mkUse FUNCUNIT_func_shift_s16rs8_9 1;
     mkUse FUNCUNIT_func_shift_s16rs8_10 1; mkUse FUNCUNIT_func_shift_s16rs8_11 1;
     mkUse FUNCUNIT_func_shift_s16rs8_12 1; mkUse FUNCUNIT_func_shift_s16rs8_13 1;
     mkUse FUNCUNIT_func_shift_s16rs8_14 1; mkUse FUNCUNIT_func_shift_s16rs8_15 1;
     mkUse FUNCUNIT_func_shift_s32rs16_0 2; mkUse FUNCUNIT_func_shift_s32rs16_1 2;
     mkUse FUNCUNIT_func_shift_s32rs16_2 2; mkUse FUNCUNIT_func_shift_s32rs16_3 2;
     mkUse FUNCUNIT_func_shift_s32rs16_4 1; mkUse FUNCUNIT_func_shift_s32rs16_5 1;
     mkUse FUNCUNIT_func_shift_s32rs16_6 1; mkUse FUNCUNIT_func_shift_s32rs16_7 1])].

Definition s3_uses_54 : list (string * list xtensa_funcUnit_use) := [
  ("Opcode_ee_vmulas_u8_accx_ld_ip_qup_funcUnit_uses", [mkUse FUNCUNIT_func_addsub_s32x2_slot1_3 1;
     mkUse FUNCUNIT_func_addsub_s8x2_0 1; mkUse FUNCUNIT_func_addsub_s8x2_1 1;
     mkUse FUNCUNIT_func_addsub_s8x2_2 1; mkUse FUNCUNIT_func_addsub_s8x2_3 1;
     mkUse FUNCUNIT_func_addsub_s8x2_4 1; mkUse FUNCUNIT_func_addsub_s8x2_5 1;
     mkUse FUNCUNIT_func_addsub_s8x2_6 1; mkUse FUNCUNIT_func_addsub_s8x2_7 1;
     mkUse FUNCUNIT_func_addsub_s16x2_0 1; mkUse FUNCUNIT_func_addsub_s16x2_1 1;
     mkUse FUNCUNIT_func_addsub_s16x2_2 1; mkUse FUNCUNIT_func_addsub_s16x2_3 1;
     mkUse FUNCUNIT_func_addsub_s16x2_4 1; mkUse FUNCUNIT_func_addsub_s16x2_5 1;
     mkUse FUNCUNIT_func_addsub_s16x2_6 1; mkUse FUNCUNIT_func_addsub_s16x2_7 1;
     mkUse FUNCUNIT_func_addsub_s32x2_slot0_0 1; mkUse FUNCUNIT_func_addsub_s32x2_slot0_1 1;
     mkUse FUNCUNIT_func_addsub_s32x2_slot0_2 1; mkUse FUNCUNIT_func_addsub_s32x2_slot0_3 1;
     mkUse FUNCUNIT_func_mul_s8xs8_0 1; mkUse FUNCUNIT_func_mul_s8xs8_1 1;
     mkUse FUNCUNIT_func_mul_s8xs8_2 1; mkUse FUNCUNIT_func_mul_s8xs8_3 1;
     mkUse FUNCUNIT_func_mul_s8xs8_4 1; mkUse FUNCUNIT_func_mul_s8xs8_5 1;
     mkUse FUNCUNIT_func_mul_s8xs8_6 1; mkUse FUNCUNIT_func_mul_s8xs8_7 1;
     mkUse FUNCUNIT_func_mul_s16xs16_0 1; mkUse FUNCUNIT_func_mul_s16xs16_1 1;
     mkUse FUNCUNIT_func_mul_s16xs16_2 1; mkUse FUNCUNIT_func_mul_s16xs16_3 1;
     mkUse FUNCUNIT_func_mul_s16xs16_4 1; mkUse FUNCUNIT_func_mul_s16xs16_5 1;
     mkUse FUNCUNIT_func_mul_s16xs16_6 1; mkUse FUNCUNIT_func_mul_s16xs16_7 1;
     mkUse FUNCUNIT_func_addsub_s32x2_slot1_extra 2; mkUse FUNCUNIT_func_addsub_s32x2_slot1_2 2;
     mkUse FUNCUNIT_func_addsub_s32x2_slot1_1 2; mkUse FUNCUNIT_func_addsub_s32x2_slot1_0 2;
     mkUse FUNCUNIT_func_addsub_s20x2_slot_end_0 2; mkUse FUNCUNIT_func_addsub_s20x2_slot_end_1 2;
     mkUse FUNCUNIT_func_addsub_s20x2_slot_end_2 2; mkUse FUNCUNIT_func_addsub_s20x2_slot_end_3 2;
     mkUse FUNCUNIT_func_addsub_s40x2_7 2; mkUse FUNCUNIT_func_addsub_s40x2_6 2;
     mkUse FUNCUNIT_func_addsub_s40x2_5 2; mkUse FUNCUNIT_func_addsub_s40x2_4 2;
     mkUse FUNCUNIT_func_addsub_s40x2_3 2; mkUse FUNCUNIT_func_addsub_s40x2_2 2;
     mkUse FUNCUNIT_func_addsub_s40x2_1 2; mkUse FUNCUNIT_func_addsub_s40x2_0 2;
     mkUse FUNCUNIT_func_shift_s16rs8_0 1; mkUse FUNCUNIT_func_shift_s16rs8_1 1;
     mkUse FUNCUNIT_func_shift_s16rs8_2 1; mkUse FUNCUNIT_func_shift_s16rs8_3 1;
     mkUse FUNCUNIT_func_shift_s16rs8_4 1; mkUse FUNCUNIT_func_shift_s16rs8_5 1;
     mkUse FUNCUNIT_func_shift_s16rs8_6 1; mkUse FUNCUNIT_func_shift_s16rs8_7 1;
     mkUse FUNCUNIT_func_shift_s16rs8_8 1; mkUse FUNCUNIT_func_shift_s16rs8_9 1;
     mkUse FUNCUNIT_func_shift_s16rs8_10 1; mkUse FUNCUNIT_func_shift_s16rs8_11 1;
     mkUse FUNCUNIT_func_shift_s16rs8_12 1; mkUse FUNCUNIT_func_shift_s16rs8_13 1;
     mkUse FUNCUNIT_func_shift_s16rs8_14 1; mkUse FUNCUNIT_func_shift_s16rs8_15 1;
     mkUse FUNCUNIT_func_shift_s32rs16_0 2; mkUse FUNCUNIT_func_shift_s32rs16_1 2;
     mkUse FUNCUNIT_func_shift_s32rs16_2 2; mkUse FUNCUNIT_func_shift_s32rs16_3 2;
     mkUse FUNCUNIT_func_shift_s32rs16_4 1; mkUse FUNCUNIT_func_shift_s32rs16_5 1;
     mkUse FUNCUNIT_func_shift_s32rs16_6 1; mkUse FUNCUNIT_func_shift_s32rs16_7 1])].

Definition s3_uses_55 : list (string * list xtensa_funcUnit_use) := [
  ("Opcode_ee_vmulas_u8_accx_ld_ip_funcUnit_uses", [mkUse FUNCUNIT_func_addsub_s32x2_slot1_3 1;
     mkUse FUNCUNIT_func_addsub_s8x2_0 1; mkUse FUNCUNIT_func_addsub_s8x2_1 1;
     mkUse FUNCUNIT_func_addsub_s8x2_2 1; mkUse FUNCUNIT_func_addsub_s8x2_3 1;
     mkUse FUNCUNIT_func_addsub_s8x2_4 1; mkUse FUNCUNIT_func_addsub_s8x2_5 1;
     mkUse FUNCUNIT_func_addsub_s8x2_6 1; mkUse FUNCUNIT_func_addsub_s8x2_7 1;
     mkUse FUNCUNIT_func_addsub_s16x2_0 1; mkUse FUNCUNIT_func_addsub_s16x2_1 1;
     mkUse FUNCUNIT_func_addsub_s16x2_2 1; mkUse FUNCUNIT_func_addsub_s16x2_3 1;
     mkUse FUNCUNIT_func_addsub_s16x2_4 1; mkUse FUNCUNIT_func_addsub_s16x2_5 1;
     mkUse FUNCUNIT_func_addsub_s16x2_6 1; mkUse FUNCUNIT_func_addsub_s16x2_7 1;
     mkUse FUNCUNIT_func_addsub_s32x2_slot0_0 1; mkUse FUNCUNIT_func_addsub_s32x2_slot0_1 1;
     mkUse FUNCUNIT_func_addsub_s32x2_slot0_2 1; mkUse FUNCUNIT_func_addsub_s32x2_slot0_3 1;
     mkUse FUNCUNIT_func_mul_s8xs8_0 1; mkUse FUNCUNIT_func_mul_s8xs8_1 1;
     mkUse FUNCUNIT_func_mul_s8xs8_2 1; mkUse FUNCUNIT_func_mul_s8xs8_3 1;
     mkUse FUNCUNIT_func_mul_s8xs8_4 1; mkUse FUNCUNIT_func_mul_s8xs8_5 1;
     mkUse FUNCUNIT_func_mul_s8xs8_6 1; mkUse FUNCUNIT_func_mul_s8xs8_7 1;
     mkUse FUNCUNIT_func_mul_s16xs16_0 1; mkUse FUNCUNIT_func_mul_s16xs16_1 1;
     mkUse FUNCUNIT_func_mul_s16xs16_2 1; mkUse FUNCUNIT_func_mul_s16xs16_3 1;
     mkUse FUNCUNIT_func_mul_s16xs16_4 1; mkUse FUNCUNIT_func_mul_s16xs16_5 1;
     mkUse FUNCUNIT_func_mul_s16xs16_6 1; mkUse FUNCUNIT_func_mul_s16xs16_7 1;
     mkUse FUNCUNIT_func_addsub_s32x2_slot1_extra 2; mkUse FUNCUNIT_func_addsub_s32x2_slot1_2 2;
     mkUse FUNCUNIT_func_addsub_s32x2_slot1_1 2; mkUse FUNCUNIT_func_addsub_s32x2_slot1_0 2;
     mkUse FUNCUNIT_func_addsub_s20x2_slot_end_0 2; mkUse FUNCUNIT_func_addsub_s20x2_slot_end_1 2;
     mkUse FUNCUNIT_func_addsub_s20x2_slot_end_2 2; mkUse FUNCUNIT_func_addsub_s20x2_slot_end_3 2;
     mkUse FUNCUNIT_func_addsub_s40x2_7 2; mkUse FUNCUNIT_func_addsub_s40x2_6 2;
     mkUse FUNCUNIT_func_addsub_s40x2_5 2; mkUse FUNCUNIT_func_addsub_s40x2_4 2;
     mkUse FUNCUNIT_func_addsub_s40x2_3 2; mkUse FUNCUNIT_func_addsub_s40x2_2 2;
     mkUse FUNCUNIT_func_addsub_s40x2_1 2; mkUse FUNCUNIT_func_addsub_s40x2_0 2;
     mkUse FUNCUNIT_func_shift_s16rs8_0 1; mkUse FUNCUNIT_func_shift_s16rs8_1 1;
     mkUse FUNCUNIT_func_shift_s16rs8_2 1; mkUse FUNCUNIT_func_shift_s16rs8_3 1;
     mkUse FUNCUNIT_func_shift_s16rs8_4 1; mkUse FUNCUNIT_func_shift_s16rs8_5 1;
     mkUse FUNCUNIT_func_shift_s16rs8_6 1; mkUse FUNCUNIT_func_shift_s16rs8_7 1;
     mkUse FUNCUNIT_func_shift_s16rs8_8 1; mkUse FUNCUNIT_func_shift_s16rs8_9 1;
     mkUse FUNCUNIT_func_shift_s16rs8_10 1; mkUse FUNCUNIT_func_shift_s16rs8_11 1;
     mkUse FUNCUNIT_func_shift_s16rs8_12 1; mkUse FUNCUNIT_func_shift_s16rs8_13 1;
     mkUse FUNCUNIT_func_shift_s16rs8_14 1; mkUse FUNCUNIT_func_shift_s16rs8_15 1;
     mkUse FUNCUNIT_func_shift_s32rs16_0 2; mkUse FUNCUNIT_func_shift_s32rs16_1 2;
     mkUse FUNCUNIT_func_shift_s32rs16_2 2; mkUse FUNCUNIT_func_shift_s32rs16_3 2;
     mkUse FUNCUNIT_func_shift_s32rs16_4 1; mkUse FUNCUNIT_func_shift_s32rs16_5 1;
     mkUse FUNCUNIT_func_shift_s32rs16_6 1; mkUse FUNCUNIT_func_shift_s32rs16_7 1])].

Definition s3_uses_56 : list (string * list xtensa_funcUnit_use) := [
  ("Opcode_ee_vmulas_u8_accx_ld_xp_qup_funcUnit_uses", [mkUse FUNCUNIT_func_addsub_s32x2_slot1_3 1;
     mkUse FUNCUNIT_func_addsub_s8x2_0 1; mkUse FUNCUNIT_func_addsub_s8x2_1 1;
     mkUse FUNCUNIT_func_addsub_s8x2_2 1; mkUse FUNCUNIT_func_addsub_s8x2_3 1;
     mkUse FUNCUNIT_func_addsub_s8x2_4 1; mkUse FUNCUNIT_func_addsub_s8x2_5 1;
     mkUse FUNCUNIT_func_addsub_s8x2_6 1; mkUse FUNCUNIT_func_addsub_s8x2_7 1;
     mkUse FUNCUNIT_func_addsub_s16x2_0 1; mkUse FUNCUNIT_func_addsub_s16x2_1 1;
     mkUse FUNCUNIT_func_addsub_s16x2_2 1; mkUse FUNCUNIT_func_addsub_s16x2_3 1;
     mkUse FUNCUNIT_func_addsub_s16x2_4 1; mkUse FUNCUNIT_func_addsub_s16x2_5 1;
     mkUse FUNCUNIT_func_addsub_s16x2_6 1; mkUse FUNCUNIT_func_addsub_s16x2_7 1;
     mkUse FUNCUNIT_func_addsub_s32x2_slot0_0 1; mkUse FUNCUNIT_func_addsub_s32x2_slot0_1 1;
     mkUse FUNCUNIT_func_addsub_s32x2_slot0_2 1; mkUse FUNCUNIT_func_addsub_s32x2_slot0_3 1;
     mkUse FUNCUNIT_func_mul_s8xs8_0 1; mkUse FUNCUNIT_func_mul_s8xs8_1 1;
     mkUse FUNCUNIT_func_mul_s8xs8_2 1; mkUse FUNCUNIT_func_mul_s8xs8_3 1;
     mkUse FUNCUNIT_func_mul_s8xs8_4 1; mkUse FUNCUNIT_func_mul_s8xs8_5 1;
     mkUse FUNCUNIT_func_mul_s8xs8_6 1; mkUse FUNCUNIT_func_mul_s8xs8_7 1;
     mkUse FUNCUNIT_func_mul_s16xs16_0 1; mkUse FUNCUNIT_func_mul_s16xs16_1 1;
     mkUse FUNCUNIT_func_mul_s16xs16_2 1; mkUse FUNCUNIT_func_mul_s16xs16_3 1;
     mkUse FUNCUNIT_func_mul_s16xs16_4 1; mkUse FUNCUNIT_func_mul_s16xs16_5 1;
     mkUse FUNCUNIT_func_mul_s16xs16_6 1; mkUse FUNCUNIT_func_mul_s16xs16_7 1;
     mkUse FUNCUNIT_func_addsub_s32x2_slot1_extra 2; mkUse FUNCUNIT_func_addsub_s32x2_slot1_2 2;
     mkUse FUNCUNIT_func_addsub_s32x2_slot1_1 2; mkUse FUNCUNIT_func_addsub_s32x2_slot1_0 2;
     mkUse FUNCUNIT_func_addsub_s20x2_slot_end_0 2; mkUse FUNCUNIT_func_addsub_s20x2_slot_end_1 2;
     mkUse FUNCUNIT_func_addsub_s20x2_slot_end_2 2; mkUse FUNCUNIT_func_addsub_s20x2_slot_end_3 2;
     mkUse FUNCUNIT_func_addsub_s40x2_7 2; mkUse FUNCUNIT_func_addsub_s40x2_6 2;
     mkUse FUNCUNIT_func_addsub_s40x2_5 2; mkUse FUNCUNIT_func_addsub_s40x2_4 2;
     mkUse FUNCUNIT_func_addsub_s40x2_3 2; mkUse FUNCUNIT_func_addsub_s40x2_2 2;
     mkUse FUNCUNIT_func_addsub_s40x2_1 2; mkUse FUNCUNIT_func_addsub_s40x2_0 2;
     mkUse FUNCUNIT_func_shift_s16rs8_0 1; mkUse FUNCUNIT_func_shift_s16rs8_1 1;
     mkUse FUNCUNIT_func_shift_s16rs8_2 1; mkUse FUNCUNIT_func_shift_s16rs8_3 1;
     mkUse FUNCUNIT_func_shift_s16rs8_4 1; mkUse FUNCUNIT_func_shift_s16rs8_5 1;
     mkUse FUNCUNIT_func_shift_s16rs8_6 1; mkUse FUNCUNIT_func_shift_s16rs8_7 1;
     mkUse FUNCUNIT_func_shift_s16rs8_8 1; mkUse FUNCUNIT_func_shift_s16rs8_9 1;
     mkUse FUNCUNIT_func_shift_s16rs8_10 1; mkUse FUNCUNIT_func_shift_s16rs8_11 1;
     mkUse FUNCUNIT_func_shift_s16rs8_12 1; mkUse FUNCUNIT_func_shift_s16rs8_13 1;
     mkUse FUNCUNIT_func_shift_s16rs8_14 1; mkUse FUNCUNIT_func_shift_s16rs8_15 1;
     mkUse FUNCUNIT_func_shift_s32rs16_0 2; mkUse FUNCUNIT_func_shift_s32rs16_1 2;
     mkUse FUNCUNIT_func_shift_s32rs16_2 2; mkUse FUNCUNIT_func_shift_s32rs16_3 2;
     mkUse FUNCUNIT_func_shift_s32rs16_4 1; mkUse FUNCUNIT_func_shift_s32rs16_5 1;
     mkUse FUNCUNIT_func_shift_s32rs16_6 1; mkUse FUNCUNIT_func_shift_s32rs16_7 1])].

Definition s3_uses_57 : list (string * list xtensa_funcUnit_use) := [
  ("Opcode_ee_vmulas_u8_accx_ld_xp_funcUnit_uses", [mkUse FUNCUNIT_func_addsub_s32x2_slot1_3 1;
     mkUse FUNCUNIT_func_addsub_s8x2_0 1; mkUse FUNCUNIT_func_addsub_s8x2_1 1;
     mkUse FUNCUNIT_func_addsub_s8x2_2 1; mkUse FUNCUNIT_func_addsub_s8x2_3 1;
     mkUse FUNCUNIT_func_addsub_s8x2_4 1; mkUse FUNCUNIT_func_addsub_s8x2_5 1;
     mkUse FUNCUNIT_func_addsub_s8x2_6 1; mkUse FUNCUNIT_func_addsub_s8x2_7 1;
     mkUse FUNCUNIT_func_addsub_s16x2_0 1; mkUse FUNCUNIT_func_addsub_s16x2_1 1;
     mkUse FUNCUNIT_func_addsub_s16x2_2 1; mkUse FUNCUNIT_func_addsub_s16x2_3 1;
     mkUse FUNCUNIT_func_addsub_s16x2_4 1; mkUse FUNCUNIT_func_addsub_s16x2_5 1;
     mkUse FUNCUNIT_func_addsub_s16x2_6 1; mkUse FUNCUNIT_func_addsub_s16x2_7 1;
     mkUse FUNCUNIT_func_addsub_s32x2_slot0_0 1; mkUse FUNCUNIT_func_addsub_s32x2_slot0_1 1;
     mkUse FUNCUNIT_func_addsub_s32x2_slot0_2 1; mkUse FUNCUNIT_func_addsub_s32x2_slot0_3 1;
     mkUse FUNCUNIT_func_mul_s8xs8_0 1; mkUse FUNCUNIT_func_mul_s8xs8_1 1;
     mkUse FUNCUNIT_func_mul_s8xs8_2 1; mkUse FUNCUNIT_func_mul_s8xs8_3 1;
     mkUse FUNCUNIT_func_mul_s8xs8_4 1; mkUse FUNCUNIT_func_mul_s8xs8_5 1;
     mkUse FUNCUNIT_func_mul_s8xs8_6 1; mkUse FUNCUNIT_func_mul_s8xs8_7 1;
     mkUse FUNCUNIT_func_mul_s16xs16_0 1; mkUse FUNCUNIT_func_mul_s16xs16_1 1;
     mkUse FUNCUNIT_func_mul_s16xs16_2 1; mkUse FUNCUNIT_func_mul_s16xs16_3 1;
     mkUse FUNCUNIT_func_mul_s16xs16_4 1; mkUse FUNCUNIT_func_mul_s16xs16_5 1;
     mkUse FUNCUNIT_func_mul_s16xs16_6 1; mkUse FUNCUNIT_func_mul_s16xs16_7 1;
     mkUse FUNCUNIT_func_addsub_s32x2_slot1_extra 2; mkUse FUNCUNIT_func_addsub_s32x2_slot1_2 2;
     mkUse FUNCUNIT_func_addsub_s32x2_slot1_1 2; mkUse FUNCUNIT_func_addsub_s32x2_slot1_0 2;
     mkUse FUNCUNIT_func_addsub_s20x2_slot_end_0 2; mkUse FUNCUNIT_func_addsub_s20x2_slot_end_1 2;
     mkUse FUNCUNIT_func_addsub_s20x2_slot_end_2 2; mkUse FUNCUNIT_func_addsub_s20x2_slot_end_3 2;
     mkUse FUNCUNIT_func_addsub_s40x2_7 2; mkUse FUNCUNIT_func_addsub_s40x2_6 2;
     mkUse FUNCUNIT_func_addsub_s40x2_5 2; mkUse FUNCUNIT_func_addsub_s40x2_4 2;
     mkUse FUNCUNIT_func_addsub_s40x2_3 2; mkUse FUNCUNIT_func_addsub_s40x2_2 2;
     mkUse FUNCUNIT_func_addsub_s40x2_1 2; mkUse FUNCUNIT_func_addsub_s40x2_0 2;
     mkUse FUNCUNIT_func_shift_s16rs8_0 1; mkUse FUNCUNIT_func_shift_s16rs8_1 1;
     mkUse FUNCUNIT_func_shift_s16rs8_2 1; mkUse FUNCUNIT_func_shift_s16rs8_3 1;
     mkUse FUNCUNIT_func_shift_s16rs8_4 1; mkUse FUNCUNIT_func_shift_s16rs8_5 1;
     mkUse FUNCUNIT_func_shift_s16rs8_6 1; mkUse FUNCUNIT_func_shift_s16rs8_7 1;
     mkUse FUNCUNIT_func_shift_s16rs8_8 1; mkUse FUNCUNIT_func_shift_s16rs8_9 1;
     mkUse FUNCUNIT_func_shift_s16rs8_10 1; mkUse FUNCUNIT_func_shift_s16rs8_11 1;
     mkUse FUNCUNIT_func_shift_s16rs8_12 1; mkUse FUNCUNIT_func_shift_s16rs8_13 1;
     mkUse FUNCUNIT_func_shift_s16rs8_14 1; mkUse FUNCUNIT_func_shift_s16rs8_15 1;
     mkUse FUNCUNIT_func_shift_s32rs16_0 2; mkUse FUNCUNIT_func_shift_s32rs16_1 2;
     mkUse FUNCUNIT_func_shift_s32rs16_2 2; mkUse FUNCUNIT_func_shift_s32rs16_3 2;
     mkUse FUNCUNIT_func_shift_s32rs16_4 1; mkUse FUNCUNIT_func_shift_s32rs16_5 1;
     mkUse FUNCUNIT_func_shift_s32rs16_6 1; mkUse FUNCUNIT_func_shift_s32rs16_7 1])].

Definition s3_uses_58 : list (string * list xtensa_funcUnit_use) := [
  ("Opcode_ee_vmulas_u8_accx_funcUnit_uses", [mkUse FUNCUNIT_func_addsub_s32x2_slot1_3 1;
     mkUse FUNCUNIT_func_addsub_s8x2_0 1; mkUse FUNCUNIT_func_addsub_s8x2_1 1;
     mkUse FUNCUNIT_func_addsub_s8x2_2 1; mkUse FUNCUNIT_func_addsub_s8x2_3 1;
     mkUse FUNCUNIT_func_addsub_s8x2_4 1; mkUse FUNCUNIT_func_addsub_s8x2_5 1;
     mkUse FUNCUNIT_func_addsub_s8x2_6 1; mkUse FUNCUNIT_func_addsub_s8x2_7 1;
     mkUse FUNCUNIT_func_addsub_s16x2_0 1; mkUse FUNCUNIT_func_addsub_s16x2_1 1;
     mkUse FUNCUNIT_func_addsub_s16x2_2 1; mkUse FUNCUNIT_func_addsub_s16x2_3 1;
     mkUse FUNCUNIT_func_addsub_s16x2_4 1; mkUse FUNCUNIT_func_addsub_s16x2_5 1;
     mkUse FUNCUNIT_func_addsub_s16x2_6 1; mkUse FUNCUNIT_func_addsub_s16x2_7 1;
     mkUse FUNCUNIT_func_addsub_s32x2_slot0_0 1; mkUse FUNCUNIT_func_addsub_s32x2_slot0_1 1;
     mkUse FUNCUNIT_func_addsub_s32x2_slot0_2 1; mkUse FUNCUNIT_func_addsub_s32x2_slot0_3 1;
     mkUse FUNCUNIT_func_mul_s8xs8_0 1; mkUse FUNCUNIT_func_mul_s8xs8_1 1;
     mkUse FUNCUNIT_func_mul_s8xs8_2 1; mkUse FUNCUNIT_func_mul_s8xs8_3 1;
     mkUse FUNCUNIT_func_mul_s8xs8_4 1; mkUse FUNCUNIT_func_mul_s8xs8_5 1;
     mkUse FUNCUNIT_func_mul_s8xs8_6 1; mkUse FUNCUNIT_func_mul_s8xs8_7 1;
     mkUse FUNCUNIT_func_mul_s16xs16_0 1; mkUse FUNCUNIT_func_mul_s16xs16_1 1;
     mkUse FUNCUNIT_func_mul_s16xs16_2 1; mkUse FUNCUNIT_func_mul_s16xs16_3 1;
     mkUse FUNCUNIT_func_mul_s16xs16_4 1; mkUse FUNCUNIT_func_mul_s16xs16_5 1;
     mkUse FUNCUNIT_func_mul_s16xs16_6 1; mkUse FUNCUNIT_func_mul_s16xs16_7 1;
     mkUse FUNCUNIT_func_addsub_s32x2_slot1_extra 2; mkUse FUNCUNIT_func_addsub_s32x2_slot1_2 2;
     mkUse FUNCUNIT_func_addsub_s32x2_slot1_1 2; mkUse FUNCUNIT_func_addsub_s32x2_slot1_0 2;
     mkUse FUNCUNIT_func_addsub_s20x2_slot_end_0 2; mkUse FUNCUNIT_func_addsub_s20x2_slot_end_1 2;
     mkUse FUNCUNIT_func_addsub_s20x2_slot_end_2 2; mkUse FUNCUNIT_func_addsub_s20x2_slot_end_3 2;
     mkUse FUNCUNIT_func_addsub_s40x2_7 2; mkUse FUNCUNIT_func_addsub_s40x2_6 2;
     mkUse FUNCUNIT_func_addsub_s40x2_5 2; mkUse FUNCUNIT_func_addsub_s40x2_4 2;
     mkUse FUNCUNIT_func_addsub_s40x2_3 2; mkUse FUNCUNIT_func_addsub_s40x2_2 2;
     mkUse FUNCUNIT_func_addsub_s40x2_1 2; mkUse FUNCUNIT_func_addsub_s40x2_0 2;
     mkUse FUNCUNIT_func_shift_s16rs8_0 1; mkUse FUNCUNIT_func_shift_s16rs8_1 1;
     mkUse FUNCUNIT_func_shift_s16rs8_2 1; mkUse FUNCUNIT_func_shift_s16rs8_3 1;
     mkUse FUNCUNIT_func_shift_s16rs8_4 1; mkUse FUNCUNIT_func_shift_s16rs8_5 1;
     mkUse FUNCUNIT_func_shift_s16rs8_6 1; mkUse FUNCUNIT_func_shift_s16rs8_7 1;
     mkUse FUNCUNIT_func_shift_s16rs8_8 1; mkUse FUNCUNIT_func_shift_s16rs8_9 1;
     mkUse FUNCUNIT_func_shift_s16rs8_10 1; mkUse FUNCUNIT_func_shift_s16rs8_11 1;
     mkUse FUNCUNIT_func_shift_s16rs8_12 1; mkUse FUNCUNIT_func_shift_s16rs8_13 1;
     mkUse FUNCUNIT_func_shift_s16rs8_14 1; mkUse FUNCUNIT_func_shift_s16rs8_15 1;
     mkUse FUNCUNIT_func_shift_s32rs16_0 2; mkUse FUNCUNIT_func_shift_s32rs16_1 2;
     mkUse FUNCUNIT_func_shift_s32rs16_2 2; mkUse FUNCUNIT_func_shift_s32rs16_3 2;
     mkUse FUNCUNIT_func_shift_s32rs16_4 1; mkUse FUNCUNIT_func_shift_s32rs16_5 1;
     mkUse FUNCUNIT_func_shift_s32rs16_6 1; mkUse FUNCUNIT_func_shift_s32rs16_7 1])].

Definition s3_uses_59 : list (string * list xtensa_funcUnit_use) := [
  ("Opcode_ee_vmulas_s16_qacc_ldbc_incp_qup_funcUnit_uses", [mkUse FUNCUNIT_func_addsub_s32x2_slot1_3 1;
     mkUse FUNCUNIT_func_addsub_s8x2_0 1; mkUse FUNCUNIT_func_addsub_s8x2_1 1;
     mkUse FUNCUNIT_func_addsub_s8x2_2 1; mkUse FUNCUNIT_func_addsub_s8x2_3 1;
     mkUse FUNCUNIT_func_addsub_s8x2_4 1; mkUse FUNCUNIT_func_addsub_s8x2_5 1;
     mkUse FUNCUNIT_func_addsub_s8x2_6 1; mkUse FUNCUNIT_func_addsub_s8x2_7 1;
     mkUse FUNCUNIT_func_addsub_s16x2_0 1; mkUse FUNCUNIT_func_addsub_s16x2_1 1;
     mkUse FUNCUNIT_func_addsub_s16x2_2 1; mkUse FUNCUNIT_func_addsub_s16x2_3 1;
     mkUse FUNCUNIT_func_addsub_s16x2_4 1; mkUse FUNCUNIT_func_addsub_s16x2_5 1;
     mkUse FUNCUNIT_func_addsub_s16x2_6 1; mkUse FUNCUNIT_func_addsub_s16x2_7 1;
     mkUse FUNCUNIT_func_addsub_s32x2_slot0_0 1; mkUse FUNCUNIT_func_addsub_s32x2_slot0_1 1;
     mkUse FUNCUNIT_func_addsub_s32x2_slot0_2 1; mkUse FUNCUNIT_func_addsub_s32x2_slot0_3 1;
     mkUse FUNCUNIT_func_mul_s8xs8_0 1; mkUse FUNCUNIT_func_mul_s8xs8_1 1;
     mkUse FUNCUNIT_func_mul_s8xs8_2 1; mkUse FUNCUNIT_func_mul_s8xs8_3 1;
     mkUse FUNCUNIT_func_mul_s8xs8_4 1; mkUse FUNCUNIT_func_mul_s8xs8_5 1;
     mkUse FUNCUNIT_func_mul_s8xs8_6 1; mkUse FUNCUNIT_func_mul_s8xs8_7 1;
     mkUse FUNCUNIT_func_mul_s16xs16_0 1; mkUse FUNCUNIT_func_mul_s16xs16_1 1;
     mkUse FUNCUNIT_func_mul_s16xs16_2 1; mkUse FUNCUNIT_func_mul_s16xs16_3 1;
     mkUse FUNCUNIT_func_mul_s16xs16_4 1; mkUse FUNCUNIT_func_mul_s16xs16_5 1;
     mkUse FUNCUNIT_func_mul_s16xs16_6 1; mkUse FUNCUNIT_func_mul_s16xs16_7 1;
     mkUse FUNCUNIT_func_addsub_s32x2_slot1_extra 2; mkUse FUNCUNIT_func_addsub_s32x2_slot1_2 2;
     mkUse FUNCUNIT_func_addsub_s32x2_slot1_1 2; mkUse FUNCUNIT_func_addsub_s32x2_slot1_0 2;
     mkUse FUNCUNIT_func_addsub_s20x2_slot_end_0 2; mkUse FUNCUNIT_func_addsub_s20x2_slot_end_1 2;
     mkUse FUNCUNIT_func_addsub_s20x2_slot_end_2 2; mkUse FUNCUNIT_func_addsub_s20x2_slot_end_3 2;
     mkUse FUNCUNIT_func_addsub_s40x2_7 2; mkUse FUNCUNIT_func_addsub_s40x2_6 2;
     mkUse FUNCUNIT_func_addsub_s40x2_5 2; mkUse FUNCUNIT_func_addsub_s40x2_4 2;
     mkUse FUNCUNIT_func_addsub_s40x2_3 2; mkUse FUNCUNIT_func_addsub_s40x2_2 2;
     mkUse FUNCUNIT_func_addsub_s40x2_1 2; mkUse FUNCUNIT_func_addsub_s40x2_0 2;
     mkUse FUNCUNIT_func_shift_s16rs8_0 1; mkUse FUNCUNIT_func_shift_s16rs8_1 1;
     mkUse FUNCUNIT_func_shift_s16rs8_2 1; mkUse FUNCUNIT_func_shift_s16rs8_3 1;
     mkUse FUNCUNIT_func_shift_s16rs8_4 1; mkUse FUNCUNIT_func_shift_s16rs8_5 1;
     mkUse FUNCUNIT_func_shift_s16rs8_6 1; mkUse FUNCUNIT_func_shift_s16rs8_7 1;
     mkUse FUNCUNIT_func_shift_s16rs8_8 1; mkUse FUNCUNIT_func_shift_s16rs8_9 1;
     mkUse FUNCUNIT_func_shift_s16rs8_10 1; mkUse FUNCUNIT_func_shift_s16rs8_11 1;
     mkUse FUNCUNIT_func_shift_s16rs8_12 1; mkUse FUNCUNIT_func_shift_s16rs8_13 1;
     mkUse FUNCUNIT_func_shift_s16rs8_14 1; mkUse FUNCUNIT_func_shift_s16rs8_15 1;
     mkUse FUNCUNIT_func_shift_s32rs16_0 2; mkUse FUNCUNIT_func_shift_s32rs16_1 2;
     mkUse FUNCUNIT_func_shift_s32rs16_2 2; mkUse FUNCUNIT_func_shift_s32rs16_3 2;
     mkUse FUNCUNIT_func_shift_s32rs16_4 1; mkUse FUNCUNIT_func_shift_s32rs16_5 1;
     mkUse FUNCUNIT_func_shift_s32rs16_6 1; mkUse FUNCUNIT_func_shift_s32rs16_7 1])].

Definition s3_uses_60 : list (string * list xtensa_funcUnit_use) := [
  ("Opcode_ee_vmulas_s16_qacc_ldbc_incp_funcUnit_uses", [mkUse FUNCUNIT_func_addsub_s32x2_slot1_3 1;
     mkUse FUNCUNIT_func_addsub_s8x2_0 1; mkUse FUNCUNIT_func_addsub_s8x2_1 1;
     mkUse FUNCUNIT_func_addsub_s8x2_2 1; mkUse FUNCUNIT_func_addsub_s8x2_3 1;
     mkUse FUNCUNIT_func_addsub_s8x2_4 1; mkUse FUNCUNIT_func_addsub_s8x2_5 1;
     mkUse FUNCUNIT_func_addsub_s8x2_6 1; mkUse FUNCUNIT_func_addsub_s8x2_7 1;
     mkUse FUNCUNIT_func_addsub_s16x2_0 1; mkUse FUNCUNIT_func_addsub_s16x2_1 1;
     mkUse FUNCUNIT_func_addsub_s16x2_2 1; mkUse FUNCUNIT_func_addsub_s16x2_3 1;
     mkUse FUNCUNIT_func_addsub_s16x2_4 1; mkUse FUNCUNIT_func_addsub_s16x2_5 1;
     mkUse FUNCUNIT_func_addsub_s16x2_6 1; mkUse FUNCUNIT_func_addsub_s16x2_7 1;
     mkUse FUNCUNIT_func_addsub_s32x2_slot0_0 1; mkUse FUNCUNIT_func_addsub_s32x2_slot0_1 1;
     mkUse FUNCUNIT_func_addsub_s32x2_slot0_2 1; mkUse FUNCUNIT_func_addsub_s32x2_slot0_3 1;
     mkUse FUNCUNIT_func_mul_s8xs8_0 1; mkUse FUNCUNIT_func_mul_s8xs8_1 1;
     mkUse FUNCUNIT_func_mul_s8xs8_2 1; mkUse FUNCUNIT_func_mul_s8xs8_3 1;
     mkUse FUNCUNIT_func_mul_s8xs8_4 1; mkUse FUNCUNIT_func_mul_s8xs8_5 1;
     mkUse FUNCUNIT_func_mul_s8xs8_6 1; mkUse FUNCUNIT_func_mul_s8xs8_7 1;
     mkUse FUNCUNIT_func_mul_s16xs16_0 1; mkUse FUNCUNIT_func_mul_s16xs16_1 1;
     mkUse FUNCUNIT_func_mul_s16xs16_2 1; mkUse FUNCUNIT_func_mul_s16xs16_3 1;
     mkUse FUNCUNIT_func_mul_s16xs16_4 1; mkUse FUNCUNIT_func_mul_s16xs16_5 1;
     mkUse FUNCUNIT_func_mul_s16xs16_6 1; mkUse FUNCUNIT_func_mul_s16xs16_7 1;
     mkUse FUNCUNIT_func_addsub_s32x2_slot1_extra 2; mkUse FUNCUNIT_func_addsub_s32x2_slot1_2 2;
     mkUse FUNCUNIT_func_addsub_s32x2_slot1_1 2; mkUse FUNCUNIT_func_addsub_s32x2_slot1_0 2;
     mkUse FUNCUNIT_func_addsub_s20x2_slot_end_0 2; mkUse FUNCUNIT_func_addsub_s20x2_slot_end_1 2;
     mkUse FUNCUNIT_func_addsub_s20x2_slot_end_2 2; mkUse FUNCUNIT_func_addsub_s20x2_slot_end_3 2;
     mkUse FUNCUNIT_func_addsub_s40x2_7 2; mkUse FUNCUNIT_func_addsub_s40x2_6 2;
     mkUse FUNCUNIT_func_addsub_s40x2_5 2; mkUse FUNCUNIT_func_addsub_s40x2_4 2;
     mkUse FUNCUNIT_func_addsub_s40x2_3 2; mkUse FUNCUNIT_func_addsub_s40x2_2 2;
     mkUse FUNCUNIT_func_addsub_s40x2_1 2; mkUse FUNCUNIT_func_addsub_s40x2_0 2;
     mkUse FUNCUNIT_func_shift_s16rs8_0 1; mkUse FUNCUNIT_func_shift_s16rs8_1 1;
     mkUse FUNCUNIT_func_shift_s16rs8_2 1; mkUse FUNCUNIT_func_shift_s16rs8_3 1;
     mkUse FUNCUNIT_func_shift_s16rs8_4 1; mkUse FUNCUNIT_func_shift_s16rs8_5 1;
     mkUse FUNCUNIT_func_shift_s16rs8_6 1; mkUse FUNCUNIT_func_shift_s16rs8_7 1;
     mkUse FUNCUNIT_func_shift_s16rs8_8 1; mkUse FUNCUNIT_func_shift_s16rs8_9 1;
     mkUse FUNCUNIT_func_shift_s16rs8_10 1; mkUse FUNCUNIT_func_shift_s16rs8_11 1;
     mkUse FUNCUNIT_func_shift_s16rs8_12 1; mkUse FUNCUNIT_func_shift_s16rs8_13 1;
     mkUse FUNCUNIT_func_shift_s16rs8_14 1; mkUse FUNCUNIT_func_shift_s16rs8_15 1;
     mkUse FUNCUNIT_func_shift_s32rs16_0 2; mkUse FUNCUNIT_func_shift_s32rs16_1 2;
     mkUse FUNCUNIT_func_shift_s32rs16_2 2; mkUse FUNCUNIT_func_shift_s32rs16_3 2;
     mkUse FUNCUNIT_func_shift_s32rs16_4 1; mkUse FUNCUNIT_func_shift_s32rs16_5 1;
     mkUse FUNCUNIT_func_shift_s32rs16_6 1; mkUse FUNCUNIT_func_shift_s32rs16_7 1])].

Definition s3_uses_61 : list (string * list xtensa_funcUnit_use) := [
  ("Opcode_ee_vmulas_s16_qacc_ld_ip_qup_funcUnit_uses", [mkUse FUNCUNIT_func_addsub_s32x2_slot1_3 1;
     mkUse FUNCUNIT_func_addsub_s8x2_0 1; mkUse FUNCUNIT_func_addsub_s8x2_1 1;
     mkUse FUNCUNIT_func_addsub_s8x2_2 1; mkUse FUNCUNIT_func_addsub_s8x2_3 1;
     mkUse FUNCUNIT_func_addsub_s8x2_4 1; mkUse FUNCUNIT_func_addsub_s8x2_5 1;
     mkUse FUNCUNIT_func_addsub_s8x2_6 1; mkUse FUNCUNIT_func_addsub_s8x2_7 1;
     mkUse FUNCUNIT_func_addsub_s16x2_0 1; mkUse FUNCUNIT_func_addsub_s16x2_1 1;
     mkUse FUNCUNIT_func_addsub_s16x2_2 1; mkUse FUNCUNIT_func_addsub_s16x2_3 1;
     mkUse FUNCUNIT_func_addsub_s16x2_4 1; mkUse FUNCUNIT_func_addsub_s16x2_5 1;
     mkUse FUNCUNIT_func_addsub_s16x2_6 1; mkUse FUNCUNIT_func_addsub_s16x2_7 1;
     mkUse FUNCUNIT_func_addsub_s32x2_slot0_0 1; mkUse FUNCUNIT_func_addsub_s32x2_slot0_1 1;
     mkUse FUNCUNIT_func_addsub_s32x2_slot0_2 1; mkUse FUNCUNIT_func_addsub_s32x2_slot0_3 1;
     mkUse FUNCUNIT_func_mul_s8xs8_0 1; mkUse FUNCUNIT_func_mul_s8xs8_1 1;
     mkUse FUNCUNIT_func_mul_s8xs8_2 1; mkUse FUNCUNIT_func_mul_s8xs8_3 1;
     mkUse FUNCUNIT_func_mul_s8xs8_4 1; mkUse FUNCUNIT_func_mul_s8xs8_5 1;
     mkUse FUNCUNIT_func_mul_s8xs8_6 1; mkUse FUNCUNIT_func_mul_s8xs8_7 1;
     mkUse FUNCUNIT_func_mul_s16xs16_0 1; mkUse FUNCUNIT_func_mul_s16xs16_1 1;
     mkUse FUNCUNIT_func_mul_s16xs16_2 1; mkUse FUNCUNIT_func_mul_s16xs16_3 1;
     mkUse FUNCUNIT_func_mul_s16xs16_4 1; mkUse FUNCUNIT_func_mul_s16xs16_5 1;
     mkUse FUNCUNIT_func_mul_s16xs16_6 1; mkUse FUNCUNIT_func_mul_s16xs16_7 1;
     mkUse FUNCUNIT_func_addsub_s32x2_slot1_extra 2; mkUse FUNCUNIT_func_addsub_s32x2_slot1_2 2;
     mkUse FUNCUNIT_func_addsub_s32x2_slot1_1 2; mkUse FUNCUNIT_func_addsub_s32x2_slot1_0 2;
     mkUse FUNCUNIT_func_addsub_s20x2_slot_end_0 2; mkUse FUNCUNIT_func_addsub_s20x2_slot_end_1 2;
     mkUse FUNCUNIT_func_addsub_s20x2_slot_end_2 2; mkUse FUNCUNIT_func_addsub_s20x2_slot_end_3 2;
     mkUse FUNCUNIT_func_addsub_s40x2_7 2; mkUse FUNCUNIT_func_addsub_s40x2_6 2;
     mkUse FUNCUNIT_func_addsub_s40x2_5 2; mkUse FUNCUNIT_func_addsub_s40x2_4 2;
     mkUse FUNCUNIT_func_addsub_s40x2_3 2; mkUse FUNCUNIT_func_addsub_s40x2_2 2;
     mkUse FUNCUNIT_func_addsub_s40x2_1 2; mkUse FUNCUNIT_func_addsub_s40x2_0 2;
     mkUse FUNCUNIT_func_shift_s16rs8_0 1; mkUse FUNCUNIT_func_shift_s16rs8_1 1;
     mkUse FUNCUNIT_func_shift_s16rs8_2 1; mkUse FUNCUNIT_func_shift_s16rs8_3 1;
     mkUse FUNCUNIT_func_shift_s16rs8_4 1; mkUse FUNCUNIT_func_shift_s16rs8_5 1;
     mkUse FUNCUNIT_func_shift_s16rs8_6 1; mkUse FUNCUNIT_func_shift_s16rs8_7 1;
     mkUse FUNCUNIT_func_shift_s16rs8_8 1; mkUse FUNCUNIT_func_shift_s16rs8_9 1;
     mkUse FUNCUNIT_func_shift_s16rs8_10 1; mkUse FUNCUNIT_func_shift_s16rs8_11 1;
     mkUse FUNCUNIT_func_shift_s16rs8_12 1; mkUse FUNCUNIT_func_shift_s16rs8_13 1;
     mkUse FUNCUNIT_func_shift_s16rs8_14 1; mkUse FUNCUNIT_func_shift_s16rs8_15 1;
     mkUse FUNCUNIT_func_shift_s32rs16_0 2; mkUse FUNCUNIT_func_shift_s32rs16_1 2;
     mkUse FUNCUNIT_func_shift_s32rs16_2 2; mkUse FUNCUNIT_func_shift_s32rs16_3 2;
     mkUse FUNCUNIT_func_shift_s32rs16_4 1; mkUse FUNCUNIT_func_shift_s32rs16_5 1;
     mkUse FUNCUNIT_func_shift_s32rs16_6 1; mkUse FUNCUNIT_func_shift_s32rs16_7 1])].

Definition s3_uses_62 : list (string * list xtensa_funcUnit_use) := [
  ("Opcode_ee_vmulas_s16_qacc_ld_ip_funcUnit_uses", [mkUse FUNCUNIT_func_addsub_s32x2_slot1_3 1;
     mkUse FUNCUNIT_func_addsub_s8x2_0 1; mkUse FUNCUNIT_func_addsub_s8x2_1 1;
     mkUse FUNCUNIT_func_addsub_s8x2_2 1; mkUse FUNCUNIT_func_addsub_s8x2_3 1;
     mkUse FUNCUNIT_func_addsub_s8x2_4 1; mkUse FUNCUNIT_func_addsub_s8x2_5 1;
     mkUse FUNCUNIT_func_addsub_s8x2_6 1; mkUse FUNCUNIT_func_addsub_s8x2_7 1;
     mkUse FUNCUNIT_func_addsub_s16x2_0 1; mkUse FUNCUNIT_func_addsub_s16x2_1 1;
     mkUse FUNCUNIT_func_addsub_s16x2_2 1; mkUse FUNCUNIT_func_addsub_s16x2_3 1;
     mkUse FUNCUNIT_func_addsub_s16x2_4 1; mkUse FUNCUNIT_func_addsub_s16x2_5 1;
     mkUse FUNCUNIT_func_addsub_s16x2_6 1; mkUse FUNCUNIT_func_addsub_s16x2_7 1;
     mkUse FUNCUNIT_func_addsub_s32x2_slot0_0 1; mkUse FUNCUNIT_func_addsub_s32x2_slot0_1 1;
     mkUse FUNCUNIT_func_addsub_s32x2_slot0_2 1; mkUse FUNCUNIT_func_addsub_s32x2_slot0_3 1;
     mkUse FUNCUNIT_func_mul_s8xs8_0 1; mkUse FUNCUNIT_func_mul_s8xs8_1 1;
     mkUse FUNCUNIT_func_mul_s8xs8_2 1; mkUse FUNCUNIT_func_mul_s8xs8_3 1;
     mkUse FUNCUNIT_func_mul_s8xs8_4 1; mkUse FUNCUNIT_func_mul_s8xs8_5 1;
     mkUse FUNCUNIT_func_mul_s8xs8_6 1; mkUse FUNCUNIT_func_mul_s8xs8_7 1;
     mkUse FUNCUNIT_func_mul_s16xs16_0 1; mkUse FUNCUNIT_func_mul_s16xs16_1 1;
     mkUse FUNCUNIT_func_mul_s16xs16_2 1; mkUse FUNCUNIT_func_mul_s16xs16_3 1;
     mkUse FUNCUNIT_func_mul_s16xs16_4 1; mkUse FUNCUNIT_func_mul_s16xs16_5 1;
     mkUse FUNCUNIT_func_mul_s16xs16_6 1; mkUse FUNCUNIT_func_mul_s16xs16_7 1;
     mkUse FUNCUNIT_func_addsub_s32x2_slot1_extra 2; mkUse FUNCUNIT_func_addsub_s32x2_slot1_2 2;
     mkUse FUNCUNIT_func_addsub_s32x2_slot1_1 2; mkUse FUNCUNIT_func_addsub_s32x2_slot1_0 2;
     mkUse FUNCUNIT_func_addsub_s20x2_slot_end_0 2; mkUse FUNCUNIT_func_addsub_s20x2_slot_end_1 2;
     mkUse FUNCUNIT_func_addsub_s20x2_slot_end_2 2; mkUse FUNCUNIT_func_addsub_s20x2_slot_end_3 2;
     mkUse FUNCUNIT_func_addsub_s40x2_7 2; mkUse FUNCUNIT_func_addsub_s40x2_6 2;
     mkUse FUNCUNIT_func_addsub_s40x2_5 2; mkUse FUNCUNIT_func_addsub_s40x2_4 2;
     mkUse FUNCUNIT_func_addsub_s40x2_3 2; mkUse FUNCUNIT_func_addsub_s40x2_2 2;
     mkUse FUNCUNIT_func_addsub_s40x2_1 2; mkUse FUNCUNIT_func_addsub_s40x2_0 2;
     mkUse FUNCUNIT_func_shift_s16rs8_0 1; mkUse FUNCUNIT_func_shift_s16rs8_1 1;
     mkUse FUNCUNIT_func_shift_s16rs8_2 1; mkUse FUNCUNIT_func_shift_s16rs8_3 1;
     mkUse FUNCUNIT_func_shift_s16rs8_4 1; mkUse FUNCUNIT_func_shift_s16rs8_5 1;
     mkUse FUNCUNIT_func_shift_s16rs8_6 1; mkUse FUNCUNIT_func_shift_s16rs8_7 1;
     mkUse FUNCUNIT_func_shift_s16rs8_8 1; mkUse FUNCUNIT_func_shift_s16rs8_9 1;
     mkUse FUNCUNIT_func_shift_s16rs8_10 1; mkUse FUNCUNIT_func_shift_s16rs8_11 1;
     mkUse FUNCUNIT_func_shift_s16rs8_12 1; mkUse FUNCUNIT_func_shift_s16rs8_13 1;
     mkUse FUNCUNIT_func_shift_s16rs8_14 1; mkUse FUNCUNIT_func_shift_s16rs8_15 1;
     mkUse FUNCUNIT_func_shift_s32rs16_0 2; mkUse FUNCUNIT_func_shift_s32rs16_1 2;
     mkUse FUNCUNIT_func_shift_s32rs16_2 2; mkUse FUNCUNIT_func_shift_s32rs16_3 2;
     mkUse FUNCUNIT_func_shift_s32rs16_4 1; mkUse FUNCUNIT_func_shift_s32rs16_5 1;
     mkUse FUNCUNIT_func_shift_s32rs16_6 1; mkUse FUNCUNIT_func_shift_s32rs16_7 1])].

Definition s3_uses_63 : list (string * list xtensa_funcUnit_use) := [
  ("Opcode_ee_vmulas_s16_qacc_ld_xp_qup_funcUnit_uses", [mkUse FUNCUNIT_func_addsub_s32x2_slot1_3 1;
     mkUse FUNCUNIT_func_addsub_s8x2_0 1; mkUse FUNCUNIT_func_addsub_s8x2_1 1;
     mkUse FUNCUNIT_func_addsub_s8x2_2 1; mkUse FUNCUNIT_func_addsub_s8x2_3 1;
     mkUse FUNCUNIT_func_addsub_s8x2_4 1; mkUse FUNCUNIT_func_addsub_s8x2_5 1;
     mkUse FUNCUNIT_func_addsub_s8x2_6 1; mkUse FUNCUNIT_func_addsub_s8x2_7 1;
     mkUse FUNCUNIT_func_addsub_s16x2_0 1; mkUse FUNCUNIT_func_addsub_s16x2_1 1;
     mkUse FUNCUNIT_func_addsub_s16x2_2 1; mkUse FUNCUNIT_func_addsub_s16x2_3 1;
     mkUse FUNCUNIT_func_addsub_s16x2_4 1; mkUse FUNCUNIT_func_addsub_s16x2_5 1;
     mkUse FUNCUNIT_func_addsub_s16x2_6 1; mkUse FUNCUNIT_func_addsub_s16x2_7 1;
     mkUse FUNCUNIT_func_addsub_s32x2_slot0_0 1; mkUse FUNCUNIT_func_addsub_s32x2_slot0_1 1;
     mkUse FUNCUNIT_func_addsub_s32x2_slot0_2 1; mkUse FUNCUNIT_func_addsub_s32x2_slot0_3 1;
     mkUse FUNCUNIT_func_mul_s8xs8_0 1; mkUse FUNCUNIT_func_mul_s8xs8_1 1;
     mkUse FUNCUNIT_func_mul_s8xs8_2 1; mkUse FUNCUNIT_func_mul_s8xs8_3 1;
     mkUse FUNCUNIT_func_mul_s8xs8_4 1; mkUse FUNCUNIT_func_mul_s8xs8_5 1;
     mkUse FUNCUNIT_func_mul_s8xs8_6 1; mkUse FUNCUNIT_func_mul_s8xs8_7 1;
     mkUse FUNCUNIT_func_mul_s16xs16_0 1; mkUse FUNCUNIT_func_mul_s16xs16_1 1;
     mkUse FUNCUNIT_func_mul_s16xs16_2 1; mkUse FUNCUNIT_func_mul_s16xs16_3 1;
     mkUse FUNCUNIT_func_mul_s16xs16_4 1; mkUse FUNCUNIT_func_mul_s16xs16_5 1;
     mkUse FUNCUNIT_func_mul_s16xs16_6 1; mkUse FUNCUNIT_func_mul_s16xs16_7 1;
     mkUse FUNCUNIT_func_addsub_s32x2_slot1_extra 2; mkUse FUNCUNIT_func_addsub_s32x2_slot1_2 2;
     mkUse FUNCUNIT_func_addsub_s32x2_slot1_1 2; mkUse FUNCUNIT_func_addsub_s32x2_slot1_0 2;
     mkUse FUNCUNIT_func_addsub_s20x2_slot_end_0 2; mkUse FUNCUNIT_func_addsub_s20x2_slot_end_1 2;
     mkUse FUNCUNIT_func_addsub_s20x2_slot_end_2 2; mkUse FUNCUNIT_func_addsub_s20x2_slot_end_3 2;
     mkUse FUNCUNIT_func_addsub_s40x2_7 2; mkUse FUNCUNIT_func_addsub_s40x2_6 2;
     mkUse FUNCUNIT_func_addsub_s40x2_5 2; mkUse FUNCUNIT_func_addsub_s40x2_4 2;
     mkUse FUNCUNIT_func_addsub_s40x2_3 2; mkUse FUNCUNIT_func_addsub_s40x2_2 2;
     mkUse FUNCUNIT_func_addsub_s40x2_1 2; mkUse FUNCUNIT_func_addsub_s40x2_0 2;
     mkUse FUNCUNIT_func_shift_s16rs8_0 1; mkUse FUNCUNIT_func_shift_s16rs8_1 1;
     mkUse FUNCUNIT_func_shift_s16rs8_2 1; mkUse FUNCUNIT_func_shift_s16rs8_3 1;
     mkUse FUNCUNIT_func_shift_s16rs8_4 1; mkUse FUNCUNIT_func_shift_s16rs8_5 1;
     mkUse FUNCUNIT_func_shift_s16rs8_6 1; mkUse FUNCUNIT_func_shift_s16rs8_7 1;
     mkUse FUNCUNIT_func_shift_s16rs8_8 1; mkUse FUNCUNIT_func_shift_s16rs8_9 1;
     mkUse FUNCUNIT_func_shift_s16rs8_10 1; mkUse FUNCUNIT_func_shift_s16rs8_11 1;
     mkUse FUNCUNIT_func_shift_s16rs8_12 1; mkUse FUNCUNIT_func_shift_s16rs8_13 1;
     mkUse FUNCUNIT_func_shift_s16rs8_14 1; mkUse FUNCUNIT_func_shift_s16rs8_15 1;
     mkUse FUNCUNIT_func_shift_s32rs16_0 2; mkUse FUNCUNIT_func_shift_s32rs16_1 2;
     mkUse FUNCUNIT_func_shift_s32rs16_2 2; mkUse FUNCUNIT_func_shift_s32rs16_3 2;
     mkUse FUNCUNIT_func_shift_s32rs16_4 1; mkUse FUNCUNIT_func_shift_s32rs16_5 1;
     mkUse FUNCUNIT_func_shift_s32rs16_6 1; mkUse FUNCUNIT_func_shift_s32rs16_7 1])].

Definition s3_uses_64 : list (string * list xtensa_funcUnit_use) := [
  ("Opcode_ee_vmulas_s16_qacc_ld_xp_funcUnit_uses", [mkUse FUNCUNIT_func_addsub_s32x2_slot1_3 1;
     mkUse FUNCUNIT_func_addsub_s8x2_0 1; mkUse FUNCUNIT_func_addsub_s8x2_1 1;
     mkUse FUNCUNIT_func_addsub_s8x2_2 1; mkUse FUNCUNIT_func_addsub_s8x2_3 1;
     mkUse FUNCUNIT_func_addsub_s8x2_4 1; mkUse FUNCUNIT_func_addsub_s8x2_5 1;
     mkUse FUNCUNIT_func_addsub_s8x2_6 1; mkUse FUNCUNIT_func_addsub_s8x2_7 1;
     mkUse FUNCUNIT_func_addsub_s16x2_0 1; mkUse FUNCUNIT_func_addsub_s16x2_1 1;
     mkUse FUNCUNIT_func_addsub_s16x2_2 1; mkUse FUNCUNIT_func_addsub_s16x2_3 1;
     mkUse FUNCUNIT_func_addsub_s16x2_4 1; mkUse FUNCUNIT_func_addsub_s16x2_5 1;
     mkUse FUNCUNIT_func_addsub_s16x2_6 1; mkUse FUNCUNIT_func_addsub_s16x2_7 1;
     mkUse FUNCUNIT_func_addsub_s32x2_slot0_0 1; mkUse FUNCUNIT_func_addsub_s32x2_slot0_1 1;
     mkUse FUNCUNIT_func_addsub_s32x2_slot0_2 1; mkUse FUNCUNIT_func_addsub_s32x2_slot0_3 1;
     mkUse FUNCUNIT_func_mul_s8xs8_0 1; mkUse FUNCUNIT_func_mul_s8xs8_1 1;
     mkUse FUNCUNIT_func_mul_s8xs8_2 1; mkUse FUNCUNIT_func_mul_s8xs8_3 1;
     mkUse FUNCUNIT_func_mul_s8xs8_4 1; mkUse FUNCUNIT_func_mul_s8xs8_5 1;
     mkUse FUNCUNIT_func_mul_s8xs8_6 1; mkUse FUNCUNIT_func_mul_s8xs8_7 1;
     mkUse FUNCUNIT_func_mul_s16xs16_0 1; mkUse FUNCUNIT_func_mul_s16xs16_1 1;
     mkUse FUNCUNIT_func_mul_s16xs16_2 1; mkUse FUNCUNIT_func_mul_s16xs16_3 1;
     mkUse FUNCUNIT_func_mul_s16xs16_4 1; mkUse FUNCUNIT_func_mul_s16xs16_5 1;
     mkUse FUNCUNIT_func_mul_s16xs16_6 1; mkUse FUNCUNIT_func_mul_s16xs16_7 1;
     mkUse FUNCUNIT_func_addsub_s32x2_slot1_extra 2; mkUse FUNCUNIT_func_addsub_s32x2_slot1_2 2;
     mkUse FUNCUNIT_func_addsub_s32x2_slot1_1 2; mkUse FUNCUNIT_func_addsub_s32x2_slot1_0 2;
     mkUse FUNCUNIT_func_addsub_s20x2_slot_end_0 2; mkUse FUNCUNIT_func_addsub_s20x2_slot_end_1 2;
     mkUse FUNCUNIT_func_addsub_s20x2_slot_end_2 2; mkUse FUNCUNIT_func_addsub_s20x2_slot_end_3 2;
     mkUse FUNCUNIT_func_addsub_s40x2_7 2; mkUse FUNCUNIT_func_addsub_s40x2_6 2;
     mkUse FUNCUNIT_func_addsub_s40x2_5 2; mkUse FUNCUNIT_func_addsub_s40x2_4 2;
     mkUse FUNCUNIT_func_addsub_s40x2_3 2; mkUse FUNCUNIT_func_addsub_s40x2_2 2;
     mkUse FUNCUNIT_func_addsub_s40x2_1 2; mkUse FUNCUNIT_func_addsub_s40x2_0 2;
     mkUse FUNCUNIT_func_shift_s16rs8_0 1; mkUse FUNCUNIT_func_shift_s16rs8_1 1;
     mkUse FUNCUNIT_func_shift_s16rs8_2 1; mkUse FUNCUNIT_func_shift_s16rs8_3 1;
     mkUse FUNCUNIT_func_shift_s16rs8_4 1; mkUse FUNCUNIT_func_shift_s16rs8_5 1;
     mkUse FUNCUNIT_func_shift_s16rs8_6 1; mkUse FUNCUNIT_func_shift_s16rs8_7 1;
     mkUse FUNCUNIT_func_shift_s16rs8_8 1; mkUse FUNCUNIT_func_shift_s16rs8_9 1;
     mkUse FUNCUNIT_func_shift_s16rs8_10 1; mkUse FUNCUNIT_func_shift_s16rs8_11 1;
     mkUse FUNCUNIT_func_shift_s16rs8_12 1; mkUse FUNCUNIT_func_shift_s16rs8_13 1;
     mkUse FUNCUNIT_func_shift_s16rs8_14 1; mkUse FUNCUNIT_func_shift_s16rs8_15 1;
     mkUse FUNCUNIT_func_shift_s32rs16_0 2; mkUse FUNCUNIT_func_shift_s32rs16_1 2;
     mkUse FUNCUNIT_func_shift_s32rs16_2 2; mkUse FUNCUNIT_func_shift_s32rs16_3 2;
     mkUse FUNCUNIT_func_shift_s32rs16_4 1; mkUse FUNCUNIT_func_shift_s32rs16_5 1;
     mkUse FUNCUNIT_func_shift_s32rs16_6 1; mkUse FUNCUNIT_func_shift_s32rs16_7 1])].

Definition s3_uses_65 : list (string * list xtensa_funcUnit_use) := [
  ("Opcode_ee_vmulas_s16_qacc_funcUnit_uses", [mkUse FUNCUNIT_func_addsub_s32x2_slot1_3 1;
     mkUse FUNCUNIT_func_addsub_s8x2_0 1; mkUse FUNCUNIT_func_addsub_s8x2_1 1;
     mkUse FUNCUNIT_func_addsub_s8x2_2 1; mkUse FUNCUNIT_func_addsub_s8x2_3 1;
     mkUse FUNCUNIT_func_addsub_s8x2_4 1; mkUse FUNCUNIT_func_addsub_s8x2_5 1;
     mkUse FUNCUNIT_func_addsub_s8x2_6 1; mkUse FUNCUNIT_func_addsub_s8x2_7 1;
     mkUse FUNCUNIT_func_addsub_s16x2_0 1; mkUse FUNCUNIT_func_addsub_s16x2_1 1;
     mkUse FUNCUNIT_func_addsub_s16x2_2 1; mkUse FUNCUNIT_func_addsub_s16x2_3 1;
     mkUse FUNCUNIT_func_addsub_s16x2_4 1; mkUse FUNCUNIT_func_addsub_s16x2_5 1;
     mkUse FUNCUNIT_func_addsub_s16x2_6 1; mkUse FUNCUNIT_func_addsub_s16x2_7 1;
     mkUse FUNCUNIT_func_addsub_s32x2_slot0_0 1; mkUse FUNCUNIT_func_addsub_s32x2_slot0_1 1;
     mkUse FUNCUNIT_func_addsub_s32x2_slot0_2 1; mkUse FUNCUNIT_func_addsub_s32x2_slot0_3 1;
     mkUse FUNCUNIT_func_mul_s8xs8_0 1; mkUse FUNCUNIT_func_mul_s8xs8_1 1;
     mkUse FUNCUNIT_func_mul_s8xs8_2 1; mkUse FUNCUNIT_func_mul_s8xs8_3 1;
     mkUse FUNCUNIT_func_mul_s8xs8_4 1; mkUse FUNCUNIT_func_mul_s8xs8_5 1;
     mkUse FUNCUNIT_func_mul_s8xs8_6 1; mkUse FUNCUNIT_func_mul_s8xs8_7 1;
     mkUse FUNCUNIT_func_mul_s16xs16_0 1; mkUse FUNCUNIT_func_mul_s16xs16_1 1;
     mkUse FUNCUNIT_func_mul_s16xs16_2 1; mkUse FUNCUNIT_func_mul_s16xs16_3 1;
     mkUse FUNCUNIT_func_mul_s16xs16_4 1; mkUse FUNCUNIT_func_mul_s16xs16_5 1;
     mkUse FUNCUNIT_func_mul_s16xs16_6 1; mkUse FUNCUNIT_func_mul_s16xs16_7 1;
     mkUse FUNCUNIT_func_addsub_s32x2_slot1_extra 2; mkUse FUNCUNIT_func_addsub_s32x2_slot1_2 2;
     mkUse FUNCUNIT_func_addsub_s32x2_slot1_1 2; mkUse FUNCUNIT_func_addsub_s32x2_slot1_0 2;
     mkUse FUNCUNIT_func_addsub_s20x2_slot_end_0 2; mkUse FUNCUNIT_func_addsub_s20x2_slot_end_1 2;
     mkUse FUNCUNIT_func_addsub_s20x2_slot_end_2 2; mkUse FUNCUNIT_func_addsub_s20x2_slot_end_3 2;
     mkUse FUNCUNIT_func_addsub_s40x2_7 2; mkUse FUNCUNIT_func_addsub_s40x2_6 2;
     mkUse FUNCUNIT_func_addsub_s40x2_5 2; mkUse FUNCUNIT_func_addsub_s40x2_4 2;
     mkUse FUNCUNIT_func_addsub_s40x2_3 2; mkUse FUNCUNIT_func_addsub_s40x2_2 2;
     mkUse FUNCUNIT_func_addsub_s40x2_1 2; mkUse FUNCUNIT_func_addsub_s40x2_0 2;
     mkUse FUNCUNIT_func_shift_s16rs8_0 1; mkUse FUNCUNIT_func_shift_s16rs8_1 1;
     mkUse FUNCUNIT_func_shift_s16rs8_2 1; mkUse FUNCUNIT_func_shift_s16rs8_3 1;
     mkUse FUNCUNIT_func_shift_s16rs8_4 1; mkUse FUNCUNIT_func_shift_s16rs8_5 1;
     mkUse FUNCUNIT_func_shift_s16rs8_6 1; mkUse FUNCUNIT_func_shift_s16rs8_7 1;
     mkUse FUNCUNIT_func_shift_s16rs8_8 1; mkUse FUNCUNIT_func_shift_s16rs8_9 1;
     mkUse FUNCUNIT_func_shift_s16rs8_10 1; mkUse FUNCUNIT_func_shift_s16rs8_11 1;
     mkUse FUNCUNIT_func_shift_s16rs8_12 1; mkUse FUNCUNIT_func_shift_s16rs8_13 1;
     mkUse FUNCUNIT_func_shift_s16rs8_14 1; mkUse FUNCUNIT_func_shift_s16rs8_15 1;
     mkUse FUNCUNIT_func_shift_s32rs16_0 2; mkUse FUNCUNIT_func_shift_s32rs16_1 2;
     mkUse FUNCUNIT_func_shift_s32rs16_2 2; mkUse FUNCUNIT_func_shift_s32rs16_3 2;
     mkUse FUNCUNIT_func_shift_s32rs16_4 1; mkUse FUNCUNIT_func_shift_s32rs16_5 1;
     mkUse FUNCUNIT_func_shift_s32rs16_6 1; mkUse FUNCUNIT_func_shift_s32rs16_7 1])].

Definition s3_uses_66 : list (string * list xtensa_funcUnit_use) := [
  ("Opcode_ee_vmulas_s8_qacc_ldbc_incp_qup_funcUnit_uses", [mkUse FUNCUNIT_func_addsub_s32x2_slot1_3 1;
     mkUse FUNCUNIT_func_addsub_s8x2_0 1; mkUse FUNCUNIT_func_addsub_s8x2_1 1;
     mkUse FUNCUNIT_func_addsub_s8x2_2 1; mkUse FUNCUNIT_func_addsub_s8x2_3 1;
     mkUse FUNCUNIT_func_addsub_s8x2_4 1; mkUse FUNCUNIT_func_addsub_s8x2_5 1;
     mkUse FUNCUNIT_func_addsub_s8x2_6 1; mkUse FUNCUNIT_func_addsub_s8x2_7 1;
     mkUse FUNCUNIT_func_addsub_s16x2_0 1; mkUse FUNCUNIT_func_addsub_s16x2_1 1;
     mkUse FUNCUNIT_func_addsub_s16x2_2 1; mkUse FUNCUNIT_func_addsub_s16x2_3 1;
     mkUse FUNCUNIT_func_addsub_s16x2_4 1; mkUse FUNCUNIT_func_addsub_s16x2_5 1;
     mkUse FUNCUNIT_func_addsub_s16x2_6 1; mkUse FUNCUNIT_func_addsub_s16x2_7 1;
     mkUse FUNCUNIT_func_addsub_s32x2_slot0_0 1; mkUse FUNCUNIT_func_addsub_s32x2_slot0_1 1;
     mkUse FUNCUNIT_func_addsub_s32x2_slot0_2 1; mkUse FUNCUNIT_func_addsub_s32x2_slot0_3 1;
     mkUse FUNCUNIT_func_mul_s8xs8_0 1; mkUse FUNCUNIT_func_mul_s8xs8_1 1;
     mkUse FUNCUNIT_func_mul_s8xs8_2 1; mkUse FUNCUNIT_func_mul_s8xs8_3 1;
     mkUse FUNCUNIT_func_mul_s8xs8_4 1; mkUse FUNCUNIT_func_mul_s8xs8_5 1;
     mkUse FUNCUNIT_func_mul_s8xs8_6 1; mkUse FUNCUNIT_func_mul_s8xs8_7 1;
     mkUse FUNCUNIT_func_mul_s16xs16_0 1; mkUse FUNCUNIT_func_mul_s16xs16_1 1;
     mkUse FUNCUNIT_func_mul_s16xs16_2 1; mkUse FUNCUNIT_func_mul_s16xs16_3 1;
     mkUse FUNCUNIT_func_mul_s16xs16_4 1; mkUse FUNCUNIT_func_mul_s16xs16_5 1;
     mkUse FUNCUNIT_func_mul_s16xs16_6 1; mkUse FUNCUNIT_func_mul_s16xs16_7 1;
     mkUse FUNCUNIT_func_addsub_s32x2_slot1_extra 2; mkUse FUNCUNIT_func_addsub_s32x2_slot1_2 2;
     mkUse FUNCUNIT_func_addsub_s32x2_slot1_1 2; mkUse FUNCUNIT_func_addsub_s32x2_slot1_0 2;
     mkUse FUNCUNIT_func_addsub_s20x2_slot_end_0 2; mkUse FUNCUNIT_func_addsub_s20x2_slot_end_1 2;
     mkUse FUNCUNIT_func_addsub_s20x2_slot_end_2 2; mkUse FUNCUNIT_func_addsub_s20x2_slot_end_3 2;
     mkUse FUNCUNIT_func_addsub_s40x2_7 2; mkUse FUNCUNIT_func_addsub_s40x2_6 2;
     mkUse FUNCUNIT_func_addsub_s40x2_5 2; mkUse FUNCUNIT_func_addsub_s40x2_4 2;
     mkUse FUNCUNIT_func_addsub_s40x2_3 2; mkUse FUNCUNIT_func_addsub_s40x2_2 2;
     mkUse FUNCUNIT_func_addsub_s40x2_1 2; mkUse FUNCUNIT_func_addsub_s40x2_0 2;
     mkUse FUNCUNIT_func_shift_s16rs8_0 1; mkUse FUNCUNIT_func_shift_s16rs8_1 1;
     mkUse FUNCUNIT_func_shift_s16rs8_2 1; mkUse FUNCUNIT_func_shift_s16rs8_3 1;
     mkUse FUNCUNIT_func_shift_s16rs8_4 1; mkUse FUNCUNIT_func_shift_s16rs8_5 1;
     mkUse FUNCUNIT_func_shift_s16rs8_6 1; mkUse FUNCUNIT_func_shift_s16rs8_7 1;
     mkUse FUNCUNIT_func_shift_s16rs8_8 1; mkUse FUNCUNIT_func_shift_s16rs8_9 1;
     mkUse FUNCUNIT_func_shift_s16rs8_10 1; mkUse FUNCUNIT_func_shift_s16rs8_11 1;
     mkUse FUNCUNIT_func_shift_s16rs8_12 1; mkUse FUNCUNIT_func_shift_s16rs8_13 1;
     mkUse FUNCUNIT_func_shift_s16rs8_14 1; mkUse FUNCUNIT_func_shift_s16rs8_15 1;
     mkUse FUNCUNIT_func_shift_s32rs16_0 2; mkUse FUNCUNIT_func_shift_s32rs16_1 2;
     mkUse FUNCUNIT_func_shift_s32rs16_2 2; mkUse FUNCUNIT_func_shift_s32rs16_3 2;
     mkUse FUNCUNIT_func_shift_s32rs16_4 1; mkUse FUNCUNIT_func_shift_s32rs16_5 1;
     mkUse FUNCUNIT_func_shift_s32rs16_6 1; mkUse FUNCUNIT_func_shift_s32rs16_7 1])].

Definition s3_uses_67 : list (string * list xtensa_funcUnit_use) := [
  ("Opcode_ee_vmulas_s8_qacc_ldbc_incp_funcUnit_uses", [mkUse FUNCUNIT_func_addsub_s32x2_slot1_3 1;
     mkUse FUNCUNIT_func_addsub_s8x2_0 1; mkUse FUNCUNIT_func_addsub_s8x2_1 1;
     mkUse FUNCUNIT_func_addsub_s8x2_2 1; mkUse FUNCUNIT_func_addsub_s8x2_3 1;
     mkUse FUNCUNIT_func_addsub_s8x2_4 1; mkUse FUNCUNIT_func_addsub_s8x2_5 1;
     mkUse FUNCUNIT_func_addsub_s8x2_6 1; mkUse FUNCUNIT_func_addsub_s8x2_7 1;
     mkUse FUNCUNIT_func_addsub_s16x2_0 1; mkUse FUNCUNIT_func_addsub_s16x2_1 1;
     mkUse FUNCUNIT_func_addsub_s16x2_2 1; mkUse FUNCUNIT_func_addsub_s16x2_3 1;
     mkUse FUNCUNIT_func_addsub_s16x2_4 1; mkUse FUNCUNIT_func_addsub_s16x2_5 1;
     mkUse FUNCUNIT_func_addsub_s16x2_6 1; mkUse FUNCUNIT_func_addsub_s16x2_7 1;
     mkUse FUNCUNIT_func_addsub_s32x2_slot0_0 1; mkUse FUNCUNIT_func_addsub_s32x2_slot0_1 1;
     mkUse FUNCUNIT_func_addsub_s32x2_slot0_2 1; mkUse FUNCUNIT_func_addsub_s32x2_slot0_3 1;
     mkUse FUNCUNIT_func_mul_s8xs8_0 1; mkUse FUNCUNIT_func_mul_s8xs8_1 1;
     mkUse FUNCUNIT_func_mul_s8xs8_2 1; mkUse FUNCUNIT_func_mul_s8xs8_3 1;
     mkUse FUNCUNIT_func_mul_s8xs8_4 1; mkUse FUNCUNIT_func_mul_s8xs8_5 1;
     mkUse FUNCUNIT_func_mul_s8xs8_6 1; mkUse FUNCUNIT_func_mul_s8xs8_7 1;
     mkUse FUNCUNIT_func_mul_s16xs16_0 1; mkUse FUNCUNIT_func_mul_s16xs16_1 1;
     mkUse FUNCUNIT_func_mul_s16xs16_2 1; mkUse FUNCUNIT_func_mul_s16xs16_3 1;
     mkUse FUNCUNIT_func_mul_s16xs16_4 1; mkUse FUNCUNIT_func_mul_s16xs16_5 1;
     mkUse FUNCUNIT_func_mul_s16xs16_6 1; mkUse FUNCUNIT_func_mul_s16xs16_7 1;
     mkUse FUNCUNIT_func_addsub_s32x2_slot1_extra 2; mkUse FUNCUNIT_func_addsub_s32x2_slot1_2 2;
     mkUse FUNCUNIT_func_addsub_s32x2_slot1_1 2; mkUse FUNCUNIT_func_addsub_s32x2_slot1_0 2;
     mkUse FUNCUNIT_func_addsub_s20x2_slot_end_0 2; mkUse FUNCUNIT_func_addsub_s20x2_slot_end_1 2;
     mkUse FUNCUNIT_func_addsub_s20x2_slot_end_2 2; mkUse FUNCUNIT_func_addsub_s20x2_slot_end_3 2;
     mkUse FUNCUNIT_func_addsub_s40x2_7 2; mkUse FUNCUNIT_func_addsub_s40x2_6 2;
     mkUse FUNCUNIT_func_addsub_s40x2_5 2; mkUse FUNCUNIT_func_addsub_s40x2_4 2;
     mkUse FUNCUNIT_func_addsub_s40x2_3 2; mkUse FUNCUNIT_func_addsub_s40x2_2 2;
     mkUse FUNCUNIT_func_addsub_s40x2_1 2; mkUse FUNCUNIT_func_addsub_s40x2_0 2;
     mkUse FUNCUNIT_func_shift_s16rs8_0 1; mkUse FUNCUNIT_func_shift_s16rs8_1 1;
     mkUse FUNCUNIT_func_shift_s16rs8_2 1; mkUse FUNCUNIT_func_shift_s16rs8_3 1;
     mkUse FUNCUNIT_func_shift_s16rs8_4 1; mkUse FUNCUNIT_func_shift_s16rs8_5 1;
     mkUse FUNCUNIT_func_shift_s16rs8_6 1; mkUse FUNCUNIT_func_shift_s16rs8_7 1;
     mkUse FUNCUNIT_func_shift_s16rs8_8 1; mkUse FUNCUNIT_func_shift_s16rs8_9 1;
     mkUse FUNCUNIT_func_shift_s16rs8_10 1; mkUse FUNCUNIT_func_shift_s16rs8_11 1;
     mkUse FUNCUNIT_func_shift_s16rs8_12 1; mkUse FUNCUNIT_func_shift_s16rs8_13 1;
     mkUse FUNCUNIT_func_shift_s16rs8_14 1; mkUse FUNCUNIT_func_shift_s16rs8_15 1;
     mkUse FUNCUNIT_func_shift_s32rs16_0 2; mkUse FUNCUNIT_func_shift_s32rs16_1 2;
     mkUse FUNCUNIT_func_shift_s32rs16_2 2; mkUse FUNCUNIT_func_shift_s32rs16_3 2;
     mkUse FUNCUNIT_func_shift_s32rs16_4 1; mkUse FUNCUNIT_func_shift_s32rs16_5 1;
     mkUse FUNCUNIT_func_shift_s32rs16_6 1; mkUse FUNCUNIT_func_shift_s32rs16_7 1])].

Definition s3_uses_68 : list (string * list xtensa_funcUnit_use) := [
  ("Opcode_ee_vmulas_s8_qacc_ld_ip_qup_funcUnit_uses", [mkUse FUNCUNIT_func_addsub_s32x2_slot1_3 1;
     mkUse FUNCUNIT_func_addsub_s8x2_0 1; mkUse FUNCUNIT_func_addsub_s8x2_1 1;
     mkUse FUNCUNIT_func_addsub_s8x2_2 1; mkUse FUNCUNIT_func_addsub_s8x2_3 1;
     mkUse FUNCUNIT_func_addsub_s8x2_4 1; mkUse FUNCUNIT_func_addsub_s8x2_5 1;
     mkUse FUNCUNIT_func_addsub_s8x2_6 1; mkUse FUNCUNIT_func_addsub_s8x2_7 1;
     mkUse FUNCUNIT_func_addsub_s16x2_0 1; mkUse FUNCUNIT_func_addsub_s16x2_1 1;
     mkUse FUNCUNIT_func_addsub_s16x2_2 1; mkUse FUNCUNIT_func_addsub_s16x2_3 1;
     mkUse FUNCUNIT_func_addsub_s16x2_4 1; mkUse FUNCUNIT_func_addsub_s16x2_5 1;
     mkUse FUNCUNIT_func_addsub_s16x2_6 1; mkUse FUNCUNIT_func_addsub_s16x2_7 1;
     mkUse FUNCUNIT_func_addsub_s32x2_slot0_0 1; mkUse FUNCUNIT_func_addsub_s32x2_slot0_1 1;
     mkUse FUNCUNIT_func_addsub_s32x2_slot0_2 1; mkUse FUNCUNIT_func_addsub_s32x2_slot0_3 1;
     mkUse FUNCUNIT_func_mul_s8xs8_0 1; mkUse FUNCUNIT_func_mul_s8xs8_1 1;
     mkUse FUNCUNIT_func_mul_s8xs8_2 1; mkUse FUNCUNIT_func_mul_s8xs8_3 1;
     mkUse FUNCUNIT_func_mul_s8xs8_4 1; mkUse FUNCUNIT_func_mul_s8xs8_5 1;
     mkUse FUNCUNIT_func_mul_s8xs8_6 1; mkUse FUNCUNIT_func_mul_s8xs8_7 1;
     mkUse FUNCUNIT_func_mul_s16xs16_0 1; mkUse FUNCUNIT_func_mul_s16xs16_1 1;
     mkUse FUNCUNIT_func_mul_s16xs16_2 1; mkUse FUNCUNIT_func_mul_s16xs16_3 1;
     mkUse FUNCUNIT_func_mul_s16xs16_4 1; mkUse FUNCUNIT_func_mul_s16xs16_5 1;
     mkUse FUNCUNIT_func_mul_s16xs16_6 1; mkUse FUNCUNIT_func_mul_s16xs16_7 1;
     mkUse FUNCUNIT_func_addsub_s32x2_slot1_extra 2; mkUse FUNCUNIT_func_addsub_s32x2_slot1_2 2;
     mkUse FUNCUNIT_func_addsub_s32x2_slot1_1 2; mkUse FUNCUNIT_func_addsub_s32x2_slot1_0 2;
     mkUse FUNCUNIT_func_addsub_s20x2_slot_end_0 2; mkUse FUNCUNIT_func_addsub_s20x2_slot_end_1 2;
     mkUse FUNCUNIT_func_addsub_s20x2_slot_end_2 2; mkUse FUNCUNIT_func_addsub_s20x2_slot_end_3 2;
     mkUse FUNCUNIT_func_addsub_s40x2_7 2; mkUse FUNCUNIT_func_addsub_s40x2_6 2;
     mkUse FUNCUNIT_func_addsub_s40x2_5 2; mkUse FUNCUNIT_func_addsub_s40x2_4 2;
     mkUse FUNCUNIT_func_addsub_s40x2_3 2; mkUse FUNCUNIT_func_addsub_s40x2_2 2;
     mkUse FUNCUNIT_func_addsub_s40x2_1 2; mkUse FUNCUNIT_func_addsub_s40x2_0 2;
     mkUse FUNCUNIT_func_shift_s16rs8_0 1; mkUse FUNCUNIT_func_shift_s16rs8_1 1;
     mkUse FUNCUNIT_func_shift_s16rs8_2 1; mkUse FUNCUNIT_func_shift_s16rs8_3 1;
     mkUse FUNCUNIT_func_shift_s16rs8_4 1; mkUse FUNCUNIT_func_shift_s16rs8_5 1;
     mkUse FUNCUNIT_func_shift_s16rs8_6 1; mkUse FUNCUNIT_func_shift_s16rs8_7 1;
     mkUse FUNCUNIT_func_shift_s16rs8_8 1; mkUse FUNCUNIT_func_shift_s16rs8_9 1;
     mkUse FUNCUNIT_func_shift_s16rs8_10 1; mkUse FUNCUNIT_func_shift_s16rs8_11 1;
     mkUse FUNCUNIT_func_shift_s16rs8_12 1; mkUse FUNCUNIT_func_shift_s16rs8_13 1;
     mkUse FUNCUNIT_func_shift_s16rs8_14 1; mkUse FUNCUNIT_func_shift_s16rs8_15 1;
     mkUse FUNCUNIT_func_shift_s32rs16_0 2; mkUse FUNCUNIT_func_shift_s32rs16_1 2;
     mkUse FUNCUNIT_func_shift_s32rs16_2 2; mkUse FUNCUNIT_func_shift_s32rs16_3 2;
     mkUse FUNCUNIT_func_shift_s32rs16_4 1; mkUse FUNCUNIT_func_shift_s32rs16_5 1;
     mkUse FUNCUNIT_func_shift_s32rs16_6 1; mkUse FUNCUNIT_func_shift_s32rs16_7 1])].

Definition s3_uses_69 : list (string * list xtensa_funcUnit_use) := [
  ("Opcode_ee_vmulas_s8_qacc_ld_ip_funcUnit_uses", [mkUse FUNCUNIT_func_addsub_s32x2_slot1_3 1;
     mkUse FUNCUNIT_func_addsub_s8x2_0 1; mkUse FUNCUNIT_func_addsub_s8x2_1 1;
     mkUse FUNCUNIT_func_addsub_s8x2_2 1; mkUse FUNCUNIT_func_addsub_s8x2_3 1;
     mkUse FUNCUNIT_func_addsub_s8x2_4 1; mkUse FUNCUNIT_func_addsub_s8x2_5 1;
     mkUse FUNCUNIT_func_addsub_s8x2_6 1; mkUse FUNCUNIT_func_addsub_s8x2_7 1;
     mkUse FUNCUNIT_func_addsub_s16x2_0 1; mkUse FUNCUNIT_func_addsub_s16x2_1 1;
     mkUse FUNCUNIT_func_addsub_s16x2_2 1; mkUse FUNCUNIT_func_addsub_s16x2_3 1;
     mkUse FUNCUNIT_func_addsub_s16x2_4 1; mkUse FUNCUNIT_func_addsub_s16x2_5 1;
     mkUse FUNCUNIT_func_addsub_s16x2_6 1; mkUse FUNCUNIT_func_addsub_s16x2_7 1;
     mkUse FUNCUNIT_func_addsub_s32x2_slot0_0 1; mkUse FUNCUNIT_func_addsub_s32x2_slot0_1 1;
     mkUse FUNCUNIT_func_addsub_s32x2_slot0_2 1; mkUse FUNCUNIT_func_addsub_s32x2_slot0_3 1;
     mkUse FUNCUNIT_func_mul_s8xs8_0 1; mkUse FUNCUNIT_func_mul_s8xs8_1 1;
     mkUse FUNCUNIT_func_mul_s8xs8_2 1; mkUse FUNCUNIT_func_mul_s8xs8_3 1;
     mkUse FUNCUNIT_func_mul_s8xs8_4 1; mkUse FUNCUNIT_func_mul_s8xs8_5 1;
     mkUse FUNCUNIT_func_mul_s8xs8_6 1; mkUse FUNCUNIT_func_mul_s8xs8_7 1;
     mkUse FUNCUNIT_func_mul_s16xs16_0 1; mkUse FUNCUNIT_func_mul_s16xs16_1 1;
     mkUse FUNCUNIT_func_mul_s16xs16_2 1; mkUse FUNCUNIT_func_mul_s16xs16_3 1;
     mkUse FUNCUNIT_func_mul_s16xs16_4 1; mkUse FUNCUNIT_func_mul_s16xs16_5 1;
     mkUse FUNCUNIT_func_mul_s16xs16_6 1; mkUse FUNCUNIT_func_mul_s16xs16_7 1;
     mkUse FUNCUNIT_func_addsub_s32x2_slot1_extra 2; mkUse FUNCUNIT_func_addsub_s32x2_slot1_2 2;
     mkUse FUNCUNIT_func_addsub_s32x2_slot1_1 2; mkUse FUNCUNIT_func_addsub_s32x2_slot1_0 2;
     mkUse FUNCUNIT_func_addsub_s20x2_slot_end_0 2; mkUse FUNCUNIT_func_addsub_s20x2_slot_end_1 2;
     mkUse FUNCUNIT_func_addsub_s20x2_slot_end_2 2; mkUse FUNCUNIT_func_addsub_s20x2_slot_end_3 2;
     mkUse FUNCUNIT_func_addsub_s40x2_7 2; mkUse FUNCUNIT_func_addsub_s40x2_6 2;
     mkUse FUNCUNIT_func_addsub_s40x2_5 2; mkUse FUNCUNIT_func_addsub_s40x2_4 2;
     mkUse FUNCUNIT_func_addsub_s40x2_3 2; mkUse FUNCUNIT_func_addsub_s40x2_2 2;
     mkUse FUNCUNIT_func_addsub_s40x2_1 2; mkUse FUNCUNIT_func_addsub_s40x2_0 2;
     mkUse FUNCUNIT_func_shift_s16rs8_0 1; mkUse FUNCUNIT_func_shift_s16rs8_1 1;
     mkUse FUNCUNIT_func_shift_s16rs8_2 1; mkUse FUNCUNIT_func_shift_s16rs8_3 1;
     mkUse FUNCUNIT_func_shift_s16rs8_4 1; mkUse FUNCUNIT_func_shift_s16rs8_5 1;
     mkUse FUNCUNIT_func_shift_s16rs8_6 1; mkUse FUNCUNIT_func_shift_s16rs8_7 1;
     mkUse FUNCUNIT_func_shift_s16rs8_8 1; mkUse FUNCUNIT_func_shift_s16rs8_9 1;
     mkUse FUNCUNIT_func_shift_s16rs8_10 1; mkUse FUNCUNIT_func_shift_s16rs8_11 1;
     mkUse FUNCUNIT_func_shift_s16rs8_12 1; mkUse FUNCUNIT_func_shift_s16rs8_13 1;
     mkUse FUNCUNIT_func_shift_s16rs8_14 1; mkUse FUNCUNIT_func_shift_s16rs8_15 1;
     mkUse FUNCUNIT_func_shift_s32rs16_0 2; mkUse FUNCUNIT_func_shift_s32rs16_1 2;
     mkUse FUNCUNIT_func_shift_s32rs16_2 2; mkUse FUNCUNIT_func_shift_s32rs16_3 2;
     mkUse FUNCUNIT_func_shift_s32rs16_4 1; mkUse FUNCUNIT_func_shift_s32rs16_5 1;
     mkUse FUNCUNIT_func_shift_s32rs16_6 1; mkUse FUNCUNIT_func_shift_s32rs16_7 1])].

Definition s3_uses_70 : list (string * list xtensa_funcUnit_use) := [
  ("Opcode_ee_vmulas_s8_qacc_ld_xp_qup_funcUnit_uses", [mkUse FUNCUNIT_func_addsub_s32x2_slot1_3 1;
     mkUse FUNCUNIT_func_addsub_s8x2_0 1; mkUse FUNCUNIT_func_addsub_s8x2_1 1;
     mkUse FUNCUNIT_func_addsub_s8x2_2 1; mkUse FUNCUNIT_func_addsub_s8x2_3 1;
     mkUse FUNCUNIT_func_addsub_s8x2_4 1; mkUse FUNCUNIT_func_addsub_s8x2_5 1;
     mkUse FUNCUNIT_func_addsub_s8x2_6 1; mkUse FUNCUNIT_func_addsub_s8x2_7 1;
     mkUse FUNCUNIT_func_addsub_s16x2_0 1; mkUse FUNCUNIT_func_addsub_s16x2_1 1;
     mkUse FUNCUNIT_func_addsub_s16x2_2 1; mkUse FUNCUNIT_func_addsub_s16x2_3 1;
     mkUse FUNCUNIT_func_addsub_s16x2_4 1; mkUse FUNCUNIT_func_addsub_s16x2_5 1;
     mkUse FUNCUNIT_func_addsub_s16x2_6 1; mkUse FUNCUNIT_func_addsub_s16x2_7 1;
     mkUse FUNCUNIT_func_addsub_s32x2_slot0_0 1; mkUse FUNCUNIT_func_addsub_s32x2_slot0_1 1;
     mkUse FUNCUNIT_func_addsub_s32x2_slot0_2 1; mkUse FUNCUNIT_func_addsub_s32x2_slot0_3 1;
     mkUse FUNCUNIT_func_mul_s8xs8_0 1; mkUse FUNCUNIT_func_mul_s8xs8_1 1;
     mkUse FUNCUNIT_func_mul_s8xs8_2 1; mkUse FUNCUNIT_func_mul_s8xs8_3 1;
     mkUse FUNCUNIT_func_mul_s8xs8_4 1; mkUse FUNCUNIT_func_mul_s8xs8_5 1;
     mkUse FUNCUNIT_func_mul_s8xs8_6 1; mkUse FUNCUNIT_func_mul_s8xs8_7 1;
     mkUse FUNCUNIT_func_mul_s16xs16_0 1; mkUse FUNCUNIT_func_mul_s16xs16_1 1;
     mkUse FUNCUNIT_func_mul_s16xs16_2 1; mkUse FUNCUNIT_func_mul_s16xs16_3 1;
     mkUse FUNCUNIT_func_mul_s16xs16_4 1; mkUse FUNCUNIT_func_mul_s16xs16_5 1;
     mkUse FUNCUNIT_func_mul_s16xs16_6 1; mkUse FUNCUNIT_func_mul_s16xs16_7 1;
     mkUse FUNCUNIT_func_addsub_s32x2_slot1_extra 2; mkUse FUNCUNIT_func_addsub_s32x2_slot1_2 2;
     mkUse FUNCUNIT_func_addsub_s32x2_slot1_1 2; mkUse FUNCUNIT_func_addsub_s32x2_slot1_0 2;
     mkUse FUNCUNIT_func_addsub_s20x2_slot_end_0 2; mkUse FUNCUNIT_func_addsub_s20x2_slot_end_1 2;
     mkUse FUNCUNIT_func_addsub_s20x2_slot_end_2 2; mkUse FUNCUNIT_func_addsub_s20x2_slot_end_3 2;
     mkUse FUNCUNIT_func_addsub_s40x2_7 2; mkUse FUNCUNIT_func_addsub_s40x2_6 2;
     mkUse FUNCUNIT_func_addsub_s40x2_5 2; mkUse FUNCUNIT_func_addsub_s40x2_4 2;
     mkUse FUNCUNIT_func_addsub_s40x2_3 2; mkUse FUNCUNIT_func_addsub_s40x2_2 2;
     mkUse FUNCUNIT_func_addsub_s40x2_1 2; mkUse FUNCUNIT_func_addsub_s40x2_0 2;
     mkUse FUNCUNIT_func_shift_s16rs8_0 1; mkUse FUNCUNIT_func_shift_s16rs8_1 1;
     mkUse FUNCUNIT_func_shift_s16rs8_2 1; mkUse FUNCUNIT_func_shift_s16rs8_3 1;
     mkUse FUNCUNIT_func_shift_s16rs8_4 1; mkUse FUNCUNIT_func_shift_s16rs8_5 1;
     mkUse FUNCUNIT_func_shift_s16rs8_6 1; mkUse FUNCUNIT_func_shift_s16rs8_7 1;
     mkUse FUNCUNIT_func_shift_s16rs8_8 1; mkUse FUNCUNIT_func_shift_s16rs8_9 1;
     mkUse FUNCUNIT_func_shift_s16rs8_10 1; mkUse FUNCUNIT_func_shift_s16rs8_11 1;
     mkUse FUNCUNIT_func_shift_s16rs8_12 1; mkUse FUNCUNIT_func_shift_s16rs8_13 1;
     mkUse FUNCUNIT_func_shift_s16rs8_14 1; mkUse FUNCUNIT_func_shift_s16rs8_15 1;
     mkUse FUNCUNIT_func_shift_s32rs16_0 2; mkUse FUNCUNIT_func_shift_s32rs16_1 2;
     mkUse FUNCUNIT_func_shift_s32rs16_2 2; mkUse FUNCUNIT_func_shift_s32rs16_3 2;
     mkUse FUNCUNIT_func_shift_s32rs16_4 1; mkUse FUNCUNIT_func_shift_s32rs16_5 1;
     mkUse FUNCUNIT_func_shift_s32rs16_6 1; mkUse FUNCUNIT_func_shift_s32rs16_7 1])].

Definition s3_uses_71 : list (string * list xtensa_funcUnit_use) := [
  ("Opcode_ee_vmulas_s8_qacc_ld_xp_funcUnit_uses", [mkUse FUNCUNIT_func_addsub_s32x2_slot1_3 1;
     mkUse FUNCUNIT_func_addsub_s8x2_0 1; mkUse FUNCUNIT_func_addsub_s8x2_1 1;
     mkUse FUNCUNIT_func_addsub_s8x2_2 1; mkUse FUNCUNIT_func_addsub_s8x2_3 1;
     mkUse FUNCUNIT_func_addsub_s8x2_4 1; mkUse FUNCUNIT_func_addsub_s8x2_5 1;
     mkUse FUNCUNIT_func_addsub_s8x2_6 1; mkUse FUNCUNIT_func_addsub_s8x2_7 1;
     mkUse FUNCUNIT_func_addsub_s16x2_0 1; mkUse FUNCUNIT_func_addsub_s16x2_1 1;
     mkUse FUNCUNIT_func_addsub_s16x2_2 1; mkUse FUNCUNIT_func_addsub_s16x2_3 1;
     mkUse FUNCUNIT_func_addsub_s16x2_4 1; mkUse FUNCUNIT_func_addsub_s16x2_5 1;
     mkUse FUNCUNIT_func_addsub_s16x2_6 1; mkUse FUNCUNIT_func_addsub_s16x2_7 1;
     mkUse FUNCUNIT_func_addsub_s32x2_slot0_0 1; mkUse FUNCUNIT_func_addsub_s32x2_slot0_1 1;
     mkUse FUNCUNIT_func_addsub_s32x2_slot0_2 1; mkUse FUNCUNIT_func_addsub_s32x2_slot0_3 1;
     mkUse FUNCUNIT_func_mul_s8xs8_0 1; mkUse FUNCUNIT_func_mul_s8xs8_1 1;
     mkUse FUNCUNIT_func_mul_s8xs8_2 1; mkUse FUNCUNIT_func_mul_s8xs8_3 1;
     mkUse FUNCUNIT_func_mul_s8xs8_4 1; mkUse FUNCUNIT_func_mul_s8xs8_5 1;
     mkUse FUNCUNIT_func_mul_s8xs8_6 1; mkUse FUNCUNIT_func_mul_s8xs8_7 1;
     mkUse FUNCUNIT_func_mul_s16xs16_0 1; mkUse FUNCUNIT_func_mul_s16xs16_1 1;
     mkUse FUNCUNIT_func_mul_s16xs16_2 1; mkUse FUNCUNIT_func_mul_s16xs16_3 1;
     mkUse FUNCUNIT_func_mul_s16xs16_4 1; mkUse FUNCUNIT_func_mul_s16xs16_5 1;
     mkUse FUNCUNIT_func_mul_s16xs16_6 1; mkUse FUNCUNIT_func_mul_s16xs16_7 1;
     mkUse FUNCUNIT_func_addsub_s32x2_slot1_extra 2; mkUse FUNCUNIT_func_addsub_s32x2_slot1_2 2;
     mkUse FUNCUNIT_func_addsub_s32x2_slot1_1 2; mkUse FUNCUNIT_func_addsub_s32x2_slot1_0 2;
     mkUse FUNCUNIT_func_addsub_s20x2_slot_end_0 2; mkUse FUNCUNIT_func_addsub_s20x2_slot_end_1 2;
     mkUse FUNCUNIT_func_addsub_s20x2_slot_end_2 2; mkUse FUNCUNIT_func_addsub_s20x2_slot_end_3 2;
     mkUse FUNCUNIT_func_addsub_s40x2_7 2; mkUse FUNCUNIT_func_addsub_s40x2_6 2;
     mkUse FUNCUNIT_func_addsub_s40x2_5 2; mkUse FUNCUNIT_func_addsub_s40x2_4 2;
     mkUse FUNCUNIT_func_addsub_s40x2_3 2; mkUse FUNCUNIT_func_addsub_s40x2_2 2;
     mkUse FUNCUNIT_func_addsub_s40x2_1 2; mkUse FUNCUNIT_func_addsub_s40x2_0 2;
     mkUse FUNCUNIT_func_shift_s16rs8_0 1; mkUse FUNCUNIT_func_shift_s16rs8_1 1;
     mkUse FUNCUNIT_func_shift_s16rs8_2 1; mkUse FUNCUNIT_func_shift_s16rs8_3 1;
     mkUse FUNCUNIT_func_shift_s16rs8_4 1; mkUse FUNCUNIT_func_shift_s16rs8_5 1;
     mkUse FUNCUNIT_func_shift_s16rs8_6 1; mkUse FUNCUNIT_func_shift_s16rs8_7 1;
     mkUse FUNCUNIT_func_shift_s16rs8_8 1; mkUse FUNCUNIT_func_shift_s16rs8_9 1;
     mkUse FUNCUNIT_func_shift_s16rs8_10 1; mkUse FUNCUNIT_func_shift_s16rs8_11 1;
     mkUse FUNCUNIT_func_shift_s16rs8_12 1; mkUse FUNCUNIT_func_shift_s16rs8_13 1;
     mkUse FUNCUNIT_func_shift_s16rs8_14 1; mkUse FUNCUNIT_func_shift_s16rs8_15 1;
     mkUse FUNCUNIT_func_shift_s32rs16_0 2; mkUse FUNCUNIT_func_shift_s32rs16_1 2;
     mkUse FUNCUNIT_func_shift_s32rs16_2 2; mkUse FUNCUNIT_func_shift_s32rs16_3 2;
     mkUse FUNCUNIT_func_shift_s32rs16_4 1; mkUse FUNCUNIT_func_shift_s32rs16_5 1;
     mkUse FUNCUNIT_func_shift_s32rs16_6 1; mkUse FUNCUNIT_func_shift_s32rs16_7 1])].

Definition s3_uses_72 : list (string * list xtensa_funcUnit_use) := [
  ("Opcode_ee_vmulas_s8_qacc_funcUnit_uses", [mkUse FUNCUNIT_func_addsub_s32x2_slot1_3 1;
     mkUse FUNCUNIT_func_addsub_s8x2_0 1; mkUse FUNCUNIT_func_addsub_s8x2_1 1;
     mkUse FUNCUNIT_func_addsub_s8x2_2 1; mkUse FUNCUNIT_func_addsub_s8x2_3 1;
     mkUse FUNCUNIT_func_addsub_s8x2_4 1; mkUse FUNCUNIT_func_addsub_s8x2_5 1;
     mkUse FUNCUNIT_func_addsub_s8x2_6 1; mkUse FUNCUNIT_func_addsub_s8x2_7 1;
     mkUse FUNCUNIT_func_addsub_s16x2_0 1; mkUse FUNCUNIT_func_addsub_s16x2_1 1;
     mkUse FUNCUNIT_func_addsub_s16x2_2 1; mkUse FUNCUNIT_func_addsub_s16x2_3 1;
     mkUse FUNCUNIT_func_addsub_s16x2_4 1; mkUse FUNCUNIT_func_addsub_s16x2_5 1;
     mkUse FUNCUNIT_func_addsub_s16x2_6 1; mkUse FUNCUNIT_func_addsub_s16x2_7 1;
     mkUse FUNCUNIT_func_addsub_s32x2_slot0_0 1; mkUse FUNCUNIT_func_addsub_s32x2_slot0_1 1;
     mkUse FUNCUNIT_func_addsub_s32x2_slot0_2 1; mkUse FUNCUNIT_func_addsub_s32x2_slot0_3 1;
     mkUse FUNCUNIT_func_mul_s8xs8_0 1; mkUse FUNCUNIT_func_mul_s8xs8_1 1;
     mkUse FUNCUNIT_func_mul_s8xs8_2 1; mkUse FUNCUNIT_func_mul_s8xs8_3 1;
     mkUse FUNCUNIT_func_mul_s8xs8_4 1; mkUse FUNCUNIT_func_mul_s8xs8_5 1;
     mkUse FUNCUNIT_func_mul_s8xs8_6 1; mkUse FUNCUNIT_func_mul_s8xs8_7 1;
     mkUse FUNCUNIT_func_mul_s16xs16_0 1; mkUse FUNCUNIT_func_mul_s16xs16_1 1;
     mkUse FUNCUNIT_func_mul_s16xs16_2 1; mkUse FUNCUNIT_func_mul_s16xs16_3 1;
     mkUse FUNCUNIT_func_mul_s16xs16_4 1; mkUse FUNCUNIT_func_mul_s16xs16_5 1;
     mkUse FUNCUNIT_func_mul_s16xs16_6 1; mkUse FUNCUNIT_func_mul_s16xs16_7 1;
     mkUse FUNCUNIT_func_addsub_s32x2_slot1_extra 2; mkUse FUNCUNIT_func_addsub_s32x2_slot1_2 2;
     mkUse FUNCUNIT_func_addsub_s32x2_slot1_1 2; mkUse FUNCUNIT_func_addsub_s32x2_slot1_0 2;
     mkUse FUNCUNIT_func_addsub_s20x2_slot_end_0 2; mkUse FUNCUNIT_func_addsub_s20x2_slot_end_1 2;
     mkUse FUNCUNIT_func_addsub_s20x2_slot_end_2 2; mkUse FUNCUNIT_func_addsub_s20x2_slot_end_3 2;
     mkUse FUNCUNIT_func_addsub_s40x2_7 2; mkUse FUNCUNIT_func_addsub_s40x2_6 2;
     mkUse FUNCUNIT_func_addsub_s40x2_5 2; mkUse FUNCUNIT_func_addsub_s40x2_4 2;
     mkUse FUNCUNIT_func_addsub_s40x2_3 2; mkUse FUNCUNIT_func_addsub_s40x2_2 2;
     mkUse FUNCUNIT_func_addsub_s40x2_1 2; mkUse FUNCUNIT_func_addsub_s40x2_0 2;
     mkUse FUNCUNIT_func_shift_s16rs8_0 1; mkUse FUNCUNIT_func_shift_s16rs8_1 1;
     mkUse FUNCUNIT_func_shift_s16rs8_2 1; mkUse FUNCUNIT_func_shift_s16rs8_3 1;
     mkUse FUNCUNIT_func_shift_s16rs8_4 1; mkUse FUNCUNIT_func_shift_s16rs8_5 1;
     mkUse FUNCUNIT_func_shift_s16rs8_6 1; mkUse FUNCUNIT_func_shift_s16rs8_7 1;
     mkUse FUNCUNIT_func_shift_s16rs8_8 1; mkUse FUNCUNIT_func_shift_s16rs8_9 1;
     mkUse FUNCUNIT_func_shift_s16rs8_10 1; mkUse FUNCUNIT_func_shift_s16rs8_11 1;
     mkUse FUNCUNIT_func_shift_s16rs8_12 1; mkUse FUNCUNIT_func_shift_s16rs8_13 1;
     mkUse FUNCUNIT_func_shift_s16rs8_14 1; mkUse FUNCUNIT_func_shift_s16rs8_15 1;
     mkUse FUNCUNIT_func_shift_s32rs16_0 2; mkUse FUNCUNIT_func_shift_s32rs16_1 2;
     mkUse FUNCUNIT_func_shift_s32rs16_2 2; mkUse FUNCUNIT_func_shift_s32rs16_3 2;
     mkUse FUNCUNIT_func_shift_s32rs16_4 1; mkUse FUNCUNIT_func_shift_s32rs16_5 1;
     mkUse FUNCUNIT_func_shift_s32rs16_6 1; mkUse FUNCUNIT_func_shift_s32rs16_7 1])].

Definition s3_uses_73 : list (string * list xtensa_funcUnit_use) := [
  ("Opcode_ee_vmulas_u16_qacc_ldbc_incp_qup_funcUnit_uses", [mkUse FUNCUNIT_func_addsub_s32x2_slot1_3 1;
     mkUse FUNCUNIT_func_addsub_s8x2_0 1; mkUse FUNCUNIT_func_addsub_s8x2_1 1;
     mkUse FUNCUNIT_func_addsub_s8x2_2 1; mkUse FUNCUNIT_func_addsub_s8x2_3 1;
     mkUse FUNCUNIT_func_addsub_s8x2_4 1; mkUse FUNCUNIT_func_addsub_s8x2_5 1;
     mkUse FUNCUNIT_func_addsub_s8x2_6 1; mkUse FUNCUNIT_func_addsub_s8x2_7 1;
     mkUse FUNCUNIT_func_addsub_s16x2_0 1; mkUse FUNCUNIT_func_addsub_s16x2_1 1;
     mkUse FUNCUNIT_func_addsub_s16x2_2 1; mkUse FUNCUNIT_func_addsub_s16x2_3 1;
     mkUse FUNCUNIT_func_addsub_s16x2_4 1; mkUse FUNCUNIT_func_addsub_s16x2_5 1;
     mkUse FUNCUNIT_func_addsub_s16x2_6 1; mkUse FUNCUNIT_func_addsub_s16x2_7 1;
     mkUse FUNCUNIT_func_addsub_s32x2_slot0_0 1; mkUse FUNCUNIT_func_addsub_s32x2_slot0_1 1;
     mkUse FUNCUNIT_func_addsub_s32x2_slot0_2 1; mkUse FUNCUNIT_func_addsub_s32x2_slot0_3 1;
     mkUse FUNCUNIT_func_mul_s8xs8_0 1; mkUse FUNCUNIT_func_mul_s8xs8_1 1;
     mkUse FUNCUNIT_func_mul_s8xs8_2 1; mkUse FUNCUNIT_func_mul_s8xs8_3 1;
     mkUse FUNCUNIT_func_mul_s8xs8_4 1; mkUse FUNCUNIT_func_mul_s8xs8_5 1;
     mkUse FUNCUNIT_func_mul_s8xs8_6 1; mkUse FUNCUNIT_func_mul_s8xs8_7 1;
     mkUse FUNCUNIT_func_mul_s16xs16_0 1; mkUse FUNCUNIT_func_mul_s16xs16_1 1;
     mkUse FUNCUNIT_func_mul_s16xs16_2 1; mkUse FUNCUNIT_func_mul_s16xs16_3 1;
     mkUse FUNCUNIT_func_mul_s16xs16_4 1; mkUse FUNCUNIT_func_mul_s16xs16_5 1;
     mkUse FUNCUNIT_func_mul_s16xs16_6 1; mkUse FUNCUNIT_func_mul_s16xs16_7 1;
     mkUse FUNCUNIT_func_addsub_s32x2_slot1_extra 2; mkUse FUNCUNIT_func_addsub_s32x2_slot1_2 2;
     mkUse FUNCUNIT_func_addsub_s32x2_slot1_1 2; mkUse FUNCUNIT_func_addsub_s32x2_slot1_0 2;
     mkUse FUNCUNIT_func_addsub_s20x2_slot_end_0 2; mkUse FUNCUNIT_func_addsub_s20x2_slot_end_1 2;
     mkUse FUNCUNIT_func_addsub_s20x2_slot_end_2 2; mkUse FUNCUNIT_func_addsub_s20x2_slot_end_3 2;
     mkUse FUNCUNIT_func_addsub_s40x2_7 2; mkUse FUNCUNIT_func_addsub_s40x2_6 2;
     mkUse FUNCUNIT_func_addsub_s40x2_5 2; mkUse FUNCUNIT_func_addsub_s40x2_4 2;
     mkUse FUNCUNIT_func_addsub_s40x2_3 2; mkUse FUNCUNIT_func_addsub_s40x2_2 2;
     mkUse FUNCUNIT_func_addsub_s40x2_1 2; mkUse FUNCUNIT_func_addsub_s40x2_0 2;
     mkUse FUNCUNIT_func_shift_s16rs8_0 1; mkUse FUNCUNIT_func_shift_s16rs8_1 1;
     mkUse FUNCUNIT_func_shift_s16rs8_2 1; mkUse FUNCUNIT_func_shift_s16rs8_3 1;
     mkUse FUNCUNIT_func_shift_s16rs8_4 1; mkUse FUNCUNIT_func_shift_s16rs8_5 1;
     mkUse FUNCUNIT_func_shift_s16rs8_6 1; mkUse FUNCUNIT_func_shift_s16rs8_7 1;
     mkUse FUNCUNIT_func_shift_s16rs8_8 1; mkUse FUNCUNIT_func_shift_s16rs8_9 1;
     mkUse FUNCUNIT_func_shift_s16rs8_10 1; mkUse FUNCUNIT_func_shift_s16rs8_11 1;
     mkUse FUNCUNIT_func_shift_s16rs8_12 1; mkUse FUNCUNIT_func_shift_s16rs8_13 1;
     mkUse FUNCUNIT_func_shift_s16rs8_14 1; mkUse FUNCUNIT_func_shift_s16rs8_15 1;
     mkUse FUNCUNIT_func_shift_s32rs16_0 2; mkUse FUNCUNIT_func_shift_s32rs16_1 2;
     mkUse FUNCUNIT_func_shift_s32rs16_2 2; mkUse FUNCUNIT_func_shift_s32rs16_3 2;
     mkUse FUNCUNIT_func_shift_s32rs16_4 1; mkUse FUNCUNIT_func_shift_s32rs16_5 1;
     mkUse FUNCUNIT_func_shift_s32rs16_6 1; mkUse FUNCUNIT_func_shift_s32rs16_7 1])].

Definition s3_uses_74 : list (string * list xtensa_funcUnit_use) := [
  ("Opcode_ee_vmulas_u16_qacc_ldbc_incp_funcUnit_uses", [mkUse FUNCUNIT_func_addsub_s32x2_slot1_3 1;
     mkUse FUNCUNIT_func_addsub_s8x2_0 1; mkUse FUNCUNIT_func_addsub_s8x2_1 1;
     mkUse FUNCUNIT_func_addsub_s8x2_2 1; mkUse FUNCUNIT_func_addsub_s8x2_3 1;
     mkUse FUNCUNIT_func_addsub_s8x2_4 1; mkUse FUNCUNIT_func_addsub_s8x2_5 1;
     mkUse FUNCUNIT_func_addsub_s8x2_6 1; mkUse FUNCUNIT_func_addsub_s8x2_7 1;
     mkUse FUNCUNIT_func_addsub_s16x2_0 1; mkUse FUNCUNIT_func_addsub_s16x2_1 1;
     mkUse FUNCUNIT_func_addsub_s16x2_2 1; mkUse FUNCUNIT_func_addsub_s16x2_3 1;
     mkUse FUNCUNIT_func_addsub_s16x2_4 1; mkUse FUNCUNIT_func_addsub_s16x2_5 1;
     mkUse FUNCUNIT_func_addsub_s16x2_6 1; mkUse FUNCUNIT_func_addsub_s16x2_7 1;
     mkUse FUNCUNIT_func_addsub_s32x2_slot0_0 1; mkUse FUNCUNIT_func_addsub_s32x2_slot0_1 1;
     mkUse FUNCUNIT_func_addsub_s32x2_slot0_2 1; mkUse FUNCUNIT_func_addsub_s32x2_slot0_3 1;
     mkUse FUNCUNIT_func_mul_s8xs8_0 1; mkUse FUNCUNIT_func_mul_s8xs8_1 1;
     mkUse FUNCUNIT_func_mul_s8xs8_2 1; mkUse FUNCUNIT_func_mul_s8xs8_3 1;
     mkUse FUNCUNIT_func_mul_s8xs8_4 1; mkUse FUNCUNIT_func_mul_s8xs8_5 1;
     mkUse FUNCUNIT_func_mul_s8xs8_6 1; mkUse FUNCUNIT_func_mul_s8xs8_7 1;
     mkUse FUNCUNIT_func_mul_s16xs16_0 1; mkUse FUNCUNIT_func_mul_s16xs16_1 1;
     mkUse FUNCUNIT_func_mul_s16xs16_2 1; mkUse FUNCUNIT_func_mul_s16xs16_3 1;
     mkUse FUNCUNIT_func_mul_s16xs16_4 1; mkUse FUNCUNIT_func_mul_s16xs16_5 1;
     mkUse FUNCUNIT_func_mul_s16xs16_6 1; mkUse FUNCUNIT_func_mul_s16xs16_7 1;
     mkUse FUNCUNIT_func_addsub_s32x2_slot1_extra 2; mkUse FUNCUNIT_func_addsub_s32x2_slot1_2 2;
     mkUse FUNCUNIT_func_addsub_s32x2_slot1_1 2; mkUse FUNCUNIT_func_addsub_s32x2_slot1_0 2;
     mkUse FUNCUNIT_func_addsub_s20x2_slot_end_0 2; mkUse FUNCUNIT_func_addsub_s20x2_slot_end_1 2;
     mkUse FUNCUNIT_func_addsub_s20x2_slot_end_2 2; mkUse FUNCUNIT_func_addsub_s20x2_slot_end_3 2;
     mkUse FUNCUNIT_func_addsub_s40x2_7 2; mkUse FUNCUNIT_func_addsub_s40x2_6 2;
     mkUse FUNCUNIT_func_addsub_s40x2_5 2; mkUse FUNCUNIT_func_addsub_s40x2_4 2;
     mkUse FUNCUNIT_func_addsub_s40x2_3 2; mkUse FUNCUNIT_func_addsub_s40x2_2 2;
     mkUse FUNCUNIT_func_addsub_s40x2_1 2; mkUse FUNCUNIT_func_addsub_s40x2_0 2;
     mkUse FUNCUNIT_func_shift_s16rs8_0 1; mkUse FUNCUNIT_func_shift_s16rs8_1 1;
     mkUse FUNCUNIT_func_shift_s16rs8_2 1; mkUse FUNCUNIT_func_shift_s16rs8_3 1;
     mkUse FUNCUNIT_func_shift_s16rs8_4 1; mkUse FUNCUNIT_func_shift_s16rs8_5 1;
     mkUse FUNCUNIT_func_shift_s16rs8_6 1; mkUse FUNCUNIT_func_shift_s16rs8_7 1;
     mkUse FUNCUNIT_func_shift_s16rs8_8 1; mkUse FUNCUNIT_func_shift_s16rs8_9 1;
     mkUse FUNCUNIT_func_shift_s16rs8_10 1; mkUse FUNCUNIT_func_shift_s16rs8_11 1;
     mkUse FUNCUNIT_func_shift_s16rs8_12 1; mkUse FUNCUNIT_func_shift_s16rs8_13 1;
     mkUse FUNCUNIT_func_shift_s16rs8_14 1; mkUse FUNCUNIT_func_shift_s16rs8_15 1;
     mkUse FUNCUNIT_func_shift_s32rs16_0 2; mkUse FUNCUNIT_func_shift_s32rs16_1 2;
     mkUse FUNCUNIT_func_shift_s32rs16_2 2; mkUse FUNCUNIT_func_shift_s32rs16_3 2;
     mkUse FUNCUNIT_func_shift_s32rs16_4 1; mkUse FUNCUNIT_func_shift_s32rs16_5 1;
     mkUse FUNCUNIT_func_shift_s32rs16_6 1; mkUse FUNCUNIT_func_shift_s32rs16_7 1])].

Definition s3_uses_75 : list (string * list xtensa_funcUnit_use) := [
  ("Opcode_ee_vmulas_u16_qacc_ld_ip_qup_funcUnit_uses", [mkUse FUNCUNIT_func_addsub_s32x2_slot1_3 1;
     mkUse FUNCUNIT_func_addsub_s8x2_0 1; mkUse FUNCUNIT_func_addsub_s8x2_1 1;
     mkUse FUNCUNIT_func_addsub_s8x2_2 1; mkUse FUNCUNIT_func_addsub_s8x2_3 1;
     mkUse FUNCUNIT_func_addsub_s8x2_4 1; mkUse FUNCUNIT_func_addsub_s8x2_5 1;
     mkUse FUNCUNIT_func_addsub_s8x2_6 1; mkUse FUNCUNIT_func_addsub_s8x2_7 1;
     mkUse FUNCUNIT_func_addsub_s16x2_0 1; mkUse FUNCUNIT_func_addsub_s16x2_1 1;
     mkUse FUNCUNIT_func_addsub_s16x2_2 1; mkUse FUNCUNIT_func_addsub_s16x2_3 1;
     mkUse FUNCUNIT_func_addsub_s16x2_4 1; mkUse FUNCUNIT_func_addsub_s16x2_5 1;
     mkUse FUNCUNIT_func_addsub_s16x2_6 1; mkUse FUNCUNIT_func_addsub_s16x2_7 1;
     mkUse FUNCUNIT_func_addsub_s32x2_slot0_0 1; mkUse FUNCUNIT_func_addsub_s32x2_slot0_1 1;
     mkUse FUNCUNIT_func_addsub_s32x2_slot0_2 1; mkUse FUNCUNIT_func_addsub_s32x2_slot0_3 1;
     mkUse FUNCUNIT_func_mul_s8xs8_0 1; mkUse FUNCUNIT_func_mul_s8xs8_1 1;
     mkUse FUNCUNIT_func_mul_s8xs8_2 1; mkUse FUNCUNIT_func_mul_s8xs8_3 1;
     mkUse FUNCUNIT_func_mul_s8xs8_4 1; mkUse FUNCUNIT_func_mul_s8xs8_5 1;
     mkUse FUNCUNIT_func_mul_s8xs8_6 1; mkUse FUNCUNIT_func_mul_s8xs8_7 1;
     mkUse FUNCUNIT_func_mul_s16xs16_0 1; mkUse FUNCUNIT_func_mul_s16xs16_1 1;
     mkUse FUNCUNIT_func_mul_s16xs16_2 1; mkUse FUNCUNIT_func_mul_s16xs16_3 1;
     mkUse FUNCUNIT_func_mul_s16xs16_4 1; mkUse FUNCUNIT_func_mul_s16xs16_5 1;
     mkUse FUNCUNIT_func_mul_s16xs16_6 1; mkUse FUNCUNIT_func_mul_s16xs16_7 1;
     mkUse FUNCUNIT_func_addsub_s32x2_slot1_extra 2; mkUse FUNCUNIT_func_addsub_s32x2_slot1_2 2;
     mkUse FUNCUNIT_func_addsub_s32x2_slot1_1 2; mkUse FUNCUNIT_func_addsub_s32x2_slot1_0 2;
     mkUse FUNCUNIT_func_addsub_s20x2_slot_end_0 2; mkUse FUNCUNIT_func_addsub_s20x2_slot_end_1 2;
     mkUse FUNCUNIT_func_addsub_s20x2_slot_end_2 2; mkUse FUNCUNIT_func_addsub_s20x2_slot_end_3 2;
     mkUse FUNCUNIT_func_addsub_s40x2_7 2; mkUse FUNCUNIT_func_addsub_s40x2_6 2;
     mkUse FUNCUNIT_func_addsub_s40x2_5 2; mkUse FUNCUNIT_func_addsub_s40x2_4 2;
     mkUse FUNCUNIT_func_addsub_s40x2_3 2; mkUse FUNCUNIT_func_addsub_s40x2_2 2;
     mkUse FUNCUNIT_func_addsub_s40x2_1 2; mkUse FUNCUNIT_func_addsub_s40x2_0 2;
     mkUse FUNCUNIT_func_shift_s16rs8_0 1; mkUse FUNCUNIT_func_shift_s16rs8_1 1;
     mkUse FUNCUNIT_func_shift_s16rs8_2 1; mkUse FUNCUNIT_func_shift_s16rs8_3 1;
     mkUse FUNCUNIT_func_shift_s16rs8_4 1; mkUse FUNCUNIT_func_shift_s16rs8_5 1;
     mkUse FUNCUNIT_func_shift_s16rs8_6 1; mkUse FUNCUNIT_func_shift_s16rs8_7 1;
     mkUse FUNCUNIT_func_shift_s16rs8_8 1; mkUse FUNCUNIT_func_shift_s16rs8_9 1;
     mkUse FUNCUNIT_func_shift_s16rs8_10 1; mkUse FUNCUNIT_func_shift_s16rs8_11 1;
     mkUse FUNCUNIT_func_shift_s16rs8_12 1; mkUse FUNCUNIT_func_shift_s16rs8_13 1;
     mkUse FUNCUNIT_func_shift_s16rs8_14 1; mkUse FUNCUNIT_func_shift_s16rs8_15 1;
     mkUse FUNCUNIT_func_shift_s32rs16_0 2; mkUse FUNCUNIT_func_shift_s32rs16_1 2;
     mkUse FUNCUNIT_func_shift_s32rs16_2 2; mkUse FUNCUNIT_func_shift_s32rs16_3 2;
     mkUse FUNCUNIT_func_shift_s32rs16_4 1; mkUse FUNCUNIT_func_shift_s32rs16_5 1;
     mkUse FUNCUNIT_func_shift_s32rs16_6 1; mkUse FUNCUNIT_func_shift_s32rs16_7 1])].

Definition s3_uses_76 : list (string * list xtensa_funcUnit_use) := [
  ("Opcode_ee_vmulas_u16_qacc_ld_ip_funcUnit_uses", [mkUse FUNCUNIT_func_addsub_s32x2_slot1_3 1;
     mkUse FUNCUNIT_func_addsub_s8x2_0 1; mkUse FUNCUNIT_func_addsub_s8x2_1 1;
     mkUse FUNCUNIT_func_addsub_s8x2_2 1; mkUse FUNCUNIT_func_addsub_s8x2_3 1;
     mkUse FUNCUNIT_func_addsub_s8x2_4 1; mkUse FUNCUNIT_func_addsub_s8x2_5 1;
     mkUse FUNCUNIT_func_addsub_s8x2_6 1; mkUse FUNCUNIT_func_addsub_s8x2_7 1;
     mkUse FUNCUNIT_func_addsub_s16x2_0 1; mkUse FUNCUNIT_func_addsub_s16x2_1 1;
     mkUse FUNCUNIT_func_addsub_s16x2_2 1; mkUse FUNCUNIT_func_addsub_s16x2_3 1;
     mkUse FUNCUNIT_func_addsub_s16x2_4 1; mkUse FUNCUNIT_func_addsub_s16x2_5 1;
     mkUse FUNCUNIT_func_addsub_s16x2_6 1; mkUse FUNCUNIT_func_addsub_s16x2_7 1;
     mkUse FUNCUNIT_func_addsub_s32x2_slot0_0 1; mkUse FUNCUNIT_func_addsub_s32x2_slot0_1 1;
     mkUse FUNCUNIT_func_addsub_s32x2_slot0_2 1; mkUse FUNCUNIT_func_addsub_s32x2_slot0_3 1;
     mkUse FUNCUNIT_func_mul_s8xs8_0 1; mkUse FUNCUNIT_func_mul_s8xs8_1 1;
     mkUse FUNCUNIT_func_mul_s8xs8_2 1; mkUse FUNCUNIT_func_mul_s8xs8_3 1;
     mkUse FUNCUNIT_func_mul_s8xs8_4 1; mkUse FUNCUNIT_func_mul_s8xs8_5 1;
     mkUse FUNCUNIT_func_mul_s8xs8_6 1; mkUse FUNCUNIT_func_mul_s8xs8_7 1;
     mkUse FUNCUNIT_func_mul_s16xs16_0 1; mkUse FUNCUNIT_func_mul_s16xs16_1 1;
     mkUse FUNCUNIT_func_mul_s16xs16_2 1; mkUse FUNCUNIT_func_mul_s16xs16_3 1;
     mkUse FUNCUNIT_func_mul_s16xs16_4 1; mkUse FUNCUNIT_func_mul_s16xs16_5 1;
     mkUse FUNCUNIT_func_mul_s16xs16_6 1; mkUse FUNCUNIT_func_mul_s16xs16_7 1;
     mkUse FUNCUNIT_func_addsub_s32x2_slot1_extra 2; mkUse FUNCUNIT_func_addsub_s32x2_slot1_2 2;
     mkUse FUNCUNIT_func_addsub_s32x2_slot1_1 2; mkUse FUNCUNIT_func_addsub_s32x2_slot1_0 2;
     mkUse FUNCUNIT_func_addsub_s20x2_slot_end_0 2; mkUse FUNCUNIT_func_addsub_s20x2_slot_end_1 2;
     mkUse FUNCUNIT_func_addsub_s20x2_slot_end_2 2; mkUse FUNCUNIT_func_addsub_s20x2_slot_end_3 2;
     mkUse FUNCUNIT_func_addsub_s40x2_7 2; mkUse FUNCUNIT_func_addsub_s40x2_6 2;
     mkUse FUNCUNIT_func_addsub_s40x2_5 2; mkUse FUNCUNIT_func_addsub_s40x2_4 2;
     mkUse FUNCUNIT_func_addsub_s40x2_3 2; mkUse FUNCUNIT_func_addsub_s40x2_2 2;
     mkUse FUNCUNIT_func_addsub_s40x2_1 2; mkUse FUNCUNIT_func_addsub_s40x2_0 2;
     mkUse FUNCUNIT_func_shift_s16rs8_0 1; mkUse FUNCUNIT_func_shift_s16rs8_1 1;
     mkUse FUNCUNIT_func_shift_s16rs8_2 1; mkUse FUNCUNIT_func_shift_s16rs8_3 1;
     mkUse FUNCUNIT_func_shift_s16rs8_4 1; mkUse FUNCUNIT_func_shift_s16rs8_5 1;
     mkUse FUNCUNIT_func_shift_s16rs8_6 1; mkUse FUNCUNIT_func_shift_s16rs8_7 1;
     mkUse FUNCUNIT_func_shift_s16rs8_8 1; mkUse FUNCUNIT_func_shift_s16rs8_9 1;
     mkUse FUNCUNIT_func_shift_s16rs8_10 1; mkUse FUNCUNIT_func_shift_s16rs8_11 1;
     mkUse FUNCUNIT_func_shift_s16rs8_12 1; mkUse FUNCUNIT_func_shift_s16rs8_13 1;
     mkUse FUNCUNIT_func_shift_s16rs8_14 1; mkUse FUNCUNIT_func_shift_s16rs8_15 1;
     mkUse FUNCUNIT_func_shift_s32rs16_0 2; mkUse FUNCUNIT_func_shift_s32rs16_1 2;
     mkUse FUNCUNIT_func_shift_s32rs16_2 2; mkUse FUNCUNIT_func_shift_s32rs16_3 2;
     mkUse FUNCUNIT_func_shift_s32rs16_4 1; mkUse FUNCUNIT_func_shift_s32rs16_5 1;
     mkUse FUNCUNIT_func_shift_s32rs16_6 1; mkUse FUNCUNIT_func_shift_s32rs16_7 1])].

Definition s3_uses_77 : list (string * list xtensa_funcUnit_use) := [
  ("Opcode_ee_vmulas_u16_qacc_ld_xp_qup_funcUnit_uses", [mkUse FUNCUNIT_func_addsub_s32x2_slot1_3 1;
     mkUse FUNCUNIT_func_addsub_s8x2_0 1; mkUse FUNCUNIT_func_addsub_s8x2_1 1;
     mkUse FUNCUNIT_func_addsub_s8x2_2 1; mkUse FUNCUNIT_func_addsub_s8x2_3 1;
     mkUse FUNCUNIT_func_addsub_s8x2_4 1; mkUse FUNCUNIT_func_addsub_s8x2_5 1;
     mkUse FUNCUNIT_func_addsub_s8x2_6 1; mkUse FUNCUNIT_func_addsub_s8x2_7 1;
     mkUse FUNCUNIT_func_addsub_s16x2_0 1; mkUse FUNCUNIT_func_addsub_s16x2_1 1;
     mkUse FUNCUNIT_func_addsub_s16x2_2 1; mkUse FUNCUNIT_func_addsub_s16x2_3 1;
     mkUse FUNCUNIT_func_addsub_s16x2_4 1; mkUse FUNCUNIT_func_addsub_s16x2_5 1;
     mkUse FUNCUNIT_func_addsub_s16x2_6 1; mkUse FUNCUNIT_func_addsub_s16x2_7 1;
     mkUse FUNCUNIT_func_addsub_s32x2_slot0_0 1; mkUse FUNCUNIT_func_addsub_s32x2_slot0_1 1;
     mkUse FUNCUNIT_func_addsub_s32x2_slot0_2 1; mkUse FUNCUNIT_func_addsub_s32x2_slot0_3 1;
     mkUse FUNCUNIT_func_mul_s8xs8_0 1; mkUse FUNCUNIT_func_mul_s8xs8_1 1;
     mkUse FUNCUNIT_func_mul_s8xs8_2 1; mkUse FUNCUNIT_func_mul_s8xs8_3 1;
     mkUse FUNCUNIT_func_mul_s8xs8_4 1; mkUse FUNCUNIT_func_mul_s8xs8_5 1;
     mkUse FUNCUNIT_func_mul_s8xs8_6 1; mkUse FUNCUNIT_func_mul_s8xs8_7 1;
     mkUse FUNCUNIT_func_mul_s16xs16_0 1; mkUse FUNCUNIT_func_mul_s16xs16_1 1;
     mkUse FUNCUNIT_func_mul_s16xs16_2 1; mkUse FUNCUNIT_func_mul_s16xs16_3 1;
     mkUse FUNCUNIT_func_mul_s16xs16_4 1; mkUse FUNCUNIT_func_mul_s16xs16_5 1;
     mkUse FUNCUNIT_func_mul_s16xs16_6 1; mkUse FUNCUNIT_func_mul_s16xs16_7 1;
     mkUse FUNCUNIT_func_addsub_s32x2_slot1_extra 2; mkUse FUNCUNIT_func_addsub_s32x2_slot1_2 2;
     mkUse FUNCUNIT_func_addsub_s32x2_slot1_1 2; mkUse FUNCUNIT_func_addsub_s32x2_slot1_0 2;
     mkUse FUNCUNIT_func_addsub_s20x2_slot_end_0 2; mkUse FUNCUNIT_func_addsub_s20x2_slot_end_1 2;
     mkUse FUNCUNIT_func_addsub_s20x2_slot_end_2 2; mkUse FUNCUNIT_func_addsub_s20x2_slot_end_3 2;
     mkUse FUNCUNIT_func_addsub_s40x2_7 2; mkUse FUNCUNIT_func_addsub_s40x2_6 2;
     mkUse FUNCUNIT_func_addsub_s40x2_5 2; mkUse FUNCUNIT_func_addsub_s40x2_4 2;
     mkUse FUNCUNIT_func_addsub_s40x2_3 2; mkUse FUNCUNIT_func_addsub_s40x2_2 2;
     mkUse FUNCUNIT_func_addsub_s40x2_1 2; mkUse FUNCUNIT_func_addsub_s40x2_0 2;
     mkUse FUNCUNIT_func_shift_s16rs8_0 1; mkUse FUNCUNIT_func_shift_s16rs8_1 1;
     mkUse FUNCUNIT_func_shift_s16rs8_2 1; mkUse FUNCUNIT_func_shift_s16rs8_3 1;
     mkUse FUNCUNIT_func_shift_s16rs8_4 1; mkUse FUNCUNIT_func_shift_s16rs8_5 1;
     mkUse FUNCUNIT_func_shift_s16rs8_6 1; mkUse FUNCUNIT_func_shift_s16rs8_7 1;
     mkUse FUNCUNIT_func_shift_s16rs8_8 1; mkUse FUNCUNIT_func_shift_s16rs8_9 1;
     mkUse FUNCUNIT_func_shift_s16rs8_10 1; mkUse FUNCUNIT_func_shift_s16rs8_11 1;
     mkUse FUNCUNIT_func_shift_s16rs8_12 1; mkUse FUNCUNIT_func_shift_s16rs8_13 1;
     mkUse FUNCUNIT_func_shift_s16rs8_14 1; mkUse FUNCUNIT_func_shift_s16rs8_15 1;
     mkUse FUNCUNIT_func_shift_s32rs16_0 2; mkUse FUNCUNIT_func_shift_s32rs16_1 2;
     mkUse FUNCUNIT_func_shift_s32rs16_2 2; mkUse FUNCUNIT_func_shift_s32rs16_3 2;
     mkUse FUNCUNIT_func_shift_s32rs16_4 1; mkUse FUNCUNIT_func_shift_s32rs16_5 1;
     mkUse FUNCUNIT_func_shift_s32rs16_6 1; mkUse FUNCUNIT_func_shift_s32rs16_7 1])].

Definition s3_uses_78 : list (string * list xtensa_funcUnit_use) := [
  ("Opcode_ee_vmulas_u16_qacc_ld_xp_funcUnit_uses", [mkUse FUNCUNIT_func_addsub_s32x2_slot1_3 1;
     mkUse FUNCUNIT_func_addsub_s8x2_0 1; mkUse FUNCUNIT_func_addsub_s8x2_1 1;
     mkUse FUNCUNIT_func_addsub_s8x2_2 1; mkUse FUNCUNIT_func_addsub_s8x2_3 1;
     mkUse FUNCUNIT_func_addsub_s8x2_4 1; mkUse FUNCUNIT_func_addsub_s8x2_5 1;
     mkUse FUNCUNIT_func_addsub_s8x2_6 1; mkUse FUNCUNIT_func_addsub_s8x2_7 1;
     mkUse FUNCUNIT_func_addsub_s16x2_0 1; mkUse FUNCUNIT_func_addsub_s16x2_1 1;
     mkUse FUNCUNIT_func_addsub_s16x2_2 1; mkUse FUNCUNIT_func_addsub_s16x2_3 1;
     mkUse FUNCUNIT_func_addsub_s16x2_4 1; mkUse FUNCUNIT_func_addsub_s16x2_5 1;
     mkUse FUNCUNIT_func_addsub_s16x2_6 1; mkUse FUNCUNIT_func_addsub_s16x2_7 1;
     mkUse FUNCUNIT_func_addsub_s32x2_slot0_0 1; mkUse FUNCUNIT_func_addsub_s32x2_slot0_1 1;
     mkUse FUNCUNIT_func_addsub_s32x2_slot0_2 1; mkUse FUNCUNIT_func_addsub_s32x2_slot0_3 1;
     mkUse FUNCUNIT_func_mul_s8xs8_0 1; mkUse FUNCUNIT_func_mul_s8xs8_1 1;
     mkUse FUNCUNIT_func_mul_s8xs8_2 1; mkUse FUNCUNIT_func_mul_s8xs8_3 1;
     mkUse FUNCUNIT_func_mul_s8xs8_4 1; mkUse FUNCUNIT_func_mul_s8xs8_5 1;
     mkUse FUNCUNIT_func_mul_s8xs8_6 1; mkUse FUNCUNIT_func_mul_s8xs8_7 1;
     mkUse FUNCUNIT_func_mul_s16xs16_0 1; mkUse FUNCUNIT_func_mul_s16xs16_1 1;
     mkUse FUNCUNIT_func_mul_s16xs16_2 1; mkUse FUNCUNIT_func_mul_s16xs16_3 1;
     mkUse FUNCUNIT_func_mul_s16xs16_4 1; mkUse FUNCUNIT_func_mul_s16xs16_5 1;
     mkUse FUNCUNIT_func_mul_s16xs16_6 1; mkUse FUNCUNIT_func_mul_s16xs16_7 1;
     mkUse FUNCUNIT_func_addsub_s32x2_slot1_extra 2; mkUse FUNCUNIT_func_addsub_s32x2_slot1_2 2;
     mkUse FUNCUNIT_func_addsub_s32x2_slot1_1 2; mkUse FUNCUNIT_func_addsub_s32x2_slot1_0 2;
     mkUse FUNCUNIT_func_addsub_s20x2_slot_end_0 2; mkUse FUNCUNIT_func_addsub_s20x2_slot_end_1 2;
     mkUse FUNCUNIT_func_addsub_s20x2_slot_end_2 2; mkUse FUNCUNIT_func_addsub_s20x2_slot_end_3 2;
     mkUse FUNCUNIT_func_addsub_s40x2_7 2; mkUse FUNCUNIT_func_addsub_s40x2_6 2;
     mkUse FUNCUNIT_func_addsub_s40x2_5 2; mkUse FUNCUNIT_func_addsub_s40x2_4 2;
     mkUse FUNCUNIT_func_addsub_s40x2_3 2; mkUse FUNCUNIT_func_addsub_s40x2_2 2;
     mkUse FUNCUNIT_func_addsub_s40x2_1 2; mkUse FUNCUNIT_func_addsub_s40x2_0 2;
     mkUse FUNCUNIT_func_shift_s16rs8_0 1; mkUse FUNCUNIT_func_shift_s16rs8_1 1;
     mkUse FUNCUNIT_func_shift_s16rs8_2 1; mkUse FUNCUNIT_func_shift_s16rs8_3 1;
     mkUse FUNCUNIT_func_shift_s16rs8_4 1; mkUse FUNCUNIT_func_shift_s16rs8_5 1;
     mkUse FUNCUNIT_func_shift_s16rs8_6 1; mkUse FUNCUNIT_func_shift_s16rs8_7 1;
     mkUse FUNCUNIT_func_shift_s16rs8_8 1; mkUse FUNCUNIT_func_shift_s16rs8_9 1;
     mkUse FUNCUNIT_func_shift_s16rs8_10 1; mkUse FUNCUNIT_func_shift_s16rs8_11 1;
     mkUse FUNCUNIT_func_shift_s16rs8_12 1; mkUse FUNCUNIT_func_shift_s16rs8_13 1;
     mkUse FUNCUNIT_func_shift_s16rs8_14 1; mkUse FUNCUNIT_func_shift_s16rs8_15 1;
     mkUse FUNCUNIT_func_shift_s32rs16_0 2; mkUse FUNCUNIT_func_shift_s32rs16_1 2;
     mkUse FUNCUNIT_func_shift_s32rs16_2 2; mkUse FUNCUNIT_func_shift_s32rs16_3 2;
     mkUse FUNCUNIT_func_shift_s32rs16_4 1; mkUse FUNCUNIT_func_shift_s32rs16_5 1;
     mkUse FUNCUNIT_func_shift_s32rs16_6 1; mkUse FUNCUNIT_func_shift_s32rs16_7 1])].

Definition s3_uses_79 : list (string * list xtensa_funcUnit_use) := [
  ("Opcode_ee_vmulas_u16_qacc_funcUnit_uses", [mkUse FUNCUNIT_func_addsub_s32x2_slot1_3 1;
     mkUse FUNCUNIT_func_addsub_s8x2_0 1; mkUse FUNCUNIT_func_addsub_s8x2_1 1;
     mkUse FUNCUNIT_func_addsub_s8x2_2 1; mkUse FUNCUNIT_func_addsub_s8x2_3 1;
     mkUse FUNCUNIT_func_addsub_s8x2_4 1; mkUse FUNCUNIT_func_addsub_s8x2_5 1;
     mkUse FUNCUNIT_func_addsub_s8x2_6 1; mkUse FUNCUNIT_func_addsub_s8x2_7 1;
     mkUse FUNCUNIT_func_addsub_s16x2_0 1; mkUse FUNCUNIT_func_addsub_s16x2_1 1;
     mkUse FUNCUNIT_func_addsub_s16x2_2 1; mkUse FUNCUNIT_func_addsub_s16x2_3 1;
     mkUse FUNCUNIT_func_addsub_s16x2_4 1; mkUse FUNCUNIT_func_addsub_s16x2_5 1;
     mkUse FUNCUNIT_func_addsub_s16x2_6 1; mkUse FUNCUNIT_func_addsub_s16x2_7 1;
     mkUse FUNCUNIT_func_addsub_s32x2_slot0_0 1; mkUse FUNCUNIT_func_addsub_s32x2_slot0_1 1;
     mkUse FUNCUNIT_func_addsub_s32x2_slot0_2 1; mkUse FUNCUNIT_func_addsub_s32x2_slot0_3 1;
     mkUse FUNCUNIT_func_mul_s8xs8_0 1; mkUse FUNCUNIT_func_mul_s8xs8_1 1;
     mkUse FUNCUNIT_func_mul_s8xs8_2 1; mkUse FUNCUNIT_func_mul_s8xs8_3 1;
     mkUse FUNCUNIT_func_mul_s8xs8_4 1; mkUse FUNCUNIT_func_mul_s8xs8_5 1;
     mkUse FUNCUNIT_func_mul_s8xs8_6 1; mkUse FUNCUNIT_func_mul_s8xs8_7 1;
     mkUse FUNCUNIT_func_mul_s16xs16_0 1; mkUse FUNCUNIT_func_mul_s16xs16_1 1;
     mkUse FUNCUNIT_func_mul_s16xs16_2 1; mkUse FUNCUNIT_func_mul_s16xs16_3 1;
     mkUse FUNCUNIT_func_mul_s16xs16_4 1; mkUse FUNCUNIT_func_mul_s16xs16_5 1;
     mkUse FUNCUNIT_func_mul_s16xs16_6 1; mkUse FUNCUNIT_func_mul_s16xs16_7 1;
     mkUse FUNCUNIT_func_addsub_s32x2_slot1_extra 2; mkUse FUNCUNIT_func_addsub_s32x2_slot1_2 2;
     mkUse FUNCUNIT_func_addsub_s32x2_slot1_1 2; mkUse FUNCUNIT_func_addsub_s32x2_slot1_0 2;
     mkUse FUNCUNIT_func_addsub_s20x2_slot_end_0 2; mkUse FUNCUNIT_func_addsub_s20x2_slot_end_1 2;
     mkUse FUNCUNIT_func_addsub_s20x2_slot_end_2 2; mkUse FUNCUNIT_func_addsub_s20x2_slot_end_3 2;
     mkUse FUNCUNIT_func_addsub_s40x2_7 2; mkUse FUNCUNIT_func_addsub_s40x2_6 2;
     mkUse FUNCUNIT_func_addsub_s40x2_5 2; mkUse FUNCUNIT_func_addsub_s40x2_4 2;
     mkUse FUNCUNIT_func_addsub_s40x2_3 2; mkUse FUNCUNIT_func_addsub_s40x2_2 2;
     mkUse FUNCUNIT_func_addsub_s40x2_1 2; mkUse FUNCUNIT_func_addsub_s40x2_0 2;
     mkUse FUNCUNIT_func_shift_s16rs8_0 1; mkUse FUNCUNIT_func_shift_s16rs8_1 1;
     mkUse FUNCUNIT_func_shift_s16rs8_2 1; mkUse FUNCUNIT_func_shift_s16rs8_3 1;
     mkUse FUNCUNIT_func_shift_s16rs8_4 1; mkUse FUNCUNIT_func_shift_s16rs8_5 1;
     mkUse FUNCUNIT_func_shift_s16rs8_6 1; mkUse FUNCUNIT_func_shift_s16rs8_7 1;
     mkUse FUNCUNIT_func_shift_s16rs8_8 1; mkUse FUNCUNIT_func_shift_s16rs8_9 1;
     mkUse FUNCUNIT_func_shift_s16rs8_10 1; mkUse FUNCUNIT_func_shift_s16rs8_11 1;
     mkUse FUNCUNIT_func_shift_s16rs8_12 1; mkUse FUNCUNIT_func_shift_s16rs8_13 1;
     mkUse FUNCUNIT_func_shift_s16rs8_14 1; mkUse FUNCUNIT_func_shift_s16rs8_15 1;
     mkUse FUNCUNIT_func_shift_s32rs16_0 2; mkUse FUNCUNIT_func_shift_s32rs16_1 2;
     mkUse FUNCUNIT_func_shift_s32rs16_2 2; mkUse FUNCUNIT_func_shift_s32rs16_3 2;
     mkUse FUNCUNIT_func_shift_s32rs16_4 1; mkUse FUNCUNIT_func_shift_s32rs16_5 1;
     mkUse FUNCUNIT_func_shift_s32rs16_6 1; mkUse FUNCUNIT_func_shift_s32rs16_7 1])].

Definition s3_uses_80 : list (string * list xtensa_funcUnit_use) := [
  ("Opcode_ee_vmulas_u8_qacc_ldbc_incp_qup_funcUnit_uses", [mkUse FUNCUNIT_func_addsub_s32x2_slot1_3 1;
     mkUse FUNCUNIT_func_addsub_s8x2_0 1; mkUse FUNCUNIT_func_addsub_s8x2_1 1;
     mkUse FUNCUNIT_func_addsub_s8x2_2 1; mkUse FUNCUNIT_func_addsub_s8x2_3 1;
     mkUse FUNCUNIT_func_addsub_s8x2_4 1; mkUse FUNCUNIT_func_addsub_s8x2_5 1;
     mkUse FUNCUNIT_func_addsub_s8x2_6 1; mkUse FUNCUNIT_func_addsub_s8x2_7 1;
     mkUse FUNCUNIT_func_addsub_s16x2_0 1; mkUse FUNCUNIT_func_addsub_s16x2_1 1;
     mkUse FUNCUNIT_func_addsub_s16x2_2 1; mkUse FUNCUNIT_func_addsub_s16x2_3 1;
     mkUse FUNCUNIT_func_addsub_s16x2_4 1; mkUse FUNCUNIT_func_addsub_s16x2_5 1;
     mkUse FUNCUNIT_func_addsub_s16x2_6 1; mkUse FUNCUNIT_func_addsub_s16x2_7 1;
     mkUse FUNCUNIT_func_addsub_s32x2_slot0_0 1; mkUse FUNCUNIT_func_addsub_s32x2_slot0_1 1;
     mkUse FUNCUNIT_func_addsub_s32x2_slot0_2 1; mkUse FUNCUNIT_func_addsub_s32x2_slot0_3 1;
     mkUse FUNCUNIT_func_mul_s8xs8_0 1; mkUse FUNCUNIT_func_mul_s8xs8_1 1;
     mkUse FUNCUNIT_func_mul_s8xs8_2 1; mkUse FUNCUNIT_func_mul_s8xs8_3 1;
     mkUse FUNCUNIT_func_mul_s8xs8_4 1; mkUse FUNCUNIT_func_mul_s8xs8_5 1;
     mkUse FUNCUNIT_func_mul_s8xs8_6 1; mkUse FUNCUNIT_func_mul_s8xs8_7 1;
     mkUse FUNCUNIT_func_mul_s16xs16_0 1; mkUse FUNCUNIT_func_mul_s16xs16_1 1;
     mkUse FUNCUNIT_func_mul_s16xs16_2 1; mkUse FUNCUNIT_func_mul_s16xs16_3 1;
     mkUse FUNCUNIT_func_mul_s16xs16_4 1; mkUse FUNCUNIT_func_mul_s16xs16_5 1;
     mkUse FUNCUNIT_func_mul_s16xs16_6 1; mkUse FUNCUNIT_func_mul_s16xs16_7 1;
     mkUse FUNCUNIT_func_addsub_s32x2_slot1_extra 2; mkUse FUNCUNIT_func_addsub_s32x2_slot1_2 2;
     mkUse FUNCUNIT_func_addsub_s32x2_slot1_1 2; mkUse FUNCUNIT_func_addsub_s32x2_slot1_0 2;
     mkUse FUNCUNIT_func_addsub_s20x2_slot_end_0 2; mkUse FUNCUNIT_func_addsub_s20x2_slot_end_1 2;
     mkUse FUNCUNIT_func_addsub_s20x2_slot_end_2 2; mkUse FUNCUNIT_func_addsub_s20x2_slot_end_3 2;
     mkUse FUNCUNIT_func_addsub_s40x2_7 2; mkUse FUNCUNIT_func_addsub_s40x2_6 2;
     mkUse FUNCUNIT_func_addsub_s40x2_5 2; mkUse FUNCUNIT_func_addsub_s40x2_4 2;
     mkUse FUNCUNIT_func_addsub_s40x2_3 2; mkUse FUNCUNIT_func_addsub_s40x2_2 2;
     mkUse FUNCUNIT_func_addsub_s40x2_1 2; mkUse FUNCUNIT_func_addsub_s40x2_0 2;
     mkUse FUNCUNIT_func_shift_s16rs8_0 1; mkUse FUNCUNIT_func_shift_s16rs8_1 1;
     mkUse FUNCUNIT_func_shift_s16rs8_2 1; mkUse FUNCUNIT_func_shift_s16rs8_3 1;
     mkUse FUNCUNIT_func_shift_s16rs8_4 1; mkUse FUNCUNIT_func_shift_s16rs8_5 1;
     mkUse FUNCUNIT_func_shift_s16rs8_6 1; mkUse FUNCUNIT_func_shift_s16rs8_7 1;
     mkUse FUNCUNIT_func_shift_s16rs8_8 1; mkUse FUNCUNIT_func_shift_s16rs8_9 1;
     mkUse FUNCUNIT_func_shift_s16rs8_10 1; mkUse FUNCUNIT_func_shift_s16rs8_11 1;
     mkUse FUNCUNIT_func_shift_s16rs8_12 1; mkUse FUNCUNIT_func_shift_s16rs8_13 1;
     mkUse FUNCUNIT_func_shift_s16rs8_14 1; mkUse FUNCUNIT_func_shift_s16rs8_15 1;
     mkUse FUNCUNIT_func_shift_s32rs16_0 2; mkUse FUNCUNIT_func_shift_s32rs16_1 2;
     mkUse FUNCUNIT_func_shift_s32rs16_2 2; mkUse FUNCUNIT_func_shift_s32rs16_3 2;
     mkUse FUNCUNIT_func_shift_s32rs16_4 1; mkUse FUNCUNIT_func_shift_s32rs16_5 1;
     mkUse FUNCUNIT_func_shift_s32rs16_6 1; mkUse FUNCUNIT_func_shift_s32rs16_7 1])].

Definition s3_uses_81 : list (string * list xtensa_funcUnit_use) := [
  ("Opcode_ee_vmulas_u8_qacc_ldbc_incp_funcUnit_uses", [mkUse FUNCUNIT_func_addsub_s32x2_slot1_3 1;
     mkUse FUNCUNIT_func_addsub_s8x2_0 1; mkUse FUNCUNIT_func_addsub_s8x2_1 1;
     mkUse FUNCUNIT_func_addsub_s8x2_2 1; mkUse FUNCUNIT_func_addsub_s8x2_3 1;
     mkUse FUNCUNIT_func_addsub_s8x2_4 1; mkUse FUNCUNIT_func_addsub_s8x2_5 1;
     mkUse FUNCUNIT_func_addsub_s8x2_6 1; mkUse FUNCUNIT_func_addsub_s8x2_7 1;
     mkUse FUNCUNIT_func_addsub_s16x2_0 1; mkUse FUNCUNIT_func_addsub_s16x2_1 1;
     mkUse FUNCUNIT_func_addsub_s16x2_2 1; mkUse FUNCUNIT_func_addsub_s16x2_3 1;
     mkUse FUNCUNIT_func_addsub_s16x2_4 1; mkUse FUNCUNIT_func_addsub_s16x2_5 1;
     mkUse FUNCUNIT_func_addsub_s16x2_6 1; mkUse FUNCUNIT_func_addsub_s16x2_7 1;
     mkUse FUNCUNIT_func_addsub_s32x2_slot0_0 1; mkUse FUNCUNIT_func_addsub_s32x2_slot0_1 1;
     mkUse FUNCUNIT_func_addsub_s32x2_slot0_2 1; mkUse FUNCUNIT_func_addsub_s32x2_slot0_3 1;
     mkUse FUNCUNIT_func_mul_s8xs8_0 1; mkUse FUNCUNIT_func_mul_s8xs8_1 1;
     mkUse FUNCUNIT_func_mul_s8xs8_2 1; mkUse FUNCUNIT_func_mul_s8xs8_3 1;
     mkUse FUNCUNIT_func_mul_s8xs8_4 1; mkUse FUNCUNIT_func_mul_s8xs8_5 1;
     mkUse FUNCUNIT_func_mul_s8xs8_6 1; mkUse FUNCUNIT_func_mul_s8xs8_7 1;
     mkUse FUNCUNIT_func_mul_s16xs16_0 1; mkUse FUNCUNIT_func_mul_s16xs16_1 1;
     mkUse FUNCUNIT_func_mul_s16xs16_2 1; mkUse FUNCUNIT_func_mul_s16xs16_3 1;
     mkUse FUNCUNIT_func_mul_s16xs16_4 1; mkUse FUNCUNIT_func_mul_s16xs16_5 1;
     mkUse FUNCUNIT_func_mul_s16xs16_6 1; mkUse FUNCUNIT_func_mul_s16xs16_7 1;
     mkUse FUNCUNIT_func_addsub_s32x2_slot1_extra 2; mkUse FUNCUNIT_func_addsub_s32x2_slot1_2 2;
     mkUse FUNCUNIT_func_addsub_s32x2_slot1_1 2; mkUse FUNCUNIT_func_addsub_s32x2_slot1_0 2;
     mkUse FUNCUNIT_func_addsub_s20x2_slot_end_0 2; mkUse FUNCUNIT_func_addsub_s20x2_slot_end_1 2;
     mkUse FUNCUNIT_func_addsub_s20x2_slot_end_2 2; mkUse FUNCUNIT_func_addsub_s20x2_slot_end_3 2;
     mkUse FUNCUNIT_func_addsub_s40x2_7 2; mkUse FUNCUNIT_func_addsub_s40x2_6 2;
     mkUse FUNCUNIT_func_addsub_s40x2_5 2; mkUse FUNCUNIT_func_addsub_s40x2_4 2;
     mkUse FUNCUNIT_func_addsub_s40x2_3 2; mkUse FUNCUNIT_func_addsub_s40x2_2 2;
     mkUse FUNCUNIT_func_addsub_s40x2_1 2; mkUse FUNCUNIT_func_addsub_s40x2_0 2;
     mkUse FUNCUNIT_func_shift_s16rs8_0 1; mkUse FUNCUNIT_func_shift_s16rs8_1 1;
     mkUse FUNCUNIT_func_shift_s16rs8_2 1; mkUse FUNCUNIT_func_shift_s16rs8_3 1;
     mkUse FUNCUNIT_func_shift_s16rs8_4 1; mkUse FUNCUNIT_func_shift_s16rs8_5 1;
     mkUse FUNCUNIT_func_shift_s16rs8_6 1; mkUse FUNCUNIT_func_shift_s16rs8_7 1;
     mkUse FUNCUNIT_func_shift_s16rs8_8 1; mkUse FUNCUNIT_func_shift_s16rs8_9 1;
     mkUse FUNCUNIT_func_shift_s16rs8_10 1; mkUse FUNCUNIT_func_shift_s16rs8_11 1;
     mkUse FUNCUNIT_func_shift_s16rs8_12 1; mkUse FUNCUNIT_func_shift_s16rs8_13 1;
     mkUse FUNCUNIT_func_shift_s16rs8_14 1; mkUse FUNCUNIT_func_shift_s16rs8_15 1;
     mkUse FUNCUNIT_func_shift_s32rs16_0 2; mkUse FUNCUNIT_func_shift_s32rs16_1 2;
     mkUse FUNCUNIT_func_shift_s32rs16_2 2; mkUse FUNCUNIT_func_shift_s32rs16_3 2;
     mkUse FUNCUNIT_func_shift_s32rs16_4 1; mkUse FUNCUNIT_func_shift_s32rs16_5 1;
     mkUse FUNCUNIT_func_shift_s32rs16_6 1; mkUse FUNCUNIT_func_shift_s32rs16_7 1])].

Definition s3_uses_82 : list (string * list xtensa_funcUnit_use) := [
  ("Opcode_ee_vmulas_u8_qacc_ld_ip_qup_funcUnit_uses", [mkUse FUNCUNIT_func_addsub_s32x2_slot1_3 1;
     mkUse FUNCUNIT_func_addsub_s8x2_0 1; mkUse FUNCUNIT_func_addsub_s8x2_1 1;
     mkUse FUNCUNIT_func_addsub_s8x2_2 1; mkUse FUNCUNIT_func_addsub_s8x2_3 1;
     mkUse FUNCUNIT_func_addsub_s8x2_4 1; mkUse FUNCUNIT_func_addsub_s8x2_5 1;
     mkUse FUNCUNIT_func_addsub_s8x2_6 1; mkUse FUNCUNIT_func_addsub_s8x2_7 1;
     mkUse FUNCUNIT_func_addsub_s16x2_0 1; mkUse FUNCUNIT_func_addsub_s16x2_1 1;
     mkUse FUNCUNIT_func_addsub_s16x2_2 1; mkUse FUNCUNIT_func_addsub_s16x2_3 1;
     mkUse FUNCUNIT_func_addsub_s16x2_4 1; mkUse FUNCUNIT_func_addsub_s16x2_5 1;
     mkUse FUNCUNIT_func_addsub_s16x2_6 1; mkUse FUNCUNIT_func_addsub_s16x2_7 1;
     mkUse FUNCUNIT_func_addsub_s32x2_slot0_0 1; mkUse FUNCUNIT_func_addsub_s32x2_slot0_1 1;
     mkUse FUNCUNIT_func_addsub_s32x2_slot0_2 1; mkUse FUNCUNIT_func_addsub_s32x2_slot0_3 1;
     mkUse FUNCUNIT_func_mul_s8xs8_0 1; mkUse FUNCUNIT_func_mul_s8xs8_1 1;
     mkUse FUNCUNIT_func_mul_s8xs8_2 1; mkUse FUNCUNIT_func_mul_s8xs8_3 1;
     mkUse FUNCUNIT_func_mul_s8xs8_4 1; mkUse FUNCUNIT_func_mul_s8xs8_5 1;
     mkUse FUNCUNIT_func_mul_s8xs8_6 1; mkUse FUNCUNIT_func_mul_s8xs8_7 1;
     mkUse FUNCUNIT_func_mul_s16xs16_0 1; mkUse FUNCUNIT_func_mul_s16xs16_1 1;
     mkUse FUNCUNIT_func_mul_s16xs16_2 1; mkUse FUNCUNIT_func_mul_s16xs16_3 1;
     mkUse FUNCUNIT_func_mul_s16xs16_4 1; mkUse FUNCUNIT_func_mul_s16xs16_5 1;
     mkUse FUNCUNIT_func_mul_s16xs16_6 1; mkUse FUNCUNIT_func_mul_s16xs16_7 1;
     mkUse FUNCUNIT_func_addsub_s32x2_slot1_extra 2; mkUse FUNCUNIT_func_addsub_s32x2_slot1_2 2;
     mkUse FUNCUNIT_func_addsub_s32x2_slot1_1 2; mkUse FUNCUNIT_func_addsub_s32x2_slot1_0 2;
     mkUse FUNCUNIT_func_addsub_s20x2_slot_end_0 2; mkUse FUNCUNIT_func_addsub_s20x2_slot_end_1 2;
     mkUse FUNCUNIT_func_addsub_s20x2_slot_end_2 2; mkUse FUNCUNIT_func_addsub_s20x2_slot_end_3 2;
     mkUse FUNCUNIT_func_addsub_s40x2_7 2; mkUse FUNCUNIT_func_addsub_s40x2_6 2;
     mkUse FUNCUNIT_func_addsub_s40x2_5 2; mkUse FUNCUNIT_func_addsub_s40x2_4 2;
     mkUse FUNCUNIT_func_addsub_s40x2_3 2; mkUse FUNCUNIT_func_addsub_s40x2_2 2;
     mkUse FUNCUNIT_func_addsub_s40x2_1 2; mkUse FUNCUNIT_func_addsub_s40x2_0 2;
     mkUse FUNCUNIT_func_shift_s16rs8_0 1; mkUse FUNCUNIT_func_shift_s16rs8_1 1;
     mkUse FUNCUNIT_func_shift_s16rs8_2 1; mkUse FUNCUNIT_func_shift_s16rs8_3 1;
     mkUse FUNCUNIT_func_shift_s16rs8_4 1; mkUse FUNCUNIT_func_shift_s16rs8_5 1;
     mkUse FUNCUNIT_func_shift_s16rs8_6 1; mkUse FUNCUNIT_func_shift_s16rs8_7 1;
     mkUse FUNCUNIT_func_shift_s16rs8_8 1; mkUse FUNCUNIT_func_shift_s16rs8_9 1;
     mkUse FUNCUNIT_func_shift_s16rs8_10 1; mkUse FUNCUNIT_func_shift_s16rs8_11 1;
     mkUse FUNCUNIT_func_shift_s16rs8_12 1; mkUse FUNCUNIT_func_shift_s16rs8_13 1;
     mkUse FUNCUNIT_func_shift_s16rs8_14 1; mkUse FUNCUNIT_func_shift_s16rs8_15 1;
     mkUse FUNCUNIT_func_shift_s32rs16_0 2; mkUse FUNCUNIT_func_shift_s32rs16_1 2;
     mkUse FUNCUNIT_func_shift_s32rs16_2 2; mkUse FUNCUNIT_func_shift_s32rs16_3 2;
     mkUse FUNCUNIT_func_shift_s32rs16_4 1; mkUse FUNCUNIT_func_shift_s32rs16_5 1;
     mkUse FUNCUNIT_func_shift_s32rs16_6 1; mkUse FUNCUNIT_func_shift_s32rs16_7 1])].

Definition s3_uses_83 : list (string * list xtensa_funcUnit_use) := [
  ("Opcode_ee_vmulas_u8_qacc_ld_ip_funcUnit_uses", [mkUse FUNCUNIT_func_addsub_s32x2_slot1_3 1;
     mkUse FUNCUNIT_func_addsub_s8x2_0 1; mkUse FUNCUNIT_func_addsub_s8x2_1 1;
     mkUse FUNCUNIT_func_addsub_s8x2_2 1; mkUse FUNCUNIT_func_addsub_s8x2_3 1;
     mkUse FUNCUNIT_func_addsub_s8x2_4 1; mkUse FUNCUNIT_func_addsub_s8x2_5 1;
     mkUse FUNCUNIT_func_addsub_s8x2_6 1; mkUse FUNCUNIT_func_addsub_s8x2_7 1;
     mkUse FUNCUNIT_func_addsub_s16x2_0 1; mkUse FUNCUNIT_func_addsub_s16x2_1 1;
     mkUse FUNCUNIT_func_addsub_s16x2_2 1; mkUse FUNCUNIT_func_addsub_s16x2_3 1;
     mkUse FUNCUNIT_func_addsub_s16x2_4 1; mkUse FUNCUNIT_func_addsub_s16x2_5 1;
     mkUse FUNCUNIT_func_addsub_s16x2_6 1; mkUse FUNCUNIT_func_addsub_s16x2_7 1;
     mkUse FUNCUNIT_func_addsub_s32x2_slot0_0 1; mkUse FUNCUNIT_func_addsub_s32x2_slot0_1 1;
     mkUse FUNCUNIT_func_addsub_s32x2_slot0_2 1; mkUse FUNCUNIT_func_addsub_s32x2_slot0_3 1;
     mkUse FUNCUNIT_func_mul_s8xs8_0 1; mkUse FUNCUNIT_func_mul_s8xs8_1 1;
     mkUse FUNCUNIT_func_mul_s8xs8_2 1; mkUse FUNCUNIT_func_mul_s8xs8_3 1;
     mkUse FUNCUNIT_func_mul_s8xs8_4 1; mkUse FUNCUNIT_func_mul_s8xs8_5 1;
     mkUse FUNCUNIT_func_mul_s8xs8_6 1; mkUse FUNCUNIT_func_mul_s8xs8_7 1;
     mkUse FUNCUNIT_func_mul_s16xs16_0 1; mkUse FUNCUNIT_func_mul_s16xs16_1 1;
     mkUse FUNCUNIT_func_mul_s16xs16_2 1; mkUse FUNCUNIT_func_mul_s16xs16_3 1;
     mkUse FUNCUNIT_func_mul_s16xs16_4 1; mkUse FUNCUNIT_func_mul_s16xs16_5 1;
     mkUse FUNCUNIT_func_mul_s16xs16_6 1; mkUse FUNCUNIT_func_mul_s16xs16_7 1;
     mkUse FUNCUNIT_func_addsub_s32x2_slot1_extra 2; mkUse FUNCUNIT_func_addsub_s32x2_slot1_2 2;
     mkUse FUNCUNIT_func_addsub_s32x2_slot1_1 2; mkUse FUNCUNIT_func_addsub_s32x2_slot1_0 2;
     mkUse FUNCUNIT_func_addsub_s20x2_slot_end_0 2; mkUse FUNCUNIT_func_addsub_s20x2_slot_end_1 2;
     mkUse FUNCUNIT_func_addsub_s20x2_slot_end_2 2; mkUse FUNCUNIT_func_addsub_s20x2_slot_end_3 2;
     mkUse FUNCUNIT_func_addsub_s40x2_7 2; mkUse FUNCUNIT_func_addsub_s40x2_6 2;
     mkUse FUNCUNIT_func_addsub_s40x2_5 2; mkUse FUNCUNIT_func_addsub_s40x2_4 2;
     mkUse FUNCUNIT_func_addsub_s40x2_3 2; mkUse FUNCUNIT_func_addsub_s40x2_2 2;
     mkUse FUNCUNIT_func_addsub_s40x2_1 2; mkUse FUNCUNIT_func_addsub_s40x2_0 2;
     mkUse FUNCUNIT_func_shift_s16rs8_0 1; mkUse FUNCUNIT_func_shift_s16rs8_1 1;
     mkUse FUNCUNIT_func_shift_s16rs8_2 1; mkUse FUNCUNIT_func_shift_s16rs8_3 1;
     mkUse FUNCUNIT_func_shift_s16rs8_4 1; mkUse FUNCUNIT_func_shift_s16rs8_5 1;
     mkUse FUNCUNIT_func_shift_s16rs8_6 1; mkUse FUNCUNIT_func_shift_s16rs8_7 1;
     mkUse FUNCUNIT_func_shift_s16rs8_8 1; mkUse FUNCUNIT_func_shift_s16rs8_9 1;
     mkUse FUNCUNIT_func_shift_s16rs8_10 1; mkUse FUNCUNIT_func_shift_s16rs8_11 1;
     mkUse FUNCUNIT_func_shift_s16rs8_12 1; mkUse FUNCUNIT_func_shift_s16rs8_13 1;
     mkUse FUNCUNIT_func_shift_s16rs8_14 1; mkUse FUNCUNIT_func_shift_s16rs8_15 1;
     mkUse FUNCUNIT_func_shift_s32rs16_0 2; mkUse FUNCUNIT_func_shift_s32rs16_1 2;
     mkUse FUNCUNIT_func_shift_s32rs16_2 2; mkUse FUNCUNIT_func_shift_s32rs16_3 2;
     mkUse FUNCUNIT_func_shift_s32rs16_4 1; mkUse FUNCUNIT_func_shift_s32rs16_5 1;
     mkUse FUNCUNIT_func_shift_s32rs16_6 1; mkUse FUNCUNIT_func_shift_s32rs16_7 1])].

Definition s3_uses_84 : list (string * list xtensa_funcUnit_use) := [
  ("Opcode_ee_vmulas_u8_qacc_ld_xp_qup_funcUnit_uses", [mkUse FUNCUNIT_func_addsub_s32x2_slot1_3 1;
     mkUse FUNCUNIT_func_addsub_s8x2_0 1; mkUse FUNCUNIT_func_addsub_s8x2_1 1;
     mkUse FUNCUNIT_func_addsub_s8x2_2 1; mkUse FUNCUNIT_func_addsub_s8x2_3 1;
     mkUse FUNCUNIT_func_addsub_s8x2_4 1; mkUse FUNCUNIT_func_addsub_s8x2_5 1;
     mkUse FUNCUNIT_func_addsub_s8x2_6 1; mkUse FUNCUNIT_func_addsub_s8x2_7 1;
     mkUse FUNCUNIT_func_addsub_s16x2_0 1; mkUse FUNCUNIT_func_addsub_s16x2_1 1;
     mkUse FUNCUNIT_func_addsub_s16x2_2 1; mkUse FUNCUNIT_func_addsub_s16x2_3 1;
     mkUse FUNCUNIT_func_addsub_s16x2_4 1; mkUse FUNCUNIT_func_addsub_s16x2_5 1;
     mkUse FUNCUNIT_func_addsub_s16x2_6 1; mkUse FUNCUNIT_func_addsub_s16x2_7 1;
     mkUse FUNCUNIT_func_addsub_s32x2_slot0_0 1; mkUse FUNCUNIT_func_addsub_s32x2_slot0_1 1;
     mkUse FUNCUNIT_func_addsub_s32x2_slot0_2 1; mkUse FUNCUNIT_func_addsub_s32x2_slot0_3 1;
     mkUse FUNCUNIT_func_mul_s8xs8_0 1; mkUse FUNCUNIT_func_mul_s8xs8_1 1;
     mkUse FUNCUNIT_func_mul_s8xs8_2 1; mkUse FUNCUNIT_func_mul_s8xs8_3 1;
     mkUse FUNCUNIT_func_mul_s8xs8_4 1; mkUse FUNCUNIT_func_mul_s8xs8_5 1;
     mkUse FUNCUNIT_func_mul_s8xs8_6 1; mkUse FUNCUNIT_func_mul_s8xs8_7 1;
     mkUse FUNCUNIT_func_mul_s16xs16_0 1; mkUse FUNCUNIT_func_mul_s16xs16_1 1;
     mkUse FUNCUNIT_func_mul_s16xs16_2 1; mkUse FUNCUNIT_func_mul_s16xs16_3 1;
     mkUse FUNCUNIT_func_mul_s16xs16_4 1; mkUse FUNCUNIT_func_mul_s16xs16_5 1;
     mkUse FUNCUNIT_func_mul_s16xs16_6 1; mkUse FUNCUNIT_func_mul_s16xs16_7 1;
     mkUse FUNCUNIT_func_addsub_s32x2_slot1_extra 2; mkUse FUNCUNIT_func_addsub_s32x2_slot1_2 2;
     mkUse FUNCUNIT_func_addsub_s32x2_slot1_1 2; mkUse FUNCUNIT_func_addsub_s32x2_slot1_0 2;
     mkUse FUNCUNIT_func_addsub_s20x2_slot_end_0 2; mkUse FUNCUNIT_func_addsub_s20x2_slot_end_1 2;
     mkUse FUNCUNIT_func_addsub_s20x2_slot_end_2 2; mkUse FUNCUNIT_func_addsub_s20x2_slot_end_3 2;
     mkUse FUNCUNIT_func_addsub_s40x2_7 2; mkUse FUNCUNIT_func_addsub_s40x2_6 2;
     mkUse FUNCUNIT_func_addsub_s40x2_5 2; mkUse FUNCUNIT_func_addsub_s40x2_4 2;
     mkUse FUNCUNIT_func_addsub_s40x2_3 2; mkUse FUNCUNIT_func_addsub_s40x2_2 2;
     mkUse FUNCUNIT_func_addsub_s40x2_1 2; mkUse FUNCUNIT_func_addsub_s40x2_0 2;
     mkUse FUNCUNIT_func_shift_s16rs8_0 1; mkUse FUNCUNIT_func_shift_s16rs8_1 1;
     mkUse FUNCUNIT_func_shift_s16rs8_2 1; mkUse FUNCUNIT_func_shift_s16rs8_3 1;
     mkUse FUNCUNIT_func_shift_s16rs8_4 1; mkUse FUNCUNIT_func_shift_s16rs8_5 1;
     mkUse FUNCUNIT_func_shift_s16rs8_6 1; mkUse FUNCUNIT_func_shift_s16rs8_7 1;
     mkUse FUNCUNIT_func_shift_s16rs8_8 1; mkUse FUNCUNIT_func_shift_s16rs8_9 1;
     mkUse FUNCUNIT_func_shift_s16rs8_10 1; mkUse FUNCUNIT_func_shift_s16rs8_11 1;
     mkUse FUNCUNIT_func_shift_s16rs8_12 1; mkUse FUNCUNIT_func_shift_s16rs8_13 1;
     mkUse FUNCUNIT_func_shift_s16rs8_14 1; mkUse FUNCUNIT_func_shift_s16rs8_15 1;
     mkUse FUNCUNIT_func_shift_s32rs16_0 2; mkUse FUNCUNIT_func_shift_s32rs16_1 2;
     mkUse FUNCUNIT_func_shift_s32rs16_2 2; mkUse FUNCUNIT_func_shift_s32rs16_3 2;
     mkUse FUNCUNIT_func_shift_s32rs16_4 1; mkUse FUNCUNIT_func_shift_s32rs16_5 1;
     mkUse FUNCUNIT_func_shift_s32rs16_6 1; mkUse FUNCUNIT_func_shift_s32rs16_7 1])].

Definition s3_uses_85 : list (string * list xtensa_funcUnit_use) := [
  ("Opcode_ee_vmulas_u8_qacc_ld_xp_funcUnit_uses", [mkUse FUNCUNIT_func_addsub_s32x2_slot1_3 1;
     mkUse FUNCUNIT_func_addsub_s8x2_0 1; mkUse FUNCUNIT_func_addsub_s8x2_1 1;
     mkUse FUNCUNIT_func_addsub_s8x2_2 1; mkUse FUNCUNIT_func_addsub_s8x2_3 1;
     mkUse FUNCUNIT_func_addsub_s8x2_4 1; mkUse FUNCUNIT_func_addsub_s8x2_5 1;
     mkUse FUNCUNIT_func_addsub_s8x2_6 1; mkUse FUNCUNIT_func_addsub_s8x2_7 1;
     mkUse FUNCUNIT_func_addsub_s16x2_0 1; mkUse FUNCUNIT_func_addsub_s16x2_1 1;
     mkUse FUNCUNIT_func_addsub_s16x2_2 1; mkUse FUNCUNIT_func_addsub_s16x2_3 1;
     mkUse FUNCUNIT_func_addsub_s16x2_4 1; mkUse FUNCUNIT_func_addsub_s16x2_5 1;
     mkUse FUNCUNIT_func_addsub_s16x2_6 1; mkUse FUNCUNIT_func_addsub_s16x2_7 1;
     mkUse FUNCUNIT_func_addsub_s32x2_slot0_0 1; mkUse FUNCUNIT_func_addsub_s32x2_slot0_1 1;
     mkUse FUNCUNIT_func_addsub_s32x2_slot0_2 1; mkUse FUNCUNIT_func_addsub_s32x2_slot0_3 1;
     mkUse FUNCUNIT_func_mul_s8xs8_0 1; mkUse FUNCUNIT_func_mul_s8xs8_1 1;
     mkUse FUNCUNIT_func_mul_s8xs8_2 1; mkUse FUNCUNIT_func_mul_s8xs8_3 1;
     mkUse FUNCUNIT_func_mul_s8xs8_4 1; mkUse FUNCUNIT_func_mul_s8xs8_5 1;
     mkUse FUNCUNIT_func_mul_s8xs8_6 1; mkUse FUNCUNIT_func_mul_s8xs8_7 1;
     mkUse FUNCUNIT_func_mul_s16xs16_0 1; mkUse FUNCUNIT_func_mul_s16xs16_1 1;
     mkUse FUNCUNIT_func_mul_s16xs16_2 1; mkUse FUNCUNIT_func_mul_s16xs16_3 1;
     mkUse FUNCUNIT_func_mul_s16xs16_4 1; mkUse FUNCUNIT_func_mul_s16xs16_5 1;
     mkUse FUNCUNIT_func_mul_s16xs16_6 1; mkUse FUNCUNIT_func_mul_s16xs16_7 1;
     mkUse FUNCUNIT_func_addsub_s32x2_slot1_extra 2; mkUse FUNCUNIT_func_addsub_s32x2_slot1_2 2;
     mkUse FUNCUNIT_func_addsub_s32x2_slot1_1 2; mkUse FUNCUNIT_func_addsub_s32x2_slot1_0 2;
     mkUse FUNCUNIT_func_addsub_s20x2_slot_end_0 2; mkUse FUNCUNIT_func_addsub_s20x2_slot_end_1 2;
     mkUse FUNCUNIT_func_addsub_s20x2_slot_end_2 2; mkUse FUNCUNIT_func_addsub_s20x2_slot_end_3 2;
     mkUse FUNCUNIT_func_addsub_s40x2_7 2; mkUse FUNCUNIT_func_addsub_s40x2_6 2;
     mkUse FUNCUNIT_func_addsub_s40x2_5 2; mkUse FUNCUNIT_func_addsub_s40x2_4 2;
     mkUse FUNCUNIT_func_addsub_s40x2_3 2; mkUse FUNCUNIT_func_addsub_s40x2_2 2;
     mkUse FUNCUNIT_func_addsub_s40x2_1 2; mkUse FUNCUNIT_func_addsub_s40x2_0 2;
     mkUse FUNCUNIT_func_shift_s16rs8_0 1; mkUse FUNCUNIT_func_shift_s16rs8_1 1;
     mkUse FUNCUNIT_func_shift_s16rs8_2 1; mkUse FUNCUNIT_func_shift_s16rs8_3 1;
     mkUse FUNCUNIT_func_shift_s16rs8_4 1; mkUse FUNCUNIT_func_shift_s16rs8_5 1;
     mkUse FUNCUNIT_func_shift_s16rs8_6 1; mkUse FUNCUNIT_func_shift_s16rs8_7 1;
     mkUse FUNCUNIT_func_shift_s16rs8_8 1; mkUse FUNCUNIT_func_shift_s16rs8_9 1;
     mkUse FUNCUNIT_func_shift_s16rs8_10 1; mkUse FUNCUNIT_func_shift_s16rs8_11 1;
     mkUse FUNCUNIT_func_shift_s16rs8_12 1; mkUse FUNCUNIT_func_shift_s16rs8_13 1;
     mkUse FUNCUNIT_func_shift_s16rs8_14 1; mkUse FUNCUNIT_func_shift_s16rs8_15 1;
     mkUse FUNCUNIT_func_shift_s32rs16_0 2; mkUse FUNCUNIT_func_shift_s32rs16_1 2;
     mkUse FUNCUNIT_func_shift_s32rs16_2 2; mkUse FUNCUNIT_func_shift_s32rs16_3 2;
     mkUse FUNCUNIT_func_shift_s32rs16_4 1; mkUse FUNCUNIT_func_shift_s32rs16_5 1;
     mkUse FUNCUNIT_func_shift_s32rs16_6 1; mkUse FUNCUNIT_func_shift_s32rs16_7 1])].

Definition s3_uses_86 : list (string * list xtensa_funcUnit_use) := [
  ("Opcode_ee_vmulas_u8_qacc_funcUnit_uses", [mkUse FUNCUNIT_func_addsub_s32x2_slot1_3 1;
     mkUse FUNCUNIT_func_addsub_s8x2_0 1; mkUse FUNCUNIT_func_addsub_s8x2_1 1;
     mkUse FUNCUNIT_func_addsub_s8x2_2 1; mkUse FUNCUNIT_func_addsub_s8x2_3 1;
     mkUse FUNCUNIT_func_addsub_s8x2_4 1; mkUse FUNCUNIT_func_addsub_s8x2_5 1;
     mkUse FUNCUNIT_func_addsub_s8x2_6 1; mkUse FUNCUNIT_func_addsub_s8x2_7 1;
     mkUse FUNCUNIT_func_addsub_s16x2_0 1; mkUse FUNCUNIT_func_addsub_s16x2_1 1;
     mkUse FUNCUNIT_func_addsub_s16x2_2 1; mkUse FUNCUNIT_func_addsub_s16x2_3 1;
     mkUse FUNCUNIT_func_addsub_s16x2_4 1; mkUse FUNCUNIT_func_addsub_s16x2_5 1;
     mkUse FUNCUNIT_func_addsub_s16x2_6 1; mkUse FUNCUNIT_func_addsub_s16x2_7 1;
     mkUse FUNCUNIT_func_addsub_s32x2_slot0_0 1; mkUse FUNCUNIT_func_addsub_s32x2_slot0_1 1;
     mkUse FUNCUNIT_func_addsub_s32x2_slot0_2 1; mkUse FUNCUNIT_func_addsub_s32x2_slot0_3 1;
     mkUse FUNCUNIT_func_mul_s8xs8_0 1; mkUse FUNCUNIT_func_mul_s8xs8_1 1;
     mkUse FUNCUNIT_func_mul_s8xs8_2 1; mkUse FUNCUNIT_func_mul_s8xs8_3 1;
     mkUse FUNCUNIT_func_mul_s8xs8_4 1; mkUse FUNCUNIT_func_mul_s8xs8_5 1;
     mkUse FUNCUNIT_func_mul_s8xs8_6 1; mkUse FUNCUNIT_func_mul_s8xs8_7 1;
     mkUse FUNCUNIT_func_mul_s16xs16_0 1; mkUse FUNCUNIT_func_mul_s16xs16_1 1;
     mkUse FUNCUNIT_func_mul_s16xs16_2 1; mkUse FUNCUNIT_func_mul_s16xs16_3 1;
     mkUse FUNCUNIT_func_mul_s16xs16_4 1; mkUse FUNCUNIT_func_mul_s16xs16_5 1;
     mkUse FUNCUNIT_func_mul_s16xs16_6 1; mkUse FUNCUNIT_func_mul_s16xs16_7 1;
     mkUse FUNCUNIT_func_addsub_s32x2_slot1_extra 2; mkUse FUNCUNIT_func_addsub_s32x2_slot1_2 2;
     mkUse FUNCUNIT_func_addsub_s32x2_slot1_1 2; mkUse FUNCUNIT_func_addsub_s32x2_slot1_0 2;
     mkUse FUNCUNIT_func_addsub_s20x2_slot_end_0 2; mkUse FUNCUNIT_func_addsub_s20x2_slot_end_1 2;
     mkUse FUNCUNIT_func_addsub_s20x2_slot_end_2 2; mkUse FUNCUNIT_func_addsub_s20x2_slot_end_3 2;
     mkUse FUNCUNIT_func_addsub_s40x2_7 2; mkUse FUNCUNIT_func_addsub_s40x2_6 2;
     mkUse FUNCUNIT_func_addsub_s40x2_5 2; mkUse FUNCUNIT_func_addsub_s40x2_4 2;
     mkUse FUNCUNIT_func_addsub_s40x2_3 2; mkUse FUNCUNIT_func_addsub_s40x2_2 2;
     mkUse FUNCUNIT_func_addsub_s40x2_1 2; mkUse FUNCUNIT_func_addsub_s40x2_0 2;
     mkUse FUNCUNIT_func_shift_s16rs8_0 1; mkUse FUNCUNIT_func_shift_s16rs8_1 1;
     mkUse FUNCUNIT_func_shift_s16rs8_2 1; mkUse FUNCUNIT_func_shift_s16rs8_3 1;
     mkUse FUNCUNIT_func_shift_s16rs8_4 1; mkUse FUNCUNIT_func_shift_s16rs8_5 1;
     mkUse FUNCUNIT_func_shift_s16rs8_6 1; mkUse FUNCUNIT_func_shift_s16rs8_7 1;
     mkUse FUNCUNIT_func_shift_s16rs8_8 1; mkUse FUNCUNIT_func_shift_s16rs8_9 1;
     mkUse FUNCUNIT_func_shift_s16rs8_10 1; mkUse FUNCUNIT_func_shift_s16rs8_11 1;
     mkUse FUNCUNIT_func_shift_s16rs8_12 1; mkUse FUNCUNIT_func_shift_s16rs8_13 1;
     mkUse FUNCUNIT_func_shift_s16rs8_14 1; mkUse FUNCUNIT_func_shift_s16rs8_15 1;
     mkUse FUNCUNIT_func_shift_s32rs16_0 2; mkUse FUNCUNIT_func_shift_s32rs16_1 2;
     mkUse FUNCUNIT_func_shift_s32rs16_2 2; mkUse FUNCUNIT_func_shift_s32rs16_3 2;
     mkUse FUNCUNIT_func_shift_s32rs16_4 1; mkUse FUNCUNIT_func_shift_s32rs16_5 1;
     mkUse FUNCUNIT_func_shift_s32rs16_6 1; mkUse FUNCUNIT_func_shift_s32rs16_7 1])].

Definition s3_uses_87 : list (string * list xtensa_funcUnit_use) := [
  ("Opcode_ee_vsmulas_s16_qacc_ld_incp_funcUnit_uses", [mkUse FUNCUNIT_func_addsub_s32x2_slot1_3 1;
     mkUse FUNCUNIT_func_addsub_s8x2_0 1; mkUse FUNCUNIT_func_addsub_s8x2_1 1;
     mkUse FUNCUNIT_func_addsub_s8x2_2 1; mkUse FUNCUNIT_func_addsub_s8x2_3 1;
     mkUse FUNCUNIT_func_addsub_s8x2_4 1; mkUse FUNCUNIT_func_addsub_s8x2_5 1;
     mkUse FUNCUNIT_func_addsub_s8x2_6 1; mkUse FUNCUNIT_func_addsub_s8x2_7 1;
     mkUse FUNCUNIT_func_addsub_s16x2_0 1; mkUse FUNCUNIT_func_addsub_s16x2_1 1;
     mkUse FUNCUNIT_func_addsub_s16x2_2 1; mkUse FUNCUNIT_func_addsub_s16x2_3 1;
     mkUse FUNCUNIT_func_addsub_s16x2_4 1; mkUse FUNCUNIT_func_addsub_s16x2_5 1;
     mkUse FUNCUNIT_func_addsub_s16x2_6 1; mkUse FUNCUNIT_func_addsub_s16x2_7 1;
     mkUse FUNCUNIT_func_addsub_s32x2_slot0_0 1; mkUse FUNCUNIT_func_addsub_s32x2_slot0_1 1;
     mkUse FUNCUNIT_func_addsub_s32x2_slot0_2 1; mkUse FUNCUNIT_func_addsub_s32x2_slot0_3 1;
     mkUse FUNCUNIT_func_mul_s8xs8_0 1; mkUse FUNCUNIT_func_mul_s8xs8_1 1;
     mkUse FUNCUNIT_func_mul_s8xs8_2 1; mkUse FUNCUNIT_func_mul_s8xs8_3 1;
     mkUse FUNCUNIT_func_mul_s8xs8_4 1; mkUse FUNCUNIT_func_mul_s8xs8_5 1;
     mkUse FUNCUNIT_func_mul_s8xs8_6 1; mkUse FUNCUNIT_func_mul_s8xs8_7 1;
     mkUse FUNCUNIT_func_mul_s16xs16_0 1; mkUse FUNCUNIT_func_mul_s16xs16_1 1;
     mkUse FUNCUNIT_func_mul_s16xs16_2 1; mkUse FUNCUNIT_func_mul_s16xs16_3 1;
     mkUse FUNCUNIT_func_mul_s16xs16_4 1; mkUse FUNCUNIT_func_mul_s16xs16_5 1;
     mkUse FUNCUNIT_func_mul_s16xs16_6 1; mkUse FUNCUNIT_func_mul_s16xs16_7 1;
     mkUse FUNCUNIT_func_addsub_s32x2_slot1_extra 2; mkUse FUNCUNIT_func_addsub_s32x2_slot1_2 2;
     mkUse FUNCUNIT_func_addsub_s32x2_slot1_1 2; mkUse FUNCUNIT_func_addsub_s32x2_slot1_0 2;
     mkUse FUNCUNIT_func_addsub_s20x2_slot_end_0 2; mkUse FUNCUNIT_func_addsub_s20x2_slot_end_1 2;
     mkUse FUNCUNIT_func_addsub_s20x2_slot_end_2 2; mkUse FUNCUNIT_func_addsub_s20x2_slot_end_3 2;
     mkUse FUNCUNIT_func_addsub_s40x2_7 2; mkUse FUNCUNIT_func_addsub_s40x2_6 2;
     mkUse FUNCUNIT_func_addsub_s40x2_5 2; mkUse FUNCUNIT_func_addsub_s40x2_4 2;
     mkUse FUNCUNIT_func_addsub_s40x2_3 2; mkUse FUNCUNIT_func_addsub_s40x2_2 2;
     mkUse FUNCUNIT_func_addsub_s40x2_1 2; mkUse FUNCUNIT_func_addsub_s40x2_0 2;
     mkUse FUNCUNIT_func_shift_s16rs8_0 1; mkUse FUNCUNIT_func_shift_s16rs8_1 1;
     mkUse FUNCUNIT_func_shift_s16rs8_2 1; mkUse FUNCUNIT_func_shift_s16rs8_3 1;
     mkUse FUNCUNIT_func_shift_s16rs8_4 1; mkUse FUNCUNIT_func_shift_s16rs8_5 1;
     mkUse FUNCUNIT_func_shift_s16rs8_6 1; mkUse FUNCUNIT_func_shift_s16rs8_7 1;
     mkUse FUNCUNIT_func_shift_s16rs8_8 1; mkUse FUNCUNIT_func_shift_s16rs8_9 1;
     mkUse FUNCUNIT_func_shift_s16rs8_10 1; mkUse FUNCUNIT_func_shift_s16rs8_11 1;
     mkUse FUNCUNIT_func_shift_s16rs8_12 1; mkUse FUNCUNIT_func_shift_s16rs8_13 1;
     mkUse FUNCUNIT_func_shift_s16rs8_14 1; mkUse FUNCUNIT_func_shift_s16rs8_15 1;
     mkUse FUNCUNIT_func_shift_s32rs16_0 2; mkUse FUNCUNIT_func_shift_s32rs16_1 2;
     mkUse FUNCUNIT_func_shift_s32rs16_2 2; mkUse FUNCUNIT_func_shift_s32rs16_3 2;
     mkUse FUNCUNIT_func_shift_s32rs16_4 1; mkUse FUNCUNIT_func_shift_s32rs16_5 1;
     mkUse FUNCUNIT_func_shift_s32rs16_6 1; mkUse FUNCUNIT_func_shift_s32rs16_7 1])].

Definition s3_uses_88 : list (string * list xtensa_funcUnit_use) := [
  ("Opcode_ee_vsmulas_s16_qacc_funcUnit_uses", [mkUse FUNCUNIT_func_addsub_s32x2_slot1_3 1;
     mkUse FUNCUNIT_func_addsub_s8x2_0 1; mkUse FUNCUNIT_func_addsub_s8x2_1 1;
     mkUse FUNCUNIT_func_addsub_s8x2_2 1; mkUse FUNCUNIT_func_addsub_s8x2_3 1;
     mkUse FUNCUNIT_func_addsub_s8x2_4 1; mkUse FUNCUNIT_func_addsub_s8x2_5 1;
     mkUse FUNCUNIT_func_addsub_s8x2_6 1; mkUse FUNCUNIT_func_addsub_s8x2_7 1;
     mkUse FUNCUNIT_func_addsub_s16x2_0 1; mkUse FUNCUNIT_func_addsub_s16x2_1 1;
     mkUse FUNCUNIT_func_addsub_s16x2_2 1; mkUse FUNCUNIT_func_addsub_s16x2_3 1;
     mkUse FUNCUNIT_func_addsub_s16x2_4 1; mkUse FUNCUNIT_func_addsub_s16x2_5 1;
     mkUse FUNCUNIT_func_addsub_s16x2_6 1; mkUse FUNCUNIT_func_addsub_s16x2_7 1;
     mkUse FUNCUNIT_func_addsub_s32x2_slot0_0 1; mkUse FUNCUNIT_func_addsub_s32x2_slot0_1 1;
     mkUse FUNCUNIT_func_addsub_s32x2_slot0_2 1; mkUse FUNCUNIT_func_addsub_s32x2_slot0_3 1;
     mkUse FUNCUNIT_func_mul_s8xs8_0 1; mkUse FUNCUNIT_func_mul_s8xs8_1 1;
     mkUse FUNCUNIT_func_mul_s8xs8_2 1; mkUse FUNCUNIT_func_mul_s8xs8_3 1;
     mkUse FUNCUNIT_func_mul_s8xs8_4 1; mkUse FUNCUNIT_func_mul_s8xs8_5 1;
     mkUse FUNCUNIT_func_mul_s8xs8_6 1; mkUse FUNCUNIT_func_mul_s8xs8_7 1;
     mkUse FUNCUNIT_func_mul_s16xs16_0 1; mkUse FUNCUNIT_func_mul_s16xs16_1 1;
     mkUse FUNCUNIT_func_mul_s16xs16_2 1; mkUse FUNCUNIT_func_mul_s16xs16_3 1;
     mkUse FUNCUNIT_func_mul_s16xs16_4 1; mkUse FUNCUNIT_func_mul_s16xs16_5 1;
     mkUse FUNCUNIT_func_mul_s16xs16_6 1; mkUse FUNCUNIT_func_mul_s16xs16_7 1;
     mkUse FUNCUNIT_func_addsub_s32x2_slot1_extra 2; mkUse FUNCUNIT_func_addsub_s32x2_slot1_2 2;
     mkUse FUNCUNIT_func_addsub_s32x2_slot1_1 2; mkUse FUNCUNIT_func_addsub_s32x2_slot1_0 2;
     mkUse FUNCUNIT_func_addsub_s20x2_slot_end_0 2; mkUse FUNCUNIT_func_addsub_s20x2_slot_end_1 2;
     mkUse FUNCUNIT_func_addsub_s20x2_slot_end_2 2; mkUse FUNCUNIT_func_addsub_s20x2_slot_end_3 2;
     mkUse FUNCUNIT_func_addsub_s40x2_7 2; mkUse FUNCUNIT_func_addsub_s40x2_6 2;
     mkUse FUNCUNIT_func_addsub_s40x2_5 2; mkUse FUNCUNIT_func_addsub_s40x2_4 2;
     mkUse FUNCUNIT_func_addsub_s40x2_3 2; mkUse FUNCUNIT_func_addsub_s40x2_2 2;
     mkUse FUNCUNIT_func_addsub_s40x2_1 2; mkUse FUNCUNIT_func_addsub_s40x2_0 2;
     mkUse FUNCUNIT_func_shift_s16rs8_0 1; mkUse FUNCUNIT_func_shift_s16rs8_1 1;
     mkUse FUNCUNIT_func_shift_s16rs8_2 1; mkUse FUNCUNIT_func_shift_s16rs8_3 1;
     mkUse FUNCUNIT_func_shift_s16rs8_4 1; mkUse FUNCUNIT_func_shift_s16rs8_5 1;
     mkUse FUNCUNIT_func_shift_s16rs8_6 1; mkUse FUNCUNIT_func_shift_s16rs8_7 1;
     mkUse FUNCUNIT_func_shift_s16rs8_8 1; mkUse FUNCUNIT_func_shift_s16rs8_9 1;
     mkUse FUNCUNIT_func_shift_s16rs8_10 1; mkUse FUNCUNIT_func_shift_s16rs8_11 1;
     mkUse FUNCUNIT_func_shift_s16rs8_12 1; mkUse FUNCUNIT_func_shift_s16rs8_13 1;
     mkUse FUNCUNIT_func_shift_s16rs8_14 1; mkUse FUNCUNIT_func_shift_s16rs8_15 1;
     mkUse FUNCUNIT_func_shift_s32rs16_0 2; mkUse FUNCUNIT_func_shift_s32rs16_1 2;
     mkUse FUNCUNIT_func_shift_s32rs16_2 2; mkUse FUNCUNIT_func_shift_s32rs16_3 2;
     mkUse FUNCUNIT_func_shift_s32rs16_4 1; mkUse FUNCUNIT_func_shift_s32rs16_5 1;
     mkUse FUNCUNIT_func_shift_s32rs16_6 1; mkUse FUNCUNIT_func_shift_s32rs16_7 1])].

Definition s3_uses_89 : list (string * list xtensa_funcUnit_use) := [
  ("Opcode_ee_vsmulas_s8_qacc_ld_incp_funcUnit_uses", [mkUse FUNCUNIT_func_addsub_s32x2_slot1_3 1;
     mkUse FUNCUNIT_func_addsub_s8x2_0 1; mkUse FUNCUNIT_func_addsub_s8x2_1 1;
     mkUse FUNCUNIT_func_addsub_s8x2_2 1; mkUse FUNCUNIT_func_addsub_s8x2_3 1;
     mkUse FUNCUNIT_func_addsub_s8x2_4 1; mkUse FUNCUNIT_func_addsub_s8x2_5 1;
     mkUse FUNCUNIT_func_addsub_s8x2_6 1; mkUse FUNCUNIT_func_addsub_s8x2_7 1;
     mkUse FUNCUNIT_func_addsub_s16x2_0 1; mkUse FUNCUNIT_func_addsub_s16x2_1 1;
     mkUse FUNCUNIT_func_addsub_s16x2_2 1; mkUse FUNCUNIT_func_addsub_s16x2_3 1;
     mkUse FUNCUNIT_func_addsub_s16x2_4 1; mkUse FUNCUNIT_func_addsub_s16x2_5 1;
     mkUse FUNCUNIT_func_addsub_s16x2_6 1; mkUse FUNCUNIT_func_addsub_s16x2_7 1;
     mkUse FUNCUNIT_func_addsub_s32x2_slot0_0 1; mkUse FUNCUNIT_func_addsub_s32x2_slot0_1 1;
     mkUse FUNCUNIT_func_addsub_s32x2_slot0_2 1; mkUse FUNCUNIT_func_addsub_s32x2_slot0_3 1;
     mkUse FUNCUNIT_func_mul_s8xs8_0 1; mkUse FUNCUNIT_func_mul_s8xs8_1 1;
     mkUse FUNCUNIT_func_mul_s8xs8_2 1; mkUse FUNCUNIT_func_mul_s8xs8_3 1;
     mkUse FUNCUNIT_func_mul_s8xs8_4 1; mkUse FUNCUNIT_func_mul_s8xs8_5 1;
     mkUse FUNCUNIT_func_mul_s8xs8_6 1; mkUse FUNCUNIT_func_mul_s8xs8_7 1;
     mkUse FUNCUNIT_func_mul_s16xs16_0 1; mkUse FUNCUNIT_func_mul_s16xs16_1 1;
     mkUse FUNCUNIT_func_mul_s16xs16_2 1; mkUse FUNCUNIT_func_mul_s16xs16_3 1;
     mkUse FUNCUNIT_func_mul_s16xs16_4 1; mkUse FUNCUNIT_func_mul_s16xs16_5 1;
     mkUse FUNCUNIT_func_mul_s16xs16_6 1; mkUse FUNCUNIT_func_mul_s16xs16_7 1;
     mkUse FUNCUNIT_func_addsub_s32x2_slot1_extra 2; mkUse FUNCUNIT_func_addsub_s32x2_slot1_2 2;
     mkUse FUNCUNIT_func_addsub_s32x2_slot1_1 2; mkUse FUNCUNIT_func_addsub_s32x2_slot1_0 2;
     mkUse FUNCUNIT_func_addsub_s20x2_slot_end_0 2; mkUse FUNCUNIT_func_addsub_s20x2_slot_end_1 2;
     mkUse FUNCUNIT_func_addsub_s20x2_slot_end_2 2; mkUse FUNCUNIT_func_addsub_s20x2_slot_end_3 2;
     mkUse FUNCUNIT_func_addsub_s40x2_7 2; mkUse FUNCUNIT_func_addsub_s40x2_6 2;
     mkUse FUNCUNIT_func_addsub_s40x2_5 2; mkUse FUNCUNIT_func_addsub_s40x2_4 2;
     mkUse FUNCUNIT_func_addsub_s40x2_3 2; mkUse FUNCUNIT_func_addsub_s40x2_2 2;
     mkUse FUNCUNIT_func_addsub_s40x2_1 2; mkUse FUNCUNIT_func_addsub_s40x2_0 2;
     mkUse FUNCUNIT_func_shift_s16rs8_0 1; mkUse FUNCUNIT_func_shift_s16rs8_1 1;
     mkUse FUNCUNIT_func_shift_s16rs8_2 1; mkUse FUNCUNIT_func_shift_s16rs8_3 1;
     mkUse FUNCUNIT_func_shift_s16rs8_4 1; mkUse FUNCUNIT_func_shift_s16rs8_5 1;
     mkUse FUNCUNIT_func_shift_s16rs8_6 1; mkUse FUNCUNIT_func_shift_s16rs8_7 1;
     mkUse FUNCUNIT_func_shift_s16rs8_8 1; mkUse FUNCUNIT_func_shift_s16rs8_9 1;
     mkUse FUNCUNIT_func_shift_s16rs8_10 1; mkUse FUNCUNIT_func_shift_s16rs8_11 1;
     mkUse FUNCUNIT_func_shift_s16rs8_12 1; mkUse FUNCUNIT_func_shift_s16rs8_13 1;
     mkUse FUNCUNIT_func_shift_s16rs8_14 1; mkUse FUNCUNIT_func_shift_s16rs8_15 1;
     mkUse FUNCUNIT_func_shift_s32rs16_0 2; mkUse FUNCUNIT_func_shift_s32rs16_1 2;
     mkUse FUNCUNIT_func_shift_s32rs16_2 2; mkUse FUNCUNIT_func_shift_s32rs16_3 2;
     mkUse FUNCUNIT_func_shift_s32rs16_4 1; mkUse FUNCUNIT_func_shift_s32rs16_5 1;
     mkUse FUNCUNIT_func_shift_s32rs16_6 1; mkUse FUNCUNIT_func_shift_s32rs16_7 1])].

Definition s3_uses_90 : list (string * list xtensa_funcUnit_use) := [
  ("Opcode_ee_vsmulas_s8_qacc_funcUnit_uses", [mkUse FUNCUNIT_func_addsub_s32x2_slot1_3 1;
     mkUse FUNCUNIT_func_addsub_s8x2_0 1; mkUse FUNCUNIT_func_addsub_s8x2_1 1;
     mkUse FUNCUNIT_func_addsub_s8x2_2 1; mkUse FUNCUNIT_func_addsub_s8x2_3 1;
     mkUse FUNCUNIT_func_addsub_s8x2_4 1; mkUse FUNCUNIT_func_addsub_s8x2_5 1;
     mkUse FUNCUNIT_func_addsub_s8x2_6 1; mkUse FUNCUNIT_func_addsub_s8x2_7 1;
     mkUse FUNCUNIT_func_addsub_s16x2_0 1; mkUse FUNCUNIT_func_addsub_s16x2_1 1;
     mkUse FUNCUNIT_func_addsub_s16x2_2 1; mkUse FUNCUNIT_func_addsub_s16x2_3 1;
     mkUse FUNCUNIT_func_addsub_s16x2_4 1; mkUse FUNCUNIT_func_addsub_s16x2_5 1;
     mkUse FUNCUNIT_func_addsub_s16x2_6 1; mkUse FUNCUNIT_func_addsub_s16x2_7 1;
     mkUse FUNCUNIT_func_addsub_s32x2_slot0_0 1; mkUse FUNCUNIT_func_addsub_s32x2_slot0_1 1;
     mkUse FUNCUNIT_func_addsub_s32x2_slot0_2 1; mkUse FUNCUNIT_func_addsub_s32x2_slot0_3 1;
     mkUse FUNCUNIT_func_mul_s8xs8_0 1; mkUse FUNCUNIT_func_mul_s8xs8_1 1;
     mkUse FUNCUNIT_func_mul_s8xs8_2 1; mkUse FUNCUNIT_func_mul_s8xs8_3 1;
     mkUse FUNCUNIT_func_mul_s8xs8_4 1; mkUse FUNCUNIT_func_mul_s8xs8_5 1;
     mkUse FUNCUNIT_func_mul_s8xs8_6 1; mkUse FUNCUNIT_func_mul_s8xs8_7 1;
     mkUse FUNCUNIT_func_mul_s16xs16_0 1; mkUse FUNCUNIT_func_mul_s16xs16_1 1;
     mkUse FUNCUNIT_func_mul_s16xs16_2 1; mkUse FUNCUNIT_func_mul_s16xs16_3 1;
     mkUse FUNCUNIT_func_mul_s16xs16_4 1; mkUse FUNCUNIT_func_mul_s16xs16_5 1;
     mkUse FUNCUNIT_func_mul_s16xs16_6 1; mkUse FUNCUNIT_func_mul_s16xs16_7 1;
     mkUse FUNCUNIT_func_addsub_s32x2_slot1_extra 2; mkUse FUNCUNIT_func_addsub_s32x2_slot1_2 2;
     mkUse FUNCUNIT_func_addsub_s32x2_slot1_1 2; mkUse FUNCUNIT_func_addsub_s32x2_slot1_0 2;
     mkUse FUNCUNIT_func_addsub_s20x2_slot_end_0 2; mkUse FUNCUNIT_func_addsub_s20x2_slot_end_1 2;
     mkUse FUNCUNIT_func_addsub_s20x2_slot_end_2 2; mkUse FUNCUNIT_func_addsub_s20x2_slot_end_3 2;
     mkUse FUNCUNIT_func_addsub_s40x2_7 2; mkUse FUNCUNIT_func_addsub_s40x2_6 2;
     mkUse FUNCUNIT_func_addsub_s40x2_5 2; mkUse FUNCUNIT_func_addsub_s40x2_4 2;
     mkUse FUNCUNIT_func_addsub_s40x2_3 2; mkUse FUNCUNIT_func_addsub_s40x2_2 2;
     mkUse FUNCUNIT_func_addsub_s40x2_1 2; mkUse FUNCUNIT_func_addsub_s40x2_0 2;
     mkUse FUNCUNIT_func_shift_s16rs8_0 1; mkUse FUNCUNIT_func_shift_s16rs8_1 1;
     mkUse FUNCUNIT_func_shift_s16rs8_2 1; mkUse FUNCUNIT_func_shift_s16rs8_3 1;
     mkUse FUNCUNIT_func_shift_s16rs8_4 1; mkUse FUNCUNIT_func_shift_s16rs8_5 1;
     mkUse FUNCUNIT_func_shift_s16rs8_6 1; mkUse FUNCUNIT_func_shift_s16rs8_7 1;
     mkUse FUNCUNIT_func_shift_s16rs8_8 1; mkUse FUNCUNIT_func_shift_s16rs8_9 1;
     mkUse FUNCUNIT_func_shift_s16rs8_10 1; mkUse FUNCUNIT_func_shift_s16rs8_11 1;
     mkUse FUNCUNIT_func_shift_s16rs8_12 1; mkUse FUNCUNIT_func_shift_s16rs8_13 1;
     mkUse FUNCUNIT_func_shift_s16rs8_14 1; mkUse FUNCUNIT_func_shift_s16rs8_15 1;
     mkUse FUNCUNIT_func_shift_s32rs16_0 2; mkUse FUNCUNIT_func_shift_s32rs16_1 2;
     mkUse FUNCUNIT_func_shift_s32rs16_2 2; mkUse FUNCUNIT_func_shift_s32rs16_3 2;
     mkUse FUNCUNIT_func_shift_s32rs16_4 1; mkUse FUNCUNIT_func_shift_s32rs16_5 1;
     mkUse FUNCUNIT_func_shift_s32rs16_6 1; mkUse FUNCUNIT_func_shift_s32rs16_7 1]);
  ("Opcode_ee_srcmb_s16_qacc_funcUnit_uses", [mkUse FUNCUNIT_func_addsub_s20x2_slot_end_0 1;
     mkUse FUNCUNIT_func_addsub_s20x2_slot_end_1 1; mkUse FUNCUNIT_func_addsub_s20x2_slot_end_2 1;
     mkUse FUNCUNIT_func_addsub_s20x2_slot_end_3 1; mkUse FUNCUNIT_func_addsub_s32x2_slot1_0 1;
     mkUse FUNCUNIT_func_addsub_s32x2_slot1_1 1; mkUse FUNCUNIT_func_addsub_s32x2_slot1_2 1;
     mkUse FUNCUNIT_func_addsub_s32x2_slot1_3 1; mkUse FUNCUNIT_func_addsub_s40x2_0 1;
     mkUse FUNCUNIT_func_addsub_s40x2_1 1; mkUse FUNCUNIT_func_addsub_s40x2_2 1;
     mkUse FUNCUNIT_func_addsub_s40x2_3 1; mkUse FUNCUNIT_func_addsub_s40x2_4 1;
     mkUse FUNCUNIT_func_addsub_s40x2_5 1; mkUse FUNCUNIT_func_addsub_s40x2_6 1;
     mkUse FUNCUNIT_func_addsub_s40x2_7 1; mkUse FUNCUNIT_func_shift_s40rs_slot_end_0 1;
     mkUse FUNCUNIT_func_shift_s40rs_slot_end_1 1; mkUse FUNCUNIT_func_shift_s40rs_slot_end_2 1;
     mkUse FUNCUNIT_func_shift_s40rs_slot_end_3 1; mkUse FUNCUNIT_func_shift_s40rs_slot_end_4 1;
     mkUse FUNCUNIT_func_shift_s40rs_slot_end_5 1; mkUse FUNCUNIT_func_shift_s40rs_slot_end_6 1;
     mkUse FUNCUNIT_func_shift_s40rs_slot_end_7 1]);
  ("Opcode_ee_srcmb_s8_qacc_funcUnit_uses", [mkUse FUNCUNIT_func_addsub_s20x2_slot_end_0 1;
     mkUse FUNCUNIT_func_addsub_s20x2_slot_end_1 1; mkUse FUNCUNIT_func_addsub_s20x2_slot_end_2 1;
     mkUse FUNCUNIT_func_addsub_s20x2_slot_end_3 1; mkUse FUNCUNIT_func_addsub_s32x2_slot1_0 1;
     mkUse FUNCUNIT_func_addsub_s32x2_slot1_1 1; mkUse FUNCUNIT_func_addsub_s32x2_slot1_2 1;
     mkUse FUNCUNIT_func_addsub_s32x2_slot1_3 1; mkUse FUNCUNIT_func_addsub_s40x2_0 1;
     mkUse FUNCUNIT_func_addsub_s40x2_1 1; mkUse FUNCUNIT_func_addsub_s40x2_2 1;
     mkUse FUNCUNIT_func_addsub_s40x2_3 1; mkUse FUNCUNIT_func_addsub_s40x2_4 1;
     mkUse FUNCUNIT_func_addsub_s40x2_5 1; mkUse FUNCUNIT_func_addsub_s40x2_6 1;
     mkUse FUNCUNIT_func_addsub_s40x2_7 1; mkUse FUNCUNIT_func_shift_s40rs_slot_end_0 1;
     mkUse FUNCUNIT_func_shift_s40rs_slot_end_1 1; mkUse FUNCUNIT_func_shift_s40rs_slot_end_2 1;
     mkUse FUNCUNIT_func_shift_s40rs_slot_end_3 1; mkUse FUNCUNIT_func_shift_s40rs_slot_end_4 1;
     mkUse FUNCUNIT_func_shift_s40rs_slot_end_5 1; mkUse FUNCUNIT_func_shift_s40rs_slot_end_6 1;
     mkUse FUNCUNIT_func_shift_s40rs_slot_end_7 1]);
  ("Opcode_ee_srs_accx_funcUnit_uses", [mkUse FUNCUNIT_func_addsub_s40x2_0 1;
     mkUse FUNCUNIT_func_shift_s40rs_slot_end_0 1])].

Definition s3_uses_91 : list (string * list xtensa_funcUnit_use) := [
  ("Opcode_ee_vrelu_s16_funcUnit_uses", [mkUse FUNCUNIT_func_addsub_s32x2_slot1_3 1;
     mkUse FUNCUNIT_func_addsub_s8x2_0 1; mkUse FUNCUNIT_func_addsub_s8x2_1 1;
     mkUse FUNCUNIT_func_addsub_s8x2_2 1; mkUse FUNCUNIT_func_addsub_s8x2_3 1;
     mkUse FUNCUNIT_func_addsub_s8x2_4 1; mkUse FUNCUNIT_func_addsub_s8x2_5 1;
     mkUse FUNCUNIT_func_addsub_s8x2_6 1; mkUse FUNCUNIT_func_addsub_s8x2_7 1;
     mkUse FUNCUNIT_func_addsub_s16x2_0 1; mkUse FUNCUNIT_func_addsub_s16x2_1 1;
     mkUse FUNCUNIT_func_addsub_s16x2_2 1; mkUse FUNCUNIT_func_addsub_s16x2_3 1;
     mkUse FUNCUNIT_func_addsub_s16x2_4 1; mkUse FUNCUNIT_func_addsub_s16x2_5 1;
     mkUse FUNCUNIT_func_addsub_s16x2_6 1; mkUse FUNCUNIT_func_addsub_s16x2_7 1;
     mkUse FUNCUNIT_func_addsub_s32x2_slot0_0 1; mkUse FUNCUNIT_func_addsub_s32x2_slot0_1 1;
     mkUse FUNCUNIT_func_addsub_s32x2_slot0_2 1; mkUse FUNCUNIT_func_addsub_s32x2_slot0_3 1;
     mkUse FUNCUNIT_func_mul_s8xs8_0 1; mkUse FUNCUNIT_func_mul_s8xs8_1 1;
     mkUse FUNCUNIT_func_mul_s8xs8_2 1; mkUse FUNCUNIT_func_mul_s8xs8_3 1;
     mkUse FUNCUNIT_func_mul_s8xs8_4 1; mkUse FUNCUNIT_func_mul_s8xs8_5 1;
     mkUse FUNCUNIT_func_mul_s8xs8_6 1; mkUse FUNCUNIT_func_mul_s8xs8_7 1;
     mkUse FUNCUNIT_func_mul_s16xs16_0 1; mkUse FUNCUNIT_func_mul_s16xs16_1 1;
     mkUse FUNCUNIT_func_mul_s16xs16_2 1; mkUse FUNCUNIT_func_mul_s16xs16_3 1;
     mkUse FUNCUNIT_func_mul_s16xs16_4 1; mkUse FUNCUNIT_func_mul_s16xs16_5 1;
     mkUse FUNCUNIT_func_mul_s16xs16_6 1; mkUse FUNCUNIT_func_mul_s16xs16_7 1;
     mkUse FUNCUNIT_func_addsub_s32x2_slot1_extra 2; mkUse FUNCUNIT_func_addsub_s32x2_slot1_2 2;
     mkUse FUNCUNIT_func_addsub_s32x2_slot1_1 2; mkUse FUNCUNIT_func_addsub_s32x2_slot1_0 2;
     mkUse FUNCUNIT_func_addsub_s20x2_slot_end_0 2; mkUse FUNCUNIT_func_addsub_s20x2_slot_end_1 2;
     mkUse FUNCUNIT_func_addsub_s20x2_slot_end_2 2; mkUse FUNCUNIT_func_addsub_s20x2_slot_end_3 2;
     mkUse FUNCUNIT_func_addsub_s40x2_7 2; mkUse FUNCUNIT_func_addsub_s40x2_6 2;
     mkUse FUNCUNIT_func_addsub_s40x2_5 2; mkUse FUNCUNIT_func_addsub_s40x2_4 2;
     mkUse FUNCUNIT_func_addsub_s40x2_3 2; mkUse FUNCUNIT_func_addsub_s40x2_2 2;
     mkUse FUNCUNIT_func_addsub_s40x2_1 2; mkUse FUNCUNIT_func_addsub_s40x2_0 2;
     mkUse FUNCUNIT_func_shift_s16rs8_0 1; mkUse FUNCUNIT_func_shift_s16rs8_1 1;
     mkUse FUNCUNIT_func_shift_s16rs8_2 1; mkUse FUNCUNIT_func_shift_s16rs8_3 1;
     mkUse FUNCUNIT_func_shift_s16rs8_4 1; mkUse FUNCUNIT_func_shift_s16rs8_5 1;
     mkUse FUNCUNIT_func_shift_s16rs8_6 1; mkUse FUNCUNIT_func_shift_s16rs8_7 1;
     mkUse FUNCUNIT_func_shift_s16rs8_8 1; mkUse FUNCUNIT_func_shift_s16rs8_9 1;
     mkUse FUNCUNIT_func_shift_s16rs8_10 1; mkUse FUNCUNIT_func_shift_s16rs8_11 1;
     mkUse FUNCUNIT_func_shift_s16rs8_12 1; mkUse FUNCUNIT_func_shift_s16rs8_13 1;
     mkUse FUNCUNIT_func_shift_s16rs8_14 1; mkUse FUNCUNIT_func_shift_s16rs8_15 1;
     mkUse FUNCUNIT_func_shift_s32rs16_0 2; mkUse FUNCUNIT_func_shift_s32rs16_1 2;
     mkUse FUNCUNIT_func_shift_s32rs16_2 2; mkUse FUNCUNIT_func_shift_s32rs16_3 2;
     mkUse FUNCUNIT_func_shift_s32rs16_4 1; mkUse FUNCUNIT_func_shift_s32rs16_5 1;
     mkUse FUNCUNIT_func_shift_s32rs16_6 1; mkUse FUNCUNIT_func_shift_s32rs16_7 1])].

Definition s3_uses_92 : list (string * list xtensa_funcUnit_use) := [
  ("Opcode_ee_vrelu_s8_funcUnit_uses", [mkUse FUNCUNIT_func_addsub_s32x2_slot1_3 1;
     mkUse FUNCUNIT_func_addsub_s8x2_0 1; mkUse FUNCUNIT_func_addsub_s8x2_1 1;
     mkUse FUNCUNIT_func_addsub_s8x2_2 1; mkUse FUNCUNIT_func_addsub_s8x2_3 1;
     mkUse FUNCUNIT_func_addsub_s8x2_4 1; mkUse FUNCUNIT_func_addsub_s8x2_5 1;
     mkUse FUNCUNIT_func_addsub_s8x2_6 1; mkUse FUNCUNIT_func_addsub_s8x2_7 1;
     mkUse FUNCUNIT_func_addsub_s16x2_0 1; mkUse FUNCUNIT_func_addsub_s16x2_1 1;
     mkUse FUNCUNIT_func_addsub_s16x2_2 1; mkUse FUNCUNIT_func_addsub_s16x2_3 1;
     mkUse FUNCUNIT_func_addsub_s16x2_4 1; mkUse FUNCUNIT_func_addsub_s16x2_5 1;
     mkUse FUNCUNIT_func_addsub_s16x2_6 1; mkUse FUNCUNIT_func_addsub_s16x2_7 1;
     mkUse FUNCUNIT_func_addsub_s32x2_slot0_0 1; mkUse FUNCUNIT_func_addsub_s32x2_slot0_1 1;
     mkUse FUNCUNIT_func_addsub_s32x2_slot0_2 1; mkUse FUNCUNIT_func_addsub_s32x2_slot0_3 1;
     mkUse FUNCUNIT_func_mul_s8xs8_0 1; mkUse FUNCUNIT_func_mul_s8xs8_1 1;
     mkUse FUNCUNIT_func_mul_s8xs8_2 1; mkUse FUNCUNIT_func_mul_s8xs8_3 1;
     mkUse FUNCUNIT_func_mul_s8xs8_4 1; mkUse FUNCUNIT_func_mul_s8xs8_5 1;
     mkUse FUNCUNIT_func_mul_s8xs8_6 1; mkUse FUNCUNIT_func_mul_s8xs8_7 1;
     mkUse FUNCUNIT_func_mul_s16xs16_0 1; mkUse FUNCUNIT_func_mul_s16xs16_1 1;
     mkUse FUNCUNIT_func_mul_s16xs16_2 1; mkUse FUNCUNIT_func_mul_s16xs16_3 1;
     mkUse FUNCUNIT_func_mul_s16xs16_4 1; mkUse FUNCUNIT_func_mul_s16xs16_5 1;
     mkUse FUNCUNIT_func_mul_s16xs16_6 1; mkUse FUNCUNIT_func_mul_s16xs16_7 1;
     mkUse FUNCUNIT_func_addsub_s32x2_slot1_extra 2; mkUse FUNCUNIT_func_addsub_s32x2_slot1_2 2;
     mkUse FUNCUNIT_func_addsub_s32x2_slot1_1 2; mkUse FUNCUNIT_func_addsub_s32x2_slot1_0 2;
     mkUse FUNCUNIT_func_addsub_s20x2_slot_end_0 2; mkUse FUNCUNIT_func_addsub_s20x2_slot_end_1 2;
     mkUse FUNCUNIT_func_addsub_s20x2_slot_end_2 2; mkUse FUNCUNIT_func_addsub_s20x2_slot_end_3 2;
     mkUse FUNCUNIT_func_addsub_s40x2_7 2; mkUse FUNCUNIT_func_addsub_s40x2_6 2;
     mkUse FUNCUNIT_func_addsub_s40x2_5 2; mkUse FUNCUNIT_func_addsub_s40x2_4 2;
     mkUse FUNCUNIT_func_addsub_s40x2_3 2; mkUse FUNCUNIT_func_addsub_s40x2_2 2;
     mkUse FUNCUNIT_func_addsub_s40x2_1 2; mkUse FUNCUNIT_func_addsub_s40x2_0 2;
     mkUse FUNCUNIT_func_shift_s16rs8_0 1; mkUse FUNCUNIT_func_shift_s16rs8_1 1;
     mkUse FUNCUNIT_func_shift_s16rs8_2 1; mkUse FUNCUNIT_func_shift_s16rs8_3 1;
     mkUse FUNCUNIT_func_shift_s16rs8_4 1; mkUse FUNCUNIT_func_shift_s16rs8_5 1;
     mkUse FUNCUNIT_func_shift_s16rs8_6 1; mkUse FUNCUNIT_func_shift_s16rs8_7 1;
     mkUse FUNCUNIT_func_shift_s16rs8_8 1; mkUse FUNCUNIT_func_shift_s16rs8_9 1;
     mkUse FUNCUNIT_func_shift_s16rs8_10 1; mkUse FUNCUNIT_func_shift_s16rs8_11 1;
     mkUse FUNCUNIT_func_shift_s16rs8_12 1; mkUse FUNCUNIT_func_shift_s16rs8_13 1;
     mkUse FUNCUNIT_func_shift_s16rs8_14 1; mkUse FUNCUNIT_func_shift_s16rs8_15 1;
     mkUse FUNCUNIT_func_shift_s32rs16_0 2; mkUse FUNCUNIT_func_shift_s32rs16_1 2;
     mkUse FUNCUNIT_func_shift_s32rs16_2 2; mkUse FUNCUNIT_func_shift_s32rs16_3 2;
     mkUse FUNCUNIT_func_shift_s32rs16_4 1; mkUse FUNCUNIT_func_shift_s32rs16_5 1;
     mkUse FUNCUNIT_func_shift_s32rs16_6 1; mkUse FUNCUNIT_func_shift_s32rs16_7 1])].

Definition s3_uses_93 : list (string * list xtensa_funcUnit_use) := [
  ("Opcode_ee_vprelu_s16_funcUnit_uses", [mkUse FUNCUNIT_func_addsub_s32x2_slot1_3 1;
     mkUse FUNCUNIT_func_addsub_s8x2_0 1; mkUse FUNCUNIT_func_addsub_s8x2_1 1;
     mkUse FUNCUNIT_func_addsub_s8x2_2 1; mkUse FUNCUNIT_func_addsub_s8x2_3 1;
     mkUse FUNCUNIT_func_addsub_s8x2_4 1; mkUse FUNCUNIT_func_addsub_s8x2_5 1;
     mkUse FUNCUNIT_func_addsub_s8x2_6 1; mkUse FUNCUNIT_func_addsub_s8x2_7 1;
     mkUse FUNCUNIT_func_addsub_s16x2_0 1; mkUse FUNCUNIT_func_addsub_s16x2_1 1;
     mkUse FUNCUNIT_func_addsub_s16x2_2 1; mkUse FUNCUNIT_func_addsub_s16x2_3 1;
     mkUse FUNCUNIT_func_addsub_s16x2_4 1; mkUse FUNCUNIT_func_addsub_s16x2_5 1;
     mkUse FUNCUNIT_func_addsub_s16x2_6 1; mkUse FUNCUNIT_func_addsub_s16x2_7 1;
     mkUse FUNCUNIT_func_addsub_s32x2_slot0_0 1; mkUse FUNCUNIT_func_addsub_s32x2_slot0_1 1;
     mkUse FUNCUNIT_func_addsub_s32x2_slot0_2 1; mkUse FUNCUNIT_func_addsub_s32x2_slot0_3 1;
     mkUse FUNCUNIT_func_mul_s8xs8_0 1; mkUse FUNCUNIT_func_mul_s8xs8_1 1;
     mkUse FUNCUNIT_func_mul_s8xs8_2 1; mkUse FUNCUNIT_func_mul_s8xs8_3 1;
     mkUse FUNCUNIT_func_mul_s8xs8_4 1; mkUse FUNCUNIT_func_mul_s8xs8_5 1;
     mkUse FUNCUNIT_func_mul_s8xs8_6 1; mkUse FUNCUNIT_func_mul_s8xs8_7 1;
     mkUse FUNCUNIT_func_mul_s16xs16_0 1; mkUse FUNCUNIT_func_mul_s16xs16_1 1;
     mkUse FUNCUNIT_func_mul_s16xs16_2 1; mkUse FUNCUNIT_func_mul_s16xs16_3 1;
     mkUse FUNCUNIT_func_mul_s16xs16_4 1; mkUse FUNCUNIT_func_mul_s16xs16_5 1;
     mkUse FUNCUNIT_func_mul_s16xs16_6 1; mkUse FUNCUNIT_func_mul_s16xs16_7 1;
     mkUse FUNCUNIT_func_addsub_s32x2_slot1_extra 2; mkUse FUNCUNIT_func_addsub_s32x2_slot1_2 2;
     mkUse FUNCUNIT_func_addsub_s32x2_slot1_1 2; mkUse FUNCUNIT_func_addsub_s32x2_slot1_0 2;
     mkUse FUNCUNIT_func_addsub_s20x2_slot_end_0 2; mkUse FUNCUNIT_func_addsub_s20x2_slot_end_1 2;
     mkUse FUNCUNIT_func_addsub_s20x2_slot_end_2 2; mkUse FUNCUNIT_func_addsub_s20x2_slot_end_3 2;
     mkUse FUNCUNIT_func_addsub_s40x2_7 2; mkUse FUNCUNIT_func_addsub_s40x2_6 2;
     mkUse FUNCUNIT_func_addsub_s40x2_5 2; mkUse FUNCUNIT_func_addsub_s40x2_4 2;
     mkUse FUNCUNIT_func_addsub_s40x2_3 2; mkUse FUNCUNIT_func_addsub_s40x2_2 2;
     mkUse FUNCUNIT_func_addsub_s40x2_1 2; mkUse FUNCUNIT_func_addsub_s40x2_0 2;
     mkUse FUNCUNIT_func_shift_s16rs8_0 1; mkUse FUNCUNIT_func_shift_s16rs8_1 1;
     mkUse FUNCUNIT_func_shift_s16rs8_2 1; mkUse FUNCUNIT_func_shift_s16rs8_3 1;
     mkUse FUNCUNIT_func_shift_s16rs8_4 1; mkUse FUNCUNIT_func_shift_s16rs8_5 1;
     mkUse FUNCUNIT_func_shift_s16rs8_6 1; mkUse FUNCUNIT_func_shift_s16rs8_7 1;
     mkUse FUNCUNIT_func_shift_s16rs8_8 1; mkUse FUNCUNIT_func_shift_s16rs8_9 1;
     mkUse FUNCUNIT_func_shift_s16rs8_10 1; mkUse FUNCUNIT_func_shift_s16rs8_11 1;
     mkUse FUNCUNIT_func_shift_s16rs8_12 1; mkUse FUNCUNIT_func_shift_s16rs8_13 1;
     mkUse FUNCUNIT_func_shift_s16rs8_14 1; mkUse FUNCUNIT_func_shift_s16rs8_15 1;
     mkUse FUNCUNIT_func_shift_s32rs16_0 2; mkUse FUNCUNIT_func_shift_s32rs16_1 2;
     mkUse FUNCUNIT_func_shift_s32rs16_2 2; mkUse FUNCUNIT_func_shift_s32rs16_3 2;
     mkUse FUNCUNIT_func_shift_s32rs16_4 1; mkUse FUNCUNIT_func_shift_s32rs16_5 1;
     mkUse FUNCUNIT_func_shift_s32rs16_6 1; mkUse FUNCUNIT_func_shift_s32rs16_7 1])].

Definition s3_uses_94 : list (string * list xtensa_funcUnit_use) := [
  ("Opcode_ee_vprelu_s8_funcUnit_uses", [mkUse FUNCUNIT_func_addsub_s32x2_slot1_3 1;
     mkUse FUNCUNIT_func_addsub_s8x2_0 1; mkUse FUNCUNIT_func_addsub_s8x2_1 1;
     mkUse FUNCUNIT_func_addsub_s8x2_2 1; mkUse FUNCUNIT_func_addsub_s8x2_3 1;
     mkUse FUNCUNIT_func_addsub_s8x2_4 1; mkUse FUNCUNIT_func_addsub_s8x2_5 1;
     mkUse FUNCUNIT_func_addsub_s8x2_6 1; mkUse FUNCUNIT_func_addsub_s8x2_7 1;
     mkUse FUNCUNIT_func_addsub_s16x2_0 1; mkUse FUNCUNIT_func_addsub_s16x2_1 1;
     mkUse FUNCUNIT_func_addsub_s16x2_2 1; mkUse FUNCUNIT_func_addsub_s16x2_3 1;
     mkUse FUNCUNIT_func_addsub_s16x2_4 1; mkUse FUNCUNIT_func_addsub_s16x2_5 1;
     mkUse FUNCUNIT_func_addsub_s16x2_6 1; mkUse FUNCUNIT_func_addsub_s16x2_7 1;
     mkUse FUNCUNIT_func_addsub_s32x2_slot0_0 1; mkUse FUNCUNIT_func_addsub_s32x2_slot0_1 1;
     mkUse FUNCUNIT_func_addsub_s32x2_slot0_2 1; mkUse FUNCUNIT_func_addsub_s32x2_slot0_3 1;
     mkUse FUNCUNIT_func_mul_s8xs8_0 1; mkUse FUNCUNIT_func_mul_s8xs8_1 1;
     mkUse FUNCUNIT_func_mul_s8xs8_2 1; mkUse FUNCUNIT_func_mul_s8xs8_3 1;
     mkUse FUNCUNIT_func_mul_s8xs8_4 1; mkUse FUNCUNIT_func_mul_s8xs8_5 1;
     mkUse FUNCUNIT_func_mul_s8xs8_6 1; mkUse FUNCUNIT_func_mul_s8xs8_7 1;
     mkUse FUNCUNIT_func_mul_s16xs16_0 1; mkUse FUNCUNIT_func_mul_s16xs16_1 1;
     mkUse FUNCUNIT_func_mul_s16xs16_2 1; mkUse FUNCUNIT_func_mul_s16xs16_3 1;
     mkUse FUNCUNIT_func_mul_s16xs16_4 1; mkUse FUNCUNIT_func_mul_s16xs16_5 1;
     mkUse FUNCUNIT_func_mul_s16xs16_6 1; mkUse FUNCUNIT_func_mul_s16xs16_7 1;
     mkUse FUNCUNIT_func_addsub_s32x2_slot1_extra 2; mkUse FUNCUNIT_func_addsub_s32x2_slot1_2 2;
     mkUse FUNCUNIT_func_addsub_s32x2_slot1_1 2; mkUse FUNCUNIT_func_addsub_s32x2_slot1_0 2;
     mkUse FUNCUNIT_func_addsub_s20x2_slot_end_0 2; mkUse FUNCUNIT_func_addsub_s20x2_slot_end_1 2;
     mkUse FUNCUNIT_func_addsub_s20x2_slot_end_2 2; mkUse FUNCUNIT_func_addsub_s20x2_slot_end_3 2;
     mkUse FUNCUNIT_func_addsub_s40x2_7 2; mkUse FUNCUNIT_func_addsub_s40x2_6 2;
     mkUse FUNCUNIT_func_addsub_s40x2_5 2; mkUse FUNCUNIT_func_addsub_s40x2_4 2;
     mkUse FUNCUNIT_func_addsub_s40x2_3 2; mkUse FUNCUNIT_func_addsub_s40x2_2 2;
     mkUse FUNCUNIT_func_addsub_s40x2_1 2; mkUse FUNCUNIT_func_addsub_s40x2_0 2;
     mkUse FUNCUNIT_func_shift_s16rs8_0 1; mkUse FUNCUNIT_func_shift_s16rs8_1 1;
     mkUse FUNCUNIT_func_shift_s16rs8_2 1; mkUse FUNCUNIT_func_shift_s16rs8_3 1;
     mkUse FUNCUNIT_func_shift_s16rs8_4 1; mkUse FUNCUNIT_func_shift_s16rs8_5 1;
     mkUse FUNCUNIT_func_shift_s16rs8_6 1; mkUse FUNCUNIT_func_shift_s16rs8_7 1;
     mkUse FUNCUNIT_func_shift_s16rs8_8 1; mkUse FUNCUNIT_func_shift_s16rs8_9 1;
     mkUse FUNCUNIT_func_shift_s16rs8_10 1; mkUse FUNCUNIT_func_shift_s16rs8_11 1;
     mkUse FUNCUNIT_func_shift_s16rs8_12 1; mkUse FUNCUNIT_func_shift_s16rs8_13 1;
     mkUse FUNCUNIT_func_shift_s16rs8_14 1; mkUse FUNCUNIT_func_shift_s16rs8_15 1;
     mkUse FUNCUNIT_func_shift_s32rs16_0 2; mkUse FUNCUNIT_func_shift_s32rs16_1 2;
     mkUse FUNCUNIT_func_shift_s32rs16_2 2; mkUse FUNCUNIT_func_shift_s32rs16_3 2;
     mkUse FUNCUNIT_func_shift_s32rs16_4 1; mkUse FUNCUNIT_func_shift_s32rs16_5 1;
     mkUse FUNCUNIT_func_shift_s32rs16_6 1; mkUse FUNCUNIT_func_shift_s32rs16_7 1])].

Definition s3_uses_95 : list (string * list xtensa_funcUnit_use) := [
  ("Opcode_ee_vmax_s16_ld_incp_funcUnit_uses", [mkUse FUNCUNIT_func_addsub_s32x2_slot1_3 1;
     mkUse FUNCUNIT_func_addsub_s8x2_0 1; mkUse FUNCUNIT_func_addsub_s8x2_1 1;
     mkUse FUNCUNIT_func_addsub_s8x2_2 1; mkUse FUNCUNIT_func_addsub_s8x2_3 1;
     mkUse FUNCUNIT_func_addsub_s8x2_4 1; mkUse FUNCUNIT_func_addsub_s8x2_5 1;
     mkUse FUNCUNIT_func_addsub_s8x2_6 1; mkUse FUNCUNIT_func_addsub_s8x2_7 1;
     mkUse FUNCUNIT_func_addsub_s16x2_0 1; mkUse FUNCUNIT_func_addsub_s16x2_1 1;
     mkUse FUNCUNIT_func_addsub_s16x2_2 1; mkUse FUNCUNIT_func_addsub_s16x2_3 1;
     mkUse FUNCUNIT_func_addsub_s16x2_4 1; mkUse FUNCUNIT_func_addsub_s16x2_5 1;
     mkUse FUNCUNIT_func_addsub_s16x2_6 1; mkUse FUNCUNIT_func_addsub_s16x2_7 1;
     mkUse FUNCUNIT_func_addsub_s32x2_slot0_0 1; mkUse FUNCUNIT_func_addsub_s32x2_slot0_1 1;
     mkUse FUNCUNIT_func_addsub_s32x2_slot0_2 1; mkUse FUNCUNIT_func_addsub_s32x2_slot0_3 1;
     mkUse FUNCUNIT_func_mul_s8xs8_0 1; mkUse FUNCUNIT_func_mul_s8xs8_1 1;
     mkUse FUNCUNIT_func_mul_s8xs8_2 1; mkUse FUNCUNIT_func_mul_s8xs8_3 1;
     mkUse FUNCUNIT_func_mul_s8xs8_4 1; mkUse FUNCUNIT_func_mul_s8xs8_5 1;
     mkUse FUNCUNIT_func_mul_s8xs8_6 1; mkUse FUNCUNIT_func_mul_s8xs8_7 1;
     mkUse FUNCUNIT_func_mul_s16xs16_0 1; mkUse FUNCUNIT_func_mul_s16xs16_1 1;
     mkUse FUNCUNIT_func_mul_s16xs16_2 1; mkUse FUNCUNIT_func_mul_s16xs16_3 1;
     mkUse FUNCUNIT_func_mul_s16xs16_4 1; mkUse FUNCUNIT_func_mul_s16xs16_5 1;
     mkUse FUNCUNIT_func_mul_s16xs16_6 1; mkUse FUNCUNIT_func_mul_s16xs16_7 1;
     mkUse FUNCUNIT_func_addsub_s32x2_slot1_extra 2; mkUse FUNCUNIT_func_addsub_s32x2_slot1_2 2;
     mkUse FUNCUNIT_func_addsub_s32x2_slot1_1 2; mkUse FUNCUNIT_func_addsub_s32x2_slot1_0 2;
     mkUse FUNCUNIT_func_addsub_s20x2_slot_end_0 2; mkUse FUNCUNIT_func_addsub_s20x2_slot_end_1 2;
     mkUse FUNCUNIT_func_addsub_s20x2_slot_end_2 2; mkUse FUNCUNIT_func_addsub_s20x2_slot_end_3 2;
     mkUse FUNCUNIT_func_addsub_s40x2_7 2; mkUse FUNCUNIT_func_addsub_s40x2_6 2;
     mkUse FUNCUNIT_func_addsub_s40x2_5 2; mkUse FUNCUNIT_func_addsub_s40x2_4 2;
     mkUse FUNCUNIT_func_addsub_s40x2_3 2; mkUse FUNCUNIT_func_addsub_s40x2_2 2;
     mkUse FUNCUNIT_func_addsub_s40x2_1 2; mkUse FUNCUNIT_func_addsub_s40x2_0 2;
     mkUse FUNCUNIT_func_shift_s16rs8_0 1; mkUse FUNCUNIT_func_shift_s16rs8_1 1;
     mkUse FUNCUNIT_func_shift_s16rs8_2 1; mkUse FUNCUNIT_func_shift_s16rs8_3 1;
     mkUse FUNCUNIT_func_shift_s16rs8_4 1; mkUse FUNCUNIT_func_shift_s16rs8_5 1;
     mkUse FUNCUNIT_func_shift_s16rs8_6 1; mkUse FUNCUNIT_func_shift_s16rs8_7 1;
     mkUse FUNCUNIT_func_shift_s16rs8_8 1; mkUse FUNCUNIT_func_shift_s16rs8_9 1;
     mkUse FUNCUNIT_func_shift_s16rs8_10 1; mkUse FUNCUNIT_func_shift_s16rs8_11 1;
     mkUse FUNCUNIT_func_shift_s16rs8_12 1; mkUse FUNCUNIT_func_shift_s16rs8_13 1;
     mkUse FUNCUNIT_func_shift_s16rs8_14 1; mkUse FUNCUNIT_func_shift_s16rs8_15 1;
     mkUse FUNCUNIT_func_shift_s32rs16_0 2; mkUse FUNCUNIT_func_shift_s32rs16_1 2;
     mkUse FUNCUNIT_func_shift_s32rs16_2 2; mkUse FUNCUNIT_func_shift_s32rs16_3 2;
     mkUse FUNCUNIT_func_shift_s32rs16_4 1; mkUse FUNCUNIT_func_shift_s32rs16_5 1;
     mkUse FUNCUNIT_func_shift_s32rs16_6 1; mkUse FUNCUNIT_func_shift_s32rs16_7 1])].

Definition s3_uses_96 : list (string * list xtensa_funcUnit_use) := [
  ("Opcode_ee_vmax_s16_st_incp_funcUnit_uses", [mkUse FUNCUNIT_func_addsub_s32x2_slot1_3 1;
     mkUse FUNCUNIT_func_addsub_s8x2_0 1; mkUse FUNCUNIT_func_addsub_s8x2_1 1;
     mkUse FUNCUNIT_func_addsub_s8x2_2 1; mkUse FUNCUNIT_func_addsub_s8x2_3 1;
     mkUse FUNCUNIT_func_addsub_s8x2_4 1; mkUse FUNCUNIT_func_addsub_s8x2_5 1;
     mkUse FUNCUNIT_func_addsub_s8x2_6 1; mkUse FUNCUNIT_func_addsub_s8x2_7 1;
     mkUse FUNCUNIT_func_addsub_s16x2_0 1; mkUse FUNCUNIT_func_addsub_s16x2_1 1;
     mkUse FUNCUNIT_func_addsub_s16x2_2 1; mkUse FUNCUNIT_func_addsub_s16x2_3 1;
     mkUse FUNCUNIT_func_addsub_s16x2_4 1; mkUse FUNCUNIT_func_addsub_s16x2_5 1;
     mkUse FUNCUNIT_func_addsub_s16x2_6 1; mkUse FUNCUNIT_func_addsub_s16x2_7 1;
     mkUse FUNCUNIT_func_addsub_s32x2_slot0_0 1; mkUse FUNCUNIT_func_addsub_s32x2_slot0_1 1;
     mkUse FUNCUNIT_func_addsub_s32x2_slot0_2 1; mkUse FUNCUNIT_func_addsub_s32x2_slot0_3 1;
     mkUse FUNCUNIT_func_mul_s8xs8_0 1; mkUse FUNCUNIT_func_mul_s8xs8_1 1;
     mkUse FUNCUNIT_func_mul_s8xs8_2 1; mkUse FUNCUNIT_func_mul_s8xs8_3 1;
     mkUse FUNCUNIT_func_mul_s8xs8_4 1; mkUse FUNCUNIT_func_mul_s8xs8_5 1;
     mkUse FUNCUNIT_func_mul_s8xs8_6 1; mkUse FUNCUNIT_func_mul_s8xs8_7 1;
     mkUse FUNCUNIT_func_mul_s16xs16_0 1; mkUse FUNCUNIT_func_mul_s16xs16_1 1;
     mkUse FUNCUNIT_func_mul_s16xs16_2 1; mkUse FUNCUNIT_func_mul_s16xs16_3 1;
     mkUse FUNCUNIT_func_mul_s16xs16_4 1; mkUse FUNCUNIT_func_mul_s16xs16_5 1;
     mkUse FUNCUNIT_func_mul_s16xs16_6 1; mkUse FUNCUNIT_func_mul_s16xs16_7 1;
     mkUse FUNCUNIT_func_addsub_s32x2_slot1_extra 2; mkUse FUNCUNIT_func_addsub_s32x2_slot1_2 2;
     mkUse FUNCUNIT_func_addsub_s32x2_slot1_1 2; mkUse FUNCUNIT_func_addsub_s32x2_slot1_0 2;
     mkUse FUNCUNIT_func_addsub_s20x2_slot_end_0 2; mkUse FUNCUNIT_func_addsub_s20x2_slot_end_1 2;
     mkUse FUNCUNIT_func_addsub_s20x2_slot_end_2 2; mkUse FUNCUNIT_func_addsub_s20x2_slot_end_3 2;
     mkUse FUNCUNIT_func_addsub_s40x2_7 2; mkUse FUNCUNIT_func_addsub_s40x2_6 2;
     mkUse FUNCUNIT_func_addsub_s40x2_5 2; mkUse FUNCUNIT_func_addsub_s40x2_4 2;
     mkUse FUNCUNIT_func_addsub_s40x2_3 2; mkUse FUNCUNIT_func_addsub_s40x2_2 2;
     mkUse FUNCUNIT_func_addsub_s40x2_1 2; mkUse FUNCUNIT_func_addsub_s40x2_0 2;
     mkUse FUNCUNIT_func_shift_s16rs8_0 1; mkUse FUNCUNIT_func_shift_s16rs8_1 1;
     mkUse FUNCUNIT_func_shift_s16rs8_2 1; mkUse FUNCUNIT_func_shift_s16rs8_3 1;
     mkUse FUNCUNIT_func_shift_s16rs8_4 1; mkUse FUNCUNIT_func_shift_s16rs8_5 1;
     mkUse FUNCUNIT_func_shift_s16rs8_6 1; mkUse FUNCUNIT_func_shift_s16rs8_7 1;
     mkUse FUNCUNIT_func_shift_s16rs8_8 1; mkUse FUNCUNIT_func_shift_s16rs8_9 1;
     mkUse FUNCUNIT_func_shift_s16rs8_10 1; mkUse FUNCUNIT_func_shift_s16rs8_11 1;
     mkUse FUNCUNIT_func_shift_s16rs8_12 1; mkUse FUNCUNIT_func_shift_s16rs8_13 1;
     mkUse FUNCUNIT_func_shift_s16rs8_14 1; mkUse FUNCUNIT_func_shift_s16rs8_15 1;
     mkUse FUNCUNIT_func_shift_s32rs16_0 2; mkUse FUNCUNIT_func_shift_s32rs16_1 2;
     mkUse FUNCUNIT_func_shift_s32rs16_2 2; mkUse FUNCUNIT_func_shift_s32rs16_3 2;
     mkUse FUNCUNIT_func_shift_s32rs16_4 1; mkUse FUNCUNIT_func_shift_s32rs16_5 1;
     mkUse FUNCUNIT_func_shift_s32rs16_6 1; mkUse FUNCUNIT_func_shift_s32rs16_7 1])].

Definition s3_uses_97 : list (string * list xtensa_funcUnit_use) := [
  ("Opcode_ee_vmax_s16_funcUnit_uses", [mkUse FUNCUNIT_func_addsub_s32x2_slot1_3 1;
     mkUse FUNCUNIT_func_addsub_s8x2_0 1; mkUse FUNCUNIT_func_addsub_s8x2_1 1;
     mkUse FUNCUNIT_func_addsub_s8x2_2 1; mkUse FUNCUNIT_func_addsub_s8x2_3 1;
     mkUse FUNCUNIT_func_addsub_s8x2_4 1; mkUse FUNCUNIT_func_addsub_s8x2_5 1;
     mkUse FUNCUNIT_func_addsub_s8x2_6 1; mkUse FUNCUNIT_func_addsub_s8x2_7 1;
     mkUse FUNCUNIT_func_addsub_s16x2_0 1; mkUse FUNCUNIT_func_addsub_s16x2_1 1;
     mkUse FUNCUNIT_func_addsub_s16x2_2 1; mkUse FUNCUNIT_func_addsub_s16x2_3 1;
     mkUse FUNCUNIT_func_addsub_s16x2_4 1; mkUse FUNCUNIT_func_addsub_s16x2_5 1;
     mkUse FUNCUNIT_func_addsub_s16x2_6 1; mkUse FUNCUNIT_func_addsub_s16x2_7 1;
     mkUse FUNCUNIT_func_addsub_s32x2_slot0_0 1; mkUse FUNCUNIT_func_addsub_s32x2_slot0_1 1;
     mkUse FUNCUNIT_func_addsub_s32x2_slot0_2 1; mkUse FUNCUNIT_func_addsub_s32x2_slot0_3 1;
     mkUse FUNCUNIT_func_mul_s8xs8_0 1; mkUse FUNCUNIT_func_mul_s8xs8_1 1;
     mkUse FUNCUNIT_func_mul_s8xs8_2 1; mkUse FUNCUNIT_func_mul_s8xs8_3 1;
     mkUse FUNCUNIT_func_mul_s8xs8_4 1; mkUse FUNCUNIT_func_mul_s8xs8_5 1;
     mkUse FUNCUNIT_func_mul_s8xs8_6 1; mkUse FUNCUNIT_func_mul_s8xs8_7 1;
     mkUse FUNCUNIT_func_mul_s16xs16_0 1; mkUse FUNCUNIT_func_mul_s16xs16_1 1;
     mkUse FUNCUNIT_func_mul_s16xs16_2 1; mkUse FUNCUNIT_func_mul_s16xs16_3 1;
     mkUse FUNCUNIT_func_mul_s16xs16_4 1; mkUse FUNCUNIT_func_mul_s16xs16_5 1;
     mkUse FUNCUNIT_func_mul_s16xs16_6 1; mkUse FUNCUNIT_func_mul_s16xs16_7 1;
     mkUse FUNCUNIT_func_addsub_s32x2_slot1_extra 2; mkUse FUNCUNIT_func_addsub_s32x2_slot1_2 2;
     mkUse FUNCUNIT_func_addsub_s32x2_slot1_1 2; mkUse FUNCUNIT_func_addsub_s32x2_slot1_0 2;
     mkUse FUNCUNIT_func_addsub_s20x2_slot_end_0 2; mkUse FUNCUNIT_func_addsub_s20x2_slot_end_1 2;
     mkUse FUNCUNIT_func_addsub_s20x2_slot_end_2 2; mkUse FUNCUNIT_func_addsub_s20x2_slot_end_3 2;
     mkUse FUNCUNIT_func_addsub_s40x2_7 2; mkUse FUNCUNIT_func_addsub_s40x2_6 2;
     mkUse FUNCUNIT_func_addsub_s40x2_5 2; mkUse FUNCUNIT_func_addsub_s40x2_4 2;
     mkUse FUNCUNIT_func_addsub_s40x2_3 2; mkUse FUNCUNIT_func_addsub_s40x2_2 2;
     mkUse FUNCUNIT_func_addsub_s40x2_1 2; mkUse FUNCUNIT_func_addsub_s40x2_0 2;
     mkUse FUNCUNIT_func_shift_s16rs8_0 1; mkUse FUNCUNIT_func_shift_s16rs8_1 1;
     mkUse FUNCUNIT_func_shift_s16rs8_2 1; mkUse FUNCUNIT_func_shift_s16rs8_3 1;
     mkUse FUNCUNIT_func_shift_s16rs8_4 1; mkUse FUNCUNIT_func_shift_s16rs8_5 1;
     mkUse FUNCUNIT_func_shift_s16rs8_6 1; mkUse FUNCUNIT_func_shift_s16rs8_7 1;
     mkUse FUNCUNIT_func_shift_s16rs8_8 1; mkUse FUNCUNIT_func_shift_s16rs8_9 1;
     mkUse FUNCUNIT_func_shift_s16rs8_10 1; mkUse FUNCUNIT_func_shift_s16rs8_11 1;
     mkUse FUNCUNIT_func_shift_s16rs8_12 1; mkUse FUNCUNIT_func_shift_s16rs8_13 1;
     mkUse FUNCUNIT_func_shift_s16rs8_14 1; mkUse FUNCUNIT_func_shift_s16rs8_15 1;
     mkUse FUNCUNIT_func_shift_s32rs16_0 2; mkUse FUNCUNIT_func_shift_s32rs16_1 2;
     mkUse FUNCUNIT_func_shift_s32rs16_2 2; mkUse FUNCUNIT_func_shift_s32rs16_3 2;
     mkUse FUNCUNIT_func_shift_s32rs16_4 1; mkUse FUNCUNIT_func_shift_s32rs16_5 1;
     mkUse FUNCUNIT_func_shift_s32rs16_6 1; mkUse FUNCUNIT_func_shift_s32rs16_7 1])].

Definition s3_uses_98 : list (string * list xtensa_funcUnit_use) := [
  ("Opcode_ee_vmax_s32_ld_incp_funcUnit_uses", [mkUse FUNCUNIT_func_addsub_s32x2_slot1_3 1;
     mkUse FUNCUNIT_func_addsub_s8x2_0 1; mkUse FUNCUNIT_func_addsub_s8x2_1 1;
     mkUse FUNCUNIT_func_addsub_s8x2_2 1; mkUse FUNCUNIT_func_addsub_s8x2_3 1;
     mkUse FUNCUNIT_func_addsub_s8x2_4 1; mkUse FUNCUNIT_func_addsub_s8x2_5 1;
     mkUse FUNCUNIT_func_addsub_s8x2_6 1; mkUse FUNCUNIT_func_addsub_s8x2_7 1;
     mkUse FUNCUNIT_func_addsub_s16x2_0 1; mkUse FUNCUNIT_func_addsub_s16x2_1 1;
     mkUse FUNCUNIT_func_addsub_s16x2_2 1; mkUse FUNCUNIT_func_addsub_s16x2_3 1;
     mkUse FUNCUNIT_func_addsub_s16x2_4 1; mkUse FUNCUNIT_func_addsub_s16x2_5 1;
     mkUse FUNCUNIT_func_addsub_s16x2_6 1; mkUse FUNCUNIT_func_addsub_s16x2_7 1;
     mkUse FUNCUNIT_func_addsub_s32x2_slot0_0 1; mkUse FUNCUNIT_func_addsub_s32x2_slot0_1 1;
     mkUse FUNCUNIT_func_addsub_s32x2_slot0_2 1; mkUse FUNCUNIT_func_addsub_s32x2_slot0_3 1;
     mkUse FUNCUNIT_func_mul_s8xs8_0 1; mkUse FUNCUNIT_func_mul_s8xs8_1 1;
     mkUse FUNCUNIT_func_mul_s8xs8_2 1; mkUse FUNCUNIT_func_mul_s8xs8_3 1;
     mkUse FUNCUNIT_func_mul_s8xs8_4 1; mkUse FUNCUNIT_func_mul_s8xs8_5 1;
     mkUse FUNCUNIT_func_mul_s8xs8_6 1; mkUse FUNCUNIT_func_mul_s8xs8_7 1;
     mkUse FUNCUNIT_func_mul_s16xs16_0 1; mkUse FUNCUNIT_func_mul_s16xs16_1 1;
     mkUse FUNCUNIT_func_mul_s16xs16_2 1; mkUse FUNCUNIT_func_mul_s16xs16_3 1;
     mkUse FUNCUNIT_func_mul_s16xs16_4 1; mkUse FUNCUNIT_func_mul_s16xs16_5 1;
     mkUse FUNCUNIT_func_mul_s16xs16_6 1; mkUse FUNCUNIT_func_mul_s16xs16_7 1;
     mkUse FUNCUNIT_func_addsub_s32x2_slot1_extra 2; mkUse FUNCUNIT_func_addsub_s32x2_slot1_2 2;
     mkUse FUNCUNIT_func_addsub_s32x2_slot1_1 2; mkUse FUNCUNIT_func_addsub_s32x2_slot1_0 2;
     mkUse FUNCUNIT_func_addsub_s20x2_slot_end_0 2; mkUse FUNCUNIT_func_addsub_s20x2_slot_end_1 2;
     mkUse FUNCUNIT_func_addsub_s20x2_slot_end_2 2; mkUse FUNCUNIT_func_addsub_s20x2_slot_end_3 2;
     mkUse FUNCUNIT_func_addsub_s40x2_7 2; mkUse FUNCUNIT_func_addsub_s40x2_6 2;
     mkUse FUNCUNIT_func_addsub_s40x2_5 2; mkUse FUNCUNIT_func_addsub_s40x2_4 2;
     mkUse FUNCUNIT_func_addsub_s40x2_3 2; mkUse FUNCUNIT_func_addsub_s40x2_2 2;
     mkUse FUNCUNIT_func_addsub_s40x2_1 2; mkUse FUNCUNIT_func_addsub_s40x2_0 2;
     mkUse FUNCUNIT_func_shift_s16rs8_0 1; mkUse FUNCUNIT_func_shift_s16rs8_1 1;
     mkUse FUNCUNIT_func_shift_s16rs8_2 1; mkUse FUNCUNIT_func_shift_s16rs8_3 1;
     mkUse FUNCUNIT_func_shift_s16rs8_4 1; mkUse FUNCUNIT_func_shift_s16rs8_5 1;
     mkUse FUNCUNIT_func_shift_s16rs8_6 1; mkUse FUNCUNIT_func_shift_s16rs8_7 1;
     mkUse FUNCUNIT_func_shift_s16rs8_8 1; mkUse FUNCUNIT_func_shift_s16rs8_9 1;
     mkUse FUNCUNIT_func_shift_s16rs8_10 1; mkUse FUNCUNIT_func_shift_s16rs8_11 1;
     mkUse FUNCUNIT_func_shift_s16rs8_12 1; mkUse FUNCUNIT_func_shift_s16rs8_13 1;
     mkUse FUNCUNIT_func_shift_s16rs8_14 1; mkUse FUNCUNIT_func_shift_s16rs8_15 1;
     mkUse FUNCUNIT_func_shift_s32rs16_0 2; mkUse FUNCUNIT_func_shift_s32rs16_1 2;
     mkUse FUNCUNIT_func_shift_s32rs16_2 2; mkUse FUNCUNIT_func_shift_s32rs16_3 2;
     mkUse FUNCUNIT_func_shift_s32rs16_4 1; mkUse FUNCUNIT_func_shift_s32rs16_5 1;
     mkUse FUNCUNIT_func_shift_s32rs16_6 1; mkUse FUNCUNIT_func_shift_s32rs16_7 1])].

Definition s3_uses_99 : list (string * list xtensa_funcUnit_use) := [
  ("Opcode_ee_vmax_s32_st_incp_funcUnit_uses", [mkUse FUNCUNIT_func_addsub_s32x2_slot1_3 1;
     mkUse FUNCUNIT_func_addsub_s8x2_0 1; mkUse FUNCUNIT_func_addsub_s8x2_1 1;
     mkUse FUNCUNIT_func_addsub_s8x2_2 1; mkUse FUNCUNIT_func_addsub_s8x2_3 1;
     mkUse FUNCUNIT_func_addsub_s8x2_4 1; mkUse FUNCUNIT_func_addsub_s8x2_5 1;
     mkUse FUNCUNIT_func_addsub_s8x2_6 1; mkUse FUNCUNIT_func_addsub_s8x2_7 1;
     mkUse FUNCUNIT_func_addsub_s16x2_0 1; mkUse FUNCUNIT_func_addsub_s16x2_1 1;
     mkUse FUNCUNIT_func_addsub_s16x2_2 1; mkUse FUNCUNIT_func_addsub_s16x2_3 1;
     mkUse FUNCUNIT_func_addsub_s16x2_4 1; mkUse FUNCUNIT_func_addsub_s16x2_5 1;
     mkUse FUNCUNIT_func_addsub_s16x2_6 1; mkUse FUNCUNIT_func_addsub_s16x2_7 1;
     mkUse FUNCUNIT_func_addsub_s32x2_slot0_0 1; mkUse FUNCUNIT_func_addsub_s32x2_slot0_1 1;
     mkUse FUNCUNIT_func_addsub_s32x2_slot0_2 1; mkUse FUNCUNIT_func_addsub_s32x2_slot0_3 1;
     mkUse FUNCUNIT_func_mul_s8xs8_0 1; mkUse FUNCUNIT_func_mul_s8xs8_1 1;
     mkUse FUNCUNIT_func_mul_s8xs8_2 1; mkUse FUNCUNIT_func_mul_s8xs8_3 1;
     mkUse FUNCUNIT_func_mul_s8xs8_4 1; mkUse FUNCUNIT_func_mul_s8xs8_5 1;
     mkUse FUNCUNIT_func_mul_s8xs8_6 1; mkUse FUNCUNIT_func_mul_s8xs8_7 1;
     mkUse FUNCUNIT_func_mul_s16xs16_0 1; mkUse FUNCUNIT_func_mul_s16xs16_1 1;
     mkUse FUNCUNIT_func_mul_s16xs16_2 1; mkUse FUNCUNIT_func_mul_s16xs16_3 1;
     mkUse FUNCUNIT_func_mul_s16xs16_4 1; mkUse FUNCUNIT_func_mul_s16xs16_5 1;
     mkUse FUNCUNIT_func_mul_s16xs16_6 1; mkUse FUNCUNIT_func_mul_s16xs16_7 1;
     mkUse FUNCUNIT_func_addsub_s32x2_slot1_extra 2; mkUse FUNCUNIT_func_addsub_s32x2_slot1_2 2;
     mkUse FUNCUNIT_func_addsub_s32x2_slot1_1 2; mkUse FUNCUNIT_func_addsub_s32x2_slot1_0 2;
     mkUse FUNCUNIT_func_addsub_s20x2_slot_end_0 2; mkUse FUNCUNIT_func_addsub_s20x2_slot_end_1 2;
     mkUse FUNCUNIT_func_addsub_s20x2_slot_end_2 2; mkUse FUNCUNIT_func_addsub_s20x2_slot_end_3 2;
     mkUse FUNCUNIT_func_addsub_s40x2_7 2; mkUse FUNCUNIT_func_addsub_s40x2_6 2;
     mkUse FUNCUNIT_func_addsub_s40x2_5 2; mkUse FUNCUNIT_func_addsub_s40x2_4 2;
     mkUse FUNCUNIT_func_addsub_s40x2_3 2; mkUse FUNCUNIT_func_addsub_s40x2_2 2;
     mkUse FUNCUNIT_func_addsub_s40x2_1 2; mkUse FUNCUNIT_func_addsub_s40x2_0 2;
     mkUse FUNCUNIT_func_shift_s16rs8_0 1; mkUse FUNCUNIT_func_shift_s16rs8_1 1;
     mkUse FUNCUNIT_func_shift_s16rs8_2 1; mkUse FUNCUNIT_func_shift_s16rs8_3 1;
     mkUse FUNCUNIT_func_shift_s16rs8_4 1; mkUse FUNCUNIT_func_shift_s16rs8_5 1;
     mkUse FUNCUNIT_func_shift_s16rs8_6 1; mkUse FUNCUNIT_func_shift_s16rs8_7 1;
     mkUse FUNCUNIT_func_shift_s16rs8_8 1; mkUse FUNCUNIT_func_shift_s16rs8_9 1;
     mkUse FUNCUNIT_func_shift_s16rs8_10 1; mkUse FUNCUNIT_func_shift_s16rs8_11 1;
     mkUse FUNCUNIT_func_shift_s16rs8_12 1; mkUse FUNCUNIT_func_shift_s16rs8_13 1;
     mkUse FUNCUNIT_func_shift_s16rs8_14 1; mkUse FUNCUNIT_func_shift_s16rs8_15 1;
     mkUse FUNCUNIT_func_shift_s32rs16_0 2; mkUse FUNCUNIT_func_shift_s32rs16_1 2;
     mkUse FUNCUNIT_func_shift_s32rs16_2 2; mkUse FUNCUNIT_func_shift_s32rs16_3 2;
     mkUse FUNCUNIT_func_shift_s32rs16_4 1; mkUse FUNCUNIT_func_shift_s32rs16_5 1;
     mkUse FUNCUNIT_func_shift_s32rs16_6 1; mkUse FUNCUNIT_func_shift_s32rs16_7 1])].

Definition s3_uses_100 : list (string * list xtensa_funcUnit_use) := [
  ("Opcode_ee_vmax_s32_funcUnit_uses", [mkUse FUNCUNIT_func_addsub_s32x2_slot1_3 1;
     mkUse FUNCUNIT_func_addsub_s8x2_0 1; mkUse FUNCUNIT_func_addsub_s8x2_1 1;
     mkUse FUNCUNIT_func_addsub_s8x2_2 1; mkUse FUNCUNIT_func_addsub_s8x2_3 1;
     mkUse FUNCUNIT_func_addsub_s8x2_4 1; mkUse FUNCUNIT_func_addsub_s8x2_5 1;
     mkUse FUNCUNIT_func_addsub_s8x2_6 1; mkUse FUNCUNIT_func_addsub_s8x2_7 1;
     mkUse FUNCUNIT_func_addsub_s16x2_0 1; mkUse FUNCUNIT_func_addsub_s16x2_1 1;
     mkUse FUNCUNIT_func_addsub_s16x2_2 1; mkUse FUNCUNIT_func_addsub_s16x2_3 1;
     mkUse FUNCUNIT_func_addsub_s16x2_4 1; mkUse FUNCUNIT_func_addsub_s16x2_5 1;
     mkUse FUNCUNIT_func_addsub_s16x2_6 1; mkUse FUNCUNIT_func_addsub_s16x2_7 1;
     mkUse FUNCUNIT_func_addsub_s32x2_slot0_0 1; mkUse FUNCUNIT_func_addsub_s32x2_slot0_1 1;
     mkUse FUNCUNIT_func_addsub_s32x2_slot0_2 1; mkUse FUNCUNIT_func_addsub_s32x2_slot0_3 1;
     mkUse FUNCUNIT_func_mul_s8xs8_0 1; mkUse FUNCUNIT_func_mul_s8xs8_1 1;
     mkUse FUNCUNIT_func_mul_s8xs8_2 1; mkUse FUNCUNIT_func_mul_s8xs8_3 1;
     mkUse FUNCUNIT_func_mul_s8xs8_4 1; mkUse FUNCUNIT_func_mul_s8xs8_5 1;
     mkUse FUNCUNIT_func_mul_s8xs8_6 1; mkUse FUNCUNIT_func_mul_s8xs8_7 1;
     mkUse FUNCUNIT_func_mul_s16xs16_0 1; mkUse FUNCUNIT_func_mul_s16xs16_1 1;
     mkUse FUNCUNIT_func_mul_s16xs16_2 1; mkUse FUNCUNIT_func_mul_s16xs16_3 1;
     mkUse FUNCUNIT_func_mul_s16xs16_4 1; mkUse FUNCUNIT_func_mul_s16xs16_5 1;
     mkUse FUNCUNIT_func_mul_s16xs16_6 1; mkUse FUNCUNIT_func_mul_s16xs16_7 1;
     mkUse FUNCUNIT_func_addsub_s32x2_slot1_extra 2; mkUse FUNCUNIT_func_addsub_s32x2_slot1_2 2;
     mkUse FUNCUNIT_func_addsub_s32x2_slot1_1 2; mkUse FUNCUNIT_func_addsub_s32x2_slot1_0 2;
     mkUse FUNCUNIT_func_addsub_s20x2_slot_end_0 2; mkUse FUNCUNIT_func_addsub_s20x2_slot_end_1 2;
     mkUse FUNCUNIT_func_addsub_s20x2_slot_end_2 2; mkUse FUNCUNIT_func_addsub_s20x2_slot_end_3 2;
     mkUse FUNCUNIT_func_addsub_s40x2_7 2; mkUse FUNCUNIT_func_addsub_s40x2_6 2;
     mkUse FUNCUNIT_func_addsub_s40x2_5 2; mkUse FUNCUNIT_func_addsub_s40x2_4 2;
     mkUse FUNCUNIT_func_addsub_s40x2_3 2; mkUse FUNCUNIT_func_addsub_s40x2_2 2;
     mkUse FUNCUNIT_func_addsub_s40x2_1 2; mkUse FUNCUNIT_func_addsub_s40x2_0 2;
     mkUse FUNCUNIT_func_shift_s16rs8_0 1; mkUse FUNCUNIT_func_shift_s16rs8_1 1;
     mkUse FUNCUNIT_func_shift_s16rs8_2 1; mkUse FUNCUNIT_func_shift_s16rs8_3 1;
     mkUse FUNCUNIT_func_shift_s16rs8_4 1; mkUse FUNCUNIT_func_shift_s16rs8_5 1;
     mkUse FUNCUNIT_func_shift_s16rs8_6 1; mkUse FUNCUNIT_func_shift_s16rs8_7 1;
     mkUse FUNCUNIT_func_shift_s16rs8_8 1; mkUse FUNCUNIT_func_shift_s16rs8_9 1;
     mkUse FUNCUNIT_func_shift_s16rs8_10 1; mkUse FUNCUNIT_func_shift_s16rs8_11 1;
     mkUse FUNCUNIT_func_shift_s16rs8_12 1; mkUse FUNCUNIT_func_shift_s16rs8_13 1;
     mkUse FUNCUNIT_func_shift_s16rs8_14 1; mkUse FUNCUNIT_func_shift_s16rs8_15 1;
     mkUse FUNCUNIT_func_shift_s32rs16_0 2; mkUse FUNCUNIT_func_shift_s32rs16_1 2;
     mkUse FUNCUNIT_func_shift_s32rs16_2 2; mkUse FUNCUNIT_func_shift_s32rs16_3 2;
     mkUse FUNCUNIT_func_shift_s32rs16_4 1; mkUse FUNCUNIT_func_shift_s32rs16_5 1;
     mkUse FUNCUNIT_func_shift_s32rs16_6 1; mkUse FUNCUNIT_func_shift_s32rs16_7 1])].

Definition s3_uses_101 : list (string * list xtensa_funcUnit_use) := [
  ("Opcode_ee_vmax_s8_ld_incp_funcUnit_uses", [mkUse FUNCUNIT_func_addsub_s32x2_slot1_3 1;
     mkUse FUNCUNIT_func_addsub_s8x2_0 1; mkUse FUNCUNIT_func_addsub_s8x2_1 1;
     mkUse FUNCUNIT_func_addsub_s8x2_2 1; mkUse FUNCUNIT_func_addsub_s8x2_3 1;
     mkUse FUNCUNIT_func_addsub_s8x2_4 1; mkUse FUNCUNIT_func_addsub_s8x2_5 1;
     mkUse FUNCUNIT_func_addsub_s8x2_6 1; mkUse FUNCUNIT_func_addsub_s8x2_7 1;
     mkUse FUNCUNIT_func_addsub_s16x2_0 1; mkUse FUNCUNIT_func_addsub_s16x2_1 1;
     mkUse FUNCUNIT_func_addsub_s16x2_2 1; mkUse FUNCUNIT_func_addsub_s16x2_3 1;
     mkUse FUNCUNIT_func_addsub_s16x2_4 1; mkUse FUNCUNIT_func_addsub_s16x2_5 1;
     mkUse FUNCUNIT_func_addsub_s16x2_6 1; mkUse FUNCUNIT_func_addsub_s16x2_7 1;
     mkUse FUNCUNIT_func_addsub_s32x2_slot0_0 1; mkUse FUNCUNIT_func_addsub_s32x2_slot0_1 1;
     mkUse FUNCUNIT_func_addsub_s32x2_slot0_2 1; mkUse FUNCUNIT_func_addsub_s32x2_slot0_3 1;
     mkUse FUNCUNIT_func_mul_s8xs8_0 1; mkUse FUNCUNIT_func_mul_s8xs8_1 1;
     mkUse FUNCUNIT_func_mul_s8xs8_2 1; mkUse FUNCUNIT_func_mul_s8xs8_3 1;
     mkUse FUNCUNIT_func_mul_s8xs8_4 1; mkUse FUNCUNIT_func_mul_s8xs8_5 1;
     mkUse FUNCUNIT_func_mul_s8xs8_6 1; mkUse FUNCUNIT_func_mul_s8xs8_7 1;
     mkUse FUNCUNIT_func_mul_s16xs16_0 1; mkUse FUNCUNIT_func_mul_s16xs16_1 1;
     mkUse FUNCUNIT_func_mul_s16xs16_2 1; mkUse FUNCUNIT_func_mul_s16xs16_3 1;
     mkUse FUNCUNIT_func_mul_s16xs16_4 1; mkUse FUNCUNIT_func_mul_s16xs16_5 1;
     mkUse FUNCUNIT_func_mul_s16xs16_6 1; mkUse FUNCUNIT_func_mul_s16xs16_7 1;
     mkUse FUNCUNIT_func_addsub_s32x2_slot1_extra 2; mkUse FUNCUNIT_func_addsub_s32x2_slot1_2 2;
     mkUse FUNCUNIT_func_addsub_s32x2_slot1_1 2; mkUse FUNCUNIT_func_addsub_s32x2_slot1_0 2;
     mkUse FUNCUNIT_func_addsub_s20x2_slot_end_0 2; mkUse FUNCUNIT_func_addsub_s20x2_slot_end_1 2;
     mkUse FUNCUNIT_func_addsub_s20x2_slot_end_2 2; mkUse FUNCUNIT_func_addsub_s20x2_slot_end_3 2;
     mkUse FUNCUNIT_func_addsub_s40x2_7 2; mkUse FUNCUNIT_func_addsub_s40x2_6 2;
     mkUse FUNCUNIT_func_addsub_s40x2_5 2; mkUse FUNCUNIT_func_addsub_s40x2_4 2;
     mkUse FUNCUNIT_func_addsub_s40x2_3 2; mkUse FUNCUNIT_func_addsub_s40x2_2 2;
     mkUse FUNCUNIT_func_addsub_s40x2_1 2; mkUse FUNCUNIT_func_addsub_s40x2_0 2;
     mkUse FUNCUNIT_func_shift_s16rs8_0 1; mkUse FUNCUNIT_func_shift_s16rs8_1 1;
     mkUse FUNCUNIT_func_shift_s16rs8_2 1; mkUse FUNCUNIT_func_shift_s16rs8_3 1;
     mkUse FUNCUNIT_func_shift_s16rs8_4 1; mkUse FUNCUNIT_func_shift_s16rs8_5 1;
     mkUse FUNCUNIT_func_shift_s16rs8_6 1; mkUse FUNCUNIT_func_shift_s16rs8_7 1;
     mkUse FUNCUNIT_func_shift_s16rs8_8 1; mkUse FUNCUNIT_func_shift_s16rs8_9 1;
     mkUse FUNCUNIT_func_shift_s16rs8_10 1; mkUse FUNCUNIT_func_shift_s16rs8_11 1;
     mkUse FUNCUNIT_func_shift_s16rs8_12 1; mkUse FUNCUNIT_func_shift_s16rs8_13 1;
     mkUse FUNCUNIT_func_shift_s16rs8_14 1; mkUse FUNCUNIT_func_shift_s16rs8_15 1;
     mkUse FUNCUNIT_func_shift_s32rs16_0 2; mkUse FUNCUNIT_func_shift_s32rs16_1 2;
     mkUse FUNCUNIT_func_shift_s32rs16_2 2; mkUse FUNCUNIT_func_shift_s32rs16_3 2;
     mkUse FUNCUNIT_func_shift_s32rs16_4 1; mkUse FUNCUNIT_func_shift_s32rs16_5 1;
     mkUse FUNCUNIT_func_shift_s32rs16_6 1; mkUse FUNCUNIT_func_shift_s32rs16_7 1])].

Definition s3_uses_102 : list (string * list xtensa_funcUnit_use) := [
  ("Opcode_ee_vmax_s8_st_incp_funcUnit_uses", [mkUse FUNCUNIT_func_addsub_s32x2_slot1_3 1;
     mkUse FUNCUNIT_func_addsub_s8x2_0 1; mkUse FUNCUNIT_func_addsub_s8x2_1 1;
     mkUse FUNCUNIT_func_addsub_s8x2_2 1; mkUse FUNCUNIT_func_addsub_s8x2_3 1;
     mkUse FUNCUNIT_func_addsub_s8x2_4 1; mkUse FUNCUNIT_func_addsub_s8x2_5 1;
     mkUse FUNCUNIT_func_addsub_s8x2_6 1; mkUse FUNCUNIT_func_addsub_s8x2_7 1;
     mkUse FUNCUNIT_func_addsub_s16x2_0 1; mkUse FUNCUNIT_func_addsub_s16x2_1 1;
     mkUse FUNCUNIT_func_addsub_s16x2_2 1; mkUse FUNCUNIT_func_addsub_s16x2_3 1;
     mkUse FUNCUNIT_func_addsub_s16x2_4 1; mkUse FUNCUNIT_func_addsub_s16x2_5 1;
     mkUse FUNCUNIT_func_addsub_s16x2_6 1; mkUse FUNCUNIT_func_addsub_s16x2_7 1;
     mkUse FUNCUNIT_func_addsub_s32x2_slot0_0 1; mkUse FUNCUNIT_func_addsub_s32x2_slot0_1 1;
     mkUse FUNCUNIT_func_addsub_s32x2_slot0_2 1; mkUse FUNCUNIT_func_addsub_s32x2_slot0_3 1;
     mkUse FUNCUNIT_func_mul_s8xs8_0 1; mkUse FUNCUNIT_func_mul_s8xs8_1 1;
     mkUse FUNCUNIT_func_mul_s8xs8_2 1; mkUse FUNCUNIT_func_mul_s8xs8_3 1;
     mkUse FUNCUNIT_func_mul_s8xs8_4 1; mkUse FUNCUNIT_func_mul_s8xs8_5 1;
     mkUse FUNCUNIT_func_mul_s8xs8_6 1; mkUse FUNCUNIT_func_mul_s8xs8_7 1;
     mkUse FUNCUNIT_func_mul_s16xs16_0 1; mkUse FUNCUNIT_func_mul_s16xs16_1 1;
     mkUse FUNCUNIT_func_mul_s16xs16_2 1; mkUse FUNCUNIT_func_mul_s16xs16_3 1;
     mkUse FUNCUNIT_func_mul_s16xs16_4 1; mkUse FUNCUNIT_func_mul_s16xs16_5 1;
     mkUse FUNCUNIT_func_mul_s16xs16_6 1; mkUse FUNCUNIT_func_mul_s16xs16_7 1;
     mkUse FUNCUNIT_func_addsub_s32x2_slot1_extra 2; mkUse FUNCUNIT_func_addsub_s32x2_slot1_2 2;
     mkUse FUNCUNIT_func_addsub_s32x2_slot1_1 2; mkUse FUNCUNIT_func_addsub_s32x2_slot1_0 2;
     mkUse FUNCUNIT_func_addsub_s20x2_slot_end_0 2; mkUse FUNCUNIT_func_addsub_s20x2_slot_end_1 2;
     mkUse FUNCUNIT_func_addsub_s20x2_slot_end_2 2; mkUse FUNCUNIT_func_addsub_s20x2_slot_end_3 2;
     mkUse FUNCUNIT_func_addsub_s40x2_7 2; mkUse FUNCUNIT_func_addsub_s40x2_6 2;
     mkUse FUNCUNIT_func_addsub_s40x2_5 2; mkUse FUNCUNIT_func_addsub_s40x2_4 2;
     mkUse FUNCUNIT_func_addsub_s40x2_3 2; mkUse FUNCUNIT_func_addsub_s40x2_2 2;
     mkUse FUNCUNIT_func_addsub_s40x2_1 2; mkUse FUNCUNIT_func_addsub_s40x2_0 2;
     mkUse FUNCUNIT_func_shift_s16rs8_0 1; mkUse FUNCUNIT_func_shift_s16rs8_1 1;
     mkUse FUNCUNIT_func_shift_s16rs8_2 1; mkUse FUNCUNIT_func_shift_s16rs8_3 1;
     mkUse FUNCUNIT_func_shift_s16rs8_4 1; mkUse FUNCUNIT_func_shift_s16rs8_5 1;
     mkUse FUNCUNIT_func_shift_s16rs8_6 1; mkUse FUNCUNIT_func_shift_s16rs8_7 1;
     mkUse FUNCUNIT_func_shift_s16rs8_8 1; mkUse FUNCUNIT_func_shift_s16rs8_9 1;
     mkUse FUNCUNIT_func_shift_s16rs8_10 1; mkUse FUNCUNIT_func_shift_s16rs8_11 1;
     mkUse FUNCUNIT_func_shift_s16rs8_12 1; mkUse FUNCUNIT_func_shift_s16rs8_13 1;
     mkUse FUNCUNIT_func_shift_s16rs8_14 1; mkUse FUNCUNIT_func_shift_s16rs8_15 1;
     mkUse FUNCUNIT_func_shift_s32rs16_0 2; mkUse FUNCUNIT_func_shift_s32rs16_1 2;
     mkUse FUNCUNIT_func_shift_s32rs16_2 2; mkUse FUNCUNIT_func_shift_s32rs16_3 2;
     mkUse FUNCUNIT_func_shift_s32rs16_4 1; mkUse FUNCUNIT_func_shift_s32rs16_5 1;
     mkUse FUNCUNIT_func_shift_s32rs16_6 1; mkUse FUNCUNIT_func_shift_s32rs16_7 1])].

Definition s3_uses_103 : list (string * list xtensa_funcUnit_use) := [
  ("Opcode_ee_vmax_s8_funcUnit_uses", [mkUse FUNCUNIT_func_addsub_s32x2_slot1_3 1;
     mkUse FUNCUNIT_func_addsub_s8x2_0 1; mkUse FUNCUNIT_func_addsub_s8x2_1 1;
     mkUse FUNCUNIT_func_addsub_s8x2_2 1; mkUse FUNCUNIT_func_addsub_s8x2_3 1;
     mkUse FUNCUNIT_func_addsub_s8x2_4 1; mkUse FUNCUNIT_func_addsub_s8x2_5 1;
     mkUse FUNCUNIT_func_addsub_s8x2_6 1; mkUse FUNCUNIT_func_addsub_s8x2_7 1;
     mkUse FUNCUNIT_func_addsub_s16x2_0 1; mkUse FUNCUNIT_func_addsub_s16x2_1 1;
     mkUse FUNCUNIT_func_addsub_s16x2_2 1; mkUse FUNCUNIT_func_addsub_s16x2_3 1;
     mkUse FUNCUNIT_func_addsub_s16x2_4 1; mkUse FUNCUNIT_func_addsub_s16x2_5 1;
     mkUse FUNCUNIT_func_addsub_s16x2_6 1; mkUse FUNCUNIT_func_addsub_s16x2_7 1;
     mkUse FUNCUNIT_func_addsub_s32x2_slot0_0 1; mkUse FUNCUNIT_func_addsub_s32x2_slot0_1 1;
     mkUse FUNCUNIT_func_addsub_s32x2_slot0_2 1; mkUse FUNCUNIT_func_addsub_s32x2_slot0_3 1;
     mkUse FUNCUNIT_func_mul_s8xs8_0 1; mkUse FUNCUNIT_func_mul_s8xs8_1 1;
     mkUse FUNCUNIT_func_mul_s8xs8_2 1; mkUse FUNCUNIT_func_mul_s8xs8_3 1;
     mkUse FUNCUNIT_func_mul_s8xs8_4 1; mkUse FUNCUNIT_func_mul_s8xs8_5 1;
     mkUse FUNCUNIT_func_mul_s8xs8_6 1; mkUse FUNCUNIT_func_mul_s8xs8_7 1;
     mkUse FUNCUNIT_func_mul_s16xs16_0 1; mkUse FUNCUNIT_func_mul_s16xs16_1 1;
     mkUse FUNCUNIT_func_mul_s16xs16_2 1; mkUse FUNCUNIT_func_mul_s16xs16_3 1;
     mkUse FUNCUNIT_func_mul_s16xs16_4 1; mkUse FUNCUNIT_func_mul_s16xs16_5 1;
     mkUse FUNCUNIT_func_mul_s16xs16_6 1; mkUse FUNCUNIT_func_mul_s16xs16_7 1;
     mkUse FUNCUNIT_func_addsub_s32x2_slot1_extra 2; mkUse FUNCUNIT_func_addsub_s32x2_slot1_2 2;
     mkUse FUNCUNIT_func_addsub_s32x2_slot1_1 2; mkUse FUNCUNIT_func_addsub_s32x2_slot1_0 2;
     mkUse FUNCUNIT_func_addsub_s20x2_slot_end_0 2; mkUse FUNCUNIT_func_addsub_s20x2_slot_end_1 2;
     mkUse FUNCUNIT_func_addsub_s20x2_slot_end_2 2; mkUse FUNCUNIT_func_addsub_s20x2_slot_end_3 2;
     mkUse FUNCUNIT_func_addsub_s40x2_7 2; mkUse FUNCUNIT_func_addsub_s40x2_6 2;
     mkUse FUNCUNIT_func_addsub_s40x2_5 2; mkUse FUNCUNIT_func_addsub_s40x2_4 2;
     mkUse FUNCUNIT_func_addsub_s40x2_3 2; mkUse FUNCUNIT_func_addsub_s40x2_2 2;
     mkUse FUNCUNIT_func_addsub_s40x2_1 2; mkUse FUNCUNIT_func_addsub_s40x2_0 2;
     mkUse FUNCUNIT_func_shift_s16rs8_0 1; mkUse FUNCUNIT_func_shift_s16rs8_1 1;
     mkUse FUNCUNIT_func_shift_s16rs8_2 1; mkUse FUNCUNIT_func_shift_s16rs8_3 1;
     mkUse FUNCUNIT_func_shift_s16rs8_4 1; mkUse FUNCUNIT_func_shift_s16rs8_5 1;
     mkUse FUNCUNIT_func_shift_s16rs8_6 1; mkUse FUNCUNIT_func_shift_s16rs8_7 1;
     mkUse FUNCUNIT_func_shift_s16rs8_8 1; mkUse FUNCUNIT_func_shift_s16rs8_9 1;
     mkUse FUNCUNIT_func_shift_s16rs8_10 1; mkUse FUNCUNIT_func_shift_s16rs8_11 1;
     mkUse FUNCUNIT_func_shift_s16rs8_12 1; mkUse FUNCUNIT_func_shift_s16rs8_13 1;
     mkUse FUNCUNIT_func_shift_s16rs8_14 1; mkUse FUNCUNIT_func_shift_s16rs8_15 1;
     mkUse FUNCUNIT_func_shift_s32rs16_0 2; mkUse FUNCUNIT_func_shift_s32rs16_1 2;
     mkUse FUNCUNIT_func_shift_s32rs16_2 2; mkUse FUNCUNIT_func_shift_s32rs16_3 2;
     mkUse FUNCUNIT_func_shift_s32rs16_4 1; mkUse FUNCUNIT_func_shift_s32rs16_5 1;
     mkUse FUNCUNIT_func_shift_s32rs16_6 1; mkUse FUNCUNIT_func_shift_s32rs16_7 1])].

Definition s3_uses_104 : list (string * list xtensa_funcUnit_use) := [
  ("Opcode_ee_vmin_s16_ld_incp_funcUnit_uses", [mkUse FUNCUNIT_func_addsub_s32x2_slot1_3 1;
     mkUse FUNCUNIT_func_addsub_s8x2_0 1; mkUse FUNCUNIT_func_addsub_s8x2_1 1;
     mkUse FUNCUNIT_func_addsub_s8x2_2 1; mkUse FUNCUNIT_func_addsub_s8x2_3 1;
     mkUse FUNCUNIT_func_addsub_s8x2_4 1; mkUse FUNCUNIT_func_addsub_s8x2_5 1;
     mkUse FUNCUNIT_func_addsub_s8x2_6 1; mkUse FUNCUNIT_func_addsub_s8x2_7 1;
     mkUse FUNCUNIT_func_addsub_s16x2_0 1; mkUse FUNCUNIT_func_addsub_s16x2_1 1;
     mkUse FUNCUNIT_func_addsub_s16x2_2 1; mkUse FUNCUNIT_func_addsub_s16x2_3 1;
     mkUse FUNCUNIT_func_addsub_s16x2_4 1; mkUse FUNCUNIT_func_addsub_s16x2_5 1;
     mkUse FUNCUNIT_func_addsub_s16x2_6 1; mkUse FUNCUNIT_func_addsub_s16x2_7 1;
     mkUse FUNCUNIT_func_addsub_s32x2_slot0_0 1; mkUse FUNCUNIT_func_addsub_s32x2_slot0_1 1;
     mkUse FUNCUNIT_func_addsub_s32x2_slot0_2 1; mkUse FUNCUNIT_func_addsub_s32x2_slot0_3 1;
     mkUse FUNCUNIT_func_mul_s8xs8_0 1; mkUse FUNCUNIT_func_mul_s8xs8_1 1;
     mkUse FUNCUNIT_func_mul_s8xs8_2 1; mkUse FUNCUNIT_func_mul_s8xs8_3 1;
     mkUse FUNCUNIT_func_mul_s8xs8_4 1; mkUse FUNCUNIT_func_mul_s8xs8_5 1;
     mkUse FUNCUNIT_func_mul_s8xs8_6 1; mkUse FUNCUNIT_func_mul_s8xs8_7 1;
     mkUse FUNCUNIT_func_mul_s16xs16_0 1; mkUse FUNCUNIT_func_mul_s16xs16_1 1;
     mkUse FUNCUNIT_func_mul_s16xs16_2 1; mkUse FUNCUNIT_func_mul_s16xs16_3 1;
     mkUse FUNCUNIT_func_mul_s16xs16_4 1; mkUse FUNCUNIT_func_mul_s16xs16_5 1;
     mkUse FUNCUNIT_func_mul_s16xs16_6 1; mkUse FUNCUNIT_func_mul_s16xs16_7 1;
     mkUse FUNCUNIT_func_addsub_s32x2_slot1_extra 2; mkUse FUNCUNIT_func_addsub_s32x2_slot1_2 2;
     mkUse FUNCUNIT_func_addsub_s32x2_slot1_1 2; mkUse FUNCUNIT_func_addsub_s32x2_slot1_0 2;
     mkUse FUNCUNIT_func_addsub_s20x2_slot_end_0 2; mkUse FUNCUNIT_func_addsub_s20x2_slot_end_1 2;
     mkUse FUNCUNIT_func_addsub_s20x2_slot_end_2 2; mkUse FUNCUNIT_func_addsub_s20x2_slot_end_3 2;
     mkUse FUNCUNIT_func_addsub_s40x2_7 2; mkUse FUNCUNIT_func_addsub_s40x2_6 2;
     mkUse FUNCUNIT_func_addsub_s40x2_5 2; mkUse FUNCUNIT_func_addsub_s40x2_4 2;
     mkUse FUNCUNIT_func_addsub_s40x2_3 2; mkUse FUNCUNIT_func_addsub_s40x2_2 2;
     mkUse FUNCUNIT_func_addsub_s40x2_1 2; mkUse FUNCUNIT_func_addsub_s40x2_0 2;
     mkUse FUNCUNIT_func_shift_s16rs8_0 1; mkUse FUNCUNIT_func_shift_s16rs8_1 1;
     mkUse FUNCUNIT_func_shift_s16rs8_2 1; mkUse FUNCUNIT_func_shift_s16rs8_3 1;
     mkUse FUNCUNIT_func_shift_s16rs8_4 1; mkUse FUNCUNIT_func_shift_s16rs8_5 1;
     mkUse FUNCUNIT_func_shift_s16rs8_6 1; mkUse FUNCUNIT_func_shift_s16rs8_7 1;
     mkUse FUNCUNIT_func_shift_s16rs8_8 1; mkUse FUNCUNIT_func_shift_s16rs8_9 1;
     mkUse FUNCUNIT_func_shift_s16rs8_10 1; mkUse FUNCUNIT_func_shift_s16rs8_11 1;
     mkUse FUNCUNIT_func_shift_s16rs8_12 1; mkUse FUNCUNIT_func_shift_s16rs8_13 1;
     mkUse FUNCUNIT_func_shift_s16rs8_14 1; mkUse FUNCUNIT_func_shift_s16rs8_15 1;
     mkUse FUNCUNIT_func_shift_s32rs16_0 2; mkUse FUNCUNIT_func_shift_s32rs16_1 2;
     mkUse FUNCUNIT_func_shift_s32rs16_2 2; mkUse FUNCUNIT_func_shift_s32rs16_3 2;
     mkUse FUNCUNIT_func_shift_s32rs16_4 1; mkUse FUNCUNIT_func_shift_s32rs16_5 1;
     mkUse FUNCUNIT_func_shift_s32rs16_6 1; mkUse FUNCUNIT_func_shift_s32rs16_7 1])].

Definition s3_uses_105 : list (string * list xtensa_funcUnit_use) := [
  ("Opcode_ee_vmin_s16_st_incp_funcUnit_uses", [mkUse FUNCUNIT_func_addsub_s32x2_slot1_3 1;
     mkUse FUNCUNIT_func_addsub_s8x2_0 1; mkUse FUNCUNIT_func_addsub_s8x2_1 1;
     mkUse FUNCUNIT_func_addsub_s8x2_2 1; mkUse FUNCUNIT_func_addsub_s8x2_3 1;
     mkUse FUNCUNIT_func_addsub_s8x2_4 1; mkUse FUNCUNIT_func_addsub_s8x2_5 1;
     mkUse FUNCUNIT_func_addsub_s8x2_6 1; mkUse FUNCUNIT_func_addsub_s8x2_7 1;
     mkUse FUNCUNIT_func_addsub_s16x2_0 1; mkUse FUNCUNIT_func_addsub_s16x2_1 1;
     mkUse FUNCUNIT_func_addsub_s16x2_2 1; mkUse FUNCUNIT_func_addsub_s16x2_3 1;
     mkUse FUNCUNIT_func_addsub_s16x2_4 1; mkUse FUNCUNIT_func_addsub_s16x2_5 1;
     mkUse FUNCUNIT_func_addsub_s16x2_6 1; mkUse FUNCUNIT_func_addsub_s16x2_7 1;
     mkUse FUNCUNIT_func_addsub_s32x2_slot0_0 1; mkUse FUNCUNIT_func_addsub_s32x2_slot0_1 1;
     mkUse FUNCUNIT_func_addsub_s32x2_slot0_2 1; mkUse FUNCUNIT_func_addsub_s32x2_slot0_3 1;
     mkUse FUNCUNIT_func_mul_s8xs8_0 1; mkUse FUNCUNIT_func_mul_s8xs8_1 1;
     mkUse FUNCUNIT_func_mul_s8xs8_2 1; mkUse FUNCUNIT_func_mul_s8xs8_3 1;
     mkUse FUNCUNIT_func_mul_s8xs8_4 1; mkUse FUNCUNIT_func_mul_s8xs8_5 1;
     mkUse FUNCUNIT_func_mul_s8xs8_6 1; mkUse FUNCUNIT_func_mul_s8xs8_7 1;
     mkUse FUNCUNIT_func_mul_s16xs16_0 1; mkUse FUNCUNIT_func_mul_s16xs16_1 1;
     mkUse FUNCUNIT_func_mul_s16xs16_2 1; mkUse FUNCUNIT_func_mul_s16xs16_3 1;
     mkUse FUNCUNIT_func_mul_s16xs16_4 1; mkUse FUNCUNIT_func_mul_s16xs16_5 1;
     mkUse FUNCUNIT_func_mul_s16xs16_6 1; mkUse FUNCUNIT_func_mul_s16xs16_7 1;
     mkUse FUNCUNIT_func_addsub_s32x2_slot1_extra 2; mkUse FUNCUNIT_func_addsub_s32x2_slot1_2 2;
     mkUse FUNCUNIT_func_addsub_s32x2_slot1_1 2; mkUse FUNCUNIT_func_addsub_s32x2_slot1_0 2;
     mkUse FUNCUNIT_func_addsub_s20x2_slot_end_0 2; mkUse FUNCUNIT_func_addsub_s20x2_slot_end_1 2;
     mkUse FUNCUNIT_func_addsub_s20x2_slot_end_2 2; mkUse FUNCUNIT_func_addsub_s20x2_slot_end_3 2;
     mkUse FUNCUNIT_func_addsub_s40x2_7 2; mkUse FUNCUNIT_func_addsub_s40x2_6 2;
     mkUse FUNCUNIT_func_addsub_s40x2_5 2; mkUse FUNCUNIT_func_addsub_s40x2_4 2;
     mkUse FUNCUNIT_func_addsub_s40x2_3 2; mkUse FUNCUNIT_func_addsub_s40x2_2 2;
     mkUse FUNCUNIT_func_addsub_s40x2_1 2; mkUse FUNCUNIT_func_addsub_s40x2_0 2;
     mkUse FUNCUNIT_func_shift_s16rs8_0 1; mkUse FUNCUNIT_func_shift_s16rs8_1 1;
     mkUse FUNCUNIT_func_shift_s16rs8_2 1; mkUse FUNCUNIT_func_shift_s16rs8_3 1;
     mkUse FUNCUNIT_func_shift_s16rs8_4 1; mkUse FUNCUNIT_func_shift_s16rs8_5 1;
     mkUse FUNCUNIT_func_shift_s16rs8_6 1; mkUse FUNCUNIT_func_shift_s16rs8_7 1;
     mkUse FUNCUNIT_func_shift_s16rs8_8 1; mkUse FUNCUNIT_func_shift_s16rs8_9 1;
     mkUse FUNCUNIT_func_shift_s16rs8_10 1; mkUse FUNCUNIT_func_shift_s16rs8_11 1;
     mkUse FUNCUNIT_func_shift_s16rs8_12 1; mkUse FUNCUNIT_func_shift_s16rs8_13 1;
     mkUse FUNCUNIT_func_shift_s16rs8_14 1; mkUse FUNCUNIT_func_shift_s16rs8_15 1;
     mkUse FUNCUNIT_func_shift_s32rs16_0 2; mkUse FUNCUNIT_func_shift_s32rs16_1 2;
     mkUse FUNCUNIT_func_shift_s32rs16_2 2; mkUse FUNCUNIT_func_shift_s32rs16_3 2;
     mkUse FUNCUNIT_func_shift_s32rs16_4 1; mkUse FUNCUNIT_func_shift_s32rs16_5 1;
     mkUse FUNCUNIT_func_shift_s32rs16_6 1; mkUse FUNCUNIT_func_shift_s32rs16_7 1])].

Definition s3_uses_106 : list (string * list xtensa_funcUnit_use) := [
  ("Opcode_ee_vmin_s16_funcUnit_uses", [mkUse FUNCUNIT_func_addsub_s32x2_slot1_3 1;
     mkUse FUNCUNIT_func_addsub_s8x2_0 1; mkUse FUNCUNIT_func_addsub_s8x2_1 1;
     mkUse FUNCUNIT_func_addsub_s8x2_2 1; mkUse FUNCUNIT_func_addsub_s8x2_3 1;
     mkUse FUNCUNIT_func_addsub_s8x2_4 1; mkUse FUNCUNIT_func_addsub_s8x2_5 1;
     mkUse FUNCUNIT_func_addsub_s8x2_6 1; mkUse FUNCUNIT_func_addsub_s8x2_7 1;
     mkUse FUNCUNIT_func_addsub_s16x2_0 1; mkUse FUNCUNIT_func_addsub_s16x2_1 1;
     mkUse FUNCUNIT_func_addsub_s16x2_2 1; mkUse FUNCUNIT_func_addsub_s16x2_3 1;
     mkUse FUNCUNIT_func_addsub_s16x2_4 1; mkUse FUNCUNIT_func_addsub_s16x2_5 1;
     mkUse FUNCUNIT_func_addsub_s16x2_6 1; mkUse FUNCUNIT_func_addsub_s16x2_7 1;
     mkUse FUNCUNIT_func_addsub_s32x2_slot0_0 1; mkUse FUNCUNIT_func_addsub_s32x2_slot0_1 1;
     mkUse FUNCUNIT_func_addsub_s32x2_slot0_2 1; mkUse FUNCUNIT_func_addsub_s32x2_slot0_3 1;
     mkUse FUNCUNIT_func_mul_s8xs8_0 1; mkUse FUNCUNIT_func_mul_s8xs8_1 1;
     mkUse FUNCUNIT_func_mul_s8xs8_2 1; mkUse FUNCUNIT_func_mul_s8xs8_3 1;
     mkUse FUNCUNIT_func_mul_s8xs8_4 1; mkUse FUNCUNIT_func_mul_s8xs8_5 1;
     mkUse FUNCUNIT_func_mul_s8xs8_6 1; mkUse FUNCUNIT_func_mul_s8xs8_7 1;
     mkUse FUNCUNIT_func_mul_s16xs16_0 1; mkUse FUNCUNIT_func_mul_s16xs16_1 1;
     mkUse FUNCUNIT_func_mul_s16xs16_2 1; mkUse FUNCUNIT_func_mul_s16xs16_3 1;
     mkUse FUNCUNIT_func_mul_s16xs16_4 1; mkUse FUNCUNIT_func_mul_s16xs16_5 1;
     mkUse FUNCUNIT_func_mul_s16xs16_6 1; mkUse FUNCUNIT_func_mul_s16xs16_7 1;
     mkUse FUNCUNIT_func_addsub_s32x2_slot1_extra 2; mkUse FUNCUNIT_func_addsub_s32x2_slot1_2 2;
     mkUse FUNCUNIT_func_addsub_s32x2_slot1_1 2; mkUse FUNCUNIT_func_addsub_s32x2_slot1_0 2;
     mkUse FUNCUNIT_func_addsub_s20x2_slot_end_0 2; mkUse FUNCUNIT_func_addsub_s20x2_slot_end_1 2;
     mkUse FUNCUNIT_func_addsub_s20x2_slot_end_2 2; mkUse FUNCUNIT_func_addsub_s20x2_slot_end_3 2;
     mkUse FUNCUNIT_func_addsub_s40x2_7 2; mkUse FUNCUNIT_func_addsub_s40x2_6 2;
     mkUse FUNCUNIT_func_addsub_s40x2_5 2; mkUse FUNCUNIT_func_addsub_s40x2_4 2;
     mkUse FUNCUNIT_func_addsub_s40x2_3 2; mkUse FUNCUNIT_func_addsub_s40x2_2 2;
     mkUse FUNCUNIT_func_addsub_s40x2_1 2; mkUse FUNCUNIT_func_addsub_s40x2_0 2;
     mkUse FUNCUNIT_func_shift_s16rs8_0 1; mkUse FUNCUNIT_func_shift_s16rs8_1 1;
     mkUse FUNCUNIT_func_shift_s16rs8_2 1; mkUse FUNCUNIT_func_shift_s16rs8_3 1;
     mkUse FUNCUNIT_func_shift_s16rs8_4 1; mkUse FUNCUNIT_func_shift_s16rs8_5 1;
     mkUse FUNCUNIT_func_shift_s16rs8_6 1; mkUse FUNCUNIT_func_shift_s16rs8_7 1;
     mkUse FUNCUNIT_func_shift_s16rs8_8 1; mkUse FUNCUNIT_func_shift_s16rs8_9 1;
     mkUse FUNCUNIT_func_shift_s16rs8_10 1; mkUse FUNCUNIT_func_shift_s16rs8_11 1;
     mkUse FUNCUNIT_func_shift_s16rs8_12 1; mkUse FUNCUNIT_func_shift_s16rs8_13 1;
     mkUse FUNCUNIT_func_shift_s16rs8_14 1; mkUse FUNCUNIT_func_shift_s16rs8_15 1;
     mkUse FUNCUNIT_func_shift_s32rs16_0 2; mkUse FUNCUNIT_func_shift_s32rs16_1 2;
     mkUse FUNCUNIT_func_shift_s32rs16_2 2; mkUse FUNCUNIT_func_shift_s32rs16_3 2;
     mkUse FUNCUNIT_func_shift_s32rs16_4 1; mkUse FUNCUNIT_func_shift_s32rs16_5 1;
     mkUse FUNCUNIT_func_shift_s32rs16_6 1; mkUse FUNCUNIT_func_shift_s32rs16_7 1])].

Definition s3_uses_107 : list (string * list xtensa_funcUnit_use) := [
  ("Opcode_ee_vmin_s32_ld_incp_funcUnit_uses", [mkUse FUNCUNIT_func_addsub_s32x2_slot1_3 1;
     mkUse FUNCUNIT_func_addsub_s8x2_0 1; mkUse FUNCUNIT_func_addsub_s8x2_1 1;
     mkUse FUNCUNIT_func_addsub_s8x2_2 1; mkUse FUNCUNIT_func_addsub_s8x2_3 1;
     mkUse FUNCUNIT_func_addsub_s8x2_4 1; mkUse FUNCUNIT_func_addsub_s8x2_5 1;
     mkUse FUNCUNIT_func_addsub_s8x2_6 1; mkUse FUNCUNIT_func_addsub_s8x2_7 1;
     mkUse FUNCUNIT_func_addsub_s16x2_0 1; mkUse FUNCUNIT_func_addsub_s16x2_1 1;
     mkUse FUNCUNIT_func_addsub_s16x2_2 1; mkUse FUNCUNIT_func_addsub_s16x2_3 1;
     mkUse FUNCUNIT_func_addsub_s16x2_4 1; mkUse FUNCUNIT_func_addsub_s16x2_5 1;
     mkUse FUNCUNIT_func_addsub_s16x2_6 1; mkUse FUNCUNIT_func_addsub_s16x2_7 1;
     mkUse FUNCUNIT_func_addsub_s32x2_slot0_0 1; mkUse FUNCUNIT_func_addsub_s32x2_slot0_1 1;
     mkUse FUNCUNIT_func_addsub_s32x2_slot0_2 1; mkUse FUNCUNIT_func_addsub_s32x2_slot0_3 1;
     mkUse FUNCUNIT_func_mul_s8xs8_0 1; mkUse FUNCUNIT_func_mul_s8xs8_1 1;
     mkUse FUNCUNIT_func_mul_s8xs8_2 1; mkUse FUNCUNIT_func_mul_s8xs8_3 1;
     mkUse FUNCUNIT_func_mul_s8xs8_4 1; mkUse FUNCUNIT_func_mul_s8xs8_5 1;
     mkUse FUNCUNIT_func_mul_s8xs8_6 1; mkUse FUNCUNIT_func_mul_s8xs8_7 1;
     mkUse FUNCUNIT_func_mul_s16xs16_0 1; mkUse FUNCUNIT_func_mul_s16xs16_1 1;
     mkUse FUNCUNIT_func_mul_s16xs16_2 1; mkUse FUNCUNIT_func_mul_s16xs16_3 1;
     mkUse FUNCUNIT_func_mul_s16xs16_4 1; mkUse FUNCUNIT_func_mul_s16xs16_5 1;
     mkUse FUNCUNIT_func_mul_s16xs16_6 1; mkUse FUNCUNIT_func_mul_s16xs16_7 1;
     mkUse FUNCUNIT_func_addsub_s32x2_slot1_extra 2; mkUse FUNCUNIT_func_addsub_s32x2_slot1_2 2;
     mkUse FUNCUNIT_func_addsub_s32x2_slot1_1 2; mkUse FUNCUNIT_func_addsub_s32x2_slot1_0 2;
     mkUse FUNCUNIT_func_addsub_s20x2_slot_end_0 2; mkUse FUNCUNIT_func_addsub_s20x2_slot_end_1 2;
     mkUse FUNCUNIT_func_addsub_s20x2_slot_end_2 2; mkUse FUNCUNIT_func_addsub_s20x2_slot_end_3 2;
     mkUse FUNCUNIT_func_addsub_s40x2_7 2; mkUse FUNCUNIT_func_addsub_s40x2_6 2;
     mkUse FUNCUNIT_func_addsub_s40x2_5 2; mkUse FUNCUNIT_func_addsub_s40x2_4 2;
     mkUse FUNCUNIT_func_addsub_s40x2_3 2; mkUse FUNCUNIT_func_addsub_s40x2_2 2;
     mkUse FUNCUNIT_func_addsub_s40x2_1 2; mkUse FUNCUNIT_func_addsub_s40x2_0 2;
     mkUse FUNCUNIT_func_shift_s16rs8_0 1; mkUse FUNCUNIT_func_shift_s16rs8_1 1;
     mkUse FUNCUNIT_func_shift_s16rs8_2 1; mkUse FUNCUNIT_func_shift_s16rs8_3 1;
     mkUse FUNCUNIT_func_shift_s16rs8_4 1; mkUse FUNCUNIT_func_shift_s16rs8_5 1;
     mkUse FUNCUNIT_func_shift_s16rs8_6 1; mkUse FUNCUNIT_func_shift_s16rs8_7 1;
     mkUse FUNCUNIT_func_shift_s16rs8_8 1; mkUse FUNCUNIT_func_shift_s16rs8_9 1;
     mkUse FUNCUNIT_func_shift_s16rs8_10 1; mkUse FUNCUNIT_func_shift_s16rs8_11 1;
     mkUse FUNCUNIT_func_shift_s16rs8_12 1; mkUse FUNCUNIT_func_shift_s16rs8_13 1;
     mkUse FUNCUNIT_func_shift_s16rs8_14 1; mkUse FUNCUNIT_func_shift_s16rs8_15 1;
     mkUse FUNCUNIT_func_shift_s32rs16_0 2; mkUse FUNCUNIT_func_shift_s32rs16_1 2;
     mkUse FUNCUNIT_func_shift_s32rs16_2 2; mkUse FUNCUNIT_func_shift_s32rs16_3 2;
     mkUse FUNCUNIT_func_shift_s32rs16_4 1; mkUse FUNCUNIT_func_shift_s32rs16_5 1;
     mkUse FUNCUNIT_func_shift_s32rs16_6 1; mkUse FUNCUNIT_func_shift_s32rs16_7 1])].

Definition s3_uses_108 : list (string * list xtensa_funcUnit_use) := [
  ("Opcode_ee_vmin_s32_st_incp_funcUnit_uses", [mkUse FUNCUNIT_func_addsub_s32x2_slot1_3 1;
     mkUse FUNCUNIT_func_addsub_s8x2_0 1; mkUse FUNCUNIT_func_addsub_s8x2_1 1;
     mkUse FUNCUNIT_func_addsub_s8x2_2 1; mkUse FUNCUNIT_func_addsub_s8x2_3 1;
     mkUse FUNCUNIT_func_addsub_s8x2_4 1; mkUse FUNCUNIT_func_addsub_s8x2_5 1;
     mkUse FUNCUNIT_func_addsub_s8x2_6 1; mkUse FUNCUNIT_func_addsub_s8x2_7 1;
     mkUse FUNCUNIT_func_addsub_s16x2_0 1; mkUse FUNCUNIT_func_addsub_s16x2_1 1;
     mkUse FUNCUNIT_func_addsub_s16x2_2 1; mkUse FUNCUNIT_func_addsub_s16x2_3 1;
     mkUse FUNCUNIT_func_addsub_s16x2_4 1; mkUse FUNCUNIT_func_addsub_s16x2_5 1;
     mkUse FUNCUNIT_func_addsub_s16x2_6 1; mkUse FUNCUNIT_func_addsub_s16x2_7 1;
     mkUse FUNCUNIT_func_addsub_s32x2_slot0_0 1; mkUse FUNCUNIT_func_addsub_s32x2_slot0_1 1;
     mkUse FUNCUNIT_func_addsub_s32x2_slot0_2 1; mkUse FUNCUNIT_func_addsub_s32x2_slot0_3 1;
     mkUse FUNCUNIT_func_mul_s8xs8_0 1; mkUse FUNCUNIT_func_mul_s8xs8_1 1;
     mkUse FUNCUNIT_func_mul_s8xs8_2 1; mkUse FUNCUNIT_func_mul_s8xs8_3 1;
     mkUse FUNCUNIT_func_mul_s8xs8_4 1; mkUse FUNCUNIT_func_mul_s8xs8_5 1;
     mkUse FUNCUNIT_func_mul_s8xs8_6 1; mkUse FUNCUNIT_func_mul_s8xs8_7 1;
     mkUse FUNCUNIT_func_mul_s16xs16_0 1; mkUse FUNCUNIT_func_mul_s16xs16_1 1;
     mkUse FUNCUNIT_func_mul_s16xs16_2 1; mkUse FUNCUNIT_func_mul_s16xs16_3 1;
     mkUse FUNCUNIT_func_mul_s16xs16_4 1; mkUse FUNCUNIT_func_mul_s16xs16_5 1;
     mkUse FUNCUNIT_func_mul_s16xs16_6 1; mkUse FUNCUNIT_func_mul_s16xs16_7 1;
     mkUse FUNCUNIT_func_addsub_s32x2_slot1_extra 2; mkUse FUNCUNIT_func_addsub_s32x2_slot1_2 2;
     mkUse FUNCUNIT_func_addsub_s32x2_slot1_1 2; mkUse FUNCUNIT_func_addsub_s32x2_slot1_0 2;
     mkUse FUNCUNIT_func_addsub_s20x2_slot_end_0 2; mkUse FUNCUNIT_func_addsub_s20x2_slot_end_1 2;
     mkUse FUNCUNIT_func_addsub_s20x2_slot_end_2 2; mkUse FUNCUNIT_func_addsub_s20x2_slot_end_3 2;
     mkUse FUNCUNIT_func_addsub_s40x2_7 2; mkUse FUNCUNIT_func_addsub_s40x2_6 2;
     mkUse FUNCUNIT_func_addsub_s40x2_5 2; mkUse FUNCUNIT_func_addsub_s40x2_4 2;
     mkUse FUNCUNIT_func_addsub_s40x2_3 2; mkUse FUNCUNIT_func_addsub_s40x2_2 2;
     mkUse FUNCUNIT_func_addsub_s40x2_1 2; mkUse FUNCUNIT_func_addsub_s40x2_0 2;
     mkUse FUNCUNIT_func_shift_s16rs8_0 1; mkUse FUNCUNIT_func_shift_s16rs8_1 1;
     mkUse FUNCUNIT_func_shift_s16rs8_2 1; mkUse FUNCUNIT_func_shift_s16rs8_3 1;
     mkUse FUNCUNIT_func_shift_s16rs8_4 1; mkUse FUNCUNIT_func_shift_s16rs8_5 1;
     mkUse FUNCUNIT_func_shift_s16rs8_6 1; mkUse FUNCUNIT_func_shift_s16rs8_7 1;
     mkUse FUNCUNIT_func_shift_s16rs8_8 1; mkUse FUNCUNIT_func_shift_s16rs8_9 1;
     mkUse FUNCUNIT_func_shift_s16rs8_10 1; mkUse FUNCUNIT_func_shift_s16rs8_11 1;
     mkUse FUNCUNIT_func_shift_s16rs8_12 1; mkUse FUNCUNIT_func_shift_s16rs8_13 1;
     mkUse FUNCUNIT_func_shift_s16rs8_14 1; mkUse FUNCUNIT_func_shift_s16rs8_15 1;
     mkUse FUNCUNIT_func_shift_s32rs16_0 2; mkUse FUNCUNIT_func_shift_s32rs16_1 2;
     mkUse FUNCUNIT_func_shift_s32rs16_2 2; mkUse FUNCUNIT_func_shift_s32rs16_3 2;
     mkUse FUNCUNIT_func_shift_s32rs16_4 1; mkUse FUNCUNIT_func_shift_s32rs16_5 1;
     mkUse FUNCUNIT_func_shift_s32rs16_6 1; mkUse FUNCUNIT_func_shift_s32rs16_7 1])].

Definition s3_uses_109 : list (string * list xtensa_funcUnit_use) := [
  ("Opcode_ee_vmin_s32_funcUnit_uses", [mkUse FUNCUNIT_func_addsub_s32x2_slot1_3 1;
     mkUse FUNCUNIT_func_addsub_s8x2_0 1; mkUse FUNCUNIT_func_addsub_s8x2_1 1;
     mkUse FUNCUNIT_func_addsub_s8x2_2 1; mkUse FUNCUNIT_func_addsub_s8x2_3 1;
     mkUse FUNCUNIT_func_addsub_s8x2_4 1; mkUse FUNCUNIT_func_addsub_s8x2_5 1;
     mkUse FUNCUNIT_func_addsub_s8x2_6 1; mkUse FUNCUNIT_func_addsub_s8x2_7 1;
     mkUse FUNCUNIT_func_addsub_s16x2_0 1; mkUse FUNCUNIT_func_addsub_s16x2_1 1;
     mkUse FUNCUNIT_func_addsub_s16x2_2 1; mkUse FUNCUNIT_func_addsub_s16x2_3 1;
     mkUse FUNCUNIT_func_addsub_s16x2_4 1; mkUse FUNCUNIT_func_addsub_s16x2_5 1;
     mkUse FUNCUNIT_func_addsub_s16x2_6 1; mkUse FUNCUNIT_func_addsub_s16x2_7 1;
     mkUse FUNCUNIT_func_addsub_s32x2_slot0_0 1; mkUse FUNCUNIT_func_addsub_s32x2_slot0_1 1;
     mkUse FUNCUNIT_func_addsub_s32x2_slot0_2 1; mkUse FUNCUNIT_func_addsub_s32x2_slot0_3 1;
     mkUse FUNCUNIT_func_mul_s8xs8_0 1; mkUse FUNCUNIT_func_mul_s8xs8_1 1;
     mkUse FUNCUNIT_func_mul_s8xs8_2 1; mkUse FUNCUNIT_func_mul_s8xs8_3 1;
     mkUse FUNCUNIT_func_mul_s8xs8_4 1; mkUse FUNCUNIT_func_mul_s8xs8_5 1;
     mkUse FUNCUNIT_func_mul_s8xs8_6 1; mkUse FUNCUNIT_func_mul_s8xs8_7 1;
     mkUse FUNCUNIT_func_mul_s16xs16_0 1; mkUse FUNCUNIT_func_mul_s16xs16_1 1;
     mkUse FUNCUNIT_func_mul_s16xs16_2 1; mkUse FUNCUNIT_func_mul_s16xs16_3 1;
     mkUse FUNCUNIT_func_mul_s16xs16_4 1; mkUse FUNCUNIT_func_mul_s16xs16_5 1;
     mkUse FUNCUNIT_func_mul_s16xs16_6 1; mkUse FUNCUNIT_func_mul_s16xs16_7 1;
     mkUse FUNCUNIT_func_addsub_s32x2_slot1_extra 2; mkUse FUNCUNIT_func_addsub_s32x2_slot1_2 2;
     mkUse FUNCUNIT_func_addsub_s32x2_slot1_1 2; mkUse FUNCUNIT_func_addsub_s32x2_slot1_0 2;
     mkUse FUNCUNIT_func_addsub_s20x2_slot_end_0 2; mkUse FUNCUNIT_func_addsub_s20x2_slot_end_1 2;
     mkUse FUNCUNIT_func_addsub_s20x2_slot_end_2 2; mkUse FUNCUNIT_func_addsub_s20x2_slot_end_3 2;
     mkUse FUNCUNIT_func_addsub_s40x2_7 2; mkUse FUNCUNIT_func_addsub_s40x2_6 2;
     mkUse FUNCUNIT_func_addsub_s40x2_5 2; mkUse FUNCUNIT_func_addsub_s40x2_4 2;
     mkUse FUNCUNIT_func_addsub_s40x2_3 2; mkUse FUNCUNIT_func_addsub_s40x2_2 2;
     mkUse FUNCUNIT_func_addsub_s40x2_1 2; mkUse FUNCUNIT_func_addsub_s40x2_0 2;
     mkUse FUNCUNIT_func_shift_s16rs8_0 1; mkUse FUNCUNIT_func_shift_s16rs8_1 1;
     mkUse FUNCUNIT_func_shift_s16rs8_2 1; mkUse FUNCUNIT_func_shift_s16rs8_3 1;
     mkUse FUNCUNIT_func_shift_s16rs8_4 1; mkUse FUNCUNIT_func_shift_s16rs8_5 1;
     mkUse FUNCUNIT_func_shift_s16rs8_6 1; mkUse FUNCUNIT_func_shift_s16rs8_7 1;
     mkUse FUNCUNIT_func_shift_s16rs8_8 1; mkUse FUNCUNIT_func_shift_s16rs8_9 1;
     mkUse FUNCUNIT_func_shift_s16rs8_10 1; mkUse FUNCUNIT_func_shift_s16rs8_11 1;
     mkUse FUNCUNIT_func_shift_s16rs8_12 1; mkUse FUNCUNIT_func_shift_s16rs8_13 1;
     mkUse FUNCUNIT_func_shift_s16rs8_14 1; mkUse FUNCUNIT_func_shift_s16rs8_15 1;
     mkUse FUNCUNIT_func_shift_s32rs16_0 2; mkUse FUNCUNIT_func_shift_s32rs16_1 2;
     mkUse FUNCUNIT_func_shift_s32rs16_2 2; mkUse FUNCUNIT_func_shift_s32rs16_3 2;
     mkUse FUNCUNIT_func_shift_s32rs16_4 1; mkUse FUNCUNIT_func_shift_s32rs16_5 1;
     mkUse FUNCUNIT_func_shift_s32rs16_6 1; mkUse FUNCUNIT_func_shift_s32rs16_7 1])].

Definition s3_uses_110 : list (string * list xtensa_funcUnit_use) := [
  ("Opcode_ee_vmin_s8_ld_incp_funcUnit_uses", [mkUse FUNCUNIT_func_addsub_s32x2_slot1_3 1;
     mkUse FUNCUNIT_func_addsub_s8x2_0 1; mkUse FUNCUNIT_func_addsub_s8x2_1 1;
     mkUse FUNCUNIT_func_addsub_s8x2_2 1; mkUse FUNCUNIT_func_addsub_s8x2_3 1;
     mkUse FUNCUNIT_func_addsub_s8x2_4 1; mkUse FUNCUNIT_func_addsub_s8x2_5 1;
     mkUse FUNCUNIT_func_addsub_s8x2_6 1; mkUse FUNCUNIT_func_addsub_s8x2_7 1;
     mkUse FUNCUNIT_func_addsub_s16x2_0 1; mkUse FUNCUNIT_func_addsub_s16x2_1 1;
     mkUse FUNCUNIT_func_addsub_s16x2_2 1; mkUse FUNCUNIT_func_addsub_s16x2_3 1;
     mkUse FUNCUNIT_func_addsub_s16x2_4 1; mkUse FUNCUNIT_func_addsub_s16x2_5 1;
     mkUse FUNCUNIT_func_addsub_s16x2_6 1; mkUse FUNCUNIT_func_addsub_s16x2_7 1;
     mkUse FUNCUNIT_func_addsub_s32x2_slot0_0 1; mkUse FUNCUNIT_func_addsub_s32x2_slot0_1 1;
     mkUse FUNCUNIT_func_addsub_s32x2_slot0_2 1; mkUse FUNCUNIT_func_addsub_s32x2_slot0_3 1;
     mkUse FUNCUNIT_func_mul_s8xs8_0 1; mkUse FUNCUNIT_func_mul_s8xs8_1 1;
     mkUse FUNCUNIT_func_mul_s8xs8_2 1; mkUse FUNCUNIT_func_mul_s8xs8_3 1;
     mkUse FUNCUNIT_func_mul_s8xs8_4 1; mkUse FUNCUNIT_func_mul_s8xs8_5 1;
     mkUse FUNCUNIT_func_mul_s8xs8_6 1; mkUse FUNCUNIT_func_mul_s8xs8_7 1;
     mkUse FUNCUNIT_func_mul_s16xs16_0 1; mkUse FUNCUNIT_func_mul_s16xs16_1 1;
     mkUse FUNCUNIT_func_mul_s16xs16_2 1; mkUse FUNCUNIT_func_mul_s16xs16_3 1;
     mkUse FUNCUNIT_func_mul_s16xs16_4 1; mkUse FUNCUNIT_func_mul_s16xs16_5 1;
     mkUse FUNCUNIT_func_mul_s16xs16_6 1; mkUse FUNCUNIT_func_mul_s16xs16_7 1;
     mkUse FUNCUNIT_func_addsub_s32x2_slot1_extra 2; mkUse FUNCUNIT_func_addsub_s32x2_slot1_2 2;
     mkUse FUNCUNIT_func_addsub_s32x2_slot1_1 2; mkUse FUNCUNIT_func_addsub_s32x2_slot1_0 2;
     mkUse FUNCUNIT_func_addsub_s20x2_slot_end_0 2; mkUse FUNCUNIT_func_addsub_s20x2_slot_end_1 2;
     mkUse FUNCUNIT_func_addsub_s20x2_slot_end_2 2; mkUse FUNCUNIT_func_addsub_s20x2_slot_end_3 2;
     mkUse FUNCUNIT_func_addsub_s40x2_7 2; mkUse FUNCUNIT_func_addsub_s40x2_6 2;
     mkUse FUNCUNIT_func_addsub_s40x2_5 2; mkUse FUNCUNIT_func_addsub_s40x2_4 2;
     mkUse FUNCUNIT_func_addsub_s40x2_3 2; mkUse FUNCUNIT_func_addsub_s40x2_2 2;
     mkUse FUNCUNIT_func_addsub_s40x2_1 2; mkUse FUNCUNIT_func_addsub_s40x2_0 2;
     mkUse FUNCUNIT_func_shift_s16rs8_0 1; mkUse FUNCUNIT_func_shift_s16rs8_1 1;
     mkUse FUNCUNIT_func_shift_s16rs8_2 1; mkUse FUNCUNIT_func_shift_s16rs8_3 1;
     mkUse FUNCUNIT_func_shift_s16rs8_4 1; mkUse FUNCUNIT_func_shift_s16rs8_5 1;
     mkUse FUNCUNIT_func_shift_s16rs8_6 1; mkUse FUNCUNIT_func_shift_s16rs8_7 1;
     mkUse FUNCUNIT_func_shift_s16rs8_8 1; mkUse FUNCUNIT_func_shift_s16rs8_9 1;
     mkUse FUNCUNIT_func_shift_s16rs8_10 1; mkUse FUNCUNIT_func_shift_s16rs8_11 1;
     mkUse FUNCUNIT_func_shift_s16rs8_12 1; mkUse FUNCUNIT_func_shift_s16rs8_13 1;
     mkUse FUNCUNIT_func_shift_s16rs8_14 1; mkUse FUNCUNIT_func_shift_s16rs8_15 1;
     mkUse FUNCUNIT_func_shift_s32rs16_0 2; mkUse FUNCUNIT_func_shift_s32rs16_1 2;
     mkUse FUNCUNIT_func_shift_s32rs16_2 2; mkUse FUNCUNIT_func_shift_s32rs16_3 2;
     mkUse FUNCUNIT_func_shift_s32rs16_4 1; mkUse FUNCUNIT_func_shift_s32rs16_5 1;
     mkUse FUNCUNIT_func_shift_s32rs16_6 1; mkUse FUNCUNIT_func_shift_s32rs16_7 1])].

Definition s3_uses_111 : list (string * list xtensa_funcUnit_use) := [
  ("Opcode_ee_vmin_s8_st_incp_funcUnit_uses", [mkUse FUNCUNIT_func_addsub_s32x2_slot1_3 1;
     mkUse FUNCUNIT_func_addsub_s8x2_0 1; mkUse FUNCUNIT_func_addsub_s8x2_1 1;
     mkUse FUNCUNIT_func_addsub_s8x2_2 1; mkUse FUNCUNIT_func_addsub_s8x2_3 1;
     mkUse FUNCUNIT_func_addsub_s8x2_4 1; mkUse FUNCUNIT_func_addsub_s8x2_5 1;
     mkUse FUNCUNIT_func_addsub_s8x2_6 1; mkUse FUNCUNIT_func_addsub_s8x2_7 1;
     mkUse FUNCUNIT_func_addsub_s16x2_0 1; mkUse FUNCUNIT_func_addsub_s16x2_1 1;
     mkUse FUNCUNIT_func_addsub_s16x2_2 1; mkUse FUNCUNIT_func_addsub_s16x2_3 1;
     mkUse FUNCUNIT_func_addsub_s16x2_4 1; mkUse FUNCUNIT_func_addsub_s16x2_5 1;
     mkUse FUNCUNIT_func_addsub_s16x2_6 1; mkUse FUNCUNIT_func_addsub_s16x2_7 1;
     mkUse FUNCUNIT_func_addsub_s32x2_slot0_0 1; mkUse FUNCUNIT_func_addsub_s32x2_slot0_1 1;
     mkUse FUNCUNIT_func_addsub_s32x2_slot0_2 1; mkUse FUNCUNIT_func_addsub_s32x2_slot0_3 1;
     mkUse FUNCUNIT_func_mul_s8xs8_0 1; mkUse FUNCUNIT_func_mul_s8xs8_1 1;
     mkUse FUNCUNIT_func_mul_s8xs8_2 1; mkUse FUNCUNIT_func_mul_s8xs8_3 1;
     mkUse FUNCUNIT_func_mul_s8xs8_4 1; mkUse FUNCUNIT_func_mul_s8xs8_5 1;
     mkUse FUNCUNIT_func_mul_s8xs8_6 1; mkUse FUNCUNIT_func_mul_s8xs8_7 1;
     mkUse FUNCUNIT_func_mul_s16xs16_0 1; mkUse FUNCUNIT_func_mul_s16xs16_1 1;
     mkUse FUNCUNIT_func_mul_s16xs16_2 1; mkUse FUNCUNIT_func_mul_s16xs16_3 1;
     mkUse FUNCUNIT_func_mul_s16xs16_4 1; mkUse FUNCUNIT_func_mul_s16xs16_5 1;
     mkUse FUNCUNIT_func_mul_s16xs16_6 1; mkUse FUNCUNIT_func_mul_s16xs16_7 1;
     mkUse FUNCUNIT_func_addsub_s32x2_slot1_extra 2; mkUse FUNCUNIT_func_addsub_s32x2_slot1_2 2;
     mkUse FUNCUNIT_func_addsub_s32x2_slot1_1 2; mkUse FUNCUNIT_func_addsub_s32x2_slot1_0 2;
     mkUse FUNCUNIT_func_addsub_s20x2_slot_end_0 2; mkUse FUNCUNIT_func_addsub_s20x2_slot_end_1 2;
     mkUse FUNCUNIT_func_addsub_s20x2_slot_end_2 2; mkUse FUNCUNIT_func_addsub_s20x2_slot_end_3 2;
     mkUse FUNCUNIT_func_addsub_s40x2_7 2; mkUse FUNCUNIT_func_addsub_s40x2_6 2;
     mkUse FUNCUNIT_func_addsub_s40x2_5 2; mkUse FUNCUNIT_func_addsub_s40x2_4 2;
     mkUse FUNCUNIT_func_addsub_s40x2_3 2; mkUse FUNCUNIT_func_addsub_s40x2_2 2;
     mkUse FUNCUNIT_func_addsub_s40x2_1 2; mkUse FUNCUNIT_func_addsub_s40x2_0 2;
     mkUse FUNCUNIT_func_shift_s16rs8_0 1; mkUse FUNCUNIT_func_shift_s16rs8_1 1;
     mkUse FUNCUNIT_func_shift_s16rs8_2 1; mkUse FUNCUNIT_func_shift_s16rs8_3 1;
     mkUse FUNCUNIT_func_shift_s16rs8_4 1; mkUse FUNCUNIT_func_shift_s16rs8_5 1;
     mkUse FUNCUNIT_func_shift_s16rs8_6 1; mkUse FUNCUNIT_func_shift_s16rs8_7 1;
     mkUse FUNCUNIT_func_shift_s16rs8_8 1; mkUse FUNCUNIT_func_shift_s16rs8_9 1;
     mkUse FUNCUNIT_func_shift_s16rs8_10 1; mkUse FUNCUNIT_func_shift_s16rs8_11 1;
     mkUse FUNCUNIT_func_shift_s16rs8_12 1; mkUse FUNCUNIT_func_shift_s16rs8_13 1;
     mkUse FUNCUNIT_func_shift_s16rs8_14 1; mkUse FUNCUNIT_func_shift_s16rs8_15 1;
     mkUse FUNCUNIT_func_shift_s32rs16_0 2; mkUse FUNCUNIT_func_shift_s32rs16_1 2;
     mkUse FUNCUNIT_func_shift_s32rs16_2 2; mkUse FUNCUNIT_func_shift_s32rs16_3 2;
     mkUse FUNCUNIT_func_shift_s32rs16_4 1; mkUse FUNCUNIT_func_shift_s32rs16_5 1;
     mkUse FUNCUNIT_func_shift_s32rs16_6 1; mkUse FUNCUNIT_func_shift_s32rs16_7 1])].

Definition s3_uses_112 : list (string * list xtensa_funcUnit_use) := [
  ("Opcode_ee_vmin_s8_funcUnit_uses", [mkUse FUNCUNIT_func_addsub_s32x2_slot1_3 1;
     mkUse FUNCUNIT_func_addsub_s8x2_0 1; mkUse FUNCUNIT_func_addsub_s8x2_1 1;
     mkUse FUNCUNIT_func_addsub_s8x2_2 1; mkUse FUNCUNIT_func_addsub_s8x2_3 1;
     mkUse FUNCUNIT_func_addsub_s8x2_4 1; mkUse FUNCUNIT_func_addsub_s8x2_5 1;
     mkUse FUNCUNIT_func_addsub_s8x2_6 1; mkUse FUNCUNIT_func_addsub_s8x2_7 1;
     mkUse FUNCUNIT_func_addsub_s16x2_0 1; mkUse FUNCUNIT_func_addsub_s16x2_1 1;
     mkUse FUNCUNIT_func_addsub_s16x2_2 1; mkUse FUNCUNIT_func_addsub_s16x2_3 1;
     mkUse FUNCUNIT_func_addsub_s16x2_4 1; mkUse FUNCUNIT_func_addsub_s16x2_5 1;
     mkUse FUNCUNIT_func_addsub_s16x2_6 1; mkUse FUNCUNIT_func_addsub_s16x2_7 1;
     mkUse FUNCUNIT_func_addsub_s32x2_slot0_0 1; mkUse FUNCUNIT_func_addsub_s32x2_slot0_1 1;
     mkUse FUNCUNIT_func_addsub_s32x2_slot0_2 1; mkUse FUNCUNIT_func_addsub_s32x2_slot0_3 1;
     mkUse FUNCUNIT_func_mul_s8xs8_0 1; mkUse FUNCUNIT_func_mul_s8xs8_1 1;
     mkUse FUNCUNIT_func_mul_s8xs8_2 1; mkUse FUNCUNIT_func_mul_s8xs8_3 1;
     mkUse FUNCUNIT_func_mul_s8xs8_4 1; mkUse FUNCUNIT_func_mul_s8xs8_5 1;
     mkUse FUNCUNIT_func_mul_s8xs8_6 1; mkUse FUNCUNIT_func_mul_s8xs8_7 1;
     mkUse FUNCUNIT_func_mul_s16xs16_0 1; mkUse FUNCUNIT_func_mul_s16xs16_1 1;
     mkUse FUNCUNIT_func_mul_s16xs16_2 1; mkUse FUNCUNIT_func_mul_s16xs16_3 1;
     mkUse FUNCUNIT_func_mul_s16xs16_4 1; mkUse FUNCUNIT_func_mul_s16xs16_5 1;
     mkUse FUNCUNIT_func_mul_s16xs16_6 1; mkUse FUNCUNIT_func_mul_s16xs16_7 1;
     mkUse FUNCUNIT_func_addsub_s32x2_slot1_extra 2; mkUse FUNCUNIT_func_addsub_s32x2_slot1_2 2;
     mkUse FUNCUNIT_func_addsub_s32x2_slot1_1 2; mkUse FUNCUNIT_func_addsub_s32x2_slot1_0 2;
     mkUse FUNCUNIT_func_addsub_s20x2_slot_end_0 2; mkUse FUNCUNIT_func_addsub_s20x2_slot_end_1 2;
     mkUse FUNCUNIT_func_addsub_s20x2_slot_end_2 2; mkUse FUNCUNIT_func_addsub_s20x2_slot_end_3 2;
     mkUse FUNCUNIT_func_addsub_s40x2_7 2; mkUse FUNCUNIT_func_addsub_s40x2_6 2;
     mkUse FUNCUNIT_func_addsub_s40x2_5 2; mkUse FUNCUNIT_func_addsub_s40x2_4 2;
     mkUse FUNCUNIT_func_addsub_s40x2_3 2; mkUse FUNCUNIT_func_addsub_s40x2_2 2;
     mkUse FUNCUNIT_func_addsub_s40x2_1 2; mkUse FUNCUNIT_func_addsub_s40x2_0 2;
     mkUse FUNCUNIT_func_shift_s16rs8_0 1; mkUse FUNCUNIT_func_shift_s16rs8_1 1;
     mkUse FUNCUNIT_func_shift_s16rs8_2 1; mkUse FUNCUNIT_func_shift_s16rs8_3 1;
     mkUse FUNCUNIT_func_shift_s16rs8_4 1; mkUse FUNCUNIT_func_shift_s16rs8_5 1;
     mkUse FUNCUNIT_func_shift_s16rs8_6 1; mkUse FUNCUNIT_func_shift_s16rs8_7 1;
     mkUse FUNCUNIT_func_shift_s16rs8_8 1; mkUse FUNCUNIT_func_shift_s16rs8_9 1;
     mkUse FUNCUNIT_func_shift_s16rs8_10 1; mkUse FUNCUNIT_func_shift_s16rs8_11 1;
     mkUse FUNCUNIT_func_shift_s16rs8_12 1; mkUse FUNCUNIT_func_shift_s16rs8_13 1;
     mkUse FUNCUNIT_func_shift_s16rs8_14 1; mkUse FUNCUNIT_func_shift_s16rs8_15 1;
     mkUse FUNCUNIT_func_shift_s32rs16_0 2; mkUse FUNCUNIT_func_shift_s32rs16_1 2;
     mkUse FUNCUNIT_func_shift_s32rs16_2 2; mkUse FUNCUNIT_func_shift_s32rs16_3 2;
     mkUse FUNCUNIT_func_shift_s32rs16_4 1; mkUse FUNCUNIT_func_shift_s32rs16_5 1;
     mkUse FUNCUNIT_func_shift_s32rs16_6 1; mkUse FUNCUNIT_func_shift_s32rs16_7 1])].

Definition s3_uses_113 : list (string * list xtensa_funcUnit_use) := [
  ("Opcode_ee_vcmp_eq_s16_funcUnit_uses", [mkUse FUNCUNIT_func_addsub_s32x2_slot1_3 1;
     mkUse FUNCUNIT_func_addsub_s8x2_0 1; mkUse FUNCUNIT_func_addsub_s8x2_1 1;
     mkUse FUNCUNIT_func_addsub_s8x2_2 1; mkUse FUNCUNIT_func_addsub_s8x2_3 1;
     mkUse FUNCUNIT_func_addsub_s8x2_4 1; mkUse FUNCUNIT_func_addsub_s8x2_5 1;
     mkUse FUNCUNIT_func_addsub_s8x2_6 1; mkUse FUNCUNIT_func_addsub_s8x2_7 1;
     mkUse FUNCUNIT_func_addsub_s16x2_0 1; mkUse FUNCUNIT_func_addsub_s16x2_1 1;
     mkUse FUNCUNIT_func_addsub_s16x2_2 1; mkUse FUNCUNIT_func_addsub_s16x2_3 1;
     mkUse FUNCUNIT_func_addsub_s16x2_4 1; mkUse FUNCUNIT_func_addsub_s16x2_5 1;
     mkUse FUNCUNIT_func_addsub_s16x2_6 1; mkUse FUNCUNIT_func_addsub_s16x2_7 1;
     mkUse FUNCUNIT_func_addsub_s32x2_slot0_0 1; mkUse FUNCUNIT_func_addsub_s32x2_slot0_1 1;
     mkUse FUNCUNIT_func_addsub_s32x2_slot0_2 1; mkUse FUNCUNIT_func_addsub_s32x2_slot0_3 1;
     mkUse FUNCUNIT_func_mul_s8xs8_0 1; mkUse FUNCUNIT_func_mul_s8xs8_1 1;
     mkUse FUNCUNIT_func_mul_s8xs8_2 1; mkUse FUNCUNIT_func_mul_s8xs8_3 1;
     mkUse FUNCUNIT_func_mul_s8xs8_4 1; mkUse FUNCUNIT_func_mul_s8xs8_5 1;
     mkUse FUNCUNIT_func_mul_s8xs8_6 1; mkUse FUNCUNIT_func_mul_s8xs8_7 1;
     mkUse FUNCUNIT_func_mul_s16xs16_0 1; mkUse FUNCUNIT_func_mul_s16xs16_1 1;
     mkUse FUNCUNIT_func_mul_s16xs16_2 1; mkUse FUNCUNIT_func_mul_s16xs16_3 1;
     mkUse FUNCUNIT_func_mul_s16xs16_4 1; mkUse FUNCUNIT_func_mul_s16xs16_5 1;
     mkUse FUNCUNIT_func_mul_s16xs16_6 1; mkUse FUNCUNIT_func_mul_s16xs16_7 1;
     mkUse FUNCUNIT_func_addsub_s32x2_slot1_extra 2; mkUse FUNCUNIT_func_addsub_s32x2_slot1_2 2;
     mkUse FUNCUNIT_func_addsub_s32x2_slot1_1 2; mkUse FUNCUNIT_func_addsub_s32x2_slot1_0 2;
     mkUse FUNCUNIT_func_addsub_s20x2_slot_end_0 2; mkUse FUNCUNIT_func_addsub_s20x2_slot_end_1 2;
     mkUse FUNCUNIT_func_addsub_s20x2_slot_end_2 2; mkUse FUNCUNIT_func_addsub_s20x2_slot_end_3 2;
     mkUse FUNCUNIT_func_addsub_s40x2_7 2; mkUse FUNCUNIT_func_addsub_s40x2_6 2;
     mkUse FUNCUNIT_func_addsub_s40x2_5 2; mkUse FUNCUNIT_func_addsub_s40x2_4 2;
     mkUse FUNCUNIT_func_addsub_s40x2_3 2; mkUse FUNCUNIT_func_addsub_s40x2_2 2;
     mkUse FUNCUNIT_func_addsub_s40x2_1 2; mkUse FUNCUNIT_func_addsub_s40x2_0 2;
     mkUse FUNCUNIT_func_shift_s16rs8_0 1; mkUse FUNCUNIT_func_shift_s16rs8_1 1;
     mkUse FUNCUNIT_func_shift_s16rs8_2 1; mkUse FUNCUNIT_func_shift_s16rs8_3 1;
     mkUse FUNCUNIT_func_shift_s16rs8_4 1; mkUse FUNCUNIT_func_shift_s16rs8_5 1;
     mkUse FUNCUNIT_func_shift_s16rs8_6 1; mkUse FUNCUNIT_func_shift_s16rs8_7 1;
     mkUse FUNCUNIT_func_shift_s16rs8_8 1; mkUse FUNCUNIT_func_shift_s16rs8_9 1;
     mkUse FUNCUNIT_func_shift_s16rs8_10 1; mkUse FUNCUNIT_func_shift_s16rs8_11 1;
     mkUse FUNCUNIT_func_shift_s16rs8_12 1; mkUse FUNCUNIT_func_shift_s16rs8_13 1;
     mkUse FUNCUNIT_func_shift_s16rs8_14 1; mkUse FUNCUNIT_func_shift_s16rs8_15 1;
     mkUse FUNCUNIT_func_shift_s32rs16_0 2; mkUse FUNCUNIT_func_shift_s32rs16_1 2;
     mkUse FUNCUNIT_func_shift_s32rs16_2 2; mkUse FUNCUNIT_func_shift_s32rs16_3 2;
     mkUse FUNCUNIT_func_shift_s32rs16_4 1; mkUse FUNCUNIT_func_shift_s32rs16_5 1;
     mkUse FUNCUNIT_func_shift_s32rs16_6 1; mkUse FUNCUNIT_func_shift_s32rs16_7 1])].

Definition s3_uses_114 : list (string * list xtensa_funcUnit_use) := [
  ("Opcode_ee_vcmp_eq_s32_funcUnit_uses", [mkUse FUNCUNIT_func_addsub_s32x2_slot1_3 1;
     mkUse FUNCUNIT_func_addsub_s8x2_0 1; mkUse FUNCUNIT_func_addsub_s8x2_1 1;
     mkUse FUNCUNIT_func_addsub_s8x2_2 1; mkUse FUNCUNIT_func_addsub_s8x2_3 1;
     mkUse FUNCUNIT_func_addsub_s8x2_4 1; mkUse FUNCUNIT_func_addsub_s8x2_5 1;
     mkUse FUNCUNIT_func_addsub_s8x2_6 1; mkUse FUNCUNIT_func_addsub_s8x2_7 1;
     mkUse FUNCUNIT_func_addsub_s16x2_0 1; mkUse FUNCUNIT_func_addsub_s16x2_1 1;
     mkUse FUNCUNIT_func_addsub_s16x2_2 1; mkUse FUNCUNIT_func_addsub_s16x2_3 1;
     mkUse FUNCUNIT_func_addsub_s16x2_4 1; mkUse FUNCUNIT_func_addsub_s16x2_5 1;
     mkUse FUNCUNIT_func_addsub_s16x2_6 1; mkUse FUNCUNIT_func_addsub_s16x2_7 1;
     mkUse FUNCUNIT_func_addsub_s32x2_slot0_0 1; mkUse FUNCUNIT_func_addsub_s32x2_slot0_1 1;
     mkUse FUNCUNIT_func_addsub_s32x2_slot0_2 1; mkUse FUNCUNIT_func_addsub_s32x2_slot0_3 1;
     mkUse FUNCUNIT_func_mul_s8xs8_0 1; mkUse FUNCUNIT_func_mul_s8xs8_1 1;
     mkUse FUNCUNIT_func_mul_s8xs8_2 1; mkUse FUNCUNIT_func_mul_s8xs8_3 1;
     mkUse FUNCUNIT_func_mul_s8xs8_4 1; mkUse FUNCUNIT_func_mul_s8xs8_5 1;
     mkUse FUNCUNIT_func_mul_s8xs8_6 1; mkUse FUNCUNIT_func_mul_s8xs8_7 1;
     mkUse FUNCUNIT_func_mul_s16xs16_0 1; mkUse FUNCUNIT_func_mul_s16xs16_1 1;
     mkUse FUNCUNIT_func_mul_s16xs16_2 1; mkUse FUNCUNIT_func_mul_s16xs16_3 1;
     mkUse FUNCUNIT_func_mul_s16xs16_4 1; mkUse FUNCUNIT_func_mul_s16xs16_5 1;
     mkUse FUNCUNIT_func_mul_s16xs16_6 1; mkUse FUNCUNIT_func_mul_s16xs16_7 1;
     mkUse FUNCUNIT_func_addsub_s32x2_slot1_extra 2; mkUse FUNCUNIT_func_addsub_s32x2_slot1_2 2;
     mkUse FUNCUNIT_func_addsub_s32x2_slot1_1 2; mkUse FUNCUNIT_func_addsub_s32x2_slot1_0 2;
     mkUse FUNCUNIT_func_addsub_s20x2_slot_end_0 2; mkUse FUNCUNIT_func_addsub_s20x2_slot_end_1 2;
     mkUse FUNCUNIT_func_addsub_s20x2_slot_end_2 2; mkUse FUNCUNIT_func_addsub_s20x2_slot_end_3 2;
     mkUse FUNCUNIT_func_addsub_s40x2_7 2; mkUse FUNCUNIT_func_addsub_s40x2_6 2;
     mkUse FUNCUNIT_func_addsub_s40x2_5 2; mkUse FUNCUNIT_func_addsub_s40x2_4 2;
     mkUse FUNCUNIT_func_addsub_s40x2_3 2; mkUse FUNCUNIT_func_addsub_s40x2_2 2;
     mkUse FUNCUNIT_func_addsub_s40x2_1 2; mkUse FUNCUNIT_func_addsub_s40x2_0 2;
     mkUse FUNCUNIT_func_shift_s16rs8_0 1; mkUse FUNCUNIT_func_shift_s16rs8_1 1;
     mkUse FUNCUNIT_func_shift_s16rs8_2 1; mkUse FUNCUNIT_func_shift_s16rs8_3 1;
     mkUse FUNCUNIT_func_shift_s16rs8_4 1; mkUse FUNCUNIT_func_shift_s16rs8_5 1;
     mkUse FUNCUNIT_func_shift_s16rs8_6 1; mkUse FUNCUNIT_func_shift_s16rs8_7 1;
     mkUse FUNCUNIT_func_shift_s16rs8_8 1; mkUse FUNCUNIT_func_shift_s16rs8_9 1;
     mkUse FUNCUNIT_func_shift_s16rs8_10 1; mkUse FUNCUNIT_func_shift_s16rs8_11 1;
     mkUse FUNCUNIT_func_shift_s16rs8_12 1; mkUse FUNCUNIT_func_shift_s16rs8_13 1;
     mkUse FUNCUNIT_func_shift_s16rs8_14 1; mkUse FUNCUNIT_func_shift_s16rs8_15 1;
     mkUse FUNCUNIT_func_shift_s32rs16_0 2; mkUse FUNCUNIT_func_shift_s32rs16_1 2;
     mkUse FUNCUNIT_func_shift_s32rs16_2 2; mkUse FUNCUNIT_func_shift_s32rs16_3 2;
     mkUse FUNCUNIT_func_shift_s32rs16_4 1; mkUse FUNCUNIT_func_shift_s32rs16_5 1;
     mkUse FUNCUNIT_func_shift_s32rs16_6 1; mkUse FUNCUNIT_func_shift_s32rs16_7 1])].

Definition s3_uses_115 : list (string * list xtensa_funcUnit_use) := [
  ("Opcode_ee_vcmp_eq_s8_funcUnit_uses", [mkUse FUNCUNIT_func_addsub_s32x2_slot1_3 1;
     mkUse FUNCUNIT_func_addsub_s8x2_0 1; mkUse FUNCUNIT_func_addsub_s8x2_1 1;
     mkUse FUNCUNIT_func_addsub_s8x2_2 1; mkUse FUNCUNIT_func_addsub_s8x2_3 1;
     mkUse FUNCUNIT_func_addsub_s8x2_4 1; mkUse FUNCUNIT_func_addsub_s8x2_5 1;
     mkUse FUNCUNIT_func_addsub_s8x2_6 1; mkUse FUNCUNIT_func_addsub_s8x2_7 1;
     mkUse FUNCUNIT_func_addsub_s16x2_0 1; mkUse FUNCUNIT_func_addsub_s16x2_1 1;
     mkUse FUNCUNIT_func_addsub_s16x2_2 1; mkUse FUNCUNIT_func_addsub_s16x2_3 1;
     mkUse FUNCUNIT_func_addsub_s16x2_4 1; mkUse FUNCUNIT_func_addsub_s16x2_5 1;
     mkUse FUNCUNIT_func_addsub_s16x2_6 1; mkUse FUNCUNIT_func_addsub_s16x2_7 1;
     mkUse FUNCUNIT_func_addsub_s32x2_slot0_0 1; mkUse FUNCUNIT_func_addsub_s32x2_slot0_1 1;
     mkUse FUNCUNIT_func_addsub_s32x2_slot0_2 1; mkUse FUNCUNIT_func_addsub_s32x2_slot0_3 1;
     mkUse FUNCUNIT_func_mul_s8xs8_0 1; mkUse FUNCUNIT_func_mul_s8xs8_1 1;
     mkUse FUNCUNIT_func_mul_s8xs8_2 1; mkUse FUNCUNIT_func_mul_s8xs8_3 1;
     mkUse FUNCUNIT_func_mul_s8xs8_4 1; mkUse FUNCUNIT_func_mul_s8xs8_5 1;
     mkUse FUNCUNIT_func_mul_s8xs8_6 1; mkUse FUNCUNIT_func_mul_s8xs8_7 1;
     mkUse FUNCUNIT_func_mul_s16xs16_0 1; mkUse FUNCUNIT_func_mul_s16xs16_1 1;
     mkUse FUNCUNIT_func_mul_s16xs16_2 1; mkUse FUNCUNIT_func_mul_s16xs16_3 1;
     mkUse FUNCUNIT_func_mul_s16xs16_4 1; mkUse FUNCUNIT_func_mul_s16xs16_5 1;
     mkUse FUNCUNIT_func_mul_s16xs16_6 1; mkUse FUNCUNIT_func_mul_s16xs16_7 1;
     mkUse FUNCUNIT_func_addsub_s32x2_slot1_extra 2; mkUse FUNCUNIT_func_addsub_s32x2_slot1_2 2;
     mkUse FUNCUNIT_func_addsub_s32x2_slot1_1 2; mkUse FUNCUNIT_func_addsub_s32x2_slot1_0 2;
     mkUse FUNCUNIT_func_addsub_s20x2_slot_end_0 2; mkUse FUNCUNIT_func_addsub_s20x2_slot_end_1 2;
     mkUse FUNCUNIT_func_addsub_s20x2_slot_end_2 2; mkUse FUNCUNIT_func_addsub_s20x2_slot_end_3 2;
     mkUse FUNCUNIT_func_addsub_s40x2_7 2; mkUse FUNCUNIT_func_addsub_s40x2_6 2;
     mkUse FUNCUNIT_func_addsub_s40x2_5 2; mkUse FUNCUNIT_func_addsub_s40x2_4 2;
     mkUse FUNCUNIT_func_addsub_s40x2_3 2; mkUse FUNCUNIT_func_addsub_s40x2_2 2;
     mkUse FUNCUNIT_func_addsub_s40x2_1 2; mkUse FUNCUNIT_func_addsub_s40x2_0 2;
     mkUse FUNCUNIT_func_shift_s16rs8_0 1; mkUse FUNCUNIT_func_shift_s16rs8_1 1;
     mkUse FUNCUNIT_func_shift_s16rs8_2 1; mkUse FUNCUNIT_func_shift_s16rs8_3 1;
     mkUse FUNCUNIT_func_shift_s16rs8_4 1; mkUse FUNCUNIT_func_shift_s16rs8_5 1;
     mkUse FUNCUNIT_func_shift_s16rs8_6 1; mkUse FUNCUNIT_func_shift_s16rs8_7 1;
     mkUse FUNCUNIT_func_shift_s16rs8_8 1; mkUse FUNCUNIT_func_shift_s16rs8_9 1;
     mkUse FUNCUNIT_func_shift_s16rs8_10 1; mkUse FUNCUNIT_func_shift_s16rs8_11 1;
     mkUse FUNCUNIT_func_shift_s16rs8_12 1; mkUse FUNCUNIT_func_shift_s16rs8_13 1;
     mkUse FUNCUNIT_func_shift_s16rs8_14 1; mkUse FUNCUNIT_func_shift_s16rs8_15 1;
     mkUse FUNCUNIT_func_shift_s32rs16_0 2; mkUse FUNCUNIT_func_shift_s32rs16_1 2;
     mkUse FUNCUNIT_func_shift_s32rs16_2 2; mkUse FUNCUNIT_func_shift_s32rs16_3 2;
     mkUse FUNCUNIT_func_shift_s32rs16_4 1; mkUse FUNCUNIT_func_shift_s32rs16_5 1;
     mkUse FUNCUNIT_func_shift_s32rs16_6 1; mkUse FUNCUNIT_func_shift_s32rs16_7 1])].

Definition s3_uses_116 : list (string * list xtensa_funcUnit_use) := [
  ("Opcode_ee_vcmp_gt_s16_funcUnit_uses", [mkUse FUNCUNIT_func_addsub_s32x2_slot1_3 1;
     mkUse FUNCUNIT_func_addsub_s8x2_0 1; mkUse FUNCUNIT_func_addsub_s8x2_1 1;
     mkUse FUNCUNIT_func_addsub_s8x2_2 1; mkUse FUNCUNIT_func_addsub_s8x2_3 1;
     mkUse FUNCUNIT_func_addsub_s8x2_4 1; mkUse FUNCUNIT_func_addsub_s8x2_5 1;
     mkUse FUNCUNIT_func_addsub_s8x2_6 1; mkUse FUNCUNIT_func_addsub_s8x2_7 1;
     mkUse FUNCUNIT_func_addsub_s16x2_0 1; mkUse FUNCUNIT_func_addsub_s16x2_1 1;
     mkUse FUNCUNIT_func_addsub_s16x2_2 1; mkUse FUNCUNIT_func_addsub_s16x2_3 1;
     mkUse FUNCUNIT_func_addsub_s16x2_4 1; mkUse FUNCUNIT_func_addsub_s16x2_5 1;
     mkUse FUNCUNIT_func_addsub_s16x2_6 1; mkUse FUNCUNIT_func_addsub_s16x2_7 1;
     mkUse FUNCUNIT_func_addsub_s32x2_slot0_0 1; mkUse FUNCUNIT_func_addsub_s32x2_slot0_1 1;
     mkUse FUNCUNIT_func_addsub_s32x2_slot0_2 1; mkUse FUNCUNIT_func_addsub_s32x2_slot0_3 1;
     mkUse FUNCUNIT_func_mul_s8xs8_0 1; mkUse FUNCUNIT_func_mul_s8xs8_1 1;
     mkUse FUNCUNIT_func_mul_s8xs8_2 1; mkUse FUNCUNIT_func_mul_s8xs8_3 1;
     mkUse FUNCUNIT_func_mul_s8xs8_4 1; mkUse FUNCUNIT_func_mul_s8xs8_5 1;
     mkUse FUNCUNIT_func_mul_s8xs8_6 1; mkUse FUNCUNIT_func_mul_s8xs8_7 1;
     mkUse FUNCUNIT_func_mul_s16xs16_0 1; mkUse FUNCUNIT_func_mul_s16xs16_1 1;
     mkUse FUNCUNIT_func_mul_s16xs16_2 1; mkUse FUNCUNIT_func_mul_s16xs16_3 1;
     mkUse FUNCUNIT_func_mul_s16xs16_4 1; mkUse FUNCUNIT_func_mul_s16xs16_5 1;
     mkUse FUNCUNIT_func_mul_s16xs16_6 1; mkUse FUNCUNIT_func_mul_s16xs16_7 1;
     mkUse FUNCUNIT_func_addsub_s32x2_slot1_extra 2; mkUse FUNCUNIT_func_addsub_s32x2_slot1_2 2;
     mkUse FUNCUNIT_func_addsub_s32x2_slot1_1 2; mkUse FUNCUNIT_func_addsub_s32x2_slot1_0 2;
     mkUse FUNCUNIT_func_addsub_s20x2_slot_end_0 2; mkUse FUNCUNIT_func_addsub_s20x2_slot_end_1 2;
     mkUse FUNCUNIT_func_addsub_s20x2_slot_end_2 2; mkUse FUNCUNIT_func_addsub_s20x2_slot_end_3 2;
     mkUse FUNCUNIT_func_addsub_s40x2_7 2; mkUse FUNCUNIT_func_addsub_s40x2_6 2;
     mkUse FUNCUNIT_func_addsub_s40x2_5 2; mkUse FUNCUNIT_func_addsub_s40x2_4 2;
     mkUse FUNCUNIT_func_addsub_s40x2_3 2; mkUse FUNCUNIT_func_addsub_s40x2_2 2;
     mkUse FUNCUNIT_func_addsub_s40x2_1 2; mkUse FUNCUNIT_func_addsub_s40x2_0 2;
     mkUse FUNCUNIT_func_shift_s16rs8_0 1; mkUse FUNCUNIT_func_shift_s16rs8_1 1;
     mkUse FUNCUNIT_func_shift_s16rs8_2 1; mkUse FUNCUNIT_func_shift_s16rs8_3 1;
     mkUse FUNCUNIT_func_shift_s16rs8_4 1; mkUse FUNCUNIT_func_shift_s16rs8_5 1;
     mkUse FUNCUNIT_func_shift_s16rs8_6 1; mkUse FUNCUNIT_func_shift_s16rs8_7 1;
     mkUse FUNCUNIT_func_shift_s16rs8_8 1; mkUse FUNCUNIT_func_shift_s16rs8_9 1;
     mkUse FUNCUNIT_func_shift_s16rs8_10 1; mkUse FUNCUNIT_func_shift_s16rs8_11 1;
     mkUse FUNCUNIT_func_shift_s16rs8_12 1; mkUse FUNCUNIT_func_shift_s16rs8_13 1;
     mkUse FUNCUNIT_func_shift_s16rs8_14 1; mkUse FUNCUNIT_func_shift_s16rs8_15 1;
     mkUse FUNCUNIT_func_shift_s32rs16_0 2; mkUse FUNCUNIT_func_shift_s32rs16_1 2;
     mkUse FUNCUNIT_func_shift_s32rs16_2 2; mkUse FUNCUNIT_func_shift_s32rs16_3 2;
     mkUse FUNCUNIT_func_shift_s32rs16_4 1; mkUse FUNCUNIT_func_shift_s32rs16_5 1;
     mkUse FUNCUNIT_func_shift_s32rs16_6 1; mkUse FUNCUNIT_func_shift_s32rs16_7 1])].

Definition s3_uses_117 : list (string * list xtensa_funcUnit_use) := [
  ("Opcode_ee_vcmp_gt_s32_funcUnit_uses", [mkUse FUNCUNIT_func_addsub_s32x2_slot1_3 1;
     mkUse FUNCUNIT_func_addsub_s8x2_0 1; mkUse FUNCUNIT_func_addsub_s8x2_1 1;
     mkUse FUNCUNIT_func_addsub_s8x2_2 1; mkUse FUNCUNIT_func_addsub_s8x2_3 1;
     mkUse FUNCUNIT_func_addsub_s8x2_4 1; mkUse FUNCUNIT_func_addsub_s8x2_5 1;
     mkUse FUNCUNIT_func_addsub_s8x2_6 1; mkUse FUNCUNIT_func_addsub_s8x2_7 1;
     mkUse FUNCUNIT_func_addsub_s16x2_0 1; mkUse FUNCUNIT_func_addsub_s16x2_1 1;
     mkUse FUNCUNIT_func_addsub_s16x2_2 1; mkUse FUNCUNIT_func_addsub_s16x2_3 1;
     mkUse FUNCUNIT_func_addsub_s16x2_4 1; mkUse FUNCUNIT_func_addsub_s16x2_5 1;
     mkUse FUNCUNIT_func_addsub_s16x2_6 1; mkUse FUNCUNIT_func_addsub_s16x2_7 1;
     mkUse FUNCUNIT_func_addsub_s32x2_slot0_0 1; mkUse FUNCUNIT_func_addsub_s32x2_slot0_1 1;
     mkUse FUNCUNIT_func_addsub_s32x2_slot0_2 1; mkUse FUNCUNIT_func_addsub_s32x2_slot0_3 1;
     mkUse FUNCUNIT_func_mul_s8xs8_0 1; mkUse FUNCUNIT_func_mul_s8xs8_1 1;
     mkUse FUNCUNIT_func_mul_s8xs8_2 1; mkUse FUNCUNIT_func_mul_s8xs8_3 1;
     mkUse FUNCUNIT_func_mul_s8xs8_4 1; mkUse FUNCUNIT_func_mul_s8xs8_5 1;
     mkUse FUNCUNIT_func_mul_s8xs8_6 1; mkUse FUNCUNIT_func_mul_s8xs8_7 1;
     mkUse FUNCUNIT_func_mul_s16xs16_0 1; mkUse FUNCUNIT_func_mul_s16xs16_1 1;
     mkUse FUNCUNIT_func_mul_s16xs16_2 1; mkUse FUNCUNIT_func_mul_s16xs16_3 1;
     mkUse FUNCUNIT_func_mul_s16xs16_4 1; mkUse FUNCUNIT_func_mul_s16xs16_5 1;
     mkUse FUNCUNIT_func_mul_s16xs16_6 1; mkUse FUNCUNIT_func_mul_s16xs16_7 1;
     mkUse FUNCUNIT_func_addsub_s32x2_slot1_extra 2; mkUse FUNCUNIT_func_addsub_s32x2_slot1_2 2;
     mkUse FUNCUNIT_func_addsub_s32x2_slot1_1 2; mkUse FUNCUNIT_func_addsub_s32x2_slot1_0 2;
     mkUse FUNCUNIT_func_addsub_s20x2_slot_end_0 2; mkUse FUNCUNIT_func_addsub_s20x2_slot_end_1 2;
     mkUse FUNCUNIT_func_addsub_s20x2_slot_end_2 2; mkUse FUNCUNIT_func_addsub_s20x2_slot_end_3 2;
     mkUse FUNCUNIT_func_addsub_s40x2_7 2; mkUse FUNCUNIT_func_addsub_s40x2_6 2;
     mkUse FUNCUNIT_func_addsub_s40x2_5 2; mkUse FUNCUNIT_func_addsub_s40x2_4 2;
     mkUse FUNCUNIT_func_addsub_s40x2_3 2; mkUse FUNCUNIT_func_addsub_s40x2_2 2;
     mkUse FUNCUNIT_func_addsub_s40x2_1 2; mkUse FUNCUNIT_func_addsub_s40x2_0 2;
     mkUse FUNCUNIT_func_shift_s16rs8_0 1; mkUse FUNCUNIT_func_shift_s16rs8_1 1;
     mkUse FUNCUNIT_func_shift_s16rs8_2 1; mkUse FUNCUNIT_func_shift_s16rs8_3 1;
     mkUse FUNCUNIT_func_shift_s16rs8_4 1; mkUse FUNCUNIT_func_shift_s16rs8_5 1;
     mkUse FUNCUNIT_func_shift_s16rs8_6 1; mkUse FUNCUNIT_func_shift_s16rs8_7 1;
     mkUse FUNCUNIT_func_shift_s16rs8_8 1; mkUse FUNCUNIT_func_shift_s16rs8_9 1;
     mkUse FUNCUNIT_func_shift_s16rs8_10 1; mkUse FUNCUNIT_func_shift_s16rs8_11 1;
     mkUse FUNCUNIT_func_shift_s16rs8_12 1; mkUse FUNCUNIT_func_shift_s16rs8_13 1;
     mkUse FUNCUNIT_func_shift_s16rs8_14 1; mkUse FUNCUNIT_func_shift_s16rs8_15 1;
     mkUse FUNCUNIT_func_shift_s32rs16_0 2; mkUse FUNCUNIT_func_shift_s32rs16_1 2;
     mkUse FUNCUNIT_func_shift_s32rs16_2 2; mkUse FUNCUNIT_func_shift_s32rs16_3 2;
     mkUse FUNCUNIT_func_shift_s32rs16_4 1; mkUse FUNCUNIT_func_shift_s32rs16_5 1;
     mkUse FUNCUNIT_func_shift_s32rs16_6 1; mkUse FUNCUNIT_func_shift_s32rs16_7 1])].

Definition s3_uses_118 : list (string * list xtensa_funcUnit_use) := [
  ("Opcode_ee_vcmp_gt_s8_funcUnit_uses", [mkUse FUNCUNIT_func_addsub_s32x2_slot1_3 1;
     mkUse FUNCUNIT_func_addsub_s8x2_0 1; mkUse FUNCUNIT_func_addsub_s8x2_1 1;
     mkUse FUNCUNIT_func_addsub_s8x2_2 1; mkUse FUNCUNIT_func_addsub_s8x2_3 1;
     mkUse FUNCUNIT_func_addsub_s8x2_4 1; mkUse FUNCUNIT_func_addsub_s8x2_5 1;
     mkUse FUNCUNIT_func_addsub_s8x2_6 1; mkUse FUNCUNIT_func_addsub_s8x2_7 1;
     mkUse FUNCUNIT_func_addsub_s16x2_0 1; mkUse FUNCUNIT_func_addsub_s16x2_1 1;
     mkUse FUNCUNIT_func_addsub_s16x2_2 1; mkUse FUNCUNIT_func_addsub_s16x2_3 1;
     mkUse FUNCUNIT_func_addsub_s16x2_4 1; mkUse FUNCUNIT_func_addsub_s16x2_5 1;
     mkUse FUNCUNIT_func_addsub_s16x2_6 1; mkUse FUNCUNIT_func_addsub_s16x2_7 1;
     mkUse FUNCUNIT_func_addsub_s32x2_slot0_0 1; mkUse FUNCUNIT_func_addsub_s32x2_slot0_1 1;
     mkUse FUNCUNIT_func_addsub_s32x2_slot0_2 1; mkUse FUNCUNIT_func_addsub_s32x2_slot0_3 1;
     mkUse FUNCUNIT_func_mul_s8xs8_0 1; mkUse FUNCUNIT_func_mul_s8xs8_1 1;
     mkUse FUNCUNIT_func_mul_s8xs8_2 1; mkUse FUNCUNIT_func_mul_s8xs8_3 1;
     mkUse FUNCUNIT_func_mul_s8xs8_4 1; mkUse FUNCUNIT_func_mul_s8xs8_5 1;
     mkUse FUNCUNIT_func_mul_s8xs8_6 1; mkUse FUNCUNIT_func_mul_s8xs8_7 1;
     mkUse FUNCUNIT_func_mul_s16xs16_0 1; mkUse FUNCUNIT_func_mul_s16xs16_1 1;
     mkUse FUNCUNIT_func_mul_s16xs16_2 1; mkUse FUNCUNIT_func_mul_s16xs16_3 1;
     mkUse FUNCUNIT_func_mul_s16xs16_4 1; mkUse FUNCUNIT_func_mul_s16xs16_5 1;
     mkUse FUNCUNIT_func_mul_s16xs16_6 1; mkUse FUNCUNIT_func_mul_s16xs16_7 1;
     mkUse FUNCUNIT_func_addsub_s32x2_slot1_extra 2; mkUse FUNCUNIT_func_addsub_s32x2_slot1_2 2;
     mkUse FUNCUNIT_func_addsub_s32x2_slot1_1 2; mkUse FUNCUNIT_func_addsub_s32x2_slot1_0 2;
     mkUse FUNCUNIT_func_addsub_s20x2_slot_end_0 2; mkUse FUNCUNIT_func_addsub_s20x2_slot_end_1 2;
     mkUse FUNCUNIT_func_addsub_s20x2_slot_end_2 2; mkUse FUNCUNIT_func_addsub_s20x2_slot_end_3 2;
     mkUse FUNCUNIT_func_addsub_s40x2_7 2; mkUse FUNCUNIT_func_addsub_s40x2_6 2;
     mkUse FUNCUNIT_func_addsub_s40x2_5 2; mkUse FUNCUNIT_func_addsub_s40x2_4 2;
     mkUse FUNCUNIT_func_addsub_s40x2_3 2; mkUse FUNCUNIT_func_addsub_s40x2_2 2;
     mkUse FUNCUNIT_func_addsub_s40x2_1 2; mkUse FUNCUNIT_func_addsub_s40x2_0 2;
     mkUse FUNCUNIT_func_shift_s16rs8_0 1; mkUse FUNCUNIT_func_shift_s16rs8_1 1;
     mkUse FUNCUNIT_func_shift_s16rs8_2 1; mkUse FUNCUNIT_func_shift_s16rs8_3 1;
     mkUse FUNCUNIT_func_shift_s16rs8_4 1; mkUse FUNCUNIT_func_shift_s16rs8_5 1;
     mkUse FUNCUNIT_func_shift_s16rs8_6 1; mkUse FUNCUNIT_func_shift_s16rs8_7 1;
     mkUse FUNCUNIT_func_shift_s16rs8_8 1; mkUse FUNCUNIT_func_shift_s16rs8_9 1;
     mkUse FUNCUNIT_func_shift_s16rs8_10 1; mkUse FUNCUNIT_func_shift_s16rs8_11 1;
     mkUse FUNCUNIT_func_shift_s16rs8_12 1; mkUse FUNCUNIT_func_shift_s16rs8_13 1;
     mkUse FUNCUNIT_func_shift_s16rs8_14 1; mkUse FUNCUNIT_func_shift_s16rs8_15 1;
     mkUse FUNCUNIT_func_shift_s32rs16_0 2; mkUse FUNCUNIT_func_shift_s32rs16_1 2;
     mkUse FUNCUNIT_func_shift_s32rs16_2 2; mkUse FUNCUNIT_func_shift_s32rs16_3 2;
     mkUse FUNCUNIT_func_shift_s32rs16_4 1; mkUse FUNCUNIT_func_shift_s32rs16_5 1;
     mkUse FUNCUNIT_func_shift_s32rs16_6 1; mkUse FUNCUNIT_func_shift_s32rs16_7 1])].

Definition s3_uses_119 : list (string * list xtensa_funcUnit_use) := [
  ("Opcode_ee_vcmp_lt_s16_funcUnit_uses", [mkUse FUNCUNIT_func_addsub_s32x2_slot1_3 1;
     mkUse FUNCUNIT_func_addsub_s8x2_0 1; mkUse FUNCUNIT_func_addsub_s8x2_1 1;
     mkUse FUNCUNIT_func_addsub_s8x2_2 1; mkUse FUNCUNIT_func_addsub_s8x2_3 1;
     mkUse FUNCUNIT_func_addsub_s8x2_4 1; mkUse FUNCUNIT_func_addsub_s8x2_5 1;
     mkUse FUNCUNIT_func_addsub_s8x2_6 1; mkUse FUNCUNIT_func_addsub_s8x2_7 1;
     mkUse FUNCUNIT_func_addsub_s16x2_0 1; mkUse FUNCUNIT_func_addsub_s16x2_1 1;
     mkUse FUNCUNIT_func_addsub_s16x2_2 1; mkUse FUNCUNIT_func_addsub_s16x2_3 1;
     mkUse FUNCUNIT_func_addsub_s16x2_4 1; mkUse FUNCUNIT_func_addsub_s16x2_5 1;
     mkUse FUNCUNIT_func_addsub_s16x2_6 1; mkUse FUNCUNIT_func_addsub_s16x2_7 1;
     mkUse FUNCUNIT_func_addsub_s32x2_slot0_0 1; mkUse FUNCUNIT_func_addsub_s32x2_slot0_1 1;
     mkUse FUNCUNIT_func_addsub_s32x2_slot0_2 1; mkUse FUNCUNIT_func_addsub_s32x2_slot0_3 1;
     mkUse FUNCUNIT_func_mul_s8xs8_0 1; mkUse FUNCUNIT_func_mul_s8xs8_1 1;
     mkUse FUNCUNIT_func_mul_s8xs8_2 1; mkUse FUNCUNIT_func_mul_s8xs8_3 1;
     mkUse FUNCUNIT_func_mul_s8xs8_4 1; mkUse FUNCUNIT_func_mul_s8xs8_5 1;
     mkUse FUNCUNIT_func_mul_s8xs8_6 1; mkUse FUNCUNIT_func_mul_s8xs8_7 1;
     mkUse FUNCUNIT_func_mul_s16xs16_0 1; mkUse FUNCUNIT_func_mul_s16xs16_1 1;
     mkUse FUNCUNIT_func_mul_s16xs16_2 1; mkUse FUNCUNIT_func_mul_s16xs16_3 1;
     mkUse FUNCUNIT_func_mul_s16xs16_4 1; mkUse FUNCUNIT_func_mul_s16xs16_5 1;
     mkUse FUNCUNIT_func_mul_s16xs16_6 1; mkUse FUNCUNIT_func_mul_s16xs16_7 1;
     mkUse FUNCUNIT_func_addsub_s32x2_slot1_extra 2; mkUse FUNCUNIT_func_addsub_s32x2_slot1_2 2;
     mkUse FUNCUNIT_func_addsub_s32x2_slot1_1 2; mkUse FUNCUNIT_func_addsub_s32x2_slot1_0 2;
     mkUse FUNCUNIT_func_addsub_s20x2_slot_end_0 2; mkUse FUNCUNIT_func_addsub_s20x2_slot_end_1 2;
     mkUse FUNCUNIT_func_addsub_s20x2_slot_end_2 2; mkUse FUNCUNIT_func_addsub_s20x2_slot_end_3 2;
     mkUse FUNCUNIT_func_addsub_s40x2_7 2; mkUse FUNCUNIT_func_addsub_s40x2_6 2;
     mkUse FUNCUNIT_func_addsub_s40x2_5 2; mkUse FUNCUNIT_func_addsub_s40x2_4 2;
     mkUse FUNCUNIT_func_addsub_s40x2_3 2; mkUse FUNCUNIT_func_addsub_s40x2_2 2;
     mkUse FUNCUNIT_func_addsub_s40x2_1 2; mkUse FUNCUNIT_func_addsub_s40x2_0 2;
     mkUse FUNCUNIT_func_shift_s16rs8_0 1; mkUse FUNCUNIT_func_shift_s16rs8_1 1;
     mkUse FUNCUNIT_func_shift_s16rs8_2 1; mkUse FUNCUNIT_func_shift_s16rs8_3 1;
     mkUse FUNCUNIT_func_shift_s16rs8_4 1; mkUse FUNCUNIT_func_shift_s16rs8_5 1;
     mkUse FUNCUNIT_func_shift_s16rs8_6 1; mkUse FUNCUNIT_func_shift_s16rs8_7 1;
     mkUse FUNCUNIT_func_shift_s16rs8_8 1; mkUse FUNCUNIT_func_shift_s16rs8_9 1;
     mkUse FUNCUNIT_func_shift_s16rs8_10 1; mkUse FUNCUNIT_func_shift_s16rs8_11 1;
     mkUse FUNCUNIT_func_shift_s16rs8_12 1; mkUse FUNCUNIT_func_shift_s16rs8_13 1;
     mkUse FUNCUNIT_func_shift_s16rs8_14 1; mkUse FUNCUNIT_func_shift_s16rs8_15 1;
     mkUse FUNCUNIT_func_shift_s32rs16_0 2; mkUse FUNCUNIT_func_shift_s32rs16_1 2;
     mkUse FUNCUNIT_func_shift_s32rs16_2 2; mkUse FUNCUNIT_func_shift_s32rs16_3 2;
     mkUse FUNCUNIT_func_shift_s32rs16_4 1; mkUse FUNCUNIT_func_shift_s32rs16_5 1;
     mkUse FUNCUNIT_func_shift_s32rs16_6 1; mkUse FUNCUNIT_func_shift_s32rs16_7 1])].

Definition s3_uses_120 : list (string * list xtensa_funcUnit_use) := [
  ("Opcode_ee_vcmp_lt_s32_funcUnit_uses", [mkUse FUNCUNIT_func_addsub_s32x2_slot1_3 1;
     mkUse FUNCUNIT_func_addsub_s8x2_0 1; mkUse FUNCUNIT_func_addsub_s8x2_1 1;
     mkUse FUNCUNIT_func_addsub_s8x2_2 1; mkUse FUNCUNIT_func_addsub_s8x2_3 1;
     mkUse FUNCUNIT_func_addsub_s8x2_4 1; mkUse FUNCUNIT_func_addsub_s8x2_5 1;
     mkUse FUNCUNIT_func_addsub_s8x2_6 1; mkUse FUNCUNIT_func_addsub_s8x2_7 1;
     mkUse FUNCUNIT_func_addsub_s16x2_0 1; mkUse FUNCUNIT_func_addsub_s16x2_1 1;
     mkUse FUNCUNIT_func_addsub_s16x2_2 1; mkUse FUNCUNIT_func_addsub_s16x2_3 1;
     mkUse FUNCUNIT_func_addsub_s16x2_4 1; mkUse FUNCUNIT_func_addsub_s16x2_5 1;
     mkUse FUNCUNIT_func_addsub_s16x2_6 1; mkUse FUNCUNIT_func_addsub_s16x2_7 1;
     mkUse FUNCUNIT_func_addsub_s32x2_slot0_0 1; mkUse FUNCUNIT_func_addsub_s32x2_slot0_1 1;
     mkUse FUNCUNIT_func_addsub_s32x2_slot0_2 1; mkUse FUNCUNIT_func_addsub_s32x2_slot0_3 1;
     mkUse FUNCUNIT_func_mul_s8xs8_0 1; mkUse FUNCUNIT_func_mul_s8xs8_1 1;
     mkUse FUNCUNIT_func_mul_s8xs8_2 1; mkUse FUNCUNIT_func_mul_s8xs8_3 1;
     mkUse FUNCUNIT_func_mul_s8xs8_4 1; mkUse FUNCUNIT_func_mul_s8xs8_5 1;
     mkUse FUNCUNIT_func_mul_s8xs8_6 1; mkUse FUNCUNIT_func_mul_s8xs8_7 1;
     mkUse FUNCUNIT_func_mul_s16xs16_0 1; mkUse FUNCUNIT_func_mul_s16xs16_1 1;
     mkUse FUNCUNIT_func_mul_s16xs16_2 1; mkUse FUNCUNIT_func_mul_s16xs16_3 1;
     mkUse FUNCUNIT_func_mul_s16xs16_4 1; mkUse FUNCUNIT_func_mul_s16xs16_5 1;
     mkUse FUNCUNIT_func_mul_s16xs16_6 1; mkUse FUNCUNIT_func_mul_s16xs16_7 1;
     mkUse FUNCUNIT_func_addsub_s32x2_slot1_extra 2; mkUse FUNCUNIT_func_addsub_s32x2_slot1_2 2;
     mkUse FUNCUNIT_func_addsub_s32x2_slot1_1 2; mkUse FUNCUNIT_func_addsub_s32x2_slot1_0 2;
     mkUse FUNCUNIT_func_addsub_s20x2_slot_end_0 2; mkUse FUNCUNIT_func_addsub_s20x2_slot_end_1 2;
     mkUse FUNCUNIT_func_addsub_s20x2_slot_end_2 2; mkUse FUNCUNIT_func_addsub_s20x2_slot_end_3 2;
     mkUse FUNCUNIT_func_addsub_s40x2_7 2; mkUse FUNCUNIT_func_addsub_s40x2_6 2;
     mkUse FUNCUNIT_func_addsub_s40x2_5 2; mkUse FUNCUNIT_func_addsub_s40x2_4 2;
     mkUse FUNCUNIT_func_addsub_s40x2_3 2; mkUse FUNCUNIT_func_addsub_s40x2_2 2;
     mkUse FUNCUNIT_func_addsub_s40x2_1 2; mkUse FUNCUNIT_func_addsub_s40x2_0 2;
     mkUse FUNCUNIT_func_shift_s16rs8_0 1; mkUse FUNCUNIT_func_shift_s16rs8_1 1;
     mkUse FUNCUNIT_func_shift_s16rs8_2 1; mkUse FUNCUNIT_func_shift_s16rs8_3 1;
     mkUse FUNCUNIT_func_shift_s16rs8_4 1; mkUse FUNCUNIT_func_shift_s16rs8_5 1;
     mkUse FUNCUNIT_func_shift_s16rs8_6 1; mkUse FUNCUNIT_func_shift_s16rs8_7 1;
     mkUse FUNCUNIT_func_shift_s16rs8_8 1; mkUse FUNCUNIT_func_shift_s16rs8_9 1;
     mkUse FUNCUNIT_func_shift_s16rs8_10 1; mkUse FUNCUNIT_func_shift_s16rs8_11 1;
     mkUse FUNCUNIT_func_shift_s16rs8_12 1; mkUse FUNCUNIT_func_shift_s16rs8_13 1;
     mkUse FUNCUNIT_func_shift_s16rs8_14 1; mkUse FUNCUNIT_func_shift_s16rs8_15 1;
     mkUse FUNCUNIT_func_shift_s32rs16_0 2; mkUse FUNCUNIT_func_shift_s32rs16_1 2;
     mkUse FUNCUNIT_func_shift_s32rs16_2 2; mkUse FUNCUNIT_func_shift_s32rs16_3 2;
     mkUse FUNCUNIT_func_shift_s32rs16_4 1; mkUse FUNCUNIT_func_shift_s32rs16_5 1;
     mkUse FUNCUNIT_func_shift_s32rs16_6 1; mkUse FUNCUNIT_func_shift_s32rs16_7 1])].

Definition s3_uses_121 : list (string * list xtensa_funcUnit_use) := [
  ("Opcode_ee_vcmp_lt_s8_funcUnit_uses", [mkUse FUNCUNIT_func_addsub_s32x2_slot1_3 1;
     mkUse FUNCUNIT_func_addsub_s8x2_0 1; mkUse FUNCUNIT_func_addsub_s8x2_1 1;
     mkUse FUNCUNIT_func_addsub_s8x2_2 1; mkUse FUNCUNIT_func_addsub_s8x2_3 1;
     mkUse FUNCUNIT_func_addsub_s8x2_4 1; mkUse FUNCUNIT_func_addsub_s8x2_5 1;
     mkUse FUNCUNIT_func_addsub_s8x2_6 1; mkUse FUNCUNIT_func_addsub_s8x2_7 1;
     mkUse FUNCUNIT_func_addsub_s16x2_0 1; mkUse FUNCUNIT_func_addsub_s16x2_1 1;
     mkUse FUNCUNIT_func_addsub_s16x2_2 1; mkUse FUNCUNIT_func_addsub_s16x2_3 1;
     mkUse FUNCUNIT_func_addsub_s16x2_4 1; mkUse FUNCUNIT_func_addsub_s16x2_5 1;
     mkUse FUNCUNIT_func_addsub_s16x2_6 1; mkUse FUNCUNIT_func_addsub_s16x2_7 1;
     mkUse FUNCUNIT_func_addsub_s32x2_slot0_0 1; mkUse FUNCUNIT_func_addsub_s32x2_slot0_1 1;
     mkUse FUNCUNIT_func_addsub_s32x2_slot0_2 1; mkUse FUNCUNIT_func_addsub_s32x2_slot0_3 1;
     mkUse FUNCUNIT_func_mul_s8xs8_0 1; mkUse FUNCUNIT_func_mul_s8xs8_1 1;
     mkUse FUNCUNIT_func_mul_s8xs8_2 1; mkUse FUNCUNIT_func_mul_s8xs8_3 1;
     mkUse FUNCUNIT_func_mul_s8xs8_4 1; mkUse FUNCUNIT_func_mul_s8xs8_5 1;
     mkUse FUNCUNIT_func_mul_s8xs8_6 1; mkUse FUNCUNIT_func_mul_s8xs8_7 1;
     mkUse FUNCUNIT_func_mul_s16xs16_0 1; mkUse FUNCUNIT_func_mul_s16xs16_1 1;
     mkUse FUNCUNIT_func_mul_s16xs16_2 1; mkUse FUNCUNIT_func_mul_s16xs16_3 1;
     mkUse FUNCUNIT_func_mul_s16xs16_4 1; mkUse FUNCUNIT_func_mul_s16xs16_5 1;
     mkUse FUNCUNIT_func_mul_s16xs16_6 1; mkUse FUNCUNIT_func_mul_s16xs16_7 1;
     mkUse FUNCUNIT_func_addsub_s32x2_slot1_extra 2; mkUse FUNCUNIT_func_addsub_s32x2_slot1_2 2;
     mkUse FUNCUNIT_func_addsub_s32x2_slot1_1 2; mkUse FUNCUNIT_func_addsub_s32x2_slot1_0 2;
     mkUse FUNCUNIT_func_addsub_s20x2_slot_end_0 2; mkUse FUNCUNIT_func_addsub_s20x2_slot_end_1 2;
     mkUse FUNCUNIT_func_addsub_s20x2_slot_end_2 2; mkUse FUNCUNIT_func_addsub_s20x2_slot_end_3 2;
     mkUse FUNCUNIT_func_addsub_s40x2_7 2; mkUse FUNCUNIT_func_addsub_s40x2_6 2;
     mkUse FUNCUNIT_func_addsub_s40x2_5 2; mkUse FUNCUNIT_func_addsub_s40x2_4 2;
     mkUse FUNCUNIT_func_addsub_s40x2_3 2; mkUse FUNCUNIT_func_addsub_s40x2_2 2;
     mkUse FUNCUNIT_func_addsub_s40x2_1 2; mkUse FUNCUNIT_func_addsub_s40x2_0 2;
     mkUse FUNCUNIT_func_shift_s16rs8_0 1; mkUse FUNCUNIT_func_shift_s16rs8_1 1;
     mkUse FUNCUNIT_func_shift_s16rs8_2 1; mkUse FUNCUNIT_func_shift_s16rs8_3 1;
     mkUse FUNCUNIT_func_shift_s16rs8_4 1; mkUse FUNCUNIT_func_shift_s16rs8_5 1;
     mkUse FUNCUNIT_func_shift_s16rs8_6 1; mkUse FUNCUNIT_func_shift_s16rs8_7 1;
     mkUse FUNCUNIT_func_shift_s16rs8_8 1; mkUse FUNCUNIT_func_shift_s16rs8_9 1;
     mkUse FUNCUNIT_func_shift_s16rs8_10 1; mkUse FUNCUNIT_func_shift_s16rs8_11 1;
     mkUse FUNCUNIT_func_shift_s16rs8_12 1; mkUse FUNCUNIT_func_shift_s16rs8_13 1;
     mkUse FUNCUNIT_func_shift_s16rs8_14 1; mkUse FUNCUNIT_func_shift_s16rs8_15 1;
     mkUse FUNCUNIT_func_shift_s32rs16_0 2; mkUse FUNCUNIT_func_shift_s32rs16_1 2;
     mkUse FUNCUNIT_func_shift_s32rs16_2 2; mkUse FUNCUNIT_func_shift_s32rs16_3 2;
     mkUse FUNCUNIT_func_shift_s32rs16_4 1; mkUse FUNCUNIT_func_shift_s32rs16_5 1;
     mkUse FUNCUNIT_func_shift_s32rs16_6 1; mkUse FUNCUNIT_func_shift_s32rs16_7 1]);
  ("Opcode_ee_slci_2q_funcUnit_uses", [mkUse FUNCUNIT_func_addsub_s32x2_slot1_3 1]);
  ("Opcode_ee_slcxxp_2q_funcUnit_uses", [mkUse FUNCUNIT_func_addsub_s32x2_slot1_3 1]);
  ("Opcode_ee_srci_2q_funcUnit_uses", [mkUse FUNCUNIT_func_addsub_s32x2_slot1_3 1]);
  ("Opcode_ee_srcq_128_st_incp_funcUnit_uses", [mkUse FUNCUNIT_func_addsub_s32x2_slot1_3 1]);
  ("Opcode_ee_src_q_ld_ip_funcUnit_uses", [mkUse FUNCUNIT_func_addsub_s32x2_slot1_3 1]);
  ("Opcode_ee_src_q_ld_xp_funcUnit_uses", [mkUse FUNCUNIT_func_addsub_s32x2_slot1_3 1]);
  ("Opcode_ee_src_q_qup_funcUnit_uses", [mkUse FUNCUNIT_func_addsub_s32x2_slot1_3 1]);
  ("Opcode_ee_src_q_funcUnit_uses", [mkUse FUNCUNIT_func_addsub_s32x2_slot1_3 1]);
  ("Opcode_ee_srcxxp_2q_funcUnit_uses", [mkUse FUNCUNIT_func_addsub_s32x2_slot1_3 1]);
  ("Opcode_ee_vsl_32_funcUnit_uses", [mkUse FUNCUNIT_func_addsub_s32x2_slot1_3 1]);
  ("Opcode_ee_vsr_32_funcUnit_uses", [mkUse FUNCUNIT_func_addsub_s32x2_slot1_3 1]);
  ("Opcode_ee_fft_r2bf_s16_st_incp_funcUnit_uses", [mkUse FUNCUNIT_func_addsub_s16x2_0 1;
     mkUse FUNCUNIT_func_addsub_s16x2_1 1; mkUse FUNCUNIT_func_addsub_s16x2_2 1;
     mkUse FUNCUNIT_func_addsub_s16x2_3 1; mkUse FUNCUNIT_func_addsub_s16x2_4 1;
     mkUse FUNCUNIT_func_addsub_s16x2_5 1; mkUse FUNCUNIT_func_addsub_s16x2_6 1;
     mkUse FUNCUNIT_func_addsub_s16x2_7 1; mkUse FUNCUNIT_func_addsub_s32x2_slot0_0 1;
     mkUse FUNCUNIT_func_addsub_s32x2_slot0_1 1; mkUse FUNCUNIT_func_addsub_s32x2_slot0_2 1;
     mkUse FUNCUNIT_func_addsub_s32x2_slot0_3 1; mkUse FUNCUNIT_func_addsub_s32x2_slot0_4 1;
     mkUse FUNCUNIT_func_addsub_s32x2_slot0_5 1; mkUse FUNCUNIT_func_addsub_s32x2_slot0_6 1;
     mkUse FUNCUNIT_func_addsub_s32x2_slot0_7 1; mkUse FUNCUNIT_func_addsub_s32x2_slot1_3 1])].

Definition s3_uses_122 : list (string * list xtensa_funcUnit_use) := [
  ("Opcode_ee_fft_r2bf_s16_funcUnit_uses", [mkUse FUNCUNIT_func_addsub_s16x2_0 1;
     mkUse FUNCUNIT_func_addsub_s16x2_1 1; mkUse FUNCUNIT_func_addsub_s16x2_2 1;
     mkUse FUNCUNIT_func_addsub_s16x2_3 1; mkUse FUNCUNIT_func_addsub_s16x2_4 1;
     mkUse FUNCUNIT_func_addsub_s16x2_5 1; mkUse FUNCUNIT_func_addsub_s16x2_6 1;
     mkUse FUNCUNIT_func_addsub_s16x2_7 1; mkUse FUNCUNIT_func_addsub_s32x2_slot0_0 1;
     mkUse FUNCUNIT_func_addsub_s32x2_slot0_1 1; mkUse FUNCUNIT_func_addsub_s32x2_slot0_2 1;
     mkUse FUNCUNIT_func_addsub_s32x2_slot0_3 1; mkUse FUNCUNIT_func_addsub_s32x2_slot0_4 1;
     mkUse FUNCUNIT_func_addsub_s32x2_slot0_5 1; mkUse FUNCUNIT_func_addsub_s32x2_slot0_6 1;
     mkUse FUNCUNIT_func_addsub_s32x2_slot0_7 1; mkUse FUNCUNIT_func_addsub_s32x2_slot1_3 1]);
  ("Opcode_ee_fft_cmul_s16_ld_xp_funcUnit_uses", [mkUse FUNCUNIT_func_mul_s16xs16_0 1;
     mkUse FUNCUNIT_func_mul_s16xs16_1 1; mkUse FUNCUNIT_func_mul_s16xs16_2 1;
     mkUse FUNCUNIT_func_mul_s16xs16_3 1; mkUse FUNCUNIT_func_addsub_s32x2_slot1_0 1;
     mkUse FUNCUNIT_func_addsub_s32x2_slot1_1 1; mkUse FUNCUNIT_func_shift_s32rs16_0 1;
     mkUse FUNCUNIT_func_shift_s32rs16_1 1; mkUse FUNCUNIT_func_addsub_s32x2_slot1_3 1]);
  ("Opcode_ee_fft_cmul_s16_st_xp_funcUnit_uses", [mkUse FUNCUNIT_func_mul_s16xs16_0 1;
     mkUse FUNCUNIT_func_mul_s16xs16_1 1; mkUse FUNCUNIT_func_mul_s16xs16_2 1;
     mkUse FUNCUNIT_func_mul_s16xs16_3 1; mkUse FUNCUNIT_func_addsub_s32x2_slot1_0 1;
     mkUse FUNCUNIT_func_addsub_s32x2_slot1_1 1; mkUse FUNCUNIT_func_shift_s32rs16_0 1;
     mkUse FUNCUNIT_func_shift_s32rs16_1 1; mkUse FUNCUNIT_func_addsub_s32x2_slot1_3 1]);
  ("Opcode_ee_bitrev_funcUnit_uses", [mkUse FUNCUNIT_func_addsub_s16x2_1 1;
     mkUse FUNCUNIT_func_addsub_s16x2_2 1; mkUse FUNCUNIT_func_addsub_s16x2_3 1;
     mkUse FUNCUNIT_func_addsub_s16x2_4 1; mkUse FUNCUNIT_func_addsub_s16x2_5 1;
     mkUse FUNCUNIT_func_addsub_s16x2_6 1; mkUse FUNCUNIT_func_addsub_s16x2_7 1;
     mkUse FUNCUNIT_func_addsub_s16x2_0 1; mkUse FUNCUNIT_func_addsub_s32x2_slot1_3 1]);
  ("Opcode_ee_fft_ams_s16_ld_incp_funcUnit_uses", [mkUse FUNCUNIT_func_addsub_s16x2_0 1;
     mkUse FUNCUNIT_func_addsub_s16x2_1 1; mkUse FUNCUNIT_func_addsub_s16x2_2 1;
     mkUse FUNCUNIT_func_addsub_s16x2_3 1; mkUse FUNCUNIT_func_mul_s16xs16_0 1;
     mkUse FUNCUNIT_func_mul_s16xs16_1 1; mkUse FUNCUNIT_func_mul_s16xs16_2 1;
     mkUse FUNCUNIT_func_mul_s16xs16_3 1; mkUse FUNCUNIT_func_addsub_s32x2_slot1_0 1;
     mkUse FUNCUNIT_func_addsub_s32x2_slot1_1 1; mkUse FUNCUNIT_func_shift_s32rs16_0 1;
     mkUse FUNCUNIT_func_shift_s32rs16_1 1; mkUse FUNCUNIT_func_addsub_s16x2_4 1;
     mkUse FUNCUNIT_func_addsub_s16x2_5 1; mkUse FUNCUNIT_func_addsub_s16x2_6 1;
     mkUse FUNCUNIT_func_addsub_s16x2_7 1; mkUse FUNCUNIT_func_addsub_s32x2_slot1_3 1]);
  ("Opcode_ee_fft_ams_s16_ld_incp_uaup_funcUnit_uses", [mkUse FUNCUNIT_func_addsub_s32x2_slot1_3 1;
     mkUse FUNCUNIT_func_addsub_s16x2_0 1; mkUse FUNCUNIT_func_addsub_s16x2_1 1;
     mkUse FUNCUNIT_func_addsub_s16x2_2 1; mkUse FUNCUNIT_func_addsub_s16x2_3 1;
     mkUse FUNCUNIT_func_mul_s16xs16_0 1; mkUse FUNCUNIT_func_mul_s16xs16_1 1;
     mkUse FUNCUNIT_func_mul_s16xs16_2 1; mkUse FUNCUNIT_func_mul_s16xs16_3 1;
     mkUse FUNCUNIT_func_addsub_s32x2_slot1_0 1; mkUse FUNCUNIT_func_addsub_s32x2_slot1_1 1;
     mkUse FUNCUNIT_func_shift_s32rs16_0 1; mkUse FUNCUNIT_func_shift_s32rs16_1 1;
     mkUse FUNCUNIT_func_addsub_s16x2_4 1; mkUse FUNCUNIT_func_addsub_s16x2_5 1;
     mkUse FUNCUNIT_func_addsub_s16x2_6 1; mkUse FUNCUNIT_func_addsub_s16x2_7 1]);
  ("Opcode_ee_fft_ams_s16_ld_r32_decp_funcUnit_uses", [mkUse FUNCUNIT_func_addsub_s16x2_0 1;
     mkUse FUNCUNIT_func_addsub_s16x2_1 1; mkUse FUNCUNIT_func_addsub_s16x2_2 1;
     mkUse FUNCUNIT_func_addsub_s16x2_3 1; mkUse FUNCUNIT_func_mul_s16xs16_0 1;
     mkUse FUNCUNIT_func_mul_s16xs16_1 1; mkUse FUNCUNIT_func_mul_s16xs16_2 1;
     mkUse FUNCUNIT_func_mul_s16xs16_3 1; mkUse FUNCUNIT_func_addsub_s32x2_slot1_0 1;
     mkUse FUNCUNIT_func_addsub_s32x2_slot1_1 1; mkUse FUNCUNIT_func_shift_s32rs16_0 1;
     mkUse FUNCUNIT_func_shift_s32rs16_1 1; mkUse FUNCUNIT_func_addsub_s16x2_4 1;
     mkUse FUNCUNIT_func_addsub_s16x2_5 1; mkUse FUNCUNIT_func_addsub_s16x2_6 1;
     mkUse FUNCUNIT_func_addsub_s16x2_7 1; mkUse FUNCUNIT_func_addsub_s32x2_slot1_3 1]);
  ("Opcode_ee_fft_ams_s16_st_incp_funcUnit_uses", [mkUse FUNCUNIT_func_addsub_s32x2_slot1_3 1;
     mkUse FUNCUNIT_func_addsub_s16x2_0 1; mkUse FUNCUNIT_func_addsub_s16x2_1 1;
     mkUse FUNCUNIT_func_addsub_s16x2_2 1; mkUse FUNCUNIT_func_addsub_s16x2_3 1;
     mkUse FUNCUNIT_func_mul_s16xs16_0 1; mkUse FUNCUNIT_func_mul_s16xs16_1 1;
     mkUse FUNCUNIT_func_mul_s16xs16_2 1; mkUse FUNCUNIT_func_mul_s16xs16_3 1;
     mkUse FUNCUNIT_func_addsub_s32x2_slot1_0 1; mkUse FUNCUNIT_func_addsub_s32x2_slot1_1 1;
     mkUse FUNCUNIT_func_shift_s32rs16_0 1; mkUse FUNCUNIT_func_shift_s32rs16_1 1;
     mkUse FUNCUNIT_func_addsub_s16x2_4 1; mkUse FUNCUNIT_func_addsub_s16x2_5 1;
     mkUse FUNCUNIT_func_addsub_s16x2_6 1; mkUse FUNCUNIT_func_addsub_s16x2_7 1]);
  ("Opcode_ee_fft_vst_r32_decp_funcUnit_uses", [mkUse FUNCUNIT_func_addsub_s32x2_slot1_3 1])].

Definition s3_uses : list (string * list xtensa_funcUnit_use) :=
  s3_uses_1 ++ s3_uses_2 ++ s3_uses_3 ++ s3_uses_4 ++ s3_uses_5 ++ s3_uses_6 ++ s3_uses_7 ++ s3_uses_8 ++
   s3_uses_9 ++ s3_uses_10 ++ s3_uses_11 ++ s3_uses_12 ++ s3_uses_13 ++ s3_uses_14 ++ s3_uses_15 ++
   s3_uses_16 ++ s3_uses_17 ++ s3_uses_18 ++ s3_uses_19 ++ s3_uses_20 ++ s3_uses_21 ++ s3_uses_22 ++
   s3_uses_23 ++ s3_uses_24 ++ s3_uses_25 ++ s3_uses_26 ++ s3_uses_27 ++ s3_uses_28 ++ s3_uses_29 ++
   s3_uses_30 ++ s3_uses_31 ++ s3_uses_32 ++ s3_uses_33 ++ s3_uses_34 ++ s3_uses_35 ++ s3_uses_36 ++
   s3_uses_37 ++ s3_uses_38 ++ s3_uses_39 ++ s3_uses_40 ++ s3_uses_41 ++ s3_uses_42 ++ s3_uses_43 ++
   s3_uses_44 ++ s3_uses_45 ++ s3_uses_46 ++ s3_uses_47 ++ s3_uses_48 ++ s3_uses_49 ++ s3_uses_50 ++
   s3_uses_51 ++ s3_uses_52 ++ s3_uses_53 ++ s3_uses_54 ++ s3_uses_55 ++ s3_uses_56 ++ s3_uses_57 ++
   s3_uses_58 ++ s3_uses_59 ++ s3_uses_60 ++ s3_uses_61 ++ s3_uses_62 ++ s3_uses_63 ++ s3_uses_64 ++
   s3_uses_65 ++ s3_uses_66 ++ s3_uses_67 ++ s3_uses_68 ++ s3_uses_69 ++ s3_uses_70 ++ s3_uses_71 ++
   s3_uses_72 ++ s3_uses_73 ++ s3_uses_74 ++ s3_uses_75 ++ s3_uses_76 ++ s3_uses_77 ++ s3_uses_78 ++
   s3_uses_79 ++ s3_uses_80 ++ s3_uses_81 ++ s3_uses_82 ++ s3_uses_83 ++ s3_uses_84 ++ s3_uses_85 ++
   s3_uses_86 ++ s3_uses_87 ++ s3_uses_88 ++ s3_uses_89 ++ s3_uses_90 ++ s3_uses_91 ++ s3_uses_92 ++
   s3_uses_93 ++ s3_uses_94 ++ s3_uses_95 ++ s3_uses_96 ++ s3_uses_97 ++ s3_uses_98 ++ s3_uses_99 ++
   s3_uses_100 ++ s3_uses_101 ++ s3_uses_102 ++ s3_uses_103 ++ s3_uses_104 ++ s3_uses_105 ++ s3_uses_106 ++
   s3_uses_107 ++ s3_uses_108 ++ s3_uses_109 ++ s3_uses_110 ++ s3_uses_111 ++ s3_uses_112 ++ s3_uses_113 ++
   s3_uses_114 ++ s3_uses_115 ++ s3_uses_116 ++ s3_uses_117 ++ s3_uses_118 ++ s3_uses_119 ++ s3_uses_120 ++
   s3_uses_121 ++ s3_uses_122.

