(* ===== verification/S3Decoders.v ===== *)
(** * ESP32-S3 ISA module: slot decoders ([target/xtensa/core-esp32s3/xtensa-modules.inc.c])

    The decision tree of the opcode decoder of each slot. *)

From S2P Require Import Prelude Isa IsaPattern S3Fields S3Opcodes.

Definition Slot_inst_decode_1 : list rule := [
  If [(Field_fld_inst_19_16_Slot_inst, [6]); (Field_fld_inst_3_0_Slot_inst, [0])] [Return OPCODE_EE_LDF_64_XP];
  If [(Field_fld_inst_19_16_Slot_inst, [7]); (Field_fld_inst_3_0_Slot_inst, [0])] [Return OPCODE_EE_STF_64_XP];
  If [(Field_fld_inst_23_0_Slot_inst, [2426884])] [Return OPCODE_EE_ZERO_ACCX];
  If [(Field_fld_inst_23_0_Slot_inst, [2426948])] [Return OPCODE_EE_ZERO_QACC];
  If [(Field_fld_inst_23_12_Slot_inst, [1796]); (Field_fld_inst_3_0_Slot_inst, [4])] [Return OPCODE_EE_LDQA_U8_128_XP];
  If [(Field_fld_inst_23_12_Slot_inst, [1812]); (Field_fld_inst_3_0_Slot_inst, [4])] [Return OPCODE_EE_LDQA_S8_128_XP];
  If [(Field_fld_inst_23_12_Slot_inst, [1828]); (Field_fld_inst_3_0_Slot_inst, [4])] [Return OPCODE_EE_WR_MASK_GPIO_OUT];
  If [(Field_fld_inst_23_12_Slot_inst, [1876]); (Field_fld_inst_3_0_Slot_inst, [4])] [Return OPCODE_EE_SET_BIT_GPIO_OUT];
  If [(Field_fld_inst_23_12_Slot_inst, [1892]); (Field_fld_inst_3_0_Slot_inst, [4])] [Return OPCODE_EE_CLR_BIT_GPIO_OUT];
  If [(Field_fld_inst_23_12_Slot_inst, [1956]); (Field_fld_inst_3_0_Slot_inst, [4])] [Return OPCODE_EE_LDQA_U16_128_XP];
  If [(Field_fld_inst_23_12_Slot_inst, [2020]); (Field_fld_inst_3_0_Slot_inst, [4])] [Return OPCODE_EE_LDQA_S16_128_XP];
  If [(Field_fld_inst_23_15_Slot_inst, [20]); (Field_fld_inst_13_13_Slot_inst, [0]); (Field_fld_inst_7_0_Slot_inst, [132])] [Return OPCODE_EE_VMULAS_U16_ACCX];
  If [(Field_fld_inst_23_15_Slot_inst, [20]); (Field_fld_inst_13_13_Slot_inst, [0]); (Field_fld_inst_7_0_Slot_inst, [196])] [Return OPCODE_EE_VMULAS_U8_ACCX];
  If [(Field_fld_inst_23_15_Slot_inst, [20]); (Field_fld_inst_13_13_Slot_inst, [1]); (Field_fld_inst_7_0_Slot_inst, [132])] [Return OPCODE_EE_VMULAS_U16_QACC];
  If [(Field_fld_inst_23_15_Slot_inst, [20]); (Field_fld_inst_13_13_Slot_inst, [1]); (Field_fld_inst_7_0_Slot_inst, [196])] [Return OPCODE_EE_VMULAS_U8_QACC];
  If [(Field_fld_inst_23_15_Slot_inst, [52]); (Field_fld_inst_13_13_Slot_inst, [0]); (Field_fld_inst_7_0_Slot_inst, [132])] [Return OPCODE_EE_VMULAS_S16_ACCX];
  If [(Field_fld_inst_23_15_Slot_inst, [52]); (Field_fld_inst_13_13_Slot_inst, [0]); (Field_fld_inst_7_0_Slot_inst, [196])] [Return OPCODE_EE_VMULAS_S8_ACCX];
  If [(Field_fld_inst_23_15_Slot_inst, [52]); (Field_fld_inst_13_13_Slot_inst, [1]); (Field_fld_inst_7_0_Slot_inst, [132])] [Return OPCODE_EE_VMULAS_S16_QACC];
  If [(Field_fld_inst_23_15_Slot_inst, [52]); (Field_fld_inst_13_13_Slot_inst, [1]); (Field_fld_inst_7_0_Slot_inst, [196])] [Return OPCODE_EE_VMULAS_S8_QACC];
  If [(Field_fld_inst_23_15_Slot_inst, [252]); (Field_fld_inst_13_12_Slot_inst, [1]); (Field_fld_inst_3_0_Slot_inst, [4])] [Return OPCODE_EE_SRS_ACCX];
  If [(Field_fld_inst_23_21_Slot_inst, [4]); (Field_fld_inst_19_16_Slot_inst, [7]); (Field_fld_inst_3_0_Slot_inst, [4])] [Return OPCODE_EE_VMULAS_S16_QACC_LDBC_INCP];
  If [(Field_fld_inst_23_21_Slot_inst, [5]); (Field_fld_inst_19_16_Slot_inst, [7]); (Field_fld_inst_3_0_Slot_inst, [4])] [Return OPCODE_EE_VMULAS_S8_QACC_LDBC_INCP];
  If [(Field_fld_inst_23_21_Slot_inst, [6]); (Field_fld_inst_19_16_Slot_inst, [7]); (Field_fld_inst_3_0_Slot_inst, [4])] [Return OPCODE_EE_VMULAS_U16_QACC_LDBC_INCP];
  If [(Field_fld_inst_23_21_Slot_inst, [7]); (Field_fld_inst_19_16_Slot_inst, [7]); (Field_fld_inst_3_0_Slot_inst, [4])] [Return OPCODE_EE_VMULAS_U8_QACC_LDBC_INCP];
  If [(Field_fld_inst_23_22_Slot_inst, [2]); (Field_fld_inst_19_16_Slot_inst, [15]); (Field_fld_inst_14_12_Slot_inst, [0]); (Field_fld_inst_9_6_Slot_inst, [0]); (Field_fld_inst_4_0_Slot_inst, [4])] [Return OPCODE_mv_QR];
  If [(Field_fld_inst_23_22_Slot_inst, [2]); (Field_fld_inst_19_16_Slot_inst, [13]); (Field_fld_inst_14_12_Slot_inst, [2]); (Field_fld_inst_3_0_Slot_inst, [4])] [Return OPCODE_EE_VLD_128_XP];
  If [(Field_fld_inst_23_22_Slot_inst, [2]); (Field_fld_inst_19_16_Slot_inst, [13]); (Field_fld_inst_14_12_Slot_inst, [6]); (Field_fld_inst_3_0_Slot_inst, [4])] [Return OPCODE_EE_VLD_H_64_XP];
  If [(Field_fld_inst_23_22_Slot_inst, [2]); (Field_fld_inst_19_16_Slot_inst, [13]); (Field_fld_inst_14_12_Slot_inst, [3]); (Field_fld_inst_3_0_Slot_inst, [4])] [Return OPCODE_EE_VLD_L_64_XP];
  If [(Field_fld_inst_23_22_Slot_inst, [2]); (Field_fld_inst_19_16_Slot_inst, [5]); (Field_fld_inst_3_0_Slot_inst, [4])] [Return OPCODE_EE_VLDBC_16_IP];
  If [(Field_fld_inst_23_22_Slot_inst, [2]); (Field_fld_inst_19_16_Slot_inst, [13]); (Field_fld_inst_14_12_Slot_inst, [4]); (Field_fld_inst_3_0_Slot_inst, [4])] [Return OPCODE_EE_VLDBC_16_XP];
  If [(Field_fld_inst_23_22_Slot_inst, [2]); (Field_fld_inst_19_16_Slot_inst, [13]); (Field_fld_inst_14_12_Slot_inst, [1]); (Field_fld_inst_3_0_Slot_inst, [4])] [Return OPCODE_EE_VLDBC_32_XP];
  If [(Field_fld_inst_23_22_Slot_inst, [2]); (Field_fld_inst_19_16_Slot_inst, [13]); (Field_fld_inst_14_12_Slot_inst, [5]); (Field_fld_inst_3_0_Slot_inst, [4])] [Return OPCODE_EE_VLDBC_8_XP];
  If [(Field_fld_inst_23_22_Slot_inst, [2]); (Field_fld_inst_19_16_Slot_inst, [13]); (Field_fld_inst_14_12_Slot_inst, [0]); (Field_fld_inst_3_0_Slot_inst, [4])] [Return OPCODE_EE_LD_128_USAR_XP];
  If [(Field_fld_inst_23_22_Slot_inst, [2]); (Field_fld_inst_19_16_Slot_inst, [13]); (Field_fld_inst_14_12_Slot_inst, [7]); (Field_fld_inst_3_0_Slot_inst, [4])] [Return OPCODE_EE_VST_128_XP];
  If [(Field_fld_inst_23_22_Slot_inst, [2]); (Field_fld_inst_19_16_Slot_inst, [14]); (Field_fld_inst_13_13_Slot_inst, [0]); (Field_fld_inst_7_0_Slot_inst, [100])] [Return OPCODE_EE_VADDS_S16];
  If [(Field_fld_inst_23_22_Slot_inst, [2]); (Field_fld_inst_19_16_Slot_inst, [14]); (Field_fld_inst_13_13_Slot_inst, [0]); (Field_fld_inst_7_0_Slot_inst, [116])] [Return OPCODE_EE_VADDS_S32];
  If [(Field_fld_inst_23_22_Slot_inst, [2]); (Field_fld_inst_19_16_Slot_inst, [14]); (Field_fld_inst_13_13_Slot_inst, [0]); (Field_fld_inst_7_0_Slot_inst, [132])] [Return OPCODE_EE_VADDS_S8]].

Definition Slot_inst_decode_2 : list rule := [
  If [(Field_fld_inst_23_22_Slot_inst, [2]); (Field_fld_inst_19_16_Slot_inst, [14]); (Field_fld_inst_13_13_Slot_inst, [1]); (Field_fld_inst_7_0_Slot_inst, [212])] [Return OPCODE_EE_VSUBS_S16];
  If [(Field_fld_inst_23_22_Slot_inst, [2]); (Field_fld_inst_19_16_Slot_inst, [14]); (Field_fld_inst_13_13_Slot_inst, [1]); (Field_fld_inst_7_0_Slot_inst, [228])] [Return OPCODE_EE_VSUBS_S32];
  If [(Field_fld_inst_23_22_Slot_inst, [2]); (Field_fld_inst_19_16_Slot_inst, [14]); (Field_fld_inst_13_13_Slot_inst, [1]); (Field_fld_inst_7_0_Slot_inst, [244])] [Return OPCODE_EE_VSUBS_S8];
  If [(Field_fld_inst_23_22_Slot_inst, [2]); (Field_fld_inst_19_16_Slot_inst, [14]); (Field_fld_inst_13_13_Slot_inst, [1]); (Field_fld_inst_7_0_Slot_inst, [132])] [Return OPCODE_EE_VMUL_S16];
  If [(Field_fld_inst_23_22_Slot_inst, [2]); (Field_fld_inst_19_16_Slot_inst, [14]); (Field_fld_inst_13_13_Slot_inst, [1]); (Field_fld_inst_7_0_Slot_inst, [148])] [Return OPCODE_EE_VMUL_S8];
  If [(Field_fld_inst_23_22_Slot_inst, [2]); (Field_fld_inst_19_16_Slot_inst, [14]); (Field_fld_inst_13_13_Slot_inst, [1]); (Field_fld_inst_7_0_Slot_inst, [164])] [Return OPCODE_EE_VMUL_U16];
  If [(Field_fld_inst_23_22_Slot_inst, [2]); (Field_fld_inst_19_16_Slot_inst, [14]); (Field_fld_inst_13_13_Slot_inst, [1]); (Field_fld_inst_7_0_Slot_inst, [180])] [Return OPCODE_EE_VMUL_U8];
  If [(Field_fld_inst_23_22_Slot_inst, [2]); (Field_fld_inst_19_16_Slot_inst, [14]); (Field_fld_inst_13_13_Slot_inst, [0]); (Field_fld_inst_7_6_Slot_inst, [0]); (Field_fld_inst_3_0_Slot_inst, [4])] [Return OPCODE_EE_CMUL_S16];
  If [(Field_fld_inst_23_22_Slot_inst, [2]); (Field_fld_inst_19_16_Slot_inst, [14]); (Field_fld_inst_13_13_Slot_inst, [1]); (Field_fld_inst_7_0_Slot_inst, [196])] [Return OPCODE_EE_VSMULAS_S16_QACC];
  If [(Field_fld_inst_23_22_Slot_inst, [2]); (Field_fld_inst_19_16_Slot_inst, [14]); (Field_fld_inst_13_13_Slot_inst, [0]); (Field_fld_inst_7_5_Slot_inst, [2]); (Field_fld_inst_3_0_Slot_inst, [4])] [Return OPCODE_EE_VSMULAS_S8_QACC];
  If [(Field_fld_inst_23_22_Slot_inst, [2]); (Field_fld_inst_19_16_Slot_inst, [12]); (Field_fld_inst_13_13_Slot_inst, [0]); (Field_fld_inst_3_0_Slot_inst, [4])] [Return OPCODE_EE_VPRELU_S16];
  If [(Field_fld_inst_23_22_Slot_inst, [2]); (Field_fld_inst_19_16_Slot_inst, [12]); (Field_fld_inst_13_13_Slot_inst, [1]); (Field_fld_inst_3_0_Slot_inst, [4])] [Return OPCODE_EE_VPRELU_S8];
  If [(Field_fld_inst_23_22_Slot_inst, [2]); (Field_fld_inst_19_16_Slot_inst, [14]); (Field_fld_inst_13_13_Slot_inst, [1]); (Field_fld_inst_7_0_Slot_inst, [36])] [Return OPCODE_EE_VMAX_S16];
  If [(Field_fld_inst_23_22_Slot_inst, [2]); (Field_fld_inst_19_16_Slot_inst, [14]); (Field_fld_inst_13_13_Slot_inst, [1]); (Field_fld_inst_7_0_Slot_inst, [52])] [Return OPCODE_EE_VMAX_S32];
  If [(Field_fld_inst_23_22_Slot_inst, [2]); (Field_fld_inst_19_16_Slot_inst, [14]); (Field_fld_inst_13_13_Slot_inst, [1]); (Field_fld_inst_7_0_Slot_inst, [68])] [Return OPCODE_EE_VMAX_S8];
  If [(Field_fld_inst_23_22_Slot_inst, [2]); (Field_fld_inst_19_16_Slot_inst, [14]); (Field_fld_inst_13_13_Slot_inst, [1]); (Field_fld_inst_7_0_Slot_inst, [84])] [Return OPCODE_EE_VMIN_S16];
  If [(Field_fld_inst_23_22_Slot_inst, [2]); (Field_fld_inst_19_16_Slot_inst, [14]); (Field_fld_inst_13_13_Slot_inst, [1]); (Field_fld_inst_7_0_Slot_inst, [100])] [Return OPCODE_EE_VMIN_S32];
  If [(Field_fld_inst_23_22_Slot_inst, [2]); (Field_fld_inst_19_16_Slot_inst, [14]); (Field_fld_inst_13_13_Slot_inst, [1]); (Field_fld_inst_7_0_Slot_inst, [116])] [Return OPCODE_EE_VMIN_S8];
  If [(Field_fld_inst_23_22_Slot_inst, [2]); (Field_fld_inst_19_16_Slot_inst, [14]); (Field_fld_inst_13_13_Slot_inst, [0]); (Field_fld_inst_7_0_Slot_inst, [148])] [Return OPCODE_EE_VCMP_EQ_S16];
  If [(Field_fld_inst_23_22_Slot_inst, [2]); (Field_fld_inst_19_16_Slot_inst, [14]); (Field_fld_inst_13_13_Slot_inst, [0]); (Field_fld_inst_7_0_Slot_inst, [164])] [Return OPCODE_EE_VCMP_EQ_S32];
  If [(Field_fld_inst_23_22_Slot_inst, [2]); (Field_fld_inst_19_16_Slot_inst, [14]); (Field_fld_inst_13_13_Slot_inst, [0]); (Field_fld_inst_7_0_Slot_inst, [180])] [Return OPCODE_EE_VCMP_EQ_S8];
  If [(Field_fld_inst_23_22_Slot_inst, [2]); (Field_fld_inst_19_16_Slot_inst, [14]); (Field_fld_inst_13_13_Slot_inst, [0]); (Field_fld_inst_7_0_Slot_inst, [196])] [Return OPCODE_EE_VCMP_GT_S16];
  If [(Field_fld_inst_23_22_Slot_inst, [2]); (Field_fld_inst_19_16_Slot_inst, [14]); (Field_fld_inst_13_13_Slot_inst, [0]); (Field_fld_inst_7_0_Slot_inst, [212])] [Return OPCODE_EE_VCMP_GT_S32];
  If [(Field_fld_inst_23_22_Slot_inst, [2]); (Field_fld_inst_19_16_Slot_inst, [14]); (Field_fld_inst_13_13_Slot_inst, [0]); (Field_fld_inst_7_0_Slot_inst, [228])] [Return OPCODE_EE_VCMP_GT_S8];
  If [(Field_fld_inst_23_22_Slot_inst, [2]); (Field_fld_inst_19_16_Slot_inst, [14]); (Field_fld_inst_13_13_Slot_inst, [0]); (Field_fld_inst_7_0_Slot_inst, [244])] [Return OPCODE_EE_VCMP_LT_S16];
  If [(Field_fld_inst_23_22_Slot_inst, [2]); (Field_fld_inst_19_16_Slot_inst, [14]); (Field_fld_inst_13_13_Slot_inst, [1]); (Field_fld_inst_7_0_Slot_inst, [4])] [Return OPCODE_EE_VCMP_LT_S32];
  If [(Field_fld_inst_23_22_Slot_inst, [2]); (Field_fld_inst_19_16_Slot_inst, [14]); (Field_fld_inst_13_13_Slot_inst, [1]); (Field_fld_inst_7_0_Slot_inst, [20])] [Return OPCODE_EE_VCMP_LT_S8];
  If [(Field_fld_inst_23_22_Slot_inst, [2]); (Field_fld_inst_19_16_Slot_inst, [6]); (Field_fld_inst_3_0_Slot_inst, [4])] [Return OPCODE_EE_SLCXXP_2Q];
  If [(Field_fld_inst_23_22_Slot_inst, [3]); (Field_fld_inst_19_16_Slot_inst, [13]); (Field_fld_inst_14_12_Slot_inst, [6]); (Field_fld_inst_3_0_Slot_inst, [4])] [Return OPCODE_st_QR]].

Definition Slot_inst_decode_3 : list rule := [
  If [(Field_fld_inst_23_22_Slot_inst, [3]); (Field_fld_inst_19_16_Slot_inst, [13]); (Field_fld_inst_14_12_Slot_inst, [2]); (Field_fld_inst_3_0_Slot_inst, [4])] [Return OPCODE_ld_QR];
  If [(Field_fld_inst_23_22_Slot_inst, [3]); (Field_fld_inst_19_16_Slot_inst, [13]); (Field_fld_inst_14_8_Slot_inst, [115]); (Field_fld_inst_3_0_Slot_inst, [4])] [Return OPCODE_EE_VLDBC_16];
  If [(Field_fld_inst_23_22_Slot_inst, [3]); (Field_fld_inst_19_16_Slot_inst, [13]); (Field_fld_inst_14_8_Slot_inst, [119]); (Field_fld_inst_3_0_Slot_inst, [4])] [Return OPCODE_EE_VLDBC_32];
  If [(Field_fld_inst_23_22_Slot_inst, [3]); (Field_fld_inst_19_16_Slot_inst, [5]); (Field_fld_inst_3_0_Slot_inst, [4])] [Return OPCODE_EE_VLDBC_8_IP];
  If [(Field_fld_inst_23_22_Slot_inst, [3]); (Field_fld_inst_19_16_Slot_inst, [13]); (Field_fld_inst_14_8_Slot_inst, [59]); (Field_fld_inst_3_0_Slot_inst, [4])] [Return OPCODE_EE_VLDBC_8];
  If [(Field_fld_inst_23_22_Slot_inst, [3]); (Field_fld_inst_19_16_Slot_inst, [12]); (Field_fld_inst_11_8_Slot_inst, [2]); (Field_fld_inst_3_0_Slot_inst, [4])] [Return OPCODE_EE_VLDHBC_16_INCP];
  If [(Field_fld_inst_23_22_Slot_inst, [3]); (Field_fld_inst_19_16_Slot_inst, [13]); (Field_fld_inst_14_12_Slot_inst, [0]); (Field_fld_inst_3_0_Slot_inst, [4])] [Return OPCODE_EE_VST_H_64_XP];
  If [(Field_fld_inst_23_22_Slot_inst, [3]); (Field_fld_inst_19_16_Slot_inst, [13]); (Field_fld_inst_14_12_Slot_inst, [4]); (Field_fld_inst_3_0_Slot_inst, [4])] [Return OPCODE_EE_VST_L_64_XP];
  If [(Field_fld_inst_23_22_Slot_inst, [3]); (Field_fld_inst_19_16_Slot_inst, [13]); (Field_fld_inst_14_12_Slot_inst, [7]); (Field_fld_inst_9_8_Slot_inst, [1]); (Field_fld_inst_3_0_Slot_inst, [4])] [Return OPCODE_EE_MOVI_32_A];
  If [(Field_fld_inst_23_22_Slot_inst, [3]); (Field_fld_inst_19_16_Slot_inst, [13]); (Field_fld_inst_14_12_Slot_inst, [3]); (Field_fld_inst_9_8_Slot_inst, [2]); (Field_fld_inst_3_0_Slot_inst, [4])] [Return OPCODE_EE_MOVI_32_Q];
  If [(Field_fld_inst_23_22_Slot_inst, [3]); (Field_fld_inst_19_16_Slot_inst, [12]); (Field_fld_inst_11_0_Slot_inst, [948])] [Return OPCODE_EE_VZIP_16];
  If [(Field_fld_inst_23_22_Slot_inst, [3]); (Field_fld_inst_19_16_Slot_inst, [12]); (Field_fld_inst_11_0_Slot_inst, [964])] [Return OPCODE_EE_VZIP_32];
  If [(Field_fld_inst_23_22_Slot_inst, [3]); (Field_fld_inst_19_16_Slot_inst, [12]); (Field_fld_inst_11_0_Slot_inst, [980])] [Return OPCODE_EE_VZIP_8];
  If [(Field_fld_inst_23_22_Slot_inst, [3]); (Field_fld_inst_19_16_Slot_inst, [12]); (Field_fld_inst_11_0_Slot_inst, [900])] [Return OPCODE_EE_VUNZIP_16];
  If [(Field_fld_inst_23_22_Slot_inst, [3]); (Field_fld_inst_19_16_Slot_inst, [12]); (Field_fld_inst_11_0_Slot_inst, [916])] [Return OPCODE_EE_VUNZIP_32];
  If [(Field_fld_inst_23_22_Slot_inst, [3]); (Field_fld_inst_19_16_Slot_inst, [12]); (Field_fld_inst_11_0_Slot_inst, [932])] [Return OPCODE_EE_VUNZIP_8];
  If [(Field_fld_inst_23_22_Slot_inst, [3]); (Field_fld_inst_19_16_Slot_inst, [13]); (Field_fld_inst_14_0_Slot_inst, [32676])] [Return OPCODE_EE_ZERO_Q];
  If [(Field_fld_inst_23_22_Slot_inst, [3]); (Field_fld_inst_19_16_Slot_inst, [13]); (Field_fld_inst_14_0_Slot_inst, [32548])] [Return OPCODE_EE_MOV_S16_QACC];
  If [(Field_fld_inst_23_22_Slot_inst, [3]); (Field_fld_inst_19_16_Slot_inst, [13]); (Field_fld_inst_14_0_Slot_inst, [32564])] [Return OPCODE_EE_MOV_S8_QACC];
  If [(Field_fld_inst_23_22_Slot_inst, [3]); (Field_fld_inst_19_16_Slot_inst, [13]); (Field_fld_inst_14_0_Slot_inst, [32612])] [Return OPCODE_EE_MOV_U16_QACC];
  If [(Field_fld_inst_23_22_Slot_inst, [3]); (Field_fld_inst_19_16_Slot_inst, [13]); (Field_fld_inst_14_0_Slot_inst, [32628])] [Return OPCODE_EE_MOV_U8_QACC];
  If [(Field_fld_inst_23_22_Slot_inst, [3]); (Field_fld_inst_19_16_Slot_inst, [13]); (Field_fld_inst_14_11_Slot_inst, [14]); (Field_fld_inst_9_8_Slot_inst, [2]); (Field_fld_inst_3_0_Slot_inst, [4])] [Return OPCODE_EE_SRCMB_S16_QACC];
  If [(Field_fld_inst_23_22_Slot_inst, [3]); (Field_fld_inst_19_16_Slot_inst, [13]); (Field_fld_inst_14_11_Slot_inst, [15]); (Field_fld_inst_9_8_Slot_inst, [2]); (Field_fld_inst_3_0_Slot_inst, [4])] [Return OPCODE_EE_SRCMB_S8_QACC];
  If [(Field_fld_inst_23_22_Slot_inst, [3]); (Field_fld_inst_19_16_Slot_inst, [13]); (Field_fld_inst_14_12_Slot_inst, [1]); (Field_fld_inst_3_0_Slot_inst, [4])] [Return OPCODE_EE_VRELU_S16];
  If [(Field_fld_inst_23_22_Slot_inst, [3]); (Field_fld_inst_19_16_Slot_inst, [13]); (Field_fld_inst_14_12_Slot_inst, [5]); (Field_fld_inst_3_0_Slot_inst, [4])] [Return OPCODE_EE_VRELU_S8];
  If [(Field_fld_inst_23_22_Slot_inst, [3]); (Field_fld_inst_19_16_Slot_inst, [13]); (Field_fld_inst_14_12_Slot_inst, [3]); (Field_fld_inst_9_8_Slot_inst, [0]); (Field_fld_inst_3_0_Slot_inst, [4])] [Return OPCODE_EE_ANDQ];
  If [(Field_fld_inst_23_22_Slot_inst, [3]); (Field_fld_inst_19_16_Slot_inst, [13]); (Field_fld_inst_14_8_Slot_inst, [127]); (Field_fld_inst_5_5_Slot_inst, [0]); (Field_fld_inst_3_0_Slot_inst, [4])] [Return OPCODE_EE_NOTQ];
  If [(Field_fld_inst_23_22_Slot_inst, [3]); (Field_fld_inst_19_16_Slot_inst, [13]); (Field_fld_inst_14_12_Slot_inst, [7]); (Field_fld_inst_9_8_Slot_inst, [0]); (Field_fld_inst_3_0_Slot_inst, [4])] [Return OPCODE_EE_ORQ];
  If [(Field_fld_inst_23_22_Slot_inst, [3]); (Field_fld_inst_19_16_Slot_inst, [13]); (Field_fld_inst_14_12_Slot_inst, [3]); (Field_fld_inst_9_8_Slot_inst, [1]); (Field_fld_inst_3_0_Slot_inst, [4])] [Return OPCODE_EE_XORQ];
  If [(Field_fld_inst_23_22_Slot_inst, [3]); (Field_fld_inst_19_16_Slot_inst, [12]); (Field_fld_inst_11_8_Slot_inst, [6]); (Field_fld_inst_3_0_Slot_inst, [4])] [Return OPCODE_EE_SLCI_2Q]].

Definition Slot_inst_decode_4 : list rule := [
  If [(Field_fld_inst_23_22_Slot_inst, [3]); (Field_fld_inst_19_16_Slot_inst, [12]); (Field_fld_inst_11_8_Slot_inst, [10]); (Field_fld_inst_3_0_Slot_inst, [4])] [Return OPCODE_EE_SRCI_2Q];
  If [(Field_fld_inst_23_22_Slot_inst, [3]); (Field_fld_inst_19_16_Slot_inst, [12]); (Field_fld_inst_11_8_Slot_inst, [14]); (Field_fld_inst_3_0_Slot_inst, [4])] [Return OPCODE_EE_SRCQ_128_ST_INCP];
  If [(Field_fld_inst_23_22_Slot_inst, [3]); (Field_fld_inst_19_16_Slot_inst, [12]); (Field_fld_inst_11_7_Slot_inst, [14]); (Field_fld_inst_3_0_Slot_inst, [4])] [Return OPCODE_EE_SRC_Q_QUP];
  If [(Field_fld_inst_23_22_Slot_inst, [3]); (Field_fld_inst_19_16_Slot_inst, [12]); (Field_fld_inst_11_7_Slot_inst, [6]); (Field_fld_inst_3_0_Slot_inst, [4])] [Return OPCODE_EE_SRC_Q];
  If [(Field_fld_inst_23_22_Slot_inst, [3]); (Field_fld_inst_19_16_Slot_inst, [6]); (Field_fld_inst_3_0_Slot_inst, [4])] [Return OPCODE_EE_SRCXXP_2Q];
  If [(Field_fld_inst_23_22_Slot_inst, [3]); (Field_fld_inst_19_16_Slot_inst, [13]); (Field_fld_inst_14_7_Slot_inst, [126]); (Field_fld_inst_3_0_Slot_inst, [4])] [Return OPCODE_EE_VSL_32];
  If [(Field_fld_inst_23_22_Slot_inst, [3]); (Field_fld_inst_19_16_Slot_inst, [13]); (Field_fld_inst_14_7_Slot_inst, [127]); (Field_fld_inst_3_0_Slot_inst, [4])] [Return OPCODE_EE_VSR_32];
  If [(Field_fld_inst_23_22_Slot_inst, [3]); (Field_fld_inst_19_16_Slot_inst, [12]); (Field_fld_inst_9_9_Slot_inst, [0]); (Field_fld_inst_3_0_Slot_inst, [4])] [Return OPCODE_EE_FFT_R2BF_S16];
  If [(Field_fld_inst_23_22_Slot_inst, [3]); (Field_fld_inst_19_16_Slot_inst, [13]); (Field_fld_inst_14_8_Slot_inst, [123]); (Field_fld_inst_3_0_Slot_inst, [4])] [Return OPCODE_EE_BITREV];
  If [(Field_fld_inst_23_22_Slot_inst, [3]); (Field_fld_inst_19_16_Slot_inst, [13]); (Field_fld_inst_14_11_Slot_inst, [6]); (Field_fld_inst_9_8_Slot_inst, [3]); (Field_fld_inst_3_0_Slot_inst, [4])] [Return OPCODE_EE_FFT_VST_R32_DECP];
  If [(Field_fld_inst_23_23_Slot_inst, [0]); (Field_fld_inst_21_15_Slot_inst, [2]); (Field_fld_inst_3_0_Slot_inst, [4])] [Return OPCODE_EE_LDQA_S16_128_IP];
  If [(Field_fld_inst_23_23_Slot_inst, [0]); (Field_fld_inst_21_15_Slot_inst, [34]); (Field_fld_inst_3_0_Slot_inst, [4])] [Return OPCODE_EE_LDQA_S8_128_IP];
  If [(Field_fld_inst_23_23_Slot_inst, [0]); (Field_fld_inst_21_15_Slot_inst, [10]); (Field_fld_inst_3_0_Slot_inst, [4])] [Return OPCODE_EE_LDQA_U16_128_IP];
  If [(Field_fld_inst_23_23_Slot_inst, [0]); (Field_fld_inst_21_15_Slot_inst, [42]); (Field_fld_inst_3_0_Slot_inst, [4])] [Return OPCODE_EE_LDQA_U8_128_IP];
  If [(Field_fld_inst_23_23_Slot_inst, [0]); (Field_fld_inst_21_15_Slot_inst, [60]); (Field_fld_inst_3_0_Slot_inst, [4])] [Return OPCODE_EE_LD_QACC_H_H_32_IP];
  If [(Field_fld_inst_23_23_Slot_inst, [0]); (Field_fld_inst_21_15_Slot_inst, [12]); (Field_fld_inst_3_0_Slot_inst, [4])] [Return OPCODE_EE_LD_QACC_H_L_128_IP];
  If [(Field_fld_inst_23_23_Slot_inst, [0]); (Field_fld_inst_21_15_Slot_inst, [44]); (Field_fld_inst_3_0_Slot_inst, [4])] [Return OPCODE_EE_LD_QACC_L_H_32_IP];
  If [(Field_fld_inst_23_23_Slot_inst, [0]); (Field_fld_inst_21_15_Slot_inst, [0]); (Field_fld_inst_3_0_Slot_inst, [4])] [Return OPCODE_EE_LD_QACC_L_L_128_IP];
  If [(Field_fld_inst_23_23_Slot_inst, [0]); (Field_fld_inst_21_15_Slot_inst, [28]); (Field_fld_inst_3_0_Slot_inst, [4])] [Return OPCODE_EE_LD_ACCX_IP];
  If [(Field_fld_inst_23_23_Slot_inst, [0]); (Field_fld_inst_21_15_Slot_inst, [32]); (Field_fld_inst_3_0_Slot_inst, [4])] [Return OPCODE_EE_LD_UA_STATE_IP];
  If [(Field_fld_inst_23_23_Slot_inst, [0]); (Field_fld_inst_21_15_Slot_inst, [56]); (Field_fld_inst_3_0_Slot_inst, [4])] [Return OPCODE_EE_ST_UA_STATE_IP];
  If [(Field_fld_inst_23_23_Slot_inst, [0]); (Field_fld_inst_21_15_Slot_inst, [36]); (Field_fld_inst_3_0_Slot_inst, [4])] [Return OPCODE_EE_ST_QACC_H_H_32_IP];
  If [(Field_fld_inst_23_23_Slot_inst, [0]); (Field_fld_inst_21_15_Slot_inst, [26]); (Field_fld_inst_3_0_Slot_inst, [4])] [Return OPCODE_EE_ST_QACC_H_L_128_IP];
  If [(Field_fld_inst_23_23_Slot_inst, [0]); (Field_fld_inst_21_15_Slot_inst, [58]); (Field_fld_inst_3_0_Slot_inst, [4])] [Return OPCODE_EE_ST_QACC_L_H_32_IP];
  If [(Field_fld_inst_23_23_Slot_inst, [0]); (Field_fld_inst_21_15_Slot_inst, [24]); (Field_fld_inst_3_0_Slot_inst, [4])] [Return OPCODE_EE_ST_QACC_L_L_128_IP];
  If [(Field_fld_inst_23_23_Slot_inst, [0]); (Field_fld_inst_21_15_Slot_inst, [4]); (Field_fld_inst_3_0_Slot_inst, [4])] [Return OPCODE_EE_ST_ACCX_IP];
  If [(Field_fld_inst_23_23_Slot_inst, [1]); (Field_fld_inst_19_16_Slot_inst, [3]); (Field_fld_inst_3_0_Slot_inst, [4])] [Return OPCODE_EE_VLD_128_IP];
  If [(Field_fld_inst_23_23_Slot_inst, [1]); (Field_fld_inst_19_16_Slot_inst, [8]); (Field_fld_inst_3_0_Slot_inst, [4])] [Return OPCODE_EE_VLD_H_64_IP];
  If [(Field_fld_inst_23_23_Slot_inst, [1]); (Field_fld_inst_19_16_Slot_inst, [9]); (Field_fld_inst_3_0_Slot_inst, [4])] [Return OPCODE_EE_VLD_L_64_IP];
  If [(Field_fld_inst_23_23_Slot_inst, [1]); (Field_fld_inst_19_16_Slot_inst, [2]); (Field_fld_inst_3_0_Slot_inst, [4])] [Return OPCODE_EE_VLDBC_32_IP];
  If [(Field_fld_inst_23_23_Slot_inst, [1]); (Field_fld_inst_19_16_Slot_inst, [1]); (Field_fld_inst_3_0_Slot_inst, [4])] [Return OPCODE_EE_LD_128_USAR_IP];
  If [(Field_fld_inst_23_23_Slot_inst, [1]); (Field_fld_inst_19_16_Slot_inst, [10]); (Field_fld_inst_3_0_Slot_inst, [4])] [Return OPCODE_EE_VST_128_IP];
  If [(Field_fld_inst_23_23_Slot_inst, [1]); (Field_fld_inst_19_16_Slot_inst, [11]); (Field_fld_inst_3_0_Slot_inst, [4])] [Return OPCODE_EE_VST_H_64_IP];
  If [(Field_fld_inst_23_23_Slot_inst, [1]); (Field_fld_inst_19_16_Slot_inst, [4]); (Field_fld_inst_3_0_Slot_inst, [4])] [Return OPCODE_EE_VST_L_64_IP];
  If [(Field_fld_inst_23_8_Slot_inst, [25864]); (Field_fld_inst_3_0_Slot_inst, [4])] [Return OPCODE_EE_GET_GPIO_IN]].

Definition Slot_inst_decode_5 : list rule := [
  If [(Field_op2_Slot_inst, [0])] [
    If [(Field_r_Slot_inst, [0])] [
      If [(Field_m_Slot_inst, [0]); (Field_s_Slot_inst, [0]); (Field_n_Slot_inst, [0])] [Return OPCODE_ILL];
      If [(Field_m_Slot_inst, [2])] [
        If [(Field_n_Slot_inst, [0])] [Return OPCODE_RET];
        If [(Field_n_Slot_inst, [1])] [Return OPCODE_RETW];
        If [(Field_n_Slot_inst, [2])] [Return OPCODE_JX]];
      If [(Field_m_Slot_inst, [3])] [
        If [(Field_n_Slot_inst, [0])] [Return OPCODE_CALLX0];
        If [(Field_n_Slot_inst, [1])] [Return OPCODE_CALLX4];
        If [(Field_n_Slot_inst, [2])] [Return OPCODE_CALLX8];
        If [(Field_n_Slot_inst, [3])] [Return OPCODE_CALLX12]]];
    If [(Field_r_Slot_inst, [1])] [Return OPCODE_MOVSP];
    If [(Field_r_Slot_inst, [2])] [
      If [(Field_s_Slot_inst, [0])] [
        If [(Field_t_Slot_inst, [0])] [Return OPCODE_ISYNC];
        If [(Field_t_Slot_inst, [1])] [Return OPCODE_RSYNC];
        If [(Field_t_Slot_inst, [2])] [Return OPCODE_ESYNC];
        If [(Field_t_Slot_inst, [3])] [Return OPCODE_DSYNC];
        If [(Field_t_Slot_inst, [8])] [Return OPCODE_EXCW];
        If [(Field_t_Slot_inst, [12])] [Return OPCODE_MEMW];
        If [(Field_t_Slot_inst, [13])] [Return OPCODE_EXTW];
        If [(Field_t_Slot_inst, [15])] [Return OPCODE_NOP]]];
    If [(Field_r_Slot_inst, [3])] [
      If [(Field_t_Slot_inst, [0])] [
        If [(Field_s_Slot_inst, [0])] [Return OPCODE_RFE];
        If [(Field_s_Slot_inst, [2])] [Return OPCODE_RFDE];
        If [(Field_s_Slot_inst, [4])] [Return OPCODE_RFWO];
        If [(Field_s_Slot_inst, [5])] [Return OPCODE_RFWU]];
      If [(Field_t_Slot_inst, [1])] [Return OPCODE_RFI]];
    If [(Field_r_Slot_inst, [4])] [Return OPCODE_BREAK];
    If [(Field_r_Slot_inst, [5])] [
      If [(Field_s_Slot_inst, [0]); (Field_t_Slot_inst, [0])] [Return OPCODE_SYSCALL];
      If [(Field_s_Slot_inst, [1]); (Field_t_Slot_inst, [0])] [Return OPCODE_SIMCALL]];
    If [(Field_r_Slot_inst, [6])] [Return OPCODE_RSIL];
    If [(Field_r_Slot_inst, [7]); (Field_t_Slot_inst, [0])] [Return OPCODE_WAITI];
    If [(Field_r_Slot_inst, [7])] [
      If [(Field_t_Slot_inst, [14])] [Return OPCODE_LDDR32_P];
      If [(Field_t_Slot_inst, [15])] [Return OPCODE_SDDR32_P]];
    If [(Field_r_Slot_inst, [8])] [Return OPCODE_ANY4];
    If [(Field_r_Slot_inst, [9])] [Return OPCODE_ALL4];
    If [(Field_r_Slot_inst, [10])] [Return OPCODE_ANY8];
    If [(Field_r_Slot_inst, [11])] [Return OPCODE_ALL8]];
  If [(Field_op2_Slot_inst, [1])] [Return OPCODE_AND];
  If [(Field_op2_Slot_inst, [2])] [Return OPCODE_OR];
  If [(Field_op2_Slot_inst, [3])] [Return OPCODE_XOR];
  If [(Field_op2_Slot_inst, [4])] [
    If [(Field_r_Slot_inst, [0]); (Field_t_Slot_inst, [0])] [Return OPCODE_SSR];
    If [(Field_r_Slot_inst, [1]); (Field_t_Slot_inst, [0])] [Return OPCODE_SSL];
    If [(Field_r_Slot_inst, [2]); (Field_t_Slot_inst, [0])] [Return OPCODE_SSA8L];
    If [(Field_r_Slot_inst, [3]); (Field_t_Slot_inst, [0])] [Return OPCODE_SSA8B];
    If [(Field_r_Slot_inst, [4]); (Field_thi3_Slot_inst, [0])] [Return OPCODE_SSAI];
    If [(Field_r_Slot_inst, [6])] [Return OPCODE_RER];
    If [(Field_r_Slot_inst, [7])] [Return OPCODE_WER];
    If [(Field_r_Slot_inst, [8]); (Field_s_Slot_inst, [0])] [Return OPCODE_ROTW];
    If [(Field_r_Slot_inst, [14])] [Return OPCODE_NSA];
    If [(Field_r_Slot_inst, [15])] [Return OPCODE_NSAU]]].

Definition Slot_inst_decode_6 : list rule := [
  If [(Field_op2_Slot_inst, [5])] [
    If [(Field_r_Slot_inst, [3])] [Return OPCODE_RITLB0];
    If [(Field_r_Slot_inst, [4]); (Field_t_Slot_inst, [0])] [Return OPCODE_IITLB];
    If [(Field_r_Slot_inst, [5])] [Return OPCODE_PITLB];
    If [(Field_r_Slot_inst, [6])] [Return OPCODE_WITLB];
    If [(Field_r_Slot_inst, [7])] [Return OPCODE_RITLB1];
    If [(Field_r_Slot_inst, [11])] [Return OPCODE_RDTLB0];
    If [(Field_r_Slot_inst, [12]); (Field_t_Slot_inst, [0])] [Return OPCODE_IDTLB];
    If [(Field_r_Slot_inst, [13])] [Return OPCODE_PDTLB];
    If [(Field_r_Slot_inst, [14])] [Return OPCODE_WDTLB];
    If [(Field_r_Slot_inst, [15])] [Return OPCODE_RDTLB1]];
  If [(Field_op2_Slot_inst, [6])] [
    If [(Field_s_Slot_inst, [0])] [Return OPCODE_NEG];
    If [(Field_s_Slot_inst, [1])] [Return OPCODE_ABS]];
  If [(Field_op2_Slot_inst, [8])] [Return OPCODE_ADD];
  If [(Field_op2_Slot_inst, [9])] [Return OPCODE_ADDX2];
  If [(Field_op2_Slot_inst, [10])] [Return OPCODE_ADDX4];
  If [(Field_op2_Slot_inst, [11])] [Return OPCODE_ADDX8];
  If [(Field_op2_Slot_inst, [12])] [Return OPCODE_SUB];
  If [(Field_op2_Slot_inst, [13])] [Return OPCODE_SUBX2];
  If [(Field_op2_Slot_inst, [14])] [Return OPCODE_SUBX4];
  If [(Field_op2_Slot_inst, [15])] [Return OPCODE_SUBX8]].

Definition Slot_inst_decode_7 : list rule := [
  If [(Field_op1_Slot_inst, [0])] (Slot_inst_decode_5 ++ Slot_inst_decode_6)].

Definition Slot_inst_decode_8 : list rule := [
  If [(Field_op2_Slot_inst, [0; 1])] [Return OPCODE_SLLI];
  If [(Field_op2_Slot_inst, [2; 3])] [Return OPCODE_SRAI];
  If [(Field_op2_Slot_inst, [4])] [Return OPCODE_SRLI];
  If [(Field_op2_Slot_inst, [6])] [
    If [(Field_sr_Slot_inst, [0])] [Return OPCODE_XSR_LBEG];
    If [(Field_sr_Slot_inst, [1])] [Return OPCODE_XSR_LEND];
    If [(Field_sr_Slot_inst, [2])] [Return OPCODE_XSR_LCOUNT];
    If [(Field_sr_Slot_inst, [3])] [Return OPCODE_XSR_SAR];
    If [(Field_sr_Slot_inst, [4])] [Return OPCODE_XSR_BR];
    If [(Field_sr_Slot_inst, [5])] [Return OPCODE_XSR_LITBASE];
    If [(Field_sr_Slot_inst, [12])] [Return OPCODE_XSR_SCOMPARE1];
    If [(Field_sr_Slot_inst, [16])] [Return OPCODE_XSR_ACCLO];
    If [(Field_sr_Slot_inst, [17])] [Return OPCODE_XSR_ACCHI];
    If [(Field_sr_Slot_inst, [32])] [Return OPCODE_XSR_M0];
    If [(Field_sr_Slot_inst, [33])] [Return OPCODE_XSR_M1];
    If [(Field_sr_Slot_inst, [34])] [Return OPCODE_XSR_M2];
    If [(Field_sr_Slot_inst, [35])] [Return OPCODE_XSR_M3];
    If [(Field_sr_Slot_inst, [72])] [Return OPCODE_XSR_WINDOWBASE];
    If [(Field_sr_Slot_inst, [73])] [Return OPCODE_XSR_WINDOWSTART];
    If [(Field_sr_Slot_inst, [95])] [Return OPCODE_XSR_ERACCESS];
    If [(Field_sr_Slot_inst, [96])] [Return OPCODE_XSR_IBREAKENABLE];
    If [(Field_sr_Slot_inst, [97])] [Return OPCODE_XSR_MEMCTL];
    If [(Field_sr_Slot_inst, [99])] [Return OPCODE_XSR_ATOMCTL];
    If [(Field_sr_Slot_inst, [104])] [Return OPCODE_XSR_DDR];
    If [(Field_sr_Slot_inst, [128])] [Return OPCODE_XSR_IBREAKA0];
    If [(Field_sr_Slot_inst, [129])] [Return OPCODE_XSR_IBREAKA1];
    If [(Field_sr_Slot_inst, [144])] [Return OPCODE_XSR_DBREAKA0];
    If [(Field_sr_Slot_inst, [145])] [Return OPCODE_XSR_DBREAKA1];
    If [(Field_sr_Slot_inst, [160])] [Return OPCODE_XSR_DBREAKC0];
    If [(Field_sr_Slot_inst, [161])] [Return OPCODE_XSR_DBREAKC1];
    If [(Field_sr_Slot_inst, [177])] [Return OPCODE_XSR_EPC1];
    If [(Field_sr_Slot_inst, [178])] [Return OPCODE_XSR_EPC2];
    If [(Field_sr_Slot_inst, [179])] [Return OPCODE_XSR_EPC3];
    If [(Field_sr_Slot_inst, [180])] [Return OPCODE_XSR_EPC4];
    If [(Field_sr_Slot_inst, [181])] [Return OPCODE_XSR_EPC5];
    If [(Field_sr_Slot_inst, [182])] [Return OPCODE_XSR_EPC6];
    If [(Field_sr_Slot_inst, [183])] [Return OPCODE_XSR_EPC7];
    If [(Field_sr_Slot_inst, [192])] [Return OPCODE_XSR_DEPC];
    If [(Field_sr_Slot_inst, [194])] [Return OPCODE_XSR_EPS2];
    If [(Field_sr_Slot_inst, [195])] [Return OPCODE_XSR_EPS3];
    If [(Field_sr_Slot_inst, [196])] [Return OPCODE_XSR_EPS4];
    If [(Field_sr_Slot_inst, [197])] [Return OPCODE_XSR_EPS5];
    If [(Field_sr_Slot_inst, [198])] [Return OPCODE_XSR_EPS6];
    If [(Field_sr_Slot_inst, [199])] [Return OPCODE_XSR_EPS7];
    If [(Field_sr_Slot_inst, [209])] [Return OPCODE_XSR_EXCSAVE1];
    If [(Field_sr_Slot_inst, [210])] [Return OPCODE_XSR_EXCSAVE2];
    If [(Field_sr_Slot_inst, [211])] [Return OPCODE_XSR_EXCSAVE3];
    If [(Field_sr_Slot_inst, [212])] [Return OPCODE_XSR_EXCSAVE4];
    If [(Field_sr_Slot_inst, [213])] [Return OPCODE_XSR_EXCSAVE5];
    If [(Field_sr_Slot_inst, [214])] [Return OPCODE_XSR_EXCSAVE6];
    If [(Field_sr_Slot_inst, [215])] [Return OPCODE_XSR_EXCSAVE7];
    If [(Field_sr_Slot_inst, [224])] [Return OPCODE_XSR_CPENABLE];
    If [(Field_sr_Slot_inst, [228])] [Return OPCODE_XSR_INTENABLE];
    If [(Field_sr_Slot_inst, [230])] [Return OPCODE_XSR_PS];
    If [(Field_sr_Slot_inst, [231])] [Return OPCODE_XSR_VECBASE];
    If [(Field_sr_Slot_inst, [232])] [Return OPCODE_XSR_EXCCAUSE];
    If [(Field_sr_Slot_inst, [233])] [Return OPCODE_XSR_DEBUGCAUSE];
    If [(Field_sr_Slot_inst, [234])] [Return OPCODE_XSR_CCOUNT];
    If [(Field_sr_Slot_inst, [236])] [Return OPCODE_XSR_ICOUNT];
    If [(Field_sr_Slot_inst, [237])] [Return OPCODE_XSR_ICOUNTLEVEL];
    If [(Field_sr_Slot_inst, [238])] [Return OPCODE_XSR_EXCVADDR];
    If [(Field_sr_Slot_inst, [240])] [Return OPCODE_XSR_CCOMPARE0];
    If [(Field_sr_Slot_inst, [241])] [Return OPCODE_XSR_CCOMPARE1];
    If [(Field_sr_Slot_inst, [242])] [Return OPCODE_XSR_CCOMPARE2];
    If [(Field_sr_Slot_inst, [244])] [Return OPCODE_XSR_MISC0];
    If [(Field_sr_Slot_inst, [245])] [Return OPCODE_XSR_MISC1];
    If [(Field_sr_Slot_inst, [246])] [Return OPCODE_XSR_MISC2];
    If [(Field_sr_Slot_inst, [247])] [Return OPCODE_XSR_MISC3]];
  If [(Field_op2_Slot_inst, [8])] [Return OPCODE_SRC];
  If [(Field_op2_Slot_inst, [9]); (Field_s_Slot_inst, [0])] [Return OPCODE_SRL];
  If [(Field_op2_Slot_inst, [10]); (Field_t_Slot_inst, [0])] [Return OPCODE_SLL];
  If [(Field_op2_Slot_inst, [11]); (Field_s_Slot_inst, [0])] [Return OPCODE_SRA]].

Definition Slot_inst_decode_9 : list rule := [
  If [(Field_op2_Slot_inst, [12])] [Return OPCODE_MUL16U];
  If [(Field_op2_Slot_inst, [13])] [Return OPCODE_MUL16S];
  If [(Field_op2_Slot_inst, [15])] [
    If [(Field_r_Slot_inst, [14]); (Field_t_Slot_inst, [0])] [Return OPCODE_RFDO];
    If [(Field_r_Slot_inst, [14]); (Field_t_Slot_inst, [1])] [Return OPCODE_RFDD]]].

Definition Slot_inst_decode_10 : list rule := [
  If [(Field_op1_Slot_inst, [1])] (Slot_inst_decode_8 ++ Slot_inst_decode_9)].

Definition Slot_inst_decode_11 : list rule := [
  If [(Field_op1_Slot_inst, [2])] [
    If [(Field_op2_Slot_inst, [0])] [Return OPCODE_ANDB];
    If [(Field_op2_Slot_inst, [1])] [Return OPCODE_ANDBC];
    If [(Field_op2_Slot_inst, [2])] [Return OPCODE_ORB];
    If [(Field_op2_Slot_inst, [3])] [Return OPCODE_ORBC];
    If [(Field_op2_Slot_inst, [4])] [Return OPCODE_XORB];
    If [(Field_op2_Slot_inst, [6])] [Return OPCODE_SALTU];
    If [(Field_op2_Slot_inst, [7])] [Return OPCODE_SALT];
    If [(Field_op2_Slot_inst, [8])] [Return OPCODE_MULL];
    If [(Field_op2_Slot_inst, [10])] [Return OPCODE_MULUH];
    If [(Field_op2_Slot_inst, [11])] [Return OPCODE_MULSH];
    If [(Field_op2_Slot_inst, [12])] [Return OPCODE_QUOU];
    If [(Field_op2_Slot_inst, [13])] [Return OPCODE_QUOS];
    If [(Field_op2_Slot_inst, [14])] [Return OPCODE_REMU];
    If [(Field_op2_Slot_inst, [15])] [Return OPCODE_REMS]]].

Definition Slot_inst_decode_12 : list rule := [
  If [(Field_op2_Slot_inst, [0])] [
    If [(Field_sr_Slot_inst, [0])] [Return OPCODE_RSR_LBEG];
    If [(Field_sr_Slot_inst, [1])] [Return OPCODE_RSR_LEND];
    If [(Field_sr_Slot_inst, [2])] [Return OPCODE_RSR_LCOUNT];
    If [(Field_sr_Slot_inst, [3])] [Return OPCODE_RSR_SAR];
    If [(Field_sr_Slot_inst, [4])] [Return OPCODE_RSR_BR];
    If [(Field_sr_Slot_inst, [5])] [Return OPCODE_RSR_LITBASE];
    If [(Field_sr_Slot_inst, [12])] [Return OPCODE_RSR_SCOMPARE1];
    If [(Field_sr_Slot_inst, [16])] [Return OPCODE_RSR_ACCLO];
    If [(Field_sr_Slot_inst, [17])] [Return OPCODE_RSR_ACCHI];
    If [(Field_sr_Slot_inst, [32])] [Return OPCODE_RSR_M0];
    If [(Field_sr_Slot_inst, [33])] [Return OPCODE_RSR_M1];
    If [(Field_sr_Slot_inst, [34])] [Return OPCODE_RSR_M2];
    If [(Field_sr_Slot_inst, [35])] [Return OPCODE_RSR_M3];
    If [(Field_sr_Slot_inst, [72])] [Return OPCODE_RSR_WINDOWBASE];
    If [(Field_sr_Slot_inst, [73])] [Return OPCODE_RSR_WINDOWSTART];
    If [(Field_sr_Slot_inst, [95])] [Return OPCODE_RSR_ERACCESS];
    If [(Field_sr_Slot_inst, [96])] [Return OPCODE_RSR_IBREAKENABLE];
    If [(Field_sr_Slot_inst, [97])] [Return OPCODE_RSR_MEMCTL];
    If [(Field_sr_Slot_inst, [99])] [Return OPCODE_RSR_ATOMCTL];
    If [(Field_sr_Slot_inst, [104])] [Return OPCODE_RSR_DDR];
    If [(Field_sr_Slot_inst, [128])] [Return OPCODE_RSR_IBREAKA0];
    If [(Field_sr_Slot_inst, [129])] [Return OPCODE_RSR_IBREAKA1];
    If [(Field_sr_Slot_inst, [144])] [Return OPCODE_RSR_DBREAKA0];
    If [(Field_sr_Slot_inst, [145])] [Return OPCODE_RSR_DBREAKA1];
    If [(Field_sr_Slot_inst, [160])] [Return OPCODE_RSR_DBREAKC0];
    If [(Field_sr_Slot_inst, [161])] [Return OPCODE_RSR_DBREAKC1];
    If [(Field_sr_Slot_inst, [176])] [Return OPCODE_RSR_CONFIGID0];
    If [(Field_sr_Slot_inst, [177])] [Return OPCODE_RSR_EPC1];
    If [(Field_sr_Slot_inst, [178])] [Return OPCODE_RSR_EPC2];
    If [(Field_sr_Slot_inst, [179])] [Return OPCODE_RSR_EPC3];
    If [(Field_sr_Slot_inst, [180])] [Return OPCODE_RSR_EPC4];
    If [(Field_sr_Slot_inst, [181])] [Return OPCODE_RSR_EPC5];
    If [(Field_sr_Slot_inst, [182])] [Return OPCODE_RSR_EPC6];
    If [(Field_sr_Slot_inst, [183])] [Return OPCODE_RSR_EPC7];
    If [(Field_sr_Slot_inst, [192])] [Return OPCODE_RSR_DEPC];
    If [(Field_sr_Slot_inst, [194])] [Return OPCODE_RSR_EPS2];
    If [(Field_sr_Slot_inst, [195])] [Return OPCODE_RSR_EPS3];
    If [(Field_sr_Slot_inst, [196])] [Return OPCODE_RSR_EPS4];
    If [(Field_sr_Slot_inst, [197])] [Return OPCODE_RSR_EPS5];
    If [(Field_sr_Slot_inst, [198])] [Return OPCODE_RSR_EPS6];
    If [(Field_sr_Slot_inst, [199])] [Return OPCODE_RSR_EPS7];
    If [(Field_sr_Slot_inst, [208])] [Return OPCODE_RSR_CONFIGID1];
    If [(Field_sr_Slot_inst, [209])] [Return OPCODE_RSR_EXCSAVE1];
    If [(Field_sr_Slot_inst, [210])] [Return OPCODE_RSR_EXCSAVE2];
    If [(Field_sr_Slot_inst, [211])] [Return OPCODE_RSR_EXCSAVE3];
    If [(Field_sr_Slot_inst, [212])] [Return OPCODE_RSR_EXCSAVE4];
    If [(Field_sr_Slot_inst, [213])] [Return OPCODE_RSR_EXCSAVE5];
    If [(Field_sr_Slot_inst, [214])] [Return OPCODE_RSR_EXCSAVE6];
    If [(Field_sr_Slot_inst, [215])] [Return OPCODE_RSR_EXCSAVE7];
    If [(Field_sr_Slot_inst, [224])] [Return OPCODE_RSR_CPENABLE];
    If [(Field_sr_Slot_inst, [226])] [Return OPCODE_RSR_INTERRUPT];
    If [(Field_sr_Slot_inst, [228])] [Return OPCODE_RSR_INTENABLE];
    If [(Field_sr_Slot_inst, [230])] [Return OPCODE_RSR_PS];
    If [(Field_sr_Slot_inst, [231])] [Return OPCODE_RSR_VECBASE];
    If [(Field_sr_Slot_inst, [232])] [Return OPCODE_RSR_EXCCAUSE];
    If [(Field_sr_Slot_inst, [233])] [Return OPCODE_RSR_DEBUGCAUSE];
    If [(Field_sr_Slot_inst, [234])] [Return OPCODE_RSR_CCOUNT];
    If [(Field_sr_Slot_inst, [235])] [Return OPCODE_RSR_PRID];
    If [(Field_sr_Slot_inst, [236])] [Return OPCODE_RSR_ICOUNT];
    If [(Field_sr_Slot_inst, [237])] [Return OPCODE_RSR_ICOUNTLEVEL];
    If [(Field_sr_Slot_inst, [238])] [Return OPCODE_RSR_EXCVADDR];
    If [(Field_sr_Slot_inst, [240])] [Return OPCODE_RSR_CCOMPARE0];
    If [(Field_sr_Slot_inst, [241])] [Return OPCODE_RSR_CCOMPARE1];
    If [(Field_sr_Slot_inst, [242])] [Return OPCODE_RSR_CCOMPARE2];
    If [(Field_sr_Slot_inst, [244])] [Return OPCODE_RSR_MISC0];
    If [(Field_sr_Slot_inst, [245])] [Return OPCODE_RSR_MISC1];
    If [(Field_sr_Slot_inst, [246])] [Return OPCODE_RSR_MISC2];
    If [(Field_sr_Slot_inst, [247])] [Return OPCODE_RSR_MISC3]]].

Definition Slot_inst_decode_13 : list rule := [
  If [(Field_op2_Slot_inst, [1])] [
    If [(Field_sr_Slot_inst, [0])] [Return OPCODE_WSR_LBEG];
    If [(Field_sr_Slot_inst, [1])] [Return OPCODE_WSR_LEND];
    If [(Field_sr_Slot_inst, [2])] [Return OPCODE_WSR_LCOUNT];
    If [(Field_sr_Slot_inst, [3])] [Return OPCODE_WSR_SAR];
    If [(Field_sr_Slot_inst, [4])] [Return OPCODE_WSR_BR];
    If [(Field_sr_Slot_inst, [5])] [Return OPCODE_WSR_LITBASE];
    If [(Field_sr_Slot_inst, [12])] [Return OPCODE_WSR_SCOMPARE1];
    If [(Field_sr_Slot_inst, [16])] [Return OPCODE_WSR_ACCLO];
    If [(Field_sr_Slot_inst, [17])] [Return OPCODE_WSR_ACCHI];
    If [(Field_sr_Slot_inst, [32])] [Return OPCODE_WSR_M0];
    If [(Field_sr_Slot_inst, [33])] [Return OPCODE_WSR_M1];
    If [(Field_sr_Slot_inst, [34])] [Return OPCODE_WSR_M2];
    If [(Field_sr_Slot_inst, [35])] [Return OPCODE_WSR_M3];
    If [(Field_sr_Slot_inst, [72])] [Return OPCODE_WSR_WINDOWBASE];
    If [(Field_sr_Slot_inst, [73])] [Return OPCODE_WSR_WINDOWSTART];
    If [(Field_sr_Slot_inst, [89])] [Return OPCODE_WSR_MMID];
    If [(Field_sr_Slot_inst, [95])] [Return OPCODE_WSR_ERACCESS];
    If [(Field_sr_Slot_inst, [96])] [Return OPCODE_WSR_IBREAKENABLE];
    If [(Field_sr_Slot_inst, [97])] [Return OPCODE_WSR_MEMCTL];
    If [(Field_sr_Slot_inst, [99])] [Return OPCODE_WSR_ATOMCTL];
    If [(Field_sr_Slot_inst, [104])] [Return OPCODE_WSR_DDR];
    If [(Field_sr_Slot_inst, [128])] [Return OPCODE_WSR_IBREAKA0];
    If [(Field_sr_Slot_inst, [129])] [Return OPCODE_WSR_IBREAKA1];
    If [(Field_sr_Slot_inst, [144])] [Return OPCODE_WSR_DBREAKA0];
    If [(Field_sr_Slot_inst, [145])] [Return OPCODE_WSR_DBREAKA1];
    If [(Field_sr_Slot_inst, [160])] [Return OPCODE_WSR_DBREAKC0];
    If [(Field_sr_Slot_inst, [161])] [Return OPCODE_WSR_DBREAKC1];
    If [(Field_sr_Slot_inst, [176])] [Return OPCODE_WSR_CONFIGID0];
    If [(Field_sr_Slot_inst, [177])] [Return OPCODE_WSR_EPC1];
    If [(Field_sr_Slot_inst, [178])] [Return OPCODE_WSR_EPC2];
    If [(Field_sr_Slot_inst, [179])] [Return OPCODE_WSR_EPC3];
    If [(Field_sr_Slot_inst, [180])] [Return OPCODE_WSR_EPC4];
    If [(Field_sr_Slot_inst, [181])] [Return OPCODE_WSR_EPC5];
    If [(Field_sr_Slot_inst, [182])] [Return OPCODE_WSR_EPC6];
    If [(Field_sr_Slot_inst, [183])] [Return OPCODE_WSR_EPC7];
    If [(Field_sr_Slot_inst, [192])] [Return OPCODE_WSR_DEPC];
    If [(Field_sr_Slot_inst, [194])] [Return OPCODE_WSR_EPS2];
    If [(Field_sr_Slot_inst, [195])] [Return OPCODE_WSR_EPS3];
    If [(Field_sr_Slot_inst, [196])] [Return OPCODE_WSR_EPS4];
    If [(Field_sr_Slot_inst, [197])] [Return OPCODE_WSR_EPS5];
    If [(Field_sr_Slot_inst, [198])] [Return OPCODE_WSR_EPS6];
    If [(Field_sr_Slot_inst, [199])] [Return OPCODE_WSR_EPS7];
    If [(Field_sr_Slot_inst, [209])] [Return OPCODE_WSR_EXCSAVE1];
    If [(Field_sr_Slot_inst, [210])] [Return OPCODE_WSR_EXCSAVE2];
    If [(Field_sr_Slot_inst, [211])] [Return OPCODE_WSR_EXCSAVE3];
    If [(Field_sr_Slot_inst, [212])] [Return OPCODE_WSR_EXCSAVE4];
    If [(Field_sr_Slot_inst, [213])] [Return OPCODE_WSR_EXCSAVE5];
    If [(Field_sr_Slot_inst, [214])] [Return OPCODE_WSR_EXCSAVE6];
    If [(Field_sr_Slot_inst, [215])] [Return OPCODE_WSR_EXCSAVE7];
    If [(Field_sr_Slot_inst, [224])] [Return OPCODE_WSR_CPENABLE];
    If [(Field_sr_Slot_inst, [226])] [Return OPCODE_WSR_INTSET];
    If [(Field_sr_Slot_inst, [227])] [Return OPCODE_WSR_INTCLEAR];
    If [(Field_sr_Slot_inst, [228])] [Return OPCODE_WSR_INTENABLE];
    If [(Field_sr_Slot_inst, [230])] [Return OPCODE_WSR_PS];
    If [(Field_sr_Slot_inst, [231])] [Return OPCODE_WSR_VECBASE];
    If [(Field_sr_Slot_inst, [232])] [Return OPCODE_WSR_EXCCAUSE];
    If [(Field_sr_Slot_inst, [233])] [Return OPCODE_WSR_DEBUGCAUSE];
    If [(Field_sr_Slot_inst, [234])] [Return OPCODE_WSR_CCOUNT];
    If [(Field_sr_Slot_inst, [236])] [Return OPCODE_WSR_ICOUNT];
    If [(Field_sr_Slot_inst, [237])] [Return OPCODE_WSR_ICOUNTLEVEL];
    If [(Field_sr_Slot_inst, [238])] [Return OPCODE_WSR_EXCVADDR];
    If [(Field_sr_Slot_inst, [240])] [Return OPCODE_WSR_CCOMPARE0];
    If [(Field_sr_Slot_inst, [241])] [Return OPCODE_WSR_CCOMPARE1];
    If [(Field_sr_Slot_inst, [242])] [Return OPCODE_WSR_CCOMPARE2];
    If [(Field_sr_Slot_inst, [244])] [Return OPCODE_WSR_MISC0];
    If [(Field_sr_Slot_inst, [245])] [Return OPCODE_WSR_MISC1];
    If [(Field_sr_Slot_inst, [246])] [Return OPCODE_WSR_MISC2];
    If [(Field_sr_Slot_inst, [247])] [Return OPCODE_WSR_MISC3]];
  If [(Field_op2_Slot_inst, [2])] [Return OPCODE_SEXT];
  If [(Field_op2_Slot_inst, [3])] [Return OPCODE_CLAMPS];
  If [(Field_op2_Slot_inst, [4])] [Return OPCODE_MIN];
  If [(Field_op2_Slot_inst, [5])] [Return OPCODE_MAX];
  If [(Field_op2_Slot_inst, [6])] [Return OPCODE_MINU]].

Definition Slot_inst_decode_14 : list rule := [
  If [(Field_op2_Slot_inst, [7])] [Return OPCODE_MAXU];
  If [(Field_op2_Slot_inst, [8])] [Return OPCODE_MOVEQZ];
  If [(Field_op2_Slot_inst, [9])] [Return OPCODE_MOVNEZ];
  If [(Field_op2_Slot_inst, [10])] [Return OPCODE_MOVLTZ];
  If [(Field_op2_Slot_inst, [11])] [Return OPCODE_MOVGEZ];
  If [(Field_op2_Slot_inst, [12])] [Return OPCODE_MOVF];
  If [(Field_op2_Slot_inst, [13])] [Return OPCODE_MOVT];
  If [(Field_op2_Slot_inst, [14])] [
    If [(Field_st_Slot_inst, [0])] [Return OPCODE_RUR_ACCX_0];
    If [(Field_st_Slot_inst, [1])] [Return OPCODE_RUR_ACCX_1];
    If [(Field_st_Slot_inst, [2])] [Return OPCODE_RUR_QACC_H_0];
    If [(Field_st_Slot_inst, [3])] [Return OPCODE_RUR_QACC_H_1];
    If [(Field_st_Slot_inst, [4])] [Return OPCODE_RUR_QACC_H_2];
    If [(Field_st_Slot_inst, [5])] [Return OPCODE_RUR_QACC_H_3];
    If [(Field_st_Slot_inst, [6])] [Return OPCODE_RUR_QACC_H_4];
    If [(Field_st_Slot_inst, [7])] [Return OPCODE_RUR_QACC_L_0];
    If [(Field_st_Slot_inst, [8])] [Return OPCODE_RUR_QACC_L_1];
    If [(Field_st_Slot_inst, [9])] [Return OPCODE_RUR_QACC_L_2];
    If [(Field_st_Slot_inst, [10])] [Return OPCODE_RUR_QACC_L_3];
    If [(Field_st_Slot_inst, [11])] [Return OPCODE_RUR_QACC_L_4];
    If [(Field_st_Slot_inst, [12])] [Return OPCODE_RUR_GPIO_OUT];
    If [(Field_st_Slot_inst, [13])] [Return OPCODE_RUR_SAR_BYTE];
    If [(Field_st_Slot_inst, [14])] [Return OPCODE_RUR_FFT_BIT_WIDTH];
    If [(Field_st_Slot_inst, [15])] [Return OPCODE_RUR_UA_STATE_0];
    If [(Field_st_Slot_inst, [16])] [Return OPCODE_RUR_UA_STATE_1];
    If [(Field_st_Slot_inst, [17])] [Return OPCODE_RUR_UA_STATE_2];
    If [(Field_st_Slot_inst, [18])] [Return OPCODE_RUR_UA_STATE_3];
    If [(Field_st_Slot_inst, [231])] [Return OPCODE_RUR_THREADPTR];
    If [(Field_st_Slot_inst, [232])] [Return OPCODE_RUR_FCR];
    If [(Field_st_Slot_inst, [233])] [Return OPCODE_RUR_FSR]];
  If [(Field_op2_Slot_inst, [15])] [
    If [(Field_sr_Slot_inst, [0])] [Return OPCODE_WUR_ACCX_0];
    If [(Field_sr_Slot_inst, [1])] [Return OPCODE_WUR_ACCX_1];
    If [(Field_sr_Slot_inst, [2])] [Return OPCODE_WUR_QACC_H_0];
    If [(Field_sr_Slot_inst, [3])] [Return OPCODE_WUR_QACC_H_1];
    If [(Field_sr_Slot_inst, [4])] [Return OPCODE_WUR_QACC_H_2];
    If [(Field_sr_Slot_inst, [5])] [Return OPCODE_WUR_QACC_H_3];
    If [(Field_sr_Slot_inst, [6])] [Return OPCODE_WUR_QACC_H_4];
    If [(Field_sr_Slot_inst, [7])] [Return OPCODE_WUR_QACC_L_0];
    If [(Field_sr_Slot_inst, [8])] [Return OPCODE_WUR_QACC_L_1];
    If [(Field_sr_Slot_inst, [9])] [Return OPCODE_WUR_QACC_L_2];
    If [(Field_sr_Slot_inst, [10])] [Return OPCODE_WUR_QACC_L_3];
    If [(Field_sr_Slot_inst, [11])] [Return OPCODE_WUR_QACC_L_4];
    If [(Field_sr_Slot_inst, [12])] [Return OPCODE_WUR_GPIO_OUT];
    If [(Field_sr_Slot_inst, [13])] [Return OPCODE_WUR_SAR_BYTE];
    If [(Field_sr_Slot_inst, [14])] [Return OPCODE_WUR_FFT_BIT_WIDTH];
    If [(Field_sr_Slot_inst, [15])] [Return OPCODE_WUR_UA_STATE_0];
    If [(Field_sr_Slot_inst, [16])] [Return OPCODE_WUR_UA_STATE_1];
    If [(Field_sr_Slot_inst, [17])] [Return OPCODE_WUR_UA_STATE_2];
    If [(Field_sr_Slot_inst, [18])] [Return OPCODE_WUR_UA_STATE_3];
    If [(Field_sr_Slot_inst, [231])] [Return OPCODE_WUR_THREADPTR];
    If [(Field_sr_Slot_inst, [232])] [Return OPCODE_WUR_FCR];
    If [(Field_sr_Slot_inst, [233])] [Return OPCODE_WUR_FSR]]].

Definition Slot_inst_decode_15 : list rule := [
  If [(Field_op1_Slot_inst, [3])] (Slot_inst_decode_12 ++ Slot_inst_decode_13 ++ Slot_inst_decode_14)].

Definition Slot_inst_decode_16 : list rule := [
  If [(Field_op1_Slot_inst, [4; 5])] [Return OPCODE_EXTUI];
  If [(Field_op1_Slot_inst, [8])] [
    If [(Field_op2_Slot_inst, [0])] [Return OPCODE_LSX];
    If [(Field_op2_Slot_inst, [1])] [Return OPCODE_LSXP];
    If [(Field_op2_Slot_inst, [4])] [Return OPCODE_SSX];
    If [(Field_op2_Slot_inst, [5])] [Return OPCODE_SSXP]];
  If [(Field_op1_Slot_inst, [9])] [
    If [(Field_op2_Slot_inst, [0])] [Return OPCODE_L32E];
    If [(Field_op2_Slot_inst, [4])] [Return OPCODE_S32E];
    If [(Field_op2_Slot_inst, [5])] [Return OPCODE_S32NB]];
  If [(Field_op1_Slot_inst, [10])] [
    If [(Field_op2_Slot_inst, [0])] [Return OPCODE_ADD_S];
    If [(Field_op2_Slot_inst, [1])] [Return OPCODE_SUB_S];
    If [(Field_op2_Slot_inst, [2])] [Return OPCODE_MUL_S];
    If [(Field_op2_Slot_inst, [4])] [Return OPCODE_MADD_S];
    If [(Field_op2_Slot_inst, [5])] [Return OPCODE_MSUB_S];
    If [(Field_op2_Slot_inst, [6])] [Return OPCODE_MADDN_S];
    If [(Field_op2_Slot_inst, [7])] [Return OPCODE_DIVN_S];
    If [(Field_op2_Slot_inst, [8])] [Return OPCODE_ROUND_S];
    If [(Field_op2_Slot_inst, [9])] [Return OPCODE_TRUNC_S];
    If [(Field_op2_Slot_inst, [10])] [Return OPCODE_FLOOR_S];
    If [(Field_op2_Slot_inst, [11])] [Return OPCODE_CEIL_S];
    If [(Field_op2_Slot_inst, [12])] [Return OPCODE_FLOAT_S];
    If [(Field_op2_Slot_inst, [13])] [Return OPCODE_UFLOAT_S];
    If [(Field_op2_Slot_inst, [14])] [Return OPCODE_UTRUNC_S];
    If [(Field_op2_Slot_inst, [15])] [
      If [(Field_t_Slot_inst, [0])] [Return OPCODE_MOV_S];
      If [(Field_t_Slot_inst, [1])] [Return OPCODE_ABS_S];
      If [(Field_t_Slot_inst, [3])] [Return OPCODE_CONST_S];
      If [(Field_t_Slot_inst, [4])] [Return OPCODE_RFR];
      If [(Field_t_Slot_inst, [5])] [Return OPCODE_WFR];
      If [(Field_t_Slot_inst, [6])] [Return OPCODE_NEG_S];
      If [(Field_t_Slot_inst, [7])] [Return OPCODE_DIV0_S];
      If [(Field_t_Slot_inst, [8])] [Return OPCODE_RECIP0_S];
      If [(Field_t_Slot_inst, [9])] [Return OPCODE_SQRT0_S];
      If [(Field_t_Slot_inst, [10])] [Return OPCODE_RSQRT0_S];
      If [(Field_t_Slot_inst, [11])] [Return OPCODE_NEXP01_S];
      If [(Field_t_Slot_inst, [12])] [Return OPCODE_MKSADJ_S];
      If [(Field_t_Slot_inst, [13])] [Return OPCODE_MKDADJ_S];
      If [(Field_t_Slot_inst, [14])] [Return OPCODE_ADDEXP_S];
      If [(Field_t_Slot_inst, [15])] [Return OPCODE_ADDEXPM_S]]];
  If [(Field_op1_Slot_inst, [11])] [
    If [(Field_op2_Slot_inst, [1])] [Return OPCODE_UN_S];
    If [(Field_op2_Slot_inst, [2])] [Return OPCODE_OEQ_S];
    If [(Field_op2_Slot_inst, [3])] [Return OPCODE_UEQ_S];
    If [(Field_op2_Slot_inst, [4])] [Return OPCODE_OLT_S];
    If [(Field_op2_Slot_inst, [5])] [Return OPCODE_ULT_S];
    If [(Field_op2_Slot_inst, [6])] [Return OPCODE_OLE_S];
    If [(Field_op2_Slot_inst, [7])] [Return OPCODE_ULE_S];
    If [(Field_op2_Slot_inst, [8])] [Return OPCODE_MOVEQZ_S];
    If [(Field_op2_Slot_inst, [9])] [Return OPCODE_MOVNEZ_S];
    If [(Field_op2_Slot_inst, [10])] [Return OPCODE_MOVLTZ_S];
    If [(Field_op2_Slot_inst, [11])] [Return OPCODE_MOVGEZ_S];
    If [(Field_op2_Slot_inst, [12])] [Return OPCODE_MOVF_S];
    If [(Field_op2_Slot_inst, [13])] [Return OPCODE_MOVT_S]]].

Definition Slot_inst_decode_17 : list rule := [
  If [(Field_op0_Slot_inst, [0])] (Slot_inst_decode_7 ++ Slot_inst_decode_10 ++ Slot_inst_decode_11 ++ Slot_inst_decode_15 ++ Slot_inst_decode_16)].

Definition Slot_inst_decode_18 : list rule := [
  If [(Field_op0_Slot_inst, [1])] [Return OPCODE_L32R];
  If [(Field_op0_Slot_inst, [2])] [
    If [(Field_r_Slot_inst, [0])] [Return OPCODE_L8UI];
    If [(Field_r_Slot_inst, [1])] [Return OPCODE_L16UI];
    If [(Field_r_Slot_inst, [2])] [Return OPCODE_L32I];
    If [(Field_r_Slot_inst, [4])] [Return OPCODE_S8I];
    If [(Field_r_Slot_inst, [5])] [Return OPCODE_S16I];
    If [(Field_r_Slot_inst, [6])] [Return OPCODE_S32I];
    If [(Field_r_Slot_inst, [9])] [Return OPCODE_L16SI];
    If [(Field_r_Slot_inst, [10])] [Return OPCODE_MOVI];
    If [(Field_r_Slot_inst, [11])] [Return OPCODE_L32AI];
    If [(Field_r_Slot_inst, [12])] [Return OPCODE_ADDI];
    If [(Field_r_Slot_inst, [13])] [Return OPCODE_ADDMI];
    If [(Field_r_Slot_inst, [14])] [Return OPCODE_S32C1I];
    If [(Field_r_Slot_inst, [15])] [Return OPCODE_S32RI]];
  If [(Field_op0_Slot_inst, [3])] [
    If [(Field_r_Slot_inst, [0])] [Return OPCODE_LSI];
    If [(Field_r_Slot_inst, [4])] [Return OPCODE_SSI];
    If [(Field_r_Slot_inst, [8])] [Return OPCODE_LSIP];
    If [(Field_r_Slot_inst, [12])] [Return OPCODE_SSIP]]].

Definition Slot_inst_decode_19 : list rule := [
  If [(Field_op2_Slot_inst, [0])] [
    If [(Field_op1_Slot_inst, [8]); (Field_t3_Slot_inst, [0]); (Field_tlo_Slot_inst, [0]); (Field_r3_Slot_inst, [0])] [Return OPCODE_MULA_DD_LL_LDINC];
    If [(Field_op1_Slot_inst, [9]); (Field_t3_Slot_inst, [0]); (Field_tlo_Slot_inst, [0]); (Field_r3_Slot_inst, [0])] [Return OPCODE_MULA_DD_HL_LDINC];
    If [(Field_op1_Slot_inst, [10]); (Field_t3_Slot_inst, [0]); (Field_tlo_Slot_inst, [0]); (Field_r3_Slot_inst, [0])] [Return OPCODE_MULA_DD_LH_LDINC];
    If [(Field_op1_Slot_inst, [11]); (Field_t3_Slot_inst, [0]); (Field_tlo_Slot_inst, [0]); (Field_r3_Slot_inst, [0])] [Return OPCODE_MULA_DD_HH_LDINC]];
  If [(Field_op2_Slot_inst, [1])] [
    If [(Field_op1_Slot_inst, [8]); (Field_t3_Slot_inst, [0]); (Field_tlo_Slot_inst, [0]); (Field_r3_Slot_inst, [0])] [Return OPCODE_MULA_DD_LL_LDDEC];
    If [(Field_op1_Slot_inst, [9]); (Field_t3_Slot_inst, [0]); (Field_tlo_Slot_inst, [0]); (Field_r3_Slot_inst, [0])] [Return OPCODE_MULA_DD_HL_LDDEC];
    If [(Field_op1_Slot_inst, [10]); (Field_t3_Slot_inst, [0]); (Field_tlo_Slot_inst, [0]); (Field_r3_Slot_inst, [0])] [Return OPCODE_MULA_DD_LH_LDDEC];
    If [(Field_op1_Slot_inst, [11]); (Field_t3_Slot_inst, [0]); (Field_tlo_Slot_inst, [0]); (Field_r3_Slot_inst, [0])] [Return OPCODE_MULA_DD_HH_LDDEC]];
  If [(Field_op2_Slot_inst, [2])] [
    If [(Field_op1_Slot_inst, [4]); (Field_s_Slot_inst, [0]); (Field_w_Slot_inst, [0]); (Field_r3_Slot_inst, [0]); (Field_t3_Slot_inst, [0]); (Field_tlo_Slot_inst, [0])] [Return OPCODE_MUL_DD_LL];
    If [(Field_op1_Slot_inst, [5]); (Field_s_Slot_inst, [0]); (Field_w_Slot_inst, [0]); (Field_r3_Slot_inst, [0]); (Field_t3_Slot_inst, [0]); (Field_tlo_Slot_inst, [0])] [Return OPCODE_MUL_DD_HL];
    If [(Field_op1_Slot_inst, [6]); (Field_s_Slot_inst, [0]); (Field_w_Slot_inst, [0]); (Field_r3_Slot_inst, [0]); (Field_t3_Slot_inst, [0]); (Field_tlo_Slot_inst, [0])] [Return OPCODE_MUL_DD_LH];
    If [(Field_op1_Slot_inst, [7]); (Field_s_Slot_inst, [0]); (Field_w_Slot_inst, [0]); (Field_r3_Slot_inst, [0]); (Field_t3_Slot_inst, [0]); (Field_tlo_Slot_inst, [0])] [Return OPCODE_MUL_DD_HH];
    If [(Field_op1_Slot_inst, [8]); (Field_s_Slot_inst, [0]); (Field_w_Slot_inst, [0]); (Field_r3_Slot_inst, [0]); (Field_t3_Slot_inst, [0]); (Field_tlo_Slot_inst, [0])] [Return OPCODE_MULA_DD_LL];
    If [(Field_op1_Slot_inst, [9]); (Field_s_Slot_inst, [0]); (Field_w_Slot_inst, [0]); (Field_r3_Slot_inst, [0]); (Field_t3_Slot_inst, [0]); (Field_tlo_Slot_inst, [0])] [Return OPCODE_MULA_DD_HL];
    If [(Field_op1_Slot_inst, [10]); (Field_s_Slot_inst, [0]); (Field_w_Slot_inst, [0]); (Field_r3_Slot_inst, [0]); (Field_t3_Slot_inst, [0]); (Field_tlo_Slot_inst, [0])] [Return OPCODE_MULA_DD_LH];
    If [(Field_op1_Slot_inst, [11]); (Field_s_Slot_inst, [0]); (Field_w_Slot_inst, [0]); (Field_r3_Slot_inst, [0]); (Field_t3_Slot_inst, [0]); (Field_tlo_Slot_inst, [0])] [Return OPCODE_MULA_DD_HH];
    If [(Field_op1_Slot_inst, [12]); (Field_s_Slot_inst, [0]); (Field_w_Slot_inst, [0]); (Field_r3_Slot_inst, [0]); (Field_t3_Slot_inst, [0]); (Field_tlo_Slot_inst, [0])] [Return OPCODE_MULS_DD_LL];
    If [(Field_op1_Slot_inst, [13]); (Field_s_Slot_inst, [0]); (Field_w_Slot_inst, [0]); (Field_r3_Slot_inst, [0]); (Field_t3_Slot_inst, [0]); (Field_tlo_Slot_inst, [0])] [Return OPCODE_MULS_DD_HL];
    If [(Field_op1_Slot_inst, [14]); (Field_s_Slot_inst, [0]); (Field_w_Slot_inst, [0]); (Field_r3_Slot_inst, [0]); (Field_t3_Slot_inst, [0]); (Field_tlo_Slot_inst, [0])] [Return OPCODE_MULS_DD_LH];
    If [(Field_op1_Slot_inst, [15]); (Field_s_Slot_inst, [0]); (Field_w_Slot_inst, [0]); (Field_r3_Slot_inst, [0]); (Field_t3_Slot_inst, [0]); (Field_tlo_Slot_inst, [0])] [Return OPCODE_MULS_DD_HH]]].

Definition Slot_inst_decode_20 : list rule := [
  If [(Field_op2_Slot_inst, [3])] [
    If [(Field_op1_Slot_inst, [4]); (Field_r_Slot_inst, [0]); (Field_t3_Slot_inst, [0]); (Field_tlo_Slot_inst, [0])] [Return OPCODE_MUL_AD_LL];
    If [(Field_op1_Slot_inst, [5]); (Field_r_Slot_inst, [0]); (Field_t3_Slot_inst, [0]); (Field_tlo_Slot_inst, [0])] [Return OPCODE_MUL_AD_HL];
    If [(Field_op1_Slot_inst, [6]); (Field_r_Slot_inst, [0]); (Field_t3_Slot_inst, [0]); (Field_tlo_Slot_inst, [0])] [Return OPCODE_MUL_AD_LH];
    If [(Field_op1_Slot_inst, [7]); (Field_r_Slot_inst, [0]); (Field_t3_Slot_inst, [0]); (Field_tlo_Slot_inst, [0])] [Return OPCODE_MUL_AD_HH];
    If [(Field_op1_Slot_inst, [8]); (Field_r_Slot_inst, [0]); (Field_t3_Slot_inst, [0]); (Field_tlo_Slot_inst, [0])] [Return OPCODE_MULA_AD_LL];
    If [(Field_op1_Slot_inst, [9]); (Field_r_Slot_inst, [0]); (Field_t3_Slot_inst, [0]); (Field_tlo_Slot_inst, [0])] [Return OPCODE_MULA_AD_HL];
    If [(Field_op1_Slot_inst, [10]); (Field_r_Slot_inst, [0]); (Field_t3_Slot_inst, [0]); (Field_tlo_Slot_inst, [0])] [Return OPCODE_MULA_AD_LH];
    If [(Field_op1_Slot_inst, [11]); (Field_r_Slot_inst, [0]); (Field_t3_Slot_inst, [0]); (Field_tlo_Slot_inst, [0])] [Return OPCODE_MULA_AD_HH];
    If [(Field_op1_Slot_inst, [12]); (Field_r_Slot_inst, [0]); (Field_t3_Slot_inst, [0]); (Field_tlo_Slot_inst, [0])] [Return OPCODE_MULS_AD_LL];
    If [(Field_op1_Slot_inst, [13]); (Field_r_Slot_inst, [0]); (Field_t3_Slot_inst, [0]); (Field_tlo_Slot_inst, [0])] [Return OPCODE_MULS_AD_HL];
    If [(Field_op1_Slot_inst, [14]); (Field_r_Slot_inst, [0]); (Field_t3_Slot_inst, [0]); (Field_tlo_Slot_inst, [0])] [Return OPCODE_MULS_AD_LH];
    If [(Field_op1_Slot_inst, [15]); (Field_r_Slot_inst, [0]); (Field_t3_Slot_inst, [0]); (Field_tlo_Slot_inst, [0])] [Return OPCODE_MULS_AD_HH]];
  If [(Field_op2_Slot_inst, [4])] [
    If [(Field_op1_Slot_inst, [8]); (Field_r3_Slot_inst, [0])] [Return OPCODE_MULA_DA_LL_LDINC];
    If [(Field_op1_Slot_inst, [9]); (Field_r3_Slot_inst, [0])] [Return OPCODE_MULA_DA_HL_LDINC];
    If [(Field_op1_Slot_inst, [10]); (Field_r3_Slot_inst, [0])] [Return OPCODE_MULA_DA_LH_LDINC];
    If [(Field_op1_Slot_inst, [11]); (Field_r3_Slot_inst, [0])] [Return OPCODE_MULA_DA_HH_LDINC]];
  If [(Field_op2_Slot_inst, [5])] [
    If [(Field_op1_Slot_inst, [8]); (Field_r3_Slot_inst, [0])] [Return OPCODE_MULA_DA_LL_LDDEC];
    If [(Field_op1_Slot_inst, [9]); (Field_r3_Slot_inst, [0])] [Return OPCODE_MULA_DA_HL_LDDEC];
    If [(Field_op1_Slot_inst, [10]); (Field_r3_Slot_inst, [0])] [Return OPCODE_MULA_DA_LH_LDDEC];
    If [(Field_op1_Slot_inst, [11]); (Field_r3_Slot_inst, [0])] [Return OPCODE_MULA_DA_HH_LDDEC]]].

Definition Slot_inst_decode_21 : list rule := [
  If [(Field_op2_Slot_inst, [6])] [
    If [(Field_op1_Slot_inst, [4]); (Field_s_Slot_inst, [0]); (Field_w_Slot_inst, [0]); (Field_r3_Slot_inst, [0])] [Return OPCODE_MUL_DA_LL];
    If [(Field_op1_Slot_inst, [5]); (Field_s_Slot_inst, [0]); (Field_w_Slot_inst, [0]); (Field_r3_Slot_inst, [0])] [Return OPCODE_MUL_DA_HL];
    If [(Field_op1_Slot_inst, [6]); (Field_s_Slot_inst, [0]); (Field_w_Slot_inst, [0]); (Field_r3_Slot_inst, [0])] [Return OPCODE_MUL_DA_LH];
    If [(Field_op1_Slot_inst, [7]); (Field_s_Slot_inst, [0]); (Field_w_Slot_inst, [0]); (Field_r3_Slot_inst, [0])] [Return OPCODE_MUL_DA_HH];
    If [(Field_op1_Slot_inst, [8]); (Field_s_Slot_inst, [0]); (Field_w_Slot_inst, [0]); (Field_r3_Slot_inst, [0])] [Return OPCODE_MULA_DA_LL];
    If [(Field_op1_Slot_inst, [9]); (Field_s_Slot_inst, [0]); (Field_w_Slot_inst, [0]); (Field_r3_Slot_inst, [0])] [Return OPCODE_MULA_DA_HL];
    If [(Field_op1_Slot_inst, [10]); (Field_s_Slot_inst, [0]); (Field_w_Slot_inst, [0]); (Field_r3_Slot_inst, [0])] [Return OPCODE_MULA_DA_LH];
    If [(Field_op1_Slot_inst, [11]); (Field_s_Slot_inst, [0]); (Field_w_Slot_inst, [0]); (Field_r3_Slot_inst, [0])] [Return OPCODE_MULA_DA_HH];
    If [(Field_op1_Slot_inst, [12]); (Field_s_Slot_inst, [0]); (Field_w_Slot_inst, [0]); (Field_r3_Slot_inst, [0])] [Return OPCODE_MULS_DA_LL];
    If [(Field_op1_Slot_inst, [13]); (Field_s_Slot_inst, [0]); (Field_w_Slot_inst, [0]); (Field_r3_Slot_inst, [0])] [Return OPCODE_MULS_DA_HL];
    If [(Field_op1_Slot_inst, [14]); (Field_s_Slot_inst, [0]); (Field_w_Slot_inst, [0]); (Field_r3_Slot_inst, [0])] [Return OPCODE_MULS_DA_LH];
    If [(Field_op1_Slot_inst, [15]); (Field_s_Slot_inst, [0]); (Field_w_Slot_inst, [0]); (Field_r3_Slot_inst, [0])] [Return OPCODE_MULS_DA_HH]];
  If [(Field_op2_Slot_inst, [7])] [
    If [(Field_op1_Slot_inst, [0]); (Field_r_Slot_inst, [0])] [Return OPCODE_UMUL_AA_LL];
    If [(Field_op1_Slot_inst, [1]); (Field_r_Slot_inst, [0])] [Return OPCODE_UMUL_AA_HL];
    If [(Field_op1_Slot_inst, [2]); (Field_r_Slot_inst, [0])] [Return OPCODE_UMUL_AA_LH];
    If [(Field_op1_Slot_inst, [3]); (Field_r_Slot_inst, [0])] [Return OPCODE_UMUL_AA_HH];
    If [(Field_op1_Slot_inst, [4]); (Field_r_Slot_inst, [0])] [Return OPCODE_MUL_AA_LL];
    If [(Field_op1_Slot_inst, [5]); (Field_r_Slot_inst, [0])] [Return OPCODE_MUL_AA_HL];
    If [(Field_op1_Slot_inst, [6]); (Field_r_Slot_inst, [0])] [Return OPCODE_MUL_AA_LH];
    If [(Field_op1_Slot_inst, [7]); (Field_r_Slot_inst, [0])] [Return OPCODE_MUL_AA_HH];
    If [(Field_op1_Slot_inst, [8]); (Field_r_Slot_inst, [0])] [Return OPCODE_MULA_AA_LL];
    If [(Field_op1_Slot_inst, [9]); (Field_r_Slot_inst, [0])] [Return OPCODE_MULA_AA_HL];
    If [(Field_op1_Slot_inst, [10]); (Field_r_Slot_inst, [0])] [Return OPCODE_MULA_AA_LH];
    If [(Field_op1_Slot_inst, [11]); (Field_r_Slot_inst, [0])] [Return OPCODE_MULA_AA_HH];
    If [(Field_op1_Slot_inst, [12]); (Field_r_Slot_inst, [0])] [Return OPCODE_MULS_AA_LL];
    If [(Field_op1_Slot_inst, [13]); (Field_r_Slot_inst, [0])] [Return OPCODE_MULS_AA_HL];
    If [(Field_op1_Slot_inst, [14]); (Field_r_Slot_inst, [0])] [Return OPCODE_MULS_AA_LH];
    If [(Field_op1_Slot_inst, [15]); (Field_r_Slot_inst, [0])] [Return OPCODE_MULS_AA_HH]];
  If [(Field_op2_Slot_inst, [8])] [
    If [(Field_op1_Slot_inst, [0]); (Field_t_Slot_inst, [0]); (Field_rhi_Slot_inst, [0])] [Return OPCODE_LDINC]];
  If [(Field_op2_Slot_inst, [9])] [
    If [(Field_op1_Slot_inst, [0]); (Field_t_Slot_inst, [0]); (Field_rhi_Slot_inst, [0])] [Return OPCODE_LDDEC]]].

Definition Slot_inst_decode_22 : list rule := [
  If [(Field_op0_Slot_inst, [4])] (Slot_inst_decode_19 ++ Slot_inst_decode_20 ++ Slot_inst_decode_21)].

Definition Slot_inst_decode_23 : list rule := [
  If [(Field_op0_Slot_inst, [5])] [
    If [(Field_n_Slot_inst, [0])] [Return OPCODE_CALL0];
    If [(Field_n_Slot_inst, [1])] [Return OPCODE_CALL4];
    If [(Field_n_Slot_inst, [2])] [Return OPCODE_CALL8];
    If [(Field_n_Slot_inst, [3])] [Return OPCODE_CALL12]];
  If [(Field_op0_Slot_inst, [6])] [
    If [(Field_n_Slot_inst, [0])] [Return OPCODE_J];
    If [(Field_n_Slot_inst, [1])] [
      If [(Field_m_Slot_inst, [0])] [Return OPCODE_BEQZ];
      If [(Field_m_Slot_inst, [1])] [Return OPCODE_BNEZ];
      If [(Field_m_Slot_inst, [2])] [Return OPCODE_BLTZ];
      If [(Field_m_Slot_inst, [3])] [Return OPCODE_BGEZ]];
    If [(Field_n_Slot_inst, [2])] [
      If [(Field_m_Slot_inst, [0])] [Return OPCODE_BEQI];
      If [(Field_m_Slot_inst, [1])] [Return OPCODE_BNEI];
      If [(Field_m_Slot_inst, [2])] [Return OPCODE_BLTI];
      If [(Field_m_Slot_inst, [3])] [Return OPCODE_BGEI]];
    If [(Field_n_Slot_inst, [3])] [
      If [(Field_m_Slot_inst, [0])] [Return OPCODE_ENTRY];
      If [(Field_m_Slot_inst, [1])] [
        If [(Field_r_Slot_inst, [0])] [Return OPCODE_BF];
        If [(Field_r_Slot_inst, [1])] [Return OPCODE_BT];
        If [(Field_r_Slot_inst, [8])] [Return OPCODE_LOOP];
        If [(Field_r_Slot_inst, [9])] [Return OPCODE_LOOPNEZ];
        If [(Field_r_Slot_inst, [10])] [Return OPCODE_LOOPGTZ]];
      If [(Field_m_Slot_inst, [2])] [Return OPCODE_BLTUI];
      If [(Field_m_Slot_inst, [3])] [Return OPCODE_BGEUI]]];
  If [(Field_op0_Slot_inst, [7])] [
    If [(Field_r_Slot_inst, [0])] [Return OPCODE_BNONE];
    If [(Field_r_Slot_inst, [1])] [Return OPCODE_BEQ];
    If [(Field_r_Slot_inst, [2])] [Return OPCODE_BLT];
    If [(Field_r_Slot_inst, [3])] [Return OPCODE_BLTU];
    If [(Field_r_Slot_inst, [4])] [Return OPCODE_BALL];
    If [(Field_r_Slot_inst, [5])] [Return OPCODE_BBC];
    If [(Field_r_Slot_inst, [6; 7])] [Return OPCODE_BBCI];
    If [(Field_r_Slot_inst, [8])] [Return OPCODE_BANY];
    If [(Field_r_Slot_inst, [9])] [Return OPCODE_BNE];
    If [(Field_r_Slot_inst, [10])] [Return OPCODE_BGE];
    If [(Field_r_Slot_inst, [11])] [Return OPCODE_BGEU];
    If [(Field_r_Slot_inst, [12])] [Return OPCODE_BNALL];
    If [(Field_r_Slot_inst, [13])] [Return OPCODE_BBS];
    If [(Field_r_Slot_inst, [14; 15])] [Return OPCODE_BBSI]];
  Return (XTENSA_UNDEFINED)].

Definition Slot_inst_decode_rules : list rule :=
  Slot_inst_decode_1 ++ Slot_inst_decode_2 ++ Slot_inst_decode_3 ++ Slot_inst_decode_4 ++ Slot_inst_decode_17 ++ Slot_inst_decode_18 ++ Slot_inst_decode_22 ++ Slot_inst_decode_23.

Definition Slot_inst_decode : insnbuf -> Z := decode_with Slot_inst_decode_rules.

Definition Slot_inst16b_decode_1 : list rule := [
  If [(Field_op0_Slot_inst16b, [12])] [
    If [(Field_i_Slot_inst16b, [0])] [Return OPCODE_MOVI_N];
    If [(Field_i_Slot_inst16b, [1])] [
      If [(Field_z_Slot_inst16b, [0])] [Return OPCODE_BEQZ_N];
      If [(Field_z_Slot_inst16b, [1])] [Return OPCODE_BNEZ_N]]];
  If [(Field_op0_Slot_inst16b, [13])] [
    If [(Field_r_Slot_inst16b, [0])] [Return OPCODE_MOV_N];
    If [(Field_r_Slot_inst16b, [15])] [
      If [(Field_t_Slot_inst16b, [0])] [Return OPCODE_RET_N];
      If [(Field_t_Slot_inst16b, [1])] [Return OPCODE_RETW_N];
      If [(Field_t_Slot_inst16b, [2])] [Return OPCODE_BREAK_N];
      If [(Field_t_Slot_inst16b, [3]); (Field_s_Slot_inst16b, [0])] [Return OPCODE_NOP_N];
      If [(Field_t_Slot_inst16b, [6]); (Field_s_Slot_inst16b, [0])] [Return OPCODE_ILL_N]]];
  Return (XTENSA_UNDEFINED)].

Definition Slot_inst16b_decode_rules : list rule :=
  Slot_inst16b_decode_1.

Definition Slot_inst16b_decode : insnbuf -> Z := decode_with Slot_inst16b_decode_rules.

Definition Slot_inst16a_decode_1 : list rule := [
  If [(Field_op0_Slot_inst16a, [8])] [Return OPCODE_L32I_N];
  If [(Field_op0_Slot_inst16a, [9])] [Return OPCODE_S32I_N];
  If [(Field_op0_Slot_inst16a, [10])] [Return OPCODE_ADD_N];
  If [(Field_op0_Slot_inst16a, [11])] [Return OPCODE_ADDI_N];
  Return (XTENSA_UNDEFINED)].

Definition Slot_inst16a_decode_rules : list rule :=
  Slot_inst16a_decode_1.

Definition Slot_inst16a_decode : insnbuf -> Z := decode_with Slot_inst16a_decode_rules.

Definition Slot_slot_format_32_0_decode_1 : list rule := [
  If [(Field_fld_slot_format_32_0_28_20_Slot_slot_format_32_0, [456]); (Field_fld_slot_format_32_0_7_6_Slot_slot_format_32_0, [0])] [Return OPCODE_EE_CMUL_S16_ST_INCP];
  If [(Field_fld_slot_format_32_0_28_20_Slot_slot_format_32_0, [457]); (Field_fld_slot_format_32_0_7_4_Slot_slot_format_32_0, [0])] [Return OPCODE_EE_VADDS_S16_ST_INCP];
  If [(Field_fld_slot_format_32_0_28_20_Slot_slot_format_32_0, [457]); (Field_fld_slot_format_32_0_7_4_Slot_slot_format_32_0, [1])] [Return OPCODE_EE_VADDS_S32_ST_INCP];
  If [(Field_fld_slot_format_32_0_28_20_Slot_slot_format_32_0, [457]); (Field_fld_slot_format_32_0_7_4_Slot_slot_format_32_0, [2])] [Return OPCODE_EE_VADDS_S8_ST_INCP];
  If [(Field_fld_slot_format_32_0_28_20_Slot_slot_format_32_0, [457]); (Field_fld_slot_format_32_0_7_4_Slot_slot_format_32_0, [3])] [Return OPCODE_EE_VMAX_S16_ST_INCP];
  If [(Field_fld_slot_format_32_0_28_20_Slot_slot_format_32_0, [458]); (Field_fld_slot_format_32_0_7_4_Slot_slot_format_32_0, [3])] [Return OPCODE_EE_VMUL_S8_ST_INCP];
  If [(Field_fld_slot_format_32_0_28_20_Slot_slot_format_32_0, [458]); (Field_fld_slot_format_32_0_7_4_Slot_slot_format_32_0, [0])] [Return OPCODE_EE_VMAX_S32_ST_INCP];
  If [(Field_fld_slot_format_32_0_28_20_Slot_slot_format_32_0, [458]); (Field_fld_slot_format_32_0_7_4_Slot_slot_format_32_0, [1])] [Return OPCODE_EE_VMIN_S16_ST_INCP];
  If [(Field_fld_slot_format_32_0_28_20_Slot_slot_format_32_0, [458]); (Field_fld_slot_format_32_0_7_4_Slot_slot_format_32_0, [2])] [Return OPCODE_EE_VMIN_S8_ST_INCP];
  If [(Field_fld_slot_format_32_0_28_20_Slot_slot_format_32_0, [459]); (Field_fld_slot_format_32_0_7_4_Slot_slot_format_32_0, [2])] [Return OPCODE_EE_VMUL_S16_ST_INCP];
  If [(Field_fld_slot_format_32_0_28_20_Slot_slot_format_32_0, [459]); (Field_fld_slot_format_32_0_7_4_Slot_slot_format_32_0, [3])] [Return OPCODE_EE_VMUL_U16_ST_INCP];
  If [(Field_fld_slot_format_32_0_28_20_Slot_slot_format_32_0, [459]); (Field_fld_slot_format_32_0_7_4_Slot_slot_format_32_0, [0])] [Return OPCODE_EE_VMAX_S8_ST_INCP];
  If [(Field_fld_slot_format_32_0_28_20_Slot_slot_format_32_0, [459]); (Field_fld_slot_format_32_0_7_4_Slot_slot_format_32_0, [1])] [Return OPCODE_EE_VMIN_S32_ST_INCP];
  If [(Field_fld_slot_format_32_0_28_20_Slot_slot_format_32_0, [464]); (Field_fld_slot_format_32_0_13_11_Slot_slot_format_32_0, [0])] [Return OPCODE_EE_SRC_Q_LD_XP];
  If [(Field_fld_slot_format_32_0_28_20_Slot_slot_format_32_0, [465]); (Field_fld_slot_format_32_0_7_4_Slot_slot_format_32_0, [1])] [Return OPCODE_EE_VSUBS_S16_ST_INCP];
  If [(Field_fld_slot_format_32_0_28_20_Slot_slot_format_32_0, [465]); (Field_fld_slot_format_32_0_7_4_Slot_slot_format_32_0, [2])] [Return OPCODE_EE_VSUBS_S32_ST_INCP];
  If [(Field_fld_slot_format_32_0_28_20_Slot_slot_format_32_0, [465]); (Field_fld_slot_format_32_0_7_4_Slot_slot_format_32_0, [3])] [Return OPCODE_EE_VSUBS_S8_ST_INCP];
  If [(Field_fld_slot_format_32_0_28_20_Slot_slot_format_32_0, [465]); (Field_fld_slot_format_32_0_7_4_Slot_slot_format_32_0, [0])] [Return OPCODE_EE_VMUL_U8_ST_INCP];
  If [(Field_fld_slot_format_32_0_28_20_Slot_slot_format_32_0, [465]); (Field_fld_slot_format_32_0_13_13_Slot_slot_format_32_0, [0]); (Field_fld_slot_format_32_0_7_4_Slot_slot_format_32_0, [4])] [Return OPCODE_EE_FFT_R2BF_S16_ST_INCP];
  If [(Field_fld_slot_format_32_0_28_22_Slot_slot_format_32_0, [112]); (Field_fld_slot_format_32_0_10_4_Slot_slot_format_32_0, [125])] [Return OPCODE_EE_LDXQ_32];
  If [(Field_fld_slot_format_32_0_28_22_Slot_slot_format_32_0, [115]); (Field_fld_slot_format_32_0_19_17_Slot_slot_format_32_0, [0]); (Field_fld_slot_format_32_0_7_4_Slot_slot_format_32_0, [0])] [Return OPCODE_EE_STXQ_32];
  If [(Field_fld_slot_format_32_0_28_23_Slot_slot_format_32_0, [44])] [Return OPCODE_EE_VMULAS_S16_ACCX_LD_XP_QUP];
  If [(Field_fld_slot_format_32_0_28_23_Slot_slot_format_32_0, [45])] [Return OPCODE_EE_VMULAS_S16_QACC_LD_XP_QUP];
  If [(Field_fld_slot_format_32_0_28_23_Slot_slot_format_32_0, [46])] [Return OPCODE_EE_VMULAS_S8_ACCX_LD_XP_QUP];
  If [(Field_fld_slot_format_32_0_28_23_Slot_slot_format_32_0, [47])] [Return OPCODE_EE_VMULAS_S8_QACC_LD_XP_QUP];
  If [(Field_fld_slot_format_32_0_28_23_Slot_slot_format_32_0, [48])] [Return OPCODE_EE_VMULAS_U16_ACCX_LD_XP_QUP];
  If [(Field_fld_slot_format_32_0_28_23_Slot_slot_format_32_0, [49])] [Return OPCODE_EE_VMULAS_U16_QACC_LD_XP_QUP];
  If [(Field_fld_slot_format_32_0_28_23_Slot_slot_format_32_0, [50])] [Return OPCODE_EE_VMULAS_U8_ACCX_LD_XP_QUP];
  If [(Field_fld_slot_format_32_0_28_23_Slot_slot_format_32_0, [51])] [Return OPCODE_EE_VMULAS_U8_QACC_LD_XP_QUP];
  If [(Field_fld_slot_format_32_0_28_23_Slot_slot_format_32_0, [52])] [Return OPCODE_EE_FFT_AMS_S16_LD_INCP];
  If [(Field_fld_slot_format_32_0_28_23_Slot_slot_format_32_0, [53])] [Return OPCODE_EE_FFT_AMS_S16_LD_INCP_UAUP];
  If [(Field_fld_slot_format_32_0_28_23_Slot_slot_format_32_0, [54])] [Return OPCODE_EE_FFT_AMS_S16_LD_R32_DECP];
  If [(Field_fld_slot_format_32_0_28_23_Slot_slot_format_32_0, [55])] [Return OPCODE_EE_FFT_CMUL_S16_LD_XP];
  If [(Field_fld_slot_format_32_0_28_23_Slot_slot_format_32_0, [56]); (Field_fld_slot_format_32_0_7_5_Slot_slot_format_32_0, [2])] [Return OPCODE_EE_LDF_64_IP];
  If [(Field_fld_slot_format_32_0_28_23_Slot_slot_format_32_0, [56]); (Field_fld_slot_format_32_0_7_5_Slot_slot_format_32_0, [3])] [Return OPCODE_EE_STF_64_IP];
  If [(Field_fld_slot_format_32_0_28_23_Slot_slot_format_32_0, [56]); (Field_fld_slot_format_32_0_10_4_Slot_slot_format_32_0, [45])] [Return OPCODE_EE_VADDS_S16_LD_INCP];
  If [(Field_fld_slot_format_32_0_28_23_Slot_slot_format_32_0, [56]); (Field_fld_slot_format_32_0_10_4_Slot_slot_format_32_0, [61])] [Return OPCODE_EE_VADDS_S32_LD_INCP];
  If [(Field_fld_slot_format_32_0_28_23_Slot_slot_format_32_0, [56]); (Field_fld_slot_format_32_0_10_4_Slot_slot_format_32_0, [28])] [Return OPCODE_EE_VADDS_S8_LD_INCP];
  If [(Field_fld_slot_format_32_0_28_23_Slot_slot_format_32_0, [56]); (Field_fld_slot_format_32_0_10_4_Slot_slot_format_32_0, [77])] [Return OPCODE_EE_VSUBS_S16_LD_INCP];
  If [(Field_fld_slot_format_32_0_28_23_Slot_slot_format_32_0, [56]); (Field_fld_slot_format_32_0_10_4_Slot_slot_format_32_0, [93])] [Return OPCODE_EE_VSUBS_S32_LD_INCP];
  If [(Field_fld_slot_format_32_0_28_23_Slot_slot_format_32_0, [56]); (Field_fld_slot_format_32_0_10_4_Slot_slot_format_32_0, [109])] [Return OPCODE_EE_VSUBS_S8_LD_INCP];
  If [(Field_fld_slot_format_32_0_28_23_Slot_slot_format_32_0, [56]); (Field_fld_slot_format_32_0_10_4_Slot_slot_format_32_0, [63])] [Return OPCODE_EE_VMUL_S16_LD_INCP];
  If [(Field_fld_slot_format_32_0_28_23_Slot_slot_format_32_0, [56]); (Field_fld_slot_format_32_0_10_4_Slot_slot_format_32_0, [76])] [Return OPCODE_EE_VMUL_S8_LD_INCP];
  If [(Field_fld_slot_format_32_0_28_23_Slot_slot_format_32_0, [56]); (Field_fld_slot_format_32_0_10_4_Slot_slot_format_32_0, [92])] [Return OPCODE_EE_VMUL_U16_LD_INCP];
  If [(Field_fld_slot_format_32_0_28_23_Slot_slot_format_32_0, [56]); (Field_fld_slot_format_32_0_10_4_Slot_slot_format_32_0, [108])] [Return OPCODE_EE_VMUL_U8_LD_INCP];
  If [(Field_fld_slot_format_32_0_28_23_Slot_slot_format_32_0, [56]); (Field_fld_slot_format_32_0_10_6_Slot_slot_format_32_0, [3])] [Return OPCODE_EE_CMUL_S16_LD_INCP];
  If [(Field_fld_slot_format_32_0_28_23_Slot_slot_format_32_0, [56]); (Field_fld_slot_format_32_0_7_4_Slot_slot_format_32_0, [8])] [Return OPCODE_EE_VMULAS_S16_QACC_LDBC_INCP_QUP];
  If [(Field_fld_slot_format_32_0_28_23_Slot_slot_format_32_0, [56]); (Field_fld_slot_format_32_0_7_4_Slot_slot_format_32_0, [9])] [Return OPCODE_EE_VMULAS_S8_QACC_LDBC_INCP_QUP];
  If [(Field_fld_slot_format_32_0_28_23_Slot_slot_format_32_0, [56]); (Field_fld_slot_format_32_0_7_4_Slot_slot_format_32_0, [10])] [Return OPCODE_EE_VMULAS_U16_QACC_LDBC_INCP_QUP];
  If [(Field_fld_slot_format_32_0_28_23_Slot_slot_format_32_0, [56]); (Field_fld_slot_format_32_0_7_4_Slot_slot_format_32_0, [11])] [Return OPCODE_EE_VMULAS_U8_QACC_LDBC_INCP_QUP];
  If [(Field_fld_slot_format_32_0_28_23_Slot_slot_format_32_0, [56]); (Field_fld_slot_format_32_0_10_4_Slot_slot_format_32_0, [124])] [Return OPCODE_EE_VSMULAS_S16_QACC_LD_INCP];
  If [(Field_fld_slot_format_32_0_28_23_Slot_slot_format_32_0, [56]); (Field_fld_slot_format_32_0_10_9_Slot_slot_format_32_0, [1]); (Field_fld_slot_format_32_0_7_4_Slot_slot_format_32_0, [12])] [Return OPCODE_EE_VSMULAS_S8_QACC_LD_INCP];
  If [(Field_fld_slot_format_32_0_28_23_Slot_slot_format_32_0, [56]); (Field_fld_slot_format_32_0_10_4_Slot_slot_format_32_0, [29])] [Return OPCODE_EE_VMAX_S16_LD_INCP]].

Definition Slot_slot_format_32_0_decode_2 : list rule := [
  If [(Field_fld_slot_format_32_0_28_23_Slot_slot_format_32_0, [56]); (Field_fld_slot_format_32_0_10_4_Slot_slot_format_32_0, [30])] [Return OPCODE_EE_VMAX_S32_LD_INCP];
  If [(Field_fld_slot_format_32_0_28_23_Slot_slot_format_32_0, [56]); (Field_fld_slot_format_32_0_10_4_Slot_slot_format_32_0, [31])] [Return OPCODE_EE_VMAX_S8_LD_INCP];
  If [(Field_fld_slot_format_32_0_28_23_Slot_slot_format_32_0, [56]); (Field_fld_slot_format_32_0_10_4_Slot_slot_format_32_0, [46])] [Return OPCODE_EE_VMIN_S16_LD_INCP];
  If [(Field_fld_slot_format_32_0_28_23_Slot_slot_format_32_0, [56]); (Field_fld_slot_format_32_0_10_4_Slot_slot_format_32_0, [62])] [Return OPCODE_EE_VMIN_S32_LD_INCP];
  If [(Field_fld_slot_format_32_0_28_23_Slot_slot_format_32_0, [56]); (Field_fld_slot_format_32_0_10_4_Slot_slot_format_32_0, [47])] [Return OPCODE_EE_VMIN_S8_LD_INCP];
  If [(Field_fld_slot_format_32_0_28_23_Slot_slot_format_32_0, [56]); (Field_fld_slot_format_32_0_7_6_Slot_slot_format_32_0, [0])] [Return OPCODE_EE_SRC_Q_LD_IP];
  If [(Field_fld_slot_format_32_0_28_23_Slot_slot_format_32_0, [60]); (Field_fld_slot_format_32_0_19_17_Slot_slot_format_32_0, [0]); (Field_fld_slot_format_32_0_10_8_Slot_slot_format_32_0, [1])] [Return OPCODE_EE_VMULAS_S16_ACCX_LD_XP];
  If [(Field_fld_slot_format_32_0_28_23_Slot_slot_format_32_0, [60]); (Field_fld_slot_format_32_0_19_17_Slot_slot_format_32_0, [2]); (Field_fld_slot_format_32_0_10_8_Slot_slot_format_32_0, [1])] [Return OPCODE_EE_VMULAS_S8_ACCX_LD_XP];
  If [(Field_fld_slot_format_32_0_28_23_Slot_slot_format_32_0, [60]); (Field_fld_slot_format_32_0_19_17_Slot_slot_format_32_0, [4]); (Field_fld_slot_format_32_0_10_8_Slot_slot_format_32_0, [1])] [Return OPCODE_EE_VMULAS_U16_ACCX_LD_XP];
  If [(Field_fld_slot_format_32_0_28_23_Slot_slot_format_32_0, [60]); (Field_fld_slot_format_32_0_19_17_Slot_slot_format_32_0, [6]); (Field_fld_slot_format_32_0_10_8_Slot_slot_format_32_0, [1])] [Return OPCODE_EE_VMULAS_U8_ACCX_LD_XP];
  If [(Field_fld_slot_format_32_0_28_23_Slot_slot_format_32_0, [60]); (Field_fld_slot_format_32_0_19_17_Slot_slot_format_32_0, [1]); (Field_fld_slot_format_32_0_10_8_Slot_slot_format_32_0, [1])] [Return OPCODE_EE_VMULAS_S16_QACC_LD_XP];
  If [(Field_fld_slot_format_32_0_28_23_Slot_slot_format_32_0, [60]); (Field_fld_slot_format_32_0_19_17_Slot_slot_format_32_0, [3]); (Field_fld_slot_format_32_0_10_8_Slot_slot_format_32_0, [1])] [Return OPCODE_EE_VMULAS_S8_QACC_LD_XP];
  If [(Field_fld_slot_format_32_0_28_23_Slot_slot_format_32_0, [60]); (Field_fld_slot_format_32_0_19_17_Slot_slot_format_32_0, [5]); (Field_fld_slot_format_32_0_10_8_Slot_slot_format_32_0, [1])] [Return OPCODE_EE_VMULAS_U16_QACC_LD_XP];
  If [(Field_fld_slot_format_32_0_28_23_Slot_slot_format_32_0, [60]); (Field_fld_slot_format_32_0_19_17_Slot_slot_format_32_0, [7]); (Field_fld_slot_format_32_0_10_8_Slot_slot_format_32_0, [1])] [Return OPCODE_EE_VMULAS_U8_QACC_LD_XP];
  If [(Field_fld_slot_format_32_0_28_24_Slot_slot_format_32_0, [16])] [Return OPCODE_EE_LDF_128_IP];
  If [(Field_fld_slot_format_32_0_28_24_Slot_slot_format_32_0, [17])] [Return OPCODE_EE_LDF_128_XP];
  If [(Field_fld_slot_format_32_0_28_24_Slot_slot_format_32_0, [18])] [Return OPCODE_EE_STF_128_IP];
  If [(Field_fld_slot_format_32_0_28_24_Slot_slot_format_32_0, [19])] [Return OPCODE_EE_STF_128_XP];
  If [(Field_fld_slot_format_32_0_28_24_Slot_slot_format_32_0, [20])] [Return OPCODE_EE_FFT_AMS_S16_ST_INCP];
  If [(Field_fld_slot_format_32_0_28_24_Slot_slot_format_32_0, [21])] [Return OPCODE_EE_FFT_CMUL_S16_ST_XP];
  If [(Field_fld_slot_format_32_0_28_25_Slot_slot_format_32_0, [0])] [Return OPCODE_EE_VMULAS_S16_ACCX_LD_IP_QUP];
  If [(Field_fld_slot_format_32_0_28_25_Slot_slot_format_32_0, [1])] [Return OPCODE_EE_VMULAS_S16_QACC_LD_IP_QUP];
  If [(Field_fld_slot_format_32_0_28_25_Slot_slot_format_32_0, [2])] [Return OPCODE_EE_VMULAS_S8_ACCX_LD_IP_QUP];
  If [(Field_fld_slot_format_32_0_28_25_Slot_slot_format_32_0, [3])] [Return OPCODE_EE_VMULAS_S8_QACC_LD_IP_QUP];
  If [(Field_fld_slot_format_32_0_28_25_Slot_slot_format_32_0, [4])] [Return OPCODE_EE_VMULAS_U16_ACCX_LD_IP_QUP];
  If [(Field_fld_slot_format_32_0_28_25_Slot_slot_format_32_0, [5])] [Return OPCODE_EE_VMULAS_U16_QACC_LD_IP_QUP];
  If [(Field_fld_slot_format_32_0_28_25_Slot_slot_format_32_0, [6])] [Return OPCODE_EE_VMULAS_U8_ACCX_LD_IP_QUP];
  If [(Field_fld_slot_format_32_0_28_25_Slot_slot_format_32_0, [7])] [Return OPCODE_EE_VMULAS_U8_QACC_LD_IP_QUP];
  If [(Field_fld_slot_format_32_0_28_25_Slot_slot_format_32_0, [15]); (Field_fld_slot_format_32_0_19_17_Slot_slot_format_32_0, [0]); (Field_fld_slot_format_32_0_10_8_Slot_slot_format_32_0, [0])] [Return OPCODE_EE_VMULAS_S16_ACCX_LD_IP];
  If [(Field_fld_slot_format_32_0_28_25_Slot_slot_format_32_0, [15]); (Field_fld_slot_format_32_0_19_17_Slot_slot_format_32_0, [2]); (Field_fld_slot_format_32_0_10_8_Slot_slot_format_32_0, [0])] [Return OPCODE_EE_VMULAS_S8_ACCX_LD_IP];
  If [(Field_fld_slot_format_32_0_28_25_Slot_slot_format_32_0, [15]); (Field_fld_slot_format_32_0_19_17_Slot_slot_format_32_0, [4]); (Field_fld_slot_format_32_0_10_8_Slot_slot_format_32_0, [0])] [Return OPCODE_EE_VMULAS_U16_ACCX_LD_IP];
  If [(Field_fld_slot_format_32_0_28_25_Slot_slot_format_32_0, [15]); (Field_fld_slot_format_32_0_19_17_Slot_slot_format_32_0, [6]); (Field_fld_slot_format_32_0_10_8_Slot_slot_format_32_0, [0])] [Return OPCODE_EE_VMULAS_U8_ACCX_LD_IP];
  If [(Field_fld_slot_format_32_0_28_25_Slot_slot_format_32_0, [15]); (Field_fld_slot_format_32_0_19_17_Slot_slot_format_32_0, [1]); (Field_fld_slot_format_32_0_10_8_Slot_slot_format_32_0, [0])] [Return OPCODE_EE_VMULAS_S16_QACC_LD_IP];
  If [(Field_fld_slot_format_32_0_28_25_Slot_slot_format_32_0, [15]); (Field_fld_slot_format_32_0_19_17_Slot_slot_format_32_0, [3]); (Field_fld_slot_format_32_0_10_8_Slot_slot_format_32_0, [0])] [Return OPCODE_EE_VMULAS_S8_QACC_LD_IP];
  If [(Field_fld_slot_format_32_0_28_25_Slot_slot_format_32_0, [15]); (Field_fld_slot_format_32_0_19_17_Slot_slot_format_32_0, [5]); (Field_fld_slot_format_32_0_10_8_Slot_slot_format_32_0, [0])] [Return OPCODE_EE_VMULAS_U16_QACC_LD_IP];
  If [(Field_fld_slot_format_32_0_28_25_Slot_slot_format_32_0, [15]); (Field_fld_slot_format_32_0_19_17_Slot_slot_format_32_0, [7]); (Field_fld_slot_format_32_0_10_8_Slot_slot_format_32_0, [0])] [Return OPCODE_EE_VMULAS_U8_QACC_LD_IP];
  If [(Field_fld_slot_format_32_0_28_4_Slot_slot_format_32_0, [30154752]); (Field_fld_slot_format_32_0_3_0_Slot_slot_format_32_0, [0])] [Return OPCODE_NOP];
  Return (XTENSA_UNDEFINED)].

Definition Slot_slot_format_32_0_decode_rules : list rule :=
  Slot_slot_format_32_0_decode_1 ++ Slot_slot_format_32_0_decode_2.

Definition Slot_slot_format_32_0_decode : insnbuf -> Z := decode_with Slot_slot_format_32_0_decode_rules.

