(* ===== verification/S3Module.v ===== *)
(** * The ESP32-S3 ISA module

    Slots, opcode table and top-level structure of
    [target/xtensa/core-esp32s3/xtensa-modules.inc.c], and what holds of the complete
    module: every opcode is decoded back from its encoding, whatever its operands. *)

From S2P Require Import Prelude Isa IsaLookup IsaCodec IsaPattern IsaAsm IsaModule Esp32s3Isa.
From S2P Require Import S3Fields S3Classes S3Opcodes S3Decoders S3Units.

#[local] Open Scope mach_scope.

(** ** Slots *)

(** [dst = (dst & ~dm) | (((src & sm) >> a) << b);] *)
Record move := Mv { mv_dm : Z; mv_sm : Z; mv_a : Z; mv_b : Z }.
Definition move_word (src dst : Z) (m : move) : Z :=
  (dst &&& not32 (mv_dm m)) ||| lsl32 ((src &&& mv_sm m) >>> mv_a m) (mv_b m).

Definition format_32_get_moves : list move :=
  [Mv 0xf00 0xf00000 20 8; Mv 0xf000 0xf000 12 12; Mv 0x10000 0x1 0 16; Mv 0x1e0000 0xf0000 16 17;
   Mv 0x1fe00000 0xff000000 24 21].
Definition Slot_format_32_Format_slot_format_32_0_0_get (insn slotbuf : insnbuf) : insnbuf :=
  let w := nthZ insn 0 in
  setZ slotbuf 0 (foldl (move_word w) ((w &&& 0xff0) >>> 4) format_32_get_moves).

Definition format_32_set_moves : list move :=
  [Mv 0xff0 0xff 0 4; Mv 0xf00000 0xf00 8 20; Mv 0xf000 0xf000 12 12; Mv 0x1 0x10000 16 0;
   Mv 0xf0000 0x1e0000 17 16; Mv 0xff000000 0x1fe00000 21 24].
Definition Slot_format_32_Format_slot_format_32_0_0_set (insn slotbuf : insnbuf) : insnbuf :=
  setZ insn 0 (foldl (move_word (nthZ slotbuf 0)) (nthZ insn 0) format_32_set_moves).

Definition esp32s3_slots : list core_slot :=
  [mkCoreSlot "Inst" "x24" 0 Slot_x24_Format_inst_0_get Slot_x24_Format_inst_0_set
     Slot_inst_get_field_fns Slot_inst_set_field_fns Slot_inst_decode_rules "nop";
   mkCoreSlot "Inst16a" "x16a" 0 Slot_x16a_Format_inst16a_0_get Slot_x16a_Format_inst16a_0_set
     Slot_inst16a_get_field_fns Slot_inst16a_set_field_fns Slot_inst16a_decode_rules "";
   mkCoreSlot "Inst16b" "x16b" 0 Slot_x16b_Format_inst16b_0_get Slot_x16b_Format_inst16b_0_set
     Slot_inst16b_get_field_fns Slot_inst16b_set_field_fns Slot_inst16b_decode_rules "nop.n";
   mkCoreSlot "slot_format_32_0" "format_32" 0 Slot_format_32_Format_slot_format_32_0_0_get
     Slot_format_32_Format_slot_format_32_0_0_set Slot_slot_format_32_0_get_field_fns
     Slot_slot_format_32_0_set_field_fns Slot_slot_format_32_0_decode_rules "nop"].

(** ** Opcodes *)

Definition esp32s3_words : list (list (option Z)) := Eval vm_compute in entry_words s3_encode s3_encode_fns s3_opcode_entries.
Definition esp32s3_opcodes : list core_opcode := core_opcodes s3_uses s3_opcode_entries esp32s3_words.

Definition esp32s3_core : core := mkCore esp32s3_slots esp32s3_opcodes s3_iclasses s3_operands.

(** The top-level structure. *)
Definition esp32s3_isa : xtensa_isa_internal :=
  xtensa_modules (slot_of <$> esp32s3_slots) s3_operands s3_iclasses (opcode_of <$> esp32s3_opcodes) s3_regfiles
    s3_states s3_sysregs 247 233 s3_interfaces s3_funcUnits.

(** ** Checks *)

Definition slot_mask (fmt : Z) : Z := nthZ [0xffffff; 0xffff; 0xffff; 0x1fffffff] fmt.

(** The known bits fix the format. *)
Definition format_fixed (fmt K e : Z) : bool :=
  if fmt =? 3 then true else (K &&& 0xf =? 0xf) && (format_decoder [e &&& 0xf] =? fmt).

(** The decoders of the slots, compiled. *)
Definition s3_compiled : list (list (list mcond * Z)) := Eval vm_compute in
  (fun s => compile (cs_rules s)) <$> esp32s3_slots.

Lemma s3_compiled_eq : s3_compiled = (fun s => compile (cs_rules s)) <$> esp32s3_slots.
Proof. vm_cast_no_check (eq_refl s3_compiled). Qed.

Lemma esp32s3_slots_ok : forallb slot_ok esp32s3_slots = true.
Proof. vm_cast_no_check (eq_refl true). Qed.

Lemma esp32s3_opcodes_ok :
  forallb (fun fmt => let n := Z.to_nat fmt in
             opcodes_ok esp32s3_core n (slot_mask fmt) (s3_compiled !!! n) (format_fixed fmt)) [0; 1; 2; 3] = true.
Proof. vm_cast_no_check (eq_refl true). Qed.

(** ** Slots and formats *)

(** *** Moves of bits *)

Definition move_width (m : move) : Z := Z.log2 (mv_sm m >>> mv_a m) + 1.
Definition move_ok (m : move) : bool :=
  let n := move_width m in
  (0 <=? mv_a m) && (0 <=? mv_b m) && (mv_b m + n <=? 32) && (0 <=? n)
  && (mv_sm m =? Z.shiftl (2 ^ n - 1) (mv_a m)) && (mv_dm m =? Z.shiftl (2 ^ n - 1) (mv_b m)).
Definition move_source (l : list move) (j : Z) : option Z :=
  foldl (fun acc m => if (mv_b m <=? j) && (j <? mv_b m + move_width m) then Some (j - mv_b m + mv_a m) else acc) None l.

Lemma move_word_bits src dst m j : move_ok m = true -> 0 <= j < 32 ->
  Z.testbit (move_word src dst m) j =
    if (mv_b m <=? j) && (j <? mv_b m + move_width m) then Z.testbit src (j - mv_b m + mv_a m) else Z.testbit dst j.
Proof.
  unfold move_ok. cbv zeta. generalize (move_width m) as n. intros n Hm Hj. unfold move_word.
  assert (Hs : mv_sm m = Z.shiftl (2 ^ n - 1) (mv_a m)) by lia.
  assert (Hd : mv_dm m = Z.shiftl (2 ^ n - 1) (mv_b m)) by lia.
  rewrite Z.lor_spec, Z.land_spec, not32_testbit, lsl32_testbit, Hs, Hd, Z.shiftl_spec by lia.
  rewrite (proj2 (Z.ltb_lt j 32)) by lia. simpl. destruct (Z.leb_spec (mv_b m) j) as [Hb|Hb]; simpl.
  - rewrite Z.shiftr_spec, Z.land_spec, Z.shiftl_spec, !ones_testbit by lia.
    destruct (Z.ltb_spec j (mv_b m + n)).
    + rewrite (proj2 (Z.ltb_lt (j - mv_b m) n)), (proj2 (Z.ltb_lt (j - mv_b m + mv_a m - mv_a m) n)) by lia.
      by rewrite andb_false_r, andb_true_r.
    + rewrite (proj2 (Z.ltb_ge (j - mv_b m) n)), (proj2 (Z.ltb_ge (j - mv_b m + mv_a m - mv_a m) n)) by lia.
      by rewrite andb_true_r, andb_false_r, orb_false_r.
  - rewrite !(Z.testbit_neg_r _ (j - mv_b m)) by lia. simpl. by rewrite andb_true_r, orb_false_r.
Qed.

Lemma moves_bits l src dst j : forallb move_ok l = true -> 0 <= j < 32 ->
  Z.testbit (foldl (move_word src) dst l) j =
    match move_source l j with Some k => Z.testbit src k | None => Z.testbit dst j end.
Proof.
  intros Hok Hj. unfold move_source.
  assert (Hfold : forall l d b acc, forallb move_ok l = true ->
    Z.testbit d j = match acc with Some k => Z.testbit src k | None => b end ->
    Z.testbit (foldl (move_word src) d l) j =
      match foldl (fun acc m => if (mv_b m <=? j) && (j <? mv_b m + move_width m)
                                then Some (j - mv_b m + mv_a m) else acc) acc l with
      | Some k => Z.testbit src k | None => b end).
  { clear - Hj. induction l as [|m l IH]; intros d b acc Hs Hd; simpl in *; [done|].
    apply andb_prop in Hs as [Hm Hs]. apply IH; [done|]. rewrite move_word_bits by done. by destruct (_ && _). }
  by apply Hfold.
Qed.

Lemma moves_in32 l src dst : in32 dst -> in32 (foldl (move_word src) dst l).
Proof. revert dst. induction l as [|m l IH]; intros dst Hd; simpl; [done|]. apply IH. unfold move_word. auto with mach. Qed.

(** *** The four formats *)

Lemma format_decoder_nibble w : format_decoder [w] = format_decoder [w &&& 0xf].
Proof.
  unfold format_decoder.
  change (nthZ [w] 0) with w. change (nthZ [w &&& 0xf] 0) with (w &&& 0xf). by rewrite <- !Z.land_assoc.
Qed.

Lemma short_format fmt x : fmt <> 3 -> (exists K e, format_fixed fmt K e = true /\ x &&& K = e) -> format_decoder [x] = fmt.
Proof.
  intros Hne (K & e & Hf & He). unfold format_fixed in Hf. rewrite (proj2 (Z.eqb_neq _ _) Hne) in Hf.
  apply andb_prop in Hf as [HK%Z.eqb_eq Hd%Z.eqb_eq]. rewrite format_decoder_nibble, <- Hd. f_equal. f_equal.
  by rewrite <- He, <- Z.land_assoc, HK.
Qed.

Lemma format_32_slot x : in32 x -> x &&& not32 (slot_mask 3) = 0 ->
  let z := foldl (move_word x) 0xe format_32_set_moves in
  in32 z /\ format_decoder [z] = 3 /\
  foldl (move_word z) ((z &&& 0xff0) >>> 4) format_32_get_moves = x.
Proof.
  intros Hx Hm z. assert (Hz : in32 z) by (apply moves_in32; auto with mach).
  assert (Hzb : forall j, 0 <= j < 32 -> Z.testbit z j =
    match move_source format_32_set_moves j with Some k => Z.testbit x k | None => Z.testbit 0xe j end)
    by (intros; by apply moves_bits).
  split; [done|]. split.
  - unfold format_decoder. change (nthZ [z] 0) with z.
    assert (H1 : Z.testbit z 1 = true) by (by rewrite Hzb by lia).
    assert (H2 : Z.testbit z 2 = true) by (by rewrite Hzb by lia).
    assert (H3 : Z.testbit z 3 = true) by (by rewrite Hzb by lia).
    assert (He : z &&& 0xe = 0xe).
    { apply Z.bits_inj'. intros j Hj. rewrite Z.land_spec. destruct (Z.ltb_spec j 4).
      - assert (Hc : j = 0 \/ j = 1 \/ j = 2 \/ j = 3) by lia.
        destruct Hc as [->|[->|[->| ->]]]; rewrite ?H1, ?H2, ?H3; try done. apply andb_false_r.
      - rewrite (testbit_above 4 0xe) by lia. apply andb_false_r. }
    assert (H8 : z &&& 0x8 = 0x8) by (change 0x8 with (0xe &&& 0x8) at 1; by rewrite Z.land_assoc, He).
    assert (Hc : z &&& 0xc = 0xc) by (change 0xc with (0xe &&& 0xc) at 1; by rewrite Z.land_assoc, He).
    by rewrite H8, Hc, He.
  - apply Z.bits_inj'. intros j Hj. destruct (Z.ltb_spec j 32) as [Hl|Hl].
    2: { rewrite (in32_testbit x) by done. apply in32_testbit; [|done]. apply moves_in32, in32_shiftr; auto with mach. lia. }
    rewrite moves_bits by (done || lia).
    apply (f_equal (fun y => Z.testbit y j)) in Hm. rewrite Z.land_spec, not32_testbit, Z.testbit_0_l in Hm by lia.
    assert (Hall : forallb (fun j =>
      match move_source format_32_get_moves j with
      | Some k => (0 <=? k) && (k <? 32) && bool_decide (move_source format_32_set_moves k = Some j)
      | None => if j <? 8 then bool_decide (move_source format_32_set_moves (j + 4) = Some j)
                else negb (Z.testbit (slot_mask 3) j)
      end) (seqZ 0 32) = true) by (by vm_compute).
    rewrite forallb_forall in Hall. specialize (Hall j). rewrite <- list_elem_of_In, elem_of_seqZ in Hall.
    specialize (Hall ltac:(lia)). destruct (move_source format_32_get_moves j) as [k|].
    + apply andb_prop in Hall as [Hk Hs%bool_decide_eq_true]. by rewrite Hzb, Hs by lia.
    + rewrite Z.shiftr_spec, Z.land_spec by lia. change 0xff0 with (Z.shiftl (2 ^ 8 - 1) 4).
      rewrite Z.shiftl_spec, ones_testbit by lia. replace (j + 4 - 4) with j by lia.
      destruct (Z.ltb_spec j 8).
      * apply bool_decide_eq_true in Hall. by rewrite Hzb, Hall, andb_true_r by lia.
      * rewrite Hall, (proj2 (Z.ltb_lt j 32)), andb_true_r in Hm by lia. by rewrite andb_false_r, Hm.
Qed.

(** ** The module *)

Definition s3_module_tables : module_tables :=
  mkTables esp32s3_core 4 esp32s3_formats format_decoder length_table slot_mask format_fixed.

Lemma s3_opcodes_checked fmt : 0 <= fmt < 4 ->
  opcodes_ok esp32s3_core (Z.to_nat fmt) (slot_mask fmt) (compile (cs_rules (c_slots esp32s3_core !!! Z.to_nat fmt)))
    (format_fixed fmt) = true.
Proof.
  intros Hf. pose proof esp32s3_opcodes_ok as H. rewrite forallb_forall in H.
  assert (Hin : In fmt [0; 1; 2; 3]) by (simpl; lia). specialize (H fmt Hin). cbv beta zeta in H.
  assert (Hs : s3_compiled !!! Z.to_nat fmt = compile (cs_rules (c_slots esp32s3_core !!! Z.to_nat fmt))).
  { rewrite s3_compiled_eq. exact (index_fmap _ esp32s3_slots fmt Hf). }
  by rewrite Hs in H.
Qed.

Lemma s3_form fmt x : 0 <= fmt < 4 -> in32 x -> x &&& not32 (slot_mask fmt) = 0 ->
  (exists K e, format_fixed fmt K e = true /\ x &&& K = e) ->
  let s := esp32s3_slots !!! Z.to_nat fmt in let f := index esp32s3_formats fmt in
  exists z, cs_set s (fmt_encode_fn f [0]) [x] = [z] /\ 0 <= z < 2 ^ (8 * fmt_length f) /\
    format_decoder [z] = fmt /\ forall y, cs_get s [z] [y] = [x].
Proof.
  intros Hf Hx Hmask Hfix. assert (Hc : fmt = 0 \/ fmt = 1 \/ fmt = 2 \/ fmt = 3) by lia.
  destruct Hc as [->|[->|[->| ->]]]; cbv zeta.
  - apply (short_slot 24); [done|done|done|by apply short_format|done..].
  - apply (short_slot 16); [done|done|done|by apply short_format|done..].
  - apply (short_slot 16); [done|done|done|by apply short_format|done..].
  - destruct (format_32_slot x Hx Hmask) as (H1 & H2 & H3). eexists. split; [done|]. split; [exact H1|].
    split; [exact H2|]. intros y. exact (f_equal (fun y => [y]) H3).
Qed.

#[export] Instance s3_module_checks : ModuleChecks s3_module_tables.
Proof.
  split; [by vm_compute|exact s3_bytes_agree|exact format_decoder_byte|done|done|by vm_compute|exact esp32s3_slots_ok
    |exact s3_opcodes_checked|exact s3_form].
Qed.

Lemma s3_module_init malloc st st' :
  isa st = esp32s3_isa -> xtensa_isa_init malloc st = (true, st') -> module_of s3_module_tables (isa st').
Proof. intros Hm Hi. apply isa_init_ready in Hi as [[] _]. rewrite Hm in *. by split; split. Qed.

(** ** Claims *)

(** C12: Whatever the ESP32-S3 module can encode it decodes back: for every opcode and
    format the library accepts and every choice of the operand fields, the bytes
    assembled with [xtensa-isa.c] have the length the length decoder finds from
    their first byte, and disassembling them gives the same format, the same opcode,
    and in every operand field the low bits of the value stored there (or the fixed
    value of an implicit operand).  No error is left in the library. *)
Theorem esp32s3_asm_roundtrip (malloc : Z -> option insnbuf) (st0 st : IsaState) (fmt opc : Z) (vals : Z -> Z) :
  isa st0 = esp32s3_isa -> xtensa_isa_init malloc st0 = (true, st) ->
  (xtensa_opcode_encode fmt 0 [0] opc st).1.1 = 0 ->
  exists bytes, assemble fmt opc vals st = (bytes, st) /\
    xtensa_isa_length_from_chars bytes st = (Z.of_nat (length bytes), st) /\
    disassemble bytes st =
      ((fmt, opc, field_result (esp32s3_slots !!! Z.to_nat fmt) vals
                    <$> opcode_fields esp32s3_core (index esp32s3_opcodes opc)), st).
Proof.
  intros H0 Hi He. exact (module_roundtrip s3_module_tables st fmt opc vals (s3_module_init malloc st0 st H0 Hi) He).
Qed.

(** ** Witnesses *)

Definition esp32s3_state : IsaState := mkIsaState esp32s3_isa xtensa_isa_ok EmptyString None.
Definition esp32s3_ready : IsaState := (xtensa_isa_init grant esp32s3_state).2.

Lemma esp32s3_init : xtensa_isa_init grant esp32s3_state = (true, esp32s3_ready).
Proof.
  unfold esp32s3_ready. rewrite (surjective_pairing (xtensa_isa_init grant esp32s3_state)). f_equal.
Qed.

(** [add a1, a2, a3] *)
Definition add_fields (f : Z) : Z := if f =? FIELD_r then 1 else if f =? FIELD_s then 2 else 3.

Lemma esp32s3_asm_roundtrip_witness :
  (assemble 0 OPCODE_ADD add_fields esp32s3_ready).1 = [0x30; 0x12; 0x80] /\
  exists bytes, assemble 0 OPCODE_ADD add_fields esp32s3_ready = (bytes, esp32s3_ready) /\
    xtensa_isa_length_from_chars bytes esp32s3_ready = (Z.of_nat (length bytes), esp32s3_ready) /\
    disassemble bytes esp32s3_ready =
      ((0, OPCODE_ADD, field_result (esp32s3_slots !!! Z.to_nat 0) add_fields
                         <$> opcode_fields esp32s3_core (index esp32s3_opcodes OPCODE_ADD)), esp32s3_ready).
Proof.
  split; [by vm_compute|].
  exact (esp32s3_asm_roundtrip grant esp32s3_state esp32s3_ready 0 OPCODE_ADD add_fields eq_refl esp32s3_init
    ltac:(vm_compute; reflexivity)).
Defined.
