(* ===== verification/S3Disas.v ===== *)
(** * Decoding assembled ESP32-S3 instructions

    The decoder of the translator ([disas_xtensa_insn]) on the ESP32-S3 module:
    the bytes the library assembles for an opcode and values of its operand fields
    make the translator run the function of that opcode, on the operands these
    fields decode to. *)

From S2P Require Import Prelude Cpu TbFlags Control Arith Lanes Tie Isa IsaLookup IsaCodec IsaPattern IsaAsm IsaModule.
From S2P Require Import Esp32s3Isa Slots LoadStore Decode IsaDisas S3Fields S3Classes S3Opcodes S3Decoders S3Units S3Module.

#[local] Open Scope mach_scope.
#[local] Open Scope isa_scope.

(** The values of the visible operands of an opcode in slot 0 of a format, from its fields. *)
Definition s3_operand_values (fmt opc : Z) (vals : Z -> Z) (st : IsaState) : list Z :=
  visible_values esp32s3_core (c_slots esp32s3_core !!! Z.to_nat fmt) (index (c_opcodes esp32s3_core) opc) vals
    (fun k => truthy (xtensa_operand_is_visible opc k st).1).

(** C11: Assembled bytes in memory make the translator run the assembled instruction:
    for every opcode and format the ESP32-S3 module accepts and every choice of the
    operand fields, [disas_xtensa_insn] at the address of the bytes advances by
    their number and decodes one slot with the entry of exactly that opcode in the
    opcode table and with the operand values the fields decode to; without such an
    entry, or when the tests of the entry find it illegal, it emits the illegal
    instruction exception. *)
Theorem esp32s3_disas_assembled config opcode_ops a_regfile regfile read_reg ldub (malloc : Z -> option insnbuf)
    (st0 st : IsaState) (fmt opc : Z) (vals : Z -> Z) (dc : DisasContext) (y : Z) :
  isa st0 = esp32s3_isa -> xtensa_isa_init malloc st0 = (true, st) ->
  (xtensa_opcode_encode fmt 0 [0] opc st).1.1 = 0 ->
  in32 (dc_pc dc) -> holds_bytes ldub (dc_pc dc) (assemble fmt opc vals st).1 ->
  let r := (disas_xtensa_insn config opcode_ops a_regfile regfile read_reg ldub [y] dc st).1 in
  r.1.1 = u32 (dc_pc dc + Z.of_nat (length (assemble fmt opc vals st).1)) /\
  match opcode_ops opc with
  | None => r.1.2 = SlotIllegal (ret tt)
  | Some ops => exists args,
      a_raw_imm <$> args = s3_operand_values fmt opc vals st /\
      if truthy (tested_flags ops dc args &&& XTENSA_OP_ILL) then exists tests, r.1.2 = SlotIllegal tests
      else exists d prop, r.1.2 = SlotDone d /\ d_slots d = [mkSlotCode ops args prop]
  end.
Proof.
  intros H0 Hi He Hpc Hmem r. unfold r. clear r.
  rewrite (module_disas s3_module_tables config opcode_ops a_regfile regfile read_reg ldub st fmt opc vals dc y
    (s3_module_init malloc st0 st H0 Hi) He Hpc Hmem).
  cbn [fst snd]. split; [done|]. destruct (opcode_ops opc) as [ops|]; [|done].
  eexists. split; [apply (raw_operands _ _ _ _ a_regfile regfile dc)|].
  unfold one_slot, tested_flags. destruct (ops_test_exceptions ops) as [t|];
    cbn [fst snd]; (destruct (truthy _); [by eexists|by eexists _, _]).
Qed.

(** ** Witness: MOV.N a9, a2 in memory *)

Definition mov_fields (f : Z) : Z := if f =? FIELD_t then 9 else 2.

Lemma esp32s3_disas_assembled_witness :
  let r := (disas_xtensa_insn esp32s3_config (fun _ => Some mov_ops) 0 (fun _ => true) read_ar mov_bytes [0] mov_dc
              esp32s3_ready).1 in
  r.1.1 = u32 (0 + Z.of_nat (length (assemble 2 OPCODE_MOV_N mov_fields esp32s3_ready).1)) /\
  exists args, a_raw_imm <$> args = s3_operand_values 2 OPCODE_MOV_N mov_fields esp32s3_ready /\
    exists d prop, r.1.2 = SlotDone d /\ d_slots d = [mkSlotCode mov_ops args prop].
Proof.
  apply (esp32s3_disas_assembled esp32s3_config (fun _ => Some mov_ops) 0 (fun _ => true) read_ar mov_bytes grant
    esp32s3_state esp32s3_ready 2 OPCODE_MOV_N mov_fields mov_dc 0 eq_refl esp32s3_init).
  - vm_compute. reflexivity.
  - split; vm_compute; congruence.
  - intros i Hi. assert (Hc : i = 0 \/ i = 1).
    { replace (Z.of_nat (length (assemble 2 OPCODE_MOV_N mov_fields esp32s3_ready).1)) with 2 in Hi
        by (vm_compute; reflexivity). lia. }
    destruct Hc as [-> | ->]; vm_compute; reflexivity.
Defined.
