(* ===== verification/S3Exec.v ===== *)
(** * The ESP32-S3 core, bound and running

    The ESP32-S3 configuration with its opcode tables ([core-esp32s3.c]): every
    opcode of the module is bound to its entry, and assembled instructions run. *)

From stdpp Require Import gmap strings.
From S2P Require Import Prelude Cpu Exception Window TbFlags Control Arith Lanes Tie Isa IsaLookup IsaCodec IsaPattern IsaAsm.
From S2P Require Import Esp32s3Isa Slots FpStatus LoadStore TieTable SpecialReg SrTable Decode S3Fields S3Classes S3Opcodes S3Decoders.
From S2P Require Import IsaModule IsaDisas S3Units S3Module S3Disas Fpu CoreInsn FpInsn OpTable LibIsa Execution.

#[local] Open Scope mach_scope.
#[local] Open Scope isa_scope.

Definition esp32s3_opcode_translators : list (list table_entry) :=
  [xtensa_core_opcodes; xtensa_fpu_opcodes; xtensa_tie_opcodes].

Definition esp32s3_li : libisa :=
  default (mkLibIsa [] 0 [] no_names) (init_libisa grant esp32s3_opcode_translators no_names esp32s3_state).1.

(** ** A machine *)

Definition no_softfloat : Softfloat := mkSoftfloat f32_example f32_example (fun v s => (v, s)) (fun v s => (v, s)).
Definition flat_environment : Environment := {|
  e_ldl := fun _ => None; e_softmmu := flat_softmmu;
  e_er_ldl := fun _ => ret 0; e_er_stl := fun _ _ => ret tt;
  e_semihosting_enabled := fun _ => false; e_simcall := ret tt;
  e_insert_ok := fun _ => true; e_period := 12; e_now := 0; e_wnow := 0; e_now_of := fun _ => 0;
  e_softfloat := no_softfloat |}.

Definition s3_exec (k : nat) : machM unit :=
  run_insns esp32s3_config flat_environment esp32s3_li false esp32s3_ready (fun m => m_mem m) k.

(** ** Binding *)

Lemma esp32s3_names_distinct : NoDup (table_names (mjoin esp32s3_opcode_translators)).
Proof. apply (bool_decide_unpack _). by vm_compute. Qed.

Definition s3_entry (opc : Z) : option table_entry := mjoin (li_opcode_ops esp32s3_li !! Z.to_nat opc).
Definition s3_name (opc : Z) : string := opc_name (index (opcodes esp32s3_isa) opc).

(** The opcodes of the module that no table implements. *)
Definition unimplemented : list string := ["recip0.s"; "rsqrt0.s"; "lddr32.p"; "sddr32.p"]%string.

Abbreviation s3_tables := (hash_opcode_translators <$> esp32s3_opcode_translators) (only parsing).

Lemma s3_entries :
  let ts := s3_tables in li_opcode_ops esp32s3_li = (fun o => find_ops ts (opc_name o)) <$> opcodes esp32s3_isa.
Proof. vm_compute. reflexivity. Qed.

Lemma s3_init_libisa : exists st', init_libisa grant esp32s3_opcode_translators no_names esp32s3_state = (Some esp32s3_li, st').
Proof.
  unfold esp32s3_li.
  assert (H : bool_decide (is_Some (init_libisa grant esp32s3_opcode_translators no_names esp32s3_state).1) = true)
    by by vm_compute.
  apply bool_decide_eq_true in H as [li H].
  destruct (init_libisa _ _ _ _) as [r st']. cbn in H. subst r. by exists st'.
Qed.

Lemma s3_unimplemented :
  let ts := s3_tables in
  forallb (fun o => match find_ops ts (opc_name o) with
                    | Some _ => bool_decide (opc_name o ∉ unimplemented)
                    | None => bool_decide (opc_name o ∈ unimplemented) end) (opcodes esp32s3_isa) = true.
Proof. by vm_compute. Qed.

Lemma s3_opcodes_bound opc : 0 <= opc < count (opcodes esp32s3_isa) ->
  match s3_entry opc with
  | Some e => s3_name opc ∉ unimplemented /\
              forall e', (e' ∈ mjoin esp32s3_opcode_translators /\ s3_name opc ∈ entry_names e') <-> e' = e
  | None => s3_name opc ∈ unimplemented /\
            forall e', e' ∈ mjoin esp32s3_opcode_translators -> s3_name opc ∉ entry_names e'
  end.
Proof. exact (opcodes_bound _ unimplemented _ _ esp32s3_names_distinct s3_entries s3_unimplemented opc). Qed.

(** ** Instructions without checks *)

(** An entry with no tests, no coprocessor and no checks but that of a zero divisor. *)
Definition plain_entry (o : op_entry) : bool :=
  match op_test_exceptions o with None => true | Some _ => false end
  && negb (op_test_overflow o) && plain_flags (op_flags o) && (op_coprocessor o =? 0).

Lemma one_slot_plain ops dc wa :
  ops_test_exceptions ops = None -> ops_test_overflow ops = None -> plain_flags (ops_flags ops) = true ->
  ops_coprocessor ops = 0 ->
  one_slot ops dc wa = SlotDone (mkDecoded (ops_flags ops) 0 wa.1 0 [mkSlotCode ops wa.2 (mkSlotProp [] [] 0)]
                                   (ret tt ;; ret tt)).
Proof.
  intros Ht Ho Hf Hc. unfold one_slot. rewrite Ht, Ho, Hc. cbn [fst snd]. rewrite Z.lor_0_r.
  rewrite !(plain_bit _ _ Hf) by (by vm_compute). done.
Qed.

Abbreviation s3_file := (has_regfile esp32s3_li) (only parsing).

(** The operands of the assembled instruction, decoded. *)
Definition s3_operands_of (fmt opc : Z) (vals : Z -> Z) (dc : DisasContext) : Z * list OpcodeArg :=
  operands_of esp32s3_core (c_slots esp32s3_core !!! Z.to_nat fmt) (index (c_opcodes esp32s3_core) opc) vals
    (li_a_regfile esp32s3_li) s3_file dc opc esp32s3_ready.

#[local] Opaque esp32s3_li esp32s3_ready assemble.

Section plain.
Context `{!TcgOps} (E : Environment) (fetch : machine -> Z -> Z) (fmt opc : Z) (vals : Z -> Z) (o : op_entry) (fn : core_fn).
Context (m : machine).
Abbreviation dc := (tb_context esp32s3_config (m_env m)).
Abbreviation flags := (cpu_get_tb_cpu_state esp32s3_config (m_env m)).2.
Abbreviation bytes := (assemble fmt opc vals esp32s3_ready).1.
Abbreviation next := (u32 (pc (m_env m) + Z.of_nat (length bytes))).
Abbreviation wa := (s3_operands_of fmt opc vals dc).
Abbreviation t := (run_core esp32s3_config E (li_regfiles esp32s3_li) flags fn (with_op_flags dc next (op_flags o)) wa.2 (op_par o)).
Abbreviation guard := (zero_guard esp32s3_config (read_reg (li_regfiles esp32s3_li)) dc (op_flags o) wa.2).
Hypothesis He : s3_entry opc = Some (InsnEntry o).
Hypothesis Hp : plain_entry o = true.
Hypothesis Hfn : op_translate o = Some fn.
Hypothesis Henc : (xtensa_opcode_encode fmt 0 [0] opc esp32s3_ready).1.1 = 0.
Hypothesis Hpc : in32 (pc (m_env m)).
Hypothesis Hmem : holds_bytes (fetch m) (pc (m_env m)) bytes.
Hypothesis Hw : in32 wa.1.
Hypothesis Hwin : in_window dc wa.1.

(** The code of an assembled instruction with a plain entry. *)
Lemma plain_code : exists r code,
  (disas_core esp32s3_config E esp32s3_li flags (fetch m) [0] dc esp32s3_ready).1 = (next, r, code) /\
  forall m0, code m0 =
    (guard ;; t.2 ;; if t.1 then ret true else at_icount (with_op_flags dc next (op_flags o)) (finish_insn esp32s3_config)) m0.
Proof.
  pose proof Hp as Hp'.
  unfold plain_entry in Hp'. rewrite !andb_true_iff, negb_true_iff, Z.eqb_eq in Hp'. destruct Hp' as [[[Ht Ho] Hf] Hc].
  destruct (op_test_exceptions o) eqn:Ht'; [discriminate Ht|]. clear Ht.
  pose proof (module_disas s3_module_tables esp32s3_config (opcode_ops esp32s3_config E esp32s3_li flags) (li_a_regfile esp32s3_li) s3_file
    (read_reg (li_regfiles esp32s3_li)) (fetch m) esp32s3_ready fmt opc vals dc 0
    (s3_module_init grant esp32s3_state _ eq_refl esp32s3_init) Henc Hpc Hmem) as Hd. cbn zeta in Hd.
  assert (Hops : opcode_ops esp32s3_config E esp32s3_li flags opc =
    Some (entry_ops esp32s3_config E (li_regfiles esp32s3_li) flags o)).
  { unfold s3_entry in He. unfold opcode_ops. rewrite He. reflexivity. }
  rewrite Hops in Hd. rewrite one_slot_plain in Hd;
    [|cbn [entry_ops ops_test_exceptions]; rewrite Ht'; reflexivity
     |cbn [entry_ops ops_test_overflow]; rewrite Ho; reflexivity|exact Hf|exact Hc].
  eexists _, _. split; [exact Hd|]. intros m0.
  rewrite (emit_plain esp32s3_config _ (entry_ops esp32s3_config E (li_regfiles esp32s3_li) flags o) dc next _ wa.2
    (mkSlotProp [] [] 0)); [|exact Hf|exact Hc|reflexivity|exact Hw|exact Hwin].
  cbn [entry_ops ops_translate ops_par ops_flags]. rewrite Hfn. reflexivity.
Qed.

Hypothesis Hi : dc_icount dc = false.

(** An instruction that falls through runs its translator and advances. *)
Lemma plain_step m1 :
  guard (with_sar init_sar_tracker m) = Done tt (with_sar init_sar_tracker m) ->
  t.1 = false -> t.2 (with_sar init_sar_tracker m) = Done tt m1 -> next <> dc_lend dc ->
  run_block esp32s3_config E esp32s3_li false esp32s3_ready fetch 1 m = Done tt (with_env (set_pc next (m_env m1)) m1).
Proof.
  intros Hg Hleave Hcode Hl. destruct plain_code as (r & code & Hd & Hrun).
  apply (exec_one esp32s3_config E esp32s3_li esp32s3_ready fetch m next r code m1 Hi Hd).
  rewrite Hrun, Hleave. unfold bind. rewrite Hg, Hcode. unfold at_icount, bind, gets, on_env.
  rewrite finish_plain; [cbn; by destruct m1| |exact Hl].
  unfold plain_entry in Hp. rewrite !andb_true_iff in Hp. tauto.
Qed.

(** One that leaves the block ends as its translator does. *)
Lemma plain_leaves m1 :
  guard (with_sar init_sar_tracker m) = Done tt (with_sar init_sar_tracker m) ->
  t.1 = true -> t.2 (with_sar init_sar_tracker m) = Done tt m1 ->
  run_block esp32s3_config E esp32s3_li false esp32s3_ready fetch 1 m = Done tt m1.
Proof.
  intros Hg Hleave Hcode. destruct plain_code as (r & code & Hd & Hrun).
  apply (exec_one_leaves esp32s3_config E esp32s3_li esp32s3_ready fetch m next r code m1 Hi Hd).
  rewrite Hrun, Hleave. unfold bind. by rewrite Hg, Hcode.
Qed.
(** One with a zero divisor raises the exception. *)
Lemma plain_raises cause :
  guard (with_sar init_sar_tracker m) = on_env (gen_exception_cause esp32s3_config dc cause) (with_sar init_sar_tracker m) ->
  exists m', run_block esp32s3_config E esp32s3_li false esp32s3_ready fetch 1 m = Done tt m' /\
    machine_raised esp32s3_config cause m m'.
Proof.
  intros Hg. destruct plain_code as (r & code & Hd & Hrun).
  apply (exec_one_raises esp32s3_config E esp32s3_li esp32s3_ready fetch m next r code cause Hi Hd).
  rewrite Hrun. unfold bind. rewrite Hg. unfold on_env, gen_exception_cause. by rewrite !exception_cause_eq.
Qed.
End plain.

(** ** Unbound opcodes *)

(** An assembled instruction without an entry is illegal. *)
Lemma unbound_illegal `{!TcgOps} E fetch fmt opc vals m :
  let dc := tb_context esp32s3_config (m_env m) in
  s3_entry opc = None -> (xtensa_opcode_encode fmt 0 [0] opc esp32s3_ready).1.1 = 0 ->
  in32 (pc (m_env m)) -> holds_bytes (fetch m) (pc (m_env m)) (assemble fmt opc vals esp32s3_ready).1 ->
  dc_icount dc = false ->
  exists m', run_block esp32s3_config E esp32s3_li false esp32s3_ready fetch 1 m = Done tt m' /\
    machine_raised esp32s3_config ILLEGAL_INSTRUCTION_CAUSE m m'.
Proof.
  intros dc He Henc Hpc Hmem Hi. set (flags := (cpu_get_tb_cpu_state esp32s3_config (m_env m)).2).
  pose proof (module_disas s3_module_tables esp32s3_config (opcode_ops esp32s3_config E esp32s3_li flags) (li_a_regfile esp32s3_li) s3_file
    (read_reg (li_regfiles esp32s3_li)) (fetch m) esp32s3_ready fmt opc vals dc 0
    (s3_module_init grant esp32s3_state _ eq_refl esp32s3_init) Henc Hpc Hmem) as Hd. cbn zeta in Hd.
  assert (Hops : opcode_ops esp32s3_config E esp32s3_li flags opc = None).
  { unfold s3_entry in He. unfold opcode_ops. by rewrite He. }
  rewrite Hops in Hd. eapply exec_one_raises; [exact Hi|exact Hd|reflexivity].
Qed.


(** ** Witness: RECIP0.S f2, f3 at 0x400 *)

Definition recip_machine : machine :=
  machine_of (set_pc 0x400 zero_env) (fun a => nthZ (assemble 0 OPCODE_RECIP0_S (fun _ => 3) esp32s3_ready).1 (a - 0x400)) tie_zero.

