(* ===== verification/S3Alu.v ===== *)
(** * Arithmetic instructions of the ESP32-S3, from bytes to registers

    [alu_spec] says what each instruction on three address registers computes, as
    the instruction set describes it.  [alu_executes] shows that the assembled
    bytes, fetched, decoded, bound to their table entry, translated and run,
    have exactly that effect, and that [alu_spec] leaves out no such instruction. *)

From stdpp Require Import gmap strings.
From S2P Require Import Prelude Cpu Exception Window TbFlags Control Arith Lanes Tie Isa IsaLookup IsaCodec IsaPattern IsaAsm.
From S2P Require Import Esp32s3Isa Slots FpStatus LoadStore TieTable SpecialReg SrTable Decode S3Fields S3Classes S3Opcodes S3Decoders.
From S2P Require Import IsaModule IsaDisas S3Units S3Module S3Disas Fpu CoreInsn FpInsn OpTable LibIsa Execution S3Exec.

#[local] Open Scope mach_scope.

(** ** The instruction set *)

(** What an instruction makes of the shift amount register, its two sources and the old
    value of its destination: the new value, or none when the divisor is zero. *)
Definition alu_fn : Type := Z -> Z -> Z -> Z -> option Z.
Definition always (f : Z -> Z -> Z -> Z) : alu_fn := fun _ x y old => Some (f x y old).
Definition nonzero (f : Z -> Z -> Z) : alu_fn := fun _ x y _ => if y =? 0 then None else Some (f x y).
Definition shifting (f : Z -> Z -> Z -> Z) : alu_fn := fun sar x y _ => Some (f sar x y).

(** Format, opcode and function, on words. *)
Definition alu_spec : list (Z * Z * alu_fn) := [
  (1, OPCODE_ADD_N, always (fun x y _ => (x + y) mod 2 ^ 32));
  (0, OPCODE_ADD, always (fun x y _ => (x + y) mod 2 ^ 32));
  (0, OPCODE_SUB, always (fun x y _ => (x - y) mod 2 ^ 32));
  (0, OPCODE_ADDX2, always (fun x y _ => (2 * x + y) mod 2 ^ 32));
  (0, OPCODE_ADDX4, always (fun x y _ => (4 * x + y) mod 2 ^ 32));
  (0, OPCODE_ADDX8, always (fun x y _ => (8 * x + y) mod 2 ^ 32));
  (0, OPCODE_SUBX2, always (fun x y _ => (2 * x - y) mod 2 ^ 32));
  (0, OPCODE_SUBX4, always (fun x y _ => (4 * x - y) mod 2 ^ 32));
  (0, OPCODE_SUBX8, always (fun x y _ => (8 * x - y) mod 2 ^ 32));
  (0, OPCODE_AND, always (fun x y _ => Z.land x y));
  (0, OPCODE_OR, always (fun x y _ => Z.lor x y));
  (0, OPCODE_XOR, always (fun x y _ => Z.lxor x y));
  (0, OPCODE_SALT, always (fun x y _ => if s32 x <? s32 y then 1 else 0));
  (0, OPCODE_SALTU, always (fun x y _ => if x <? y then 1 else 0));
  (0, OPCODE_MUL16U, always (fun x y _ => (x mod 2 ^ 16) * (y mod 2 ^ 16)));
  (0, OPCODE_MUL16S, always (fun x y _ => (sext 16 x * sext 16 y) mod 2 ^ 32));
  (0, OPCODE_MULL, always (fun x y _ => (x * y) mod 2 ^ 32));
  (0, OPCODE_MULUH, always (fun x y _ => x * y / 2 ^ 32));
  (0, OPCODE_MULSH, always (fun x y _ => (s32 x * s32 y / 2 ^ 32) mod 2 ^ 32));
  (0, OPCODE_MIN, always (fun x y _ => Z.min (s32 x) (s32 y) mod 2 ^ 32));
  (0, OPCODE_MAX, always (fun x y _ => Z.max (s32 x) (s32 y) mod 2 ^ 32));
  (0, OPCODE_MINU, always (fun x y _ => Z.min x y));
  (0, OPCODE_MAXU, always (fun x y _ => Z.max x y));
  (0, OPCODE_MOVEQZ, always (fun x y old => if y =? 0 then x else old));
  (0, OPCODE_MOVNEZ, always (fun x y old => if y =? 0 then old else x));
  (0, OPCODE_MOVLTZ, always (fun x y old => if s32 y <? 0 then x else old));
  (0, OPCODE_MOVGEZ, always (fun x y old => if s32 y <? 0 then old else x));
  (0, OPCODE_QUOU, nonzero (fun x y => x / y));
  (0, OPCODE_REMU, nonzero (fun x y => x mod y));
  (0, OPCODE_QUOS, nonzero (fun x y => Z.quot (s32 x) (s32 y) mod 2 ^ 32));
  (0, OPCODE_REMS, nonzero (fun x y => Z.rem (s32 x) (s32 y) mod 2 ^ 32));
  (0, OPCODE_SRC, shifting (fun sar x y => (x * 2 ^ 32 + y) / 2 ^ sar mod 2 ^ 32))].

(** ** Operands *)

Definition three_regs (r s t f : Z) : Z := if f =? FIELD_r then r else if f =? FIELD_s then s else t.

(** The opcodes whose operands are three address registers: the fields r, s, t. *)
Definition three_register (opc : Z) : bool :=
  bool_decide (arg_u <$> icl_operands (index s3_iclasses (co_iclass (index (c_opcodes esp32s3_core) opc))) =
    [OPERAND_arr; OPERAND_ars; OPERAND_art]).

Definition rrr_ok (fmt opc : Z) : bool :=
  ((xtensa_opcode_encode fmt 0 [0] opc esp32s3_ready).1.1 =? 0)
  && three_register opc
  && forallb (fun k =>
       ((xtensa_operand_is_register opc k esp32s3_ready).1 =? 1)
       && ((xtensa_operand_regfile opc k esp32s3_ready).1 =? 0)
       && ((xtensa_operand_is_visible opc k esp32s3_ready).1 =? 1)
       && ((xtensa_operand_is_PCrelative opc k esp32s3_ready).1 =? 0)) [0; 1; 2]
  && ((fmt =? 0) || (fmt =? 1)).

Definition ar_arg (n : Z) : OpcodeArg := mkOpcodeArg n n (Some (0, n)) None 32.

Lemma ar_bits : (operand_bits true 0 esp32s3_ready).1 = 32 /\ s3_file 0 = true /\ li_a_regfile esp32s3_li = 0
  /\ li_regfiles esp32s3_li 0 = Some cpu_R.
Proof. by vm_compute. Qed.

Lemma rrr_fields fmt r s t : fmt = 0 \/ fmt = 1 -> 0 <= r < 16 -> 0 <= s < 16 -> 0 <= t < 16 ->
  (fun f => default 0 (field_result (esp32s3_slots !!! Z.to_nat fmt) (three_regs r s t) f)) <$> [FIELD_r; FIELD_s; FIELD_t]
    = [r; s; t].
Proof.
  intros Hf Hr Hs Ht.
  assert (H : forall vals f, f ∈ [FIELD_r; FIELD_s; FIELD_t] ->
    default 0 (field_result (esp32s3_slots !!! Z.to_nat fmt) vals f) = vals f mod 16).
  { intros vals f Hin. repeat (apply elem_of_cons in Hin as [->|Hin]); [..|by apply not_elem_of_nil in Hin];
      destruct Hf as [-> | ->]; vm_compute; reflexivity. }
  cbn [fmap list_fmap]. rewrite !H by set_solver. cbn. by rewrite !Z.mod_small by lia.
Qed.

Lemma ar_decode u v : u ∈ [OPERAND_arr; OPERAND_ars; OPERAND_art] ->
  match opnd_decode (index s3_operands u) with None => v | Some decode => (decode v).2 end = v.
Proof.
  intros H. repeat (apply elem_of_cons in H as [->|H]); [..|by apply not_elem_of_nil in H]; vm_compute; reflexivity.
Qed.

Record rrr_facts (fmt opc : Z) : Prop := {
  rrr_encodes : (xtensa_opcode_encode fmt 0 [0] opc esp32s3_ready).1.1 = 0;
  rrr_format : fmt = 0 \/ fmt = 1;
  rrr_operands : arg_u <$> icl_operands (index s3_iclasses (co_iclass (index (c_opcodes esp32s3_core) opc))) =
    [OPERAND_arr; OPERAND_ars; OPERAND_art];
  rrr_queries k : k ∈ [0; 1; 2] ->
    (xtensa_operand_is_register opc k esp32s3_ready).1 = 1 /\ (xtensa_operand_regfile opc k esp32s3_ready).1 = 0 /\
    (xtensa_operand_is_visible opc k esp32s3_ready).1 = 1 /\ (xtensa_operand_is_PCrelative opc k esp32s3_ready).1 = 0
}.

Lemma rrr_ok_facts fmt opc : rrr_ok fmt opc = true -> rrr_facts fmt opc.
Proof.
  unfold rrr_ok, three_register. rewrite !andb_true_iff, Z.eqb_eq, bool_decide_eq_true, orb_true_iff, !Z.eqb_eq, forallb_forall.
  intros [[[H1 H2] H3] H4]. split; [done|done|done|]. intros k Hk. specialize (H3 k).
  rewrite !andb_true_iff, !Z.eqb_eq in H3. destruct H3 as [[[? ?] ?] ?]; [by apply list_elem_of_In|done].
Qed.

Lemma add_ar opc k v dc acc :
  (xtensa_operand_is_register opc k esp32s3_ready).1 = 1 /\ (xtensa_operand_regfile opc k esp32s3_ready).1 = 0 /\
  (xtensa_operand_is_visible opc k esp32s3_ready).1 = 1 /\ (xtensa_operand_is_PCrelative opc k esp32s3_ready).1 = 0 ->
  add_operand (li_a_regfile esp32s3_li) s3_file dc opc esp32s3_ready acc k v =
    (acc.1 ||| lsl32 1 v, acc.2 ++ [ar_arg v]).
Proof.
  intros (H1 & H2 & H3 & H4). destruct ar_bits as (Hb & Hfile & Ha & _).
  unfold add_operand, operand_arg. rewrite H1. unfold operand_regfile. change (truthy 1) with true. cbn [andb].
  rewrite H2, H3, Ha, Hfile. change (truthy 1) with true. cbn [andb]. rewrite Hb.
  unfold operand_imm, ibind. destruct (xtensa_operand_is_PCrelative opc k esp32s3_ready) as [p s1].
  cbn [fst] in H4. subst p. done.
Qed.

Lemma operands_rrr fmt opc r s t dc :
  rrr_facts fmt opc -> 0 <= r < 16 -> 0 <= s < 16 -> 0 <= t < 16 ->
  s3_operands_of fmt opc (three_regs r s t) dc =
  (lsl32 1 r ||| lsl32 1 s ||| lsl32 1 t, [ar_arg r; ar_arg s; ar_arg t]).
Proof.
  intros [_ Hf Ho Hq] Hr Hs Ht. pose proof (rrr_fields fmt r s t Hf Hr Hs Ht) as Hv.
  unfold s3_operands_of. change (c_slots esp32s3_core) with esp32s3_slots. unfold operands_of, decoded_value, operand_of, opcode_fields.
  change (c_iclasses esp32s3_core) with s3_iclasses. change (c_operands esp32s3_core) with s3_operands.
  destruct (icl_operands _) as [|a0 [|a1 [|a2 [|a3 l]]]]; try discriminate Ho.
  cbn [fmap list_fmap] in Ho, Hv |- *. injection Ho as E0 E1 E2. rewrite E0, E1, E2.
  change (field_id (index s3_operands OPERAND_arr)) with FIELD_r.
  change (field_id (index s3_operands OPERAND_ars)) with FIELD_s.
  change (field_id (index s3_operands OPERAND_art)) with FIELD_t.
  change (seqZ 0 (count [FIELD_r; FIELD_s; FIELD_t])) with [0; 1; 2]. cbn [foldl].
  change (index [FIELD_r; FIELD_s; FIELD_t] 0) with FIELD_r. change (index [a0; a1; a2] 0) with a0.
  change (index [FIELD_r; FIELD_s; FIELD_t] 1) with FIELD_s. change (index [a0; a1; a2] 1) with a1.
  change (index [FIELD_r; FIELD_s; FIELD_t] 2) with FIELD_t. change (index [a0; a1; a2] 2) with a2.
  injection Hv as -> -> ->. rewrite E0, E1, E2, !ar_decode by set_solver.
  rewrite (add_ar opc 0), (add_ar opc 1), (add_ar opc 2) by (apply Hq; set_solver). done.
Qed.

(** ** Entries *)

Definition alu_entries : list (option table_entry) := Eval vm_compute in (fun p => s3_entry p.1.2) <$> alu_spec.

Lemma alu_entries_eq : (fun p => s3_entry p.1.2) <$> alu_spec = alu_entries.
Proof. vm_compute. reflexivity. Qed.

Lemma alu_rrr : forallb (fun p => rrr_ok p.1.1 p.1.2) alu_spec = true.
Proof. by vm_compute. Qed.

Abbreviation reg m k := (nthZ (regs (m_env m)) k) (only parsing).

(** The code of an entry on three address registers writes [f] of them. *)
Definition computes `{!TcgOps} (o : op_entry) (f : alu_fn) : Prop :=
  exists fn, op_translate o = Some fn /\
  forall E tb_flags dc r s t m v, in32 (reg m r) -> in32 (reg m s) -> in32 (reg m t) -> 0 <= sr (m_env m) SAR < 64 ->
    f (sr (m_env m) SAR) (reg m s) (reg m t) (reg m r) = Some v ->
    let p := run_core esp32s3_config E (li_regfiles esp32s3_li) tb_flags fn dc [ar_arg r; ar_arg s; ar_arg t] (op_par o) in
    p.1 = false /\ p.2 m = Done tt (with_env (set_reg r v (m_env m)) m).

Record alu_entry `{!TcgOps} (o : op_entry) (f : alu_fn) : Prop := {
  alu_plain : plain_entry o = true;
  alu_guarded sar x y old :
    truthy (op_flags o &&& XTENSA_OP_DIVIDE_BY_ZERO) && (y =? 0) = match f sar x y old with None => true | Some _ => false end;
  alu_computes : computes o f
}.

Section operands.
Context (r s t : Z) (m : machine).
Abbreviation args := [ar_arg r; ar_arg s; ar_arg t].
Lemma in_0 : in_ (li_regfiles esp32s3_li) args (Z.to_nat 0) m = Done (reg m r) m.
Proof.
  unfold in_, arg_. change (nth _ _ _) with (ar_arg r). unfold ar_arg, arg_value, gets, read_reg.
  cbn [a_copy a_reg]. by rewrite (proj2 (proj2 (proj2 ar_bits))).
Qed.
Lemma in_1 : in_ (li_regfiles esp32s3_li) args (Z.to_nat 1) m = Done (reg m s) m.
Proof.
  unfold in_, arg_. change (nth _ _ _) with (ar_arg s). unfold ar_arg, arg_value, gets, read_reg.
  cbn [a_copy a_reg]. by rewrite (proj2 (proj2 (proj2 ar_bits))).
Qed.
Lemma in_2 : in_ (li_regfiles esp32s3_li) args (Z.to_nat 2) m = Done (reg m t) m.
Proof.
  unfold in_, arg_. change (nth _ _ _) with (ar_arg t). unfold ar_arg, arg_value, gets, read_reg.
  cbn [a_copy a_reg]. by rewrite (proj2 (proj2 (proj2 ar_bits))).
Qed.
Lemma out_0 v : out_ (li_regfiles esp32s3_li) args (Z.to_nat 0) v m = Done tt (with_env (set_reg r v (m_env m)) m).
Proof.
  unfold out_, arg_. change (nth _ _ _) with (ar_arg r). unfold ar_arg. cbn [a_reg].
  by rewrite (proj2 (proj2 (proj2 ar_bits))).
Qed.
(** The check of a zero divisor looks at the third operand. *)
Lemma zero_guard_run dc flags :
  zero_guard esp32s3_config (read_reg (li_regfiles esp32s3_li)) dc flags args m =
    if truthy (flags &&& XTENSA_OP_DIVIDE_BY_ZERO) && (reg m t =? 0)
    then on_env (gen_exception_cause esp32s3_config dc INTEGER_DIVIDE_BY_ZERO_CAUSE) m else Done tt m.
Proof.
  unfold zero_guard, when. destruct (truthy _); [|done]. unfold gen_zero_check, bind.
  change (nth 2 args dummy_arg) with (ar_arg t). unfold arg_value, gets, read_reg. cbn [a_copy a_reg ar_arg].
  rewrite (proj2 (proj2 (proj2 ar_bits))). cbn [andb read_tcg]. unfold when. by destruct (reg m t =? 0).
Qed.
End operands.

(** *** The values *)

Lemma addx_spec n x y : 0 <= n -> translate_addx n x y = (2 ^ n * x + y) mod 2 ^ 32.
Proof.
  intros Hn. unfold translate_addx, lsl32. rewrite u32_add_l. unfold u32.
  by rewrite Z.shiftl_mul_pow2, (Z.mul_comm x) by lia.
Qed.
Lemma subx_spec n x y : 0 <= n -> translate_subx n x y = (2 ^ n * x - y) mod 2 ^ 32.
Proof.
  intros Hn. unfold translate_subx, lsl32. rewrite u32_sub_l. unfold u32.
  by rewrite Z.shiftl_mul_pow2, (Z.mul_comm x) by lia.
Qed.
Lemma mul16u_spec x y : translate_mul16 false x y = (x mod 2 ^ 16) * (y mod 2 ^ 16).
Proof.
  unfold translate_mul16, u32. pose proof (Z.mod_pos_bound x (2 ^ 16)). pose proof (Z.mod_pos_bound y (2 ^ 16)).
  apply Z.mod_small. nia.
Qed.
Lemma smin_spec x y : in32 x -> in32 y -> translate_smin x y = Z.min (s32 x) (s32 y) mod 2 ^ 32.
Proof.
  unfold in32. intros Hx Hy. unfold translate_smin. destruct (Z.ltb_spec (s32 x) (s32 y)).
  - by rewrite Z.min_l, s32_mod, Z.mod_small by lia.
  - by rewrite Z.min_r, s32_mod, Z.mod_small by lia.
Qed.
Lemma smax_spec x y : in32 x -> in32 y -> translate_smax x y = Z.max (s32 x) (s32 y) mod 2 ^ 32.
Proof.
  unfold in32. intros Hx Hy. unfold translate_smax. destruct (Z.ltb_spec (s32 x) (s32 y)).
  - by rewrite Z.max_r, s32_mod, Z.mod_small by lia.
  - by rewrite Z.max_l, s32_mod, Z.mod_small by lia.
Qed.
Lemma umin_spec x y : translate_umin x y = Z.min x y.
Proof. unfold translate_umin. destruct (Z.ltb_spec x y); lia. Qed.
Lemma umax_spec x y : translate_umax x y = Z.max x y.
Proof. unfold translate_umax. destruct (Z.ltb_spec x y); lia. Qed.

Lemma mulh_spec (signed : bool) x y :
  translate_mulh signed x y = if signed then (s32 x * s32 y / 2 ^ 32) mod 2 ^ 32 else x * y / 2 ^ 32.
Proof. unfold translate_mulh, u32. by rewrite !Z.shiftr_div_pow2 by lia. Qed.
Lemma movnez_spec x y old : translate_movcond (tcg_cond 9 y 0) x old = if y =? 0 then old else x.
Proof. unfold translate_movcond. cbn. by destruct (y =? 0). Qed.
Lemma movgez_spec x y old : translate_movcond (tcg_cond 3 y 0) x old = if s32 y <? 0 then old else x.
Proof. unfold translate_movcond. cbn. change (s32 0) with 0. rewrite Z.leb_antisym. by destruct (s32 y <? 0). Qed.

Lemma div_signed_spec `{!TcgOps} (q : bool) x y : in32 x -> in32 y -> y <> 0 ->
  translate_quos q x y = (if q then Z.quot (s32 x) (s32 y) else Z.rem (s32 x) (s32 y)) mod 2 ^ 32.
Proof. intros Hx Hy H0. destruct (division_exact x y Hx Hy H0) as (Hq & Hr & _). by destruct q. Qed.
Lemma div_unsigned_spec `{!TcgOps} x y : in32 x -> in32 y -> y <> 0 ->
  translate_quou x y = x / y /\ translate_remu x y = x mod y.
Proof. intros Hx Hy H0. unfold translate_quou, translate_remu. by rewrite tcg_divu_def, tcg_remu_def. Qed.
Lemma src_spec st x y : in32 x -> in32 y -> 0 <= sr st.2 SAR < 64 ->
  translate_src st x y = (x * 2 ^ 32 + y) / 2 ^ sr st.2 SAR mod 2 ^ 32.
Proof. intros. rewrite translate_src_spec by done. unfold u32. by rewrite Z.shiftr_div_pow2 by lia. Qed.

Create HintDb alu.
#[local] Hint Extern 1 (translate_quos _ _ _ = Z.quot _ _ mod _) => apply (div_signed_spec true) : alu.
#[local] Hint Extern 1 (translate_quos _ _ _ = Z.rem _ _ mod _) => apply (div_signed_spec false) : alu.
#[local] Hint Extern 1 (translate_quou _ _ = _) => apply div_unsigned_spec : alu.
#[local] Hint Extern 1 (translate_remu _ _ = _) => apply div_unsigned_spec : alu.
#[local] Hint Extern 1 (translate_src _ _ _ = _) => apply src_spec : alu.
#[local] Hint Resolve mul16u_spec smin_spec smax_spec umin_spec umax_spec movnez_spec movgez_spec : alu.
#[local] Hint Extern 1 (translate_addx _ _ _ = (2 * _ + _) mod _) => exact (addx_spec 1 _ _ ltac:(lia)) : alu.
#[local] Hint Extern 1 (translate_addx _ _ _ = (4 * _ + _) mod _) => exact (addx_spec 2 _ _ ltac:(lia)) : alu.
#[local] Hint Extern 1 (translate_addx _ _ _ = (8 * _ + _) mod _) => exact (addx_spec 3 _ _ ltac:(lia)) : alu.
#[local] Hint Extern 1 (translate_subx _ _ _ = (2 * _ - _) mod _) => exact (subx_spec 1 _ _ ltac:(lia)) : alu.
#[local] Hint Extern 1 (translate_subx _ _ _ = (4 * _ - _) mod _) => exact (subx_spec 2 _ _ ltac:(lia)) : alu.
#[local] Hint Extern 1 (translate_subx _ _ _ = (8 * _ - _) mod _) => exact (subx_spec 3 _ _ ltac:(lia)) : alu.
#[local] Hint Extern 1 (translate_mulh _ _ _ = _ * _ / _) => exact (mulh_spec false _ _) : alu.
#[local] Hint Extern 1 (translate_mulh _ _ _ = _ mod _) => exact (mulh_spec true _ _) : alu.

Lemma nonzero_some f sar x y old v : nonzero f sar x y old = Some v -> y <> 0 /\ v = f x y.
Proof. unfold nonzero. destruct (Z.eqb_spec y 0); [done|]. by intros [= <-]. Qed.

(** Runs the code of an operation, and leaves the equation of its values. *)
Ltac run_alu :=
  unfold run_core; cbn [fst snd stay]; split; [done|];
  unfold bind; repeat (unfold sar, gets; rewrite ?in_0, ?in_1, ?in_2; cbv beta iota); rewrite out_0; do 3 f_equal.
Ltac spec_value H :=
  first [apply nonzero_some in H as [? ->] | injection H as <-]; cbv beta.

Lemma alu_semantics `{!TcgOps} :
  Forall2 (fun e p => exists o, e = Some (InsnEntry o) /\ alu_entry o p.2) alu_entries alu_spec.
Proof.
  unfold alu_entries, alu_spec. repeat (apply Forall2_cons; split); [..|apply Forall2_nil; done];
    (eexists; split; [reflexivity|]; split;
     [by vm_compute|by intros ?? [] ?|]; eexists; split; [reflexivity|];
     cbn [op_par]; intros E tb_flags dc r s t m v Hr Hs Ht Hsar Hv; cbn [fst snd] in Hv; spec_value Hv;
     run_alu; cbn [par_ nthZ]; auto with alu).
Qed.

(** ** Execution *)

Lemma three_bits r s t : 0 <= r < 16 -> 0 <= s < 16 -> 0 <= t < 16 -> in32 (lsl32 1 r ||| lsl32 1 s ||| lsl32 1 t).
Proof. intros. repeat apply in32_lor; apply in32_lsl32. Qed.

Lemma in_window_bit dc r : 0 <= r < 16 -> r / 4 <= dc_window dc -> in_window dc (lsl32 1 r).
Proof. intros Hr Wr k Hk. rewrite lsl32_1, Z.pow2_bits_eqb, Z.eqb_eq by lia. by intros <-. Qed.
Lemma in_window_lor dc a b : in_window dc a -> in_window dc b -> in_window dc (a ||| b).
Proof. intros Ha Hb k Hk. rewrite Z.lor_spec, orb_true_iff. intros [H|H]; eauto. Qed.
#[export] Hint Resolve in_window_bit in_window_lor : alu.

(** The machine after an instruction that writes [v] to register [r]. *)
Definition alu_result (v next r : Z) (m : machine) : machine :=
  with_env (set_pc next (set_reg r v (m_env m))) (with_sar init_sar_tracker m).

Lemma alu_spec_complete :
  forallb (fun opc => implb (three_register opc) (bool_decide (opc ∈ (fun p => p.1.2) <$> alu_spec)))
    (seqZ 0 (count (c_opcodes esp32s3_core))) = true.
Proof. by vm_compute. Qed.

(** What is known of an instruction of the specification. *)
Lemma alu_spec_entry `{!TcgOps} fmt opc f : (fmt, opc, f) ∈ alu_spec ->
  rrr_facts fmt opc /\ exists o, s3_entry opc = Some (InsnEntry o) /\ alu_entry o f.
Proof.
  intros Hin. apply list_elem_of_lookup in Hin as [k Hk]. split.
  - apply rrr_ok_facts. pose proof alu_rrr as Hall. rewrite forallb_forall in Hall. apply (Hall (fmt, opc, f)).
    apply list_elem_of_In. by eapply list_elem_of_lookup_2.
  - assert (He : alu_entries !! k = Some (s3_entry opc)).
    { rewrite <- alu_entries_eq, list_lookup_fmap, Hk. reflexivity. }
    exact (Forall2_lookup_lr _ _ _ k _ _ alu_semantics He Hk).
Qed.

(** C8: Every instruction of the ESP32-S3 on three address registers (32 opcodes: sums
    and differences with and without scaling, logic, comparisons, the products,
    minima and maxima, conditional moves, the signed and unsigned quotients and
    remainders, and the funnel shift by SAR) does what the instruction set says.
    When the bytes the library assembles for it with registers r, s and t are
    fetched at the program counter, executing one instruction writes the specified
    value to register r, advances the program counter by the length of the
    instruction, and changes nothing else (the shift tracker is the translator's,
    reset for each block); a division by zero raises the integer-divide-by-zero
    exception at the address of the instruction and writes no register but those of
    the exception, and the overflowing -2^31 / -1 is exact.  The registers must be
    in the window the translation block checked, SAR must hold six bits, the
    instruction must not end a zero-overhead loop, and instruction counting must be
    off. *)
Theorem alu_executes `{!TcgOps} :
  (forall opc, 0 <= opc < count (c_opcodes esp32s3_core) -> three_register opc = true ->
    exists fmt f, (fmt, opc, f) ∈ alu_spec) /\
  forall E fetch fmt opc f r s t m, (fmt, opc, f) ∈ alu_spec ->
  let dc := tb_context esp32s3_config (m_env m) in
  let bytes := (assemble fmt opc (three_regs r s t) esp32s3_ready).1 in
  let next := u32 (pc (m_env m) + Z.of_nat (length bytes)) in
  0 <= r < 16 -> 0 <= s < 16 -> 0 <= t < 16 ->
  in32 (pc (m_env m)) -> holds_bytes (fetch m) (pc (m_env m)) bytes ->
  in32 (reg m r) -> in32 (reg m s) -> in32 (reg m t) -> 0 <= sr (m_env m) SAR < 64 ->
  r / 4 <= dc_window dc -> s / 4 <= dc_window dc -> t / 4 <= dc_window dc ->
  next <> dc_lend dc -> dc_icount dc = false ->
  let result := run_block esp32s3_config E esp32s3_li false esp32s3_ready fetch 1 m in
  match f (sr (m_env m) SAR) (reg m s) (reg m t) (reg m r) with
  | Some v => result = Done tt (alu_result v next r m)
  | None => exists m', result = Done tt m' /\ machine_raised esp32s3_config INTEGER_DIVIDE_BY_ZERO_CAUSE m m'
  end.
Proof.
  split.
  { intros opc Hopc H3. pose proof alu_spec_complete as Hall. rewrite forallb_forall in Hall. specialize (Hall opc).
    rewrite <- list_elem_of_In, elem_of_seqZ, H3 in Hall. specialize (Hall ltac:(lia)). cbn [implb] in Hall.
    apply bool_decide_eq_true, list_elem_of_fmap in Hall as ([[fmt opc'] f] & -> & Hin). by exists fmt, f. }
  intros E fetch fmt opc f r s t m Hin dc bytes next Hr Hs Ht Hpc Hmem Ir Is It Isar Wr Ws Wt Hl Hi result. unfold result.
  destruct (alu_spec_entry fmt opc f Hin) as (Hok & o & Ho & [Hp Hg (fn & Hfn & Hrun)]).
  pose proof (operands_rrr fmt opc r s t dc Hok Hr Hs Ht) as Hargs.
  set (flags := (cpu_get_tb_cpu_state esp32s3_config (m_env m)).2).
  pose proof (three_bits r s t Hr Hs Ht) as Hb.
  assert (Hw : in_window dc (lsl32 1 r ||| lsl32 1 s ||| lsl32 1 t)) by auto with alu.
  specialize (Hg (sr (m_env m) SAR) (reg m s) (reg m t) (reg m r)).
  pose proof (zero_guard_run r s t (with_sar init_sar_tracker m) dc (op_flags o)) as Hz.
  change (regs (m_env (with_sar init_sar_tracker m))) with (regs (m_env m)) in Hz. rewrite Hg in Hz.
  destruct (f _ _ _ _) as [v|] eqn:Hv.
  - destruct (Hrun E flags (with_op_flags dc next (op_flags o)) r s t (with_sar init_sar_tracker m) v Ir Is It Isar Hv)
      as [Hleave Hcode].
    rewrite (plain_step E fetch fmt opc (three_regs r s t) o fn m Ho Hp Hfn (rrr_encodes _ _ Hok) Hpc Hmem)
      with (m1 := with_env (set_reg r v (m_env m)) (with_sar init_sar_tracker m));
      fold dc; rewrite ?Hargs; [reflexivity|exact Hb|exact Hw|exact Hi|exact Hz|exact Hleave|exact Hcode|exact Hl].
  - apply (plain_raises E fetch fmt opc (three_regs r s t) o fn m Ho Hp Hfn (rrr_encodes _ _ Hok) Hpc Hmem);
      fold dc; rewrite ?Hargs; [exact Hb|exact Hw|exact Hi|exact Hz].
Qed.

(** ** Witness: ADD a2, a3, a4 and QUOU a2, a3, a5 with a5 = 0, at 0x400 *)

Definition add_machine : machine :=
  machine_of (set_pc 0x400 (set_regs (setZ (setZ (replicate 16 0) 3 0xfffffff0) 4 0x20) zero_env))
    (fun a => nthZ [0x40; 0x23; 0x80] (a - 0x400)) tie_zero.
Definition quou_machine : machine := with_mem (fun a => nthZ [0x50; 0x23; 0xc2] (a - 0x400)) add_machine.

(** Three bytes at 0x400. *)
Lemma three_bytes mem bytes l : bytes = l -> Z.of_nat (length l) = 3 ->
  (forall i, i = 0 \/ i = 1 \/ i = 2 -> mem (u32 (0x400 + i)) = nthZ l i) -> holds_bytes mem 0x400 bytes.
Proof. intros -> Hl H i Hi. rewrite Hl in Hi. apply H. lia. Qed.
Ltac three_bytes_at l :=
  apply (three_bytes _ _ l); [vm_compute; reflexivity|reflexivity|
    let i := fresh in intros i [-> |[-> | ->]]; vm_compute; reflexivity].

Lemma alu_executes_witness :
  run_block esp32s3_config flat_environment esp32s3_li false esp32s3_ready m_mem 1 add_machine =
    Done tt (alu_result 0x10 0x403 2 add_machine) /\
  exists m', run_block esp32s3_config flat_environment esp32s3_li false esp32s3_ready m_mem 1 quou_machine = Done tt m' /\
    machine_raised esp32s3_config INTEGER_DIVIDE_BY_ZERO_CAUSE quou_machine m'.
Proof.
  split.
  - refine (proj2 alu_executes flat_environment m_mem 0 OPCODE_ADD (always (fun x y _ => (x + y) mod 2 ^ 32)) 2 3 4 add_machine _ _ _ _ _ _ _ _ _ _ _ _ _ _ _);
      [right; left|lia|lia|lia|..]; [split; by vm_compute|three_bytes_at [0x40; 0x23; 0x80]|split; by vm_compute..
      |by vm_compute|by vm_compute|by vm_compute|by vm_compute|by vm_compute].
  - refine (proj2 alu_executes flat_environment m_mem 0 OPCODE_QUOU (nonzero (fun x y => x / y)) 2 3 5 quou_machine _ _ _ _ _ _ _ _ _ _ _ _ _ _ _);
      [do 27 right; left|lia|lia|lia|..]; [split; by vm_compute|three_bytes_at [0x50; 0x23; 0xc2]|split; by vm_compute..
      |by vm_compute|by vm_compute|by vm_compute|by vm_compute|by vm_compute].
Defined.
