(* ===== verification/S3Branch.v ===== *)
(** * Conditional branches of the ESP32-S3, from bytes to the program counter

    [branch_spec] says when each branch on two registers is taken;
    [branch_executes] shows that the assembled bytes, executed, go to the label
    or to the next instruction accordingly. *)

From stdpp Require Import gmap strings.
From S2P Require Import Prelude Cpu Exception Window TbFlags Control Arith Lanes Tie Isa IsaLookup IsaCodec IsaPattern IsaAsm.
From S2P Require Import Esp32s3Isa Slots FpStatus LoadStore TieTable SpecialReg SrTable Decode S3Fields S3Classes S3Opcodes S3Decoders.
From S2P Require Import IsaModule IsaDisas S3Units S3Module S3Disas Fpu CoreInsn FpInsn OpTable LibIsa Execution S3Exec S3Alu.

#[local] Open Scope mach_scope.

(** ** The instruction set *)

(** Opcode, and whether the branch is taken for the values of registers s and t. *)
Definition branch_spec : list (Z * (Z -> Z -> bool)) := [
  (OPCODE_BEQ, fun x y => x =? y);
  (OPCODE_BNE, fun x y => negb (x =? y));
  (OPCODE_BGE, fun x y => s32 y <=? s32 x);
  (OPCODE_BLT, fun x y => s32 x <? s32 y);
  (OPCODE_BGEU, fun x y => y <=? x);
  (OPCODE_BLTU, fun x y => x <? y);
  (OPCODE_BANY, fun x y => existsb (fun i => Z.testbit x i && Z.testbit y i) (seqZ 0 32));
  (OPCODE_BNONE, fun x y => negb (existsb (fun i => Z.testbit x i && Z.testbit y i) (seqZ 0 32)));
  (OPCODE_BALL, fun x y => forallb (fun i => implb (Z.testbit y i) (Z.testbit x i)) (seqZ 0 32));
  (OPCODE_BNALL, fun x y => negb (forallb (fun i => implb (Z.testbit y i) (Z.testbit x i)) (seqZ 0 32)));
  (OPCODE_BBC, fun x y => negb (Z.testbit x (y mod 32)));
  (OPCODE_BBS, fun x y => Z.testbit x (y mod 32))].

(** The label is relative to the address of the branch plus 4. *)
Definition branch_target (at_ imm8 : Z) : Z := (at_ + 4 + sext 8 imm8) mod 2 ^ 32.

(** ** Operands *)

Definition branch_fields (s t imm8 f : Z) : Z := if f =? FIELD_s then s else if f =? FIELD_t then t else imm8.

Definition bst8_ok (opc : Z) : bool :=
  let o := index (c_opcodes esp32s3_core) opc in
  ((xtensa_opcode_encode 0 0 [0] opc esp32s3_ready).1.1 =? 0)
  && bool_decide (arg_u <$> icl_operands (index s3_iclasses (co_iclass o)) = [OPERAND_ars; OPERAND_art; OPERAND_label8])
  && forallb (fun k =>
       ((xtensa_operand_is_register opc k esp32s3_ready).1 =? 1)
       && ((xtensa_operand_regfile opc k esp32s3_ready).1 =? 0)
       && ((xtensa_operand_is_visible opc k esp32s3_ready).1 =? 1)
       && ((xtensa_operand_is_PCrelative opc k esp32s3_ready).1 =? 0)) [0; 1]
  && ((xtensa_operand_is_register opc 2 esp32s3_ready).1 =? 0)
  && ((xtensa_operand_is_visible opc 2 esp32s3_ready).1 =? 1)
  && ((xtensa_operand_is_PCrelative opc 2 esp32s3_ready).1 =? 1).

Record bst8_facts (opc : Z) : Prop := {
  bst8_encodes : (xtensa_opcode_encode 0 0 [0] opc esp32s3_ready).1.1 = 0;
  bst8_operands : arg_u <$> icl_operands (index s3_iclasses (co_iclass (index (c_opcodes esp32s3_core) opc))) =
    [OPERAND_ars; OPERAND_art; OPERAND_label8];
  bst8_regs k : k ∈ [0; 1] ->
    (xtensa_operand_is_register opc k esp32s3_ready).1 = 1 /\ (xtensa_operand_regfile opc k esp32s3_ready).1 = 0 /\
    (xtensa_operand_is_visible opc k esp32s3_ready).1 = 1 /\ (xtensa_operand_is_PCrelative opc k esp32s3_ready).1 = 0;
  bst8_label : (xtensa_operand_is_register opc 2 esp32s3_ready).1 = 0 /\
    (xtensa_operand_is_visible opc 2 esp32s3_ready).1 = 1 /\ (xtensa_operand_is_PCrelative opc 2 esp32s3_ready).1 = 1
}.

Lemma bst8_ok_facts opc : bst8_ok opc = true -> bst8_facts opc.
Proof.
  unfold bst8_ok. rewrite !andb_true_iff, !Z.eqb_eq, bool_decide_eq_true, forallb_forall.
  intros [[[[[H1 H2] H3] H4] H5] H6]. split; [done|done| |done]. intros k Hk. specialize (H3 k).
  rewrite !andb_true_iff, !Z.eqb_eq in H3. destruct H3 as [[[? ?] ?] ?]; [by apply list_elem_of_In|done].
Qed.

Lemma branch_bst8 : forallb (fun p => bst8_ok p.1) branch_spec = true.
Proof. by vm_compute. Qed.

Lemma label_operand opc : 0 <= opc < count (c_opcodes esp32s3_core) -> bst8_facts opc ->
  get_operand opc 2 esp32s3_ready = (Some (index s3_operands OPERAND_label8), esp32s3_ready).
Proof.
  intros Hopc [_ Ho _ _]. pose proof (mo_core _ _ (s3_module_init grant esp32s3_state _ eq_refl esp32s3_init)) as Hc.
  rewrite (get_operand_run esp32s3_core esp32s3_ready Hc 0 ltac:(by vm_compute; lia) opc _ Hopc eq_refl 2).
  - change (c_iclasses esp32s3_core) with s3_iclasses. change (c_operands esp32s3_core) with s3_operands.
    destruct (icl_operands _) as [|a0 [|a1 [|a2 [|a3 l]]]]; try discriminate Ho.
    injection Ho as _ _ E2. change (index [a0; a1; a2] 2) with a2. by rewrite E2.
  - unfold opcode_fields, count. rewrite length_fmap.
    apply (f_equal length) in Ho. rewrite length_fmap in Ho. change (c_iclasses esp32s3_core) with s3_iclasses.
    rewrite Ho. cbn. lia.
Qed.

(** The label is relocated by the address of the branch. *)
Lemma label_imm opc v dc : 0 <= opc < count (c_opcodes esp32s3_core) -> bst8_facts opc ->
  (operand_imm dc opc 2 v esp32s3_ready).1 = u32 (v + dc_pc dc).
Proof.
  intros Hopc Hf.
  assert (Hw : forall A (e : A) k, with_operand opc 2 e k esp32s3_ready = k (index s3_operands OPERAND_label8) esp32s3_ready).
  { intros A e k. unfold with_operand, ibind. by rewrite (label_operand opc Hopc Hf). }
  unfold operand_imm, ibind, xtensa_operand_is_PCrelative, operand_flag. rewrite Hw.
  change (opnd_flags (index s3_operands OPERAND_label8) &&& XTENSA_OPERAND_IS_PCRELATIVE) with 2.
  unfold done at 1. cbn -[index s3_operands esp32s3_ready with_operand xtensa_operand_undo_reloc].
  unfold xtensa_operand_undo_reloc, operand_reloc. rewrite Hw. reflexivity.
Qed.

Definition label_arg (target v : Z) : OpcodeArg := mkOpcodeArg target v None None 32.

(** The value of the label's field, before relocation. *)
Definition label_offset (imm8 : Z) : Z := (OperandSem_opnd_sem_label8_decode imm8).2.

Lemma label_offset_spec imm8 : 0 <= imm8 < 256 -> label_offset imm8 = u32 (4 + sext 8 imm8).
Proof.
  intros Hi. assert (H : forallb (fun i => label_offset i =? u32 (4 + sext 8 i)) (seqZ 0 256) = true) by by vm_compute.
  rewrite forallb_forall in H. apply Z.eqb_eq, H, list_elem_of_In, elem_of_seqZ. lia.
Qed.

Lemma label_target at_ imm8 : 0 <= imm8 < 256 -> u32 (label_offset imm8 + at_) = branch_target at_ imm8.
Proof.
  intros Hi. rewrite label_offset_spec, u32_add_l by done. unfold branch_target, u32. f_equal. lia.
Qed.

Lemma branch_field_values s t imm8 : 0 <= s < 16 -> 0 <= t < 16 -> 0 <= imm8 < 256 ->
  (fun f => default 0 (field_result (esp32s3_slots !!! 0%nat) (branch_fields s t imm8) f)) <$> [FIELD_s; FIELD_t; FIELD_imm8]
    = [s; t; imm8].
Proof.
  intros Hs Ht Hi.
  assert (H : forall vals p, p ∈ [(FIELD_s, 16); (FIELD_t, 16); (FIELD_imm8, 256)] ->
    default 0 (field_result (esp32s3_slots !!! 0%nat) vals p.1) = vals p.1 mod p.2).
  { intros vals p Hin. repeat (apply elem_of_cons in Hin as [->|Hin]); [..|by apply not_elem_of_nil in Hin];
      vm_compute; reflexivity. }
  cbn [fmap list_fmap]. rewrite (H _ (FIELD_s, 16)), (H _ (FIELD_t, 16)), (H _ (FIELD_imm8, 256)) by set_solver.
  cbn. by rewrite !Z.mod_small by lia.
Qed.

Lemma operands_bst8 opc s t imm8 dc :
  0 <= opc < count (c_opcodes esp32s3_core) -> bst8_facts opc -> 0 <= s < 16 -> 0 <= t < 16 -> 0 <= imm8 < 256 ->
  s3_operands_of 0 opc (branch_fields s t imm8) dc =
  (lsl32 1 s ||| lsl32 1 t, [ar_arg s; ar_arg t; label_arg (branch_target (dc_pc dc) imm8) (label_offset imm8)]).
Proof.
  intros Hopc Hf Hs Ht Hi. pose proof (branch_field_values s t imm8 Hs Ht Hi) as Hv.
  pose proof Hf as [_ Ho Hq (L1 & L2 & _)].
  unfold s3_operands_of. change (c_slots esp32s3_core) with esp32s3_slots. change (Z.to_nat 0) with 0%nat.
  revert Hv. generalize (esp32s3_slots !!! 0%nat). intros sl Hv. unfold operands_of, decoded_value, operand_of, opcode_fields.
  change (c_iclasses esp32s3_core) with s3_iclasses. change (c_operands esp32s3_core) with s3_operands.
  destruct (icl_operands _) as [|a0 [|a1 [|a2 [|a3 l]]]]; try discriminate Ho.
  cbn [fmap list_fmap] in Ho, Hv |- *. injection Ho as E0 E1 E2. rewrite E0, E1, E2.
  change (field_id (index s3_operands OPERAND_ars)) with FIELD_s.
  change (field_id (index s3_operands OPERAND_art)) with FIELD_t.
  change (field_id (index s3_operands OPERAND_label8)) with FIELD_imm8.
  change (seqZ 0 (count [FIELD_s; FIELD_t; FIELD_imm8])) with [0; 1; 2]. cbn [foldl].
  change (index [FIELD_s; FIELD_t; FIELD_imm8] 0) with FIELD_s. change (index [a0; a1; a2] 0) with a0.
  change (index [FIELD_s; FIELD_t; FIELD_imm8] 1) with FIELD_t. change (index [a0; a1; a2] 1) with a1.
  change (index [FIELD_s; FIELD_t; FIELD_imm8] 2) with FIELD_imm8. change (index [a0; a1; a2] 2) with a2.
  injection Hv as -> -> ->. rewrite E0, E1, E2, (ar_decode OPERAND_ars), (ar_decode OPERAND_art) by set_solver.
  rewrite (add_ar opc 0), (add_ar opc 1) by (apply Hq; set_solver).
  change (opnd_decode (index s3_operands OPERAND_label8)) with (Some OperandSem_opnd_sem_label8_decode). cbv iota.
  fold (label_offset imm8). unfold add_operand, operand_arg. rewrite L1, L2. change (truthy 0) with false. cbn [andb].
  rewrite label_imm, label_target by done. reflexivity.
Qed.

(** ** Entries *)

Definition branch_entries : list (option table_entry) := Eval vm_compute in (fun p => s3_entry p.1) <$> branch_spec.

Lemma branch_entries_eq : (fun p => s3_entry p.1) <$> branch_spec = branch_entries.
Proof. vm_compute. reflexivity. Qed.

Lemma jumps_plain (dc : DisasContext) taken addr env :
  plain_flags (dc_op_flags dc) = true -> dc_icount dc = false -> dc_pc_next dc <> dc_lend dc ->
  gen_brcond esp32s3_config dc taken addr env = Done tt (set_pc (if taken then addr else dc_pc_next dc) env).
Proof.
  intros Hf Hi Hl.
  assert (Hp : truthy (dc_op_flags dc &&& OP_POSTPROCESS) = false) by
    (apply plain_bit; [done|by vm_compute]).
  unfold gen_brcond, gen_jumpi_check_loop_end, gen_check_loop_end, gen_jumpi, gen_jump, bind, when.
  rewrite (proj2 (Z.eqb_neq _ _) Hl). cbn. rewrite Hi, Hp. by destruct taken.
Qed.

(** The code of a branch goes to its label when the condition holds. *)
Definition branches `{!TcgOps} (o : op_entry) (c : Z -> Z -> bool) : Prop :=
  exists fn, op_translate o = Some fn /\
  forall E tb_flags dc s t target v m, in32 (reg m s) -> in32 (reg m t) ->
    plain_flags (dc_op_flags dc) = true -> dc_icount dc = false -> dc_pc_next dc <> dc_lend dc ->
    let p := run_core esp32s3_config E (li_regfiles esp32s3_li) tb_flags fn dc [ar_arg s; ar_arg t; label_arg target v] (op_par o) in
    p.1 = true /\
    p.2 m = Done tt (with_env (set_pc (if c (reg m s) (reg m t) then target else dc_pc_next dc) (m_env m)) m).

Lemma brcond_run dc cond x y target m :
  plain_flags (dc_op_flags dc) = true -> dc_icount dc = false -> dc_pc_next dc <> dc_lend dc ->
  brcond esp32s3_config dc cond x y target m =
    Done tt (with_env (set_pc (if tcg_cond cond x y then target else dc_pc_next dc) (m_env m)) m).
Proof.
  intros Hf Hi Hl. unfold brcond, at_icount, bind, gets, on_env. cbn.
  by rewrite jumps_plain by done.
Qed.

(** *** The conditions *)

Lemma any_bit x y : in32 x ->
  negb (x &&& y =? 0) = existsb (fun i => Z.testbit x i && Z.testbit y i) (seqZ 0 32).
Proof.
  intros Hx. apply eq_true_iff_eq. rewrite negb_true_iff, Z.eqb_neq, existsb_exists. split.
  - intros Hne. destruct (decide (Exists (fun i => Z.testbit x i && Z.testbit y i) (seqZ 0 32))) as [H|H].
    + apply Exists_exists in H as (i & Hi & Hb). exists i. rewrite <- list_elem_of_In. split; [done|by apply Is_true_true].
    + exfalso. apply Hne, Z.bits_inj'. intros i Hi. rewrite Z.land_spec, Z.bits_0.
      destruct (decide (i < 32)) as [Hlt|Hge]; [|by rewrite (in32_testbit x i) by (done || lia)].
      destruct (Z.testbit x i && Z.testbit y i) eqn:Hb; [|done]. exfalso. apply H, Exists_exists. exists i.
      split; [apply elem_of_seqZ; lia|by rewrite Hb].
  - intros (i & _ & Hb) H0. apply (f_equal (fun z => Z.testbit z i)) in H0.
    by rewrite Z.land_spec, Hb, Z.bits_0 in H0.
Qed.

Lemma all_bits x y : in32 y ->
  (x &&& y =? y) = forallb (fun i => implb (Z.testbit y i) (Z.testbit x i)) (seqZ 0 32).
Proof.
  intros Hy. apply eq_true_iff_eq. rewrite Z.eqb_eq, forallb_forall. split.
  - intros H i _. apply (f_equal (fun z => Z.testbit z i)) in H. rewrite Z.land_spec in H.
    by destruct (Z.testbit x i), (Z.testbit y i).
  - intros H. apply Z.bits_inj'. intros i Hi. rewrite Z.land_spec.
    destruct (decide (i < 32)) as [Hlt|Hge]; [|rewrite (in32_testbit y i) by (done || lia); by rewrite andb_false_r].
    specialize (H i). rewrite <- list_elem_of_In, elem_of_seqZ in H. specialize (H ltac:(lia)).
    by destruct (Z.testbit x i), (Z.testbit y i).
Qed.

Lemma one_bit x y : negb (x &&& lsl32 1 (y &&& 0x1f) =? 0) = Z.testbit x (y mod 32).
Proof.
  change 0x1f with (Z.ones 5). rewrite Z.land_ones by lia. change (2 ^ 5) with 32.
  pose proof (Z.mod_pos_bound y 32 ltac:(lia)) as Hb. rewrite lsl32_1 by lia. apply truthy_land_pow2. lia.
Qed.

Lemma no_bit x y : (x &&& lsl32 1 (y &&& 0x1f) =? 0) = negb (Z.testbit x (y mod 32)).
Proof. by rewrite <- one_bit, negb_involutive. Qed.
Lemma none_bit x y : in32 x ->
  (x &&& y =? 0) = negb (existsb (fun i => Z.testbit x i && Z.testbit y i) (seqZ 0 32)).
Proof. intros. by rewrite <- any_bit, negb_involutive. Qed.
Lemma not_all_bits x y : in32 y ->
  negb (x &&& y =? y) = negb (forallb (fun i => implb (Z.testbit y i) (Z.testbit x i)) (seqZ 0 32)).
Proof. intros. by rewrite all_bits. Qed.

Create HintDb branch.
#[local] Hint Resolve any_bit all_bits one_bit no_bit none_bit not_all_bits : branch.

Section operands.
Context (s t target v : Z) (m : machine).
Abbreviation args := [ar_arg s; ar_arg t; label_arg target v].
Lemma br_in_0 : in_ (li_regfiles esp32s3_li) args (Z.to_nat 0) m = Done (reg m s) m.
Proof.
  unfold in_, arg_. change (nth _ _ _) with (ar_arg s). unfold ar_arg, arg_value, gets, read_reg.
  cbn [a_copy a_reg]. by rewrite (proj2 (proj2 (proj2 ar_bits))).
Qed.
Lemma br_in_1 : in_ (li_regfiles esp32s3_li) args (Z.to_nat 1) m = Done (reg m t) m.
Proof.
  unfold in_, arg_. change (nth _ _ _) with (ar_arg t). unfold ar_arg, arg_value, gets, read_reg.
  cbn [a_copy a_reg]. by rewrite (proj2 (proj2 (proj2 ar_bits))).
Qed.
End operands.

Lemma same_choice {A} (c c' : bool) (x y : A) : c = c' -> (if c then x else y) = (if c' then x else y).
Proof. by intros ->. Qed.
Lemma par_head c : par_ [c] 0 = c.
Proof. done. Qed.

Lemma branch_semantics `{!TcgOps} :
  Forall2 (fun e p => exists o, e = Some (InsnEntry o) /\ plain_entry o = true /\
    truthy (op_flags o &&& XTENSA_OP_DIVIDE_BY_ZERO) = false /\ branches o p.2) branch_entries branch_spec.
Proof.
  unfold branch_entries, branch_spec. repeat (apply Forall2_cons; split); [..|apply Forall2_nil; done];
    (eexists; split; [reflexivity|]; split; [by vm_compute|]; split; [by vm_compute|]; eexists; split; [reflexivity|];
     cbn [op_par]; intros E tb_flags dc s t target v m Hs Ht Hf Hi Hl; cbn [fst snd];
     unfold run_core, translate_b, translate_ball, translate_bany, translate_bb; cbn [fst snd leave]; split; [done|];
     unfold bind; repeat (rewrite ?br_in_0, ?br_in_1; cbv beta iota); rewrite brcond_run by done;
     change (imm_ _ _) with target; rewrite par_head; cbv beta iota delta [tcg_cond];
     do 3 f_equal; apply same_choice; auto with branch).
Qed.

(** ** Execution *)

(** C9: Every conditional branch of the ESP32-S3 on two registers does what the
    instruction set says: when the bytes the library assembles for it with
    registers s and t and the 8-bit displacement are fetched at the program
    counter, executing one instruction leaves the block at the label, which is the
    program counter plus 4 plus the signed displacement, when the condition holds
    of the two registers, and at the next instruction otherwise; nothing else
    changes.  The registers must be in the window the translation block checked,
    the instruction must not end a zero-overhead loop, and instruction counting
    must be off. *)
Theorem branch_executes `{!TcgOps} E fetch opc (c : Z -> Z -> bool) s t imm8 m :
  (opc, c) ∈ branch_spec ->
  let dc := tb_context esp32s3_config (m_env m) in
  let at_ := pc (m_env m) in
  let bytes := (assemble 0 opc (branch_fields s t imm8) esp32s3_ready).1 in
  let next := u32 (at_ + Z.of_nat (length bytes)) in
  0 <= s < 16 -> 0 <= t < 16 -> 0 <= imm8 < 256 ->
  in32 at_ -> holds_bytes (fetch m) at_ bytes ->
  in32 (reg m s) -> in32 (reg m t) -> s / 4 <= dc_window dc -> t / 4 <= dc_window dc ->
  next <> dc_lend dc -> dc_icount dc = false ->
  run_block esp32s3_config E esp32s3_li false esp32s3_ready fetch 1 m =
    Done tt (with_env (set_pc (if c (reg m s) (reg m t) then branch_target at_ imm8 else next) (m_env m))
               (with_sar init_sar_tracker m)).
Proof.
  intros Hin dc at_ bytes next Hs Ht Hi8 Hpc Hmem Is It Ws Wt Hl Hi.
  apply list_elem_of_lookup in Hin as [k Hk].
  assert (Hok : bst8_facts opc).
  { apply bst8_ok_facts. pose proof branch_bst8 as Hall. rewrite forallb_forall in Hall. apply (Hall (opc, c)).
    apply list_elem_of_In. by eapply list_elem_of_lookup_2. }
  assert (He : branch_entries !! k = Some (s3_entry opc)).
  { rewrite <- branch_entries_eq, list_lookup_fmap, Hk. reflexivity. }
  destruct (Forall2_lookup_lr _ _ _ k _ _ branch_semantics He Hk) as (o & Ho & Hp & Hz & fn & Hfn & Hrun).
  cbn [snd] in Hrun.
  assert (Hopc : 0 <= opc < count (c_opcodes esp32s3_core)).
  { eapply encode_accepts; [|exact (bst8_encodes _ Hok)].
    exact (mo_core _ _ (s3_module_init grant esp32s3_state _ eq_refl esp32s3_init)). }
  pose proof (operands_bst8 opc s t imm8 dc Hopc Hok Hs Ht Hi8) as Hargs.
  set (flags := (cpu_get_tb_cpu_state esp32s3_config (m_env m)).2).
  assert (Hpf : plain_flags (op_flags o) = true).
  { unfold plain_entry in Hp. rewrite !andb_true_iff in Hp. tauto. }
  destruct (Hrun E flags (with_op_flags dc next (op_flags o)) s t (branch_target (dc_pc dc) imm8) (label_offset imm8)
    (with_sar init_sar_tracker m) Is It Hpf Hi Hl) as [Hleave Hcode].
  assert (Hb : in32 (lsl32 1 s ||| lsl32 1 t)) by (apply in32_lor; apply in32_lsl32).
  assert (Hw : in_window dc (lsl32 1 s ||| lsl32 1 t)) by auto with alu.
  rewrite (plain_leaves E fetch 0 opc (branch_fields s t imm8) o fn m Ho Hp Hfn (bst8_encodes _ Hok) Hpc Hmem)
    with (m1 := with_env (set_pc (if c (reg m s) (reg m t) then branch_target at_ imm8 else next) (m_env m))
               (with_sar init_sar_tracker m));
    fold dc; rewrite ?Hargs; [reflexivity|exact Hb|exact Hw|exact Hi|by unfold zero_guard; rewrite Hz|exact Hleave|exact Hcode].
Qed.

(** ** Witness: BLT a3, a4, backwards, at 0x400 *)

Definition blt_machine : machine :=
  machine_of (set_pc 0x400 (set_regs (setZ (setZ (replicate 16 0) 3 0xfffffff0) 4 0x20) zero_env))
    (fun a => nthZ (assemble 0 OPCODE_BLT (branch_fields 3 4 0xf0) esp32s3_ready).1 (a - 0x400)) tie_zero.

Lemma branch_executes_witness :
  run_block esp32s3_config flat_environment esp32s3_li false esp32s3_ready m_mem 1 blt_machine =
    Done tt (with_env (set_pc 0x3f4 (m_env blt_machine)) (with_sar init_sar_tracker blt_machine)).
Proof.
  refine (branch_executes flat_environment m_mem OPCODE_BLT (fun x y => s32 x <? s32 y) 3 4 0xf0 blt_machine _ _ _ _ _ _ _ _ _ _ _ _);
    [by do 3 right; left|lia|lia|lia|..]; [split; by vm_compute| |split; by vm_compute..|by vm_compute|by vm_compute
    |by vm_compute|by vm_compute].
  intros i Hi. replace (Z.of_nat (length (assemble 0 OPCODE_BLT (branch_fields 3 4 0xf0) esp32s3_ready).1)) with 3 in Hi
    by (vm_compute; reflexivity).
  assert (Hc : i = 0 \/ i = 1 \/ i = 2) by lia. destruct Hc as [-> |[-> | ->]]; vm_compute; reflexivity.
Defined.
