(* ===== verification/E32Isa.v ===== *)
(** * ESP32 ISA module: operands and formats ([target/xtensa/core-esp32/xtensa-modules.inc.c])

    The operand functions of the ESP32 module that the ESP32-S3 module does not
    have (the others have the same text in both files and are those of
    [Esp32s3Isa]), its formats and its format and length decoders. *)

From S2P Require Import Prelude Isa IsaCodec Esp32s3Isa.

#[local] Open Scope mach_scope.

Definition OperandSem_opnd_sem_dfp_fld_op2_2_decode (v : Z) : Z * Z :=
  let x := v &&& 0x1 in (0, lsl32 0 1 ||| x).

Definition OperandSem_opnd_sem_dfp_fld_op2_2_encode (v : Z) : Z * Z := (0, ((v >>> 0) &&& 1) &&& 0x1).

Definition OperandSem_opnd_sem_dfp_fld_op2_1_0_decode (v : Z) : Z * Z :=
  let x := v &&& 0x3 in (0, lsl32 0 2 ||| x).

Definition OperandSem_opnd_sem_dfp_fld_op2_1_0_encode (v : Z) : Z * Z := (0, v &&& 0x3).

(** ** Formats *)

Definition esp32_formats : list xtensa_format_internal :=
  [mkFormat "x24" 3 Format_x24_encode [0]; mkFormat "x16a" 2 Format_x16a_encode [1];
   mkFormat "x16b" 2 Format_x16b_encode [2]].

(** The opcodes 0xe and 0xf of the first four bits have no format. *)
Definition esp32_format_decoder (insn : insnbuf) : Z :=
  if (nthZ insn 0 &&& 0x8) =? 0 then 0
  else if (nthZ insn 0 &&& 0xc) =? 0x8 then 1
  else if (nthZ insn 0 &&& 0xe) =? 0xc then 2
  else -1.

Definition esp32_length_table : list Z :=
  [3; 3; 3; 3; 3; 3; 3; 3; 2; 2; 2; 2; 2; 2; -1; -1; 3; 3; 3; 3; 3; 3; 3; 3; 2; 2; 2; 2; 2; 2; -1; -1;
   3; 3; 3; 3; 3; 3; 3; 3; 2; 2; 2; 2; 2; 2; -1; -1; 3; 3; 3; 3; 3; 3; 3; 3; 2; 2; 2; 2; 2; 2; -1; -1;
   3; 3; 3; 3; 3; 3; 3; 3; 2; 2; 2; 2; 2; 2; -1; -1; 3; 3; 3; 3; 3; 3; 3; 3; 2; 2; 2; 2; 2; 2; -1; -1;
   3; 3; 3; 3; 3; 3; 3; 3; 2; 2; 2; 2; 2; 2; -1; -1; 3; 3; 3; 3; 3; 3; 3; 3; 2; 2; 2; 2; 2; 2; -1; -1;
   3; 3; 3; 3; 3; 3; 3; 3; 2; 2; 2; 2; 2; 2; -1; -1; 3; 3; 3; 3; 3; 3; 3; 3; 2; 2; 2; 2; 2; 2; -1; -1;
   3; 3; 3; 3; 3; 3; 3; 3; 2; 2; 2; 2; 2; 2; -1; -1; 3; 3; 3; 3; 3; 3; 3; 3; 2; 2; 2; 2; 2; 2; -1; -1;
   3; 3; 3; 3; 3; 3; 3; 3; 2; 2; 2; 2; 2; 2; -1; -1; 3; 3; 3; 3; 3; 3; 3; 3; 2; 2; 2; 2; 2; 2; -1; -1;
   3; 3; 3; 3; 3; 3; 3; 3; 2; 2; 2; 2; 2; 2; -1; -1; 3; 3; 3; 3; 3; 3; 3; 3; 2; 2; 2; 2; 2; 2; -1; -1].

Definition esp32_length_decoder (insn : list Z) : Z := nthZ esp32_length_table (nthZ insn 0).

(** Both decoders look at the first byte only, and agree. *)
Lemma esp32_decoder_byte w ws : esp32_format_decoder (w :: ws) = esp32_format_decoder [w &&& 0xff].
Proof.
  unfold esp32_format_decoder, nthZ. simpl.
  assert (H : forall m, (w &&& 0xff) &&& m = w &&& (0xff &&& m)) by (intros; by rewrite Z.land_assoc).
  by rewrite !H.
Qed.

Lemma esp32_bytes_agree : forallb (byte_agrees 3 esp32_formats esp32_format_decoder esp32_length_table) (seqZ 0 256) = true.
Proof. vm_compute. reflexivity. Qed.
