(* ===== verification/E32Fields.v ===== *)
(** * ESP32 ISA module: fields ([target/xtensa/core-esp32/xtensa-modules.inc.c])

    The accessors of the fields of each slot, statement by statement, and the
    tables by field number. *)

From S2P Require Import Prelude Isa IsaPattern.

(** ** [xtensa_field_id] *)

Abbreviation FIELD_t := 0 (only parsing).
Abbreviation FIELD_bbi4 := 1 (only parsing).
Abbreviation FIELD_bbi := 2 (only parsing).
Abbreviation FIELD_imm12 := 3 (only parsing).
Abbreviation FIELD_imm8 := 4 (only parsing).
Abbreviation FIELD_s := 5 (only parsing).
Abbreviation FIELD_imm12b := 6 (only parsing).
Abbreviation FIELD_imm16 := 7 (only parsing).
Abbreviation FIELD_m := 8 (only parsing).
Abbreviation FIELD_n := 9 (only parsing).
Abbreviation FIELD_offset := 10 (only parsing).
Abbreviation FIELD_op0 := 11 (only parsing).
Abbreviation FIELD_op1 := 12 (only parsing).
Abbreviation FIELD_op2 := 13 (only parsing).
Abbreviation FIELD_r := 14 (only parsing).
Abbreviation FIELD_sa4 := 15 (only parsing).
Abbreviation FIELD_sae4 := 16 (only parsing).
Abbreviation FIELD_sae := 17 (only parsing).
Abbreviation FIELD_sal := 18 (only parsing).
Abbreviation FIELD_sargt := 19 (only parsing).
Abbreviation FIELD_sas4 := 20 (only parsing).
Abbreviation FIELD_sas := 21 (only parsing).
Abbreviation FIELD_sr := 22 (only parsing).
Abbreviation FIELD_st := 23 (only parsing).
Abbreviation FIELD_thi3 := 24 (only parsing).
Abbreviation FIELD_imm4 := 25 (only parsing).
Abbreviation FIELD_mn := 26 (only parsing).
Abbreviation FIELD_i := 27 (only parsing).
Abbreviation FIELD_imm6lo := 28 (only parsing).
Abbreviation FIELD_imm6hi := 29 (only parsing).
Abbreviation FIELD_imm7lo := 30 (only parsing).
Abbreviation FIELD_imm7hi := 31 (only parsing).
Abbreviation FIELD_z := 32 (only parsing).
Abbreviation FIELD_imm6 := 33 (only parsing).
Abbreviation FIELD_imm7 := 34 (only parsing).
Abbreviation FIELD_r3 := 35 (only parsing).
Abbreviation FIELD_rbit2 := 36 (only parsing).
Abbreviation FIELD_rhi := 37 (only parsing).
Abbreviation FIELD_t3 := 38 (only parsing).
Abbreviation FIELD_tbit2 := 39 (only parsing).
Abbreviation FIELD_tlo := 40 (only parsing).
Abbreviation FIELD_w := 41 (only parsing).
Abbreviation FIELD_y := 42 (only parsing).
Abbreviation FIELD_x := 43 (only parsing).
Abbreviation FIELD_t2 := 44 (only parsing).
Abbreviation FIELD_s2 := 45 (only parsing).
Abbreviation FIELD_r2 := 46 (only parsing).
Abbreviation FIELD_t4 := 47 (only parsing).
Abbreviation FIELD_s4 := 48 (only parsing).
Abbreviation FIELD_r4 := 49 (only parsing).
Abbreviation FIELD_t8 := 50 (only parsing).
Abbreviation FIELD_s8 := 51 (only parsing).
Abbreviation FIELD_r8 := 52 (only parsing).
Abbreviation FIELD_xt_wbr15_imm := 53 (only parsing).
Abbreviation FIELD_xt_wbr18_imm := 54 (only parsing).
Abbreviation FIELD_dfp_fld_op1 := 55 (only parsing).
Abbreviation FIELD_dfp_fld_op2 := 56 (only parsing).
Abbreviation FIELD_dfp_fld_r_0 := 57 (only parsing).
Abbreviation FIELD_dfp_fld_r_2_1 := 58 (only parsing).
Abbreviation FIELD_dfp_fld_r_3 := 59 (only parsing).
Abbreviation FIELD_dfp_fld_r_3_1 := 60 (only parsing).
Abbreviation FIELD_dfp_fld_s_0 := 61 (only parsing).
Abbreviation FIELD_dfp_fld_s_3_1 := 62 (only parsing).
Abbreviation FIELD_dfp_fld_op2_0 := 63 (only parsing).
Abbreviation FIELD_dfp_fld_op2_1_0 := 64 (only parsing).
Abbreviation FIELD_dfp_fld_op2_2 := 65 (only parsing).
Abbreviation FIELD_dfp_fld_op2_3 := 66 (only parsing).
Abbreviation FIELD_dfp_fld_op2_3_2 := 67 (only parsing).
Abbreviation FIELD_dfp_fld_op2_3_1 := 68 (only parsing).
Abbreviation FIELD_bitindex := 69 (only parsing).
Abbreviation FIELD_s3to1 := 70 (only parsing).
Abbreviation FIELD__ar0 := 71 (only parsing).
Abbreviation FIELD__ar4 := 72 (only parsing).
Abbreviation FIELD__ar8 := 73 (only parsing).
Abbreviation FIELD__ar12 := 74 (only parsing).
Abbreviation FIELD__mr0 := 75 (only parsing).
Abbreviation FIELD__mr1 := 76 (only parsing).
Abbreviation FIELD__mr2 := 77 (only parsing).
Abbreviation FIELD__mr3 := 78 (only parsing).
Abbreviation FIELD__bt16 := 79 (only parsing).
Abbreviation FIELD__bs16 := 80 (only parsing).
Abbreviation FIELD__br16 := 81 (only parsing).
Abbreviation FIELD__brall := 82 (only parsing).

(** ** Accessors *)

Definition e32_Field_r_Slot_inst : field :=
  mkField [Gc 4 16 28]
    [Sc 28 28 0xf000 12].
Definition e32_Field_op0_Slot_inst : field :=
  mkField [Gc 4 28 28]
    [Sc 28 28 0xf 0].
Definition e32_Field_op2_Slot_inst : field :=
  mkField [Gc 4 8 28]
    [Sc 28 28 0xf00000 20].
Definition e32_Field_op1_Slot_inst : field :=
  mkField [Gc 4 12 28]
    [Sc 28 28 0xf0000 16].
Definition e32_Field_t_Slot_inst : field :=
  mkField [Gc 4 24 28]
    [Sc 28 28 0xf0 4].
Definition e32_Field_s_Slot_inst : field :=
  mkField [Gc 4 20 28]
    [Sc 28 28 0xf00 8].
Definition e32_Field_n_Slot_inst : field :=
  mkField [Gc 2 26 30]
    [Sc 30 30 0x30 4].
Definition e32_Field_m_Slot_inst : field :=
  mkField [Gc 2 24 30]
    [Sc 30 30 0xc0 6].
Definition e32_Field_sr_Slot_inst : field :=
  mkField [Gc 4 16 28; Gc 4 20 28]
    [Sc 28 28 0xf00 8; Sc 24 28 0xf000 12].
Definition e32_Field_st_Slot_inst : field :=
  mkField [Gc 4 20 28; Gc 4 24 28]
    [Sc 28 28 0xf0 4; Sc 24 28 0xf00 8].
Definition e32_Field_thi3_Slot_inst : field :=
  mkField [Gc 3 24 29]
    [Sc 29 29 0xe0 5].
Definition e32_Field_t3_Slot_inst : field :=
  mkField [Gc 1 24 31]
    [Sc 31 31 0x80 7].
Definition e32_Field_tlo_Slot_inst : field :=
  mkField [Gc 2 26 30]
    [Sc 30 30 0x30 4].
Definition e32_Field_w_Slot_inst : field :=
  mkField [Gc 2 18 30]
    [Sc 30 30 0x3000 12].
Definition e32_Field_r3_Slot_inst : field :=
  mkField [Gc 1 16 31]
    [Sc 31 31 0x8000 15].
Definition e32_Field_rhi_Slot_inst : field :=
  mkField [Gc 2 16 30]
    [Sc 30 30 0xc000 14].
Definition e32_Field_dfp_fld_op2_3_Slot_inst : field :=
  mkField [Gc 1 8 31]
    [Sc 31 31 0x800000 23].
Definition e32_Field_dfp_fld_op1_Slot_inst : field :=
  mkField [Gc 4 12 28]
    [Sc 28 28 0xf0000 16].
Definition e32_Field_dfp_fld_op2_3_2_Slot_inst : field :=
  mkField [Gc 2 8 30]
    [Sc 30 30 0xc00000 22].
Definition e32_Field_dfp_fld_r_3_Slot_inst : field :=
  mkField [Gc 1 16 31]
    [Sc 31 31 0x8000 15].
Definition e32_Field_dfp_fld_op2_Slot_inst : field :=
  mkField [Gc 4 8 28]
    [Sc 28 28 0xf00000 20].
Definition e32_Field_dfp_fld_op2_3_1_Slot_inst : field :=
  mkField [Gc 3 8 29]
    [Sc 29 29 0xe00000 21].
Definition e32_Field_dfp_fld_s_3_1_Slot_inst : field :=
  mkField [Gc 3 20 29]
    [Sc 29 29 0xe00 9].
Definition e32_Field_dfp_fld_r_3_1_Slot_inst : field :=
  mkField [Gc 3 16 29]
    [Sc 29 29 0xe000 13].
Definition e32_Field_s3to1_Slot_inst : field :=
  mkField [Gc 3 20 29]
    [Sc 29 29 0xe00 9].
Definition e32_Field_op0_Slot_inst16a : field :=
  mkField [Gc 4 28 28]
    [Sc 28 28 0xf 0].
Definition e32_Field_t_Slot_inst16b : field :=
  mkField [Gc 4 24 28]
    [Sc 28 28 0xf0 4].
Definition e32_Field_r_Slot_inst16b : field :=
  mkField [Gc 4 16 28]
    [Sc 28 28 0xf000 12].
Definition e32_Field_op0_Slot_inst16b : field :=
  mkField [Gc 4 28 28]
    [Sc 28 28 0xf 0].
Definition e32_Field_z_Slot_inst16b : field :=
  mkField [Gc 1 25 31]
    [Sc 31 31 0x40 6].
Definition e32_Field_i_Slot_inst16b : field :=
  mkField [Gc 1 24 31]
    [Sc 31 31 0x80 7].
Definition e32_Field_s_Slot_inst16b : field :=
  mkField [Gc 4 20 28]
    [Sc 28 28 0xf00 8].
Definition e32_Field_t_Slot_inst16a : field :=
  mkField [Gc 4 24 28]
    [Sc 28 28 0xf0 4].
Definition e32_Field_bbi4_Slot_inst : field :=
  mkField [Gc 1 19 31]
    [Sc 31 31 0x1000 12].
Definition e32_Field_bbi_Slot_inst : field :=
  mkField [Gc 1 19 31; Gc 4 24 28]
    [Sc 28 28 0xf0 4; Sc 27 31 0x1000 12].
Definition e32_Field_imm12_Slot_inst : field :=
  mkField [Gc 12 8 20]
    [Sc 20 20 0xfff000 12].
Definition e32_Field_imm8_Slot_inst : field :=
  mkField [Gc 8 8 24]
    [Sc 24 24 0xff0000 16].
Definition e32_Field_s_Slot_inst16a : field :=
  mkField [Gc 4 20 28]
    [Sc 28 28 0xf00 8].
Definition e32_Field_imm12b_Slot_inst : field :=
  mkField [Gc 4 20 28; Gc 8 8 24]
    [Sc 24 24 0xff0000 16; Sc 20 28 0xf00 8].
Definition e32_Field_imm16_Slot_inst : field :=
  mkField [Gc 16 8 16]
    [Sc 16 16 0xffff00 8].
Definition e32_Field_offset_Slot_inst : field :=
  mkField [Gc 18 8 14]
    [Sc 14 14 0xffffc0 6].
Definition e32_Field_r_Slot_inst16a : field :=
  mkField [Gc 4 16 28]
    [Sc 28 28 0xf000 12].
Definition e32_Field_sa4_Slot_inst : field :=
  mkField [Gc 1 11 31]
    [Sc 31 31 0x100000 20].
Definition e32_Field_sae4_Slot_inst : field :=
  mkField [Gc 1 15 31]
    [Sc 31 31 0x10000 16].
Definition e32_Field_sae_Slot_inst : field :=
  mkField [Gc 1 15 31; Gc 4 20 28]
    [Sc 28 28 0xf00 8; Sc 27 31 0x10000 16].
Definition e32_Field_sal_Slot_inst : field :=
  mkField [Gc 1 11 31; Gc 4 24 28]
    [Sc 28 28 0xf0 4; Sc 27 31 0x100000 20].
Definition e32_Field_sargt_Slot_inst : field :=
  mkField [Gc 1 11 31; Gc 4 20 28]
    [Sc 28 28 0xf00 8; Sc 27 31 0x100000 20].
Definition e32_Field_sas4_Slot_inst : field :=
  mkField [Gc 1 27 31]
    [Sc 31 31 0x10 4].
Definition e32_Field_sas_Slot_inst : field :=
  mkField [Gc 1 27 31; Gc 4 20 28]
    [Sc 28 28 0xf00 8; Sc 27 31 0x10 4].
Definition e32_Field_sr_Slot_inst16a : field :=
  mkField [Gc 4 16 28; Gc 4 20 28]
    [Sc 28 28 0xf00 8; Sc 24 28 0xf000 12].
Definition e32_Field_sr_Slot_inst16b : field :=
  mkField [Gc 4 16 28; Gc 4 20 28]
    [Sc 28 28 0xf00 8; Sc 24 28 0xf000 12].
Definition e32_Field_st_Slot_inst16a : field :=
  mkField [Gc 4 20 28; Gc 4 24 28]
    [Sc 28 28 0xf0 4; Sc 24 28 0xf00 8].
Definition e32_Field_st_Slot_inst16b : field :=
  mkField [Gc 4 20 28; Gc 4 24 28]
    [Sc 28 28 0xf0 4; Sc 24 28 0xf00 8].
Definition e32_Field_imm4_Slot_inst : field :=
  mkField [Gc 4 16 28]
    [Sc 28 28 0xf000 12].
Definition e32_Field_imm4_Slot_inst16a : field :=
  mkField [Gc 4 16 28]
    [Sc 28 28 0xf000 12].
Definition e32_Field_imm4_Slot_inst16b : field :=
  mkField [Gc 4 16 28]
    [Sc 28 28 0xf000 12].
Definition e32_Field_mn_Slot_inst : field :=
  mkField [Gc 2 24 30; Gc 2 26 30]
    [Sc 30 30 0x30 4; Sc 28 30 0xc0 6].
Definition e32_Field_i_Slot_inst16a : field :=
  mkField [Gc 1 24 31]
    [Sc 31 31 0x80 7].
Definition e32_Field_imm6lo_Slot_inst16a : field :=
  mkField [Gc 4 16 28]
    [Sc 28 28 0xf000 12].
Definition e32_Field_imm6lo_Slot_inst16b : field :=
  mkField [Gc 4 16 28]
    [Sc 28 28 0xf000 12].
Definition e32_Field_imm6hi_Slot_inst16a : field :=
  mkField [Gc 2 26 30]
    [Sc 30 30 0x30 4].
Definition e32_Field_imm6hi_Slot_inst16b : field :=
  mkField [Gc 2 26 30]
    [Sc 30 30 0x30 4].
Definition e32_Field_imm7lo_Slot_inst16a : field :=
  mkField [Gc 4 16 28]
    [Sc 28 28 0xf000 12].
Definition e32_Field_imm7lo_Slot_inst16b : field :=
  mkField [Gc 4 16 28]
    [Sc 28 28 0xf000 12].
Definition e32_Field_imm7hi_Slot_inst16a : field :=
  mkField [Gc 3 25 29]
    [Sc 29 29 0x70 4].
Definition e32_Field_imm7hi_Slot_inst16b : field :=
  mkField [Gc 3 25 29]
    [Sc 29 29 0x70 4].
Definition e32_Field_z_Slot_inst16a : field :=
  mkField [Gc 1 25 31]
    [Sc 31 31 0x40 6].
Definition e32_Field_imm6_Slot_inst16a : field :=
  mkField [Gc 2 26 30; Gc 4 16 28]
    [Sc 28 28 0xf000 12; Sc 26 30 0x30 4].
Definition e32_Field_imm6_Slot_inst16b : field :=
  mkField [Gc 2 26 30; Gc 4 16 28]
    [Sc 28 28 0xf000 12; Sc 26 30 0x30 4].
Definition e32_Field_imm7_Slot_inst16a : field :=
  mkField [Gc 3 25 29; Gc 4 16 28]
    [Sc 28 28 0xf000 12; Sc 25 29 0x70 4].
Definition e32_Field_imm7_Slot_inst16b : field :=
  mkField [Gc 3 25 29; Gc 4 16 28]
    [Sc 28 28 0xf000 12; Sc 25 29 0x70 4].
Definition e32_Field_rbit2_Slot_inst : field :=
  mkField [Gc 1 17 31]
    [Sc 31 31 0x4000 14].
Definition e32_Field_tbit2_Slot_inst : field :=
  mkField [Gc 1 25 31]
    [Sc 31 31 0x40 6].
Definition e32_Field_y_Slot_inst : field :=
  mkField [Gc 1 25 31]
    [Sc 31 31 0x40 6].
Definition e32_Field_x_Slot_inst : field :=
  mkField [Gc 1 17 31]
    [Sc 31 31 0x4000 14].
Definition e32_Field_t2_Slot_inst : field :=
  mkField [Gc 3 24 29]
    [Sc 29 29 0xe0 5].
Definition e32_Field_t2_Slot_inst16a : field :=
  mkField [Gc 3 24 29]
    [Sc 29 29 0xe0 5].
Definition e32_Field_t2_Slot_inst16b : field :=
  mkField [Gc 3 24 29]
    [Sc 29 29 0xe0 5].
Definition e32_Field_s2_Slot_inst : field :=
  mkField [Gc 3 20 29]
    [Sc 29 29 0xe00 9].
Definition e32_Field_s2_Slot_inst16a : field :=
  mkField [Gc 3 20 29]
    [Sc 29 29 0xe00 9].
Definition e32_Field_s2_Slot_inst16b : field :=
  mkField [Gc 3 20 29]
    [Sc 29 29 0xe00 9].
Definition e32_Field_r2_Slot_inst : field :=
  mkField [Gc 3 16 29]
    [Sc 29 29 0xe000 13].
Definition e32_Field_r2_Slot_inst16a : field :=
  mkField [Gc 3 16 29]
    [Sc 29 29 0xe000 13].
Definition e32_Field_r2_Slot_inst16b : field :=
  mkField [Gc 3 16 29]
    [Sc 29 29 0xe000 13].
Definition e32_Field_t4_Slot_inst : field :=
  mkField [Gc 2 24 30]
    [Sc 30 30 0xc0 6].
Definition e32_Field_t4_Slot_inst16a : field :=
  mkField [Gc 2 24 30]
    [Sc 30 30 0xc0 6].
Definition e32_Field_t4_Slot_inst16b : field :=
  mkField [Gc 2 24 30]
    [Sc 30 30 0xc0 6].
Definition e32_Field_s4_Slot_inst : field :=
  mkField [Gc 2 20 30]
    [Sc 30 30 0xc00 10].
Definition e32_Field_s4_Slot_inst16a : field :=
  mkField [Gc 2 20 30]
    [Sc 30 30 0xc00 10].
Definition e32_Field_s4_Slot_inst16b : field :=
  mkField [Gc 2 20 30]
    [Sc 30 30 0xc00 10].
Definition e32_Field_r4_Slot_inst : field :=
  mkField [Gc 2 16 30]
    [Sc 30 30 0xc000 14].
Definition e32_Field_r4_Slot_inst16a : field :=
  mkField [Gc 2 16 30]
    [Sc 30 30 0xc000 14].
Definition e32_Field_r4_Slot_inst16b : field :=
  mkField [Gc 2 16 30]
    [Sc 30 30 0xc000 14].
Definition e32_Field_t8_Slot_inst : field :=
  mkField [Gc 1 24 31]
    [Sc 31 31 0x80 7].
Definition e32_Field_t8_Slot_inst16a : field :=
  mkField [Gc 1 24 31]
    [Sc 31 31 0x80 7].
Definition e32_Field_t8_Slot_inst16b : field :=
  mkField [Gc 1 24 31]
    [Sc 31 31 0x80 7].
Definition e32_Field_s8_Slot_inst : field :=
  mkField [Gc 1 20 31]
    [Sc 31 31 0x800 11].
Definition e32_Field_s8_Slot_inst16a : field :=
  mkField [Gc 1 20 31]
    [Sc 31 31 0x800 11].
Definition e32_Field_s8_Slot_inst16b : field :=
  mkField [Gc 1 20 31]
    [Sc 31 31 0x800 11].
Definition e32_Field_r8_Slot_inst : field :=
  mkField [Gc 1 16 31]
    [Sc 31 31 0x8000 15].
Definition e32_Field_r8_Slot_inst16a : field :=
  mkField [Gc 1 16 31]
    [Sc 31 31 0x8000 15].
Definition e32_Field_r8_Slot_inst16b : field :=
  mkField [Gc 1 16 31]
    [Sc 31 31 0x8000 15].
Definition e32_Field_xt_wbr15_imm_Slot_inst : field :=
  mkField [Gc 15 8 17]
    [Sc 17 17 0xfffe00 9].
Definition e32_Field_xt_wbr18_imm_Slot_inst : field :=
  mkField [Gc 18 8 14]
    [Sc 14 14 0xffffc0 6].
Definition e32_Field_dfp_fld_r_0_Slot_inst : field :=
  mkField [Gc 1 19 31]
    [Sc 31 31 0x1000 12].
Definition e32_Field_dfp_fld_r_0_Slot_inst16a : field :=
  mkField [Gc 1 19 31]
    [Sc 31 31 0x1000 12].
Definition e32_Field_dfp_fld_r_0_Slot_inst16b : field :=
  mkField [Gc 1 19 31]
    [Sc 31 31 0x1000 12].
Definition e32_Field_dfp_fld_r_2_1_Slot_inst : field :=
  mkField [Gc 2 17 30]
    [Sc 30 30 0x6000 13].
Definition e32_Field_dfp_fld_r_2_1_Slot_inst16a : field :=
  mkField [Gc 2 17 30]
    [Sc 30 30 0x6000 13].
Definition e32_Field_dfp_fld_r_2_1_Slot_inst16b : field :=
  mkField [Gc 2 17 30]
    [Sc 30 30 0x6000 13].
Definition e32_Field_dfp_fld_r_3_Slot_inst16a : field :=
  mkField [Gc 1 16 31]
    [Sc 31 31 0x8000 15].
Definition e32_Field_dfp_fld_r_3_Slot_inst16b : field :=
  mkField [Gc 1 16 31]
    [Sc 31 31 0x8000 15].
Definition e32_Field_dfp_fld_r_3_1_Slot_inst16a : field :=
  mkField [Gc 3 16 29]
    [Sc 29 29 0xe000 13].
Definition e32_Field_dfp_fld_r_3_1_Slot_inst16b : field :=
  mkField [Gc 3 16 29]
    [Sc 29 29 0xe000 13].
Definition e32_Field_dfp_fld_s_0_Slot_inst : field :=
  mkField [Gc 1 23 31]
    [Sc 31 31 0x100 8].
Definition e32_Field_dfp_fld_s_0_Slot_inst16a : field :=
  mkField [Gc 1 23 31]
    [Sc 31 31 0x100 8].
Definition e32_Field_dfp_fld_s_0_Slot_inst16b : field :=
  mkField [Gc 1 23 31]
    [Sc 31 31 0x100 8].
Definition e32_Field_dfp_fld_s_3_1_Slot_inst16a : field :=
  mkField [Gc 3 20 29]
    [Sc 29 29 0xe00 9].
Definition e32_Field_dfp_fld_s_3_1_Slot_inst16b : field :=
  mkField [Gc 3 20 29]
    [Sc 29 29 0xe00 9].
Definition e32_Field_dfp_fld_op2_0_Slot_inst : field :=
  mkField [Gc 1 11 31]
    [Sc 31 31 0x100000 20].
Definition e32_Field_dfp_fld_op2_1_0_Slot_inst : field :=
  mkField [Gc 2 10 30]
    [Sc 30 30 0x300000 20].
Definition e32_Field_dfp_fld_op2_2_Slot_inst : field :=
  mkField [Gc 1 9 31]
    [Sc 31 31 0x400000 22].
Definition e32_Field_bitindex_Slot_inst : field :=
  mkField [Gc 1 23 31; Gc 4 24 28]
    [Sc 28 28 0xf0 4; Sc 27 31 0x100 8].
Definition e32_Field_bitindex_Slot_inst16a : field :=
  mkField [Gc 1 23 31; Gc 4 24 28]
    [Sc 28 28 0xf0 4; Sc 27 31 0x100 8].
Definition e32_Field_bitindex_Slot_inst16b : field :=
  mkField [Gc 1 23 31; Gc 4 24 28]
    [Sc 28 28 0xf0 4; Sc 27 31 0x100 8].
Definition e32_Field_s3to1_Slot_inst16a : field :=
  mkField [Gc 3 20 29]
    [Sc 29 29 0xe00 9].
Definition e32_Field_s3to1_Slot_inst16b : field :=
  mkField [Gc 3 20 29]
    [Sc 29 29 0xe00 9].

(** ** Implicit fields *)

Definition e32_Implicit_Field_ar0_get : getter := Implicit 0.
Definition e32_Implicit_Field_ar4_get : getter := Implicit 4.
Definition e32_Implicit_Field_ar8_get : getter := Implicit 8.
Definition e32_Implicit_Field_ar12_get : getter := Implicit 12.
Definition e32_Implicit_Field_mr0_get : getter := Implicit 0.
Definition e32_Implicit_Field_mr1_get : getter := Implicit 1.
Definition e32_Implicit_Field_mr2_get : getter := Implicit 2.
Definition e32_Implicit_Field_mr3_get : getter := Implicit 3.
Definition e32_Implicit_Field_bt16_get : getter := Implicit 0.
Definition e32_Implicit_Field_bs16_get : getter := Implicit 0.
Definition e32_Implicit_Field_br16_get : getter := Implicit 0.
Definition e32_Implicit_Field_brall_get : getter := Implicit 0.

(** ** Tables by field number *)

Definition e32_Slot_inst_get_field_fns_1 : list (option getter) := [Some (Get e32_Field_t_Slot_inst);
   Some (Get e32_Field_bbi4_Slot_inst); Some (Get e32_Field_bbi_Slot_inst);
   Some (Get e32_Field_imm12_Slot_inst); Some (Get e32_Field_imm8_Slot_inst);
   Some (Get e32_Field_s_Slot_inst); Some (Get e32_Field_imm12b_Slot_inst);
   Some (Get e32_Field_imm16_Slot_inst); Some (Get e32_Field_m_Slot_inst);
   Some (Get e32_Field_n_Slot_inst); Some (Get e32_Field_offset_Slot_inst);
   Some (Get e32_Field_op0_Slot_inst); Some (Get e32_Field_op1_Slot_inst);
   Some (Get e32_Field_op2_Slot_inst); Some (Get e32_Field_r_Slot_inst);
   Some (Get e32_Field_sa4_Slot_inst); Some (Get e32_Field_sae4_Slot_inst);
   Some (Get e32_Field_sae_Slot_inst); Some (Get e32_Field_sal_Slot_inst);
   Some (Get e32_Field_sargt_Slot_inst); Some (Get e32_Field_sas4_Slot_inst);
   Some (Get e32_Field_sas_Slot_inst); Some (Get e32_Field_sr_Slot_inst);
   Some (Get e32_Field_st_Slot_inst); Some (Get e32_Field_thi3_Slot_inst);
   Some (Get e32_Field_imm4_Slot_inst); Some (Get e32_Field_mn_Slot_inst); None; None; None; None; None;
   None; None; None; Some (Get e32_Field_r3_Slot_inst); Some (Get e32_Field_rbit2_Slot_inst);
   Some (Get e32_Field_rhi_Slot_inst); Some (Get e32_Field_t3_Slot_inst);
   Some (Get e32_Field_tbit2_Slot_inst); Some (Get e32_Field_tlo_Slot_inst);
   Some (Get e32_Field_w_Slot_inst); Some (Get e32_Field_y_Slot_inst); Some (Get e32_Field_x_Slot_inst);
   Some (Get e32_Field_t2_Slot_inst); Some (Get e32_Field_s2_Slot_inst); Some (Get e32_Field_r2_Slot_inst);
   Some (Get e32_Field_t4_Slot_inst); Some (Get e32_Field_s4_Slot_inst); Some (Get e32_Field_r4_Slot_inst);
   Some (Get e32_Field_t8_Slot_inst); Some (Get e32_Field_s8_Slot_inst); Some (Get e32_Field_r8_Slot_inst);
   Some (Get e32_Field_xt_wbr15_imm_Slot_inst); Some (Get e32_Field_xt_wbr18_imm_Slot_inst);
   Some (Get e32_Field_dfp_fld_op1_Slot_inst); Some (Get e32_Field_dfp_fld_op2_Slot_inst);
   Some (Get e32_Field_dfp_fld_r_0_Slot_inst); Some (Get e32_Field_dfp_fld_r_2_1_Slot_inst);
   Some (Get e32_Field_dfp_fld_r_3_Slot_inst); Some (Get e32_Field_dfp_fld_r_3_1_Slot_inst);
   Some (Get e32_Field_dfp_fld_s_0_Slot_inst); Some (Get e32_Field_dfp_fld_s_3_1_Slot_inst);
   Some (Get e32_Field_dfp_fld_op2_0_Slot_inst); Some (Get e32_Field_dfp_fld_op2_1_0_Slot_inst);
   Some (Get e32_Field_dfp_fld_op2_2_Slot_inst); Some (Get e32_Field_dfp_fld_op2_3_Slot_inst);
   Some (Get e32_Field_dfp_fld_op2_3_2_Slot_inst); Some (Get e32_Field_dfp_fld_op2_3_1_Slot_inst);
   Some (Get e32_Field_bitindex_Slot_inst); Some (Get e32_Field_s3to1_Slot_inst);
   Some e32_Implicit_Field_ar0_get; Some e32_Implicit_Field_ar4_get; Some e32_Implicit_Field_ar8_get;
   Some e32_Implicit_Field_ar12_get; Some e32_Implicit_Field_mr0_get; Some e32_Implicit_Field_mr1_get;
   Some e32_Implicit_Field_mr2_get; Some e32_Implicit_Field_mr3_get; Some e32_Implicit_Field_bt16_get;
   Some e32_Implicit_Field_bs16_get; Some e32_Implicit_Field_br16_get; Some e32_Implicit_Field_brall_get].
Definition e32_Slot_inst_get_field_fns : list (option getter) := e32_Slot_inst_get_field_fns_1.

Definition e32_Slot_inst_set_field_fns_1 : list (option setter) := [Some (Set_ e32_Field_t_Slot_inst);
   Some (Set_ e32_Field_bbi4_Slot_inst); Some (Set_ e32_Field_bbi_Slot_inst);
   Some (Set_ e32_Field_imm12_Slot_inst); Some (Set_ e32_Field_imm8_Slot_inst);
   Some (Set_ e32_Field_s_Slot_inst); Some (Set_ e32_Field_imm12b_Slot_inst);
   Some (Set_ e32_Field_imm16_Slot_inst); Some (Set_ e32_Field_m_Slot_inst);
   Some (Set_ e32_Field_n_Slot_inst); Some (Set_ e32_Field_offset_Slot_inst);
   Some (Set_ e32_Field_op0_Slot_inst); Some (Set_ e32_Field_op1_Slot_inst);
   Some (Set_ e32_Field_op2_Slot_inst); Some (Set_ e32_Field_r_Slot_inst);
   Some (Set_ e32_Field_sa4_Slot_inst); Some (Set_ e32_Field_sae4_Slot_inst);
   Some (Set_ e32_Field_sae_Slot_inst); Some (Set_ e32_Field_sal_Slot_inst);
   Some (Set_ e32_Field_sargt_Slot_inst); Some (Set_ e32_Field_sas4_Slot_inst);
   Some (Set_ e32_Field_sas_Slot_inst); Some (Set_ e32_Field_sr_Slot_inst);
   Some (Set_ e32_Field_st_Slot_inst); Some (Set_ e32_Field_thi3_Slot_inst);
   Some (Set_ e32_Field_imm4_Slot_inst); Some (Set_ e32_Field_mn_Slot_inst); None; None; None; None; None;
   None; None; None; Some (Set_ e32_Field_r3_Slot_inst); Some (Set_ e32_Field_rbit2_Slot_inst);
   Some (Set_ e32_Field_rhi_Slot_inst); Some (Set_ e32_Field_t3_Slot_inst);
   Some (Set_ e32_Field_tbit2_Slot_inst); Some (Set_ e32_Field_tlo_Slot_inst);
   Some (Set_ e32_Field_w_Slot_inst); Some (Set_ e32_Field_y_Slot_inst); Some (Set_ e32_Field_x_Slot_inst);
   Some (Set_ e32_Field_t2_Slot_inst); Some (Set_ e32_Field_s2_Slot_inst);
   Some (Set_ e32_Field_r2_Slot_inst); Some (Set_ e32_Field_t4_Slot_inst);
   Some (Set_ e32_Field_s4_Slot_inst); Some (Set_ e32_Field_r4_Slot_inst);
   Some (Set_ e32_Field_t8_Slot_inst); Some (Set_ e32_Field_s8_Slot_inst);
   Some (Set_ e32_Field_r8_Slot_inst); Some (Set_ e32_Field_xt_wbr15_imm_Slot_inst);
   Some (Set_ e32_Field_xt_wbr18_imm_Slot_inst); Some (Set_ e32_Field_dfp_fld_op1_Slot_inst);
   Some (Set_ e32_Field_dfp_fld_op2_Slot_inst); Some (Set_ e32_Field_dfp_fld_r_0_Slot_inst);
   Some (Set_ e32_Field_dfp_fld_r_2_1_Slot_inst); Some (Set_ e32_Field_dfp_fld_r_3_Slot_inst);
   Some (Set_ e32_Field_dfp_fld_r_3_1_Slot_inst); Some (Set_ e32_Field_dfp_fld_s_0_Slot_inst);
   Some (Set_ e32_Field_dfp_fld_s_3_1_Slot_inst); Some (Set_ e32_Field_dfp_fld_op2_0_Slot_inst);
   Some (Set_ e32_Field_dfp_fld_op2_1_0_Slot_inst); Some (Set_ e32_Field_dfp_fld_op2_2_Slot_inst);
   Some (Set_ e32_Field_dfp_fld_op2_3_Slot_inst); Some (Set_ e32_Field_dfp_fld_op2_3_2_Slot_inst);
   Some (Set_ e32_Field_dfp_fld_op2_3_1_Slot_inst); Some (Set_ e32_Field_bitindex_Slot_inst);
   Some (Set_ e32_Field_s3to1_Slot_inst); Some Implicit_set; Some Implicit_set; Some Implicit_set;
   Some Implicit_set; Some Implicit_set; Some Implicit_set; Some Implicit_set; Some Implicit_set;
   Some Implicit_set; Some Implicit_set; Some Implicit_set; Some Implicit_set].
Definition e32_Slot_inst_set_field_fns : list (option setter) := e32_Slot_inst_set_field_fns_1.

Definition e32_Slot_inst16a_get_field_fns_1 : list (option getter) := [Some (Get e32_Field_t_Slot_inst16a);
   None; None; None; None; Some (Get e32_Field_s_Slot_inst16a); None; None; None; None; None;
   Some (Get e32_Field_op0_Slot_inst16a); None; None; Some (Get e32_Field_r_Slot_inst16a); None; None;
   None; None; None; None; None; Some (Get e32_Field_sr_Slot_inst16a);
   Some (Get e32_Field_st_Slot_inst16a); None; Some (Get e32_Field_imm4_Slot_inst16a); None;
   Some (Get e32_Field_i_Slot_inst16a); Some (Get e32_Field_imm6lo_Slot_inst16a);
   Some (Get e32_Field_imm6hi_Slot_inst16a); Some (Get e32_Field_imm7lo_Slot_inst16a);
   Some (Get e32_Field_imm7hi_Slot_inst16a); Some (Get e32_Field_z_Slot_inst16a);
   Some (Get e32_Field_imm6_Slot_inst16a); Some (Get e32_Field_imm7_Slot_inst16a); None; None; None; None;
   None; None; None; None; None; Some (Get e32_Field_t2_Slot_inst16a);
   Some (Get e32_Field_s2_Slot_inst16a); Some (Get e32_Field_r2_Slot_inst16a);
   Some (Get e32_Field_t4_Slot_inst16a); Some (Get e32_Field_s4_Slot_inst16a);
   Some (Get e32_Field_r4_Slot_inst16a); Some (Get e32_Field_t8_Slot_inst16a);
   Some (Get e32_Field_s8_Slot_inst16a); Some (Get e32_Field_r8_Slot_inst16a); None; None; None; None;
   Some (Get e32_Field_dfp_fld_r_0_Slot_inst16a); Some (Get e32_Field_dfp_fld_r_2_1_Slot_inst16a);
   Some (Get e32_Field_dfp_fld_r_3_Slot_inst16a); Some (Get e32_Field_dfp_fld_r_3_1_Slot_inst16a);
   Some (Get e32_Field_dfp_fld_s_0_Slot_inst16a); Some (Get e32_Field_dfp_fld_s_3_1_Slot_inst16a); None;
   None; None; None; None; None; Some (Get e32_Field_bitindex_Slot_inst16a);
   Some (Get e32_Field_s3to1_Slot_inst16a); Some e32_Implicit_Field_ar0_get;
   Some e32_Implicit_Field_ar4_get; Some e32_Implicit_Field_ar8_get; Some e32_Implicit_Field_ar12_get;
   Some e32_Implicit_Field_mr0_get; Some e32_Implicit_Field_mr1_get; Some e32_Implicit_Field_mr2_get;
   Some e32_Implicit_Field_mr3_get; Some e32_Implicit_Field_bt16_get; Some e32_Implicit_Field_bs16_get;
   Some e32_Implicit_Field_br16_get; Some e32_Implicit_Field_brall_get].
Definition e32_Slot_inst16a_get_field_fns : list (option getter) := e32_Slot_inst16a_get_field_fns_1.

Definition e32_Slot_inst16a_set_field_fns_1 : list (option setter) := [
   Some (Set_ e32_Field_t_Slot_inst16a); None; None; None; None; Some (Set_ e32_Field_s_Slot_inst16a);
   None; None; None; None; None; Some (Set_ e32_Field_op0_Slot_inst16a); None; None;
   Some (Set_ e32_Field_r_Slot_inst16a); None; None; None; None; None; None; None;
   Some (Set_ e32_Field_sr_Slot_inst16a); Some (Set_ e32_Field_st_Slot_inst16a); None;
   Some (Set_ e32_Field_imm4_Slot_inst16a); None; Some (Set_ e32_Field_i_Slot_inst16a);
   Some (Set_ e32_Field_imm6lo_Slot_inst16a); Some (Set_ e32_Field_imm6hi_Slot_inst16a);
   Some (Set_ e32_Field_imm7lo_Slot_inst16a); Some (Set_ e32_Field_imm7hi_Slot_inst16a);
   Some (Set_ e32_Field_z_Slot_inst16a); Some (Set_ e32_Field_imm6_Slot_inst16a);
   Some (Set_ e32_Field_imm7_Slot_inst16a); None; None; None; None; None; None; None; None; None;
   Some (Set_ e32_Field_t2_Slot_inst16a); Some (Set_ e32_Field_s2_Slot_inst16a);
   Some (Set_ e32_Field_r2_Slot_inst16a); Some (Set_ e32_Field_t4_Slot_inst16a);
   Some (Set_ e32_Field_s4_Slot_inst16a); Some (Set_ e32_Field_r4_Slot_inst16a);
   Some (Set_ e32_Field_t8_Slot_inst16a); Some (Set_ e32_Field_s8_Slot_inst16a);
   Some (Set_ e32_Field_r8_Slot_inst16a); None; None; None; None;
   Some (Set_ e32_Field_dfp_fld_r_0_Slot_inst16a); Some (Set_ e32_Field_dfp_fld_r_2_1_Slot_inst16a);
   Some (Set_ e32_Field_dfp_fld_r_3_Slot_inst16a); Some (Set_ e32_Field_dfp_fld_r_3_1_Slot_inst16a);
   Some (Set_ e32_Field_dfp_fld_s_0_Slot_inst16a); Some (Set_ e32_Field_dfp_fld_s_3_1_Slot_inst16a); None;
   None; None; None; None; None; Some (Set_ e32_Field_bitindex_Slot_inst16a);
   Some (Set_ e32_Field_s3to1_Slot_inst16a); Some Implicit_set; Some Implicit_set; Some Implicit_set;
   Some Implicit_set; Some Implicit_set; Some Implicit_set; Some Implicit_set; Some Implicit_set;
   Some Implicit_set; Some Implicit_set; Some Implicit_set; Some Implicit_set].
Definition e32_Slot_inst16a_set_field_fns : list (option setter) := e32_Slot_inst16a_set_field_fns_1.

Definition e32_Slot_inst16b_get_field_fns_1 : list (option getter) := [Some (Get e32_Field_t_Slot_inst16b);
   None; None; None; None; Some (Get e32_Field_s_Slot_inst16b); None; None; None; None; None;
   Some (Get e32_Field_op0_Slot_inst16b); None; None; Some (Get e32_Field_r_Slot_inst16b); None; None;
   None; None; None; None; None; Some (Get e32_Field_sr_Slot_inst16b);
   Some (Get e32_Field_st_Slot_inst16b); None; Some (Get e32_Field_imm4_Slot_inst16b); None;
   Some (Get e32_Field_i_Slot_inst16b); Some (Get e32_Field_imm6lo_Slot_inst16b);
   Some (Get e32_Field_imm6hi_Slot_inst16b); Some (Get e32_Field_imm7lo_Slot_inst16b);
   Some (Get e32_Field_imm7hi_Slot_inst16b); Some (Get e32_Field_z_Slot_inst16b);
   Some (Get e32_Field_imm6_Slot_inst16b); Some (Get e32_Field_imm7_Slot_inst16b); None; None; None; None;
   None; None; None; None; None; Some (Get e32_Field_t2_Slot_inst16b);
   Some (Get e32_Field_s2_Slot_inst16b); Some (Get e32_Field_r2_Slot_inst16b);
   Some (Get e32_Field_t4_Slot_inst16b); Some (Get e32_Field_s4_Slot_inst16b);
   Some (Get e32_Field_r4_Slot_inst16b); Some (Get e32_Field_t8_Slot_inst16b);
   Some (Get e32_Field_s8_Slot_inst16b); Some (Get e32_Field_r8_Slot_inst16b); None; None; None; None;
   Some (Get e32_Field_dfp_fld_r_0_Slot_inst16b); Some (Get e32_Field_dfp_fld_r_2_1_Slot_inst16b);
   Some (Get e32_Field_dfp_fld_r_3_Slot_inst16b); Some (Get e32_Field_dfp_fld_r_3_1_Slot_inst16b);
   Some (Get e32_Field_dfp_fld_s_0_Slot_inst16b); Some (Get e32_Field_dfp_fld_s_3_1_Slot_inst16b); None;
   None; None; None; None; None; Some (Get e32_Field_bitindex_Slot_inst16b);
   Some (Get e32_Field_s3to1_Slot_inst16b); Some e32_Implicit_Field_ar0_get;
   Some e32_Implicit_Field_ar4_get; Some e32_Implicit_Field_ar8_get; Some e32_Implicit_Field_ar12_get;
   Some e32_Implicit_Field_mr0_get; Some e32_Implicit_Field_mr1_get; Some e32_Implicit_Field_mr2_get;
   Some e32_Implicit_Field_mr3_get; Some e32_Implicit_Field_bt16_get; Some e32_Implicit_Field_bs16_get;
   Some e32_Implicit_Field_br16_get; Some e32_Implicit_Field_brall_get].
Definition e32_Slot_inst16b_get_field_fns : list (option getter) := e32_Slot_inst16b_get_field_fns_1.

Definition e32_Slot_inst16b_set_field_fns_1 : list (option setter) := [
   Some (Set_ e32_Field_t_Slot_inst16b); None; None; None; None; Some (Set_ e32_Field_s_Slot_inst16b);
   None; None; None; None; None; Some (Set_ e32_Field_op0_Slot_inst16b); None; None;
   Some (Set_ e32_Field_r_Slot_inst16b); None; None; None; None; None; None; None;
   Some (Set_ e32_Field_sr_Slot_inst16b); Some (Set_ e32_Field_st_Slot_inst16b); None;
   Some (Set_ e32_Field_imm4_Slot_inst16b); None; Some (Set_ e32_Field_i_Slot_inst16b);
   Some (Set_ e32_Field_imm6lo_Slot_inst16b); Some (Set_ e32_Field_imm6hi_Slot_inst16b);
   Some (Set_ e32_Field_imm7lo_Slot_inst16b); Some (Set_ e32_Field_imm7hi_Slot_inst16b);
   Some (Set_ e32_Field_z_Slot_inst16b); Some (Set_ e32_Field_imm6_Slot_inst16b);
   Some (Set_ e32_Field_imm7_Slot_inst16b); None; None; None; None; None; None; None; None; None;
   Some (Set_ e32_Field_t2_Slot_inst16b); Some (Set_ e32_Field_s2_Slot_inst16b);
   Some (Set_ e32_Field_r2_Slot_inst16b); Some (Set_ e32_Field_t4_Slot_inst16b);
   Some (Set_ e32_Field_s4_Slot_inst16b); Some (Set_ e32_Field_r4_Slot_inst16b);
   Some (Set_ e32_Field_t8_Slot_inst16b); Some (Set_ e32_Field_s8_Slot_inst16b);
   Some (Set_ e32_Field_r8_Slot_inst16b); None; None; None; None;
   Some (Set_ e32_Field_dfp_fld_r_0_Slot_inst16b); Some (Set_ e32_Field_dfp_fld_r_2_1_Slot_inst16b);
   Some (Set_ e32_Field_dfp_fld_r_3_Slot_inst16b); Some (Set_ e32_Field_dfp_fld_r_3_1_Slot_inst16b);
   Some (Set_ e32_Field_dfp_fld_s_0_Slot_inst16b); Some (Set_ e32_Field_dfp_fld_s_3_1_Slot_inst16b); None;
   None; None; None; None; None; Some (Set_ e32_Field_bitindex_Slot_inst16b);
   Some (Set_ e32_Field_s3to1_Slot_inst16b); Some Implicit_set; Some Implicit_set; Some Implicit_set;
   Some Implicit_set; Some Implicit_set; Some Implicit_set; Some Implicit_set; Some Implicit_set;
   Some Implicit_set; Some Implicit_set; Some Implicit_set; Some Implicit_set].
Definition e32_Slot_inst16b_set_field_fns : list (option setter) := e32_Slot_inst16b_set_field_fns_1.

