(* ===== verification/E32Classes.v ===== *)
(** * ESP32 ISA module: operands and instruction classes ([target/xtensa/core-esp32/xtensa-modules.inc.c])

    The tables of operands, of the operands and states of every instruction
    class, and of the classes.  An array the class table refers to is found by its name. *)

From Stdlib Require Import Ascii.
From S2P Require Import Prelude Isa IsaPattern E32Fields Esp32s3Isa E32Isa.

(** ** [xtensa_state_id] *)

Abbreviation STATE_LCOUNT := 0 (only parsing).
Abbreviation STATE_PC := 1 (only parsing).
Abbreviation STATE_ICOUNT := 2 (only parsing).
Abbreviation STATE_DDR := 3 (only parsing).
Abbreviation STATE_INTERRUPT := 4 (only parsing).
Abbreviation STATE_CCOUNT := 5 (only parsing).
Abbreviation STATE_XTSYNC := 6 (only parsing).
Abbreviation STATE_VECBASE := 7 (only parsing).
Abbreviation STATE_EPC1 := 8 (only parsing).
Abbreviation STATE_EPC2 := 9 (only parsing).
Abbreviation STATE_EPC3 := 10 (only parsing).
Abbreviation STATE_EPC4 := 11 (only parsing).
Abbreviation STATE_EPC5 := 12 (only parsing).
Abbreviation STATE_EPC6 := 13 (only parsing).
Abbreviation STATE_EPC7 := 14 (only parsing).
Abbreviation STATE_EXCSAVE1 := 15 (only parsing).
Abbreviation STATE_EXCSAVE2 := 16 (only parsing).
Abbreviation STATE_EXCSAVE3 := 17 (only parsing).
Abbreviation STATE_EXCSAVE4 := 18 (only parsing).
Abbreviation STATE_EXCSAVE5 := 19 (only parsing).
Abbreviation STATE_EXCSAVE6 := 20 (only parsing).
Abbreviation STATE_EXCSAVE7 := 21 (only parsing).
Abbreviation STATE_EPS2 := 22 (only parsing).
Abbreviation STATE_EPS3 := 23 (only parsing).
Abbreviation STATE_EPS4 := 24 (only parsing).
Abbreviation STATE_EPS5 := 25 (only parsing).
Abbreviation STATE_EPS6 := 26 (only parsing).
Abbreviation STATE_EPS7 := 27 (only parsing).
Abbreviation STATE_EXCCAUSE := 28 (only parsing).
Abbreviation STATE_PSINTLEVEL := 29 (only parsing).
Abbreviation STATE_PSUM := 30 (only parsing).
Abbreviation STATE_PSWOE := 31 (only parsing).
Abbreviation STATE_PSEXCM := 32 (only parsing).
Abbreviation STATE_DEPC := 33 (only parsing).
Abbreviation STATE_EXCVADDR := 34 (only parsing).
Abbreviation STATE_WindowBase := 35 (only parsing).
Abbreviation STATE_WindowStart := 36 (only parsing).
Abbreviation STATE_PSCALLINC := 37 (only parsing).
Abbreviation STATE_PSOWB := 38 (only parsing).
Abbreviation STATE_LBEG := 39 (only parsing).
Abbreviation STATE_LEND := 40 (only parsing).
Abbreviation STATE_MEMCTL := 41 (only parsing).
Abbreviation STATE_SAR := 42 (only parsing).
Abbreviation STATE_THREADPTR := 43 (only parsing).
Abbreviation STATE_MISC0 := 44 (only parsing).
Abbreviation STATE_MISC1 := 45 (only parsing).
Abbreviation STATE_MISC2 := 46 (only parsing).
Abbreviation STATE_MISC3 := 47 (only parsing).
Abbreviation STATE_ACC := 48 (only parsing).
Abbreviation STATE_InOCDMode := 49 (only parsing).
Abbreviation STATE_INTENABLE := 50 (only parsing).
Abbreviation STATE_DBREAKA0 := 51 (only parsing).
Abbreviation STATE_DBREAKC0 := 52 (only parsing).
Abbreviation STATE_DBREAKA1 := 53 (only parsing).
Abbreviation STATE_DBREAKC1 := 54 (only parsing).
Abbreviation STATE_IBREAKA0 := 55 (only parsing).
Abbreviation STATE_IBREAKA1 := 56 (only parsing).
Abbreviation STATE_IBREAKENABLE := 57 (only parsing).
Abbreviation STATE_ICOUNTLEVEL := 58 (only parsing).
Abbreviation STATE_DEBUGCAUSE := 59 (only parsing).
Abbreviation STATE_DBNUM := 60 (only parsing).
Abbreviation STATE_CCOMPARE0 := 61 (only parsing).
Abbreviation STATE_CCOMPARE1 := 62 (only parsing).
Abbreviation STATE_CCOMPARE2 := 63 (only parsing).
Abbreviation STATE_CPENABLE := 64 (only parsing).
Abbreviation STATE_SCOMPARE1 := 65 (only parsing).
Abbreviation STATE_ATOMCTL := 66 (only parsing).
Abbreviation STATE_ERI_RAW_INTERLOCK := 67 (only parsing).
Abbreviation STATE_F64R := 68 (only parsing).
Abbreviation STATE_F64S := 69 (only parsing).
Abbreviation STATE_RoundMode := 70 (only parsing).
Abbreviation STATE_InvalidEnable := 71 (only parsing).
Abbreviation STATE_DivZeroEnable := 72 (only parsing).
Abbreviation STATE_OverflowEnable := 73 (only parsing).
Abbreviation STATE_UnderflowEnable := 74 (only parsing).
Abbreviation STATE_InexactEnable := 75 (only parsing).
Abbreviation STATE_InvalidFlag := 76 (only parsing).
Abbreviation STATE_DivZeroFlag := 77 (only parsing).
Abbreviation STATE_OverflowFlag := 78 (only parsing).
Abbreviation STATE_UnderflowFlag := 79 (only parsing).
Abbreviation STATE_InexactFlag := 80 (only parsing).
Abbreviation STATE_FPreserved20 := 81 (only parsing).
Abbreviation STATE_FPreserved20a := 82 (only parsing).
Abbreviation STATE_FPreserved5 := 83 (only parsing).
Abbreviation STATE_FPreserved7 := 84 (only parsing).
Abbreviation STATE_EXPSTATE := 85 (only parsing).

(** ** [xtensa_operand_id] *)

Abbreviation OPERAND_soffsetx4 := 0 (only parsing).
Abbreviation OPERAND_uimm12x8 := 1 (only parsing).
Abbreviation OPERAND_simm4 := 2 (only parsing).
Abbreviation OPERAND_arr := 3 (only parsing).
Abbreviation OPERAND_ars := 4 (only parsing).
Abbreviation OPERAND__ars_invisible := 5 (only parsing).
Abbreviation OPERAND_art := 6 (only parsing).
Abbreviation OPERAND_ar0 := 7 (only parsing).
Abbreviation OPERAND_ar4 := 8 (only parsing).
Abbreviation OPERAND_ar8 := 9 (only parsing).
Abbreviation OPERAND_ar12 := 10 (only parsing).
Abbreviation OPERAND_ars_entry := 11 (only parsing).
Abbreviation OPERAND_immrx4 := 12 (only parsing).
Abbreviation OPERAND_lsi4x4 := 13 (only parsing).
Abbreviation OPERAND_simm7 := 14 (only parsing).
Abbreviation OPERAND_uimm6 := 15 (only parsing).
Abbreviation OPERAND_ai4const := 16 (only parsing).
Abbreviation OPERAND_b4const := 17 (only parsing).
Abbreviation OPERAND_b4constu := 18 (only parsing).
Abbreviation OPERAND_uimm8 := 19 (only parsing).
Abbreviation OPERAND_uimm8x2 := 20 (only parsing).
Abbreviation OPERAND_uimm8x4 := 21 (only parsing).
Abbreviation OPERAND_uimm4x16 := 22 (only parsing).
Abbreviation OPERAND_uimmrx4 := 23 (only parsing).
Abbreviation OPERAND_simm8 := 24 (only parsing).
Abbreviation OPERAND_simm8x256 := 25 (only parsing).
Abbreviation OPERAND_simm12b := 26 (only parsing).
Abbreviation OPERAND_msalp32 := 27 (only parsing).
Abbreviation OPERAND_op2p1 := 28 (only parsing).
Abbreviation OPERAND_label8 := 29 (only parsing).
Abbreviation OPERAND_ulabel8 := 30 (only parsing).
Abbreviation OPERAND_label12 := 31 (only parsing).
Abbreviation OPERAND_soffset := 32 (only parsing).
Abbreviation OPERAND_uimm16x4 := 33 (only parsing).
Abbreviation OPERAND_bbi := 34 (only parsing).
Abbreviation OPERAND_sae := 35 (only parsing).
Abbreviation OPERAND_sas := 36 (only parsing).
Abbreviation OPERAND_sargt := 37 (only parsing).
Abbreviation OPERAND_s := 38 (only parsing).
Abbreviation OPERAND_mx := 39 (only parsing).
Abbreviation OPERAND_my := 40 (only parsing).
Abbreviation OPERAND_mw := 41 (only parsing).
Abbreviation OPERAND_mr0 := 42 (only parsing).
Abbreviation OPERAND_mr1 := 43 (only parsing).
Abbreviation OPERAND_mr2 := 44 (only parsing).
Abbreviation OPERAND_mr3 := 45 (only parsing).
Abbreviation OPERAND_immt := 46 (only parsing).
Abbreviation OPERAND_imms := 47 (only parsing).
Abbreviation OPERAND_bt := 48 (only parsing).
Abbreviation OPERAND_bs := 49 (only parsing).
Abbreviation OPERAND_br := 50 (only parsing).
Abbreviation OPERAND_bt2 := 51 (only parsing).
Abbreviation OPERAND_bs2 := 52 (only parsing).
Abbreviation OPERAND_br2 := 53 (only parsing).
Abbreviation OPERAND_bt4 := 54 (only parsing).
Abbreviation OPERAND_bs4 := 55 (only parsing).
Abbreviation OPERAND_br4 := 56 (only parsing).
Abbreviation OPERAND_bt8 := 57 (only parsing).
Abbreviation OPERAND_bs8 := 58 (only parsing).
Abbreviation OPERAND_br8 := 59 (only parsing).
Abbreviation OPERAND_bt16 := 60 (only parsing).
Abbreviation OPERAND_bs16 := 61 (only parsing).
Abbreviation OPERAND_br16 := 62 (only parsing).
Abbreviation OPERAND_brall := 63 (only parsing).
Abbreviation OPERAND_tp7 := 64 (only parsing).
Abbreviation OPERAND_xt_wbr15_label := 65 (only parsing).
Abbreviation OPERAND_xt_wbr18_label := 66 (only parsing).
Abbreviation OPERAND_dfp_fld_op2_2 := 67 (only parsing).
Abbreviation OPERAND_dfp_fld_op2_1_0 := 68 (only parsing).
Abbreviation OPERAND_dfp_fld_r_0 := 69 (only parsing).
Abbreviation OPERAND_dfp_fld_r_2_1 := 70 (only parsing).
Abbreviation OPERAND_dfp_fld_op2 := 71 (only parsing).
Abbreviation OPERAND_dfp_fld_op2_0 := 72 (only parsing).
Abbreviation OPERAND_dfp_fld_s_0 := 73 (only parsing).
Abbreviation OPERAND_frr := 74 (only parsing).
Abbreviation OPERAND_frs := 75 (only parsing).
Abbreviation OPERAND_frt := 76 (only parsing).
Abbreviation OPERAND_imm_t := 77 (only parsing).
Abbreviation OPERAND_imm_s := 78 (only parsing).
Abbreviation OPERAND_imm8x4 := 79 (only parsing).
Abbreviation OPERAND_imm8x8 := 80 (only parsing).
Abbreviation OPERAND_bitindex := 81 (only parsing).
Abbreviation OPERAND_t := 82 (only parsing).
Abbreviation OPERAND_bbi4 := 83 (only parsing).
Abbreviation OPERAND_imm12 := 84 (only parsing).
Abbreviation OPERAND_imm8 := 85 (only parsing).
Abbreviation OPERAND_imm12b := 86 (only parsing).
Abbreviation OPERAND_imm16 := 87 (only parsing).
Abbreviation OPERAND_m := 88 (only parsing).
Abbreviation OPERAND_n := 89 (only parsing).
Abbreviation OPERAND_offset := 90 (only parsing).
Abbreviation OPERAND_op0 := 91 (only parsing).
Abbreviation OPERAND_op1 := 92 (only parsing).
Abbreviation OPERAND_op2 := 93 (only parsing).
Abbreviation OPERAND_r := 94 (only parsing).
Abbreviation OPERAND_sa4 := 95 (only parsing).
Abbreviation OPERAND_sae4 := 96 (only parsing).
Abbreviation OPERAND_sal := 97 (only parsing).
Abbreviation OPERAND_sas4 := 98 (only parsing).
Abbreviation OPERAND_sr := 99 (only parsing).
Abbreviation OPERAND_st := 100 (only parsing).
Abbreviation OPERAND_thi3 := 101 (only parsing).
Abbreviation OPERAND_imm4 := 102 (only parsing).
Abbreviation OPERAND_mn := 103 (only parsing).
Abbreviation OPERAND_i := 104 (only parsing).
Abbreviation OPERAND_imm6lo := 105 (only parsing).
Abbreviation OPERAND_imm6hi := 106 (only parsing).
Abbreviation OPERAND_imm7lo := 107 (only parsing).
Abbreviation OPERAND_imm7hi := 108 (only parsing).
Abbreviation OPERAND_z := 109 (only parsing).
Abbreviation OPERAND_imm6 := 110 (only parsing).
Abbreviation OPERAND_imm7 := 111 (only parsing).
Abbreviation OPERAND_r3 := 112 (only parsing).
Abbreviation OPERAND_rbit2 := 113 (only parsing).
Abbreviation OPERAND_rhi := 114 (only parsing).
Abbreviation OPERAND_t3 := 115 (only parsing).
Abbreviation OPERAND_tbit2 := 116 (only parsing).
Abbreviation OPERAND_tlo := 117 (only parsing).
Abbreviation OPERAND_w := 118 (only parsing).
Abbreviation OPERAND_y := 119 (only parsing).
Abbreviation OPERAND_x := 120 (only parsing).
Abbreviation OPERAND_t2 := 121 (only parsing).
Abbreviation OPERAND_s2 := 122 (only parsing).
Abbreviation OPERAND_r2 := 123 (only parsing).
Abbreviation OPERAND_t4 := 124 (only parsing).
Abbreviation OPERAND_s4 := 125 (only parsing).
Abbreviation OPERAND_r4 := 126 (only parsing).
Abbreviation OPERAND_t8 := 127 (only parsing).
Abbreviation OPERAND_s8 := 128 (only parsing).
Abbreviation OPERAND_r8 := 129 (only parsing).
Abbreviation OPERAND_xt_wbr15_imm := 130 (only parsing).
Abbreviation OPERAND_xt_wbr18_imm := 131 (only parsing).
Abbreviation OPERAND_dfp_fld_op1 := 132 (only parsing).
Abbreviation OPERAND_dfp_fld_r_3 := 133 (only parsing).
Abbreviation OPERAND_dfp_fld_r_3_1 := 134 (only parsing).
Abbreviation OPERAND_dfp_fld_s_3_1 := 135 (only parsing).
Abbreviation OPERAND_dfp_fld_op2_3 := 136 (only parsing).
Abbreviation OPERAND_dfp_fld_op2_3_2 := 137 (only parsing).
Abbreviation OPERAND_dfp_fld_op2_3_1 := 138 (only parsing).
Abbreviation OPERAND_s3to1 := 139 (only parsing).

(** ** [xtensa_regfile_id] *)

Abbreviation REGFILE_AR := 0 (only parsing).
Abbreviation REGFILE_MR := 1 (only parsing).
Abbreviation REGFILE_BR := 2 (only parsing).
Abbreviation REGFILE_FR := 3 (only parsing).
Abbreviation REGFILE_BR2 := 4 (only parsing).
Abbreviation REGFILE_BR4 := 5 (only parsing).
Abbreviation REGFILE_BR8 := 6 (only parsing).
Abbreviation REGFILE_BR16 := 7 (only parsing).

(** ** [xtensa_interface_id] *)

Abbreviation INTERFACE_ERI_RD_Out := 0 (only parsing).
Abbreviation INTERFACE_ERI_RD_In := 1 (only parsing).
Abbreviation INTERFACE_ERI_RD_Rdy := 2 (only parsing).
Abbreviation INTERFACE_ERI_WR_Out := 3 (only parsing).
Abbreviation INTERFACE_ERI_WR_In := 4 (only parsing).
Abbreviation INTERFACE_IMPWIRE := 5 (only parsing).

(** ** Operands *)

Definition e32_operands_1 : list xtensa_operand_internal := [
  mkOperand "soffsetx4" FIELD_offset (-1) 0 (XTENSA_OPERAND_IS_PCRELATIVE) (Some OperandSem_opnd_sem_soffsetx4_encode) (Some OperandSem_opnd_sem_soffsetx4_decode) (Some Operand_soffsetx4_ator) (Some Operand_soffsetx4_rtoa);
  mkOperand "uimm12x8" FIELD_imm12 (-1) 0 (0) (Some OperandSem_opnd_sem_uimm12x8_encode) (Some OperandSem_opnd_sem_uimm12x8_decode) None None;
  mkOperand "simm4" FIELD_mn (-1) 0 (0) (Some OperandSem_opnd_sem_simm4_encode) (Some OperandSem_opnd_sem_simm4_decode) None None;
  mkOperand "arr" FIELD_r REGFILE_AR 1 (XTENSA_OPERAND_IS_REGISTER) (Some OperandSem_opnd_sem_AR_encode) (Some OperandSem_opnd_sem_AR_decode) None None;
  mkOperand "ars" FIELD_s REGFILE_AR 1 (XTENSA_OPERAND_IS_REGISTER) (Some OperandSem_opnd_sem_AR_encode) (Some OperandSem_opnd_sem_AR_decode) None None;
  mkOperand "*ars_invisible" FIELD_s REGFILE_AR 1 (XTENSA_OPERAND_IS_REGISTER ||| XTENSA_OPERAND_IS_INVISIBLE) (Some OperandSem_opnd_sem_AR_encode) (Some OperandSem_opnd_sem_AR_decode) None None;
  mkOperand "art" FIELD_t REGFILE_AR 1 (XTENSA_OPERAND_IS_REGISTER) (Some OperandSem_opnd_sem_AR_encode) (Some OperandSem_opnd_sem_AR_decode) None None;
  mkOperand "ar0" FIELD__ar0 REGFILE_AR 1 (XTENSA_OPERAND_IS_REGISTER ||| XTENSA_OPERAND_IS_INVISIBLE) (Some OperandSem_opnd_sem_AR_0_encode) (Some OperandSem_opnd_sem_AR_0_decode) None None;
  mkOperand "ar4" FIELD__ar4 REGFILE_AR 1 (XTENSA_OPERAND_IS_REGISTER ||| XTENSA_OPERAND_IS_INVISIBLE) (Some OperandSem_opnd_sem_AR_1_encode) (Some OperandSem_opnd_sem_AR_1_decode) None None;
  mkOperand "ar8" FIELD__ar8 REGFILE_AR 1 (XTENSA_OPERAND_IS_REGISTER ||| XTENSA_OPERAND_IS_INVISIBLE) (Some OperandSem_opnd_sem_AR_2_encode) (Some OperandSem_opnd_sem_AR_2_decode) None None;
  mkOperand "ar12" FIELD__ar12 REGFILE_AR 1 (XTENSA_OPERAND_IS_REGISTER ||| XTENSA_OPERAND_IS_INVISIBLE) (Some OperandSem_opnd_sem_AR_3_encode) (Some OperandSem_opnd_sem_AR_3_decode) None None;
  mkOperand "ars_entry" FIELD_s REGFILE_AR 1 (XTENSA_OPERAND_IS_REGISTER) (Some OperandSem_opnd_sem_AR_4_encode) (Some OperandSem_opnd_sem_AR_4_decode) None None;
  mkOperand "immrx4" FIELD_r (-1) 0 (0) (Some OperandSem_opnd_sem_immrx4_encode) (Some OperandSem_opnd_sem_immrx4_decode) None None;
  mkOperand "lsi4x4" FIELD_r (-1) 0 (0) (Some OperandSem_opnd_sem_lsi4x4_encode) (Some OperandSem_opnd_sem_lsi4x4_decode) None None;
  mkOperand "simm7" FIELD_imm7 (-1) 0 (0) (Some OperandSem_opnd_sem_simm7_encode) (Some OperandSem_opnd_sem_simm7_decode) None None;
  mkOperand "uimm6" FIELD_imm6 (-1) 0 (XTENSA_OPERAND_IS_PCRELATIVE) (Some OperandSem_opnd_sem_uimm6_encode) (Some OperandSem_opnd_sem_uimm6_decode) (Some Operand_uimm6_ator) (Some Operand_uimm6_rtoa);
  mkOperand "ai4const" FIELD_t (-1) 0 (0) (Some OperandSem_opnd_sem_ai4const_encode) (Some OperandSem_opnd_sem_ai4const_decode) None None;
  mkOperand "b4const" FIELD_r (-1) 0 (0) (Some OperandSem_opnd_sem_b4const_encode) (Some OperandSem_opnd_sem_b4const_decode) None None;
  mkOperand "b4constu" FIELD_r (-1) 0 (0) (Some OperandSem_opnd_sem_b4constu_encode) (Some OperandSem_opnd_sem_b4constu_decode) None None;
  mkOperand "uimm8" FIELD_imm8 (-1) 0 (0) (Some OperandSem_opnd_sem_uimm8_encode) (Some OperandSem_opnd_sem_uimm8_decode) None None;
  mkOperand "uimm8x2" FIELD_imm8 (-1) 0 (0) (Some OperandSem_opnd_sem_uimm8x2_encode) (Some OperandSem_opnd_sem_uimm8x2_decode) None None;
  mkOperand "uimm8x4" FIELD_imm8 (-1) 0 (0) (Some OperandSem_opnd_sem_uimm8x4_encode) (Some OperandSem_opnd_sem_uimm8x4_decode) None None;
  mkOperand "uimm4x16" FIELD_op2 (-1) 0 (0) (Some OperandSem_opnd_sem_uimm4x16_encode) (Some OperandSem_opnd_sem_uimm4x16_decode) None None;
  mkOperand "uimmrx4" FIELD_r (-1) 0 (0) (Some OperandSem_opnd_sem_lsi4x4_encode) (Some OperandSem_opnd_sem_lsi4x4_decode) None None;
  mkOperand "simm8" FIELD_imm8 (-1) 0 (0) (Some OperandSem_opnd_sem_simm8_encode) (Some OperandSem_opnd_sem_simm8_decode) None None;
  mkOperand "simm8x256" FIELD_imm8 (-1) 0 (0) (Some OperandSem_opnd_sem_simm8x256_encode) (Some OperandSem_opnd_sem_simm8x256_decode) None None;
  mkOperand "simm12b" FIELD_imm12b (-1) 0 (0) (Some OperandSem_opnd_sem_simm12b_encode) (Some OperandSem_opnd_sem_simm12b_decode) None None;
  mkOperand "msalp32" FIELD_sal (-1) 0 (0) (Some OperandSem_opnd_sem_msalp32_encode) (Some OperandSem_opnd_sem_msalp32_decode) None None;
  mkOperand "op2p1" FIELD_op2 (-1) 0 (0) (Some OperandSem_opnd_sem_op2p1_encode) (Some OperandSem_opnd_sem_op2p1_decode) None None;
  mkOperand "label8" FIELD_imm8 (-1) 0 (XTENSA_OPERAND_IS_PCRELATIVE) (Some OperandSem_opnd_sem_label8_encode) (Some OperandSem_opnd_sem_label8_decode) (Some Operand_label8_ator) (Some Operand_label8_rtoa);
  mkOperand "ulabel8" FIELD_imm8 (-1) 0 (XTENSA_OPERAND_IS_PCRELATIVE) (Some OperandSem_opnd_sem_ulabel8_encode) (Some OperandSem_opnd_sem_ulabel8_decode) (Some Operand_ulabel8_ator) (Some Operand_ulabel8_rtoa);
  mkOperand "label12" FIELD_imm12 (-1) 0 (XTENSA_OPERAND_IS_PCRELATIVE) (Some OperandSem_opnd_sem_label12_encode) (Some OperandSem_opnd_sem_label12_decode) (Some Operand_label12_ator) (Some Operand_label12_rtoa);
  mkOperand "soffset" FIELD_offset (-1) 0 (XTENSA_OPERAND_IS_PCRELATIVE) (Some OperandSem_opnd_sem_soffset_encode) (Some OperandSem_opnd_sem_soffset_decode) (Some Operand_soffset_ator) (Some Operand_soffset_rtoa);
  mkOperand "uimm16x4" FIELD_imm16 (-1) 0 (XTENSA_OPERAND_IS_PCRELATIVE) (Some OperandSem_opnd_sem_uimm16x4_encode) (Some OperandSem_opnd_sem_uimm16x4_decode) (Some Operand_uimm16x4_ator) (Some Operand_uimm16x4_rtoa);
  mkOperand "bbi" FIELD_bbi (-1) 0 (0) (Some OperandSem_opnd_sem_bbi_encode) (Some OperandSem_opnd_sem_bbi_decode) None None;
  mkOperand "sae" FIELD_sae (-1) 0 (0) (Some OperandSem_opnd_sem_bbi_encode) (Some OperandSem_opnd_sem_bbi_decode) None None;
  mkOperand "sas" FIELD_sas (-1) 0 (0) (Some OperandSem_opnd_sem_bbi_encode) (Some OperandSem_opnd_sem_bbi_decode) None None].

Definition e32_operands_2 : list xtensa_operand_internal := [
  mkOperand "sargt" FIELD_sargt (-1) 0 (0) (Some OperandSem_opnd_sem_bbi_encode) (Some OperandSem_opnd_sem_bbi_decode) None None;
  mkOperand "s" FIELD_s (-1) 0 (0) (Some OperandSem_opnd_sem_s_encode) (Some OperandSem_opnd_sem_s_decode) None None;
  mkOperand "mx" FIELD_x REGFILE_MR 1 (XTENSA_OPERAND_IS_REGISTER ||| XTENSA_OPERAND_IS_UNKNOWN) (Some OperandSem_opnd_sem_MR_encode) (Some OperandSem_opnd_sem_MR_decode) None None;
  mkOperand "my" FIELD_y REGFILE_MR 1 (XTENSA_OPERAND_IS_REGISTER ||| XTENSA_OPERAND_IS_UNKNOWN) (Some OperandSem_opnd_sem_MR_0_encode) (Some OperandSem_opnd_sem_MR_0_decode) None None;
  mkOperand "mw" FIELD_w REGFILE_MR 1 (XTENSA_OPERAND_IS_REGISTER) (Some OperandSem_opnd_sem_MR_1_encode) (Some OperandSem_opnd_sem_MR_1_decode) None None;
  mkOperand "mr0" FIELD__mr0 REGFILE_MR 1 (XTENSA_OPERAND_IS_REGISTER ||| XTENSA_OPERAND_IS_INVISIBLE) (Some OperandSem_opnd_sem_MR_2_encode) (Some OperandSem_opnd_sem_MR_2_decode) None None;
  mkOperand "mr1" FIELD__mr1 REGFILE_MR 1 (XTENSA_OPERAND_IS_REGISTER ||| XTENSA_OPERAND_IS_INVISIBLE) (Some OperandSem_opnd_sem_MR_3_encode) (Some OperandSem_opnd_sem_MR_3_decode) None None;
  mkOperand "mr2" FIELD__mr2 REGFILE_MR 1 (XTENSA_OPERAND_IS_REGISTER ||| XTENSA_OPERAND_IS_INVISIBLE) (Some OperandSem_opnd_sem_MR_4_encode) (Some OperandSem_opnd_sem_MR_4_decode) None None;
  mkOperand "mr3" FIELD__mr3 REGFILE_MR 1 (XTENSA_OPERAND_IS_REGISTER ||| XTENSA_OPERAND_IS_INVISIBLE) (Some OperandSem_opnd_sem_MR_5_encode) (Some OperandSem_opnd_sem_MR_5_decode) None None;
  mkOperand "immt" FIELD_t (-1) 0 (0) (Some OperandSem_opnd_sem_immt_encode) (Some OperandSem_opnd_sem_immt_decode) None None;
  mkOperand "imms" FIELD_s (-1) 0 (0) (Some OperandSem_opnd_sem_immt_encode) (Some OperandSem_opnd_sem_immt_decode) None None;
  mkOperand "bt" FIELD_t REGFILE_BR 1 (XTENSA_OPERAND_IS_REGISTER) (Some OperandSem_opnd_sem_BR_encode) (Some OperandSem_opnd_sem_BR_decode) None None;
  mkOperand "bs" FIELD_s REGFILE_BR 1 (XTENSA_OPERAND_IS_REGISTER) (Some OperandSem_opnd_sem_BR_encode) (Some OperandSem_opnd_sem_BR_decode) None None;
  mkOperand "br" FIELD_r REGFILE_BR 1 (XTENSA_OPERAND_IS_REGISTER) (Some OperandSem_opnd_sem_BR_encode) (Some OperandSem_opnd_sem_BR_decode) None None;
  mkOperand "bt2" FIELD_t2 REGFILE_BR 2 (XTENSA_OPERAND_IS_REGISTER) (Some OperandSem_opnd_sem_BR2_encode) (Some OperandSem_opnd_sem_BR2_decode) None None;
  mkOperand "bs2" FIELD_s2 REGFILE_BR 2 (XTENSA_OPERAND_IS_REGISTER) (Some OperandSem_opnd_sem_BR2_encode) (Some OperandSem_opnd_sem_BR2_decode) None None;
  mkOperand "br2" FIELD_r2 REGFILE_BR 2 (XTENSA_OPERAND_IS_REGISTER) (Some OperandSem_opnd_sem_BR2_encode) (Some OperandSem_opnd_sem_BR2_decode) None None;
  mkOperand "bt4" FIELD_t4 REGFILE_BR 4 (XTENSA_OPERAND_IS_REGISTER) (Some OperandSem_opnd_sem_BR4_encode) (Some OperandSem_opnd_sem_BR4_decode) None None;
  mkOperand "bs4" FIELD_s4 REGFILE_BR 4 (XTENSA_OPERAND_IS_REGISTER) (Some OperandSem_opnd_sem_BR4_encode) (Some OperandSem_opnd_sem_BR4_decode) None None;
  mkOperand "br4" FIELD_r4 REGFILE_BR 4 (XTENSA_OPERAND_IS_REGISTER) (Some OperandSem_opnd_sem_BR4_encode) (Some OperandSem_opnd_sem_BR4_decode) None None;
  mkOperand "bt8" FIELD_t8 REGFILE_BR 8 (XTENSA_OPERAND_IS_REGISTER) (Some OperandSem_opnd_sem_BR8_encode) (Some OperandSem_opnd_sem_BR8_decode) None None;
  mkOperand "bs8" FIELD_s8 REGFILE_BR 8 (XTENSA_OPERAND_IS_REGISTER) (Some OperandSem_opnd_sem_BR8_encode) (Some OperandSem_opnd_sem_BR8_decode) None None;
  mkOperand "br8" FIELD_r8 REGFILE_BR 8 (XTENSA_OPERAND_IS_REGISTER) (Some OperandSem_opnd_sem_BR8_encode) (Some OperandSem_opnd_sem_BR8_decode) None None;
  mkOperand "bt16" FIELD__bt16 REGFILE_BR 16 (XTENSA_OPERAND_IS_REGISTER) (Some OperandSem_opnd_sem_BR16_encode) (Some OperandSem_opnd_sem_BR16_decode) None None;
  mkOperand "bs16" FIELD__bs16 REGFILE_BR 16 (XTENSA_OPERAND_IS_REGISTER) (Some OperandSem_opnd_sem_BR16_encode) (Some OperandSem_opnd_sem_BR16_decode) None None;
  mkOperand "br16" FIELD__br16 REGFILE_BR 16 (XTENSA_OPERAND_IS_REGISTER) (Some OperandSem_opnd_sem_BR16_encode) (Some OperandSem_opnd_sem_BR16_decode) None None;
  mkOperand "brall" FIELD__brall REGFILE_BR 16 (XTENSA_OPERAND_IS_REGISTER ||| XTENSA_OPERAND_IS_INVISIBLE) (Some OperandSem_opnd_sem_BR16_encode) (Some OperandSem_opnd_sem_BR16_decode) None None;
  mkOperand "tp7" FIELD_t (-1) 0 (0) (Some OperandSem_opnd_sem_tp7_encode) (Some OperandSem_opnd_sem_tp7_decode) None None;
  mkOperand "xt_wbr15_label" FIELD_xt_wbr15_imm (-1) 0 (XTENSA_OPERAND_IS_PCRELATIVE) (Some OperandSem_opnd_sem_xt_wbr15_label_encode) (Some OperandSem_opnd_sem_xt_wbr15_label_decode) (Some Operand_xt_wbr15_label_ator) (Some Operand_xt_wbr15_label_rtoa);
  mkOperand "xt_wbr18_label" FIELD_xt_wbr18_imm (-1) 0 (XTENSA_OPERAND_IS_PCRELATIVE) (Some OperandSem_opnd_sem_soffset_encode) (Some OperandSem_opnd_sem_soffset_decode) (Some Operand_xt_wbr18_label_ator) (Some Operand_xt_wbr18_label_rtoa);
  mkOperand "dfp_fld_op2_2" FIELD_dfp_fld_op2_2 (-1) 0 (0) (Some OperandSem_opnd_sem_dfp_fld_op2_2_encode) (Some OperandSem_opnd_sem_dfp_fld_op2_2_decode) None None;
  mkOperand "dfp_fld_op2_1_0" FIELD_dfp_fld_op2_1_0 (-1) 0 (0) (Some OperandSem_opnd_sem_dfp_fld_op2_1_0_encode) (Some OperandSem_opnd_sem_dfp_fld_op2_1_0_decode) None None;
  mkOperand "dfp_fld_r_0" FIELD_dfp_fld_r_0 (-1) 0 (0) (Some OperandSem_opnd_sem_dfp_fld_op2_2_encode) (Some OperandSem_opnd_sem_dfp_fld_op2_2_decode) None None;
  mkOperand "dfp_fld_r_2_1" FIELD_dfp_fld_r_2_1 (-1) 0 (0) (Some OperandSem_opnd_sem_dfp_fld_op2_1_0_encode) (Some OperandSem_opnd_sem_dfp_fld_op2_1_0_decode) None None;
  mkOperand "dfp_fld_op2" FIELD_dfp_fld_op2 (-1) 0 (0) (Some OperandSem_opnd_sem_s_encode) (Some OperandSem_opnd_sem_s_decode) None None;
  mkOperand "dfp_fld_op2_0" FIELD_dfp_fld_op2_0 (-1) 0 (0) (Some OperandSem_opnd_sem_dfp_fld_op2_2_encode) (Some OperandSem_opnd_sem_dfp_fld_op2_2_decode) None None;
  mkOperand "dfp_fld_s_0" FIELD_dfp_fld_s_0 (-1) 0 (0) (Some OperandSem_opnd_sem_dfp_fld_op2_2_encode) (Some OperandSem_opnd_sem_dfp_fld_op2_2_decode) None None].

Definition e32_operands_3 : list xtensa_operand_internal := [
  mkOperand "frr" FIELD_r REGFILE_FR 1 (XTENSA_OPERAND_IS_REGISTER) (Some OperandSem_opnd_sem_FR_encode) (Some OperandSem_opnd_sem_FR_decode) None None;
  mkOperand "frs" FIELD_s REGFILE_FR 1 (XTENSA_OPERAND_IS_REGISTER) (Some OperandSem_opnd_sem_FR_encode) (Some OperandSem_opnd_sem_FR_decode) None None;
  mkOperand "frt" FIELD_t REGFILE_FR 1 (XTENSA_OPERAND_IS_REGISTER) (Some OperandSem_opnd_sem_FR_encode) (Some OperandSem_opnd_sem_FR_decode) None None;
  mkOperand "imm_t" FIELD_t (-1) 0 (0) (Some OperandSem_opnd_sem_s_encode) (Some OperandSem_opnd_sem_s_decode) None None;
  mkOperand "imm_s" FIELD_s (-1) 0 (0) (Some OperandSem_opnd_sem_s_encode) (Some OperandSem_opnd_sem_s_decode) None None;
  mkOperand "imm8x4" FIELD_imm8 (-1) 0 (0) (Some OperandSem_opnd_sem_imm8x4_encode) (Some OperandSem_opnd_sem_imm8x4_decode) None None;
  mkOperand "imm8x8" FIELD_imm8 (-1) 0 (0) (Some OperandSem_opnd_sem_imm8x8_encode) (Some OperandSem_opnd_sem_imm8x8_decode) None None;
  mkOperand "bitindex" FIELD_bitindex (-1) 0 (0) (Some OperandSem_opnd_sem_bbi_encode) (Some OperandSem_opnd_sem_bbi_decode) None None;
  mkOperand "t" FIELD_t (-1) 0 (0) None None None None;
  mkOperand "bbi4" FIELD_bbi4 (-1) 0 (0) None None None None;
  mkOperand "imm12" FIELD_imm12 (-1) 0 (0) None None None None;
  mkOperand "imm8" FIELD_imm8 (-1) 0 (0) None None None None;
  mkOperand "imm12b" FIELD_imm12b (-1) 0 (0) None None None None;
  mkOperand "imm16" FIELD_imm16 (-1) 0 (0) None None None None;
  mkOperand "m" FIELD_m (-1) 0 (0) None None None None;
  mkOperand "n" FIELD_n (-1) 0 (0) None None None None;
  mkOperand "offset" FIELD_offset (-1) 0 (0) None None None None;
  mkOperand "op0" FIELD_op0 (-1) 0 (0) None None None None;
  mkOperand "op1" FIELD_op1 (-1) 0 (0) None None None None;
  mkOperand "op2" FIELD_op2 (-1) 0 (0) None None None None;
  mkOperand "r" FIELD_r (-1) 0 (0) None None None None;
  mkOperand "sa4" FIELD_sa4 (-1) 0 (0) None None None None;
  mkOperand "sae4" FIELD_sae4 (-1) 0 (0) None None None None;
  mkOperand "sal" FIELD_sal (-1) 0 (0) None None None None;
  mkOperand "sas4" FIELD_sas4 (-1) 0 (0) None None None None;
  mkOperand "sr" FIELD_sr (-1) 0 (0) None None None None;
  mkOperand "st" FIELD_st (-1) 0 (0) None None None None;
  mkOperand "thi3" FIELD_thi3 (-1) 0 (0) None None None None;
  mkOperand "imm4" FIELD_imm4 (-1) 0 (0) None None None None;
  mkOperand "mn" FIELD_mn (-1) 0 (0) None None None None;
  mkOperand "i" FIELD_i (-1) 0 (0) None None None None;
  mkOperand "imm6lo" FIELD_imm6lo (-1) 0 (0) None None None None;
  mkOperand "imm6hi" FIELD_imm6hi (-1) 0 (0) None None None None;
  mkOperand "imm7lo" FIELD_imm7lo (-1) 0 (0) None None None None;
  mkOperand "imm7hi" FIELD_imm7hi (-1) 0 (0) None None None None;
  mkOperand "z" FIELD_z (-1) 0 (0) None None None None;
  mkOperand "imm6" FIELD_imm6 (-1) 0 (0) None None None None;
  mkOperand "imm7" FIELD_imm7 (-1) 0 (0) None None None None;
  mkOperand "r3" FIELD_r3 (-1) 0 (0) None None None None;
  mkOperand "rbit2" FIELD_rbit2 (-1) 0 (0) None None None None;
  mkOperand "rhi" FIELD_rhi (-1) 0 (0) None None None None;
  mkOperand "t3" FIELD_t3 (-1) 0 (0) None None None None;
  mkOperand "tbit2" FIELD_tbit2 (-1) 0 (0) None None None None;
  mkOperand "tlo" FIELD_tlo (-1) 0 (0) None None None None;
  mkOperand "w" FIELD_w (-1) 0 (0) None None None None;
  mkOperand "y" FIELD_y (-1) 0 (0) None None None None;
  mkOperand "x" FIELD_x (-1) 0 (0) None None None None;
  mkOperand "t2" FIELD_t2 (-1) 0 (0) None None None None;
  mkOperand "s2" FIELD_s2 (-1) 0 (0) None None None None;
  mkOperand "r2" FIELD_r2 (-1) 0 (0) None None None None;
  mkOperand "t4" FIELD_t4 (-1) 0 (0) None None None None;
  mkOperand "s4" FIELD_s4 (-1) 0 (0) None None None None;
  mkOperand "r4" FIELD_r4 (-1) 0 (0) None None None None;
  mkOperand "t8" FIELD_t8 (-1) 0 (0) None None None None;
  mkOperand "s8" FIELD_s8 (-1) 0 (0) None None None None;
  mkOperand "r8" FIELD_r8 (-1) 0 (0) None None None None;
  mkOperand "xt_wbr15_imm" FIELD_xt_wbr15_imm (-1) 0 (0) None None None None;
  mkOperand "xt_wbr18_imm" FIELD_xt_wbr18_imm (-1) 0 (0) None None None None;
  mkOperand "dfp_fld_op1" FIELD_dfp_fld_op1 (-1) 0 (0) None None None None;
  mkOperand "dfp_fld_r_3" FIELD_dfp_fld_r_3 (-1) 0 (0) None None None None;
  mkOperand "dfp_fld_r_3_1" FIELD_dfp_fld_r_3_1 (-1) 0 (0) None None None None;
  mkOperand "dfp_fld_s_3_1" FIELD_dfp_fld_s_3_1 (-1) 0 (0) None None None None;
  mkOperand "dfp_fld_op2_3" FIELD_dfp_fld_op2_3 (-1) 0 (0) None None None None;
  mkOperand "dfp_fld_op2_3_2" FIELD_dfp_fld_op2_3_2 (-1) 0 (0) None None None None;
  mkOperand "dfp_fld_op2_3_1" FIELD_dfp_fld_op2_3_1 (-1) 0 (0) None None None None;
  mkOperand "s3to1" FIELD_s3to1 (-1) 0 (0) None None None None].

Definition e32_operands : list xtensa_operand_internal :=
  e32_operands_1 ++ e32_operands_2 ++ e32_operands_3.

(** ** Operands and states of the classes *)

Definition e32_args_1 : list (string * list xtensa_arg_internal) := [
  ("Iclass_LSI_args", [mkArg OPERAND_frt "o"; mkArg OPERAND_ars "i"; mkArg OPERAND_imm8x4 "i"]);
  ("Iclass_LSI_stateArgs", [mkArg STATE_CPENABLE "i"]);
  ("Iclass_LSIP_args", [mkArg OPERAND_frt "o"; mkArg OPERAND_ars "m"; mkArg OPERAND_imm8x4 "i"]);
  ("Iclass_LSIP_stateArgs", [mkArg STATE_CPENABLE "i"]);
  ("Iclass_LSX_args", [mkArg OPERAND_frr "o"; mkArg OPERAND_ars "i"; mkArg OPERAND_art "i"]);
  ("Iclass_LSX_stateArgs", [mkArg STATE_CPENABLE "i"]);
  ("Iclass_LSXP_args", [mkArg OPERAND_frr "o"; mkArg OPERAND_ars "m"; mkArg OPERAND_art "i"]);
  ("Iclass_LSXP_stateArgs", [mkArg STATE_CPENABLE "i"]);
  ("Iclass_SSI_args", [mkArg OPERAND_frt "i"; mkArg OPERAND_ars "i"; mkArg OPERAND_imm8x4 "i"]);
  ("Iclass_SSI_stateArgs", [mkArg STATE_CPENABLE "i"]);
  ("Iclass_SSIP_args", [mkArg OPERAND_frt "i"; mkArg OPERAND_ars "m"; mkArg OPERAND_imm8x4 "i"]);
  ("Iclass_SSIP_stateArgs", [mkArg STATE_CPENABLE "i"]);
  ("Iclass_SSX_args", [mkArg OPERAND_frr "i"; mkArg OPERAND_ars "i"; mkArg OPERAND_art "i"]);
  ("Iclass_SSX_stateArgs", [mkArg STATE_CPENABLE "i"]);
  ("Iclass_SSXP_args", [mkArg OPERAND_frr "i"; mkArg OPERAND_ars "m"; mkArg OPERAND_art "i"]);
  ("Iclass_SSXP_stateArgs", [mkArg STATE_CPENABLE "i"]);
  ("Iclass_ABS_S_args", [mkArg OPERAND_frr "o"; mkArg OPERAND_frs "i"]);
  ("Iclass_ABS_S_stateArgs", [mkArg STATE_CPENABLE "i"]);
  ("Iclass_NEG_S_args", [mkArg OPERAND_frr "o"; mkArg OPERAND_frs "i"]);
  ("Iclass_NEG_S_stateArgs", [mkArg STATE_CPENABLE "i"]);
  ("Iclass_MOV_S_args", [mkArg OPERAND_frr "o"; mkArg OPERAND_frs "i"]);
  ("Iclass_MOV_S_stateArgs", [mkArg STATE_CPENABLE "i"]);
  ("Iclass_MOVEQZ_S_args", [mkArg OPERAND_frr "m"; mkArg OPERAND_frs "i"; mkArg OPERAND_art "i"]);
  ("Iclass_MOVEQZ_S_stateArgs", [mkArg STATE_CPENABLE "i"]);
  ("Iclass_MOVNEZ_S_args", [mkArg OPERAND_frr "m"; mkArg OPERAND_frs "i"; mkArg OPERAND_art "i"]);
  ("Iclass_MOVNEZ_S_stateArgs", [mkArg STATE_CPENABLE "i"]);
  ("Iclass_MOVLTZ_S_args", [mkArg OPERAND_frr "m"; mkArg OPERAND_frs "i"; mkArg OPERAND_art "i"]);
  ("Iclass_MOVLTZ_S_stateArgs", [mkArg STATE_CPENABLE "i"]);
  ("Iclass_MOVGEZ_S_args", [mkArg OPERAND_frr "m"; mkArg OPERAND_frs "i"; mkArg OPERAND_art "i"]);
  ("Iclass_MOVGEZ_S_stateArgs", [mkArg STATE_CPENABLE "i"])].

Definition e32_args_2 : list (string * list xtensa_arg_internal) := [
  ("Iclass_MOVF_S_args", [mkArg OPERAND_frr "m"; mkArg OPERAND_frs "i"; mkArg OPERAND_bt "i"]);
  ("Iclass_MOVF_S_stateArgs", [mkArg STATE_CPENABLE "i"]);
  ("Iclass_MOVT_S_args", [mkArg OPERAND_frr "m"; mkArg OPERAND_frs "i"; mkArg OPERAND_bt "i"]);
  ("Iclass_MOVT_S_stateArgs", [mkArg STATE_CPENABLE "i"]);
  ("Iclass_WFR_args", [mkArg OPERAND_frr "o"; mkArg OPERAND_ars "i"]);
  ("Iclass_WFR_stateArgs", [mkArg STATE_CPENABLE "i"]);
  ("Iclass_RFR_args", [mkArg OPERAND_arr "o"; mkArg OPERAND_frs "i"]);
  ("Iclass_RFR_stateArgs", [mkArg STATE_CPENABLE "i"]);
  ("Iclass_ROUND_S_args", [mkArg OPERAND_arr "o"; mkArg OPERAND_frs "i"; mkArg OPERAND_imm_t "i"]);
  ("Iclass_ROUND_S_stateArgs", [mkArg STATE_InvalidFlag "m"; mkArg STATE_InexactFlag "m";
     mkArg STATE_CPENABLE "i"]);
  ("Iclass_CEIL_S_args", [mkArg OPERAND_arr "o"; mkArg OPERAND_frs "i"; mkArg OPERAND_imm_t "i"]);
  ("Iclass_CEIL_S_stateArgs", [mkArg STATE_InvalidFlag "m"; mkArg STATE_InexactFlag "m";
     mkArg STATE_CPENABLE "i"]);
  ("Iclass_FLOOR_S_args", [mkArg OPERAND_arr "o"; mkArg OPERAND_frs "i"; mkArg OPERAND_imm_t "i"]);
  ("Iclass_FLOOR_S_stateArgs", [mkArg STATE_InvalidFlag "m"; mkArg STATE_InexactFlag "m";
     mkArg STATE_CPENABLE "i"]);
  ("Iclass_TRUNC_S_args", [mkArg OPERAND_arr "o"; mkArg OPERAND_frs "i"; mkArg OPERAND_imm_t "i"]);
  ("Iclass_TRUNC_S_stateArgs", [mkArg STATE_InvalidFlag "m"; mkArg STATE_InexactFlag "m";
     mkArg STATE_CPENABLE "i"]);
  ("Iclass_UTRUNC_S_args", [mkArg OPERAND_arr "o"; mkArg OPERAND_frs "i"; mkArg OPERAND_imm_t "i"]);
  ("Iclass_UTRUNC_S_stateArgs", [mkArg STATE_InvalidFlag "m"; mkArg STATE_InexactFlag "m";
     mkArg STATE_CPENABLE "i"]);
  ("Iclass_FLOAT_S_args", [mkArg OPERAND_frr "o"; mkArg OPERAND_ars "i"; mkArg OPERAND_imm_t "i"]);
  ("Iclass_FLOAT_S_stateArgs", [mkArg STATE_InexactFlag "m"; mkArg STATE_RoundMode "i";
     mkArg STATE_CPENABLE "i"]);
  ("Iclass_UFLOAT_S_args", [mkArg OPERAND_frr "o"; mkArg OPERAND_ars "i"; mkArg OPERAND_imm_t "i"]);
  ("Iclass_UFLOAT_S_stateArgs", [mkArg STATE_InexactFlag "m"; mkArg STATE_RoundMode "i";
     mkArg STATE_CPENABLE "i"]);
  ("Iclass_UN_S_args", [mkArg OPERAND_br "o"; mkArg OPERAND_frs "i"; mkArg OPERAND_frt "i"]);
  ("Iclass_UN_S_stateArgs", [mkArg STATE_InvalidFlag "m"; mkArg STATE_CPENABLE "i"]);
  ("Iclass_ULT_S_args", [mkArg OPERAND_br "o"; mkArg OPERAND_frs "i"; mkArg OPERAND_frt "i"]);
  ("Iclass_ULT_S_stateArgs", [mkArg STATE_InvalidFlag "m"; mkArg STATE_CPENABLE "i"]);
  ("Iclass_ULE_S_args", [mkArg OPERAND_br "o"; mkArg OPERAND_frs "i"; mkArg OPERAND_frt "i"])].

Definition e32_args_3 : list (string * list xtensa_arg_internal) := [
  ("Iclass_ULE_S_stateArgs", [mkArg STATE_InvalidFlag "m"; mkArg STATE_CPENABLE "i"]);
  ("Iclass_UEQ_S_args", [mkArg OPERAND_br "o"; mkArg OPERAND_frs "i"; mkArg OPERAND_frt "i"]);
  ("Iclass_UEQ_S_stateArgs", [mkArg STATE_InvalidFlag "m"; mkArg STATE_CPENABLE "i"]);
  ("Iclass_OLT_S_args", [mkArg OPERAND_br "o"; mkArg OPERAND_frs "i"; mkArg OPERAND_frt "i"]);
  ("Iclass_OLT_S_stateArgs", [mkArg STATE_InvalidFlag "m"; mkArg STATE_CPENABLE "i"]);
  ("Iclass_OLE_S_args", [mkArg OPERAND_br "o"; mkArg OPERAND_frs "i"; mkArg OPERAND_frt "i"]);
  ("Iclass_OLE_S_stateArgs", [mkArg STATE_InvalidFlag "m"; mkArg STATE_CPENABLE "i"]);
  ("Iclass_OEQ_S_args", [mkArg OPERAND_br "o"; mkArg OPERAND_frs "i"; mkArg OPERAND_frt "i"]);
  ("Iclass_OEQ_S_stateArgs", [mkArg STATE_InvalidFlag "m"; mkArg STATE_CPENABLE "i"]);
  ("Iclass_ADD_S_args", [mkArg OPERAND_frr "o"; mkArg OPERAND_frs "i"; mkArg OPERAND_frt "i"]);
  ("Iclass_ADD_S_stateArgs", [mkArg STATE_InvalidFlag "m"; mkArg STATE_OverflowFlag "m";
     mkArg STATE_UnderflowFlag "m"; mkArg STATE_InexactFlag "m"; mkArg STATE_RoundMode "i";
     mkArg STATE_CPENABLE "i"]);
  ("Iclass_SUB_S_args", [mkArg OPERAND_frr "o"; mkArg OPERAND_frs "i"; mkArg OPERAND_frt "i"]);
  ("Iclass_SUB_S_stateArgs", [mkArg STATE_InvalidFlag "m"; mkArg STATE_OverflowFlag "m";
     mkArg STATE_UnderflowFlag "m"; mkArg STATE_InexactFlag "m"; mkArg STATE_RoundMode "i";
     mkArg STATE_CPENABLE "i"]);
  ("Iclass_MUL_S_args", [mkArg OPERAND_frr "o"; mkArg OPERAND_frs "i"; mkArg OPERAND_frt "i"]);
  ("Iclass_MUL_S_stateArgs", [mkArg STATE_InvalidFlag "m"; mkArg STATE_OverflowFlag "m";
     mkArg STATE_UnderflowFlag "m"; mkArg STATE_InexactFlag "m"; mkArg STATE_RoundMode "i";
     mkArg STATE_CPENABLE "i"]);
  ("Iclass_MADD_S_args", [mkArg OPERAND_frr "m"; mkArg OPERAND_frs "i"; mkArg OPERAND_frt "i"]);
  ("Iclass_MADD_S_stateArgs", [mkArg STATE_InvalidFlag "m"; mkArg STATE_OverflowFlag "m";
     mkArg STATE_UnderflowFlag "m"; mkArg STATE_InexactFlag "m"; mkArg STATE_RoundMode "i";
     mkArg STATE_CPENABLE "i"]);
  ("Iclass_MSUB_S_args", [mkArg OPERAND_frr "m"; mkArg OPERAND_frs "i"; mkArg OPERAND_frt "i"]);
  ("Iclass_MSUB_S_stateArgs", [mkArg STATE_InvalidFlag "m"; mkArg STATE_OverflowFlag "m";
     mkArg STATE_UnderflowFlag "m"; mkArg STATE_InexactFlag "m"; mkArg STATE_RoundMode "i";
     mkArg STATE_CPENABLE "i"]);
  ("Iclass_SQRT0_S_args", [mkArg OPERAND_frr "o"; mkArg OPERAND_frs "i"]);
  ("Iclass_SQRT0_S_stateArgs", [mkArg STATE_CPENABLE "i"]);
  ("Iclass_DIV0_S_args", [mkArg OPERAND_frr "o"; mkArg OPERAND_frs "i"]);
  ("Iclass_DIV0_S_stateArgs", [mkArg STATE_CPENABLE "i"]);
  ("Iclass_RECIP0_S_args", [mkArg OPERAND_frr "o"; mkArg OPERAND_frs "i"])].

Definition e32_args_4 : list (string * list xtensa_arg_internal) := [
  ("Iclass_RECIP0_S_stateArgs", [mkArg STATE_InvalidFlag "m"; mkArg STATE_DivZeroFlag "m";
     mkArg STATE_CPENABLE "i"]);
  ("Iclass_RSQRT0_S_args", [mkArg OPERAND_frr "o"; mkArg OPERAND_frs "i"]);
  ("Iclass_RSQRT0_S_stateArgs", [mkArg STATE_InvalidFlag "m"; mkArg STATE_DivZeroFlag "m";
     mkArg STATE_CPENABLE "i"]);
  ("Iclass_MADDN_S_args", [mkArg OPERAND_frr "m"; mkArg OPERAND_frs "i"; mkArg OPERAND_frt "i"]);
  ("Iclass_MADDN_S_stateArgs", [mkArg STATE_CPENABLE "i"]);
  ("Iclass_DIVN_S_args", [mkArg OPERAND_frr "m"; mkArg OPERAND_frs "i"; mkArg OPERAND_frt "i"]);
  ("Iclass_DIVN_S_stateArgs", [mkArg STATE_OverflowFlag "m"; mkArg STATE_UnderflowFlag "m";
     mkArg STATE_InexactFlag "m"; mkArg STATE_RoundMode "i"; mkArg STATE_CPENABLE "i"]);
  ("Iclass_CONST_S_args", [mkArg OPERAND_frr "o"; mkArg OPERAND_imm_s "i"]);
  ("Iclass_CONST_S_stateArgs", [mkArg STATE_CPENABLE "i"]);
  ("Iclass_NEXP01_S_args", [mkArg OPERAND_frr "o"; mkArg OPERAND_frs "i"]);
  ("Iclass_NEXP01_S_stateArgs", [mkArg STATE_CPENABLE "i"]);
  ("Iclass_ADDEXP_S_args", [mkArg OPERAND_frr "m"; mkArg OPERAND_frs "i"]);
  ("Iclass_ADDEXP_S_stateArgs", [mkArg STATE_CPENABLE "i"]);
  ("Iclass_ADDEXPM_S_args", [mkArg OPERAND_frr "m"; mkArg OPERAND_frs "i"]);
  ("Iclass_ADDEXPM_S_stateArgs", [mkArg STATE_CPENABLE "i"]);
  ("Iclass_MKDADJ_S_args", [mkArg OPERAND_frr "m"; mkArg OPERAND_frs "i"]);
  ("Iclass_MKDADJ_S_stateArgs", [mkArg STATE_InvalidFlag "m"; mkArg STATE_DivZeroFlag "m";
     mkArg STATE_CPENABLE "i"]);
  ("Iclass_MKSADJ_S_args", [mkArg OPERAND_frr "o"; mkArg OPERAND_frs "i"]);
  ("Iclass_MKSADJ_S_stateArgs", [mkArg STATE_InvalidFlag "m"; mkArg STATE_CPENABLE "i"]);
  ("Iclass_xt_iclass_rfe_stateArgs", [mkArg STATE_PSEXCM "o"; mkArg STATE_EPC1 "i"]);
  ("Iclass_xt_iclass_rfde_stateArgs", [mkArg STATE_DEPC "i"]);
  ("Iclass_xt_iclass_call12_args", [mkArg OPERAND_soffsetx4 "i"; mkArg OPERAND_ar12 "o"]);
  ("Iclass_xt_iclass_call12_stateArgs", [mkArg STATE_PSCALLINC "o"]);
  ("Iclass_xt_iclass_call8_args", [mkArg OPERAND_soffsetx4 "i"; mkArg OPERAND_ar8 "o"]);
  ("Iclass_xt_iclass_call8_stateArgs", [mkArg STATE_PSCALLINC "o"]);
  ("Iclass_xt_iclass_call4_args", [mkArg OPERAND_soffsetx4 "i"; mkArg OPERAND_ar4 "o"]);
  ("Iclass_xt_iclass_call4_stateArgs", [mkArg STATE_PSCALLINC "o"]);
  ("Iclass_xt_iclass_callx12_args", [mkArg OPERAND_ars "i"; mkArg OPERAND_ar12 "o"]);
  ("Iclass_xt_iclass_callx12_stateArgs", [mkArg STATE_PSCALLINC "o"]);
  ("Iclass_xt_iclass_callx8_args", [mkArg OPERAND_ars "i"; mkArg OPERAND_ar8 "o"])].

Definition e32_args_5 : list (string * list xtensa_arg_internal) := [
  ("Iclass_xt_iclass_callx8_stateArgs", [mkArg STATE_PSCALLINC "o"]);
  ("Iclass_xt_iclass_callx4_args", [mkArg OPERAND_ars "i"; mkArg OPERAND_ar4 "o"]);
  ("Iclass_xt_iclass_callx4_stateArgs", [mkArg STATE_PSCALLINC "o"]);
  ("Iclass_xt_iclass_entry_args", [mkArg OPERAND_ars_entry "s"; mkArg OPERAND_ars "i";
     mkArg OPERAND_uimm12x8 "i"]);
  ("Iclass_xt_iclass_entry_stateArgs", [mkArg STATE_PSCALLINC "i"; mkArg STATE_PSEXCM "i";
     mkArg STATE_PSWOE "i"; mkArg STATE_WindowBase "m"; mkArg STATE_WindowStart "m"]);
  ("Iclass_xt_iclass_movsp_args", [mkArg OPERAND_art "o"; mkArg OPERAND_ars "i"]);
  ("Iclass_xt_iclass_movsp_stateArgs", [mkArg STATE_WindowBase "i"; mkArg STATE_WindowStart "i"]);
  ("Iclass_xt_iclass_rotw_args", [mkArg OPERAND_simm4 "i"]);
  ("Iclass_xt_iclass_rotw_stateArgs", [mkArg STATE_WindowBase "m"]);
  ("Iclass_xt_iclass_retw_args", [mkArg OPERAND__ars_invisible "i"]);
  ("Iclass_xt_iclass_retw_stateArgs", [mkArg STATE_WindowBase "m"; mkArg STATE_WindowStart "m";
     mkArg STATE_PSCALLINC "o"; mkArg STATE_PSEXCM "i"; mkArg STATE_PSWOE "i"]);
  ("Iclass_xt_iclass_rfwou_stateArgs", [mkArg STATE_EPC1 "i"; mkArg STATE_PSEXCM "o";
     mkArg STATE_WindowBase "m"; mkArg STATE_WindowStart "m"; mkArg STATE_PSOWB "i"]);
  ("Iclass_xt_iclass_l32e_args", [mkArg OPERAND_art "o"; mkArg OPERAND_ars "i"; mkArg OPERAND_immrx4 "i"]);
  ("Iclass_xt_iclass_s32e_args", [mkArg OPERAND_art "i"; mkArg OPERAND_ars "i"; mkArg OPERAND_immrx4 "i"]);
  ("Iclass_xt_iclass_rsr_windowbase_args", [mkArg OPERAND_art "o"]);
  ("Iclass_xt_iclass_rsr_windowbase_stateArgs", [mkArg STATE_WindowBase "i"]);
  ("Iclass_xt_iclass_wsr_windowbase_args", [mkArg OPERAND_art "i"]);
  ("Iclass_xt_iclass_wsr_windowbase_stateArgs", [mkArg STATE_WindowBase "o"]);
  ("Iclass_xt_iclass_xsr_windowbase_args", [mkArg OPERAND_art "m"]);
  ("Iclass_xt_iclass_xsr_windowbase_stateArgs", [mkArg STATE_WindowBase "m"]);
  ("Iclass_xt_iclass_rsr_windowstart_args", [mkArg OPERAND_art "o"]);
  ("Iclass_xt_iclass_rsr_windowstart_stateArgs", [mkArg STATE_WindowStart "i"]);
  ("Iclass_xt_iclass_wsr_windowstart_args", [mkArg OPERAND_art "i"]);
  ("Iclass_xt_iclass_wsr_windowstart_stateArgs", [mkArg STATE_WindowStart "o"]);
  ("Iclass_xt_iclass_xsr_windowstart_args", [mkArg OPERAND_art "m"]);
  ("Iclass_xt_iclass_xsr_windowstart_stateArgs", [mkArg STATE_WindowStart "m"]);
  ("Iclass_xt_iclass_add_n_args", [mkArg OPERAND_arr "o"; mkArg OPERAND_ars "i"; mkArg OPERAND_art "i"]);
  ("Iclass_xt_iclass_addi_n_args", [mkArg OPERAND_arr "o"; mkArg OPERAND_ars "i";
     mkArg OPERAND_ai4const "i"]);
  ("Iclass_xt_iclass_bz6_args", [mkArg OPERAND_ars "i"; mkArg OPERAND_uimm6 "i"]);
  ("Iclass_xt_iclass_loadi4_args", [mkArg OPERAND_art "o"; mkArg OPERAND_ars "i"; mkArg OPERAND_lsi4x4 "i"])].

Definition e32_args_6 : list (string * list xtensa_arg_internal) := [
  ("Iclass_xt_iclass_mov_n_args", [mkArg OPERAND_art "o"; mkArg OPERAND_ars "i"]);
  ("Iclass_xt_iclass_movi_n_args", [mkArg OPERAND_ars "o"; mkArg OPERAND_simm7 "i"]);
  ("Iclass_xt_iclass_retn_args", [mkArg OPERAND__ars_invisible "i"]);
  ("Iclass_xt_iclass_storei4_args", [mkArg OPERAND_art "i"; mkArg OPERAND_ars "i"; mkArg OPERAND_lsi4x4 "i"]);
  ("Iclass_rur_threadptr_args", [mkArg OPERAND_arr "o"]);
  ("Iclass_rur_threadptr_stateArgs", [mkArg STATE_THREADPTR "i"]);
  ("Iclass_wur_threadptr_args", [mkArg OPERAND_art "i"]);
  ("Iclass_wur_threadptr_stateArgs", [mkArg STATE_THREADPTR "o"]);
  ("Iclass_xt_iclass_addi_args", [mkArg OPERAND_art "o"; mkArg OPERAND_ars "i"; mkArg OPERAND_simm8 "i"]);
  ("Iclass_xt_iclass_addmi_args", [mkArg OPERAND_art "o"; mkArg OPERAND_ars "i";
     mkArg OPERAND_simm8x256 "i"]);
  ("Iclass_xt_iclass_addsub_args", [mkArg OPERAND_arr "o"; mkArg OPERAND_ars "i"; mkArg OPERAND_art "i"]);
  ("Iclass_xt_iclass_bit_args", [mkArg OPERAND_arr "o"; mkArg OPERAND_ars "i"; mkArg OPERAND_art "i"]);
  ("Iclass_xt_iclass_bsi8_args", [mkArg OPERAND_ars "i"; mkArg OPERAND_b4const "i";
     mkArg OPERAND_label8 "i"]);
  ("Iclass_xt_iclass_bsi8b_args", [mkArg OPERAND_ars "i"; mkArg OPERAND_bbi "i"; mkArg OPERAND_label8 "i"]);
  ("Iclass_xt_iclass_bsi8u_args", [mkArg OPERAND_ars "i"; mkArg OPERAND_b4constu "i";
     mkArg OPERAND_label8 "i"]);
  ("Iclass_xt_iclass_bst8_args", [mkArg OPERAND_ars "i"; mkArg OPERAND_art "i"; mkArg OPERAND_label8 "i"]);
  ("Iclass_xt_iclass_bsz12_args", [mkArg OPERAND_ars "i"; mkArg OPERAND_label12 "i"]);
  ("Iclass_xt_iclass_call0_args", [mkArg OPERAND_soffsetx4 "i"; mkArg OPERAND_ar0 "o"]);
  ("Iclass_xt_iclass_callx0_args", [mkArg OPERAND_ars "i"; mkArg OPERAND_ar0 "o"]);
  ("Iclass_xt_iclass_exti_args", [mkArg OPERAND_arr "o"; mkArg OPERAND_art "i"; mkArg OPERAND_sae "i";
     mkArg OPERAND_op2p1 "i"]);
  ("Iclass_xt_iclass_jump_args", [mkArg OPERAND_soffset "i"]);
  ("Iclass_xt_iclass_jumpx_args", [mkArg OPERAND_ars "i"]);
  ("Iclass_xt_iclass_l16ui_args", [mkArg OPERAND_art "o"; mkArg OPERAND_ars "i"; mkArg OPERAND_uimm8x2 "i"]);
  ("Iclass_xt_iclass_l16si_args", [mkArg OPERAND_art "o"; mkArg OPERAND_ars "i"; mkArg OPERAND_uimm8x2 "i"]);
  ("Iclass_xt_iclass_l32i_args", [mkArg OPERAND_art "o"; mkArg OPERAND_ars "i"; mkArg OPERAND_uimm8x4 "i"]);
  ("Iclass_xt_iclass_l32r_args", [mkArg OPERAND_art "o"; mkArg OPERAND_uimm16x4 "i"]);
  ("Iclass_xt_iclass_l8i_args", [mkArg OPERAND_art "o"; mkArg OPERAND_ars "i"; mkArg OPERAND_uimm8 "i"]);
  ("Iclass_xt_iclass_loop_args", [mkArg OPERAND_ars "i"; mkArg OPERAND_ulabel8 "i"])].

Definition e32_args_7 : list (string * list xtensa_arg_internal) := [
  ("Iclass_xt_iclass_loop_stateArgs", [mkArg STATE_LBEG "o"; mkArg STATE_LEND "o"; mkArg STATE_LCOUNT "o"]);
  ("Iclass_xt_iclass_loopz_args", [mkArg OPERAND_ars "i"; mkArg OPERAND_ulabel8 "i"]);
  ("Iclass_xt_iclass_loopz_stateArgs", [mkArg STATE_LBEG "o"; mkArg STATE_LEND "o"; mkArg STATE_LCOUNT "o"]);
  ("Iclass_xt_iclass_movi_args", [mkArg OPERAND_art "o"; mkArg OPERAND_simm12b "i"]);
  ("Iclass_xt_iclass_movz_args", [mkArg OPERAND_arr "m"; mkArg OPERAND_ars "i"; mkArg OPERAND_art "i"]);
  ("Iclass_xt_iclass_neg_args", [mkArg OPERAND_arr "o"; mkArg OPERAND_art "i"]);
  ("Iclass_xt_iclass_return_args", [mkArg OPERAND__ars_invisible "i"]);
  ("Iclass_xt_iclass_s16i_args", [mkArg OPERAND_art "i"; mkArg OPERAND_ars "i"; mkArg OPERAND_uimm8x2 "i"]);
  ("Iclass_xt_iclass_s32i_args", [mkArg OPERAND_art "i"; mkArg OPERAND_ars "i"; mkArg OPERAND_uimm8x4 "i"]);
  ("Iclass_xt_iclass_s32nb_args", [mkArg OPERAND_art "i"; mkArg OPERAND_ars "i"; mkArg OPERAND_uimmrx4 "i"]);
  ("Iclass_xt_iclass_s8i_args", [mkArg OPERAND_art "i"; mkArg OPERAND_ars "i"; mkArg OPERAND_uimm8 "i"]);
  ("Iclass_xt_iclass_sar_args", [mkArg OPERAND_ars "i"]);
  ("Iclass_xt_iclass_sar_stateArgs", [mkArg STATE_SAR "o"]);
  ("Iclass_xt_iclass_sari_args", [mkArg OPERAND_sas "i"]);
  ("Iclass_xt_iclass_sari_stateArgs", [mkArg STATE_SAR "o"]);
  ("Iclass_xt_iclass_shifts_args", [mkArg OPERAND_arr "o"; mkArg OPERAND_ars "i"]);
  ("Iclass_xt_iclass_shifts_stateArgs", [mkArg STATE_SAR "i"]);
  ("Iclass_xt_iclass_shiftst_args", [mkArg OPERAND_arr "o"; mkArg OPERAND_ars "i"; mkArg OPERAND_art "i"]);
  ("Iclass_xt_iclass_shiftst_stateArgs", [mkArg STATE_SAR "i"]);
  ("Iclass_xt_iclass_shiftt_args", [mkArg OPERAND_arr "o"; mkArg OPERAND_art "i"]);
  ("Iclass_xt_iclass_shiftt_stateArgs", [mkArg STATE_SAR "i"]);
  ("Iclass_xt_iclass_slli_args", [mkArg OPERAND_arr "o"; mkArg OPERAND_ars "i"; mkArg OPERAND_msalp32 "i"]);
  ("Iclass_xt_iclass_srai_args", [mkArg OPERAND_arr "o"; mkArg OPERAND_art "i"; mkArg OPERAND_sargt "i"]);
  ("Iclass_xt_iclass_srli_args", [mkArg OPERAND_arr "o"; mkArg OPERAND_art "i"; mkArg OPERAND_s "i"]);
  ("Iclass_xt_iclass_sync_stateArgs", [mkArg STATE_XTSYNC "i"]);
  ("Iclass_xt_iclass_rsil_args", [mkArg OPERAND_art "o"; mkArg OPERAND_s "i"]);
  ("Iclass_xt_iclass_rsil_stateArgs", [mkArg STATE_PSWOE "i"; mkArg STATE_PSCALLINC "i";
     mkArg STATE_PSOWB "i"; mkArg STATE_PSUM "i"; mkArg STATE_PSEXCM "i"; mkArg STATE_PSINTLEVEL "m"]);
  ("Iclass_xt_iclass_rsr_lend_args", [mkArg OPERAND_art "o"]);
  ("Iclass_xt_iclass_rsr_lend_stateArgs", [mkArg STATE_LEND "i"])].

Definition e32_args_8 : list (string * list xtensa_arg_internal) := [
  ("Iclass_xt_iclass_wsr_lend_args", [mkArg OPERAND_art "i"]);
  ("Iclass_xt_iclass_wsr_lend_stateArgs", [mkArg STATE_LEND "o"]);
  ("Iclass_xt_iclass_xsr_lend_args", [mkArg OPERAND_art "m"]);
  ("Iclass_xt_iclass_xsr_lend_stateArgs", [mkArg STATE_LEND "m"]);
  ("Iclass_xt_iclass_rsr_lcount_args", [mkArg OPERAND_art "o"]);
  ("Iclass_xt_iclass_rsr_lcount_stateArgs", [mkArg STATE_LCOUNT "i"]);
  ("Iclass_xt_iclass_wsr_lcount_args", [mkArg OPERAND_art "i"]);
  ("Iclass_xt_iclass_wsr_lcount_stateArgs", [mkArg STATE_XTSYNC "o"; mkArg STATE_LCOUNT "o"]);
  ("Iclass_xt_iclass_xsr_lcount_args", [mkArg OPERAND_art "m"]);
  ("Iclass_xt_iclass_xsr_lcount_stateArgs", [mkArg STATE_XTSYNC "o"; mkArg STATE_LCOUNT "m"]);
  ("Iclass_xt_iclass_rsr_lbeg_args", [mkArg OPERAND_art "o"]);
  ("Iclass_xt_iclass_rsr_lbeg_stateArgs", [mkArg STATE_LBEG "i"]);
  ("Iclass_xt_iclass_wsr_lbeg_args", [mkArg OPERAND_art "i"]);
  ("Iclass_xt_iclass_wsr_lbeg_stateArgs", [mkArg STATE_LBEG "o"]);
  ("Iclass_xt_iclass_xsr_lbeg_args", [mkArg OPERAND_art "m"]);
  ("Iclass_xt_iclass_xsr_lbeg_stateArgs", [mkArg STATE_LBEG "m"]);
  ("Iclass_xt_iclass_rsr_sar_args", [mkArg OPERAND_art "o"]);
  ("Iclass_xt_iclass_rsr_sar_stateArgs", [mkArg STATE_SAR "i"]);
  ("Iclass_xt_iclass_wsr_sar_args", [mkArg OPERAND_art "i"]);
  ("Iclass_xt_iclass_wsr_sar_stateArgs", [mkArg STATE_SAR "o"; mkArg STATE_XTSYNC "o"]);
  ("Iclass_xt_iclass_xsr_sar_args", [mkArg OPERAND_art "m"]);
  ("Iclass_xt_iclass_xsr_sar_stateArgs", [mkArg STATE_SAR "m"]);
  ("Iclass_xt_iclass_rsr_memctl_args", [mkArg OPERAND_art "o"]);
  ("Iclass_xt_iclass_rsr_memctl_stateArgs", [mkArg STATE_MEMCTL "i"]);
  ("Iclass_xt_iclass_wsr_memctl_args", [mkArg OPERAND_art "i"]);
  ("Iclass_xt_iclass_wsr_memctl_stateArgs", [mkArg STATE_MEMCTL "o"]);
  ("Iclass_xt_iclass_xsr_memctl_args", [mkArg OPERAND_art "m"]);
  ("Iclass_xt_iclass_xsr_memctl_stateArgs", [mkArg STATE_MEMCTL "m"]);
  ("Iclass_xt_iclass_rsr_litbase_args", [mkArg OPERAND_art "o"]);
  ("Iclass_xt_iclass_wsr_litbase_args", [mkArg OPERAND_art "i"]);
  ("Iclass_xt_iclass_xsr_litbase_args", [mkArg OPERAND_art "m"]);
  ("Iclass_xt_iclass_rsr_configid0_args", [mkArg OPERAND_art "o"]);
  ("Iclass_xt_iclass_wsr_configid0_args", [mkArg OPERAND_art "i"]);
  ("Iclass_xt_iclass_rsr_configid1_args", [mkArg OPERAND_art "o"]);
  ("Iclass_xt_iclass_rsr_ps_args", [mkArg OPERAND_art "o"])].

Definition e32_args_9 : list (string * list xtensa_arg_internal) := [
  ("Iclass_xt_iclass_rsr_ps_stateArgs", [mkArg STATE_PSWOE "i"; mkArg STATE_PSCALLINC "i";
     mkArg STATE_PSOWB "i"; mkArg STATE_PSUM "i"; mkArg STATE_PSEXCM "i"; mkArg STATE_PSINTLEVEL "i"]);
  ("Iclass_xt_iclass_wsr_ps_args", [mkArg OPERAND_art "i"]);
  ("Iclass_xt_iclass_wsr_ps_stateArgs", [mkArg STATE_PSWOE "o"; mkArg STATE_PSCALLINC "o";
     mkArg STATE_PSOWB "o"; mkArg STATE_PSUM "o"; mkArg STATE_PSEXCM "o"; mkArg STATE_PSINTLEVEL "o"]);
  ("Iclass_xt_iclass_xsr_ps_args", [mkArg OPERAND_art "m"]);
  ("Iclass_xt_iclass_xsr_ps_stateArgs", [mkArg STATE_PSWOE "m"; mkArg STATE_PSCALLINC "m";
     mkArg STATE_PSOWB "m"; mkArg STATE_PSUM "m"; mkArg STATE_PSEXCM "m"; mkArg STATE_PSINTLEVEL "m"]);
  ("Iclass_xt_iclass_rsr_epc1_args", [mkArg OPERAND_art "o"]);
  ("Iclass_xt_iclass_rsr_epc1_stateArgs", [mkArg STATE_EPC1 "i"]);
  ("Iclass_xt_iclass_wsr_epc1_args", [mkArg OPERAND_art "i"]);
  ("Iclass_xt_iclass_wsr_epc1_stateArgs", [mkArg STATE_EPC1 "o"]);
  ("Iclass_xt_iclass_xsr_epc1_args", [mkArg OPERAND_art "m"]);
  ("Iclass_xt_iclass_xsr_epc1_stateArgs", [mkArg STATE_EPC1 "m"]);
  ("Iclass_xt_iclass_rsr_excsave1_args", [mkArg OPERAND_art "o"]);
  ("Iclass_xt_iclass_rsr_excsave1_stateArgs", [mkArg STATE_EXCSAVE1 "i"]);
  ("Iclass_xt_iclass_wsr_excsave1_args", [mkArg OPERAND_art "i"]);
  ("Iclass_xt_iclass_wsr_excsave1_stateArgs", [mkArg STATE_EXCSAVE1 "o"]);
  ("Iclass_xt_iclass_xsr_excsave1_args", [mkArg OPERAND_art "m"]);
  ("Iclass_xt_iclass_xsr_excsave1_stateArgs", [mkArg STATE_EXCSAVE1 "m"]);
  ("Iclass_xt_iclass_rsr_epc2_args", [mkArg OPERAND_art "o"]);
  ("Iclass_xt_iclass_rsr_epc2_stateArgs", [mkArg STATE_EPC2 "i"]);
  ("Iclass_xt_iclass_wsr_epc2_args", [mkArg OPERAND_art "i"]);
  ("Iclass_xt_iclass_wsr_epc2_stateArgs", [mkArg STATE_EPC2 "o"]);
  ("Iclass_xt_iclass_xsr_epc2_args", [mkArg OPERAND_art "m"]);
  ("Iclass_xt_iclass_xsr_epc2_stateArgs", [mkArg STATE_EPC2 "m"]);
  ("Iclass_xt_iclass_rsr_excsave2_args", [mkArg OPERAND_art "o"]);
  ("Iclass_xt_iclass_rsr_excsave2_stateArgs", [mkArg STATE_EXCSAVE2 "i"]);
  ("Iclass_xt_iclass_wsr_excsave2_args", [mkArg OPERAND_art "i"]);
  ("Iclass_xt_iclass_wsr_excsave2_stateArgs", [mkArg STATE_EXCSAVE2 "o"]);
  ("Iclass_xt_iclass_xsr_excsave2_args", [mkArg OPERAND_art "m"]);
  ("Iclass_xt_iclass_xsr_excsave2_stateArgs", [mkArg STATE_EXCSAVE2 "m"]);
  ("Iclass_xt_iclass_rsr_epc3_args", [mkArg OPERAND_art "o"]);
  ("Iclass_xt_iclass_rsr_epc3_stateArgs", [mkArg STATE_EPC3 "i"]);
  ("Iclass_xt_iclass_wsr_epc3_args", [mkArg OPERAND_art "i"]);
  ("Iclass_xt_iclass_wsr_epc3_stateArgs", [mkArg STATE_EPC3 "o"]);
  ("Iclass_xt_iclass_xsr_epc3_args", [mkArg OPERAND_art "m"])].

Definition e32_args_10 : list (string * list xtensa_arg_internal) := [
  ("Iclass_xt_iclass_xsr_epc3_stateArgs", [mkArg STATE_EPC3 "m"]);
  ("Iclass_xt_iclass_rsr_excsave3_args", [mkArg OPERAND_art "o"]);
  ("Iclass_xt_iclass_rsr_excsave3_stateArgs", [mkArg STATE_EXCSAVE3 "i"]);
  ("Iclass_xt_iclass_wsr_excsave3_args", [mkArg OPERAND_art "i"]);
  ("Iclass_xt_iclass_wsr_excsave3_stateArgs", [mkArg STATE_EXCSAVE3 "o"]);
  ("Iclass_xt_iclass_xsr_excsave3_args", [mkArg OPERAND_art "m"]);
  ("Iclass_xt_iclass_xsr_excsave3_stateArgs", [mkArg STATE_EXCSAVE3 "m"]);
  ("Iclass_xt_iclass_rsr_epc4_args", [mkArg OPERAND_art "o"]);
  ("Iclass_xt_iclass_rsr_epc4_stateArgs", [mkArg STATE_EPC4 "i"]);
  ("Iclass_xt_iclass_wsr_epc4_args", [mkArg OPERAND_art "i"]);
  ("Iclass_xt_iclass_wsr_epc4_stateArgs", [mkArg STATE_EPC4 "o"]);
  ("Iclass_xt_iclass_xsr_epc4_args", [mkArg OPERAND_art "m"]);
  ("Iclass_xt_iclass_xsr_epc4_stateArgs", [mkArg STATE_EPC4 "m"]);
  ("Iclass_xt_iclass_rsr_excsave4_args", [mkArg OPERAND_art "o"]);
  ("Iclass_xt_iclass_rsr_excsave4_stateArgs", [mkArg STATE_EXCSAVE4 "i"]);
  ("Iclass_xt_iclass_wsr_excsave4_args", [mkArg OPERAND_art "i"]);
  ("Iclass_xt_iclass_wsr_excsave4_stateArgs", [mkArg STATE_EXCSAVE4 "o"]);
  ("Iclass_xt_iclass_xsr_excsave4_args", [mkArg OPERAND_art "m"]);
  ("Iclass_xt_iclass_xsr_excsave4_stateArgs", [mkArg STATE_EXCSAVE4 "m"]);
  ("Iclass_xt_iclass_rsr_epc5_args", [mkArg OPERAND_art "o"]);
  ("Iclass_xt_iclass_rsr_epc5_stateArgs", [mkArg STATE_EPC5 "i"]);
  ("Iclass_xt_iclass_wsr_epc5_args", [mkArg OPERAND_art "i"]);
  ("Iclass_xt_iclass_wsr_epc5_stateArgs", [mkArg STATE_EPC5 "o"]);
  ("Iclass_xt_iclass_xsr_epc5_args", [mkArg OPERAND_art "m"]);
  ("Iclass_xt_iclass_xsr_epc5_stateArgs", [mkArg STATE_EPC5 "m"]);
  ("Iclass_xt_iclass_rsr_excsave5_args", [mkArg OPERAND_art "o"]);
  ("Iclass_xt_iclass_rsr_excsave5_stateArgs", [mkArg STATE_EXCSAVE5 "i"]);
  ("Iclass_xt_iclass_wsr_excsave5_args", [mkArg OPERAND_art "i"]);
  ("Iclass_xt_iclass_wsr_excsave5_stateArgs", [mkArg STATE_EXCSAVE5 "o"]);
  ("Iclass_xt_iclass_xsr_excsave5_args", [mkArg OPERAND_art "m"]);
  ("Iclass_xt_iclass_xsr_excsave5_stateArgs", [mkArg STATE_EXCSAVE5 "m"]);
  ("Iclass_xt_iclass_rsr_epc6_args", [mkArg OPERAND_art "o"]);
  ("Iclass_xt_iclass_rsr_epc6_stateArgs", [mkArg STATE_EPC6 "i"]);
  ("Iclass_xt_iclass_wsr_epc6_args", [mkArg OPERAND_art "i"]);
  ("Iclass_xt_iclass_wsr_epc6_stateArgs", [mkArg STATE_EPC6 "o"]);
  ("Iclass_xt_iclass_xsr_epc6_args", [mkArg OPERAND_art "m"]);
  ("Iclass_xt_iclass_xsr_epc6_stateArgs", [mkArg STATE_EPC6 "m"])].

Definition e32_args_11 : list (string * list xtensa_arg_internal) := [
  ("Iclass_xt_iclass_rsr_excsave6_args", [mkArg OPERAND_art "o"]);
  ("Iclass_xt_iclass_rsr_excsave6_stateArgs", [mkArg STATE_EXCSAVE6 "i"]);
  ("Iclass_xt_iclass_wsr_excsave6_args", [mkArg OPERAND_art "i"]);
  ("Iclass_xt_iclass_wsr_excsave6_stateArgs", [mkArg STATE_EXCSAVE6 "o"]);
  ("Iclass_xt_iclass_xsr_excsave6_args", [mkArg OPERAND_art "m"]);
  ("Iclass_xt_iclass_xsr_excsave6_stateArgs", [mkArg STATE_EXCSAVE6 "m"]);
  ("Iclass_xt_iclass_rsr_epc7_args", [mkArg OPERAND_art "o"]);
  ("Iclass_xt_iclass_rsr_epc7_stateArgs", [mkArg STATE_EPC7 "i"]);
  ("Iclass_xt_iclass_wsr_epc7_args", [mkArg OPERAND_art "i"]);
  ("Iclass_xt_iclass_wsr_epc7_stateArgs", [mkArg STATE_EPC7 "o"]);
  ("Iclass_xt_iclass_xsr_epc7_args", [mkArg OPERAND_art "m"]);
  ("Iclass_xt_iclass_xsr_epc7_stateArgs", [mkArg STATE_EPC7 "m"]);
  ("Iclass_xt_iclass_rsr_excsave7_args", [mkArg OPERAND_art "o"]);
  ("Iclass_xt_iclass_rsr_excsave7_stateArgs", [mkArg STATE_EXCSAVE7 "i"]);
  ("Iclass_xt_iclass_wsr_excsave7_args", [mkArg OPERAND_art "i"]);
  ("Iclass_xt_iclass_wsr_excsave7_stateArgs", [mkArg STATE_EXCSAVE7 "o"]);
  ("Iclass_xt_iclass_xsr_excsave7_args", [mkArg OPERAND_art "m"]);
  ("Iclass_xt_iclass_xsr_excsave7_stateArgs", [mkArg STATE_EXCSAVE7 "m"]);
  ("Iclass_xt_iclass_rsr_eps2_args", [mkArg OPERAND_art "o"]);
  ("Iclass_xt_iclass_rsr_eps2_stateArgs", [mkArg STATE_EPS2 "i"]);
  ("Iclass_xt_iclass_wsr_eps2_args", [mkArg OPERAND_art "i"]);
  ("Iclass_xt_iclass_wsr_eps2_stateArgs", [mkArg STATE_EPS2 "o"]);
  ("Iclass_xt_iclass_xsr_eps2_args", [mkArg OPERAND_art "m"]);
  ("Iclass_xt_iclass_xsr_eps2_stateArgs", [mkArg STATE_EPS2 "m"]);
  ("Iclass_xt_iclass_rsr_eps3_args", [mkArg OPERAND_art "o"]);
  ("Iclass_xt_iclass_rsr_eps3_stateArgs", [mkArg STATE_EPS3 "i"]);
  ("Iclass_xt_iclass_wsr_eps3_args", [mkArg OPERAND_art "i"]);
  ("Iclass_xt_iclass_wsr_eps3_stateArgs", [mkArg STATE_EPS3 "o"]);
  ("Iclass_xt_iclass_xsr_eps3_args", [mkArg OPERAND_art "m"]);
  ("Iclass_xt_iclass_xsr_eps3_stateArgs", [mkArg STATE_EPS3 "m"]);
  ("Iclass_xt_iclass_rsr_eps4_args", [mkArg OPERAND_art "o"]);
  ("Iclass_xt_iclass_rsr_eps4_stateArgs", [mkArg STATE_EPS4 "i"]);
  ("Iclass_xt_iclass_wsr_eps4_args", [mkArg OPERAND_art "i"]);
  ("Iclass_xt_iclass_wsr_eps4_stateArgs", [mkArg STATE_EPS4 "o"]);
  ("Iclass_xt_iclass_xsr_eps4_args", [mkArg OPERAND_art "m"]);
  ("Iclass_xt_iclass_xsr_eps4_stateArgs", [mkArg STATE_EPS4 "m"]);
  ("Iclass_xt_iclass_rsr_eps5_args", [mkArg OPERAND_art "o"])].

Definition e32_args_12 : list (string * list xtensa_arg_internal) := [
  ("Iclass_xt_iclass_rsr_eps5_stateArgs", [mkArg STATE_EPS5 "i"]);
  ("Iclass_xt_iclass_wsr_eps5_args", [mkArg OPERAND_art "i"]);
  ("Iclass_xt_iclass_wsr_eps5_stateArgs", [mkArg STATE_EPS5 "o"]);
  ("Iclass_xt_iclass_xsr_eps5_args", [mkArg OPERAND_art "m"]);
  ("Iclass_xt_iclass_xsr_eps5_stateArgs", [mkArg STATE_EPS5 "m"]);
  ("Iclass_xt_iclass_rsr_eps6_args", [mkArg OPERAND_art "o"]);
  ("Iclass_xt_iclass_rsr_eps6_stateArgs", [mkArg STATE_EPS6 "i"]);
  ("Iclass_xt_iclass_wsr_eps6_args", [mkArg OPERAND_art "i"]);
  ("Iclass_xt_iclass_wsr_eps6_stateArgs", [mkArg STATE_EPS6 "o"]);
  ("Iclass_xt_iclass_xsr_eps6_args", [mkArg OPERAND_art "m"]);
  ("Iclass_xt_iclass_xsr_eps6_stateArgs", [mkArg STATE_EPS6 "m"]);
  ("Iclass_xt_iclass_rsr_eps7_args", [mkArg OPERAND_art "o"]);
  ("Iclass_xt_iclass_rsr_eps7_stateArgs", [mkArg STATE_EPS7 "i"]);
  ("Iclass_xt_iclass_wsr_eps7_args", [mkArg OPERAND_art "i"]);
  ("Iclass_xt_iclass_wsr_eps7_stateArgs", [mkArg STATE_EPS7 "o"]);
  ("Iclass_xt_iclass_xsr_eps7_args", [mkArg OPERAND_art "m"]);
  ("Iclass_xt_iclass_xsr_eps7_stateArgs", [mkArg STATE_EPS7 "m"]);
  ("Iclass_xt_iclass_rsr_excvaddr_args", [mkArg OPERAND_art "o"]);
  ("Iclass_xt_iclass_rsr_excvaddr_stateArgs", [mkArg STATE_EXCVADDR "i"]);
  ("Iclass_xt_iclass_wsr_excvaddr_args", [mkArg OPERAND_art "i"]);
  ("Iclass_xt_iclass_wsr_excvaddr_stateArgs", [mkArg STATE_EXCVADDR "o"]);
  ("Iclass_xt_iclass_xsr_excvaddr_args", [mkArg OPERAND_art "m"]);
  ("Iclass_xt_iclass_xsr_excvaddr_stateArgs", [mkArg STATE_EXCVADDR "m"]);
  ("Iclass_xt_iclass_rsr_depc_args", [mkArg OPERAND_art "o"]);
  ("Iclass_xt_iclass_rsr_depc_stateArgs", [mkArg STATE_DEPC "i"]);
  ("Iclass_xt_iclass_wsr_depc_args", [mkArg OPERAND_art "i"]);
  ("Iclass_xt_iclass_wsr_depc_stateArgs", [mkArg STATE_DEPC "o"]);
  ("Iclass_xt_iclass_xsr_depc_args", [mkArg OPERAND_art "m"]);
  ("Iclass_xt_iclass_xsr_depc_stateArgs", [mkArg STATE_DEPC "m"]);
  ("Iclass_xt_iclass_rsr_exccause_args", [mkArg OPERAND_art "o"]);
  ("Iclass_xt_iclass_rsr_exccause_stateArgs", [mkArg STATE_EXCCAUSE "i"; mkArg STATE_XTSYNC "i"]);
  ("Iclass_xt_iclass_wsr_exccause_args", [mkArg OPERAND_art "i"]);
  ("Iclass_xt_iclass_wsr_exccause_stateArgs", [mkArg STATE_EXCCAUSE "o"]);
  ("Iclass_xt_iclass_xsr_exccause_args", [mkArg OPERAND_art "m"]);
  ("Iclass_xt_iclass_xsr_exccause_stateArgs", [mkArg STATE_EXCCAUSE "m"]);
  ("Iclass_xt_iclass_rsr_misc0_args", [mkArg OPERAND_art "o"]);
  ("Iclass_xt_iclass_rsr_misc0_stateArgs", [mkArg STATE_MISC0 "i"])].

Definition e32_args_13 : list (string * list xtensa_arg_internal) := [
  ("Iclass_xt_iclass_wsr_misc0_args", [mkArg OPERAND_art "i"]);
  ("Iclass_xt_iclass_wsr_misc0_stateArgs", [mkArg STATE_MISC0 "o"]);
  ("Iclass_xt_iclass_xsr_misc0_args", [mkArg OPERAND_art "m"]);
  ("Iclass_xt_iclass_xsr_misc0_stateArgs", [mkArg STATE_MISC0 "m"]);
  ("Iclass_xt_iclass_rsr_misc1_args", [mkArg OPERAND_art "o"]);
  ("Iclass_xt_iclass_rsr_misc1_stateArgs", [mkArg STATE_MISC1 "i"]);
  ("Iclass_xt_iclass_wsr_misc1_args", [mkArg OPERAND_art "i"]);
  ("Iclass_xt_iclass_wsr_misc1_stateArgs", [mkArg STATE_MISC1 "o"]);
  ("Iclass_xt_iclass_xsr_misc1_args", [mkArg OPERAND_art "m"]);
  ("Iclass_xt_iclass_xsr_misc1_stateArgs", [mkArg STATE_MISC1 "m"]);
  ("Iclass_xt_iclass_rsr_misc2_args", [mkArg OPERAND_art "o"]);
  ("Iclass_xt_iclass_rsr_misc2_stateArgs", [mkArg STATE_MISC2 "i"]);
  ("Iclass_xt_iclass_wsr_misc2_args", [mkArg OPERAND_art "i"]);
  ("Iclass_xt_iclass_wsr_misc2_stateArgs", [mkArg STATE_MISC2 "o"]);
  ("Iclass_xt_iclass_xsr_misc2_args", [mkArg OPERAND_art "m"]);
  ("Iclass_xt_iclass_xsr_misc2_stateArgs", [mkArg STATE_MISC2 "m"]);
  ("Iclass_xt_iclass_rsr_misc3_args", [mkArg OPERAND_art "o"]);
  ("Iclass_xt_iclass_rsr_misc3_stateArgs", [mkArg STATE_MISC3 "i"]);
  ("Iclass_xt_iclass_wsr_misc3_args", [mkArg OPERAND_art "i"]);
  ("Iclass_xt_iclass_wsr_misc3_stateArgs", [mkArg STATE_MISC3 "o"]);
  ("Iclass_xt_iclass_xsr_misc3_args", [mkArg OPERAND_art "m"]);
  ("Iclass_xt_iclass_xsr_misc3_stateArgs", [mkArg STATE_MISC3 "m"]);
  ("Iclass_xt_iclass_rsr_prid_args", [mkArg OPERAND_art "o"]);
  ("Iclass_xt_iclass_rsr_vecbase_args", [mkArg OPERAND_art "o"]);
  ("Iclass_xt_iclass_rsr_vecbase_stateArgs", [mkArg STATE_VECBASE "i"]);
  ("Iclass_xt_iclass_wsr_vecbase_args", [mkArg OPERAND_art "i"]);
  ("Iclass_xt_iclass_wsr_vecbase_stateArgs", [mkArg STATE_VECBASE "o"]);
  ("Iclass_xt_iclass_xsr_vecbase_args", [mkArg OPERAND_art "m"]);
  ("Iclass_xt_iclass_xsr_vecbase_stateArgs", [mkArg STATE_VECBASE "m"]);
  ("Iclass_xt_mul16_args", [mkArg OPERAND_arr "o"; mkArg OPERAND_ars "i"; mkArg OPERAND_art "i"]);
  ("Iclass_xt_mul32_args", [mkArg OPERAND_arr "o"; mkArg OPERAND_ars "i"; mkArg OPERAND_art "i"]);
  ("Iclass_xt_mul32h_args", [mkArg OPERAND_arr "o"; mkArg OPERAND_ars "i"; mkArg OPERAND_art "i"]);
  ("Iclass_xt_iclass_mac16_aa_args", [mkArg OPERAND_ars "i"; mkArg OPERAND_art "i"]);
  ("Iclass_xt_iclass_mac16_aa_stateArgs", [mkArg STATE_ACC "o"]);
  ("Iclass_xt_iclass_mac16_ad_args", [mkArg OPERAND_ars "i"; mkArg OPERAND_my "i"])].

Definition e32_args_14 : list (string * list xtensa_arg_internal) := [
  ("Iclass_xt_iclass_mac16_ad_stateArgs", [mkArg STATE_ACC "o"]);
  ("Iclass_xt_iclass_mac16_da_args", [mkArg OPERAND_mx "i"; mkArg OPERAND_art "i"]);
  ("Iclass_xt_iclass_mac16_da_stateArgs", [mkArg STATE_ACC "o"]);
  ("Iclass_xt_iclass_mac16_dd_args", [mkArg OPERAND_mx "i"; mkArg OPERAND_my "i"]);
  ("Iclass_xt_iclass_mac16_dd_stateArgs", [mkArg STATE_ACC "o"]);
  ("Iclass_xt_iclass_mac16a_aa_args", [mkArg OPERAND_ars "i"; mkArg OPERAND_art "i"]);
  ("Iclass_xt_iclass_mac16a_aa_stateArgs", [mkArg STATE_ACC "m"]);
  ("Iclass_xt_iclass_mac16a_ad_args", [mkArg OPERAND_ars "i"; mkArg OPERAND_my "i"]);
  ("Iclass_xt_iclass_mac16a_ad_stateArgs", [mkArg STATE_ACC "m"]);
  ("Iclass_xt_iclass_mac16a_da_args", [mkArg OPERAND_mx "i"; mkArg OPERAND_art "i"]);
  ("Iclass_xt_iclass_mac16a_da_stateArgs", [mkArg STATE_ACC "m"]);
  ("Iclass_xt_iclass_mac16a_dd_args", [mkArg OPERAND_mx "i"; mkArg OPERAND_my "i"]);
  ("Iclass_xt_iclass_mac16a_dd_stateArgs", [mkArg STATE_ACC "m"]);
  ("Iclass_xt_iclass_mac16al_da_args", [mkArg OPERAND_mw "o"; mkArg OPERAND_ars "m"; mkArg OPERAND_mx "i";
     mkArg OPERAND_art "i"]);
  ("Iclass_xt_iclass_mac16al_da_stateArgs", [mkArg STATE_ACC "m"]);
  ("Iclass_xt_iclass_mac16al_dd_args", [mkArg OPERAND_mw "o"; mkArg OPERAND_ars "m"; mkArg OPERAND_mx "i";
     mkArg OPERAND_my "i"]);
  ("Iclass_xt_iclass_mac16al_dd_stateArgs", [mkArg STATE_ACC "m"]);
  ("Iclass_xt_iclass_mac16_l_args", [mkArg OPERAND_mw "o"; mkArg OPERAND_ars "m"]);
  ("Iclass_xt_iclass_rsr_m0_args", [mkArg OPERAND_art "o"; mkArg OPERAND_mr0 "i"]);
  ("Iclass_xt_iclass_wsr_m0_args", [mkArg OPERAND_art "i"; mkArg OPERAND_mr0 "o"]);
  ("Iclass_xt_iclass_xsr_m0_args", [mkArg OPERAND_art "m"; mkArg OPERAND_mr0 "m"]);
  ("Iclass_xt_iclass_rsr_m1_args", [mkArg OPERAND_art "o"; mkArg OPERAND_mr1 "i"]);
  ("Iclass_xt_iclass_wsr_m1_args", [mkArg OPERAND_art "i"; mkArg OPERAND_mr1 "o"]);
  ("Iclass_xt_iclass_xsr_m1_args", [mkArg OPERAND_art "m"; mkArg OPERAND_mr1 "m"]);
  ("Iclass_xt_iclass_rsr_m2_args", [mkArg OPERAND_art "o"; mkArg OPERAND_mr2 "i"]);
  ("Iclass_xt_iclass_wsr_m2_args", [mkArg OPERAND_art "i"; mkArg OPERAND_mr2 "o"]);
  ("Iclass_xt_iclass_xsr_m2_args", [mkArg OPERAND_art "m"; mkArg OPERAND_mr2 "m"]);
  ("Iclass_xt_iclass_rsr_m3_args", [mkArg OPERAND_art "o"; mkArg OPERAND_mr3 "i"]);
  ("Iclass_xt_iclass_wsr_m3_args", [mkArg OPERAND_art "i"; mkArg OPERAND_mr3 "o"]);
  ("Iclass_xt_iclass_xsr_m3_args", [mkArg OPERAND_art "m"; mkArg OPERAND_mr3 "m"]);
  ("Iclass_xt_iclass_rsr_acclo_args", [mkArg OPERAND_art "o"])].

Definition e32_args_15 : list (string * list xtensa_arg_internal) := [
  ("Iclass_xt_iclass_rsr_acclo_stateArgs", [mkArg STATE_ACC "i"]);
  ("Iclass_xt_iclass_wsr_acclo_args", [mkArg OPERAND_art "i"]);
  ("Iclass_xt_iclass_wsr_acclo_stateArgs", [mkArg STATE_ACC "m"]);
  ("Iclass_xt_iclass_xsr_acclo_args", [mkArg OPERAND_art "m"]);
  ("Iclass_xt_iclass_xsr_acclo_stateArgs", [mkArg STATE_ACC "m"]);
  ("Iclass_xt_iclass_rsr_acchi_args", [mkArg OPERAND_art "o"]);
  ("Iclass_xt_iclass_rsr_acchi_stateArgs", [mkArg STATE_ACC "i"]);
  ("Iclass_xt_iclass_wsr_acchi_args", [mkArg OPERAND_art "i"]);
  ("Iclass_xt_iclass_wsr_acchi_stateArgs", [mkArg STATE_ACC "m"]);
  ("Iclass_xt_iclass_xsr_acchi_args", [mkArg OPERAND_art "m"]);
  ("Iclass_xt_iclass_xsr_acchi_stateArgs", [mkArg STATE_ACC "m"]);
  ("Iclass_xt_iclass_rfi_args", [mkArg OPERAND_s "i"]);
  ("Iclass_xt_iclass_rfi_stateArgs", [mkArg STATE_PSWOE "o"; mkArg STATE_PSCALLINC "o";
     mkArg STATE_PSOWB "o"; mkArg STATE_PSUM "o"; mkArg STATE_PSEXCM "o"; mkArg STATE_PSINTLEVEL "o";
     mkArg STATE_EPC1 "i"; mkArg STATE_EPC2 "i"; mkArg STATE_EPC3 "i"; mkArg STATE_EPC4 "i";
     mkArg STATE_EPC5 "i"; mkArg STATE_EPC6 "i"; mkArg STATE_EPC7 "i"; mkArg STATE_EPS2 "i";
     mkArg STATE_EPS3 "i"; mkArg STATE_EPS4 "i"; mkArg STATE_EPS5 "i"; mkArg STATE_EPS6 "i";
     mkArg STATE_EPS7 "i"; mkArg STATE_InOCDMode "m"]);
  ("Iclass_xt_iclass_wait_args", [mkArg OPERAND_s "i"]);
  ("Iclass_xt_iclass_wait_stateArgs", [mkArg STATE_PSINTLEVEL "o"]);
  ("Iclass_xt_iclass_rsr_interrupt_args", [mkArg OPERAND_art "o"]);
  ("Iclass_xt_iclass_rsr_interrupt_stateArgs", [mkArg STATE_INTERRUPT "i"]);
  ("Iclass_xt_iclass_wsr_intset_args", [mkArg OPERAND_art "i"]);
  ("Iclass_xt_iclass_wsr_intset_stateArgs", [mkArg STATE_XTSYNC "o"; mkArg STATE_INTERRUPT "m"]);
  ("Iclass_xt_iclass_wsr_intclear_args", [mkArg OPERAND_art "i"]);
  ("Iclass_xt_iclass_wsr_intclear_stateArgs", [mkArg STATE_XTSYNC "o"; mkArg STATE_INTERRUPT "m"]);
  ("Iclass_xt_iclass_rsr_intenable_args", [mkArg OPERAND_art "o"]);
  ("Iclass_xt_iclass_rsr_intenable_stateArgs", [mkArg STATE_INTENABLE "i"]);
  ("Iclass_xt_iclass_wsr_intenable_args", [mkArg OPERAND_art "i"]);
  ("Iclass_xt_iclass_wsr_intenable_stateArgs", [mkArg STATE_INTENABLE "o"]);
  ("Iclass_xt_iclass_xsr_intenable_args", [mkArg OPERAND_art "m"]);
  ("Iclass_xt_iclass_xsr_intenable_stateArgs", [mkArg STATE_INTENABLE "m"]);
  ("Iclass_xt_iclass_break_args", [mkArg OPERAND_imms "i"; mkArg OPERAND_immt "i"]);
  ("Iclass_xt_iclass_break_stateArgs", [mkArg STATE_PSEXCM "i"; mkArg STATE_PSINTLEVEL "i"]);
  ("Iclass_xt_iclass_break_n_args", [mkArg OPERAND_imms "i"]);
  ("Iclass_xt_iclass_break_n_stateArgs", [mkArg STATE_PSEXCM "i"; mkArg STATE_PSINTLEVEL "i"])].

Definition e32_args_16 : list (string * list xtensa_arg_internal) := [
  ("Iclass_xt_iclass_rsr_dbreaka0_args", [mkArg OPERAND_art "o"]);
  ("Iclass_xt_iclass_rsr_dbreaka0_stateArgs", [mkArg STATE_DBREAKA0 "i"]);
  ("Iclass_xt_iclass_wsr_dbreaka0_args", [mkArg OPERAND_art "i"]);
  ("Iclass_xt_iclass_wsr_dbreaka0_stateArgs", [mkArg STATE_DBREAKA0 "o"; mkArg STATE_XTSYNC "o"]);
  ("Iclass_xt_iclass_xsr_dbreaka0_args", [mkArg OPERAND_art "m"]);
  ("Iclass_xt_iclass_xsr_dbreaka0_stateArgs", [mkArg STATE_DBREAKA0 "m"; mkArg STATE_XTSYNC "o"]);
  ("Iclass_xt_iclass_rsr_dbreakc0_args", [mkArg OPERAND_art "o"]);
  ("Iclass_xt_iclass_rsr_dbreakc0_stateArgs", [mkArg STATE_DBREAKC0 "i"]);
  ("Iclass_xt_iclass_wsr_dbreakc0_args", [mkArg OPERAND_art "i"]);
  ("Iclass_xt_iclass_wsr_dbreakc0_stateArgs", [mkArg STATE_DBREAKC0 "o"; mkArg STATE_XTSYNC "o"]);
  ("Iclass_xt_iclass_xsr_dbreakc0_args", [mkArg OPERAND_art "m"]);
  ("Iclass_xt_iclass_xsr_dbreakc0_stateArgs", [mkArg STATE_DBREAKC0 "m"; mkArg STATE_XTSYNC "o"]);
  ("Iclass_xt_iclass_rsr_dbreaka1_args", [mkArg OPERAND_art "o"]);
  ("Iclass_xt_iclass_rsr_dbreaka1_stateArgs", [mkArg STATE_DBREAKA1 "i"]);
  ("Iclass_xt_iclass_wsr_dbreaka1_args", [mkArg OPERAND_art "i"]);
  ("Iclass_xt_iclass_wsr_dbreaka1_stateArgs", [mkArg STATE_DBREAKA1 "o"; mkArg STATE_XTSYNC "o"]);
  ("Iclass_xt_iclass_xsr_dbreaka1_args", [mkArg OPERAND_art "m"]);
  ("Iclass_xt_iclass_xsr_dbreaka1_stateArgs", [mkArg STATE_DBREAKA1 "m"; mkArg STATE_XTSYNC "o"]);
  ("Iclass_xt_iclass_rsr_dbreakc1_args", [mkArg OPERAND_art "o"]);
  ("Iclass_xt_iclass_rsr_dbreakc1_stateArgs", [mkArg STATE_DBREAKC1 "i"]);
  ("Iclass_xt_iclass_wsr_dbreakc1_args", [mkArg OPERAND_art "i"]);
  ("Iclass_xt_iclass_wsr_dbreakc1_stateArgs", [mkArg STATE_DBREAKC1 "o"; mkArg STATE_XTSYNC "o"]);
  ("Iclass_xt_iclass_xsr_dbreakc1_args", [mkArg OPERAND_art "m"]);
  ("Iclass_xt_iclass_xsr_dbreakc1_stateArgs", [mkArg STATE_DBREAKC1 "m"; mkArg STATE_XTSYNC "o"]);
  ("Iclass_xt_iclass_rsr_ibreaka0_args", [mkArg OPERAND_art "o"]);
  ("Iclass_xt_iclass_rsr_ibreaka0_stateArgs", [mkArg STATE_IBREAKA0 "i"]);
  ("Iclass_xt_iclass_wsr_ibreaka0_args", [mkArg OPERAND_art "i"]);
  ("Iclass_xt_iclass_wsr_ibreaka0_stateArgs", [mkArg STATE_IBREAKA0 "o"]);
  ("Iclass_xt_iclass_xsr_ibreaka0_args", [mkArg OPERAND_art "m"]);
  ("Iclass_xt_iclass_xsr_ibreaka0_stateArgs", [mkArg STATE_IBREAKA0 "m"]);
  ("Iclass_xt_iclass_rsr_ibreaka1_args", [mkArg OPERAND_art "o"]);
  ("Iclass_xt_iclass_rsr_ibreaka1_stateArgs", [mkArg STATE_IBREAKA1 "i"]);
  ("Iclass_xt_iclass_wsr_ibreaka1_args", [mkArg OPERAND_art "i"]);
  ("Iclass_xt_iclass_wsr_ibreaka1_stateArgs", [mkArg STATE_IBREAKA1 "o"]);
  ("Iclass_xt_iclass_xsr_ibreaka1_args", [mkArg OPERAND_art "m"])].

Definition e32_args_17 : list (string * list xtensa_arg_internal) := [
  ("Iclass_xt_iclass_xsr_ibreaka1_stateArgs", [mkArg STATE_IBREAKA1 "m"]);
  ("Iclass_xt_iclass_rsr_ibreakenable_args", [mkArg OPERAND_art "o"]);
  ("Iclass_xt_iclass_rsr_ibreakenable_stateArgs", [mkArg STATE_IBREAKENABLE "i"]);
  ("Iclass_xt_iclass_wsr_ibreakenable_args", [mkArg OPERAND_art "i"]);
  ("Iclass_xt_iclass_wsr_ibreakenable_stateArgs", [mkArg STATE_IBREAKENABLE "o"]);
  ("Iclass_xt_iclass_xsr_ibreakenable_args", [mkArg OPERAND_art "m"]);
  ("Iclass_xt_iclass_xsr_ibreakenable_stateArgs", [mkArg STATE_IBREAKENABLE "m"]);
  ("Iclass_xt_iclass_rsr_debugcause_args", [mkArg OPERAND_art "o"]);
  ("Iclass_xt_iclass_rsr_debugcause_stateArgs", [mkArg STATE_DEBUGCAUSE "i"; mkArg STATE_DBNUM "i"]);
  ("Iclass_xt_iclass_wsr_debugcause_args", [mkArg OPERAND_art "i"]);
  ("Iclass_xt_iclass_wsr_debugcause_stateArgs", [mkArg STATE_DEBUGCAUSE "o"; mkArg STATE_DBNUM "o"]);
  ("Iclass_xt_iclass_xsr_debugcause_args", [mkArg OPERAND_art "m"]);
  ("Iclass_xt_iclass_xsr_debugcause_stateArgs", [mkArg STATE_DEBUGCAUSE "m"; mkArg STATE_DBNUM "m"]);
  ("Iclass_xt_iclass_rsr_icount_args", [mkArg OPERAND_art "o"]);
  ("Iclass_xt_iclass_rsr_icount_stateArgs", [mkArg STATE_ICOUNT "i"]);
  ("Iclass_xt_iclass_wsr_icount_args", [mkArg OPERAND_art "i"]);
  ("Iclass_xt_iclass_wsr_icount_stateArgs", [mkArg STATE_XTSYNC "o"; mkArg STATE_ICOUNT "o"]);
  ("Iclass_xt_iclass_xsr_icount_args", [mkArg OPERAND_art "m"]);
  ("Iclass_xt_iclass_xsr_icount_stateArgs", [mkArg STATE_XTSYNC "o"; mkArg STATE_ICOUNT "m"]);
  ("Iclass_xt_iclass_rsr_icountlevel_args", [mkArg OPERAND_art "o"]);
  ("Iclass_xt_iclass_rsr_icountlevel_stateArgs", [mkArg STATE_ICOUNTLEVEL "i"]);
  ("Iclass_xt_iclass_wsr_icountlevel_args", [mkArg OPERAND_art "i"]);
  ("Iclass_xt_iclass_wsr_icountlevel_stateArgs", [mkArg STATE_ICOUNTLEVEL "o"]);
  ("Iclass_xt_iclass_xsr_icountlevel_args", [mkArg OPERAND_art "m"]);
  ("Iclass_xt_iclass_xsr_icountlevel_stateArgs", [mkArg STATE_ICOUNTLEVEL "m"]);
  ("Iclass_xt_iclass_rsr_ddr_args", [mkArg OPERAND_art "o"]);
  ("Iclass_xt_iclass_rsr_ddr_stateArgs", [mkArg STATE_DDR "i"]);
  ("Iclass_xt_iclass_wsr_ddr_args", [mkArg OPERAND_art "i"]);
  ("Iclass_xt_iclass_wsr_ddr_stateArgs", [mkArg STATE_XTSYNC "o"; mkArg STATE_DDR "o"]);
  ("Iclass_xt_iclass_xsr_ddr_args", [mkArg OPERAND_art "m"]);
  ("Iclass_xt_iclass_xsr_ddr_stateArgs", [mkArg STATE_XTSYNC "o"; mkArg STATE_DDR "m"]);
  ("Iclass_xt_iclass_lddr32_p_args", [mkArg OPERAND_ars "m"]);
  ("Iclass_xt_iclass_lddr32_p_stateArgs", [mkArg STATE_XTSYNC "o"; mkArg STATE_InOCDMode "i";
     mkArg STATE_DDR "o"]);
  ("Iclass_xt_iclass_sddr32_p_args", [mkArg OPERAND_ars "m"]);
  ("Iclass_xt_iclass_sddr32_p_stateArgs", [mkArg STATE_InOCDMode "i"; mkArg STATE_DDR "i"])].

Definition e32_args_18 : list (string * list xtensa_arg_internal) := [
  ("Iclass_xt_iclass_rfdo_args", [mkArg OPERAND_imms "i"]);
  ("Iclass_xt_iclass_rfdo_stateArgs", [mkArg STATE_InOCDMode "m"; mkArg STATE_EPC6 "i";
     mkArg STATE_PSWOE "o"; mkArg STATE_PSCALLINC "o"; mkArg STATE_PSOWB "o"; mkArg STATE_PSUM "o";
     mkArg STATE_PSEXCM "o"; mkArg STATE_PSINTLEVEL "o"; mkArg STATE_EPS6 "i"]);
  ("Iclass_xt_iclass_rfdd_stateArgs", [mkArg STATE_InOCDMode "m"]);
  ("Iclass_xt_iclass_wsr_mmid_args", [mkArg OPERAND_art "i"]);
  ("Iclass_xt_iclass_wsr_mmid_stateArgs", [mkArg STATE_XTSYNC "o"]);
  ("Iclass_xt_iclass_bbool1_args", [mkArg OPERAND_br "o"; mkArg OPERAND_bs "i"; mkArg OPERAND_bt "i"]);
  ("Iclass_xt_iclass_bbool4_args", [mkArg OPERAND_bt "o"; mkArg OPERAND_bs4 "i"]);
  ("Iclass_xt_iclass_bbool8_args", [mkArg OPERAND_bt "o"; mkArg OPERAND_bs8 "i"]);
  ("Iclass_xt_iclass_bbranch_args", [mkArg OPERAND_bs "i"; mkArg OPERAND_label8 "i"]);
  ("Iclass_xt_iclass_bmove_args", [mkArg OPERAND_arr "m"; mkArg OPERAND_ars "i"; mkArg OPERAND_bt "i"]);
  ("Iclass_xt_iclass_RSR_BR_args", [mkArg OPERAND_art "o"; mkArg OPERAND_brall "i"]);
  ("Iclass_xt_iclass_WSR_BR_args", [mkArg OPERAND_art "i"; mkArg OPERAND_brall "o"]);
  ("Iclass_xt_iclass_XSR_BR_args", [mkArg OPERAND_art "m"; mkArg OPERAND_brall "m"]);
  ("Iclass_xt_iclass_rsr_ccount_args", [mkArg OPERAND_art "o"]);
  ("Iclass_xt_iclass_rsr_ccount_stateArgs", [mkArg STATE_CCOUNT "i"]);
  ("Iclass_xt_iclass_wsr_ccount_args", [mkArg OPERAND_art "i"]);
  ("Iclass_xt_iclass_wsr_ccount_stateArgs", [mkArg STATE_XTSYNC "o"; mkArg STATE_CCOUNT "o"]);
  ("Iclass_xt_iclass_xsr_ccount_args", [mkArg OPERAND_art "m"]);
  ("Iclass_xt_iclass_xsr_ccount_stateArgs", [mkArg STATE_XTSYNC "o"; mkArg STATE_CCOUNT "m"]);
  ("Iclass_xt_iclass_rsr_ccompare0_args", [mkArg OPERAND_art "o"]);
  ("Iclass_xt_iclass_rsr_ccompare0_stateArgs", [mkArg STATE_CCOMPARE0 "i"]);
  ("Iclass_xt_iclass_wsr_ccompare0_args", [mkArg OPERAND_art "i"]);
  ("Iclass_xt_iclass_wsr_ccompare0_stateArgs", [mkArg STATE_CCOMPARE0 "o"; mkArg STATE_INTERRUPT "m"]);
  ("Iclass_xt_iclass_xsr_ccompare0_args", [mkArg OPERAND_art "m"]);
  ("Iclass_xt_iclass_xsr_ccompare0_stateArgs", [mkArg STATE_CCOMPARE0 "m"; mkArg STATE_INTERRUPT "m"]);
  ("Iclass_xt_iclass_rsr_ccompare1_args", [mkArg OPERAND_art "o"]);
  ("Iclass_xt_iclass_rsr_ccompare1_stateArgs", [mkArg STATE_CCOMPARE1 "i"]);
  ("Iclass_xt_iclass_wsr_ccompare1_args", [mkArg OPERAND_art "i"]);
  ("Iclass_xt_iclass_wsr_ccompare1_stateArgs", [mkArg STATE_CCOMPARE1 "o"; mkArg STATE_INTERRUPT "m"]);
  ("Iclass_xt_iclass_xsr_ccompare1_args", [mkArg OPERAND_art "m"]);
  ("Iclass_xt_iclass_xsr_ccompare1_stateArgs", [mkArg STATE_CCOMPARE1 "m"; mkArg STATE_INTERRUPT "m"])].

Definition e32_args_19 : list (string * list xtensa_arg_internal) := [
  ("Iclass_xt_iclass_rsr_ccompare2_args", [mkArg OPERAND_art "o"]);
  ("Iclass_xt_iclass_rsr_ccompare2_stateArgs", [mkArg STATE_CCOMPARE2 "i"]);
  ("Iclass_xt_iclass_wsr_ccompare2_args", [mkArg OPERAND_art "i"]);
  ("Iclass_xt_iclass_wsr_ccompare2_stateArgs", [mkArg STATE_CCOMPARE2 "o"; mkArg STATE_INTERRUPT "m"]);
  ("Iclass_xt_iclass_xsr_ccompare2_args", [mkArg OPERAND_art "m"]);
  ("Iclass_xt_iclass_xsr_ccompare2_stateArgs", [mkArg STATE_CCOMPARE2 "m"; mkArg STATE_INTERRUPT "m"]);
  ("Iclass_xt_iclass_idtlb_args", [mkArg OPERAND_ars "i"]);
  ("Iclass_xt_iclass_idtlb_stateArgs", [mkArg STATE_XTSYNC "o"]);
  ("Iclass_xt_iclass_rdtlb_args", [mkArg OPERAND_art "o"; mkArg OPERAND_ars "i"]);
  ("Iclass_xt_iclass_wdtlb_args", [mkArg OPERAND_art "i"; mkArg OPERAND_ars "i"]);
  ("Iclass_xt_iclass_wdtlb_stateArgs", [mkArg STATE_XTSYNC "o"]);
  ("Iclass_xt_iclass_iitlb_args", [mkArg OPERAND_ars "i"]);
  ("Iclass_xt_iclass_ritlb_args", [mkArg OPERAND_art "o"; mkArg OPERAND_ars "i"]);
  ("Iclass_xt_iclass_witlb_args", [mkArg OPERAND_art "i"; mkArg OPERAND_ars "i"]);
  ("Iclass_xt_iclass_rsr_cpenable_args", [mkArg OPERAND_art "o"]);
  ("Iclass_xt_iclass_rsr_cpenable_stateArgs", [mkArg STATE_CPENABLE "i"]);
  ("Iclass_xt_iclass_wsr_cpenable_args", [mkArg OPERAND_art "i"]);
  ("Iclass_xt_iclass_wsr_cpenable_stateArgs", [mkArg STATE_CPENABLE "o"]);
  ("Iclass_xt_iclass_xsr_cpenable_args", [mkArg OPERAND_art "m"]);
  ("Iclass_xt_iclass_xsr_cpenable_stateArgs", [mkArg STATE_CPENABLE "m"]);
  ("Iclass_xt_iclass_clamp_args", [mkArg OPERAND_arr "o"; mkArg OPERAND_ars "i"; mkArg OPERAND_tp7 "i"]);
  ("Iclass_xt_iclass_minmax_args", [mkArg OPERAND_arr "o"; mkArg OPERAND_ars "i"; mkArg OPERAND_art "i"]);
  ("Iclass_xt_iclass_nsa_args", [mkArg OPERAND_art "o"; mkArg OPERAND_ars "i"]);
  ("Iclass_xt_iclass_sx_args", [mkArg OPERAND_arr "o"; mkArg OPERAND_ars "i"; mkArg OPERAND_tp7 "i"]);
  ("Iclass_xt_iclass_l32ai_args", [mkArg OPERAND_art "o"; mkArg OPERAND_ars "i"; mkArg OPERAND_uimm8x4 "i"]);
  ("Iclass_xt_iclass_s32ri_args", [mkArg OPERAND_art "i"; mkArg OPERAND_ars "i"; mkArg OPERAND_uimm8x4 "i"]);
  ("Iclass_xt_iclass_s32c1i_args", [mkArg OPERAND_art "m"; mkArg OPERAND_ars "i"; mkArg OPERAND_uimm8x4 "i"]);
  ("Iclass_xt_iclass_s32c1i_stateArgs", [mkArg STATE_SCOMPARE1 "i"; mkArg STATE_XTSYNC "i";
     mkArg STATE_SCOMPARE1 "i"]);
  ("Iclass_xt_iclass_rsr_scompare1_args", [mkArg OPERAND_art "o"]);
  ("Iclass_xt_iclass_rsr_scompare1_stateArgs", [mkArg STATE_SCOMPARE1 "i"]);
  ("Iclass_xt_iclass_wsr_scompare1_args", [mkArg OPERAND_art "i"]);
  ("Iclass_xt_iclass_wsr_scompare1_stateArgs", [mkArg STATE_SCOMPARE1 "o"])].

Definition e32_args_20 : list (string * list xtensa_arg_internal) := [
  ("Iclass_xt_iclass_xsr_scompare1_args", [mkArg OPERAND_art "m"]);
  ("Iclass_xt_iclass_xsr_scompare1_stateArgs", [mkArg STATE_SCOMPARE1 "m"]);
  ("Iclass_xt_iclass_rsr_atomctl_args", [mkArg OPERAND_art "o"]);
  ("Iclass_xt_iclass_rsr_atomctl_stateArgs", [mkArg STATE_ATOMCTL "i"]);
  ("Iclass_xt_iclass_wsr_atomctl_args", [mkArg OPERAND_art "i"]);
  ("Iclass_xt_iclass_wsr_atomctl_stateArgs", [mkArg STATE_ATOMCTL "o"; mkArg STATE_XTSYNC "o"]);
  ("Iclass_xt_iclass_xsr_atomctl_args", [mkArg OPERAND_art "m"]);
  ("Iclass_xt_iclass_xsr_atomctl_stateArgs", [mkArg STATE_ATOMCTL "m"; mkArg STATE_XTSYNC "o"]);
  ("Iclass_xt_iclass_div_args", [mkArg OPERAND_arr "o"; mkArg OPERAND_ars "i"; mkArg OPERAND_art "i"]);
  ("Iclass_xt_iclass_rer_args", [mkArg OPERAND_art "o"; mkArg OPERAND_ars "i"]);
  ("Iclass_xt_iclass_rer_stateArgs", [mkArg STATE_ERI_RAW_INTERLOCK "i"]);
  ("Iclass_xt_iclass_wer_args", [mkArg OPERAND_art "i"; mkArg OPERAND_ars "i"]);
  ("Iclass_xt_iclass_wer_stateArgs", [mkArg STATE_ERI_RAW_INTERLOCK "o"]);
  ("Iclass_iclass_F64ITER_args", [mkArg OPERAND_arr "m"; mkArg OPERAND_ars "i"; mkArg OPERAND_art "i";
     mkArg OPERAND_dfp_fld_op2_1_0 "i"; mkArg OPERAND_dfp_fld_op2_2 "i"]);
  ("Iclass_iclass_F64ITER_stateArgs", [mkArg STATE_F64R "m"; mkArg STATE_F64S "m"]);
  ("Iclass_iclass_F64RND_args", [mkArg OPERAND_arr "o"; mkArg OPERAND_ars "i"; mkArg OPERAND_art "i";
     mkArg OPERAND_dfp_fld_op2_1_0 "i"]);
  ("Iclass_iclass_F64RND_stateArgs", [mkArg STATE_F64R "m"; mkArg STATE_F64S "i"]);
  ("Iclass_iclass_F64ADDC_F64SUBC_args", [mkArg OPERAND_art "m"; mkArg OPERAND_ars "i";
     mkArg OPERAND_dfp_fld_r_2_1 "i"; mkArg OPERAND_dfp_fld_r_0 "i"]);
  ("Iclass_iclass_F64ADDC_F64SUBC_stateArgs", [mkArg STATE_F64S "m"]);
  ("Iclass_iclass_F64SIG_args", [mkArg OPERAND_art "o"; mkArg OPERAND_ars "i"]);
  ("Iclass_iclass_F64CMPL_args", [mkArg OPERAND_arr "o"; mkArg OPERAND_ars "i"; mkArg OPERAND_art "i"]);
  ("Iclass_iclass_F64CMPL_stateArgs", [mkArg STATE_F64S "o"]);
  ("Iclass_iclass_F64CMPH_args", [mkArg OPERAND_arr "o"; mkArg OPERAND_ars "i"; mkArg OPERAND_art "i";
     mkArg OPERAND_dfp_fld_op2 "i"]);
  ("Iclass_iclass_F64CMPH_stateArgs", [mkArg STATE_SAR "o"; mkArg STATE_F64R "o"; mkArg STATE_F64S "m"]);
  ("Iclass_iclass_F64NORM_args", [mkArg OPERAND_arr "o"; mkArg OPERAND_ars "i"; mkArg OPERAND_art "i";
     mkArg OPERAND_dfp_fld_op2_0 "i"]);
  ("Iclass_iclass_F64NORM_stateArgs", [mkArg STATE_SAR "o"; mkArg STATE_F64S "m"]);
  ("Iclass_iclass_F64SEXP_args", [mkArg OPERAND_arr "o"; mkArg OPERAND_ars "i"; mkArg OPERAND_art "i"])].

Definition e32_args_21 : list (string * list xtensa_arg_internal) := [
  ("Iclass_iclass_RF64R_args", [mkArg OPERAND_art "o"; mkArg OPERAND_dfp_fld_s_0 "i"]);
  ("Iclass_iclass_RF64R_stateArgs", [mkArg STATE_F64R "i"]);
  ("Iclass_iclass_WF64R_args", [mkArg OPERAND_ars "i"; mkArg OPERAND_art "i"; mkArg OPERAND_dfp_fld_r_0 "i"]);
  ("Iclass_iclass_WF64R_stateArgs", [mkArg STATE_F64R "o"]);
  ("Iclass_rur_f64r_lo_args", [mkArg OPERAND_arr "o"]);
  ("Iclass_rur_f64r_lo_stateArgs", [mkArg STATE_F64R "i"]);
  ("Iclass_wur_f64r_lo_args", [mkArg OPERAND_art "i"]);
  ("Iclass_wur_f64r_lo_stateArgs", [mkArg STATE_F64R "m"]);
  ("Iclass_rur_f64r_hi_args", [mkArg OPERAND_arr "o"]);
  ("Iclass_rur_f64r_hi_stateArgs", [mkArg STATE_F64R "i"]);
  ("Iclass_wur_f64r_hi_args", [mkArg OPERAND_art "i"]);
  ("Iclass_wur_f64r_hi_stateArgs", [mkArg STATE_F64R "m"]);
  ("Iclass_rur_f64s_args", [mkArg OPERAND_arr "o"]);
  ("Iclass_rur_f64s_stateArgs", [mkArg STATE_F64S "i"]);
  ("Iclass_wur_f64s_args", [mkArg OPERAND_art "i"]);
  ("Iclass_wur_f64s_stateArgs", [mkArg STATE_F64S "o"]);
  ("Iclass_rur_fcr_args", [mkArg OPERAND_arr "o"]);
  ("Iclass_rur_fcr_stateArgs", [mkArg STATE_RoundMode "i"; mkArg STATE_InvalidEnable "i";
     mkArg STATE_DivZeroEnable "i"; mkArg STATE_OverflowEnable "i"; mkArg STATE_UnderflowEnable "i";
     mkArg STATE_InexactEnable "i"; mkArg STATE_FPreserved20 "i"; mkArg STATE_FPreserved5 "i";
     mkArg STATE_CPENABLE "i"]);
  ("Iclass_wur_fcr_args", [mkArg OPERAND_art "i"]);
  ("Iclass_wur_fcr_stateArgs", [mkArg STATE_RoundMode "o"; mkArg STATE_InvalidEnable "o";
     mkArg STATE_DivZeroEnable "o"; mkArg STATE_OverflowEnable "o"; mkArg STATE_UnderflowEnable "o";
     mkArg STATE_InexactEnable "o"; mkArg STATE_FPreserved20 "o"; mkArg STATE_FPreserved5 "o";
     mkArg STATE_CPENABLE "i"]);
  ("Iclass_rur_fsr_args", [mkArg OPERAND_arr "o"]);
  ("Iclass_rur_fsr_stateArgs", [mkArg STATE_InvalidFlag "i"; mkArg STATE_DivZeroFlag "i";
     mkArg STATE_OverflowFlag "i"; mkArg STATE_UnderflowFlag "i"; mkArg STATE_InexactFlag "i";
     mkArg STATE_FPreserved20a "i"; mkArg STATE_FPreserved7 "i"; mkArg STATE_CPENABLE "i"]);
  ("Iclass_wur_fsr_args", [mkArg OPERAND_art "i"]);
  ("Iclass_wur_fsr_stateArgs", [mkArg STATE_InvalidFlag "o"; mkArg STATE_DivZeroFlag "o";
     mkArg STATE_OverflowFlag "o"; mkArg STATE_UnderflowFlag "o"; mkArg STATE_InexactFlag "o";
     mkArg STATE_FPreserved20a "o"; mkArg STATE_FPreserved7 "o"; mkArg STATE_CPENABLE "i"]);
  ("Iclass_rur_expstate_args", [mkArg OPERAND_arr "o"]);
  ("Iclass_rur_expstate_stateArgs", [mkArg STATE_EXPSTATE "i"]);
  ("Iclass_wur_expstate_args", [mkArg OPERAND_art "i"]);
  ("Iclass_wur_expstate_stateArgs", [mkArg STATE_EXPSTATE "o"]);
  ("Iclass_iclass_READ_IMPWIRE_args", [mkArg OPERAND_art "o"])].

Definition e32_args_22 : list (string * list xtensa_arg_internal) := [
  ("Iclass_iclass_SETB_EXPSTATE_args", [mkArg OPERAND_bitindex "i"]);
  ("Iclass_iclass_SETB_EXPSTATE_stateArgs", [mkArg STATE_EXPSTATE "m"]);
  ("Iclass_iclass_CLRB_EXPSTATE_args", [mkArg OPERAND_bitindex "i"]);
  ("Iclass_iclass_CLRB_EXPSTATE_stateArgs", [mkArg STATE_EXPSTATE "m"]);
  ("Iclass_iclass_WRMSK_EXPSTATE_args", [mkArg OPERAND_art "i"; mkArg OPERAND_ars "i"]);
  ("Iclass_iclass_WRMSK_EXPSTATE_stateArgs", [mkArg STATE_EXPSTATE "m"])].

Definition e32_args : list (string * list xtensa_arg_internal) :=
  e32_args_1 ++ e32_args_2 ++ e32_args_3 ++ e32_args_4 ++ e32_args_5 ++ e32_args_6 ++ e32_args_7 ++
   e32_args_8 ++ e32_args_9 ++ e32_args_10 ++ e32_args_11 ++ e32_args_12 ++ e32_args_13 ++ e32_args_14 ++
   e32_args_15 ++ e32_args_16 ++ e32_args_17 ++ e32_args_18 ++ e32_args_19 ++ e32_args_20 ++ e32_args_21 ++
   e32_args_22.

Definition e32_interface_args : list (string * list Z) := [("Iclass_xt_iclass_rer_intfArgs", [INTERFACE_ERI_RD_In; INTERFACE_ERI_RD_Out]); ("Iclass_xt_iclass_wer_intfArgs", [INTERFACE_ERI_WR_In; INTERFACE_ERI_WR_Out]); ("Iclass_iclass_READ_IMPWIRE_intfArgs", [INTERFACE_IMPWIRE])].

(** ** Classes *)

(** A class, with the arrays by name ([None] for a null pointer). *)
Definition e32_iclass (n : Z) (args : option string) (ns : Z) (states_ : option string) (ni : Z) (intf : option string)
  : xtensa_iclass_internal :=
  let find {A} (t : list (string * list A)) (k : option string) (n : Z) : list A :=
    match k with None => [] | Some k => take (Z.to_nat n) (default [] (snd <$> List.find (fun e => String.eqb e.1 k) t)) end in
  mkIclass (find e32_args args n) (find e32_args states_ ns) (find e32_interface_args intf ni).

Definition e32_iclasses_1 : list xtensa_iclass_internal := [
  e32_iclass 3 (Some "Iclass_LSI_args") 1 (Some "Iclass_LSI_stateArgs") 0 None;
  e32_iclass 3 (Some "Iclass_LSIP_args") 1 (Some "Iclass_LSIP_stateArgs") 0 None;
  e32_iclass 3 (Some "Iclass_LSX_args") 1 (Some "Iclass_LSX_stateArgs") 0 None;
  e32_iclass 3 (Some "Iclass_LSXP_args") 1 (Some "Iclass_LSXP_stateArgs") 0 None;
  e32_iclass 3 (Some "Iclass_SSI_args") 1 (Some "Iclass_SSI_stateArgs") 0 None;
  e32_iclass 3 (Some "Iclass_SSIP_args") 1 (Some "Iclass_SSIP_stateArgs") 0 None;
  e32_iclass 3 (Some "Iclass_SSX_args") 1 (Some "Iclass_SSX_stateArgs") 0 None;
  e32_iclass 3 (Some "Iclass_SSXP_args") 1 (Some "Iclass_SSXP_stateArgs") 0 None;
  e32_iclass 2 (Some "Iclass_ABS_S_args") 1 (Some "Iclass_ABS_S_stateArgs") 0 None;
  e32_iclass 2 (Some "Iclass_NEG_S_args") 1 (Some "Iclass_NEG_S_stateArgs") 0 None;
  e32_iclass 2 (Some "Iclass_MOV_S_args") 1 (Some "Iclass_MOV_S_stateArgs") 0 None;
  e32_iclass 3 (Some "Iclass_MOVEQZ_S_args") 1 (Some "Iclass_MOVEQZ_S_stateArgs") 0 None;
  e32_iclass 3 (Some "Iclass_MOVNEZ_S_args") 1 (Some "Iclass_MOVNEZ_S_stateArgs") 0 None;
  e32_iclass 3 (Some "Iclass_MOVLTZ_S_args") 1 (Some "Iclass_MOVLTZ_S_stateArgs") 0 None;
  e32_iclass 3 (Some "Iclass_MOVGEZ_S_args") 1 (Some "Iclass_MOVGEZ_S_stateArgs") 0 None;
  e32_iclass 3 (Some "Iclass_MOVF_S_args") 1 (Some "Iclass_MOVF_S_stateArgs") 0 None;
  e32_iclass 3 (Some "Iclass_MOVT_S_args") 1 (Some "Iclass_MOVT_S_stateArgs") 0 None;
  e32_iclass 2 (Some "Iclass_WFR_args") 1 (Some "Iclass_WFR_stateArgs") 0 None;
  e32_iclass 2 (Some "Iclass_RFR_args") 1 (Some "Iclass_RFR_stateArgs") 0 None;
  e32_iclass 3 (Some "Iclass_ROUND_S_args") 3 (Some "Iclass_ROUND_S_stateArgs") 0 None;
  e32_iclass 3 (Some "Iclass_CEIL_S_args") 3 (Some "Iclass_CEIL_S_stateArgs") 0 None;
  e32_iclass 3 (Some "Iclass_FLOOR_S_args") 3 (Some "Iclass_FLOOR_S_stateArgs") 0 None;
  e32_iclass 3 (Some "Iclass_TRUNC_S_args") 3 (Some "Iclass_TRUNC_S_stateArgs") 0 None;
  e32_iclass 3 (Some "Iclass_UTRUNC_S_args") 3 (Some "Iclass_UTRUNC_S_stateArgs") 0 None;
  e32_iclass 3 (Some "Iclass_FLOAT_S_args") 3 (Some "Iclass_FLOAT_S_stateArgs") 0 None;
  e32_iclass 3 (Some "Iclass_UFLOAT_S_args") 3 (Some "Iclass_UFLOAT_S_stateArgs") 0 None;
  e32_iclass 3 (Some "Iclass_UN_S_args") 2 (Some "Iclass_UN_S_stateArgs") 0 None;
  e32_iclass 3 (Some "Iclass_ULT_S_args") 2 (Some "Iclass_ULT_S_stateArgs") 0 None;
  e32_iclass 3 (Some "Iclass_ULE_S_args") 2 (Some "Iclass_ULE_S_stateArgs") 0 None;
  e32_iclass 3 (Some "Iclass_UEQ_S_args") 2 (Some "Iclass_UEQ_S_stateArgs") 0 None;
  e32_iclass 3 (Some "Iclass_OLT_S_args") 2 (Some "Iclass_OLT_S_stateArgs") 0 None;
  e32_iclass 3 (Some "Iclass_OLE_S_args") 2 (Some "Iclass_OLE_S_stateArgs") 0 None;
  e32_iclass 3 (Some "Iclass_OEQ_S_args") 2 (Some "Iclass_OEQ_S_stateArgs") 0 None;
  e32_iclass 3 (Some "Iclass_ADD_S_args") 6 (Some "Iclass_ADD_S_stateArgs") 0 None;
  e32_iclass 3 (Some "Iclass_SUB_S_args") 6 (Some "Iclass_SUB_S_stateArgs") 0 None;
  e32_iclass 3 (Some "Iclass_MUL_S_args") 6 (Some "Iclass_MUL_S_stateArgs") 0 None;
  e32_iclass 3 (Some "Iclass_MADD_S_args") 6 (Some "Iclass_MADD_S_stateArgs") 0 None;
  e32_iclass 3 (Some "Iclass_MSUB_S_args") 6 (Some "Iclass_MSUB_S_stateArgs") 0 None;
  e32_iclass 2 (Some "Iclass_SQRT0_S_args") 1 (Some "Iclass_SQRT0_S_stateArgs") 0 None;
  e32_iclass 2 (Some "Iclass_DIV0_S_args") 1 (Some "Iclass_DIV0_S_stateArgs") 0 None;
  e32_iclass 2 (Some "Iclass_RECIP0_S_args") 3 (Some "Iclass_RECIP0_S_stateArgs") 0 None;
  e32_iclass 2 (Some "Iclass_RSQRT0_S_args") 3 (Some "Iclass_RSQRT0_S_stateArgs") 0 None;
  e32_iclass 3 (Some "Iclass_MADDN_S_args") 1 (Some "Iclass_MADDN_S_stateArgs") 0 None;
  e32_iclass 3 (Some "Iclass_DIVN_S_args") 5 (Some "Iclass_DIVN_S_stateArgs") 0 None;
  e32_iclass 2 (Some "Iclass_CONST_S_args") 1 (Some "Iclass_CONST_S_stateArgs") 0 None;
  e32_iclass 2 (Some "Iclass_NEXP01_S_args") 1 (Some "Iclass_NEXP01_S_stateArgs") 0 None;
  e32_iclass 2 (Some "Iclass_ADDEXP_S_args") 1 (Some "Iclass_ADDEXP_S_stateArgs") 0 None;
  e32_iclass 2 (Some "Iclass_ADDEXPM_S_args") 1 (Some "Iclass_ADDEXPM_S_stateArgs") 0 None;
  e32_iclass 2 (Some "Iclass_MKDADJ_S_args") 3 (Some "Iclass_MKDADJ_S_stateArgs") 0 None;
  e32_iclass 2 (Some "Iclass_MKSADJ_S_args") 2 (Some "Iclass_MKSADJ_S_stateArgs") 0 None;
  e32_iclass 0 None 0 None 0 None;
  e32_iclass 0 None 2 (Some "Iclass_xt_iclass_rfe_stateArgs") 0 None;
  e32_iclass 0 None 1 (Some "Iclass_xt_iclass_rfde_stateArgs") 0 None;
  e32_iclass 0 None 0 None 0 None;
  e32_iclass 2 (Some "Iclass_xt_iclass_call12_args") 1 (Some "Iclass_xt_iclass_call12_stateArgs") 0 None;
  e32_iclass 2 (Some "Iclass_xt_iclass_call8_args") 1 (Some "Iclass_xt_iclass_call8_stateArgs") 0 None;
  e32_iclass 2 (Some "Iclass_xt_iclass_call4_args") 1 (Some "Iclass_xt_iclass_call4_stateArgs") 0 None;
  e32_iclass 2 (Some "Iclass_xt_iclass_callx12_args") 1 (Some "Iclass_xt_iclass_callx12_stateArgs") 0 None;
  e32_iclass 2 (Some "Iclass_xt_iclass_callx8_args") 1 (Some "Iclass_xt_iclass_callx8_stateArgs") 0 None;
  e32_iclass 2 (Some "Iclass_xt_iclass_callx4_args") 1 (Some "Iclass_xt_iclass_callx4_stateArgs") 0 None;
  e32_iclass 3 (Some "Iclass_xt_iclass_entry_args") 5 (Some "Iclass_xt_iclass_entry_stateArgs") 0 None;
  e32_iclass 2 (Some "Iclass_xt_iclass_movsp_args") 2 (Some "Iclass_xt_iclass_movsp_stateArgs") 0 None;
  e32_iclass 1 (Some "Iclass_xt_iclass_rotw_args") 1 (Some "Iclass_xt_iclass_rotw_stateArgs") 0 None;
  e32_iclass 1 (Some "Iclass_xt_iclass_retw_args") 5 (Some "Iclass_xt_iclass_retw_stateArgs") 0 None;
  e32_iclass 0 None 5 (Some "Iclass_xt_iclass_rfwou_stateArgs") 0 None;
  e32_iclass 3 (Some "Iclass_xt_iclass_l32e_args") 0 None 0 None;
  e32_iclass 3 (Some "Iclass_xt_iclass_s32e_args") 0 None 0 None;
  e32_iclass 1 (Some "Iclass_xt_iclass_rsr_windowbase_args") 1 (Some "Iclass_xt_iclass_rsr_windowbase_stateArgs") 0 None;
  e32_iclass 1 (Some "Iclass_xt_iclass_wsr_windowbase_args") 1 (Some "Iclass_xt_iclass_wsr_windowbase_stateArgs") 0 None;
  e32_iclass 1 (Some "Iclass_xt_iclass_xsr_windowbase_args") 1 (Some "Iclass_xt_iclass_xsr_windowbase_stateArgs") 0 None;
  e32_iclass 1 (Some "Iclass_xt_iclass_rsr_windowstart_args") 1 (Some "Iclass_xt_iclass_rsr_windowstart_stateArgs") 0 None;
  e32_iclass 1 (Some "Iclass_xt_iclass_wsr_windowstart_args") 1 (Some "Iclass_xt_iclass_wsr_windowstart_stateArgs") 0 None;
  e32_iclass 1 (Some "Iclass_xt_iclass_xsr_windowstart_args") 1 (Some "Iclass_xt_iclass_xsr_windowstart_stateArgs") 0 None;
  e32_iclass 3 (Some "Iclass_xt_iclass_add_n_args") 0 None 0 None;
  e32_iclass 3 (Some "Iclass_xt_iclass_addi_n_args") 0 None 0 None].

Definition e32_iclasses_2 : list xtensa_iclass_internal := [
  e32_iclass 2 (Some "Iclass_xt_iclass_bz6_args") 0 None 0 None;
  e32_iclass 0 None 0 None 0 None;
  e32_iclass 3 (Some "Iclass_xt_iclass_loadi4_args") 0 None 0 None;
  e32_iclass 2 (Some "Iclass_xt_iclass_mov_n_args") 0 None 0 None;
  e32_iclass 2 (Some "Iclass_xt_iclass_movi_n_args") 0 None 0 None;
  e32_iclass 0 None 0 None 0 None;
  e32_iclass 1 (Some "Iclass_xt_iclass_retn_args") 0 None 0 None;
  e32_iclass 3 (Some "Iclass_xt_iclass_storei4_args") 0 None 0 None;
  e32_iclass 1 (Some "Iclass_rur_threadptr_args") 1 (Some "Iclass_rur_threadptr_stateArgs") 0 None;
  e32_iclass 1 (Some "Iclass_wur_threadptr_args") 1 (Some "Iclass_wur_threadptr_stateArgs") 0 None;
  e32_iclass 3 (Some "Iclass_xt_iclass_addi_args") 0 None 0 None;
  e32_iclass 3 (Some "Iclass_xt_iclass_addmi_args") 0 None 0 None;
  e32_iclass 3 (Some "Iclass_xt_iclass_addsub_args") 0 None 0 None;
  e32_iclass 3 (Some "Iclass_xt_iclass_bit_args") 0 None 0 None;
  e32_iclass 3 (Some "Iclass_xt_iclass_bsi8_args") 0 None 0 None;
  e32_iclass 3 (Some "Iclass_xt_iclass_bsi8b_args") 0 None 0 None;
  e32_iclass 3 (Some "Iclass_xt_iclass_bsi8u_args") 0 None 0 None;
  e32_iclass 3 (Some "Iclass_xt_iclass_bst8_args") 0 None 0 None;
  e32_iclass 2 (Some "Iclass_xt_iclass_bsz12_args") 0 None 0 None;
  e32_iclass 2 (Some "Iclass_xt_iclass_call0_args") 0 None 0 None;
  e32_iclass 2 (Some "Iclass_xt_iclass_callx0_args") 0 None 0 None;
  e32_iclass 4 (Some "Iclass_xt_iclass_exti_args") 0 None 0 None;
  e32_iclass 0 None 0 None 0 None;
  e32_iclass 1 (Some "Iclass_xt_iclass_jump_args") 0 None 0 None;
  e32_iclass 1 (Some "Iclass_xt_iclass_jumpx_args") 0 None 0 None;
  e32_iclass 3 (Some "Iclass_xt_iclass_l16ui_args") 0 None 0 None;
  e32_iclass 3 (Some "Iclass_xt_iclass_l16si_args") 0 None 0 None;
  e32_iclass 3 (Some "Iclass_xt_iclass_l32i_args") 0 None 0 None;
  e32_iclass 2 (Some "Iclass_xt_iclass_l32r_args") 0 None 0 None;
  e32_iclass 3 (Some "Iclass_xt_iclass_l8i_args") 0 None 0 None;
  e32_iclass 2 (Some "Iclass_xt_iclass_loop_args") 3 (Some "Iclass_xt_iclass_loop_stateArgs") 0 None;
  e32_iclass 2 (Some "Iclass_xt_iclass_loopz_args") 3 (Some "Iclass_xt_iclass_loopz_stateArgs") 0 None;
  e32_iclass 2 (Some "Iclass_xt_iclass_movi_args") 0 None 0 None;
  e32_iclass 3 (Some "Iclass_xt_iclass_movz_args") 0 None 0 None;
  e32_iclass 2 (Some "Iclass_xt_iclass_neg_args") 0 None 0 None;
  e32_iclass 0 None 0 None 0 None;
  e32_iclass 1 (Some "Iclass_xt_iclass_return_args") 0 None 0 None;
  e32_iclass 0 None 0 None 0 None;
  e32_iclass 3 (Some "Iclass_xt_iclass_s16i_args") 0 None 0 None;
  e32_iclass 3 (Some "Iclass_xt_iclass_s32i_args") 0 None 0 None;
  e32_iclass 3 (Some "Iclass_xt_iclass_s32nb_args") 0 None 0 None;
  e32_iclass 3 (Some "Iclass_xt_iclass_s8i_args") 0 None 0 None;
  e32_iclass 1 (Some "Iclass_xt_iclass_sar_args") 1 (Some "Iclass_xt_iclass_sar_stateArgs") 0 None;
  e32_iclass 1 (Some "Iclass_xt_iclass_sari_args") 1 (Some "Iclass_xt_iclass_sari_stateArgs") 0 None;
  e32_iclass 2 (Some "Iclass_xt_iclass_shifts_args") 1 (Some "Iclass_xt_iclass_shifts_stateArgs") 0 None;
  e32_iclass 3 (Some "Iclass_xt_iclass_shiftst_args") 1 (Some "Iclass_xt_iclass_shiftst_stateArgs") 0 None;
  e32_iclass 2 (Some "Iclass_xt_iclass_shiftt_args") 1 (Some "Iclass_xt_iclass_shiftt_stateArgs") 0 None;
  e32_iclass 3 (Some "Iclass_xt_iclass_slli_args") 0 None 0 None;
  e32_iclass 3 (Some "Iclass_xt_iclass_srai_args") 0 None 0 None;
  e32_iclass 3 (Some "Iclass_xt_iclass_srli_args") 0 None 0 None;
  e32_iclass 0 None 0 None 0 None;
  e32_iclass 0 None 0 None 0 None;
  e32_iclass 0 None 0 None 0 None;
  e32_iclass 0 None 1 (Some "Iclass_xt_iclass_sync_stateArgs") 0 None;
  e32_iclass 2 (Some "Iclass_xt_iclass_rsil_args") 6 (Some "Iclass_xt_iclass_rsil_stateArgs") 0 None;
  e32_iclass 1 (Some "Iclass_xt_iclass_rsr_lend_args") 1 (Some "Iclass_xt_iclass_rsr_lend_stateArgs") 0 None;
  e32_iclass 1 (Some "Iclass_xt_iclass_wsr_lend_args") 1 (Some "Iclass_xt_iclass_wsr_lend_stateArgs") 0 None;
  e32_iclass 1 (Some "Iclass_xt_iclass_xsr_lend_args") 1 (Some "Iclass_xt_iclass_xsr_lend_stateArgs") 0 None;
  e32_iclass 1 (Some "Iclass_xt_iclass_rsr_lcount_args") 1 (Some "Iclass_xt_iclass_rsr_lcount_stateArgs") 0 None;
  e32_iclass 1 (Some "Iclass_xt_iclass_wsr_lcount_args") 2 (Some "Iclass_xt_iclass_wsr_lcount_stateArgs") 0 None;
  e32_iclass 1 (Some "Iclass_xt_iclass_xsr_lcount_args") 2 (Some "Iclass_xt_iclass_xsr_lcount_stateArgs") 0 None;
  e32_iclass 1 (Some "Iclass_xt_iclass_rsr_lbeg_args") 1 (Some "Iclass_xt_iclass_rsr_lbeg_stateArgs") 0 None;
  e32_iclass 1 (Some "Iclass_xt_iclass_wsr_lbeg_args") 1 (Some "Iclass_xt_iclass_wsr_lbeg_stateArgs") 0 None;
  e32_iclass 1 (Some "Iclass_xt_iclass_xsr_lbeg_args") 1 (Some "Iclass_xt_iclass_xsr_lbeg_stateArgs") 0 None;
  e32_iclass 1 (Some "Iclass_xt_iclass_rsr_sar_args") 1 (Some "Iclass_xt_iclass_rsr_sar_stateArgs") 0 None;
  e32_iclass 1 (Some "Iclass_xt_iclass_wsr_sar_args") 2 (Some "Iclass_xt_iclass_wsr_sar_stateArgs") 0 None;
  e32_iclass 1 (Some "Iclass_xt_iclass_xsr_sar_args") 1 (Some "Iclass_xt_iclass_xsr_sar_stateArgs") 0 None;
  e32_iclass 1 (Some "Iclass_xt_iclass_rsr_memctl_args") 1 (Some "Iclass_xt_iclass_rsr_memctl_stateArgs") 0 None;
  e32_iclass 1 (Some "Iclass_xt_iclass_wsr_memctl_args") 1 (Some "Iclass_xt_iclass_wsr_memctl_stateArgs") 0 None;
  e32_iclass 1 (Some "Iclass_xt_iclass_xsr_memctl_args") 1 (Some "Iclass_xt_iclass_xsr_memctl_stateArgs") 0 None;
  e32_iclass 1 (Some "Iclass_xt_iclass_rsr_litbase_args") 0 None 0 None;
  e32_iclass 1 (Some "Iclass_xt_iclass_wsr_litbase_args") 0 None 0 None;
  e32_iclass 1 (Some "Iclass_xt_iclass_xsr_litbase_args") 0 None 0 None;
  e32_iclass 1 (Some "Iclass_xt_iclass_rsr_configid0_args") 0 None 0 None;
  e32_iclass 1 (Some "Iclass_xt_iclass_wsr_configid0_args") 0 None 0 None].

Definition e32_iclasses_3 : list xtensa_iclass_internal := [
  e32_iclass 1 (Some "Iclass_xt_iclass_rsr_configid1_args") 0 None 0 None;
  e32_iclass 1 (Some "Iclass_xt_iclass_rsr_ps_args") 6 (Some "Iclass_xt_iclass_rsr_ps_stateArgs") 0 None;
  e32_iclass 1 (Some "Iclass_xt_iclass_wsr_ps_args") 6 (Some "Iclass_xt_iclass_wsr_ps_stateArgs") 0 None;
  e32_iclass 1 (Some "Iclass_xt_iclass_xsr_ps_args") 6 (Some "Iclass_xt_iclass_xsr_ps_stateArgs") 0 None;
  e32_iclass 1 (Some "Iclass_xt_iclass_rsr_epc1_args") 1 (Some "Iclass_xt_iclass_rsr_epc1_stateArgs") 0 None;
  e32_iclass 1 (Some "Iclass_xt_iclass_wsr_epc1_args") 1 (Some "Iclass_xt_iclass_wsr_epc1_stateArgs") 0 None;
  e32_iclass 1 (Some "Iclass_xt_iclass_xsr_epc1_args") 1 (Some "Iclass_xt_iclass_xsr_epc1_stateArgs") 0 None;
  e32_iclass 1 (Some "Iclass_xt_iclass_rsr_excsave1_args") 1 (Some "Iclass_xt_iclass_rsr_excsave1_stateArgs") 0 None;
  e32_iclass 1 (Some "Iclass_xt_iclass_wsr_excsave1_args") 1 (Some "Iclass_xt_iclass_wsr_excsave1_stateArgs") 0 None;
  e32_iclass 1 (Some "Iclass_xt_iclass_xsr_excsave1_args") 1 (Some "Iclass_xt_iclass_xsr_excsave1_stateArgs") 0 None;
  e32_iclass 1 (Some "Iclass_xt_iclass_rsr_epc2_args") 1 (Some "Iclass_xt_iclass_rsr_epc2_stateArgs") 0 None;
  e32_iclass 1 (Some "Iclass_xt_iclass_wsr_epc2_args") 1 (Some "Iclass_xt_iclass_wsr_epc2_stateArgs") 0 None;
  e32_iclass 1 (Some "Iclass_xt_iclass_xsr_epc2_args") 1 (Some "Iclass_xt_iclass_xsr_epc2_stateArgs") 0 None;
  e32_iclass 1 (Some "Iclass_xt_iclass_rsr_excsave2_args") 1 (Some "Iclass_xt_iclass_rsr_excsave2_stateArgs") 0 None;
  e32_iclass 1 (Some "Iclass_xt_iclass_wsr_excsave2_args") 1 (Some "Iclass_xt_iclass_wsr_excsave2_stateArgs") 0 None;
  e32_iclass 1 (Some "Iclass_xt_iclass_xsr_excsave2_args") 1 (Some "Iclass_xt_iclass_xsr_excsave2_stateArgs") 0 None;
  e32_iclass 1 (Some "Iclass_xt_iclass_rsr_epc3_args") 1 (Some "Iclass_xt_iclass_rsr_epc3_stateArgs") 0 None;
  e32_iclass 1 (Some "Iclass_xt_iclass_wsr_epc3_args") 1 (Some "Iclass_xt_iclass_wsr_epc3_stateArgs") 0 None;
  e32_iclass 1 (Some "Iclass_xt_iclass_xsr_epc3_args") 1 (Some "Iclass_xt_iclass_xsr_epc3_stateArgs") 0 None;
  e32_iclass 1 (Some "Iclass_xt_iclass_rsr_excsave3_args") 1 (Some "Iclass_xt_iclass_rsr_excsave3_stateArgs") 0 None;
  e32_iclass 1 (Some "Iclass_xt_iclass_wsr_excsave3_args") 1 (Some "Iclass_xt_iclass_wsr_excsave3_stateArgs") 0 None;
  e32_iclass 1 (Some "Iclass_xt_iclass_xsr_excsave3_args") 1 (Some "Iclass_xt_iclass_xsr_excsave3_stateArgs") 0 None;
  e32_iclass 1 (Some "Iclass_xt_iclass_rsr_epc4_args") 1 (Some "Iclass_xt_iclass_rsr_epc4_stateArgs") 0 None;
  e32_iclass 1 (Some "Iclass_xt_iclass_wsr_epc4_args") 1 (Some "Iclass_xt_iclass_wsr_epc4_stateArgs") 0 None;
  e32_iclass 1 (Some "Iclass_xt_iclass_xsr_epc4_args") 1 (Some "Iclass_xt_iclass_xsr_epc4_stateArgs") 0 None;
  e32_iclass 1 (Some "Iclass_xt_iclass_rsr_excsave4_args") 1 (Some "Iclass_xt_iclass_rsr_excsave4_stateArgs") 0 None;
  e32_iclass 1 (Some "Iclass_xt_iclass_wsr_excsave4_args") 1 (Some "Iclass_xt_iclass_wsr_excsave4_stateArgs") 0 None;
  e32_iclass 1 (Some "Iclass_xt_iclass_xsr_excsave4_args") 1 (Some "Iclass_xt_iclass_xsr_excsave4_stateArgs") 0 None;
  e32_iclass 1 (Some "Iclass_xt_iclass_rsr_epc5_args") 1 (Some "Iclass_xt_iclass_rsr_epc5_stateArgs") 0 None;
  e32_iclass 1 (Some "Iclass_xt_iclass_wsr_epc5_args") 1 (Some "Iclass_xt_iclass_wsr_epc5_stateArgs") 0 None;
  e32_iclass 1 (Some "Iclass_xt_iclass_xsr_epc5_args") 1 (Some "Iclass_xt_iclass_xsr_epc5_stateArgs") 0 None;
  e32_iclass 1 (Some "Iclass_xt_iclass_rsr_excsave5_args") 1 (Some "Iclass_xt_iclass_rsr_excsave5_stateArgs") 0 None;
  e32_iclass 1 (Some "Iclass_xt_iclass_wsr_excsave5_args") 1 (Some "Iclass_xt_iclass_wsr_excsave5_stateArgs") 0 None;
  e32_iclass 1 (Some "Iclass_xt_iclass_xsr_excsave5_args") 1 (Some "Iclass_xt_iclass_xsr_excsave5_stateArgs") 0 None;
  e32_iclass 1 (Some "Iclass_xt_iclass_rsr_epc6_args") 1 (Some "Iclass_xt_iclass_rsr_epc6_stateArgs") 0 None;
  e32_iclass 1 (Some "Iclass_xt_iclass_wsr_epc6_args") 1 (Some "Iclass_xt_iclass_wsr_epc6_stateArgs") 0 None;
  e32_iclass 1 (Some "Iclass_xt_iclass_xsr_epc6_args") 1 (Some "Iclass_xt_iclass_xsr_epc6_stateArgs") 0 None;
  e32_iclass 1 (Some "Iclass_xt_iclass_rsr_excsave6_args") 1 (Some "Iclass_xt_iclass_rsr_excsave6_stateArgs") 0 None;
  e32_iclass 1 (Some "Iclass_xt_iclass_wsr_excsave6_args") 1 (Some "Iclass_xt_iclass_wsr_excsave6_stateArgs") 0 None;
  e32_iclass 1 (Some "Iclass_xt_iclass_xsr_excsave6_args") 1 (Some "Iclass_xt_iclass_xsr_excsave6_stateArgs") 0 None;
  e32_iclass 1 (Some "Iclass_xt_iclass_rsr_epc7_args") 1 (Some "Iclass_xt_iclass_rsr_epc7_stateArgs") 0 None;
  e32_iclass 1 (Some "Iclass_xt_iclass_wsr_epc7_args") 1 (Some "Iclass_xt_iclass_wsr_epc7_stateArgs") 0 None;
  e32_iclass 1 (Some "Iclass_xt_iclass_xsr_epc7_args") 1 (Some "Iclass_xt_iclass_xsr_epc7_stateArgs") 0 None;
  e32_iclass 1 (Some "Iclass_xt_iclass_rsr_excsave7_args") 1 (Some "Iclass_xt_iclass_rsr_excsave7_stateArgs") 0 None;
  e32_iclass 1 (Some "Iclass_xt_iclass_wsr_excsave7_args") 1 (Some "Iclass_xt_iclass_wsr_excsave7_stateArgs") 0 None;
  e32_iclass 1 (Some "Iclass_xt_iclass_xsr_excsave7_args") 1 (Some "Iclass_xt_iclass_xsr_excsave7_stateArgs") 0 None;
  e32_iclass 1 (Some "Iclass_xt_iclass_rsr_eps2_args") 1 (Some "Iclass_xt_iclass_rsr_eps2_stateArgs") 0 None;
  e32_iclass 1 (Some "Iclass_xt_iclass_wsr_eps2_args") 1 (Some "Iclass_xt_iclass_wsr_eps2_stateArgs") 0 None;
  e32_iclass 1 (Some "Iclass_xt_iclass_xsr_eps2_args") 1 (Some "Iclass_xt_iclass_xsr_eps2_stateArgs") 0 None;
  e32_iclass 1 (Some "Iclass_xt_iclass_rsr_eps3_args") 1 (Some "Iclass_xt_iclass_rsr_eps3_stateArgs") 0 None;
  e32_iclass 1 (Some "Iclass_xt_iclass_wsr_eps3_args") 1 (Some "Iclass_xt_iclass_wsr_eps3_stateArgs") 0 None;
  e32_iclass 1 (Some "Iclass_xt_iclass_xsr_eps3_args") 1 (Some "Iclass_xt_iclass_xsr_eps3_stateArgs") 0 None;
  e32_iclass 1 (Some "Iclass_xt_iclass_rsr_eps4_args") 1 (Some "Iclass_xt_iclass_rsr_eps4_stateArgs") 0 None;
  e32_iclass 1 (Some "Iclass_xt_iclass_wsr_eps4_args") 1 (Some "Iclass_xt_iclass_wsr_eps4_stateArgs") 0 None;
  e32_iclass 1 (Some "Iclass_xt_iclass_xsr_eps4_args") 1 (Some "Iclass_xt_iclass_xsr_eps4_stateArgs") 0 None;
  e32_iclass 1 (Some "Iclass_xt_iclass_rsr_eps5_args") 1 (Some "Iclass_xt_iclass_rsr_eps5_stateArgs") 0 None;
  e32_iclass 1 (Some "Iclass_xt_iclass_wsr_eps5_args") 1 (Some "Iclass_xt_iclass_wsr_eps5_stateArgs") 0 None;
  e32_iclass 1 (Some "Iclass_xt_iclass_xsr_eps5_args") 1 (Some "Iclass_xt_iclass_xsr_eps5_stateArgs") 0 None;
  e32_iclass 1 (Some "Iclass_xt_iclass_rsr_eps6_args") 1 (Some "Iclass_xt_iclass_rsr_eps6_stateArgs") 0 None;
  e32_iclass 1 (Some "Iclass_xt_iclass_wsr_eps6_args") 1 (Some "Iclass_xt_iclass_wsr_eps6_stateArgs") 0 None;
  e32_iclass 1 (Some "Iclass_xt_iclass_xsr_eps6_args") 1 (Some "Iclass_xt_iclass_xsr_eps6_stateArgs") 0 None;
  e32_iclass 1 (Some "Iclass_xt_iclass_rsr_eps7_args") 1 (Some "Iclass_xt_iclass_rsr_eps7_stateArgs") 0 None;
  e32_iclass 1 (Some "Iclass_xt_iclass_wsr_eps7_args") 1 (Some "Iclass_xt_iclass_wsr_eps7_stateArgs") 0 None;
  e32_iclass 1 (Some "Iclass_xt_iclass_xsr_eps7_args") 1 (Some "Iclass_xt_iclass_xsr_eps7_stateArgs") 0 None;
  e32_iclass 1 (Some "Iclass_xt_iclass_rsr_excvaddr_args") 1 (Some "Iclass_xt_iclass_rsr_excvaddr_stateArgs") 0 None;
  e32_iclass 1 (Some "Iclass_xt_iclass_wsr_excvaddr_args") 1 (Some "Iclass_xt_iclass_wsr_excvaddr_stateArgs") 0 None;
  e32_iclass 1 (Some "Iclass_xt_iclass_xsr_excvaddr_args") 1 (Some "Iclass_xt_iclass_xsr_excvaddr_stateArgs") 0 None;
  e32_iclass 1 (Some "Iclass_xt_iclass_rsr_depc_args") 1 (Some "Iclass_xt_iclass_rsr_depc_stateArgs") 0 None;
  e32_iclass 1 (Some "Iclass_xt_iclass_wsr_depc_args") 1 (Some "Iclass_xt_iclass_wsr_depc_stateArgs") 0 None;
  e32_iclass 1 (Some "Iclass_xt_iclass_xsr_depc_args") 1 (Some "Iclass_xt_iclass_xsr_depc_stateArgs") 0 None;
  e32_iclass 1 (Some "Iclass_xt_iclass_rsr_exccause_args") 2 (Some "Iclass_xt_iclass_rsr_exccause_stateArgs") 0 None;
  e32_iclass 1 (Some "Iclass_xt_iclass_wsr_exccause_args") 1 (Some "Iclass_xt_iclass_wsr_exccause_stateArgs") 0 None;
  e32_iclass 1 (Some "Iclass_xt_iclass_xsr_exccause_args") 1 (Some "Iclass_xt_iclass_xsr_exccause_stateArgs") 0 None;
  e32_iclass 1 (Some "Iclass_xt_iclass_rsr_misc0_args") 1 (Some "Iclass_xt_iclass_rsr_misc0_stateArgs") 0 None;
  e32_iclass 1 (Some "Iclass_xt_iclass_wsr_misc0_args") 1 (Some "Iclass_xt_iclass_wsr_misc0_stateArgs") 0 None].

Definition e32_iclasses_4 : list xtensa_iclass_internal := [
  e32_iclass 1 (Some "Iclass_xt_iclass_xsr_misc0_args") 1 (Some "Iclass_xt_iclass_xsr_misc0_stateArgs") 0 None;
  e32_iclass 1 (Some "Iclass_xt_iclass_rsr_misc1_args") 1 (Some "Iclass_xt_iclass_rsr_misc1_stateArgs") 0 None;
  e32_iclass 1 (Some "Iclass_xt_iclass_wsr_misc1_args") 1 (Some "Iclass_xt_iclass_wsr_misc1_stateArgs") 0 None;
  e32_iclass 1 (Some "Iclass_xt_iclass_xsr_misc1_args") 1 (Some "Iclass_xt_iclass_xsr_misc1_stateArgs") 0 None;
  e32_iclass 1 (Some "Iclass_xt_iclass_rsr_misc2_args") 1 (Some "Iclass_xt_iclass_rsr_misc2_stateArgs") 0 None;
  e32_iclass 1 (Some "Iclass_xt_iclass_wsr_misc2_args") 1 (Some "Iclass_xt_iclass_wsr_misc2_stateArgs") 0 None;
  e32_iclass 1 (Some "Iclass_xt_iclass_xsr_misc2_args") 1 (Some "Iclass_xt_iclass_xsr_misc2_stateArgs") 0 None;
  e32_iclass 1 (Some "Iclass_xt_iclass_rsr_misc3_args") 1 (Some "Iclass_xt_iclass_rsr_misc3_stateArgs") 0 None;
  e32_iclass 1 (Some "Iclass_xt_iclass_wsr_misc3_args") 1 (Some "Iclass_xt_iclass_wsr_misc3_stateArgs") 0 None;
  e32_iclass 1 (Some "Iclass_xt_iclass_xsr_misc3_args") 1 (Some "Iclass_xt_iclass_xsr_misc3_stateArgs") 0 None;
  e32_iclass 1 (Some "Iclass_xt_iclass_rsr_prid_args") 0 None 0 None;
  e32_iclass 1 (Some "Iclass_xt_iclass_rsr_vecbase_args") 1 (Some "Iclass_xt_iclass_rsr_vecbase_stateArgs") 0 None;
  e32_iclass 1 (Some "Iclass_xt_iclass_wsr_vecbase_args") 1 (Some "Iclass_xt_iclass_wsr_vecbase_stateArgs") 0 None;
  e32_iclass 1 (Some "Iclass_xt_iclass_xsr_vecbase_args") 1 (Some "Iclass_xt_iclass_xsr_vecbase_stateArgs") 0 None;
  e32_iclass 3 (Some "Iclass_xt_mul16_args") 0 None 0 None;
  e32_iclass 3 (Some "Iclass_xt_mul32_args") 0 None 0 None;
  e32_iclass 3 (Some "Iclass_xt_mul32h_args") 0 None 0 None;
  e32_iclass 2 (Some "Iclass_xt_iclass_mac16_aa_args") 1 (Some "Iclass_xt_iclass_mac16_aa_stateArgs") 0 None;
  e32_iclass 2 (Some "Iclass_xt_iclass_mac16_ad_args") 1 (Some "Iclass_xt_iclass_mac16_ad_stateArgs") 0 None;
  e32_iclass 2 (Some "Iclass_xt_iclass_mac16_da_args") 1 (Some "Iclass_xt_iclass_mac16_da_stateArgs") 0 None;
  e32_iclass 2 (Some "Iclass_xt_iclass_mac16_dd_args") 1 (Some "Iclass_xt_iclass_mac16_dd_stateArgs") 0 None;
  e32_iclass 2 (Some "Iclass_xt_iclass_mac16a_aa_args") 1 (Some "Iclass_xt_iclass_mac16a_aa_stateArgs") 0 None;
  e32_iclass 2 (Some "Iclass_xt_iclass_mac16a_ad_args") 1 (Some "Iclass_xt_iclass_mac16a_ad_stateArgs") 0 None;
  e32_iclass 2 (Some "Iclass_xt_iclass_mac16a_da_args") 1 (Some "Iclass_xt_iclass_mac16a_da_stateArgs") 0 None;
  e32_iclass 2 (Some "Iclass_xt_iclass_mac16a_dd_args") 1 (Some "Iclass_xt_iclass_mac16a_dd_stateArgs") 0 None;
  e32_iclass 4 (Some "Iclass_xt_iclass_mac16al_da_args") 1 (Some "Iclass_xt_iclass_mac16al_da_stateArgs") 0 None;
  e32_iclass 4 (Some "Iclass_xt_iclass_mac16al_dd_args") 1 (Some "Iclass_xt_iclass_mac16al_dd_stateArgs") 0 None;
  e32_iclass 2 (Some "Iclass_xt_iclass_mac16_l_args") 0 None 0 None;
  e32_iclass 2 (Some "Iclass_xt_iclass_rsr_m0_args") 0 None 0 None;
  e32_iclass 2 (Some "Iclass_xt_iclass_wsr_m0_args") 0 None 0 None;
  e32_iclass 2 (Some "Iclass_xt_iclass_xsr_m0_args") 0 None 0 None;
  e32_iclass 2 (Some "Iclass_xt_iclass_rsr_m1_args") 0 None 0 None;
  e32_iclass 2 (Some "Iclass_xt_iclass_wsr_m1_args") 0 None 0 None;
  e32_iclass 2 (Some "Iclass_xt_iclass_xsr_m1_args") 0 None 0 None;
  e32_iclass 2 (Some "Iclass_xt_iclass_rsr_m2_args") 0 None 0 None;
  e32_iclass 2 (Some "Iclass_xt_iclass_wsr_m2_args") 0 None 0 None;
  e32_iclass 2 (Some "Iclass_xt_iclass_xsr_m2_args") 0 None 0 None;
  e32_iclass 2 (Some "Iclass_xt_iclass_rsr_m3_args") 0 None 0 None;
  e32_iclass 2 (Some "Iclass_xt_iclass_wsr_m3_args") 0 None 0 None;
  e32_iclass 2 (Some "Iclass_xt_iclass_xsr_m3_args") 0 None 0 None;
  e32_iclass 1 (Some "Iclass_xt_iclass_rsr_acclo_args") 1 (Some "Iclass_xt_iclass_rsr_acclo_stateArgs") 0 None;
  e32_iclass 1 (Some "Iclass_xt_iclass_wsr_acclo_args") 1 (Some "Iclass_xt_iclass_wsr_acclo_stateArgs") 0 None;
  e32_iclass 1 (Some "Iclass_xt_iclass_xsr_acclo_args") 1 (Some "Iclass_xt_iclass_xsr_acclo_stateArgs") 0 None;
  e32_iclass 1 (Some "Iclass_xt_iclass_rsr_acchi_args") 1 (Some "Iclass_xt_iclass_rsr_acchi_stateArgs") 0 None;
  e32_iclass 1 (Some "Iclass_xt_iclass_wsr_acchi_args") 1 (Some "Iclass_xt_iclass_wsr_acchi_stateArgs") 0 None;
  e32_iclass 1 (Some "Iclass_xt_iclass_xsr_acchi_args") 1 (Some "Iclass_xt_iclass_xsr_acchi_stateArgs") 0 None;
  e32_iclass 1 (Some "Iclass_xt_iclass_rfi_args") 20 (Some "Iclass_xt_iclass_rfi_stateArgs") 0 None;
  e32_iclass 1 (Some "Iclass_xt_iclass_wait_args") 1 (Some "Iclass_xt_iclass_wait_stateArgs") 0 None;
  e32_iclass 1 (Some "Iclass_xt_iclass_rsr_interrupt_args") 1 (Some "Iclass_xt_iclass_rsr_interrupt_stateArgs") 0 None;
  e32_iclass 1 (Some "Iclass_xt_iclass_wsr_intset_args") 2 (Some "Iclass_xt_iclass_wsr_intset_stateArgs") 0 None;
  e32_iclass 1 (Some "Iclass_xt_iclass_wsr_intclear_args") 2 (Some "Iclass_xt_iclass_wsr_intclear_stateArgs") 0 None;
  e32_iclass 1 (Some "Iclass_xt_iclass_rsr_intenable_args") 1 (Some "Iclass_xt_iclass_rsr_intenable_stateArgs") 0 None;
  e32_iclass 1 (Some "Iclass_xt_iclass_wsr_intenable_args") 1 (Some "Iclass_xt_iclass_wsr_intenable_stateArgs") 0 None;
  e32_iclass 1 (Some "Iclass_xt_iclass_xsr_intenable_args") 1 (Some "Iclass_xt_iclass_xsr_intenable_stateArgs") 0 None;
  e32_iclass 2 (Some "Iclass_xt_iclass_break_args") 2 (Some "Iclass_xt_iclass_break_stateArgs") 0 None;
  e32_iclass 1 (Some "Iclass_xt_iclass_break_n_args") 2 (Some "Iclass_xt_iclass_break_n_stateArgs") 0 None;
  e32_iclass 1 (Some "Iclass_xt_iclass_rsr_dbreaka0_args") 1 (Some "Iclass_xt_iclass_rsr_dbreaka0_stateArgs") 0 None;
  e32_iclass 1 (Some "Iclass_xt_iclass_wsr_dbreaka0_args") 2 (Some "Iclass_xt_iclass_wsr_dbreaka0_stateArgs") 0 None;
  e32_iclass 1 (Some "Iclass_xt_iclass_xsr_dbreaka0_args") 2 (Some "Iclass_xt_iclass_xsr_dbreaka0_stateArgs") 0 None;
  e32_iclass 1 (Some "Iclass_xt_iclass_rsr_dbreakc0_args") 1 (Some "Iclass_xt_iclass_rsr_dbreakc0_stateArgs") 0 None;
  e32_iclass 1 (Some "Iclass_xt_iclass_wsr_dbreakc0_args") 2 (Some "Iclass_xt_iclass_wsr_dbreakc0_stateArgs") 0 None;
  e32_iclass 1 (Some "Iclass_xt_iclass_xsr_dbreakc0_args") 2 (Some "Iclass_xt_iclass_xsr_dbreakc0_stateArgs") 0 None;
  e32_iclass 1 (Some "Iclass_xt_iclass_rsr_dbreaka1_args") 1 (Some "Iclass_xt_iclass_rsr_dbreaka1_stateArgs") 0 None;
  e32_iclass 1 (Some "Iclass_xt_iclass_wsr_dbreaka1_args") 2 (Some "Iclass_xt_iclass_wsr_dbreaka1_stateArgs") 0 None;
  e32_iclass 1 (Some "Iclass_xt_iclass_xsr_dbreaka1_args") 2 (Some "Iclass_xt_iclass_xsr_dbreaka1_stateArgs") 0 None;
  e32_iclass 1 (Some "Iclass_xt_iclass_rsr_dbreakc1_args") 1 (Some "Iclass_xt_iclass_rsr_dbreakc1_stateArgs") 0 None;
  e32_iclass 1 (Some "Iclass_xt_iclass_wsr_dbreakc1_args") 2 (Some "Iclass_xt_iclass_wsr_dbreakc1_stateArgs") 0 None;
  e32_iclass 1 (Some "Iclass_xt_iclass_xsr_dbreakc1_args") 2 (Some "Iclass_xt_iclass_xsr_dbreakc1_stateArgs") 0 None;
  e32_iclass 1 (Some "Iclass_xt_iclass_rsr_ibreaka0_args") 1 (Some "Iclass_xt_iclass_rsr_ibreaka0_stateArgs") 0 None;
  e32_iclass 1 (Some "Iclass_xt_iclass_wsr_ibreaka0_args") 1 (Some "Iclass_xt_iclass_wsr_ibreaka0_stateArgs") 0 None;
  e32_iclass 1 (Some "Iclass_xt_iclass_xsr_ibreaka0_args") 1 (Some "Iclass_xt_iclass_xsr_ibreaka0_stateArgs") 0 None;
  e32_iclass 1 (Some "Iclass_xt_iclass_rsr_ibreaka1_args") 1 (Some "Iclass_xt_iclass_rsr_ibreaka1_stateArgs") 0 None;
  e32_iclass 1 (Some "Iclass_xt_iclass_wsr_ibreaka1_args") 1 (Some "Iclass_xt_iclass_wsr_ibreaka1_stateArgs") 0 None;
  e32_iclass 1 (Some "Iclass_xt_iclass_xsr_ibreaka1_args") 1 (Some "Iclass_xt_iclass_xsr_ibreaka1_stateArgs") 0 None;
  e32_iclass 1 (Some "Iclass_xt_iclass_rsr_ibreakenable_args") 1 (Some "Iclass_xt_iclass_rsr_ibreakenable_stateArgs") 0 None].

Definition e32_iclasses_5 : list xtensa_iclass_internal := [
  e32_iclass 1 (Some "Iclass_xt_iclass_wsr_ibreakenable_args") 1 (Some "Iclass_xt_iclass_wsr_ibreakenable_stateArgs") 0 None;
  e32_iclass 1 (Some "Iclass_xt_iclass_xsr_ibreakenable_args") 1 (Some "Iclass_xt_iclass_xsr_ibreakenable_stateArgs") 0 None;
  e32_iclass 1 (Some "Iclass_xt_iclass_rsr_debugcause_args") 2 (Some "Iclass_xt_iclass_rsr_debugcause_stateArgs") 0 None;
  e32_iclass 1 (Some "Iclass_xt_iclass_wsr_debugcause_args") 2 (Some "Iclass_xt_iclass_wsr_debugcause_stateArgs") 0 None;
  e32_iclass 1 (Some "Iclass_xt_iclass_xsr_debugcause_args") 2 (Some "Iclass_xt_iclass_xsr_debugcause_stateArgs") 0 None;
  e32_iclass 1 (Some "Iclass_xt_iclass_rsr_icount_args") 1 (Some "Iclass_xt_iclass_rsr_icount_stateArgs") 0 None;
  e32_iclass 1 (Some "Iclass_xt_iclass_wsr_icount_args") 2 (Some "Iclass_xt_iclass_wsr_icount_stateArgs") 0 None;
  e32_iclass 1 (Some "Iclass_xt_iclass_xsr_icount_args") 2 (Some "Iclass_xt_iclass_xsr_icount_stateArgs") 0 None;
  e32_iclass 1 (Some "Iclass_xt_iclass_rsr_icountlevel_args") 1 (Some "Iclass_xt_iclass_rsr_icountlevel_stateArgs") 0 None;
  e32_iclass 1 (Some "Iclass_xt_iclass_wsr_icountlevel_args") 1 (Some "Iclass_xt_iclass_wsr_icountlevel_stateArgs") 0 None;
  e32_iclass 1 (Some "Iclass_xt_iclass_xsr_icountlevel_args") 1 (Some "Iclass_xt_iclass_xsr_icountlevel_stateArgs") 0 None;
  e32_iclass 1 (Some "Iclass_xt_iclass_rsr_ddr_args") 1 (Some "Iclass_xt_iclass_rsr_ddr_stateArgs") 0 None;
  e32_iclass 1 (Some "Iclass_xt_iclass_wsr_ddr_args") 2 (Some "Iclass_xt_iclass_wsr_ddr_stateArgs") 0 None;
  e32_iclass 1 (Some "Iclass_xt_iclass_xsr_ddr_args") 2 (Some "Iclass_xt_iclass_xsr_ddr_stateArgs") 0 None;
  e32_iclass 1 (Some "Iclass_xt_iclass_lddr32_p_args") 3 (Some "Iclass_xt_iclass_lddr32_p_stateArgs") 0 None;
  e32_iclass 1 (Some "Iclass_xt_iclass_sddr32_p_args") 2 (Some "Iclass_xt_iclass_sddr32_p_stateArgs") 0 None;
  e32_iclass 1 (Some "Iclass_xt_iclass_rfdo_args") 9 (Some "Iclass_xt_iclass_rfdo_stateArgs") 0 None;
  e32_iclass 0 None 1 (Some "Iclass_xt_iclass_rfdd_stateArgs") 0 None;
  e32_iclass 1 (Some "Iclass_xt_iclass_wsr_mmid_args") 1 (Some "Iclass_xt_iclass_wsr_mmid_stateArgs") 0 None;
  e32_iclass 3 (Some "Iclass_xt_iclass_bbool1_args") 0 None 0 None;
  e32_iclass 2 (Some "Iclass_xt_iclass_bbool4_args") 0 None 0 None;
  e32_iclass 2 (Some "Iclass_xt_iclass_bbool8_args") 0 None 0 None;
  e32_iclass 2 (Some "Iclass_xt_iclass_bbranch_args") 0 None 0 None;
  e32_iclass 3 (Some "Iclass_xt_iclass_bmove_args") 0 None 0 None;
  e32_iclass 2 (Some "Iclass_xt_iclass_RSR_BR_args") 0 None 0 None;
  e32_iclass 2 (Some "Iclass_xt_iclass_WSR_BR_args") 0 None 0 None;
  e32_iclass 2 (Some "Iclass_xt_iclass_XSR_BR_args") 0 None 0 None;
  e32_iclass 1 (Some "Iclass_xt_iclass_rsr_ccount_args") 1 (Some "Iclass_xt_iclass_rsr_ccount_stateArgs") 0 None;
  e32_iclass 1 (Some "Iclass_xt_iclass_wsr_ccount_args") 2 (Some "Iclass_xt_iclass_wsr_ccount_stateArgs") 0 None;
  e32_iclass 1 (Some "Iclass_xt_iclass_xsr_ccount_args") 2 (Some "Iclass_xt_iclass_xsr_ccount_stateArgs") 0 None;
  e32_iclass 1 (Some "Iclass_xt_iclass_rsr_ccompare0_args") 1 (Some "Iclass_xt_iclass_rsr_ccompare0_stateArgs") 0 None;
  e32_iclass 1 (Some "Iclass_xt_iclass_wsr_ccompare0_args") 2 (Some "Iclass_xt_iclass_wsr_ccompare0_stateArgs") 0 None;
  e32_iclass 1 (Some "Iclass_xt_iclass_xsr_ccompare0_args") 2 (Some "Iclass_xt_iclass_xsr_ccompare0_stateArgs") 0 None;
  e32_iclass 1 (Some "Iclass_xt_iclass_rsr_ccompare1_args") 1 (Some "Iclass_xt_iclass_rsr_ccompare1_stateArgs") 0 None;
  e32_iclass 1 (Some "Iclass_xt_iclass_wsr_ccompare1_args") 2 (Some "Iclass_xt_iclass_wsr_ccompare1_stateArgs") 0 None;
  e32_iclass 1 (Some "Iclass_xt_iclass_xsr_ccompare1_args") 2 (Some "Iclass_xt_iclass_xsr_ccompare1_stateArgs") 0 None;
  e32_iclass 1 (Some "Iclass_xt_iclass_rsr_ccompare2_args") 1 (Some "Iclass_xt_iclass_rsr_ccompare2_stateArgs") 0 None;
  e32_iclass 1 (Some "Iclass_xt_iclass_wsr_ccompare2_args") 2 (Some "Iclass_xt_iclass_wsr_ccompare2_stateArgs") 0 None;
  e32_iclass 1 (Some "Iclass_xt_iclass_xsr_ccompare2_args") 2 (Some "Iclass_xt_iclass_xsr_ccompare2_stateArgs") 0 None;
  e32_iclass 1 (Some "Iclass_xt_iclass_idtlb_args") 1 (Some "Iclass_xt_iclass_idtlb_stateArgs") 0 None;
  e32_iclass 2 (Some "Iclass_xt_iclass_rdtlb_args") 0 None 0 None;
  e32_iclass 2 (Some "Iclass_xt_iclass_wdtlb_args") 1 (Some "Iclass_xt_iclass_wdtlb_stateArgs") 0 None;
  e32_iclass 1 (Some "Iclass_xt_iclass_iitlb_args") 0 None 0 None;
  e32_iclass 2 (Some "Iclass_xt_iclass_ritlb_args") 0 None 0 None;
  e32_iclass 2 (Some "Iclass_xt_iclass_witlb_args") 0 None 0 None;
  e32_iclass 1 (Some "Iclass_xt_iclass_rsr_cpenable_args") 1 (Some "Iclass_xt_iclass_rsr_cpenable_stateArgs") 0 None;
  e32_iclass 1 (Some "Iclass_xt_iclass_wsr_cpenable_args") 1 (Some "Iclass_xt_iclass_wsr_cpenable_stateArgs") 0 None;
  e32_iclass 1 (Some "Iclass_xt_iclass_xsr_cpenable_args") 1 (Some "Iclass_xt_iclass_xsr_cpenable_stateArgs") 0 None;
  e32_iclass 3 (Some "Iclass_xt_iclass_clamp_args") 0 None 0 None;
  e32_iclass 3 (Some "Iclass_xt_iclass_minmax_args") 0 None 0 None;
  e32_iclass 2 (Some "Iclass_xt_iclass_nsa_args") 0 None 0 None;
  e32_iclass 3 (Some "Iclass_xt_iclass_sx_args") 0 None 0 None;
  e32_iclass 3 (Some "Iclass_xt_iclass_l32ai_args") 0 None 0 None;
  e32_iclass 3 (Some "Iclass_xt_iclass_s32ri_args") 0 None 0 None;
  e32_iclass 3 (Some "Iclass_xt_iclass_s32c1i_args") 3 (Some "Iclass_xt_iclass_s32c1i_stateArgs") 0 None;
  e32_iclass 1 (Some "Iclass_xt_iclass_rsr_scompare1_args") 1 (Some "Iclass_xt_iclass_rsr_scompare1_stateArgs") 0 None;
  e32_iclass 1 (Some "Iclass_xt_iclass_wsr_scompare1_args") 1 (Some "Iclass_xt_iclass_wsr_scompare1_stateArgs") 0 None;
  e32_iclass 1 (Some "Iclass_xt_iclass_xsr_scompare1_args") 1 (Some "Iclass_xt_iclass_xsr_scompare1_stateArgs") 0 None;
  e32_iclass 1 (Some "Iclass_xt_iclass_rsr_atomctl_args") 1 (Some "Iclass_xt_iclass_rsr_atomctl_stateArgs") 0 None;
  e32_iclass 1 (Some "Iclass_xt_iclass_wsr_atomctl_args") 2 (Some "Iclass_xt_iclass_wsr_atomctl_stateArgs") 0 None;
  e32_iclass 1 (Some "Iclass_xt_iclass_xsr_atomctl_args") 2 (Some "Iclass_xt_iclass_xsr_atomctl_stateArgs") 0 None;
  e32_iclass 3 (Some "Iclass_xt_iclass_div_args") 0 None 0 None;
  e32_iclass 2 (Some "Iclass_xt_iclass_rer_args") 1 (Some "Iclass_xt_iclass_rer_stateArgs") 2 (Some "Iclass_xt_iclass_rer_intfArgs");
  e32_iclass 2 (Some "Iclass_xt_iclass_wer_args") 1 (Some "Iclass_xt_iclass_wer_stateArgs") 2 (Some "Iclass_xt_iclass_wer_intfArgs");
  e32_iclass 5 (Some "Iclass_iclass_F64ITER_args") 2 (Some "Iclass_iclass_F64ITER_stateArgs") 0 None;
  e32_iclass 4 (Some "Iclass_iclass_F64RND_args") 2 (Some "Iclass_iclass_F64RND_stateArgs") 0 None;
  e32_iclass 4 (Some "Iclass_iclass_F64ADDC_F64SUBC_args") 1 (Some "Iclass_iclass_F64ADDC_F64SUBC_stateArgs") 0 None;
  e32_iclass 2 (Some "Iclass_iclass_F64SIG_args") 0 None 0 None;
  e32_iclass 3 (Some "Iclass_iclass_F64CMPL_args") 1 (Some "Iclass_iclass_F64CMPL_stateArgs") 0 None;
  e32_iclass 4 (Some "Iclass_iclass_F64CMPH_args") 3 (Some "Iclass_iclass_F64CMPH_stateArgs") 0 None;
  e32_iclass 4 (Some "Iclass_iclass_F64NORM_args") 2 (Some "Iclass_iclass_F64NORM_stateArgs") 0 None;
  e32_iclass 3 (Some "Iclass_iclass_F64SEXP_args") 0 None 0 None;
  e32_iclass 2 (Some "Iclass_iclass_RF64R_args") 1 (Some "Iclass_iclass_RF64R_stateArgs") 0 None;
  e32_iclass 3 (Some "Iclass_iclass_WF64R_args") 1 (Some "Iclass_iclass_WF64R_stateArgs") 0 None;
  e32_iclass 1 (Some "Iclass_rur_f64r_lo_args") 1 (Some "Iclass_rur_f64r_lo_stateArgs") 0 None].

Definition e32_iclasses_6 : list xtensa_iclass_internal := [
  e32_iclass 1 (Some "Iclass_wur_f64r_lo_args") 1 (Some "Iclass_wur_f64r_lo_stateArgs") 0 None;
  e32_iclass 1 (Some "Iclass_rur_f64r_hi_args") 1 (Some "Iclass_rur_f64r_hi_stateArgs") 0 None;
  e32_iclass 1 (Some "Iclass_wur_f64r_hi_args") 1 (Some "Iclass_wur_f64r_hi_stateArgs") 0 None;
  e32_iclass 1 (Some "Iclass_rur_f64s_args") 1 (Some "Iclass_rur_f64s_stateArgs") 0 None;
  e32_iclass 1 (Some "Iclass_wur_f64s_args") 1 (Some "Iclass_wur_f64s_stateArgs") 0 None;
  e32_iclass 1 (Some "Iclass_rur_fcr_args") 9 (Some "Iclass_rur_fcr_stateArgs") 0 None;
  e32_iclass 1 (Some "Iclass_wur_fcr_args") 9 (Some "Iclass_wur_fcr_stateArgs") 0 None;
  e32_iclass 1 (Some "Iclass_rur_fsr_args") 8 (Some "Iclass_rur_fsr_stateArgs") 0 None;
  e32_iclass 1 (Some "Iclass_wur_fsr_args") 8 (Some "Iclass_wur_fsr_stateArgs") 0 None;
  e32_iclass 1 (Some "Iclass_rur_expstate_args") 1 (Some "Iclass_rur_expstate_stateArgs") 0 None;
  e32_iclass 1 (Some "Iclass_wur_expstate_args") 1 (Some "Iclass_wur_expstate_stateArgs") 0 None;
  e32_iclass 1 (Some "Iclass_iclass_READ_IMPWIRE_args") 0 None 1 (Some "Iclass_iclass_READ_IMPWIRE_intfArgs");
  e32_iclass 1 (Some "Iclass_iclass_SETB_EXPSTATE_args") 1 (Some "Iclass_iclass_SETB_EXPSTATE_stateArgs") 0 None;
  e32_iclass 1 (Some "Iclass_iclass_CLRB_EXPSTATE_args") 1 (Some "Iclass_iclass_CLRB_EXPSTATE_stateArgs") 0 None;
  e32_iclass 2 (Some "Iclass_iclass_WRMSK_EXPSTATE_args") 1 (Some "Iclass_iclass_WRMSK_EXPSTATE_stateArgs") 0 None].

Definition e32_iclasses : list xtensa_iclass_internal := Eval vm_compute in
  e32_iclasses_1 ++ e32_iclasses_2 ++ e32_iclasses_3 ++ e32_iclasses_4 ++ e32_iclasses_5 ++ e32_iclasses_6.

(** ** Register files, states, special registers, interfaces *)

Definition e32_regfiles : list xtensa_regfile_internal := [mkRegfile "AR" "a" REGFILE_AR 32 64;
   mkRegfile "MR" "m" REGFILE_MR 32 4; mkRegfile "BR" "b" REGFILE_BR 1 16;
   mkRegfile "FR" "f" REGFILE_FR 32 16; mkRegfile "BR2" "b" REGFILE_BR 2 8;
   mkRegfile "BR4" "b" REGFILE_BR 4 4; mkRegfile "BR8" "b" REGFILE_BR 8 2;
   mkRegfile "BR16" "b" REGFILE_BR 16 1].

Definition e32_states : list xtensa_state_internal := [mkState "LCOUNT" 32 0; mkState "PC" 32 0;
   mkState "ICOUNT" 32 0; mkState "DDR" 32 0; mkState "INTERRUPT" 32 0; mkState "CCOUNT" 32 0;
   mkState "XTSYNC" 1 0; mkState "VECBASE" 22 0; mkState "EPC1" 32 0; mkState "EPC2" 32 0;
   mkState "EPC3" 32 0; mkState "EPC4" 32 0; mkState "EPC5" 32 0; mkState "EPC6" 32 0; mkState "EPC7" 32 0;
   mkState "EXCSAVE1" 32 0; mkState "EXCSAVE2" 32 0; mkState "EXCSAVE3" 32 0; mkState "EXCSAVE4" 32 0;
   mkState "EXCSAVE5" 32 0; mkState "EXCSAVE6" 32 0; mkState "EXCSAVE7" 32 0; mkState "EPS2" 13 0;
   mkState "EPS3" 13 0; mkState "EPS4" 13 0; mkState "EPS5" 13 0; mkState "EPS6" 13 0; mkState "EPS7" 13 0;
   mkState "EXCCAUSE" 6 0; mkState "PSINTLEVEL" 4 0; mkState "PSUM" 1 0; mkState "PSWOE" 1 0;
   mkState "PSEXCM" 1 0; mkState "DEPC" 32 0; mkState "EXCVADDR" 32 0; mkState "WindowBase" 4 0;
   mkState "WindowStart" 16 0; mkState "PSCALLINC" 2 0; mkState "PSOWB" 4 0; mkState "LBEG" 32 0;
   mkState "LEND" 32 0; mkState "MEMCTL" 1 0; mkState "SAR" 6 0; mkState "THREADPTR" 32 0;
   mkState "MISC0" 32 0; mkState "MISC1" 32 0; mkState "MISC2" 32 0; mkState "MISC3" 32 0;
   mkState "ACC" 40 0; mkState "InOCDMode" 1 0; mkState "INTENABLE" 32 0; mkState "DBREAKA0" 32 0;
   mkState "DBREAKC0" 8 0; mkState "DBREAKA1" 32 0; mkState "DBREAKC1" 8 0; mkState "IBREAKA0" 32 0;
   mkState "IBREAKA1" 32 0; mkState "IBREAKENABLE" 2 0; mkState "ICOUNTLEVEL" 4 0;
   mkState "DEBUGCAUSE" 6 0; mkState "DBNUM" 4 0; mkState "CCOMPARE0" 32 0; mkState "CCOMPARE1" 32 0;
   mkState "CCOMPARE2" 32 0; mkState "CPENABLE" 8 0; mkState "SCOMPARE1" 32 0; mkState "ATOMCTL" 6 0;
   mkState "ERI_RAW_INTERLOCK" 1 0; mkState "F64R" 64 0; mkState "F64S" 32 0; mkState "RoundMode" 2 0;
   mkState "InvalidEnable" 1 0; mkState "DivZeroEnable" 1 0; mkState "OverflowEnable" 1 0;
   mkState "UnderflowEnable" 1 0; mkState "InexactEnable" 1 0;
   mkState "InvalidFlag" 1 XTENSA_STATE_IS_SHARED_OR; mkState "DivZeroFlag" 1 XTENSA_STATE_IS_SHARED_OR;
   mkState "OverflowFlag" 1 XTENSA_STATE_IS_SHARED_OR; mkState "UnderflowFlag" 1 XTENSA_STATE_IS_SHARED_OR;
   mkState "InexactFlag" 1 XTENSA_STATE_IS_SHARED_OR; mkState "FPreserved20" 20 0;
   mkState "FPreserved20a" 20 0; mkState "FPreserved5" 5 0; mkState "FPreserved7" 7 0;
   mkState "EXPSTATE" 32 XTENSA_STATE_IS_EXPORTED].

Definition e32_sysregs : list xtensa_sysreg_internal := [mkSysreg "LBEG" 0 0; mkSysreg "LEND" 1 0;
   mkSysreg "LCOUNT" 2 0; mkSysreg "BR" 4 0; mkSysreg "ACCLO" 16 0; mkSysreg "ACCHI" 17 0;
   mkSysreg "M0" 32 0; mkSysreg "M1" 33 0; mkSysreg "M2" 34 0; mkSysreg "M3" 35 0; mkSysreg "MMID" 89 0;
   mkSysreg "DDR" 104 0; mkSysreg "CONFIGID0" 176 0; mkSysreg "CONFIGID1" 208 0;
   mkSysreg "INTERRUPT" 226 0; mkSysreg "INTCLEAR" 227 0; mkSysreg "CCOUNT" 234 0; mkSysreg "PRID" 235 0;
   mkSysreg "ICOUNT" 236 0; mkSysreg "CCOMPARE0" 240 0; mkSysreg "CCOMPARE1" 241 0;
   mkSysreg "CCOMPARE2" 242 0; mkSysreg "VECBASE" 231 0; mkSysreg "EPC1" 177 0; mkSysreg "EPC2" 178 0;
   mkSysreg "EPC3" 179 0; mkSysreg "EPC4" 180 0; mkSysreg "EPC5" 181 0; mkSysreg "EPC6" 182 0;
   mkSysreg "EPC7" 183 0; mkSysreg "EXCSAVE1" 209 0; mkSysreg "EXCSAVE2" 210 0; mkSysreg "EXCSAVE3" 211 0;
   mkSysreg "EXCSAVE4" 212 0; mkSysreg "EXCSAVE5" 213 0; mkSysreg "EXCSAVE6" 214 0;
   mkSysreg "EXCSAVE7" 215 0; mkSysreg "EPS2" 194 0; mkSysreg "EPS3" 195 0; mkSysreg "EPS4" 196 0;
   mkSysreg "EPS5" 197 0; mkSysreg "EPS6" 198 0; mkSysreg "EPS7" 199 0; mkSysreg "EXCCAUSE" 232 0;
   mkSysreg "DEPC" 192 0; mkSysreg "EXCVADDR" 238 0; mkSysreg "WINDOWBASE" 72 0;
   mkSysreg "WINDOWSTART" 73 0; mkSysreg "MEMCTL" 97 0; mkSysreg "SAR" 3 0; mkSysreg "PS" 230 0;
   mkSysreg "MISC0" 244 0; mkSysreg "MISC1" 245 0; mkSysreg "MISC2" 246 0; mkSysreg "MISC3" 247 0;
   mkSysreg "INTENABLE" 228 0; mkSysreg "DBREAKA0" 144 0; mkSysreg "DBREAKC0" 160 0;
   mkSysreg "DBREAKA1" 145 0; mkSysreg "DBREAKC1" 161 0; mkSysreg "IBREAKA0" 128 0;
   mkSysreg "IBREAKA1" 129 0; mkSysreg "IBREAKENABLE" 96 0; mkSysreg "ICOUNTLEVEL" 237 0;
   mkSysreg "DEBUGCAUSE" 233 0; mkSysreg "CPENABLE" 224 0; mkSysreg "SCOMPARE1" 12 0;
   mkSysreg "ATOMCTL" 99 0; mkSysreg "THREADPTR" 231 1; mkSysreg "F64R_LO" 234 1; mkSysreg "F64R_HI" 235 1;
   mkSysreg "F64S" 236 1; mkSysreg "FCR" 232 1; mkSysreg "FSR" 233 1; mkSysreg "EXPSTATE" 230 1].

Definition e32_interfaces : list xtensa_interface_internal := [mkInterface "ERI_RD_Out" 14 0 0 "o";
   mkInterface "ERI_RD_In" 32 0 1 "i"; mkInterface "ERI_RD_Rdy" 1 0 0 "i";
   mkInterface "ERI_WR_Out" 46 0 2 "o"; mkInterface "ERI_WR_In" 1 0 3 "i"; mkInterface "IMPWIRE" 32 0 4 "i"].

