(* ===== verification/E32Opcodes.v ===== *)
(** * ESP32 ISA module: opcodes ([target/xtensa/core-esp32/xtensa-modules.inc.c])

    The template word of every opcode in every slot that has it, the tables of
    the templates of an opcode by slot, and the opcode table. *)

From S2P Require Import Prelude Isa IsaPattern IsaAsm IsaModule.

(** ** [xtensa_iclass_id] *)

Abbreviation ICLASS_LSI := 0 (only parsing).
Abbreviation ICLASS_LSIP := 1 (only parsing).
Abbreviation ICLASS_LSX := 2 (only parsing).
Abbreviation ICLASS_LSXP := 3 (only parsing).
Abbreviation ICLASS_SSI := 4 (only parsing).
Abbreviation ICLASS_SSIP := 5 (only parsing).
Abbreviation ICLASS_SSX := 6 (only parsing).
Abbreviation ICLASS_SSXP := 7 (only parsing).
Abbreviation ICLASS_ABS_S := 8 (only parsing).
Abbreviation ICLASS_NEG_S := 9 (only parsing).
Abbreviation ICLASS_MOV_S := 10 (only parsing).
Abbreviation ICLASS_MOVEQZ_S := 11 (only parsing).
Abbreviation ICLASS_MOVNEZ_S := 12 (only parsing).
Abbreviation ICLASS_MOVLTZ_S := 13 (only parsing).
Abbreviation ICLASS_MOVGEZ_S := 14 (only parsing).
Abbreviation ICLASS_MOVF_S := 15 (only parsing).
Abbreviation ICLASS_MOVT_S := 16 (only parsing).
Abbreviation ICLASS_WFR := 17 (only parsing).
Abbreviation ICLASS_RFR := 18 (only parsing).
Abbreviation ICLASS_ROUND_S := 19 (only parsing).
Abbreviation ICLASS_CEIL_S := 20 (only parsing).
Abbreviation ICLASS_FLOOR_S := 21 (only parsing).
Abbreviation ICLASS_TRUNC_S := 22 (only parsing).
Abbreviation ICLASS_UTRUNC_S := 23 (only parsing).
Abbreviation ICLASS_FLOAT_S := 24 (only parsing).
Abbreviation ICLASS_UFLOAT_S := 25 (only parsing).
Abbreviation ICLASS_UN_S := 26 (only parsing).
Abbreviation ICLASS_ULT_S := 27 (only parsing).
Abbreviation ICLASS_ULE_S := 28 (only parsing).
Abbreviation ICLASS_UEQ_S := 29 (only parsing).
Abbreviation ICLASS_OLT_S := 30 (only parsing).
Abbreviation ICLASS_OLE_S := 31 (only parsing).
Abbreviation ICLASS_OEQ_S := 32 (only parsing).
Abbreviation ICLASS_ADD_S := 33 (only parsing).
Abbreviation ICLASS_SUB_S := 34 (only parsing).
Abbreviation ICLASS_MUL_S := 35 (only parsing).
Abbreviation ICLASS_MADD_S := 36 (only parsing).
Abbreviation ICLASS_MSUB_S := 37 (only parsing).
Abbreviation ICLASS_SQRT0_S := 38 (only parsing).
Abbreviation ICLASS_DIV0_S := 39 (only parsing).
Abbreviation ICLASS_RECIP0_S := 40 (only parsing).
Abbreviation ICLASS_RSQRT0_S := 41 (only parsing).
Abbreviation ICLASS_MADDN_S := 42 (only parsing).
Abbreviation ICLASS_DIVN_S := 43 (only parsing).
Abbreviation ICLASS_CONST_S := 44 (only parsing).
Abbreviation ICLASS_NEXP01_S := 45 (only parsing).
Abbreviation ICLASS_ADDEXP_S := 46 (only parsing).
Abbreviation ICLASS_ADDEXPM_S := 47 (only parsing).
Abbreviation ICLASS_MKDADJ_S := 48 (only parsing).
Abbreviation ICLASS_MKSADJ_S := 49 (only parsing).
Abbreviation ICLASS_xt_iclass_excw := 50 (only parsing).
Abbreviation ICLASS_xt_iclass_rfe := 51 (only parsing).
Abbreviation ICLASS_xt_iclass_rfde := 52 (only parsing).
Abbreviation ICLASS_xt_iclass_syscall := 53 (only parsing).
Abbreviation ICLASS_xt_iclass_call12 := 54 (only parsing).
Abbreviation ICLASS_xt_iclass_call8 := 55 (only parsing).
Abbreviation ICLASS_xt_iclass_call4 := 56 (only parsing).
Abbreviation ICLASS_xt_iclass_callx12 := 57 (only parsing).
Abbreviation ICLASS_xt_iclass_callx8 := 58 (only parsing).
Abbreviation ICLASS_xt_iclass_callx4 := 59 (only parsing).
Abbreviation ICLASS_xt_iclass_entry := 60 (only parsing).
Abbreviation ICLASS_xt_iclass_movsp := 61 (only parsing).
Abbreviation ICLASS_xt_iclass_rotw := 62 (only parsing).
Abbreviation ICLASS_xt_iclass_retw := 63 (only parsing).
Abbreviation ICLASS_xt_iclass_rfwou := 64 (only parsing).
Abbreviation ICLASS_xt_iclass_l32e := 65 (only parsing).
Abbreviation ICLASS_xt_iclass_s32e := 66 (only parsing).
Abbreviation ICLASS_xt_iclass_rsr_windowbase := 67 (only parsing).
Abbreviation ICLASS_xt_iclass_wsr_windowbase := 68 (only parsing).
Abbreviation ICLASS_xt_iclass_xsr_windowbase := 69 (only parsing).
Abbreviation ICLASS_xt_iclass_rsr_windowstart := 70 (only parsing).
Abbreviation ICLASS_xt_iclass_wsr_windowstart := 71 (only parsing).
Abbreviation ICLASS_xt_iclass_xsr_windowstart := 72 (only parsing).
Abbreviation ICLASS_xt_iclass_add_n := 73 (only parsing).
Abbreviation ICLASS_xt_iclass_addi_n := 74 (only parsing).
Abbreviation ICLASS_xt_iclass_bz6 := 75 (only parsing).
Abbreviation ICLASS_xt_iclass_ill_n := 76 (only parsing).
Abbreviation ICLASS_xt_iclass_loadi4 := 77 (only parsing).
Abbreviation ICLASS_xt_iclass_mov_n := 78 (only parsing).
Abbreviation ICLASS_xt_iclass_movi_n := 79 (only parsing).
Abbreviation ICLASS_xt_iclass_nopn := 80 (only parsing).
Abbreviation ICLASS_xt_iclass_retn := 81 (only parsing).
Abbreviation ICLASS_xt_iclass_storei4 := 82 (only parsing).
Abbreviation ICLASS_rur_threadptr := 83 (only parsing).
Abbreviation ICLASS_wur_threadptr := 84 (only parsing).
Abbreviation ICLASS_xt_iclass_addi := 85 (only parsing).
Abbreviation ICLASS_xt_iclass_addmi := 86 (only parsing).
Abbreviation ICLASS_xt_iclass_addsub := 87 (only parsing).
Abbreviation ICLASS_xt_iclass_bit := 88 (only parsing).
Abbreviation ICLASS_xt_iclass_bsi8 := 89 (only parsing).
Abbreviation ICLASS_xt_iclass_bsi8b := 90 (only parsing).
Abbreviation ICLASS_xt_iclass_bsi8u := 91 (only parsing).
Abbreviation ICLASS_xt_iclass_bst8 := 92 (only parsing).
Abbreviation ICLASS_xt_iclass_bsz12 := 93 (only parsing).
Abbreviation ICLASS_xt_iclass_call0 := 94 (only parsing).
Abbreviation ICLASS_xt_iclass_callx0 := 95 (only parsing).
Abbreviation ICLASS_xt_iclass_exti := 96 (only parsing).
Abbreviation ICLASS_xt_iclass_ill := 97 (only parsing).
Abbreviation ICLASS_xt_iclass_jump := 98 (only parsing).
Abbreviation ICLASS_xt_iclass_jumpx := 99 (only parsing).
Abbreviation ICLASS_xt_iclass_l16ui := 100 (only parsing).
Abbreviation ICLASS_xt_iclass_l16si := 101 (only parsing).
Abbreviation ICLASS_xt_iclass_l32i := 102 (only parsing).
Abbreviation ICLASS_xt_iclass_l32r := 103 (only parsing).
Abbreviation ICLASS_xt_iclass_l8i := 104 (only parsing).
Abbreviation ICLASS_xt_iclass_loop := 105 (only parsing).
Abbreviation ICLASS_xt_iclass_loopz := 106 (only parsing).
Abbreviation ICLASS_xt_iclass_movi := 107 (only parsing).
Abbreviation ICLASS_xt_iclass_movz := 108 (only parsing).
Abbreviation ICLASS_xt_iclass_neg := 109 (only parsing).
Abbreviation ICLASS_xt_iclass_nop := 110 (only parsing).
Abbreviation ICLASS_xt_iclass_return := 111 (only parsing).
Abbreviation ICLASS_xt_iclass_simcall := 112 (only parsing).
Abbreviation ICLASS_xt_iclass_s16i := 113 (only parsing).
Abbreviation ICLASS_xt_iclass_s32i := 114 (only parsing).
Abbreviation ICLASS_xt_iclass_s32nb := 115 (only parsing).
Abbreviation ICLASS_xt_iclass_s8i := 116 (only parsing).
Abbreviation ICLASS_xt_iclass_sar := 117 (only parsing).
Abbreviation ICLASS_xt_iclass_sari := 118 (only parsing).
Abbreviation ICLASS_xt_iclass_shifts := 119 (only parsing).
Abbreviation ICLASS_xt_iclass_shiftst := 120 (only parsing).
Abbreviation ICLASS_xt_iclass_shiftt := 121 (only parsing).
Abbreviation ICLASS_xt_iclass_slli := 122 (only parsing).
Abbreviation ICLASS_xt_iclass_srai := 123 (only parsing).
Abbreviation ICLASS_xt_iclass_srli := 124 (only parsing).
Abbreviation ICLASS_xt_iclass_memw := 125 (only parsing).
Abbreviation ICLASS_xt_iclass_extw := 126 (only parsing).
Abbreviation ICLASS_xt_iclass_isync := 127 (only parsing).
Abbreviation ICLASS_xt_iclass_sync := 128 (only parsing).
Abbreviation ICLASS_xt_iclass_rsil := 129 (only parsing).
Abbreviation ICLASS_xt_iclass_rsr_lend := 130 (only parsing).
Abbreviation ICLASS_xt_iclass_wsr_lend := 131 (only parsing).
Abbreviation ICLASS_xt_iclass_xsr_lend := 132 (only parsing).
Abbreviation ICLASS_xt_iclass_rsr_lcount := 133 (only parsing).
Abbreviation ICLASS_xt_iclass_wsr_lcount := 134 (only parsing).
Abbreviation ICLASS_xt_iclass_xsr_lcount := 135 (only parsing).
Abbreviation ICLASS_xt_iclass_rsr_lbeg := 136 (only parsing).
Abbreviation ICLASS_xt_iclass_wsr_lbeg := 137 (only parsing).
Abbreviation ICLASS_xt_iclass_xsr_lbeg := 138 (only parsing).
Abbreviation ICLASS_xt_iclass_rsr_sar := 139 (only parsing).
Abbreviation ICLASS_xt_iclass_wsr_sar := 140 (only parsing).
Abbreviation ICLASS_xt_iclass_xsr_sar := 141 (only parsing).
Abbreviation ICLASS_xt_iclass_rsr_memctl := 142 (only parsing).
Abbreviation ICLASS_xt_iclass_wsr_memctl := 143 (only parsing).
Abbreviation ICLASS_xt_iclass_xsr_memctl := 144 (only parsing).
Abbreviation ICLASS_xt_iclass_rsr_litbase := 145 (only parsing).
Abbreviation ICLASS_xt_iclass_wsr_litbase := 146 (only parsing).
Abbreviation ICLASS_xt_iclass_xsr_litbase := 147 (only parsing).
Abbreviation ICLASS_xt_iclass_rsr_configid0 := 148 (only parsing).
Abbreviation ICLASS_xt_iclass_wsr_configid0 := 149 (only parsing).
Abbreviation ICLASS_xt_iclass_rsr_configid1 := 150 (only parsing).
Abbreviation ICLASS_xt_iclass_rsr_ps := 151 (only parsing).
Abbreviation ICLASS_xt_iclass_wsr_ps := 152 (only parsing).
Abbreviation ICLASS_xt_iclass_xsr_ps := 153 (only parsing).
Abbreviation ICLASS_xt_iclass_rsr_epc1 := 154 (only parsing).
Abbreviation ICLASS_xt_iclass_wsr_epc1 := 155 (only parsing).
Abbreviation ICLASS_xt_iclass_xsr_epc1 := 156 (only parsing).
Abbreviation ICLASS_xt_iclass_rsr_excsave1 := 157 (only parsing).
Abbreviation ICLASS_xt_iclass_wsr_excsave1 := 158 (only parsing).
Abbreviation ICLASS_xt_iclass_xsr_excsave1 := 159 (only parsing).
Abbreviation ICLASS_xt_iclass_rsr_epc2 := 160 (only parsing).
Abbreviation ICLASS_xt_iclass_wsr_epc2 := 161 (only parsing).
Abbreviation ICLASS_xt_iclass_xsr_epc2 := 162 (only parsing).
Abbreviation ICLASS_xt_iclass_rsr_excsave2 := 163 (only parsing).
Abbreviation ICLASS_xt_iclass_wsr_excsave2 := 164 (only parsing).
Abbreviation ICLASS_xt_iclass_xsr_excsave2 := 165 (only parsing).
Abbreviation ICLASS_xt_iclass_rsr_epc3 := 166 (only parsing).
Abbreviation ICLASS_xt_iclass_wsr_epc3 := 167 (only parsing).
Abbreviation ICLASS_xt_iclass_xsr_epc3 := 168 (only parsing).
Abbreviation ICLASS_xt_iclass_rsr_excsave3 := 169 (only parsing).
Abbreviation ICLASS_xt_iclass_wsr_excsave3 := 170 (only parsing).
Abbreviation ICLASS_xt_iclass_xsr_excsave3 := 171 (only parsing).
Abbreviation ICLASS_xt_iclass_rsr_epc4 := 172 (only parsing).
Abbreviation ICLASS_xt_iclass_wsr_epc4 := 173 (only parsing).
Abbreviation ICLASS_xt_iclass_xsr_epc4 := 174 (only parsing).
Abbreviation ICLASS_xt_iclass_rsr_excsave4 := 175 (only parsing).
Abbreviation ICLASS_xt_iclass_wsr_excsave4 := 176 (only parsing).
Abbreviation ICLASS_xt_iclass_xsr_excsave4 := 177 (only parsing).
Abbreviation ICLASS_xt_iclass_rsr_epc5 := 178 (only parsing).
Abbreviation ICLASS_xt_iclass_wsr_epc5 := 179 (only parsing).
Abbreviation ICLASS_xt_iclass_xsr_epc5 := 180 (only parsing).
Abbreviation ICLASS_xt_iclass_rsr_excsave5 := 181 (only parsing).
Abbreviation ICLASS_xt_iclass_wsr_excsave5 := 182 (only parsing).
Abbreviation ICLASS_xt_iclass_xsr_excsave5 := 183 (only parsing).
Abbreviation ICLASS_xt_iclass_rsr_epc6 := 184 (only parsing).
Abbreviation ICLASS_xt_iclass_wsr_epc6 := 185 (only parsing).
Abbreviation ICLASS_xt_iclass_xsr_epc6 := 186 (only parsing).
Abbreviation ICLASS_xt_iclass_rsr_excsave6 := 187 (only parsing).
Abbreviation ICLASS_xt_iclass_wsr_excsave6 := 188 (only parsing).
Abbreviation ICLASS_xt_iclass_xsr_excsave6 := 189 (only parsing).
Abbreviation ICLASS_xt_iclass_rsr_epc7 := 190 (only parsing).
Abbreviation ICLASS_xt_iclass_wsr_epc7 := 191 (only parsing).
Abbreviation ICLASS_xt_iclass_xsr_epc7 := 192 (only parsing).
Abbreviation ICLASS_xt_iclass_rsr_excsave7 := 193 (only parsing).
Abbreviation ICLASS_xt_iclass_wsr_excsave7 := 194 (only parsing).
Abbreviation ICLASS_xt_iclass_xsr_excsave7 := 195 (only parsing).
Abbreviation ICLASS_xt_iclass_rsr_eps2 := 196 (only parsing).
Abbreviation ICLASS_xt_iclass_wsr_eps2 := 197 (only parsing).
Abbreviation ICLASS_xt_iclass_xsr_eps2 := 198 (only parsing).
Abbreviation ICLASS_xt_iclass_rsr_eps3 := 199 (only parsing).
Abbreviation ICLASS_xt_iclass_wsr_eps3 := 200 (only parsing).
Abbreviation ICLASS_xt_iclass_xsr_eps3 := 201 (only parsing).
Abbreviation ICLASS_xt_iclass_rsr_eps4 := 202 (only parsing).
Abbreviation ICLASS_xt_iclass_wsr_eps4 := 203 (only parsing).
Abbreviation ICLASS_xt_iclass_xsr_eps4 := 204 (only parsing).
Abbreviation ICLASS_xt_iclass_rsr_eps5 := 205 (only parsing).
Abbreviation ICLASS_xt_iclass_wsr_eps5 := 206 (only parsing).
Abbreviation ICLASS_xt_iclass_xsr_eps5 := 207 (only parsing).
Abbreviation ICLASS_xt_iclass_rsr_eps6 := 208 (only parsing).
Abbreviation ICLASS_xt_iclass_wsr_eps6 := 209 (only parsing).
Abbreviation ICLASS_xt_iclass_xsr_eps6 := 210 (only parsing).
Abbreviation ICLASS_xt_iclass_rsr_eps7 := 211 (only parsing).
Abbreviation ICLASS_xt_iclass_wsr_eps7 := 212 (only parsing).
Abbreviation ICLASS_xt_iclass_xsr_eps7 := 213 (only parsing).
Abbreviation ICLASS_xt_iclass_rsr_excvaddr := 214 (only parsing).
Abbreviation ICLASS_xt_iclass_wsr_excvaddr := 215 (only parsing).
Abbreviation ICLASS_xt_iclass_xsr_excvaddr := 216 (only parsing).
Abbreviation ICLASS_xt_iclass_rsr_depc := 217 (only parsing).
Abbreviation ICLASS_xt_iclass_wsr_depc := 218 (only parsing).
Abbreviation ICLASS_xt_iclass_xsr_depc := 219 (only parsing).
Abbreviation ICLASS_xt_iclass_rsr_exccause := 220 (only parsing).
Abbreviation ICLASS_xt_iclass_wsr_exccause := 221 (only parsing).
Abbreviation ICLASS_xt_iclass_xsr_exccause := 222 (only parsing).
Abbreviation ICLASS_xt_iclass_rsr_misc0 := 223 (only parsing).
Abbreviation ICLASS_xt_iclass_wsr_misc0 := 224 (only parsing).
Abbreviation ICLASS_xt_iclass_xsr_misc0 := 225 (only parsing).
Abbreviation ICLASS_xt_iclass_rsr_misc1 := 226 (only parsing).
Abbreviation ICLASS_xt_iclass_wsr_misc1 := 227 (only parsing).
Abbreviation ICLASS_xt_iclass_xsr_misc1 := 228 (only parsing).
Abbreviation ICLASS_xt_iclass_rsr_misc2 := 229 (only parsing).
Abbreviation ICLASS_xt_iclass_wsr_misc2 := 230 (only parsing).
Abbreviation ICLASS_xt_iclass_xsr_misc2 := 231 (only parsing).
Abbreviation ICLASS_xt_iclass_rsr_misc3 := 232 (only parsing).
Abbreviation ICLASS_xt_iclass_wsr_misc3 := 233 (only parsing).
Abbreviation ICLASS_xt_iclass_xsr_misc3 := 234 (only parsing).
Abbreviation ICLASS_xt_iclass_rsr_prid := 235 (only parsing).
Abbreviation ICLASS_xt_iclass_rsr_vecbase := 236 (only parsing).
Abbreviation ICLASS_xt_iclass_wsr_vecbase := 237 (only parsing).
Abbreviation ICLASS_xt_iclass_xsr_vecbase := 238 (only parsing).
Abbreviation ICLASS_xt_mul16 := 239 (only parsing).
Abbreviation ICLASS_xt_mul32 := 240 (only parsing).
Abbreviation ICLASS_xt_mul32h := 241 (only parsing).
Abbreviation ICLASS_xt_iclass_mac16_aa := 242 (only parsing).
Abbreviation ICLASS_xt_iclass_mac16_ad := 243 (only parsing).
Abbreviation ICLASS_xt_iclass_mac16_da := 244 (only parsing).
Abbreviation ICLASS_xt_iclass_mac16_dd := 245 (only parsing).
Abbreviation ICLASS_xt_iclass_mac16a_aa := 246 (only parsing).
Abbreviation ICLASS_xt_iclass_mac16a_ad := 247 (only parsing).
Abbreviation ICLASS_xt_iclass_mac16a_da := 248 (only parsing).
Abbreviation ICLASS_xt_iclass_mac16a_dd := 249 (only parsing).
Abbreviation ICLASS_xt_iclass_mac16al_da := 250 (only parsing).
Abbreviation ICLASS_xt_iclass_mac16al_dd := 251 (only parsing).
Abbreviation ICLASS_xt_iclass_mac16_l := 252 (only parsing).
Abbreviation ICLASS_xt_iclass_rsr_m0 := 253 (only parsing).
Abbreviation ICLASS_xt_iclass_wsr_m0 := 254 (only parsing).
Abbreviation ICLASS_xt_iclass_xsr_m0 := 255 (only parsing).
Abbreviation ICLASS_xt_iclass_rsr_m1 := 256 (only parsing).
Abbreviation ICLASS_xt_iclass_wsr_m1 := 257 (only parsing).
Abbreviation ICLASS_xt_iclass_xsr_m1 := 258 (only parsing).
Abbreviation ICLASS_xt_iclass_rsr_m2 := 259 (only parsing).
Abbreviation ICLASS_xt_iclass_wsr_m2 := 260 (only parsing).
Abbreviation ICLASS_xt_iclass_xsr_m2 := 261 (only parsing).
Abbreviation ICLASS_xt_iclass_rsr_m3 := 262 (only parsing).
Abbreviation ICLASS_xt_iclass_wsr_m3 := 263 (only parsing).
Abbreviation ICLASS_xt_iclass_xsr_m3 := 264 (only parsing).
Abbreviation ICLASS_xt_iclass_rsr_acclo := 265 (only parsing).
Abbreviation ICLASS_xt_iclass_wsr_acclo := 266 (only parsing).
Abbreviation ICLASS_xt_iclass_xsr_acclo := 267 (only parsing).
Abbreviation ICLASS_xt_iclass_rsr_acchi := 268 (only parsing).
Abbreviation ICLASS_xt_iclass_wsr_acchi := 269 (only parsing).
Abbreviation ICLASS_xt_iclass_xsr_acchi := 270 (only parsing).
Abbreviation ICLASS_xt_iclass_rfi := 271 (only parsing).
Abbreviation ICLASS_xt_iclass_wait := 272 (only parsing).
Abbreviation ICLASS_xt_iclass_rsr_interrupt := 273 (only parsing).
Abbreviation ICLASS_xt_iclass_wsr_intset := 274 (only parsing).
Abbreviation ICLASS_xt_iclass_wsr_intclear := 275 (only parsing).
Abbreviation ICLASS_xt_iclass_rsr_intenable := 276 (only parsing).
Abbreviation ICLASS_xt_iclass_wsr_intenable := 277 (only parsing).
Abbreviation ICLASS_xt_iclass_xsr_intenable := 278 (only parsing).
Abbreviation ICLASS_xt_iclass_break := 279 (only parsing).
Abbreviation ICLASS_xt_iclass_break_n := 280 (only parsing).
Abbreviation ICLASS_xt_iclass_rsr_dbreaka0 := 281 (only parsing).
Abbreviation ICLASS_xt_iclass_wsr_dbreaka0 := 282 (only parsing).
Abbreviation ICLASS_xt_iclass_xsr_dbreaka0 := 283 (only parsing).
Abbreviation ICLASS_xt_iclass_rsr_dbreakc0 := 284 (only parsing).
Abbreviation ICLASS_xt_iclass_wsr_dbreakc0 := 285 (only parsing).
Abbreviation ICLASS_xt_iclass_xsr_dbreakc0 := 286 (only parsing).
Abbreviation ICLASS_xt_iclass_rsr_dbreaka1 := 287 (only parsing).
Abbreviation ICLASS_xt_iclass_wsr_dbreaka1 := 288 (only parsing).
Abbreviation ICLASS_xt_iclass_xsr_dbreaka1 := 289 (only parsing).
Abbreviation ICLASS_xt_iclass_rsr_dbreakc1 := 290 (only parsing).
Abbreviation ICLASS_xt_iclass_wsr_dbreakc1 := 291 (only parsing).
Abbreviation ICLASS_xt_iclass_xsr_dbreakc1 := 292 (only parsing).
Abbreviation ICLASS_xt_iclass_rsr_ibreaka0 := 293 (only parsing).
Abbreviation ICLASS_xt_iclass_wsr_ibreaka0 := 294 (only parsing).
Abbreviation ICLASS_xt_iclass_xsr_ibreaka0 := 295 (only parsing).
Abbreviation ICLASS_xt_iclass_rsr_ibreaka1 := 296 (only parsing).
Abbreviation ICLASS_xt_iclass_wsr_ibreaka1 := 297 (only parsing).
Abbreviation ICLASS_xt_iclass_xsr_ibreaka1 := 298 (only parsing).
Abbreviation ICLASS_xt_iclass_rsr_ibreakenable := 299 (only parsing).
Abbreviation ICLASS_xt_iclass_wsr_ibreakenable := 300 (only parsing).
Abbreviation ICLASS_xt_iclass_xsr_ibreakenable := 301 (only parsing).
Abbreviation ICLASS_xt_iclass_rsr_debugcause := 302 (only parsing).
Abbreviation ICLASS_xt_iclass_wsr_debugcause := 303 (only parsing).
Abbreviation ICLASS_xt_iclass_xsr_debugcause := 304 (only parsing).
Abbreviation ICLASS_xt_iclass_rsr_icount := 305 (only parsing).
Abbreviation ICLASS_xt_iclass_wsr_icount := 306 (only parsing).
Abbreviation ICLASS_xt_iclass_xsr_icount := 307 (only parsing).
Abbreviation ICLASS_xt_iclass_rsr_icountlevel := 308 (only parsing).
Abbreviation ICLASS_xt_iclass_wsr_icountlevel := 309 (only parsing).
Abbreviation ICLASS_xt_iclass_xsr_icountlevel := 310 (only parsing).
Abbreviation ICLASS_xt_iclass_rsr_ddr := 311 (only parsing).
Abbreviation ICLASS_xt_iclass_wsr_ddr := 312 (only parsing).
Abbreviation ICLASS_xt_iclass_xsr_ddr := 313 (only parsing).
Abbreviation ICLASS_xt_iclass_lddr32_p := 314 (only parsing).
Abbreviation ICLASS_xt_iclass_sddr32_p := 315 (only parsing).
Abbreviation ICLASS_xt_iclass_rfdo := 316 (only parsing).
Abbreviation ICLASS_xt_iclass_rfdd := 317 (only parsing).
Abbreviation ICLASS_xt_iclass_wsr_mmid := 318 (only parsing).
Abbreviation ICLASS_xt_iclass_bbool1 := 319 (only parsing).
Abbreviation ICLASS_xt_iclass_bbool4 := 320 (only parsing).
Abbreviation ICLASS_xt_iclass_bbool8 := 321 (only parsing).
Abbreviation ICLASS_xt_iclass_bbranch := 322 (only parsing).
Abbreviation ICLASS_xt_iclass_bmove := 323 (only parsing).
Abbreviation ICLASS_xt_iclass_RSR_BR := 324 (only parsing).
Abbreviation ICLASS_xt_iclass_WSR_BR := 325 (only parsing).
Abbreviation ICLASS_xt_iclass_XSR_BR := 326 (only parsing).
Abbreviation ICLASS_xt_iclass_rsr_ccount := 327 (only parsing).
Abbreviation ICLASS_xt_iclass_wsr_ccount := 328 (only parsing).
Abbreviation ICLASS_xt_iclass_xsr_ccount := 329 (only parsing).
Abbreviation ICLASS_xt_iclass_rsr_ccompare0 := 330 (only parsing).
Abbreviation ICLASS_xt_iclass_wsr_ccompare0 := 331 (only parsing).
Abbreviation ICLASS_xt_iclass_xsr_ccompare0 := 332 (only parsing).
Abbreviation ICLASS_xt_iclass_rsr_ccompare1 := 333 (only parsing).
Abbreviation ICLASS_xt_iclass_wsr_ccompare1 := 334 (only parsing).
Abbreviation ICLASS_xt_iclass_xsr_ccompare1 := 335 (only parsing).
Abbreviation ICLASS_xt_iclass_rsr_ccompare2 := 336 (only parsing).
Abbreviation ICLASS_xt_iclass_wsr_ccompare2 := 337 (only parsing).
Abbreviation ICLASS_xt_iclass_xsr_ccompare2 := 338 (only parsing).
Abbreviation ICLASS_xt_iclass_idtlb := 339 (only parsing).
Abbreviation ICLASS_xt_iclass_rdtlb := 340 (only parsing).
Abbreviation ICLASS_xt_iclass_wdtlb := 341 (only parsing).
Abbreviation ICLASS_xt_iclass_iitlb := 342 (only parsing).
Abbreviation ICLASS_xt_iclass_ritlb := 343 (only parsing).
Abbreviation ICLASS_xt_iclass_witlb := 344 (only parsing).
Abbreviation ICLASS_xt_iclass_rsr_cpenable := 345 (only parsing).
Abbreviation ICLASS_xt_iclass_wsr_cpenable := 346 (only parsing).
Abbreviation ICLASS_xt_iclass_xsr_cpenable := 347 (only parsing).
Abbreviation ICLASS_xt_iclass_clamp := 348 (only parsing).
Abbreviation ICLASS_xt_iclass_minmax := 349 (only parsing).
Abbreviation ICLASS_xt_iclass_nsa := 350 (only parsing).
Abbreviation ICLASS_xt_iclass_sx := 351 (only parsing).
Abbreviation ICLASS_xt_iclass_l32ai := 352 (only parsing).
Abbreviation ICLASS_xt_iclass_s32ri := 353 (only parsing).
Abbreviation ICLASS_xt_iclass_s32c1i := 354 (only parsing).
Abbreviation ICLASS_xt_iclass_rsr_scompare1 := 355 (only parsing).
Abbreviation ICLASS_xt_iclass_wsr_scompare1 := 356 (only parsing).
Abbreviation ICLASS_xt_iclass_xsr_scompare1 := 357 (only parsing).
Abbreviation ICLASS_xt_iclass_rsr_atomctl := 358 (only parsing).
Abbreviation ICLASS_xt_iclass_wsr_atomctl := 359 (only parsing).
Abbreviation ICLASS_xt_iclass_xsr_atomctl := 360 (only parsing).
Abbreviation ICLASS_xt_iclass_div := 361 (only parsing).
Abbreviation ICLASS_xt_iclass_rer := 362 (only parsing).
Abbreviation ICLASS_xt_iclass_wer := 363 (only parsing).
Abbreviation ICLASS_iclass_F64ITER := 364 (only parsing).
Abbreviation ICLASS_iclass_F64RND := 365 (only parsing).
Abbreviation ICLASS_iclass_F64ADDC_F64SUBC := 366 (only parsing).
Abbreviation ICLASS_iclass_F64SIG := 367 (only parsing).
Abbreviation ICLASS_iclass_F64CMPL := 368 (only parsing).
Abbreviation ICLASS_iclass_F64CMPH := 369 (only parsing).
Abbreviation ICLASS_iclass_F64NORM := 370 (only parsing).
Abbreviation ICLASS_iclass_F64SEXP := 371 (only parsing).
Abbreviation ICLASS_iclass_RF64R := 372 (only parsing).
Abbreviation ICLASS_iclass_WF64R := 373 (only parsing).
Abbreviation ICLASS_rur_f64r_lo := 374 (only parsing).
Abbreviation ICLASS_wur_f64r_lo := 375 (only parsing).
Abbreviation ICLASS_rur_f64r_hi := 376 (only parsing).
Abbreviation ICLASS_wur_f64r_hi := 377 (only parsing).
Abbreviation ICLASS_rur_f64s := 378 (only parsing).
Abbreviation ICLASS_wur_f64s := 379 (only parsing).
Abbreviation ICLASS_rur_fcr := 380 (only parsing).
Abbreviation ICLASS_wur_fcr := 381 (only parsing).
Abbreviation ICLASS_rur_fsr := 382 (only parsing).
Abbreviation ICLASS_wur_fsr := 383 (only parsing).
Abbreviation ICLASS_rur_expstate := 384 (only parsing).
Abbreviation ICLASS_wur_expstate := 385 (only parsing).
Abbreviation ICLASS_iclass_READ_IMPWIRE := 386 (only parsing).
Abbreviation ICLASS_iclass_SETB_EXPSTATE := 387 (only parsing).
Abbreviation ICLASS_iclass_CLRB_EXPSTATE := 388 (only parsing).
Abbreviation ICLASS_iclass_WRMSK_EXPSTATE := 389 (only parsing).

(** ** [xtensa_opcode_id] *)

Abbreviation OPCODE_LSI := 0 (only parsing).
Abbreviation OPCODE_LSIP := 1 (only parsing).
Abbreviation OPCODE_LSX := 2 (only parsing).
Abbreviation OPCODE_LSXP := 3 (only parsing).
Abbreviation OPCODE_SSI := 4 (only parsing).
Abbreviation OPCODE_SSIP := 5 (only parsing).
Abbreviation OPCODE_SSX := 6 (only parsing).
Abbreviation OPCODE_SSXP := 7 (only parsing).
Abbreviation OPCODE_ABS_S := 8 (only parsing).
Abbreviation OPCODE_NEG_S := 9 (only parsing).
Abbreviation OPCODE_MOV_S := 10 (only parsing).
Abbreviation OPCODE_MOVEQZ_S := 11 (only parsing).
Abbreviation OPCODE_MOVNEZ_S := 12 (only parsing).
Abbreviation OPCODE_MOVLTZ_S := 13 (only parsing).
Abbreviation OPCODE_MOVGEZ_S := 14 (only parsing).
Abbreviation OPCODE_MOVF_S := 15 (only parsing).
Abbreviation OPCODE_MOVT_S := 16 (only parsing).
Abbreviation OPCODE_WFR := 17 (only parsing).
Abbreviation OPCODE_RFR := 18 (only parsing).
Abbreviation OPCODE_ROUND_S := 19 (only parsing).
Abbreviation OPCODE_CEIL_S := 20 (only parsing).
Abbreviation OPCODE_FLOOR_S := 21 (only parsing).
Abbreviation OPCODE_TRUNC_S := 22 (only parsing).
Abbreviation OPCODE_UTRUNC_S := 23 (only parsing).
Abbreviation OPCODE_FLOAT_S := 24 (only parsing).
Abbreviation OPCODE_UFLOAT_S := 25 (only parsing).
Abbreviation OPCODE_UN_S := 26 (only parsing).
Abbreviation OPCODE_ULT_S := 27 (only parsing).
Abbreviation OPCODE_ULE_S := 28 (only parsing).
Abbreviation OPCODE_UEQ_S := 29 (only parsing).
Abbreviation OPCODE_OLT_S := 30 (only parsing).
Abbreviation OPCODE_OLE_S := 31 (only parsing).
Abbreviation OPCODE_OEQ_S := 32 (only parsing).
Abbreviation OPCODE_ADD_S := 33 (only parsing).
Abbreviation OPCODE_SUB_S := 34 (only parsing).
Abbreviation OPCODE_MUL_S := 35 (only parsing).
Abbreviation OPCODE_MADD_S := 36 (only parsing).
Abbreviation OPCODE_MSUB_S := 37 (only parsing).
Abbreviation OPCODE_SQRT0_S := 38 (only parsing).
Abbreviation OPCODE_DIV0_S := 39 (only parsing).
Abbreviation OPCODE_RECIP0_S := 40 (only parsing).
Abbreviation OPCODE_RSQRT0_S := 41 (only parsing).
Abbreviation OPCODE_MADDN_S := 42 (only parsing).
Abbreviation OPCODE_DIVN_S := 43 (only parsing).
Abbreviation OPCODE_CONST_S := 44 (only parsing).
Abbreviation OPCODE_NEXP01_S := 45 (only parsing).
Abbreviation OPCODE_ADDEXP_S := 46 (only parsing).
Abbreviation OPCODE_ADDEXPM_S := 47 (only parsing).
Abbreviation OPCODE_MKDADJ_S := 48 (only parsing).
Abbreviation OPCODE_MKSADJ_S := 49 (only parsing).
Abbreviation OPCODE_EXCW := 50 (only parsing).
Abbreviation OPCODE_RFE := 51 (only parsing).
Abbreviation OPCODE_RFDE := 52 (only parsing).
Abbreviation OPCODE_SYSCALL := 53 (only parsing).
Abbreviation OPCODE_CALL12 := 54 (only parsing).
Abbreviation OPCODE_CALL8 := 55 (only parsing).
Abbreviation OPCODE_CALL4 := 56 (only parsing).
Abbreviation OPCODE_CALLX12 := 57 (only parsing).
Abbreviation OPCODE_CALLX8 := 58 (only parsing).
Abbreviation OPCODE_CALLX4 := 59 (only parsing).
Abbreviation OPCODE_ENTRY := 60 (only parsing).
Abbreviation OPCODE_MOVSP := 61 (only parsing).
Abbreviation OPCODE_ROTW := 62 (only parsing).
Abbreviation OPCODE_RETW := 63 (only parsing).
Abbreviation OPCODE_RETW_N := 64 (only parsing).
Abbreviation OPCODE_RFWO := 65 (only parsing).
Abbreviation OPCODE_RFWU := 66 (only parsing).
Abbreviation OPCODE_L32E := 67 (only parsing).
Abbreviation OPCODE_S32E := 68 (only parsing).
Abbreviation OPCODE_RSR_WINDOWBASE := 69 (only parsing).
Abbreviation OPCODE_WSR_WINDOWBASE := 70 (only parsing).
Abbreviation OPCODE_XSR_WINDOWBASE := 71 (only parsing).
Abbreviation OPCODE_RSR_WINDOWSTART := 72 (only parsing).
Abbreviation OPCODE_WSR_WINDOWSTART := 73 (only parsing).
Abbreviation OPCODE_XSR_WINDOWSTART := 74 (only parsing).
Abbreviation OPCODE_ADD_N := 75 (only parsing).
Abbreviation OPCODE_ADDI_N := 76 (only parsing).
Abbreviation OPCODE_BEQZ_N := 77 (only parsing).
Abbreviation OPCODE_BNEZ_N := 78 (only parsing).
Abbreviation OPCODE_ILL_N := 79 (only parsing).
Abbreviation OPCODE_L32I_N := 80 (only parsing).
Abbreviation OPCODE_MOV_N := 81 (only parsing).
Abbreviation OPCODE_MOVI_N := 82 (only parsing).
Abbreviation OPCODE_NOP_N := 83 (only parsing).
Abbreviation OPCODE_RET_N := 84 (only parsing).
Abbreviation OPCODE_S32I_N := 85 (only parsing).
Abbreviation OPCODE_RUR_THREADPTR := 86 (only parsing).
Abbreviation OPCODE_WUR_THREADPTR := 87 (only parsing).
Abbreviation OPCODE_ADDI := 88 (only parsing).
Abbreviation OPCODE_ADDMI := 89 (only parsing).
Abbreviation OPCODE_ADD := 90 (only parsing).
Abbreviation OPCODE_SUB := 91 (only parsing).
Abbreviation OPCODE_ADDX2 := 92 (only parsing).
Abbreviation OPCODE_ADDX4 := 93 (only parsing).
Abbreviation OPCODE_ADDX8 := 94 (only parsing).
Abbreviation OPCODE_SUBX2 := 95 (only parsing).
Abbreviation OPCODE_SUBX4 := 96 (only parsing).
Abbreviation OPCODE_SUBX8 := 97 (only parsing).
Abbreviation OPCODE_AND := 98 (only parsing).
Abbreviation OPCODE_OR := 99 (only parsing).
Abbreviation OPCODE_XOR := 100 (only parsing).
Abbreviation OPCODE_BEQI := 101 (only parsing).
Abbreviation OPCODE_BNEI := 102 (only parsing).
Abbreviation OPCODE_BGEI := 103 (only parsing).
Abbreviation OPCODE_BLTI := 104 (only parsing).
Abbreviation OPCODE_BBCI := 105 (only parsing).
Abbreviation OPCODE_BBSI := 106 (only parsing).
Abbreviation OPCODE_BGEUI := 107 (only parsing).
Abbreviation OPCODE_BLTUI := 108 (only parsing).
Abbreviation OPCODE_BEQ := 109 (only parsing).
Abbreviation OPCODE_BNE := 110 (only parsing).
Abbreviation OPCODE_BGE := 111 (only parsing).
Abbreviation OPCODE_BLT := 112 (only parsing).
Abbreviation OPCODE_BGEU := 113 (only parsing).
Abbreviation OPCODE_BLTU := 114 (only parsing).
Abbreviation OPCODE_BANY := 115 (only parsing).
Abbreviation OPCODE_BNONE := 116 (only parsing).
Abbreviation OPCODE_BALL := 117 (only parsing).
Abbreviation OPCODE_BNALL := 118 (only parsing).
Abbreviation OPCODE_BBC := 119 (only parsing).
Abbreviation OPCODE_BBS := 120 (only parsing).
Abbreviation OPCODE_BEQZ := 121 (only parsing).
Abbreviation OPCODE_BNEZ := 122 (only parsing).
Abbreviation OPCODE_BGEZ := 123 (only parsing).
Abbreviation OPCODE_BLTZ := 124 (only parsing).
Abbreviation OPCODE_CALL0 := 125 (only parsing).
Abbreviation OPCODE_CALLX0 := 126 (only parsing).
Abbreviation OPCODE_EXTUI := 127 (only parsing).
Abbreviation OPCODE_ILL := 128 (only parsing).
Abbreviation OPCODE_J := 129 (only parsing).
Abbreviation OPCODE_JX := 130 (only parsing).
Abbreviation OPCODE_L16UI := 131 (only parsing).
Abbreviation OPCODE_L16SI := 132 (only parsing).
Abbreviation OPCODE_L32I := 133 (only parsing).
Abbreviation OPCODE_L32R := 134 (only parsing).
Abbreviation OPCODE_L8UI := 135 (only parsing).
Abbreviation OPCODE_LOOP := 136 (only parsing).
Abbreviation OPCODE_LOOPNEZ := 137 (only parsing).
Abbreviation OPCODE_LOOPGTZ := 138 (only parsing).
Abbreviation OPCODE_MOVI := 139 (only parsing).
Abbreviation OPCODE_MOVEQZ := 140 (only parsing).
Abbreviation OPCODE_MOVNEZ := 141 (only parsing).
Abbreviation OPCODE_MOVLTZ := 142 (only parsing).
Abbreviation OPCODE_MOVGEZ := 143 (only parsing).
Abbreviation OPCODE_NEG := 144 (only parsing).
Abbreviation OPCODE_ABS := 145 (only parsing).
Abbreviation OPCODE_NOP := 146 (only parsing).
Abbreviation OPCODE_RET := 147 (only parsing).
Abbreviation OPCODE_SIMCALL := 148 (only parsing).
Abbreviation OPCODE_S16I := 149 (only parsing).
Abbreviation OPCODE_S32I := 150 (only parsing).
Abbreviation OPCODE_S32NB := 151 (only parsing).
Abbreviation OPCODE_S8I := 152 (only parsing).
Abbreviation OPCODE_SSR := 153 (only parsing).
Abbreviation OPCODE_SSL := 154 (only parsing).
Abbreviation OPCODE_SSA8L := 155 (only parsing).
Abbreviation OPCODE_SSA8B := 156 (only parsing).
Abbreviation OPCODE_SSAI := 157 (only parsing).
Abbreviation OPCODE_SLL := 158 (only parsing).
Abbreviation OPCODE_SRC := 159 (only parsing).
Abbreviation OPCODE_SRL := 160 (only parsing).
Abbreviation OPCODE_SRA := 161 (only parsing).
Abbreviation OPCODE_SLLI := 162 (only parsing).
Abbreviation OPCODE_SRAI := 163 (only parsing).
Abbreviation OPCODE_SRLI := 164 (only parsing).
Abbreviation OPCODE_MEMW := 165 (only parsing).
Abbreviation OPCODE_EXTW := 166 (only parsing).
Abbreviation OPCODE_ISYNC := 167 (only parsing).
Abbreviation OPCODE_RSYNC := 168 (only parsing).
Abbreviation OPCODE_ESYNC := 169 (only parsing).
Abbreviation OPCODE_DSYNC := 170 (only parsing).
Abbreviation OPCODE_RSIL := 171 (only parsing).
Abbreviation OPCODE_RSR_LEND := 172 (only parsing).
Abbreviation OPCODE_WSR_LEND := 173 (only parsing).
Abbreviation OPCODE_XSR_LEND := 174 (only parsing).
Abbreviation OPCODE_RSR_LCOUNT := 175 (only parsing).
Abbreviation OPCODE_WSR_LCOUNT := 176 (only parsing).
Abbreviation OPCODE_XSR_LCOUNT := 177 (only parsing).
Abbreviation OPCODE_RSR_LBEG := 178 (only parsing).
Abbreviation OPCODE_WSR_LBEG := 179 (only parsing).
Abbreviation OPCODE_XSR_LBEG := 180 (only parsing).
Abbreviation OPCODE_RSR_SAR := 181 (only parsing).
Abbreviation OPCODE_WSR_SAR := 182 (only parsing).
Abbreviation OPCODE_XSR_SAR := 183 (only parsing).
Abbreviation OPCODE_RSR_MEMCTL := 184 (only parsing).
Abbreviation OPCODE_WSR_MEMCTL := 185 (only parsing).
Abbreviation OPCODE_XSR_MEMCTL := 186 (only parsing).
Abbreviation OPCODE_RSR_LITBASE := 187 (only parsing).
Abbreviation OPCODE_WSR_LITBASE := 188 (only parsing).
Abbreviation OPCODE_XSR_LITBASE := 189 (only parsing).
Abbreviation OPCODE_RSR_CONFIGID0 := 190 (only parsing).
Abbreviation OPCODE_WSR_CONFIGID0 := 191 (only parsing).
Abbreviation OPCODE_RSR_CONFIGID1 := 192 (only parsing).
Abbreviation OPCODE_RSR_PS := 193 (only parsing).
Abbreviation OPCODE_WSR_PS := 194 (only parsing).
Abbreviation OPCODE_XSR_PS := 195 (only parsing).
Abbreviation OPCODE_RSR_EPC1 := 196 (only parsing).
Abbreviation OPCODE_WSR_EPC1 := 197 (only parsing).
Abbreviation OPCODE_XSR_EPC1 := 198 (only parsing).
Abbreviation OPCODE_RSR_EXCSAVE1 := 199 (only parsing).
Abbreviation OPCODE_WSR_EXCSAVE1 := 200 (only parsing).
Abbreviation OPCODE_XSR_EXCSAVE1 := 201 (only parsing).
Abbreviation OPCODE_RSR_EPC2 := 202 (only parsing).
Abbreviation OPCODE_WSR_EPC2 := 203 (only parsing).
Abbreviation OPCODE_XSR_EPC2 := 204 (only parsing).
Abbreviation OPCODE_RSR_EXCSAVE2 := 205 (only parsing).
Abbreviation OPCODE_WSR_EXCSAVE2 := 206 (only parsing).
Abbreviation OPCODE_XSR_EXCSAVE2 := 207 (only parsing).
Abbreviation OPCODE_RSR_EPC3 := 208 (only parsing).
Abbreviation OPCODE_WSR_EPC3 := 209 (only parsing).
Abbreviation OPCODE_XSR_EPC3 := 210 (only parsing).
Abbreviation OPCODE_RSR_EXCSAVE3 := 211 (only parsing).
Abbreviation OPCODE_WSR_EXCSAVE3 := 212 (only parsing).
Abbreviation OPCODE_XSR_EXCSAVE3 := 213 (only parsing).
Abbreviation OPCODE_RSR_EPC4 := 214 (only parsing).
Abbreviation OPCODE_WSR_EPC4 := 215 (only parsing).
Abbreviation OPCODE_XSR_EPC4 := 216 (only parsing).
Abbreviation OPCODE_RSR_EXCSAVE4 := 217 (only parsing).
Abbreviation OPCODE_WSR_EXCSAVE4 := 218 (only parsing).
Abbreviation OPCODE_XSR_EXCSAVE4 := 219 (only parsing).
Abbreviation OPCODE_RSR_EPC5 := 220 (only parsing).
Abbreviation OPCODE_WSR_EPC5 := 221 (only parsing).
Abbreviation OPCODE_XSR_EPC5 := 222 (only parsing).
Abbreviation OPCODE_RSR_EXCSAVE5 := 223 (only parsing).
Abbreviation OPCODE_WSR_EXCSAVE5 := 224 (only parsing).
Abbreviation OPCODE_XSR_EXCSAVE5 := 225 (only parsing).
Abbreviation OPCODE_RSR_EPC6 := 226 (only parsing).
Abbreviation OPCODE_WSR_EPC6 := 227 (only parsing).
Abbreviation OPCODE_XSR_EPC6 := 228 (only parsing).
Abbreviation OPCODE_RSR_EXCSAVE6 := 229 (only parsing).
Abbreviation OPCODE_WSR_EXCSAVE6 := 230 (only parsing).
Abbreviation OPCODE_XSR_EXCSAVE6 := 231 (only parsing).
Abbreviation OPCODE_RSR_EPC7 := 232 (only parsing).
Abbreviation OPCODE_WSR_EPC7 := 233 (only parsing).
Abbreviation OPCODE_XSR_EPC7 := 234 (only parsing).
Abbreviation OPCODE_RSR_EXCSAVE7 := 235 (only parsing).
Abbreviation OPCODE_WSR_EXCSAVE7 := 236 (only parsing).
Abbreviation OPCODE_XSR_EXCSAVE7 := 237 (only parsing).
Abbreviation OPCODE_RSR_EPS2 := 238 (only parsing).
Abbreviation OPCODE_WSR_EPS2 := 239 (only parsing).
Abbreviation OPCODE_XSR_EPS2 := 240 (only parsing).
Abbreviation OPCODE_RSR_EPS3 := 241 (only parsing).
Abbreviation OPCODE_WSR_EPS3 := 242 (only parsing).
Abbreviation OPCODE_XSR_EPS3 := 243 (only parsing).
Abbreviation OPCODE_RSR_EPS4 := 244 (only parsing).
Abbreviation OPCODE_WSR_EPS4 := 245 (only parsing).
Abbreviation OPCODE_XSR_EPS4 := 246 (only parsing).
Abbreviation OPCODE_RSR_EPS5 := 247 (only parsing).
Abbreviation OPCODE_WSR_EPS5 := 248 (only parsing).
Abbreviation OPCODE_XSR_EPS5 := 249 (only parsing).
Abbreviation OPCODE_RSR_EPS6 := 250 (only parsing).
Abbreviation OPCODE_WSR_EPS6 := 251 (only parsing).
Abbreviation OPCODE_XSR_EPS6 := 252 (only parsing).
Abbreviation OPCODE_RSR_EPS7 := 253 (only parsing).
Abbreviation OPCODE_WSR_EPS7 := 254 (only parsing).
Abbreviation OPCODE_XSR_EPS7 := 255 (only parsing).
Abbreviation OPCODE_RSR_EXCVADDR := 256 (only parsing).
Abbreviation OPCODE_WSR_EXCVADDR := 257 (only parsing).
Abbreviation OPCODE_XSR_EXCVADDR := 258 (only parsing).
Abbreviation OPCODE_RSR_DEPC := 259 (only parsing).
Abbreviation OPCODE_WSR_DEPC := 260 (only parsing).
Abbreviation OPCODE_XSR_DEPC := 261 (only parsing).
Abbreviation OPCODE_RSR_EXCCAUSE := 262 (only parsing).
Abbreviation OPCODE_WSR_EXCCAUSE := 263 (only parsing).
Abbreviation OPCODE_XSR_EXCCAUSE := 264 (only parsing).
Abbreviation OPCODE_RSR_MISC0 := 265 (only parsing).
Abbreviation OPCODE_WSR_MISC0 := 266 (only parsing).
Abbreviation OPCODE_XSR_MISC0 := 267 (only parsing).
Abbreviation OPCODE_RSR_MISC1 := 268 (only parsing).
Abbreviation OPCODE_WSR_MISC1 := 269 (only parsing).
Abbreviation OPCODE_XSR_MISC1 := 270 (only parsing).
Abbreviation OPCODE_RSR_MISC2 := 271 (only parsing).
Abbreviation OPCODE_WSR_MISC2 := 272 (only parsing).
Abbreviation OPCODE_XSR_MISC2 := 273 (only parsing).
Abbreviation OPCODE_RSR_MISC3 := 274 (only parsing).
Abbreviation OPCODE_WSR_MISC3 := 275 (only parsing).
Abbreviation OPCODE_XSR_MISC3 := 276 (only parsing).
Abbreviation OPCODE_RSR_PRID := 277 (only parsing).
Abbreviation OPCODE_RSR_VECBASE := 278 (only parsing).
Abbreviation OPCODE_WSR_VECBASE := 279 (only parsing).
Abbreviation OPCODE_XSR_VECBASE := 280 (only parsing).
Abbreviation OPCODE_MUL16U := 281 (only parsing).
Abbreviation OPCODE_MUL16S := 282 (only parsing).
Abbreviation OPCODE_MULL := 283 (only parsing).
Abbreviation OPCODE_MULUH := 284 (only parsing).
Abbreviation OPCODE_MULSH := 285 (only parsing).
Abbreviation OPCODE_MUL_AA_LL := 286 (only parsing).
Abbreviation OPCODE_MUL_AA_HL := 287 (only parsing).
Abbreviation OPCODE_MUL_AA_LH := 288 (only parsing).
Abbreviation OPCODE_MUL_AA_HH := 289 (only parsing).
Abbreviation OPCODE_UMUL_AA_LL := 290 (only parsing).
Abbreviation OPCODE_UMUL_AA_HL := 291 (only parsing).
Abbreviation OPCODE_UMUL_AA_LH := 292 (only parsing).
Abbreviation OPCODE_UMUL_AA_HH := 293 (only parsing).
Abbreviation OPCODE_MUL_AD_LL := 294 (only parsing).
Abbreviation OPCODE_MUL_AD_HL := 295 (only parsing).
Abbreviation OPCODE_MUL_AD_LH := 296 (only parsing).
Abbreviation OPCODE_MUL_AD_HH := 297 (only parsing).
Abbreviation OPCODE_MUL_DA_LL := 298 (only parsing).
Abbreviation OPCODE_MUL_DA_HL := 299 (only parsing).
Abbreviation OPCODE_MUL_DA_LH := 300 (only parsing).
Abbreviation OPCODE_MUL_DA_HH := 301 (only parsing).
Abbreviation OPCODE_MUL_DD_LL := 302 (only parsing).
Abbreviation OPCODE_MUL_DD_HL := 303 (only parsing).
Abbreviation OPCODE_MUL_DD_LH := 304 (only parsing).
Abbreviation OPCODE_MUL_DD_HH := 305 (only parsing).
Abbreviation OPCODE_MULA_AA_LL := 306 (only parsing).
Abbreviation OPCODE_MULA_AA_HL := 307 (only parsing).
Abbreviation OPCODE_MULA_AA_LH := 308 (only parsing).
Abbreviation OPCODE_MULA_AA_HH := 309 (only parsing).
Abbreviation OPCODE_MULS_AA_LL := 310 (only parsing).
Abbreviation OPCODE_MULS_AA_HL := 311 (only parsing).
Abbreviation OPCODE_MULS_AA_LH := 312 (only parsing).
Abbreviation OPCODE_MULS_AA_HH := 313 (only parsing).
Abbreviation OPCODE_MULA_AD_LL := 314 (only parsing).
Abbreviation OPCODE_MULA_AD_HL := 315 (only parsing).
Abbreviation OPCODE_MULA_AD_LH := 316 (only parsing).
Abbreviation OPCODE_MULA_AD_HH := 317 (only parsing).
Abbreviation OPCODE_MULS_AD_LL := 318 (only parsing).
Abbreviation OPCODE_MULS_AD_HL := 319 (only parsing).
Abbreviation OPCODE_MULS_AD_LH := 320 (only parsing).
Abbreviation OPCODE_MULS_AD_HH := 321 (only parsing).
Abbreviation OPCODE_MULA_DA_LL := 322 (only parsing).
Abbreviation OPCODE_MULA_DA_HL := 323 (only parsing).
Abbreviation OPCODE_MULA_DA_LH := 324 (only parsing).
Abbreviation OPCODE_MULA_DA_HH := 325 (only parsing).
Abbreviation OPCODE_MULS_DA_LL := 326 (only parsing).
Abbreviation OPCODE_MULS_DA_HL := 327 (only parsing).
Abbreviation OPCODE_MULS_DA_LH := 328 (only parsing).
Abbreviation OPCODE_MULS_DA_HH := 329 (only parsing).
Abbreviation OPCODE_MULA_DD_LL := 330 (only parsing).
Abbreviation OPCODE_MULA_DD_HL := 331 (only parsing).
Abbreviation OPCODE_MULA_DD_LH := 332 (only parsing).
Abbreviation OPCODE_MULA_DD_HH := 333 (only parsing).
Abbreviation OPCODE_MULS_DD_LL := 334 (only parsing).
Abbreviation OPCODE_MULS_DD_HL := 335 (only parsing).
Abbreviation OPCODE_MULS_DD_LH := 336 (only parsing).
Abbreviation OPCODE_MULS_DD_HH := 337 (only parsing).
Abbreviation OPCODE_MULA_DA_LL_LDDEC := 338 (only parsing).
Abbreviation OPCODE_MULA_DA_LL_LDINC := 339 (only parsing).
Abbreviation OPCODE_MULA_DA_HL_LDDEC := 340 (only parsing).
Abbreviation OPCODE_MULA_DA_HL_LDINC := 341 (only parsing).
Abbreviation OPCODE_MULA_DA_LH_LDDEC := 342 (only parsing).
Abbreviation OPCODE_MULA_DA_LH_LDINC := 343 (only parsing).
Abbreviation OPCODE_MULA_DA_HH_LDDEC := 344 (only parsing).
Abbreviation OPCODE_MULA_DA_HH_LDINC := 345 (only parsing).
Abbreviation OPCODE_MULA_DD_LL_LDDEC := 346 (only parsing).
Abbreviation OPCODE_MULA_DD_LL_LDINC := 347 (only parsing).
Abbreviation OPCODE_MULA_DD_HL_LDDEC := 348 (only parsing).
Abbreviation OPCODE_MULA_DD_HL_LDINC := 349 (only parsing).
Abbreviation OPCODE_MULA_DD_LH_LDDEC := 350 (only parsing).
Abbreviation OPCODE_MULA_DD_LH_LDINC := 351 (only parsing).
Abbreviation OPCODE_MULA_DD_HH_LDDEC := 352 (only parsing).
Abbreviation OPCODE_MULA_DD_HH_LDINC := 353 (only parsing).
Abbreviation OPCODE_LDDEC := 354 (only parsing).
Abbreviation OPCODE_LDINC := 355 (only parsing).
Abbreviation OPCODE_RSR_M0 := 356 (only parsing).
Abbreviation OPCODE_WSR_M0 := 357 (only parsing).
Abbreviation OPCODE_XSR_M0 := 358 (only parsing).
Abbreviation OPCODE_RSR_M1 := 359 (only parsing).
Abbreviation OPCODE_WSR_M1 := 360 (only parsing).
Abbreviation OPCODE_XSR_M1 := 361 (only parsing).
Abbreviation OPCODE_RSR_M2 := 362 (only parsing).
Abbreviation OPCODE_WSR_M2 := 363 (only parsing).
Abbreviation OPCODE_XSR_M2 := 364 (only parsing).
Abbreviation OPCODE_RSR_M3 := 365 (only parsing).
Abbreviation OPCODE_WSR_M3 := 366 (only parsing).
Abbreviation OPCODE_XSR_M3 := 367 (only parsing).
Abbreviation OPCODE_RSR_ACCLO := 368 (only parsing).
Abbreviation OPCODE_WSR_ACCLO := 369 (only parsing).
Abbreviation OPCODE_XSR_ACCLO := 370 (only parsing).
Abbreviation OPCODE_RSR_ACCHI := 371 (only parsing).
Abbreviation OPCODE_WSR_ACCHI := 372 (only parsing).
Abbreviation OPCODE_XSR_ACCHI := 373 (only parsing).
Abbreviation OPCODE_RFI := 374 (only parsing).
Abbreviation OPCODE_WAITI := 375 (only parsing).
Abbreviation OPCODE_RSR_INTERRUPT := 376 (only parsing).
Abbreviation OPCODE_WSR_INTSET := 377 (only parsing).
Abbreviation OPCODE_WSR_INTCLEAR := 378 (only parsing).
Abbreviation OPCODE_RSR_INTENABLE := 379 (only parsing).
Abbreviation OPCODE_WSR_INTENABLE := 380 (only parsing).
Abbreviation OPCODE_XSR_INTENABLE := 381 (only parsing).
Abbreviation OPCODE_BREAK := 382 (only parsing).
Abbreviation OPCODE_BREAK_N := 383 (only parsing).
Abbreviation OPCODE_RSR_DBREAKA0 := 384 (only parsing).
Abbreviation OPCODE_WSR_DBREAKA0 := 385 (only parsing).
Abbreviation OPCODE_XSR_DBREAKA0 := 386 (only parsing).
Abbreviation OPCODE_RSR_DBREAKC0 := 387 (only parsing).
Abbreviation OPCODE_WSR_DBREAKC0 := 388 (only parsing).
Abbreviation OPCODE_XSR_DBREAKC0 := 389 (only parsing).
Abbreviation OPCODE_RSR_DBREAKA1 := 390 (only parsing).
Abbreviation OPCODE_WSR_DBREAKA1 := 391 (only parsing).
Abbreviation OPCODE_XSR_DBREAKA1 := 392 (only parsing).
Abbreviation OPCODE_RSR_DBREAKC1 := 393 (only parsing).
Abbreviation OPCODE_WSR_DBREAKC1 := 394 (only parsing).
Abbreviation OPCODE_XSR_DBREAKC1 := 395 (only parsing).
Abbreviation OPCODE_RSR_IBREAKA0 := 396 (only parsing).
Abbreviation OPCODE_WSR_IBREAKA0 := 397 (only parsing).
Abbreviation OPCODE_XSR_IBREAKA0 := 398 (only parsing).
Abbreviation OPCODE_RSR_IBREAKA1 := 399 (only parsing).
Abbreviation OPCODE_WSR_IBREAKA1 := 400 (only parsing).
Abbreviation OPCODE_XSR_IBREAKA1 := 401 (only parsing).
Abbreviation OPCODE_RSR_IBREAKENABLE := 402 (only parsing).
Abbreviation OPCODE_WSR_IBREAKENABLE := 403 (only parsing).
Abbreviation OPCODE_XSR_IBREAKENABLE := 404 (only parsing).
Abbreviation OPCODE_RSR_DEBUGCAUSE := 405 (only parsing).
Abbreviation OPCODE_WSR_DEBUGCAUSE := 406 (only parsing).
Abbreviation OPCODE_XSR_DEBUGCAUSE := 407 (only parsing).
Abbreviation OPCODE_RSR_ICOUNT := 408 (only parsing).
Abbreviation OPCODE_WSR_ICOUNT := 409 (only parsing).
Abbreviation OPCODE_XSR_ICOUNT := 410 (only parsing).
Abbreviation OPCODE_RSR_ICOUNTLEVEL := 411 (only parsing).
Abbreviation OPCODE_WSR_ICOUNTLEVEL := 412 (only parsing).
Abbreviation OPCODE_XSR_ICOUNTLEVEL := 413 (only parsing).
Abbreviation OPCODE_RSR_DDR := 414 (only parsing).
Abbreviation OPCODE_WSR_DDR := 415 (only parsing).
Abbreviation OPCODE_XSR_DDR := 416 (only parsing).
Abbreviation OPCODE_LDDR32_P := 417 (only parsing).
Abbreviation OPCODE_SDDR32_P := 418 (only parsing).
Abbreviation OPCODE_RFDO := 419 (only parsing).
Abbreviation OPCODE_RFDD := 420 (only parsing).
Abbreviation OPCODE_WSR_MMID := 421 (only parsing).
Abbreviation OPCODE_ANDB := 422 (only parsing).
Abbreviation OPCODE_ANDBC := 423 (only parsing).
Abbreviation OPCODE_ORB := 424 (only parsing).
Abbreviation OPCODE_ORBC := 425 (only parsing).
Abbreviation OPCODE_XORB := 426 (only parsing).
Abbreviation OPCODE_ANY4 := 427 (only parsing).
Abbreviation OPCODE_ALL4 := 428 (only parsing).
Abbreviation OPCODE_ANY8 := 429 (only parsing).
Abbreviation OPCODE_ALL8 := 430 (only parsing).
Abbreviation OPCODE_BF := 431 (only parsing).
Abbreviation OPCODE_BT := 432 (only parsing).
Abbreviation OPCODE_MOVF := 433 (only parsing).
Abbreviation OPCODE_MOVT := 434 (only parsing).
Abbreviation OPCODE_RSR_BR := 435 (only parsing).
Abbreviation OPCODE_WSR_BR := 436 (only parsing).
Abbreviation OPCODE_XSR_BR := 437 (only parsing).
Abbreviation OPCODE_RSR_CCOUNT := 438 (only parsing).
Abbreviation OPCODE_WSR_CCOUNT := 439 (only parsing).
Abbreviation OPCODE_XSR_CCOUNT := 440 (only parsing).
Abbreviation OPCODE_RSR_CCOMPARE0 := 441 (only parsing).
Abbreviation OPCODE_WSR_CCOMPARE0 := 442 (only parsing).
Abbreviation OPCODE_XSR_CCOMPARE0 := 443 (only parsing).
Abbreviation OPCODE_RSR_CCOMPARE1 := 444 (only parsing).
Abbreviation OPCODE_WSR_CCOMPARE1 := 445 (only parsing).
Abbreviation OPCODE_XSR_CCOMPARE1 := 446 (only parsing).
Abbreviation OPCODE_RSR_CCOMPARE2 := 447 (only parsing).
Abbreviation OPCODE_WSR_CCOMPARE2 := 448 (only parsing).
Abbreviation OPCODE_XSR_CCOMPARE2 := 449 (only parsing).
Abbreviation OPCODE_IDTLB := 450 (only parsing).
Abbreviation OPCODE_PDTLB := 451 (only parsing).
Abbreviation OPCODE_RDTLB0 := 452 (only parsing).
Abbreviation OPCODE_RDTLB1 := 453 (only parsing).
Abbreviation OPCODE_WDTLB := 454 (only parsing).
Abbreviation OPCODE_IITLB := 455 (only parsing).
Abbreviation OPCODE_PITLB := 456 (only parsing).
Abbreviation OPCODE_RITLB0 := 457 (only parsing).
Abbreviation OPCODE_RITLB1 := 458 (only parsing).
Abbreviation OPCODE_WITLB := 459 (only parsing).
Abbreviation OPCODE_RSR_CPENABLE := 460 (only parsing).
Abbreviation OPCODE_WSR_CPENABLE := 461 (only parsing).
Abbreviation OPCODE_XSR_CPENABLE := 462 (only parsing).
Abbreviation OPCODE_CLAMPS := 463 (only parsing).
Abbreviation OPCODE_MIN := 464 (only parsing).
Abbreviation OPCODE_MAX := 465 (only parsing).
Abbreviation OPCODE_MINU := 466 (only parsing).
Abbreviation OPCODE_MAXU := 467 (only parsing).
Abbreviation OPCODE_NSA := 468 (only parsing).
Abbreviation OPCODE_NSAU := 469 (only parsing).
Abbreviation OPCODE_SEXT := 470 (only parsing).
Abbreviation OPCODE_L32AI := 471 (only parsing).
Abbreviation OPCODE_S32RI := 472 (only parsing).
Abbreviation OPCODE_S32C1I := 473 (only parsing).
Abbreviation OPCODE_RSR_SCOMPARE1 := 474 (only parsing).
Abbreviation OPCODE_WSR_SCOMPARE1 := 475 (only parsing).
Abbreviation OPCODE_XSR_SCOMPARE1 := 476 (only parsing).
Abbreviation OPCODE_RSR_ATOMCTL := 477 (only parsing).
Abbreviation OPCODE_WSR_ATOMCTL := 478 (only parsing).
Abbreviation OPCODE_XSR_ATOMCTL := 479 (only parsing).
Abbreviation OPCODE_QUOU := 480 (only parsing).
Abbreviation OPCODE_QUOS := 481 (only parsing).
Abbreviation OPCODE_REMU := 482 (only parsing).
Abbreviation OPCODE_REMS := 483 (only parsing).
Abbreviation OPCODE_RER := 484 (only parsing).
Abbreviation OPCODE_WER := 485 (only parsing).
Abbreviation OPCODE_F64ITER := 486 (only parsing).
Abbreviation OPCODE_F64RND := 487 (only parsing).
Abbreviation OPCODE_F64ADDC := 488 (only parsing).
Abbreviation OPCODE_F64SUBC := 489 (only parsing).
Abbreviation OPCODE_F64SIG := 490 (only parsing).
Abbreviation OPCODE_F64CMPL := 491 (only parsing).
Abbreviation OPCODE_F64CMPH := 492 (only parsing).
Abbreviation OPCODE_F64NORM := 493 (only parsing).
Abbreviation OPCODE_F64SEXP := 494 (only parsing).
Abbreviation OPCODE_RF64R := 495 (only parsing).
Abbreviation OPCODE_WF64R := 496 (only parsing).
Abbreviation OPCODE_RUR_F64R_LO := 497 (only parsing).
Abbreviation OPCODE_WUR_F64R_LO := 498 (only parsing).
Abbreviation OPCODE_RUR_F64R_HI := 499 (only parsing).
Abbreviation OPCODE_WUR_F64R_HI := 500 (only parsing).
Abbreviation OPCODE_RUR_F64S := 501 (only parsing).
Abbreviation OPCODE_WUR_F64S := 502 (only parsing).
Abbreviation OPCODE_RUR_FCR := 503 (only parsing).
Abbreviation OPCODE_WUR_FCR := 504 (only parsing).
Abbreviation OPCODE_RUR_FSR := 505 (only parsing).
Abbreviation OPCODE_WUR_FSR := 506 (only parsing).
Abbreviation OPCODE_RUR_EXPSTATE := 507 (only parsing).
Abbreviation OPCODE_WUR_EXPSTATE := 508 (only parsing).
Abbreviation OPCODE_READ_IMPWIRE := 509 (only parsing).
Abbreviation OPCODE_SETB_EXPSTATE := 510 (only parsing).
Abbreviation OPCODE_CLRB_EXPSTATE := 511 (only parsing).
Abbreviation OPCODE_WRMSK_EXPSTATE := 512 (only parsing).

(** ** Templates *)

Definition e32_encode_1 : list (string * Z) := [
  ("Opcode_lsi_Slot_inst_encode", 0x3);
  ("Opcode_lsip_Slot_inst_encode", 0x8003);
  ("Opcode_lsx_Slot_inst_encode", 0x80000);
  ("Opcode_lsxp_Slot_inst_encode", 0x180000);
  ("Opcode_ssi_Slot_inst_encode", 0x4003);
  ("Opcode_ssip_Slot_inst_encode", 0xc003);
  ("Opcode_ssx_Slot_inst_encode", 0x480000);
  ("Opcode_ssxp_Slot_inst_encode", 0x580000);
  ("Opcode_abs_s_Slot_inst_encode", 0xfa0010);
  ("Opcode_neg_s_Slot_inst_encode", 0xfa0060);
  ("Opcode_mov_s_Slot_inst_encode", 0xfa0000);
  ("Opcode_moveqz_s_Slot_inst_encode", 0x8b0000);
  ("Opcode_movnez_s_Slot_inst_encode", 0x9b0000);
  ("Opcode_movltz_s_Slot_inst_encode", 0xab0000);
  ("Opcode_movgez_s_Slot_inst_encode", 0xbb0000);
  ("Opcode_movf_s_Slot_inst_encode", 0xcb0000);
  ("Opcode_movt_s_Slot_inst_encode", 0xdb0000);
  ("Opcode_wfr_Slot_inst_encode", 0xfa0050);
  ("Opcode_rfr_Slot_inst_encode", 0xfa0040);
  ("Opcode_round_s_Slot_inst_encode", 0x8a0000);
  ("Opcode_ceil_s_Slot_inst_encode", 0xba0000);
  ("Opcode_floor_s_Slot_inst_encode", 0xaa0000);
  ("Opcode_trunc_s_Slot_inst_encode", 0x9a0000);
  ("Opcode_utrunc_s_Slot_inst_encode", 0xea0000);
  ("Opcode_float_s_Slot_inst_encode", 0xca0000)].

Definition e32_encode_2 : list (string * Z) := [
  ("Opcode_ufloat_s_Slot_inst_encode", 0xda0000);
  ("Opcode_un_s_Slot_inst_encode", 0x1b0000);
  ("Opcode_ult_s_Slot_inst_encode", 0x5b0000);
  ("Opcode_ule_s_Slot_inst_encode", 0x7b0000);
  ("Opcode_ueq_s_Slot_inst_encode", 0x3b0000);
  ("Opcode_olt_s_Slot_inst_encode", 0x4b0000);
  ("Opcode_ole_s_Slot_inst_encode", 0x6b0000);
  ("Opcode_oeq_s_Slot_inst_encode", 0x2b0000);
  ("Opcode_add_s_Slot_inst_encode", 0xa0000);
  ("Opcode_sub_s_Slot_inst_encode", 0x1a0000);
  ("Opcode_mul_s_Slot_inst_encode", 0x2a0000);
  ("Opcode_madd_s_Slot_inst_encode", 0x4a0000);
  ("Opcode_msub_s_Slot_inst_encode", 0x5a0000);
  ("Opcode_sqrt0_s_Slot_inst_encode", 0xfa0090);
  ("Opcode_div0_s_Slot_inst_encode", 0xfa0070);
  ("Opcode_recip0_s_Slot_inst_encode", 0xfa0080);
  ("Opcode_rsqrt0_s_Slot_inst_encode", 0xfa00a0);
  ("Opcode_maddn_s_Slot_inst_encode", 0x6a0000);
  ("Opcode_divn_s_Slot_inst_encode", 0x7a0000);
  ("Opcode_const_s_Slot_inst_encode", 0xfa0030);
  ("Opcode_nexp01_s_Slot_inst_encode", 0xfa00b0);
  ("Opcode_addexp_s_Slot_inst_encode", 0xfa00e0);
  ("Opcode_addexpm_s_Slot_inst_encode", 0xfa00f0);
  ("Opcode_mkdadj_s_Slot_inst_encode", 0xfa00d0);
  ("Opcode_mksadj_s_Slot_inst_encode", 0xfa00c0)].

Definition e32_encode_3 : list (string * Z) := [
  ("Opcode_excw_Slot_inst_encode", 0x2080);
  ("Opcode_rfe_Slot_inst_encode", 0x3000);
  ("Opcode_rfde_Slot_inst_encode", 0x3200);
  ("Opcode_syscall_Slot_inst_encode", 0x5000);
  ("Opcode_call12_Slot_inst_encode", 0x35);
  ("Opcode_call8_Slot_inst_encode", 0x25);
  ("Opcode_call4_Slot_inst_encode", 0x15);
  ("Opcode_callx12_Slot_inst_encode", 0xf0);
  ("Opcode_callx8_Slot_inst_encode", 0xe0);
  ("Opcode_callx4_Slot_inst_encode", 0xd0);
  ("Opcode_entry_Slot_inst_encode", 0x36);
  ("Opcode_movsp_Slot_inst_encode", 0x1000);
  ("Opcode_rotw_Slot_inst_encode", 0x408000);
  ("Opcode_retw_Slot_inst_encode", 0x90);
  ("Opcode_retw_n_Slot_inst16b_encode", 0xf01d);
  ("Opcode_rfwo_Slot_inst_encode", 0x3400);
  ("Opcode_rfwu_Slot_inst_encode", 0x3500);
  ("Opcode_l32e_Slot_inst_encode", 0x90000);
  ("Opcode_s32e_Slot_inst_encode", 0x490000);
  ("Opcode_rsr_windowbase_Slot_inst_encode", 0x34800);
  ("Opcode_wsr_windowbase_Slot_inst_encode", 0x134800);
  ("Opcode_xsr_windowbase_Slot_inst_encode", 0x614800);
  ("Opcode_rsr_windowstart_Slot_inst_encode", 0x34900);
  ("Opcode_wsr_windowstart_Slot_inst_encode", 0x134900);
  ("Opcode_xsr_windowstart_Slot_inst_encode", 0x614900)].

Definition e32_encode_4 : list (string * Z) := [
  ("Opcode_add_n_Slot_inst16a_encode", 0xa);
  ("Opcode_addi_n_Slot_inst16a_encode", 0xb);
  ("Opcode_beqz_n_Slot_inst16b_encode", 0x8c);
  ("Opcode_bnez_n_Slot_inst16b_encode", 0xcc);
  ("Opcode_ill_n_Slot_inst16b_encode", 0xf06d);
  ("Opcode_l32i_n_Slot_inst16a_encode", 0x8);
  ("Opcode_mov_n_Slot_inst16b_encode", 0xd);
  ("Opcode_movi_n_Slot_inst16b_encode", 0xc);
  ("Opcode_nop_n_Slot_inst16b_encode", 0xf03d);
  ("Opcode_ret_n_Slot_inst16b_encode", 0xf00d);
  ("Opcode_s32i_n_Slot_inst16a_encode", 0x9);
  ("Opcode_rur_threadptr_Slot_inst_encode", 0xe30e70);
  ("Opcode_wur_threadptr_Slot_inst_encode", 0xf3e700);
  ("Opcode_addi_Slot_inst_encode", 0xc002);
  ("Opcode_addmi_Slot_inst_encode", 0xd002);
  ("Opcode_add_Slot_inst_encode", 0x800000);
  ("Opcode_sub_Slot_inst_encode", 0xc00000);
  ("Opcode_addx2_Slot_inst_encode", 0x900000);
  ("Opcode_addx4_Slot_inst_encode", 0xa00000);
  ("Opcode_addx8_Slot_inst_encode", 0xb00000);
  ("Opcode_subx2_Slot_inst_encode", 0xd00000);
  ("Opcode_subx4_Slot_inst_encode", 0xe00000);
  ("Opcode_subx8_Slot_inst_encode", 0xf00000);
  ("Opcode_and_Slot_inst_encode", 0x100000);
  ("Opcode_or_Slot_inst_encode", 0x200000)].

Definition e32_encode_5 : list (string * Z) := [
  ("Opcode_xor_Slot_inst_encode", 0x300000);
  ("Opcode_beqi_Slot_inst_encode", 0x26);
  ("Opcode_bnei_Slot_inst_encode", 0x66);
  ("Opcode_bgei_Slot_inst_encode", 0xe6);
  ("Opcode_blti_Slot_inst_encode", 0xa6);
  ("Opcode_bbci_Slot_inst_encode", 0x6007);
  ("Opcode_bbsi_Slot_inst_encode", 0xe007);
  ("Opcode_bgeui_Slot_inst_encode", 0xf6);
  ("Opcode_bltui_Slot_inst_encode", 0xb6);
  ("Opcode_beq_Slot_inst_encode", 0x1007);
  ("Opcode_bne_Slot_inst_encode", 0x9007);
  ("Opcode_bge_Slot_inst_encode", 0xa007);
  ("Opcode_blt_Slot_inst_encode", 0x2007);
  ("Opcode_bgeu_Slot_inst_encode", 0xb007);
  ("Opcode_bltu_Slot_inst_encode", 0x3007);
  ("Opcode_bany_Slot_inst_encode", 0x8007);
  ("Opcode_bnone_Slot_inst_encode", 0x7);
  ("Opcode_ball_Slot_inst_encode", 0x4007);
  ("Opcode_bnall_Slot_inst_encode", 0xc007);
  ("Opcode_bbc_Slot_inst_encode", 0x5007);
  ("Opcode_bbs_Slot_inst_encode", 0xd007);
  ("Opcode_beqz_Slot_inst_encode", 0x16);
  ("Opcode_bnez_Slot_inst_encode", 0x56);
  ("Opcode_bgez_Slot_inst_encode", 0xd6);
  ("Opcode_bltz_Slot_inst_encode", 0x96)].

Definition e32_encode_6 : list (string * Z) := [
  ("Opcode_call0_Slot_inst_encode", 0x5);
  ("Opcode_callx0_Slot_inst_encode", 0xc0);
  ("Opcode_extui_Slot_inst_encode", 0x40000);
  ("Opcode_ill_Slot_inst_encode", 0x0);
  ("Opcode_j_Slot_inst_encode", 0x6);
  ("Opcode_jx_Slot_inst_encode", 0xa0);
  ("Opcode_l16ui_Slot_inst_encode", 0x1002);
  ("Opcode_l16si_Slot_inst_encode", 0x9002);
  ("Opcode_l32i_Slot_inst_encode", 0x2002);
  ("Opcode_l32r_Slot_inst_encode", 0x1);
  ("Opcode_l8ui_Slot_inst_encode", 0x2);
  ("Opcode_loop_Slot_inst_encode", 0x8076);
  ("Opcode_loopnez_Slot_inst_encode", 0x9076);
  ("Opcode_loopgtz_Slot_inst_encode", 0xa076);
  ("Opcode_movi_Slot_inst_encode", 0xa002);
  ("Opcode_moveqz_Slot_inst_encode", 0x830000);
  ("Opcode_movnez_Slot_inst_encode", 0x930000);
  ("Opcode_movltz_Slot_inst_encode", 0xa30000);
  ("Opcode_movgez_Slot_inst_encode", 0xb30000);
  ("Opcode_neg_Slot_inst_encode", 0x600000);
  ("Opcode_abs_Slot_inst_encode", 0x600100);
  ("Opcode_nop_Slot_inst_encode", 0x20f0);
  ("Opcode_ret_Slot_inst_encode", 0x80);
  ("Opcode_simcall_Slot_inst_encode", 0x5100);
  ("Opcode_s16i_Slot_inst_encode", 0x5002)].

Definition e32_encode_7 : list (string * Z) := [
  ("Opcode_s32i_Slot_inst_encode", 0x6002);
  ("Opcode_s32nb_Slot_inst_encode", 0x590000);
  ("Opcode_s8i_Slot_inst_encode", 0x4002);
  ("Opcode_ssr_Slot_inst_encode", 0x400000);
  ("Opcode_ssl_Slot_inst_encode", 0x401000);
  ("Opcode_ssa8l_Slot_inst_encode", 0x402000);
  ("Opcode_ssa8b_Slot_inst_encode", 0x403000);
  ("Opcode_ssai_Slot_inst_encode", 0x404000);
  ("Opcode_sll_Slot_inst_encode", 0xa10000);
  ("Opcode_src_Slot_inst_encode", 0x810000);
  ("Opcode_srl_Slot_inst_encode", 0x910000);
  ("Opcode_sra_Slot_inst_encode", 0xb10000);
  ("Opcode_slli_Slot_inst_encode", 0x10000);
  ("Opcode_srai_Slot_inst_encode", 0x210000);
  ("Opcode_srli_Slot_inst_encode", 0x410000);
  ("Opcode_memw_Slot_inst_encode", 0x20c0);
  ("Opcode_extw_Slot_inst_encode", 0x20d0);
  ("Opcode_isync_Slot_inst_encode", 0x2000);
  ("Opcode_rsync_Slot_inst_encode", 0x2010);
  ("Opcode_esync_Slot_inst_encode", 0x2020);
  ("Opcode_dsync_Slot_inst_encode", 0x2030);
  ("Opcode_rsil_Slot_inst_encode", 0x6000);
  ("Opcode_rsr_lend_Slot_inst_encode", 0x30100);
  ("Opcode_wsr_lend_Slot_inst_encode", 0x130100);
  ("Opcode_xsr_lend_Slot_inst_encode", 0x610100)].

Definition e32_encode_8 : list (string * Z) := [
  ("Opcode_rsr_lcount_Slot_inst_encode", 0x30200);
  ("Opcode_wsr_lcount_Slot_inst_encode", 0x130200);
  ("Opcode_xsr_lcount_Slot_inst_encode", 0x610200);
  ("Opcode_rsr_lbeg_Slot_inst_encode", 0x30000);
  ("Opcode_wsr_lbeg_Slot_inst_encode", 0x130000);
  ("Opcode_xsr_lbeg_Slot_inst_encode", 0x610000);
  ("Opcode_rsr_sar_Slot_inst_encode", 0x30300);
  ("Opcode_wsr_sar_Slot_inst_encode", 0x130300);
  ("Opcode_xsr_sar_Slot_inst_encode", 0x610300);
  ("Opcode_rsr_memctl_Slot_inst_encode", 0x36100);
  ("Opcode_wsr_memctl_Slot_inst_encode", 0x136100);
  ("Opcode_xsr_memctl_Slot_inst_encode", 0x616100);
  ("Opcode_rsr_litbase_Slot_inst_encode", 0x30500);
  ("Opcode_wsr_litbase_Slot_inst_encode", 0x130500);
  ("Opcode_xsr_litbase_Slot_inst_encode", 0x610500);
  ("Opcode_rsr_configid0_Slot_inst_encode", 0x3b000);
  ("Opcode_wsr_configid0_Slot_inst_encode", 0x13b000);
  ("Opcode_rsr_configid1_Slot_inst_encode", 0x3d000);
  ("Opcode_rsr_ps_Slot_inst_encode", 0x3e600);
  ("Opcode_wsr_ps_Slot_inst_encode", 0x13e600);
  ("Opcode_xsr_ps_Slot_inst_encode", 0x61e600);
  ("Opcode_rsr_epc1_Slot_inst_encode", 0x3b100);
  ("Opcode_wsr_epc1_Slot_inst_encode", 0x13b100);
  ("Opcode_xsr_epc1_Slot_inst_encode", 0x61b100);
  ("Opcode_rsr_excsave1_Slot_inst_encode", 0x3d100)].

Definition e32_encode_9 : list (string * Z) := [
  ("Opcode_wsr_excsave1_Slot_inst_encode", 0x13d100);
  ("Opcode_xsr_excsave1_Slot_inst_encode", 0x61d100);
  ("Opcode_rsr_epc2_Slot_inst_encode", 0x3b200);
  ("Opcode_wsr_epc2_Slot_inst_encode", 0x13b200);
  ("Opcode_xsr_epc2_Slot_inst_encode", 0x61b200);
  ("Opcode_rsr_excsave2_Slot_inst_encode", 0x3d200);
  ("Opcode_wsr_excsave2_Slot_inst_encode", 0x13d200);
  ("Opcode_xsr_excsave2_Slot_inst_encode", 0x61d200);
  ("Opcode_rsr_epc3_Slot_inst_encode", 0x3b300);
  ("Opcode_wsr_epc3_Slot_inst_encode", 0x13b300);
  ("Opcode_xsr_epc3_Slot_inst_encode", 0x61b300);
  ("Opcode_rsr_excsave3_Slot_inst_encode", 0x3d300);
  ("Opcode_wsr_excsave3_Slot_inst_encode", 0x13d300);
  ("Opcode_xsr_excsave3_Slot_inst_encode", 0x61d300);
  ("Opcode_rsr_epc4_Slot_inst_encode", 0x3b400);
  ("Opcode_wsr_epc4_Slot_inst_encode", 0x13b400);
  ("Opcode_xsr_epc4_Slot_inst_encode", 0x61b400);
  ("Opcode_rsr_excsave4_Slot_inst_encode", 0x3d400);
  ("Opcode_wsr_excsave4_Slot_inst_encode", 0x13d400);
  ("Opcode_xsr_excsave4_Slot_inst_encode", 0x61d400);
  ("Opcode_rsr_epc5_Slot_inst_encode", 0x3b500);
  ("Opcode_wsr_epc5_Slot_inst_encode", 0x13b500);
  ("Opcode_xsr_epc5_Slot_inst_encode", 0x61b500);
  ("Opcode_rsr_excsave5_Slot_inst_encode", 0x3d500);
  ("Opcode_wsr_excsave5_Slot_inst_encode", 0x13d500)].

Definition e32_encode_10 : list (string * Z) := [
  ("Opcode_xsr_excsave5_Slot_inst_encode", 0x61d500);
  ("Opcode_rsr_epc6_Slot_inst_encode", 0x3b600);
  ("Opcode_wsr_epc6_Slot_inst_encode", 0x13b600);
  ("Opcode_xsr_epc6_Slot_inst_encode", 0x61b600);
  ("Opcode_rsr_excsave6_Slot_inst_encode", 0x3d600);
  ("Opcode_wsr_excsave6_Slot_inst_encode", 0x13d600);
  ("Opcode_xsr_excsave6_Slot_inst_encode", 0x61d600);
  ("Opcode_rsr_epc7_Slot_inst_encode", 0x3b700);
  ("Opcode_wsr_epc7_Slot_inst_encode", 0x13b700);
  ("Opcode_xsr_epc7_Slot_inst_encode", 0x61b700);
  ("Opcode_rsr_excsave7_Slot_inst_encode", 0x3d700);
  ("Opcode_wsr_excsave7_Slot_inst_encode", 0x13d700);
  ("Opcode_xsr_excsave7_Slot_inst_encode", 0x61d700);
  ("Opcode_rsr_eps2_Slot_inst_encode", 0x3c200);
  ("Opcode_wsr_eps2_Slot_inst_encode", 0x13c200);
  ("Opcode_xsr_eps2_Slot_inst_encode", 0x61c200);
  ("Opcode_rsr_eps3_Slot_inst_encode", 0x3c300);
  ("Opcode_wsr_eps3_Slot_inst_encode", 0x13c300);
  ("Opcode_xsr_eps3_Slot_inst_encode", 0x61c300);
  ("Opcode_rsr_eps4_Slot_inst_encode", 0x3c400);
  ("Opcode_wsr_eps4_Slot_inst_encode", 0x13c400);
  ("Opcode_xsr_eps4_Slot_inst_encode", 0x61c400);
  ("Opcode_rsr_eps5_Slot_inst_encode", 0x3c500);
  ("Opcode_wsr_eps5_Slot_inst_encode", 0x13c500);
  ("Opcode_xsr_eps5_Slot_inst_encode", 0x61c500)].

Definition e32_encode_11 : list (string * Z) := [
  ("Opcode_rsr_eps6_Slot_inst_encode", 0x3c600);
  ("Opcode_wsr_eps6_Slot_inst_encode", 0x13c600);
  ("Opcode_xsr_eps6_Slot_inst_encode", 0x61c600);
  ("Opcode_rsr_eps7_Slot_inst_encode", 0x3c700);
  ("Opcode_wsr_eps7_Slot_inst_encode", 0x13c700);
  ("Opcode_xsr_eps7_Slot_inst_encode", 0x61c700);
  ("Opcode_rsr_excvaddr_Slot_inst_encode", 0x3ee00);
  ("Opcode_wsr_excvaddr_Slot_inst_encode", 0x13ee00);
  ("Opcode_xsr_excvaddr_Slot_inst_encode", 0x61ee00);
  ("Opcode_rsr_depc_Slot_inst_encode", 0x3c000);
  ("Opcode_wsr_depc_Slot_inst_encode", 0x13c000);
  ("Opcode_xsr_depc_Slot_inst_encode", 0x61c000);
  ("Opcode_rsr_exccause_Slot_inst_encode", 0x3e800);
  ("Opcode_wsr_exccause_Slot_inst_encode", 0x13e800);
  ("Opcode_xsr_exccause_Slot_inst_encode", 0x61e800);
  ("Opcode_rsr_misc0_Slot_inst_encode", 0x3f400);
  ("Opcode_wsr_misc0_Slot_inst_encode", 0x13f400);
  ("Opcode_xsr_misc0_Slot_inst_encode", 0x61f400);
  ("Opcode_rsr_misc1_Slot_inst_encode", 0x3f500);
  ("Opcode_wsr_misc1_Slot_inst_encode", 0x13f500);
  ("Opcode_xsr_misc1_Slot_inst_encode", 0x61f500);
  ("Opcode_rsr_misc2_Slot_inst_encode", 0x3f600);
  ("Opcode_wsr_misc2_Slot_inst_encode", 0x13f600);
  ("Opcode_xsr_misc2_Slot_inst_encode", 0x61f600);
  ("Opcode_rsr_misc3_Slot_inst_encode", 0x3f700)].

Definition e32_encode_12 : list (string * Z) := [
  ("Opcode_wsr_misc3_Slot_inst_encode", 0x13f700);
  ("Opcode_xsr_misc3_Slot_inst_encode", 0x61f700);
  ("Opcode_rsr_prid_Slot_inst_encode", 0x3eb00);
  ("Opcode_rsr_vecbase_Slot_inst_encode", 0x3e700);
  ("Opcode_wsr_vecbase_Slot_inst_encode", 0x13e700);
  ("Opcode_xsr_vecbase_Slot_inst_encode", 0x61e700);
  ("Opcode_mul16u_Slot_inst_encode", 0xc10000);
  ("Opcode_mul16s_Slot_inst_encode", 0xd10000);
  ("Opcode_mull_Slot_inst_encode", 0x820000);
  ("Opcode_muluh_Slot_inst_encode", 0xa20000);
  ("Opcode_mulsh_Slot_inst_encode", 0xb20000);
  ("Opcode_mul_aa_ll_Slot_inst_encode", 0x740004);
  ("Opcode_mul_aa_hl_Slot_inst_encode", 0x750004);
  ("Opcode_mul_aa_lh_Slot_inst_encode", 0x760004);
  ("Opcode_mul_aa_hh_Slot_inst_encode", 0x770004);
  ("Opcode_umul_aa_ll_Slot_inst_encode", 0x700004);
  ("Opcode_umul_aa_hl_Slot_inst_encode", 0x710004);
  ("Opcode_umul_aa_lh_Slot_inst_encode", 0x720004);
  ("Opcode_umul_aa_hh_Slot_inst_encode", 0x730004);
  ("Opcode_mul_ad_ll_Slot_inst_encode", 0x340004);
  ("Opcode_mul_ad_hl_Slot_inst_encode", 0x350004);
  ("Opcode_mul_ad_lh_Slot_inst_encode", 0x360004);
  ("Opcode_mul_ad_hh_Slot_inst_encode", 0x370004);
  ("Opcode_mul_da_ll_Slot_inst_encode", 0x640004);
  ("Opcode_mul_da_hl_Slot_inst_encode", 0x650004)].

Definition e32_encode_13 : list (string * Z) := [
  ("Opcode_mul_da_lh_Slot_inst_encode", 0x660004);
  ("Opcode_mul_da_hh_Slot_inst_encode", 0x670004);
  ("Opcode_mul_dd_ll_Slot_inst_encode", 0x240004);
  ("Opcode_mul_dd_hl_Slot_inst_encode", 0x250004);
  ("Opcode_mul_dd_lh_Slot_inst_encode", 0x260004);
  ("Opcode_mul_dd_hh_Slot_inst_encode", 0x270004);
  ("Opcode_mula_aa_ll_Slot_inst_encode", 0x780004);
  ("Opcode_mula_aa_hl_Slot_inst_encode", 0x790004);
  ("Opcode_mula_aa_lh_Slot_inst_encode", 0x7a0004);
  ("Opcode_mula_aa_hh_Slot_inst_encode", 0x7b0004);
  ("Opcode_muls_aa_ll_Slot_inst_encode", 0x7c0004);
  ("Opcode_muls_aa_hl_Slot_inst_encode", 0x7d0004);
  ("Opcode_muls_aa_lh_Slot_inst_encode", 0x7e0004);
  ("Opcode_muls_aa_hh_Slot_inst_encode", 0x7f0004);
  ("Opcode_mula_ad_ll_Slot_inst_encode", 0x380004);
  ("Opcode_mula_ad_hl_Slot_inst_encode", 0x390004);
  ("Opcode_mula_ad_lh_Slot_inst_encode", 0x3a0004);
  ("Opcode_mula_ad_hh_Slot_inst_encode", 0x3b0004);
  ("Opcode_muls_ad_ll_Slot_inst_encode", 0x3c0004);
  ("Opcode_muls_ad_hl_Slot_inst_encode", 0x3d0004);
  ("Opcode_muls_ad_lh_Slot_inst_encode", 0x3e0004);
  ("Opcode_muls_ad_hh_Slot_inst_encode", 0x3f0004);
  ("Opcode_mula_da_ll_Slot_inst_encode", 0x680004);
  ("Opcode_mula_da_hl_Slot_inst_encode", 0x690004);
  ("Opcode_mula_da_lh_Slot_inst_encode", 0x6a0004)].

Definition e32_encode_14 : list (string * Z) := [
  ("Opcode_mula_da_hh_Slot_inst_encode", 0x6b0004);
  ("Opcode_muls_da_ll_Slot_inst_encode", 0x6c0004);
  ("Opcode_muls_da_hl_Slot_inst_encode", 0x6d0004);
  ("Opcode_muls_da_lh_Slot_inst_encode", 0x6e0004);
  ("Opcode_muls_da_hh_Slot_inst_encode", 0x6f0004);
  ("Opcode_mula_dd_ll_Slot_inst_encode", 0x280004);
  ("Opcode_mula_dd_hl_Slot_inst_encode", 0x290004);
  ("Opcode_mula_dd_lh_Slot_inst_encode", 0x2a0004);
  ("Opcode_mula_dd_hh_Slot_inst_encode", 0x2b0004);
  ("Opcode_muls_dd_ll_Slot_inst_encode", 0x2c0004);
  ("Opcode_muls_dd_hl_Slot_inst_encode", 0x2d0004);
  ("Opcode_muls_dd_lh_Slot_inst_encode", 0x2e0004);
  ("Opcode_muls_dd_hh_Slot_inst_encode", 0x2f0004);
  ("Opcode_mula_da_ll_lddec_Slot_inst_encode", 0x580004);
  ("Opcode_mula_da_ll_ldinc_Slot_inst_encode", 0x480004);
  ("Opcode_mula_da_hl_lddec_Slot_inst_encode", 0x590004);
  ("Opcode_mula_da_hl_ldinc_Slot_inst_encode", 0x490004);
  ("Opcode_mula_da_lh_lddec_Slot_inst_encode", 0x5a0004);
  ("Opcode_mula_da_lh_ldinc_Slot_inst_encode", 0x4a0004);
  ("Opcode_mula_da_hh_lddec_Slot_inst_encode", 0x5b0004);
  ("Opcode_mula_da_hh_ldinc_Slot_inst_encode", 0x4b0004);
  ("Opcode_mula_dd_ll_lddec_Slot_inst_encode", 0x180004);
  ("Opcode_mula_dd_ll_ldinc_Slot_inst_encode", 0x80004);
  ("Opcode_mula_dd_hl_lddec_Slot_inst_encode", 0x190004);
  ("Opcode_mula_dd_hl_ldinc_Slot_inst_encode", 0x90004)].

Definition e32_encode_15 : list (string * Z) := [
  ("Opcode_mula_dd_lh_lddec_Slot_inst_encode", 0x1a0004);
  ("Opcode_mula_dd_lh_ldinc_Slot_inst_encode", 0xa0004);
  ("Opcode_mula_dd_hh_lddec_Slot_inst_encode", 0x1b0004);
  ("Opcode_mula_dd_hh_ldinc_Slot_inst_encode", 0xb0004);
  ("Opcode_lddec_Slot_inst_encode", 0x900004);
  ("Opcode_ldinc_Slot_inst_encode", 0x800004);
  ("Opcode_rsr_m0_Slot_inst_encode", 0x32000);
  ("Opcode_wsr_m0_Slot_inst_encode", 0x132000);
  ("Opcode_xsr_m0_Slot_inst_encode", 0x612000);
  ("Opcode_rsr_m1_Slot_inst_encode", 0x32100);
  ("Opcode_wsr_m1_Slot_inst_encode", 0x132100);
  ("Opcode_xsr_m1_Slot_inst_encode", 0x612100);
  ("Opcode_rsr_m2_Slot_inst_encode", 0x32200);
  ("Opcode_wsr_m2_Slot_inst_encode", 0x132200);
  ("Opcode_xsr_m2_Slot_inst_encode", 0x612200);
  ("Opcode_rsr_m3_Slot_inst_encode", 0x32300);
  ("Opcode_wsr_m3_Slot_inst_encode", 0x132300);
  ("Opcode_xsr_m3_Slot_inst_encode", 0x612300);
  ("Opcode_rsr_acclo_Slot_inst_encode", 0x31000);
  ("Opcode_wsr_acclo_Slot_inst_encode", 0x131000);
  ("Opcode_xsr_acclo_Slot_inst_encode", 0x611000);
  ("Opcode_rsr_acchi_Slot_inst_encode", 0x31100);
  ("Opcode_wsr_acchi_Slot_inst_encode", 0x131100);
  ("Opcode_xsr_acchi_Slot_inst_encode", 0x611100);
  ("Opcode_rfi_Slot_inst_encode", 0x3010)].

Definition e32_encode_16 : list (string * Z) := [
  ("Opcode_waiti_Slot_inst_encode", 0x7000);
  ("Opcode_rsr_interrupt_Slot_inst_encode", 0x3e200);
  ("Opcode_wsr_intset_Slot_inst_encode", 0x13e200);
  ("Opcode_wsr_intclear_Slot_inst_encode", 0x13e300);
  ("Opcode_rsr_intenable_Slot_inst_encode", 0x3e400);
  ("Opcode_wsr_intenable_Slot_inst_encode", 0x13e400);
  ("Opcode_xsr_intenable_Slot_inst_encode", 0x61e400);
  ("Opcode_break_Slot_inst_encode", 0x4000);
  ("Opcode_break_n_Slot_inst16b_encode", 0xf02d);
  ("Opcode_rsr_dbreaka0_Slot_inst_encode", 0x39000);
  ("Opcode_wsr_dbreaka0_Slot_inst_encode", 0x139000);
  ("Opcode_xsr_dbreaka0_Slot_inst_encode", 0x619000);
  ("Opcode_rsr_dbreakc0_Slot_inst_encode", 0x3a000);
  ("Opcode_wsr_dbreakc0_Slot_inst_encode", 0x13a000);
  ("Opcode_xsr_dbreakc0_Slot_inst_encode", 0x61a000);
  ("Opcode_rsr_dbreaka1_Slot_inst_encode", 0x39100);
  ("Opcode_wsr_dbreaka1_Slot_inst_encode", 0x139100);
  ("Opcode_xsr_dbreaka1_Slot_inst_encode", 0x619100);
  ("Opcode_rsr_dbreakc1_Slot_inst_encode", 0x3a100);
  ("Opcode_wsr_dbreakc1_Slot_inst_encode", 0x13a100);
  ("Opcode_xsr_dbreakc1_Slot_inst_encode", 0x61a100);
  ("Opcode_rsr_ibreaka0_Slot_inst_encode", 0x38000);
  ("Opcode_wsr_ibreaka0_Slot_inst_encode", 0x138000);
  ("Opcode_xsr_ibreaka0_Slot_inst_encode", 0x618000);
  ("Opcode_rsr_ibreaka1_Slot_inst_encode", 0x38100)].

Definition e32_encode_17 : list (string * Z) := [
  ("Opcode_wsr_ibreaka1_Slot_inst_encode", 0x138100);
  ("Opcode_xsr_ibreaka1_Slot_inst_encode", 0x618100);
  ("Opcode_rsr_ibreakenable_Slot_inst_encode", 0x36000);
  ("Opcode_wsr_ibreakenable_Slot_inst_encode", 0x136000);
  ("Opcode_xsr_ibreakenable_Slot_inst_encode", 0x616000);
  ("Opcode_rsr_debugcause_Slot_inst_encode", 0x3e900);
  ("Opcode_wsr_debugcause_Slot_inst_encode", 0x13e900);
  ("Opcode_xsr_debugcause_Slot_inst_encode", 0x61e900);
  ("Opcode_rsr_icount_Slot_inst_encode", 0x3ec00);
  ("Opcode_wsr_icount_Slot_inst_encode", 0x13ec00);
  ("Opcode_xsr_icount_Slot_inst_encode", 0x61ec00);
  ("Opcode_rsr_icountlevel_Slot_inst_encode", 0x3ed00);
  ("Opcode_wsr_icountlevel_Slot_inst_encode", 0x13ed00);
  ("Opcode_xsr_icountlevel_Slot_inst_encode", 0x61ed00);
  ("Opcode_rsr_ddr_Slot_inst_encode", 0x36800);
  ("Opcode_wsr_ddr_Slot_inst_encode", 0x136800);
  ("Opcode_xsr_ddr_Slot_inst_encode", 0x616800);
  ("Opcode_lddr32_p_Slot_inst_encode", 0x70e0);
  ("Opcode_sddr32_p_Slot_inst_encode", 0x70f0);
  ("Opcode_rfdo_Slot_inst_encode", 0xf1e000);
  ("Opcode_rfdd_Slot_inst_encode", 0xf1e010);
  ("Opcode_wsr_mmid_Slot_inst_encode", 0x135900);
  ("Opcode_andb_Slot_inst_encode", 0x20000);
  ("Opcode_andbc_Slot_inst_encode", 0x120000);
  ("Opcode_orb_Slot_inst_encode", 0x220000)].

Definition e32_encode_18 : list (string * Z) := [
  ("Opcode_orbc_Slot_inst_encode", 0x320000);
  ("Opcode_xorb_Slot_inst_encode", 0x420000);
  ("Opcode_any4_Slot_inst_encode", 0x8000);
  ("Opcode_all4_Slot_inst_encode", 0x9000);
  ("Opcode_any8_Slot_inst_encode", 0xa000);
  ("Opcode_all8_Slot_inst_encode", 0xb000);
  ("Opcode_bf_Slot_inst_encode", 0x76);
  ("Opcode_bt_Slot_inst_encode", 0x1076);
  ("Opcode_movf_Slot_inst_encode", 0xc30000);
  ("Opcode_movt_Slot_inst_encode", 0xd30000);
  ("Opcode_rsr_br_Slot_inst_encode", 0x30400);
  ("Opcode_wsr_br_Slot_inst_encode", 0x130400);
  ("Opcode_xsr_br_Slot_inst_encode", 0x610400);
  ("Opcode_rsr_ccount_Slot_inst_encode", 0x3ea00);
  ("Opcode_wsr_ccount_Slot_inst_encode", 0x13ea00);
  ("Opcode_xsr_ccount_Slot_inst_encode", 0x61ea00);
  ("Opcode_rsr_ccompare0_Slot_inst_encode", 0x3f000);
  ("Opcode_wsr_ccompare0_Slot_inst_encode", 0x13f000);
  ("Opcode_xsr_ccompare0_Slot_inst_encode", 0x61f000);
  ("Opcode_rsr_ccompare1_Slot_inst_encode", 0x3f100);
  ("Opcode_wsr_ccompare1_Slot_inst_encode", 0x13f100);
  ("Opcode_xsr_ccompare1_Slot_inst_encode", 0x61f100);
  ("Opcode_rsr_ccompare2_Slot_inst_encode", 0x3f200);
  ("Opcode_wsr_ccompare2_Slot_inst_encode", 0x13f200);
  ("Opcode_xsr_ccompare2_Slot_inst_encode", 0x61f200)].

Definition e32_encode_19 : list (string * Z) := [
  ("Opcode_idtlb_Slot_inst_encode", 0x50c000);
  ("Opcode_pdtlb_Slot_inst_encode", 0x50d000);
  ("Opcode_rdtlb0_Slot_inst_encode", 0x50b000);
  ("Opcode_rdtlb1_Slot_inst_encode", 0x50f000);
  ("Opcode_wdtlb_Slot_inst_encode", 0x50e000);
  ("Opcode_iitlb_Slot_inst_encode", 0x504000);
  ("Opcode_pitlb_Slot_inst_encode", 0x505000);
  ("Opcode_ritlb0_Slot_inst_encode", 0x503000);
  ("Opcode_ritlb1_Slot_inst_encode", 0x507000);
  ("Opcode_witlb_Slot_inst_encode", 0x506000);
  ("Opcode_rsr_cpenable_Slot_inst_encode", 0x3e000);
  ("Opcode_wsr_cpenable_Slot_inst_encode", 0x13e000);
  ("Opcode_xsr_cpenable_Slot_inst_encode", 0x61e000);
  ("Opcode_clamps_Slot_inst_encode", 0x330000);
  ("Opcode_min_Slot_inst_encode", 0x430000);
  ("Opcode_max_Slot_inst_encode", 0x530000);
  ("Opcode_minu_Slot_inst_encode", 0x630000);
  ("Opcode_maxu_Slot_inst_encode", 0x730000);
  ("Opcode_nsa_Slot_inst_encode", 0x40e000);
  ("Opcode_nsau_Slot_inst_encode", 0x40f000);
  ("Opcode_sext_Slot_inst_encode", 0x230000);
  ("Opcode_l32ai_Slot_inst_encode", 0xb002);
  ("Opcode_s32ri_Slot_inst_encode", 0xf002);
  ("Opcode_s32c1i_Slot_inst_encode", 0xe002);
  ("Opcode_rsr_scompare1_Slot_inst_encode", 0x30c00)].

Definition e32_encode_20 : list (string * Z) := [
  ("Opcode_wsr_scompare1_Slot_inst_encode", 0x130c00);
  ("Opcode_xsr_scompare1_Slot_inst_encode", 0x610c00);
  ("Opcode_rsr_atomctl_Slot_inst_encode", 0x36300);
  ("Opcode_wsr_atomctl_Slot_inst_encode", 0x136300);
  ("Opcode_xsr_atomctl_Slot_inst_encode", 0x616300);
  ("Opcode_quou_Slot_inst_encode", 0xc20000);
  ("Opcode_quos_Slot_inst_encode", 0xd20000);
  ("Opcode_remu_Slot_inst_encode", 0xe20000);
  ("Opcode_rems_Slot_inst_encode", 0xf20000);
  ("Opcode_rer_Slot_inst_encode", 0x406000);
  ("Opcode_wer_Slot_inst_encode", 0x407000);
  ("Opcode_f64iter_Slot_inst_encode", 0x8e0000);
  ("Opcode_f64rnd_Slot_inst_encode", 0x4e0000);
  ("Opcode_f64addc_Slot_inst_encode", 0xfb0000);
  ("Opcode_f64subc_Slot_inst_encode", 0xfb8000);
  ("Opcode_f64sig_Slot_inst_encode", 0xed000);
  ("Opcode_f64cmpl_Slot_inst_encode", 0xeb0000);
  ("Opcode_f64cmph_Slot_inst_encode", 0xf0000);
  ("Opcode_f64norm_Slot_inst_encode", 0x2e0000);
  ("Opcode_f64sexp_Slot_inst_encode", 0x1e0000);
  ("Opcode_rf64r_Slot_inst_encode", 0xbce00);
  ("Opcode_wf64r_Slot_inst_encode", 0xbe000);
  ("Opcode_rur_f64r_lo_Slot_inst_encode", 0xe30ea0);
  ("Opcode_wur_f64r_lo_Slot_inst_encode", 0xf3ea00);
  ("Opcode_rur_f64r_hi_Slot_inst_encode", 0xe30eb0)].

Definition e32_encode_21 : list (string * Z) := [
  ("Opcode_wur_f64r_hi_Slot_inst_encode", 0xf3eb00);
  ("Opcode_rur_f64s_Slot_inst_encode", 0xe30ec0);
  ("Opcode_wur_f64s_Slot_inst_encode", 0xf3ec00);
  ("Opcode_rur_fcr_Slot_inst_encode", 0xe30e80);
  ("Opcode_wur_fcr_Slot_inst_encode", 0xf3e800);
  ("Opcode_rur_fsr_Slot_inst_encode", 0xe30e90);
  ("Opcode_wur_fsr_Slot_inst_encode", 0xf3e900);
  ("Opcode_rur_expstate_Slot_inst_encode", 0xe30e60);
  ("Opcode_wur_expstate_Slot_inst_encode", 0xf3e600);
  ("Opcode_read_impwire_Slot_inst_encode", 0xe0000);
  ("Opcode_setb_expstate_Slot_inst_encode", 0xe1000);
  ("Opcode_clrb_expstate_Slot_inst_encode", 0xe1200);
  ("Opcode_wrmsk_expstate_Slot_inst_encode", 0xe2000)].

Definition e32_encode : list (string * Z) :=
  e32_encode_1 ++ e32_encode_2 ++ e32_encode_3 ++ e32_encode_4 ++ e32_encode_5 ++ e32_encode_6 ++
   e32_encode_7 ++ e32_encode_8 ++ e32_encode_9 ++ e32_encode_10 ++ e32_encode_11 ++ e32_encode_12 ++
   e32_encode_13 ++ e32_encode_14 ++ e32_encode_15 ++ e32_encode_16 ++ e32_encode_17 ++ e32_encode_18 ++
   e32_encode_19 ++ e32_encode_20 ++ e32_encode_21.

Definition e32_encode_fns_1 : list (string * list (option string)) := [
  ("Opcode_lsi_encode_fns", [Some "Opcode_lsi_Slot_inst_encode"; None; None]);
  ("Opcode_lsip_encode_fns", [Some "Opcode_lsip_Slot_inst_encode"; None; None]);
  ("Opcode_lsx_encode_fns", [Some "Opcode_lsx_Slot_inst_encode"; None; None]);
  ("Opcode_lsxp_encode_fns", [Some "Opcode_lsxp_Slot_inst_encode"; None; None]);
  ("Opcode_ssi_encode_fns", [Some "Opcode_ssi_Slot_inst_encode"; None; None]);
  ("Opcode_ssip_encode_fns", [Some "Opcode_ssip_Slot_inst_encode"; None; None]);
  ("Opcode_ssx_encode_fns", [Some "Opcode_ssx_Slot_inst_encode"; None; None]);
  ("Opcode_ssxp_encode_fns", [Some "Opcode_ssxp_Slot_inst_encode"; None; None]);
  ("Opcode_abs_s_encode_fns", [Some "Opcode_abs_s_Slot_inst_encode"; None; None]);
  ("Opcode_neg_s_encode_fns", [Some "Opcode_neg_s_Slot_inst_encode"; None; None]);
  ("Opcode_mov_s_encode_fns", [Some "Opcode_mov_s_Slot_inst_encode"; None; None]);
  ("Opcode_moveqz_s_encode_fns", [Some "Opcode_moveqz_s_Slot_inst_encode"; None; None]);
  ("Opcode_movnez_s_encode_fns", [Some "Opcode_movnez_s_Slot_inst_encode"; None; None]);
  ("Opcode_movltz_s_encode_fns", [Some "Opcode_movltz_s_Slot_inst_encode"; None; None]);
  ("Opcode_movgez_s_encode_fns", [Some "Opcode_movgez_s_Slot_inst_encode"; None; None]);
  ("Opcode_movf_s_encode_fns", [Some "Opcode_movf_s_Slot_inst_encode"; None; None]);
  ("Opcode_movt_s_encode_fns", [Some "Opcode_movt_s_Slot_inst_encode"; None; None]);
  ("Opcode_wfr_encode_fns", [Some "Opcode_wfr_Slot_inst_encode"; None; None]);
  ("Opcode_rfr_encode_fns", [Some "Opcode_rfr_Slot_inst_encode"; None; None]);
  ("Opcode_round_s_encode_fns", [Some "Opcode_round_s_Slot_inst_encode"; None; None]);
  ("Opcode_ceil_s_encode_fns", [Some "Opcode_ceil_s_Slot_inst_encode"; None; None]);
  ("Opcode_floor_s_encode_fns", [Some "Opcode_floor_s_Slot_inst_encode"; None; None]);
  ("Opcode_trunc_s_encode_fns", [Some "Opcode_trunc_s_Slot_inst_encode"; None; None]);
  ("Opcode_utrunc_s_encode_fns", [Some "Opcode_utrunc_s_Slot_inst_encode"; None; None]);
  ("Opcode_float_s_encode_fns", [Some "Opcode_float_s_Slot_inst_encode"; None; None]);
  ("Opcode_ufloat_s_encode_fns", [Some "Opcode_ufloat_s_Slot_inst_encode"; None; None]);
  ("Opcode_un_s_encode_fns", [Some "Opcode_un_s_Slot_inst_encode"; None; None]);
  ("Opcode_ult_s_encode_fns", [Some "Opcode_ult_s_Slot_inst_encode"; None; None]);
  ("Opcode_ule_s_encode_fns", [Some "Opcode_ule_s_Slot_inst_encode"; None; None]);
  ("Opcode_ueq_s_encode_fns", [Some "Opcode_ueq_s_Slot_inst_encode"; None; None]);
  ("Opcode_olt_s_encode_fns", [Some "Opcode_olt_s_Slot_inst_encode"; None; None]);
  ("Opcode_ole_s_encode_fns", [Some "Opcode_ole_s_Slot_inst_encode"; None; None]);
  ("Opcode_oeq_s_encode_fns", [Some "Opcode_oeq_s_Slot_inst_encode"; None; None]);
  ("Opcode_add_s_encode_fns", [Some "Opcode_add_s_Slot_inst_encode"; None; None]);
  ("Opcode_sub_s_encode_fns", [Some "Opcode_sub_s_Slot_inst_encode"; None; None]);
  ("Opcode_mul_s_encode_fns", [Some "Opcode_mul_s_Slot_inst_encode"; None; None]);
  ("Opcode_madd_s_encode_fns", [Some "Opcode_madd_s_Slot_inst_encode"; None; None])].

Definition e32_encode_fns_2 : list (string * list (option string)) := [
  ("Opcode_msub_s_encode_fns", [Some "Opcode_msub_s_Slot_inst_encode"; None; None]);
  ("Opcode_sqrt0_s_encode_fns", [Some "Opcode_sqrt0_s_Slot_inst_encode"; None; None]);
  ("Opcode_div0_s_encode_fns", [Some "Opcode_div0_s_Slot_inst_encode"; None; None]);
  ("Opcode_recip0_s_encode_fns", [Some "Opcode_recip0_s_Slot_inst_encode"; None; None]);
  ("Opcode_rsqrt0_s_encode_fns", [Some "Opcode_rsqrt0_s_Slot_inst_encode"; None; None]);
  ("Opcode_maddn_s_encode_fns", [Some "Opcode_maddn_s_Slot_inst_encode"; None; None]);
  ("Opcode_divn_s_encode_fns", [Some "Opcode_divn_s_Slot_inst_encode"; None; None]);
  ("Opcode_const_s_encode_fns", [Some "Opcode_const_s_Slot_inst_encode"; None; None]);
  ("Opcode_nexp01_s_encode_fns", [Some "Opcode_nexp01_s_Slot_inst_encode"; None; None]);
  ("Opcode_addexp_s_encode_fns", [Some "Opcode_addexp_s_Slot_inst_encode"; None; None]);
  ("Opcode_addexpm_s_encode_fns", [Some "Opcode_addexpm_s_Slot_inst_encode"; None; None]);
  ("Opcode_mkdadj_s_encode_fns", [Some "Opcode_mkdadj_s_Slot_inst_encode"; None; None]);
  ("Opcode_mksadj_s_encode_fns", [Some "Opcode_mksadj_s_Slot_inst_encode"; None; None]);
  ("Opcode_excw_encode_fns", [Some "Opcode_excw_Slot_inst_encode"; None; None]);
  ("Opcode_rfe_encode_fns", [Some "Opcode_rfe_Slot_inst_encode"; None; None]);
  ("Opcode_rfde_encode_fns", [Some "Opcode_rfde_Slot_inst_encode"; None; None]);
  ("Opcode_syscall_encode_fns", [Some "Opcode_syscall_Slot_inst_encode"; None; None]);
  ("Opcode_call12_encode_fns", [Some "Opcode_call12_Slot_inst_encode"; None; None]);
  ("Opcode_call8_encode_fns", [Some "Opcode_call8_Slot_inst_encode"; None; None]);
  ("Opcode_call4_encode_fns", [Some "Opcode_call4_Slot_inst_encode"; None; None]);
  ("Opcode_callx12_encode_fns", [Some "Opcode_callx12_Slot_inst_encode"; None; None]);
  ("Opcode_callx8_encode_fns", [Some "Opcode_callx8_Slot_inst_encode"; None; None]);
  ("Opcode_callx4_encode_fns", [Some "Opcode_callx4_Slot_inst_encode"; None; None]);
  ("Opcode_entry_encode_fns", [Some "Opcode_entry_Slot_inst_encode"; None; None]);
  ("Opcode_movsp_encode_fns", [Some "Opcode_movsp_Slot_inst_encode"; None; None]);
  ("Opcode_rotw_encode_fns", [Some "Opcode_rotw_Slot_inst_encode"; None; None]);
  ("Opcode_retw_encode_fns", [Some "Opcode_retw_Slot_inst_encode"; None; None]);
  ("Opcode_retw_n_encode_fns", [None; None; Some "Opcode_retw_n_Slot_inst16b_encode"]);
  ("Opcode_rfwo_encode_fns", [Some "Opcode_rfwo_Slot_inst_encode"; None; None]);
  ("Opcode_rfwu_encode_fns", [Some "Opcode_rfwu_Slot_inst_encode"; None; None]);
  ("Opcode_l32e_encode_fns", [Some "Opcode_l32e_Slot_inst_encode"; None; None]);
  ("Opcode_s32e_encode_fns", [Some "Opcode_s32e_Slot_inst_encode"; None; None]);
  ("Opcode_rsr_windowbase_encode_fns", [Some "Opcode_rsr_windowbase_Slot_inst_encode"; None; None]);
  ("Opcode_wsr_windowbase_encode_fns", [Some "Opcode_wsr_windowbase_Slot_inst_encode"; None; None]);
  ("Opcode_xsr_windowbase_encode_fns", [Some "Opcode_xsr_windowbase_Slot_inst_encode"; None; None]);
  ("Opcode_rsr_windowstart_encode_fns", [Some "Opcode_rsr_windowstart_Slot_inst_encode"; None; None]);
  ("Opcode_wsr_windowstart_encode_fns", [Some "Opcode_wsr_windowstart_Slot_inst_encode"; None; None])].

Definition e32_encode_fns_3 : list (string * list (option string)) := [
  ("Opcode_xsr_windowstart_encode_fns", [Some "Opcode_xsr_windowstart_Slot_inst_encode"; None; None]);
  ("Opcode_add_n_encode_fns", [None; Some "Opcode_add_n_Slot_inst16a_encode"; None]);
  ("Opcode_addi_n_encode_fns", [None; Some "Opcode_addi_n_Slot_inst16a_encode"; None]);
  ("Opcode_beqz_n_encode_fns", [None; None; Some "Opcode_beqz_n_Slot_inst16b_encode"]);
  ("Opcode_bnez_n_encode_fns", [None; None; Some "Opcode_bnez_n_Slot_inst16b_encode"]);
  ("Opcode_ill_n_encode_fns", [None; None; Some "Opcode_ill_n_Slot_inst16b_encode"]);
  ("Opcode_l32i_n_encode_fns", [None; Some "Opcode_l32i_n_Slot_inst16a_encode"; None]);
  ("Opcode_mov_n_encode_fns", [None; None; Some "Opcode_mov_n_Slot_inst16b_encode"]);
  ("Opcode_movi_n_encode_fns", [None; None; Some "Opcode_movi_n_Slot_inst16b_encode"]);
  ("Opcode_nop_n_encode_fns", [None; None; Some "Opcode_nop_n_Slot_inst16b_encode"]);
  ("Opcode_ret_n_encode_fns", [None; None; Some "Opcode_ret_n_Slot_inst16b_encode"]);
  ("Opcode_s32i_n_encode_fns", [None; Some "Opcode_s32i_n_Slot_inst16a_encode"; None]);
  ("Opcode_rur_threadptr_encode_fns", [Some "Opcode_rur_threadptr_Slot_inst_encode"; None; None]);
  ("Opcode_wur_threadptr_encode_fns", [Some "Opcode_wur_threadptr_Slot_inst_encode"; None; None]);
  ("Opcode_addi_encode_fns", [Some "Opcode_addi_Slot_inst_encode"; None; None]);
  ("Opcode_addmi_encode_fns", [Some "Opcode_addmi_Slot_inst_encode"; None; None]);
  ("Opcode_add_encode_fns", [Some "Opcode_add_Slot_inst_encode"; None; None]);
  ("Opcode_sub_encode_fns", [Some "Opcode_sub_Slot_inst_encode"; None; None]);
  ("Opcode_addx2_encode_fns", [Some "Opcode_addx2_Slot_inst_encode"; None; None]);
  ("Opcode_addx4_encode_fns", [Some "Opcode_addx4_Slot_inst_encode"; None; None]);
  ("Opcode_addx8_encode_fns", [Some "Opcode_addx8_Slot_inst_encode"; None; None]);
  ("Opcode_subx2_encode_fns", [Some "Opcode_subx2_Slot_inst_encode"; None; None]);
  ("Opcode_subx4_encode_fns", [Some "Opcode_subx4_Slot_inst_encode"; None; None]);
  ("Opcode_subx8_encode_fns", [Some "Opcode_subx8_Slot_inst_encode"; None; None]);
  ("Opcode_and_encode_fns", [Some "Opcode_and_Slot_inst_encode"; None; None]);
  ("Opcode_or_encode_fns", [Some "Opcode_or_Slot_inst_encode"; None; None]);
  ("Opcode_xor_encode_fns", [Some "Opcode_xor_Slot_inst_encode"; None; None]);
  ("Opcode_beqi_encode_fns", [Some "Opcode_beqi_Slot_inst_encode"; None; None]);
  ("Opcode_bnei_encode_fns", [Some "Opcode_bnei_Slot_inst_encode"; None; None]);
  ("Opcode_bgei_encode_fns", [Some "Opcode_bgei_Slot_inst_encode"; None; None]);
  ("Opcode_blti_encode_fns", [Some "Opcode_blti_Slot_inst_encode"; None; None]);
  ("Opcode_bbci_encode_fns", [Some "Opcode_bbci_Slot_inst_encode"; None; None]);
  ("Opcode_bbsi_encode_fns", [Some "Opcode_bbsi_Slot_inst_encode"; None; None]);
  ("Opcode_bgeui_encode_fns", [Some "Opcode_bgeui_Slot_inst_encode"; None; None]);
  ("Opcode_bltui_encode_fns", [Some "Opcode_bltui_Slot_inst_encode"; None; None]);
  ("Opcode_beq_encode_fns", [Some "Opcode_beq_Slot_inst_encode"; None; None]);
  ("Opcode_bne_encode_fns", [Some "Opcode_bne_Slot_inst_encode"; None; None])].

Definition e32_encode_fns_4 : list (string * list (option string)) := [
  ("Opcode_bge_encode_fns", [Some "Opcode_bge_Slot_inst_encode"; None; None]);
  ("Opcode_blt_encode_fns", [Some "Opcode_blt_Slot_inst_encode"; None; None]);
  ("Opcode_bgeu_encode_fns", [Some "Opcode_bgeu_Slot_inst_encode"; None; None]);
  ("Opcode_bltu_encode_fns", [Some "Opcode_bltu_Slot_inst_encode"; None; None]);
  ("Opcode_bany_encode_fns", [Some "Opcode_bany_Slot_inst_encode"; None; None]);
  ("Opcode_bnone_encode_fns", [Some "Opcode_bnone_Slot_inst_encode"; None; None]);
  ("Opcode_ball_encode_fns", [Some "Opcode_ball_Slot_inst_encode"; None; None]);
  ("Opcode_bnall_encode_fns", [Some "Opcode_bnall_Slot_inst_encode"; None; None]);
  ("Opcode_bbc_encode_fns", [Some "Opcode_bbc_Slot_inst_encode"; None; None]);
  ("Opcode_bbs_encode_fns", [Some "Opcode_bbs_Slot_inst_encode"; None; None]);
  ("Opcode_beqz_encode_fns", [Some "Opcode_beqz_Slot_inst_encode"; None; None]);
  ("Opcode_bnez_encode_fns", [Some "Opcode_bnez_Slot_inst_encode"; None; None]);
  ("Opcode_bgez_encode_fns", [Some "Opcode_bgez_Slot_inst_encode"; None; None]);
  ("Opcode_bltz_encode_fns", [Some "Opcode_bltz_Slot_inst_encode"; None; None]);
  ("Opcode_call0_encode_fns", [Some "Opcode_call0_Slot_inst_encode"; None; None]);
  ("Opcode_callx0_encode_fns", [Some "Opcode_callx0_Slot_inst_encode"; None; None]);
  ("Opcode_extui_encode_fns", [Some "Opcode_extui_Slot_inst_encode"; None; None]);
  ("Opcode_ill_encode_fns", [Some "Opcode_ill_Slot_inst_encode"; None; None]);
  ("Opcode_j_encode_fns", [Some "Opcode_j_Slot_inst_encode"; None; None]);
  ("Opcode_jx_encode_fns", [Some "Opcode_jx_Slot_inst_encode"; None; None]);
  ("Opcode_l16ui_encode_fns", [Some "Opcode_l16ui_Slot_inst_encode"; None; None]);
  ("Opcode_l16si_encode_fns", [Some "Opcode_l16si_Slot_inst_encode"; None; None]);
  ("Opcode_l32i_encode_fns", [Some "Opcode_l32i_Slot_inst_encode"; None; None]);
  ("Opcode_l32r_encode_fns", [Some "Opcode_l32r_Slot_inst_encode"; None; None]);
  ("Opcode_l8ui_encode_fns", [Some "Opcode_l8ui_Slot_inst_encode"; None; None]);
  ("Opcode_loop_encode_fns", [Some "Opcode_loop_Slot_inst_encode"; None; None]);
  ("Opcode_loopnez_encode_fns", [Some "Opcode_loopnez_Slot_inst_encode"; None; None]);
  ("Opcode_loopgtz_encode_fns", [Some "Opcode_loopgtz_Slot_inst_encode"; None; None]);
  ("Opcode_movi_encode_fns", [Some "Opcode_movi_Slot_inst_encode"; None; None]);
  ("Opcode_moveqz_encode_fns", [Some "Opcode_moveqz_Slot_inst_encode"; None; None]);
  ("Opcode_movnez_encode_fns", [Some "Opcode_movnez_Slot_inst_encode"; None; None]);
  ("Opcode_movltz_encode_fns", [Some "Opcode_movltz_Slot_inst_encode"; None; None]);
  ("Opcode_movgez_encode_fns", [Some "Opcode_movgez_Slot_inst_encode"; None; None]);
  ("Opcode_neg_encode_fns", [Some "Opcode_neg_Slot_inst_encode"; None; None]);
  ("Opcode_abs_encode_fns", [Some "Opcode_abs_Slot_inst_encode"; None; None]);
  ("Opcode_nop_encode_fns", [Some "Opcode_nop_Slot_inst_encode"; None; None]);
  ("Opcode_ret_encode_fns", [Some "Opcode_ret_Slot_inst_encode"; None; None])].

Definition e32_encode_fns_5 : list (string * list (option string)) := [
  ("Opcode_simcall_encode_fns", [Some "Opcode_simcall_Slot_inst_encode"; None; None]);
  ("Opcode_s16i_encode_fns", [Some "Opcode_s16i_Slot_inst_encode"; None; None]);
  ("Opcode_s32i_encode_fns", [Some "Opcode_s32i_Slot_inst_encode"; None; None]);
  ("Opcode_s32nb_encode_fns", [Some "Opcode_s32nb_Slot_inst_encode"; None; None]);
  ("Opcode_s8i_encode_fns", [Some "Opcode_s8i_Slot_inst_encode"; None; None]);
  ("Opcode_ssr_encode_fns", [Some "Opcode_ssr_Slot_inst_encode"; None; None]);
  ("Opcode_ssl_encode_fns", [Some "Opcode_ssl_Slot_inst_encode"; None; None]);
  ("Opcode_ssa8l_encode_fns", [Some "Opcode_ssa8l_Slot_inst_encode"; None; None]);
  ("Opcode_ssa8b_encode_fns", [Some "Opcode_ssa8b_Slot_inst_encode"; None; None]);
  ("Opcode_ssai_encode_fns", [Some "Opcode_ssai_Slot_inst_encode"; None; None]);
  ("Opcode_sll_encode_fns", [Some "Opcode_sll_Slot_inst_encode"; None; None]);
  ("Opcode_src_encode_fns", [Some "Opcode_src_Slot_inst_encode"; None; None]);
  ("Opcode_srl_encode_fns", [Some "Opcode_srl_Slot_inst_encode"; None; None]);
  ("Opcode_sra_encode_fns", [Some "Opcode_sra_Slot_inst_encode"; None; None]);
  ("Opcode_slli_encode_fns", [Some "Opcode_slli_Slot_inst_encode"; None; None]);
  ("Opcode_srai_encode_fns", [Some "Opcode_srai_Slot_inst_encode"; None; None]);
  ("Opcode_srli_encode_fns", [Some "Opcode_srli_Slot_inst_encode"; None; None]);
  ("Opcode_memw_encode_fns", [Some "Opcode_memw_Slot_inst_encode"; None; None]);
  ("Opcode_extw_encode_fns", [Some "Opcode_extw_Slot_inst_encode"; None; None]);
  ("Opcode_isync_encode_fns", [Some "Opcode_isync_Slot_inst_encode"; None; None]);
  ("Opcode_rsync_encode_fns", [Some "Opcode_rsync_Slot_inst_encode"; None; None]);
  ("Opcode_esync_encode_fns", [Some "Opcode_esync_Slot_inst_encode"; None; None]);
  ("Opcode_dsync_encode_fns", [Some "Opcode_dsync_Slot_inst_encode"; None; None]);
  ("Opcode_rsil_encode_fns", [Some "Opcode_rsil_Slot_inst_encode"; None; None]);
  ("Opcode_rsr_lend_encode_fns", [Some "Opcode_rsr_lend_Slot_inst_encode"; None; None]);
  ("Opcode_wsr_lend_encode_fns", [Some "Opcode_wsr_lend_Slot_inst_encode"; None; None]);
  ("Opcode_xsr_lend_encode_fns", [Some "Opcode_xsr_lend_Slot_inst_encode"; None; None]);
  ("Opcode_rsr_lcount_encode_fns", [Some "Opcode_rsr_lcount_Slot_inst_encode"; None; None]);
  ("Opcode_wsr_lcount_encode_fns", [Some "Opcode_wsr_lcount_Slot_inst_encode"; None; None]);
  ("Opcode_xsr_lcount_encode_fns", [Some "Opcode_xsr_lcount_Slot_inst_encode"; None; None]);
  ("Opcode_rsr_lbeg_encode_fns", [Some "Opcode_rsr_lbeg_Slot_inst_encode"; None; None]);
  ("Opcode_wsr_lbeg_encode_fns", [Some "Opcode_wsr_lbeg_Slot_inst_encode"; None; None]);
  ("Opcode_xsr_lbeg_encode_fns", [Some "Opcode_xsr_lbeg_Slot_inst_encode"; None; None]);
  ("Opcode_rsr_sar_encode_fns", [Some "Opcode_rsr_sar_Slot_inst_encode"; None; None]);
  ("Opcode_wsr_sar_encode_fns", [Some "Opcode_wsr_sar_Slot_inst_encode"; None; None]);
  ("Opcode_xsr_sar_encode_fns", [Some "Opcode_xsr_sar_Slot_inst_encode"; None; None]);
  ("Opcode_rsr_memctl_encode_fns", [Some "Opcode_rsr_memctl_Slot_inst_encode"; None; None])].

Definition e32_encode_fns_6 : list (string * list (option string)) := [
  ("Opcode_wsr_memctl_encode_fns", [Some "Opcode_wsr_memctl_Slot_inst_encode"; None; None]);
  ("Opcode_xsr_memctl_encode_fns", [Some "Opcode_xsr_memctl_Slot_inst_encode"; None; None]);
  ("Opcode_rsr_litbase_encode_fns", [Some "Opcode_rsr_litbase_Slot_inst_encode"; None; None]);
  ("Opcode_wsr_litbase_encode_fns", [Some "Opcode_wsr_litbase_Slot_inst_encode"; None; None]);
  ("Opcode_xsr_litbase_encode_fns", [Some "Opcode_xsr_litbase_Slot_inst_encode"; None; None]);
  ("Opcode_rsr_configid0_encode_fns", [Some "Opcode_rsr_configid0_Slot_inst_encode"; None; None]);
  ("Opcode_wsr_configid0_encode_fns", [Some "Opcode_wsr_configid0_Slot_inst_encode"; None; None]);
  ("Opcode_rsr_configid1_encode_fns", [Some "Opcode_rsr_configid1_Slot_inst_encode"; None; None]);
  ("Opcode_rsr_ps_encode_fns", [Some "Opcode_rsr_ps_Slot_inst_encode"; None; None]);
  ("Opcode_wsr_ps_encode_fns", [Some "Opcode_wsr_ps_Slot_inst_encode"; None; None]);
  ("Opcode_xsr_ps_encode_fns", [Some "Opcode_xsr_ps_Slot_inst_encode"; None; None]);
  ("Opcode_rsr_epc1_encode_fns", [Some "Opcode_rsr_epc1_Slot_inst_encode"; None; None]);
  ("Opcode_wsr_epc1_encode_fns", [Some "Opcode_wsr_epc1_Slot_inst_encode"; None; None]);
  ("Opcode_xsr_epc1_encode_fns", [Some "Opcode_xsr_epc1_Slot_inst_encode"; None; None]);
  ("Opcode_rsr_excsave1_encode_fns", [Some "Opcode_rsr_excsave1_Slot_inst_encode"; None; None]);
  ("Opcode_wsr_excsave1_encode_fns", [Some "Opcode_wsr_excsave1_Slot_inst_encode"; None; None]);
  ("Opcode_xsr_excsave1_encode_fns", [Some "Opcode_xsr_excsave1_Slot_inst_encode"; None; None]);
  ("Opcode_rsr_epc2_encode_fns", [Some "Opcode_rsr_epc2_Slot_inst_encode"; None; None]);
  ("Opcode_wsr_epc2_encode_fns", [Some "Opcode_wsr_epc2_Slot_inst_encode"; None; None]);
  ("Opcode_xsr_epc2_encode_fns", [Some "Opcode_xsr_epc2_Slot_inst_encode"; None; None]);
  ("Opcode_rsr_excsave2_encode_fns", [Some "Opcode_rsr_excsave2_Slot_inst_encode"; None; None]);
  ("Opcode_wsr_excsave2_encode_fns", [Some "Opcode_wsr_excsave2_Slot_inst_encode"; None; None]);
  ("Opcode_xsr_excsave2_encode_fns", [Some "Opcode_xsr_excsave2_Slot_inst_encode"; None; None]);
  ("Opcode_rsr_epc3_encode_fns", [Some "Opcode_rsr_epc3_Slot_inst_encode"; None; None]);
  ("Opcode_wsr_epc3_encode_fns", [Some "Opcode_wsr_epc3_Slot_inst_encode"; None; None]);
  ("Opcode_xsr_epc3_encode_fns", [Some "Opcode_xsr_epc3_Slot_inst_encode"; None; None]);
  ("Opcode_rsr_excsave3_encode_fns", [Some "Opcode_rsr_excsave3_Slot_inst_encode"; None; None]);
  ("Opcode_wsr_excsave3_encode_fns", [Some "Opcode_wsr_excsave3_Slot_inst_encode"; None; None]);
  ("Opcode_xsr_excsave3_encode_fns", [Some "Opcode_xsr_excsave3_Slot_inst_encode"; None; None]);
  ("Opcode_rsr_epc4_encode_fns", [Some "Opcode_rsr_epc4_Slot_inst_encode"; None; None]);
  ("Opcode_wsr_epc4_encode_fns", [Some "Opcode_wsr_epc4_Slot_inst_encode"; None; None]);
  ("Opcode_xsr_epc4_encode_fns", [Some "Opcode_xsr_epc4_Slot_inst_encode"; None; None]);
  ("Opcode_rsr_excsave4_encode_fns", [Some "Opcode_rsr_excsave4_Slot_inst_encode"; None; None]);
  ("Opcode_wsr_excsave4_encode_fns", [Some "Opcode_wsr_excsave4_Slot_inst_encode"; None; None]);
  ("Opcode_xsr_excsave4_encode_fns", [Some "Opcode_xsr_excsave4_Slot_inst_encode"; None; None]);
  ("Opcode_rsr_epc5_encode_fns", [Some "Opcode_rsr_epc5_Slot_inst_encode"; None; None]);
  ("Opcode_wsr_epc5_encode_fns", [Some "Opcode_wsr_epc5_Slot_inst_encode"; None; None])].

Definition e32_encode_fns_7 : list (string * list (option string)) := [
  ("Opcode_xsr_epc5_encode_fns", [Some "Opcode_xsr_epc5_Slot_inst_encode"; None; None]);
  ("Opcode_rsr_excsave5_encode_fns", [Some "Opcode_rsr_excsave5_Slot_inst_encode"; None; None]);
  ("Opcode_wsr_excsave5_encode_fns", [Some "Opcode_wsr_excsave5_Slot_inst_encode"; None; None]);
  ("Opcode_xsr_excsave5_encode_fns", [Some "Opcode_xsr_excsave5_Slot_inst_encode"; None; None]);
  ("Opcode_rsr_epc6_encode_fns", [Some "Opcode_rsr_epc6_Slot_inst_encode"; None; None]);
  ("Opcode_wsr_epc6_encode_fns", [Some "Opcode_wsr_epc6_Slot_inst_encode"; None; None]);
  ("Opcode_xsr_epc6_encode_fns", [Some "Opcode_xsr_epc6_Slot_inst_encode"; None; None]);
  ("Opcode_rsr_excsave6_encode_fns", [Some "Opcode_rsr_excsave6_Slot_inst_encode"; None; None]);
  ("Opcode_wsr_excsave6_encode_fns", [Some "Opcode_wsr_excsave6_Slot_inst_encode"; None; None]);
  ("Opcode_xsr_excsave6_encode_fns", [Some "Opcode_xsr_excsave6_Slot_inst_encode"; None; None]);
  ("Opcode_rsr_epc7_encode_fns", [Some "Opcode_rsr_epc7_Slot_inst_encode"; None; None]);
  ("Opcode_wsr_epc7_encode_fns", [Some "Opcode_wsr_epc7_Slot_inst_encode"; None; None]);
  ("Opcode_xsr_epc7_encode_fns", [Some "Opcode_xsr_epc7_Slot_inst_encode"; None; None]);
  ("Opcode_rsr_excsave7_encode_fns", [Some "Opcode_rsr_excsave7_Slot_inst_encode"; None; None]);
  ("Opcode_wsr_excsave7_encode_fns", [Some "Opcode_wsr_excsave7_Slot_inst_encode"; None; None]);
  ("Opcode_xsr_excsave7_encode_fns", [Some "Opcode_xsr_excsave7_Slot_inst_encode"; None; None]);
  ("Opcode_rsr_eps2_encode_fns", [Some "Opcode_rsr_eps2_Slot_inst_encode"; None; None]);
  ("Opcode_wsr_eps2_encode_fns", [Some "Opcode_wsr_eps2_Slot_inst_encode"; None; None]);
  ("Opcode_xsr_eps2_encode_fns", [Some "Opcode_xsr_eps2_Slot_inst_encode"; None; None]);
  ("Opcode_rsr_eps3_encode_fns", [Some "Opcode_rsr_eps3_Slot_inst_encode"; None; None]);
  ("Opcode_wsr_eps3_encode_fns", [Some "Opcode_wsr_eps3_Slot_inst_encode"; None; None]);
  ("Opcode_xsr_eps3_encode_fns", [Some "Opcode_xsr_eps3_Slot_inst_encode"; None; None]);
  ("Opcode_rsr_eps4_encode_fns", [Some "Opcode_rsr_eps4_Slot_inst_encode"; None; None]);
  ("Opcode_wsr_eps4_encode_fns", [Some "Opcode_wsr_eps4_Slot_inst_encode"; None; None]);
  ("Opcode_xsr_eps4_encode_fns", [Some "Opcode_xsr_eps4_Slot_inst_encode"; None; None]);
  ("Opcode_rsr_eps5_encode_fns", [Some "Opcode_rsr_eps5_Slot_inst_encode"; None; None]);
  ("Opcode_wsr_eps5_encode_fns", [Some "Opcode_wsr_eps5_Slot_inst_encode"; None; None]);
  ("Opcode_xsr_eps5_encode_fns", [Some "Opcode_xsr_eps5_Slot_inst_encode"; None; None]);
  ("Opcode_rsr_eps6_encode_fns", [Some "Opcode_rsr_eps6_Slot_inst_encode"; None; None]);
  ("Opcode_wsr_eps6_encode_fns", [Some "Opcode_wsr_eps6_Slot_inst_encode"; None; None]);
  ("Opcode_xsr_eps6_encode_fns", [Some "Opcode_xsr_eps6_Slot_inst_encode"; None; None]);
  ("Opcode_rsr_eps7_encode_fns", [Some "Opcode_rsr_eps7_Slot_inst_encode"; None; None]);
  ("Opcode_wsr_eps7_encode_fns", [Some "Opcode_wsr_eps7_Slot_inst_encode"; None; None]);
  ("Opcode_xsr_eps7_encode_fns", [Some "Opcode_xsr_eps7_Slot_inst_encode"; None; None]);
  ("Opcode_rsr_excvaddr_encode_fns", [Some "Opcode_rsr_excvaddr_Slot_inst_encode"; None; None]);
  ("Opcode_wsr_excvaddr_encode_fns", [Some "Opcode_wsr_excvaddr_Slot_inst_encode"; None; None]);
  ("Opcode_xsr_excvaddr_encode_fns", [Some "Opcode_xsr_excvaddr_Slot_inst_encode"; None; None])].

Definition e32_encode_fns_8 : list (string * list (option string)) := [
  ("Opcode_rsr_depc_encode_fns", [Some "Opcode_rsr_depc_Slot_inst_encode"; None; None]);
  ("Opcode_wsr_depc_encode_fns", [Some "Opcode_wsr_depc_Slot_inst_encode"; None; None]);
  ("Opcode_xsr_depc_encode_fns", [Some "Opcode_xsr_depc_Slot_inst_encode"; None; None]);
  ("Opcode_rsr_exccause_encode_fns", [Some "Opcode_rsr_exccause_Slot_inst_encode"; None; None]);
  ("Opcode_wsr_exccause_encode_fns", [Some "Opcode_wsr_exccause_Slot_inst_encode"; None; None]);
  ("Opcode_xsr_exccause_encode_fns", [Some "Opcode_xsr_exccause_Slot_inst_encode"; None; None]);
  ("Opcode_rsr_misc0_encode_fns", [Some "Opcode_rsr_misc0_Slot_inst_encode"; None; None]);
  ("Opcode_wsr_misc0_encode_fns", [Some "Opcode_wsr_misc0_Slot_inst_encode"; None; None]);
  ("Opcode_xsr_misc0_encode_fns", [Some "Opcode_xsr_misc0_Slot_inst_encode"; None; None]);
  ("Opcode_rsr_misc1_encode_fns", [Some "Opcode_rsr_misc1_Slot_inst_encode"; None; None]);
  ("Opcode_wsr_misc1_encode_fns", [Some "Opcode_wsr_misc1_Slot_inst_encode"; None; None]);
  ("Opcode_xsr_misc1_encode_fns", [Some "Opcode_xsr_misc1_Slot_inst_encode"; None; None]);
  ("Opcode_rsr_misc2_encode_fns", [Some "Opcode_rsr_misc2_Slot_inst_encode"; None; None]);
  ("Opcode_wsr_misc2_encode_fns", [Some "Opcode_wsr_misc2_Slot_inst_encode"; None; None]);
  ("Opcode_xsr_misc2_encode_fns", [Some "Opcode_xsr_misc2_Slot_inst_encode"; None; None]);
  ("Opcode_rsr_misc3_encode_fns", [Some "Opcode_rsr_misc3_Slot_inst_encode"; None; None]);
  ("Opcode_wsr_misc3_encode_fns", [Some "Opcode_wsr_misc3_Slot_inst_encode"; None; None]);
  ("Opcode_xsr_misc3_encode_fns", [Some "Opcode_xsr_misc3_Slot_inst_encode"; None; None]);
  ("Opcode_rsr_prid_encode_fns", [Some "Opcode_rsr_prid_Slot_inst_encode"; None; None]);
  ("Opcode_rsr_vecbase_encode_fns", [Some "Opcode_rsr_vecbase_Slot_inst_encode"; None; None]);
  ("Opcode_wsr_vecbase_encode_fns", [Some "Opcode_wsr_vecbase_Slot_inst_encode"; None; None]);
  ("Opcode_xsr_vecbase_encode_fns", [Some "Opcode_xsr_vecbase_Slot_inst_encode"; None; None]);
  ("Opcode_mul16u_encode_fns", [Some "Opcode_mul16u_Slot_inst_encode"; None; None]);
  ("Opcode_mul16s_encode_fns", [Some "Opcode_mul16s_Slot_inst_encode"; None; None]);
  ("Opcode_mull_encode_fns", [Some "Opcode_mull_Slot_inst_encode"; None; None]);
  ("Opcode_muluh_encode_fns", [Some "Opcode_muluh_Slot_inst_encode"; None; None]);
  ("Opcode_mulsh_encode_fns", [Some "Opcode_mulsh_Slot_inst_encode"; None; None]);
  ("Opcode_mul_aa_ll_encode_fns", [Some "Opcode_mul_aa_ll_Slot_inst_encode"; None; None]);
  ("Opcode_mul_aa_hl_encode_fns", [Some "Opcode_mul_aa_hl_Slot_inst_encode"; None; None]);
  ("Opcode_mul_aa_lh_encode_fns", [Some "Opcode_mul_aa_lh_Slot_inst_encode"; None; None]);
  ("Opcode_mul_aa_hh_encode_fns", [Some "Opcode_mul_aa_hh_Slot_inst_encode"; None; None]);
  ("Opcode_umul_aa_ll_encode_fns", [Some "Opcode_umul_aa_ll_Slot_inst_encode"; None; None]);
  ("Opcode_umul_aa_hl_encode_fns", [Some "Opcode_umul_aa_hl_Slot_inst_encode"; None; None]);
  ("Opcode_umul_aa_lh_encode_fns", [Some "Opcode_umul_aa_lh_Slot_inst_encode"; None; None]);
  ("Opcode_umul_aa_hh_encode_fns", [Some "Opcode_umul_aa_hh_Slot_inst_encode"; None; None]);
  ("Opcode_mul_ad_ll_encode_fns", [Some "Opcode_mul_ad_ll_Slot_inst_encode"; None; None]);
  ("Opcode_mul_ad_hl_encode_fns", [Some "Opcode_mul_ad_hl_Slot_inst_encode"; None; None])].

Definition e32_encode_fns_9 : list (string * list (option string)) := [
  ("Opcode_mul_ad_lh_encode_fns", [Some "Opcode_mul_ad_lh_Slot_inst_encode"; None; None]);
  ("Opcode_mul_ad_hh_encode_fns", [Some "Opcode_mul_ad_hh_Slot_inst_encode"; None; None]);
  ("Opcode_mul_da_ll_encode_fns", [Some "Opcode_mul_da_ll_Slot_inst_encode"; None; None]);
  ("Opcode_mul_da_hl_encode_fns", [Some "Opcode_mul_da_hl_Slot_inst_encode"; None; None]);
  ("Opcode_mul_da_lh_encode_fns", [Some "Opcode_mul_da_lh_Slot_inst_encode"; None; None]);
  ("Opcode_mul_da_hh_encode_fns", [Some "Opcode_mul_da_hh_Slot_inst_encode"; None; None]);
  ("Opcode_mul_dd_ll_encode_fns", [Some "Opcode_mul_dd_ll_Slot_inst_encode"; None; None]);
  ("Opcode_mul_dd_hl_encode_fns", [Some "Opcode_mul_dd_hl_Slot_inst_encode"; None; None]);
  ("Opcode_mul_dd_lh_encode_fns", [Some "Opcode_mul_dd_lh_Slot_inst_encode"; None; None]);
  ("Opcode_mul_dd_hh_encode_fns", [Some "Opcode_mul_dd_hh_Slot_inst_encode"; None; None]);
  ("Opcode_mula_aa_ll_encode_fns", [Some "Opcode_mula_aa_ll_Slot_inst_encode"; None; None]);
  ("Opcode_mula_aa_hl_encode_fns", [Some "Opcode_mula_aa_hl_Slot_inst_encode"; None; None]);
  ("Opcode_mula_aa_lh_encode_fns", [Some "Opcode_mula_aa_lh_Slot_inst_encode"; None; None]);
  ("Opcode_mula_aa_hh_encode_fns", [Some "Opcode_mula_aa_hh_Slot_inst_encode"; None; None]);
  ("Opcode_muls_aa_ll_encode_fns", [Some "Opcode_muls_aa_ll_Slot_inst_encode"; None; None]);
  ("Opcode_muls_aa_hl_encode_fns", [Some "Opcode_muls_aa_hl_Slot_inst_encode"; None; None]);
  ("Opcode_muls_aa_lh_encode_fns", [Some "Opcode_muls_aa_lh_Slot_inst_encode"; None; None]);
  ("Opcode_muls_aa_hh_encode_fns", [Some "Opcode_muls_aa_hh_Slot_inst_encode"; None; None]);
  ("Opcode_mula_ad_ll_encode_fns", [Some "Opcode_mula_ad_ll_Slot_inst_encode"; None; None]);
  ("Opcode_mula_ad_hl_encode_fns", [Some "Opcode_mula_ad_hl_Slot_inst_encode"; None; None]);
  ("Opcode_mula_ad_lh_encode_fns", [Some "Opcode_mula_ad_lh_Slot_inst_encode"; None; None]);
  ("Opcode_mula_ad_hh_encode_fns", [Some "Opcode_mula_ad_hh_Slot_inst_encode"; None; None]);
  ("Opcode_muls_ad_ll_encode_fns", [Some "Opcode_muls_ad_ll_Slot_inst_encode"; None; None]);
  ("Opcode_muls_ad_hl_encode_fns", [Some "Opcode_muls_ad_hl_Slot_inst_encode"; None; None]);
  ("Opcode_muls_ad_lh_encode_fns", [Some "Opcode_muls_ad_lh_Slot_inst_encode"; None; None]);
  ("Opcode_muls_ad_hh_encode_fns", [Some "Opcode_muls_ad_hh_Slot_inst_encode"; None; None]);
  ("Opcode_mula_da_ll_encode_fns", [Some "Opcode_mula_da_ll_Slot_inst_encode"; None; None]);
  ("Opcode_mula_da_hl_encode_fns", [Some "Opcode_mula_da_hl_Slot_inst_encode"; None; None]);
  ("Opcode_mula_da_lh_encode_fns", [Some "Opcode_mula_da_lh_Slot_inst_encode"; None; None]);
  ("Opcode_mula_da_hh_encode_fns", [Some "Opcode_mula_da_hh_Slot_inst_encode"; None; None]);
  ("Opcode_muls_da_ll_encode_fns", [Some "Opcode_muls_da_ll_Slot_inst_encode"; None; None]);
  ("Opcode_muls_da_hl_encode_fns", [Some "Opcode_muls_da_hl_Slot_inst_encode"; None; None]);
  ("Opcode_muls_da_lh_encode_fns", [Some "Opcode_muls_da_lh_Slot_inst_encode"; None; None]);
  ("Opcode_muls_da_hh_encode_fns", [Some "Opcode_muls_da_hh_Slot_inst_encode"; None; None]);
  ("Opcode_mula_dd_ll_encode_fns", [Some "Opcode_mula_dd_ll_Slot_inst_encode"; None; None]);
  ("Opcode_mula_dd_hl_encode_fns", [Some "Opcode_mula_dd_hl_Slot_inst_encode"; None; None]);
  ("Opcode_mula_dd_lh_encode_fns", [Some "Opcode_mula_dd_lh_Slot_inst_encode"; None; None])].

Definition e32_encode_fns_10 : list (string * list (option string)) := [
  ("Opcode_mula_dd_hh_encode_fns", [Some "Opcode_mula_dd_hh_Slot_inst_encode"; None; None]);
  ("Opcode_muls_dd_ll_encode_fns", [Some "Opcode_muls_dd_ll_Slot_inst_encode"; None; None]);
  ("Opcode_muls_dd_hl_encode_fns", [Some "Opcode_muls_dd_hl_Slot_inst_encode"; None; None]);
  ("Opcode_muls_dd_lh_encode_fns", [Some "Opcode_muls_dd_lh_Slot_inst_encode"; None; None]);
  ("Opcode_muls_dd_hh_encode_fns", [Some "Opcode_muls_dd_hh_Slot_inst_encode"; None; None]);
  ("Opcode_mula_da_ll_lddec_encode_fns", [Some "Opcode_mula_da_ll_lddec_Slot_inst_encode"; None; None]);
  ("Opcode_mula_da_ll_ldinc_encode_fns", [Some "Opcode_mula_da_ll_ldinc_Slot_inst_encode"; None; None]);
  ("Opcode_mula_da_hl_lddec_encode_fns", [Some "Opcode_mula_da_hl_lddec_Slot_inst_encode"; None; None]);
  ("Opcode_mula_da_hl_ldinc_encode_fns", [Some "Opcode_mula_da_hl_ldinc_Slot_inst_encode"; None; None]);
  ("Opcode_mula_da_lh_lddec_encode_fns", [Some "Opcode_mula_da_lh_lddec_Slot_inst_encode"; None; None]);
  ("Opcode_mula_da_lh_ldinc_encode_fns", [Some "Opcode_mula_da_lh_ldinc_Slot_inst_encode"; None; None]);
  ("Opcode_mula_da_hh_lddec_encode_fns", [Some "Opcode_mula_da_hh_lddec_Slot_inst_encode"; None; None]);
  ("Opcode_mula_da_hh_ldinc_encode_fns", [Some "Opcode_mula_da_hh_ldinc_Slot_inst_encode"; None; None]);
  ("Opcode_mula_dd_ll_lddec_encode_fns", [Some "Opcode_mula_dd_ll_lddec_Slot_inst_encode"; None; None]);
  ("Opcode_mula_dd_ll_ldinc_encode_fns", [Some "Opcode_mula_dd_ll_ldinc_Slot_inst_encode"; None; None]);
  ("Opcode_mula_dd_hl_lddec_encode_fns", [Some "Opcode_mula_dd_hl_lddec_Slot_inst_encode"; None; None]);
  ("Opcode_mula_dd_hl_ldinc_encode_fns", [Some "Opcode_mula_dd_hl_ldinc_Slot_inst_encode"; None; None]);
  ("Opcode_mula_dd_lh_lddec_encode_fns", [Some "Opcode_mula_dd_lh_lddec_Slot_inst_encode"; None; None]);
  ("Opcode_mula_dd_lh_ldinc_encode_fns", [Some "Opcode_mula_dd_lh_ldinc_Slot_inst_encode"; None; None]);
  ("Opcode_mula_dd_hh_lddec_encode_fns", [Some "Opcode_mula_dd_hh_lddec_Slot_inst_encode"; None; None]);
  ("Opcode_mula_dd_hh_ldinc_encode_fns", [Some "Opcode_mula_dd_hh_ldinc_Slot_inst_encode"; None; None]);
  ("Opcode_lddec_encode_fns", [Some "Opcode_lddec_Slot_inst_encode"; None; None]);
  ("Opcode_ldinc_encode_fns", [Some "Opcode_ldinc_Slot_inst_encode"; None; None]);
  ("Opcode_rsr_m0_encode_fns", [Some "Opcode_rsr_m0_Slot_inst_encode"; None; None]);
  ("Opcode_wsr_m0_encode_fns", [Some "Opcode_wsr_m0_Slot_inst_encode"; None; None]);
  ("Opcode_xsr_m0_encode_fns", [Some "Opcode_xsr_m0_Slot_inst_encode"; None; None]);
  ("Opcode_rsr_m1_encode_fns", [Some "Opcode_rsr_m1_Slot_inst_encode"; None; None]);
  ("Opcode_wsr_m1_encode_fns", [Some "Opcode_wsr_m1_Slot_inst_encode"; None; None]);
  ("Opcode_xsr_m1_encode_fns", [Some "Opcode_xsr_m1_Slot_inst_encode"; None; None]);
  ("Opcode_rsr_m2_encode_fns", [Some "Opcode_rsr_m2_Slot_inst_encode"; None; None]);
  ("Opcode_wsr_m2_encode_fns", [Some "Opcode_wsr_m2_Slot_inst_encode"; None; None]);
  ("Opcode_xsr_m2_encode_fns", [Some "Opcode_xsr_m2_Slot_inst_encode"; None; None]);
  ("Opcode_rsr_m3_encode_fns", [Some "Opcode_rsr_m3_Slot_inst_encode"; None; None]);
  ("Opcode_wsr_m3_encode_fns", [Some "Opcode_wsr_m3_Slot_inst_encode"; None; None]);
  ("Opcode_xsr_m3_encode_fns", [Some "Opcode_xsr_m3_Slot_inst_encode"; None; None]);
  ("Opcode_rsr_acclo_encode_fns", [Some "Opcode_rsr_acclo_Slot_inst_encode"; None; None]);
  ("Opcode_wsr_acclo_encode_fns", [Some "Opcode_wsr_acclo_Slot_inst_encode"; None; None])].

Definition e32_encode_fns_11 : list (string * list (option string)) := [
  ("Opcode_xsr_acclo_encode_fns", [Some "Opcode_xsr_acclo_Slot_inst_encode"; None; None]);
  ("Opcode_rsr_acchi_encode_fns", [Some "Opcode_rsr_acchi_Slot_inst_encode"; None; None]);
  ("Opcode_wsr_acchi_encode_fns", [Some "Opcode_wsr_acchi_Slot_inst_encode"; None; None]);
  ("Opcode_xsr_acchi_encode_fns", [Some "Opcode_xsr_acchi_Slot_inst_encode"; None; None]);
  ("Opcode_rfi_encode_fns", [Some "Opcode_rfi_Slot_inst_encode"; None; None]);
  ("Opcode_waiti_encode_fns", [Some "Opcode_waiti_Slot_inst_encode"; None; None]);
  ("Opcode_rsr_interrupt_encode_fns", [Some "Opcode_rsr_interrupt_Slot_inst_encode"; None; None]);
  ("Opcode_wsr_intset_encode_fns", [Some "Opcode_wsr_intset_Slot_inst_encode"; None; None]);
  ("Opcode_wsr_intclear_encode_fns", [Some "Opcode_wsr_intclear_Slot_inst_encode"; None; None]);
  ("Opcode_rsr_intenable_encode_fns", [Some "Opcode_rsr_intenable_Slot_inst_encode"; None; None]);
  ("Opcode_wsr_intenable_encode_fns", [Some "Opcode_wsr_intenable_Slot_inst_encode"; None; None]);
  ("Opcode_xsr_intenable_encode_fns", [Some "Opcode_xsr_intenable_Slot_inst_encode"; None; None]);
  ("Opcode_break_encode_fns", [Some "Opcode_break_Slot_inst_encode"; None; None]);
  ("Opcode_break_n_encode_fns", [None; None; Some "Opcode_break_n_Slot_inst16b_encode"]);
  ("Opcode_rsr_dbreaka0_encode_fns", [Some "Opcode_rsr_dbreaka0_Slot_inst_encode"; None; None]);
  ("Opcode_wsr_dbreaka0_encode_fns", [Some "Opcode_wsr_dbreaka0_Slot_inst_encode"; None; None]);
  ("Opcode_xsr_dbreaka0_encode_fns", [Some "Opcode_xsr_dbreaka0_Slot_inst_encode"; None; None]);
  ("Opcode_rsr_dbreakc0_encode_fns", [Some "Opcode_rsr_dbreakc0_Slot_inst_encode"; None; None]);
  ("Opcode_wsr_dbreakc0_encode_fns", [Some "Opcode_wsr_dbreakc0_Slot_inst_encode"; None; None]);
  ("Opcode_xsr_dbreakc0_encode_fns", [Some "Opcode_xsr_dbreakc0_Slot_inst_encode"; None; None]);
  ("Opcode_rsr_dbreaka1_encode_fns", [Some "Opcode_rsr_dbreaka1_Slot_inst_encode"; None; None]);
  ("Opcode_wsr_dbreaka1_encode_fns", [Some "Opcode_wsr_dbreaka1_Slot_inst_encode"; None; None]);
  ("Opcode_xsr_dbreaka1_encode_fns", [Some "Opcode_xsr_dbreaka1_Slot_inst_encode"; None; None]);
  ("Opcode_rsr_dbreakc1_encode_fns", [Some "Opcode_rsr_dbreakc1_Slot_inst_encode"; None; None]);
  ("Opcode_wsr_dbreakc1_encode_fns", [Some "Opcode_wsr_dbreakc1_Slot_inst_encode"; None; None]);
  ("Opcode_xsr_dbreakc1_encode_fns", [Some "Opcode_xsr_dbreakc1_Slot_inst_encode"; None; None]);
  ("Opcode_rsr_ibreaka0_encode_fns", [Some "Opcode_rsr_ibreaka0_Slot_inst_encode"; None; None]);
  ("Opcode_wsr_ibreaka0_encode_fns", [Some "Opcode_wsr_ibreaka0_Slot_inst_encode"; None; None]);
  ("Opcode_xsr_ibreaka0_encode_fns", [Some "Opcode_xsr_ibreaka0_Slot_inst_encode"; None; None]);
  ("Opcode_rsr_ibreaka1_encode_fns", [Some "Opcode_rsr_ibreaka1_Slot_inst_encode"; None; None]);
  ("Opcode_wsr_ibreaka1_encode_fns", [Some "Opcode_wsr_ibreaka1_Slot_inst_encode"; None; None]);
  ("Opcode_xsr_ibreaka1_encode_fns", [Some "Opcode_xsr_ibreaka1_Slot_inst_encode"; None; None]);
  ("Opcode_rsr_ibreakenable_encode_fns", [Some "Opcode_rsr_ibreakenable_Slot_inst_encode"; None; None]);
  ("Opcode_wsr_ibreakenable_encode_fns", [Some "Opcode_wsr_ibreakenable_Slot_inst_encode"; None; None]);
  ("Opcode_xsr_ibreakenable_encode_fns", [Some "Opcode_xsr_ibreakenable_Slot_inst_encode"; None; None]);
  ("Opcode_rsr_debugcause_encode_fns", [Some "Opcode_rsr_debugcause_Slot_inst_encode"; None; None]);
  ("Opcode_wsr_debugcause_encode_fns", [Some "Opcode_wsr_debugcause_Slot_inst_encode"; None; None])].

Definition e32_encode_fns_12 : list (string * list (option string)) := [
  ("Opcode_xsr_debugcause_encode_fns", [Some "Opcode_xsr_debugcause_Slot_inst_encode"; None; None]);
  ("Opcode_rsr_icount_encode_fns", [Some "Opcode_rsr_icount_Slot_inst_encode"; None; None]);
  ("Opcode_wsr_icount_encode_fns", [Some "Opcode_wsr_icount_Slot_inst_encode"; None; None]);
  ("Opcode_xsr_icount_encode_fns", [Some "Opcode_xsr_icount_Slot_inst_encode"; None; None]);
  ("Opcode_rsr_icountlevel_encode_fns", [Some "Opcode_rsr_icountlevel_Slot_inst_encode"; None; None]);
  ("Opcode_wsr_icountlevel_encode_fns", [Some "Opcode_wsr_icountlevel_Slot_inst_encode"; None; None]);
  ("Opcode_xsr_icountlevel_encode_fns", [Some "Opcode_xsr_icountlevel_Slot_inst_encode"; None; None]);
  ("Opcode_rsr_ddr_encode_fns", [Some "Opcode_rsr_ddr_Slot_inst_encode"; None; None]);
  ("Opcode_wsr_ddr_encode_fns", [Some "Opcode_wsr_ddr_Slot_inst_encode"; None; None]);
  ("Opcode_xsr_ddr_encode_fns", [Some "Opcode_xsr_ddr_Slot_inst_encode"; None; None]);
  ("Opcode_lddr32_p_encode_fns", [Some "Opcode_lddr32_p_Slot_inst_encode"; None; None]);
  ("Opcode_sddr32_p_encode_fns", [Some "Opcode_sddr32_p_Slot_inst_encode"; None; None]);
  ("Opcode_rfdo_encode_fns", [Some "Opcode_rfdo_Slot_inst_encode"; None; None]);
  ("Opcode_rfdd_encode_fns", [Some "Opcode_rfdd_Slot_inst_encode"; None; None]);
  ("Opcode_wsr_mmid_encode_fns", [Some "Opcode_wsr_mmid_Slot_inst_encode"; None; None]);
  ("Opcode_andb_encode_fns", [Some "Opcode_andb_Slot_inst_encode"; None; None]);
  ("Opcode_andbc_encode_fns", [Some "Opcode_andbc_Slot_inst_encode"; None; None]);
  ("Opcode_orb_encode_fns", [Some "Opcode_orb_Slot_inst_encode"; None; None]);
  ("Opcode_orbc_encode_fns", [Some "Opcode_orbc_Slot_inst_encode"; None; None]);
  ("Opcode_xorb_encode_fns", [Some "Opcode_xorb_Slot_inst_encode"; None; None]);
  ("Opcode_any4_encode_fns", [Some "Opcode_any4_Slot_inst_encode"; None; None]);
  ("Opcode_all4_encode_fns", [Some "Opcode_all4_Slot_inst_encode"; None; None]);
  ("Opcode_any8_encode_fns", [Some "Opcode_any8_Slot_inst_encode"; None; None]);
  ("Opcode_all8_encode_fns", [Some "Opcode_all8_Slot_inst_encode"; None; None]);
  ("Opcode_bf_encode_fns", [Some "Opcode_bf_Slot_inst_encode"; None; None]);
  ("Opcode_bt_encode_fns", [Some "Opcode_bt_Slot_inst_encode"; None; None]);
  ("Opcode_movf_encode_fns", [Some "Opcode_movf_Slot_inst_encode"; None; None]);
  ("Opcode_movt_encode_fns", [Some "Opcode_movt_Slot_inst_encode"; None; None]);
  ("Opcode_rsr_br_encode_fns", [Some "Opcode_rsr_br_Slot_inst_encode"; None; None]);
  ("Opcode_wsr_br_encode_fns", [Some "Opcode_wsr_br_Slot_inst_encode"; None; None]);
  ("Opcode_xsr_br_encode_fns", [Some "Opcode_xsr_br_Slot_inst_encode"; None; None]);
  ("Opcode_rsr_ccount_encode_fns", [Some "Opcode_rsr_ccount_Slot_inst_encode"; None; None]);
  ("Opcode_wsr_ccount_encode_fns", [Some "Opcode_wsr_ccount_Slot_inst_encode"; None; None]);
  ("Opcode_xsr_ccount_encode_fns", [Some "Opcode_xsr_ccount_Slot_inst_encode"; None; None]);
  ("Opcode_rsr_ccompare0_encode_fns", [Some "Opcode_rsr_ccompare0_Slot_inst_encode"; None; None]);
  ("Opcode_wsr_ccompare0_encode_fns", [Some "Opcode_wsr_ccompare0_Slot_inst_encode"; None; None]);
  ("Opcode_xsr_ccompare0_encode_fns", [Some "Opcode_xsr_ccompare0_Slot_inst_encode"; None; None])].

Definition e32_encode_fns_13 : list (string * list (option string)) := [
  ("Opcode_rsr_ccompare1_encode_fns", [Some "Opcode_rsr_ccompare1_Slot_inst_encode"; None; None]);
  ("Opcode_wsr_ccompare1_encode_fns", [Some "Opcode_wsr_ccompare1_Slot_inst_encode"; None; None]);
  ("Opcode_xsr_ccompare1_encode_fns", [Some "Opcode_xsr_ccompare1_Slot_inst_encode"; None; None]);
  ("Opcode_rsr_ccompare2_encode_fns", [Some "Opcode_rsr_ccompare2_Slot_inst_encode"; None; None]);
  ("Opcode_wsr_ccompare2_encode_fns", [Some "Opcode_wsr_ccompare2_Slot_inst_encode"; None; None]);
  ("Opcode_xsr_ccompare2_encode_fns", [Some "Opcode_xsr_ccompare2_Slot_inst_encode"; None; None]);
  ("Opcode_idtlb_encode_fns", [Some "Opcode_idtlb_Slot_inst_encode"; None; None]);
  ("Opcode_pdtlb_encode_fns", [Some "Opcode_pdtlb_Slot_inst_encode"; None; None]);
  ("Opcode_rdtlb0_encode_fns", [Some "Opcode_rdtlb0_Slot_inst_encode"; None; None]);
  ("Opcode_rdtlb1_encode_fns", [Some "Opcode_rdtlb1_Slot_inst_encode"; None; None]);
  ("Opcode_wdtlb_encode_fns", [Some "Opcode_wdtlb_Slot_inst_encode"; None; None]);
  ("Opcode_iitlb_encode_fns", [Some "Opcode_iitlb_Slot_inst_encode"; None; None]);
  ("Opcode_pitlb_encode_fns", [Some "Opcode_pitlb_Slot_inst_encode"; None; None]);
  ("Opcode_ritlb0_encode_fns", [Some "Opcode_ritlb0_Slot_inst_encode"; None; None]);
  ("Opcode_ritlb1_encode_fns", [Some "Opcode_ritlb1_Slot_inst_encode"; None; None]);
  ("Opcode_witlb_encode_fns", [Some "Opcode_witlb_Slot_inst_encode"; None; None]);
  ("Opcode_rsr_cpenable_encode_fns", [Some "Opcode_rsr_cpenable_Slot_inst_encode"; None; None]);
  ("Opcode_wsr_cpenable_encode_fns", [Some "Opcode_wsr_cpenable_Slot_inst_encode"; None; None]);
  ("Opcode_xsr_cpenable_encode_fns", [Some "Opcode_xsr_cpenable_Slot_inst_encode"; None; None]);
  ("Opcode_clamps_encode_fns", [Some "Opcode_clamps_Slot_inst_encode"; None; None]);
  ("Opcode_min_encode_fns", [Some "Opcode_min_Slot_inst_encode"; None; None]);
  ("Opcode_max_encode_fns", [Some "Opcode_max_Slot_inst_encode"; None; None]);
  ("Opcode_minu_encode_fns", [Some "Opcode_minu_Slot_inst_encode"; None; None]);
  ("Opcode_maxu_encode_fns", [Some "Opcode_maxu_Slot_inst_encode"; None; None]);
  ("Opcode_nsa_encode_fns", [Some "Opcode_nsa_Slot_inst_encode"; None; None]);
  ("Opcode_nsau_encode_fns", [Some "Opcode_nsau_Slot_inst_encode"; None; None]);
  ("Opcode_sext_encode_fns", [Some "Opcode_sext_Slot_inst_encode"; None; None]);
  ("Opcode_l32ai_encode_fns", [Some "Opcode_l32ai_Slot_inst_encode"; None; None]);
  ("Opcode_s32ri_encode_fns", [Some "Opcode_s32ri_Slot_inst_encode"; None; None]);
  ("Opcode_s32c1i_encode_fns", [Some "Opcode_s32c1i_Slot_inst_encode"; None; None]);
  ("Opcode_rsr_scompare1_encode_fns", [Some "Opcode_rsr_scompare1_Slot_inst_encode"; None; None]);
  ("Opcode_wsr_scompare1_encode_fns", [Some "Opcode_wsr_scompare1_Slot_inst_encode"; None; None]);
  ("Opcode_xsr_scompare1_encode_fns", [Some "Opcode_xsr_scompare1_Slot_inst_encode"; None; None]);
  ("Opcode_rsr_atomctl_encode_fns", [Some "Opcode_rsr_atomctl_Slot_inst_encode"; None; None]);
  ("Opcode_wsr_atomctl_encode_fns", [Some "Opcode_wsr_atomctl_Slot_inst_encode"; None; None]);
  ("Opcode_xsr_atomctl_encode_fns", [Some "Opcode_xsr_atomctl_Slot_inst_encode"; None; None]);
  ("Opcode_quou_encode_fns", [Some "Opcode_quou_Slot_inst_encode"; None; None])].

Definition e32_encode_fns_14 : list (string * list (option string)) := [
  ("Opcode_quos_encode_fns", [Some "Opcode_quos_Slot_inst_encode"; None; None]);
  ("Opcode_remu_encode_fns", [Some "Opcode_remu_Slot_inst_encode"; None; None]);
  ("Opcode_rems_encode_fns", [Some "Opcode_rems_Slot_inst_encode"; None; None]);
  ("Opcode_rer_encode_fns", [Some "Opcode_rer_Slot_inst_encode"; None; None]);
  ("Opcode_wer_encode_fns", [Some "Opcode_wer_Slot_inst_encode"; None; None]);
  ("Opcode_f64iter_encode_fns", [Some "Opcode_f64iter_Slot_inst_encode"; None; None]);
  ("Opcode_f64rnd_encode_fns", [Some "Opcode_f64rnd_Slot_inst_encode"; None; None]);
  ("Opcode_f64addc_encode_fns", [Some "Opcode_f64addc_Slot_inst_encode"; None; None]);
  ("Opcode_f64subc_encode_fns", [Some "Opcode_f64subc_Slot_inst_encode"; None; None]);
  ("Opcode_f64sig_encode_fns", [Some "Opcode_f64sig_Slot_inst_encode"; None; None]);
  ("Opcode_f64cmpl_encode_fns", [Some "Opcode_f64cmpl_Slot_inst_encode"; None; None]);
  ("Opcode_f64cmph_encode_fns", [Some "Opcode_f64cmph_Slot_inst_encode"; None; None]);
  ("Opcode_f64norm_encode_fns", [Some "Opcode_f64norm_Slot_inst_encode"; None; None]);
  ("Opcode_f64sexp_encode_fns", [Some "Opcode_f64sexp_Slot_inst_encode"; None; None]);
  ("Opcode_rf64r_encode_fns", [Some "Opcode_rf64r_Slot_inst_encode"; None; None]);
  ("Opcode_wf64r_encode_fns", [Some "Opcode_wf64r_Slot_inst_encode"; None; None]);
  ("Opcode_rur_f64r_lo_encode_fns", [Some "Opcode_rur_f64r_lo_Slot_inst_encode"; None; None]);
  ("Opcode_wur_f64r_lo_encode_fns", [Some "Opcode_wur_f64r_lo_Slot_inst_encode"; None; None]);
  ("Opcode_rur_f64r_hi_encode_fns", [Some "Opcode_rur_f64r_hi_Slot_inst_encode"; None; None]);
  ("Opcode_wur_f64r_hi_encode_fns", [Some "Opcode_wur_f64r_hi_Slot_inst_encode"; None; None]);
  ("Opcode_rur_f64s_encode_fns", [Some "Opcode_rur_f64s_Slot_inst_encode"; None; None]);
  ("Opcode_wur_f64s_encode_fns", [Some "Opcode_wur_f64s_Slot_inst_encode"; None; None]);
  ("Opcode_rur_fcr_encode_fns", [Some "Opcode_rur_fcr_Slot_inst_encode"; None; None]);
  ("Opcode_wur_fcr_encode_fns", [Some "Opcode_wur_fcr_Slot_inst_encode"; None; None]);
  ("Opcode_rur_fsr_encode_fns", [Some "Opcode_rur_fsr_Slot_inst_encode"; None; None]);
  ("Opcode_wur_fsr_encode_fns", [Some "Opcode_wur_fsr_Slot_inst_encode"; None; None]);
  ("Opcode_rur_expstate_encode_fns", [Some "Opcode_rur_expstate_Slot_inst_encode"; None; None]);
  ("Opcode_wur_expstate_encode_fns", [Some "Opcode_wur_expstate_Slot_inst_encode"; None; None]);
  ("Opcode_read_impwire_encode_fns", [Some "Opcode_read_impwire_Slot_inst_encode"; None; None]);
  ("Opcode_setb_expstate_encode_fns", [Some "Opcode_setb_expstate_Slot_inst_encode"; None; None]);
  ("Opcode_clrb_expstate_encode_fns", [Some "Opcode_clrb_expstate_Slot_inst_encode"; None; None]);
  ("Opcode_wrmsk_expstate_encode_fns", [Some "Opcode_wrmsk_expstate_Slot_inst_encode"; None; None])].

Definition e32_encode_fns : list (string * list (option string)) :=
  e32_encode_fns_1 ++ e32_encode_fns_2 ++ e32_encode_fns_3 ++ e32_encode_fns_4 ++ e32_encode_fns_5 ++
   e32_encode_fns_6 ++ e32_encode_fns_7 ++ e32_encode_fns_8 ++ e32_encode_fns_9 ++ e32_encode_fns_10 ++
   e32_encode_fns_11 ++ e32_encode_fns_12 ++ e32_encode_fns_13 ++ e32_encode_fns_14.

(** ** Opcode table *)

Definition e32_opcodes_1 : list opcode_entry := [
  mkOpcodeEntry "lsi" ICLASS_LSI 0 "Opcode_lsi_encode_fns" 0 None;
  mkOpcodeEntry "lsip" ICLASS_LSIP 0 "Opcode_lsip_encode_fns" 0 None;
  mkOpcodeEntry "lsx" ICLASS_LSX 0 "Opcode_lsx_encode_fns" 0 None;
  mkOpcodeEntry "lsxp" ICLASS_LSXP 0 "Opcode_lsxp_encode_fns" 0 None;
  mkOpcodeEntry "ssi" ICLASS_SSI 0 "Opcode_ssi_encode_fns" 0 None;
  mkOpcodeEntry "ssip" ICLASS_SSIP 0 "Opcode_ssip_encode_fns" 0 None;
  mkOpcodeEntry "ssx" ICLASS_SSX 0 "Opcode_ssx_encode_fns" 0 None;
  mkOpcodeEntry "ssxp" ICLASS_SSXP 0 "Opcode_ssxp_encode_fns" 0 None;
  mkOpcodeEntry "abs.s" ICLASS_ABS_S 0 "Opcode_abs_s_encode_fns" 0 None;
  mkOpcodeEntry "neg.s" ICLASS_NEG_S 0 "Opcode_neg_s_encode_fns" 0 None;
  mkOpcodeEntry "mov.s" ICLASS_MOV_S 0 "Opcode_mov_s_encode_fns" 0 None;
  mkOpcodeEntry "moveqz.s" ICLASS_MOVEQZ_S 0 "Opcode_moveqz_s_encode_fns" 0 None;
  mkOpcodeEntry "movnez.s" ICLASS_MOVNEZ_S 0 "Opcode_movnez_s_encode_fns" 0 None;
  mkOpcodeEntry "movltz.s" ICLASS_MOVLTZ_S 0 "Opcode_movltz_s_encode_fns" 0 None;
  mkOpcodeEntry "movgez.s" ICLASS_MOVGEZ_S 0 "Opcode_movgez_s_encode_fns" 0 None;
  mkOpcodeEntry "movf.s" ICLASS_MOVF_S 0 "Opcode_movf_s_encode_fns" 0 None;
  mkOpcodeEntry "movt.s" ICLASS_MOVT_S 0 "Opcode_movt_s_encode_fns" 0 None;
  mkOpcodeEntry "wfr" ICLASS_WFR 0 "Opcode_wfr_encode_fns" 0 None;
  mkOpcodeEntry "rfr" ICLASS_RFR 0 "Opcode_rfr_encode_fns" 0 None;
  mkOpcodeEntry "round.s" ICLASS_ROUND_S 0 "Opcode_round_s_encode_fns" 0 None;
  mkOpcodeEntry "ceil.s" ICLASS_CEIL_S 0 "Opcode_ceil_s_encode_fns" 0 None;
  mkOpcodeEntry "floor.s" ICLASS_FLOOR_S 0 "Opcode_floor_s_encode_fns" 0 None;
  mkOpcodeEntry "trunc.s" ICLASS_TRUNC_S 0 "Opcode_trunc_s_encode_fns" 0 None;
  mkOpcodeEntry "utrunc.s" ICLASS_UTRUNC_S 0 "Opcode_utrunc_s_encode_fns" 0 None;
  mkOpcodeEntry "float.s" ICLASS_FLOAT_S 0 "Opcode_float_s_encode_fns" 0 None;
  mkOpcodeEntry "ufloat.s" ICLASS_UFLOAT_S 0 "Opcode_ufloat_s_encode_fns" 0 None;
  mkOpcodeEntry "un.s" ICLASS_UN_S 0 "Opcode_un_s_encode_fns" 0 None;
  mkOpcodeEntry "ult.s" ICLASS_ULT_S 0 "Opcode_ult_s_encode_fns" 0 None;
  mkOpcodeEntry "ule.s" ICLASS_ULE_S 0 "Opcode_ule_s_encode_fns" 0 None;
  mkOpcodeEntry "ueq.s" ICLASS_UEQ_S 0 "Opcode_ueq_s_encode_fns" 0 None;
  mkOpcodeEntry "olt.s" ICLASS_OLT_S 0 "Opcode_olt_s_encode_fns" 0 None;
  mkOpcodeEntry "ole.s" ICLASS_OLE_S 0 "Opcode_ole_s_encode_fns" 0 None;
  mkOpcodeEntry "oeq.s" ICLASS_OEQ_S 0 "Opcode_oeq_s_encode_fns" 0 None;
  mkOpcodeEntry "add.s" ICLASS_ADD_S 0 "Opcode_add_s_encode_fns" 0 None;
  mkOpcodeEntry "sub.s" ICLASS_SUB_S 0 "Opcode_sub_s_encode_fns" 0 None;
  mkOpcodeEntry "mul.s" ICLASS_MUL_S 0 "Opcode_mul_s_encode_fns" 0 None;
  mkOpcodeEntry "madd.s" ICLASS_MADD_S 0 "Opcode_madd_s_encode_fns" 0 None;
  mkOpcodeEntry "msub.s" ICLASS_MSUB_S 0 "Opcode_msub_s_encode_fns" 0 None;
  mkOpcodeEntry "sqrt0.s" ICLASS_SQRT0_S 0 "Opcode_sqrt0_s_encode_fns" 0 None;
  mkOpcodeEntry "div0.s" ICLASS_DIV0_S 0 "Opcode_div0_s_encode_fns" 0 None;
  mkOpcodeEntry "recip0.s" ICLASS_RECIP0_S 0 "Opcode_recip0_s_encode_fns" 0 None;
  mkOpcodeEntry "rsqrt0.s" ICLASS_RSQRT0_S 0 "Opcode_rsqrt0_s_encode_fns" 0 None;
  mkOpcodeEntry "maddn.s" ICLASS_MADDN_S 0 "Opcode_maddn_s_encode_fns" 0 None;
  mkOpcodeEntry "divn.s" ICLASS_DIVN_S 0 "Opcode_divn_s_encode_fns" 0 None;
  mkOpcodeEntry "const.s" ICLASS_CONST_S 0 "Opcode_const_s_encode_fns" 0 None;
  mkOpcodeEntry "nexp01.s" ICLASS_NEXP01_S 0 "Opcode_nexp01_s_encode_fns" 0 None;
  mkOpcodeEntry "addexp.s" ICLASS_ADDEXP_S 0 "Opcode_addexp_s_encode_fns" 0 None;
  mkOpcodeEntry "addexpm.s" ICLASS_ADDEXPM_S 0 "Opcode_addexpm_s_encode_fns" 0 None;
  mkOpcodeEntry "mkdadj.s" ICLASS_MKDADJ_S 0 "Opcode_mkdadj_s_encode_fns" 0 None;
  mkOpcodeEntry "mksadj.s" ICLASS_MKSADJ_S 0 "Opcode_mksadj_s_encode_fns" 0 None].

Definition e32_opcodes_2 : list opcode_entry := [
  mkOpcodeEntry "excw" ICLASS_xt_iclass_excw 0 "Opcode_excw_encode_fns" 0 None;
  mkOpcodeEntry "rfe" ICLASS_xt_iclass_rfe XTENSA_OPCODE_IS_JUMP "Opcode_rfe_encode_fns" 0 None;
  mkOpcodeEntry "rfde" ICLASS_xt_iclass_rfde XTENSA_OPCODE_IS_JUMP "Opcode_rfde_encode_fns" 0 None;
  mkOpcodeEntry "syscall" ICLASS_xt_iclass_syscall 0 "Opcode_syscall_encode_fns" 0 None;
  mkOpcodeEntry "call12" ICLASS_xt_iclass_call12 XTENSA_OPCODE_IS_CALL "Opcode_call12_encode_fns" 0 None;
  mkOpcodeEntry "call8" ICLASS_xt_iclass_call8 XTENSA_OPCODE_IS_CALL "Opcode_call8_encode_fns" 0 None;
  mkOpcodeEntry "call4" ICLASS_xt_iclass_call4 XTENSA_OPCODE_IS_CALL "Opcode_call4_encode_fns" 0 None;
  mkOpcodeEntry "callx12" ICLASS_xt_iclass_callx12 XTENSA_OPCODE_IS_CALL "Opcode_callx12_encode_fns" 0 None;
  mkOpcodeEntry "callx8" ICLASS_xt_iclass_callx8 XTENSA_OPCODE_IS_CALL "Opcode_callx8_encode_fns" 0 None;
  mkOpcodeEntry "callx4" ICLASS_xt_iclass_callx4 XTENSA_OPCODE_IS_CALL "Opcode_callx4_encode_fns" 0 None;
  mkOpcodeEntry "entry" ICLASS_xt_iclass_entry 0 "Opcode_entry_encode_fns" 0 None;
  mkOpcodeEntry "movsp" ICLASS_xt_iclass_movsp 0 "Opcode_movsp_encode_fns" 0 None;
  mkOpcodeEntry "rotw" ICLASS_xt_iclass_rotw 0 "Opcode_rotw_encode_fns" 0 None;
  mkOpcodeEntry "retw" ICLASS_xt_iclass_retw XTENSA_OPCODE_IS_JUMP "Opcode_retw_encode_fns" 0 None;
  mkOpcodeEntry "retw.n" ICLASS_xt_iclass_retw XTENSA_OPCODE_IS_JUMP "Opcode_retw_n_encode_fns" 0 None;
  mkOpcodeEntry "rfwo" ICLASS_xt_iclass_rfwou XTENSA_OPCODE_IS_JUMP "Opcode_rfwo_encode_fns" 0 None;
  mkOpcodeEntry "rfwu" ICLASS_xt_iclass_rfwou XTENSA_OPCODE_IS_JUMP "Opcode_rfwu_encode_fns" 0 None;
  mkOpcodeEntry "l32e" ICLASS_xt_iclass_l32e 0 "Opcode_l32e_encode_fns" 0 None;
  mkOpcodeEntry "s32e" ICLASS_xt_iclass_s32e 0 "Opcode_s32e_encode_fns" 0 None;
  mkOpcodeEntry "rsr.windowbase" ICLASS_xt_iclass_rsr_windowbase 0 "Opcode_rsr_windowbase_encode_fns" 0 None;
  mkOpcodeEntry "wsr.windowbase" ICLASS_xt_iclass_wsr_windowbase 0 "Opcode_wsr_windowbase_encode_fns" 0 None;
  mkOpcodeEntry "xsr.windowbase" ICLASS_xt_iclass_xsr_windowbase 0 "Opcode_xsr_windowbase_encode_fns" 0 None;
  mkOpcodeEntry "rsr.windowstart" ICLASS_xt_iclass_rsr_windowstart 0 "Opcode_rsr_windowstart_encode_fns" 0 None;
  mkOpcodeEntry "wsr.windowstart" ICLASS_xt_iclass_wsr_windowstart 0 "Opcode_wsr_windowstart_encode_fns" 0 None;
  mkOpcodeEntry "xsr.windowstart" ICLASS_xt_iclass_xsr_windowstart 0 "Opcode_xsr_windowstart_encode_fns" 0 None;
  mkOpcodeEntry "add.n" ICLASS_xt_iclass_add_n 0 "Opcode_add_n_encode_fns" 0 None;
  mkOpcodeEntry "addi.n" ICLASS_xt_iclass_addi_n 0 "Opcode_addi_n_encode_fns" 0 None;
  mkOpcodeEntry "beqz.n" ICLASS_xt_iclass_bz6 XTENSA_OPCODE_IS_BRANCH "Opcode_beqz_n_encode_fns" 0 None;
  mkOpcodeEntry "bnez.n" ICLASS_xt_iclass_bz6 XTENSA_OPCODE_IS_BRANCH "Opcode_bnez_n_encode_fns" 0 None;
  mkOpcodeEntry "ill.n" ICLASS_xt_iclass_ill_n 0 "Opcode_ill_n_encode_fns" 0 None;
  mkOpcodeEntry "l32i.n" ICLASS_xt_iclass_loadi4 0 "Opcode_l32i_n_encode_fns" 0 None;
  mkOpcodeEntry "mov.n" ICLASS_xt_iclass_mov_n 0 "Opcode_mov_n_encode_fns" 0 None;
  mkOpcodeEntry "movi.n" ICLASS_xt_iclass_movi_n 0 "Opcode_movi_n_encode_fns" 0 None;
  mkOpcodeEntry "nop.n" ICLASS_xt_iclass_nopn 0 "Opcode_nop_n_encode_fns" 0 None;
  mkOpcodeEntry "ret.n" ICLASS_xt_iclass_retn XTENSA_OPCODE_IS_JUMP "Opcode_ret_n_encode_fns" 0 None;
  mkOpcodeEntry "s32i.n" ICLASS_xt_iclass_storei4 0 "Opcode_s32i_n_encode_fns" 0 None;
  mkOpcodeEntry "rur.threadptr" ICLASS_rur_threadptr 0 "Opcode_rur_threadptr_encode_fns" 0 None;
  mkOpcodeEntry "wur.threadptr" ICLASS_wur_threadptr 0 "Opcode_wur_threadptr_encode_fns" 0 None;
  mkOpcodeEntry "addi" ICLASS_xt_iclass_addi 0 "Opcode_addi_encode_fns" 0 None;
  mkOpcodeEntry "addmi" ICLASS_xt_iclass_addmi 0 "Opcode_addmi_encode_fns" 0 None;
  mkOpcodeEntry "add" ICLASS_xt_iclass_addsub 0 "Opcode_add_encode_fns" 0 None;
  mkOpcodeEntry "sub" ICLASS_xt_iclass_addsub 0 "Opcode_sub_encode_fns" 0 None;
  mkOpcodeEntry "addx2" ICLASS_xt_iclass_addsub 0 "Opcode_addx2_encode_fns" 0 None;
  mkOpcodeEntry "addx4" ICLASS_xt_iclass_addsub 0 "Opcode_addx4_encode_fns" 0 None;
  mkOpcodeEntry "addx8" ICLASS_xt_iclass_addsub 0 "Opcode_addx8_encode_fns" 0 None;
  mkOpcodeEntry "subx2" ICLASS_xt_iclass_addsub 0 "Opcode_subx2_encode_fns" 0 None;
  mkOpcodeEntry "subx4" ICLASS_xt_iclass_addsub 0 "Opcode_subx4_encode_fns" 0 None;
  mkOpcodeEntry "subx8" ICLASS_xt_iclass_addsub 0 "Opcode_subx8_encode_fns" 0 None;
  mkOpcodeEntry "and" ICLASS_xt_iclass_bit 0 "Opcode_and_encode_fns" 0 None;
  mkOpcodeEntry "or" ICLASS_xt_iclass_bit 0 "Opcode_or_encode_fns" 0 None].

Definition e32_opcodes_3 : list opcode_entry := [
  mkOpcodeEntry "xor" ICLASS_xt_iclass_bit 0 "Opcode_xor_encode_fns" 0 None;
  mkOpcodeEntry "beqi" ICLASS_xt_iclass_bsi8 XTENSA_OPCODE_IS_BRANCH "Opcode_beqi_encode_fns" 0 None;
  mkOpcodeEntry "bnei" ICLASS_xt_iclass_bsi8 XTENSA_OPCODE_IS_BRANCH "Opcode_bnei_encode_fns" 0 None;
  mkOpcodeEntry "bgei" ICLASS_xt_iclass_bsi8 XTENSA_OPCODE_IS_BRANCH "Opcode_bgei_encode_fns" 0 None;
  mkOpcodeEntry "blti" ICLASS_xt_iclass_bsi8 XTENSA_OPCODE_IS_BRANCH "Opcode_blti_encode_fns" 0 None;
  mkOpcodeEntry "bbci" ICLASS_xt_iclass_bsi8b XTENSA_OPCODE_IS_BRANCH "Opcode_bbci_encode_fns" 0 None;
  mkOpcodeEntry "bbsi" ICLASS_xt_iclass_bsi8b XTENSA_OPCODE_IS_BRANCH "Opcode_bbsi_encode_fns" 0 None;
  mkOpcodeEntry "bgeui" ICLASS_xt_iclass_bsi8u XTENSA_OPCODE_IS_BRANCH "Opcode_bgeui_encode_fns" 0 None;
  mkOpcodeEntry "bltui" ICLASS_xt_iclass_bsi8u XTENSA_OPCODE_IS_BRANCH "Opcode_bltui_encode_fns" 0 None;
  mkOpcodeEntry "beq" ICLASS_xt_iclass_bst8 XTENSA_OPCODE_IS_BRANCH "Opcode_beq_encode_fns" 0 None;
  mkOpcodeEntry "bne" ICLASS_xt_iclass_bst8 XTENSA_OPCODE_IS_BRANCH "Opcode_bne_encode_fns" 0 None;
  mkOpcodeEntry "bge" ICLASS_xt_iclass_bst8 XTENSA_OPCODE_IS_BRANCH "Opcode_bge_encode_fns" 0 None;
  mkOpcodeEntry "blt" ICLASS_xt_iclass_bst8 XTENSA_OPCODE_IS_BRANCH "Opcode_blt_encode_fns" 0 None;
  mkOpcodeEntry "bgeu" ICLASS_xt_iclass_bst8 XTENSA_OPCODE_IS_BRANCH "Opcode_bgeu_encode_fns" 0 None;
  mkOpcodeEntry "bltu" ICLASS_xt_iclass_bst8 XTENSA_OPCODE_IS_BRANCH "Opcode_bltu_encode_fns" 0 None;
  mkOpcodeEntry "bany" ICLASS_xt_iclass_bst8 XTENSA_OPCODE_IS_BRANCH "Opcode_bany_encode_fns" 0 None;
  mkOpcodeEntry "bnone" ICLASS_xt_iclass_bst8 XTENSA_OPCODE_IS_BRANCH "Opcode_bnone_encode_fns" 0 None;
  mkOpcodeEntry "ball" ICLASS_xt_iclass_bst8 XTENSA_OPCODE_IS_BRANCH "Opcode_ball_encode_fns" 0 None;
  mkOpcodeEntry "bnall" ICLASS_xt_iclass_bst8 XTENSA_OPCODE_IS_BRANCH "Opcode_bnall_encode_fns" 0 None;
  mkOpcodeEntry "bbc" ICLASS_xt_iclass_bst8 XTENSA_OPCODE_IS_BRANCH "Opcode_bbc_encode_fns" 0 None;
  mkOpcodeEntry "bbs" ICLASS_xt_iclass_bst8 XTENSA_OPCODE_IS_BRANCH "Opcode_bbs_encode_fns" 0 None;
  mkOpcodeEntry "beqz" ICLASS_xt_iclass_bsz12 XTENSA_OPCODE_IS_BRANCH "Opcode_beqz_encode_fns" 0 None;
  mkOpcodeEntry "bnez" ICLASS_xt_iclass_bsz12 XTENSA_OPCODE_IS_BRANCH "Opcode_bnez_encode_fns" 0 None;
  mkOpcodeEntry "bgez" ICLASS_xt_iclass_bsz12 XTENSA_OPCODE_IS_BRANCH "Opcode_bgez_encode_fns" 0 None;
  mkOpcodeEntry "bltz" ICLASS_xt_iclass_bsz12 XTENSA_OPCODE_IS_BRANCH "Opcode_bltz_encode_fns" 0 None;
  mkOpcodeEntry "call0" ICLASS_xt_iclass_call0 XTENSA_OPCODE_IS_CALL "Opcode_call0_encode_fns" 0 None;
  mkOpcodeEntry "callx0" ICLASS_xt_iclass_callx0 XTENSA_OPCODE_IS_CALL "Opcode_callx0_encode_fns" 0 None;
  mkOpcodeEntry "extui" ICLASS_xt_iclass_exti 0 "Opcode_extui_encode_fns" 0 None;
  mkOpcodeEntry "ill" ICLASS_xt_iclass_ill 0 "Opcode_ill_encode_fns" 0 None;
  mkOpcodeEntry "j" ICLASS_xt_iclass_jump XTENSA_OPCODE_IS_JUMP "Opcode_j_encode_fns" 0 None;
  mkOpcodeEntry "jx" ICLASS_xt_iclass_jumpx XTENSA_OPCODE_IS_JUMP "Opcode_jx_encode_fns" 0 None;
  mkOpcodeEntry "l16ui" ICLASS_xt_iclass_l16ui 0 "Opcode_l16ui_encode_fns" 0 None;
  mkOpcodeEntry "l16si" ICLASS_xt_iclass_l16si 0 "Opcode_l16si_encode_fns" 0 None;
  mkOpcodeEntry "l32i" ICLASS_xt_iclass_l32i 0 "Opcode_l32i_encode_fns" 0 None;
  mkOpcodeEntry "l32r" ICLASS_xt_iclass_l32r 0 "Opcode_l32r_encode_fns" 0 None;
  mkOpcodeEntry "l8ui" ICLASS_xt_iclass_l8i 0 "Opcode_l8ui_encode_fns" 0 None;
  mkOpcodeEntry "loop" ICLASS_xt_iclass_loop XTENSA_OPCODE_IS_LOOP "Opcode_loop_encode_fns" 0 None;
  mkOpcodeEntry "loopnez" ICLASS_xt_iclass_loopz XTENSA_OPCODE_IS_LOOP "Opcode_loopnez_encode_fns" 0 None;
  mkOpcodeEntry "loopgtz" ICLASS_xt_iclass_loopz XTENSA_OPCODE_IS_LOOP "Opcode_loopgtz_encode_fns" 0 None;
  mkOpcodeEntry "movi" ICLASS_xt_iclass_movi 0 "Opcode_movi_encode_fns" 0 None;
  mkOpcodeEntry "moveqz" ICLASS_xt_iclass_movz 0 "Opcode_moveqz_encode_fns" 0 None;
  mkOpcodeEntry "movnez" ICLASS_xt_iclass_movz 0 "Opcode_movnez_encode_fns" 0 None;
  mkOpcodeEntry "movltz" ICLASS_xt_iclass_movz 0 "Opcode_movltz_encode_fns" 0 None;
  mkOpcodeEntry "movgez" ICLASS_xt_iclass_movz 0 "Opcode_movgez_encode_fns" 0 None;
  mkOpcodeEntry "neg" ICLASS_xt_iclass_neg 0 "Opcode_neg_encode_fns" 0 None;
  mkOpcodeEntry "abs" ICLASS_xt_iclass_neg 0 "Opcode_abs_encode_fns" 0 None;
  mkOpcodeEntry "nop" ICLASS_xt_iclass_nop 0 "Opcode_nop_encode_fns" 0 None;
  mkOpcodeEntry "ret" ICLASS_xt_iclass_return XTENSA_OPCODE_IS_JUMP "Opcode_ret_encode_fns" 0 None;
  mkOpcodeEntry "simcall" ICLASS_xt_iclass_simcall 0 "Opcode_simcall_encode_fns" 0 None;
  mkOpcodeEntry "s16i" ICLASS_xt_iclass_s16i 0 "Opcode_s16i_encode_fns" 0 None].

Definition e32_opcodes_4 : list opcode_entry := [
  mkOpcodeEntry "s32i" ICLASS_xt_iclass_s32i 0 "Opcode_s32i_encode_fns" 0 None;
  mkOpcodeEntry "s32nb" ICLASS_xt_iclass_s32nb 0 "Opcode_s32nb_encode_fns" 0 None;
  mkOpcodeEntry "s8i" ICLASS_xt_iclass_s8i 0 "Opcode_s8i_encode_fns" 0 None;
  mkOpcodeEntry "ssr" ICLASS_xt_iclass_sar 0 "Opcode_ssr_encode_fns" 0 None;
  mkOpcodeEntry "ssl" ICLASS_xt_iclass_sar 0 "Opcode_ssl_encode_fns" 0 None;
  mkOpcodeEntry "ssa8l" ICLASS_xt_iclass_sar 0 "Opcode_ssa8l_encode_fns" 0 None;
  mkOpcodeEntry "ssa8b" ICLASS_xt_iclass_sar 0 "Opcode_ssa8b_encode_fns" 0 None;
  mkOpcodeEntry "ssai" ICLASS_xt_iclass_sari 0 "Opcode_ssai_encode_fns" 0 None;
  mkOpcodeEntry "sll" ICLASS_xt_iclass_shifts 0 "Opcode_sll_encode_fns" 0 None;
  mkOpcodeEntry "src" ICLASS_xt_iclass_shiftst 0 "Opcode_src_encode_fns" 0 None;
  mkOpcodeEntry "srl" ICLASS_xt_iclass_shiftt 0 "Opcode_srl_encode_fns" 0 None;
  mkOpcodeEntry "sra" ICLASS_xt_iclass_shiftt 0 "Opcode_sra_encode_fns" 0 None;
  mkOpcodeEntry "slli" ICLASS_xt_iclass_slli 0 "Opcode_slli_encode_fns" 0 None;
  mkOpcodeEntry "srai" ICLASS_xt_iclass_srai 0 "Opcode_srai_encode_fns" 0 None;
  mkOpcodeEntry "srli" ICLASS_xt_iclass_srli 0 "Opcode_srli_encode_fns" 0 None;
  mkOpcodeEntry "memw" ICLASS_xt_iclass_memw 0 "Opcode_memw_encode_fns" 0 None;
  mkOpcodeEntry "extw" ICLASS_xt_iclass_extw 0 "Opcode_extw_encode_fns" 0 None;
  mkOpcodeEntry "isync" ICLASS_xt_iclass_isync 0 "Opcode_isync_encode_fns" 0 None;
  mkOpcodeEntry "rsync" ICLASS_xt_iclass_sync 0 "Opcode_rsync_encode_fns" 0 None;
  mkOpcodeEntry "esync" ICLASS_xt_iclass_sync 0 "Opcode_esync_encode_fns" 0 None;
  mkOpcodeEntry "dsync" ICLASS_xt_iclass_sync 0 "Opcode_dsync_encode_fns" 0 None;
  mkOpcodeEntry "rsil" ICLASS_xt_iclass_rsil 0 "Opcode_rsil_encode_fns" 0 None;
  mkOpcodeEntry "rsr.lend" ICLASS_xt_iclass_rsr_lend 0 "Opcode_rsr_lend_encode_fns" 0 None;
  mkOpcodeEntry "wsr.lend" ICLASS_xt_iclass_wsr_lend 0 "Opcode_wsr_lend_encode_fns" 0 None;
  mkOpcodeEntry "xsr.lend" ICLASS_xt_iclass_xsr_lend 0 "Opcode_xsr_lend_encode_fns" 0 None;
  mkOpcodeEntry "rsr.lcount" ICLASS_xt_iclass_rsr_lcount 0 "Opcode_rsr_lcount_encode_fns" 0 None;
  mkOpcodeEntry "wsr.lcount" ICLASS_xt_iclass_wsr_lcount 0 "Opcode_wsr_lcount_encode_fns" 0 None;
  mkOpcodeEntry "xsr.lcount" ICLASS_xt_iclass_xsr_lcount 0 "Opcode_xsr_lcount_encode_fns" 0 None;
  mkOpcodeEntry "rsr.lbeg" ICLASS_xt_iclass_rsr_lbeg 0 "Opcode_rsr_lbeg_encode_fns" 0 None;
  mkOpcodeEntry "wsr.lbeg" ICLASS_xt_iclass_wsr_lbeg 0 "Opcode_wsr_lbeg_encode_fns" 0 None;
  mkOpcodeEntry "xsr.lbeg" ICLASS_xt_iclass_xsr_lbeg 0 "Opcode_xsr_lbeg_encode_fns" 0 None;
  mkOpcodeEntry "rsr.sar" ICLASS_xt_iclass_rsr_sar 0 "Opcode_rsr_sar_encode_fns" 0 None;
  mkOpcodeEntry "wsr.sar" ICLASS_xt_iclass_wsr_sar 0 "Opcode_wsr_sar_encode_fns" 0 None;
  mkOpcodeEntry "xsr.sar" ICLASS_xt_iclass_xsr_sar 0 "Opcode_xsr_sar_encode_fns" 0 None;
  mkOpcodeEntry "rsr.memctl" ICLASS_xt_iclass_rsr_memctl 0 "Opcode_rsr_memctl_encode_fns" 0 None;
  mkOpcodeEntry "wsr.memctl" ICLASS_xt_iclass_wsr_memctl 0 "Opcode_wsr_memctl_encode_fns" 0 None;
  mkOpcodeEntry "xsr.memctl" ICLASS_xt_iclass_xsr_memctl 0 "Opcode_xsr_memctl_encode_fns" 0 None;
  mkOpcodeEntry "rsr.litbase" ICLASS_xt_iclass_rsr_litbase 0 "Opcode_rsr_litbase_encode_fns" 0 None;
  mkOpcodeEntry "wsr.litbase" ICLASS_xt_iclass_wsr_litbase 0 "Opcode_wsr_litbase_encode_fns" 0 None;
  mkOpcodeEntry "xsr.litbase" ICLASS_xt_iclass_xsr_litbase 0 "Opcode_xsr_litbase_encode_fns" 0 None;
  mkOpcodeEntry "rsr.configid0" ICLASS_xt_iclass_rsr_configid0 0 "Opcode_rsr_configid0_encode_fns" 0 None;
  mkOpcodeEntry "wsr.configid0" ICLASS_xt_iclass_wsr_configid0 0 "Opcode_wsr_configid0_encode_fns" 0 None;
  mkOpcodeEntry "rsr.configid1" ICLASS_xt_iclass_rsr_configid1 0 "Opcode_rsr_configid1_encode_fns" 0 None;
  mkOpcodeEntry "rsr.ps" ICLASS_xt_iclass_rsr_ps 0 "Opcode_rsr_ps_encode_fns" 0 None;
  mkOpcodeEntry "wsr.ps" ICLASS_xt_iclass_wsr_ps 0 "Opcode_wsr_ps_encode_fns" 0 None;
  mkOpcodeEntry "xsr.ps" ICLASS_xt_iclass_xsr_ps 0 "Opcode_xsr_ps_encode_fns" 0 None;
  mkOpcodeEntry "rsr.epc1" ICLASS_xt_iclass_rsr_epc1 0 "Opcode_rsr_epc1_encode_fns" 0 None;
  mkOpcodeEntry "wsr.epc1" ICLASS_xt_iclass_wsr_epc1 0 "Opcode_wsr_epc1_encode_fns" 0 None;
  mkOpcodeEntry "xsr.epc1" ICLASS_xt_iclass_xsr_epc1 0 "Opcode_xsr_epc1_encode_fns" 0 None;
  mkOpcodeEntry "rsr.excsave1" ICLASS_xt_iclass_rsr_excsave1 0 "Opcode_rsr_excsave1_encode_fns" 0 None].

Definition e32_opcodes_5 : list opcode_entry := [
  mkOpcodeEntry "wsr.excsave1" ICLASS_xt_iclass_wsr_excsave1 0 "Opcode_wsr_excsave1_encode_fns" 0 None;
  mkOpcodeEntry "xsr.excsave1" ICLASS_xt_iclass_xsr_excsave1 0 "Opcode_xsr_excsave1_encode_fns" 0 None;
  mkOpcodeEntry "rsr.epc2" ICLASS_xt_iclass_rsr_epc2 0 "Opcode_rsr_epc2_encode_fns" 0 None;
  mkOpcodeEntry "wsr.epc2" ICLASS_xt_iclass_wsr_epc2 0 "Opcode_wsr_epc2_encode_fns" 0 None;
  mkOpcodeEntry "xsr.epc2" ICLASS_xt_iclass_xsr_epc2 0 "Opcode_xsr_epc2_encode_fns" 0 None;
  mkOpcodeEntry "rsr.excsave2" ICLASS_xt_iclass_rsr_excsave2 0 "Opcode_rsr_excsave2_encode_fns" 0 None;
  mkOpcodeEntry "wsr.excsave2" ICLASS_xt_iclass_wsr_excsave2 0 "Opcode_wsr_excsave2_encode_fns" 0 None;
  mkOpcodeEntry "xsr.excsave2" ICLASS_xt_iclass_xsr_excsave2 0 "Opcode_xsr_excsave2_encode_fns" 0 None;
  mkOpcodeEntry "rsr.epc3" ICLASS_xt_iclass_rsr_epc3 0 "Opcode_rsr_epc3_encode_fns" 0 None;
  mkOpcodeEntry "wsr.epc3" ICLASS_xt_iclass_wsr_epc3 0 "Opcode_wsr_epc3_encode_fns" 0 None;
  mkOpcodeEntry "xsr.epc3" ICLASS_xt_iclass_xsr_epc3 0 "Opcode_xsr_epc3_encode_fns" 0 None;
  mkOpcodeEntry "rsr.excsave3" ICLASS_xt_iclass_rsr_excsave3 0 "Opcode_rsr_excsave3_encode_fns" 0 None;
  mkOpcodeEntry "wsr.excsave3" ICLASS_xt_iclass_wsr_excsave3 0 "Opcode_wsr_excsave3_encode_fns" 0 None;
  mkOpcodeEntry "xsr.excsave3" ICLASS_xt_iclass_xsr_excsave3 0 "Opcode_xsr_excsave3_encode_fns" 0 None;
  mkOpcodeEntry "rsr.epc4" ICLASS_xt_iclass_rsr_epc4 0 "Opcode_rsr_epc4_encode_fns" 0 None;
  mkOpcodeEntry "wsr.epc4" ICLASS_xt_iclass_wsr_epc4 0 "Opcode_wsr_epc4_encode_fns" 0 None;
  mkOpcodeEntry "xsr.epc4" ICLASS_xt_iclass_xsr_epc4 0 "Opcode_xsr_epc4_encode_fns" 0 None;
  mkOpcodeEntry "rsr.excsave4" ICLASS_xt_iclass_rsr_excsave4 0 "Opcode_rsr_excsave4_encode_fns" 0 None;
  mkOpcodeEntry "wsr.excsave4" ICLASS_xt_iclass_wsr_excsave4 0 "Opcode_wsr_excsave4_encode_fns" 0 None;
  mkOpcodeEntry "xsr.excsave4" ICLASS_xt_iclass_xsr_excsave4 0 "Opcode_xsr_excsave4_encode_fns" 0 None;
  mkOpcodeEntry "rsr.epc5" ICLASS_xt_iclass_rsr_epc5 0 "Opcode_rsr_epc5_encode_fns" 0 None;
  mkOpcodeEntry "wsr.epc5" ICLASS_xt_iclass_wsr_epc5 0 "Opcode_wsr_epc5_encode_fns" 0 None;
  mkOpcodeEntry "xsr.epc5" ICLASS_xt_iclass_xsr_epc5 0 "Opcode_xsr_epc5_encode_fns" 0 None;
  mkOpcodeEntry "rsr.excsave5" ICLASS_xt_iclass_rsr_excsave5 0 "Opcode_rsr_excsave5_encode_fns" 0 None;
  mkOpcodeEntry "wsr.excsave5" ICLASS_xt_iclass_wsr_excsave5 0 "Opcode_wsr_excsave5_encode_fns" 0 None;
  mkOpcodeEntry "xsr.excsave5" ICLASS_xt_iclass_xsr_excsave5 0 "Opcode_xsr_excsave5_encode_fns" 0 None;
  mkOpcodeEntry "rsr.epc6" ICLASS_xt_iclass_rsr_epc6 0 "Opcode_rsr_epc6_encode_fns" 0 None;
  mkOpcodeEntry "wsr.epc6" ICLASS_xt_iclass_wsr_epc6 0 "Opcode_wsr_epc6_encode_fns" 0 None;
  mkOpcodeEntry "xsr.epc6" ICLASS_xt_iclass_xsr_epc6 0 "Opcode_xsr_epc6_encode_fns" 0 None;
  mkOpcodeEntry "rsr.excsave6" ICLASS_xt_iclass_rsr_excsave6 0 "Opcode_rsr_excsave6_encode_fns" 0 None;
  mkOpcodeEntry "wsr.excsave6" ICLASS_xt_iclass_wsr_excsave6 0 "Opcode_wsr_excsave6_encode_fns" 0 None;
  mkOpcodeEntry "xsr.excsave6" ICLASS_xt_iclass_xsr_excsave6 0 "Opcode_xsr_excsave6_encode_fns" 0 None;
  mkOpcodeEntry "rsr.epc7" ICLASS_xt_iclass_rsr_epc7 0 "Opcode_rsr_epc7_encode_fns" 0 None;
  mkOpcodeEntry "wsr.epc7" ICLASS_xt_iclass_wsr_epc7 0 "Opcode_wsr_epc7_encode_fns" 0 None;
  mkOpcodeEntry "xsr.epc7" ICLASS_xt_iclass_xsr_epc7 0 "Opcode_xsr_epc7_encode_fns" 0 None;
  mkOpcodeEntry "rsr.excsave7" ICLASS_xt_iclass_rsr_excsave7 0 "Opcode_rsr_excsave7_encode_fns" 0 None;
  mkOpcodeEntry "wsr.excsave7" ICLASS_xt_iclass_wsr_excsave7 0 "Opcode_wsr_excsave7_encode_fns" 0 None;
  mkOpcodeEntry "xsr.excsave7" ICLASS_xt_iclass_xsr_excsave7 0 "Opcode_xsr_excsave7_encode_fns" 0 None;
  mkOpcodeEntry "rsr.eps2" ICLASS_xt_iclass_rsr_eps2 0 "Opcode_rsr_eps2_encode_fns" 0 None;
  mkOpcodeEntry "wsr.eps2" ICLASS_xt_iclass_wsr_eps2 0 "Opcode_wsr_eps2_encode_fns" 0 None;
  mkOpcodeEntry "xsr.eps2" ICLASS_xt_iclass_xsr_eps2 0 "Opcode_xsr_eps2_encode_fns" 0 None;
  mkOpcodeEntry "rsr.eps3" ICLASS_xt_iclass_rsr_eps3 0 "Opcode_rsr_eps3_encode_fns" 0 None;
  mkOpcodeEntry "wsr.eps3" ICLASS_xt_iclass_wsr_eps3 0 "Opcode_wsr_eps3_encode_fns" 0 None;
  mkOpcodeEntry "xsr.eps3" ICLASS_xt_iclass_xsr_eps3 0 "Opcode_xsr_eps3_encode_fns" 0 None;
  mkOpcodeEntry "rsr.eps4" ICLASS_xt_iclass_rsr_eps4 0 "Opcode_rsr_eps4_encode_fns" 0 None;
  mkOpcodeEntry "wsr.eps4" ICLASS_xt_iclass_wsr_eps4 0 "Opcode_wsr_eps4_encode_fns" 0 None;
  mkOpcodeEntry "xsr.eps4" ICLASS_xt_iclass_xsr_eps4 0 "Opcode_xsr_eps4_encode_fns" 0 None;
  mkOpcodeEntry "rsr.eps5" ICLASS_xt_iclass_rsr_eps5 0 "Opcode_rsr_eps5_encode_fns" 0 None;
  mkOpcodeEntry "wsr.eps5" ICLASS_xt_iclass_wsr_eps5 0 "Opcode_wsr_eps5_encode_fns" 0 None;
  mkOpcodeEntry "xsr.eps5" ICLASS_xt_iclass_xsr_eps5 0 "Opcode_xsr_eps5_encode_fns" 0 None].

Definition e32_opcodes_6 : list opcode_entry := [
  mkOpcodeEntry "rsr.eps6" ICLASS_xt_iclass_rsr_eps6 0 "Opcode_rsr_eps6_encode_fns" 0 None;
  mkOpcodeEntry "wsr.eps6" ICLASS_xt_iclass_wsr_eps6 0 "Opcode_wsr_eps6_encode_fns" 0 None;
  mkOpcodeEntry "xsr.eps6" ICLASS_xt_iclass_xsr_eps6 0 "Opcode_xsr_eps6_encode_fns" 0 None;
  mkOpcodeEntry "rsr.eps7" ICLASS_xt_iclass_rsr_eps7 0 "Opcode_rsr_eps7_encode_fns" 0 None;
  mkOpcodeEntry "wsr.eps7" ICLASS_xt_iclass_wsr_eps7 0 "Opcode_wsr_eps7_encode_fns" 0 None;
  mkOpcodeEntry "xsr.eps7" ICLASS_xt_iclass_xsr_eps7 0 "Opcode_xsr_eps7_encode_fns" 0 None;
  mkOpcodeEntry "rsr.excvaddr" ICLASS_xt_iclass_rsr_excvaddr 0 "Opcode_rsr_excvaddr_encode_fns" 0 None;
  mkOpcodeEntry "wsr.excvaddr" ICLASS_xt_iclass_wsr_excvaddr 0 "Opcode_wsr_excvaddr_encode_fns" 0 None;
  mkOpcodeEntry "xsr.excvaddr" ICLASS_xt_iclass_xsr_excvaddr 0 "Opcode_xsr_excvaddr_encode_fns" 0 None;
  mkOpcodeEntry "rsr.depc" ICLASS_xt_iclass_rsr_depc 0 "Opcode_rsr_depc_encode_fns" 0 None;
  mkOpcodeEntry "wsr.depc" ICLASS_xt_iclass_wsr_depc 0 "Opcode_wsr_depc_encode_fns" 0 None;
  mkOpcodeEntry "xsr.depc" ICLASS_xt_iclass_xsr_depc 0 "Opcode_xsr_depc_encode_fns" 0 None;
  mkOpcodeEntry "rsr.exccause" ICLASS_xt_iclass_rsr_exccause 0 "Opcode_rsr_exccause_encode_fns" 0 None;
  mkOpcodeEntry "wsr.exccause" ICLASS_xt_iclass_wsr_exccause 0 "Opcode_wsr_exccause_encode_fns" 0 None;
  mkOpcodeEntry "xsr.exccause" ICLASS_xt_iclass_xsr_exccause 0 "Opcode_xsr_exccause_encode_fns" 0 None;
  mkOpcodeEntry "rsr.misc0" ICLASS_xt_iclass_rsr_misc0 0 "Opcode_rsr_misc0_encode_fns" 0 None;
  mkOpcodeEntry "wsr.misc0" ICLASS_xt_iclass_wsr_misc0 0 "Opcode_wsr_misc0_encode_fns" 0 None;
  mkOpcodeEntry "xsr.misc0" ICLASS_xt_iclass_xsr_misc0 0 "Opcode_xsr_misc0_encode_fns" 0 None;
  mkOpcodeEntry "rsr.misc1" ICLASS_xt_iclass_rsr_misc1 0 "Opcode_rsr_misc1_encode_fns" 0 None;
  mkOpcodeEntry "wsr.misc1" ICLASS_xt_iclass_wsr_misc1 0 "Opcode_wsr_misc1_encode_fns" 0 None;
  mkOpcodeEntry "xsr.misc1" ICLASS_xt_iclass_xsr_misc1 0 "Opcode_xsr_misc1_encode_fns" 0 None;
  mkOpcodeEntry "rsr.misc2" ICLASS_xt_iclass_rsr_misc2 0 "Opcode_rsr_misc2_encode_fns" 0 None;
  mkOpcodeEntry "wsr.misc2" ICLASS_xt_iclass_wsr_misc2 0 "Opcode_wsr_misc2_encode_fns" 0 None;
  mkOpcodeEntry "xsr.misc2" ICLASS_xt_iclass_xsr_misc2 0 "Opcode_xsr_misc2_encode_fns" 0 None;
  mkOpcodeEntry "rsr.misc3" ICLASS_xt_iclass_rsr_misc3 0 "Opcode_rsr_misc3_encode_fns" 0 None;
  mkOpcodeEntry "wsr.misc3" ICLASS_xt_iclass_wsr_misc3 0 "Opcode_wsr_misc3_encode_fns" 0 None;
  mkOpcodeEntry "xsr.misc3" ICLASS_xt_iclass_xsr_misc3 0 "Opcode_xsr_misc3_encode_fns" 0 None;
  mkOpcodeEntry "rsr.prid" ICLASS_xt_iclass_rsr_prid 0 "Opcode_rsr_prid_encode_fns" 0 None;
  mkOpcodeEntry "rsr.vecbase" ICLASS_xt_iclass_rsr_vecbase 0 "Opcode_rsr_vecbase_encode_fns" 0 None;
  mkOpcodeEntry "wsr.vecbase" ICLASS_xt_iclass_wsr_vecbase 0 "Opcode_wsr_vecbase_encode_fns" 0 None;
  mkOpcodeEntry "xsr.vecbase" ICLASS_xt_iclass_xsr_vecbase 0 "Opcode_xsr_vecbase_encode_fns" 0 None;
  mkOpcodeEntry "mul16u" ICLASS_xt_mul16 0 "Opcode_mul16u_encode_fns" 0 None;
  mkOpcodeEntry "mul16s" ICLASS_xt_mul16 0 "Opcode_mul16s_encode_fns" 0 None;
  mkOpcodeEntry "mull" ICLASS_xt_mul32 0 "Opcode_mull_encode_fns" 0 None;
  mkOpcodeEntry "muluh" ICLASS_xt_mul32h 0 "Opcode_muluh_encode_fns" 0 None;
  mkOpcodeEntry "mulsh" ICLASS_xt_mul32h 0 "Opcode_mulsh_encode_fns" 0 None;
  mkOpcodeEntry "mul.aa.ll" ICLASS_xt_iclass_mac16_aa 0 "Opcode_mul_aa_ll_encode_fns" 0 None;
  mkOpcodeEntry "mul.aa.hl" ICLASS_xt_iclass_mac16_aa 0 "Opcode_mul_aa_hl_encode_fns" 0 None;
  mkOpcodeEntry "mul.aa.lh" ICLASS_xt_iclass_mac16_aa 0 "Opcode_mul_aa_lh_encode_fns" 0 None;
  mkOpcodeEntry "mul.aa.hh" ICLASS_xt_iclass_mac16_aa 0 "Opcode_mul_aa_hh_encode_fns" 0 None;
  mkOpcodeEntry "umul.aa.ll" ICLASS_xt_iclass_mac16_aa 0 "Opcode_umul_aa_ll_encode_fns" 0 None;
  mkOpcodeEntry "umul.aa.hl" ICLASS_xt_iclass_mac16_aa 0 "Opcode_umul_aa_hl_encode_fns" 0 None;
  mkOpcodeEntry "umul.aa.lh" ICLASS_xt_iclass_mac16_aa 0 "Opcode_umul_aa_lh_encode_fns" 0 None;
  mkOpcodeEntry "umul.aa.hh" ICLASS_xt_iclass_mac16_aa 0 "Opcode_umul_aa_hh_encode_fns" 0 None;
  mkOpcodeEntry "mul.ad.ll" ICLASS_xt_iclass_mac16_ad 0 "Opcode_mul_ad_ll_encode_fns" 0 None;
  mkOpcodeEntry "mul.ad.hl" ICLASS_xt_iclass_mac16_ad 0 "Opcode_mul_ad_hl_encode_fns" 0 None;
  mkOpcodeEntry "mul.ad.lh" ICLASS_xt_iclass_mac16_ad 0 "Opcode_mul_ad_lh_encode_fns" 0 None;
  mkOpcodeEntry "mul.ad.hh" ICLASS_xt_iclass_mac16_ad 0 "Opcode_mul_ad_hh_encode_fns" 0 None;
  mkOpcodeEntry "mul.da.ll" ICLASS_xt_iclass_mac16_da 0 "Opcode_mul_da_ll_encode_fns" 0 None;
  mkOpcodeEntry "mul.da.hl" ICLASS_xt_iclass_mac16_da 0 "Opcode_mul_da_hl_encode_fns" 0 None].

Definition e32_opcodes_7 : list opcode_entry := [
  mkOpcodeEntry "mul.da.lh" ICLASS_xt_iclass_mac16_da 0 "Opcode_mul_da_lh_encode_fns" 0 None;
  mkOpcodeEntry "mul.da.hh" ICLASS_xt_iclass_mac16_da 0 "Opcode_mul_da_hh_encode_fns" 0 None;
  mkOpcodeEntry "mul.dd.ll" ICLASS_xt_iclass_mac16_dd 0 "Opcode_mul_dd_ll_encode_fns" 0 None;
  mkOpcodeEntry "mul.dd.hl" ICLASS_xt_iclass_mac16_dd 0 "Opcode_mul_dd_hl_encode_fns" 0 None;
  mkOpcodeEntry "mul.dd.lh" ICLASS_xt_iclass_mac16_dd 0 "Opcode_mul_dd_lh_encode_fns" 0 None;
  mkOpcodeEntry "mul.dd.hh" ICLASS_xt_iclass_mac16_dd 0 "Opcode_mul_dd_hh_encode_fns" 0 None;
  mkOpcodeEntry "mula.aa.ll" ICLASS_xt_iclass_mac16a_aa 0 "Opcode_mula_aa_ll_encode_fns" 0 None;
  mkOpcodeEntry "mula.aa.hl" ICLASS_xt_iclass_mac16a_aa 0 "Opcode_mula_aa_hl_encode_fns" 0 None;
  mkOpcodeEntry "mula.aa.lh" ICLASS_xt_iclass_mac16a_aa 0 "Opcode_mula_aa_lh_encode_fns" 0 None;
  mkOpcodeEntry "mula.aa.hh" ICLASS_xt_iclass_mac16a_aa 0 "Opcode_mula_aa_hh_encode_fns" 0 None;
  mkOpcodeEntry "muls.aa.ll" ICLASS_xt_iclass_mac16a_aa 0 "Opcode_muls_aa_ll_encode_fns" 0 None;
  mkOpcodeEntry "muls.aa.hl" ICLASS_xt_iclass_mac16a_aa 0 "Opcode_muls_aa_hl_encode_fns" 0 None;
  mkOpcodeEntry "muls.aa.lh" ICLASS_xt_iclass_mac16a_aa 0 "Opcode_muls_aa_lh_encode_fns" 0 None;
  mkOpcodeEntry "muls.aa.hh" ICLASS_xt_iclass_mac16a_aa 0 "Opcode_muls_aa_hh_encode_fns" 0 None;
  mkOpcodeEntry "mula.ad.ll" ICLASS_xt_iclass_mac16a_ad 0 "Opcode_mula_ad_ll_encode_fns" 0 None;
  mkOpcodeEntry "mula.ad.hl" ICLASS_xt_iclass_mac16a_ad 0 "Opcode_mula_ad_hl_encode_fns" 0 None;
  mkOpcodeEntry "mula.ad.lh" ICLASS_xt_iclass_mac16a_ad 0 "Opcode_mula_ad_lh_encode_fns" 0 None;
  mkOpcodeEntry "mula.ad.hh" ICLASS_xt_iclass_mac16a_ad 0 "Opcode_mula_ad_hh_encode_fns" 0 None;
  mkOpcodeEntry "muls.ad.ll" ICLASS_xt_iclass_mac16a_ad 0 "Opcode_muls_ad_ll_encode_fns" 0 None;
  mkOpcodeEntry "muls.ad.hl" ICLASS_xt_iclass_mac16a_ad 0 "Opcode_muls_ad_hl_encode_fns" 0 None;
  mkOpcodeEntry "muls.ad.lh" ICLASS_xt_iclass_mac16a_ad 0 "Opcode_muls_ad_lh_encode_fns" 0 None;
  mkOpcodeEntry "muls.ad.hh" ICLASS_xt_iclass_mac16a_ad 0 "Opcode_muls_ad_hh_encode_fns" 0 None;
  mkOpcodeEntry "mula.da.ll" ICLASS_xt_iclass_mac16a_da 0 "Opcode_mula_da_ll_encode_fns" 0 None;
  mkOpcodeEntry "mula.da.hl" ICLASS_xt_iclass_mac16a_da 0 "Opcode_mula_da_hl_encode_fns" 0 None;
  mkOpcodeEntry "mula.da.lh" ICLASS_xt_iclass_mac16a_da 0 "Opcode_mula_da_lh_encode_fns" 0 None;
  mkOpcodeEntry "mula.da.hh" ICLASS_xt_iclass_mac16a_da 0 "Opcode_mula_da_hh_encode_fns" 0 None;
  mkOpcodeEntry "muls.da.ll" ICLASS_xt_iclass_mac16a_da 0 "Opcode_muls_da_ll_encode_fns" 0 None;
  mkOpcodeEntry "muls.da.hl" ICLASS_xt_iclass_mac16a_da 0 "Opcode_muls_da_hl_encode_fns" 0 None;
  mkOpcodeEntry "muls.da.lh" ICLASS_xt_iclass_mac16a_da 0 "Opcode_muls_da_lh_encode_fns" 0 None;
  mkOpcodeEntry "muls.da.hh" ICLASS_xt_iclass_mac16a_da 0 "Opcode_muls_da_hh_encode_fns" 0 None;
  mkOpcodeEntry "mula.dd.ll" ICLASS_xt_iclass_mac16a_dd 0 "Opcode_mula_dd_ll_encode_fns" 0 None;
  mkOpcodeEntry "mula.dd.hl" ICLASS_xt_iclass_mac16a_dd 0 "Opcode_mula_dd_hl_encode_fns" 0 None;
  mkOpcodeEntry "mula.dd.lh" ICLASS_xt_iclass_mac16a_dd 0 "Opcode_mula_dd_lh_encode_fns" 0 None;
  mkOpcodeEntry "mula.dd.hh" ICLASS_xt_iclass_mac16a_dd 0 "Opcode_mula_dd_hh_encode_fns" 0 None;
  mkOpcodeEntry "muls.dd.ll" ICLASS_xt_iclass_mac16a_dd 0 "Opcode_muls_dd_ll_encode_fns" 0 None;
  mkOpcodeEntry "muls.dd.hl" ICLASS_xt_iclass_mac16a_dd 0 "Opcode_muls_dd_hl_encode_fns" 0 None;
  mkOpcodeEntry "muls.dd.lh" ICLASS_xt_iclass_mac16a_dd 0 "Opcode_muls_dd_lh_encode_fns" 0 None;
  mkOpcodeEntry "muls.dd.hh" ICLASS_xt_iclass_mac16a_dd 0 "Opcode_muls_dd_hh_encode_fns" 0 None;
  mkOpcodeEntry "mula.da.ll.lddec" ICLASS_xt_iclass_mac16al_da 0 "Opcode_mula_da_ll_lddec_encode_fns" 0 None;
  mkOpcodeEntry "mula.da.ll.ldinc" ICLASS_xt_iclass_mac16al_da 0 "Opcode_mula_da_ll_ldinc_encode_fns" 0 None;
  mkOpcodeEntry "mula.da.hl.lddec" ICLASS_xt_iclass_mac16al_da 0 "Opcode_mula_da_hl_lddec_encode_fns" 0 None;
  mkOpcodeEntry "mula.da.hl.ldinc" ICLASS_xt_iclass_mac16al_da 0 "Opcode_mula_da_hl_ldinc_encode_fns" 0 None;
  mkOpcodeEntry "mula.da.lh.lddec" ICLASS_xt_iclass_mac16al_da 0 "Opcode_mula_da_lh_lddec_encode_fns" 0 None;
  mkOpcodeEntry "mula.da.lh.ldinc" ICLASS_xt_iclass_mac16al_da 0 "Opcode_mula_da_lh_ldinc_encode_fns" 0 None;
  mkOpcodeEntry "mula.da.hh.lddec" ICLASS_xt_iclass_mac16al_da 0 "Opcode_mula_da_hh_lddec_encode_fns" 0 None;
  mkOpcodeEntry "mula.da.hh.ldinc" ICLASS_xt_iclass_mac16al_da 0 "Opcode_mula_da_hh_ldinc_encode_fns" 0 None;
  mkOpcodeEntry "mula.dd.ll.lddec" ICLASS_xt_iclass_mac16al_dd 0 "Opcode_mula_dd_ll_lddec_encode_fns" 0 None;
  mkOpcodeEntry "mula.dd.ll.ldinc" ICLASS_xt_iclass_mac16al_dd 0 "Opcode_mula_dd_ll_ldinc_encode_fns" 0 None;
  mkOpcodeEntry "mula.dd.hl.lddec" ICLASS_xt_iclass_mac16al_dd 0 "Opcode_mula_dd_hl_lddec_encode_fns" 0 None;
  mkOpcodeEntry "mula.dd.hl.ldinc" ICLASS_xt_iclass_mac16al_dd 0 "Opcode_mula_dd_hl_ldinc_encode_fns" 0 None].

Definition e32_opcodes_8 : list opcode_entry := [
  mkOpcodeEntry "mula.dd.lh.lddec" ICLASS_xt_iclass_mac16al_dd 0 "Opcode_mula_dd_lh_lddec_encode_fns" 0 None;
  mkOpcodeEntry "mula.dd.lh.ldinc" ICLASS_xt_iclass_mac16al_dd 0 "Opcode_mula_dd_lh_ldinc_encode_fns" 0 None;
  mkOpcodeEntry "mula.dd.hh.lddec" ICLASS_xt_iclass_mac16al_dd 0 "Opcode_mula_dd_hh_lddec_encode_fns" 0 None;
  mkOpcodeEntry "mula.dd.hh.ldinc" ICLASS_xt_iclass_mac16al_dd 0 "Opcode_mula_dd_hh_ldinc_encode_fns" 0 None;
  mkOpcodeEntry "lddec" ICLASS_xt_iclass_mac16_l 0 "Opcode_lddec_encode_fns" 0 None;
  mkOpcodeEntry "ldinc" ICLASS_xt_iclass_mac16_l 0 "Opcode_ldinc_encode_fns" 0 None;
  mkOpcodeEntry "rsr.m0" ICLASS_xt_iclass_rsr_m0 0 "Opcode_rsr_m0_encode_fns" 0 None;
  mkOpcodeEntry "wsr.m0" ICLASS_xt_iclass_wsr_m0 0 "Opcode_wsr_m0_encode_fns" 0 None;
  mkOpcodeEntry "xsr.m0" ICLASS_xt_iclass_xsr_m0 0 "Opcode_xsr_m0_encode_fns" 0 None;
  mkOpcodeEntry "rsr.m1" ICLASS_xt_iclass_rsr_m1 0 "Opcode_rsr_m1_encode_fns" 0 None;
  mkOpcodeEntry "wsr.m1" ICLASS_xt_iclass_wsr_m1 0 "Opcode_wsr_m1_encode_fns" 0 None;
  mkOpcodeEntry "xsr.m1" ICLASS_xt_iclass_xsr_m1 0 "Opcode_xsr_m1_encode_fns" 0 None;
  mkOpcodeEntry "rsr.m2" ICLASS_xt_iclass_rsr_m2 0 "Opcode_rsr_m2_encode_fns" 0 None;
  mkOpcodeEntry "wsr.m2" ICLASS_xt_iclass_wsr_m2 0 "Opcode_wsr_m2_encode_fns" 0 None;
  mkOpcodeEntry "xsr.m2" ICLASS_xt_iclass_xsr_m2 0 "Opcode_xsr_m2_encode_fns" 0 None;
  mkOpcodeEntry "rsr.m3" ICLASS_xt_iclass_rsr_m3 0 "Opcode_rsr_m3_encode_fns" 0 None;
  mkOpcodeEntry "wsr.m3" ICLASS_xt_iclass_wsr_m3 0 "Opcode_wsr_m3_encode_fns" 0 None;
  mkOpcodeEntry "xsr.m3" ICLASS_xt_iclass_xsr_m3 0 "Opcode_xsr_m3_encode_fns" 0 None;
  mkOpcodeEntry "rsr.acclo" ICLASS_xt_iclass_rsr_acclo 0 "Opcode_rsr_acclo_encode_fns" 0 None;
  mkOpcodeEntry "wsr.acclo" ICLASS_xt_iclass_wsr_acclo 0 "Opcode_wsr_acclo_encode_fns" 0 None;
  mkOpcodeEntry "xsr.acclo" ICLASS_xt_iclass_xsr_acclo 0 "Opcode_xsr_acclo_encode_fns" 0 None;
  mkOpcodeEntry "rsr.acchi" ICLASS_xt_iclass_rsr_acchi 0 "Opcode_rsr_acchi_encode_fns" 0 None;
  mkOpcodeEntry "wsr.acchi" ICLASS_xt_iclass_wsr_acchi 0 "Opcode_wsr_acchi_encode_fns" 0 None;
  mkOpcodeEntry "xsr.acchi" ICLASS_xt_iclass_xsr_acchi 0 "Opcode_xsr_acchi_encode_fns" 0 None;
  mkOpcodeEntry "rfi" ICLASS_xt_iclass_rfi XTENSA_OPCODE_IS_JUMP "Opcode_rfi_encode_fns" 0 None;
  mkOpcodeEntry "waiti" ICLASS_xt_iclass_wait 0 "Opcode_waiti_encode_fns" 0 None;
  mkOpcodeEntry "rsr.interrupt" ICLASS_xt_iclass_rsr_interrupt 0 "Opcode_rsr_interrupt_encode_fns" 0 None;
  mkOpcodeEntry "wsr.intset" ICLASS_xt_iclass_wsr_intset 0 "Opcode_wsr_intset_encode_fns" 0 None;
  mkOpcodeEntry "wsr.intclear" ICLASS_xt_iclass_wsr_intclear 0 "Opcode_wsr_intclear_encode_fns" 0 None;
  mkOpcodeEntry "rsr.intenable" ICLASS_xt_iclass_rsr_intenable 0 "Opcode_rsr_intenable_encode_fns" 0 None;
  mkOpcodeEntry "wsr.intenable" ICLASS_xt_iclass_wsr_intenable 0 "Opcode_wsr_intenable_encode_fns" 0 None;
  mkOpcodeEntry "xsr.intenable" ICLASS_xt_iclass_xsr_intenable 0 "Opcode_xsr_intenable_encode_fns" 0 None;
  mkOpcodeEntry "break" ICLASS_xt_iclass_break 0 "Opcode_break_encode_fns" 0 None;
  mkOpcodeEntry "break.n" ICLASS_xt_iclass_break_n 0 "Opcode_break_n_encode_fns" 0 None;
  mkOpcodeEntry "rsr.dbreaka0" ICLASS_xt_iclass_rsr_dbreaka0 0 "Opcode_rsr_dbreaka0_encode_fns" 0 None;
  mkOpcodeEntry "wsr.dbreaka0" ICLASS_xt_iclass_wsr_dbreaka0 0 "Opcode_wsr_dbreaka0_encode_fns" 0 None;
  mkOpcodeEntry "xsr.dbreaka0" ICLASS_xt_iclass_xsr_dbreaka0 0 "Opcode_xsr_dbreaka0_encode_fns" 0 None;
  mkOpcodeEntry "rsr.dbreakc0" ICLASS_xt_iclass_rsr_dbreakc0 0 "Opcode_rsr_dbreakc0_encode_fns" 0 None;
  mkOpcodeEntry "wsr.dbreakc0" ICLASS_xt_iclass_wsr_dbreakc0 0 "Opcode_wsr_dbreakc0_encode_fns" 0 None;
  mkOpcodeEntry "xsr.dbreakc0" ICLASS_xt_iclass_xsr_dbreakc0 0 "Opcode_xsr_dbreakc0_encode_fns" 0 None;
  mkOpcodeEntry "rsr.dbreaka1" ICLASS_xt_iclass_rsr_dbreaka1 0 "Opcode_rsr_dbreaka1_encode_fns" 0 None;
  mkOpcodeEntry "wsr.dbreaka1" ICLASS_xt_iclass_wsr_dbreaka1 0 "Opcode_wsr_dbreaka1_encode_fns" 0 None;
  mkOpcodeEntry "xsr.dbreaka1" ICLASS_xt_iclass_xsr_dbreaka1 0 "Opcode_xsr_dbreaka1_encode_fns" 0 None;
  mkOpcodeEntry "rsr.dbreakc1" ICLASS_xt_iclass_rsr_dbreakc1 0 "Opcode_rsr_dbreakc1_encode_fns" 0 None;
  mkOpcodeEntry "wsr.dbreakc1" ICLASS_xt_iclass_wsr_dbreakc1 0 "Opcode_wsr_dbreakc1_encode_fns" 0 None;
  mkOpcodeEntry "xsr.dbreakc1" ICLASS_xt_iclass_xsr_dbreakc1 0 "Opcode_xsr_dbreakc1_encode_fns" 0 None;
  mkOpcodeEntry "rsr.ibreaka0" ICLASS_xt_iclass_rsr_ibreaka0 0 "Opcode_rsr_ibreaka0_encode_fns" 0 None;
  mkOpcodeEntry "wsr.ibreaka0" ICLASS_xt_iclass_wsr_ibreaka0 0 "Opcode_wsr_ibreaka0_encode_fns" 0 None;
  mkOpcodeEntry "xsr.ibreaka0" ICLASS_xt_iclass_xsr_ibreaka0 0 "Opcode_xsr_ibreaka0_encode_fns" 0 None;
  mkOpcodeEntry "rsr.ibreaka1" ICLASS_xt_iclass_rsr_ibreaka1 0 "Opcode_rsr_ibreaka1_encode_fns" 0 None].

Definition e32_opcodes_9 : list opcode_entry := [
  mkOpcodeEntry "wsr.ibreaka1" ICLASS_xt_iclass_wsr_ibreaka1 0 "Opcode_wsr_ibreaka1_encode_fns" 0 None;
  mkOpcodeEntry "xsr.ibreaka1" ICLASS_xt_iclass_xsr_ibreaka1 0 "Opcode_xsr_ibreaka1_encode_fns" 0 None;
  mkOpcodeEntry "rsr.ibreakenable" ICLASS_xt_iclass_rsr_ibreakenable 0 "Opcode_rsr_ibreakenable_encode_fns" 0 None;
  mkOpcodeEntry "wsr.ibreakenable" ICLASS_xt_iclass_wsr_ibreakenable 0 "Opcode_wsr_ibreakenable_encode_fns" 0 None;
  mkOpcodeEntry "xsr.ibreakenable" ICLASS_xt_iclass_xsr_ibreakenable 0 "Opcode_xsr_ibreakenable_encode_fns" 0 None;
  mkOpcodeEntry "rsr.debugcause" ICLASS_xt_iclass_rsr_debugcause 0 "Opcode_rsr_debugcause_encode_fns" 0 None;
  mkOpcodeEntry "wsr.debugcause" ICLASS_xt_iclass_wsr_debugcause 0 "Opcode_wsr_debugcause_encode_fns" 0 None;
  mkOpcodeEntry "xsr.debugcause" ICLASS_xt_iclass_xsr_debugcause 0 "Opcode_xsr_debugcause_encode_fns" 0 None;
  mkOpcodeEntry "rsr.icount" ICLASS_xt_iclass_rsr_icount 0 "Opcode_rsr_icount_encode_fns" 0 None;
  mkOpcodeEntry "wsr.icount" ICLASS_xt_iclass_wsr_icount 0 "Opcode_wsr_icount_encode_fns" 0 None;
  mkOpcodeEntry "xsr.icount" ICLASS_xt_iclass_xsr_icount 0 "Opcode_xsr_icount_encode_fns" 0 None;
  mkOpcodeEntry "rsr.icountlevel" ICLASS_xt_iclass_rsr_icountlevel 0 "Opcode_rsr_icountlevel_encode_fns" 0 None;
  mkOpcodeEntry "wsr.icountlevel" ICLASS_xt_iclass_wsr_icountlevel 0 "Opcode_wsr_icountlevel_encode_fns" 0 None;
  mkOpcodeEntry "xsr.icountlevel" ICLASS_xt_iclass_xsr_icountlevel 0 "Opcode_xsr_icountlevel_encode_fns" 0 None;
  mkOpcodeEntry "rsr.ddr" ICLASS_xt_iclass_rsr_ddr 0 "Opcode_rsr_ddr_encode_fns" 0 None;
  mkOpcodeEntry "wsr.ddr" ICLASS_xt_iclass_wsr_ddr 0 "Opcode_wsr_ddr_encode_fns" 0 None;
  mkOpcodeEntry "xsr.ddr" ICLASS_xt_iclass_xsr_ddr 0 "Opcode_xsr_ddr_encode_fns" 0 None;
  mkOpcodeEntry "lddr32.p" ICLASS_xt_iclass_lddr32_p 0 "Opcode_lddr32_p_encode_fns" 0 None;
  mkOpcodeEntry "sddr32.p" ICLASS_xt_iclass_sddr32_p 0 "Opcode_sddr32_p_encode_fns" 0 None;
  mkOpcodeEntry "rfdo" ICLASS_xt_iclass_rfdo XTENSA_OPCODE_IS_JUMP "Opcode_rfdo_encode_fns" 0 None;
  mkOpcodeEntry "rfdd" ICLASS_xt_iclass_rfdd XTENSA_OPCODE_IS_JUMP "Opcode_rfdd_encode_fns" 0 None;
  mkOpcodeEntry "wsr.mmid" ICLASS_xt_iclass_wsr_mmid 0 "Opcode_wsr_mmid_encode_fns" 0 None;
  mkOpcodeEntry "andb" ICLASS_xt_iclass_bbool1 0 "Opcode_andb_encode_fns" 0 None;
  mkOpcodeEntry "andbc" ICLASS_xt_iclass_bbool1 0 "Opcode_andbc_encode_fns" 0 None;
  mkOpcodeEntry "orb" ICLASS_xt_iclass_bbool1 0 "Opcode_orb_encode_fns" 0 None;
  mkOpcodeEntry "orbc" ICLASS_xt_iclass_bbool1 0 "Opcode_orbc_encode_fns" 0 None;
  mkOpcodeEntry "xorb" ICLASS_xt_iclass_bbool1 0 "Opcode_xorb_encode_fns" 0 None;
  mkOpcodeEntry "any4" ICLASS_xt_iclass_bbool4 0 "Opcode_any4_encode_fns" 0 None;
  mkOpcodeEntry "all4" ICLASS_xt_iclass_bbool4 0 "Opcode_all4_encode_fns" 0 None;
  mkOpcodeEntry "any8" ICLASS_xt_iclass_bbool8 0 "Opcode_any8_encode_fns" 0 None;
  mkOpcodeEntry "all8" ICLASS_xt_iclass_bbool8 0 "Opcode_all8_encode_fns" 0 None;
  mkOpcodeEntry "bf" ICLASS_xt_iclass_bbranch XTENSA_OPCODE_IS_BRANCH "Opcode_bf_encode_fns" 0 None;
  mkOpcodeEntry "bt" ICLASS_xt_iclass_bbranch XTENSA_OPCODE_IS_BRANCH "Opcode_bt_encode_fns" 0 None;
  mkOpcodeEntry "movf" ICLASS_xt_iclass_bmove 0 "Opcode_movf_encode_fns" 0 None;
  mkOpcodeEntry "movt" ICLASS_xt_iclass_bmove 0 "Opcode_movt_encode_fns" 0 None;
  mkOpcodeEntry "rsr.br" ICLASS_xt_iclass_RSR_BR 0 "Opcode_rsr_br_encode_fns" 0 None;
  mkOpcodeEntry "wsr.br" ICLASS_xt_iclass_WSR_BR 0 "Opcode_wsr_br_encode_fns" 0 None;
  mkOpcodeEntry "xsr.br" ICLASS_xt_iclass_XSR_BR 0 "Opcode_xsr_br_encode_fns" 0 None;
  mkOpcodeEntry "rsr.ccount" ICLASS_xt_iclass_rsr_ccount 0 "Opcode_rsr_ccount_encode_fns" 0 None;
  mkOpcodeEntry "wsr.ccount" ICLASS_xt_iclass_wsr_ccount 0 "Opcode_wsr_ccount_encode_fns" 0 None;
  mkOpcodeEntry "xsr.ccount" ICLASS_xt_iclass_xsr_ccount 0 "Opcode_xsr_ccount_encode_fns" 0 None;
  mkOpcodeEntry "rsr.ccompare0" ICLASS_xt_iclass_rsr_ccompare0 0 "Opcode_rsr_ccompare0_encode_fns" 0 None;
  mkOpcodeEntry "wsr.ccompare0" ICLASS_xt_iclass_wsr_ccompare0 0 "Opcode_wsr_ccompare0_encode_fns" 0 None;
  mkOpcodeEntry "xsr.ccompare0" ICLASS_xt_iclass_xsr_ccompare0 0 "Opcode_xsr_ccompare0_encode_fns" 0 None;
  mkOpcodeEntry "rsr.ccompare1" ICLASS_xt_iclass_rsr_ccompare1 0 "Opcode_rsr_ccompare1_encode_fns" 0 None;
  mkOpcodeEntry "wsr.ccompare1" ICLASS_xt_iclass_wsr_ccompare1 0 "Opcode_wsr_ccompare1_encode_fns" 0 None;
  mkOpcodeEntry "xsr.ccompare1" ICLASS_xt_iclass_xsr_ccompare1 0 "Opcode_xsr_ccompare1_encode_fns" 0 None;
  mkOpcodeEntry "rsr.ccompare2" ICLASS_xt_iclass_rsr_ccompare2 0 "Opcode_rsr_ccompare2_encode_fns" 0 None;
  mkOpcodeEntry "wsr.ccompare2" ICLASS_xt_iclass_wsr_ccompare2 0 "Opcode_wsr_ccompare2_encode_fns" 0 None;
  mkOpcodeEntry "xsr.ccompare2" ICLASS_xt_iclass_xsr_ccompare2 0 "Opcode_xsr_ccompare2_encode_fns" 0 None].

Definition e32_opcodes_10 : list opcode_entry := [
  mkOpcodeEntry "idtlb" ICLASS_xt_iclass_idtlb 0 "Opcode_idtlb_encode_fns" 0 None;
  mkOpcodeEntry "pdtlb" ICLASS_xt_iclass_rdtlb 0 "Opcode_pdtlb_encode_fns" 0 None;
  mkOpcodeEntry "rdtlb0" ICLASS_xt_iclass_rdtlb 0 "Opcode_rdtlb0_encode_fns" 0 None;
  mkOpcodeEntry "rdtlb1" ICLASS_xt_iclass_rdtlb 0 "Opcode_rdtlb1_encode_fns" 0 None;
  mkOpcodeEntry "wdtlb" ICLASS_xt_iclass_wdtlb 0 "Opcode_wdtlb_encode_fns" 0 None;
  mkOpcodeEntry "iitlb" ICLASS_xt_iclass_iitlb 0 "Opcode_iitlb_encode_fns" 0 None;
  mkOpcodeEntry "pitlb" ICLASS_xt_iclass_ritlb 0 "Opcode_pitlb_encode_fns" 0 None;
  mkOpcodeEntry "ritlb0" ICLASS_xt_iclass_ritlb 0 "Opcode_ritlb0_encode_fns" 0 None;
  mkOpcodeEntry "ritlb1" ICLASS_xt_iclass_ritlb 0 "Opcode_ritlb1_encode_fns" 0 None;
  mkOpcodeEntry "witlb" ICLASS_xt_iclass_witlb 0 "Opcode_witlb_encode_fns" 0 None;
  mkOpcodeEntry "rsr.cpenable" ICLASS_xt_iclass_rsr_cpenable 0 "Opcode_rsr_cpenable_encode_fns" 0 None;
  mkOpcodeEntry "wsr.cpenable" ICLASS_xt_iclass_wsr_cpenable 0 "Opcode_wsr_cpenable_encode_fns" 0 None;
  mkOpcodeEntry "xsr.cpenable" ICLASS_xt_iclass_xsr_cpenable 0 "Opcode_xsr_cpenable_encode_fns" 0 None;
  mkOpcodeEntry "clamps" ICLASS_xt_iclass_clamp 0 "Opcode_clamps_encode_fns" 0 None;
  mkOpcodeEntry "min" ICLASS_xt_iclass_minmax 0 "Opcode_min_encode_fns" 0 None;
  mkOpcodeEntry "max" ICLASS_xt_iclass_minmax 0 "Opcode_max_encode_fns" 0 None;
  mkOpcodeEntry "minu" ICLASS_xt_iclass_minmax 0 "Opcode_minu_encode_fns" 0 None;
  mkOpcodeEntry "maxu" ICLASS_xt_iclass_minmax 0 "Opcode_maxu_encode_fns" 0 None;
  mkOpcodeEntry "nsa" ICLASS_xt_iclass_nsa 0 "Opcode_nsa_encode_fns" 0 None;
  mkOpcodeEntry "nsau" ICLASS_xt_iclass_nsa 0 "Opcode_nsau_encode_fns" 0 None;
  mkOpcodeEntry "sext" ICLASS_xt_iclass_sx 0 "Opcode_sext_encode_fns" 0 None;
  mkOpcodeEntry "l32ai" ICLASS_xt_iclass_l32ai 0 "Opcode_l32ai_encode_fns" 0 None;
  mkOpcodeEntry "s32ri" ICLASS_xt_iclass_s32ri 0 "Opcode_s32ri_encode_fns" 0 None;
  mkOpcodeEntry "s32c1i" ICLASS_xt_iclass_s32c1i 0 "Opcode_s32c1i_encode_fns" 0 None;
  mkOpcodeEntry "rsr.scompare1" ICLASS_xt_iclass_rsr_scompare1 0 "Opcode_rsr_scompare1_encode_fns" 0 None;
  mkOpcodeEntry "wsr.scompare1" ICLASS_xt_iclass_wsr_scompare1 0 "Opcode_wsr_scompare1_encode_fns" 0 None;
  mkOpcodeEntry "xsr.scompare1" ICLASS_xt_iclass_xsr_scompare1 0 "Opcode_xsr_scompare1_encode_fns" 0 None;
  mkOpcodeEntry "rsr.atomctl" ICLASS_xt_iclass_rsr_atomctl 0 "Opcode_rsr_atomctl_encode_fns" 0 None;
  mkOpcodeEntry "wsr.atomctl" ICLASS_xt_iclass_wsr_atomctl 0 "Opcode_wsr_atomctl_encode_fns" 0 None;
  mkOpcodeEntry "xsr.atomctl" ICLASS_xt_iclass_xsr_atomctl 0 "Opcode_xsr_atomctl_encode_fns" 0 None;
  mkOpcodeEntry "quou" ICLASS_xt_iclass_div 0 "Opcode_quou_encode_fns" 0 None;
  mkOpcodeEntry "quos" ICLASS_xt_iclass_div 0 "Opcode_quos_encode_fns" 0 None;
  mkOpcodeEntry "remu" ICLASS_xt_iclass_div 0 "Opcode_remu_encode_fns" 0 None;
  mkOpcodeEntry "rems" ICLASS_xt_iclass_div 0 "Opcode_rems_encode_fns" 0 None;
  mkOpcodeEntry "rer" ICLASS_xt_iclass_rer 0 "Opcode_rer_encode_fns" 0 None;
  mkOpcodeEntry "wer" ICLASS_xt_iclass_wer 0 "Opcode_wer_encode_fns" 0 None;
  mkOpcodeEntry "f64iter" ICLASS_iclass_F64ITER 0 "Opcode_f64iter_encode_fns" 0 None;
  mkOpcodeEntry "f64rnd" ICLASS_iclass_F64RND 0 "Opcode_f64rnd_encode_fns" 0 None;
  mkOpcodeEntry "f64addc" ICLASS_iclass_F64ADDC_F64SUBC 0 "Opcode_f64addc_encode_fns" 0 None;
  mkOpcodeEntry "f64subc" ICLASS_iclass_F64ADDC_F64SUBC 0 "Opcode_f64subc_encode_fns" 0 None;
  mkOpcodeEntry "f64sig" ICLASS_iclass_F64SIG 0 "Opcode_f64sig_encode_fns" 0 None;
  mkOpcodeEntry "f64cmpl" ICLASS_iclass_F64CMPL 0 "Opcode_f64cmpl_encode_fns" 0 None;
  mkOpcodeEntry "f64cmph" ICLASS_iclass_F64CMPH 0 "Opcode_f64cmph_encode_fns" 0 None;
  mkOpcodeEntry "f64norm" ICLASS_iclass_F64NORM 0 "Opcode_f64norm_encode_fns" 0 None;
  mkOpcodeEntry "f64sexp" ICLASS_iclass_F64SEXP 0 "Opcode_f64sexp_encode_fns" 0 None;
  mkOpcodeEntry "rf64r" ICLASS_iclass_RF64R 0 "Opcode_rf64r_encode_fns" 0 None;
  mkOpcodeEntry "wf64r" ICLASS_iclass_WF64R 0 "Opcode_wf64r_encode_fns" 0 None;
  mkOpcodeEntry "rur.f64r_lo" ICLASS_rur_f64r_lo 0 "Opcode_rur_f64r_lo_encode_fns" 0 None;
  mkOpcodeEntry "wur.f64r_lo" ICLASS_wur_f64r_lo 0 "Opcode_wur_f64r_lo_encode_fns" 0 None;
  mkOpcodeEntry "rur.f64r_hi" ICLASS_rur_f64r_hi 0 "Opcode_rur_f64r_hi_encode_fns" 0 None].

Definition e32_opcodes_11 : list opcode_entry := [
  mkOpcodeEntry "wur.f64r_hi" ICLASS_wur_f64r_hi 0 "Opcode_wur_f64r_hi_encode_fns" 0 None;
  mkOpcodeEntry "rur.f64s" ICLASS_rur_f64s 0 "Opcode_rur_f64s_encode_fns" 0 None;
  mkOpcodeEntry "wur.f64s" ICLASS_wur_f64s 0 "Opcode_wur_f64s_encode_fns" 0 None;
  mkOpcodeEntry "rur.fcr" ICLASS_rur_fcr 0 "Opcode_rur_fcr_encode_fns" 0 None;
  mkOpcodeEntry "wur.fcr" ICLASS_wur_fcr 0 "Opcode_wur_fcr_encode_fns" 0 None;
  mkOpcodeEntry "rur.fsr" ICLASS_rur_fsr 0 "Opcode_rur_fsr_encode_fns" 0 None;
  mkOpcodeEntry "wur.fsr" ICLASS_wur_fsr 0 "Opcode_wur_fsr_encode_fns" 0 None;
  mkOpcodeEntry "rur.expstate" ICLASS_rur_expstate 0 "Opcode_rur_expstate_encode_fns" 0 None;
  mkOpcodeEntry "wur.expstate" ICLASS_wur_expstate 0 "Opcode_wur_expstate_encode_fns" 0 None;
  mkOpcodeEntry "read_impwire" ICLASS_iclass_READ_IMPWIRE 0 "Opcode_read_impwire_encode_fns" 0 None;
  mkOpcodeEntry "setb_expstate" ICLASS_iclass_SETB_EXPSTATE 0 "Opcode_setb_expstate_encode_fns" 0 None;
  mkOpcodeEntry "clrb_expstate" ICLASS_iclass_CLRB_EXPSTATE 0 "Opcode_clrb_expstate_encode_fns" 0 None;
  mkOpcodeEntry "wrmsk_expstate" ICLASS_iclass_WRMSK_EXPSTATE 0 "Opcode_wrmsk_expstate_encode_fns" 0 None].

Definition e32_opcode_entries : list opcode_entry :=
  e32_opcodes_1 ++ e32_opcodes_2 ++ e32_opcodes_3 ++ e32_opcodes_4 ++ e32_opcodes_5 ++ e32_opcodes_6 ++ e32_opcodes_7 ++ e32_opcodes_8 ++ e32_opcodes_9 ++ e32_opcodes_10 ++ e32_opcodes_11.

