(* ===== verification/E32Decoders.v ===== *)
(** * ESP32 ISA module: slot decoders ([target/xtensa/core-esp32/xtensa-modules.inc.c])

    The decision tree of the opcode decoder of each slot. *)

From S2P Require Import Prelude Isa IsaPattern E32Fields E32Opcodes.

Definition e32_Slot_inst_decode_1 : list rule := [
  If [(e32_Field_op2_Slot_inst, [0])] [
    If [(e32_Field_r_Slot_inst, [0])] [
      If [(e32_Field_m_Slot_inst, [0]); (e32_Field_s_Slot_inst, [0]); (e32_Field_n_Slot_inst, [0])] [Return OPCODE_ILL];
      If [(e32_Field_m_Slot_inst, [2])] [
        If [(e32_Field_n_Slot_inst, [0])] [Return OPCODE_RET];
        If [(e32_Field_n_Slot_inst, [1])] [Return OPCODE_RETW];
        If [(e32_Field_n_Slot_inst, [2])] [Return OPCODE_JX]];
      If [(e32_Field_m_Slot_inst, [3])] [
        If [(e32_Field_n_Slot_inst, [0])] [Return OPCODE_CALLX0];
        If [(e32_Field_n_Slot_inst, [1])] [Return OPCODE_CALLX4];
        If [(e32_Field_n_Slot_inst, [2])] [Return OPCODE_CALLX8];
        If [(e32_Field_n_Slot_inst, [3])] [Return OPCODE_CALLX12]]];
    If [(e32_Field_r_Slot_inst, [1])] [Return OPCODE_MOVSP];
    If [(e32_Field_r_Slot_inst, [2])] [
      If [(e32_Field_s_Slot_inst, [0])] [
        If [(e32_Field_t_Slot_inst, [0])] [Return OPCODE_ISYNC];
        If [(e32_Field_t_Slot_inst, [1])] [Return OPCODE_RSYNC];
        If [(e32_Field_t_Slot_inst, [2])] [Return OPCODE_ESYNC];
        If [(e32_Field_t_Slot_inst, [3])] [Return OPCODE_DSYNC];
        If [(e32_Field_t_Slot_inst, [8])] [Return OPCODE_EXCW];
        If [(e32_Field_t_Slot_inst, [12])] [Return OPCODE_MEMW];
        If [(e32_Field_t_Slot_inst, [13])] [Return OPCODE_EXTW];
        If [(e32_Field_t_Slot_inst, [15])] [Return OPCODE_NOP]]];
    If [(e32_Field_r_Slot_inst, [3])] [
      If [(e32_Field_t_Slot_inst, [0])] [
        If [(e32_Field_s_Slot_inst, [0])] [Return OPCODE_RFE];
        If [(e32_Field_s_Slot_inst, [2])] [Return OPCODE_RFDE];
        If [(e32_Field_s_Slot_inst, [4])] [Return OPCODE_RFWO];
        If [(e32_Field_s_Slot_inst, [5])] [Return OPCODE_RFWU]];
      If [(e32_Field_t_Slot_inst, [1])] [Return OPCODE_RFI]];
    If [(e32_Field_r_Slot_inst, [4])] [Return OPCODE_BREAK];
    If [(e32_Field_r_Slot_inst, [5])] [
      If [(e32_Field_s_Slot_inst, [0]); (e32_Field_t_Slot_inst, [0])] [Return OPCODE_SYSCALL];
      If [(e32_Field_s_Slot_inst, [1]); (e32_Field_t_Slot_inst, [0])] [Return OPCODE_SIMCALL]];
    If [(e32_Field_r_Slot_inst, [6])] [Return OPCODE_RSIL];
    If [(e32_Field_r_Slot_inst, [7]); (e32_Field_t_Slot_inst, [0])] [Return OPCODE_WAITI];
    If [(e32_Field_r_Slot_inst, [7])] [
      If [(e32_Field_t_Slot_inst, [14])] [Return OPCODE_LDDR32_P];
      If [(e32_Field_t_Slot_inst, [15])] [Return OPCODE_SDDR32_P]];
    If [(e32_Field_r_Slot_inst, [8])] [Return OPCODE_ANY4];
    If [(e32_Field_r_Slot_inst, [9])] [Return OPCODE_ALL4];
    If [(e32_Field_r_Slot_inst, [10])] [Return OPCODE_ANY8];
    If [(e32_Field_r_Slot_inst, [11])] [Return OPCODE_ALL8]];
  If [(e32_Field_op2_Slot_inst, [1])] [Return OPCODE_AND];
  If [(e32_Field_op2_Slot_inst, [2])] [Return OPCODE_OR];
  If [(e32_Field_op2_Slot_inst, [3])] [Return OPCODE_XOR];
  If [(e32_Field_op2_Slot_inst, [4])] [
    If [(e32_Field_r_Slot_inst, [0]); (e32_Field_t_Slot_inst, [0])] [Return OPCODE_SSR];
    If [(e32_Field_r_Slot_inst, [1]); (e32_Field_t_Slot_inst, [0])] [Return OPCODE_SSL];
    If [(e32_Field_r_Slot_inst, [2]); (e32_Field_t_Slot_inst, [0])] [Return OPCODE_SSA8L];
    If [(e32_Field_r_Slot_inst, [3]); (e32_Field_t_Slot_inst, [0])] [Return OPCODE_SSA8B];
    If [(e32_Field_r_Slot_inst, [4]); (e32_Field_thi3_Slot_inst, [0])] [Return OPCODE_SSAI];
    If [(e32_Field_r_Slot_inst, [6])] [Return OPCODE_RER];
    If [(e32_Field_r_Slot_inst, [7])] [Return OPCODE_WER];
    If [(e32_Field_r_Slot_inst, [8]); (e32_Field_s_Slot_inst, [0])] [Return OPCODE_ROTW];
    If [(e32_Field_r_Slot_inst, [14])] [Return OPCODE_NSA];
    If [(e32_Field_r_Slot_inst, [15])] [Return OPCODE_NSAU]]].

Definition e32_Slot_inst_decode_2 : list rule := [
  If [(e32_Field_op2_Slot_inst, [5])] [
    If [(e32_Field_r_Slot_inst, [3])] [Return OPCODE_RITLB0];
    If [(e32_Field_r_Slot_inst, [4]); (e32_Field_t_Slot_inst, [0])] [Return OPCODE_IITLB];
    If [(e32_Field_r_Slot_inst, [5])] [Return OPCODE_PITLB];
    If [(e32_Field_r_Slot_inst, [6])] [Return OPCODE_WITLB];
    If [(e32_Field_r_Slot_inst, [7])] [Return OPCODE_RITLB1];
    If [(e32_Field_r_Slot_inst, [11])] [Return OPCODE_RDTLB0];
    If [(e32_Field_r_Slot_inst, [12]); (e32_Field_t_Slot_inst, [0])] [Return OPCODE_IDTLB];
    If [(e32_Field_r_Slot_inst, [13])] [Return OPCODE_PDTLB];
    If [(e32_Field_r_Slot_inst, [14])] [Return OPCODE_WDTLB];
    If [(e32_Field_r_Slot_inst, [15])] [Return OPCODE_RDTLB1]];
  If [(e32_Field_op2_Slot_inst, [6])] [
    If [(e32_Field_s_Slot_inst, [0])] [Return OPCODE_NEG];
    If [(e32_Field_s_Slot_inst, [1])] [Return OPCODE_ABS]];
  If [(e32_Field_op2_Slot_inst, [8])] [Return OPCODE_ADD];
  If [(e32_Field_op2_Slot_inst, [9])] [Return OPCODE_ADDX2];
  If [(e32_Field_op2_Slot_inst, [10])] [Return OPCODE_ADDX4];
  If [(e32_Field_op2_Slot_inst, [11])] [Return OPCODE_ADDX8];
  If [(e32_Field_op2_Slot_inst, [12])] [Return OPCODE_SUB];
  If [(e32_Field_op2_Slot_inst, [13])] [Return OPCODE_SUBX2];
  If [(e32_Field_op2_Slot_inst, [14])] [Return OPCODE_SUBX4];
  If [(e32_Field_op2_Slot_inst, [15])] [Return OPCODE_SUBX8]].

Definition e32_Slot_inst_decode_3 : list rule := [
  If [(e32_Field_op1_Slot_inst, [0])] (e32_Slot_inst_decode_1 ++ e32_Slot_inst_decode_2)].

Definition e32_Slot_inst_decode_4 : list rule := [
  If [(e32_Field_op2_Slot_inst, [0; 1])] [Return OPCODE_SLLI];
  If [(e32_Field_op2_Slot_inst, [2; 3])] [Return OPCODE_SRAI];
  If [(e32_Field_op2_Slot_inst, [4])] [Return OPCODE_SRLI];
  If [(e32_Field_op2_Slot_inst, [6])] [
    If [(e32_Field_sr_Slot_inst, [0])] [Return OPCODE_XSR_LBEG];
    If [(e32_Field_sr_Slot_inst, [1])] [Return OPCODE_XSR_LEND];
    If [(e32_Field_sr_Slot_inst, [2])] [Return OPCODE_XSR_LCOUNT];
    If [(e32_Field_sr_Slot_inst, [3])] [Return OPCODE_XSR_SAR];
    If [(e32_Field_sr_Slot_inst, [4])] [Return OPCODE_XSR_BR];
    If [(e32_Field_sr_Slot_inst, [5])] [Return OPCODE_XSR_LITBASE];
    If [(e32_Field_sr_Slot_inst, [12])] [Return OPCODE_XSR_SCOMPARE1];
    If [(e32_Field_sr_Slot_inst, [16])] [Return OPCODE_XSR_ACCLO];
    If [(e32_Field_sr_Slot_inst, [17])] [Return OPCODE_XSR_ACCHI];
    If [(e32_Field_sr_Slot_inst, [32])] [Return OPCODE_XSR_M0];
    If [(e32_Field_sr_Slot_inst, [33])] [Return OPCODE_XSR_M1];
    If [(e32_Field_sr_Slot_inst, [34])] [Return OPCODE_XSR_M2];
    If [(e32_Field_sr_Slot_inst, [35])] [Return OPCODE_XSR_M3];
    If [(e32_Field_sr_Slot_inst, [72])] [Return OPCODE_XSR_WINDOWBASE];
    If [(e32_Field_sr_Slot_inst, [73])] [Return OPCODE_XSR_WINDOWSTART];
    If [(e32_Field_sr_Slot_inst, [96])] [Return OPCODE_XSR_IBREAKENABLE];
    If [(e32_Field_sr_Slot_inst, [97])] [Return OPCODE_XSR_MEMCTL];
    If [(e32_Field_sr_Slot_inst, [99])] [Return OPCODE_XSR_ATOMCTL];
    If [(e32_Field_sr_Slot_inst, [104])] [Return OPCODE_XSR_DDR];
    If [(e32_Field_sr_Slot_inst, [128])] [Return OPCODE_XSR_IBREAKA0];
    If [(e32_Field_sr_Slot_inst, [129])] [Return OPCODE_XSR_IBREAKA1];
    If [(e32_Field_sr_Slot_inst, [144])] [Return OPCODE_XSR_DBREAKA0];
    If [(e32_Field_sr_Slot_inst, [145])] [Return OPCODE_XSR_DBREAKA1];
    If [(e32_Field_sr_Slot_inst, [160])] [Return OPCODE_XSR_DBREAKC0];
    If [(e32_Field_sr_Slot_inst, [161])] [Return OPCODE_XSR_DBREAKC1];
    If [(e32_Field_sr_Slot_inst, [177])] [Return OPCODE_XSR_EPC1];
    If [(e32_Field_sr_Slot_inst, [178])] [Return OPCODE_XSR_EPC2];
    If [(e32_Field_sr_Slot_inst, [179])] [Return OPCODE_XSR_EPC3];
    If [(e32_Field_sr_Slot_inst, [180])] [Return OPCODE_XSR_EPC4];
    If [(e32_Field_sr_Slot_inst, [181])] [Return OPCODE_XSR_EPC5];
    If [(e32_Field_sr_Slot_inst, [182])] [Return OPCODE_XSR_EPC6];
    If [(e32_Field_sr_Slot_inst, [183])] [Return OPCODE_XSR_EPC7];
    If [(e32_Field_sr_Slot_inst, [192])] [Return OPCODE_XSR_DEPC];
    If [(e32_Field_sr_Slot_inst, [194])] [Return OPCODE_XSR_EPS2];
    If [(e32_Field_sr_Slot_inst, [195])] [Return OPCODE_XSR_EPS3];
    If [(e32_Field_sr_Slot_inst, [196])] [Return OPCODE_XSR_EPS4];
    If [(e32_Field_sr_Slot_inst, [197])] [Return OPCODE_XSR_EPS5];
    If [(e32_Field_sr_Slot_inst, [198])] [Return OPCODE_XSR_EPS6];
    If [(e32_Field_sr_Slot_inst, [199])] [Return OPCODE_XSR_EPS7];
    If [(e32_Field_sr_Slot_inst, [209])] [Return OPCODE_XSR_EXCSAVE1];
    If [(e32_Field_sr_Slot_inst, [210])] [Return OPCODE_XSR_EXCSAVE2];
    If [(e32_Field_sr_Slot_inst, [211])] [Return OPCODE_XSR_EXCSAVE3];
    If [(e32_Field_sr_Slot_inst, [212])] [Return OPCODE_XSR_EXCSAVE4];
    If [(e32_Field_sr_Slot_inst, [213])] [Return OPCODE_XSR_EXCSAVE5];
    If [(e32_Field_sr_Slot_inst, [214])] [Return OPCODE_XSR_EXCSAVE6];
    If [(e32_Field_sr_Slot_inst, [215])] [Return OPCODE_XSR_EXCSAVE7];
    If [(e32_Field_sr_Slot_inst, [224])] [Return OPCODE_XSR_CPENABLE];
    If [(e32_Field_sr_Slot_inst, [228])] [Return OPCODE_XSR_INTENABLE];
    If [(e32_Field_sr_Slot_inst, [230])] [Return OPCODE_XSR_PS];
    If [(e32_Field_sr_Slot_inst, [231])] [Return OPCODE_XSR_VECBASE];
    If [(e32_Field_sr_Slot_inst, [232])] [Return OPCODE_XSR_EXCCAUSE];
    If [(e32_Field_sr_Slot_inst, [233])] [Return OPCODE_XSR_DEBUGCAUSE];
    If [(e32_Field_sr_Slot_inst, [234])] [Return OPCODE_XSR_CCOUNT];
    If [(e32_Field_sr_Slot_inst, [236])] [Return OPCODE_XSR_ICOUNT];
    If [(e32_Field_sr_Slot_inst, [237])] [Return OPCODE_XSR_ICOUNTLEVEL];
    If [(e32_Field_sr_Slot_inst, [238])] [Return OPCODE_XSR_EXCVADDR];
    If [(e32_Field_sr_Slot_inst, [240])] [Return OPCODE_XSR_CCOMPARE0];
    If [(e32_Field_sr_Slot_inst, [241])] [Return OPCODE_XSR_CCOMPARE1];
    If [(e32_Field_sr_Slot_inst, [242])] [Return OPCODE_XSR_CCOMPARE2];
    If [(e32_Field_sr_Slot_inst, [244])] [Return OPCODE_XSR_MISC0];
    If [(e32_Field_sr_Slot_inst, [245])] [Return OPCODE_XSR_MISC1];
    If [(e32_Field_sr_Slot_inst, [246])] [Return OPCODE_XSR_MISC2];
    If [(e32_Field_sr_Slot_inst, [247])] [Return OPCODE_XSR_MISC3]];
  If [(e32_Field_op2_Slot_inst, [8])] [Return OPCODE_SRC];
  If [(e32_Field_op2_Slot_inst, [9]); (e32_Field_s_Slot_inst, [0])] [Return OPCODE_SRL];
  If [(e32_Field_op2_Slot_inst, [10]); (e32_Field_t_Slot_inst, [0])] [Return OPCODE_SLL];
  If [(e32_Field_op2_Slot_inst, [11]); (e32_Field_s_Slot_inst, [0])] [Return OPCODE_SRA];
  If [(e32_Field_op2_Slot_inst, [12])] [Return OPCODE_MUL16U]].

Definition e32_Slot_inst_decode_5 : list rule := [
  If [(e32_Field_op2_Slot_inst, [13])] [Return OPCODE_MUL16S];
  If [(e32_Field_op2_Slot_inst, [15])] [
    If [(e32_Field_r_Slot_inst, [14]); (e32_Field_t_Slot_inst, [0])] [Return OPCODE_RFDO];
    If [(e32_Field_r_Slot_inst, [14]); (e32_Field_t_Slot_inst, [1])] [Return OPCODE_RFDD]]].

Definition e32_Slot_inst_decode_6 : list rule := [
  If [(e32_Field_op1_Slot_inst, [1])] (e32_Slot_inst_decode_4 ++ e32_Slot_inst_decode_5)].

Definition e32_Slot_inst_decode_7 : list rule := [
  If [(e32_Field_op1_Slot_inst, [2])] [
    If [(e32_Field_op2_Slot_inst, [0])] [Return OPCODE_ANDB];
    If [(e32_Field_op2_Slot_inst, [1])] [Return OPCODE_ANDBC];
    If [(e32_Field_op2_Slot_inst, [2])] [Return OPCODE_ORB];
    If [(e32_Field_op2_Slot_inst, [3])] [Return OPCODE_ORBC];
    If [(e32_Field_op2_Slot_inst, [4])] [Return OPCODE_XORB];
    If [(e32_Field_op2_Slot_inst, [8])] [Return OPCODE_MULL];
    If [(e32_Field_op2_Slot_inst, [10])] [Return OPCODE_MULUH];
    If [(e32_Field_op2_Slot_inst, [11])] [Return OPCODE_MULSH];
    If [(e32_Field_op2_Slot_inst, [12])] [Return OPCODE_QUOU];
    If [(e32_Field_op2_Slot_inst, [13])] [Return OPCODE_QUOS];
    If [(e32_Field_op2_Slot_inst, [14])] [Return OPCODE_REMU];
    If [(e32_Field_op2_Slot_inst, [15])] [Return OPCODE_REMS]]].

Definition e32_Slot_inst_decode_8 : list rule := [
  If [(e32_Field_op2_Slot_inst, [0])] [
    If [(e32_Field_sr_Slot_inst, [0])] [Return OPCODE_RSR_LBEG];
    If [(e32_Field_sr_Slot_inst, [1])] [Return OPCODE_RSR_LEND];
    If [(e32_Field_sr_Slot_inst, [2])] [Return OPCODE_RSR_LCOUNT];
    If [(e32_Field_sr_Slot_inst, [3])] [Return OPCODE_RSR_SAR];
    If [(e32_Field_sr_Slot_inst, [4])] [Return OPCODE_RSR_BR];
    If [(e32_Field_sr_Slot_inst, [5])] [Return OPCODE_RSR_LITBASE];
    If [(e32_Field_sr_Slot_inst, [12])] [Return OPCODE_RSR_SCOMPARE1];
    If [(e32_Field_sr_Slot_inst, [16])] [Return OPCODE_RSR_ACCLO];
    If [(e32_Field_sr_Slot_inst, [17])] [Return OPCODE_RSR_ACCHI];
    If [(e32_Field_sr_Slot_inst, [32])] [Return OPCODE_RSR_M0];
    If [(e32_Field_sr_Slot_inst, [33])] [Return OPCODE_RSR_M1];
    If [(e32_Field_sr_Slot_inst, [34])] [Return OPCODE_RSR_M2];
    If [(e32_Field_sr_Slot_inst, [35])] [Return OPCODE_RSR_M3];
    If [(e32_Field_sr_Slot_inst, [72])] [Return OPCODE_RSR_WINDOWBASE];
    If [(e32_Field_sr_Slot_inst, [73])] [Return OPCODE_RSR_WINDOWSTART];
    If [(e32_Field_sr_Slot_inst, [96])] [Return OPCODE_RSR_IBREAKENABLE];
    If [(e32_Field_sr_Slot_inst, [97])] [Return OPCODE_RSR_MEMCTL];
    If [(e32_Field_sr_Slot_inst, [99])] [Return OPCODE_RSR_ATOMCTL];
    If [(e32_Field_sr_Slot_inst, [104])] [Return OPCODE_RSR_DDR];
    If [(e32_Field_sr_Slot_inst, [128])] [Return OPCODE_RSR_IBREAKA0];
    If [(e32_Field_sr_Slot_inst, [129])] [Return OPCODE_RSR_IBREAKA1];
    If [(e32_Field_sr_Slot_inst, [144])] [Return OPCODE_RSR_DBREAKA0];
    If [(e32_Field_sr_Slot_inst, [145])] [Return OPCODE_RSR_DBREAKA1];
    If [(e32_Field_sr_Slot_inst, [160])] [Return OPCODE_RSR_DBREAKC0];
    If [(e32_Field_sr_Slot_inst, [161])] [Return OPCODE_RSR_DBREAKC1];
    If [(e32_Field_sr_Slot_inst, [176])] [Return OPCODE_RSR_CONFIGID0];
    If [(e32_Field_sr_Slot_inst, [177])] [Return OPCODE_RSR_EPC1];
    If [(e32_Field_sr_Slot_inst, [178])] [Return OPCODE_RSR_EPC2];
    If [(e32_Field_sr_Slot_inst, [179])] [Return OPCODE_RSR_EPC3];
    If [(e32_Field_sr_Slot_inst, [180])] [Return OPCODE_RSR_EPC4];
    If [(e32_Field_sr_Slot_inst, [181])] [Return OPCODE_RSR_EPC5];
    If [(e32_Field_sr_Slot_inst, [182])] [Return OPCODE_RSR_EPC6];
    If [(e32_Field_sr_Slot_inst, [183])] [Return OPCODE_RSR_EPC7];
    If [(e32_Field_sr_Slot_inst, [192])] [Return OPCODE_RSR_DEPC];
    If [(e32_Field_sr_Slot_inst, [194])] [Return OPCODE_RSR_EPS2];
    If [(e32_Field_sr_Slot_inst, [195])] [Return OPCODE_RSR_EPS3];
    If [(e32_Field_sr_Slot_inst, [196])] [Return OPCODE_RSR_EPS4];
    If [(e32_Field_sr_Slot_inst, [197])] [Return OPCODE_RSR_EPS5];
    If [(e32_Field_sr_Slot_inst, [198])] [Return OPCODE_RSR_EPS6];
    If [(e32_Field_sr_Slot_inst, [199])] [Return OPCODE_RSR_EPS7];
    If [(e32_Field_sr_Slot_inst, [208])] [Return OPCODE_RSR_CONFIGID1];
    If [(e32_Field_sr_Slot_inst, [209])] [Return OPCODE_RSR_EXCSAVE1];
    If [(e32_Field_sr_Slot_inst, [210])] [Return OPCODE_RSR_EXCSAVE2];
    If [(e32_Field_sr_Slot_inst, [211])] [Return OPCODE_RSR_EXCSAVE3];
    If [(e32_Field_sr_Slot_inst, [212])] [Return OPCODE_RSR_EXCSAVE4];
    If [(e32_Field_sr_Slot_inst, [213])] [Return OPCODE_RSR_EXCSAVE5];
    If [(e32_Field_sr_Slot_inst, [214])] [Return OPCODE_RSR_EXCSAVE6];
    If [(e32_Field_sr_Slot_inst, [215])] [Return OPCODE_RSR_EXCSAVE7];
    If [(e32_Field_sr_Slot_inst, [224])] [Return OPCODE_RSR_CPENABLE];
    If [(e32_Field_sr_Slot_inst, [226])] [Return OPCODE_RSR_INTERRUPT];
    If [(e32_Field_sr_Slot_inst, [228])] [Return OPCODE_RSR_INTENABLE];
    If [(e32_Field_sr_Slot_inst, [230])] [Return OPCODE_RSR_PS];
    If [(e32_Field_sr_Slot_inst, [231])] [Return OPCODE_RSR_VECBASE];
    If [(e32_Field_sr_Slot_inst, [232])] [Return OPCODE_RSR_EXCCAUSE];
    If [(e32_Field_sr_Slot_inst, [233])] [Return OPCODE_RSR_DEBUGCAUSE];
    If [(e32_Field_sr_Slot_inst, [234])] [Return OPCODE_RSR_CCOUNT];
    If [(e32_Field_sr_Slot_inst, [235])] [Return OPCODE_RSR_PRID];
    If [(e32_Field_sr_Slot_inst, [236])] [Return OPCODE_RSR_ICOUNT];
    If [(e32_Field_sr_Slot_inst, [237])] [Return OPCODE_RSR_ICOUNTLEVEL];
    If [(e32_Field_sr_Slot_inst, [238])] [Return OPCODE_RSR_EXCVADDR];
    If [(e32_Field_sr_Slot_inst, [240])] [Return OPCODE_RSR_CCOMPARE0];
    If [(e32_Field_sr_Slot_inst, [241])] [Return OPCODE_RSR_CCOMPARE1];
    If [(e32_Field_sr_Slot_inst, [242])] [Return OPCODE_RSR_CCOMPARE2];
    If [(e32_Field_sr_Slot_inst, [244])] [Return OPCODE_RSR_MISC0];
    If [(e32_Field_sr_Slot_inst, [245])] [Return OPCODE_RSR_MISC1];
    If [(e32_Field_sr_Slot_inst, [246])] [Return OPCODE_RSR_MISC2];
    If [(e32_Field_sr_Slot_inst, [247])] [Return OPCODE_RSR_MISC3]]].

Definition e32_Slot_inst_decode_9 : list rule := [
  If [(e32_Field_op2_Slot_inst, [1])] [
    If [(e32_Field_sr_Slot_inst, [0])] [Return OPCODE_WSR_LBEG];
    If [(e32_Field_sr_Slot_inst, [1])] [Return OPCODE_WSR_LEND];
    If [(e32_Field_sr_Slot_inst, [2])] [Return OPCODE_WSR_LCOUNT];
    If [(e32_Field_sr_Slot_inst, [3])] [Return OPCODE_WSR_SAR];
    If [(e32_Field_sr_Slot_inst, [4])] [Return OPCODE_WSR_BR];
    If [(e32_Field_sr_Slot_inst, [5])] [Return OPCODE_WSR_LITBASE];
    If [(e32_Field_sr_Slot_inst, [12])] [Return OPCODE_WSR_SCOMPARE1];
    If [(e32_Field_sr_Slot_inst, [16])] [Return OPCODE_WSR_ACCLO];
    If [(e32_Field_sr_Slot_inst, [17])] [Return OPCODE_WSR_ACCHI];
    If [(e32_Field_sr_Slot_inst, [32])] [Return OPCODE_WSR_M0];
    If [(e32_Field_sr_Slot_inst, [33])] [Return OPCODE_WSR_M1];
    If [(e32_Field_sr_Slot_inst, [34])] [Return OPCODE_WSR_M2];
    If [(e32_Field_sr_Slot_inst, [35])] [Return OPCODE_WSR_M3];
    If [(e32_Field_sr_Slot_inst, [72])] [Return OPCODE_WSR_WINDOWBASE];
    If [(e32_Field_sr_Slot_inst, [73])] [Return OPCODE_WSR_WINDOWSTART];
    If [(e32_Field_sr_Slot_inst, [89])] [Return OPCODE_WSR_MMID];
    If [(e32_Field_sr_Slot_inst, [96])] [Return OPCODE_WSR_IBREAKENABLE];
    If [(e32_Field_sr_Slot_inst, [97])] [Return OPCODE_WSR_MEMCTL];
    If [(e32_Field_sr_Slot_inst, [99])] [Return OPCODE_WSR_ATOMCTL];
    If [(e32_Field_sr_Slot_inst, [104])] [Return OPCODE_WSR_DDR];
    If [(e32_Field_sr_Slot_inst, [128])] [Return OPCODE_WSR_IBREAKA0];
    If [(e32_Field_sr_Slot_inst, [129])] [Return OPCODE_WSR_IBREAKA1];
    If [(e32_Field_sr_Slot_inst, [144])] [Return OPCODE_WSR_DBREAKA0];
    If [(e32_Field_sr_Slot_inst, [145])] [Return OPCODE_WSR_DBREAKA1];
    If [(e32_Field_sr_Slot_inst, [160])] [Return OPCODE_WSR_DBREAKC0];
    If [(e32_Field_sr_Slot_inst, [161])] [Return OPCODE_WSR_DBREAKC1];
    If [(e32_Field_sr_Slot_inst, [176])] [Return OPCODE_WSR_CONFIGID0];
    If [(e32_Field_sr_Slot_inst, [177])] [Return OPCODE_WSR_EPC1];
    If [(e32_Field_sr_Slot_inst, [178])] [Return OPCODE_WSR_EPC2];
    If [(e32_Field_sr_Slot_inst, [179])] [Return OPCODE_WSR_EPC3];
    If [(e32_Field_sr_Slot_inst, [180])] [Return OPCODE_WSR_EPC4];
    If [(e32_Field_sr_Slot_inst, [181])] [Return OPCODE_WSR_EPC5];
    If [(e32_Field_sr_Slot_inst, [182])] [Return OPCODE_WSR_EPC6];
    If [(e32_Field_sr_Slot_inst, [183])] [Return OPCODE_WSR_EPC7];
    If [(e32_Field_sr_Slot_inst, [192])] [Return OPCODE_WSR_DEPC];
    If [(e32_Field_sr_Slot_inst, [194])] [Return OPCODE_WSR_EPS2];
    If [(e32_Field_sr_Slot_inst, [195])] [Return OPCODE_WSR_EPS3];
    If [(e32_Field_sr_Slot_inst, [196])] [Return OPCODE_WSR_EPS4];
    If [(e32_Field_sr_Slot_inst, [197])] [Return OPCODE_WSR_EPS5];
    If [(e32_Field_sr_Slot_inst, [198])] [Return OPCODE_WSR_EPS6];
    If [(e32_Field_sr_Slot_inst, [199])] [Return OPCODE_WSR_EPS7];
    If [(e32_Field_sr_Slot_inst, [209])] [Return OPCODE_WSR_EXCSAVE1];
    If [(e32_Field_sr_Slot_inst, [210])] [Return OPCODE_WSR_EXCSAVE2];
    If [(e32_Field_sr_Slot_inst, [211])] [Return OPCODE_WSR_EXCSAVE3];
    If [(e32_Field_sr_Slot_inst, [212])] [Return OPCODE_WSR_EXCSAVE4];
    If [(e32_Field_sr_Slot_inst, [213])] [Return OPCODE_WSR_EXCSAVE5];
    If [(e32_Field_sr_Slot_inst, [214])] [Return OPCODE_WSR_EXCSAVE6];
    If [(e32_Field_sr_Slot_inst, [215])] [Return OPCODE_WSR_EXCSAVE7];
    If [(e32_Field_sr_Slot_inst, [224])] [Return OPCODE_WSR_CPENABLE];
    If [(e32_Field_sr_Slot_inst, [226])] [Return OPCODE_WSR_INTSET];
    If [(e32_Field_sr_Slot_inst, [227])] [Return OPCODE_WSR_INTCLEAR];
    If [(e32_Field_sr_Slot_inst, [228])] [Return OPCODE_WSR_INTENABLE];
    If [(e32_Field_sr_Slot_inst, [230])] [Return OPCODE_WSR_PS];
    If [(e32_Field_sr_Slot_inst, [231])] [Return OPCODE_WSR_VECBASE];
    If [(e32_Field_sr_Slot_inst, [232])] [Return OPCODE_WSR_EXCCAUSE];
    If [(e32_Field_sr_Slot_inst, [233])] [Return OPCODE_WSR_DEBUGCAUSE];
    If [(e32_Field_sr_Slot_inst, [234])] [Return OPCODE_WSR_CCOUNT];
    If [(e32_Field_sr_Slot_inst, [236])] [Return OPCODE_WSR_ICOUNT];
    If [(e32_Field_sr_Slot_inst, [237])] [Return OPCODE_WSR_ICOUNTLEVEL];
    If [(e32_Field_sr_Slot_inst, [238])] [Return OPCODE_WSR_EXCVADDR];
    If [(e32_Field_sr_Slot_inst, [240])] [Return OPCODE_WSR_CCOMPARE0];
    If [(e32_Field_sr_Slot_inst, [241])] [Return OPCODE_WSR_CCOMPARE1];
    If [(e32_Field_sr_Slot_inst, [242])] [Return OPCODE_WSR_CCOMPARE2];
    If [(e32_Field_sr_Slot_inst, [244])] [Return OPCODE_WSR_MISC0];
    If [(e32_Field_sr_Slot_inst, [245])] [Return OPCODE_WSR_MISC1];
    If [(e32_Field_sr_Slot_inst, [246])] [Return OPCODE_WSR_MISC2];
    If [(e32_Field_sr_Slot_inst, [247])] [Return OPCODE_WSR_MISC3]];
  If [(e32_Field_op2_Slot_inst, [2])] [Return OPCODE_SEXT];
  If [(e32_Field_op2_Slot_inst, [3])] [Return OPCODE_CLAMPS];
  If [(e32_Field_op2_Slot_inst, [4])] [Return OPCODE_MIN];
  If [(e32_Field_op2_Slot_inst, [5])] [Return OPCODE_MAX];
  If [(e32_Field_op2_Slot_inst, [6])] [Return OPCODE_MINU];
  If [(e32_Field_op2_Slot_inst, [7])] [Return OPCODE_MAXU]].

Definition e32_Slot_inst_decode_10 : list rule := [
  If [(e32_Field_op2_Slot_inst, [8])] [Return OPCODE_MOVEQZ];
  If [(e32_Field_op2_Slot_inst, [9])] [Return OPCODE_MOVNEZ];
  If [(e32_Field_op2_Slot_inst, [10])] [Return OPCODE_MOVLTZ];
  If [(e32_Field_op2_Slot_inst, [11])] [Return OPCODE_MOVGEZ];
  If [(e32_Field_op2_Slot_inst, [12])] [Return OPCODE_MOVF];
  If [(e32_Field_op2_Slot_inst, [13])] [Return OPCODE_MOVT];
  If [(e32_Field_op2_Slot_inst, [14])] [
    If [(e32_Field_st_Slot_inst, [230])] [Return OPCODE_RUR_EXPSTATE];
    If [(e32_Field_st_Slot_inst, [231])] [Return OPCODE_RUR_THREADPTR];
    If [(e32_Field_st_Slot_inst, [232])] [Return OPCODE_RUR_FCR];
    If [(e32_Field_st_Slot_inst, [233])] [Return OPCODE_RUR_FSR];
    If [(e32_Field_st_Slot_inst, [234])] [Return OPCODE_RUR_F64R_LO];
    If [(e32_Field_st_Slot_inst, [235])] [Return OPCODE_RUR_F64R_HI];
    If [(e32_Field_st_Slot_inst, [236])] [Return OPCODE_RUR_F64S]];
  If [(e32_Field_op2_Slot_inst, [15])] [
    If [(e32_Field_sr_Slot_inst, [230])] [Return OPCODE_WUR_EXPSTATE];
    If [(e32_Field_sr_Slot_inst, [231])] [Return OPCODE_WUR_THREADPTR];
    If [(e32_Field_sr_Slot_inst, [232])] [Return OPCODE_WUR_FCR];
    If [(e32_Field_sr_Slot_inst, [233])] [Return OPCODE_WUR_FSR];
    If [(e32_Field_sr_Slot_inst, [234])] [Return OPCODE_WUR_F64R_LO];
    If [(e32_Field_sr_Slot_inst, [235])] [Return OPCODE_WUR_F64R_HI];
    If [(e32_Field_sr_Slot_inst, [236])] [Return OPCODE_WUR_F64S]]].

Definition e32_Slot_inst_decode_11 : list rule := [
  If [(e32_Field_op1_Slot_inst, [3])] (e32_Slot_inst_decode_8 ++ e32_Slot_inst_decode_9 ++ e32_Slot_inst_decode_10)].

Definition e32_Slot_inst_decode_12 : list rule := [
  If [(e32_Field_op1_Slot_inst, [4; 5])] [Return OPCODE_EXTUI];
  If [(e32_Field_op1_Slot_inst, [8])] [
    If [(e32_Field_op2_Slot_inst, [0])] [Return OPCODE_LSX];
    If [(e32_Field_op2_Slot_inst, [1])] [Return OPCODE_LSXP];
    If [(e32_Field_op2_Slot_inst, [4])] [Return OPCODE_SSX];
    If [(e32_Field_op2_Slot_inst, [5])] [Return OPCODE_SSXP]];
  If [(e32_Field_op1_Slot_inst, [9])] [
    If [(e32_Field_op2_Slot_inst, [0])] [Return OPCODE_L32E];
    If [(e32_Field_op2_Slot_inst, [4])] [Return OPCODE_S32E];
    If [(e32_Field_op2_Slot_inst, [5])] [Return OPCODE_S32NB]];
  If [(e32_Field_op1_Slot_inst, [10])] [
    If [(e32_Field_op2_Slot_inst, [0])] [Return OPCODE_ADD_S];
    If [(e32_Field_op2_Slot_inst, [1])] [Return OPCODE_SUB_S];
    If [(e32_Field_op2_Slot_inst, [2])] [Return OPCODE_MUL_S];
    If [(e32_Field_op2_Slot_inst, [4])] [Return OPCODE_MADD_S];
    If [(e32_Field_op2_Slot_inst, [5])] [Return OPCODE_MSUB_S];
    If [(e32_Field_op2_Slot_inst, [6])] [Return OPCODE_MADDN_S];
    If [(e32_Field_op2_Slot_inst, [7])] [Return OPCODE_DIVN_S];
    If [(e32_Field_op2_Slot_inst, [8])] [Return OPCODE_ROUND_S];
    If [(e32_Field_op2_Slot_inst, [9])] [Return OPCODE_TRUNC_S];
    If [(e32_Field_op2_Slot_inst, [10])] [Return OPCODE_FLOOR_S];
    If [(e32_Field_op2_Slot_inst, [11])] [Return OPCODE_CEIL_S];
    If [(e32_Field_op2_Slot_inst, [12])] [Return OPCODE_FLOAT_S];
    If [(e32_Field_op2_Slot_inst, [13])] [Return OPCODE_UFLOAT_S];
    If [(e32_Field_op2_Slot_inst, [14])] [Return OPCODE_UTRUNC_S];
    If [(e32_Field_op2_Slot_inst, [15])] [
      If [(e32_Field_t_Slot_inst, [0])] [Return OPCODE_MOV_S];
      If [(e32_Field_t_Slot_inst, [1])] [Return OPCODE_ABS_S];
      If [(e32_Field_t_Slot_inst, [3])] [Return OPCODE_CONST_S];
      If [(e32_Field_t_Slot_inst, [4])] [Return OPCODE_RFR];
      If [(e32_Field_t_Slot_inst, [5])] [Return OPCODE_WFR];
      If [(e32_Field_t_Slot_inst, [6])] [Return OPCODE_NEG_S];
      If [(e32_Field_t_Slot_inst, [7])] [Return OPCODE_DIV0_S];
      If [(e32_Field_t_Slot_inst, [8])] [Return OPCODE_RECIP0_S];
      If [(e32_Field_t_Slot_inst, [9])] [Return OPCODE_SQRT0_S];
      If [(e32_Field_t_Slot_inst, [10])] [Return OPCODE_RSQRT0_S];
      If [(e32_Field_t_Slot_inst, [11])] [Return OPCODE_NEXP01_S];
      If [(e32_Field_t_Slot_inst, [12])] [Return OPCODE_MKSADJ_S];
      If [(e32_Field_t_Slot_inst, [13])] [Return OPCODE_MKDADJ_S];
      If [(e32_Field_t_Slot_inst, [14])] [Return OPCODE_ADDEXP_S];
      If [(e32_Field_t_Slot_inst, [15])] [Return OPCODE_ADDEXPM_S]]];
  If [(e32_Field_op1_Slot_inst, [11])] [
    If [(e32_Field_op2_Slot_inst, [1])] [Return OPCODE_UN_S];
    If [(e32_Field_op2_Slot_inst, [2])] [Return OPCODE_OEQ_S];
    If [(e32_Field_op2_Slot_inst, [3])] [Return OPCODE_UEQ_S];
    If [(e32_Field_op2_Slot_inst, [4])] [Return OPCODE_OLT_S];
    If [(e32_Field_op2_Slot_inst, [5])] [Return OPCODE_ULT_S];
    If [(e32_Field_op2_Slot_inst, [6])] [Return OPCODE_OLE_S];
    If [(e32_Field_op2_Slot_inst, [7])] [Return OPCODE_ULE_S];
    If [(e32_Field_op2_Slot_inst, [8])] [Return OPCODE_MOVEQZ_S];
    If [(e32_Field_op2_Slot_inst, [9])] [Return OPCODE_MOVNEZ_S];
    If [(e32_Field_op2_Slot_inst, [10])] [Return OPCODE_MOVLTZ_S];
    If [(e32_Field_op2_Slot_inst, [11])] [Return OPCODE_MOVGEZ_S];
    If [(e32_Field_op2_Slot_inst, [12])] [Return OPCODE_MOVF_S];
    If [(e32_Field_op2_Slot_inst, [13])] [Return OPCODE_MOVT_S]];
  If [(e32_Field_r_Slot_inst, [0]); (e32_Field_s_Slot_inst, [0]); (e32_Field_op2_Slot_inst, [0]); (e32_Field_op1_Slot_inst, [14])] [Return OPCODE_READ_IMPWIRE];
  If [(e32_Field_r_Slot_inst, [1]); (e32_Field_s3to1_Slot_inst, [0]); (e32_Field_op2_Slot_inst, [0]); (e32_Field_op1_Slot_inst, [14])] [Return OPCODE_SETB_EXPSTATE];
  If [(e32_Field_r_Slot_inst, [1]); (e32_Field_s3to1_Slot_inst, [1]); (e32_Field_op2_Slot_inst, [0]); (e32_Field_op1_Slot_inst, [14])] [Return OPCODE_CLRB_EXPSTATE];
  If [(e32_Field_r_Slot_inst, [2]); (e32_Field_op2_Slot_inst, [0]); (e32_Field_op1_Slot_inst, [14])] [Return OPCODE_WRMSK_EXPSTATE]].

Definition e32_Slot_inst_decode_13 : list rule := [
  If [(e32_Field_op0_Slot_inst, [0])] (e32_Slot_inst_decode_3 ++ e32_Slot_inst_decode_6 ++ e32_Slot_inst_decode_7 ++ e32_Slot_inst_decode_11 ++ e32_Slot_inst_decode_12)].

Definition e32_Slot_inst_decode_14 : list rule := [
  If [(e32_Field_op0_Slot_inst, [0])] [
    If [(e32_Field_dfp_fld_op1_Slot_inst, [11])] [
      If [(e32_Field_dfp_fld_op2_Slot_inst, [0])] [
        If [(e32_Field_dfp_fld_r_3_1_Slot_inst, [7])] [Return OPCODE_WF64R];
        If [(e32_Field_dfp_fld_s_3_1_Slot_inst, [7]); (e32_Field_r_Slot_inst, [12])] [Return OPCODE_RF64R]];
      If [(e32_Field_dfp_fld_op2_Slot_inst, [14])] [Return OPCODE_F64CMPL];
      If [(e32_Field_dfp_fld_op2_Slot_inst, [15])] [
        If [(e32_Field_dfp_fld_r_3_Slot_inst, [0])] [Return OPCODE_F64ADDC];
        If [(e32_Field_dfp_fld_r_3_Slot_inst, [1])] [Return OPCODE_F64SUBC]]];
    If [(e32_Field_dfp_fld_op1_Slot_inst, [14])] [
      If [(e32_Field_dfp_fld_op2_Slot_inst, [0])] [
        If [(e32_Field_r_Slot_inst, [13])] [Return OPCODE_F64SIG]];
      If [(e32_Field_dfp_fld_op2_Slot_inst, [1])] [Return OPCODE_F64SEXP];
      If [(e32_Field_dfp_fld_op2_3_Slot_inst, [1])] [Return OPCODE_F64ITER];
      If [(e32_Field_dfp_fld_op2_3_1_Slot_inst, [1])] [Return OPCODE_F64NORM];
      If [(e32_Field_dfp_fld_op2_3_2_Slot_inst, [1])] [Return OPCODE_F64RND]];
    If [(e32_Field_dfp_fld_op1_Slot_inst, [15])] [Return OPCODE_F64CMPH]];
  If [(e32_Field_op0_Slot_inst, [1])] [Return OPCODE_L32R];
  If [(e32_Field_op0_Slot_inst, [2])] [
    If [(e32_Field_r_Slot_inst, [0])] [Return OPCODE_L8UI];
    If [(e32_Field_r_Slot_inst, [1])] [Return OPCODE_L16UI];
    If [(e32_Field_r_Slot_inst, [2])] [Return OPCODE_L32I];
    If [(e32_Field_r_Slot_inst, [4])] [Return OPCODE_S8I];
    If [(e32_Field_r_Slot_inst, [5])] [Return OPCODE_S16I];
    If [(e32_Field_r_Slot_inst, [6])] [Return OPCODE_S32I];
    If [(e32_Field_r_Slot_inst, [9])] [Return OPCODE_L16SI];
    If [(e32_Field_r_Slot_inst, [10])] [Return OPCODE_MOVI];
    If [(e32_Field_r_Slot_inst, [11])] [Return OPCODE_L32AI];
    If [(e32_Field_r_Slot_inst, [12])] [Return OPCODE_ADDI];
    If [(e32_Field_r_Slot_inst, [13])] [Return OPCODE_ADDMI];
    If [(e32_Field_r_Slot_inst, [14])] [Return OPCODE_S32C1I];
    If [(e32_Field_r_Slot_inst, [15])] [Return OPCODE_S32RI]];
  If [(e32_Field_op0_Slot_inst, [3])] [
    If [(e32_Field_r_Slot_inst, [0])] [Return OPCODE_LSI];
    If [(e32_Field_r_Slot_inst, [4])] [Return OPCODE_SSI];
    If [(e32_Field_r_Slot_inst, [8])] [Return OPCODE_LSIP];
    If [(e32_Field_r_Slot_inst, [12])] [Return OPCODE_SSIP]]].

Definition e32_Slot_inst_decode_15 : list rule := [
  If [(e32_Field_op2_Slot_inst, [0])] [
    If [(e32_Field_op1_Slot_inst, [8]); (e32_Field_t3_Slot_inst, [0]); (e32_Field_tlo_Slot_inst, [0]); (e32_Field_r3_Slot_inst, [0])] [Return OPCODE_MULA_DD_LL_LDINC];
    If [(e32_Field_op1_Slot_inst, [9]); (e32_Field_t3_Slot_inst, [0]); (e32_Field_tlo_Slot_inst, [0]); (e32_Field_r3_Slot_inst, [0])] [Return OPCODE_MULA_DD_HL_LDINC];
    If [(e32_Field_op1_Slot_inst, [10]); (e32_Field_t3_Slot_inst, [0]); (e32_Field_tlo_Slot_inst, [0]); (e32_Field_r3_Slot_inst, [0])] [Return OPCODE_MULA_DD_LH_LDINC];
    If [(e32_Field_op1_Slot_inst, [11]); (e32_Field_t3_Slot_inst, [0]); (e32_Field_tlo_Slot_inst, [0]); (e32_Field_r3_Slot_inst, [0])] [Return OPCODE_MULA_DD_HH_LDINC]];
  If [(e32_Field_op2_Slot_inst, [1])] [
    If [(e32_Field_op1_Slot_inst, [8]); (e32_Field_t3_Slot_inst, [0]); (e32_Field_tlo_Slot_inst, [0]); (e32_Field_r3_Slot_inst, [0])] [Return OPCODE_MULA_DD_LL_LDDEC];
    If [(e32_Field_op1_Slot_inst, [9]); (e32_Field_t3_Slot_inst, [0]); (e32_Field_tlo_Slot_inst, [0]); (e32_Field_r3_Slot_inst, [0])] [Return OPCODE_MULA_DD_HL_LDDEC];
    If [(e32_Field_op1_Slot_inst, [10]); (e32_Field_t3_Slot_inst, [0]); (e32_Field_tlo_Slot_inst, [0]); (e32_Field_r3_Slot_inst, [0])] [Return OPCODE_MULA_DD_LH_LDDEC];
    If [(e32_Field_op1_Slot_inst, [11]); (e32_Field_t3_Slot_inst, [0]); (e32_Field_tlo_Slot_inst, [0]); (e32_Field_r3_Slot_inst, [0])] [Return OPCODE_MULA_DD_HH_LDDEC]];
  If [(e32_Field_op2_Slot_inst, [2])] [
    If [(e32_Field_op1_Slot_inst, [4]); (e32_Field_s_Slot_inst, [0]); (e32_Field_w_Slot_inst, [0]); (e32_Field_r3_Slot_inst, [0]); (e32_Field_t3_Slot_inst, [0]); (e32_Field_tlo_Slot_inst, [0])] [Return OPCODE_MUL_DD_LL];
    If [(e32_Field_op1_Slot_inst, [5]); (e32_Field_s_Slot_inst, [0]); (e32_Field_w_Slot_inst, [0]); (e32_Field_r3_Slot_inst, [0]); (e32_Field_t3_Slot_inst, [0]); (e32_Field_tlo_Slot_inst, [0])] [Return OPCODE_MUL_DD_HL];
    If [(e32_Field_op1_Slot_inst, [6]); (e32_Field_s_Slot_inst, [0]); (e32_Field_w_Slot_inst, [0]); (e32_Field_r3_Slot_inst, [0]); (e32_Field_t3_Slot_inst, [0]); (e32_Field_tlo_Slot_inst, [0])] [Return OPCODE_MUL_DD_LH];
    If [(e32_Field_op1_Slot_inst, [7]); (e32_Field_s_Slot_inst, [0]); (e32_Field_w_Slot_inst, [0]); (e32_Field_r3_Slot_inst, [0]); (e32_Field_t3_Slot_inst, [0]); (e32_Field_tlo_Slot_inst, [0])] [Return OPCODE_MUL_DD_HH];
    If [(e32_Field_op1_Slot_inst, [8]); (e32_Field_s_Slot_inst, [0]); (e32_Field_w_Slot_inst, [0]); (e32_Field_r3_Slot_inst, [0]); (e32_Field_t3_Slot_inst, [0]); (e32_Field_tlo_Slot_inst, [0])] [Return OPCODE_MULA_DD_LL];
    If [(e32_Field_op1_Slot_inst, [9]); (e32_Field_s_Slot_inst, [0]); (e32_Field_w_Slot_inst, [0]); (e32_Field_r3_Slot_inst, [0]); (e32_Field_t3_Slot_inst, [0]); (e32_Field_tlo_Slot_inst, [0])] [Return OPCODE_MULA_DD_HL];
    If [(e32_Field_op1_Slot_inst, [10]); (e32_Field_s_Slot_inst, [0]); (e32_Field_w_Slot_inst, [0]); (e32_Field_r3_Slot_inst, [0]); (e32_Field_t3_Slot_inst, [0]); (e32_Field_tlo_Slot_inst, [0])] [Return OPCODE_MULA_DD_LH];
    If [(e32_Field_op1_Slot_inst, [11]); (e32_Field_s_Slot_inst, [0]); (e32_Field_w_Slot_inst, [0]); (e32_Field_r3_Slot_inst, [0]); (e32_Field_t3_Slot_inst, [0]); (e32_Field_tlo_Slot_inst, [0])] [Return OPCODE_MULA_DD_HH];
    If [(e32_Field_op1_Slot_inst, [12]); (e32_Field_s_Slot_inst, [0]); (e32_Field_w_Slot_inst, [0]); (e32_Field_r3_Slot_inst, [0]); (e32_Field_t3_Slot_inst, [0]); (e32_Field_tlo_Slot_inst, [0])] [Return OPCODE_MULS_DD_LL];
    If [(e32_Field_op1_Slot_inst, [13]); (e32_Field_s_Slot_inst, [0]); (e32_Field_w_Slot_inst, [0]); (e32_Field_r3_Slot_inst, [0]); (e32_Field_t3_Slot_inst, [0]); (e32_Field_tlo_Slot_inst, [0])] [Return OPCODE_MULS_DD_HL];
    If [(e32_Field_op1_Slot_inst, [14]); (e32_Field_s_Slot_inst, [0]); (e32_Field_w_Slot_inst, [0]); (e32_Field_r3_Slot_inst, [0]); (e32_Field_t3_Slot_inst, [0]); (e32_Field_tlo_Slot_inst, [0])] [Return OPCODE_MULS_DD_LH];
    If [(e32_Field_op1_Slot_inst, [15]); (e32_Field_s_Slot_inst, [0]); (e32_Field_w_Slot_inst, [0]); (e32_Field_r3_Slot_inst, [0]); (e32_Field_t3_Slot_inst, [0]); (e32_Field_tlo_Slot_inst, [0])] [Return OPCODE_MULS_DD_HH]]].

Definition e32_Slot_inst_decode_16 : list rule := [
  If [(e32_Field_op2_Slot_inst, [3])] [
    If [(e32_Field_op1_Slot_inst, [4]); (e32_Field_r_Slot_inst, [0]); (e32_Field_t3_Slot_inst, [0]); (e32_Field_tlo_Slot_inst, [0])] [Return OPCODE_MUL_AD_LL];
    If [(e32_Field_op1_Slot_inst, [5]); (e32_Field_r_Slot_inst, [0]); (e32_Field_t3_Slot_inst, [0]); (e32_Field_tlo_Slot_inst, [0])] [Return OPCODE_MUL_AD_HL];
    If [(e32_Field_op1_Slot_inst, [6]); (e32_Field_r_Slot_inst, [0]); (e32_Field_t3_Slot_inst, [0]); (e32_Field_tlo_Slot_inst, [0])] [Return OPCODE_MUL_AD_LH];
    If [(e32_Field_op1_Slot_inst, [7]); (e32_Field_r_Slot_inst, [0]); (e32_Field_t3_Slot_inst, [0]); (e32_Field_tlo_Slot_inst, [0])] [Return OPCODE_MUL_AD_HH];
    If [(e32_Field_op1_Slot_inst, [8]); (e32_Field_r_Slot_inst, [0]); (e32_Field_t3_Slot_inst, [0]); (e32_Field_tlo_Slot_inst, [0])] [Return OPCODE_MULA_AD_LL];
    If [(e32_Field_op1_Slot_inst, [9]); (e32_Field_r_Slot_inst, [0]); (e32_Field_t3_Slot_inst, [0]); (e32_Field_tlo_Slot_inst, [0])] [Return OPCODE_MULA_AD_HL];
    If [(e32_Field_op1_Slot_inst, [10]); (e32_Field_r_Slot_inst, [0]); (e32_Field_t3_Slot_inst, [0]); (e32_Field_tlo_Slot_inst, [0])] [Return OPCODE_MULA_AD_LH];
    If [(e32_Field_op1_Slot_inst, [11]); (e32_Field_r_Slot_inst, [0]); (e32_Field_t3_Slot_inst, [0]); (e32_Field_tlo_Slot_inst, [0])] [Return OPCODE_MULA_AD_HH];
    If [(e32_Field_op1_Slot_inst, [12]); (e32_Field_r_Slot_inst, [0]); (e32_Field_t3_Slot_inst, [0]); (e32_Field_tlo_Slot_inst, [0])] [Return OPCODE_MULS_AD_LL];
    If [(e32_Field_op1_Slot_inst, [13]); (e32_Field_r_Slot_inst, [0]); (e32_Field_t3_Slot_inst, [0]); (e32_Field_tlo_Slot_inst, [0])] [Return OPCODE_MULS_AD_HL];
    If [(e32_Field_op1_Slot_inst, [14]); (e32_Field_r_Slot_inst, [0]); (e32_Field_t3_Slot_inst, [0]); (e32_Field_tlo_Slot_inst, [0])] [Return OPCODE_MULS_AD_LH];
    If [(e32_Field_op1_Slot_inst, [15]); (e32_Field_r_Slot_inst, [0]); (e32_Field_t3_Slot_inst, [0]); (e32_Field_tlo_Slot_inst, [0])] [Return OPCODE_MULS_AD_HH]];
  If [(e32_Field_op2_Slot_inst, [4])] [
    If [(e32_Field_op1_Slot_inst, [8]); (e32_Field_r3_Slot_inst, [0])] [Return OPCODE_MULA_DA_LL_LDINC];
    If [(e32_Field_op1_Slot_inst, [9]); (e32_Field_r3_Slot_inst, [0])] [Return OPCODE_MULA_DA_HL_LDINC];
    If [(e32_Field_op1_Slot_inst, [10]); (e32_Field_r3_Slot_inst, [0])] [Return OPCODE_MULA_DA_LH_LDINC];
    If [(e32_Field_op1_Slot_inst, [11]); (e32_Field_r3_Slot_inst, [0])] [Return OPCODE_MULA_DA_HH_LDINC]];
  If [(e32_Field_op2_Slot_inst, [5])] [
    If [(e32_Field_op1_Slot_inst, [8]); (e32_Field_r3_Slot_inst, [0])] [Return OPCODE_MULA_DA_LL_LDDEC];
    If [(e32_Field_op1_Slot_inst, [9]); (e32_Field_r3_Slot_inst, [0])] [Return OPCODE_MULA_DA_HL_LDDEC];
    If [(e32_Field_op1_Slot_inst, [10]); (e32_Field_r3_Slot_inst, [0])] [Return OPCODE_MULA_DA_LH_LDDEC];
    If [(e32_Field_op1_Slot_inst, [11]); (e32_Field_r3_Slot_inst, [0])] [Return OPCODE_MULA_DA_HH_LDDEC]]].

Definition e32_Slot_inst_decode_17 : list rule := [
  If [(e32_Field_op2_Slot_inst, [6])] [
    If [(e32_Field_op1_Slot_inst, [4]); (e32_Field_s_Slot_inst, [0]); (e32_Field_w_Slot_inst, [0]); (e32_Field_r3_Slot_inst, [0])] [Return OPCODE_MUL_DA_LL];
    If [(e32_Field_op1_Slot_inst, [5]); (e32_Field_s_Slot_inst, [0]); (e32_Field_w_Slot_inst, [0]); (e32_Field_r3_Slot_inst, [0])] [Return OPCODE_MUL_DA_HL];
    If [(e32_Field_op1_Slot_inst, [6]); (e32_Field_s_Slot_inst, [0]); (e32_Field_w_Slot_inst, [0]); (e32_Field_r3_Slot_inst, [0])] [Return OPCODE_MUL_DA_LH];
    If [(e32_Field_op1_Slot_inst, [7]); (e32_Field_s_Slot_inst, [0]); (e32_Field_w_Slot_inst, [0]); (e32_Field_r3_Slot_inst, [0])] [Return OPCODE_MUL_DA_HH];
    If [(e32_Field_op1_Slot_inst, [8]); (e32_Field_s_Slot_inst, [0]); (e32_Field_w_Slot_inst, [0]); (e32_Field_r3_Slot_inst, [0])] [Return OPCODE_MULA_DA_LL];
    If [(e32_Field_op1_Slot_inst, [9]); (e32_Field_s_Slot_inst, [0]); (e32_Field_w_Slot_inst, [0]); (e32_Field_r3_Slot_inst, [0])] [Return OPCODE_MULA_DA_HL];
    If [(e32_Field_op1_Slot_inst, [10]); (e32_Field_s_Slot_inst, [0]); (e32_Field_w_Slot_inst, [0]); (e32_Field_r3_Slot_inst, [0])] [Return OPCODE_MULA_DA_LH];
    If [(e32_Field_op1_Slot_inst, [11]); (e32_Field_s_Slot_inst, [0]); (e32_Field_w_Slot_inst, [0]); (e32_Field_r3_Slot_inst, [0])] [Return OPCODE_MULA_DA_HH];
    If [(e32_Field_op1_Slot_inst, [12]); (e32_Field_s_Slot_inst, [0]); (e32_Field_w_Slot_inst, [0]); (e32_Field_r3_Slot_inst, [0])] [Return OPCODE_MULS_DA_LL];
    If [(e32_Field_op1_Slot_inst, [13]); (e32_Field_s_Slot_inst, [0]); (e32_Field_w_Slot_inst, [0]); (e32_Field_r3_Slot_inst, [0])] [Return OPCODE_MULS_DA_HL];
    If [(e32_Field_op1_Slot_inst, [14]); (e32_Field_s_Slot_inst, [0]); (e32_Field_w_Slot_inst, [0]); (e32_Field_r3_Slot_inst, [0])] [Return OPCODE_MULS_DA_LH];
    If [(e32_Field_op1_Slot_inst, [15]); (e32_Field_s_Slot_inst, [0]); (e32_Field_w_Slot_inst, [0]); (e32_Field_r3_Slot_inst, [0])] [Return OPCODE_MULS_DA_HH]];
  If [(e32_Field_op2_Slot_inst, [7])] [
    If [(e32_Field_op1_Slot_inst, [0]); (e32_Field_r_Slot_inst, [0])] [Return OPCODE_UMUL_AA_LL];
    If [(e32_Field_op1_Slot_inst, [1]); (e32_Field_r_Slot_inst, [0])] [Return OPCODE_UMUL_AA_HL];
    If [(e32_Field_op1_Slot_inst, [2]); (e32_Field_r_Slot_inst, [0])] [Return OPCODE_UMUL_AA_LH];
    If [(e32_Field_op1_Slot_inst, [3]); (e32_Field_r_Slot_inst, [0])] [Return OPCODE_UMUL_AA_HH];
    If [(e32_Field_op1_Slot_inst, [4]); (e32_Field_r_Slot_inst, [0])] [Return OPCODE_MUL_AA_LL];
    If [(e32_Field_op1_Slot_inst, [5]); (e32_Field_r_Slot_inst, [0])] [Return OPCODE_MUL_AA_HL];
    If [(e32_Field_op1_Slot_inst, [6]); (e32_Field_r_Slot_inst, [0])] [Return OPCODE_MUL_AA_LH];
    If [(e32_Field_op1_Slot_inst, [7]); (e32_Field_r_Slot_inst, [0])] [Return OPCODE_MUL_AA_HH];
    If [(e32_Field_op1_Slot_inst, [8]); (e32_Field_r_Slot_inst, [0])] [Return OPCODE_MULA_AA_LL];
    If [(e32_Field_op1_Slot_inst, [9]); (e32_Field_r_Slot_inst, [0])] [Return OPCODE_MULA_AA_HL];
    If [(e32_Field_op1_Slot_inst, [10]); (e32_Field_r_Slot_inst, [0])] [Return OPCODE_MULA_AA_LH];
    If [(e32_Field_op1_Slot_inst, [11]); (e32_Field_r_Slot_inst, [0])] [Return OPCODE_MULA_AA_HH];
    If [(e32_Field_op1_Slot_inst, [12]); (e32_Field_r_Slot_inst, [0])] [Return OPCODE_MULS_AA_LL];
    If [(e32_Field_op1_Slot_inst, [13]); (e32_Field_r_Slot_inst, [0])] [Return OPCODE_MULS_AA_HL];
    If [(e32_Field_op1_Slot_inst, [14]); (e32_Field_r_Slot_inst, [0])] [Return OPCODE_MULS_AA_LH];
    If [(e32_Field_op1_Slot_inst, [15]); (e32_Field_r_Slot_inst, [0])] [Return OPCODE_MULS_AA_HH]];
  If [(e32_Field_op2_Slot_inst, [8])] [
    If [(e32_Field_op1_Slot_inst, [0]); (e32_Field_t_Slot_inst, [0]); (e32_Field_rhi_Slot_inst, [0])] [Return OPCODE_LDINC]];
  If [(e32_Field_op2_Slot_inst, [9])] [
    If [(e32_Field_op1_Slot_inst, [0]); (e32_Field_t_Slot_inst, [0]); (e32_Field_rhi_Slot_inst, [0])] [Return OPCODE_LDDEC]]].

Definition e32_Slot_inst_decode_18 : list rule := [
  If [(e32_Field_op0_Slot_inst, [4])] (e32_Slot_inst_decode_15 ++ e32_Slot_inst_decode_16 ++ e32_Slot_inst_decode_17)].

Definition e32_Slot_inst_decode_19 : list rule := [
  If [(e32_Field_op0_Slot_inst, [5])] [
    If [(e32_Field_n_Slot_inst, [0])] [Return OPCODE_CALL0];
    If [(e32_Field_n_Slot_inst, [1])] [Return OPCODE_CALL4];
    If [(e32_Field_n_Slot_inst, [2])] [Return OPCODE_CALL8];
    If [(e32_Field_n_Slot_inst, [3])] [Return OPCODE_CALL12]];
  If [(e32_Field_op0_Slot_inst, [6])] [
    If [(e32_Field_n_Slot_inst, [0])] [Return OPCODE_J];
    If [(e32_Field_n_Slot_inst, [1])] [
      If [(e32_Field_m_Slot_inst, [0])] [Return OPCODE_BEQZ];
      If [(e32_Field_m_Slot_inst, [1])] [Return OPCODE_BNEZ];
      If [(e32_Field_m_Slot_inst, [2])] [Return OPCODE_BLTZ];
      If [(e32_Field_m_Slot_inst, [3])] [Return OPCODE_BGEZ]];
    If [(e32_Field_n_Slot_inst, [2])] [
      If [(e32_Field_m_Slot_inst, [0])] [Return OPCODE_BEQI];
      If [(e32_Field_m_Slot_inst, [1])] [Return OPCODE_BNEI];
      If [(e32_Field_m_Slot_inst, [2])] [Return OPCODE_BLTI];
      If [(e32_Field_m_Slot_inst, [3])] [Return OPCODE_BGEI]];
    If [(e32_Field_n_Slot_inst, [3])] [
      If [(e32_Field_m_Slot_inst, [0])] [Return OPCODE_ENTRY];
      If [(e32_Field_m_Slot_inst, [1])] [
        If [(e32_Field_r_Slot_inst, [0])] [Return OPCODE_BF];
        If [(e32_Field_r_Slot_inst, [1])] [Return OPCODE_BT];
        If [(e32_Field_r_Slot_inst, [8])] [Return OPCODE_LOOP];
        If [(e32_Field_r_Slot_inst, [9])] [Return OPCODE_LOOPNEZ];
        If [(e32_Field_r_Slot_inst, [10])] [Return OPCODE_LOOPGTZ]];
      If [(e32_Field_m_Slot_inst, [2])] [Return OPCODE_BLTUI];
      If [(e32_Field_m_Slot_inst, [3])] [Return OPCODE_BGEUI]]];
  If [(e32_Field_op0_Slot_inst, [7])] [
    If [(e32_Field_r_Slot_inst, [0])] [Return OPCODE_BNONE];
    If [(e32_Field_r_Slot_inst, [1])] [Return OPCODE_BEQ];
    If [(e32_Field_r_Slot_inst, [2])] [Return OPCODE_BLT];
    If [(e32_Field_r_Slot_inst, [3])] [Return OPCODE_BLTU];
    If [(e32_Field_r_Slot_inst, [4])] [Return OPCODE_BALL];
    If [(e32_Field_r_Slot_inst, [5])] [Return OPCODE_BBC];
    If [(e32_Field_r_Slot_inst, [6; 7])] [Return OPCODE_BBCI];
    If [(e32_Field_r_Slot_inst, [8])] [Return OPCODE_BANY];
    If [(e32_Field_r_Slot_inst, [9])] [Return OPCODE_BNE];
    If [(e32_Field_r_Slot_inst, [10])] [Return OPCODE_BGE];
    If [(e32_Field_r_Slot_inst, [11])] [Return OPCODE_BGEU];
    If [(e32_Field_r_Slot_inst, [12])] [Return OPCODE_BNALL];
    If [(e32_Field_r_Slot_inst, [13])] [Return OPCODE_BBS];
    If [(e32_Field_r_Slot_inst, [14; 15])] [Return OPCODE_BBSI]];
  Return (XTENSA_UNDEFINED)].

Definition e32_Slot_inst_decode_rules : list rule :=
  e32_Slot_inst_decode_13 ++ e32_Slot_inst_decode_14 ++ e32_Slot_inst_decode_18 ++ e32_Slot_inst_decode_19.

Definition e32_Slot_inst_decode : insnbuf -> Z := decode_with e32_Slot_inst_decode_rules.

Definition e32_Slot_inst16b_decode_1 : list rule := [
  If [(e32_Field_op0_Slot_inst16b, [12])] [
    If [(e32_Field_i_Slot_inst16b, [0])] [Return OPCODE_MOVI_N];
    If [(e32_Field_i_Slot_inst16b, [1])] [
      If [(e32_Field_z_Slot_inst16b, [0])] [Return OPCODE_BEQZ_N];
      If [(e32_Field_z_Slot_inst16b, [1])] [Return OPCODE_BNEZ_N]]];
  If [(e32_Field_op0_Slot_inst16b, [13])] [
    If [(e32_Field_r_Slot_inst16b, [0])] [Return OPCODE_MOV_N];
    If [(e32_Field_r_Slot_inst16b, [15])] [
      If [(e32_Field_t_Slot_inst16b, [0])] [Return OPCODE_RET_N];
      If [(e32_Field_t_Slot_inst16b, [1])] [Return OPCODE_RETW_N];
      If [(e32_Field_t_Slot_inst16b, [2])] [Return OPCODE_BREAK_N];
      If [(e32_Field_t_Slot_inst16b, [3]); (e32_Field_s_Slot_inst16b, [0])] [Return OPCODE_NOP_N];
      If [(e32_Field_t_Slot_inst16b, [6]); (e32_Field_s_Slot_inst16b, [0])] [Return OPCODE_ILL_N]]];
  Return (XTENSA_UNDEFINED)].

Definition e32_Slot_inst16b_decode_rules : list rule :=
  e32_Slot_inst16b_decode_1.

Definition e32_Slot_inst16b_decode : insnbuf -> Z := decode_with e32_Slot_inst16b_decode_rules.

Definition e32_Slot_inst16a_decode_1 : list rule := [
  If [(e32_Field_op0_Slot_inst16a, [8])] [Return OPCODE_L32I_N];
  If [(e32_Field_op0_Slot_inst16a, [9])] [Return OPCODE_S32I_N];
  If [(e32_Field_op0_Slot_inst16a, [10])] [Return OPCODE_ADD_N];
  If [(e32_Field_op0_Slot_inst16a, [11])] [Return OPCODE_ADDI_N];
  Return (XTENSA_UNDEFINED)].

Definition e32_Slot_inst16a_decode_rules : list rule :=
  e32_Slot_inst16a_decode_1.

Definition e32_Slot_inst16a_decode : insnbuf -> Z := decode_with e32_Slot_inst16a_decode_rules.

