(* ===== verification/E32Module.v ===== *)
(** * The ESP32 ISA module

    Slots, opcode table and top-level structure of
    [target/xtensa/core-esp32/xtensa-modules.inc.c], and the round trip of its
    instructions. *)

From S2P Require Import Prelude Isa IsaLookup IsaCodec IsaPattern IsaAsm IsaModule Esp32s3Isa E32Isa.
From S2P Require Import E32Fields E32Classes E32Opcodes E32Decoders.

#[local] Open Scope mach_scope.

Definition esp32_slots : list core_slot :=
  [mkCoreSlot "Inst" "x24" 0 Slot_x24_Format_inst_0_get Slot_x24_Format_inst_0_set
     e32_Slot_inst_get_field_fns e32_Slot_inst_set_field_fns e32_Slot_inst_decode_rules "nop";
   mkCoreSlot "Inst16a" "x16a" 0 Slot_x16a_Format_inst16a_0_get Slot_x16a_Format_inst16a_0_set
     e32_Slot_inst16a_get_field_fns e32_Slot_inst16a_set_field_fns e32_Slot_inst16a_decode_rules "";
   mkCoreSlot "Inst16b" "x16b" 0 Slot_x16b_Format_inst16b_0_get Slot_x16b_Format_inst16b_0_set
     e32_Slot_inst16b_get_field_fns e32_Slot_inst16b_set_field_fns e32_Slot_inst16b_decode_rules "nop.n"].

(** No functional units: [#define funcUnits 0]. *)
Definition esp32_words : list (list (option Z)) := Eval vm_compute in entry_words e32_encode e32_encode_fns e32_opcode_entries.
Definition esp32_opcodes : list core_opcode := core_opcodes [] e32_opcode_entries esp32_words.

Definition esp32_core : core := mkCore esp32_slots esp32_opcodes e32_iclasses e32_operands.

(** The top-level structure. *)
Definition esp32_isa : xtensa_isa_internal :=
  mkIsa false 3 0 esp32_formats esp32_format_decoder esp32_length_decoder (slot_of <$> esp32_slots) 83 e32_operands
    e32_iclasses (opcode_of <$> esp32_opcodes) None e32_regfiles e32_states None e32_sysregs None [247; 236] [None; None]
    e32_interfaces None [] None 0.

(** ** Checks *)

Definition esp32_slot_mask (fmt : Z) : Z := nthZ [0xffffff; 0xffff; 0xffff] fmt.

(** The known bits fix the format. *)
Definition esp32_format_fixed (fmt K e : Z) : bool :=
  (K &&& 0xf =? 0xf) && (esp32_format_decoder [e &&& 0xf] =? fmt).

Definition e32_compiled : list (list (list mcond * Z)) := Eval vm_compute in
  (fun s => compile (cs_rules s)) <$> esp32_slots.

Lemma e32_compiled_eq : e32_compiled = (fun s => compile (cs_rules s)) <$> esp32_slots.
Proof. vm_cast_no_check (eq_refl e32_compiled). Qed.

Lemma esp32_slots_ok : forallb slot_ok esp32_slots = true.
Proof. vm_cast_no_check (eq_refl true). Qed.

Lemma esp32_opcodes_ok :
  forallb (fun fmt => let n := Z.to_nat fmt in
             opcodes_ok esp32_core n (esp32_slot_mask fmt) (e32_compiled !!! n) (esp32_format_fixed fmt)) [0; 1; 2] = true.
Proof. vm_cast_no_check (eq_refl true). Qed.

Lemma esp32_short_format fmt x :
  (exists K e, esp32_format_fixed fmt K e = true /\ x &&& K = e) -> esp32_format_decoder [x] = fmt.
Proof.
  intros (K & e & Hf & He). apply andb_prop in Hf as [HK%Z.eqb_eq Hd%Z.eqb_eq].
  assert (Hn : esp32_format_decoder [x] = esp32_format_decoder [x &&& 0xf]).
  { unfold esp32_format_decoder. change (nthZ [x] 0) with x. change (nthZ [x &&& 0xf] 0) with (x &&& 0xf).
    by rewrite <- !Z.land_assoc. }
  rewrite Hn, <- Hd. do 2 f_equal. by rewrite <- He, <- Z.land_assoc, HK.
Qed.

(** ** The module *)

Definition e32_module_tables : module_tables :=
  mkTables esp32_core 3 esp32_formats esp32_format_decoder esp32_length_table esp32_slot_mask esp32_format_fixed.

Lemma e32_opcodes_checked fmt : 0 <= fmt < 3 ->
  opcodes_ok esp32_core (Z.to_nat fmt) (esp32_slot_mask fmt) (compile (cs_rules (c_slots esp32_core !!! Z.to_nat fmt)))
    (esp32_format_fixed fmt) = true.
Proof.
  intros Hf. pose proof esp32_opcodes_ok as H. rewrite forallb_forall in H.
  assert (Hin : In fmt [0; 1; 2]) by (simpl; lia). specialize (H fmt Hin). cbv beta zeta in H.
  assert (Hs : e32_compiled !!! Z.to_nat fmt = compile (cs_rules (c_slots esp32_core !!! Z.to_nat fmt))).
  { rewrite e32_compiled_eq. exact (index_fmap _ esp32_slots fmt Hf). }
  by rewrite Hs in H.
Qed.

Lemma e32_form fmt x : 0 <= fmt < 3 -> in32 x -> x &&& not32 (esp32_slot_mask fmt) = 0 ->
  (exists K e, esp32_format_fixed fmt K e = true /\ x &&& K = e) ->
  let s := esp32_slots !!! Z.to_nat fmt in let f := index esp32_formats fmt in
  exists z, cs_set s (fmt_encode_fn f [0]) [x] = [z] /\ 0 <= z < 2 ^ (8 * fmt_length f) /\
    esp32_format_decoder [z] = fmt /\ forall y, cs_get s [z] [y] = [x].
Proof.
  intros Hf Hx Hmask Hfix. assert (Hc : fmt = 0 \/ fmt = 1 \/ fmt = 2) by lia.
  destruct Hc as [->|[->| ->]]; cbv zeta.
  - apply (short_slot 24); [done|done|done|by apply esp32_short_format|done..].
  - apply (short_slot 16); [done|done|done|by apply esp32_short_format|done..].
  - apply (short_slot 16); [done|done|done|by apply esp32_short_format|done..].
Qed.

#[export] Instance e32_module_checks : ModuleChecks e32_module_tables.
Proof.
  split; [by vm_compute|exact esp32_bytes_agree|exact esp32_decoder_byte|done|done|by vm_compute|exact esp32_slots_ok
    |exact e32_opcodes_checked|exact e32_form].
Qed.

Lemma e32_module_init malloc st st' :
  isa st = esp32_isa -> xtensa_isa_init malloc st = (true, st') -> module_of e32_module_tables (isa st').
Proof. intros Hm Hi. apply isa_init_ready in Hi as [[] _]. rewrite Hm in *. by split; split. Qed.

(** ** Claims *)

(** C13: Whatever the ESP32 module can encode it decodes back: for each of its 513
    opcodes, every format the library accepts for it and every choice of the operand
    fields, the bytes assembled with [xtensa-isa.c] have the length the length
    decoder finds from their first byte, and disassembling them gives the same
    format, the same opcode, and in every operand field the low bits of the value
    stored there (or the fixed value of an implicit operand).  No error is left in
    the library. *)
Theorem esp32_asm_roundtrip (malloc : Z -> option insnbuf) (st0 st : IsaState) (fmt opc : Z) (vals : Z -> Z) :
  isa st0 = esp32_isa -> xtensa_isa_init malloc st0 = (true, st) ->
  (xtensa_opcode_encode fmt 0 [0] opc st).1.1 = 0 ->
  exists bytes, assemble fmt opc vals st = (bytes, st) /\
    xtensa_isa_length_from_chars bytes st = (Z.of_nat (length bytes), st) /\
    disassemble bytes st =
      ((fmt, opc, field_result (esp32_slots !!! Z.to_nat fmt) vals
                    <$> opcode_fields esp32_core (index esp32_opcodes opc)), st).
Proof.
  intros H0 Hi He. exact (module_roundtrip e32_module_tables st fmt opc vals (e32_module_init malloc st0 st H0 Hi) He).
Qed.

(** ** Witness: [add a1, a2, a3] *)

Definition esp32_state : IsaState := mkIsaState esp32_isa xtensa_isa_ok EmptyString None.
Definition esp32_ready : IsaState := (xtensa_isa_init grant esp32_state).2.

Lemma esp32_init : xtensa_isa_init grant esp32_state = (true, esp32_ready).
Proof. unfold esp32_ready. rewrite (surjective_pairing (xtensa_isa_init grant esp32_state)). f_equal. Qed.

Definition e32_add_fields (f : Z) : Z := if f =? FIELD_r then 1 else if f =? FIELD_s then 2 else 3.

Lemma esp32_asm_roundtrip_witness :
  (assemble 0 OPCODE_ADD e32_add_fields esp32_ready).1 = [0x30; 0x12; 0x80] /\
  exists bytes, assemble 0 OPCODE_ADD e32_add_fields esp32_ready = (bytes, esp32_ready) /\
    xtensa_isa_length_from_chars bytes esp32_ready = (Z.of_nat (length bytes), esp32_ready) /\
    disassemble bytes esp32_ready =
      ((0, OPCODE_ADD, field_result (esp32_slots !!! Z.to_nat 0) e32_add_fields
                         <$> opcode_fields esp32_core (index esp32_opcodes OPCODE_ADD)), esp32_ready).
Proof.
  split; [by vm_compute|].
  exact (esp32_asm_roundtrip grant esp32_state esp32_ready 0 OPCODE_ADD e32_add_fields eq_refl esp32_init
    ltac:(vm_compute; reflexivity)).
Defined.
