(* ===== verification/E32Exec.v ===== *)
(** * The ESP32 core, bound

    The opcode tables of the ESP32 ([core-esp32.c]): every opcode of its module is
    bound to the entry with its name, or has none. *)

From stdpp Require Import gmap strings.
From S2P Require Import Prelude Cpu Isa IsaLookup IsaCodec IsaPattern IsaAsm IsaModule Esp32s3Isa E32Isa.
From S2P Require Import E32Fields E32Classes E32Opcodes E32Decoders E32Module Slots LoadStore Decode OpTable LibIsa.

#[local] Open Scope mach_scope.
#[local] Open Scope isa_scope.

Definition esp32_opcode_translators : list (list table_entry) := [xtensa_core_opcodes; xtensa_fpu_opcodes].

Definition esp32_li : libisa :=
  default (mkLibIsa [] 0 [] no_names) (init_libisa grant esp32_opcode_translators no_names esp32_state).1.

Definition e32_entry (opc : Z) : option table_entry := mjoin (li_opcode_ops esp32_li !! Z.to_nat opc).

(** The opcodes of the module that no table implements: the reciprocal seeds, the
    debug load and store, and the double-precision accelerator. *)
Definition esp32_unimplemented : list string :=
  ["recip0.s"; "rsqrt0.s"; "lddr32.p"; "sddr32.p"; "f64iter"; "f64rnd"; "f64addc"; "f64subc"; "f64sig"; "f64cmpl";
   "f64cmph"; "f64norm"; "f64sexp"; "rf64r"; "wf64r"]%string.

Lemma esp32_names_distinct : NoDup (table_names (mjoin esp32_opcode_translators)).
Proof. apply (bool_decide_unpack _). by vm_compute. Qed.

Lemma e32_entries :
  li_opcode_ops esp32_li =
    (fun o => find_ops (hash_opcode_translators <$> esp32_opcode_translators) (opc_name o)) <$> opcodes esp32_isa.
Proof. vm_compute. reflexivity. Qed.

Lemma e32_init_libisa : exists st', init_libisa grant esp32_opcode_translators no_names esp32_state = (Some esp32_li, st').
Proof.
  unfold esp32_li.
  assert (H : bool_decide (is_Some (init_libisa grant esp32_opcode_translators no_names esp32_state).1) = true)
    by by vm_compute.
  apply bool_decide_eq_true in H as [li H].
  destruct (init_libisa _ _ _ _) as [r st']. cbn in H. subst r. by exists st'.
Qed.

Lemma e32_unimplemented :
  let ts := hash_opcode_translators <$> esp32_opcode_translators in
  forallb (fun o => match find_ops ts (opc_name o) with
                    | Some _ => bool_decide (opc_name o ∉ esp32_unimplemented)
                    | None => bool_decide (opc_name o ∈ esp32_unimplemented) end) (opcodes esp32_isa) = true.
Proof. by vm_compute. Qed.

(** Every opcode of the ESP32 module is bound, when the core is registered, to the
    one entry of the core and floating-point tables that has its name; fifteen
    opcodes (the reciprocal seeds, the debug load and store, and the whole
    double-precision accelerator) have no entry in any table. *)
Theorem esp32_opcodes_bound :
  (exists st', init_libisa grant esp32_opcode_translators no_names esp32_state = (Some esp32_li, st')) /\
  forall opc, 0 <= opc < count (opcodes esp32_isa) ->
    match e32_entry opc with
    | Some e => opc_name (index (opcodes esp32_isa) opc) ∉ esp32_unimplemented /\
                forall e', (e' ∈ mjoin esp32_opcode_translators /\ opc_name (index (opcodes esp32_isa) opc) ∈ entry_names e')
                           <-> e' = e
    | None => opc_name (index (opcodes esp32_isa) opc) ∈ esp32_unimplemented /\
              forall e', e' ∈ mjoin esp32_opcode_translators -> opc_name (index (opcodes esp32_isa) opc) ∉ entry_names e'
    end.
Proof.
  split; [exact e32_init_libisa|].
  exact (opcodes_bound _ esp32_unimplemented _ _ esp32_names_distinct e32_entries e32_unimplemented).
Qed.
