(* ===== verification/Gdb.v ===== *)
(** * Debugger access to registers ([target/xtensa/gdbstub.c])

    The register map of a core, the count of the registers it shows, and the
    handlers with which the gdb stub reads and writes a register by its number in
    the map.  The target is little-endian. *)

From S2P Require Import Prelude Cpu Interrupt Exception Window Lanes Tie FpStatus LoadStore.

#[local] Open Scope mach_scope.

(** ** The register map *)

Record XtensaGdbReg := mkGdbReg { targno : Z; g_flags : Z; g_type : Z; g_group : Z; g_size : Z }.

Abbreviation xtRegisterTypeArRegfile := 1 (only parsing).
Abbreviation xtRegisterTypeSpecialReg := 2 (only parsing).
Abbreviation xtRegisterTypeUserReg := 3 (only parsing).
Abbreviation xtRegisterTypeTieRegfile := 4 (only parsing).
Abbreviation xtRegisterTypeTieState := 5 (only parsing).
Abbreviation xtRegisterTypeMapped := 6 (only parsing).
Abbreviation xtRegisterTypeUnmapped := 7 (only parsing).
Abbreviation xtRegisterTypeWindow := 8 (only parsing).
Abbreviation xtRegisterTypeVirtual := 9 (only parsing).
Abbreviation XTENSA_REGISTER_FLAGS_PRIVILEGED := 0x1 (only parsing).

(** The map of the ESP32-S3 ([core-esp32s3/gdb-config.inc.c]). *)

Definition esp32s3_gdb_reg_1 : list XtensaGdbReg := [
   mkGdbReg 0x0020 0x0006 9 0x2100 4; mkGdbReg 0x0100 0x0006 1 0x0002 4; mkGdbReg 0x0101 0x0006 1 0x0002 4;
   mkGdbReg 0x0102 0x0006 1 0x0002 4; mkGdbReg 0x0103 0x0006 1 0x0002 4; mkGdbReg 0x0104 0x0006 1 0x0002 4;
   mkGdbReg 0x0105 0x0006 1 0x0002 4; mkGdbReg 0x0106 0x0006 1 0x0002 4; mkGdbReg 0x0107 0x0006 1 0x0002 4;
   mkGdbReg 0x0108 0x0006 1 0x0002 4; mkGdbReg 0x0109 0x0006 1 0x0002 4; mkGdbReg 0x010a 0x0006 1 0x0002 4;
   mkGdbReg 0x010b 0x0006 1 0x0002 4; mkGdbReg 0x010c 0x0006 1 0x0002 4; mkGdbReg 0x010d 0x0006 1 0x0002 4;
   mkGdbReg 0x010e 0x0006 1 0x0002 4; mkGdbReg 0x010f 0x0006 1 0x0002 4; mkGdbReg 0x0110 0x0006 1 0x0002 4;
   mkGdbReg 0x0111 0x0006 1 0x0002 4; mkGdbReg 0x0112 0x0006 1 0x0002 4; mkGdbReg 0x0113 0x0006 1 0x0002 4;
   mkGdbReg 0x0114 0x0006 1 0x0002 4; mkGdbReg 0x0115 0x0006 1 0x0002 4; mkGdbReg 0x0116 0x0006 1 0x0002 4;
   mkGdbReg 0x0117 0x0006 1 0x0002 4; mkGdbReg 0x0118 0x0006 1 0x0002 4; mkGdbReg 0x0119 0x0006 1 0x0002 4;
   mkGdbReg 0x011a 0x0006 1 0x0002 4; mkGdbReg 0x011b 0x0006 1 0x0002 4; mkGdbReg 0x011c 0x0006 1 0x0002 4;
   mkGdbReg 0x011d 0x0006 1 0x0002 4; mkGdbReg 0x011e 0x0006 1 0x0002 4; mkGdbReg 0x011f 0x0006 1 0x0002 4;
   mkGdbReg 0x0120 0x0006 1 0x0002 4; mkGdbReg 0x0121 0x0006 1 0x0002 4; mkGdbReg 0x0122 0x0006 1 0x0002 4;
   mkGdbReg 0x0123 0x0006 1 0x0002 4; mkGdbReg 0x0124 0x0006 1 0x0002 4; mkGdbReg 0x0125 0x0006 1 0x0002 4;
   mkGdbReg 0x0126 0x0006 1 0x0002 4; mkGdbReg 0x0127 0x0006 1 0x0002 4; mkGdbReg 0x0128 0x0006 1 0x0002 4;
   mkGdbReg 0x0129 0x0006 1 0x0002 4; mkGdbReg 0x012a 0x0006 1 0x0002 4; mkGdbReg 0x012b 0x0006 1 0x0002 4;
   mkGdbReg 0x012c 0x0006 1 0x0002 4; mkGdbReg 0x012d 0x0006 1 0x0002 4; mkGdbReg 0x012e 0x0006 1 0x0002 4;
   mkGdbReg 0x012f 0x0006 1 0x0002 4; mkGdbReg 0x0130 0x0006 1 0x0002 4; mkGdbReg 0x0131 0x0006 1 0x0002 4;
   mkGdbReg 0x0132 0x0006 1 0x0002 4; mkGdbReg 0x0133 0x0006 1 0x0002 4; mkGdbReg 0x0134 0x0006 1 0x0002 4;
   mkGdbReg 0x0135 0x0006 1 0x0002 4; mkGdbReg 0x0136 0x0006 1 0x0002 4; mkGdbReg 0x0137 0x0006 1 0x0002 4;
   mkGdbReg 0x0138 0x0006 1 0x0002 4; mkGdbReg 0x0139 0x0006 1 0x0002 4; mkGdbReg 0x013a 0x0006 1 0x0002 4;
   mkGdbReg 0x013b 0x0006 1 0x0002 4; mkGdbReg 0x013c 0x0006 1 0x0002 4; mkGdbReg 0x013d 0x0006 1 0x0002 4;
   mkGdbReg 0x013e 0x0006 1 0x0002 4; mkGdbReg 0x013f 0x0006 1 0x0002 4; mkGdbReg 0x0200 0x0006 2 0x1100 4;
   mkGdbReg 0x0201 0x0006 2 0x1100 4; mkGdbReg 0x0202 0x0006 2 0x1100 4; mkGdbReg 0x0203 0x0006 2 0x1100 4;
   mkGdbReg 0x0248 0x0006 2 0x1002 4; mkGdbReg 0x0249 0x0006 2 0x1002 4; mkGdbReg 0x02b0 0x0002 2 0x1000 4;
   mkGdbReg 0x02d0 0x0002 2 0x1000 4; mkGdbReg 0x02e6 0x0006 2 0x1100 4; mkGdbReg 0x03e7 0x0006 3 0x0110 4;
   mkGdbReg 0x0204 0x0006 2 0x1100 4; mkGdbReg 0x020c 0x0006 2 0x1100 4; mkGdbReg 0x0210 0x0006 2 0x1100 4;
   mkGdbReg 0x0211 0x0006 2 0x1100 4; mkGdbReg 0x0220 0x0006 2 0x1100 4; mkGdbReg 0x0221 0x0006 2 0x1100 4;
   mkGdbReg 0x0222 0x0006 2 0x1100 4; mkGdbReg 0x0223 0x0006 2 0x1100 4; mkGdbReg 0x030c 0x000e 3 0x0210 4;
   mkGdbReg 0x0030 0x0006 4 0x0401 4; mkGdbReg 0x0031 0x0006 4 0x0401 4; mkGdbReg 0x0032 0x0006 4 0x0401 4;
   mkGdbReg 0x0033 0x0006 4 0x0401 4; mkGdbReg 0x0034 0x0006 4 0x0401 4; mkGdbReg 0x0035 0x0006 4 0x0401 4;
   mkGdbReg 0x0036 0x0006 4 0x0401 4; mkGdbReg 0x0037 0x0006 4 0x0401 4; mkGdbReg 0x0038 0x0006 4 0x0401 4;
   mkGdbReg 0x0039 0x0006 4 0x0401 4; mkGdbReg 0x003a 0x0006 4 0x0401 4; mkGdbReg 0x003b 0x0006 4 0x0401 4;
   mkGdbReg 0x003c 0x0006 4 0x0401 4; mkGdbReg 0x003d 0x0006 4 0x0401 4; mkGdbReg 0x003e 0x0006 4 0x0401 4;
   mkGdbReg 0x003f 0x0006 4 0x0401 4; mkGdbReg 0x03e8 0x0006 3 0x0100 4; mkGdbReg 0x03e9 0x0006 3 0x0100 4;
   mkGdbReg 0x0300 0x0006 3 0x0200 4; mkGdbReg 0x0301 0x0006 3 0x0200 4; mkGdbReg 0x0302 0x0006 3 0x0200 4;
   mkGdbReg 0x0303 0x0006 3 0x0200 4; mkGdbReg 0x0304 0x0006 3 0x0200 4; mkGdbReg 0x0305 0x0006 3 0x0200 4;
   mkGdbReg 0x0306 0x0006 3 0x0200 4; mkGdbReg 0x0307 0x0006 3 0x0200 4; mkGdbReg 0x0308 0x0006 3 0x0200 4;
   mkGdbReg 0x0309 0x0006 3 0x0200 4; mkGdbReg 0x030a 0x0006 3 0x0200 4; mkGdbReg 0x030b 0x0006 3 0x0200 4;
   mkGdbReg 0x030d 0x0006 3 0x0210 4; mkGdbReg 0x030e 0x0006 3 0x0210 4; mkGdbReg 0x030f 0x0006 3 0x0200 4;
   mkGdbReg 0x0310 0x0006 3 0x0200 4; mkGdbReg 0x0311 0x0006 3 0x0200 4; mkGdbReg 0x0312 0x0006 3 0x0200 4;
   mkGdbReg 0x1008 0x0006 4 0x0201 16; mkGdbReg 0x1009 0x0006 4 0x0201 16;
   mkGdbReg 0x100a 0x0006 4 0x0201 16; mkGdbReg 0x100b 0x0006 4 0x0201 16;
   mkGdbReg 0x100c 0x0006 4 0x0201 16; mkGdbReg 0x100d 0x0006 4 0x0201 16;
   mkGdbReg 0x100e 0x0006 4 0x0201 16].

Definition esp32s3_gdb_reg_2 : list XtensaGdbReg := [
   mkGdbReg 0x100f 0x0006 4 0x0201 16; mkGdbReg 0x0259 0x000d 2 0x1000 4; mkGdbReg 0x0260 0x0007 2 0x1000 4;
   mkGdbReg 0x0261 0x0007 2 0x1000 4; mkGdbReg 0x0263 0x0007 2 0x1000 4; mkGdbReg 0x0268 0x0007 2 0x1000 4;
   mkGdbReg 0x0280 0x0007 2 0x1000 4; mkGdbReg 0x0281 0x0007 2 0x1000 4; mkGdbReg 0x0290 0x0007 2 0x1000 4;
   mkGdbReg 0x0291 0x0007 2 0x1000 4; mkGdbReg 0x02a0 0x0007 2 0x1000 4; mkGdbReg 0x02a1 0x0007 2 0x1000 4;
   mkGdbReg 0x02b1 0x0007 2 0x1000 4; mkGdbReg 0x02b2 0x0007 2 0x1000 4; mkGdbReg 0x02b3 0x0007 2 0x1000 4;
   mkGdbReg 0x02b4 0x0007 2 0x1000 4; mkGdbReg 0x02b5 0x0007 2 0x1000 4; mkGdbReg 0x02b6 0x0007 2 0x1000 4;
   mkGdbReg 0x02b7 0x0007 2 0x1000 4; mkGdbReg 0x02c0 0x0007 2 0x1000 4; mkGdbReg 0x02c2 0x0007 2 0x1000 4;
   mkGdbReg 0x02c3 0x0007 2 0x1000 4; mkGdbReg 0x02c4 0x0007 2 0x1000 4; mkGdbReg 0x02c5 0x0007 2 0x1000 4;
   mkGdbReg 0x02c6 0x0007 2 0x1000 4; mkGdbReg 0x02c7 0x0007 2 0x1000 4; mkGdbReg 0x02d1 0x0007 2 0x1000 4;
   mkGdbReg 0x02d2 0x0007 2 0x1000 4; mkGdbReg 0x02d3 0x0007 2 0x1000 4; mkGdbReg 0x02d4 0x0007 2 0x1000 4;
   mkGdbReg 0x02d5 0x0007 2 0x1000 4; mkGdbReg 0x02d6 0x0007 2 0x1000 4; mkGdbReg 0x02d7 0x0007 2 0x1000 4;
   mkGdbReg 0x02e0 0x0007 2 0x1000 4; mkGdbReg 0x02e2 0x000b 2 0x1000 4; mkGdbReg 0x02e2 0x000d 2 0x1000 4;
   mkGdbReg 0x02e3 0x000d 2 0x1000 4; mkGdbReg 0x02e4 0x0007 2 0x1000 4; mkGdbReg 0x02e7 0x0007 2 0x1000 4;
   mkGdbReg 0x02e8 0x0007 2 0x1000 4; mkGdbReg 0x02e9 0x0003 2 0x1000 4; mkGdbReg 0x02ea 0x000f 2 0x1000 4;
   mkGdbReg 0x02eb 0x0003 2 0x1000 4; mkGdbReg 0x02ec 0x000f 2 0x1000 4; mkGdbReg 0x02ed 0x0007 2 0x1000 4;
   mkGdbReg 0x02ee 0x0007 2 0x1000 4; mkGdbReg 0x02f0 0x000f 2 0x1000 4; mkGdbReg 0x02f1 0x000f 2 0x1000 4;
   mkGdbReg 0x02f2 0x000f 2 0x1000 4; mkGdbReg 0x02f4 0x0007 2 0x1000 4; mkGdbReg 0x02f5 0x0007 2 0x1000 4;
   mkGdbReg 0x02f6 0x0007 2 0x1000 4; mkGdbReg 0x02f7 0x0007 2 0x1000 4; mkGdbReg 0x2028 0x000f 4 0x0101 4;
   mkGdbReg 0x2029 0x000f 4 0x0101 4; mkGdbReg 0x202a 0x000f 4 0x0101 4; mkGdbReg 0x202b 0x000f 4 0x0101 4;
   mkGdbReg 0x202c 0x000f 4 0x0101 4; mkGdbReg 0x202d 0x000f 4 0x0101 4; mkGdbReg 0x202e 0x000d 4 0x0101 4;
   mkGdbReg 0x202f 0x000b 4 0x0101 4; mkGdbReg 0x2030 0x000b 4 0x0101 4; mkGdbReg 0x203f 0x000f 4 0x0101 4;
   mkGdbReg 0x2040 0x0003 4 0x0101 4; mkGdbReg 0x2041 0x000f 4 0x0101 4; mkGdbReg 0x2042 0x000b 4 0x0101 4;
   mkGdbReg 0x2043 0x000f 4 0x0101 4; mkGdbReg 0x2044 0x000f 4 0x0101 4; mkGdbReg 0x2045 0x000f 4 0x0101 4;
   mkGdbReg 0x2046 0x000f 4 0x0101 4; mkGdbReg 0x2047 0x000f 4 0x0101 4; mkGdbReg 0x2048 0x000f 4 0x0101 4;
   mkGdbReg 0x2049 0x000f 4 0x0101 4; mkGdbReg 0x2057 0x000f 4 0x0101 4; mkGdbReg 0x2058 0x000f 4 0x0101 4;
   mkGdbReg 0x2059 0x000f 4 0x0101 4; mkGdbReg 0x205a 0x000f 4 0x0101 4; mkGdbReg 0x205b 0x000f 4 0x0101 4;
   mkGdbReg 0x205c 0x000f 4 0x0101 4; mkGdbReg 0x205d 0x000f 4 0x0101 4; mkGdbReg 0x205e 0x000f 4 0x0101 4;
   mkGdbReg 0x205f 0x0003 4 0x0101 4; mkGdbReg 0x2060 0x000f 4 0x0101 4; mkGdbReg 0x2061 0x000f 4 0x0101 4;
   mkGdbReg 0x2062 0x000f 4 0x0101 4; mkGdbReg 0x0000 0x0006 8 0x2100 4; mkGdbReg 0x0001 0x0006 8 0x2100 4;
   mkGdbReg 0x0002 0x0006 8 0x2100 4; mkGdbReg 0x0003 0x0006 8 0x2100 4; mkGdbReg 0x0004 0x0006 8 0x2100 4;
   mkGdbReg 0x0005 0x0006 8 0x2100 4; mkGdbReg 0x0006 0x0006 8 0x2100 4; mkGdbReg 0x0007 0x0006 8 0x2100 4;
   mkGdbReg 0x0008 0x0006 8 0x2100 4; mkGdbReg 0x0009 0x0006 8 0x2100 4; mkGdbReg 0x000a 0x0006 8 0x2100 4;
   mkGdbReg 0x000b 0x0006 8 0x2100 4; mkGdbReg 0x000c 0x0006 8 0x2100 4; mkGdbReg 0x000d 0x0006 8 0x2100 4;
   mkGdbReg 0x000e 0x0006 8 0x2100 4; mkGdbReg 0x000f 0x0006 8 0x2100 4; mkGdbReg 0x0010 0x0006 6 0x1010 1;
   mkGdbReg 0x0011 0x0006 6 0x1010 1; mkGdbReg 0x0012 0x0006 6 0x1010 1; mkGdbReg 0x0013 0x0006 6 0x1010 1;
   mkGdbReg 0x0014 0x0006 6 0x1010 1; mkGdbReg 0x0015 0x0006 6 0x1010 1; mkGdbReg 0x0016 0x0006 6 0x1010 1;
   mkGdbReg 0x0017 0x0006 6 0x1010 1].

Definition esp32s3_gdb_reg_3 : list XtensaGdbReg := [
   mkGdbReg 0x0018 0x0006 6 0x1010 1; mkGdbReg 0x0019 0x0006 6 0x1010 1; mkGdbReg 0x001a 0x0006 6 0x1010 1;
   mkGdbReg 0x001b 0x0006 6 0x1010 1; mkGdbReg 0x001c 0x0006 6 0x1010 1; mkGdbReg 0x001d 0x0006 6 0x1010 1;
   mkGdbReg 0x001e 0x0006 6 0x1010 1; mkGdbReg 0x001f 0x0006 6 0x1010 1; mkGdbReg 0x2008 0x0006 6 0x1010 4;
   mkGdbReg 0x2009 0x0006 6 0x1010 4; mkGdbReg 0x200a 0x0006 6 0x1010 4; mkGdbReg 0x200b 0x0006 6 0x1010 4;
   mkGdbReg 0x200c 0x0006 6 0x1010 4; mkGdbReg 0x200d 0x0006 6 0x1010 4; mkGdbReg 0x200e 0x0006 6 0x1010 8;
   mkGdbReg 0x2013 0x0006 6 0x1010 4; mkGdbReg 0x2015 0x0006 5 0x1010 4; mkGdbReg 0x2016 0x0006 5 0x1010 4;
   mkGdbReg 0x2017 0x0006 5 0x1010 4; mkGdbReg 0x2018 0x0006 5 0x1010 4; mkGdbReg 0x2019 0x0006 5 0x1010 4;
   mkGdbReg 0x201a 0x0006 5 0x1010 4; mkGdbReg 0x201b 0x0006 5 0x1010 4; mkGdbReg 0x201c 0x0006 5 0x1010 4;
   mkGdbReg 0x201d 0x0006 5 0x1010 4; mkGdbReg 0x201e 0x0006 5 0x1010 4; mkGdbReg 0x201f 0x0006 5 0x1010 4;
   mkGdbReg 0x2020 0x0006 5 0x1010 4; mkGdbReg 0x2021 0x0006 5 0x1010 4; mkGdbReg 0x2022 0x0006 5 0x1010 4;
   mkGdbReg 0x2023 0x0006 5 0x1010 4; mkGdbReg 0x2024 0x0006 5 0x0210 8; mkGdbReg 0x2025 0x0006 5 0x0210 20;
   mkGdbReg 0x2026 0x0006 5 0x0210 20;
   mkGdbReg (-1) 0 0 0 0].

Definition esp32s3_gdb_reg : list XtensaGdbReg :=
  esp32s3_gdb_reg_1 ++ esp32s3_gdb_reg_2 ++ esp32s3_gdb_reg_3.

(** The map of the ESP32 ([core-esp32/gdb-config.inc.c]). *)

Definition esp32_gdb_reg_1 : list XtensaGdbReg := [
   mkGdbReg 0x0020 0x0006 9 0x0100 4; mkGdbReg 0x0100 0x0006 1 0x0002 4; mkGdbReg 0x0101 0x0006 1 0x0002 4;
   mkGdbReg 0x0102 0x0006 1 0x0002 4; mkGdbReg 0x0103 0x0006 1 0x0002 4; mkGdbReg 0x0104 0x0006 1 0x0002 4;
   mkGdbReg 0x0105 0x0006 1 0x0002 4; mkGdbReg 0x0106 0x0006 1 0x0002 4; mkGdbReg 0x0107 0x0006 1 0x0002 4;
   mkGdbReg 0x0108 0x0006 1 0x0002 4; mkGdbReg 0x0109 0x0006 1 0x0002 4; mkGdbReg 0x010a 0x0006 1 0x0002 4;
   mkGdbReg 0x010b 0x0006 1 0x0002 4; mkGdbReg 0x010c 0x0006 1 0x0002 4; mkGdbReg 0x010d 0x0006 1 0x0002 4;
   mkGdbReg 0x010e 0x0006 1 0x0002 4; mkGdbReg 0x010f 0x0006 1 0x0002 4; mkGdbReg 0x0110 0x0006 1 0x0002 4;
   mkGdbReg 0x0111 0x0006 1 0x0002 4; mkGdbReg 0x0112 0x0006 1 0x0002 4; mkGdbReg 0x0113 0x0006 1 0x0002 4;
   mkGdbReg 0x0114 0x0006 1 0x0002 4; mkGdbReg 0x0115 0x0006 1 0x0002 4; mkGdbReg 0x0116 0x0006 1 0x0002 4;
   mkGdbReg 0x0117 0x0006 1 0x0002 4; mkGdbReg 0x0118 0x0006 1 0x0002 4; mkGdbReg 0x0119 0x0006 1 0x0002 4;
   mkGdbReg 0x011a 0x0006 1 0x0002 4; mkGdbReg 0x011b 0x0006 1 0x0002 4; mkGdbReg 0x011c 0x0006 1 0x0002 4;
   mkGdbReg 0x011d 0x0006 1 0x0002 4; mkGdbReg 0x011e 0x0006 1 0x0002 4; mkGdbReg 0x011f 0x0006 1 0x0002 4;
   mkGdbReg 0x0120 0x0006 1 0x0002 4; mkGdbReg 0x0121 0x0006 1 0x0002 4; mkGdbReg 0x0122 0x0006 1 0x0002 4;
   mkGdbReg 0x0123 0x0006 1 0x0002 4; mkGdbReg 0x0124 0x0006 1 0x0002 4; mkGdbReg 0x0125 0x0006 1 0x0002 4;
   mkGdbReg 0x0126 0x0006 1 0x0002 4; mkGdbReg 0x0127 0x0006 1 0x0002 4; mkGdbReg 0x0128 0x0006 1 0x0002 4;
   mkGdbReg 0x0129 0x0006 1 0x0002 4; mkGdbReg 0x012a 0x0006 1 0x0002 4; mkGdbReg 0x012b 0x0006 1 0x0002 4;
   mkGdbReg 0x012c 0x0006 1 0x0002 4; mkGdbReg 0x012d 0x0006 1 0x0002 4; mkGdbReg 0x012e 0x0006 1 0x0002 4;
   mkGdbReg 0x012f 0x0006 1 0x0002 4; mkGdbReg 0x0130 0x0006 1 0x0002 4; mkGdbReg 0x0131 0x0006 1 0x0002 4;
   mkGdbReg 0x0132 0x0006 1 0x0002 4; mkGdbReg 0x0133 0x0006 1 0x0002 4; mkGdbReg 0x0134 0x0006 1 0x0002 4;
   mkGdbReg 0x0135 0x0006 1 0x0002 4; mkGdbReg 0x0136 0x0006 1 0x0002 4; mkGdbReg 0x0137 0x0006 1 0x0002 4;
   mkGdbReg 0x0138 0x0006 1 0x0002 4; mkGdbReg 0x0139 0x0006 1 0x0002 4; mkGdbReg 0x013a 0x0006 1 0x0002 4;
   mkGdbReg 0x013b 0x0006 1 0x0002 4; mkGdbReg 0x013c 0x0006 1 0x0002 4; mkGdbReg 0x013d 0x0006 1 0x0002 4;
   mkGdbReg 0x013e 0x0006 1 0x0002 4; mkGdbReg 0x013f 0x0006 1 0x0002 4; mkGdbReg 0x0200 0x0006 2 0x1100 4;
   mkGdbReg 0x0201 0x0006 2 0x1100 4; mkGdbReg 0x0202 0x0006 2 0x1100 4; mkGdbReg 0x0203 0x0006 2 0x1100 4;
   mkGdbReg 0x0248 0x0006 2 0x1002 4; mkGdbReg 0x0249 0x0006 2 0x1002 4; mkGdbReg 0x02b0 0x0002 2 0x1000 4;
   mkGdbReg 0x02d0 0x0002 2 0x1000 4; mkGdbReg 0x02e6 0x0006 2 0x1100 4; mkGdbReg 0x03e7 0x0006 3 0x0110 4;
   mkGdbReg 0x0204 0x0006 2 0x1100 4; mkGdbReg 0x020c 0x0006 2 0x1100 4; mkGdbReg 0x0210 0x0006 2 0x1100 4;
   mkGdbReg 0x0211 0x0006 2 0x1100 4; mkGdbReg 0x0220 0x0006 2 0x1100 4; mkGdbReg 0x0221 0x0006 2 0x1100 4;
   mkGdbReg 0x0222 0x0006 2 0x1100 4; mkGdbReg 0x0223 0x0006 2 0x1100 4; mkGdbReg 0x03e6 0x000e 3 0x0110 4;
   mkGdbReg 0x03ea 0x0006 3 0x0100 4; mkGdbReg 0x03eb 0x0006 3 0x0100 4; mkGdbReg 0x03ec 0x0006 3 0x0110 4;
   mkGdbReg 0x0030 0x0006 4 0x0401 4; mkGdbReg 0x0031 0x0006 4 0x0401 4; mkGdbReg 0x0032 0x0006 4 0x0401 4;
   mkGdbReg 0x0033 0x0006 4 0x0401 4; mkGdbReg 0x0034 0x0006 4 0x0401 4; mkGdbReg 0x0035 0x0006 4 0x0401 4;
   mkGdbReg 0x0036 0x0006 4 0x0401 4; mkGdbReg 0x0037 0x0006 4 0x0401 4; mkGdbReg 0x0038 0x0006 4 0x0401 4;
   mkGdbReg 0x0039 0x0006 4 0x0401 4; mkGdbReg 0x003a 0x0006 4 0x0401 4; mkGdbReg 0x003b 0x0006 4 0x0401 4;
   mkGdbReg 0x003c 0x0006 4 0x0401 4; mkGdbReg 0x003d 0x0006 4 0x0401 4; mkGdbReg 0x003e 0x0006 4 0x0401 4;
   mkGdbReg 0x003f 0x0006 4 0x0401 4; mkGdbReg 0x03e8 0x0006 3 0x0100 4; mkGdbReg 0x03e9 0x0006 3 0x0100 4;
   mkGdbReg 0x0259 0x000d 2 0x1000 4; mkGdbReg 0x0260 0x0007 2 0x1000 4; mkGdbReg 0x0261 0x0007 2 0x1000 4;
   mkGdbReg 0x0263 0x0007 2 0x1000 4; mkGdbReg 0x0268 0x0007 2 0x1000 4; mkGdbReg 0x0280 0x0007 2 0x1000 4;
   mkGdbReg 0x0281 0x0007 2 0x1000 4; mkGdbReg 0x0290 0x0007 2 0x1000 4; mkGdbReg 0x0291 0x0007 2 0x1000 4;
   mkGdbReg 0x02a0 0x0007 2 0x1000 4; mkGdbReg 0x02a1 0x0007 2 0x1000 4; mkGdbReg 0x02b1 0x0007 2 0x1000 4;
   mkGdbReg 0x02b2 0x0007 2 0x1000 4; mkGdbReg 0x02b3 0x0007 2 0x1000 4; mkGdbReg 0x02b4 0x0007 2 0x1000 4;
   mkGdbReg 0x02b5 0x0007 2 0x1000 4; mkGdbReg 0x02b6 0x0007 2 0x1000 4; mkGdbReg 0x02b7 0x0007 2 0x1000 4;
   mkGdbReg 0x02c0 0x0007 2 0x1000 4; mkGdbReg 0x02c2 0x0007 2 0x1000 4; mkGdbReg 0x02c3 0x0007 2 0x1000 4;
   mkGdbReg 0x02c4 0x0007 2 0x1000 4; mkGdbReg 0x02c5 0x0007 2 0x1000 4; mkGdbReg 0x02c6 0x0007 2 0x1000 4;
   mkGdbReg 0x02c7 0x0007 2 0x1000 4; mkGdbReg 0x02d1 0x0007 2 0x1000 4; mkGdbReg 0x02d2 0x0007 2 0x1000 4;
   mkGdbReg 0x02d3 0x0007 2 0x1000 4; mkGdbReg 0x02d4 0x0007 2 0x1000 4].
Definition esp32_gdb_reg_2 : list XtensaGdbReg := [
   mkGdbReg 0x02d5 0x0007 2 0x1000 4; mkGdbReg 0x02d6 0x0007 2 0x1000 4; mkGdbReg 0x02d7 0x0007 2 0x1000 4;
   mkGdbReg 0x02e0 0x0007 2 0x1000 4; mkGdbReg 0x02e2 0x000b 2 0x1000 4; mkGdbReg 0x02e2 0x000d 2 0x1000 4;
   mkGdbReg 0x02e3 0x000d 2 0x1000 4; mkGdbReg 0x02e4 0x0007 2 0x1000 4; mkGdbReg 0x02e7 0x0007 2 0x1000 4;
   mkGdbReg 0x02e8 0x0007 2 0x1000 4; mkGdbReg 0x02e9 0x0003 2 0x1000 4; mkGdbReg 0x02ea 0x000f 2 0x1000 4;
   mkGdbReg 0x02eb 0x0003 2 0x1000 4; mkGdbReg 0x02ec 0x000f 2 0x1000 4; mkGdbReg 0x02ed 0x0007 2 0x1000 4;
   mkGdbReg 0x02ee 0x0007 2 0x1000 4; mkGdbReg 0x02f0 0x000f 2 0x1000 4; mkGdbReg 0x02f1 0x000f 2 0x1000 4;
   mkGdbReg 0x02f2 0x000f 2 0x1000 4; mkGdbReg 0x02f4 0x0007 2 0x1000 4; mkGdbReg 0x02f5 0x0007 2 0x1000 4;
   mkGdbReg 0x02f6 0x0007 2 0x1000 4; mkGdbReg 0x02f7 0x0007 2 0x1000 4; mkGdbReg 0x0000 0x0006 8 0x0100 4;
   mkGdbReg 0x0001 0x0006 8 0x0100 4; mkGdbReg 0x0002 0x0006 8 0x0100 4; mkGdbReg 0x0003 0x0006 8 0x0100 4;
   mkGdbReg 0x0004 0x0006 8 0x0100 4; mkGdbReg 0x0005 0x0006 8 0x0100 4; mkGdbReg 0x0006 0x0006 8 0x0100 4;
   mkGdbReg 0x0007 0x0006 8 0x0100 4; mkGdbReg 0x0008 0x0006 8 0x0100 4; mkGdbReg 0x0009 0x0006 8 0x0100 4;
   mkGdbReg 0x000a 0x0006 8 0x0100 4; mkGdbReg 0x000b 0x0006 8 0x0100 4; mkGdbReg 0x000c 0x0006 8 0x0100 4;
   mkGdbReg 0x000d 0x0006 8 0x0100 4; mkGdbReg 0x000e 0x0006 8 0x0100 4; mkGdbReg 0x000f 0x0006 8 0x0100 4;
   mkGdbReg 0x0010 0x0006 6 0x1010 1; mkGdbReg 0x0011 0x0006 6 0x1010 1; mkGdbReg 0x0012 0x0006 6 0x1010 1;
   mkGdbReg 0x0013 0x0006 6 0x1010 1; mkGdbReg 0x0014 0x0006 6 0x1010 1; mkGdbReg 0x0015 0x0006 6 0x1010 1;
   mkGdbReg 0x0016 0x0006 6 0x1010 1; mkGdbReg 0x0017 0x0006 6 0x1010 1; mkGdbReg 0x0018 0x0006 6 0x1010 1;
   mkGdbReg 0x0019 0x0006 6 0x1010 1; mkGdbReg 0x001a 0x0006 6 0x1010 1; mkGdbReg 0x001b 0x0006 6 0x1010 1;
   mkGdbReg 0x001c 0x0006 6 0x1010 1; mkGdbReg 0x001d 0x0006 6 0x1010 1; mkGdbReg 0x001e 0x0006 6 0x1010 1;
   mkGdbReg 0x001f 0x0006 6 0x1010 1; mkGdbReg 0x2008 0x0006 6 0x1010 4; mkGdbReg 0x2009 0x0006 6 0x1010 4;
   mkGdbReg 0x200a 0x0006 6 0x1010 4; mkGdbReg 0x200b 0x0006 6 0x1010 4; mkGdbReg 0x200c 0x0006 6 0x1010 4;
   mkGdbReg 0x200d 0x0006 6 0x1010 4; mkGdbReg 0x200e 0x0006 6 0x1010 8; mkGdbReg 0x2013 0x0006 6 0x1010 4;
   mkGdbReg 0x2015 0x0006 5 0x1010 8; mkGdbReg 0x2016 0x0006 5 0x1010 4; mkGdbReg 0x2017 0x0006 5 0x1010 4;
   mkGdbReg 0x2018 0x0006 5 0x1010 4; mkGdbReg 0x2019 0x0006 5 0x1010 4; mkGdbReg 0x201a 0x0006 5 0x1010 4;
   mkGdbReg 0x201b 0x0006 5 0x1010 4; mkGdbReg 0x201c 0x0006 5 0x1010 4; mkGdbReg 0x201d 0x0006 5 0x1010 4;
   mkGdbReg 0x201e 0x0006 5 0x1010 4; mkGdbReg 0x201f 0x0006 5 0x1010 4; mkGdbReg 0x2020 0x0006 5 0x1010 4;
   mkGdbReg 0x2021 0x0006 5 0x1010 4; mkGdbReg 0x2022 0x0006 5 0x1010 4; mkGdbReg 0x2023 0x0006 5 0x1010 4].
Definition esp32_gdb_reg : list XtensaGdbReg := esp32_gdb_reg_1 ++ esp32_gdb_reg_2.

(** ** Counting *)

Definition counted (window_regs : bool) (r : XtensaGdbReg) : bool :=
  negb (g_type r =? xtRegisterTypeTieState) && negb (g_type r =? xtRegisterTypeMapped)
  && negb (g_type r =? xtRegisterTypeUnmapped) && (negb (g_type r =? xtRegisterTypeWindow) || window_regs).

(** The loop over the map, which ends at a negative target number. *)
Fixpoint count_regs (window_regs : bool) (l : list XtensaGdbReg) (core : bool) (n n_core : Z) : Z * Z :=
  match l with
  | [] => (n, n_core)
  | r :: l =>
      if targno r <? 0 then (n, n_core)
      else if counted window_regs r then
        let user := (g_flags r &&& XTENSA_REGISTER_FLAGS_PRIVILEGED) =? 0 in
        count_regs window_regs l (core && user) (n + 1) (if core && user then n_core + 1 else n_core)
      else count_regs window_regs l core n n_core
  end.

Definition xtensa_count_regs (window_regs : bool) (l : list XtensaGdbReg) : Z * Z := count_regs window_regs l true 0 0.

(** ** Access *)

Definition le_bytes (n : nat) (v : Z) : list Z := (fun i => (v >>> (8 * i)) &&& 0xff) <$> seqZ 0 (Z.of_nat n).
Definition ldl_p (b : list Z) : Z := nthZ b 0 ||| lsl32 (nthZ b 1) 8 ||| lsl32 (nthZ b 2) 16 ||| lsl32 (nthZ b 3) 24.

Section access.
Context (config : XtensaConfig) (reg : list XtensaGdbReg) (num_regs : Z).

Definition reg_at (n : Z) : XtensaGdbReg := nth (Z.to_nat n) reg (mkGdbReg 0 0 0 0 0).

(** The bytes appended to the buffer; their number is the result. *)
Definition xtensa_cpu_gdb_read_register (n : Z) : machM (list Z) :=
  let r := reg_at n in
  if (n <? 0) || (num_regs <=? n) then ret []
  else match g_type r with
  | xtRegisterTypeVirtual => env <- gets m_env ;; ret (le_bytes 4 (pc env))
  | xtRegisterTypeArRegfile =>
      on_env (xtensa_sync_phys_from_window config) ;;
      env <- gets m_env ;; ret (le_bytes 4 (nthZ (phys_regs env) ((targno r &&& 0xff) mod nareg config)))
  | xtRegisterTypeSpecialReg => env <- gets m_env ;; ret (le_bytes 4 (sr env (targno r &&& 0xff)))
  | xtRegisterTypeUserReg => u <- gets m_uregs ;; ret (le_bytes 4 (u (targno r &&& 0xff)))
  | xtRegisterTypeTieRegfile =>
      let i := targno r &&& 0x0f in
      match g_size r with
      | 4 => f <- gets m_fr ;; ret (le_bytes 4 (f i))
      | 8 => f <- gets m_fr ;; h <- gets m_fr_high ;; ret (le_bytes 8 (lsl64 (h i) 32 ||| f i))
      | _ => ret (replicate (Z.to_nat (g_size r)) 0)
      end
  | xtRegisterTypeWindow => env <- gets m_env ;; ret (le_bytes 4 (nthZ (regs env) (targno r &&& 0x0f)))
  | _ => ret (replicate (Z.to_nat (g_size r)) 0)
  end.

(** The number of bytes taken from the buffer. *)
Definition xtensa_cpu_gdb_write_register (mem_buf : list Z) (n : Z) : machM Z :=
  let r := reg_at n in
  if (n <? 0) || (num_regs <=? n) then ret 0
  else
  let tmp := ldl_p mem_buf in
  match g_type r with
  | xtRegisterTypeVirtual => on_env (modify (set_pc tmp)) ;; ret 4
  | xtRegisterTypeArRegfile =>
      on_env (modify (fun env => set_phys_regs (setZ (phys_regs env) ((targno r &&& 0xff) mod nareg config) tmp) env)) ;;
      on_env (xtensa_sync_window_from_phys config) ;; ret 4
  | xtRegisterTypeSpecialReg => on_env (modify (set_sr (targno r &&& 0xff) tmp)) ;; ret 4
  | xtRegisterTypeUserReg => modify (fun m => with_uregs (fupd (m_uregs m) (targno r &&& 0xff) tmp) m) ;; ret 4
  | xtRegisterTypeTieRegfile =>
      let i := targno r &&& 0x0f in
      match g_size r with
      | 4 => modify (fun m => with_fr (fupd (m_fr m) i tmp) m) ;; ret 4
      | 8 => modify (fun m => with_fr_high (fupd (m_fr_high m) i 0) (with_fr (fupd (m_fr m) i tmp) m)) ;; ret 8
      | _ => ret (g_size r)
      end
  | xtRegisterTypeWindow => on_env (modify (fun env => set_regs (setZ (regs env) (targno r &&& 0x0f) tmp) env)) ;; ret 4
  | _ => ret (g_size r)
  end.
End access.

(** ** Bytes *)

Lemma ldl_p_take b : ldl_p (take 4 b) = ldl_p b.
Proof. by destruct b as [|b0 [|b1 [|b2 [|b3 b]]]]. Qed.

Lemma length_le_bytes n v : length (le_bytes n v) = n.
Proof. unfold le_bytes. rewrite length_fmap, length_seqZ. lia. Qed.

(** The high word of a small value is four zero bytes. *)
Lemma le_bytes_low v : 0 <= v < 2 ^ 32 -> le_bytes 8 v = le_bytes 4 v ++ replicate 4 0.
Proof.
  intros Hv. unfold le_bytes. change (seqZ 0 (Z.of_nat 8)) with (seqZ 0 (Z.of_nat 4) ++ [4; 5; 6; 7]).
  rewrite fmap_app. f_equal. cbn [fmap list_fmap replicate].
  repeat (rewrite Z.shiftr_div_pow2, Z.div_small by lia). done.
Qed.

Lemma le_ldl_exact b : length b = 4%nat -> Forall (fun c => 0 <= c < 256) b -> le_bytes 4 (ldl_p b) = b.
Proof.
  intros Hl Hb. destruct b as [|b0 [|b1 [|b2 [|b3 [|b4 b]]]]]; try discriminate Hl.
  rewrite !Forall_cons in Hb. destruct Hb as (H0 & H1 & H2 & H3 & _).
  unfold le_bytes, ldl_p. change (seqZ 0 (Z.of_nat 4)) with [0; 1; 2; 3]. cbn [fmap list_fmap].
  change (nthZ [b0; b1; b2; b3] 0) with b0. change (nthZ [b0; b1; b2; b3] 1) with b1.
  change (nthZ [b0; b1; b2; b3] 2) with b2. change (nthZ [b0; b1; b2; b3] 3) with b3.
  assert (Hbit : forall c i, 0 <= c < 256 -> 8 <= i -> Z.testbit c i = false)
    by (intros; by apply (testbit_above 8)).
  assert (Hbyte : forall k b, 0 <= b < 256 -> (forall i, 0 <= i < 8 ->
      Z.testbit (b0 ||| lsl32 b1 8 ||| lsl32 b2 16 ||| lsl32 b3 24) (i + 8 * k) = Z.testbit b i) -> 0 <= k ->
      ((b0 ||| lsl32 b1 8 ||| lsl32 b2 16 ||| lsl32 b3 24) >>> (8 * k)) &&& 0xff = b).
  { intros k b Hr H Hk. apply Z.bits_inj'. intros i Hi. rewrite Z.land_spec. change 0xff with (2 ^ 8 - 1).
    rewrite ones_testbit, Z.shiftr_spec by lia. destruct (Z.ltb_spec i 8).
    - by rewrite andb_true_r, H by lia.
    - rewrite andb_false_r. symmetry. by apply Hbit. }
  f_equal; [|f_equal; [|f_equal; [|f_equal]]]; apply Hbyte; try lia; intros i Hi;
    rewrite !Z.lor_spec, !lsl32_testbit by lia;
    repeat match goal with
    | |- context [Z.testbit ?c ?j] => rewrite (Hbit c j) by lia
    | |- context [Z.testbit ?c ?j] => rewrite (Z.testbit_neg_r c j) by lia
    end; rewrite ?andb_false_r, ?orb_false_r, ?orb_false_l;
    rewrite ?(proj2 (Z.ltb_lt _ 32)) by lia; cbn [andb orb]; f_equal; lia.
Qed.

Lemma le_ldl b : (4 <= length b)%nat -> Forall (fun c => 0 <= c < 256) b -> le_bytes 4 (ldl_p b) = take 4 b.
Proof.
  intros Hl Hb. rewrite <- ldl_p_take. apply le_ldl_exact; [rewrite length_take; lia|by apply Forall_take].
Qed.

Lemma ldl_p_range b : Forall (fun c => 0 <= c < 256) b -> 0 <= ldl_p b < 2 ^ 32.
Proof.
  intros Hb. assert (H0 : forall i, 0 <= nthZ b i < 256).
  { intros i. unfold nthZ. rewrite list_lookup_total_alt. destruct (b !! Z.to_nat i) as [c|] eqn:E; cbn; [|lia].
    by apply (Forall_lookup_1 _ _ _ _ Hb E). }
  pose proof (H0 0). unfold ldl_p, lsl32. repeat apply (lor_range 32); try lia; apply Z.mod_pos_bound; lia.
Qed.

(** ** Windows *)

Section windows.
Context (config : XtensaConfig) `{!WfNareg config}.

(** Copying the window to the file keeps the file and the window. *)
Lemma sync_phys_spec env : wf_window config env ->
  exists ph, xtensa_sync_phys_from_window config env = Done tt (set_phys_regs ph env) /\
    wf_window config (set_phys_regs ph env) /\
    (forall i, 0 <= i < nareg config -> nthZ ph i = ar_file config env i) /\
    (forall i, 0 <= i < nareg config -> ar_file config (set_phys_regs ph env) i = ar_file config env i).
Proof.
  intros [Hr Hp Hw]. pose proof (nareg_cases config) as Hn.
  assert (Hb : 0 <= sr env WINDOW_BASE * 4 < nareg config) by (nareg_arith Hn).
  destruct (copy_phys_spec config env _ Hr Hp Hb) as (ph & Hrun & Hl & Hv).
  exists ph. unfold xtensa_sync_phys_from_window, bind, get. rewrite u32_small by (unfold in32; lia).
  assert (Hf : forall i, 0 <= i < nareg config -> nthZ ph i = ar_file config env i).
  { intros i Hi. rewrite Hv by done. unfold ar_file, window_offset. by rewrite (Z.mul_comm 4). }
  split; [done|]. split; [by split|]. split; [done|]. intros i Hi. unfold ar_file at 1, window_offset.
  change (sr (set_phys_regs ph env) WINDOW_BASE) with (sr env WINDOW_BASE). cbn.
  destruct (Z.ltb_spec ((i - 4 * sr env WINDOW_BASE) mod nareg config) 16) as [H|H]; [|by apply Hf].
  unfold ar_file, window_offset. by rewrite (proj2 (Z.ltb_lt _ _) H).
Qed.

(** Copying the file to the window makes the file the copy of [phys_regs]. *)
Lemma sync_window_spec env : wf_window config env ->
  exists r, xtensa_sync_window_from_phys config env = Done tt (set_regs r env) /\
    wf_window config (set_regs r env) /\
    forall i, 0 <= i < nareg config -> ar_file config (set_regs r env) i = nthZ (phys_regs env) i.
Proof.
  intros [Hr Hp Hw]. pose proof (nareg_cases config) as Hn.
  assert (Hb : 0 <= sr env WINDOW_BASE * 4 < nareg config) by (nareg_arith Hn).
  destruct (copy_window_spec config env _ Hr Hp Hb) as (r & Hrun & Hl & Hv).
  exists r. unfold xtensa_sync_window_from_phys, bind, get. rewrite u32_small by (unfold in32; lia).
  split; [done|]. split; [by split|]. intros i Hi. unfold ar_file, window_offset.
  change (sr (set_regs r env) WINDOW_BASE) with (sr env WINDOW_BASE). cbn.
  destruct (Z.ltb_spec ((i - 4 * sr env WINDOW_BASE) mod nareg config) 16) as [H|H]; [|done].
  rewrite Hv by (split; [apply Z.mod_pos_bound; lia|done]). f_equal. nareg_arith Hn.
Qed.

(** ** Claims *)

(** Registers whose value the stub really accesses. *)
Definition gdb_supported (r : XtensaGdbReg) : bool :=
  match g_type r with
  | xtRegisterTypeVirtual | xtRegisterTypeArRegfile | xtRegisterTypeSpecialReg | xtRegisterTypeUserReg
  | xtRegisterTypeWindow => true
  | xtRegisterTypeTieRegfile => g_size r =? 4
  | _ => false
  end.

(** What the program can see of a machine: everything but the copy of the window
    in the register file. *)
Definition same_visible (m m' : machine) : Prop :=
  exists ph, m' = with_env (set_phys_regs ph (m_env m)) m /\
    forall i, 0 <= i < nareg config -> ar_file config (m_env m') i = ar_file config (m_env m) i.

Lemma same_visible_refl m : same_visible m m.
Proof. exists (phys_regs (m_env m)). by destruct m as [[]]. Qed.

(** Doubles, of which the stub writes only the low word. *)
Definition gdb_double (r : XtensaGdbReg) : bool := (g_type r =? xtRegisterTypeTieRegfile) && (g_size r =? 8).

Section accesses.
Context (reg : list XtensaGdbReg) (num_regs : Z).

Definition in_map (n : Z) : bool := negb ((n <? 0) || (num_regs <=? n)).

(** The number of bytes of an access. *)
Definition access_size (n : Z) : Z :=
  if in_map n then if gdb_supported (reg_at reg n) then 4 else g_size (reg_at reg n) else 0.

(** What is read after the bytes [b] have been written. *)
Definition read_back (n : Z) (b : list Z) : list Z :=
  if gdb_supported (reg_at reg n) then take 4 b
  else if gdb_double (reg_at reg n) then take 4 b ++ replicate 4 0
  else replicate (Z.to_nat (g_size (reg_at reg n))) 0.

Definition kept (n : Z) : bool := gdb_supported (reg_at reg n) || gdb_double (reg_at reg n).

Lemma gdb_absent n b m : in_map n = false ->
  xtensa_cpu_gdb_read_register config reg num_regs n m = Done [] m /\
  xtensa_cpu_gdb_write_register config reg num_regs b n m = Done 0 m.
Proof.
  intros H%negb_false_iff. unfold xtensa_cpu_gdb_read_register, xtensa_cpu_gdb_write_register. by rewrite H.
Qed.

(** The registers the stub does not access read as zeros and ignore writes. *)
Lemma gdb_ignored n b m : in_map n = true -> kept n = false ->
  xtensa_cpu_gdb_read_register config reg num_regs n m = Done (replicate (Z.to_nat (g_size (reg_at reg n))) 0) m /\
  xtensa_cpu_gdb_write_register config reg num_regs b n m = Done (g_size (reg_at reg n)) m.
Proof.
  intros Hin%negb_true_iff [Hs Hd]%orb_false_iff.
  unfold xtensa_cpu_gdb_read_register, xtensa_cpu_gdb_write_register. rewrite Hin.
  unfold gdb_supported in Hs. unfold gdb_double in Hd.
  destruct (g_type (reg_at reg n)) as [|p|p]; try done.
  repeat (destruct p as [p|p|]; try discriminate Hs; try done).
  destruct (g_size (reg_at reg n)) as [|q|q]; try done.
  repeat (destruct q as [q|q|]; try discriminate Hs; try discriminate Hd; try done).
Qed.

Lemma gdb_read_double n m : in_map n = true -> gdb_double (reg_at reg n) = true ->
  let i := targno (reg_at reg n) &&& 0x0f in
  xtensa_cpu_gdb_read_register config reg num_regs n m = Done (le_bytes 8 (lsl64 (m_fr_high m i) 32 ||| m_fr m i)) m.
Proof.
  intros Hin%negb_true_iff [Ht%Z.eqb_eq Hz%Z.eqb_eq]%andb_prop. unfold xtensa_cpu_gdb_read_register.
  by rewrite Hin, Ht, Hz.
Qed.

Lemma gdb_write_double n b m : in_map n = true -> gdb_double (reg_at reg n) = true ->
  let i := targno (reg_at reg n) &&& 0x0f in
  xtensa_cpu_gdb_write_register config reg num_regs b n m =
    Done 8 (with_fr_high (fupd (m_fr_high m) i 0) (with_fr (fupd (m_fr m) i (ldl_p b)) m)).
Proof.
  intros Hin%negb_true_iff [Ht%Z.eqb_eq Hz%Z.eqb_eq]%andb_prop. unfold xtensa_cpu_gdb_write_register.
  by rewrite Hin, Ht, Hz.
Qed.

Lemma double_unsupported r : gdb_double r = true -> gdb_supported r = false /\ g_size r = 8.
Proof. intros [Ht%Z.eqb_eq Hz%Z.eqb_eq]%andb_prop. unfold gdb_supported. by rewrite Ht, Hz. Qed.

Lemma gdb_read_visible n m : wf_window config (m_env m) ->
  exists bs m', xtensa_cpu_gdb_read_register config reg num_regs n m = Done bs m' /\ same_visible m m' /\
    length bs = Z.to_nat (access_size n).
Proof.
  intros Hwf. unfold access_size. destruct (in_map n) eqn:Hin.
  2:{ destruct (gdb_absent n [] m Hin) as [-> _]. exists [], m. split_and!; [done|apply same_visible_refl|done]. }
  destruct (gdb_double (reg_at reg n)) eqn:Hd.
  { rewrite gdb_read_double by done. destruct (double_unsupported _ Hd) as [-> ->].
    eexists _, m. split_and!; [done|apply same_visible_refl|apply length_le_bytes]. }
  destruct (gdb_supported (reg_at reg n)) eqn:Hs.
  2:{ destruct (gdb_ignored n [] m Hin) as [-> _]; [unfold kept; by rewrite Hs, Hd|].
      eexists _, m. split_and!; [done|apply same_visible_refl|apply length_replicate]. }
  clear Hd. apply negb_true_iff in Hin. unfold xtensa_cpu_gdb_read_register. rewrite Hin.
  destruct (decide (g_type (reg_at reg n) = xtRegisterTypeArRegfile)) as [->|Hne].
  - destruct (sync_phys_spec (m_env m) Hwf) as (ph & Hrun & _ & _ & Hfile).
    unfold bind, on_env, gets. rewrite Hrun. eexists _, _.
    split_and!; [done|by exists ph|apply length_le_bytes].
  - unfold gdb_supported in Hs. destruct (g_type (reg_at reg n)) as [|p|p]; try discriminate Hs.
    repeat (destruct p as [p|p|]; try discriminate Hs); try done; try (apply Z.eqb_eq in Hs; rewrite Hs);
      (eexists _, m; split_and!; [done|apply same_visible_refl|apply length_le_bytes]).
Qed.

Lemma gdb_write_read_supported n b m :
  in_map n = true -> gdb_supported (reg_at reg n) = true -> (4 <= length b)%nat -> Forall (fun c => 0 <= c < 256) b ->
  wf_window config (m_env m) ->
  exists m1 m2, xtensa_cpu_gdb_write_register config reg num_regs b n m = Done 4 m1 /\
    xtensa_cpu_gdb_read_register config reg num_regs n m1 = Done (take 4 b) m2 /\ same_visible m1 m2.
Proof.
  intros Hn Hs Hl Hb Hwf.
  pose proof (le_ldl b Hl Hb) as Hv. unfold xtensa_cpu_gdb_write_register, xtensa_cpu_gdb_read_register.
  apply negb_true_iff in Hn. rewrite Hn. unfold gdb_supported in Hs.
  assert (H16 : 0 <= targno (reg_at reg n) &&& 0x0f < Z.of_nat (length (regs (m_env m)))).
  { rewrite (wf_regs _ _ Hwf). change 0x0f with (2 ^ 4 - 1). rewrite land_ones_mod by lia. by apply Z.mod_pos_bound. }
  pose proof (nareg_cases config) as Hna.
  destruct (decide (g_type (reg_at reg n) = xtRegisterTypeArRegfile)) as [->|Hne].
  - set (k := (targno (reg_at reg n) &&& 0xff) mod nareg config).
    assert (Hk : 0 <= k < nareg config) by (apply Z.mod_pos_bound; lia).
    set (env1 := set_phys_regs (setZ (phys_regs (m_env m)) k (ldl_p b)) (m_env m)).
    assert (Hwf1 : wf_window config env1).
    { destruct Hwf as [H1 H2 H3]. split; [done| |done]. cbn. by rewrite length_setZ. }
    destruct (sync_window_spec env1 Hwf1) as (r & Hrun & Hwf2 & Hfile).
    destruct (sync_phys_spec (set_regs r env1) Hwf2) as (ph & Hrun2 & _ & Hph & Hfile2).
    unfold bind, on_env, modify, gets, ret. cbn [m_env with_env]. fold k env1. rewrite Hrun. eexists _, _. split; [done|].
    cbn [m_env with_env]. rewrite Hrun2. split; [|by exists ph]. cbn [m_env with_env phys_regs set_phys_regs].
    rewrite Hph, Hfile by done. unfold env1. cbn [phys_regs set_phys_regs].
    rewrite nthZ_setZ_eq by (destruct Hwf as [_ H2 _]; rewrite H2; lia). by rewrite Hv.
  - destruct (g_type (reg_at reg n)) as [|p|p]; try discriminate Hs.
    repeat (destruct p as [p|p|]; try discriminate Hs); try done;
      unfold bind, on_env, modify, gets, ret; try (apply Z.eqb_eq in Hs; rewrite Hs);
      (eexists _, _; split; [reflexivity|]; split; [|apply same_visible_refl]);
      cbn [m_env with_env m_uregs with_uregs m_fr with_fr regs set_regs pc set_pc];
      rewrite ?sr_set_sr_eq, ?fupd_eq, ?nthZ_setZ_eq by done; by rewrite Hv.
Qed.

Lemma gdb_write_read_double n b m :
  in_map n = true -> gdb_double (reg_at reg n) = true -> (4 <= length b)%nat -> Forall (fun c => 0 <= c < 256) b ->
  exists m1, xtensa_cpu_gdb_write_register config reg num_regs b n m = Done 8 m1 /\
    xtensa_cpu_gdb_read_register config reg num_regs n m1 = Done (take 4 b ++ replicate 4 0) m1.
Proof.
  intros Hn Hd Hl Hb. rewrite gdb_write_double by done. eexists. split; [done|]. rewrite gdb_read_double by done.
  cbn. rewrite !fupd_eq. change (lsl64 0 32) with 0. rewrite Z.lor_0_l, le_bytes_low by by apply ldl_p_range.
  by rewrite le_ldl.
Qed.

(** C29: Debugger accesses to any register number, in a state with a well-formed
    window. Reading always succeeds, changes nothing the program can see (it only
    refreshes the copy of the window in the register file) and returns as many
    bytes as the register has: none for a number outside the map, four for the
    supported registers (the pc, address, window, special and user registers and
    4-byte TIE register-file registers), the size of the map for the others. What the debugger
    writes it reads back: after writing at least four bytes, a supported register
    reads as the first four of them; an 8-byte TIE register reads as the first four
    and four zeros; every other type and size takes the bytes of its size, changes
    nothing and reads as zeros. *)
Theorem gdb_write_read n m :
  wf_window config (m_env m) ->
  (exists bs m', xtensa_cpu_gdb_read_register config reg num_regs n m = Done bs m' /\ same_visible m m' /\
     length bs = Z.to_nat (access_size n)) /\
  forall b, (4 <= length b)%nat -> Forall (fun c => 0 <= c < 256) b ->
    exists m1 m2, xtensa_cpu_gdb_write_register config reg num_regs b n m = Done (access_size n) m1 /\
      xtensa_cpu_gdb_read_register config reg num_regs n m1 = Done (if in_map n then read_back n b else []) m2 /\
      same_visible m1 m2 /\
      (in_map n && kept n = false -> m1 = m).
Proof.
  intros Hwf. split; [by apply gdb_read_visible|]. intros b Hl Hb. unfold access_size, read_back, kept.
  destruct (in_map n) eqn:Hin.
  2:{ destruct (gdb_absent n b m Hin). exists m, m. split_and!; [done..|apply same_visible_refl|done]. }
  destruct (gdb_double (reg_at reg n)) eqn:Hd.
  { destruct (double_unsupported _ Hd) as [-> ->]. destruct (gdb_write_read_double n b m) as (m1 & H1 & H2); try done.
    exists m1, m1. split_and!; [done..|apply same_visible_refl|done]. }
  destruct (gdb_supported (reg_at reg n)) eqn:Hs.
  - destruct (gdb_write_read_supported n b m) as (m1 & m2 & H1 & H2 & H3); try done. by exists m1, m2.
  - destruct (gdb_ignored n b m Hin) as [H1 H2]; [unfold kept; by rewrite Hs, Hd|].
    exists m, m. split_and!; [done..|apply same_visible_refl|done].
Qed.
End accesses.
End windows.

Lemma numbering_check (reg : list XtensaGdbReg) (window_regs : bool) (len : Z) :
  let n := (xtensa_count_regs window_regs reg).1 in
  forallb (fun k => Bool.eqb (counted window_regs (reg_at reg k)) (k <? n)) (seqZ 0 len) = true ->
  forall k, 0 <= k < len -> (counted window_regs (reg_at reg k) = true <-> k < n).
Proof.
  intros n H k Hk. rewrite forallb_forall in H. specialize (H k).
  rewrite <- list_elem_of_In, elem_of_seqZ in H. specialize (H ltac:(lia)). apply Bool.eqb_prop in H.
  rewrite H. apply Z.ltb_lt.
Qed.

(** The numbers of the debugger are indices into the map: with either setting, the
    registers the ESP32-S3 core shows are exactly the first entries of its map,
    212 of them, or 228 with the sixteen registers of the window. *)
Theorem esp32s3_gdb_numbering (window_regs : bool) :
  let n := (xtensa_count_regs window_regs esp32s3_gdb_reg).1 in
  n = (if window_regs then 228 else 212) /\
  forall k, 0 <= k < 270 -> (counted window_regs (reg_at esp32s3_gdb_reg k) = true <-> k < n).
Proof. split; [|apply numbering_check]; destruct window_regs; by vm_compute. Qed.

(** The same for the ESP32, which shows 157 registers, or 173. *)
Theorem esp32_gdb_numbering (window_regs : bool) :
  let n := (xtensa_count_regs window_regs esp32_gdb_reg).1 in
  n = (if window_regs then 173 else 157) /\
  forall k, 0 <= k < 212 -> (counted window_regs (reg_at esp32_gdb_reg k) = true <-> k < n).
Proof. split; [|apply numbering_check]; destruct window_regs; by vm_compute. Qed.

(** The 32 registers of the debug modules (numbers 180 to 211, from [pwrctl] to
    [ocd_dsr]) have the type of a register file and the size of a float: they are
    accessed as the floating-point registers. *)
Theorem gdb_debug_registers_alias config (n : Z) (b : list Z) (m : machine) :
  180 <= n < 212 ->
  let f := targno (reg_at esp32s3_gdb_reg n) &&& 0x0f in
  xtensa_cpu_gdb_read_register config esp32s3_gdb_reg 212 n m = Done (le_bytes 4 (m_fr m f)) m /\
  xtensa_cpu_gdb_write_register config esp32s3_gdb_reg 212 b n m = Done 4 (with_fr (fupd (m_fr m) f (ldl_p b)) m).
Proof.
  intros Hn f.
  assert (H : forallb (fun n => (g_type (reg_at esp32s3_gdb_reg n) =? 4) && (g_size (reg_at esp32s3_gdb_reg n) =? 4))
                (seqZ 180 32) = true) by by vm_compute.
  rewrite forallb_forall in H. specialize (H n). rewrite <- list_elem_of_In, elem_of_seqZ in H. specialize (H ltac:(lia)).
  apply andb_prop in H as [Ht%Z.eqb_eq Hs%Z.eqb_eq].
  unfold xtensa_cpu_gdb_read_register, xtensa_cpu_gdb_write_register.
  rewrite (proj2 (orb_false_iff (n <? 0) (212 <=? n))) by lia. by rewrite Ht, Hs.
Qed.

(** ** Examples *)

Definition gdb_machine : machine :=
  machine_of (set_regs (setZ (replicate 16 0) 3 7) (set_phys_regs (replicate 64 0) zero_env)) (fun _ => 0) tie_zero.

(** Writing the register ar20, outside the window, undoes the write of a3 in the
    window: the window is reloaded from its stale copy. *)
Lemma gdb_ar_write_stale :
  let n := 21 in
  nthZ (regs (m_env gdb_machine)) 3 = 7 /\
  match xtensa_cpu_gdb_write_register esp32s3_config esp32s3_gdb_reg 212 [1; 0; 0; 0] n gdb_machine with
  | Done _ m => nthZ (regs (m_env m)) 3 = 0 /\ nthZ (phys_regs (m_env m)) 20 = 1
  | _ => False
  end.
Proof. by vm_compute. Qed.

(** Writing a double keeps only its low word. *)
Lemma gdb_f64_write_truncates :
  let f64 := [mkGdbReg 0x30 6 4 0 8] in
  match xtensa_cpu_gdb_write_register esp32s3_config f64 1 [0; 0; 0; 0; 0; 0; 0xf0; 0x3f] 0 gdb_machine with
  | Done _ m => xtensa_cpu_gdb_read_register esp32s3_config f64 1 0 m = Done (replicate 8 0) m
  | _ => False
  end.
Proof. by vm_compute. Qed.

(** The address register ar20, and the 16-byte register q0, which is not accessed. *)
Lemma gdb_write_read_witness :
  let b := [4; 3; 2; 1] in
  gdb_supported (reg_at esp32s3_gdb_reg 21) = true /\
  (exists m1 m2, xtensa_cpu_gdb_write_register esp32s3_config esp32s3_gdb_reg 212 b 21 gdb_machine = Done 4 m1 /\
    xtensa_cpu_gdb_read_register esp32s3_config esp32s3_gdb_reg 212 21 m1 = Done b m2) /\
  exists n, 0 <= n < 212 /\ g_size (reg_at esp32s3_gdb_reg n) = 16 /\
    exists m1 m2, xtensa_cpu_gdb_write_register esp32s3_config esp32s3_gdb_reg 212 b n gdb_machine = Done 16 m1 /\
      xtensa_cpu_gdb_read_register esp32s3_config esp32s3_gdb_reg 212 n m1 = Done (replicate 16 0) m2 /\ m1 = gdb_machine.
Proof.
  intros b. assert (Hb : (4 <= length b)%nat /\ Forall (fun c => 0 <= c < 256) b)
    by (split; [done|repeat constructor; lia]).
  assert (Hwf : wf_window esp32s3_config (m_env gdb_machine)) by (split; by vm_compute).
  split; [by vm_compute|]. split.
  - destruct (gdb_write_read esp32s3_config esp32s3_gdb_reg 212 21 gdb_machine Hwf) as [_ H].
    destruct (H b (proj1 Hb) (proj2 Hb)) as (m1 & m2 & H1 & H2 & _). by exists m1, m2.
  - exists 120. split; [lia|]. split; [done|].
    destruct (gdb_write_read esp32s3_config esp32s3_gdb_reg 212 120 gdb_machine Hwf) as [_ H].
    destruct (H b (proj1 Hb) (proj2 Hb)) as (m1 & m2 & H1 & H2 & _ & H3). exists m1, m2. split_and!; [done..|by apply H3].
Defined.
