(* ===== verification/Soc.v ===== *)
(** * The chips ([hw/xtensa/esp32.c], [hw/xtensa/esp32s3.c])

    The two CPUs and the interrupt matrix of a chip, and the handlers of the board
    files that change them: reset requests, the reset of the chip, stalling of a
    CPU and updates of the clocks.  The reset of the other peripherals (their sources
    are not part of the repository) is an argument, an action on the whole chip: a
    peripheral may drive the stall, interrupt and clock lines of the CPUs while it is
    reset.  [DeviceResets] states what is assumed of it. *)

From stdpp Require Import strings.
From S2P Require Import Prelude Cpu Interrupt Exception Tlb Dbg IntMatrix Lanes Tie FpStatus LoadStore Fpu Execution.

#[local] Open Scope mach_scope.

(** ** State *)

Inductive soc_event :=
| EvColdReset (device : string) (i : Z)
| EvResetRequest (guest : bool)  (** SHUTDOWN_CAUSE_GUEST_RESET or SHUTDOWN_CAUSE_SUBSYSTEM_RESET *)
| EvClearIllTrap
| EvDownloadMode (level : bool)
| EvApbFreq (device : string) (i : Z) (freq : Z)
| EvCpuClock (cpu : Z) (freq : Z).

(** The fields of the RTC controller, the DPORT and the GPIO block the boards read. *)
Record rtc_cntl := mkRtc {
  cpu_stall_state : Z -> bool; xtal_apb_freq : Z; pll_apb_freq : Z; soc_clk : Z;
  reset_cause : Z -> Z; stat_vector_sel : Z -> bool
}.
Record dport := mkDport { appcpu_stall_state : bool; appcpu_clkgate_state : bool; cpuperiod_sel : Z }.

Record SocState := mkSoc {
  soc_matrix : IntMatrixState;  (** with the state of the CPUs wired to it *)
  soc_rest : Z -> machine;  (** what else a CPU has *)
  soc_rtc : rtc_cntl;
  soc_dport : dport;
  strap_mode : Z;
  timg0_flash_boot_mode : bool;
  soc_eth : bool;
  requested_reset : Z;
  soc_trace : list soc_event
}.

Definition with_matrix (x : IntMatrixState) (s : SocState) : SocState :=
  mkSoc x (soc_rest s) (soc_rtc s) (soc_dport s) (strap_mode s) (timg0_flash_boot_mode s) (soc_eth s) (requested_reset s) (soc_trace s).
Definition with_rest (x : Z -> machine) (s : SocState) : SocState :=
  mkSoc (soc_matrix s) x (soc_rtc s) (soc_dport s) (strap_mode s) (timg0_flash_boot_mode s) (soc_eth s) (requested_reset s) (soc_trace s).
Definition with_rtc (x : rtc_cntl) (s : SocState) : SocState :=
  mkSoc (soc_matrix s) (soc_rest s) x (soc_dport s) (strap_mode s) (timg0_flash_boot_mode s) (soc_eth s) (requested_reset s) (soc_trace s).
Definition with_dport (x : dport) (s : SocState) : SocState :=
  mkSoc (soc_matrix s) (soc_rest s) (soc_rtc s) x (strap_mode s) (timg0_flash_boot_mode s) (soc_eth s) (requested_reset s) (soc_trace s).
Definition with_strap (x : Z) (s : SocState) : SocState :=
  mkSoc (soc_matrix s) (soc_rest s) (soc_rtc s) (soc_dport s) x (timg0_flash_boot_mode s) (soc_eth s) (requested_reset s) (soc_trace s).
Definition with_boot_mode (x : bool) (s : SocState) : SocState :=
  mkSoc (soc_matrix s) (soc_rest s) (soc_rtc s) (soc_dport s) (strap_mode s) x (soc_eth s) (requested_reset s) (soc_trace s).
Definition with_request (x : Z) (s : SocState) : SocState :=
  mkSoc (soc_matrix s) (soc_rest s) (soc_rtc s) (soc_dport s) (strap_mode s) (timg0_flash_boot_mode s) (soc_eth s) x (soc_trace s).
Definition soc_emit (e : soc_event) (s : SocState) : SocState :=
  mkSoc (soc_matrix s) (soc_rest s) (soc_rtc s) (soc_dport s) (strap_mode s) (timg0_flash_boot_mode s) (soc_eth s) (requested_reset s) (e :: soc_trace s).

Abbreviation socM := (M SocState).

(** CPU [i] of the chip. *)
Definition cpu_at (s : SocState) (i : Z) : option machine :=
  (fun env => with_env env (soc_rest s i)) <$> cpus (soc_matrix s) i.

(** Runs [c] on CPU [i]; a core without that CPU has no such object. *)
Definition on_cpu (i : Z) (c : machM unit) : socM unit := fun s =>
  match cpu_at s i with
  | None => AssertFail
  | Some m =>
      let back m' := with_rest (fupd (soc_rest s) i m')
                       (with_matrix (set_cpus (fupd (cpus (soc_matrix s)) i (Some (m_env m'))) (soc_matrix s)) s) in
      match c m with
      | Done a m' => Done a (back m')
      | LoopExit m' => LoopExit (back m')
      | AssertFail => AssertFail
      end
  end.

Definition RESET_PROCPU : Z := 0x1.
Definition RESET_APPCPU : Z := 0x2.
Definition RESET_PERIPH : Z := 0x4.
Definition RESET_DIG : Z := RESET_PROCPU ||| RESET_APPCPU ||| RESET_PERIPH.
Definition RESET_RTC : Z := 0x8.
Definition RESET_ALL : Z := RESET_RTC ||| RESET_DIG.

Section soc.
Context (config : XtensaConfig).
(** [device_cold_reset] of the peripheral of that name and number. *)
Context (device_cold_reset : string -> Z -> socM unit).

Definition cold_reset (device : string) : socM unit := device_cold_reset device 0.
Definition cold_resets (device : string) (n : Z) : socM unit := for_range 0 n (device_cold_reset device).
(** A part of the reset, when the request asks for it. *)
Definition if_requested (mask : Z) (c : socM unit) : socM unit :=
  r <- gets requested_reset ;; when (truthy (r &&& mask)) c.

(** ** Reset of a CPU *)

Definition MAX_NDBREAK : Z := 2.

Definition remove_cpu_watchpoints (env : CPUXtensaState) : CPUXtensaState :=
  foldl (fun env i => match cpu_watchpoint env i with
                      | Some w => set_cpu_watchpoint (fupd (cpu_watchpoint env) i None) (emit (EvWatchpointRemove w) env)
                      | None => env
                      end) env (seqZ 0 MAX_NDBREAK).

Definition xtensa_select_static_vectors (n : Z) : cpuM unit :=
  massert (n <? 2) ;; modify (set_static_vectors n).

Definition reset_cpu (i : Z) : socM unit :=
  sel <- gets (fun s => b2z (stat_vector_sel (soc_rtc s) i)) ;;
  on_cpu i (on_env (xtensa_select_static_vectors sel) ;; mod_env remove_cpu_watchpoints ;; xtensa_cpu_reset_hold config).

Definition reset_matrix : socM unit :=
  modify (fun s => with_matrix (intmatrix_reset_hold config (soc_matrix s)) s).

(** ** ESP32-S3 *)

Definition esp32s3_dig_reset (level : Z) : socM unit :=
  when (truthy level) (modify (with_request RESET_DIG) ;; modify (soc_emit (EvResetRequest true))).

Definition esp32s3_cpu_reset (n level : Z) : socM unit :=
  when (truthy level)
    (modify (with_request (if n =? 0 then RESET_PROCPU else RESET_APPCPU)) ;;
     modify (soc_emit (EvResetRequest (n =? 0)))).

Definition esp32s3_soc_reset : socM unit :=
  modify (fun s => if requested_reset s =? 0 then with_request RESET_ALL s else s) ;;
  if_requested RESET_PERIPH (reset_matrix ;; cold_resets "uart" 3) ;;
  if_requested RESET_PROCPU (reset_cpu 0) ;;
  if_requested RESET_APPCPU (when (1 <? CPU_COUNT) (reset_cpu 1)) ;;
  modify (with_request 0).

Definition esp32s3_cpu_stall (n level : Z) : socM unit := ret tt.
Definition esp32s3_clk_update (level : Z) : socM unit := ret tt.

(** ** ESP32 *)

Definition set_reset_cause (n cause : Z) (s : SocState) : SocState :=
  let r := soc_rtc s in
  with_rtc (mkRtc (cpu_stall_state r) (xtal_apb_freq r) (pll_apb_freq r) (soc_clk r) (fupd (reset_cause r) n cause)
              (stat_vector_sel r)) s.

Abbreviation ESP32_TG0WDT_SYS_RESET := 7 (only parsing).
Abbreviation ESP32_TGWDT_CPU_RESET := 11 (only parsing).
Abbreviation ESP32_SW_CPU_RESET := 12 (only parsing).
Abbreviation ESP32_SOC_CLK_PLL := 1 (only parsing).

Definition esp32_dig_reset (level : Z) : socM unit :=
  when (truthy level)
    (modify (soc_emit EvClearIllTrap) ;; modify (with_request RESET_DIG) ;; modify (soc_emit (EvResetRequest true))).

Definition request_cpu_reset (n cause : Z) : socM unit :=
  modify (with_request (if n =? 0 then RESET_PROCPU else RESET_APPCPU)) ;;
  modify (set_reset_cause n cause) ;;
  modify (soc_emit (EvResetRequest (n =? 0))).

Definition esp32_cpu_reset (n level : Z) : socM unit := when (truthy level) (request_cpu_reset n ESP32_SW_CPU_RESET).
Definition esp32_timg_cpu_reset (n level : Z) : socM unit := when (truthy level) (request_cpu_reset n ESP32_TGWDT_CPU_RESET).

Definition esp32_timg_sys_reset (n level : Z) : socM unit :=
  when (truthy level)
    (modify (soc_emit EvClearIllTrap) ;; modify (with_request RESET_DIG) ;;
     for_range 0 2 (fun i => modify (set_reset_cause i (ESP32_TG0WDT_SYS_RESET + n))) ;;
     modify (soc_emit (EvResetRequest true))).

Definition esp32_periph_reset (flash_boot_mode : bool) : socM unit :=
  cold_reset "dport" ;;
  reset_matrix ;;
  cold_reset "aes" ;; cold_reset "rsa" ;; cold_reset "gpio" ;;
  cold_resets "uart" 3 ;; cold_resets "frc_timer" 2 ;; cold_resets "timg" 2 ;;
  modify (with_boot_mode flash_boot_mode) ;;
  cold_resets "spi" 4 ;; cold_resets "i2c" 2 ;; cold_reset "twai" ;; cold_reset "efuse" ;;
  eth <- gets soc_eth ;; when eth (cold_reset "eth") ;;
  cold_reset "rgb".

Definition esp32_soc_reset : socM unit :=
  strap <- gets strap_mode ;;
  let flash_boot_mode := truthy (strap &&& 0x10) || (strap &&& 0x1f =? 0x0c) in
  modify (soc_emit (EvDownloadMode (negb flash_boot_mode))) ;;
  modify (fun s => if requested_reset s =? 0 then with_request RESET_ALL s else s) ;;
  if_requested RESET_RTC (cold_reset "rtc_cntl") ;;
  if_requested RESET_PERIPH (esp32_periph_reset flash_boot_mode) ;;
  if_requested RESET_PROCPU (reset_cpu 0) ;;
  if_requested RESET_APPCPU (reset_cpu 1) ;;
  modify (with_request 0).

Definition stalled (s : SocState) (n : Z) : bool :=
  if n =? 0 then cpu_stall_state (soc_rtc s) 0
  else cpu_stall_state (soc_rtc s) 1 || appcpu_stall_state (soc_dport s) || negb (appcpu_clkgate_state (soc_dport s)).

Definition esp32_cpu_stall (n level : Z) : socM unit :=
  stall <- gets (fun s => stalled s n) ;;
  on_cpu n (env <- gets m_env ;;
            when (negb (Bool.eqb stall (runstall env))) (mod_env (xtensa_runstall stall))).

(** [&s->frc_timer] is the first of the two timers; an index outside the table of
    multipliers is the outcome [AssertFail]. *)
Definition esp32_clk_update (level : Z) : socM unit :=
  when (truthy level) (
    s <- gets (fun s => s) ;;
    let pll := soc_clk (soc_rtc s) =? ESP32_SOC_CLK_PLL in
    let apb_clk_freq := if pll then pll_apb_freq (soc_rtc s) else xtal_apb_freq (soc_rtc s) in
    massert (negb pll || (cpuperiod_sel (soc_dport s) <? 3)) ;;
    let cpu_clk_freq := if pll then u32 (nthZ [1; 2; 3] (cpuperiod_sel (soc_dport s)) * apb_clk_freq) else apb_clk_freq in
    modify (soc_emit (EvApbFreq "frc_timer" 0 apb_clk_freq)) ;;
    modify (soc_emit (EvApbFreq "timg" 0 apb_clk_freq)) ;;
    modify (soc_emit (EvApbFreq "timg" 1 apb_clk_freq)) ;;
    modify (soc_emit (EvCpuClock 0 cpu_clk_freq)) ;;
    modify (soc_emit (EvCpuClock 1 cpu_clk_freq))).
End soc.

(** ** Reset *)

Section reset.
Context (config : XtensaConfig).
Hypothesis Hmmu : xtensa_option_enabled config OPTION_MMU = false.
Hypothesis Hmpu : xtensa_option_enabled config OPTION_MPU = false.

(** The CPU before [cpu_reset]. *)
Definition prepared (sel : bool) (m : machine) : machine :=
  with_env (remove_cpu_watchpoints (set_static_vectors (b2z sel) (m_env m))) m.

(** A reset CPU: reset from its prepared state, at the reset vector the static
    vector selects, interrupts masked, without watchpoints, running unless stalled. *)
Record is_reset (sel : bool) (m m' : machine) : Prop := {
  ir_reset : xtensa_cpu_reset_hold config (prepared sel m) = Done tt m';
  ir_pc : pc (m_env m') = nthZ (exception_vector config) (EXC_RESET0 + b2z sel);
  ir_ps : sr (m_env m') PS = if xtensa_option_enabled config OPTION_INTERRUPT then 0x1f else 0x10;
  ir_pending : pending_irq_level (m_env m') = 0;
  ir_watchpoints i : 0 <= i < MAX_NDBREAK -> cpu_watchpoint (m_env m') i = None;
  ir_halted : halted (m_env m') = runstall (m_env m)
}.

Lemma with_env_id m : with_env (m_env m) m = m.
Proof. by destruct m. Qed.

Lemma remove_watchpoints_spec env :
  (forall i, 0 <= i < MAX_NDBREAK -> cpu_watchpoint (remove_cpu_watchpoints env) i = None) /\
  static_vectors (remove_cpu_watchpoints env) = static_vectors env /\ runstall (remove_cpu_watchpoints env) = runstall env.
Proof.
  unfold remove_cpu_watchpoints, MAX_NDBREAK. change (seqZ 0 2) with [0; 1]. cbn [foldl].
  set (step := fun e i => match cpu_watchpoint e i with
                          | Some w => set_cpu_watchpoint (fupd (cpu_watchpoint e) i None) (emit (EvWatchpointRemove w) e)
                          | None => e end).
  fold (step env 0). fold (step (step env 0) 1).
  assert (Hstep : forall e i, cpu_watchpoint (step e i) = fupd (cpu_watchpoint e) i None \/
                              cpu_watchpoint (step e i) = cpu_watchpoint e /\ cpu_watchpoint e i = None).
  { intros e i. unfold step. destruct (cpu_watchpoint e i) eqn:E; [by left|by right]. }
  assert (Hkeep : forall e i, static_vectors (step e i) = static_vectors e /\ runstall (step e i) = runstall e).
  { intros e i. unfold step. by destruct (cpu_watchpoint e i). }
  split; [|destruct (Hkeep (step env 0) 1), (Hkeep env 0); split; congruence].
  intros i Hi. assert (Hc : i = 0 \/ i = 1) by lia.
  destruct (Hstep (step env 0) 1) as [H1|[H1 N1]], (Hstep env 0) as [H0|[H0 N0]];
    destruct Hc as [-> | ->]; rewrite H1; try rewrite H0; try rewrite H0 in N1; unfold fupd in *; cbn in *; congruence.
Qed.

Lemma reset_hold_spec sel m : exists m', is_reset sel m m'.
Proof.
  destruct (remove_watchpoints_spec (set_static_vectors (b2z sel) (m_env m))) as (Hw & Hs & Hr).
  eexists. split; [unfold xtensa_cpu_reset_hold, bind, mod_env, modify, on_env, reset_mmu; rewrite Hmmu, Hmpu; reflexivity|..];
    cbn -[remove_cpu_watchpoints nthZ Z.land not32 MAX_NDBREAK]; try done.
  by rewrite Hs.
Qed.

Lemma reset_cpu_spec i s m : cpu_at s i = Some m -> exists s' m',
  reset_cpu config i s = Done tt s' /\ cpu_at s' i = Some m' /\ is_reset (stat_vector_sel (soc_rtc s) i) m m' /\
  (forall j, j <> i -> cpu_at s' j = cpu_at s j) /\ soc_rtc s' = soc_rtc s /\ requested_reset s' = requested_reset s.
Proof.
  intros Hm. set (sel := stat_vector_sel (soc_rtc s) i).
  destruct (reset_hold_spec sel m) as [m' Hr].
  unfold reset_cpu, on_cpu, bind, gets. rewrite Hm. fold sel.
  unfold xtensa_select_static_vectors, on_env, mod_env, bind, massert, modify.
  rewrite (proj2 (Z.ltb_lt (b2z sel) 2)) by (destruct sel; cbn; lia). cbn [m_env with_env].
  pose proof (ir_reset _ _ _ Hr) as H. unfold prepared in H.
  assert (E : with_env (remove_cpu_watchpoints (set_static_vectors (b2z sel) (m_env m))) (with_env (set_static_vectors (b2z sel) (m_env m)) m)
    = with_env (remove_cpu_watchpoints (set_static_vectors (b2z sel) (m_env m))) m) by done.
  rewrite E, H. eexists _, m'. split; [done|].
  split; [unfold cpu_at; cbn; rewrite !fupd_eq; cbn; by rewrite with_env_id|].
  split; [done|]. split; [|done]. intros j Hj. unfold cpu_at. cbn. by rewrite !fupd_ne.
Qed.

Lemma procpu_bit r : truthy (r &&& RESET_PROCPU) = Z.testbit r 0.
Proof. by apply (truthy_land_pow2 r 0). Qed.
Lemma appcpu_bit r : truthy (r &&& RESET_APPCPU) = Z.testbit r 1.
Proof. by apply (truthy_land_pow2 r 1). Qed.
Lemma periph_bit r : truthy (r &&& RESET_PERIPH) = Z.testbit r 2.
Proof. by apply (truthy_land_pow2 r 2). Qed.
Lemma rtc_bit r : truthy (r &&& RESET_RTC) = Z.testbit r 3.
Proof. by apply (truthy_land_pow2 r 3). Qed.

(** What the lines of a CPU can change: its stall state, its pending interrupts and its
    clock.  The rest of the CPU is kept. *)
Record lines_only (m m' : machine) : Prop := {
  lo_rest : with_env (m_env m) m' = m;
  lo_pc : pc (m_env m') = pc (m_env m);
  lo_regs : regs (m_env m') = regs (m_env m) /\ phys_regs (m_env m') = phys_regs (m_env m);
  lo_sr r : r <> INTSET -> r <> CCOUNT -> sr (m_env m') r = sr (m_env m) r;
  lo_tlb : itlb (m_env m') = itlb (m_env m) /\ dtlb (m_env m') = dtlb (m_env m);
  lo_breaks : cpu_watchpoint (m_env m') = cpu_watchpoint (m_env m) /\ cpu_breakpoint (m_env m') = cpu_breakpoint (m_env m);
  lo_vectors : static_vectors (m_env m') = static_vectors (m_env m);
  lo_exclusive : exclusive_addr (m_env m') = exclusive_addr (m_env m)
}.

Lemma lines_refl m : lines_only m m.
Proof. split; try done. apply with_env_id. Qed.
Lemma lines_trans m1 m2 m3 : lines_only m1 m2 -> lines_only m2 m3 -> lines_only m1 m3.
Proof.
  intros [A1 A2 [A3 A3'] A4 [A5 A5'] [A6 A6'] A7 A8] [B1 B2 [B3 B3'] B4 [B5 B5'] [B6 B6'] B7 B8].
  split; try congruence; try (split; congruence).
  - rewrite <- A1 at 2. rewrite <- B1 at 1. by destruct m1, m3.
  - intros r ??. by rewrite B4, A4.
Qed.

Definition has_cpus (s : SocState) : Prop := forall i, 0 <= i < 2 -> is_Some (cpus (soc_matrix s) i).

(** A step that keeps the request and the RTC controller, and changes lines of CPUs only. *)
Definition lines_step (s s' : SocState) : Prop :=
  forall i m, cpu_at s i = Some m -> exists m', cpu_at s' i = Some m' /\ lines_only m m'.
Definition quiet (c : socM unit) : Prop := forall s, has_cpus s -> exists s', c s = Done tt s' /\
  requested_reset s' = requested_reset s /\ soc_rtc s' = soc_rtc s /\ lines_step s s'.

Lemma lines_step_refl s s' : soc_matrix s' = soc_matrix s -> soc_rest s' = soc_rest s -> lines_step s s'.
Proof. intros E1 E2 i m Hm. exists m. split; [|apply lines_refl]. rewrite <- Hm. unfold cpu_at. by rewrite E1, E2. Qed.
Lemma lines_step_trans s1 s2 s3 : lines_step s1 s2 -> lines_step s2 s3 -> lines_step s1 s3.
Proof.
  intros H1 H2 i m Hm. destruct (H1 i m Hm) as (m1 & Hm1 & L1). destruct (H2 i m1 Hm1) as (m2 & Hm2 & L2).
  exists m2. split; [done|by eapply lines_trans].
Qed.

Lemma set_irq_lines irq active env m : lines_only (with_env env m) (with_env (xtensa_set_irq config irq active env) m).
Proof.
  assert (H : forall e, lines_only (with_env e m) (with_env (check_interrupts config e) m)).
  { intros e. destruct (check_interrupts_frame config e) as (Es & Ep & Er & Eh & _).
    destruct (check_interrupts_mmu config e) as (Ei & Ed & Ex).
    split; cbn [m_env with_env]; [done|done|done| |done| |unfold check_interrupts; by destruct (check_levels _ _ _ _)|done].
    - intros r Hr _. by rewrite check_interrupts_sr.
    - unfold check_interrupts. by destruct (check_levels _ _ _ _). }
  assert (H2 : forall v, lines_only (with_env env m) (with_env (set_sr INTSET v env) m)).
  { intros v. split; try done. intros r Hr _. by apply sr_set_sr_ne. }
  unfold xtensa_set_irq. repeat case_match; [apply lines_refl|..]; eauto using lines_trans.
Qed.

Lemma lower_outputs_lines m : lines_only m (with_env (lower_outputs config (m_env m)) m).
Proof.
  unfold lower_outputs. rewrite <- (with_env_id m) at 1. generalize (m_env m). intros env.
  revert env. induction (seqZ 0 (nextint config)) as [|k l IH]; intros env; [apply lines_refl|].
  cbn [foldl]. eapply lines_trans; [|apply IH]. unfold ext_irq_input. apply set_irq_lines.
Qed.

Lemma lines_step_cpus s s' : has_cpus s -> lines_step s s' -> has_cpus s'.
Proof.
  intros Hc Hl i Hi. destruct (Hc i Hi) as [env E].
  destruct (Hl i (with_env env (soc_rest s i))) as (m' & Hm & _); [unfold cpu_at; by rewrite E|].
  unfold cpu_at in Hm. by destruct (cpus (soc_matrix s') i).
Qed.

Lemma quiet_gets {A} (f : SocState -> A) (k : A -> socM unit) : (forall a, quiet (k a)) -> quiet (a <- gets f ;; k a).
Proof. intros H s. apply (H (f s) s). Qed.
Lemma quiet_seq c d : quiet c -> quiet d -> quiet (c ;; d).
Proof.
  intros Hc Hd s Hs. destruct (Hc s Hs) as (s1 & R1 & A1 & B1 & C1).
  destruct (Hd s1 (lines_step_cpus s s1 Hs C1)) as (s2 & R2 & A2 & B2 & C2).
  exists s2. unfold bind. rewrite R1, R2. split; [done|]. split; [congruence|]. split; [congruence|].
  by eapply lines_step_trans.
Qed.
Lemma quiet_modify f : (forall s, soc_matrix (f s) = soc_matrix s /\ soc_rest (f s) = soc_rest s /\ soc_rtc (f s) = soc_rtc s /\
    requested_reset (f s) = requested_reset s) -> quiet (modify f).
Proof. intros H s _. destruct (H s) as (? & ? & ? & ?). exists (f s). split_and!; try done. by apply lines_step_refl. Qed.
Lemma quiet_when b c : quiet c -> quiet (when b c).
Proof. intros Hc. destruct b; [done|]. intros s _. exists s. split_and!; try done. by apply lines_step_refl. Qed.
Lemma quiet_matrix : quiet (reset_matrix config).
Proof.
  intros s _. eexists. split_and!; [reflexivity|done|done|]. intros i m. unfold cpu_at. cbn.
  destruct ((0 <=? i) && (i <? CPU_COUNT)).
  - destruct (cpus (soc_matrix s) i) as [env|]; [|done]. cbn. intros [= <-]. eexists. split; [reflexivity|].
    exact (lower_outputs_lines (with_env env (soc_rest s i))).
  - intros ->. eexists. split; [reflexivity|apply lines_refl].
Qed.

(** *** The reset of the peripherals *)

(** What is assumed of the peripherals outside the sources, of a chip with both CPUs: their
    reset returns, asks for no other reset, reaches the CPUs through their lines only, and only the RTC controller
    changes its own registers, the way [rtc_after] says. *)
Class DeviceResets (device_cold_reset : string -> Z -> socM unit) (rtc_after : rtc_cntl -> rtc_cntl) : Prop := {
  device_resets d i s : has_cpus s -> exists s', device_cold_reset d i s = Done tt s' /\
    requested_reset s' = requested_reset s /\
    soc_rtc s' = (if String.eqb d "rtc_cntl" then rtc_after (soc_rtc s) else soc_rtc s) /\
    lines_step s s'
}.

Section devices.
Context (device_cold_reset : string -> Z -> socM unit) (rtc_after : rtc_cntl -> rtc_cntl).
Context `{!DeviceResets device_cold_reset rtc_after}.

Lemma quiet_device d i : String.eqb d "rtc_cntl" = false -> quiet (device_cold_reset d i).
Proof. intros Hd s Hs. destruct (device_resets d i s Hs) as (s' & H). rewrite Hd in H. by exists s'. Qed.
Lemma quiet_cold d : String.eqb d "rtc_cntl" = false -> quiet (cold_reset device_cold_reset d).
Proof. apply quiet_device. Qed.
Lemma quiet_colds d n : String.eqb d "rtc_cntl" = false -> quiet (cold_resets device_cold_reset d n).
Proof.
  intros Hd. unfold cold_resets, for_range. induction (seqZ 0 n) as [|i l IH]; cbn;
    [intros s _; exists s; split_and!; try done; by apply lines_step_refl|].
  apply quiet_seq; [by apply quiet_device|done].
Qed.
Create HintDb soc.
#[local] Hint Resolve quiet_seq quiet_when quiet_cold quiet_colds quiet_gets quiet_matrix eq_refl : soc.
#[local] Hint Extern 1 (quiet (modify _)) => apply quiet_modify; done : soc.

Lemma quiet_s3_periph : quiet (reset_matrix config ;; cold_resets device_cold_reset "uart" 3).
Proof. auto with soc. Qed.
Lemma quiet_e32_periph boot : quiet (esp32_periph_reset config device_cold_reset boot).
Proof. unfold esp32_periph_reset. auto 40 with soc. Qed.

(** CPU [i] is reset or left alone, by bit [i] of the request; [touched] tells whether
    peripherals were reset before. *)
Definition reset_by (r : Z) (sel : Z -> bool) (touched : bool) (s s' : SocState) : Prop :=
  forall i m, 0 <= i < 2 -> cpu_at s i = Some m ->
    exists m1 m', cpu_at s' i = Some m' /\ lines_only m m1 /\ (touched = false -> m1 = m) /\
      if Z.testbit r i then is_reset (sel i) m1 m' else m' = m1.

Lemma maybe_cpu mask (b : bool) i s m : truthy (requested_reset s &&& mask) = b -> cpu_at s i = Some m -> exists s' m',
  if_requested mask (reset_cpu config i) s = Done tt s' /\ cpu_at s' i = Some m' /\
  (if b then is_reset (stat_vector_sel (soc_rtc s) i) m m' else m' = m) /\
  (forall j, j <> i -> cpu_at s' j = cpu_at s j) /\ soc_rtc s' = soc_rtc s /\ requested_reset s' = requested_reset s.
Proof.
  intros Hb Hm. unfold if_requested, bind, gets. rewrite Hb. destruct b; [|by eexists _, _].
  destruct (reset_cpu_spec i s m Hm) as (s' & m' & H1 & H2 & H3 & H4 & H5 & H6). eauto 10.
Qed.

(** The end of the reset of both chips. *)
Lemma cpus_reset_spec r touched s s1 : requested_reset s1 = r ->
  (forall i, 0 <= i < 2 -> exists m m1, cpu_at s i = Some m /\ cpu_at s1 i = Some m1 /\ lines_only m m1 /\ (touched = false -> m1 = m)) ->
  exists s', (if_requested RESET_PROCPU (reset_cpu config 0) ;; if_requested RESET_APPCPU (reset_cpu config 1) ;;
   modify (with_request 0)) s1 = Done tt s' /\
  requested_reset s' = 0 /\ reset_by r (stat_vector_sel (soc_rtc s1)) touched s s'.
Proof.
  intros Hr Hc. destruct (Hc 0 ltac:(lia)) as (a0 & m0 & A0 & H0 & L0 & T0). destruct (Hc 1 ltac:(lia)) as (a1 & m1 & A1 & H1 & L1 & T1).
  assert (P0 : truthy (requested_reset s1 &&& RESET_PROCPU) = Z.testbit r 0) by (by rewrite Hr, procpu_bit).
  destruct (maybe_cpu _ _ 0 s1 m0 P0 H0) as (s2 & m0' & R1 & C1 & I1 & O1 & E1 & Q1).
  assert (P1 : truthy (requested_reset s2 &&& RESET_APPCPU) = Z.testbit r 1) by (by rewrite Q1, Hr, appcpu_bit).
  assert (H1' : cpu_at s2 1 = Some m1) by (by rewrite O1).
  destruct (maybe_cpu _ _ 1 s2 m1 P1 H1') as (s3 & m1' & R2 & C2 & I2 & O2 & E2 & Q2).
  exists (with_request 0 s3). unfold bind. rewrite R1, R2. split; [done|]. split; [done|]. intros i m Hi Hm.
  assert (Hi2 : i = 0 \/ i = 1) by lia. destruct Hi2 as [-> | ->].
  - exists m0, m0'. assert (a0 = m) as <- by congruence. split; [change (cpu_at s3 0 = Some m0'); by rewrite O2|]. split; [done|].
    split; [done|exact I1].
  - exists m1, m1'. assert (a1 = m) as <- by congruence. split; [exact C2|]. split; [done|]. split; [done|]. by rewrite E1 in I2.
Qed.

Lemma part_spec mask (b : bool) c s : has_cpus s -> truthy (requested_reset s &&& mask) = b -> quiet c -> exists s',
  if_requested mask c s = Done tt s' /\ requested_reset s' = requested_reset s /\ soc_rtc s' = soc_rtc s /\
  lines_step s s' /\ (b = false -> s' = s).
Proof.
  intros Hs Hb Hc. unfold if_requested, bind, gets. rewrite Hb.
  destruct b; [|exists s; split_and!; try done; by apply lines_step_refl].
  destruct (Hc s Hs) as (s' & H1 & H2 & H3 & H4). by exists s'.
Qed.

Lemma bind_run {A B} (c : socM A) (k : A -> socM B) s a s' : c s = Done a s' -> bind c k s = k a s'.
Proof. unfold bind. by intros ->. Qed.

(** The request that a reset serves. *)
Definition served (s : SocState) : Z := if requested_reset s =? 0 then RESET_ALL else requested_reset s.
Definition take_request (s : SocState) : SocState := if requested_reset s =? 0 then with_request RESET_ALL s else s.
Lemma take_request_spec s : requested_reset (take_request s) = served s /\ soc_matrix (take_request s) = soc_matrix s /\
  soc_rest (take_request s) = soc_rest s /\ soc_rtc (take_request s) = soc_rtc s.
Proof. unfold take_request, served. destruct (Z.eqb_spec (requested_reset s) 0); by rewrite ?Z.eqb_refl. Qed.

Lemma cpus_touched s s1 (touched : bool) : has_cpus s -> lines_step s s1 ->
  (touched = false -> forall i, cpu_at s1 i = cpu_at s i) ->
  forall i, 0 <= i < 2 -> exists m m1, cpu_at s i = Some m /\ cpu_at s1 i = Some m1 /\ lines_only m m1 /\ (touched = false -> m1 = m).
Proof.
  intros Hc Hl Hid i Hi. destruct (Hc i Hi) as [env E].
  assert (Hm : cpu_at s i = Some (with_env env (soc_rest s i))) by (unfold cpu_at; by rewrite E).
  destruct (Hl i _ Hm) as (m1 & Hm1 & L). exists (with_env env (soc_rest s i)), m1. split_and!; try done.
  intros Ht. specialize (Hid Ht i). congruence.
Qed.

Lemma s3_reset_spec s : has_cpus s -> let r := served s in
  exists s', esp32s3_soc_reset config device_cold_reset s = Done tt s' /\ requested_reset s' = 0 /\
    reset_by r (stat_vector_sel (soc_rtc s)) (Z.testbit r 2) s s'.
Proof.
  intros Hc r. destruct (take_request_spec s) as (Q & Em & Er & Et). fold r in Q.
  unfold esp32s3_soc_reset. rewrite (bind_run (modify (fun s => if requested_reset s =? 0 then with_request RESET_ALL s else s)) _ s tt (take_request s) eq_refl).
  assert (Hc1 : has_cpus (take_request s)) by (intros i Hi; rewrite Em; by apply Hc).
  destruct (part_spec RESET_PERIPH (Z.testbit r 2) _ (take_request s) Hc1 ltac:(by rewrite Q, periph_bit) quiet_s3_periph)
    as (s1 & R1 & Q1 & T1 & L1 & I1).
  rewrite (bind_run _ _ _ _ _ R1), <- Et, <- T1. change (1 <? CPU_COUNT) with true. unfold when.
  apply cpus_reset_spec; [congruence|]. apply cpus_touched; [done| |].
  - eapply lines_step_trans; [|exact L1]. by apply lines_step_refl.
  - intros Hb i. rewrite (I1 Hb). unfold cpu_at. by rewrite Em, Er.
Qed.

Lemma e32_reset_spec s : has_cpus s -> let r := served s in
  exists s', esp32_soc_reset config device_cold_reset s = Done tt s' /\ requested_reset s' = 0 /\
    reset_by r (stat_vector_sel (if Z.testbit r 3 then rtc_after (soc_rtc s) else soc_rtc s)) (Z.testbit r 2 || Z.testbit r 3) s s'.
Proof.
  intros Hc r. unfold esp32_soc_reset. rewrite (bind_run (gets strap_mode) _ s (strap_mode s) s eq_refl). cbv zeta.
  set (boot := truthy _ || _). set (s0 := soc_emit (EvDownloadMode (negb boot)) s).
  rewrite (bind_run (modify (soc_emit (EvDownloadMode (negb boot)))) _ s tt s0 eq_refl).
  destruct (take_request_spec s0) as (Q & Em & Er & Et). change (served s0) with r in Q.
  rewrite (bind_run (modify (fun s => if requested_reset s =? 0 then with_request RESET_ALL s else s)) _ s0 tt (take_request s0) eq_refl).
  assert (Hc1 : has_cpus (take_request s0)) by (intros i Hi; rewrite Em; by apply Hc).
  assert (Hrtc : exists s1, if_requested RESET_RTC (cold_reset device_cold_reset "rtc_cntl") (take_request s0) = Done tt s1 /\
    requested_reset s1 = r /\ soc_rtc s1 = (if Z.testbit r 3 then rtc_after (soc_rtc s) else soc_rtc s) /\
    lines_step (take_request s0) s1 /\ (Z.testbit r 3 = false -> s1 = take_request s0)).
  { unfold if_requested, bind, gets. rewrite Q, rtc_bit. destruct (Z.testbit r 3); unfold when, ret.
    - destruct (device_resets "rtc_cntl" 0 (take_request s0) Hc1) as (s1 & R1 & Q1 & T1 & L1). exists s1.
      split_and!; [done|congruence|by rewrite T1, Et|done|done].
    - exists (take_request s0). split_and!; [done|done|done|by apply lines_step_refl|done]. }
  destruct Hrtc as (s1 & R1 & Q1 & T1 & L1 & I1). rewrite (bind_run _ _ _ _ _ R1).
  destruct (part_spec RESET_PERIPH (Z.testbit r 2) _ s1 (lines_step_cpus _ _ Hc1 L1) ltac:(by rewrite Q1, periph_bit) (quiet_e32_periph boot))
    as (s2 & R2 & Q2 & T2 & L2 & I2).
  rewrite (bind_run _ _ _ _ _ R2), <- T1, <- T2. apply cpus_reset_spec; [congruence|]. apply cpus_touched; [done| |].
  - eapply lines_step_trans; [|exact L2]. eapply lines_step_trans; [|exact L1]. by apply lines_step_refl.
  - intros [Hb2 Hb3]%orb_false_iff i. rewrite (I2 Hb2), (I1 Hb3). unfold cpu_at. by rewrite Em, Er.
Qed.

(** C28: The reset of a chip with two CPUs (whose cores have neither MMU nor MPU, as both
    chips) ends with no request pending and resets exactly the CPUs its request
    names: such a CPU starts at the reset vector its static-vector bit selects, with
    interrupts masked and without watchpoints, halted exactly when it is stalled.
    The other CPU keeps its whole state when no peripheral is reset, and else
    everything but what its lines change: the stall state, the pending interrupts
    and the clock.  Without a request everything is reset.  On the ESP32 the
    static-vector bits are those after the reset of the RTC controller, when that is
    part of the request.  Assumed of the peripherals outside the sources: their
    reset returns, asks for no further reset, reaches the CPUs through these lines
    only, and leaves the registers of the RTC controller to its own reset. *)
Theorem soc_reset_exact s : has_cpus s ->
  let r := served s in
  (exists s', esp32s3_soc_reset config device_cold_reset s = Done tt s' /\ requested_reset s' = 0 /\
     reset_by r (stat_vector_sel (soc_rtc s)) (Z.testbit r 2) s s') /\
  (exists s', esp32_soc_reset config device_cold_reset s = Done tt s' /\ requested_reset s' = 0 /\
     reset_by r (stat_vector_sel (if Z.testbit r 3 then rtc_after (soc_rtc s) else soc_rtc s)) (Z.testbit r 2 || Z.testbit r 3) s s').
Proof. intros Hc r. split; [by apply s3_reset_spec|by apply e32_reset_spec]. Qed.
End devices.
End reset.

(** ** Memory maps *)

Definition esp32s3_memmap : list (string * Z * Z) :=
  [("IROM", 0x40000000, 0x60000); ("DROM", 0x3ff00000, 0x20000); ("DRAM", 0x3FC80000, 0x170000);
   ("IRAM", 0x40370000, 0x80000); ("ICACHE", 0x42000000, 0x2000000); ("DCACHE", 0x3c000000, 0x2000000);
   ("RTCSLOW", 0x50000000, 0x2000); ("RTCFAST", 0x600fe000, 0x2000); ("FRAMEBUF", 0x20000000, 800 * 600 * 4)]%string.

Definition esp32_memmap : list (string * Z * Z) :=
  [("IROM", 0x40000000, 0x70000); ("DROM", 0x3ff90000, 0x10000); ("DRAM", 0x3ffae000, 0x52000);
   ("IRAM", 0x40080000, 0x40000); ("ICACHE0", 0x40070000, 0x8000); ("ICACHE1", 0x40078000, 0x8000);
   ("RTCSLOW", 0x50000000, 0x2000); ("RTCFAST_D", 0x3ff80000, 0x2000); ("RTCFAST_I", 0x400C0000, 0x2000);
   ("FRAMEBUF", 0x20000000, 800 * 600 * 4)]%string.

Definition in_region (a : Z) (r : string * Z * Z) : Prop := r.1.2 <= a < r.1.2 + r.2.

Definition apart (r r' : string * Z * Z) : bool :=
  bool_decide (r = r') || (r.1.2 + r.2 <=? r'.1.2) || (r'.1.2 + r'.2 <=? r.1.2).

(** In the memory map of either chip an address belongs to at most one region, and
    every region lies in the 32-bit address space. *)
Theorem memmap_unambiguous (map : list (string * Z * Z)) a r r' :
  map = esp32_memmap \/ map = esp32s3_memmap -> r ∈ map -> r' ∈ map -> in_region a r -> in_region a r' ->
  r = r' /\ in32 a.
Proof.
  assert (Hall : forall l, l = esp32_memmap \/ l = esp32s3_memmap ->
    forallb (fun r => forallb (apart r) l && (0 <=? r.1.2) && (r.1.2 + r.2 <=? 2 ^ 32)) l = true)
    by (intros l [-> | ->]; by vm_compute).
  intros Hl Hr Hr' [H1 H2] [H3 H4]. specialize (Hall map Hl). rewrite forallb_forall in Hall.
  apply list_elem_of_In in Hr, Hr'. specialize (Hall r Hr). rewrite !andb_true_iff, forallb_forall in Hall.
  destruct Hall as [[Hd Hlo] Hhi]. specialize (Hd r' Hr'). unfold apart in Hd. rewrite !orb_true_iff, bool_decide_eq_true in Hd.
  split; [|unfold in32; lia]. destruct Hd as [[->|Hd]|Hd]; [done|lia|lia].
Qed.

(** ** Stalling *)

(** After a stall line of the ESP32 changes, the CPU is stalled exactly when one of
    its stall sources asks for it; the other CPU is not touched, and a CPU that
    already is in that state is left alone. *)
Theorem stall_follows_sources (s : SocState) (n level : Z) (m : machine) :
  cpu_at s n = Some m ->
  exists s' m', esp32_cpu_stall n level s = Done tt s' /\ cpu_at s' n = Some m' /\
    runstall (m_env m') = stalled s n /\
    (runstall (m_env m) = stalled s n -> m' = m) /\
    (runstall (m_env m) <> stalled s n -> halted (m_env m') = stalled s n) /\
    forall j, j <> n -> cpu_at s' j = cpu_at s j.
Proof.
  intros Hm. unfold esp32_cpu_stall, on_cpu, bind, gets. rewrite Hm. set (st := stalled s n).
  assert (Hback : forall m1 : machine, m1 = m1 -> cpu_at (with_rest (fupd (soc_rest s) n m1)
     (with_matrix (set_cpus (fupd (cpus (soc_matrix s)) n (Some (m_env m1))) (soc_matrix s)) s)) n = Some m1)
    by (intros m1 _; unfold cpu_at; cbn; rewrite !fupd_eq; cbn; by destruct m1).
  destruct (Bool.eqb st (runstall (m_env m))) eqn:E; cbn [negb when].
  - apply Bool.eqb_prop in E. eexists _, m. split; [done|]. split; [by apply Hback|]. split; [done|]. split; [done|].
    split; [congruence|]. intros j Hj. unfold cpu_at. cbn. by rewrite !fupd_ne.
  - apply Bool.eqb_false_iff in E. eexists _, (with_env (xtensa_runstall st (m_env m)) m). split; [done|].
    split; [by apply Hback|]. split; [by destruct st|]. split; [congruence|].
    split; [by destruct st|]. intros j Hj. unfold cpu_at. cbn. by rewrite !fupd_ne.
Qed.

(** ** Examples *)

Definition example_soc : SocState :=
  mkSoc (mkIntMatrix (fun _ _ => 6) (fun i => if (0 <=? i) && (i <? 2) then Some zero_env else None))
    (fun _ => machine_of zero_env (fun _ => 0) tie_zero)
    (mkRtc (fun _ => false) 40000000 80000000 1 (fun _ => 1) (fun _ => true)) (mkDport false true 2) 0x12 true false 0 [].

(** Peripherals of which the DPORT closes the clock gate of the second CPU when it is reset,
    and drives its stall line. *)
Definition example_devices (d : string) (i : Z) : socM unit :=
  if String.eqb d "dport" then modify (with_dport (mkDport false false 0)) ;; esp32_cpu_stall 1 1
  else modify (soc_emit (EvColdReset d i)).

(** The stall handler changes lines of CPUs only. *)
Lemma stall_lines n level s m : cpu_at s n = Some m -> exists s', esp32_cpu_stall n level s = Done tt s' /\
  requested_reset s' = requested_reset s /\ soc_rtc s' = soc_rtc s /\ lines_step s s'.
Proof.
  intros Hm. unfold esp32_cpu_stall, on_cpu, bind, gets. rewrite Hm. set (st := stalled s n).
  assert (Hstep : forall m1, lines_only m m1 -> lines_step s (with_rest (fupd (soc_rest s) n m1)
     (with_matrix (set_cpus (fupd (cpus (soc_matrix s)) n (Some (m_env m1))) (soc_matrix s)) s))).
  { intros m1 H1 j mj Hj. unfold cpu_at. cbn. destruct (decide (j = n)) as [->|].
    - rewrite !fupd_eq. cbn. exists m1. rewrite with_env_id. split; [done|]. congruence.
    - rewrite !fupd_ne by done. exists mj. split; [done|apply lines_refl]. }
  destruct (negb _); cbn [when]; eexists; (split; [reflexivity|]); (split; [done|]); (split; [done|]); apply Hstep.
  - cbn. destruct st; (split; cbn; [by destruct m|done..]).
  - apply lines_refl.
Qed.

#[export] Instance example_devices_ok : DeviceResets example_devices (fun r => r).
Proof.
  split. intros d i s Hs. assert (Hr : (if String.eqb d "rtc_cntl" then soc_rtc s else soc_rtc s) = soc_rtc s) by (by destruct (String.eqb _ _)).
  rewrite Hr. unfold example_devices. destruct (String.eqb d "dport").
  - unfold bind, modify. set (s1 := with_dport _ s). destruct (Hs 1 ltac:(lia)) as [env E].
    destruct (stall_lines 1 1 s1 (with_env env (soc_rest s 1))) as (s' & H1 & H2 & H3 & H4); [unfold cpu_at; cbn; by rewrite E|].
    exists s'. split_and!; [done|done|done|]. eapply lines_step_trans; [|exact H4]. by apply lines_step_refl.
  - eexists. split_and!; [reflexivity|done|done|by apply lines_step_refl].
Qed.

Lemma soc_reset_exact_witness :
  exists s', esp32_soc_reset esp32s3_config example_devices
      example_soc = Done tt s' /\ requested_reset s' = 0 /\
    exists m', cpu_at s' 1 = Some m' /\ pc (m_env m') = nthZ (exception_vector esp32s3_config) (EXC_RESET0 + 1) /\
      halted (m_env m') = true.
Proof.
  destruct (soc_reset_exact esp32s3_config eq_refl eq_refl
    example_devices (fun r => r) example_soc) as [_ (s' & H1 & H2 & H3)].
  - intros i Hi. cbn. rewrite (proj2 (Z.leb_le 0 i)), (proj2 (Z.ltb_lt i 2)) by lia. by eexists.
  - exists s'. split; [exact H1|]. split; [exact H2|].
    destruct (H3 1 (machine_of zero_env (fun _ => 0) tie_zero) ltac:(lia) eq_refl) as (m1 & m' & Hm & _ & _ & Hr).
    exists m'. split; [exact Hm|]. split; [exact (ir_pc _ _ _ _ Hr)|].
    assert (Hh : match esp32_soc_reset esp32s3_config
        example_devices example_soc with
      | Done _ s => (halted ∘ m_env) <$> cpu_at s 1 | _ => None end = Some true) by by vm_compute.
    rewrite H1, Hm in Hh. by injection Hh.
Defined.

Lemma memmap_unambiguous_witness :
  ("DRAM", 0x3FC80000, 0x170000)%string = ("DRAM", 0x3FC80000, 0x170000)%string /\ in32 0x3FC88000.
Proof.
  apply (memmap_unambiguous esp32s3_memmap 0x3FC88000); [by right|by do 2 right; left|by do 2 right; left|..];
    split; cbn; lia.
Defined.

Lemma stall_follows_sources_witness :
  exists s' m', esp32_cpu_stall 1 1 example_soc = Done tt s' /\ cpu_at s' 1 = Some m' /\ runstall (m_env m') = false.
Proof.
  destruct (stall_follows_sources example_soc 1 1 (machine_of zero_env (fun _ => 0) tie_zero) eq_refl)
    as (s' & m' & H1 & H2 & H3 & _).
  by exists s', m'.
Defined.

(** A reset request replaces the one that waits: after a request to reset the first
    CPU and one to reset the second, only the second CPU is reset. *)
Lemma second_request_wins :
  match (esp32s3_cpu_reset 0 1 ;; esp32s3_cpu_reset 1 1) example_soc with
  | Done _ s => served s = RESET_APPCPU
  | _ => False
  end.
Proof. by vm_compute. Qed.

(** The reset removes the watchpoints but keeps DBREAKC, so a data breakpoint the
    register still shows as enabled does nothing. *)
Definition watching : machine :=
  machine_of (set_sr DBREAKC 0xc000003f
    (set_cpu_watchpoint (fupd (fun _ => None) 0 (Some (mkWatchpoint 0 4 3))) zero_env)) (fun _ => 0) tie_zero.
Lemma reset_keeps_dbreakc :
  match xtensa_cpu_reset_hold esp32s3_config (prepared true watching) with
  | Done _ m => cpu_watchpoint (m_env m) 0 = None /\ sr (m_env m) DBREAKC = 0xc000003f
  | _ => False
  end.
Proof. by vm_compute. Qed.

(** With the PLL as clock source the multiplier table has no entry for the value 3
    of the two-bit field. *)
Lemma clk_update_period_3 :
  esp32_clk_update 1 (with_dport (mkDport false true 3) example_soc) = AssertFail.
Proof. by vm_compute. Qed.
