(* ===== verification/Semi.v ===== *)
(** * Semihosting ([target/xtensa/xtensa-semi.c])

    The SIMCALL instruction: the console with its input buffer, and the calls by
    number in a2, with arguments in a3 to a5 and results in a2 and a3.  The host and
    the accesses of the emulator core to guest memory are arguments. *)

From stdpp Require Import strings.
From S2P Require Import Prelude Cpu Interrupt Exception Tlb Mmu Control Lanes Tie FpStatus LoadStore.

#[local] Open Scope mach_scope.

(** ** Numbers *)

Abbreviation TARGET_SYS_exit := 1 (only parsing).
Abbreviation TARGET_SYS_read := 3 (only parsing).
Abbreviation TARGET_SYS_write := 4 (only parsing).
Abbreviation TARGET_SYS_open := 5 (only parsing).
Abbreviation TARGET_SYS_close := 6 (only parsing).
Abbreviation TARGET_SYS_lseek := 19 (only parsing).
Abbreviation TARGET_SYS_select_one := 29 (only parsing).
Abbreviation TARGET_SYS_argc := 1000 (only parsing).
Abbreviation TARGET_SYS_argv_sz := 1001 (only parsing).
Abbreviation TARGET_SYS_argv := 1002 (only parsing).
Abbreviation TARGET_SYS_memset := 1004 (only parsing).
Abbreviation SELECT_ONE_READ := 1 (only parsing).
Abbreviation SELECT_ONE_WRITE := 2 (only parsing).
Abbreviation SELECT_ONE_EXCEPT := 3 (only parsing).
Abbreviation TARGET_EBADF := 9 (only parsing).
Abbreviation TARGET_EAGAIN := 11 (only parsing).
Abbreviation TARGET_EINVAL := 22 (only parsing).
Abbreviation TARGET_ENOSYS := 88 (only parsing).

(** Host error numbers (Linux) with the number of the target: the same up to ERANGE. *)
Definition errno_h2g (host_errno : Z) : Z :=
  if (0 <=? host_errno) && (host_errno <=? 34) then host_errno
  else match host_errno with
  | 38 (** ENOSYS *) => TARGET_ENOSYS
  | 40 (** ELOOP *) => 92
  | _ => TARGET_EINVAL
  end.

(** ** The console *)

Record console := mkConsole { c_buffer : list Z; c_offset : Z }.

Definition console_size : Z := 16.

Definition sim_console_can_read (p : console) : Z := console_size - c_offset p.

Definition sim_console_read (buf : list Z) (p : console) : console :=
  let size := Z.of_nat (length buf) in
  let copy := if size <? console_size - c_offset p then size else console_size - c_offset p in
  mkConsole (memcpy (c_buffer p) (c_offset p) buf 0 copy) (c_offset p + copy).

(** The bytes read, and what [memmove] leaves. *)
Definition console_take (n : Z) (p : console) : list Z * console :=
  (take (Z.to_nat n) (c_buffer p),
   mkConsole (memcpy (c_buffer p) 0 (c_buffer p) n (c_offset p - n)) (c_offset p - n)).

(** ** The host *)

Record Host (W : Type) := mkHost {
  h_errno : W -> Z;
  h_write : Z -> list Z -> W -> Z * W;
  h_read : Z -> Z -> W -> Z * list Z * W;
  h_open : list Z -> Z -> Z -> W -> Z * W;
  h_close : Z -> W -> Z * W;
  h_lseek : Z -> Z -> Z -> W -> Z * W;
  h_select : Z -> Z -> option (Z * Z) -> W -> Z * W;
  h_chr_write : list Z -> W -> Z * W;  (** [qemu_chr_fe_write_all] *)
  h_accept_input : Z -> W -> list Z * W;  (** input that arrives at once, for the room given *)
  h_args : list (list Z);
  h_map : machine -> Z -> Z -> bool -> option (Z * Z);  (** [cpu_physical_memory_map]: where, and the length mapped *)
  h_debug_read : machine -> Z -> Z -> option (list Z);  (** [cpu_memory_rw_debug] *)
  h_debug_write : Z -> list Z -> machine -> machine
}.
Arguments h_errno {W}. Arguments h_write {W}. Arguments h_read {W}. Arguments h_open {W}. Arguments h_close {W}.
Arguments h_lseek {W}. Arguments h_select {W}. Arguments h_chr_write {W}. Arguments h_accept_input {W}.
Arguments h_args {W}. Arguments h_map {W}. Arguments h_debug_read {W}. Arguments h_debug_write {W}.

Section semi.
Context {W : Type} (H : Host W) (config : XtensaConfig) (ldl : Z -> option Z).

Record sim := mkSim { s_machine : machine; s_console : option console; s_world : W }.
Abbreviation simM := (M sim).

Definition with_machine (m : machine) (s : sim) : sim := mkSim m (s_console s) (s_world s).
Definition with_console (c : option console) (s : sim) : sim := mkSim (s_machine s) c (s_world s).
Definition with_world (w : W) (s : sim) : sim := mkSim (s_machine s) (s_console s) w.

Definition reg (k : Z) : simM Z := gets (fun s => nthZ (regs (m_env (s_machine s))) k).
Definition set_a (k v : Z) : simM unit :=
  modify (fun s => with_machine (with_env (set_reg k (u32 v) (m_env (s_machine s))) (s_machine s)) s).
Definition errno_to_a3 : simM unit := w <- gets s_world ;; set_a 3 (errno_h2g (h_errno H w)).
Definition call (f : W -> Z * W) : simM Z :=
  w <- gets s_world ;; let (r, w') := f w in modify (with_world w') ;; ret r.

(** ** Reading and writing *)

(** The physical address of a virtual one, or [~0]. *)
Definition phys (vaddr : Z) : simM Z := fun s =>
  match xtensa_cpu_get_phys_page_debug config ldl vaddr (m_env (s_machine s)) with
  | Done p e => Done p (with_machine (with_env e (s_machine s)) s)
  | LoopExit e => LoopExit (with_machine (with_env e (s_machine s)) s)
  | AssertFail => AssertFail
  end.

(** Bytes of a mapped buffer of [sz] bytes; the I/O uses [n] of them, and using more
    than are mapped is undefined. *)
Definition buffer_bytes (buf sz n : Z) : simM (list Z) :=
  massert (n <=? sz) ;; m <- gets s_machine ;; ret ((fun i => m_mem m (buf + i)) <$> seqZ 0 n).
Definition fill_buffer (buf sz : Z) (data : list Z) : simM unit :=
  massert (Z.of_nat (length data) <=? sz) ;;
  modify (fun s => with_machine (with_mem (fun a =>
    if (buf <=? a) && (a <? buf + Z.of_nat (length data)) then nthZ data (a - buf) else m_mem (s_machine s) a)
    (s_machine s)) s).

(** One transfer of [io_sz] bytes; the result is [io_done], -1 on an error. *)
Definition transfer (is_write : bool) (fd buf sz io_sz : Z) : simM Z :=
  con <- gets s_console ;;
  match (if fd <? 3 then con else None) with
  | Some c =>
      if is_write && ((fd =? 1) || (fd =? 2)) then
        data <- buffer_bytes buf sz io_sz ;;
        n <- call (h_chr_write H data) ;; errno_to_a3 ;; ret (u32 n)
      else if negb is_write && (fd =? 0) then
        if truthy (c_offset c) then
          let io_done := if io_sz <? c_offset c then io_sz else c_offset c in
          let (data, c') := console_take io_done c in
          fill_buffer buf sz data ;;
          modify (with_console (Some c')) ;;
          w <- gets s_world ;;
          let (more, w') := h_accept_input H (sim_console_can_read c') w in
          modify (with_world w') ;;
          when (truthy (Z.of_nat (length more))) (modify (with_console (Some (sim_console_read more c')))) ;;
          ret io_done
        else set_a 3 TARGET_EAGAIN ;; ret (u32 (-1))
      else set_a 3 TARGET_EBADF ;; ret (u32 (-1))
  | None =>
      if is_write then
        data <- buffer_bytes buf sz io_sz ;;
        n <- call (h_write H fd data) ;; errno_to_a3 ;; ret (u32 n)
      else
        w <- gets s_world ;;
        let '(n, data, w') := h_read H fd io_sz w in
        modify (with_world w') ;; fill_buffer buf sz data ;; errno_to_a3 ;; ret (u32 n)
  end.

(** The loop over the pages of the buffer; every turn transfers at least a byte, so
    [len] turns are enough. *)
Fixpoint rw_loop (fuel : nat) (is_write : bool) (fd vaddr len len_done : Z) : simM Z :=
  match fuel with
  | O => ret len_done
  | S fuel =>
      if 0 <? len then
        paddr <- phys vaddr ;;
        let page_left := TARGET_PAGE_SIZE - (vaddr &&& (TARGET_PAGE_SIZE - 1)) in
        let io_sz := if page_left <? len then page_left else len in
        m <- gets s_machine ;;
        match h_map H m paddr io_sz (negb is_write) with
        | Some (buf, sz) =>
            io_done <- transfer is_write fd buf sz io_sz ;;
            if io_done =? u32 (-1) then ret (if len_done =? 0 then u32 (-1) else len_done)
            else
              let len_done := u32 (len_done + io_done) in
              if io_done <? io_sz then ret len_done
              else rw_loop fuel is_write fd (u32 (vaddr + io_sz)) (u32 (len - io_sz)) len_done
        | None => set_a 3 TARGET_EINVAL ;; ret len_done
        end
      else ret len_done
  end.

Definition sys_rw (is_write : bool) : simM unit :=
  fd <- reg 3 ;; vaddr <- reg 4 ;; len <- reg 5 ;;
  n <- rw_loop (Z.to_nat len) is_write fd vaddr len 0 ;;
  set_a 2 n.
(** ** Files, arguments and memory *)

(** The name at [vaddr], read a byte at a time up to its terminator. *)
Fixpoint read_name (fuel : nat) (vaddr : Z) (name : list Z) (m : machine) : option (list Z) :=
  match fuel with
  | O => None
  | S fuel =>
      match h_debug_read H m vaddr 1 with
      | Some [c] => if c =? 0 then Some name else read_name fuel (u32 (vaddr + 1)) (name ++ [c]) m
      | _ => None
      end
  end.

Definition sys_open : simM unit :=
  at_ <- reg 3 ;; m <- gets s_machine ;;
  match read_name 1024 at_ [] m with
  | Some name =>
      flags <- reg 4 ;; mode <- reg 5 ;;
      r <- call (h_open H name flags mode) ;; set_a 2 r ;; errno_to_a3
  | None => set_a 2 (-1) ;; set_a 3 TARGET_EINVAL
  end.

Definition sys_close : simM unit :=
  fd <- reg 3 ;;
  if fd <? 3 then set_a 3 0 ;; set_a 2 0
  else r <- call (h_close H fd) ;; set_a 2 r ;; errno_to_a3.

Definition sys_lseek : simM unit :=
  fd <- reg 3 ;; off <- reg 4 ;; whence <- reg 5 ;;
  r <- call (h_lseek H fd (s32 off) whence) ;; set_a 2 r ;; errno_to_a3.

(** The time is read without a check, and undefined when it cannot be read; [FD_SET]
    is undefined from [FD_SETSIZE] on. *)
Definition FD_SETSIZE : Z := 1024.

Definition sys_select_one : simM unit :=
  fd <- reg 3 ;; rq <- reg 4 ;; target_tv <- reg 5 ;; m <- gets s_machine ;;
  tv <- (if truthy target_tv then
           match h_debug_read H m target_tv 8 with
           | Some tvv => ret (Some (s32 (mem_read (nthZ tvv) (fun k => k) 4), s32 (mem_read (nthZ tvv) (fun k => 4 + k) 4)))
           | None => fun _ => AssertFail
           end
         else ret None) ;;
  con <- gets s_console ;;
  match (if fd <? 3 then con else None) with
  | Some c =>
      (if ((fd =? 1) || (fd =? 2)) && (rq =? SELECT_ONE_WRITE) then set_a 2 1
       else if (fd =? 0) && (rq =? SELECT_ONE_READ) then set_a 2 (b2z (0 <? c_offset c))
       else set_a 2 0) ;;
      set_a 3 0
  | None => massert (fd <? FD_SETSIZE) ;; r <- call (h_select H fd rq tv) ;; set_a 2 r ;; errno_to_a3
  end.

Definition argc : Z := Z.of_nat (length (h_args H)).
Definition strings_size (args : list (list Z)) : Z :=
  fold_left (fun sz str => sz + (1 + Z.of_nat (length str))) args 0.
Definition argv_sz : Z := (argc + 1) * 4 + strings_size (h_args H).

Definition sys_argc : simM unit := set_a 2 argc ;; set_a 3 0.
Definition sys_argv_sz : simM unit := set_a 2 argv_sz ;; set_a 3 0.

Definition poke (addr : Z) (data : list Z) : simM unit :=
  modify (fun s => with_machine (h_debug_write H addr data (s_machine s)) s).
Definition word (v : Z) : list Z := (fun i => (v >>> (8 * i)) &&& 255) <$> seqZ 0 4.

Fixpoint put_args (base i str_offset : Z) (args : list (list Z)) : simM Z :=
  match args with
  | [] => ret i
  | str :: rest =>
      poke (u32 (base + i * 4)) (word (u32 (base + str_offset))) ;;
      poke (u32 (base + str_offset)) (str ++ [0]) ;;
      put_args base (i + 1) (str_offset + (Z.of_nat (length str) + 1)) rest
  end.
Definition sys_argv : simM unit :=
  base <- reg 3 ;;
  i <- put_args base 0 ((argc + 1) * 4) (h_args H) ;;
  poke (u32 (base + i * 4)) (word 0) ;;
  set_a 3 0.

(** [sz] turns are enough: each leaves at least a byte behind. *)
Fixpoint memset_loop (fuel : nat) (base c sz : Z) : simM unit :=
  match fuel with
  | O => ret tt
  | S fuel =>
      if truthy sz then
        m <- gets s_machine ;;
        len <- match h_map H m base sz true with
               | Some (buf, len) =>
                   if truthy len then
                     fill_buffer buf len (replicate (Z.to_nat len) (c &&& 255)) ;; ret len
                   else ret 1
               | None => ret 1
               end ;;
        memset_loop fuel (u32 (base + len)) c (u32 (sz - len))
      else ret tt
  end.
Definition sys_memset : simM unit :=
  base <- reg 3 ;; c <- reg 4 ;; sz <- reg 5 ;;
  memset_loop (Z.to_nat sz) base c sz ;;
  set_a 2 base ;; set_a 3 0.

(** ** The call; [Some status] when it ends the process *)

Definition simcall : simM (option Z) :=
  nr <- reg 2 ;;
  if nr =? TARGET_SYS_exit then status <- reg 3 ;; ret (Some status) else
  (if nr =? TARGET_SYS_read then sys_rw false
   else if nr =? TARGET_SYS_write then sys_rw true
   else if nr =? TARGET_SYS_open then sys_open
   else if nr =? TARGET_SYS_close then sys_close
   else if nr =? TARGET_SYS_lseek then sys_lseek
   else if nr =? TARGET_SYS_select_one then sys_select_one
   else if nr =? TARGET_SYS_argc then sys_argc
   else if nr =? TARGET_SYS_argv_sz then sys_argv_sz
   else if nr =? TARGET_SYS_argv then sys_argv
   else if nr =? TARGET_SYS_memset then sys_memset
   else set_a 2 (-1) ;; set_a 3 TARGET_ENOSYS) ;;
  ret None.
End semi.

(** ** The console input is a bounded queue *)

Definition console_wf (p : console) : Prop :=
  Z.of_nat (length (c_buffer p)) = console_size /\ 0 <= c_offset p <= console_size.
Definition queue (p : console) : list Z := take (Z.to_nat (c_offset p)) (c_buffer p).

Lemma take_memcpy (dst src : list Z) (d s n : Z) :
  0 <= d -> 0 <= s -> 0 <= n -> d + n <= Z.of_nat (length dst) -> s + n <= Z.of_nat (length src) ->
  take (Z.to_nat (d + n)) (memcpy dst d src s n) = take (Z.to_nat d) dst ++ take (Z.to_nat n) (drop (Z.to_nat s) src).
Proof.
  intros. apply nthZ_list_eq.
  { rewrite length_app, !length_take, length_memcpy, length_drop. lia. }
  rewrite length_take, length_memcpy. intros j Hj.
  assert (Hm := nthZ_memcpy dst src d s n j ltac:(lia) ltac:(lia) ltac:(lia) ltac:(lia) ltac:(lia) ltac:(lia)).
  unfold nthZ in *. rewrite list_lookup_total_alt, lookup_take_lt, <-list_lookup_total_alt, Hm by lia.
  destruct (Z.leb_spec d j), (Z.ltb_spec j (d + n)); simpl; try lia.
  - rewrite (list_lookup_total_alt (_ ++ _)), lookup_app_r by (rewrite length_take; lia).
    rewrite length_take, lookup_take_lt, lookup_drop, <-list_lookup_total_alt by lia. f_equal. lia.
  - rewrite (list_lookup_total_alt (_ ++ _)), lookup_app_l by (rewrite length_take; lia).
    by rewrite lookup_take_lt, <-list_lookup_total_alt by lia.
Qed.

(** What the character device and the guest do to the console: input arrives, and a
    read asks for at most [n] bytes. *)
Inductive console_op := Arrive (buf : list Z) | Ask (n : Z).

Definition console_step (o : console_op) (p : console) : list Z * console :=
  match o with
  | Arrive buf => ([], sim_console_read buf p)
  | Ask n => console_take (if n <? c_offset p then n else c_offset p) p
  end.
Definition queue_step (o : console_op) (q : list Z) : list Z * list Z :=
  match o with
  | Arrive buf => ([], take (Z.to_nat console_size) (q ++ buf))
  | Ask n => (take (Z.to_nat n) q, drop (Z.to_nat n) q)
  end.
Definition ask_valid (o : console_op) : Prop := match o with Arrive _ => True | Ask n => 0 <= n end.

Fixpoint run_ops {S} (step : console_op -> S -> list Z * S) (ops : list console_op) (s : S) : list (list Z) * S :=
  match ops with
  | [] => ([], s)
  | o :: rest => let (out, s1) := step o s in let (outs, s2) := run_ops step rest s1 in (out :: outs, s2)
  end.

Lemma console_step_queue o p :
  console_wf p -> ask_valid o ->
  let r := console_step o p in
  console_wf (snd r) /\ queue_step o (queue p) = (fst r, queue (snd r)).
Proof.
  intros [Hl Ho] Hv. destruct p as [b off]. unfold console_wf, queue, console_size in *. cbn in *.
  destruct o as [buf|n]; unfold console_step, queue_step, sim_console_read, console_take, console_size; cbn in *.
  - set (copy := if _ <? _ then _ else _). 
    assert (Hc : copy = Z.min (Z.of_nat (length buf)) (16 - off)) by (subst copy; destruct (Z.ltb_spec (Z.of_nat (length buf)) (16 - off)); lia).
    rewrite length_memcpy. split; [lia|]. f_equal.
    rewrite take_memcpy by lia. rewrite drop_0, take_app, length_take, take_take. f_equal; [f_equal; lia|].
    destruct (Z.min_spec (Z.of_nat (length buf)) (16 - off)) as [[? ?]|[? ?]].
    + rewrite !take_ge by lia. done.
    + f_equal. lia.
  - set (k := if _ <? _ then _ else _).
    assert (Hk : k = Z.min n off) by (subst k; destruct (Z.ltb_spec n off); lia).
    rewrite length_memcpy. split; [lia|]. f_equal.
    + rewrite take_take. f_equal. lia.
    + replace (off - k) with (0 + (off - k)) at 1 by lia. rewrite take_memcpy by lia.
      rewrite take_0, app_nil_l, (take_drop_commute b (Z.to_nat (off - k)) (Z.to_nat k)).
      destruct (decide (n <= off)).
      * replace (Z.to_nat k + Z.to_nat (off - k))%nat with (Z.to_nat off) by lia.
        f_equal. lia.
      * rewrite !drop_ge; [done|..]; rewrite length_take; lia.
Qed.

(** C31: The console's buffer implements a bounded queue: whatever the character device
    delivers and the guest asks for, the reads return what a queue of [console_size]
    bytes would, in order, input beyond the room left is not taken, and the room
    announced to the device is the queue's. *)
Theorem console_refines_queue (p : console) (ops : list console_op) :
  console_wf p -> Forall ask_valid ops ->
  let (outs, p') := run_ops console_step ops p in
  run_ops queue_step ops (queue p) = (outs, queue p') /\
  sim_console_can_read p' = console_size - Z.of_nat (length (queue p')).
Proof.
  revert p. induction ops as [|o ops IH]; intros p Hp Hv; cbn [run_ops].
  - split; [done|]. unfold sim_console_can_read, queue. destruct Hp. rewrite length_take. lia.
  - inversion_clear Hv as [|?? Ho Hops]. pose proof (console_step_queue o p Hp Ho) as [Hw Hq].
    rewrite Hq. destruct (console_step o p) as [out p1]. cbn in *.
    specialize (IH p1 Hw Hops). destruct (run_ops console_step ops p1) as [outs p2].
    destruct IH as [-> ?]. done.
Qed.

Lemma console_refines_queue_witness :
  let ops := [Arrive [104; 101; 108; 108; 111]; Ask 2; Arrive (seqZ 0 20); Ask 100] in
  let p := mkConsole (replicate 16 0) 0 in
  run_ops queue_step ops (queue p) = ([[]; [104; 101]; []; [108; 108; 111] ++ seqZ 0 13], []) /\
  let (outs, p') := run_ops console_step ops p in
  run_ops queue_step ops (queue p) = (outs, queue p') /\
  sim_console_can_read p' = console_size - Z.of_nat (length (queue p')).
Proof.
  split; [vm_compute; reflexivity|].
  apply (console_refines_queue (mkConsole (replicate 16 0) 0)).
  - by vm_compute.
  - repeat constructor; by vm_compute.
Defined.

(** ** Writing to the console *)

Arguments sim : clear implicits.

Section console_write.
Context {W : Type} (H : Host W) (config : XtensaConfig) (ldl : Z -> option Z).
Context (env : CPUXtensaState) (host : Z -> Z) (log : W -> list Z).

(** The [len] bytes of the guest's buffer at [vaddr] are readable memory of the host:
    each part of it inside one page is mapped, and [host] gives the place of a virtual
    address, consecutive inside the part. Nothing is said of other addresses. (The
    debug translation runs while a3 changes, hence the window [rs].) *)
Definition readable (vaddr len : Z) : Prop :=
  forall off n, 0 <= off -> 0 < n -> off + n <= len ->
    let v := u32 (vaddr + off) in
    v mod TARGET_PAGE_SIZE + n <= TARGET_PAGE_SIZE ->
    (forall rs, exists p,
       xtensa_cpu_get_phys_page_debug config ldl v (set_regs rs env) = Done p (set_regs rs env) /\
       forall m, h_map H m p n false = Some (host v, n)) /\
    (forall i, 0 <= i < n -> host (u32 (v + i)) = host v + i).

Lemma readable_advance vaddr len a : readable vaddr len -> 0 <= a -> readable (u32 (vaddr + a)) (len - a).
Proof.
  intros Hr Ha off n Ho Hn Hl. replace (u32 (u32 (vaddr + a) + off)) with (u32 (vaddr + (a + off))).
  - apply Hr; lia.
  - unfold u32. rewrite Zplus_mod_idemp_l. f_equal. lia.
Qed.

(** The character device takes all it is given. *)
Definition device_takes_all : Prop :=
  forall data w, exists w', h_chr_write H data w = (Z.of_nat (length data), w') /\ log w' = log w ++ data.

Definition guest_bytes (mem : Z -> Z) (vaddr len : Z) : list Z :=
  (fun i => mem (host (u32 (vaddr + i)))) <$> seqZ 0 len.

(** [s2] is [s1] with [data] sent and only a3 changed. *)
Definition sent (data : list Z) (s1 s2 : sim W) : Prop :=
  exists rs, s_machine s2 = with_env (set_regs rs env) (s_machine s1) /\
    (forall k, 0 <= k -> k <> 3 -> nthZ rs k = nthZ (regs (m_env (s_machine s1))) k) /\
    length rs = length (regs (m_env (s_machine s1))) /\
    s_console s2 = s_console s1 /\ log (s_world s2) = log (s_world s1) ++ data.

Lemma guest_bytes_split mem vaddr a b :
  0 <= a -> 0 <= b ->
  guest_bytes mem vaddr (a + b) = guest_bytes mem vaddr a ++ guest_bytes mem (u32 (vaddr + a)) b.
Proof.
  intros. unfold guest_bytes. rewrite seqZ_app, fmap_app by lia. f_equal.
  replace (seqZ (0 + a) b) with (Z.add a <$> seqZ 0 b) by (rewrite fmap_add_seqZ; f_equal; lia).
  rewrite <- list_fmap_compose. apply list_fmap_ext. intros i x _. cbn.
  f_equal. f_equal. unfold u32. rewrite Zplus_mod_idemp_l. f_equal. lia.
Qed.

Lemma guest_bytes_page mem vaddr n :
  (forall i, 0 <= i < n -> host (u32 (vaddr + i)) = host vaddr + i) ->
  (fun i => mem (host vaddr + i)) <$> seqZ 0 n = guest_bytes mem vaddr n.
Proof.
  intros Hh. unfold guest_bytes. apply list_fmap_ext. intros i x Hx.
  apply lookup_seqZ in Hx as [-> Hx]. f_equal. symmetry. apply Hh. lia.
Qed.

Definition at_env (s : sim W) : Prop := exists rs, m_env (s_machine s) = set_regs rs env.

Lemma sent_refl s : at_env s -> sent [] s s.
Proof.
  intros [rs Hs]. exists rs. destruct s as [m c w]; cbn in *. destruct m; cbn in *. subst.
  by rewrite app_nil_r.
Qed.
Lemma sent_trans d1 d2 s1 s2 s3 : sent d1 s1 s2 -> sent d2 s2 s3 -> sent (d1 ++ d2) s1 s3.
Proof.
  intros (r1 & E1 & K1 & L1 & C1 & G1) (r2 & E2 & K2 & L2 & C2 & G2). rewrite E1 in *. cbn in *.
  exists r2. rewrite E2, C2, C1, G2, G1, app_assoc. repeat split; [|by rewrite L2].
  intros k ? ?. by rewrite K2, K1.
Qed.
Lemma sent_at_env d s1 s2 : sent d s1 s2 -> at_env s2.
Proof. intros (rs & E & _). exists rs. by rewrite E. Qed.

(** One transfer of a page's part. *)
Lemma transfer_sends fd vaddr n s :
  (forall i, 0 <= i < n -> host (u32 (vaddr + i)) = host vaddr + i) -> device_takes_all -> at_env s -> fd = 1 \/ fd = 2 -> s_console s <> None ->
  0 <= vaddr < 2 ^ 32 -> 0 < n -> vaddr mod TARGET_PAGE_SIZE + n <= TARGET_PAGE_SIZE ->
  exists s', transfer H true fd (host vaddr) n n s = Done n s' /\
    sent (guest_bytes (m_mem (s_machine s)) vaddr n) s s'.
Proof.
  intros Hr Hd [rs Hs] Hfd Hc Hv Hn Hp. destruct s as [m c w]. cbn in Hs, Hc.
  destruct c as [c|]; [|done]. unfold transfer, buffer_bytes.
  assert (Ef : (fd <? 3) = true /\ ((fd =? 1) || (fd =? 2)) = true) by (destruct Hfd; by subst).
  destruct Ef as [Ef1 Ef2]. unfold bind at 1. cbn [gets s_console]. rewrite Ef1. cbn [andb]. rewrite Ef2.
  unfold massert. rewrite Z.leb_refl. unfold bind, gets, ret, call; cbn [s_machine s_world].
  rewrite guest_bytes_page by (done || lia).
  set (data := guest_bytes (m_mem m) vaddr n). destruct (Hd data w) as (w' & Ew & Lw). unfold bind, gets. cbn [s_world]. rewrite Ew.
  assert (Hl : Z.of_nat (length data) = n).
  { unfold data, guest_bytes. rewrite length_fmap, length_seqZ. lia. }
  cbn. eexists. split; [rewrite Hl; unfold u32; rewrite Z.mod_small; [done|]|].
  { pose proof (Z.mod_pos_bound vaddr 4096). lia. }
  eexists. cbn. split; [by rewrite Hs|]. rewrite Hs; cbn. repeat split; [|by rewrite length_setZ|done].
  intros k ? ?. by rewrite nthZ_setZ_ne by lia.
Qed.

Lemma rw_loop_sends fuel fd vaddr len len_done s :
  device_takes_all -> readable vaddr len -> at_env s -> fd = 1 \/ fd = 2 -> s_console s <> None ->
  0 <= vaddr < 2 ^ 32 -> 0 <= len <= Z.of_nat fuel -> 0 <= len_done -> len_done + len < 2 ^ 32 ->
  exists s', rw_loop H config ldl fuel true fd vaddr len len_done s = Done (len_done + len) s' /\
    sent (guest_bytes (m_mem (s_machine s)) vaddr len) s s'.
Proof.
  intros Hd. revert vaddr len len_done s.
  induction fuel as [|fuel IH]; intros vaddr len done s Hr Hs Hfd Hc Hv Hlen Hd0 Hb; cbn [rw_loop].
  { assert (len = 0) as -> by lia. exists s. rewrite Z.add_0_r. by split; [|apply sent_refl]. }
  destruct (Z.ltb_spec 0 len); [|assert (len = 0) as -> by lia; exists s; rewrite Z.add_0_r;
    by split; [|apply sent_refl]].
  change (TARGET_PAGE_SIZE - 1) with (2 ^ 12 - 1). rewrite land_ones_mod by lia.
  change (2 ^ 12) with TARGET_PAGE_SIZE.
  pose proof (Z.mod_pos_bound vaddr TARGET_PAGE_SIZE ltac:(done)) as Hm.
  set (io_sz := if _ <? len then _ else _).
  assert (Hio : 0 < io_sz <= len /\ vaddr mod TARGET_PAGE_SIZE + io_sz <= TARGET_PAGE_SIZE).
  { subst io_sz. destruct (Z.ltb_spec (TARGET_PAGE_SIZE - vaddr mod TARGET_PAGE_SIZE) len); lia. }
  pose proof Hs as [rs Ers].
  destruct (Hr 0 io_sz) as [Hmap Hhost]; [lia..|rewrite Z.add_0_r, u32_small by done; lia|].
  rewrite Z.add_0_r, u32_small in Hmap, Hhost by done.
  destruct (Hmap rs) as (p & Ep & Em).
  unfold bind at 1, phys. rewrite Ers, Ep.
  assert (Es : with_machine (with_env (set_regs rs env) (s_machine s)) s = s)
    by (rewrite <- Ers; by destruct s as [[]]). rewrite Es.
  unfold bind at 1, gets. cbn [negb]. rewrite Em.
  destruct (transfer_sends fd vaddr io_sz s) as (s1 & E1 & S1); [done..|lia|lia|].
  unfold bind at 1. rewrite E1.
  assert (Hsmall : io_sz <= 4096) by lia.
  change (u32 (-1)) with 4294967295. rewrite (proj2 (Z.eqb_neq _ _)) by lia. rewrite Z.ltb_irrefl.
  rewrite (u32_small (done + io_sz)), (u32_small (len - io_sz)) by (unfold in32; lia).
  pose proof S1 as (rs1 & M1 & _ & _ & C1 & _).
  destruct (IH (u32 (vaddr + io_sz)) (len - io_sz) (done + io_sz) s1) as (s2 & E2 & S2).
  { apply readable_advance; [done|lia]. } { by eapply sent_at_env. } { done. } { by rewrite C1. } { by apply Z.mod_pos_bound. } { lia. } { lia. } { lia. }
  exists s2. rewrite E2. split; [f_equal; lia|].
  replace len with (io_sz + (len - io_sz)) at 1 by lia. rewrite guest_bytes_split by lia.
  apply sent_trans with s1; [done|]. by rewrite M1 in S2.
Qed.

(** C30: SYS_write to the console's standard output or error, for a buffer of [len]
    bytes whose pages are mapped and readable by the host ([readable], which says
    nothing of other addresses) and a character device that takes all it is given
    ([device_takes_all]): it sends exactly the bytes of the guest's buffer, in order
    and across the pages it spans (wrapping at the end of the address space), to the
    device, returns [len] in a2, and changes nothing else but a3. *)
Theorem console_write_exact (s : sim W) (vaddr len : Z) :
  readable vaddr len -> device_takes_all -> m_env (s_machine s) = env -> s_console s <> None ->
  length (regs env) = 16%nat ->
  0 <= vaddr < 2 ^ 32 -> 0 <= len < 2 ^ 32 ->
  nthZ (regs env) 2 = TARGET_SYS_write -> nthZ (regs env) 3 = 1 \/ nthZ (regs env) 3 = 2 ->
  nthZ (regs env) 4 = vaddr -> nthZ (regs env) 5 = len ->
  exists s' rs, simcall H config ldl s = Done None s' /\
    s_machine s' = with_env (set_regs rs env) (s_machine s) /\ s_console s' = s_console s /\
    nthZ rs 2 = len /\ (forall k, 0 <= k < 16 -> k <> 2 -> k <> 3 -> nthZ rs k = nthZ (regs env) k) /\
    log (s_world s') = log (s_world s) ++ guest_bytes (m_mem (s_machine s)) vaddr len.
Proof.
  intros Hr Hd He Hc Hl16 Hv Hlen E2 E3 E4 E5.
  unfold simcall, reg. unfold bind at 1, gets at 1. rewrite He, E2. cbn -[sys_rw].
  unfold sys_rw, reg. unfold bind, gets. rewrite He, E4, E5.
  destruct (rw_loop_sends (Z.to_nat len) (nthZ (regs env) 3) vaddr len 0 s) as (s1 & -> & rs & M1 & K1 & L1 & C1 & G1);
    [done|done| |done|done|done|lia|lia|lia|].
  { exists (regs env). rewrite He. by destruct env. }
  rewrite He in *. cbn. eexists _, (setZ rs 2 (u32 len)). rewrite M1. cbn.
  split; [reflexivity|]. cbn. repeat split; try done.
  - rewrite nthZ_setZ_eq by lia. by apply u32_small.
  - intros k ? ? ?. rewrite nthZ_setZ_ne by lia. by apply K1; [lia|].
Qed.
End console_write.

(** A host whose memory is the guest's and whose device collects what it is given. *)
Definition collecting_host : Host (list Z) :=
  mkHost _ (fun _ => 0) (fun _ d w => (Z.of_nat (length d), w)) (fun _ _ w => (0, [], w)) (fun _ _ _ w => (-1, w))
    (fun _ w => (0, w)) (fun _ _ _ w => (-1, w)) (fun _ _ _ w => (0, w))
    (fun d w => (Z.of_nat (length d), w ++ d)) (fun _ w => ([], w)) [[112; 114; 103]; [45; 118]]
    (fun _ p n _ => Some (p, n)) (fun m a n => Some ((fun i => m_mem m (a + i)) <$> seqZ 0 n))
    (fun a d m => with_mem (fun x => if (a <=? x) && (x <? a + Z.of_nat (length d)) then nthZ d (x - a) else m_mem m x) m).

Definition semi_sim (a2 a3 a4 a5 : Z) : sim (list Z) :=
  mkSim (machine_of (set_regs ([0; 1; a2; a3; a4; a5] ++ replicate 10 0) zero_env) (fun a => a mod 256) tie_zero)
    (Some (mkConsole (replicate 16 0) 0)) [].

Lemma collecting_host_readable env :
  readable collecting_host trap_config (fun _ => None) env (fun v => v) 0x3fc88ffd 6.
Proof.
  intros off n Ho Hn Hl v _. assert (Ev : v = 0x3fc88ffd + off) by (unfold v; apply u32_small; unfold in32; lia). split.
  - intros rs. exists v. by split.
  - intros i Hi. rewrite Ev. apply u32_small. unfold in32; lia.
Qed.

Lemma console_write_exact_witness :
  let s := semi_sim 4 1 0x3fc88ffd 6 in
  guest_bytes (fun v => v) (m_mem (s_machine s)) 0x3fc88ffd 6 = [0xfd; 0xfe; 0xff; 0; 1; 2] /\
  exists s' rs, simcall collecting_host trap_config (fun _ => None) s = Done None s' /\
    s_machine s' = with_env (set_regs rs (m_env (s_machine s))) (s_machine s) /\ s_console s' = s_console s /\
    nthZ rs 2 = 6 /\
    (forall k, 0 <= k < 16 -> k <> 2 -> k <> 3 -> nthZ rs k = nthZ (regs (m_env (s_machine s))) k) /\
    s_world s' = s_world s ++ guest_bytes (fun v => v) (m_mem (s_machine s)) 0x3fc88ffd 6.
Proof.
  intros s. split; [vm_compute; reflexivity|].
  apply (console_write_exact collecting_host trap_config (fun _ => None) (m_env (s_machine s)) (fun v => v) (fun w => w)
    s 0x3fc88ffd 6).
  - apply collecting_host_readable.
  - intros data w. by exists (w ++ data).
  - reflexivity.
  - discriminate.
  - reflexivity.
  - lia.
  - lia.
  - reflexivity.
  - by left.
  - reflexivity.
  - reflexivity.
Defined.

(** An argument block of the announced size: the pointers, their terminator and the
    strings. *)
Lemma argv_block_example :
  match simcall collecting_host trap_config (fun _ => None) (semi_sim 1002 0x3fc88000 0 0) with
  | Done None s =>
      argv_sz collecting_host = 19 /\
      (fun i => m_mem (s_machine s) (0x3fc88000 + i)) <$> seqZ 0 19 =
        [0x0c; 0x80; 0xc8; 0x3f; 0x10; 0x80; 0xc8; 0x3f; 0; 0; 0; 0; 112; 114; 103; 0; 45; 118; 0]
  | _ => False
  end.
Proof. by vm_compute. Qed.

(** A buffer that cannot be mapped is answered with 0 bytes done and not with -1. *)
Lemma unmapped_write_returns_0 :
  let H := mkHost (list Z) (fun _ => 0) (fun _ d w => (0, w)) (fun _ _ w => (0, [], w)) (fun _ _ _ w => (-1, w))
    (fun _ w => (0, w)) (fun _ _ _ w => (-1, w)) (fun _ _ _ w => (0, w)) (fun d w => (0, w)) (fun _ w => ([], w)) []
    (fun _ _ _ _ => None) (fun _ _ _ => None) (fun _ _ m => m) in
  match simcall H trap_config (fun _ => None) (semi_sim 4 1 0x3fc88000 6) with
  | Done None s => nthZ (regs (m_env (s_machine s))) 2 = 0 /\ nthZ (regs (m_env (s_machine s))) 3 = TARGET_EINVAL
  | _ => False
  end.
Proof. by vm_compute. Qed.
