(* ===== verification/Overlay.v ===== *)
(** * Core configurations ([target/xtensa/overlay_tool.h])

    A core is described by the macros of its [core-isa.h]; [overlay_tool.h] supplies
    the ones a header may leave out and expands them to the initialiser of an
    [XtensaConfig].  The macros are a map from names to expressions. *)

From stdpp Require Import strings gmap.
From S2P Require Import Prelude Cpu Interrupt Exception Window Tlb.

#[local] Open Scope mach_scope.
#[local] Open Scope string_scope.
#[local] Open Scope list_scope.
#[local] Open Scope Z_scope.

(** ** Macros *)

Inductive mop := OpAdd | OpMul | OpOr | OpLor | OpLand | OpGt | OpGe | OpLe.
Inductive mexpr :=
| Num (z : Z)
| Name (s : string)
| Text (s : string)  (** strings and lists, which nothing here reads *)
| Bin (op : mop) (a b : mexpr).

Abbreviation menv := (gmap string mexpr).

Definition mop_eval (op : mop) (x y : Z) : Z :=
  match op with
  | OpAdd => x + y
  | OpMul => x * y
  | OpOr => x ||| y
  | OpLor => b2z (truthy x || truthy y)
  | OpLand => b2z (truthy x && truthy y)
  | OpGt => b2z (y <? x)
  | OpGe => b2z (y <=? x)
  | OpLe => b2z (x <=? y)
  end.

(** The value of an expression; [None] when it uses a name that is no macro. *)
Fixpoint meval (fuel : nat) (e : menv) (x : mexpr) : option Z :=
  match fuel with
  | O => None
  | S fuel =>
      match x with
      | Num z => Some z
      | Text _ => None
      | Name s => e !! s ≫= meval fuel e
      | Bin op a b => x ← meval fuel e a; y ← meval fuel e b; Some (mop_eval op x y)
      end
  end.

(** Macros refer to each other at most this deep. *)
Definition macro_depth : nat := 16.
Definition value (e : menv) (x : mexpr) : option Z := meval macro_depth e x.
Definition macro (e : menv) (s : string) : option Z := value e (Name s).

(** [#define], [#ifndef] and [#if]; an unknown name counts as 0 in a condition. *)
Definition define (defs : list (string * mexpr)) (e : menv) : menv :=
  foldl (fun e d => <[d.1 := d.2]> e) e defs.
Definition ifndef (s : string) (defs : list (string * mexpr)) (e : menv) : menv :=
  match e !! s with Some _ => e | None => define defs e end.
Definition ifdef_true (x : mexpr) (defs : list (string * mexpr)) (e : menv) : menv :=
  if truthy (default 0 (value e x)) then define defs e else e.

(** ** Defaults *)

Definition fpu_defaults (e : menv) : menv :=
  define [("XCHAL_HAVE_DFPU", Bin OpLor (Bin OpLor (Name "XCHAL_HAVE_DFP") (Name "XCHAL_HAVE_DFPU_SINGLE_ONLY"))
                                (Name "XCHAL_HAVE_DFPU_SINGLE_DOUBLE"))] (
  ifndef "XCHAL_HAVE_DFPU_SINGLE_DOUBLE" [("XCHAL_HAVE_DFPU_SINGLE_DOUBLE", Name "XCHAL_HAVE_DFP")] (
  ifndef "XCHAL_HAVE_DFPU_SINGLE_ONLY" [("XCHAL_HAVE_DFPU_SINGLE_ONLY", Num 0)] (
  ifndef "XCHAL_HAVE_DFP" [("XCHAL_HAVE_DFP", Num 0)] (
  ifndef "XCHAL_HAVE_DEPBITS" [("XCHAL_HAVE_DEPBITS", Num 0)] e)))).

Definition feature_defaults (e : menv) : menv :=
  ifndef "XCHAL_HAVE_EXCLUSIVE" [("XCHAL_HAVE_EXCLUSIVE", Num 0)] (
  ifndef "XCHAL_HAVE_MPU" [("XCHAL_HAVE_MPU", Num 0)] (
  ifndef "XCHAL_HAVE_EXTERN_REGS" [("XCHAL_HAVE_EXTERN_REGS", Num 0)] (
  ifndef "XCHAL_LOOP_BUFFER_SIZE" [("XCHAL_LOOP_BUFFER_SIZE", Num 0)] (
  ifndef "XCHAL_HW_VERSION" [("XCHAL_HW_VERSION",
    Bin OpAdd (Bin OpMul (Name "XCHAL_HW_VERSION_MAJOR") (Num 100)) (Name "XCHAL_HW_VERSION_MINOR"))] (
  ifndef "XCHAL_RESET_VECTOR1_VADDR" [("XCHAL_RESET_VECTOR1_VADDR", Name "XCHAL_RESET_VECTOR_VADDR")] (
  ifndef "XCHAL_RESET_VECTOR0_VADDR" [("XCHAL_RESET_VECTOR0_VADDR", Name "XCHAL_RESET_VECTOR_VADDR")] (
  ifndef "XCHAL_HAVE_VECBASE" [("XCHAL_HAVE_VECBASE", Num 0); ("XCHAL_VECBASE_RESET_VADDR", Num 0)] (
  ifndef "XCHAL_UNALIGNED_LOAD_HW" [("XCHAL_UNALIGNED_LOAD_HW", Num 0)] (
  ifndef "XCHAL_HAVE_DIV32" [("XCHAL_HAVE_DIV32", Num 0)] e))))))))).

Definition window_defaults : menv -> menv :=
  ifndef "XCHAL_WINDOW_OF4_VECOFS"
    [("XCHAL_WINDOW_OF4_VECOFS", Num 0x00000000); ("XCHAL_WINDOW_UF4_VECOFS", Num 0x00000040);
     ("XCHAL_WINDOW_OF8_VECOFS", Num 0x00000080); ("XCHAL_WINDOW_UF8_VECOFS", Num 0x000000C0);
     ("XCHAL_WINDOW_OF12_VECOFS", Num 0x00000100); ("XCHAL_WINDOW_UF12_VECOFS", Num 0x00000140)].

(** The enumerators of [interrupt_type], and the names the headers use for them. *)
Definition inttype_names : menv -> menv :=
  define
    [("INTTYPE_LEVEL", Num 0); ("INTTYPE_EDGE", Num 1); ("INTTYPE_NMI", Num 2); ("INTTYPE_SOFTWARE", Num 3);
     ("INTTYPE_TIMER", Num 4); ("INTTYPE_DEBUG", Num 5); ("INTTYPE_WRITE_ERR", Num 6); ("INTTYPE_PROFILING", Num 7);
     ("INTTYPE_IDMA_DONE", Num 8); ("INTTYPE_IDMA_ERR", Num 9); ("INTTYPE_GS_ERR", Num 10);
     ("XTHAL_INTTYPE_EXTERN_LEVEL", Name "INTTYPE_LEVEL"); ("XTHAL_INTTYPE_EXTERN_EDGE", Name "INTTYPE_EDGE");
     ("XTHAL_INTTYPE_NMI", Name "INTTYPE_NMI"); ("XTHAL_INTTYPE_SOFTWARE", Name "INTTYPE_SOFTWARE");
     ("XTHAL_INTTYPE_TIMER", Name "INTTYPE_TIMER"); ("XTHAL_INTTYPE_TBD1", Name "INTTYPE_DEBUG");
     ("XTHAL_INTTYPE_TBD2", Name "INTTYPE_WRITE_ERR"); ("XTHAL_INTTYPE_WRITE_ERROR", Name "INTTYPE_WRITE_ERR");
     ("XTHAL_INTTYPE_PROFILING", Name "INTTYPE_PROFILING"); ("XTHAL_INTTYPE_IDMA_DONE", Name "INTTYPE_IDMA_DONE");
     ("XTHAL_INTTYPE_IDMA_ERR", Name "INTTYPE_IDMA_ERR"); ("XTHAL_INTTYPE_GS_ERR", Name "INTTYPE_GS_ERR")].

Definition nmi_default : menv -> menv :=
  ifndef "XCHAL_NMILEVEL" [("XCHAL_NMILEVEL", Bin OpAdd (Name "XCHAL_NUM_INTLEVELS") (Num 1))].

(** System memories, by the kind of memory management. *)
Definition sysmem_defaults (e : menv) : menv :=
  let mmu := truthy (default 0 (macro e "XCHAL_HAVE_PTP_MMU")) in
  ifndef "XCHAL_SYSRAM0_PADDR"
    [("XCHAL_SYSRAM0_PADDR", Num (if mmu then 0x00000000 else 0x60000000));
     ("XCHAL_SYSRAM0_SIZE", Num (if mmu then 0x08000000 else 0x04000000))] (
  ifndef "XCHAL_SYSROM0_PADDR"
    [("XCHAL_SYSROM0_PADDR", Num (if mmu then 0xfe000000 else 0x50000000));
     ("XCHAL_SYSROM0_SIZE", Num (if mmu then 0x02000000 else 0x04000000))] e).

Definition digits : list string :=
  ["0"; "1"; "2"; "3"; "4"; "5"; "6"; "7"; "8"; "9"; "10"; "11"; "12"; "13"; "14"; "15"; "16"; "17"; "18"; "19";
   "20"; "21"; "22"; "23"; "24"; "25"; "26"; "27"; "28"; "29"; "30"; "31"].

Definition each (n : nat) (f : Z -> string -> menv -> menv) (e : menv) : menv :=
  foldl (fun e p => f (Z.of_nat p.1) p.2 e) e (take n (zip (seq 0 32) digits)).

Definition level_defaults (e : menv) : menv :=
  each 8 (fun n d e =>
    if n <? 2 then e
    else ifdef_true (Bin OpLe (Bin OpAdd (Bin OpAdd (Name "XCHAL_NUM_INTLEVELS") (Name "XCHAL_HAVE_NMI")) (Num 1)) (Num n))
           [("XCHAL_INTLEVEL" +:+ d +:+ "_VECTOR_VADDR", Num 0)] e) e.

Definition interrupt_defaults : menv -> menv :=
  each 32 (fun n d =>
    ifdef_true (Bin OpLe (Name "XCHAL_NUM_INTERRUPTS") (Num n))
      [("XCHAL_INT" +:+ d +:+ "_LEVEL", Num 0); ("XCHAL_INT" +:+ d +:+ "_TYPE", Num 0)]).

Definition extint_defaults : menv -> menv :=
  each 32 (fun n d => ifdef_true (Bin OpLe (Name "XCHAL_NUM_EXTINTERRUPTS") (Num n)) [("XCHAL_EXTINT" +:+ d +:+ "_NUM", Num 0)]).

Definition MAX_NMEMORY : nat := 4.
Definition memory_defaults (name : string) : menv -> menv :=
  each MAX_NMEMORY (fun n d =>
    ifdef_true (Bin OpLe (Name ("XCHAL_NUM_" +:+ name)) (Num n))
      [("XCHAL_" +:+ name +:+ d +:+ "_PADDR", Num 0); ("XCHAL_" +:+ name +:+ d +:+ "_SIZE", Num 0)]).

Definition overlay_defaults (e : menv) : menv :=
  let e := window_defaults (feature_defaults (fpu_defaults e)) in
  let e := sysmem_defaults (nmi_default (inttype_names e)) in
  let e := extint_defaults (interrupt_defaults (level_defaults e)) in
  let e := define [("XTHAL_TIMER_UNCONFIGURED", Num 0)] e in
  foldl (fun e name => memory_defaults name e) e ["INSTROM"; "INSTRAM"; "DATAROM"; "DATARAM"].

(** ** Sections of the initialiser *)

Definition xtensa_options : list (mexpr * xtensa_option) := [
  (Name "XCHAL_HAVE_DENSITY", OPTION_CODE_DENSITY);
  (Name "XCHAL_HAVE_LOOPS", OPTION_LOOP);
  (Name "XCHAL_HAVE_ABSOLUTE_LITERALS", OPTION_EXTENDED_L32R);
  (Name "XCHAL_HAVE_MUL16", OPTION_16_BIT_IMUL);
  (Name "XCHAL_HAVE_MUL32", OPTION_32_BIT_IMUL);
  (Name "XCHAL_HAVE_MUL32_HIGH", OPTION_32_BIT_IMUL_HIGH);
  (Name "XCHAL_HAVE_DIV32", OPTION_32_BIT_IDIV);
  (Name "XCHAL_HAVE_MAC16", OPTION_MAC16);
  (Name "XCHAL_HAVE_NSA", OPTION_MISC_OP_NSA);
  (Name "XCHAL_HAVE_MINMAX", OPTION_MISC_OP_MINMAX);
  (Name "XCHAL_HAVE_SEXT", OPTION_MISC_OP_SEXT);
  (Name "XCHAL_HAVE_CLAMPS", OPTION_MISC_OP_CLAMPS);
  (Name "XCHAL_HAVE_CP", OPTION_COPROCESSOR);
  (Name "XCHAL_HAVE_BOOLEANS", OPTION_BOOLEAN);
  (Name "XCHAL_HAVE_FP", OPTION_FP_COPROCESSOR);
  (Name "XCHAL_HAVE_DFPU", OPTION_DFP_COPROCESSOR);
  (Name "XCHAL_HAVE_DFPU_SINGLE_ONLY", OPTION_DFPU_SINGLE_ONLY);
  (Name "XCHAL_HAVE_RELEASE_SYNC", OPTION_MP_SYNCHRO);
  (Name "XCHAL_HAVE_S32C1I", OPTION_CONDITIONAL_STORE);
  (Bin OpLor (Bin OpLand (Name "XCHAL_HAVE_S32C1I") (Bin OpGe (Name "XCHAL_HW_VERSION") (Num 230000))) (Name "XCHAL_HAVE_EXCLUSIVE"), OPTION_ATOMCTL);
  (Name "XCHAL_HAVE_DEPBITS", OPTION_DEPBITS);
  (Name "XCHAL_HAVE_EXCEPTIONS", OPTION_EXCEPTION);
  (Name "XCHAL_HAVE_VECBASE", OPTION_RELOCATABLE_VECTOR);
  (Name "XCHAL_UNALIGNED_LOAD_EXCEPTION", OPTION_UNALIGNED_EXCEPTION);
  (Name "XCHAL_HAVE_INTERRUPTS", OPTION_INTERRUPT);
  (Name "XCHAL_HAVE_HIGHPRI_INTERRUPTS", OPTION_HIGH_PRIORITY_INTERRUPT);
  (Name "XCHAL_HAVE_CCOUNT", OPTION_TIMER_INTERRUPT);
  (Name "XCHAL_ICACHE_SIZE", OPTION_ICACHE);
  (Name "XCHAL_ICACHE_LINE_LOCKABLE", OPTION_ICACHE_INDEX_LOCK);
  (Name "XCHAL_DCACHE_SIZE", OPTION_DCACHE);
  (Name "XCHAL_DCACHE_LINE_LOCKABLE", OPTION_DCACHE_INDEX_LOCK);
  (Name "XCHAL_UNALIGNED_LOAD_HW", OPTION_HW_ALIGNMENT);
  (Name "XCHAL_HAVE_MEM_ECC_PARITY", OPTION_MEMORY_ECC_PARITY);
  (Name "XCHAL_HAVE_MIMIC_CACHEATTR", OPTION_REGION_PROTECTION);
  (Name "XCHAL_HAVE_XLT_CACHEATTR", OPTION_REGION_TRANSLATION);
  (Name "XCHAL_HAVE_MPU", OPTION_MPU);
  (Name "XCHAL_HAVE_PTP_MMU", OPTION_MMU);
  (Name "XCHAL_HAVE_CACHEATTR", OPTION_CACHEATTR);
  (Name "XCHAL_HAVE_WINDOWED", OPTION_WINDOWED_REGISTER);
  (Name "XCHAL_HAVE_DEBUG", OPTION_DEBUG);
  (Bin OpGt (Name "XCHAL_NUM_MISC_REGS") (Num 0), OPTION_MISC_SR);
  (Name "XCHAL_HAVE_THREADPTR", OPTION_THREAD_POINTER);
  (Name "XCHAL_HAVE_PRID", OPTION_PROCESSOR_ID);
  (Name "XCHAL_HAVE_EXTERN_REGS", OPTION_EXTERN_REGS)].

Definition XTENSA_OPTIONS (e : menv) : option Z :=
  foldr (fun p acc => x ← value e p.1; m ← acc; Some ((if truthy x then xtensa_option_bit p.2 else 0) ||| m))
    (Some 0) xtensa_options.

Definition WINDOW_VECTORS (e : menv) : option (list Z) :=
  if truthy (default 0 (macro e "XCHAL_HAVE_WINDOWED")) then
    mapM (fun s => value e (Bin OpAdd (Name ("XCHAL_WINDOW_" +:+ s +:+ "_VECOFS")) (Name "XCHAL_WINDOW_VECTORS_VADDR")))
      ["OF4"; "UF4"; "OF8"; "UF8"; "OF12"; "UF12"]
  else Some [0; 0; 0; 0; 0; 0].

Definition EXCEPTION_VECTORS (e : menv) : option (list Z) :=
  reset ← mapM (macro e) ["XCHAL_RESET_VECTOR0_VADDR"; "XCHAL_RESET_VECTOR1_VADDR"];
  windows ← WINDOW_VECTORS e;
  rest ← mapM (macro e) ["XCHAL_KERNEL_VECTOR_VADDR"; "XCHAL_USER_VECTOR_VADDR"; "XCHAL_DOUBLEEXC_VECTOR_VADDR";
                         "XCHAL_DEBUG_VECTOR_VADDR"];
  Some (reset ++ [0] ++ windows ++ [0] ++ rest).

Definition numbered (e : menv) (l : list string) (pre post : string) : option (list Z) :=
  mapM (fun d => macro e (pre +:+ d +:+ post)) l.

Definition INTERRUPT_VECTORS (e : menv) : option (list Z) :=
  v ← numbered e ["2"; "3"; "4"; "5"; "6"; "7"] "XCHAL_INTLEVEL" "_VECTOR_VADDR"; Some ([0; 0] ++ v).
Definition LEVEL_MASKS (e : menv) : option (list Z) :=
  v ← numbered e ["1"; "2"; "3"; "4"; "5"; "6"; "7"] "XCHAL_INTLEVEL" "_MASK"; Some (0 :: v).
Definition INTTYPE_MASKS (e : menv) : option (interrupt_type -> Z) :=
  edge ← macro e "XCHAL_INTTYPE_MASK_EXTERN_EDGE";
  nmi ← macro e "XCHAL_INTTYPE_MASK_NMI";
  software ← macro e "XCHAL_INTTYPE_MASK_SOFTWARE";
  Some (fun t => match t with INTTYPE_EDGE => edge | INTTYPE_NMI => nmi | INTTYPE_SOFTWARE => software | _ => 0 end).

Definition inttypes : list interrupt_type :=
  [INTTYPE_LEVEL; INTTYPE_EDGE; INTTYPE_NMI; INTTYPE_SOFTWARE; INTTYPE_TIMER; INTTYPE_DEBUG; INTTYPE_WRITE_ERR;
   INTTYPE_PROFILING; INTTYPE_IDMA_DONE; INTTYPE_IDMA_ERR; INTTYPE_GS_ERR].
Definition INTERRUPT (e : menv) (d : string) : option (Z * interrupt_type) :=
  level ← macro e ("XCHAL_INT" +:+ d +:+ "_LEVEL");
  k ← macro e ("XCHAL_INT" +:+ d +:+ "_TYPE");
  t ← inttypes !! Z.to_nat k;
  Some (level, t).
Definition INTERRUPTS (e : menv) : option (list (Z * interrupt_type)) := mapM (INTERRUPT e) digits.
Definition TIMERINTS (e : menv) : option (list Z) := numbered e ["0"; "1"; "2"] "XCHAL_TIMER" "_INTERRUPT".
Definition EXTINTS (e : menv) : option (list Z) := numbered e digits "XCHAL_EXTINT" "_NUM".

(** The TLBs of a core with an MMU, with region protection, and with neither. *)
Definition region_tlb : xtensa_tlb := mkTlb 1 [8; 0; 0; 0; 0; 0; 0; 0; 0; 0] false 0.
Definition no_tlb : xtensa_tlb := mkTlb 0 [0; 0; 0; 0; 0; 0; 0; 0; 0; 0] false 0.

Record tlb_section := mkTlbSection {
  ts_itlb : xtensa_tlb; ts_dtlb : xtensa_tlb; ts_mpu_align : Z; ts_fg : Z; ts_bg : list xtensa_mpu_entry
}.
Definition TLB_SECTION (e : menv) : option tlb_section :=
  let on s := truthy (default 0 (macro e s)) in
  if on "XCHAL_HAVE_PTP_MMU" then
    i ← macro e "XCHAL_ITLB_ARF_ENTRIES_LOG2";
    d ← macro e "XCHAL_DTLB_ARF_ENTRIES_LOG2";
    w ← macro e "XCHAL_HAVE_SPANNING_WAY";
    Some (mkTlbSection (tlb_template 7 (lsl32 1 i) (truthy w)) (tlb_template 10 (lsl32 1 d) (truthy w)) 0 0 [])
  else if on "XCHAL_HAVE_XLT_CACHEATTR" || on "XCHAL_HAVE_MIMIC_CACHEATTR" then
    Some (mkTlbSection region_tlb region_tlb 0 0 [])
  else if on "XCHAL_HAVE_MPU" then
    (** without a background map of its own *)
    a ← macro e "XCHAL_MPU_ALIGN";
    n ← macro e "XCHAL_MPU_ENTRIES";
    Some (mkTlbSection no_tlb no_tlb a n [mkMpuEntry 0 0x00006700])
  else Some (mkTlbSection no_tlb no_tlb 0 0 []).

Definition memctl_mask_of (e : menv) : option Z :=
  isize ← macro e "XCHAL_ICACHE_SIZE";
  dsize ← macro e "XCHAL_DCACHE_SIZE";
  loops ← macro e "XCHAL_HAVE_LOOPS";
  buffer ← macro e "XCHAL_LOOP_BUFFER_SIZE";
  Some ((if truthy isize then 0x007c0000 else 0) ||| (if truthy dsize then 0x0003e000 ||| 0x00001f00 else 0)
        ||| 0x4 ||| 0x2 ||| (if truthy loops && truthy buffer then 0x1 else 0)).

Record XtensaMemory := mkMemory { mem_num : Z; location : list (Z * Z) }.
Definition MEM_LOCATION (e : menv) (name d : string) : option (Z * Z) :=
  a ← macro e ("XCHAL_" +:+ name +:+ d +:+ "_PADDR");
  s ← macro e ("XCHAL_" +:+ name +:+ d +:+ "_SIZE");
  Some (a, s).
(** More memories than the array holds stop the compilation. *)
Definition MEM_SECTION (e : menv) (name : string) : option XtensaMemory :=
  n ← macro e ("XCHAL_NUM_" +:+ name);
  locs ← mapM (MEM_LOCATION e name) ["0"; "1"; "2"; "3"];
  if n <=? Z.of_nat MAX_NMEMORY then Some (mkMemory n locs) else None.
Definition SYSMEM_SECTION (e : menv) (name : string) : option XtensaMemory :=
  l ← MEM_LOCATION e name "0"; Some (mkMemory 1 [l]).
Definition LOCAL_MEMORIES_SECTION (e : menv) : option (list XtensaMemory) :=
  local ← mapM (MEM_SECTION e) ["INSTROM"; "INSTRAM"; "DATAROM"; "DATARAM"];
  sys ← mapM (SYSMEM_SECTION e) ["SYSROM"; "SYSRAM"];
  Some (local ++ sys).

(** ** The configuration *)

Record core := mkCore {
  core_config : XtensaConfig;
  inst_fetch_width : Z;
  core_memories : list XtensaMemory;  (** instrom, instram, datarom, dataram, sysrom, sysram *)
  core_big_endian : bool
}.

Definition DEFAULT_SECTIONS (e : menv) : option core :=
  options ← XTENSA_OPTIONS e;
  nareg ← macro e "XCHAL_NUM_AREGS";
  xea ← macro e "XCHAL_XEA_VERSION";
  fetch ← macro e "XCHAL_INST_FETCH_WIDTH";
  size ← macro e "XCHAL_MAX_INSTRUCTION_SIZE";
  dfpu ← macro e "XCHAL_HAVE_DFPU";
  excm ← macro e "XCHAL_EXCM_LEVEL";
  vecbase ← macro e "XCHAL_VECBASE_RESET_VADDR";
  vectors ← EXCEPTION_VECTORS e;
  nint ← macro e "XCHAL_NUM_INTERRUPTS";
  nlevel ← value e (Bin OpAdd (Name "XCHAL_NUM_INTLEVELS") (Name "XCHAL_HAVE_NMI"));
  nmi ← macro e "XCHAL_NMILEVEL";
  ivectors ← INTERRUPT_VECTORS e;
  levels ← LEVEL_MASKS e;
  types ← INTTYPE_MASKS e;
  ints ← INTERRUPTS e;
  ntimers ← macro e "XCHAL_NUM_TIMERS";
  timers ← TIMERINTS e;
  next ← macro e "XCHAL_NUM_EXTINTERRUPTS";
  exts ← EXTINTS e;
  tlb ← TLB_SECTION e;
  debug ← macro e "XCHAL_DEBUGLEVEL";
  nib ← macro e "XCHAL_NUM_IBREAK";
  ndb ← macro e "XCHAL_NUM_DBREAK";
  iways ← macro e "XCHAL_ICACHE_WAYS";
  dways ← macro e "XCHAL_DCACHE_WAYS";
  dline ← macro e "XCHAL_DCACHE_LINESIZE";
  memctl ← memctl_mask_of e;
  memories ← LOCAL_MEMORIES_SECTION e;
  version ← macro e "XCHAL_HW_VERSION";
  id0 ← macro e "XCHAL_HW_CONFIGID0";
  id1 ← macro e "XCHAL_HW_CONFIGID1";
  be ← macro e "XCHAL_HAVE_BE";
  Some (mkCore
    (mkConfig options nareg excm (b2z (2 <=? xea)) size vecbase vectors nint nlevel nmi ivectors levels types ints ntimers
       timers next exts debug nib ndb iways dways memctl (id0, id1) (ts_itlb tlb) (ts_dtlb tlb) (ts_mpu_align tlb)
       (ts_fg tlb) (Z.of_nat (length (ts_bg tlb))) (ts_bg tlb) dline version (negb (truthy dfpu)))
    fetch memories (truthy be)).

Definition overlay (core_isa : list (string * mexpr)) : option core :=
  DEFAULT_SECTIONS (overlay_defaults (define core_isa ∅)).
