(* ===== verification/CoreIsaEsp.v ===== *)
(** * Configuration headers ([core-*/core-isa.h]): esp32, esp32s3, lx106

    The macros of each header in order, a table per 150 lines of the file. *)

From stdpp Require Import strings.
From S2P Require Import Prelude Overlay.

#[local] Open Scope string_scope.
#[local] Open Scope list_scope.
#[local] Open Scope Z_scope.

Definition esp32_core_isa_1 : list (string * mexpr) := [
  ("_XTENSA_CORE_CONFIGURATION_H", Text ""); ("XCHAL_HAVE_BE", Num 0);
  ("XCHAL_HAVE_WINDOWED", Num 1); ("XCHAL_NUM_AREGS", Num 64);
  ("XCHAL_NUM_AREGS_LOG2", Num 6); ("XCHAL_MAX_INSTRUCTION_SIZE", Num 3);
  ("XCHAL_HAVE_DEBUG", Num 1); ("XCHAL_HAVE_DENSITY", Num 1);
  ("XCHAL_HAVE_LOOPS", Num 1); ("XCHAL_LOOP_BUFFER_SIZE", Num 256);
  ("XCHAL_HAVE_NSA", Num 1); ("XCHAL_HAVE_MINMAX", Num 1);
  ("XCHAL_HAVE_SEXT", Num 1); ("XCHAL_HAVE_DEPBITS", Num 0);
  ("XCHAL_HAVE_CLAMPS", Num 1); ("XCHAL_HAVE_MUL16", Num 1);
  ("XCHAL_HAVE_MUL32", Num 1); ("XCHAL_HAVE_MUL32_HIGH", Num 1);
  ("XCHAL_HAVE_DIV32", Num 1); ("XCHAL_HAVE_L32R", Num 1);
  ("XCHAL_HAVE_ABSOLUTE_LITERALS", Num 0); ("XCHAL_HAVE_CONST16", Num 0);
  ("XCHAL_HAVE_ADDX", Num 1); ("XCHAL_HAVE_WIDE_BRANCHES", Num 0);
  ("XCHAL_HAVE_PREDICTED_BRANCHES", Num 0); ("XCHAL_HAVE_CALL4AND12", Num 1);
  ("XCHAL_HAVE_ABS", Num 1); ("XCHAL_HAVE_RELEASE_SYNC", Num 1);
  ("XCHAL_HAVE_S32C1I", Num 1); ("XCHAL_HAVE_SPECULATION", Num 0);
  ("XCHAL_HAVE_FULL_RESET", Num 1); ("XCHAL_NUM_CONTEXTS", Num 1);
  ("XCHAL_NUM_MISC_REGS", Num 4); ("XCHAL_HAVE_TAP_MASTER", Num 0);
  ("XCHAL_HAVE_PRID", Num 1); ("XCHAL_HAVE_EXTERN_REGS", Num 1);
  ("XCHAL_HAVE_MX", Num 0); ("XCHAL_HAVE_MP_INTERRUPTS", Num 0);
  ("XCHAL_HAVE_MP_RUNSTALL", Num 0); ("XCHAL_HAVE_PSO", Num 0);
  ("XCHAL_HAVE_PSO_CDM", Num 0); ("XCHAL_HAVE_PSO_FULL_RETENTION", Num 0);
  ("XCHAL_HAVE_THREADPTR", Num 1); ("XCHAL_HAVE_BOOLEANS", Num 1);
  ("XCHAL_HAVE_CP", Num 1); ("XCHAL_CP_MAXCFG", Num 8);
  ("XCHAL_HAVE_MAC16", Num 1); ("XCHAL_HAVE_FUSION", Num 0);
  ("XCHAL_HAVE_FUSION_FP", Num 0); ("XCHAL_HAVE_FUSION_LOW_POWER", Num 0);
  ("XCHAL_HAVE_FUSION_AES", Num 0); ("XCHAL_HAVE_FUSION_CONVENC", Num 0);
  ("XCHAL_HAVE_FUSION_LFSR_CRC", Num 0); ("XCHAL_HAVE_FUSION_BITOPS", Num 0);
  ("XCHAL_HAVE_FUSION_AVS", Num 0); ("XCHAL_HAVE_FUSION_16BIT_BASEBAND", Num 0);
  ("XCHAL_HAVE_FUSION_VITERBI", Num 0); ("XCHAL_HAVE_FUSION_SOFTDEMAP", Num 0);
  ("XCHAL_HAVE_HIFIPRO", Num 0); ("XCHAL_HAVE_HIFI4", Num 0);
  ("XCHAL_HAVE_HIFI4_VFPU", Num 0); ("XCHAL_HAVE_HIFI3", Num 0);
  ("XCHAL_HAVE_HIFI3_VFPU", Num 0); ("XCHAL_HAVE_HIFI2", Num 0);
  ("XCHAL_HAVE_HIFI2EP", Num 0); ("XCHAL_HAVE_HIFI_MINI", Num 0);
  ("XCHAL_HAVE_VECTORFPU2005", Num 0); ("XCHAL_HAVE_USER_DPFPU", Num 0);
  ("XCHAL_HAVE_USER_SPFPU", Num 0); ("XCHAL_HAVE_FP", Num 1);
  ("XCHAL_HAVE_FP_DIV", Num 1); ("XCHAL_HAVE_FP_RECIP", Num 1);
  ("XCHAL_HAVE_FP_SQRT", Num 1); ("XCHAL_HAVE_FP_RSQRT", Num 1);
  ("XCHAL_HAVE_DFP", Num 0); ("XCHAL_HAVE_DFP_DIV", Num 0);
  ("XCHAL_HAVE_DFP_RECIP", Num 0); ("XCHAL_HAVE_DFP_SQRT", Num 0);
  ("XCHAL_HAVE_DFP_RSQRT", Num 0); ("XCHAL_HAVE_DFP_ACCEL", Num 1);
  ("XCHAL_HAVE_DFP_accel", Name "XCHAL_HAVE_DFP_ACCEL"); ("XCHAL_HAVE_DFPU_SINGLE_ONLY", Num 1);
  ("XCHAL_HAVE_DFPU_SINGLE_DOUBLE", Num 0); ("XCHAL_HAVE_VECTRA1", Num 0);
  ("XCHAL_HAVE_VECTRALX", Num 0); ("XCHAL_HAVE_PDX4", Num 0);
  ("XCHAL_HAVE_CONNXD2", Num 0); ("XCHAL_HAVE_CONNXD2_DUALLSFLIX", Num 0);
  ("XCHAL_HAVE_BBE16", Num 0); ("XCHAL_HAVE_BBE16_RSQRT", Num 0);
  ("XCHAL_HAVE_BBE16_VECDIV", Num 0); ("XCHAL_HAVE_BBE16_DESPREAD", Num 0);
  ("XCHAL_HAVE_BBENEP", Num 0); ("XCHAL_HAVE_BSP3", Num 0);
  ("XCHAL_HAVE_BSP3_TRANSPOSE", Num 0); ("XCHAL_HAVE_SSP16", Num 0);
  ("XCHAL_HAVE_SSP16_VITERBI", Num 0); ("XCHAL_HAVE_TURBO16", Num 0);
  ("XCHAL_HAVE_BBP16", Num 0); ("XCHAL_HAVE_FLIX3", Num 0);
  ("XCHAL_HAVE_GRIVPEP", Num 0); ("XCHAL_HAVE_GRIVPEP_HISTOGRAM", Num 0);
  ("XCHAL_NUM_LOADSTORE_UNITS", Num 1); ("XCHAL_NUM_WRITEBUFFER_ENTRIES", Num 4);
  ("XCHAL_INST_FETCH_WIDTH", Num 4); ("XCHAL_DATA_WIDTH", Num 4);
  ("XCHAL_DATA_PIPE_DELAY", Num 2); ("XCHAL_CLOCK_GATING_GLOBAL", Num 1);
  ("XCHAL_CLOCK_GATING_FUNCUNIT", Num 1); ("XCHAL_UNALIGNED_LOAD_EXCEPTION", Num 0);
  ("XCHAL_UNALIGNED_STORE_EXCEPTION", Num 0); ("XCHAL_UNALIGNED_LOAD_HW", Num 1);
  ("XCHAL_UNALIGNED_STORE_HW", Num 1); ("XCHAL_SW_VERSION", Num 1100003);
  ("XCHAL_CORE_ID", Text "esp32_v3_49_prod")].

Definition esp32_core_isa_2 : list (string * mexpr) := [
  ("XCHAL_BUILD_UNIQUE_ID", Num 0x0005FE96); ("XCHAL_HW_CONFIGID0", Num 0xC2BCFFFE);
  ("XCHAL_HW_CONFIGID1", Num 0x1CC5FE96); ("XCHAL_HW_VERSION_NAME", Text "LX6.0.3");
  ("XCHAL_HW_VERSION_MAJOR", Num 2600); ("XCHAL_HW_VERSION_MINOR", Num 3);
  ("XCHAL_HW_VERSION", Num 260003); ("XCHAL_HW_REL_LX6", Num 1);
  ("XCHAL_HW_REL_LX6_0", Num 1); ("XCHAL_HW_REL_LX6_0_3", Num 1);
  ("XCHAL_HW_CONFIGID_RELIABLE", Num 1); ("XCHAL_HW_MIN_VERSION_MAJOR", Num 2600);
  ("XCHAL_HW_MIN_VERSION_MINOR", Num 3); ("XCHAL_HW_MIN_VERSION", Num 260003);
  ("XCHAL_HW_MAX_VERSION_MAJOR", Num 2600); ("XCHAL_HW_MAX_VERSION_MINOR", Num 3);
  ("XCHAL_HW_MAX_VERSION", Num 260003); ("XCHAL_ICACHE_LINESIZE", Num 4);
  ("XCHAL_DCACHE_LINESIZE", Num 4); ("XCHAL_ICACHE_LINEWIDTH", Num 2);
  ("XCHAL_DCACHE_LINEWIDTH", Num 2); ("XCHAL_ICACHE_SIZE", Num 0);
  ("XCHAL_DCACHE_SIZE", Num 0); ("XCHAL_DCACHE_IS_WRITEBACK", Num 0);
  ("XCHAL_DCACHE_IS_COHERENT", Num 0); ("XCHAL_HAVE_PREFETCH", Num 0);
  ("XCHAL_HAVE_PREFETCH_L1", Num 0); ("XCHAL_PREFETCH_CASTOUT_LINES", Num 0);
  ("XCHAL_PREFETCH_ENTRIES", Num 0); ("XCHAL_PREFETCH_BLOCK_ENTRIES", Num 0);
  ("XCHAL_HAVE_CACHE_BLOCKOPS", Num 0); ("XCHAL_HAVE_ICACHE_TEST", Num 0);
  ("XCHAL_HAVE_DCACHE_TEST", Num 0); ("XCHAL_HAVE_ICACHE_DYN_WAYS", Num 0);
  ("XCHAL_HAVE_DCACHE_DYN_WAYS", Num 0); ("XCHAL_HAVE_PIF", Num 1);
  ("XCHAL_HAVE_AXI", Num 0); ("XCHAL_HAVE_PIF_WR_RESP", Num 0);
  ("XCHAL_HAVE_PIF_REQ_ATTR", Num 0); ("XCHAL_ICACHE_SETWIDTH", Num 0);
  ("XCHAL_DCACHE_SETWIDTH", Num 0); ("XCHAL_ICACHE_WAYS", Num 1);
  ("XCHAL_DCACHE_WAYS", Num 1); ("XCHAL_ICACHE_LINE_LOCKABLE", Num 0);
  ("XCHAL_DCACHE_LINE_LOCKABLE", Num 0); ("XCHAL_ICACHE_ECC_PARITY", Num 0);
  ("XCHAL_DCACHE_ECC_PARITY", Num 0); ("XCHAL_ICACHE_ACCESS_SIZE", Num 1);
  ("XCHAL_DCACHE_ACCESS_SIZE", Num 1); ("XCHAL_DCACHE_BANKS", Num 0);
  ("XCHAL_CA_BITS", Num 4); ("XCHAL_NUM_INSTROM", Num 1);
  ("XCHAL_NUM_INSTRAM", Num 2); ("XCHAL_NUM_DATAROM", Num 1);
  ("XCHAL_NUM_DATARAM", Num 2); ("XCHAL_NUM_URAM", Num 0);
  ("XCHAL_NUM_XLMI", Num 1); ("XCHAL_INSTROM0_VADDR", Num 0x40800000);
  ("XCHAL_INSTROM0_PADDR", Num 0x40800000); ("XCHAL_INSTROM0_SIZE", Num 4194304);
  ("XCHAL_INSTROM0_ECC_PARITY", Num 0); ("XCHAL_INSTRAM0_VADDR", Num 0x40000000);
  ("XCHAL_INSTRAM0_PADDR", Num 0x40000000); ("XCHAL_INSTRAM0_SIZE", Num 4194304);
  ("XCHAL_INSTRAM0_ECC_PARITY", Num 0); ("XCHAL_INSTRAM1_VADDR", Num 0x40400000);
  ("XCHAL_INSTRAM1_PADDR", Num 0x40400000); ("XCHAL_INSTRAM1_SIZE", Num 4194304);
  ("XCHAL_INSTRAM1_ECC_PARITY", Num 0); ("XCHAL_DATAROM0_VADDR", Num 0x3F400000);
  ("XCHAL_DATAROM0_PADDR", Num 0x3F400000); ("XCHAL_DATAROM0_SIZE", Num 4194304);
  ("XCHAL_DATAROM0_ECC_PARITY", Num 0); ("XCHAL_DATAROM0_BANKS", Num 1);
  ("XCHAL_DATARAM0_VADDR", Num 0x3FF80000); ("XCHAL_DATARAM0_PADDR", Num 0x3FF80000);
  ("XCHAL_DATARAM0_SIZE", Num 524288); ("XCHAL_DATARAM0_ECC_PARITY", Num 0);
  ("XCHAL_DATARAM0_BANKS", Num 1); ("XCHAL_DATARAM1_VADDR", Num 0x3F800000);
  ("XCHAL_DATARAM1_PADDR", Num 0x3F800000); ("XCHAL_DATARAM1_SIZE", Num 4194304);
  ("XCHAL_DATARAM1_ECC_PARITY", Num 0); ("XCHAL_DATARAM1_BANKS", Num 1);
  ("XCHAL_XLMI0_VADDR", Num 0x3FF00000); ("XCHAL_XLMI0_PADDR", Num 0x3FF00000);
  ("XCHAL_XLMI0_SIZE", Num 524288)].

Definition esp32_core_isa_3 : list (string * mexpr) := [
  ("XCHAL_XLMI0_ECC_PARITY", Num 0); ("XCHAL_HAVE_IMEM_LOADSTORE", Num 1);
  ("XCHAL_HAVE_INTERRUPTS", Num 1); ("XCHAL_HAVE_HIGHPRI_INTERRUPTS", Num 1);
  ("XCHAL_HAVE_NMI", Num 1); ("XCHAL_HAVE_CCOUNT", Num 1);
  ("XCHAL_NUM_TIMERS", Num 3); ("XCHAL_NUM_INTERRUPTS", Num 32);
  ("XCHAL_NUM_INTERRUPTS_LOG2", Num 5); ("XCHAL_NUM_EXTINTERRUPTS", Num 26);
  ("XCHAL_NUM_INTLEVELS", Num 6); ("XCHAL_EXCM_LEVEL", Num 3);
  ("XCHAL_INTLEVEL1_MASK", Num 0x000637FF); ("XCHAL_INTLEVEL2_MASK", Num 0x00380000);
  ("XCHAL_INTLEVEL3_MASK", Num 0x28C08800); ("XCHAL_INTLEVEL4_MASK", Num 0x53000000);
  ("XCHAL_INTLEVEL5_MASK", Num 0x84010000); ("XCHAL_INTLEVEL6_MASK", Num 0x00000000);
  ("XCHAL_INTLEVEL7_MASK", Num 0x00004000); ("XCHAL_INTLEVEL1_ANDBELOW_MASK", Num 0x000637FF);
  ("XCHAL_INTLEVEL2_ANDBELOW_MASK", Num 0x003E37FF); ("XCHAL_INTLEVEL3_ANDBELOW_MASK", Num 0x28FEBFFF);
  ("XCHAL_INTLEVEL4_ANDBELOW_MASK", Num 0x7BFEBFFF); ("XCHAL_INTLEVEL5_ANDBELOW_MASK", Num 0xFFFFBFFF);
  ("XCHAL_INTLEVEL6_ANDBELOW_MASK", Num 0xFFFFBFFF); ("XCHAL_INTLEVEL7_ANDBELOW_MASK", Num 0xFFFFFFFF);
  ("XCHAL_INT0_LEVEL", Num 1); ("XCHAL_INT1_LEVEL", Num 1);
  ("XCHAL_INT2_LEVEL", Num 1); ("XCHAL_INT3_LEVEL", Num 1);
  ("XCHAL_INT4_LEVEL", Num 1); ("XCHAL_INT5_LEVEL", Num 1);
  ("XCHAL_INT6_LEVEL", Num 1); ("XCHAL_INT7_LEVEL", Num 1);
  ("XCHAL_INT8_LEVEL", Num 1); ("XCHAL_INT9_LEVEL", Num 1);
  ("XCHAL_INT10_LEVEL", Num 1); ("XCHAL_INT11_LEVEL", Num 3);
  ("XCHAL_INT12_LEVEL", Num 1); ("XCHAL_INT13_LEVEL", Num 1);
  ("XCHAL_INT14_LEVEL", Num 7); ("XCHAL_INT15_LEVEL", Num 3);
  ("XCHAL_INT16_LEVEL", Num 5); ("XCHAL_INT17_LEVEL", Num 1);
  ("XCHAL_INT18_LEVEL", Num 1); ("XCHAL_INT19_LEVEL", Num 2);
  ("XCHAL_INT20_LEVEL", Num 2); ("XCHAL_INT21_LEVEL", Num 2);
  ("XCHAL_INT22_LEVEL", Num 3); ("XCHAL_INT23_LEVEL", Num 3);
  ("XCHAL_INT24_LEVEL", Num 4); ("XCHAL_INT25_LEVEL", Num 4);
  ("XCHAL_INT26_LEVEL", Num 5); ("XCHAL_INT27_LEVEL", Num 3);
  ("XCHAL_INT28_LEVEL", Num 4); ("XCHAL_INT29_LEVEL", Num 3);
  ("XCHAL_INT30_LEVEL", Num 4); ("XCHAL_INT31_LEVEL", Num 5);
  ("XCHAL_DEBUGLEVEL", Num 6); ("XCHAL_HAVE_DEBUG_EXTERN_INT", Num 1);
  ("XCHAL_NMILEVEL", Num 7); ("XCHAL_INT0_TYPE", Name "XTHAL_INTTYPE_EXTERN_LEVEL");
  ("XCHAL_INT1_TYPE", Name "XTHAL_INTTYPE_EXTERN_LEVEL"); ("XCHAL_INT2_TYPE", Name "XTHAL_INTTYPE_EXTERN_LEVEL");
  ("XCHAL_INT3_TYPE", Name "XTHAL_INTTYPE_EXTERN_LEVEL"); ("XCHAL_INT4_TYPE", Name "XTHAL_INTTYPE_EXTERN_LEVEL");
  ("XCHAL_INT5_TYPE", Name "XTHAL_INTTYPE_EXTERN_LEVEL"); ("XCHAL_INT6_TYPE", Name "XTHAL_INTTYPE_TIMER");
  ("XCHAL_INT7_TYPE", Name "XTHAL_INTTYPE_SOFTWARE"); ("XCHAL_INT8_TYPE", Name "XTHAL_INTTYPE_EXTERN_LEVEL");
  ("XCHAL_INT9_TYPE", Name "XTHAL_INTTYPE_EXTERN_LEVEL"); ("XCHAL_INT10_TYPE", Name "XTHAL_INTTYPE_EXTERN_EDGE");
  ("XCHAL_INT11_TYPE", Name "XTHAL_INTTYPE_PROFILING"); ("XCHAL_INT12_TYPE", Name "XTHAL_INTTYPE_EXTERN_LEVEL");
  ("XCHAL_INT13_TYPE", Name "XTHAL_INTTYPE_EXTERN_LEVEL"); ("XCHAL_INT14_TYPE", Name "XTHAL_INTTYPE_NMI");
  ("XCHAL_INT15_TYPE", Name "XTHAL_INTTYPE_TIMER"); ("XCHAL_INT16_TYPE", Name "XTHAL_INTTYPE_TIMER");
  ("XCHAL_INT17_TYPE", Name "XTHAL_INTTYPE_EXTERN_LEVEL"); ("XCHAL_INT18_TYPE", Name "XTHAL_INTTYPE_EXTERN_LEVEL");
  ("XCHAL_INT19_TYPE", Name "XTHAL_INTTYPE_EXTERN_LEVEL"); ("XCHAL_INT20_TYPE", Name "XTHAL_INTTYPE_EXTERN_LEVEL");
  ("XCHAL_INT21_TYPE", Name "XTHAL_INTTYPE_EXTERN_LEVEL"); ("XCHAL_INT22_TYPE", Name "XTHAL_INTTYPE_EXTERN_EDGE");
  ("XCHAL_INT23_TYPE", Name "XTHAL_INTTYPE_EXTERN_LEVEL"); ("XCHAL_INT24_TYPE", Name "XTHAL_INTTYPE_EXTERN_LEVEL");
  ("XCHAL_INT25_TYPE", Name "XTHAL_INTTYPE_EXTERN_LEVEL"); ("XCHAL_INT26_TYPE", Name "XTHAL_INTTYPE_EXTERN_LEVEL");
  ("XCHAL_INT27_TYPE", Name "XTHAL_INTTYPE_EXTERN_LEVEL"); ("XCHAL_INT28_TYPE", Name "XTHAL_INTTYPE_EXTERN_EDGE");
  ("XCHAL_INT29_TYPE", Name "XTHAL_INTTYPE_SOFTWARE"); ("XCHAL_INT30_TYPE", Name "XTHAL_INTTYPE_EXTERN_EDGE");
  ("XCHAL_INT31_TYPE", Name "XTHAL_INTTYPE_EXTERN_LEVEL"); ("XCHAL_INTTYPE_MASK_UNCONFIGURED", Num 0x00000000);
  ("XCHAL_INTTYPE_MASK_SOFTWARE", Num 0x20000080); ("XCHAL_INTTYPE_MASK_EXTERN_EDGE", Num 0x50400400);
  ("XCHAL_INTTYPE_MASK_EXTERN_LEVEL", Num 0x8FBE333F); ("XCHAL_INTTYPE_MASK_TIMER", Num 0x00018040);
  ("XCHAL_INTTYPE_MASK_NMI", Num 0x00004000); ("XCHAL_INTTYPE_MASK_WRITE_ERROR", Num 0x00000000);
  ("XCHAL_INTTYPE_MASK_PROFILING", Num 0x00000800); ("XCHAL_TIMER0_INTERRUPT", Num 6);
  ("XCHAL_TIMER1_INTERRUPT", Num 15); ("XCHAL_TIMER2_INTERRUPT", Num 16);
  ("XCHAL_TIMER3_INTERRUPT", Name "XTHAL_TIMER_UNCONFIGURED"); ("XCHAL_NMI_INTERRUPT", Num 14);
  ("XCHAL_PROFILING_INTERRUPT", Num 11); ("XCHAL_INTLEVEL7_NUM", Num 14);
  ("XCHAL_EXTINT0_NUM", Num 0); ("XCHAL_EXTINT1_NUM", Num 1);
  ("XCHAL_EXTINT2_NUM", Num 2); ("XCHAL_EXTINT3_NUM", Num 3);
  ("XCHAL_EXTINT4_NUM", Num 4)].

Definition esp32_core_isa_4 : list (string * mexpr) := [
  ("XCHAL_EXTINT5_NUM", Num 5); ("XCHAL_EXTINT6_NUM", Num 8);
  ("XCHAL_EXTINT7_NUM", Num 9); ("XCHAL_EXTINT8_NUM", Num 10);
  ("XCHAL_EXTINT9_NUM", Num 12); ("XCHAL_EXTINT10_NUM", Num 13);
  ("XCHAL_EXTINT11_NUM", Num 14); ("XCHAL_EXTINT12_NUM", Num 17);
  ("XCHAL_EXTINT13_NUM", Num 18); ("XCHAL_EXTINT14_NUM", Num 19);
  ("XCHAL_EXTINT15_NUM", Num 20); ("XCHAL_EXTINT16_NUM", Num 21);
  ("XCHAL_EXTINT17_NUM", Num 22); ("XCHAL_EXTINT18_NUM", Num 23);
  ("XCHAL_EXTINT19_NUM", Num 24); ("XCHAL_EXTINT20_NUM", Num 25);
  ("XCHAL_EXTINT21_NUM", Num 26); ("XCHAL_EXTINT22_NUM", Num 27);
  ("XCHAL_EXTINT23_NUM", Num 28); ("XCHAL_EXTINT24_NUM", Num 30);
  ("XCHAL_EXTINT25_NUM", Num 31); ("XCHAL_INT0_EXTNUM", Num 0);
  ("XCHAL_INT1_EXTNUM", Num 1); ("XCHAL_INT2_EXTNUM", Num 2);
  ("XCHAL_INT3_EXTNUM", Num 3); ("XCHAL_INT4_EXTNUM", Num 4);
  ("XCHAL_INT5_EXTNUM", Num 5); ("XCHAL_INT8_EXTNUM", Num 6);
  ("XCHAL_INT9_EXTNUM", Num 7); ("XCHAL_INT10_EXTNUM", Num 8);
  ("XCHAL_INT12_EXTNUM", Num 9); ("XCHAL_INT13_EXTNUM", Num 10);
  ("XCHAL_INT14_EXTNUM", Num 11); ("XCHAL_INT17_EXTNUM", Num 12);
  ("XCHAL_INT18_EXTNUM", Num 13); ("XCHAL_INT19_EXTNUM", Num 14);
  ("XCHAL_INT20_EXTNUM", Num 15); ("XCHAL_INT21_EXTNUM", Num 16);
  ("XCHAL_INT22_EXTNUM", Num 17); ("XCHAL_INT23_EXTNUM", Num 18);
  ("XCHAL_INT24_EXTNUM", Num 19); ("XCHAL_INT25_EXTNUM", Num 20);
  ("XCHAL_INT26_EXTNUM", Num 21); ("XCHAL_INT27_EXTNUM", Num 22);
  ("XCHAL_INT28_EXTNUM", Num 23); ("XCHAL_INT30_EXTNUM", Num 24);
  ("XCHAL_INT31_EXTNUM", Num 25); ("XCHAL_XEA_VERSION", Num 2);
  ("XCHAL_HAVE_XEA1", Num 0); ("XCHAL_HAVE_XEA2", Num 1);
  ("XCHAL_HAVE_XEAX", Num 0); ("XCHAL_HAVE_EXCEPTIONS", Num 1);
  ("XCHAL_HAVE_HALT", Num 0); ("XCHAL_HAVE_BOOTLOADER", Num 0);
  ("XCHAL_HAVE_MEM_ECC_PARITY", Num 0); ("XCHAL_HAVE_VECTOR_SELECT", Num 1);
  ("XCHAL_HAVE_VECBASE", Num 1); ("XCHAL_VECBASE_RESET_VADDR", Num 0x40000000);
  ("XCHAL_VECBASE_RESET_PADDR", Num 0x40000000); ("XCHAL_RESET_VECBASE_OVERLAP", Num 0);
  ("XCHAL_RESET_VECTOR0_VADDR", Num 0x50000000); ("XCHAL_RESET_VECTOR0_PADDR", Num 0x50000000);
  ("XCHAL_RESET_VECTOR1_VADDR", Num 0x40000400); ("XCHAL_RESET_VECTOR1_PADDR", Num 0x40000400);
  ("XCHAL_RESET_VECTOR_VADDR", Num 0x40000400); ("XCHAL_RESET_VECTOR_PADDR", Num 0x40000400);
  ("XCHAL_USER_VECOFS", Num 0x00000340); ("XCHAL_USER_VECTOR_VADDR", Num 0x40000340);
  ("XCHAL_USER_VECTOR_PADDR", Num 0x40000340); ("XCHAL_KERNEL_VECOFS", Num 0x00000300);
  ("XCHAL_KERNEL_VECTOR_VADDR", Num 0x40000300); ("XCHAL_KERNEL_VECTOR_PADDR", Num 0x40000300);
  ("XCHAL_DOUBLEEXC_VECOFS", Num 0x000003C0); ("XCHAL_DOUBLEEXC_VECTOR_VADDR", Num 0x400003C0);
  ("XCHAL_DOUBLEEXC_VECTOR_PADDR", Num 0x400003C0); ("XCHAL_WINDOW_OF4_VECOFS", Num 0x00000000);
  ("XCHAL_WINDOW_UF4_VECOFS", Num 0x00000040); ("XCHAL_WINDOW_OF8_VECOFS", Num 0x00000080);
  ("XCHAL_WINDOW_UF8_VECOFS", Num 0x000000C0); ("XCHAL_WINDOW_OF12_VECOFS", Num 0x00000100);
  ("XCHAL_WINDOW_UF12_VECOFS", Num 0x00000140); ("XCHAL_WINDOW_VECTORS_VADDR", Num 0x40000000);
  ("XCHAL_WINDOW_VECTORS_PADDR", Num 0x40000000); ("XCHAL_INTLEVEL2_VECOFS", Num 0x00000180);
  ("XCHAL_INTLEVEL2_VECTOR_VADDR", Num 0x40000180); ("XCHAL_INTLEVEL2_VECTOR_PADDR", Num 0x40000180);
  ("XCHAL_INTLEVEL3_VECOFS", Num 0x000001C0); ("XCHAL_INTLEVEL3_VECTOR_VADDR", Num 0x400001C0);
  ("XCHAL_INTLEVEL3_VECTOR_PADDR", Num 0x400001C0); ("XCHAL_INTLEVEL4_VECOFS", Num 0x00000200);
  ("XCHAL_INTLEVEL4_VECTOR_VADDR", Num 0x40000200); ("XCHAL_INTLEVEL4_VECTOR_PADDR", Num 0x40000200);
  ("XCHAL_INTLEVEL5_VECOFS", Num 0x00000240); ("XCHAL_INTLEVEL5_VECTOR_VADDR", Num 0x40000240);
  ("XCHAL_INTLEVEL5_VECTOR_PADDR", Num 0x40000240); ("XCHAL_INTLEVEL6_VECOFS", Num 0x00000280);
  ("XCHAL_INTLEVEL6_VECTOR_VADDR", Num 0x40000280); ("XCHAL_INTLEVEL6_VECTOR_PADDR", Num 0x40000280);
  ("XCHAL_DEBUG_VECOFS", Name "XCHAL_INTLEVEL6_VECOFS"); ("XCHAL_DEBUG_VECTOR_VADDR", Name "XCHAL_INTLEVEL6_VECTOR_VADDR");
  ("XCHAL_DEBUG_VECTOR_PADDR", Name "XCHAL_INTLEVEL6_VECTOR_PADDR"); ("XCHAL_NMI_VECOFS", Num 0x000002C0);
  ("XCHAL_NMI_VECTOR_VADDR", Num 0x400002C0); ("XCHAL_NMI_VECTOR_PADDR", Num 0x400002C0);
  ("XCHAL_INTLEVEL7_VECOFS", Name "XCHAL_NMI_VECOFS"); ("XCHAL_INTLEVEL7_VECTOR_VADDR", Name "XCHAL_NMI_VECTOR_VADDR");
  ("XCHAL_INTLEVEL7_VECTOR_PADDR", Name "XCHAL_NMI_VECTOR_PADDR"); ("XCHAL_HAVE_DEBUG_ERI", Num 1);
  ("XCHAL_HAVE_DEBUG_APB", Num 1); ("XCHAL_HAVE_DEBUG_JTAG", Num 1);
  ("XCHAL_HAVE_OCD", Num 1); ("XCHAL_NUM_IBREAK", Num 2);
  ("XCHAL_NUM_DBREAK", Num 2); ("XCHAL_HAVE_OCD_DIR_ARRAY", Num 0);
  ("XCHAL_HAVE_OCD_LS32DDR", Num 1); ("XCHAL_HAVE_TRAX", Num 1);
  ("XCHAL_TRAX_MEM_SIZE", Num 16384); ("XCHAL_TRAX_MEM_SHAREABLE", Num 1);
  ("XCHAL_TRAX_ATB_WIDTH", Num 32); ("XCHAL_TRAX_TIME_WIDTH", Num 0);
  ("XCHAL_NUM_PERF_COUNTERS", Num 2)].

Definition esp32_core_isa_5 : list (string * mexpr) := [
  ("XCHAL_HAVE_TLBS", Num 1); ("XCHAL_HAVE_SPANNING_WAY", Num 1);
  ("XCHAL_SPANNING_WAY", Num 0); ("XCHAL_HAVE_IDENTITY_MAP", Num 1);
  ("XCHAL_HAVE_CACHEATTR", Num 0); ("XCHAL_HAVE_MIMIC_CACHEATTR", Num 1);
  ("XCHAL_HAVE_XLT_CACHEATTR", Num 0); ("XCHAL_HAVE_PTP_MMU", Num 0);
  ("XCHAL_MMU_ASID_BITS", Num 0); ("XCHAL_MMU_RINGS", Num 1);
  ("XCHAL_MMU_RING_BITS", Num 0)].

Definition esp32_core_isa : list (string * mexpr) :=
  esp32_core_isa_1 ++ esp32_core_isa_2 ++ esp32_core_isa_3 ++ esp32_core_isa_4 ++ esp32_core_isa_5.

Definition esp32s3_core_isa_1 : list (string * mexpr) := [
  ("_XTENSA_CORE_CONFIGURATION_H", Text ""); ("XCHAL_HAVE_BE", Num 0);
  ("XCHAL_HAVE_WINDOWED", Num 1); ("XCHAL_NUM_AREGS", Num 64);
  ("XCHAL_NUM_AREGS_LOG2", Num 6); ("XCHAL_MAX_INSTRUCTION_SIZE", Num 4);
  ("XCHAL_HAVE_DEBUG", Num 1); ("XCHAL_HAVE_DENSITY", Num 1);
  ("XCHAL_HAVE_LOOPS", Num 1); ("XCHAL_LOOP_BUFFER_SIZE", Num 256);
  ("XCHAL_HAVE_NSA", Num 1); ("XCHAL_HAVE_MINMAX", Num 1);
  ("XCHAL_HAVE_SEXT", Num 1); ("XCHAL_HAVE_DEPBITS", Num 0);
  ("XCHAL_HAVE_CLAMPS", Num 1); ("XCHAL_HAVE_MUL16", Num 1);
  ("XCHAL_HAVE_MUL32", Num 1); ("XCHAL_HAVE_MUL32_HIGH", Num 1);
  ("XCHAL_HAVE_DIV32", Num 1); ("XCHAL_HAVE_L32R", Num 1);
  ("XCHAL_HAVE_ABSOLUTE_LITERALS", Num 0); ("XCHAL_HAVE_CONST16", Num 0);
  ("XCHAL_HAVE_ADDX", Num 1); ("XCHAL_HAVE_EXCLUSIVE", Num 0);
  ("XCHAL_HAVE_WIDE_BRANCHES", Num 0); ("XCHAL_HAVE_PREDICTED_BRANCHES", Num 0);
  ("XCHAL_HAVE_CALL4AND12", Num 1); ("XCHAL_HAVE_ABS", Num 1);
  ("XCHAL_HAVE_RELEASE_SYNC", Num 1); ("XCHAL_HAVE_S32C1I", Num 1);
  ("XCHAL_HAVE_SPECULATION", Num 0); ("XCHAL_HAVE_FULL_RESET", Num 1);
  ("XCHAL_NUM_CONTEXTS", Num 1); ("XCHAL_NUM_MISC_REGS", Num 4);
  ("XCHAL_HAVE_TAP_MASTER", Num 0); ("XCHAL_HAVE_PRID", Num 1);
  ("XCHAL_HAVE_EXTERN_REGS", Num 1); ("XCHAL_HAVE_MX", Num 0);
  ("XCHAL_HAVE_MP_INTERRUPTS", Num 0); ("XCHAL_HAVE_MP_RUNSTALL", Num 0);
  ("XCHAL_HAVE_PSO", Num 0); ("XCHAL_HAVE_PSO_CDM", Num 0);
  ("XCHAL_HAVE_PSO_FULL_RETENTION", Num 0); ("XCHAL_HAVE_THREADPTR", Num 1);
  ("XCHAL_HAVE_BOOLEANS", Num 1); ("XCHAL_HAVE_CP", Num 1);
  ("XCHAL_CP_MAXCFG", Num 8); ("XCHAL_HAVE_MAC16", Num 1);
  ("XCHAL_HAVE_FUSION", Num 0); ("XCHAL_HAVE_FUSION_FP", Num 0);
  ("XCHAL_HAVE_FUSION_LOW_POWER", Num 0); ("XCHAL_HAVE_FUSION_AES", Num 0);
  ("XCHAL_HAVE_FUSION_CONVENC", Num 0); ("XCHAL_HAVE_FUSION_LFSR_CRC", Num 0);
  ("XCHAL_HAVE_FUSION_BITOPS", Num 0); ("XCHAL_HAVE_FUSION_AVS", Num 0);
  ("XCHAL_HAVE_FUSION_16BIT_BASEBAND", Num 0); ("XCHAL_HAVE_FUSION_VITERBI", Num 0);
  ("XCHAL_HAVE_FUSION_SOFTDEMAP", Num 0); ("XCHAL_HAVE_HIFIPRO", Num 0);
  ("XCHAL_HAVE_HIFI5", Num 0); ("XCHAL_HAVE_HIFI5_NN_MAC", Num 0);
  ("XCHAL_HAVE_HIFI5_VFPU", Num 0); ("XCHAL_HAVE_HIFI5_HP_VFPU", Num 0);
  ("XCHAL_HAVE_HIFI4", Num 0); ("XCHAL_HAVE_HIFI4_VFPU", Num 0);
  ("XCHAL_HAVE_HIFI3", Num 0); ("XCHAL_HAVE_HIFI3_VFPU", Num 0);
  ("XCHAL_HAVE_HIFI3Z", Num 0); ("XCHAL_HAVE_HIFI3Z_VFPU", Num 0);
  ("XCHAL_HAVE_HIFI2", Num 0); ("XCHAL_HAVE_HIFI2EP", Num 0);
  ("XCHAL_HAVE_HIFI_MINI", Num 0); ("XCHAL_HAVE_VECTORFPU2005", Num 0);
  ("XCHAL_HAVE_USER_DPFPU", Num 0); ("XCHAL_HAVE_USER_SPFPU", Num 0);
  ("XCHAL_HAVE_FP", Num 1); ("XCHAL_HAVE_FP_DIV", Num 1);
  ("XCHAL_HAVE_FP_RECIP", Num 1); ("XCHAL_HAVE_FP_SQRT", Num 1);
  ("XCHAL_HAVE_FP_RSQRT", Num 1); ("XCHAL_HAVE_DFP", Num 0);
  ("XCHAL_HAVE_DFP_DIV", Num 0); ("XCHAL_HAVE_DFP_RECIP", Num 0);
  ("XCHAL_HAVE_DFP_SQRT", Num 0); ("XCHAL_HAVE_DFP_RSQRT", Num 0);
  ("XCHAL_HAVE_DFP_ACCEL", Num 0); ("XCHAL_HAVE_DFP_accel", Name "XCHAL_HAVE_DFP_ACCEL");
  ("XCHAL_HAVE_DFPU_SINGLE_ONLY", Num 1); ("XCHAL_HAVE_DFPU_SINGLE_DOUBLE", Num 0);
  ("XCHAL_HAVE_VECTRA1", Num 0); ("XCHAL_HAVE_VECTRALX", Num 0);
  ("XCHAL_HAVE_FUSIONG", Num 0); ("XCHAL_HAVE_FUSIONG3", Num 0);
  ("XCHAL_HAVE_FUSIONG6", Num 0); ("XCHAL_HAVE_FUSIONG_SP_VFPU", Num 0);
  ("XCHAL_HAVE_FUSIONG_DP_VFPU", Num 0); ("XCHAL_FUSIONG_SIMD32", Num 0);
  ("XCHAL_HAVE_PDX", Num 0); ("XCHAL_PDX_SIMD32", Num 0);
  ("XCHAL_HAVE_PDX4", Num 0); ("XCHAL_HAVE_PDX8", Num 0);
  ("XCHAL_HAVE_PDX16", Num 0); ("XCHAL_HAVE_CONNXD2", Num 0);
  ("XCHAL_HAVE_CONNXD2_DUALLSFLIX", Num 0); ("XCHAL_HAVE_BBE16", Num 0);
  ("XCHAL_HAVE_BBE16_RSQRT", Num 0); ("XCHAL_HAVE_BBE16_VECDIV", Num 0);
  ("XCHAL_HAVE_BBE16_DESPREAD", Num 0); ("XCHAL_HAVE_BBENEP", Num 0);
  ("XCHAL_HAVE_BBENEP_SP_VFPU", Num 0); ("XCHAL_HAVE_BSP3", Num 0);
  ("XCHAL_HAVE_BSP3_TRANSPOSE", Num 0); ("XCHAL_HAVE_SSP16", Num 0);
  ("XCHAL_HAVE_SSP16_VITERBI", Num 0); ("XCHAL_HAVE_TURBO16", Num 0);
  ("XCHAL_HAVE_BBP16", Num 0); ("XCHAL_HAVE_FLIX3", Num 0);
  ("XCHAL_HAVE_GRIVPEP", Num 0); ("XCHAL_HAVE_GRIVPEP_HISTOGRAM", Num 0);
  ("XCHAL_HAVE_VISION", Num 0); ("XCHAL_VISION_SIMD16", Num 0);
  ("XCHAL_VISION_TYPE", Num 0)].

Definition esp32s3_core_isa_2 : list (string * mexpr) := [
  ("XCHAL_VISION_QUAD_MAC_TYPE", Num 0); ("XCHAL_HAVE_VISION_HISTOGRAM", Num 0);
  ("XCHAL_HAVE_VISION_SP_VFPU", Num 0); ("XCHAL_HAVE_VISION_HP_VFPU", Num 0);
  ("XCHAL_HAVE_VISIONC", Num 0); ("XCHAL_NUM_LOADSTORE_UNITS", Num 1);
  ("XCHAL_NUM_WRITEBUFFER_ENTRIES", Num 4); ("XCHAL_INST_FETCH_WIDTH", Num 4);
  ("XCHAL_DATA_WIDTH", Num 16); ("XCHAL_DATA_PIPE_DELAY", Num 1);
  ("XCHAL_CLOCK_GATING_GLOBAL", Num 1); ("XCHAL_CLOCK_GATING_FUNCUNIT", Num 1);
  ("XCHAL_UNALIGNED_LOAD_EXCEPTION", Num 0); ("XCHAL_UNALIGNED_STORE_EXCEPTION", Num 0);
  ("XCHAL_UNALIGNED_LOAD_HW", Num 1); ("XCHAL_UNALIGNED_STORE_HW", Num 1);
  ("XCHAL_SW_VERSION", Num 1200012); ("XCHAL_CORE_ID", Text "LX7_ESP32_S3_MP");
  ("XCHAL_BUILD_UNIQUE_ID", Num 0x00090F1F); ("XCHAL_HW_CONFIGID0", Num 0xC2F0FFFE);
  ("XCHAL_HW_CONFIGID1", Num 0x23090F1F); ("XCHAL_HW_VERSION_NAME", Text "LX7.0.12");
  ("XCHAL_HW_VERSION_MAJOR", Num 2700); ("XCHAL_HW_VERSION_MINOR", Num 12);
  ("XCHAL_HW_VERSION", Num 270012); ("XCHAL_HW_REL_LX7", Num 1);
  ("XCHAL_HW_REL_LX7_0", Num 1); ("XCHAL_HW_REL_LX7_0_12", Num 1);
  ("XCHAL_HW_CONFIGID_RELIABLE", Num 1); ("XCHAL_HW_MIN_VERSION_MAJOR", Num 2700);
  ("XCHAL_HW_MIN_VERSION_MINOR", Num 12); ("XCHAL_HW_MIN_VERSION", Num 270012);
  ("XCHAL_HW_MAX_VERSION_MAJOR", Num 2700); ("XCHAL_HW_MAX_VERSION_MINOR", Num 12);
  ("XCHAL_HW_MAX_VERSION", Num 270012); ("XCHAL_ICACHE_LINESIZE", Num 4);
  ("XCHAL_DCACHE_LINESIZE", Num 16); ("XCHAL_ICACHE_LINEWIDTH", Num 2);
  ("XCHAL_DCACHE_LINEWIDTH", Num 4); ("XCHAL_ICACHE_SIZE", Num 0);
  ("XCHAL_DCACHE_SIZE", Num 0); ("XCHAL_DCACHE_IS_WRITEBACK", Num 0);
  ("XCHAL_DCACHE_IS_COHERENT", Num 0); ("XCHAL_HAVE_PREFETCH", Num 0);
  ("XCHAL_HAVE_PREFETCH_L1", Num 0); ("XCHAL_PREFETCH_CASTOUT_LINES", Num 0);
  ("XCHAL_PREFETCH_ENTRIES", Num 0); ("XCHAL_PREFETCH_BLOCK_ENTRIES", Num 0);
  ("XCHAL_HAVE_CACHE_BLOCKOPS", Num 0); ("XCHAL_HAVE_ICACHE_TEST", Num 0);
  ("XCHAL_HAVE_DCACHE_TEST", Num 0); ("XCHAL_HAVE_ICACHE_DYN_WAYS", Num 0);
  ("XCHAL_HAVE_DCACHE_DYN_WAYS", Num 0); ("XCHAL_HAVE_PIF", Num 1);
  ("XCHAL_HAVE_AXI", Num 0); ("XCHAL_HAVE_AXI_ECC", Num 0);
  ("XCHAL_HAVE_ACELITE", Num 0); ("XCHAL_HAVE_PIF_WR_RESP", Num 0);
  ("XCHAL_HAVE_PIF_REQ_ATTR", Num 1); ("XCHAL_ICACHE_SETWIDTH", Num 0);
  ("XCHAL_DCACHE_SETWIDTH", Num 0); ("XCHAL_ICACHE_WAYS", Num 1);
  ("XCHAL_DCACHE_WAYS", Num 1); ("XCHAL_ICACHE_LINE_LOCKABLE", Num 0);
  ("XCHAL_DCACHE_LINE_LOCKABLE", Num 0); ("XCHAL_ICACHE_ECC_PARITY", Num 0);
  ("XCHAL_DCACHE_ECC_PARITY", Num 0); ("XCHAL_ICACHE_ECC_WIDTH", Num 1);
  ("XCHAL_DCACHE_ECC_WIDTH", Num 1); ("XCHAL_ICACHE_ACCESS_SIZE", Num 1);
  ("XCHAL_DCACHE_ACCESS_SIZE", Num 1); ("XCHAL_DCACHE_BANKS", Num 0);
  ("XCHAL_CA_BITS", Num 4); ("XCHAL_NUM_INSTROM", Num 0);
  ("XCHAL_NUM_INSTRAM", Num 1); ("XCHAL_NUM_DATAROM", Num 0);
  ("XCHAL_NUM_DATARAM", Num 1); ("XCHAL_NUM_URAM", Num 0);
  ("XCHAL_NUM_XLMI", Num 0); ("XCHAL_INSTRAM0_VADDR", Num 0x40000000);
  ("XCHAL_INSTRAM0_PADDR", Num 0x40000000); ("XCHAL_INSTRAM0_SIZE", Num 67108864);
  ("XCHAL_INSTRAM0_ECC_PARITY", Num 0); ("XCHAL_HAVE_INSTRAM0", Num 1);
  ("XCHAL_INSTRAM0_HAVE_IDMA", Num 0)].

Definition esp32s3_core_isa_3 : list (string * mexpr) := [
  ("XCHAL_DATARAM0_VADDR", Num 0x3C000000); ("XCHAL_DATARAM0_PADDR", Num 0x3C000000);
  ("XCHAL_DATARAM0_SIZE", Num 67108864); ("XCHAL_DATARAM0_ECC_PARITY", Num 0);
  ("XCHAL_DATARAM0_BANKS", Num 1); ("XCHAL_HAVE_DATARAM0", Num 1);
  ("XCHAL_DATARAM0_HAVE_IDMA", Num 0); ("XCHAL_HAVE_IDMA", Num 0);
  ("XCHAL_HAVE_IDMA_TRANSPOSE", Num 0); ("XCHAL_HAVE_IMEM_LOADSTORE", Num 1);
  ("XCHAL_HAVE_INTERRUPTS", Num 1); ("XCHAL_HAVE_HIGHPRI_INTERRUPTS", Num 1);
  ("XCHAL_HAVE_NMI", Num 1); ("XCHAL_HAVE_CCOUNT", Num 1);
  ("XCHAL_NUM_TIMERS", Num 3); ("XCHAL_NUM_INTERRUPTS", Num 32);
  ("XCHAL_NUM_INTERRUPTS_LOG2", Num 5); ("XCHAL_NUM_EXTINTERRUPTS", Num 26);
  ("XCHAL_NUM_INTLEVELS", Num 6); ("XCHAL_EXCM_LEVEL", Num 3);
  ("XCHAL_INTLEVEL1_MASK", Num 0x000637FF); ("XCHAL_INTLEVEL2_MASK", Num 0x00380000);
  ("XCHAL_INTLEVEL3_MASK", Num 0x28C08800); ("XCHAL_INTLEVEL4_MASK", Num 0x53000000);
  ("XCHAL_INTLEVEL5_MASK", Num 0x84010000); ("XCHAL_INTLEVEL6_MASK", Num 0x00000000);
  ("XCHAL_INTLEVEL7_MASK", Num 0x00004000); ("XCHAL_INTLEVEL1_ANDBELOW_MASK", Num 0x000637FF);
  ("XCHAL_INTLEVEL2_ANDBELOW_MASK", Num 0x003E37FF); ("XCHAL_INTLEVEL3_ANDBELOW_MASK", Num 0x28FEBFFF);
  ("XCHAL_INTLEVEL4_ANDBELOW_MASK", Num 0x7BFEBFFF); ("XCHAL_INTLEVEL5_ANDBELOW_MASK", Num 0xFFFFBFFF);
  ("XCHAL_INTLEVEL6_ANDBELOW_MASK", Num 0xFFFFBFFF); ("XCHAL_INTLEVEL7_ANDBELOW_MASK", Num 0xFFFFFFFF);
  ("XCHAL_INT0_LEVEL", Num 1); ("XCHAL_INT1_LEVEL", Num 1);
  ("XCHAL_INT2_LEVEL", Num 1); ("XCHAL_INT3_LEVEL", Num 1);
  ("XCHAL_INT4_LEVEL", Num 1); ("XCHAL_INT5_LEVEL", Num 1);
  ("XCHAL_INT6_LEVEL", Num 1); ("XCHAL_INT7_LEVEL", Num 1);
  ("XCHAL_INT8_LEVEL", Num 1); ("XCHAL_INT9_LEVEL", Num 1);
  ("XCHAL_INT10_LEVEL", Num 1); ("XCHAL_INT11_LEVEL", Num 3);
  ("XCHAL_INT12_LEVEL", Num 1); ("XCHAL_INT13_LEVEL", Num 1);
  ("XCHAL_INT14_LEVEL", Num 7); ("XCHAL_INT15_LEVEL", Num 3);
  ("XCHAL_INT16_LEVEL", Num 5); ("XCHAL_INT17_LEVEL", Num 1);
  ("XCHAL_INT18_LEVEL", Num 1); ("XCHAL_INT19_LEVEL", Num 2);
  ("XCHAL_INT20_LEVEL", Num 2); ("XCHAL_INT21_LEVEL", Num 2);
  ("XCHAL_INT22_LEVEL", Num 3); ("XCHAL_INT23_LEVEL", Num 3);
  ("XCHAL_INT24_LEVEL", Num 4); ("XCHAL_INT25_LEVEL", Num 4);
  ("XCHAL_INT26_LEVEL", Num 5); ("XCHAL_INT27_LEVEL", Num 3);
  ("XCHAL_INT28_LEVEL", Num 4); ("XCHAL_INT29_LEVEL", Num 3);
  ("XCHAL_INT30_LEVEL", Num 4); ("XCHAL_INT31_LEVEL", Num 5);
  ("XCHAL_DEBUGLEVEL", Num 6); ("XCHAL_HAVE_DEBUG_EXTERN_INT", Num 1);
  ("XCHAL_NMILEVEL", Num 7); ("XCHAL_INT0_TYPE", Name "XTHAL_INTTYPE_EXTERN_LEVEL");
  ("XCHAL_INT1_TYPE", Name "XTHAL_INTTYPE_EXTERN_LEVEL"); ("XCHAL_INT2_TYPE", Name "XTHAL_INTTYPE_EXTERN_LEVEL");
  ("XCHAL_INT3_TYPE", Name "XTHAL_INTTYPE_EXTERN_LEVEL"); ("XCHAL_INT4_TYPE", Name "XTHAL_INTTYPE_EXTERN_LEVEL");
  ("XCHAL_INT5_TYPE", Name "XTHAL_INTTYPE_EXTERN_LEVEL"); ("XCHAL_INT6_TYPE", Name "XTHAL_INTTYPE_TIMER");
  ("XCHAL_INT7_TYPE", Name "XTHAL_INTTYPE_SOFTWARE"); ("XCHAL_INT8_TYPE", Name "XTHAL_INTTYPE_EXTERN_LEVEL");
  ("XCHAL_INT9_TYPE", Name "XTHAL_INTTYPE_EXTERN_LEVEL"); ("XCHAL_INT10_TYPE", Name "XTHAL_INTTYPE_EXTERN_EDGE");
  ("XCHAL_INT11_TYPE", Name "XTHAL_INTTYPE_PROFILING"); ("XCHAL_INT12_TYPE", Name "XTHAL_INTTYPE_EXTERN_LEVEL");
  ("XCHAL_INT13_TYPE", Name "XTHAL_INTTYPE_EXTERN_LEVEL"); ("XCHAL_INT14_TYPE", Name "XTHAL_INTTYPE_NMI");
  ("XCHAL_INT15_TYPE", Name "XTHAL_INTTYPE_TIMER"); ("XCHAL_INT16_TYPE", Name "XTHAL_INTTYPE_TIMER");
  ("XCHAL_INT17_TYPE", Name "XTHAL_INTTYPE_EXTERN_LEVEL"); ("XCHAL_INT18_TYPE", Name "XTHAL_INTTYPE_EXTERN_LEVEL");
  ("XCHAL_INT19_TYPE", Name "XTHAL_INTTYPE_EXTERN_LEVEL"); ("XCHAL_INT20_TYPE", Name "XTHAL_INTTYPE_EXTERN_LEVEL");
  ("XCHAL_INT21_TYPE", Name "XTHAL_INTTYPE_EXTERN_LEVEL"); ("XCHAL_INT22_TYPE", Name "XTHAL_INTTYPE_EXTERN_EDGE");
  ("XCHAL_INT23_TYPE", Name "XTHAL_INTTYPE_EXTERN_LEVEL"); ("XCHAL_INT24_TYPE", Name "XTHAL_INTTYPE_EXTERN_LEVEL");
  ("XCHAL_INT25_TYPE", Name "XTHAL_INTTYPE_EXTERN_LEVEL"); ("XCHAL_INT26_TYPE", Name "XTHAL_INTTYPE_EXTERN_LEVEL");
  ("XCHAL_INT27_TYPE", Name "XTHAL_INTTYPE_EXTERN_LEVEL"); ("XCHAL_INT28_TYPE", Name "XTHAL_INTTYPE_EXTERN_EDGE");
  ("XCHAL_INT29_TYPE", Name "XTHAL_INTTYPE_SOFTWARE"); ("XCHAL_INT30_TYPE", Name "XTHAL_INTTYPE_EXTERN_EDGE");
  ("XCHAL_INT31_TYPE", Name "XTHAL_INTTYPE_EXTERN_LEVEL"); ("XCHAL_INTTYPE_MASK_UNCONFIGURED", Num 0x00000000);
  ("XCHAL_INTTYPE_MASK_SOFTWARE", Num 0x20000080); ("XCHAL_INTTYPE_MASK_EXTERN_EDGE", Num 0x50400400);
  ("XCHAL_INTTYPE_MASK_EXTERN_LEVEL", Num 0x8FBE333F); ("XCHAL_INTTYPE_MASK_TIMER", Num 0x00018040);
  ("XCHAL_INTTYPE_MASK_NMI", Num 0x00004000); ("XCHAL_INTTYPE_MASK_WRITE_ERROR", Num 0x00000000);
  ("XCHAL_INTTYPE_MASK_PROFILING", Num 0x00000800); ("XCHAL_INTTYPE_MASK_IDMA_DONE", Num 0x00000000);
  ("XCHAL_INTTYPE_MASK_IDMA_ERR", Num 0x00000000); ("XCHAL_INTTYPE_MASK_GS_ERR", Num 0x00000000);
  ("XCHAL_TIMER0_INTERRUPT", Num 6); ("XCHAL_TIMER1_INTERRUPT", Num 15);
  ("XCHAL_TIMER2_INTERRUPT", Num 16); ("XCHAL_TIMER3_INTERRUPT", Name "XTHAL_TIMER_UNCONFIGURED");
  ("XCHAL_NMI_INTERRUPT", Num 14); ("XCHAL_PROFILING_INTERRUPT", Num 11);
  ("XCHAL_INTLEVEL7_NUM", Num 14)].

Definition esp32s3_core_isa_4 : list (string * mexpr) := [
  ("XCHAL_EXTINT0_NUM", Num 0); ("XCHAL_EXTINT1_NUM", Num 1);
  ("XCHAL_EXTINT2_NUM", Num 2); ("XCHAL_EXTINT3_NUM", Num 3);
  ("XCHAL_EXTINT4_NUM", Num 4); ("XCHAL_EXTINT5_NUM", Num 5);
  ("XCHAL_EXTINT6_NUM", Num 8); ("XCHAL_EXTINT7_NUM", Num 9);
  ("XCHAL_EXTINT8_NUM", Num 10); ("XCHAL_EXTINT9_NUM", Num 12);
  ("XCHAL_EXTINT10_NUM", Num 13); ("XCHAL_EXTINT11_NUM", Num 14);
  ("XCHAL_EXTINT12_NUM", Num 17); ("XCHAL_EXTINT13_NUM", Num 18);
  ("XCHAL_EXTINT14_NUM", Num 19); ("XCHAL_EXTINT15_NUM", Num 20);
  ("XCHAL_EXTINT16_NUM", Num 21); ("XCHAL_EXTINT17_NUM", Num 22);
  ("XCHAL_EXTINT18_NUM", Num 23); ("XCHAL_EXTINT19_NUM", Num 24);
  ("XCHAL_EXTINT20_NUM", Num 25); ("XCHAL_EXTINT21_NUM", Num 26);
  ("XCHAL_EXTINT22_NUM", Num 27); ("XCHAL_EXTINT23_NUM", Num 28);
  ("XCHAL_EXTINT24_NUM", Num 30); ("XCHAL_EXTINT25_NUM", Num 31);
  ("XCHAL_INT0_EXTNUM", Num 0); ("XCHAL_INT1_EXTNUM", Num 1);
  ("XCHAL_INT2_EXTNUM", Num 2); ("XCHAL_INT3_EXTNUM", Num 3);
  ("XCHAL_INT4_EXTNUM", Num 4); ("XCHAL_INT5_EXTNUM", Num 5);
  ("XCHAL_INT8_EXTNUM", Num 6); ("XCHAL_INT9_EXTNUM", Num 7);
  ("XCHAL_INT10_EXTNUM", Num 8); ("XCHAL_INT12_EXTNUM", Num 9);
  ("XCHAL_INT13_EXTNUM", Num 10); ("XCHAL_INT14_EXTNUM", Num 11);
  ("XCHAL_INT17_EXTNUM", Num 12); ("XCHAL_INT18_EXTNUM", Num 13);
  ("XCHAL_INT19_EXTNUM", Num 14); ("XCHAL_INT20_EXTNUM", Num 15);
  ("XCHAL_INT21_EXTNUM", Num 16); ("XCHAL_INT22_EXTNUM", Num 17);
  ("XCHAL_INT23_EXTNUM", Num 18); ("XCHAL_INT24_EXTNUM", Num 19);
  ("XCHAL_INT25_EXTNUM", Num 20); ("XCHAL_INT26_EXTNUM", Num 21);
  ("XCHAL_INT27_EXTNUM", Num 22); ("XCHAL_INT28_EXTNUM", Num 23);
  ("XCHAL_INT30_EXTNUM", Num 24); ("XCHAL_INT31_EXTNUM", Num 25);
  ("XCHAL_XEA_VERSION", Num 2); ("XCHAL_HAVE_XEA1", Num 0);
  ("XCHAL_HAVE_XEA2", Num 1); ("XCHAL_HAVE_XEAX", Num 0);
  ("XCHAL_HAVE_EXCEPTIONS", Num 1); ("XCHAL_HAVE_HALT", Num 0);
  ("XCHAL_HAVE_BOOTLOADER", Num 0); ("XCHAL_HAVE_MEM_ECC_PARITY", Num 0);
  ("XCHAL_HAVE_VECTOR_SELECT", Num 1); ("XCHAL_HAVE_VECBASE", Num 1);
  ("XCHAL_VECBASE_RESET_VADDR", Num 0x40000000); ("XCHAL_VECBASE_RESET_PADDR", Num 0x40000000);
  ("XCHAL_RESET_VECBASE_OVERLAP", Num 0); ("XCHAL_RESET_VECTOR0_VADDR", Num 0x50000000);
  ("XCHAL_RESET_VECTOR0_PADDR", Num 0x50000000); ("XCHAL_RESET_VECTOR1_VADDR", Num 0x40000400);
  ("XCHAL_RESET_VECTOR1_PADDR", Num 0x40000400); ("XCHAL_RESET_VECTOR_VADDR", Num 0x40000400);
  ("XCHAL_RESET_VECTOR_PADDR", Num 0x40000400); ("XCHAL_USER_VECOFS", Num 0x00000340);
  ("XCHAL_USER_VECTOR_VADDR", Num 0x40000340); ("XCHAL_USER_VECTOR_PADDR", Num 0x40000340);
  ("XCHAL_KERNEL_VECOFS", Num 0x00000300); ("XCHAL_KERNEL_VECTOR_VADDR", Num 0x40000300);
  ("XCHAL_KERNEL_VECTOR_PADDR", Num 0x40000300); ("XCHAL_DOUBLEEXC_VECOFS", Num 0x000003C0);
  ("XCHAL_DOUBLEEXC_VECTOR_VADDR", Num 0x400003C0); ("XCHAL_DOUBLEEXC_VECTOR_PADDR", Num 0x400003C0);
  ("XCHAL_WINDOW_OF4_VECOFS", Num 0x00000000); ("XCHAL_WINDOW_UF4_VECOFS", Num 0x00000040);
  ("XCHAL_WINDOW_OF8_VECOFS", Num 0x00000080); ("XCHAL_WINDOW_UF8_VECOFS", Num 0x000000C0);
  ("XCHAL_WINDOW_OF12_VECOFS", Num 0x00000100); ("XCHAL_WINDOW_UF12_VECOFS", Num 0x00000140);
  ("XCHAL_WINDOW_VECTORS_VADDR", Num 0x40000000); ("XCHAL_WINDOW_VECTORS_PADDR", Num 0x40000000);
  ("XCHAL_INTLEVEL2_VECOFS", Num 0x00000180); ("XCHAL_INTLEVEL2_VECTOR_VADDR", Num 0x40000180);
  ("XCHAL_INTLEVEL2_VECTOR_PADDR", Num 0x40000180); ("XCHAL_INTLEVEL3_VECOFS", Num 0x000001C0);
  ("XCHAL_INTLEVEL3_VECTOR_VADDR", Num 0x400001C0); ("XCHAL_INTLEVEL3_VECTOR_PADDR", Num 0x400001C0);
  ("XCHAL_INTLEVEL4_VECOFS", Num 0x00000200); ("XCHAL_INTLEVEL4_VECTOR_VADDR", Num 0x40000200);
  ("XCHAL_INTLEVEL4_VECTOR_PADDR", Num 0x40000200); ("XCHAL_INTLEVEL5_VECOFS", Num 0x00000240);
  ("XCHAL_INTLEVEL5_VECTOR_VADDR", Num 0x40000240); ("XCHAL_INTLEVEL5_VECTOR_PADDR", Num 0x40000240);
  ("XCHAL_INTLEVEL6_VECOFS", Num 0x00000280); ("XCHAL_INTLEVEL6_VECTOR_VADDR", Num 0x40000280);
  ("XCHAL_INTLEVEL6_VECTOR_PADDR", Num 0x40000280); ("XCHAL_DEBUG_VECOFS", Name "XCHAL_INTLEVEL6_VECOFS");
  ("XCHAL_DEBUG_VECTOR_VADDR", Name "XCHAL_INTLEVEL6_VECTOR_VADDR"); ("XCHAL_DEBUG_VECTOR_PADDR", Name "XCHAL_INTLEVEL6_VECTOR_PADDR");
  ("XCHAL_NMI_VECOFS", Num 0x000002C0); ("XCHAL_NMI_VECTOR_VADDR", Num 0x400002C0);
  ("XCHAL_NMI_VECTOR_PADDR", Num 0x400002C0); ("XCHAL_INTLEVEL7_VECOFS", Name "XCHAL_NMI_VECOFS");
  ("XCHAL_INTLEVEL7_VECTOR_VADDR", Name "XCHAL_NMI_VECTOR_VADDR"); ("XCHAL_INTLEVEL7_VECTOR_PADDR", Name "XCHAL_NMI_VECTOR_PADDR");
  ("XCHAL_HAVE_DEBUG_ERI", Num 1); ("XCHAL_HAVE_DEBUG_APB", Num 0);
  ("XCHAL_HAVE_DEBUG_JTAG", Num 1); ("XCHAL_HAVE_OCD", Num 1);
  ("XCHAL_NUM_IBREAK", Num 2); ("XCHAL_NUM_DBREAK", Num 2);
  ("XCHAL_HAVE_OCD_DIR_ARRAY", Num 0); ("XCHAL_HAVE_OCD_LS32DDR", Num 1);
  ("XCHAL_HAVE_TRAX", Num 1); ("XCHAL_TRAX_MEM_SIZE", Num 16384);
  ("XCHAL_TRAX_MEM_SHAREABLE", Num 1); ("XCHAL_TRAX_ATB_WIDTH", Num 0);
  ("XCHAL_TRAX_TIME_WIDTH", Num 0); ("XCHAL_NUM_PERF_COUNTERS", Num 2)].

Definition esp32s3_core_isa_5 : list (string * mexpr) := [
  ("XCHAL_HAVE_TLBS", Num 1); ("XCHAL_HAVE_SPANNING_WAY", Num 1);
  ("XCHAL_SPANNING_WAY", Num 0); ("XCHAL_HAVE_IDENTITY_MAP", Num 1);
  ("XCHAL_HAVE_CACHEATTR", Num 0); ("XCHAL_HAVE_MIMIC_CACHEATTR", Num 1);
  ("XCHAL_HAVE_XLT_CACHEATTR", Num 0); ("XCHAL_HAVE_PTP_MMU", Num 0);
  ("XCHAL_MMU_ASID_BITS", Num 0); ("XCHAL_MMU_RINGS", Num 1);
  ("XCHAL_MMU_RING_BITS", Num 0); ("XCHAL_HAVE_MPU", Num 0);
  ("XCHAL_MPU_ENTRIES", Num 0); ("XCHAL_MPU_ALIGN_REQ", Num 1);
  ("XCHAL_MPU_BACKGROUND_ENTRIES", Num 0); ("XCHAL_MPU_BG_CACHEADRDIS", Num 0);
  ("XCHAL_MPU_ALIGN_BITS", Num 0); ("XCHAL_MPU_ALIGN", Num 0)].

Definition esp32s3_core_isa : list (string * mexpr) :=
  esp32s3_core_isa_1 ++ esp32s3_core_isa_2 ++ esp32s3_core_isa_3 ++ esp32s3_core_isa_4 ++ esp32s3_core_isa_5.

Definition lx106_core_isa_1 : list (string * mexpr) := [
  ("_XTENSA_CORE_CONFIGURATION_H", Text ""); ("XCHAL_HAVE_BE", Num 0);
  ("XCHAL_HAVE_WINDOWED", Num 0); ("XCHAL_NUM_AREGS", Num 16);
  ("XCHAL_NUM_AREGS_LOG2", Num 4); ("XCHAL_MAX_INSTRUCTION_SIZE", Num 3);
  ("XCHAL_HAVE_DEBUG", Num 1); ("XCHAL_HAVE_DENSITY", Num 1);
  ("XCHAL_HAVE_LOOPS", Num 0); ("XCHAL_HAVE_NSA", Num 1);
  ("XCHAL_HAVE_MINMAX", Num 0); ("XCHAL_HAVE_SEXT", Num 0);
  ("XCHAL_HAVE_CLAMPS", Num 0); ("XCHAL_HAVE_MUL16", Num 1);
  ("XCHAL_HAVE_MUL32", Num 1); ("XCHAL_HAVE_MUL32_HIGH", Num 0);
  ("XCHAL_HAVE_DIV32", Num 0); ("XCHAL_HAVE_L32R", Num 1);
  ("XCHAL_HAVE_ABSOLUTE_LITERALS", Num 1); ("XCHAL_HAVE_CONST16", Num 0);
  ("XCHAL_HAVE_ADDX", Num 1); ("XCHAL_HAVE_WIDE_BRANCHES", Num 0);
  ("XCHAL_HAVE_PREDICTED_BRANCHES", Num 0); ("XCHAL_HAVE_CALL4AND12", Num 0);
  ("XCHAL_HAVE_ABS", Num 1); ("XCHAL_HAVE_RELEASE_SYNC", Num 0);
  ("XCHAL_HAVE_S32C1I", Num 0); ("XCHAL_HAVE_SPECULATION", Num 0);
  ("XCHAL_HAVE_FULL_RESET", Num 1); ("XCHAL_NUM_CONTEXTS", Num 1);
  ("XCHAL_NUM_MISC_REGS", Num 0); ("XCHAL_HAVE_TAP_MASTER", Num 0);
  ("XCHAL_HAVE_PRID", Num 1); ("XCHAL_HAVE_EXTERN_REGS", Num 1);
  ("XCHAL_HAVE_MP_INTERRUPTS", Num 0); ("XCHAL_HAVE_MP_RUNSTALL", Num 0);
  ("XCHAL_HAVE_THREADPTR", Num 0); ("XCHAL_HAVE_BOOLEANS", Num 0);
  ("XCHAL_HAVE_CP", Num 0); ("XCHAL_CP_MAXCFG", Num 0);
  ("XCHAL_HAVE_MAC16", Num 0); ("XCHAL_HAVE_VECTORFPU2005", Num 0);
  ("XCHAL_HAVE_FP", Num 0); ("XCHAL_HAVE_DFP", Num 0);
  ("XCHAL_HAVE_DFP_accel", Num 0); ("XCHAL_HAVE_VECTRA1", Num 0);
  ("XCHAL_HAVE_VECTRALX", Num 0); ("XCHAL_HAVE_HIFIPRO", Num 0);
  ("XCHAL_HAVE_HIFI2", Num 0); ("XCHAL_HAVE_CONNXD2", Num 0);
  ("XCHAL_NUM_WRITEBUFFER_ENTRIES", Num 1); ("XCHAL_INST_FETCH_WIDTH", Num 4);
  ("XCHAL_DATA_WIDTH", Num 4); ("XCHAL_UNALIGNED_LOAD_EXCEPTION", Num 1);
  ("XCHAL_UNALIGNED_STORE_EXCEPTION", Num 1); ("XCHAL_UNALIGNED_LOAD_HW", Num 0);
  ("XCHAL_UNALIGNED_STORE_HW", Num 0); ("XCHAL_SW_VERSION", Num 800001);
  ("XCHAL_CORE_ID", Text "lx106"); ("XCHAL_BUILD_UNIQUE_ID", Num 0x0002B6F6);
  ("XCHAL_HW_CONFIGID0", Num 0xC28CDAFA); ("XCHAL_HW_CONFIGID1", Num 0x1082B6F6);
  ("XCHAL_HW_VERSION_NAME", Text "LX3.0.1"); ("XCHAL_HW_VERSION_MAJOR", Num 2300);
  ("XCHAL_HW_VERSION_MINOR", Num 1); ("XCHAL_HW_VERSION", Num 230001);
  ("XCHAL_HW_REL_LX3", Num 1); ("XCHAL_HW_REL_LX3_0", Num 1);
  ("XCHAL_HW_REL_LX3_0_1", Num 1); ("XCHAL_HW_CONFIGID_RELIABLE", Num 1);
  ("XCHAL_HW_MIN_VERSION_MAJOR", Num 2300); ("XCHAL_HW_MIN_VERSION_MINOR", Num 1);
  ("XCHAL_HW_MIN_VERSION", Num 230001); ("XCHAL_HW_MAX_VERSION_MAJOR", Num 2300);
  ("XCHAL_HW_MAX_VERSION_MINOR", Num 1); ("XCHAL_HW_MAX_VERSION", Num 230001);
  ("XCHAL_ICACHE_LINESIZE", Num 4); ("XCHAL_DCACHE_LINESIZE", Num 4);
  ("XCHAL_ICACHE_LINEWIDTH", Num 2); ("XCHAL_DCACHE_LINEWIDTH", Num 2);
  ("XCHAL_ICACHE_SIZE", Num 0); ("XCHAL_DCACHE_SIZE", Num 0);
  ("XCHAL_DCACHE_IS_WRITEBACK", Num 0); ("XCHAL_DCACHE_IS_COHERENT", Num 0);
  ("XCHAL_HAVE_PREFETCH", Num 0); ("XCHAL_HAVE_PIF", Num 1);
  ("XCHAL_ICACHE_SETWIDTH", Num 0)].

Definition lx106_core_isa_2 : list (string * mexpr) := [
  ("XCHAL_DCACHE_SETWIDTH", Num 0); ("XCHAL_ICACHE_WAYS", Num 1);
  ("XCHAL_DCACHE_WAYS", Num 1); ("XCHAL_ICACHE_LINE_LOCKABLE", Num 0);
  ("XCHAL_DCACHE_LINE_LOCKABLE", Num 0); ("XCHAL_ICACHE_ECC_PARITY", Num 0);
  ("XCHAL_DCACHE_ECC_PARITY", Num 0); ("XCHAL_ICACHE_ACCESS_SIZE", Num 1);
  ("XCHAL_DCACHE_ACCESS_SIZE", Num 1); ("XCHAL_CA_BITS", Num 4);
  ("XCHAL_NUM_INSTROM", Num 1); ("XCHAL_NUM_INSTRAM", Num 2);
  ("XCHAL_NUM_DATAROM", Num 1); ("XCHAL_NUM_DATARAM", Num 2);
  ("XCHAL_NUM_URAM", Num 0); ("XCHAL_NUM_XLMI", Num 1);
  ("XCHAL_INSTROM0_VADDR", Num 0x40200000); ("XCHAL_INSTROM0_PADDR", Num 0x40200000);
  ("XCHAL_INSTROM0_SIZE", Num 1048576); ("XCHAL_INSTROM0_ECC_PARITY", Num 0);
  ("XCHAL_INSTRAM0_VADDR", Num 0x40000000); ("XCHAL_INSTRAM0_PADDR", Num 0x40000000);
  ("XCHAL_INSTRAM0_SIZE", Num 1048576); ("XCHAL_INSTRAM0_ECC_PARITY", Num 0);
  ("XCHAL_INSTRAM1_VADDR", Num 0x40100000); ("XCHAL_INSTRAM1_PADDR", Num 0x40100000);
  ("XCHAL_INSTRAM1_SIZE", Num 1048576); ("XCHAL_INSTRAM1_ECC_PARITY", Num 0);
  ("XCHAL_DATAROM0_VADDR", Num 0x3FF40000); ("XCHAL_DATAROM0_PADDR", Num 0x3FF40000);
  ("XCHAL_DATAROM0_SIZE", Num 262144); ("XCHAL_DATAROM0_ECC_PARITY", Num 0);
  ("XCHAL_DATARAM0_VADDR", Num 0x3FFC0000); ("XCHAL_DATARAM0_PADDR", Num 0x3FFC0000);
  ("XCHAL_DATARAM0_SIZE", Num 262144); ("XCHAL_DATARAM0_ECC_PARITY", Num 0);
  ("XCHAL_DATARAM1_VADDR", Num 0x3FF80000); ("XCHAL_DATARAM1_PADDR", Num 0x3FF80000);
  ("XCHAL_DATARAM1_SIZE", Num 262144); ("XCHAL_DATARAM1_ECC_PARITY", Num 0);
  ("XCHAL_XLMI0_VADDR", Num 0x3FF00000); ("XCHAL_XLMI0_PADDR", Num 0x3FF00000);
  ("XCHAL_XLMI0_SIZE", Num 262144); ("XCHAL_XLMI0_ECC_PARITY", Num 0);
  ("XCHAL_HAVE_INTERRUPTS", Num 1); ("XCHAL_HAVE_HIGHPRI_INTERRUPTS", Num 1);
  ("XCHAL_HAVE_NMI", Num 1); ("XCHAL_HAVE_CCOUNT", Num 1);
  ("XCHAL_NUM_TIMERS", Num 1); ("XCHAL_NUM_INTERRUPTS", Num 15);
  ("XCHAL_NUM_INTERRUPTS_LOG2", Num 4); ("XCHAL_NUM_EXTINTERRUPTS", Num 13);
  ("XCHAL_NUM_INTLEVELS", Num 2); ("XCHAL_EXCM_LEVEL", Num 1);
  ("XCHAL_INTLEVEL1_MASK", Num 0x00003FFF); ("XCHAL_INTLEVEL2_MASK", Num 0x00000000);
  ("XCHAL_INTLEVEL3_MASK", Num 0x00004000); ("XCHAL_INTLEVEL4_MASK", Num 0x00000000);
  ("XCHAL_INTLEVEL5_MASK", Num 0x00000000); ("XCHAL_INTLEVEL6_MASK", Num 0x00000000);
  ("XCHAL_INTLEVEL7_MASK", Num 0x00000000); ("XCHAL_INTLEVEL1_ANDBELOW_MASK", Num 0x00003FFF);
  ("XCHAL_INTLEVEL2_ANDBELOW_MASK", Num 0x00003FFF); ("XCHAL_INTLEVEL3_ANDBELOW_MASK", Num 0x00007FFF);
  ("XCHAL_INTLEVEL4_ANDBELOW_MASK", Num 0x00007FFF); ("XCHAL_INTLEVEL5_ANDBELOW_MASK", Num 0x00007FFF);
  ("XCHAL_INTLEVEL6_ANDBELOW_MASK", Num 0x00007FFF); ("XCHAL_INTLEVEL7_ANDBELOW_MASK", Num 0x00007FFF);
  ("XCHAL_INT0_LEVEL", Num 1); ("XCHAL_INT1_LEVEL", Num 1);
  ("XCHAL_INT2_LEVEL", Num 1); ("XCHAL_INT3_LEVEL", Num 1);
  ("XCHAL_INT4_LEVEL", Num 1); ("XCHAL_INT5_LEVEL", Num 1);
  ("XCHAL_INT6_LEVEL", Num 1); ("XCHAL_INT7_LEVEL", Num 1);
  ("XCHAL_INT8_LEVEL", Num 1); ("XCHAL_INT9_LEVEL", Num 1);
  ("XCHAL_INT10_LEVEL", Num 1); ("XCHAL_INT11_LEVEL", Num 1);
  ("XCHAL_INT12_LEVEL", Num 1); ("XCHAL_INT13_LEVEL", Num 1);
  ("XCHAL_INT14_LEVEL", Num 3); ("XCHAL_DEBUGLEVEL", Num 2);
  ("XCHAL_HAVE_DEBUG_EXTERN_INT", Num 1); ("XCHAL_NMILEVEL", Num 3);
  ("XCHAL_INT0_TYPE", Name "XTHAL_INTTYPE_EXTERN_LEVEL"); ("XCHAL_INT1_TYPE", Name "XTHAL_INTTYPE_EXTERN_LEVEL");
  ("XCHAL_INT2_TYPE", Name "XTHAL_INTTYPE_EXTERN_LEVEL"); ("XCHAL_INT3_TYPE", Name "XTHAL_INTTYPE_EXTERN_LEVEL");
  ("XCHAL_INT4_TYPE", Name "XTHAL_INTTYPE_EXTERN_LEVEL"); ("XCHAL_INT5_TYPE", Name "XTHAL_INTTYPE_EXTERN_LEVEL");
  ("XCHAL_INT6_TYPE", Name "XTHAL_INTTYPE_TIMER"); ("XCHAL_INT7_TYPE", Name "XTHAL_INTTYPE_SOFTWARE");
  ("XCHAL_INT8_TYPE", Name "XTHAL_INTTYPE_EXTERN_EDGE"); ("XCHAL_INT9_TYPE", Name "XTHAL_INTTYPE_EXTERN_EDGE");
  ("XCHAL_INT10_TYPE", Name "XTHAL_INTTYPE_EXTERN_EDGE"); ("XCHAL_INT11_TYPE", Name "XTHAL_INTTYPE_EXTERN_EDGE");
  ("XCHAL_INT12_TYPE", Name "XTHAL_INTTYPE_EXTERN_EDGE"); ("XCHAL_INT13_TYPE", Name "XTHAL_INTTYPE_EXTERN_EDGE");
  ("XCHAL_INT14_TYPE", Name "XTHAL_INTTYPE_NMI")].

Definition lx106_core_isa_3 : list (string * mexpr) := [
  ("XCHAL_INTTYPE_MASK_UNCONFIGURED", Num 0xFFFF8000); ("XCHAL_INTTYPE_MASK_SOFTWARE", Num 0x00000080);
  ("XCHAL_INTTYPE_MASK_EXTERN_EDGE", Num 0x00003F00); ("XCHAL_INTTYPE_MASK_EXTERN_LEVEL", Num 0x0000003F);
  ("XCHAL_INTTYPE_MASK_TIMER", Num 0x00000040); ("XCHAL_INTTYPE_MASK_NMI", Num 0x00004000);
  ("XCHAL_INTTYPE_MASK_WRITE_ERROR", Num 0x00000000); ("XCHAL_TIMER0_INTERRUPT", Num 6);
  ("XCHAL_TIMER1_INTERRUPT", Name "XTHAL_TIMER_UNCONFIGURED"); ("XCHAL_TIMER2_INTERRUPT", Name "XTHAL_TIMER_UNCONFIGURED");
  ("XCHAL_TIMER3_INTERRUPT", Name "XTHAL_TIMER_UNCONFIGURED"); ("XCHAL_NMI_INTERRUPT", Num 14);
  ("XCHAL_INTLEVEL3_NUM", Num 14); ("XCHAL_EXTINT0_NUM", Num 0);
  ("XCHAL_EXTINT1_NUM", Num 1); ("XCHAL_EXTINT2_NUM", Num 2);
  ("XCHAL_EXTINT3_NUM", Num 3); ("XCHAL_EXTINT4_NUM", Num 4);
  ("XCHAL_EXTINT5_NUM", Num 5); ("XCHAL_EXTINT6_NUM", Num 8);
  ("XCHAL_EXTINT7_NUM", Num 9); ("XCHAL_EXTINT8_NUM", Num 10);
  ("XCHAL_EXTINT9_NUM", Num 11); ("XCHAL_EXTINT10_NUM", Num 12);
  ("XCHAL_EXTINT11_NUM", Num 13); ("XCHAL_EXTINT12_NUM", Num 14);
  ("XCHAL_XEA_VERSION", Num 2); ("XCHAL_HAVE_XEA1", Num 0);
  ("XCHAL_HAVE_XEA2", Num 1); ("XCHAL_HAVE_XEAX", Num 0);
  ("XCHAL_HAVE_EXCEPTIONS", Num 1); ("XCHAL_HAVE_MEM_ECC_PARITY", Num 0);
  ("XCHAL_HAVE_VECTOR_SELECT", Num 1); ("XCHAL_HAVE_VECBASE", Num 1);
  ("XCHAL_VECBASE_RESET_VADDR", Num 0x40000000); ("XCHAL_VECBASE_RESET_PADDR", Num 0x40000000);
  ("XCHAL_RESET_VECBASE_OVERLAP", Num 0); ("XCHAL_RESET_VECTOR0_VADDR", Num 0x50000000);
  ("XCHAL_RESET_VECTOR0_PADDR", Num 0x50000000); ("XCHAL_RESET_VECTOR1_VADDR", Num 0x40000080);
  ("XCHAL_RESET_VECTOR1_PADDR", Num 0x40000080); ("XCHAL_RESET_VECTOR_VADDR", Num 0x50000000);
  ("XCHAL_RESET_VECTOR_PADDR", Num 0x50000000); ("XCHAL_USER_VECOFS", Num 0x00000050);
  ("XCHAL_USER_VECTOR_VADDR", Num 0x40000050); ("XCHAL_USER_VECTOR_PADDR", Num 0x40000050);
  ("XCHAL_KERNEL_VECOFS", Num 0x00000030); ("XCHAL_KERNEL_VECTOR_VADDR", Num 0x40000030);
  ("XCHAL_KERNEL_VECTOR_PADDR", Num 0x40000030); ("XCHAL_DOUBLEEXC_VECOFS", Num 0x00000070);
  ("XCHAL_DOUBLEEXC_VECTOR_VADDR", Num 0x40000070); ("XCHAL_DOUBLEEXC_VECTOR_PADDR", Num 0x40000070);
  ("XCHAL_INTLEVEL2_VECOFS", Num 0x00000010); ("XCHAL_INTLEVEL2_VECTOR_VADDR", Num 0x40000010);
  ("XCHAL_INTLEVEL2_VECTOR_PADDR", Num 0x40000010); ("XCHAL_DEBUG_VECOFS", Name "XCHAL_INTLEVEL2_VECOFS");
  ("XCHAL_DEBUG_VECTOR_VADDR", Name "XCHAL_INTLEVEL2_VECTOR_VADDR"); ("XCHAL_DEBUG_VECTOR_PADDR", Name "XCHAL_INTLEVEL2_VECTOR_PADDR");
  ("XCHAL_NMI_VECOFS", Num 0x00000020); ("XCHAL_NMI_VECTOR_VADDR", Num 0x40000020);
  ("XCHAL_NMI_VECTOR_PADDR", Num 0x40000020); ("XCHAL_INTLEVEL3_VECOFS", Name "XCHAL_NMI_VECOFS");
  ("XCHAL_INTLEVEL3_VECTOR_VADDR", Name "XCHAL_NMI_VECTOR_VADDR"); ("XCHAL_INTLEVEL3_VECTOR_PADDR", Name "XCHAL_NMI_VECTOR_PADDR");
  ("XCHAL_HAVE_OCD", Num 1); ("XCHAL_NUM_IBREAK", Num 1);
  ("XCHAL_NUM_DBREAK", Num 1); ("XCHAL_HAVE_OCD_DIR_ARRAY", Num 0);
  ("XCHAL_HAVE_TLBS", Num 1); ("XCHAL_HAVE_SPANNING_WAY", Num 1);
  ("XCHAL_SPANNING_WAY", Num 0); ("XCHAL_HAVE_IDENTITY_MAP", Num 1);
  ("XCHAL_HAVE_CACHEATTR", Num 0); ("XCHAL_HAVE_MIMIC_CACHEATTR", Num 1);
  ("XCHAL_HAVE_XLT_CACHEATTR", Num 0); ("XCHAL_HAVE_PTP_MMU", Num 0);
  ("XCHAL_MMU_ASID_BITS", Num 0); ("XCHAL_MMU_RINGS", Num 1);
  ("XCHAL_MMU_RING_BITS", Num 0)].

Definition lx106_core_isa : list (string * mexpr) :=
  lx106_core_isa_1 ++ lx106_core_isa_2 ++ lx106_core_isa_3.
