(* ===== verification/CoreIsaDiamond.v ===== *)
(** * Configuration headers ([core-*/core-isa.h]): dc232b, dc233c, de212, de233_fpu

    The macros of each header in order, a table per 150 lines of the file. *)

From stdpp Require Import strings.
From S2P Require Import Prelude Overlay.

#[local] Open Scope string_scope.
#[local] Open Scope list_scope.
#[local] Open Scope Z_scope.

Definition dc232b_core_isa_1 : list (string * mexpr) := [
  ("XTENSA_DC232B_CORE_ISA_H", Text ""); ("XCHAL_HAVE_BE", Num 0);
  ("XCHAL_HAVE_WINDOWED", Num 1); ("XCHAL_NUM_AREGS", Num 32);
  ("XCHAL_NUM_AREGS_LOG2", Num 5); ("XCHAL_MAX_INSTRUCTION_SIZE", Num 3);
  ("XCHAL_HAVE_DEBUG", Num 1); ("XCHAL_HAVE_DENSITY", Num 1);
  ("XCHAL_HAVE_LOOPS", Num 1); ("XCHAL_HAVE_NSA", Num 1);
  ("XCHAL_HAVE_MINMAX", Num 1); ("XCHAL_HAVE_SEXT", Num 1);
  ("XCHAL_HAVE_CLAMPS", Num 1); ("XCHAL_HAVE_MUL16", Num 1);
  ("XCHAL_HAVE_MUL32", Num 1); ("XCHAL_HAVE_MUL32_HIGH", Num 0);
  ("XCHAL_HAVE_DIV32", Num 1); ("XCHAL_HAVE_L32R", Num 1);
  ("XCHAL_HAVE_ABSOLUTE_LITERALS", Num 1); ("XCHAL_HAVE_CONST16", Num 0);
  ("XCHAL_HAVE_ADDX", Num 1); ("XCHAL_HAVE_WIDE_BRANCHES", Num 0);
  ("XCHAL_HAVE_PREDICTED_BRANCHES", Num 0); ("XCHAL_HAVE_CALL4AND12", Num 1);
  ("XCHAL_HAVE_ABS", Num 1); ("XCHAL_HAVE_RELEASE_SYNC", Num 1);
  ("XCHAL_HAVE_S32C1I", Num 1); ("XCHAL_HAVE_SPECULATION", Num 0);
  ("XCHAL_HAVE_FULL_RESET", Num 1); ("XCHAL_NUM_CONTEXTS", Num 1);
  ("XCHAL_NUM_MISC_REGS", Num 2); ("XCHAL_HAVE_TAP_MASTER", Num 0);
  ("XCHAL_HAVE_PRID", Num 1); ("XCHAL_HAVE_THREADPTR", Num 1);
  ("XCHAL_HAVE_BOOLEANS", Num 0); ("XCHAL_HAVE_CP", Num 1);
  ("XCHAL_CP_MAXCFG", Num 8); ("XCHAL_HAVE_MAC16", Num 1);
  ("XCHAL_HAVE_VECTORFPU2005", Num 0); ("XCHAL_HAVE_FP", Num 0);
  ("XCHAL_HAVE_VECTRA1", Num 0); ("XCHAL_HAVE_VECTRALX", Num 0);
  ("XCHAL_HAVE_HIFI2", Num 0); ("XCHAL_NUM_WRITEBUFFER_ENTRIES", Num 8);
  ("XCHAL_INST_FETCH_WIDTH", Num 4); ("XCHAL_DATA_WIDTH", Num 4);
  ("XCHAL_UNALIGNED_LOAD_EXCEPTION", Num 1); ("XCHAL_UNALIGNED_STORE_EXCEPTION", Num 1);
  ("XCHAL_SW_VERSION", Num 701001); ("XCHAL_CORE_ID", Text "dc232b");
  ("XCHAL_CORE_DESCRIPTION", Text "Diamond 232L Standard Core Rev.B (LE)"); ("XCHAL_BUILD_UNIQUE_ID", Num 0x0000BEEF);
  ("XCHAL_HW_CONFIGID0", Num 0xC56307FE); ("XCHAL_HW_CONFIGID1", Num 0x0D40BEEF);
  ("XCHAL_HW_VERSION_NAME", Text "LX2.1.1"); ("XCHAL_HW_VERSION_MAJOR", Num 2210);
  ("XCHAL_HW_VERSION_MINOR", Num 1); ("XCHAL_HW_VERSION", Num 221001);
  ("XCHAL_HW_REL_LX2", Num 1); ("XCHAL_HW_REL_LX2_1", Num 1);
  ("XCHAL_HW_REL_LX2_1_1", Num 1); ("XCHAL_HW_CONFIGID_RELIABLE", Num 1);
  ("XCHAL_HW_MIN_VERSION_MAJOR", Num 2210); ("XCHAL_HW_MIN_VERSION_MINOR", Num 1);
  ("XCHAL_HW_MIN_VERSION", Num 221001); ("XCHAL_HW_MAX_VERSION_MAJOR", Num 2210);
  ("XCHAL_HW_MAX_VERSION_MINOR", Num 1); ("XCHAL_HW_MAX_VERSION", Num 221001);
  ("XCHAL_ICACHE_LINESIZE", Num 32); ("XCHAL_DCACHE_LINESIZE", Num 32);
  ("XCHAL_ICACHE_LINEWIDTH", Num 5); ("XCHAL_DCACHE_LINEWIDTH", Num 5);
  ("XCHAL_ICACHE_SIZE", Num 16384); ("XCHAL_DCACHE_SIZE", Num 16384);
  ("XCHAL_DCACHE_IS_WRITEBACK", Num 1); ("XCHAL_HAVE_PIF", Num 1);
  ("XCHAL_ICACHE_SETWIDTH", Num 7); ("XCHAL_DCACHE_SETWIDTH", Num 7);
  ("XCHAL_ICACHE_WAYS", Num 4); ("XCHAL_DCACHE_WAYS", Num 4);
  ("XCHAL_ICACHE_LINE_LOCKABLE", Num 1); ("XCHAL_DCACHE_LINE_LOCKABLE", Num 1);
  ("XCHAL_ICACHE_ECC_PARITY", Num 0); ("XCHAL_DCACHE_ECC_PARITY", Num 0)].

Definition dc232b_core_isa_2 : list (string * mexpr) := [
  ("XCHAL_CA_BITS", Num 4); ("XCHAL_NUM_INSTROM", Num 0);
  ("XCHAL_NUM_INSTRAM", Num 0); ("XCHAL_NUM_DATAROM", Num 0);
  ("XCHAL_NUM_DATARAM", Num 0); ("XCHAL_NUM_URAM", Num 0);
  ("XCHAL_NUM_XLMI", Num 0); ("XCHAL_HAVE_INTERRUPTS", Num 1);
  ("XCHAL_HAVE_HIGHPRI_INTERRUPTS", Num 1); ("XCHAL_HAVE_NMI", Num 1);
  ("XCHAL_HAVE_CCOUNT", Num 1); ("XCHAL_NUM_TIMERS", Num 3);
  ("XCHAL_NUM_INTERRUPTS", Num 22); ("XCHAL_NUM_INTERRUPTS_LOG2", Num 5);
  ("XCHAL_NUM_EXTINTERRUPTS", Num 17); ("XCHAL_NUM_INTLEVELS", Num 6);
  ("XCHAL_EXCM_LEVEL", Num 3); ("XCHAL_INTLEVEL1_MASK", Num 0x001F80FF);
  ("XCHAL_INTLEVEL2_MASK", Num 0x00000100); ("XCHAL_INTLEVEL3_MASK", Num 0x00200E00);
  ("XCHAL_INTLEVEL4_MASK", Num 0x00001000); ("XCHAL_INTLEVEL5_MASK", Num 0x00002000);
  ("XCHAL_INTLEVEL6_MASK", Num 0x00000000); ("XCHAL_INTLEVEL7_MASK", Num 0x00004000);
  ("XCHAL_INTLEVEL1_ANDBELOW_MASK", Num 0x001F80FF); ("XCHAL_INTLEVEL2_ANDBELOW_MASK", Num 0x001F81FF);
  ("XCHAL_INTLEVEL3_ANDBELOW_MASK", Num 0x003F8FFF); ("XCHAL_INTLEVEL4_ANDBELOW_MASK", Num 0x003F9FFF);
  ("XCHAL_INTLEVEL5_ANDBELOW_MASK", Num 0x003FBFFF); ("XCHAL_INTLEVEL6_ANDBELOW_MASK", Num 0x003FBFFF);
  ("XCHAL_INTLEVEL7_ANDBELOW_MASK", Num 0x003FFFFF); ("XCHAL_INT0_LEVEL", Num 1);
  ("XCHAL_INT1_LEVEL", Num 1); ("XCHAL_INT2_LEVEL", Num 1);
  ("XCHAL_INT3_LEVEL", Num 1); ("XCHAL_INT4_LEVEL", Num 1);
  ("XCHAL_INT5_LEVEL", Num 1); ("XCHAL_INT6_LEVEL", Num 1);
  ("XCHAL_INT7_LEVEL", Num 1); ("XCHAL_INT8_LEVEL", Num 2);
  ("XCHAL_INT9_LEVEL", Num 3); ("XCHAL_INT10_LEVEL", Num 3);
  ("XCHAL_INT11_LEVEL", Num 3); ("XCHAL_INT12_LEVEL", Num 4);
  ("XCHAL_INT13_LEVEL", Num 5); ("XCHAL_INT14_LEVEL", Num 7);
  ("XCHAL_INT15_LEVEL", Num 1); ("XCHAL_INT16_LEVEL", Num 1);
  ("XCHAL_INT17_LEVEL", Num 1); ("XCHAL_INT18_LEVEL", Num 1);
  ("XCHAL_INT19_LEVEL", Num 1); ("XCHAL_INT20_LEVEL", Num 1);
  ("XCHAL_INT21_LEVEL", Num 3); ("XCHAL_DEBUGLEVEL", Num 6);
  ("XCHAL_HAVE_DEBUG_EXTERN_INT", Num 1); ("XCHAL_NMILEVEL", Num 7);
  ("XCHAL_INT0_TYPE", Name "XTHAL_INTTYPE_EXTERN_LEVEL"); ("XCHAL_INT1_TYPE", Name "XTHAL_INTTYPE_EXTERN_LEVEL");
  ("XCHAL_INT2_TYPE", Name "XTHAL_INTTYPE_EXTERN_LEVEL"); ("XCHAL_INT3_TYPE", Name "XTHAL_INTTYPE_EXTERN_LEVEL");
  ("XCHAL_INT4_TYPE", Name "XTHAL_INTTYPE_EXTERN_LEVEL"); ("XCHAL_INT5_TYPE", Name "XTHAL_INTTYPE_EXTERN_LEVEL");
  ("XCHAL_INT6_TYPE", Name "XTHAL_INTTYPE_TIMER"); ("XCHAL_INT7_TYPE", Name "XTHAL_INTTYPE_SOFTWARE");
  ("XCHAL_INT8_TYPE", Name "XTHAL_INTTYPE_EXTERN_LEVEL"); ("XCHAL_INT9_TYPE", Name "XTHAL_INTTYPE_EXTERN_LEVEL");
  ("XCHAL_INT10_TYPE", Name "XTHAL_INTTYPE_TIMER"); ("XCHAL_INT11_TYPE", Name "XTHAL_INTTYPE_SOFTWARE");
  ("XCHAL_INT12_TYPE", Name "XTHAL_INTTYPE_EXTERN_LEVEL"); ("XCHAL_INT13_TYPE", Name "XTHAL_INTTYPE_TIMER");
  ("XCHAL_INT14_TYPE", Name "XTHAL_INTTYPE_NMI"); ("XCHAL_INT15_TYPE", Name "XTHAL_INTTYPE_EXTERN_EDGE");
  ("XCHAL_INT16_TYPE", Name "XTHAL_INTTYPE_EXTERN_EDGE"); ("XCHAL_INT17_TYPE", Name "XTHAL_INTTYPE_EXTERN_EDGE");
  ("XCHAL_INT18_TYPE", Name "XTHAL_INTTYPE_EXTERN_EDGE"); ("XCHAL_INT19_TYPE", Name "XTHAL_INTTYPE_EXTERN_EDGE");
  ("XCHAL_INT20_TYPE", Name "XTHAL_INTTYPE_EXTERN_EDGE"); ("XCHAL_INT21_TYPE", Name "XTHAL_INTTYPE_EXTERN_EDGE");
  ("XCHAL_INTTYPE_MASK_UNCONFIGURED", Num 0xFFC00000); ("XCHAL_INTTYPE_MASK_SOFTWARE", Num 0x00000880);
  ("XCHAL_INTTYPE_MASK_EXTERN_EDGE", Num 0x003F8000); ("XCHAL_INTTYPE_MASK_EXTERN_LEVEL", Num 0x0000133F);
  ("XCHAL_INTTYPE_MASK_TIMER", Num 0x00002440); ("XCHAL_INTTYPE_MASK_NMI", Num 0x00004000);
  ("XCHAL_INTTYPE_MASK_WRITE_ERROR", Num 0x00000000); ("XCHAL_TIMER0_INTERRUPT", Num 6);
  ("XCHAL_TIMER1_INTERRUPT", Num 10); ("XCHAL_TIMER2_INTERRUPT", Num 13);
  ("XCHAL_TIMER3_INTERRUPT", Name "XTHAL_TIMER_UNCONFIGURED"); ("XCHAL_NMI_INTERRUPT", Num 14);
  ("XCHAL_INTLEVEL2_NUM", Num 8); ("XCHAL_INTLEVEL4_NUM", Num 12);
  ("XCHAL_INTLEVEL5_NUM", Num 13); ("XCHAL_INTLEVEL7_NUM", Num 14);
  ("XCHAL_EXTINT0_NUM", Num 0); ("XCHAL_EXTINT1_NUM", Num 1);
  ("XCHAL_EXTINT2_NUM", Num 2); ("XCHAL_EXTINT3_NUM", Num 3);
  ("XCHAL_EXTINT4_NUM", Num 4); ("XCHAL_EXTINT5_NUM", Num 5);
  ("XCHAL_EXTINT6_NUM", Num 8); ("XCHAL_EXTINT7_NUM", Num 9);
  ("XCHAL_EXTINT8_NUM", Num 12); ("XCHAL_EXTINT9_NUM", Num 14);
  ("XCHAL_EXTINT10_NUM", Num 15); ("XCHAL_EXTINT11_NUM", Num 16);
  ("XCHAL_EXTINT12_NUM", Num 17); ("XCHAL_EXTINT13_NUM", Num 18)].

Definition dc232b_core_isa_3 : list (string * mexpr) := [
  ("XCHAL_EXTINT14_NUM", Num 19); ("XCHAL_EXTINT15_NUM", Num 20);
  ("XCHAL_EXTINT16_NUM", Num 21); ("XCHAL_XEA_VERSION", Num 2);
  ("XCHAL_HAVE_XEA1", Num 0); ("XCHAL_HAVE_XEA2", Num 1);
  ("XCHAL_HAVE_XEAX", Num 0); ("XCHAL_HAVE_EXCEPTIONS", Num 1);
  ("XCHAL_HAVE_MEM_ECC_PARITY", Num 0); ("XCHAL_HAVE_VECTOR_SELECT", Num 1);
  ("XCHAL_HAVE_VECBASE", Num 1); ("XCHAL_VECBASE_RESET_VADDR", Num 0xD0000000);
  ("XCHAL_VECBASE_RESET_PADDR", Num 0x00000000); ("XCHAL_RESET_VECBASE_OVERLAP", Num 0);
  ("XCHAL_RESET_VECTOR0_VADDR", Num 0xFE000000); ("XCHAL_RESET_VECTOR0_PADDR", Num 0xFE000000);
  ("XCHAL_RESET_VECTOR1_VADDR", Num 0xD8000500); ("XCHAL_RESET_VECTOR1_PADDR", Num 0x00000500);
  ("XCHAL_RESET_VECTOR_VADDR", Num 0xFE000000); ("XCHAL_RESET_VECTOR_PADDR", Num 0xFE000000);
  ("XCHAL_USER_VECOFS", Num 0x00000340); ("XCHAL_USER_VECTOR_VADDR", Num 0xD0000340);
  ("XCHAL_USER_VECTOR_PADDR", Num 0x00000340); ("XCHAL_KERNEL_VECOFS", Num 0x00000300);
  ("XCHAL_KERNEL_VECTOR_VADDR", Num 0xD0000300); ("XCHAL_KERNEL_VECTOR_PADDR", Num 0x00000300);
  ("XCHAL_DOUBLEEXC_VECOFS", Num 0x000003C0); ("XCHAL_DOUBLEEXC_VECTOR_VADDR", Num 0xD00003C0);
  ("XCHAL_DOUBLEEXC_VECTOR_PADDR", Num 0x000003C0); ("XCHAL_WINDOW_OF4_VECOFS", Num 0x00000000);
  ("XCHAL_WINDOW_UF4_VECOFS", Num 0x00000040); ("XCHAL_WINDOW_OF8_VECOFS", Num 0x00000080);
  ("XCHAL_WINDOW_UF8_VECOFS", Num 0x000000C0); ("XCHAL_WINDOW_OF12_VECOFS", Num 0x00000100);
  ("XCHAL_WINDOW_UF12_VECOFS", Num 0x00000140); ("XCHAL_WINDOW_VECTORS_VADDR", Num 0xD0000000);
  ("XCHAL_WINDOW_VECTORS_PADDR", Num 0x00000000); ("XCHAL_INTLEVEL2_VECOFS", Num 0x00000180);
  ("XCHAL_INTLEVEL2_VECTOR_VADDR", Num 0xD0000180); ("XCHAL_INTLEVEL2_VECTOR_PADDR", Num 0x00000180);
  ("XCHAL_INTLEVEL3_VECOFS", Num 0x000001C0); ("XCHAL_INTLEVEL3_VECTOR_VADDR", Num 0xD00001C0);
  ("XCHAL_INTLEVEL3_VECTOR_PADDR", Num 0x000001C0); ("XCHAL_INTLEVEL4_VECOFS", Num 0x00000200);
  ("XCHAL_INTLEVEL4_VECTOR_VADDR", Num 0xD0000200); ("XCHAL_INTLEVEL4_VECTOR_PADDR", Num 0x00000200);
  ("XCHAL_INTLEVEL5_VECOFS", Num 0x00000240); ("XCHAL_INTLEVEL5_VECTOR_VADDR", Num 0xD0000240);
  ("XCHAL_INTLEVEL5_VECTOR_PADDR", Num 0x00000240); ("XCHAL_INTLEVEL6_VECOFS", Num 0x00000280);
  ("XCHAL_INTLEVEL6_VECTOR_VADDR", Num 0xD0000280); ("XCHAL_INTLEVEL6_VECTOR_PADDR", Num 0x00000280);
  ("XCHAL_DEBUG_VECOFS", Name "XCHAL_INTLEVEL6_VECOFS"); ("XCHAL_DEBUG_VECTOR_VADDR", Name "XCHAL_INTLEVEL6_VECTOR_VADDR");
  ("XCHAL_DEBUG_VECTOR_PADDR", Name "XCHAL_INTLEVEL6_VECTOR_PADDR"); ("XCHAL_NMI_VECOFS", Num 0x000002C0);
  ("XCHAL_NMI_VECTOR_VADDR", Num 0xD00002C0); ("XCHAL_NMI_VECTOR_PADDR", Num 0x000002C0);
  ("XCHAL_INTLEVEL7_VECOFS", Name "XCHAL_NMI_VECOFS"); ("XCHAL_INTLEVEL7_VECTOR_VADDR", Name "XCHAL_NMI_VECTOR_VADDR");
  ("XCHAL_INTLEVEL7_VECTOR_PADDR", Name "XCHAL_NMI_VECTOR_PADDR"); ("XCHAL_HAVE_OCD", Num 1);
  ("XCHAL_NUM_IBREAK", Num 2); ("XCHAL_NUM_DBREAK", Num 2);
  ("XCHAL_HAVE_OCD_DIR_ARRAY", Num 1); ("XCHAL_HAVE_TLBS", Num 1);
  ("XCHAL_HAVE_SPANNING_WAY", Num 0); ("XCHAL_HAVE_IDENTITY_MAP", Num 0);
  ("XCHAL_HAVE_CACHEATTR", Num 0); ("XCHAL_HAVE_MIMIC_CACHEATTR", Num 0);
  ("XCHAL_HAVE_XLT_CACHEATTR", Num 0); ("XCHAL_HAVE_PTP_MMU", Num 1);
  ("XCHAL_ITLB_ARF_ENTRIES_LOG2", Num 2); ("XCHAL_DTLB_ARF_ENTRIES_LOG2", Num 2);
  ("XCHAL_MMU_ASID_BITS", Num 8); ("XCHAL_MMU_RINGS", Num 4);
  ("XCHAL_MMU_RING_BITS", Num 2)].

Definition dc232b_core_isa : list (string * mexpr) :=
  dc232b_core_isa_1 ++ dc232b_core_isa_2 ++ dc232b_core_isa_3.

Definition dc233c_core_isa_1 : list (string * mexpr) := [
  ("XTENSA_DC233C_CORE_ISA_H", Text ""); ("XCHAL_HAVE_BE", Num 0);
  ("XCHAL_HAVE_WINDOWED", Num 1); ("XCHAL_NUM_AREGS", Num 32);
  ("XCHAL_NUM_AREGS_LOG2", Num 5); ("XCHAL_MAX_INSTRUCTION_SIZE", Num 3);
  ("XCHAL_HAVE_DEBUG", Num 1); ("XCHAL_HAVE_DENSITY", Num 1);
  ("XCHAL_HAVE_LOOPS", Num 1); ("XCHAL_HAVE_NSA", Num 1);
  ("XCHAL_HAVE_MINMAX", Num 1); ("XCHAL_HAVE_SEXT", Num 1);
  ("XCHAL_HAVE_CLAMPS", Num 1); ("XCHAL_HAVE_MUL16", Num 1);
  ("XCHAL_HAVE_MUL32", Num 1); ("XCHAL_HAVE_MUL32_HIGH", Num 0);
  ("XCHAL_HAVE_DIV32", Num 1); ("XCHAL_HAVE_L32R", Num 1);
  ("XCHAL_HAVE_ABSOLUTE_LITERALS", Num 1); ("XCHAL_HAVE_CONST16", Num 0);
  ("XCHAL_HAVE_ADDX", Num 1); ("XCHAL_HAVE_WIDE_BRANCHES", Num 0);
  ("XCHAL_HAVE_PREDICTED_BRANCHES", Num 0); ("XCHAL_HAVE_CALL4AND12", Num 1);
  ("XCHAL_HAVE_ABS", Num 1); ("XCHAL_HAVE_RELEASE_SYNC", Num 1);
  ("XCHAL_HAVE_S32C1I", Num 1); ("XCHAL_HAVE_SPECULATION", Num 0);
  ("XCHAL_HAVE_FULL_RESET", Num 1); ("XCHAL_NUM_CONTEXTS", Num 1);
  ("XCHAL_NUM_MISC_REGS", Num 2); ("XCHAL_HAVE_TAP_MASTER", Num 0);
  ("XCHAL_HAVE_PRID", Num 1); ("XCHAL_HAVE_EXTERN_REGS", Num 1);
  ("XCHAL_HAVE_MP_INTERRUPTS", Num 0); ("XCHAL_HAVE_MP_RUNSTALL", Num 0);
  ("XCHAL_HAVE_THREADPTR", Num 1); ("XCHAL_HAVE_BOOLEANS", Num 0);
  ("XCHAL_HAVE_CP", Num 1); ("XCHAL_CP_MAXCFG", Num 8);
  ("XCHAL_HAVE_MAC16", Num 1); ("XCHAL_HAVE_VECTORFPU2005", Num 0);
  ("XCHAL_HAVE_FP", Num 0); ("XCHAL_HAVE_DFP", Num 0);
  ("XCHAL_HAVE_DFP_accel", Num 0); ("XCHAL_HAVE_VECTRA1", Num 0);
  ("XCHAL_HAVE_VECTRALX", Num 0); ("XCHAL_HAVE_HIFIPRO", Num 0);
  ("XCHAL_HAVE_HIFI2", Num 0); ("XCHAL_HAVE_HIFI2EP", Num 0);
  ("XCHAL_HAVE_CONNXD2", Num 0); ("XCHAL_HAVE_BBE16", Num 0);
  ("XCHAL_HAVE_BBE16_RSQRT", Num 0); ("XCHAL_HAVE_BBE16_VECDIV", Num 0);
  ("XCHAL_HAVE_BBE16_DESPREAD", Num 0); ("XCHAL_HAVE_BSP3", Num 0);
  ("XCHAL_HAVE_SSP16", Num 0); ("XCHAL_HAVE_SSP16_VITERBI", Num 0);
  ("XCHAL_HAVE_TURBO16", Num 0); ("XCHAL_HAVE_BBP16", Num 0);
  ("XCHAL_NUM_WRITEBUFFER_ENTRIES", Num 8); ("XCHAL_INST_FETCH_WIDTH", Num 4);
  ("XCHAL_DATA_WIDTH", Num 4); ("XCHAL_UNALIGNED_LOAD_EXCEPTION", Num 1);
  ("XCHAL_UNALIGNED_STORE_EXCEPTION", Num 1); ("XCHAL_UNALIGNED_LOAD_HW", Num 0);
  ("XCHAL_UNALIGNED_STORE_HW", Num 0); ("XCHAL_SW_VERSION", Num 900001);
  ("XCHAL_CORE_ID", Text "dc233c"); ("XCHAL_CORE_DESCRIPTION", Text "dc233c");
  ("XCHAL_BUILD_UNIQUE_ID", Num 0x00004B21); ("XCHAL_HW_CONFIGID0", Num 0xC56707FE);
  ("XCHAL_HW_CONFIGID1", Num 0x14404B21); ("XCHAL_HW_VERSION_NAME", Text "LX4.0.1");
  ("XCHAL_HW_VERSION_MAJOR", Num 2400); ("XCHAL_HW_VERSION_MINOR", Num 1);
  ("XCHAL_HW_VERSION", Num 240001); ("XCHAL_HW_REL_LX4", Num 1);
  ("XCHAL_HW_REL_LX4_0", Num 1); ("XCHAL_HW_REL_LX4_0_1", Num 1);
  ("XCHAL_HW_CONFIGID_RELIABLE", Num 1); ("XCHAL_HW_MIN_VERSION_MAJOR", Num 2400);
  ("XCHAL_HW_MIN_VERSION_MINOR", Num 1); ("XCHAL_HW_MIN_VERSION", Num 240001);
  ("XCHAL_HW_MAX_VERSION_MAJOR", Num 2400); ("XCHAL_HW_MAX_VERSION_MINOR", Num 1);
  ("XCHAL_HW_MAX_VERSION", Num 240001); ("XCHAL_ICACHE_LINESIZE", Num 32);
  ("XCHAL_DCACHE_LINESIZE", Num 32); ("XCHAL_ICACHE_LINEWIDTH", Num 5);
  ("XCHAL_DCACHE_LINEWIDTH", Num 5); ("XCHAL_ICACHE_SIZE", Num 16384);
  ("XCHAL_DCACHE_SIZE", Num 16384); ("XCHAL_DCACHE_IS_WRITEBACK", Num 1);
  ("XCHAL_DCACHE_IS_COHERENT", Num 0); ("XCHAL_HAVE_PREFETCH", Num 0)].

Definition dc233c_core_isa_2 : list (string * mexpr) := [
  ("XCHAL_HAVE_PIF", Num 1); ("XCHAL_ICACHE_SETWIDTH", Num 7);
  ("XCHAL_DCACHE_SETWIDTH", Num 7); ("XCHAL_ICACHE_WAYS", Num 4);
  ("XCHAL_DCACHE_WAYS", Num 4); ("XCHAL_ICACHE_LINE_LOCKABLE", Num 1);
  ("XCHAL_DCACHE_LINE_LOCKABLE", Num 1); ("XCHAL_ICACHE_ECC_PARITY", Num 0);
  ("XCHAL_DCACHE_ECC_PARITY", Num 0); ("XCHAL_ICACHE_ACCESS_SIZE", Num 4);
  ("XCHAL_DCACHE_ACCESS_SIZE", Num 4); ("XCHAL_CA_BITS", Num 4);
  ("XCHAL_NUM_INSTROM", Num 0); ("XCHAL_NUM_INSTRAM", Num 0);
  ("XCHAL_NUM_DATAROM", Num 0); ("XCHAL_NUM_DATARAM", Num 0);
  ("XCHAL_NUM_URAM", Num 0); ("XCHAL_NUM_XLMI", Num 0);
  ("XCHAL_HAVE_IMEM_LOADSTORE", Num 1); ("XCHAL_HAVE_INTERRUPTS", Num 1);
  ("XCHAL_HAVE_HIGHPRI_INTERRUPTS", Num 1); ("XCHAL_HAVE_NMI", Num 1);
  ("XCHAL_HAVE_CCOUNT", Num 1); ("XCHAL_NUM_TIMERS", Num 3);
  ("XCHAL_NUM_INTERRUPTS", Num 22); ("XCHAL_NUM_INTERRUPTS_LOG2", Num 5);
  ("XCHAL_NUM_EXTINTERRUPTS", Num 17); ("XCHAL_NUM_INTLEVELS", Num 6);
  ("XCHAL_EXCM_LEVEL", Num 3); ("XCHAL_INTLEVEL1_MASK", Num 0x001F80FF);
  ("XCHAL_INTLEVEL2_MASK", Num 0x00000100); ("XCHAL_INTLEVEL3_MASK", Num 0x00200E00);
  ("XCHAL_INTLEVEL4_MASK", Num 0x00001000); ("XCHAL_INTLEVEL5_MASK", Num 0x00002000);
  ("XCHAL_INTLEVEL6_MASK", Num 0x00000000); ("XCHAL_INTLEVEL7_MASK", Num 0x00004000);
  ("XCHAL_INTLEVEL1_ANDBELOW_MASK", Num 0x001F80FF); ("XCHAL_INTLEVEL2_ANDBELOW_MASK", Num 0x001F81FF);
  ("XCHAL_INTLEVEL3_ANDBELOW_MASK", Num 0x003F8FFF); ("XCHAL_INTLEVEL4_ANDBELOW_MASK", Num 0x003F9FFF);
  ("XCHAL_INTLEVEL5_ANDBELOW_MASK", Num 0x003FBFFF); ("XCHAL_INTLEVEL6_ANDBELOW_MASK", Num 0x003FBFFF);
  ("XCHAL_INTLEVEL7_ANDBELOW_MASK", Num 0x003FFFFF); ("XCHAL_INT0_LEVEL", Num 1);
  ("XCHAL_INT1_LEVEL", Num 1); ("XCHAL_INT2_LEVEL", Num 1);
  ("XCHAL_INT3_LEVEL", Num 1); ("XCHAL_INT4_LEVEL", Num 1);
  ("XCHAL_INT5_LEVEL", Num 1); ("XCHAL_INT6_LEVEL", Num 1);
  ("XCHAL_INT7_LEVEL", Num 1); ("XCHAL_INT8_LEVEL", Num 2);
  ("XCHAL_INT9_LEVEL", Num 3); ("XCHAL_INT10_LEVEL", Num 3);
  ("XCHAL_INT11_LEVEL", Num 3); ("XCHAL_INT12_LEVEL", Num 4);
  ("XCHAL_INT13_LEVEL", Num 5); ("XCHAL_INT14_LEVEL", Num 7);
  ("XCHAL_INT15_LEVEL", Num 1); ("XCHAL_INT16_LEVEL", Num 1);
  ("XCHAL_INT17_LEVEL", Num 1); ("XCHAL_INT18_LEVEL", Num 1);
  ("XCHAL_INT19_LEVEL", Num 1); ("XCHAL_INT20_LEVEL", Num 1);
  ("XCHAL_INT21_LEVEL", Num 3); ("XCHAL_DEBUGLEVEL", Num 6);
  ("XCHAL_HAVE_DEBUG_EXTERN_INT", Num 1); ("XCHAL_NMILEVEL", Num 7);
  ("XCHAL_INT0_TYPE", Name "XTHAL_INTTYPE_EXTERN_LEVEL"); ("XCHAL_INT1_TYPE", Name "XTHAL_INTTYPE_EXTERN_LEVEL");
  ("XCHAL_INT2_TYPE", Name "XTHAL_INTTYPE_EXTERN_LEVEL"); ("XCHAL_INT3_TYPE", Name "XTHAL_INTTYPE_EXTERN_LEVEL");
  ("XCHAL_INT4_TYPE", Name "XTHAL_INTTYPE_EXTERN_LEVEL"); ("XCHAL_INT5_TYPE", Name "XTHAL_INTTYPE_EXTERN_LEVEL");
  ("XCHAL_INT6_TYPE", Name "XTHAL_INTTYPE_TIMER"); ("XCHAL_INT7_TYPE", Name "XTHAL_INTTYPE_SOFTWARE");
  ("XCHAL_INT8_TYPE", Name "XTHAL_INTTYPE_EXTERN_LEVEL"); ("XCHAL_INT9_TYPE", Name "XTHAL_INTTYPE_EXTERN_LEVEL");
  ("XCHAL_INT10_TYPE", Name "XTHAL_INTTYPE_TIMER"); ("XCHAL_INT11_TYPE", Name "XTHAL_INTTYPE_SOFTWARE");
  ("XCHAL_INT12_TYPE", Name "XTHAL_INTTYPE_EXTERN_LEVEL"); ("XCHAL_INT13_TYPE", Name "XTHAL_INTTYPE_TIMER");
  ("XCHAL_INT14_TYPE", Name "XTHAL_INTTYPE_NMI"); ("XCHAL_INT15_TYPE", Name "XTHAL_INTTYPE_EXTERN_EDGE");
  ("XCHAL_INT16_TYPE", Name "XTHAL_INTTYPE_EXTERN_EDGE"); ("XCHAL_INT17_TYPE", Name "XTHAL_INTTYPE_EXTERN_EDGE");
  ("XCHAL_INT18_TYPE", Name "XTHAL_INTTYPE_EXTERN_EDGE"); ("XCHAL_INT19_TYPE", Name "XTHAL_INTTYPE_EXTERN_EDGE");
  ("XCHAL_INT20_TYPE", Name "XTHAL_INTTYPE_EXTERN_EDGE"); ("XCHAL_INT21_TYPE", Name "XTHAL_INTTYPE_EXTERN_EDGE");
  ("XCHAL_INTTYPE_MASK_UNCONFIGURED", Num 0xFFC00000); ("XCHAL_INTTYPE_MASK_SOFTWARE", Num 0x00000880);
  ("XCHAL_INTTYPE_MASK_EXTERN_EDGE", Num 0x003F8000); ("XCHAL_INTTYPE_MASK_EXTERN_LEVEL", Num 0x0000133F);
  ("XCHAL_INTTYPE_MASK_TIMER", Num 0x00002440); ("XCHAL_INTTYPE_MASK_NMI", Num 0x00004000);
  ("XCHAL_INTTYPE_MASK_WRITE_ERROR", Num 0x00000000); ("XCHAL_TIMER0_INTERRUPT", Num 6);
  ("XCHAL_TIMER1_INTERRUPT", Num 10); ("XCHAL_TIMER2_INTERRUPT", Num 13);
  ("XCHAL_TIMER3_INTERRUPT", Name "XTHAL_TIMER_UNCONFIGURED"); ("XCHAL_NMI_INTERRUPT", Num 14);
  ("XCHAL_INTLEVEL2_NUM", Num 8); ("XCHAL_INTLEVEL4_NUM", Num 12);
  ("XCHAL_INTLEVEL5_NUM", Num 13); ("XCHAL_INTLEVEL7_NUM", Num 14)].

Definition dc233c_core_isa_3 : list (string * mexpr) := [
  ("XCHAL_EXTINT0_NUM", Num 0); ("XCHAL_EXTINT1_NUM", Num 1);
  ("XCHAL_EXTINT2_NUM", Num 2); ("XCHAL_EXTINT3_NUM", Num 3);
  ("XCHAL_EXTINT4_NUM", Num 4); ("XCHAL_EXTINT5_NUM", Num 5);
  ("XCHAL_EXTINT6_NUM", Num 8); ("XCHAL_EXTINT7_NUM", Num 9);
  ("XCHAL_EXTINT8_NUM", Num 12); ("XCHAL_EXTINT9_NUM", Num 14);
  ("XCHAL_EXTINT10_NUM", Num 15); ("XCHAL_EXTINT11_NUM", Num 16);
  ("XCHAL_EXTINT12_NUM", Num 17); ("XCHAL_EXTINT13_NUM", Num 18);
  ("XCHAL_EXTINT14_NUM", Num 19); ("XCHAL_EXTINT15_NUM", Num 20);
  ("XCHAL_EXTINT16_NUM", Num 21); ("XCHAL_XEA_VERSION", Num 2);
  ("XCHAL_HAVE_XEA1", Num 0); ("XCHAL_HAVE_XEA2", Num 1);
  ("XCHAL_HAVE_XEAX", Num 0); ("XCHAL_HAVE_EXCEPTIONS", Num 1);
  ("XCHAL_HAVE_HALT", Num 0); ("XCHAL_HAVE_BOOTLOADER", Num 0);
  ("XCHAL_HAVE_MEM_ECC_PARITY", Num 0); ("XCHAL_HAVE_VECTOR_SELECT", Num 1);
  ("XCHAL_HAVE_VECBASE", Num 1); ("XCHAL_VECBASE_RESET_VADDR", Num 0x00002000);
  ("XCHAL_VECBASE_RESET_PADDR", Num 0x00002000); ("XCHAL_RESET_VECBASE_OVERLAP", Num 0);
  ("XCHAL_RESET_VECTOR0_VADDR", Num 0xFE000000); ("XCHAL_RESET_VECTOR0_PADDR", Num 0xFE000000);
  ("XCHAL_RESET_VECTOR1_VADDR", Num 0x00001000); ("XCHAL_RESET_VECTOR1_PADDR", Num 0x00001000);
  ("XCHAL_RESET_VECTOR_VADDR", Num 0xFE000000); ("XCHAL_RESET_VECTOR_PADDR", Num 0xFE000000);
  ("XCHAL_USER_VECOFS", Num 0x00000340); ("XCHAL_USER_VECTOR_VADDR", Num 0x00002340);
  ("XCHAL_USER_VECTOR_PADDR", Num 0x00002340); ("XCHAL_KERNEL_VECOFS", Num 0x00000300);
  ("XCHAL_KERNEL_VECTOR_VADDR", Num 0x00002300); ("XCHAL_KERNEL_VECTOR_PADDR", Num 0x00002300);
  ("XCHAL_DOUBLEEXC_VECOFS", Num 0x000003C0); ("XCHAL_DOUBLEEXC_VECTOR_VADDR", Num 0x000023C0);
  ("XCHAL_DOUBLEEXC_VECTOR_PADDR", Num 0x000023C0); ("XCHAL_WINDOW_OF4_VECOFS", Num 0x00000000);
  ("XCHAL_WINDOW_UF4_VECOFS", Num 0x00000040); ("XCHAL_WINDOW_OF8_VECOFS", Num 0x00000080);
  ("XCHAL_WINDOW_UF8_VECOFS", Num 0x000000C0); ("XCHAL_WINDOW_OF12_VECOFS", Num 0x00000100);
  ("XCHAL_WINDOW_UF12_VECOFS", Num 0x00000140); ("XCHAL_WINDOW_VECTORS_VADDR", Num 0x00002000);
  ("XCHAL_WINDOW_VECTORS_PADDR", Num 0x00002000); ("XCHAL_INTLEVEL2_VECOFS", Num 0x00000180);
  ("XCHAL_INTLEVEL2_VECTOR_VADDR", Num 0x00002180); ("XCHAL_INTLEVEL2_VECTOR_PADDR", Num 0x00002180);
  ("XCHAL_INTLEVEL3_VECOFS", Num 0x000001C0); ("XCHAL_INTLEVEL3_VECTOR_VADDR", Num 0x000021C0);
  ("XCHAL_INTLEVEL3_VECTOR_PADDR", Num 0x000021C0); ("XCHAL_INTLEVEL4_VECOFS", Num 0x00000200);
  ("XCHAL_INTLEVEL4_VECTOR_VADDR", Num 0x00002200); ("XCHAL_INTLEVEL4_VECTOR_PADDR", Num 0x00002200);
  ("XCHAL_INTLEVEL5_VECOFS", Num 0x00000240); ("XCHAL_INTLEVEL5_VECTOR_VADDR", Num 0x00002240);
  ("XCHAL_INTLEVEL5_VECTOR_PADDR", Num 0x00002240); ("XCHAL_INTLEVEL6_VECOFS", Num 0x00000280);
  ("XCHAL_INTLEVEL6_VECTOR_VADDR", Num 0x00002280); ("XCHAL_INTLEVEL6_VECTOR_PADDR", Num 0x00002280);
  ("XCHAL_DEBUG_VECOFS", Name "XCHAL_INTLEVEL6_VECOFS"); ("XCHAL_DEBUG_VECTOR_VADDR", Name "XCHAL_INTLEVEL6_VECTOR_VADDR");
  ("XCHAL_DEBUG_VECTOR_PADDR", Name "XCHAL_INTLEVEL6_VECTOR_PADDR"); ("XCHAL_NMI_VECOFS", Num 0x000002C0);
  ("XCHAL_NMI_VECTOR_VADDR", Num 0x000022C0); ("XCHAL_NMI_VECTOR_PADDR", Num 0x000022C0);
  ("XCHAL_INTLEVEL7_VECOFS", Name "XCHAL_NMI_VECOFS"); ("XCHAL_INTLEVEL7_VECTOR_VADDR", Name "XCHAL_NMI_VECTOR_VADDR");
  ("XCHAL_INTLEVEL7_VECTOR_PADDR", Name "XCHAL_NMI_VECTOR_PADDR"); ("XCHAL_HAVE_OCD", Num 1);
  ("XCHAL_NUM_IBREAK", Num 2); ("XCHAL_NUM_DBREAK", Num 2);
  ("XCHAL_HAVE_OCD_DIR_ARRAY", Num 1); ("XCHAL_HAVE_TLBS", Num 1);
  ("XCHAL_HAVE_SPANNING_WAY", Num 1); ("XCHAL_SPANNING_WAY", Num 6);
  ("XCHAL_HAVE_IDENTITY_MAP", Num 0); ("XCHAL_HAVE_CACHEATTR", Num 0);
  ("XCHAL_HAVE_MIMIC_CACHEATTR", Num 0); ("XCHAL_HAVE_XLT_CACHEATTR", Num 0);
  ("XCHAL_HAVE_PTP_MMU", Num 1); ("XCHAL_ITLB_ARF_ENTRIES_LOG2", Num 2);
  ("XCHAL_DTLB_ARF_ENTRIES_LOG2", Num 2); ("XCHAL_MMU_ASID_BITS", Num 8);
  ("XCHAL_MMU_RINGS", Num 4); ("XCHAL_MMU_RING_BITS", Num 2)].

Definition dc233c_core_isa : list (string * mexpr) :=
  dc233c_core_isa_1 ++ dc233c_core_isa_2 ++ dc233c_core_isa_3.

Definition de212_core_isa_1 : list (string * mexpr) := [
  ("XTENSA_CORE_DE212_CORE_ISA_H", Text ""); ("XCHAL_HAVE_BE", Num 0);
  ("XCHAL_HAVE_WINDOWED", Num 1); ("XCHAL_NUM_AREGS", Num 32);
  ("XCHAL_NUM_AREGS_LOG2", Num 5); ("XCHAL_MAX_INSTRUCTION_SIZE", Num 3);
  ("XCHAL_HAVE_DEBUG", Num 1); ("XCHAL_HAVE_DENSITY", Num 1);
  ("XCHAL_HAVE_LOOPS", Num 1); ("XCHAL_LOOP_BUFFER_SIZE", Num 0);
  ("XCHAL_HAVE_NSA", Num 1); ("XCHAL_HAVE_MINMAX", Num 1);
  ("XCHAL_HAVE_SEXT", Num 1); ("XCHAL_HAVE_DEPBITS", Num 0);
  ("XCHAL_HAVE_CLAMPS", Num 1); ("XCHAL_HAVE_MUL16", Num 1);
  ("XCHAL_HAVE_MUL32", Num 1); ("XCHAL_HAVE_MUL32_HIGH", Num 0);
  ("XCHAL_HAVE_DIV32", Num 1); ("XCHAL_HAVE_L32R", Num 1);
  ("XCHAL_HAVE_ABSOLUTE_LITERALS", Num 0); ("XCHAL_HAVE_CONST16", Num 0);
  ("XCHAL_HAVE_ADDX", Num 1); ("XCHAL_HAVE_EXCLUSIVE", Num 0);
  ("XCHAL_HAVE_WIDE_BRANCHES", Num 0); ("XCHAL_HAVE_PREDICTED_BRANCHES", Num 0);
  ("XCHAL_HAVE_CALL4AND12", Num 1); ("XCHAL_HAVE_ABS", Num 1);
  ("XCHAL_HAVE_RELEASE_SYNC", Num 1); ("XCHAL_HAVE_S32C1I", Num 1);
  ("XCHAL_HAVE_SPECULATION", Num 0); ("XCHAL_HAVE_FULL_RESET", Num 1);
  ("XCHAL_NUM_CONTEXTS", Num 1); ("XCHAL_NUM_MISC_REGS", Num 2);
  ("XCHAL_HAVE_TAP_MASTER", Num 0); ("XCHAL_HAVE_PRID", Num 1);
  ("XCHAL_HAVE_EXTERN_REGS", Num 1); ("XCHAL_HAVE_MX", Num 0);
  ("XCHAL_HAVE_MP_INTERRUPTS", Num 0); ("XCHAL_HAVE_MP_RUNSTALL", Num 0);
  ("XCHAL_HAVE_PSO", Num 0); ("XCHAL_HAVE_PSO_CDM", Num 0);
  ("XCHAL_HAVE_PSO_FULL_RETENTION", Num 0); ("XCHAL_HAVE_THREADPTR", Num 0);
  ("XCHAL_HAVE_BOOLEANS", Num 0); ("XCHAL_HAVE_CP", Num 0);
  ("XCHAL_CP_MAXCFG", Num 0); ("XCHAL_HAVE_MAC16", Num 1);
  ("XCHAL_HAVE_FUSION", Num 0); ("XCHAL_HAVE_FUSION_FP", Num 0);
  ("XCHAL_HAVE_FUSION_LOW_POWER", Num 0); ("XCHAL_HAVE_FUSION_AES", Num 0);
  ("XCHAL_HAVE_FUSION_CONVENC", Num 0); ("XCHAL_HAVE_FUSION_LFSR_CRC", Num 0);
  ("XCHAL_HAVE_FUSION_BITOPS", Num 0); ("XCHAL_HAVE_FUSION_AVS", Num 0);
  ("XCHAL_HAVE_FUSION_16BIT_BASEBAND", Num 0); ("XCHAL_HAVE_HIFIPRO", Num 0);
  ("XCHAL_HAVE_HIFI4", Num 0); ("XCHAL_HAVE_HIFI4_VFPU", Num 0);
  ("XCHAL_HAVE_HIFI3", Num 0); ("XCHAL_HAVE_HIFI3_VFPU", Num 0);
  ("XCHAL_HAVE_HIFI2", Num 0); ("XCHAL_HAVE_HIFI2EP", Num 0);
  ("XCHAL_HAVE_HIFI_MINI", Num 0); ("XCHAL_HAVE_VECTORFPU2005", Num 0);
  ("XCHAL_HAVE_USER_DPFPU", Num 0); ("XCHAL_HAVE_USER_SPFPU", Num 0);
  ("XCHAL_HAVE_FP", Num 0); ("XCHAL_HAVE_FP_DIV", Num 0);
  ("XCHAL_HAVE_FP_RECIP", Num 0); ("XCHAL_HAVE_FP_SQRT", Num 0);
  ("XCHAL_HAVE_FP_RSQRT", Num 0); ("XCHAL_HAVE_DFP", Num 0);
  ("XCHAL_HAVE_DFP_DIV", Num 0); ("XCHAL_HAVE_DFP_RECIP", Num 0);
  ("XCHAL_HAVE_DFP_SQRT", Num 0); ("XCHAL_HAVE_DFP_RSQRT", Num 0);
  ("XCHAL_HAVE_DFP_ACCEL", Num 0); ("XCHAL_HAVE_DFP_accel", Name "XCHAL_HAVE_DFP_ACCEL");
  ("XCHAL_HAVE_DFPU_SINGLE_ONLY", Num 0); ("XCHAL_HAVE_DFPU_SINGLE_DOUBLE", Num 0);
  ("XCHAL_HAVE_VECTRA1", Num 0); ("XCHAL_HAVE_VECTRALX", Num 0);
  ("XCHAL_HAVE_PDX4", Num 0); ("XCHAL_HAVE_PDX8", Num 0);
  ("XCHAL_HAVE_PDX16", Num 0); ("XCHAL_HAVE_CONNXD2", Num 0);
  ("XCHAL_HAVE_CONNXD2_DUALLSFLIX", Num 0); ("XCHAL_HAVE_BBE16", Num 0);
  ("XCHAL_HAVE_BBE16_RSQRT", Num 0); ("XCHAL_HAVE_BBE16_VECDIV", Num 0);
  ("XCHAL_HAVE_BBE16_DESPREAD", Num 0); ("XCHAL_HAVE_BBENEP", Num 0);
  ("XCHAL_HAVE_BSP3", Num 0); ("XCHAL_HAVE_BSP3_TRANSPOSE", Num 0);
  ("XCHAL_HAVE_SSP16", Num 0); ("XCHAL_HAVE_SSP16_VITERBI", Num 0);
  ("XCHAL_HAVE_TURBO16", Num 0); ("XCHAL_HAVE_BBP16", Num 0);
  ("XCHAL_HAVE_FLIX3", Num 0); ("XCHAL_HAVE_GRIVPEP", Num 0);
  ("XCHAL_HAVE_GRIVPEP_HISTOGRAM", Num 0); ("XCHAL_HAVE_VISION", Num 0);
  ("XCHAL_VISION_TYPE", Num 0); ("XCHAL_VISION_SIMD16", Num 0);
  ("XCHAL_HAVE_VISION_HISTOGRAM", Num 0); ("XCHAL_HAVE_VISION_SP_VFPU", Num 0);
  ("XCHAL_NUM_LOADSTORE_UNITS", Num 1); ("XCHAL_NUM_WRITEBUFFER_ENTRIES", Num 8);
  ("XCHAL_INST_FETCH_WIDTH", Num 4); ("XCHAL_DATA_WIDTH", Num 4);
  ("XCHAL_DATA_PIPE_DELAY", Num 1); ("XCHAL_CLOCK_GATING_GLOBAL", Num 0);
  ("XCHAL_CLOCK_GATING_FUNCUNIT", Num 0); ("XCHAL_UNALIGNED_LOAD_EXCEPTION", Num 1);
  ("XCHAL_UNALIGNED_STORE_EXCEPTION", Num 1); ("XCHAL_UNALIGNED_LOAD_HW", Num 0);
  ("XCHAL_UNALIGNED_STORE_HW", Num 0)].

Definition de212_core_isa_2 : list (string * mexpr) := [
  ("XCHAL_SW_VERSION", Num 1200000); ("XCHAL_CORE_ID", Text "de212_371077");
  ("XCHAL_BUILD_UNIQUE_ID", Num 0x0005A9EB); ("XCHAL_HW_CONFIGID0", Num 0xC283DFFE);
  ("XCHAL_HW_CONFIGID1", Num 0x1C85A985); ("XCHAL_HW_VERSION_NAME", Text "LX6.0.2");
  ("XCHAL_HW_VERSION_MAJOR", Num 2600); ("XCHAL_HW_VERSION_MINOR", Num 2);
  ("XCHAL_HW_VERSION", Num 260002); ("XCHAL_HW_REL_LX6", Num 1);
  ("XCHAL_HW_REL_LX6_0", Num 1); ("XCHAL_HW_REL_LX6_0_2", Num 1);
  ("XCHAL_HW_CONFIGID_RELIABLE", Num 1); ("XCHAL_HW_MIN_VERSION_MAJOR", Num 2600);
  ("XCHAL_HW_MIN_VERSION_MINOR", Num 2); ("XCHAL_HW_MIN_VERSION", Num 260002);
  ("XCHAL_HW_MAX_VERSION_MAJOR", Num 2600); ("XCHAL_HW_MAX_VERSION_MINOR", Num 2);
  ("XCHAL_HW_MAX_VERSION", Num 260002); ("XCHAL_ICACHE_LINESIZE", Num 32);
  ("XCHAL_DCACHE_LINESIZE", Num 32); ("XCHAL_ICACHE_LINEWIDTH", Num 5);
  ("XCHAL_DCACHE_LINEWIDTH", Num 5); ("XCHAL_ICACHE_SIZE", Num 8192);
  ("XCHAL_DCACHE_SIZE", Num 8192); ("XCHAL_DCACHE_IS_WRITEBACK", Num 1);
  ("XCHAL_DCACHE_IS_COHERENT", Num 0); ("XCHAL_HAVE_PREFETCH", Num 0);
  ("XCHAL_HAVE_PREFETCH_L1", Num 0); ("XCHAL_PREFETCH_CASTOUT_LINES", Num 0);
  ("XCHAL_PREFETCH_ENTRIES", Num 0); ("XCHAL_PREFETCH_BLOCK_ENTRIES", Num 0);
  ("XCHAL_HAVE_CACHE_BLOCKOPS", Num 0); ("XCHAL_HAVE_ICACHE_TEST", Num 1);
  ("XCHAL_HAVE_DCACHE_TEST", Num 1); ("XCHAL_HAVE_ICACHE_DYN_WAYS", Num 0);
  ("XCHAL_HAVE_DCACHE_DYN_WAYS", Num 0); ("XCHAL_HAVE_PIF", Num 1);
  ("XCHAL_HAVE_AXI", Num 0); ("XCHAL_HAVE_AXI_ECC", Num 0);
  ("XCHAL_HAVE_ACELITE", Num 0); ("XCHAL_ICACHE_SETWIDTH", Num 7);
  ("XCHAL_DCACHE_SETWIDTH", Num 7); ("XCHAL_ICACHE_WAYS", Num 2);
  ("XCHAL_DCACHE_WAYS", Num 2); ("XCHAL_ICACHE_LINE_LOCKABLE", Num 1);
  ("XCHAL_DCACHE_LINE_LOCKABLE", Num 1); ("XCHAL_ICACHE_ECC_PARITY", Num 0);
  ("XCHAL_DCACHE_ECC_PARITY", Num 0); ("XCHAL_ICACHE_ACCESS_SIZE", Num 4);
  ("XCHAL_DCACHE_ACCESS_SIZE", Num 4); ("XCHAL_DCACHE_BANKS", Num 1);
  ("XCHAL_CA_BITS", Num 4); ("XCHAL_NUM_INSTROM", Num 0);
  ("XCHAL_NUM_INSTRAM", Num 1); ("XCHAL_NUM_DATAROM", Num 0);
  ("XCHAL_NUM_DATARAM", Num 1); ("XCHAL_NUM_URAM", Num 0);
  ("XCHAL_NUM_XLMI", Num 1); ("XCHAL_INSTRAM0_VADDR", Num 0x40000000);
  ("XCHAL_INSTRAM0_PADDR", Num 0x40000000); ("XCHAL_INSTRAM0_SIZE", Num 131072);
  ("XCHAL_INSTRAM0_ECC_PARITY", Num 0); ("XCHAL_HAVE_INSTRAM0", Text "");
  ("XCHAL_INSTRAM0_HAVE_IDMA", Num 0); ("XCHAL_DATARAM0_VADDR", Num 0x3FFE0000);
  ("XCHAL_DATARAM0_PADDR", Num 0x3FFE0000); ("XCHAL_DATARAM0_SIZE", Num 131072);
  ("XCHAL_DATARAM0_ECC_PARITY", Num 0); ("XCHAL_DATARAM0_BANKS", Num 1);
  ("XCHAL_HAVE_DATARAM0", Text ""); ("XCHAL_DATARAM0_HAVE_IDMA", Num 0);
  ("XCHAL_XLMI0_VADDR", Num 0x3FFC0000); ("XCHAL_XLMI0_PADDR", Num 0x3FFC0000);
  ("XCHAL_XLMI0_SIZE", Num 131072); ("XCHAL_XLMI0_ECC_PARITY", Num 0);
  ("XCHAL_HAVE_IDMA", Num 0); ("XCHAL_HAVE_IDMA_TRANSPOSE", Num 0);
  ("XCHAL_HAVE_IMEM_LOADSTORE", Num 1); ("XCHAL_HAVE_INTERRUPTS", Num 1);
  ("XCHAL_HAVE_HIGHPRI_INTERRUPTS", Num 1); ("XCHAL_HAVE_NMI", Num 1);
  ("XCHAL_HAVE_CCOUNT", Num 1); ("XCHAL_NUM_TIMERS", Num 3);
  ("XCHAL_NUM_INTERRUPTS", Num 22)].

Definition de212_core_isa_3 : list (string * mexpr) := [
  ("XCHAL_NUM_INTERRUPTS_LOG2", Num 5); ("XCHAL_NUM_EXTINTERRUPTS", Num 17);
  ("XCHAL_NUM_INTLEVELS", Num 6); ("XCHAL_EXCM_LEVEL", Num 3);
  ("XCHAL_INTLEVEL1_MASK", Num 0x001F80FF); ("XCHAL_INTLEVEL2_MASK", Num 0x00000100);
  ("XCHAL_INTLEVEL3_MASK", Num 0x00200E00); ("XCHAL_INTLEVEL4_MASK", Num 0x00001000);
  ("XCHAL_INTLEVEL5_MASK", Num 0x00002000); ("XCHAL_INTLEVEL6_MASK", Num 0x00000000);
  ("XCHAL_INTLEVEL7_MASK", Num 0x00004000); ("XCHAL_INTLEVEL1_ANDBELOW_MASK", Num 0x001F80FF);
  ("XCHAL_INTLEVEL2_ANDBELOW_MASK", Num 0x001F81FF); ("XCHAL_INTLEVEL3_ANDBELOW_MASK", Num 0x003F8FFF);
  ("XCHAL_INTLEVEL4_ANDBELOW_MASK", Num 0x003F9FFF); ("XCHAL_INTLEVEL5_ANDBELOW_MASK", Num 0x003FBFFF);
  ("XCHAL_INTLEVEL6_ANDBELOW_MASK", Num 0x003FBFFF); ("XCHAL_INTLEVEL7_ANDBELOW_MASK", Num 0x003FFFFF);
  ("XCHAL_INT0_LEVEL", Num 1); ("XCHAL_INT1_LEVEL", Num 1);
  ("XCHAL_INT2_LEVEL", Num 1); ("XCHAL_INT3_LEVEL", Num 1);
  ("XCHAL_INT4_LEVEL", Num 1); ("XCHAL_INT5_LEVEL", Num 1);
  ("XCHAL_INT6_LEVEL", Num 1); ("XCHAL_INT7_LEVEL", Num 1);
  ("XCHAL_INT8_LEVEL", Num 2); ("XCHAL_INT9_LEVEL", Num 3);
  ("XCHAL_INT10_LEVEL", Num 3); ("XCHAL_INT11_LEVEL", Num 3);
  ("XCHAL_INT12_LEVEL", Num 4); ("XCHAL_INT13_LEVEL", Num 5);
  ("XCHAL_INT14_LEVEL", Num 7); ("XCHAL_INT15_LEVEL", Num 1);
  ("XCHAL_INT16_LEVEL", Num 1); ("XCHAL_INT17_LEVEL", Num 1);
  ("XCHAL_INT18_LEVEL", Num 1); ("XCHAL_INT19_LEVEL", Num 1);
  ("XCHAL_INT20_LEVEL", Num 1); ("XCHAL_INT21_LEVEL", Num 3);
  ("XCHAL_DEBUGLEVEL", Num 6); ("XCHAL_HAVE_DEBUG_EXTERN_INT", Num 1);
  ("XCHAL_NMILEVEL", Num 7); ("XCHAL_INT0_TYPE", Name "XTHAL_INTTYPE_EXTERN_LEVEL");
  ("XCHAL_INT1_TYPE", Name "XTHAL_INTTYPE_EXTERN_LEVEL"); ("XCHAL_INT2_TYPE", Name "XTHAL_INTTYPE_EXTERN_LEVEL");
  ("XCHAL_INT3_TYPE", Name "XTHAL_INTTYPE_EXTERN_LEVEL"); ("XCHAL_INT4_TYPE", Name "XTHAL_INTTYPE_EXTERN_LEVEL");
  ("XCHAL_INT5_TYPE", Name "XTHAL_INTTYPE_EXTERN_LEVEL"); ("XCHAL_INT6_TYPE", Name "XTHAL_INTTYPE_TIMER");
  ("XCHAL_INT7_TYPE", Name "XTHAL_INTTYPE_SOFTWARE"); ("XCHAL_INT8_TYPE", Name "XTHAL_INTTYPE_EXTERN_LEVEL");
  ("XCHAL_INT9_TYPE", Name "XTHAL_INTTYPE_EXTERN_LEVEL"); ("XCHAL_INT10_TYPE", Name "XTHAL_INTTYPE_TIMER");
  ("XCHAL_INT11_TYPE", Name "XTHAL_INTTYPE_SOFTWARE"); ("XCHAL_INT12_TYPE", Name "XTHAL_INTTYPE_EXTERN_LEVEL");
  ("XCHAL_INT13_TYPE", Name "XTHAL_INTTYPE_TIMER"); ("XCHAL_INT14_TYPE", Name "XTHAL_INTTYPE_NMI");
  ("XCHAL_INT15_TYPE", Name "XTHAL_INTTYPE_EXTERN_EDGE"); ("XCHAL_INT16_TYPE", Name "XTHAL_INTTYPE_EXTERN_EDGE");
  ("XCHAL_INT17_TYPE", Name "XTHAL_INTTYPE_EXTERN_EDGE"); ("XCHAL_INT18_TYPE", Name "XTHAL_INTTYPE_EXTERN_EDGE");
  ("XCHAL_INT19_TYPE", Name "XTHAL_INTTYPE_EXTERN_EDGE"); ("XCHAL_INT20_TYPE", Name "XTHAL_INTTYPE_EXTERN_EDGE");
  ("XCHAL_INT21_TYPE", Name "XTHAL_INTTYPE_EXTERN_EDGE"); ("XCHAL_INTTYPE_MASK_UNCONFIGURED", Num 0xFFC00000);
  ("XCHAL_INTTYPE_MASK_SOFTWARE", Num 0x00000880); ("XCHAL_INTTYPE_MASK_EXTERN_EDGE", Num 0x003F8000);
  ("XCHAL_INTTYPE_MASK_EXTERN_LEVEL", Num 0x0000133F); ("XCHAL_INTTYPE_MASK_TIMER", Num 0x00002440);
  ("XCHAL_INTTYPE_MASK_NMI", Num 0x00004000); ("XCHAL_INTTYPE_MASK_WRITE_ERROR", Num 0x00000000);
  ("XCHAL_INTTYPE_MASK_PROFILING", Num 0x00000000); ("XCHAL_INTTYPE_MASK_IDMA_DONE", Num 0x00000000);
  ("XCHAL_INTTYPE_MASK_IDMA_ERR", Num 0x00000000); ("XCHAL_INTTYPE_MASK_SG_ERR", Num 0x00000000);
  ("XCHAL_TIMER0_INTERRUPT", Num 6); ("XCHAL_TIMER1_INTERRUPT", Num 10);
  ("XCHAL_TIMER2_INTERRUPT", Num 13); ("XCHAL_TIMER3_INTERRUPT", Name "XTHAL_TIMER_UNCONFIGURED");
  ("XCHAL_NMI_INTERRUPT", Num 14); ("XCHAL_INTLEVEL2_NUM", Num 8);
  ("XCHAL_INTLEVEL4_NUM", Num 12); ("XCHAL_INTLEVEL5_NUM", Num 13);
  ("XCHAL_INTLEVEL7_NUM", Num 14); ("XCHAL_EXTINT0_NUM", Num 0);
  ("XCHAL_EXTINT1_NUM", Num 1); ("XCHAL_EXTINT2_NUM", Num 2);
  ("XCHAL_EXTINT3_NUM", Num 3); ("XCHAL_EXTINT4_NUM", Num 4);
  ("XCHAL_EXTINT5_NUM", Num 5); ("XCHAL_EXTINT6_NUM", Num 8);
  ("XCHAL_EXTINT7_NUM", Num 9); ("XCHAL_EXTINT8_NUM", Num 12);
  ("XCHAL_EXTINT9_NUM", Num 14); ("XCHAL_EXTINT10_NUM", Num 15);
  ("XCHAL_EXTINT11_NUM", Num 16); ("XCHAL_EXTINT12_NUM", Num 17);
  ("XCHAL_EXTINT13_NUM", Num 18); ("XCHAL_EXTINT14_NUM", Num 19);
  ("XCHAL_EXTINT15_NUM", Num 20); ("XCHAL_EXTINT16_NUM", Num 21);
  ("XCHAL_INT0_EXTNUM", Num 0); ("XCHAL_INT1_EXTNUM", Num 1);
  ("XCHAL_INT2_EXTNUM", Num 2); ("XCHAL_INT3_EXTNUM", Num 3);
  ("XCHAL_INT4_EXTNUM", Num 4); ("XCHAL_INT5_EXTNUM", Num 5);
  ("XCHAL_INT8_EXTNUM", Num 6); ("XCHAL_INT9_EXTNUM", Num 7);
  ("XCHAL_INT12_EXTNUM", Num 8); ("XCHAL_INT14_EXTNUM", Num 9);
  ("XCHAL_INT15_EXTNUM", Num 10); ("XCHAL_INT16_EXTNUM", Num 11);
  ("XCHAL_INT17_EXTNUM", Num 12); ("XCHAL_INT18_EXTNUM", Num 13);
  ("XCHAL_INT19_EXTNUM", Num 14); ("XCHAL_INT20_EXTNUM", Num 15);
  ("XCHAL_INT21_EXTNUM", Num 16)].

Definition de212_core_isa_4 : list (string * mexpr) := [
  ("XCHAL_XEA_VERSION", Num 2); ("XCHAL_HAVE_XEA1", Num 0);
  ("XCHAL_HAVE_XEA2", Num 1); ("XCHAL_HAVE_XEAX", Num 0);
  ("XCHAL_HAVE_EXCEPTIONS", Num 1); ("XCHAL_HAVE_HALT", Num 0);
  ("XCHAL_HAVE_BOOTLOADER", Num 0); ("XCHAL_HAVE_MEM_ECC_PARITY", Num 0);
  ("XCHAL_HAVE_VECTOR_SELECT", Num 1); ("XCHAL_HAVE_VECBASE", Num 1);
  ("XCHAL_VECBASE_RESET_VADDR", Num 0x60000000); ("XCHAL_VECBASE_RESET_PADDR", Num 0x60000000);
  ("XCHAL_RESET_VECBASE_OVERLAP", Num 0); ("XCHAL_RESET_VECTOR0_VADDR", Num 0x50000000);
  ("XCHAL_RESET_VECTOR0_PADDR", Num 0x50000000); ("XCHAL_RESET_VECTOR1_VADDR", Num 0x40000400);
  ("XCHAL_RESET_VECTOR1_PADDR", Num 0x40000400); ("XCHAL_RESET_VECTOR_VADDR", Num 0x50000000);
  ("XCHAL_RESET_VECTOR_PADDR", Num 0x50000000); ("XCHAL_USER_VECOFS", Num 0x00000340);
  ("XCHAL_USER_VECTOR_VADDR", Num 0x60000340); ("XCHAL_USER_VECTOR_PADDR", Num 0x60000340);
  ("XCHAL_KERNEL_VECOFS", Num 0x00000300); ("XCHAL_KERNEL_VECTOR_VADDR", Num 0x60000300);
  ("XCHAL_KERNEL_VECTOR_PADDR", Num 0x60000300); ("XCHAL_DOUBLEEXC_VECOFS", Num 0x000003C0);
  ("XCHAL_DOUBLEEXC_VECTOR_VADDR", Num 0x600003C0); ("XCHAL_DOUBLEEXC_VECTOR_PADDR", Num 0x600003C0);
  ("XCHAL_WINDOW_OF4_VECOFS", Num 0x00000000); ("XCHAL_WINDOW_UF4_VECOFS", Num 0x00000040);
  ("XCHAL_WINDOW_OF8_VECOFS", Num 0x00000080); ("XCHAL_WINDOW_UF8_VECOFS", Num 0x000000C0);
  ("XCHAL_WINDOW_OF12_VECOFS", Num 0x00000100); ("XCHAL_WINDOW_UF12_VECOFS", Num 0x00000140);
  ("XCHAL_WINDOW_VECTORS_VADDR", Num 0x60000000); ("XCHAL_WINDOW_VECTORS_PADDR", Num 0x60000000);
  ("XCHAL_INTLEVEL2_VECOFS", Num 0x00000180); ("XCHAL_INTLEVEL2_VECTOR_VADDR", Num 0x60000180);
  ("XCHAL_INTLEVEL2_VECTOR_PADDR", Num 0x60000180); ("XCHAL_INTLEVEL3_VECOFS", Num 0x000001C0);
  ("XCHAL_INTLEVEL3_VECTOR_VADDR", Num 0x600001C0); ("XCHAL_INTLEVEL3_VECTOR_PADDR", Num 0x600001C0);
  ("XCHAL_INTLEVEL4_VECOFS", Num 0x00000200); ("XCHAL_INTLEVEL4_VECTOR_VADDR", Num 0x60000200);
  ("XCHAL_INTLEVEL4_VECTOR_PADDR", Num 0x60000200); ("XCHAL_INTLEVEL5_VECOFS", Num 0x00000240);
  ("XCHAL_INTLEVEL5_VECTOR_VADDR", Num 0x60000240); ("XCHAL_INTLEVEL5_VECTOR_PADDR", Num 0x60000240);
  ("XCHAL_INTLEVEL6_VECOFS", Num 0x00000280); ("XCHAL_INTLEVEL6_VECTOR_VADDR", Num 0x60000280);
  ("XCHAL_INTLEVEL6_VECTOR_PADDR", Num 0x60000280); ("XCHAL_DEBUG_VECOFS", Name "XCHAL_INTLEVEL6_VECOFS");
  ("XCHAL_DEBUG_VECTOR_VADDR", Name "XCHAL_INTLEVEL6_VECTOR_VADDR"); ("XCHAL_DEBUG_VECTOR_PADDR", Name "XCHAL_INTLEVEL6_VECTOR_PADDR");
  ("XCHAL_NMI_VECOFS", Num 0x000002C0); ("XCHAL_NMI_VECTOR_VADDR", Num 0x600002C0);
  ("XCHAL_NMI_VECTOR_PADDR", Num 0x600002C0); ("XCHAL_INTLEVEL7_VECOFS", Name "XCHAL_NMI_VECOFS");
  ("XCHAL_INTLEVEL7_VECTOR_VADDR", Name "XCHAL_NMI_VECTOR_VADDR"); ("XCHAL_INTLEVEL7_VECTOR_PADDR", Name "XCHAL_NMI_VECTOR_PADDR");
  ("XCHAL_HAVE_DEBUG_ERI", Num 1); ("XCHAL_HAVE_DEBUG_APB", Num 0);
  ("XCHAL_HAVE_DEBUG_JTAG", Num 1); ("XCHAL_HAVE_OCD", Num 1);
  ("XCHAL_NUM_IBREAK", Num 2); ("XCHAL_NUM_DBREAK", Num 2);
  ("XCHAL_HAVE_OCD_DIR_ARRAY", Num 0); ("XCHAL_HAVE_OCD_LS32DDR", Num 1);
  ("XCHAL_HAVE_TRAX", Num 1); ("XCHAL_TRAX_MEM_SIZE", Num 262144);
  ("XCHAL_TRAX_MEM_SHAREABLE", Num 0); ("XCHAL_TRAX_ATB_WIDTH", Num 0);
  ("XCHAL_TRAX_TIME_WIDTH", Num 0); ("XCHAL_NUM_PERF_COUNTERS", Num 0);
  ("XCHAL_HAVE_TLBS", Num 1); ("XCHAL_HAVE_SPANNING_WAY", Num 1);
  ("XCHAL_SPANNING_WAY", Num 0); ("XCHAL_HAVE_IDENTITY_MAP", Num 1);
  ("XCHAL_HAVE_CACHEATTR", Num 0); ("XCHAL_HAVE_MIMIC_CACHEATTR", Num 1);
  ("XCHAL_HAVE_XLT_CACHEATTR", Num 0); ("XCHAL_HAVE_PTP_MMU", Num 0);
  ("XCHAL_MMU_ASID_BITS", Num 0); ("XCHAL_MMU_RINGS", Num 1);
  ("XCHAL_MMU_RING_BITS", Num 0); ("XCHAL_HAVE_MPU", Num 0);
  ("XCHAL_MPU_ENTRIES", Num 0); ("XCHAL_MPU_ALIGN_REQ", Num 1);
  ("XCHAL_MPU_BACKGROUND_ENTRIES", Num 0); ("XCHAL_MPU_ALIGN_BITS", Num 0);
  ("XCHAL_MPU_ALIGN", Num 0)].

Definition de212_core_isa : list (string * mexpr) :=
  de212_core_isa_1 ++ de212_core_isa_2 ++ de212_core_isa_3 ++ de212_core_isa_4.

Definition de233_fpu_core_isa_1 : list (string * mexpr) := [
  ("XTENSA_CORE_DE233_FPU_CORE_ISA_H", Text ""); ("XCHAL_HAVE_BE", Num 0);
  ("XCHAL_HAVE_WINDOWED", Num 1); ("XCHAL_NUM_AREGS", Num 32);
  ("XCHAL_NUM_AREGS_LOG2", Num 5); ("XCHAL_MAX_INSTRUCTION_SIZE", Num 3);
  ("XCHAL_HAVE_DEBUG", Num 1); ("XCHAL_HAVE_DENSITY", Num 1);
  ("XCHAL_HAVE_LOOPS", Num 1); ("XCHAL_LOOP_BUFFER_SIZE", Num 0);
  ("XCHAL_HAVE_NSA", Num 1); ("XCHAL_HAVE_MINMAX", Num 1);
  ("XCHAL_HAVE_SEXT", Num 1); ("XCHAL_HAVE_DEPBITS", Num 0);
  ("XCHAL_HAVE_CLAMPS", Num 1); ("XCHAL_HAVE_MUL16", Num 1);
  ("XCHAL_HAVE_MUL32", Num 1); ("XCHAL_HAVE_MUL32_HIGH", Num 0);
  ("XCHAL_HAVE_DIV32", Num 1); ("XCHAL_HAVE_L32R", Num 1);
  ("XCHAL_HAVE_ABSOLUTE_LITERALS", Num 0); ("XCHAL_HAVE_CONST16", Num 0);
  ("XCHAL_HAVE_ADDX", Num 1); ("XCHAL_HAVE_EXCLUSIVE", Num 0);
  ("XCHAL_HAVE_WIDE_BRANCHES", Num 0); ("XCHAL_HAVE_PREDICTED_BRANCHES", Num 0);
  ("XCHAL_HAVE_CALL4AND12", Num 1); ("XCHAL_HAVE_ABS", Num 1);
  ("XCHAL_HAVE_RELEASE_SYNC", Num 1); ("XCHAL_HAVE_S32C1I", Num 1);
  ("XCHAL_HAVE_SPECULATION", Num 0); ("XCHAL_HAVE_FULL_RESET", Num 1);
  ("XCHAL_NUM_CONTEXTS", Num 1); ("XCHAL_NUM_MISC_REGS", Num 2);
  ("XCHAL_HAVE_TAP_MASTER", Num 0); ("XCHAL_HAVE_PRID", Num 1);
  ("XCHAL_HAVE_EXTERN_REGS", Num 1); ("XCHAL_HAVE_MX", Num 0);
  ("XCHAL_HAVE_MP_INTERRUPTS", Num 0); ("XCHAL_HAVE_MP_RUNSTALL", Num 0);
  ("XCHAL_HAVE_PSO", Num 0); ("XCHAL_HAVE_PSO_CDM", Num 0);
  ("XCHAL_HAVE_PSO_FULL_RETENTION", Num 0); ("XCHAL_HAVE_THREADPTR", Num 1);
  ("XCHAL_HAVE_BOOLEANS", Num 1); ("XCHAL_HAVE_CP", Num 1);
  ("XCHAL_CP_MAXCFG", Num 8); ("XCHAL_HAVE_MAC16", Num 1);
  ("XCHAL_HAVE_LX", Num 1); ("XCHAL_HAVE_NX", Num 0);
  ("XCHAL_HAVE_SUPERGATHER", Num 0); ("XCHAL_HAVE_FUSION", Num 0);
  ("XCHAL_HAVE_FUSION_FP", Num 0); ("XCHAL_HAVE_FUSION_LOW_POWER", Num 0);
  ("XCHAL_HAVE_FUSION_AES", Num 0); ("XCHAL_HAVE_FUSION_CONVENC", Num 0);
  ("XCHAL_HAVE_FUSION_LFSR_CRC", Num 0); ("XCHAL_HAVE_FUSION_BITOPS", Num 0);
  ("XCHAL_HAVE_FUSION_AVS", Num 0); ("XCHAL_HAVE_FUSION_16BIT_BASEBAND", Num 0);
  ("XCHAL_HAVE_FUSION_VITERBI", Num 0); ("XCHAL_HAVE_FUSION_SOFTDEMAP", Num 0);
  ("XCHAL_HAVE_HIFIPRO", Num 0); ("XCHAL_HAVE_HIFI5", Num 0);
  ("XCHAL_HAVE_HIFI5_NN_MAC", Num 0); ("XCHAL_HAVE_HIFI5_VFPU", Num 0);
  ("XCHAL_HAVE_HIFI5_HP_VFPU", Num 0); ("XCHAL_HAVE_HIFI4", Num 0);
  ("XCHAL_HAVE_HIFI4_VFPU", Num 0); ("XCHAL_HAVE_HIFI3", Num 0);
  ("XCHAL_HAVE_HIFI3_VFPU", Num 0); ("XCHAL_HAVE_HIFI3Z", Num 0);
  ("XCHAL_HAVE_HIFI3Z_VFPU", Num 0); ("XCHAL_HAVE_HIFI2", Num 0);
  ("XCHAL_HAVE_HIFI2EP", Num 0); ("XCHAL_HAVE_HIFI_MINI", Num 0);
  ("XCHAL_HAVE_VECTORFPU2005", Num 0); ("XCHAL_HAVE_USER_DPFPU", Num 0);
  ("XCHAL_HAVE_USER_SPFPU", Num 0); ("XCHAL_HAVE_FP", Num 1);
  ("XCHAL_HAVE_FP_DIV", Num 1); ("XCHAL_HAVE_FP_RECIP", Num 1);
  ("XCHAL_HAVE_FP_SQRT", Num 1); ("XCHAL_HAVE_FP_RSQRT", Num 1);
  ("XCHAL_HAVE_DFP", Num 1); ("XCHAL_HAVE_DFP_DIV", Num 1);
  ("XCHAL_HAVE_DFP_RECIP", Num 1); ("XCHAL_HAVE_DFP_SQRT", Num 1);
  ("XCHAL_HAVE_DFP_RSQRT", Num 1); ("XCHAL_HAVE_DFP_ACCEL", Num 0);
  ("XCHAL_HAVE_DFP_accel", Name "XCHAL_HAVE_DFP_ACCEL"); ("XCHAL_HAVE_DFPU_SINGLE_ONLY", Num 0);
  ("XCHAL_HAVE_DFPU_SINGLE_DOUBLE", Num 1); ("XCHAL_HAVE_VECTRA1", Num 0);
  ("XCHAL_HAVE_VECTRALX", Num 0); ("XCHAL_HAVE_FUSIONG", Num 0);
  ("XCHAL_HAVE_FUSIONG3", Num 0); ("XCHAL_HAVE_FUSIONG6", Num 0);
  ("XCHAL_HAVE_FUSIONG_SP_VFPU", Num 0); ("XCHAL_HAVE_FUSIONG_DP_VFPU", Num 0);
  ("XCHAL_FUSIONG_SIMD32", Num 0); ("XCHAL_HAVE_FUSIONJ", Num 0);
  ("XCHAL_HAVE_FUSIONJ6", Num 0); ("XCHAL_HAVE_FUSIONJ_SP_VFPU", Num 0);
  ("XCHAL_HAVE_FUSIONJ_DP_VFPU", Num 0); ("XCHAL_FUSIONJ_SIMD32", Num 0);
  ("XCHAL_HAVE_PDX", Num 0); ("XCHAL_PDX_SIMD32", Num 0);
  ("XCHAL_HAVE_PDX4", Num 0); ("XCHAL_HAVE_PDX8", Num 0);
  ("XCHAL_HAVE_PDX16", Num 0); ("XCHAL_HAVE_PDXNX", Num 0);
  ("XCHAL_HAVE_CONNXD2", Num 0); ("XCHAL_HAVE_CONNXD2_DUALLSFLIX", Num 0);
  ("XCHAL_HAVE_BALL", Num 0); ("XCHAL_HAVE_BALLAP", Num 0);
  ("XCHAL_HAVE_BBE16", Num 0); ("XCHAL_HAVE_BBE16_RSQRT", Num 0);
  ("XCHAL_HAVE_BBE16_VECDIV", Num 0); ("XCHAL_HAVE_BBE16_DESPREAD", Num 0);
  ("XCHAL_HAVE_CONNX_B10", Num 0); ("XCHAL_HAVE_CONNX_B20", Num 0);
  ("XCHAL_HAVE_CONNX_B_SP_VFPU", Num 0)].

Definition de233_fpu_core_isa_2 : list (string * mexpr) := [
  ("XCHAL_HAVE_CONNX_B_SPX_VFPU", Num 0); ("XCHAL_HAVE_CONNX_B_HPX_VFPU", Num 0);
  ("XCHAL_HAVE_CONNX_B_32B_MAC", Num 0); ("XCHAL_HAVE_CONNX_B_VITERBI", Num 0);
  ("XCHAL_HAVE_CONNX_B_TURBO", Num 0); ("XCHAL_HAVE_CONNX_B_LDPC", Num 0);
  ("XCHAL_HAVE_BBENEP", Num 0); ("XCHAL_HAVE_BBENEP_SP_VFPU", Num 0);
  ("XCHAL_HAVE_BSP3", Num 0); ("XCHAL_HAVE_BSP3_TRANSPOSE", Num 0);
  ("XCHAL_HAVE_SSP16", Num 0); ("XCHAL_HAVE_SSP16_VITERBI", Num 0);
  ("XCHAL_HAVE_TURBO16", Num 0); ("XCHAL_HAVE_BBP16", Num 0);
  ("XCHAL_HAVE_FLIX3", Num 0); ("XCHAL_HAVE_GRIVPEP", Num 0);
  ("XCHAL_HAVE_GRIVPEP_HISTOGRAM", Num 0); ("XCHAL_HAVE_VISION", Num 0);
  ("XCHAL_VISION_SIMD16", Num 0); ("XCHAL_VISION_TYPE", Num 0);
  ("XCHAL_VISION_QUAD_MAC_TYPE", Num 0); ("XCHAL_HAVE_VISION_HISTOGRAM", Num 0);
  ("XCHAL_HAVE_VISION_SP_VFPU", Num 0); ("XCHAL_HAVE_VISION_SP_VFPU_2XFMAC", Num 0);
  ("XCHAL_HAVE_VISION_HP_VFPU", Num 0); ("XCHAL_HAVE_VISION_HP_VFPU_2XFMAC", Num 0);
  ("XCHAL_HAVE_VISIONC", Num 0); ("XCHAL_HAVE_XNNE", Num 0);
  ("XCHAL_NUM_LOADSTORE_UNITS", Num 1); ("XCHAL_NUM_WRITEBUFFER_ENTRIES", Num 8);
  ("XCHAL_INST_FETCH_WIDTH", Num 4); ("XCHAL_DATA_WIDTH", Num 8);
  ("XCHAL_DATA_PIPE_DELAY", Num 1); ("XCHAL_CLOCK_GATING_GLOBAL", Num 1);
  ("XCHAL_CLOCK_GATING_FUNCUNIT", Num 1); ("XCHAL_UNALIGNED_LOAD_EXCEPTION", Num 1);
  ("XCHAL_UNALIGNED_STORE_EXCEPTION", Num 1); ("XCHAL_UNALIGNED_LOAD_HW", Num 0);
  ("XCHAL_UNALIGNED_STORE_HW", Num 0); ("XCHAL_UNIFIED_LOADSTORE", Num 0);
  ("XCHAL_SW_VERSION", Num 1403000); ("XCHAL_SW_VERSION_MAJOR", Num 14000);
  ("XCHAL_SW_VERSION_MINOR", Num 3); ("XCHAL_SW_VERSION_MICRO", Num 0);
  ("XCHAL_SW_MINOR_VERSION", Num 1403000); ("XCHAL_SW_MICRO_VERSION", Num 1403000);
  ("XCHAL_CORE_ID", Text "DE_233L_FPU"); ("XCHAL_BUILD_UNIQUE_ID", Num 0x000872E0);
  ("XCHAL_HW_CONFIGID0", Num 0xC1039286); ("XCHAL_HW_CONFIGID1", Num 0x28C872E0);
  ("XCHAL_HW_VERSION_NAME", Text "LX7.1.3"); ("XCHAL_HW_VERSION_MAJOR", Num 2810);
  ("XCHAL_HW_VERSION_MINOR", Num 3); ("XCHAL_HW_VERSION_MICRO", Num 0);
  ("XCHAL_HW_VERSION", Num 281030); ("XCHAL_HW_REL_LX7", Num 1);
  ("XCHAL_HW_REL_LX7_1", Num 1); ("XCHAL_HW_REL_LX7_1_3", Num 1);
  ("XCHAL_HW_CONFIGID_RELIABLE", Num 1); ("XCHAL_HW_MIN_VERSION_MAJOR", Num 2810);
  ("XCHAL_HW_MIN_VERSION_MINOR", Num 3); ("XCHAL_HW_MIN_VERSION_MICRO", Num 0);
  ("XCHAL_HW_MIN_VERSION", Num 281030); ("XCHAL_HW_MAX_VERSION_MAJOR", Num 2810);
  ("XCHAL_HW_MAX_VERSION_MINOR", Num 3); ("XCHAL_HW_MAX_VERSION_MICRO", Num 0);
  ("XCHAL_HW_MAX_VERSION", Num 281030); ("XCHAL_HAVE_FUNC_SAFETY", Num 0);
  ("XCHAL_HAVE_APB", Num 0); ("XCHAL_ICACHE_LINESIZE", Num 32);
  ("XCHAL_DCACHE_LINESIZE", Num 32); ("XCHAL_ICACHE_LINEWIDTH", Num 5);
  ("XCHAL_DCACHE_LINEWIDTH", Num 5); ("XCHAL_ICACHE_SIZE", Num 16384);
  ("XCHAL_ICACHE_SIZE_LOG2", Num 14); ("XCHAL_DCACHE_SIZE", Num 16384);
  ("XCHAL_DCACHE_SIZE_LOG2", Num 14); ("XCHAL_DCACHE_IS_WRITEBACK", Num 1);
  ("XCHAL_DCACHE_IS_COHERENT", Num 0); ("XCHAL_HAVE_PREFETCH", Num 0);
  ("XCHAL_HAVE_PREFETCH_L1", Num 0); ("XCHAL_PREFETCH_CASTOUT_LINES", Num 0);
  ("XCHAL_PREFETCH_ENTRIES", Num 0); ("XCHAL_PREFETCH_BLOCK_ENTRIES", Num 0);
  ("XCHAL_HAVE_CACHE_BLOCKOPS", Num 0); ("XCHAL_HAVE_CME_DOWNGRADES", Num 0);
  ("XCHAL_HAVE_ICACHE_TEST", Num 1); ("XCHAL_HAVE_DCACHE_TEST", Num 1);
  ("XCHAL_HAVE_ICACHE_DYN_WAYS", Num 0); ("XCHAL_HAVE_DCACHE_DYN_WAYS", Num 0);
  ("XCHAL_HAVE_ICACHE_DYN_ENABLE", Num 0); ("XCHAL_HAVE_DCACHE_DYN_ENABLE", Num 0);
  ("XCHAL_L1SCACHE_SIZE", Num 0); ("XCHAL_L1SCACHE_SIZE_LOG2", Num 0);
  ("XCHAL_L1SCACHE_WAYS", Num 1); ("XCHAL_L1SCACHE_WAYS_LOG2", Num 0);
  ("XCHAL_L1SCACHE_ACCESS_SIZE", Num 0); ("XCHAL_L1SCACHE_BANKS", Num 1);
  ("XCHAL_HAVE_L2", Num 0); ("XCHAL_NUM_CORES_IN_CLUSTER", Num 0);
  ("PRID_ID_SHIFT", Num 0); ("PRID_ID_BITS", Num 4);
  ("PRID_ID_MASK", Num 0x0000000F); ("XCHAL_HAVE_BRANCH_PREDICTION", Num 0)].

Definition de233_fpu_core_isa_3 : list (string * mexpr) := [
  ("XCHAL_HAVE_PIF", Num 1); ("XCHAL_HAVE_AXI", Num 0);
  ("XCHAL_HAVE_AXI_ECC", Num 0); ("XCHAL_HAVE_ACELITE", Num 0);
  ("XCHAL_HAVE_PIF_WR_RESP", Num 0); ("XCHAL_HAVE_PIF_REQ_ATTR", Num 0);
  ("XCHAL_ICACHE_SETWIDTH", Num 7); ("XCHAL_DCACHE_SETWIDTH", Num 7);
  ("XCHAL_ICACHE_WAYS", Num 4); ("XCHAL_ICACHE_WAYS_LOG2", Num 2);
  ("XCHAL_DCACHE_WAYS", Num 4); ("XCHAL_DCACHE_WAYS_LOG2", Num 2);
  ("XCHAL_ICACHE_LINE_LOCKABLE", Num 1); ("XCHAL_DCACHE_LINE_LOCKABLE", Num 1);
  ("XCHAL_ICACHE_ECC_PARITY", Num 0); ("XCHAL_DCACHE_ECC_PARITY", Num 0);
  ("XCHAL_ICACHE_ECC_WIDTH", Num 4); ("XCHAL_DCACHE_ECC_WIDTH", Num 1);
  ("XCHAL_ICACHE_ACCESS_SIZE", Num 4); ("XCHAL_DCACHE_ACCESS_SIZE", Num 8);
  ("XCHAL_DCACHE_BANKS", Num 1); ("XCHAL_DCACHE_LINES_PER_TAG_LOG2", Num 0);
  ("XCHAL_CA_BITS", Num 4); ("XCHAL_NUM_INSTROM", Num 0);
  ("XCHAL_NUM_INSTRAM", Num 0); ("XCHAL_NUM_DATAROM", Num 0);
  ("XCHAL_NUM_DATARAM", Num 0); ("XCHAL_NUM_URAM", Num 0);
  ("XCHAL_NUM_XLMI", Num 0); ("XCHAL_HAVE_IRAMCFG", Num 0);
  ("XCHAL_HAVE_DRAMCFG", Num 0); ("XCHAL_HAVE_IDMA", Num 0);
  ("XCHAL_HAVE_IMEM_LOADSTORE", Num 1); ("XCHAL_HAVE_INTERRUPTS", Num 1);
  ("XCHAL_HAVE_NMI", Num 1); ("XCHAL_HAVE_CCOUNT", Num 1);
  ("XCHAL_NUM_TIMERS", Num 3); ("XCHAL_NUM_INTERRUPTS", Num 22);
  ("XCHAL_NUM_INTERRUPTS_LOG2", Num 5); ("XCHAL_NUM_EXTINTERRUPTS", Num 17);
  ("XCHAL_NUM_INTLEVELS", Num 6); ("XCHAL_HAVE_HIGHPRI_INTERRUPTS", Num 1);
  ("XCHAL_EXCM_LEVEL", Num 3); ("XCHAL_INTLEVEL1_MASK", Num 0x001F80FF);
  ("XCHAL_INTLEVEL2_MASK", Num 0x00000100); ("XCHAL_INTLEVEL3_MASK", Num 0x00200E00);
  ("XCHAL_INTLEVEL4_MASK", Num 0x00001000); ("XCHAL_INTLEVEL5_MASK", Num 0x00002000);
  ("XCHAL_INTLEVEL6_MASK", Num 0x00000000); ("XCHAL_INTLEVEL7_MASK", Num 0x00004000);
  ("XCHAL_INTLEVEL1_ANDBELOW_MASK", Num 0x001F80FF); ("XCHAL_INTLEVEL2_ANDBELOW_MASK", Num 0x001F81FF);
  ("XCHAL_INTLEVEL3_ANDBELOW_MASK", Num 0x003F8FFF); ("XCHAL_INTLEVEL4_ANDBELOW_MASK", Num 0x003F9FFF);
  ("XCHAL_INTLEVEL5_ANDBELOW_MASK", Num 0x003FBFFF); ("XCHAL_INTLEVEL6_ANDBELOW_MASK", Num 0x003FBFFF);
  ("XCHAL_INTLEVEL7_ANDBELOW_MASK", Num 0x003FFFFF); ("XCHAL_INT0_LEVEL", Num 1);
  ("XCHAL_INT1_LEVEL", Num 1); ("XCHAL_INT2_LEVEL", Num 1);
  ("XCHAL_INT3_LEVEL", Num 1); ("XCHAL_INT4_LEVEL", Num 1);
  ("XCHAL_INT5_LEVEL", Num 1); ("XCHAL_INT6_LEVEL", Num 1);
  ("XCHAL_INT7_LEVEL", Num 1); ("XCHAL_INT8_LEVEL", Num 2);
  ("XCHAL_INT9_LEVEL", Num 3); ("XCHAL_INT10_LEVEL", Num 3);
  ("XCHAL_INT11_LEVEL", Num 3); ("XCHAL_INT12_LEVEL", Num 4);
  ("XCHAL_INT13_LEVEL", Num 5); ("XCHAL_INT14_LEVEL", Num 7);
  ("XCHAL_INT15_LEVEL", Num 1); ("XCHAL_INT16_LEVEL", Num 1);
  ("XCHAL_INT17_LEVEL", Num 1); ("XCHAL_INT18_LEVEL", Num 1);
  ("XCHAL_INT19_LEVEL", Num 1); ("XCHAL_INT20_LEVEL", Num 1);
  ("XCHAL_INT21_LEVEL", Num 3); ("XCHAL_DEBUGLEVEL", Num 6);
  ("XCHAL_HAVE_DEBUG_EXTERN_INT", Num 1); ("XCHAL_NMILEVEL", Num 7);
  ("XCHAL_INT0_TYPE", Name "XTHAL_INTTYPE_EXTERN_LEVEL"); ("XCHAL_INT1_TYPE", Name "XTHAL_INTTYPE_EXTERN_LEVEL");
  ("XCHAL_INT2_TYPE", Name "XTHAL_INTTYPE_EXTERN_LEVEL"); ("XCHAL_INT3_TYPE", Name "XTHAL_INTTYPE_EXTERN_LEVEL");
  ("XCHAL_INT4_TYPE", Name "XTHAL_INTTYPE_EXTERN_LEVEL"); ("XCHAL_INT5_TYPE", Name "XTHAL_INTTYPE_EXTERN_LEVEL");
  ("XCHAL_INT6_TYPE", Name "XTHAL_INTTYPE_TIMER"); ("XCHAL_INT7_TYPE", Name "XTHAL_INTTYPE_SOFTWARE");
  ("XCHAL_INT8_TYPE", Name "XTHAL_INTTYPE_EXTERN_LEVEL"); ("XCHAL_INT9_TYPE", Name "XTHAL_INTTYPE_EXTERN_LEVEL");
  ("XCHAL_INT10_TYPE", Name "XTHAL_INTTYPE_TIMER"); ("XCHAL_INT11_TYPE", Name "XTHAL_INTTYPE_SOFTWARE");
  ("XCHAL_INT12_TYPE", Name "XTHAL_INTTYPE_EXTERN_LEVEL"); ("XCHAL_INT13_TYPE", Name "XTHAL_INTTYPE_TIMER");
  ("XCHAL_INT14_TYPE", Name "XTHAL_INTTYPE_NMI"); ("XCHAL_INT15_TYPE", Name "XTHAL_INTTYPE_EXTERN_EDGE");
  ("XCHAL_INT16_TYPE", Name "XTHAL_INTTYPE_EXTERN_EDGE"); ("XCHAL_INT17_TYPE", Name "XTHAL_INTTYPE_EXTERN_EDGE");
  ("XCHAL_INT18_TYPE", Name "XTHAL_INTTYPE_EXTERN_EDGE"); ("XCHAL_INT19_TYPE", Name "XTHAL_INTTYPE_EXTERN_EDGE");
  ("XCHAL_INT20_TYPE", Name "XTHAL_INTTYPE_EXTERN_EDGE"); ("XCHAL_INT21_TYPE", Name "XTHAL_INTTYPE_EXTERN_EDGE")].

Definition de233_fpu_core_isa_4 : list (string * mexpr) := [
  ("XCHAL_INTTYPE_MASK_UNCONFIGURED", Num 0xFFC00000); ("XCHAL_INTTYPE_MASK_EXTERN_LEVEL", Num 0x0000133F);
  ("XCHAL_INTTYPE_MASK_EXTERN_EDGE", Num 0x003F8000); ("XCHAL_INTTYPE_MASK_NMI", Num 0x00004000);
  ("XCHAL_INTTYPE_MASK_SOFTWARE", Num 0x00000880); ("XCHAL_INTTYPE_MASK_TIMER", Num 0x00002440);
  ("XCHAL_INTTYPE_MASK_WRITE_ERROR", Num 0x00000000); ("XCHAL_INTTYPE_MASK_DBG_REQUEST", Num 0x00000000);
  ("XCHAL_INTTYPE_MASK_BREAKIN", Num 0x00000000); ("XCHAL_INTTYPE_MASK_TRAX", Num 0x00000000);
  ("XCHAL_INTTYPE_MASK_PROFILING", Num 0x00000000); ("XCHAL_INTTYPE_MASK_IDMA_DONE", Num 0x00000000);
  ("XCHAL_INTTYPE_MASK_IDMA_ERR", Num 0x00000000); ("XCHAL_INTTYPE_MASK_GS_ERR", Num 0x00000000);
  ("XCHAL_INTTYPE_MASK_L2_ERR", Num 0x00000000); ("XCHAL_INTTYPE_MASK_L2_STATUS", Num 0x00000000);
  ("XCHAL_INTTYPE_MASK_COR_ECC_ERR", Num 0x00000000); ("XCHAL_TIMER0_INTERRUPT", Num 6);
  ("XCHAL_TIMER1_INTERRUPT", Num 10); ("XCHAL_TIMER2_INTERRUPT", Num 13);
  ("XCHAL_TIMER3_INTERRUPT", Name "XTHAL_TIMER_UNCONFIGURED"); ("XCHAL_NMI_INTERRUPT", Num 14);
  ("XCHAL_INTLEVEL2_NUM", Num 8); ("XCHAL_INTLEVEL4_NUM", Num 12);
  ("XCHAL_INTLEVEL5_NUM", Num 13); ("XCHAL_INTLEVEL7_NUM", Num 14);
  ("XCHAL_EXTINT0_NUM", Num 0); ("XCHAL_EXTINT1_NUM", Num 1);
  ("XCHAL_EXTINT2_NUM", Num 2); ("XCHAL_EXTINT3_NUM", Num 3);
  ("XCHAL_EXTINT4_NUM", Num 4); ("XCHAL_EXTINT5_NUM", Num 5);
  ("XCHAL_EXTINT6_NUM", Num 8); ("XCHAL_EXTINT7_NUM", Num 9);
  ("XCHAL_EXTINT8_NUM", Num 12); ("XCHAL_EXTINT9_NUM", Num 14);
  ("XCHAL_EXTINT10_NUM", Num 15); ("XCHAL_EXTINT11_NUM", Num 16);
  ("XCHAL_EXTINT12_NUM", Num 17); ("XCHAL_EXTINT13_NUM", Num 18);
  ("XCHAL_EXTINT14_NUM", Num 19); ("XCHAL_EXTINT15_NUM", Num 20);
  ("XCHAL_EXTINT16_NUM", Num 21); ("XCHAL_INT0_EXTNUM", Num 0);
  ("XCHAL_INT1_EXTNUM", Num 1); ("XCHAL_INT2_EXTNUM", Num 2);
  ("XCHAL_INT3_EXTNUM", Num 3); ("XCHAL_INT4_EXTNUM", Num 4);
  ("XCHAL_INT5_EXTNUM", Num 5); ("XCHAL_INT8_EXTNUM", Num 6);
  ("XCHAL_INT9_EXTNUM", Num 7); ("XCHAL_INT12_EXTNUM", Num 8);
  ("XCHAL_INT14_EXTNUM", Num 9); ("XCHAL_INT15_EXTNUM", Num 10);
  ("XCHAL_INT16_EXTNUM", Num 11); ("XCHAL_INT17_EXTNUM", Num 12);
  ("XCHAL_INT18_EXTNUM", Num 13); ("XCHAL_INT19_EXTNUM", Num 14);
  ("XCHAL_INT20_EXTNUM", Num 15); ("XCHAL_INT21_EXTNUM", Num 16);
  ("XCHAL_HAVE_ISB", Num 0); ("XCHAL_ISB_VADDR", Num 0);
  ("XCHAL_HAVE_ITB", Num 0); ("XCHAL_ITB_VADDR", Num 0);
  ("XCHAL_HAVE_KSL", Num 0); ("XCHAL_HAVE_ISL", Num 0);
  ("XCHAL_HAVE_PSL", Num 0); ("XCHAL_XEA_VERSION", Num 2);
  ("XCHAL_HAVE_XEA1", Num 0); ("XCHAL_HAVE_XEA2", Num 1);
  ("XCHAL_HAVE_XEA3", Num 0); ("XCHAL_HAVE_XEAX", Num 0);
  ("XCHAL_HAVE_EXCEPTIONS", Num 1); ("XCHAL_HAVE_IMPRECISE_EXCEPTIONS", Num 0);
  ("XCHAL_EXCCAUSE_NUM", Num 64); ("XCHAL_HAVE_HALT", Num 0);
  ("XCHAL_HAVE_BOOTLOADER", Num 0); ("XCHAL_HAVE_MEM_ECC_PARITY", Num 0);
  ("XCHAL_HAVE_VECTOR_SELECT", Num 1); ("XCHAL_HAVE_VECBASE", Num 1);
  ("XCHAL_VECBASE_RESET_VADDR", Num 0x00002000); ("XCHAL_VECBASE_RESET_PADDR", Num 0x00002000);
  ("XCHAL_RESET_VECBASE_OVERLAP", Num 0); ("XCHAL_RESET_VECTOR0_VADDR", Num 0xFE000000);
  ("XCHAL_RESET_VECTOR0_PADDR", Num 0xFE000000); ("XCHAL_RESET_VECTOR1_VADDR", Num 0x00001000);
  ("XCHAL_RESET_VECTOR1_PADDR", Num 0x00001000); ("XCHAL_RESET_VECTOR_VADDR", Name "XCHAL_RESET_VECTOR0_VADDR");
  ("XCHAL_RESET_VECTOR_PADDR", Name "XCHAL_RESET_VECTOR0_PADDR"); ("XCHAL_USER_VECOFS", Num 0x00000340);
  ("XCHAL_USER_VECTOR_VADDR", Num 0x00002340); ("XCHAL_USER_VECTOR_PADDR", Num 0x00002340);
  ("XCHAL_KERNEL_VECOFS", Num 0x00000300); ("XCHAL_KERNEL_VECTOR_VADDR", Num 0x00002300);
  ("XCHAL_KERNEL_VECTOR_PADDR", Num 0x00002300); ("XCHAL_DOUBLEEXC_VECOFS", Num 0x000003C0);
  ("XCHAL_DOUBLEEXC_VECTOR_VADDR", Num 0x000023C0); ("XCHAL_DOUBLEEXC_VECTOR_PADDR", Num 0x000023C0);
  ("XCHAL_WINDOW_OF4_VECOFS", Num 0x00000000); ("XCHAL_WINDOW_UF4_VECOFS", Num 0x00000040);
  ("XCHAL_WINDOW_OF8_VECOFS", Num 0x00000080); ("XCHAL_WINDOW_UF8_VECOFS", Num 0x000000C0);
  ("XCHAL_WINDOW_OF12_VECOFS", Num 0x00000100); ("XCHAL_WINDOW_UF12_VECOFS", Num 0x00000140);
  ("XCHAL_WINDOW_VECTORS_VADDR", Num 0x00002000); ("XCHAL_WINDOW_VECTORS_PADDR", Num 0x00002000);
  ("XCHAL_INTLEVEL2_VECOFS", Num 0x00000180); ("XCHAL_INTLEVEL2_VECTOR_VADDR", Num 0x00002180);
  ("XCHAL_INTLEVEL2_VECTOR_PADDR", Num 0x00002180); ("XCHAL_INTLEVEL3_VECOFS", Num 0x000001C0);
  ("XCHAL_INTLEVEL3_VECTOR_VADDR", Num 0x000021C0); ("XCHAL_INTLEVEL3_VECTOR_PADDR", Num 0x000021C0);
  ("XCHAL_INTLEVEL4_VECOFS", Num 0x00000200); ("XCHAL_INTLEVEL4_VECTOR_VADDR", Num 0x00002200);
  ("XCHAL_INTLEVEL4_VECTOR_PADDR", Num 0x00002200); ("XCHAL_INTLEVEL5_VECOFS", Num 0x00000240);
  ("XCHAL_INTLEVEL5_VECTOR_VADDR", Num 0x00002240); ("XCHAL_INTLEVEL5_VECTOR_PADDR", Num 0x00002240);
  ("XCHAL_INTLEVEL6_VECOFS", Num 0x00000280)].

Definition de233_fpu_core_isa_5 : list (string * mexpr) := [
  ("XCHAL_INTLEVEL6_VECTOR_VADDR", Num 0x00002280); ("XCHAL_INTLEVEL6_VECTOR_PADDR", Num 0x00002280);
  ("XCHAL_DEBUG_VECOFS", Name "XCHAL_INTLEVEL6_VECOFS"); ("XCHAL_DEBUG_VECTOR_VADDR", Name "XCHAL_INTLEVEL6_VECTOR_VADDR");
  ("XCHAL_DEBUG_VECTOR_PADDR", Name "XCHAL_INTLEVEL6_VECTOR_PADDR"); ("XCHAL_NMI_VECOFS", Num 0x000002C0);
  ("XCHAL_NMI_VECTOR_VADDR", Num 0x000022C0); ("XCHAL_NMI_VECTOR_PADDR", Num 0x000022C0);
  ("XCHAL_INTLEVEL7_VECOFS", Name "XCHAL_NMI_VECOFS"); ("XCHAL_INTLEVEL7_VECTOR_VADDR", Name "XCHAL_NMI_VECTOR_VADDR");
  ("XCHAL_INTLEVEL7_VECTOR_PADDR", Name "XCHAL_NMI_VECTOR_PADDR"); ("XCHAL_HAVE_DEBUG_ERI", Num 0);
  ("XCHAL_HAVE_DEBUG_APB", Num 0); ("XCHAL_HAVE_DEBUG_JTAG", Num 1);
  ("XCHAL_HAVE_OCD", Num 1); ("XCHAL_NUM_IBREAK", Num 2);
  ("XCHAL_NUM_DBREAK", Num 2); ("XCHAL_HAVE_OCD_DIR_ARRAY", Num 0);
  ("XCHAL_HAVE_OCD_LS32DDR", Num 1); ("XCHAL_HAVE_TRAX", Num 0);
  ("XCHAL_TRAX_MEM_SIZE", Num 0); ("XCHAL_TRAX_MEM_SHAREABLE", Num 0);
  ("XCHAL_TRAX_ATB_WIDTH", Num 0); ("XCHAL_TRAX_TIME_WIDTH", Num 0);
  ("XCHAL_NUM_PERF_COUNTERS", Num 0); ("XCHAL_HAVE_TLBS", Num 1);
  ("XCHAL_HAVE_SPANNING_WAY", Num 1); ("XCHAL_SPANNING_WAY", Num 6);
  ("XCHAL_HAVE_IDENTITY_MAP", Num 0); ("XCHAL_HAVE_CACHEATTR", Num 0);
  ("XCHAL_HAVE_MIMIC_CACHEATTR", Num 0); ("XCHAL_HAVE_XLT_CACHEATTR", Num 0);
  ("XCHAL_HAVE_PTP_MMU", Num 1); ("XCHAL_ITLB_ARF_ENTRIES_LOG2", Num 2);
  ("XCHAL_DTLB_ARF_ENTRIES_LOG2", Num 2); ("XCHAL_MMU_ASID_BITS", Num 8);
  ("XCHAL_MMU_RINGS", Num 4); ("XCHAL_MMU_RING_BITS", Num 2);
  ("XCHAL_HAVE_MPU", Num 0); ("XCHAL_MPU_ENTRIES", Num 0);
  ("XCHAL_MPU_ALIGN_REQ", Num 1); ("XCHAL_MPU_BACKGROUND_ENTRIES", Num 0);
  ("XCHAL_MPU_BG_CACHEADRDIS", Num 0); ("XCHAL_MPU_ALIGN_BITS", Num 0);
  ("XCHAL_MPU_ALIGN", Num 0)].

Definition de233_fpu_core_isa : list (string * mexpr) :=
  de233_fpu_core_isa_1 ++ de233_fpu_core_isa_2 ++ de233_fpu_core_isa_3 ++ de233_fpu_core_isa_4 ++ de233_fpu_core_isa_5.
