(* ===== verification/CoreIsaTest.v ===== *)
(** * Configuration headers ([core-*/core-isa.h]): fsf, dsp3400, sample_controller, test_kc705_be, test_mmuhifi_c3

    The macros of each header in order, a table per 150 lines of the file. *)

From stdpp Require Import strings.
From S2P Require Import Prelude Overlay.

#[local] Open Scope string_scope.
#[local] Open Scope list_scope.
#[local] Open Scope Z_scope.

Definition fsf_core_isa_1 : list (string * mexpr) := [
  ("XTENSA_FSF_CORE_ISA_H", Text ""); ("XCHAL_HAVE_BE", Num 1);
  ("XCHAL_HAVE_WINDOWED", Num 1); ("XCHAL_NUM_AREGS", Num 64);
  ("XCHAL_NUM_AREGS_LOG2", Num 6); ("XCHAL_MAX_INSTRUCTION_SIZE", Num 3);
  ("XCHAL_HAVE_DEBUG", Num 1); ("XCHAL_HAVE_DENSITY", Num 1);
  ("XCHAL_HAVE_LOOPS", Num 1); ("XCHAL_HAVE_NSA", Num 1);
  ("XCHAL_HAVE_MINMAX", Num 0); ("XCHAL_HAVE_SEXT", Num 0);
  ("XCHAL_HAVE_CLAMPS", Num 0); ("XCHAL_HAVE_MUL16", Num 0);
  ("XCHAL_HAVE_MUL32", Num 0); ("XCHAL_HAVE_MUL32_HIGH", Num 0);
  ("XCHAL_HAVE_L32R", Num 1); ("XCHAL_HAVE_ABSOLUTE_LITERALS", Num 1);
  ("XCHAL_HAVE_CONST16", Num 0); ("XCHAL_HAVE_ADDX", Num 1);
  ("XCHAL_HAVE_WIDE_BRANCHES", Num 0); ("XCHAL_HAVE_PREDICTED_BRANCHES", Num 0);
  ("XCHAL_HAVE_CALL4AND12", Num 1); ("XCHAL_HAVE_ABS", Num 1);
  ("XCHAL_HAVE_RELEASE_SYNC", Num 0); ("XCHAL_HAVE_S32C1I", Num 0);
  ("XCHAL_HAVE_SPECULATION", Num 0); ("XCHAL_HAVE_FULL_RESET", Num 1);
  ("XCHAL_NUM_CONTEXTS", Num 1); ("XCHAL_NUM_MISC_REGS", Num 2);
  ("XCHAL_HAVE_TAP_MASTER", Num 0); ("XCHAL_HAVE_PRID", Num 1);
  ("XCHAL_HAVE_THREADPTR", Num 1); ("XCHAL_HAVE_BOOLEANS", Num 0);
  ("XCHAL_HAVE_CP", Num 0); ("XCHAL_CP_MAXCFG", Num 0);
  ("XCHAL_HAVE_MAC16", Num 0); ("XCHAL_HAVE_VECTORFPU2005", Num 0);
  ("XCHAL_HAVE_FP", Num 0); ("XCHAL_HAVE_VECTRA1", Num 0);
  ("XCHAL_HAVE_VECTRALX", Num 0); ("XCHAL_HAVE_HIFI2", Num 0);
  ("XCHAL_NUM_WRITEBUFFER_ENTRIES", Num 4); ("XCHAL_INST_FETCH_WIDTH", Num 4);
  ("XCHAL_DATA_WIDTH", Num 4); ("XCHAL_UNALIGNED_LOAD_EXCEPTION", Num 1);
  ("XCHAL_UNALIGNED_STORE_EXCEPTION", Num 1); ("XCHAL_SW_VERSION", Num 800002);
  ("XCHAL_CORE_ID", Text "fsf"); ("XCHAL_CORE_DESCRIPTION", Text "fsf standard core");
  ("XCHAL_BUILD_UNIQUE_ID", Num 0x00006700); ("XCHAL_HW_CONFIGID0", Num 0xC103C3FF);
  ("XCHAL_HW_CONFIGID1", Num 0x0C006700); ("XCHAL_HW_VERSION_NAME", Text "LX2.0.0");
  ("XCHAL_HW_VERSION_MAJOR", Num 2200); ("XCHAL_HW_VERSION_MINOR", Num 0);
  ("XTHAL_HW_REL_LX2", Num 1); ("XTHAL_HW_REL_LX2_0", Num 1);
  ("XTHAL_HW_REL_LX2_0_0", Num 1); ("XCHAL_HW_CONFIGID_RELIABLE", Num 1);
  ("XCHAL_HW_MIN_VERSION_MAJOR", Num 2200); ("XCHAL_HW_MIN_VERSION_MINOR", Num 0);
  ("XCHAL_HW_MAX_VERSION_MAJOR", Num 2200); ("XCHAL_HW_MAX_VERSION_MINOR", Num 0);
  ("XCHAL_ICACHE_LINESIZE", Num 16); ("XCHAL_DCACHE_LINESIZE", Num 16);
  ("XCHAL_ICACHE_LINEWIDTH", Num 4); ("XCHAL_DCACHE_LINEWIDTH", Num 4);
  ("XCHAL_ICACHE_SIZE", Num 8192); ("XCHAL_DCACHE_SIZE", Num 8192);
  ("XCHAL_DCACHE_IS_WRITEBACK", Num 0); ("XCHAL_HAVE_PIF", Num 1);
  ("XCHAL_ICACHE_SETWIDTH", Num 8); ("XCHAL_DCACHE_SETWIDTH", Num 8);
  ("XCHAL_ICACHE_WAYS", Num 2); ("XCHAL_DCACHE_WAYS", Num 2);
  ("XCHAL_ICACHE_LINE_LOCKABLE", Num 0); ("XCHAL_DCACHE_LINE_LOCKABLE", Num 0);
  ("XCHAL_ICACHE_ECC_PARITY", Num 0); ("XCHAL_DCACHE_ECC_PARITY", Num 0);
  ("XCHAL_CA_BITS", Num 4)].

Definition fsf_core_isa_2 : list (string * mexpr) := [
  ("XCHAL_NUM_INSTROM", Num 0); ("XCHAL_NUM_INSTRAM", Num 0);
  ("XCHAL_NUM_DATAROM", Num 0); ("XCHAL_NUM_DATARAM", Num 0);
  ("XCHAL_NUM_URAM", Num 0); ("XCHAL_NUM_XLMI", Num 0);
  ("XCHAL_HAVE_INTERRUPTS", Num 1); ("XCHAL_HAVE_HIGHPRI_INTERRUPTS", Num 1);
  ("XCHAL_HAVE_NMI", Num 0); ("XCHAL_HAVE_CCOUNT", Num 1);
  ("XCHAL_NUM_TIMERS", Num 3); ("XCHAL_NUM_INTERRUPTS", Num 17);
  ("XCHAL_NUM_INTERRUPTS_LOG2", Num 5); ("XCHAL_NUM_EXTINTERRUPTS", Num 10);
  ("XCHAL_NUM_INTLEVELS", Num 4); ("XCHAL_EXCM_LEVEL", Num 1);
  ("XCHAL_INTLEVEL1_MASK", Num 0x000064F9); ("XCHAL_INTLEVEL2_MASK", Num 0x00008902);
  ("XCHAL_INTLEVEL3_MASK", Num 0x00011204); ("XCHAL_INTLEVEL4_MASK", Num 0x00000000);
  ("XCHAL_INTLEVEL5_MASK", Num 0x00000000); ("XCHAL_INTLEVEL6_MASK", Num 0x00000000);
  ("XCHAL_INTLEVEL7_MASK", Num 0x00000000); ("XCHAL_INTLEVEL1_ANDBELOW_MASK", Num 0x000064F9);
  ("XCHAL_INTLEVEL2_ANDBELOW_MASK", Num 0x0000EDFB); ("XCHAL_INTLEVEL3_ANDBELOW_MASK", Num 0x0001FFFF);
  ("XCHAL_INTLEVEL4_ANDBELOW_MASK", Num 0x0001FFFF); ("XCHAL_INTLEVEL5_ANDBELOW_MASK", Num 0x0001FFFF);
  ("XCHAL_INTLEVEL6_ANDBELOW_MASK", Num 0x0001FFFF); ("XCHAL_INTLEVEL7_ANDBELOW_MASK", Num 0x0001FFFF);
  ("XCHAL_INT0_LEVEL", Num 1); ("XCHAL_INT1_LEVEL", Num 2);
  ("XCHAL_INT2_LEVEL", Num 3); ("XCHAL_INT3_LEVEL", Num 1);
  ("XCHAL_INT4_LEVEL", Num 1); ("XCHAL_INT5_LEVEL", Num 1);
  ("XCHAL_INT6_LEVEL", Num 1); ("XCHAL_INT7_LEVEL", Num 1);
  ("XCHAL_INT8_LEVEL", Num 2); ("XCHAL_INT9_LEVEL", Num 3);
  ("XCHAL_INT10_LEVEL", Num 1); ("XCHAL_INT11_LEVEL", Num 2);
  ("XCHAL_INT12_LEVEL", Num 3); ("XCHAL_INT13_LEVEL", Num 1);
  ("XCHAL_INT14_LEVEL", Num 1); ("XCHAL_INT15_LEVEL", Num 2);
  ("XCHAL_INT16_LEVEL", Num 3); ("XCHAL_DEBUGLEVEL", Num 4);
  ("XCHAL_HAVE_DEBUG_EXTERN_INT", Num 0); ("XCHAL_INT0_TYPE", Name "XTHAL_INTTYPE_EXTERN_LEVEL");
  ("XCHAL_INT1_TYPE", Name "XTHAL_INTTYPE_EXTERN_LEVEL"); ("XCHAL_INT2_TYPE", Name "XTHAL_INTTYPE_EXTERN_LEVEL");
  ("XCHAL_INT3_TYPE", Name "XTHAL_INTTYPE_EXTERN_LEVEL"); ("XCHAL_INT4_TYPE", Name "XTHAL_INTTYPE_EXTERN_LEVEL");
  ("XCHAL_INT5_TYPE", Name "XTHAL_INTTYPE_EXTERN_LEVEL"); ("XCHAL_INT6_TYPE", Name "XTHAL_INTTYPE_EXTERN_LEVEL");
  ("XCHAL_INT7_TYPE", Name "XTHAL_INTTYPE_EXTERN_EDGE"); ("XCHAL_INT8_TYPE", Name "XTHAL_INTTYPE_EXTERN_EDGE");
  ("XCHAL_INT9_TYPE", Name "XTHAL_INTTYPE_EXTERN_EDGE"); ("XCHAL_INT10_TYPE", Name "XTHAL_INTTYPE_TIMER");
  ("XCHAL_INT11_TYPE", Name "XTHAL_INTTYPE_TIMER"); ("XCHAL_INT12_TYPE", Name "XTHAL_INTTYPE_TIMER");
  ("XCHAL_INT13_TYPE", Name "XTHAL_INTTYPE_SOFTWARE"); ("XCHAL_INT14_TYPE", Name "XTHAL_INTTYPE_SOFTWARE");
  ("XCHAL_INT15_TYPE", Name "XTHAL_INTTYPE_SOFTWARE"); ("XCHAL_INT16_TYPE", Name "XTHAL_INTTYPE_SOFTWARE");
  ("XCHAL_INTTYPE_MASK_UNCONFIGURED", Num 0xFFFE0000); ("XCHAL_INTTYPE_MASK_SOFTWARE", Num 0x0001E000);
  ("XCHAL_INTTYPE_MASK_EXTERN_EDGE", Num 0x00000380); ("XCHAL_INTTYPE_MASK_EXTERN_LEVEL", Num 0x0000007F);
  ("XCHAL_INTTYPE_MASK_TIMER", Num 0x00001C00); ("XCHAL_INTTYPE_MASK_NMI", Num 0x00000000);
  ("XCHAL_INTTYPE_MASK_WRITE_ERROR", Num 0x00000000); ("XCHAL_TIMER0_INTERRUPT", Num 10);
  ("XCHAL_TIMER1_INTERRUPT", Num 11); ("XCHAL_TIMER2_INTERRUPT", Num 12);
  ("XCHAL_TIMER3_INTERRUPT", Name "XTHAL_TIMER_UNCONFIGURED"); ("XCHAL_EXTINT0_NUM", Num 0);
  ("XCHAL_EXTINT1_NUM", Num 1); ("XCHAL_EXTINT2_NUM", Num 2);
  ("XCHAL_EXTINT3_NUM", Num 3); ("XCHAL_EXTINT4_NUM", Num 4);
  ("XCHAL_EXTINT5_NUM", Num 5); ("XCHAL_EXTINT6_NUM", Num 6);
  ("XCHAL_EXTINT7_NUM", Num 7); ("XCHAL_EXTINT8_NUM", Num 8);
  ("XCHAL_EXTINT9_NUM", Num 9); ("XCHAL_XEA_VERSION", Num 2);
  ("XCHAL_HAVE_XEA1", Num 0); ("XCHAL_HAVE_XEA2", Num 1);
  ("XCHAL_HAVE_XEAX", Num 0); ("XCHAL_HAVE_EXCEPTIONS", Num 1);
  ("XCHAL_HAVE_MEM_ECC_PARITY", Num 0); ("XCHAL_RESET_VECTOR_VADDR", Num 0xFE000020);
  ("XCHAL_RESET_VECTOR_PADDR", Num 0xFE000020); ("XCHAL_USER_VECTOR_VADDR", Num 0xD0000220);
  ("XCHAL_USER_VECTOR_PADDR", Num 0x00000220); ("XCHAL_KERNEL_VECTOR_VADDR", Num 0xD0000200);
  ("XCHAL_KERNEL_VECTOR_PADDR", Num 0x00000200); ("XCHAL_DOUBLEEXC_VECTOR_VADDR", Num 0xD0000290);
  ("XCHAL_DOUBLEEXC_VECTOR_PADDR", Num 0x00000290); ("XCHAL_WINDOW_VECTORS_VADDR", Num 0xD0000000);
  ("XCHAL_WINDOW_VECTORS_PADDR", Num 0x00000000); ("XCHAL_INTLEVEL2_VECTOR_VADDR", Num 0xD0000240);
  ("XCHAL_INTLEVEL2_VECTOR_PADDR", Num 0x00000240)].

Definition fsf_core_isa_3 : list (string * mexpr) := [
  ("XCHAL_INTLEVEL3_VECTOR_VADDR", Num 0xD0000250); ("XCHAL_INTLEVEL3_VECTOR_PADDR", Num 0x00000250);
  ("XCHAL_INTLEVEL4_VECTOR_VADDR", Num 0xFE000520); ("XCHAL_INTLEVEL4_VECTOR_PADDR", Num 0xFE000520);
  ("XCHAL_DEBUG_VECTOR_VADDR", Name "XCHAL_INTLEVEL4_VECTOR_VADDR"); ("XCHAL_DEBUG_VECTOR_PADDR", Name "XCHAL_INTLEVEL4_VECTOR_PADDR");
  ("XCHAL_HAVE_OCD", Num 1); ("XCHAL_NUM_IBREAK", Num 2);
  ("XCHAL_NUM_DBREAK", Num 2); ("XCHAL_HAVE_OCD_DIR_ARRAY", Num 1);
  ("XCHAL_HAVE_TLBS", Num 1); ("XCHAL_HAVE_SPANNING_WAY", Num 0);
  ("XCHAL_HAVE_IDENTITY_MAP", Num 0); ("XCHAL_HAVE_CACHEATTR", Num 0);
  ("XCHAL_HAVE_MIMIC_CACHEATTR", Num 0); ("XCHAL_HAVE_XLT_CACHEATTR", Num 0);
  ("XCHAL_HAVE_PTP_MMU", Num 1); ("XCHAL_ITLB_ARF_ENTRIES_LOG2", Num 2);
  ("XCHAL_DTLB_ARF_ENTRIES_LOG2", Num 2); ("XCHAL_MMU_ASID_BITS", Num 8);
  ("XCHAL_MMU_RINGS", Num 4); ("XCHAL_MMU_RING_BITS", Num 2)].

Definition fsf_core_isa : list (string * mexpr) :=
  fsf_core_isa_1 ++ fsf_core_isa_2 ++ fsf_core_isa_3.

Definition dsp3400_core_isa_1 : list (string * mexpr) := [
  ("XTENSA_CORE_DSP3400_CORE_ISA_H", Text ""); ("XCHAL_HAVE_BE", Num 0);
  ("XCHAL_HAVE_WINDOWED", Num 1); ("XCHAL_NUM_AREGS", Num 32);
  ("XCHAL_NUM_AREGS_LOG2", Num 5); ("XCHAL_MAX_INSTRUCTION_SIZE", Num 8);
  ("XCHAL_HAVE_DEBUG", Num 1); ("XCHAL_HAVE_DENSITY", Num 1);
  ("XCHAL_HAVE_LOOPS", Num 1); ("XCHAL_HAVE_NSA", Num 1);
  ("XCHAL_HAVE_MINMAX", Num 1); ("XCHAL_HAVE_SEXT", Num 1);
  ("XCHAL_HAVE_CLAMPS", Num 1); ("XCHAL_HAVE_MUL16", Num 1);
  ("XCHAL_HAVE_MUL32", Num 0); ("XCHAL_HAVE_MUL32_HIGH", Num 0);
  ("XCHAL_HAVE_DIV32", Num 0); ("XCHAL_HAVE_L32R", Num 1);
  ("XCHAL_HAVE_ABSOLUTE_LITERALS", Num 1); ("XCHAL_HAVE_CONST16", Num 0);
  ("XCHAL_HAVE_ADDX", Num 1); ("XCHAL_HAVE_WIDE_BRANCHES", Num 0);
  ("XCHAL_HAVE_PREDICTED_BRANCHES", Num 0); ("XCHAL_HAVE_CALL4AND12", Num 1);
  ("XCHAL_HAVE_ABS", Num 1); ("XCHAL_HAVE_RELEASE_SYNC", Num 1);
  ("XCHAL_HAVE_S32C1I", Num 1); ("XCHAL_HAVE_SPECULATION", Num 0);
  ("XCHAL_HAVE_FULL_RESET", Num 1); ("XCHAL_NUM_CONTEXTS", Num 1);
  ("XCHAL_NUM_MISC_REGS", Num 0); ("XCHAL_HAVE_TAP_MASTER", Num 0);
  ("XCHAL_HAVE_PRID", Num 1); ("XCHAL_HAVE_EXTERN_REGS", Num 1);
  ("XCHAL_HAVE_MP_INTERRUPTS", Num 0); ("XCHAL_HAVE_MP_RUNSTALL", Num 0);
  ("XCHAL_HAVE_THREADPTR", Num 1); ("XCHAL_HAVE_BOOLEANS", Num 1);
  ("XCHAL_HAVE_CP", Num 1); ("XCHAL_CP_MAXCFG", Num 4);
  ("XCHAL_HAVE_MAC16", Num 0); ("XCHAL_HAVE_VECTORFPU2005", Num 0);
  ("XCHAL_HAVE_FP", Num 1); ("XCHAL_HAVE_DFP", Num 0);
  ("XCHAL_HAVE_DFP_accel", Num 0); ("XCHAL_HAVE_VECTRA1", Num 0);
  ("XCHAL_HAVE_VECTRALX", Num 0); ("XCHAL_HAVE_HIFIPRO", Num 0);
  ("XCHAL_HAVE_HIFI2", Num 0); ("XCHAL_HAVE_CONNXD2", Num 0);
  ("XCHAL_HAVE_BBE16", Num 0); ("XCHAL_HAVE_BBE16_RSQRT", Num 0);
  ("XCHAL_HAVE_BBE16_VECDIV", Num 0); ("XCHAL_HAVE_BBE16_DESPREAD", Num 0);
  ("XCHAL_HAVE_BSP3", Num 0); ("XCHAL_HAVE_SSP16", Num 0);
  ("XCHAL_HAVE_SSP16_VITERBI", Num 0); ("XCHAL_HAVE_TURBO16", Num 0);
  ("XCHAL_NUM_WRITEBUFFER_ENTRIES", Num 8); ("XCHAL_INST_FETCH_WIDTH", Num 8);
  ("XCHAL_DATA_WIDTH", Num 16); ("XCHAL_UNALIGNED_LOAD_EXCEPTION", Num 1);
  ("XCHAL_UNALIGNED_STORE_EXCEPTION", Num 1); ("XCHAL_UNALIGNED_LOAD_HW", Num 0);
  ("XCHAL_UNALIGNED_STORE_HW", Num 0); ("XCHAL_SW_VERSION", Num 800002);
  ("XCHAL_CORE_ID", Text "dsp3400_RC2"); ("XCHAL_BUILD_UNIQUE_ID", Num 0x0002DC22);
  ("XCHAL_HW_CONFIGID0", Num 0xC3F3DBFE); ("XCHAL_HW_CONFIGID1", Num 0x1082C3B0);
  ("XCHAL_HW_VERSION_NAME", Text "LX3.0.1"); ("XCHAL_HW_VERSION_MAJOR", Num 2300);
  ("XCHAL_HW_VERSION_MINOR", Num 1); ("XCHAL_HW_VERSION", Num 230001);
  ("XCHAL_HW_REL_LX3", Num 1); ("XCHAL_HW_REL_LX3_0", Num 1);
  ("XCHAL_HW_REL_LX3_0_1", Num 1); ("XCHAL_HW_CONFIGID_RELIABLE", Num 1);
  ("XCHAL_HW_MIN_VERSION_MAJOR", Num 2300); ("XCHAL_HW_MIN_VERSION_MINOR", Num 1);
  ("XCHAL_HW_MIN_VERSION", Num 230001); ("XCHAL_HW_MAX_VERSION_MAJOR", Num 2300);
  ("XCHAL_HW_MAX_VERSION_MINOR", Num 1); ("XCHAL_HW_MAX_VERSION", Num 230001);
  ("XCHAL_ICACHE_LINESIZE", Num 32); ("XCHAL_DCACHE_LINESIZE", Num 32);
  ("XCHAL_ICACHE_LINEWIDTH", Num 5); ("XCHAL_DCACHE_LINEWIDTH", Num 5);
  ("XCHAL_ICACHE_SIZE", Num 8192); ("XCHAL_DCACHE_SIZE", Num 8192);
  ("XCHAL_DCACHE_IS_WRITEBACK", Num 1); ("XCHAL_DCACHE_IS_COHERENT", Num 0);
  ("XCHAL_HAVE_PREFETCH", Num 0)].

Definition dsp3400_core_isa_2 : list (string * mexpr) := [
  ("XCHAL_HAVE_PIF", Num 1); ("XCHAL_ICACHE_SETWIDTH", Num 7);
  ("XCHAL_DCACHE_SETWIDTH", Num 7); ("XCHAL_ICACHE_WAYS", Num 2);
  ("XCHAL_DCACHE_WAYS", Num 2); ("XCHAL_ICACHE_LINE_LOCKABLE", Num 1);
  ("XCHAL_DCACHE_LINE_LOCKABLE", Num 1); ("XCHAL_ICACHE_ECC_PARITY", Num 0);
  ("XCHAL_DCACHE_ECC_PARITY", Num 0); ("XCHAL_ICACHE_ACCESS_SIZE", Num 8);
  ("XCHAL_DCACHE_ACCESS_SIZE", Num 16); ("XCHAL_CA_BITS", Num 4);
  ("XCHAL_NUM_INSTROM", Num 0); ("XCHAL_NUM_INSTRAM", Num 2);
  ("XCHAL_NUM_DATAROM", Num 0); ("XCHAL_NUM_DATARAM", Num 2);
  ("XCHAL_NUM_URAM", Num 0); ("XCHAL_NUM_XLMI", Num 0);
  ("XCHAL_INSTRAM0_VADDR", Num 0x5FFE0000); ("XCHAL_INSTRAM0_PADDR", Num 0x5FFE0000);
  ("XCHAL_INSTRAM0_SIZE", Num 65536); ("XCHAL_INSTRAM0_ECC_PARITY", Num 0);
  ("XCHAL_INSTRAM1_VADDR", Num 0x5FFF0000); ("XCHAL_INSTRAM1_PADDR", Num 0x5FFF0000);
  ("XCHAL_INSTRAM1_SIZE", Num 65536); ("XCHAL_INSTRAM1_ECC_PARITY", Num 0);
  ("XCHAL_DATARAM0_VADDR", Num 0x5FFD0000); ("XCHAL_DATARAM0_PADDR", Num 0x5FFD0000);
  ("XCHAL_DATARAM0_SIZE", Num 32768); ("XCHAL_DATARAM0_ECC_PARITY", Num 0);
  ("XCHAL_DATARAM1_VADDR", Num 0x5FFD8000); ("XCHAL_DATARAM1_PADDR", Num 0x5FFD8000);
  ("XCHAL_DATARAM1_SIZE", Num 32768); ("XCHAL_DATARAM1_ECC_PARITY", Num 0);
  ("XCHAL_HAVE_INTERRUPTS", Num 1); ("XCHAL_HAVE_HIGHPRI_INTERRUPTS", Num 1);
  ("XCHAL_HAVE_NMI", Num 0); ("XCHAL_HAVE_CCOUNT", Num 1);
  ("XCHAL_NUM_TIMERS", Num 2); ("XCHAL_NUM_INTERRUPTS", Num 13);
  ("XCHAL_NUM_INTERRUPTS_LOG2", Num 4); ("XCHAL_NUM_EXTINTERRUPTS", Num 9);
  ("XCHAL_NUM_INTLEVELS", Num 6); ("XCHAL_EXCM_LEVEL", Num 4);
  ("XCHAL_INTLEVEL1_MASK", Num 0x00001200); ("XCHAL_INTLEVEL2_MASK", Num 0x00000980);
  ("XCHAL_INTLEVEL3_MASK", Num 0x00000460); ("XCHAL_INTLEVEL4_MASK", Num 0x00000019);
  ("XCHAL_INTLEVEL5_MASK", Num 0x00000006); ("XCHAL_INTLEVEL6_MASK", Num 0x00000000);
  ("XCHAL_INTLEVEL7_MASK", Num 0x00000000); ("XCHAL_INTLEVEL1_ANDBELOW_MASK", Num 0x00001200);
  ("XCHAL_INTLEVEL2_ANDBELOW_MASK", Num 0x00001B80); ("XCHAL_INTLEVEL3_ANDBELOW_MASK", Num 0x00001FE0);
  ("XCHAL_INTLEVEL4_ANDBELOW_MASK", Num 0x00001FF9); ("XCHAL_INTLEVEL5_ANDBELOW_MASK", Num 0x00001FFF);
  ("XCHAL_INTLEVEL6_ANDBELOW_MASK", Num 0x00001FFF); ("XCHAL_INTLEVEL7_ANDBELOW_MASK", Num 0x00001FFF);
  ("XCHAL_INT0_LEVEL", Num 4); ("XCHAL_INT1_LEVEL", Num 5);
  ("XCHAL_INT2_LEVEL", Num 5); ("XCHAL_INT3_LEVEL", Num 4);
  ("XCHAL_INT4_LEVEL", Num 4); ("XCHAL_INT5_LEVEL", Num 3);
  ("XCHAL_INT6_LEVEL", Num 3); ("XCHAL_INT7_LEVEL", Num 2);
  ("XCHAL_INT8_LEVEL", Num 2); ("XCHAL_INT9_LEVEL", Num 1);
  ("XCHAL_INT10_LEVEL", Num 3); ("XCHAL_INT11_LEVEL", Num 2);
  ("XCHAL_INT12_LEVEL", Num 1); ("XCHAL_DEBUGLEVEL", Num 6);
  ("XCHAL_HAVE_DEBUG_EXTERN_INT", Num 1); ("XCHAL_INT0_TYPE", Name "XTHAL_INTTYPE_TIMER");
  ("XCHAL_INT1_TYPE", Name "XTHAL_INTTYPE_EXTERN_LEVEL"); ("XCHAL_INT2_TYPE", Name "XTHAL_INTTYPE_EXTERN_LEVEL");
  ("XCHAL_INT3_TYPE", Name "XTHAL_INTTYPE_EXTERN_LEVEL"); ("XCHAL_INT4_TYPE", Name "XTHAL_INTTYPE_EXTERN_LEVEL");
  ("XCHAL_INT5_TYPE", Name "XTHAL_INTTYPE_EXTERN_LEVEL"); ("XCHAL_INT6_TYPE", Name "XTHAL_INTTYPE_EXTERN_LEVEL");
  ("XCHAL_INT7_TYPE", Name "XTHAL_INTTYPE_EXTERN_LEVEL"); ("XCHAL_INT8_TYPE", Name "XTHAL_INTTYPE_EXTERN_LEVEL");
  ("XCHAL_INT9_TYPE", Name "XTHAL_INTTYPE_EXTERN_LEVEL"); ("XCHAL_INT10_TYPE", Name "XTHAL_INTTYPE_SOFTWARE");
  ("XCHAL_INT11_TYPE", Name "XTHAL_INTTYPE_TIMER"); ("XCHAL_INT12_TYPE", Name "XTHAL_INTTYPE_WRITE_ERROR");
  ("XCHAL_INTTYPE_MASK_UNCONFIGURED", Num 0xFFFFE000); ("XCHAL_INTTYPE_MASK_SOFTWARE", Num 0x00000400);
  ("XCHAL_INTTYPE_MASK_EXTERN_EDGE", Num 0x00000000); ("XCHAL_INTTYPE_MASK_EXTERN_LEVEL", Num 0x000003FE);
  ("XCHAL_INTTYPE_MASK_TIMER", Num 0x00000801); ("XCHAL_INTTYPE_MASK_NMI", Num 0x00000000);
  ("XCHAL_INTTYPE_MASK_WRITE_ERROR", Num 0x00001000); ("XCHAL_TIMER0_INTERRUPT", Num 0);
  ("XCHAL_TIMER1_INTERRUPT", Num 11); ("XCHAL_TIMER2_INTERRUPT", Name "XTHAL_TIMER_UNCONFIGURED");
  ("XCHAL_TIMER3_INTERRUPT", Name "XTHAL_TIMER_UNCONFIGURED"); ("XCHAL_WRITE_ERROR_INTERRUPT", Num 12)].

Definition dsp3400_core_isa_3 : list (string * mexpr) := [
  ("XCHAL_EXTINT0_NUM", Num 1); ("XCHAL_EXTINT1_NUM", Num 2);
  ("XCHAL_EXTINT2_NUM", Num 3); ("XCHAL_EXTINT3_NUM", Num 4);
  ("XCHAL_EXTINT4_NUM", Num 5); ("XCHAL_EXTINT5_NUM", Num 6);
  ("XCHAL_EXTINT6_NUM", Num 7); ("XCHAL_EXTINT7_NUM", Num 8);
  ("XCHAL_EXTINT8_NUM", Num 9); ("XCHAL_XEA_VERSION", Num 2);
  ("XCHAL_HAVE_XEA1", Num 0); ("XCHAL_HAVE_XEA2", Num 1);
  ("XCHAL_HAVE_XEAX", Num 0); ("XCHAL_HAVE_EXCEPTIONS", Num 1);
  ("XCHAL_HAVE_MEM_ECC_PARITY", Num 0); ("XCHAL_HAVE_VECTOR_SELECT", Num 1);
  ("XCHAL_HAVE_VECBASE", Num 1); ("XCHAL_VECBASE_RESET_VADDR", Num 0x5FFE0400);
  ("XCHAL_VECBASE_RESET_PADDR", Num 0x5FFE0400); ("XCHAL_RESET_VECBASE_OVERLAP", Num 0);
  ("XCHAL_RESET_VECTOR0_VADDR", Num 0x5FFE0000); ("XCHAL_RESET_VECTOR0_PADDR", Num 0x5FFE0000);
  ("XCHAL_RESET_VECTOR1_VADDR", Num 0xFFFF1000); ("XCHAL_RESET_VECTOR1_PADDR", Num 0xFFFF1000);
  ("XCHAL_RESET_VECTOR_VADDR", Num 0x5FFE0000); ("XCHAL_RESET_VECTOR_PADDR", Num 0x5FFE0000);
  ("XCHAL_USER_VECOFS", Num 0x0000023C); ("XCHAL_USER_VECTOR_VADDR", Num 0x5FFE063C);
  ("XCHAL_USER_VECTOR_PADDR", Num 0x5FFE063C); ("XCHAL_KERNEL_VECOFS", Num 0x0000021C);
  ("XCHAL_KERNEL_VECTOR_VADDR", Num 0x5FFE061C); ("XCHAL_KERNEL_VECTOR_PADDR", Num 0x5FFE061C);
  ("XCHAL_DOUBLEEXC_VECOFS", Num 0x0000025C); ("XCHAL_DOUBLEEXC_VECTOR_VADDR", Num 0x5FFE065C);
  ("XCHAL_DOUBLEEXC_VECTOR_PADDR", Num 0x5FFE065C); ("XCHAL_WINDOW_OF4_VECOFS", Num 0x00000000);
  ("XCHAL_WINDOW_UF4_VECOFS", Num 0x00000040); ("XCHAL_WINDOW_OF8_VECOFS", Num 0x00000080);
  ("XCHAL_WINDOW_UF8_VECOFS", Num 0x000000C0); ("XCHAL_WINDOW_OF12_VECOFS", Num 0x00000100);
  ("XCHAL_WINDOW_UF12_VECOFS", Num 0x00000140); ("XCHAL_WINDOW_VECTORS_VADDR", Num 0x5FFE0400);
  ("XCHAL_WINDOW_VECTORS_PADDR", Num 0x5FFE0400); ("XCHAL_INTLEVEL2_VECOFS", Num 0x0000017C);
  ("XCHAL_INTLEVEL2_VECTOR_VADDR", Num 0x5FFE057C); ("XCHAL_INTLEVEL2_VECTOR_PADDR", Num 0x5FFE057C);
  ("XCHAL_INTLEVEL3_VECOFS", Num 0x0000019C); ("XCHAL_INTLEVEL3_VECTOR_VADDR", Num 0x5FFE059C);
  ("XCHAL_INTLEVEL3_VECTOR_PADDR", Num 0x5FFE059C); ("XCHAL_INTLEVEL4_VECOFS", Num 0x000001BC);
  ("XCHAL_INTLEVEL4_VECTOR_VADDR", Num 0x5FFE05BC); ("XCHAL_INTLEVEL4_VECTOR_PADDR", Num 0x5FFE05BC);
  ("XCHAL_INTLEVEL5_VECOFS", Num 0x000001DC); ("XCHAL_INTLEVEL5_VECTOR_VADDR", Num 0x5FFE05DC);
  ("XCHAL_INTLEVEL5_VECTOR_PADDR", Num 0x5FFE05DC); ("XCHAL_INTLEVEL6_VECOFS", Num 0x000001FC);
  ("XCHAL_INTLEVEL6_VECTOR_VADDR", Num 0x5FFE05FC); ("XCHAL_INTLEVEL6_VECTOR_PADDR", Num 0x5FFE05FC);
  ("XCHAL_DEBUG_VECOFS", Name "XCHAL_INTLEVEL6_VECOFS"); ("XCHAL_DEBUG_VECTOR_VADDR", Name "XCHAL_INTLEVEL6_VECTOR_VADDR");
  ("XCHAL_DEBUG_VECTOR_PADDR", Name "XCHAL_INTLEVEL6_VECTOR_PADDR"); ("XCHAL_HAVE_OCD", Num 1);
  ("XCHAL_NUM_IBREAK", Num 2); ("XCHAL_NUM_DBREAK", Num 2);
  ("XCHAL_HAVE_OCD_DIR_ARRAY", Num 0); ("XCHAL_HAVE_TLBS", Num 1);
  ("XCHAL_HAVE_SPANNING_WAY", Num 1); ("XCHAL_SPANNING_WAY", Num 0);
  ("XCHAL_HAVE_IDENTITY_MAP", Num 0); ("XCHAL_HAVE_CACHEATTR", Num 0);
  ("XCHAL_HAVE_MIMIC_CACHEATTR", Num 0); ("XCHAL_HAVE_XLT_CACHEATTR", Num 1);
  ("XCHAL_HAVE_PTP_MMU", Num 0); ("XCHAL_MMU_ASID_BITS", Num 0);
  ("XCHAL_MMU_RINGS", Num 1); ("XCHAL_MMU_RING_BITS", Num 0)].

Definition dsp3400_core_isa : list (string * mexpr) :=
  dsp3400_core_isa_1 ++ dsp3400_core_isa_2 ++ dsp3400_core_isa_3.

Definition sample_controller_core_isa_1 : list (string * mexpr) := [
  ("XTENSA_CORE_SAMPLE_CONTROLLER_CORE_ISA_H", Text ""); ("XCHAL_HAVE_BE", Num 0);
  ("XCHAL_HAVE_WINDOWED", Num 1); ("XCHAL_NUM_AREGS", Num 32);
  ("XCHAL_NUM_AREGS_LOG2", Num 5); ("XCHAL_MAX_INSTRUCTION_SIZE", Num 3);
  ("XCHAL_HAVE_DEBUG", Num 1); ("XCHAL_HAVE_DENSITY", Num 1);
  ("XCHAL_HAVE_LOOPS", Num 0); ("XCHAL_LOOP_BUFFER_SIZE", Num 0);
  ("XCHAL_HAVE_NSA", Num 1); ("XCHAL_HAVE_MINMAX", Num 1);
  ("XCHAL_HAVE_SEXT", Num 1); ("XCHAL_HAVE_DEPBITS", Num 0);
  ("XCHAL_HAVE_CLAMPS", Num 0); ("XCHAL_HAVE_MUL16", Num 1);
  ("XCHAL_HAVE_MUL32", Num 1); ("XCHAL_HAVE_MUL32_HIGH", Num 0);
  ("XCHAL_HAVE_DIV32", Num 1); ("XCHAL_HAVE_L32R", Num 1);
  ("XCHAL_HAVE_ABSOLUTE_LITERALS", Num 0); ("XCHAL_HAVE_CONST16", Num 0);
  ("XCHAL_HAVE_ADDX", Num 1); ("XCHAL_HAVE_EXCLUSIVE", Num 0);
  ("XCHAL_HAVE_WIDE_BRANCHES", Num 0); ("XCHAL_HAVE_PREDICTED_BRANCHES", Num 0);
  ("XCHAL_HAVE_CALL4AND12", Num 1); ("XCHAL_HAVE_ABS", Num 1);
  ("XCHAL_HAVE_RELEASE_SYNC", Num 1); ("XCHAL_HAVE_S32C1I", Num 1);
  ("XCHAL_HAVE_SPECULATION", Num 0); ("XCHAL_HAVE_FULL_RESET", Num 1);
  ("XCHAL_NUM_CONTEXTS", Num 1); ("XCHAL_NUM_MISC_REGS", Num 2);
  ("XCHAL_HAVE_TAP_MASTER", Num 0); ("XCHAL_HAVE_PRID", Num 1);
  ("XCHAL_HAVE_EXTERN_REGS", Num 1); ("XCHAL_HAVE_MX", Num 0);
  ("XCHAL_HAVE_MP_INTERRUPTS", Num 0); ("XCHAL_HAVE_MP_RUNSTALL", Num 0);
  ("XCHAL_HAVE_PSO", Num 0); ("XCHAL_HAVE_PSO_CDM", Num 0);
  ("XCHAL_HAVE_PSO_FULL_RETENTION", Num 0); ("XCHAL_HAVE_THREADPTR", Num 0);
  ("XCHAL_HAVE_BOOLEANS", Num 0); ("XCHAL_HAVE_CP", Num 0);
  ("XCHAL_CP_MAXCFG", Num 0); ("XCHAL_HAVE_MAC16", Num 0);
  ("XCHAL_HAVE_FUSION", Num 0); ("XCHAL_HAVE_FUSION_FP", Num 0);
  ("XCHAL_HAVE_FUSION_LOW_POWER", Num 0); ("XCHAL_HAVE_FUSION_AES", Num 0);
  ("XCHAL_HAVE_FUSION_CONVENC", Num 0); ("XCHAL_HAVE_FUSION_LFSR_CRC", Num 0);
  ("XCHAL_HAVE_FUSION_BITOPS", Num 0); ("XCHAL_HAVE_FUSION_AVS", Num 0);
  ("XCHAL_HAVE_FUSION_16BIT_BASEBAND", Num 0); ("XCHAL_HAVE_FUSION_VITERBI", Num 0);
  ("XCHAL_HAVE_FUSION_SOFTDEMAP", Num 0); ("XCHAL_HAVE_HIFIPRO", Num 0);
  ("XCHAL_HAVE_HIFI4", Num 0); ("XCHAL_HAVE_HIFI4_VFPU", Num 0);
  ("XCHAL_HAVE_HIFI3", Num 0); ("XCHAL_HAVE_HIFI3_VFPU", Num 0);
  ("XCHAL_HAVE_HIFI2", Num 0); ("XCHAL_HAVE_HIFI2EP", Num 0);
  ("XCHAL_HAVE_HIFI_MINI", Num 0); ("XCHAL_HAVE_VECTORFPU2005", Num 0);
  ("XCHAL_HAVE_USER_DPFPU", Num 0); ("XCHAL_HAVE_USER_SPFPU", Num 0);
  ("XCHAL_HAVE_FP", Num 0); ("XCHAL_HAVE_FP_DIV", Num 0);
  ("XCHAL_HAVE_FP_RECIP", Num 0); ("XCHAL_HAVE_FP_SQRT", Num 0);
  ("XCHAL_HAVE_FP_RSQRT", Num 0); ("XCHAL_HAVE_DFP", Num 0);
  ("XCHAL_HAVE_DFP_DIV", Num 0); ("XCHAL_HAVE_DFP_RECIP", Num 0);
  ("XCHAL_HAVE_DFP_SQRT", Num 0); ("XCHAL_HAVE_DFP_RSQRT", Num 0);
  ("XCHAL_HAVE_DFP_ACCEL", Num 0); ("XCHAL_HAVE_DFP_accel", Name "XCHAL_HAVE_DFP_ACCEL");
  ("XCHAL_HAVE_DFPU_SINGLE_ONLY", Num 0); ("XCHAL_HAVE_DFPU_SINGLE_DOUBLE", Num 0);
  ("XCHAL_HAVE_VECTRA1", Num 0); ("XCHAL_HAVE_VECTRALX", Num 0);
  ("XCHAL_HAVE_FUSIONG", Num 0); ("XCHAL_HAVE_FUSIONG3", Num 0);
  ("XCHAL_HAVE_FUSIONG_SP_VFPU", Num 0); ("XCHAL_HAVE_FUSIONG_DP_VFPU", Num 0);
  ("XCHAL_FUSIONG_SIMD32", Num 0); ("XCHAL_HAVE_PDX", Num 0);
  ("XCHAL_PDX_SIMD32", Num 0); ("XCHAL_HAVE_PDX4", Num 0);
  ("XCHAL_HAVE_PDX8", Num 0); ("XCHAL_HAVE_PDX16", Num 0);
  ("XCHAL_HAVE_CONNXD2", Num 0); ("XCHAL_HAVE_CONNXD2_DUALLSFLIX", Num 0);
  ("XCHAL_HAVE_BBE16", Num 0); ("XCHAL_HAVE_BBE16_RSQRT", Num 0);
  ("XCHAL_HAVE_BBE16_VECDIV", Num 0); ("XCHAL_HAVE_BBE16_DESPREAD", Num 0);
  ("XCHAL_HAVE_BBENEP", Num 0); ("XCHAL_HAVE_BBENEP_SP_VFPU", Num 0);
  ("XCHAL_HAVE_BSP3", Num 0); ("XCHAL_HAVE_BSP3_TRANSPOSE", Num 0);
  ("XCHAL_HAVE_SSP16", Num 0); ("XCHAL_HAVE_SSP16_VITERBI", Num 0);
  ("XCHAL_HAVE_TURBO16", Num 0); ("XCHAL_HAVE_BBP16", Num 0);
  ("XCHAL_HAVE_FLIX3", Num 0); ("XCHAL_HAVE_GRIVPEP", Num 0);
  ("XCHAL_HAVE_GRIVPEP_HISTOGRAM", Num 0); ("XCHAL_HAVE_VISION", Num 0);
  ("XCHAL_VISION_SIMD16", Num 0); ("XCHAL_VISION_TYPE", Num 0);
  ("XCHAL_VISION_QUAD_MAC_TYPE", Num 0); ("XCHAL_HAVE_VISION_HISTOGRAM", Num 0);
  ("XCHAL_HAVE_VISION_SP_VFPU", Num 0); ("XCHAL_HAVE_VISION_HP_VFPU", Num 0)].

Definition sample_controller_core_isa_2 : list (string * mexpr) := [
  ("XCHAL_NUM_LOADSTORE_UNITS", Num 1); ("XCHAL_NUM_WRITEBUFFER_ENTRIES", Num 4);
  ("XCHAL_INST_FETCH_WIDTH", Num 4); ("XCHAL_DATA_WIDTH", Num 4);
  ("XCHAL_DATA_PIPE_DELAY", Num 1); ("XCHAL_CLOCK_GATING_GLOBAL", Num 1);
  ("XCHAL_CLOCK_GATING_FUNCUNIT", Num 1); ("XCHAL_UNALIGNED_LOAD_EXCEPTION", Num 1);
  ("XCHAL_UNALIGNED_STORE_EXCEPTION", Num 1); ("XCHAL_UNALIGNED_LOAD_HW", Num 0);
  ("XCHAL_UNALIGNED_STORE_HW", Num 0); ("XCHAL_SW_VERSION", Num 1200004);
  ("XCHAL_CORE_ID", Text "sample_controller"); ("XCHAL_BUILD_UNIQUE_ID", Num 0x00064D47);
  ("XCHAL_HW_CONFIGID0", Num 0xC280DAFE); ("XCHAL_HW_CONFIGID1", Num 0x21064D47);
  ("XCHAL_HW_VERSION_NAME", Text "LX7.0.4"); ("XCHAL_HW_VERSION_MAJOR", Num 2700);
  ("XCHAL_HW_VERSION_MINOR", Num 4); ("XCHAL_HW_VERSION", Num 270004);
  ("XCHAL_HW_REL_LX7", Num 1); ("XCHAL_HW_REL_LX7_0", Num 1);
  ("XCHAL_HW_REL_LX7_0_4", Num 1); ("XCHAL_HW_CONFIGID_RELIABLE", Num 1);
  ("XCHAL_HW_MIN_VERSION_MAJOR", Num 2700); ("XCHAL_HW_MIN_VERSION_MINOR", Num 4);
  ("XCHAL_HW_MIN_VERSION", Num 270004); ("XCHAL_HW_MAX_VERSION_MAJOR", Num 2700);
  ("XCHAL_HW_MAX_VERSION_MINOR", Num 4); ("XCHAL_HW_MAX_VERSION", Num 270004);
  ("XCHAL_ICACHE_LINESIZE", Num 4); ("XCHAL_DCACHE_LINESIZE", Num 4);
  ("XCHAL_ICACHE_LINEWIDTH", Num 2); ("XCHAL_DCACHE_LINEWIDTH", Num 2);
  ("XCHAL_ICACHE_SIZE", Num 0); ("XCHAL_DCACHE_SIZE", Num 0);
  ("XCHAL_DCACHE_IS_WRITEBACK", Num 0); ("XCHAL_DCACHE_IS_COHERENT", Num 0);
  ("XCHAL_HAVE_PREFETCH", Num 0); ("XCHAL_HAVE_PREFETCH_L1", Num 0);
  ("XCHAL_PREFETCH_CASTOUT_LINES", Num 0); ("XCHAL_PREFETCH_ENTRIES", Num 0);
  ("XCHAL_PREFETCH_BLOCK_ENTRIES", Num 0); ("XCHAL_HAVE_CACHE_BLOCKOPS", Num 0);
  ("XCHAL_HAVE_ICACHE_TEST", Num 0); ("XCHAL_HAVE_DCACHE_TEST", Num 0);
  ("XCHAL_HAVE_ICACHE_DYN_WAYS", Num 0); ("XCHAL_HAVE_DCACHE_DYN_WAYS", Num 0);
  ("XCHAL_HAVE_PIF", Num 1); ("XCHAL_HAVE_AXI", Num 0);
  ("XCHAL_HAVE_AXI_ECC", Num 0); ("XCHAL_HAVE_ACELITE", Num 0);
  ("XCHAL_HAVE_PIF_WR_RESP", Num 0); ("XCHAL_HAVE_PIF_REQ_ATTR", Num 0);
  ("XCHAL_ICACHE_SETWIDTH", Num 0); ("XCHAL_DCACHE_SETWIDTH", Num 0);
  ("XCHAL_ICACHE_WAYS", Num 1); ("XCHAL_DCACHE_WAYS", Num 1);
  ("XCHAL_ICACHE_LINE_LOCKABLE", Num 0); ("XCHAL_DCACHE_LINE_LOCKABLE", Num 0);
  ("XCHAL_ICACHE_ECC_PARITY", Num 0); ("XCHAL_DCACHE_ECC_PARITY", Num 0);
  ("XCHAL_ICACHE_ACCESS_SIZE", Num 1); ("XCHAL_DCACHE_ACCESS_SIZE", Num 1);
  ("XCHAL_DCACHE_BANKS", Num 0); ("XCHAL_CA_BITS", Num 4);
  ("XCHAL_NUM_INSTROM", Num 0); ("XCHAL_NUM_INSTRAM", Num 1);
  ("XCHAL_NUM_DATAROM", Num 0); ("XCHAL_NUM_DATARAM", Num 2);
  ("XCHAL_NUM_URAM", Num 0); ("XCHAL_NUM_XLMI", Num 0);
  ("XCHAL_INSTRAM0_VADDR", Num 0x40000000); ("XCHAL_INSTRAM0_PADDR", Num 0x40000000);
  ("XCHAL_INSTRAM0_SIZE", Num 131072); ("XCHAL_INSTRAM0_ECC_PARITY", Num 0);
  ("XCHAL_HAVE_INSTRAM0", Text ""); ("XCHAL_INSTRAM0_HAVE_IDMA", Num 0);
  ("XCHAL_DATARAM0_VADDR", Num 0x3FFE0000); ("XCHAL_DATARAM0_PADDR", Num 0x3FFE0000);
  ("XCHAL_DATARAM0_SIZE", Num 131072); ("XCHAL_DATARAM0_ECC_PARITY", Num 0);
  ("XCHAL_DATARAM0_BANKS", Num 1); ("XCHAL_HAVE_DATARAM0", Text "");
  ("XCHAL_DATARAM0_HAVE_IDMA", Num 0); ("XCHAL_DATARAM1_VADDR", Num 0x3FFC0000);
  ("XCHAL_DATARAM1_PADDR", Num 0x3FFC0000); ("XCHAL_DATARAM1_SIZE", Num 131072)].

Definition sample_controller_core_isa_3 : list (string * mexpr) := [
  ("XCHAL_DATARAM1_ECC_PARITY", Num 0); ("XCHAL_DATARAM1_BANKS", Num 1);
  ("XCHAL_HAVE_DATARAM1", Text ""); ("XCHAL_DATARAM1_HAVE_IDMA", Num 0);
  ("XCHAL_HAVE_IDMA", Num 0); ("XCHAL_HAVE_IDMA_TRANSPOSE", Num 0);
  ("XCHAL_HAVE_IMEM_LOADSTORE", Num 1); ("XCHAL_HAVE_INTERRUPTS", Num 1);
  ("XCHAL_HAVE_HIGHPRI_INTERRUPTS", Num 1); ("XCHAL_HAVE_NMI", Num 1);
  ("XCHAL_HAVE_CCOUNT", Num 1); ("XCHAL_NUM_TIMERS", Num 3);
  ("XCHAL_NUM_INTERRUPTS", Num 22); ("XCHAL_NUM_INTERRUPTS_LOG2", Num 5);
  ("XCHAL_NUM_EXTINTERRUPTS", Num 17); ("XCHAL_NUM_INTLEVELS", Num 6);
  ("XCHAL_EXCM_LEVEL", Num 3); ("XCHAL_INTLEVEL1_MASK", Num 0x001F80FF);
  ("XCHAL_INTLEVEL2_MASK", Num 0x00000100); ("XCHAL_INTLEVEL3_MASK", Num 0x00200E00);
  ("XCHAL_INTLEVEL4_MASK", Num 0x00001000); ("XCHAL_INTLEVEL5_MASK", Num 0x00002000);
  ("XCHAL_INTLEVEL6_MASK", Num 0x00000000); ("XCHAL_INTLEVEL7_MASK", Num 0x00004000);
  ("XCHAL_INTLEVEL1_ANDBELOW_MASK", Num 0x001F80FF); ("XCHAL_INTLEVEL2_ANDBELOW_MASK", Num 0x001F81FF);
  ("XCHAL_INTLEVEL3_ANDBELOW_MASK", Num 0x003F8FFF); ("XCHAL_INTLEVEL4_ANDBELOW_MASK", Num 0x003F9FFF);
  ("XCHAL_INTLEVEL5_ANDBELOW_MASK", Num 0x003FBFFF); ("XCHAL_INTLEVEL6_ANDBELOW_MASK", Num 0x003FBFFF);
  ("XCHAL_INTLEVEL7_ANDBELOW_MASK", Num 0x003FFFFF); ("XCHAL_INT0_LEVEL", Num 1);
  ("XCHAL_INT1_LEVEL", Num 1); ("XCHAL_INT2_LEVEL", Num 1);
  ("XCHAL_INT3_LEVEL", Num 1); ("XCHAL_INT4_LEVEL", Num 1);
  ("XCHAL_INT5_LEVEL", Num 1); ("XCHAL_INT6_LEVEL", Num 1);
  ("XCHAL_INT7_LEVEL", Num 1); ("XCHAL_INT8_LEVEL", Num 2);
  ("XCHAL_INT9_LEVEL", Num 3); ("XCHAL_INT10_LEVEL", Num 3);
  ("XCHAL_INT11_LEVEL", Num 3); ("XCHAL_INT12_LEVEL", Num 4);
  ("XCHAL_INT13_LEVEL", Num 5); ("XCHAL_INT14_LEVEL", Num 7);
  ("XCHAL_INT15_LEVEL", Num 1); ("XCHAL_INT16_LEVEL", Num 1);
  ("XCHAL_INT17_LEVEL", Num 1); ("XCHAL_INT18_LEVEL", Num 1);
  ("XCHAL_INT19_LEVEL", Num 1); ("XCHAL_INT20_LEVEL", Num 1);
  ("XCHAL_INT21_LEVEL", Num 3); ("XCHAL_DEBUGLEVEL", Num 6);
  ("XCHAL_HAVE_DEBUG_EXTERN_INT", Num 1); ("XCHAL_NMILEVEL", Num 7);
  ("XCHAL_INT0_TYPE", Name "XTHAL_INTTYPE_EXTERN_LEVEL"); ("XCHAL_INT1_TYPE", Name "XTHAL_INTTYPE_EXTERN_LEVEL");
  ("XCHAL_INT2_TYPE", Name "XTHAL_INTTYPE_EXTERN_LEVEL"); ("XCHAL_INT3_TYPE", Name "XTHAL_INTTYPE_EXTERN_LEVEL");
  ("XCHAL_INT4_TYPE", Name "XTHAL_INTTYPE_EXTERN_LEVEL"); ("XCHAL_INT5_TYPE", Name "XTHAL_INTTYPE_EXTERN_LEVEL");
  ("XCHAL_INT6_TYPE", Name "XTHAL_INTTYPE_TIMER"); ("XCHAL_INT7_TYPE", Name "XTHAL_INTTYPE_SOFTWARE");
  ("XCHAL_INT8_TYPE", Name "XTHAL_INTTYPE_EXTERN_LEVEL"); ("XCHAL_INT9_TYPE", Name "XTHAL_INTTYPE_EXTERN_LEVEL");
  ("XCHAL_INT10_TYPE", Name "XTHAL_INTTYPE_TIMER"); ("XCHAL_INT11_TYPE", Name "XTHAL_INTTYPE_SOFTWARE");
  ("XCHAL_INT12_TYPE", Name "XTHAL_INTTYPE_EXTERN_LEVEL"); ("XCHAL_INT13_TYPE", Name "XTHAL_INTTYPE_TIMER");
  ("XCHAL_INT14_TYPE", Name "XTHAL_INTTYPE_NMI"); ("XCHAL_INT15_TYPE", Name "XTHAL_INTTYPE_EXTERN_EDGE");
  ("XCHAL_INT16_TYPE", Name "XTHAL_INTTYPE_EXTERN_EDGE"); ("XCHAL_INT17_TYPE", Name "XTHAL_INTTYPE_EXTERN_EDGE");
  ("XCHAL_INT18_TYPE", Name "XTHAL_INTTYPE_EXTERN_EDGE"); ("XCHAL_INT19_TYPE", Name "XTHAL_INTTYPE_EXTERN_EDGE");
  ("XCHAL_INT20_TYPE", Name "XTHAL_INTTYPE_EXTERN_EDGE"); ("XCHAL_INT21_TYPE", Name "XTHAL_INTTYPE_EXTERN_EDGE");
  ("XCHAL_INTTYPE_MASK_UNCONFIGURED", Num 0xFFC00000); ("XCHAL_INTTYPE_MASK_SOFTWARE", Num 0x00000880);
  ("XCHAL_INTTYPE_MASK_EXTERN_EDGE", Num 0x003F8000); ("XCHAL_INTTYPE_MASK_EXTERN_LEVEL", Num 0x0000133F);
  ("XCHAL_INTTYPE_MASK_TIMER", Num 0x00002440); ("XCHAL_INTTYPE_MASK_NMI", Num 0x00004000);
  ("XCHAL_INTTYPE_MASK_WRITE_ERROR", Num 0x00000000); ("XCHAL_INTTYPE_MASK_PROFILING", Num 0x00000000);
  ("XCHAL_INTTYPE_MASK_IDMA_DONE", Num 0x00000000); ("XCHAL_INTTYPE_MASK_IDMA_ERR", Num 0x00000000);
  ("XCHAL_INTTYPE_MASK_GS_ERR", Num 0x00000000); ("XCHAL_TIMER0_INTERRUPT", Num 6);
  ("XCHAL_TIMER1_INTERRUPT", Num 10); ("XCHAL_TIMER2_INTERRUPT", Num 13);
  ("XCHAL_TIMER3_INTERRUPT", Name "XTHAL_TIMER_UNCONFIGURED"); ("XCHAL_NMI_INTERRUPT", Num 14);
  ("XCHAL_INTLEVEL2_NUM", Num 8); ("XCHAL_INTLEVEL4_NUM", Num 12);
  ("XCHAL_INTLEVEL5_NUM", Num 13); ("XCHAL_INTLEVEL7_NUM", Num 14);
  ("XCHAL_EXTINT0_NUM", Num 0); ("XCHAL_EXTINT1_NUM", Num 1);
  ("XCHAL_EXTINT2_NUM", Num 2); ("XCHAL_EXTINT3_NUM", Num 3);
  ("XCHAL_EXTINT4_NUM", Num 4); ("XCHAL_EXTINT5_NUM", Num 5);
  ("XCHAL_EXTINT6_NUM", Num 8); ("XCHAL_EXTINT7_NUM", Num 9);
  ("XCHAL_EXTINT8_NUM", Num 12); ("XCHAL_EXTINT9_NUM", Num 14);
  ("XCHAL_EXTINT10_NUM", Num 15); ("XCHAL_EXTINT11_NUM", Num 16);
  ("XCHAL_EXTINT12_NUM", Num 17); ("XCHAL_EXTINT13_NUM", Num 18)].

Definition sample_controller_core_isa_4 : list (string * mexpr) := [
  ("XCHAL_EXTINT14_NUM", Num 19); ("XCHAL_EXTINT15_NUM", Num 20);
  ("XCHAL_EXTINT16_NUM", Num 21); ("XCHAL_INT0_EXTNUM", Num 0);
  ("XCHAL_INT1_EXTNUM", Num 1); ("XCHAL_INT2_EXTNUM", Num 2);
  ("XCHAL_INT3_EXTNUM", Num 3); ("XCHAL_INT4_EXTNUM", Num 4);
  ("XCHAL_INT5_EXTNUM", Num 5); ("XCHAL_INT8_EXTNUM", Num 6);
  ("XCHAL_INT9_EXTNUM", Num 7); ("XCHAL_INT12_EXTNUM", Num 8);
  ("XCHAL_INT14_EXTNUM", Num 9); ("XCHAL_INT15_EXTNUM", Num 10);
  ("XCHAL_INT16_EXTNUM", Num 11); ("XCHAL_INT17_EXTNUM", Num 12);
  ("XCHAL_INT18_EXTNUM", Num 13); ("XCHAL_INT19_EXTNUM", Num 14);
  ("XCHAL_INT20_EXTNUM", Num 15); ("XCHAL_INT21_EXTNUM", Num 16);
  ("XCHAL_XEA_VERSION", Num 2); ("XCHAL_HAVE_XEA1", Num 0);
  ("XCHAL_HAVE_XEA2", Num 1); ("XCHAL_HAVE_XEAX", Num 0);
  ("XCHAL_HAVE_EXCEPTIONS", Num 1); ("XCHAL_HAVE_HALT", Num 0);
  ("XCHAL_HAVE_BOOTLOADER", Num 0); ("XCHAL_HAVE_MEM_ECC_PARITY", Num 0);
  ("XCHAL_HAVE_VECTOR_SELECT", Num 1); ("XCHAL_HAVE_VECBASE", Num 1);
  ("XCHAL_VECBASE_RESET_VADDR", Num 0x40000000); ("XCHAL_VECBASE_RESET_PADDR", Num 0x40000000);
  ("XCHAL_RESET_VECBASE_OVERLAP", Num 0); ("XCHAL_RESET_VECTOR0_VADDR", Num 0x50000000);
  ("XCHAL_RESET_VECTOR0_PADDR", Num 0x50000000); ("XCHAL_RESET_VECTOR1_VADDR", Num 0x40000400);
  ("XCHAL_RESET_VECTOR1_PADDR", Num 0x40000400); ("XCHAL_RESET_VECTOR_VADDR", Num 0x50000000);
  ("XCHAL_RESET_VECTOR_PADDR", Num 0x50000000); ("XCHAL_USER_VECOFS", Num 0x00000340);
  ("XCHAL_USER_VECTOR_VADDR", Num 0x40000340); ("XCHAL_USER_VECTOR_PADDR", Num 0x40000340);
  ("XCHAL_KERNEL_VECOFS", Num 0x00000300); ("XCHAL_KERNEL_VECTOR_VADDR", Num 0x40000300);
  ("XCHAL_KERNEL_VECTOR_PADDR", Num 0x40000300); ("XCHAL_DOUBLEEXC_VECOFS", Num 0x000003C0);
  ("XCHAL_DOUBLEEXC_VECTOR_VADDR", Num 0x400003C0); ("XCHAL_DOUBLEEXC_VECTOR_PADDR", Num 0x400003C0);
  ("XCHAL_WINDOW_OF4_VECOFS", Num 0x00000000); ("XCHAL_WINDOW_UF4_VECOFS", Num 0x00000040);
  ("XCHAL_WINDOW_OF8_VECOFS", Num 0x00000080); ("XCHAL_WINDOW_UF8_VECOFS", Num 0x000000C0);
  ("XCHAL_WINDOW_OF12_VECOFS", Num 0x00000100); ("XCHAL_WINDOW_UF12_VECOFS", Num 0x00000140);
  ("XCHAL_WINDOW_VECTORS_VADDR", Num 0x40000000); ("XCHAL_WINDOW_VECTORS_PADDR", Num 0x40000000);
  ("XCHAL_INTLEVEL2_VECOFS", Num 0x00000180); ("XCHAL_INTLEVEL2_VECTOR_VADDR", Num 0x40000180);
  ("XCHAL_INTLEVEL2_VECTOR_PADDR", Num 0x40000180); ("XCHAL_INTLEVEL3_VECOFS", Num 0x000001C0);
  ("XCHAL_INTLEVEL3_VECTOR_VADDR", Num 0x400001C0); ("XCHAL_INTLEVEL3_VECTOR_PADDR", Num 0x400001C0);
  ("XCHAL_INTLEVEL4_VECOFS", Num 0x00000200); ("XCHAL_INTLEVEL4_VECTOR_VADDR", Num 0x40000200);
  ("XCHAL_INTLEVEL4_VECTOR_PADDR", Num 0x40000200); ("XCHAL_INTLEVEL5_VECOFS", Num 0x00000240);
  ("XCHAL_INTLEVEL5_VECTOR_VADDR", Num 0x40000240); ("XCHAL_INTLEVEL5_VECTOR_PADDR", Num 0x40000240);
  ("XCHAL_INTLEVEL6_VECOFS", Num 0x00000280); ("XCHAL_INTLEVEL6_VECTOR_VADDR", Num 0x40000280);
  ("XCHAL_INTLEVEL6_VECTOR_PADDR", Num 0x40000280); ("XCHAL_DEBUG_VECOFS", Name "XCHAL_INTLEVEL6_VECOFS");
  ("XCHAL_DEBUG_VECTOR_VADDR", Name "XCHAL_INTLEVEL6_VECTOR_VADDR"); ("XCHAL_DEBUG_VECTOR_PADDR", Name "XCHAL_INTLEVEL6_VECTOR_PADDR");
  ("XCHAL_NMI_VECOFS", Num 0x000002C0); ("XCHAL_NMI_VECTOR_VADDR", Num 0x400002C0);
  ("XCHAL_NMI_VECTOR_PADDR", Num 0x400002C0); ("XCHAL_INTLEVEL7_VECOFS", Name "XCHAL_NMI_VECOFS");
  ("XCHAL_INTLEVEL7_VECTOR_VADDR", Name "XCHAL_NMI_VECTOR_VADDR"); ("XCHAL_INTLEVEL7_VECTOR_PADDR", Name "XCHAL_NMI_VECTOR_PADDR");
  ("XCHAL_HAVE_DEBUG_ERI", Num 0); ("XCHAL_HAVE_DEBUG_APB", Num 0);
  ("XCHAL_HAVE_DEBUG_JTAG", Num 1); ("XCHAL_HAVE_OCD", Num 1);
  ("XCHAL_NUM_IBREAK", Num 2); ("XCHAL_NUM_DBREAK", Num 2);
  ("XCHAL_HAVE_OCD_DIR_ARRAY", Num 0); ("XCHAL_HAVE_OCD_LS32DDR", Num 1);
  ("XCHAL_HAVE_TRAX", Num 0); ("XCHAL_TRAX_MEM_SIZE", Num 0);
  ("XCHAL_TRAX_MEM_SHAREABLE", Num 0); ("XCHAL_TRAX_ATB_WIDTH", Num 0);
  ("XCHAL_TRAX_TIME_WIDTH", Num 0); ("XCHAL_NUM_PERF_COUNTERS", Num 0);
  ("XCHAL_HAVE_TLBS", Num 1); ("XCHAL_HAVE_SPANNING_WAY", Num 1);
  ("XCHAL_SPANNING_WAY", Num 0); ("XCHAL_HAVE_IDENTITY_MAP", Num 1);
  ("XCHAL_HAVE_CACHEATTR", Num 0); ("XCHAL_HAVE_MIMIC_CACHEATTR", Num 1);
  ("XCHAL_HAVE_XLT_CACHEATTR", Num 0); ("XCHAL_HAVE_PTP_MMU", Num 0);
  ("XCHAL_MMU_ASID_BITS", Num 0); ("XCHAL_MMU_RINGS", Num 1);
  ("XCHAL_MMU_RING_BITS", Num 0); ("XCHAL_HAVE_MPU", Num 0);
  ("XCHAL_MPU_ENTRIES", Num 0); ("XCHAL_MPU_ALIGN_REQ", Num 1)].

Definition sample_controller_core_isa_5 : list (string * mexpr) := [
  ("XCHAL_MPU_BACKGROUND_ENTRIES", Num 0); ("XCHAL_MPU_BG_CACHEADRDIS", Num 0);
  ("XCHAL_MPU_ALIGN_BITS", Num 0); ("XCHAL_MPU_ALIGN", Num 0)].

Definition sample_controller_core_isa : list (string * mexpr) :=
  sample_controller_core_isa_1 ++ sample_controller_core_isa_2 ++ sample_controller_core_isa_3 ++ sample_controller_core_isa_4 ++ sample_controller_core_isa_5.

Definition test_kc705_be_core_isa_1 : list (string * mexpr) := [
  ("XTENSA_CORE_TEST_KC705_BE_CORE_ISA_H", Text ""); ("XCHAL_HAVE_BE", Num 1);
  ("XCHAL_HAVE_WINDOWED", Num 1); ("XCHAL_NUM_AREGS", Num 32);
  ("XCHAL_NUM_AREGS_LOG2", Num 5); ("XCHAL_MAX_INSTRUCTION_SIZE", Num 8);
  ("XCHAL_HAVE_DEBUG", Num 1); ("XCHAL_HAVE_DENSITY", Num 1);
  ("XCHAL_HAVE_LOOPS", Num 1); ("XCHAL_LOOP_BUFFER_SIZE", Num 0);
  ("XCHAL_HAVE_NSA", Num 1); ("XCHAL_HAVE_MINMAX", Num 1);
  ("XCHAL_HAVE_SEXT", Num 1); ("XCHAL_HAVE_DEPBITS", Num 0);
  ("XCHAL_HAVE_CLAMPS", Num 1); ("XCHAL_HAVE_MUL16", Num 1);
  ("XCHAL_HAVE_MUL32", Num 1); ("XCHAL_HAVE_MUL32_HIGH", Num 1);
  ("XCHAL_HAVE_DIV32", Num 1); ("XCHAL_HAVE_L32R", Num 1);
  ("XCHAL_HAVE_ABSOLUTE_LITERALS", Num 0); ("XCHAL_HAVE_CONST16", Num 0);
  ("XCHAL_HAVE_ADDX", Num 1); ("XCHAL_HAVE_WIDE_BRANCHES", Num 0);
  ("XCHAL_HAVE_PREDICTED_BRANCHES", Num 0); ("XCHAL_HAVE_CALL4AND12", Num 1);
  ("XCHAL_HAVE_ABS", Num 1); ("XCHAL_HAVE_RELEASE_SYNC", Num 1);
  ("XCHAL_HAVE_S32C1I", Num 1); ("XCHAL_HAVE_SPECULATION", Num 0);
  ("XCHAL_HAVE_FULL_RESET", Num 1); ("XCHAL_NUM_CONTEXTS", Num 1);
  ("XCHAL_NUM_MISC_REGS", Num 2); ("XCHAL_HAVE_TAP_MASTER", Num 0);
  ("XCHAL_HAVE_PRID", Num 1); ("XCHAL_HAVE_EXTERN_REGS", Num 1);
  ("XCHAL_HAVE_MX", Num 0); ("XCHAL_HAVE_MP_INTERRUPTS", Num 0);
  ("XCHAL_HAVE_MP_RUNSTALL", Num 0); ("XCHAL_HAVE_PSO", Num 0);
  ("XCHAL_HAVE_PSO_CDM", Num 0); ("XCHAL_HAVE_PSO_FULL_RETENTION", Num 0);
  ("XCHAL_HAVE_THREADPTR", Num 1); ("XCHAL_HAVE_BOOLEANS", Num 1);
  ("XCHAL_HAVE_CP", Num 1); ("XCHAL_CP_MAXCFG", Num 8);
  ("XCHAL_HAVE_MAC16", Num 1); ("XCHAL_HAVE_FUSION", Num 0);
  ("XCHAL_HAVE_FUSION_FP", Num 0); ("XCHAL_HAVE_FUSION_LOW_POWER", Num 0);
  ("XCHAL_HAVE_FUSION_AES", Num 0); ("XCHAL_HAVE_FUSION_CONVENC", Num 0);
  ("XCHAL_HAVE_FUSION_LFSR_CRC", Num 0); ("XCHAL_HAVE_FUSION_BITOPS", Num 0);
  ("XCHAL_HAVE_FUSION_AVS", Num 0); ("XCHAL_HAVE_FUSION_16BIT_BASEBAND", Num 0);
  ("XCHAL_HAVE_HIFIPRO", Num 0); ("XCHAL_HAVE_HIFI4", Num 0);
  ("XCHAL_HAVE_HIFI4_VFPU", Num 0); ("XCHAL_HAVE_HIFI3", Num 0);
  ("XCHAL_HAVE_HIFI3_VFPU", Num 0); ("XCHAL_HAVE_HIFI2", Num 1);
  ("XCHAL_HAVE_HIFI2_MUL32X24", Num 1); ("XCHAL_HAVE_HIFI2EP", Num 1);
  ("XCHAL_HAVE_HIFI_MINI", Num 0); ("XCHAL_HAVE_VECTORFPU2005", Num 0);
  ("XCHAL_HAVE_USER_DPFPU", Num 0); ("XCHAL_HAVE_USER_SPFPU", Num 0);
  ("XCHAL_HAVE_FP", Num 0); ("XCHAL_HAVE_FP_DIV", Num 0);
  ("XCHAL_HAVE_FP_RECIP", Num 0); ("XCHAL_HAVE_FP_SQRT", Num 0);
  ("XCHAL_HAVE_FP_RSQRT", Num 0); ("XCHAL_HAVE_DFP", Num 0);
  ("XCHAL_HAVE_DFP_DIV", Num 0); ("XCHAL_HAVE_DFP_RECIP", Num 0);
  ("XCHAL_HAVE_DFP_SQRT", Num 0); ("XCHAL_HAVE_DFP_RSQRT", Num 0);
  ("XCHAL_HAVE_DFP_ACCEL", Num 0); ("XCHAL_HAVE_DFP_accel", Name "XCHAL_HAVE_DFP_ACCEL");
  ("XCHAL_HAVE_DFPU_SINGLE_ONLY", Num 0); ("XCHAL_HAVE_DFPU_SINGLE_DOUBLE", Num 0);
  ("XCHAL_HAVE_VECTRA1", Num 0); ("XCHAL_HAVE_VECTRALX", Num 0);
  ("XCHAL_HAVE_PDX4", Num 0); ("XCHAL_HAVE_CONNXD2", Num 0);
  ("XCHAL_HAVE_CONNXD2_DUALLSFLIX", Num 0); ("XCHAL_HAVE_BBE16", Num 0);
  ("XCHAL_HAVE_BBE16_RSQRT", Num 0); ("XCHAL_HAVE_BBE16_VECDIV", Num 0);
  ("XCHAL_HAVE_BBE16_DESPREAD", Num 0); ("XCHAL_HAVE_BBENEP", Num 0);
  ("XCHAL_HAVE_BSP3", Num 0); ("XCHAL_HAVE_BSP3_TRANSPOSE", Num 0);
  ("XCHAL_HAVE_SSP16", Num 0); ("XCHAL_HAVE_SSP16_VITERBI", Num 0);
  ("XCHAL_HAVE_TURBO16", Num 0); ("XCHAL_HAVE_BBP16", Num 0);
  ("XCHAL_HAVE_FLIX3", Num 0); ("XCHAL_HAVE_GRIVPEP", Num 0);
  ("XCHAL_HAVE_GRIVPEP_HISTOGRAM", Num 0); ("XCHAL_NUM_LOADSTORE_UNITS", Num 1);
  ("XCHAL_NUM_WRITEBUFFER_ENTRIES", Num 8); ("XCHAL_INST_FETCH_WIDTH", Num 8);
  ("XCHAL_DATA_WIDTH", Num 8); ("XCHAL_DATA_PIPE_DELAY", Num 1);
  ("XCHAL_CLOCK_GATING_GLOBAL", Num 0); ("XCHAL_CLOCK_GATING_FUNCUNIT", Num 0);
  ("XCHAL_UNALIGNED_LOAD_EXCEPTION", Num 1); ("XCHAL_UNALIGNED_STORE_EXCEPTION", Num 1);
  ("XCHAL_UNALIGNED_LOAD_HW", Num 0); ("XCHAL_UNALIGNED_STORE_HW", Num 0);
  ("XCHAL_SW_VERSION", Num 1100002); ("XCHAL_CORE_ID", Text "test_kc705_be");
  ("XCHAL_BUILD_UNIQUE_ID", Num 0x00058D8C)].

Definition test_kc705_be_core_isa_2 : list (string * mexpr) := [
  ("XCHAL_HW_CONFIGID0", Num 0xC1B3FFFF); ("XCHAL_HW_CONFIGID1", Num 0x1C858D8C);
  ("XCHAL_HW_VERSION_NAME", Text "LX6.0.2"); ("XCHAL_HW_VERSION_MAJOR", Num 2600);
  ("XCHAL_HW_VERSION_MINOR", Num 2); ("XCHAL_HW_VERSION", Num 260002);
  ("XCHAL_HW_REL_LX6", Num 1); ("XCHAL_HW_REL_LX6_0", Num 1);
  ("XCHAL_HW_REL_LX6_0_2", Num 1); ("XCHAL_HW_CONFIGID_RELIABLE", Num 1);
  ("XCHAL_HW_MIN_VERSION_MAJOR", Num 2600); ("XCHAL_HW_MIN_VERSION_MINOR", Num 2);
  ("XCHAL_HW_MIN_VERSION", Num 260002); ("XCHAL_HW_MAX_VERSION_MAJOR", Num 2600);
  ("XCHAL_HW_MAX_VERSION_MINOR", Num 2); ("XCHAL_HW_MAX_VERSION", Num 260002);
  ("XCHAL_ICACHE_LINESIZE", Num 32); ("XCHAL_DCACHE_LINESIZE", Num 32);
  ("XCHAL_ICACHE_LINEWIDTH", Num 5); ("XCHAL_DCACHE_LINEWIDTH", Num 5);
  ("XCHAL_ICACHE_SIZE", Num 16384); ("XCHAL_DCACHE_SIZE", Num 16384);
  ("XCHAL_DCACHE_IS_WRITEBACK", Num 1); ("XCHAL_DCACHE_IS_COHERENT", Num 0);
  ("XCHAL_HAVE_PREFETCH", Num 1); ("XCHAL_HAVE_PREFETCH_L1", Num 0);
  ("XCHAL_PREFETCH_CASTOUT_LINES", Num 1); ("XCHAL_PREFETCH_ENTRIES", Num 8);
  ("XCHAL_PREFETCH_BLOCK_ENTRIES", Num 0); ("XCHAL_HAVE_CACHE_BLOCKOPS", Num 0);
  ("XCHAL_HAVE_ICACHE_TEST", Num 1); ("XCHAL_HAVE_DCACHE_TEST", Num 1);
  ("XCHAL_HAVE_ICACHE_DYN_WAYS", Num 0); ("XCHAL_HAVE_DCACHE_DYN_WAYS", Num 0);
  ("XCHAL_HAVE_PIF", Num 1); ("XCHAL_ICACHE_SETWIDTH", Num 7);
  ("XCHAL_DCACHE_SETWIDTH", Num 7); ("XCHAL_ICACHE_WAYS", Num 4);
  ("XCHAL_DCACHE_WAYS", Num 4); ("XCHAL_ICACHE_LINE_LOCKABLE", Num 1);
  ("XCHAL_DCACHE_LINE_LOCKABLE", Num 1); ("XCHAL_ICACHE_ECC_PARITY", Num 0);
  ("XCHAL_DCACHE_ECC_PARITY", Num 0); ("XCHAL_ICACHE_ACCESS_SIZE", Num 8);
  ("XCHAL_DCACHE_ACCESS_SIZE", Num 8); ("XCHAL_DCACHE_BANKS", Num 1);
  ("XCHAL_CA_BITS", Num 4); ("XCHAL_USE_MEMCTL", Bin OpLand (Bin OpLor (Bin OpLor (Bin OpLor (Bin OpGt (Name "XCHAL_LOOP_BUFFER_SIZE") (Num 0)) (Name "XCHAL_DCACHE_IS_COHERENT")) (Name "XCHAL_HAVE_ICACHE_DYN_WAYS")) (Name "XCHAL_HAVE_DCACHE_DYN_WAYS")) (Bin OpGe (Name "XCHAL_HW_MIN_VERSION") (Name "XTENSA_HWVERSION_RE_2012_0")));
  ("XCHAL_NUM_INSTROM", Num 0); ("XCHAL_NUM_INSTRAM", Num 0);
  ("XCHAL_NUM_DATAROM", Num 0); ("XCHAL_NUM_DATARAM", Num 0);
  ("XCHAL_NUM_URAM", Num 0); ("XCHAL_NUM_XLMI", Num 0);
  ("XCHAL_HAVE_IMEM_LOADSTORE", Num 1); ("XCHAL_HAVE_INTERRUPTS", Num 1);
  ("XCHAL_HAVE_HIGHPRI_INTERRUPTS", Num 1); ("XCHAL_HAVE_NMI", Num 1);
  ("XCHAL_HAVE_CCOUNT", Num 1); ("XCHAL_NUM_TIMERS", Num 3);
  ("XCHAL_NUM_INTERRUPTS", Num 22); ("XCHAL_NUM_INTERRUPTS_LOG2", Num 5);
  ("XCHAL_NUM_EXTINTERRUPTS", Num 16); ("XCHAL_NUM_INTLEVELS", Num 6);
  ("XCHAL_EXCM_LEVEL", Num 4); ("XCHAL_INTLEVEL1_MASK", Num 0x001F00BF);
  ("XCHAL_INTLEVEL2_MASK", Num 0x00000140); ("XCHAL_INTLEVEL3_MASK", Num 0x00200E00);
  ("XCHAL_INTLEVEL4_MASK", Num 0x00008000); ("XCHAL_INTLEVEL5_MASK", Num 0x00003000);
  ("XCHAL_INTLEVEL6_MASK", Num 0x00000000); ("XCHAL_INTLEVEL7_MASK", Num 0x00004000);
  ("XCHAL_INTLEVEL1_ANDBELOW_MASK", Num 0x001F00BF); ("XCHAL_INTLEVEL2_ANDBELOW_MASK", Num 0x001F01FF);
  ("XCHAL_INTLEVEL3_ANDBELOW_MASK", Num 0x003F0FFF); ("XCHAL_INTLEVEL4_ANDBELOW_MASK", Num 0x003F8FFF);
  ("XCHAL_INTLEVEL5_ANDBELOW_MASK", Num 0x003FBFFF); ("XCHAL_INTLEVEL6_ANDBELOW_MASK", Num 0x003FBFFF);
  ("XCHAL_INTLEVEL7_ANDBELOW_MASK", Num 0x003FFFFF); ("XCHAL_INT0_LEVEL", Num 1);
  ("XCHAL_INT1_LEVEL", Num 1); ("XCHAL_INT2_LEVEL", Num 1);
  ("XCHAL_INT3_LEVEL", Num 1); ("XCHAL_INT4_LEVEL", Num 1);
  ("XCHAL_INT5_LEVEL", Num 1)].

Definition test_kc705_be_core_isa_3 : list (string * mexpr) := [
  ("XCHAL_INT6_LEVEL", Num 2); ("XCHAL_INT7_LEVEL", Num 1);
  ("XCHAL_INT8_LEVEL", Num 2); ("XCHAL_INT9_LEVEL", Num 3);
  ("XCHAL_INT10_LEVEL", Num 3); ("XCHAL_INT11_LEVEL", Num 3);
  ("XCHAL_INT12_LEVEL", Num 5); ("XCHAL_INT13_LEVEL", Num 5);
  ("XCHAL_INT14_LEVEL", Num 7); ("XCHAL_INT15_LEVEL", Num 4);
  ("XCHAL_INT16_LEVEL", Num 1); ("XCHAL_INT17_LEVEL", Num 1);
  ("XCHAL_INT18_LEVEL", Num 1); ("XCHAL_INT19_LEVEL", Num 1);
  ("XCHAL_INT20_LEVEL", Num 1); ("XCHAL_INT21_LEVEL", Num 3);
  ("XCHAL_DEBUGLEVEL", Num 6); ("XCHAL_HAVE_DEBUG_EXTERN_INT", Num 1);
  ("XCHAL_NMILEVEL", Num 7); ("XCHAL_INT0_TYPE", Name "XTHAL_INTTYPE_EXTERN_LEVEL");
  ("XCHAL_INT1_TYPE", Name "XTHAL_INTTYPE_EXTERN_LEVEL"); ("XCHAL_INT2_TYPE", Name "XTHAL_INTTYPE_EXTERN_LEVEL");
  ("XCHAL_INT3_TYPE", Name "XTHAL_INTTYPE_EXTERN_LEVEL"); ("XCHAL_INT4_TYPE", Name "XTHAL_INTTYPE_EXTERN_LEVEL");
  ("XCHAL_INT5_TYPE", Name "XTHAL_INTTYPE_EXTERN_LEVEL"); ("XCHAL_INT6_TYPE", Name "XTHAL_INTTYPE_TIMER");
  ("XCHAL_INT7_TYPE", Name "XTHAL_INTTYPE_SOFTWARE"); ("XCHAL_INT8_TYPE", Name "XTHAL_INTTYPE_EXTERN_LEVEL");
  ("XCHAL_INT9_TYPE", Name "XTHAL_INTTYPE_EXTERN_LEVEL"); ("XCHAL_INT10_TYPE", Name "XTHAL_INTTYPE_TIMER");
  ("XCHAL_INT11_TYPE", Name "XTHAL_INTTYPE_SOFTWARE"); ("XCHAL_INT12_TYPE", Name "XTHAL_INTTYPE_EXTERN_LEVEL");
  ("XCHAL_INT13_TYPE", Name "XTHAL_INTTYPE_TIMER"); ("XCHAL_INT14_TYPE", Name "XTHAL_INTTYPE_NMI");
  ("XCHAL_INT15_TYPE", Name "XTHAL_INTTYPE_PROFILING"); ("XCHAL_INT16_TYPE", Name "XTHAL_INTTYPE_EXTERN_EDGE");
  ("XCHAL_INT17_TYPE", Name "XTHAL_INTTYPE_EXTERN_EDGE"); ("XCHAL_INT18_TYPE", Name "XTHAL_INTTYPE_EXTERN_EDGE");
  ("XCHAL_INT19_TYPE", Name "XTHAL_INTTYPE_EXTERN_EDGE"); ("XCHAL_INT20_TYPE", Name "XTHAL_INTTYPE_EXTERN_EDGE");
  ("XCHAL_INT21_TYPE", Name "XTHAL_INTTYPE_EXTERN_EDGE"); ("XCHAL_INTTYPE_MASK_UNCONFIGURED", Num 0xFFC00000);
  ("XCHAL_INTTYPE_MASK_SOFTWARE", Num 0x00000880); ("XCHAL_INTTYPE_MASK_EXTERN_EDGE", Num 0x003F0000);
  ("XCHAL_INTTYPE_MASK_EXTERN_LEVEL", Num 0x0000133F); ("XCHAL_INTTYPE_MASK_TIMER", Num 0x00002440);
  ("XCHAL_INTTYPE_MASK_NMI", Num 0x00004000); ("XCHAL_INTTYPE_MASK_WRITE_ERROR", Num 0x00000000);
  ("XCHAL_INTTYPE_MASK_PROFILING", Num 0x00008000); ("XCHAL_TIMER0_INTERRUPT", Num 6);
  ("XCHAL_TIMER1_INTERRUPT", Num 10); ("XCHAL_TIMER2_INTERRUPT", Num 13);
  ("XCHAL_TIMER3_INTERRUPT", Name "XTHAL_TIMER_UNCONFIGURED"); ("XCHAL_NMI_INTERRUPT", Num 14);
  ("XCHAL_PROFILING_INTERRUPT", Num 15); ("XCHAL_INTLEVEL4_NUM", Num 15);
  ("XCHAL_INTLEVEL7_NUM", Num 14); ("XCHAL_EXTINT0_NUM", Num 0);
  ("XCHAL_EXTINT1_NUM", Num 1); ("XCHAL_EXTINT2_NUM", Num 2);
  ("XCHAL_EXTINT3_NUM", Num 3); ("XCHAL_EXTINT4_NUM", Num 4);
  ("XCHAL_EXTINT5_NUM", Num 5); ("XCHAL_EXTINT6_NUM", Num 8);
  ("XCHAL_EXTINT7_NUM", Num 9); ("XCHAL_EXTINT8_NUM", Num 12);
  ("XCHAL_EXTINT9_NUM", Num 14); ("XCHAL_EXTINT10_NUM", Num 16);
  ("XCHAL_EXTINT11_NUM", Num 17); ("XCHAL_EXTINT12_NUM", Num 18);
  ("XCHAL_EXTINT13_NUM", Num 19); ("XCHAL_EXTINT14_NUM", Num 20);
  ("XCHAL_EXTINT15_NUM", Num 21); ("XCHAL_INT0_EXTNUM", Num 0);
  ("XCHAL_INT1_EXTNUM", Num 1); ("XCHAL_INT2_EXTNUM", Num 2);
  ("XCHAL_INT3_EXTNUM", Num 3); ("XCHAL_INT4_EXTNUM", Num 4);
  ("XCHAL_INT5_EXTNUM", Num 5); ("XCHAL_INT8_EXTNUM", Num 6);
  ("XCHAL_INT9_EXTNUM", Num 7); ("XCHAL_INT12_EXTNUM", Num 8);
  ("XCHAL_INT14_EXTNUM", Num 9); ("XCHAL_INT16_EXTNUM", Num 10);
  ("XCHAL_INT17_EXTNUM", Num 11); ("XCHAL_INT18_EXTNUM", Num 12);
  ("XCHAL_INT19_EXTNUM", Num 13); ("XCHAL_INT20_EXTNUM", Num 14);
  ("XCHAL_INT21_EXTNUM", Num 15); ("XCHAL_XEA_VERSION", Num 2);
  ("XCHAL_HAVE_XEA1", Num 0); ("XCHAL_HAVE_XEA2", Num 1);
  ("XCHAL_HAVE_XEAX", Num 0); ("XCHAL_HAVE_EXCEPTIONS", Num 1);
  ("XCHAL_HAVE_HALT", Num 0); ("XCHAL_HAVE_BOOTLOADER", Num 0);
  ("XCHAL_HAVE_MEM_ECC_PARITY", Num 0); ("XCHAL_HAVE_VECTOR_SELECT", Num 1);
  ("XCHAL_HAVE_VECBASE", Num 1); ("XCHAL_VECBASE_RESET_VADDR", Num 0x00002000);
  ("XCHAL_VECBASE_RESET_PADDR", Num 0x00002000); ("XCHAL_RESET_VECBASE_OVERLAP", Num 0);
  ("XCHAL_RESET_VECTOR0_VADDR", Num 0xFE000000); ("XCHAL_RESET_VECTOR0_PADDR", Num 0xFE000000);
  ("XCHAL_RESET_VECTOR1_VADDR", Num 0x00001000); ("XCHAL_RESET_VECTOR1_PADDR", Num 0x00001000);
  ("XCHAL_RESET_VECTOR_VADDR", Num 0xFE000000); ("XCHAL_RESET_VECTOR_PADDR", Num 0xFE000000);
  ("XCHAL_USER_VECOFS", Num 0x00000340); ("XCHAL_USER_VECTOR_VADDR", Num 0x00002340);
  ("XCHAL_USER_VECTOR_PADDR", Num 0x00002340); ("XCHAL_KERNEL_VECOFS", Num 0x00000300);
  ("XCHAL_KERNEL_VECTOR_VADDR", Num 0x00002300); ("XCHAL_KERNEL_VECTOR_PADDR", Num 0x00002300);
  ("XCHAL_DOUBLEEXC_VECOFS", Num 0x000003C0); ("XCHAL_DOUBLEEXC_VECTOR_VADDR", Num 0x000023C0);
  ("XCHAL_DOUBLEEXC_VECTOR_PADDR", Num 0x000023C0)].

Definition test_kc705_be_core_isa_4 : list (string * mexpr) := [
  ("XCHAL_WINDOW_OF4_VECOFS", Num 0x00000000); ("XCHAL_WINDOW_UF4_VECOFS", Num 0x00000040);
  ("XCHAL_WINDOW_OF8_VECOFS", Num 0x00000080); ("XCHAL_WINDOW_UF8_VECOFS", Num 0x000000C0);
  ("XCHAL_WINDOW_OF12_VECOFS", Num 0x00000100); ("XCHAL_WINDOW_UF12_VECOFS", Num 0x00000140);
  ("XCHAL_WINDOW_VECTORS_VADDR", Num 0x00002000); ("XCHAL_WINDOW_VECTORS_PADDR", Num 0x00002000);
  ("XCHAL_INTLEVEL2_VECOFS", Num 0x00000180); ("XCHAL_INTLEVEL2_VECTOR_VADDR", Num 0x00002180);
  ("XCHAL_INTLEVEL2_VECTOR_PADDR", Num 0x00002180); ("XCHAL_INTLEVEL3_VECOFS", Num 0x000001C0);
  ("XCHAL_INTLEVEL3_VECTOR_VADDR", Num 0x000021C0); ("XCHAL_INTLEVEL3_VECTOR_PADDR", Num 0x000021C0);
  ("XCHAL_INTLEVEL4_VECOFS", Num 0x00000200); ("XCHAL_INTLEVEL4_VECTOR_VADDR", Num 0x00002200);
  ("XCHAL_INTLEVEL4_VECTOR_PADDR", Num 0x00002200); ("XCHAL_INTLEVEL5_VECOFS", Num 0x00000240);
  ("XCHAL_INTLEVEL5_VECTOR_VADDR", Num 0x00002240); ("XCHAL_INTLEVEL5_VECTOR_PADDR", Num 0x00002240);
  ("XCHAL_INTLEVEL6_VECOFS", Num 0x00000280); ("XCHAL_INTLEVEL6_VECTOR_VADDR", Num 0x00002280);
  ("XCHAL_INTLEVEL6_VECTOR_PADDR", Num 0x00002280); ("XCHAL_DEBUG_VECOFS", Name "XCHAL_INTLEVEL6_VECOFS");
  ("XCHAL_DEBUG_VECTOR_VADDR", Name "XCHAL_INTLEVEL6_VECTOR_VADDR"); ("XCHAL_DEBUG_VECTOR_PADDR", Name "XCHAL_INTLEVEL6_VECTOR_PADDR");
  ("XCHAL_NMI_VECOFS", Num 0x000002C0); ("XCHAL_NMI_VECTOR_VADDR", Num 0x000022C0);
  ("XCHAL_NMI_VECTOR_PADDR", Num 0x000022C0); ("XCHAL_INTLEVEL7_VECOFS", Name "XCHAL_NMI_VECOFS");
  ("XCHAL_INTLEVEL7_VECTOR_VADDR", Name "XCHAL_NMI_VECTOR_VADDR"); ("XCHAL_INTLEVEL7_VECTOR_PADDR", Name "XCHAL_NMI_VECTOR_PADDR");
  ("XCHAL_HAVE_DEBUG_ERI", Num 1); ("XCHAL_HAVE_DEBUG_APB", Num 0);
  ("XCHAL_HAVE_DEBUG_JTAG", Num 1); ("XCHAL_HAVE_OCD", Num 1);
  ("XCHAL_NUM_IBREAK", Num 2); ("XCHAL_NUM_DBREAK", Num 2);
  ("XCHAL_HAVE_OCD_DIR_ARRAY", Num 0); ("XCHAL_HAVE_OCD_LS32DDR", Num 1);
  ("XCHAL_HAVE_TRAX", Num 1); ("XCHAL_TRAX_MEM_SIZE", Num 262144);
  ("XCHAL_TRAX_MEM_SHAREABLE", Num 1); ("XCHAL_TRAX_ATB_WIDTH", Num 0);
  ("XCHAL_TRAX_TIME_WIDTH", Num 0); ("XCHAL_NUM_PERF_COUNTERS", Num 8);
  ("XCHAL_HAVE_TLBS", Num 1); ("XCHAL_HAVE_SPANNING_WAY", Num 1);
  ("XCHAL_SPANNING_WAY", Num 6); ("XCHAL_HAVE_IDENTITY_MAP", Num 0);
  ("XCHAL_HAVE_CACHEATTR", Num 0); ("XCHAL_HAVE_MIMIC_CACHEATTR", Num 0);
  ("XCHAL_HAVE_XLT_CACHEATTR", Num 0); ("XCHAL_HAVE_PTP_MMU", Num 1);
  ("XCHAL_ITLB_ARF_ENTRIES_LOG2", Num 2); ("XCHAL_DTLB_ARF_ENTRIES_LOG2", Num 2);
  ("XCHAL_MMU_ASID_BITS", Num 8); ("XCHAL_MMU_RINGS", Num 4);
  ("XCHAL_MMU_RING_BITS", Num 2)].

Definition test_kc705_be_core_isa : list (string * mexpr) :=
  test_kc705_be_core_isa_1 ++ test_kc705_be_core_isa_2 ++ test_kc705_be_core_isa_3 ++ test_kc705_be_core_isa_4.

Definition test_mmuhifi_c3_core_isa_1 : list (string * mexpr) := [
  ("XTENSA_CORE_TEST_MMUHIFI_C3_CORE_ISA_H", Text ""); ("XCHAL_HAVE_BE", Num 0);
  ("XCHAL_HAVE_WINDOWED", Num 1); ("XCHAL_NUM_AREGS", Num 32);
  ("XCHAL_NUM_AREGS_LOG2", Num 5); ("XCHAL_MAX_INSTRUCTION_SIZE", Num 8);
  ("XCHAL_HAVE_DEBUG", Num 1); ("XCHAL_HAVE_DENSITY", Num 1);
  ("XCHAL_HAVE_LOOPS", Num 1); ("XCHAL_LOOP_BUFFER_SIZE", Num 0);
  ("XCHAL_HAVE_NSA", Num 1); ("XCHAL_HAVE_MINMAX", Num 1);
  ("XCHAL_HAVE_SEXT", Num 1); ("XCHAL_HAVE_CLAMPS", Num 1);
  ("XCHAL_HAVE_MUL16", Num 1); ("XCHAL_HAVE_MUL32", Num 1);
  ("XCHAL_HAVE_MUL32_HIGH", Num 0); ("XCHAL_HAVE_DIV32", Num 0);
  ("XCHAL_HAVE_L32R", Num 1); ("XCHAL_HAVE_ABSOLUTE_LITERALS", Num 1);
  ("XCHAL_HAVE_CONST16", Num 0); ("XCHAL_HAVE_ADDX", Num 1);
  ("XCHAL_HAVE_WIDE_BRANCHES", Num 0); ("XCHAL_HAVE_PREDICTED_BRANCHES", Num 0);
  ("XCHAL_HAVE_CALL4AND12", Num 1); ("XCHAL_HAVE_ABS", Num 1);
  ("XCHAL_HAVE_RELEASE_SYNC", Num 1); ("XCHAL_HAVE_S32C1I", Num 1);
  ("XCHAL_HAVE_SPECULATION", Num 0); ("XCHAL_HAVE_FULL_RESET", Num 1);
  ("XCHAL_NUM_CONTEXTS", Num 1); ("XCHAL_NUM_MISC_REGS", Num 2);
  ("XCHAL_HAVE_TAP_MASTER", Num 0); ("XCHAL_HAVE_PRID", Num 1);
  ("XCHAL_HAVE_EXTERN_REGS", Num 1); ("XCHAL_HAVE_MX", Num 1);
  ("XCHAL_HAVE_MP_INTERRUPTS", Num 1); ("XCHAL_HAVE_MP_RUNSTALL", Num 1);
  ("XCHAL_HAVE_PSO", Num 0); ("XCHAL_HAVE_PSO_CDM", Num 0);
  ("XCHAL_HAVE_PSO_FULL_RETENTION", Num 0); ("XCHAL_HAVE_THREADPTR", Num 1);
  ("XCHAL_HAVE_BOOLEANS", Num 1); ("XCHAL_HAVE_CP", Num 1);
  ("XCHAL_CP_MAXCFG", Num 2); ("XCHAL_HAVE_MAC16", Num 0);
  ("XCHAL_HAVE_VECTORFPU2005", Num 0); ("XCHAL_HAVE_FP", Num 0);
  ("XCHAL_HAVE_FP_DIV", Num 0); ("XCHAL_HAVE_FP_RECIP", Num 0);
  ("XCHAL_HAVE_FP_SQRT", Num 0); ("XCHAL_HAVE_FP_RSQRT", Num 0);
  ("XCHAL_HAVE_DFP", Num 0); ("XCHAL_HAVE_DFP_DIV", Num 0);
  ("XCHAL_HAVE_DFP_RECIP", Num 0); ("XCHAL_HAVE_DFP_SQRT", Num 0);
  ("XCHAL_HAVE_DFP_RSQRT", Num 0); ("XCHAL_HAVE_DFP_accel", Num 0);
  ("XCHAL_HAVE_VECTRA1", Num 0); ("XCHAL_HAVE_VECTRALX", Num 0);
  ("XCHAL_HAVE_HIFIPRO", Num 0); ("XCHAL_HAVE_HIFI3", Num 0);
  ("XCHAL_HAVE_HIFI2", Num 1); ("XCHAL_HAVE_HIFI2EP", Num 0);
  ("XCHAL_HAVE_HIFI_MINI", Num 0); ("XCHAL_HAVE_CONNXD2", Num 0);
  ("XCHAL_HAVE_BBE16", Num 0); ("XCHAL_HAVE_BBE16_RSQRT", Num 0);
  ("XCHAL_HAVE_BBE16_VECDIV", Num 0); ("XCHAL_HAVE_BBE16_DESPREAD", Num 0);
  ("XCHAL_HAVE_BBENEP", Num 0); ("XCHAL_HAVE_BSP3", Num 0);
  ("XCHAL_HAVE_BSP3_TRANSPOSE", Num 0); ("XCHAL_HAVE_SSP16", Num 0);
  ("XCHAL_HAVE_SSP16_VITERBI", Num 0); ("XCHAL_HAVE_TURBO16", Num 0);
  ("XCHAL_HAVE_BBP16", Num 0); ("XCHAL_HAVE_FLIX3", Num 0);
  ("XCHAL_NUM_LOADSTORE_UNITS", Num 1); ("XCHAL_NUM_WRITEBUFFER_ENTRIES", Num 8);
  ("XCHAL_INST_FETCH_WIDTH", Num 8); ("XCHAL_DATA_WIDTH", Num 8);
  ("XCHAL_DATA_PIPE_DELAY", Num 1); ("XCHAL_UNALIGNED_LOAD_EXCEPTION", Num 1);
  ("XCHAL_UNALIGNED_STORE_EXCEPTION", Num 1); ("XCHAL_UNALIGNED_LOAD_HW", Num 0);
  ("XCHAL_UNALIGNED_STORE_HW", Num 0); ("XCHAL_SW_VERSION", Num 1000006);
  ("XCHAL_CORE_ID", Text "test_mmuhifi_c3"); ("XCHAL_BUILD_UNIQUE_ID", Num 0x00005A6A);
  ("XCHAL_HW_CONFIGID0", Num 0xC1B3CBFE); ("XCHAL_HW_CONFIGID1", Num 0x10405A6A);
  ("XCHAL_HW_VERSION_NAME", Text "LX3.0.0"); ("XCHAL_HW_VERSION_MAJOR", Num 2300);
  ("XCHAL_HW_VERSION_MINOR", Num 0); ("XCHAL_HW_VERSION", Num 230000);
  ("XCHAL_HW_REL_LX3", Num 1); ("XCHAL_HW_REL_LX3_0", Num 1);
  ("XCHAL_HW_REL_LX3_0_0", Num 1); ("XCHAL_HW_CONFIGID_RELIABLE", Num 1);
  ("XCHAL_HW_MIN_VERSION_MAJOR", Num 2300); ("XCHAL_HW_MIN_VERSION_MINOR", Num 0);
  ("XCHAL_HW_MIN_VERSION", Num 230000); ("XCHAL_HW_MAX_VERSION_MAJOR", Num 2300);
  ("XCHAL_HW_MAX_VERSION_MINOR", Num 0); ("XCHAL_HW_MAX_VERSION", Num 230000);
  ("XCHAL_ICACHE_LINESIZE", Num 32); ("XCHAL_DCACHE_LINESIZE", Num 32)].

Definition test_mmuhifi_c3_core_isa_2 : list (string * mexpr) := [
  ("XCHAL_ICACHE_LINEWIDTH", Num 5); ("XCHAL_DCACHE_LINEWIDTH", Num 5);
  ("XCHAL_ICACHE_SIZE", Num 16384); ("XCHAL_DCACHE_SIZE", Num 16384);
  ("XCHAL_DCACHE_IS_WRITEBACK", Num 1); ("XCHAL_DCACHE_IS_COHERENT", Num 1);
  ("XCHAL_HAVE_PREFETCH", Num 0); ("XCHAL_HAVE_PREFETCH_L1", Num 0);
  ("XCHAL_PREFETCH_CASTOUT_LINES", Num 0); ("XCHAL_HAVE_PIF", Num 1);
  ("XCHAL_ICACHE_SETWIDTH", Num 8); ("XCHAL_DCACHE_SETWIDTH", Num 8);
  ("XCHAL_ICACHE_WAYS", Num 2); ("XCHAL_DCACHE_WAYS", Num 2);
  ("XCHAL_ICACHE_LINE_LOCKABLE", Num 0); ("XCHAL_DCACHE_LINE_LOCKABLE", Num 0);
  ("XCHAL_ICACHE_ECC_PARITY", Num 0); ("XCHAL_DCACHE_ECC_PARITY", Num 0);
  ("XCHAL_ICACHE_ACCESS_SIZE", Num 8); ("XCHAL_DCACHE_ACCESS_SIZE", Num 8);
  ("XCHAL_DCACHE_BANKS", Num 1); ("XCHAL_CA_BITS", Num 4);
  ("XCHAL_NUM_INSTROM", Num 0); ("XCHAL_NUM_INSTRAM", Num 0);
  ("XCHAL_NUM_DATAROM", Num 0); ("XCHAL_NUM_DATARAM", Num 0);
  ("XCHAL_NUM_URAM", Num 0); ("XCHAL_NUM_XLMI", Num 0);
  ("XCHAL_HAVE_IMEM_LOADSTORE", Num 1); ("XCHAL_HAVE_INTERRUPTS", Num 1);
  ("XCHAL_HAVE_HIGHPRI_INTERRUPTS", Num 1); ("XCHAL_HAVE_NMI", Num 0);
  ("XCHAL_HAVE_CCOUNT", Num 1); ("XCHAL_NUM_TIMERS", Num 2);
  ("XCHAL_NUM_INTERRUPTS", Num 12); ("XCHAL_NUM_INTERRUPTS_LOG2", Num 4);
  ("XCHAL_NUM_EXTINTERRUPTS", Num 9); ("XCHAL_NUM_INTLEVELS", Num 2);
  ("XCHAL_EXCM_LEVEL", Num 1); ("XCHAL_INTLEVEL1_MASK", Num 0x00000FFF);
  ("XCHAL_INTLEVEL2_MASK", Num 0x00000000); ("XCHAL_INTLEVEL3_MASK", Num 0x00000000);
  ("XCHAL_INTLEVEL4_MASK", Num 0x00000000); ("XCHAL_INTLEVEL5_MASK", Num 0x00000000);
  ("XCHAL_INTLEVEL6_MASK", Num 0x00000000); ("XCHAL_INTLEVEL7_MASK", Num 0x00000000);
  ("XCHAL_INTLEVEL1_ANDBELOW_MASK", Num 0x00000FFF); ("XCHAL_INTLEVEL2_ANDBELOW_MASK", Num 0x00000FFF);
  ("XCHAL_INTLEVEL3_ANDBELOW_MASK", Num 0x00000FFF); ("XCHAL_INTLEVEL4_ANDBELOW_MASK", Num 0x00000FFF);
  ("XCHAL_INTLEVEL5_ANDBELOW_MASK", Num 0x00000FFF); ("XCHAL_INTLEVEL6_ANDBELOW_MASK", Num 0x00000FFF);
  ("XCHAL_INTLEVEL7_ANDBELOW_MASK", Num 0x00000FFF); ("XCHAL_INT0_LEVEL", Num 1);
  ("XCHAL_INT1_LEVEL", Num 1); ("XCHAL_INT2_LEVEL", Num 1);
  ("XCHAL_INT3_LEVEL", Num 1); ("XCHAL_INT4_LEVEL", Num 1);
  ("XCHAL_INT5_LEVEL", Num 1); ("XCHAL_INT6_LEVEL", Num 1);
  ("XCHAL_INT7_LEVEL", Num 1); ("XCHAL_INT8_LEVEL", Num 1);
  ("XCHAL_INT9_LEVEL", Num 1); ("XCHAL_INT10_LEVEL", Num 1);
  ("XCHAL_INT11_LEVEL", Num 1); ("XCHAL_DEBUGLEVEL", Num 2);
  ("XCHAL_HAVE_DEBUG_EXTERN_INT", Num 1); ("XCHAL_INT0_TYPE", Name "XTHAL_INTTYPE_EXTERN_LEVEL");
  ("XCHAL_INT1_TYPE", Name "XTHAL_INTTYPE_EXTERN_LEVEL"); ("XCHAL_INT2_TYPE", Name "XTHAL_INTTYPE_EXTERN_EDGE");
  ("XCHAL_INT3_TYPE", Name "XTHAL_INTTYPE_EXTERN_LEVEL"); ("XCHAL_INT4_TYPE", Name "XTHAL_INTTYPE_EXTERN_LEVEL");
  ("XCHAL_INT5_TYPE", Name "XTHAL_INTTYPE_EXTERN_LEVEL"); ("XCHAL_INT6_TYPE", Name "XTHAL_INTTYPE_TIMER");
  ("XCHAL_INT7_TYPE", Name "XTHAL_INTTYPE_SOFTWARE"); ("XCHAL_INT8_TYPE", Name "XTHAL_INTTYPE_TIMER");
  ("XCHAL_INT9_TYPE", Name "XTHAL_INTTYPE_EXTERN_LEVEL"); ("XCHAL_INT10_TYPE", Name "XTHAL_INTTYPE_EXTERN_LEVEL");
  ("XCHAL_INT11_TYPE", Name "XTHAL_INTTYPE_EXTERN_LEVEL"); ("XCHAL_INTTYPE_MASK_UNCONFIGURED", Num 0xFFFFF000);
  ("XCHAL_INTTYPE_MASK_SOFTWARE", Num 0x00000080); ("XCHAL_INTTYPE_MASK_EXTERN_EDGE", Num 0x00000004);
  ("XCHAL_INTTYPE_MASK_EXTERN_LEVEL", Num 0x00000E3B); ("XCHAL_INTTYPE_MASK_TIMER", Num 0x00000140);
  ("XCHAL_INTTYPE_MASK_NMI", Num 0x00000000); ("XCHAL_INTTYPE_MASK_WRITE_ERROR", Num 0x00000000);
  ("XCHAL_INTTYPE_MASK_PROFILING", Num 0x00000000); ("XCHAL_TIMER0_INTERRUPT", Num 6);
  ("XCHAL_TIMER1_INTERRUPT", Num 8); ("XCHAL_TIMER2_INTERRUPT", Name "XTHAL_TIMER_UNCONFIGURED");
  ("XCHAL_TIMER3_INTERRUPT", Name "XTHAL_TIMER_UNCONFIGURED")].

Definition test_mmuhifi_c3_core_isa_3 : list (string * mexpr) := [
  ("XCHAL_EXTINT0_NUM", Num 0); ("XCHAL_EXTINT1_NUM", Num 1);
  ("XCHAL_EXTINT2_NUM", Num 2); ("XCHAL_EXTINT3_NUM", Num 3);
  ("XCHAL_EXTINT4_NUM", Num 4); ("XCHAL_EXTINT5_NUM", Num 5);
  ("XCHAL_EXTINT6_NUM", Num 9); ("XCHAL_EXTINT7_NUM", Num 10);
  ("XCHAL_EXTINT8_NUM", Num 11); ("XCHAL_INT0_EXTNUM", Num 0);
  ("XCHAL_INT1_EXTNUM", Num 1); ("XCHAL_INT2_EXTNUM", Num 2);
  ("XCHAL_INT3_EXTNUM", Num 3); ("XCHAL_INT4_EXTNUM", Num 4);
  ("XCHAL_INT5_EXTNUM", Num 5); ("XCHAL_INT9_EXTNUM", Num 6);
  ("XCHAL_INT10_EXTNUM", Num 7); ("XCHAL_INT11_EXTNUM", Num 8);
  ("XCHAL_XEA_VERSION", Num 2); ("XCHAL_HAVE_XEA1", Num 0);
  ("XCHAL_HAVE_XEA2", Num 1); ("XCHAL_HAVE_XEAX", Num 0);
  ("XCHAL_HAVE_EXCEPTIONS", Num 1); ("XCHAL_HAVE_HALT", Num 0);
  ("XCHAL_HAVE_BOOTLOADER", Num 0); ("XCHAL_HAVE_MEM_ECC_PARITY", Num 0);
  ("XCHAL_HAVE_VECTOR_SELECT", Num 1); ("XCHAL_HAVE_VECBASE", Num 1);
  ("XCHAL_VECBASE_RESET_VADDR", Num 0xD0000000); ("XCHAL_VECBASE_RESET_PADDR", Num 0x00000000);
  ("XCHAL_RESET_VECBASE_OVERLAP", Num 0); ("XCHAL_RESET_VECTOR0_VADDR", Num 0xFE000000);
  ("XCHAL_RESET_VECTOR0_PADDR", Num 0xFE000000); ("XCHAL_RESET_VECTOR1_VADDR", Num 0xD8000500);
  ("XCHAL_RESET_VECTOR1_PADDR", Num 0x00000500); ("XCHAL_RESET_VECTOR_VADDR", Num 0xFE000000);
  ("XCHAL_RESET_VECTOR_PADDR", Num 0xFE000000); ("XCHAL_USER_VECOFS", Num 0x00000340);
  ("XCHAL_USER_VECTOR_VADDR", Num 0xD0000340); ("XCHAL_USER_VECTOR_PADDR", Num 0x00000340);
  ("XCHAL_KERNEL_VECOFS", Num 0x00000300); ("XCHAL_KERNEL_VECTOR_VADDR", Num 0xD0000300);
  ("XCHAL_KERNEL_VECTOR_PADDR", Num 0x00000300); ("XCHAL_DOUBLEEXC_VECOFS", Num 0x000003C0);
  ("XCHAL_DOUBLEEXC_VECTOR_VADDR", Num 0xD00003C0); ("XCHAL_DOUBLEEXC_VECTOR_PADDR", Num 0x000003C0);
  ("XCHAL_WINDOW_OF4_VECOFS", Num 0x00000000); ("XCHAL_WINDOW_UF4_VECOFS", Num 0x00000040);
  ("XCHAL_WINDOW_OF8_VECOFS", Num 0x00000080); ("XCHAL_WINDOW_UF8_VECOFS", Num 0x000000C0);
  ("XCHAL_WINDOW_OF12_VECOFS", Num 0x00000100); ("XCHAL_WINDOW_UF12_VECOFS", Num 0x00000140);
  ("XCHAL_WINDOW_VECTORS_VADDR", Num 0xD0000000); ("XCHAL_WINDOW_VECTORS_PADDR", Num 0x00000000);
  ("XCHAL_INTLEVEL2_VECOFS", Num 0x00000280); ("XCHAL_INTLEVEL2_VECTOR_VADDR", Num 0xD0000280);
  ("XCHAL_INTLEVEL2_VECTOR_PADDR", Num 0x00000280); ("XCHAL_DEBUG_VECOFS", Name "XCHAL_INTLEVEL2_VECOFS");
  ("XCHAL_DEBUG_VECTOR_VADDR", Name "XCHAL_INTLEVEL2_VECTOR_VADDR"); ("XCHAL_DEBUG_VECTOR_PADDR", Name "XCHAL_INTLEVEL2_VECTOR_PADDR");
  ("XCHAL_HAVE_DEBUG_ERI", Num 0); ("XCHAL_HAVE_DEBUG_APB", Num 0);
  ("XCHAL_HAVE_DEBUG_JTAG", Num 0); ("XCHAL_HAVE_OCD", Num 1);
  ("XCHAL_NUM_IBREAK", Num 0); ("XCHAL_NUM_DBREAK", Num 0);
  ("XCHAL_HAVE_OCD_DIR_ARRAY", Num 0); ("XCHAL_HAVE_OCD_LS32DDR", Num 0);
  ("XCHAL_HAVE_TRAX", Num 0); ("XCHAL_TRAX_MEM_SIZE", Num 0);
  ("XCHAL_TRAX_MEM_SHAREABLE", Num 0); ("XCHAL_TRAX_ATB_WIDTH", Num 0);
  ("XCHAL_TRAX_TIME_WIDTH", Num 0); ("XCHAL_NUM_PERF_COUNTERS", Num 0);
  ("XCHAL_HAVE_TLBS", Num 1); ("XCHAL_HAVE_SPANNING_WAY", Num 0);
  ("XCHAL_HAVE_IDENTITY_MAP", Num 0); ("XCHAL_HAVE_CACHEATTR", Num 0);
  ("XCHAL_HAVE_MIMIC_CACHEATTR", Num 0); ("XCHAL_HAVE_XLT_CACHEATTR", Num 0);
  ("XCHAL_HAVE_PTP_MMU", Num 1); ("XCHAL_ITLB_ARF_ENTRIES_LOG2", Num 2);
  ("XCHAL_DTLB_ARF_ENTRIES_LOG2", Num 2); ("XCHAL_MMU_ASID_BITS", Num 8);
  ("XCHAL_MMU_RINGS", Num 4); ("XCHAL_MMU_RING_BITS", Num 2)].

Definition test_mmuhifi_c3_core_isa : list (string * mexpr) :=
  test_mmuhifi_c3_core_isa_1 ++ test_mmuhifi_c3_core_isa_2 ++ test_mmuhifi_c3_core_isa_3.
