(* ===== verification/Cores.v ===== *)
(** * The cores

    Every core the target ships, expanded from its header, is a configuration the
    theorems of the CPU components apply to; its redundant interrupt tables agree
    with each other and its memories do not overlap. *)

From stdpp Require Import strings gmap.
From S2P Require Import Prelude Cpu Interrupt Exception Window Tlb Overlay CoreIsaEsp CoreIsaDiamond CoreIsaTest.

#[local] Open Scope mach_scope.
#[local] Open Scope string_scope.
#[local] Open Scope list_scope.
#[local] Open Scope Z_scope.

(** The cores of [cores.list]. *)
Definition cores : list (string * list (string * mexpr)) :=
  [("dc232b", dc232b_core_isa); ("dc233c", dc233c_core_isa); ("de212", de212_core_isa); ("de233_fpu", de233_fpu_core_isa);
   ("dsp3400", dsp3400_core_isa); ("fsf", fsf_core_isa); ("lx106", lx106_core_isa);
   ("sample_controller", sample_controller_core_isa); ("test_kc705_be", test_kc705_be_core_isa);
   ("test_mmuhifi_c3", test_mmuhifi_c3_core_isa); ("esp32", esp32_core_isa); ("esp32s3", esp32s3_core_isa)].

(** The cores an emulator of the given byte order registers. *)
Definition REGISTER_CORE (target_big_endian : bool) (c : core) : bool := Bool.eqb target_big_endian (core_big_endian c).

(** ** Memories of a machine ([xtensa_memory.c], [sim.c]) *)

Definition xtensa_create_memory_regions (m : XtensaMemory) : list (Z * Z) := take (Z.to_nat (mem_num m)) (location m).

(** The memories of the sim machine; the size of the last one is that of the RAM. *)
Definition sim_memory_regions (c : core) (ram_size : Z) : list (Z * Z) :=
  foldr (fun m acc => xtensa_create_memory_regions m ++ acc) [] (take 5 (core_memories c)) ++
  ((fun l => (l.1, ram_size)) <$> xtensa_create_memory_regions (nth 5 (core_memories c) (mkMemory 0 []))).

Definition overlap (r r' : Z * Z) : bool := (r.1 <? r'.1 + r'.2) && (r'.1 <? r.1 + r.2).
Fixpoint disjoint_regions (l : list (Z * Z)) : bool :=
  match l with [] => true | r :: rest => forallb (fun r' => negb (overlap r r')) rest && disjoint_regions rest end.

(** ** Consistency of a configuration *)

Definition int_level (c : XtensaConfig) (i : Z) : Z := (nth (Z.to_nat i) (interrupt c) (0, INTTYPE_LEVEL)).1.
Definition int_type (c : XtensaConfig) (i : Z) : interrupt_type := (nth (Z.to_nat i) (interrupt c) (0, INTTYPE_LEVEL)).2.

(** What the code relies on beyond the classes of the components: indices stay inside
    the arrays of the CPU state, the mask of a level holds exactly the interrupts of
    that level, the mask of a type exactly those of the type, and the interrupts of the
    timers and of the input pins are of such types. *)
Record consistent (c : XtensaConfig) : Prop := {
  con_arrays : 0 <= nareg c <= 64 /\ 0 <= ninterrupt c <= 32 /\ 0 <= nlevel c <= 7 /\ 0 <= nccompare c <= 3 /\
    0 <= nextint c <= 32 /\ 0 <= nibreak c <= 2 /\ 0 <= ndbreak c <= 2;
  con_levels : forall i l, 0 <= i < ninterrupt c -> 1 <= l <= 7 ->
    Z.testbit (nthZ (level_mask c) l) i = (int_level c i =? l);
  con_level_range : forall i, 0 <= i < ninterrupt c -> 1 <= int_level c i <= nlevel c;
  con_types : forall i t, 0 <= i < ninterrupt c -> t ∈ [INTTYPE_EDGE; INTTYPE_NMI; INTTYPE_SOFTWARE] ->
    Z.testbit (inttype_mask c t) i = bool_decide (int_type c i = t);
  con_timers : forall k, 0 <= k < nccompare c ->
    0 <= nthZ (timerint c) k < ninterrupt c /\ int_type c (nthZ (timerint c) k) = INTTYPE_TIMER;
  con_extints : forall k, 0 <= k < nextint c ->
    0 <= nthZ (extint c) k < ninterrupt c /\ int_type c (nthZ (extint c) k) ∈ [INTTYPE_LEVEL; INTTYPE_EDGE; INTTYPE_NMI];
  con_debug : 1 <= debug_level c <= nlevel c
}.

(** ** The checks *)

Definition each_below (n : Z) (p : Z -> bool) : bool := forallb p (seqZ 0 n).
Definition between (lo x hi : Z) : bool := (lo <=? x) && (x <=? hi).

Definition consistent_b (c : XtensaConfig) : bool :=
  (between 0 (nareg c) 64 && between 0 (ninterrupt c) 32 && between 0 (nlevel c) 7 && between 0 (nccompare c) 3 &&
   between 0 (nextint c) 32 && between 0 (nibreak c) 2 && between 0 (ndbreak c) 2) &&
  each_below (ninterrupt c) (fun i => each_below 8 (fun l =>
    (l =? 0) || Bool.eqb (Z.testbit (nthZ (level_mask c) l) i) (int_level c i =? l))) &&
  each_below (ninterrupt c) (fun i => between 1 (int_level c i) (nlevel c)) &&
  each_below (ninterrupt c) (fun i => forallb (fun t =>
    Bool.eqb (Z.testbit (inttype_mask c t) i) (bool_decide (int_type c i = t))) [INTTYPE_EDGE; INTTYPE_NMI; INTTYPE_SOFTWARE]) &&
  each_below (nccompare c) (fun k => between 0 (nthZ (timerint c) k) (ninterrupt c - 1) &&
    bool_decide (int_type c (nthZ (timerint c) k) = INTTYPE_TIMER)) &&
  each_below (nextint c) (fun k => between 0 (nthZ (extint c) k) (ninterrupt c - 1) &&
    bool_decide (int_type c (nthZ (extint c) k) ∈ [INTTYPE_LEVEL; INTTYPE_EDGE; INTTYPE_NMI])) &&
  between 1 (debug_level c) (nlevel c).

Definition interrupts_b (c : XtensaConfig) : bool :=
  between 1 (excm_level c) 15 && between 0 (nlevel c) (Z.of_nat (length (interrupt_vector c)) - 1) &&
  (Z.of_nat (length (interrupt_vector c)) <=? 8) && (nlevel c <=? nmi_level c) && (1 <? nmi_level c) &&
  each_below (nmi_level c) (fun l => (nlevel c <? l) || (level_sources c l &&& inttype_mask c INTTYPE_NMI =? 0)).

#[export] Instance xtensa_tlb_eq_dec : EqDecision xtensa_tlb.
Proof. solve_decision. Defined.

Definition mmu_tlb_b (ways : Z) (t : xtensa_tlb) : bool :=
  existsb (fun refill => existsb (fun w => bool_decide (t = tlb_template ways refill w)) [false; true]) [4; 8].
Definition tlb_b (c : XtensaConfig) : bool :=
  if xtensa_option_enabled c OPTION_MMU then mmu_tlb_b 7 (cfg_itlb c) && mmu_tlb_b 10 (cfg_dtlb c)
  else forallb (fun t => (nways t =? 1) && (nthZ (way_size t) 0 =? 8)) [cfg_itlb c; cfg_dtlb c].
Definition nareg_b (c : XtensaConfig) : bool := existsb (Z.eqb (nareg c)) [16; 32; 64].

Definition core_b (c : core) : bool :=
  interrupts_b (core_config c) && tlb_b (core_config c) && nareg_b (core_config c) && consistent_b (core_config c) &&
  disjoint_regions (sim_memory_regions c (nth 0 (location (nth 5 (core_memories c) (mkMemory 0 []))) (0, 0)).2).

Lemma each_below_spec n p : each_below n p = true -> forall i, 0 <= i < n -> p i = true.
Proof.
  unfold each_below. rewrite forallb_forall. intros H i Hi. apply H. rewrite <- list_elem_of_In. apply elem_of_seqZ. lia.
Qed.
Lemma between_spec lo x hi : between lo x hi = true <-> lo <= x <= hi.
Proof. unfold between. rewrite andb_true_iff, !Z.leb_le. lia. Qed.

Ltac split_checks :=
  repeat match goal with
  | H : _ && _ = true |- _ => apply andb_true_iff in H; destruct H
  | H : between _ _ _ = true |- _ => apply between_spec in H
  | H : bool_decide _ = true |- _ => apply bool_decide_eq_true in H
  end.

Lemma consistent_ok c : consistent_b c = true -> consistent c.
Proof.
  intros H. unfold consistent_b in H. rewrite !andb_true_iff in H.
  destruct H as [[[[[[Harr Hlev] Hrange] Htypes] Htimers] Hext] Hdebug].
  apply between_spec in Hdebug. split; [ | | | | | |lia].
  - rewrite !between_spec in Harr. lia.
  - intros i l Hi Hl. pose proof (each_below_spec _ _ (each_below_spec _ _ Hlev i Hi) l ltac:(lia)) as E.
    apply orb_true_iff in E as [E|E]; [lia|]. by apply Bool.eqb_prop.
  - intros i Hi. pose proof (each_below_spec _ _ Hrange i Hi). cbv beta in *. by split_checks.
  - intros i t Hi Ht. pose proof (each_below_spec _ _ Htypes i Hi) as E. cbv beta in E. rewrite forallb_forall in E.
    apply Bool.eqb_prop, E. by rewrite <- list_elem_of_In.
  - intros k Hk. pose proof (each_below_spec _ _ Htimers k Hk). cbv beta in *. split_checks. split; [lia|done].
  - intros k Hk. pose proof (each_below_spec _ _ Hext k Hk). cbv beta in *. split_checks. split; [lia|done].
Qed.

Lemma interrupts_ok c : interrupts_b c = true -> WfInterrupts c.
Proof.
  intros H. unfold interrupts_b in H. rewrite !andb_true_iff, !between_spec in H.
  destruct H as [[[[[Hexcm Hnl] Hvec] Htop] Hnmi] Hmask]. split; try lia.
  intros l Hl Hn. pose proof (each_below_spec _ _ Hmask l Hl) as E. apply orb_true_iff in E as [E|E]; lia.
Qed.

Lemma mmu_tlb_ok ways t : mmu_tlb_b ways t = true ->
  exists refill w, (refill = 4 \/ refill = 8) /\ t = tlb_template ways refill w.
Proof.
  unfold mmu_tlb_b. rewrite existsb_exists. intros (refill & Hr & E). apply existsb_exists in E as (w & _ & E).
  exists refill, w. split_checks. split; [|done]. destruct Hr as [<-|[<-|[]]]; auto.
Qed.

Lemma tlb_ok c : tlb_b c = true -> WfTlb c.
Proof.
  unfold tlb_b. intros H. split; intros E d; rewrite E in H.
  - apply andb_true_iff in H as [Hi Hd]. destruct d; by apply mmu_tlb_ok.
  - rewrite forallb_forall in H. specialize (H (tlb_config c d)).
    rewrite andb_true_iff, !Z.eqb_eq in H. apply H. destruct d; simpl; auto.
Qed.

Lemma nareg_ok c : nareg_b c = true -> WfNareg c.
Proof.
  unfold nareg_b. rewrite existsb_exists. intros (n & Hn & E%Z.eqb_eq). split. rewrite E.
  destruct Hn as [<-|[<-|[<-|[]]]]; [by exists 4|by exists 5|by exists 6].
Qed.

(** ** The cores are well formed *)

Record well_formed_core (c : core) : Prop := {
  wfc_interrupts : WfInterrupts (core_config c);
  wfc_tlb : WfTlb (core_config c);
  wfc_nareg : WfNareg (core_config c);
  wfc_consistent : consistent (core_config c)
}.

Lemma core_ok c : core_b c = true -> well_formed_core c.
Proof.
  unfold core_b. intros H. split_checks.
  split; auto using interrupts_ok, tlb_ok, nareg_ok, consistent_ok.
Qed.

Lemma cores_check :
  forallb (fun p : string * list (string * mexpr) => match overlay p.2 with Some c => core_b c | None => false end) cores
  = true.
Proof. vm_compute. reflexivity. Qed.

(** C38: Every core of the target expands to a configuration: all macros it needs are
    defined.  The configuration satisfies what the theorems on interrupts, TLBs and
    register windows ask of one, its tables of interrupt levels and types agree with
    each other, its numbers stay inside the arrays of the CPU state, and the memories
    of a machine with the default amount of RAM do not overlap. *)
Theorem cores_well_formed (name : string) (core_isa : list (string * mexpr)) :
  (name, core_isa) ∈ cores ->
  exists c, overlay core_isa = Some c /\ well_formed_core c /\
    disjoint_regions (sim_memory_regions c (nth 0 (location (nth 5 (core_memories c) (mkMemory 0 []))) (0, 0)).2) = true.
Proof.
  intros Hin. pose proof cores_check as H. rewrite forallb_forall in H. apply list_elem_of_In in Hin.
  specialize (H _ Hin). cbn [snd] in H. destruct (overlay core_isa) as [c|]; [|done].
  exists c. split; [done|]. split; [by apply core_ok|]. unfold core_b in H. by split_checks.
Qed.

Lemma cores_well_formed_witness :
  exists c, overlay test_kc705_be_core_isa = Some c /\ well_formed_core c /\
    disjoint_regions (sim_memory_regions c (nth 0 (location (nth 5 (core_memories c) (mkMemory 0 []))) (0, 0)).2) = true.
Proof.
  apply (cores_well_formed "test_kc705_be").
  apply list_elem_of_In. unfold cores. do 8 right. left. reflexivity.
Defined.

(** The configuration of the ESP32-S3 used throughout is the expansion of the macros
    of its header, and a little-endian emulator registers the core. *)
Theorem esp32s3_config_expanded :
  exists c, overlay esp32s3_core_isa = Some c /\ core_config c = esp32s3_config /\ REGISTER_CORE false c = true.
Proof.
  assert (H : match overlay esp32s3_core_isa with
              | Some c => core_config c = esp32s3_config /\ REGISTER_CORE false c = true
              | None => False
              end) by (vm_compute; split; reflexivity).
  destruct (overlay esp32s3_core_isa) as [c|]; [|done]. by exists c.
Qed.

(** The configuration of the ESP32. *)
Definition esp32_config : XtensaConfig :=
  match overlay esp32_core_isa with Some c => core_config c | None => esp32s3_config end.

#[export] Instance esp32_wf_interrupts : WfInterrupts esp32_config.
Proof. apply interrupts_ok. vm_compute. reflexivity. Qed.
#[export] Instance esp32_wf_tlb : WfTlb esp32_config.
Proof. apply tlb_ok. vm_compute. reflexivity. Qed.
#[export] Instance esp32_wf_nareg : WfNareg esp32_config.
Proof. apply nareg_ok. vm_compute. reflexivity. Qed.
