(* ===== verification/WideArith.v ===== *)
(** * Wide arithmetic ([include/qemu/host-utils.h], [include/fpu/softfloat-macros.h])

    Numbers of 128 to 256 bits as words of 64 bits: carries, products, shifts that
    keep a sticky bit, the scaling of clock values and division. *)

From S2P Require Import Prelude.

#[local] Open Scope mach_scope.

(** [(int64_t) x] *)
Definition sint64 (x : Z) : Z := if x <? 2 ^ 63 then x else x - 2 ^ 64.

(** ** Carries and products *)

Definition uadd64_overflow (x y : Z) : bool * Z := (2 ^ 64 <=? x + y, u64 (x + y)).
Definition usub64_overflow (x y : Z) : bool * Z := (x <? y, u64 (x - y)).

Definition uadd64_carry (x y : Z) (pcarry : bool) : Z * bool :=
  let (c, x) := uadd64_overflow x (b2z pcarry) in
  let (c', x) := uadd64_overflow x y in
  (x, c || c').
Definition usub64_borrow (x y : Z) (pborrow : bool) : Z * bool :=
  let (b, x) := usub64_overflow x (b2z pborrow) in
  let (b', x) := usub64_overflow x y in
  (x, b || b').

(** [*phigh] and [*plow]. *)
Definition mulu64 (a b : Z) : Z * Z := ((a * b) >>> 64, u64 (a * b)).
Definition mul64To128 : Z -> Z -> Z * Z := mulu64.

Definition add128 (a0 a1 b0 b1 : Z) : Z * Z :=
  let (z1, c) := uadd64_carry a1 b1 false in
  let (z0, _) := uadd64_carry a0 b0 c in
  (z0, z1).
Definition sub128 (a0 a1 b0 b1 : Z) : Z * Z :=
  let (z1, c) := usub64_borrow a1 b1 false in
  let (z0, _) := usub64_borrow a0 b0 c in
  (z0, z1).
Definition add192 (a0 a1 a2 b0 b1 b2 : Z) : Z * Z * Z :=
  let (z2, c) := uadd64_carry a2 b2 false in
  let (z1, c) := uadd64_carry a1 b1 c in
  let (z0, _) := uadd64_carry a0 b0 c in
  (z0, z1, z2).
Definition sub192 (a0 a1 a2 b0 b1 b2 : Z) : Z * Z * Z :=
  let (z2, c) := usub64_borrow a2 b2 false in
  let (z1, c) := usub64_borrow a1 b1 c in
  let (z0, _) := usub64_borrow a0 b0 c in
  (z0, z1, z2).

Definition mul128By64To192 (a0 a1 b : Z) : Z * Z * Z :=
  let (m1, z2) := mul64To128 a1 b in
  let (z0, z1) := mul64To128 a0 b in
  let (z0, z1) := add128 z0 z1 0 m1 in
  (z0, z1, z2).
Definition mul128To256 (a0 a1 b0 b1 : Z) : Z * Z * Z * Z :=
  let (m1, m2) := mul64To128 a1 b0 in
  let (n1, n2) := mul64To128 a0 b1 in
  let (z2, z3) := mul64To128 a1 b1 in
  let (z0, z1) := mul64To128 a0 b0 in
  let '(m0, m1, m2) := add192 0 m1 m2 0 n1 n2 in
  let '(z0, z1, z2) := add192 m0 m1 m2 z0 z1 z2 in
  (z0, z1, z2, z3).

(** ** Shifts *)

Definition negCount (count : Z) : Z := (- count) &&& 63.

Definition shift32RightJamming (a count : Z) : Z :=
  if count =? 0 then a
  else if count <? 32 then (a >>> count) ||| b2z (truthy (lsl32 a ((- count) &&& 31)))
  else b2z (truthy a).
Definition shift64RightJamming (a count : Z) : Z :=
  if count =? 0 then a
  else if count <? 64 then (a >>> count) ||| b2z (truthy (lsl64 a ((- count) &&& 63)))
  else b2z (truthy a).

Definition shift64ExtraRightJamming (a0 a1 count : Z) : Z * Z :=
  if count =? 0 then (a0, a1)
  else if count <? 64 then (a0 >>> count, lsl64 a0 (negCount count) ||| b2z (truthy a1))
  else if count =? 64 then (0, a0 ||| b2z (truthy a1))
  else (0, b2z (truthy (a0 ||| a1))).

Definition shift128Right (a0 a1 count : Z) : Z * Z :=
  if count =? 0 then (a0, a1)
  else if count <? 64 then (a0 >>> count, lsl64 a0 (negCount count) ||| (a1 >>> count))
  else (0, if count <? 128 then a0 >>> (count &&& 63) else 0).

Definition shift128RightJamming (a0 a1 count : Z) : Z * Z :=
  if count =? 0 then (a0, a1)
  else if count <? 64 then
    (a0 >>> count, lsl64 a0 (negCount count) ||| (a1 >>> count) ||| b2z (truthy (lsl64 a1 (negCount count))))
  else if count =? 64 then (0, a0 ||| b2z (truthy a1))
  else if count <? 128 then (0, (a0 >>> (count &&& 63)) ||| b2z (truthy (lsl64 a0 (negCount count) ||| a1)))
  else (0, b2z (truthy (a0 ||| a1))).

Definition shortShift128Left (a0 a1 count : Z) : Z * Z :=
  (if count =? 0 then a0 else lsl64 a0 count ||| (a1 >>> negCount count), lsl64 a1 count).
Definition shift128Left (a0 a1 count : Z) : Z * Z :=
  if count <? 64 then (if count =? 0 then a0 else lsl64 a0 count ||| (a1 >>> negCount count), lsl64 a1 count)
  else (lsl64 a1 (count - 64), 0).
Definition shortShift192Left (a0 a1 a2 count : Z) : Z * Z * Z :=
  if 0 <? count then
    (lsl64 a0 count ||| (a1 >>> negCount count), lsl64 a1 count ||| (a2 >>> negCount count), lsl64 a2 count)
  else (lsl64 a0 count, lsl64 a1 count, lsl64 a2 count).

(** ** Comparison *)

Definition eq128 (a0 a1 b0 b1 : Z) : bool := (a0 =? b0) && (a1 =? b1).
Definition le128 (a0 a1 b0 b1 : Z) : bool := (a0 <? b0) || (a0 =? b0) && (a1 <=? b1).
Definition lt128 (a0 a1 b0 b1 : Z) : bool := (a0 <? b0) || (a0 =? b0) && (a1 <? b1).
Definition ne128 (a0 a1 b0 b1 : Z) : bool := negb (a0 =? b0) || negb (a1 =? b1).

(** ** Scaling *)

(** With a 128-bit type of the compiler. *)
Definition muldiv64_int128 (a b c : Z) : Z := u64 (a * b / c).
Definition muldiv64_round_up_int128 (a b c : Z) : Z := u64 ((a * b + c - 1) / c).

(** Without. *)
Definition muldiv64_rounding (a b c : Z) (round_up : bool) : Z :=
  let rl := u64 (u32 a * b) in
  let rl := if round_up then u64 (rl + u32 (c - 1)) else rl in
  let rh := u64 ((a >>> 32) * b) in
  let rh := u64 (rh + (rl >>> 32)) in
  lsl64 (u32 (rh / c)) 32 ||| u32 (u64 (lsl64 (rh mod c) 32 + (rl &&& 0xffffffff)) / c).

(** ** Division *)

(** The digits of the quotient: the first estimate is corrected at most twice. *)
Definition qrnnd_digit (n1 nlow d : Z) : Z * Z :=
  let d0 := u32 d in let d1 := d >>> 32 in
  let r := n1 mod d1 in let q := n1 / d1 in
  let m := u64 (q * d0) in
  let r := lsl64 r 32 ||| nlow in
  let '(q, r) :=
    if r <? m then
      let q := u64 (q - 1) in let r := u64 (r + d) in
      if d <=? r then if r <? m then (u64 (q - 1), u64 (r + d)) else (q, r) else (q, r)
    else (q, r) in
  (q, u64 (r - m)).
(** The quotient and the remainder [*r]. *)
Definition udiv_qrnnd (n1 n0 d : Z) : Z * Z :=
  let (q1, r1) := qrnnd_digit n1 (n0 >>> 32) d in
  let (q0, r0) := qrnnd_digit r1 (u32 n0) d in
  (lsl64 q1 32 ||| q0, r0).

(** The loop of [estimateDiv128To64]; [None] when the fuel is not enough. *)
Fixpoint estimate_loop (fuel : nat) (b z rem0 rem1 : Z) : option (Z * Z * Z) :=
  if sint64 rem0 <? 0 then
    match fuel with
    | O => None
    | S fuel =>
        let (rem0, rem1) := add128 rem0 rem1 (b >>> 32) (lsl64 b 32) in
        estimate_loop fuel b (u64 (z - 0x100000000)) rem0 rem1
    end
  else Some (z, rem0, rem1).
Definition estimateDiv128To64 (a0 a1 b : Z) : option Z :=
  if b <=? a0 then Some 0xffffffffffffffff
  else
    let b0 := b >>> 32 in
    let z := if lsl64 b0 32 <=? a0 then 0xffffffff00000000 else lsl64 (a0 / b0) 32 in
    let (term0, term1) := mul64To128 b z in
    let (rem0, rem1) := sub128 a0 a1 term0 term1 in
    '(z, rem0, rem1) ← estimate_loop 2 b z rem0 rem1;
    let rem0 := lsl64 rem0 32 ||| (rem1 >>> 32) in
    Some (z ||| (if lsl64 b0 32 <=? rem0 then 0xffffffff else rem0 / b0)).

(** ** Numbers in words *)

(** The number with the given high part and low word. *)
Definition cat (hi lo : Z) : Z := hi * 2 ^ 64 + lo.

Lemma add_overflow_spec x y : in64 x -> in64 y ->
  let (c, z) := uadd64_overflow x y in in64 z /\ z + b2z c * 2 ^ 64 = x + y.
Proof.
  unfold in64, uadd64_overflow, u64. intros Hx Hy. destruct (Z.leb_spec (2 ^ 64) (x + y)); cbn [b2z].
  - rewrite <- (Z_mod_plus_full (x + y) (-1)), Z.mod_small by lia. lia.
  - rewrite Z.mod_small by lia. lia.
Qed.
Lemma sub_overflow_spec x y : in64 x -> in64 y ->
  let (c, z) := usub64_overflow x y in in64 z /\ z - b2z c * 2 ^ 64 = x - y.
Proof.
  unfold in64, usub64_overflow, u64. intros Hx Hy. destruct (Z.ltb_spec x y); cbn [b2z].
  - rewrite <- (Z_mod_plus_full (x - y) 1), Z.mod_small by lia. lia.
  - rewrite Z.mod_small by lia. lia.
Qed.

Lemma b2z_in64 b : in64 (b2z b).
Proof. by destruct b. Qed.
#[local] Hint Resolve b2z_in64 : core.

Lemma carry_spec x y c : in64 x -> in64 y ->
  let (z, c') := uadd64_carry x y c in in64 z /\ z + b2z c' * 2 ^ 64 = x + y + b2z c.
Proof.
  intros Hx Hy. unfold uadd64_carry. pose proof (add_overflow_spec x (b2z c) Hx (b2z_in64 c)) as E1.
  destruct (uadd64_overflow x (b2z c)) as [c1 z1]. destruct E1 as [Hz1 E1].
  pose proof (add_overflow_spec z1 y Hz1 Hy) as E2. destruct (uadd64_overflow z1 y) as [c2 z2].
  destruct E2 as [Hz2 E2]. split; [done|]. unfold in64 in *. destruct c1, c2, c; cbn [orb b2z] in *; lia.
Qed.
Lemma borrow_spec x y c : in64 x -> in64 y ->
  let (z, c') := usub64_borrow x y c in in64 z /\ z - b2z c' * 2 ^ 64 = x - y - b2z c.
Proof.
  intros Hx Hy. unfold usub64_borrow. pose proof (sub_overflow_spec x (b2z c) Hx (b2z_in64 c)) as E1.
  destruct (usub64_overflow x (b2z c)) as [c1 z1]. destruct E1 as [Hz1 E1].
  pose proof (sub_overflow_spec z1 y Hz1 Hy) as E2. destruct (usub64_overflow z1 y) as [c2 z2].
  destruct E2 as [Hz2 E2]. split; [done|]. unfold in64 in *. destruct c1, c2, c; cbn [orb b2z] in *; lia.
Qed.

Lemma mulu64_spec a b : in64 a -> in64 b ->
  let (h, l) := mulu64 a b in in64 h /\ in64 l /\ cat h l = a * b.
Proof.
  unfold in64, mulu64, cat, u64. intros Ha Hb. rewrite Z.shiftr_div_pow2 by lia.
  pose proof (Z.div_mod (a * b) (2 ^ 64) ltac:(lia)). pose proof (Z.mod_pos_bound (a * b) (2 ^ 64) ltac:(lia)).
  assert (0 <= a * b / 2 ^ 64 < 2 ^ 64); [|lia].
  split; [apply Z.div_pos; nia|]. apply Z.div_lt_upper_bound; nia.
Qed.

(** Name the words and carries of each step, with what it computes. *)
Ltac words :=
  repeat match goal with
  | |- context [let (_, _) := uadd64_carry ?x ?y ?c in _] =>
      let E := fresh "E" in pose proof (carry_spec x y c ltac:(done) ltac:(done)) as E;
      destruct (uadd64_carry x y c); destruct E
  | |- context [let (_, _) := usub64_borrow ?x ?y ?c in _] =>
      let E := fresh "E" in pose proof (borrow_spec x y c ltac:(done) ltac:(done)) as E;
      destruct (usub64_borrow x y c); destruct E
  | |- context [let (_, _) := mulu64 ?x ?y in _] =>
      let E := fresh "E" in pose proof (mulu64_spec x y ltac:(done) ltac:(done)) as E;
      destruct (mulu64 x y); destruct E as (? & ? & ?)
  end.

Lemma add128_spec a0 a1 b0 b1 : in64 a0 -> in64 a1 -> in64 b0 -> in64 b1 ->
  let (z0, z1) := add128 a0 a1 b0 b1 in
  in64 z0 /\ in64 z1 /\ cat z0 z1 = (cat a0 a1 + cat b0 b1) mod 2 ^ 128.
Proof.
  intros. unfold add128. words. split; [done|]. split; [done|].
  apply Z.mod_unique_pos with (b2z b2); unfold cat, in64 in *; destruct b, b2; cbn [b2z] in *; lia.
Qed.
Lemma sub128_spec a0 a1 b0 b1 : in64 a0 -> in64 a1 -> in64 b0 -> in64 b1 ->
  let (z0, z1) := sub128 a0 a1 b0 b1 in
  in64 z0 /\ in64 z1 /\ cat z0 z1 = (cat a0 a1 - cat b0 b1) mod 2 ^ 128.
Proof.
  intros. unfold sub128. words. split; [done|]. split; [done|].
  apply Z.mod_unique_pos with (- b2z b2); unfold cat, in64 in *; destruct b, b2; cbn [b2z] in *; lia.
Qed.

Definition cat3 (a0 a1 a2 : Z) : Z := cat (cat a0 a1) a2.

Lemma add192_spec a0 a1 a2 b0 b1 b2 :
  in64 a0 -> in64 a1 -> in64 a2 -> in64 b0 -> in64 b1 -> in64 b2 ->
  let '(z0, z1, z2) := add192 a0 a1 a2 b0 b1 b2 in
  in64 z0 /\ in64 z1 /\ in64 z2 /\ cat3 z0 z1 z2 = (cat3 a0 a1 a2 + cat3 b0 b1 b2) mod 2 ^ 192.
Proof.
  intros. unfold add192. words. split; [done|]. split; [done|]. split; [done|].
  apply Z.mod_unique_pos with (b2z b4); unfold cat3, cat, in64 in *; destruct b, b3, b4; cbn [b2z] in *; lia.
Qed.
Lemma sub192_spec a0 a1 a2 b0 b1 b2 :
  in64 a0 -> in64 a1 -> in64 a2 -> in64 b0 -> in64 b1 -> in64 b2 ->
  let '(z0, z1, z2) := sub192 a0 a1 a2 b0 b1 b2 in
  in64 z0 /\ in64 z1 /\ in64 z2 /\ cat3 z0 z1 z2 = (cat3 a0 a1 a2 - cat3 b0 b1 b2) mod 2 ^ 192.
Proof.
  intros. unfold sub192. words. split; [done|]. split; [done|]. split; [done|].
  apply Z.mod_unique_pos with (- b2z b4); unfold cat3, cat, in64 in *; destruct b, b3, b4; cbn [b2z] in *; lia.
Qed.

(** The wide products are exact: the words of [mul128By64To192] and [mul128To256]
    are those of the product, and no carry is lost. *)
Theorem wide_products_exact a0 a1 b0 b1 : in64 a0 -> in64 a1 -> in64 b0 -> in64 b1 ->
  (let '(z0, z1, z2) := mul128By64To192 a0 a1 b0 in
   in64 z0 /\ in64 z1 /\ in64 z2 /\ cat3 z0 z1 z2 = cat a0 a1 * b0) /\
  (let '(z0, z1, z2, z3) := mul128To256 a0 a1 b0 b1 in
   in64 z0 /\ in64 z1 /\ in64 z2 /\ in64 z3 /\ cat (cat3 z0 z1 z2) z3 = cat a0 a1 * cat b0 b1).
Proof.
  intros Ha0 Ha1 Hb0 Hb1. split.
  - unfold mul128By64To192, mul64To128. words.
    match goal with |- context [add128 ?x ?y ?u ?v] =>
      pose proof (add128_spec x y u v ltac:(done) ltac:(done) ltac:(done) ltac:(done)) as E;
      destruct (add128 x y u v) as [r0 r1] end.
    destruct E as (Hr0 & Hr1 & E). rewrite Z.mod_small in E; unfold cat3, cat, in64 in *; nia.
  - unfold mul128To256, mul64To128. words.
    match goal with |- context [add192 ?x ?y ?u 0 ?v ?w] =>
      pose proof (add192_spec x y u 0 v w ltac:(done) ltac:(done) ltac:(done) ltac:(done) ltac:(done) ltac:(done)) as E;
      destruct (add192 x y u 0 v w) as [[r0 r1] r2] end.
    destruct E as (Hr0 & Hr1 & Hr2 & E). rewrite Z.mod_small in E by (unfold cat3, cat, in64 in *; lia).
    match goal with |- context [add192 r0 r1 r2 ?u ?v ?w] =>
      pose proof (add192_spec r0 r1 r2 u v w ltac:(done) ltac:(done) ltac:(done) ltac:(done) ltac:(done) ltac:(done)) as E';
      destruct (add192 r0 r1 r2 u v w) as [[s0 s1] s2] end.
    destruct E' as (Hs0 & Hs1 & Hs2 & E').
    assert (HP : cat a0 a1 * cat b0 b1 = a0 * b0 * 2 ^ 128 + (a1 * b0 + a0 * b1) * 2 ^ 64 + a1 * b1) by (unfold cat; ring).
    assert (HB : 0 <= cat a0 a1 * cat b0 b1 < 2 ^ 256).
    { assert (0 <= cat a0 a1 < 2 ^ 128) by (unfold cat, in64 in *; lia).
      assert (0 <= cat b0 b1 < 2 ^ 128) by (unfold cat, in64 in *; lia). nia. }
    rewrite Z.mod_small in E'; unfold cat3, cat, in64 in *; lia.
Qed.

Lemma wide_products_exact_witness :
  let m := 0xffffffffffffffff in
  (let '(z0, z1, z2) := mul128By64To192 m m m in
   in64 z0 /\ in64 z1 /\ in64 z2 /\ cat3 z0 z1 z2 = cat m m * m) /\
  (let '(z0, z1, z2, z3) := mul128To256 m m m m in
   in64 z0 /\ in64 z1 /\ in64 z2 /\ in64 z3 /\ cat (cat3 z0 z1 z2) z3 = cat m m * cat m m).
Proof. intros m. apply (wide_products_exact m m m m); by vm_compute. Defined.

(** ** Shifts with a sticky bit *)

(** The bits shifted out are collected in the lowest bit. *)
Definition jam (x n : Z) : Z := (x >>> n) ||| b2z (negb (x mod 2 ^ n =? 0)).

Lemma lor_shifted x y k : 0 <= k -> 0 <= y < 2 ^ k -> x * 2 ^ k ||| y = x * 2 ^ k + y.
Proof.
  intros Hk Hy. rewrite <- Z.add_lor_land.
  assert (E : x * 2 ^ k &&& y = 0); [|lia].
  apply Z.bits_inj'. intros i Hi. rewrite Z.land_spec, Z.bits_0.
  destruct (Z.ltb_spec i k).
  - by rewrite Z.mul_pow2_bits_low by lia.
  - rewrite (testbit_above k y i) by lia. apply andb_false_r.
Qed.

Lemma lor_bit x b : x ||| b2z b = if b && Z.even x then x + 1 else x.
Proof.
  destruct b; cbn [andb b2z]; [|apply Z.lor_0_r].
  pose proof (Z.div_mod x 2 ltac:(lia)) as Hx. rewrite Zmod_even in Hx.
  destruct (Z.even x) eqn:E.
  - replace x with (x / 2 * 2 ^ 1) at 1 by lia. rewrite lor_shifted by lia. lia.
  - apply Z.bits_inj'. intros i Hi. rewrite Z.lor_spec. change 1 with (2 ^ 0). rewrite Z.pow2_bits_eqb by lia.
    destruct (Z.eqb_spec 0 i) as [<-|]; [|apply orb_false_r].
    rewrite Z.bit0_odd, <- Z.negb_even, E. done.
Qed.

(** A sticky bit of the low word is one of the number. *)
Lemma cat_bit h y b : cat h (y ||| b2z b) = cat h y ||| b2z b.
Proof.
  rewrite !lor_bit. assert (E : Z.even (cat h y) = Z.even y).
  { unfold cat. rewrite Z.even_add, Z.even_mul. change (Z.even (2 ^ 64)) with true. rewrite orb_true_r.
    by destruct (Z.even y). }
  rewrite E. destruct (b && Z.even y); unfold cat; lia.
Qed.

Lemma lsl64_low a c : 0 <= c <= 64 -> lsl64 a (64 - c) = (a mod 2 ^ c) * 2 ^ (64 - c).
Proof.
  intros Hc. unfold lsl64, u64. rewrite Z.shiftl_mul_pow2 by lia.
  replace (2 ^ 64) with (2 ^ c * 2 ^ (64 - c)) by (rewrite <- Z.pow_add_r by lia; f_equal; lia).
  apply Z.mul_mod_distr_r; apply Z.pow_nonzero; lia.
Qed.

Lemma negCount_small c : 0 < c < 64 -> negCount c = 64 - c.
Proof.
  intros Hc. unfold negCount. change 63 with (2 ^ 6 - 1). rewrite land_ones_mod by lia. change (2 ^ 6) with 64.
  rewrite <- (Z_mod_plus_full (- c) 1), Z.mod_small by lia. lia.
Qed.
Lemma negCount_large c : 64 < c < 128 -> negCount c = 64 - (c - 64).
Proof.
  intros Hc. unfold negCount. change 63 with (2 ^ 6 - 1). rewrite land_ones_mod by lia. change (2 ^ 6) with 64.
  rewrite <- (Z_mod_plus_full (- c) 2), Z.mod_small by lia. lia.
Qed.

Lemma negCount_nonneg c : 0 <= negCount c.
Proof. unfold negCount. apply Z.land_nonneg. lia. Qed.

(** Shifting the number by less than a word, and by more. *)
Lemma cat_shift_small a0 a1 c : 0 <= c <= 64 -> in64 a1 ->
  cat a0 a1 >>> c = cat (a0 >>> c) (lsl64 a0 (64 - c) ||| (a1 >>> c)) /\ cat a0 a1 mod 2 ^ c = a1 mod 2 ^ c.
Proof.
  intros Hc Ha. unfold in64, cat in *. rewrite lsl64_low by done. rewrite !Z.shiftr_div_pow2 by lia.
  assert (Hp : 0 < 2 ^ c) by (apply Z.pow_pos_nonneg; lia).
  assert (E64 : 2 ^ 64 = 2 ^ (64 - c) * 2 ^ c) by (rewrite <- Z.pow_add_r by lia; f_equal; lia).
  assert (Hh : 0 <= a1 / 2 ^ c < 2 ^ (64 - c)).
  { split; [apply Z.div_pos; lia|]. apply Z.div_lt_upper_bound; [lia|]. rewrite Z.mul_comm, <- E64. lia. }
  rewrite lor_shifted by lia. split.
  - rewrite E64. replace (a0 * (2 ^ (64 - c) * 2 ^ c) + a1) with (a1 + a0 * 2 ^ (64 - c) * 2 ^ c) by ring.
    rewrite Z.div_add by lia. pose proof (Z.div_mod a0 (2 ^ c) ltac:(lia)) as Hd. nia.
  - rewrite E64. replace (a0 * (2 ^ (64 - c) * 2 ^ c) + a1) with (a1 + a0 * 2 ^ (64 - c) * 2 ^ c) by ring.
    apply Z_mod_plus_full.
Qed.

Lemma cat_shift_large a0 a1 c : 64 <= c -> in64 a1 ->
  cat a0 a1 >>> c = a0 >>> (c - 64) /\ cat a0 a1 mod 2 ^ c = cat (a0 mod 2 ^ (c - 64)) a1.
Proof.
  intros Hc Ha. unfold in64, cat in *. rewrite !Z.shiftr_div_pow2 by lia.
  assert (Hp : 0 < 2 ^ (c - 64)) by (apply Z.pow_pos_nonneg; lia).
  assert (E : 2 ^ c = 2 ^ 64 * 2 ^ (c - 64)) by (rewrite <- Z.pow_add_r by lia; f_equal; lia).
  rewrite E. split.
  - rewrite <- Z.div_div by lia. rewrite Z.div_add_l by lia. rewrite (Z.div_small a1) by lia. f_equal. lia.
  - rewrite Z.rem_mul_r by lia. rewrite Z.div_add_l by lia. rewrite (Z.div_small a1), Z.add_0_r by lia.
    rewrite Z.add_comm, (Z.add_comm _ a1), Z_mod_plus_full, (Z.mod_small a1) by lia. lia.
Qed.

Lemma truthy_mul x k : 0 < k -> truthy (x * k) = truthy x.
Proof. intros. unfold truthy. f_equal. apply eq_true_iff_eq. rewrite !Z.eqb_eq. nia. Qed.
Lemma sticky_low a c : 0 <= c <= 64 -> truthy (lsl64 a (64 - c)) = negb (a mod 2 ^ c =? 0).
Proof. intros. rewrite lsl64_low by done. apply truthy_mul. apply Z.pow_pos_nonneg; lia. Qed.
Lemma truthy_lor x y : truthy (x ||| y) = truthy x || truthy y.
Proof.
  unfold truthy. destruct (Z.eqb_spec (x ||| y) 0) as [E|E].
  - apply Z.lor_eq_0_iff in E as [-> ->]. done.
  - destruct (Z.eqb_spec x 0) as [->|]; [|done]. destruct (Z.eqb_spec y 0) as [->|]; done.
Qed.
Lemma cat_nonzero x y : 0 <= x -> in64 y -> negb (cat x y =? 0) = truthy x || truthy y.
Proof.
  unfold cat, in64, truthy. intros. destruct (Z.eqb_spec x 0), (Z.eqb_spec y 0), (Z.eqb_spec (x * 2 ^ 64 + y) 0); lia || done.
Qed.
Lemma cat_0 x : cat 0 x = x.
Proof. unfold cat. lia. Qed.
Lemma jam_0 x : jam x 0 = x.
Proof. unfold jam. by rewrite Z.shiftr_0_r, Z.mod_1_r, Z.lor_0_r. Qed.
Lemma jam_all x n : 0 <= x < 2 ^ n -> 0 <= n -> jam x n = b2z (truthy x).
Proof.
  intros Hx Hn. unfold jam, truthy. rewrite Z.shiftr_div_pow2, Z.div_small, Z.mod_small by lia. apply Z.lor_0_l.
Qed.
Lemma in64_shiftr x c : in64 x -> 0 <= c -> in64 (x >>> c).
Proof.
  unfold in64. intros Hx Hc. rewrite Z.shiftr_div_pow2 by lia. pose proof (Z.pow_pos_nonneg 2 c).
  split; [apply Z.div_pos; lia|]. apply Z.div_lt_upper_bound; nia.
Qed.
Lemma in64_lor x y : in64 x -> in64 y -> in64 (x ||| y).
Proof. intros. by apply (lor_range 64). Qed.
Lemma in64_lsl64 x c : in64 (lsl64 x c).
Proof. apply u64_bounds. Qed.
#[local] Hint Resolve in64_shiftr in64_lor in64_lsl64 negCount_nonneg : core.

Lemma cat_bounds x y : in64 x -> in64 y -> 0 <= cat x y < 2 ^ 128.
Proof. unfold in64, cat. lia. Qed.

Lemma land_63 c : c &&& 63 = c mod 64.
Proof. change 63 with (2 ^ 6 - 1). by rewrite land_ones_mod. Qed.

Lemma shift128RightJamming_spec a0 a1 count : in64 a0 -> in64 a1 -> 0 <= count ->
  let (z0, z1) := shift128RightJamming a0 a1 count in
  in64 z0 /\ in64 z1 /\ cat z0 z1 = jam (cat a0 a1) count.
Proof.
  intros H0 H1 Hc. unfold shift128RightJamming.
  destruct (Z.eqb_spec count 0) as [->|]; [by rewrite jam_0|].
  destruct (Z.ltb_spec count 64).
  { rewrite negCount_small by lia. split; [auto|]. split; [auto 6|].
    destruct (cat_shift_small a0 a1 count ltac:(lia) H1) as [E1 E2].
    rewrite cat_bit. unfold jam. by rewrite E1, E2, sticky_low by lia. }
  destruct (cat_shift_large a0 a1 count ltac:(lia) H1) as [E1 E2].
  assert (Hm : 0 <= a0 mod 2 ^ (count - 64)) by (apply Z.mod_pos_bound, Z.pow_pos_nonneg; lia).
  destruct (Z.eqb_spec count 64) as [->|].
  { split; [done|]. split; [auto|]. rewrite cat_bit. unfold jam. rewrite E1, E2.
    rewrite cat_0, cat_nonzero by done. change (2 ^ (64 - 64)) with 1. by rewrite Z.mod_1_r, Z.shiftr_0_r. }
  destruct (Z.ltb_spec count 128).
  { rewrite negCount_large by lia. rewrite land_63.
    replace (count mod 64) with (count - 64) by (rewrite <- (Z_mod_plus_full count (-1)), Z.mod_small; lia).
    split; [done|]. split; [auto 6 with lia|]. rewrite cat_bit. unfold jam. rewrite E1, E2.
    by rewrite cat_0, truthy_lor, sticky_low, cat_nonzero by (done || lia). }
  split; [done|]. split; [auto|]. rewrite jam_all.
  - change (truthy (cat a0 a1)) with (negb (cat a0 a1 =? 0)).
    by rewrite cat_0, cat_nonzero, truthy_lor by (done || (unfold in64 in *; lia)).
  - pose proof (cat_bounds a0 a1 H0 H1). pose proof (Z.pow_le_mono_r 2 128 count). lia.
  - lia.
Qed.

Lemma shift64RightJamming_spec a count : in64 a -> 0 <= count -> shift64RightJamming a count = jam a count.
Proof.
  intros Ha Hc. unfold shift64RightJamming. destruct (Z.eqb_spec count 0) as [->|]; [by rewrite jam_0|].
  destruct (Z.ltb_spec count 64).
  - fold (negCount count). rewrite negCount_small, sticky_low by lia. done.
  - rewrite jam_all; [done|..]; unfold in64 in *; [|lia]. pose proof (Z.pow_le_mono_r 2 64 count). lia.
Qed.

(** Right shifts that jam: whatever the count, the result of the 64-bit and of the
    128-bit shift is the number shifted right with its lowest bit set when any bit
    that was shifted out was set. *)
Theorem shift_jamming_exact a0 a1 count : in64 a0 -> in64 a1 -> 0 <= count ->
  shift64RightJamming a1 count = jam a1 count /\
  let (z0, z1) := shift128RightJamming a0 a1 count in
  in64 z0 /\ in64 z1 /\ cat z0 z1 = jam (cat a0 a1) count.
Proof. intros. split; [by apply shift64RightJamming_spec|by apply shift128RightJamming_spec]. Qed.

Lemma shift_jamming_exact_witness :
  jam (cat 5 1) 66 = 1 /\
  shift64RightJamming 1 66 = jam 1 66 /\
  let (z0, z1) := shift128RightJamming 5 1 66 in
  in64 z0 /\ in64 z1 /\ cat z0 z1 = jam (cat 5 1) 66.
Proof. split; [done|]. by apply (shift_jamming_exact 5 1 66). Defined.

Lemma shift_words a0 a1 p q : 0 < p -> 0 < q -> 2 ^ 64 = p * q -> 0 <= a1 < 2 ^ 64 ->
  ((a0 mod p) * q + a1 / p) * 2 ^ 64 + (a1 mod p) * q = (a0 * 2 ^ 64 + a1) * q mod 2 ^ 128.
Proof.
  intros Hp Hq E Ha. pose proof (Z.mod_pos_bound a0 p Hp) as Hl0. pose proof (Z.mod_pos_bound a1 p Hp) as Hl1.
  pose proof (Z.div_mod a0 p ltac:(lia)) as E0. pose proof (Z.div_mod a1 p ltac:(lia)) as E1.
  assert (0 <= a1 / p < q) by (split; [apply Z.div_pos; lia|apply Z.div_lt_upper_bound; lia]).
  assert (E128 : 2 ^ 128 = (p * q) * (p * q)) by (rewrite <- E; done).
  apply Z.mod_unique_pos with (a0 / p); rewrite ?E128, ?E in *; [nia|].
  generalize dependent (a0 / p). generalize dependent (a1 / p). generalize dependent (a0 mod p).
  generalize dependent (a1 mod p). intros l1 _ l0 _ h1 -> _ h0 ->. ring.
Qed.

(** The plain shifts are shifts of the number. *)
Lemma shift128_exact a0 a1 count : in64 a0 -> in64 a1 -> 0 <= count ->
  (let (z0, z1) := shift128Right a0 a1 count in in64 z0 /\ in64 z1 /\ cat z0 z1 = cat a0 a1 >>> count) /\
  (count < 128 ->
   let (z0, z1) := shift128Left a0 a1 count in in64 z0 /\ in64 z1 /\ cat z0 z1 = Z.shiftl (cat a0 a1) count mod 2 ^ 128).
Proof.
  intros H0 H1 Hc. split.
  - unfold shift128Right. destruct (Z.eqb_spec count 0) as [->|]; [by rewrite Z.shiftr_0_r|].
    destruct (Z.ltb_spec count 64).
    + rewrite negCount_small by lia. destruct (cat_shift_small a0 a1 count ltac:(lia) H1) as [-> _]. auto.
    + destruct (cat_shift_large a0 a1 count ltac:(lia) H1) as [-> _]. rewrite cat_0. split; [done|].
      destruct (Z.ltb_spec count 128).
      * rewrite land_63.
        replace (count mod 64) with (count - 64) by (rewrite <- (Z_mod_plus_full count (-1)), Z.mod_small; lia).
        split; [|done]. apply in64_shiftr; [done|lia].
      * split; [done|]. rewrite Z.shiftr_div_pow2 by lia. symmetry. apply Z.div_small.
        unfold in64 in *. pose proof (Z.pow_le_mono_r 2 64 (count - 64)). lia.
  - intros H128. unfold shift128Left. rewrite Z.shiftl_mul_pow2 by lia.
    assert (Hp : 0 < 2 ^ count) by (apply Z.pow_pos_nonneg; lia).
    destruct (Z.ltb_spec count 64).
    + split; [destruct (_ =? 0); auto|]. split; [auto|].
      assert (E64 : 2 ^ 64 = 2 ^ (64 - count) * 2 ^ count) by (rewrite <- Z.pow_add_r by lia; f_equal; lia).
      assert (E128 : 2 ^ 128 = 2 ^ 64 * 2 ^ 64) by done.
      assert (HL : forall x, lsl64 x count = (x mod 2 ^ (64 - count)) * 2 ^ count).
      { intros x. replace count with (64 - (64 - count)) at 1 by lia. rewrite lsl64_low by lia. do 2 f_equal. lia. }
      assert (E : (if count =? 0 then a0 else lsl64 a0 count ||| (a1 >>> negCount count)) =
                  (a0 mod 2 ^ (64 - count)) * 2 ^ count + a1 / 2 ^ (64 - count)).
      { destruct (Z.eqb_spec count 0) as [->|].
        - unfold in64 in *. rewrite Z.sub_0_r, Z.mod_small, (Z.div_small a1) by lia. lia.
        - rewrite negCount_small, Z.shiftr_div_pow2, HL by lia. apply lor_shifted; [lia|].
          unfold in64 in *. split; [apply Z.div_pos; lia|]. apply Z.div_lt_upper_bound; lia. }
      rewrite E, HL. unfold cat, in64 in *.
      apply shift_words; [apply Z.pow_pos_nonneg; lia|lia..].
    + split; [auto|]. split; [done|]. unfold cat. rewrite Z.add_0_r. unfold lsl64, u64.
      rewrite Z.shiftl_mul_pow2 by lia.
      replace (2 ^ count) with (2 ^ (count - 64) * 2 ^ 64) by (rewrite <- Z.pow_add_r by lia; f_equal; lia).
      replace ((a0 * 2 ^ 64 + a1) * (2 ^ (count - 64) * 2 ^ 64))
        with ((a1 * 2 ^ (count - 64)) * 2 ^ 64 + (a0 * 2 ^ (count - 64)) * 2 ^ 128) by ring.
      rewrite Z_mod_plus_full. change (2 ^ 128) with (2 ^ 64 * 2 ^ 64). by rewrite Z.mul_mod_distr_r.
Qed.

(** ** Scaling without a wide type *)

Lemma lsl64_32 x : in32 x -> lsl64 x 32 = x * 2 ^ 32.
Proof. unfold in32, lsl64, u64. intros. rewrite Z.shiftl_mul_pow2, Z.mod_small by lia. done. Qed.

(** Long division by one digit. *)
Lemma long_division h l c : 0 < c -> 0 <= h -> 0 <= l < 2 ^ 32 ->
  (h * 2 ^ 32 + l) / c = h / c * 2 ^ 32 + ((h mod c) * 2 ^ 32 + l) / c.
Proof.
  intros Hc Hh Hl. pose proof (Z.div_mod h c ltac:(lia)) as E.
  replace (h * 2 ^ 32 + l) with ((h mod c) * 2 ^ 32 + l + h / c * 2 ^ 32 * c).
  - rewrite Z.div_add by lia. lia.
  - rewrite E at 3. ring.
Qed.

Lemma muldiv_digits n c (rh rl : Z) : 0 < c < 2 ^ 32 -> in64 rh -> 0 <= rl -> n = rh * 2 ^ 32 + rl mod 2 ^ 32 ->
  lsl64 (u32 (rh / c)) 32 ||| u32 (u64 (lsl64 (rh mod c) 32 + (rl &&& 0xffffffff)) / c) = u64 (n / c).
Proof.
  intros Hc Hh Hl ->. unfold in64 in Hh. change 0xffffffff with (2 ^ 32 - 1). rewrite land_ones_mod by lia.
  pose proof (Z.mod_pos_bound rl (2 ^ 32) ltac:(lia)) as Hl0. pose proof (Z.mod_pos_bound rh c ltac:(lia)) as Hr.
  rewrite long_division by lia. rewrite (lsl64_32 (rh mod c)) by (unfold in32; lia).
  rewrite u64_small by (unfold in64; nia). set (low := (_ + _) / c).
  assert (Hlow : 0 <= low < 2 ^ 32).
  { subst low. split; [apply Z.div_pos; nia|]. apply Z.div_lt_upper_bound; nia. }
  rewrite (u32_small low) by done. rewrite lsl64_32 by (apply u32_in32). rewrite lor_shifted by lia.
  unfold u64, u32. change (2 ^ 64) with (2 ^ 32 * 2 ^ 32).
  rewrite (Z.add_comm (rh / c * 2 ^ 32)), Z.rem_mul_r by lia. rewrite Z_mod_plus_full, (Z.mod_small low) by lia.
  rewrite Z.div_add, (Z.div_small low) by lia. rewrite Z.add_0_l. lia.
Qed.

(** Clock values are scaled alike with and without a 128-bit type of the compiler:
    the version with 64-bit arithmetic computes [a * b / c], or the quotient rounded
    up, modulo 2^64. *)
Theorem muldiv64_equivalent a b c : in64 a -> in32 b -> in32 c -> c <> 0 ->
  muldiv64_rounding a b c false = muldiv64_int128 a b c /\
  muldiv64_rounding a b c true = muldiv64_round_up_int128 a b c.
Proof.
  intros Ha Hb Hc Hc0. unfold in64, in32 in *.
  pose proof (Z.div_mod a (2 ^ 32) ltac:(lia)) as Ea. pose proof (Z.mod_pos_bound a (2 ^ 32) ltac:(lia)) as Hl.
  assert (Hh : 0 <= a / 2 ^ 32 < 2 ^ 32) by (split; [apply Z.div_pos; lia|apply Z.div_lt_upper_bound; lia]).
  assert (E : forall r, 0 <= r < 2 ^ 32 ->
    let rl := u32 a * b + r in
    lsl64 (u32 (u64 (u64 ((a >>> 32) * b) + (rl >>> 32)) / c)) 32 |||
      u32 (u64 (lsl64 (u64 (u64 ((a >>> 32) * b) + (rl >>> 32)) mod c) 32 + (rl &&& 0xffffffff)) / c)
    = u64 ((a * b + r) / c)).
  { intros r Hr rl. rewrite !Z.shiftr_div_pow2 by lia. unfold u32 in rl.
    assert (Hrl : 0 <= rl < 2 ^ 64) by (subst rl; nia).
    pose proof (Z.div_mod rl (2 ^ 32) ltac:(lia)) as El.
    assert (0 <= rl / 2 ^ 32 < 2 ^ 32) by (split; [apply Z.div_pos; lia|apply Z.div_lt_upper_bound; lia]).
    rewrite (u64_small (a / 2 ^ 32 * b)) by (unfold in64; nia).
    rewrite (u64_small (_ + _)) by (unfold in64; nia).
    apply muldiv_digits; [lia|unfold in64; nia|lia|]. subst rl. nia. }
  unfold muldiv64_rounding, muldiv64_int128, muldiv64_round_up_int128. cbv zeta.
  assert (Hp : in64 (u32 a * b)) by (unfold in64, u32; nia). rewrite (u64_small (u32 a * b)) by done. split.
  - specialize (E 0 ltac:(lia)). cbv zeta in E. by rewrite !Z.add_0_r in E.
  - rewrite (u32_small (c - 1)) by (unfold in32; lia).
    rewrite (u64_small (u32 a * b + (c - 1))) by (unfold in64, u32 in *; nia).
    rewrite (E (c - 1)) by lia. do 2 f_equal. lia.
Qed.

Lemma muldiv64_equivalent_witness :
  muldiv64_rounding 0xffffffffffffffff 1000000000 80000000 false = muldiv64_int128 0xffffffffffffffff 1000000000 80000000 /\
  muldiv64_rounding 0xffffffffffffffff 1000000000 80000000 true =
    muldiv64_round_up_int128 0xffffffffffffffff 1000000000 80000000.
Proof. apply (muldiv64_equivalent 0xffffffffffffffff 1000000000 80000000); by vm_compute. Defined.

(** ** Division of two words by one *)

Lemma qrnnd_digit_spec n1 nlow d : 2 ^ 63 <= d < 2 ^ 64 -> 0 <= n1 < d -> 0 <= nlow < 2 ^ 32 ->
  let (q, r) := qrnnd_digit n1 nlow d in
  0 <= q < 2 ^ 32 /\ 0 <= r < d /\ n1 * 2 ^ 32 + nlow = q * d + r.
Proof.
  intros Hd Hn Hl. unfold qrnnd_digit. cbv zeta. rewrite Z.shiftr_div_pow2 by lia.
  pose proof (Z.div_mod d (2 ^ 32) ltac:(lia)) as Ed. pose proof (Z.mod_pos_bound d (2 ^ 32) ltac:(lia)) as Hd0.
  fold (u32 d) in Ed, Hd0. set (d0 := u32 d) in *. set (d1 := d / 2 ^ 32) in *.
  assert (Hd1 : 2 ^ 31 <= d1 < 2 ^ 32) by lia.
  pose proof (Z.div_mod n1 d1 ltac:(lia)) as En. pose proof (Z.mod_pos_bound n1 d1 ltac:(lia)) as Hr.
  set (q := n1 / d1) in *. set (r := n1 mod d1) in *.
  assert (Hq : 0 <= q <= 2 ^ 32 + 1) by (split; [apply Z.div_pos; lia|nia]).
  assert (Hm : 0 <= q * d0 < 2 ^ 64) by nia.
  rewrite (u64_small (q * d0)), (lsl64_32 r), lor_shifted by (unfold in64, in32; lia).
  set (R := r * 2 ^ 32 + nlow). set (m := q * d0) in *.
  assert (HR : 0 <= R < d) by (subst R; lia).
  assert (EN : n1 * 2 ^ 32 + nlow = q * d + (R - m)) by (subst R m; rewrite Ed, En; ring).
  clearbody R m. clear En Hr r Ed. set (N := n1 * 2 ^ 32 + nlow) in *.
  assert (HN : 0 <= N < d * 2 ^ 32) by lia. clearbody N.
  assert (Hfin : forall k, 0 <= R - m + k * d < d -> 0 <= q - k < 2 ^ 32) by nia.
  assert (Hu : forall x k, 0 <= x < d -> (exists j, k = x + j * 2 ^ 64) -> u64 k = x).
  { intros x k Hx [j ->]. unfold u64. rewrite Z_mod_plus_full. apply Z.mod_small. lia. }
  destruct (Z.ltb_spec R m) as [H1|H1].
  - assert (Hw : u64 (R + d) = R + d - (if 2 ^ 64 <=? R + d then 2 ^ 64 else 0)).
    { destruct (Z.leb_spec (2 ^ 64) (R + d)); [|rewrite Z.sub_0_r; apply u64_small; unfold in64; lia].
      apply Hu; [lia|]. exists 1. lia. }
    destruct (Z.leb_spec (2 ^ 64) (R + d)) as [Ho|Ho]; rewrite Hw.
    + destruct (Z.leb_spec d (R + d - 2 ^ 64)); [lia|].
      assert (Hr : 0 <= R - m + 1 * d < d) by lia. specialize (Hfin 1 Hr).
      rewrite (u64_small (q - 1)) by (unfold in64; lia).
      rewrite (Hu (R - m + 1 * d)) by (lia || (exists (-1); lia)). split; [lia|]. split; [lia|nia].
    + rewrite Z.sub_0_r. destruct (Z.leb_spec d (R + d)); [|lia]. destruct (Z.ltb_spec (R + d) m) as [H2|H2].
      * assert (Hr : 0 <= R - m + 2 * d < d) by lia. specialize (Hfin 2 Hr).
        rewrite (u64_small (q - 1)), (u64_small (q - 1 - 1)) by (unfold in64; lia).
        rewrite (Hu (R - m + 2 * d)).
        -- split; [lia|]. split; [lia|nia].
        -- lia.
        -- unfold u64. rewrite Z.mod_eq by lia. exists (- ((R + d + d) / 2 ^ 64)). lia.
      * assert (Hr : 0 <= R - m + 1 * d < d) by lia. specialize (Hfin 1 Hr).
        rewrite (u64_small (q - 1)), (u64_small (R + d - m)) by (unfold in64; lia). split; [lia|]. split; [lia|nia].
  - assert (Hr : 0 <= R - m + 0 * d < d) by lia. specialize (Hfin 0 Hr).
    rewrite (u64_small (R - m)) by (unfold in64; lia). split; [lia|]. split; [lia|nia].
Qed.

(** The portable [udiv_qrnnd] divides exactly: for a normalised divisor and a high
    word below it, the quotient and the remainder of the 128-bit number. *)
Theorem udiv_qrnnd_exact n1 n0 d : 2 ^ 63 <= d < 2 ^ 64 -> 0 <= n1 < d -> in64 n0 ->
  udiv_qrnnd n1 n0 d = (cat n1 n0 / d, cat n1 n0 mod d).
Proof.
  intros Hd Hn Hn0. unfold udiv_qrnnd, in64 in *. rewrite Z.shiftr_div_pow2 by lia.
  pose proof (Z.div_mod n0 (2 ^ 32) ltac:(lia)) as E0. pose proof (Z.mod_pos_bound n0 (2 ^ 32) ltac:(lia)) as Hl.
  assert (Hh : 0 <= n0 / 2 ^ 32 < 2 ^ 32) by (split; [apply Z.div_pos; lia|apply Z.div_lt_upper_bound; lia]).
  pose proof (qrnnd_digit_spec n1 (n0 / 2 ^ 32) d Hd Hn Hh) as S1.
  destruct (qrnnd_digit n1 (n0 / 2 ^ 32) d) as [q1 r1]. destruct S1 as (Hq1 & Hr1 & E1).
  pose proof (qrnnd_digit_spec r1 (u32 n0) d Hd Hr1 Hl) as S2.
  destruct (qrnnd_digit r1 (u32 n0) d) as [q0 r0]. destruct S2 as (Hq0 & Hr0 & E2).
  rewrite lsl64_32, lor_shifted by (unfold in32; lia). unfold u32 in E2.
  assert (E : cat n1 n0 = d * (q1 * 2 ^ 32 + q0) + r0) by (unfold cat; rewrite E0; nia).
  f_equal; [apply Z.div_unique_pos with r0|apply Z.mod_unique_pos with (q1 * 2 ^ 32 + q0)]; done.
Qed.

Lemma udiv_qrnnd_exact_witness :
  let d := 0x8000000000000001 in
  udiv_qrnnd 0x8000000000000000 0xffffffffffffffff d =
    (cat 0x8000000000000000 0xffffffffffffffff / d, cat 0x8000000000000000 0xffffffffffffffff mod d).
Proof. intros d. apply (udiv_qrnnd_exact 0x8000000000000000 0xffffffffffffffff d); by vm_compute. Defined.

(** ** The estimated quotient *)

(** A digit estimated from the high half of the divisor is at most 2 too large, and
    never too small. *)
Lemma digit_estimate R l b : 2 ^ 63 <= b < 2 ^ 64 -> 0 <= R < b -> 0 <= l < 2 ^ 32 ->
  let b0 := b / 2 ^ 32 in
  let e := if b0 * 2 ^ 32 <=? R then 2 ^ 32 - 1 else R / b0 in
  let q := (R * 2 ^ 32 + l) / b in
  0 <= e < 2 ^ 32 /\ q <= e <= q + 2.
Proof.
  intros Hb HR Hl b0 e q. pose proof (Z.div_mod b (2 ^ 32) ltac:(lia)) as Eb.
  pose proof (Z.mod_pos_bound b (2 ^ 32) ltac:(lia)) as Hb1. fold b0 in Eb. set (b1 := b mod 2 ^ 32) in *.
  assert (Hb0 : 2 ^ 31 <= b0 < 2 ^ 32) by lia.
  pose proof (Z.div_mod (R * 2 ^ 32 + l) b ltac:(lia)) as Eq. fold q in Eq.
  pose proof (Z.mod_pos_bound (R * 2 ^ 32 + l) b ltac:(lia)) as Hr. set (r := (_ + l) mod b) in *. clearbody r q.
  assert (Hq : 0 <= q < 2 ^ 32) by nia.
  assert (He : 0 <= e < 2 ^ 32 /\ (e = 2 ^ 32 - 1 \/ R / b0 = e) /\ e * b0 <= R).
  { subst e. destruct (Z.leb_spec (b0 * 2 ^ 32) R); [split; [lia|]; split; [by left|nia]|].
    pose proof (Z.div_mod R b0 ltac:(lia)). pose proof (Z.mod_pos_bound R b0 ltac:(lia)).
    split; [split; [apply Z.div_pos; lia|apply Z.div_lt_upper_bound; lia]|]. split; [by right|]. lia. }
  destruct He as (He & Hcase & Heb). split; [done|]. split.
  - destruct Hcase as [->|<-]; [lia|]. apply Z.div_le_lower_bound; [lia|]. nia.
  - assert (Hx : e * b0 * 2 ^ 32 <= b * (q + 1)) by nia. nia.
Qed.

(** The sign of a 128-bit number is that of its high word. *)
Lemma sign_of_high S r0 r1 : in64 r0 -> in64 r1 -> - 2 ^ 127 <= S < 2 ^ 127 -> cat r0 r1 = S mod 2 ^ 128 ->
  (sint64 r0 <? 0) = (S <? 0).
Proof.
  unfold in64, cat, sint64. intros H0 H1 HS E.
  destruct (Z.ltb_spec S 0).
  - rewrite <- (Z_mod_plus_full S 1), Z.mod_small in E by lia. destruct (Z.ltb_spec r0 (2 ^ 63)); lia.
  - rewrite Z.mod_small in E by lia. destruct (Z.ltb_spec r0 (2 ^ 63)); lia.
Qed.

Lemma estimate_loop_spec A b : 0 <= A -> 2 ^ 63 <= b < 2 ^ 64 -> forall fuel e rem0 rem1,
  0 <= e < 2 ^ 32 -> in64 rem0 -> in64 rem1 ->
  - (Z.of_nat fuel * (b * 2 ^ 32)) <= A - b * (e * 2 ^ 32) < b * 2 ^ 32 -> (fuel <= 2)%nat ->
  cat rem0 rem1 = (A - b * (e * 2 ^ 32)) mod 2 ^ 128 ->
  exists e' r0 r1, estimate_loop fuel b (e * 2 ^ 32) rem0 rem1 = Some (e' * 2 ^ 32, r0, r1) /\
    0 <= e' < 2 ^ 32 /\ in64 r0 /\ in64 r1 /\
    cat r0 r1 = A - b * (e' * 2 ^ 32) /\ 0 <= A - b * (e' * 2 ^ 32) < b * 2 ^ 32.
Proof.
  intros HA Hb. induction fuel as [|fuel IH]; intros e rem0 rem1 He H0 H1 HS Hf E;
    assert (HS' : - 2 ^ 127 <= A - b * (e * 2 ^ 32) < 2 ^ 127) by nia.
  - cbn [estimate_loop]. rewrite (sign_of_high (A - b * (e * 2 ^ 32)) rem0 rem1) by (done || lia).
    destruct (Z.ltb_spec (A - b * (e * 2 ^ 32)) 0); [lia|].
    rewrite Z.mod_small in E by lia. exists e, rem0, rem1. split_and!; done || lia.
  - cbn [estimate_loop]. rewrite (sign_of_high (A - b * (e * 2 ^ 32)) rem0 rem1) by (done || lia).
    destruct (Z.ltb_spec (A - b * (e * 2 ^ 32)) 0) as [Hneg|].
    2: { rewrite Z.mod_small in E by lia. exists e, rem0, rem1. split_and!; done || lia. }
    assert (Hb0 : in64 (b >>> 32)) by (apply in64_shiftr; unfold in64; lia).
    pose proof (add128_spec rem0 rem1 (b >>> 32) (lsl64 b 32) H0 H1 Hb0 (in64_lsl64 b 32)) as Ha.
    destruct (add128 rem0 rem1 (b >>> 32) (lsl64 b 32)) as [s0 s1]. destruct Ha as (Hs0 & Hs1 & Es).
    assert (Hcb : cat (b >>> 32) (lsl64 b 32) = b * 2 ^ 32).
    { unfold cat. replace 32 with (64 - 32) at 2 by lia. rewrite lsl64_low, Z.shiftr_div_pow2 by lia.
      change (64 - 32) with 32. pose proof (Z.div_mod b (2 ^ 32)). lia. }
    rewrite Hcb, E, Zplus_mod_idemp_l in Es.
    assert (He1 : 1 <= e) by nia.
    replace (u64 (e * 2 ^ 32 - 0x100000000)) with ((e - 1) * 2 ^ 32) by (rewrite u64_small; unfold in64; lia).
    apply IH; [lia|done|done|lia|lia|]. rewrite Es. f_equal. ring.
Qed.

(** C39: C39: [estimateDiv128To64] is within 2 of the quotient, as its comment says: for a
    divisor of at least 2^63 the loop ends after at most two turns, and the result is
    between the exact quotient and 2 more; when the quotient does not fit 64 bits the
    result is the largest 64-bit number. *)
Theorem estimateDiv128To64_bounds a0 a1 b : in64 a0 -> in64 a1 -> 2 ^ 63 <= b < 2 ^ 64 ->
  exists z, estimateDiv128To64 a0 a1 b = Some z /\ in64 z /\
    if b <=? a0 then z = 2 ^ 64 - 1 else cat a0 a1 / b <= z <= cat a0 a1 / b + 2.
Proof.
  intros H0 H1 Hb. unfold estimateDiv128To64. destruct (Z.leb_spec b a0); [by eexists|].
  set (b0 := b >>> 32). assert (Eb0 : b0 = b / 2 ^ 32) by (subst b0; by rewrite Z.shiftr_div_pow2).
  pose proof (Z.div_mod b (2 ^ 32) ltac:(lia)) as Eb. pose proof (Z.mod_pos_bound b (2 ^ 32) ltac:(lia)) as Hb1.
  rewrite <- Eb0 in Eb. assert (Hb0 : 2 ^ 31 <= b0 < 2 ^ 32) by lia.
  rewrite (lsl64_32 b0) by (unfold in32; lia). unfold in64 in H0, H1.
  pose proof (Z.div_mod a1 (2 ^ 32) ltac:(lia)) as Ea1. pose proof (Z.mod_pos_bound a1 (2 ^ 32) ltac:(lia)) as Hl1.
  assert (Hh1 : 0 <= a1 / 2 ^ 32 < 2 ^ 32) by (split; [apply Z.div_pos; lia|apply Z.div_lt_upper_bound; lia]).
  pose proof (digit_estimate a0 (a1 / 2 ^ 32) b Hb ltac:(lia) Hh1) as He. cbv zeta in He. rewrite <- Eb0 in He.
  set (e := if b0 * 2 ^ 32 <=? a0 then 2 ^ 32 - 1 else a0 / b0) in *. destruct He as [He Hq].
  assert (Ez : (if b0 * 2 ^ 32 <=? a0 then 0xffffffff00000000 else lsl64 (a0 / b0) 32) = e * 2 ^ 32).
  { subst e. destruct (Z.leb_spec (b0 * 2 ^ 32) a0); [done|]. by apply lsl64_32. }
  rewrite Ez. pose proof (mulu64_spec b (e * 2 ^ 32) ltac:(unfold in64; lia) ltac:(unfold in64; lia)) as Hm.
  unfold mul64To128. destruct (mulu64 b (e * 2 ^ 32)) as [t0 t1]. destruct Hm as (Ht0 & Ht1 & Et).
  pose proof (sub128_spec a0 a1 t0 t1 H0 H1 Ht0 Ht1) as Hs. destruct (sub128 a0 a1 t0 t1) as [r0 r1].
  destruct Hs as (Hr0 & Hr1 & Er). rewrite Et in Er.
  set (A := cat a0 a1) in *. assert (EA : A = (a0 * 2 ^ 32 + a1 / 2 ^ 32) * 2 ^ 32 + a1 mod 2 ^ 32) by (subst A; unfold cat; lia).
  set (hi := a0 * 2 ^ 32 + a1 / 2 ^ 32) in *.
  pose proof (Z.div_mod hi b ltac:(lia)) as EH. pose proof (Z.mod_pos_bound hi b ltac:(lia)) as HrH.
  destruct (estimate_loop_spec A b ltac:(lia) Hb 2 e r0 r1 He Hr0 Hr1) as (e' & s0 & s1 & -> & He' & Hs0 & Hs1 & Es & Hrem);
    [nia|lia|done|].
  cbn [mbind option_bind]. set (rem := A - b * (e' * 2 ^ 32)) in *.
  assert (ER : lsl64 s0 32 ||| (s1 >>> 32) = rem / 2 ^ 32).
  { rewrite <- Es. symmetry. rewrite <- Z.shiftr_div_pow2 by lia.
    destruct (cat_shift_small s0 s1 32 ltac:(lia) Hs1) as [-> _]. change (64 - 32) with 32.
    assert (Hs : s0 >>> 32 = 0); [|by rewrite Hs, cat_0].
    rewrite Z.shiftr_div_pow2 by lia. apply Z.div_small. unfold cat, in64 in *. lia. }
  rewrite ER. pose proof (Z.div_mod rem (2 ^ 32) ltac:(lia)) as Erem.
  pose proof (Z.mod_pos_bound rem (2 ^ 32) ltac:(lia)) as Hrl.
  pose proof (digit_estimate (rem / 2 ^ 32) (rem mod 2 ^ 32) b Hb ltac:(lia) Hrl) as Hd. cbv zeta in Hd.
  rewrite <- Eb0 in Hd. change 0xffffffff with (2 ^ 32 - 1).
  set (l := if b0 * 2 ^ 32 <=? rem / 2 ^ 32 then 2 ^ 32 - 1 else rem / 2 ^ 32 / b0) in *. destruct Hd as [Hl Hlq].
  rewrite (Z.mul_comm (rem / 2 ^ 32)), <- Erem in Hlq.
  eexists. split; [reflexivity|]. rewrite lor_shifted by lia. split; [unfold in64; lia|].
  assert (Eq : A / b = e' * 2 ^ 32 + rem / b); [|lia].
  replace A with (rem + e' * 2 ^ 32 * b) by (subst rem; ring). rewrite Z.div_add by lia. lia.
Qed.

Lemma estimateDiv128To64_bounds_witness :
  let b := 0x8000000000000001 in let a0 := 0x8000000000000000 in let a1 := 5 in
  exists z, estimateDiv128To64 a0 a1 b = Some z /\ in64 z /\
    if b <=? a0 then z = 2 ^ 64 - 1 else cat a0 a1 / b <= z <= cat a0 a1 / b + 2.
Proof. intros b a0 a1. apply (estimateDiv128To64_bounds a0 a1 b); by vm_compute. Defined.

(** The bound is reached: this quotient is estimated 2 too large. *)
Lemma estimate_off_by_two :
  estimateDiv128To64 0x8000001afffffffd 0x619699cf00000000 0x8000001affffffff =
    Some (cat 0x8000001afffffffd 0x619699cf00000000 / 0x8000001affffffff + 2).
Proof. by vm_compute. Qed.
