(* ===== verification/BitOps.v ===== *)
(** * Bit operations ([include/qemu/bitops.h])

    Bitmaps as arrays of words, rotations, fields of 64-bit words and the shuffles of
    bits.  A bitmap refines the set of its members; [w] is the number of bits of a word
    (64 for the functions on [unsigned long], 32 for those whose names end in 32). *)

From S2P Require Import Prelude.

(** ** Bitmaps *)

Definition wtrunc (w x : Z) : Z := x mod 2 ^ w.
Definition BIT_MASK (w nr : Z) : Z := wtrunc w (Z.shiftl 1 (nr mod w)).
Definition BIT_WORD (w nr : Z) : Z := nr / w.

Definition set_bit_w (w nr : Z) (addr : list Z) : list Z :=
  setZ addr (BIT_WORD w nr) (nthZ addr (BIT_WORD w nr) ||| BIT_MASK w nr).
Definition clear_bit_w (w nr : Z) (addr : list Z) : list Z :=
  setZ addr (BIT_WORD w nr) (nthZ addr (BIT_WORD w nr) &&& wtrunc w (Z.lnot (BIT_MASK w nr))).
Definition change_bit_w (w nr : Z) (addr : list Z) : list Z :=
  setZ addr (BIT_WORD w nr) (nthZ addr (BIT_WORD w nr) ^^^ BIT_MASK w nr).
Definition test_bit_w (w nr : Z) (addr : list Z) : bool :=
  truthy (1 &&& (nthZ addr (BIT_WORD w nr) >>> (nr &&& (w - 1)))).
Definition old_bit (w nr : Z) (addr : list Z) : bool :=
  truthy (nthZ addr (BIT_WORD w nr) &&& BIT_MASK w nr).
Definition test_and_set_bit_w (w nr : Z) (addr : list Z) : bool * list Z := (old_bit w nr addr, set_bit_w w nr addr).
Definition test_and_clear_bit_w (w nr : Z) (addr : list Z) : bool * list Z := (old_bit w nr addr, clear_bit_w w nr addr).
Definition test_and_change_bit_w (w nr : Z) (addr : list Z) : bool * list Z := (old_bit w nr addr, change_bit_w w nr addr).

Definition set_bit32 : Z -> list Z -> list Z := set_bit_w 32.
Definition clear_bit32 : Z -> list Z -> list Z := clear_bit_w 32.
Definition change_bit32 : Z -> list Z -> list Z := change_bit_w 32.
Definition test_and_set_bit32 : Z -> list Z -> bool * list Z := test_and_set_bit_w 32.
Definition test_and_clear_bit32 : Z -> list Z -> bool * list Z := test_and_clear_bit_w 32.
Definition test_and_change_bit32 : Z -> list Z -> bool * list Z := test_and_change_bit_w 32.
Definition test_bit32 : Z -> list Z -> bool := test_bit_w 32.

Definition ctzl (v : Z) : Z := match v with Zpos p => pos_ctz p | _ => 64 end.
Fixpoint find_first_from (result : Z) (addr : list Z) (size : Z) : Z :=
  if result <? size then
    match addr with
    | [] => size
    | tmp :: addr =>
        if truthy tmp then
          let result := result + ctzl tmp in
          if result <? size then result else size
        else find_first_from (result + 64) addr size
    end
  else size.
Definition find_first_bit (addr : list Z) (size : Z) : Z := find_first_from 0 addr size.

(** ** Rotations and swaps *)

Definition rol (w word shift : Z) : Z :=
  wtrunc w (Z.shiftl word (shift &&& (w - 1)) ||| (word >>> (u32 (- shift) &&& (w - 1)))).
Definition ror (w word shift : Z) : Z :=
  wtrunc w ((word >>> (shift &&& (w - 1))) ||| Z.shiftl word (u32 (- shift) &&& (w - 1))).
Definition rol8 := rol 8.
Definition ror8 := ror 8.
Definition rol16 := rol 16.
Definition ror16 := ror 16.
Definition rol32 := rol 32.
Definition ror32 := ror 32.
Definition rol64 := rol 64.
Definition ror64 := ror 64.

Definition hswap32 (h : Z) : Z := rol32 h 16.
Definition hswap64 (h : Z) : Z :=
  let m := 0x0000ffff0000ffff in
  let h := rol64 h 32 in
  lsl64 (h &&& m) 16 ||| ((h >>> 16) &&& m).
Definition wswap64 (h : Z) : Z := rol64 h 32.

(** ** Fields; [None] when the assertion on the range fails *)

Definition bits_ok (w start length : Z) : bool := (0 <=? start) && (0 <? length) && (length <=? w - start).

Definition extract64 (value start length : Z) : option Z :=
  if bits_ok 64 start length then Some ((value >>> start) &&& (0xffffffffffffffff >>> (64 - length))) else None.
Definition sextract32 (value start length : Z) : option Z :=
  if bits_ok 32 start length then Some (s32 (lsl32 value (32 - length - start)) >>> (32 - length)) else None.
Definition sextract64 (value start length : Z) : option Z :=
  if bits_ok 64 start length then
    let x := lsl64 value (64 - length - start) in
    Some ((if x <? 2 ^ 63 then x else x - 2 ^ 64) >>> (64 - length))
  else None.
Definition deposit64 (value start length fieldval : Z) : option Z :=
  if bits_ok 64 start length then
    let mask := lsl64 (0xffffffffffffffff >>> (64 - length)) start in
    Some ((value &&& not64 mask) ||| (lsl64 fieldval start &&& mask))
  else None.

(** ** Shuffles *)


Definition half_shuffle32 (x : Z) : Z :=
  let x := lsl32 (x &&& 0xff00) 8 ||| (x &&& 0x00ff) in
  let x := (lsl32 x 4 ||| x) &&& 0x0f0f0f0f in
  let x := (lsl32 x 2 ||| x) &&& 0x33333333 in
  (lsl32 x 1 ||| x) &&& 0x55555555.
Definition half_shuffle64 (x : Z) : Z :=
  let x := lsl64 (x &&& 0xffff0000) 16 ||| (x &&& 0xffff) in
  let x := (lsl64 x 8 ||| x) &&& 0x00ff00ff00ff00ff in
  let x := (lsl64 x 4 ||| x) &&& 0x0f0f0f0f0f0f0f0f in
  let x := (lsl64 x 2 ||| x) &&& 0x3333333333333333 in
  (lsl64 x 1 ||| x) &&& 0x5555555555555555.
Definition half_unshuffle32 (x : Z) : Z :=
  let x := x &&& 0x55555555 in
  let x := ((x >>> 1) ||| x) &&& 0x33333333 in
  let x := ((x >>> 2) ||| x) &&& 0x0f0f0f0f in
  let x := ((x >>> 4) ||| x) &&& 0x00ff00ff in
  ((x >>> 8) ||| x) &&& 0x0000ffff.
Definition half_unshuffle64 (x : Z) : Z :=
  let x := x &&& 0x5555555555555555 in
  let x := ((x >>> 1) ||| x) &&& 0x3333333333333333 in
  let x := ((x >>> 2) ||| x) &&& 0x0f0f0f0f0f0f0f0f in
  let x := ((x >>> 4) ||| x) &&& 0x00ff00ff00ff00ff in
  let x := ((x >>> 8) ||| x) &&& 0x0000ffff0000ffff in
  ((x >>> 16) ||| x) &&& 0x00000000ffffffff.

(** ** Bitmaps are sets *)

Definition member (w : Z) (addr : list Z) (i : Z) : bool := Z.testbit (nthZ addr (i / w)) (i mod w).

Section bitmap.
Context (w : Z) (Hw : 0 < w).

Lemma mask_testbit nr k : 0 <= k < w -> Z.testbit (BIT_MASK w nr) k = (k =? nr mod w).
Proof.
  intros Hk. pose proof (Z.mod_pos_bound nr w Hw). unfold BIT_MASK, wtrunc. rewrite mod_pow2_testbit by lia.
  rewrite Z.shiftl_1_l, pow2_testbit by lia. by rewrite (proj2 (Z.ltb_lt k w)) by lia.
Qed.

Lemma same_bit nr i : 0 <= nr -> 0 <= i -> i / w = nr / w -> (i mod w =? nr mod w) = (i =? nr).
Proof.
  intros Hn Hi E. pose proof (Z.div_mod i w) as Di. pose proof (Z.div_mod nr w) as Dn.
  destruct (Z.eqb_spec i nr) as [->|Hne]; [apply Z.eqb_refl|]. apply Z.eqb_neq. intros Em. apply Hne. nia.
Qed.

(** A word is updated in a bitwise way [f] with the mask. *)
Lemma member_update (f : Z -> Z -> Z) (g : bool -> bool -> bool) addr nr i :
  (forall x k, 0 <= k < w -> Z.testbit (f x (BIT_MASK w nr)) k = g (Z.testbit x k) (Z.testbit (BIT_MASK w nr) k)) ->
  (forall b, g b false = b) ->
  0 <= nr < w * Z.of_nat (length addr) -> 0 <= i ->
  member w (setZ addr (BIT_WORD w nr) (f (nthZ addr (BIT_WORD w nr)) (BIT_MASK w nr))) i =
  g (member w addr i) (i =? nr).
Proof.
  intros Hf Hg Hn Hi. unfold member, BIT_WORD. pose proof (Z.mod_pos_bound i w Hw) as Hm.
  assert (Hq : 0 <= nr / w < Z.of_nat (length addr)) by (split; [apply Z.div_pos; lia | apply Z.div_lt_upper_bound; lia]).
  pose proof (Z.div_pos i w Hi Hw). destruct (decide (i / w = nr / w)) as [E|E].
  - rewrite E, nthZ_setZ_eq, Hf, mask_testbit by lia. by rewrite same_bit by lia.
  - rewrite nthZ_setZ_ne by lia. destruct (Z.eqb_spec i nr) as [->|]; [done|]. by rewrite Hg.
Qed.

Lemma old_bit_member addr nr : old_bit w nr addr = member w addr nr.
Proof.
  unfold old_bit, member, BIT_WORD. pose proof (Z.mod_pos_bound nr w Hw) as Hm. set (x := nthZ addr (nr / w)).
  destruct (Z.testbit x (nr mod w)) eqn:E.
  - apply truthy_true. intros H0. apply (f_equal (fun z => Z.testbit z (nr mod w))) in H0.
    rewrite Z.land_spec, E, mask_testbit, Z.eqb_refl, Z.bits_0 in H0 by lia. done.
  - apply truthy_false. apply Z.bits_inj'. intros k Hk. rewrite Z.land_spec, Z.bits_0.
    destruct (decide (k < w)) as [Hlt|Hge].
    + rewrite mask_testbit by lia. destruct (Z.eqb_spec k (nr mod w)) as [->|]; [by rewrite E | apply andb_false_r].
    + unfold BIT_MASK, wtrunc. rewrite mod_pow2_testbit, (proj2 (Z.ltb_ge k w)) by lia. apply andb_false_r.
Qed.

(** The operations on a bitmap are those on the set of its members. *)
Lemma bitmap_refines_set addr nr i :
  0 <= nr < w * Z.of_nat (length addr) -> 0 <= i ->
  member w (set_bit_w w nr addr) i = member w addr i || (i =? nr) /\
  member w (clear_bit_w w nr addr) i = member w addr i && negb (i =? nr) /\
  member w (change_bit_w w nr addr) i = xorb (member w addr i) (i =? nr) /\
  (test_and_set_bit_w w nr addr).1 = member w addr nr /\
  (test_and_clear_bit_w w nr addr).1 = member w addr nr /\
  (test_and_change_bit_w w nr addr).1 = member w addr nr.
Proof.
  intros Hn Hi. split_and!; [| | |apply old_bit_member..].
  - apply (member_update Z.lor orb); [intros; apply Z.lor_spec | by intros [] | done | done].
  - apply (member_update (fun x m => x &&& wtrunc w (Z.lnot m)) (fun a b => a && negb b));
      [| intros b; apply andb_true_r | done | done].
    intros x k Hk. rewrite Z.land_spec. unfold wtrunc. rewrite mod_pow2_testbit, Z.lnot_spec by lia.
    by rewrite (proj2 (Z.ltb_lt k w)) by lia.
  - apply (member_update Z.lxor xorb); [intros; apply Z.lxor_spec | by intros [] | done | done].
Qed.
End bitmap.

Lemma test_bit_member (n nr : Z) (addr : list Z) :
  0 <= n -> 0 <= nr -> test_bit_w (2 ^ n) nr addr = member (2 ^ n) addr nr.
Proof.
  intros Hn Hr. unfold test_bit_w, member, BIT_WORD.
  replace (2 ^ n - 1) with (Z.ones n) by (rewrite Z.ones_equiv; lia). rewrite Z.land_ones by done.
  set (x := nthZ _ _). set (k := nr mod 2 ^ n).
  assert (Hk : 0 <= k) by (apply Z.mod_pos_bound; lia).
  rewrite Z.land_comm. change 1 with (Z.ones 1). rewrite Z.land_ones by lia. change (2 ^ 1) with 2.
  rewrite <- Z.bit0_mod, Z.shiftr_spec, Z.add_0_l by lia. by destruct (Z.testbit x k).
Qed.

(** ** The first member *)

Definition least_from (addr : list Z) (lo size r : Z) : Prop :=
  (forall i, lo <= i < r -> member 64 addr (i - lo) = false) /\ (r = size \/ lo <= r < size /\ member 64 addr (r - lo) = true).

Lemma member_cons_low (x : Z) (l : list Z) (i : Z) : 0 <= i < 64 -> member 64 (x :: l) i = Z.testbit x i.
Proof. intros Hi. unfold member. rewrite Z.div_small, Z.mod_small by lia. done. Qed.
Lemma member_cons_high (x : Z) (l : list Z) (i : Z) : 64 <= i -> member 64 (x :: l) i = member 64 l (i - 64).
Proof.
  intros Hi. unfold member. replace i with (i - 64 + 1 * 64) at 1 2 by lia. rewrite Z.div_add, Z.mod_add by lia.
  pose proof (Z.div_pos (i - 64) 64 ltac:(lia) ltac:(lia)). unfold nthZ.
  replace (Z.to_nat ((i - 64) / 64 + 1)) with (S (Z.to_nat ((i - 64) / 64))) by lia. done.
Qed.

Lemma find_first_from_least (addr : list Z) : forall lo size,
  Forall in64 addr -> lo <= size <= lo + 64 * Z.of_nat (length addr) ->
  lo <= find_first_from lo addr size <= size /\ least_from addr lo size (find_first_from lo addr size).
Proof.
  induction addr as [|x addr IH]; intros lo size Hf Hs.
  - cbn in *. replace size with lo by lia. rewrite Z.ltb_irrefl. split; [lia|]. split; [lia | by left].
  - apply Forall_cons in Hf as [Hx Hf]. cbn [find_first_from length] in *.
    destruct (Z.ltb_spec lo size); [|replace size with lo by lia; split; [lia|]; split; [lia | by left]].
    destruct (truthy x) eqn:Ex.
    + apply truthy_true in Ex. unfold in64 in Hx. destruct x as [|p|p]; [done | | lia].
      pose proof (pos_ctz_nonneg p) as H0. destruct (pos_ctz_spec p) as [H1 H2]. cbn [ctzl].
      assert (Hc : pos_ctz p < 64).
      { apply Z.nle_gt. intros Hge. rewrite (testbit_above 64) in H1 by lia. done. }
      destruct (Z.ltb_spec (lo + pos_ctz p) size).
      * split; [lia|]. split; [|right; split; [lia|]].
        -- intros i Hi. rewrite member_cons_low by lia. apply H2. lia.
        -- by rewrite Z.add_simpl_l, member_cons_low by lia.
      * split; [lia|]. split; [|by left]. intros i Hi. rewrite member_cons_low by lia. apply H2. lia.
    + apply truthy_false in Ex as ->. destruct (decide (size <= lo + 64)) as [Hle|Hgt].
      * assert (E : find_first_from (lo + 64) addr size = size).
        { destruct addr; cbn; by rewrite (proj2 (Z.ltb_ge (lo + 64) size)) by lia. }
        rewrite E. split; [lia|]. split; [|by left]. intros i Hi. rewrite member_cons_low by lia. apply Z.testbit_0_l.
      * destruct (IH (lo + 64) size Hf) as (Hr & H1 & H2); [lia|]. split; [lia|]. split.
        -- intros i Hi. destruct (decide (i < lo + 64)).
           ++ rewrite member_cons_low by lia. apply Z.testbit_0_l.
           ++ rewrite member_cons_high by lia. replace (i - lo - 64) with (i - (lo + 64)) by lia. apply H1. lia.
        -- destruct H2 as [E|[Hb H2]]; [by left | right]. split; [lia|]. rewrite member_cons_high by lia.
           by replace (find_first_from (lo + 64) addr size - lo - 64)
             with (find_first_from (lo + 64) addr size - (lo + 64)) by lia.
Qed.

(** [find_first_bit] returns the least member below [size], or [size] when there is none. *)
Theorem find_first_bit_least (addr : list Z) (size : Z) :
  Forall in64 addr -> 0 <= size <= 64 * Z.of_nat (length addr) ->
  let r := find_first_bit addr size in
  (forall i, 0 <= i < r -> member 64 addr i = false) /\ (r = size \/ 0 <= r < size /\ member 64 addr r = true).
Proof.
  intros Hf Hs. destruct (find_first_from_least addr 0 size Hf) as (_ & H1 & H2); [lia|]. split.
  - intros i Hi. rewrite <- (Z.sub_0_r i). by apply H1.
  - unfold find_first_bit. by rewrite Z.sub_0_r in H2.
Qed.

(** ** Rotations *)

Lemma rot_counts (n shift : Z) : 0 <= n <= 32 ->
  let w := 2 ^ n in
  shift &&& (w - 1) = shift mod w /\ u32 (- shift) &&& (w - 1) = (- shift) mod w.
Proof.
  intros Hn w. subst w. replace (2 ^ n - 1) with (Z.ones n) by (rewrite Z.ones_equiv; lia).
  rewrite !Z.land_ones by lia. split; [done|]. unfold u32.
  replace (2 ^ 32) with (2 ^ n * 2 ^ (32 - n)) by (rewrite <- Z.pow_add_r by lia; f_equal; lia).
  rewrite Z.rem_mul_r by (apply Z.pow_nonzero || apply Z.pow_pos_nonneg; lia).
  rewrite Z.mul_comm, Z.mod_add by (apply Z.pow_nonzero; lia). apply Z.mod_mod, Z.pow_nonzero; lia.
Qed.

Lemma opp_mod (w s : Z) : 0 < w -> (- s) mod w = if s mod w =? 0 then 0 else w - s mod w.
Proof.
  intros Hw. destruct (Z.eqb_spec (s mod w) 0) as [E|E]; [apply Z.mod_opp_l_z; lia | apply Z.mod_opp_l_nz; lia].
Qed.

(** The bit [i] of a rotation to the left by [s] is the bit [i - s] modulo the width. *)
Lemma rol_testbit (n word shift i : Z) :
  0 <= n <= 6 -> 0 <= word < 2 ^ (2 ^ n) -> 0 <= i < 2 ^ n ->
  Z.testbit (rol (2 ^ n) word shift) i = Z.testbit word ((i - shift) mod 2 ^ n).
Proof.
  intros Hn Hx Hi. destruct (rot_counts n shift) as [E1 E2]; [lia|]. unfold rol, wtrunc. rewrite E1, E2, opp_mod by lia.
  set (w := 2 ^ n) in *. assert (Hw : 0 < w) by lia. pose proof (Z.mod_pos_bound shift w Hw) as Hs.
  rewrite mod_pow2_testbit, (proj2 (Z.ltb_lt i w)), Z.lor_spec, Z.shiftl_spec, Z.shiftr_spec by lia. cbn [andb].
  rewrite <- (Zminus_mod_idemp_r i shift w). set (s := shift mod w) in *.
  destruct (Z.eqb_spec s 0) as [->|Hne].
  - rewrite Z.sub_0_r, Z.add_0_r, Z.mod_small by lia. by destruct (Z.testbit word i).
  - destruct (decide (i < s)).
    + rewrite Z.testbit_neg_r by lia. rewrite <- (Z.mod_add (i - s) 1 w), Z.mod_small by lia. cbn [orb]. f_equal. lia.
    + rewrite Z.mod_small by lia. rewrite (testbit_above w word (i + (w - s))) by lia. apply orb_false_r.
Qed.

Lemma ror_rol (n word shift : Z) : 0 <= n <= 6 -> ror (2 ^ n) word shift = rol (2 ^ n) word (- shift).
Proof.
  intros Hn. destruct (rot_counts n shift) as [E1 E2]; [lia|]. destruct (rot_counts n (- shift)) as [F1 F2]; [lia|].
  unfold ror, rol. rewrite E1, E2, F1, F2, Z.opp_involutive. unfold wtrunc. by rewrite Z.lor_comm.
Qed.

Lemma rol_bounds (n word shift : Z) : 0 <= n -> 0 <= rol (2 ^ n) word shift < 2 ^ (2 ^ n).
Proof. intros Hn. apply Z.mod_pos_bound. lia. Qed.

(** Rotating back restores the word, for every width and count. *)
Theorem rotate_roundtrip (n word shift : Z) :
  0 <= n <= 6 -> 0 <= word < 2 ^ (2 ^ n) ->
  ror (2 ^ n) (rol (2 ^ n) word shift) shift = word /\ rol (2 ^ n) (ror (2 ^ n) word shift) shift = word.
Proof.
  intros Hn Hx. rewrite !ror_rol by done.
  assert (H : forall s, rol (2 ^ n) (rol (2 ^ n) word s) (- s) = word).
  { intros s. apply Z.bits_inj'. intros i Hi. destruct (decide (i < 2 ^ n)) as [Hlt|Hge].
    - pose proof (rol_bounds n word s ltac:(lia)). rewrite rol_testbit by lia.
      assert (0 <= (i - - s) mod 2 ^ n < 2 ^ n) by (apply Z.mod_pos_bound; lia). rewrite rol_testbit by lia.
      f_equal. rewrite Zminus_mod_idemp_l. replace (i - - s - s) with i by lia. apply Z.mod_small. lia.
    - rewrite !(testbit_above (2 ^ n)) by (lia || apply rol_bounds; lia). done. }
  split; [apply H|]. rewrite <- (Z.opp_involutive shift) at 2. apply H.
Qed.

(** ** Fields *)

Lemma field_mask_testbit (l i : Z) : 0 < l <= 64 -> 0 <= i -> Z.testbit (0xffffffffffffffff >>> (64 - l)) i = (i <? l).
Proof.
  intros Hl Hi. rewrite Z.shiftr_spec by done. change 0xffffffffffffffff with (2 ^ 64 - 1).
  rewrite ones_testbit by lia. cmp_split; done || lia.
Qed.

Lemma not64_testbit (x i : Z) : 0 <= i -> Z.testbit (not64 x) i = (i <? 64) && negb (Z.testbit x i).
Proof. intros. unfold not64. rewrite u64_testbit by done. by rewrite Z.lnot_spec. Qed.

Lemma bits_ok_spec (w s l : Z) : bits_ok w s l = true <-> 0 <= s /\ 0 < l /\ l <= w - s.
Proof. unfold bits_ok. rewrite !andb_true_iff, Z.leb_le, Z.ltb_lt, Z.leb_le. tauto. Qed.

(** [deposit64] writes a field and nothing else: [extract64] reads the value back, truncated to
    the width of the field, and every other bit is that of the old word. *)
Theorem field_roundtrip (v s l f : Z) :
  bits_ok 64 s l = true -> in64 v ->
  exists d, deposit64 v s l f = Some d /\ in64 d /\ extract64 d s l = Some (f mod 2 ^ l) /\
    forall i, 0 <= i -> i < s \/ s + l <= i -> Z.testbit d i = Z.testbit v i.
Proof.
  intros Hok Hv. pose proof (proj1 (bits_ok_spec _ _ _) Hok) as (Hs & Hl & Hw). unfold deposit64, extract64. rewrite Hok.
  set (mask := lsl64 _ s). set (d := (v &&& not64 mask) ||| (lsl64 f s &&& mask)).
  assert (Hm : forall i, 0 <= i -> Z.testbit mask i = (s <=? i) && (i <? s + l)).
  { intros i Hi. subst mask. rewrite lsl64_testbit by done. destruct (Z.leb_spec s i).
    - rewrite field_mask_testbit by lia. cmp_split; done || lia.
    - rewrite Z.testbit_neg_r by lia. apply andb_false_r. }
  assert (Hd : forall i, 0 <= i -> Z.testbit d i =
            if (s <=? i) && (i <? s + l) then Z.testbit f (i - s) else Z.testbit v i).
  { intros i Hi. subst d. rewrite Z.lor_spec, !Z.land_spec, not64_testbit, lsl64_testbit, Hm by done.
    destruct (Z.ltb_spec i 64) as [Hi64|Hi64].
    - destruct ((s <=? i) && (i <? s + l)); bool_simpl; done.
    - rewrite (testbit_above 64 v) by (unfold in64 in Hv; lia). cmp_split; bool_simpl; done || lia. }
  exists d. split_and!; [done | | |].
  - assert (Hnn : 0 <= d).
    { subst d. apply Z.lor_nonneg. split; apply Z.land_nonneg; [left; unfold in64 in Hv; lia | left; apply u64_bounds]. }
    split; [done|]. apply bounded_by_testbit; [lia | done |]. intros i Hi. rewrite Hd by lia.
    rewrite (proj2 (Z.ltb_ge i (s + l))) by lia. rewrite andb_false_r. apply (testbit_above 64); unfold in64 in Hv; lia.
  - f_equal. apply Z.bits_inj'. intros i Hi.
    rewrite Z.land_spec, field_mask_testbit, Z.shiftr_spec, Hd, mod_pow2_testbit by lia.
    replace (i + s - s) with i by lia. cmp_split; bool_simpl; done || lia.
  - intros i Hi Ho. rewrite Hd by done. cmp_split; bool_simpl; done || lia.
Qed.

Lemma extract64_div (v s l : Z) : bits_ok 64 s l = true -> extract64 v s l = Some ((v / 2 ^ s) mod 2 ^ l).
Proof.
  intros Hok. pose proof (proj1 (bits_ok_spec _ _ _) Hok) as (Hs & Hl & Hw). unfold extract64. rewrite Hok. f_equal.
  rewrite <- Z.shiftr_div_pow2 by done. apply Z.bits_inj'. intros i Hi.
  rewrite Z.land_spec, field_mask_testbit, mod_pow2_testbit by lia. by rewrite andb_comm.
Qed.

(** [sextract64] is [extract64] with the sign of its top bit. *)
Theorem sextract64_signed (v s l : Z) :
  bits_ok 64 s l = true ->
  exists x, extract64 v s l = Some x /\ sextract64 v s l = Some (if x <? 2 ^ (l - 1) then x else x - 2 ^ l).
Proof.
  intros Hok. pose proof (proj1 (bits_ok_spec _ _ _) Hok) as (Hs & Hl & Hw).
  exists ((v / 2 ^ s) mod 2 ^ l). split; [by apply extract64_div|]. unfold sextract64. rewrite Hok. f_equal.
  set (x := (v / 2 ^ s) mod 2 ^ l). set (y := lsl64 v (64 - l - s)).
  assert (Hx : 0 <= x < 2 ^ l) by (apply Z.mod_pos_bound, Z.pow_pos_nonneg; lia).
  assert (Hp : 2 ^ l = 2 * 2 ^ (l - 1)) by (rewrite <- Z.pow_succ_r by lia; f_equal; lia).
  assert (P64 : 2 ^ 64 = 2 ^ (64 - l) * 2 ^ l) by (rewrite <- Z.pow_add_r by lia; f_equal; lia).
  assert (P63 : 2 ^ 63 = 2 ^ (64 - l) * 2 ^ (l - 1)) by (rewrite <- Z.pow_add_r by lia; f_equal; lia).
  assert (Hk : 0 < 2 ^ (64 - l)) by (apply Z.pow_pos_nonneg; lia).
  assert (Hy : exists r, y = 2 ^ (64 - l) * x + r /\ 0 <= r < 2 ^ (64 - l)).
  { exists (y mod 2 ^ (64 - l)). split; [|by apply Z.mod_pos_bound].
    rewrite (Z.div_mod y (2 ^ (64 - l))) at 1 by lia. do 2 f_equal. subst x y. apply Z.bits_inj'. intros i Hi.
    rewrite <- !Z.shiftr_div_pow2 by lia. rewrite mod_pow2_testbit, !Z.shiftr_spec, lsl64_testbit by lia.
    replace (i + (64 - l) - (64 - l - s)) with (i + s) by lia. f_equal. cmp_split; done || lia. }
  destruct Hy as (r & -> & Hr). set (k := 2 ^ (64 - l)) in *. rewrite Z.shiftr_div_pow2 by lia. fold k.
  rewrite P63, P64. destruct (Z.ltb_spec x (2 ^ (l - 1))).
  - rewrite (proj2 (Z.ltb_lt _ _)) by nia. symmetry. apply (Z.div_unique_pos _ _ _ r); lia.
  - rewrite (proj2 (Z.ltb_ge _ _)) by nia. symmetry. apply (Z.div_unique_pos _ _ _ r); lia.
Qed.

(** ** Permutations of bits *)

(** A function that acts on each bit separately. *)
Definition additive (f : Z -> Z) : Prop := forall x y, f (x ||| y) = f x ||| f y.

Lemma additive_id : additive (fun x => x).
Proof. done. Qed.
Lemma additive_land (f : Z -> Z) (m : Z) : additive f -> additive (fun x => f x &&& m).
Proof. intros Hf x y. by rewrite Hf, Z.land_lor_distr_l. Qed.
Lemma additive_lor (f g : Z -> Z) : additive f -> additive g -> additive (fun x => f x ||| g x).
Proof.
  intros Hf Hg x y. rewrite Hf, Hg. rewrite <- !Z.lor_assoc. f_equal. rewrite !Z.lor_assoc. f_equal. apply Z.lor_comm.
Qed.
Lemma additive_shiftr (f : Z -> Z) (n : Z) : additive f -> additive (fun x => f x >>> n).
Proof. intros Hf x y. by rewrite Hf, Z.shiftr_lor. Qed.
Lemma additive_shiftl (f : Z -> Z) (n : Z) : additive f -> additive (fun x => Z.shiftl (f x) n).
Proof. intros Hf x y. by rewrite Hf, Z.shiftl_lor. Qed.
Lemma additive_mod (f : Z -> Z) (n : Z) : 0 <= n -> additive f -> additive (fun x => f x mod 2 ^ n).
Proof. intros Hn Hf x y. rewrite Hf. rewrite <- !Z.land_ones by done. apply Z.land_lor_distr_l. Qed.

Create HintDb additive.
#[export] Hint Resolve additive_id additive_land additive_lor additive_shiftr additive_shiftl additive_mod : additive.
#[export] Hint Extern 1 (0 <= _) => lia : additive.

(** Such a function is determined by its values at the powers of 2. *)
Lemma additive_bits (f : Z -> Z) : additive f -> f 0 = 0 -> forall (n : nat) (x j : Z),
  0 <= x < 2 ^ Z.of_nat n ->
  Z.testbit (f x) j = existsb (fun k => Z.testbit x k && Z.testbit (f (2 ^ k)) j) (seqZ 0 (Z.of_nat n)).
Proof.
  intros Hf H0. induction n as [|n IH]; intros x j Hx.
  - replace x with 0 by (cbn in Hx; lia). rewrite H0. apply Z.testbit_0_l.
  - rewrite seqZ_S, existsb_app. cbn [existsb]. rewrite Z.add_0_l, orb_false_r.
    set (N := Z.of_nat n) in *. assert (HN : 0 <= N) by lia.
    assert (E : x = (x mod 2 ^ N) ||| (if Z.testbit x N then 2 ^ N else 0)).
    { apply Z.bits_inj'. intros i Hi. rewrite Z.lor_spec, mod_pow2_testbit by lia.
      assert (Ht : Z.testbit (if Z.testbit x N then 2 ^ N else 0) i = Z.testbit x N && (i =? N)).
      { destruct (Z.testbit x N); [by rewrite pow2_testbit | apply Z.testbit_0_l]. }
      rewrite Ht. destruct (Z.ltb_spec i N); cbn [andb orb].
      - rewrite (proj2 (Z.eqb_neq i N)), andb_false_r by lia. by rewrite orb_false_r.
      - destruct (Z.eqb_spec i N) as [->|]; [by rewrite andb_true_r|]. rewrite andb_false_r.
        apply (testbit_above (N + 1)); [|lia]. by rewrite Nat2Z.inj_succ in Hx. }
    rewrite E at 1. rewrite Hf, Z.lor_spec, IH by (apply Z.mod_pos_bound; lia). f_equal.
    + assert (Hin : forall k, In k (seqZ 0 N) -> Z.testbit (x mod 2 ^ N) k = Z.testbit x k).
      { intros k Hk%list_elem_of_In%elem_of_seqZ. rewrite mod_pow2_testbit by lia.
        by rewrite (proj2 (Z.ltb_lt k N)) by lia. }
      revert Hin. generalize (seqZ 0 N) as l. induction l as [|k l IHl]; intros Hin; [done|]. cbn.
      rewrite IHl by (intros; apply Hin; by right). by rewrite Hin by (by left).
    + destruct (Z.testbit x N); [done|]. rewrite H0. apply Z.testbit_0_l.
Qed.

(** [f] moves bit [k] of an [n]-bit word to [p k]; [q] is the inverse. *)
Record moves (n : nat) (f : Z -> Z) (p q : Z -> option Z) : Prop := {
  moves_additive : additive f;
  moves_zero : f 0 = 0;
  moves_table : forallb (fun k => f (2 ^ k) =? match p k with Some i => 2 ^ i | None => 0 end) (seqZ 0 (Z.of_nat n)) = true;
  moves_target : forall k i, 0 <= k < Z.of_nat n -> p k = Some i -> 0 <= i;
  moves_inverse : forall j k, 0 <= j -> q j = Some k <-> 0 <= k < Z.of_nat n /\ p k = Some j
}.

Lemma moves_testbit (n : nat) (f : Z -> Z) (p q : Z -> option Z) (x j : Z) :
  moves n f p q -> 0 <= x < 2 ^ Z.of_nat n -> 0 <= j ->
  Z.testbit (f x) j = match q j with Some k => Z.testbit x k | None => false end.
Proof.
  intros [Hf H0 Ht Hg Hi] Hx Hj. rewrite (additive_bits f Hf H0 n) by done. rewrite forallb_forall in Ht.
  assert (Hb : forall k, In k (seqZ 0 (Z.of_nat n)) -> Z.testbit (f (2 ^ k)) j = true <-> q j = Some k).
  { intros k Hk. pose proof (Ht k Hk) as E%Z.eqb_eq. rewrite E. apply list_elem_of_In, elem_of_seqZ in Hk.
    rewrite Hi by done. destruct (p k) as [i|] eqn:Ep.
    - assert (0 <= i) by (apply (Hg k); [lia | done]). rewrite pow2_testbit, Z.eqb_eq by done.
      split; [intros ->; split; [lia | done] | by intros [_ [= ->]]].
    - rewrite Z.testbit_0_l. split; [done | by intros [_ ?]]. }
  apply eq_true_iff_eq. rewrite existsb_exists. split.
  - intros (k & Hk & [Hxk Hfk]%andb_true_iff). by rewrite (proj1 (Hb k Hk) Hfk).
  - destruct (q j) as [k|] eqn:Eq; [|done]. intros Hxk. exists k.
    assert (Hk : In k (seqZ 0 (Z.of_nat n))).
    { apply list_elem_of_In, elem_of_seqZ. destruct (proj1 (Hi j k Hj) Eq). lia. }
    split; [done|]. rewrite Hxk. by apply (Hb k Hk).
Qed.

(** Positions as the functions leave them. *)
Definition doubled (h k : Z) : option Z := if k <? h then Some (2 * k) else None.
Definition halved (h j : Z) : option Z := if Z.even j && (j <? 2 * h) then Some (j / 2) else None.

Lemma doubled_halved (h j k : Z) : 0 <= j -> halved h j = Some k <-> 0 <= k < 2 * h /\ doubled h k = Some j.
Proof.
  intros Hj. unfold doubled, halved. destruct (Z.even j) eqn:E; cbn [andb].
  - apply Z.even_spec in E as [m ->]. replace (2 * m / 2) with m by (rewrite Z.mul_comm, Z.div_mul; lia).
    destruct (Z.ltb_spec (2 * m) (2 * h)); split.
    + intros [= <-]. rewrite (proj2 (Z.ltb_lt m h)) by lia. split; [lia | done].
    + intros [Hk Hd]. destruct (k <? h); [|done]. injection Hd as Hd. f_equal. lia.
    + done.
    + intros [Hk Hd]. destruct (Z.ltb_spec k h); [|done]. injection Hd as Hd. lia.
  - split; [done|]. intros [Hk Hd]. destruct (k <? h); [|done]. injection Hd as <-. by rewrite Z.even_mul in E.
Qed.

Lemma halved_doubled (h j k : Z) : 0 <= j -> 0 <= h -> doubled h j = Some k <-> 0 <= k < 2 * h /\ halved h k = Some j.
Proof.
  intros Hj Hh. split.
  - intros Hd. assert (Hk : 0 <= k < 2 * h) by (unfold doubled in Hd; cmp_split; destruct (Z.ltb_spec j h); simplify_eq; lia).
    split; [done|]. apply doubled_halved; [lia|]. split; [|done]. unfold doubled in Hd. destruct (Z.ltb_spec j h); [lia | done].
  - intros [Hk Hd]. apply doubled_halved in Hd as [_ Hd]; [done | lia].
Qed.

Ltac solve_additive f := unfold additive; change (additive f); unfold f, lsl32, lsl64, u32, u64; cbv zeta; auto 40 with additive.

Lemma half_shuffle32_moves : moves 32 half_shuffle32 (doubled 16) (halved 16).
Proof.
  constructor; [solve_additive half_shuffle32 | done | by vm_compute | | by intros; apply doubled_halved].
  intros k i Hk. unfold doubled. destruct (_ <? _); [intros [= <-]; lia | done].
Qed.
Lemma half_shuffle64_moves : moves 64 half_shuffle64 (doubled 32) (halved 32).
Proof.
  constructor; [solve_additive half_shuffle64 | done | by vm_compute | | by intros; apply doubled_halved].
  intros k i Hk. unfold doubled. destruct (_ <? _); [intros [= <-]; lia | done].
Qed.
Lemma half_unshuffle32_moves : moves 32 half_unshuffle32 (halved 16) (doubled 16).
Proof.
  constructor; [solve_additive half_unshuffle32 | done | by vm_compute | | by intros; apply halved_doubled].
  intros k i Hk [Hi _]%doubled_halved; lia.
Qed.
Lemma half_unshuffle64_moves : moves 64 half_unshuffle64 (halved 32) (doubled 32).
Proof.
  constructor; [solve_additive half_unshuffle64 | done | by vm_compute | | by intros; apply halved_doubled].
  intros k i Hk [Hi _]%doubled_halved; lia.
Qed.

Lemma moves_range (n : nat) (f : Z -> Z) (p q : Z -> option Z) (x m : Z) :
  moves n f p q -> 0 <= x < 2 ^ Z.of_nat n -> 0 <= m -> 0 <= f x -> (forall j, m <= j -> q j = None) -> 0 <= f x < 2 ^ m.
Proof.
  intros Hm Hx Hm0 Hf Hq. split; [done|]. apply bounded_by_testbit; [done | done |]. intros i Hi.
  rewrite (moves_testbit n f p q) by (done || lia). by rewrite Hq.
Qed.

(** The half shuffle spreads the low half of a word over its even bits, and the unshuffle
    gathers the even bits: the second inverts the first on the low half. *)
Theorem shuffle_roundtrip (x : Z) : in64 x ->
  half_unshuffle64 (half_shuffle64 x) = u32 x /\
  (forall j, 0 <= j -> Z.testbit (half_shuffle64 x) j = Z.even j && (j <? 64) && Z.testbit x (j / 2)) /\
  (forall j, 0 <= j -> Z.testbit (half_unshuffle64 x) j = (j <? 32) && Z.testbit x (2 * j)).
Proof.
  intros Hx.
  assert (Hs : forall j, 0 <= j -> Z.testbit (half_shuffle64 x) j = Z.even j && (j <? 64) && Z.testbit x (j / 2)).
  { intros j Hj. rewrite (moves_testbit 64 _ _ _ _ _ half_shuffle64_moves Hx Hj). unfold halved.
    change (2 * 32) with 64. by destruct (Z.even j && (j <? 64)). }
  assert (Hu : forall y j, in64 y -> 0 <= j -> Z.testbit (half_unshuffle64 y) j = (j <? 32) && Z.testbit y (2 * j)).
  { intros y j Hy Hj. rewrite (moves_testbit 64 _ _ _ _ _ half_unshuffle64_moves Hy Hj). unfold doubled.
    by destruct (j <? 32). }
  split_and!; [|done | by intros; apply Hu].
  assert (Hr : in64 (half_shuffle64 x)).
  { apply (moves_range 64 _ _ _ _ 64 half_shuffle64_moves); [done | lia | |].
    - unfold half_shuffle64. cbv zeta. apply Z.land_nonneg. right. lia.
    - intros j Hj. unfold halved. rewrite (proj2 (Z.ltb_ge j (2 * 32))) by lia. by rewrite andb_false_r. }
  apply Z.bits_inj'. intros j Hj. rewrite Hu, Hs, u32_testbit by (done || lia).
  rewrite Z.even_mul. replace (2 * j / 2) with j by (rewrite Z.mul_comm, Z.div_mul; lia).
  cbn [Z.even orb andb]. cmp_split; bool_simpl; done || lia.
Qed.

(** [hswap64] reverses the order of the 16-bit quarters of a word. *)
Definition quarter (k : Z) : option Z := if k <? 64 then Some (16 * (3 - k / 16) + k mod 16) else None.

Lemma quarter_involutive (j k : Z) : 0 <= j -> quarter j = Some k <-> 0 <= k < 64 /\ quarter k = Some j.
Proof.
  assert (H : forall a b, 0 <= a -> quarter a = Some b -> 0 <= b < 64 /\ quarter b = Some a).
  { intros a b Ha. unfold quarter. destruct (Z.ltb_spec a 64); [|done]. intros [= <-].
    pose proof (Z.div_mod a 16 ltac:(lia)). pose proof (Z.mod_pos_bound a 16 ltac:(lia)).
    set (q := a / 16) in *. set (r := a mod 16) in *. split; [lia|].
    rewrite (proj2 (Z.ltb_lt _ _)) by lia. f_equal.
    rewrite (Z.mul_comm 16 (3 - q)), Z.div_add_l, Z.div_small by lia.
    rewrite (Z.add_comm _ r), Z.mod_add, Z.mod_small by lia. lia. }
  intros Hj. split; [by apply H | intros [Hk E]; apply H; [lia | done]].
Qed.

Lemma hswap64_moves : moves 64 hswap64 quarter quarter.
Proof.
  constructor; [| done | by vm_compute | | by intros; apply quarter_involutive].
  - change (additive hswap64). unfold hswap64, rol64, rol, wtrunc, lsl64, u64. cbv zeta. auto 40 with additive.
  - intros k i Hk [Hi _]%quarter_involutive; lia.
Qed.

Theorem hswap64_involutive (h : Z) : in64 h ->
  hswap64 (hswap64 h) = h /\
  forall j, 0 <= j < 64 -> Z.testbit (hswap64 h) j = Z.testbit h (16 * (3 - j / 16) + j mod 16).
Proof.
  intros Hh. assert (Hr : in64 (hswap64 h)).
  { apply (moves_range 64 _ _ _ _ 64 hswap64_moves); [done | lia | |].
    - unfold hswap64. cbv zeta. apply Z.lor_nonneg. split; [apply u64_bounds | apply Z.land_nonneg; right; lia].
    - intros j Hj. unfold quarter. by rewrite (proj2 (Z.ltb_ge j 64)) by lia. }
  split.
  - apply Z.bits_inj'. intros j Hj. rewrite (moves_testbit 64 _ _ _ _ _ hswap64_moves Hr Hj).
    destruct (quarter j) as [k|] eqn:E.
    + apply quarter_involutive in E as [Hk E]; [|done]. rewrite (moves_testbit 64 _ _ _ _ _ hswap64_moves Hh) by lia.
      by rewrite E.
    + unfold quarter in E. destruct (Z.ltb_spec j 64); [done|]. symmetry. by apply (testbit_above 64).
  - intros j Hj. rewrite (moves_testbit 64 _ _ _ _ _ hswap64_moves Hh) by lia. unfold quarter.
    by rewrite (proj2 (Z.ltb_lt j 64)) by lia.
Qed.
