(* ===== verification/Job.v ===== *)
(** * Jobs ([job.c])

    Long-running operations with a life cycle: the table of status changes, the
    commands of the monitor, and transactions of jobs that complete together.  The
    store holds the jobs and the transactions by address, so that a job that is
    freed is gone and a use of it is undefined.  The callbacks of a driver are recorded
    in order and what they return is an argument; they do not change the jobs.  The
    mutex is held throughout, as each operation requires. *)

From stdpp Require Import gmap strings.
From S2P Require Import Prelude.

#[local] Open Scope Z_scope.

(** ** Data *)

Inductive JobStatus :=
| JOB_STATUS_UNDEFINED | JOB_STATUS_CREATED | JOB_STATUS_RUNNING | JOB_STATUS_PAUSED | JOB_STATUS_READY
| JOB_STATUS_STANDBY | JOB_STATUS_WAITING | JOB_STATUS_PENDING | JOB_STATUS_ABORTING | JOB_STATUS_CONCLUDED
| JOB_STATUS_NULL.
Inductive JobVerb :=
| JOB_VERB_CANCEL | JOB_VERB_PAUSE | JOB_VERB_RESUME | JOB_VERB_SET_SPEED | JOB_VERB_COMPLETE | JOB_VERB_FINALIZE
| JOB_VERB_DISMISS | JOB_VERB_CHANGE.

#[export] Instance job_status_eq_dec : EqDecision JobStatus.
Proof. solve_decision. Defined.

Definition status_index (s : JobStatus) : nat :=
  match s with
  | JOB_STATUS_UNDEFINED => 0 | JOB_STATUS_CREATED => 1 | JOB_STATUS_RUNNING => 2 | JOB_STATUS_PAUSED => 3
  | JOB_STATUS_READY => 4 | JOB_STATUS_STANDBY => 5 | JOB_STATUS_WAITING => 6 | JOB_STATUS_PENDING => 7
  | JOB_STATUS_ABORTING => 8 | JOB_STATUS_CONCLUDED => 9 | JOB_STATUS_NULL => 10
  end.
Definition verb_index (v : JobVerb) : nat :=
  match v with
  | JOB_VERB_CANCEL => 0 | JOB_VERB_PAUSE => 1 | JOB_VERB_RESUME => 2 | JOB_VERB_SET_SPEED => 3
  | JOB_VERB_COMPLETE => 4 | JOB_VERB_FINALIZE => 5 | JOB_VERB_DISMISS => 6 | JOB_VERB_CHANGE => 7
  end.

Definition job_table_at (t : list (list Z)) (i j : nat) : bool := truthy (nth j (nth i t []) 0).

Definition JobSTT : JobStatus -> JobStatus -> bool := fun s0 s1 => job_table_at
  [        (* U, C, R, P, Y, S, W, D, X, E, N *)
    (* U *) [0; 1; 0; 0; 0; 0; 0; 0; 0; 0; 0];
    (* C *) [0; 0; 1; 0; 0; 0; 0; 0; 1; 0; 1];
    (* R *) [0; 0; 0; 1; 1; 0; 1; 0; 1; 0; 0];
    (* P *) [0; 0; 1; 0; 0; 0; 0; 0; 0; 0; 0];
    (* Y *) [0; 0; 0; 0; 0; 1; 1; 0; 1; 0; 0];
    (* S *) [0; 0; 0; 0; 1; 0; 0; 0; 0; 0; 0];
    (* W *) [0; 0; 0; 0; 0; 0; 0; 1; 1; 0; 0];
    (* D *) [0; 0; 0; 0; 0; 0; 0; 0; 1; 1; 0];
    (* X *) [0; 0; 0; 0; 0; 0; 0; 0; 1; 1; 0];
    (* E *) [0; 0; 0; 0; 0; 0; 0; 0; 0; 0; 1];
    (* N *) [0; 0; 0; 0; 0; 0; 0; 0; 0; 0; 0]] (status_index s0) (status_index s1).

Definition JobVerbTable : JobVerb -> JobStatus -> bool := fun v s => job_table_at
  [ (* CANCEL *)    [0; 1; 1; 1; 1; 1; 1; 1; 0; 0; 0];
    (* PAUSE *)     [0; 1; 1; 1; 1; 1; 0; 0; 0; 0; 0];
    (* RESUME *)    [0; 1; 1; 1; 1; 1; 0; 0; 0; 0; 0];
    (* SET_SPEED *) [0; 1; 1; 1; 1; 1; 0; 0; 0; 0; 0];
    (* COMPLETE *)  [0; 0; 0; 0; 1; 1; 0; 0; 0; 0; 0];
    (* FINALIZE *)  [0; 0; 0; 0; 0; 0; 0; 1; 0; 0; 0];
    (* DISMISS *)   [0; 0; 0; 0; 0; 0; 0; 0; 0; 1; 0];
    (* CHANGE *)    [0; 1; 1; 1; 1; 1; 0; 0; 0; 0; 0]] (verb_index v) (status_index s).

(** Which callbacks a driver has, and what they return. *)
Record JobDriver := mkDriver {
  drv_prepare : option Z;
  drv_cancel : option (bool -> bool);
  drv_commit : bool; drv_abort : bool; drv_clean : bool; drv_free : bool;
  drv_pause : bool; drv_resume : bool; drv_user_resume : bool;
  drv_complete : option bool  (** whether it succeeds *)
}.

Record Job := mkJob {
  j_id : option string;
  j_driver : JobDriver;
  j_refcnt : Z;
  j_status : JobStatus;
  j_ret : Z;
  j_err : bool;
  j_co : bool;
  j_busy : bool;
  j_paused : bool;
  j_pause_count : Z;
  j_user_paused : bool;
  j_cancelled : bool;
  j_force_cancel : bool;
  j_deferred_to_main_loop : bool;
  j_auto_finalize : bool;
  j_auto_dismiss : bool;
  j_cb : bool;
  j_sleep_timer : bool;
  j_txn : option Z
}.

Definition set_refcnt (v : Z) (j : Job) : Job :=
  mkJob (j_id j) (j_driver j) v (j_status j) (j_ret j) (j_err j) (j_co j) (j_busy j) (j_paused j) (j_pause_count j) (j_user_paused j) (j_cancelled j) (j_force_cancel j) (j_deferred_to_main_loop j) (j_auto_finalize j) (j_auto_dismiss j) (j_cb j) (j_sleep_timer j) (j_txn j).
Definition set_status (v : JobStatus) (j : Job) : Job :=
  mkJob (j_id j) (j_driver j) (j_refcnt j) v (j_ret j) (j_err j) (j_co j) (j_busy j) (j_paused j) (j_pause_count j) (j_user_paused j) (j_cancelled j) (j_force_cancel j) (j_deferred_to_main_loop j) (j_auto_finalize j) (j_auto_dismiss j) (j_cb j) (j_sleep_timer j) (j_txn j).
Definition set_ret_ (v : Z) (j : Job) : Job :=
  mkJob (j_id j) (j_driver j) (j_refcnt j) (j_status j) v (j_err j) (j_co j) (j_busy j) (j_paused j) (j_pause_count j) (j_user_paused j) (j_cancelled j) (j_force_cancel j) (j_deferred_to_main_loop j) (j_auto_finalize j) (j_auto_dismiss j) (j_cb j) (j_sleep_timer j) (j_txn j).
Definition set_err (v : bool) (j : Job) : Job :=
  mkJob (j_id j) (j_driver j) (j_refcnt j) (j_status j) (j_ret j) v (j_co j) (j_busy j) (j_paused j) (j_pause_count j) (j_user_paused j) (j_cancelled j) (j_force_cancel j) (j_deferred_to_main_loop j) (j_auto_finalize j) (j_auto_dismiss j) (j_cb j) (j_sleep_timer j) (j_txn j).
Definition set_co (v : bool) (j : Job) : Job :=
  mkJob (j_id j) (j_driver j) (j_refcnt j) (j_status j) (j_ret j) (j_err j) v (j_busy j) (j_paused j) (j_pause_count j) (j_user_paused j) (j_cancelled j) (j_force_cancel j) (j_deferred_to_main_loop j) (j_auto_finalize j) (j_auto_dismiss j) (j_cb j) (j_sleep_timer j) (j_txn j).
Definition set_busy (v : bool) (j : Job) : Job :=
  mkJob (j_id j) (j_driver j) (j_refcnt j) (j_status j) (j_ret j) (j_err j) (j_co j) v (j_paused j) (j_pause_count j) (j_user_paused j) (j_cancelled j) (j_force_cancel j) (j_deferred_to_main_loop j) (j_auto_finalize j) (j_auto_dismiss j) (j_cb j) (j_sleep_timer j) (j_txn j).
Definition set_paused (v : bool) (j : Job) : Job :=
  mkJob (j_id j) (j_driver j) (j_refcnt j) (j_status j) (j_ret j) (j_err j) (j_co j) (j_busy j) v (j_pause_count j) (j_user_paused j) (j_cancelled j) (j_force_cancel j) (j_deferred_to_main_loop j) (j_auto_finalize j) (j_auto_dismiss j) (j_cb j) (j_sleep_timer j) (j_txn j).
Definition set_pause_count (v : Z) (j : Job) : Job :=
  mkJob (j_id j) (j_driver j) (j_refcnt j) (j_status j) (j_ret j) (j_err j) (j_co j) (j_busy j) (j_paused j) v (j_user_paused j) (j_cancelled j) (j_force_cancel j) (j_deferred_to_main_loop j) (j_auto_finalize j) (j_auto_dismiss j) (j_cb j) (j_sleep_timer j) (j_txn j).
Definition set_user_paused (v : bool) (j : Job) : Job :=
  mkJob (j_id j) (j_driver j) (j_refcnt j) (j_status j) (j_ret j) (j_err j) (j_co j) (j_busy j) (j_paused j) (j_pause_count j) v (j_cancelled j) (j_force_cancel j) (j_deferred_to_main_loop j) (j_auto_finalize j) (j_auto_dismiss j) (j_cb j) (j_sleep_timer j) (j_txn j).
Definition set_cancelled (v : bool) (j : Job) : Job :=
  mkJob (j_id j) (j_driver j) (j_refcnt j) (j_status j) (j_ret j) (j_err j) (j_co j) (j_busy j) (j_paused j) (j_pause_count j) (j_user_paused j) v (j_force_cancel j) (j_deferred_to_main_loop j) (j_auto_finalize j) (j_auto_dismiss j) (j_cb j) (j_sleep_timer j) (j_txn j).
Definition set_force_cancel (v : bool) (j : Job) : Job :=
  mkJob (j_id j) (j_driver j) (j_refcnt j) (j_status j) (j_ret j) (j_err j) (j_co j) (j_busy j) (j_paused j) (j_pause_count j) (j_user_paused j) (j_cancelled j) v (j_deferred_to_main_loop j) (j_auto_finalize j) (j_auto_dismiss j) (j_cb j) (j_sleep_timer j) (j_txn j).
Definition set_deferred_to_main_loop (v : bool) (j : Job) : Job :=
  mkJob (j_id j) (j_driver j) (j_refcnt j) (j_status j) (j_ret j) (j_err j) (j_co j) (j_busy j) (j_paused j) (j_pause_count j) (j_user_paused j) (j_cancelled j) (j_force_cancel j) v (j_auto_finalize j) (j_auto_dismiss j) (j_cb j) (j_sleep_timer j) (j_txn j).
Definition set_sleep_timer (v : bool) (j : Job) : Job :=
  mkJob (j_id j) (j_driver j) (j_refcnt j) (j_status j) (j_ret j) (j_err j) (j_co j) (j_busy j) (j_paused j) (j_pause_count j) (j_user_paused j) (j_cancelled j) (j_force_cancel j) (j_deferred_to_main_loop j) (j_auto_finalize j) (j_auto_dismiss j) (j_cb j) v (j_txn j).
Definition set_txn (v : option Z) (j : Job) : Job :=
  mkJob (j_id j) (j_driver j) (j_refcnt j) (j_status j) (j_ret j) (j_err j) (j_co j) (j_busy j) (j_paused j) (j_pause_count j) (j_user_paused j) (j_cancelled j) (j_force_cancel j) (j_deferred_to_main_loop j) (j_auto_finalize j) (j_auto_dismiss j) (j_cb j) (j_sleep_timer j) v.

Record JobTxn := mkTxn { t_aborting : bool; t_jobs : list Z; t_refcnt : Z }.

Inductive jevent :=
| EvStatus (j : Z) (s : JobStatus)
| EvCommit (j : Z) | EvAbort (j : Z) | EvClean (j : Z) | EvCb (j ret : Z)
| EvCall (name : string) (j : Z)
| EvNotify (name : string) (j : Z).

Record jstate := mkJState {
  jobs : gmap Z Job;
  job_list : list Z;
  txns : gmap Z JobTxn;
  jlog : list jevent  (** latest first *)
}.
Abbreviation jobM := (M jstate).

Definition set_jobs (m : gmap Z Job) (s : jstate) : jstate := mkJState m (job_list s) (txns s) (jlog s).
Definition set_job_list (l : list Z) (s : jstate) : jstate := mkJState (jobs s) l (txns s) (jlog s).
Definition set_txns (m : gmap Z JobTxn) (s : jstate) : jstate := mkJState (jobs s) (job_list s) m (jlog s).
Definition emit_job (e : jevent) : jobM unit :=
  modify (fun s => mkJState (jobs s) (job_list s) (txns s) (e :: jlog s)).

(** Dereferences; a freed object is undefined. *)
Definition deref (j : Z) : jobM Job := fun s =>
  match jobs s !! j with Some job => Done job s | None => AssertFail end.
Definition on_job (j : Z) (f : Job -> Job) : jobM unit :=
  job <- deref j ;; modify (fun s => set_jobs (<[j := f job]> (jobs s)) s).
Definition deref_txn (t : Z) : jobM JobTxn := fun s =>
  match txns s !! t with Some txn => Done txn s | None => AssertFail end.
Definition on_txn (t : Z) (f : JobTxn -> JobTxn) : jobM unit :=
  txn <- deref_txn t ;; modify (fun s => set_txns (<[t := f txn]> (txns s)) s).

Definition is_some {A} (o : option A) : bool := match o with Some _ => true | None => false end.
Definition callback (b : bool) (e : jevent) : jobM unit := when b (emit_job e).

(** ** Status *)

Definition job_is_internal (job : Job) : bool := negb (is_some (j_id job)).

Definition job_state_transition_locked (j : Z) (s1 : JobStatus) : jobM unit :=
  job <- deref j ;;
  massert (JobSTT (j_status job) s1) ;;
  on_job j (set_status s1) ;;
  when (negb (job_is_internal job) && negb (bool_decide (s1 = j_status job))) (emit_job (EvStatus j s1)).

Definition EPERM : Z := 1.
Definition EBUSY : Z := 16.
Definition ECANCELED : Z := 125.

Definition job_apply_verb_locked (j : Z) (verb : JobVerb) : jobM Z :=
  job <- deref j ;; ret (if JobVerbTable verb (j_status job) then 0 else - EPERM).

Definition job_is_cancelled_locked (j : Z) : jobM bool :=
  job <- deref j ;; massert (j_cancelled job || negb (j_force_cancel job)) ;; ret (j_force_cancel job).

Definition status_ready (s : JobStatus) : bool :=
  match s with JOB_STATUS_READY | JOB_STATUS_STANDBY => true | _ => false end.
Definition job_is_ready_locked (j : Z) : jobM bool := job <- deref j ;; ret (status_ready (j_status job)).

Definition status_completed (s : JobStatus) : bool :=
  match s with
  | JOB_STATUS_WAITING | JOB_STATUS_PENDING | JOB_STATUS_ABORTING | JOB_STATUS_CONCLUDED | JOB_STATUS_NULL => true
  | _ => false
  end.
Definition job_is_completed_locked (j : Z) : jobM bool := job <- deref j ;; ret (status_completed (j_status job)).
Definition job_started_locked (j : Z) : jobM bool := job <- deref j ;; ret (j_co job).

(** ** Transactions and references *)

Definition job_txn_new (t : Z) : jobM unit := modify (fun s => set_txns (<[t := mkTxn false [] 1]> (txns s)) s).
Definition job_txn_ref_locked (t : Z) : jobM unit :=
  on_txn t (fun x => mkTxn (t_aborting x) (t_jobs x) (t_refcnt x + 1)).
Definition job_txn_unref_locked (t : Z) : jobM unit :=
  on_txn t (fun x => mkTxn (t_aborting x) (t_jobs x) (t_refcnt x - 1)) ;;
  txn <- deref_txn t ;;
  when (t_refcnt txn =? 0) (modify (fun s => set_txns (delete t (txns s)) s)).

Definition job_txn_add_job_locked (txn : option Z) (j : Z) : jobM unit :=
  match txn with
  | None => ret tt
  | Some t =>
      job <- deref j ;; massert (negb (is_some (j_txn job))) ;;
      on_job j (set_txn (Some t)) ;;
      on_txn t (fun x => mkTxn (t_aborting x) (j :: t_jobs x) (t_refcnt x)) ;;
      job_txn_ref_locked t
  end.
Definition job_txn_del_job_locked (j : Z) : jobM unit :=
  job <- deref j ;;
  match j_txn job with
  | None => ret tt
  | Some t =>
      on_txn t (fun x => mkTxn (t_aborting x) (filter (fun k => k <> j) (t_jobs x)) (t_refcnt x)) ;;
      job_txn_unref_locked t ;;
      on_job j (set_txn None)
  end.

Definition job_ref_locked (j : Z) : jobM unit := on_job j (fun job => set_refcnt (j_refcnt job + 1) job).
Definition job_unref_locked (j : Z) : jobM unit :=
  on_job j (fun job => set_refcnt (j_refcnt job - 1) job) ;;
  job <- deref j ;;
  when (j_refcnt job =? 0) (
    massert (bool_decide (j_status job = JOB_STATUS_NULL)) ;;
    massert (negb (j_sleep_timer job)) ;;
    massert (negb (is_some (j_txn job))) ;;
    callback (drv_free (j_driver job)) (EvCall "free" j) ;;
    modify (fun s => set_job_list (filter (fun k => k <> j) (job_list s)) s) ;;
    modify (fun s => set_jobs (delete j (jobs s)) s)).

(** The loop keeps the next element before it calls [fn], which removes at most the
    element it is called on. *)
Fixpoint apply_list (l : list Z) (fn : Z -> jobM Z) : jobM Z :=
  match l with
  | [] => ret 0
  | k :: rest => rc <- fn k ;; if truthy rc then ret rc else apply_list rest fn
  end.
Definition txn_of (j : Z) : jobM Z :=
  job <- deref j ;; match j_txn job with Some t => ret t | None => fun _ => AssertFail end.
Definition job_txn_apply_locked (j : Z) (fn : Z -> jobM Z) : jobM Z :=
  t <- txn_of j ;;
  job_ref_locked j ;;
  txn <- deref_txn t ;;
  rc <- apply_list (t_jobs txn) fn ;;
  job_unref_locked j ;;
  ret rc.

(** ** Creation *)

Definition JOB_INTERNAL : Z := 1.
Definition JOB_MANUAL_FINALIZE : Z := 2.
Definition JOB_MANUAL_DISMISS : Z := 4.

Section job.
(** [id_wellformed] checks a name; [aio_wait] runs the event loop until a job is completed. *)
Context (id_wellformed : string -> bool) (aio_wait : Z -> jobM unit).

Definition job_get_locked (id : string) : jobM (option Z) := fun s =>
  Done (List.find (fun j => match jobs s !! j with
                            | Some job => bool_decide (j_id job = Some id)
                            | None => false end) (job_list s)) s.

(** [j] and [t] are the addresses the allocator returns. *)
Definition job_create (job_id : option string) (driver : JobDriver) (txn : option Z) (flags : Z) (cb : bool) (j t : Z) : jobM (option Z) :=
  let internal := truthy (Z.land flags JOB_INTERNAL) in
  used <- match job_id with Some id => job_get_locked id | None => ret None end ;;
  if match job_id with
     | Some id => internal || negb (id_wellformed id) || is_some used
     | None => negb internal
     end then ret None
  else
    modify (fun s => set_jobs (<[j := mkJob job_id driver 1 JOB_STATUS_UNDEFINED 0 false false false true 1 false false
      false false (negb (truthy (Z.land flags JOB_MANUAL_FINALIZE))) (negb (truthy (Z.land flags JOB_MANUAL_DISMISS)))
      cb false None]> (jobs s)) s) ;;
    job_state_transition_locked j JOB_STATUS_CREATED ;;
    modify (fun s => set_job_list (j :: job_list s) s) ;;
    match txn with
    | None => job_txn_new t ;; job_txn_add_job_locked (Some t) j ;; job_txn_unref_locked t
    | Some t => job_txn_add_job_locked (Some t) j
    end ;;
    ret (Some j).

(** ** Pausing *)

(** With [aio_co_wake] recorded: the coroutine runs when the lock is released. *)
Definition job_enter_cond_locked (j : Z) (fn : option (Job -> bool)) : jobM unit :=
  job <- deref j ;;
  when (j_co job && negb (j_deferred_to_main_loop job) && negb (j_busy job) &&
        match fn with Some f => f job | None => true end)
    (on_job j (fun job => set_busy true (set_sleep_timer false job)) ;; emit_job (EvCall "wake" j)).

Definition job_timer_not_pending_locked (job : Job) : bool := negb (j_sleep_timer job).
Definition job_should_pause_locked (job : Job) : bool := 0 <? j_pause_count job.

(** [job_do_yield_locked] up to and from the yield. *)
Definition yield_begin (j : Z) (timer : bool) : jobM unit :=
  when timer (on_job j (set_sleep_timer true)) ;;
  on_job j (set_busy false) ;; emit_job (EvNotify "idle" j).
Definition yield_end (j : Z) : jobM unit := job <- deref j ;; massert (j_busy job).

(** [job_pause_point_locked] up to the yield; [Some status] when it yields. *)
Definition pause_point_begin (j : Z) : jobM (option JobStatus) :=
  job <- deref j ;; massert (j_co job) ;;
  if negb (job_should_pause_locked job) then ret None
  else
    cancelled <- job_is_cancelled_locked j ;;
    if cancelled then ret None
    else
      callback (drv_pause (j_driver job)) (EvCall "pause" j) ;;
      job <- deref j ;;
      cancelled <- (if job_should_pause_locked job then job_is_cancelled_locked j else ret true) ;;
      if cancelled then callback (drv_resume (j_driver job)) (EvCall "resume" j) ;; ret None
      else
        job_state_transition_locked j
          (if bool_decide (j_status job = JOB_STATUS_READY) then JOB_STATUS_STANDBY else JOB_STATUS_PAUSED) ;;
        on_job j (set_paused true) ;;
        yield_begin j false ;;
        ret (Some (j_status job)).
Definition pause_point_end (j : Z) (status : JobStatus) : jobM unit :=
  yield_end j ;;
  on_job j (set_paused false) ;;
  job_state_transition_locked j status ;;
  job <- deref j ;; callback (drv_resume (j_driver job)) (EvCall "resume" j).

Definition job_pause_locked (j : Z) : jobM unit :=
  on_job j (fun job => set_pause_count (j_pause_count job + 1) job) ;;
  job <- deref j ;; when (negb (j_paused job)) (job_enter_cond_locked j None).
Definition job_resume_locked (j : Z) : jobM unit :=
  job <- deref j ;; massert (0 <? j_pause_count job) ;;
  on_job j (set_pause_count (j_pause_count job - 1)) ;;
  when (j_pause_count job - 1 =? 0) (job_enter_cond_locked j (Some job_timer_not_pending_locked)).

(** Whether a command succeeded; otherwise it sets its error. *)
Definition job_user_pause_locked (j : Z) : jobM bool :=
  rc <- job_apply_verb_locked j JOB_VERB_PAUSE ;;
  if truthy rc then ret false
  else
    job <- deref j ;;
    if j_user_paused job then ret false
    else on_job j (set_user_paused true) ;; job_pause_locked j ;; ret true.
Definition job_user_resume_locked (j : Z) : jobM bool :=
  job <- deref j ;;
  if negb (j_user_paused job) || (j_pause_count job <=? 0) then ret false
  else
    rc <- job_apply_verb_locked j JOB_VERB_RESUME ;;
    if truthy rc then ret false
    else
      callback (drv_user_resume (j_driver job)) (EvCall "user_resume" j) ;;
      on_job j (set_user_paused false) ;; job_resume_locked j ;; ret true.

(** ** Dismissal *)

Definition job_do_dismiss_locked (j : Z) : jobM unit :=
  on_job j (fun job => set_deferred_to_main_loop true (set_paused false (set_busy false job))) ;;
  job_txn_del_job_locked j ;;
  job_state_transition_locked j JOB_STATUS_NULL ;;
  job_unref_locked j.

Definition job_dismiss_locked (j : Z) : jobM bool :=
  job <- deref j ;; massert (is_some (j_id job)) ;;
  rc <- job_apply_verb_locked j JOB_VERB_DISMISS ;;
  if truthy rc then ret false else job_do_dismiss_locked j ;; ret true.

Definition job_early_fail (j : Z) : jobM unit :=
  job <- deref j ;; massert (bool_decide (j_status job = JOB_STATUS_CREATED)) ;; job_do_dismiss_locked j.

Definition job_conclude_locked (j : Z) : jobM unit :=
  job_state_transition_locked j JOB_STATUS_CONCLUDED ;;
  job <- deref j ;; when (j_auto_dismiss job || negb (j_co job)) (job_do_dismiss_locked j).

(** ** Completion *)

Definition job_update_rc_locked (j : Z) : jobM unit :=
  job <- deref j ;;
  cancelled <- (if truthy (j_ret job) then ret false else job_is_cancelled_locked j) ;;
  when cancelled (on_job j (set_ret_ (- ECANCELED))) ;;
  job <- deref j ;;
  when (truthy (j_ret job)) (on_job j (set_err true) ;; job_state_transition_locked j JOB_STATUS_ABORTING).

Definition job_commit (j : Z) : jobM unit :=
  job <- deref j ;; massert (negb (truthy (j_ret job))) ;; callback (drv_commit (j_driver job)) (EvCommit j).
Definition job_abort (j : Z) : jobM unit :=
  job <- deref j ;; massert (truthy (j_ret job)) ;; callback (drv_abort (j_driver job)) (EvAbort j).
Definition job_clean (j : Z) : jobM unit :=
  job <- deref j ;; callback (drv_clean (j_driver job)) (EvClean j).

Definition job_finalize_single_locked (j : Z) : jobM Z :=
  completed <- job_is_completed_locked j ;; massert completed ;;
  job_update_rc_locked j ;;
  job <- deref j ;;
  (if truthy (j_ret job) then job_abort j else job_commit j) ;;
  job_clean j ;;
  callback (j_cb job) (EvCb j (j_ret job)) ;;
  when (j_co job) (cancelled <- job_is_cancelled_locked j ;;
                   emit_job (EvNotify (if cancelled then "finalize_cancelled" else "finalize_completed") j)) ;;
  job_txn_del_job_locked j ;;
  job_conclude_locked j ;;
  ret 0.

Definition job_cancel_async_locked (j : Z) (force : bool) : jobM unit :=
  job <- deref j ;;
  let force := match drv_cancel (j_driver job) with Some f => f force | None => true end in
  callback (is_some (drv_cancel (j_driver job))) (EvCall "cancel" j) ;;
  when (j_user_paused job) (
    callback (drv_user_resume (j_driver job)) (EvCall "user_resume" j) ;;
    on_job j (set_user_paused false) ;;
    massert (0 <? j_pause_count job) ;;
    on_job j (set_pause_count (j_pause_count job - 1))) ;;
  when (force || negb (j_deferred_to_main_loop job))
    (on_job j (fun job => set_force_cancel (j_force_cancel job || force) (set_cancelled true job))).

Definition job_prepare_locked (j : Z) : jobM Z :=
  job <- deref j ;;
  match (if j_ret job =? 0 then drv_prepare (j_driver job) else None) with
  | Some r => emit_job (EvCall "prepare" j) ;; on_job j (set_ret_ r) ;; job_update_rc_locked j
  | None => ret tt
  end ;;
  job <- deref j ;; ret (j_ret job).
Definition job_needs_finalize_locked (j : Z) : jobM Z := job <- deref j ;; ret (b2z (negb (j_auto_finalize job))).
Definition job_transition_to_pending_locked (j : Z) : jobM Z :=
  job_state_transition_locked j JOB_STATUS_PENDING ;;
  job <- deref j ;; when (negb (j_auto_finalize job)) (emit_job (EvNotify "pending" j)) ;; ret 0.
Definition job_transition_to_ready (j : Z) : jobM unit :=
  job_state_transition_locked j JOB_STATUS_READY ;; emit_job (EvNotify "ready" j).

(** The callbacks of the loop over the other members. *)
Definition cancel_others (j : Z) (l : list Z) : jobM unit :=
  foldr (fun k rest => when (negb (k =? j)) (job_cancel_async_locked k true) ;; rest) (ret tt) l.

Definition all_completed (l : list Z) : jobM bool :=
  foldr (fun k rest =>
    completed <- job_is_completed_locked k ;;
    if completed then job <- deref k ;; massert (j_ret job =? 0) ;; rest else ret false) (ret true) l.

(** What [job_co_entry] does when [run] has returned [r]; the exit handler is scheduled. *)
Definition job_co_return (j r : Z) : jobM unit :=
  on_job j (fun job => set_busy true (set_deferred_to_main_loop true (set_ret_ r job))) ;;
  emit_job (EvCall "schedule_exit" j).

(** [cmd] is the function passed, [false] when it sets an error. *)
Definition job_finish_sync_locked (j : Z) (cmd : option (Z -> jobM bool)) : jobM Z :=
  job_ref_locked j ;;
  ok <- match cmd with Some f => f j | None => ret true end ;;
  if negb ok then job_unref_locked j ;; ret (- EBUSY)
  else
    aio_wait j ;;
    cancelled <- job_is_cancelled_locked j ;; job <- deref j ;;
    let r := if cancelled && (j_ret job =? 0) then - ECANCELED else j_ret job in
    job_unref_locked j ;; ret r.

(** The [while] loop over what is left of an aborted transaction. *)
Fixpoint abort_all (fuel : nat) (t : Z) : jobM unit :=
  txn <- deref_txn t ;;
  match t_jobs txn with
  | [] => ret tt
  | other :: _ =>
      match fuel with
      | O => loop_exit
      | S fuel =>
          completed <- job_is_completed_locked other ;;
          when (negb completed)
            (job <- deref other ;; massert (j_cancelled job) ;; job_finish_sync_locked other None ;; ret tt) ;;
          job_finalize_single_locked other ;;
          abort_all fuel t
      end
  end.

Definition job_completed_txn_abort_locked (j : Z) : jobM unit :=
  t <- txn_of j ;; txn <- deref_txn t ;;
  if t_aborting txn then ret tt
  else
    on_txn t (fun x => mkTxn true (t_jobs x) (t_refcnt x)) ;;
    job_txn_ref_locked t ;;
    job_ref_locked j ;;
    cancel_others j (t_jobs txn) ;;
    abort_all (length (t_jobs txn)) t ;;
    job_unref_locked j ;;
    job_txn_unref_locked t.

Definition job_do_finalize_locked (j : Z) : jobM unit :=
  txn_of j ;;
  rc <- job_txn_apply_locked j job_prepare_locked ;;
  if truthy rc then job_completed_txn_abort_locked j
  else job_txn_apply_locked j job_finalize_single_locked ;; ret tt.

Definition job_completed_txn_success_locked (j : Z) : jobM unit :=
  t <- txn_of j ;;
  job_state_transition_locked j JOB_STATUS_WAITING ;;
  txn <- deref_txn t ;;
  all <- all_completed (t_jobs txn) ;;
  when all (
    job_txn_apply_locked j job_transition_to_pending_locked ;;
    rc <- job_txn_apply_locked j job_needs_finalize_locked ;;
    when (rc =? 0) (job_do_finalize_locked j)).

Definition job_completed_locked (j : Z) : jobM unit :=
  txn_of j ;; completed <- job_is_completed_locked j ;; massert (negb completed) ;;
  job_update_rc_locked j ;;
  job <- deref j ;;
  if truthy (j_ret job) then job_completed_txn_abort_locked j else job_completed_txn_success_locked j.

Definition job_exit (j : Z) : jobM unit :=
  job_ref_locked j ;;
  on_job j (set_busy false) ;; emit_job (EvNotify "idle" j) ;;
  job_completed_locked j ;;
  job_unref_locked j.

(** ** Commands *)

Definition job_finalize_locked (j : Z) : jobM bool :=
  job <- deref j ;; massert (is_some (j_id job)) ;;
  rc <- job_apply_verb_locked j JOB_VERB_FINALIZE ;;
  if truthy rc then ret false else job_do_finalize_locked j ;; ret true.

(** [aio_co_enter] recorded. *)
Definition job_start (j : Z) : jobM unit :=
  job <- deref j ;; massert (negb (j_co job) && j_paused job) ;;
  on_job j (fun job => set_paused false (set_busy true (set_pause_count (j_pause_count job - 1) (set_co true job)))) ;;
  job_state_transition_locked j JOB_STATUS_RUNNING ;;
  emit_job (EvCall "enter" j).

Definition job_cancel_locked (j : Z) (force : bool) : jobM unit :=
  job <- deref j ;;
  if bool_decide (j_status job = JOB_STATUS_CONCLUDED) then job_do_dismiss_locked j
  else
    job_cancel_async_locked j force ;;
    job <- deref j ;;
    if negb (j_co job) then job_completed_locked j
    else if j_deferred_to_main_loop job then
      cancelled <- job_is_cancelled_locked j ;; when cancelled (job_completed_txn_abort_locked j)
    else job_enter_cond_locked j None.

Definition job_user_cancel_locked (j : Z) (force : bool) : jobM bool :=
  rc <- job_apply_verb_locked j JOB_VERB_CANCEL ;;
  if truthy rc then ret false else job_cancel_locked j force ;; ret true.

Definition job_complete_locked (j : Z) : jobM bool :=
  job <- deref j ;; massert (is_some (j_id job)) ;;
  rc <- job_apply_verb_locked j JOB_VERB_COMPLETE ;;
  if truthy rc then ret false
  else if j_cancelled job then ret false
  else
    match drv_complete (j_driver job) with
    | None => ret false
    | Some ok => emit_job (EvCall "complete" j) ;; ret ok
    end.

Definition job_cancel_sync_locked (j : Z) (force : bool) : jobM Z :=
  job_finish_sync_locked j (Some (fun j => job_cancel_locked j force ;; ret true)).
Definition job_complete_sync_locked (j : Z) : jobM Z := job_finish_sync_locked j (Some job_complete_locked).
End job.
