(* ===== verification/JobTxns.v ===== *)
(** * Transactions of jobs ([job.c])

    What finalizing a transaction decides: [finalize_decides] describes
    [job_do_finalize_locked] on every transaction whose members are pending,
    [transaction_atomic] states when the members end as a group, as
    [include/qemu/job.h] promises, and [finalizing_job_commits_alone] runs the case in
    which they do not.
    The lemmas in between describe each operation on the store, and the end of
    the file the pauses of a job. *)

From stdpp Require Import gmap strings.
From S2P Require Import Prelude Job.

#[local] Open Scope Z_scope.

(** ** What a finalized transaction decides *)

Definition is_decision (e : jevent) : bool := match e with EvCommit _ | EvAbort _ => true | _ => false end.
Definition decisions (evs : list jevent) : list jevent := List.filter is_decision (rev evs).

Lemma decisions_app (a b : list jevent) : decisions (a ++ b) = decisions b ++ decisions a.
Proof. unfold decisions. by rewrite rev_app_distr, List.filter_app. Qed.

(** The callback a job ends with. *)
Definition settle (abort : bool) (k : Z) (job : Job) : list jevent :=
  if abort then (if drv_abort (j_driver job) then [EvAbort k] else [])
  else (if drv_commit (j_driver job) then [EvCommit k] else []).
Definition will_abort (job : Job) : bool := truthy (j_ret job) || j_force_cancel job.
Definition dismissed (job : Job) : bool := j_auto_dismiss job || negb (j_co job).

(** A job the completion of a transaction can finalize. *)
Record finalizable (t : Z) (job : Job) : Prop := {
  fin_status : j_status job = JOB_STATUS_PENDING \/ j_status job = JOB_STATUS_ABORTING;
  fin_cancel : j_cancelled job || negb (j_force_cancel job) = true;
  fin_txn : j_txn job = Some t;
  fin_ref : 1 <= j_refcnt job;
  fin_timer : j_sleep_timer job = false
}.

(** What is left of it: freed, or out of its transaction with a reference less if it is dismissed. *)
Definition retired (job : Job) (o : option Job) : Prop :=
  match o with
  | None => dismissed job = true /\ j_refcnt job = 1
  | Some job' =>
      j_txn job' = None /\ j_sleep_timer job' = false /\
      j_status job' = (if dismissed job then JOB_STATUS_NULL else JOB_STATUS_CONCLUDED) /\
      j_refcnt job' = j_refcnt job - b2z (dismissed job) /\ 1 <= j_refcnt job'
  end.

Definition leave_txn (k : Z) (txn : JobTxn) : JobTxn :=
  mkTxn (t_aborting txn) (filter (fun x => x <> k) (t_jobs txn)) (t_refcnt txn - 1).
Definition drop_txn (t : Z) (txn : JobTxn) (m : gmap Z JobTxn) : gmap Z JobTxn :=
  if t_refcnt txn =? 0 then delete t m else <[t := txn]> m.

(** Run the operations on the store, with the lookups the context gives. *)
Ltac job_run :=
  repeat (progress (
    unfold on_job, on_txn, deref, deref_txn, modify, emit_job, callback, when, massert, ret, bind, set_jobs, set_txns,
      set_job_list; cbn [jobs txns job_list jlog];
    rewrite ?lookup_insert_eq, ?insert_insert_eq, ?delete_insert_eq;
    repeat match goal with H : _ !! _ = Some _ |- _ => rewrite H end)).

Lemma txn_del_run (k t : Z) (job : Job) (txn : JobTxn) (s : jstate) :
  jobs s !! k = Some job -> j_txn job = Some t -> txns s !! t = Some txn ->
  job_txn_del_job_locked k s =
  Done tt (mkJState (<[k := set_txn None job]> (jobs s)) (job_list s) (drop_txn t (leave_txn k txn) (txns s)) (jlog s)).
Proof.
  intros Hk Ht Htxn. destruct s as [J L T G]; cbn in *.
  unfold job_txn_del_job_locked, job_txn_unref_locked, drop_txn, leave_txn. job_run. rewrite Ht. job_run. cbn [t_refcnt].
  destruct (t_refcnt txn - 1 =? 0); by job_run.
Qed.

Lemma transition_run (k : Z) (s1 : JobStatus) (job : Job) (s : jstate) :
  jobs s !! k = Some job -> JobSTT (j_status job) s1 = true ->
  exists evs, decisions evs = [] /\
  job_state_transition_locked k s1 s =
  Done tt (mkJState (<[k := set_status s1 job]> (jobs s)) (job_list s) (txns s) (evs ++ jlog s)).
Proof.
  intros Hk Hs. destruct s as [J L T G]; cbn in *.
  unfold job_state_transition_locked. job_run. rewrite Hs. job_run.
  destruct (_ && _); job_run; [by exists [EvStatus k s1] | by exists []].
Qed.

Lemma unref_run (k : Z) (job : Job) (s : jstate) :
  jobs s !! k = Some job -> 1 <= j_refcnt job ->
  (j_refcnt job = 1 -> j_status job = JOB_STATUS_NULL /\ j_sleep_timer job = false /\ j_txn job = None) ->
  exists evs L', decisions evs = [] /\
  job_unref_locked k s =
  Done tt (mkJState (if j_refcnt job =? 1 then delete k (jobs s)
                     else <[k := set_refcnt (j_refcnt job - 1) job]> (jobs s)) L' (txns s) (evs ++ jlog s)).
Proof.
  intros Hk Hr H1. destruct s as [J L T G]; cbn in *.
  unfold job_unref_locked. job_run. cbn [j_refcnt set_refcnt].
  destruct (Z.eqb_spec (j_refcnt job) 1) as [E|E].
  - rewrite E in *. destruct (H1 eq_refl) as (Hs & Ht & Hx). change (1 - 1 =? 0) with true. cbn. rewrite Hs, Ht, Hx, bool_decide_true by done. job_run.
    cbn [negb is_some]. destruct (drv_free (j_driver job)); job_run.
    + by eexists [EvCall "free" k], _.
    + by eexists [], _.
  - destruct (Z.eqb_spec (j_refcnt job - 1) 0); [lia|]. job_run. by eexists [], _.
Qed.

(** One job changed, [d] decided. *)
Definition touches (k : Z) (d : list jevent) (s s' : jstate) : Prop :=
  (forall k', k' <> k -> jobs s' !! k' = jobs s !! k') /\
  exists evs, jlog s' = evs ++ jlog s /\ decisions evs = d.

Lemma touches_insert (k : Z) (job : Job) (s : jstate) (L : list Z) (T : gmap Z JobTxn) (evs : list jevent) :
  touches k (decisions evs) s (mkJState (<[k := job]> (jobs s)) L T (evs ++ jlog s)).
Proof. split; cbn; [intros; by rewrite lookup_insert_ne | by exists evs]. Qed.

Lemma touches_trans (k : Z) (d1 d2 : list jevent) (s1 s2 s3 : jstate) :
  touches k d1 s1 s2 -> touches k d2 s2 s3 -> touches k (d1 ++ d2) s1 s3.
Proof.
  intros [H1 (e1 & L1 & <-)] [H2 (e2 & L2 & <-)]. split.
  - intros k' Hk. by rewrite H2, H1.
  - exists (e2 ++ e1). by rewrite L2, L1, app_assoc, decisions_app.
Qed.

Lemma job_bind_done {S A B} (m : M S A) (f : A -> M S B) (s s' : S) (a : A) :
  m s = Done a s' -> bind m f s = f a s'.
Proof. unfold bind. by intros ->. Qed.

Lemma touches_refl (k : Z) (s : jstate) : touches k [] s s.
Proof. split; [done|by exists []]. Qed.

Lemma deref_run (k : Z) (job : Job) (s : jstate) : jobs s !! k = Some job -> deref k s = Done job s.
Proof. unfold deref. by intros ->. Qed.

Definition dismissed_job (job : Job) : Job :=
  set_status JOB_STATUS_NULL (set_deferred_to_main_loop true (set_paused false (set_busy false job))).

Lemma dismiss_run (k : Z) (job : Job) (s : jstate) :
  jobs s !! k = Some job -> JobSTT (j_status job) JOB_STATUS_NULL = true -> j_txn job = None ->
  j_sleep_timer job = false -> 1 <= j_refcnt job ->
  exists s', job_do_dismiss_locked k s = Done tt s' /\ touches k [] s s' /\ txns s' = txns s /\
    jobs s' !! k = if j_refcnt job =? 1 then None else Some (set_refcnt (j_refcnt job - 1) (dismissed_job job)).
Proof.
  intros Hk Hs Ht Hp Hr. unfold job_do_dismiss_locked, job_txn_del_job_locked. job_run.
  cbn [j_txn set_deferred_to_main_loop set_paused set_busy]. rewrite Ht. job_run.
  edestruct (transition_run k JOB_STATUS_NULL) as (e1 & D1 & ->); [apply lookup_insert_eq | exact Hs |].
  edestruct (unref_run k (dismissed_job job)) as (e2 & L2 & D2 & E2); [| exact Hr | done |]; cycle 1.
  - eexists. split; [exact E2|]. split; [split|]; cbn.
    + intros k' Hne. destruct (_ =? _); rewrite ?lookup_delete_ne, ?lookup_insert_ne by done; reflexivity.
    + exists (e2 ++ e1). by rewrite app_assoc, decisions_app, D1, D2.
    + split; [done|]. destruct (_ =? _); [apply lookup_delete_eq | apply lookup_insert_eq].
  - cbn. by rewrite !insert_insert_eq, lookup_insert_eq.
Qed.

Lemma conclude_run (k : Z) (job : Job) (s : jstate) :
  jobs s !! k = Some job -> j_status job = JOB_STATUS_PENDING \/ j_status job = JOB_STATUS_ABORTING ->
  j_txn job = None -> j_sleep_timer job = false -> 1 <= j_refcnt job ->
  exists s', job_conclude_locked k s = Done tt s' /\ touches k [] s s' /\ txns s' = txns s /\
             retired job (jobs s' !! k).
Proof.
  intros Hk Hs Ht Hp Hr. unfold job_conclude_locked.
  destruct (transition_run k JOB_STATUS_CONCLUDED job s Hk) as (e1 & D1 & E1); [by destruct Hs as [-> | ->]|].
  rewrite (job_bind_done _ _ _ _ _ E1). rewrite (job_bind_done _ _ _ _ _ (deref_run _ _ _ (lookup_insert_eq _ _ _))).
  pose proof (touches_insert k (set_status JOB_STATUS_CONCLUDED job) s (job_list s) (txns s) e1) as Ht1.
  rewrite D1 in Ht1. unfold retired, dismissed. cbn [j_auto_dismiss j_co set_status].
  destruct (j_auto_dismiss job || negb (j_co job)) eqn:Hd; cbn [when].
  - edestruct (dismiss_run k) as (s' & -> & Ht2 & Hx & Hl); [apply lookup_insert_eq | reflexivity | exact Ht | exact Hp | exact Hr |].
    exists s'. rewrite Hl. split_and!; [done | by apply (touches_trans _ _ _ _ _ _ Ht1 Ht2) | done |].
    cbn. destruct (Z.eqb_spec (j_refcnt job) 1); cbn; [done|]. repeat split; auto; lia.
  - eexists. split_and!; [done | exact Ht1 | done |]. cbn. rewrite lookup_insert_eq. repeat split; auto; cbn; lia.
Qed.

Definition settled (job : Job) : Job :=
  if will_abort job
  then set_status JOB_STATUS_ABORTING
         (set_err true (set_ret_ (if truthy (j_ret job) then j_ret job else - ECANCELED) job))
  else job.

Lemma set_ret_same (job : Job) : set_ret_ (j_ret job) job = job.
Proof. by destruct job. Qed.

Lemma settled_ret (job : Job) : truthy (j_ret (settled job)) = will_abort job.
Proof.
  unfold settled, will_abort. destruct (truthy (j_ret job)) eqn:E; cbn; [done|].
  destruct (j_force_cancel job); cbn; [done | exact E].
Qed.

Lemma update_rc_run (k : Z) (job : Job) (s : jstate) :
  jobs s !! k = Some job -> j_status job = JOB_STATUS_PENDING \/ j_status job = JOB_STATUS_ABORTING ->
  j_cancelled job || negb (j_force_cancel job) = true ->
  exists evs, decisions evs = [] /\
  job_update_rc_locked k s =
  Done tt (mkJState (<[k := settled job]> (jobs s)) (job_list s) (txns s) (evs ++ jlog s)).
Proof.
  intros Hk Hs Hc. unfold job_update_rc_locked, settled, will_abort, job_is_cancelled_locked. job_run.
  assert (Hst : forall job', j_status job' = j_status job -> JobSTT (j_status job') JOB_STATUS_ABORTING = true)
    by (intros ? ->; by destruct Hs as [-> | ->]).
  destruct (truthy (j_ret job)) eqn:Er; cbn [orb].
  - job_run. rewrite Er. job_run.
    edestruct (transition_run k JOB_STATUS_ABORTING) as (e & D & ->); [apply lookup_insert_eq | by apply Hst |].
    exists e. split; [done|]. cbn. by rewrite insert_insert_eq, set_ret_same.
  - job_run. rewrite Hc. destruct (j_force_cancel job) eqn:Ef; job_run.
    + cbn [j_ret set_ret_ truthy]. change (truthy (- ECANCELED)) with true. cbn [when]. job_run.
      edestruct (transition_run k JOB_STATUS_ABORTING) as (e & D & ->); [apply lookup_insert_eq | by apply Hst |].
      exists e. split; [done|]. cbn. by rewrite insert_insert_eq.
    + rewrite Er. job_run. exists []. split; [done|]. destruct s. cbn in *. by rewrite insert_id.
Qed.

Definition logged (evs : list jevent) (s : jstate) : jstate := mkJState (jobs s) (job_list s) (txns s) (evs ++ jlog s).

(** The callbacks and the events between the decision and the end of a job. *)
Lemma callbacks_run {A} (k : Z) (job : Job) (K : jobM A) (s : jstate) :
  jobs s !! k = Some job -> j_cancelled job || negb (j_force_cancel job) = true ->
  exists evs, decisions evs = settle (truthy (j_ret job)) k job /\
  ((if truthy (j_ret job) then job_abort k else job_commit k) ;;
   job_clean k ;;
   callback (j_cb job) (EvCb k (j_ret job)) ;;
   when (j_co job) (cancelled <- job_is_cancelled_locked k ;;
                    emit_job (EvNotify (if cancelled then "finalize_cancelled" else "finalize_completed") k)) ;;
   K)%cmd s = K (logged evs s).
Proof.
  intros Hk Hc.
  set (e1 := settle (truthy (j_ret job)) k job).
  set (e2 := if drv_clean (j_driver job) then [EvClean k] else []).
  set (e3 := if j_cb job then [EvCb k (j_ret job)] else []).
  set (e4 := if j_co job then [EvNotify (if j_force_cancel job then "finalize_cancelled" else "finalize_completed") k] else []).
  exists (e4 ++ e3 ++ e2 ++ e1). split.
  { rewrite !decisions_app. subst e1 e2 e3 e4. unfold settle.
    destruct (truthy (j_ret job)), (drv_abort (j_driver job)), (drv_commit (j_driver job)), (drv_clean (j_driver job)),
      (j_cb job), (j_co job); reflexivity. }
  rewrite (job_bind_done _ _ s (logged e1 s) tt).
  2:{ subst e1. destruct s as [J L T G]; cbn in Hk. unfold settle, job_abort, job_commit.
      destruct (truthy (j_ret job)) eqn:Er; job_run; rewrite Er; cbn [negb];
        [destruct (drv_abort _) | destruct (drv_commit _)]; reflexivity. }
  rewrite (job_bind_done _ _ _ (logged (e2 ++ e1) s) tt).
  2:{ subst e2. unfold job_clean. job_run. cbn [logged jobs]. job_run. by destruct (drv_clean _). }
  rewrite (job_bind_done _ _ _ (logged (e3 ++ e2 ++ e1) s) tt).
  2:{ subst e3. by destruct (j_cb job). }
  rewrite (job_bind_done _ _ _ (logged (e4 ++ e3 ++ e2 ++ e1) s) tt); [done|].
  subst e4. destruct (j_co job); [|done]. unfold job_is_cancelled_locked. job_run. cbn [logged jobs]. job_run.
  by rewrite Hc.
Qed.

Lemma settled_finalizable (t : Z) (job : Job) : finalizable t job -> finalizable t (settled job).
Proof. intros []. unfold settled. destruct (will_abort job); constructor; cbn; auto. Qed.

Lemma settled_same (job : Job) :
  j_driver (settled job) = j_driver job /\ dismissed (settled job) = dismissed job /\
  j_refcnt (settled job) = j_refcnt job.
Proof. unfold settled. by destruct (will_abort job). Qed.

Lemma finalize_single_run (k t : Z) (job : Job) (txn : JobTxn) (s : jstate) :
  jobs s !! k = Some job -> finalizable t job -> txns s !! t = Some txn ->
  exists s', job_finalize_single_locked k s = Done 0 s' /\ touches k (settle (will_abort job) k job) s s' /\
    txns s' = drop_txn t (leave_txn k txn) (txns s) /\ retired job (jobs s' !! k).
Proof.
  intros Hk Hf Htxn. destruct (settled_finalizable t job Hf) as [Gs Gc Gt Gr Gp].
  destruct Hf as [Hs Hc Ht Hr Hp]. destruct (settled_same job) as (Sd & Sx & Sr).
  unfold job_finalize_single_locked, job_is_completed_locked.
  rewrite (job_bind_done _ _ s s true); [|unfold bind, ret; rewrite (deref_run _ _ _ Hk); by destruct Hs as [-> | ->]].
  rewrite (job_bind_done _ _ s s tt) by done.
  destruct (update_rc_run k job s Hk Hs Hc) as (e1 & D1 & E1). rewrite (job_bind_done _ _ _ _ _ E1).
  set (s1 := mkJState _ _ _ _). assert (H1 : jobs s1 !! k = Some (settled job)) by apply lookup_insert_eq.
  rewrite (job_bind_done _ _ _ _ _ (deref_run _ _ _ H1)).
  destruct (callbacks_run k (settled job) (job_txn_del_job_locked k ;; job_conclude_locked k ;; ret 0)%cmd s1 H1 Gc)
    as (e2 & D2 & ->).
  rewrite (job_bind_done _ _ _ _ _ (txn_del_run k t (settled job) txn (logged e2 s1) H1 Gt Htxn)).
  destruct (conclude_run k (set_txn None (settled job))
    (mkJState (<[k := set_txn None (settled job)]> (jobs s1)) (job_list s) (drop_txn t (leave_txn k txn) (txns s))
       (e2 ++ jlog s1))) as (s' & E3 & T3 & X3 & R3);
    [apply lookup_insert_eq | exact Gs | reflexivity | exact Gp | exact Gr |].
  rewrite (job_bind_done _ _ _ _ _ E3). exists s'. split; [reflexivity|]. split; [|split].
  - rewrite settled_ret in D2. unfold settle in *. rewrite Sd in D2.
    rewrite <- D2, <- (app_nil_r (decisions e2)). eapply touches_trans; [|exact T3].
    rewrite <- (app_nil_l (decisions e2)), <- D1. split; cbn.
    + intros. by rewrite !lookup_insert_ne.
    + exists (e2 ++ e1). by rewrite app_assoc, decisions_app.
  - exact X3.
  - revert R3. unfold retired. change (dismissed (set_txn None (settled job))) with (dismissed (settled job)).
    cbn. by rewrite Sx, Sr.
Qed.

(** A transaction whose members [l] can be finalized, with [n] references of others. *)
Record open_txn (t : Z) (aborting : bool) (l : list Z) (n : Z) (s : jstate) : Prop := {
  open_lookup : txns s !! t = Some (mkTxn aborting l (Z.of_nat (length l) + n));
  open_nodup : NoDup l;
  open_refs : 0 <= n;
  open_members : forall k, k ∈ l -> exists job, jobs s !! k = Some job /\ finalizable t job
}.

(** The members [l] of [s] ended with the decisions [d] in [s']. *)
Definition ended (l : list Z) (d : list jevent) (s s' : jstate) : Prop :=
  (forall k, k ∉ l -> jobs s' !! k = jobs s !! k) /\
  (forall k job, k ∈ l -> jobs s !! k = Some job -> retired job (jobs s' !! k)) /\
  exists evs, jlog s' = evs ++ jlog s /\ decisions evs = d.

Definition verdict (s : jstate) (k : Z) : list jevent :=
  match jobs s !! k with Some job => settle (will_abort job) k job | None => [] end.

Lemma ended_nil (s : jstate) : ended [] [] s s.
Proof. split_and!; [done | set_solver | by exists []]. Qed.

Lemma ended_cons (k : Z) (l : list Z) (job : Job) (s s1 s2 : jstate) :
  jobs s !! k = Some job -> k ∉ l -> touches k (verdict s k) s s1 -> retired job (jobs s1 !! k) ->
  ended l (concat (map (verdict s1) l)) s1 s2 -> ended (k :: l) (concat (map (verdict s) (k :: l))) s s2.
Proof.
  intros Hk Hn [F1 (e1 & L1 & D1)] R1 (F2 & R2 & e2 & L2 & D2).
  assert (Hne : forall x, x ∈ l -> x <> k) by (intros x Hx ->; done).
  assert (V : map (verdict s1) l = map (verdict s) l).
  { apply map_ext_in. intros x Hx%list_elem_of_In. unfold verdict. by rewrite F1 by auto. }
  split_and!.
  - intros x Hx. rewrite F2 by set_solver. apply F1. set_solver.
  - intros x jx [-> | Hx]%elem_of_cons Hj.
    + rewrite F2 by done. rewrite Hk in Hj. injection Hj as <-. done.
    + apply R2; [done|]. by rewrite F1 by auto.
  - exists (e2 ++ e1). rewrite L2, L1, app_assoc, decisions_app, D1, D2, V. done.
Qed.

Lemma filter_other (k : Z) (l : list Z) : k ∉ l -> filter (fun x => x <> k) l = l.
Proof.
  induction l as [|x l IH]; intros Hk; [done|]. rewrite filter_cons_True by (intros ->; set_solver).
  by rewrite IH by set_solver.
Qed.

Lemma finalize_step (t : Z) (a : bool) (k : Z) (l : list Z) (n : Z) (s : jstate) :
  open_txn t a (k :: l) n s ->
  exists job s1, jobs s !! k = Some job /\ job_finalize_single_locked k s = Done 0 s1 /\
    touches k (verdict s k) s s1 /\ retired job (jobs s1 !! k) /\
    (forall t', t' <> t -> txns s1 !! t' = txns s !! t') /\
    (if Z.of_nat (length l) + n =? 0 then txns s1 !! t = None else open_txn t a l n s1).
Proof.
  intros [Ht Hn Hp Hm]. destruct (Hm k) as (job & Hk & Hf); [set_solver|].
  destruct (finalize_single_run k t job _ s Hk Hf Ht) as (s1 & E & T1 & X1 & R1).
  apply NoDup_cons in Hn as [Hkl Hn].
  assert (L : leave_txn k (mkTxn a (k :: l) (Z.of_nat (length (k :: l)) + n)) = mkTxn a l (Z.of_nat (length l) + n)).
  { unfold leave_txn. cbn [t_aborting t_jobs t_refcnt length]. f_equal; [|lia].
    rewrite filter_cons_False by (by intros []). by apply filter_other. }
  rewrite L in X1. unfold drop_txn in X1. cbn [t_refcnt] in X1.
  exists job, s1. split_and!; [done | done | by unfold verdict; rewrite Hk | done | |].
  - intros t' Hne. rewrite X1. destruct (_ =? _); [by rewrite lookup_delete_ne | by rewrite lookup_insert_ne].
  - rewrite X1. destruct (_ =? _) eqn:E0; [apply lookup_delete_eq|]. destruct T1 as [F1 _].
    constructor; [by rewrite X1, lookup_insert_eq | done | done |].
    intros x Hx. destruct (Hm x) as (jx & Hj & Hfx); [set_solver|]. exists jx. split; [|done].
    rewrite F1; [done | by intros ->].
Qed.

(** The references that are left keep the transaction, empty. *)
Definition left_txn (aborting : bool) (n : Z) : option JobTxn :=
  if n =? 0 then None else Some (mkTxn aborting [] n).

Definition others_kept (t : Z) (s s' : jstate) : Prop := forall t', t' <> t -> txns s' !! t' = txns s !! t'.

Lemma finalize_members (t : Z) (a : bool) (l : list Z) : forall (n : Z) (s : jstate),
  l <> [] -> open_txn t a l n s ->
  exists s', apply_list l job_finalize_single_locked s = Done 0 s' /\ ended l (concat (map (verdict s) l)) s s' /\
    txns s' !! t = left_txn a n /\ others_kept t s s'.
Proof.
  induction l as [|k l IH]; intros n s Hl Ho; [done|].
  destruct (finalize_step t a k l n s Ho) as (job & s1 & Hk & E & T1 & R1 & X1 & O1).
  destruct Ho as [_ [Hkl _]%NoDup_cons Hp _]. cbn [apply_list]. rewrite (job_bind_done _ _ _ _ _ E). cbn [truthy Z.eqb negb].
  destruct l as [|k2 l]; [exists s1 | destruct (IH n s1) as (s2 & E2 & N2 & T2 & X2); [done| |]].
  - split_and!; [done | by eapply ended_cons; eauto using ended_nil | | done].
    revert O1. cbn [length]. rewrite Z.add_0_l. unfold left_txn. destruct (n =? 0); [done|].
    intros [Ho _ _ _]. exact Ho.
  - revert O1. destruct (Z.eqb_spec (Z.of_nat (length (k2 :: l)) + n) 0); [cbn in *; lia | done].
  - exists s2. split_and!; [done | by eapply ended_cons; eauto | done |].
    intros t' Ht'. by rewrite X2, X1.
Qed.

Lemma abort_members (aio_wait : Z -> jobM unit) (t : Z) (a : bool) (l : list Z) : forall (n : Z) (s : jstate),
  0 < n -> open_txn t a l n s ->
  exists s', abort_all aio_wait (length l) t s = Done tt s' /\ ended l (concat (map (verdict s) l)) s s' /\
    txns s' !! t = left_txn a n /\ others_kept t s s'.
Proof.
  induction l as [|k l IH]; intros n s Hn Ho.
  - exists s. destruct Ho as [Ht _ _ _]. cbn [length abort_all]. rewrite (job_bind_done _ _ s s (mkTxn a [] n)).
    + split_and!; [done | apply ended_nil | | done]. unfold left_txn. by destruct (Z.eqb_spec n 0); [lia|].
    + unfold deref_txn. by rewrite Ht.
  - destruct (finalize_step t a k l n s Ho) as (job & s1 & Hk & E & T1 & R1 & X1 & O1).
    pose proof Ho as [Ht [Hkl _]%NoDup_cons _ Hm]. cbn [length abort_all].
    rewrite (job_bind_done _ _ s s (mkTxn a (k :: l) (Z.of_nat (length (k :: l)) + n)))
      by (unfold deref_txn; by rewrite Ht).
    cbn [t_jobs]. unfold job_is_completed_locked.
    rewrite (job_bind_done _ _ s s true).
    2:{ destruct (Hm k) as (jk & Hjk & [Hs _ _ _ _]); [set_solver|]. unfold bind, ret. rewrite (deref_run _ _ _ Hjk).
        by destruct Hs as [-> | ->]. }
    rewrite (job_bind_done _ _ s s tt) by done. rewrite (job_bind_done _ _ _ _ _ E).
    revert O1. destruct (Z.eqb_spec (Z.of_nat (length l) + n) 0); [lia|]. intros O1.
    destruct (IH n s1 Hn O1) as (s2 & E2 & N2 & T2 & X2).
    exists s2. split_and!; [done | by eapply ended_cons; eauto | done |]. intros t' Ht'. by rewrite X2, X1.
Qed.

(** A member that waits for its transaction to be finalized.  A driver must accept a
    forced cancellation ([include/qemu/job.h]). *)
Record pending_member (t : Z) (job : Job) : Prop := {
  pend_final : finalizable t job;
  pend_status : j_status job = JOB_STATUS_PENDING;
  pend_ret : j_ret job = 0;
  pend_force : j_force_cancel job = false;
  pend_paused : j_user_paused job = true -> 0 < j_pause_count job;
  pend_cancel : forall f, drv_cancel (j_driver job) = Some f -> f true = true
}.

Definition prepare_ret (job : Job) : Z := match drv_prepare (j_driver job) with Some r => r | None => 0 end.
Definition fails (s : jstate) (k : Z) : bool :=
  match jobs s !! k with Some job => truthy (prepare_ret job) | None => false end.
Definition failed (job : Job) : Job := settled (set_ret_ (prepare_ret job) job).
Definition bump (job : Job) : Job := set_refcnt (j_refcnt job + 1) job.

Lemma bump_pending (t : Z) (job : Job) : pending_member t job -> pending_member t (bump job).
Proof. intros [[] ? ? ? ? ?]. constructor; try done. constructor; cbn; auto; lia. Qed.

Lemma prepare_run (k t : Z) (job : Job) (s : jstate) :
  jobs s !! k = Some job -> pending_member t job ->
  exists evs, decisions evs = [] /\
  job_prepare_locked k s =
  Done (prepare_ret job)
    (if truthy (prepare_ret job)
     then mkJState (<[k := failed job]> (jobs s)) (job_list s) (txns s) (evs ++ jlog s) else logged evs s).
Proof.
  intros Hk [[Hs Hc _ _ _] Hp Hr Hf _ _]. unfold job_prepare_locked, failed, prepare_ret.
  rewrite (job_bind_done _ _ _ _ _ (deref_run _ _ _ Hk)), Hr. cbn [Z.eqb].
  destruct (drv_prepare (j_driver job)) as [r|] eqn:Ep.
  2:{ exists []. split; [done|]. unfold bind, ret. cbn. rewrite (deref_run _ _ _ Hk), Hr. by destruct s. }
  set (job1 := set_ret_ r job).
  set (s1 := mkJState (<[k := job1]> (jobs s)) (job_list s) (txns s) (EvCall "prepare" k :: jlog s)).
  destruct (update_rc_run k job1 s1) as (e & D & E); [apply lookup_insert_eq | exact Hs | exact Hc |].
  assert (E2 : (emit_job (EvCall "prepare" k) ;; on_job k (set_ret_ r) ;; job_update_rc_locked k)%cmd s =
               job_update_rc_locked k s1) by (by job_run).
  exists (e ++ [EvCall "prepare" k]). split; [by rewrite decisions_app, D|].
  unfold bind at 1. rewrite E2, E. unfold bind, ret. rewrite (deref_run k (settled job1)) by apply lookup_insert_eq.
  cbn. rewrite insert_insert_eq, <- app_assoc. unfold settled, will_abort. cbn. rewrite Hf, orb_false_r.
  destruct (truthy r) eqn:Er; cbn; [done|]. unfold logged. rewrite <- app_assoc. cbn. do 2 f_equal.
  apply truthy_false in Er as ->. subst job1. rewrite <- Hr, set_ret_same. by apply insert_id.
Qed.

Lemma alter_lookup (f : Job -> Job) (k : Z) (job : Job) (m : gmap Z Job) :
  m !! k = Some job -> alter f k m = <[k := f job]> m.
Proof.
  intros Hk. apply map_eq. intros i. rewrite lookup_insert. destruct (decide (k = i)) as [<-|Hne].
  - by rewrite lookup_alter_eq, Hk.
  - by rewrite lookup_alter_ne.
Qed.

Lemma prepare_members (t : Z) (l : list Z) : forall (s : jstate),
  (forall k, k ∈ l -> exists job, jobs s !! k = Some job /\ pending_member t job) ->
  exists rc evs J, decisions evs = [] /\
    apply_list l job_prepare_locked s = Done rc (mkJState J (job_list s) (txns s) (evs ++ jlog s)) /\
    truthy rc = is_some (List.find (fails s) l) /\
    J = match List.find (fails s) l with Some f => alter failed f (jobs s) | None => jobs s end.
Proof.
  induction l as [|k l IH]; intros s Hm.
  - exists 0, [], (jobs s). by destruct s.
  - destruct (Hm k) as (job & Hk & Hp); [set_solver|].
    destruct (prepare_run k t job s Hk Hp) as (e1 & D1 & E1).
    cbn [apply_list List.find]. rewrite (job_bind_done _ _ _ _ _ E1). unfold fails at 1 3. rewrite Hk.
    destruct (truthy (prepare_ret job)) eqn:Er.
    + exists (prepare_ret job), e1, (<[k := failed job]> (jobs s)). split_and!; [done | done | exact Er |].
      symmetry. by apply alter_lookup.
    + destruct (IH (logged e1 s)) as (rc & e2 & J & D2 & E2 & R2 & EJ); [intros x Hx; apply Hm; set_solver|].
      exists rc, (e2 ++ e1), J. rewrite decisions_app, D1, D2, E2. unfold logged. cbn. by rewrite app_assoc.
Qed.

Definition force_cancelled (job : Job) : Job :=
  set_force_cancel true (set_cancelled true
    (if j_user_paused job then set_pause_count (j_pause_count job - 1) (set_user_paused false job) else job)).

Lemma cancel_async_run (k : Z) (job : Job) (s : jstate) :
  jobs s !! k = Some job -> (j_user_paused job = true -> 0 < j_pause_count job) ->
  (forall f, drv_cancel (j_driver job) = Some f -> f true = true) ->
  exists evs, decisions evs = [] /\
  job_cancel_async_locked k true s =
  Done tt (mkJState (<[k := force_cancelled job]> (jobs s)) (job_list s) (txns s) (evs ++ jlog s)).
Proof.
  intros Hk Hp Hc. destruct s as [J L T G]; cbn in Hk.
  set (e1 := if is_some (drv_cancel (j_driver job)) then [EvCall "cancel" k] else []).
  set (e2 := if j_user_paused job && drv_user_resume (j_driver job) then [EvCall "user_resume" k] else []).
  exists (e2 ++ e1). split.
  { subst e1 e2. by destruct (is_some _), (_ && _). }
  unfold job_cancel_async_locked. rewrite (job_bind_done _ _ _ _ _ (deref_run k job (mkJState J L T G) Hk)).
  assert (F : match drv_cancel (j_driver job) with Some f => f true | None => true end = true).
  { destruct (drv_cancel (j_driver job)); auto. }
  rewrite F. unfold force_cancelled. subst e1 e2.
  destruct (is_some (drv_cancel (j_driver job))), (j_user_paused job) eqn:Eu, (drv_user_resume (j_driver job));
    job_run; cbn [andb app orb]; try (rewrite (proj2 (Z.ltb_lt _ _) (Hp eq_refl))); job_run; cbn [andb app orb];
    job_run; rewrite ?orb_true_r; reflexivity.
Qed.

Lemma force_cancelled_finalizable (t : Z) (job : Job) : finalizable t job -> finalizable t (force_cancelled job).
Proof. intros []. unfold force_cancelled. destruct (j_user_paused job); constructor; cbn; auto. Qed.

Lemma cancel_others_run (j : Z) (l : list Z) : forall (s : jstate),
  NoDup l ->
  (forall k, k ∈ l -> k <> j -> exists job, jobs s !! k = Some job /\
     (j_user_paused job = true -> 0 < j_pause_count job) /\
     (forall f, drv_cancel (j_driver job) = Some f -> f true = true)) ->
  exists s', cancel_others j l s = Done tt s' /\ txns s' = txns s /\
    (exists evs, jlog s' = evs ++ jlog s /\ decisions evs = []) /\
    (forall k, k ∈ l -> k <> j -> jobs s' !! k = force_cancelled <$> jobs s !! k) /\
    (forall k, k ∉ l \/ k = j -> jobs s' !! k = jobs s !! k).
Proof.
  induction l as [|k l IH]; intros s Hn Hm.
  { exists s. split_and!; [done | done | by exists [] | set_solver | done]. }
  apply NoDup_cons in Hn as [Hkl Hn]. cbn [cancel_others foldr]. fold (cancel_others j l).
  destruct (Z.eqb_spec k j) as [->|Hne]; cbn [negb when].
  - destruct (IH s Hn) as (s' & E & T & L & C & F); [intros; apply Hm; set_solver|].
    exists s'. rewrite (job_bind_done _ _ s s tt) by done. split_and!; [done | done | done | |].
    + intros x [-> | Hx]%elem_of_cons; [done | auto].
    + intros x Hx. apply F. set_solver.
  - destruct (Hm k) as (job & Hk & Hp & Hc); [set_solver | done|].
    destruct (cancel_async_run k job s Hk Hp Hc) as (e1 & D1 & E1). rewrite (job_bind_done _ _ _ _ _ E1).
    set (s1 := mkJState _ _ _ _).
    assert (F1 : forall x, x <> k -> jobs s1 !! x = jobs s !! x) by (intros; by apply lookup_insert_ne).
    destruct (IH s1 Hn) as (s' & E & T & (e2 & L2 & D2) & C & F).
    { intros x Hx Hj. rewrite F1 by (by intros ->). apply Hm; set_solver. }
    exists s'. split_and!; [done | done | | |].
    + exists (e2 ++ e1). rewrite L2, decisions_app, D1, D2. cbn. by rewrite app_assoc.
    + intros x [-> | Hx]%elem_of_cons Hj.
      * rewrite F, Hk by (by left). cbn. apply lookup_insert_eq.
      * rewrite C by done. by rewrite F1 by (by intros ->).
    + intros x Hx. rewrite F by set_solver. apply F1. set_solver.
Qed.

(** A reference that was taken is given back. *)
Lemma unref_retired (j : Z) (job : Job) (s : jstate) :
  retired (bump job) (jobs s !! j) -> 1 <= j_refcnt job ->
  exists s', job_unref_locked j s = Done tt s' /\ touches j [] s s' /\ txns s' = txns s /\
    retired job (jobs s' !! j).
Proof.
  intros Hr H1. destruct (jobs s !! j) as [job'|] eqn:Ej; [|cbn in Hr; lia].
  destruct Hr as (Ht & Hp & Hs & Hc & Hl). change (dismissed (bump job)) with (dismissed job) in *. cbn in Hc.
  destruct (unref_run j job' s Ej Hl) as (e & L & D & ->).
  { intros E. rewrite Hs, Hp, Ht. destruct (dismissed job); cbn in *; [done | lia]. }
  eexists. split; [reflexivity|]. split; [split|].
  - intros k Hk. cbn. by destruct (_ =? _); rewrite ?lookup_delete_ne, ?lookup_insert_ne.
  - by exists e.
  - split; [done|]. cbn. unfold retired. destruct (Z.eqb_spec (j_refcnt job') 1).
    + rewrite lookup_delete_eq. destruct (dismissed job); cbn in *; lia || (split; [done|lia]).
    + rewrite lookup_insert_eq. cbn. split_and!; try done; destruct (dismissed job); cbn in *; lia.
Qed.

Definition find_failed (s : jstate) (l : list Z) : option Z := List.find (fails s) l.

Lemma find_existsb {A} (P : A -> bool) (l : list A) : is_some (List.find P l) = existsb P l.
Proof. induction l as [|x l IH]; [done|]. cbn. by destruct (P x). Qed.

Definition after_prepare (s : jstate) (l : list Z) : gmap Z Job :=
  match find_failed s l with Some f => alter failed f (jobs s) | None => jobs s end.

Lemma fails_bump (j : Z) (job : Job) (l : list Z) (s : jstate) :
  jobs s !! j = Some job -> List.find (fails (set_jobs (<[j := bump job]> (jobs s)) s)) l = find_failed s l.
Proof.
  intros Hj. unfold find_failed. induction l as [|k l IH]; [done|]. cbn. rewrite IH.
  assert (E : fails (set_jobs (<[j := bump job]> (jobs s)) s) k = fails s k).
  { unfold fails. cbn. destruct (decide (j = k)) as [<-|Hne]; [by rewrite lookup_insert_eq, Hj | by rewrite lookup_insert_ne]. }
  by rewrite E.
Qed.

Lemma failed_bump (job : Job) : failed (bump job) = bump (failed job).
Proof. unfold failed, settled, bump. cbn. change (will_abort _) with (will_abort (set_ret_ (prepare_ret job) job)) at 1.
  by destruct (will_abort _). Qed.
Lemma unbump (job : Job) : set_refcnt (j_refcnt (bump job) - 1) (bump job) = job.
Proof. destruct job. unfold bump, set_refcnt. cbn. by rewrite Z.add_simpl_r. Qed.
Lemma failed_refcnt (job : Job) : j_refcnt (failed job) = j_refcnt job.
Proof. unfold failed, settled. by destruct (will_abort _). Qed.

Lemma bump_pending_members (t j : Z) (job : Job) (l : list Z) (s : jstate) :
  jobs s !! j = Some job ->
  (forall k, k ∈ l -> exists job, jobs s !! k = Some job /\ pending_member t job) ->
  forall k, k ∈ l -> exists job', jobs (set_jobs (<[j := bump job]> (jobs s)) s) !! k = Some job' /\ pending_member t job'.
Proof.
  intros Hj Hm k Hk. destruct (Hm k Hk) as (jk & Ek & Pk). cbn. destruct (decide (j = k)) as [<-|Hne].
  - rewrite Hj in Ek. injection Ek as <-. exists (bump job). split; [apply lookup_insert_eq | by apply bump_pending].
  - exists jk. by rewrite lookup_insert_ne.
Qed.

Lemma prepare_phase (j t : Z) (txn : JobTxn) (s : jstate) :
  txns s !! t = Some txn -> j ∈ t_jobs txn ->
  (forall k, k ∈ t_jobs txn -> exists job, jobs s !! k = Some job /\ pending_member t job) ->
  exists rc s1, job_txn_apply_locked j job_prepare_locked s = Done rc s1 /\ txns s1 = txns s /\
    (exists evs, jlog s1 = evs ++ jlog s /\ decisions evs = []) /\
    truthy rc = is_some (find_failed s (t_jobs txn)) /\ jobs s1 = after_prepare s (t_jobs txn).
Proof.
  intros Ht Hj Hm. destruct (Hm j Hj) as (job & Ej & Pj).
  pose proof (fin_txn _ _ (pend_final _ _ Pj)) as Hjt. pose proof (fin_ref _ _ (pend_final _ _ Pj)) as Hjr.
  set (s0 := set_jobs (<[j := bump job]> (jobs s)) s).
  destruct (prepare_members t (t_jobs txn) s0) as (rc & e1 & J & D1 & E1 & R1 & EJ);
    [by apply bump_pending_members|].
  rewrite (fails_bump j job _ s Ej : List.find (fails s0) _ = _) in R1, EJ.
  assert (EJj : exists job', J !! j = Some (bump job') /\ 1 <= j_refcnt job' /\
                <[j := job']> J = after_prepare s (t_jobs txn)).
  { unfold after_prepare. rewrite EJ. destruct (find_failed s (t_jobs txn)) as [f|].
    - destruct (decide (f = j)) as [->|Hne].
      + exists (failed job). cbn. rewrite lookup_alter_eq, lookup_insert_eq, failed_refcnt. cbn. rewrite failed_bump.
        split_and!; [done | done |]. rewrite alter_insert_eq, insert_insert_eq. symmetry. by apply alter_lookup.
      + exists job. cbn. rewrite lookup_alter_ne, lookup_insert_eq by done. split_and!; [done | done |].
        rewrite alter_insert_ne, insert_insert_eq by done. apply insert_id. by rewrite lookup_alter_ne.
    - exists job. cbn. rewrite lookup_insert_eq, insert_insert_eq. split_and!; [done | done | by apply insert_id]. }
  destruct EJj as (job' & Hj' & Hr' & Eq).
  set (s1 := mkJState J (job_list s) (txns s) (e1 ++ jlog s)).
  destruct (unref_run j (bump job') s1) as (e2 & L2 & D2 & E2); [exact Hj' | cbn; lia | cbn; lia |].
  exists rc. eexists. split; [|split_and!].
  - unfold job_txn_apply_locked, txn_of, job_ref_locked. job_run. rewrite Hjt. job_run.
    change (mkJState (<[j := _]> _) _ _ _) with s0. rewrite E1. change (mkJState J _ _ _) with s1. rewrite E2. reflexivity.
  - done.
  - exists (e2 ++ e1). cbn. by rewrite app_assoc, decisions_app, D1, D2.
  - exact R1.
  - cbn. destruct (Z.eqb_spec (j_refcnt job' + 1) 1); [lia|]. rewrite <- Eq. cbn. f_equal. apply unbump.
Qed.

(** The same job as far as its end is concerned. *)
Definition same_end (job job1 : Job) : Prop :=
  j_driver job1 = j_driver job /\ dismissed job1 = dismissed job /\ j_refcnt job1 = j_refcnt job.

Lemma retired_same (job job1 : Job) (o : option Job) : same_end job job1 -> retired job1 o -> retired job o.
Proof. intros (_ & Ed & Er). unfold retired. by rewrite Ed, Er. Qed.

Lemma failed_same (job : Job) : same_end job (failed job).
Proof. unfold failed, settled. by destruct (will_abort _). Qed.
Lemma force_cancelled_same (job : Job) : same_end job (force_cancelled job).
Proof. unfold force_cancelled. by destruct (j_user_paused job). Qed.
Lemma same_end_trans (a b c : Job) : same_end a b -> same_end b c -> same_end a c.
Proof. intros (? & ? & ?) (? & ? & ?). split_and!; congruence. Qed.

(** From [s2], where [j] holds one more reference than in [s], to the end of the loop. *)
Lemma ended_unref (j : Z) (l : list Z) (d : list jevent) (s s2 s3 : jstate) (pre : list jevent) :
  j ∈ l -> ended l d s2 s3 -> jlog s2 = pre ++ jlog s -> decisions pre = [] ->
  (forall k, k ∉ l -> jobs s2 !! k = jobs s !! k) ->
  (forall k, k ∈ l -> exists job job2, jobs s !! k = Some job /\ 1 <= j_refcnt job /\ same_end job job2 /\
     jobs s2 !! k = Some (if k =? j then bump job2 else job2)) ->
  exists s4, job_unref_locked j s3 = Done tt s4 /\ txns s4 = txns s3 /\ ended l d s s4.
Proof.
  intros Hj (F & R & e & Le & De) Lp Dp Ho Hm.
  destruct (Hm j Hj) as (job & job2 & Ej & Hr & (Sd & Sx & Sr) & Ej2). rewrite Z.eqb_refl in Ej2.
  destruct (unref_retired j job2 s3) as (s4 & E4 & [F4 (e4 & L4 & D4)] & T4 & R4); [by apply R | lia |].
  exists s4. split_and!; [done | done |]. split_and!.
  - intros k Hk. rewrite F4, F, Ho by (done || by intros ->). done.
  - intros k jk Hk Ek. destruct (decide (k = j)) as [->|Hne].
    + rewrite Ej in Ek. injection Ek as <-. by apply (retired_same job job2).
    + destruct (Hm k Hk) as (jk1 & jk2 & E1 & _ & Sk & E2). rewrite Ek in E1. injection E1 as <-.
      rewrite (proj2 (Z.eqb_neq k j) Hne) in E2.
      rewrite F4 by done. apply (retired_same jk jk2); [done | by apply R].
  - exists (e4 ++ e ++ pre). rewrite L4, Le, Lp, <- !app_assoc, !decisions_app, Dp, De, D4. by rewrite app_nil_r.
Qed.

(** What each member decides when [j] finalizes the transaction of [l]. *)
Definition decided (s : jstate) (j : Z) (l : list Z) (k : Z) : list jevent :=
  match jobs s !! k with
  | Some job => settle (match find_failed s l with Some f => negb (k =? j) || (f =? j) | None => false end) k job
  | None => []
  end.

Lemma verdict_decided (s s2 : jstate) (j : Z) (l : list Z) :
  (forall k, k ∈ l -> exists job job2, jobs s !! k = Some job /\ jobs s2 !! k = Some job2 /\
     j_driver job2 = j_driver job /\
     will_abort job2 = match find_failed s l with Some f => negb (k =? j) || (f =? j) | None => false end) ->
  concat (map (verdict s2) l) = concat (map (decided s j l) l).
Proof.
  intros H. f_equal. apply map_ext_in. intros k Hk%list_elem_of_In.
  destruct (H k Hk) as (job & job2 & E & E2 & Ed & Ew). unfold verdict, decided, settle. by rewrite E, E2, Ed, Ew.
Qed.

Lemma commit_phase (j t : Z) (l : list Z) (n : Z) (s s1 : jstate) (pre : list jevent) :
  j ∈ l -> NoDup l -> 0 <= n -> txns s1 !! t = Some (mkTxn false l (Z.of_nat (length l) + n)) ->
  jobs s1 = jobs s -> jlog s1 = pre ++ jlog s -> decisions pre = [] -> find_failed s l = None ->
  (forall k, k ∈ l -> exists job, jobs s !! k = Some job /\ pending_member t job) ->
  exists s', job_txn_apply_locked j job_finalize_single_locked s1 = Done 0 s' /\
    ended l (concat (map (decided s j l) l)) s s' /\ txns s' !! t = left_txn false n /\ others_kept t s1 s'.
Proof.
  intros Hj Hn Hp Ht EJ EL DL Hf Hm. destruct (Hm j Hj) as (job & Ej & Pj).
  pose proof (fin_txn _ _ (pend_final _ _ Pj)) as Hjt. pose proof (fin_ref _ _ (pend_final _ _ Pj)) as Hjr.
  set (s2 := set_jobs (<[j := bump job]> (jobs s1)) s1).
  assert (M2 : forall k, k ∈ l -> exists job, jobs s !! k = Some job /\ pending_member t job /\
               jobs s2 !! k = Some (if k =? j then bump job else job)).
  { intros k Hk. destruct (Hm k Hk) as (jk & Ek & Pk). exists jk. split_and!; [done | done|]. cbn. rewrite EJ.
    destruct (Z.eqb_spec k j) as [->|Hne]; [|by rewrite lookup_insert_ne].
    rewrite Ej in Ek. injection Ek as <-. apply lookup_insert_eq. }
  destruct (finalize_members t false l n s2) as (s3 & E3 & N3 & T3 & X3); [by intros ->; set_solver | |].
  { constructor; [done | done | done |]. intros k Hk. destruct (M2 k Hk) as (jk & _ & Pk & E2). eexists. split; [exact E2|].
    destruct (k =? j); [by apply (pend_final _ _ (bump_pending _ _ Pk)) | by apply pend_final]. }
  rewrite (verdict_decided s s2 j l) in N3.
  2:{ intros k Hk. destruct (M2 k Hk) as (jk & E1 & Pk & E2). exists jk. eexists. split_and!; [done | done | by destruct (k =? j) |].
      rewrite Hf. unfold will_abort. destruct Pk as [_ _ Pr Pf _ _]. destruct (k =? j); cbn; by rewrite Pr, Pf. }
  destruct (ended_unref j l _ s s2 s3 pre Hj N3 EL DL) as (s4 & E4 & T4 & N4).
  { intros k Hk. cbn. rewrite EJ. apply lookup_insert_ne. by intros ->. }
  { intros k Hk. destruct (M2 k Hk) as (jk & E1 & Pk & E2). exists jk, jk.
    split_and!; [done | by apply (pend_final _ _ Pk) | done | exact E2]. }
  exists s4. split_and!; [|done | by rewrite T4 | intros t' Ht'; rewrite T4; by apply X3].
  unfold job_txn_apply_locked, txn_of, job_ref_locked. rewrite <- EJ in Ej. job_run. rewrite Hjt. job_run.
  change (mkJState (<[j := _]> _) _ _ _) with s2. cbn [t_jobs]. by rewrite E3, E4.
Qed.

Lemma failed_finalizable (t : Z) (job : Job) : finalizable t job -> finalizable t (failed job).
Proof. intros []. apply settled_finalizable. by constructor. Qed.

(** A member after the callbacks, and when the loop over the aborted transaction starts. *)
Definition member_after (f k : Z) (job : Job) : Job := if f =? k then failed job else job.
Definition aborted_member (j f k : Z) (job : Job) : Job :=
  if k =? j then bump (member_after f k job) else force_cancelled (member_after f k job).

Lemma aborted_member_finalizable (t j f k : Z) (job : Job) :
  finalizable t job -> finalizable t (aborted_member j f k job).
Proof.
  intros H. unfold aborted_member. assert (H1 : finalizable t (member_after f k job)).
  { unfold member_after. destruct (f =? k); [by apply failed_finalizable | done]. }
  destruct (k =? j); [|by apply force_cancelled_finalizable].
  destruct H1. constructor; cbn; auto; lia.
Qed.

Lemma aborted_member_will_abort (t j f k : Z) (job : Job) :
  pending_member t job -> (f = k -> truthy (prepare_ret job) = true) ->
  will_abort (aborted_member j f k job) = negb (k =? j) || (f =? j).
Proof.
  intros [_ _ Hr Hf _ _] Hp. unfold aborted_member, member_after. destruct (Z.eqb_spec k j) as [->|Hne]; cbn [negb orb].
  - destruct (Z.eqb_spec f j) as [->|Hne2].
    + change (will_abort (bump (failed job))) with (will_abort (failed job)). specialize (Hp eq_refl).
      unfold failed, settled, will_abort. cbn. rewrite Hp. cbn. by rewrite Hp.
    + unfold will_abort. cbn. by rewrite Hr, Hf.
  - unfold will_abort, force_cancelled. cbn. by rewrite orb_true_r.
Qed.

Lemma find_failed_fails (s : jstate) (l : list Z) (f : Z) :
  find_failed s l = Some f -> f ∈ l /\ forall job, jobs s !! f = Some job -> truthy (prepare_ret job) = true.
Proof.
  intros [Hin Hf]%List.find_some. split; [by apply list_elem_of_In|]. intros job Hj. unfold fails in Hf.
  by rewrite Hj in Hf.
Qed.

Lemma after_prepare_lookup (s : jstate) (l : list Z) (f k : Z) (job : Job) :
  find_failed s l = Some f -> jobs s !! k = Some job -> after_prepare s l !! k = Some (member_after f k job).
Proof.
  intros Hf Hk. unfold after_prepare, member_after. rewrite Hf. destruct (Z.eqb_spec f k) as [->|Hne].
  - by rewrite lookup_alter_eq, Hk.
  - by rewrite lookup_alter_ne.
Qed.

Lemma member_after_fields (f k : Z) (job : Job) :
  let job1 := member_after f k job in
  same_end job job1 /\ j_user_paused job1 = j_user_paused job /\ j_pause_count job1 = j_pause_count job /\
  j_txn job1 = j_txn job.
Proof.
  unfold member_after. destruct (f =? k); [|done]. split; [apply failed_same|].
  unfold failed, settled. by destruct (will_abort _).
Qed.

(** The others are cancelled, with [j] referenced. *)
Lemma cancel_phase (j t f : Z) (l : list Z) (s s2 : jstate) :
  j ∈ l -> NoDup l -> find_failed s l = Some f ->
  (forall k, k ∈ l -> exists job, jobs s !! k = Some job /\ pending_member t job) ->
  (forall k job, jobs s !! k = Some job ->
     jobs s2 !! k = Some (if k =? j then bump (member_after f k job) else member_after f k job)) ->
  (forall k, k ∉ l -> jobs s2 !! k = jobs s !! k) ->
  exists s', cancel_others j l s2 = Done tt s' /\ txns s' = txns s2 /\
    (exists evs, jlog s' = evs ++ jlog s2 /\ decisions evs = []) /\
    (forall k job, k ∈ l -> jobs s !! k = Some job -> jobs s' !! k = Some (aborted_member j f k job)) /\
    (forall k, k ∉ l -> jobs s' !! k = jobs s !! k).
Proof.
  intros Hj Hn Hf Hm H2 Ho.
  destruct (cancel_others_run j l s2 Hn) as (s' & E & T & L & C & F).
  { intros k Hk Hne. destruct (Hm k Hk) as (job & Ek & [_ _ _ _ Pp Pc]).
    exists (member_after f k job). rewrite (H2 k job Ek), (proj2 (Z.eqb_neq k j) Hne). split; [done|].
    destruct (member_after_fields f k job) as ((-> & _) & -> & -> & _). done. }
  exists s'. split_and!; [done | done | done | |].
  - intros k job Hk Ek. unfold aborted_member. destruct (Z.eqb_spec k j) as [->|Hne].
    + rewrite F by (by right). rewrite (H2 j job Ek), Z.eqb_refl. done.
    + rewrite C by done. rewrite (H2 k job Ek), (proj2 (Z.eqb_neq k j) Hne). done.
  - intros k Hk. rewrite F by (by left). by apply Ho.
Qed.

Lemma txn_unref_run (t : Z) (a : bool) (n : Z) (s : jstate) :
  0 <= n -> txns s !! t = left_txn a (n + 1) ->
  exists s', job_txn_unref_locked t s = Done tt s' /\ jobs s' = jobs s /\ jlog s' = jlog s /\
    txns s' !! t = left_txn a n /\ others_kept t s s'.
Proof.
  unfold left_txn. intros Hn Ht. destruct (Z.eqb_spec (n + 1) 0); [lia|]. destruct s as [J L T G]; cbn in Ht.
  unfold job_txn_unref_locked. job_run. cbn [t_aborting t_jobs t_refcnt]. rewrite Z.add_simpl_r.
  destruct (n =? 0); job_run; eexists; split_and!; try done; unfold others_kept; cbn.
  - apply lookup_delete_eq.
  - intros. by rewrite lookup_delete_ne.
  - apply lookup_insert_eq.
  - intros. by rewrite lookup_insert_ne.
Qed.

Lemma abort_phase (aio_wait : Z -> jobM unit) (j t f : Z) (l : list Z) (n : Z) (s s1 : jstate) (pre : list jevent) :
  j ∈ l -> NoDup l -> 0 <= n -> txns s1 !! t = Some (mkTxn false l (Z.of_nat (length l) + n)) ->
  find_failed s l = Some f -> jobs s1 = after_prepare s l -> jlog s1 = pre ++ jlog s -> decisions pre = [] ->
  (forall k, k ∈ l -> exists job, jobs s !! k = Some job /\ pending_member t job) ->
  exists s', job_completed_txn_abort_locked aio_wait j s1 = Done tt s' /\
    ended l (concat (map (decided s j l) l)) s s' /\ txns s' !! t = left_txn true n /\ others_kept t s1 s'.
Proof.
  intros Hj Hn Hp Ht Hf EJ EL DL Hm. destruct (Hm j Hj) as (job & Ej & Pj).
  pose proof (after_prepare_lookup s l f j job Hf Ej) as Ej1. rewrite <- EJ in Ej1.
  assert (Hjt : j_txn (member_after f j job) = Some t).
  { destruct (member_after_fields f j job) as (_ & _ & _ & ->). apply (pend_final _ _ Pj). }
  set (s2 := mkJState (<[j := bump (member_after f j job)]> (jobs s1)) (job_list s1)
               (<[t := mkTxn true l (Z.of_nat (length l) + n + 1)]> (txns s1)) (jlog s1)).
  destruct (cancel_phase j t f l s s2 Hj Hn Hf Hm) as (s3 & E3 & T3 & (e3 & L3 & D3) & M3 & F3).
  { intros k jk Ek. cbn. destruct (Z.eqb_spec k j) as [->|Hne].
    - rewrite Ej in Ek. injection Ek as <-. apply lookup_insert_eq.
    - rewrite lookup_insert_ne, EJ by done. by apply (after_prepare_lookup s l). }
  { intros k Hk. cbn. rewrite lookup_insert_ne, EJ by (by intros ->). unfold after_prepare. rewrite Hf.
    apply lookup_alter_ne. intros ->. by destruct (find_failed_fails s l k Hf). }
  destruct (abort_members aio_wait t true l (n + 1) s3) as (s4 & E4 & N4 & T4 & X4); [lia| |].
  { constructor; [rewrite T3; cbn; rewrite lookup_insert_eq; by rewrite Z.add_assoc | done | lia |].
    intros k Hk. destruct (Hm k Hk) as (jk & Ek & Pk). eexists. split; [by apply M3|].
    apply aborted_member_finalizable, Pk. }
  rewrite (verdict_decided s s3 j l) in N4.
  2:{ intros k Hk. destruct (Hm k Hk) as (jk & Ek & Pk). exists jk, (aborted_member j f k jk).
      split_and!; [done | by apply M3 | |].
      - unfold aborted_member. destruct (member_after_fields f k jk) as ((Ed & _) & _). destruct (k =? j); [done|].
        by destruct (force_cancelled_same (member_after f k jk)) as (-> & _).
      - rewrite Hf. eapply aborted_member_will_abort; [exact Pk|]. intros <-.
        by apply (find_failed_fails s l f Hf). }
  destruct (ended_unref j l _ s s3 s4 (e3 ++ pre) Hj N4) as (s5 & E5 & T5 & N5).
  { rewrite L3. cbn. by rewrite EL, app_assoc. }
  { by rewrite decisions_app, D3, DL. }
  { exact F3. }
  { intros k Hk. destruct (Hm k Hk) as (jk & Ek & Pk). exists jk.
    exists (if k =? j then member_after f k jk else force_cancelled (member_after f k jk)).
    destruct (member_after_fields f k jk) as (Sm & _). rewrite (M3 k jk Hk Ek). unfold aborted_member.
    split_and!; [done | apply (pend_final _ _ Pk) | | by destruct (k =? j)].
    destruct (k =? j); [done|]. by eapply same_end_trans, force_cancelled_same. }
  destruct (txn_unref_run t true n s5) as (s6 & E6 & J6 & L6 & T6 & X6); [done | by rewrite T5 |].
  exists s6. split_and!; [| | done |].
  - unfold job_completed_txn_abort_locked, txn_of, job_txn_ref_locked, job_ref_locked. job_run. rewrite Hjt. job_run.
    cbn [t_aborting t_jobs t_refcnt]. job_run. cbn [t_aborting t_jobs t_refcnt].
    change (mkJState (<[j := _]> _) _ _ _) with s2. by rewrite E3, E4, E5, E6.
  - destruct N5 as (F5 & R5 & e5 & L5 & D5). split_and!; [intros; rewrite J6; auto | intros; rewrite J6; auto |].
    exists e5. by rewrite L6.
  - intros t' Ht'. rewrite X6, T5, X4, T3 by done. cbn. by rewrite lookup_insert_ne.
Qed.

(** Finalizing a transaction: with [j] of its members pending and [n] further
    references, every member ends.  If no [prepare] fails, each commits.  If one fails,
    each aborts except the finalizing job, which aborts only when its own [prepare] is
    the one that failed.  The members leave the transaction, which is freed with its
    last reference; jobs and transactions outside of it do not change. *)
Lemma finalize_decides (aio_wait : Z -> jobM unit) (j t : Z) (l : list Z) (n : Z) (s : jstate) :
  j ∈ l -> NoDup l -> 0 <= n -> txns s !! t = Some (mkTxn false l (Z.of_nat (length l) + n)) ->
  (forall k, k ∈ l -> exists job, jobs s !! k = Some job /\ pending_member t job) ->
  exists s', job_do_finalize_locked aio_wait j s = Done tt s' /\
    ended l (concat (map (decided s j l) l)) s s' /\
    txns s' !! t = left_txn (is_some (find_failed s l)) n /\ others_kept t s s'.
Proof.
  intros Hj Hn Hp Ht Hm. destruct (Hm j Hj) as (job & Ej & Pj).
  destruct (prepare_phase j t _ s Ht Hj Hm) as (rc & s1 & E1 & T1 & (pre & L1 & D1) & R1 & J1).
  unfold job_do_finalize_locked. rewrite (job_bind_done _ _ s s t).
  2:{ unfold txn_of. job_run. by rewrite (fin_txn _ _ (pend_final _ _ Pj)). }
  rewrite (job_bind_done _ _ _ _ _ E1), R1. rewrite <- T1 in Ht. unfold others_kept. rewrite <- T1.
  cbn [t_jobs] in *. destruct (find_failed s l) as [f|] eqn:Hf; cbn [is_some].
  - by apply (abort_phase aio_wait j t f l n s s1 pre).
  - unfold after_prepare in J1. rewrite Hf in J1.
    destruct (commit_phase j t l n s s1 pre) as (s' & E & ?); try done.
    exists s'. by rewrite (job_bind_done _ _ _ _ _ E).
Qed.

(** Every member of [l] ends the same way. *)
Definition all_end (abort : bool) (s : jstate) (l : list Z) : list jevent :=
  concat (map (fun k => match jobs s !! k with Some job => settle abort k job | None => [] end) l).

(** No [prepare] of [l] fails, or the first that fails is that of [j]. *)
Definition failure_is_own (s : jstate) (j : Z) (l : list Z) : bool :=
  match find_failed s l with Some f => f =? j | None => true end.

(** C40: The members of a transaction end as a group. Job [j] finalizes the transaction
    [t] of the jobs [l], all pending (with result 0, not cancelled by force, paused by
    the user only with a pause counted, and with a driver that accepts a forced
    cancellation, as [job.h] requires), to which [n] references of others remain, and either no
    [prepare] callback fails or the first that fails is that of [j] itself. Then
    every member ends and all end alike: with no failure every member
    commits, with a failure every member aborts (each through the callback of its
    driver, if it has one, in the order of the transaction). The members leave the
    transaction, which is marked as aborting exactly on a failure and freed with
    its last reference; jobs and transactions outside of it do not change. *)
Theorem transaction_atomic (aio_wait : Z -> jobM unit) (j t : Z) (l : list Z) (n : Z) (s : jstate) :
  j ∈ l -> NoDup l -> 0 <= n -> txns s !! t = Some (mkTxn false l (Z.of_nat (length l) + n)) ->
  (forall k, k ∈ l -> exists job, jobs s !! k = Some job /\ pending_member t job) ->
  failure_is_own s j l = true ->
  let abort := existsb (fails s) l in
  exists s', job_do_finalize_locked aio_wait j s = Done tt s' /\
    ended l (all_end abort s l) s s' /\ txns s' !! t = left_txn abort n /\ others_kept t s s'.
Proof.
  intros Hj Hn Hp Ht Hm Ho abort.
  destruct (finalize_decides aio_wait j t l n s Hj Hn Hp Ht Hm) as (s' & E & N & T & X).
  assert (Ha : is_some (find_failed s l) = abort) by apply find_existsb.
  exists s'. rewrite <- Ha. split_and!; try done. replace (all_end _ s l) with (concat (map (decided s j l) l)); [done|].
  unfold all_end, decided, failure_is_own in *. f_equal. apply map_ext. intros k.
  destruct (find_failed s l) as [f|]; [|done]. by rewrite Ho, orb_true_r.
Qed.

(** Two jobs that run, [b] with a [prepare] that returns [r]. *)
Definition example_driver (r : option Z) : JobDriver := mkDriver r None true true true true false false false None.
Definition example_job (id : string) (r : option Z) : Job :=
  mkJob (Some id) (example_driver r) 1 JOB_STATUS_PENDING 0 false true false false 0 false false false true true true false
    false (Some 10).
Definition example_pair (r : option Z) : jstate :=
  mkJState {[1 := example_job "a" None; 2 := example_job "b" r]} [2; 1] {[10 := mkTxn false [2; 1] 2]} [].

Lemma transaction_atomic_witness :
  let s := example_pair (Some (-5)) in
  all_end true s [2; 1] = [EvAbort 2; EvAbort 1] /\
  exists s', job_do_finalize_locked (fun _ => ret tt) 2 s = Done tt s' /\
    ended [2; 1] (all_end true s [2; 1]) s s' /\ txns s' !! 10 = left_txn true 0 /\ others_kept 10 s s'.
Proof.
  intros s. split; [by vm_compute|].
  apply (transaction_atomic (fun _ => ret tt) 2 10 [2; 1] 0 s).
  - by left.
  - repeat (apply NoDup_cons; split; [set_solver|]). apply NoDup_nil_2.
  - lia.
  - reflexivity.
  - intros k [-> | [-> | []%not_elem_of_nil]%elem_of_cons]%elem_of_cons; eexists; (split; [vm_compute; reflexivity|]);
      repeat constructor; done.
  - by vm_compute.
Defined.

(** The life of a transaction of two jobs in which the second to be created fails to prepare, and the
    first is the last to end: it commits although the transaction failed. *)
Definition example_run : jobM unit :=
  job_txn_new 10 ;;
  job_create (fun _ => true) (Some "a"%string) (example_driver None) (Some 10) 0 false 1 0 ;;
  job_create (fun _ => true) (Some "b"%string) (example_driver (Some (-5))) (Some 10) 0 false 2 0 ;;
  job_txn_unref_locked 10 ;;
  job_start 1 ;; job_start 2 ;;
  job_co_return 2 0 ;; job_exit (fun _ => ret tt) 2 ;;
  job_co_return 1 0 ;; job_exit (fun _ => ret tt) 1.

Theorem finalizing_job_commits_alone :
  match example_run (mkJState ∅ [] ∅ []) with
  | Done _ s => decisions (jlog s) = [EvAbort 2; EvCommit 1] /\ jobs s = ∅ /\ txns s = ∅ /\ job_list s = []
  | _ => False
  end.
Proof. vm_compute. done. Qed.

(** ** Status *)

Definition all_statuses : list JobStatus :=
  [JOB_STATUS_UNDEFINED; JOB_STATUS_CREATED; JOB_STATUS_RUNNING; JOB_STATUS_PAUSED; JOB_STATUS_READY;
   JOB_STATUS_STANDBY; JOB_STATUS_WAITING; JOB_STATUS_PENDING; JOB_STATUS_ABORTING; JOB_STATUS_CONCLUDED;
   JOB_STATUS_NULL].

(** Distance to the end of life: a change of status other than a pause, a resume, or
    a repeated abort brings a job nearer to it. *)
Definition stage (s : JobStatus) : nat :=
  match s with
  | JOB_STATUS_UNDEFINED => 8 | JOB_STATUS_CREATED => 7 | JOB_STATUS_RUNNING | JOB_STATUS_PAUSED => 6
  | JOB_STATUS_READY | JOB_STATUS_STANDBY => 5 | JOB_STATUS_WAITING => 4 | JOB_STATUS_PENDING => 3
  | JOB_STATUS_ABORTING => 2 | JOB_STATUS_CONCLUDED => 1 | JOB_STATUS_NULL => 0
  end.

Lemma status_progress (s0 s1 : JobStatus) :
  JobSTT s0 s1 = true ->
  (stage s1 < stage s0)%nat \/ (s0 = s1 /\ s0 = JOB_STATUS_ABORTING) \/
  (stage s1 = stage s0 /\ status_completed s0 = false).
Proof. destruct s0, s1; cbn; first [discriminate | intros _; first [left; lia | auto]]. Qed.

(** A job that has completed never takes a status of a running job again. *)
Lemma completed_stable (k : Z) (s1 : JobStatus) (job : Job) (s s' : jstate) :
  jobs s !! k = Some job -> status_completed (j_status job) = true ->
  job_state_transition_locked k s1 s = Done tt s' -> status_completed s1 = true.
Proof.
  intros Hk Hc. unfold job_state_transition_locked. job_run. destruct (JobSTT (j_status job) s1) eqn:E; [|done].
  intros _. revert Hc E. by destruct (j_status job), s1.
Qed.

(** Entering the coroutine changes nothing of what decides the pauses. *)
Definition same_pause (job job' : Job) : Prop :=
  j_user_paused job' = j_user_paused job /\ j_pause_count job' = j_pause_count job /\
  j_status job' = j_status job /\ j_driver job' = j_driver job.

Lemma enter_cond_run (k : Z) (fn : option (Job -> bool)) (job : Job) (s : jstate) :
  jobs s !! k = Some job ->
  exists job' s', job_enter_cond_locked k fn s = Done tt s' /\ jobs s' !! k = Some job' /\ same_pause job job'.
Proof.
  intros Hk. unfold job_enter_cond_locked. job_run. destruct (_ && _); job_run.
  - eexists _, _. split; [done|]. cbn. rewrite lookup_insert_eq. done.
  - by exists job, s.
Qed.

Lemma pause_run (k : Z) (job : Job) (s : jstate) :
  jobs s !! k = Some job ->
  exists job' s', job_pause_locked k s = Done tt s' /\ jobs s' !! k = Some job' /\
    same_pause (set_pause_count (j_pause_count job + 1) job) job'.
Proof.
  intros Hk. unfold job_pause_locked. job_run. destruct (negb _).
  - apply enter_cond_run. cbn. by rewrite lookup_insert_eq.
  - job_run. eexists _, _. split; [done|]. cbn. by rewrite lookup_insert_eq.
Qed.

Lemma resume_run (k : Z) (job : Job) (s : jstate) :
  jobs s !! k = Some job -> 0 < j_pause_count job ->
  exists job' s', job_resume_locked k s = Done tt s' /\ jobs s' !! k = Some job' /\
    same_pause (set_pause_count (j_pause_count job - 1) job) job'.
Proof.
  intros Hk Hp. unfold job_resume_locked. job_run. rewrite (proj2 (Z.ltb_lt _ _) Hp). job_run. destruct (_ =? 0).
  - apply enter_cond_run. cbn. by rewrite lookup_insert_eq.
  - job_run. eexists _, _. split; [done|]. cbn. by rewrite lookup_insert_eq.
Qed.

(** A pause the user asked for holds the job, and the resume undoes it. *)
Theorem user_pause_resume (k : Z) (job : Job) (s s1 : jstate) :
  jobs s !! k = Some job -> 0 <= j_pause_count job ->
  job_user_pause_locked k s = Done true s1 ->
  exists job1 s2 job2, jobs s1 !! k = Some job1 /\ j_user_paused job1 = true /\ job_should_pause_locked job1 = true /\
    job_user_resume_locked k s1 = Done true s2 /\ jobs s2 !! k = Some job2 /\
    j_user_paused job2 = false /\ j_pause_count job2 = j_pause_count job /\ j_status job2 = j_status job.
Proof.
  intros Hk Hp. unfold job_user_pause_locked, job_apply_verb_locked. job_run.
  destruct (JobVerbTable JOB_VERB_PAUSE (j_status job)) eqn:Hv; [|done].
  change (truthy 0) with false. job_run. destruct (j_user_paused job); [done|]. job_run.
  destruct (pause_run k (set_user_paused true job) (set_jobs (<[k := set_user_paused true job]> (jobs s)) s))
    as (job1 & s1' & E & H1 & (Pu & Pc & Ps & Pd)); [by cbn; rewrite lookup_insert_eq|]. unfold set_jobs in E.
  rewrite E. intros [= <-]. cbn in Pu, Pc, Ps, Pd.
  assert (V : JobVerbTable JOB_VERB_RESUME (j_status job1) = true) by (rewrite Ps; exact Hv).
  set (s2 := mkJState (<[k := set_user_paused false job1]> (jobs s1')) (job_list s1') (txns s1')
    (if drv_user_resume (j_driver job1) then EvCall "user_resume" k :: jlog s1' else jlog s1')).
  destruct (resume_run k (set_user_paused false job1) s2) as (job2 & s3 & E2 & H2 & (Ru & Rc & Rs & _));
    [by cbn; rewrite lookup_insert_eq | cbn; lia|].
  exists job1, s3, job2. cbn in Ru, Rc, Rs. unfold job_should_pause_locked.
  split_and!; [done | done | apply Z.ltb_lt; lia | | done | done | lia | congruence].
  unfold job_user_resume_locked, job_apply_verb_locked. job_run. rewrite Pu, (proj2 (Z.leb_gt _ _)) by lia. job_run. cbn [negb orb]. job_run. rewrite V.
  cbn [negb orb]. change (truthy 0) with false. destruct (drv_user_resume (j_driver job1)) eqn:Er; job_run;
    subst s2; by rewrite E2.
Qed.
